(* ===== verification/_CoqProject ===== *)
-Q . S2P
Prelude.v
ArithUint256.v
Serialize.v
Script.v
Interpreter.v
SoftFork.v
EvalLimits.v
Spending.v
Transaction.v
Chain.v
Pow.v
VersionBits.v
Merkle.v
TxVerify.v
SigHash.v
Coins.v
Connect.v
Compressor.v
Anon.v
Reward.v
ConnectBlock.v
BlockUndo.v
BlockMoney.v
Text.v
Base58.v
Bech32.v
Stealth.v
ExtKey.v
Address.v
Money.v
CoinSelection.v
BestChain.v
Sha256.v
Hasher.v
Standard.v
Bloom.v
RollingBloom.v
Locale.v
Tinyformat.v
CatalogueDe.v
CatalogueEl.v
CatalogueEs.v
CatalogueFa.v
CatalogueFr.v
CatalogueHu.v
CatalogueIt.v
CatalogueJa.v
CatalogueKo.v
CatalogueNb.v
CatalogueNl.v
CataloguePl.v
CataloguePt.v
CatalogueRo.v
CatalogueRu.v
CatalogueVi.v
Regional.v
Catalogues.v
