(* ===== verification/Prelude.v ===== *)
(** * BitcoinC Core: a verification development

    BitcoinC Core ([src/]) is a full node and wallet written in C++, a fork of
    Bitcoin Core by way of Particl: transactions with confidential (RingCT)
    outputs, proof of stake with cold staking, and signatures on the outputs
    themselves.  Its graphical client is translated through Qt Linguist
    catalogues ([src/src/qt/locale/*.ts]).  This development translates the
    consensus core of the node, the encodings, digests and filters around it, the
    choice of coins in the wallet, and those catalogues into Gallina functions and
    proves what makes them correct.

    ** The parts and how they fit

    A message from a peer is read by the serialization layer into a transaction
    or a block header.  A header enters the block index, a tree whose entries
    carry the accumulated work in 256-bit arithmetic; the active chain is a path
    in it, and difficulty and proof-of-work or proof-of-stake rules decide whether
    a block may extend it.  A transaction is checked on its own, then against the
    unspent outputs it spends, and the scripts of those outputs are run by the
    interpreter with the program's soft-fork flags; anonymous inputs are checked
    against an index of all confidential outputs and of the key images spent.
    Connecting a block runs these checks for its transactions in turn, moves coins
    through a stack of write-back caches, which are flushed to a database in
    batches, extends the index, and holds the coinstake to its reward; a
    reorganisation disconnects the block again with its undo records.  Which chain
    is connected is decided over the block index and its candidates.  The wallet
    reads addresses into destinations, makes their scripts and selects coins for
    them; a peer may give the node a filter for what it wants to be told of.

    ** Files

    - [Prelude] (this file): machine-width integers, loops, the error monad, the
      bit and list lemmas, the automation shared by the others.
    - [ArithUint256]: [base_uint] and [arith_uint256] of
      [src/src/arith_uint256.h/.cpp], on arrays of 32-bit limbs of any width, and
      the compact encoding of targets.
    - [Serialize]: [src/src/serialize.h]; a [codec] is a writer, a reader and a
      domain, with laws proved once and combined.
    - [Script]: script encoding, numbers, pushes, output patterns and signature
      operation counts ([src/src/script/script.h/.cpp]).
    - [Interpreter]: [EvalScript] with every opcode, [VerifyScript] and witness
      programs ([src/src/script/interpreter.cpp]).  [SoftFork], [EvalLimits] and
      [Spending] hold its theorems: monotonicity in the flags, resource limits and
      termination, and symbolic runs of the standard outputs.
    - [Transaction]: inputs, the three output classes, both wire formats, ids and
      sums of amounts ([src/src/primitives/transaction.h/.cpp],
      [src/src/amount.h]).
    - [Chain]: the block index as a heap of linked entries, its skip list, the
      active chain, locators, work and median time ([src/src/chain.h/.cpp],
      [AddToBlockIndex] of [src/src/validation.cpp]).
    - [Pow]: retargeting, proof of work, stake kernels ([src/src/pow.cpp],
      [src/src/pos/kernel.cpp], [GetNextTargetRequired]).
    - [VersionBits]: the soft-fork deployments, their state machine and caches
      ([src/src/versionbits.h/.cpp], [ComputeBlockVersion]).
    - [Merkle]: merkle roots, partial trees and blocks
      ([src/src/consensus/merkle.cpp], [src/src/merkleblock.h/.cpp]).
    - [TxVerify]: every function of [src/src/consensus/tx_verify.cpp].
    - [SigHash]: both forms of [SignatureHash] and [TransactionSignatureChecker]
      ([src/src/script/interpreter.cpp]).
    - [Coins]: [CCoinsViewCache] and [CCoinsViewDB] ([src/src/coins.h/.cpp],
      [src/src/txdb.cpp]).  The class [CoinsView] is the virtual interface and
      [CoinsViewLaws] the contract; the database and the cache over any lawful view
      are its instances.
    - [Connect]: [AddCoins], [UpdateCoins], [ApplyTxInUndo] and the coins part of
      [DisconnectBlock], for one transaction.
    - [Compressor]: the records of coins and of undo data
      ([src/src/compressor.h/.cpp], [src/src/undo.h]).
    - [Anon]: [VerifyMLSAG], key images, and the index of anonymous outputs
      ([src/src/anon.cpp], [src/src/rctindex.h]).
    - [Reward]: the stake reward, the development fund and the rule for a coinstake
      ([src/src/chainparams.cpp] and the end of [ConnectBlock]).
    - [ConnectBlock]: [CheckInputs], [ConnectBlock], [DisconnectBlock] and
      [FlushView] of [src/src/validation.cpp].  [BlockUndo] and [BlockMoney] hold
      its theorems: the round trip of a block, and its money.
    - [BestChain]: [FindMostWorkChain] and [PruneBlockIndexCandidates] over the block
      index and the candidates ([src/src/validation.cpp]).
    - [Text], [Base58], [Bech32], [Money]: characters and strings as the source tests
      them, and the encodings of [src/src/base58.cpp], [src/src/bech32.cpp] and
      [src/src/utilmoneystr.cpp].
    - [Stealth], [ExtKey], [Address]: stealth addresses, extended keys and every kind
      of address ([src/src/key/stealth.h/.cpp], [src/src/key/extkey.h/.cpp],
      [src/src/key_io.cpp]).
    - [Standard]: [Solver], destinations of scripts and scripts of destinations
      ([src/src/script/standard.cpp]).
    - [CoinSelection]: branch and bound and the knapsack solver
      ([src/src/wallet/coinselection.h/.cpp]).
    - [Sha256], [Hasher]: the unrolled transformations of [src/src/crypto/sha256.cpp],
      and the streams, codes and batches over them ([src/src/hash.h],
      [src/src/crypto/hmac_sha256.cpp]).  The class [Transforms] states what is relied
      on of a transformation for a processor; the portable ones are instances.
    - [Bloom], [RollingBloom]: the filters of [src/src/bloom.h/.cpp] with
      [MurmurHash3], and the filter messages of a peer ([src/src/net_processing.cpp]).
    - [Locale], [CatalogueDe] .. [CatalogueVi], [Regional], [Catalogues]: the checks
      of [src/contrib/devtools/update-translations.py] and the 26 catalogues, message
      by message; the ten of [Regional] have the messages of another region.
    - [Tinyformat]: [strprintf] of [src/src/tinyformat.h], and [_] and [Translate], which
      get its formats from a catalogue ([src/src/util.h], [src/src/qt/bitcoin.cpp]).

    ** Conventions

    Integers are [Z] with the width written out ([u32], [i64], ...); bytes are
    lists of [Z].  A C++ exception, early return or rejection is an [Err] of
    [result]; in the files that walk pointers [None] is a failed assertion or a null
    dereference.  Loops that are not structural take fuel: in [EvalScript] the
    length of the script, in [GetAncestor] and the other walks the height of the
    entry, in signature checking the number of keys and signatures, in division the
    number of bits, in the period of the development fund the height of the parent,
    in the repair of the index the number of its outputs, in the search for
    coins the tries of the source, in the search for the best chain the number of
    candidates and the heights of their blocks, in the destination of a script its
    length.  [EvalScript_total], [GetAncestor_correct], [SetTip_correct],
    [fork_points], [GetLocator_correct], [base_uint_division], [stake_reward_exact],
    [RollBackRCTIndex_correct], [SelectCoinsBnB_exact], [FindMostWorkChain_best] and
    [destination_scripts] prove that this fuel is enough: they state results, never only
    what holds if there is one.  [double] arithmetic is the Standard Library's IEEE 754 specification.
    Code outside [src/] is an argument: the curve library is a field of records
    ([crypto], [env], [mlsag_lib]), as are the digests there, so that the theorems
    about collisions hold for any; the key-value store is a finite map with atomic
    batches, the iteration order of a hash map is any permutation.

    ** What the theorems show

    - Arithmetic: limb arithmetic is integer arithmetic modulo [2^(32*WIDTH)],
      division is exact, compact targets keep their leading bits.
    - Formats: lengths and numbers are encoded canonically, transactions of both
      formats survive the wire, ids commit to everything but witnesses and range
      proofs; an unknown output type is read as a null output.
    - Scripts: evaluation always returns, within the limits; all flags but one are
      soft forks; standard and cold-staking outputs are spent by exactly the right
      keys in exactly the right kind of transaction.
    - Chain: the block index keeps its invariant, ancestors, forks and locators are
      those of the tree, targets and work are the stated rationals, with their
      wrap-around at the network's limit.
    - Transaction rules: acceptance is characterised; money in the clear is
      conserved, relative lock times are those of BIP 68, an output is authorised by
      its staking key.  A conversion into confidential outputs is not balanced.
    - Unspent outputs: a stack of caches refines a finite map for every sequence of
      operations; an interrupted write is recognisable and repeatable; the records
      on disk are read back as they were written.
    - Signatures: what each hash type commits to, and that it does not cover the
      types of outputs; relative locks that scripts ask for are enforced.
    - Deployments: the cached state is that of BIP 9, and enough support in time
      activates a deployment for good.
    - Merkle trees: roots bind their leaves, partial trees are sound and complete.
    - Anonymous inputs: what an accepted ring signature is about; that acceptance
      depends on the local memory pool; that a damaged index is repaired.
    - Blocks: connecting and disconnecting a block are inverse on the coins and the
      index, unless a coin of height zero is spent; what a coinstake may take; how the money
      supply of an entry relates to the sum of all coins; that key images are not
      compared within a block.
    - Best chain: the candidate with the most work among those without invalid or
      missing blocks is found, and what is known to be bad is marked.
    - Addresses and amounts: encodings are read back, and only they; errors of up to
      six neighbouring characters are detected in Bech32; which hostile or foreign
      strings are accepted or make the decoder run past its buffers.  Destinations
      and standard scripts correspond, but for witness programs in the program's own
      mode.
    - Coin selection: among up to fifteen groups the search finds a selection within the
      tolerance exactly if there is one, and the knapsack solver fails only for lack of coins.
    - Digests: the unrolled transformations are FIPS 180-4; digests do not depend on
      how a message is cut; hashing pairs in place is safe.
    - Filters: no message makes a peer's filter divide by zero or run past its data,
      and what it follows is announced; a rolling filter is exactly a window of the
      latest keys.
    - Catalogues: no language lacks a message or a form of it; the messages of the core
      are never translated, since [Translate] asks for another context than the catalogues
      have; in their own context all formats but a few listed ones print the same
      arguments in translation.

    ** Not modelled

    Sockets, threads, files, JSON, the graphical client, secure messaging, hardware
    devices and vendored code are I/O or glue.  Ring signatures, range proofs and key
    recovery rest on the curve library, whose functions are arguments.  Of
    [src/src/validation.cpp] block files and the reading of blocks for
    [ActivateBestChain] are not here, nor are the optional indexes of addresses, spent
    outputs and timestamps.  Of the wallet only coin selection and the forms of its
    keys and addresses are modelled: its transactions and keys live in a database with
    encryption.  RIPEMD-160, SHA-512, SipHash and the sources of randomness are
    arguments or absent, the sizes that filters compute with logarithms of doubles are
    arguments, and the memory accounting of caches is left out.

    What is left that the method would bear: [CheckBlock] and the proof-of-stake checks
    of a block, whose inputs come from block files; the steps of [ActivateBestChain]
    over [BestChain], [BlockUndo] and a store of blocks; the ordering and limits of the
    mempool, a multi-index container; and compact blocks.

    ** This file

    Machine integers, counted and guarded loops, the error monad, tactics and hint
    databases, and the list, bit and arithmetic lemmas the component files use.

    - [u8], [u16], [u32], [u64] reduce an integer to an unsigned type;
      [i32] and [i64] reduce it to a two's complement signed type.
    - [for_up start n body s] is [for (i = start; i < start + n; i++) s = body i s];
      [for_down n body s] is [for (i = n - 1; i >= 0; i--) s = body i s].
    - [while_fuel] is a guarded loop with an explicit bound on its iterations;
      every use is accompanied by a proof that the bound is enough.
    - [result E A] is the outcome of a computation that may throw or return
      early. *)
From stdpp Require Export prelude.
From Stdlib Require Export ZArith Lia.
#[export] Set Default Goal Selector "!".
Open Scope Z_scope.

(** ** Machine integers *)

Definition u8 (z : Z) : Z := z mod 2 ^ 8.
Definition u16 (z : Z) : Z := z mod 2 ^ 16.
Definition u32 (z : Z) : Z := z mod 2 ^ 32.
Definition u64 (z : Z) : Z := z mod 2 ^ 64.
Definition i32 (z : Z) : Z := (z + 2 ^ 31) mod 2 ^ 32 - 2 ^ 31.
Definition i64 (z : Z) : Z := (z + 2 ^ 63) mod 2 ^ 64 - 2 ^ 63.

Definition is_u8 (z : Z) : Prop := 0 <= z < 2 ^ 8.
Definition is_u32 (z : Z) : Prop := 0 <= z < 2 ^ 32.
Definition is_u64 (z : Z) : Prop := 0 <= z < 2 ^ 64.
Definition is_i32 (z : Z) : Prop := - 2 ^ 31 <= z < 2 ^ 31.
Definition is_i64 (z : Z) : Prop := - 2 ^ 63 <= z < 2 ^ 63.

#[global] Instance is_u8_dec z : Decision (is_u8 z).
Proof. unfold is_u8; apply _. Defined.
#[global] Instance is_u32_dec z : Decision (is_u32 z).
Proof. unfold is_u32; apply _. Defined.
#[global] Instance is_u64_dec z : Decision (is_u64 z).
Proof. unfold is_u64; apply _. Defined.
#[global] Instance is_i64_dec z : Decision (is_i64 z).
Proof. unfold is_i64; apply _. Defined.

(** A byte string: every element is an unsigned 8-bit value. *)
Abbreviation bytes := (list Z) (only parsing).
Definition bytes_ok (l : bytes) : Prop := Forall is_u8 l.

#[global] Instance bytes_ok_dec l : Decision (bytes_ok l).
Proof. unfold bytes_ok; apply _. Defined.

(** ** Counted and guarded loops *)

Fixpoint for_up {St : Type} (start n : nat) (body : nat → St → St) (s : St) : St :=
  match n with
  | O => s
  | S n' => for_up (S start) n' body (body start s)
  end.

Fixpoint for_down {St : Type} (n : nat) (body : nat → St → St) (s : St) : St :=
  match n with
  | O => s
  | S n' => for_down n' body (body n' s)
  end.

(** [while_fuel fuel cond body s]: [None] when the bound is exhausted before
    the guard fails. *)
Fixpoint while_fuel {St : Type} (fuel : nat) (cond : St → bool) (body : St → St) (s : St)
  : option St :=
  if cond s then
    match fuel with
    | O => None
    | S f => while_fuel f cond body (body s)
    end
  else Some s.

(** ** Errors *)

Inductive result (E A : Type) : Type :=
| Ok (a : A)
| Err (e : E).
Arguments Ok {E A} a.
Arguments Err {E A} e.

Definition rbind {E A B} (m : result E A) (k : A → result E B) : result E B :=
  match m with
  | Ok a => k a
  | Err e => Err e
  end.

Declare Scope core_scope.
Delimit Scope core_scope with core.
Notation "'let!' x ':=' m 'in' k" :=
  (rbind m (fun x => k))
  (at level 10, x pattern, m at level 100, k at level 200)
  : core_scope.
Open Scope core_scope.

#[global] Instance result_eq_dec {E A} `{EqDecision E} `{EqDecision A} :
  EqDecision (result E A).
Proof. solve_decision. Defined.

(** ** Automation *)

Create HintDb core_db discriminated.
Create Rewrite HintDb width_db.

Ltac widths :=
  unfold u8, u16, u32, u64, i32, i64, is_u8, is_u32, is_u64, is_i32, is_i64 in *.

(** Splits on the boolean tests of the context and the goal, turning them
    into arithmetic facts. *)
Ltac bool_cases :=
  repeat match goal with
  | |- context [if (?a <? ?b)%Z then _ else _] => destruct (Z.ltb_spec a b)
  | |- context [if (?a <=? ?b)%Z then _ else _] => destruct (Z.leb_spec a b)
  | |- context [if (?a =? ?b)%Z then _ else _] => destruct (Z.eqb_spec a b)
  | H : context [if (?a <? ?b)%Z then _ else _] |- _ => destruct (Z.ltb_spec a b)
  | H : context [if (?a <=? ?b)%Z then _ else _] |- _ => destruct (Z.leb_spec a b)
  | H : context [if (?a =? ?b)%Z then _ else _] |- _ => destruct (Z.eqb_spec a b)
  end.

(** Rewrites boolean hypotheses to their propositions. *)
Ltac reflect_bools :=
  repeat match goal with
  | H : (_ && _)%bool = true |- _ => apply andb_true_iff in H; destruct H
  | H : (_ || _)%bool = false |- _ => apply orb_false_iff in H; destruct H
  | H : (_ || _)%bool = true |- _ => apply orb_true_iff in H
  | H : (_ && _)%bool = false |- _ => apply andb_false_iff in H
  | H : negb _ = true |- _ => apply negb_true_iff in H
  | H : negb _ = false |- _ => apply negb_false_iff in H
  | H : (_ <? _)%Z = true |- _ => apply Z.ltb_lt in H
  | H : (_ <? _)%Z = false |- _ => apply Z.ltb_ge in H
  | H : (_ <=? _)%Z = true |- _ => apply Z.leb_le in H
  | H : (_ <=? _)%Z = false |- _ => apply Z.leb_gt in H
  | H : (_ =? _)%Z = true |- _ => apply Z.eqb_eq in H
  | H : (_ =? _)%Z = false |- _ => apply Z.eqb_neq in H
  | H : bool_decide _ = true |- _ => apply bool_decide_eq_true in H
  | H : bool_decide _ = false |- _ => apply bool_decide_eq_false in H
  end.

(** Proves a decidable closed proposition by evaluating its decision
    procedure. *)
Ltac by_eval := refine (bool_decide_unpack _ _); vm_compute; exact I.

(** ** Lemmas on widths *)

Lemma u8_range z : is_u8 (u8 z).
Proof. unfold is_u8, u8. apply Z.mod_pos_bound. lia. Qed.
Lemma u32_range z : is_u32 (u32 z).
Proof. unfold is_u32, u32. apply Z.mod_pos_bound. lia. Qed.
Lemma u64_range z : is_u64 (u64 z).
Proof. unfold is_u64, u64. apply Z.mod_pos_bound. lia. Qed.
Lemma u8_small z : is_u8 z → u8 z = z.
Proof. intros. by apply Z.mod_small. Qed.
Lemma u32_small z : is_u32 z → u32 z = z.
Proof. intros. by apply Z.mod_small. Qed.
Lemma u64_small z : is_u64 z → u64 z = z.
Proof. intros. by apply Z.mod_small. Qed.
Lemma i64_range z : is_i64 (i64 z).
Proof.
  unfold is_i64, i64. pose proof (Z.mod_pos_bound (z + 2 ^ 63) (2 ^ 64)). lia.
Qed.
Lemma i64_small z : is_i64 z → i64 z = z.
Proof. unfold is_i64, i64. intros. rewrite Z.mod_small; lia. Qed.
Lemma i32_small z : is_i32 z → i32 z = z.
Proof. unfold is_i32, i32. intros. rewrite Z.mod_small; lia. Qed.

#[export] Hint Resolve u8_range u32_range u64_range i64_range : core_db.
#[export] Hint Rewrite u8_small u32_small u64_small using (widths; lia) : width_db.

(** ** Lemmas on loops *)

(** Invariant rule of the counted loops. *)
Lemma for_up_inv {St} (P : nat → St → Prop) start n body (s : St) :
  P start s →
  (∀ i s', (start <= i < start + n)%nat → P i s' → P (S i) (body i s')) →
  P (start + n)%nat (for_up start n body s).
Proof.
  revert start s. induction n as [|n IH]; intros start s H0 Hstep; simpl.
  - by rewrite Nat.add_0_r.
  - replace (start + S n)%nat with (S start + n)%nat by lia.
    apply IH; [apply Hstep; [lia | done]|].
    intros i s' Hi. apply Hstep. lia.
Qed.

Lemma for_down_inv {St} (P : nat → St → Prop) n body (s : St) :
  P n s →
  (∀ i s', (i < n)%nat → P (S i) s' → P i (body i s')) →
  P 0%nat (for_down n body s).
Proof.
  revert s. induction n as [|n IH]; intros s H0 Hstep; simpl; [done|].
  apply IH; [apply Hstep; [lia | done]|].
  intros i s' Hi. apply Hstep. lia.
Qed.

(** A guarded loop whose measure drops at every turn finishes within any fuel
    above the measure, and keeps its invariant. *)
Lemma while_fuel_inv {St} (P : St → Prop) (m : St → nat) fuel cond body (s : St) :
  P s →
  (∀ s', P s' → cond s' = true → P (body s') ∧ (m (body s') < m s')%nat) →
  (m s <= fuel)%nat →
  ∃ s', while_fuel fuel cond body s = Some s' ∧ P s' ∧ cond s' = false.
Proof.
  revert s. induction fuel as [|f IH]; intros s H0 Hstep Hm; simpl;
    destruct (cond s) eqn:E; eauto.
  - destruct (Hstep s H0 E). lia.
  - destruct (Hstep s H0 E). apply IH; eauto. lia.
Qed.

Lemma rbind_Ok {E A B} (m : result E A) (k : A → result E B) b :
  rbind m k = Ok b ↔ ∃ a, m = Ok a ∧ k a = Ok b.
Proof.
  destruct m as [a|e]; simpl; split.
  - eauto.
  - intros (a' & [= <-] & H). done.
  - done.
  - by intros (a' & ? & _).
Qed.

(** ** Lemmas on bits *)

(** Or-ing a value below [2^k] with a multiple of [2^k] adds them. *)
Lemma lor_add_disjoint x y k :
  0 <= k → 0 <= x < 2 ^ k → Z.lor x (y * 2 ^ k) = x + y * 2 ^ k.
Proof.
  intros Hk Hx. rewrite <- Z.lxor_lor, <- Z.add_nocarry_lxor; [done| |].
  all: apply Z.bits_inj'; intros n Hn; rewrite Z.land_spec, Z.bits_0.
  all: rewrite <- Z.shiftl_mul_pow2 by done; destruct (Z.lt_ge_cases n k).
  all: try (rewrite Z.shiftl_spec_low, andb_false_r by lia; done).
  all: rewrite <- (Z.mod_small x (2 ^ k)) by done; by rewrite Z.mod_pow2_bits_high by lia.
Qed.

Lemma land_ones_mod n k : 0 <= k → Z.land n (2 ^ k - 1) = n mod 2 ^ k.
Proof. intros. rewrite <- Z.land_ones by done. by rewrite Z.ones_equiv. Qed.

Lemma land_pow2_testbit w n :
  0 <= n → negb (Z.land w (2 ^ n) =? 0) = Z.testbit w n.
Proof.
  intros Hn. destruct (Z.testbit w n) eqn:E.
  - apply negb_true_iff, Z.eqb_neq. intros H0.
    assert (Z.testbit (Z.land w (2 ^ n)) n = true) as Ht.
    { by rewrite Z.land_spec, E, Z.pow2_bits_true. }
    by rewrite H0, Z.bits_0 in Ht.
  - apply negb_false_iff, Z.eqb_eq. apply Z.bits_inj'. intros m Hm.
    rewrite Z.bits_0, Z.land_spec, Z.pow2_bits_eqb by done.
    destruct (Z.eqb_spec n m) as [->|]; [by rewrite E|]. by rewrite andb_false_r.
Qed.

Lemma testbit_top m k : 0 <= k → 0 <= m < 2 ^ (k + 1) → Z.testbit m k = (2 ^ k <=? m).
Proof.
  intros Hk Hm. pose proof (Z.testbit_spec' m k Hk) as H.
  rewrite Z.pow_add_r in Hm by lia. change (2 ^ 1) with 2 in Hm.
  assert (0 <= m / 2 ^ k < 2)
    by (split; [apply Z.div_pos; lia|apply Z.div_lt_upper_bound; lia]).
  rewrite Z.mod_small in H by lia.
  destruct (Z.testbit m k), (Z.leb_spec (2 ^ k) m) as [Hle|Hlt]; simpl in H; try done.
  - rewrite Z.div_small in H; lia.
  - symmetry in H. apply Z.div_small_iff in H; lia.
Qed.

(** The digit and continuation bit of a base-128 byte. *)
Lemma land_7F n : Z.land n 0x7F = n mod 2 ^ 7.
Proof. by apply (land_ones_mod n 7). Qed.

Lemma land_FF n : Z.land n 0xff = n mod 2 ^ 8.
Proof. by apply (land_ones_mod n 8). Qed.

Lemma lor_0x80 b : 0 <= b < 2 ^ 7 → Z.lor b 0x80 = b + 128.
Proof. intros. by apply (lor_add_disjoint b 1 7). Qed.

Lemma land_0x80 b : 0 <= b < 2 ^ 8 → negb (Z.land b 0x80 =? 0) = (128 <=? b).
Proof.
  intros. change 0x80 with (2 ^ 7). rewrite land_pow2_testbit by lia.
  by rewrite testbit_top by (simpl; lia).
Qed.

(** Quotient and remainder are unique. *)
Lemma split_unique v1 x1 v2 x2 P :
  0 <= v1 < P → 0 <= v2 < P → v1 + x1 * P = v2 + x2 * P → v1 = v2 ∧ x1 = x2.
Proof.
  intros H1 H2 E. destruct (Z.lt_total x1 x2) as [Hx|[->|Hx]]; [nia|lia|nia].
Qed.
