(* ===== verification/ArithUint256.v ===== *)
(** The fixed-width big integers of [src/src/arith_uint256.h] and
    [src/src/arith_uint256.cpp].

    A [base_uint<BITS>] is its limb array [pn]: a list of [WIDTH] unsigned
    32-bit words, least significant first.  The operators are translated loop
    by loop on that array, and each one is proved to refine the arithmetic of
    [Z] modulo [2^BITS] through [value].  [SetCompact] and [GetCompact] are the
    256-bit floating format of difficulty targets. *)
From S2P Require Import Prelude.

Module base_uint.

(** ** Data *)

(** [uint32_t pn[WIDTH]]. *)
Abbreviation t := (list Z) (only parsing).

(** The number a limb array denotes. *)
Fixpoint value (pn : t) : Z :=
  match pn with
  | [] => 0
  | w :: pn' => w + 2 ^ 32 * value pn'
  end.

(** The class invariant: [WIDTH] limbs, each an unsigned 32-bit word. *)
Definition limbs_ok (WIDTH : nat) (pn : t) : Prop :=
  length pn = WIDTH ∧ Forall is_u32 pn.

#[global] Instance limbs_ok_dec WIDTH pn : Decision (limbs_ok WIDTH pn).
Proof. unfold limbs_ok; apply _. Defined.

(** Reads [pn[i]]; every use is within bounds. *)
Definition limb (pn : t) (i : nat) : Z := nth i pn 0.

Section Ops.
Variable WIDTH : nat.

(** [base_uint()]. *)
Definition zero : t := replicate WIDTH 0.

(** [base_uint(uint64_t b)] and [operator=(uint64_t)]. *)
Definition of_u64 (b : Z) : t :=
  take WIDTH (u32 b :: u32 (Z.shiftr b 32) :: replicate (WIDTH - 2) 0).

(** [operator~]. *)
Definition op_not (pn : t) : t := map (fun w => u32 (Z.lnot w)) pn.

(** [operator++()]: carries while the incremented limb wraps to zero. *)
Fixpoint op_incr (pn : t) : t :=
  match pn with
  | [] => []
  | w :: pn' =>
      let w' := u32 (w + 1) in
      if w' =? 0 then w' :: op_incr pn' else w' :: pn'
  end.

(** [operator--()]: borrows while the decremented limb wraps to [(uint32_t)-1]. *)
Fixpoint op_decr (pn : t) : t :=
  match pn with
  | [] => []
  | w :: pn' =>
      let w' := u32 (w - 1) in
      if w' =? u32 (-1) then w' :: op_decr pn' else w' :: pn'
  end.

(** [operator-()]. *)
Definition op_neg (pn : t) : t := op_incr (op_not pn).

(** [operator^=], [operator&=], [operator|=]. *)
Definition op_xor (pn b : t) : t := zip_with Z.lxor pn b.
Definition op_and (pn b : t) : t := zip_with Z.land pn b.
Definition op_or (pn b : t) : t := zip_with Z.lor pn b.

(** [operator+=(const base_uint&)]: the loop state is the array and the carry. *)
Definition op_add_body (b : t) (i : nat) (s : t * Z) : t * Z :=
  let '(pn, carry) := s in
  let n := u64 (carry + limb pn i + limb b i) in
  (<[i := Z.land n 0xffffffff]> pn, Z.shiftr n 32).

Definition op_add (pn b : t) : t :=
  fst (for_up 0 WIDTH (op_add_body b) (pn, 0)).

(** [operator-=(const base_uint&)]. *)
Definition op_sub (pn b : t) : t := op_add pn (op_neg b).

(** [operator+=(uint64_t)] and [operator-=(uint64_t)]. *)
Definition op_add64 (pn : t) (b64 : Z) : t := op_add pn (of_u64 b64).
Definition op_sub64 (pn : t) (b64 : Z) : t :=
  op_add pn (op_neg (of_u64 b64)).

(** [operator*=(uint32_t)]. *)
Definition op_mul32_body (b32 : Z) (i : nat) (s : t * Z) : t * Z :=
  let '(pn, carry) := s in
  let n := u64 (carry + u64 (b32 * limb pn i)) in
  (<[i := Z.land n 0xffffffff]> pn, Z.shiftr n 32).

Definition op_mul32 (pn : t) (b32 : Z) : t :=
  fst (for_up 0 WIDTH (op_mul32_body b32) (pn, 0)).

(** [operator*=(const base_uint&)]: the inner loop runs while [i + j < WIDTH]. *)
Definition op_mul_inner (pn b : t) (j i : nat) (s : t * Z)
  : t * Z :=
  let '(a, carry) := s in
  let n := u64 (carry + limb a (i + j) + u64 (limb pn j * limb b i)) in
  (<[(i + j)%nat := Z.land n 0xffffffff]> a, Z.shiftr n 32).

Definition op_mul_outer (pn b : t) (j : nat) (a : t) : t :=
  fst (for_up 0 (WIDTH - j) (op_mul_inner pn b j) (a, 0)).

Definition op_mul (pn b : t) : t :=
  for_up 0 WIDTH (op_mul_outer pn b) zero.

(** [operator<<=(unsigned int)]. *)
Definition op_shl_body (a : t) (k : nat) (shift : Z) (i : nat) (pn : t)
  : t :=
  let pn :=
    if bool_decide (i + k + 1 < WIDTH)%nat && negb (shift =? 0) then
      <[(i + k + 1)%nat :=
          Z.lor (limb pn (i + k + 1)) (Z.shiftr (limb a i) (32 - shift))]> pn
    else pn in
  if bool_decide (i + k < WIDTH)%nat then
    <[(i + k)%nat := Z.lor (limb pn (i + k)) (u32 (Z.shiftl (limb a i) shift))]> pn
  else pn.

Definition op_shl (pn : t) (shift : Z) : t :=
  for_up 0 WIDTH (op_shl_body pn (Z.to_nat (shift / 32)) (shift mod 32)) zero.

(** [operator>>=(unsigned int)]. *)
Definition op_shr_body (a : t) (k : nat) (shift : Z) (i : nat) (pn : t)
  : t :=
  let pn :=
    if bool_decide (k + 1 <= i)%nat && negb (shift =? 0) then
      <[(i - k - 1)%nat :=
          Z.lor (limb pn (i - k - 1)) (u32 (Z.shiftl (limb a i) (32 - shift)))]> pn
    else pn in
  if bool_decide (k <= i)%nat then
    <[(i - k)%nat := Z.lor (limb pn (i - k)) (Z.shiftr (limb a i) shift)]> pn
  else pn.

Definition op_shr (pn : t) (shift : Z) : t :=
  for_up 0 WIDTH (op_shr_body pn (Z.to_nat (shift / 32)) (shift mod 32)) zero.

(** [CompareTo]: from the most significant limb down. *)
Fixpoint CompareTo_loop (i : nat) (pn b : t) : Z :=
  match i with
  | O => 0
  | S i' =>
      if limb pn i' <? limb b i' then -1
      else if limb b i' <? limb pn i' then 1
      else CompareTo_loop i' pn b
  end.

Definition CompareTo (pn b : t) : Z := CompareTo_loop WIDTH pn b.

(** [EqualTo(uint64_t)]. *)
Fixpoint EqualTo_loop (i : nat) (pn : t) : bool :=
  match i with
  | O => true
  | S i' => if negb (limb pn (S (S i')) =? 0) then false else EqualTo_loop i' pn
  end.

Definition EqualTo (pn : t) (b : Z) : bool :=
  if negb (EqualTo_loop (WIDTH - 2) pn) then false
  else if negb (limb pn 1 =? Z.shiftr b 32) then false
  else if negb (limb pn 0 =? Z.land b 0xffffffff) then false
  else true.

(** [bits()]. *)
Fixpoint bits_word (nbits : nat) (w : Z) (pos : nat) : Z :=
  match nbits with
  | O => 32 * Z.of_nat pos + 1
  | S n' =>
      if negb (Z.land w (2 ^ Z.of_nat nbits) =? 0)
      then 32 * Z.of_nat pos + Z.of_nat nbits + 1
      else bits_word n' w pos
  end.

Fixpoint bits_loop (i : nat) (pn : t) : Z :=
  match i with
  | O => 0
  | S pos => if negb (limb pn pos =? 0) then bits_word 31 (limb pn pos) pos
             else bits_loop pos pn
  end.

Definition bits (pn : t) : Z := bits_loop WIDTH pn.

(** [GetLow64()]. *)
Definition GetLow64 (pn : t) : Z :=
  Z.lor (limb pn 0) (u64 (Z.shiftl (limb pn 1) 32)).

(** [operator/=(const base_uint&)].  The loop state is the quotient [this],
    [num] and [div]; [shift] counts down to zero.  [None] is [uint_error]. *)
Definition op_div_body (shift : nat) (s : t * t * t)
  : t * t * t :=
  let '(q, num, div) := s in
  let '(q, num) :=
    if 0 <=? CompareTo num div then
      (<[(shift / 32)%nat :=
          Z.lor (limb q (shift / 32))
                (u32 (Z.shiftl 1 (Z.land (Z.of_nat shift) 31)))]> q,
       op_sub num div)
    else (q, num) in
  (q, num, op_shr div 1).

Definition op_div (pn b : t) : option t :=
  let num_bits := bits pn in
  let div_bits := bits b in
  if div_bits =? 0 then None
  else if num_bits <? div_bits then Some (of_u64 0)
  else
    let shift := num_bits - div_bits in
    let div := op_shl b shift in
    let '(q, _, _) :=
      for_down (S (Z.to_nat shift)) op_div_body (of_u64 0, pn, div) in
    Some q.

End Ops.

(** ** Values of limb arrays *)

Lemma limb_lookup pn i : limb pn i = default 0 (pn !! i).
Proof. unfold limb. revert i. induction pn; intros []; simpl; auto. Qed.

Lemma limb_is_u32 pn i : Forall is_u32 pn → is_u32 (limb pn i).
Proof.
  intros H. rewrite limb_lookup. destruct (pn !! i) eqn:E; simpl.
  - by eapply Forall_lookup_1.
  - by split.
Qed.

Lemma limb_insert_eq pn i x : (i < length pn)%nat → limb (<[i:=x]> pn) i = x.
Proof. intros. rewrite limb_lookup, list_lookup_insert_eq; done. Qed.

Lemma limb_insert_ne pn i j x : i ≠ j → limb (<[i:=x]> pn) j = limb pn j.
Proof. intros. by rewrite !limb_lookup, list_lookup_insert_ne. Qed.

Lemma limbs_ok_insert W pn i x :
  limbs_ok W pn → is_u32 x → limbs_ok W (<[i:=x]> pn).
Proof.
  intros [? ?] ?. split; [by rewrite length_insert|]. by apply Forall_insert.
Qed.

Lemma limbs_ok_zero W : limbs_ok W (zero W).
Proof. split; [apply length_replicate|]. by apply Forall_replicate. Qed.

Lemma value_replicate_0 n : value (replicate n 0) = 0.
Proof. induction n; simpl; lia. Qed.

Lemma pow32_succ n : 2 ^ (32 * Z.of_nat (S n)) = 2 ^ 32 * 2 ^ (32 * Z.of_nat n).
Proof. rewrite <- Z.pow_add_r by lia. f_equal. lia. Qed.

Lemma pow32_pos n : 0 < 2 ^ (32 * Z.of_nat n).
Proof. apply Z.pow_pos_nonneg; lia. Qed.

Lemma value_bound pn :
  Forall is_u32 pn → 0 <= value pn < 2 ^ (32 * Z.of_nat (length pn)).
Proof.
  induction 1 as [|w pn Hw _ IH]; simpl value; simpl length; [done|].
  rewrite pow32_succ. widths. lia.
Qed.

Lemma limbs_ok_bound W pn : limbs_ok W pn → 0 <= value pn < 2 ^ (32 * Z.of_nat W).
Proof. intros [<- ?]. by apply value_bound. Qed.

Lemma value_app l1 l2 :
  value (l1 ++ l2) = value l1 + 2 ^ (32 * Z.of_nat (length l1)) * value l2.
Proof.
  induction l1 as [|w l1 IH]; simpl value; simpl length; [simpl; lia|].
  rewrite pow32_succ. simpl. lia.
Qed.

Lemma value_insert pn i x :
  (i < length pn)%nat →
  value (<[i:=x]> pn) = value pn + (x - limb pn i) * 2 ^ (32 * Z.of_nat i).
Proof.
  revert i. induction pn as [|w pn IH]; intros [|i] Hi; simpl in Hi; try lia.
  - unfold limb. simpl. lia.
  - rewrite pow32_succ. simpl. rewrite IH by lia. unfold limb. simpl. lia.
Qed.

Lemma value_take_S pn i :
  (i < length pn)%nat →
  value (take (S i) pn) = value (take i pn) + limb pn i * 2 ^ (32 * Z.of_nat i).
Proof.
  revert i. induction pn as [|w pn IH]; intros [|i] Hi; simpl in Hi; try lia.
  - unfold limb. simpl. lia.
  - rewrite pow32_succ. rewrite (firstn_cons (S i)), firstn_cons. simpl value.
    rewrite IH by lia. unfold limb. simpl. lia.
Qed.

Lemma value_take_drop pn i :
  (i <= length pn)%nat →
  value pn = value (take i pn) + 2 ^ (32 * Z.of_nat i) * value (drop i pn).
Proof.
  intros. rewrite <- (take_drop i pn) at 1.
  by rewrite value_app, length_take_le.
Qed.

Lemma value_inj l1 l2 :
  length l1 = length l2 → Forall is_u32 l1 → Forall is_u32 l2 →
  value l1 = value l2 → l1 = l2.
Proof.
  revert l2. induction l1 as [|w1 l1 IH]; intros [|w2 l2] Hl H1 H2 Hv;
    simpl in *; try done.
  apply Forall_cons in H1 as [? ?]. apply Forall_cons in H2 as [? ?].
  widths. assert (w1 = w2 ∧ value l1 = value l2) as [-> ?] by lia.
  f_equal. apply IH; auto.
Qed.

(** Bit [n] of the number is bit [n mod 32] of limb [n / 32]. *)
Lemma testbit_value pn n :
  Forall is_u32 pn → 0 <= n →
  Z.testbit (value pn) n = Z.testbit (limb pn (Z.to_nat (n / 32))) (n mod 32).
Proof.
  intros Hok. revert n. induction Hok as [|w pn Hw _ IH]; intros n Hn; simpl value.
  - unfold limb. by destruct (Z.to_nat (n / 32)); rewrite !Z.bits_0.
  - destruct (decide (n < 32)).
    + rewrite Z.div_small, Z.mod_small by lia. unfold limb; simpl.
      rewrite <- (Z.mod_pow2_bits_low _ 32) by lia.
      rewrite Z.mul_comm, Z.mod_add by lia. f_equal. apply Z.mod_small, Hw.
    + replace n with ((n - 32) + 32) at 1 by lia.
      rewrite <- Z.shiftr_spec by lia. rewrite Z.shiftr_div_pow2 by lia.
      rewrite Z.mul_comm, Z.div_add by lia. rewrite (Z.div_small w) by apply Hw.
      rewrite Z.add_0_l, IH by lia.
      replace n with ((n - 32) + 1 * 32) at 3 4 by lia.
      rewrite Z.mod_add, Z.div_add by lia.
      rewrite Z2Nat.inj_add by (try apply Z.div_pos; lia).
      change (Z.to_nat 1) with 1%nat. by rewrite Nat.add_1_r.
Qed.

Lemma land_mask32 n : Z.land n 0xffffffff = n mod 2 ^ 32.
Proof. by apply (land_ones_mod n 32). Qed.

Lemma limbs_ok_length W pn : limbs_ok W pn → length pn = W.
Proof. by intros [? _]. Qed.
Lemma limbs_ok_Forall W pn : limbs_ok W pn → Forall is_u32 pn.
Proof. by intros [_ ?]. Qed.
#[local] Hint Resolve limbs_ok_length limbs_ok_Forall limbs_ok_insert limbs_ok_zero : core_db.

(** The carry step every limb loop performs: storing the low word of [n] at
    [i] and keeping its high word as carry adds [n] at weight [2^(32 i)]. *)
Lemma carry_step W pn i n :
  limbs_ok W pn → (i < W)%nat →
  limbs_ok W (<[i := Z.land n 0xffffffff]> pn) ∧
  value (<[i := Z.land n 0xffffffff]> pn) + Z.shiftr n 32 * 2 ^ (32 * Z.of_nat (S i))
  = value pn + (n - limb pn i) * 2 ^ (32 * Z.of_nat i).
Proof.
  intros Hok Hi. rewrite land_mask32, Z.shiftr_div_pow2 by lia. split.
  - apply limbs_ok_insert; [done|]. apply Z.mod_pos_bound. lia.
  - rewrite value_insert by (rewrite (limbs_ok_length _ _ Hok); lia).
    rewrite pow32_succ. pose proof (Z.div_mod n (2 ^ 32)). nia.
Qed.

Section Correct.
Variable WIDTH : nat.
Abbreviation ok := (limbs_ok WIDTH).
Abbreviation M := (2 ^ (32 * Z.of_nat WIDTH)).

Lemma mod_unique_pow v c x : 0 <= v < M → v + c * M = x → v = x mod M.
Proof.
  intros Hv <-. rewrite Z.mod_add by lia. by rewrite Z.mod_small.
Qed.

Lemma op_add_inv pn b :
  ok pn → ok b →
  let '(r, carry) := for_up 0 WIDTH (op_add_body b) (pn, 0) in
  ok r ∧ value r + carry * M = value pn + value b.
Proof.
  intros Hp Hb.
  pose (P := fun (i : nat) (s : t * Z) =>
    let '(r, carry) := s in
    ok r ∧ 0 <= carry <= 1 ∧ (∀ j, (i <= j)%nat → limb r j = limb pn j) ∧
    value r + carry * 2 ^ (32 * Z.of_nat i) = value pn + value (take i b)).
  assert (H : P (0 + WIDTH)%nat (for_up 0 WIDTH (op_add_body b) (pn, 0))).
  { apply for_up_inv; unfold P.
    - simpl. split_and!; try done; lia.
    - intros i [r c] Hi (Hr & Hc & Hhi & Hv). unfold op_add_body.
      pose proof (limb_is_u32 r i (limbs_ok_Forall _ _ Hr)) as H1.
      pose proof (limb_is_u32 b i (limbs_ok_Forall _ _ Hb)) as H2.
      rewrite u64_small by (widths; lia).
      set (n := c + limb r i + limb b i) in *.
      destruct (carry_step WIDTH r i n Hr) as [Hok Heq]; [lia|].
      split_and!; try done.
      + apply Z.shiftr_nonneg. widths; lia.
      + rewrite Z.shiftr_div_pow2 by lia. apply Z.lt_succ_r, Z.div_lt_upper_bound;
          widths; lia.
      + intros j Hj. rewrite limb_insert_ne by lia. apply Hhi. lia.
      + rewrite Heq, value_take_S by (rewrite (limbs_ok_length _ _ Hb); lia).
        unfold n. lia. }
  unfold P in H. simpl in H. destruct (for_up _ _ _ _) as [r c].
  destruct H as (? & ? & ? & H). split; [done|].
  rewrite H, take_ge by (rewrite (limbs_ok_length _ _ Hb); lia). done.
Qed.

Lemma op_add_ok pn b : ok pn → ok b → ok (op_add WIDTH pn b).
Proof.
  intros Hp Hb. pose proof (op_add_inv pn b Hp Hb) as H. unfold op_add.
  destruct (for_up _ _ _ _). by destruct H.
Qed.

Lemma op_add_value pn b :
  ok pn → ok b → value (op_add WIDTH pn b) = (value pn + value b) mod M.
Proof.
  intros Hp Hb. pose proof (op_add_inv pn b Hp Hb) as H. unfold op_add.
  destruct (for_up _ _ _ _) as [r c]; simpl. destruct H as [Hr H].
  eapply mod_unique_pow; [by apply limbs_ok_bound | done].
Qed.
(** [~] complements the value within the width. *)
Lemma op_not_spec pn :
  ok pn → ok (op_not pn) ∧ value (op_not pn) = M - 1 - value pn.
Proof.
  intros [<- Hf]. unfold limbs_ok, op_not. rewrite length_map.
  induction Hf as [|w pn Hw _ IH]; [done|]. destruct IH as [[_ IH1] IH2].
  assert (Hn : u32 (Z.lnot w) = 2 ^ 32 - 1 - w).
  { unfold u32, Z.lnot. symmetry. apply (Z.mod_unique _ _ (-1)); widths; lia. }
  simpl map. simpl value. simpl length. rewrite Hn, IH2, pow32_succ.
  split; [split; [done|]|lia]. constructor; [widths; lia|done].
Qed.

Lemma op_incr_spec pn :
  ok pn → ok (op_incr pn) ∧ value (op_incr pn) = (value pn + 1) mod M.
Proof.
  intros [<- Hf]. unfold limbs_ok.
  induction Hf as [|w pn Hw Hf IH]; [done|]. simpl op_incr.
  pose proof (value_bound pn Hf) as Hb. simpl length. rewrite pow32_succ.
  destruct IH as [[IHl IHf] IHv].
  destruct (decide (w = 2 ^ 32 - 1)) as [->|Hne].
  - replace (u32 (2 ^ 32 - 1 + 1)) with 0 by done. rewrite Z.eqb_refl. simpl value.
    simpl length. split; [split; [by f_equal | by constructor]|].
    rewrite IHv. replace (2 ^ 32 - 1 + 2 ^ 32 * value pn + 1)
      with (2 ^ 32 * (value pn + 1)) by lia.
    rewrite Z.mul_mod_distr_l by lia. lia.
  - rewrite u32_small by (widths; lia).
    destruct (Z.eqb_spec (w + 1) 0); [widths; lia|]. simpl value. simpl length.
    split; [split; [done | constructor; [widths; lia|done]]|].
    rewrite Z.mod_small; widths; lia.
Qed.

Lemma op_decr_spec pn :
  ok pn → ok (op_decr pn) ∧ value (op_decr pn) = (value pn - 1) mod M.
Proof.
  intros [<- Hf]. unfold limbs_ok.
  induction Hf as [|w pn Hw Hf IH]; [done|]. simpl op_decr.
  change (u32 (-1)) with (2 ^ 32 - 1).
  pose proof (value_bound pn Hf) as Hb. simpl length. rewrite pow32_succ.
  destruct IH as [[IHl IHf] IHv].
  destruct (decide (w = 0)) as [->|Hne].
  - change (u32 (0 - 1)) with (2 ^ 32 - 1). rewrite Z.eqb_refl. simpl value.
    simpl length. split; [split; [by f_equal | by constructor]|].
    rewrite IHv. set (P := 2 ^ (32 * Z.of_nat (length pn))) in *.
    destruct (decide (value pn = 0)) as [->|].
    + rewrite <- (Z.mod_unique (0 - 1) P (-1) (P - 1)) by lia.
      apply (Z.mod_unique _ _ (-1)); lia.
    + rewrite (Z.mod_small (value pn - 1)) by lia. rewrite Z.mod_small; lia.
  - rewrite u32_small by (widths; lia).
    destruct (Z.eqb_spec (w - 1) (2 ^ 32 - 1)); [widths; lia|]. simpl value. simpl length.
    split; [split; [done | constructor; [widths; lia|done]]|].
    rewrite Z.mod_small; widths; lia.
Qed.

Lemma op_neg_spec pn :
  ok pn → ok (op_neg pn) ∧ value (op_neg pn) = (- value pn) mod M.
Proof.
  intros H. unfold op_neg. destruct (op_not_spec pn H) as [H1 H2].
  destruct (op_incr_spec _ H1) as [H3 ->]. split; [done|]. rewrite H2.
  rewrite <- (Z.mod_add (- value pn) 1) by lia. f_equal. lia.
Qed.

Lemma op_sub_ok pn b : ok pn → ok b → ok (op_sub WIDTH pn b).
Proof. intros. apply op_add_ok; [done|]. by apply op_neg_spec. Qed.

Lemma op_sub_value pn b :
  ok pn → ok b → value (op_sub WIDTH pn b) = (value pn - value b) mod M.
Proof.
  intros Hp Hb. unfold op_sub. destruct (op_neg_spec b Hb) as [H1 H2].
  rewrite op_add_value, H2 by done. rewrite Z.add_mod_idemp_r by lia. done.
Qed.

Lemma of_u64_spec b :
  (2 <= WIDTH)%nat → is_u64 b → ok (of_u64 WIDTH b) ∧ value (of_u64 WIDTH b) = b.
Proof.
  intros HW Hb. unfold of_u64.
  rewrite take_ge by (simpl; rewrite length_replicate; lia). split.
  - split; [simpl; rewrite length_replicate; lia|].
    repeat constructor; try apply u32_range. by apply Forall_replicate.
  - simpl value. rewrite value_replicate_0, Z.shiftr_div_pow2 by lia.
    unfold u32. rewrite (Z.mod_small (b / _))
      by (split; [apply Z.div_pos|apply Z.div_lt_upper_bound]; widths; lia).
    pose proof (Z.div_mod b (2 ^ 32)). lia.
Qed.

(** ** Multiplication *)

Lemma op_mul32_inv pn b32 :
  ok pn → is_u32 b32 →
  let '(r, carry) := for_up 0 WIDTH (op_mul32_body b32) (pn, 0) in
  ok r ∧ value r + carry * M = value pn * b32.
Proof.
  intros Hp Hb.
  pose (P := fun (i : nat) (s : t * Z) =>
    let '(r, carry) := s in
    ok r ∧ 0 <= carry < 2 ^ 32 ∧ (∀ j, (i <= j)%nat → limb r j = limb pn j) ∧
    value r + carry * 2 ^ (32 * Z.of_nat i)
    = value pn + value (take i pn) * (b32 - 1)).
  assert (H : P (0 + WIDTH)%nat (for_up 0 WIDTH (op_mul32_body b32) (pn, 0))).
  { apply for_up_inv; unfold P.
    - simpl. split_and!; try done; lia.
    - intros i [r c] Hi (Hr & Hc & Hhi & Hv). unfold op_mul32_body.
      pose proof (limb_is_u32 r i (limbs_ok_Forall _ _ Hr)) as H1.
      rewrite (u64_small (b32 * _)) by (widths; nia).
      rewrite u64_small by (widths; nia).
      set (n := c + b32 * limb r i) in *.
      assert (0 <= n < 2 ^ 64) by (widths; nia).
      destruct (carry_step WIDTH r i n Hr) as [Hok Heq]; [lia|].
      split_and!; try done.
      + apply Z.shiftr_nonneg. lia.
      + rewrite Z.shiftr_div_pow2 by lia. apply Z.div_lt_upper_bound; lia.
      + intros j Hj. rewrite limb_insert_ne by lia. apply Hhi. lia.
      + rewrite Heq, value_take_S by (rewrite (limbs_ok_length _ _ Hp); lia).
        unfold n. rewrite Hhi by lia. lia. }
  unfold P in H. simpl in H. destruct (for_up _ _ _ _) as [r c].
  destruct H as (? & ? & ? & H). split; [done|].
  rewrite H, take_ge by (rewrite (limbs_ok_length _ _ Hp); lia). lia.
Qed.

Lemma op_mul32_ok pn b32 : ok pn → is_u32 b32 → ok (op_mul32 WIDTH pn b32).
Proof.
  intros Hp Hb. pose proof (op_mul32_inv pn b32 Hp Hb) as H. unfold op_mul32.
  destruct (for_up _ _ _ _). by destruct H.
Qed.

Lemma op_mul32_value pn b32 :
  ok pn → is_u32 b32 → value (op_mul32 WIDTH pn b32) = (value pn * b32) mod M.
Proof.
  intros Hp Hb. pose proof (op_mul32_inv pn b32 Hp Hb) as H. unfold op_mul32.
  destruct (for_up _ _ _ _) as [r c]; simpl. destruct H as [Hr H].
  eapply mod_unique_pow; [by apply limbs_ok_bound | done].
Qed.

(** One row of the schoolbook multiplication. *)
Lemma op_mul_row pn b j a :
  ok pn → ok b → ok a → (j < WIDTH)%nat →
  ok (op_mul_outer WIDTH pn b j a) ∧
  ∃ c, value (op_mul_outer WIDTH pn b j a) + c * M
       = value a + limb pn j * 2 ^ (32 * Z.of_nat j) * value (take (WIDTH - j) b).
Proof.
  intros Hp Hb Ha Hj. unfold op_mul_outer.
  pose (P := fun (i : nat) (s : t * Z) =>
    let '(r, carry) := s in
    ok r ∧ 0 <= carry < 2 ^ 32 ∧
    value r + carry * 2 ^ (32 * Z.of_nat (i + j))
    = value a + limb pn j * 2 ^ (32 * Z.of_nat j) * value (take i b)).
  assert (H : P (0 + (WIDTH - j))%nat
                (for_up 0 (WIDTH - j) (op_mul_inner pn b j) (a, 0))).
  { apply for_up_inv; unfold P.
    - simpl. split_and!; try done; lia.
    - intros i [r c] Hi (Hr & Hc & Hv). unfold op_mul_inner.
      pose proof (limb_is_u32 r (i + j) (limbs_ok_Forall _ _ Hr)) as H1.
      pose proof (limb_is_u32 b i (limbs_ok_Forall _ _ Hb)) as H2.
      pose proof (limb_is_u32 pn j (limbs_ok_Forall _ _ Hp)) as H3.
      rewrite (u64_small (limb pn j * _)) by (widths; nia).
      rewrite u64_small by (widths; nia).
      set (n := c + limb r (i + j) + limb pn j * limb b i) in *.
      assert (0 <= n < 2 ^ 64) by (widths; nia).
      destruct (carry_step WIDTH r (i + j) n Hr) as [Hok Heq]; [lia|].
      split_and!; try done.
      + apply Z.shiftr_nonneg. lia.
      + rewrite Z.shiftr_div_pow2 by lia. apply Z.div_lt_upper_bound; lia.
      + change (S i + j)%nat with (S (i + j)). rewrite Heq.
        rewrite value_take_S by (rewrite (limbs_ok_length _ _ Hb); lia).
        unfold n. rewrite Z.mul_add_distr_l, Z.add_assoc, <- Hv.
        replace (2 ^ (32 * Z.of_nat (i + j)))
          with (2 ^ (32 * Z.of_nat i) * 2 ^ (32 * Z.of_nat j)); [lia|].
        rewrite <- Z.pow_add_r by lia. f_equal. lia. }
  unfold P in H. simpl in H. destruct (for_up _ _ _ _) as [r c]; simpl.
  destruct H as (? & ? & H). split; [done|]. exists c.
  by replace (WIDTH - j + j)%nat with WIDTH in H by lia.
Qed.

Lemma op_mul_inv pn b :
  ok pn → ok b →
  ok (op_mul WIDTH pn b) ∧
  value (op_mul WIDTH pn b) mod M = (value pn * value b) mod M.
Proof.
  intros Hp Hb. unfold op_mul.
  pose (P := fun (j : nat) (a : t) =>
    ok a ∧ value a mod M = (value (take j pn) * value b) mod M).
  assert (H : P (0 + WIDTH)%nat (for_up 0 WIDTH (op_mul_outer WIDTH pn b) (zero WIDTH))).
  { apply for_up_inv; unfold P.
    - split; [apply limbs_ok_zero|]. by unfold zero; rewrite value_replicate_0.
    - intros j a Hj [Ha Hv].
      destruct (op_mul_row pn b j a Hp Hb Ha) as [Hok [c Hc]]; [lia|].
      split; [done|].
      rewrite value_take_S by (rewrite (limbs_ok_length _ _ Hp); lia).
      rewrite Z.mul_add_distr_r, <- Z.add_mod_idemp_l, <- Hv, Z.add_mod_idemp_l by lia.
      rewrite <- (Z.mod_add (value (op_mul_outer _ _ _ _ _)) c), Hc by lia.
      rewrite (value_take_drop b (WIDTH - j)) by (rewrite (limbs_ok_length _ _ Hb); lia).
      rewrite Z.mul_add_distr_l, Z.add_assoc.
      rewrite <- (Z.mod_add _ (limb pn j * value (drop (WIDTH - j) b))) by lia.
      f_equal. f_equal.
      replace M with (2 ^ (32 * Z.of_nat j) * 2 ^ (32 * Z.of_nat (WIDTH - j))); [lia|].
      rewrite <- Z.pow_add_r by lia. f_equal. lia. }
  destruct H as [? H]. split; [done|]. simpl in H.
  by rewrite H, take_ge by (rewrite (limbs_ok_length _ _ Hp); lia).
Qed.

Lemma op_mul_ok pn b : ok pn → ok b → ok (op_mul WIDTH pn b).
Proof. apply op_mul_inv. Qed.

Lemma op_mul_value pn b :
  ok pn → ok b → value (op_mul WIDTH pn b) = (value pn * value b) mod M.
Proof.
  intros Hp Hb. destruct (op_mul_inv pn b Hp Hb) as [Hok <-].
  symmetry. apply Z.mod_small. by apply limbs_ok_bound.
Qed.

(** ** Comparison and bit length *)

Definition sign_of (c : comparison) : Z :=
  match c with Lt => -1 | Eq => 0 | Gt => 1 end.

Lemma CompareTo_loop_spec i pn b :
  ok pn → ok b → (i <= WIDTH)%nat →
  CompareTo_loop i pn b = sign_of (value (take i pn) ?= value (take i b)).
Proof.
  intros Hp Hb. induction i as [|i IH]; intros Hi; [done|]. simpl CompareTo_loop.
  rewrite !value_take_S by (rewrite limbs_ok_length with (W := WIDTH); eauto; lia).
  pose proof (value_bound (take i pn)) as H1. pose proof (value_bound (take i b)) as H2.
  rewrite !length_take_le in H1, H2 by (rewrite limbs_ok_length with (W := WIDTH); eauto; lia).
  destruct Hp as [? Hp]. destruct Hb as [? Hb].
  specialize (H1 (Forall_take _ _ _ Hp)). specialize (H2 (Forall_take _ _ _ Hb)).
  bool_cases; symmetry.
  - replace (_ ?= _) with Lt; [done|]. symmetry. apply Z.compare_lt_iff. nia.
  - replace (_ ?= _) with Gt; [done|]. symmetry. apply Z.compare_gt_iff. nia.
  - rewrite IH by lia. replace (limb b i) with (limb pn i) by lia.
    rewrite !(Z.add_comm _ (limb pn i * _)). by rewrite Z.add_compare_mono_l.
Qed.

Lemma CompareTo_spec pn b :
  ok pn → ok b → CompareTo WIDTH pn b = sign_of (value pn ?= value b).
Proof.
  intros Hp Hb. unfold CompareTo. rewrite CompareTo_loop_spec by auto.
  by rewrite !take_ge by (rewrite limbs_ok_length with (W := WIDTH); eauto; lia).
Qed.

Lemma EqualTo_loop_spec i pn :
  Forall is_u32 pn → (S (S i) <= length pn)%nat →
  EqualTo_loop i pn = (value (take i (drop 2 pn)) =? 0).
Proof.
  intros Hp. induction i as [|i IH]; intros Hi; [done|]. simpl EqualTo_loop.
  rewrite value_take_S by (rewrite length_drop; lia).
  assert (limb (drop 2 pn) i = limb pn (S (S i))) as -> by
    (rewrite !limb_lookup, lookup_drop; done).
  pose proof (limb_is_u32 pn (S (S i)) Hp) as Hl.
  pose proof (value_bound (take i (drop 2 pn))
                (Forall_take _ _ _ (Forall_drop _ _ _ Hp))) as Hb.
  destruct (Z.eqb_spec (limb pn (S (S i))) 0) as [->|]; simpl negb; cbv iota.
  - rewrite IH by lia. by rewrite Z.mul_0_l, Z.add_0_r.
  - symmetry. apply Z.eqb_neq. pose proof (pow32_pos i). widths. nia.
Qed.

Lemma EqualTo_spec pn b :
  ok pn → is_u64 b → (2 <= WIDTH)%nat → EqualTo WIDTH pn b = (value pn =? b).
Proof.
  intros [Hl Hp] Hb HW. unfold EqualTo.
  rewrite EqualTo_loop_spec by (done || lia).
  rewrite take_ge by (rewrite length_drop; lia).
  rewrite land_mask32, Z.shiftr_div_pow2 by lia.
  destruct pn as [|w0 [|w1 pn]]; simpl in Hl; try lia. unfold limb. simpl.
  apply Forall_cons in Hp as [? Hp]. apply Forall_cons in Hp as [? Hp].
  pose proof (value_bound pn Hp).
  rewrite skipn_O.
  pose proof (Z.div_mod b (2 ^ 32)). pose proof (Z.mod_pos_bound b (2 ^ 32)).
  symmetry. destruct (Z.eqb_spec (value pn) 0), (Z.eqb_spec w1 (b / 2 ^ 32)),
    (Z.eqb_spec w0 (b mod 2 ^ 32)); simpl;
    (apply Z.eqb_eq || apply Z.eqb_neq); widths; try lia; nia.
Qed.

Lemma bits_word_spec n w pos :
  0 < w < 2 ^ (Z.of_nat n + 1) →
  bits_word n w pos = 32 * Z.of_nat pos + Z.log2 w + 1.
Proof.
  induction n as [|n IH]; intros Hw.
  - assert (w = 1) as -> by (simpl in Hw; lia). simpl. lia.
  - cbn [bits_word]. rewrite land_pow2_testbit by lia.
    destruct (Z.testbit w (Z.of_nat (S n))) eqn:E.
    + enough (Z.log2 w = Z.of_nat (S n)) by lia.
      apply Z.log2_unique; [lia|]. split; [|lia].
      destruct (Z.lt_ge_cases w (2 ^ Z.of_nat (S n))) as [Hlt|]; [|done].
      rewrite Z.bits_above_log2 in E; [done|lia|].
      apply Z.log2_lt_pow2; lia.
    + apply IH. split; [lia|]. replace (Z.of_nat n + 1) with (Z.of_nat (S n)) by lia.
      destruct (Z.lt_ge_cases w (2 ^ Z.of_nat (S n))) as [|Hge]; [done|].
      assert (Z.log2 w = Z.of_nat (S n)) as Hlog
        by (apply Z.log2_unique; [lia|]; split; [done|lia]).
      rewrite <- Hlog, Z.bit_log2 in E; [done|lia].
Qed.

Lemma bits_loop_spec i pn :
  ok pn → (i <= WIDTH)%nat →
  bits_loop i pn
  = if value (take i pn) =? 0 then 0 else Z.log2 (value (take i pn)) + 1.
Proof.
  intros Hp. induction i as [|i IH]; intros Hi; [done|]. cbn [bits_loop].
  destruct Hp as [Hl Hp].
  rewrite value_take_S by lia.
  pose proof (limb_is_u32 pn i Hp) as Hw.
  pose proof (value_bound (take i pn) (Forall_take _ _ _ Hp)) as Hb.
  rewrite length_take_le in Hb by lia.
  destruct (Z.eqb_spec (limb pn i) 0) as [->|Hne]; simpl negb; cbv iota.
  - rewrite IH by (done || lia). by rewrite Z.mul_0_l, Z.add_0_r.
  - pose proof (pow32_pos i).
    destruct (Z.eqb_spec (value (take i pn) + limb pn i * 2 ^ (32 * Z.of_nat i)) 0).
    { widths. nia. }
    rewrite bits_word_spec by (widths; lia). f_equal.
    symmetry. apply Z.log2_unique.
    { pose proof (Z.log2_nonneg (limb pn i)). lia. }
    destruct (Z.log2_spec (limb pn i)) as [H1 H2]; [widths; lia|].
    rewrite <- Z.add_succ_r.
    rewrite !Z.pow_add_r by (pose proof (Z.log2_nonneg (limb pn i)); lia).
    split; nia.
Qed.

(** [bits()] is the position of the highest set bit plus one, or zero. *)
Lemma bits_spec pn :
  ok pn → bits WIDTH pn = if value pn =? 0 then 0 else Z.log2 (value pn) + 1.
Proof.
  intros Hp. unfold bits. rewrite bits_loop_spec by auto.
  by rewrite take_ge by (rewrite (limbs_ok_length _ _ Hp); lia).
Qed.

Lemma bits_bounds pn :
  ok pn → 0 <= bits WIDTH pn <= 32 * Z.of_nat WIDTH ∧
  value pn < 2 ^ bits WIDTH pn ∧ (0 < value pn → 2 ^ (bits WIDTH pn - 1) <= value pn).
Proof.
  intros Hp. rewrite bits_spec by done. pose proof (limbs_ok_bound _ _ Hp) as Hb.
  destruct (Z.eqb_spec (value pn) 0) as [->|].
  - split_and!; lia.
  - assert (0 < value pn) as Hpos by lia. pose proof (Z.log2_spec _ Hpos).
    pose proof (Z.log2_nonneg (value pn)).
    assert (Z.log2 (value pn) < 32 * Z.of_nat WIDTH) by (apply Z.log2_lt_pow2; lia).
    rewrite Z.add_simpl_r. split_and!; lia.
Qed.

(** ** Shifts *)

(** The limb a left shift leaves at [j] after its first [i] iterations. *)
Definition shl_limb (a : t) (k : nat) (shift : Z) (i j : nat) : Z :=
  Z.lor
    (if bool_decide (k + 1 <= j ∧ j - k - 1 < i)%nat && negb (shift =? 0)
     then Z.shiftr (limb a (j - k - 1)) (32 - shift) else 0)
    (if bool_decide (k <= j ∧ j - k < i)%nat
     then u32 (Z.shiftl (limb a (j - k)) shift) else 0).

Definition shr_limb (a : t) (k : nat) (shift : Z) (i j : nat) : Z :=
  Z.lor
    (if bool_decide (j + k + 1 < i)%nat && negb (shift =? 0)
     then u32 (Z.shiftl (limb a (j + k + 1)) (32 - shift)) else 0)
    (if bool_decide (j + k < i)%nat
     then Z.shiftr (limb a (j + k)) shift else 0).

Lemma lor_is_u32 x y : is_u32 x → is_u32 y → is_u32 (Z.lor x y).
Proof.
  intros [? Hx] [? Hy]. split; [by apply Z.lor_nonneg|].
  destruct (Z.eq_dec (Z.lor x y) 0) as [->|]; [done|].
  assert (0 <= Z.lor x y) by (by apply Z.lor_nonneg).
  apply Z.log2_lt_pow2; [lia|]. rewrite Z.log2_lor by done.
  apply Z.max_lub_lt.
  - destruct (Z.eq_dec x 0) as [->|]; [done|]. apply Z.log2_lt_pow2; lia.
  - destruct (Z.eq_dec y 0) as [->|]; [done|]. apply Z.log2_lt_pow2; lia.
Qed.

Lemma shiftr_is_u32 x s : is_u32 x → 0 <= s → is_u32 (Z.shiftr x s).
Proof.
  intros [? ?] ?. rewrite Z.shiftr_div_pow2 by done.
  assert (0 < 2 ^ s) by (apply Z.pow_pos_nonneg; lia). split.
  - by apply Z.div_pos.
  - apply Z.le_lt_trans with x; [|done]. apply Z.div_le_upper_bound; nia.
Qed.

Ltac decide_conds :=
  repeat match goal with
  | |- context [bool_decide ?P] =>
      destruct (bool_decide_reflect P) as [?H|?H]; simpl andb; cbv iota; try lia
  end.

Lemma shl_limb_is_u32 a k shift i j :
  Forall is_u32 a → 0 <= shift < 32 → is_u32 (shl_limb a k shift i j).
Proof.
  intros Ha Hs. unfold shl_limb. apply lor_is_u32.
  - destruct (_ && _); [|by split]. apply shiftr_is_u32; [by apply limb_is_u32|lia].
  - destruct (bool_decide _); [apply u32_range|by split].
Qed.

Lemma shr_limb_is_u32 a k shift i j :
  Forall is_u32 a → 0 <= shift < 32 → is_u32 (shr_limb a k shift i j).
Proof.
  intros Ha Hs. unfold shr_limb. apply lor_is_u32.
  - destruct (_ && _); [apply u32_range|by split].
  - destruct (bool_decide _); [|by split].
    apply shiftr_is_u32; [by apply limb_is_u32|lia].
Qed.

Lemma limb_zero j : limb (zero WIDTH) j = 0.
Proof.
  rewrite limb_lookup. unfold zero. destruct (replicate WIDTH 0 !! j) eqn:E; [|done].
  by apply lookup_replicate in E as [-> _].
Qed.

Lemma limb_insert_dec (pn : t) i j x :
  limb (<[i:=x]> pn) j = if bool_decide (i = j ∧ i < length pn)%nat then x else limb pn j.
Proof.
  destruct (bool_decide_reflect (i = j ∧ i < length pn)%nat) as [[<- ?]|H].
  - by apply limb_insert_eq.
  - destruct (decide (i = j)) as [<-|]; [|by apply limb_insert_ne].
    rewrite list_insert_ge by lia. done.
Qed.

Lemma shl_limb_step a k shift i j :
  shl_limb a k shift (S i) j
  = Z.lor (shl_limb a k shift i j)
      (Z.lor (if bool_decide (j = i + k + 1)%nat && negb (shift =? 0)
              then Z.shiftr (limb a i) (32 - shift) else 0)
             (if bool_decide (j = i + k)%nat
              then u32 (Z.shiftl (limb a i) shift) else 0)).
Proof.
  unfold shl_limb. destruct (negb (shift =? 0)); rewrite ?andb_false_r, ?andb_true_r;
    decide_conds; rewrite ?Z.lor_0_l, ?Z.lor_0_r; subst;
    try (replace (i + k + 1 - k - 1)%nat with i by lia);
    try (replace (i + k - k)%nat with i by lia); done.
Qed.

Lemma op_shl_limbs a k shift :
  Forall is_u32 a → 0 <= shift < 32 →
  let r := for_up 0 WIDTH (op_shl_body WIDTH a k shift) (zero WIDTH) in
  length r = WIDTH ∧ ∀ j, (j < WIDTH)%nat → limb r j = shl_limb a k shift WIDTH j.
Proof.
  intros Ha Hs.
  apply (for_up_inv (fun i r => length r = WIDTH ∧
    ∀ j, (j < WIDTH)%nat → limb r j = shl_limb a k shift i j)).
  - split; [apply length_replicate|]. intros j Hj. rewrite limb_zero.
    unfold shl_limb. decide_conds. done.
  - intros i r Hi [Hl Hr]. unfold op_shl_body. split.
    { destruct (_ && _), (bool_decide _); by rewrite ?length_insert. }
    intros j Hj. rewrite shl_limb_step, <- Hr by done.
    destruct (shift =? 0); simpl negb; rewrite ?andb_false_r, ?andb_true_r;
      decide_conds; rewrite ?limb_insert_dec, ?length_insert; decide_conds;
      rewrite ?limb_insert_dec, ?length_insert; decide_conds; subst;
      rewrite ?Z.lor_0_l, ?Z.lor_0_r; done.
Qed.

Lemma shr_limb_step a k shift i j :
  shr_limb a k shift (S i) j
  = Z.lor (shr_limb a k shift i j)
      (Z.lor (if bool_decide (i = j + k + 1)%nat && negb (shift =? 0)
              then u32 (Z.shiftl (limb a i) (32 - shift)) else 0)
             (if bool_decide (i = j + k)%nat
              then Z.shiftr (limb a i) shift else 0)).
Proof.
  unfold shr_limb. destruct (negb (shift =? 0)); rewrite ?andb_false_r, ?andb_true_r;
    decide_conds; rewrite ?Z.lor_0_l, ?Z.lor_0_r; subst; (done || apply Z.lor_comm).
Qed.

Lemma op_shr_limbs a k shift :
  Forall is_u32 a → 0 <= shift < 32 →
  let r := for_up 0 WIDTH (op_shr_body a k shift) (zero WIDTH) in
  length r = WIDTH ∧ ∀ j, (j < WIDTH)%nat → limb r j = shr_limb a k shift WIDTH j.
Proof.
  intros Ha Hs.
  apply (for_up_inv (fun i r => length r = WIDTH ∧
    ∀ j, (j < WIDTH)%nat → limb r j = shr_limb a k shift i j)).
  - split; [apply length_replicate|]. intros j Hj. rewrite limb_zero.
    unfold shr_limb. decide_conds. done.
  - intros i r Hi [Hl Hr]. unfold op_shr_body. split.
    { destruct (_ && _), (bool_decide _); by rewrite ?length_insert. }
    intros j Hj. rewrite shr_limb_step, <- Hr by done.
    destruct (shift =? 0); simpl negb; rewrite ?andb_false_r, ?andb_true_r;
      decide_conds; rewrite ?limb_insert_dec, ?length_insert; decide_conds;
      rewrite ?limb_insert_dec, ?length_insert; decide_conds; subst;
      rewrite ?Z.lor_0_l, ?Z.lor_0_r;
      try (replace (j + k + 1 - k - 1)%nat with j by lia);
      try (replace (j + k - k)%nat with j by lia); done.
Qed.

Lemma limbs_ok_by_limb r f :
  length r = WIDTH → (∀ j, (j < WIDTH)%nat → limb r j = f j) →
  (∀ j, is_u32 (f j)) → ok r.
Proof.
  intros Hl Hr Hf. split; [done|]. apply Forall_lookup_2. intros i x Hx.
  pose proof (lookup_lt_Some _ _ _ Hx). specialize (Hr i).
  rewrite limb_lookup, Hx in Hr. simpl in Hr. rewrite Hr by lia. apply Hf.
Qed.

Lemma limb_out (a : t) j : (length a <= j)%nat → limb a j = 0.
Proof. intros. by rewrite limb_lookup, lookup_ge_None_2. Qed.

Lemma u32_testbit_high w n : is_u32 w → 32 <= n → Z.testbit w n = false.
Proof.
  intros Hw Hn. rewrite <- (u32_small w) by done. unfold u32.
  by rewrite Z.mod_pow2_bits_high by lia.
Qed.

(** Splitting a bit position into limb and offset. *)
Lemma pos_split n : n = 32 * (n / 32) + n mod 32 ∧ 0 <= n mod 32 < 32.
Proof. pose proof (Z.div_mod n 32). pose proof (Z.mod_pos_bound n 32). lia. Qed.

Lemma testbit_value_at pn q m :
  Forall is_u32 pn → 0 <= m < 32 → 0 <= q →
  Z.testbit (value pn) (32 * q + m) = Z.testbit (limb pn (Z.to_nat q)) m.
Proof.
  intros Hp Hm Hq. rewrite testbit_value by (done || lia).
  replace (32 * q + m) with (m + q * 32) by lia.
  rewrite Z.div_add, Z.mod_add by lia. by rewrite Z.div_small, Z.mod_small by lia.
Qed.

Lemma value_bits_above pn n : ok pn → 32 * Z.of_nat WIDTH <= n → Z.testbit (value pn) n = false.
Proof.
  intros Hp Hn. rewrite <- (Z.mod_small (value pn) M) by (by apply limbs_ok_bound).
  apply Z.mod_pow2_bits_high. lia.
Qed.

Lemma op_shl_ok pn s : ok pn → 0 <= s → ok (op_shl WIDTH pn s).
Proof.
  intros Hp Hs. pose proof (Z.mod_pos_bound s 32).
  destruct (op_shl_limbs pn (Z.to_nat (s / 32)) (s mod 32)) as [Hl Hr];
    [by apply limbs_ok_Forall with (W := WIDTH)|lia|].
  eapply limbs_ok_by_limb; [done|done|]. intros. apply shl_limb_is_u32; [|lia].
  by apply limbs_ok_Forall with (W := WIDTH).
Qed.

Lemma op_shl_value pn s :
  ok pn → 0 <= s → value (op_shl WIDTH pn s) = (value pn * 2 ^ s) mod M.
Proof.
  intros Hp Hs. pose proof (op_shl_ok pn s Hp Hs) as Hok.
  pose proof (limbs_ok_Forall _ _ Hp) as Hf.
  destruct (pos_split s) as [Es Hs32]. set (k := s / 32) in *. set (sh := s mod 32) in *.
  assert (0 <= k) by lia.
  destruct (op_shl_limbs pn (Z.to_nat k) sh Hf Hs32) as [Hl Hr].
  apply Z.bits_inj'. intros n Hn. rewrite <- Z.shiftl_mul_pow2 by done.
  destruct (Z.lt_ge_cases n (32 * Z.of_nat WIDTH)) as [Hlt|Hge].
  2: { rewrite value_bits_above by done. by rewrite Z.mod_pow2_bits_high by lia. }
  rewrite Z.mod_pow2_bits_low, Z.shiftl_spec by lia.
  destruct (pos_split n) as [En Hm]. set (j := n / 32) in *. set (m := n mod 32) in *.
  rewrite En at 1. rewrite testbit_value_at; [|by destruct Hok|done|lia].
  unfold op_shl. fold k sh. rewrite Hr by lia. unfold shl_limb.
  rewrite Z.lor_spec. rewrite Es, En.
  destruct (Z.lt_ge_cases m sh) as [Hmsh|Hmsh].
  - (* the bit comes from the limb below *)
    replace (Z.testbit (if bool_decide (Z.to_nat k <= Z.to_nat j ∧ Z.to_nat j - Z.to_nat k < WIDTH)%nat
      then u32 (Z.shiftl (limb pn (Z.to_nat j - Z.to_nat k)) sh) else 0) m) with false.
    2: { destruct (bool_decide _); [|by rewrite Z.bits_0].
         unfold u32. rewrite Z.mod_pow2_bits_low, Z.shiftl_spec_low by lia. done. }
    rewrite orb_false_r. destruct (Z.eqb_spec sh 0); [lia|]. simpl negb.
    rewrite andb_true_r. decide_conds.
    + rewrite Z.shiftr_spec by lia.
      replace (32 * j + m - (32 * k + sh)) with (32 * (j - k - 1) + (m + (32 - sh))) by lia.
      rewrite testbit_value_at by (done || lia).
      do 2 f_equal; lia.
    + rewrite Z.bits_0, Z.testbit_neg_r by lia. done.
  - replace (Z.testbit (if bool_decide _ && _ then _ else 0) m) with false.
    2: { destruct (_ && _); [|by rewrite Z.bits_0]. rewrite Z.shiftr_spec by lia.
         rewrite u32_testbit_high; [done|by apply limb_is_u32|lia]. }
    simpl orb. decide_conds.
    + unfold u32. rewrite Z.mod_pow2_bits_low, Z.shiftl_spec by lia.
      replace (32 * j + m - (32 * k + sh)) with (32 * (j - k) + (m - sh)) by lia.
      rewrite testbit_value_at by (done || lia). do 2 f_equal; lia.
    + rewrite Z.bits_0, Z.testbit_neg_r by lia. done.
Qed.

Lemma op_shr_ok pn s : ok pn → 0 <= s → ok (op_shr WIDTH pn s).
Proof.
  intros Hp Hs. pose proof (Z.mod_pos_bound s 32).
  destruct (op_shr_limbs pn (Z.to_nat (s / 32)) (s mod 32)) as [Hl Hr];
    [by apply limbs_ok_Forall with (W := WIDTH)|lia|].
  eapply limbs_ok_by_limb; [done|done|]. intros. apply shr_limb_is_u32; [|lia].
  by apply limbs_ok_Forall with (W := WIDTH).
Qed.

Lemma op_shr_value pn s :
  ok pn → 0 <= s → value (op_shr WIDTH pn s) = value pn / 2 ^ s.
Proof.
  intros Hp Hs. pose proof (op_shr_ok pn s Hp Hs) as Hok.
  destruct Hp as [Hlen Hf].
  destruct (pos_split s) as [Es Hs32]. set (k := s / 32) in *. set (sh := s mod 32) in *.
  assert (0 <= k) by lia.
  destruct (op_shr_limbs pn (Z.to_nat k) sh Hf Hs32) as [Hl Hr].
  apply Z.bits_inj'. intros n Hn. rewrite <- Z.shiftr_div_pow2, Z.shiftr_spec by done.
  destruct (Z.lt_ge_cases n (32 * Z.of_nat WIDTH)) as [Hlt|Hge].
  2: { rewrite !value_bits_above by (done || lia). done. }
  destruct (pos_split n) as [En Hm]. set (j := n / 32) in *. set (m := n mod 32) in *.
  rewrite En at 1. rewrite testbit_value_at; [|by destruct Hok|done|lia].
  unfold op_shr. fold k sh. rewrite Hr by lia. unfold shr_limb.
  rewrite Z.lor_spec. rewrite Es, En.
  destruct (Z.lt_ge_cases (m + sh) 32) as [Hmsh|Hmsh].
  - replace (Z.testbit (if bool_decide _ && _ then _ else 0) m) with false.
    2: { destruct (_ && _); [|by rewrite Z.bits_0].
         unfold u32. rewrite Z.mod_pow2_bits_low, Z.shiftl_spec_low by lia. done. }
    simpl orb. replace (32 * j + m + (32 * k + sh)) with (32 * (j + k) + (m + sh)) by lia.
    rewrite testbit_value_at by (done || lia).
    replace (Z.to_nat (j + k)) with (Z.to_nat j + Z.to_nat k)%nat by lia.
    decide_conds; [by rewrite Z.shiftr_spec by lia|].
    by rewrite limb_out, !Z.bits_0 by lia.
  - replace (Z.testbit (if bool_decide (Z.to_nat j + Z.to_nat k < WIDTH)%nat
      then Z.shiftr (limb pn (Z.to_nat j + Z.to_nat k)) sh else 0) m) with false.
    2: { destruct (bool_decide _); [|by rewrite Z.bits_0]. rewrite Z.shiftr_spec by lia.
         rewrite u32_testbit_high; [done|by apply limb_is_u32|lia]. }
    rewrite orb_false_r. destruct (Z.eqb_spec sh 0); [lia|]. simpl negb.
    rewrite andb_true_r.
    replace (32 * j + m + (32 * k + sh)) with (32 * (j + k + 1) + (m + sh - 32)) by lia.
    rewrite testbit_value_at by (done || lia).
    replace (Z.to_nat (j + k + 1)) with (Z.to_nat j + Z.to_nat k + 1)%nat by lia.
    decide_conds.
    + unfold u32. rewrite Z.mod_pow2_bits_low, Z.shiftl_spec by lia. f_equal. lia.
    + by rewrite limb_out, !Z.bits_0 by lia.
Qed.

(** ** Division *)

Lemma lor_fresh_bit x r : Z.testbit x r = false → 0 <= r → Z.lor x (2 ^ r) = x + 2 ^ r.
Proof.
  intros Hx Hr. rewrite <- Z.lxor_lor, <- Z.add_nocarry_lxor; [done| |];
    apply Z.bits_inj'; intros n Hn; rewrite Z.land_spec, Z.pow2_bits_eqb, Z.bits_0 by done;
    destruct (Z.eqb_spec r n) as [<-|]; rewrite ?Hx, ?andb_false_r; done.
Qed.

Lemma land_31 n : 0 <= n → Z.land n 31 = n mod 32.
Proof. intros. by apply (land_ones_mod n 5). Qed.

(** Setting bit [s] of a quotient whose low [s + 1] bits are clear. *)
Lemma set_bit_value q s :
  ok q → (s < 32 * WIDTH)%nat → value q mod 2 ^ (Z.of_nat s + 1) = 0 →
  let q' := <[(s / 32)%nat :=
      Z.lor (limb q (s / 32)) (u32 (Z.shiftl 1 (Z.land (Z.of_nat s) 31)))]> q in
  ok q' ∧ value q' = value q + 2 ^ Z.of_nat s.
Proof.
  intros Hq Hs Hlow q'.
  assert (Hi : (s / 32 < WIDTH)%nat) by (apply Nat.Div0.div_lt_upper_bound; lia).
  pose proof (limbs_ok_Forall _ _ Hq) as Hf.
  destruct (pos_split (Z.of_nat s)) as [Es Hm].
  assert (E1 : Z.to_nat (Z.of_nat s / 32) = (s / 32)%nat)
    by (change 32 with (Z.of_nat 32); rewrite <- Nat2Z.inj_div; lia).
  assert (Hbit : Z.testbit (limb q (s / 32)) (Z.of_nat s mod 32) = false).
  { rewrite <- E1, <- testbit_value by (done || lia).
    rewrite <- (Z.mod_pow2_bits_low _ (Z.of_nat s + 1)) by lia. by rewrite Hlow, Z.bits_0. }
  unfold q'. rewrite land_31, Z.shiftl_mul_pow2, Z.mul_1_l by lia.
  rewrite u32_small by (split; [lia|]; apply Z.pow_lt_mono_r; lia). split.
  - apply limbs_ok_insert; [done|]. apply lor_is_u32; [by apply limb_is_u32|].
    split; [lia|]. apply Z.pow_lt_mono_r; lia.
  - rewrite value_insert by (rewrite (limbs_ok_length _ _ Hq); lia).
    rewrite lor_fresh_bit by (done || lia).
    replace (2 ^ Z.of_nat s) with (2 ^ (Z.of_nat s mod 32) * 2 ^ (32 * Z.of_nat (s / 32)));
      [lia|].
    rewrite <- Z.pow_add_r by lia. f_equal. lia.
Qed.

Lemma CompareTo_ge pn b : ok pn → ok b → (0 <=? CompareTo WIDTH pn b) = (value b <=? value pn).
Proof.
  intros. rewrite CompareTo_spec by done. unfold Z.leb at 2.
  rewrite (Z.compare_antisym (value pn)). by destruct (value pn ?= value b).
Qed.

(** What the division loop maintains when [m] iterations remain. *)
Definition div_inv (N D : Z) (m : nat) (s : t * t * t) : Prop :=
  let '(q, num, div) := s in
  ok q ∧ ok num ∧ ok div ∧
  (m ≠ 0%nat → value div = D * 2 ^ (Z.of_nat m - 1)) ∧
  value q * D + value num = N ∧ value num < D * 2 ^ Z.of_nat m ∧
  value q mod 2 ^ Z.of_nat m = 0.

Lemma op_div_step N D m s :
  0 < D → (m < 32 * WIDTH)%nat →
  div_inv N D (S m) s → div_inv N D m (op_div_body WIDTH m s).
Proof.
  intros HD Hm. destruct s as [[q num] div]. unfold div_inv, op_div_body.
  intros (Hq & Hn & Hd & Hdv & HN & Hlt & Hlow).
  specialize (Hdv ltac:(lia)). replace (Z.of_nat (S m) - 1) with (Z.of_nat m) in Hdv by lia.
  replace (Z.of_nat (S m)) with (Z.of_nat m + 1) in Hlt, Hlow by lia.
  rewrite Z.pow_add_r in Hlt by lia. change (2 ^ 1) with 2 in Hlt.
  assert (Hdiv1 : m ≠ 0%nat → value (op_shr WIDTH div 1) = D * 2 ^ (Z.of_nat m - 1)).
  { intros Hm0. rewrite op_shr_value, Hdv by (done || lia).
    replace (2 ^ Z.of_nat m) with (2 ^ (Z.of_nat m - 1) * 2 ^ 1)
      by (rewrite <- Z.pow_add_r by lia; f_equal; lia).
    rewrite Z.mul_assoc, Z.div_mul by lia. done. }
  pose proof (limbs_ok_bound _ _ Hn) as Hnb. pose proof (limbs_ok_bound _ _ Hd) as Hdb.
  rewrite CompareTo_ge by done. destruct (Z.leb_spec (value div) (value num)) as [Hle|Hgt].
  - destruct (set_bit_value q m Hq Hm Hlow) as [Hq' Hqv]. cbv zeta in Hqv.
    assert (Hsub : value (op_sub WIDTH num div) = value num - value div).
    { rewrite op_sub_value by done. apply Z.mod_small. lia. }
    split_and!; auto using op_sub_ok.
    + apply op_shr_ok; [done|lia].
    + rewrite Hqv, Hsub. lia.
    + rewrite Hsub. lia.
    + rewrite Hqv. rewrite <- Z.add_mod_idemp_r, Z.mod_same, Z.add_0_r by lia.
      rewrite Z.add_1_r, Z.pow_succ_r in Hlow by lia.
      apply Z.mod_divide in Hlow as [c ->]; [|lia].
      rewrite Z.mul_assoc. apply Z.mod_mul. lia.
  - split_and!; auto; [apply op_shr_ok; [done|lia]|lia|].
    rewrite Z.add_1_r, Z.pow_succ_r in Hlow by lia.
    apply Z.mod_divide in Hlow as [c ->]; [|lia].
    rewrite Z.mul_assoc. apply Z.mod_mul. lia.
Qed.

Lemma op_div_zero pn b : ok b → value b = 0 → op_div WIDTH pn b = None.
Proof. intros Hb H0. unfold op_div. by rewrite (bits_spec b), H0 by done. Qed.

Lemma op_div_spec pn b :
  (2 <= WIDTH)%nat → ok pn → ok b → value b ≠ 0 →
  ∃ q, op_div WIDTH pn b = Some q ∧ ok q ∧ value q = value pn / value b.
Proof.
  intros HW Hp Hb Hne. unfold op_div.
  destruct (bits_bounds pn Hp) as (Hpb & Hpu & Hpl).
  destruct (bits_bounds b Hb) as (Hbb & Hbu & Hbl).
  pose proof (limbs_ok_bound _ _ Hb). specialize (Hbl ltac:(lia)).
  destruct (of_u64_spec 0 HW ltac:(done)) as [Hz1 Hz2].
  destruct (Z.eqb_spec (bits WIDTH b) 0) as [E|Hb0].
  { rewrite E in Hbu. change (2 ^ 0) with 1 in Hbu. lia. }
  destruct (Z.ltb_spec (bits WIDTH pn) (bits WIDTH b)) as [Hlt|Hge].
  { exists (of_u64 WIDTH 0). split_and!; auto. rewrite Hz2. symmetry. apply Z.div_small.
    pose proof (limbs_ok_bound _ _ Hp). split; [lia|].
    apply Z.lt_le_trans with (2 ^ bits WIDTH pn); [done|].
    etransitivity; [|exact Hbl]. apply Z.pow_le_mono_r; lia. }
  set (shift := bits WIDTH pn - bits WIDTH b) in *.
  set (s0 := (of_u64 WIDTH 0, pn, op_shl WIDTH b shift)).
  pose proof (for_down_inv (div_inv (value pn) (value b)) (S (Z.to_nat shift))
                (op_div_body WIDTH) s0) as Hinv.
  destruct (for_down _ _ s0) as [[q num] dv] eqn:Ef.
  assert (Hfin : div_inv (value pn) (value b) 0 (q, num, dv)).
  { apply Hinv.
    - unfold div_inv, s0. rewrite Hz2. split_and!; auto.
      + apply op_shl_ok; [done|lia].
      + intros _. rewrite op_shl_value by (done || lia).
        replace (Z.of_nat (S (Z.to_nat shift)) - 1) with shift by lia.
        apply Z.mod_small. split; [apply Z.mul_nonneg_nonneg; [lia|apply Z.pow_nonneg; lia]|].
        apply Z.lt_le_trans with (2 ^ bits WIDTH b * 2 ^ shift).
        { apply Z.mul_lt_mono_pos_r; [apply Z.pow_pos_nonneg; lia|done]. }
        rewrite <- Z.pow_add_r by lia. apply Z.pow_le_mono_r; lia.
      + replace (Z.of_nat (S (Z.to_nat shift))) with (shift + 1) by lia.
        apply Z.lt_le_trans with (2 ^ bits WIDTH pn); [done|].
        replace (bits WIDTH pn) with ((bits WIDTH b - 1) + (shift + 1)) by lia.
        rewrite Z.pow_add_r by lia. apply Z.mul_le_mono_nonneg_r; [|done].
        apply Z.pow_nonneg; lia.
    - intros m s Hm. apply op_div_step; lia. }
  destruct Hfin as (Hq & Hn & _ & _ & HN & Hlt & _). exists q. split_and!; auto.
  pose proof (limbs_ok_bound _ _ Hn). change (2 ^ Z.of_nat 0) with 1 in Hlt.
  apply (Z.div_unique_pos _ _ _ (value num)); lia.
Qed.
End Correct.

End base_uint.

(** ** [arith_uint256] *)

Module arith_uint256.
Import base_uint.

Definition W256 : nat := 8.

(** [SetCompact]: the target, [*pfNegative] and [*pfOverflow]. *)
Definition SetCompact (nCompact : Z) : t * bool * bool :=
  let nSize := Z.shiftr nCompact 24 in
  let nWord := Z.land nCompact 0x007fffff in
  let '(this, nWord) :=
    if nSize <=? 3 then
      let nWord := Z.shiftr nWord (8 * (3 - nSize)) in
      (of_u64 W256 nWord, nWord)
    else (op_shl W256 (of_u64 W256 nWord) (8 * (nSize - 3)), nWord) in
  (this,
   negb (nWord =? 0) && negb (Z.land nCompact 0x00800000 =? 0),
   negb (nWord =? 0) &&
     ((34 <? nSize) || ((0xff <? nWord) && (33 <? nSize))
      || ((0xffff <? nWord) && (32 <? nSize)))).

(** [GetCompact(fNegative)]; the two assertions are [GetCompact_asserts]. *)
Definition GetCompact_mantissa (pn : t) : Z * Z :=
  let nSize := (bits W256 pn + 7) / 8 in
  let nCompact :=
    if nSize <=? 3 then u32 (u64 (Z.shiftl (GetLow64 pn) (8 * (3 - nSize))))
    else u32 (GetLow64 (op_shr W256 pn (8 * (nSize - 3)))) in
  if negb (Z.land nCompact 0x00800000 =? 0) then (Z.shiftr nCompact 8, nSize + 1)
  else (nCompact, nSize).

Definition GetCompact (pn : t) (fNegative : bool) : Z :=
  let '(nCompact, nSize) := GetCompact_mantissa pn in
  let nCompact := Z.lor nCompact (u32 (Z.shiftl nSize 24)) in
  Z.lor nCompact
    (if fNegative && negb (Z.land nCompact 0x007fffff =? 0) then 0x00800000 else 0).

(** [uint256] is a 32-byte blob; [ArithToUint256] and [UintToArith256] write
    and read each limb as four little-endian bytes. *)
Definition WriteLE32 (x : Z) : bytes :=
  [u8 x; u8 (Z.shiftr x 8); u8 (Z.shiftr x 16); u8 (Z.shiftr x 24)].

Definition ReadLE32 (p : bytes) : Z :=
  match p with
  | b0 :: b1 :: b2 :: b3 :: _ =>
      Z.lor b0 (Z.lor (Z.shiftl b1 8) (Z.lor (Z.shiftl b2 16) (Z.shiftl b3 24)))
  | _ => 0
  end.

Definition ArithToUint256 (a : t) : bytes := flat_map WriteLE32 a.

Definition UintToArith256 (a : bytes) : t :=
  map (fun x => ReadLE32 (drop (4 * x) a)) (seq 0 W256).

(** ** Compact targets *)

Abbreviation ok256 := (limbs_ok W256).

Lemma of_u64_256 b : is_u64 b → ok256 (of_u64 W256 b) ∧ value (of_u64 W256 b) = b.
Proof. apply of_u64_spec. unfold W256. lia. Qed.

(** Exponent and mantissa of a compact word. *)
Definition compact_size (nCompact : Z) : Z := Z.shiftr nCompact 24.
Definition compact_word (nCompact : Z) : Z := Z.land nCompact 0x007fffff.

Lemma compact_parts n :
  is_u32 n → 0 <= compact_size n < 2 ^ 8 ∧ 0 <= compact_word n < 2 ^ 23.
Proof.
  intros [? ?]. unfold compact_size, compact_word. change 0x007fffff with (2 ^ 23 - 1).
  rewrite Z.shiftr_div_pow2, (land_ones_mod n 23) by lia. split.
  - split; [apply Z.div_pos; lia|]. apply Z.div_lt_upper_bound; lia.
  - apply Z.mod_pos_bound. lia.
Qed.

Lemma compact_pack m e :
  0 <= m < 2 ^ 23 → 0 <= e < 2 ^ 8 →
  let c := Z.lor m (u32 (Z.shiftl e 24)) in
  c = m + e * 2 ^ 24 ∧ compact_size c = e ∧ compact_word c = m ∧ is_u32 c.
Proof.
  intros Hm He. rewrite Z.shiftl_mul_pow2 by lia.
  rewrite u32_small by (split; lia).
  cbv zeta. rewrite lor_add_disjoint by lia. unfold compact_size, compact_word. change 0x007fffff with (2 ^ 23 - 1).
  rewrite Z.shiftr_div_pow2, (land_ones_mod _ 23) by lia. split_and!; [done| | |].
  - rewrite Z.div_add, Z.div_small by lia. lia.
  - replace (m + e * 2 ^ 24) with (m + (e * 2) * 2 ^ 23) by lia.
    rewrite Z.mod_add by lia. apply Z.mod_small. lia.
  - widths. lia.
Qed.

Lemma SetCompact_ok n : is_u32 n → ok256 (fst (fst (SetCompact n))).
Proof.
  intros Hn. destruct (compact_parts n Hn) as [Hs Hw]. unfold SetCompact.
  fold (compact_size n) (compact_word n).
  destruct (Z.leb_spec (compact_size n) 3); cbn [fst snd].
  - apply of_u64_256. split; [apply Z.shiftr_nonneg; lia|].
    rewrite Z.shiftr_div_pow2 by lia.
    apply Z.le_lt_trans with (compact_word n); [|lia].
    pose proof (Z.pow_pos_nonneg 2 (8 * (3 - compact_size n))).
    apply Z.div_le_upper_bound; nia.
  - apply op_shl_ok; [|lia]. apply of_u64_256. widths. lia.
Qed.

(** The number a compact word denotes, before reduction to 256 bits. *)
Definition compact_magnitude (n : Z) : Z :=
  if compact_size n <=? 3 then compact_word n / 2 ^ (8 * (3 - compact_size n))
  else compact_word n * 2 ^ (8 * (compact_size n - 3)).

Lemma SetCompact_value n :
  is_u32 n → value (fst (fst (SetCompact n))) = compact_magnitude n mod 2 ^ 256.
Proof.
  intros Hn. destruct (compact_parts n Hn) as [Hs Hw]. unfold SetCompact.
  fold (compact_size n) (compact_word n). unfold compact_magnitude.
  destruct (Z.leb_spec (compact_size n) 3); cbn [fst snd].
  - rewrite Z.shiftr_div_pow2 by lia.
    assert (0 <= compact_word n / 2 ^ (8 * (3 - compact_size n)) < 2 ^ 23).
    { pose proof (Z.pow_pos_nonneg 2 (8 * (3 - compact_size n))).
      split; [apply Z.div_pos; lia|]. apply Z.div_lt_upper_bound; nia. }
    rewrite Z.mod_small by lia. apply of_u64_256. widths. lia.
  - destruct (of_u64_256 (compact_word n)) as [H1 H2]; [widths; lia|].
    by rewrite op_shl_value, H2 by (done || lia).
Qed.

Lemma SetCompact_overflow n :
  is_u32 n → snd (SetCompact n) = (2 ^ 256 <=? compact_magnitude n).
Proof.
  intros Hn. destruct (compact_parts n Hn) as [Hs Hw]. unfold SetCompact.
  fold (compact_size n) (compact_word n). unfold compact_magnitude.
  destruct (Z.leb_spec (compact_size n) 3) as [Hsz|Hsz]; cbn [fst snd].
  - assert (compact_word n / 2 ^ (8 * (3 - compact_size n)) < 2 ^ 23).
    { pose proof (Z.pow_pos_nonneg 2 (8 * (3 - compact_size n))).
      apply Z.div_lt_upper_bound; nia. }
    destruct (Z.leb_spec (2 ^ 256) (compact_word n / 2 ^ (8 * (3 - compact_size n)))); [lia|].
    destruct (Z.ltb_spec 34 (compact_size n)), (Z.ltb_spec 33 (compact_size n)),
      (Z.ltb_spec 32 (compact_size n)); try lia.
  - set (w := compact_word n) in *. set (e := compact_size n) in *.
    destruct (Z.eqb_spec w 0) as [->|]; [done|]. simpl negb. rewrite andb_true_l.
    destruct (Z.ltb_spec 34 e); simpl orb.
    { symmetry. apply Z.leb_le. apply Z.le_trans with (1 * 2 ^ 256); [lia|].
      apply Z.mul_le_mono_nonneg; try lia. apply Z.pow_le_mono_r; lia. }
    destruct (Z.ltb_spec 33 e).
    { replace e with 34 by lia. change (8 * (34 - 3)) with 248. lia. }
    rewrite andb_false_r. simpl orb.
    destruct (Z.ltb_spec 32 e).
    { replace e with 33 by lia. change (8 * (33 - 3)) with 240. lia. }
    rewrite andb_false_r. symmetry. apply Z.leb_gt.
    apply Z.lt_le_trans with (2 ^ 23 * 2 ^ (8 * (e - 3))).
    { apply Z.mul_lt_mono_pos_r; [apply Z.pow_pos_nonneg; lia|lia]. }
    rewrite <- Z.pow_add_r by lia. apply Z.pow_le_mono_r; lia.
Qed.

Lemma GetLow64_value pn : ok256 pn → GetLow64 pn = value pn mod 2 ^ 64.
Proof.
  intros Hp. unfold GetLow64.
  pose proof (limb_is_u32 pn 0 (limbs_ok_Forall _ _ Hp)) as H0.
  pose proof (limb_is_u32 pn 1 (limbs_ok_Forall _ _ Hp)) as H1.
  rewrite Z.shiftl_mul_pow2 by lia. rewrite u64_small by (widths; lia).
  destruct Hp as [Hl Hf]. destruct pn as [|w0 [|w1 pn]]; [done|done|].
  unfold limb in *. simpl nth in *. simpl value.
  replace (w0 + 2 ^ 32 * (w1 + 2 ^ 32 * value pn))
    with (w0 + w1 * 2 ^ 32 + value pn * 2 ^ 64) by lia.
  rewrite Z.mod_add, Z.mod_small by (widths; lia).
  apply lor_add_disjoint; [lia|done].
Qed.

(** The word [GetCompact] extracts before it makes room for the sign bit. *)
Lemma GetCompact_raw pn :
  ok256 pn →
  let v := value pn in
  let s := (bits W256 pn + 7) / 8 in
  let c := if s <=? 3 then u32 (u64 (Z.shiftl (GetLow64 pn) (8 * (3 - s))))
           else u32 (GetLow64 (op_shr W256 pn (8 * (s - 3)))) in
  0 <= s <= 32 ∧ v < 2 ^ (8 * s) ∧ (0 < v → 2 ^ (8 * (s - 1)) <= v) ∧
  0 <= c < 2 ^ 24 ∧
  c = if s <=? 3 then v * 2 ^ (8 * (3 - s)) else v / 2 ^ (8 * (s - 3)).
Proof.
  intros Hp. cbv zeta. destruct (bits_bounds W256 pn Hp) as (Hb & Hu & Hl).
  pose proof (limbs_ok_bound _ _ Hp) as [Hv _].
  set (b := bits W256 pn) in *. set (v := value pn) in *. set (s := (b + 7) / 8) in *.
  change (32 * Z.of_nat W256) with 256 in Hb.
  assert (Hs : 8 * (s - 1) < b <= 8 * s ∨ (b = 0 ∧ s = 0)).
  { unfold s. pose proof (Z.div_mod (b + 7) 8). pose proof (Z.mod_pos_bound (b + 7) 8). lia. }
  assert (0 <= s <= 32) by lia.
  assert (Hvs : v < 2 ^ (8 * s))
    by (eapply Z.lt_le_trans; [exact Hu|]; apply Z.pow_le_mono_r; lia).
  assert (Hvl : 0 < v → 2 ^ (8 * (s - 1)) <= v).
  { intros Hpos. destruct Hs as [Hs|[-> _]]; [|change (2 ^ 0) with 1 in Hu; lia].
    etransitivity; [|by apply Hl]. apply Z.pow_le_mono_r; lia. }
  destruct (Z.leb_spec s 3) as [Hs3|Hs3].
  - assert (E : v * 2 ^ (8 * (3 - s)) < 2 ^ 24).
    { replace 24 with (8 * s + 8 * (3 - s)) by lia. rewrite Z.pow_add_r by lia.
      apply Z.mul_lt_mono_pos_r; [apply Z.pow_pos_nonneg; lia|done]. }
    pose proof (Z.pow_pos_nonneg 2 (8 * (3 - s))).
    rewrite GetLow64_value, Z.shiftl_mul_pow2 by (done || lia). fold v.
    rewrite (Z.mod_small v) by (split; [done|]; nia).
    rewrite u64_small, u32_small by (widths; nia). split_and!; try done; nia.
  - assert (0 <= v / 2 ^ (8 * (s - 3)) < 2 ^ 24).
    { split; [apply Z.div_pos; [done|]; apply Z.pow_pos_nonneg; lia|].
      apply Z.div_lt_upper_bound; [apply Z.pow_pos_nonneg; lia|].
      rewrite <- Z.pow_add_r by lia. eapply Z.lt_le_trans; [exact Hvs|].
      apply Z.pow_le_mono_r; lia. }
    rewrite GetLow64_value by (apply op_shr_ok; [done|lia]).
    rewrite op_shr_value by (done || lia). fold v.
    rewrite Z.mod_small by lia. rewrite u32_small by (widths; lia). split_and!; try done; lia.
Qed.

(** The mantissa and exponent of the canonical encoding: the mantissa leaves
    the sign bit clear and keeps at least fifteen significant bits. *)
Lemma GetCompact_mantissa_spec pn m e :
  ok256 pn → GetCompact_mantissa pn = (m, e) →
  0 <= m < 2 ^ 23 ∧ 0 <= e <= 33 ∧ (e = 33 → m <= 0xffff) ∧
  m = (if e <=? 3 then value pn * 2 ^ (8 * (3 - e)) else value pn / 2 ^ (8 * (e - 3))) ∧
  (0 < value pn → 2 ^ 15 <= m).
Proof.
  intros Hp. unfold GetCompact_mantissa.
  destruct (GetCompact_raw pn Hp) as (Hs & Hvs & Hvl & Hc & Ec). cbv zeta in *.
  set (s := (bits W256 pn + 7) / 8) in *. set (v := value pn) in *.
  set (c := if s <=? 3 then _ else _) in *. clearbody c.
  assert (0 <= v) by apply (limbs_ok_bound _ _ Hp).
  change 0x00800000 with (2 ^ 23). rewrite land_pow2_testbit, testbit_top by lia.
  assert (Hlow : 0 < v → 2 ^ 16 <= c).
  { intros Hpos. specialize (Hvl Hpos). subst c. destruct (Z.leb_spec s 3).
    - assert (0 < s) by (destruct (Z.eq_dec s 0) as [->|];
                         [change (2 ^ (8 * 0)) with 1 in Hvs; lia|lia]).
      replace 16 with (8 * (s - 1) + 8 * (3 - s)) by lia. rewrite Z.pow_add_r by lia.
      apply Z.mul_le_mono_nonneg_r; [apply Z.pow_nonneg; lia|done].
    - apply Z.div_le_lower_bound; [apply Z.pow_pos_nonneg; lia|].
      rewrite <- Z.pow_add_r by lia. etransitivity; [|exact Hvl].
      apply Z.pow_le_mono_r; lia. }
  destruct (Z.leb_spec (2 ^ 23) c) as [Hge|Hlt]; intros [= <- <-].
  - rewrite Z.shiftr_div_pow2 by lia.
    assert (2 ^ 15 <= c / 2 ^ 8 < 2 ^ 16)
      by (split; [apply Z.div_le_lower_bound|apply Z.div_lt_upper_bound]; lia).
    split_and!; try lia. subst c. destruct (Z.leb_spec s 3).
    + destruct (Z.eq_dec s 3) as [->|].
      * change (3 + 1 <=? 3) with false. cbv iota. change (8 * (3 - 3)) with 0.
        by rewrite Z.pow_0_r, Z.mul_1_r.
      * replace (s + 1 <=? 3) with true by lia.
        replace (8 * (3 - s)) with (8 * (3 - (s + 1)) + 8) by lia.
        rewrite Z.pow_add_r, Z.mul_assoc, Z.div_mul by lia. done.
    + replace (s + 1 <=? 3) with false by lia.
      rewrite Z.div_div by (try (apply Z.pow_nonzero; lia); lia).
      rewrite <- Z.pow_add_r by lia. do 2 f_equal. lia.
  - split_and!; lia.
Qed.

(** Both assertions of [GetCompact]. *)
Lemma GetCompact_asserts pn m e :
  ok256 pn → GetCompact_mantissa pn = (m, e) →
  Z.land m (Z.lnot 0x007fffff) = 0 ∧ e < 256.
Proof.
  intros Hp Hm. destruct (GetCompact_mantissa_spec pn m e Hp Hm) as (Hb & He & _).
  split; [|lia]. apply Z.bits_inj'. intros n Hn.
  rewrite Z.land_spec, Z.lnot_spec, Z.bits_0 by done.
  change 0x007fffff with (Z.ones 23). destruct (Z.lt_ge_cases n 23).
  - rewrite Z.ones_spec_low by lia. apply andb_false_r.
  - rewrite <- (Z.mod_small m (2 ^ 23)) by lia. by rewrite Z.mod_pow2_bits_high by lia.
Qed.

Lemma GetCompact_unsigned pn m e :
  ok256 pn → GetCompact_mantissa pn = (m, e) →
  let c := GetCompact pn false in
  compact_size c = e ∧ compact_word c = m ∧ is_u32 c ∧ Z.land c 0x00800000 = 0.
Proof.
  intros Hp Hm. destruct (GetCompact_mantissa_spec pn m e Hp Hm) as (Hb & He & _).
  unfold GetCompact. rewrite Hm. simpl andb. cbv iota. rewrite Z.lor_0_r.
  destruct (compact_pack m e) as (Ec & H1 & H2 & H3); [lia|lia|]. cbv zeta in *.
  split_and!; try done. rewrite Ec.
  assert (Ht : Z.testbit (m + e * 2 ^ 24) 23 = false).
  { rewrite <- (Z.mod_pow2_bits_low _ 24) by lia. rewrite Z.mod_add by lia.
    rewrite Z.mod_pow2_bits_low, testbit_top by lia. lia. }
  pose proof (land_pow2_testbit (m + e * 2 ^ 24) 23) as Hl. rewrite Ht in Hl.
  apply Z.eqb_eq. change 0x00800000 with (2 ^ 23).
  by apply negb_false_iff, Hl.
Qed.

(** Decoding what [GetCompact] encodes: no sign, no overflow, and the value
    rounded down to the mantissa's precision. *)
Lemma SetCompact_GetCompact_round pn m e :
  ok256 pn → GetCompact_mantissa pn = (m, e) →
  ∃ r, SetCompact (GetCompact pn false) = (r, false, false) ∧ ok256 r ∧
       value r = if e <=? 3 then value pn
                 else value pn / 2 ^ (8 * (e - 3)) * 2 ^ (8 * (e - 3)).
Proof.
  intros Hp Hm. destruct (GetCompact_mantissa_spec pn m e Hp Hm) as (Hb & He & H33 & Em & _).
  destruct (GetCompact_unsigned pn m e Hp Hm) as (Es & Ew & Hu & Hsign). cbv zeta in *.
  set (c := GetCompact pn false) in *.
  pose proof (limbs_ok_bound _ _ Hp) as Hv. change (32 * Z.of_nat W256) with 256 in Hv.
  assert (Emag : compact_magnitude c = if e <=? 3 then value pn
                 else value pn / 2 ^ (8 * (e - 3)) * 2 ^ (8 * (e - 3))).
  { unfold compact_magnitude. rewrite Es, Ew, Em. destruct (e <=? 3) eqn:E; [|done].
    apply Z.div_mul. apply Z.pow_nonzero; lia. }
  assert (Hmag : 0 <= compact_magnitude c < 2 ^ 256).
  { rewrite Emag. destruct (Z.leb_spec e 3); [done|].
    pose proof (Z.pow_pos_nonneg 2 (8 * (e - 3))).
    pose proof (Z.mul_div_le (value pn) (2 ^ (8 * (e - 3)))).
    pose proof (Z.div_pos (value pn) (2 ^ (8 * (e - 3)))). split; nia. }
  pose proof (SetCompact_ok c Hu) as Hok. pose proof (SetCompact_value c Hu) as Hval.
  pose proof (SetCompact_overflow c Hu) as Hov.
  assert (Hneg : snd (fst (SetCompact c)) = false).
  { unfold SetCompact. rewrite Hsign. destruct (Z.shiftr c 24 <=? 3); cbn [fst snd];
      by rewrite andb_false_r. }
  destruct (SetCompact c) as [[r ng] ov]. cbn [fst snd] in *. exists r.
  rewrite Z.mod_small in Hval by done. split_and!; [|done|congruence].
  subst ng. f_equal. rewrite Hov. apply Z.leb_gt. lia.
Qed.

Lemma compact_exponent_le n m e :
  is_u32 n → snd (SetCompact n) = false →
  GetCompact_mantissa (fst (fst (SetCompact n))) = (m, e) →
  3 < e → e <= compact_size n.
Proof.
  intros Hn Hov Hm He.
  pose proof (SetCompact_ok n Hn) as Hok. pose proof (SetCompact_value n Hn) as Hval.
  rewrite SetCompact_overflow in Hov by done. apply Z.leb_gt in Hov.
  destruct (compact_parts n Hn) as [Hs Hw].
  destruct (GetCompact_mantissa_spec _ _ _ Hok Hm) as (Hb & _ & _ & Em & _).
  destruct (Z.leb_spec e 3) as [|_]; [lia|].
  assert (0 <= compact_magnitude n).
  { unfold compact_magnitude. destruct (Z.leb_spec (compact_size n) 3).
    - apply Z.div_pos; [lia|]. apply Z.pow_pos_nonneg; lia.
    - apply Z.mul_nonneg_nonneg; [lia|apply Z.pow_nonneg; lia]. }
  rewrite Z.mod_small in Hval by lia.
  destruct (Z.le_gt_cases e (compact_size n)) as [|Hgt]; [done|]. exfalso.
  destruct (GetCompact_raw _ Hok) as (Hs' & Hvs & Hvl & Hc & Ec). cbv zeta in *.
  unfold GetCompact_mantissa in Hm. cbv zeta in Hm.
  set (s := (bits W256 (fst (fst (SetCompact n))) + 7) / 8) in *.
  set (c := if s <=? 3 then _ else _) in *. clearbody c.
  set (v := value (fst (fst (SetCompact n)))) in *.
  (* [v] fits below the sign bit of an encoding with exponent [compact_size n] *)
  assert (Hvb : v < 2 ^ (8 * (Z.max 3 (compact_size n) - 3) + 23)).
  { rewrite Hval. unfold compact_magnitude. destruct (Z.leb_spec (compact_size n) 3).
    - rewrite Z.max_l by lia. apply Z.div_lt_upper_bound.
      + apply Z.pow_pos_nonneg; lia.
      + pose proof (Z.pow_pos_nonneg 2 (8 * (3 - compact_size n))). simpl. nia.
    - rewrite Z.max_r, Z.pow_add_r, Z.mul_comm by lia.
      apply Z.mul_lt_mono_pos_l; [apply Z.pow_pos_nonneg; lia|lia]. }
  assert (Hsle : 0 < v → s <= Z.max 3 (compact_size n)).
  { intros Hpos. specialize (Hvl Hpos).
    assert (8 * (s - 1) < 8 * (Z.max 3 (compact_size n) - 3) + 23); [|lia].
    apply (Z.pow_lt_mono_r_iff 2); lia. }
  change 0x00800000 with (2 ^ 23) in Hm.
  rewrite land_pow2_testbit, testbit_top in Hm by lia.
  destruct (Z.leb_spec (2 ^ 23) c) as [Hge|]; injection Hm as <- <-.
  - assert (0 < v) as Hpos.
    { destruct (Z.eq_dec v 0) as [E|]; [|pose proof (limbs_ok_bound _ _ Hok); lia].
      rewrite Ec, E in Hge. destruct (s <=? 3); rewrite ?Z.mul_0_l, ?Z.div_0_l in Hge; lia. }
    specialize (Hsle Hpos).
    assert (s = Z.max 3 (compact_size n)) as Es by lia.
    assert (c < 2 ^ 23); [|lia]. rewrite Ec. destruct (Z.leb_spec s 3) as [Hs3|Hs3].
    + assert (s = 3) as -> by lia. rewrite Z.mul_1_r.
      rewrite <- Es in Hvb. done.
    + apply Z.div_lt_upper_bound; [apply Z.pow_pos_nonneg; lia|].
      rewrite <- Z.pow_add_r by lia. rewrite <- Es in Hvb. done.
  - destruct (Z.eq_dec v 0) as [E|].
    + rewrite E in Hvl, Hvs. assert (s = 0); [|lia].
      unfold s. rewrite bits_spec by done. fold v. by rewrite E.
    + pose proof (limbs_ok_bound _ _ Hok). fold v in H0. specialize (Hsle ltac:(lia)). lia.
Qed.

(** ** Properties *)

(** C1: on arrays of any width, [operator+=], [-=], [*=], [<<=], [>>=], unary
    [-], [~], [++] and [--] implement arithmetic modulo [2^BITS], keep the class
    invariant, and [CompareTo] is the order of the numbers. *)
Theorem base_uint_refines_Z (W : nat) (a b : t) (s : Z) :
  (2 <= W)%nat → limbs_ok W a → limbs_ok W b → 0 <= s →
  let M := 2 ^ (32 * Z.of_nat W) in
  let implements r z := limbs_ok W r ∧ value r = z mod M in
  implements (op_add W a b) (value a + value b) ∧
  implements (op_sub W a b) (value a - value b) ∧
  implements (op_mul W a b) (value a * value b) ∧
  implements (op_shl W a s) (value a * 2 ^ s) ∧
  implements (op_shr W a s) (value a / 2 ^ s) ∧
  implements (op_neg a) (- value a) ∧
  implements (op_not a) (- value a - 1) ∧
  implements (op_incr a) (value a + 1) ∧
  implements (op_decr a) (value a - 1) ∧
  CompareTo W a b = sign_of (value a ?= value b).
Proof.
  intros HW Ha Hb Hs M implements. unfold implements, M.
  pose proof (limbs_ok_bound _ _ Ha) as Hva.
  split_and!; auto using op_add_ok, op_sub_ok, op_mul_ok, op_shl_ok, op_shr_ok,
    op_add_value, op_sub_value, op_mul_value, op_shl_value, CompareTo_spec.
  - rewrite op_shr_value by done. symmetry. apply Z.mod_small.
    pose proof (Z.pow_pos_nonneg 2 s). split; [apply Z.div_pos; lia|].
    apply Z.div_lt_upper_bound; nia.
  - by apply op_neg_spec.
  - by apply op_neg_spec.
  - by apply op_not_spec.
  - destruct (op_not_spec _ _ Ha) as [_ ->]. apply (Z.mod_unique _ _ (-1)); lia.
  - by apply op_incr_spec.
  - by apply op_incr_spec.
  - by apply op_decr_spec.
  - by apply op_decr_spec.
Qed.

Lemma base_uint_refines_Z_witness :
  value (op_mul 8 (of_u64 8 (2 ^ 63 + 5)) (of_u64 8 (2 ^ 64 - 1)))
  = ((2 ^ 63 + 5) * (2 ^ 64 - 1)) mod 2 ^ 256.
Proof.
  apply (base_uint_refines_Z 8 (of_u64 8 (2 ^ 63 + 5)) (of_u64 8 (2 ^ 64 - 1)) 1).
  - repeat constructor.
  - by_eval.
  - by_eval.
  - lia.
Defined.

(** [operator/=] throws exactly on a zero divisor and otherwise its
    shift-and-subtract loop returns the quotient of the two numbers. *)
Theorem base_uint_division (W : nat) (a b : t) :
  (2 <= W)%nat → limbs_ok W a → limbs_ok W b →
  match op_div W a b with
  | None => value b = 0
  | Some q => value b ≠ 0 ∧ limbs_ok W q ∧ value q = value a / value b
  end.
Proof.
  intros HW Ha Hb. destruct (Z.eq_dec (value b) 0) as [E|Hne].
  - by rewrite op_div_zero.
  - by destruct (op_div_spec W a b) as (q & -> & ? & ?).
Qed.

Lemma base_uint_division_witness :
  match op_div 8 (of_u64 8 1000000007) (of_u64 8 97) with
  | None => value (of_u64 8 97) = 0
  | Some q => value (of_u64 8 97) ≠ 0 ∧ limbs_ok 8 q ∧
              value q = value (of_u64 8 1000000007) / value (of_u64 8 97)
  end.
Proof.
  apply base_uint_division.
  - repeat constructor.
  - by_eval.
  - by_eval.
Defined.

(** Encoding a 256-bit target with [GetCompact] and decoding it with
    [SetCompact] never reports a sign or an overflow, both assertions of the
    encoder hold, and the result is the target rounded down by at most one part
    in [2^15]. *)
Theorem compact_encoding_precision (pn : t) :
  limbs_ok W256 pn →
  let '(m, e) := GetCompact_mantissa pn in
  Z.land m (Z.lnot 0x007fffff) = 0 ∧ e < 256 ∧
  ∃ r, SetCompact (GetCompact pn false) = (r, false, false) ∧ limbs_ok W256 r ∧
       value r <= value pn ∧ (value pn - value r) * 2 ^ 15 <= value pn.
Proof.
  intros Hp. destruct (GetCompact_mantissa pn) as [m e] eqn:Hm.
  destruct (GetCompact_asserts _ _ _ Hp Hm) as [H1 H2]. split_and!; [done|done|].
  destruct (SetCompact_GetCompact_round _ _ _ Hp Hm) as (r & Hr & Hok & Hval).
  destruct (GetCompact_mantissa_spec _ _ _ Hp Hm) as (Hb & He & _ & Em & Hlow).
  pose proof (limbs_ok_bound _ _ Hp) as Hv.
  exists r. split; [done|]. split; [done|]. rewrite Hval.
  destruct (Z.leb_spec e 3); [lia|].
  pose proof (Z.pow_pos_nonneg 2 (8 * (e - 3))).
  pose proof (Z.div_mod (value pn) (2 ^ (8 * (e - 3)))).
  pose proof (Z.mod_pos_bound (value pn) (2 ^ (8 * (e - 3)))).
  destruct (Z.eq_dec (value pn) 0) as [E|].
  { rewrite E in *. rewrite Z.div_0_l by lia. lia. }
  specialize (Hlow ltac:(lia)). rewrite Em in Hlow. split; nia.
Qed.

Lemma compact_encoding_precision_witness :
  let '(m, e) := GetCompact_mantissa (of_u64 8 0x123456789abcdef0) in
  Z.land m (Z.lnot 0x007fffff) = 0 ∧ e < 256 ∧
  ∃ r, SetCompact (GetCompact (of_u64 8 0x123456789abcdef0) false) = (r, false, false) ∧
       limbs_ok W256 r ∧ value r <= value (of_u64 8 0x123456789abcdef0) ∧
       (value (of_u64 8 0x123456789abcdef0) - value r) * 2 ^ 15
         <= value (of_u64 8 0x123456789abcdef0).
Proof.
  apply (compact_encoding_precision (of_u64 8 0x123456789abcdef0)).
  by_eval.
Defined.

(** A difficulty field that decodes without overflow survives
    re-encoding: [SetCompact (GetCompact (SetCompact n))] is the target of [n],
    so relaying or retargeting to the same value cannot drift. *)
Theorem compact_target_stable (n : Z) :
  is_u32 n → snd (SetCompact n) = false →
  fst (fst (SetCompact (GetCompact (fst (fst (SetCompact n))) false)))
  = fst (fst (SetCompact n)).
Proof.
  intros Hn Hov. pose proof (SetCompact_ok n Hn) as Hok.
  destruct (GetCompact_mantissa (fst (fst (SetCompact n)))) as [m e] eqn:Hm.
  destruct (SetCompact_GetCompact_round _ _ _ Hok Hm) as (r & -> & Hr & Hval).
  cbn [fst snd]. apply value_inj; [by destruct Hr as [-> _], Hok as [-> _]|
    by destruct Hr|by destruct Hok|].
  rewrite Hval. destruct (Z.leb_spec e 3) as [|He]; [done|].
  pose proof (compact_exponent_le n m e Hn Hov Hm He) as Hle.
  pose proof (SetCompact_value n Hn) as Hv.
  rewrite SetCompact_overflow in Hov by done. apply Z.leb_gt in Hov.
  unfold compact_magnitude in Hv, Hov. destruct (Z.leb_spec (compact_size n) 3); [lia|].
  destruct (compact_parts n Hn) as [_ Hw].
  rewrite Z.mod_small in Hv
    by (split; [apply Z.mul_nonneg_nonneg; [lia|apply Z.pow_nonneg; lia]|done]).
  rewrite Hv.
  replace (8 * (compact_size n - 3)) with (8 * (compact_size n - e) + 8 * (e - 3)) by lia.
  rewrite Z.pow_add_r, Z.mul_assoc by lia.
  rewrite Z.div_mul by (apply Z.pow_nonzero; lia). done.
Qed.

Lemma compact_target_stable_witness :
  fst (fst (SetCompact (GetCompact (fst (fst (SetCompact 0x1d00ffff))) false)))
  = fst (fst (SetCompact 0x1d00ffff)).
Proof.
  apply compact_target_stable.
  - by_eval.
  - vm_compute. reflexivity.
Defined.

End arith_uint256.
