(* ===== verification/Serialize.v ===== *)
(** Serialization primitives of [src/src/serialize.h]: fixed-width integers,
    CompactSize, the two variable-length integer formats, and vectors.

    A stream being read is the list of bytes still in it; a reader returns the
    value and the rest of the stream, or the exception the C++ code throws.
    A [codec] packages a writer, a reader and the values the writer is for;
    [CodecOk] is the contract (reading what was written returns the value and
    leaves the rest of the stream) that composite formats are proved against. *)
From S2P Require Import Prelude.

(** ** Streams *)

(** The exceptions of the readers ([std::ios_base::failure]). *)
Inductive ser_error : Set :=
| EndOfData
| NonCanonicalCompactSize
| VarIntTooLarge
| StringLimitExceeded
| UnknownFormat
| TooManyRecords.

#[global] Instance ser_error_eq_dec : EqDecision ser_error.
Proof. solve_decision. Defined.

Abbreviation reader A := (bytes → result ser_error (A * bytes)) (only parsing).

(** [Stream::read(char*, size_t)]. *)
Definition read_blob (n : Z) : reader bytes := fun s =>
  if Z.of_nat (length s) <? n then Err EndOfData
  else Ok (take (Z.to_nat n) s, drop (Z.to_nat n) s).

(** ** Fixed-width integers *)

(** The [n] low-order bytes of [z], least significant first. *)
Fixpoint le_bytes (n : nat) (z : Z) : bytes :=
  match n with
  | O => []
  | S n' => u8 z :: le_bytes n' (Z.shiftr z 8)
  end.

Fixpoint le_value (l : bytes) : Z :=
  match l with
  | [] => 0
  | b :: l' => b + 2 ^ 8 * le_value l'
  end.

Definition ser_writedata8 (obj : Z) : bytes := le_bytes 1 obj.
Definition ser_writedata16 (obj : Z) : bytes := le_bytes 2 obj.
Definition ser_writedata16be (obj : Z) : bytes := rev (le_bytes 2 obj).
Definition ser_writedata32 (obj : Z) : bytes := le_bytes 4 obj.
Definition ser_writedata32be (obj : Z) : bytes := rev (le_bytes 4 obj).
Definition ser_writedata64 (obj : Z) : bytes := le_bytes 8 obj.

Definition read_le (n : nat) : reader Z := fun s =>
  let! (b, s) := read_blob (Z.of_nat n) s in Ok (le_value b, s).
Definition read_be (n : nat) : reader Z := fun s =>
  let! (b, s) := read_blob (Z.of_nat n) s in Ok (le_value (rev b), s).

Definition ser_readdata8 : reader Z := read_le 1.
Definition ser_readdata16 : reader Z := read_le 2.
Definition ser_readdata16be : reader Z := read_be 2.
Definition ser_readdata32 : reader Z := read_le 4.
Definition ser_readdata32be : reader Z := read_be 4.
Definition ser_readdata64 : reader Z := read_le 8.

(** Signed integers travel as the unsigned word with the same bits. *)
Definition ser_readdata_i32 : reader Z := fun s =>
  let! (n, s) := ser_readdata32 s in Ok (i32 n, s).
Definition ser_readdata_i64 : reader Z := fun s =>
  let! (n, s) := ser_readdata64 s in Ok (i64 n, s).

(** [Serialize(bool)] and [Unserialize(bool)]. *)
Definition ser_bool (a : bool) : bytes := ser_writedata8 (if a then 1 else 0).
Definition deser_bool : reader bool := fun s =>
  let! (f, s) := ser_readdata8 s in Ok (negb (f =? 0), s).

(** ** CompactSize *)

Definition GetSizeOfCompactSize (nSize : Z) : Z :=
  if nSize <? 253 then 1
  else if nSize <=? 0xffff then 1 + 2
  else if nSize <=? 0xffffffff then 1 + 4
  else 1 + 8.

Definition WriteCompactSize (nSize : Z) : bytes :=
  if nSize <? 253 then ser_writedata8 nSize
  else if nSize <=? 0xffff then ser_writedata8 253 ++ ser_writedata16 nSize
  else if nSize <=? 0xffffffff then ser_writedata8 254 ++ ser_writedata32 nSize
  else ser_writedata8 255 ++ ser_writedata64 nSize.

Definition ReadCompactSize : reader Z := fun s =>
  let! (chSize, s) := ser_readdata8 s in
  if chSize <? 253 then Ok (chSize, s)
  else if chSize =? 253 then
    let! (nSizeRet, s) := ser_readdata16 s in
    if nSizeRet <? 253 then Err NonCanonicalCompactSize else Ok (nSizeRet, s)
  else if chSize =? 254 then
    let! (nSizeRet, s) := ser_readdata32 s in
    if nSizeRet <? 0x10000 then Err NonCanonicalCompactSize else Ok (nSizeRet, s)
  else
    let! (nSizeRet, s) := ser_readdata64 s in
    if nSizeRet <? 0x100000000 then Err NonCanonicalCompactSize else Ok (nSizeRet, s).

(** ** VarInt *)

(** The loop of [GetSizeOfVarInt]; each turn shortens [n] by seven bits, so
    [fuel] is the number of bits of the type. *)
Fixpoint GetSizeOfVarInt (fuel : nat) (n : Z) : option Z :=
  if n <=? 0x7F then Some 1
  else match fuel with
       | O => None
       | S f => option_map (Z.add 1) (GetSizeOfVarInt f (Z.shiftr n 7 - 1))
       end.

(** The first loop of [WriteVarInt]: the bytes of [tmp], [tmp[0]] first. *)
Fixpoint WriteVarInt_tmp (fuel : nat) (len : nat) (n : Z) : option bytes :=
  let b := Z.lor (Z.land n 0x7F) (if bool_decide (len = 0)%nat then 0x00 else 0x80) in
  if n <=? 0x7F then Some [b]
  else match fuel with
       | O => None
       | S f => option_map (cons b) (WriteVarInt_tmp f (S len) (Z.shiftr n 7 - 1))
       end.

(** [WriteVarInt] writes [tmp] backwards.  [tmp] holds [(sizeof(n)*8+6)/7]
    bytes; [None] would be a write past its end. *)
Definition WriteVarInt (nbits : nat) (n : Z) : option bytes :=
  option_map (@rev Z) (WriteVarInt_tmp ((nbits + 6) / 7 - 1) 0 n).

(** [ReadVarInt] for a type whose greatest value is [max]; the stream bounds
    the loop. *)
Fixpoint ReadVarInt_loop (max n : Z) (s : bytes) : result ser_error (Z * bytes) :=
  match s with
  | [] => Err EndOfData
  | chData :: s' =>
      if Z.shiftr max 7 <? n then Err VarIntTooLarge
      else
        let n := Z.lor (Z.shiftl n 7) (Z.land chData 0x7F) in
        if negb (Z.land chData 0x80 =? 0) then
          if n =? max then Err VarIntTooLarge else ReadVarInt_loop max (n + 1) s'
        else Ok (n, s')
  end.

Definition ReadVarInt (max : Z) : reader Z := ReadVarInt_loop max 0.

(** [PutVarInt(std::vector<uint8_t>&, uint64_t)]: the bytes appended. *)
Fixpoint PutVarInt_loop (fuel : nat) (i : Z) : bytes :=
  let b := Z.land i 0x7F in
  let i := Z.shiftr i 7 in
  match fuel with
  | S f => if 0 <? i then Z.lor b 0x80 :: PutVarInt_loop f i else [b]
  | O => [b]
  end.

(** A 64-bit value has at most ten groups of seven bits. *)
Definition PutVarInt (i : Z) : bytes := PutVarInt_loop 10 i.

(** [GetVarInt(v, ofs, i, nB)]: the return code, [i] and [nB] (in and out). *)
Fixpoint GetVarInt_loop (p : bytes) (last : Z) (i nB : Z) : Z * Z * Z :=
  if negb (Z.land last 0x80 =? 0) then
    match p with
    | [] => (1, i, nB)
    | b :: p' =>
        GetVarInt_loop p' b (u64 (i + u64 (Z.shiftl (Z.land b 0x7F) (7 * nB)))) (nB + 1)
    end
  else (0, i, nB).

Definition GetVarInt (v : bytes) (ofs : nat) (i nB : Z) : Z * Z * Z :=
  match drop ofs v with
  | [] => (0, i, nB)
  | b :: p => GetVarInt_loop p b (Z.land b 0x7F) 1
  end.

(** ** Strings and vectors *)

(** [Serialize_impl(v, unsigned char)], [Serialize(std::basic_string)]. *)
Definition Serialize_blob (v : bytes) : bytes :=
  WriteCompactSize (Z.of_nat (length v)) ++ v.

(** [Unserialize_impl(v, unsigned char)]: blocks of at most five million
    elements.  The count is stored in an [unsigned int]. *)
Fixpoint Unserialize_blob_loop (fuel : nat) (i nSize : Z) (v : bytes) (s : bytes)
  : result ser_error (bytes * bytes) :=
  if i <? nSize then
    match fuel with
    | O => Err EndOfData
    | S f =>
        let blk := Z.min (nSize - i) (1 + 4999999) in
        let! (b, s) := read_blob blk s in
        Unserialize_blob_loop f (i + blk) nSize (v ++ b) s
    end
  else Ok (v, s).

Definition Unserialize_blob : reader bytes := fun s =>
  let! (n, s) := ReadCompactSize s in
  let nSize := u32 n in
  Unserialize_blob_loop (Z.to_nat (nSize / 5000000 + 1)) 0 nSize [] s.

(** [LimitedString<Limit>::Unserialize]. *)
Definition Unserialize_limited (Limit : Z) : reader bytes := fun s =>
  let! (size, s) := ReadCompactSize s in
  if Limit <? size then Err StringLimitExceeded
  else if negb (size =? 0) then read_blob size s else Ok ([], s).

(** ** Codecs *)

Record codec (A : Type) : Type := Codec {
  c_ser : A → bytes;
  c_deser : bytes → result ser_error (A * bytes);
  c_dom : A → Prop
}.
Arguments Codec {A} _ _ _.
Arguments c_ser {A} _ _.
Arguments c_deser {A} _ _.
Arguments c_dom {A} _ _.

Class CodecOk {A} (c : codec A) : Prop := {
  codec_roundtrip a rest : c_dom c a → c_deser c (c_ser c a ++ rest) = Ok (a, rest);
  codec_bytes a : c_dom c a → bytes_ok (c_ser c a)
}.

Definition c_u8 : codec Z := Codec ser_writedata8 ser_readdata8 is_u8.
Definition c_u32 : codec Z := Codec ser_writedata32 ser_readdata32 is_u32.
Definition c_u64 : codec Z := Codec ser_writedata64 ser_readdata64 is_u64.
Definition c_i32 : codec Z := Codec ser_writedata32 ser_readdata_i32 is_i32.
Definition c_i64 : codec Z := Codec ser_writedata64 ser_readdata_i64 is_i64.
Definition c_bool : codec bool := Codec ser_bool deser_bool (fun _ => True).

(** Arrays of [n] bytes ([uint256], [uint160], commitments). *)
Definition c_fixed (n : nat) : codec bytes :=
  Codec (fun v => v) (read_blob (Z.of_nat n)) (fun v => length v = n ∧ bytes_ok v).

Definition c_blob : codec bytes :=
  Codec Serialize_blob Unserialize_blob
    (fun v => bytes_ok v ∧ Z.of_nat (length v) < 2 ^ 32).

(** [std::pair]: one after the other; also how [READWRITE] treats fields. *)
Definition c_pair {A B} (ca : codec A) (cb : codec B) : codec (A * B) :=
  Codec (fun '(a, b) => c_ser ca a ++ c_ser cb b)
    (fun s => let! (a, s) := c_deser ca s in
              let! (b, s) := c_deser cb s in Ok ((a, b), s))
    (fun '(a, b) => c_dom ca a ∧ c_dom cb b).

(** A class serialized through a view of its fields. *)
Definition c_iso {A B} (to : A → B) (from : B → A) (cb : codec B) : codec A :=
  Codec (fun a => c_ser cb (to a))
    (fun s => let! (b, s) := c_deser cb s in Ok (from b, s))
    (fun a => c_dom cb (to a)).

(** [Serialize_impl(v, V)]. *)
Definition Serialize_vector {A} (c : codec A) (v : list A) : bytes :=
  WriteCompactSize (Z.of_nat (length v)) ++ flat_map (c_ser c) v.

(** The inner loop [for (; i < nMid; i++) Unserialize(is, v[i])]. *)
Fixpoint read_items {A} (c : codec A) (n : nat) : reader (list A) := fun s =>
  match n with
  | O => Ok ([], s)
  | S n' =>
      let! (a, s) := c_deser c s in
      let! (v, s) := read_items c n' s in
      Ok (a :: v, s)
  end.

(** The outer loop of [Unserialize_impl(v, V)]: [nMid] advances by [batch]
    ([5000000 / sizeof(T)]) elements and is capped at [nSize]. *)
Fixpoint read_batches {A} (c : codec A) (batch : nat) (fuel i nSize : nat) (v : list A)
    (s : bytes) : result ser_error (list A * bytes) :=
  if bool_decide (i < nSize)%nat then
    match fuel with
    | O => Err EndOfData
    | S f =>
        let nMid := Nat.min (i + batch) nSize in
        let! (w, s) := read_items c (nMid - i) s in
        read_batches c batch f nMid nSize (v ++ w) s
    end
  else Ok (v, s).

Definition Unserialize_vector {A} (c : codec A) (batch : nat) : reader (list A) := fun s =>
  let! (n, s) := ReadCompactSize s in
  let nSize := Z.to_nat (u32 n) in
  read_batches c batch nSize 0 nSize [] s.

Definition c_vector {A} (c : codec A) (batch : nat) : codec (list A) :=
  Codec (Serialize_vector c) (Unserialize_vector c batch)
    (fun v => Forall (c_dom c) v ∧ Z.of_nat (length v) < 2 ^ 32).

(** ** Fixed-width integers: lemmas *)

Lemma length_le_bytes n z : length (le_bytes n z) = n.
Proof. revert z. induction n; intros; simpl; auto. Qed.

Lemma le_bytes_ok n z : bytes_ok (le_bytes n z).
Proof.
  revert z. induction n; intros; simpl; constructor; [apply u8_range|apply IHn].
Qed.

Lemma pow8_succ n : 2 ^ (8 * Z.of_nat (S n)) = 2 ^ 8 * 2 ^ (8 * Z.of_nat n).
Proof. rewrite <- Z.pow_add_r by lia. f_equal. lia. Qed.

Lemma le_value_le_bytes n z : le_value (le_bytes n z) = z mod 2 ^ (8 * Z.of_nat n).
Proof.
  revert z. induction n as [|n IH]; intros z; simpl le_bytes; simpl le_value.
  - by rewrite Z.mod_1_r.
  - rewrite IH, pow8_succ, Z.shiftr_div_pow2 by lia. unfold u8.
    rewrite Z.rem_mul_r; [done|lia|]. apply Z.pow_pos_nonneg; lia.
Qed.

Lemma le_value_bound l : bytes_ok l → 0 <= le_value l < 2 ^ (8 * Z.of_nat (length l)).
Proof.
  induction 1 as [|b l Hb _ IH]; simpl le_value; simpl length; [done|].
  rewrite pow8_succ. widths. lia.
Qed.

Lemma le_bytes_le_value l : bytes_ok l → le_bytes (length l) (le_value l) = l.
Proof.
  induction 1 as [|b l Hb _ IH]; simpl; [done|]. f_equal.
  - unfold u8. rewrite Z.mul_comm, Z.mod_add by lia. by apply Z.mod_small.
  - rewrite Z.shiftr_div_pow2, Z.mul_comm, Z.div_add, (Z.div_small b) by (apply Hb || lia).
    by rewrite Z.add_0_l.
Qed.

Lemma read_blob_app n l rest :
  Z.of_nat (length l) = n → read_blob n (l ++ rest) = Ok (l, rest).
Proof.
  intros <-. unfold read_blob. rewrite length_app.
  destruct (Z.ltb_spec (Z.of_nat (length l + length rest)) (Z.of_nat (length l))); [lia|].
  by rewrite Nat2Z.id, take_app_length, drop_app_length.
Qed.

Lemma read_blob_inv n s b rest :
  0 <= n → read_blob n s = Ok (b, rest) → s = b ++ rest ∧ Z.of_nat (length b) = n.
Proof.
  intros Hn. unfold read_blob. destruct (Z.ltb_spec (Z.of_nat (length s)) n); [done|].
  intros [= <- <-]. rewrite take_drop, length_take_le by lia. split; [done|lia].
Qed.

Lemma read_le_app n z rest :
  0 <= z < 2 ^ (8 * Z.of_nat n) → read_le n (le_bytes n z ++ rest) = Ok (z, rest).
Proof.
  intros Hz. unfold read_le. rewrite read_blob_app by (by rewrite length_le_bytes).
  simpl. by rewrite le_value_le_bytes, Z.mod_small.
Qed.

Lemma read_le_inv n s z rest :
  bytes_ok s → read_le n s = Ok (z, rest) →
  s = le_bytes n z ++ rest ∧ 0 <= z < 2 ^ (8 * Z.of_nat n) ∧ bytes_ok rest.
Proof.
  intros Hs. unfold read_le. destruct (read_blob _ s) as [[b r]|] eqn:E; simpl; [|done].
  intros [= <- <-]. apply read_blob_inv in E as [-> Hl]; [|lia].
  apply Forall_app in Hs as [Hb Hr]. assert (Hn : length b = n) by lia.
  rewrite <- Hn. rewrite le_bytes_le_value by done. split_and!; try done; by apply le_value_bound.
Qed.

#[export] Instance CodecOk_u8 : CodecOk c_u8.
Proof. split; intros; [by apply (read_le_app 1)|apply le_bytes_ok]. Qed.
#[export] Instance CodecOk_u32 : CodecOk c_u32.
Proof. split; intros; [by apply (read_le_app 4)|apply le_bytes_ok]. Qed.
#[export] Instance CodecOk_u64 : CodecOk c_u64.
Proof. split; intros; [by apply (read_le_app 8)|apply le_bytes_ok]. Qed.

Lemma le_bytes_mod n z : le_bytes n z = le_bytes n (z mod 2 ^ (8 * Z.of_nat n)).
Proof.
  pose proof (le_bytes_le_value (le_bytes n z) (le_bytes_ok n z)) as H.
  rewrite length_le_bytes, le_value_le_bytes in H. done.
Qed.

#[export] Instance CodecOk_i32 : CodecOk c_i32.
Proof.
  split; intros a; [|intros; apply le_bytes_ok]. intros rest Ha.
  unfold c_i32 in *. cbn [c_ser c_deser c_dom] in *.
  unfold ser_readdata_i32, ser_readdata32, ser_writedata32. rewrite le_bytes_mod.
  rewrite read_le_app by (apply Z.mod_pos_bound; lia). simpl.
  do 2 f_equal. unfold i32. rewrite Z.add_mod_idemp_l by lia.
  rewrite Z.mod_small; widths; lia.
Qed.
#[export] Instance CodecOk_i64 : CodecOk c_i64.
Proof.
  split; intros a; [|intros; apply le_bytes_ok]. intros rest Ha.
  unfold c_i64 in *. cbn [c_ser c_deser c_dom] in *.
  unfold ser_readdata_i64, ser_readdata64, ser_writedata64. rewrite le_bytes_mod.
  rewrite read_le_app by (apply Z.mod_pos_bound; lia). simpl.
  do 2 f_equal. unfold i64. rewrite Z.add_mod_idemp_l by lia.
  rewrite Z.mod_small; widths; lia.
Qed.
#[export] Instance CodecOk_bool : CodecOk c_bool.
Proof.
  split; intros a; [|intros; apply le_bytes_ok]. intros rest _.
  unfold c_bool. cbn [c_ser c_deser]. unfold deser_bool, ser_bool, ser_readdata8,
    ser_writedata8. rewrite read_le_app by (destruct a; lia). by destruct a.
Qed.
#[export] Instance CodecOk_fixed n : CodecOk (c_fixed n).
Proof.
  split; simpl; [|by intros a [_ ?]]. intros a rest [<- _]. by apply read_blob_app.
Qed.

#[export] Instance CodecOk_pair {A B} (ca : codec A) (cb : codec B) :
  CodecOk ca → CodecOk cb → CodecOk (c_pair ca cb).
Proof.
  intros Ha Hb. split; intros [a b]; simpl.
  - intros rest [H1 H2]. rewrite <- app_assoc.
    rewrite codec_roundtrip by done. simpl. by rewrite codec_roundtrip.
  - intros [H1 H2]. apply Forall_app. split; by apply codec_bytes.
Qed.

Lemma CodecOk_iso {A B} (to : A → B) (from : B → A) (cb : codec B) :
  CodecOk cb → (∀ a, from (to a) = a) → CodecOk (c_iso to from cb).
Proof.
  intros Hb Hiso. split; intros a; simpl.
  - intros rest Hd. rewrite codec_roundtrip by done. simpl. by rewrite Hiso.
  - intros Hd. by apply codec_bytes.
Qed.

(** ** CompactSize: lemmas *)

Lemma length_WriteCompactSize n :
  0 <= n < 2 ^ 64 → Z.of_nat (length (WriteCompactSize n)) = GetSizeOfCompactSize n.
Proof.
  intros. unfold WriteCompactSize, GetSizeOfCompactSize. bool_cases;
    rewrite ?length_app; unfold ser_writedata8, ser_writedata16, ser_writedata32,
    ser_writedata64; rewrite ?length_le_bytes; lia.
Qed.

Lemma WriteCompactSize_bytes n : bytes_ok (WriteCompactSize n).
Proof.
  unfold WriteCompactSize. bool_cases; try apply Forall_app; try split; apply le_bytes_ok.
Qed.

Lemma ReadCompactSize_roundtrip n rest :
  is_u64 n → ReadCompactSize (WriteCompactSize n ++ rest) = Ok (n, rest).
Proof.
  intros Hn. unfold WriteCompactSize, ReadCompactSize, ser_readdata8, ser_readdata16,
    ser_readdata32, ser_readdata64, ser_writedata8, ser_writedata16, ser_writedata32,
    ser_writedata64.
  destruct (Z.ltb_spec n 253); [|destruct (Z.leb_spec n 0xffff);
    [|destruct (Z.leb_spec n 0xffffffff)]]; rewrite <- ?app_assoc;
    rewrite read_le_app by (widths; lia); cbn [rbind];
    rewrite ?read_le_app by (widths; lia); cbn [rbind]; bool_cases; done || lia.
Qed.

(** Every accepted encoding is the one the writer produces. *)
Lemma ReadCompactSize_canonical s n rest :
  bytes_ok s → ReadCompactSize s = Ok (n, rest) →
  s = WriteCompactSize n ++ rest ∧ is_u64 n ∧ bytes_ok rest.
Proof.
  intros Hs. unfold ReadCompactSize, ser_readdata8, ser_readdata16, ser_readdata32,
    ser_readdata64.
  destruct (read_le 1 s) as [[ch s1]|] eqn:E1; cbn [rbind]; [|done].
  apply read_le_inv in E1 as (-> & Hch & Hs1); [|done].
  unfold WriteCompactSize, ser_writedata8, ser_writedata16, ser_writedata32,
    ser_writedata64.
  destruct (Z.ltb_spec ch 253).
  { intros [= <- <-]. split_and!; [|widths; lia|done]. by bool_cases; try lia. }
  destruct (Z.eqb_spec ch 253) as [->|]; [|destruct (Z.eqb_spec ch 254) as [->|]].
  - destruct (read_le 2 s1) as [[m s2]|] eqn:E2; cbn [rbind]; [|done].
    apply read_le_inv in E2 as (-> & Hm & Hs2); [|done].
    destruct (Z.ltb_spec m 253); [done|]. intros [= <- <-].
    bool_cases; try lia. rewrite <- app_assoc. split_and!; try done; widths; lia.
  - destruct (read_le 4 s1) as [[m s2]|] eqn:E2; cbn [rbind]; [|done].
    apply read_le_inv in E2 as (-> & Hm & Hs2); [|done].
    destruct (Z.ltb_spec m 0x10000); [done|]. intros [= <- <-].
    bool_cases; try lia. rewrite <- app_assoc. split_and!; try done; widths; lia.
  - assert (ch = 255) as -> by lia.
    destruct (read_le 8 s1) as [[m s2]|] eqn:E2; cbn [rbind]; [|done].
    apply read_le_inv in E2 as (-> & Hm & Hs2); [|done].
    destruct (Z.ltb_spec m 0x100000000); [done|]. intros [= <- <-].
    bool_cases; try lia. rewrite <- app_assoc. split_and!; try done; widths; lia.
Qed.

(** ** VarInt: lemmas *)

Lemma WriteVarInt_tmp_mono f len n l :
  WriteVarInt_tmp f len n = Some l → WriteVarInt_tmp (S f) len n = Some l.
Proof.
  revert len n l. induction f as [|f IH]; intros len n l; simpl.
  - by destruct (n <=? 0x7F).
  - destruct (n <=? 0x7F); [done|].
    destruct (WriteVarInt_tmp f (S len) _) as [l'|] eqn:E; simpl; [|done].
    specialize (IH _ _ _ E). simpl in IH. rewrite IH. done.
Qed.

Lemma WriteVarInt_tmp_det f1 f2 len n l1 l2 :
  WriteVarInt_tmp f1 len n = Some l1 → WriteVarInt_tmp f2 len n = Some l2 → l1 = l2.
Proof.
  assert (Hm : ∀ k f l, WriteVarInt_tmp f len n = Some l →
                 WriteVarInt_tmp (k + f) len n = Some l).
  { induction k as [|k IH]; intros f l H; [done|]. apply WriteVarInt_tmp_mono, IH, H. }
  intros H1%(Hm f2) H2%(Hm f1). rewrite Nat.add_comm, H1 in H2. by injection H2.
Qed.

(** After the first digit only the continuation bit depends on [len]. *)
Lemma WriteVarInt_tmp_len f n k :
  WriteVarInt_tmp f (S k) n = WriteVarInt_tmp f 1 n.
Proof.
  revert n k. induction f as [|f IH]; intros n k; simpl; [done|].
  destruct (n <=? 0x7F); [done|]. by rewrite (IH _ (S k)), (IH _ 1%nat).
Qed.

Lemma shiftr7 n : Z.shiftr n 7 = n / 128.
Proof. by rewrite Z.shiftr_div_pow2 by lia. Qed.

(** [(sizeof(n)*8+6)/7] bytes of [tmp] are enough. *)
Lemma WriteVarInt_tmp_total f len n :
  0 <= n < 2 ^ (7 * (Z.of_nat f + 1)) → is_Some (WriteVarInt_tmp f len n).
Proof.
  revert len n. induction f as [|f IH]; intros len n Hn; simpl.
  - destruct (Z.leb_spec n 0x7F); [eauto|]. simpl in Hn. lia.
  - destruct (Z.leb_spec n 0x7F); [eauto|]. destruct (IH (S len) (Z.shiftr n 7 - 1)) as [l ->];
      [|eauto]. rewrite shiftr7.
    replace (7 * (Z.of_nat (S f) + 1)) with (7 * (Z.of_nat f + 1) + 7) in Hn by lia.
    rewrite Z.pow_add_r in Hn by lia. change (2 ^ 7) with 128 in Hn.
    assert (1 <= n / 128) by (apply Z.div_le_lower_bound; lia).
    assert (n / 128 < 2 ^ (7 * (Z.of_nat f + 1))) by (apply Z.div_lt_upper_bound; lia).
    lia.
Qed.

Lemma WriteVarInt_tmp_length f len n l :
  WriteVarInt_tmp f len n = Some l → (length l <= S f)%nat.
Proof.
  revert len n l. induction f as [|f IH]; intros len n l; simpl.
  - destruct (n <=? 0x7F); [|done]. by intros [= <-].
  - destruct (n <=? 0x7F); [intros [= <-]; simpl; lia|].
    destruct (WriteVarInt_tmp f _ _) eqn:E; simpl; [|done].
    intros [= <-]. apply IH in E. simpl. lia.
Qed.

(** Value and continuation bit of the digit written at [len]. *)
Lemma varint_digit n (len : nat) :
  0 <= n →
  let b := Z.lor (Z.land n 0x7F) (if bool_decide (len = 0)%nat then 0x00 else 0x80) in
  is_u8 b ∧ Z.land b 0x7F = n mod 128 ∧
  negb (Z.land b 0x80 =? 0) = negb (bool_decide (len = 0)%nat).
Proof.
  intros Hn. cbv zeta. rewrite !land_7F. change (2 ^ 7) with 128.
  pose proof (Z.mod_pos_bound n 128). destruct (bool_decide (len = 0)%nat).
  - rewrite Z.lor_0_r, land_0x80, Z.mod_mod by lia. unfold is_u8. split_and!; lia.
  - rewrite lor_0x80, land_0x80 by lia.
    rewrite <- Z.add_mod_idemp_r, Z.mod_same, Z.add_0_r, Z.mod_mod by lia.
    unfold is_u8. split_and!; lia.
Qed.

Lemma varint_shift n d : 0 <= n → 0 <= d < 128 → Z.lor (Z.shiftl n 7) d = 128 * n + d.
Proof.
  intros. rewrite Z.lor_comm, Z.shiftl_mul_pow2, lor_add_disjoint by lia. lia.
Qed.

Lemma ReadVarInt_leaf max (len : nat) n b rest :
  0 <= n <= max → n <= 0x7F → (len ≠ 0%nat → n < max) →
  Z.land b 0x7F = n mod 128 → negb (Z.land b 0x80 =? 0) = negb (bool_decide (len = 0)%nat) →
  ReadVarInt_loop max 0 (rev [b] ++ rest)
  = if bool_decide (len = 0)%nat then Ok (n, rest) else ReadVarInt_loop max (n + 1) rest.
Proof.
  intros Hn Hs Hlt Hd Hc. simpl. rewrite Hc, Hd, shiftr7.
  destruct (Z.ltb_spec (max / 128) 0) as [Hm|_]; [pose proof (Z.div_pos max 128); lia|].
  rewrite Z.mod_small, varint_shift by lia. change (128 * 0 + n) with n.
  destruct (bool_decide_reflect (len = 0)%nat); simpl; [done|].
  destruct (Z.eqb_spec n max); [lia|done].
Qed.

Lemma ReadVarInt_digits max f len n l rest :
  0 <= n <= max → (len ≠ 0%nat → n < max) →
  WriteVarInt_tmp f len n = Some l →
  ReadVarInt_loop max 0 (rev l ++ rest)
  = if bool_decide (len = 0)%nat then Ok (n, rest) else ReadVarInt_loop max (n + 1) rest.
Proof.
  revert len n l rest. induction f as [|f IH]; intros len n l rest Hn Hlt; simpl.
  all: destruct (varint_digit n len) as (Hb & Hd & Hc); [lia|]; cbv zeta in *.
  all: set (b := Z.lor _ _) in *.
  all: destruct (Z.leb_spec n 0x7F).
  - intros [= <-]. by apply ReadVarInt_leaf.
  - done.
  - intros [= <-]. by apply ReadVarInt_leaf.
  - destruct (WriteVarInt_tmp f (S len) _) as [l'|] eqn:E; simpl; [|done].
    intros [= <-]. simpl. rewrite <- app_assoc. rewrite shiftr7 in E.
    pose proof (Z.div_mod n 128). pose proof (Z.mod_pos_bound n 128).
    assert (1 <= n / 128) by (apply Z.div_le_lower_bound; lia).
    rewrite (IH (S len) (n / 128 - 1)) by (done || lia). simpl.
    replace (n / 128 - 1 + 1) with (n / 128) by lia.
    rewrite Hc, Hd, shiftr7, varint_shift by lia.
    destruct (Z.ltb_spec (max / 128) (n / 128)) as [Hm|_].
    { assert (n / 128 <= max / 128) by (apply Z.div_le_mono; lia). lia. }
    replace (128 * (n / 128) + n mod 128) with n by lia.
    destruct (bool_decide_reflect (len = 0)%nat); simpl; [done|].
    destruct (Z.eqb_spec n max); [lia|done].
Qed.

(** The bytes whose reading leads the loop to accumulator [m]. *)
Definition varint_prefix (m : Z) (p : bytes) : Prop :=
  (m = 0 ∧ p = []) ∨ (0 < m ∧ ∃ f l, WriteVarInt_tmp f 1 (m - 1) = Some l ∧ p = rev l).

Lemma varint_prefix_step m p b (len : nat) :
  0 <= m → is_u8 b → (128 <=? b) = negb (bool_decide (len = 0)%nat) →
  varint_prefix m p →
  ∃ f l, WriteVarInt_tmp f len (128 * m + b mod 128) = Some l ∧ rev l = p ++ [b].
Proof.
  intros Hm Hb Hc Hp. set (n := 128 * m + b mod 128).
  pose proof (Z.mod_pos_bound b 128). pose proof (Z.div_mod b 128).
  assert (Hdig : Z.lor (Z.land n 0x7F) (if bool_decide (len = 0)%nat then 0x00 else 0x80) = b).
  { rewrite land_7F. unfold n. rewrite Z.add_comm, Z.mul_comm. change 128 with (2 ^ 7).
    rewrite Z.mod_add, Z.mod_mod by lia. change (2 ^ 7) with 128.
    unfold is_u8 in Hb. destruct (bool_decide (len = 0)%nat); simpl in Hc.
    - rewrite Z.lor_0_r. apply Z.mod_small. lia.
    - rewrite lor_0x80 by lia. assert (b / 128 = 1); [|lia].
      symmetry. apply (Z.div_unique_pos b 128 1 (b - 128)); lia. }
  destruct Hp as [[-> ->]|(Hpos & f & l & Hl & ->)].
  - exists 0%nat, [b]. split; [|done]. simpl. rewrite Hdig.
    destruct (Z.leb_spec n 0x7F); [done|]. unfold n in *. lia.
  - exists (S f), (b :: l). split; [|done]. simpl. rewrite Hdig.
    destruct (Z.leb_spec n 0x7F); [unfold n in *; lia|].
    rewrite shiftr7. replace (n / 128) with m
      by (apply (Z.div_unique_pos n 128 m (b mod 128)); unfold n; lia).
    destruct len; [by rewrite Hl|]. by rewrite WriteVarInt_tmp_len, Hl.
Qed.

Lemma ReadVarInt_loop_canonical max m s n rest p :
  0 <= m → bytes_ok s → varint_prefix m p → ReadVarInt_loop max m s = Ok (n, rest) →
  0 <= n ∧ ∃ f l, WriteVarInt_tmp f 0 n = Some l ∧ p ++ s = rev l ++ rest.
Proof.
  intros Hm Hs. revert m p Hm. induction Hs as [|b s Hb Hs IH]; intros m p Hm Hp; simpl; [done|].
  destruct (Z.shiftr max 7 <? m); [done|].
  pose proof (Z.mod_pos_bound b 128).
  rewrite land_7F. change (2 ^ 7) with 128. rewrite varint_shift by lia.
  rewrite land_0x80 by done. destruct (128 <=? b) eqn:Ec.
  - destruct (_ =? max); [done|]. intros Hr.
    destruct (varint_prefix_step m p b 1 Hm Hb Ec Hp) as (f & l & Hl & Hrev).
    change (p ++ b :: s) with (p ++ [b] ++ s). rewrite app_assoc, <- Hrev.
    apply (IH (128 * m + b mod 128 + 1)); [lia| |done].
    right. split; [lia|]. exists f, l. split; [|done].
    by replace (128 * m + b mod 128 + 1 - 1) with (128 * m + b mod 128) by lia.
  - intros [= <- <-]. split; [lia|].
    destruct (varint_prefix_step m p b 0 Hm Hb Ec Hp) as (f & l & Hl & Hrev).
    exists f, l. split; [done|]. change (p ++ b :: s) with (p ++ [b] ++ s).
    by rewrite app_assoc, <- Hrev.
Qed.

(** ** Base-128 integers of data outputs: lemmas *)

Lemma PutVarInt_loop_bytes f i : 0 <= i → i < 2 ^ (7 * (Z.of_nat f + 1)) →
  bytes_ok (PutVarInt_loop f i) ∧ (length (PutVarInt_loop f i) <= S f)%nat.
Proof.
  revert i. induction f as [|f IH]; intros i Hi Hb; simpl;
    pose proof (Z.mod_pos_bound i 128) as Hm; rewrite ?land_7F; change (2 ^ 7) with 128 in *.
  - split; [|lia]. constructor; [widths; lia|constructor].
  - destruct (Z.ltb_spec 0 (Z.shiftr i 7)).
    + rewrite shiftr7 in *. destruct (IH (i / 128)) as [H1 H2]; [lia| |].
      * apply Z.div_lt_upper_bound; [lia|]. change 128 with (2 ^ 7).
        rewrite <- Z.pow_add_r by lia.
        replace (7 + 7 * (Z.of_nat f + 1)) with (7 * (Z.of_nat (S f) + 1)) by lia. done.
      * split; [|simpl; lia]. constructor; [|done]. rewrite lor_0x80 by lia. widths. lia.
    + split; [|simpl; lia]. constructor; [widths; lia|constructor].
Qed.

Lemma GetVarInt_loop_Put f x acc nB rest :
  0 <= x → 0 <= acc → 1 <= nB → x < 2 ^ (7 * (Z.of_nat f + 1)) →
  acc + x * 2 ^ (7 * (nB - 1)) < 2 ^ 64 →
  ∃ b l, PutVarInt_loop f x = b :: l ∧
    GetVarInt_loop (l ++ rest) b (acc + Z.land b 0x7F * 2 ^ (7 * (nB - 1))) nB
    = (0, acc + x * 2 ^ (7 * (nB - 1)), nB + Z.of_nat (length l)).
Proof.
  revert x acc nB. induction f as [|f IH]; intros x acc nB Hx Ha HnB Hf Hlt; simpl.
  - simpl in Hf. rewrite land_7F, Z.mod_small by lia. exists x, []. split; [done|].
    destruct rest; simpl; rewrite land_0x80 by lia; destruct (Z.leb_spec 128 x); try lia;
      rewrite land_7F, Z.mod_small by lia; f_equal; lia.
  - rewrite land_7F, shiftr7. change (2 ^ 7) with 128.
    pose proof (Z.div_mod x 128). pose proof (Z.mod_pos_bound x 128).
    pose proof (Z.pow_pos_nonneg 2 (7 * (nB - 1))).
    destruct (Z.ltb_spec 0 (x / 128)).
    + assert (E7 : 2 ^ (7 * (nB + 1 - 1)) = 128 * 2 ^ (7 * (nB - 1))).
      { change 128 with (2 ^ 7). rewrite <- Z.pow_add_r by lia. f_equal. lia. }
      destruct (IH (x / 128) (acc + x mod 128 * 2 ^ (7 * (nB - 1))) (nB + 1))
        as (b & l & Hl & Hg); try nia.
      { apply Z.div_lt_upper_bound; [lia|]. change 128 with (2 ^ 7).
        rewrite <- Z.pow_add_r by lia.
        replace (7 + 7 * (Z.of_nat f + 1)) with (7 * (Z.of_nat (S f) + 1)) by lia. done. }
      exists (Z.lor (x mod 128) 128), (PutVarInt_loop f (x / 128)). split; [done|].
      rewrite lor_0x80, Hl by lia. cbn [app GetVarInt_loop].
      rewrite land_0x80 by lia. destruct (Z.leb_spec 128 (x mod 128 + 128)); [|lia].
      assert (Hd : Z.land (x mod 128 + 128) 0x7F = x mod 128).
      { rewrite land_7F. change (2 ^ 7) with 128.
        by rewrite <- Z.add_mod_idemp_r, Z.mod_same, Z.add_0_r, Z.mod_mod by lia. }
      rewrite Hd, Z.shiftl_mul_pow2 by lia.
      replace (7 * nB) with (7 * (nB + 1 - 1)) by lia.
      assert (0 <= Z.land b 0x7F <= x / 128).
      { rewrite land_7F. split; [apply Z.mod_pos_bound; lia|].
        destruct f; cbn [PutVarInt_loop] in Hl; rewrite ?shiftr7 in Hl.
        - injection Hl as <- _. rewrite land_7F. rewrite Z.mod_mod by lia. apply Z.mod_le; lia.
        - pose proof (Z.mod_pos_bound (x / 128) 128).
          assert ((x / 128) mod 128 <= x / 128) by (apply Z.mod_le; lia).
          destruct (_ <? _); injection Hl as <- _; rewrite land_7F; change (2 ^ 7) with 128.
          + rewrite lor_0x80 by lia.
            rewrite <- Z.add_mod_idemp_r, Z.mod_same, Z.add_0_r, Z.mod_mod by lia. done.
          + rewrite Z.mod_mod by lia. done. }
      rewrite (u64_small (_ * _)) by (widths; nia).
      rewrite u64_small by (widths; nia). rewrite Hg. f_equal; [f_equal; nia|].
      simpl length. lia.
    + assert (x / 128 = 0) by (pose proof (Z.div_pos x 128); lia).
      assert (x mod 128 = x) as Ex by lia. rewrite Ex.
      exists x, []. split; [done|]. simpl length. rewrite Z.add_0_r.
      destruct rest; cbn [app GetVarInt_loop]; rewrite land_0x80 by lia;
        destruct (Z.leb_spec 128 x); try lia; rewrite land_7F; change (2 ^ 7) with 128;
        by rewrite Ex.
Qed.

(** ** Vectors: lemmas *)

Lemma read_blob_split n m s :
  0 <= n → 0 <= m →
  read_blob (n + m) s
  = (let! (b, s1) := read_blob n s in let! (b', s2) := read_blob m s1 in Ok (b ++ b', s2)).
Proof.
  intros Hn Hm. unfold read_blob.
  destruct (Z.ltb_spec (Z.of_nat (length s)) n); simpl.
  { destruct (Z.ltb_spec (Z.of_nat (length s)) (n + m)); [done|lia]. }
  rewrite length_drop.
  destruct (Z.ltb_spec (Z.of_nat (length s)) (n + m)),
    (Z.ltb_spec (Z.of_nat (length s - Z.to_nat n)) m); try lia; [done|]. simpl.
  rewrite Z2Nat.inj_add, take_take_drop, drop_drop by lia. done.
Qed.

Lemma Unserialize_blob_loop_spec fuel i nSize v s :
  0 <= i <= nSize → nSize - i <= 5000000 * Z.of_nat fuel →
  Unserialize_blob_loop fuel i nSize v s
  = (let! (b, s1) := read_blob (nSize - i) s in Ok (v ++ b, s1)).
Proof.
  revert i v s. induction fuel as [|f IH]; intros i v s Hi Hf; simpl.
  - destruct (Z.ltb_spec i nSize); [lia|]. replace (nSize - i) with 0 by lia.
    unfold read_blob. destruct (Z.ltb_spec (Z.of_nat (length s)) 0); [lia|].
    simpl. by rewrite app_nil_r, drop_0.
  - destruct (Z.ltb_spec i nSize).
    + set (blk := Z.min (nSize - i) (1 + 4999999)).
      replace (nSize - i) with (blk + (nSize - (i + blk))) by lia.
      rewrite read_blob_split by lia.
      destruct (read_blob blk s) as [[b s1]|]; simpl; [|done].
      rewrite IH by lia. destruct (read_blob _ s1) as [[b' s2]|]; simpl; [|done].
      by rewrite app_assoc.
    + replace (nSize - i) with 0 by lia.
      unfold read_blob. destruct (Z.ltb_spec (Z.of_nat (length s)) 0); [lia|].
      simpl. by rewrite app_nil_r, drop_0.
Qed.

(** The block-wise reader is one read of the announced length. *)
Lemma Unserialize_blob_spec s :
  Unserialize_blob s
  = (let! (n, s1) := ReadCompactSize s in read_blob (u32 n) s1).
Proof.
  unfold Unserialize_blob. destruct (ReadCompactSize s) as [[n s1]|]; simpl; [|done].
  pose proof (u32_range n) as [? ?].
  rewrite Unserialize_blob_loop_spec.
  - rewrite Z.sub_0_r. by destruct (read_blob (u32 n) s1) as [[b s2]|].
  - lia.
  - pose proof (Z.div_mod (u32 n) 5000000). pose proof (Z.mod_pos_bound (u32 n) 5000000). lia.
Qed.

#[export] Instance CodecOk_blob : CodecOk c_blob.
Proof.
  split; simpl; intros a.
  - intros rest [Ha Hl]. rewrite Unserialize_blob_spec. unfold Serialize_blob.
    rewrite <- app_assoc, ReadCompactSize_roundtrip by (widths; lia). simpl.
    rewrite u32_small by (widths; lia). by apply read_blob_app.
  - intros [Ha _]. apply Forall_app. split; [apply WriteCompactSize_bytes|done].
Qed.

Section Vectors.
Context {A : Type} (c : codec A).

Lemma read_items_app n m s :
  read_items c (n + m) s
  = (let! (v, s1) := read_items c n s in
     let! (w, s2) := read_items c m s1 in Ok (v ++ w, s2)).
Proof.
  revert s. induction n as [|n IH]; intros s; simpl.
  - by destruct (read_items c m s) as [[w s2]|].
  - destruct (c_deser c s) as [[a s1]|]; simpl; [|done]. rewrite IH.
    destruct (read_items c n s1) as [[v s2]|]; simpl; [|done].
    by destruct (read_items c m s2) as [[w s3]|].
Qed.

(** The batched reader is the element-by-element reader. *)
Lemma read_batches_spec batch fuel i nSize v s :
  (0 < batch)%nat → (i <= nSize)%nat → (nSize - i <= fuel)%nat →
  read_batches c batch fuel i nSize v s
  = (let! (w, s1) := read_items c (nSize - i) s in Ok (v ++ w, s1)).
Proof.
  intros Hb. revert i v s. induction fuel as [|f IH]; intros i v s Hi Hf; simpl.
  - destruct (bool_decide_reflect (i < nSize)%nat); [lia|].
    replace (nSize - i)%nat with 0%nat by lia. simpl. by rewrite app_nil_r.
  - destruct (bool_decide_reflect (i < nSize)%nat).
    + set (nMid := Nat.min (i + batch) nSize).
      replace (nSize - i)%nat with ((nMid - i) + (nSize - nMid))%nat by lia.
      rewrite read_items_app.
      destruct (read_items c (nMid - i) s) as [[w s1]|]; simpl; [|done].
      rewrite IH by lia. destruct (read_items c _ s1) as [[w' s2]|]; simpl; [|done].
      by rewrite app_assoc.
    + replace (nSize - i)%nat with 0%nat by lia. simpl. by rewrite app_nil_r.
Qed.

Lemma read_items_roundtrip v rest :
  CodecOk c → Forall (c_dom c) v →
  read_items c (length v) (flat_map (c_ser c) v ++ rest) = Ok (v, rest).
Proof.
  intros Hc. induction 1 as [|a v Ha _ IH]; simpl; [done|].
  rewrite <- app_assoc, codec_roundtrip by done. simpl. by rewrite IH.
Qed.

#[export] Instance CodecOk_vector batch :
  (0 < batch)%nat → CodecOk c → CodecOk (c_vector c batch).
Proof.
  intros Hb Hc. split; simpl; intros v.
  - intros rest [Hv Hl]. unfold Unserialize_vector, Serialize_vector.
    rewrite <- app_assoc, ReadCompactSize_roundtrip by (widths; lia). simpl.
    rewrite u32_small, Nat2Z.id by (widths; lia).
    rewrite read_batches_spec, Nat.sub_0_r by lia.
    by rewrite read_items_roundtrip.
  - intros [Hv _]. apply Forall_app. split; [apply WriteCompactSize_bytes|].
    induction Hv; simpl; [constructor|]. apply Forall_app. split; [by apply codec_bytes|done].
Qed.
End Vectors.

Lemma ReadVarInt_loop_bound q m s n rest :
  0 <= m <= 128 * q + 127 → bytes_ok s →
  ReadVarInt_loop (128 * q + 127) m s = Ok (n, rest) → 0 <= n <= 128 * q + 127.
Proof.
  intros Hm Hs. revert m Hm. induction Hs as [|b s Hb _ IH]; intros m Hm; simpl; [done|].
  rewrite shiftr7. replace ((128 * q + 127) / 128) with q
    by (apply (Z.div_unique_pos _ 128 q 127); lia).
  destruct (Z.ltb_spec q m); [done|].
  pose proof (Z.mod_pos_bound b 128).
  rewrite land_7F. change (2 ^ 7) with 128. rewrite varint_shift by lia.
  destruct (negb _).
  - destruct (Z.eqb_spec (128 * m + b mod 128) (128 * q + 127)); [done|]. apply IH. lia.
  - intros [= <- <-]. lia.
Qed.

(** ** Properties *)

(** CompactSize is a bijection between 64-bit lengths and accepted byte
    strings: a stream decodes to [n] exactly when it starts with the bytes the
    writer produces for [n], so a length has one encoding only. *)
Theorem compact_size_bijection (s rest : bytes) (n : Z) :
  bytes_ok s →
  ReadCompactSize s = Ok (n, rest) ↔ is_u64 n ∧ s = WriteCompactSize n ++ rest.
Proof.
  intros Hs. split.
  - intros H. by destruct (ReadCompactSize_canonical s n rest Hs H) as (? & ? & ?).
  - intros [Hn ->]. by apply ReadCompactSize_roundtrip.
Qed.

Lemma compact_size_bijection_witness :
  ReadCompactSize [253; 0x34; 0x12; 7] = Ok (0x1234, [7]).
Proof.
  apply (compact_size_bijection [253; 0x34; 0x12; 7] [7] 0x1234).
  - by_eval.
  - split; [by_eval|reflexivity].
Defined.

(** The VarInt format of a [nbits]-bit type is a bijection as well: the
    writer never runs past its [(nbits+6)/7]-byte buffer, and a stream decodes to
    [n] exactly when it starts with the writer's bytes for [n]. *)
Theorem varint_bijection (nbits : nat) (s rest : bytes) (n : Z) :
  (7 <= nbits)%nat → bytes_ok s →
  (0 <= n < 2 ^ Z.of_nat nbits → is_Some (WriteVarInt nbits n)) ∧
  (ReadVarInt (2 ^ Z.of_nat nbits - 1) s = Ok (n, rest) ↔
   0 <= n < 2 ^ Z.of_nat nbits ∧ ∃ w, WriteVarInt nbits n = Some w ∧ s = w ++ rest).
Proof.
  intros Hb Hs. set (max := 2 ^ Z.of_nat nbits - 1).
  assert (Htot : 0 <= n < 2 ^ Z.of_nat nbits →
            is_Some (WriteVarInt_tmp ((nbits + 6) / 7 - 1) 0 n)).
  { intros Hn. apply WriteVarInt_tmp_total. split; [lia|].
    apply Z.lt_le_trans with (2 ^ Z.of_nat nbits); [lia|]. apply Z.pow_le_mono_r; [lia|].
    pose proof (Nat.div_mod_eq (nbits + 6) 7). pose proof (Nat.mod_upper_bound (nbits + 6) 7).
    lia. }
  unfold WriteVarInt, ReadVarInt. split.
  { intros Hn. destruct (Htot Hn) as [l ->]. by eexists. }
  split.
  - intros Hr. assert (0 <= n <= max).
    { assert (max = 128 * (2 ^ (Z.of_nat nbits - 7) - 1) + 127) as Emax.
      { unfold max. replace (Z.of_nat nbits) with (7 + (Z.of_nat nbits - 7)) at 1 by lia.
        rewrite Z.pow_add_r by lia. lia. }
      rewrite Emax in *. eapply ReadVarInt_loop_bound; [|exact Hs|exact Hr].
      pose proof (Z.pow_pos_nonneg 2 (Z.of_nat nbits - 7)). lia. }
    unfold max in *. split; [lia|]. destruct Htot as [l Hl]; [lia|].
    destruct (ReadVarInt_loop_canonical (2 ^ Z.of_nat nbits - 1) 0 s n rest []) as (_ & f & l' & Hl' & Es);
      [lia|done|by left|done|].
    exists (rev l). rewrite Hl. split; [done|].
    rewrite (WriteVarInt_tmp_det _ _ _ _ _ _ Hl Hl'). done.
  - intros (Hn & w & Hw & ->). destruct (Htot Hn) as [l Hl]. rewrite Hl in Hw.
    injection Hw as <-. rewrite (ReadVarInt_digits max _ 0 n l) by (done || unfold max; lia).
    done.
Qed.

Lemma varint_bijection_witness :
  ReadVarInt (2 ^ Z.of_nat 64 - 1) [0x8E; 0xFE; 0xFE; 0xFF; 0x00; 9] = Ok (2 ^ 32, [9]).
Proof.
  apply (varint_bijection 64 [0x8E; 0xFE; 0xFE; 0xFF; 0x00; 9] [9] (2 ^ 32)).
  - lia.
  - by_eval.
  - split; [lia|]. exists [0x8E; 0xFE; 0xFE; 0xFF; 0x00]. split; reflexivity.
Defined.

(** The base-128 integers of data outputs round-trip at any offset: what
    [PutVarInt] appends, [GetVarInt] reads back with return code 0 and the number
    of bytes consumed. *)
Theorem data_varint_roundtrip (pre rest : bytes) (i i0 nB0 : Z) :
  is_u64 i →
  GetVarInt (pre ++ PutVarInt i ++ rest) (length pre) i0 nB0
  = (0, i, Z.of_nat (length (PutVarInt i))).
Proof.
  intros Hi. unfold GetVarInt, PutVarInt. rewrite drop_app_length.
  destruct (GetVarInt_loop_Put 10 i 0 1 rest) as (b & l & -> & Hg); try (widths; simpl; lia).
  cbn [app]. change (7 * (1 - 1)) with 0 in Hg. rewrite !Z.pow_0_r, !Z.mul_1_r, !Z.add_0_l in Hg.
  rewrite Hg. simpl length. f_equal. lia.
Qed.

Lemma data_varint_roundtrip_witness :
  GetVarInt ([6] ++ PutVarInt 100000 ++ [1; 2]) (length [6]) 0 0
  = (0, 100000, Z.of_nat (length (PutVarInt 100000))).
Proof. apply data_varint_roundtrip. by_eval. Defined.

(** The element count of a byte vector is truncated to 32 bits, so a
    length prefix of [2^32 + n] is read as [n]: with the size limit of
    [ReadCompactSize] disabled, byte vectors have encodings that no writer
    produces. *)
Theorem blob_length_truncated (v rest : bytes) :
  Z.of_nat (length v) < 2 ^ 32 →
  Unserialize_blob (WriteCompactSize (2 ^ 32 + Z.of_nat (length v)) ++ v ++ rest)
  = Ok (v, rest) ∧
  WriteCompactSize (2 ^ 32 + Z.of_nat (length v)) ++ v ≠ Serialize_blob v.
Proof.
  intros Hl. split.
  - rewrite Unserialize_blob_spec, ReadCompactSize_roundtrip by (widths; lia). simpl.
    unfold u32. rewrite Z.add_comm, <- Z.add_mod_idemp_r, Z.mod_same, Z.add_0_r by lia.
    rewrite Z.mod_small by lia. by apply read_blob_app.
  - unfold Serialize_blob. intros Heq. apply app_inv_tail in Heq.
    assert (Ok (E := ser_error) (2 ^ 32 + Z.of_nat (length v), @nil Z)
            = Ok (Z.of_nat (length v), [])) as Hc.
    { rewrite <- (ReadCompactSize_roundtrip (2 ^ 32 + Z.of_nat (length v)) [])
        by (widths; lia).
      by rewrite Heq, ReadCompactSize_roundtrip by (widths; lia). }
    injection Hc. lia.
Qed.

Lemma blob_length_truncated_witness :
  Unserialize_blob (WriteCompactSize (2 ^ 32 + 2) ++ [1; 2] ++ [3]) = Ok ([1; 2], [3]).
Proof. apply (blob_length_truncated [1; 2] [3]). simpl. lia. Defined.
