(* ===== verification/Script.v ===== *)
(** Script serialization of [src/src/script/script.h] and
    [src/src/script/script.cpp]: opcodes, script numbers, pushes, the
    instruction decoder, and the byte-pattern tests of standard outputs.

    A [CScript] is its byte string; a [const_iterator] is the suffix of the
    script that starts at it, or an offset where the source subtracts
    iterators. *)
From S2P Require Import Prelude Serialize.

(** ** Opcodes *)

(** [enum opcodetype].  A byte without a name of its own (a direct push, or an
    undefined opcode) is [OP_UNNAMED]. *)
Inductive opcodetype : Set :=
  | OP_0 | OP_PUSHDATA1 | OP_PUSHDATA2 | OP_PUSHDATA4 | OP_1NEGATE | OP_RESERVED | OP_1
  | OP_2 | OP_3 | OP_4 | OP_5 | OP_6 | OP_7 | OP_8 | OP_9 | OP_10 | OP_11 | OP_12
  | OP_13 | OP_14 | OP_15 | OP_16 | OP_NOP | OP_VER | OP_IF | OP_NOTIF | OP_VERIF
  | OP_VERNOTIF | OP_ELSE | OP_ENDIF | OP_VERIFY | OP_RETURN | OP_TOALTSTACK
  | OP_FROMALTSTACK | OP_2DROP | OP_2DUP | OP_3DUP | OP_2OVER | OP_2ROT | OP_2SWAP
  | OP_IFDUP | OP_DEPTH | OP_DROP | OP_DUP | OP_NIP | OP_OVER | OP_PICK | OP_ROLL
  | OP_ROT | OP_SWAP | OP_TUCK | OP_CAT | OP_SUBSTR | OP_LEFT | OP_RIGHT | OP_SIZE
  | OP_INVERT | OP_AND | OP_OR | OP_XOR | OP_EQUAL | OP_EQUALVERIFY | OP_RESERVED1
  | OP_RESERVED2 | OP_1ADD | OP_1SUB | OP_2MUL | OP_2DIV | OP_NEGATE | OP_ABS | OP_NOT
  | OP_0NOTEQUAL | OP_ADD | OP_SUB | OP_MUL | OP_DIV | OP_MOD | OP_LSHIFT | OP_RSHIFT
  | OP_BOOLAND | OP_BOOLOR | OP_NUMEQUAL | OP_NUMEQUALVERIFY | OP_NUMNOTEQUAL
  | OP_LESSTHAN | OP_GREATERTHAN | OP_LESSTHANOREQUAL | OP_GREATERTHANOREQUAL | OP_MIN
  | OP_MAX | OP_WITHIN | OP_RIPEMD160 | OP_SHA1 | OP_SHA256 | OP_HASH160 | OP_HASH256
  | OP_CODESEPARATOR | OP_CHECKSIG | OP_CHECKSIGVERIFY | OP_CHECKMULTISIG
  | OP_CHECKMULTISIGVERIFY | OP_NOP1 | OP_CHECKLOCKTIMEVERIFY | OP_CHECKSEQUENCEVERIFY
  | OP_NOP4 | OP_NOP5 | OP_NOP6 | OP_NOP7 | OP_NOP8 | OP_NOP9 | OP_NOP10
  | OP_INVALIDOPCODE
  | OP_UNNAMED (b : Z).

Abbreviation OP_FALSE := OP_0 (only parsing).
Abbreviation OP_TRUE := OP_1 (only parsing).
Abbreviation OP_NOP2 := OP_CHECKLOCKTIMEVERIFY (only parsing).
Abbreviation OP_NOP3 := OP_CHECKSEQUENCEVERIFY (only parsing).
Abbreviation OP_ISCOINSTAKE := OP_NOP9 (only parsing).

(** The enumerator of a byte and the byte of an enumerator
    ([static_cast<opcodetype>] and back). *)
Definition opcode_of_byte (b : Z) : opcodetype :=
  match b with
  | 0x00 => OP_0 | 0x4c => OP_PUSHDATA1 | 0x4d => OP_PUSHDATA2 | 0x4e => OP_PUSHDATA4
  | 0x4f => OP_1NEGATE | 0x50 => OP_RESERVED | 0x51 => OP_1 | 0x52 => OP_2
  | 0x53 => OP_3 | 0x54 => OP_4 | 0x55 => OP_5 | 0x56 => OP_6 | 0x57 => OP_7
  | 0x58 => OP_8 | 0x59 => OP_9 | 0x5a => OP_10 | 0x5b => OP_11 | 0x5c => OP_12
  | 0x5d => OP_13 | 0x5e => OP_14 | 0x5f => OP_15 | 0x60 => OP_16 | 0x61 => OP_NOP
  | 0x62 => OP_VER | 0x63 => OP_IF | 0x64 => OP_NOTIF | 0x65 => OP_VERIF
  | 0x66 => OP_VERNOTIF | 0x67 => OP_ELSE | 0x68 => OP_ENDIF | 0x69 => OP_VERIFY
  | 0x6a => OP_RETURN | 0x6b => OP_TOALTSTACK | 0x6c => OP_FROMALTSTACK
  | 0x6d => OP_2DROP | 0x6e => OP_2DUP | 0x6f => OP_3DUP | 0x70 => OP_2OVER
  | 0x71 => OP_2ROT | 0x72 => OP_2SWAP | 0x73 => OP_IFDUP | 0x74 => OP_DEPTH
  | 0x75 => OP_DROP | 0x76 => OP_DUP | 0x77 => OP_NIP | 0x78 => OP_OVER
  | 0x79 => OP_PICK | 0x7a => OP_ROLL | 0x7b => OP_ROT | 0x7c => OP_SWAP
  | 0x7d => OP_TUCK | 0x7e => OP_CAT | 0x7f => OP_SUBSTR | 0x80 => OP_LEFT
  | 0x81 => OP_RIGHT | 0x82 => OP_SIZE | 0x83 => OP_INVERT | 0x84 => OP_AND
  | 0x85 => OP_OR | 0x86 => OP_XOR | 0x87 => OP_EQUAL | 0x88 => OP_EQUALVERIFY
  | 0x89 => OP_RESERVED1 | 0x8a => OP_RESERVED2 | 0x8b => OP_1ADD | 0x8c => OP_1SUB
  | 0x8d => OP_2MUL | 0x8e => OP_2DIV | 0x8f => OP_NEGATE | 0x90 => OP_ABS
  | 0x91 => OP_NOT | 0x92 => OP_0NOTEQUAL | 0x93 => OP_ADD | 0x94 => OP_SUB
  | 0x95 => OP_MUL | 0x96 => OP_DIV | 0x97 => OP_MOD | 0x98 => OP_LSHIFT
  | 0x99 => OP_RSHIFT | 0x9a => OP_BOOLAND | 0x9b => OP_BOOLOR | 0x9c => OP_NUMEQUAL
  | 0x9d => OP_NUMEQUALVERIFY | 0x9e => OP_NUMNOTEQUAL | 0x9f => OP_LESSTHAN
  | 0xa0 => OP_GREATERTHAN | 0xa1 => OP_LESSTHANOREQUAL | 0xa2 => OP_GREATERTHANOREQUAL
  | 0xa3 => OP_MIN | 0xa4 => OP_MAX | 0xa5 => OP_WITHIN | 0xa6 => OP_RIPEMD160
  | 0xa7 => OP_SHA1 | 0xa8 => OP_SHA256 | 0xa9 => OP_HASH160 | 0xaa => OP_HASH256
  | 0xab => OP_CODESEPARATOR | 0xac => OP_CHECKSIG | 0xad => OP_CHECKSIGVERIFY
  | 0xae => OP_CHECKMULTISIG | 0xaf => OP_CHECKMULTISIGVERIFY | 0xb0 => OP_NOP1
  | 0xb1 => OP_CHECKLOCKTIMEVERIFY | 0xb2 => OP_CHECKSEQUENCEVERIFY | 0xb3 => OP_NOP4
  | 0xb4 => OP_NOP5 | 0xb5 => OP_NOP6 | 0xb6 => OP_NOP7 | 0xb7 => OP_NOP8
  | 0xb8 => OP_NOP9 | 0xb9 => OP_NOP10 | 0xff => OP_INVALIDOPCODE
  | _ => OP_UNNAMED b
  end.

Definition opcode_byte (op : opcodetype) : Z :=
  match op with
  | OP_0 => 0x00 | OP_PUSHDATA1 => 0x4c | OP_PUSHDATA2 => 0x4d | OP_PUSHDATA4 => 0x4e
  | OP_1NEGATE => 0x4f | OP_RESERVED => 0x50 | OP_1 => 0x51 | OP_2 => 0x52
  | OP_3 => 0x53 | OP_4 => 0x54 | OP_5 => 0x55 | OP_6 => 0x56 | OP_7 => 0x57
  | OP_8 => 0x58 | OP_9 => 0x59 | OP_10 => 0x5a | OP_11 => 0x5b | OP_12 => 0x5c
  | OP_13 => 0x5d | OP_14 => 0x5e | OP_15 => 0x5f | OP_16 => 0x60 | OP_NOP => 0x61
  | OP_VER => 0x62 | OP_IF => 0x63 | OP_NOTIF => 0x64 | OP_VERIF => 0x65
  | OP_VERNOTIF => 0x66 | OP_ELSE => 0x67 | OP_ENDIF => 0x68 | OP_VERIFY => 0x69
  | OP_RETURN => 0x6a | OP_TOALTSTACK => 0x6b | OP_FROMALTSTACK => 0x6c
  | OP_2DROP => 0x6d | OP_2DUP => 0x6e | OP_3DUP => 0x6f | OP_2OVER => 0x70
  | OP_2ROT => 0x71 | OP_2SWAP => 0x72 | OP_IFDUP => 0x73 | OP_DEPTH => 0x74
  | OP_DROP => 0x75 | OP_DUP => 0x76 | OP_NIP => 0x77 | OP_OVER => 0x78
  | OP_PICK => 0x79 | OP_ROLL => 0x7a | OP_ROT => 0x7b | OP_SWAP => 0x7c
  | OP_TUCK => 0x7d | OP_CAT => 0x7e | OP_SUBSTR => 0x7f | OP_LEFT => 0x80
  | OP_RIGHT => 0x81 | OP_SIZE => 0x82 | OP_INVERT => 0x83 | OP_AND => 0x84
  | OP_OR => 0x85 | OP_XOR => 0x86 | OP_EQUAL => 0x87 | OP_EQUALVERIFY => 0x88
  | OP_RESERVED1 => 0x89 | OP_RESERVED2 => 0x8a | OP_1ADD => 0x8b | OP_1SUB => 0x8c
  | OP_2MUL => 0x8d | OP_2DIV => 0x8e | OP_NEGATE => 0x8f | OP_ABS => 0x90
  | OP_NOT => 0x91 | OP_0NOTEQUAL => 0x92 | OP_ADD => 0x93 | OP_SUB => 0x94
  | OP_MUL => 0x95 | OP_DIV => 0x96 | OP_MOD => 0x97 | OP_LSHIFT => 0x98
  | OP_RSHIFT => 0x99 | OP_BOOLAND => 0x9a | OP_BOOLOR => 0x9b | OP_NUMEQUAL => 0x9c
  | OP_NUMEQUALVERIFY => 0x9d | OP_NUMNOTEQUAL => 0x9e | OP_LESSTHAN => 0x9f
  | OP_GREATERTHAN => 0xa0 | OP_LESSTHANOREQUAL => 0xa1 | OP_GREATERTHANOREQUAL => 0xa2
  | OP_MIN => 0xa3 | OP_MAX => 0xa4 | OP_WITHIN => 0xa5 | OP_RIPEMD160 => 0xa6
  | OP_SHA1 => 0xa7 | OP_SHA256 => 0xa8 | OP_HASH160 => 0xa9 | OP_HASH256 => 0xaa
  | OP_CODESEPARATOR => 0xab | OP_CHECKSIG => 0xac | OP_CHECKSIGVERIFY => 0xad
  | OP_CHECKMULTISIG => 0xae | OP_CHECKMULTISIGVERIFY => 0xaf | OP_NOP1 => 0xb0
  | OP_CHECKLOCKTIMEVERIFY => 0xb1 | OP_CHECKSEQUENCEVERIFY => 0xb2 | OP_NOP4 => 0xb3
  | OP_NOP5 => 0xb4 | OP_NOP6 => 0xb5 | OP_NOP7 => 0xb6 | OP_NOP8 => 0xb7
  | OP_NOP9 => 0xb8 | OP_NOP10 => 0xb9 | OP_INVALIDOPCODE => 0xff
  | OP_UNNAMED b => b
  end.

(** The order of [enum] values. *)
Definition op_le (a b : opcodetype) : bool := opcode_byte a <=? opcode_byte b.
Definition op_lt (a b : opcodetype) : bool := opcode_byte a <? opcode_byte b.
Definition op_eqb (a b : opcodetype) : bool := opcode_byte a =? opcode_byte b.

Definition MAX_SCRIPT_ELEMENT_SIZE : Z := 520.
Definition MAX_OPS_PER_SCRIPT : Z := 201.
Definition MAX_PUBKEYS_PER_MULTISIG : Z := 20.
Definition MAX_SCRIPT_SIZE : Z := 10000.
Definition MAX_STACK_SIZE : Z := 1000.
Definition LOCKTIME_THRESHOLD : Z := 500000000.
Definition MAX_OPCODE : opcodetype := OP_NOP10.

(** [size()] of a byte vector. *)
Definition size (v : bytes) : Z := Z.of_nat (length v).
(** [v[i]]; every use is guarded by a test of the size. *)
Definition at_ (v : bytes) (i : nat) : Z := nth i v 0.
(** [v.back()] of a non-empty vector. *)
Definition back (v : bytes) : Z := List.last v 0.

(** ** Script numbers *)

Module CScriptNum.

(** [scriptnum_error]. *)
Inductive error : Set := Overflow | NonMinimal.

(** The loop [result |= vch[i] << 8*i], from index [i]. *)
Fixpoint set_vch_loop (i : nat) (vch : bytes) (result : Z) : Z :=
  match vch with
  | [] => result
  | b :: vch' => set_vch_loop (S i) vch' (Z.lor result (Z.shiftl b (8 * Z.of_nat i)))
  end.

Definition set_vch (vch : bytes) : Z :=
  match vch with
  | [] => 0
  | _ =>
      let result := set_vch_loop 0 vch 0 in
      if negb (Z.land (back vch) 0x80 =? 0)
      then - Z.land result (Z.lnot (Z.shiftl 0x80 (8 * (size vch - 1))))
      else result
  end.

Definition nDefaultMaxNumSize : Z := 4.

(** [CScriptNum(vch, fRequireMinimal, nMaxNumSize)]. *)
Definition of_vch (vch : bytes) (fRequireMinimal : bool) (nMaxNumSize : Z)
  : result error Z :=
  if nMaxNumSize <? size vch then Err Overflow
  else if fRequireMinimal && (0 <? size vch) &&
          (Z.land (back vch) 0x7f =? 0) &&
          ((size vch <=? 1) || (Z.land (at_ vch (length vch - 2)) 0x80 =? 0))
  then Err NonMinimal
  else Ok (set_vch vch).

(** The loop [while (absvalue)] of [serialize]; eight bytes hold a 64-bit
    value. *)
Fixpoint abs_bytes (fuel : nat) (absvalue : Z) : bytes :=
  match fuel with
  | O => []
  | S f => if absvalue =? 0 then []
           else Z.land absvalue 0xff :: abs_bytes f (Z.shiftr absvalue 8)
  end.

(** [result.back() |= 0x80]. *)
Fixpoint set_last_sign (v : bytes) : bytes :=
  match v with
  | [] => []
  | [b] => [Z.lor b 0x80]
  | b :: v' => b :: set_last_sign v'
  end.

Definition serialize (value : Z) : bytes :=
  if value =? 0 then []
  else
    let neg := value <? 0 in
    let absvalue := u64 (if neg then - value else value) in
    let result := abs_bytes 8 absvalue in
    if negb (Z.land (back result) 0x80 =? 0)
    then result ++ [if neg then 0x80 else 0]
    else if neg then set_last_sign result else result.

(** [getint()]: saturates to [int]. *)
Definition getint (v : Z) : Z :=
  if 2 ^ 31 - 1 <? v then 2 ^ 31 - 1
  else if v <? - 2 ^ 31 then - 2 ^ 31
  else v.

End CScriptNum.

(** ** Building scripts *)

(** [operator<<(const std::vector<unsigned char>&)]: the bytes appended. *)
Definition push_data (b : bytes) : bytes :=
  (if size b <? opcode_byte OP_PUSHDATA1 then [u8 (size b)]
   else if size b <=? 0xff then [opcode_byte OP_PUSHDATA1; u8 (size b)]
   else if size b <=? 0xffff then opcode_byte OP_PUSHDATA2 :: le_bytes 2 (size b)
   else opcode_byte OP_PUSHDATA4 :: le_bytes 4 (size b)) ++ b.

(** [push_int64]. *)
Definition push_int64 (n : Z) : bytes :=
  if (n =? -1) || ((1 <=? n) && (n <=? 16)) then [u8 (n + (opcode_byte OP_1 - 1))]
  else if n =? 0 then [opcode_byte OP_0]
  else push_data (CScriptNum.serialize n).

(** [DecodeOP_N] and [EncodeOP_N]; [None] is a failed assertion. *)
Definition DecodeOP_N (opcode : opcodetype) : option Z :=
  if op_eqb opcode OP_0 then Some 0
  else if op_le OP_1 opcode && op_le opcode OP_16
  then Some (opcode_byte opcode - (opcode_byte OP_1 - 1))
  else None.

Definition EncodeOP_N (n : Z) : option opcodetype :=
  if (0 <=? n) && (n <=? 16) then
    Some (if n =? 0 then OP_0 else opcode_of_byte (opcode_byte OP_1 + n - 1))
  else None.

(** ** Decoding *)

(** What [GetScriptOp] leaves behind: its return value, [opcodeRet],
    [*pvchRet] and the advanced [pc] (also moved when decoding fails). *)
Record decoded := Decoded {
  d_ok : bool;
  d_opcode : opcodetype;
  d_vch : bytes;
  d_pc : bytes
}.

Definition GetScriptOp (pc : bytes) : decoded :=
  match pc with
  | [] => Decoded false OP_INVALIDOPCODE [] []
  | b :: pc =>
      let take_push nSize pc :=
        if size pc <? nSize then Decoded false OP_INVALIDOPCODE [] pc
        else Decoded true (opcode_of_byte b) (take (Z.to_nat nSize) pc)
               (drop (Z.to_nat nSize) pc) in
      if b <=? opcode_byte OP_PUSHDATA4 then
        if b <? opcode_byte OP_PUSHDATA1 then take_push b pc
        else if b =? opcode_byte OP_PUSHDATA1 then
          if size pc <? 1 then Decoded false OP_INVALIDOPCODE [] pc
          else take_push (at_ pc 0) (drop 1 pc)
        else if b =? opcode_byte OP_PUSHDATA2 then
          if size pc <? 2 then Decoded false OP_INVALIDOPCODE [] pc
          else take_push (le_value (take 2 pc)) (drop 2 pc)
        else
          if size pc <? 4 then Decoded false OP_INVALIDOPCODE [] pc
          else take_push (le_value (take 4 pc)) (drop 4 pc)
      else Decoded true (opcode_of_byte b) [] pc
  end.

(** [GetSigOpCount(bool fAccurate)].  An instruction takes at least one byte,
    so the length of the script bounds the loop. *)
Fixpoint GetSigOpCount_loop (fuel : nat) (fAccurate : bool) (lastOpcode : opcodetype)
    (pc : bytes) (n : Z) : Z :=
  match fuel, pc with
  | S f, _ :: _ =>
      let d := GetScriptOp pc in
      if negb (d_ok d) then n
      else
        let n :=
          match d_opcode d with
          | OP_CHECKSIG | OP_CHECKSIGVERIFY => u32 (n + 1)
          | OP_CHECKMULTISIG | OP_CHECKMULTISIGVERIFY =>
              if fAccurate && op_le OP_1 lastOpcode && op_le lastOpcode OP_16
              then u32 (n + default 0 (DecodeOP_N lastOpcode))
              else u32 (n + MAX_PUBKEYS_PER_MULTISIG)
          | _ => n
          end in
        GetSigOpCount_loop f fAccurate (d_opcode d) (d_pc d) n
  | _, _ => n
  end.

Definition GetSigOpCount (fAccurate : bool) (script : bytes) : Z :=
  GetSigOpCount_loop (length script) fAccurate OP_INVALIDOPCODE script 0.

(** ** Byte patterns of standard outputs *)

Definition is_op (script : bytes) (i : nat) (op : opcodetype) : bool :=
  at_ script i =? opcode_byte op.

Definition IsPayToPublicKeyHash (script : bytes) : bool :=
  (size script =? 25) && is_op script 0 OP_DUP && is_op script 1 OP_HASH160 &&
  (at_ script 2 =? 0x14) && is_op script 23 OP_EQUALVERIFY && is_op script 24 OP_CHECKSIG.

Definition IsPayToScriptHash (script : bytes) : bool :=
  (size script =? 23) && is_op script 0 OP_HASH160 && (at_ script 1 =? 0x14) &&
  is_op script 22 OP_EQUAL.

(** [this->size() - ofs >= k] on [size_t]. *)
Definition room (script : bytes) (ofs : nat) (k : Z) : bool :=
  k <=? u64 (size script - Z.of_nat ofs).

Definition MatchPayToScriptHash (script : bytes) (ofs : nat) : bool :=
  room script ofs 23 && is_op script (ofs + 0) OP_HASH160 &&
  (at_ script (ofs + 1) =? 0x14) && is_op script (ofs + 22) OP_EQUAL.

Definition MatchPayToPublicKeyHash (script : bytes) (ofs : nat) : bool :=
  room script ofs 25 && is_op script (ofs + 0) OP_DUP && is_op script (ofs + 1) OP_HASH160 &&
  (at_ script (ofs + 2) =? 0x14) && is_op script (ofs + 23) OP_EQUALVERIFY &&
  is_op script (ofs + 24) OP_CHECKSIG.

Definition MatchPayToPublicKeyHash256 (script : bytes) (ofs : nat) : bool :=
  room script ofs 37 && is_op script (ofs + 0) OP_DUP && is_op script (ofs + 1) OP_SHA256 &&
  (at_ script (ofs + 2) =? 0x20) && is_op script (ofs + 35) OP_EQUALVERIFY &&
  is_op script (ofs + 36) OP_CHECKSIG.

Definition IsPayToPublicKeyHash256 (script : bytes) : bool :=
  (size script =? 37) && MatchPayToPublicKeyHash256 script 0.

Definition MatchPayToScriptHash256 (script : bytes) (ofs : nat) : bool :=
  room script ofs 35 && is_op script (ofs + 0) OP_SHA256 &&
  (at_ script (ofs + 1) =? 0x20) && is_op script (ofs + 34) OP_EQUAL.

Definition IsPayToScriptHash256 (script : bytes) : bool :=
  (size script =? 35) && MatchPayToScriptHash256 script 0.

Definition IsPayToTimeLockedScriptHash (script : bytes) : bool :=
  let offset := 7%nat in
  (size script =? 30) && is_op script (offset + 0) OP_HASH160 &&
  (at_ script (offset + 1) =? 0x14) && is_op script (offset + 22) OP_EQUAL.

Definition IsPayToWitnessScriptHash (script : bytes) : bool :=
  (size script =? 34) && is_op script 0 OP_0 && (at_ script 1 =? 0x20).

(** [IsWitnessProgram]: [Some (version, program)] when it returns true. *)
Definition IsWitnessProgram (script : bytes) : option (Z * bytes) :=
  if (size script <? 4) || (42 <? size script) then None
  else if negb (is_op script 0 OP_0) &&
          ((at_ script 0 <? opcode_byte OP_1) || (opcode_byte OP_16 <? at_ script 0))
  then None
  else if at_ script 1 + 2 =? size script
  then Some (default 0 (DecodeOP_N (opcode_of_byte (at_ script 0))), drop 2 script)
  else None.

Definition IsPayToPublicKeyHash256_CS (script : bytes) : bool :=
  (size script =? 25 + 37 + 4) && is_op script 0 OP_ISCOINSTAKE && is_op script 1 OP_IF &&
  MatchPayToPublicKeyHash script 2 && is_op script 27 OP_ELSE &&
  MatchPayToPublicKeyHash256 script 28 && is_op script 65 OP_ENDIF.

Definition IsPayToScriptHash256_CS (script : bytes) : bool :=
  (size script =? 25 + 35 + 4) && is_op script 0 OP_ISCOINSTAKE && is_op script 1 OP_IF &&
  MatchPayToPublicKeyHash script 2 && is_op script 27 OP_ELSE &&
  MatchPayToScriptHash256 script 28 && is_op script 63 OP_ENDIF.

Definition IsPayToScriptHash_CS (script : bytes) : bool :=
  (size script =? 25 + 23 + 4) && is_op script 0 OP_ISCOINSTAKE && is_op script 1 OP_IF &&
  MatchPayToPublicKeyHash script 2 && is_op script 27 OP_ELSE &&
  MatchPayToScriptHash script 28 && is_op script 51 OP_ENDIF.

Definition StartsWithICS (script : bytes) : bool :=
  (0 <? size script) && is_op script 0 OP_ISCOINSTAKE.

Definition IsPayToScriptHashAny (fIsTxCoinstake : bool) (script : bytes) : bool :=
  if negb fIsTxCoinstake && (IsPayToScriptHash256_CS script || IsPayToScriptHash_CS script)
  then true
  else IsPayToScriptHash script || IsPayToScriptHash256 script
       || IsPayToTimeLockedScriptHash script.

(** [IsUnspendable]. *)
Definition IsUnspendable (script : bytes) : bool :=
  ((0 <? size script) && is_op script 0 OP_RETURN) || (MAX_SCRIPT_SIZE <? size script).

(** [IsPushOnly]. *)
Fixpoint IsPushOnly_loop (fuel : nat) (pc : bytes) : bool :=
  match fuel, pc with
  | S f, _ :: _ =>
      let d := GetScriptOp pc in
      if negb (d_ok d) then false
      else if op_lt OP_16 (d_opcode d) then false
      else IsPushOnly_loop f (d_pc d)
  | _, _ => true
  end.

Definition IsPushOnly (script : bytes) : bool := IsPushOnly_loop (length script) script.

(** [HasValidOps]. *)
Fixpoint HasValidOps_loop (fuel : nat) (it : bytes) : bool :=
  match fuel, it with
  | S f, _ :: _ =>
      let d := GetScriptOp it in
      if negb (d_ok d) || op_lt MAX_OPCODE (d_opcode d)
         || (MAX_SCRIPT_ELEMENT_SIZE <? size (d_vch d))
      then false
      else HasValidOps_loop f (d_pc d)
  | _, _ => true
  end.

Definition HasValidOps (script : bytes) : bool := HasValidOps_loop (length script) script.

(** The last element a script of pushes leaves in [vData]; [None] when an
    instruction fails to decode or is not a push. *)
Fixpoint last_push (fuel : nat) (pc vData : bytes) : option bytes :=
  match fuel, pc with
  | S f, _ :: _ =>
      let d := GetScriptOp pc in
      if negb (d_ok d) then None
      else if op_lt OP_16 (d_opcode d) then None
      else last_push f (d_pc d) (d_vch d)
  | _, _ => Some vData
  end.

(** [GetSigOpCount(const CScript& scriptSig)]. *)
Definition GetSigOpCount_p2sh (script scriptSig : bytes) : Z :=
  if negb (IsPayToScriptHashAny false script) then GetSigOpCount true script
  else match last_push (length scriptSig) scriptSig [] with
       | None => 0
       | Some vData => GetSigOpCount true vData
       end.

(** ** Decoding: lemmas *)

Lemma opcode_byte_of_byte b : opcode_byte (opcode_of_byte b) = b.
Proof.
  destruct b as [|p|p]; try done. do 8 (destruct p as [p|p|]; try done).
Qed.

Lemma size_nonneg v : 0 <= size v.
Proof. unfold size. lia. Qed.

Lemma size_app v w : size (v ++ w) = size v + size w.
Proof. unfold size. rewrite length_app. lia. Qed.

(** A decoded instruction consumes at least its opcode byte. *)
Lemma GetScriptOp_progress pc :
  pc ≠ [] → (length (d_pc (GetScriptOp pc)) < length pc)%nat.
Proof.
  destruct pc as [|b pc]; [done|]. intros _. unfold GetScriptOp.
  repeat match goal with
  | |- context [if ?c then _ else _] => destruct c
  end; cbn [d_pc]; rewrite ?length_drop; simpl; lia.
Qed.

(** The remaining script is a suffix of the script. *)
Lemma GetScriptOp_suffix pc : ∃ p, pc = p ++ d_pc (GetScriptOp pc).
Proof.
  destruct pc as [|b pc]; [by exists []|]. unfold GetScriptOp.
  repeat match goal with
  | |- context [if ?c then _ else _] => destruct c
  end; cbn [d_pc]; rewrite ?drop_drop;
  match goal with
  | |- ∃ p, ?b :: ?l = p ++ drop ?n ?l => exists (b :: take n l); simpl; by rewrite take_drop
  | |- ∃ p, ?b :: ?l = p ++ ?l => by exists [b]
  end.
Qed.

Lemma GetScriptOp_vch_size pc :
  size (d_vch (GetScriptOp pc)) <= size pc.
Proof.
  destruct pc as [|b pc]; [done|]. unfold GetScriptOp.
  repeat match goal with
  | |- context [if ?c then _ else _] => destruct c
  end; cbn [d_vch]; unfold size; rewrite ?length_take, ?length_drop; simpl; lia.
Qed.

Lemma GetScriptOp_bytes pc :
  bytes_ok pc → bytes_ok (d_vch (GetScriptOp pc)) ∧ bytes_ok (d_pc (GetScriptOp pc)).
Proof.
  intros Hpc. destruct Hpc as [|b pc Hb Hpc]; [by repeat constructor|]. unfold GetScriptOp.
  repeat match goal with
  | |- context [if ?c then _ else _] => destruct c
  end; cbn [d_vch d_pc]; split; unfold bytes_ok;
    auto using Forall_nil_2, Forall_take, Forall_drop.
Qed.

(** Reading a push back: the opcode is below [OP_16] and the element is whole. *)
Lemma GetScriptOp_push_data b rest :
  size b < 2 ^ 32 →
  ∃ op, GetScriptOp (push_data b ++ rest) = Decoded true op b rest ∧
        opcode_byte op <= opcode_byte OP_PUSHDATA4.
Proof.
  intros Hb. pose proof (size_nonneg b).
  assert (Htake : ∀ op n, n = size b →
    (if size (b ++ rest) <? n then Decoded false OP_INVALIDOPCODE [] (b ++ rest)
     else Decoded true op (take (Z.to_nat n) (b ++ rest)) (drop (Z.to_nat n) (b ++ rest)))
    = Decoded true op b rest).
  { intros op n ->. rewrite size_app. pose proof (size_nonneg rest).
    destruct (Z.ltb_spec (size b + size rest) (size b)); [lia|].
    unfold size. by rewrite Nat2Z.id, take_app_length, drop_app_length. }
  unfold push_data. rewrite <- !app_assoc.
  destruct (Z.ltb_spec (size b) (opcode_byte OP_PUSHDATA1)) as [H1|H1]; cbn in H1.
  { exists (opcode_of_byte (size b)). rewrite opcode_byte_of_byte.
    rewrite u8_small by (widths; lia). cbn [app GetScriptOp].
    destruct (Z.leb_spec (size b) (opcode_byte OP_PUSHDATA4)) as [|H2]; [|cbn in H2; lia].
    destruct (Z.ltb_spec (size b) (opcode_byte OP_PUSHDATA1)) as [|H2]; [|cbn in H2; lia].
    split; [by apply Htake|done]. }
  destruct (Z.leb_spec (size b) 0xff).
  { exists OP_PUSHDATA1. split; [|done]. rewrite u8_small by (widths; lia).
    cbn [app GetScriptOp]. change (opcode_byte OP_PUSHDATA1) with 0x4c.
    cbv beta zeta. cbn [opcode_byte Z.leb Z.ltb Z.eqb Z.compare Pos.compare Pos.compare_cont Pos.eqb].
    destruct (Z.ltb_spec (size (size b :: b ++ rest)) 1) as [Hs|_].
    { unfold size at 1 in Hs. simpl in Hs. lia. }
    cbn [drop at_ nth]. rewrite drop_0. by apply Htake. }
  destruct (Z.leb_spec (size b) 0xffff).
  { exists OP_PUSHDATA2. split; [|done]. cbn [app GetScriptOp].
    change (opcode_byte OP_PUSHDATA2) with 0x4d.
    cbn [opcode_byte Z.leb Z.ltb Z.eqb Z.compare Pos.compare Pos.compare_cont Pos.eqb].
    rewrite size_app. replace (size (le_bytes 2 (size b))) with 2
      by (unfold size; by rewrite length_le_bytes).
    pose proof (size_nonneg (b ++ rest)).
    destruct (Z.ltb_spec (2 + size (b ++ rest)) 2); [lia|].
    pose proof (length_le_bytes 2 (size b)) as Hl.
    rewrite take_app_le, take_ge, drop_app_ge by lia.
    rewrite le_value_le_bytes, Z.mod_small by (simpl; lia).
    rewrite Hl, Nat.sub_diag, drop_0. by apply Htake. }
  exists OP_PUSHDATA4. split; [|done]. cbn [app GetScriptOp].
  change (opcode_byte OP_PUSHDATA4) with 0x4e.
  cbn [opcode_byte Z.leb Z.ltb Z.eqb Z.compare Pos.compare Pos.compare_cont Pos.eqb].
  rewrite size_app. replace (size (le_bytes 4 (size b))) with 4
    by (unfold size; by rewrite length_le_bytes).
  pose proof (size_nonneg (b ++ rest)).
  destruct (Z.ltb_spec (4 + size (b ++ rest)) 4); [lia|].
  pose proof (length_le_bytes 4 (size b)) as Hl.
  rewrite take_app_le, take_ge, drop_app_ge by lia.
  rewrite le_value_le_bytes, Z.mod_small by (simpl; lia).
  rewrite Hl, Nat.sub_diag, drop_0. by apply Htake.
Qed.

(** ** Script numbers: lemmas *)

Lemma le_value_app l1 l2 :
  le_value (l1 ++ l2) = le_value l1 + 2 ^ (8 * Z.of_nat (length l1)) * le_value l2.
Proof.
  induction l1 as [|b l1 IH]; simpl length; simpl le_value; simpl app; [simpl; lia|].
  simpl le_value. rewrite pow8_succ, IH. lia.
Qed.

Lemma back_snoc l b : back (l ++ [b]) = b.
Proof. apply List.last_last. Qed.

Module CScriptNumFacts.
Import CScriptNum.

Lemma set_vch_loop_spec i vch r :
  bytes_ok vch → 0 <= r < 2 ^ (8 * Z.of_nat i) →
  set_vch_loop i vch r = r + 2 ^ (8 * Z.of_nat i) * le_value vch.
Proof.
  intros Hv. revert i r. induction Hv as [|b v Hb _ IH]; intros i r Hr; simpl; [lia|].
  rewrite Z.shiftl_mul_pow2, lor_add_disjoint by lia.
  assert (0 <= r + b * 2 ^ (8 * Z.of_nat i) < 2 ^ (8 * Z.of_nat (S i)))
    by (rewrite pow8_succ; widths; nia).
  rewrite IH, pow8_succ by done. lia.
Qed.

Lemma clear_top_bit x k : 0 <= k → 0 <= x < 2 ^ k → Z.land (x + 2 ^ k) (Z.lnot (2 ^ k)) = x.
Proof.
  intros Hk Hx. replace (x + 2 ^ k) with (x + 1 * 2 ^ k) by lia.
  rewrite <- lor_add_disjoint, Z.mul_1_l by done.
  apply Z.bits_inj'. intros n Hn.
  rewrite Z.land_spec, Z.lor_spec, Z.lnot_spec, Z.pow2_bits_eqb by done.
  destruct (Z.eqb_spec k n) as [<-|]; simpl.
  - rewrite andb_false_r. symmetry. rewrite <- (Z.mod_small x (2 ^ k)) by done.
    by apply Z.mod_pow2_bits_high.
  - by rewrite orb_false_r, andb_true_r.
Qed.

(** The value of an encoding, by its sign byte. *)
Lemma set_vch_snoc l b :
  bytes_ok (l ++ [b]) →
  set_vch (l ++ [b])
  = if 128 <=? b then - (le_value l + (b - 128) * 2 ^ (8 * Z.of_nat (length l)))
    else le_value l + b * 2 ^ (8 * Z.of_nat (length l)).
Proof.
  intros Hok. pose proof Hok as [Hl Hb]%Forall_app. apply Forall_cons in Hb as [Hb _].
  unfold set_vch. destruct (l ++ [b]) as [|x y] eqn:E; [by destruct l|]. rewrite <- E in *.
  rewrite back_snoc, land_0x80 by done.
  rewrite set_vch_loop_spec by (done || simpl; lia).
  rewrite Z.mul_0_r, Z.pow_0_r, Z.mul_1_l, Z.add_0_l, le_value_app. simpl le_value.
  rewrite Z.mul_0_r, Z.add_0_r.
  pose proof (le_value_bound l Hl) as Hlv.
  destruct (Z.leb_spec 128 b); [|lia].
  f_equal. rewrite size_app. change (size [b]) with 1. rewrite Z.add_simpl_r.
  change 0x80 with (2 ^ 7). rewrite Z.shiftl_mul_pow2 by (pose proof (size_nonneg l); lia).
  unfold size. rewrite <- Z.pow_add_r by lia.
  set (P := 2 ^ (8 * Z.of_nat (length l))) in *.
  assert (E7 : 2 ^ (7 + 8 * Z.of_nat (length l)) = 128 * P)
    by (rewrite Z.pow_add_r by lia; done).
  replace (le_value l + P * b)
    with (le_value l + (b - 128) * P + 2 ^ (7 + 8 * Z.of_nat (length l))) by lia.
  apply clear_top_bit; [lia|]. rewrite E7. widths. nia.
Qed.

Lemma abs_bytes_spec f a :
  0 <= a < 2 ^ (8 * Z.of_nat f) →
  bytes_ok (abs_bytes f a) ∧ le_value (abs_bytes f a) = a ∧ (length (abs_bytes f a) <= f)%nat ∧
  (a ≠ 0 → ∃ l b, abs_bytes f a = l ++ [b] ∧ b ≠ 0).
Proof.
  revert a. induction f as [|f IH]; intros a Ha; simpl abs_bytes.
  { simpl in Ha. assert (a = 0) as -> by lia. split_and!; [constructor|done..]. }
  destruct (Z.eqb_spec a 0) as [->|Hne]; [split_and!; [constructor|done|simpl; lia|done]|].
  rewrite land_FF, Z.shiftr_div_pow2 by lia. rewrite pow8_succ in Ha.
  pose proof (Z.div_mod a (2 ^ 8)). pose proof (Z.mod_pos_bound a (2 ^ 8)).
  destruct (IH (a / 2 ^ 8)) as (H1 & H2 & H3 & H4).
  { split; [apply Z.div_pos; lia|]. apply Z.div_lt_upper_bound; lia. }
  split_and!.
  - constructor; [widths; lia|done].
  - simpl. rewrite H2. lia.
  - simpl. lia.
  - intros _. destruct (Z.eq_dec (a / 2 ^ 8) 0) as [E|Hd].
    + exists [], (a mod 2 ^ 8). rewrite E. split; [by destruct f|lia].
    + destruct (H4 Hd) as (l & b & -> & Hb). by exists (a mod 2 ^ 8 :: l), b.
Qed.

Lemma set_last_sign_snoc l b : set_last_sign (l ++ [b]) = l ++ [Z.lor b 0x80].
Proof.
  induction l as [|x l IH]; [done|]. simpl. rewrite IH. by destruct (l ++ [b]) eqn:E;
    [destruct l|].
Qed.

(** The shape of an encoding: magnitude bytes and a sign byte. *)
Lemma serialize_shape n :
  n ≠ 0 → Z.abs n < 2 ^ 63 →
  ∃ l b, serialize n = l ++ [b] ∧ bytes_ok (l ++ [b]) ∧
    (128 <=? b) = (n <? 0) ∧
    le_value l + (b mod 128) * 2 ^ (8 * Z.of_nat (length l)) = Z.abs n ∧
    (b mod 128 ≠ 0 ∨ ∃ l' c, l = l' ++ [c] ∧ 128 <= c).
Proof.
  intros Hne Hn. unfold serialize. destruct (Z.eqb_spec n 0); [done|].
  replace (if n <? 0 then - n else n) with (Z.abs n) by (destruct (Z.ltb_spec n 0); lia).
  rewrite u64_small by (widths; lia).
  destruct (abs_bytes_spec 8 (Z.abs n)) as (Hok & Hv & _ & Hl); [simpl; lia|].
  destruct Hl as (l & b & E & Hb); [lia|]. rewrite E in *. rewrite back_snoc.
  pose proof Hok as [Hlok Hbok]%Forall_app. apply Forall_cons in Hbok as [Hbok _].
  rewrite land_0x80 by done. rewrite le_value_app in Hv. simpl in Hv.
  rewrite Z.mul_0_r, Z.add_0_r in Hv.
  destruct (Z.leb_spec 128 b).
  - exists (l ++ [b]), (if n <? 0 then 0x80 else 0).
    split; [done|]. split.
    { apply Forall_app. split; [done|]. constructor; [|done].
      by destruct (n <? 0); split. }
    split; [by destruct (n <? 0)|]. split; [|right; by exists l, b].
    rewrite le_value_app. simpl le_value. rewrite Z.mul_0_r, Z.add_0_r.
    replace ((if n <? 0 then 0x80 else 0) mod 128) with 0 by (by destruct (n <? 0)). lia.
  - destruct (Z.ltb_spec n 0).
    + rewrite set_last_sign_snoc, lor_0x80 by (widths; lia). exists l, (b + 128).
      split; [done|]. split.
      { apply Forall_app. split; [done|]. constructor; [widths; lia|done]. }
      rewrite <- Z.add_mod_idemp_r, Z.mod_same, Z.add_0_r, Z.mod_small by (widths; lia).
      widths. split_and!; [lia|lia|left; lia].
    + exists l, b. split; [done|]. split; [done|].
      rewrite Z.mod_small by (widths; lia). widths. split_and!; [lia|lia|left; lia].
Qed.

Lemma set_vch_serialize n : Z.abs n < 2 ^ 63 → set_vch (serialize n) = n.
Proof.
  intros Hn. destruct (Z.eq_dec n 0) as [->|Hne]; [done|].
  destruct (serialize_shape n Hne Hn) as (l & b & -> & Hok & Hs & Hv & _).
  rewrite set_vch_snoc by done. rewrite Hs.
  apply Forall_app in Hok as [_ Hb]. apply Forall_cons in Hb as [Hb _].
  destruct (Z.ltb_spec n 0).
  - assert (b mod 128 = b - 128) as E.
    { symmetry. apply (Z.mod_unique_pos b 128 1); widths; lia. }
    rewrite E in Hv. lia.
  - rewrite Z.mod_small in Hv by (widths; lia). lia.
Qed.

Lemma serialize_bytes n : Z.abs n < 2 ^ 63 → bytes_ok (serialize n).
Proof.
  intros Hn. destruct (Z.eq_dec n 0) as [->|Hne]; [constructor|].
  by destruct (serialize_shape n Hne Hn) as (l & b & -> & Hok & _).
Qed.

Lemma serialize_size n k :
  Z.abs n < 2 ^ (8 * k - 1) → 1 <= k <= 8 → size (serialize n) <= k.
Proof.
  intros Hn Hk.
  assert (Z.abs n < 2 ^ 63)
    by (eapply Z.lt_le_trans; [exact Hn|]; apply Z.pow_le_mono_r; lia).
  destruct (Z.eq_dec n 0) as [->|Hne]; [change (size (serialize 0)) with 0; lia|].
  destruct (serialize_shape n Hne) as (l & b & E & Hok & _ & Hv & Hmin); [done|].
  rewrite E, size_app. change (size [b]) with 1. unfold size.
  apply Forall_app in Hok as [Hl Hb]. apply Forall_cons in Hb as [Hb _].
  pose proof (Z.mod_pos_bound b 128). pose proof (le_value_bound l Hl).
  pose proof (Z.pow_pos_nonneg 2 (8 * Z.of_nat (length l))).
  destruct (Z.le_gt_cases (Z.of_nat (length l) + 1) k) as [|Hgt]; [done|]. exfalso.
  assert (2 ^ (8 * k - 1) <= Z.abs n); [|lia]. rewrite <- Hv.
  destruct Hmin as [Hb0|(l' & c & -> & Hc)].
  - apply Z.le_trans with (2 ^ (8 * Z.of_nat (length l))); [|nia].
    apply Z.pow_le_mono_r; lia.
  - rewrite le_value_app. simpl le_value. rewrite Z.mul_0_r, Z.add_0_r.
    rewrite length_app in Hgt. simpl in Hgt.
    assert (0 <= le_value l') by (apply le_value_bound; by apply Forall_app in Hl as [? _]).
    apply Z.le_trans with (2 ^ (8 * Z.of_nat (length l')) * c); [|nia].
    apply Z.le_trans with (2 ^ (8 * Z.of_nat (length l')) * 2 ^ 7); [|nia].
    rewrite <- Z.pow_add_r by lia. apply Z.pow_le_mono_r; lia.
Qed.

(** The magnitude of a number and what makes its encoding minimal. *)
Definition magnitude (l : bytes) (b : Z) : Z :=
  le_value l + (b mod 128) * 2 ^ (8 * Z.of_nat (length l)).
Definition minimal (l : bytes) (b : Z) : Prop :=
  b mod 128 ≠ 0 ∨ ∃ l' c, l = l' ++ [c] ∧ 128 <= c.

Lemma magnitude_bounds l b :
  bytes_ok l → minimal l b →
  2 ^ (8 * Z.of_nat (length l) - 1) <= magnitude l b < 2 ^ (8 * Z.of_nat (length l) + 7).
Proof.
  intros Hl Hmin. unfold magnitude.
  pose proof (le_value_bound l Hl). pose proof (Z.mod_pos_bound b 128).
  rewrite (Z.pow_add_r 2 _ 7) by lia. change (2 ^ 7) with 128. split; [|nia].
  destruct Hmin as [Hb|(l' & c & -> & Hc)].
  - apply Z.le_trans with (2 ^ (8 * Z.of_nat (length l))); [|nia].
    apply Z.pow_le_mono_r; lia.
  - rewrite le_value_app. simpl le_value. rewrite Z.mul_0_r, Z.add_0_r.
    apply Forall_app in Hl as [Hl' _]. pose proof (le_value_bound l' Hl').
    rewrite length_app. simpl length.
    replace (8 * Z.of_nat (length l' + 1) - 1) with (8 * Z.of_nat (length l') + 7) by lia.
    rewrite Z.pow_add_r by lia. change (2 ^ 7) with 128.
    pose proof (Z.pow_pos_nonneg 2 (8 * Z.of_nat (length l' + 1))). nia.
Qed.

(** Two minimal encodings of one magnitude agree but for the sign bit. *)
Lemma magnitude_inj l1 b1 l2 b2 :
  bytes_ok l1 → bytes_ok l2 → minimal l1 b1 → minimal l2 b2 →
  magnitude l1 b1 = magnitude l2 b2 → l1 = l2 ∧ b1 mod 128 = b2 mod 128.
Proof.
  intros H1 H2 M1 M2 E.
  pose proof (magnitude_bounds l1 b1 H1 M1). pose proof (magnitude_bounds l2 b2 H2 M2).
  assert (Hlen : length l1 = length l2).
  { destruct (Nat.lt_total (length l1) (length l2)) as [Hlt|[?|Hlt]]; [|done|].
    - assert (2 ^ (8 * Z.of_nat (length l1) + 7) <= 2 ^ (8 * Z.of_nat (length l2) - 1))
        by (apply Z.pow_le_mono_r; lia). lia.
    - assert (2 ^ (8 * Z.of_nat (length l2) + 7) <= 2 ^ (8 * Z.of_nat (length l1) - 1))
        by (apply Z.pow_le_mono_r; lia). lia. }
  unfold magnitude in E. rewrite <- Hlen in E.
  pose proof (le_value_bound l1 H1) as B1. pose proof (le_value_bound l2 H2) as B2.
  rewrite <- Hlen in B2. set (P := 2 ^ (8 * Z.of_nat (length l1))) in *.
  destruct (split_unique _ _ _ _ _ B1 B2 E) as [El ?].
  split; [|done]. rewrite <- (le_bytes_le_value l1), <- (le_bytes_le_value l2) by done.
  by rewrite Hlen, El.
Qed.

Lemma of_vch_minimal l b k n :
  bytes_ok (l ++ [b]) → of_vch (l ++ [b]) true k = Ok n →
  size (l ++ [b]) <= k ∧ n = set_vch (l ++ [b]) ∧ minimal l b.
Proof.
  intros Hok. unfold of_vch. destruct (Z.ltb_spec k (size (l ++ [b]))); [done|].
  rewrite back_snoc, size_app, land_7F. change (size [b]) with 1. change (2 ^ 7) with 128.
  pose proof (size_nonneg l). destruct (Z.ltb_spec 0 (size l + 1)); [|lia].
  cbn [andb]. destruct (Z.eqb_spec (b mod 128) 0) as [Eb|Hb]; cbn [andb].
  - destruct l as [|c l' _] using rev_ind; [done|].
    destruct (Z.leb_spec (size (l' ++ [c]) + 1) 1) as [Hs|_].
    { rewrite size_app in Hs. change (size [c]) with 1 in Hs. pose proof (size_nonneg l'). lia. }
    simpl orb. replace (at_ ((l' ++ [c]) ++ [b]) (length ((l' ++ [c]) ++ [b]) - 2)) with c.
    2: { unfold at_. rewrite !length_app. simpl. rewrite <- app_assoc.
         rewrite app_nth2 by lia. by replace (length l' + 1 + 1 - 2 - length l')%nat with 0%nat by lia. }
    apply Forall_app in Hok as [Hl _]. apply Forall_app in Hl as [_ Hc].
    apply Forall_cons in Hc as [Hc _]. pose proof (land_0x80 c Hc) as Hc'.
    destruct (Z.land c 0x80 =? 0); [done|]. simpl in Hc'. intros [= <-].
    split; [by rewrite !size_app in *|]. split; [done|]. right. exists l', c. split; [done|lia].
  - intros [= <-]. split; [by rewrite !size_app in *|]. split; [done|]. by left.
Qed.

(** A minimally encoded number is the serialization of its value. *)
Lemma serialize_set_vch v k n :
  bytes_ok v → k <= 7 → of_vch v true k = Ok n → serialize n = v ∧ Z.abs n < 2 ^ 63.
Proof.
  intros Hv Hk. destruct v as [|b l _] using rev_ind.
  { unfold of_vch. destruct (k <? size []); [done|]. by intros [= <-]. }
  intros Hn. destruct (of_vch_minimal l b k n Hv Hn) as (Hs & -> & Hmin).
  pose proof Hv as [Hl Hb]%Forall_app. apply Forall_cons in Hb as [Hb _].
  pose proof (magnitude_bounds l b Hl Hmin) as HB.
  pose proof (Z.pow_nonneg 2 (8 * Z.of_nat (length l) - 1)).
  rewrite size_app in Hs. change (size [b]) with 1 in Hs. unfold size in Hs.
  assert (magnitude l b < 2 ^ 63)
    by (eapply Z.lt_le_trans; [apply HB|]; apply Z.pow_le_mono_r; lia).
  assert (magnitude l b ≠ 0).
  { destruct Hmin as [Hb0|(l' & c & -> & Hc)].
    - unfold magnitude. pose proof (le_value_bound l Hl).
      pose proof (Z.mod_pos_bound b 128).
      pose proof (Z.pow_pos_nonneg 2 (8 * Z.of_nat (length l))). nia.
    - rewrite length_app in HB. simpl length in HB.
      pose proof (Z.pow_pos_nonneg 2 (8 * Z.of_nat (length l' + 1) - 1)). lia. }
  assert (En : set_vch (l ++ [b]) = if 128 <=? b then - magnitude l b else magnitude l b).
  { rewrite set_vch_snoc by done. unfold magnitude. destruct (Z.leb_spec 128 b).
    - replace (b mod 128) with (b - 128)
        by (apply (Z.mod_unique_pos b 128 1); widths; lia). done.
    - by rewrite Z.mod_small by (widths; lia). }
  set (n' := set_vch (l ++ [b])) in *.
  assert (Hn' : Z.abs n' = magnitude l b ∧ (n' <? 0) = (128 <=? b))
    by (rewrite En; destruct (128 <=? b); lia).
  destruct Hn' as [Habs Hsign]. split; [|lia].
  destruct (serialize_shape n') as (l2 & b2 & -> & Hok2 & Hs2 & Hv2 & Hmin2); [lia|lia|].
  apply Forall_app in Hok2 as [Hl2 Hb2]. apply Forall_cons in Hb2 as [Hb2 _].
  destruct (magnitude_inj l b l2 b2 Hl Hl2 Hmin Hmin2) as [-> Em].
  { unfold magnitude at 2. by rewrite Hv2, Habs. }
  f_equal. f_equal. rewrite Hsign in Hs2.
  pose proof (Z.div_mod b 128). pose proof (Z.div_mod b2 128).
  assert (∀ x, is_u8 x → x / 128 = if 128 <=? x then 1 else 0) as Hd.
  { intros x Hx. destruct (Z.leb_spec 128 x).
    - symmetry. apply (Z.div_unique_pos x 128 1 (x - 128)); widths; lia.
    - apply Z.div_small. widths; lia. }
  rewrite (Hd b Hb) in *. rewrite (Hd b2 Hb2) in *. rewrite Hs2 in *. lia.
Qed.

Lemma of_vch_serialize n k :
  Z.abs n < 2 ^ 63 → size (serialize n) <= k → of_vch (serialize n) true k = Ok n.
Proof.
  intros Hn Hs. unfold of_vch. destruct (Z.ltb_spec k (size (serialize n))); [lia|].
  rewrite set_vch_serialize by done.
  destruct (Z.eq_dec n 0) as [->|Hne]; [done|].
  destruct (serialize_shape n Hne Hn) as (l & b & -> & Hok & _ & _ & Hmin).
  rewrite back_snoc, size_app, land_7F. change (2 ^ 7) with 128. change (size [b]) with 1.
  destruct Hmin as [Hb|(l' & c & -> & Hc)].
  { destruct (Z.eqb_spec (b mod 128) 0); [done|]. by rewrite andb_false_r. }
  replace (at_ ((l' ++ [c]) ++ [b]) (length ((l' ++ [c]) ++ [b]) - 2)) with c.
  2: { unfold at_. rewrite !length_app. simpl. rewrite <- app_assoc.
       rewrite app_nth2 by lia. by replace (length l' + 1 + 1 - 2 - length l')%nat with 0%nat by lia. }
  rewrite size_app. change (size [c]) with 1. pose proof (size_nonneg l').
  destruct (Z.leb_spec (size l' + 1 + 1) 1); [lia|]. cbn [orb].
  apply Forall_app in Hok as [Hl _]. apply Forall_app in Hl as [_ Hc'].
  apply Forall_cons in Hc' as [Hc' _]. pose proof (land_0x80 c Hc') as Hl.
  destruct (Z.land c 0x80 =? 0); [simpl in Hl; lia|]. by rewrite andb_false_r.
Qed.

(** A four-byte operand. *)
Lemma of_vch_range v m x : bytes_ok v → of_vch v m 4 = Ok x → Z.abs x < 2 ^ 31.
Proof.
  intros Hv. unfold of_vch. destruct (Z.ltb_spec 4 (size v)); [done|].
  destruct (_ && _); [done|]. intros [= <-].
  destruct v as [|c l _] using rev_ind; [done|].
  rewrite set_vch_snoc by done.
  apply Forall_app in Hv as [Hl Hc]. apply Forall_cons in Hc as [Hc _].
  pose proof (le_value_bound l Hl) as Hlv.
  rewrite size_app in *. change (size [c]) with 1 in *. unfold size in *.
  assert (2 ^ (8 * Z.of_nat (length l)) <= 2 ^ 24) by (apply Z.pow_le_mono_r; lia).
  destruct (Z.leb_spec 128 c); widths; nia.
Qed.

End CScriptNumFacts.

(** ** Properties *)

(** Minimally encoded script numbers are in bijection with the integers
    that fit: decoding accepts a byte vector as [n] exactly when it is the
    serialization of [n] and within the size limit. *)
Theorem script_number_bijection (v : bytes) (k n : Z) :
  bytes_ok v → k <= 7 →
  CScriptNum.of_vch v true k = Ok n ↔
  Z.abs n < 2 ^ 63 ∧ v = CScriptNum.serialize n ∧ size v <= k.
Proof.
  intros Hv Hk. split.
  - intros H. destruct (CScriptNumFacts.serialize_set_vch v k n Hv Hk H) as [<- Hn].
    split; [done|]. split; [done|]. unfold CScriptNum.of_vch in H.
    destruct (Z.ltb_spec k (size (CScriptNum.serialize n))); [done|lia].
  - intros (Hn & -> & Hs). by apply CScriptNumFacts.of_vch_serialize.
Qed.

Lemma script_number_bijection_witness : CScriptNum.of_vch [0xff; 0x80] true 4 = Ok (-255).
Proof.
  apply (script_number_bijection [0xff; 0x80] 4 (-255)).
  - by_eval.
  - lia.
  - split; [simpl; lia|]. split; [reflexivity|by_eval].
Defined.

(** The results of arithmetic on four-byte operands are encoded in at
    most five bytes and read back exactly, so no numeric opcode loses
    information when its result is pushed. *)
Theorem script_arithmetic_roundtrip (v1 v2 : bytes) (m1 m2 : bool) (a b : Z) :
  bytes_ok v1 → bytes_ok v2 →
  CScriptNum.of_vch v1 m1 4 = Ok a → CScriptNum.of_vch v2 m2 4 = Ok b →
  ∀ r, r = a + b ∨ r = a - b ∨ r = - a →
  size (CScriptNum.serialize r) <= 5 ∧
  CScriptNum.of_vch (CScriptNum.serialize r) true 5 = Ok r.
Proof.
  intros H1 H2 Ha Hb r Hr.
  pose proof (CScriptNumFacts.of_vch_range _ _ _ H1 Ha).
  pose proof (CScriptNumFacts.of_vch_range _ _ _ H2 Hb).
  assert (Z.abs r < 2 ^ 39) by (destruct Hr as [->|[->| ->]]; lia).
  assert (size (CScriptNum.serialize r) <= 5)
    by (apply CScriptNumFacts.serialize_size; simpl; lia).
  split; [done|]. apply CScriptNumFacts.of_vch_serialize; [lia|done].
Qed.

Lemma script_arithmetic_roundtrip_witness :
  size (CScriptNum.serialize (2147483647 + 1)) <= 5 ∧
  CScriptNum.of_vch (CScriptNum.serialize (2147483647 + 1)) true 5 = Ok (2147483647 + 1).
Proof.
  apply (script_arithmetic_roundtrip [0xff; 0xff; 0xff; 0x7f] [1] true true 2147483647 1).
  - by_eval.
  - by_eval.
  - reflexivity.
  - reflexivity.
  - left. reflexivity.
Defined.

(** A pushed element is decoded whole: [GetScriptOp] on what
    [operator<<] appended returns that element with a push opcode and leaves the
    rest of the script, for each of the four push forms. *)
Theorem push_decode_roundtrip (b rest : bytes) :
  size b < 2 ^ 32 →
  let d := GetScriptOp (push_data b ++ rest) in
  d_ok d = true ∧ d_vch d = b ∧ d_pc d = rest ∧
  op_le (d_opcode d) OP_PUSHDATA4 = true.
Proof.
  intros Hb. destruct (GetScriptOp_push_data b rest Hb) as (op & -> & Hop).
  cbn [d_ok d_vch d_pc d_opcode]. split_and!; try done. by apply Z.leb_le.
Qed.

Lemma push_decode_roundtrip_witness :
  d_vch (GetScriptOp (push_data (replicate 300 7) ++ [1; 2])) = replicate 300 7.
Proof. apply (push_decode_roundtrip (replicate 300 7) [1; 2]). by_eval. Defined.
