(* ===== verification/Interpreter.v ===== *)
(** The script interpreter of [src/src/script/interpreter.cpp]: signature and
    public key encodings, [EvalScript], [VerifyWitnessProgram], [VerifyScript],
    the signature operation counts, and the functions that take a cold-stake
    script apart.

    A stack is a list whose head is [stacktop(-1)]; [vfExec] is a list whose
    head is [vfExec.back()].  A witness keeps the order of its vector, so it is
    reversed where the source copies it to the stack.  [pc] and
    [pbegincodehash] are suffixes of the script.

    The signature checker is a [checker] record, the methods of
    [BaseSignatureChecker]; the digests and the low-S test of the curve library
    are the fields of a [crypto] record.  A failing evaluation is
    [Err (ScriptErr e)] with the value left in [*serror], [Err AssertFail] when
    an [assert] fires.  Exceptions inside [EvalScript] are caught there and
    become [SCRIPT_ERR_UNKNOWN_ERROR]. *)
From S2P Require Import Prelude Serialize Script.

Inductive ScriptError : Set :=
  | SCRIPT_ERR_OK | SCRIPT_ERR_UNKNOWN_ERROR | SCRIPT_ERR_EVAL_FALSE | SCRIPT_ERR_OP_RETURN
  | SCRIPT_ERR_SCRIPT_SIZE | SCRIPT_ERR_PUSH_SIZE | SCRIPT_ERR_OP_COUNT
  | SCRIPT_ERR_STACK_SIZE | SCRIPT_ERR_SIG_COUNT | SCRIPT_ERR_PUBKEY_COUNT
  | SCRIPT_ERR_VERIFY | SCRIPT_ERR_EQUALVERIFY | SCRIPT_ERR_CHECKMULTISIGVERIFY
  | SCRIPT_ERR_CHECKSIGVERIFY | SCRIPT_ERR_NUMEQUALVERIFY
  | SCRIPT_ERR_BAD_OPCODE | SCRIPT_ERR_DISABLED_OPCODE | SCRIPT_ERR_INVALID_STACK_OPERATION
  | SCRIPT_ERR_INVALID_ALTSTACK_OPERATION | SCRIPT_ERR_UNBALANCED_CONDITIONAL
  | SCRIPT_ERR_NEGATIVE_LOCKTIME | SCRIPT_ERR_UNSATISFIED_LOCKTIME
  | SCRIPT_ERR_SIG_HASHTYPE | SCRIPT_ERR_SIG_DER | SCRIPT_ERR_MINIMALDATA
  | SCRIPT_ERR_SIG_PUSHONLY | SCRIPT_ERR_SIG_HIGH_S | SCRIPT_ERR_SIG_NULLDUMMY
  | SCRIPT_ERR_PUBKEYTYPE | SCRIPT_ERR_CLEANSTACK | SCRIPT_ERR_MINIMALIF
  | SCRIPT_ERR_SIG_NULLFAIL | SCRIPT_ERR_DISCOURAGE_UPGRADABLE_NOPS
  | SCRIPT_ERR_DISCOURAGE_UPGRADABLE_WITNESS_PROGRAM
  | SCRIPT_ERR_WITNESS_PROGRAM_WRONG_LENGTH | SCRIPT_ERR_WITNESS_PROGRAM_WITNESS_EMPTY
  | SCRIPT_ERR_WITNESS_PROGRAM_MISMATCH | SCRIPT_ERR_WITNESS_MALLEATED
  | SCRIPT_ERR_WITNESS_MALLEATED_P2SH | SCRIPT_ERR_WITNESS_UNEXPECTED
  | SCRIPT_ERR_WITNESS_PUBKEYTYPE | SCRIPT_ERR_OP_CODESEPARATOR
  | SCRIPT_ERR_SIG_FINDANDDELETE.

(** How an evaluation fails: with a script error, by a failed [assert], or
    (never, see [EvalScript_total]) by exhausting the bound on its loops. *)
Inductive script_fail : Set :=
  | ScriptErr (e : ScriptError)
  | AssertFail
  | OutOfFuel.

Abbreviation fail e := (Err (ScriptErr e)) (only parsing).

Inductive SigVersion : Set := BASE | WITNESS_V0.

Definition is_base (v : SigVersion) : bool := match v with BASE => true | _ => false end.
Definition is_witness_v0 (v : SigVersion) : bool :=
  match v with WITNESS_V0 => true | _ => false end.

(** The methods of [BaseSignatureChecker]. *)
Record checker := Checker {
  CheckSig : bytes → bytes → bytes → SigVersion → bool;
  CheckLockTime : Z → bool;
  CheckSequence : Z → bool;
  IsCoinStake : bool;
  IsBitcoinCVersion : bool
}.

(** The class [BaseSignatureChecker] itself refuses everything. *)
Definition BaseSignatureChecker : checker :=
  Checker (λ _ _ _ _, false) (λ _, false) (λ _, false) false false.

Record crypto := Crypto {
  SHA256 : bytes → bytes;
  SHA1 : bytes → bytes;
  RIPEMD160 : bytes → bytes;
  CheckLowS : bytes → bool
}.

(** [CHash160] and [CHash256]. *)
Definition Hash160 (h : crypto) (v : bytes) : bytes := RIPEMD160 h (SHA256 h v).
Definition Hash256 (h : crypto) (v : bytes) : bytes := SHA256 h (SHA256 h v).

(** ** Verification flags *)

Definition SCRIPT_VERIFY_NONE : Z := 0.
Definition SCRIPT_VERIFY_P2SH : Z := Z.shiftl 1 0.
Definition SCRIPT_VERIFY_STRICTENC : Z := Z.shiftl 1 1.
Definition SCRIPT_VERIFY_DERSIG : Z := Z.shiftl 1 2.
Definition SCRIPT_VERIFY_LOW_S : Z := Z.shiftl 1 3.
Definition SCRIPT_VERIFY_NULLDUMMY : Z := Z.shiftl 1 4.
Definition SCRIPT_VERIFY_SIGPUSHONLY : Z := Z.shiftl 1 5.
Definition SCRIPT_VERIFY_MINIMALDATA : Z := Z.shiftl 1 6.
Definition SCRIPT_VERIFY_DISCOURAGE_UPGRADABLE_NOPS : Z := Z.shiftl 1 7.
Definition SCRIPT_VERIFY_CLEANSTACK : Z := Z.shiftl 1 8.
Definition SCRIPT_VERIFY_CHECKLOCKTIMEVERIFY : Z := Z.shiftl 1 9.
Definition SCRIPT_VERIFY_CHECKSEQUENCEVERIFY : Z := Z.shiftl 1 10.
Definition SCRIPT_VERIFY_WITNESS : Z := Z.shiftl 1 11.
Definition SCRIPT_VERIFY_DISCOURAGE_UPGRADABLE_WITNESS_PROGRAM : Z := Z.shiftl 1 12.
Definition SCRIPT_VERIFY_MINIMALIF : Z := Z.shiftl 1 13.
Definition SCRIPT_VERIFY_NULLFAIL : Z := Z.shiftl 1 14.
Definition SCRIPT_VERIFY_WITNESS_PUBKEYTYPE : Z := Z.shiftl 1 15.
Definition SCRIPT_VERIFY_CONST_SCRIPTCODE : Z := Z.shiftl 1 16.
Definition SCRIPT_VERIFY_NO_CSP2SH : Z := Z.shiftl 1 20.

Definition SIGHASH_ALL : Z := 1.
Definition SIGHASH_NONE : Z := 2.
Definition SIGHASH_SINGLE : Z := 3.
Definition SIGHASH_ANYONECANPAY : Z := 0x80.

Definition WITNESS_V0_SCRIPTHASH_SIZE : Z := 32.
Definition WITNESS_V0_KEYHASH_SIZE : Z := 20.

Definition PUBLIC_KEY_SIZE : Z := 65.
Definition COMPRESSED_PUBLIC_KEY_SIZE : Z := 33.

Definition SEQUENCE_LOCKTIME_DISABLE_FLAG : Z := Z.shiftl 1 31.

(** [(flags & f) != 0]. *)
Definition has (flags f : Z) : bool := negb (Z.land flags f =? 0).

(** ** Encodings *)

Fixpoint CastToBool (vch : bytes) : bool :=
  match vch with
  | [] => false
  | b :: vch' =>
      if b =? 0 then CastToBool vch'
      else match vch' with [] => negb (b =? 0x80) | _ => true end
  end.

Definition IsCompressedOrUncompressedPubKey (vchPubKey : bytes) : bool :=
  if size vchPubKey <? COMPRESSED_PUBLIC_KEY_SIZE then false
  else if at_ vchPubKey 0 =? 0x04 then size vchPubKey =? PUBLIC_KEY_SIZE
  else if (at_ vchPubKey 0 =? 0x02) || (at_ vchPubKey 0 =? 0x03)
  then size vchPubKey =? COMPRESSED_PUBLIC_KEY_SIZE
  else false.

Definition IsCompressedPubKey (vchPubKey : bytes) : bool :=
  if negb (size vchPubKey =? COMPRESSED_PUBLIC_KEY_SIZE) then false
  else (at_ vchPubKey 0 =? 0x02) || (at_ vchPubKey 0 =? 0x03).

(** [v[i]] with an index computed from a byte. *)
Definition atz (v : bytes) (i : Z) : Z := at_ v (Z.to_nat i).

Definition IsValidSignatureEncoding (sig : bytes) : bool :=
  if size sig <? 9 then false
  else if 73 <? size sig then false
  else if negb (atz sig 0 =? 0x30) then false
  else if negb (atz sig 1 =? size sig - 3) then false
  else
    let lenR := atz sig 3 in
    if size sig <=? 5 + lenR then false
    else
      let lenS := atz sig (5 + lenR) in
      if negb (lenR + lenS + 7 =? size sig) then false
      else if negb (atz sig 2 =? 0x02) then false
      else if lenR =? 0 then false
      else if negb (Z.land (atz sig 4) 0x80 =? 0) then false
      else if (1 <? lenR) && (atz sig 4 =? 0) && (Z.land (atz sig 5) 0x80 =? 0) then false
      else if negb (atz sig (lenR + 4) =? 0x02) then false
      else if lenS =? 0 then false
      else if negb (Z.land (atz sig (lenR + 6)) 0x80 =? 0) then false
      else if (1 <? lenS) && (atz sig (lenR + 6) =? 0)
              && (Z.land (atz sig (lenR + 7)) 0x80 =? 0) then false
      else true.

(** [Ok tt] is a [true] return; [Err] carries the error that was set. *)
Definition IsLowDERSignature (h : crypto) (vchSig : bytes) : result script_fail unit :=
  if negb (IsValidSignatureEncoding vchSig) then fail SCRIPT_ERR_SIG_DER
  else
    let vchSigCopy := take (length vchSig - 1) vchSig in
    if negb (CheckLowS h vchSigCopy) then fail SCRIPT_ERR_SIG_HIGH_S
    else Ok tt.

Definition IsDefinedHashtypeSignature (vchSig : bytes) : bool :=
  if size vchSig =? 0 then false
  else
    let nHashType := u8 (Z.land (back vchSig) (Z.lnot SIGHASH_ANYONECANPAY)) in
    negb ((nHashType <? SIGHASH_ALL) || (SIGHASH_SINGLE <? nHashType)).

Definition CheckSignatureEncoding (h : crypto) (vchSig : bytes) (flags : Z)
  : result script_fail unit :=
  if size vchSig =? 0 then Ok tt
  else if has flags (Z.lor (Z.lor SCRIPT_VERIFY_DERSIG SCRIPT_VERIFY_LOW_S)
                       SCRIPT_VERIFY_STRICTENC)
          && negb (IsValidSignatureEncoding vchSig)
  then fail SCRIPT_ERR_SIG_DER
  else
    let! _ := if has flags SCRIPT_VERIFY_LOW_S then IsLowDERSignature h vchSig else Ok tt in
    if has flags SCRIPT_VERIFY_STRICTENC && negb (IsDefinedHashtypeSignature vchSig)
    then fail SCRIPT_ERR_SIG_HASHTYPE
    else Ok tt.

Definition CheckPubKeyEncoding (vchPubKey : bytes) (flags : Z) (sigversion : SigVersion)
  : result script_fail unit :=
  if has flags SCRIPT_VERIFY_STRICTENC && negb (IsCompressedOrUncompressedPubKey vchPubKey)
  then fail SCRIPT_ERR_PUBKEYTYPE
  else if has flags SCRIPT_VERIFY_WITNESS_PUBKEYTYPE && is_witness_v0 sigversion
          && negb (IsCompressedPubKey vchPubKey)
  then fail SCRIPT_ERR_WITNESS_PUBKEYTYPE
  else Ok tt.

(** [None] is the failed assertion on the opcode. *)
Definition CheckMinimalPush (data : bytes) (opcode : opcodetype) : option bool :=
  if negb ((0 <=? opcode_byte opcode) && op_le opcode OP_PUSHDATA4) then None
  else Some (
    if size data =? 0 then op_eqb opcode OP_0
    else if (size data =? 1) && (1 <=? at_ data 0) && (at_ data 0 <=? 16) then false
    else if (size data =? 1) && (at_ data 0 =? 0x81) then false
    else if size data <=? 75 then opcode_byte opcode =? size data
    else if size data <=? 255 then op_eqb opcode OP_PUSHDATA1
    else if size data <=? 65535 then op_eqb opcode OP_PUSHDATA2
    else true).

(** ** FindAndDelete *)

(** [static_cast<size_t>(end - pc) >= b.size() && std::equal(b, pc)]. *)
Definition matches_here (b pc : bytes) : bool :=
  (size b <=? size pc) && bool_decide (take (length b) pc = b).

(** The inner loop: skip the copies of [b] at [pc]. *)
Fixpoint skip_copies (fuel : nat) (b pc : bytes) (nFound : Z) : bytes * Z :=
  match fuel with
  | S f => if matches_here b pc then skip_copies f b (drop (length b) pc) (nFound + 1)
           else (pc, nFound)
  | O => (pc, nFound)
  end.

(** The bytes between two iterators of the same script. *)
Definition between (from to : bytes) : bytes := take (length from - length to) from.

(** The [do ... while (script.GetOp(pc, opcode))] loop: the bytes kept so far,
    [pc2] and the number of copies found. *)
Fixpoint FindAndDelete_loop (fuel : nat) (b pc2 pc result : bytes) (nFound : Z)
  : bytes * bytes * Z :=
  let result := result ++ between pc2 pc in
  let '(pc, nFound) := skip_copies (length pc) b pc nFound in
  let d := GetScriptOp pc in
  match fuel with
  | S f => if d_ok d then FindAndDelete_loop f b pc (d_pc d) result nFound
           else (result, pc, nFound)
  | O => (result, pc, nFound)
  end.

(** [FindAndDelete]: the new script and the return value. *)
Definition FindAndDelete (script b : bytes) : bytes * Z :=
  match b with
  | [] => (script, 0)
  | _ =>
      let '(result, pc2, nFound) :=
        FindAndDelete_loop (length script) b script script [] 0 in
      if 0 <? nFound then (result ++ pc2, nFound) else (script, nFound)
  end.

(** ** Evaluation state *)

Record state := State {
  stack : list bytes;
  altstack : list bytes;
  vfExec : list bool;
  nOpCount : Z;
  pbegincodehash : bytes
}.

Definition with_stack (s : state) (st : list bytes) : state :=
  State st (altstack s) (vfExec s) (nOpCount s) (pbegincodehash s).
Definition with_altstack (s : state) (alt : list bytes) : state :=
  State (stack s) alt (vfExec s) (nOpCount s) (pbegincodehash s).
Definition with_vfExec (s : state) (vf : list bool) : state :=
  State (stack s) (altstack s) vf (nOpCount s) (pbegincodehash s).
Definition with_nOpCount (s : state) (n : Z) : state :=
  State (stack s) (altstack s) (vfExec s) n (pbegincodehash s).
Definition with_pbegincodehash (s : state) (pc : bytes) : state :=
  State (stack s) (altstack s) (vfExec s) (nOpCount s) pc.

Definition push (s : state) (v : bytes) : state := with_stack s (v :: stack s).

Definition stack_size (st : list bytes) : Z := Z.of_nat (length st).

(** [stacktop(-i)]: [at()] throws when [i] is out of range. *)
Definition stacktop (st : list bytes) (i : Z) : result script_fail bytes :=
  if i <=? 0 then fail SCRIPT_ERR_UNKNOWN_ERROR
  else match st !! Z.to_nat (i - 1) with
       | Some v => Ok v
       | None => fail SCRIPT_ERR_UNKNOWN_ERROR
       end.

(** [popstack]. *)
Definition popstack (st : list bytes) : result script_fail (list bytes) :=
  match st with
  | [] => fail SCRIPT_ERR_UNKNOWN_ERROR
  | _ :: st' => Ok st'
  end.

Definition vchFalse : bytes := [].
Definition vchTrue : bytes := [1].
Definition vch_of_bool (b : bool) : bytes := if b then vchTrue else vchFalse.

(** [CScriptNum(v, fRequireMinimal, n)] inside the [try] block. *)
Definition num (fRequireMinimal : bool) (n : Z) (v : bytes) : result script_fail Z :=
  match CScriptNum.of_vch v fRequireMinimal n with
  | Ok z => Ok z
  | Err _ => fail SCRIPT_ERR_UNKNOWN_ERROR
  end.
Abbreviation num4 m v := (num m CScriptNum.nDefaultMaxNumSize v) (only parsing).

(** The arithmetic of [CScriptNum] that asserts against overflow. *)
Definition num_add_assign (a b : Z) : result script_fail Z :=
  if (b =? 0) || ((0 <? b) && (a <=? 2 ^ 63 - 1 - b)) || ((b <? 0) && (- 2 ^ 63 - b <=? a))
  then Ok (a + b) else Err AssertFail.
Definition num_sub_assign (a b : Z) : result script_fail Z :=
  if (b =? 0) || ((0 <? b) && (- 2 ^ 63 + b <=? a)) || ((b <? 0) && (a <=? 2 ^ 63 - 1 + b))
  then Ok (a - b) else Err AssertFail.
Definition num_neg (a : Z) : result script_fail Z :=
  if a =? - 2 ^ 63 then Err AssertFail else Ok (- a).

Definition num_of_bool (b : bool) : Z := if b then 1 else 0.

(** ** Opcodes *)

Abbreviation bad_stack := (fail SCRIPT_ERR_INVALID_STACK_OPERATION) (only parsing).

(** [OP_1NEGATE], [OP_1] .. [OP_16]. *)
Definition exec_push_number (opcode : opcodetype) (s : state) : result script_fail state :=
  Ok (push s (CScriptNum.serialize (opcode_byte opcode - (opcode_byte OP_1 - 1)))).

Definition exec_checklocktimeverify (c : checker) (flags : Z) (fRequireMinimal : bool)
    (s : state) : result script_fail state :=
  if negb (has flags SCRIPT_VERIFY_CHECKLOCKTIMEVERIFY) then Ok s
  else match stack s with
       | [] => bad_stack
       | top :: _ =>
           let! nLockTime := num fRequireMinimal 5 top in
           if nLockTime <? 0 then fail SCRIPT_ERR_NEGATIVE_LOCKTIME
           else if negb (CheckLockTime c nLockTime) then fail SCRIPT_ERR_UNSATISFIED_LOCKTIME
           else Ok s
       end.

Definition exec_checksequenceverify (c : checker) (flags : Z) (fRequireMinimal : bool)
    (s : state) : result script_fail state :=
  if negb (has flags SCRIPT_VERIFY_CHECKSEQUENCEVERIFY) then Ok s
  else match stack s with
       | [] => bad_stack
       | top :: _ =>
           let! nSequence := num fRequireMinimal 5 top in
           if nSequence <? 0 then fail SCRIPT_ERR_NEGATIVE_LOCKTIME
           else if negb (Z.land nSequence SEQUENCE_LOCKTIME_DISABLE_FLAG =? 0) then Ok s
           else if negb (CheckSequence c nSequence) then fail SCRIPT_ERR_UNSATISFIED_LOCKTIME
           else Ok s
       end.

(** [OP_ISCOINSTAKE] pushes the enumerator [OP_TRUE] or [OP_FALSE] as a
    number. *)
Definition exec_iscoinstake (c : checker) (s : state) : result script_fail state :=
  let opbool := if IsCoinStake c then OP_TRUE else OP_FALSE in
  Ok (push s (CScriptNum.serialize (opcode_byte opbool))).

Definition exec_upgradable_nop (flags : Z) (s : state) : result script_fail state :=
  if has flags SCRIPT_VERIFY_DISCOURAGE_UPGRADABLE_NOPS
  then fail SCRIPT_ERR_DISCOURAGE_UPGRADABLE_NOPS
  else Ok s.

(** [OP_IF] and [OP_NOTIF], also reached when not executing. *)
Definition exec_if (flags : Z) (sigversion : SigVersion) (fExec : bool)
    (opcode : opcodetype) (s : state) : result script_fail state :=
  if fExec then
    match stack s with
    | [] => fail SCRIPT_ERR_UNBALANCED_CONDITIONAL
    | vch :: st =>
        if is_witness_v0 sigversion && has flags SCRIPT_VERIFY_MINIMALIF
           && ((1 <? size vch) || ((size vch =? 1) && negb (at_ vch 0 =? 1)))
        then fail SCRIPT_ERR_MINIMALIF
        else
          let fValue := CastToBool vch in
          let fValue := if op_eqb opcode OP_NOTIF then negb fValue else fValue in
          Ok (with_vfExec (with_stack s st) (fValue :: vfExec s))
    end
  else Ok (with_vfExec s (false :: vfExec s)).

Definition exec_else (s : state) : result script_fail state :=
  match vfExec s with
  | [] => fail SCRIPT_ERR_UNBALANCED_CONDITIONAL
  | b :: vf => Ok (with_vfExec s (negb b :: vf))
  end.

Definition exec_endif (s : state) : result script_fail state :=
  match vfExec s with
  | [] => fail SCRIPT_ERR_UNBALANCED_CONDITIONAL
  | _ :: vf => Ok (with_vfExec s vf)
  end.

Definition exec_verify (s : state) : result script_fail state :=
  match stack s with
  | [] => bad_stack
  | top :: st => if CastToBool top then Ok (with_stack s st) else fail SCRIPT_ERR_VERIFY
  end.

(** [OP_TOALTSTACK] .. [OP_2SWAP]. *)
Definition exec_stack_1 (opcode : opcodetype) (s : state) : result script_fail state :=
  match opcode, stack s with
  | OP_TOALTSTACK, x :: st => Ok (with_altstack (with_stack s st) (x :: altstack s))
  | OP_FROMALTSTACK, st =>
      match altstack s with
      | [] => fail SCRIPT_ERR_INVALID_ALTSTACK_OPERATION
      | x :: alt => Ok (with_altstack (with_stack s (x :: st)) alt)
      end
  | OP_2DROP, _ :: _ :: st => Ok (with_stack s st)
  | OP_2DUP, x2 :: x1 :: st => Ok (with_stack s (x2 :: x1 :: x2 :: x1 :: st))
  | OP_3DUP, x3 :: x2 :: x1 :: st =>
      Ok (with_stack s (x3 :: x2 :: x1 :: x3 :: x2 :: x1 :: st))
  | OP_2OVER, x4 :: x3 :: x2 :: x1 :: st =>
      Ok (with_stack s (x2 :: x1 :: x4 :: x3 :: x2 :: x1 :: st))
  | OP_2ROT, x6 :: x5 :: x4 :: x3 :: x2 :: x1 :: st =>
      Ok (with_stack s (x2 :: x1 :: x6 :: x5 :: x4 :: x3 :: st))
  | OP_2SWAP, x4 :: x3 :: x2 :: x1 :: st =>
      Ok (with_stack s (x2 :: x1 :: x4 :: x3 :: st))
  | _, _ => bad_stack
  end.

(** [OP_IFDUP] .. [OP_OVER]. *)
Definition exec_stack_2 (opcode : opcodetype) (s : state) : result script_fail state :=
  match opcode, stack s with
  | OP_IFDUP, x :: _ => Ok (if CastToBool x then push s x else s)
  | OP_DEPTH, st => Ok (push s (CScriptNum.serialize (stack_size st)))
  | OP_DROP, _ :: st => Ok (with_stack s st)
  | OP_DUP, x :: _ => Ok (push s x)
  | OP_NIP, x2 :: _ :: st => Ok (with_stack s (x2 :: st))
  | OP_OVER, _ :: x1 :: _ => Ok (push s x1)
  | _, _ => bad_stack
  end.

(** [OP_PICK] and [OP_ROLL]. *)
Definition exec_pick_roll (fRequireMinimal : bool) (opcode : opcodetype) (s : state)
  : result script_fail state :=
  match stack s with
  | top :: (_ :: _) as st =>
      let! n := num4 fRequireMinimal top in
      let n := CScriptNum.getint n in
      if (n <? 0) || (stack_size st <=? n) then bad_stack
      else
        let! vch := stacktop st (n + 1) in
        let st := if op_eqb opcode OP_ROLL
                  then take (Z.to_nat n) st ++ drop (S (Z.to_nat n)) st else st in
        Ok (with_stack s (vch :: st))
  | _ => bad_stack
  end.

(** [OP_ROT] .. [OP_SIZE]. *)
Definition exec_stack_3 (opcode : opcodetype) (s : state) : result script_fail state :=
  match opcode, stack s with
  | OP_ROT, x3 :: x2 :: x1 :: st => Ok (with_stack s (x1 :: x3 :: x2 :: st))
  | OP_SWAP, x2 :: x1 :: st => Ok (with_stack s (x1 :: x2 :: st))
  | OP_TUCK, x2 :: x1 :: st => Ok (with_stack s (x2 :: x1 :: x2 :: st))
  | OP_SIZE, x :: _ => Ok (push s (CScriptNum.serialize (size x)))
  | _, _ => bad_stack
  end.

(** [OP_EQUAL] and [OP_EQUALVERIFY]. *)
Definition exec_equal (opcode : opcodetype) (s : state) : result script_fail state :=
  match stack s with
  | vch2 :: vch1 :: st =>
      let fEqual := bool_decide (vch1 = vch2) in
      if op_eqb opcode OP_EQUALVERIFY
      then if fEqual then Ok (with_stack s st) else fail SCRIPT_ERR_EQUALVERIFY
      else Ok (with_stack s (vch_of_bool fEqual :: st))
  | _ => bad_stack
  end.

(** [OP_1ADD] .. [OP_0NOTEQUAL]. *)
Definition unary_op (opcode : opcodetype) (bn : Z) : result script_fail Z :=
  match opcode with
  | OP_1ADD => num_add_assign bn 1
  | OP_1SUB => num_sub_assign bn 1
  | OP_NEGATE => num_neg bn
  | OP_ABS => if bn <? 0 then num_neg bn else Ok bn
  | OP_NOT => Ok (num_of_bool (bn =? 0))
  | OP_0NOTEQUAL => Ok (num_of_bool (negb (bn =? 0)))
  | _ => Err AssertFail
  end.

Definition exec_unary (fRequireMinimal : bool) (opcode : opcodetype) (s : state)
  : result script_fail state :=
  match stack s with
  | [] => bad_stack
  | top :: st =>
      let! bn := num4 fRequireMinimal top in
      let! bn := unary_op opcode bn in
      Ok (with_stack s (CScriptNum.serialize bn :: st))
  end.

(** [OP_ADD] .. [OP_MAX]. *)
Definition binary_op (opcode : opcodetype) (bn1 bn2 : Z) : result script_fail Z :=
  match opcode with
  | OP_ADD => Ok (i64 (bn1 + bn2))
  | OP_SUB => Ok (i64 (bn1 - bn2))
  | OP_BOOLAND => Ok (num_of_bool (negb (bn1 =? 0) && negb (bn2 =? 0)))
  | OP_BOOLOR => Ok (num_of_bool (negb (bn1 =? 0) || negb (bn2 =? 0)))
  | OP_NUMEQUAL => Ok (num_of_bool (bn1 =? bn2))
  | OP_NUMEQUALVERIFY => Ok (num_of_bool (bn1 =? bn2))
  | OP_NUMNOTEQUAL => Ok (num_of_bool (negb (bn1 =? bn2)))
  | OP_LESSTHAN => Ok (num_of_bool (bn1 <? bn2))
  | OP_GREATERTHAN => Ok (num_of_bool (bn2 <? bn1))
  | OP_LESSTHANOREQUAL => Ok (num_of_bool (bn1 <=? bn2))
  | OP_GREATERTHANOREQUAL => Ok (num_of_bool (bn2 <=? bn1))
  | OP_MIN => Ok (if bn1 <? bn2 then bn1 else bn2)
  | OP_MAX => Ok (if bn2 <? bn1 then bn1 else bn2)
  | _ => Err AssertFail
  end.

Definition exec_binary (fRequireMinimal : bool) (opcode : opcodetype) (s : state)
  : result script_fail state :=
  match stack s with
  | v2 :: v1 :: st =>
      let! bn1 := num4 fRequireMinimal v1 in
      let! bn2 := num4 fRequireMinimal v2 in
      let! bn := binary_op opcode bn1 bn2 in
      let out := CScriptNum.serialize bn in
      if op_eqb opcode OP_NUMEQUALVERIFY
      then if CastToBool out then Ok (with_stack s st) else fail SCRIPT_ERR_NUMEQUALVERIFY
      else Ok (with_stack s (out :: st))
  | _ => bad_stack
  end.

Definition exec_within (fRequireMinimal : bool) (s : state) : result script_fail state :=
  match stack s with
  | v3 :: v2 :: v1 :: st =>
      let! bn1 := num4 fRequireMinimal v1 in
      let! bn2 := num4 fRequireMinimal v2 in
      let! bn3 := num4 fRequireMinimal v3 in
      Ok (with_stack s (vch_of_bool ((bn2 <=? bn1) && (bn1 <? bn3)) :: st))
  | _ => bad_stack
  end.

(** [OP_RIPEMD160] .. [OP_HASH256]. *)
Definition hash_op (h : crypto) (opcode : opcodetype) (vch : bytes) : bytes :=
  match opcode with
  | OP_RIPEMD160 => RIPEMD160 h vch
  | OP_SHA1 => SHA1 h vch
  | OP_SHA256 => SHA256 h vch
  | OP_HASH160 => Hash160 h vch
  | _ => Hash256 h vch
  end.

Definition exec_hash (h : crypto) (opcode : opcodetype) (s : state)
  : result script_fail state :=
  match stack s with
  | [] => bad_stack
  | vch :: st => Ok (with_stack s (hash_op h opcode vch :: st))
  end.

(** Drop the signature from the script code of a pre-segwit script: [CScript(vchSig)] is
    the push of it. *)
Definition delete_signature (flags : Z) (sigversion : SigVersion) (scriptCode vchSig : bytes)
  : result script_fail bytes :=
  if is_base sigversion then
    let '(scriptCode, found) := FindAndDelete scriptCode (push_data vchSig) in
    if (0 <? found) && has flags SCRIPT_VERIFY_CONST_SCRIPTCODE
    then fail SCRIPT_ERR_SIG_FINDANDDELETE
    else Ok scriptCode
  else Ok scriptCode.

(** [OP_CHECKSIG] and [OP_CHECKSIGVERIFY]. *)
Definition exec_checksig (h : crypto) (c : checker) (flags : Z) (sigversion : SigVersion)
    (opcode : opcodetype) (s : state) : result script_fail state :=
  match stack s with
  | vchPubKey :: vchSig :: st =>
      let! scriptCode := delete_signature flags sigversion (pbegincodehash s) vchSig in
      let! _ := CheckSignatureEncoding h vchSig flags in
      let! _ := CheckPubKeyEncoding vchPubKey flags sigversion in
      let fSuccess := CheckSig c vchSig vchPubKey scriptCode sigversion in
      if negb fSuccess && has flags SCRIPT_VERIFY_NULLFAIL && negb (size vchSig =? 0)
      then fail SCRIPT_ERR_SIG_NULLFAIL
      else if op_eqb opcode OP_CHECKSIGVERIFY
      then if fSuccess then Ok (with_stack s st) else fail SCRIPT_ERR_CHECKSIGVERIFY
      else Ok (with_stack s (vch_of_bool fSuccess :: st))
  | _ => bad_stack
  end.

(** ** OP_CHECKMULTISIG *)

(** [for (k = 0; k < nSigsCount; k++)]: drop every signature from the script
    code. *)
Fixpoint delete_signatures (flags : Z) (sigversion : SigVersion) (st : list bytes)
    (isig : Z) (n : nat) (scriptCode : bytes) : result script_fail bytes :=
  match n with
  | O => Ok scriptCode
  | S n' =>
      let! vchSig := stacktop st isig in
      let! scriptCode := delete_signature flags sigversion scriptCode vchSig in
      delete_signatures flags sigversion st (isig + 1) n' scriptCode
  end.

(** [while (fSuccess && nSigsCount > 0)]: every turn uses up one key, and the
    loop stops when fewer keys than signatures are left. *)
Fixpoint check_signatures (fuel : nat) (h : crypto) (c : checker) (flags : Z)
    (sigversion : SigVersion) (scriptCode : bytes) (st : list bytes)
    (isig ikey nSigsCount nKeysCount : Z) : result script_fail bool :=
  if 0 <? nSigsCount then
    match fuel with
    | O => Err OutOfFuel
    | S f =>
        let! vchSig := stacktop st isig in
        let! vchPubKey := stacktop st ikey in
        let! _ := CheckSignatureEncoding h vchSig flags in
        let! _ := CheckPubKeyEncoding vchPubKey flags sigversion in
        let fOk := CheckSig c vchSig vchPubKey scriptCode sigversion in
        let isig := if fOk then isig + 1 else isig in
        let nSigsCount := if fOk then nSigsCount - 1 else nSigsCount in
        let ikey := ikey + 1 in
        let nKeysCount := nKeysCount - 1 in
        if nKeysCount <? nSigsCount then Ok false
        else check_signatures f h c flags sigversion scriptCode st isig ikey nSigsCount
               nKeysCount
    end
  else Ok true.

(** [while (i-- > 1)]: clean up the arguments; [n] turns are left. *)
Fixpoint pop_arguments (flags : Z) (fSuccess : bool) (n : nat) (ikey2 : Z)
    (st : list bytes) : result script_fail (list bytes) :=
  match n with
  | O => Ok st
  | S n' =>
      let! top := stacktop st 1 in
      if negb fSuccess && has flags SCRIPT_VERIFY_NULLFAIL && (ikey2 =? 0)
         && negb (size top =? 0)
      then fail SCRIPT_ERR_SIG_NULLFAIL
      else
        let! st := popstack st in
        pop_arguments flags fSuccess n' (if 0 <? ikey2 then ikey2 - 1 else ikey2) st
  end.

Definition exec_checkmultisig (h : crypto) (c : checker) (flags : Z)
    (sigversion : SigVersion) (fRequireMinimal : bool) (opcode : opcodetype) (s : state)
  : result script_fail state :=
  let st := stack s in
  let i := 1 in
  if stack_size st <? i then bad_stack
  else
    let! top := stacktop st i in
    let! n := num4 fRequireMinimal top in
    let nKeysCount := CScriptNum.getint n in
    if (nKeysCount <? 0) || (MAX_PUBKEYS_PER_MULTISIG <? nKeysCount)
    then fail SCRIPT_ERR_PUBKEY_COUNT
    else
      let nOpCount := nOpCount s + nKeysCount in
      if MAX_OPS_PER_SCRIPT <? nOpCount then fail SCRIPT_ERR_OP_COUNT
      else
        let ikey := i + 1 in
        let ikey2 := nKeysCount + 2 in
        let i := ikey + nKeysCount in
        if stack_size st <? i then bad_stack
        else
          let! top := stacktop st i in
          let! n := num4 fRequireMinimal top in
          let nSigsCount := CScriptNum.getint n in
          if (nSigsCount <? 0) || (nKeysCount <? nSigsCount) then fail SCRIPT_ERR_SIG_COUNT
          else
            let isig := i + 1 in
            let i := isig + nSigsCount in
            if stack_size st <? i then bad_stack
            else
              let! scriptCode := delete_signatures flags sigversion st isig
                                   (Z.to_nat nSigsCount) (pbegincodehash s) in
              let! fSuccess := check_signatures (Z.to_nat nKeysCount) h c flags sigversion
                                 scriptCode st isig ikey nSigsCount nKeysCount in
              let! st := pop_arguments flags fSuccess (Z.to_nat (i - 1)) ikey2 st in
              match st with
              | [] => bad_stack
              | dummy :: st =>
                  if has flags SCRIPT_VERIFY_NULLDUMMY && negb (size dummy =? 0)
                  then fail SCRIPT_ERR_SIG_NULLDUMMY
                  else
                    let s := with_nOpCount s nOpCount in
                    if op_eqb opcode OP_CHECKMULTISIGVERIFY
                    then if fSuccess then Ok (with_stack s st)
                         else fail SCRIPT_ERR_CHECKMULTISIGVERIFY
                    else Ok (with_stack s (vch_of_bool fSuccess :: st))
              end.

(** ** EvalScript *)

(** [switch (opcode)]; [pc] is the position after the instruction. *)
Definition exec_op (h : crypto) (c : checker) (flags : Z) (sigversion : SigVersion)
    (fRequireMinimal fExec : bool) (pc : bytes) (opcode : opcodetype) (s : state)
  : result script_fail state :=
  match opcode with
  | OP_1NEGATE | OP_1 | OP_2 | OP_3 | OP_4 | OP_5 | OP_6 | OP_7 | OP_8 | OP_9 | OP_10
  | OP_11 | OP_12 | OP_13 | OP_14 | OP_15 | OP_16 => exec_push_number opcode s
  | OP_NOP => Ok s
  | OP_CHECKLOCKTIMEVERIFY => exec_checklocktimeverify c flags fRequireMinimal s
  | OP_CHECKSEQUENCEVERIFY => exec_checksequenceverify c flags fRequireMinimal s
  | OP_ISCOINSTAKE => exec_iscoinstake c s
  | OP_NOP1 | OP_NOP4 | OP_NOP5 | OP_NOP6 | OP_NOP7 | OP_NOP8 | OP_NOP10 =>
      exec_upgradable_nop flags s
  | OP_IF | OP_NOTIF => exec_if flags sigversion fExec opcode s
  | OP_ELSE => exec_else s
  | OP_ENDIF => exec_endif s
  | OP_VERIFY => exec_verify s
  | OP_RETURN => fail SCRIPT_ERR_OP_RETURN
  | OP_TOALTSTACK | OP_FROMALTSTACK | OP_2DROP | OP_2DUP | OP_3DUP | OP_2OVER | OP_2ROT
  | OP_2SWAP => exec_stack_1 opcode s
  | OP_IFDUP | OP_DEPTH | OP_DROP | OP_DUP | OP_NIP | OP_OVER => exec_stack_2 opcode s
  | OP_PICK | OP_ROLL => exec_pick_roll fRequireMinimal opcode s
  | OP_ROT | OP_SWAP | OP_TUCK | OP_SIZE => exec_stack_3 opcode s
  | OP_EQUAL | OP_EQUALVERIFY => exec_equal opcode s
  | OP_1ADD | OP_1SUB | OP_NEGATE | OP_ABS | OP_NOT | OP_0NOTEQUAL =>
      exec_unary fRequireMinimal opcode s
  | OP_ADD | OP_SUB | OP_BOOLAND | OP_BOOLOR | OP_NUMEQUAL | OP_NUMEQUALVERIFY
  | OP_NUMNOTEQUAL | OP_LESSTHAN | OP_GREATERTHAN | OP_LESSTHANOREQUAL
  | OP_GREATERTHANOREQUAL | OP_MIN | OP_MAX => exec_binary fRequireMinimal opcode s
  | OP_WITHIN => exec_within fRequireMinimal s
  | OP_RIPEMD160 | OP_SHA1 | OP_SHA256 | OP_HASH160 | OP_HASH256 => exec_hash h opcode s
  | OP_CODESEPARATOR => Ok (with_pbegincodehash s pc)
  | OP_CHECKSIG | OP_CHECKSIGVERIFY => exec_checksig h c flags sigversion opcode s
  | OP_CHECKMULTISIG | OP_CHECKMULTISIGVERIFY =>
      exec_checkmultisig h c flags sigversion fRequireMinimal opcode s
  | _ => fail SCRIPT_ERR_BAD_OPCODE
  end.

Definition is_disabled (opcode : opcodetype) : bool :=
  match opcode with
  | OP_CAT | OP_SUBSTR | OP_LEFT | OP_RIGHT | OP_INVERT | OP_AND | OP_OR | OP_XOR | OP_2MUL
  | OP_2DIV | OP_MUL | OP_DIV | OP_MOD | OP_LSHIFT | OP_RSHIFT => true
  | _ => false
  end.

(** The instruction [d] itself: a push, an opcode, or nothing in a branch that is
    not executed. *)
Definition dispatch (h : crypto) (c : checker) (flags : Z) (sigversion : SigVersion)
    (fRequireMinimal fExec : bool) (d : decoded) (s : state) : result script_fail state :=
  let opcode := d_opcode d in
  if fExec && (0 <=? opcode_byte opcode) && op_le opcode OP_PUSHDATA4 then
    if fRequireMinimal then
      match CheckMinimalPush (d_vch d) opcode with
      | None => Err AssertFail
      | Some false => fail SCRIPT_ERR_MINIMALDATA
      | Some true => Ok (push s (d_vch d))
      end
    else Ok (push s (d_vch d))
  else if fExec || (op_le OP_IF opcode && op_le opcode OP_ENDIF)
  then exec_op h c flags sigversion fRequireMinimal fExec (d_pc d) opcode s
  else Ok s.

(** One turn of the loop: the new [pc] and state. *)
Definition eval_step (h : crypto) (c : checker) (flags : Z) (sigversion : SigVersion)
    (pc : bytes) (s : state) : result script_fail (bytes * state) :=
  let fRequireMinimal := has flags SCRIPT_VERIFY_MINIMALDATA in
  let fExec := forallb id (vfExec s) in
  let d := GetScriptOp pc in
  let opcode := d_opcode d in
  if negb (d_ok d) then fail SCRIPT_ERR_BAD_OPCODE
  else if MAX_SCRIPT_ELEMENT_SIZE <? size (d_vch d) then fail SCRIPT_ERR_PUSH_SIZE
  else
    let s := if op_lt OP_16 opcode then with_nOpCount s (nOpCount s + 1) else s in
    if op_lt OP_16 opcode && (MAX_OPS_PER_SCRIPT <? nOpCount s) then fail SCRIPT_ERR_OP_COUNT
    else if is_disabled opcode then fail SCRIPT_ERR_DISABLED_OPCODE
    else if op_eqb opcode OP_CODESEPARATOR && is_base sigversion
            && has flags SCRIPT_VERIFY_CONST_SCRIPTCODE
    then fail SCRIPT_ERR_OP_CODESEPARATOR
    else
      let! s := dispatch h c flags sigversion fRequireMinimal fExec d s in
      if MAX_STACK_SIZE <? stack_size (stack s) + stack_size (altstack s)
      then fail SCRIPT_ERR_STACK_SIZE
      else Ok (d_pc d, s).

(** [while (pc < pend)]: an instruction takes at least one byte, so the length
    of the script bounds the loop. *)
Fixpoint eval_loop (fuel : nat) (h : crypto) (c : checker) (flags : Z)
    (sigversion : SigVersion) (pc : bytes) (s : state) : result script_fail state :=
  match pc with
  | [] => Ok s
  | _ =>
      match fuel with
      | O => Err OutOfFuel
      | S f =>
          let! (pc, s) := eval_step h c flags sigversion pc s in
          eval_loop f h c flags sigversion pc s
      end
  end.

Definition initial_state (st : list bytes) (script : bytes) : state :=
  State st [] [] 0 script.

(** [EvalScript]: the stack left by a [true] return. *)
Definition EvalScript (h : crypto) (st : list bytes) (script : bytes) (flags : Z)
    (c : checker) (sigversion : SigVersion) : result script_fail (list bytes) :=
  if MAX_SCRIPT_SIZE <? size script then fail SCRIPT_ERR_SCRIPT_SIZE
  else
    let! s := eval_loop (length script) h c flags sigversion script
                (initial_state st script) in
    match vfExec s with
    | [] => Ok (stack s)
    | _ => fail SCRIPT_ERR_UNBALANCED_CONDITIONAL
    end.

(** ** VerifyScript *)

(** [stack.resize(1)]. *)
Definition resize1 (st : list bytes) : list bytes := [default [] (last st)].

(** The script and the initial stack of a version 0 program, or the error. *)
Definition VerifyWitnessProgram (h : crypto) (witness : list bytes) (witversion : Z)
    (program : bytes) (flags : Z) (c : checker) : result script_fail unit :=
  let run scriptPubKey st :=
    if existsb (λ v, MAX_SCRIPT_ELEMENT_SIZE <? size v) st then fail SCRIPT_ERR_PUSH_SIZE
    else
      let! st := EvalScript h st scriptPubKey flags c WITNESS_V0 in
      match st with
      | [top] => if CastToBool top then Ok tt else fail SCRIPT_ERR_EVAL_FALSE
      | _ => fail SCRIPT_ERR_CLEANSTACK
      end in
  if witversion =? 0 then
    if size program =? WITNESS_V0_SCRIPTHASH_SIZE then
      match rev witness with
      | [] => fail SCRIPT_ERR_WITNESS_PROGRAM_WITNESS_EMPTY
      | scriptPubKey :: st =>
          if negb (bool_decide (SHA256 h scriptPubKey = program))
          then fail SCRIPT_ERR_WITNESS_PROGRAM_MISMATCH
          else run scriptPubKey st
      end
    else if size program =? WITNESS_V0_KEYHASH_SIZE then
      if negb (stack_size witness =? 2) then fail SCRIPT_ERR_WITNESS_PROGRAM_MISMATCH
      else run ([opcode_byte OP_DUP; opcode_byte OP_HASH160] ++ push_data program
                  ++ [opcode_byte OP_EQUALVERIFY; opcode_byte OP_CHECKSIG]) (rev witness)
    else fail SCRIPT_ERR_WITNESS_PROGRAM_WRONG_LENGTH
  else if has flags SCRIPT_VERIFY_DISCOURAGE_UPGRADABLE_WITNESS_PROGRAM
  then fail SCRIPT_ERR_DISCOURAGE_UPGRADABLE_WITNESS_PROGRAM
  else Ok tt.

(** [if (stack.empty()) ...; if (!CastToBool(stack.back())) ...]. *)
Definition require_true (st : list bytes) : result script_fail unit :=
  match st with
  | [] => fail SCRIPT_ERR_EVAL_FALSE
  | top :: _ => if CastToBool top then Ok tt else fail SCRIPT_ERR_EVAL_FALSE
  end.

(** The test for a witness program in [script], whose scriptSig must be
    [expected]: the stack left and whether there was a witness program. *)
Definition check_witness_program (h : crypto) (witness : list bytes) (flags : Z)
    (c : checker) (script scriptSig expected : bytes) (malleated : ScriptError)
    (st : list bytes) (hadWitness : bool) : result script_fail (list bytes * bool) :=
  if has flags SCRIPT_VERIFY_WITNESS then
    match IsWitnessProgram script with
    | Some (witnessversion, witnessprogram) =>
        if negb (bool_decide (scriptSig = expected)) then fail malleated
        else
          let! _ := VerifyWitnessProgram h witness witnessversion witnessprogram flags c in
          Ok (resize1 st, true)
    | None => Ok (st, hadWitness)
    end
  else Ok (st, hadWitness).

Definition fIsP2SH (c : checker) (flags : Z) (scriptPubKey : bytes) : bool :=
  let b := if IsBitcoinCVersion c then IsPayToScriptHashAny (IsCoinStake c) scriptPubKey
           else IsPayToScriptHash scriptPubKey in
  if b && has flags SCRIPT_VERIFY_NO_CSP2SH then IsPayToScriptHashAny true scriptPubKey
  else b.

(** The additional validation of a spend of a script hash. *)
Definition verify_p2sh (h : crypto) (scriptSig : bytes) (witness : list bytes) (flags : Z)
    (c : checker) (stackCopy : list bytes) (hadWitness : bool)
  : result script_fail (list bytes * bool) :=
  if negb (IsPushOnly scriptSig) then fail SCRIPT_ERR_SIG_PUSHONLY
  else match stackCopy with
       | [] => Err AssertFail
       | pubKey2 :: st =>
           let! st := EvalScript h st pubKey2 flags c BASE in
           let! _ := require_true st in
           check_witness_program h witness flags c pubKey2 scriptSig (push_data pubKey2)
             SCRIPT_ERR_WITNESS_MALLEATED_P2SH st hadWitness
       end.

Definition VerifyScript (h : crypto) (scriptSig scriptPubKey : bytes)
    (witness : option (list bytes)) (flags : Z) (c : checker) : result script_fail unit :=
  let witness := default [] witness in
  if has flags SCRIPT_VERIFY_SIGPUSHONLY && negb (IsPushOnly scriptSig)
  then fail SCRIPT_ERR_SIG_PUSHONLY
  else
    let! st :=
      if IsBitcoinCVersion c then
        if negb (size scriptSig =? 0) then fail SCRIPT_ERR_WITNESS_MALLEATED
        else Ok (rev witness)
      else EvalScript h [] scriptSig flags c BASE in
    let stackCopy := if has flags SCRIPT_VERIFY_P2SH then st else [] in
    let! st := EvalScript h st scriptPubKey flags c BASE in
    let! _ := require_true st in
    let! (st, hadWitness) := check_witness_program h witness flags c scriptPubKey scriptSig
                               [] SCRIPT_ERR_WITNESS_MALLEATED st false in
    let! (st, hadWitness) :=
      if has flags SCRIPT_VERIFY_P2SH && fIsP2SH c flags scriptPubKey
      then verify_p2sh h scriptSig witness flags c stackCopy hadWitness
      else Ok (st, hadWitness) in
    let! _ :=
      if has flags SCRIPT_VERIFY_CLEANSTACK then
        if negb (has flags SCRIPT_VERIFY_P2SH) then Err AssertFail
        else if negb (has flags SCRIPT_VERIFY_WITNESS) then Err AssertFail
        else if negb (stack_size st =? 1) then fail SCRIPT_ERR_CLEANSTACK
        else Ok tt
      else Ok tt in
    if has flags SCRIPT_VERIFY_WITNESS then
      if negb (has flags SCRIPT_VERIFY_P2SH) then Err AssertFail
      else if negb (IsBitcoinCVersion c) && negb hadWitness && negb (bool_decide (witness = []))
      then fail SCRIPT_ERR_WITNESS_UNEXPECTED
      else Ok tt
    else Ok tt.

(** ** Signature operations of witnesses *)

Definition WitnessSigOps (witversion : Z) (witprogram : bytes) (witness : list bytes) : Z :=
  if witversion =? 0 then
    if size witprogram =? WITNESS_V0_KEYHASH_SIZE then 1
    else match rev witness with
         | subscript :: _ =>
             if size witprogram =? WITNESS_V0_SCRIPTHASH_SIZE
             then GetSigOpCount true subscript else 0
         | [] => 0
         end
  else 0.

(** [while (pc < scriptSig.end()) GetOp(pc, opcode, data)], which does not look
    at the result: [GetOp] clears [data] and moves [pc] even when it fails. *)
Fixpoint last_data (fuel : nat) (pc data : bytes) : bytes :=
  match fuel, pc with
  | S f, _ :: _ => let d := GetScriptOp pc in last_data f (d_pc d) (d_vch d)
  | _, _ => data
  end.

(** [None] is the failed assertion that WITNESS implies P2SH. *)
Definition CountWitnessSigOps (scriptSig scriptPubKey : bytes) (witness : option (list bytes))
    (flags : Z) : option Z :=
  if negb (has flags SCRIPT_VERIFY_WITNESS) then Some 0
  else if negb (has flags SCRIPT_VERIFY_P2SH) then None
  else match IsWitnessProgram scriptPubKey with
       | Some (witnessversion, witnessprogram) =>
           Some (WitnessSigOps witnessversion witnessprogram (default [] witness))
       | None =>
           if IsPayToScriptHash scriptPubKey && IsPushOnly scriptSig then
             match IsWitnessProgram (last_data (length scriptSig) scriptSig []) with
             | Some (witnessversion, witnessprogram) =>
                 Some (WitnessSigOps witnessversion witnessprogram (default [] witness))
             | None => Some 0
             end
           else Some 0
       end.

(** ** Cold-stake scripts *)

Definition HasIsCoinstakeOp (script : bytes) : bool :=
  match script with
  | [] => false
  | _ => let d := GetScriptOp script in d_ok d && op_eqb (d_opcode d) OP_ISCOINSTAKE
  end.

(** [fFoundOp] is never set: the first [OP_ELSE] decides. *)
Fixpoint IsSpendScriptP2PKH_loop (fuel : nat) (script pc : bytes) : bool :=
  match fuel, pc with
  | S f, _ :: _ =>
      let d := GetScriptOp pc in
      if negb (d_ok d) then false
      else if op_eqb (d_opcode d) OP_ELSE
      then MatchPayToPublicKeyHash script (length script - length (d_pc d))
      else IsSpendScriptP2PKH_loop f script (d_pc d)
  | _, _ => false
  end.
Definition IsSpendScriptP2PKH (script : bytes) : bool :=
  IsSpendScriptP2PKH_loop (length script) script script.

(** [pc--] after a one-byte opcode is the position [pc] had before it.
    [None] is a [false] return, which leaves [scriptOut] alone. *)
Fixpoint GetCoinstakeScriptPath_loop (fuel : nat) (fFoundOp : bool) (pcStart pc : bytes)
  : option bytes :=
  match fuel, pc with
  | S f, _ :: _ =>
      let d := GetScriptOp pc in
      if negb (d_ok d) then None
      else if negb fFoundOp && op_eqb (d_opcode d) OP_ISCOINSTAKE
      then GetCoinstakeScriptPath_loop f true (drop 1 (d_pc d)) (drop 1 (d_pc d))
      else if fFoundOp && op_eqb (d_opcode d) OP_ELSE then Some (between pcStart pc)
      else GetCoinstakeScriptPath_loop f fFoundOp pcStart (d_pc d)
  | _, _ => None
  end.
Definition GetCoinstakeScriptPath (scriptIn : bytes) : option bytes :=
  GetCoinstakeScriptPath_loop (length scriptIn) false scriptIn scriptIn.

Fixpoint GetNonCoinstakeScriptPath_loop (fuel : nat) (fFoundOp : bool) (pcStart pc : bytes)
  : option bytes :=
  match fuel, pc with
  | S f, _ :: _ =>
      let d := GetScriptOp pc in
      if negb (d_ok d) then None
      else if negb fFoundOp && op_eqb (d_opcode d) OP_ELSE
      then GetNonCoinstakeScriptPath_loop f true (d_pc d) (d_pc d)
      else if fFoundOp && op_eqb (d_opcode d) OP_ENDIF then Some (between pcStart pc)
      else GetNonCoinstakeScriptPath_loop f fFoundOp pcStart (d_pc d)
  | _, _ => None
  end.
Definition GetNonCoinstakeScriptPath (scriptIn : bytes) : option bytes :=
  GetNonCoinstakeScriptPath_loop (length scriptIn) false scriptIn scriptIn.

(** [scriptOutA] is assigned at every [OP_ELSE] after the first
    [OP_ISCOINSTAKE]; it starts as [outA], the caller's value. *)
Fixpoint SplitConditionalCoinstakeScript_loop (fuel : nat) (fFoundOp fFoundElse : bool)
    (outA pcStart pc : bytes) : option (bytes * bytes) :=
  match fuel, pc with
  | S f, _ :: _ =>
      let d := GetScriptOp pc in
      if negb (d_ok d) then None
      else if negb fFoundOp && op_eqb (d_opcode d) OP_ISCOINSTAKE
      then SplitConditionalCoinstakeScript_loop f true fFoundElse outA (drop 1 (d_pc d))
             (drop 1 (d_pc d))
      else if fFoundElse && op_eqb (d_opcode d) OP_ENDIF
      then Some (outA, between pcStart pc)
      else if fFoundOp && op_eqb (d_opcode d) OP_ELSE
      then SplitConditionalCoinstakeScript_loop f fFoundOp true (between pcStart pc) (d_pc d)
             (d_pc d)
      else SplitConditionalCoinstakeScript_loop f fFoundOp fFoundElse outA pcStart (d_pc d)
  | _, _ => None
  end.
Definition SplitConditionalCoinstakeScript (scriptIn outA : bytes) : option (bytes * bytes) :=
  SplitConditionalCoinstakeScript_loop (length scriptIn) false false outA scriptIn scriptIn.

Definition GetColdStakeScriptPath (for_coinstake : bool) (script_in : bytes) : option bytes :=
  if for_coinstake then GetCoinstakeScriptPath script_in
  else GetNonCoinstakeScriptPath script_in.

(** ** Automation for evaluations *)

(** Takes a successful evaluation apart: binds, tests and matches. *)
Ltac ok_inv_step :=
  match goal with
  | H : rbind _ _ = Ok _ |- _ => apply rbind_Ok in H; destruct H as (? & ? & H); cbv beta in H
  | H : Ok _ = Ok _ |- _ => injection H as H
  | H : Err _ = Ok _ |- _ => discriminate H
  | H : (if ?b then _ else _) = Ok _ |- _ => destruct b eqn:?
  | H : (match ?x with _ => _ end) = Ok _ |- _ => destruct x eqn:?
  | H : unit |- _ => destruct H
  end.
Ltac ok_inv := repeat (ok_inv_step; simplify_eq/=).

(** A guard of the code that did not fail. *)
Ltac guard_in H :=
  match type of H with (if ?b then Err _ else _) = Ok _ => destruct b eqn:?; [discriminate H|] end.
