(* ===== verification/SoftFork.v ===== *)
(** Verification flags as soft forks: [EvalScript], [VerifyWitnessProgram] and
    [VerifyScript] accept no more under a larger set of flags, as the comment on
    the flags in [src/src/script/interpreter.h] claims; [SCRIPT_VERIFY_NO_CSP2SH]
    is the exception. *)
From S2P Require Import Prelude Serialize Script Interpreter.

(** ** Flags as soft forks *)

(** [m2] accepts no more than [m1] does, with the same result. *)
Definition ok_le {A} (m2 m1 : result script_fail A) : Prop := ∀ a, m2 = Ok a → m1 = Ok a.

#[global] Instance ok_le_preorder A : PreOrder (@ok_le A).
Proof. split; [by intros m a|intros m1 m2 m3 H1 H2 a H; auto]. Qed.

Lemma ok_le_bind {A B} (m2 m1 : result script_fail A) (k2 k1 : A → result script_fail B) :
  ok_le m2 m1 → (∀ a, ok_le (k2 a) (k1 a)) → ok_le (rbind m2 k2) (rbind m1 k1).
Proof.
  intros Hm Hk b. rewrite !rbind_Ok. intros (a & Ha & Hb). exists a. split; [auto|].
  by apply Hk.
Qed.

Lemma ok_le_fail {A} e (m : result script_fail A) : ok_le (Err e) m.
Proof. by intros a. Qed.

(** [f1] is a subset of the flags [f2]. *)
Definition flags_sub (f1 f2 : Z) : Prop := Z.land f1 f2 = f1.

Lemma has_sub f1 f2 F : flags_sub f1 f2 → has f1 F = true → has f2 F = true.
Proof.
  unfold flags_sub, has. intros Hs H. apply negb_true_iff, Z.eqb_neq. intros H2.
  reflect_bools. apply H. by rewrite <- Hs, <- Z.land_assoc, H2, Z.land_0_r.
Qed.

Create HintDb soft_fork discriminated.
#[export] Hint Resolve ok_le_fail : soft_fork.
#[export] Hint Extern 0 (ok_le ?m ?m) => reflexivity : soft_fork.

(** Compares two evaluations of the same code under flags [f1] and [f2]:
    follows their common structure, and splits on a flag only where its test
    guards a failure. *)
Ltac follow_step Hs :=
  match goal with
  | |- ok_le ?m ?m => reflexivity
  | |- ok_le (Err _) _ => apply ok_le_fail
  | |- ok_le (rbind _ _) (rbind _ _) => apply ok_le_bind; [solve [eauto with soft_fork]|intros ?]
  | |- ok_le (if ?b then _ else _) (if ?b then _ else _) => destruct b
  | |- ok_le (match ?x with _ => _ end) (match ?x with _ => _ end) => destruct x
  | |- context [has ?f1 ?F] =>
      match type of Hs with
      | flags_sub f1 ?f2 =>
          let E := fresh in
          destruct (has f1 F) eqn:E;
          [rewrite ?(has_sub f1 f2 F Hs E)|destruct (has f2 F)];
          rewrite ?andb_false_r, ?andb_true_r; cbn [andb negb]
      end
  | |- ok_le (if ?b then Err _ else _) _ => destruct b
  | |- ok_le ((λ _, _) _) _ => cbv beta
  end.
Ltac follow Hs := repeat (follow_step Hs; cbv beta zeta); eauto with soft_fork.

Section SoftFork.
Context (h : crypto) (c : checker) (f1 f2 : Z) (sv : SigVersion) (Hs : flags_sub f1 f2).

Lemma num_weaken m1 m2 k v :
  (m1 = true → m2 = true) → ok_le (num m2 k v) (num m1 k v).
Proof.
  unfold num, CScriptNum.of_vch. intros Hm z. destruct (k <? size v); [done|].
  destruct m1; [by rewrite Hm|]. simpl. by destruct (_ && _ && _ && _).
Qed.
Hint Resolve num_weaken : soft_fork.

Lemma CheckSignatureEncoding_weaken v :
  ok_le (CheckSignatureEncoding h v f2) (CheckSignatureEncoding h v f1).
Proof. 
  unfold CheckSignatureEncoding. set (F := Z.lor _ _). clearbody F.
  destruct (size v =? 0); [reflexivity|]. follow Hs.
  all: intros ? Ha; ok_inv; done.
Qed.

Lemma CheckPubKeyEncoding_weaken v :
  ok_le (CheckPubKeyEncoding v f2 sv) (CheckPubKeyEncoding v f1 sv).
Proof. unfold CheckPubKeyEncoding. follow Hs. Qed.

Lemma delete_signature_weaken code v :
  ok_le (delete_signature f2 sv code v) (delete_signature f1 sv code v).
Proof. unfold delete_signature. follow Hs. Qed.
Hint Resolve CheckSignatureEncoding_weaken CheckPubKeyEncoding_weaken
  delete_signature_weaken : soft_fork.

Lemma delete_signatures_weaken st n i code :
  ok_le (delete_signatures f2 sv st i n code) (delete_signatures f1 sv st i n code).
Proof. revert i code. induction n as [|n IH]; intros i code; simpl; follow Hs. Qed.

Lemma check_signatures_weaken fuel code st isig ikey ns nk :
  ok_le (check_signatures fuel h c f2 sv code st isig ikey ns nk)
    (check_signatures fuel h c f1 sv code st isig ikey ns nk).
Proof.
  revert isig ikey ns nk. induction fuel as [|f IH]; intros isig ikey ns nk; simpl;
    follow Hs.
Qed.

Lemma pop_arguments_weaken ok n ikey2 st :
  ok_le (pop_arguments f2 ok n ikey2 st) (pop_arguments f1 ok n ikey2 st).
Proof. revert ikey2 st. induction n as [|n IH]; intros ikey2 st; simpl; follow Hs. Qed.
Hint Resolve delete_signatures_weaken check_signatures_weaken pop_arguments_weaken
  : soft_fork.

Lemma exec_checkmultisig_weaken m1 m2 op s :
  (m1 = true → m2 = true) →
  ok_le (exec_checkmultisig h c f2 sv m2 op s) (exec_checkmultisig h c f1 sv m1 op s).
Proof. intros Hm. unfold exec_checkmultisig. cbv zeta. follow Hs. Qed.

Lemma exec_op_weaken m1 m2 fExec pc op s :
  (m1 = true → m2 = true) →
  ok_le (exec_op h c f2 sv m2 fExec pc op s) (exec_op h c f1 sv m1 fExec pc op s).
Proof.
  intros Hm. destruct op; simpl; try reflexivity; try (by apply exec_checkmultisig_weaken).
  all: unfold exec_if, exec_pick_roll, exec_unary, exec_binary, exec_within, exec_checksig,
    exec_upgradable_nop, exec_checklocktimeverify, exec_checksequenceverify; follow Hs.
  all: intros ? Ha; ok_inv; done.
Qed.
Hint Resolve exec_op_weaken : soft_fork.

Lemma dispatch_weaken m1 m2 fExec d s :
  (m1 = true → m2 = true) →
  ok_le (dispatch h c f2 sv m2 fExec d s) (dispatch h c f1 sv m1 fExec d s).
Proof.
  intros Hm. unfold dispatch. cbv zeta. follow Hs. destruct m1; [rewrite Hm by done; follow Hs|].
  destruct m2; [|reflexivity]. intros ? Ha. ok_inv. done.
Qed.
Hint Resolve dispatch_weaken has_sub : soft_fork.

Lemma eval_step_weaken pc s :
  ok_le (eval_step h c f2 sv pc s) (eval_step h c f1 sv pc s).
Proof.
  pose proof (dispatch_weaken _ _ (forallb id (vfExec s)) (GetScriptOp pc)
                (if op_lt OP_16 (d_opcode (GetScriptOp pc))
                 then with_nOpCount s (nOpCount s + 1) else s)
                (has_sub f1 f2 SCRIPT_VERIFY_MINIMALDATA Hs)) as Hd.
  unfold eval_step. cbv zeta. follow Hs.
Qed.
Hint Resolve eval_step_weaken : soft_fork.

Lemma eval_loop_weaken fuel pc s :
  ok_le (eval_loop fuel h c f2 sv pc s) (eval_loop fuel h c f1 sv pc s).
Proof. revert pc s. induction fuel as [|f IH]; intros pc s; simpl; follow Hs. Qed.
Hint Resolve eval_loop_weaken : soft_fork.

Lemma EvalScript_weaken st script :
  ok_le (EvalScript h st script f2 c sv) (EvalScript h st script f1 c sv).
Proof. unfold EvalScript. follow Hs. Qed.
End SoftFork.
#[export] Hint Resolve EvalScript_weaken : soft_fork.

Lemma VerifyWitnessProgram_weaken h c f1 f2 w v p :
  flags_sub f1 f2 →
  ok_le (VerifyWitnessProgram h w v p f2 c) (VerifyWitnessProgram h w v p f1 c).
Proof. intros Hs. unfold VerifyWitnessProgram. cbv zeta. follow Hs. Qed.
#[export] Hint Resolve VerifyWitnessProgram_weaken : soft_fork.

(** The combinations of flags that [VerifyScript] asserts. *)
Definition flags_wf (flags : Z) : bool :=
  (negb (has flags SCRIPT_VERIFY_CLEANSTACK)
   || (has flags SCRIPT_VERIFY_P2SH && has flags SCRIPT_VERIFY_WITNESS))
  && (negb (has flags SCRIPT_VERIFY_WITNESS) || has flags SCRIPT_VERIFY_P2SH).

Section VerifySoftFork.
Context (h : crypto) (c : checker) (f1 f2 : Z) (Hs : flags_sub f1 f2) (Hwf : flags_wf f1 = true).
Context (Hcs : has f1 SCRIPT_VERIFY_NO_CSP2SH = has f2 SCRIPT_VERIFY_NO_CSP2SH).

(** Under more flags the stack may be cut down, which only CLEANSTACK sees,
    and a witness program may be found, which only WITNESS looks at. *)
Definition same_outcome (r2 r1 : list bytes * bool) : Prop :=
  has f1 SCRIPT_VERIFY_WITNESS = true → r2 = r1.

Lemma check_witness_program_weaken w script sig expected e st2 st1 had2 had1 r :
  same_outcome (st2, had2) (st1, had1) →
  check_witness_program h w f2 c script sig expected e st2 had2 = Ok r →
  ∃ r', check_witness_program h w f1 c script sig expected e st1 had1 = Ok r'
        ∧ same_outcome r r'.
Proof.
  intros Hsame H. unfold check_witness_program in *.
  destruct (has f1 SCRIPT_VERIFY_WITNESS) eqn:E.
  - rewrite (has_sub f1 f2 _ Hs E) in H. specialize (Hsame E). simplify_eq.
    destruct (IsWitnessProgram script) as [[v p]|]; [|by exists r].
    destruct (negb _); [done|]. ok_inv.
    rewrite (VerifyWitnessProgram_weaken h c f1 f2 _ _ _ Hs _ H0). by exists (resize1 st1, true).
  - eexists. split; [done|]. unfold same_outcome. by rewrite E.
Qed.

Lemma fIsP2SH_same script : fIsP2SH c f2 script = fIsP2SH c f1 script.
Proof. unfold fIsP2SH. by rewrite Hcs. Qed.

Lemma verify_p2sh_weaken w sig st had2 had1 r :
  (has f1 SCRIPT_VERIFY_WITNESS = true → had2 = had1) →
  verify_p2sh h sig w f2 c st had2 = Ok r →
  ∃ r', verify_p2sh h sig w f1 c st had1 = Ok r' ∧ same_outcome r r'.
Proof.
  intros Hhad H. unfold verify_p2sh in *. destruct (negb _); [done|].
  destruct st as [|script st]; [done|]. apply rbind_Ok in H as (st' & Hst & H).
  apply rbind_Ok in H as (u & Hu & H).
  rewrite (EvalScript_weaken h c f1 f2 _ Hs _ _ _ Hst). simpl. rewrite Hu. simpl.
  eapply check_witness_program_weaken; [|exact H]. intros E. by rewrite Hhad.
Qed.

Lemma VerifyScript_weaken sig script w :
  VerifyScript h sig script w f2 c = Ok tt → VerifyScript h sig script w f1 c = Ok tt.
Proof.
  unfold VerifyScript. cbv zeta. intros H.
  destruct (has f2 SCRIPT_VERIFY_SIGPUSHONLY && _) eqn:Epush; [done|].
  apply rbind_Ok in H as (st0 & Hst0 & H). apply rbind_Ok in H as (st & Hst & H).
  apply rbind_Ok in H as ([] & Htrue & H). apply rbind_Ok in H as ([st2 had2] & Hw & H).
  apply rbind_Ok in H as ([st3 had3] & Hp & H). apply rbind_Ok in H as ([] & Hclean & H).
  assert (Epush1 : has f1 SCRIPT_VERIFY_SIGPUSHONLY && negb (IsPushOnly sig) = false).
  { destruct (has f1 SCRIPT_VERIFY_SIGPUSHONLY) eqn:E; [|done].
    by rewrite (has_sub f1 f2 _ Hs E) in Epush. }
  assert (Hst0' : (if IsBitcoinCVersion c then
      if negb (size sig =? 0) then fail SCRIPT_ERR_WITNESS_MALLEATED else Ok (rev (default [] w))
    else EvalScript h [] sig f1 c BASE) = Ok st0).
  { destruct (IsBitcoinCVersion c); [done|]. by apply (EvalScript_weaken h c f1 f2). }
  rewrite Epush1, Hst0'. simpl. rewrite (EvalScript_weaken h c f1 f2 _ Hs _ _ _ Hst). simpl.
  rewrite Htrue. simpl.
  destruct (check_witness_program_weaken _ _ _ _ _ st st false false _ (λ _, eq_refl) Hw)
    as ([st2' had2'] & -> & Hsame2). simpl.
  assert (∃ r', (if has f1 SCRIPT_VERIFY_P2SH && fIsP2SH c f1 script
      then verify_p2sh h sig (default [] w) f1 c
             (if has f1 SCRIPT_VERIFY_P2SH then st0 else []) had2'
      else Ok (st2', had2')) = Ok r' ∧ same_outcome (st3, had3) r')
    as ([st3' had3'] & -> & Hsame3).
  { rewrite fIsP2SH_same in Hp. destruct (has f1 SCRIPT_VERIFY_P2SH) eqn:E.
    - rewrite (has_sub f1 f2 _ Hs E) in Hp. simpl in *.
      destruct (fIsP2SH c f1 script); [|ok_inv; by exists (st2', had2')].
      eapply verify_p2sh_weaken; [|exact Hp]. intros EW. by specialize (Hsame2 EW) as [=].
    - exists (st2', had2'). split; [done|]. intros EW. unfold flags_wf in Hwf.
      rewrite E, EW in Hwf. by rewrite andb_false_r in Hwf. }
  simpl. clear Hp Hw Hsame2. unfold flags_wf in Hwf. unfold same_outcome in Hsame3.
  destruct (has f1 SCRIPT_VERIFY_CLEANSTACK) eqn:EC, (has f1 SCRIPT_VERIFY_WITNESS) eqn:EW,
    (has f1 SCRIPT_VERIFY_P2SH) eqn:EP; try done; simpl.
  all: try (specialize (Hsame3 eq_refl); simplify_eq).
  all: rewrite ?(has_sub f1 f2 _ Hs EC), ?(has_sub f1 f2 _ Hs EW), ?(has_sub f1 f2 _ Hs EP) in *.
  all: simpl in *; try rewrite Hclean; simpl; try done.
Qed.
End VerifySoftFork.

(** ** Properties *)

(** C33: verification flags are soft forks.  Apart from [SCRIPT_VERIFY_NO_CSP2SH],
    and for flag sets that [VerifyScript] does not assert against, what is
    accepted under more flags is accepted under fewer. *)
Theorem flags_are_soft_forks (h : crypto) (c : checker) (f1 f2 : Z)
    (scriptSig scriptPubKey : bytes) (witness : option (list bytes)) :
  flags_sub f1 f2 → flags_wf f1 = true →
  has f1 SCRIPT_VERIFY_NO_CSP2SH = has f2 SCRIPT_VERIFY_NO_CSP2SH →
  VerifyScript h scriptSig scriptPubKey witness f2 c = Ok tt →
  VerifyScript h scriptSig scriptPubKey witness f1 c = Ok tt.
Proof. intros. by eapply (VerifyScript_weaken h c f1 f2). Qed.

Lemma flags_are_soft_forks_witness :
  let h := Crypto id id id (λ _, true) in
  let c := Checker (λ _ _ _ _, true) (λ _, true) (λ _, true) false false in
  VerifyScript h (push_int64 5) (map opcode_byte [OP_5; OP_EQUAL]) None 0 c = Ok tt.
Proof.
  intros h c. apply (flags_are_soft_forks h c 0 (2 ^ 12 - 1)).
  - reflexivity.
  - reflexivity.
  - reflexivity.
  - vm_compute. reflexivity.
Defined.

(** [SCRIPT_VERIFY_NO_CSP2SH] is not a soft fork: a cold-staking output that
    pays to a script hash is refused without it, because the revealed script
    fails, and accepted with it, because only the hash is compared. *)
Theorem no_csp2sh_accepts_more :
  ∃ (h : crypto) (c : checker) (scriptPubKey : bytes) (witness : list bytes),
    let f1 := SCRIPT_VERIFY_P2SH in
    let f2 := Z.lor SCRIPT_VERIFY_P2SH SCRIPT_VERIFY_NO_CSP2SH in
    flags_sub f1 f2 ∧
    VerifyScript h [] scriptPubKey (Some witness) f1 c
      = Err (ScriptErr SCRIPT_ERR_OP_RETURN) ∧
    VerifyScript h [] scriptPubKey (Some witness) f2 c = Ok tt.
Proof.
  exists (Crypto id id (λ v, take 20 (v ++ replicate 20 0)) (λ _, true)).
  exists (Checker (λ _ _ _ _, false) (λ _, false) (λ _, false) false true).
  exists (map opcode_byte [OP_ISCOINSTAKE; OP_IF; OP_DUP; OP_HASH160] ++ push_data (replicate 20 7)
     ++ map opcode_byte [OP_EQUALVERIFY; OP_CHECKSIG; OP_ELSE; OP_HASH160]
     ++ push_data (opcode_byte OP_RETURN :: replicate 19 0)
     ++ map opcode_byte [OP_EQUAL; OP_ENDIF]).
  exists [[opcode_byte OP_RETURN]]. cbv zeta. split_and!; vm_compute; reflexivity.
Qed.
