(* ===== verification/EvalLimits.v ===== *)
(** Resource limits and termination of [EvalScript]: the sizes every reachable
    state keeps, and that evaluation always returns, without a failed assertion
    and within the bounds of its loops. *)
From S2P Require Import Prelude Serialize Script Interpreter.

(** ** Resource limits *)

(** What the digests promise: their length, and that they return bytes. *)
Class CryptoOk (h : crypto) : Prop := {
  SHA256_ok v : bytes_ok (SHA256 h v) ∧ size (SHA256 h v) = 32;
  SHA1_ok v : bytes_ok (SHA1 h v) ∧ size (SHA1 h v) = 20;
  RIPEMD160_ok v : bytes_ok (RIPEMD160 h v) ∧ size (RIPEMD160 h v) = 20
}.

(** A stack element within the limit of pushes. *)
Definition elt_ok (v : bytes) : Prop := bytes_ok v ∧ size v <= MAX_SCRIPT_ELEMENT_SIZE.

#[global] Instance elt_ok_dec v : Decision (elt_ok v).
Proof. unfold elt_ok. apply _. Defined.

(** The limits that hold whenever the loop is at the start of a turn. *)
Record within_limits (s : state) : Prop := {
  wl_stack : Forall elt_ok (stack s);
  wl_altstack : Forall elt_ok (altstack s);
  wl_size : stack_size (stack s) + stack_size (altstack s) <= MAX_STACK_SIZE;
  wl_ops : 0 <= nOpCount s <= MAX_OPS_PER_SCRIPT;
  wl_vfExec : Z.of_nat (length (vfExec s)) <= nOpCount s
}.

Lemma serialize_elt_ok n : Z.abs n < 2 ^ 55 → elt_ok (CScriptNum.serialize n).
Proof.
  intros Hn. split; [apply CScriptNumFacts.serialize_bytes; lia|].
  pose proof (CScriptNumFacts.serialize_size n 7) as H. simpl in H.
  unfold MAX_SCRIPT_ELEMENT_SIZE. lia.
Qed.

Lemma num4_range m v z : elt_ok v → num4 m v = Ok z → Z.abs z < 2 ^ 31.
Proof.
  intros [Hv _]. unfold num. destruct (CScriptNum.of_vch v m _) eqn:E; [|done].
  intros [= <-]. by eapply CScriptNumFacts.of_vch_range.
Qed.

Lemma vch_of_bool_elt_ok b : elt_ok (vch_of_bool b).
Proof. destruct b; split; try done; by_eval. Qed.

Lemma stacktop_elt_ok st i v : Forall elt_ok st → stacktop st i = Ok v → elt_ok v.
Proof.
  unfold stacktop. intros Hst H. destruct (i <=? 0); [done|].
  destruct (st !! _) eqn:E; [|done]. injection H as ->. by eapply Forall_lookup_1.
Qed.

Lemma unary_op_range op bn r :
  Z.abs bn < 2 ^ 31 → unary_op op bn = Ok r → Z.abs r < 2 ^ 32.
Proof.
  intros Hb H. unfold unary_op, num_add_assign, num_sub_assign, num_neg, num_of_bool in H.
  destruct op; try done; ok_inv; bool_cases; repeat case_match; lia.
Qed.

Lemma binary_op_range op a b r :
  Z.abs a < 2 ^ 31 → Z.abs b < 2 ^ 31 → binary_op op a b = Ok r → Z.abs r < 2 ^ 33.
Proof.
  intros Ha Hb H. unfold binary_op in H.
  destruct op; try done; injection H as <-; rewrite ?i64_small by (unfold is_i64; lia);
    unfold num_of_bool; bool_cases; repeat case_match; lia.
Qed.

Lemma hash_op_elt_ok h op v : CryptoOk h → elt_ok (hash_op h op v).
Proof.
  intros Hh. unfold hash_op, Hash160, Hash256, elt_ok, MAX_SCRIPT_ELEMENT_SIZE.
  destruct op; repeat match goal with
  | |- context [RIPEMD160 h ?x] => destruct (RIPEMD160_ok (h:=h) x); split; [done|lia]
  | |- context [SHA1 h ?x] => destruct (SHA1_ok (h:=h) x); split; [done|lia]
  | |- context [SHA256 h ?x] => destruct (SHA256_ok (h:=h) x); split; [done|lia]
  end.
Qed.

Lemma pop_arguments_sub flags ok n ikey2 st st' :
  pop_arguments flags ok n ikey2 st = Ok st' → st' = drop n st.
Proof.
  revert ikey2 st. induction n as [|n IH]; intros ikey2 st H; simpl in H.
  { injection H as ->. by rewrite drop_0. }
  apply rbind_Ok in H as (top & _ & H). destruct (_ && _); [done|].
  apply rbind_Ok in H as (st1 & Hst & H). apply IH in H as ->.
  destruct st; [done|]. by injection Hst as ->.
Qed.

(** How an instruction may change the counted resources. *)
Record step_ok (op : opcodetype) (s s' : state) : Prop := {
  so_stack : Forall elt_ok (stack s');
  so_altstack : Forall elt_ok (altstack s');
  so_ops : nOpCount s <= nOpCount s' <= MAX_OPS_PER_SCRIPT;
  so_vfExec : (length (vfExec s') <= length (vfExec s) + if op_lt OP_16 op then 1 else 0)%nat
}.

Ltac elts :=
  repeat match goal with
  | H : Forall elt_ok (_ :: _) |- _ => apply Forall_cons in H as [? H]
  | H : ?x = _, H' : Forall elt_ok ?x |- _ => rewrite H in H'
  | H : ?x = _ :: _ |- Forall elt_ok ?x => rewrite H
  | |- Forall elt_ok (_ :: _) => apply Forall_cons_2
  | |- elt_ok (vch_of_bool _) => apply vch_of_bool_elt_ok
  | |- elt_ok (hash_op _ _ _) => by apply hash_op_elt_ok
  end; try done.

Section Limits.
Context (h : crypto) `{!CryptoOk h} (c : checker) (flags : Z) (sv : SigVersion).

Lemma stacktop_roll st n v (Hst : Forall elt_ok st) :
  stacktop st n = Ok v → ∀ k, Forall elt_ok (v :: take k st ++ drop (S k) st).
Proof.
  intros Hv k. apply Forall_cons. split; [by eapply stacktop_elt_ok|].
  apply Forall_app. split; [by apply Forall_take|by apply Forall_drop].
Qed.

Lemma exec_checkmultisig_limits m op s s' :
  Forall elt_ok (stack s) → Forall elt_ok (altstack s) → 0 <= nOpCount s →
  exec_checkmultisig h c flags sv m op s = Ok s' → step_ok op s s'.
Proof.
  intros Hst Halt Hops H. unfold exec_checkmultisig in H. cbv zeta in H.
  guard_in H. do 2 (apply rbind_Ok in H as (? & ? & H)). do 3 guard_in H.
  do 2 (apply rbind_Ok in H as (? & ? & H)). do 2 guard_in H.
  do 3 (apply rbind_Ok in H as (? & ? & H)).
  match goal with Hp : pop_arguments _ _ _ _ _ = _ |- _ => apply pop_arguments_sub in Hp as -> end.
  reflect_bools.
  destruct (drop _ _) as [|dummy st'] eqn:Ed; [done|].
  assert (Forall elt_ok st').
  { assert (Forall elt_ok (dummy :: st')) as H' by (rewrite <- Ed; by apply Forall_drop).
    by apply Forall_cons in H' as [_ ?]. }
  guard_in H. destruct (op_eqb _ _); ok_inv; constructor; simpl; elts; lia.
Qed.

Lemma exec_pick_roll_limits m op s s' :
  Forall elt_ok (stack s) → Forall elt_ok (altstack s) →
  0 <= nOpCount s <= MAX_OPS_PER_SCRIPT →
  exec_pick_roll m op s = Ok s' → step_ok op s s'.
Proof.
  intros Hst Halt Hops H. unfold exec_pick_roll in H. cbv zeta in H.
  destruct (stack s) as [|top [|x st]]; [done..|].
  apply rbind_Ok in H as (? & ? & H). guard_in H. apply rbind_Ok in H as (v & Hv & H).
  injection H as <-. apply Forall_cons in Hst as [_ Hst].
  constructor; [|simpl; try done; lia..]. cbn [stack with_stack].
  destruct (op_eqb op OP_ROLL); [exact (stacktop_roll _ _ _ Hst Hv _)|].
  apply Forall_cons; split; [exact (stacktop_elt_ok _ _ _ Hst Hv)|done].
Qed.

Lemma exec_unary_limits m op s s' :
  Forall elt_ok (stack s) → Forall elt_ok (altstack s) →
  0 <= nOpCount s <= MAX_OPS_PER_SCRIPT →
  exec_unary m op s = Ok s' → step_ok op s s'.
Proof.
  intros Hst Halt Hops H. unfold exec_unary in H. destruct (stack s) as [|top st]; [done|].
  apply rbind_Ok in H as (a & Ha & H). apply rbind_Ok in H as (r & Hr & H). ok_inv.
  constructor; simpl; elts; [|lia..].
  eapply num4_range in Ha; [|done]. pose proof (unary_op_range _ _ _ Ha Hr).
  apply serialize_elt_ok. lia.
Qed.

Lemma exec_binary_limits m op s s' :
  Forall elt_ok (stack s) → Forall elt_ok (altstack s) →
  0 <= nOpCount s <= MAX_OPS_PER_SCRIPT →
  exec_binary m op s = Ok s' → step_ok op s s'.
Proof.
  intros Hst Halt Hops H. unfold exec_binary in H. cbv zeta in H.
  destruct (stack s) as [|top [|v st]]; [done..|].
  do 3 (apply rbind_Ok in H as (? & ? & H)). elts.
  assert (elt_ok (CScriptNum.serialize x1)).
  { apply serialize_elt_ok. pose proof (binary_op_range op x x0 x1).
    pose proof (num4_range m v x). pose proof (num4_range m top x0). intuition lia. }
  ok_inv; constructor; simpl; elts; lia.
Qed.

Lemma exec_hash_limits op s s' :
  Forall elt_ok (stack s) → Forall elt_ok (altstack s) →
  0 <= nOpCount s <= MAX_OPS_PER_SCRIPT →
  exec_hash h op s = Ok s' → step_ok op s s'.
Proof.
  intros Hst Halt Hops H. unfold exec_hash in H. ok_inv.
  constructor; simpl; elts; lia.
Qed.

Lemma exec_op_limits m fExec pc op s s' :
  Forall elt_ok (stack s) → Forall elt_ok (altstack s) →
  0 <= nOpCount s <= MAX_OPS_PER_SCRIPT → stack_size (stack s) <= MAX_STACK_SIZE →
  exec_op h c flags sv m fExec pc op s = Ok s' → step_ok op s s'.
Proof.
  intros Hst Halt Hops Hsz H.
  destruct op; simpl in H; try discriminate H;
    try (by eapply exec_checkmultisig_limits; eauto; lia);
    try (by eapply exec_pick_roll_limits); try (by eapply exec_unary_limits);
    try (by eapply exec_binary_limits); try (by eapply exec_hash_limits).
  all: unfold exec_push_number, exec_iscoinstake, exec_if, exec_else, exec_endif, exec_verify,
    exec_stack_1, exec_stack_2, exec_stack_3, exec_equal, exec_within, exec_checksig, exec_upgradable_nop,
    exec_checklocktimeverify, exec_checksequenceverify in H; cbn in H; ok_inv.
  all: try match goal with H : vfExec _ = _ |- _ => constructor; simpl; rewrite ?H; simpl end.
  all: try done; try lia.
  all: try destruct (CastToBool _).
  all: constructor; simpl; unfold op_lt; simpl; try lia; elts.
  all: try (apply serialize_elt_ok; unfold stack_size, MAX_STACK_SIZE in *; lia).
  - apply serialize_elt_ok. destruct H. unfold MAX_SCRIPT_ELEMENT_SIZE in *.
    pose proof (size_nonneg l). lia.
  - apply serialize_elt_ok. by destruct (IsCoinStake c).
Qed.

Lemma dispatch_limits m fExec d s s' :
  elt_ok (d_vch d) → Forall elt_ok (stack s) → Forall elt_ok (altstack s) →
  0 <= nOpCount s <= MAX_OPS_PER_SCRIPT → stack_size (stack s) <= MAX_STACK_SIZE →
  dispatch h c flags sv m fExec d s = Ok s' → step_ok (d_opcode d) s s'.
Proof.
  intros Hd Hst Halt Hops Hsz H. unfold dispatch in H. cbv zeta in H.
  destruct (fExec && _ && _).
  { ok_inv; constructor; simpl; elts; lia. }
  destruct (_ || _); [by eapply exec_op_limits|]. ok_inv. constructor; try done; lia.
Qed.

Lemma eval_step_limits pc s pc' s' :
  bytes_ok pc → within_limits s → eval_step h c flags sv pc s = Ok (pc', s') →
  within_limits s' ∧ bytes_ok pc'.
Proof.
  intros Hpc [Hst Halt Hsz Hops Hvf] H. unfold eval_step in H. cbv zeta in H.
  guard_in H. destruct (Z.ltb_spec MAX_SCRIPT_ELEMENT_SIZE (size (d_vch (GetScriptOp pc))))
    as [|Hpush]; [done|].
  destruct (GetScriptOp_bytes pc Hpc) as [Hv Hpc'].
  guard_in H. do 2 guard_in H. apply rbind_Ok in H as (s1 & Hs1 & H).
  destruct (Z.ltb_spec MAX_STACK_SIZE (stack_size (stack s1) + stack_size (altstack s1)))
    as [|Hsize]; [done|]. ok_inv. split; [|done].
  apply dispatch_limits in Hs1 as [Hst1 Halt1 Hops1 Hvf1]; [|split; [done|lia]|..].
  all: destruct (op_lt OP_16 (d_opcode (GetScriptOp pc))); simpl in *; reflect_bools; try done.
  1,2: constructor; try done; lia.
  all: unfold stack_size in *; lia.
Qed.
End Limits.

(** The states the loop of [EvalScript] goes through. *)
Inductive reachable (h : crypto) (c : checker) (flags : Z) (sv : SigVersion)
    (script : bytes) (st : list bytes) : bytes → state → Prop :=
  | reachable_init : reachable h c flags sv script st script (initial_state st script)
  | reachable_step pc s pc' s' :
      reachable h c flags sv script st pc s → pc ≠ [] →
      eval_step h c flags sv pc s = Ok (pc', s') →
      reachable h c flags sv script st pc' s'.

Lemma reachable_limits h `{!CryptoOk h} c flags sv script st pc s :
  bytes_ok script → Forall elt_ok st → stack_size st <= MAX_STACK_SIZE →
  reachable h c flags sv script st pc s → within_limits s ∧ bytes_ok pc.
Proof.
  intros Hscript Hst Hsz H. induction H as [|pc s pc' s' _ [IH1 IH2] Hne H].
  - split; [|done]. constructor; simpl; try done.
    + unfold stack_size in *. simpl. lia.
  - by eapply eval_step_limits.
Qed.

Lemma eval_loop_reachable h c flags sv script st fuel pc s s' :
  reachable h c flags sv script st pc s →
  eval_loop fuel h c flags sv pc s = Ok s' → reachable h c flags sv script st [] s'.
Proof.
  revert pc s. induction fuel as [|f IH]; intros pc s Hr H; simpl in H.
  - destruct pc; [|done]. by injection H as <-.
  - destruct pc as [|b pc]; [by injection H as <-|].
    apply rbind_Ok in H as ([pc1 s1] & H1 & H). eapply IH; [|exact H].
    by eapply reachable_step.
Qed.

(** ** Evaluation returns *)

(** The evaluation returns: with a result or with a script error. *)
Definition returns {A} (m : result script_fail A) : Prop :=
  match m with
  | Err AssertFail | Err OutOfFuel => False
  | _ => True
  end.

Lemma returns_bind {A B} (m : result script_fail A) (k : A → result script_fail B) :
  returns m → (∀ a, m = Ok a → returns (k a)) → returns (rbind m k).
Proof. destruct m as [a|[]]; simpl; auto. Qed.

Create HintDb returns_db discriminated.

(** Follows the structure of a piece of code down to its calls. *)
Ltac returns_step :=
  match goal with
  | |- True => exact I
  | |- returns (Ok _) => exact I
  | |- returns (Err (ScriptErr _)) => exact I
  | |- returns (rbind _ _) => apply returns_bind; [|intros ? ?]
  | |- returns (if ?b then _ else _) => destruct b eqn:?
  | |- returns (match ?x with _ => _ end) => destruct x eqn:?
  | |- returns _ => solve [eauto with returns_db]
  end.
Ltac returns_tac := repeat (returns_step; cbv beta zeta).

Lemma num_returns m k v : returns (num m k v).
Proof. unfold num. returns_tac. Qed.
Lemma stacktop_returns st i : returns (stacktop st i).
Proof. unfold stacktop. returns_tac. Qed.
Lemma popstack_returns st : returns (popstack st).
Proof. unfold popstack. returns_tac. Qed.
Lemma CheckSignatureEncoding_returns h v flags : returns (CheckSignatureEncoding h v flags).
Proof. unfold CheckSignatureEncoding, IsLowDERSignature. returns_tac. Qed.
Lemma CheckPubKeyEncoding_returns v flags sv : returns (CheckPubKeyEncoding v flags sv).
Proof. unfold CheckPubKeyEncoding. returns_tac. Qed.
Lemma delete_signature_returns flags sv code v : returns (delete_signature flags sv code v).
Proof. unfold delete_signature. returns_tac. Qed.
#[export] Hint Resolve num_returns stacktop_returns popstack_returns
  CheckSignatureEncoding_returns CheckPubKeyEncoding_returns delete_signature_returns
  : returns_db.

Lemma delete_signatures_returns flags sv st i n code :
  returns (delete_signatures flags sv st i n code).
Proof. revert i code. induction n as [|n IH]; intros i code; simpl; returns_tac. Qed.

Lemma pop_arguments_returns flags ok n ikey2 st : returns (pop_arguments flags ok n ikey2 st).
Proof. revert ikey2 st. induction n as [|n IH]; intros ikey2 st; simpl; returns_tac. Qed.

(** Every turn of the signature loop uses up a key. *)
Lemma check_signatures_returns fuel h c flags sv code st isig ikey ns nk :
  ns <= nk → nk <= Z.of_nat fuel →
  returns (check_signatures fuel h c flags sv code st isig ikey ns nk).
Proof.
  revert isig ikey ns nk. induction fuel as [|f IH]; intros isig ikey ns nk Hle Hf; simpl.
  - destruct (Z.ltb_spec 0 ns); [lia|done].
  - destruct (Z.ltb_spec 0 ns); [|done].
    do 4 (apply returns_bind; [eauto with returns_db|intros ? ?]). cbv zeta.
    destruct (CheckSig _ _ _ _ _).
    + destruct (Z.ltb_spec (nk - 1) (ns - 1)); [done|]. apply IH; lia.
    + destruct (Z.ltb_spec (nk - 1) ns); [done|]. apply IH; lia.
Qed.
#[export] Hint Resolve delete_signatures_returns pop_arguments_returns : returns_db.

Lemma exec_checkmultisig_returns h c flags sv m op s :
  returns (exec_checkmultisig h c flags sv m op s).
Proof.
  unfold exec_checkmultisig. cbv zeta. returns_tac. apply check_signatures_returns;
    reflect_bools; lia.
Qed.

Lemma unary_op_returns op bn :
  Z.abs bn < 2 ^ 31 → 
  op ∈ [OP_1ADD; OP_1SUB; OP_NEGATE; OP_ABS; OP_NOT; OP_0NOTEQUAL] → returns (unary_op op bn).
Proof.
  intros Hb Hop. unfold unary_op, num_add_assign, num_sub_assign, num_neg.
  repeat (apply elem_of_cons in Hop as [->|Hop]; [bool_cases; try done; try lia|]).
  - destruct (_ || _) eqn:E; [done|]. reflect_bools. lia.
  - destruct (_ || _) eqn:E; [done|]. reflect_bools. lia.
  - by apply elem_of_nil in Hop.
Qed.

Lemma exec_op_returns h c flags sv m fExec pc op s :
  Forall elt_ok (stack s) → returns (exec_op h c flags sv m fExec pc op s).
Proof.
  intros Hst.
  assert (Hu : op ∈ [OP_1ADD; OP_1SUB; OP_NEGATE; OP_ABS; OP_NOT; OP_0NOTEQUAL] →
               returns (exec_unary m op s)).
  { intros Hop. unfold exec_unary. destruct (stack s) as [|top st]; [done|].
    apply Forall_cons in Hst as [Ht _]. apply returns_bind; [eauto with returns_db|].
    intros bn Hbn. apply returns_bind; [|done]. apply unary_op_returns; [|done].
    by eapply num4_range. }
  destruct op; simpl; try exact I; try apply exec_checkmultisig_returns.
  all: try (apply Hu; clear; set_solver).
  all: clear Hu; unfold exec_push_number, exec_iscoinstake, exec_if, exec_else, exec_endif,
    exec_verify, exec_stack_1, exec_stack_2, exec_stack_3, exec_pick_roll, exec_equal,
    exec_binary, binary_op, exec_within, exec_hash, exec_checksig, exec_upgradable_nop,
    exec_checklocktimeverify, exec_checksequenceverify; returns_tac.
Qed.

Lemma dispatch_returns h c flags sv m fExec d s :
  Forall elt_ok (stack s) → returns (dispatch h c flags sv m fExec d s).
Proof.
  intros Hst. unfold dispatch, CheckMinimalPush. cbv zeta.
  destruct (fExec && (0 <=? _) && _) eqn:E.
  - apply andb_true_iff in E as [[_ E0]%andb_true_iff E1]. rewrite E0, E1. simpl. returns_tac.
  - destruct (_ || _); [by apply exec_op_returns|done].
Qed.

Lemma eval_step_returns h c flags sv pc s :
  Forall elt_ok (stack s) → returns (eval_step h c flags sv pc s).
Proof.
  intros Hst. unfold eval_step. cbv zeta. returns_tac. apply dispatch_returns.
  by destruct (op_lt _ _).
Qed.

Lemma eval_step_progress h c flags sv pc s pc' s' :
  pc ≠ [] → eval_step h c flags sv pc s = Ok (pc', s') → (length pc' < length pc)%nat.
Proof.
  intros Hne H. unfold eval_step in H. cbv zeta in H. do 5 guard_in H.
  apply rbind_Ok in H as (? & _ & H). guard_in H. ok_inv. by apply GetScriptOp_progress.
Qed.

Lemma eval_loop_returns h `{!CryptoOk h} c flags sv fuel pc s :
  (length pc <= fuel)%nat → bytes_ok pc → within_limits s →
  returns (eval_loop fuel h c flags sv pc s).
Proof.
  revert pc s. induction fuel as [|f IH]; intros pc s Hf Hpc Hs; simpl.
  - destruct pc; [done|]. simpl in Hf. lia.
  - destruct (decide (pc = [])) as [->|Hne]; [done|].
    replace (match pc with [] => Ok s | _ :: _ => _ end) with
      (let! (pc, s) := eval_step h c flags sv pc s in eval_loop f h c flags sv pc s)
      by by destruct pc.
    apply returns_bind; [apply eval_step_returns, Hs|]. intros [pc' s'] H.
    destruct (eval_step_limits h c flags sv pc s pc' s' Hpc Hs H).
    pose proof (eval_step_progress h c flags sv pc s pc' s' Hne H).
    apply IH; [lia|done..].
Qed.

Lemma EvalScript_returns h `{!CryptoOk h} st script flags c sv :
  bytes_ok script → Forall elt_ok st → stack_size st <= MAX_STACK_SIZE →
  returns (EvalScript h st script flags c sv).
Proof.
  intros Hscript Hst Hsz. unfold EvalScript. destruct (_ <? _); [done|].
  apply returns_bind; [|intros s _; by destruct (vfExec s)].
  apply eval_loop_returns; try done.
  eapply (reachable_limits h c flags sv script st); try done. constructor.
Qed.

(** What a successful evaluation leaves within the limits. *)
Lemma EvalScript_limits h `{!CryptoOk h} st script flags c sv st' :
  bytes_ok script → Forall elt_ok st → stack_size st <= MAX_STACK_SIZE →
  EvalScript h st script flags c sv = Ok st' →
  Forall elt_ok st' ∧ stack_size st' <= MAX_STACK_SIZE.
Proof.
  intros Hscript Hst Hsz H. unfold EvalScript in H. guard_in H.
  apply rbind_Ok in H as (s & Hs & H).
  eapply eval_loop_reachable in Hs; [|apply (reachable_init _ _ _ _ _ st)].
  destruct (reachable_limits h c flags sv script st [] s Hscript Hst Hsz Hs)
    as [[Hst' _ Hsz' _ _] _].
  destruct (vfExec s); [|done]. injection H as <-. split; [done|].
  unfold stack_size in *. lia.
Qed.

(** ** Properties *)

(** Digests that pad or cut their argument: they have the right lengths. *)
Definition toy_crypto : crypto :=
  let pad n v := map u8 (take n (v ++ replicate n 0)) in
  Crypto (pad 32%nat) (pad 20%nat) (pad 20%nat) (λ _, true).

Lemma pad_ok n v :
  bytes_ok (map u8 (take n (v ++ replicate n 0)))
  ∧ size (map u8 (take n (v ++ replicate n 0))) = Z.of_nat n.
Proof.
  split.
  - apply Forall_fmap, Forall_true. intros x. apply u8_range.
  - unfold size. rewrite length_map, length_take, length_app, length_replicate. lia.
Qed.

#[global] Instance toy_crypto_ok : CryptoOk toy_crypto.
Proof. split; intros v; apply pad_ok. Qed.

(** C34: resource limits.  In every state the loop of [EvalScript] reaches, from a
    stack within the limits, the main and alternate stacks hold at most
    [MAX_STACK_SIZE] elements of at most [MAX_SCRIPT_ELEMENT_SIZE] bytes, the
    operation count is at most [MAX_OPS_PER_SCRIPT], and open conditionals are
    bounded by it. *)
Theorem eval_resource_limits (h : crypto) (c : checker) (flags : Z) (sv : SigVersion)
    (script : bytes) (st : list bytes) (pc : bytes) (s : state) :
  CryptoOk h → bytes_ok script → Forall elt_ok st → stack_size st <= MAX_STACK_SIZE →
  reachable h c flags sv script st pc s → within_limits s.
Proof. intros Hh Hscript Hst Hsz Hr. by eapply reachable_limits in Hr as [? _]. Qed.

Lemma eval_resource_limits_witness :
  within_limits (State [[2]; [1]] [] [] 0 [opcode_byte OP_1; opcode_byte OP_2]).
Proof.
  eapply (eval_resource_limits toy_crypto BaseSignatureChecker 0 BASE
    [opcode_byte OP_1; opcode_byte OP_2] [] []).
  - apply _.
  - by_eval.
  - by_eval.
  - by_eval.
  - set (script := [opcode_byte OP_1; opcode_byte OP_2]).
    apply (reachable_step _ _ _ _ _ _ [opcode_byte OP_2] (State [[1]] [] [] 0 script));
      [|discriminate|reflexivity].
    apply (reachable_step _ _ _ _ _ _ script (initial_state [] script));
      [|discriminate|reflexivity]. apply reachable_init.
Defined.

(** C35: [EvalScript] always returns: whatever the script, it neither trips an
    assertion nor exceeds the bounds of its loops. *)
Theorem EvalScript_total (h : crypto) (st : list bytes) (script : bytes) (flags : Z)
    (c : checker) (sv : SigVersion) :
  CryptoOk h → bytes_ok script → Forall elt_ok st → stack_size st <= MAX_STACK_SIZE →
  (∃ st', EvalScript h st script flags c sv = Ok st' ∧ Forall elt_ok st') ∨
  (∃ e, EvalScript h st script flags c sv = Err (ScriptErr e)).
Proof.
  intros Hh Hscript Hst Hsz. pose proof (EvalScript_returns h st script flags c sv) as Hr.
  destruct (EvalScript h st script flags c sv) as [st'|[e| |]] eqn:E.
  - left. exists st'. split; [done|]. by eapply EvalScript_limits in E as [? _].
  - right. by exists e.
  - by destruct Hr.
  - by destruct Hr.
Qed.

Lemma EvalScript_total_witness :
  (∃ st', EvalScript toy_crypto [] (map opcode_byte [OP_2; OP_3; OP_ADD]) 0
            BaseSignatureChecker BASE = Ok st' ∧ Forall elt_ok st') ∨
  (∃ e, EvalScript toy_crypto [] (map opcode_byte [OP_2; OP_3; OP_ADD]) 0
          BaseSignatureChecker BASE = Err (ScriptErr e)).
Proof.
  apply (EvalScript_total toy_crypto []).
  - apply _.
  - by_eval.
  - by_eval.
  - by_eval.
Defined.
