(* ===== verification/Spending.v ===== *)
(** Spending standard outputs: scripts of known shape run symbolically, for every
    hash, key and signature. *)
From S2P Require Import Prelude Serialize Script Interpreter SoftFork EvalLimits.

(** ** Running scripts symbolically *)

Lemma eval_loop_nonempty f h c flags sv pc s :
  pc ≠ [] →
  eval_loop (S f) h c flags sv pc s =
  let! (pc, s) := eval_step h c flags sv pc s in eval_loop f h c flags sv pc s.
Proof. by destruct pc. Qed.

(** The result does not depend on the bound, once it is long enough. *)
Lemma eval_loop_enough h c flags sv f1 f2 pc s :
  (length pc <= f1)%nat → (length pc <= f2)%nat →
  eval_loop f1 h c flags sv pc s = eval_loop f2 h c flags sv pc s.
Proof.
  revert f2 pc s. induction f1 as [|f1 IH]; intros f2 pc s H1 H2.
  { destruct pc; [by destruct f2|simpl in H1; lia]. }
  destruct (decide (pc = [])) as [->|Hne]; [by destruct f2|].
  destruct f2 as [|f2]; [destruct pc; [done|simpl in H2; lia]|].
  rewrite !eval_loop_nonempty by done.
  destruct (eval_step h c flags sv pc s) as [[pc' s']|] eqn:E; [|done]. simpl.
  pose proof (eval_step_progress _ _ _ _ _ _ _ _ Hne E). apply IH; lia.
Qed.

Section Run.
Context (h : crypto) (c : checker) (flags : Z) (sv : SigVersion).

Definition run (pc : bytes) (s : state) : result script_fail state :=
  eval_loop (length pc) h c flags sv pc s.

Lemma run_nil s : run [] s = Ok s.
Proof. done. Qed.

Lemma run_step pc s :
  pc ≠ [] → run pc s = let! (pc, s) := eval_step h c flags sv pc s in run pc s.
Proof.
  intros Hne. unfold run. destruct pc as [|b pc1] eqn:E; [done|]. rewrite <- E in *.
  replace (length pc) with (S (length pc1)) by by rewrite E.
  rewrite eval_loop_nonempty by done.
  destruct (eval_step h c flags sv pc s) as [[pc' s']|] eqn:E'; [|done]. simpl.
  apply eval_step_progress in E'; [|done]. apply eval_loop_enough; [|done].
  rewrite E in E'. simpl in E'. lia.
Qed.
End Run.

Lemma EvalScript_run h st script flags c sv :
  size script <= MAX_SCRIPT_SIZE →
  EvalScript h st script flags c sv =
  let! s := run h c flags sv script (initial_state st script) in
  match vfExec s with [] => Ok (stack s) | _ => fail SCRIPT_ERR_UNBALANCED_CONDITIONAL end.
Proof. intros H. unfold EvalScript. destruct (Z.ltb_spec MAX_SCRIPT_SIZE (size script)); [lia|done]. Qed.

Lemma GetScriptOp_opcode b pc :
  opcode_byte OP_PUSHDATA4 < b → GetScriptOp (b :: pc) = Decoded true (opcode_of_byte b) [] pc.
Proof. intros Hb. unfold GetScriptOp. destruct (Z.leb_spec b (opcode_byte OP_PUSHDATA4)); [lia|done]. Qed.

Lemma GetScriptOp_direct b v pc :
  b < opcode_byte OP_PUSHDATA1 → size v = b →
  GetScriptOp (b :: v ++ pc) = Decoded true (opcode_of_byte b) v pc.
Proof.
  intros Hb Hv. unfold GetScriptOp. simpl in Hb.
  destruct (Z.leb_spec b (opcode_byte OP_PUSHDATA4)) as [|H4]; [|simpl in H4; lia].
  destruct (Z.ltb_spec b (opcode_byte OP_PUSHDATA1)) as [|H1]; [|simpl in H1; lia].
  destruct (Z.ltb_spec (size (v ++ pc)) b) as [Hs|_].
  { rewrite size_app in Hs. pose proof (size_nonneg pc). lia. }
  unfold size in Hv. rewrite <- Hv, Nat2Z.id. by rewrite take_app_length, drop_app_length.
Qed.

(** A push of 20 or 32 bytes is minimal. *)
Lemma CheckMinimalPush_direct b v :
  1 < b <= 75 → size v = b → CheckMinimalPush v (opcode_of_byte b) = Some true.
Proof.
  intros Hb Hv. unfold CheckMinimalPush, op_le, op_eqb. rewrite opcode_byte_of_byte, Hv. simpl.
  destruct (Z.leb_spec 0 b), (Z.leb_spec b 78); try lia. simpl.
  destruct (Z.eqb_spec b 0); [lia|]. destruct (Z.eqb_spec b 1); [lia|]. simpl.
  destruct (Z.leb_spec b 75); [|lia]. by rewrite Z.eqb_refl.
Qed.

(** One instruction, by its bytes: an opcode byte above the pushes. *)
Lemma run_opcode h c flags sv b pc s :
  opcode_byte OP_PUSHDATA4 < b →
  run h c flags sv (b :: pc) s =
  let opcode := opcode_of_byte b in
  let s := if op_lt OP_16 opcode then with_nOpCount s (nOpCount s + 1) else s in
  if op_lt OP_16 opcode && (MAX_OPS_PER_SCRIPT <? nOpCount s) then fail SCRIPT_ERR_OP_COUNT
  else if is_disabled opcode then fail SCRIPT_ERR_DISABLED_OPCODE
  else if op_eqb opcode OP_CODESEPARATOR && is_base sv && has flags SCRIPT_VERIFY_CONST_SCRIPTCODE
  then fail SCRIPT_ERR_OP_CODESEPARATOR
  else
    let! s := dispatch h c flags sv (has flags SCRIPT_VERIFY_MINIMALDATA)
                (forallb id (vfExec s)) (Decoded true opcode [] pc) s in
    if MAX_STACK_SIZE <? stack_size (stack s) + stack_size (altstack s)
    then fail SCRIPT_ERR_STACK_SIZE
    else run h c flags sv pc s.
Proof.
  intros Hb. rewrite run_step by done. unfold eval_step. rewrite GetScriptOp_opcode by done.
  cbn [d_ok d_vch d_opcode d_pc negb]. cbv zeta. change (MAX_SCRIPT_ELEMENT_SIZE <? size []) with false.
  replace (vfExec (if op_lt OP_16 (opcode_of_byte b) then with_nOpCount s (nOpCount s + 1) else s))
    with (vfExec s) by by destruct (op_lt _ _).
  repeat (destruct (_ && _); [done|]). destruct (is_disabled _); [done|].
  destruct (_ && _); [done|]. destruct (dispatch _ _ _ _ _ _ _ _) as [s'|]; [|done]. simpl.
  by destruct (_ <? _).
Qed.

Lemma is_disabled_byte op : is_disabled op = true → opcode_byte OP_16 < opcode_byte op.
Proof. by destruct op. Qed.

(** A direct push of [v]. *)
Lemma run_push h c flags sv b v pc s :
  1 < b <= 75 → size v = b →
  run h c flags sv (b :: v ++ pc) s =
  let s := if forallb id (vfExec s) then push s v else s in
  if MAX_STACK_SIZE <? stack_size (stack s) + stack_size (altstack s)
  then fail SCRIPT_ERR_STACK_SIZE
  else run h c flags sv pc s.
Proof.
  intros Hb Hv. rewrite run_step by done. unfold eval_step.
  rewrite GetScriptOp_direct by (try done; simpl; lia).
  cbn [d_ok d_vch d_opcode d_pc negb]. cbv zeta. rewrite Hv.
  destruct (Z.ltb_spec MAX_SCRIPT_ELEMENT_SIZE b) as [Hl|_]; [unfold MAX_SCRIPT_ELEMENT_SIZE in Hl; lia|].
  assert (op_lt OP_16 (opcode_of_byte b) = false) as ->.
  { unfold op_lt. rewrite opcode_byte_of_byte. simpl. apply Z.ltb_ge. lia. }
  destruct (is_disabled (opcode_of_byte b)) eqn:Ed.
  { apply is_disabled_byte in Ed. rewrite opcode_byte_of_byte in Ed. simpl in Ed. lia. }
  assert (op_eqb (opcode_of_byte b) OP_CODESEPARATOR = false) as ->.
  { unfold op_eqb. rewrite opcode_byte_of_byte. simpl. apply Z.eqb_neq. lia. }
  assert (Hpush : dispatch h c flags sv (has flags SCRIPT_VERIFY_MINIMALDATA)
            (forallb id (vfExec s)) (Decoded true (opcode_of_byte b) v pc) s =
          Ok (if forallb id (vfExec s) then push s v else s)).
  { unfold dispatch. cbn [d_opcode d_vch]. rewrite CheckMinimalPush_direct by done.
    unfold op_le. rewrite opcode_byte_of_byte. simpl.
    destruct (Z.leb_spec 0 b), (Z.leb_spec b 78), (Z.leb_spec 99 b); try lia.
    destruct (forallb id (vfExec s)); simpl; [by destruct (has _ _)|done]. }
  simpl. rewrite Hpush. simpl. by destruct (_ <? _).
Qed.

(** ** Standard scripts *)

Definition ops (l : list opcodetype) : bytes := map opcode_byte l.

(** Pay to the hash of a public key, of 160 and 256 bits. *)
Definition p2pkh_script (hash : bytes) : bytes :=
  ops [OP_DUP; OP_HASH160] ++ push_data hash ++ ops [OP_EQUALVERIFY; OP_CHECKSIG].
Definition p2pkh256_script (hash : bytes) : bytes :=
  ops [OP_DUP; OP_SHA256] ++ push_data hash ++ ops [OP_EQUALVERIFY; OP_CHECKSIG].

(** A cold-staking output: [stake] is checked in a coinstake transaction,
    [spend] everywhere else. *)
Definition coldstake_script (stake spend : bytes) : bytes :=
  ops [OP_ISCOINSTAKE; OP_IF] ++ stake ++ ops [OP_ELSE] ++ spend ++ ops [OP_ENDIF].

Lemma push_data_short hash k :
  size hash = k → k <= 75 → push_data hash = k :: hash.
Proof.
  intros Hs Hk. unfold push_data. rewrite Hs. pose proof (size_nonneg hash).
  destruct (Z.ltb_spec k (opcode_byte OP_PUSHDATA1)) as [|H1]; [|simpl in H1; lia].
  by rewrite u8_small by (widths; lia).
Qed.

(** The outcome of a signature check on [sig] and [pub] against the script code
    [code]: whether the signature is good, or the error. *)
Definition sig_check (h : crypto) (c : checker) (flags : Z) (sv : SigVersion)
    (code sig pub : bytes) : result script_fail bool :=
  let! code := delete_signature flags sv code sig in
  let! _ := CheckSignatureEncoding h sig flags in
  let! _ := CheckPubKeyEncoding pub flags sv in
  let ok := CheckSig c sig pub code sv in
  if negb ok && has flags SCRIPT_VERIFY_NULLFAIL && negb (size sig =? 0)
  then fail SCRIPT_ERR_SIG_NULLFAIL else Ok ok.

(** The signature is deleted as a push of it, as [CScript(vchSig)] encodes it: its bytes
    alone are not, and an empty signature deletes [OP_0]. *)
Example delete_signature_pushes :
  delete_signature 0 BASE (push_data [7; 8] ++ ops [OP_CHECKSIG]) [7; 8] = Ok (ops [OP_CHECKSIG]) ∧
  delete_signature SCRIPT_VERIFY_CONST_SCRIPTCODE BASE (ops [OP_DUP; OP_CHECKSIG]) [opcode_byte OP_DUP]
    = Ok (ops [OP_DUP; OP_CHECKSIG]) ∧
  delete_signature 0 BASE (ops [OP_0; OP_CHECKSIG]) [] = Ok (ops [OP_CHECKSIG]).
Proof. split_and!; vm_compute; reflexivity. Qed.

Lemma exec_checksig_eq h c flags sv s pub sig st :
  stack s = pub :: sig :: st →
  exec_checksig h c flags sv OP_CHECKSIG s =
  let! ok := sig_check h c flags sv (pbegincodehash s) sig pub in
  Ok (with_stack s (vch_of_bool ok :: st)).
Proof.
  intros Hst. unfold exec_checksig, sig_check. rewrite Hst.
  destruct (delete_signature _ _ _ _); [|done]. simpl.
  destruct (CheckSignatureEncoding _ _ _); [|done]. simpl.
  destruct (CheckPubKeyEncoding _ _ _); [|done]. simpl. by destruct (_ && _).
Qed.

Section Segments.
Context (h : crypto) (c : checker) (flags : Z) (sv : SigVersion).
Local Abbreviation run := (run h c flags sv).

(** An opcode that counts towards the limit, is not disabled and is not
    [OP_CODESEPARATOR]. *)
Definition plain_op (b : Z) : bool :=
  (opcode_byte OP_16 <? b) && negb (is_disabled (opcode_of_byte b))
  && negb (b =? opcode_byte OP_CODESEPARATOR).

Lemma run_plain_op b pc st alt vf n code :
  plain_op b = true → n < 200 →
  run (b :: pc) (State st alt vf n code) =
  let! s' :=
    if forallb id vf || ((opcode_byte OP_IF <=? b) && (b <=? opcode_byte OP_ENDIF))
    then exec_op h c flags sv (has flags SCRIPT_VERIFY_MINIMALDATA) (forallb id vf) pc
           (opcode_of_byte b) (State st alt vf (n + 1) code)
    else Ok (State st alt vf (n + 1) code) in
  if MAX_STACK_SIZE <? stack_size (stack s') + stack_size (altstack s')
  then fail SCRIPT_ERR_STACK_SIZE else run pc s'.
Proof.
  unfold plain_op. intros Hp Hn. apply andb_true_iff in Hp as [[Hb Hd]%andb_true_iff Hcs].
  reflect_bools. rewrite run_opcode by (simpl in *; lia).
  cbv zeta. assert (op_lt OP_16 (opcode_of_byte b) = true) as ->.
  { unfold op_lt. rewrite opcode_byte_of_byte. by apply Z.ltb_lt. }
  unfold with_nOpCount. cbn [andb nOpCount vfExec stack altstack pbegincodehash].
  destruct (Z.ltb_spec MAX_OPS_PER_SCRIPT (n + 1)) as [Ho|_]; [unfold MAX_OPS_PER_SCRIPT in Ho; lia|].
  rewrite Hd. assert (op_eqb (opcode_of_byte b) OP_CODESEPARATOR = false) as ->.
  { unfold op_eqb. rewrite opcode_byte_of_byte. by apply Z.eqb_neq. }
  cbn [andb]. unfold dispatch, op_le. cbn [d_opcode d_pc d_vch]. rewrite opcode_byte_of_byte.
  destruct (Z.leb_spec b (opcode_byte OP_PUSHDATA4)) as [H4|_]; [simpl in *; lia|].
  by rewrite andb_false_r.
Qed.

(** Where nothing is executed, an opcode that is not a conditional only
    counts. *)
Lemma run_skip_op b pc st alt vf n code :
  plain_op b = true → (opcode_byte OP_IF <=? b) && (b <=? opcode_byte OP_ENDIF) = false →
  n < 200 → forallb id vf = false → stack_size st + stack_size alt <= MAX_STACK_SIZE →
  run (b :: pc) (State st alt vf n code) = run pc (State st alt vf (n + 1) code).
Proof.
  intros Hp Hif Hn Hvf Hst. rewrite run_plain_op, Hvf, Hif by done. cbn [orb rbind stack altstack].
  destruct (Z.ltb_spec MAX_STACK_SIZE (stack_size st + stack_size alt)); [lia|done].
Qed.

Lemma run_skip_push b v pc st alt vf n code :
  forallb id vf = false → stack_size st + stack_size alt <= MAX_STACK_SIZE →
  1 < b <= 75 → size v = b →
  run (b :: v ++ pc) (State st alt vf n code) = run pc (State st alt vf n code).
Proof.
  intros Hvf Hst Hb Hv. rewrite run_push by done. cbn [vfExec]. rewrite Hvf. cbn [stack altstack].
  destruct (Z.ltb_spec MAX_STACK_SIZE (stack_size st + stack_size alt)); [lia|done].
Qed.

(** An executed opcode. *)
Lemma run_exec_op b pc st alt vf n code s' :
  plain_op b = true → n < 200 → forallb id vf = true →
  exec_op h c flags sv (has flags SCRIPT_VERIFY_MINIMALDATA) true pc (opcode_of_byte b)
    (State st alt vf (n + 1) code) = Ok s' →
  stack_size (stack s') + stack_size (altstack s') <= MAX_STACK_SIZE →
  run (b :: pc) (State st alt vf n code) = run pc s'.
Proof.
  intros Hp Hn Hvf Hexec Hst. rewrite run_plain_op, Hvf by done. cbn [orb].
  rewrite Hexec. cbn [rbind].
  destruct (Z.ltb_spec MAX_STACK_SIZE (stack_size (stack s') + stack_size (altstack s')));
    [lia|done].
Qed.

Lemma run_exec_fail b pc st alt vf n code e :
  plain_op b = true → n < 200 → forallb id vf = true →
  exec_op h c flags sv (has flags SCRIPT_VERIFY_MINIMALDATA) true pc (opcode_of_byte b)
    (State st alt vf (n + 1) code) = Err e →
  run (b :: pc) (State st alt vf n code) = Err e.
Proof.
  intros Hp Hn Hvf Hexec. rewrite run_plain_op, Hvf by done. cbn [orb]. by rewrite Hexec.
Qed.

(** The four instructions of a P2PKH segment, executed on a signature and a
    public key.  [op_hash] is [OP_HASH160] or [OP_SHA256]. *)
Definition p2pkh_segment (op_hash : opcodetype) (hash : bytes) : bytes :=
  ops [OP_DUP; op_hash] ++ push_data hash ++ ops [OP_EQUALVERIFY; OP_CHECKSIG].

Lemma run_p2pkh_segment op_hash hash rest sig pub st vf n code :
  (op_hash = OP_HASH160 ∨ op_hash = OP_SHA256) → 1 < size hash <= 75 →
  n < 190 → forallb id vf = true → stack_size st <= MAX_STACK_SIZE - 4 →
  run (p2pkh_segment op_hash hash ++ rest) (State (pub :: sig :: st) [] vf n code) =
  if bool_decide (hash_op h op_hash pub = hash) then
    let! ok := sig_check h c flags sv code sig pub in
    run rest (State (vch_of_bool ok :: st) [] vf (n + 4) code)
  else fail SCRIPT_ERR_EQUALVERIFY.
Proof.
  intros Hop Hhash Hn Hvf Hst. unfold p2pkh_segment. rewrite (push_data_short hash _ eq_refl) by lia.
  assert (Hroom : ∀ l, (length l <= 4)%nat → stack_size (l ++ st) + stack_size [] <= MAX_STACK_SIZE).
  { intros l Hl. unfold stack_size in *. rewrite length_app. cbn [length]. lia. }
  cbn [ops map app]. rewrite <- app_assoc.
  rewrite (run_exec_op _ _ _ _ _ _ _ (State (pub :: pub :: sig :: st) [] vf (n + 1) code))
    by first [done|lia|by apply (Hroom [pub; pub; sig]); cbn; lia].
  rewrite (run_exec_op _ _ _ _ _ _ _ (State (hash_op h op_hash pub :: pub :: sig :: st) [] vf (n + 1 + 1) code))
    by first [done|lia|by destruct Hop as [->| ->]|by apply (Hroom [_; pub; sig]); cbn; lia].
  rewrite run_push by done. cbn [vfExec]. rewrite Hvf. unfold push, with_stack.
  cbn [stack altstack vfExec nOpCount pbegincodehash app].
  rewrite (proj2 (Z.ltb_ge MAX_STACK_SIZE _)) by (apply (Hroom [hash; _; pub; sig]); cbn; lia).
  case_bool_decide as Heq.
  - rewrite (run_exec_op _ _ _ _ _ _ _ (State (pub :: sig :: st) [] vf (n + 1 + 1 + 1) code))
      by first [done|lia|unfold exec_op, exec_equal; cbn [opcode_of_byte opcode_byte stack];
          by rewrite bool_decide_true|by apply (Hroom [pub; sig]); cbn; lia].
    rewrite run_plain_op, Hvf by (done || lia). cbn [orb opcode_byte].
    change (opcode_of_byte 172) with OP_CHECKSIG. cbn [exec_op].
    rewrite (exec_checksig_eq _ _ _ _ _ pub sig st) by done. cbn [pbegincodehash].
    destruct (sig_check h c flags sv code sig pub) as [ok|]; [|done].
    unfold with_stack. cbn [rbind stack altstack vfExec nOpCount pbegincodehash].
    rewrite (proj2 (Z.ltb_ge MAX_STACK_SIZE _)) by (apply (Hroom [vch_of_bool ok]); cbn; lia). do 2 f_equal. lia.
  - apply run_exec_fail; [done|lia|done|]. unfold exec_op, exec_equal.
    cbn [opcode_of_byte opcode_byte stack]. by rewrite bool_decide_false.
Qed.

(** The segment on a stack without a signature and a key. *)
Lemma short_p2pkh_segment op_hash hash rest st vf n code :
  (op_hash = OP_HASH160 ∨ op_hash = OP_SHA256) → 1 < size hash <= 75 →
  n < 190 → forallb id vf = true → (length st < 2)%nat →
  ∃ e, run (p2pkh_segment op_hash hash ++ rest) (State st [] vf n code) = Err e.
Proof.
  intros Hop Hhash Hn Hvf Hst. unfold p2pkh_segment. rewrite (push_data_short hash _ eq_refl) by lia.
  cbn [ops map app]. rewrite <- app_assoc. destruct st as [|pub [|? ?]]; [..|cbn in Hst; lia].
  { eexists. by apply run_exec_fail; [done|lia|done|]. }
  rewrite (run_exec_op _ _ _ _ _ _ _ (State [pub; pub] [] vf (n + 1) code)) by (done || lia).
  rewrite (run_exec_op _ _ _ _ _ _ _ (State [hash_op h op_hash pub; pub] [] vf (n + 1 + 1) code))
    by (try done; try lia; by destruct Hop as [->| ->]).
  rewrite run_push by done. cbn [vfExec]. rewrite Hvf. unfold push, with_stack.
  cbn [stack altstack vfExec nOpCount pbegincodehash app]. change (MAX_STACK_SIZE <? _) with false. cbv iota.
  destruct (decide (hash_op h op_hash pub = hash)) as [Heq|Heq].
  - rewrite (run_exec_op _ _ _ _ _ _ _ (State [pub] [] vf (n + 1 + 1 + 1) code))
      by (try done; try lia; unfold exec_op, exec_equal; cbn [opcode_of_byte opcode_byte stack];
          by rewrite bool_decide_true).
    eexists. by apply run_exec_fail; [done|lia|done|].
  - eexists. apply run_exec_fail; [done|lia|done|]. unfold exec_op, exec_equal.
    cbn [opcode_of_byte opcode_byte stack]. by rewrite bool_decide_false.
Qed.

(** The same segment in a branch that is not executed. *)
Lemma skip_p2pkh_segment op_hash hash rest st vf n code :
  (op_hash = OP_HASH160 ∨ op_hash = OP_SHA256) → 1 < size hash <= 75 →
  n < 190 → forallb id vf = false → stack_size st <= MAX_STACK_SIZE →
  run (p2pkh_segment op_hash hash ++ rest) (State st [] vf n code) =
  run rest (State st [] vf (n + 4) code).
Proof.
  intros Hop Hhash Hn Hvf Hst. unfold p2pkh_segment.
  rewrite (push_data_short hash _ eq_refl) by lia.
  assert (stack_size st + stack_size [] <= MAX_STACK_SIZE) by (unfold stack_size in *; simpl; lia).
  cbn [ops map app]. rewrite <- app_assoc.
  rewrite run_skip_op by (done || lia).
  rewrite run_skip_op by (try done; try lia; by destruct Hop as [->| ->]).
  rewrite run_skip_push by done. cbn [app].
  rewrite run_skip_op by (done || lia). rewrite run_skip_op by (done || lia).
  do 2 f_equal. lia.
Qed.
End Segments.

Lemma size_p2pkh_segment op_hash hash :
  1 < size hash <= 75 → size (p2pkh_segment op_hash hash) = size hash + 5.
Proof.
  intros Hs. unfold p2pkh_segment. rewrite (push_data_short hash _ eq_refl) by lia.
  cbn [ops map]. rewrite !size_app. change (hash :: ?x) with ([hash] ++ x).
  unfold size. simpl. lia.
Qed.

(** The head of a cold-staking script, outside segwit: the branch taken is
    decided by the transaction. *)
Lemma run_coldstake_head h c flags rest st code :
  stack_size st < MAX_STACK_SIZE →
  run h c flags BASE (ops [OP_ISCOINSTAKE; OP_IF] ++ rest) (State st [] [] 0 code) =
  run h c flags BASE rest (State st [] [IsCoinStake c] 2 code).
Proof.
  intros Hst. assert (stack_size st + stack_size [] <= MAX_STACK_SIZE)
    by (unfold stack_size in *; simpl; lia).
  cbn [ops map app].
  rewrite (run_exec_op _ _ _ _ _ _ _ _ _ _ _
    (State (CScriptNum.serialize (opcode_byte (if IsCoinStake c then OP_TRUE else OP_FALSE)) :: st)
       [] [] 1 code)); try done.
  - rewrite (run_exec_op _ _ _ _ _ _ _ _ _ _ _ (State st [] [IsCoinStake c] 2 code)); try done.
    cbn [exec_op]. by destruct (IsCoinStake c).
  - unfold stack_size in *. simpl. lia.
Qed.

(** [OP_ELSE] and [OP_ENDIF] flip and close the innermost conditional. *)
Lemma run_else h c flags sv rest st b vf n code :
  n < 200 → stack_size st <= MAX_STACK_SIZE →
  run h c flags sv (ops [OP_ELSE] ++ rest) (State st [] (b :: vf) n code) =
  run h c flags sv rest (State st [] (negb b :: vf) (n + 1) code).
Proof.
  intros Hn Hst. cbn [ops map app]. rewrite run_plain_op by done. rewrite orb_true_r.
  unfold with_vfExec. cbn.
  destruct (Z.ltb_spec MAX_STACK_SIZE (stack_size st + stack_size [])) as [Hl|]; [|done].
  unfold stack_size in *. simpl in Hl. lia.
Qed.

Lemma run_endif h c flags sv rest st b vf n code :
  n < 200 → stack_size st <= MAX_STACK_SIZE →
  run h c flags sv (ops [OP_ENDIF] ++ rest) (State st [] (b :: vf) n code) =
  run h c flags sv rest (State st [] vf (n + 1) code).
Proof.
  intros Hn Hst. cbn [ops map app]. rewrite run_plain_op by done. rewrite orb_true_r.
  unfold with_vfExec. cbn.
  destruct (Z.ltb_spec MAX_STACK_SIZE (stack_size st + stack_size [])) as [Hl|]; [|done].
  unfold stack_size in *. simpl in Hl. lia.
Qed.

(** ** The stack of a script-hash spend *)

Lemma Run_head_fails h c flags op pc :
  op = OP_HASH160 ∨ op = OP_SHA256 → size (opcode_byte op :: pc) <= MAX_SCRIPT_SIZE →
  EvalScript h [] (opcode_byte op :: pc) flags c BASE = fail SCRIPT_ERR_INVALID_STACK_OPERATION.
Proof.
  intros Hop Hsz. rewrite EvalScript_run by done. unfold initial_state.
  rewrite (run_exec_fail _ _ _ _ _ _ _ _ _ _ _
    (ScriptErr SCRIPT_ERR_INVALID_STACK_OPERATION)); try done.
  all: by destruct Hop as [->| ->].
Qed.

(** The first instruction of a plain script-hash output needs an argument. *)
Lemma p2sh_head_fails h c flags script :
  IsPayToScriptHash script || IsPayToScriptHash256 script = true →
  EvalScript h [] script flags c BASE = fail SCRIPT_ERR_INVALID_STACK_OPERATION.
Proof.
  unfold IsPayToScriptHash, IsPayToScriptHash256, MatchPayToScriptHash256, is_op.
  intros H. assert (Hh : size script <= MAX_SCRIPT_SIZE ∧ ∃ op pc,
    script = opcode_byte op :: pc ∧ (op = OP_HASH160 ∨ op = OP_SHA256)).
  { destruct script as [|b pc]; [done|]. unfold MAX_SCRIPT_SIZE.
    apply orb_true_iff in H as [H|H]; reflect_bools; cbn [at_ nth Nat.add] in *; subst.
    - split; [lia|]. exists OP_HASH160, pc. auto.
    - split; [lia|]. exists OP_SHA256, pc. auto. }
  destruct Hh as (Hsz & op & pc & -> & Hop). by apply Run_head_fails.
Qed.

(** The staking side of a cold-staking output is skipped outside a coinstake,
    and the spending side needs an argument. *)
Lemma coldstake_p2sh_fails h c flags stake op pc :
  IsCoinStake c = false → op = OP_HASH160 ∨ op = OP_SHA256 → size stake = 20 →
  size pc <= 1000 →
  EvalScript h [] (ops [OP_ISCOINSTAKE; OP_IF] ++ p2pkh_segment OP_HASH160 stake
    ++ ops [OP_ELSE] ++ opcode_byte op :: pc) flags c BASE
  = fail SCRIPT_ERR_INVALID_STACK_OPERATION.
Proof.
  intros Hcs Hop Hs Hpc. rewrite EvalScript_run.
  2: { change (opcode_byte op :: pc) with ([opcode_byte op] ++ pc).
       rewrite !size_app, size_p2pkh_segment by lia. unfold MAX_SCRIPT_SIZE.
       change (size (ops _)) with 2 at 1. change (size (ops [OP_ELSE])) with 1.
       change (size [_]) with 1. lia. }
  unfold initial_state. rewrite run_coldstake_head by done. rewrite Hcs.
  rewrite skip_p2pkh_segment by (try done; try lia; by left).
  rewrite run_else by done.
  rewrite (run_exec_fail _ _ _ _ _ _ _ _ _ _ _
    (ScriptErr SCRIPT_ERR_INVALID_STACK_OPERATION)); try done.
  all: by destruct Hop as [->| ->].
Qed.

(** A script long enough for the head of a cold-staking output, by its
    bytes. *)
Lemma coldstake_decompose script :
  (29 <= length script)%nat →
  script = [at_ script 0; at_ script 1; at_ script 2; at_ script 3; at_ script 4]
           ++ take 20 (drop 5 script)
           ++ [at_ script 25; at_ script 26; at_ script 27; at_ script 28] ++ drop 29 script.
Proof.
  intros H. do 29 (destruct script as [|? script]; [simpl in H; lia|]). done.
Qed.

Lemma coldstake_p2sh_shape script :
  IsPayToScriptHash256_CS script || IsPayToScriptHash_CS script = true →
  ∃ stake op pc, script = ops [OP_ISCOINSTAKE; OP_IF] ++ p2pkh_segment OP_HASH160 stake
    ++ ops [OP_ELSE] ++ opcode_byte op :: pc ∧ size stake = 20 ∧ size pc <= 1000 ∧
    (op = OP_HASH160 ∨ op = OP_SHA256).
Proof.
  unfold IsPayToScriptHash256_CS, IsPayToScriptHash_CS, MatchPayToPublicKeyHash,
    MatchPayToScriptHash256, MatchPayToScriptHash, is_op. simpl Nat.add.
  intros H. exists (take 20 (drop 5 script)), (opcode_of_byte (at_ script 28)), (drop 29 script).
  assert (Hlen : (52 <= length script <= 64)%nat).
  { apply orb_true_iff in H as [H|H]; reflect_bools; unfold size in *; lia. }
  assert (Hs : size (take 20 (drop 5 script)) = 20).
  { unfold size. rewrite length_take, length_drop. lia. }
  rewrite opcode_byte_of_byte. unfold p2pkh_segment.
  rewrite (push_data_short _ _ Hs) by lia. split_and!.
  - rewrite (coldstake_decompose script) at 1 by lia.
    apply orb_true_iff in H as [H|H]; reflect_bools;
      repeat match goal with E : at_ script _ = _ |- _ => rewrite !E; clear E end;
      cbn [ops map app]; by rewrite <- ?app_assoc.
  - done.
  - unfold size. rewrite length_drop. lia.
  - apply orb_true_iff in H as [H|H]; reflect_bools;
      match goal with E : at_ script 28 = _ |- _ => rewrite E end; auto.
Qed.

(** What the comment in [VerifyScript] claims, for outputs that are not
    time-locked script hashes: their evaluation on an empty stack fails. *)
Lemma p2sh_needs_stack h c flags script st :
  fIsP2SH c flags script = true → IsPayToTimeLockedScriptHash script = false →
  EvalScript h [] script flags c BASE = Ok st → False.
Proof.
  intros Hp Htl H. unfold fIsP2SH, IsPayToScriptHashAny in Hp. rewrite Htl, !orb_false_r in Hp.
  assert (IsPayToScriptHash script || IsPayToScriptHash256 script = true ∨
          IsCoinStake c = false ∧
          IsPayToScriptHash256_CS script || IsPayToScriptHash_CS script = true)
    as [Hplain|[Hcs Hshape]].
  { destruct (IsPayToScriptHash script || IsPayToScriptHash256 script) eqn:E; [by left|right].
    apply orb_false_iff in E as [E1 E2]. rewrite E1 in Hp.
    destruct (IsBitcoinCVersion c), (IsCoinStake c), (has _ _), (_ || _); done. }
  - by rewrite p2sh_head_fails in H.
  - destruct (coldstake_p2sh_shape script Hshape) as (stake & op & pc & -> & Hs & Hpc & Hop).
    by rewrite coldstake_p2sh_fails in H.
Qed.

(** A verdict on a spend: it is accepted, or refused with a script error. *)
Definition has_verdict (m : result script_fail unit) : Prop :=
  m = Ok tt ∨ ∃ e, m = Err (ScriptErr e).

(** ** VerifyScript returns *)

Section VerifyReturns.
Context (h : crypto) `{!CryptoOk h} (c : checker) (flags : Z).

Lemma require_true_returns st : returns (require_true st).
Proof. unfold require_true. returns_tac. Qed.

Lemma VerifyWitnessProgram_returns w v p :
  Forall elt_ok w → stack_size w <= MAX_STACK_SIZE → bytes_ok p → size p <= 40 →
  returns (VerifyWitnessProgram h w v p flags c).
Proof.
  intros Hw Hsz Hp Hps. unfold VerifyWitnessProgram. cbv zeta.
  assert (Hrw : Forall elt_ok (rev w)) by by apply Forall_rev.
  assert (Hrs : stack_size (rev w) <= MAX_STACK_SIZE)
    by (unfold stack_size in *; by rewrite length_rev).
  assert (Hprog : bytes_ok ([opcode_byte OP_DUP; opcode_byte OP_HASH160] ++ push_data p
    ++ [opcode_byte OP_EQUALVERIFY; opcode_byte OP_CHECKSIG])).
  { rewrite (push_data_short p _ eq_refl) by lia. pose proof (size_nonneg p).
    repeat (apply Forall_app; split); try by_eval.
    apply Forall_cons; split; [widths; lia|done]. }
  destruct (rev w) as [|script st]; returns_tac; try done.
  all: apply EvalScript_returns; try done; try (by apply Forall_cons in Hrw as [[? _] ?]).
  unfold stack_size in *. simpl in Hrs. lia.
Qed.

Lemma IsWitnessProgram_program script v p :
  bytes_ok script → IsWitnessProgram script = Some (v, p) → bytes_ok p ∧ size p <= 40.
Proof.
  intros Hs H. unfold IsWitnessProgram in H. destruct (_ || _) eqn:E; [done|].
  destruct (_ && _); [done|]. destruct (_ =? _); [|done]. injection H as <- <-.
  split; [by apply Forall_drop|]. unfold size. rewrite length_drop. unfold size in E. lia.
Qed.

Lemma check_witness_program_returns w script sig expected e st had :
  Forall elt_ok w → stack_size w <= MAX_STACK_SIZE → bytes_ok script →
  returns (check_witness_program h w flags c script sig expected e st had).
Proof.
  intros Hw Hsz Hs. unfold check_witness_program. destruct (has _ _); [|done].
  destruct (IsWitnessProgram script) as [[v p]|] eqn:E; [|done].
  destruct (IsWitnessProgram_program _ _ _ Hs E). destruct (negb _); [done|].
  apply returns_bind; [by apply VerifyWitnessProgram_returns|done].
Qed.

Lemma verify_p2sh_returns w sig st had :
  Forall elt_ok w → stack_size w <= MAX_STACK_SIZE →
  Forall elt_ok st → stack_size st <= MAX_STACK_SIZE → st ≠ [] →
  returns (verify_p2sh h sig w flags c st had).
Proof.
  intros Hw Hwsz Hst Hsz Hne. unfold verify_p2sh. destruct (negb _); [done|].
  destruct st as [|script st]; [done|]. apply Forall_cons in Hst as [[Hs _] Hst].
  apply returns_bind.
  { apply EvalScript_returns; try done. unfold stack_size in *. simpl in Hsz. lia. }
  intros st' _. apply returns_bind; [apply require_true_returns|]. intros _ _.
  by apply check_witness_program_returns.
Qed.

Lemma VerifyScript_returns sig script w :
  flags_wf flags = true → bytes_ok sig → bytes_ok script →
  Forall elt_ok (default [] w) → stack_size (default [] w) <= MAX_STACK_SIZE →
  IsPayToTimeLockedScriptHash script = false →
  returns (VerifyScript h sig script w flags c).
Proof.
  intros Hwf Hsig Hscript Hw Hwsz Htl. unfold VerifyScript. cbv zeta.
  destruct (has flags SCRIPT_VERIFY_SIGPUSHONLY && _); [done|].
  set (start := if IsBitcoinCVersion c then _ else _).
  assert (Hstart : returns start ∧ ∀ st, start = Ok st →
    Forall elt_ok st ∧ stack_size st <= MAX_STACK_SIZE).
  { unfold start. destruct (IsBitcoinCVersion c).
    - destruct (negb _); [done|]. split; [done|]. intros st [= <-].
      split; [by apply Forall_rev|]. unfold stack_size in *. by rewrite length_rev.
    - split; [by apply EvalScript_returns|]. intros st. by apply EvalScript_limits. }
  destruct Hstart as [Hret Hlim].
  apply returns_bind; [done|]. intros st Hst. destruct (Hlim st Hst) as [Hok Hsz].
  apply returns_bind; [by apply EvalScript_returns|]. intros st1 Hst1.
  apply returns_bind; [apply require_true_returns|]. intros _ _.
  apply returns_bind; [by apply check_witness_program_returns|]. intros [st2 had2] _.
  apply returns_bind.
  { destruct (has flags SCRIPT_VERIFY_P2SH); [|done]. simpl.
    destruct (fIsP2SH c flags script) eqn:Ep; [|done].
    apply verify_p2sh_returns; try done. intros ->. by eapply p2sh_needs_stack. }
  intros [st3 had3] _. unfold flags_wf in Hwf.
  destruct (has flags SCRIPT_VERIFY_CLEANSTACK), (has flags SCRIPT_VERIFY_WITNESS),
    (has flags SCRIPT_VERIFY_P2SH); try done; simpl; returns_tac.
Qed.
End VerifyReturns.

(** ** Taking cold-staking scripts apart *)

(** [scans stop a]: reading [a] instruction by instruction never meets an opcode
    of [stop], and ends exactly at its end. *)
Fixpoint scans_fuel (fuel : nat) (stop : list Z) (a : bytes) : bool :=
  match a with
  | [] => true
  | _ =>
      match fuel with
      | O => false
      | S f =>
          let d := GetScriptOp a in
          d_ok d && negb (bool_decide (opcode_byte (d_opcode d) ∈ stop))
          && scans_fuel f stop (d_pc d)
      end
  end.
Definition scans (stop : list opcodetype) (a : bytes) : bool :=
  scans_fuel (length a) (map opcode_byte stop) a.

(** The operand of a push of [n] bytes, of the instruction [b]. *)
Definition operand (b n : Z) (pc : bytes) : decoded :=
  if size pc <? n then Decoded false OP_INVALIDOPCODE [] pc
  else Decoded true (opcode_of_byte b) (take (Z.to_nat n) pc) (drop (Z.to_nat n) pc).

Lemma GetScriptOp_eq b pc :
  GetScriptOp (b :: pc) =
  if b <=? opcode_byte OP_PUSHDATA4 then
    if b <? opcode_byte OP_PUSHDATA1 then operand b b pc
    else if b =? opcode_byte OP_PUSHDATA1 then
      if size pc <? 1 then Decoded false OP_INVALIDOPCODE [] pc
      else operand b (at_ pc 0) (drop 1 pc)
    else if b =? opcode_byte OP_PUSHDATA2 then
      if size pc <? 2 then Decoded false OP_INVALIDOPCODE [] pc
      else operand b (le_value (take 2 pc)) (drop 2 pc)
    else
      if size pc <? 4 then Decoded false OP_INVALIDOPCODE [] pc
      else operand b (le_value (take 4 pc)) (drop 4 pc)
  else Decoded true (opcode_of_byte b) [] pc.
Proof. done. Qed.

(** More bytes after a complete instruction do not change it. *)
Definition extends (d d' : decoded) (rest : bytes) : Prop :=
  d_ok d = true → d' = Decoded true (d_opcode d) (d_vch d) (d_pc d ++ rest).

Lemma operand_app b n pc rest : extends (operand b n pc) (operand b n (pc ++ rest)) rest.
Proof.
  unfold extends, operand. rewrite size_app. pose proof (size_nonneg rest).
  destruct (Z.ltb_spec (size pc) n) as [|Hn]; [done|]. intros _.
  destruct (Z.ltb_spec (size pc + size rest) n); [lia|]. cbn [d_opcode d_vch d_pc].
  unfold size in Hn. by rewrite take_app_le, drop_app_le by lia.
Qed.

Lemma operand_at_app b (k : nat) (f : bytes → Z) a rest :
  (∀ x y, (k <= length x)%nat → f (x ++ y) = f x) →
  extends
    (if size a <? Z.of_nat k then Decoded false OP_INVALIDOPCODE [] a
     else operand b (f a) (drop k a))
    (if size (a ++ rest) <? Z.of_nat k then Decoded false OP_INVALIDOPCODE [] (a ++ rest)
     else operand b (f (a ++ rest)) (drop k (a ++ rest))) rest.
Proof.
  intros Hf. pose proof (size_nonneg rest). rewrite size_app.
  destruct (Z.ltb_spec (size a) (Z.of_nat k)) as [|Hk]; [done|].
  destruct (Z.ltb_spec (size a + size rest) (Z.of_nat k)); [lia|].
  unfold size in Hk. rewrite Hf, drop_app_le by lia. apply operand_app.
Qed.

Lemma GetScriptOp_app a rest : extends (GetScriptOp a) (GetScriptOp (a ++ rest)) rest.
Proof.
  destruct a as [|b a]; [done|]. rewrite <- app_comm_cons, !GetScriptOp_eq.
  destruct (b <=? _); [|done]. destruct (b <? _); [apply operand_app|]. destruct (b =? _).
  { apply (operand_at_app b 1%nat (λ a, at_ a 0)). intros x y Hx. by destruct x; [simpl in Hx; lia|]. }
  destruct (b =? _).
  { apply (operand_at_app b 2%nat (λ a, le_value (take 2 a))). intros x y Hx. by rewrite take_app_le. }
  apply (operand_at_app b 4%nat (λ a, le_value (take 4 a))). intros x y Hx. by rewrite take_app_le.
Qed.

(** Walking over a part of a script that does not contain the opcodes a loop
    looks for. *)
Lemma walk {A} (F : nat → bytes → option A) (stop : list Z) n a rest fuel :
  (∀ f pc, pc ≠ [] → d_ok (GetScriptOp pc) = true →
     opcode_byte (d_opcode (GetScriptOp pc)) ∉ stop → F (S f) pc = F f (d_pc (GetScriptOp pc))) →
  scans_fuel n stop a = true → (length (a ++ rest) <= fuel)%nat →
  ∃ fuel', (length rest <= fuel')%nat ∧ F fuel (a ++ rest) = F fuel' rest.
Proof.
  intros HF. revert a fuel. induction n as [|n IH]; intros a fuel Hs Hf; simpl in Hs.
  { destruct a; [|done]. by exists fuel. }
  destruct a as [|b a]; [by exists fuel|]. set (a0 := b :: a) in *.
  apply andb_true_iff in Hs as [[Hok Hop]%andb_true_iff Hs].
  destruct fuel as [|fuel]; [simpl in Hf; lia|].
  pose proof (GetScriptOp_app a0 rest Hok) as Happ.
  assert (length (d_pc (GetScriptOp a0)) < length a0)%nat by by apply GetScriptOp_progress.
  rewrite length_app in Hf.
  destruct (IH (d_pc (GetScriptOp a0)) fuel Hs) as (fuel' & Hfuel' & Heq).
  { rewrite length_app. lia. }
  exists fuel'. split; [done|]. rewrite <- Heq, HF; rewrite ?Happ; try done.
  cbn [d_opcode]. reflect_bools. done.
Qed.

Lemma between_app a rest : between (a ++ rest) rest = a.
Proof.
  unfold between. rewrite length_app. replace (length a + length rest - length rest)%nat
    with (length a) by lia. by rewrite take_app_length.
Qed.

Lemma op_eqb_neq op1 op2 (stop : list Z) :
  opcode_byte op1 ∉ stop → opcode_byte op2 ∈ stop → op_eqb op1 op2 = false.
Proof. intros H1 H2. unfold op_eqb. apply Z.eqb_neq. by intros E; rewrite E in H1. Qed.

Section Split.
Context (stake spend : bytes).
Context (Hstake : scans [OP_ELSE] stake = true) (Hspend : scans [OP_ELSE; OP_ENDIF] spend = true).

Local Abbreviation tail := (ops [OP_ELSE] ++ spend ++ ops [OP_ENDIF]).

Ltac walk_step :=
  intros f pc Hne Hok Hop; destruct pc; [done|];
  cbn [GetCoinstakeScriptPath_loop GetNonCoinstakeScriptPath_loop
       SplitConditionalCoinstakeScript_loop];
  cbv zeta; rewrite Hok; cbn [negb andb]; try done;
  rewrite ?(op_eqb_neq _ OP_ELSE _ Hop), ?(op_eqb_neq _ OP_ENDIF _ Hop) by (simpl; set_solver); done.

Lemma scans_weaken n s1 s2 a :
  s1 ⊆ s2 → scans_fuel n s2 a = true → scans_fuel n s1 a = true.
Proof.
  intros Hs. revert a. induction n as [|n IH]; intros a H; simpl in *; [done|].
  destruct a; [done|]. apply andb_true_iff in H as [[Hok Hop]%andb_true_iff H].
  apply andb_true_iff. split; [|by apply IH]. apply andb_true_iff. split; [done|].
  reflect_bools. apply negb_true_iff, bool_decide_eq_false. set_solver.
Qed.

Lemma GetCoinstakeScriptPath_coldstake :
  GetCoinstakeScriptPath (coldstake_script stake spend) = Some stake.
Proof.
  destruct (walk (λ f pc, GetCoinstakeScriptPath_loop f true (stake ++ tail) pc)
    (map opcode_byte [OP_ELSE]) _ stake tail (S (length (stake ++ tail))) ltac:(walk_step)
    Hstake ltac:(lia)) as (fuel & Hf & Heq).
  transitivity (GetCoinstakeScriptPath_loop (S (length (stake ++ tail))) true (stake ++ tail)
                  (stake ++ tail)).
  { unfold GetCoinstakeScriptPath, coldstake_script. cbn [ops map]. cbn [app length].
    set (l := stake ++ tail). clearbody l. by destruct l. }
  rewrite Heq. destruct fuel as [|fuel]; [simpl in Hf; lia|].
  transitivity (Some (between (stake ++ tail) tail)); [done|]. by rewrite between_app.
Qed.

Lemma GetNonCoinstakeScriptPath_coldstake :
  GetNonCoinstakeScriptPath (coldstake_script stake spend) = Some spend.
Proof.
  assert (Hhead : scans_fuel (2 + length stake) (map opcode_byte [OP_ELSE])
                    (ops [OP_ISCOINSTAKE; OP_IF] ++ stake) = true) by exact Hstake.
  assert (Hspend' : scans_fuel (length spend) (map opcode_byte [OP_ENDIF]) spend = true).
  { eapply scans_weaken; [|exact Hspend]. intros z ?; by right. }
  set (script := coldstake_script stake spend).
  assert (Hscript : script = (ops [OP_ISCOINSTAKE; OP_IF] ++ stake) ++ tail)
    by (unfold script, coldstake_script; by rewrite <- app_assoc).
  destruct (walk (λ f pc, GetNonCoinstakeScriptPath_loop f false script pc)
    (map opcode_byte [OP_ELSE]) _ _ tail (length script) ltac:(walk_step)
    Hhead ltac:(by rewrite Hscript)) as (fuel & Hf & Heq).
  unfold GetNonCoinstakeScriptPath. rewrite Hscript at 3. rewrite Heq. clear Heq.
  destruct fuel as [|fuel]; [simpl in Hf; lia|].
  destruct (walk (λ f pc, GetNonCoinstakeScriptPath_loop f true (spend ++ ops [OP_ENDIF]) pc)
    (map opcode_byte [OP_ENDIF]) _ spend (ops [OP_ENDIF]) fuel ltac:(walk_step)
    Hspend' ltac:(simpl in Hf |- *; lia)) as (fuel' & Hf' & Heq).
  transitivity (GetNonCoinstakeScriptPath_loop fuel true (spend ++ ops [OP_ENDIF])
                  (spend ++ ops [OP_ENDIF])); [done|].
  rewrite Heq. destruct fuel' as [|fuel']; [simpl in Hf'; lia|].
  transitivity (Some (between (spend ++ ops [OP_ENDIF]) (ops [OP_ENDIF]))); [done|].
  by rewrite between_app.
Qed.

Lemma SplitConditionalCoinstakeScript_coldstake outA :
  SplitConditionalCoinstakeScript (coldstake_script stake spend) outA = Some (stake, spend).
Proof.
  destruct (walk (λ f pc, SplitConditionalCoinstakeScript_loop f true false outA
                            (stake ++ tail) pc)
    (map opcode_byte [OP_ELSE]) _ stake tail (S (length (stake ++ tail))) ltac:(walk_step)
    Hstake ltac:(lia)) as (fuel & Hf & Heq).
  transitivity (SplitConditionalCoinstakeScript_loop (S (length (stake ++ tail))) true false
                  outA (stake ++ tail) (stake ++ tail)).
  { unfold SplitConditionalCoinstakeScript, coldstake_script. cbn [ops map]. cbn [app length].
    set (l := stake ++ tail). clearbody l. by destruct l. }
  rewrite Heq. destruct fuel as [|fuel]; [simpl in Hf; lia|].
  destruct (walk (λ f pc, SplitConditionalCoinstakeScript_loop f true true stake
                            (spend ++ ops [OP_ENDIF]) pc)
    (map opcode_byte [OP_ELSE; OP_ENDIF]) _ spend (ops [OP_ENDIF]) fuel ltac:(walk_step)
    Hspend ltac:(simpl in Hf |- *; lia)) as (fuel' & Hf' & Heq').
  transitivity (SplitConditionalCoinstakeScript_loop fuel true true
    (between (stake ++ tail) tail) (spend ++ ops [OP_ENDIF]) (spend ++ ops [OP_ENDIF])); [done|].
  rewrite between_app, Heq'. destruct fuel' as [|fuel']; [simpl in Hf'; lia|].
  transitivity (Some (stake, between (spend ++ ops [OP_ENDIF]) (ops [OP_ENDIF]))); [done|].
  by rewrite between_app.
Qed.
End Split.

(** ** Properties *)

(** Spending a pay-to-public-key-hash output.  The script leaves true on the
    stack exactly when the key hashes to the committed value, the signature and
    the key are encoded as the flags demand, and the checker accepts the
    signature over the script. *)
Theorem p2pkh_spend (h : crypto) (c : checker) (flags : Z) (sv : SigVersion)
    (hash sig pub : bytes) :
  size hash = 20 →
  EvalScript h [pub; sig] (p2pkh_script hash) flags c sv = Ok [vchTrue] ↔
  Hash160 h pub = hash ∧ sig_check h c flags sv (p2pkh_script hash) sig pub = Ok true.
Proof.
  intros Hs. change (p2pkh_script hash) with (p2pkh_segment OP_HASH160 hash).
  rewrite EvalScript_run by (rewrite size_p2pkh_segment; unfold MAX_SCRIPT_SIZE; lia).
  rewrite <- (app_nil_r (p2pkh_segment OP_HASH160 hash)) at 1. unfold initial_state.
  rewrite run_p2pkh_segment by (try done; try lia; by left). cbn [hash_op].
  case_bool_decide as Heq; [|by split; [done|intros []]].
  destruct (sig_check h c flags sv _ sig pub) as [[]|]; simpl; split; try done; by intros [].
Qed.

(** The script of a key hash of either length, and the hash it is of. *)
Definition keyhash_script (long : bool) (hash : bytes) : bytes :=
  if long then p2pkh256_script hash else p2pkh_script hash.
Definition keyhash (h : crypto) (long : bool) (pub : bytes) : bytes :=
  if long then SHA256 h pub else Hash160 h pub.
Definition keyhash_size (long : bool) : Z := if long then 32 else 20.
Definition keyhash_op (long : bool) : opcodetype := if long then OP_SHA256 else OP_HASH160.

Lemma keyhash_segment long hash : keyhash_script long hash = p2pkh_segment (keyhash_op long) hash.
Proof. by destruct long. Qed.
Lemma keyhash_op_cases long : keyhash_op long = OP_HASH160 ∨ keyhash_op long = OP_SHA256.
Proof. destruct long; [by right|by left]. Qed.

(** The branch that is taken: it passes exactly with a key of its hash and a good
    signature. *)
Lemma run_keyhash h c flags long hash rest st vf n code :
  size hash = keyhash_size long → n < 190 → forallb id vf = true → stack_size st <= MAX_STACK_SIZE - 4 →
  (∃ e, run h c flags BASE (keyhash_script long hash ++ rest) (State st [] vf n code) = Err e) ∧
    ¬ (∃ pub sig st', st = pub :: sig :: st' ∧ keyhash h long pub = hash ∧
         ∃ ok, sig_check h c flags BASE code sig pub = Ok ok) ∨
  ∃ pub sig st' ok, st = pub :: sig :: st' ∧ keyhash h long pub = hash ∧
    sig_check h c flags BASE code sig pub = Ok ok ∧
    run h c flags BASE (keyhash_script long hash ++ rest) (State st [] vf n code) =
    run h c flags BASE rest (State (vch_of_bool ok :: st') [] vf (n + 4) code).
Proof.
  intros Hs Hn Hvf Hst. rewrite keyhash_segment. pose proof (keyhash_op_cases long) as Hop.
  assert (Hsize : 1 < size hash <= 75) by (rewrite Hs; by destruct long).
  assert (Ek : ∀ pub, hash_op h (keyhash_op long) pub = keyhash h long pub) by (by destruct long).
  destruct st as [|pub [|sig st]].
  1,2: left; split; [by apply short_p2pkh_segment; [..|cbn; lia]|by intros (? & ? & ? & [=] & _)].
  rewrite run_p2pkh_segment by (try done; unfold stack_size in *; cbn [length] in Hst; lia). rewrite Ek.
  case_bool_decide as Heq; [|left; split; [by eexists|by intros (? & ? & ? & [= <- <- <-] & ? & _)]].
  destruct (sig_check h c flags BASE code sig pub) as [ok|e] eqn:Eo; cbn [rbind].
  - right. by exists pub, sig, st, ok.
  - left. split; [by exists e|]. intros (? & ? & ? & [= <- <- <-] & _ & ok & E). congruence.
Qed.

(** C36: a cold-staking output to two key hashes, each of 160 or 256 bits.  Evaluated on
    any stack with four places left, its script leaves true on top exactly if the stack
    ends in a signature and a public key that hashes to the staking side in a coinstake
    transaction, and to the spending side in any other, with encodings that the flags
    allow and a signature that the checker accepts over the script; both are consumed and
    the stack below is left alone.  So neither key can act in the other's place. *)
Theorem coldstake_spend (h : crypto) (c : checker) (flags : Z) (long_stake long_spend : bool)
    (stake spend : bytes) (st st' : list bytes) :
  size stake = keyhash_size long_stake → size spend = keyhash_size long_spend →
  stack_size st <= MAX_STACK_SIZE - 4 →
  let script := coldstake_script (keyhash_script long_stake stake) (keyhash_script long_spend spend) in
  EvalScript h st script flags c BASE = Ok (vchTrue :: st') ↔
  ∃ pub sig, st = pub :: sig :: st' ∧
    (if IsCoinStake c then keyhash h long_stake pub = stake else keyhash h long_spend pub = spend) ∧
    sig_check h c flags BASE script sig pub = Ok true.
Proof.
  intros H1 H2 Hst script.
  assert (Hscript : script = ops [OP_ISCOINSTAKE; OP_IF] ++ keyhash_script long_stake stake
    ++ ops [OP_ELSE] ++ keyhash_script long_spend spend ++ ops [OP_ENDIF] ++ []) by done.
  assert (Hs1 : 1 < size stake <= 75) by (rewrite H1; by destruct long_stake).
  assert (Hs2 : 1 < size spend <= 75) by (rewrite H2; by destruct long_spend).
  assert (Htop : ∀ ok (l : list bytes), stack_size (vch_of_bool ok :: l) = stack_size l + 1)
    by (intros; unfold stack_size; cbn [length]; lia).
  rewrite EvalScript_run.
  2: { rewrite Hscript, !size_app, !keyhash_segment, !size_p2pkh_segment by lia. unfold MAX_SCRIPT_SIZE, size. simpl.
       unfold size in *. lia. }
  unfold initial_state. rewrite Hscript at 1. rewrite run_coldstake_head by lia.
  destruct (IsCoinStake c).
  - destruct (run_keyhash h c flags long_stake stake (ops [OP_ELSE] ++ keyhash_script long_spend spend ++ ops [OP_ENDIF] ++ [])
      st [true] 2 script) as [[[e ->] Hno]|(pub & sig & st0 & ok & -> & Hk & Hsig & ->)]; [done|lia|done|done| |].
    { split; [done|]. intros (pub & sig & -> & ? & ?). destruct Hno. by exists pub, sig, st'; eauto. }
    assert (stack_size st0 <= MAX_STACK_SIZE - 4) by (unfold stack_size in *; cbn [length] in Hst; lia).
    rewrite run_else by (try lia; rewrite Htop; lia).
    rewrite keyhash_segment, skip_p2pkh_segment by first [done|lia|apply keyhash_op_cases|rewrite Htop; lia].
    rewrite run_endif by (try lia; rewrite Htop; lia). rewrite run_nil. cbn [rbind vfExec stack]. split.
    + intros [= Eok <-]. destruct ok; [|done]. by exists pub, sig.
    + intros (? & ? & [= <- <- <-] & _ & E). rewrite Hsig in E. by injection E as ->.
  - assert (Hsz : stack_size st <= MAX_STACK_SIZE) by lia.
    rewrite keyhash_segment, skip_p2pkh_segment by (try done; try lia; apply keyhash_op_cases). rewrite run_else by (done || lia).
    destruct (run_keyhash h c flags long_spend spend (ops [OP_ENDIF] ++ []) st [true] 7 script)
      as [[[e E] Hno]|(pub & sig & st0 & ok & -> & Hk & Hsig & E)]; [done|lia|done|done| |];
      cbn [negb] in *; change (2 + 4 + 1) with 7; rewrite E.
    { split; [done|]. intros (pub & sig & -> & ? & ?). destruct Hno. by exists pub, sig, st'; eauto. }
    assert (stack_size st0 <= MAX_STACK_SIZE - 4) by (unfold stack_size in *; cbn [length] in Hst; lia).
    rewrite run_endif by (try lia; rewrite Htop; lia). rewrite run_nil. cbn [rbind vfExec stack]. split.
    + intros [= Eok <-]. destruct ok; [|done]. by exists pub, sig.
    + intros (? & ? & [= <- <- <-] & _ & E'). rewrite Hsig in E'. by injection E' as ->.
Qed.

Definition accept_all : checker := Checker (λ _ _ _ _, true) (λ _, true) (λ _, true) true true.
Definition key33 : bytes := 2 :: replicate 32 9.

Lemma p2pkh_spend_witness :
  EvalScript toy_crypto [key33; []] (p2pkh_script (Hash160 toy_crypto key33)) 0 accept_all BASE
  = Ok [vchTrue].
Proof.
  apply (p2pkh_spend toy_crypto accept_all 0 BASE (Hash160 toy_crypto key33) [] key33).
  - reflexivity.
  - split; [reflexivity|vm_compute; reflexivity].
Defined.

Lemma coldstake_spend_witness :
  EvalScript toy_crypto [key33; []; [7]]
    (coldstake_script (p2pkh_script (Hash160 toy_crypto key33)) (p2pkh256_script (replicate 32 7)))
    0 accept_all BASE = Ok [vchTrue; [7]].
Proof.
  apply (coldstake_spend toy_crypto accept_all 0 false true (Hash160 toy_crypto key33) (replicate 32 7)
           [key33; []; [7]] [[7]]).
  - reflexivity.
  - reflexivity.
  - by_eval.
  - exists key33, []. split; [reflexivity|]. split; [reflexivity|vm_compute; reflexivity].
Defined.

(** The wallet's view of a cold-staking output.  The functions that take the
    script apart recover exactly its two sides, whatever they are, as long as
    the staking side has no [OP_ELSE] of its own and the spending side neither
    [OP_ELSE] nor [OP_ENDIF]. *)
Theorem coldstake_split (stake spend outA : bytes) :
  scans [OP_ELSE] stake = true → scans [OP_ELSE; OP_ENDIF] spend = true →
  let script := coldstake_script stake spend in
  HasIsCoinstakeOp script = true ∧
  GetColdStakeScriptPath true script = Some stake ∧
  GetColdStakeScriptPath false script = Some spend ∧
  SplitConditionalCoinstakeScript script outA = Some (stake, spend).
Proof.
  intros H1 H2. split_and!.
  - done.
  - by apply GetCoinstakeScriptPath_coldstake.
  - by apply GetNonCoinstakeScriptPath_coldstake.
  - by apply SplitConditionalCoinstakeScript_coldstake.
Qed.

Lemma coldstake_split_witness :
  let script := coldstake_script (p2pkh_script (replicate 20 0x67)) (p2pkh256_script (replicate 32 0x68)) in
  GetColdStakeScriptPath false script = Some (p2pkh256_script (replicate 32 0x68)).
Proof.
  apply (coldstake_split (p2pkh_script (replicate 20 0x67)) (p2pkh256_script (replicate 32 0x68)) []).
  - reflexivity.
  - reflexivity.
Defined.

(** [VerifyScript] returns for every input whose output script is not a
    time-locked script hash: no assertion fires and no bound is exceeded, under
    every consistent set of flags. *)
Theorem VerifyScript_total (h : crypto) (c : checker) (flags : Z) (scriptSig scriptPubKey : bytes)
    (witness : option (list bytes)) :
  CryptoOk h → flags_wf flags = true → bytes_ok scriptSig → bytes_ok scriptPubKey →
  Forall elt_ok (default [] witness) → stack_size (default [] witness) <= MAX_STACK_SIZE →
  IsPayToTimeLockedScriptHash scriptPubKey = false →
  has_verdict (VerifyScript h scriptSig scriptPubKey witness flags c).
Proof.
  intros Hh Hwf H1 H2 H3 H4 H5.
  pose proof (VerifyScript_returns h c flags scriptSig scriptPubKey witness Hwf H1 H2 H3 H4 H5).
  destruct (VerifyScript _ _ _ _ _ _) as [[]|[e| |]]; [by left|right; by exists e|done..].
Qed.

Lemma VerifyScript_total_witness :
  has_verdict (VerifyScript toy_crypto [] (p2pkh_script (Hash160 toy_crypto key33))
                 (Some [[]; key33]) SCRIPT_VERIFY_P2SH accept_all).
Proof.
  apply (VerifyScript_total toy_crypto accept_all SCRIPT_VERIFY_P2SH []
           (p2pkh_script (Hash160 toy_crypto key33)) (Some [[]; key33])).
  - apply _.
  - reflexivity.
  - by_eval.
  - by_eval.
  - by_eval.
  - by_eval.
  - reflexivity.
Defined.

(** The assertion that the stack of a script-hash spend is not empty can be
    made to fail.  The pattern of a time-locked script hash does not look at its
    first seven bytes, so an output may push the preimage of its own hash there;
    spending it with an empty witness evaluates to true and then aborts. *)
Theorem timelocked_p2sh_aborts (h : crypto) (c : checker) (flags : Z) (x : bytes) :
  CryptoOk h → IsBitcoinCVersion c = true → has flags SCRIPT_VERIFY_P2SH = true →
  size x = 6 →
  let scriptPubKey := push_data x ++ ops [OP_HASH160] ++ push_data (Hash160 h x) ++ ops [OP_EQUAL] in
  VerifyScript h [] scriptPubKey (Some []) flags c = Err AssertFail.
Proof.
  intros Hh Hv Hp Hx script. assert (Hhash : size (Hash160 h x) = 20) by apply Hh.
  assert (Hscript : script = 6 :: x ++ 169 :: 20 :: Hash160 h x ++ [135]).
  { unfold script. rewrite (push_data_short x 6), (push_data_short (Hash160 h x) 20) by done || lia.
    by rewrite <- app_comm_cons. }
  assert (Hsize : size script = 30).
  { rewrite Hscript. change (6 :: ?l) with ([6] ++ l). rewrite !size_app.
    change (169 :: 20 :: ?l) with ([169; 20] ++ l). rewrite !size_app, Hx, Hhash. done. }
  assert (Heval : EvalScript h [] script flags c BASE = Ok [vchTrue]).
  { rewrite EvalScript_run by (rewrite Hsize; done). unfold initial_state.
    rewrite Hscript at 1. rewrite run_push by (done || lia). cbn [vfExec forallb].
    unfold push, with_stack. cbn [stack altstack vfExec nOpCount pbegincodehash].
    change (MAX_STACK_SIZE <? _) with false. cbv iota.
    rewrite (run_exec_op _ _ _ _ _ _ _ _ _ _ _ (State [Hash160 h x] [] [] 1 script)) by done.
    rewrite run_push by (done || lia). cbn [vfExec forallb].
    unfold push, with_stack. cbn [stack altstack vfExec nOpCount pbegincodehash].
    change (MAX_STACK_SIZE <? _) with false. cbv iota.
    rewrite (run_exec_op _ _ _ _ _ _ _ _ _ _ _ (State [vchTrue] [] [] 2 script)); [done|done..| |done].
    unfold exec_op, exec_equal. cbn. by rewrite bool_decide_true. }
  assert (Hbytes : at_ script 0 = 6 ∧ IsPayToTimeLockedScriptHash script = true).
  { unfold IsPayToTimeLockedScriptHash, is_op. rewrite Hsize, Hscript.
    unfold size in Hx, Hhash.
    do 6 (destruct x as [|? x]; [simpl in Hx; lia|]). destruct x; [|simpl in Hx; lia].
    destruct (Hash160 h _) as [|? l] ; [simpl in Hhash; lia|].
    do 19 (destruct l as [|? l]; [simpl in Hhash; lia|]). destruct l; [done|simpl in Hhash; lia]. }
  destruct Hbytes as [Hfirst Htl].
  assert (Hw : ∀ st, check_witness_program h [] flags c script [] [] SCRIPT_ERR_WITNESS_MALLEATED
                       st false = Ok (st, false)).
  { intros st. unfold check_witness_program, IsWitnessProgram, is_op. rewrite Hsize, Hfirst.
    destruct (has flags SCRIPT_VERIFY_WITNESS); reflexivity. }
  assert (Hany : fIsP2SH c flags script = true).
  { unfold fIsP2SH, IsPayToScriptHashAny. rewrite Hv, Htl, !orb_true_r.
    destruct (negb (IsCoinStake c) && _), (has flags SCRIPT_VERIFY_NO_CSP2SH); reflexivity. }
  unfold VerifyScript. cbv zeta. rewrite andb_false_r, Hv, Hp, Hany.
  change (rev (default [] (Some []))) with (@nil (list Z)). change (negb (size [] =? 0)) with false.
  cbn [rbind andb]. rewrite Heval. cbn [rbind require_true CastToBool vchTrue].
  change (default [] (Some [])) with (@nil (list Z)). by rewrite Hw.
Qed.

Lemma timelocked_p2sh_aborts_witness :
  let x := [1; 2; 3; 4; 5; 6] in
  VerifyScript toy_crypto []
    (push_data x ++ ops [OP_HASH160] ++ push_data (Hash160 toy_crypto x) ++ ops [OP_EQUAL])
    (Some []) SCRIPT_VERIFY_P2SH accept_all = Err AssertFail.
Proof.
  intros x. apply (timelocked_p2sh_aborts toy_crypto accept_all SCRIPT_VERIFY_P2SH x).
  - apply _.
  - reflexivity.
  - reflexivity.
  - reflexivity.
Defined.
