(* ===== verification/Transaction.v ===== *)
(** Transactions, after [src/src/primitives/transaction.h],
    [src/src/primitives/transaction.cpp] and [src/src/amount.h]: outpoints,
    inputs, the three kinds of outputs, and both serialization formats.

    A stream is the byte string still to be read; [fAllowWitness] is the stream
    version without [SERIALIZE_TRANSACTION_NO_WITNESS].  An element of [vpout] is
    a shared pointer: [None] is a null pointer, and a computation that
    dereferences it is [None] too. *)
From S2P Require Import Prelude Serialize Script.

(** ** Amounts *)

Definition COIN : Z := 100000000.
Definition MAX_MONEY : Z := 10000000000 * COIN.
Definition MoneyRange (nValue : Z) : bool := (0 <=? nValue) && (nValue <=? MAX_MONEY).

(** ** Constants *)

Definition BITCOINC_TXN_VERSION : Z := 0xA0.
Definition OUTPUT_STANDARD : Z := 1.
Definition OUTPUT_RINGCT : Z := 3.
Definition OUTPUT_DATA : Z := 4.
Definition TXN_COINBASE : Z := 1.
Definition TXN_COINSTAKE : Z := 2.
Definition DO_FEE : Z := 5.
Definition SEQUENCE_FINAL : Z := 0xffffffff.
Definition ANON_MARKER : Z := 0xffffffa0.

Definition IsBitcoinCTxVersion (nVersion : Z) : bool :=
  BITCOINC_TXN_VERSION <=? Z.land nVersion 0xFF.

(** ** Data *)

Record COutPoint := OutPoint { hash : bytes; n : Z }.

Record CTxIn := TxIn {
  prevout : COutPoint;
  scriptSig : bytes;
  nSequence : Z;
  scriptData : list bytes;
  scriptWitness : list bytes
}.

Record CTxOut := TxOut { nValue : Z; scriptPubKey : bytes }.

(** [CTxOutBase] and its subclasses. *)
Inductive CTxOutBase : Type :=
| CTxOutStandard (nValue : Z) (scriptPubKey vecSignature : bytes)
| CTxOutRingCT (pk commitment vData vRangeproof vecSignature : bytes)
| CTxOutData (vData : bytes).

Record CTransaction := Transaction {
  nVersion : Z;
  vin : list CTxIn;
  vout : list CTxOut;
  vpout : list (option CTxOutBase);
  nLockTime : Z
}.

#[global] Instance COutPoint_eq_dec : EqDecision COutPoint.
Proof. solve_decision. Defined.
#[global] Instance CTxIn_eq_dec : EqDecision CTxIn.
Proof. solve_decision. Defined.
#[global] Instance CTxOutBase_eq_dec : EqDecision CTxOutBase.
Proof. solve_decision. Defined.

Definition uint256_zero : bytes := replicate 32 0.

Definition COutPoint_IsNull (o : COutPoint) : bool :=
  bool_decide (hash o = uint256_zero) && (n o =? 2 ^ 32 - 1).
Definition COutPoint_IsAnonInput (o : COutPoint) : bool := n o =? ANON_MARKER.
Definition IsAnonInput (i : CTxIn) : bool := COutPoint_IsAnonInput (prevout i).

(** [GetAnonInfo] and [SetAnonInfo]: the number of inputs and the ring size are
    kept in the first eight bytes of the outpoint's hash. *)
Definition GetAnonInfo (i : CTxIn) : Z * Z :=
  (le_value (take 4 (hash (prevout i))), le_value (take 4 (drop 4 (hash (prevout i))))).
Definition SetAnonInfo (i : CTxIn) (nInputs nRingSize : Z) : CTxIn :=
  TxIn (OutPoint (le_bytes 4 nInputs ++ le_bytes 4 nRingSize ++ drop 8 (hash (prevout i)))
          (n (prevout i)))
    (scriptSig i) (nSequence i) (scriptData i) (scriptWitness i).

(** [GetType()] of an output: the version its constructor sets. *)
Definition output_type (o : CTxOutBase) : Z :=
  match o with
  | CTxOutStandard _ _ _ => OUTPUT_STANDARD
  | CTxOutRingCT _ _ _ _ _ => OUTPUT_RINGCT
  | CTxOutData _ => OUTPUT_DATA
  end.

(** ** Queries *)

Section Queries.
Context (tx : CTransaction).

Definition IsBitcoinCVersion : bool := IsBitcoinCTxVersion (nVersion tx).
Definition GetType : Z := Z.land (Z.shiftr (nVersion tx) 8) 0xFF.
Definition GetNumVOuts : nat := if IsBitcoinCVersion then length (vpout tx) else length (vout tx).

Definition IsCoinBase : bool :=
  match vin tx with
  | [i] => (negb IsBitcoinCVersion || (GetType =? TXN_COINBASE)) && COutPoint_IsNull (prevout i)
  | _ => false
  end.

(** [None]: a null output was dereferenced. *)
Definition IsCoinStake : option bool :=
  if (GetType =? TXN_COINSTAKE) && negb (bool_decide (vin tx = [])) then
    match vpout tx with
    | o0 :: o1 :: _ =>
        o0 ← o0;
        if output_type o0 =? OUTPUT_DATA then
          o1 ← o1; Some (output_type o1 =? OUTPUT_STANDARD)
        else Some false
    | _ => Some false
    end
  else Some false.

(** [GetCoinStakeHeight]: [Some None] is a [false] return. *)
Definition GetCoinStakeHeight : option (option Z) :=
  match vpout tx with
  | o0 :: _ :: _ =>
      o0 ← o0;
      match o0 with
      | CTxOutData vData =>
          Some (if size vData <? 4 then None else Some (i32 (le_value (take 4 vData))))
      | _ => Some None
      end
  | _ => Some None
  end.

(** [GetCTFee(nFee)]: [nFee0] is the value the caller's variable holds;
    [GetVarInt] leaves it alone on an empty encoding. *)
Definition GetCTFee (nFee0 : Z) : option (option Z) :=
  match vpout tx with
  | o0 :: _ :: _ =>
      o0 ← o0;
      match o0 with
      | CTxOutData vData =>
          if (size vData <? 2) || negb (at_ vData 0 =? DO_FEE) then Some None
          else let '(r, nFee, _) := GetVarInt vData 1 nFee0 0 in
               Some (if r =? 0 then Some (i64 nFee) else None)
      | _ => Some None
      end
  | _ => Some None
  end.

Definition HasWitness : bool := existsb (λ i, negb (bool_decide (scriptWitness i = []))) (vin tx).

End Queries.

(** ** Output values *)

Inductive value_error : Set := ValueOutOfRange | NullOutput.

Fixpoint sum_vout (l : list CTxOut) (nValueOut : Z) : result value_error Z :=
  match l with
  | [] => Ok nValueOut
  | o :: l' =>
      let nValueOut := i64 (nValueOut + nValue o) in
      if negb (MoneyRange (nValue o)) || negb (MoneyRange nValueOut) then Err ValueOutOfRange
      else sum_vout l' nValueOut
  end.

(** The loop over [vpout]: the sum, and the counters [nStandard] and
    [nRingCT], which the caller does not clear. *)
Fixpoint sum_vpout (l : list (option CTxOutBase)) (nValueOut nStandard nRingCT : Z)
  : result value_error (Z * Z * Z) :=
  match l with
  | [] => Ok (nValueOut, nStandard, nRingCT)
  | None :: _ => Err NullOutput
  | Some (CTxOutStandard v _ _) :: l' =>
      let nValueOut := i64 (nValueOut + v) in
      if negb (MoneyRange v) || negb (MoneyRange nValueOut) then Err ValueOutOfRange
      else sum_vpout l' nValueOut (nStandard + 1) nRingCT
  | Some (CTxOutRingCT _ _ _ _ _) :: l' => sum_vpout l' nValueOut nStandard (nRingCT + 1)
  | Some (CTxOutData _) :: l' => sum_vpout l' nValueOut nStandard nRingCT
  end.

Definition GetValueOut (tx : CTransaction) : result value_error Z :=
  let! v := sum_vout (vout tx) 0 in
  let! (v, _, _) := sum_vpout (vpout tx) v 0 0 in
  Ok v.

Definition GetPlainValueOut (tx : CTransaction) (nStandard nRingCT : Z)
  : result value_error (Z * Z * Z) := sum_vpout (vpout tx) 0 nStandard nRingCT.

(** ** Serialization *)

(** The number of elements allocated at a time when a vector is read; the result
    does not depend on it ([Serialize.read_batches_spec]), so one value stands
    for every element type. *)
Definition vector_batch : nat := 1000.

(** [CScriptWitness::stack]. *)
Definition c_stack : codec (list bytes) := c_vector c_blob vector_batch.

Definition c_COutPoint : codec COutPoint :=
  c_iso (λ o, (hash o, n o)) (λ '(h, k), OutPoint h k) (c_pair (c_fixed 32) c_u32).

(** [CTxIn::SerializationOp]; the witness is not part of it. *)
Definition ser_CTxIn (i : CTxIn) : bytes :=
  c_ser c_COutPoint (prevout i) ++ c_ser c_blob (scriptSig i) ++ c_ser c_u32 (nSequence i)
  ++ (if IsAnonInput i then c_ser c_stack (scriptData i) else []).

Definition deser_CTxIn : reader CTxIn := fun s =>
  let! (p, s) := c_deser c_COutPoint s in
  let! (sig, s) := c_deser c_blob s in
  let! (seq, s) := c_deser c_u32 s in
  let! (data, s) := if COutPoint_IsAnonInput p then c_deser c_stack s else Ok ([], s) in
  Ok (TxIn p sig seq data [], s).

(** An input that can be serialized; data is only kept for anonymous inputs. *)
Definition txin_dom (i : CTxIn) : Prop :=
  c_dom c_COutPoint (prevout i) ∧ c_dom c_blob (scriptSig i) ∧ c_dom c_u32 (nSequence i) ∧
  (if IsAnonInput i then c_dom c_stack (scriptData i) else scriptData i = []).

Definition c_CTxIn : codec CTxIn :=
  Codec ser_CTxIn deser_CTxIn (λ i, txin_dom i ∧ scriptWitness i = []).

Definition c_CTxOut : codec CTxOut :=
  c_iso (λ o, (nValue o, scriptPubKey o)) (λ '(v, s), TxOut v s) (c_pair c_i64 c_blob).

(** [CTxOutBase::Serialize] with the [Serialize] of the subclasses. *)
Definition ser_output (fAllowWitness : bool) (o : CTxOutBase) : bytes :=
  match o with
  | CTxOutStandard v s sig => c_ser c_i64 v ++ c_ser c_blob s ++ c_ser c_blob sig
  | CTxOutRingCT pk cm d rp sig =>
      pk ++ cm ++ c_ser c_blob d ++ c_ser c_blob sig
      ++ (if fAllowWitness then c_ser c_blob rp else WriteCompactSize 0)
  | CTxOutData d => c_ser c_blob d
  end.

(** The output of a type byte; [None] when the type is not known. *)
Definition deser_output (bv : Z) : option (reader CTxOutBase) :=
  if bv =? OUTPUT_STANDARD then Some (fun s =>
    let! (v, s) := c_deser c_i64 s in
    let! (p, s) := c_deser c_blob s in
    let! (sig, s) := c_deser c_blob s in
    Ok (CTxOutStandard v p sig, s))
  else if bv =? OUTPUT_RINGCT then Some (fun s =>
    let! (pk, s) := c_deser (c_fixed 33) s in
    let! (cm, s) := c_deser (c_fixed 33) s in
    let! (d, s) := c_deser c_blob s in
    let! (sig, s) := c_deser c_blob s in
    let! (rp, s) := c_deser c_blob s in
    Ok (CTxOutRingCT pk cm d rp sig, s))
  else if bv =? OUTPUT_DATA then Some (fun s =>
    let! (d, s) := c_deser c_blob s in
    Ok (CTxOutData d, s))
  else None.

Definition output_dom (o : CTxOutBase) : Prop :=
  match o with
  | CTxOutStandard v s sig => c_dom c_i64 v ∧ c_dom c_blob s ∧ c_dom c_blob sig
  | CTxOutRingCT pk cm d rp sig =>
      c_dom (c_fixed 33) pk ∧ c_dom (c_fixed 33) cm ∧ c_dom c_blob d ∧ c_dom c_blob rp ∧
      c_dom c_blob sig
  | CTxOutData d => c_dom c_blob d
  end.

(** The loop over [vpout]: the type byte and the output; [None] is a null
    pointer. *)
Fixpoint ser_vpout (fAllowWitness : bool) (l : list (option CTxOutBase)) : option bytes :=
  match l with
  | [] => Some []
  | o :: l' =>
      o ← o;
      b ← ser_vpout fAllowWitness l';
      Some (c_ser c_u8 (output_type o) ++ ser_output fAllowWitness o ++ b)
  end.

Definition ser_witnesses (l : list CTxIn) : bytes :=
  flat_map (λ i, c_ser c_stack (scriptWitness i)) l.

Definition SerializeTransaction (fAllowWitness : bool) (tx : CTransaction) : option bytes :=
  if IsBitcoinCTxVersion (nVersion tx) then
    outs ← ser_vpout fAllowWitness (vpout tx);
    Some (c_ser c_u8 (Z.land (nVersion tx) 0xFF)
          ++ c_ser c_u8 (Z.land (Z.shiftr (nVersion tx) 8) 0xFF)
          ++ c_ser c_u32 (nLockTime tx)
          ++ Serialize_vector c_CTxIn (vin tx)
          ++ WriteCompactSize (Z.of_nat (length (vpout tx))) ++ outs
          ++ (if fAllowWitness then ser_witnesses (vin tx) else []))
  else
    let flags := if fAllowWitness && HasWitness tx then 1 else 0 in
    Some (c_ser c_i32 (nVersion tx)
          ++ (if negb (flags =? 0) then Serialize_vector c_CTxIn [] ++ c_ser c_u8 flags else [])
          ++ Serialize_vector c_CTxIn (vin tx)
          ++ Serialize_vector c_CTxOut (vout tx)
          ++ (if negb (Z.land flags 1 =? 0) then ser_witnesses (vin tx) else [])
          ++ c_ser c_u32 (nLockTime tx)).

(** Reading [k] outputs.  An unknown type makes the caller return at once, with
    the outputs still to be read left null: the flag is [false] then. *)
Fixpoint deser_vpout (k : nat) (s : bytes)
  : result ser_error (list (option CTxOutBase) * bool * bytes) :=
  match k with
  | O => Ok ([], true, s)
  | S k' =>
      let! (bv, s) := c_deser c_u8 s in
      match deser_output bv with
      | None => Ok (replicate k None, false, s)
      | Some rd =>
          let! (o, s) := rd s in
          let! (l, b, s) := deser_vpout k' s in
          Ok (Some o :: l, b, s)
      end
  end.

(** [for (auto &txin : tx.vin) s >> txin.scriptWitness.stack]. *)
Fixpoint deser_witnesses (l : list CTxIn) (s : bytes)
  : result ser_error (list CTxIn * bytes) :=
  match l with
  | [] => Ok ([], s)
  | i :: l' =>
      let! (w, s) := c_deser c_stack s in
      let! (l', s) := deser_witnesses l' s in
      Ok (TxIn (prevout i) (scriptSig i) (nSequence i) (scriptData i) w :: l', s)
  end.

(** The format of versions [0xA0] and above, after the first byte. *)
Definition Unserialize_bitcoinc (fAllowWitness : bool) (bv : Z) : reader CTransaction := fun s =>
  let! (bv', s) := c_deser c_u8 s in
  let version := Z.lor bv (Z.shiftl bv' 8) in
  let! (locktime, s) := c_deser c_u32 s in
  let! (ins, s) := c_deser (c_vector c_CTxIn vector_batch) s in
  let! (nOutputs, s) := ReadCompactSize s in
  let! (outs, complete, s) := deser_vpout (Z.to_nat nOutputs) s in
  if negb complete then Ok (Transaction version ins [] outs locktime, s)
  else
    let! (ins, s) := if fAllowWitness then deser_witnesses ins s else Ok (ins, s) in
    Ok (Transaction version ins [] outs locktime, s).

(** The format of Bitcoin, after the four bytes of the version. *)
Definition Unserialize_legacy (fAllowWitness : bool) (version : Z) : reader CTransaction := fun s =>
  let! (ins, s) := c_deser (c_vector c_CTxIn vector_batch) s in
  let! (flags, ins, outs, s) :=
    if bool_decide (ins = []) && fAllowWitness then
      let! (flags, s) := c_deser c_u8 s in
      if negb (flags =? 0) then
        let! (ins, s) := c_deser (c_vector c_CTxIn vector_batch) s in
        let! (outs, s) := c_deser (c_vector c_CTxOut vector_batch) s in
        Ok (flags, ins, outs, s)
      else Ok (flags, ins, [], s)
    else
      let! (outs, s) := c_deser (c_vector c_CTxOut vector_batch) s in
      Ok (0, ins, outs, s) in
  let! (flags, ins, s) :=
    if negb (Z.land flags 1 =? 0) && fAllowWitness then
      let! (ins, s) := deser_witnesses ins s in
      Ok (Z.lxor flags 1, ins, s)
    else Ok (flags, ins, s) in
  if negb (flags =? 0) then Err UnknownFormat
  else
    let! (locktime, s) := c_deser c_u32 s in
    Ok (Transaction version ins outs [] locktime, s).

Definition UnserializeTransaction (fAllowWitness : bool) : reader CTransaction := fun s =>
  let! (bv, s) := c_deser c_u8 s in
  if BITCOINC_TXN_VERSION <=? bv then Unserialize_bitcoinc fAllowWitness bv s
  else
    let! (b1, s) := c_deser c_u8 s in
    let! (b2, s) := c_deser c_u8 s in
    let! (b3, s) := c_deser c_u8 s in
    let version := i32 (Z.lor (Z.lor (Z.lor bv (Z.shiftl b1 8)) (Z.shiftl b2 16))
                          (Z.shiftl b3 24)) in
    Unserialize_legacy fAllowWitness version s.

(** [ComputeHash] and [ComputeWitnessHash], with the double SHA-256 as [H]. *)
Definition ComputeHash (H : bytes → bytes) (tx : CTransaction) : option bytes :=
  b ← SerializeTransaction false tx; Some (H b).
Definition ComputeWitnessHash (H : bytes → bytes) (tx : CTransaction) : option bytes :=
  b ← SerializeTransaction true tx; Some (H b).

(** ** Codecs: lemmas *)

Lemma bytes_ok_app a b : bytes_ok a → bytes_ok b → bytes_ok (a ++ b).
Proof. intros. by apply Forall_app. Qed.

#[export] Instance CodecOk_stack : CodecOk c_stack.
Proof. apply CodecOk_vector; [unfold vector_batch; lia|apply _]. Qed.

#[export] Instance CodecOk_COutPoint : CodecOk c_COutPoint.
Proof. apply CodecOk_iso; [apply _|by intros []]. Qed.

#[export] Instance CodecOk_CTxOut : CodecOk c_CTxOut.
Proof. apply CodecOk_iso; [apply _|by intros []]. Qed.

(** An input as it is read back without its witness. *)
Definition strip_witness (i : CTxIn) : CTxIn :=
  TxIn (prevout i) (scriptSig i) (nSequence i) (scriptData i) [].

Lemma deser_ser_CTxIn i rest :
  txin_dom i → deser_CTxIn (ser_CTxIn i ++ rest) = Ok (strip_witness i, rest).
Proof.
  intros (Hp & Hs & Hq & Hd). unfold deser_CTxIn, ser_CTxIn, IsAnonInput in *.
  rewrite <- !app_assoc, !codec_roundtrip by done. cbn [rbind].
  rewrite codec_roundtrip by done. cbn [rbind]. rewrite codec_roundtrip by done. cbn [rbind].
  destruct (COutPoint_IsAnonInput (prevout i)).
  - by rewrite codec_roundtrip by done.
  - unfold strip_witness. by rewrite Hd.
Qed.

#[export] Instance CodecOk_CTxIn : CodecOk c_CTxIn.
Proof.
  split; intros i.
  - intros rest [Hd Hw]. simpl. rewrite deser_ser_CTxIn by done. destruct i. simpl in Hw.
    by subst.
  - intros [(Hp & Hs & Hq & Hd) _]. change (bytes_ok (ser_CTxIn i)). unfold ser_CTxIn.
    do 3 (apply bytes_ok_app; [by apply codec_bytes|]).
    destruct (IsAnonInput i); [by apply codec_bytes|constructor].
Qed.

(** The inputs of a transaction are written without their witnesses. *)
Lemma deser_ser_vin l rest :
  Forall txin_dom l → Z.of_nat (length l) < 2 ^ 32 →
  c_deser (c_vector c_CTxIn vector_batch) (Serialize_vector c_CTxIn l ++ rest)
  = Ok (map strip_witness l, rest).
Proof.
  intros Hl Hn.
  assert (Hser : Serialize_vector c_CTxIn l = c_ser (c_vector c_CTxIn vector_batch)
                                                (map strip_witness l)).
  { cbn [c_ser c_vector]. unfold Serialize_vector. rewrite length_map. f_equal.
    clear. induction l as [|i l IH]; [done|]. cbn [map flat_map]. by rewrite IH. }
  rewrite Hser. assert (CodecOk (c_vector c_CTxIn vector_batch)) as Hok.
  { apply CodecOk_vector; [unfold vector_batch; lia|apply _]. }
  apply codec_roundtrip. split; [|by rewrite length_map].
  apply Forall_map. eapply Forall_impl; [exact Hl|]. by intros i Hi.
Qed.

Lemma deser_ser_witnesses l rest :
  Forall (λ i, c_dom c_stack (scriptWitness i)) l →
  deser_witnesses (map strip_witness l) (ser_witnesses l ++ rest) = Ok (l, rest).
Proof.
  induction 1 as [|i l Hi _ IH]; [done|].
  cbn [map deser_witnesses ser_witnesses flat_map].
  rewrite <- app_assoc, codec_roundtrip by done.
  cbn [rbind]. unfold ser_witnesses in IH. rewrite IH. cbn [rbind strip_witness prevout scriptSig nSequence scriptData].
  by destruct i.
Qed.

(** An output as it is read back from a stream without witnesses. *)
Definition strip_output (fAllowWitness : bool) (o : CTxOutBase) : CTxOutBase :=
  match o with
  | CTxOutRingCT pk cm d rp sig => CTxOutRingCT pk cm d (if fAllowWitness then rp else []) sig
  | _ => o
  end.

Lemma deser_ser_output aw o :
  output_dom o → ∃ rd, deser_output (output_type o) = Some rd ∧
    ∀ rest, rd (ser_output aw o ++ rest) = Ok (strip_output aw o, rest).
Proof.
  destruct o as [v p sig|pk cm d rp sig|d]; intros Hd; (eexists; split; [reflexivity|]);
    intros rest; unfold ser_output; rewrite <- ?app_assoc.
  - destruct Hd as (? & ? & ?). rewrite codec_roundtrip by done. cbn [rbind].
    rewrite codec_roundtrip by done. cbn [rbind]. by rewrite codec_roundtrip by done.
  - destruct Hd as (Hpk & Hcm & ? & ? & ?).
    pose proof (codec_roundtrip pk (cm ++ c_ser c_blob d ++ c_ser c_blob sig ++
      (if aw then c_ser c_blob rp else WriteCompactSize 0) ++ rest) Hpk) as E1.
    cbn [c_ser c_fixed] in E1. rewrite E1. cbn [rbind].
    pose proof (codec_roundtrip cm (c_ser c_blob d ++ c_ser c_blob sig ++
      (if aw then c_ser c_blob rp else WriteCompactSize 0) ++ rest) Hcm) as E2.
    cbn [c_ser c_fixed] in E2. rewrite E2. cbn [rbind].
    rewrite codec_roundtrip by done. cbn [rbind]. rewrite codec_roundtrip by done. cbn [rbind].
    destruct aw; [by rewrite codec_roundtrip by done|].
    replace (WriteCompactSize 0 ++ rest) with (c_ser c_blob [] ++ rest) by done.
    by rewrite codec_roundtrip by (split; [constructor|simpl; lia]).
  - by rewrite codec_roundtrip by done.
Qed.

Lemma output_type_u8 o : c_dom c_u8 (output_type o).
Proof. destruct o; done. Qed.

Lemma deser_ser_vpout aw l b rest :
  Forall output_dom l → ser_vpout aw (map Some l) = Some b →
  deser_vpout (length l) (b ++ rest) = Ok (map Some (map (strip_output aw) l), true, rest).
Proof.
  intros Hl. revert b. induction Hl as [|o l Ho _ IH]; intros b Hb;
    cbn [map ser_vpout mbind option_bind] in Hb.
  { injection Hb as <-. done. }
  destruct (ser_vpout aw (map Some l)) as [b'|]; [|done].
  cbn [mbind option_bind] in Hb. apply (inj Some) in Hb as <-. cbn [length deser_vpout].
  rewrite <- !app_assoc, codec_roundtrip by apply output_type_u8.
  cbn [rbind]. destruct (deser_ser_output aw o Ho) as (rd & -> & Hrd).
  rewrite Hrd. cbn [rbind]. by rewrite IH.
Qed.

Lemma ser_vpout_total aw l : is_Some (ser_vpout aw (map Some l)).
Proof. induction l as [|o l [b Hb]]; simpl; [by eexists|]. rewrite Hb. by eexists. Qed.

(** ** Round trips *)

(** A transaction that its own format can carry. *)
Definition tx_dom (tx : CTransaction) : Prop :=
  Forall txin_dom (vin tx) ∧ Z.of_nat (length (vin tx)) < 2 ^ 32 ∧
  Forall (λ i, c_dom c_stack (scriptWitness i)) (vin tx) ∧ c_dom c_u32 (nLockTime tx) ∧
  (∃ outs, vpout tx = map Some outs ∧ Forall output_dom outs ∧ Z.of_nat (length outs) < 2 ^ 64) ∧
  Forall (c_dom c_CTxOut) (vout tx) ∧ Z.of_nat (length (vout tx)) < 2 ^ 32 ∧
  (if IsBitcoinCTxVersion (nVersion tx) then 0 <= nVersion tx < 2 ^ 16 ∧ vout tx = []
   else is_i32 (nVersion tx) ∧ vpout tx = [] ∧ vin tx ≠ []).

(** What a stream without witnesses loses. *)
Definition strip (fAllowWitness : bool) (tx : CTransaction) : CTransaction :=
  Transaction (nVersion tx)
    (if fAllowWitness then vin tx else map strip_witness (vin tx)) (vout tx)
    (map (fmap (strip_output fAllowWitness)) (vpout tx)) (nLockTime tx).

Lemma version_bytes v :
  0 <= v < 2 ^ 16 → Z.lor (Z.land v 0xFF) (Z.shiftl (Z.land (Z.shiftr v 8) 0xFF) 8) = v.
Proof.
  intros Hv. rewrite !land_FF, Z.shiftr_div_pow2, Z.shiftl_mul_pow2 by lia.
  rewrite (Z.mod_small (v / 2 ^ 8)) by (split; [apply Z.div_pos|apply Z.div_lt_upper_bound]; lia).
  rewrite lor_add_disjoint by (try lia; apply Z.mod_pos_bound; lia).
  pose proof (Z.div_mod v (2 ^ 8)). lia.
Qed.

Lemma land_FF_u8 v : c_dom c_u8 (Z.land v 0xFF).
Proof. rewrite land_FF. apply Z.mod_pos_bound. lia. Qed.

Lemma roundtrip_bitcoinc aw tx b rest :
  tx_dom tx → IsBitcoinCTxVersion (nVersion tx) = true →
  SerializeTransaction aw tx = Some b →
  UnserializeTransaction aw (b ++ rest) = Ok (strip aw tx, rest).
Proof.
  intros (Hin & Hnin & Hwit & Hlock & (outs & Houts & Hod & Hno) & Hvo & Hnv & Hver) Hc Hb.
  rewrite Hc in Hver. destruct Hver as [Hver Hvout].
  unfold SerializeTransaction in Hb. rewrite Hc, Houts in Hb.
  destruct (ser_vpout aw (map Some outs)) as [bo|] eqn:Ebo; [|done].
  cbn [mbind option_bind] in Hb. apply (inj Some) in Hb as <-.
  unfold UnserializeTransaction. rewrite <- !app_assoc, codec_roundtrip by apply land_FF_u8.
  cbn [rbind]. unfold IsBitcoinCTxVersion in Hc. rewrite Hc. unfold Unserialize_bitcoinc.
  rewrite codec_roundtrip by apply land_FF_u8. cbn [rbind].
  rewrite codec_roundtrip by done. cbn [rbind]. rewrite deser_ser_vin by done. cbn [rbind].
  rewrite ReadCompactSize_roundtrip by (rewrite length_map; widths; lia). cbn [rbind].
  rewrite length_map, Nat2Z.id, (deser_ser_vpout aw outs bo) by done. cbn [rbind negb].
  rewrite version_bytes by done. unfold strip. rewrite Hvout, Houts.
  rewrite !map_map. destruct aw.
  - rewrite deser_ser_witnesses by done. done.
  - done.
Qed.

Lemma le_bytes_4 v :
  le_bytes 4 v = [u8 v; u8 (Z.shiftr v 8); u8 (Z.shiftr v 16); u8 (Z.shiftr v 24)].
Proof. cbn [le_bytes]. by rewrite !Z.shiftr_shiftr by lia. Qed.

Lemma le_value_4 a b c d :
  bytes_ok [a; b; c; d] →
  Z.lor (Z.lor (Z.lor a (Z.shiftl b 8)) (Z.shiftl c 16)) (Z.shiftl d 24) = le_value [a; b; c; d].
Proof.
  intros H. repeat (apply Forall_cons in H as [? H]). widths.
  rewrite !Z.shiftl_mul_pow2 by lia.
  rewrite (lor_add_disjoint a b 8) by lia. rewrite (lor_add_disjoint _ c 16) by lia.
  rewrite (lor_add_disjoint _ d 24) by lia. cbn [le_value]. lia.
Qed.

Lemma version_legacy v : is_i32 v →
  i32 (Z.lor (Z.lor (Z.lor (u8 v) (Z.shiftl (u8 (Z.shiftr v 8)) 8))
         (Z.shiftl (u8 (Z.shiftr v 16)) 16)) (Z.shiftl (u8 (Z.shiftr v 24)) 24)) = v.
Proof.
  intros Hv. rewrite le_value_4, <- le_bytes_4, le_value_le_bytes.
  - unfold i32. rewrite Z.add_mod_idemp_l by lia. by apply i32_small.
  - rewrite <- le_bytes_4. apply le_bytes_ok.
Qed.

Lemma deser_u8 b rest : is_u8 b → c_deser c_u8 (b :: rest) = Ok (b, rest).
Proof.
  intros Hb. pose proof (codec_roundtrip (c:=c_u8) b rest Hb) as H.
  cbn [c_ser c_u8] in H. unfold ser_writedata8 in H. cbn [le_bytes app] in H.
  by rewrite u8_small in H.
Qed.

Lemma CodecOk_vout : CodecOk (c_vector c_CTxOut vector_batch).
Proof. apply CodecOk_vector; [unfold vector_batch; lia|apply _]. Qed.

Lemma no_witness_strip tx :
  HasWitness tx = false → map strip_witness (vin tx) = vin tx.
Proof.
  unfold HasWitness. induction (vin tx) as [|i l IH]; [done|]. simpl. intros H.
  apply orb_false_iff in H as [Hi H]. rewrite IH by done. f_equal.
  apply negb_false_iff, bool_decide_eq_true in Hi. destruct i. simpl in Hi. by subst.
Qed.

Lemma roundtrip_legacy aw tx b rest :
  tx_dom tx → IsBitcoinCTxVersion (nVersion tx) = false →
  SerializeTransaction aw tx = Some b →
  UnserializeTransaction aw (b ++ rest) = Ok (strip aw tx, rest).
Proof.
  intros (Hin & Hnin & Hwit & Hlock & _ & Hvo & Hnv & Hver) Hc Hb.
  rewrite Hc in Hver. destruct Hver as (Hver & Hvpout & Hne).
  unfold SerializeTransaction in Hb. rewrite Hc in Hb. apply (inj Some) in Hb as <-.
  rewrite <- !app_assoc. change (c_ser c_i32 (nVersion tx)) with (le_bytes 4 (nVersion tx)).
  rewrite le_bytes_4. unfold UnserializeTransaction. cbn [app].
  rewrite deser_u8 by apply u8_range. cbn [rbind].
  unfold IsBitcoinCTxVersion in Hc. rewrite land_FF in Hc. fold (u8 (nVersion tx)) in Hc.
  rewrite Hc. do 3 (rewrite deser_u8 by apply u8_range; cbn [rbind]).
  rewrite version_legacy by done. unfold Unserialize_legacy.
  pose proof CodecOk_vout as Hvok.
  assert (Hvout : ∀ s, c_deser (c_vector c_CTxOut vector_batch)
    (Serialize_vector c_CTxOut (vout tx) ++ s) = Ok (vout tx, s)).
  { intros s. by apply (codec_roundtrip (c:=c_vector c_CTxOut vector_batch)). }
  assert (Hnil : map strip_witness (vin tx) ≠ []) by (by destruct (vin tx)).
  assert (Hstrip : strip aw tx = Transaction (nVersion tx)
    (if aw then vin tx else map strip_witness (vin tx)) (vout tx) [] (nLockTime tx))
    by (unfold strip; by rewrite Hvpout).
  destruct (aw && HasWitness tx) eqn:Ew.
  - apply andb_true_iff in Ew as [-> Ew]. cbn [Z.eqb negb Z.land Pos.land].
    rewrite <- !app_assoc, (deser_ser_vin []) by (done || (simpl; lia)). cbn [rbind map].
    rewrite bool_decide_true by done. cbn [andb].
    change (c_ser c_u8 1) with [1]. cbn [app]. rewrite deser_u8 by (widths; lia). cbn [rbind Z.eqb negb].
    rewrite deser_ser_vin by done. cbn [rbind]. rewrite Hvout. cbn [rbind].
    change (negb (Z.land 1 1 =? 0)) with true. cbn [andb].
    rewrite deser_ser_witnesses by done. cbn [rbind].
    change (negb (Z.lxor 1 1 =? 0)) with false. cbv iota. rewrite codec_roundtrip by done. cbn [rbind].
    by rewrite Hstrip.
  - cbn [Z.eqb negb Z.land app]. rewrite deser_ser_vin by done. cbn [rbind].
    rewrite bool_decide_false by done. cbn [andb]. rewrite Hvout. cbn [rbind].
    change (negb (Z.land 0 1 =? 0)) with false. cbn [andb rbind app Z.eqb negb].
    rewrite codec_roundtrip by done. cbn [rbind]. rewrite Hstrip.
    destruct aw; [|done]. rewrite no_witness_strip by done. done.
Qed.

Lemma roundtrip aw tx b rest :
  tx_dom tx → SerializeTransaction aw tx = Some b →
  UnserializeTransaction aw (b ++ rest) = Ok (strip aw tx, rest).
Proof.
  intros Hd Hb. destruct (IsBitcoinCTxVersion (nVersion tx)) eqn:E;
    [by apply roundtrip_bitcoinc|by apply roundtrip_legacy].
Qed.

Lemma strip_true tx : strip true tx = tx.
Proof.
  unfold strip. destruct tx as [v i o p l]. simpl. f_equal.
  induction p as [|o' p IH]; [done|]. simpl. rewrite IH. by destruct o' as [[]|].
Qed.

Lemma SerializeTransaction_total aw tx : tx_dom tx → is_Some (SerializeTransaction aw tx).
Proof.
  intros (_ & _ & _ & _ & (outs & Houts & _) & _). unfold SerializeTransaction.
  destruct (IsBitcoinCTxVersion _); [|by eexists]. rewrite Houts.
  destruct (ser_vpout_total aw outs) as [b ->]. by eexists.
Qed.

(** ** Output values: lemmas *)

(** The amounts of an output list in the clear. *)
Definition plain_values (l : list (option CTxOutBase)) : list Z :=
  flat_map (λ o, match o with Some (CTxOutStandard v _ _) => [v] | _ => [] end) l.

Definition sum (l : list Z) : Z := foldr Z.add 0 l.

Definition amounts_ok (acc : Z) (l : list Z) : Prop :=
  Forall (λ v, MoneyRange v = true) l ∧ acc + sum l <= MAX_MONEY.

Lemma MoneyRange_iff v : MoneyRange v = true ↔ 0 <= v <= MAX_MONEY.
Proof. unfold MoneyRange. rewrite andb_true_iff, !Z.leb_le. done. Qed.

Lemma sum_nonneg l : Forall (λ v, MoneyRange v = true) l → 0 <= sum l.
Proof. induction 1 as [|v l Hv _ IH]; simpl; [done|]. apply MoneyRange_iff in Hv. lia. Qed.

(** One addition of the loops: no wrap-around when it is accepted. *)
Lemma add_amount acc v l :
  0 <= acc <= MAX_MONEY → is_i64 v →
  (negb (MoneyRange v) || negb (MoneyRange (i64 (acc + v))) = false ∧
     amounts_ok (i64 (acc + v)) l) ↔ amounts_ok acc (v :: l).
Proof.
  intros Hacc Hv. unfold amounts_ok. rewrite Forall_cons, orb_false_iff, !negb_false_iff.
  cbn [sum foldr]. fold (sum l). split.
  - intros [[H1 H2] [H3 H4]]. assert (i64 (acc + v) = acc + v) as E.
    { apply i64_small. apply MoneyRange_iff in H1. unfold MAX_MONEY, COIN, is_i64 in *. lia. }
    rewrite E in H4. split; [done|lia].
  - intros [[H1 H2] H3]. pose proof (sum_nonneg l H2). apply MoneyRange_iff in H1 as H1'.
    assert (i64 (acc + v) = acc + v) as E.
    { apply i64_small. unfold MAX_MONEY, COIN, is_i64 in *. lia. }
    rewrite E. split_and!; [done|apply MoneyRange_iff; lia|done|lia].
Qed.

Lemma sum_vout_spec l acc v :
  0 <= acc <= MAX_MONEY → Forall (λ o, is_i64 (nValue o)) l →
  sum_vout l acc = Ok v ↔ amounts_ok acc (map nValue l) ∧ v = acc + sum (map nValue l).
Proof.
  intros Hacc Hl. revert acc Hacc. induction Hl as [|o l Ho _ IH]; intros acc Hacc; simpl.
  { unfold amounts_ok, sum. simpl. split; [intros [= <-]; split; [split; [constructor|lia]|lia]|].
    intros [_ ->]. by rewrite Z.add_0_r. }
  pose proof (add_amount acc (nValue o) (map nValue l) Hacc Ho) as Hadd.
  destruct (_ || _) eqn:E.
  - split; [done|]. intros [H _]. by apply Hadd in H as [? _].
  - apply orb_false_iff in E as [E1 E2]. apply negb_false_iff in E1, E2.
    assert (Hi : i64 (acc + nValue o) = acc + nValue o).
    { apply i64_small. apply MoneyRange_iff in E1. unfold MAX_MONEY, COIN, is_i64 in *. lia. }
    rewrite IH by by apply MoneyRange_iff. unfold sum in *. cbn [foldr].
    rewrite <- Hadd, Hi. split; [intros [? ->]; split; [done|lia]|].
    intros [[_ ?] ->]. split; [done|lia].
Qed.

Lemma sum_vpout_spec l acc a b v a' b' :
  0 <= acc <= MAX_MONEY → Forall is_Some l → Forall is_i64 (plain_values l) →
  sum_vpout l acc a b = Ok (v, a', b') →
  amounts_ok acc (plain_values l) ∧ v = acc + sum (plain_values l).
Proof.
  intros Hacc Hl. revert acc a b Hacc. induction Hl as [|o l [o' ->] _ IH]; intros acc a b Hacc Hi H.
  { injection H as <- <- <-. unfold amounts_ok, sum. simpl. split; [split; [constructor|lia]|lia]. }
  destruct o' as [v0 p0 s0|? ? ? ? ?|?]; cbn [sum_vpout plain_values flat_map app] in *;
    [|by eapply IH..].
  apply Forall_cons in Hi as [Hv Hi]. fold (plain_values l) in *.
  pose proof (add_amount acc v0 (plain_values l) Hacc Hv) as Hadd.
  destruct (_ || _) eqn:E; [done|]. apply orb_false_iff in E as [E1 E2].
  apply negb_false_iff in E1, E2.
  assert (Hi64 : i64 (acc + v0) = acc + v0).
  { apply i64_small. apply MoneyRange_iff in E1. unfold MAX_MONEY, COIN, is_i64 in *. lia. }
  apply IH in H as [Hok ->]; [|by apply MoneyRange_iff|done].
  rewrite <- Hadd. unfold sum in *. cbn [foldr]. rewrite Hi64 in *. split; [done|lia].
Qed.

Lemma sum_vpout_complete l acc a b :
  0 <= acc <= MAX_MONEY → Forall is_Some l → Forall is_i64 (plain_values l) →
  amounts_ok acc (plain_values l) →
  ∃ a' b', sum_vpout l acc a b = Ok (acc + sum (plain_values l), a', b').
Proof.
  intros Hacc Hl. revert acc a b Hacc. induction Hl as [|o l [o' ->] _ IH]; intros acc a b Hacc Hi H.
  { exists a, b. unfold sum. simpl. by rewrite Z.add_0_r. }
  destruct o' as [v0 p0 s0|? ? ? ? ?|?]; cbn [sum_vpout plain_values flat_map app] in *;
    [|by eapply IH..].
  apply Forall_cons in Hi as [Hv Hi]. fold (plain_values l) in *.
  apply add_amount in H as [E Hok]; [|done..]. rewrite E.
  apply orb_false_iff in E as [E1 E2]. apply negb_false_iff in E1, E2.
  assert (Hi64 : i64 (acc + v0) = acc + v0).
  { apply i64_small. apply MoneyRange_iff in E1. unfold MAX_MONEY, COIN, is_i64 in *. lia. }
  destruct (IH (i64 (acc + v0)) (a + 1) b) as (a' & b' & ->); [by apply MoneyRange_iff|done..|].
  exists a', b'. unfold sum in *. cbn [foldr]. rewrite Hi64. do 3 f_equal. lia.
Qed.

Lemma sum_app l1 l2 : sum (l1 ++ l2) = sum l1 + sum l2.
Proof. unfold sum. induction l1 as [|x l1 IH]; simpl; lia. Qed.

(** ** Properties *)

(** C38: a transaction survives the wire, in both formats: what
    [SerializeTransaction] writes, with witnesses, [UnserializeTransaction] reads
    back as the same transaction, and leaves the rest of the stream. *)
Theorem transaction_roundtrip (tx : CTransaction) (rest : bytes) :
  tx_dom tx →
  ∃ b, SerializeTransaction true tx = Some b ∧
       UnserializeTransaction true (b ++ rest) = Ok (tx, rest).
Proof.
  intros Hd. destruct (SerializeTransaction_total true tx Hd) as [b Hb]. exists b.
  split; [done|]. by rewrite (roundtrip true tx b rest Hd Hb), strip_true.
Qed.

(** A coinstake with a data output, a standard output and a confidential one. *)
Definition sample_tx : CTransaction :=
  Transaction (0xA0 + 2 * 2 ^ 8)
    [TxIn (OutPoint (replicate 32 7) 3) [] SEQUENCE_FINAL [] [[1; 2]; [3]];
     TxIn (OutPoint (replicate 32 9) ANON_MARKER) [] SEQUENCE_FINAL [[4; 5]] []] []
    [Some (CTxOutData [5; 0x80; 0]); Some (CTxOutStandard 5000 [0x51] [8; 9]);
     Some (CTxOutRingCT (replicate 33 2) (replicate 33 8) [1] [6; 6] [])] 17.

(** Proves that concrete fields are in the domain of their codec. *)
Ltac dom_tac :=
  repeat first [progress cbn | split | constructor | progress unfold txin_dom, bytes_ok, is_u8, is_u32, is_i64];
  try lia; try done.

Lemma sample_tx_dom : tx_dom sample_tx.
Proof.
  unfold tx_dom, sample_tx. cbn [vin vout vpout nVersion nLockTime length].
  change (IsBitcoinCTxVersion _) with true. cbv iota.
  split_and!; try lia; try done.
  - dom_tac.
  - dom_tac.
  - eexists [_; _; _]. split; [reflexivity|]. split; [|simpl; lia]. dom_tac.
Qed.

Lemma transaction_roundtrip_witness :
  ∃ b, SerializeTransaction true sample_tx = Some b ∧
       UnserializeTransaction true (b ++ [1; 2; 3]) = Ok (sample_tx, [1; 2; 3]).
Proof. apply (transaction_roundtrip sample_tx [1; 2; 3]). apply sample_tx_dom. Defined.

Lemma ser_vpout_strip l :
  ser_vpout false l = ser_vpout false (map (fmap (strip_output false)) l).
Proof.
  induction l as [|o l IH]; [done|]. simpl. rewrite <- IH.
  destruct o as [[]|]; [|reflexivity..]. all: simpl; by destruct (ser_vpout false l).
Qed.

Lemma ser_vin_strip l :
  Serialize_vector c_CTxIn l = Serialize_vector c_CTxIn (map strip_witness l).
Proof.
  unfold Serialize_vector. rewrite length_map. f_equal.
  induction l as [|i l IH]; [done|]. cbn [map flat_map]. by rewrite IH.
Qed.

Lemma Serialize_strip tx :
  SerializeTransaction false tx = SerializeTransaction false (strip false tx).
Proof.
  unfold SerializeTransaction, strip. cbn [nVersion vin vout vpout nLockTime andb].
  by rewrite length_map, <- ser_vpout_strip, <- ser_vin_strip.
Qed.

(** What a transaction id commits to.  Two transactions have the same
    serialization without witnesses exactly when they differ in nothing but
    script witnesses and range proofs; so, for a collision-free hash, the id
    fixes everything else, and those two can be changed without changing it. *)
Theorem txid_commitment (tx1 tx2 : CTransaction) :
  tx_dom tx1 → tx_dom tx2 →
  SerializeTransaction false tx1 = SerializeTransaction false tx2 ↔
  strip false tx1 = strip false tx2.
Proof.
  intros H1 H2. split.
  - intros E. destruct (SerializeTransaction_total false tx1 H1) as [b Hb].
    pose proof (roundtrip false tx1 b [] H1 Hb) as R1. rewrite E in Hb.
    pose proof (roundtrip false tx2 b [] H2 Hb) as R2. rewrite R1 in R2.
    exact (f_equal (λ r, match r with Ok (t, _) => t | _ => strip false tx1 end) R2).
  - intros E. by rewrite (Serialize_strip tx1), (Serialize_strip tx2), E.
Qed.

Lemma txid_commitment_witness :
  SerializeTransaction false sample_tx = SerializeTransaction false sample_tx ↔
  strip false sample_tx = strip false sample_tx.
Proof. apply (txid_commitment sample_tx sample_tx); apply sample_tx_dom. Defined.

(** An output of unknown type.  The reader returns without an error at the
    first unknown type byte and leaves that output and all later ones null; the
    id of the transaction it returns cannot be computed, because serializing it
    dereferences the null output. *)
Theorem unknown_output_type_null (ins : list CTxIn) (ty locktime k t : Z) (rest : bytes) (H : bytes → bytes) :
  Forall txin_dom ins → Z.of_nat (length ins) < 2 ^ 32 → is_u8 ty → is_u32 locktime →
  0 < k < 2 ^ 64 → is_u8 t → t ∉ [OUTPUT_STANDARD; OUTPUT_RINGCT; OUTPUT_DATA] →
  let stream := [0xA0; ty] ++ c_ser c_u32 locktime ++ Serialize_vector c_CTxIn ins
                ++ WriteCompactSize k ++ [t] ++ rest in
  ∃ tx, UnserializeTransaction true stream = Ok (tx, rest) ∧ vpout tx = replicate (Z.to_nat k) None
        ∧ ComputeHash H tx = None.
Proof.
  intros Hins Hn Hty Hl Hk Ht Hunk stream.
  exists (Transaction (Z.lor 0xA0 (Z.shiftl ty 8)) (map strip_witness ins) []
            (replicate (Z.to_nat k) None) locktime).
  assert (Ek : Z.to_nat k = S (Z.to_nat (k - 1))) by lia.
  split_and!; [|done|].
  - unfold stream, UnserializeTransaction. cbn [app]. rewrite deser_u8 by (widths; lia). cbn [rbind].
    change (BITCOINC_TXN_VERSION <=? 0xA0) with true. unfold Unserialize_bitcoinc.
    rewrite deser_u8 by done. cbn [rbind]. rewrite codec_roundtrip by done. cbn [rbind].
    rewrite deser_ser_vin by done. cbn [rbind].
    rewrite ReadCompactSize_roundtrip by (widths; lia). cbn [rbind].
    rewrite Ek. cbn [deser_vpout]. rewrite deser_u8 by done. cbn [rbind].
    assert (deser_output t = None) as ->.
    { unfold deser_output. destruct (Z.eqb_spec t OUTPUT_STANDARD) as [->|]; [by destruct Hunk; by_eval|].
      destruct (Z.eqb_spec t OUTPUT_RINGCT) as [->|]; [by destruct Hunk; by_eval|].
      destruct (Z.eqb_spec t OUTPUT_DATA) as [->|]; [by destruct Hunk; by_eval|done]. }
    done.
  - unfold ComputeHash, SerializeTransaction. cbn [nVersion vpout].
    assert (IsBitcoinCTxVersion (Z.lor 0xA0 (Z.shiftl ty 8)) = true) as ->.
    { unfold IsBitcoinCTxVersion. rewrite land_FF. widths.
      rewrite Z.shiftl_mul_pow2, lor_add_disjoint by lia.
      rewrite Z.mod_add by lia. done. }
    by rewrite Ek.
Qed.

Lemma unknown_output_type_null_witness :
  ∃ tx, UnserializeTransaction true ([0xA0; 0; 0; 0; 0; 0; 0; 1; 2; 9; 9]) = Ok (tx, [9; 9])
        ∧ vpout tx = [None] ∧ ComputeHash id tx = None.
Proof.
  apply (unknown_output_type_null [] 0 0 1 2 [9; 9] id).
  - constructor.
  - simpl. lia.
  - by_eval.
  - by_eval.
  - lia.
  - by_eval.
  - by_eval.
Defined.

(** All amounts of a transaction in the clear. *)
Definition values (tx : CTransaction) : list Z := map nValue (vout tx) ++ plain_values (vpout tx).

(** [GetValueOut] is the exact sum.  It returns [v] exactly when every amount
    is in range and [v] is their sum and in range; it throws otherwise, and the
    64-bit additions never wrap around on the way. *)
Theorem GetValueOut_exact (tx : CTransaction) (v : Z) :
  Forall is_i64 (values tx) → Forall is_Some (vpout tx) →
  GetValueOut tx = Ok v ↔
  Forall (λ x, MoneyRange x = true) (values tx) ∧ v = sum (values tx) ∧ v <= MAX_MONEY.
Proof.
  unfold values. intros [Hi1 Hi2]%Forall_app Hs. apply (proj1 (Forall_map nValue is_i64 _)) in Hi1.
  rewrite Forall_app, sum_app. unfold GetValueOut.
  assert (H0 : 0 <= 0 <= MAX_MONEY) by (unfold MAX_MONEY, COIN; lia). split.
  - intros H. apply rbind_Ok in H as (v1 & H1 & H). apply rbind_Ok in H as ([[v2 a] b] & H2 & H).
    injection H as <-. destruct (proj1 (sum_vout_spec _ _ _ H0 Hi1) H1) as [[Hr1 Hle1] ->].
    pose proof (sum_nonneg _ Hr1) as H. rewrite Z.add_0_l in *.
    destruct (sum_vpout_spec _ _ _ _ _ _ _ (conj H Hle1) Hs Hi2 H2) as [[Hr2 Hle2] ->]. done.
  - intros ([Hr1 Hr2] & -> & Hle).
    pose proof (sum_nonneg _ Hr1). pose proof (sum_nonneg _ Hr2).
    assert (sum_vout (vout tx) 0 = Ok (sum (map nValue (vout tx)))) as ->.
    { apply (sum_vout_spec _ _ _ H0 Hi1). split; [split; [done|lia]|lia]. }
    cbn [rbind].
    destruct (sum_vpout_complete (vpout tx) (sum (map nValue (vout tx))) 0 0) as (a & b & ->);
      [lia|done|done|split; [done|lia]|done].
Qed.

Lemma GetValueOut_exact_witness : GetValueOut sample_tx = Ok 5000.
Proof.
  apply (GetValueOut_exact sample_tx 5000).
  - by_eval.
  - by_eval.
  - split; [by_eval|]. split; [reflexivity|by_eval].
Defined.
