(* ===== verification/Chain.v ===== *)
(** The block index and the active chain, after [src/src/chain.h],
    [src/src/chain.cpp], [src/src/primitives/block.h] and
    [CChainState::AddToBlockIndex] of [src/src/validation.cpp].

    A [CBlockIndex*] is a key of the store [heap]; a pointer that may be null is
    an [option].  A computation that dereferences a null pointer, reads a vector
    out of range or fails an assertion is [None].  The loops that follow
    [pprev] and [pskip] are bounded by the height they start from; [None] is
    also the result of a loop that would exceed its bound, and the theorems
    show that it does not occur. *)
From stdpp Require Import gmap sorting.
From S2P Require Import Prelude ArithUint256 Serialize Transaction.
Import base_uint arith_uint256.

(** ** Block headers *)

Definition BITCOINC_BLOCK_VERSION : Z := 0xA0.

Module CBlockHeader.

Record t := Header {
  nVersion : Z;
  hashPrevBlock : bytes;
  hashMerkleRoot : bytes;
  hashWitnessMerkleRoot : bytes;
  nTime : Z;
  nBits : Z;
  nNonce : Z
}.

Definition IsBitcoinCVersion (b : t) : bool := nVersion b =? BITCOINC_BLOCK_VERSION.

(** [SerializationOp]; the witness root is only part of the new format. *)
Definition ser (b : t) : bytes :=
  c_ser c_i32 (nVersion b) ++ hashPrevBlock b ++ hashMerkleRoot b
  ++ (if IsBitcoinCVersion b then hashWitnessMerkleRoot b else [])
  ++ c_ser c_u32 (nTime b) ++ c_ser c_u32 (nBits b) ++ c_ser c_u32 (nNonce b).

Definition deser : reader t := fun s =>
  let! (v, s) := c_deser c_i32 s in
  let! (p, s) := c_deser (c_fixed 32) s in
  let! (m, s) := c_deser (c_fixed 32) s in
  let! (w, s) := if v =? BITCOINC_BLOCK_VERSION then c_deser (c_fixed 32) s
                 else Ok (uint256_zero, s) in
  let! (time, s) := c_deser c_u32 s in
  let! (bits, s) := c_deser c_u32 s in
  let! (nonce, s) := c_deser c_u32 s in
  Ok (Header v p m w time bits nonce, s).

(** [GetHash], with the double SHA-256 as [H]. *)
Definition GetHash (H : bytes → bytes) (b : t) : bytes := H (ser b).

End CBlockHeader.

(** ** Block index entries *)

Abbreviation ptr := positive (only parsing).

Record CBlockIndex := BlockIndex {
  phashBlock : option bytes;
  pprev : option ptr;
  pskip : option ptr;
  nHeight : Z;
  nFile : Z;
  nDataPos : Z;
  nUndoPos : Z;
  nChainWork : t;
  nTx : Z;
  nChainTx : Z;
  nFlags : Z;
  bnStakeModifier : bytes;
  prevoutStake : COutPoint;
  nMoneySupply : Z;
  nAnonOutputs : Z;
  nStatus : Z;
  nVersion : Z;
  hashMerkleRoot : bytes;
  hashWitnessMerkleRoot : bytes;
  nTime : Z;
  nBits : Z;
  nNonce : Z;
  nSequenceId : Z;
  nTimeMax : Z
}.

Abbreviation heap := (gmap ptr CBlockIndex) (only parsing).

(** [explicit CBlockIndex(const CBlockHeader&)], over [SetNull]. *)
Definition of_header (b : CBlockHeader.t) : CBlockIndex :=
  BlockIndex None None None 0 0 0 0 (of_u64 W256 0) 0 0 0 uint256_zero
    (OutPoint uint256_zero (2 ^ 32 - 1)) 0 0 0
    (CBlockHeader.nVersion b) (CBlockHeader.hashMerkleRoot b)
    (CBlockHeader.hashWitnessMerkleRoot b) (CBlockHeader.nTime b) (CBlockHeader.nBits b)
    (CBlockHeader.nNonce b) 0 0.

(** Assignments to the fields that change after construction. *)
Definition set_phashBlock (x : option bytes) (b : CBlockIndex) : CBlockIndex :=
  BlockIndex x (pprev b) (pskip b) (nHeight b) (nFile b) (nDataPos b) (nUndoPos b) (nChainWork b)
    (nTx b) (nChainTx b) (nFlags b) (bnStakeModifier b) (prevoutStake b) (nMoneySupply b)
    (nAnonOutputs b) (nStatus b) (nVersion b) (hashMerkleRoot b) (hashWitnessMerkleRoot b)
    (nTime b) (nBits b) (nNonce b) (nSequenceId b) (nTimeMax b).
Definition set_links (prev skip : option ptr) (height : Z) (b : CBlockIndex) : CBlockIndex :=
  BlockIndex (phashBlock b) prev skip height (nFile b) (nDataPos b) (nUndoPos b) (nChainWork b)
    (nTx b) (nChainTx b) (nFlags b) (bnStakeModifier b) (prevoutStake b) (nMoneySupply b)
    (nAnonOutputs b) (nStatus b) (nVersion b) (hashMerkleRoot b) (hashWitnessMerkleRoot b)
    (nTime b) (nBits b) (nNonce b) (nSequenceId b) (nTimeMax b).
Definition set_totals (timemax : Z) (work : t) (b : CBlockIndex) : CBlockIndex :=
  BlockIndex (phashBlock b) (pprev b) (pskip b) (nHeight b) (nFile b) (nDataPos b) (nUndoPos b)
    work (nTx b) (nChainTx b) (nFlags b) (bnStakeModifier b) (prevoutStake b) (nMoneySupply b)
    (nAnonOutputs b) (nStatus b) (nVersion b) (hashMerkleRoot b) (hashWitnessMerkleRoot b)
    (nTime b) (nBits b) (nNonce b) (nSequenceId b) timemax.
Definition set_nStatus (x : Z) (b : CBlockIndex) : CBlockIndex :=
  BlockIndex (phashBlock b) (pprev b) (pskip b) (nHeight b) (nFile b) (nDataPos b) (nUndoPos b)
    (nChainWork b) (nTx b) (nChainTx b) (nFlags b) (bnStakeModifier b) (prevoutStake b)
    (nMoneySupply b) (nAnonOutputs b) x (nVersion b) (hashMerkleRoot b)
    (hashWitnessMerkleRoot b) (nTime b) (nBits b) (nNonce b) (nSequenceId b) (nTimeMax b).

(** *** Validity *)

Definition BLOCK_VALID_TREE : Z := 2.
Definition BLOCK_VALID_MASK : Z := 7.
Definition BLOCK_FAILED_MASK : Z := 96.

(** [IsValid] and [RaiseValidity]; [None] when [nUpTo] is not a validity level. *)
Definition IsValid (b : CBlockIndex) (nUpTo : Z) : option bool :=
  if negb (Z.land nUpTo (u32 (Z.lnot BLOCK_VALID_MASK)) =? 0) then None
  else if negb (Z.land (nStatus b) BLOCK_FAILED_MASK =? 0) then Some false
  else Some (nUpTo <=? Z.land (nStatus b) BLOCK_VALID_MASK).

Definition RaiseValidity (b : CBlockIndex) (nUpTo : Z) : option (CBlockIndex * bool) :=
  if negb (Z.land nUpTo (u32 (Z.lnot BLOCK_VALID_MASK)) =? 0) then None
  else if negb (Z.land (nStatus b) BLOCK_FAILED_MASK =? 0) then Some (b, false)
  else if Z.land (nStatus b) BLOCK_VALID_MASK <? nUpTo then
    Some (set_nStatus (Z.lor (Z.land (nStatus b) (u32 (Z.lnot BLOCK_VALID_MASK))) nUpTo) b, true)
  else Some (b, false).

(** *** The skip list *)

Definition InvertLowestOne (n : Z) : Z := Z.land n (n - 1).

Definition GetSkipHeight (height : Z) : Z :=
  if height <? 2 then 0
  else if negb (Z.land height 1 =? 0)
       then InvertLowestOne (InvertLowestOne (height - 1)) + 1
       else InvertLowestOne height.

(** The test for following [pskip]. *)
Definition follow_skip (heightWalk height : Z) : bool :=
  let heightSkip := GetSkipHeight heightWalk in
  let heightSkipPrev := GetSkipHeight (heightWalk - 1) in
  (heightSkip =? height)
  || ((height <? heightSkip)
      && negb ((heightSkipPrev <? heightSkip - 2) && (height <=? heightSkipPrev))).

Fixpoint GetAncestor_loop (fuel : nat) (h : heap) (height : Z) (pindexWalk : ptr)
    (heightWalk : Z) : option ptr :=
  if height <? heightWalk then
    match fuel with
    | O => None
    | S f =>
        b ← h !! pindexWalk;
        match pskip b, follow_skip heightWalk height with
        | Some q, true => GetAncestor_loop f h height q (GetSkipHeight heightWalk)
        | _, _ => q ← pprev b; GetAncestor_loop f h height q (heightWalk - 1)
        end
    end
  else Some pindexWalk.

Definition GetAncestor (h : heap) (pindex : ptr) (height : Z) : option (option ptr) :=
  b ← h !! pindex;
  if (nHeight b <? height) || (height <? 0) then Some None
  else q ← GetAncestor_loop (Z.to_nat (nHeight b - height)) h height pindex (nHeight b);
       Some (Some q).

(** [BuildSkip]: the new value of [pskip]. *)
Definition BuildSkip (h : heap) (b : CBlockIndex) : option (option ptr) :=
  match pprev b with
  | Some q => GetAncestor h q (GetSkipHeight (nHeight b))
  | None => Some (pskip b)
  end.

(** *** Work *)

(** [GetBlockProof]; [None] is a division by zero. *)
Definition GetBlockProof (b : CBlockIndex) : option t :=
  let '(bnTarget, fNegative, fOverflow) := SetCompact (nBits b) in
  if fNegative || fOverflow || EqualTo W256 bnTarget 0 then Some (of_u64 W256 0)
  else q ← op_div W256 (op_not bnTarget) (op_add64 W256 bnTarget 1);
       Some (op_add64 W256 q 1).

(** *** Median time *)

Definition nMedianTimeSpan : nat := 11.

(** The times of a block and its predecessors, at most [k] of them; they are
    stored from the back of the array, so the oldest comes first. *)
Fixpoint past_times (k : nat) (h : heap) (pindex : option ptr) : option (list Z) :=
  match k, pindex with
  | S k', Some p =>
      b ← h !! p;
      l ← past_times k' h (pprev b);
      Some (l ++ [nTime b])
  | _, _ => Some []
  end.

Definition GetMedianTimePast (h : heap) (pindex : ptr) : option Z :=
  l ← past_times nMedianTimeSpan h (Some pindex);
  let l := merge_sort Z.le l in
  l !! (length l / 2)%nat.

(** ** The active chain *)

(** [CChain]: the vector [vChain]. *)
Abbreviation CChain := (list (option ptr)) (only parsing).

Definition chain_at (vChain : CChain) (height : Z) : option ptr :=
  if (height <? 0) || (Z.of_nat (length vChain) <=? height) then None
  else mjoin (vChain !! Z.to_nat height).

Definition Genesis (vChain : CChain) : option ptr :=
  match vChain with p :: _ => p | [] => None end.
Definition Tip (vChain : CChain) : option ptr := mjoin (last vChain).
Definition Height (vChain : CChain) : Z := Z.of_nat (length vChain) - 1.

Definition Contains (h : heap) (vChain : CChain) (pindex : ptr) : option bool :=
  b ← h !! pindex; Some (bool_decide (chain_at vChain (nHeight b) = Some pindex)).

Definition Next (h : heap) (vChain : CChain) (pindex : ptr) : option (option ptr) :=
  b ← h !! pindex;
  c ← Contains h vChain pindex;
  Some (if c : bool then chain_at vChain (nHeight b + 1) else None).

(** [SetTip]. *)
Fixpoint SetTip_loop (fuel : nat) (h : heap) (pindex : option ptr) (vChain : CChain)
  : option CChain :=
  match pindex with
  | None => Some vChain
  | Some p =>
      b ← h !! p;
      e ← vChain !! Z.to_nat (nHeight b);
      if bool_decide (e = Some p) then Some vChain
      else match fuel with
           | O => None
           | S f => SetTip_loop f h (pprev b) (<[Z.to_nat (nHeight b) := Some p]> vChain)
           end
  end.

Definition SetTip (h : heap) (pindex : option ptr) (vChain : CChain) : option CChain :=
  match pindex with
  | None => Some []
  | Some p =>
      b ← h !! p;
      let n := Z.to_nat (nHeight b + 1) in
      SetTip_loop n h (Some p) (resize n None vChain)
  end.

(** [FindFork]. *)
Fixpoint FindFork_loop (fuel : nat) (h : heap) (vChain : CChain) (pindex : option ptr)
  : option (option ptr) :=
  match pindex with
  | None => Some None
  | Some p =>
      c ← Contains h vChain p;
      if c : bool then Some (Some p)
      else match fuel with
           | O => None
           | S f => b ← h !! p; FindFork_loop f h vChain (pprev b)
           end
  end.

Definition FindFork (h : heap) (vChain : CChain) (pindex : option ptr) : option (option ptr) :=
  match pindex with
  | None => Some None
  | Some p =>
      b ← h !! p;
      pindex ← if Height vChain <? nHeight b then GetAncestor h p (Height vChain)
               else Some (Some p);
      FindFork_loop (Z.to_nat (nHeight b + 1)) h vChain pindex
  end.

(** [LastCommonAncestor]. *)
Fixpoint common_loop (fuel : nat) (h : heap) (pa pb : option ptr) : option (option ptr) :=
  if bool_decide (pa = pb) then Some pa
  else match pa, pb with
       | Some a, Some b =>
           match fuel with
           | O => None
           | S f => ba ← h !! a; bb ← h !! b; common_loop f h (pprev ba) (pprev bb)
           end
       | _, _ => None
       end.

Definition LastCommonAncestor (h : heap) (pa pb : ptr) : option (option ptr) :=
  ba ← h !! pa;
  bb ← h !! pb;
  pa' ← if nHeight bb <? nHeight ba then GetAncestor h pa (nHeight bb) else Some (Some pa);
  pb' ← if (nHeight ba <? nHeight bb) then GetAncestor h pb (nHeight ba) else Some (Some pb);
  common_loop (S (Z.to_nat (nHeight ba))) h pa' pb'.

(** [GetLocator]: the hashes of [vHave]. *)
Fixpoint GetLocator_loop (fuel : nat) (h : heap) (vChain : CChain) (pindex : option ptr)
    (nStep : Z) (vHave : list bytes) : option (list bytes) :=
  match pindex with
  | None => Some vHave
  | Some p =>
      b ← h !! p;
      hash ← phashBlock b;
      let vHave := vHave ++ [hash] in
      if nHeight b =? 0 then Some vHave
      else
        let height := Z.max (nHeight b - nStep) 0 in
        c ← Contains h vChain p;
        next ← if c : bool then Some (chain_at vChain height) else GetAncestor h p height;
        let nStep := if 10 <? Z.of_nat (length vHave) then i32 (nStep * 2) else nStep in
        match fuel with
        | O => None
        | S f => GetLocator_loop f h vChain next nStep vHave
        end
  end.

Definition GetLocator (h : heap) (vChain : CChain) (pindex : option ptr) : option (list bytes) :=
  let pindex := match pindex with Some p => Some p | None => Tip vChain end in
  match pindex with
  | None => Some []
  | Some p => b ← h !! p; GetLocator_loop (Z.to_nat (nHeight b)) h vChain (Some p) 1 []
  end.

(** [std::lower_bound]: halving the range [first, first + count). *)
Fixpoint lower_bound (fuel : nat) (less : nat → option bool) (first count : nat) : option nat :=
  match count with
  | O => Some first
  | S _ =>
      match fuel with
      | O => None
      | S f =>
          let step := (count / 2)%nat in
          c ← less (first + step)%nat;
          if c : bool then lower_bound f less (first + step + 1) (count - (step + 1))
          else lower_bound f less first step
      end
  end.

Definition FindEarliestAtLeast (h : heap) (vChain : CChain) (time : Z) : option (option ptr) :=
  let less i := p ← mjoin (vChain !! i); b ← h !! p; Some (nTimeMax b <? time) in
  i ← lower_bound (length vChain) less 0 (length vChain);
  if (i =? length vChain)%nat then Some None else Some (mjoin (vChain !! i)).

(** ** Adding a header *)

Record block_tree := BlockTree {
  entries : heap;
  mapBlockIndex : gmap bytes ptr;
  pindexBestHeader : option ptr;
  setDirtyBlockIndex : gset ptr
}.

(** The part of [AddToBlockIndex] that finds the parent and sets [pprev],
    [nHeight] and [pskip]; [m] is the map with the new entry already in it. *)
Definition link_parent (m : gmap bytes ptr) (h : heap) (pnew : ptr) (hashPrevBlock : bytes)
    (b : CBlockIndex) : option CBlockIndex :=
  match m !! hashPrevBlock with
  | Some q =>
      bq ← <[pnew := b]> h !! q;
      let b := set_links (Some q) (pskip b) (i32 (nHeight bq + 1)) b in
      skip ← BuildSkip (<[pnew := b]> h) b;
      Some (set_links (Some q) skip (nHeight b) b)
  | None => Some b
  end.

(** [CChainState::AddToBlockIndex].  [pnew] is the address [new] returns. *)
Definition AddToBlockIndex (H : bytes → bytes) (pnew : ptr) (block : CBlockHeader.t)
    (s : block_tree) : option (ptr * block_tree) :=
  let hash := CBlockHeader.GetHash H block in
  match mapBlockIndex s !! hash with
  | Some p => Some (p, s)
  | None =>
      let m := <[hash := pnew]> (mapBlockIndex s) in
      b ← link_parent m (entries s) pnew (CBlockHeader.hashPrevBlock block)
            (set_phashBlock (Some hash) (of_header block));
      let h := <[pnew := b]> (entries s) in
      parent ← match pprev b with Some q => bq ← h !! q; Some (Some bq) | None => Some None end;
      let timemax := match parent with
                     | Some bq => Z.max (nTimeMax bq) (nTime b)
                     | None => nTime b
                     end in
      let work := match parent with Some bq => nChainWork bq | None => of_u64 W256 0 end in
      proof ← GetBlockProof b;
      '(b, _) ← RaiseValidity (set_totals timemax (op_add W256 work proof) b) BLOCK_VALID_TREE;
      let h := <[pnew := b]> (entries s) in
      best ← match pindexBestHeader s with
             | None => Some pnew
             | Some q =>
                 bq ← h !! q;
                 Some (if CompareTo W256 (nChainWork bq) (nChainWork b) <? 0 then pnew else q)
             end;
      Some (pnew, BlockTree h m (Some best) ({[pnew]} ∪ setDirtyBlockIndex s))
  end.

(** ** Lemmas: skip heights *)

Lemma land_le_r a b : 0 <= b → Z.land a b <= b.
Proof.
  intros Hb. assert (E : b - Z.land a b = Z.ldiff b (Z.land a b)).
  { apply Z.sub_nocarry_ldiff. apply Z.bits_inj'. intros n _.
    rewrite Z.ldiff_spec, Z.land_spec, Z.bits_0.
    by destruct (Z.testbit a n), (Z.testbit b n). }
  assert (0 <= Z.ldiff b (Z.land a b)) by (apply Z.ldiff_nonneg; by left). lia.
Qed.

Lemma InvertLowestOne_bounds n : 0 < n → 0 <= InvertLowestOne n < n.
Proof.
  intros Hn. unfold InvertLowestOne. split; [apply Z.land_nonneg; lia|].
  pose proof (land_le_r n (n - 1)). lia.
Qed.

Lemma GetSkipHeight_bounds n : 0 < n → 0 <= GetSkipHeight n < n.
Proof.
  intros Hn. unfold GetSkipHeight. bool_cases; [lia|].
  destruct (negb (Z.land n 1 =? 0)); [|by apply InvertLowestOne_bounds].
  assert (Hb : 0 <= InvertLowestOne (n - 1) < n - 1) by (apply InvertLowestOne_bounds; lia).
  destruct (decide (InvertLowestOne (n - 1) = 0)) as [->|]; [change (InvertLowestOne 0) with 0; lia|].
  pose proof (InvertLowestOne_bounds (InvertLowestOne (n - 1))). lia.
Qed.

Lemma follow_skip_height hw height :
  follow_skip hw height = true → height <= GetSkipHeight hw.
Proof.
  unfold follow_skip. intros H. apply orb_true_iff in H as [H|H]; reflect_bools; lia.
Qed.

(** ** Reference definitions: ancestors and paths *)

(** The block [k] steps back along [pprev]. *)
Fixpoint walk (h : heap) (k : nat) (p : ptr) : option ptr :=
  match k with
  | O => Some p
  | S k' => b ← h !! p; q ← pprev b; walk h k' q
  end.

(** [q] is [p] or one of its predecessors. *)
Definition ancestor (h : heap) (q p : ptr) : Prop := ∃ k, walk h k p = Some q.

(** The links of the block index: a root has height 0, another block is one
    higher than its parent, and a skip pointer leads to the ancestor at the skip
    height. *)
Definition links_ok (h : heap) (p : ptr) (b : CBlockIndex) : Prop :=
  is_i32 (nHeight b) ∧ 0 <= nHeight b ∧
  match pprev b with
  | None => nHeight b = 0
  | Some q => ∃ bq, h !! q = Some bq ∧ nHeight b = nHeight bq + 1
  end ∧
  match pskip b with
  | None => True
  | Some q => walk h (Z.to_nat (nHeight b - GetSkipHeight (nHeight b))) p = Some q
  end.

Definition tree_ok (h : heap) : Prop := map_Forall (links_ok h) h.

Section Tree.
Context (h : heap) (Hh : tree_ok h).

Lemma walk_add j k p q : walk h j p = Some q → walk h (j + k) p = walk h k q.
Proof.
  revert p. induction j as [|j IH]; intros p; simpl; [by intros [= ->]|].
  destruct (h !! p) as [b|]; [|done]. simpl. destruct (pprev b) as [r|]; [|done]. simpl. apply IH.
Qed.

Lemma tree_height p b : h !! p = Some b → 0 <= nHeight b.
Proof. intros Hp. by apply Hh in Hp as (_ & ? & _). Qed.

(** A block has an ancestor at each height below its own, and no other. *)
Lemma walk_spec k p b :
  h !! p = Some b → Z.of_nat k <= nHeight b →
  ∃ q bq, walk h k p = Some q ∧ h !! q = Some bq ∧ nHeight bq = nHeight b - Z.of_nat k.
Proof.
  revert p b. induction k as [|k IH]; intros p b Hp Hk.
  { exists p, b. split_and!; [done|done|lia]. }
  simpl. rewrite Hp. simpl. pose proof (Hh _ _ Hp) as (_ & _ & Hpar & _).
  destruct (pprev b) as [q|]; [|lia]. destruct Hpar as (bq & Hq & Hhq). simpl.
  destruct (IH q bq Hq) as (r & br & Hw & Hr & Hhr); [lia|].
  exists r, br. split_and!; [done|done|lia].
Qed.

Lemma walk_inv k p b q :
  h !! p = Some b → walk h k p = Some q →
  ∃ bq, h !! q = Some bq ∧ nHeight b = nHeight bq + Z.of_nat k.
Proof.
  revert p b. induction k as [|k IH]; intros p b Hp Hw.
  { injection Hw as <-. exists b. split; [done|lia]. }
  simpl in Hw. rewrite Hp in Hw. simpl in Hw. pose proof (Hh _ _ Hp) as (_ & _ & Hpar & _).
  destruct (pprev b) as [r|]; [|done]. destruct Hpar as (br & Hr & Hhr). simpl in Hw.
  destruct (IH r br Hr Hw) as (bq & Hq & E). exists bq. split; [done|lia].
Qed.

(** *** [GetAncestor] computes the reference ancestor *)

Lemma GetAncestor_loop_spec fuel height p b :
  h !! p = Some b → 0 <= height → height <= nHeight b →
  nHeight b - height <= Z.of_nat fuel →
  GetAncestor_loop fuel h height p (nHeight b) = walk h (Z.to_nat (nHeight b - height)) p.
Proof.
  revert p b. induction fuel as [|f IH]; intros p b Hp H0 Hle Hf; cbn [GetAncestor_loop];
    (destruct (Z.ltb_spec height (nHeight b)) as [Hlt|Hge];
     [|replace (nHeight b - height) with 0 by lia; done]); [lia|].
  rewrite Hp. cbn [mbind option_bind].
  pose proof (Hh _ _ Hp) as (_ & _ & Hpar & Hskip).
  assert (Hprev : (q ← pprev b; GetAncestor_loop f h height q (nHeight b - 1))
                  = walk h (Z.to_nat (nHeight b - height)) p).
  { replace (Z.to_nat (nHeight b - height)) with (S (Z.to_nat (nHeight b - 1 - height))) by lia.
    cbn [walk]. rewrite Hp. cbn [mbind option_bind].
    destruct (pprev b) as [q|]; [|done]. destruct Hpar as (bq & Hq & Eq).
    cbn [mbind option_bind]. replace (nHeight b - 1) with (nHeight bq) by lia.
    apply IH; [done|lia..]. }
  destruct (pskip b) as [q|]; [|done]. destruct (follow_skip _ _) eqn:Hfs; [|done].
  apply follow_skip_height in Hfs.
  pose proof (GetSkipHeight_bounds (nHeight b)) as Hb.
  destruct (walk_inv _ _ _ _ Hp Hskip) as (bq & Hq & Eq).
  replace (GetSkipHeight (nHeight b)) with (nHeight bq) in * by lia.
  rewrite IH by (done || lia). rewrite <- (walk_add _ _ _ _ Hskip). f_equal. lia.
Qed.

Lemma GetAncestor_spec p b height :
  h !! p = Some b →
  GetAncestor h p height =
    if (nHeight b <? height) || (height <? 0) then Some None
    else Some (walk h (Z.to_nat (nHeight b - height)) p).
Proof.
  intros Hp. unfold GetAncestor. rewrite Hp. cbn [mbind option_bind].
  destruct (Z.ltb_spec (nHeight b) height), (Z.ltb_spec height 0); try done. cbn [orb].
  rewrite (GetAncestor_loop_spec _ _ _ b) by (done || lia).
  destruct (walk_spec (Z.to_nat (nHeight b - height)) p b Hp) as (q & _ & -> & _); [lia|done].
Qed.

(** *** The active chain as a path *)

(** [vChain] is the path from a root to [tip]. *)
Definition is_path (v : CChain) (tip : ptr) : Prop :=
  ∃ b, h !! tip = Some b ∧ length v = Z.to_nat (nHeight b + 1) ∧
       ∀ i, (i < length v)%nat → v !! i = Some (walk h (Z.to_nat (nHeight b) - i) tip).

Definition chain_ok (v : CChain) : Prop := v = [] ∨ ∃ tip, is_path v tip.

(** An entry of [v] at a position up to [k] determines the entries before it. *)
Definition prefix_ok (v : CChain) (k : nat) : Prop :=
  ∀ i r, (i <= k)%nat → v !! i = Some (Some r) →
  ∀ j, (j <= i)%nat → v !! j = Some (walk h (i - j) r).

Lemma chain_prefix_ok v k n : chain_ok v → prefix_ok (resize n None v) k.
Proof.
  intros Hv i r _ Hi j Hj.
  assert (Hlen : (i < n)%nat).
  { apply lookup_lt_Some in Hi. by rewrite length_resize in Hi. }
  destruct (decide (i < length v)%nat) as [Hiv|Hiv]; last first.
  { rewrite lookup_resize_new in Hi by lia. done. }
  rewrite lookup_resize in Hi by lia. rewrite lookup_resize by lia.
  destruct Hv as [->|(tip & b & Hb & Hl & Hp)]; [simpl in Hiv; lia|].
  rewrite Hp in Hi by done. injection Hi as Hi. rewrite Hp by lia. f_equal.
  rewrite <- (walk_add _ _ _ _ Hi). f_equal. lia.
Qed.

Lemma SetTip_loop_spec fuel v q b :
  h !! q = Some b → (Z.to_nat (nHeight b) < fuel)%nat → (Z.to_nat (nHeight b) < length v)%nat →
  prefix_ok v (Z.to_nat (nHeight b)) →
  ∃ v', SetTip_loop fuel h (Some q) v = Some v' ∧ length v' = length v ∧
    (∀ i, (i <= Z.to_nat (nHeight b))%nat → v' !! i = Some (walk h (Z.to_nat (nHeight b) - i) q)) ∧
    (∀ i, (Z.to_nat (nHeight b) < i)%nat → v' !! i = v !! i).
Proof.
  revert v q b. induction fuel as [|f IH]; intros v q b Hq Hf Hl Hv; [lia|].
  cbn [SetTip_loop]. rewrite Hq. cbn [mbind option_bind].
  destruct (lookup_lt_is_Some_2 v (Z.to_nat (nHeight b)) Hl) as [e He]. rewrite He.
  cbn [mbind option_bind]. case_bool_decide as Hcase.
  { subst e. exists v. split_and!; [done|done| |done]. intros i Hi. by eapply Hv. }
  set (k := Z.to_nat (nHeight b)) in *.
  set (v1 := <[k := Some q]> v).
  assert (Hv1k : v1 !! k = Some (Some q)) by (apply list_lookup_insert_eq; lia).
  assert (Hv1 : ∀ i, i ≠ k → v1 !! i = v !! i).
  { intros i Hi. by apply list_lookup_insert_ne. }
  pose proof (Hh _ _ Hq) as (_ & H0 & Hpar & _).
  destruct (pprev b) as [r|] eqn:Hpr.
  - destruct Hpar as (br & Hr & Ehr). pose proof (tree_height _ _ Hr).
    assert (Ek : k = S (Z.to_nat (nHeight br))) by (unfold k; lia).
    destruct (IH v1 r br Hr) as (v' & E & Hl' & Hlow & Hhigh); [lia| | |].
    { unfold v1. rewrite length_insert. lia. }
    { intros i s Hi Hs j Hj. rewrite Hv1 in Hs by lia. rewrite Hv1 by lia.
      eapply Hv; [|exact Hs|exact Hj]. lia. }
    exists v'. split_and!; [done| | |].
    + rewrite Hl'. apply length_insert.
    + intros i Hi. destruct (decide (i = k)) as [->|].
      { rewrite Hhigh, Hv1k by lia. by rewrite Nat.sub_diag. }
      rewrite Hlow by lia. replace (k - i)%nat with (S (Z.to_nat (nHeight br) - i)) by lia.
      cbn [walk]. rewrite Hq. cbn [mbind option_bind]. by rewrite Hpr.
    + intros i Hi. rewrite Hhigh by lia. apply Hv1. lia.
  - exists v1. split_and!; [by destruct f|apply length_insert| |].
    + intros i Hi. assert (i = k) as -> by (unfold k in *; lia). rewrite Hv1k.
      by rewrite Nat.sub_diag.
    + intros i Hi. apply Hv1. lia.
Qed.

Lemma SetTip_path v p b :
  chain_ok v → h !! p = Some b → ∃ v', SetTip h (Some p) v = Some v' ∧ is_path v' p.
Proof.
  intros Hv Hp. pose proof (tree_height _ _ Hp). unfold SetTip. rewrite Hp.
  cbn [mbind option_bind].
  destruct (SetTip_loop_spec (Z.to_nat (nHeight b + 1))
              (resize (Z.to_nat (nHeight b + 1)) None v) p b Hp) as (v' & E & Hl & Hlow & _).
  - lia.
  - rewrite length_resize. lia.
  - by apply chain_prefix_ok.
  - exists v'. split; [done|]. exists b. rewrite length_resize in Hl. split_and!; [done|lia|].
    intros i Hi. apply Hlow. lia.
Qed.

(** *** Membership *)

Lemma path_lookup v tip p b :
  is_path v tip → h !! p = Some b → chain_at v (nHeight b) = Some p ↔ ancestor h p tip.
Proof.
  intros (bt & Ht & Hl & Hp) Hb. pose proof (tree_height _ _ Hb). pose proof (tree_height _ _ Ht).
  unfold chain_at. destruct (Z.ltb_spec (nHeight b) 0); [lia|]. cbn [orb]. split.
  - destruct (Z.leb_spec (Z.of_nat (length v)) (nHeight b)); [done|]. rewrite Hp by lia.
    simpl. intros E. by eexists.
  - intros [k Hk]. destruct (walk_inv _ _ _ _ Ht Hk) as (b' & Hb' & E).
    simplify_eq. destruct (Z.leb_spec (Z.of_nat (length v)) (nHeight b)); [lia|].
    rewrite Hp by lia. simpl. rewrite <- Hk. f_equal. lia.
Qed.

Lemma Contains_spec v tip p b :
  is_path v tip → h !! p = Some b → ∃ c, Contains h v p = Some c ∧ (c = true ↔ ancestor h p tip).
Proof.
  intros Hv Hb. unfold Contains. rewrite Hb. simpl. eexists. split; [done|].
  rewrite bool_decide_eq_true. by apply path_lookup.
Qed.

Lemma chain_at_path v tip b height :
  is_path v tip → h !! tip = Some b → 0 <= height <= nHeight b →
  chain_at v height = walk h (Z.to_nat (nHeight b - height)) tip.
Proof.
  intros (b' & Hb' & Hl & Hp) Hb Hh'. simplify_eq. unfold chain_at.
  destruct (Z.ltb_spec height 0); [lia|].
  destruct (Z.leb_spec (Z.of_nat (length v)) height); [lia|]. cbn [orb].
  rewrite Hp by lia. simpl. f_equal. lia.
Qed.

(** *** Common ancestors *)

Lemma ancestor_refl p : ancestor h p p.
Proof. by exists 0%nat. Qed.

Lemma ancestor_trans r q p : ancestor h r q → ancestor h q p → ancestor h r p.
Proof. intros [k Hk] [j Hj]. exists (j + k)%nat. by rewrite (walk_add _ _ _ _ Hj). Qed.

Lemma ancestor_cases c p b :
  h !! p = Some b → ancestor h c p ↔ c = p ∨ ∃ q, pprev b = Some q ∧ ancestor h c q.
Proof.
  intros Hp. split.
  - intros [[|k] Hk]; simpl in Hk; [left; by injection Hk|right].
    rewrite Hp in Hk. simpl in Hk. destruct (pprev b) as [q|]; [|done].
    exists q. split; [done|]. by exists k.
  - intros [->|(q & Hq & k & Hk)]; [apply ancestor_refl|]. exists (S k). simpl.
    rewrite Hp. simpl. by rewrite Hq.
Qed.

Lemma ancestor_height c p b bc :
  h !! p = Some b → h !! c = Some bc → ancestor h c p → nHeight bc <= nHeight b.
Proof.
  intros Hp Hc [k Hk]. destruct (walk_inv _ _ _ _ Hp Hk) as (b' & ? & ?). simplify_eq. lia.
Qed.

(** The ancestors of a block are linearly ordered. *)
Lemma ancestor_linear a c p ba bc b :
  h !! p = Some b → h !! a = Some ba → h !! c = Some bc →
  ancestor h a p → ancestor h c p → nHeight bc <= nHeight ba → ancestor h c a.
Proof.
  intros Hp Ha Hc [i Hi] [j Hj] Hle.
  destruct (walk_inv _ _ _ _ Hp Hi) as (? & ? & E1), (walk_inv _ _ _ _ Hp Hj) as (? & ? & E2).
  simplify_eq. exists (j - i)%nat. rewrite <- (walk_add _ _ _ _ Hi), <- Hj. f_equal. lia.
Qed.

Lemma ancestor_same_height a p ba b :
  h !! p = Some b → h !! a = Some ba → nHeight ba = nHeight b → ancestor h a p → a = p.
Proof.
  intros Hp Ha E [k Hk]. destruct (walk_inv _ _ _ _ Hp Hk) as (? & ? & ?). simplify_eq.
  destruct k; [by injection Hk|lia].
Qed.

(** [r] is the highest block that is an ancestor of both, null when there is
    none. *)
Definition last_common (p1 p2 : ptr) (r : option ptr) : Prop :=
  match r with
  | Some q => ancestor h q p1 ∧ ancestor h q p2 ∧
              ∀ c, ancestor h c p1 → ancestor h c p2 → ancestor h c q
  | None => ∀ c, ancestor h c p1 → ¬ ancestor h c p2
  end.

Lemma last_common_sym p1 p2 r : last_common p1 p2 r → last_common p2 p1 r.
Proof. destruct r as [q|]; [intros (? & ? & ?); split_and!; auto|intros H c ? ?; by apply (H c)]. Qed.

Lemma last_common_self p1 p2 : ancestor h p1 p2 → last_common p1 p2 (Some p1).
Proof. intros H. split_and!; [apply ancestor_refl|done|auto]. Qed.

(** Going down from [p1] to an ancestor that keeps all common ancestors. *)
Lemma last_common_down p1' p1 p2 r :
  ancestor h p1' p1 → (∀ c, ancestor h c p1 → ancestor h c p2 → ancestor h c p1') →
  last_common p1' p2 r → last_common p1 p2 r.
Proof.
  intros H1 Hall. destruct r as [q|].
  - intros (? & ? & ?). split_and!; [by apply (ancestor_trans q p1' p1)|done|auto].
  - intros H c ? ?. by apply (H c); [apply Hall|].
Qed.

Lemma last_common_parent p1 b1 p2 r q :
  h !! p1 = Some b1 → pprev b1 = Some q → ¬ ancestor h p1 p2 →
  last_common q p2 r → last_common p1 p2 r.
Proof.
  intros H1 Hq Hn. apply last_common_down.
  - apply (ancestor_cases _ _ _ H1). right. exists q. split; [done|apply ancestor_refl].
  - intros c Hc Hc2. apply (ancestor_cases _ _ _ H1) in Hc as [->|(q' & ? & ?)]; [done|].
    by simplify_eq.
Qed.

Lemma last_common_root p1 b1 p2 :
  h !! p1 = Some b1 → pprev b1 = None → ¬ ancestor h p1 p2 → last_common p1 p2 None.
Proof.
  intros H1 Hq Hn c Hc. apply (ancestor_cases _ _ _ H1) in Hc as [->|(q' & ? & ?)]; [done|].
  by simplify_eq.
Qed.

(** [GetAncestor] to the height of the other block loses no common ancestor. *)
Lemma last_common_GetAncestor p1 b1 p2 b2 :
  h !! p1 = Some b1 → h !! p2 = Some b2 → nHeight b2 <= nHeight b1 →
  ∃ q bq, GetAncestor h p1 (nHeight b2) = Some (Some q) ∧ h !! q = Some bq ∧
    nHeight bq = nHeight b2 ∧ ∀ r, last_common q p2 r → last_common p1 p2 r.
Proof.
  intros H1 H2 Hle. pose proof (tree_height _ _ H2) as H0.
  destruct (walk_spec (Z.to_nat (nHeight b1 - nHeight b2)) _ _ H1) as (q & bq & Hw & Hq & Hhq); [lia|].
  exists q, bq. split_and!; [|done|lia|].
  - rewrite (GetAncestor_spec _ _ _ H1), Hw.
    destruct (Z.ltb_spec (nHeight b1) (nHeight b2)), (Z.ltb_spec (nHeight b2) 0); done || lia.
  - intros r. assert (Hanc : ancestor h q p1) by by eexists.
    apply last_common_down; [done|]. intros c Hc1 Hc2.
    destruct Hc2 as [k Hk]. destruct (walk_inv _ _ _ _ H2 Hk) as (bc & Hc & E).
    apply (ancestor_linear q c p1 bq bc b1); [done..|lia].
Qed.

Lemma common_loop_spec fuel a b ba bb :
  h !! a = Some ba → h !! b = Some bb → nHeight ba = nHeight bb →
  (Z.to_nat (nHeight ba) < fuel)%nat →
  ∃ r, common_loop fuel h (Some a) (Some b) = Some r ∧ last_common a b r.
Proof.
  revert a b ba bb. induction fuel as [|f IH]; intros a b ba bb Ha Hb Eh Hf; [lia|].
  cbn [common_loop]. case_bool_decide as Hab.
  { injection Hab as ->. exists (Some b). split; [done|]. apply last_common_self, ancestor_refl. }
  assert (Hne : a ≠ b) by congruence. rewrite Ha, Hb. cbn [mbind option_bind].
  assert (Hna : ¬ ancestor h a b) by (intros ?; by eapply Hne, ancestor_same_height).
  pose proof (Hh _ _ Ha) as (_ & _ & Hpa & _). pose proof (Hh _ _ Hb) as (_ & _ & Hpb & _).
  destruct (pprev ba) as [a'|] eqn:Ea, (pprev bb) as [b'|] eqn:Eb.
  - destruct Hpa as (ba' & Ha' & ?), Hpb as (bb' & Hb' & ?). pose proof (tree_height _ _ Ha').
    destruct (IH a' b' ba' bb' Ha' Hb') as (r & Hr & Hlc); [lia..|].
    exists r. split; [done|]. apply (last_common_parent a ba b r a' Ha Ea Hna).
    apply last_common_sym. apply (last_common_parent b bb a' r b' Hb Eb).
    + intros Hanc. pose proof (ancestor_height _ _ _ _ Ha' Hb Hanc). lia.
    + by apply last_common_sym.
  - destruct Hpa as (ba' & Ha' & ?). pose proof (tree_height _ _ Ha'). lia.
  - destruct Hpb as (bb' & Hb' & ?). pose proof (tree_height _ _ Hb'). lia.
  - exists None. split; [by destruct f|]. by apply (last_common_root a ba).
Qed.

Lemma LastCommonAncestor_spec a b ba bb :
  h !! a = Some ba → h !! b = Some bb →
  ∃ r, LastCommonAncestor h a b = Some r ∧ last_common a b r.
Proof.
  intros Ha Hb. pose proof (tree_height _ _ Ha). pose proof (tree_height _ _ Hb).
  unfold LastCommonAncestor. rewrite Ha, Hb. cbn [mbind option_bind].
  destruct (Z.ltb_spec (nHeight bb) (nHeight ba)) as [Hlt|Hge].
  - destruct (last_common_GetAncestor _ _ _ _ Ha Hb) as (q & bq & -> & Hq & Eq & Hlc); [lia|].
    destruct (Z.ltb_spec (nHeight ba) (nHeight bb)); [lia|]. cbn [mbind option_bind].
    destruct (common_loop_spec (S (Z.to_nat (nHeight ba))) q b bq bb Hq Hb) as (r & Hr & ?); [lia..|].
    exists r. auto.
  - cbn [mbind option_bind]. destruct (Z.ltb_spec (nHeight ba) (nHeight bb)) as [Hlt|].
    + destruct (last_common_GetAncestor _ _ _ _ Hb Ha) as (q & bq & -> & Hq & Eq & Hlc); [lia|].
      cbn [mbind option_bind].
      destruct (common_loop_spec (S (Z.to_nat (nHeight ba))) a q ba bq Ha Hq) as (r & Hr & ?); [lia..|].
      exists r. split; [done|]. by apply last_common_sym, Hlc, last_common_sym.
    + cbn [mbind option_bind]. apply (common_loop_spec _ a b ba bb); [done|done|lia|lia].
Qed.

Lemma FindFork_loop_spec fuel v tip p b :
  is_path v tip → h !! p = Some b → (Z.to_nat (nHeight b) < fuel)%nat →
  ∃ r, FindFork_loop fuel h v (Some p) = Some r ∧ last_common p tip r.
Proof.
  intros Hv. revert p b. induction fuel as [|f IH]; intros p b Hp Hf; [lia|].
  cbn [FindFork_loop]. destruct (Contains_spec _ _ _ _ Hv Hp) as (c & -> & Hc).
  cbn [mbind option_bind]. destruct c.
  { exists (Some p). split; [done|]. by apply last_common_self, Hc. }
  assert (Hn : ¬ ancestor h p tip) by (intros ?%Hc; done). rewrite Hp. cbn [mbind option_bind].
  pose proof (Hh _ _ Hp) as (_ & _ & Hpar & _). destruct (pprev b) as [q|] eqn:Eq.
  - destruct Hpar as (bq & Hq & ?). pose proof (tree_height _ _ Hq).
    destruct (IH q bq Hq) as (r & Hr & ?); [lia|]. exists r. split; [done|].
    by apply (last_common_parent p b tip r q).
  - exists None. split; [by destruct f|]. by apply (last_common_root p b).
Qed.

Lemma FindFork_spec v tip p b :
  is_path v tip → h !! p = Some b →
  ∃ r, FindFork h v (Some p) = Some r ∧ last_common p tip r.
Proof.
  intros Hv Hp. pose proof Hv as (bt & Ht & Hl & _).
  pose proof (tree_height _ _ Ht). pose proof (tree_height _ _ Hp).
  unfold FindFork. rewrite Hp. cbn [mbind option_bind].
  assert (EH : Height v = nHeight bt) by (unfold Height; lia). rewrite EH.
  destruct (Z.ltb_spec (nHeight bt) (nHeight b)).
  - destruct (last_common_GetAncestor _ _ _ _ Hp Ht) as (q & bq & -> & Hq & Eq & Hlc); [lia|].
    cbn [mbind option_bind].
    destruct (FindFork_loop_spec (Z.to_nat (nHeight b + 1)) v tip q bq Hv Hq) as (r & Hr & ?); [lia|].
    exists r. auto.
  - cbn [mbind option_bind]. apply (FindFork_loop_spec _ v tip p b); [done..|lia].
Qed.

(** *** Locators *)

(** The heights [GetLocator] visits: ten steps of one block, then steps that
    double each time, down to the root. *)
Fixpoint locator_heights (fuel : nat) (height step count : Z) : list Z :=
  height ::
  if height =? 0 then []
  else match fuel with
       | O => []
       | S f => locator_heights f (Z.max (height - step) 0)
                  (if 10 <? count + 1 then step * 2 else step) (count + 1)
       end.

(** What a locator entry says: the hash of the ancestor of [p] at a height. *)
Definition hash_at (p : ptr) (height : Z) (hash : bytes) : Prop :=
  ∃ q b, ancestor h q p ∧ h !! q = Some b ∧ nHeight b = height ∧ phashBlock b = Some hash.

Lemma hash_at_trans q p height hash : ancestor h q p → hash_at q height hash → hash_at p height hash.
Proof. intros Hq (r & b & Hr & ?). exists r, b. split; [by apply (ancestor_trans r q p)|done]. Qed.

(** The next block of the loop: from the chain or by [GetAncestor]. *)
Lemma locator_next v tip p b height :
  is_path v tip → h !! p = Some b → 0 <= height <= nHeight b →
  ∃ c q bq, Contains h v p = Some c ∧
    (if c : bool then Some (chain_at v height) else GetAncestor h p height) = Some (Some q) ∧
    h !! q = Some bq ∧ nHeight bq = height ∧ ancestor h q p.
Proof.
  intros Hv Hp Hht. destruct (Contains_spec _ _ _ _ Hv Hp) as (c & Hc & Hiff).
  destruct (walk_spec (Z.to_nat (nHeight b - height)) p b Hp) as (q & bq & Hw & Hq & Hhq); [lia|].
  exists c, q, bq. split_and!; [done| |done|lia|by eexists]. destruct c.
  - destruct Hiff as [[k Hk] _]; [done|]. pose proof Hv as (bt & Ht & _).
    destruct (walk_inv _ _ _ _ Ht Hk) as (b' & Hb' & Eb). simplify_eq.
    rewrite (chain_at_path v tip bt) by (done || lia).
    f_equal. rewrite <- Hw, <- (walk_add _ _ _ _ Hk). f_equal. lia.
  - rewrite (GetAncestor_spec _ _ _ Hp), Hw.
    destruct (Z.ltb_spec (nHeight b) height), (Z.ltb_spec height 0); done || lia.
Qed.

Lemma GetLocator_loop_spec H0 fuel v tip p b step acc :
  is_path v tip → (∀ q bq, h !! q = Some bq → is_Some (phashBlock bq)) →
  h !! p = Some b → (Z.to_nat (nHeight b) <= fuel)%nat →
  H0 < 2 ^ 30 → 1 <= step → (0 < nHeight b → step + nHeight b <= 1 + H0) →
  ∃ l, GetLocator_loop fuel h v (Some p) step acc = Some (acc ++ l) ∧
    Forall2 (hash_at p) (locator_heights fuel (nHeight b) step (Z.of_nat (length acc))) l.
Proof.
  intros Hv Hhash. revert p b step acc. induction fuel as [|f IH]; intros p b step acc Hp Hf HH Hs Hinv.
  all: pose proof (tree_height _ _ Hp) as H1; destruct (Hhash _ _ Hp) as [hash Ehash].
  all: cbn [GetLocator_loop locator_heights]; rewrite Hp; cbn [mbind option_bind]; rewrite Ehash;
    cbn [mbind option_bind].
  all: assert (Hself : hash_at p (nHeight b) hash)
    by (exists p, b; split_and!; [apply ancestor_refl|done..]).
  all: destruct (Z.eqb_spec (nHeight b) 0) as [E0|E0];
    [exists [hash]; split; [done|]; by repeat constructor|try lia].
  destruct (locator_next v tip p b (Z.max (nHeight b - step) 0)) as
    (c & q & bq & -> & Hnext & Hq & Ehq & Hanc); [done|done|lia|].
  cbn [mbind option_bind]. rewrite Hnext. cbn [mbind option_bind].
  rewrite length_app. simpl length.
  replace (Z.of_nat (length acc + 1)) with (Z.of_nat (length acc) + 1) by lia.
  assert (Estep : i32 (step * 2) = step * 2) by (widths; rewrite Z.mod_small; lia).
  rewrite Estep. set (step' := if _ <? _ then _ else _).
  assert (Hs' : step <= step' <= step * 2) by (unfold step'; destruct (10 <? _); lia).
  destruct (IH q bq step' (acc ++ [hash]) Hq) as (l & -> & Hl); [lia..|].
  exists (hash :: l). rewrite <- app_assoc. split; [done|].
  rewrite length_app in Hl. simpl length in Hl.
  replace (Z.of_nat (length acc + 1)) with (Z.of_nat (length acc) + 1) in Hl by lia.
  rewrite Ehq in Hl. constructor; [done|]. eapply Forall2_impl; [exact Hl|].
  intros. by apply (hash_at_trans q).
Qed.

End Tree.

Lemma locator_heights_cons fuel height step count :
  ∃ tl, locator_heights fuel height step count = height :: tl.
Proof. destruct fuel; by eexists. Qed.

(** The shape of the heights: strictly decreasing to the root. *)
Lemma locator_heights_shape fuel height step count :
  0 <= height → (Z.to_nat height <= fuel)%nat → 1 <= step →
  last (locator_heights fuel height step count) = Some 0 ∧
  StronglySorted Z.gt (locator_heights fuel height step count).
Proof.
  revert height step count. induction fuel as [|f IH]; intros height step count H0 Hf Hs;
    cbn [locator_heights]; (destruct (Z.eqb_spec height 0) as [->|];
      [split; [done|by repeat constructor]|try lia]).
  set (step' := if _ <? _ then _ else _).
  assert (Hs' : 1 <= step') by (unfold step'; destruct (10 <? _); lia).
  destruct (IH (Z.max (height - step) 0) step' (count + 1)) as [Hlast Hsort]; [lia..|].
  set (l := locator_heights _ _ _ _) in *. split.
  - destruct l; [done|]. done.
  - constructor; [done|].
    assert (Hle : Forall (λ x, x <= Z.max (height - step) 0) l).
    { destruct (locator_heights_cons f (Z.max (height - step) 0) step' (count + 1)) as [tl Etl].
      fold l in Etl. rewrite Etl in *. apply StronglySorted_inv in Hsort as [_ Hall].
      constructor; [lia|]. eapply Forall_impl; [exact Hall|]. simpl. lia. }
    eapply Forall_impl; [exact Hle|]. simpl. lia.
Qed.

(** [12 + log2] entries: the loop has gone back [locator_drop n] blocks after
    [n] entries. *)
Definition locator_drop (n : Z) : Z := if n <=? 10 then n else 9 + 2 ^ (n - 10).

Lemma locator_drop_bound n H0 : locator_drop n < H0 → n <= 10 + Z.log2 H0.
Proof.
  unfold locator_drop. pose proof (Z.log2_nonneg H0). destruct (Z.leb_spec n 10); [lia|]. intros Hlt.
  pose proof (Z.pow_pos_nonneg 2 (n - 10)). assert (n - 10 <= Z.log2 H0); [|lia].
  apply Z.log2_le_pow2; lia.
Qed.

Lemma locator_drop_succ n :
  0 <= n → locator_drop (n + 1) = locator_drop n + 2 ^ Z.max 0 (n - 10).
Proof.
  intros Hn. unfold locator_drop.
  destruct (Z.leb_spec (n + 1) 10), (Z.leb_spec n 10); try lia.
  - rewrite Z.max_l by lia. done.
  - replace n with 10 by lia. done.
  - rewrite Z.max_r by lia. replace (n + 1 - 10) with (Z.succ (n - 10)) by lia.
    rewrite Z.pow_succ_r by lia. lia.
Qed.

Lemma locator_heights_length H0 fuel height n :
  0 <= n → 0 <= height → (n = 0 ∨ locator_drop (n - 1) < H0) →
  (0 < height → locator_drop n + height <= H0) →
  n + Z.of_nat (length (locator_heights fuel height (2 ^ Z.max 0 (n - 10)) n)) <= 12 + Z.log2 H0.
Proof.
  revert height n. induction fuel as [|f IH]; intros height n Hn Hh0 Hprev Hcur;
    cbn [locator_heights].
  all: pose proof (Z.log2_nonneg H0).
  all: assert (Hend : n + 1 <= 12 + Z.log2 H0)
    by (destruct Hprev as [->|Hp%locator_drop_bound]; lia).
  all: destruct (Z.eqb_spec height 0) as [E|E]; [cbn [length]; lia|].
  { cbn [length]. lia. }
  pose proof (locator_drop_succ n Hn). pose proof (Z.pow_pos_nonneg 2 (Z.max 0 (n - 10))).
  assert (Estep : (if 10 <? n + 1 then 2 ^ Z.max 0 (n - 10) * 2 else 2 ^ Z.max 0 (n - 10))
                  = 2 ^ Z.max 0 (n + 1 - 10)).
  { destruct (Z.ltb_spec 10 (n + 1)).
    - rewrite !Z.max_r by lia. replace (n + 1 - 10) with (Z.succ (n - 10)) by lia.
      rewrite Z.pow_succ_r by lia. lia.
    - by rewrite !Z.max_l by lia. }
  rewrite Estep. cbn [length]. rewrite Nat2Z.inj_succ.
  specialize (IH (Z.max (height - 2 ^ Z.max 0 (n - 10)) 0) (n + 1)).
  replace (n + 1 - 1) with n in IH by lia.
  assert (Hih := IH ltac:(lia) ltac:(lia) ltac:(right; lia) ltac:(lia)). lia.
Qed.

(** ** Lemmas: binary search *)

Lemma lower_bound_spec (c : nat → bool) (less : nat → option bool) N fuel first count :
  (∀ i, (i < N)%nat → less i = Some (c i)) →
  (∀ i j, (i <= j < N)%nat → c j = true → c i = true) →
  (first + count <= N)%nat → (count <= fuel)%nat →
  (∀ i, (i < first)%nat → c i = true) → (∀ i, (first + count <= i < N)%nat → c i = false) →
  ∃ r, lower_bound fuel less first count = Some r ∧ (r <= N)%nat ∧
    (∀ i, (i < r)%nat → c i = true) ∧ (∀ i, (r <= i < N)%nat → c i = false).
Proof.
  intros Hless Hmono. revert first count.
  induction fuel as [|f IH]; intros first count HN Hf Hlo Hhi;
    (destruct count as [|count]; [exists first; split_and!; [done|lia|done|intros; apply Hhi; lia]|try lia]).
  cbn [lower_bound]. set (step := (S count / 2)%nat).
  assert (Hstep : (step <= count)%nat).
  { unfold step. pose proof (Nat.div_lt (S count) 2). lia. }
  rewrite (Hless (first + step)%nat) by lia. cbn [mbind option_bind].
  destruct (c (first + step)%nat) eqn:Ec; apply IH; try lia; try done.
  - intros i Hi. apply (Hmono i (first + step)%nat); [lia|done].
  - intros i Hi. apply Hhi. lia.
  - intros i Hi. destruct (c i) eqn:Ei; [|done].
    rewrite (Hmono (first + step)%nat i) in Ec; [done|lia|done].
Qed.

(** ** Lemmas: work *)

(** The target a difficulty field stands for; [None] when the field is negative,
    zero or too large. *)
Definition compact_target (n : Z) : option Z :=
  let '(target, fNegative, fOverflow) := SetCompact n in
  if fNegative || fOverflow || (value target =? 0) then None else Some (value target).

(** The expected number of hashes for a target. *)
Definition block_work (n : Z) : Z :=
  match compact_target n with Some T => 2 ^ 256 / (T + 1) | None => 0 end.

Lemma compact_target_bounds n T : is_u32 n → compact_target n = Some T → 0 < T < 2 ^ 256 - 1.
Proof.
  intros Hn. unfold compact_target.
  pose proof (SetCompact_ok n Hn) as Hok. pose proof (SetCompact_value n Hn) as Hv.
  pose proof (SetCompact_overflow n Hn) as Ho.
  destruct (SetCompact n) as [[target neg] ov]. cbn [fst snd] in *.
  destruct neg, ov; try done. cbn [orb]. symmetry in Ho. apply Z.leb_gt in Ho.
  destruct (Z.eqb_spec (value target) 0) as [|H0]; [done|]. intros [= <-].
  pose proof (limbs_ok_bound _ _ Hok) as Hb. change (2 ^ (32 * Z.of_nat W256)) with (2 ^ 256) in Hb.
  destruct (compact_parts n Hn) as (Hs & Hw).
  assert (value target ≠ 2 ^ 256 - 1); [|lia].
  unfold compact_magnitude in *. destruct (Z.leb_spec (compact_size n) 3).
  - assert (compact_word n / 2 ^ (8 * (3 - compact_size n)) <= compact_word n).
    { apply Z.div_le_upper_bound; [apply Z.pow_pos_nonneg; lia|].
      pose proof (Z.pow_pos_nonneg 2 (8 * (3 - compact_size n))). nia. }
    rewrite Hv. rewrite Z.mod_small; [|split; [apply Z.div_pos; [lia|apply Z.pow_pos_nonneg; lia]|lia]].
    lia.
  - rewrite Hv, Z.mod_small by nia.
    replace (8 * (compact_size n - 3)) with (Z.succ (8 * (compact_size n - 3) - 1)) by lia.
    rewrite Z.pow_succ_r by lia. intros E. apply (f_equal Z.even) in E.
    assert (Eodd : Z.even (2 ^ 256 - 1) = false) by reflexivity. rewrite Eodd in E.
    rewrite Z.mul_assoc, !Z.even_mul in E. change (Z.even 2) with true in E.
    by rewrite orb_true_r in E.
Qed.

Lemma GetBlockProof_spec b :
  is_u32 (nBits b) →
  ∃ w, GetBlockProof b = Some w ∧ ok256 w ∧ value w = block_work (nBits b).
Proof.
  intros Hn. pose proof (compact_target_bounds (nBits b)) as HT. unfold GetBlockProof, block_work.
  unfold compact_target in *. pose proof (SetCompact_ok _ Hn) as Hok.
  destruct (SetCompact (nBits b)) as [[target neg] ov]. cbn [fst snd] in *.
  rewrite EqualTo_spec by (done || (unfold W256; lia)).
  destruct (neg || ov || (value target =? 0)).
  { eexists. split; [done|]. apply of_u64_256. done. }
  destruct (HT (value target)) as [HT0 HT1]; [done..|].
  destruct (of_u64_256 1) as [H1ok H1v]; [done|].
  destruct (op_not_spec _ _ Hok) as [Hnok Hnv].
  pose proof (op_add_ok _ _ _ Hok H1ok) as Hsok.
  pose proof (op_add_value _ _ _ Hok H1ok) as Hsv. rewrite H1v in Hsv.
  change (2 ^ (32 * Z.of_nat W256)) with (2 ^ 256) in *. rewrite Z.mod_small in Hsv by lia.
  unfold op_add64.
  destruct (op_div_spec W256 (op_not target) (op_add W256 target (of_u64 W256 1)))
    as (q & -> & Hqok & Hqv); [unfold W256; lia|done|done|lia|].
  cbn [mbind option_bind]. eexists. split; [done|]. split; [by apply op_add_ok|].
  rewrite (op_add_value _ _ _ Hqok H1ok), H1v, Hqv, Hnv, Hsv.
  change (2 ^ (32 * Z.of_nat W256)) with (2 ^ 256).
  set (T := value target) in *. set (M := 2 ^ 256) in *.
  assert (E : (M - 1 - T) / (T + 1) + 1 = M / (T + 1)).
  { replace (M - 1 - T) with (M + (-1) * (T + 1)) by lia. rewrite Z.div_add by lia. lia. }
  rewrite E. apply Z.mod_small. split; [apply Z.div_pos; lia|]. apply Z.div_lt; lia.
Qed.

(** ** Lemmas: median time *)

Lemma sorted_around (l1 l2 : list Z) (m : Z) :
  StronglySorted Z.le (l1 ++ m :: l2) →
  Forall (λ x, x <= m) l1 ∧ Forall (λ x, m <= x) l2.
Proof.
  induction l1 as [|a l1 IH]; simpl; intros [H Hall]%StronglySorted_inv; [by split|].
  destruct (IH H) as [H1 H2]. split; [|done]. constructor; [|done].
  by apply Forall_app in Hall as [_ ?%Forall_inv].
Qed.

Lemma filter_none (P : Z → Prop) `{!∀ x, Decision (P x)} (l : list Z) :
  Forall (λ x, ¬ P x) l → filter P l = [].
Proof. induction 1 as [|x l Hx _ IH]; [done|]. by rewrite filter_cons_False. Qed.

(** The element in the middle of a sorted list splits it evenly. *)
Lemma sorted_middle (l : list Z) (k : nat) (m : Z) :
  StronglySorted Z.le l → l !! k = Some m →
  (length (filter (λ x, x < m)%Z l) <= k)%nat ∧
  (length (filter (λ x, m < x)%Z l) <= length l - 1 - k)%nat.
Proof.
  intros Hs Hk. pose proof (lookup_lt_Some _ _ _ Hk) as Hlt.
  rewrite <- (take_drop_middle _ _ _ Hk) in *. apply sorted_around in Hs as [H1 H2].
  rewrite !filter_app, !length_app, !filter_cons_False by lia. split.
  - rewrite (filter_none _ (drop (S k) l)) by (eapply Forall_impl; [exact H2|]; simpl; lia).
    pose proof (length_filter (λ x, x < m)%Z (take k l)). rewrite length_take in *. simpl. lia.
  - rewrite (filter_none _ (take k l)) by (eapply Forall_impl; [exact H1|]; simpl; lia).
    pose proof (length_filter (λ x, m < x)%Z (drop (S k) l)).
    simpl. rewrite length_take, length_drop in *. lia.
Qed.

(** ** The invariant of the block index *)

(** The totals of an entry: the largest time on its branch, and the work of its
    branch modulo 2^256. *)
Definition totals_ok (h : heap) (b : CBlockIndex) : Prop :=
  is_u32 (nBits b) ∧ ok256 (nChainWork b) ∧
  match pprev b with
  | None => nTimeMax b = nTime b ∧ value (nChainWork b) = block_work (nBits b)
  | Some q => ∃ bq, h !! q = Some bq ∧ nTimeMax b = Z.max (nTimeMax bq) (nTime b) ∧
                value (nChainWork b) = (value (nChainWork bq) + block_work (nBits b)) mod 2 ^ 256
  end.

(** [q] is an entry that no other entry beats in work. *)
Definition most_work (h : heap) (q : ptr) : Prop :=
  ∃ bq, h !! q = Some bq ∧
    map_Forall (λ _ b, value (nChainWork b) <= value (nChainWork bq)) h.

Definition index_ok (s : block_tree) : Prop :=
  tree_ok (entries s) ∧
  map_Forall (λ _ b, totals_ok (entries s) b) (entries s) ∧
  map_Forall (λ p b, ∃ hash, phashBlock b = Some hash ∧ mapBlockIndex s !! hash = Some p) (entries s) ∧
  map_Forall (λ hash p, ∃ b, entries s !! p = Some b ∧ phashBlock b = Some hash) (mapBlockIndex s) ∧
  match pindexBestHeader s with None => entries s = ∅ | Some q => most_work (entries s) q end.

Lemma walk_mono (h h' : heap) k p q : h ⊆ h' → walk h k p = Some q → walk h' k p = Some q.
Proof.
  intros Hsub. revert p. induction k as [|k IH]; intros p; simpl; [done|].
  destruct (h !! p) as [b|] eqn:Hp; [|done]. rewrite (lookup_weaken _ _ _ _ Hp Hsub). simpl.
  destruct (pprev b); [|done]. apply IH.
Qed.

Lemma links_ok_mono h h' p b : h ⊆ h' → links_ok h p b → links_ok h' p b.
Proof.
  intros Hsub (H0 & H1 & H2 & H3). split_and!; [done|done| |].
  - destruct (pprev b); [|done]. destruct H2 as (bq & ? & ?). exists bq. split; [|done].
    by apply (lookup_weaken h).
  - destruct (pskip b); [|done]. by apply (walk_mono h).
Qed.

Lemma totals_ok_mono h h' b : h ⊆ h' → totals_ok h b → totals_ok h' b.
Proof.
  intros Hsub (H0 & H1 & H2). split_and!; [done|done|].
  destruct (pprev b); [|done]. destruct H2 as (bq & ? & ?). exists bq. split; [|done].
  by apply (lookup_weaken h).
Qed.

(** A new entry keeps an invariant that grows with the store. *)
Lemma insert_invariant (P : heap → ptr → CBlockIndex → Prop) h pnew b :
  (∀ h h' p b, h ⊆ h' → P h p b → P h' p b) →
  h !! pnew = None → map_Forall (P h) h → P (<[pnew := b]> h) pnew b →
  map_Forall (P (<[pnew := b]> h)) (<[pnew := b]> h).
Proof.
  intros Hmono Hnew Hall Hb. apply map_Forall_insert_2; [done|].
  intros p b' Hp. eapply Hmono; [by apply insert_subseteq|]. by apply Hall.
Qed.

(** What [link_parent] does, for a parent that is not the block itself. *)
Lemma link_parent_spec m h pnew hashPrev b :
  tree_ok h → h !! pnew = None → nHeight b = 0 → pprev b = None → pskip b = None →
  (∀ q, m !! hashPrev = Some q → ∃ bq, h !! q = Some bq ∧ nHeight bq < 2 ^ 31 - 1) →
  ∃ skip height, 
    link_parent m h pnew hashPrev b = Some (set_links (m !! hashPrev) skip height b) ∧
    ∀ b', pprev b' = m !! hashPrev → pskip b' = skip → nHeight b' = height →
          links_ok (<[pnew := b']> h) pnew b'.
Proof.
  intros Hh Hnew Hb0 Hbp Hbs Hpar. unfold link_parent. destruct (m !! hashPrev) as [q|] eqn:Hm; last first.
  { exists None, 0. split; [f_equal; by destruct b; simpl in *; subst|].
    intros b' H1 H2 H3. unfold links_ok. rewrite H1, H2, H3. done. }
  destruct (Hpar q eq_refl) as (bq & Hq & Hlt). pose proof (tree_height h Hh _ _ Hq) as H0.
  assert (Hne : pnew ≠ q) by congruence. rewrite lookup_insert_ne by done. rewrite Hq.
  cbn [mbind option_bind]. rewrite Hbs.
  assert (Ei : i32 (nHeight bq + 1) = nHeight bq + 1) by (widths; rewrite Z.mod_small; lia).
  rewrite Ei. set (b1 := set_links (Some q) None (nHeight bq + 1) b).
  pose proof (GetSkipHeight_bounds (nHeight bq + 1)) as Hsk.
  assert (Hlinks : ∀ b', pprev b' = Some q → nHeight b' = nHeight bq + 1 →
    (pskip b' = None ∨ pskip b' = walk h (Z.to_nat (nHeight bq - GetSkipHeight (nHeight bq + 1))) q) →
    links_ok (<[pnew := b']> h) pnew b').
  { intros b' E1 E2 E3. unfold links_ok. rewrite E1, E2. split_and!; [widths; lia|lia| |].
    - exists bq. split; [by rewrite lookup_insert_ne|done].
    - destruct (pskip b') as [r|]; [|done]. destruct E3 as [?|E3]; [done|].
      replace (Z.to_nat (nHeight bq + 1 - GetSkipHeight (nHeight bq + 1)))
        with (S (Z.to_nat (nHeight bq - GetSkipHeight (nHeight bq + 1)))) by lia.
      cbn [walk]. rewrite lookup_insert_eq. cbn [mbind option_bind]. rewrite E1.
      cbn [mbind option_bind]. apply (walk_mono h); [by apply insert_subseteq|done]. }
  assert (Hh1 : tree_ok (<[pnew := b1]> h)).
  { apply (insert_invariant links_ok); [apply links_ok_mono|done|done|]. apply Hlinks; auto. }
  unfold BuildSkip. change (pprev b1) with (Some q). cbn iota.
  change (nHeight b1) with (nHeight bq + 1).
  rewrite (GetAncestor_spec _ Hh1 q bq) by by rewrite lookup_insert_ne.
  destruct (Z.ltb_spec (nHeight bq) (GetSkipHeight (nHeight bq + 1))); [lia|].
  destruct (Z.ltb_spec (GetSkipHeight (nHeight bq + 1)) 0); [lia|]. cbn [orb mbind option_bind].
  destruct (walk_spec h Hh (Z.to_nat (nHeight bq - GetSkipHeight (nHeight bq + 1))) q bq Hq)
    as (r & br & Hw & _); [lia|].
  rewrite (walk_mono h _ _ _ r) by (done || by apply insert_subseteq).
  exists (Some r), (nHeight bq + 1). split; [done|].
  intros b' E1 E2 E3. apply Hlinks; [done|done|]. right. by rewrite Hw.
Qed.

(** The best header after an insertion. *)
Lemma most_work_insert h q bq pnew b :
  h !! pnew = None → most_work h q → h !! q = Some bq → ok256 (nChainWork bq) →
  ok256 (nChainWork b) →
  most_work (<[pnew := b]> h)
    (if CompareTo W256 (nChainWork bq) (nChainWork b) <? 0 then pnew else q).
Proof.
  intros Hnew (bq' & Hq' & Hall) Hq Hok Hokb. assert (bq' = bq) as -> by congruence.
  rewrite CompareTo_spec by done. assert (pnew ≠ q) by congruence.
  destruct (Z.compare_spec (value (nChainWork bq)) (value (nChainWork b))) as [E|E|E]; simpl.
  all: eexists; (split; [by rewrite ?lookup_insert_eq, ?lookup_insert_ne by done|]).
  all: apply map_Forall_insert_2; [lia|]; eapply map_Forall_impl; [exact Hall|]; simpl; lia.
Qed.

Lemma AddToBlockIndex_spec H pnew block s :
  index_ok s → entries s !! pnew = None → is_u32 (CBlockHeader.nBits block) →
  CBlockHeader.hashPrevBlock block ≠ CBlockHeader.GetHash H block →
  (∀ p b, entries s !! p = Some b → nHeight b < 2 ^ 31 - 1) →
  ∃ p s', AddToBlockIndex H pnew block s = Some (p, s') ∧ index_ok s' ∧
    entries s ⊆ entries s' ∧ mapBlockIndex s' !! CBlockHeader.GetHash H block = Some p.
Proof.
  intros (Htree & Htot & Hhash & Hmap & Hbest) Hnew Hbits Hself Hheights.
  unfold AddToBlockIndex. set (hash := CBlockHeader.GetHash H block) in *.
  destruct (mapBlockIndex s !! hash) as [p|] eqn:Hdup.
  { exists p, s. by split_and!. }
  set (b0 := set_phashBlock (Some hash) (of_header block)).
  set (prev := CBlockHeader.hashPrevBlock block) in *.
  destruct (link_parent_spec (<[hash := pnew]> (mapBlockIndex s)) (entries s) pnew prev b0)
    as (skip & height & -> & Hlinks); [done..| |].
  { intros q. rewrite lookup_insert_ne by done. intros Hq.
    destruct (Hmap _ _ Hq) as (bq & Hbq & _). exists bq. split; [done|]. by apply (Hheights q). }
  rewrite lookup_insert_ne in * by done. cbn [mbind option_bind].
  set (b1 := set_links (mapBlockIndex s !! prev) skip height b0).
  assert (Hparent : ∃ par, 
    match pprev b1 with
    | Some q => bq ← <[pnew := b1]> (entries s) !! q; Some (Some bq)
    | None => Some None
    end = Some par ∧
    match mapBlockIndex s !! prev, par with
    | None, None => True
    | Some q, Some bq => entries s !! q = Some bq
    | _, _ => False
    end).
  { change (pprev b1) with (mapBlockIndex s !! prev).
    destruct (mapBlockIndex s !! prev) as [q|] eqn:Hq; [|by exists None].
    destruct (Hmap _ _ Hq) as (bq & Hbq & _). exists (Some bq). split; [|done].
    rewrite lookup_insert_ne by congruence. by rewrite Hbq. }
  destruct Hparent as (par & -> & Hpar). cbn [mbind option_bind].
  destruct (GetBlockProof_spec b1 Hbits) as (proof & -> & Hpok & Hpv). cbn [mbind option_bind].
  set (work := match par with Some bq => nChainWork bq | None => _ end).
  set (timemax := match par with Some bq => Z.max _ _ | None => _ end).
  assert (Hwok : ok256 work ∧ value work = match par with Some bq => value (nChainWork bq) | None => 0 end).
  { unfold work. destruct par as [bq|]; [|by apply of_u64_256].
    destruct (mapBlockIndex s !! prev) as [q|]; [|done]. by apply Htot in Hpar as (_ & ? & _). }
  destruct Hwok as [Hwok Hwv].
  set (b2 := set_totals timemax (op_add W256 work proof) b1).
  change (RaiseValidity b2 BLOCK_VALID_TREE) with (Some (set_nStatus 2 b2, true)).
  cbn [mbind option_bind]. set (b3 := set_nStatus 2 b2).
  assert (Hok3 : ok256 (nChainWork b3)) by by apply op_add_ok.
  assert (Htot3 : totals_ok (<[pnew := b3]> (entries s)) b3).
  { split_and!; [done|done|]. change (pprev b3) with (mapBlockIndex s !! prev).
    change (nChainWork b3) with (op_add W256 work proof).
    change (nBits b3) with (nBits b1). rewrite op_add_value, Hwv, Hpv by done.
    destruct (mapBlockIndex s !! prev) as [q|], par as [bq|]; try done.
    - exists bq. split; [by rewrite lookup_insert_ne by congruence|done].
    - split; [done|]. rewrite <- Hpv. apply Z.mod_small.
      by apply (limbs_ok_bound W256). }
  assert (Hinv : ∀ best, most_work (<[pnew := b3]> (entries s)) best →
    index_ok (BlockTree (<[pnew := b3]> (entries s)) (<[hash := pnew]> (mapBlockIndex s)) (Some best)
                ({[pnew]} ∪ setDirtyBlockIndex s))).
  { intros best Hb. split_and!; cbn [entries mapBlockIndex pindexBestHeader]; [| | | |done].
    - apply (insert_invariant links_ok); [apply links_ok_mono|done|done|by apply Hlinks].
    - apply (insert_invariant (λ h _ b, totals_ok h b)); [intros ????; apply totals_ok_mono|done..].
    - apply map_Forall_insert_2; [exists hash; split; [done|by rewrite lookup_insert_eq]|].
      intros p b Hb'. destruct (Hhash _ _ Hb') as (hh & ? & ?). exists hh. split; [done|].
      rewrite lookup_insert_ne by congruence. done.
    - apply map_Forall_insert_2; [exists b3; split; [by rewrite lookup_insert_eq|done]|].
      intros hh p Hp. destruct (Hmap _ _ Hp) as (b & Hb' & ?). exists b.
      split; [|done]. rewrite lookup_insert_ne by congruence. done. }
  destruct (pindexBestHeader s) as [q|].
  - destruct Hbest as (bq & Hq & Hall) eqn:Ebest. clear Ebest.
    rewrite lookup_insert_ne, Hq by congruence. cbn [mbind option_bind].
    eexists pnew, _. split; [done|]. split; [|split; [by apply insert_subseteq|apply lookup_insert_eq]].
    apply Hinv. apply most_work_insert; [done|by exists bq|done| |done]. by apply Htot in Hq as (_ & ? & _).
  - cbn [mbind option_bind]. eexists pnew, _. split; [done|].
    split; [|split; [by apply insert_subseteq|apply lookup_insert_eq]].
    apply Hinv. exists b3. rewrite Hbest. split; [by rewrite lookup_insert_eq|].
    apply map_Forall_insert_2; [lia|]. apply map_Forall_empty.
Qed.

(** ** More lemmas for the properties *)

Lemma path_Tip h v p b : h !! p = Some b → 0 <= nHeight b → is_path h v p → Tip v = Some p.
Proof.
  intros Hp H0 (b' & Hb' & Hl & Hv). simplify_eq. unfold Tip. rewrite last_lookup.
  rewrite Hv by lia. simpl. replace (Z.to_nat (nHeight b) - pred (length v))%nat with 0%nat by lia.
  done.
Qed.

(** The largest time grows along a branch. *)
Lemma nTimeMax_mono h q p bq b :
  map_Forall (λ _ b, totals_ok h b) h → h !! p = Some b → h !! q = Some bq →
  ancestor h q p → nTimeMax bq <= nTimeMax b.
Proof.
  intros Ht Hp Hq [k Hk]. revert p b Hp Hk. induction k as [|k IH]; intros p b Hp Hk.
  { injection Hk as ->. simplify_eq. lia. }
  simpl in Hk. rewrite Hp in Hk. simpl in Hk. pose proof (Ht _ _ Hp) as (_ & _ & Hpar).
  destruct (pprev b) as [r|]; [|done]. destruct Hpar as (br & Hr & E & _). simpl in Hk.
  pose proof (IH r br Hr Hk). lia.
Qed.

Lemma past_times_spec h k p b :
  tree_ok h → h !! p = Some b →
  ∃ l, past_times k h (Some p) = Some l ∧
    length l = Nat.min k (Z.to_nat (nHeight b + 1)) ∧
    ∀ x, x ∈ l ↔ ∃ i q bq, (i < k)%nat ∧ walk h i p = Some q ∧ h !! q = Some bq ∧ nTime bq = x.
Proof.
  intros Hh. revert p b. induction k as [|k IH]; intros p b Hp.
  { exists []. split_and!; [done|done|]. intros x. rewrite elem_of_nil. split; [done|].
    intros (i & ? & ? & ? & _). lia. }
  cbn [past_times]. rewrite Hp. cbn [mbind option_bind].
  pose proof (Hh _ _ Hp) as (_ & H0 & Hpar & _).
  assert (Hsplit : ∀ x, (∃ i q bq, (i < S k)%nat ∧ walk h i p = Some q ∧ h !! q = Some bq ∧ nTime bq = x) ↔
    (∃ r, pprev b = Some r ∧ ∃ i q bq, (i < k)%nat ∧ walk h i r = Some q ∧ h !! q = Some bq ∧ nTime bq = x)
    ∨ x = nTime b).
  { intros x. split.
    - intros ([|i] & q & bq & Hi & Hw & Hq & Hx); simpl in Hw.
      { injection Hw as ->. simplify_eq. by right. }
      rewrite Hp in Hw. simpl in Hw. destruct (pprev b) as [r|]; [|done]. left. exists r.
      split; [done|]. exists i, q, bq. split_and!; [lia|done..].
    - intros [(r & Hr & i & q & bq & Hi & Hw & Hq & Hx)| ->].
      + exists (S i), q, bq. simpl. rewrite Hp. simpl. rewrite Hr. split_and!; [lia|done..].
      + exists 0%nat, p, b. split_and!; [lia|done..]. }
  destruct (pprev b) as [r|] eqn:Hr.
  - destruct Hpar as (br & Hbr & Eh). pose proof (tree_height h Hh _ _ Hbr).
    destruct (IH r br Hbr) as (l & -> & Hl & Hin).
    exists (l ++ [nTime b]). split_and!; [done|rewrite length_app, Hl; cbn [length]; lia|].
    intros x. rewrite elem_of_app, list_elem_of_singleton, Hsplit, Hin.
    split; (intros [Hx|Hx]; [left|by right]); [by exists r|by destruct Hx as (r' & [= <-] & Hx)].
  - exists [nTime b]. split_and!; [by destruct k|cbn [length]; lia|].
    intros x. rewrite list_elem_of_singleton, Hsplit.
    split; [by right|by intros [(r & ? & _)|?]].
Qed.

(** ** Properties *)

(** C37: the block index keeps its invariant.  Adding a header always succeeds, keeps
    the entries there are, and afterwards the links, heights, skip pointers, work
    and time totals, the map of hashes and the best header are consistent. *)
Theorem AddToBlockIndex_invariant (H : bytes → bytes) (pnew : ptr) (block : CBlockHeader.t)
    (s : block_tree) :
  index_ok s → entries s !! pnew = None → is_u32 (CBlockHeader.nBits block) →
  CBlockHeader.hashPrevBlock block ≠ CBlockHeader.GetHash H block →
  (∀ p b, entries s !! p = Some b → nHeight b < 2 ^ 31 - 1) →
  ∃ p s', AddToBlockIndex H pnew block s = Some (p, s') ∧ index_ok s' ∧
    entries s ⊆ entries s' ∧ mapBlockIndex s' !! CBlockHeader.GetHash H block = Some p.
Proof. apply AddToBlockIndex_spec. Qed.

(** The skip list is only a shortcut.  [GetAncestor] returns the block that
    following [pprev] step by step reaches at that height, null exactly when the
    height is not one of the branch, and it never dereferences a null pointer. *)
Theorem GetAncestor_correct (h : heap) (p : ptr) (b : CBlockIndex) (height : Z) :
  tree_ok h → h !! p = Some b →
  (0 <= height <= nHeight b →
     ∃ q bq, GetAncestor h p height = Some (Some q) ∧
       walk h (Z.to_nat (nHeight b - height)) p = Some q ∧ h !! q = Some bq ∧ nHeight bq = height) ∧
  (¬ 0 <= height <= nHeight b → GetAncestor h p height = Some None).
Proof.
  intros Hh Hp. rewrite (GetAncestor_spec h Hh p b) by done. split.
  - intros Hr. destruct (walk_spec h Hh (Z.to_nat (nHeight b - height)) p b Hp) as (q & bq & -> & Hq & E); [lia|].
    exists q, bq. destruct (Z.ltb_spec (nHeight b) height), (Z.ltb_spec height 0); [lia..|].
    split_and!; [done|done|done|lia].
  - intros Hr. destruct (Z.ltb_spec (nHeight b) height), (Z.ltb_spec height 0); [done..|lia].
Qed.

(** [SetTip] makes the chain of a block.  From any earlier chain, sharing as much of it
    as there is, the chain becomes the path from the root to the new tip: it
    contains the ancestors of the tip and nothing else. *)
Theorem SetTip_correct (h : heap) (v : CChain) (p : ptr) (b : CBlockIndex) :
  tree_ok h → chain_ok h v → h !! p = Some b →
  ∃ v', SetTip h (Some p) v = Some v' ∧ chain_ok h v' ∧ Tip v' = Some p ∧
    Height v' = nHeight b ∧
    ∀ q, is_Some (h !! q) → Contains h v' q = Some true ↔ ancestor h q p.
Proof.
  intros Hh Hv Hp. pose proof (tree_height h Hh _ _ Hp).
  destruct (SetTip_path h Hh v p b Hv Hp) as (v' & E & Hpath). exists v'.
  split_and!; [done|right; by exists p|by eapply path_Tip| |].
  - destruct Hpath as (b' & Hb' & Hl & _). simplify_eq. unfold Height. lia.
  - intros q [bq Hq]. destruct (Contains_spec h Hh v' p q bq Hpath Hq) as (c & -> & Hc).
    rewrite <- Hc. split; [by intros [= ->]|by intros ->].
Qed.

(** Fork points.  [FindFork] and [LastCommonAncestor] return the highest block
    two branches share, and null when they share none; the assertion that the
    two walks meet never fails. *)
Theorem fork_points (h : heap) (v : CChain) (tip p : ptr) (b : CBlockIndex) :
  tree_ok h → is_path h v tip → h !! p = Some b →
  ∃ r, FindFork h v (Some p) = Some r ∧ LastCommonAncestor h p tip = Some r ∧
       last_common h p tip r.
Proof.
  intros Hh Hv Hp. pose proof Hv as (bt & Ht & _).
  destruct (FindFork_spec h Hh v tip p b Hv Hp) as (r & Hr & Hc).
  destruct (LastCommonAncestor_spec h Hh p tip b bt Hp Ht) as (r' & Hr' & Hc').
  exists r. split_and!; [done| |done]. rewrite Hr'. f_equal.
  destruct r as [x|], r' as [y|]; [| | |done].
  2: { destruct Hc as (A1 & A2 & _). by destruct (Hc' _ A1 A2). }
  2: { destruct Hc' as (A1 & A2 & _). by destruct (Hc _ A1 A2). }
  destruct Hc as (A1 & A2 & A3), Hc' as (B1 & B2 & B3).
  pose proof (A3 y B1 B2) as Hyx. pose proof (B3 x A1 A2) as Hxy.
  destruct A1 as [k Hk]. destruct (walk_inv h Hh _ _ _ _ Hp Hk) as (bx & Hx & _).
  destruct B1 as [j Hj]. destruct (walk_inv h Hh _ _ _ _ Hp Hj) as (by' & Hy & _).
  f_equal. apply (ancestor_same_height h Hh y x by' bx); [done|done| |done].
  pose proof (ancestor_height h Hh y x bx by' Hx Hy Hyx).
  pose proof (ancestor_height h Hh x y by' bx Hy Hx Hxy). lia.
Qed.

(** Locators.  The locator of a block lists hashes of its ancestors at strictly
    decreasing heights, from the block itself down to the root, and has at most
    [12 + log2 height] entries. *)
Theorem GetLocator_correct (h : heap) (v : CChain) (tip p : ptr) (b : CBlockIndex) :
  tree_ok h → is_path h v tip → (∀ q bq, h !! q = Some bq → is_Some (phashBlock bq)) →
  h !! p = Some b → nHeight b < 2 ^ 30 →
  ∃ heights l, GetLocator h v (Some p) = Some l ∧ Forall2 (hash_at h p) heights l ∧
    head heights = Some (nHeight b) ∧ last heights = Some 0 ∧ StronglySorted Z.gt heights ∧
    Z.of_nat (length l) <= 12 + Z.log2 (nHeight b).
Proof.
  intros Hh Hv Hhash Hp Hlt. pose proof (tree_height h Hh _ _ Hp) as H0.
  destruct (GetLocator_loop_spec h Hh (nHeight b) (Z.to_nat (nHeight b)) v tip p b 1 [])
    as (l & Hl & HF); [done|done|done|lia..|].
  exists (locator_heights (Z.to_nat (nHeight b)) (nHeight b) 1 0), l.
  destruct (locator_heights_shape (Z.to_nat (nHeight b)) (nHeight b) 1 0) as [Hlast Hsort]; [lia..|].
  split_and!; [|done| |done|done|].
  - unfold GetLocator. by rewrite Hp.
  - by destruct (locator_heights_cons (Z.to_nat (nHeight b)) (nHeight b) 1 0) as [tl ->].
  - rewrite <- (Forall2_length _ _ _ HF).
    pose proof (locator_heights_length (nHeight b) (Z.to_nat (nHeight b)) (nHeight b) 0) as HL.
    change (2 ^ Z.max 0 (0 - 10)) with 1 in HL. change (locator_drop 0) with 0 in HL.
    assert (Hb := HL ltac:(lia) ltac:(lia) ltac:(by left) ltac:(lia)). by rewrite Z.add_0_l in Hb.
Qed.

(** The work of a block.  [GetBlockProof] is the integer 2^256 / (target + 1),
    computed without leaving 256 bits, and 0 when the difficulty field is no
    target; the division never fails. *)
Theorem GetBlockProof_exact (b : CBlockIndex) :
  is_u32 (nBits b) →
  ∃ w, GetBlockProof b = Some w ∧ ok256 w ∧ value w = block_work (nBits b).
Proof. apply GetBlockProof_spec. Qed.

(** Searching by time.  [FindEarliestAtLeast] returns the first block of the
    chain whose branch has reached the time, and null when none has. *)
Theorem FindEarliestAtLeast_correct (h : heap) (v : CChain) (tip : ptr) (time : Z) :
  tree_ok h → map_Forall (λ _ b, totals_ok h b) h → is_path h v tip →
  ∃ r, FindEarliestAtLeast h v time = Some r ∧
    match r with
    | None => ∀ q bq, h !! q = Some bq → ancestor h q tip → nTimeMax bq < time
    | Some p => ancestor h p tip ∧ (∃ b, h !! p = Some b ∧ time <= nTimeMax b) ∧
                ∀ q bq, h !! q = Some bq → ancestor h q p → q ≠ p → nTimeMax bq < time
    end.
Proof.
  intros Hh Htot Hv. pose proof Hv as (bt & Ht & Hl & Hp). pose proof (tree_height h Hh _ _ Ht) as H0.
  assert (Hat : ∀ i, (i < length v)%nat → ∃ q bq, v !! i = Some (Some q) ∧ h !! q = Some bq ∧
                  nHeight bq = Z.of_nat i ∧ ancestor h q tip).
  { intros i Hi. rewrite Hp by done.
    destruct (walk_spec h Hh (Z.to_nat (nHeight bt) - i) tip bt Ht) as (q & bq & Hw & Hq & E); [lia|].
    exists q, bq. rewrite Hw. split_and!; [done|done|lia|by eexists]. }
  set (c := λ i : nat, match mjoin (v !! i) ≫= (h !!.) with Some b => nTimeMax b <? time | None => false end).
  destruct (lower_bound_spec c (λ i, p ← mjoin (v !! i); b ← h !! p; Some (nTimeMax b <? time))
              (length v) (length v) 0 (length v)) as (r & Er & Hr & Hlo & Hhi).
  - intros i Hi. destruct (Hat i Hi) as (q & bq & E & Hq & _). unfold c. rewrite E. simpl. by rewrite Hq.
  - intros i j Hij. destruct (Hat i) as (q & bq & Ei & Hq & E1 & A1); [lia|].
    destruct (Hat j) as (q' & bq' & Ej & Hq' & E2 & A2); [lia|].
    unfold c. rewrite Ei, Ej. simpl. rewrite Hq, Hq'. intros Hlt%Z.ltb_lt. apply Z.ltb_lt.
    assert (Hqq : ancestor h q q') by (apply (ancestor_linear h Hh q' q tip bq' bq bt); done || lia).
    pose proof (nTimeMax_mono h q q' bq bq' Htot Hq' Hq Hqq). lia.
  - lia.
  - lia.
  - intros; lia.
  - intros; lia.
  - unfold FindEarliestAtLeast. rewrite Er. cbn [mbind option_bind].
    destruct (Nat.eqb_spec r (length v)) as [->|Hne]; (eexists; split; [reflexivity|]).
    + intros q bq Hq Hanc.
      pose proof (ancestor_height h Hh q tip bt bq Ht Hq Hanc). pose proof (tree_height h Hh _ _ Hq).
      apply (path_lookup h Hh v tip q bq Hv Hq) in Hanc. unfold chain_at in Hanc.
      destruct (_ || _); [done|]. pose proof (Hlo (Z.to_nat (nHeight bq)) ltac:(lia)) as Hc.
      unfold c in Hc. rewrite Hanc in Hc. simpl in Hc. rewrite Hq in Hc. by apply Z.ltb_lt.
    + destruct (Hat r) as (p & b & E & Hb & Eh & Ha); [lia|]. rewrite E. simpl. split_and!; [done| |].
      * exists b. split; [done|]. pose proof (Hhi r ltac:(lia)) as Hc. unfold c in Hc.
        rewrite E in Hc. simpl in Hc. rewrite Hb in Hc. by apply Z.ltb_ge.
      * intros q bq Hq Hanc Hqp. pose proof (ancestor_height h Hh q p b bq Hb Hq Hanc).
        pose proof (tree_height h Hh _ _ Hq).
        assert (nHeight bq ≠ nHeight b) by (intros ?; by apply Hqp, (ancestor_same_height h Hh q p bq b)).
        pose proof (ancestor_trans h q p tip Hanc Ha) as Hqt.
        apply (path_lookup h Hh v tip q bq Hv Hq) in Hqt. unfold chain_at in Hqt.
        destruct (_ || _); [done|]. pose proof (Hlo (Z.to_nat (nHeight bq)) ltac:(lia)) as Hc.
        unfold c in Hc. rewrite Hqt in Hc. simpl in Hc. rewrite Hq in Hc. by apply Z.ltb_lt.
Qed.

(** The median time.  [GetMedianTimePast] returns a time of one of the last
    (at most eleven) blocks of the branch; at most half of those times are
    below it and at most half above. *)
Theorem GetMedianTimePast_median (h : heap) (p : ptr) (b : CBlockIndex) :
  tree_ok h → h !! p = Some b →
  ∃ l m, past_times nMedianTimeSpan h (Some p) = Some l ∧ GetMedianTimePast h p = Some m ∧
    m ∈ l ∧ length l = Nat.min 11 (Z.to_nat (nHeight b + 1)) ∧
    (2 * length (filter (λ x, x < m)%Z l) <= length l)%nat ∧
    (2 * length (filter (λ x, m < x)%Z l) <= length l)%nat.
Proof.
  intros Hh Hp. pose proof (tree_height h Hh _ _ Hp).
  destruct (past_times_spec h nMedianTimeSpan p b Hh Hp) as (l & El & Hlen & _).
  unfold nMedianTimeSpan in Hlen.
  pose proof (merge_sort_Permutation Z.le l) as Hperm.
  pose proof (StronglySorted_merge_sort Z.le l) as Hsort.
  assert (Hl' : length (merge_sort Z.le l) = length l) by by rewrite Hperm.
  destruct (lookup_lt_is_Some_2 (merge_sort Z.le l) (length l / 2)) as [m Hm].
  { rewrite Hl'. apply Nat.div_lt; lia. }
  exists l, m. destruct (sorted_middle _ _ _ Hsort Hm) as [Hlow Hhigh].
  rewrite Hperm in Hlow, Hhigh.
  pose proof (Nat.div_mod (length l) 2) as Hdm. pose proof (Nat.mod_upper_bound (length l) 2).
  split_and!; [done| | |done|lia|lia].
  - unfold GetMedianTimePast. rewrite El. cbn [mbind option_bind]. by rewrite Hl'.
  - rewrite <- Hperm. by eapply list_elem_of_lookup_2.
Qed.

(** ** A small index: a root, two children, a grandchild *)

Lemma index_ok_empty : index_ok (BlockTree ∅ ∅ None ∅).
Proof. by split_and!. Qed.

(** [AddToBlockIndex] with the identity in place of the hash. *)
Definition add (pnew : ptr) (block : CBlockHeader.t) (s : block_tree) : block_tree :=
  match AddToBlockIndex id pnew block s with Some (_, s') => s' | None => s end.

Lemma add_ok pnew block s :
  index_ok s → entries s !! pnew = None → is_u32 (CBlockHeader.nBits block) →
  CBlockHeader.hashPrevBlock block ≠ CBlockHeader.GetHash id block →
  map_Forall (λ _ b, nHeight b < 2 ^ 31 - 1) (entries s) → index_ok (add pnew block s).
Proof.
  intros Hs Hn Hb Hne Hh. unfold add.
  destruct (AddToBlockIndex_spec id pnew block s Hs Hn Hb Hne Hh) as (p & s' & -> & ? & _). done.
Qed.

Definition header (prev : bytes) (time nonce : Z) : CBlockHeader.t :=
  CBlockHeader.Header 1 prev uint256_zero uint256_zero time 0x1d00ffff nonce.
Definition hdr0 : CBlockHeader.t := header [] 1000 0.
Definition hdr1 : CBlockHeader.t := header (CBlockHeader.ser hdr0) 1060 1.
Definition hdr2 : CBlockHeader.t := header (CBlockHeader.ser hdr0) 1050 2.
Definition hdr3 : CBlockHeader.t := header (CBlockHeader.ser hdr1) 1040 3.

Definition sample_index0 : block_tree := add 1 hdr0 (BlockTree ∅ ∅ None ∅).
Definition sample_index1 : block_tree := add 2 hdr1 sample_index0.
Definition sample_index2 : block_tree := add 3 hdr2 sample_index1.
Definition sample_index : block_tree := add 4 hdr3 sample_index2.

Lemma sample_index2_ok : index_ok sample_index2.
Proof.
  apply add_ok; [apply add_ok; [apply add_ok; [apply index_ok_empty|..]|..]|..].
  all: by_eval.
Qed.

Lemma sample_index_ok : index_ok sample_index.
Proof. apply add_ok; [apply sample_index2_ok|..]. all: by_eval. Qed.

Definition sample_heap : heap := entries sample_index.
Definition sample_block : CBlockIndex := default (of_header hdr0) (sample_heap !! 4%positive).

Lemma sample_tree_ok : tree_ok sample_heap.
Proof. exact (proj1 sample_index_ok). Qed.

Lemma sample_lookup : sample_heap !! 4%positive = Some sample_block.
Proof. vm_compute. reflexivity. Qed.

Lemma sample_path : is_path sample_heap [Some 1%positive; Some 3%positive] 3%positive.
Proof.
  eexists. split; [vm_compute; reflexivity|]. split; [reflexivity|].
  intros [|[|i]] Hi; [vm_compute; reflexivity..|simpl in Hi; lia].
Qed.

Lemma AddToBlockIndex_invariant_witness :
  ∃ p s', AddToBlockIndex id 4%positive hdr3 sample_index2 = Some (p, s') ∧ index_ok s' ∧
    entries sample_index2 ⊆ entries s' ∧
    mapBlockIndex s' !! CBlockHeader.GetHash id hdr3 = Some p.
Proof.
  apply (AddToBlockIndex_invariant id 4%positive hdr3 sample_index2).
  - apply sample_index2_ok.
  - by_eval.
  - by_eval.
  - by_eval.
  - assert (E : map_Forall (λ _ b, nHeight b < 2 ^ 31 - 1) (entries sample_index2)) by by_eval.
    exact E.
Defined.

Lemma GetAncestor_correct_witness : GetAncestor sample_heap 4%positive 3 = Some None.
Proof.
  apply (GetAncestor_correct sample_heap 4%positive sample_block 3).
  - apply sample_tree_ok.
  - apply sample_lookup.
  - assert (E : nHeight sample_block = 2) by (vm_compute; reflexivity). rewrite E. lia.
Defined.

Lemma SetTip_correct_witness :
  ∃ v', SetTip sample_heap (Some 4%positive) [Some 1%positive; Some 3%positive] = Some v' ∧
    Tip v' = Some 4%positive.
Proof.
  destruct (SetTip_correct sample_heap [Some 1%positive; Some 3%positive] 4%positive sample_block)
    as (v' & E & _ & Ht & _).
  - apply sample_tree_ok.
  - right. eexists. apply sample_path.
  - apply sample_lookup.
  - exists v'. by split.
Defined.

Lemma fork_points_witness :
  ∃ r, FindFork sample_heap [Some 1%positive; Some 3%positive] (Some 4%positive) = Some r ∧
    last_common sample_heap 4%positive 3%positive r.
Proof.
  destruct (fork_points sample_heap [Some 1%positive; Some 3%positive] 3%positive 4%positive sample_block)
    as (r & E & _ & Hc).
  - apply sample_tree_ok.
  - apply sample_path.
  - apply sample_lookup.
  - exists r. by split.
Defined.

Lemma GetLocator_correct_witness :
  ∃ heights l, GetLocator sample_heap [Some 1%positive; Some 3%positive] (Some 4%positive) = Some l ∧
    Forall2 (hash_at sample_heap 4%positive) heights l ∧ last heights = Some 0.
Proof.
  destruct (GetLocator_correct sample_heap [Some 1%positive; Some 3%positive] 3%positive 4%positive
              sample_block) as (hs & l & E & HF & _ & Hl & _).
  - apply sample_tree_ok.
  - apply sample_path.
  - assert (E : map_Forall (λ _ b, is_Some (phashBlock b)) sample_heap) by by_eval. exact E.
  - apply sample_lookup.
  - assert (E : nHeight sample_block = 2) by (vm_compute; reflexivity). rewrite E. lia.
  - exists hs, l. by split_and!.
Defined.

Lemma GetBlockProof_exact_witness :
  ∃ w, GetBlockProof sample_block = Some w ∧ value w = 4295032833.
Proof.
  destruct (GetBlockProof_exact sample_block) as (w & E & _ & Hw); [by_eval|].
  exists w. split; [done|]. rewrite Hw. vm_compute. reflexivity.
Defined.

Lemma FindEarliestAtLeast_correct_witness :
  ∃ r, FindEarliestAtLeast sample_heap [Some 1%positive; Some 3%positive] 1020 = Some r.
Proof.
  destruct (FindEarliestAtLeast_correct sample_heap [Some 1%positive; Some 3%positive] 3%positive 1020)
    as (r & E & _).
  - apply sample_tree_ok.
  - exact (proj1 (proj2 sample_index_ok)).
  - apply sample_path.
  - by exists r.
Defined.

Lemma GetMedianTimePast_median_witness :
  ∃ l m, past_times nMedianTimeSpan sample_heap (Some 4%positive) = Some l ∧
    GetMedianTimePast sample_heap 4%positive = Some m ∧ m ∈ l.
Proof.
  destruct (GetMedianTimePast_median sample_heap 4%positive sample_block) as (l & m & E & Em & Hm & _).
  - apply sample_tree_ok.
  - apply sample_lookup.
  - exists l, m. by split_and!.
Defined.
