(* ===== verification/Pow.v ===== *)
(** Difficulty and proofs, after [src/src/pow.cpp], [GetNextTargetRequired] of
    [src/src/validation.cpp] and the kernel functions of
    [src/src/pos/kernel.cpp].

    [None] is a failed assertion, a null dereference or a division by zero.  An
    [int64_t] operand of [operator*=] is converted to [uint32_t], the overload
    C++ selects; an operand of [operator/=] is converted to [uint64_t]. *)
From stdpp Require Import gmap.
From S2P Require Import Prelude ArithUint256 Serialize Script Transaction Chain.
Import base_uint arith_uint256.

(** [Consensus::Params] and [CChainParams], as far as difficulty goes. *)
Record params := Params {
  powLimit : bytes;
  fPowAllowMinDifficultyBlocks : bool;
  fPowNoRetargeting : bool;
  nPowTargetSpacing : Z;
  nPowTargetTimespan : Z;
  nTargetSpacing : Z;
  nTargetTimespan : Z;
  nLastImportHeight : Z;
  nStakeMinConfirmations : Z;
  nStakeTimestampMask : Z
}.

Definition DifficultyAdjustmentInterval (ps : params) : Z :=
  Z.quot (nPowTargetTimespan ps) (nPowTargetSpacing ps).

(** ** Proof of work *)

Definition CalculateNextWorkRequired (ps : params) (last : CBlockIndex) (nFirstBlockTime : Z)
  : option Z :=
  if fPowNoRetargeting ps then Some (nBits last)
  else
    let nActualTimespan := i64 (nTime last - nFirstBlockTime) in
    let low := Z.quot (nPowTargetTimespan ps) 4 in
    let high := i64 (nPowTargetTimespan ps * 4) in
    let nActualTimespan := if nActualTimespan <? low then low else nActualTimespan in
    let nActualTimespan := if high <? nActualTimespan then high else nActualTimespan in
    let bnPowLimit := UintToArith256 (powLimit ps) in
    let bnNew := fst (fst (SetCompact (nBits last))) in
    let bnNew := op_mul32 W256 bnNew (u32 nActualTimespan) in
    bnNew ← op_div W256 bnNew (of_u64 W256 (u64 (nPowTargetTimespan ps)));
    let bnNew := if 0 <? CompareTo W256 bnNew bnPowLimit then bnPowLimit else bnNew in
    Some (GetCompact bnNew false).

(** [while (pindex->pprev && pindex->nHeight % interval != 0 && pindex->nBits == limit)]. *)
Fixpoint last_normal (fuel : nat) (h : heap) (interval limit : Z) (p : ptr) : option Z :=
  b ← h !! p;
  match pprev b with
  | Some q =>
      if negb (Z.rem (nHeight b) interval =? 0) && (nBits b =? limit) then
        match fuel with
        | O => None
        | S f => last_normal f h interval limit q
        end
      else Some (nBits b)
  | None => Some (nBits b)
  end.

(** [GetNextWorkRequired]; [blockTime] is [pblock->GetBlockTime()]. *)
Definition GetNextWorkRequired (ps : params) (h : heap) (pindexLast : ptr) (blockTime : Z)
  : option Z :=
  b ← h !! pindexLast;
  let nProofOfWorkLimit := GetCompact (UintToArith256 (powLimit ps)) false in
  let interval := DifficultyAdjustmentInterval ps in
  if negb (Z.rem (nHeight b + 1) interval =? 0) then
    if fPowAllowMinDifficultyBlocks ps then
      if nTime b + nPowTargetSpacing ps * 2 <? blockTime then Some nProofOfWorkLimit
      else last_normal (Z.to_nat (nHeight b)) h interval nProofOfWorkLimit pindexLast
    else Some (nBits b)
  else
    let nHeightFirst := nHeight b - (interval - 1) in
    if nHeightFirst <? 0 then None
    else
      pindexFirst ← GetAncestor h pindexLast nHeightFirst;
      pindexFirst ← pindexFirst;
      bf ← h !! pindexFirst;
      CalculateNextWorkRequired ps b (nTime bf).

(** The common part of the two [CheckProofOfWork]: the range of the target and
    the hash. *)
Definition check_target (hash : bytes) (bits : Z) (limit : t) : bool :=
  let '(bnTarget, fNegative, fOverflow) := SetCompact bits in
  if fNegative || EqualTo W256 bnTarget 0 || fOverflow || (0 <? CompareTo W256 bnTarget limit)
  then false
  else negb (0 <? CompareTo W256 (UintToArith256 hash) bnTarget).

Definition CheckProofOfWork (ps : params) (hash : bytes) (bits : Z) : bool :=
  check_target hash bits (UintToArith256 (powLimit ps)).

(** [arith_uint256("00ffff...")] and [arith_uint256("000000000008ffff...")]. *)
Definition import_limit : t := replicate 7 0xffffffff ++ [0x00ffffff].
Definition import_max : t := replicate 6 0xffffffff ++ [0x0008ffff; 0].

(** The second [CheckProofOfWork], for imported blocks. *)
Definition CheckProofOfWork_import (ps : params) (hash : bytes) (bits nBlockHeight lastImport : Z)
  : option bool :=
  limit ← if nBlockHeight <? lastImport then
            let nMax := UintToArith256 (powLimit ps) in
            nStep ← op_div W256 (op_sub W256 nMax import_limit) (of_u64 W256 (u64 lastImport));
            Some (op_add W256 import_limit (op_mul32 W256 nStep (u32 nBlockHeight)))
          else Some (UintToArith256 (powLimit ps));
  Some (check_target hash bits limit).

(** ** The target of proof of stake *)

(** The limit [GetNextTargetRequired] works with at a height. *)
Definition stake_limit (ps : params) (nHeight : Z) : option t :=
  if nHeight <? i32 (nLastImportHeight ps) then
    nStep ← op_div W256 (op_sub W256 import_max (UintToArith256 (powLimit ps)))
              (of_u64 W256 (u64 (i32 (nLastImportHeight ps))));
    Some (op_sub W256 import_max (op_mul32 W256 nStep (u32 nHeight)))
  else Some (UintToArith256 (powLimit ps)).

(** The retargeting step: spacing in seconds, the last difficulty field and the
    limit. *)
Definition stake_retarget (ps : params) (limit : t) (nActualSpacing bits : Z) : option Z :=
  let spacing := nTargetSpacing ps in
  let nActualSpacing :=
    if spacing * 10 <? nActualSpacing then spacing * 10 else nActualSpacing in
  let bnNew := fst (fst (SetCompact bits)) in
  let nInterval := Z.quot (nTargetTimespan ps) spacing in
  let bnNew := op_mul32 W256 bnNew
                 (u32 (i64 ((nInterval - 1) * spacing + nActualSpacing + nActualSpacing))) in
  bnNew ← op_div W256 bnNew (of_u64 W256 (u64 (i64 ((nInterval + 1) * spacing))));
  if (CompareTo W256 bnNew (of_u64 W256 0) <=? 0) || (0 <? CompareTo W256 bnNew limit)
  then Some (GetCompact limit false)
  else Some (GetCompact bnNew false).

Definition GetNextTargetRequired (ps : params) (h : heap) (pindexLast : option ptr) : option Z :=
  last ← match pindexLast with Some p => b ← h !! p; Some (Some b) | None => Some None end;
  let height := match last with Some b => nHeight b + 1 | None => 0 end in
  if (height <? i32 (nLastImportHeight ps)) && (height =? 0)
  then Some (GetCompact import_limit false)
  else
    limit ← stake_limit ps height;
    match last with
    | None => Some (GetCompact limit false)
    | Some b =>
        match pprev b with
        | None => Some (GetCompact limit false)
        | Some q =>
            bq ← h !! q;
            match pprev bq with
            | None => Some (GetCompact limit false)
            | Some _ => stake_retarget ps limit (nTime b - nTime bq) (nBits b)
            end
        end
    end.

(** ** Proof of stake *)

Definition ComputeStakeModifierV2 (H : bytes → bytes) (pindexPrev : option CBlockIndex)
    (kernel : bytes) : bytes :=
  match pindexPrev with
  | None => uint256_zero
  | Some b => H (kernel ++ bnStakeModifier b)
  end.

(** The hash of a kernel. *)
Definition kernel_hash (H : bytes → bytes) (pindexPrev : CBlockIndex) (nBlockFromTime : Z)
    (prevout : COutPoint) (time : Z) : bytes :=
  H (bnStakeModifier pindexPrev ++ c_ser c_u32 nBlockFromTime ++ hash prevout
     ++ c_ser c_u32 (n prevout) ++ c_ser c_u32 time).

(** [CheckStakeKernelHash]: the verdict, [hashProofOfStake] and
    [targetProofOfStake]; the last two are only set on the way. *)
Definition CheckStakeKernelHash (H : bytes → bytes) (pindexPrev : CBlockIndex)
    (bits nBlockFromTime prevOutAmount : Z) (prevout : COutPoint) (time : Z)
  : bool * option (bytes * bytes) :=
  if time <? nBlockFromTime then (false, None)
  else
    let '(bnTarget, fNegative, fOverflow) := SetCompact bits in
    if fNegative || fOverflow || EqualTo W256 bnTarget 0 then (false, None)
    else
      let bnTarget := op_mul W256 bnTarget (of_u64 W256 (u64 prevOutAmount)) in
      let proof := kernel_hash H pindexPrev nBlockFromTime prevout time in
      (negb (0 <? CompareTo W256 (UintToArith256 proof) bnTarget),
       Some (proof, ArithToUint256 bnTarget)).

Definition CheckCoinStakeTimestamp (ps : params) (nTimeBlock : Z) : bool :=
  Z.land nTimeBlock (nStakeTimestampMask ps) =? 0.

(** [IsConfirmedInNPrevBlocks]: [Some (Some d)] when the block is among the
    [nMaxDepth] blocks ending at [pindexFrom], at depth [d]. *)
Fixpoint confirmed_loop (fuel : nat) (h : heap) (hashBlock : bytes) (from nMaxDepth : Z)
    (pindex : option ptr) : option (option Z) :=
  match pindex with
  | None => Some None
  | Some p =>
      b ← h !! p;
      if from - nHeight b <? nMaxDepth then
        bh ← phashBlock b;
        if bool_decide (hashBlock = bh) then Some (Some (from - nHeight b + 1))
        else match fuel with
             | O => None
             | S f => confirmed_loop f h hashBlock from nMaxDepth (pprev b)
             end
      else Some None
  end.

Definition IsConfirmedInNPrevBlocks (h : heap) (hashBlock : bytes) (pindexFrom : ptr)
    (nMaxDepth : Z) : option (option Z) :=
  b ← h !! pindexFrom;
  confirmed_loop (Z.to_nat (nHeight b + 1)) h hashBlock (nHeight b) nMaxDepth (Some pindexFrom).

(** The depth a kernel must have below [height]. *)
Definition required_depth (ps : params) (height : Z) : Z :=
  Z.min (i32 (u32 (nStakeMinConfirmations ps - 1))) (Z.quot height 2).

Definition CheckAge (ps : params) (h : heap) (pindexTip : ptr) (hashKernelBlock : bytes)
  : option bool :=
  b ← h !! pindexTip;
  r ← IsConfirmedInNPrevBlocks h hashKernelBlock pindexTip (required_depth ps (nHeight b));
  Some (match r with Some _ => false | None => true end).

(** ** Lemmas: hashes as numbers *)

Lemma ReadLE32_value p : bytes_ok p → (4 <= length p)%nat → ReadLE32 p = le_value (take 4 p).
Proof.
  intros Hp Hl. destruct p as [|b0 [|b1 [|b2 [|b3 p]]]]; simpl in Hl; try lia.
  do 4 (apply Forall_cons in Hp as [? Hp]). cbn [ReadLE32 take le_value]. widths.
  rewrite !Z.shiftl_mul_pow2 by lia. rewrite lor_add_disjoint by lia.
  replace (b2 * 2 ^ 16 + b3 * 2 ^ 24) with ((b2 + b3 * 2 ^ 8) * 2 ^ 16) by lia.
  rewrite lor_add_disjoint by lia.
  replace (b1 * 2 ^ 8 + (b2 + b3 * 2 ^ 8) * 2 ^ 16)
    with ((b1 + (b2 + b3 * 2 ^ 8) * 2 ^ 8) * 2 ^ 8) by lia.
  rewrite lor_add_disjoint by lia. rewrite take_0. cbn [le_value]. lia.
Qed.

Lemma UintToArith256_loop a n k :
  bytes_ok a → (4 * (k + n) <= length a)%nat →
  let l := map (λ x, ReadLE32 (drop (4 * x) a)) (seq k n) in
  Forall is_u32 l ∧ value l = le_value (take (4 * n) (drop (4 * k) a)).
Proof.
  intros Ha. revert k. induction n as [|n IH]; intros k Hl; [by split; [constructor|]|].
  destruct (IH (S k)) as [IH1 IH2]; [lia|]. cbn [seq map value].
  rewrite ReadLE32_value; [|by apply Forall_drop|rewrite length_drop; lia].
  assert (H4 : length (take 4 (drop (4 * k) a)) = 4%nat) by (rewrite length_take, length_drop; lia).
  split.
  - constructor; [|done]. pose proof (le_value_bound (take 4 (drop (4 * k) a))) as Hb.
    rewrite H4 in Hb. apply Hb. by apply Forall_take, Forall_drop.
  - rewrite IH2. replace (4 * S n)%nat with (4 + 4 * n)%nat by lia.
    rewrite <- take_take_drop, le_value_app, H4, drop_drop.
    replace (4 * k + 4)%nat with (4 * S k)%nat by lia. done.
Qed.

Lemma UintToArith256_spec a :
  bytes_ok a → length a = 32%nat → ok256 (UintToArith256 a) ∧ value (UintToArith256 a) = le_value a.
Proof.
  intros Ha Hl. destruct (UintToArith256_loop a 8 0 Ha) as [H1 H2]; [lia|]. split.
  - split; [done|]. done.
  - unfold UintToArith256, W256. rewrite H2. f_equal. rewrite drop_0. apply take_ge. lia.
Qed.

(** [a > b] on 256-bit numbers. *)
Lemma CompareTo_gt a b :
  ok256 a → ok256 b → (0 <? CompareTo W256 a b) = (value b <? value a).
Proof.
  intros Ha Hb. rewrite CompareTo_spec by done.
  destruct (Z.compare_spec (value a) (value b)), (Z.ltb_spec (value b) (value a)); (done || lia).
Qed.

Lemma check_target_spec hash bits limit :
  bytes_ok hash → length hash = 32%nat → is_u32 bits → ok256 limit →
  check_target hash bits limit = true ↔
  ∃ T, compact_target bits = Some T ∧ le_value hash <= T <= value limit.
Proof.
  intros Hh Hl Hb Hlim. unfold check_target, compact_target.
  pose proof (SetCompact_ok bits Hb) as Hok. destruct (SetCompact bits) as [[T neg] ov].
  cbn [fst] in Hok. destruct (UintToArith256_spec hash Hh Hl) as [Huok Huv].
  rewrite EqualTo_spec by (done || (unfold W256; lia)). rewrite !CompareTo_gt, Huv by done.
  destruct neg, ov, (value T =? 0); cbn [orb]; try (split; [done|intros (? & ? & _); done]).
  destruct (Z.ltb_spec (value limit) (value T)).
  - split; [done|]. intros (? & [= <-] & ?). lia.
  - rewrite negb_true_iff, Z.ltb_ge. split; [intros ?; exists (value T); split; [done|lia]|].
    intros (? & [= <-] & ?). lia.
Qed.

(** *** Retargeting *)

(** The target a difficulty field decodes to. *)
Definition target_of (bits : Z) : Z := value (fst (fst (SetCompact bits))).

(** Encoding a number rounds it down and gives a proper target. *)
Lemma GetCompact_le x :
  ok256 x → is_u32 (GetCompact x false) ∧ target_of (GetCompact x false) <= value x.
Proof.
  intros Hx. destruct (GetCompact_mantissa x) as [m e] eqn:Em.
  destruct (SetCompact_GetCompact_round _ _ _ Hx Em) as (r & Hr & Hrok & Hv).
  split.
  - by destruct (GetCompact_unsigned x m e Hx Em) as (_ & _ & ? & _).
  - unfold target_of. rewrite Hr. cbn [fst]. rewrite Hv.
    pose proof (limbs_ok_bound _ _ Hx). destruct (Z.leb_spec e 3); [lia|].
    pose proof (Z.pow_pos_nonneg 2 (8 * (e - 3))).
    pose proof (Z.mul_div_le (value x) (2 ^ (8 * (e - 3)))). lia.
Qed.

(** [bnNew *= m; bnNew /= d]: the product is reduced modulo 2^256. *)
Lemma scale_spec bits m d :
  is_u32 bits → is_u32 m → 0 < d < 2 ^ 64 →
  ∃ q, op_div W256 (op_mul32 W256 (fst (fst (SetCompact bits))) m) (of_u64 W256 d) = Some q ∧
    ok256 q ∧ value q = (target_of bits * m) mod 2 ^ 256 / d.
Proof.
  intros Hb Hm Hd. pose proof (SetCompact_ok bits Hb) as Hok.
  destruct (of_u64_256 d) as [Hdok Hdv]; [widths; lia|].
  destruct (op_div_spec W256 (op_mul32 W256 (fst (fst (SetCompact bits))) m) (of_u64 W256 d))
    as (q & E & Hq & Hv); [unfold W256; lia|by apply op_mul32_ok|done|lia|].
  exists q. split_and!; [done|done|]. rewrite Hv, op_mul32_value, Hdv by done. done.
Qed.

(** ** Parameters of the main network *)

Definition main_params : params :=
  Params (replicate 31 0xff ++ [0x7f]) false false 60 (14 * 24 * 60 * 60) 60 (24 * 60) 0 225 15.

Definition main_limit : t := UintToArith256 (powLimit main_params).

(** ** Properties *)

(** Proof of work.  A hash is accepted exactly when the difficulty field is a
    target (positive, not too large), the target is at most the limit, and the
    hash, read as a little-endian number, is at most the target. *)
Theorem CheckProofOfWork_exact (ps : params) (hash : bytes) (bits : Z) :
  bytes_ok hash → length hash = 32%nat → bytes_ok (powLimit ps) →
  length (powLimit ps) = 32%nat → is_u32 bits →
  CheckProofOfWork ps hash bits = true ↔
  ∃ T, compact_target bits = Some T ∧ le_value hash <= T <= le_value (powLimit ps).
Proof.
  intros Hh Hl Hp Hpl Hb. destruct (UintToArith256_spec (powLimit ps) Hp Hpl) as [Hok Hv].
  unfold CheckProofOfWork. rewrite check_target_spec by done. by rewrite Hv.
Qed.

Lemma CheckProofOfWork_exact_witness :
  CheckProofOfWork main_params (replicate 32 0) 0x1f00ffff = true.
Proof.
  apply (CheckProofOfWork_exact main_params (replicate 32 0) 0x1f00ffff).
  - by_eval.
  - reflexivity.
  - by_eval.
  - reflexivity.
  - by_eval.
  - eexists. split; [vm_compute; reflexivity|]. by_eval.
Defined.

(** Retargeting of proof of work.  The new difficulty field encodes the old
    target scaled by the clamped timespan and capped at the limit, the product
    taken modulo 2^256, and it never decodes to a target above the limit. *)
Theorem CalculateNextWorkRequired_exact (ps : params) (last : CBlockIndex) (first : Z) :
  bytes_ok (powLimit ps) → length (powLimit ps) = 32%nat → fPowNoRetargeting ps = false →
  4 <= nPowTargetTimespan ps < 2 ^ 30 → is_u32 (nBits last) → is_u32 (nTime last) → is_u32 first →
  let span := nPowTargetTimespan ps in
  let actual := Z.max (span / 4) (Z.min (span * 4) (nTime last - first)) in
  ∃ x r, CalculateNextWorkRequired ps last first = Some r ∧ r = GetCompact x false ∧
    value x = Z.min (le_value (powLimit ps)) ((target_of (nBits last) * actual) mod 2 ^ 256 / span) ∧
    target_of r <= le_value (powLimit ps).
Proof.
  intros Hp Hpl Hno Hspan Hb Ht Hf span actual.
  destruct (UintToArith256_spec (powLimit ps) Hp Hpl) as [Hok Hv].
  unfold CalculateNextWorkRequired. rewrite Hno. fold span.
  assert (E1 : i64 (nTime last - first) = nTime last - first) by (widths; rewrite Z.mod_small; lia).
  assert (E2 : i64 (span * 4) = span * 4) by (widths; unfold span in *; rewrite Z.mod_small; lia).
  assert (E3 : Z.quot span 4 = span / 4) by (apply Z.quot_div_nonneg; unfold span in *; lia).
  rewrite E1, E2, E3. set (a1 := if nTime last - first <? span / 4 then _ else _).
  set (a2 := if span * 4 <? a1 then _ else _).
  assert (Ea : a2 = actual).
  { unfold a2, a1, actual. pose proof (Z.div_mod span 4). unfold span in *.
    pose proof (Z.mod_pos_bound (nPowTargetTimespan ps) 4). bool_cases; lia. }
  rewrite Ea. assert (Hact : is_u32 actual).
  { unfold actual. pose proof (Z.div_mod span 4). pose proof (Z.mod_pos_bound span 4).
    unfold span in *. widths. lia. }
  assert (E4 : u32 actual = actual) by (apply Z.mod_small; exact Hact).
  assert (E5 : u64 span = span) by (apply Z.mod_small; unfold span; lia). rewrite E4, E5.
  destruct (scale_spec (nBits last) actual span) as (q & -> & Hqok & Hqv);
    [done|done|unfold span; lia|].
  cbn [mbind option_bind]. rewrite CompareTo_gt, Hv by done.
  eexists _, _. split; [reflexivity|]. split; [reflexivity|].
  destruct (Z.ltb_spec (le_value (powLimit ps)) (value q)).
  - destruct (GetCompact_le (UintToArith256 (powLimit ps)) Hok) as [_ Hle]. split; lia.
  - destruct (GetCompact_le q Hqok) as [_ Hle]. split; lia.
Qed.

(** A block index entry with a time and a difficulty field. *)
Definition entry (time bits : Z) : CBlockIndex :=
  of_header (CBlockHeader.Header 1 [] uint256_zero uint256_zero time bits 0).

Lemma CalculateNextWorkRequired_exact_witness :
  ∃ r, CalculateNextWorkRequired main_params (entry 2000000 0x1d00ffff) 1000000 = Some r ∧
       target_of r <= le_value (powLimit main_params).
Proof.
  destruct (CalculateNextWorkRequired_exact main_params (entry 2000000 0x1d00ffff) 1000000)
    as (x & r & E & _ & _ & Hr).
  - by_eval.
  - reflexivity.
  - reflexivity.
  - by_eval.
  - by_eval.
  - by_eval.
  - by_eval.
  - exists r. by split.
Defined.

(** Retargeting of proof of stake.  The new field encodes the old target
    moved towards the target spacing, the product taken modulo 2^256, or the
    limit when that is zero or above the limit; it never decodes to a target
    above the limit. *)
Theorem stake_retarget_exact (ps : params) (limit : t) (actual bits : Z) :
  let S := nTargetSpacing ps in
  let I := nTargetTimespan ps / S in
  let m := (I - 1) * S + 2 * Z.min actual (10 * S) in
  let new := (target_of bits * m) mod 2 ^ 256 / ((I + 1) * S) in
  0 < S → S <= nTargetTimespan ps → nTargetTimespan ps + 22 * S < 2 ^ 32 → 0 <= actual →
  ok256 limit → is_u32 bits →
  ∃ x r, stake_retarget ps limit actual bits = Some r ∧ r = GetCompact x false ∧
    value x = (if (new =? 0) || (value limit <? new) then value limit else new) ∧
    target_of r <= value limit.
Proof.
  intros S I m new HS Hspan Hsum Ha Hlim Hb. unfold stake_retarget. fold S.
  assert (HI : 1 <= I ∧ I * S <= nTargetTimespan ps).
  { unfold I. pose proof (Z.mul_div_le (nTargetTimespan ps) S). split; [|lia].
    apply Z.div_le_lower_bound; lia. }
  rewrite Z.quot_div_nonneg by lia. fold I.
  assert (Em : i64 ((I - 1) * S + (if S * 10 <? actual then S * 10 else actual)
                    + (if S * 10 <? actual then S * 10 else actual)) = m ∧ is_u32 m).
  { unfold m. destruct (Z.ltb_spec (S * 10) actual); widths; (rewrite Z.mod_small; [|nia]); nia. }
  destruct Em as [-> Hm]. assert (Ed : i64 ((I + 1) * S) = (I + 1) * S) by (widths; rewrite Z.mod_small; nia).
  rewrite Ed. assert (Em : u32 m = m) by (apply Z.mod_small; exact Hm).
  assert (Eu : u64 ((I + 1) * S) = (I + 1) * S) by (apply Z.mod_small; nia). rewrite Em, Eu.
  destruct (scale_spec bits m ((I + 1) * S)) as (q & -> & Hqok & Hqv); [done|done|nia|].
  cbn [mbind option_bind]. fold new in Hqv. rewrite CompareTo_gt by done.
  destruct (of_u64_256 0) as [H0ok H0v]; [done|]. pose proof (limbs_ok_bound _ _ Hqok) as Hqb.
  assert (E0 : (CompareTo W256 q (of_u64 W256 0) <=? 0) = (new =? 0)).
  { rewrite CompareTo_spec, H0v, Hqv by done. rewrite Hqv in Hqb.
    destruct (Z.compare_spec new 0), (Z.eqb_spec new 0); (done || lia). }
  rewrite E0, Hqv. destruct ((new =? 0) || (value limit <? new)) eqn:Ec.
  - eexists _, _. split; [reflexivity|]. split; [reflexivity|]. split; [done|].
    by destruct (GetCompact_le limit Hlim) as [_ Hle].
  - eexists _, _. split; [reflexivity|]. split; [reflexivity|]. split; [done|].
    destruct (GetCompact_le q Hqok) as [_ Hle]. reflect_bools. lia.
Qed.

Lemma stake_retarget_exact_witness :
  ∃ r, stake_retarget main_params main_limit 120 0x1d00ffff = Some r ∧
       target_of r <= value main_limit.
Proof.
  destruct (stake_retarget_exact main_params main_limit 120 0x1d00ffff) as (x & r & E & _ & _ & Hr).
  - by_eval.
  - by_eval.
  - by_eval.
  - lia.
  - by_eval.
  - by_eval.
  - exists r. by split.
Defined.

(** The stake kernel.  A kernel passes exactly when its time is not before the
    block of the staked output and its hash is at most the target times the
    amount, reduced modulo 2^256; as long as that product stays below 2^256, an
    output with more coins passes wherever one with fewer does. *)
Theorem CheckStakeKernelHash_exact (H : bytes → bytes) (prev : CBlockIndex)
    (bits from amount : Z) (prevout : COutPoint) (time : Z) :
  (∀ x, bytes_ok (H x) ∧ length (H x) = 32%nat) → is_u32 bits → is_u64 amount →
  let passes a := fst (CheckStakeKernelHash H prev bits from a prevout time) = true in
  (passes amount ↔
   from <= time ∧ ∃ T, compact_target bits = Some T ∧
     le_value (kernel_hash H prev from prevout time) <= (T * amount) mod 2 ^ 256) ∧
  (∀ less T, compact_target bits = Some T → T * amount < 2 ^ 256 → 0 <= less <= amount →
     passes less → passes amount).
Proof.
  intros HH Hb Ha passes. destruct (HH (bnStakeModifier prev ++ c_ser c_u32 from ++ hash prevout
     ++ c_ser c_u32 (n prevout) ++ c_ser c_u32 time)) as [Hh1 Hh2].
  fold (kernel_hash H prev from prevout time) in Hh1, Hh2.
  destruct (UintToArith256_spec _ Hh1 Hh2) as [Hhok Hhv].
  assert (Hmain : ∀ a, is_u64 a → passes a ↔ from <= time ∧ ∃ T, compact_target bits = Some T ∧
     le_value (kernel_hash H prev from prevout time) <= (T * a) mod 2 ^ 256).
  { intros a Hau. unfold passes, CheckStakeKernelHash, compact_target.
    assert (Eu : u64 a = a) by (apply Z.mod_small; exact Hau). rewrite Eu.
    pose proof (SetCompact_ok bits Hb) as Hok. destruct (SetCompact bits) as [[T neg] ov].
    cbn [fst] in Hok. destruct (of_u64_256 a Hau) as [Haok Hav].
    rewrite EqualTo_spec by (done || (unfold W256; lia)).
    destruct (Z.ltb_spec time from); [split; [done|lia]|].
    destruct (neg || ov || (value T =? 0)); cbn [fst].
    { split; [done|]. intros (_ & ? & ? & _). done. }
    rewrite CompareTo_gt, Hhv, op_mul_value, Hav by auto using op_mul_ok.
    change (2 ^ (32 * Z.of_nat W256)) with (2 ^ 256). rewrite negb_true_iff, Z.ltb_ge.
    split; [intros ?; split; [done|]; by exists (value T)|]. by intros (_ & ? & [= <-] & ?). }
  split; [by apply Hmain|]. intros less T ET HT Hless.
  rewrite !Hmain by (done || (widths; lia)). intros (Ht & T' & ET' & Hle). split; [done|].
  exists T. split; [done|]. assert (T' = T) as -> by congruence.
  pose proof (compact_target_bounds bits T Hb ET). rewrite Z.mod_small by nia.
  rewrite Z.mod_small in Hle by nia. nia.
Qed.

Lemma CheckStakeKernelHash_exact_witness :
  fst (CheckStakeKernelHash (λ _, replicate 32 0) (entry 0 0) 0x1f00ffff 10 COIN
         (OutPoint uint256_zero 0) 16) = true.
Proof.
  apply (CheckStakeKernelHash_exact (λ _, replicate 32 0) (entry 0 0) 0x1f00ffff 10 COIN
           (OutPoint uint256_zero 0) 16).
  - intros _. split; [by_eval|reflexivity].
  - by_eval.
  - by_eval.
  - split; [lia|]. eexists. split; [vm_compute; reflexivity|]. by_eval.
Defined.

(** Wrap-around near the limit of the main network.  Its limit is close to
    2^255, so the products above leave 256 bits there: after a block at the
    limit that took exactly the target spacing the target drops by a factor of
    more than 700, and an output of one coin, whose weighted target should exceed
    every hash, is compared with a target below a twentieth of 2^256. *)
Theorem main_limit_wraps :
  (∃ r, stake_retarget main_params main_limit (nTargetSpacing main_params)
          (GetCompact main_limit false) = Some r ∧
        target_of r * 700 < target_of (GetCompact main_limit false)) ∧
  (∃ proof target, CheckStakeKernelHash (λ _, replicate 32 0) (entry 0 0)
      (GetCompact main_limit false) 0 COIN (OutPoint uint256_zero 0) 0 = (true, Some (proof, target)) ∧
    2 ^ 256 < target_of (GetCompact main_limit false) * COIN ∧ le_value target * 20 < 2 ^ 256).
Proof.
  split; [eexists|eexists _, _]; (split; [vm_compute; reflexivity|]); by_eval.
Qed.
