(* ===== verification/VersionBits.v ===== *)
(** Soft-fork deployments, after [src/src/versionbits.h] and
    [src/src/versionbits.cpp] and [ComputeBlockVersion] of
    [src/src/validation.cpp]: a state machine with one step per period of
    blocks, computed on demand and remembered in a cache.

    The block index is the heap of [Chain]; [None] is a null dereference or a
    division by zero.  A checker (the virtual methods of
    [AbstractThresholdConditionChecker]) is a record. *)
From stdpp Require Import gmap sorting.
From S2P Require Import Prelude Serialize Transaction Chain.
Open Scope Z_scope.

Inductive ThresholdState : Set := DEFINED | STARTED | LOCKED_IN | ACTIVE | FAILED.

#[global] Instance ThresholdState_eq_dec : EqDecision ThresholdState.
Proof. solve_decision. Defined.

Definition ALWAYS_ACTIVE : Z := -1.
Definition VERSIONBITS_TOP_BITS : Z := 0x20000000.
Definition VERSIONBITS_TOP_MASK : Z := 0xE0000000.

(** The virtual methods of a checker. *)
Record condition_checker := Checker {
  Condition : CBlockIndex → bool;
  BeginTime : Z;
  EndTime : Z;
  Period : Z;
  Threshold : Z
}.

(** [ThresholdConditionCache]: states by the parent of the first block of a
    period; the parent of the genesis block is null. *)
Abbreviation threshold_cache := (gmap (option ptr) ThresholdState) (only parsing).

Record BIP9Stats := Stats { period : Z; threshold : Z; elapsed : Z; count : Z; possible : bool }.

Section GetState.
Context (h : heap) (c : condition_checker).

(** The last block of the period before the one [q] is in. *)
Definition period_end (q : ptr) : option (option ptr) :=
  b ← h !! q;
  if Period c =? 0 then None else GetAncestor h q (nHeight b - Z.rem (nHeight b + 1) (Period c)).

(** The walk back to a block whose state is known; the list is [vToCompute], its
    last element first. *)
Fixpoint walk_back (fuel : nat) (cache : threshold_cache) (p : option ptr) (vToCompute : list ptr)
  : option (threshold_cache * option ptr * list ptr) :=
  match cache !! p with
  | Some _ => Some (cache, p, vToCompute)
  | None =>
      match p with
      | None => Some (<[None := DEFINED]> cache, None, vToCompute)
      | Some q =>
          t ← GetMedianTimePast h q;
          if t <? BeginTime c then Some (<[Some q := DEFINED]> cache, Some q, vToCompute)
          else
            match fuel with
            | O => None
            | S f =>
                b ← h !! q;
                a ← GetAncestor h q (nHeight b - Period c);
                walk_back f cache a (q :: vToCompute)
            end
      end
  end.

(** The blocks of the period that ends at [p] and meet the condition. *)
Fixpoint count_condition (k : nat) (p : option ptr) (n : Z) : option Z :=
  match k with
  | O => Some n
  | S k' =>
      q ← p;
      b ← h !! q;
      count_condition k' (pprev b) (if Condition c b then n + 1 else n)
  end.

(** One step of the state machine, at the last block of a period. *)
Definition next_state (q : ptr) (state : ThresholdState) : option ThresholdState :=
  match state with
  | DEFINED =>
      t ← GetMedianTimePast h q;
      Some (if EndTime c <=? t then FAILED else if BeginTime c <=? t then STARTED else DEFINED)
  | STARTED =>
      t ← GetMedianTimePast h q;
      if EndTime c <=? t then Some FAILED
      else
        n ← count_condition (Z.to_nat (Period c)) (Some q) 0;
        Some (if Threshold c <=? n then LOCKED_IN else STARTED)
  | LOCKED_IN => Some ACTIVE
  | FAILED => Some FAILED
  | ACTIVE => Some ACTIVE
  end.

Fixpoint walk_forward (vToCompute : list ptr) (state : ThresholdState) (cache : threshold_cache)
  : option (ThresholdState * threshold_cache) :=
  match vToCompute with
  | [] => Some (state, cache)
  | q :: l =>
      state ← next_state q state;
      walk_forward l state (<[Some q := state]> cache)
  end.

(** The bound on the walk back: every step goes to a lower block. *)
Definition walk_fuel (p : option ptr) : nat :=
  match p with
  | Some q => match h !! q with Some b => Z.to_nat (nHeight b + 1) | None => 0 end
  | None => 0
  end.

Definition GetStateFor (pindexPrev : option ptr) (cache : threshold_cache)
  : option (ThresholdState * threshold_cache) :=
  if BeginTime c =? ALWAYS_ACTIVE then Some (ACTIVE, cache)
  else
    p ← match pindexPrev with Some q => period_end q | None => Some None end;
    '(cache, p, l) ← walk_back (walk_fuel p) cache p [];
    state ← cache !! p;
    walk_forward l state cache.

(** The loop of [GetStateStatisticsFor], down to the block [stop]. *)
Fixpoint count_until (fuel : nat) (stop : Z) (p : option ptr) (n : Z) : option Z :=
  q ← p;
  b ← h !! q;
  if nHeight b =? stop then Some n
  else
    match fuel with
    | O => None
    | S f => count_until f stop (pprev b) (if Condition c b then n + 1 else n)
    end.

Definition GetStateStatisticsFor (pindex : option ptr) : option BIP9Stats :=
  match pindex with
  | None => Some (Stats (Period c) (Threshold c) 0 0 false)
  | Some q =>
      b ← h !! q;
      e ← period_end q;
      e ← e;
      be ← h !! e;
      n ← count_until (walk_fuel pindex) (nHeight be) pindex 0;
      let elapsed := nHeight b - nHeight be in
      Some (Stats (Period c) (Threshold c) elapsed n (elapsed - n <=? Period c - Threshold c))
  end.

(** The loop of [GetStateSinceHeightFor]: [q] is [pindexPrev] and [a] is
    [previousPeriodParent]. *)
Fixpoint since_loop (fuel : nat) (state : ThresholdState) (q : ptr) (a : option ptr)
    (cache : threshold_cache) : option (ptr * threshold_cache) :=
  match a with
  | None => Some (q, cache)
  | Some p =>
      '(s, cache) ← GetStateFor (Some p) cache;
      if bool_decide (s = state) then
        match fuel with
        | O => None
        | S f =>
            b ← h !! p;
            a ← GetAncestor h p (nHeight b - Period c);
            since_loop f state p a cache
        end
      else Some (q, cache)
  end.

Definition GetStateSinceHeightFor (pindexPrev : option ptr) (cache : threshold_cache)
  : option (Z * threshold_cache) :=
  if BeginTime c =? ALWAYS_ACTIVE then Some (0, cache)
  else
    '(state, cache) ← GetStateFor pindexPrev cache;
    if bool_decide (state = DEFINED) then Some (0, cache)
    else
      q ← pindexPrev;
      e ← period_end q;
      e ← e;
      be ← h !! e;
      a ← GetAncestor h e (nHeight be - Period c);
      '(q, cache) ← since_loop (walk_fuel (Some e)) state e a cache;
      b ← h !! q;
      Some (nHeight b + 1, cache).

End GetState.

(** ** Deployments *)

(** [Consensus::BIP9Deployment]. *)
Record deployment := Deployment { bit : Z; nStartTime : Z; nTimeout : Z }.

(** What [Consensus::Params] says of deployments. *)
Record deployment_params := Params {
  nRuleChangeActivationThreshold : Z;
  nMinerConfirmationWindow : Z;
  vDeployments : list deployment
}.

Definition Mask (d : deployment) : Z := u32 (Z.shiftl 1 (bit d)).

(** [VersionBitsConditionChecker]. *)
Definition version_bits_checker (P : deployment_params) (d : deployment) : condition_checker :=
  Checker
    (λ b, (Z.land (u32 (Chain.nVersion b)) VERSIONBITS_TOP_MASK =? VERSIONBITS_TOP_BITS)
          && negb (Z.land (u32 (Chain.nVersion b)) (Mask d) =? 0))
    (nStartTime d) (nTimeout d) (nMinerConfirmationWindow P) (nRuleChangeActivationThreshold P).

(** [VersionBitsCache]: one cache for each deployment.  [None] for a position
    beyond the arrays. *)
Abbreviation version_bits_cache := (list threshold_cache) (only parsing).

Definition Clear (caches : version_bits_cache) : version_bits_cache := map (λ _, ∅) caches.

Definition VersionBitsState (h : heap) (P : deployment_params) (pindexPrev : option ptr) (pos : nat)
    (caches : version_bits_cache) : option (ThresholdState * version_bits_cache) :=
  d ← vDeployments P !! pos;
  cache ← caches !! pos;
  '(s, cache) ← GetStateFor h (version_bits_checker P d) pindexPrev cache;
  Some (s, <[pos := cache]> caches).

Definition VersionBitsStatistics (h : heap) (P : deployment_params) (pindexPrev : option ptr) (pos : nat)
  : option BIP9Stats :=
  d ← vDeployments P !! pos;
  GetStateStatisticsFor h (version_bits_checker P d) pindexPrev.

Definition VersionBitsStateSinceHeight (h : heap) (P : deployment_params) (pindexPrev : option ptr)
    (pos : nat) (caches : version_bits_cache) : option (Z * version_bits_cache) :=
  d ← vDeployments P !! pos;
  cache ← caches !! pos;
  '(n, cache) ← GetStateSinceHeightFor h (version_bits_checker P d) pindexPrev cache;
  Some (n, <[pos := cache]> caches).

Definition VersionBitsMask (P : deployment_params) (pos : nat) : option Z :=
  d ← vDeployments P !! pos;
  Some (Mask d).

(** The loop of [ComputeBlockVersion], from position [i] on, for [k] positions. *)
Fixpoint block_version (h : heap) (P : deployment_params) (pindexPrev : option ptr) (k i : nat)
    (nVersion : Z) (caches : version_bits_cache) : option (Z * version_bits_cache) :=
  match k with
  | O => Some (nVersion, caches)
  | S k' =>
      '(state, caches) ← VersionBitsState h P pindexPrev i caches;
      if bool_decide (state = LOCKED_IN) || bool_decide (state = STARTED) then
        mask ← VersionBitsMask P i;
        block_version h P pindexPrev k' (S i) (i32 (Z.lor nVersion mask)) caches
      else block_version h P pindexPrev k' (S i) nVersion caches
  end.

Definition MAX_VERSION_BITS_DEPLOYMENTS : nat := 3.

Definition ComputeBlockVersion (h : heap) (P : deployment_params) (pindexPrev : option ptr)
    (caches : version_bits_cache) : option (Z * version_bits_cache) :=
  block_version h P pindexPrev MAX_VERSION_BITS_DEPLOYMENTS 0 VERSIONBITS_TOP_BITS caches.

(** ** Median times do not go back *)

Section MedianTime.
Context (h : heap) (Hh : tree_ok h).

(** The rule a header is checked for: its time is after the median time of its
    parent ([time-too-old] in [ContextualCheckBlockHeader]). *)
Definition times_ok : Prop :=
  ∀ p b q m, h !! p = Some b → pprev b = Some q → GetMedianTimePast h q = Some m → m < nTime b.

Lemma past_times_longer k q l l' :
  past_times k h (Some q) = Some l → past_times (S k) h (Some q) = Some l' →
  l' = l ∨ ∃ x, l' = x :: l.
Proof.
  revert q l l'. induction k as [|k IH]; intros q l l' H1 H2.
  { injection H1 as <-. cbn in H2. destruct (h !! q) as [b|]; [|done]. cbn in H2.
    injection H2 as <-. right. by eexists. }
  change (past_times (S (S k)) h (Some q))
    with (b ← h !! q; l ← past_times (S k) h (pprev b); Some (l ++ [nTime b])) in H2.
  cbn [past_times] in H1. destruct (h !! q) as [b|]; [|done]. cbn [mbind option_bind] in *.
  destruct (pprev b) as [r|].
  - destruct (past_times k h (Some r)) as [l1|] eqn:E1; [|done].
    destruct (past_times (S k) h (Some r)) as [l2|] eqn:E2; [|done].
    injection H1 as <-. injection H2 as <-. destruct (IH r l1 l2 E1 E2) as [->|[x ->]]; [by left|].
    right. by exists x.
  - assert (past_times k h None = Some []) as E by (by destruct k). rewrite E in H1.
    injection H1 as <-. injection H2 as <-. by left.
Qed.

Lemma filter_every (P : Z → Prop) `{!∀ x, Decision (P x)} (l : list Z) : Forall P l → filter P l = l.
Proof. induction 1 as [|x l Hx _ IH]; [done|]. by rewrite filter_cons_True, IH. Qed.

(** At least half of the times are not above the median. *)
Lemma sorted_low (l : list Z) (k : nat) (m m' : Z) :
  StronglySorted Z.le l → l !! k = Some m → m < m' →
  (S k <= length (filter (λ x, x < m')%Z l))%nat.
Proof.
  intros Hs Hk Hm. pose proof (lookup_lt_Some _ _ _ Hk) as Hlt.
  rewrite <- (take_drop_middle _ _ _ Hk) in Hs |- *. apply sorted_around in Hs as [H1 _].
  rewrite filter_app, length_app, filter_cons_True by done.
  assert (filter (λ x, x < m')%Z (take k l) = take k l) as ->.
  { apply filter_every. eapply Forall_impl; [exact H1|]. cbn. lia. }
  rewrite length_take. cbn [length]. lia.
Qed.

Lemma median_times l m :
  merge_sort Z.le l !! (length (merge_sort Z.le l) / 2)%nat = Some m →
  (length (filter (λ x, x < m)%Z l) <= length l / 2)%nat ∧
  ∀ m', m < m' → (S (length l / 2) <= length (filter (λ x, x < m')%Z l))%nat.
Proof.
  pose proof (merge_sort_Permutation Z.le l) as Hp. pose proof (StronglySorted_merge_sort Z.le l) as Hs.
  assert (length (merge_sort Z.le l) = length l) as -> by by rewrite Hp.
  intros Hm. split.
  - destruct (sorted_middle _ _ _ Hs Hm) as [H1 _]. by rewrite Hp in H1.
  - intros m' Hlt. pose proof (sorted_low _ _ _ m' Hs Hm Hlt) as H1. by rewrite Hp in H1.
Qed.

Lemma GetMedianTimePast_step p b q m m' :
  times_ok → h !! p = Some b → pprev b = Some q →
  GetMedianTimePast h q = Some m → GetMedianTimePast h p = Some m' → m <= m'.
Proof.
  intros Ht Hp Hq Hm Hm'. pose proof (Ht p b q m Hp Hq Hm) as Htime.
  unfold GetMedianTimePast in Hm, Hm'.
  destruct (past_times nMedianTimeSpan h (Some q)) as [l|] eqn:El; [|done].
  destruct (past_times nMedianTimeSpan h (Some p)) as [l'|] eqn:El'; [|done].
  cbn [mbind option_bind] in Hm, Hm'.
  change (past_times nMedianTimeSpan h (Some p))
    with (b ← h !! p; l ← past_times 10 h (pprev b); Some (l ++ [nTime b])) in El'.
  rewrite Hp in El'. cbn [mbind option_bind] in El'. rewrite Hq in El'.
  destruct (past_times 10 h (Some q)) as [l0|] eqn:E0; [|done]. injection El' as <-.
  apply median_times in Hm as [Hlow _]. apply median_times in Hm' as [_ Hhigh].
  destruct (Z.lt_ge_cases m' m) as [Hlt|]; [|lia]. specialize (Hhigh m Hlt).
  rewrite filter_app, length_app, filter_cons_False, length_app in Hhigh by lia.
  cbn [filter list_filter length] in Hhigh.
  assert (Hl : (length l0 <= length l <= S (length l0))%nat ∧
    (length (filter (λ x, x < m)%Z l0) <= length (filter (λ x, x < m)%Z l))%nat).
  { destruct (past_times_longer 10 q l0 l E0 El) as [->|[x ->]]; [split; lia|].
    split; [cbn [length]; lia|]. rewrite filter_cons. case_decide; cbn [length]; lia. }
  destruct Hl as [Hl1 Hl2]. pose proof (Nat.Div0.div_le_mono (length l) (length l0 + 1) 2).
  lia.
Qed.

Lemma GetMedianTimePast_mono p b q m m' :
  times_ok → h !! p = Some b → ancestor h q p →
  GetMedianTimePast h q = Some m → GetMedianTimePast h p = Some m' → m <= m'.
Proof using Hh.
  intros Ht Hp [k Hk] Hm. revert p b m' Hp Hk. induction k as [|k IH]; intros p b m' Hp Hk Hm'.
  { injection Hk as ->. rewrite Hm in Hm'. injection Hm' as ->. lia. }
  cbn in Hk. rewrite Hp in Hk. cbn in Hk. destruct (pprev b) as [r|] eqn:Hr; [|done].
  pose proof (Hh _ _ Hp) as (_ & _ & Hpar & _). rewrite Hr in Hpar. destruct Hpar as (br & Hbr & _).
  destruct (GetMedianTimePast_median h r br Hh Hbr) as (_ & m1 & _ & Hm1 & _).
  pose proof (IH r br m1 Hbr Hk Hm1). pose proof (GetMedianTimePast_step p b r m1 m' Ht Hp Hr Hm1 Hm').
  lia.
Qed.

End MedianTime.

(** ** The state machine of BIP 9 *)

Section Machine.
Context (h : heap) (c : condition_checker).

(** The number of blocks that signal in the period that ends at [q]. *)
Definition signals (q : ptr) (i : nat) : bool :=
  match r ← walk h i q; h !! r with Some b => Condition c b | None => false end.
Definition signalling (q : ptr) : Z :=
  Z.of_nat (length (List.filter (signals q) (seq 0 (Z.to_nat (Period c))))).

(** One period: [q] is its last block. *)
Inductive transition (q : ptr) : ThresholdState → ThresholdState → Prop :=
| defined_waits t : GetMedianTimePast h q = Some t → t < EndTime c → t < BeginTime c →
    transition q DEFINED DEFINED
| defined_starts t : GetMedianTimePast h q = Some t → t < EndTime c → BeginTime c <= t →
    transition q DEFINED STARTED
| defined_fails t : GetMedianTimePast h q = Some t → EndTime c <= t → transition q DEFINED FAILED
| started_fails t : GetMedianTimePast h q = Some t → EndTime c <= t → transition q STARTED FAILED
| started_waits t : GetMedianTimePast h q = Some t → t < EndTime c → signalling q < Threshold c →
    transition q STARTED STARTED
| started_locks_in t : GetMedianTimePast h q = Some t → t < EndTime c → Threshold c <= signalling q →
    transition q STARTED LOCKED_IN
| locked_in_activates : transition q LOCKED_IN ACTIVE
| active_stays : transition q ACTIVE ACTIVE
| failed_stays : transition q FAILED FAILED.

(** The last block of the period before the one that ends at [q]. *)
Definition period_before (q : ptr) (b : CBlockIndex) : option ptr :=
  if nHeight b <? Period c then None else walk h (Z.to_nat (Period c)) q.

(** [bip9 p s]: [s] is the state of the blocks after [p], the last block of a
    period, or nothing before the genesis block. *)
Inductive bip9 : option ptr → ThresholdState → Prop :=
| bip9_genesis : bip9 None DEFINED
| bip9_period q b s s' :
    h !! q = Some b → bip9 (period_before q b) s → transition q s s' → bip9 (Some q) s'.

Lemma transition_det q s s1 s2 : transition q s s1 → transition q s s2 → s1 = s2.
Proof. intros H1 H2. destruct H1; inversion H2; simplify_eq; done || (exfalso; lia). Qed.

Lemma bip9_det p s1 s2 : bip9 p s1 → bip9 p s2 → s1 = s2.
Proof.
  intros H1. revert s2. induction H1 as [|q b s s' Hq _ IH Ht]; intros s2 H2; inversion H2; simplify_eq; [done|].
  assert (s = s0) as <- by by apply IH. by eapply transition_det.
Qed.

End Machine.

Section Correctness.
Context (h : heap) (Hh : tree_ok h) (Ht : times_ok h).
Context (c : condition_checker) (HP : 0 < Period c) (Hbe : BeginTime c <= EndTime c).

(** The last block of a period. *)
Definition period_last (q : ptr) : Prop :=
  ∃ b, h !! q = Some b ∧ (nHeight b + 1) mod Period c = 0.
Definition boundary (p : option ptr) : Prop :=
  match p with None => True | Some q => period_last q end.

Lemma boundary_height q b : h !! q = Some b → period_last q → Period c <= nHeight b + 1.
Proof using Hh HP.
  intros Hq (b' & Hb' & Hm). assert (b' = b) as -> by congruence.
  pose proof (tree_height h Hh q b Hq). apply Z.mod_divide in Hm as [k Hk]; [|lia].
  destruct (Z.le_gt_cases k 0); nia.
Qed.

Lemma period_before_spec q b :
  h !! q = Some b → period_last q →
  GetAncestor h q (nHeight b - Period c) = Some (period_before h c q b) ∧
  boundary (period_before h c q b) ∧
  (∀ r, period_before h c q b = Some r → ancestor h r q ∧
     ∃ br, h !! r = Some br ∧ nHeight br = nHeight b - Period c).
Proof using Hh HP.
  intros Hq Hl. rewrite (GetAncestor_spec h Hh q b) by done. unfold period_before.
  destruct (Z.ltb_spec (nHeight b) (nHeight b - Period c)); [lia|]. cbn [orb].
  destruct (Z.ltb_spec (nHeight b) (Period c)) as [Hlt|Hge].
  - replace (nHeight b - Period c <? 0) with true by (symmetry; apply Z.ltb_lt; lia). by split_and!.
  - replace (nHeight b - Period c <? 0) with false by (symmetry; apply Z.ltb_ge; lia).
    replace (nHeight b - (nHeight b - Period c)) with (Period c) by lia.
    destruct (walk_spec h Hh (Z.to_nat (Period c)) q b Hq) as (r & br & Hw & Hr & Eh); [lia|].
    rewrite Hw. rewrite Z2Nat.id in Eh by lia. split_and!; [done| |].
    + exists br. split; [done|]. rewrite Eh. destruct Hl as (b' & Hb' & Hm).
      assert (b' = b) as -> by congruence.
      replace (nHeight b - Period c + 1) with (nHeight b + 1 + (-1) * Period c) by lia.
      by rewrite Z_mod_plus_full.
    + intros r' [= <-]. split; [by exists (Z.to_nat (Period c))|]. by exists br.
Qed.

Lemma median_time_total q b : h !! q = Some b → ∃ t, GetMedianTimePast h q = Some t.
Proof using Hh. intros Hq. destruct (GetMedianTimePast_median h q b Hh Hq) as (_ & m & _ & Hm & _). by exists m. Qed.

(** Before the start time nothing has happened: the shortcut of the walk back. *)
Lemma bip9_before_start q b t :
  h !! q = Some b → period_last q → GetMedianTimePast h q = Some t → t < BeginTime c →
  bip9 h c (Some q) DEFINED.
Proof using All.
  remember (Z.to_nat (nHeight b)) as k eqn:Hk. revert q b t Hk.
  induction k as [k IH] using lt_wf_ind. intros q b t -> Hq Hl Hm Hlt.
  apply (bip9_period h c q b DEFINED DEFINED); [done| |by apply (defined_waits h c q t); [done|lia|done]].
  destruct (period_before_spec q b Hq Hl) as (_ & Hb & Hr).
  destruct (period_before h c q b) as [r|] eqn:Er; [|constructor].
  destruct (Hr r eq_refl) as (Ha & br & Hbr & Eh). destruct (median_time_total r br Hbr) as [t' Ht'].
  pose proof (GetMedianTimePast_mono h Hh q b r t' t Ht Hq Ha Ht' Hm).
  pose proof (tree_height h Hh r br Hbr).
  apply (IH (Z.to_nat (nHeight br)) ltac:(lia) r br t'); [done|done|done|done|lia].
Qed.

(** *** Counting *)

Lemma count_condition_spec k q b n :
  h !! q = Some b → Z.of_nat k <= nHeight b + 1 →
  count_condition h c k (Some q) n =
    Some (n + Z.of_nat (length (List.filter (signals h c q) (seq 0 k)))).
Proof using Hh.
  revert q b n. induction k as [|k IH]; intros q b n Hq Hk; [cbn; f_equal; lia|].
  cbn [count_condition mbind option_bind]. rewrite Hq. cbn [mbind option_bind seq List.filter].
  assert (signals h c q 0 = Condition c b) as -> by (unfold signals; cbn; by rewrite Hq).
  pose proof (Hh _ _ Hq) as (_ & _ & Hpar & _).
  assert (Hshift : ∀ r, pprev b = Some r → List.filter (signals h c q) (seq 1 k)
    = map S (List.filter (signals h c r) (seq 0 k))).
  { intros r Hr. rewrite <- seq_shift, List.filter_map_swap. f_equal. apply List.filter_ext.
    intros i. unfold signals. cbn [walk]. rewrite Hq. cbn. by rewrite Hr. }
  destruct (pprev b) as [r|] eqn:Hr.
  - destruct Hpar as (br & Hbr & Eh). rewrite (IH r br) by (done || lia). rewrite (Hshift r eq_refl).
    destruct (Condition c b); cbn [length]; rewrite length_map; f_equal; lia.
  - assert (k = 0%nat) as -> by lia. cbn. destruct (Condition c b); cbn [length]; f_equal; lia.
Qed.

Lemma count_until_spec fuel q b stop n :
  h !! q = Some b → 0 <= stop <= nHeight b → (Z.to_nat (nHeight b - stop) <= fuel)%nat →
  count_until h c fuel stop (Some q) n = count_condition h c (Z.to_nat (nHeight b - stop)) (Some q) n.
Proof using Hh.
  revert q b n. induction fuel as [|fuel IH]; intros q b n Hq Hs Hf; cbn [count_until mbind option_bind];
    rewrite Hq; cbn [mbind option_bind]; destruct (Z.eqb_spec (nHeight b) stop) as [->|Hne];
    try (by rewrite Z.sub_diag); [lia|].
  pose proof (Hh _ _ Hq) as (_ & _ & Hpar & _).
  destruct (pprev b) as [r|] eqn:Hr; [|lia]. destruct Hpar as (br & Hbr & Eh).
  rewrite (IH r br) by (done || lia).
  replace (Z.to_nat (nHeight b - stop)) with (S (Z.to_nat (nHeight br - stop))) by lia.
  cbn [count_condition mbind option_bind]. rewrite Hq. cbn [mbind option_bind]. by rewrite Hr.
Qed.

Lemma next_state_spec q b s :
  h !! q = Some b → period_last q → ∃ s', next_state h c q s = Some s' ∧ transition h c q s s'.
Proof using Hh HP.
  intros Hq Hl. destruct (median_time_total q b Hq) as [t Hm].
  pose proof (boundary_height q b Hq Hl) as Hb. unfold next_state. rewrite Hm. cbn [mbind option_bind].
  destruct s; try (eexists; split; [done|constructor]).
  - destruct (Z.leb_spec (EndTime c) t); [eexists; split; [done|by eapply defined_fails]|].
    destruct (Z.leb_spec (BeginTime c) t); eexists; (split; [done|]);
      [by eapply defined_starts|by eapply defined_waits].
  - destruct (Z.leb_spec (EndTime c) t); [eexists; split; [done|by eapply started_fails]|].
    rewrite (count_condition_spec _ q b) by (done || lia). cbn [mbind option_bind].
    fold (signalling h c q). rewrite Z.add_0_l.
    destruct (Z.leb_spec (Threshold c) (signalling h c q)); eexists; (split; [done|]);
      [by eapply started_locks_in|by eapply started_waits].
Qed.

(** *** The cache *)

(** Every state in the cache is that of the state machine. *)
Definition states_ok (cache : threshold_cache) : Prop :=
  map_Forall (λ p s, boundary p ∧ bip9 h c p s) cache.

(** [l] leads from [p] to [target], one period at a time. *)
Fixpoint pending (p : option ptr) (l : list ptr) (target : option ptr) : Prop :=
  match l with
  | [] => p = target
  | q :: l' =>
      period_last q ∧ (∃ b, h !! q = Some b ∧ period_before h c q b = p) ∧ pending (Some q) l' target
  end.

Lemma walk_back_spec fuel cache p l target :
  states_ok cache → boundary p → (walk_fuel h p <= fuel)%nat → pending p l target →
  ∃ cache' p' l' s, walk_back h c fuel cache p l = Some (cache', p', l') ∧
    states_ok cache' ∧ cache' !! p' = Some s ∧ pending p' l' target.
Proof using All.
  revert p l. induction fuel as [|fuel IH]; intros p l Hc Hp Hf Hl; cbn [walk_back];
    (destruct (cache !! p) as [s|] eqn:Es; [by exists cache, p, l, s|]);
    (destruct p as [q|]; [|eexists _, None, l, DEFINED; split_and!;
       [done|apply map_Forall_insert_2; [by split; [|constructor]|done]|apply lookup_insert_eq|done]]);
    pose proof Hp as (b & Hq & Hmod); unfold walk_fuel in Hf; rewrite Hq in Hf;
    pose proof (tree_height h Hh q b Hq); [lia|].
  destruct (median_time_total q b Hq) as [t Hm]. rewrite Hm. cbn [mbind option_bind].
  destruct (Z.ltb_spec t (BeginTime c)) as [Hlt|Hge].
  { eexists _, (Some q), l, DEFINED. split_and!; [done| |apply lookup_insert_eq|done].
    apply map_Forall_insert_2; [|done]. split; [done|]. by eapply bip9_before_start. }
  rewrite Hq. cbn [mbind option_bind].
  destruct (period_before_spec q b Hq Hp) as (-> & Hb & Hr). cbn [mbind option_bind].
  apply IH; [done|done| |].
  - unfold walk_fuel. destruct (period_before h c q b) as [r|]; [|lia].
    destruct (Hr r eq_refl) as (_ & br & -> & ->). lia.
  - split; [done|]. split; [by exists b|done].
Qed.

Lemma walk_forward_spec l p s cache target :
  states_ok cache → bip9 h c p s → pending p l target →
  ∃ s' cache', walk_forward h c l s cache = Some (s', cache') ∧
    bip9 h c target s' ∧ states_ok cache'.
Proof using Hh HP.
  revert p s cache. induction l as [|q l IH]; intros p s cache Hc Hs Hl.
  { cbn in Hl. subst target. by exists s, cache. }
  destruct Hl as (Hlast & (b & Hq & Hb) & Hl). cbn [walk_forward].
  destruct (next_state_spec q b s Hq Hlast) as (s1 & -> & Htr). cbn [mbind option_bind].
  assert (Hs1 : bip9 h c (Some q) s1) by (eapply bip9_period; [done|by rewrite Hb|done]).
  apply (IH (Some q) s1); [|done|done]. apply map_Forall_insert_2; done.
Qed.

(** The last block of the last complete period at or before a block. *)
Definition last_boundary (p : option ptr) : option ptr :=
  q ← p;
  b ← h !! q;
  if nHeight b + 1 <? Period c then None
  else walk h (Z.to_nat ((nHeight b + 1) mod Period c)) q.

(** A null pointer, or an entry of the index. *)
Definition in_index (p : option ptr) : Prop := match p with Some q => is_Some (h !! q) | None => True end.

Lemma period_end_spec q b :
  h !! q = Some b →
  period_end h c q = Some (last_boundary (Some q)) ∧ boundary (last_boundary (Some q)) ∧
  ∀ e, last_boundary (Some q) = Some e →
    ∃ be, h !! e = Some be ∧ nHeight be = nHeight b - (nHeight b + 1) mod Period c ∧
      walk h (Z.to_nat ((nHeight b + 1) mod Period c)) q = Some e.
Proof using Hh HP.
  intros Hq. unfold period_end, last_boundary. cbn [mbind option_bind]. rewrite Hq. cbn [mbind option_bind].
  pose proof (tree_height h Hh q b Hq) as H0.
  replace (Period c =? 0) with false by (symmetry; apply Z.eqb_neq; lia).
  rewrite (GetAncestor_spec h Hh q b) by done. rewrite Z.rem_mod_nonneg by lia.
  pose proof (Z.mod_pos_bound (nHeight b + 1) (Period c) HP) as Hm.
  destruct (Z.ltb_spec (nHeight b) (nHeight b - (nHeight b + 1) mod Period c)); [lia|]. cbn [orb].
  destruct (Z.ltb_spec (nHeight b + 1) (Period c)) as [Hlt|Hge].
  - rewrite Z.mod_small in * by lia.
    replace (nHeight b - (nHeight b + 1) <? 0) with true by (symmetry; apply Z.ltb_lt; lia). done.
  - pose proof (Z.div_mod (nHeight b + 1) (Period c) ltac:(lia)) as Hdm.
    assert (1 <= (nHeight b + 1) / Period c) by (apply Z.div_le_lower_bound; lia).
    destruct (Z.ltb_spec (nHeight b - (nHeight b + 1) mod Period c) 0) as [Hneg|Hpos]; [nia|].
    replace (nHeight b - (nHeight b - (nHeight b + 1) mod Period c))
      with ((nHeight b + 1) mod Period c) by lia.
    destruct (walk_spec h Hh (Z.to_nat ((nHeight b + 1) mod Period c)) q b Hq)
      as (e & be & -> & He & Eh); [lia|]. rewrite Z2Nat.id in Eh by lia.
    split_and!; [done| |].
    + exists be. split; [done|]. rewrite Eh.
      replace (nHeight b - (nHeight b + 1) mod Period c + 1)
        with ((nHeight b + 1) / Period c * Period c) by lia. by apply Z_mod_mult.
    + intros e' [= <-]. by exists be.
Qed.

Lemma last_boundary_some q b :
  h !! q = Some b → Period c <= nHeight b + 1 → ∃ e, last_boundary (Some q) = Some e.
Proof using Hh HP.
  intros Hq Hge. unfold last_boundary. cbn [mbind option_bind]. rewrite Hq. cbn [mbind option_bind].
  rewrite (proj2 (Z.ltb_ge _ _) Hge). pose proof (Z.mod_pos_bound (nHeight b + 1) (Period c) HP).
  pose proof (tree_height h Hh q b Hq). pose proof (Z.div_mod (nHeight b + 1) (Period c) ltac:(lia)).
  assert (1 <= (nHeight b + 1) / Period c) by (apply Z.div_le_lower_bound; lia).
  destruct (walk_spec h Hh (Z.to_nat ((nHeight b + 1) mod Period c)) q b Hq) as (e & be & Hw & _); [nia|].
  by exists e.
Qed.

Lemma GetStateFor_spec p cache :
  BeginTime c ≠ ALWAYS_ACTIVE → states_ok cache → in_index p →
  ∃ s cache', GetStateFor h c p cache = Some (s, cache') ∧
    bip9 h c (last_boundary p) s ∧ states_ok cache'.
Proof using All.
  intros Ha Hc Hp. unfold GetStateFor. rewrite (proj2 (Z.eqb_neq _ _) Ha).
  assert ((match p with Some q => period_end h c q | None => Some None end) = Some (last_boundary p) ∧
          boundary (last_boundary p)) as [-> Hb].
  { destruct p as [q|]; [|done]. destruct Hp as [b Hq].
    destruct (period_end_spec q b Hq) as (E & Hb & _). done. }
  cbn [mbind option_bind].
  destruct (walk_back_spec (walk_fuel h (last_boundary p)) cache (last_boundary p) [] (last_boundary p))
    as (cache1 & p1 & l & s & -> & Hc1 & Hs & Hl); [done..|]. cbn [mbind option_bind].
  rewrite Hs. cbn [mbind option_bind]. destruct (Hc1 p1 s Hs) as [_ Hbip].
  by destruct (walk_forward_spec l p1 s cache1 _ Hc1 Hbip Hl) as (s' & cache' & -> & ? & ?);
    exists s', cache'.
Qed.

End Correctness.

Section Outcome.
Context (h : heap) (Hh : tree_ok h) (Ht : times_ok h).
Context (c : condition_checker) (HP : 0 < Period c) (Hbe : BeginTime c <= EndTime c).

(** A locked-in deployment is active in all later periods. *)
Lemma bip9_forward k q e be :
  h !! e = Some be → period_last h c e → walk h (S k * Z.to_nat (Period c)) e = Some q →
  bip9 h c (Some q) LOCKED_IN → bip9 h c (Some e) ACTIVE.
Proof using Hh HP.
  intros He Hl Hw Hq. revert e be He Hl Hw. induction k as [|k IH]; intros e be He Hl Hw.
  all: destruct (walk_inv h Hh _ _ _ _ He Hw) as (bq & Hbq & Eh).
  all: pose proof (tree_height h Hh q bq Hbq) as H0.
  all: destruct (period_before_spec h Hh c HP e be He Hl) as (_ & Hb & Hr).
  all: assert (Hpb : period_before h c e be = walk h (Z.to_nat (Period c)) e)
    by (unfold period_before; destruct (Z.ltb_spec (nHeight be) (Period c)); [nia|done]).
  - rewrite Nat.mul_1_l in Hw. rewrite Hw in Hpb.
    eapply bip9_period; [done|by rewrite Hpb|constructor].
  - destruct (walk_spec h Hh (Z.to_nat (Period c)) e be He) as (r & br & Hwr & Hbr & _); [nia|].
    rewrite Hwr in Hpb. rewrite Hpb in Hb.
    cbn [Nat.mul] in Hw. rewrite (walk_add h _ _ _ _ Hwr) in Hw.
    apply (bip9_period h c e be ACTIVE ACTIVE); [done| |constructor]. rewrite Hpb. by apply (IH r br).
Qed.

(** The last complete period before a block that is at least a period after [q]. *)
Lemma later_boundary q b p bp :
  h !! q = Some b → period_last h c q → h !! p = Some bp → ancestor h q p →
  nHeight b + Period c <= nHeight bp →
  ∃ k e be, last_boundary h c (Some p) = Some e ∧ h !! e = Some be ∧ period_last h c e ∧
    walk h (S k * Z.to_nat (Period c)) e = Some q.
Proof using Hh HP.
  intros Hq (b' & Hb' & Hm) Hp Ha Hge. assert (b' = b) as -> by congruence.
  pose proof (tree_height h Hh q b Hq). destruct (period_end_spec h Hh c HP p bp Hp) as (_ & Hb & He).
  destruct (last_boundary_some h Hh c HP p bp Hp ltac:(lia)) as [e Ee]. rewrite Ee in Hb, He.
  destruct (He e eq_refl) as (be & Hbe' & Eh & Hw).
  pose proof Hb as (be' & Hbe'' & Hme). assert (be' = be) as -> by congruence.
  pose proof (Z.mod_pos_bound (nHeight bp + 1) (Period c) HP) as Hmod.
  assert (Hqe : ancestor h q e).
  { apply (ancestor_linear h Hh e q p be b bp); try done; [by eexists|lia]. }
  destruct Hqe as [j Hj]. destruct (walk_inv h Hh _ _ _ _ Hbe' Hj) as (bq & Hbq & Ej).
  assert (bq = b) as -> by congruence.
  apply Z.mod_divide in Hm as [u Hu]; [|lia]. apply Z.mod_divide in Hme as [w Hw']; [|lia].
  assert (Hj' : Z.of_nat j = (w - u) * Period c) by lia.
  assert (1 <= w - u) by nia.
  exists (Z.to_nat (w - u - 1)), e, be. split_and!; try done. rewrite <- Hj. f_equal. nia.
Qed.

(** *** The height a state starts at *)

Lemma last_boundary_self q b :
  h !! q = Some b → period_last h c q → last_boundary h c (Some q) = Some q.
Proof using Hh HP.
  intros Hq Hl. pose proof (boundary_height h Hh c HP q b Hq Hl).
  destruct Hl as (b' & Hb' & Hm). assert (b' = b) as -> by congruence.
  unfold last_boundary. cbn. rewrite Hq. cbn. rewrite Hm.
  by destruct (Z.ltb_spec (nHeight b + 1) (Period c)); [lia|].
Qed.

Lemma since_loop_spec fuel s q b cache :
  BeginTime c ≠ ALWAYS_ACTIVE → states_ok h c cache → s ≠ DEFINED →
  h !! q = Some b → period_last h c q → bip9 h c (Some q) s → (Z.to_nat (nHeight b + 1) <= fuel)%nat →
  ∃ q' b' s' cache', since_loop h c fuel s q (period_before h c q b) cache = Some (q', cache') ∧
    states_ok h c cache' ∧ h !! q' = Some b' ∧ period_last h c q' ∧ ancestor h q' q ∧
    bip9 h c (Some q') s ∧ bip9 h c (period_before h c q' b') s' ∧ s' ≠ s.
Proof using All.
  intros Ha Hc Hs. revert q b cache Hc. induction fuel as [|fuel IH]; intros q b cache Hc Hq Hl Hbip Hf.
  all: pose proof (tree_height h Hh q b Hq) as H0; try lia.
  destruct (period_before_spec h Hh c HP q b Hq Hl) as (_ & Hb & Hr).
  destruct (period_before h c q b) as [r|] eqn:Er.
  - destruct (Hr r eq_refl) as (Har & br & Hbr & Eh). pose proof (tree_height h Hh r br Hbr).
    destruct (GetStateFor_spec h Hh Ht c HP Hbe (Some r) cache Ha Hc) as (s1 & c1 & E1 & Hs1 & Hc1);
      [by eexists|]. rewrite (last_boundary_self r br Hbr Hb) in Hs1.
    cbn [since_loop]. rewrite E1. cbn [mbind option_bind].
    destruct (decide (s1 = s)) as [->|Hne].
    + rewrite bool_decide_true by done. rewrite Hbr. cbn [mbind option_bind].
      destruct (period_before_spec h Hh c HP r br Hbr Hb) as (-> & _). cbn [mbind option_bind].
      destruct (IH r br c1) as (q' & b' & s' & c' & -> & Hc' & Hq' & Hl' & Ha' & Hb1 & Hb2 & Hne);
        [done..|lia|]. exists q', b', s', c'. split_and!; try done. by eapply ancestor_trans.
    + rewrite bool_decide_false by done. exists q, b, s1, c1. rewrite Er.
      split_and!; try done. apply ancestor_refl.
  - exists q, b, DEFINED, cache. rewrite Er. split_and!; try done; [apply ancestor_refl|constructor].
Qed.

End Outcome.

(** ** The version of a new block *)

(** A version with the top bits 001, and no bit of a deployment set that is not
    in [bits]. *)
Definition is_version (bits : list Z) (v : Z) : Prop :=
  0 <= v ∧ ∀ k, 0 <= k → Z.testbit v k = true ↔ k = 29 ∨ k ∈ bits.

Lemma is_version_start : is_version [] VERSIONBITS_TOP_BITS.
Proof.
  split; [done|]. intros k Hk. change VERSIONBITS_TOP_BITS with (2 ^ 29).
  rewrite Z.pow2_bits_eqb by lia. rewrite Z.eqb_eq, elem_of_nil. lia.
Qed.

Lemma Mask_small d : 0 <= bit d < 29 → Mask d = 2 ^ bit d.
Proof.
  intros Hb. unfold Mask. rewrite Z.shiftl_1_l. unfold u32. apply Z.mod_small.
  split; [lia|]. apply Z.pow_lt_mono_r; lia.
Qed.

Lemma is_version_range bits v : Forall (λ k, 0 <= k < 29) bits → is_version bits v → 0 <= v < 2 ^ 30.
Proof.
  intros Hb [H0 Hv]. split; [done|]. destruct (Z.eq_dec v 0) as [->|Hne]; [lia|].
  apply Z.log2_lt_pow2; [lia|]. destruct (Z.lt_ge_cases (Z.log2 v) 30) as [|Hge]; [done|exfalso].
  pose proof (Z.log2_nonneg v) as Hl. pose proof (Z.bit_log2 v ltac:(lia)) as Hbit.
  apply Hv in Hbit; [|lia]. destruct Hbit as [?|Hin]; [lia|]. rewrite Forall_forall in Hb. specialize (Hb _ Hin). lia.
Qed.

Lemma is_version_add bits v d :
  Forall (λ k, 0 <= k < 29) bits → 0 <= bit d < 29 → is_version bits v →
  is_version (bit d :: bits) (i32 (Z.lor v (Mask d))).
Proof.
  intros Hbits Hb Hv. rewrite Mask_small by done.
  assert (Hor : is_version (bit d :: bits) (Z.lor v (2 ^ bit d))).
  { destruct Hv as [H0 Hv]. split; [apply Z.lor_nonneg; lia|]. intros k Hk.
    rewrite Z.lor_spec, orb_true_iff, Hv by lia. rewrite Z.pow2_bits_eqb, Z.eqb_eq, elem_of_cons by lia. clear Hv. intuition lia. }
  pose proof (is_version_range (bit d :: bits) _ ltac:(by constructor) Hor) as Hr.
  unfold i32. rewrite Z.mod_small by lia. by rewrite Z.add_simpl_r.
Qed.

(** A version signals for the deployments whose bits it has. *)
Lemma is_version_condition P d bits v b :
  Forall (λ k, 0 <= k < 29) bits → is_version bits v → 0 <= bit d < 29 → Chain.nVersion b = v →
  Condition (version_bits_checker P d) b = true ↔ bit d ∈ bits.
Proof.
  intros Hbits Hv Hb Eb. pose proof (is_version_range _ _ Hbits Hv) as Hr. destruct Hv as [_ Hv].
  cbn [Condition version_bits_checker]. rewrite Eb. assert (u32 v = v) as -> by (unfold u32; apply Z.mod_small; lia).
  assert (Z.land v VERSIONBITS_TOP_MASK = VERSIONBITS_TOP_BITS) as ->.
  { change VERSIONBITS_TOP_MASK with (Z.shiftl (Z.ones 3) 29).
    apply Z.bits_inj'. intros k Hk. rewrite Z.land_spec, Z.shiftl_spec by done.
    change VERSIONBITS_TOP_BITS with (2 ^ 29). rewrite Z.pow2_bits_eqb by lia.
    destruct (Z.lt_ge_cases k 29).
    { rewrite (Z.testbit_neg_r _ (k - 29)) by lia. rewrite andb_false_r. symmetry. apply Z.eqb_neq. lia. }
    rewrite Z.testbit_ones_nonneg by lia. apply eq_bool_prop_intro.
    rewrite !Is_true_true, andb_true_iff, Hv, Z.ltb_lt, Z.eqb_eq by done.
    rewrite Forall_forall in Hbits. split; [|lia].
    intros [[|Hin] _]; [lia|]. specialize (Hbits _ Hin). lia. }
  rewrite Z.eqb_refl, Mask_small by done. cbn [andb]. rewrite land_pow2_testbit, Hv by lia.
  split; [intros [|]; [lia|done]|by right].
Qed.

Lemma NoDup_map_inj {A B} (f : A → B) l x y :
  NoDup (map f l) → x ∈ l → y ∈ l → f x = f y → x = y.
Proof.
  intros Hnd [i Hi]%list_elem_of_lookup [j Hj]%list_elem_of_lookup E.
  assert (i = j) as ->; [|congruence].
  apply (NoDup_lookup _ i j (f x) Hnd); rewrite list_lookup_fmap; [by rewrite Hi|by rewrite Hj, E].
Qed.

Section BlockVersion.
Context (h : heap) (Hh : tree_ok h) (Ht : times_ok h) (P : deployment_params).
Context (HP : 0 < nMinerConfirmationWindow P).

(** The deployments use bits below the top three, and start before they end. *)
Definition deployment_ok (d : deployment) : Prop :=
  0 <= bit d < 29 ∧ nStartTime d <= nTimeout d ∧ nStartTime d ≠ ALWAYS_ACTIVE.

(** Every cache holds states of its own deployment. *)
Definition caches_ok (caches : version_bits_cache) : Prop :=
  Forall2 (λ d cache, states_ok h (version_bits_checker P d) cache) (vDeployments P) caches.

(** A deployment a miner should signal for in the block after [p]. *)
Definition wanted (p : option ptr) (d : deployment) : Prop :=
  let c := version_bits_checker P d in
  bip9 h c (last_boundary h c p) STARTED ∨ bip9 h c (last_boundary h c p) LOCKED_IN.

Lemma VersionBitsState_spec p i d caches :
  deployment_ok d → vDeployments P !! i = Some d → caches_ok caches → in_index h p →
  ∃ s caches', VersionBitsState h P p i caches = Some (s, caches') ∧ caches_ok caches' ∧
    bip9 h (version_bits_checker P d) (last_boundary h (version_bits_checker P d) p) s.
Proof using All.
  intros (_ & Hse & Ha) Hd Hc Hp. unfold VersionBitsState. rewrite Hd. cbn [mbind option_bind].
  destruct (Forall2_lookup_l _ _ _ _ _ Hc Hd) as (cache & -> & Hcache). cbn [mbind option_bind].
  destruct (GetStateFor_spec h Hh Ht (version_bits_checker P d) HP Hse p cache Ha Hcache Hp)
    as (s & cache' & -> & Hs & Hc'). cbn [mbind option_bind].
  exists s, (<[i := cache']> caches). split_and!; [done| |done].
  unfold caches_ok. rewrite <- (list_insert_id _ _ _ Hd). by apply Forall2_insert.
Qed.

Lemma block_version_spec p k i bits v caches :
  Forall deployment_ok (vDeployments P) → (i + k = length (vDeployments P))%nat →
  caches_ok caches → in_index h p → Forall (λ b, 0 <= b < 29) bits → is_version bits v →
  (∀ b, b ∈ bits ↔ ∃ d, d ∈ take i (vDeployments P) ∧ bit d = b ∧ wanted p d) →
  ∃ v' caches' bits', block_version h P p k i v caches = Some (v', caches') ∧ caches_ok caches' ∧
    Forall (λ b, 0 <= b < 29) bits' ∧ is_version bits' v' ∧
    ∀ b, b ∈ bits' ↔ ∃ d, d ∈ vDeployments P ∧ bit d = b ∧ wanted p d.
Proof using All.
  intros HD. revert i bits v caches.
  induction k as [|k IH]; intros i bits v caches Hi Hc Hp Hbits Hv Hsig.
  { exists v, caches, bits. rewrite take_ge in Hsig by lia. done. }
  destruct (lookup_lt_is_Some_2 (vDeployments P) i ltac:(lia)) as [d Hd].
  pose proof (Forall_lookup_1 _ _ _ _ HD Hd) as Hok. cbn [block_version].
  destruct (VersionBitsState_spec p i d caches Hok Hd Hc Hp) as (s & c' & -> & Hc' & Hs).
  cbn [mbind option_bind]. unfold VersionBitsMask. rewrite Hd. cbn [mbind option_bind].
  assert (Hw : wanted p d ↔ s = LOCKED_IN ∨ s = STARTED).
  { split; [|intros [-> | ->]; [by right|by left]].
    intros [H|H]; [right|left]; by eapply bip9_det. }
  assert (Htake : ∀ d', d' ∈ take (S i) (vDeployments P) ↔ d' ∈ take i (vDeployments P) ∨ d' = d).
  { intros d'. rewrite (take_S_r _ _ _ Hd), elem_of_app, list_elem_of_singleton. done. }
  destruct (bool_decide (s = LOCKED_IN) || bool_decide (s = STARTED)) eqn:E.
  - assert (wanted p d) by (apply Hw; destruct s; cbn in E; auto || done).
    destruct Hok as [Hbit _].
    apply (IH (S i) (bit d :: bits)); [lia|done|done|by constructor|by apply is_version_add|].
    intros b. rewrite elem_of_cons, Hsig. split.
    + intros [->|(d' & ? & ? & ?)]; [exists d|exists d']; rewrite Htake; auto.
    + intros (d' & Hd' & <- & Hw'). apply Htake in Hd' as [Hd'| ->]; [right; by exists d'|by left].
  - assert (¬ wanted p d) by (rewrite Hw; intros [-> | ->]; done).
    apply (IH (S i) bits); [lia|done..|]. intros b. rewrite Hsig. split.
    + intros (d' & ? & ? & ?). exists d'. rewrite Htake. auto.
    + intros (d' & Hd' & <- & Hw'). apply Htake in Hd' as [Hd'| ->]; [by exists d'|done].
Qed.

End BlockVersion.

(** ** Properties *)

(** C11: the cached computation is the state machine of BIP 9.  On a chain whose
    headers obey the rule on times, and with any cache of true states (such as an
    empty one), [GetStateFor] always returns the state that the machine reaches
    period by period from the genesis block, and leaves a cache of true states;
    that state does not depend on the cache. *)
Theorem GetStateFor_bip9 (h : heap) (c : condition_checker) (p : option ptr) (cache : threshold_cache) :
  tree_ok h → times_ok h → 0 < Period c → BeginTime c <= EndTime c → BeginTime c ≠ ALWAYS_ACTIVE →
  states_ok h c cache → in_index h p →
  ∃ s cache', GetStateFor h c p cache = Some (s, cache') ∧ states_ok h c cache' ∧
    ∀ s', bip9 h c (last_boundary h c p) s' ↔ s' = s.
Proof.
  intros Hh Ht HP Hbe Ha Hc Hp.
  destruct (GetStateFor_spec h Hh Ht c HP Hbe p cache Ha Hc Hp) as (s & cache' & E & Hs & Hc').
  exists s, cache'. split_and!; [done..|]. intros s'. split; [|by intros ->].
  intros H. by eapply bip9_det.
Qed.

(** C32: a deployment with enough support becomes active.  If a deployment has started,
    and in a period before the timeout enough blocks signal, then for every
    descendant at least one period later [GetStateFor] returns [ACTIVE]. *)
Theorem deployment_activates (h : heap) (c : condition_checker) (q p : ptr) (b bp : CBlockIndex)
    (t : Z) (cache : threshold_cache) :
  tree_ok h → times_ok h → 0 < Period c → BeginTime c <= EndTime c → BeginTime c ≠ ALWAYS_ACTIVE →
  states_ok h c cache → h !! q = Some b → period_last h c q →
  bip9 h c (period_before h c q b) STARTED → GetMedianTimePast h q = Some t → t < EndTime c →
  Threshold c <= signalling h c q →
  h !! p = Some bp → ancestor h q p → nHeight b + Period c <= nHeight bp →
  ∃ cache', GetStateFor h c (Some p) cache = Some (ACTIVE, cache').
Proof.
  intros Hh Ht HP Hbe Ha Hc Hq Hl Hs Hm Hlt Hsig Hp Hanc Hge.
  destruct (GetStateFor_spec h Hh Ht c HP Hbe (Some p) cache Ha Hc) as (s & cache' & E & Hb & _);
    [by eexists|]. exists cache'.
  destruct (later_boundary h Hh c HP q b p bp Hq Hl Hp Hanc Hge) as (k & e & be & Ee & Hbe' & Hle & Hw).
  assert (Hlock : bip9 h c (Some q) LOCKED_IN).
  { eapply bip9_period; [done|done|]. by eapply started_locks_in. }
  rewrite Ee in Hb. rewrite E. do 2 f_equal.
  exact (bip9_det h c _ _ _ Hb (bip9_forward h Hh c HP k q e be Hbe' Hle Hw Hlock)).
Qed.

(** The height a state began at.  For a state other than [DEFINED],
    [GetStateSinceHeightFor] returns the height after the last block [q] of a
    period on the branch, from which on the state is the present one, and before
    which it was another. *)
Theorem GetStateSinceHeightFor_correct (h : heap) (c : condition_checker) (p : option ptr)
    (cache : threshold_cache) :
  tree_ok h → times_ok h → 0 < Period c → BeginTime c <= EndTime c → BeginTime c ≠ ALWAYS_ACTIVE →
  states_ok h c cache → in_index h p →
  ∃ s n cache', bip9 h c (last_boundary h c p) s ∧
    GetStateSinceHeightFor h c p cache = Some (n, cache') ∧ states_ok h c cache' ∧
    if decide (s = DEFINED) then n = 0
    else ∃ e q b s', last_boundary h c p = Some e ∧ h !! q = Some b ∧ ancestor h q e ∧
      n = nHeight b + 1 ∧ bip9 h c (Some q) s ∧ bip9 h c (period_before h c q b) s' ∧ s' ≠ s.
Proof.
  intros Hh Ht HP Hbe Ha Hc Hp. unfold GetStateSinceHeightFor. rewrite (proj2 (Z.eqb_neq _ _) Ha).
  destruct (GetStateFor_spec h Hh Ht c HP Hbe p cache Ha Hc Hp) as (s & c1 & -> & Hs & Hc1).
  cbn [mbind option_bind]. exists s. destruct (decide (s = DEFINED)) as [->|Hne].
  { rewrite bool_decide_true by done. by exists 0, c1. }
  rewrite bool_decide_false by done.
  destruct p as [p|]; [|by inversion Hs]. destruct Hp as [bp Hp]. cbn [mbind option_bind].
  destruct (period_end_spec h Hh c HP p bp Hp) as (-> & Hb & He). cbn [mbind option_bind].
  destruct (last_boundary h c (Some p)) as [e|]; [|by inversion Hs]. cbn [mbind option_bind].
  destruct (He e eq_refl) as (be & Hbe' & _). rewrite Hbe'. cbn [mbind option_bind].
  destruct (period_before_spec h Hh c HP e be Hbe' Hb) as (-> & _). cbn [mbind option_bind].
  destruct (since_loop_spec h Hh Ht c HP Hbe (walk_fuel h (Some e)) s e be c1)
    as (q & b & s' & c2 & -> & Hc2 & Hq & _ & Hanc & Hb1 & Hb2 & Hne'); try done.
  { unfold walk_fuel. by rewrite Hbe'. }
  cbn [mbind option_bind]. rewrite Hq. cbn [mbind option_bind].
  exists (nHeight b + 1), c2. split_and!; [done..|]. by exists e, q, b, s'.
Qed.

(** The statistics of the present period.  From the end of the first period on,
    [GetStateStatisticsFor] returns how many blocks of the period have passed and how
    many of them signal, and whether the threshold can still be reached: exactly
    when the blocks that are left could make up for those that did not signal.
    In the first period it dereferences the null pointer that stands for the
    parent of the genesis block. *)
Theorem GetStateStatisticsFor_correct (h : heap) (c : condition_checker) (q : ptr) (b : CBlockIndex) :
  tree_ok h → 0 < Period c → h !! q = Some b →
  let elapsed := (nHeight b + 1) mod Period c in
  let n := Z.of_nat (length (List.filter (signals h c q) (seq 0 (Z.to_nat elapsed)))) in
  GetStateStatisticsFor h c (Some q) =
    (if nHeight b + 1 <? Period c then None
     else Some (Stats (Period c) (Threshold c) elapsed n (Threshold c <=? n + (Period c - elapsed)))).
Proof.
  intros Hh HP Hq elapsed n. unfold GetStateStatisticsFor. rewrite Hq. cbn [mbind option_bind].
  destruct (period_end_spec h Hh c HP q b Hq) as (-> & Hb & He). cbn [mbind option_bind].
  pose proof (tree_height h Hh q b Hq) as H0.
  pose proof (Z.mod_pos_bound (nHeight b + 1) (Period c) HP) as Hm.
  destruct (Z.ltb_spec (nHeight b + 1) (Period c)) as [Hlt|Hge].
  { unfold last_boundary. cbn. rewrite Hq. cbn. by rewrite (proj2 (Z.ltb_lt _ _) Hlt). }
  destruct (last_boundary_some h Hh c HP q b Hq Hge) as [e Ee]. rewrite Ee in He |- *.
  cbn [mbind option_bind]. destruct (He e eq_refl) as (be & Hbe & Eh & _). rewrite Hbe.
  cbn [mbind option_bind]. pose proof (tree_height h Hh e be Hbe) as H0'.
  rewrite (count_until_spec h Hh c _ q b) by (done || (unfold walk_fuel; rewrite ?Hq; lia)).
  rewrite (count_condition_spec h Hh c _ q b) by (done || lia). cbn [mbind option_bind].
  replace (nHeight b - nHeight be) with elapsed by (subst elapsed; lia). fold n.
  do 2 f_equal. rewrite Z.add_0_l. apply eq_bool_prop_intro. rewrite !Is_true_true, !Z.leb_le. lia.
Qed.

(** A miner signals what validators count.  With deployments on distinct bits
    below 29 and caches of true states, [ComputeBlockVersion] returns a version, and
    a block of that version signals (as [Condition] counts it) for exactly those
    deployments that are [STARTED] or [LOCKED_IN] after the parent block. *)
Theorem ComputeBlockVersion_signals (h : heap) (P : deployment_params) (p : option ptr)
    (caches : version_bits_cache) :
  tree_ok h → times_ok h → 0 < nMinerConfirmationWindow P →
  length (vDeployments P) = MAX_VERSION_BITS_DEPLOYMENTS → Forall deployment_ok (vDeployments P) →
  NoDup (map bit (vDeployments P)) → caches_ok h P caches → in_index h p →
  ∃ v caches', ComputeBlockVersion h P p caches = Some (v, caches') ∧ caches_ok h P caches' ∧
    0 <= v < 2 ^ 30 ∧
    ∀ b d, Chain.nVersion b = v → d ∈ vDeployments P →
      Condition (version_bits_checker P d) b = true ↔ wanted h P p d.
Proof.
  intros Hh Ht HP Hlen HD Hnd Hc Hp.
  destruct (block_version_spec h Hh Ht P HP p MAX_VERSION_BITS_DEPLOYMENTS 0 [] VERSIONBITS_TOP_BITS caches)
    as (v & caches' & bits & E & Hc' & Hbits & Hv & Hsig); try done; [apply is_version_start| |].
  { intros b. rewrite take_0. split; [by rewrite elem_of_nil|]. intros (d & Hd & _). by apply elem_of_nil in Hd. }
  exists v, caches'. split_and!; [done..| | |]; [by eapply is_version_range..|].
  intros b d Hb Hd. pose proof (proj1 (Forall_forall _ _) HD d Hd) as [Hbit _].
  rewrite (is_version_condition P d bits v b) by done. rewrite Hsig. split.
  - intros (d' & Hd' & Eb & Hw). by rewrite <- (NoDup_map_inj bit _ d' d Hnd Hd' Hd Eb).
  - intros Hw. by exists d.
Qed.

(** ** A chain of six blocks that all signal on bit 0 *)

(** The rule on times, as a check of one header. *)
Definition time_ok (h : heap) (b : CBlockIndex) : bool :=
  match q ← pprev b; GetMedianTimePast h q with Some m => m <? nTime b | None => true end.

Lemma times_ok_intro h : map_Forall (λ _ b, time_ok h b = true) h → times_ok h.
Proof.
  intros H p b q m Hp Hq Hm. specialize (H p b Hp). cbn in H. unfold time_ok in H.
  rewrite Hq in H. cbn [mbind option_bind] in H. rewrite Hm in H. lia.
Qed.

Fixpoint signalling_chain (k : nat) : block_tree * bytes :=
  match k with
  | O => (BlockTree ∅ ∅ None ∅, [])
  | S k' =>
      let '(s, prev) := signalling_chain k' in
      let hdr := CBlockHeader.Header 0x20000001 prev uint256_zero uint256_zero
                   (1000 + 60 * Z.of_nat k') 0x1d00ffff (Z.of_nat k') in
      (add (Pos.of_nat k) hdr s, CBlockHeader.ser hdr)
  end.

Lemma signalling_chain_ok : index_ok (signalling_chain 6).1.
Proof. repeat (apply add_ok; [..|]); [apply index_ok_empty|by_eval..]. Qed.

Definition signalling_heap : heap := entries (signalling_chain 6).1.
Definition signalling_block (p : ptr) : CBlockIndex :=
  default (of_header hdr0) (signalling_heap !! p).
Definition signalling_params : deployment_params :=
  Params 2 2 [Deployment 0 1000 5000; Deployment 1 1000 5000; Deployment 2 4000 5000].
Definition signalling_checker : condition_checker :=
  version_bits_checker signalling_params (Deployment 0 1000 5000).

Lemma signalling_tree_ok : tree_ok signalling_heap.
Proof. exact (proj1 signalling_chain_ok). Qed.
Lemma signalling_times_ok : times_ok signalling_heap.
Proof. apply times_ok_intro. by_eval. Qed.

Lemma empty_states_ok h c : states_ok h c ∅.
Proof. apply map_Forall_empty. Qed.
Lemma empty_caches_ok h P : caches_ok h P (map (λ _, ∅) (vDeployments P)).
Proof. unfold caches_ok. induction (vDeployments P); constructor; [apply empty_states_ok|done]. Qed.

Lemma signalling_started :
  bip9 signalling_heap signalling_checker (Some 2%positive) STARTED.
Proof.
  apply (bip9_period _ _ _ (signalling_block 2) DEFINED); [vm_compute; reflexivity| |].
  - replace (period_before _ _ _ _) with (@None ptr) by (vm_compute; reflexivity). constructor.
  - apply (defined_starts _ _ _ 1060); [vm_compute; reflexivity|reflexivity|vm_compute; discriminate].
Qed.

Lemma GetStateFor_bip9_witness :
  ∃ s cache', GetStateFor signalling_heap signalling_checker (Some 6%positive) ∅ = Some (s, cache') ∧
    s = ACTIVE.
Proof.
  destruct (GetStateFor_bip9 signalling_heap signalling_checker (Some 6%positive) ∅)
    as (s & cache' & E & _ & _); [apply signalling_tree_ok|apply signalling_times_ok|reflexivity
    |vm_compute; discriminate|done|apply empty_states_ok|vm_compute; eexists; reflexivity|].
  exists s, cache'. split; [exact E|]. vm_compute in E. congruence.
Defined.

Lemma deployment_activates_witness :
  ∃ cache', GetStateFor signalling_heap signalling_checker (Some 6%positive) ∅ = Some (ACTIVE, cache').
Proof.
  apply (deployment_activates signalling_heap signalling_checker 4 6 (signalling_block 4)
    (signalling_block 6) 1120).
  - apply signalling_tree_ok.
  - apply signalling_times_ok.
  - reflexivity.
  - vm_compute. discriminate.
  - done.
  - apply empty_states_ok.
  - vm_compute. reflexivity.
  - exists (signalling_block 4). split; vm_compute; reflexivity.
  - replace (period_before _ _ _ _) with (Some 2%positive) by (vm_compute; reflexivity).
    apply signalling_started.
  - vm_compute. reflexivity.
  - reflexivity.
  - vm_compute. discriminate.
  - vm_compute. reflexivity.
  - exists 2%nat. vm_compute. reflexivity.
  - vm_compute. discriminate.
Defined.

Lemma GetStateSinceHeightFor_correct_witness :
  ∃ s n cache', bip9 signalling_heap signalling_checker
      (last_boundary signalling_heap signalling_checker (Some 6%positive)) s ∧
    GetStateSinceHeightFor signalling_heap signalling_checker (Some 6%positive) ∅ = Some (n, cache') ∧
    n = 6.
Proof.
  destruct (GetStateSinceHeightFor_correct signalling_heap signalling_checker (Some 6%positive) ∅)
    as (s & n & cache' & Hs & E & _); [apply signalling_tree_ok|apply signalling_times_ok|reflexivity
    |vm_compute; discriminate|done|apply empty_states_ok|vm_compute; eexists; reflexivity|].
  exists s, n, cache'. split_and!; [exact Hs|exact E|]. vm_compute in E. congruence.
Defined.

Lemma ComputeBlockVersion_signals_witness :
  ∃ v caches', ComputeBlockVersion signalling_heap signalling_params (Some 2%positive) [∅; ∅; ∅]
      = Some (v, caches') ∧ v = 0x20000003.
Proof.
  destruct (ComputeBlockVersion_signals signalling_heap signalling_params (Some 2%positive) [∅; ∅; ∅])
    as (v & caches' & E & _); [apply signalling_tree_ok|apply signalling_times_ok|reflexivity..| | |
    |vm_compute; eexists; reflexivity|].
  - repeat constructor; cbn; try lia; unfold ALWAYS_ACTIVE; lia.
  - by_eval.
  - exact (empty_caches_ok signalling_heap signalling_params).
  - exists v, caches'. split; [exact E|]. vm_compute in E. congruence.
Defined.

Lemma GetStateStatisticsFor_correct_witness :
  GetStateStatisticsFor signalling_heap signalling_checker (Some 5%positive)
  = Some (Stats 2 2 1 1 true).
Proof.
  rewrite (GetStateStatisticsFor_correct signalling_heap signalling_checker 5 (signalling_block 5)).
  - vm_compute. reflexivity.
  - apply signalling_tree_ok.
  - reflexivity.
  - vm_compute. reflexivity.
Defined.
