(* ===== verification/Merkle.v ===== *)
(** Merkle trees and proofs of inclusion, after [src/src/consensus/merkle.cpp]
    and [src/src/merkleblock.h], [src/src/merkleblock.cpp].

    The double SHA-256 is the parameter [H].  A [uint256] is its 32 bytes.
    [None] is a failed assertion or an access beyond a vector. *)
From stdpp Require Import gmap.
From S2P Require Import Prelude Serialize Transaction Chain.
Open Scope Z_scope.

(** ** Roots *)

Section ComputeMerkleRoot.
Context (H : bytes → bytes).

(** One round: [SHA256D64] on the pairs, after the last hash is repeated when
    their number is odd. *)
Fixpoint merkle_level (hashes : list bytes) : list bytes :=
  match hashes with
  | a :: b :: l => H (a ++ b) :: merkle_level l
  | [a] => [H (a ++ a)]
  | [] => []
  end.

(** Two identical hashes that would be hashed together. *)
Fixpoint has_equal_pair (hashes : list bytes) : bool :=
  match hashes with
  | a :: b :: l => bool_decide (a = b) || has_equal_pair l
  | _ => false
  end.

Fixpoint merkle_loop (fuel : nat) (hashes : list bytes) (mutation : bool) : option (bytes * bool) :=
  match hashes with
  | [] => Some (uint256_zero, mutation)
  | [a] => Some (a, mutation)
  | _ =>
      match fuel with
      | O => None
      | S f => merkle_loop f (merkle_level hashes) (mutation || has_equal_pair hashes)
      end
  end.

(** The root, and what [*mutated] is set to.  Every round at least halves a list
    of two or more. *)
Definition ComputeMerkleRoot (hashes : list bytes) : option (bytes * bool) :=
  merkle_loop (length hashes) hashes false.

End ComputeMerkleRoot.

(** [CBlock]: a header, its transactions and the signature of its staker. *)
Record CBlock := Block {
  block_header : CBlockHeader.t;
  vtx : list CTransaction;
  vchBlockSig : bytes
}.

(** [None]: a transaction with a null output cannot be hashed. *)
Definition BlockMerkleRoot (H : bytes → bytes) (block : CBlock) : option (bytes * bool) :=
  leaves ← mapM (ComputeHash H) (vtx block);
  ComputeMerkleRoot H leaves.

Definition BlockWitnessMerkleRoot (H : bytes → bytes) (block : CBlock) : option (bytes * bool) :=
  if CBlockHeader.nVersion (block_header block) =? BITCOINC_BLOCK_VERSION then
    leaves ← mapM (ComputeWitnessHash H) (vtx block);
    ComputeMerkleRoot H leaves
  else
    match vtx block with
    | [] => None
    | _ :: l =>
        leaves ← mapM (ComputeWitnessHash H) l;
        ComputeMerkleRoot H (uint256_zero :: leaves)
    end.

(** ** Partial trees *)

(** [MIN_TRANSACTION_WEIGHT] is computed before the scale factor can be changed
    from [WITNESS_SCALE_FACTOR_PART]. *)
Definition MAX_BLOCK_WEIGHT : Z := 4000000.
Definition MIN_TRANSACTION_WEIGHT : Z := 2 * 60.

Record CPartialMerkleTree := PartialMerkleTree {
  nTransactions : Z;
  vBits : list bool;
  vHash : list bytes;
  fBad : bool
}.

Definition CalcTreeWidth (nTransactions : Z) (height : nat) : Z :=
  Z.shiftr (u32 (nTransactions + Z.shiftl 1 (Z.of_nat height) - 1)) (Z.of_nat height).

(** [int nHeight = 0; while (CalcTreeWidth(nHeight) > 1) nHeight++;] *)
Fixpoint tree_height_loop (fuel : nat) (nTransactions : Z) (nHeight : nat) : option nat :=
  if 1 <? CalcTreeWidth nTransactions nHeight then
    match fuel with O => None | S f => tree_height_loop f nTransactions (S nHeight) end
  else Some nHeight.
Definition tree_height_of (nTransactions : Z) : option nat := tree_height_loop 31 nTransactions 0.

Section Tree.
Context (H : bytes → bytes) (nTransactions : Z).

Fixpoint CalcHash (height : nat) (pos : Z) (vTxid : list bytes) : option bytes :=
  match height with
  | O => if bool_decide (vTxid = []) then None else vTxid !! Z.to_nat pos
  | S k =>
      lhash ← CalcHash k (u32 (pos * 2)) vTxid;
      rhash ← (if u32 (pos * 2 + 1) <? CalcTreeWidth nTransactions k
               then CalcHash k (u32 (pos * 2 + 1)) vTxid else Some lhash);
      Some (H (lhash ++ rhash))
  end.

(** The loop that computes [fParentOfMatch], over [k] positions from [p] on. *)
Fixpoint parent_of_match (k : nat) (p : nat) (vMatch : list bool) : option bool :=
  match k with
  | O => Some false
  | S k' =>
      m ← vMatch !! p;
      r ← parent_of_match k' (S p) vMatch;
      Some (m || r)
  end.

Fixpoint TraverseAndBuild (height : nat) (pos : Z) (vTxid : list bytes) (vMatch : list bool)
    (t : list bool * list bytes) : option (list bool * list bytes) :=
  let lo := u32 (Z.shiftl pos (Z.of_nat height)) in
  let hi := Z.min (u32 (Z.shiftl (u32 (pos + 1)) (Z.of_nat height))) nTransactions in
  fParentOfMatch ← parent_of_match (Z.to_nat (hi - lo)) (Z.to_nat lo) vMatch;
  let vBits := t.1 ++ [fParentOfMatch] in
  let stop :=
    hash ← CalcHash height pos vTxid;
    Some (vBits, t.2 ++ [hash]) in
  match height with
  | O => stop
  | S k =>
      if negb fParentOfMatch then stop
      else
        t ← TraverseAndBuild k (u32 (pos * 2)) vTxid vMatch (vBits, t.2);
        if u32 (pos * 2 + 1) <? CalcTreeWidth nTransactions k
        then TraverseAndBuild k (u32 (pos * 2 + 1)) vTxid vMatch t else Some t
  end.

(** What [TraverseAndExtract] reads and updates by reference. *)
Record extraction := Extraction {
  nBitsUsed : nat;
  nHashUsed : nat;
  matches : list bytes;
  indices : list Z;
  bad : bool
}.

Fixpoint TraverseAndExtract (vBits : list bool) (vHash : list bytes) (height : nat) (pos : Z)
    (x : extraction) : bytes * extraction :=
  match vBits !! nBitsUsed x with
  | None => (uint256_zero, Extraction (nBitsUsed x) (nHashUsed x) (matches x) (indices x) true)
  | Some fParentOfMatch =>
      let x := Extraction (S (nBitsUsed x)) (nHashUsed x) (matches x) (indices x) (bad x) in
      let use_hash (leaf : bool) :=
        match vHash !! nHashUsed x with
        | None => (uint256_zero, Extraction (nBitsUsed x) (nHashUsed x) (matches x) (indices x) true)
        | Some hash =>
            (hash,
             if leaf && fParentOfMatch
             then Extraction (nBitsUsed x) (S (nHashUsed x)) (matches x ++ [hash]) (indices x ++ [pos]) (bad x)
             else Extraction (nBitsUsed x) (S (nHashUsed x)) (matches x) (indices x) (bad x))
        end in
      match height with
      | O => use_hash true
      | S k =>
          if negb fParentOfMatch then use_hash false
          else
            let '(lhash, x) := TraverseAndExtract vBits vHash k (u32 (pos * 2)) x in
            if u32 (pos * 2 + 1) <? CalcTreeWidth nTransactions k then
              let '(rhash, x) := TraverseAndExtract vBits vHash k (u32 (pos * 2 + 1)) x in
              (H (lhash ++ rhash),
               if bool_decide (rhash = lhash)
               then Extraction (nBitsUsed x) (nHashUsed x) (matches x) (indices x) true else x)
            else (H (lhash ++ lhash), x)
      end
  end.

End Tree.

(** The constructor from the ids of a block and a mask. *)
Definition new_CPartialMerkleTree (H : bytes → bytes) (vTxid : list bytes) (vMatch : list bool)
  : option CPartialMerkleTree :=
  let n := u32 (Z.of_nat (length vTxid)) in
  nHeight ← tree_height_of n;
  '(bits, hashes) ← TraverseAndBuild H n nHeight 0 vTxid vMatch ([], []);
  Some (PartialMerkleTree n bits hashes false).

(** [ExtractMatches]: the root (zero on failure), [vMatch], [vnIndex] (which is not
    cleared) and the object afterwards, whose flag may have been set. *)
Definition ExtractMatches (H : bytes → bytes) (t : CPartialMerkleTree) (vnIndex : list Z)
  : option (bytes * list bytes * list Z * CPartialMerkleTree) :=
  let fail := Some (uint256_zero, [], vnIndex, t) in
  if nTransactions t =? 0 then fail
  else if MAX_BLOCK_WEIGHT / MIN_TRANSACTION_WEIGHT <? nTransactions t then fail
  else if nTransactions t <? Z.of_nat (length (vHash t)) then fail
  else if Z.of_nat (length (vBits t)) <? Z.of_nat (length (vHash t)) then fail
  else
    nHeight ← tree_height_of (nTransactions t);
    let '(root, x) := TraverseAndExtract H (nTransactions t) (vBits t) (vHash t) nHeight 0
                        (Extraction 0 0 [] vnIndex (fBad t)) in
    let t := PartialMerkleTree (nTransactions t) (vBits t) (vHash t) (bad x) in
    Some (if bad x then uint256_zero
          else if negb ((Z.of_nat (nBitsUsed x) + 7) / 8 =? (Z.of_nat (length (vBits t)) + 7) / 8) then uint256_zero
          else if negb (Z.of_nat (nHashUsed x) =? Z.of_nat (length (vHash t))) then uint256_zero
          else root, matches x, indices x, t).

(** *** Serialization *)

(** Flag bits, eight to a byte, the least significant bit first. *)
Fixpoint byte_of_bits (l : list bool) : Z :=
  match l with [] => 0 | b :: l' => Z.b2z b + 2 * byte_of_bits l' end.
Fixpoint pack_bits (k : nat) (l : list bool) : bytes :=
  match k with O => [] | S k' => byte_of_bits (take 8 l) :: pack_bits k' (drop 8 l) end.
Definition unpack_byte (b : Z) : list bool := map (λ i, Z.testbit b (Z.of_nat i)) (seq 0 8).

(** Hashes are read [5000000 / sizeof(uint256)] at a time. *)
Definition hash_batch : nat := Z.to_nat (5000000 / 32).

Definition ser_partial_tree (t : CPartialMerkleTree) : bytes :=
  c_ser c_u32 (nTransactions t) ++ c_ser (c_vector (c_fixed 32) hash_batch) (vHash t)
  ++ c_ser c_blob (pack_bits ((length (vBits t) + 7) / 8) (vBits t)).

Definition deser_partial_tree : reader CPartialMerkleTree := fun s =>
  let! (n, s) := c_deser c_u32 s in
  let! (h, s) := c_deser (c_vector (c_fixed 32) hash_batch) s in
  let! (b, s) := c_deser c_blob s in
  Ok (PartialMerkleTree n (flat_map unpack_byte b) h false, s).

(** *** Merkle blocks *)

(** [CMerkleBlock], made for a set of ids; without a Bloom filter no
    [vMatchedTxn] is recorded. *)
Record CMerkleBlock := MerkleBlock { header : CBlockHeader.t; txn : CPartialMerkleTree }.

Definition new_CMerkleBlock (H : bytes → bytes) (block : CBlock) (txids : list bytes)
  : option CMerkleBlock :=
  vHashes ← mapM (ComputeHash H) (vtx block);
  let vMatch := map (λ hash, bool_decide (hash ∈ txids)) vHashes in
  t ← new_CPartialMerkleTree H vHashes vMatch;
  Some (MerkleBlock (block_header block) t).

Definition ser_merkle_block (b : CMerkleBlock) : bytes :=
  CBlockHeader.ser (header b) ++ ser_partial_tree (txn b).
Definition deser_merkle_block : reader CMerkleBlock := fun s =>
  let! (h, s) := CBlockHeader.deser s in
  let! (t, s) := deser_partial_tree s in
  Ok (MerkleBlock h t, s).

(** ** The levels of a tree *)

Lemma pair_ind {A} (P : list A → Prop) :
  P [] → (∀ a, P [a]) → (∀ a b l, P l → P (a :: b :: l)) → ∀ l, P l.
Proof.
  intros H0 H1 H2 l. enough (P l ∧ ∀ a, P (a :: l)) by tauto.
  induction l as [|b l [IH1 IH2]]; split; auto.
Qed.

(** The number of nodes [h] levels above [n] leaves. *)
Definition width (n h : nat) : nat := ((n + 2 ^ h - 1) / 2 ^ h)%nat.

Lemma pow2_pos h : (1 <= 2 ^ h)%nat.
Proof. pose proof (Nat.pow_nonzero 2 h). lia. Qed.

Lemma width_succ n h : ((width n h + 1) / 2 = width n (S h))%nat.
Proof.
  unfold width. pose proof (pow2_pos h).
  replace ((n + 2 ^ h - 1) / 2 ^ h + 1)%nat with ((n + 2 ^ h - 1 + 1 * 2 ^ h) / 2 ^ h)%nat
    by (rewrite Nat.div_add; lia).
  rewrite Nat.Div0.div_div. f_equal; cbn [Nat.pow]; lia.
Qed.

Lemma width_le n h k : (1 <= k → width n h <= k ↔ n <= k * 2 ^ h)%nat.
Proof.
  intros Hk. unfold width. pose proof (pow2_pos h). split; intros Hle.
  - pose proof (Nat.mul_succ_div_gt (n + 2 ^ h - 1) (2 ^ h) ltac:(lia)). nia.
  - apply Nat.lt_succ_r, Nat.Div0.div_lt_upper_bound. nia.
Qed.

Lemma width_pos n h : (1 <= n → 1 <= width n h)%nat.
Proof. intros Hn. unfold width. pose proof (pow2_pos h). apply Nat.div_le_lower_bound; lia. Qed.

(** A node of the level above has a left child, and its leaves start in the list. *)
Lemma width_child n h pos : (pos < width n (S h) → 2 * pos < width n h)%nat.
Proof.
  rewrite <- width_succ. intros Hp.
  pose proof (Nat.Div0.div_mod (width n h + 1) 2). pose proof (Nat.mod_upper_bound (width n h + 1) 2).
  lia.
Qed.

Lemma width_leaves n h pos : (pos < width n h → pos * 2 ^ h < n)%nat.
Proof.
  intros Hp. destruct (Nat.lt_ge_cases (pos * 2 ^ h) n) as [|Hge]; [done|].
  destruct pos as [|pos].
  { assert (n = 0)%nat as -> by lia. unfold width in Hp. pose proof (pow2_pos h). rewrite Nat.div_small in Hp; lia. }
  apply width_le in Hge; lia.
Qed.

Section Levels.
Context (H : bytes → bytes).

Definition levels (h : nat) (l : list bytes) : list bytes := Nat.iter h (merkle_level H) l.

Lemma length_merkle_level l : length (merkle_level H l) = ((length l + 1) / 2)%nat.
Proof.
  induction l as [| |a b l IH] using pair_ind; [done..|]. cbn [merkle_level length]. rewrite IH.
  replace (S (S (length l)) + 1)%nat with (length l + 1 + 1 * 2)%nat by lia.
  rewrite Nat.div_add by done. lia.
Qed.

Lemma length_levels h l : length (levels h l) = width (length l) h.
Proof.
  induction h as [|h IH].
  - unfold width. change (2 ^ 0)%nat with 1%nat. rewrite Nat.div_1_r. cbn. lia.
  - cbn [levels Nat.iter nat_rect]. rewrite length_merkle_level. fold (Nat.iter h (merkle_level H) l).
    fold (levels h l). by rewrite IH, width_succ.
Qed.

Lemma lookup_merkle_level l i a :
  l !! (2 * i)%nat = Some a →
  merkle_level H l !! i = Some (H (a ++ default a (l !! (2 * i + 1)%nat))).
Proof.
  revert i. induction l as [|x|x y l IH] using pair_ind; intros i Ha; [done|..].
  - destruct i as [|i]; [|by rewrite lookup_ge_None_2 in Ha by (cbn; lia)].
    cbn in Ha. by injection Ha as ->.
  - destruct i as [|i]; [cbn in Ha; by injection Ha as ->|].
    replace (2 * S i)%nat with (S (S (2 * i))) in * by lia.
    replace (S (S (2 * i)) + 1)%nat with (S (S (2 * i + 1))) by lia.
    cbn [lookup list_lookup] in Ha |- *. by apply IH.
Qed.

Lemma no_equal_pair l i a b :
  has_equal_pair l = false → l !! (2 * i)%nat = Some a → l !! (2 * i + 1)%nat = Some b → a ≠ b.
Proof.
  revert i. induction l as [|x|x y l IH] using pair_ind; intros i He Ha Hb; [done|..].
  - by rewrite lookup_ge_None_2 in Hb by (cbn; lia).
  - cbn [has_equal_pair] in He. apply orb_false_iff in He as [Hxy He].
    destruct i as [|i]; [cbn in Ha, Hb; simplify_eq; by apply bool_decide_eq_false in Hxy|].
    replace (2 * S i)%nat with (S (S (2 * i))) in * by lia.
    replace (S (S (2 * i)) + 1)%nat with (S (S (2 * i + 1))) in Hb by lia. by apply (IH i).
Qed.

Lemma levels_succ h l : levels (S h) l = levels h (merkle_level H l).
Proof. unfold levels. by rewrite Nat.iter_succ_r. Qed.

Lemma levels_Forall (P : bytes → Prop) h l :
  (∀ x, P (H x)) → Forall P l → Forall P (levels h l).
Proof.
  intros HP Hl. destruct h as [|h]; [done|]. change (Forall P (merkle_level H (levels h l))).
  induction (levels h l) using pair_ind; repeat constructor; auto.
Qed.

Lemma merkle_loop_spec d l fuel m :
  (length (levels d l) <= 1)%nat → (∀ h, h < d → 1 < length (levels h l))%nat → (d <= fuel)%nat →
  ∃ b, merkle_loop H fuel l m = Some (default uint256_zero (levels d l !! 0%nat), b) ∧
    (b = false ↔ m = false ∧ ∀ h, (h < d)%nat → has_equal_pair (levels h l) = false).
Proof.
  revert l fuel m. induction d as [|d IH]; intros l fuel m Hd Hlt Hf.
  - cbn in Hd. exists m. destruct fuel; destruct l as [|x [|y l]]; cbn in Hd; try lia;
      (split; [done|split; [intros ->; split; [done|lia]|by intros [? _]]]).
  - pose proof (Hlt 0%nat ltac:(lia)) as H0. cbn in H0.
    destruct l as [|x [|y l]]; [cbn in H0; lia..|]. destruct fuel as [|fuel]; [lia|].
    cbn [merkle_loop]. rewrite levels_succ in Hd |- *.
    destruct (IH (merkle_level H (x :: y :: l)) fuel (m || has_equal_pair (x :: y :: l)))
      as (b & -> & Hb); [done| |lia|].
    { intros h Hh. rewrite <- levels_succ. apply Hlt. lia. }
    exists b. split; [done|]. rewrite Hb, orb_false_iff. split.
    + intros [[-> He] Hall]. split; [done|]. intros [|h] Hh; [done|].
      rewrite levels_succ. apply Hall. lia.
    + intros [-> Hall]. split_and!; [done|exact (Hall 0%nat ltac:(lia))|].
      intros h Hh. rewrite <- levels_succ. apply Hall. lia.
Qed.

(** The number of rounds. *)
Definition depth (l : list bytes) : nat := Nat.log2_up (length l).

Lemma depth_spec l :
  l ≠ [] → length (levels (depth l) l) = 1%nat ∧ (∀ h, h < depth l → 1 < length (levels h l))%nat.
Proof.
  intros Hl. assert (0 < length l)%nat by (destruct l; [done|cbn; lia]). split.
  - pose proof (width_pos (length l) (depth l) ltac:(lia)). rewrite length_levels.
    assert (width (length l) (depth l) <= 1)%nat; [|lia].
    apply width_le; [done|]. rewrite Nat.mul_1_l. by apply Nat.log2_up_le_pow2.
  - intros h Hh. rewrite length_levels. apply Nat.nle_gt. rewrite width_le by done.
    rewrite Nat.mul_1_l, Nat.log2_up_le_pow2 by done. unfold depth in Hh. lia.
Qed.

Lemma ComputeMerkleRoot_spec l :
  l ≠ [] → ∃ r b, ComputeMerkleRoot H l = Some (r, b) ∧ levels (depth l) l = [r] ∧
    (b = false ↔ ∀ h, (h < depth l)%nat → has_equal_pair (levels h l) = false).
Proof.
  intros Hl. destruct (depth_spec l Hl) as [H1 Hlt].
  destruct (merkle_loop_spec (depth l) l (length l) false) as (b & E & Hb); [lia|done| |].
  { apply Nat.log2_up_le_lin. lia. }
  destruct (levels (depth l) l) as [|r [|]] eqn:El; [done| |done].
  exists r, b. split_and!; [done..|]. rewrite Hb. by split; [intros [_ ?]|split].
Qed.

End Levels.

(** ** Roots determine their leaves *)

Section Binding.
Context (H : bytes → bytes) (Hash_length : ∀ x, length (H x) = 32%nat).

Definition is_hash (x : bytes) : Prop := length x = 32%nat.

(** Two different pairs of hashes with the same hash. *)
Definition collision : Prop :=
  ∃ x y : bytes, x ≠ y ∧ length x = 64%nat ∧ length y = 64%nat ∧ H x = H y.

Lemma hash_pair_inj a b a' b' :
  is_hash a → is_hash b → is_hash a' → is_hash b' → H (a ++ b) = H (a' ++ b') →
  (a = a' ∧ b = b') ∨ collision.
Proof.
  unfold is_hash. intros Ha Hb Ha' Hb' E. destruct (decide (a ++ b = a' ++ b')) as [Eab|Hne].
  - left. apply app_inj_1; [lia|done].
  - right. exists (a ++ b), (a' ++ b'). rewrite !length_app. split_and!; [done|lia|lia|done].
Qed.

Lemma levels_hashes h l : Forall is_hash l → Forall is_hash (levels H h l).
Proof using Hash_length. by apply levels_Forall. Qed.

Lemma merkle_level_inj l l' :
  Forall is_hash l → Forall is_hash l' → has_equal_pair l = false → has_equal_pair l' = false →
  merkle_level H l = merkle_level H l' → l = l' ∨ collision.
Proof.
  revert l'. induction l as [|a|a b l IH] using pair_ind; intros l' Hl Hl' He He' E;
    destruct l' as [|a' [|b' l']]; cbn [merkle_level] in E; try discriminate; [by left|..];
    pose proof (f_equal tail E) as E2; apply (f_equal head) in E as E1; injection E1 as E1; cbn in E2;
    cbn [has_equal_pair] in *;
    repeat match goal with
    | X : Forall _ (_ :: _) |- _ => apply Forall_cons in X as [? X]
    | X : _ || _ = false |- _ => apply orb_false_iff in X as [X%bool_decide_eq_false ?]
    end;
    (apply hash_pair_inj in E1; [|done..]); (destruct E1 as [[E1 E3]|Hc]; [|by right]);
    clear E; subst; try congruence; try (by left).
  destruct (IH l') as [->|]; auto.
Qed.

Lemma levels_inj d l l' :
  Forall is_hash l → Forall is_hash l' →
  (∀ h, (h < d)%nat → has_equal_pair (levels H h l) = false) →
  (∀ h, (h < d)%nat → has_equal_pair (levels H h l') = false) →
  levels H d l = levels H d l' → l = l' ∨ collision.
Proof using Hash_length.
  intros Hl Hl'. induction d as [|d IH]; intros He He' E; [by left|].
  destruct (merkle_level_inj (levels H d l) (levels H d l')) as [E'|]; auto using levels_hashes.
Qed.

End Binding.

(** ** Repeated leaves *)

Section Duplicates.
Context (H : bytes → bytes).

Lemma merkle_level_app l l' :
  Nat.Even (length l) → merkle_level H (l ++ l') = merkle_level H l ++ merkle_level H l'.
Proof.
  induction l as [|a|a b l IH] using pair_ind; intros [k Hk]; [done|cbn in Hk; lia|].
  cbn [app merkle_level]. f_equal. apply IH. exists (k - 1)%nat. cbn in Hk. lia.
Qed.

Lemma levels_app h l l' :
  (2 ^ h | length l)%nat → levels H h (l ++ l') = levels H h l ++ levels H h l'.
Proof.
  revert l l'. induction h as [|h IH]; intros l l' [k Hk]; [done|].
  cbn [Nat.pow] in Hk. rewrite !levels_succ, merkle_level_app by (exists (k * 2 ^ h)%nat; lia).
  apply IH. exists k. rewrite length_merkle_level, Hk.
  replace (k * (2 * 2 ^ h) + 1)%nat with (1 + (k * 2 ^ h) * 2)%nat by lia.
  rewrite Nat.div_add by done. done.
Qed.

Lemma has_equal_pair_app l x : Nat.Even (length l) → has_equal_pair (l ++ [x; x]) = true.
Proof.
  induction l as [|a|a b l IH] using pair_ind; intros [k Hk].
  - cbn. by rewrite bool_decide_true.
  - cbn in Hk. lia.
  - cbn [app has_equal_pair]. apply orb_true_intro. right. apply IH. exists (k - 1)%nat. cbn in Hk. lia.
Qed.

Lemma levels_later h k l l' :
  levels H k l = levels H k l' → (k <= h)%nat → levels H h l = levels H h l'.
Proof.
  intros E Hh. replace h with (h - k + k)%nat by lia. unfold levels in *.
  rewrite !Nat.iter_add. by rewrite E.
Qed.

(** The two lists of leaves up to the level where the repetition ends. *)
Lemma duplicated_levels k p q :
  length q = (2 ^ k)%nat → (2 ^ S k | length p)%nat →
  levels H (S k) (p ++ q) = levels H (S k) (p ++ q ++ q) ∧
  has_equal_pair (levels H k (p ++ q ++ q)) = true.
Proof.
  intros Hq Hp. pose proof (pow2_pos k) as Hk.
  assert (Hp' : (2 ^ k | length p)%nat) by (destruct Hp as [m Hm]; exists (2 * m)%nat; cbn in Hm; lia).
  assert (Hev : Nat.Even (length (levels H k p))).
  { rewrite length_levels. destruct Hp as [m Hm]. exists m. unfold width. rewrite Hm.
    cbn [Nat.pow]. replace (m * (2 * 2 ^ k) + 2 ^ k - 1)%nat with (2 ^ k - 1 + (2 * m) * 2 ^ k)%nat by lia.
    rewrite Nat.div_add, Nat.div_small; lia. }
  destruct (levels H k q) as [|x [|]] eqn:Eq;
    (pose proof (length_levels H k q) as Hl; rewrite Eq, Hq in Hl; unfold width in Hl;
     replace (2 ^ k + 2 ^ k - 1)%nat with (2 ^ k - 1 + 1 * 2 ^ k)%nat in Hl by lia;
     rewrite Nat.div_add, Nat.div_small in Hl by lia; cbn in Hl; try lia).
  assert (E1 : levels H k (p ++ q) = levels H k p ++ [x]) by by rewrite levels_app, Eq.
  assert (E2 : levels H k (p ++ q ++ q) = levels H k p ++ [x; x]).
  { rewrite levels_app, levels_app, Eq by (done || by exists 1%nat; lia). done. }
  split.
  - change (merkle_level H (levels H k (p ++ q)) = merkle_level H (levels H k (p ++ q ++ q))).
    rewrite E1, E2, !merkle_level_app by done. done.
  - rewrite E2. by apply has_equal_pair_app.
Qed.

End Duplicates.

(** ** Positions in a tree of at most [2^30] leaves *)

Definition tree_size_ok (n : nat) : Prop := 1 <= Z.of_nat n <= 2 ^ 30.

Lemma width_bound n h : (1 <= n → width n h <= n)%nat.
Proof. intros Hn. apply width_le; [done|]. pose proof (pow2_pos h). nia. Qed.

Lemma depth_bound n : tree_size_ok n → (Nat.log2_up n <= 30)%nat.
Proof.
  intros [Hn Hle]. apply Nat.log2_up_le_pow2; [lia|]. apply Nat2Z.inj_le. by rewrite Nat2Z.inj_pow.
Qed.

Lemma CalcTreeWidth_spec n h :
  tree_size_ok n → (h <= 30)%nat → CalcTreeWidth (Z.of_nat n) h = Z.of_nat (width n h).
Proof.
  intros [Hn Hle] Hh. unfold CalcTreeWidth, width. pose proof (pow2_pos h).
  rewrite Z.shiftr_div_pow2, Z.shiftl_1_l by lia.
  assert (2 ^ Z.of_nat h <= 2 ^ 30) by (apply Z.pow_le_mono_r; lia).
  rewrite Nat2Z.inj_div, Nat2Z.inj_sub, Nat2Z.inj_add, Nat2Z.inj_pow by lia.
  unfold u32. rewrite Z.mod_small; [done|]. pose proof (Z.pow_pos_nonneg 2 (Z.of_nat h)). lia.
Qed.

Lemma tree_height_loop_spec n d fuel h :
  tree_size_ok n → (d <= 30)%nat → (width n d <= 1)%nat →
  (∀ k, (k < d)%nat → (1 < width n k)%nat) → (h <= d <= h + fuel)%nat →
  tree_height_loop fuel (Z.of_nat n) h = Some d.
Proof.
  intros Hn Hd H1 Hlt. revert h. induction fuel as [|fuel IH]; intros h Hh; cbn [tree_height_loop];
    rewrite CalcTreeWidth_spec by (done || lia);
    destruct (Z.ltb_spec 1 (Z.of_nat (width n h))) as [Hw|Hw].
  - assert (h = d) as -> by lia. lia.
  - f_equal. destruct (Nat.lt_ge_cases h d) as [Hl|]; [specialize (Hlt h Hl); lia|lia].
  - assert (h ≠ d) by (intros ->; lia). apply IH. lia.
  - f_equal. destruct (Nat.lt_ge_cases h d) as [Hl|]; [specialize (Hlt h Hl); lia|lia].
Qed.

Lemma tree_height_of_spec (l : list bytes) :
  tree_size_ok (length l) → tree_height_of (Z.of_nat (length l)) = Some (depth l).
Proof.
  intros Hn. assert (Hl : l ≠ []) by (intros ->; destruct Hn; cbn in *; lia).
  destruct (depth_spec id l Hl) as [H1 Hlt]. setoid_rewrite length_levels in Hlt.
  rewrite length_levels in H1. pose proof (depth_bound _ Hn).
  apply tree_height_loop_spec; unfold depth in *; done || lia.
Qed.

(** A child's position does not overflow, and the right child exists when the
    code says so. *)
Lemma child_positions n h pos :
  tree_size_ok n → (h <= 30)%nat → (pos < width n (S h))%nat →
  u32 (Z.of_nat pos * 2) = Z.of_nat (2 * pos) ∧ u32 (Z.of_nat pos * 2 + 1) = Z.of_nat (2 * pos + 1) ∧
  (u32 (Z.of_nat pos * 2 + 1) <? CalcTreeWidth (Z.of_nat n) h) = bool_decide (2 * pos + 1 < width n h)%nat.
Proof.
  intros Hn Hh Hp. pose proof (width_bound n (S h)) as Hb. rewrite CalcTreeWidth_spec by done.
  destruct Hn as [Hn Hle]. unfold u32. rewrite !Z.mod_small by lia.
  split_and!; [lia|lia|]. case_bool_decide; [apply Z.ltb_lt|apply Z.ltb_ge]; lia.
Qed.

Section Nodes.
Context (H : bytes → bytes) (vTxid : list bytes) (Hn : tree_size_ok (length vTxid)).

Lemma lookup_level h pos :
  (pos < width (length vTxid) h)%nat → ∃ a, levels H h vTxid !! pos = Some a.
Proof. intros Hp. apply lookup_lt_is_Some_2. by rewrite length_levels. Qed.

(** The hash of an inner node, from its children. *)
Lemma level_node h pos :
  (pos < width (length vTxid) (S h))%nat →
  ∃ a, levels H h vTxid !! (2 * pos)%nat = Some a ∧
    ((2 * pos + 1 < width (length vTxid) h)%nat ∧
       (∃ b, levels H h vTxid !! (2 * pos + 1)%nat = Some b ∧
             levels H (S h) vTxid !! pos = Some (H (a ++ b))) ∨
     ¬ (2 * pos + 1 < width (length vTxid) h)%nat ∧
       levels H (S h) vTxid !! pos = Some (H (a ++ a))).
Proof.
  intros Hp. destruct (lookup_level h (2 * pos)) as [a Ha]; [by apply width_child|].
  exists a. split; [done|]. pose proof (lookup_merkle_level H _ _ _ Ha) as E.
  change (merkle_level H (levels H h vTxid)) with (levels H (S h) vTxid) in E.
  destruct (decide (2 * pos + 1 < width (length vTxid) h)%nat) as [Hlt|Hge].
  - left. split; [done|]. destruct (lookup_level h (2 * pos + 1) Hlt) as [b Hb]. exists b.
    rewrite E, Hb. done.
  - right. split; [done|]. rewrite E, lookup_ge_None_2; [done|]. rewrite length_levels. lia.
Qed.

Lemma CalcHash_spec h pos :
  (h <= 30)%nat → (pos < width (length vTxid) h)%nat →
  CalcHash H (Z.of_nat (length vTxid)) h (Z.of_nat pos) vTxid = levels H h vTxid !! pos.
Proof using Hn.
  revert pos. induction h as [|h IH]; intros pos Hh Hp.
  - cbn [CalcHash levels Nat.iter nat_rect]. rewrite Nat2Z.id.
    rewrite bool_decide_false; [done|]. intros E. rewrite E in Hn. destruct Hn; cbn in *; lia.
  - destruct (child_positions _ h pos Hn ltac:(lia) Hp) as (E1 & E2 & E3).
    destruct (level_node h pos Hp) as (a & Ha & Hnode).
    cbn [CalcHash]. rewrite E3, E2, E1, (IH (2 * pos)%nat), Ha by (lia || by apply width_child). cbn [mbind option_bind].
    destruct Hnode as [(Hlt & b & Hb & ->)|(Hge & ->)].
    + rewrite bool_decide_true by done. rewrite IH, Hb by (done || lia). done.
    + rewrite bool_decide_false by done. done.
Qed.

End Nodes.

(** ** What a partial tree shows *)

Section Sound.
Context (H : bytes → bytes) (Hash_length : ∀ x, length (H x) = 32%nat).
Context (vTxid : list bytes) (Hn : tree_size_ok (length vTxid)) (Htx : Forall is_hash vTxid).

(** The hash found at a position is the leaf there. *)
Definition leaf_at (i : Z) (m : bytes) : Prop := vTxid !! Z.to_nat i = Some m.

Lemma level_hash h pos a : levels H h vTxid !! pos = Some a → is_hash a.
Proof using Hash_length Htx. apply Forall_lookup_1, levels_hashes; done. Qed.

Lemma TraverseAndExtract_sound bits hashes h pos x r x' :
  Forall is_hash hashes → (h <= 30)%nat → (pos < width (length vTxid) h)%nat →
  TraverseAndExtract H (Z.of_nat (length vTxid)) bits hashes h (Z.of_nat pos) x = (r, x') →
  is_hash r ∧ ∃ ms idx, matches x' = matches x ++ ms ∧ indices x' = indices x ++ idx ∧
    (levels H h vTxid !! pos = Some r → Forall2 leaf_at idx ms ∨ collision H).
Proof using All.
  intros Hhs. revert pos x r x'. induction h as [|h IH]; intros pos x r x' Hh Hp E;
    cbn [TraverseAndExtract] in E; (destruct (bits !! nBitsUsed x) as [f|];
      [|injection E as <- <-; split; [done|]; exists [], []; rewrite !app_nil_r; auto]);
    cbn [nBitsUsed nHashUsed matches indices bad] in E.
  - destruct (hashes !! nHashUsed x) as [y|] eqn:Ey;
      [|injection E as <- <-; split; [done|]; exists [], []; rewrite !app_nil_r; auto].
    injection E as <- <-. split; [by apply (Forall_lookup_1 _ _ _ _ Hhs Ey)|].
    destruct f; cbn [andb matches indices].
    + exists [y], [Z.of_nat pos]. split_and!; [done..|]. intros Hy. left.
      repeat constructor. unfold leaf_at. by rewrite Nat2Z.id.
    + exists [], []. rewrite !app_nil_r. auto.
  - destruct f; cbn [negb] in E.
    + destruct (child_positions _ h pos Hn ltac:(lia) Hp) as (E1 & E2 & E3). rewrite E3, E2, E1 in E.
      destruct (TraverseAndExtract _ _ _ _ h (Z.of_nat (2 * pos)) _) as [a x1] eqn:Ea.
      apply IH in Ea as (Ha & ms1 & idx1 & Em1 & Ei1 & S1); [|lia|by apply width_child].
      cbn [matches indices] in Em1, Ei1.
      destruct (level_node H vTxid h pos Hp) as (a' & Ha' & Hnode). pose proof (level_hash _ _ _ Ha').
      destruct Hnode as [(Hlt & b' & Hb' & Hr)|(Hge & Hr)].
      * rewrite bool_decide_true in E by done. pose proof (level_hash _ _ _ Hb').
        destruct (TraverseAndExtract _ _ _ _ h (Z.of_nat (2 * pos + 1)) _) as [b x2] eqn:Eb.
        apply IH in Eb as (Hb & ms2 & idx2 & Em2 & Ei2 & S2); [|lia|done].
        injection E as <- Ex. split; [apply Hash_length|]. exists (ms1 ++ ms2), (idx1 ++ idx2).
        rewrite !app_assoc, <- Em1, <- Ei1, <- Em2, <- Ei2.
        split_and!; [destruct (bool_decide _); by subst x'..|]. rewrite Hr. intros [= Eh].
        apply hash_pair_inj in Eh as [[-> ->]|]; [|auto..].
        destruct (S1 Ha'); [|auto]. destruct (S2 Hb'); [|auto]. left. by apply Forall2_app.
      * rewrite bool_decide_false in E by done. injection E as <- <-.
        split; [apply Hash_length|]. exists ms1, idx1. split_and!; [done..|]. rewrite Hr. intros [= Eh].
        apply hash_pair_inj in Eh as [[-> _]|]; auto.
    + destruct (hashes !! nHashUsed x) as [y|] eqn:Ey;
        injection E as <- <-; (split; [done || by apply (Forall_lookup_1 _ _ _ _ Hhs Ey)|]);
        exists [], []; rewrite !app_nil_r; auto.
Qed.

End Sound.

(** ** Partial trees made from a block *)

Section RoundTrip.
Context (H : bytes → bytes) (vTxid : list bytes) (vMatch : list bool).
Context (Hn : tree_size_ok (length vTxid)) (Hm : length vMatch = length vTxid).

Definition wanted_leaf (i : nat) : bool := default false (vMatch !! i).

(** The leaves below a node. *)
Definition leaves_below (h pos : nat) : list nat :=
  seq (pos * 2 ^ h) (Nat.min ((pos + 1) * 2 ^ h) (length vTxid) - pos * 2 ^ h).
Definition wanted_below (h pos : nat) : list nat := List.filter wanted_leaf (leaves_below h pos).
Definition leaf_ids (l : list nat) : list bytes := omap (λ i, vTxid !! i) l.

Lemma leaves_below_split h pos :
  (pos < width (length vTxid) (S h))%nat →
  leaves_below (S h) pos = leaves_below h (2 * pos)
    ++ (if bool_decide (2 * pos + 1 < width (length vTxid) h)%nat then leaves_below h (2 * pos + 1) else []).
Proof.
  intros Hp. pose proof (width_leaves _ _ _ Hp). unfold leaves_below. pose proof (pow2_pos h).
  cbn [Nat.pow] in *. case_bool_decide as Hlt.
  - apply width_leaves in Hlt.
    replace (Nat.min ((2 * pos + 1) * 2 ^ h) (length vTxid) - 2 * pos * 2 ^ h)%nat with (2 ^ h)%nat by lia.
    replace ((2 * pos + 1) * 2 ^ h)%nat with (2 * pos * 2 ^ h + 2 ^ h)%nat by lia.
    rewrite <- seq_app. f_equal; lia.
  - rewrite app_nil_r. assert (length vTxid <= (2 * pos + 1) * 2 ^ h)%nat.
    { apply (width_le _ h (2 * pos + 1)); lia. }
    f_equal; lia.
Qed.

Lemma parent_of_match_spec k p :
  (p + k <= length vMatch)%nat → parent_of_match k p vMatch = Some (existsb wanted_leaf (seq p k)).
Proof.
  revert p. induction k as [|k IH]; intros p Hp; [done|]. cbn [parent_of_match seq existsb].
  destruct (lookup_lt_is_Some_2 vMatch p ltac:(lia)) as [m E]. rewrite E. cbn [mbind option_bind].
  rewrite IH by lia. cbn [mbind option_bind]. assert (wanted_leaf p = m) as -> by (unfold wanted_leaf; by rewrite E). done.
Qed.

Lemma build_match h pos :
  (h <= 30)%nat → (pos < width (length vTxid) h)%nat →
  let lo := u32 (Z.shiftl (Z.of_nat pos) (Z.of_nat h)) in
  let hi := Z.min (u32 (Z.shiftl (u32 (Z.of_nat pos + 1)) (Z.of_nat h))) (Z.of_nat (length vTxid)) in
  parent_of_match (Z.to_nat (hi - lo)) (Z.to_nat lo) vMatch
  = Some (existsb wanted_leaf (leaves_below h pos)).
Proof using All.
  intros Hh Hp. pose proof (width_leaves _ _ _ Hp) as Hlt. destruct Hn as [H1 H2].
  pose proof (pow2_pos h). assert (2 ^ Z.of_nat h <= 2 ^ 30) by (apply Z.pow_le_mono_r; lia).
  assert (Ep : Z.of_nat (2 ^ h) = 2 ^ Z.of_nat h) by (by rewrite Nat2Z.inj_pow).
  rewrite !Z.shiftl_mul_pow2 by lia. rewrite <- Ep in *. cbv zeta. unfold u32.
  assert (Z.of_nat pos < 2 ^ 30) by nia.
  rewrite (Z.mod_small (Z.of_nat pos + 1)) by lia. rewrite !Z.mod_small by nia.
  rewrite parent_of_match_spec by nia. unfold leaves_below. do 3 f_equal; nia.
Qed.

Lemma existsb_filter {A} (f : A → bool) l : existsb f l = false → List.filter f l = [].
Proof.
  induction l as [|x l IH]; [done|]. cbn. intros [Hx Hl]%orb_false_iff. rewrite Hx. by apply IH.
Qed.

(** What [TraverseAndBuild] appends, read back by [TraverseAndExtract]. *)
Definition reads_back (h pos : nat) (bits : list bool) (hashes : list bytes) : Prop :=
  ∀ r preB postB preH postH ms idx bad, levels H h vTxid !! pos = Some r →
    TraverseAndExtract H (Z.of_nat (length vTxid)) (preB ++ bits ++ postB) (preH ++ hashes ++ postH)
      h (Z.of_nat pos) (Extraction (length preB) (length preH) ms idx bad)
    = (r, Extraction (length preB + length bits) (length preH + length hashes)
            (ms ++ leaf_ids (wanted_below h pos)) (idx ++ map Z.of_nat (wanted_below h pos)) bad).

Lemma lookup_middle {A} (pre l post : list A) x : (pre ++ (x :: l) ++ post) !! length pre = Some x.
Proof. by rewrite lookup_app_r, Nat.sub_diag by done. Qed.

Lemma reads_back_leaf pos r :
  levels H 0 vTxid !! pos = Some r → reads_back 0 pos [existsb wanted_leaf (leaves_below 0 pos)] [r].
Proof.
  intros Hr r' preB postB preH postH ms idx b Hr'. assert (r' = r) as -> by congruence.
  pose proof (lookup_lt_Some _ _ _ Hr) as Hlt. cbn in Hlt. unfold wanted_below.
  assert (leaves_below 0 pos = [pos]) as ->.
  { unfold leaves_below. change (2 ^ 0)%nat with 1%nat. rewrite !Nat.mul_1_r.
    replace (Nat.min _ _ - pos)%nat with 1%nat by lia. done. }
  cbn [TraverseAndExtract nBitsUsed nHashUsed matches indices bad]. rewrite !lookup_middle.
  cbn [existsb List.filter andb length]. rewrite orb_false_r, !Nat.add_1_r.
  destruct (wanted_leaf pos); [|by cbn; rewrite !app_nil_r].
  cbn. change (vTxid !! pos = Some r) in Hr. by rewrite Hr.
Qed.

Lemma reads_back_stop h pos r :
  levels H (S h) vTxid !! pos = Some r → existsb wanted_leaf (leaves_below (S h) pos) = false →
  reads_back (S h) pos [false] [r].
Proof.
  intros Hr Hf r' preB postB preH postH ms idx b Hr'. assert (r' = r) as -> by congruence.
  cbn [TraverseAndExtract nBitsUsed nHashUsed matches indices bad]. rewrite lookup_middle.
  cbn [negb]. rewrite lookup_middle. cbn [andb length]. rewrite !Nat.add_1_r.
  unfold wanted_below. rewrite existsb_filter by done. cbn. by rewrite !app_nil_r.
Qed.

(** [reads_back], with the parts of the two vectors named as in a traversal. *)
Lemma reads_back_at h pos bits hashes r vB vH preB postB preH postH nB nH ms idx b :
  reads_back h pos bits hashes → levels H h vTxid !! pos = Some r →
  vB = preB ++ bits ++ postB → vH = preH ++ hashes ++ postH → nB = length preB → nH = length preH →
  TraverseAndExtract H (Z.of_nat (length vTxid)) vB vH h (Z.of_nat pos) (Extraction nB nH ms idx b)
  = (r, Extraction (nB + length bits) (nH + length hashes)
          (ms ++ leaf_ids (wanted_below h pos)) (idx ++ map Z.of_nat (wanted_below h pos)) b).
Proof. intros R Hr -> -> -> ->. by apply R. Qed.

Lemma reads_back_one h pos bits hashes a :
  (h <= 30)%nat → (pos < width (length vTxid) (S h))%nat → ¬ (2 * pos + 1 < width (length vTxid) h)%nat →
  levels H h vTxid !! (2 * pos)%nat = Some a → levels H (S h) vTxid !! pos = Some (H (a ++ a)) →
  reads_back h (2 * pos) bits hashes → reads_back (S h) pos (true :: bits) hashes.
Proof using All.
  intros Hh Hp Hge Ha Hr R r' preB postB preH postH ms idx b Hr'.
  assert (r' = H (a ++ a)) as -> by congruence.
  destruct (child_positions _ h pos Hn Hh Hp) as (E1 & E2 & E3).
  pose proof (leaves_below_split h pos Hp) as Hsplit.
  cbn [TraverseAndExtract nBitsUsed nHashUsed matches indices bad]. rewrite lookup_middle. cbn [negb].
  rewrite E3, E2, E1. rewrite bool_decide_false in Hsplit |- * by done. rewrite app_nil_r in Hsplit.
  rewrite (reads_back_at h (2 * pos) bits hashes a _ _ (preB ++ [true]) postB preH postH) by
    (done || rewrite ?length_app, <- ?app_assoc; cbn; done || lia).
  unfold wanted_below. rewrite Hsplit. do 2 f_equal. cbn. lia.
Qed.

Lemma reads_back_two h pos bits1 hashes1 bits2 hashes2 a b :
  (h <= 30)%nat → (pos < width (length vTxid) (S h))%nat → (2 * pos + 1 < width (length vTxid) h)%nat →
  has_equal_pair (levels H h vTxid) = false →
  levels H h vTxid !! (2 * pos)%nat = Some a → levels H h vTxid !! (2 * pos + 1)%nat = Some b →
  levels H (S h) vTxid !! pos = Some (H (a ++ b)) →
  reads_back h (2 * pos) bits1 hashes1 → reads_back h (2 * pos + 1) bits2 hashes2 →
  reads_back (S h) pos (true :: bits1 ++ bits2) (hashes1 ++ hashes2).
Proof using All.
  intros Hh Hp Hlt Hun Ha Hb Hr R1 R2 r' preB postB preH postH ms idx b0 Hr'.
  assert (r' = H (a ++ b)) as -> by congruence.
  destruct (child_positions _ h pos Hn Hh Hp) as (E1 & E2 & E3).
  pose proof (leaves_below_split h pos Hp) as Hsplit.
  cbn [TraverseAndExtract nBitsUsed nHashUsed matches indices bad]. rewrite lookup_middle. cbn [negb].
  rewrite E3, E2, E1. rewrite bool_decide_true in Hsplit |- * by done.
  rewrite (reads_back_at h (2 * pos) bits1 hashes1 a _ _ (preB ++ [true]) (bits2 ++ postB) preH
    (hashes2 ++ postH)) by (done || rewrite ?length_app, <- ?app_assoc; cbn; rewrite <- ?app_assoc; done || lia).
  rewrite (reads_back_at h (2 * pos + 1) bits2 hashes2 b _ _ (preB ++ [true] ++ bits1) postB
    (preH ++ hashes1) postH)
    by (done || rewrite ?length_app, <- ?app_assoc; cbn; rewrite <- ?app_assoc; done || lia).
  rewrite bool_decide_false by (intros ->; by apply (no_equal_pair _ _ _ _ Hun Ha Hb)).
  unfold wanted_below, leaf_ids. rewrite Hsplit, List.filter_app, omap_app, map_app, !app_assoc.
  do 2 f_equal; cbn; rewrite length_app; lia.
Qed.

Lemma TraverseAndBuild_spec h pos t :
  (∀ k, (k < h)%nat → has_equal_pair (levels H k vTxid) = false) →
  (h <= 30)%nat → (pos < width (length vTxid) h)%nat →
  ∃ bits hashes, TraverseAndBuild H (Z.of_nat (length vTxid)) h (Z.of_nat pos) vTxid vMatch t
      = Some (t.1 ++ bits, t.2 ++ hashes) ∧
    (length hashes <= length bits < 2 ^ S h)%nat ∧ (length hashes <= length (leaves_below h pos))%nat ∧
    Forall (λ x, ∃ k i, levels H k vTxid !! i = Some x) hashes ∧ reads_back h pos bits hashes.
Proof using All.
  intros Hun. revert pos t. induction h as [|h IH]; intros pos t Hh Hp; cbn [TraverseAndBuild];
    rewrite build_match by done; cbn [mbind option_bind];
    destruct (lookup_level H vTxid _ pos Hp) as [r Hr]; pose proof (width_leaves _ _ _ Hp) as Hlv;
    assert (Hone : ∀ k, (pos * 2 ^ k < length vTxid)%nat → (1 <= length (leaves_below k pos))%nat) by
      (intros k Hk; unfold leaves_below; rewrite length_seq; pose proof (pow2_pos k); lia).
  { rewrite CalcHash_spec, Hr by done. cbn [mbind option_bind].
    eexists [_], [r]. split_and!; [done|done|cbn; lia|by apply Hone| |by apply reads_back_leaf].
    repeat constructor. by exists 0%nat, pos. }
  destruct (existsb wanted_leaf (leaves_below (S h) pos)) eqn:Ef; cbn [negb].
  2:{ rewrite CalcHash_spec, Hr by done. cbn [mbind option_bind].
      exists [false], [r]. pose proof (pow2_pos h).
      split_and!; [done|done|cbn; lia|by apply Hone| |by apply reads_back_stop].
      repeat constructor. by exists (S h), pos. }
  destruct (child_positions _ h pos Hn ltac:(lia) Hp) as (E1 & E2 & E3). rewrite E3, E2, E1.
  pose proof (leaves_below_split h pos Hp) as Hsplit.
  destruct (IH ltac:(auto) (2 * pos)%nat (t.1 ++ [true], t.2)) as (B1 & H1 & -> & L1 & N1 & F1 & R1);
    [lia|by apply width_child|]. cbn [mbind option_bind fst snd].
  destruct (level_node H vTxid h pos Hp) as (a & Ha & [(Hlt & b & Hb & Hr')|(Hge & Hr')]).
  - rewrite bool_decide_true in Hsplit |- * by done.
    destruct (IH ltac:(auto) (2 * pos + 1)%nat ((t.1 ++ [true]) ++ B1, t.2 ++ H1))
      as (B2 & H2 & -> & L2 & N2 & F2 & R2); [lia|done|].
    exists (true :: B1 ++ B2), (H1 ++ H2). cbn [fst snd]. rewrite <- !app_assoc, Hsplit.
    cbn [Nat.pow] in L1, L2 |- *. cbn [length]. rewrite !length_app.
    split_and!; [done|lia|lia|lia|by apply Forall_app|]. apply (reads_back_two h pos B1 H1 B2 H2 a b); auto with lia.
  - rewrite bool_decide_false in Hsplit |- * by done. rewrite app_nil_r in Hsplit.
    exists (true :: B1), H1. rewrite <- !app_assoc, Hsplit.
    cbn [Nat.pow] in L1 |- *.
    cbn [length]. split_and!; [done|lia|lia|done|done|]. apply (reads_back_one h pos B1 H1 a); auto with lia.
Qed.

End RoundTrip.

(** ** Flag bits in bytes *)

Lemma byte_of_bits_range l : 0 <= byte_of_bits l < 2 ^ Z.of_nat (length l).
Proof.
  induction l as [|b l IH]; [done|]. cbn [byte_of_bits length]. rewrite Nat2Z.inj_succ, Z.pow_succ_r by lia.
  destruct b; cbn [Z.b2z]; lia.
Qed.

Lemma byte_of_bits_testbit l i : Z.testbit (byte_of_bits l) (Z.of_nat i) = default false (l !! i).
Proof.
  revert i. induction l as [|b l IH]; intros i; cbn [byte_of_bits].
  { by rewrite Z.testbit_0_l. }
  rewrite Z.add_comm. destruct i as [|i]; [apply Z.testbit_0_r|].
  rewrite Nat2Z.inj_succ, Z.testbit_succ_r by lia. apply IH.
Qed.

Lemma unpack_pack_byte l :
  (length l <= 8)%nat → unpack_byte (byte_of_bits l) = l ++ replicate (8 - length l) false.
Proof.
  intros Hl. apply list_eq. intros i. unfold unpack_byte. rewrite list_lookup_fmap.
  destruct (Nat.lt_ge_cases i 8) as [Hi|Hi].
  - rewrite lookup_seq_lt by lia. cbn [fmap option_fmap option_map Nat.add]. rewrite byte_of_bits_testbit.
    destruct (Nat.lt_ge_cases i (length l)) as [Hlt|Hge].
    + rewrite lookup_app_l by done. by destruct (lookup_lt_is_Some_2 l i Hlt) as [b ->].
    + rewrite lookup_app_r by done. rewrite (lookup_ge_None_2 l) by done.
      rewrite lookup_replicate_2 by lia. done.
  - rewrite lookup_seq_ge by lia. symmetry. apply lookup_ge_None_2.
    rewrite length_app, length_replicate. lia.
Qed.

Lemma unpack_pack_bits k l :
  (length l <= 8 * k)%nat →
  flat_map unpack_byte (pack_bits k l) = l ++ replicate (8 * k - length l) false.
Proof.
  revert l. induction k as [|k IH]; intros l Hl.
  { destruct l; [done|cbn in Hl; lia]. }
  cbn [pack_bits flat_map]. rewrite unpack_pack_byte by (rewrite length_take; lia).
  rewrite IH by (rewrite length_drop; lia). rewrite length_take, length_drop.
  destruct (Nat.le_ge_cases 8 (length l)) as [Hge|Hle].
  - rewrite (Nat.min_l 8) by done. cbn [Nat.sub replicate]. rewrite app_nil_r, app_assoc, take_drop.
    do 2 f_equal. lia.
  - rewrite take_ge, drop_ge by done. cbn [app]. rewrite <- app_assoc. f_equal.
    rewrite <- replicate_add. f_equal. lia.
Qed.

Lemma pack_bits_ok k l : bytes_ok (pack_bits k l).
Proof.
  revert l. induction k as [|k IH]; intros l; constructor; [|apply IH].
  pose proof (byte_of_bits_range (take 8 l)) as Hb. rewrite length_take in Hb.
  assert (2 ^ Z.of_nat (Nat.min 8 (length l)) <= 2 ^ 8) by (apply Z.pow_le_mono_r; lia).
  unfold is_u8. lia.
Qed.

Lemma length_pack_bits k l : length (pack_bits k l) = k.
Proof. revert l. induction k as [|k IH]; intros l; [done|]. cbn. by rewrite IH. Qed.

(** The number of flag bits after the trip: up to seven more. *)
Definition padded (bits : list bool) : list bool :=
  bits ++ replicate (8 * ((length bits + 7) / 8) - length bits) false.

Lemma padded_bytes (bits : list bool) : (8 * ((length bits + 7) / 8) >= length bits)%nat.
Proof.
  pose proof (Nat.Div0.div_mod (length bits + 7) 8).
  pose proof (Nat.mod_upper_bound (length bits + 7) 8). lia.
Qed.

Lemma length_padded bits : length (padded bits) = (8 * ((length bits + 7) / 8))%nat.
Proof. unfold padded. rewrite length_app, length_replicate. pose proof (padded_bytes bits). lia. Qed.

Lemma hash_batch_pos : (0 < hash_batch)%nat.
Proof. unfold hash_batch. apply Nat2Z.inj_lt. by rewrite Z2Nat.id. Qed.
#[local] Hint Resolve hash_batch_pos : typeclass_instances.

Lemma partial_tree_codec t rest :
  is_u32 (nTransactions t) → Forall (c_dom (c_fixed 32)) (vHash t) →
  Z.of_nat (length (vHash t)) < 2 ^ 32 → Z.of_nat (length (vBits t)) < 2 ^ 32 →
  deser_partial_tree (ser_partial_tree t ++ rest)
  = Ok (PartialMerkleTree (nTransactions t) (padded (vBits t)) (vHash t) false, rest).
Proof.
  intros Hn Hh Hl Hb. unfold deser_partial_tree, ser_partial_tree. rewrite <- !app_assoc.
  rewrite codec_roundtrip by done. cbn [rbind].
  rewrite codec_roundtrip by (by split). cbn [rbind].
  rewrite codec_roundtrip.
  - cbn [rbind]. do 3 f_equal. apply unpack_pack_bits. pose proof (padded_bytes (vBits t)). lia.
  - split; [apply pack_bits_ok|]. rewrite length_pack_bits.
    pose proof (Nat.Div0.div_lt_upper_bound (length (vBits t) + 7) 8 (length (vBits t) + 1)). lia.
Qed.

(** ** Properties *)

(** A root commits to its leaves.  Two lists of hashes with trees of the same
    depth and the same root, neither of them flagged as mutated, are equal, or else
    two different 64-byte strings with the same hash can be read off the trees. *)
Theorem merkle_root_binding (H : bytes → bytes) (l l' : list bytes) (root : bytes) :
  (∀ x, length (H x) = 32%nat) → Forall is_hash l → Forall is_hash l' → l ≠ [] → l' ≠ [] →
  depth l = depth l' →
  ComputeMerkleRoot H l = Some (root, false) → ComputeMerkleRoot H l' = Some (root, false) →
  l = l' ∨ collision H.
Proof.
  intros HL Hl Hl' Hne Hne' Hd E E'.
  destruct (ComputeMerkleRoot_spec H l Hne) as (r1 & b1 & E1 & R1 & U1).
  destruct (ComputeMerkleRoot_spec H l' Hne') as (r2 & b2 & E2 & R2 & U2).
  rewrite E in E1. rewrite E' in E2. simplify_eq. rewrite <- Hd in R2, U2.
  apply (levels_inj H HL (depth l)); [done|done|by apply U1|by apply U2|by rewrite R1, R2].
Qed.

(** The repetition of CVE-2012-2459 is detected.  When the last [2^k] leaves
    after a whole number of subtrees of twice that size are repeated, the root stays
    the same, and the longer list is flagged as mutated. *)
Theorem duplicated_tail_detected (H : bytes → bytes) (p q : list bytes) (k : nat) (root : bytes) (b : bool) :
  p ≠ [] → length q = (2 ^ k)%nat → (2 ^ S k | length p)%nat →
  ComputeMerkleRoot H (p ++ q) = Some (root, b) → ComputeMerkleRoot H (p ++ q ++ q) = Some (root, true).
Proof.
  intros Hp Hq Hdiv E. assert (Hne : p ++ q ≠ []) by (by destruct p).
  assert (Hne' : p ++ q ++ q ≠ []) by (by destruct p).
  destruct (duplicated_levels H k p q Hq Hdiv) as [Elv Heq].
  destruct (ComputeMerkleRoot_spec H _ Hne) as (r & b1 & E1 & R1 & _). rewrite E in E1. simplify_eq.
  destruct (depth_spec H _ Hne) as [D1 D2]. rewrite length_levels in D1.
  assert (Hlong : (2 ^ S k < length (p ++ q))%nat).
  { rewrite length_app, Hq. destruct Hdiv as [m Hm]. pose proof (pow2_pos k).
    assert (length p ≠ 0)%nat by (by destruct p). assert (m ≠ 0)%nat by (intros ->; lia). nia. }
  assert (Hdk : (S k < depth (p ++ q))%nat).
  { apply Nat.nle_gt. intros Hle. assert (width (length (p ++ q)) (depth (p ++ q)) <= 1)%nat as Hw by (rewrite D1; done).
    apply width_le in Hw; [|done]. pose proof (Nat.pow_le_mono_r 2 _ _ ltac:(done) Hle). lia. }
  destruct (merkle_loop_spec H (depth (p ++ q)) (p ++ q ++ q) (length (p ++ q ++ q)) false)
    as (b2 & E2 & U2).
  - rewrite <- (levels_later H _ (S k) _ _ Elv) by lia. by rewrite R1.
  - intros h Hh. specialize (D2 h Hh). rewrite length_levels in D2 |- *.
    eapply Nat.lt_le_trans; [exact D2|]. apply Nat.Div0.div_le_mono. rewrite !length_app. lia.
  - pose proof (Nat.log2_up_le_lin (length (p ++ q)) ltac:(lia)) as Hll.
    etransitivity; [exact Hll|]. rewrite !length_app. lia.
  - rewrite <- (levels_later H _ (S k) _ _ Elv), R1 in E2 by lia. unfold ComputeMerkleRoot. rewrite E2.
    destruct b2; [done|]. destruct (proj1 U2 eq_refl) as [_ Hall]. rewrite (Hall k) in Heq by lia. done.
Qed.

(** The recursive computation of partial trees agrees with the iterative one of
    blocks.  For up to [2^30] leaves the height loop ends, and [CalcHash] of the
    topmost node is the root that [ComputeMerkleRoot] returns. *)
Theorem CalcHash_root (H : bytes → bytes) (vTxid : list bytes) :
  tree_size_ok (length vTxid) →
  ∃ d, tree_height_of (Z.of_nat (length vTxid)) = Some d ∧
    CalcHash H (Z.of_nat (length vTxid)) d 0 vTxid = fst <$> ComputeMerkleRoot H vTxid ∧
    is_Some (ComputeMerkleRoot H vTxid).
Proof.
  intros Hn. exists (depth vTxid). rewrite tree_height_of_spec by done. split; [done|].
  assert (Hl : vTxid ≠ []) by (intros ->; destruct Hn; cbn in *; lia).
  destruct (ComputeMerkleRoot_spec H vTxid Hl) as (r & b & -> & R & _). split; [|by eexists].
  change 0 with (Z.of_nat 0). rewrite (CalcHash_spec H vTxid Hn); [by rewrite R|by apply depth_bound|].
  rewrite <- (length_levels H), R. cbn. lia.
Qed.

(** A proof of inclusion survives the wire.  For a block whose ids are not
    flagged as mutated, the partial tree made for any mask can be written and read
    back, and [ExtractMatches] returns the root of the block, exactly the chosen ids
    and their positions. *)
Theorem partial_tree_roundtrip (H : bytes → bytes) (vTxid : list bytes) (vMatch : list bool)
    (root rest : bytes) :
  (∀ x, c_dom (c_fixed 32) (H x)) → Forall (c_dom (c_fixed 32)) vTxid →
  1 <= Z.of_nat (length vTxid) <= MAX_BLOCK_WEIGHT / MIN_TRANSACTION_WEIGHT →
  length vMatch = length vTxid → ComputeMerkleRoot H vTxid = Some (root, false) →
  let chosen := List.filter (wanted_leaf vMatch) (seq 0 (length vTxid)) in
  ∃ t t', new_CPartialMerkleTree H vTxid vMatch = Some t ∧
    deser_partial_tree (ser_partial_tree t ++ rest) = Ok (t', rest) ∧
    ExtractMatches H t' [] = Some (root, leaf_ids vTxid chosen, map Z.of_nat chosen, t').
Proof.
  intros HH Htx Hlen Hm Er chosen.
  assert (Hn : tree_size_ok (length vTxid)) by (split; [lia|]; etransitivity; [apply Hlen|done]).
  assert (Hl : vTxid ≠ []) by (intros ->; cbn in Hlen; lia).
  destruct (ComputeMerkleRoot_spec H vTxid Hl) as (r & b & E & R & U). rewrite Er in E. injection E as <- <-.
  pose proof (proj1 U eq_refl) as Hun. pose proof (depth_bound _ Hn : (depth vTxid <= 30)%nat) as Hd.
  destruct (depth_spec H vTxid Hl) as [D1 _]. rewrite length_levels in D1.
  destruct (TraverseAndBuild_spec H vTxid vMatch Hn Hm (depth vTxid) 0 ([], []) Hun Hd ltac:(lia))
    as (bits & hashes & Eb & Lb & Ll & Fh & Rb). change (Z.of_nat 0) with 0 in Eb.
  cbn [app fst snd] in Eb.
  assert (Hroot : leaves_below vTxid (depth vTxid) 0 = seq 0 (length vTxid)).
  { unfold leaves_below. assert (width (length vTxid) (depth vTxid) <= 1)%nat as Hw by lia.
    apply width_le in Hw; [|done]. f_equal. cbn. lia. }
  rewrite Hroot, length_seq in Ll.
  assert (Hb32 : Z.of_nat (length bits) < 2 ^ 32).
  { eapply Z.lt_trans; [apply Nat2Z.inj_lt, Lb|]. rewrite Nat2Z.inj_pow. apply Z.pow_lt_mono_r; lia. }
  assert (Hmax : MAX_BLOCK_WEIGHT / MIN_TRANSACTION_WEIGHT = 33333) by done.
  exists (PartialMerkleTree (Z.of_nat (length vTxid)) bits hashes false),
    (PartialMerkleTree (Z.of_nat (length vTxid)) (padded bits) hashes false).
  split_and!.
  - unfold new_CPartialMerkleTree, u32. rewrite Z.mod_small by lia. rewrite tree_height_of_spec by done.
    cbn [mbind option_bind]. by rewrite Eb.
  - apply partial_tree_codec; cbn [nTransactions vHash vBits]; [unfold is_u32; lia| |lia|done].
    eapply Forall_impl; [exact Fh|]. intros x (k & i & Hx).
    exact (Forall_lookup_1 _ _ _ _ (levels_Forall H (c_dom (c_fixed 32)) k vTxid HH Htx) Hx).
  - unfold ExtractMatches. cbn [nTransactions vHash vBits fBad]. rewrite length_padded.
    pose proof (padded_bytes bits). rewrite Hmax.
    repeat match goal with |- context [?a =? 0] => rewrite (proj2 (Z.eqb_neq a 0)) by lia
      | |- context [?a <? ?b] => rewrite (proj2 (Z.ltb_ge a b)) by lia end.
    rewrite tree_height_of_spec by done. cbn [mbind option_bind].
    change (TraverseAndExtract _ _ _ _ _ 0) with (TraverseAndExtract H (Z.of_nat (length vTxid))
      (padded bits) hashes (depth vTxid) (Z.of_nat 0)).
    rewrite (reads_back_at H vTxid vMatch _ _ bits hashes root _ _ []
      (replicate (8 * ((length bits + 7) / 8) - length bits) false) [] []) by
      (done || by rewrite ?R, ?app_nil_r).
    cbn [bad nBitsUsed nHashUsed matches indices nTransactions vBits vHash].
    unfold wanted_below. rewrite Hroot. fold chosen.
    replace (_ =? _) with true; [by rewrite Z.eqb_refl|]. symmetry. apply Z.eqb_eq.
    rewrite Nat2Z.inj_mul, Nat2Z.inj_div, !Nat2Z.inj_add. change (Z.of_nat 8) with 8.
    change (Z.of_nat 7) with 7. rewrite Z.add_0_l, (Z.add_comm (8 * _)), (Z.mul_comm 8), Z.div_add; done.
Qed.

(** C16: a proof of inclusion cannot lie about a block of known size.  If a partial
    tree of any origin claims as many transactions as the block has and
    [ExtractMatches] returns the block's root, then every id it returns is that of
    the transaction at the position it returns, or else two different 64-byte
    strings have the same hash. *)
Theorem partial_tree_sound (H : bytes → bytes) (vTxid : list bytes) (t t' : CPartialMerkleTree)
    (root : bytes) (b : bool) (ms : list bytes) (idx : list Z) :
  (∀ x, length (H x) = 32%nat) → Forall is_hash vTxid → Forall is_hash (vHash t) →
  nTransactions t = Z.of_nat (length vTxid) → ComputeMerkleRoot H vTxid = Some (root, b) →
  root ≠ uint256_zero → ExtractMatches H t [] = Some (root, ms, idx, t') →
  Forall2 (leaf_at vTxid) idx ms ∨ collision H.
Proof.
  intros HL Htx Hhs En Er Hz E. unfold ExtractMatches in E. rewrite En in E.
  assert (Hmax : MAX_BLOCK_WEIGHT / MIN_TRANSACTION_WEIGHT = 33333) by done. rewrite Hmax in E.
  destruct (Z.eqb_spec (Z.of_nat (length vTxid)) 0); [congruence|].
  destruct (Z.ltb_spec 33333 (Z.of_nat (length vTxid))); [congruence|].
  destruct (_ <? _); [congruence|]. destruct (_ <? _); [congruence|].
  assert (Hn : tree_size_ok (length vTxid)) by (split; lia).
  assert (Hl : vTxid ≠ []) by (intros ->; done). rewrite tree_height_of_spec in E by done.
  cbn [mbind option_bind] in E.
  destruct (TraverseAndExtract _ _ _ _ (depth vTxid) 0 _) as [r x] eqn:Ex.
  destruct (ComputeMerkleRoot_spec H vTxid Hl) as (r' & b' & E' & R & _). rewrite Er in E'. injection E' as <- <-.
  injection E as Eroot <- <- _.
  apply (TraverseAndExtract_sound H HL vTxid Hn Htx _ _ _ 0) in Ex as (_ & ms & idx & -> & -> & Hs);
    [|done|by apply depth_bound|rewrite <- (length_levels H), R; cbn; lia].
  destruct (bad x); [congruence|]. destruct (negb _); [congruence|]. destruct (negb _); [congruence|].
  apply Hs. by rewrite R, Eroot.
Qed.

(** ** A block of three transactions *)

Definition sample_hash (x : bytes) : bytes := le_bytes 32 (le_value x mod (2 ^ 255 - 19)).
Definition sample_ids : list bytes := map (le_bytes 32) [11; 12; 13].
Definition sample_root : bytes := default [] (fst <$> ComputeMerkleRoot sample_hash sample_ids).

Lemma sample_hash_length x : length (sample_hash x) = 32%nat.
Proof. apply length_le_bytes. Qed.
Lemma sample_hash_ok x : c_dom (c_fixed 32) (sample_hash x).
Proof. split; [apply sample_hash_length|apply le_bytes_ok]. Qed.
Lemma sample_ids_ok : Forall (c_dom (c_fixed 32)) sample_ids.
Proof. repeat (apply Forall_cons; split; [split; [apply length_le_bytes|apply le_bytes_ok]|]). constructor. Qed.
Lemma sample_ids_hashes : Forall is_hash sample_ids.
Proof. by repeat constructor. Qed.

Lemma merkle_root_binding_witness : sample_ids = sample_ids ∨ collision sample_hash.
Proof.
  apply (merkle_root_binding sample_hash sample_ids sample_ids sample_root);
    [apply sample_hash_length|apply sample_ids_hashes|apply sample_ids_hashes|done|done|done
    |vm_compute; reflexivity|vm_compute; reflexivity].
Defined.

Lemma duplicated_tail_detected_witness :
  ComputeMerkleRoot sample_hash (take 2 sample_ids ++ drop 2 sample_ids ++ drop 2 sample_ids)
  = Some (sample_root, true).
Proof.
  apply (duplicated_tail_detected sample_hash (take 2 sample_ids) (drop 2 sample_ids) 0 sample_root false);
    [done|done|by exists 1%nat|vm_compute; reflexivity].
Defined.

Lemma CalcHash_root_witness :
  ∃ d, tree_height_of 3 = Some d ∧
    CalcHash sample_hash 3 d 0 sample_ids = fst <$> ComputeMerkleRoot sample_hash sample_ids ∧
    is_Some (ComputeMerkleRoot sample_hash sample_ids).
Proof. apply (CalcHash_root sample_hash sample_ids). split; vm_compute; discriminate. Defined.

Lemma partial_tree_roundtrip_witness :
  ∃ t t', new_CPartialMerkleTree sample_hash sample_ids [false; true; false] = Some t ∧
    deser_partial_tree (ser_partial_tree t) = Ok (t', []) ∧
    ExtractMatches sample_hash t' [] = Some (sample_root, [le_bytes 32 12], [1], t').
Proof.
  destruct (partial_tree_roundtrip sample_hash sample_ids [false; true; false] sample_root [])
    as (t & t' & E1 & E2 & E3); [apply sample_hash_ok|apply sample_ids_ok|split; vm_compute; discriminate
    |done|vm_compute; reflexivity|].
  exists t, t'. rewrite app_nil_r in E2. split_and!; [exact E1|exact E2|exact E3].
Defined.

Definition sample_partial_tree : CPartialMerkleTree :=
  default (PartialMerkleTree 0 [] [] true) (new_CPartialMerkleTree sample_hash sample_ids [false; true; false]).

Lemma partial_tree_sound_witness :
  Forall2 (leaf_at sample_ids) [1] [le_bytes 32 12] ∨ collision sample_hash.
Proof.
  apply (partial_tree_sound sample_hash sample_ids sample_partial_tree sample_partial_tree sample_root false);
    [apply sample_hash_length|apply sample_ids_hashes|by repeat constructor|done
    |vm_compute; reflexivity|vm_compute; discriminate|vm_compute; reflexivity].
Defined.
