(* ===== verification/TxVerify.v ===== *)
(** Transaction rules, after [src/src/consensus/tx_verify.cpp]: finality,
    relative lock times, signature operation counts, the checks of a transaction
    on its own, and the checks of its inputs against the unspent outputs.

    A rejection carries the level and the reason the source passes to
    [state.DoS]; [Throws] is a C++ exception and [Crash] a failed assertion or a
    null dereference.  The unspent outputs are a function, what [FetchCoin] finds;
    the curve library, the hash of [CHashWriter] and the clock are fields of the
    environment. *)
From stdpp Require Import gmap strings.
From S2P Require Import Prelude Serialize Script Interpreter Transaction Chain.
Open Scope string_scope.
Open Scope list_scope.
Open Scope Z_scope.

Inductive tx_fail : Type :=
| Reject (level : Z) (reason : string)
| Throws
| Crash.

#[global] Instance tx_fail_eq_dec : EqDecision tx_fail.
Proof. solve_decision. Defined.

Definition reject {A} (level : Z) (reason : string) : result tx_fail A := Err (Reject level reason).

(** A dereference: null crashes. *)
Definition deref {A} (o : option A) : result tx_fail A :=
  match o with Some a => Ok a | None => Err Crash end.

(** ** Coins *)

Record Coin := MkCoin {
  out : CTxOut;
  fCoinBase : bool;
  coin_nHeight : Z;
  nType : Z
}.

Definition IsSpent (c : Coin) : bool := nValue (out c) =? -1.
Definition coinEmpty : Coin := MkCoin (TxOut (-1) []) false 0 OUTPUT_STANDARD.

Abbreviation view := (COutPoint → option Coin) (only parsing).

Definition AccessCoin (v : view) (o : COutPoint) : Coin := default coinEmpty (v o).
Definition HaveCoin (v : view) (o : COutPoint) : bool :=
  match v o with Some c => negb (IsSpent c) | None => false end.

Definition HaveInputs (v : view) (tx : CTransaction) : bool :=
  if negb (IsCoinBase tx)
  then forallb (λ i, IsAnonInput i || HaveCoin v (prevout i)) (vin tx)
  else true.

(** ** Environment *)

Record env := Env {
  fBitcoinCMode : bool;
  WITNESS_SCALE_FACTOR : Z;
  GetAdjustedTime : Z;
  OpIsCoinstakeTime : Z;
  fAllowOpIsCoinstakeWithP2PKH : bool;
  (** the key of the development fund at a time; [None]: no settings then *)
  DevFundKeyID : Z → option (option bytes);
  digests : crypto;
  Hash : bytes → bytes;
  (** the curve library: the serialized key, compressed or not, that a recovery
      id, the 64 bytes of a signature and a message give *)
  ecdsa_recover : Z → bool → bytes → bytes → option bytes;
  (** range proof verification: bulletproofs or not, commitment, proof *)
  rangeproof_verify : bool → bytes → bytes → bool;
  fBusyImporting : bool;
  fSkipRangeproof : bool;
  fBulletproofsActive : bool
}.

Definition MAX_BLOCK_WEIGHT : Z := 4000000.
Definition COINBASE_MATURITY : Z := 100.
Definition COMPACT_SIGNATURE_SIZE : Z := 65.
Definition LOCKTIME_VERIFY_SEQUENCE : Z := 1.
Definition SEQUENCE_LOCKTIME_DISABLE_FLAG : Z := Z.shiftl 1 31.
Definition SEQUENCE_LOCKTIME_TYPE_FLAG : Z := Z.shiftl 1 22.
Definition SEQUENCE_LOCKTIME_MASK : Z := 0xffff.
Definition SEQUENCE_LOCKTIME_GRANULARITY : Z := 9.

(** ** Finality and lock times *)

Definition IsFinalTx (tx : CTransaction) (nBlockHeight nBlockTime : Z) : bool :=
  if nLockTime tx =? 0 then true
  else if nLockTime tx <? (if nLockTime tx <? LOCKTIME_THRESHOLD then nBlockHeight else nBlockTime)
  then true
  else forallb (λ i, nSequence i =? SEQUENCE_FINAL) (vin tx).

(** The time a relative lock time counts from: the median time of the block
    before the one with the coin. *)
Definition coin_time (h : heap) (block : ptr) (nCoinHeight : Z) : option Z :=
  a ← GetAncestor h block (Z.max (nCoinHeight - 1) 0);
  a ← a;
  GetMedianTimePast h a.

(** The loop of [CalculateSequenceLocks] over the inputs and [prevHeights],
    which it clears for the inputs that do not count. *)
Fixpoint sequence_loop (h : heap) (block : ptr) (ins : list CTxIn) (prevHeights : list Z)
    (nMinHeight nMinTime : Z) : option (Z * Z * list Z) :=
  match ins, prevHeights with
  | txin :: ins', nCoinHeight :: hs' =>
      if IsAnonInput txin || has (nSequence txin) SEQUENCE_LOCKTIME_DISABLE_FLAG then
        '(a, b, hs) ← sequence_loop h block ins' hs' nMinHeight nMinTime;
        Some (a, b, 0 :: hs)
      else
        let v := Z.land (nSequence txin) SEQUENCE_LOCKTIME_MASK in
        '(nMinHeight, nMinTime) ←
          if has (nSequence txin) SEQUENCE_LOCKTIME_TYPE_FLAG then
            nCoinTime ← coin_time h block nCoinHeight;
            Some (nMinHeight,
                  Z.max nMinTime (nCoinTime + Z.shiftl v SEQUENCE_LOCKTIME_GRANULARITY - 1))
          else Some (Z.max nMinHeight (i32 (nCoinHeight + v - 1)), nMinTime);
        '(a, b, hs) ← sequence_loop h block ins' hs' nMinHeight nMinTime;
        Some (a, b, nCoinHeight :: hs)
  | _, _ => Some (nMinHeight, nMinTime, prevHeights)
  end.

(** [CalculateSequenceLocks]: the pair and the new [prevHeights]. *)
Definition CalculateSequenceLocks (tx : CTransaction) (flags : Z) (prevHeights : list Z)
    (h : heap) (block : ptr) : option (Z * Z * list Z) :=
  if negb (length prevHeights =? length (vin tx))%nat then None
  else if negb ((2 <=? u32 (Transaction.nVersion tx)) && has flags LOCKTIME_VERIFY_SEQUENCE)
  then Some (-1, -1, prevHeights)
  else sequence_loop h block (vin tx) prevHeights (-1) (-1).

Definition EvaluateSequenceLocks (h : heap) (block : ptr) (lockPair : Z * Z) : option bool :=
  b ← h !! block;
  q ← pprev b;
  nBlockTime ← GetMedianTimePast h q;
  Some (negb ((nHeight b <=? fst lockPair) || (nBlockTime <=? snd lockPair))).

Definition SequenceLocks (tx : CTransaction) (flags : Z) (prevHeights : list Z) (h : heap)
    (block : ptr) : option bool :=
  '(a, b, _) ← CalculateSequenceLocks tx flags prevHeights h block;
  EvaluateSequenceLocks h block (a, b).

(** ** Signature operations *)

(** [GetPScriptPubKey()] of an output. *)
Definition GetPScriptPubKey (o : CTxOutBase) : option bytes :=
  match o with CTxOutStandard _ s _ => Some s | _ => None end.

Fixpoint vpout_sigops (l : list (option CTxOutBase)) (n : Z) : option Z :=
  match l with
  | [] => Some n
  | o :: l' =>
      o ← o;
      vpout_sigops l' (match GetPScriptPubKey o with
                       | Some s => u32 (n + GetSigOpCount false s)
                       | None => n
                       end)
  end.

Definition GetLegacySigOpCount (tx : CTransaction) : option Z :=
  let n := if negb (Transaction.IsBitcoinCVersion tx) then
             let n := foldl (λ n i, u32 (n + GetSigOpCount false (scriptSig i))) 0 (vin tx) in
             foldl (λ n o, u32 (n + GetSigOpCount false (scriptPubKey o))) n (vout tx)
           else 0 in
  vpout_sigops (vpout tx) n.

Fixpoint p2sh_sigops (v : view) (tx : CTransaction) (ins : list CTxIn) (n : Z) : option Z :=
  match ins with
  | [] => Some n
  | i :: ins' =>
      if IsAnonInput i then p2sh_sigops v tx ins' n
      else
        let coin := AccessCoin v (prevout i) in
        if IsSpent coin then None
        else
          let script := scriptPubKey (out coin) in
          fIsCoinStake ← Transaction.IsCoinStake tx;
          p2sh_sigops v tx ins'
            (if IsPayToScriptHashAny fIsCoinStake script
             then u32 (n + GetSigOpCount_p2sh script (scriptSig i)) else n)
  end.

Definition GetP2SHSigOpCount (tx : CTransaction) (v : view) : option Z :=
  if IsCoinBase tx then Some 0
  else p2sh_sigops v tx (vin tx) 0.

Fixpoint witness_sigops (v : view) (flags : Z) (ins : list CTxIn) (n : Z) : option Z :=
  match ins with
  | [] => Some n
  | i :: ins' =>
      if IsAnonInput i then witness_sigops v flags ins' n
      else
        let coin := AccessCoin v (prevout i) in
        if IsSpent coin then None
        else
          k ← CountWitnessSigOps (scriptSig i) (scriptPubKey (out coin))
                (Some (scriptWitness i)) flags;
          witness_sigops v flags ins' (n + k)
  end.

Definition GetTransactionSigOpCost (e : env) (tx : CTransaction) (v : view) (flags : Z) : option Z :=
  legacy ← GetLegacySigOpCount tx;
  let nSigOps := u32 (legacy * WITNESS_SCALE_FACTOR e) in
  if IsCoinBase tx then Some nSigOps
  else
    nSigOps ← if has flags SCRIPT_VERIFY_P2SH
              then p ← GetP2SHSigOpCount tx v; Some (nSigOps + u32 (p * WITNESS_SCALE_FACTOR e))
              else Some nSigOps;
    witness_sigops v flags (vin tx) nSigOps.

(** ** Checks of a transaction on its own *)

(** [CheckValue]: the new [nValueOut]. *)
Definition CheckValue (value nValueOut : Z) : result tx_fail Z :=
  if value <? 0 then reject 100 "bad-txns-vout-negative"
  else if MAX_MONEY <? value then reject 100 "bad-txns-vout-toolarge"
  else Ok (i64 (nValueOut + value)).

(** [CCmpPubKey::GetID]: the key has a length by its first byte. *)
Definition CmpPubKey_GetID (e : env) (pk : bytes) : bytes :=
  Hash160 (digests e) (if (at_ pk 0 =? 2) || (at_ pk 0 =? 3) then pk else []).

(** [CPubKey::RecoverCompact]. *)
Definition RecoverCompact (e : env) (hash vchSig : bytes) : option bytes :=
  if negb (size vchSig =? COMPACT_SIGNATURE_SIZE) then None
  else
    let recid := Z.land (at_ vchSig 0 - 27) 3 in
    let fComp := negb (Z.land (at_ vchSig 0 - 27) 4 =? 0) in
    ecdsa_recover e recid fComp (drop 1 vchSig) hash.

(** [GetID] of the key a recovery left: an invalid key has no bytes. *)
Definition recovered_id (e : env) (r : option bytes) : bytes := Hash160 (digests e) (default [] r).

(** [ExtractStakingKeyID]; a 256-bit hash is reduced by [CKeyID(const uint256&)]. *)
Definition ExtractStakingKeyID (e : env) (script : bytes) : option bytes :=
  if IsPayToPublicKeyHash script then Some (take 20 (drop 3 script))
  else if IsPayToPublicKeyHash256 script then Some (RIPEMD160 (digests e) (take 32 (drop 3 script)))
  else if IsPayToPublicKeyHash256_CS script || IsPayToScriptHash256_CS script
          || IsPayToScriptHash_CS script
  then Some (take 20 (drop 5 script))
  else None.

(** The hashes the output signatures are made over. *)
Definition SignatureHashStakingOutput (e : env) (keyId : bytes) (nAmount : Z) (ins : list CTxIn)
  : result tx_fail bytes :=
  match ins with
  | [] => Err Crash
  | _ => Ok (Hash e (keyId ++ c_ser c_i64 nAmount
                     ++ flat_map (λ i, c_ser c_COutPoint (prevout i)) ins))
  end.

Definition SignatureHashSpendingOutput (e : env) (keyId vRangeproof : bytes) (ins : list CTxIn)
  : result tx_fail bytes :=
  match ins with
  | [] => Err Crash
  | _ => Ok (Hash e (keyId ++ c_ser c_blob vRangeproof
                     ++ flat_map (λ i, c_ser c_COutPoint (prevout i)) ins))
  end.

Definition uint160_zero : bytes := replicate 20 0.

(** The keys of a staking output and the hashes their owners sign: [None] when
    the output pays the development fund and needs no signature. *)
Definition staking_keys (e : env) (fIsCoinStake : bool) (nTime : Z) (tx : CTransaction)
    (value : Z) (script : bytes) : result tx_fail (option (bytes * bytes * bytes * bytes)) :=
  if fIsCoinStake then
    match SplitConditionalCoinstakeScript script [] with
    | None => reject 100 "bad-staking-out-script-coinstake"
    | Some (script1, script2) =>
        match ExtractStakingKeyID e script1 with
        | None => reject 100 "bad-staking-out-script-coinstake-dest1"
        | Some keyId1 =>
            match ExtractStakingKeyID e script2 with
            | None => reject 100 "bad-staking-out-script-coinstake-dest2"
            | Some keyId2 =>
                let! h1 := SignatureHashStakingOutput e keyId1 value (vin tx) in
                let! h2 := SignatureHashStakingOutput e keyId2 value (vin tx) in
                Ok (Some (keyId1, keyId2, h1, h2))
            end
        end
    end
  else
    match ExtractStakingKeyID e script with
    | Some keyId1 =>
        let! dev := deref (DevFundKeyID e nTime) in
        if bool_decide (dev = Some keyId1) then Ok None
        else let! h1 := SignatureHashStakingOutput e keyId1 value (vin tx) in
             Ok (Some (keyId1, uint160_zero, h1, uint256_zero))
    | None => reject 100 "bad-staking-out-script-dest"
    end.

(** [CheckStandardOutput]: the new [nValueOut]. *)
Definition CheckStandardOutput (e : env) (nTime : Z) (tx : CTransaction) (value : Z)
    (script vecSignature : bytes) (nValueOut : Z) : result tx_fail Z :=
  let! nValueOut := CheckValue value nValueOut in
  if COMPACT_SIGNATURE_SIZE <? size vecSignature then reject 10 "bad-stake-vout-signature-size"
  else
    let fIsCoinStake := HasIsCoinstakeOp script in
    if fIsCoinStake && (GetAdjustedTime e <? OpIsCoinstakeTime e)
    then reject 10 "bad-stake-vout-opiscoinstake"
    else if fIsCoinStake && negb (fAllowOpIsCoinstakeWithP2PKH e) && IsSpendScriptP2PKH script
    then reject 10 "bad-stak-vout-opiscoinstake-spend-p2pkh"
    else if IsCoinBase tx then Ok nValueOut
    else
      let! keys := staking_keys e fIsCoinStake nTime tx value script in
      match keys with
      | None => Ok nValueOut
      | Some (keyId1, keyId2, h1, h2) =>
          let r1 := RecoverCompact e h1 vecSignature in
          let r2 := RecoverCompact e h2 vecSignature in
          if bool_decide (r1 = None) && bool_decide (r2 = None)
          then reject 100 "bad-staking-out-signature"
          else if negb (bool_decide (recovered_id e r1 = keyId1))
                  && negb (bool_decide (recovered_id e r2 = keyId2))
          then reject 100 "bad-staking-out-signature-key"
          else Ok nValueOut
      end.

Definition CheckAnonOutput (e : env) (tx : CTransaction) (fIsConvertOutput : bool)
    (pk commitment vData vRangeproof vecSignature : bytes) : result tx_fail unit :=
  if (size vData <? 33) || (33 + 5 <? size vData) then reject 100 "bad-rctout-ephem-size"
  else if 5134 <? size vRangeproof then reject 100 "bad-rctout-rangeproof-size"
  else if fBusyImporting e && fSkipRangeproof e then Ok tt
  else if negb (rangeproof_verify e (fBulletproofsActive e) commitment vRangeproof)
  then reject 100 "bad-rctout-rangeproof-verify"
  else if (fIsConvertOutput && (COMPACT_SIGNATURE_SIZE <? size vecSignature))
          || (negb fIsConvertOutput && negb (size vecSignature =? 0))
  then reject 10 "bad-txns-vout-spending-signature-size"
  else if fIsConvertOutput then
    if size vecSignature =? 0 then reject 100 "bad-spending-out-signature-missing"
    else
      let! h := SignatureHashSpendingOutput e (CmpPubKey_GetID e pk) vRangeproof (vin tx) in
      match RecoverCompact e h vecSignature with
      | None => reject 100 "bad-spending-out-signature"
      | Some pub =>
          if bool_decide (Hash160 (digests e) pub = CmpPubKey_GetID e pk) then Ok tt
          else reject 100 "bad-spending-out-signature-key"
      end
  else Ok tt.

Definition MAX_DATA_OUTPUT_SIZE : Z := 34 + 5 + 34.

Definition CheckDataOutput (vData : bytes) : result tx_fail unit :=
  if (size vData <? 1) || (MAX_DATA_OUTPUT_SIZE <? size vData)
  then reject 100 "bad-output-data-size" else Ok tt.

(** The search for an output of the standard type. *)
Fixpoint has_standard_output (l : list (option CTxOutBase)) : result tx_fail bool :=
  match l with
  | [] => Ok false
  | o :: l' =>
      let! o := deref o in
      if output_type o =? OUTPUT_STANDARD then Ok true else has_standard_output l'
  end.

(** The loop over [vpout]: [nValueOut], [nStandardOutputs] and [nDataOutputs]. *)
Fixpoint check_vpout (e : env) (nTime : Z) (tx : CTransaction) (fConvert : bool)
    (l : list (option CTxOutBase)) (nValueOut nStandardOutputs nDataOutputs : Z)
  : result tx_fail (Z * Z * Z) :=
  match l with
  | [] => Ok (nValueOut, nStandardOutputs, nDataOutputs)
  | o :: l' =>
      let! o := deref o in
      let! (nValueOut, nStandardOutputs, nDataOutputs) :=
        match o with
        | CTxOutStandard v s sig =>
            let! nValueOut := CheckStandardOutput e nTime tx v s sig nValueOut in
            Ok (nValueOut, nStandardOutputs + 1, nDataOutputs)
        | CTxOutRingCT pk cm d rp sig =>
            let! _ := CheckAnonOutput e tx fConvert pk cm d rp sig in
            Ok (nValueOut, nStandardOutputs, nDataOutputs)
        | CTxOutData d =>
            let! _ := CheckDataOutput d in
            Ok (nValueOut, nStandardOutputs, nDataOutputs + 1)
        end in
      if negb (MoneyRange nValueOut) then reject 100 "bad-txns-txouttotal-toolarge"
      else check_vpout e nTime tx fConvert l' nValueOut nStandardOutputs nDataOutputs
  end.

(** The loop over [vout] of a transaction in the format of Bitcoin. *)
Fixpoint check_vout (l : list CTxOut) (nValueOut : Z) : result tx_fail Z :=
  match l with
  | [] => Ok nValueOut
  | o :: l' =>
      let! nValueOut := CheckValue (nValue o) nValueOut in
      if negb (MoneyRange nValueOut) then reject 100 "bad-txns-txouttotal-toolarge"
      else check_vout l' nValueOut
  end.

(** The set of outpoints seen so far is [seen]. *)
Fixpoint check_duplicates (l : list CTxIn) (seen : list COutPoint) : result tx_fail unit :=
  match l with
  | [] => Ok tt
  | i :: l' =>
      if IsAnonInput i then check_duplicates l' seen
      else if bool_decide (prevout i ∈ seen) then reject 100 "bad-txns-inputs-duplicate"
      else check_duplicates l' (prevout i :: seen)
  end.

Definition CheckTransaction (e : env) (tx : CTransaction) (fCheckDuplicateInputs : bool)
  : result tx_fail unit :=
  match vin tx with
  | [] => reject 10 "bad-txns-vin-empty"
  | txin0 :: _ =>
      let! b := deref (SerializeTransaction false tx) in
      if MAX_BLOCK_WEIGHT <? size b * WITNESS_SCALE_FACTOR e then reject 100 "bad-txns-oversize"
      else
        let! _ :=
          if Transaction.IsBitcoinCVersion tx then
            if bool_decide (vpout tx = []) then reject 10 "bad-txns-vpout-empty"
            else if negb (bool_decide (vout tx = [])) then reject 10 "bad-txns-vout-not-empty"
            else
              let fHasStandardInput := existsb (λ i, negb (IsAnonInput i)) (vin tx) in
              let! fHasStandardOutput := has_standard_output (vpout tx) in
              let! (_, nStandardOutputs, nDataOutputs) :=
                check_vpout e (i32 (GetAdjustedTime e)) tx (fHasStandardInput || fHasStandardOutput)
                  (vpout tx) 0 0 0 in
              if 1 + nStandardOutputs <? nDataOutputs then reject 100 "too-many-data-outputs"
              else Ok tt
          else if fBitcoinCMode e then reject 100 "bad-txn-version"
          else if bool_decide (vout tx = []) then reject 10 "bad-txns-vout-empty"
          else let! _ := check_vout (vout tx) 0 in Ok tt in
        let! _ := if fCheckDuplicateInputs then check_duplicates (vin tx) [] else Ok tt in
        if IsCoinBase tx then
          if (size (scriptSig txin0) <? 2) || (150 <? size (scriptSig txin0))
          then reject 100 "bad-cb-length" else Ok tt
        else if existsb (λ i, negb (IsAnonInput i) && COutPoint_IsNull (prevout i)) (vin tx)
        then reject 10 "bad-txns-prevout-null" else Ok tt
  end.

(** ** Checks of the inputs *)

(** What [CheckTxInputs] leaves behind: [nTxFee] and the flags of the state. *)
Record tx_inputs := TxInputs { nTxFee : Z; fHasAnonInput : bool; fHasAnonOutput : bool }.

(** A coinbase output is spendable [COINBASE_MATURITY] blocks later, or, near
    the start of the chain, after half its height. *)
Definition check_maturity (e : env) (coin : Coin) (nSpendHeight : Z) : result tx_fail unit :=
  if fCoinBase coin && (nSpendHeight - coin_nHeight coin <? COINBASE_MATURITY) then
    if fBitcoinCMode e then
      let nRequiredDepth := Z.min COINBASE_MATURITY (Z.quot (coin_nHeight coin) 2) in
      if nSpendHeight - coin_nHeight coin <? nRequiredDepth
      then reject 0 "bad-txns-premature-spend-of-coinbase" else Ok tt
    else reject 0 "bad-txns-premature-spend-of-coinbase"
  else Ok tt.

(** The loop over the inputs: [nValueIn], [nStandard] and [nRingCT]. *)
Fixpoint sum_inputs (e : env) (v : view) (nSpendHeight : Z) (ins : list CTxIn)
    (nValueIn nStandard nRingCT : Z) : result tx_fail (Z * Z * Z) :=
  match ins with
  | [] => Ok (nValueIn, nStandard, nRingCT)
  | i :: ins' =>
      if IsAnonInput i then sum_inputs e v nSpendHeight ins' nValueIn nStandard (nRingCT + 1)
      else
        let coin := AccessCoin v (prevout i) in
        if IsSpent coin then Err Crash
        else
          let! _ := check_maturity e coin nSpendHeight in
          if fBitcoinCMode e && negb (nType coin =? OUTPUT_STANDARD)
          then reject 100 "bad-txns-input-type"
          else
            let nValueIn := i64 (nValueIn + nValue (out coin)) in
            if negb (MoneyRange (nValue (out coin))) || negb (MoneyRange nValueIn)
            then reject 100 "bad-txns-inputvalues-outofrange"
            else sum_inputs e v nSpendHeight ins' nValueIn
                   (if fBitcoinCMode e then nStandard + 1 else nStandard) nRingCT
  end.

(** The checks on a fee. *)
Definition check_fee (fee : Z) : result tx_fail unit :=
  if fee <? 0 then reject 100 "bad-txns-fee-negative"
  else if negb (MoneyRange fee) then reject 100 "bad-txns-fee-outofrange" else Ok tt.

(** The sum of the outputs; out of range it throws. *)
Definition sum_or_throw {A} (r : result value_error A) : result tx_fail A :=
  match r with
  | Ok a => Ok a
  | Err ValueOutOfRange => Err Throws
  | Err NullOutput => Err Crash
  end.

Definition CheckTxInputs (e : env) (tx : CTransaction) (v : view) (nSpendHeight : Z)
  : result tx_fail tx_inputs :=
  if Transaction.IsBitcoinCVersion tx && bool_decide (vin tx = [])
  then reject 100 "bad-txn-no-inputs"
  else if negb (HaveInputs v tx) then reject 100 "bad-txns-inputs-missingorspent"
  else
    let! (nValueIn, nStandard, nRingCTInputs) := sum_inputs e v nSpendHeight (vin tx) 0 0 0 in
    if (0 <? nStandard) && (0 <? nRingCTInputs) then reject 100 "mixed-input-types"
    else
      let! (nPlainValueOut, _, nRingCT) :=
        sum_or_throw (GetPlainValueOut tx nStandard nRingCTInputs) in
      let done fee := TxInputs fee (0 <? nRingCTInputs) (nRingCTInputs <? nRingCT) in
      if fBitcoinCMode e then
        let! fIsCoinStake := deref (Transaction.IsCoinStake tx) in
        if negb fIsCoinStake then
          let! fee :=
            if 0 <? nRingCT then
              let! r := deref (GetCTFee tx 0) in
              match r with Some fee => Ok fee | None => reject 100 "bad-fee-output" end
            else if nValueIn <? nPlainValueOut then reject 100 "bad-txns-in-belowout"
            else Ok (i64 (nValueIn - nPlainValueOut)) in
          let! _ := check_fee fee in
          Ok (done fee)
        else if 0 <? nRingCT then reject 100 "bad-coinstake-outputs"
        else Ok (done (i64 (nPlainValueOut - nValueIn)))
      else
        let! nValueOut := sum_or_throw (GetValueOut tx) in
        if nValueIn <? nValueOut then reject 100 "bad-txns-in-belowout"
        else
          let fee := i64 (nValueIn - nValueOut) in
          let! _ := check_fee fee in
          Ok (done fee).

(** ** Lemmas *)

(** *** Lock times *)

Lemma has_pow2 w k : 0 <= k → has w (Z.shiftl 1 k) = Z.testbit w k.
Proof. intros Hk. unfold has. rewrite Z.shiftl_1_l. by apply land_pow2_testbit. Qed.

(** The rule of a relative lock time, for a block of height [height] whose
    parent has the median time [mtp]: an input is free, waits for a number of
    blocks, or waits for a multiple of 512 seconds after the median time of the
    block before its coin's. *)
Definition lock_satisfied (h : heap) (block : ptr) (height mtp : Z) (x : CTxIn * Z) : Prop :=
  let '(i, nCoinHeight) := x in
  let v := nSequence i mod 2 ^ 16 in
  IsAnonInput i = true ∨ Z.testbit (nSequence i) 31 = true ∨
  (if Z.testbit (nSequence i) 22 then
     ∃ q t, walk h (Z.to_nat (height - Z.max (nCoinHeight - 1) 0)) block = Some q ∧
            GetMedianTimePast h q = Some t ∧ t + 512 * v <= mtp
   else nCoinHeight + v <= height).

Section Locks.
Context (h : heap) (Hh : tree_ok h) (block : ptr) (b : CBlockIndex) (Hb : h !! block = Some b).

Lemma coin_time_spec c :
  0 <= c <= nHeight b →
  ∃ q t, coin_time h block c = Some t ∧ GetMedianTimePast h q = Some t ∧
    walk h (Z.to_nat (nHeight b - Z.max (c - 1) 0)) block = Some q.
Proof.
  intros Hc. unfold coin_time. rewrite (GetAncestor_spec h Hh block b) by done.
  pose proof (tree_height h Hh _ _ Hb).
  replace ((nHeight b <? Z.max (c - 1) 0) || (Z.max (c - 1) 0 <? 0)) with false
    by (symmetry; apply orb_false_iff; rewrite !Z.ltb_ge; lia).
  destruct (walk_spec h Hh (Z.to_nat (nHeight b - Z.max (c - 1) 0)) block b Hb)
    as (q & bq & Hw & Hq & _); [lia|].
  destruct (GetMedianTimePast_median h q bq Hh Hq) as (l & m & _ & Hm & _).
  exists q, m. rewrite Hw. cbn [mbind option_bind]. by rewrite Hm.
Qed.

Lemma sequence_loop_spec (mtp : Z) ins hs nMinHeight nMinTime :
  nHeight b < 2 ^ 31 - 2 ^ 16 → length hs = length ins → Forall (λ c, 0 <= c <= nHeight b) hs →
  ∃ nh nt hs', sequence_loop h block ins hs nMinHeight nMinTime = Some (nh, nt, hs') ∧
    (nh < nHeight b ∧ nt < mtp ↔
     (nMinHeight < nHeight b ∧ nMinTime < mtp) ∧
     Forall (lock_satisfied h block (nHeight b) mtp) (zip ins hs)).
Proof.
  intros HH Hlen Hhs. revert ins Hlen nMinHeight nMinTime.
  induction Hhs as [|c hs Hc _ IH]; intros [|i ins] Hlen mh mt; try done.
  { exists mh, mt, []. split; [done|]. simpl. rewrite Forall_nil. tauto. }
  cbn [length] in Hlen. apply Nat.succ_inj in Hlen.
  cbn [sequence_loop]. change (zip (i :: ins) (c :: hs)) with ((i, c) :: zip ins hs).
  unfold SEQUENCE_LOCKTIME_DISABLE_FLAG, SEQUENCE_LOCKTIME_TYPE_FLAG.
  rewrite !has_pow2 by lia. setoid_rewrite Forall_cons. cbn [lock_satisfied].
  destruct (IsAnonInput i) eqn:Ea; [|destruct (Z.testbit (nSequence i) 31) eqn:Ed].
  1,2: cbn [orb]; destruct (IH ins Hlen mh mt) as (nh & nt & hs' & -> & Hiff);
    exists nh, nt, (0 :: hs'); split; [done|]; rewrite Hiff; tauto.
  cbn [orb]. unfold SEQUENCE_LOCKTIME_MASK. rewrite (land_ones_mod _ 16) by lia.
  pose proof (Z.mod_pos_bound (nSequence i) (2 ^ 16) ltac:(lia)) as Hv.
  destruct (Z.testbit (nSequence i) 22) eqn:Et.
  - destruct (coin_time_spec c Hc) as (q & t & -> & Ht & Hw). cbn [mbind option_bind].
    unfold SEQUENCE_LOCKTIME_GRANULARITY. rewrite Z.shiftl_mul_pow2 by lia.
    destruct (IH ins Hlen mh (Z.max mt (t + nSequence i mod 2 ^ 16 * 2 ^ 9 - 1)))
      as (nh & nt & hs' & -> & Hiff).
    exists nh, nt, (c :: hs'). split; [done|]. rewrite Hiff. rewrite Z.max_lub_lt_iff.
    assert ((∃ q t, walk h (Z.to_nat (nHeight b - Z.max (c - 1) 0)) block = Some q ∧
              GetMedianTimePast h q = Some t ∧ t + 512 * (nSequence i mod 2 ^ 16) <= mtp) ↔
            t + nSequence i mod 2 ^ 16 * 2 ^ 9 - 1 < mtp) as ->; [|intuition congruence].
    split; [intros (q' & t' & ? & ? & ?); simplify_eq; lia|]. intros ?. exists q, t. split_and!; [done..|lia].
  - cbn [mbind option_bind].
    destruct (IH ins Hlen (Z.max mh (i32 (c + nSequence i mod 2 ^ 16 - 1))) mt)
      as (nh & nt & hs' & -> & Hiff).
    exists nh, nt, (c :: hs'). split; [done|]. rewrite Hiff. rewrite Z.max_lub_lt_iff.
    rewrite i32_small by (unfold is_i32; lia).
    assert (c + nSequence i mod 2 ^ 16 - 1 < nHeight b ↔ c + nSequence i mod 2 ^ 16 <= nHeight b)
      as -> by lia.
    intuition congruence.
Qed.

End Locks.

(** *** Amounts *)

(** What the coin of an input is worth. *)
Definition coin_value (v : view) (i : CTxIn) : Z := nValue (out (AccessCoin v (prevout i))).

(** The coin of an input is there, standard, and not an immature coinbase; the
    depth asked for is lower at the start of the chain. *)
Definition spendable (v : view) (nSpendHeight : Z) (i : CTxIn) : Prop :=
  let coin := AccessCoin v (prevout i) in
  HaveCoin v (prevout i) = true ∧ nType coin = OUTPUT_STANDARD ∧
  (fCoinBase coin = true →
   Z.min COINBASE_MATURITY (Z.quot (coin_nHeight coin) 2) <= nSpendHeight - coin_nHeight coin).

Lemma HaveCoin_AccessCoin v o : HaveCoin v o = negb (IsSpent (AccessCoin v o)).
Proof. unfold HaveCoin, AccessCoin. by destruct (v o). Qed.

Lemma check_maturity_spec e coin nSpendHeight :
  fBitcoinCMode e = true →
  check_maturity e coin nSpendHeight = Ok tt ↔
  (fCoinBase coin = true →
   Z.min COINBASE_MATURITY (Z.quot (coin_nHeight coin) 2) <= nSpendHeight - coin_nHeight coin).
Proof.
  intros Hm. unfold check_maturity. rewrite Hm. destruct (fCoinBase coin); [|done]. cbn [andb].
  destruct (Z.ltb_spec (nSpendHeight - coin_nHeight coin) COINBASE_MATURITY) as [H1|H1].
  - destruct (Z.ltb_spec (nSpendHeight - coin_nHeight coin)
                (Z.min COINBASE_MATURITY (Z.quot (coin_nHeight coin) 2))) as [H2|H2].
    + split; [done|]. intros H. specialize (H eq_refl). lia.
    + split; [|done]. intros _ _. lia.
  - split; [|done]. intros _ _. lia.
Qed.

(** The loop over inputs that are not anonymous. *)
Lemma sum_inputs_spec e v H ins acc s r x :
  fBitcoinCMode e = true → Forall (λ i, IsAnonInput i = false) ins →
  0 <= acc <= MAX_MONEY → Forall (λ i, is_i64 (coin_value v i)) ins →
  sum_inputs e v H ins acc s r = Ok x ↔
  Forall (spendable v H) ins ∧ amounts_ok acc (map (coin_value v) ins) ∧
  x = (acc + sum (map (coin_value v) ins), s + Z.of_nat (length ins), r).
Proof.
  intros Hm Ha. revert acc s. induction Ha as [|i ins Hi _ IH]; intros acc s Hacc Hv.
  { cbn [sum_inputs map length sum foldr]. rewrite !Z.add_0_r. unfold amounts_ok. split.
    - intros [= <-]. split_and!; [constructor|constructor| |done]. cbn [sum foldr]. lia.
    - by intros (_ & _ & ->). }
  apply Forall_cons in Hv as [Hv Hvs]. cbn [sum_inputs map length]. rewrite Hi, Hm.
  cbn [andb]. rewrite Forall_cons. unfold spendable at 1. cbn zeta. rewrite HaveCoin_AccessCoin.
  destruct (IsSpent (AccessCoin v (prevout i))) eqn:Es.
  { split; [done|]. by intros ([(? & _) _] & _). }
  pose proof (check_maturity_spec e (AccessCoin v (prevout i)) H Hm) as Hmat.
  destruct (check_maturity e (AccessCoin v (prevout i)) H) as [[]|err]; cbn [rbind].
  2:{ split; [done|]. intros ([(_ & _ & Hmature) _] & _). by apply Hmat in Hmature. }
  destruct (Z.eqb_spec (nType (AccessCoin v (prevout i))) OUTPUT_STANDARD) as [Ht|Ht]; cbn [negb].
  2:{ split; [done|]. by intros ([(_ & ? & _) _] & _). }
  pose proof (add_amount acc (coin_value v i) (map (coin_value v) ins) Hacc Hv) as Hadd.
  unfold coin_value in Hadd at 1 2 3. rewrite <- Hadd. destruct (_ || _) eqn:E.
  { split; [done|]. by intros (_ & [? _] & _). }
  apply orb_false_iff in E as [E1 E2]. apply negb_false_iff in E1, E2.
  assert (Hi64 : i64 (acc + coin_value v i) = acc + coin_value v i).
  { apply i64_small. apply MoneyRange_iff in E1. unfold coin_value, MAX_MONEY, COIN, is_i64 in *. lia. }
  unfold coin_value in Hi64. rewrite IH by (done || by apply MoneyRange_iff).
  rewrite Hi64. change (sum (coin_value v i :: map (coin_value v) ins))
    with (coin_value v i + sum (map (coin_value v) ins)).
  replace (s + 1 + Z.of_nat (length ins)) with (s + Z.of_nat (S (length ins))) by lia.
  rewrite Z.add_assoc. fold (coin_value v i). intuition.
Qed.

(** The counter of confidential outputs. *)
Definition is_ringct (o : option CTxOutBase) : bool :=
  match o with Some (CTxOutRingCT _ _ _ _ _) => true | _ => false end.

Definition count_ringct (l : list (option CTxOutBase)) : Z :=
  Z.of_nat (length (filter (λ o, is_ringct o = true) l)).

Lemma sum_vpout_ringct l acc a b v a' b' :
  sum_vpout l acc a b = Ok (v, a', b') → b' = b + count_ringct l.
Proof.
  unfold count_ringct. revert acc a b. induction l as [|o l IH]; intros acc a b H.
  { injection H as <- <- <-. rewrite filter_nil. cbn [length]. lia. }
  rewrite filter_cons. destruct o as [[v0 p0 s0|? ? ? ? ?|?]|]; try done; cbn [sum_vpout] in H.
  - destruct (_ || _); [done|]. rewrite decide_False by done. by apply IH in H.
  - rewrite decide_True by done. apply IH in H. cbn [length]. lia.
  - rewrite decide_False by done. by apply IH in H.
Qed.

Lemma count_ringct_none l : Forall (λ o, is_ringct o = false) l → count_ringct l = 0.
Proof.
  unfold count_ringct. induction 1 as [|o l Ho _ IH]; [done|].
  rewrite filter_cons, decide_False by (by rewrite Ho). done.
Qed.

Lemma IsCoinStake_total tx : Forall is_Some (vpout tx) → is_Some (Transaction.IsCoinStake tx).
Proof.
  intros H. unfold Transaction.IsCoinStake. destruct (_ && _); [|by eexists].
  destruct (vpout tx) as [|o0 [|o1 l]]; [by eexists..|].
  apply Forall_cons in H as [[x0 ->] H]. apply Forall_cons in H as [[x1 ->] _].
  cbn [mbind option_bind]. destruct (_ =? _); by eexists.
Qed.

(** *** Accepted transactions *)

(** A transaction without anonymous inputs and without null outputs. *)
Definition plain_inputs (tx : CTransaction) : Prop :=
  Forall (λ i, IsAnonInput i = false) (vin tx) ∧ Forall is_Some (vpout tx).

(** The fields of the C++ types are in their range. *)
Definition amounts_i64 (v : view) (tx : CTransaction) : Prop :=
  Forall (λ i, is_i64 (coin_value v i)) (vin tx) ∧ Forall is_i64 (plain_values (vpout tx)).

Definition value_in (v : view) (tx : CTransaction) : Z := sum (map (coin_value v) (vin tx)).
Definition plain_value_out (tx : CTransaction) : Z := sum (plain_values (vpout tx)).

Lemma spendable_HaveInputs v H tx : Forall (spendable v H) (vin tx) → HaveInputs v tx = true.
Proof.
  intros Hs. unfold HaveInputs. destruct (IsCoinBase tx); [done|]. cbn [negb].
  apply forallb_forall. intros i Hi. apply list_elem_of_In in Hi. rewrite Forall_forall in Hs.
  destruct (Hs i Hi) as [-> _]. apply orb_true_r.
Qed.

Lemma GetPlainValueOut_spec tx a b x :
  Forall is_Some (vpout tx) → Forall is_i64 (plain_values (vpout tx)) →
  sum_or_throw (GetPlainValueOut tx a b) = Ok x → amounts_ok 0 (plain_values (vpout tx)).
Proof.
  intros Hs Hi H. destruct (GetPlainValueOut tx a b) as [[[y a'] b']|[]] eqn:E; try done.
  by apply sum_vpout_spec in E as [Hok _]; [|by unfold MAX_MONEY, COIN|..].
Qed.

Lemma GetPlainValueOut_eq tx a b :
  Forall is_Some (vpout tx) → Forall is_i64 (plain_values (vpout tx)) →
  amounts_ok 0 (plain_values (vpout tx)) →
  ∃ a', GetPlainValueOut tx a b = Ok (plain_value_out tx, a', b + count_ringct (vpout tx)).
Proof.
  intros Hs Hi Hok. destruct (sum_vpout_complete (vpout tx) 0 a b) as (a' & b' & E); try done.
  exists a'. unfold GetPlainValueOut. rewrite E. by apply sum_vpout_ringct in E as ->.
Qed.

Lemma check_fee_spec fee : check_fee fee = Ok tt ↔ 0 <= fee <= MAX_MONEY.
Proof.
  unfold check_fee. rewrite <- MoneyRange_iff.
  destruct (Z.ltb_spec fee 0) as [H|H]; [|by destruct (MoneyRange fee)].
  split; [done|]. intros Hm%MoneyRange_iff. lia.
Qed.

(** *** Checks without context *)

(** The outpoints the inputs name, of those that name one. *)
Definition spent_outpoints (l : list CTxIn) : list COutPoint :=
  map prevout (filter (λ i, IsAnonInput i = false) l).

Lemma check_duplicates_spec l seen :
  check_duplicates l seen = Ok tt ↔
  NoDup (spent_outpoints l) ∧ (∀ o, o ∈ spent_outpoints l → o ∉ seen).
Proof.
  revert seen. induction l as [|i l IH]; intros seen.
  { split; [|done]. intros _. split; [constructor|]. intros o H. by apply not_elem_of_nil in H. }
  cbn [check_duplicates]. unfold spent_outpoints. rewrite filter_cons.
  destruct (IsAnonInput i) eqn:Ea; [by rewrite decide_False by done|].
  rewrite decide_True by done. cbn [map]. fold (spent_outpoints l). rewrite NoDup_cons.
  destruct (bool_decide (prevout i ∈ seen)) eqn:Ed.
  { apply bool_decide_eq_true in Ed. split; [done|]. intros [_ H].
    exfalso. exact (H (prevout i) (list_elem_of_here _ _) Ed). }
  apply bool_decide_eq_false in Ed. rewrite IH. split.
  - intros [Hnd Hd]. split_and!; [|done|].
    + intros Hin. apply (Hd _ Hin), list_elem_of_here.
    + intros o [->|Ho]%elem_of_cons Hs; [done|]. apply (Hd o Ho). by apply list_elem_of_further.
  - intros [[Hni Hnd] Hd]. split; [done|]. intros o Ho [->|Hs]%elem_of_cons; [done|].
    exact (Hd o (list_elem_of_further _ _ _ Ho) Hs).
Qed.

Definition count_outputs (t : Z) (l : list (option CTxOutBase)) : Z :=
  Z.of_nat (length (filter (λ o, output_type <$> o = Some t) l)).

Lemma CheckValue_Ok value n n' :
  0 <= n <= MAX_MONEY → CheckValue value n = Ok n' → 0 <= value <= MAX_MONEY ∧ n' = n + value.
Proof.
  intros Hn. unfold CheckValue. destruct (Z.ltb_spec value 0); [done|].
  destruct (Z.ltb_spec MAX_MONEY value); [done|]. intros [= <-]. split; [lia|].
  apply i64_small. unfold MAX_MONEY, COIN, is_i64 in *. lia.
Qed.

Lemma CheckStandardOutput_Ok e nTime tx value script sig n n' :
  CheckStandardOutput e nTime tx value script sig n = Ok n' → CheckValue value n = Ok n'.
Proof.
  unfold CheckStandardOutput. destruct (CheckValue value n) as [m|]; [|done]. cbn [rbind].
  repeat (destruct (_ <? _); [done|]). do 2 (destruct (_ && _); [done|]).
  destruct (IsCoinBase tx); [done|]. destruct (staking_keys _ _ _ _ _ _) as [[[[[]]]|]|]; try done.
  cbn [rbind]. do 2 (destruct (_ && _); [done|]). done.
Qed.

Section Plain.
Context (e : env) (tx : CTransaction) (v : view) (H : Z).
Context (Hmode : fBitcoinCMode e = true) (Hvin : vin tx ≠ []).
Context (Hplain : plain_inputs tx) (Hi64 : amounts_i64 v tx).

(** What [CheckTxInputs] asks of the coins and the amounts. *)
Definition inputs_good : Prop :=
  Forall (spendable v H) (vin tx) ∧
  amounts_ok 0 (map (coin_value v) (vin tx)) ∧ amounts_ok 0 (plain_values (vpout tx)).

Lemma zero_amount : 0 <= 0 <= MAX_MONEY.
Proof. unfold MAX_MONEY, COIN. lia. Qed.

Lemma no_inputs_guard : Transaction.IsBitcoinCVersion tx && bool_decide (vin tx = []) = false.
Proof using Hvin. rewrite bool_decide_false by done. apply andb_false_r. Qed.

Lemma CheckTxInputs_good r : CheckTxInputs e tx v H = Ok r → inputs_good.
Proof using All.
  destruct Hplain as [Ha Hs], Hi64 as [Hi Ho]. unfold CheckTxInputs.
  rewrite no_inputs_guard. destruct (HaveInputs v tx); [|done]. cbn [negb].
  intros Hok. apply rbind_Ok in Hok as (x & Hsum & Hok).
  apply (sum_inputs_spec _ _ _ _ _ _ _ _ Hmode Ha zero_amount Hi) in Hsum as (Hsp & Hin & ->).
  cbn zeta in Hok. rewrite Z.ltb_irrefl, andb_false_r in Hok.
  apply rbind_Ok in Hok as (y & Hout & _).
  by apply GetPlainValueOut_spec in Hout.
Qed.

(** With good inputs, the verdict depends on the totals, or on the declared fee
    when an output is confidential. *)
Lemma CheckTxInputs_eq cs :
  Transaction.IsCoinStake tx = Some cs → inputs_good →
  let anon := 0 <? count_ringct (vpout tx) in
  CheckTxInputs e tx v H =
    if cs then
      if anon then reject 100 "bad-coinstake-outputs"
      else Ok (TxInputs (plain_value_out tx - value_in v tx) false anon)
    else
      let! fee :=
        if anon then
          let! r := deref (GetCTFee tx 0) in
          match r with Some fee => Ok fee | None => reject 100 "bad-fee-output" end
        else if value_in v tx <? plain_value_out tx then reject 100 "bad-txns-in-belowout"
        else Ok (value_in v tx - plain_value_out tx) in
      let! _ := check_fee fee in
      Ok (TxInputs fee false anon).
Proof using All.
  intros Hcs (Hsp & Hin & Hout). destruct Hplain as [Ha Hs], Hi64 as [Hi Ho].
  pose proof (sum_nonneg _ (proj1 Hin)) as Hin0. pose proof (sum_nonneg _ (proj1 Hout)) as Hout0.
  pose proof (proj2 Hin) as Hin1. pose proof (proj2 Hout) as Hout1.
  fold (value_in v tx) in Hin0, Hin1. fold (plain_value_out tx) in Hout0, Hout1.
  unfold CheckTxInputs. rewrite no_inputs_guard, (spendable_HaveInputs v H) by done. cbn [negb].
  rewrite (proj2 (sum_inputs_spec e v H (vin tx) 0 0 0 _ Hmode Ha zero_amount Hi)
             (conj Hsp (conj Hin eq_refl))). cbn [rbind]. cbn zeta.
  rewrite Z.ltb_irrefl, andb_false_r.
  destruct (GetPlainValueOut_eq tx (0 + Z.of_nat (length (vin tx))) 0 Hs Ho Hout) as (a & ->).
  cbn [sum_or_throw rbind]. rewrite Hmode, Hcs. cbn [deref rbind].
  rewrite !Z.add_0_l. fold (value_in v tx).
  assert (∀ x y, 0 <= x <= MAX_MONEY → 0 <= y <= MAX_MONEY → i64 (x - y) = x - y) as Hsub.
  { intros x y Hx Hy. apply i64_small. unfold MAX_MONEY, COIN, is_i64 in *. lia. }
  rewrite !Hsub by lia. by destruct cs.
Qed.

End Plain.

(** The last checks of [CheckTransaction]. *)
Lemma final_checks tx i0 ins :
  vin tx = i0 :: ins →
  (if IsCoinBase tx then
     if (size (scriptSig i0) <? 2) || (150 <? size (scriptSig i0)) then reject 100 "bad-cb-length"
     else Ok tt
   else if existsb (λ i, negb (IsAnonInput i) && COutPoint_IsNull (prevout i)) (vin tx)
   then reject 10 "bad-txns-prevout-null" else Ok tt) = Ok tt →
  if IsCoinBase tx then ∃ i, vin tx = [i] ∧ 2 <= size (scriptSig i) <= 150
  else Forall (λ o, COutPoint_IsNull o = false) (spent_outpoints (vin tx)).
Proof.
  intros Hvin. destruct (IsCoinBase tx) eqn:Hcb.
  - intros H. unfold IsCoinBase in Hcb. rewrite Hvin in Hcb. destruct ins; [clear Hcb|done].
    exists i0. split; [done|]. destruct (_ || _) eqn:E; [done|].
    apply orb_false_iff in E as [E1 E2]. apply Z.ltb_ge in E1, E2. lia.
  - destruct (existsb _ _) eqn:E; [done|]. intros _. apply Forall_forall.
    intros o (i & -> & [Ha Hi]%list_elem_of_filter)%list_elem_of_fmap.
    rewrite <- not_true_iff_false, existsb_exists in E.
    apply not_true_iff_false. intros Hn. apply E. exists i.
    split; [by apply list_elem_of_In|]. by rewrite Ha, Hn.
Qed.

Lemma count_outputs_cons t o l :
  count_outputs t (o :: l) = (if decide (output_type <$> o = Some t) then 1 else 0) + count_outputs t l.
Proof. unfold count_outputs. rewrite filter_cons. destruct (decide _); cbn [length]; lia. Qed.

(** The sizes of the data outputs. *)
Definition data_size_ok (o : option CTxOutBase) : Prop :=
  match o with Some (CTxOutData d) => 1 <= size d <= MAX_DATA_OUTPUT_SIZE | _ => True end.

Lemma check_vpout_sound e nTime tx conv l acc ns nd acc' ns' nd' :
  0 <= acc <= MAX_MONEY →
  check_vpout e nTime tx conv l acc ns nd = Ok (acc', ns', nd') →
  Forall is_Some l ∧ amounts_ok acc (plain_values l) ∧ Forall data_size_ok l ∧
  ns' = ns + count_outputs OUTPUT_STANDARD l ∧ nd' = nd + count_outputs OUTPUT_DATA l.
Proof.
  revert acc ns nd. induction l as [|o l IH]; intros acc ns nd Hacc H.
  { injection H as <- <- <-. unfold count_outputs, amounts_ok. cbn.
    split_and!; [constructor|constructor|lia|constructor|lia|lia]. }
  cbn [check_vpout] in H. apply rbind_Ok in H as (o' & Ho & H).
  destruct o as [o|]; [|done]. injection Ho as <-.
  apply rbind_Ok in H as ([[n1 ns1] nd1] & Hcase & H).
  destruct (MoneyRange n1) eqn:Hr; [|done]. apply MoneyRange_iff in Hr.
  apply IH in H as (Hs & Hok & Hd & -> & ->); [|done].
  rewrite !count_outputs_cons, !Forall_cons.
  destruct o as [v0 p0 s0|? ? ? ? ?|d].
  - apply rbind_Ok in Hcase as (m & Hm & [= <- <- <-]). apply CheckStandardOutput_Ok in Hm.
    apply CheckValue_Ok in Hm as [Hv ->]; [|done]. cbn [plain_values flat_map app].
    fold (plain_values l). destruct Hok as [Hf Hle].
    split_and!; try first [done | by eexists | repeat case_decide; done || lia]. unfold amounts_ok.
    change (sum (v0 :: plain_values l)) with (v0 + sum (plain_values l)).
    split; [|lia]. constructor; [by apply MoneyRange_iff|done].
  - apply rbind_Ok in Hcase as (m & Hm & [= <- <- <-]).
    split_and!; first [done | by eexists | repeat case_decide; done || lia].
  - apply rbind_Ok in Hcase as (m & Hm & [= <- <- <-]). unfold CheckDataOutput in Hm.
    destruct (_ || _) eqn:E; [done|]. apply orb_false_iff in E as [E1 E2].
    apply Z.ltb_ge in E1, E2. split_and!; first [done | by eexists | repeat case_decide; done || lia].
Qed.

Lemma SequenceLocks_spec (h : heap) (block q : ptr) (b : CBlockIndex) (tx : CTransaction)
    (flags : Z) (prevHeights : list Z) :
  tree_ok h → map_Forall (λ _ b, 0 <= nTime b) h → h !! block = Some b → pprev b = Some q →
  nHeight b < 2 ^ 31 - 2 ^ 16 → length prevHeights = length (vin tx) →
  Forall (λ c, 0 <= c <= nHeight b) prevHeights →
  2 <= u32 (Transaction.nVersion tx) → has flags LOCKTIME_VERIFY_SEQUENCE = true →
  ∃ mtp r, GetMedianTimePast h q = Some mtp ∧ SequenceLocks tx flags prevHeights h block = Some r ∧
    (r = true ↔
     Forall (lock_satisfied h block (nHeight b) mtp) (zip (vin tx) prevHeights)).
Proof.
  intros Hh Htime Hb Hq HH Hlen Hhs Hver Hflag.
  pose proof (Hh _ _ Hb) as (_ & H0 & Hpar & _). rewrite Hq in Hpar.
  destruct Hpar as (bq & Hbq & _).
  destruct (GetMedianTimePast_median h q bq Hh Hbq) as (l & mtp & Hl & Hm & Hin & _).
  destruct (past_times_spec h nMedianTimeSpan q bq Hh Hbq) as (l' & Hl' & _ & Hx).
  rewrite Hl in Hl'. injection Hl' as <-. apply Hx in Hin as (i & r & br & _ & _ & Hr & Ht).
  pose proof (Htime _ _ Hr) as Hpos. cbn beta in Hpos.
  destruct (sequence_loop_spec h Hh block b Hb mtp (vin tx) prevHeights (-1) (-1) HH Hlen Hhs)
    as (nh & nt & hs' & Hloop & Hiff).
  exists mtp. unfold SequenceLocks, CalculateSequenceLocks, EvaluateSequenceLocks.
  rewrite Hlen, Nat.eqb_refl, Hflag. replace (2 <=? _) with true by (symmetry; by apply Z.leb_le).
  cbn [negb andb]. rewrite Hloop. cbn [mbind option_bind]. rewrite Hb. cbn [mbind option_bind].
  rewrite Hq. cbn [mbind option_bind]. rewrite Hm. cbn [mbind option_bind fst snd].
  eexists. split_and!; [done..|]. rewrite negb_true_iff, orb_false_iff, !Z.leb_gt, Hiff.
  split; [by intros [_ ?]|]. intros Hf. split; [lia|done].
Qed.

Lemma sum_inputs_counts e v H ins acc ns nr acc' ns' nr' :
  fBitcoinCMode e = true → sum_inputs e v H ins acc ns nr = Ok (acc', ns', nr') →
  ns <= ns' ∧ nr <= nr' ∧ (ns' = ns → Forall (λ i, IsAnonInput i = true) ins) ∧
  (nr' = nr → Forall (λ i, IsAnonInput i = false) ins).
Proof.
  intros Hm. revert acc ns nr. induction ins as [|i ins IH]; intros acc ns nr; cbn [sum_inputs].
  { intros [= <- <- <-]. split_and!; [lia|lia|constructor|constructor]. }
  destruct (IsAnonInput i) eqn:Hi.
  - intros (Hs & Hr & H1 & H2)%IH. split_and!; [lia|lia| |intros; lia]. intros E. constructor; auto.
  - destruct (IsSpent _); [done|]. destruct (check_maturity _ _ _) as [u|]; [|done]. cbn [rbind].
    destruct (fBitcoinCMode e && _); [done|]. destruct (negb _ || negb _); [done|]. rewrite Hm.
    intros (Hs & Hr & H1 & H2)%IH. split_and!; [lia|lia|intros; lia|]. intros E. constructor; auto.
Qed.

(** The inputs of an accepted transaction are there, and of one kind. *)
Lemma CheckTxInputs_inputs e tx v H r :
  fBitcoinCMode e = true → IsCoinBase tx = false → CheckTxInputs e tx v H = Ok r →
  Forall (λ i, IsAnonInput i = true ∨ HaveCoin v (prevout i) = true) (vin tx) ∧
  (Forall (λ i, IsAnonInput i = false) (vin tx) ∨ Forall (λ i, IsAnonInput i = true) (vin tx)).
Proof.
  intros Hm Hcb. unfold CheckTxInputs. destruct (_ && bool_decide _); [done|].
  destruct (HaveInputs v tx) eqn:Hhave; [|done]. cbn [negb].
  destruct (sum_inputs _ _ _ _ _ _ _) as [[[x ns] nr]|] eqn:Hsum; [|done]. cbn [rbind].
  destruct ((0 <? ns) && (0 <? nr)) eqn:Hmix; [done|]. intros _.
  apply (sum_inputs_counts _ _ _ _ _ _ _ _ _ _ Hm) in Hsum as (Hns & Hnr & H1 & H2). split.
  - unfold HaveInputs in Hhave. rewrite Hcb in Hhave. cbn [negb] in Hhave.
    rewrite forallb_forall in Hhave. apply Forall_forall. intros i Hi%list_elem_of_In.
    by apply orb_true_iff, Hhave.
  - apply andb_false_iff in Hmix as [?%Z.ltb_ge|?%Z.ltb_ge]; [right; apply H1|left; apply H2]; lia.
Qed.

(** The flags of the state tell whether anything is anonymous. *)
Lemma CheckTxInputs_flags e tx v H r :
  fBitcoinCMode e = true → CheckTxInputs e tx v H = Ok r →
  (fHasAnonInput r = false → Forall (λ i, IsAnonInput i = false) (vin tx)) ∧
  (fHasAnonOutput r = false → count_ringct (vpout tx) <= 0).
Proof.
  intros Hm. unfold CheckTxInputs. destruct (_ && bool_decide _); [done|].
  destruct (HaveInputs v tx); [|done]. cbn [negb].
  destruct (sum_inputs _ _ _ _ _ _ _) as [[[x ns] nr]|] eqn:Hsum; [|done]. cbn [rbind].
  destruct ((0 <? ns) && (0 <? nr)); [done|].
  apply (sum_inputs_counts _ _ _ _ _ _ _ _ _ _ Hm) in Hsum as (_ & Hnr & _ & H2).
  destruct (GetPlainValueOut tx ns nr) as [[[vo a] nr']|[]] eqn:Hout; [|done..].
  unfold GetPlainValueOut in Hout. apply sum_vpout_ringct in Hout as ->. cbn [sum_or_throw rbind]. rewrite Hm.
  assert (Hfl : ∀ fee, (fHasAnonInput (TxInputs fee (0 <? nr) (nr <? nr + count_ringct (vpout tx))) = false →
      Forall (λ i, IsAnonInput i = false) (vin tx)) ∧
    (fHasAnonOutput (TxInputs fee (0 <? nr) (nr <? nr + count_ringct (vpout tx))) = false →
      count_ringct (vpout tx) <= 0)).
  { intros fee. cbn. rewrite !Z.ltb_ge. split; [intros; apply H2|]; lia. }
  destruct (deref (Transaction.IsCoinStake tx)) as [cs|]; [|done]. cbn [rbind]. destruct cs; cbn [negb].
  - destruct (0 <? nr + count_ringct (vpout tx)); [done|]. intros [= <-]. apply Hfl.
  - intros (fee & _ & Hok)%rbind_Ok. apply rbind_Ok in Hok as (u & _ & Hok). injection Hok as <-. apply Hfl.
Qed.

Lemma CheckTxInputs_spec (e : env) (tx : CTransaction) (v : view) (H : Z) (r : tx_inputs) :
  fBitcoinCMode e = true → vin tx ≠ [] → plain_inputs tx → amounts_i64 v tx →
  Forall (λ o, is_ringct o = false) (vpout tx) →
  CheckTxInputs e tx v H = Ok r ↔
  inputs_good tx v H ∧ fHasAnonInput r = false ∧ fHasAnonOutput r = false ∧
  (if bool_decide (Transaction.IsCoinStake tx = Some true)
   then nTxFee r = plain_value_out tx - value_in v tx
   else value_in v tx = plain_value_out tx + nTxFee r ∧ 0 <= nTxFee r).
Proof.
  intros Hm Hv Hp Hi Hr. destruct (IsCoinStake_total tx (proj2 Hp)) as [cs Hcs].
  assert (Heq : inputs_good tx v H → CheckTxInputs e tx v H =
    if cs then Ok (TxInputs (plain_value_out tx - value_in v tx) false false)
    else if value_in v tx <? plain_value_out tx then reject 100 "bad-txns-in-belowout"
    else Ok (TxInputs (value_in v tx - plain_value_out tx) false false)).
  { intros Hg. rewrite (CheckTxInputs_eq e tx v H Hm Hv Hp Hi cs Hcs Hg).
    rewrite (count_ringct_none _ Hr). destruct cs; [done|]. cbn [Z.ltb Z.compare].
    destruct (Z.ltb_spec (value_in v tx) (plain_value_out tx)); [done|]. cbn [rbind].
    destruct Hg as (_ & [_ ?] & [?%sum_nonneg _]). fold (plain_value_out tx) in *.
    fold (value_in v tx) in *. by rewrite (proj2 (check_fee_spec _)) by lia. }
  split.
  - intros Hok. pose proof (CheckTxInputs_good e tx v H Hm Hv Hp Hi r Hok) as Hg. split; [done|].
    rewrite (Heq Hg) in Hok. rewrite Hcs.
    destruct cs; [by injection Hok as <-|]. rewrite bool_decide_false by done.
    destruct (Z.ltb_spec (value_in v tx) (plain_value_out tx)); [done|].
    injection Hok as <-. cbn [nTxFee fHasAnonInput fHasAnonOutput]. split_and!; done || lia.
  - intros (Hg & Hai & Hao & Hfee). rewrite (Heq Hg).
    destruct r as [fee ai ao]; cbn [nTxFee fHasAnonInput fHasAnonOutput] in *. subst ai ao.
    rewrite Hcs in Hfee. destruct cs; [by rewrite Hfee|].
    rewrite bool_decide_false in Hfee by done. destruct Hfee as [Hfee Hpos].
    destruct (Z.ltb_spec (value_in v tx) (plain_value_out tx)); [lia|].
    do 2 f_equal. lia.
Qed.

(** ** Properties *)

(** Relative lock times are those of BIP 68.  For a block with a parent and a
    transaction to which the rule applies, [SequenceLocks] ends with a verdict,
    and it is [true] exactly when every input is free of a lock, has waited its
    number of blocks, or has waited its multiple of 512 seconds, measured
    between median times. *)
Theorem SequenceLocks_exact (h : heap) (block q : ptr) (b : CBlockIndex) (tx : CTransaction)
    (flags : Z) (prevHeights : list Z) :
  tree_ok h → map_Forall (λ _ b, 0 <= nTime b) h → h !! block = Some b → pprev b = Some q →
  nHeight b < 2 ^ 31 - 2 ^ 16 → length prevHeights = length (vin tx) →
  Forall (λ c, 0 <= c <= nHeight b) prevHeights →
  2 <= u32 (Transaction.nVersion tx) → has flags LOCKTIME_VERIFY_SEQUENCE = true →
  ∃ mtp r, GetMedianTimePast h q = Some mtp ∧ SequenceLocks tx flags prevHeights h block = Some r ∧
    (r = true ↔
     Forall (lock_satisfied h block (nHeight b) mtp) (zip (vin tx) prevHeights)).
Proof. apply SequenceLocks_spec. Qed.

(** C2: money in the clear is conserved.  A transaction without anonymous inputs
    and without confidential outputs passes [CheckTxInputs] exactly when all its
    coins are there, standard and mature, all amounts and both totals are in
    range, and its inputs cover its outputs; the fee reported is then exactly the
    difference, or, in a coinstake, what the outputs exceed the inputs by. *)
Theorem CheckTxInputs_exact (e : env) (tx : CTransaction) (v : view) (H : Z) (r : tx_inputs) :
  fBitcoinCMode e = true → vin tx ≠ [] → plain_inputs tx → amounts_i64 v tx →
  Forall (λ o, is_ringct o = false) (vpout tx) →
  CheckTxInputs e tx v H = Ok r ↔
  inputs_good tx v H ∧ fHasAnonInput r = false ∧ fHasAnonOutput r = false ∧
  (if bool_decide (Transaction.IsCoinStake tx = Some true)
   then nTxFee r = plain_value_out tx - value_in v tx
   else value_in v tx = plain_value_out tx + nTxFee r ∧ 0 <= nTxFee r).
Proof. apply CheckTxInputs_spec. Qed.

(** C19: a conversion into confidential outputs is not balanced.  When the inputs are
    in the clear and an output is confidential, [CheckTxInputs] accepts whatever
    the inputs are worth and whatever the outputs add up to: only the declared
    fee is looked at. *)
Theorem conversion_unbalanced (e : env) (tx : CTransaction) (v : view) (H fee : Z) :
  fBitcoinCMode e = true → vin tx ≠ [] → plain_inputs tx → amounts_i64 v tx →
  inputs_good tx v H → 0 < count_ringct (vpout tx) →
  Transaction.IsCoinStake tx = Some false → GetCTFee tx 0 = Some (Some fee) →
  0 <= fee <= MAX_MONEY →
  CheckTxInputs e tx v H = Ok (TxInputs fee false true).
Proof.
  intros Hm Hv Hp Hi Hg Hc Hcs Hfee Hr. rewrite (CheckTxInputs_eq e tx v H Hm Hv Hp Hi false Hcs Hg).
  apply Z.ltb_lt in Hc as ->. rewrite Hfee. cbn [deref rbind].
  by rewrite (proj2 (check_fee_spec fee) Hr).
Qed.

(** C18: what [CheckTransaction] accepts is well formed.  It has inputs and outputs
    of the program's own format, its stripped serialization is within the block
    weight, the amounts in the clear and their total are in range, data outputs
    are small and at most one more than the standard ones, no outpoint is spent
    twice, and the null outpoint only occurs in a coinbase, whose script has
    2 to 150 bytes. *)
Theorem CheckTransaction_sound (e : env) (tx : CTransaction) :
  fBitcoinCMode e = true → CheckTransaction e tx true = Ok tt →
  Transaction.IsBitcoinCVersion tx = true ∧ vin tx ≠ [] ∧ vout tx = [] ∧ vpout tx ≠ [] ∧
  (∃ b, SerializeTransaction false tx = Some b ∧ size b * WITNESS_SCALE_FACTOR e <= MAX_BLOCK_WEIGHT) ∧
  Forall is_Some (vpout tx) ∧ amounts_ok 0 (plain_values (vpout tx)) ∧
  Forall data_size_ok (vpout tx) ∧
  count_outputs OUTPUT_DATA (vpout tx) <= 1 + count_outputs OUTPUT_STANDARD (vpout tx) ∧
  NoDup (spent_outpoints (vin tx)) ∧
  (if IsCoinBase tx then ∃ i, vin tx = [i] ∧ 2 <= size (scriptSig i) <= 150
   else Forall (λ o, COutPoint_IsNull o = false) (spent_outpoints (vin tx))).
Proof.
  intros Hm H. unfold CheckTransaction in H. destruct (vin tx) as [|i0 ins] eqn:Hvin; [done|].
  rewrite <- Hvin in H |- *. apply rbind_Ok in H as (b & Hb & H).
  destruct (SerializeTransaction false tx) as [b'|] eqn:Hser; [|done]. injection Hb as <-.
  destruct (Z.ltb_spec MAX_BLOCK_WEIGHT (size b' * WITNESS_SCALE_FACTOR e)); [done|].
  apply rbind_Ok in H as ([] & Houts & H). rewrite Hm in Houts.
  destruct (Transaction.IsBitcoinCVersion tx); [|done].
  destruct (bool_decide (vpout tx = [])) eqn:Hvp; [done|]. apply bool_decide_eq_false in Hvp.
  destruct (bool_decide (vout tx = [])) eqn:Hvo; [apply bool_decide_eq_true in Hvo|done].
  cbn [negb] in Houts. apply rbind_Ok in Houts as (hs & _ & Houts).
  apply rbind_Ok in Houts as ([[n ns] nd] & Hcheck & Houts).
  apply check_vpout_sound in Hcheck as (Hs & Hok & Hd & -> & ->); [|apply zero_amount].
  destruct (Z.ltb_spec (1 + (0 + count_outputs OUTPUT_STANDARD (vpout tx)))
              (0 + count_outputs OUTPUT_DATA (vpout tx))); [done|].
  apply rbind_Ok in H as ([] & Hdup & H). apply check_duplicates_spec in Hdup as [Hnd _].
  split_and!; try first [done | by rewrite Hvin | by exists b' | lia].
  by apply (final_checks tx i0 ins Hvin).
Qed.

(** An output of an accepted transaction is signed for by the owner of its staking
    key.  Outside a coinbase, a standard output without the cold-staking
    operator pays a known kind of key, which is the development fund's, or its
    signature over the key, the amount and the inputs recovers a public key with
    that hash (or a key with the hash zero, over the zero message). *)
Theorem staking_output_authorised (e : env) (nTime : Z) (tx : CTransaction) (value : Z)
    (script vecSignature : bytes) (nValueOut n' : Z) :
  IsCoinBase tx = false → HasIsCoinstakeOp script = false →
  CheckStandardOutput e nTime tx value script vecSignature nValueOut = Ok n' →
  ∃ keyId, ExtractStakingKeyID e script = Some keyId ∧
    (DevFundKeyID e nTime = Some (Some keyId) ∨
     ∃ m, SignatureHashStakingOutput e keyId value (vin tx) = Ok m ∧
          (recovered_id e (RecoverCompact e m vecSignature) = keyId ∨
           recovered_id e (RecoverCompact e uint256_zero vecSignature) = uint160_zero)).
Proof.
  intros Hcb Hop H. unfold CheckStandardOutput in H. apply rbind_Ok in H as (n1 & _ & H).
  destruct (_ <? _); [done|]. rewrite Hop, Hcb in H. cbn [andb] in H.
  apply rbind_Ok in H as (keys & Hk & H). unfold staking_keys in Hk.
  destruct (ExtractStakingKeyID e script) as [keyId|]; [|done]. exists keyId. split; [done|].
  apply rbind_Ok in Hk as (dev & Hdev & Hk).
  destruct (DevFundKeyID e nTime) as [dev'|]; [|done]. injection Hdev as ->.
  destruct (bool_decide (dev = Some keyId)) eqn:Ed.
  { apply bool_decide_eq_true in Ed as ->. by left. }
  right. apply rbind_Ok in Hk as (m & Hm & [= <-]). exists m. split; [done|].
  destruct (_ && _); [done|].
  destruct (bool_decide (recovered_id e (RecoverCompact e m vecSignature) = keyId)) eqn:E1.
  { apply bool_decide_eq_true in E1. by left. }
  destruct (bool_decide (recovered_id e (RecoverCompact e uint256_zero vecSignature) = uint160_zero)) eqn:E2.
  { apply bool_decide_eq_true in E2. by right. }
  done.
Qed.

(** ** Concrete transactions *)

Definition toy_key : bytes := replicate 20 7.
Definition toy_script : bytes := [0x76; 0xa9; 20] ++ toy_key ++ [0x88; 0xac].

Definition toy_env : env :=
  Env true 4 5000 100 true (λ _, Some None) (Crypto id id id (λ _, true)) id
    (λ _ _ _ h, Some (take (if at_ h 0 =? 7 then 20%nat else 33%nat) h)) (λ _ _ _, true) false false true.

Definition toy_view : view := λ o,
  if bool_decide (o = OutPoint (replicate 32 1) 0)
  then Some (MkCoin (TxOut 50 toy_script) true 6 OUTPUT_STANDARD) else None.

(** Fifty units in: forty out, and then any amount next to a confidential
    output. *)
Definition payment (outs : list CTxOutBase) : CTransaction :=
  Transaction 0xA0
    [TxIn (OutPoint (replicate 32 1) 0) [] (2 ^ 22) [] []] [] (Some <$> outs) 0.
Definition pay_out (v : Z) : CTxOutBase := CTxOutStandard v toy_script (replicate 65 9).
Definition pay : CTransaction := payment [pay_out 40].
Definition convert : CTransaction :=
  payment [CTxOutData [DO_FEE; 0]; pay_out MAX_MONEY;
           CTxOutRingCT (replicate 33 2) (replicate 33 8) (replicate 33 1) [6; 6] (replicate 65 9)].

Lemma SequenceLocks_exact_witness :
  ∃ mtp r, GetMedianTimePast sample_heap 2%positive = Some mtp ∧
    SequenceLocks pay LOCKTIME_VERIFY_SEQUENCE [1] sample_heap 4%positive = Some r ∧
    (r = true ↔ Forall (lock_satisfied sample_heap 4%positive (nHeight sample_block) mtp)
                  (zip (vin pay) [1])).
Proof.
  apply (SequenceLocks_exact sample_heap 4%positive 2%positive sample_block pay
           LOCKTIME_VERIFY_SEQUENCE [1]).
  - apply sample_tree_ok.
  - by_eval.
  - apply sample_lookup.
  - by_eval.
  - by_eval.
  - reflexivity.
  - by_eval.
  - by_eval.
  - reflexivity.
Defined.

Lemma pay_good outs :
  bool_decide (amounts_ok 0 (plain_values (Some <$> outs))) = true →
  inputs_good (payment outs) toy_view 9.
Proof.
  intros H. split_and!; [|split; by_eval|by apply bool_decide_eq_true in H].
  constructor; [|constructor]. split_and!; [reflexivity|reflexivity|]. intros _. by_eval.
Qed.

Lemma CheckTxInputs_exact_witness : CheckTxInputs toy_env pay toy_view 9 = Ok (TxInputs 10 false false).
Proof.
  apply (CheckTxInputs_exact toy_env pay toy_view 9 (TxInputs 10 false false)).
  - reflexivity.
  - discriminate.
  - by_eval.
  - by_eval.
  - by_eval.
  - split; [apply pay_good; reflexivity|]. by_eval.
Defined.

(** Fifty units in, the whole money supply out. *)
Lemma conversion_unbalanced_witness :
  value_in toy_view convert = 50 ∧ plain_value_out convert = MAX_MONEY ∧
  CheckTransaction toy_env convert true = Ok tt ∧
  CheckTxInputs toy_env convert toy_view 9 = Ok (TxInputs 0 false true).
Proof.
  do 2 (split; [reflexivity|]). split; [vm_compute; reflexivity|].
  apply (conversion_unbalanced toy_env convert toy_view 9 0).
  - reflexivity.
  - discriminate.
  - by_eval.
  - by_eval.
  - apply pay_good. reflexivity.
  - by_eval.
  - reflexivity.
  - reflexivity.
  - by_eval.
Defined.

Lemma CheckTransaction_sound_witness :
  CheckTransaction toy_env pay true = Ok tt ∧ NoDup (spent_outpoints (vin pay)).
Proof.
  split; [vm_compute; reflexivity|].
  apply (CheckTransaction_sound toy_env pay).
  - reflexivity.
  - vm_compute. reflexivity.
Defined.

Lemma staking_output_authorised_witness :
  ∃ keyId, ExtractStakingKeyID toy_env toy_script = Some keyId ∧
    (DevFundKeyID toy_env 0 = Some (Some keyId) ∨
     ∃ m, SignatureHashStakingOutput toy_env keyId 40 (vin pay) = Ok m ∧
          (recovered_id toy_env (RecoverCompact toy_env m (replicate 65 9)) = keyId ∨
           recovered_id toy_env (RecoverCompact toy_env uint256_zero (replicate 65 9)) = uint160_zero)).
Proof.
  apply (staking_output_authorised toy_env 0 pay 40 toy_script (replicate 65 9) 0 40).
  - reflexivity.
  - vm_compute. reflexivity.
  - vm_compute. reflexivity.
Defined.
