(* ===== verification/SigHash.v ===== *)
(** Signature hashes and the checker of a transaction, after the end of
    [src/src/script/interpreter.cpp]: what a signature covers, and the two opcodes
    that check lock times.

    The double SHA-256 ([CHashWriter::GetHash]) is the parameter [H] and
    [CPubKey::Verify] the parameter [Verify].  [None] is a failed assertion or the
    dereference of a null output. *)
From stdpp Require Import gmap.
From S2P Require Import Prelude Serialize Script Interpreter Transaction Chain TxVerify.
Open Scope Z_scope.

(** ** The parts of the hash *)

Definition GetPrevoutHash (H : bytes → bytes) (txTo : CTransaction) : bytes :=
  H (flat_map (λ i, c_ser c_COutPoint (prevout i)) (vin txTo)).

Definition GetSequenceHash (H : bytes → bytes) (txTo : CTransaction) : bytes :=
  H (flat_map (λ i, c_ser c_u32 (nSequence i)) (vin txTo)).

(** [ss << *txTo.vpout[n]] for every output: the fields, without the type. *)
Fixpoint ser_outputs (l : list (option CTxOutBase)) : option bytes :=
  match l with
  | [] => Some []
  | o :: l' =>
      o ← o;
      b ← ser_outputs l';
      Some (ser_output true o ++ b)
  end.

Definition all_outputs (txTo : CTransaction) : option bytes :=
  if Transaction.IsBitcoinCVersion txTo then ser_outputs (vpout txTo)
  else Some (flat_map (c_ser c_CTxOut) (vout txTo)).

Definition GetOutputsHash (H : bytes → bytes) (txTo : CTransaction) : option bytes :=
  H <$> all_outputs txTo.

(** [txTo.vpout[nIn]] or [txTo.vout[nIn]], serialized. *)
Definition one_output (txTo : CTransaction) (nIn : nat) : option bytes :=
  if Transaction.IsBitcoinCVersion txTo then
    o ← vpout txTo !! nIn;
    o ← o;
    Some (ser_output true o)
  else c_ser c_CTxOut <$> vout txTo !! nIn.

(** [PrecomputedTransactionData]; the constructor only fills it in for
    transactions with a witness. *)
Record PrecomputedTransactionData := Precomputed {
  hashPrevouts : bytes;
  hashSequence : bytes;
  hashOutputs : bytes;
  ready : bool
}.

Definition precompute (H : bytes → bytes) (txTo : CTransaction) : option PrecomputedTransactionData :=
  if HasWitness txTo then
    o ← GetOutputsHash H txTo;
    Some (Precomputed (GetPrevoutHash H txTo) (GetSequenceHash H txTo) o true)
  else Some (Precomputed uint256_zero uint256_zero uint256_zero false).

(** ** The original format *)

(** The loop that counts the separators; an instruction takes a byte or more. *)
Fixpoint count_separators (fuel : nat) (it : bytes) (nCodeSeparators : Z) : Z :=
  let d := GetScriptOp it in
  match fuel with
  | S f =>
      if d_ok d then
        count_separators f (d_pc d) (if op_eqb (d_opcode d) OP_CODESEPARATOR then nCodeSeparators + 1
                                     else nCodeSeparators)
      else nCodeSeparators
  | O => nCodeSeparators
  end.

(** The loop that writes what lies between separators.  The iterators [it] and
    [itBegin] are the bytes from there on. *)
Fixpoint write_segments (fuel : nat) (it itBegin : bytes) (out : bytes) : bytes :=
  let d := GetScriptOp it in
  let stop := if bool_decide (itBegin = []) then out
              else out ++ take (length itBegin - length (d_pc d)) itBegin in
  match fuel with
  | S f =>
      if d_ok d then
        if op_eqb (d_opcode d) OP_CODESEPARATOR
        then write_segments f (d_pc d) (d_pc d) (out ++ take (length itBegin - length (d_pc d) - 1) itBegin)
        else write_segments f (d_pc d) itBegin out
      else stop
  | O => stop
  end.

Definition SerializeScriptCode (scriptCode : bytes) : bytes :=
  WriteCompactSize (Z.of_nat (length scriptCode) - count_separators (length scriptCode) scriptCode 0)
  ++ write_segments (length scriptCode) scriptCode scriptCode [].

Section Serializer.
Context (txTo : CTransaction) (scriptCode : bytes) (nIn : nat) (nHashType : Z).

Definition fAnyoneCanPay : bool := has nHashType SIGHASH_ANYONECANPAY.
Definition fHashSingle : bool := Z.land nHashType 0x1f =? SIGHASH_SINGLE.
Definition fHashNone : bool := Z.land nHashType 0x1f =? SIGHASH_NONE.

Definition SerializeInput (nInput : nat) : option bytes :=
  let nInput := if fAnyoneCanPay then nIn else nInput in
  let other := negb (bool_decide (nInput = nIn)) in
  i ← vin txTo !! nInput;
  Some (c_ser c_COutPoint (prevout i)
        ++ (if other then Serialize_blob [] else SerializeScriptCode scriptCode)
        ++ c_ser c_u32 (if other && (fHashSingle || fHashNone) then 0 else nSequence i)).

Definition SerializeOutput (nOutput : nat) : option bytes :=
  if fHashSingle && negb (bool_decide (nOutput = nIn)) then Some (c_ser c_CTxOut (TxOut (-1) []))
  else one_output txTo nOutput.

Definition signature_serializer : option bytes :=
  let nInputs := if fAnyoneCanPay then 1%nat else length (vin txTo) in
  let nOutputs := if fHashNone then 0%nat else if fHashSingle then S nIn else GetNumVOuts txTo in
  ins ← mapM SerializeInput (seq 0 nInputs);
  outs ← mapM SerializeOutput (seq 0 nOutputs);
  Some (c_ser c_i32 (Transaction.nVersion txTo) ++ WriteCompactSize (Z.of_nat nInputs) ++ concat ins
        ++ WriteCompactSize (Z.of_nat nOutputs) ++ concat outs ++ c_ser c_u32 (nLockTime txTo)).

End Serializer.

(** ** The hash *)

#[global] Instance SigVersion_eq_dec : EqDecision SigVersion.
Proof. solve_decision. Defined.

Definition uint256_one : bytes := 1 :: replicate 31 0.

(** The first form: fields that the type of the hash leaves out are zero. *)
Definition segwit_preimage (H : bytes → bytes) (scriptCode : bytes) (txTo : CTransaction) (nIn : nat)
    (nHashType : Z) (amount : bytes) (cache : option PrecomputedTransactionData) : option bytes :=
  let cached (f : PrecomputedTransactionData → bytes) :=
    match cache with Some c => if ready c then Some (f c) else None | None => None end in
  let acp := fAnyoneCanPay nHashType in
  let single := fHashSingle nHashType in
  let none := fHashNone nHashType in
  i ← vin txTo !! nIn;
  let prevouts := if negb acp then default (GetPrevoutHash H txTo) (cached hashPrevouts)
                  else uint256_zero in
  let sequence := if negb acp && negb single && negb none
                  then default (GetSequenceHash H txTo) (cached hashSequence) else uint256_zero in
  outputs ←
    (if negb single && negb none then
       match cached hashOutputs with Some o => Some o | None => GetOutputsHash H txTo end
     else if single && bool_decide (nIn < GetNumVOuts txTo)%nat then H <$> one_output txTo nIn
     else Some uint256_zero);
  Some (c_ser c_i32 (Transaction.nVersion txTo) ++ prevouts ++ sequence ++ c_ser c_COutPoint (prevout i)
        ++ Serialize_blob scriptCode ++ amount ++ c_ser c_u32 (nSequence i) ++ outputs
        ++ c_ser c_u32 (nLockTime txTo) ++ c_ser c_i32 nHashType).

Definition SignatureHash (H : bytes → bytes) (scriptCode : bytes) (txTo : CTransaction) (nIn : nat)
    (nHashType : Z) (amount : bytes) (sigversion : SigVersion)
    (cache : option PrecomputedTransactionData) : option bytes :=
  if negb (bool_decide (nIn < length (vin txTo))%nat) then None
  else if bool_decide (sigversion = WITNESS_V0) || Transaction.IsBitcoinCVersion txTo then
    H <$> segwit_preimage H scriptCode txTo nIn nHashType amount cache
  else if fHashSingle nHashType && bool_decide (GetNumVOuts txTo <= nIn)%nat then Some uint256_one
  else
    s ← signature_serializer txTo scriptCode nIn nHashType;
    Some (H (s ++ c_ser c_i32 nHashType)).

(** ** The checker *)

(** [CPubKey::GetLen] and [CPubKey::IsValid] after [CPubKey::Set]. *)
Definition GetLen (chHeader : Z) : Z :=
  if (chHeader =? 2) || (chHeader =? 3) then 33
  else if (chHeader =? 4) || (chHeader =? 6) || (chHeader =? 7) then 65 else 0.
Definition pubkey_valid (vch : bytes) : bool :=
  negb (bool_decide (vch = [])) && negb (GetLen (at_ vch 0) =? 0) && (GetLen (at_ vch 0) =? size vch).

Section Checker.
Context (H : bytes → bytes) (Verify : bytes → bytes → bytes → bool).
Context (txTo : CTransaction) (nIn : nat) (amount : bytes) (txdata : option PrecomputedTransactionData).

Definition tx_CheckSig (vchSigIn vchPubKey scriptCode : bytes) (sigversion : SigVersion) : option bool :=
  if negb (pubkey_valid vchPubKey) then Some false
  else
    match last vchSigIn with
    | None => Some false
    | Some nHashType =>
        sighash ← SignatureHash H scriptCode txTo nIn nHashType amount sigversion txdata;
        Some (Verify vchPubKey sighash (removelast vchSigIn))
    end.

Definition tx_CheckLockTime (n : Z) : option bool :=
  if negb (((nLockTime txTo <? LOCKTIME_THRESHOLD) && (n <? LOCKTIME_THRESHOLD))
           || ((LOCKTIME_THRESHOLD <=? nLockTime txTo) && (LOCKTIME_THRESHOLD <=? n))) then Some false
  else if nLockTime txTo <? n then Some false
  else
    i ← vin txTo !! nIn;
    Some (negb (SEQUENCE_FINAL =? nSequence i)).

Definition nLockTimeMask : Z := Z.lor SEQUENCE_LOCKTIME_TYPE_FLAG SEQUENCE_LOCKTIME_MASK.

Definition tx_CheckSequence (n : Z) : option bool :=
  i ← vin txTo !! nIn;
  let txToSequence := nSequence i in
  Some
    (if u32 (Transaction.nVersion txTo) <? 2 then false
     else if has txToSequence SEQUENCE_LOCKTIME_DISABLE_FLAG then false
     else
       let txToSequenceMasked := Z.land txToSequence nLockTimeMask in
       let nSequenceMasked := Z.land n nLockTimeMask in
       if negb (((txToSequenceMasked <? SEQUENCE_LOCKTIME_TYPE_FLAG)
                 && (nSequenceMasked <? SEQUENCE_LOCKTIME_TYPE_FLAG))
                || ((SEQUENCE_LOCKTIME_TYPE_FLAG <=? txToSequenceMasked)
                    && (SEQUENCE_LOCKTIME_TYPE_FLAG <=? nSequenceMasked))) then false
       else if txToSequenceMasked <? nSequenceMasked then false
       else true).

(** [TransactionSignatureChecker] as a checker of the interpreter.  For an input of
    the transaction, and outputs that are not null, none of the defaults applies. *)
Definition TransactionSignatureChecker : checker :=
  Interpreter.Checker
    (λ sig key code version, default false (tx_CheckSig sig key code version))
    (λ n, default false (tx_CheckLockTime n))
    (λ n, default false (tx_CheckSequence n))
    (default false (Transaction.IsCoinStake txTo))
    (Transaction.IsBitcoinCVersion txTo).

End Checker.

(** ** What a signature covers *)

(** The parts of a spend that a signature of a type covers; [None] where the type
    leaves a part out. *)
Record signed := Signed {
  s_version : Z;
  s_prevouts : option (list COutPoint);
  s_sequences : option (list Z);
  s_prevout : COutPoint;
  s_scriptCode : bytes;
  s_amount : bytes;
  s_sequence : Z;
  s_outputs : option bytes;
  s_lockTime : Z;
  s_type : Z
}.

Definition signed_part (scriptCode : bytes) (txTo : CTransaction) (nIn : nat) (nHashType : Z)
    (amount : bytes) : option signed :=
  let acp := fAnyoneCanPay nHashType in
  let single := fHashSingle nHashType in
  let none := fHashNone nHashType in
  i ← vin txTo !! nIn;
  outs ← (if negb single && negb none then Some <$> all_outputs txTo
          else if single && bool_decide (nIn < GetNumVOuts txTo)%nat then Some <$> one_output txTo nIn
          else Some None);
  Some (Signed (Transaction.nVersion txTo)
          (if negb acp then Some (map prevout (vin txTo)) else None)
          (if negb acp && negb single && negb none then Some (map nSequence (vin txTo)) else None)
          (prevout i) scriptCode amount (nSequence i) outs (nLockTime txTo) nHashType).

Section Commitment.
Context (H : bytes → bytes) (Hash_length : ∀ x, length (H x) = 32%nat).

(** Two strings with the same hash, or a string with the hash zero. *)
Definition hash_broken : Prop :=
  (∃ x y : bytes, x ≠ y ∧ H x = H y) ∨ ∃ x, H x = uint256_zero.

Lemma hash_inj x y : H x = H y → x = y ∨ hash_broken.
Proof. intros E. destruct (decide (x = y)); [by left|]. right. left. by exists x, y. Qed.

Lemma codec_app_inj {A} (c : codec A) `{!CodecOk c} a b r r' :
  c_dom c a → c_dom c b → c_ser c a ++ r = c_ser c b ++ r' → a = b ∧ r = r'.
Proof.
  intros Ha Hb E. pose proof (codec_roundtrip a r Ha) as E1. rewrite E in E1.
  rewrite codec_roundtrip in E1 by done. injection E1 as -> ->. done.
Qed.

Lemma codec_list_inj {A} (c : codec A) `{!CodecOk c} l l' :
  (∀ a, c_dom c a → c_ser c a ≠ []) → Forall (c_dom c) l → Forall (c_dom c) l' →
  flat_map (c_ser c) l = flat_map (c_ser c) l' → l = l'.
Proof.
  intros Hne Hl. revert l'. induction Hl as [|a l Ha _ IH]; intros l' Hl' E;
    destruct Hl' as [|a' l' Ha' Hl']; cbn [flat_map] in *; [done|..].
  - symmetry in E. apply app_eq_nil in E as [E _]. by apply Hne in E.
  - apply app_eq_nil in E as [E _]. by apply Hne in E.
  - apply codec_app_inj in E as [-> E]; [|done..]. f_equal. by apply IH.
Qed.

Lemma outpoint_nonempty o : c_dom c_COutPoint o → c_ser c_COutPoint o ≠ [].
Proof.
  intros [[Ho _] _] E. change (hash o ++ le_bytes 4 (Transaction.n o) = []) in E.
  apply app_eq_nil in E as [E _]. cbn in Ho. by rewrite E in Ho.
Qed.

(** What a transaction must be for its fields to be told apart: of the widths of
    the source. *)
Definition signable (tx : CTransaction) : Prop :=
  is_i32 (Transaction.nVersion tx) ∧ is_u32 (nLockTime tx) ∧
  Forall (λ i, c_dom c_COutPoint (prevout i) ∧ is_u32 (nSequence i)) (vin tx).

(** The three optional hashes, apart from the rest. *)
Definition opt_hash (o : option bytes) : bytes := match o with Some x => H x | None => uint256_zero end.

Lemma opt_hash_inj o o' : opt_hash o = opt_hash o' → o = o' ∨ hash_broken.
Proof.
  destruct o as [x|], o' as [y|]; cbn; intros E; [|right; right; by eexists..|by left].
  destruct (hash_inj x y E) as [->|]; auto.
Qed.

Lemma opt_hash_length o : length (opt_hash o) = 32%nat.
Proof using Hash_length. destruct o; [apply Hash_length|done]. Qed.

(** The string that is hashed, by what is signed. *)
Definition preimage_of (p : signed) : bytes :=
  c_ser c_i32 (s_version p) ++ opt_hash (flat_map (c_ser c_COutPoint) <$> s_prevouts p)
  ++ opt_hash (flat_map (c_ser c_u32) <$> s_sequences p)
  ++ c_ser c_COutPoint (s_prevout p) ++ c_ser c_blob (s_scriptCode p) ++ s_amount p
  ++ c_ser c_u32 (s_sequence p) ++ opt_hash (s_outputs p) ++ c_ser c_u32 (s_lockTime p)
  ++ c_ser c_i32 (s_type p).

Lemma flat_map_map {A B} (f : A → B) (g : B → bytes) l : flat_map (λ a, g (f a)) l = flat_map g (map f l).
Proof. induction l as [|a l IH]; [done|]. cbn. by rewrite IH. Qed.

Lemma segwit_preimage_spec sc tx nIn ht amount :
  segwit_preimage H sc tx nIn ht amount None = preimage_of <$> signed_part sc tx nIn ht amount.
Proof.
  unfold segwit_preimage, signed_part, GetOutputsHash, GetPrevoutHash, GetSequenceHash. cbv zeta.
  cbn [default]. rewrite (flat_map_map prevout (c_ser c_COutPoint)), (flat_map_map nSequence (c_ser c_u32)).
  destruct (vin tx !! nIn) as [i|]; [|done]. cbn [mbind option_bind].
  destruct (fAnyoneCanPay ht), (fHashSingle ht), (fHashNone ht); cbn [negb andb];
    try (destruct (bool_decide _)); try (by destruct (all_outputs tx));
    try (by destruct (one_output tx nIn)); done.
Qed.

Definition signed_dom (p : signed) : Prop :=
  is_i32 (s_version p) ∧ from_option (Forall (c_dom c_COutPoint)) True (s_prevouts p) ∧
  from_option (Forall is_u32) True (s_sequences p) ∧ c_dom c_COutPoint (s_prevout p) ∧
  c_dom c_blob (s_scriptCode p) ∧ is_u32 (s_sequence p) ∧ is_u32 (s_lockTime p) ∧ is_i32 (s_type p).

Lemma signed_part_dom sc tx nIn ht am p :
  signable tx → c_dom c_blob sc → is_i32 ht → signed_part sc tx nIn ht am = Some p → signed_dom p.
Proof.
  intros (Hv & Hl & Hi) Hsc Ht E. unfold signed_part in E.
  destruct (vin tx !! nIn) as [i|] eqn:Hin; [|done]. cbn [mbind option_bind] in E.
  destruct (if negb _ && negb _ then _ else _) as [outs|]; [|done]. injection E as <-.
  pose proof (Forall_lookup_1 _ _ _ _ Hi Hin) as [Ho Hq].
  unfold signed_dom. cbn [s_version s_prevouts s_sequences s_prevout s_scriptCode s_sequence s_lockTime s_type].
  split_and!; try done.
  - destruct (negb _); [|done]. apply Forall_map. eapply Forall_impl; [exact Hi|]. by intros ? [? _].
  - destruct (_ && _); [|done]. apply Forall_map. eapply Forall_impl; [exact Hi|]. by intros ? [_ ?].
Qed.

(** Equal strings have equal fields. *)
Lemma fields_inj (v v' : Z) (P P' S S' : bytes) (o o' : COutPoint) (sc sc' am am' : bytes) (q q' : Z)
    (O O' : bytes) (t t' k k' : Z) :
  is_i32 v → is_i32 v' → length P = length P' → length S = length S' →
  c_dom c_COutPoint o → c_dom c_COutPoint o' → c_dom c_blob sc → c_dom c_blob sc' →
  is_u32 q → is_u32 q' → length O = length O' → is_u32 t → is_u32 t' → is_i32 k → is_i32 k' →
  c_ser c_i32 v ++ P ++ S ++ c_ser c_COutPoint o ++ c_ser c_blob sc ++ am ++ c_ser c_u32 q ++ O
    ++ c_ser c_u32 t ++ c_ser c_i32 k
  = c_ser c_i32 v' ++ P' ++ S' ++ c_ser c_COutPoint o' ++ c_ser c_blob sc' ++ am' ++ c_ser c_u32 q' ++ O'
    ++ c_ser c_u32 t' ++ c_ser c_i32 k' →
  v = v' ∧ P = P' ∧ S = S' ∧ o = o' ∧ sc = sc' ∧ am = am' ∧ q = q' ∧ O = O' ∧ t = t' ∧ k = k'.
Proof.
  intros Hv Hv' HP HS Ho Ho' Hsc Hsc' Hq Hq' HO Ht Ht' Hk Hk' E.
  apply (codec_app_inj c_i32) in E as [-> E]; [|done..].
  apply app_inj_1 in E as [-> E]; [|done]. apply app_inj_1 in E as [-> E]; [|done].
  apply (codec_app_inj c_COutPoint) in E as [-> E]; [|done..].
  apply (codec_app_inj c_blob) in E as [-> E]; [|done..].
  apply app_inj_2 in E as [-> E].
  2:{ rewrite !length_app, HO. done. }
  apply (codec_app_inj c_u32) in E as [-> E]; [|done..]. apply app_inj_1 in E as [-> E]; [|done].
  apply (codec_app_inj c_u32) in E as [-> E]; [|done..].
  rewrite <- (app_nil_r (c_ser c_i32 k)), <- (app_nil_r (c_ser c_i32 k')) in E.
  apply (codec_app_inj c_i32) in E as [-> _]; done.
Qed.

Lemma opt_list_inj {A} (c : codec A) `{!CodecOk c} (o o' : option (list A)) :
  (∀ a, c_dom c a → c_ser c a ≠ []) → from_option (Forall (c_dom c)) True o →
  from_option (Forall (c_dom c)) True o' →
  opt_hash (flat_map (c_ser c) <$> o) = opt_hash (flat_map (c_ser c) <$> o') → o = o' ∨ hash_broken.
Proof.
  intros Hne Ho Ho' E. apply opt_hash_inj in E as [E|]; [|by right].
  destruct o as [l|], o' as [l'|]; try done; [|by left]. injection E as E. left. f_equal.
  by apply (codec_list_inj c).
Qed.

Lemma preimage_inj p p' :
  signed_dom p → signed_dom p' → H (preimage_of p) = H (preimage_of p') → p = p' ∨ hash_broken.
Proof using Hash_length.
  intros (Hv & HP & HS & Ho & Hsc & Hq & Hl & Ht) (Hv' & HP' & HS' & Ho' & Hsc' & Hq' & Hl' & Ht') E.
  apply hash_inj in E as [E|]; [|by right].
  apply fields_inj in E as (Ev & EP & ES & Eo & Esc & Ea & Eq & EO & El & Et);
    rewrite ?opt_hash_length; try done.
  apply opt_hash_inj in EO as [EO|]; [|by right].
  apply (opt_list_inj c_COutPoint) in EP as [EP|]; [|by right|apply outpoint_nonempty|done|done].
  apply (opt_list_inj c_u32) in ES as [ES|]; [|by right|done|done|done].
  left. destruct p, p'. cbn in *. congruence.
Qed.

Lemma SignatureHash_of_part sc tx nIn ht am sv p :
  sv = WITNESS_V0 ∨ Transaction.IsBitcoinCVersion tx = true → signed_part sc tx nIn ht am = Some p →
  SignatureHash H sc tx nIn ht am sv None = Some (H (preimage_of p)).
Proof.
  intros Hf Ep. unfold SignatureHash. rewrite segwit_preimage_spec, Ep. cbn [fmap option_fmap option_map].
  rewrite bool_decide_true.
  - cbn [negb]. replace (_ || _) with true; [done|].
    destruct Hf as [-> | ->]; [done|by rewrite orb_true_r].
  - unfold signed_part in Ep. destruct (vin tx !! nIn) eqn:E; [|done]. by eapply lookup_lt_Some.
Qed.

Lemma SignatureHash_new sc tx nIn ht am sv h :
  sv = WITNESS_V0 ∨ Transaction.IsBitcoinCVersion tx = true →
  SignatureHash H sc tx nIn ht am sv None = Some h →
  ∃ p, signed_part sc tx nIn ht am = Some p ∧ H (preimage_of p) = h.
Proof.
  intros Hf E. destruct (signed_part sc tx nIn ht am) as [p|] eqn:Ep.
  - rewrite (SignatureHash_of_part _ _ _ _ _ _ _ Hf Ep) in E. injection E as <-. by exists p.
  - unfold SignatureHash in E. destruct (negb _); [done|].
    replace (_ || _) with true in E by (destruct Hf as [-> | ->]; [done|by rewrite orb_true_r]).
    by rewrite segwit_preimage_spec, Ep in E.
Qed.

End Commitment.

(** ** Code separators *)

(** A script as a list of instructions: whether each is a separator, and its bytes. *)
Inductive decodes : bytes → list (bool * bytes) → Prop :=
| decodes_nil : decodes [] []
| decodes_cons pc chunk rest l :
    d_ok (GetScriptOp pc) = true → pc = chunk ++ rest → d_pc (GetScriptOp pc) = rest →
    decodes rest l →
    decodes pc ((op_eqb (d_opcode (GetScriptOp pc)) OP_CODESEPARATOR, chunk) :: l).

(** The bytes of the instructions that are not separators. *)
Definition without_separators (l : list (bool * bytes)) : bytes :=
  flat_map (λ x : bool * bytes, if x.1 then [] else x.2) l.

(** An instruction takes a byte or more, a separator exactly one. *)
Lemma GetScriptOp_chunk pc chunk rest :
  d_ok (GetScriptOp pc) = true → pc = chunk ++ rest → d_pc (GetScriptOp pc) = rest →
  (1 <= length chunk)%nat ∧
  (op_eqb (d_opcode (GetScriptOp pc)) OP_CODESEPARATOR = true → length chunk = 1%nat).
Proof.
  intros Hok E Hr. destruct pc as [|b pc]; [done|].
  assert (Hlen : (S (length pc) = length chunk + length rest)%nat)
    by (apply (f_equal length) in E; by rewrite length_app in E).
  assert (Hs : op_eqb (opcode_of_byte b) OP_CODESEPARATOR = true → b = 171).
  { unfold op_eqb. rewrite opcode_byte_of_byte. intros Hb. by apply Z.eqb_eq in Hb. }
  clear E. revert Hok Hr. cbn [GetScriptOp].
  change (opcode_byte OP_PUSHDATA4) with 78. change (opcode_byte OP_PUSHDATA1) with 76.
  change (opcode_byte OP_PUSHDATA2) with 77.
  destruct (Z.leb_spec b 78); [|cbn; intros _ <-; split; [|intros _]; lia].
  assert (Hno : ∀ pc', (length pc' <= length pc)%nat → ∀ nSize,
    let d := if size pc' <? nSize then Decoded false OP_INVALIDOPCODE [] pc'
             else Decoded true (opcode_of_byte b) (take (Z.to_nat nSize) pc') (drop (Z.to_nat nSize) pc') in
    d_ok d = true → d_pc d = rest →
    (1 <= length chunk)%nat ∧ (op_eqb (d_opcode d) OP_CODESEPARATOR = true → length chunk = 1%nat)).
  { intros pc' Hl nSize. cbv zeta. destruct (size pc' <? nSize); cbn [d_ok d_pc d_opcode]; [done|].
    intros _ <-. rewrite length_drop in Hlen. split; [lia|]. intros Hb%Hs. lia. }
  repeat match goal with |- context [if ?c then _ else _] =>
    lazymatch c with
    | size _ <? 1 => destruct c | size _ <? 2 => destruct c | size _ <? 4 => destruct c
    | b <? _ => destruct c | b =? _ => destruct c
    end; try done end;
    apply Hno; rewrite ?length_drop; lia.
Qed.

Lemma count_separators_spec script l fuel k :
  decodes script l → (length script <= fuel)%nat →
  count_separators fuel script k + Z.of_nat (length (without_separators l))
  = k + Z.of_nat (length script).
Proof.
  intros Hd. revert fuel k. induction Hd as [|pc chunk rest l Hok Hpc Hrest Hd IH]; intros fuel k Hf.
  { destruct fuel; cbn; lia. }
  destruct (GetScriptOp_chunk pc chunk rest Hok Hpc Hrest) as [Hc Hs].
  assert (Hlen : length pc = (length chunk + length rest)%nat) by (by rewrite Hpc, length_app).
  destruct fuel as [|fuel]; [lia|]. cbn [count_separators]. rewrite Hok, Hrest.
  cbn [without_separators flat_map fst snd]. fold (without_separators l). rewrite length_app.
  specialize (IH fuel). destruct (op_eqb _ _).
  - specialize (Hs eq_refl). specialize (IH (k + 1)). cbn [length]. lia.
  - specialize (IH k). lia.
Qed.

Lemma write_segments_spec script l fuel seg out :
  decodes script l → (length script <= fuel)%nat →
  write_segments fuel script (seg ++ script) out = out ++ seg ++ without_separators l.
Proof.
  intros Hd. revert fuel seg out. induction Hd as [|pc chunk rest l Hok Hpc Hrest Hd IH]; intros fuel seg out Hf.
  - cbn [without_separators flat_map]. rewrite !app_nil_r.
    destruct fuel; cbn [write_segments GetScriptOp d_ok d_pc length]; rewrite Nat.sub_0_r, take_ge by done;
      (case_bool_decide as E; [|done]); by rewrite E, app_nil_r.
  - destruct (GetScriptOp_chunk pc chunk rest Hok Hpc Hrest) as [Hc Hs].
    assert (Hlen : length pc = (length chunk + length rest)%nat) by (by rewrite Hpc, length_app).
    destruct fuel as [|fuel]; [lia|]. cbn [write_segments]. rewrite Hok, Hrest.
    cbn [without_separators flat_map fst snd]. fold (without_separators l).
    destruct (op_eqb _ _).
    + specialize (Hs eq_refl). rewrite length_app, Hlen, Hs.
      replace (length seg + (1 + length rest) - length rest - 1)%nat with (length seg) by lia.
      rewrite take_app_length. pose proof (IH fuel [] (out ++ seg) ltac:(lia)) as IH'. cbn [app] in IH'.
      rewrite IH'. by rewrite <- app_assoc.
    + rewrite Hpc, app_assoc, (IH fuel (seg ++ chunk) out) by lia. by rewrite <- !app_assoc.
Qed.

(** ** Outputs of equal bytes *)

(** Transactions that differ in their outputs, but not in the bytes of any. *)
Definition same_output_bytes (l l' : list (option CTxOutBase)) : Prop :=
  map (fmap (ser_output true)) l = map (fmap (ser_output true)) l'.

Lemma ser_outputs_same l l' : same_output_bytes l l' → ser_outputs l = ser_outputs l'.
Proof.
  unfold same_output_bytes. revert l'.
  induction l as [|o l IH]; intros [|o' l'] E; try done. cbn in E. injection E as Eo El.
  cbn [ser_outputs]. rewrite (IH l' El).
  destruct o, o'; try done. cbn in Eo |- *. injection Eo as ->. done.
Qed.

Lemma one_output_same l l' k :
  same_output_bytes l l' →
  (o ← l !! k; o ← o; Some (ser_output true o)) = (o ← l' !! k; o ← o; Some (ser_output true o)).
Proof.
  intros E. apply (f_equal (λ x, x !! k)) in E. rewrite !list_lookup_fmap in E.
  destruct (l !! k) as [[o|]|], (l' !! k) as [[o'|]|]; cbn in *; congruence.
Qed.

Definition with_vpout (tx : CTransaction) (l : list (option CTxOutBase)) : CTransaction :=
  Transaction (Transaction.nVersion tx) (vin tx) (vout tx) l (nLockTime tx).

Lemma signed_part_same sc tx l nIn ht am :
  same_output_bytes (vpout tx) l →
  signed_part sc (with_vpout tx l) nIn ht am = signed_part sc tx nIn ht am.
Proof.
  intros E. unfold signed_part, all_outputs, one_output, GetNumVOuts, Transaction.IsBitcoinCVersion.
  cbn [with_vpout Transaction.nVersion vin vout vpout nLockTime].
  rewrite <- (ser_outputs_same _ _ E), <- (one_output_same _ _ nIn E).
  assert (length l = length (vpout tx)) as -> by (apply (f_equal length) in E; rewrite !length_map in E; done).
  done.
Qed.

(** A standard output read as data: the low byte of its amount as the length. *)
Definition as_data (value : Z) (script sig : bytes) : bytes :=
  le_bytes 7 (Z.shiftr value 8) ++ c_ser c_blob script ++ c_ser c_blob sig.

Lemma as_data_bytes value script sig :
  u8 value = Z.of_nat (length (as_data value script sig)) → u8 value < 253 →
  ser_output true (CTxOutData (as_data value script sig))
  = ser_output true (CTxOutStandard value script sig).
Proof.
  intros E Hlt. change (Serialize_blob (as_data value script sig)
    = (u8 value :: le_bytes 7 (Z.shiftr value 8)) ++ c_ser c_blob script ++ c_ser c_blob sig).
  unfold Serialize_blob. rewrite <- E. unfold WriteCompactSize.
  rewrite (proj2 (Z.ltb_lt _ _)) by lia.
  assert (ser_writedata8 (u8 value) = [u8 value]) as ->; [|done].
  unfold ser_writedata8. cbn [le_bytes]. f_equal. unfold u8. by rewrite Z.mod_mod.
Qed.

(** ** Lock times *)

Lemma land_flag x k : 0 <= k → Z.land x (2 ^ k) = Z.b2z (Z.testbit x k) * 2 ^ k.
Proof.
  intros Hk. apply Z.bits_inj'. intros j Hj. rewrite Z.land_spec, Z.pow2_bits_eqb by done.
  rewrite Z.mul_pow2_bits by done. destruct (Z.eqb_spec k j) as [->|Hne].
  - rewrite Z.sub_diag. by destruct (Z.testbit x j).
  - rewrite andb_false_r. destruct (Z.testbit x k); cbn [Z.b2z]; [|by rewrite Z.bits_0].
    destruct (Z.lt_ge_cases (j - k) 0); [by rewrite Z.testbit_neg_r|]. symmetry.
    change 1 with (2 ^ 0). rewrite Z.pow2_bits_eqb by lia. apply Z.eqb_neq. lia.
Qed.

(** What [CHECKLOCKTIMEVERIFY] compares. *)
Lemma CheckLockTime_spec tx nIn n :
  tx_CheckLockTime tx nIn n = Some true →
  ∃ i, vin tx !! nIn = Some i ∧ nSequence i ≠ SEQUENCE_FINAL ∧ n <= nLockTime tx ∧
    (nLockTime tx <? LOCKTIME_THRESHOLD) = (n <? LOCKTIME_THRESHOLD).
Proof.
  unfold tx_CheckLockTime. destruct (negb _) eqn:Hk; [done|].
  destruct (Z.ltb_spec (nLockTime tx) n); [done|]. destruct (vin tx !! nIn) as [i|]; [|done].
  cbn [mbind option_bind]. intros [= Hs]. exists i. split_and!; [done| |lia|].
  - intros E. rewrite E in Hs. done.
  - apply negb_false_iff, orb_true_iff in Hk.
    destruct (Z.ltb_spec (nLockTime tx) LOCKTIME_THRESHOLD), (Z.ltb_spec n LOCKTIME_THRESHOLD); try done;
      destruct Hk as [Hk|[Hk1%Z.leb_le Hk2%Z.leb_le]%andb_true_iff]; done || lia.
Qed.

Lemma masked_sequence x :
  Z.land x nLockTimeMask = x mod 2 ^ 16 + Z.b2z (Z.testbit x 22) * 2 ^ 22.
Proof.
  unfold nLockTimeMask, SEQUENCE_LOCKTIME_TYPE_FLAG, SEQUENCE_LOCKTIME_MASK.
  rewrite Z.land_lor_distr_r, Z.shiftl_1_l, land_flag by lia. rewrite (land_ones_mod _ 16) by lia.
  rewrite Z.lor_comm. pose proof (Z.mod_pos_bound x (2 ^ 16)). apply lor_add_disjoint; lia.
Qed.

(** What [CHECKSEQUENCEVERIFY] compares. *)
Lemma CheckSequence_spec tx nIn n i :
  vin tx !! nIn = Some i → tx_CheckSequence tx nIn n = Some true →
  2 <= u32 (Transaction.nVersion tx) ∧ Z.testbit (nSequence i) 31 = false ∧
  Z.testbit n 22 = Z.testbit (nSequence i) 22 ∧ n mod 2 ^ 16 <= nSequence i mod 2 ^ 16.
Proof.
  intros Hi. unfold tx_CheckSequence. rewrite Hi. cbn [mbind option_bind].
  rewrite !masked_sequence. unfold SEQUENCE_LOCKTIME_DISABLE_FLAG, SEQUENCE_LOCKTIME_TYPE_FLAG.
  rewrite has_pow2, Z.shiftl_1_l by lia.
  pose proof (Z.mod_pos_bound (nSequence i) (2 ^ 16)). pose proof (Z.mod_pos_bound n (2 ^ 16)).
  destruct (Z.ltb_spec (u32 (Transaction.nVersion tx)) 2); [done|].
  destruct (Z.testbit (nSequence i) 31); [done|].
  destruct (Z.testbit (nSequence i) 22), (Z.testbit n 22); cbn [Z.b2z];
    repeat match goal with
    | |- context [?a <? ?b] => destruct (Z.ltb_spec a b); cbn [andb orb negb]
    | |- context [?a <=? ?b] => destruct (Z.leb_spec a b); cbn [andb orb negb]
    end; intros E; try done; split_and!; try done; lia.
Qed.

(** ** Properties *)

(** C12: a signature of the new format commits to what it covers.  Two spends with the
    same signature hash, by witness version 0 or in transactions of the new version,
    agree on the version, the lock time, the hash type, the spent output, its script
    code and amount, and, as far as the hash type does not leave them out, on all
    outpoints, all sequence numbers and the bytes of the outputs; or the hash
    function is broken. *)
Theorem signature_commits (H : bytes → bytes) (sc sc' am am' h : bytes) (tx tx' : CTransaction)
    (nIn nIn' : nat) (ht ht' : Z) (sv sv' : SigVersion) :
  (∀ x, length (H x) = 32%nat) → signable tx → signable tx' →
  c_dom c_blob sc → c_dom c_blob sc' → is_i32 ht → is_i32 ht' →
  sv = WITNESS_V0 ∨ Transaction.IsBitcoinCVersion tx = true →
  sv' = WITNESS_V0 ∨ Transaction.IsBitcoinCVersion tx' = true →
  SignatureHash H sc tx nIn ht am sv None = Some h →
  SignatureHash H sc' tx' nIn' ht' am' sv' None = Some h →
  signed_part sc tx nIn ht am = signed_part sc' tx' nIn' ht' am' ∨ hash_broken H.
Proof.
  intros HL Hs Hs' Hsc Hsc' Ht Ht' Hf Hf' E E'.
  apply SignatureHash_new in E as (p & Ep & <-); [|done].
  apply SignatureHash_new in E' as (p' & Ep' & Eh); [|done].
  rewrite Ep, Ep'. destruct (preimage_inj H HL p p') as [->|]; [..|by left|by right];
    [exact (signed_part_dom sc tx nIn ht am p Hs Hsc Ht Ep)
    |exact (signed_part_dom sc' tx' nIn' ht' am' p' Hs' Hsc' Ht' Ep')|done].
Qed.

(** A signature of the new format covers nothing else.  Spends whose covered parts
    are equal have the same signature hash: a signature stays valid when what its hash
    type leaves out changes (all outputs under [SIGHASH_NONE], all but one under
    [SIGHASH_SINGLE], all other inputs under [SIGHASH_ANYONECANPAY]). *)
Theorem signature_covers_no_more (H : bytes → bytes) (sc sc' am am' : bytes) (tx tx' : CTransaction)
    (nIn nIn' : nat) (ht ht' : Z) (sv sv' : SigVersion) (p : signed) :
  sv = WITNESS_V0 ∨ Transaction.IsBitcoinCVersion tx = true →
  sv' = WITNESS_V0 ∨ Transaction.IsBitcoinCVersion tx' = true →
  signed_part sc tx nIn ht am = Some p → signed_part sc' tx' nIn' ht' am' = Some p →
  SignatureHash H sc tx nIn ht am sv None = Some (H (preimage_of H p)) ∧
  SignatureHash H sc' tx' nIn' ht' am' sv' None = Some (H (preimage_of H p)).
Proof. intros Hf Hf' E E'. split; by apply SignatureHash_of_part. Qed.

(** The precomputed hashes change nothing. *)
Theorem signature_cache_transparent (H : bytes → bytes) (sc am : bytes) (tx : CTransaction) (nIn : nat)
    (ht : Z) (sv : SigVersion) (d : PrecomputedTransactionData) :
  precompute H tx = Some d →
  SignatureHash H sc tx nIn ht am sv (Some d) = SignatureHash H sc tx nIn ht am sv None.
Proof.
  intros Hd. unfold SignatureHash. destruct (negb _); [done|]. destruct (_ || _); [|done]. f_equal.
  unfold precompute in Hd. destruct (HasWitness tx); [|injection Hd as <-; done].
  unfold segwit_preimage. destruct (GetOutputsHash H tx) as [o|] eqn:Eo; [|done].
  injection Hd as <-. done.
Qed.

(** Code separators are cut out.  For a script that decodes, what the original
    format hashes in the place of the script code is the serialization of the script
    without its separators. *)
Theorem SerializeScriptCode_correct (script : bytes) (l : list (bool * bytes)) :
  decodes script l → SerializeScriptCode script = Serialize_blob (without_separators l).
Proof.
  intros Hd. unfold SerializeScriptCode, Serialize_blob.
  pose proof (write_segments_spec script l (length script) [] [] Hd ltac:(done)) as Hw. cbn [app] in Hw.
  rewrite Hw. do 2 f_equal.
  pose proof (count_separators_spec script l (length script) 0 Hd). lia.
Qed.

(** C31: the type of an output is not signed.  In a transaction of the new version, a
    standard output whose amount has a low byte that equals the length of the rest
    of its serialization can be replaced by a data output: every signature hash
    stays the same, while the amount is no longer paid to anyone. *)
Theorem output_type_not_signed (H : bytes → bytes) (sc am : bytes) (tx : CTransaction) (nIn : nat) (ht : Z)
    (sv : SigVersion) (pre post : list (option CTxOutBase)) (value : Z) (script sig : bytes) :
  Transaction.IsBitcoinCVersion tx = true →
  vpout tx = pre ++ [Some (CTxOutStandard value script sig)] ++ post →
  u8 value = Z.of_nat (length (as_data value script sig)) → u8 value < 253 →
  let tx' := with_vpout tx (pre ++ [Some (CTxOutData (as_data value script sig))] ++ post) in
  SignatureHash H sc tx' nIn ht am sv None = SignatureHash H sc tx nIn ht am sv None ∧
  sum (plain_values (vpout tx')) = sum (plain_values (vpout tx)) - value.
Proof.
  intros Hv E Hu Hlt tx'. split.
  - unfold SignatureHash, tx'. change (Transaction.IsBitcoinCVersion (with_vpout tx _)) with
      (Transaction.IsBitcoinCVersion tx). rewrite Hv, orb_true_r. cbn [with_vpout vin].
    destruct (negb _); [done|]. f_equal. rewrite !segwit_preimage_spec, signed_part_same; [done|].
    unfold same_output_bytes. rewrite E, !map_app. do 2 f_equal. cbn [map fmap option_fmap option_map].
    by rewrite as_data_bytes.
  - cbn [tx' with_vpout vpout]. rewrite E. unfold plain_values. rewrite !flat_map_app, !sum_app. cbn. lia.
Qed.

(** [CHECKLOCKTIMEVERIFY] delays a spend.  An input whose script has checked a lock
    time [n] can only be part of a transaction that is final at a height or time
    after [n]. *)
Theorem cltv_enforced (tx : CTransaction) (nIn : nat) (n height time : Z) :
  tx_CheckLockTime tx nIn n = Some true → IsFinalTx tx height time = true →
  n <= 0 ∨ n < (if n <? LOCKTIME_THRESHOLD then height else time).
Proof.
  intros Hc Hf. destruct (CheckLockTime_spec tx nIn n Hc) as (i & Hi & Hseq & Hle & Hkind).
  unfold IsFinalTx in Hf. rewrite Hkind in Hf. destruct (Z.eqb_spec (nLockTime tx) 0); [left; lia|right].
  destruct (Z.ltb_spec (nLockTime tx) (if n <? LOCKTIME_THRESHOLD then height else time)); [lia|].
  exfalso. apply Hseq. rewrite forallb_forall in Hf. apply Z.eqb_eq, Hf.
  by apply list_elem_of_In, (list_elem_of_lookup_2 _ nIn).
Qed.

(** [CHECKSEQUENCEVERIFY] delays a spend.  If the script of an input has checked a
    relative lock [n] and the block meets the relative lock times of the
    transaction, then the coin is at least as old as [n] says: in blocks, or in
    multiples of 512 seconds between median times. *)
Theorem csv_enforced (h : heap) (block q : ptr) (b : CBlockIndex) (tx : CTransaction) (flags : Z)
    (prevHeights : list Z) (nIn : nat) (n c : Z) (i : CTxIn) :
  tree_ok h → map_Forall (λ _ b, 0 <= nTime b) h → h !! block = Some b → pprev b = Some q →
  nHeight b < 2 ^ 31 - 2 ^ 16 → length prevHeights = length (vin tx) →
  Forall (λ c, 0 <= c <= nHeight b) prevHeights → has flags LOCKTIME_VERIFY_SEQUENCE = true →
  vin tx !! nIn = Some i → prevHeights !! nIn = Some c → IsAnonInput i = false →
  tx_CheckSequence tx nIn n = Some true → SequenceLocks tx flags prevHeights h block = Some true →
  if Z.testbit n 22 then
    ∃ r t mtp, walk h (Z.to_nat (nHeight b - Z.max (c - 1) 0)) block = Some r ∧
      GetMedianTimePast h r = Some t ∧ GetMedianTimePast h q = Some mtp ∧ t + 512 * (n mod 2 ^ 16) <= mtp
  else c + n mod 2 ^ 16 <= nHeight b.
Proof.
  intros Hh Htime Hb Hq HH Hlen Hhs Hfl Hi Hc Ha Hcs Hs.
  destruct (CheckSequence_spec tx nIn n i Hi Hcs) as (Hv & Hd & Ht & Hle).
  destruct (SequenceLocks_spec h block q b tx flags prevHeights Hh Htime Hb Hq HH Hlen Hhs Hv Hfl)
    as (mtp & r & Hm & Er & Hiff). rewrite Hs in Er. injection Er as <-.
  pose proof (proj1 Hiff eq_refl) as Hall.
  assert (Hz : zip (vin tx) prevHeights !! nIn = Some (i, c)) by (by apply lookup_zip_Some).
  pose proof (Forall_lookup_1 _ _ _ _ Hall Hz) as Hl. cbn [lock_satisfied] in Hl.
  rewrite Ha, Hd, <- Ht in Hl. destruct Hl as [|[|Hl]]; [done..|].
  destruct (Z.testbit n 22); [|lia]. destruct Hl as (p & t & Hw & Hmt & Hle'). exists p, t, mtp.
  split_and!; [done..|lia].
Qed.

(** ** Small spends *)

Definition toy_hash (x : bytes) : bytes := le_bytes 32 (le_value x).
Lemma toy_hash_length x : length (toy_hash x) = 32%nat.
Proof. apply length_le_bytes. Qed.

(** A payment to a key hash, with an amount that ends in the byte 34. *)
Definition toy_script : bytes :=
  [opcode_byte OP_DUP; opcode_byte OP_HASH160; 20] ++ replicate 20 9
  ++ [opcode_byte OP_EQUALVERIFY; opcode_byte OP_CHECKSIG].
Definition toy_value : Z := 1000 * 256 + 34.
Definition toy_input : CTxIn := TxIn (OutPoint (replicate 32 7) 0) [] 1 [] [].
Definition toy_spend : CTransaction :=
  Transaction 0xA0 [toy_input] [] [Some (CTxOutStandard toy_value toy_script [])] 100.

Lemma toy_signable : signable toy_spend.
Proof. split_and!; [by_eval..|]. repeat constructor; by_eval. Qed.

Lemma signature_commits_witness :
  signed_part toy_script toy_spend 0 SIGHASH_ALL [1] = signed_part toy_script toy_spend 0 SIGHASH_ALL [1] ∨
  hash_broken toy_hash.
Proof.
  apply (signature_commits toy_hash toy_script toy_script [1] [1]
    (default [] (SignatureHash toy_hash toy_script toy_spend 0 SIGHASH_ALL [1] BASE None))
    toy_spend toy_spend 0 0 SIGHASH_ALL SIGHASH_ALL BASE BASE);
    [apply toy_hash_length|apply toy_signable|apply toy_signable|by_eval|by_eval|by_eval|by_eval
    |by right|by right|vm_compute; reflexivity|vm_compute; reflexivity].
Defined.

(** Under [SIGHASH_NONE] the outputs can be dropped. *)
Lemma signature_covers_no_more_witness :
  SignatureHash toy_hash toy_script (with_vpout toy_spend []) 0 SIGHASH_NONE [1] BASE None
  = SignatureHash toy_hash toy_script toy_spend 0 SIGHASH_NONE [1] BASE None.
Proof.
  destruct (signature_covers_no_more toy_hash toy_script toy_script [1] [1] toy_spend (with_vpout toy_spend [])
    0 0 SIGHASH_NONE SIGHASH_NONE BASE BASE
    (Signed 0xA0 (Some [prevout toy_input]) None (prevout toy_input) toy_script [1] 1 None 100 SIGHASH_NONE))
    as [E1 E2]; [by right|by right|reflexivity|reflexivity|].
  rewrite E1, E2. reflexivity.
Defined.

Lemma signature_cache_transparent_witness :
  SignatureHash toy_hash toy_script toy_spend 0 SIGHASH_ALL [1] BASE
    (Some (Precomputed uint256_zero uint256_zero uint256_zero false))
  = SignatureHash toy_hash toy_script toy_spend 0 SIGHASH_ALL [1] BASE None.
Proof. apply (signature_cache_transparent toy_hash toy_script [1] toy_spend 0). reflexivity. Defined.

Lemma SerializeScriptCode_correct_witness :
  SerializeScriptCode [opcode_byte OP_1; opcode_byte OP_CODESEPARATOR; opcode_byte OP_2]
  = Serialize_blob [opcode_byte OP_1; opcode_byte OP_2].
Proof.
  apply (SerializeScriptCode_correct _
    [(false, [opcode_byte OP_1]); (true, [opcode_byte OP_CODESEPARATOR]); (false, [opcode_byte OP_2])]).
  repeat (refine (decodes_cons _ [_] _ _ _ _ _ _); [reflexivity..|]). constructor.
Defined.

Lemma output_type_not_signed_witness :
  let tx' := with_vpout toy_spend [Some (CTxOutData (as_data toy_value toy_script []))] in
  SignatureHash toy_hash toy_script tx' 0 SIGHASH_ALL [1] BASE None
  = SignatureHash toy_hash toy_script toy_spend 0 SIGHASH_ALL [1] BASE None ∧
  sum (plain_values (vpout tx')) = sum (plain_values (vpout toy_spend)) - toy_value.
Proof.
  apply (output_type_not_signed toy_hash toy_script [1] toy_spend 0 SIGHASH_ALL BASE [] [] toy_value toy_script []);
    reflexivity.
Defined.

Lemma cltv_enforced_witness : 50 <= 0 ∨ 50 < 101.
Proof. apply (cltv_enforced toy_spend 0 50 101 0); reflexivity. Defined.

Lemma csv_enforced_witness : 1 + 1 mod 2 ^ 16 <= nHeight sample_block.
Proof.
  apply (csv_enforced sample_heap 4%positive 2%positive sample_block toy_spend LOCKTIME_VERIFY_SEQUENCE [1]
    0 1 1 toy_input); [apply sample_tree_ok|by_eval|apply sample_lookup|by_eval|by_eval|reflexivity
    |by_eval|reflexivity|reflexivity|reflexivity|reflexivity|reflexivity|vm_compute; reflexivity].
Defined.
