(* ===== verification/Coins.v ===== *)
(** The unspent outputs, after [src/src/coins.h], [src/src/coins.cpp] and
    [CCoinsViewDB] of [src/src/txdb.cpp]: a stack of write-back caches over a
    database.

    - [CoinsView] is the interface of the virtual class [CCoinsView];
      [CoinsViewLaws] is what a cache expects of the view below it.
    - [CCoinsViewDB] is the database: the records of the key-value store, and the
      batches in which it is written.
    - [CCoinsViewCache] is the cache with its DIRTY and FRESH flags.  A method that
      is [const] in C++ still fills the cache, so every operation passes state.

    The memory accounting ([cachedCoinsUsage]) and the lists for the address and
    anonymous-output indexes, which these operations do not read, are left out.
    [std::unordered_map] iterates in no particular order: [iteration] is that
    order. *)
From stdpp Require Import gmap strings.
From S2P Require Import Prelude Serialize Script Interpreter Transaction TxVerify.
Open Scope Z_scope.

#[global] Instance COutPoint_countable : Countable COutPoint.
Proof.
  apply (inj_countable' (λ o, (hash o, n o)) (λ '(h, k), OutPoint h k)). by intros [].
Defined.

(** ** Data *)

Inductive coins_error : Set := LogicError | AssertFailed | NullDereference | OutOfRange.

(** [Coin::Clear]: the type stays. *)
Definition Clear (c : Coin) : Coin := MkCoin (TxOut (-1) []) false 0 (nType c).

Record CCoinsCacheEntry := CacheEntry { coin : Coin; flags : Z }.

Definition DIRTY : Z := Z.shiftl 1 0.
Definition FRESH : Z := Z.shiftl 1 1.

Abbreviation CCoinsMap := (gmap COutPoint CCoinsCacheEntry) (only parsing).

(** [uint256::IsNull]. *)
Definition hash_IsNull (h : bytes) : bool := forallb (Z.eqb 0) h.

(** ** The interface of a view *)

(** [GetCoin] returns [None] when it is [false]; [BatchWrite] is given the entries
    in the order the loop meets them. *)
Class CoinsView (V : Type) := {
  view_GetCoin : V → COutPoint → option Coin * V;
  view_GetBestBlock : V → bytes * V;
  view_BatchWrite : V → list (COutPoint * CCoinsCacheEntry) → bytes → result coins_error (bool * V)
}.

(** ** The database *)

Module CCoinsViewDB.

(** An operation of a [CDBBatch]. *)
Inductive db_op : Type :=
| EraseBestBlock
| WriteBestBlock (hash : bytes)
| EraseHeadBlocks
| WriteHeadBlocks (hashes : list bytes)
| EraseCoin (o : COutPoint)
| WriteCoin (o : COutPoint) (c : Coin).

(** The records of the store: the coins, [DB_BEST_BLOCK] and [DB_HEAD_BLOCKS];
    [batch_full] is [batch.SizeEstimate() > batch_size]. *)
Record t := DB {
  coins : gmap COutPoint Coin;
  best_block : option bytes;
  head_blocks : option (list bytes);
  batch_full : list db_op → bool
}.

Definition apply (d : t) (op : db_op) : t :=
  match op with
  | EraseBestBlock => DB (coins d) None (head_blocks d) (batch_full d)
  | WriteBestBlock h => DB (coins d) (Some h) (head_blocks d) (batch_full d)
  | EraseHeadBlocks => DB (coins d) (best_block d) None (batch_full d)
  | WriteHeadBlocks l => DB (coins d) (best_block d) (Some l) (batch_full d)
  | EraseCoin o => DB (delete o (coins d)) (best_block d) (head_blocks d) (batch_full d)
  | WriteCoin o c => DB (<[o := c]> (coins d)) (best_block d) (head_blocks d) (batch_full d)
  end.

(** [CDBWrapper::WriteBatch]: all operations or none. *)
Definition WriteBatch (d : t) (batch : list db_op) : t := foldl apply d batch.

Definition GetCoin (d : t) (o : COutPoint) : option Coin := coins d !! o.
Definition HaveCoin (d : t) (o : COutPoint) : bool := bool_decide (is_Some (coins d !! o)).
Definition GetBestBlock (d : t) : bytes := default uint256_zero (best_block d).
Definition GetHeadBlocks (d : t) : list bytes := default [] (head_blocks d).

(** The operation an entry adds to the batch. *)
Definition entry_ops (x : COutPoint * CCoinsCacheEntry) : list db_op :=
  if has (flags x.2) DIRTY then
    if IsSpent (coin x.2) then [EraseCoin x.1] else [WriteCoin x.1 (coin x.2)]
  else [].

(** The loop of [BatchWrite]: the states on disk after each partial batch, the
    batch that is left, and the last state on disk. *)
Fixpoint write_loop (d : t) (batch : list db_op) (l : list (COutPoint * CCoinsCacheEntry))
  : list t * list db_op * t :=
  match l with
  | [] => ([], batch, d)
  | x :: l' =>
      let batch := batch ++ entry_ops x in
      if batch_full d batch then
        let d := WriteBatch d batch in
        let '(states, rest, d') := write_loop d [] l' in
        (d :: states, rest, d')
      else write_loop d batch l'
  end.

(** The block the database is coming from: its best block, or the older head of
    an interrupted write. *)
Definition old_tip (d : t) (hashBlock : bytes) : result coins_error bytes :=
  if hash_IsNull (GetBestBlock d) then
    match GetHeadBlocks d with
    | [h0; h1] => if bool_decide (h0 = hashBlock) then Ok h1 else Err AssertFailed
    | _ => Ok (GetBestBlock d)
    end
  else Ok (GetBestBlock d).

(** [BatchWrite]: every state the disk goes through, and the last one. *)
Definition BatchWrite (d : t) (mapCoins : list (COutPoint * CCoinsCacheEntry)) (hashBlock : bytes)
  : result coins_error (list t * t) :=
  if hash_IsNull hashBlock then Err AssertFailed
  else
    let! tip := old_tip d hashBlock in
    let '(states, batch, d) :=
      write_loop d [EraseBestBlock; WriteHeadBlocks [hashBlock; tip]] mapCoins in
    let d := WriteBatch d (batch ++ [EraseHeadBlocks; WriteBestBlock hashBlock]) in
    Ok (states, d).

End CCoinsViewDB.

#[global] Instance db_view : CoinsView CCoinsViewDB.t := {|
  view_GetCoin d o := (CCoinsViewDB.GetCoin d o, d);
  view_GetBestBlock d := (CCoinsViewDB.GetBestBlock d, d);
  view_BatchWrite d l h := let! (_, d) := CCoinsViewDB.BatchWrite d l h in Ok (true, d)
|}.

(** ** The cache *)

Record cache (V : Type) := Cache {
  base : V;
  hashBlock : bytes;
  nBlockHeight : Z;
  cacheCoins : gmap COutPoint CCoinsCacheEntry
}.
Arguments Cache {V} base hashBlock nBlockHeight cacheCoins.
Arguments base {V} c.
Arguments hashBlock {V} c.
Arguments nBlockHeight {V} c.
Arguments cacheCoins {V} c.

Module CCoinsViewCache.
Section Operations.
Context {V : Type} `{!CoinsView V}.
Context (iteration : gmap COutPoint CCoinsCacheEntry → list (COutPoint * CCoinsCacheEntry)).

Definition set_base (b : V) (c : cache V) : cache V :=
  Cache b (hashBlock c) (nBlockHeight c) (cacheCoins c).
Definition set_coins (m : gmap COutPoint CCoinsCacheEntry) (c : cache V) : cache V :=
  Cache (base c) (hashBlock c) (nBlockHeight c) m.

(** [FetchCoin]: the entry, taken from the view below on a miss. *)
Definition FetchCoin (c : cache V) (o : COutPoint) : option CCoinsCacheEntry * cache V :=
  match cacheCoins c !! o with
  | Some e => (Some e, c)
  | None =>
      let '(r, b) := view_GetCoin (base c) o in
      let c := set_base b c in
      match r with
      | None => (None, c)
      | Some tmp =>
          let e := CacheEntry tmp (if IsSpent tmp then FRESH else 0) in
          (Some e, set_coins (<[o := e]> (cacheCoins c)) c)
      end
  end.

Definition GetCoin (c : cache V) (o : COutPoint) : option Coin * cache V :=
  let '(r, c) := FetchCoin c o in
  (match r with
   | Some e => if IsSpent (coin e) then None else Some (coin e)
   | None => None
   end, c).

Definition AddCoin (c : cache V) (o : COutPoint) (new : Coin) (possible_overwrite : bool)
  : result coins_error (cache V) :=
  if IsSpent new then Err AssertFailed
  else if IsUnspendable (scriptPubKey (out new)) then Ok c
  else
    let e := default (CacheEntry coinEmpty 0) (cacheCoins c !! o) in
    if negb possible_overwrite && negb (IsSpent (coin e)) then Err LogicError
    else
      let fresh := negb possible_overwrite && negb (has (flags e) DIRTY) in
      let e := CacheEntry new (Z.lor (flags e) (Z.lor DIRTY (if fresh then FRESH else 0))) in
      Ok (set_coins (<[o := e]> (cacheCoins c)) c).

(** [SpendCoin]: the coin moved out, [None] when it returns [false]. *)
Definition SpendCoin (c : cache V) (o : COutPoint) : option Coin * cache V :=
  let '(r, c) := FetchCoin c o in
  match r with
  | None => (None, c)
  | Some e =>
      (Some (coin e),
       set_coins (if has (flags e) FRESH then delete o (cacheCoins c)
                  else <[o := CacheEntry (Clear (coin e)) (Z.lor (flags e) DIRTY)]> (cacheCoins c)) c)
  end.

Definition AccessCoin (c : cache V) (o : COutPoint) : Coin * cache V :=
  let '(r, c) := FetchCoin c o in
  (match r with Some e => coin e | None => coinEmpty end, c).

Definition HaveCoin (c : cache V) (o : COutPoint) : bool * cache V :=
  let '(r, c) := FetchCoin c o in
  (match r with Some e => negb (IsSpent (coin e)) | None => false end, c).

Definition HaveCoinInCache (c : cache V) (o : COutPoint) : bool :=
  match cacheCoins c !! o with Some e => negb (IsSpent (coin e)) | None => false end.

Definition GetBestBlock (c : cache V) : bytes * cache V :=
  if hash_IsNull (hashBlock c) then
    let '(h, b) := view_GetBestBlock (base c) in
    (h, Cache b h (nBlockHeight c) (cacheCoins c))
  else (hashBlock c, c).

Definition SetBestBlock (c : cache V) (hashBlockIn : bytes) (height : Z) : cache V :=
  Cache (base c) hashBlockIn height (cacheCoins c).

(** One entry of [BatchWrite]: [o] and [child] come from the cache above. *)
Definition write_entry (m : gmap COutPoint CCoinsCacheEntry) (o : COutPoint)
    (child : CCoinsCacheEntry) : result coins_error (gmap COutPoint CCoinsCacheEntry) :=
  if negb (has (flags child) DIRTY) then Ok m
  else
    match m !! o with
    | None =>
        if negb (has (flags child) FRESH && IsSpent (coin child)) then
          Ok (<[o := CacheEntry (coin child)
                       (if has (flags child) FRESH then Z.lor DIRTY FRESH else DIRTY)]> m)
        else Ok m
    | Some us =>
        if has (flags child) FRESH && negb (IsSpent (coin us)) then Err LogicError
        else if has (flags us) FRESH && IsSpent (coin child) then Ok (delete o m)
        else Ok (<[o := CacheEntry (coin child) (Z.lor (flags us) DIRTY)]> m)
    end.

Fixpoint write_entries (m : gmap COutPoint CCoinsCacheEntry)
    (l : list (COutPoint * CCoinsCacheEntry)) : result coins_error (gmap COutPoint CCoinsCacheEntry) :=
  match l with
  | [] => Ok m
  | (o, e) :: l' => let! m := write_entry m o e in write_entries m l'
  end.

Definition BatchWrite (c : cache V) (mapCoins : list (COutPoint * CCoinsCacheEntry))
    (hashBlockIn : bytes) : result coins_error (bool * cache V) :=
  let! m := write_entries (cacheCoins c) mapCoins in
  Ok (true, Cache (base c) hashBlockIn (nBlockHeight c) m).

Definition Flush (c : cache V) : result coins_error (bool * cache V) :=
  let! (fOk, b) := view_BatchWrite (base c) (iteration (cacheCoins c)) (hashBlock c) in
  Ok (fOk, Cache b (hashBlock c) (nBlockHeight c) ∅).

Definition Uncache (c : cache V) (o : COutPoint) : cache V :=
  match cacheCoins c !! o with
  | Some e => if flags e =? 0 then set_coins (delete o (cacheCoins c)) c else c
  | None => c
  end.

Definition GetCacheSize (c : cache V) : Z := Z.of_nat (stdpp.base.size (cacheCoins c)).

End Operations.
End CCoinsViewCache.

#[global] Instance cache_view {V} `{!CoinsView V} : CoinsView (cache V) := {|
  view_GetCoin := CCoinsViewCache.GetCoin;
  view_GetBestBlock := CCoinsViewCache.GetBestBlock;
  view_BatchWrite := CCoinsViewCache.BatchWrite
|}.

(** ** What a cache expects of the view below *)

(** The coin of an entry, [None] when it is spent. *)
Definition unspent (c : Coin) : option Coin := if IsSpent c then None else Some c.

(** The coins after a batch: the dirty entries replace what was there. *)
Definition after_batch (l : list (COutPoint * CCoinsCacheEntry)) (f : COutPoint → option Coin)
    (o : COutPoint) : option Coin :=
  match (list_to_map l : gmap COutPoint CCoinsCacheEntry) !! o with
  | Some e => if has (flags e) DIRTY then unspent (coin e) else f o
  | None => f o
  end.

(** A batch with one entry per outpoint, whose fresh entries are not below. *)
Definition batch_ok (f : COutPoint → option Coin) (l : list (COutPoint * CCoinsCacheEntry)) : Prop :=
  NoDup l.*1 ∧
  Forall (λ x, has (flags x.2) DIRTY = true → has (flags x.2) FRESH = true → f x.1 = None) l.

Class CoinsViewLaws (V : Type) `{!CoinsView V} := {
  contents : V → COutPoint → option Coin;
  view_ok : V → Prop;
  contents_unspent v o c : view_ok v → contents v o = Some c → IsSpent c = false;
  view_GetCoin_law v o : view_ok v →
    ∃ v', view_GetCoin v o = (contents v o, v') ∧ view_ok v' ∧
          ∀ x, contents v' x = contents v x;
  view_GetBestBlock_law v : view_ok v →
    ∃ h v', view_GetBestBlock v = (h, v') ∧ view_ok v' ∧ ∀ x, contents v' x = contents v x;
  view_BatchWrite_law v l h : view_ok v → batch_ok (contents v) l → hash_IsNull h = false →
    ∃ v', view_BatchWrite v l h = Ok (true, v') ∧ view_ok v' ∧
          ∀ x, contents v' x = after_batch l (contents v) x
}.

(** ** Lemmas *)

Lemma has_lor a b f : has (Z.lor a b) f = has a f || has b f.
Proof.
  unfold has. rewrite Z.land_lor_distr_l.
  destruct (Z.eqb_spec (Z.land a f) 0) as [->|Ha]; [by rewrite Z.lor_0_l|].
  destruct (Z.eqb_spec (Z.lor (Z.land a f) (Z.land b f)) 0) as [E|]; [|done].
  by apply Z.lor_eq_0_iff in E as [? _].
Qed.

Lemma unspent_Some c : IsSpent c = false → unspent c = Some c.
Proof. unfold unspent. by intros ->. Qed.

Lemma unspent_None c : IsSpent c = true → unspent c = None.
Proof. unfold unspent. by intros ->. Qed.

Lemma unspent_inv c x : unspent c = Some x → c = x ∧ IsSpent x = false.
Proof. unfold unspent. destruct (IsSpent c) eqn:E; [done|]. by intros [= <-]. Qed.

Lemma after_batch_cons o e l f x :
  after_batch ((o, e) :: l) f x =
  if decide (x = o) then (if has (flags e) DIRTY then unspent (coin e) else f o)
  else after_batch l f x.
Proof.
  unfold after_batch. rewrite list_to_map_cons. destruct (decide (x = o)) as [->|Hne].
  - by rewrite lookup_insert_eq.
  - by rewrite lookup_insert_ne.
Qed.

Lemma after_batch_notin l f o : o ∉ l.*1 → after_batch l f o = f o.
Proof. intros H. unfold after_batch. by rewrite not_elem_of_list_to_map_1. Qed.

Lemma after_batch_ext l f g x : f x = g x → after_batch l f x = after_batch l g x.
Proof. unfold after_batch. by intros ->. Qed.

Lemma iteration_NoDup (l : list (COutPoint * CCoinsCacheEntry)) (m : gmap COutPoint CCoinsCacheEntry) :
  l ≡ₚ map_to_list m → NoDup l.*1.
Proof. intros ->. apply NoDup_fst_map_to_list. Qed.

Lemma after_batch_perm l m f x :
  l ≡ₚ map_to_list m →
  after_batch l f x =
    match m !! x with Some e => if has (flags e) DIRTY then unspent (coin e) else f x | None => f x end.
Proof.
  intros Hl. unfold after_batch.
  by rewrite (list_to_map_proper l (map_to_list m) (iteration_NoDup l m Hl) Hl), list_to_map_to_list.
Qed.

(** *** The database *)

Module DBFacts.
Import CCoinsViewDB.

(** A database between writes: only unspent coins, and no interrupted write. *)
Definition consistent (d : t) : Prop :=
  map_Forall (λ _ c, IsSpent c = false) (coins d) ∧ head_blocks d = None.

Lemma WriteBatch_app d b1 b2 : WriteBatch d (b1 ++ b2) = WriteBatch (WriteBatch d b1) b2.
Proof. apply foldl_app. Qed.

(** What one entry does to the records. *)
Lemma WriteBatch_entry d x :
  let d' := WriteBatch d (entry_ops x) in
  (∀ o, coins d' !! o = if decide (o = x.1) then
          (if has (flags x.2) DIRTY then unspent (coin x.2) else coins d !! o) else coins d !! o) ∧
  best_block d' = best_block d ∧ head_blocks d' = head_blocks d ∧ batch_full d' = batch_full d.
Proof.
  destruct x as [o e]. unfold entry_ops. cbn [fst snd].
  destruct (has (flags e) DIRTY); [|split; [|done]; intros o'; by case_decide].
  destruct (IsSpent (coin e)) eqn:Es; (split; [|done]); intros o'; cbn; unfold unspent; rewrite Es.
  - case_decide as Ho; [subst; apply lookup_delete_eq|by rewrite lookup_delete_ne].
  - case_decide as Ho; [subst; apply lookup_insert_eq|by rewrite lookup_insert_ne].
Qed.

(** The database when everything buffered is written. *)
Lemma write_loop_final d batch l :
  let '(_, rest, d') := write_loop d batch l in
  WriteBatch d' rest = WriteBatch d (batch ++ concat (map entry_ops l)).
Proof.
  revert d batch. induction l as [|x l IH]; intros d batch; cbn [write_loop map concat].
  { by rewrite app_nil_r. }
  rewrite app_assoc. destruct (batch_full d (batch ++ entry_ops x)); [|apply IH].
  specialize (IH (WriteBatch d (batch ++ entry_ops x)) []).
  destruct (write_loop _ [] l) as [[st rest] d']. rewrite IH. cbn [app].
  by rewrite !WriteBatch_app.
Qed.

(** Every state on the way is the write of a prefix of the entries. *)
Lemma write_loop_states d batch l s :
  let '(states, _, _) := write_loop d batch l in
  s ∈ states → ∃ l1 l2, l = l1 ++ l2 ∧ s = WriteBatch d (batch ++ concat (map entry_ops l1)).
Proof.
  revert d batch. induction l as [|x l IH]; intros d batch; cbn [write_loop].
  { intros H. by apply not_elem_of_nil in H. }
  destruct (batch_full d (batch ++ entry_ops x)).
  - specialize (IH (WriteBatch d (batch ++ entry_ops x)) []).
    destruct (write_loop _ [] l) as [[st rest] d']. intros [->|Hs]%elem_of_cons.
    + exists [x], l. cbn [map concat]. by rewrite app_nil_r.
    + destruct (IH Hs) as (l1 & l2 & -> & ->). exists (x :: l1), l2. split; [done|].
      cbn [map concat app]. by rewrite (app_assoc batch), (WriteBatch_app d (batch ++ _)).
  - specialize (IH d (batch ++ entry_ops x)). destruct (write_loop _ _ l) as [[st rest] d'].
    intros Hs. destruct (IH Hs) as (l1 & l2 & -> & ->). exists (x :: l1), l2. split; [done|].
    cbn [map concat]. by rewrite <- app_assoc.
Qed.

(** The records after the entries of a batch. *)
Lemma entries_written d l :
  NoDup l.*1 →
  let d' := WriteBatch d (concat (map entry_ops l)) in
  (∀ o, coins d' !! o = after_batch l (λ o, coins d !! o) o) ∧
  best_block d' = best_block d ∧ head_blocks d' = head_blocks d ∧ batch_full d' = batch_full d.
Proof.
  revert d. induction l as [|[o e] l IH]; intros d Hnd; [done|].
  cbn [map concat]. rewrite WriteBatch_app. apply NoDup_cons in Hnd as [Hni Hnd].
  pose proof (WriteBatch_entry d (o, e)) as (H1 & H2 & H3 & H4).
  destruct (IH (WriteBatch d (entry_ops (o, e))) Hnd) as (I1 & I2 & I3 & I4).
  rewrite I2, I3, I4. split; [|done]. intros x. rewrite I1, after_batch_cons. case_decide as Hx.
  - subst x. rewrite after_batch_notin by done. rewrite H1. cbn [fst snd]. by case_decide.
  - apply after_batch_ext. rewrite H1. cbn [fst]. by case_decide.
Qed.

End DBFacts.

(** A whole write: what is on disk at the end. *)
Lemma db_BatchWrite_final d l h tip :
  hash_IsNull h = false → CCoinsViewDB.old_tip d h = Ok tip → NoDup l.*1 →
  ∃ states d', CCoinsViewDB.BatchWrite d l h = Ok (states, d') ∧
    (∀ o, CCoinsViewDB.coins d' !! o = after_batch l (λ o, CCoinsViewDB.coins d !! o) o) ∧
    CCoinsViewDB.best_block d' = Some h ∧ CCoinsViewDB.head_blocks d' = None.
Proof.
  intros Hh Htip Hnd. unfold CCoinsViewDB.BatchWrite. rewrite Hh, Htip. cbn [rbind].
  set (first := [CCoinsViewDB.EraseBestBlock; CCoinsViewDB.WriteHeadBlocks [h; tip]]).
  pose proof (DBFacts.write_loop_final d first l) as Hfin.
  destruct (CCoinsViewDB.write_loop d first l) as [[states rest] d1].
  eexists states, _. split; [done|]. rewrite DBFacts.WriteBatch_app, Hfin, DBFacts.WriteBatch_app.
  destruct (DBFacts.entries_written (CCoinsViewDB.WriteBatch d first) l Hnd) as (H1 & _).
  cbn. split; [|done]. intros o. by rewrite H1.
Qed.

(** The states on the way: the first batch records the heads. *)
Definition interrupted (d : CCoinsViewDB.t) (h tip : bytes)
    (l : list (COutPoint * CCoinsCacheEntry)) : CCoinsViewDB.t :=
  CCoinsViewDB.WriteBatch
    (CCoinsViewDB.WriteBatch d [CCoinsViewDB.EraseBestBlock; CCoinsViewDB.WriteHeadBlocks [h; tip]])
    (concat (map CCoinsViewDB.entry_ops l)).

Lemma BatchWrite_states d l h tip states d' s :
  hash_IsNull h = false → CCoinsViewDB.old_tip d h = Ok tip →
  CCoinsViewDB.BatchWrite d l h = Ok (states, d') → s ∈ states →
  ∃ l1 l2, l = l1 ++ l2 ∧ s = interrupted d h tip l1.
Proof.
  intros Hh Htip E Hs. unfold CCoinsViewDB.BatchWrite in E. rewrite Hh, Htip in E. cbn [rbind] in E.
  pose proof (DBFacts.write_loop_states d
    [CCoinsViewDB.EraseBestBlock; CCoinsViewDB.WriteHeadBlocks [h; tip]] l s) as Hst.
  destruct (CCoinsViewDB.write_loop _ _ l) as [[st rest] d1]. injection E as <- <-.
  destruct (Hst Hs) as (l1 & l2 & -> & ->). exists l1, l2. split; [done|].
  unfold interrupted. by rewrite DBFacts.WriteBatch_app.
Qed.

Lemma after_batch_prefix l1 l2 f o :
  NoDup (l1 ++ l2).*1 →
  (after_batch l1 f o = f o ∨ after_batch l1 f o = after_batch (l1 ++ l2) f o) ∧
  after_batch (l1 ++ l2) (after_batch l1 f) o = after_batch (l1 ++ l2) f o.
Proof.
  intros Hnd. induction l1 as [|[o1 e1] l1 IH]; [by split; [left|]|].
  cbn [app fmap list_fmap] in Hnd. apply NoDup_cons in Hnd as [Hni Hnd]. cbn [app].
  rewrite !after_batch_cons. case_decide as Ho.
  - subst o1. split; [by right|]. rewrite decide_True by done. by destruct (has (flags e1) DIRTY).
  - destruct (IH Hnd) as [IH1 IH2]. split; [done|]. rewrite <- IH2.
    apply after_batch_ext. rewrite after_batch_cons. by rewrite decide_False.
Qed.

Lemma interrupted_state d h tip l1 l2 :
  hash_IsNull h = false → NoDup (l1 ++ l2).*1 →
  let f o := CCoinsViewDB.coins d !! o in
  let s := interrupted d h tip l1 in
  CCoinsViewDB.best_block s = None ∧ CCoinsViewDB.head_blocks s = Some [h; tip] ∧
  (∀ o, CCoinsViewDB.coins s !! o = f o ∨ CCoinsViewDB.coins s !! o = after_batch (l1 ++ l2) f o) ∧
  ∃ states' d'', CCoinsViewDB.BatchWrite s (l1 ++ l2) h = Ok (states', d'') ∧
    ∀ o, CCoinsViewDB.coins d'' !! o = after_batch (l1 ++ l2) f o.
Proof.
  intros Hh Hnd f s.
  assert (Hnd1 : NoDup l1.*1) by (rewrite fmap_app in Hnd; by apply NoDup_app in Hnd as [? _]).
  destruct (DBFacts.entries_written
    (CCoinsViewDB.WriteBatch d [CCoinsViewDB.EraseBestBlock; CCoinsViewDB.WriteHeadBlocks [h; tip]])
    l1 Hnd1) as (Hc & Hb & Hhd & _). fold (interrupted d h tip l1) in Hc, Hb, Hhd.
  assert (Hs : ∀ o, CCoinsViewDB.coins s !! o = after_batch l1 f o) by done.
  split_and!; [done|done|intros o; rewrite Hs; by apply after_batch_prefix|].
  assert (Htip : CCoinsViewDB.old_tip s h = Ok tip).
  { unfold CCoinsViewDB.old_tip, CCoinsViewDB.GetBestBlock, CCoinsViewDB.GetHeadBlocks, s.
    rewrite Hb, Hhd. cbn. by rewrite bool_decide_true. }
  destruct (db_BatchWrite_final s (l1 ++ l2) h tip Hh Htip Hnd) as (st & d'' & E & Hc' & _).
  exists st, d''. split; [done|]. intros o. rewrite Hc'.
  rewrite <- (proj2 (after_batch_prefix l1 l2 f o Hnd)). apply after_batch_ext, Hs.
Qed.

Lemma old_tip_consistent d h :
  CCoinsViewDB.head_blocks d = None →
  CCoinsViewDB.old_tip d h = Ok (CCoinsViewDB.GetBestBlock d).
Proof.
  intros H. unfold CCoinsViewDB.old_tip, CCoinsViewDB.GetHeadBlocks. rewrite H.
  by destruct (hash_IsNull _).
Qed.

#[global] Program Instance db_laws : CoinsViewLaws CCoinsViewDB.t := {|
  contents d o := CCoinsViewDB.coins d !! o;
  view_ok := DBFacts.consistent
|}.
Next Obligation. intros d o c [H _] Hc. exact (H o c Hc). Qed.
Next Obligation. intros d o H. by exists d. Qed.
Next Obligation. intros d H. by exists (CCoinsViewDB.GetBestBlock d), d. Qed.
Next Obligation.
  intros d l h [Hu Hheads] [Hnd _] Hh. cbn.
  destruct (db_BatchWrite_final d l h _ Hh (old_tip_consistent d h Hheads) Hnd)
    as (states & d' & -> & Hc & _ & Hheads').
  exists d'. split; [done|]. split; [|done]. split; [|done]. intros o c Ho.
  rewrite Hc in Ho. unfold after_batch in Ho.
  destruct (list_to_map l !! o) as [e|]; [|exact (Hu _ _ Ho)].
  destruct (has (flags e) DIRTY); [by apply unspent_inv in Ho as [_ ?]|exact (Hu _ _ Ho)].
Qed.

(** *** The cache *)

Section Cache.
Context {V : Type} `{!CoinsView V} `{!CoinsViewLaws V}.
Implicit Types c : cache V.

(** An entry against the view below: one that is not dirty agrees with it, and a
    fresh one is not in it. *)
Definition entry_ok (f : COutPoint → option Coin) (o : COutPoint) (e : CCoinsCacheEntry) : Prop :=
  (has (flags e) DIRTY = false → unspent (coin e) = f o) ∧
  (has (flags e) FRESH = true → f o = None).

Definition cache_ok c : Prop :=
  view_ok (base c) ∧ map_Forall (entry_ok (contents (base c))) (cacheCoins c).

Definition cache_contents c (o : COutPoint) : option Coin :=
  match cacheCoins c !! o with Some e => unspent (coin e) | None => contents (base c) o end.

(** The cache stands for the set of unspent outputs [m]. *)
Definition represents c (m : gmap COutPoint Coin) : Prop :=
  cache_ok c ∧ ∀ o, cache_contents c o = m !! o.

Lemma cache_contents_unspent c o x : cache_ok c → cache_contents c o = Some x → IsSpent x = false.
Proof.
  intros [Hb Hc]. unfold cache_contents. destruct (cacheCoins c !! o) as [e|].
  - by intros [_ ?]%unspent_inv.
  - by apply contents_unspent.
Qed.

Lemma represents_unspent c m o x : represents c m → m !! o = Some x → IsSpent x = false.
Proof. intros [Hok Hm] Ho. rewrite <- Hm in Ho. by eapply cache_contents_unspent. Qed.

(** Replacing one entry by an acceptable one. *)
Lemma insert_ok c o e :
  cache_ok c → entry_ok (contents (base c)) o e →
  cache_ok (CCoinsViewCache.set_coins (<[o := e]> (cacheCoins c)) c).
Proof. intros [Hb Hc] He. split; [done|]. by apply map_Forall_insert_2. Qed.

Lemma insert_contents c o e x :
  cache_contents (CCoinsViewCache.set_coins (<[o := e]> (cacheCoins c)) c) x =
  if decide (x = o) then unspent (coin e) else cache_contents c x.
Proof.
  unfold cache_contents. cbn [cacheCoins CCoinsViewCache.set_coins base].
  case_decide as Hx; [subst; by rewrite lookup_insert_eq|by rewrite lookup_insert_ne].
Qed.

Lemma delete_ok c o : cache_ok c → cache_ok (CCoinsViewCache.set_coins (delete o (cacheCoins c)) c).
Proof. intros [Hb Hc]. split; [done|]. by apply map_Forall_delete. Qed.

Lemma delete_contents c o x :
  cache_contents (CCoinsViewCache.set_coins (delete o (cacheCoins c)) c) x =
  if decide (x = o) then contents (base c) o else cache_contents c x.
Proof.
  unfold cache_contents. cbn [cacheCoins CCoinsViewCache.set_coins base].
  case_decide as Hx; [subst; by rewrite lookup_delete_eq|by rewrite lookup_delete_ne].
Qed.

(** A view below with the same coins serves as well. *)
Lemma set_base_ok c b :
  cache_ok c → view_ok b → (∀ x, contents b x = contents (base c) x) →
  cache_ok (CCoinsViewCache.set_base b c) ∧
  ∀ x, cache_contents (CCoinsViewCache.set_base b c) x = cache_contents c x.
Proof.
  intros [_ Hc] Hb Heq. split; [split; [done|]|].
  - intros o e He. cbn in *. destruct (Hc o e He) as [H1 H2]. split; rewrite Heq; eauto.
  - intros x. unfold cache_contents. cbn. by destruct (cacheCoins c !! x).
Qed.

(** The best block, read through to the view below. *)
Lemma GetBestBlock_spec c :
  cache_ok c →
  ∃ h c', CCoinsViewCache.GetBestBlock c = (h, c') ∧ cache_ok c' ∧
    ∀ x, cache_contents c' x = cache_contents c x.
Proof.
  intros Hok. unfold CCoinsViewCache.GetBestBlock. destruct (hash_IsNull (hashBlock c)); [|by eexists _, c].
  destruct (view_GetBestBlock_law (base c) (proj1 Hok)) as (hb & b & -> & Hb & Heq).
  eexists hb, _. split; [done|]. apply (set_base_ok c b Hok Hb Heq).
Qed.

Lemma FetchCoin_spec c o :
  cache_ok c →
  ∃ c', CCoinsViewCache.FetchCoin c o = (cacheCoins c' !! o, c') ∧ cache_ok c' ∧
    hashBlock c' = hashBlock c ∧
    (∀ x, cache_contents c' x = cache_contents c x) ∧
    (cacheCoins c' !! o = None → cache_contents c o = None).
Proof.
  intros Hok. unfold CCoinsViewCache.FetchCoin. destruct (cacheCoins c !! o) as [e|] eqn:Ho.
  { exists c. by rewrite Ho. }
  destruct (view_GetCoin_law (base c) o (proj1 Hok)) as (b & -> & Hb & Heq).
  destruct (set_base_ok c b Hok Hb Heq) as [Hok' Hc'].
  destruct (contents (base c) o) as [tmp|] eqn:Htmp.
  - pose proof (contents_unspent _ _ _ (proj1 Hok) Htmp) as Hu. rewrite Hu.
    set (c1 := CCoinsViewCache.set_base b c) in *.
    exists (CCoinsViewCache.set_coins (<[o := CacheEntry tmp 0]> (cacheCoins c1)) c1).
    split; [by cbn; rewrite lookup_insert_eq|]. split_and!; [|done| |].
    + apply insert_ok; [done|]. split; [|done]. cbn. intros _. rewrite Heq, Htmp. by apply unspent_Some.
    + intros x. rewrite insert_contents, Hc'. case_decide as Hx; [|done]. subst x.
      unfold cache_contents. rewrite Ho, Htmp. by apply unspent_Some.
    + cbn. by rewrite lookup_insert_eq.
  - exists (CCoinsViewCache.set_base b c). cbn. rewrite Ho. split_and!; try done.
    intros _. unfold cache_contents. by rewrite Ho.
Qed.

Lemma GetBestBlock_represents c m :
  represents c m → ∃ h c', CCoinsViewCache.GetBestBlock c = (h, c') ∧ represents c' m.
Proof.
  intros [Hok Hm]. destruct (GetBestBlock_spec c Hok) as (h & c' & -> & Hok' & Hc). exists h, c'.
  split; [done|]. split; [done|]. intros x. by rewrite Hc.
Qed.

(** [FetchCoin] on a represented set. *)
Lemma FetchCoin_represents c m o :
  represents c m →
  ∃ c', CCoinsViewCache.FetchCoin c o = (cacheCoins c' !! o, c') ∧ represents c' m ∧
    hashBlock c' = hashBlock c ∧
    match cacheCoins c' !! o with
    | Some e => unspent (coin e) = m !! o
    | None => m !! o = None
    end.
Proof.
  intros [Hok Hm]. destruct (FetchCoin_spec c o Hok) as (c' & Hf & Hok' & Hh & Hc & Hn).
  exists c'. split_and!; [done|split; [done|]; intros x; by rewrite Hc|done|].
  pose proof (Hc o) as Ho. rewrite Hm in Ho. unfold cache_contents in Ho.
  destruct (cacheCoins c' !! o) as [e|]; [done|]. rewrite <- Hm. by apply Hn.
Qed.

Lemma GetCoin_represents c m o :
  represents c m →
  ∃ c', CCoinsViewCache.GetCoin c o = (m !! o, c') ∧ represents c' m ∧ hashBlock c' = hashBlock c.
Proof.
  intros Hr. destruct (FetchCoin_represents c m o Hr) as (c' & Hf & Hr' & Hh & He).
  exists c'. split; [|done]. unfold CCoinsViewCache.GetCoin. rewrite Hf.
  destruct (cacheCoins c' !! o) as [e|]; [|by rewrite He].
  unfold unspent in He. by destruct (IsSpent (coin e)); rewrite He.
Qed.

Lemma HaveCoin_represents c m o :
  represents c m →
  ∃ c', CCoinsViewCache.HaveCoin c o = (bool_decide (is_Some (m !! o)), c') ∧ represents c' m ∧
        hashBlock c' = hashBlock c.
Proof.
  intros Hr. destruct (FetchCoin_represents c m o Hr) as (c' & Hf & Hr' & Hh & He).
  exists c'. split; [|done]. unfold CCoinsViewCache.HaveCoin. rewrite Hf.
  destruct (cacheCoins c' !! o) as [e|]; [|by rewrite He].
  unfold unspent in He. by destruct (IsSpent (coin e)); rewrite <- He.
Qed.

Lemma AccessCoin_represents c m o :
  represents c m →
  ∃ x c', CCoinsViewCache.AccessCoin c o = (x, c') ∧ unspent x = m !! o ∧ represents c' m ∧
          hashBlock c' = hashBlock c.
Proof.
  intros Hr. destruct (FetchCoin_represents c m o Hr) as (c' & Hf & Hr' & Hh & He).
  unfold CCoinsViewCache.AccessCoin. rewrite Hf. eexists _, c'. split; [done|]. split; [|done].
  by destruct (cacheCoins c' !! o).
Qed.

Lemma AddCoin_represents c m o new po :
  represents c m → IsSpent new = false → po = true ∨ m !! o = None →
  ∃ c', CCoinsViewCache.AddCoin c o new po = Ok c' ∧ hashBlock c' = hashBlock c ∧
    represents c' (if IsUnspendable (scriptPubKey (out new)) then m else <[o := new]> m).
Proof.
  intros [Hok Hm] Hnew Hpo. unfold CCoinsViewCache.AddCoin. rewrite Hnew.
  destruct (IsUnspendable _); [by exists c|].
  set (e := default (CacheEntry coinEmpty 0) (cacheCoins c !! o)).
  assert (He : m !! o = None → IsSpent (coin e) = true).
  { intros Hn. rewrite <- Hm in Hn. unfold cache_contents in Hn. unfold e.
    destruct (cacheCoins c !! o) as [e'|]; [|done]. cbn. unfold unspent in Hn.
    by destruct (IsSpent (coin e')). }
  assert (negb po && negb (IsSpent (coin e)) = false) as ->.
  { destruct Hpo as [->|Hn]; [done|]. rewrite (He Hn). apply andb_false_r. }
  eexists. split; [done|]. split; [done|]. split.
  - apply insert_ok; [done|]. split; cbn [flags coin]; rewrite !has_lor; [by rewrite orb_true_r|].
    assert (Hold : has (flags e) FRESH = true → contents (base c) o = None).
    { unfold e. destruct (cacheCoins c !! o) as [e'|] eqn:Ho; [|done]. by apply Hok. }
    intros [Hf|Hf]%orb_true_iff; [by apply Hold|]. change (has DIRTY FRESH) with false in Hf.
    destruct po; [done|]. destruct (has (flags e) DIRTY) eqn:Hd; [done|].
    destruct Hpo as [|Hn]; [done|]. unfold e in *. rewrite <- Hm in Hn. unfold cache_contents in Hn.
    destruct (cacheCoins c !! o) as [e'|] eqn:Ho; [|done].
    destruct (proj2 Hok o e' Ho) as [Ha _]. cbn in Hd. by rewrite <- (Ha Hd).
  - intros x. rewrite insert_contents. case_decide as Hx.
    + subst x. rewrite lookup_insert_eq. by apply unspent_Some.
    + by rewrite lookup_insert_ne.
Qed.

(** The coin moved out is the one that was there; on an outpoint without a coin
    the set does not change. *)
Lemma SpendCoin_represents c m o :
  represents c m →
  ∃ r c', CCoinsViewCache.SpendCoin c o = (r, c') ∧ r ≫= unspent = m !! o ∧
    represents c' (delete o m) ∧ hashBlock c' = hashBlock c.
Proof.
  intros Hr. destruct (FetchCoin_represents c m o Hr) as (c' & Hf & [Hok Hm] & Hh & He).
  unfold CCoinsViewCache.SpendCoin. rewrite Hf.
  destruct (cacheCoins c' !! o) as [e|] eqn:Ho.
  - eexists _, _. split; [done|]. split; [done|]. split; [|done].
    pose proof (proj2 Hok o e Ho) as [_ Hfresh].
    destruct (has (flags e) FRESH) eqn:Hfl; split.
    + by apply delete_ok.
    + intros x. rewrite delete_contents. case_decide as Hx; [|by rewrite lookup_delete_ne, Hm].
      subst x. rewrite lookup_delete_eq. by apply Hfresh.
    + apply insert_ok; [done|]. split; cbn [flags]; rewrite has_lor.
      * by rewrite orb_true_r.
      * by rewrite Hfl.
    + intros x. rewrite insert_contents. case_decide as Hx; [|by rewrite lookup_delete_ne, Hm].
      subst x. by rewrite lookup_delete_eq.
  - exists None, c'. split; [done|]. split; [done|]. split; [|done].
    by rewrite delete_id.
Qed.

Lemma Uncache_represents c m o : represents c m → represents (CCoinsViewCache.Uncache c o) m.
Proof.
  intros [Hok Hm]. unfold CCoinsViewCache.Uncache.
  destruct (cacheCoins c !! o) as [e|] eqn:Ho; [|done].
  destruct (Z.eqb_spec (flags e) 0) as [H0|]; [|done]. split; [by apply delete_ok|].
  intros x. rewrite delete_contents. case_decide as Hx; [|done]. subst x.
  destruct (proj2 Hok o e Ho) as [Ha _]. rewrite <- Ha by (by rewrite H0).
  rewrite <- Hm. unfold cache_contents. by rewrite Ho.
Qed.

(** *** Writing back *)

(** One entry written into the cache below. *)
Lemma write_entry_spec c o e :
  cache_ok c →
  (has (flags e) DIRTY = true → has (flags e) FRESH = true → cache_contents c o = None) →
  ∃ m', CCoinsViewCache.write_entry (cacheCoins c) o e = Ok m' ∧
    cache_ok (CCoinsViewCache.set_coins m' c) ∧
    ∀ x, cache_contents (CCoinsViewCache.set_coins m' c) x =
         if decide (x = o) then (if has (flags e) DIRTY then unspent (coin e) else cache_contents c o)
         else cache_contents c x.
Proof.
  intros Hok Hfresh. unfold CCoinsViewCache.write_entry.
  assert (Hsame : ∀ v, v = cache_contents c o → ∀ x,
    cache_contents (CCoinsViewCache.set_coins (cacheCoins c) c) x =
    if decide (x = o) then v else cache_contents c x).
  { intros v -> x. case_decide as Hx; [by subst|done]. }
  destruct (has (flags e) DIRTY) eqn:Hd; cbn [negb].
  2:{ exists (cacheCoins c). split_and!; [done|by destruct c|]. by apply Hsame. }
  specialize (Hfresh eq_refl). destruct (cacheCoins c !! o) as [us|] eqn:Ho.
  - pose proof (proj2 Hok o us Ho) as [_ Hus].
    assert (has (flags e) FRESH && negb (IsSpent (coin us)) = false) as ->.
    { destruct (has (flags e) FRESH); [|done]. specialize (Hfresh eq_refl).
      unfold cache_contents in Hfresh. rewrite Ho in Hfresh. unfold unspent in Hfresh.
      by destruct (IsSpent (coin us)). }
    destruct (has (flags us) FRESH && IsSpent (coin e)) eqn:Hdel; eexists; (split; [done|]).
    + apply andb_true_iff in Hdel as [Hf Hs]. split; [by apply delete_ok|].
      intros x. rewrite delete_contents, (unspent_None _ Hs). case_decide; [by apply Hus|done].
    + split; [|intros x; by rewrite insert_contents]. apply insert_ok; [done|].
      split; cbn [flags]; rewrite has_lor; [by rewrite orb_true_r|].
      change (has DIRTY FRESH) with false. rewrite orb_false_r. exact Hus.
  - destruct (has (flags e) FRESH) eqn:Hf; cbn [andb].
    + specialize (Hfresh eq_refl). destruct (IsSpent (coin e)) eqn:Hs; cbn [negb].
      * exists (cacheCoins c). split_and!; [done|by destruct c|]. apply Hsame.
        by rewrite (unspent_None _ Hs).
      * eexists. split; [done|]. split; [|intros x; by rewrite insert_contents].
        apply insert_ok; [done|]. split; [done|]. intros _.
        unfold cache_contents in Hfresh. by rewrite Ho in Hfresh.
    + eexists. split; [done|]. split; [|intros x; by rewrite insert_contents].
      by apply insert_ok.
Qed.

Lemma write_entries_spec c l :
  cache_ok c → batch_ok (cache_contents c) l →
  ∃ m', CCoinsViewCache.write_entries (cacheCoins c) l = Ok m' ∧
    cache_ok (CCoinsViewCache.set_coins m' c) ∧
    ∀ x, cache_contents (CCoinsViewCache.set_coins m' c) x = after_batch l (cache_contents c) x.
Proof.
  revert c. induction l as [|[o e] l IH]; intros c Hok [Hnd Hl].
  { exists (cacheCoins c). split_and!; [done|by destruct c|done]. }
  apply Forall_cons in Hl as [He Hl]. apply NoDup_cons in Hnd as [Hni Hnd].
  destruct (write_entry_spec c o e Hok He) as (m1 & E1 & Hok1 & Hc1).
  cbn [CCoinsViewCache.write_entries]. rewrite E1. cbn [rbind].
  destruct (IH (CCoinsViewCache.set_coins m1 c) Hok1) as (m2 & E2 & Hok2 & Hc2).
  { split; [done|]. rewrite Forall_forall in Hl |- *. intros [o' e'] Hin Hd Hf.
    cbn [fst]. rewrite Hc1, decide_False; [exact (Hl _ Hin Hd Hf)|]. intros ->. apply Hni.
    by apply (list_elem_of_fmap_2 fst) in Hin. }
  exists m2. split_and!; [done|done|]. intros x.
  change (CCoinsViewCache.set_coins m2 c)
    with (CCoinsViewCache.set_coins m2 (CCoinsViewCache.set_coins m1 c)).
  rewrite Hc2, after_batch_cons. case_decide as Hx.
  - subst x. rewrite after_batch_notin, Hc1 by done. by rewrite decide_True.
  - apply after_batch_ext. rewrite Hc1. by rewrite decide_False.
Qed.

#[global] Program Instance cache_laws : CoinsViewLaws (cache V) := {|
  contents := cache_contents;
  view_ok := cache_ok
|}.
Next Obligation. intros c o x. apply cache_contents_unspent. Qed.
Next Obligation.
  intros c o Hok. destruct (FetchCoin_spec c o Hok) as (c' & Hf & Hok' & _ & Hc & Hn).
  exists c'. split; [|done]. cbn. unfold CCoinsViewCache.GetCoin. rewrite Hf.
  pose proof (Hc o) as Ho. unfold cache_contents at 1 in Ho.
  destruct (cacheCoins c' !! o) as [e|]; [by rewrite <- Ho|by rewrite Hn].
Qed.
Next Obligation. exact GetBestBlock_spec. Qed.
Next Obligation.
  intros c l h Hok Hl _. destruct (write_entries_spec c l Hok Hl) as (m' & E & Hok' & Hc').
  exists (Cache (base c) h (nBlockHeight c) m'). cbn. unfold CCoinsViewCache.BatchWrite.
  rewrite E. done.
Qed.

Lemma Flush_represents (iteration : gmap COutPoint CCoinsCacheEntry → list (COutPoint * CCoinsCacheEntry)) c m :
  (∀ x, iteration x ≡ₚ map_to_list x) → represents c m → hash_IsNull (hashBlock c) = false →
  ∃ c', CCoinsViewCache.Flush iteration c = Ok (true, c') ∧ represents c' m ∧
    hashBlock c' = hashBlock c ∧ ∀ o, contents (base c') o = m !! o.
Proof.
  intros Hit [[Hb Hc] Hm] Hh. unfold CCoinsViewCache.Flush.
  destruct (view_BatchWrite_law (base c) (iteration (cacheCoins c)) (hashBlock c) Hb)
    as (b & -> & Hb' & Heq); [|done|].
  { split; [by eapply iteration_NoDup|]. rewrite Hit. apply Forall_forall.
    intros [o e] He%elem_of_map_to_list _ Hf. by apply (Hc o e He). }
  cbn [rbind]. eexists. split; [done|].
  assert (Hall : ∀ o, contents b o = m !! o).
  { intros o. rewrite Heq, <- Hm. unfold cache_contents.
    rewrite (after_batch_perm _ (cacheCoins c) (contents (base c)) o (Hit (cacheCoins c))).
    destruct (cacheCoins c !! o) as [e|] eqn:Ho; [|done].
    destruct (has (flags e) DIRTY) eqn:Hd; [done|]. symmetry. by apply (Hc o e Ho). }
  split; [|done]. split; [split; [done|apply map_Forall_empty]|].
  intros o. unfold cache_contents. cbn. by rewrite lookup_empty.
Qed.

(** ** Sequences of operations *)

Inductive coins_op : Type :=
| OpGetCoin (o : COutPoint)
| OpHaveCoin (o : COutPoint)
| OpAccessCoin (o : COutPoint)
| OpAddCoin (o : COutPoint) (new : Coin) (possible_overwrite : bool)
| OpSpendCoin (o : COutPoint)
| OpUncache (o : COutPoint)
| OpSetBestBlock (h : bytes) (height : Z)
| OpFlush.

(** What a caller sees of an operation: a coin that is there, or a truth value. *)
Inductive observation : Type :=
| SawCoin (c : option Coin)
| SawBool (b : bool)
| SawNothing.

Section Trace.
Context (iteration : gmap COutPoint CCoinsCacheEntry → list (COutPoint * CCoinsCacheEntry)).

Definition run_op c (op : coins_op) : result coins_error (observation * cache V) :=
  match op with
  | OpGetCoin o => let '(r, c) := CCoinsViewCache.GetCoin c o in Ok (SawCoin r, c)
  | OpHaveCoin o => let '(r, c) := CCoinsViewCache.HaveCoin c o in Ok (SawBool r, c)
  | OpAccessCoin o => let '(r, c) := CCoinsViewCache.AccessCoin c o in Ok (SawCoin (unspent r), c)
  | OpAddCoin o new po => let! c := CCoinsViewCache.AddCoin c o new po in Ok (SawNothing, c)
  | OpSpendCoin o => let '(r, c) := CCoinsViewCache.SpendCoin c o in Ok (SawCoin (r ≫= unspent), c)
  | OpUncache o => Ok (SawNothing, CCoinsViewCache.Uncache c o)
  | OpSetBestBlock h height => Ok (SawNothing, CCoinsViewCache.SetBestBlock c h height)
  | OpFlush => let! (b, c) := CCoinsViewCache.Flush iteration c in Ok (SawBool b, c)
  end.

Fixpoint run_ops c (ops : list coins_op) : result coins_error (list observation * cache V) :=
  match ops with
  | [] => Ok ([], c)
  | op :: ops' =>
      let! (x, c) := run_op c op in
      let! (xs, c) := run_ops c ops' in
      Ok (x :: xs, c)
  end.

End Trace.
End Cache.

(** ** The specification: a finite map *)

Record utxo := Utxo { utxo_set : gmap COutPoint Coin; utxo_head : bytes }.

(** What callers must respect: a coin that is added is unspent, and there is none
    at its outpoint unless an overwrite is announced; a flush has a block. *)
Definition op_ok (s : utxo) (op : coins_op) : Prop :=
  match op with
  | OpAddCoin o new po => IsSpent new = false ∧ (po = true ∨ utxo_set s !! o = None)
  | OpFlush => hash_IsNull (utxo_head s) = false
  | _ => True
  end.

Definition spec_op (s : utxo) (op : coins_op) : observation * utxo :=
  match op with
  | OpGetCoin o | OpAccessCoin o => (SawCoin (utxo_set s !! o), s)
  | OpHaveCoin o => (SawBool (bool_decide (is_Some (utxo_set s !! o))), s)
  | OpAddCoin o new _ =>
      (SawNothing, if IsUnspendable (scriptPubKey (out new)) then s
                   else Utxo (<[o := new]> (utxo_set s)) (utxo_head s))
  | OpSpendCoin o => (SawCoin (utxo_set s !! o), Utxo (delete o (utxo_set s)) (utxo_head s))
  | OpUncache _ => (SawNothing, s)
  | OpSetBestBlock h _ => (SawNothing, Utxo (utxo_set s) h)
  | OpFlush => (SawBool true, s)
  end.

Fixpoint spec_ops (s : utxo) (ops : list coins_op) : list observation * utxo :=
  match ops with
  | [] => ([], s)
  | op :: ops' =>
      let '(x, s) := spec_op s op in
      let '(xs, s) := spec_ops s ops' in
      (x :: xs, s)
  end.

Fixpoint ops_ok (s : utxo) (ops : list coins_op) : Prop :=
  match ops with
  | [] => True
  | op :: ops' => op_ok s op ∧ ops_ok (spec_op s op).2 ops'
  end.

Section Refinement.
Context {V : Type} `{!CoinsView V} `{!CoinsViewLaws V}.
Context (iteration : gmap COutPoint CCoinsCacheEntry → list (COutPoint * CCoinsCacheEntry)).
Context (Hiteration : ∀ x, iteration x ≡ₚ map_to_list x).

Definition refines (c : cache V) (s : utxo) : Prop :=
  represents c (utxo_set s) ∧ hashBlock c = utxo_head s.

Lemma run_op_refines c s op :
  refines c s → op_ok s op →
  ∃ c', run_op iteration c op = Ok ((spec_op s op).1, c') ∧ refines c' (spec_op s op).2.
Proof using Hiteration.
  intros [Hr Hh] Hok. destruct op as [o|o|o|o new po|o|o|h height|]; cbn.
  - destruct (GetCoin_represents c _ o Hr) as (c' & -> & Hr' & E). exists c'.
    split; [done|]. split; [done|congruence].
  - destruct (HaveCoin_represents c _ o Hr) as (c' & -> & Hr' & E). exists c'.
    split; [done|]. split; [done|congruence].
  - destruct (AccessCoin_represents c _ o Hr) as (x & c' & -> & -> & Hr' & E). exists c'.
    split; [done|]. split; [done|congruence].
  - destruct Hok as [Hnew Hpo].
    destruct (AddCoin_represents c _ o new po Hr Hnew Hpo) as (c' & -> & E & Hr'). exists c'.
    split; [done|]. split; destruct (IsUnspendable _); cbn; congruence.
  - destruct (SpendCoin_represents c _ o Hr) as (r & c' & -> & -> & Hr' & E). exists c'.
    split; [done|]. split; [done|]. cbn. congruence.
  - eexists. split; [done|]. split; [by apply Uncache_represents|].
    unfold CCoinsViewCache.Uncache. destruct (cacheCoins c !! o) as [e|]; [|done].
    by destruct (flags e =? 0).
  - eexists. split; [done|]. split; [|done]. exact Hr.
  - destruct (Flush_represents iteration c _ Hiteration Hr) as (c' & -> & Hr' & E & _);
      [by rewrite Hh|]. exists c'. split; [done|]. split; [done|congruence].
Qed.

End Refinement.

(** ** Properties *)

(** C3: a stack of caches is a map.  Whatever lies below (a database, or another
    cache), any sequence of reads, additions, spends, evictions and flushes that
    respects the callers' obligations runs without an exception and shows
    exactly what the same operations on a finite map of unspent outputs show. *)
Theorem cache_refines_map {V : Type} `{!CoinsView V} `{!CoinsViewLaws V}
    (iteration : gmap COutPoint CCoinsCacheEntry → list (COutPoint * CCoinsCacheEntry))
    (c : cache V) (s : utxo) (ops : list coins_op) :
  (∀ x, iteration x ≡ₚ map_to_list x) → refines c s → ops_ok s ops →
  ∃ c', run_ops iteration c ops = Ok ((spec_ops s ops).1, c') ∧ refines c' (spec_ops s ops).2.
Proof.
  intros Hit. revert c s. induction ops as [|op ops IH]; intros c s Hr; [by exists c|].
  intros [Hop Hops]. destruct (run_op_refines iteration Hit c s op Hr Hop) as (c1 & E1 & Hr1).
  destruct (IH c1 _ Hr1 Hops) as (c2 & E2 & Hr2). exists c2. cbn [run_ops spec_ops].
  rewrite E1. cbn [rbind]. rewrite E2. destruct (spec_op s op) as [x s1].
  cbn [fst snd] in *. by destruct (spec_ops s1 ops).
Qed.

(** C17: a flush is safe at any moment.  Writing a batch to a consistent database
    ends with exactly the new coins and the new best block; in every state the
    disk goes through on the way, the two heads are recorded instead of a best
    block and every coin is as before or as after the batch, and writing the
    batch again from there gives the same coins. *)
Theorem interrupted_write_recoverable (d : CCoinsViewDB.t)
    (l : list (COutPoint * CCoinsCacheEntry)) (h : bytes) :
  DBFacts.consistent d → NoDup l.*1 → hash_IsNull h = false →
  let new := after_batch l (λ o, CCoinsViewDB.coins d !! o) in
  ∃ states d', CCoinsViewDB.BatchWrite d l h = Ok (states, d') ∧
    (∀ o, CCoinsViewDB.coins d' !! o = new o) ∧
    CCoinsViewDB.best_block d' = Some h ∧ CCoinsViewDB.head_blocks d' = None ∧
    Forall (λ s,
      CCoinsViewDB.best_block s = None ∧
      CCoinsViewDB.head_blocks s = Some [h; CCoinsViewDB.GetBestBlock d] ∧
      (∀ o, CCoinsViewDB.coins s !! o = CCoinsViewDB.coins d !! o ∨ CCoinsViewDB.coins s !! o = new o) ∧
      ∃ states' d'', CCoinsViewDB.BatchWrite s l h = Ok (states', d'') ∧
        ∀ o, CCoinsViewDB.coins d'' !! o = new o) states.
Proof.
  intros [_ Hheads] Hnd Hh new.
  pose proof (old_tip_consistent d h Hheads) as Htip.
  destruct (db_BatchWrite_final d l h _ Hh Htip Hnd) as (states & d' & E & Hc & Hb & Hn).
  exists states, d'. split_and!; [done..|]. apply Forall_forall. intros s Hs.
  destruct (BatchWrite_states d l h _ states d' s Hh Htip E Hs) as (l1 & l2 & Hl & ->).
  subst new l. exact (interrupted_state d h _ l1 l2 Hh Hnd).
Qed.

(** ** A cache over a cache over a database *)

Definition toy_point (k : Z) : COutPoint := OutPoint (replicate 32 1) k.
Definition toy_coin (v : Z) : Coin := MkCoin (TxOut v toy_script) false 6 OUTPUT_STANDARD.

Definition toy_db : CCoinsViewDB.t :=
  CCoinsViewDB.DB {[toy_point 0 := toy_coin 50]} (Some (replicate 32 3)) None
    (λ b, 2 <? Z.of_nat (length b)).

Definition toy_stack : cache (cache CCoinsViewDB.t) := Cache (Cache toy_db [] 0 ∅) [] 0 ∅.

Lemma toy_db_consistent : DBFacts.consistent toy_db.
Proof. split; [|done]. by apply map_Forall_singleton. Qed.

Lemma toy_stack_refines : refines toy_stack (Utxo {[toy_point 0 := toy_coin 50]} []).
Proof.
  split; [|done]. split; [|done].
  split; [|apply map_Forall_empty]. split; [|apply map_Forall_empty]. apply toy_db_consistent.
Qed.

Definition toy_ops : list coins_op :=
  [OpSpendCoin (toy_point 0); OpAddCoin (toy_point 1) (toy_coin 40) false; OpHaveCoin (toy_point 0);
   OpSetBestBlock (replicate 32 4) 7; OpFlush; OpGetCoin (toy_point 1); OpSpendCoin (toy_point 1);
   OpGetCoin (toy_point 1)].

Definition toy_utxo : utxo := Utxo {[toy_point 0 := toy_coin 50]} [].

Lemma cache_refines_map_witness :
  (spec_ops toy_utxo toy_ops).1 =
    [SawCoin (Some (toy_coin 50)); SawNothing; SawBool false; SawNothing; SawBool true;
     SawCoin (Some (toy_coin 40)); SawCoin (Some (toy_coin 40)); SawCoin None] ∧
  ∃ c', run_ops map_to_list toy_stack toy_ops = Ok ((spec_ops toy_utxo toy_ops).1, c') ∧
    refines c' (spec_ops toy_utxo toy_ops).2.
Proof.
  split; [vm_compute; reflexivity|].
  apply (cache_refines_map map_to_list toy_stack toy_utxo toy_ops).
  - reflexivity.
  - apply toy_stack_refines.
  - repeat split. by right.
Defined.

Definition toy_batch : list (COutPoint * CCoinsCacheEntry) :=
  [(toy_point 0, CacheEntry (Clear (toy_coin 50)) DIRTY);
   (toy_point 1, CacheEntry (toy_coin 40) (Z.lor DIRTY FRESH))].

Lemma interrupted_write_recoverable_witness :
  ∃ states d', CCoinsViewDB.BatchWrite toy_db toy_batch (replicate 32 4) = Ok (states, d') ∧
    CCoinsViewDB.best_block d' = Some (replicate 32 4).
Proof.
  destruct (interrupted_write_recoverable toy_db toy_batch (replicate 32 4)) as (st & d' & E & _ & Hb & _).
  - apply toy_db_consistent.
  - by_eval.
  - reflexivity.
  - exists st, d'. exact (conj E Hb).
Defined.
