(* ===== verification/Connect.v ===== *)
(** Connecting a transaction to the unspent outputs and disconnecting it again,
    after [AddCoins] and [AccessByTxid] of [src/src/coins.cpp] and [UpdateCoins],
    [ApplyTxInUndo] and [DisconnectBlock] of [src/src/validation.cpp].

    Of the loop body of [DisconnectBlock] this is what concerns the coins, for a
    transaction of the program's own format, whose inputs may be anonymous; the index
    of anonymous outputs and key images and the loops over a block are in
    [ConnectBlock].  The theorems hold for a cache over any view that keeps its laws. *)
From stdpp Require Import gmap strings.
From S2P Require Import Prelude Serialize Script Interpreter Transaction TxVerify Coins.
Open Scope Z_scope.

Inductive DisconnectResult : Set := DISCONNECT_OK | DISCONNECT_UNCLEAN | DISCONNECT_FAILED.

#[global] Instance DisconnectResult_eq_dec : EqDecision DisconnectResult.
Proof. solve_decision. Defined.

Section Connect.
Context {V : Type} `{!CoinsView V}.
Context (H : bytes → bytes).

(** [Coin(out, nHeight, fCoinBase)]: the height has 31 bits. *)
Definition new_coin (o : CTxOut) (nHeight : Z) (fCoinbase : bool) : Coin :=
  MkCoin o fCoinbase (nHeight mod 2 ^ 31) OUTPUT_STANDARD.

(** [bool overwrite = check ? cache.HaveCoin(o) : fCoinbase]. *)
Definition overwrite_flag (c : cache V) (check fCoinbase : bool) (o : COutPoint) : bool * cache V :=
  if check then CCoinsViewCache.HaveCoin c o else (fCoinbase, c).

Fixpoint add_vpout (c : cache V) (txid : bytes) (i : Z) (l : list (option CTxOutBase))
    (nHeight : Z) (check fCoinbase : bool) : result coins_error (cache V) :=
  match l with
  | [] => Ok c
  | o :: l' =>
      let op := OutPoint txid (u32 i) in
      let '(overwrite, c) := overwrite_flag c check fCoinbase op in
      match o with
      | None => Err NullDereference
      | Some (CTxOutStandard v s _) =>
          let! c := CCoinsViewCache.AddCoin c op (new_coin (TxOut v s) nHeight fCoinbase) overwrite in
          add_vpout c txid (i + 1) l' nHeight check fCoinbase
      | Some _ => add_vpout c txid (i + 1) l' nHeight check fCoinbase
      end
  end.

Fixpoint add_vout (c : cache V) (txid : bytes) (i : Z) (l : list CTxOut)
    (nHeight : Z) (check fCoinbase : bool) : result coins_error (cache V) :=
  match l with
  | [] => Ok c
  | o :: l' =>
      let op := OutPoint txid (u32 i) in
      let '(overwrite, c) := overwrite_flag c check fCoinbase op in
      let! c := CCoinsViewCache.AddCoin c op (new_coin o nHeight fCoinbase) overwrite in
      add_vout c txid (i + 1) l' nHeight check fCoinbase
  end.

(** [tx.IsCoinBase() || tx.IsCoinStake()]. *)
Definition is_generated (tx : CTransaction) : option bool :=
  if IsCoinBase tx then Some true else Transaction.IsCoinStake tx.

Definition or_null {A} (o : option A) : result coins_error A :=
  match o with Some a => Ok a | None => Err NullDereference end.

Definition AddCoins (c : cache V) (tx : CTransaction) (nHeight : Z) (check : bool)
  : result coins_error (cache V) :=
  let! fCoinbase := or_null (is_generated tx) in
  let! txid := or_null (ComputeHash H tx) in
  if Transaction.IsBitcoinCVersion tx then add_vpout c txid 0 (vpout tx) nHeight check fCoinbase
  else add_vout c txid 0 (vout tx) nHeight check fCoinbase.

(** The inputs marked spent, and the coins for the undo record. *)
Fixpoint spend_inputs (c : cache V) (ins : list CTxIn) : result coins_error (list Coin * cache V) :=
  match ins with
  | [] => Ok ([], c)
  | i :: ins' =>
      if IsAnonInput i then spend_inputs c ins'
      else
        let '(r, c) := CCoinsViewCache.SpendCoin c (prevout i) in
        match r with
        | None => Err AssertFailed
        | Some coin => let! (undo, c) := spend_inputs c ins' in Ok (coin :: undo, c)
        end
  end.

Definition UpdateCoins (c : cache V) (tx : CTransaction) (nHeight : Z)
  : result coins_error (list Coin * cache V) :=
  let! (undo, c) := if IsCoinBase tx then Ok ([], c) else spend_inputs c (vin tx) in
  let! c := AddCoins c tx nHeight false in
  Ok (undo, c).

(** [AccessByTxid]: an output of the transaction that is unspent; at most [fuel],
    the constant [MAX_OUTPUTS_PER_BLOCK], are tried. *)
Fixpoint AccessByTxid (fuel : nat) (c : cache V) (txid : bytes) (k : Z) : Coin * cache V :=
  match fuel with
  | O => (coinEmpty, c)
  | S f =>
      let '(alternate, c) := CCoinsViewCache.AccessCoin c (OutPoint txid k) in
      if negb (IsSpent alternate) then (alternate, c) else AccessByTxid f c txid (k + 1)
  end.

Definition ApplyTxInUndo (MAX_OUTPUTS_PER_BLOCK : nat) (undo : Coin) (c : cache V) (o : COutPoint)
  : result coins_error (DisconnectResult * cache V) :=
  let '(have, c) := CCoinsViewCache.HaveCoin c o in
  let add undo c :=
    let! c := CCoinsViewCache.AddCoin c o undo have in
    Ok (if have then DISCONNECT_UNCLEAN else DISCONNECT_OK, c) in
  if coin_nHeight undo =? 0 then
    let '(alternate, c) := AccessByTxid MAX_OUTPUTS_PER_BLOCK c (hash o) 0 in
    if negb (IsSpent alternate)
    then add (MkCoin (out undo) (fCoinBase alternate) (coin_nHeight alternate) (nType undo)) c
    else Ok (DISCONNECT_FAILED, c)
  else add undo c.

(** The outputs of a transaction taken back, from the last to the first; the
    truth value is [fClean]. *)
Fixpoint remove_outputs (c : cache V) (txid : bytes) (i : Z) (l : list (option CTxOutBase))
    (nHeight : Z) (is_coinbase : bool) : result coins_error (bool * cache V) :=
  match l with
  | [] => Ok (true, c)
  | o :: l' =>
      let! (fClean, c) := remove_outputs c txid (i + 1) l' nHeight is_coinbase in
      match o with
      | None => Err NullDereference
      | Some (CTxOutStandard v s _) =>
          if negb (IsUnspendable s) then
            let '(r, c) := CCoinsViewCache.SpendCoin c (OutPoint txid (u32 i)) in
            match r with
            | None => Ok (false, c)
            | Some coin =>
                Ok (fClean && ((nValue (out coin) =? v) && bool_decide (scriptPubKey (out coin) = s)
                               && (coin_nHeight coin =? nHeight)
                               && eqb (fCoinBase coin) is_coinbase), c)
            end
          else Ok (fClean, c)
      | Some _ => Ok (fClean, c)
      end
  end.

(** The inputs restored, from the last to the first; [j] is the index of the
    first input of [ins]. *)
Fixpoint restore_inputs (MAX_OUTPUTS_PER_BLOCK : nat) (c : cache V) (ins : list CTxIn) (j : nat)
    (vprevout : list Coin) : result coins_error (DisconnectResult * cache V) :=
  match ins with
  | [] => Ok (DISCONNECT_OK, c)
  | i :: ins' =>
      let! (r, c) := restore_inputs MAX_OUTPUTS_PER_BLOCK c ins' (S j) vprevout in
      if bool_decide (r = DISCONNECT_FAILED) then Ok (r, c)
      else if IsAnonInput i then Ok (r, c)
      else
        match vprevout !! j with
        | None => Err OutOfRange
        | Some undo =>
            let! (res, c) := ApplyTxInUndo MAX_OUTPUTS_PER_BLOCK undo c (prevout i) in
            Ok (match res with DISCONNECT_OK => r | _ => res end, c)
        end
  end.

(** One transaction of [DisconnectBlock] on the coins. *)
Definition disconnect_tx (MAX_OUTPUTS_PER_BLOCK : nat) (c : cache V) (tx : CTransaction)
    (txundo : list Coin) (nHeight : Z) : result coins_error (DisconnectResult * cache V) :=
  let! txid := or_null (ComputeHash H tx) in
  let! is_coinbase := or_null (is_generated tx) in
  let! (fClean, c) := remove_outputs c txid 0 (vpout tx) nHeight is_coinbase in
  let dirty r := if fClean then r else DISCONNECT_UNCLEAN in
  if IsCoinBase tx then Ok (dirty DISCONNECT_OK, c)
  else
    let nExpectUndo := length (filter (λ i, IsAnonInput i = false) (vin tx)) in
    if negb (length txundo =? nExpectUndo)%nat then Ok (DISCONNECT_FAILED, c)
    else
      let! (r, c) := restore_inputs MAX_OUTPUTS_PER_BLOCK c (vin tx) 0 txundo in
      Ok (match r with DISCONNECT_OK => dirty DISCONNECT_OK | _ => r end, c).

End Connect.

(** ** Specification *)

(** The coins a transaction creates: the standard outputs that can be spent. *)
Fixpoint created (txid : bytes) (nHeight : Z) (cb : bool) (i : Z) (l : list (option CTxOutBase))
  : list (COutPoint * Coin) :=
  match l with
  | [] => []
  | Some (CTxOutStandard v s _) :: l' =>
      if IsUnspendable s then created txid nHeight cb (i + 1) l'
      else (OutPoint txid i, new_coin (TxOut v s) nHeight cb) :: created txid nHeight cb (i + 1) l'
  | _ :: l' => created txid nHeight cb (i + 1) l'
  end.

(** The coins without those of some inputs, and with others put back. *)
Definition spend (m : gmap COutPoint Coin) (ins : list CTxIn) : gmap COutPoint Coin :=
  foldl (λ m i, delete (prevout i) m) m ins.
Definition create (m : gmap COutPoint Coin) (l : list (COutPoint * Coin)) : gmap COutPoint Coin :=
  foldl (λ m x, <[x.1 := x.2]> m) m l.

(** The coins of the inputs. *)
Definition spent_coins (m : gmap COutPoint Coin) (ins : list CTxIn) : list Coin :=
  map (λ i, default coinEmpty (m !! prevout i)) ins.

(** ** Lemmas on the specification *)

Lemma spend_lookup m ins o :
  spend m ins !! o = if bool_decide (o ∈ map prevout ins) then None else m !! o.
Proof.
  revert m. induction ins as [|i ins IH]; intros m; [done|]. cbn [spend foldl map]. fold (spend (delete (prevout i) m) ins).
  rewrite IH. destruct (decide (o = prevout i)) as [->|Hne].
  - rewrite lookup_delete_eq. rewrite (bool_decide_true (prevout i ∈ prevout i :: _)) by apply list_elem_of_here.
    by destruct (bool_decide _).
  - rewrite lookup_delete_ne by done. erewrite (bool_decide_ext (o ∈ prevout i :: _)); [done|].
    rewrite elem_of_cons. intuition.
Qed.

Lemma create_lookup m l o :
  NoDup l.*1 → create m l !! o = match (list_to_map l : gmap _ _) !! o with Some c => Some c | None => m !! o end.
Proof.
  revert m. induction l as [|[k x] l IH]; intros m Hnd; [done|].
  apply NoDup_cons in Hnd as [Hni Hnd]. cbn [create foldl fst snd]. fold (create (<[k := x]> m) l).
  rewrite IH by done. rewrite list_to_map_cons. cbn [fst snd]. destruct (decide (o = k)) as [->|Hne].
  - rewrite !lookup_insert_eq. by rewrite not_elem_of_list_to_map_1.
  - by rewrite !lookup_insert_ne.
Qed.

Lemma created_index txid nHeight cb i l o :
  o ∈ (created txid nHeight cb i l).*1 →
  ∃ j, o = OutPoint txid j ∧ i <= j < i + Z.of_nat (length l).
Proof.
  revert i. induction l as [|x l IH]; intros i Ho; [by apply not_elem_of_nil in Ho|].
  assert (Hrec : o ∈ (created txid nHeight cb (i + 1) l).*1 →
    ∃ j, o = OutPoint txid j ∧ i <= j < i + Z.of_nat (length (x :: l))).
  { intros (j & -> & Hj)%IH. exists j. cbn [length]. split; [done|lia]. }
  destruct x as [[v s sig|? ? ? ? ?|?]|]; cbn [created] in Ho; auto.
  destruct (IsUnspendable s); [auto|]. apply elem_of_cons in Ho as [->|Ho]; [|auto].
  exists i. cbn [length]. split; [done|lia].
Qed.

Lemma created_NoDup txid nHeight cb i l : NoDup (created txid nHeight cb i l).*1.
Proof.
  revert i. induction l as [|x l IH]; intros i; [constructor|].
  destruct x as [[v s sig|? ? ? ? ?|?]|]; cbn [created]; auto. destruct (IsUnspendable s); [auto|].
  cbn [fmap list_fmap fst]. apply NoDup_cons. split; [|auto].
  intros (j & [= ->] & Hj)%created_index. lia.
Qed.

(** Created coins taken away again, and spent ones put back. *)
Definition uncreate (m : gmap COutPoint Coin) (l : list (COutPoint * Coin)) : gmap COutPoint Coin :=
  foldr (λ x m, delete x.1 m) m l.
Definition put_back (m0 m : gmap COutPoint Coin) (ins : list CTxIn) : gmap COutPoint Coin :=
  foldr (λ i m, <[prevout i := default coinEmpty (m0 !! prevout i)]> m) m ins.

Lemma uncreate_lookup m l o :
  uncreate m l !! o = if bool_decide (o ∈ l.*1) then None else m !! o.
Proof.
  induction l as [|[k x] l IH]; [done|]. cbn [uncreate foldr fst fmap list_fmap]. fold (uncreate m l).
  destruct (decide (o = k)) as [->|Hne].
  - rewrite lookup_delete_eq, bool_decide_true by apply list_elem_of_here. done.
  - rewrite lookup_delete_ne, IH by done. erewrite (bool_decide_ext (o ∈ k :: _)); [done|].
    rewrite elem_of_cons. intuition.
Qed.

Lemma put_back_lookup m0 m ins o :
  put_back m0 m ins !! o =
  if bool_decide (o ∈ map prevout ins) then Some (default coinEmpty (m0 !! o)) else m !! o.
Proof.
  induction ins as [|i ins IH]; [done|]. cbn [put_back foldr map]. fold (put_back m0 m ins).
  destruct (decide (o = prevout i)) as [->|Hne].
  - rewrite lookup_insert_eq, bool_decide_true by apply list_elem_of_here. done.
  - rewrite lookup_insert_ne, IH by done. erewrite (bool_decide_ext (o ∈ prevout i :: _)); [done|].
    rewrite elem_of_cons. intuition.
Qed.

(** Undoing everything gives back the set there was. *)
Lemma undo_all m ins l :
  NoDup l.*1 → Forall (λ i, is_Some (m !! prevout i)) ins → (∀ o, o ∈ l.*1 → m !! o = None) →
  uncreate (create (spend m ins) l) l = spend m ins ∧ put_back m (spend m ins) ins = m.
Proof.
  intros Hnd Hins Hl. split; apply map_eq; intros o.
  - rewrite uncreate_lookup. case_bool_decide as Ho.
    + rewrite spend_lookup, Hl by done. by destruct (bool_decide _).
    + by rewrite create_lookup, not_elem_of_list_to_map_1.
  - rewrite put_back_lookup, spend_lookup. case_bool_decide as Ho; [|done].
    apply list_elem_of_fmap in Ho as (i & -> & Hi). rewrite Forall_forall in Hins.
    by destruct (Hins i Hi) as [x ->].
Qed.

(** The inputs that spend coins; a transaction has only those or only anonymous
    ones. *)
Definition standard (ins : list CTxIn) : list CTxIn := filter (λ i, IsAnonInput i = false) ins.
Definition unmixed (ins : list CTxIn) : Prop :=
  Forall (λ i, IsAnonInput i = false) ins ∨ Forall (λ i, IsAnonInput i = true) ins.

Lemma standard_cons i ins :
  standard (i :: ins) = if IsAnonInput i then standard ins else i :: standard ins.
Proof.
  unfold standard. rewrite filter_cons. destruct (IsAnonInput i); [by rewrite decide_False|by rewrite decide_True].
Qed.

Lemma standard_anon ins : Forall (λ i, IsAnonInput i = true) ins → standard ins = [].
Proof. induction 1 as [|i ins Hi _ IH]; [done|]. by rewrite standard_cons, Hi. Qed.

Lemma filter_all (P : CTxIn → Prop) `{!∀ x, Decision (P x)} l : Forall P l → filter P l = l.
Proof. induction 1 as [|x l Hx _ IH]; [done|]. by rewrite filter_cons, decide_True, IH. Qed.

Section Facts.
Context {V : Type} `{!CoinsView V} `{!CoinsViewLaws V}.
Context (H : bytes → bytes).
Implicit Types c : cache V.

Lemma spend_inputs_represents c m ins :
  represents c m → NoDup (map prevout (standard ins)) →
  Forall (λ i, is_Some (m !! prevout i)) (standard ins) →
  ∃ c', spend_inputs c ins = Ok (spent_coins m (standard ins), c') ∧ represents c' (spend m (standard ins)).
Proof.
  revert c m. induction ins as [|i ins IH]; intros c m Hr Hnd Hm; [by exists c|].
  cbn [spend_inputs]. rewrite standard_cons in *. destruct (IsAnonInput i) eqn:Hi; [by apply IH|].
  apply Forall_cons in Hm as [[x Hx] Hm]. apply NoDup_cons in Hnd as [Hni Hnd].
  destruct (SpendCoin_represents c m (prevout i) Hr) as (r & c1 & -> & Hr1 & Hc1 & _).
  rewrite Hx in Hr1. destruct r as [y|]; [|done]. apply unspent_inv in Hr1 as [-> _].
  assert (Hdel : Forall (λ k, delete (prevout i) m !! prevout k = m !! prevout k) (standard ins)).
  { apply Forall_forall. intros k Hk. apply lookup_delete_ne. intros E. apply Hni.
    rewrite E. by apply list_elem_of_fmap_2. }
  destruct (IH c1 (delete (prevout i) m) Hc1 Hnd) as (c2 & -> & Hc2).
  { rewrite Forall_forall in Hdel, Hm |- *. intros k Hk. rewrite (Hdel k Hk). by apply Hm. }
  cbn [rbind]. exists c2. split; [|done]. do 2 f_equal. unfold spent_coins. cbn [map]. rewrite Hx.
  cbn. f_equal. apply map_ext_in. intros k Hk. rewrite Forall_forall in Hdel.
  by rewrite Hdel by by apply list_elem_of_In.
Qed.

(** Outpoints of the outputs from [i] on that hold no coin. *)
Definition free_from (m : gmap COutPoint Coin) (txid : bytes) (i k : Z) : Prop :=
  ∀ j, i <= j < k → m !! OutPoint txid j = None.

Lemma add_vpout_represents c m txid i l nHeight check cb :
  represents c m → 0 <= i → i + Z.of_nat (length l) <= 2 ^ 32 →
  Forall is_Some l → Forall (λ v, 0 <= v) (plain_values l) →
  free_from m txid i (i + Z.of_nat (length l)) →
  ∃ c', add_vpout c txid i l nHeight check cb = Ok c' ∧
        represents c' (create m (created txid nHeight cb i l)).
Proof.
  intros Hr Hi Hl Hs. revert c m i Hr Hi Hl.
  induction Hs as [|o l [o' ->] _ IH]; intros c m i Hr Hi Hl Hv Hfree; [by exists c|].
  cbn [length] in Hl, Hfree. cbn [add_vpout]. unfold u32. rewrite (Z.mod_small i) by lia.
  assert (∃ ow c1, overwrite_flag c check cb (OutPoint txid i) = (ow, c1) ∧ represents c1 m)
    as (ow & c1 & -> & Hr1).
  { unfold overwrite_flag. destruct check; [|by eexists _, _].
    destruct (HaveCoin_represents c m (OutPoint txid i) Hr) as (c1 & -> & Hr1 & _). by eexists _, _. }
  assert (Hfree' : free_from m txid (i + 1) (i + 1 + Z.of_nat (length l))).
  { intros j Hj. apply Hfree. lia. }
  destruct o' as [v s sig|? ? ? ? ?|?]; cbn [created plain_values flat_map app] in *.
  2,3: apply IH; [done|lia|lia|done|done].
  apply Forall_cons in Hv as [Hv Hvs].
  destruct (AddCoin_represents c1 m (OutPoint txid i) (new_coin (TxOut v s) nHeight cb) ow Hr1)
    as (c2 & -> & _ & Hr2).
  { unfold IsSpent. cbn. apply Z.eqb_neq. lia. }
  { right. apply Hfree. lia. }
  cbn [rbind]. cbn [new_coin out scriptPubKey] in Hr2. destruct (IsUnspendable s).
  - apply IH; [done|lia|lia|done|done].
  - cbn [create foldl fst snd]. fold (create (<[OutPoint txid i := new_coin (TxOut v s) nHeight cb]> m)
      (created txid nHeight cb (i + 1) l)).
    apply IH; [done|lia|lia|done|]. intros j Hj. rewrite lookup_insert_ne; [by apply Hfree'|].
    intros [= E]. lia.
Qed.

Lemma remove_outputs_represents c m txid i l nHeight cb :
  represents c m → 0 <= i → i + Z.of_nat (length l) <= 2 ^ 32 → 0 <= nHeight < 2 ^ 31 →
  Forall is_Some l → Forall (λ x, m !! x.1 = Some x.2) (created txid nHeight cb i l) →
  ∃ c', remove_outputs c txid i l nHeight cb = Ok (true, c') ∧
        represents c' (uncreate m (created txid nHeight cb i l)).
Proof.
  intros Hr Hi Hl Hh Hs. revert i Hi Hl.
  induction Hs as [|o l [o' ->] _ IH]; intros i Hi Hl Hm; [by exists c|].
  cbn [length] in Hl. cbn [remove_outputs].
  assert (Hm' : Forall (λ x, m !! x.1 = Some x.2) (created txid nHeight cb (i + 1) l)).
  { destruct o' as [v s sig|? ? ? ? ?|?]; cbn [created] in Hm; [|done..].
    destruct (IsUnspendable s); [done|by apply Forall_cons in Hm as [_ ?]]. }
  destruct (IH (i + 1)) as (c1 & -> & Hr1); [lia|lia|done|]. cbn [rbind].
  destruct o' as [v s sig|? ? ? ? ?|?]; cbn [created] in Hm |- *; [|by exists c1..].
  destruct (IsUnspendable s); cbn [negb]; [by exists c1|].
  apply Forall_cons in Hm as [Hx _]. cbn [fst snd] in Hx.
  unfold u32. rewrite (Z.mod_small i) by lia.
  destruct (SpendCoin_represents c1 _ (OutPoint txid i) Hr1) as (r & c2 & -> & Hr2 & Hc2 & _).
  rewrite uncreate_lookup, bool_decide_false, Hx in Hr2.
  2:{ intros (j & [= ->] & Hj)%created_index. lia. }
  destruct r as [y|]; [|done]. apply unspent_inv in Hr2 as [-> _]. exists c2. split; [|done].
  unfold new_coin. cbn [out nValue scriptPubKey coin_nHeight fCoinBase].
  by rewrite Z.eqb_refl, bool_decide_true, (Z.mod_small nHeight), Z.eqb_refl, eqb_reflx.
Qed.

(** A coin whose undo record is complete. *)
Definition undoable (x : Coin) : Prop :=
  IsSpent x = false ∧ coin_nHeight x ≠ 0 ∧ IsUnspendable (scriptPubKey (out x)) = false.

Lemma ApplyTxInUndo_represents MAX c m o x :
  represents c m → m !! o = None → undoable x →
  ∃ c', ApplyTxInUndo MAX x c o = Ok (DISCONNECT_OK, c') ∧ represents c' (<[o := x]> m).
Proof.
  intros Hr Ho (Hu & Hh & Hs). unfold ApplyTxInUndo.
  destruct (HaveCoin_represents c m o Hr) as (c1 & -> & Hr1 & _).
  rewrite Ho, bool_decide_false by by intros []. rewrite (proj2 (Z.eqb_neq _ 0) Hh).
  destruct (AddCoin_represents c1 m o x false Hr1 Hu) as (c2 & -> & _ & Hr2); [by right|].
  rewrite Hs in Hr2. cbn [rbind]. by exists c2.
Qed.

Lemma restore_inputs_represents MAX c m0 m ins j us :
  represents c m → Forall (λ i, IsAnonInput i = false) ins → NoDup (map prevout ins) →
  Forall (λ i, m !! prevout i = None) ins →
  Forall (λ i, undoable (default coinEmpty (m0 !! prevout i))) ins →
  (∀ k, spent_coins m0 ins !! k = us !! (j + k)%nat ∨ (length ins <= k)%nat) →
  ∃ c', restore_inputs MAX c ins j us = Ok (DISCONNECT_OK, c') ∧ represents c' (put_back m0 m ins).
Proof.
  intros Hr Ha. revert j. induction Ha as [|i ins Hi _ IH]; intros j Hnd Hm Hx Hus; [by exists c|].
  apply NoDup_cons in Hnd as [Hni Hnd]. apply Forall_cons in Hm as [Hmi Hm].
  apply Forall_cons in Hx as [Hxi Hx]. cbn [restore_inputs].
  destruct (IH (S j)) as (c1 & -> & Hr1); [done|done|done| |].
  { intros k. destruct (Hus (S k)) as [E|E]; [left|right; cbn in E; lia].
    change (spent_coins m0 ins !! k = us !! (j + S k)%nat) in E. rewrite E. f_equal. lia. }
  cbn [rbind]. rewrite bool_decide_false, Hi by done.
  destruct (Hus 0%nat) as [E|E]; [|cbn in E; lia].
  rewrite Nat.add_0_r in E. change (Some (default coinEmpty (m0 !! prevout i)) = us !! j) in E.
  rewrite <- E. destruct (ApplyTxInUndo_represents MAX c1 _ (prevout i)
    (default coinEmpty (m0 !! prevout i)) Hr1) as (c2 & -> & Hr2); [|done|].
  { by rewrite put_back_lookup, bool_decide_false. }
  cbn [rbind]. by exists c2.
Qed.

Lemma restore_inputs_anon MAX c ins j us :
  Forall (λ i, IsAnonInput i = true) ins → restore_inputs MAX c ins j us = Ok (DISCONNECT_OK, c).
Proof.
  intros Ha. revert j. induction Ha as [|i ins Hi _ IH]; intros j; [done|].
  cbn [restore_inputs]. rewrite IH. cbn [rbind]. by rewrite bool_decide_false, Hi by done.
Qed.

(** A transaction that fits a set of unspent outputs at a height: of the program's
    own format, with inputs of one kind, spending distinct coins, and with room for its
    outputs. *)
Definition connectable (m : gmap COutPoint Coin) (tx : CTransaction) (txid : bytes) (nHeight : Z) : Prop :=
  Transaction.IsBitcoinCVersion tx = true ∧ Forall is_Some (vpout tx) ∧
  Forall (λ v, 0 <= v) (plain_values (vpout tx)) ∧
  Z.of_nat (length (vpout tx)) <= 2 ^ 32 ∧ 0 <= nHeight < 2 ^ 31 ∧
  free_from m txid 0 (Z.of_nat (length (vpout tx))) ∧
  (IsCoinBase tx = false →
   unmixed (vin tx) ∧ NoDup (map prevout (standard (vin tx))) ∧
   Forall (λ i, is_Some (m !! prevout i)) (standard (vin tx))).

(** Every coin the transaction spends has a complete undo record. *)
Definition restorable (m : gmap COutPoint Coin) (tx : CTransaction) : Prop :=
  IsCoinBase tx = false → Forall (λ i, undoable (default coinEmpty (m !! prevout i))) (standard (vin tx)).

(** The set after the transaction, and its undo record. *)
Definition connected (m : gmap COutPoint Coin) (tx : CTransaction) (txid : bytes) (nHeight : Z)
    (cb : bool) : gmap COutPoint Coin :=
  create (if IsCoinBase tx then m else spend m (standard (vin tx))) (created txid nHeight cb 0 (vpout tx)).
Definition undo_record (m : gmap COutPoint Coin) (tx : CTransaction) : list Coin :=
  if IsCoinBase tx then [] else spent_coins m (standard (vin tx)).

Lemma UpdateCoins_spec c m tx txid nHeight cb :
  represents c m → ComputeHash H tx = Some txid → is_generated tx = Some cb →
  connectable m tx txid nHeight →
  ∃ c', UpdateCoins H c tx nHeight = Ok (undo_record m tx, c') ∧
        represents c' (connected m tx txid nHeight cb).
Proof.
  intros Hr Hid Hcb (Hv & Hs & Hpos & Hlen & Hh & Hfree & Hin). unfold UpdateCoins, AddCoins.
  assert (∃ c1, (if IsCoinBase tx then Ok ([], c) else spend_inputs c (vin tx))
            = Ok (undo_record m tx, c1) ∧
          represents c1 (if IsCoinBase tx then m else spend m (standard (vin tx)))) as (c1 & -> & Hr1).
  { unfold undo_record. destruct (IsCoinBase tx); [by exists c|].
    destruct (Hin eq_refl) as (_ & Hnd & Hall). by apply spend_inputs_represents. }
  cbn [rbind]. rewrite Hcb, Hid, Hv. cbn [or_null rbind].
  destruct (add_vpout_represents c1 _ txid 0 (vpout tx) nHeight false cb Hr1)
    as (c2 & -> & Hr2); [lia|lia|done|done| |cbn [rbind]; by exists c2].
  intros j Hj. destruct (IsCoinBase tx); [by apply Hfree|]. rewrite spend_lookup, Hfree by done.
  by destruct (bool_decide _).
Qed.

(** The inputs restored when the outputs are gone. *)
Lemma restore_represents MAX c m tx :
  represents c (spend m (standard (vin tx))) → unmixed (vin tx) →
  NoDup (map prevout (standard (vin tx))) →
  Forall (λ i, undoable (default coinEmpty (m !! prevout i))) (standard (vin tx)) →
  ∃ c', restore_inputs MAX c (vin tx) 0 (spent_coins m (standard (vin tx))) = Ok (DISCONNECT_OK, c') ∧
        represents c' (put_back m (spend m (standard (vin tx))) (standard (vin tx))).
Proof.
  intros Hr [Ha|Ha] Hnd Hall.
  - unfold standard in *. rewrite (filter_all _ _ Ha) in *.
    apply restore_inputs_represents; [done..| | |].
    + apply Forall_forall. intros i Hi. rewrite spend_lookup, bool_decide_true; [done|].
      by apply list_elem_of_fmap_2.
    + done.
    + intros k. by left.
  - rewrite (standard_anon _ Ha) in *. exists c. split; [by apply restore_inputs_anon|done].
Qed.

Lemma disconnect_tx_spec MAX c m tx txid nHeight cb :
  ComputeHash H tx = Some txid → is_generated tx = Some cb → connectable m tx txid nHeight → restorable m tx →
  represents c (connected m tx txid nHeight cb) →
  ∃ c', disconnect_tx H MAX c tx (undo_record m tx) nHeight = Ok (DISCONNECT_OK, c') ∧ represents c' m.
Proof.
  intros Hid Hcb (Hv & Hs & Hpos & Hlen & Hh & Hfree & Hin) Hrest Hr. unfold disconnect_tx.
  rewrite Hid, Hcb. cbn [or_null rbind].
  pose proof (created_NoDup txid nHeight cb 0 (vpout tx)) as Hnd.
  assert (Hnew : ∀ o, o ∈ (created txid nHeight cb 0 (vpout tx)).*1 → m !! o = None).
  { intros o (j & -> & Hj)%created_index. apply Hfree. lia. }
  destruct (remove_outputs_represents c _ txid 0 (vpout tx) nHeight cb Hr) as (c1 & -> & Hr1);
    [lia|lia|done|done| |].
  { apply Forall_forall. intros [o x] Hx. unfold connected. rewrite create_lookup by done. cbn [fst snd].
    by rewrite (elem_of_list_to_map_1 _ o x). }
  cbn [rbind]. unfold connected, undo_record, restorable in *. destruct (IsCoinBase tx).
  { exists c1. split; [done|]. pose proof (proj1 (undo_all m [] _ Hnd (Forall_nil_2 _) Hnew)) as E.
    change (spend m []) with m in E. by rewrite E in Hr1. }
  destruct (Hin eq_refl) as (Ha & Hnd' & Hsome). specialize (Hrest eq_refl).
  destruct (undo_all m (standard (vin tx)) _ Hnd Hsome Hnew) as [E1 E2]. rewrite E1 in Hr1.
  fold (standard (vin tx)). unfold spent_coins at 1. rewrite length_map, Nat.eqb_refl. cbn [negb].
  destruct (restore_represents MAX c1 m tx Hr1 Ha Hnd' Hrest) as (c2 & -> & Hr2).
  cbn [rbind]. exists c2. by rewrite <- E2.
Qed.

End Facts.

(** ** Properties *)

(** Connecting a transaction.  [UpdateCoins] never fails on a transaction that fits;
    it takes exactly the coins of the inputs out of the set, puts exactly the
    spendable standard outputs in, and records the coins it took. *)
Theorem UpdateCoins_correct {V : Type} `{!CoinsView V} `{!CoinsViewLaws V} (H : bytes → bytes)
    (c : cache V) (m : gmap COutPoint Coin) (tx : CTransaction) (txid : bytes) (nHeight : Z) (cb : bool) :
  represents c m → ComputeHash H tx = Some txid → is_generated tx = Some cb →
  connectable m tx txid nHeight →
  ∃ c', UpdateCoins H c tx nHeight = Ok (undo_record m tx, c') ∧
        represents c' (connected m tx txid nHeight cb).
Proof. apply UpdateCoins_spec. Qed.

(** Disconnecting undoes connecting, if no coin of height zero is spent.  From any cache
    that stands for the set after the transaction, [DisconnectBlock]'s steps with the undo record end cleanly and
    leave a cache that stands for exactly the set there was before. *)
Theorem disconnect_roundtrip {V : Type} `{!CoinsView V} `{!CoinsViewLaws V} (H : bytes → bytes)
    (MAX : nat) (c : cache V) (m : gmap COutPoint Coin) (tx : CTransaction) (txid : bytes)
    (nHeight : Z) (cb : bool) :
  ComputeHash H tx = Some txid → is_generated tx = Some cb → connectable m tx txid nHeight → restorable m tx →
  represents c (connected m tx txid nHeight cb) →
  ∃ c', disconnect_tx H MAX c tx (undo_record m tx) nHeight = Ok (DISCONNECT_OK, c') ∧ represents c' m.
Proof. apply disconnect_tx_spec. Qed.

(** ** A payment connected and disconnected *)

Definition toy_set : gmap COutPoint Coin := {[toy_point 0 := toy_coin 50]}.
Definition toy_hash (_ : bytes) : bytes := replicate 32 9.

(** A cache over a database that holds a set. *)
Definition cache_of (m : gmap COutPoint Coin) : cache CCoinsViewDB.t :=
  Cache (CCoinsViewDB.DB m None None (λ _, false)) [] 0 ∅.

Lemma cache_of_represents m : map_Forall (λ _ x, IsSpent x = false) m → represents (cache_of m) m.
Proof. intros Hm. split; [|done]. split; [|apply map_Forall_empty]. by split. Qed.

Lemma pay_connectable : connectable toy_set pay (replicate 32 9) 7.
Proof.
  split_and!; try by_eval.
  intros j _. unfold toy_set. by apply lookup_singleton_ne.
Qed.

Lemma UpdateCoins_correct_witness :
  ∃ c', UpdateCoins toy_hash (cache_of toy_set) pay 7 = Ok ([toy_coin 50], c') ∧
        represents c' (connected toy_set pay (replicate 32 9) 7 false).
Proof.
  apply (UpdateCoins_correct toy_hash (cache_of toy_set) toy_set pay (replicate 32 9) 7 false).
  - apply cache_of_represents. by_eval.
  - reflexivity.
  - reflexivity.
  - apply pay_connectable.
Defined.

Lemma disconnect_roundtrip_witness :
  ∃ c', disconnect_tx toy_hash 10 (cache_of (connected toy_set pay (replicate 32 9) 7 false)) pay
          [toy_coin 50] 7 = Ok (DISCONNECT_OK, c') ∧ represents c' toy_set.
Proof.
  apply (disconnect_roundtrip toy_hash 10
    (cache_of (connected toy_set pay (replicate 32 9) 7 false)) toy_set pay (replicate 32 9) 7 false).
  - reflexivity.
  - reflexivity.
  - apply pay_connectable.
  - intros _. by_eval.
  - apply cache_of_represents. by_eval.
Defined.
