(* ===== verification/Compressor.v ===== *)
(** The records of the coin database and of the undo files, after
    [src/src/compressor.h], [src/src/compressor.cpp], [src/src/undo.h] and the
    serialization of [Coin] in [src/src/coins.h]: amounts and scripts in a
    compressed form.

    The curve library is a parameter: [fully_valid] is [CPubKey::IsFullyValid]
    and [decompress] is [CPubKey::Decompress].  Writers return [None] where an
    assertion fails. *)
From stdpp Require Import gmap.
From S2P Require Import Prelude Serialize Script Transaction TxVerify.
Open Scope Z_scope.

(** ** Amounts *)

(** [while (((n % 10) == 0) && e < 9) { n /= 10; e++; }] *)
Fixpoint strip_zeros (fuel : nat) (n e : Z) : Z * Z :=
  match fuel with
  | O => (n, e)
  | S f => if (n mod 10 =? 0) && (e <? 9) then strip_zeros f (n / 10) (e + 1) else (n, e)
  end.

(** The loop runs at most nine times.  Sums and products are of type [uint64_t]. *)
Definition CompressAmount (n : Z) : option Z :=
  if n =? 0 then Some 0
  else
    let '(n, e) := strip_zeros 9 n 0 in
    if e <? 9 then
      let d := n mod 10 in
      if (1 <=? d) && (d <=? 9) then Some (u64 (1 + (n / 10 * 9 + d - 1) * 10 + e)) else None
    else Some (u64 (1 + (n - 1) * 10 + 9)).

(** [while (e) { n *= 10; e--; }] *)
Fixpoint times_ten (e : nat) (n : Z) : Z :=
  match e with O => n | S e' => times_ten e' (u64 (n * 10)) end.

Definition DecompressAmount (x : Z) : Z :=
  if x =? 0 then 0
  else
    let x := x - 1 in
    let e := x mod 10 in
    let x := x / 10 in
    let n := if e <? 9 then u64 (x / 9 * 10 + (x mod 9 + 1)) else u64 (x + 1) in
    times_ten (Z.to_nat e) n.

(** ** Scripts *)

(** [VARINT] of a type of the given number of bits. *)
Definition ser_varint (nbits : nat) (n : Z) : option bytes := WriteVarInt nbits n.
Definition deser_varint (nbits : nat) : reader Z := ReadVarInt (2 ^ Z.of_nat nbits - 1).

(** [CDataStream::ignore]; the size is passed as an [int]. *)
Definition ignore (nSize : Z) (s : bytes) : result ser_error bytes :=
  if i32 nSize <? 0 then Err EndOfData
  else if Z.of_nat (length s) <? nSize then Err EndOfData
  else Ok (drop (Z.to_nat nSize) s).

Section CurveLibrary.
Context (fully_valid : bytes → bool) (decompress : bytes → option bytes).

Definition IsToKeyID (script : bytes) : option bytes :=
  if (size script =? 25) && is_op script 0 OP_DUP && is_op script 1 OP_HASH160
     && (at_ script 2 =? 20) && is_op script 23 OP_EQUALVERIFY && is_op script 24 OP_CHECKSIG
  then Some (take 20 (drop 3 script)) else None.

Definition IsToScriptID (script : bytes) : option bytes :=
  if (size script =? 23) && is_op script 0 OP_HASH160 && (at_ script 1 =? 20) && is_op script 22 OP_EQUAL
  then Some (take 20 (drop 2 script)) else None.

Definition IsToPubKey (script : bytes) : option bytes :=
  if (size script =? 35) && (at_ script 0 =? 33) && is_op script 34 OP_CHECKSIG
     && ((at_ script 1 =? 0x02) || (at_ script 1 =? 0x03))
  then Some (take 33 (drop 1 script))
  else if (size script =? 67) && (at_ script 0 =? 65) && is_op script 66 OP_CHECKSIG
          && (at_ script 1 =? 0x04)
  then let pubkey := take 65 (drop 1 script) in if fully_valid pubkey then Some pubkey else None
  else None.

(** [None]: no special case applies. *)
Definition CompressScript (script : bytes) : option bytes :=
  match IsToKeyID script with
  | Some keyID => Some (0x00 :: keyID)
  | None =>
      match IsToScriptID script with
      | Some scriptID => Some (0x01 :: scriptID)
      | None =>
          pubkey ← IsToPubKey script;
          if (at_ pubkey 0 =? 0x02) || (at_ pubkey 0 =? 0x03)
          then Some (at_ pubkey 0 :: take 32 (drop 1 pubkey))
          else if at_ pubkey 0 =? 0x04
          then Some (Z.lor 0x04 (Z.land (at_ pubkey 64) 0x01) :: take 32 (drop 1 pubkey))
          else None
      end
  end.

Definition GetSpecialScriptSize (nSize : Z) : Z :=
  if (nSize =? 0) || (nSize =? 1) then 20
  else if (nSize =? 2) || (nSize =? 3) || (nSize =? 4) || (nSize =? 5) then 32 else 0.

(** The new script, or [None] where the old one is left alone. *)
Definition DecompressScript (nSize : Z) (input : bytes) : option bytes :=
  if nSize =? 0x00 then
    Some ([opcode_byte OP_DUP; opcode_byte OP_HASH160; 20] ++ take 20 input
          ++ [opcode_byte OP_EQUALVERIFY; opcode_byte OP_CHECKSIG])
  else if nSize =? 0x01 then
    Some ([opcode_byte OP_HASH160; 20] ++ take 20 input ++ [opcode_byte OP_EQUAL])
  else if (nSize =? 0x02) || (nSize =? 0x03) then
    Some ([33; nSize] ++ take 32 input ++ [opcode_byte OP_CHECKSIG])
  else if (nSize =? 0x04) || (nSize =? 0x05) then
    pubkey ← decompress ((nSize - 2) :: take 32 input);
    Some ([65] ++ take 65 pubkey ++ [opcode_byte OP_CHECKSIG])
  else None.

Definition nSpecialScripts : Z := 6.

(** [CScriptCompressor]. *)
Definition ser_script (script : bytes) : option bytes :=
  match CompressScript script with
  | Some compr => Some compr
  | None =>
      v ← ser_varint 32 (u32 (size script + nSpecialScripts));
      Some (v ++ script)
  end.

(** [script0] is the script object before it is read. *)
Definition deser_script (script0 : bytes) : reader bytes := fun s =>
  let! (nSize, s) := deser_varint 32 s in
  if nSize <? nSpecialScripts then
    let! (vch, s) := read_blob (GetSpecialScriptSize nSize) s in
    Ok (default script0 (DecompressScript nSize vch), s)
  else
    let nSize := nSize - nSpecialScripts in
    if MAX_SCRIPT_SIZE <? nSize then
      let! s := ignore nSize s in
      Ok (script0 ++ [opcode_byte OP_RETURN], s)
    else read_blob nSize s.

(** ** Outputs and coins *)

(** [CTxOutCompressor]. *)
Definition ser_txout (o : CTxOut) : option bytes :=
  nVal ← CompressAmount (u64 (nValue o));
  v ← ser_varint 64 nVal;
  c ← ser_script (scriptPubKey o);
  Some (v ++ c).

Definition deser_txout (o : CTxOut) : reader CTxOut := fun s =>
  let! (nVal, s) := deser_varint 64 s in
  let! (script, s) := deser_script (scriptPubKey o) s in
  Ok (TxOut (i64 (DecompressAmount nVal)) script, s).

(** [Coin::Serialize] and [Coin::Unserialize]; [mode] is [fBitcoinCMode].  A coin
    is read into a new object. *)
Definition ser_coin (mode : bool) (c : Coin) : option bytes :=
  if IsSpent c then None
  else
    v ← ser_varint 32 (u32 (coin_nHeight c * 2 + Z.b2z (fCoinBase c)));
    o ← ser_txout (out c);
    Some (v ++ o ++ (if mode then c_ser c_u8 (nType c) else [])).

Definition deser_coin (mode : bool) : reader Coin := fun s =>
  let! (code, s) := deser_varint 32 s in
  let! (o, s) := deser_txout (out coinEmpty) s in
  let! (t, s) := if mode then c_deser c_u8 s else Ok (nType coinEmpty, s) in
  Ok (MkCoin o (Z.odd code) (Z.shiftr code 1) t, s).

(** ** Undo records *)

(** [TxInUndoSerializer] and [TxInUndoDeserializer]. *)
Definition ser_txin_undo (c : Coin) : option bytes :=
  v ← ser_varint 32 (u32 (coin_nHeight c * 2 + Z.b2z (fCoinBase c)));
  o ← ser_txout (out c);
  Some (v ++ (if 0 <? coin_nHeight c then [0] else []) ++ o ++ c_ser c_u8 (nType c)).

Definition deser_txin_undo : reader Coin := fun s =>
  let! (nCode, s) := deser_varint 32 s in
  let! (_, s) := if 0 <? nCode / 2 then deser_varint 32 s else Ok (0, s) in
  let! (o, s) := deser_txout (out coinEmpty) s in
  let! (t, s) := c_deser c_u8 s in
  Ok (MkCoin o (Z.odd nCode) (nCode / 2) t, s).

(** [MAX_BLOCK_WEIGHT / MIN_TRANSACTION_INPUT_WEIGHT]; an empty input takes 41
    bytes. *)
Definition MAX_INPUTS_PER_BLOCK : Z := 4000000 / (2 * 41).

Fixpoint ser_prevouts (l : list Coin) : option bytes :=
  match l with
  | [] => Some []
  | c :: l' =>
      a ← ser_txin_undo c;
      b ← ser_prevouts l';
      Some (a ++ b)
  end.

(** [CTxUndo]. *)
Definition ser_txundo (vprevout : list Coin) : option bytes :=
  l ← ser_prevouts vprevout;
  Some (WriteCompactSize (Z.of_nat (length vprevout)) ++ l).

Fixpoint deser_prevouts (k : nat) : reader (list Coin) := fun s =>
  match k with
  | O => Ok ([], s)
  | S k' =>
      let! (c, s) := deser_txin_undo s in
      let! (l, s) := deser_prevouts k' s in
      Ok (c :: l, s)
  end.

Definition deser_txundo : reader (list Coin) := fun s =>
  let! (count, s) := ReadCompactSize s in
  if MAX_INPUTS_PER_BLOCK <? count then Err TooManyRecords
  else deser_prevouts (Z.to_nat count) s.

End CurveLibrary.

(** ** Amounts survive *)

Lemma strip_zeros_spec fuel n e :
  0 < n → 0 <= e <= 9 → 9 - e <= Z.of_nat fuel →
  ∃ m e', strip_zeros fuel n e = (m, e') ∧ n = m * 10 ^ (e' - e) ∧ e <= e' <= 9 ∧ 0 < m ∧
    (e' < 9 → m mod 10 ≠ 0).
Proof.
  revert n e. induction fuel as [|fuel IH]; intros n e Hn He Hf.
  { exists n, e. rewrite Z.sub_diag. split_and!; try done; lia. }
  cbn [strip_zeros]. destruct (Z.eqb_spec (n mod 10) 0) as [H0|H0]; cbn [andb].
  2:{ exists n, e. rewrite Z.sub_diag. split_and!; try done; lia. }
  destruct (Z.ltb_spec e 9) as [Hlt|Hge].
  2:{ exists n, e. rewrite Z.sub_diag. split_and!; try done; lia. }
  pose proof (Z.div_mod n 10 ltac:(lia)) as Hdm.
  destruct (IH (n / 10) (e + 1)) as (m & e' & -> & En & He' & Hm & Hne); [lia..|].
  exists m, e'. split_and!; try done; try lia.
  replace (e' - e) with (1 + (e' - (e + 1))) by lia. rewrite Z.pow_add_r by lia.
  rewrite Hdm, H0, En. lia.
Qed.

Lemma times_ten_spec e n : 0 <= n → n * 10 ^ Z.of_nat e < 2 ^ 64 → times_ten e n = n * 10 ^ Z.of_nat e.
Proof.
  revert n. induction e as [|e IH]; intros n Hn Hlt; cbn [times_ten]; [lia|].
  rewrite Nat2Z.inj_succ, Z.pow_succ_r in Hlt |- * by lia.
  pose proof (Z.pow_pos_nonneg 10 (Z.of_nat e) ltac:(lia) ltac:(lia)).
  assert (u64 (n * 10) = n * 10) as -> by (unfold u64; apply Z.mod_small; nia).
  rewrite IH; nia.
Qed.

(** The arithmetic of the two cases. *)
Lemma decompress_digit n d e :
  0 <= n → 1 <= d <= 9 → 0 <= e < 9 → (n * 10 + d) * 10 ^ e < 2 ^ 64 →
  DecompressAmount (1 + (n * 9 + d - 1) * 10 + e) = (n * 10 + d) * 10 ^ e.
Proof.
  intros Hn Hd He Hlt. unfold DecompressAmount. rewrite (proj2 (Z.eqb_neq _ 0)) by lia.
  replace (1 + (n * 9 + d - 1) * 10 + e - 1) with (e + (n * 9 + d - 1) * 10) by lia.
  rewrite Z.mod_add, Z.div_add, (Z.mod_small e), (Z.div_small e), Z.add_0_l by lia.
  rewrite (proj2 (Z.ltb_lt e 9)) by lia.
  replace (n * 9 + d - 1) with (d - 1 + n * 9) by lia.
  rewrite Z.mod_add, Z.div_add, (Z.mod_small (d - 1)), (Z.div_small (d - 1)), Z.add_0_l by lia.
  replace (d - 1 + 1) with d by lia. pose proof (Z.pow_pos_nonneg 10 e ltac:(lia) ltac:(lia)).
  unfold u64. rewrite Z.mod_small by nia. rewrite times_ten_spec; rewrite ?Z2Nat.id; lia.
Qed.

Lemma decompress_whole n :
  1 <= n → n * 10 ^ 9 < 2 ^ 64 → DecompressAmount (1 + (n - 1) * 10 + 9) = n * 10 ^ 9.
Proof.
  intros Hn Hlt. unfold DecompressAmount. rewrite (proj2 (Z.eqb_neq _ 0)) by lia.
  replace (1 + (n - 1) * 10 + 9 - 1) with (9 + (n - 1) * 10) by lia.
  rewrite Z.mod_add, Z.div_add by lia. change (9 mod 10) with 9. change (9 / 10) with 0.
  cbn [Z.ltb Z.compare Pos.compare Pos.compare_cont]. replace (0 + (n - 1) + 1) with n by lia.
  unfold u64. rewrite Z.mod_small by lia. rewrite times_ten_spec; rewrite ?Z2Nat.id; lia.
Qed.

Lemma amount_spec n :
  0 <= n <= 2 * 10 ^ 18 → ∃ x, CompressAmount n = Some x ∧ is_u64 x ∧ DecompressAmount x = n.
Proof.
  intros Hn. unfold CompressAmount. destruct (Z.eqb_spec n 0) as [->|Hne]; [by exists 0|].
  destruct (strip_zeros_spec 9 n 0) as (m & e & -> & En & He & Hm & Hd); [lia..|].
  rewrite Z.sub_0_r in En. pose proof (Z.pow_pos_nonneg 10 e ltac:(lia) ltac:(lia)) as Hpow.
  assert (Hmn : m <= n) by nia. destruct (Z.ltb_spec e 9) as [Hlt|Hge].
  - specialize (Hd Hlt). pose proof (Z.mod_pos_bound m 10 ltac:(lia)).
    pose proof (Z.div_mod m 10 ltac:(lia)) as Hdm.
    rewrite (proj2 (Z.leb_le 1 _)), (proj2 (Z.leb_le _ 9)) by lia. cbn [andb].
    unfold u64. rewrite Z.mod_small by lia. eexists. split; [done|]. split; [unfold is_u64; lia|].
    rewrite decompress_digit; [|lia..|].
    + rewrite En. f_equal. lia.
    + replace (m / 10 * 10 + m mod 10) with m by lia. lia.
  - assert (e = 9) as -> by lia. unfold u64. rewrite Z.mod_small by lia. eexists. split; [done|].
    split; [unfold is_u64; lia|]. rewrite decompress_whole; lia.
Qed.

(** ** Scripts survive *)

Lemma drop_at (l : bytes) i : (i < length l)%nat → drop i l = at_ l i :: drop (S i) l.
Proof.
  intros Hi. destruct (lookup_lt_is_Some_2 l i Hi) as [x Hx]. rewrite (drop_S _ _ _ Hx). f_equal.
  unfold at_. symmetry. by apply nth_lookup_Some.
Qed.

Lemma split_script (l : bytes) (i j : nat) : l = take i l ++ take j (drop i l) ++ drop (i + j) l.
Proof. by rewrite <- drop_drop, take_drop, take_drop. Qed.

Ltac split_conditions :=
  repeat match goal with
  | X : (_ && _) = true |- _ => apply andb_true_iff in X as [X ?]
  | X : (_ =? _) = true |- _ => apply Z.eqb_eq in X
  | X : is_op _ _ _ = true |- _ => unfold is_op in X
  end.

Section Library.
Context (fully_valid : bytes → bool) (decompress : bytes → option bytes).

(** A point on the curve is determined by its first coordinate and the parity of
    the second. *)
Definition decompress_law : Prop :=
  ∀ x y, length x = 32%nat → length y = 32%nat → fully_valid (0x04 :: x ++ y) = true →
    decompress (0x02 + Z.land (at_ y 31) 1 :: x) = Some (0x04 :: x ++ y).

Context (Hlaw : decompress_law).

(** What a compressed script is: its kind and the bytes that follow. *)
Definition compressed_as (script w : bytes) : Prop :=
  ∃ k v, w = k :: v ∧ 0 <= k < 6 ∧ Z.of_nat (length v) = GetSpecialScriptSize k ∧
    DecompressScript decompress k v = Some script ∧ size script <= 67.

Lemma key_id_compressed script keyID :
  IsToKeyID script = Some keyID → compressed_as script (0 :: keyID).
Proof.
  unfold IsToKeyID. destruct (_ && _) eqn:E; [|done]. intros [= <-]. unfold size in E. split_conditions.
  exists 0, (take 20 (drop 3 script)). rewrite length_take, length_drop.
  split_and!; [done..|change (GetSpecialScriptSize _) with 20; lia| |unfold size; lia]. unfold DecompressScript. cbn [Z.eqb]. rewrite take_take, Nat.min_id.
  f_equal. rewrite (split_script script 3 20) at 2. f_equal.
  - destruct script as [|a [|b [|c script]]]; try (cbn in *; lia). unfold at_ in *. cbn in *.
    rewrite take_0. congruence.
  - f_equal. rewrite (drop_at _ 23), (drop_at _ 24), drop_ge by lia. congruence.
Qed.

Lemma script_id_compressed script scriptID :
  IsToScriptID script = Some scriptID → compressed_as script (1 :: scriptID).
Proof.
  unfold IsToScriptID. destruct (_ && _) eqn:E; [|done]. intros [= <-]. unfold size in E. split_conditions.
  exists 1, (take 20 (drop 2 script)). rewrite length_take, length_drop.
  split_and!; [done..|change (GetSpecialScriptSize _) with 20; lia| |unfold size; lia]. unfold DecompressScript. cbn [Z.eqb]. rewrite take_take, Nat.min_id.
  f_equal. rewrite (split_script script 2 20) at 2. f_equal.
  - destruct script as [|a [|b script]]; try (cbn in *; lia). unfold at_ in *. cbn in *.
    rewrite take_0. congruence.
  - f_equal. rewrite (drop_at _ 22), drop_ge by lia. congruence.
Qed.

Lemma at_lookup (l : bytes) i : at_ l i = default 0 (l !! i).
Proof. apply nth_lookup. Qed.

(** A script that is one push and one opcode. *)
Lemma framed_script (script : bytes) n :
  Z.of_nat (length script) = Z.of_nat n + 2 →
  script = [at_ script 0] ++ take n (drop 1 script) ++ [at_ script (S n)].
Proof.
  intros Hl. destruct script as [|a l]; [cbn in Hl; lia|]. cbn [length] in Hl.
  unfold at_. cbn [nth drop app]. rewrite drop_0. f_equal.
  rewrite <- (take_drop n l) at 1. f_equal. rewrite (drop_at l n), drop_ge by lia. done.
Qed.

Lemma IsToPubKey_inv script pubkey :
  IsToPubKey fully_valid script = Some pubkey →
  (∃ k x, (k = 2 ∨ k = 3) ∧ length x = 32%nat ∧ pubkey = k :: x ∧
     script = [33] ++ pubkey ++ [opcode_byte OP_CHECKSIG]) ∨
  (∃ x y, length x = 32%nat ∧ length y = 32%nat ∧ pubkey = 4 :: x ++ y ∧ fully_valid pubkey = true ∧
     script = [65] ++ pubkey ++ [opcode_byte OP_CHECKSIG]).
Proof.
  unfold IsToPubKey, size. intros Hk.
  destruct (_ && _) eqn:E; [left|right; clear E; destruct (_ && _) eqn:E; [|done];
    destruct (fully_valid _) eqn:Hv; [|done]]; injection Hk as <-; split_conditions.
  - assert (Hb : at_ script 1 = 2 ∨ at_ script 1 = 3) by
      (apply orb_true_iff in H as [H|H]; apply Z.eqb_eq in H; auto).
    exists (at_ script 1), (take 32 (drop 2 script)). rewrite length_take, length_drop.
    split_and!; [done|lia| |].
    + rewrite (drop_at script 1) by lia. done.
    + rewrite (framed_script script 33) at 1 by lia. congruence.
  - exists (take 32 (drop 2 script)), (take 32 (drop 34 script)). rewrite !length_take, !length_drop.
    split_and!; [lia|lia| |done|].
    + rewrite (drop_at script 1) by lia. change 65%nat with (S (32 + 32)). cbn [take]. f_equal; [done|].
      rewrite <- (take_take_drop (drop 2 script)), drop_drop. done.
    + rewrite (framed_script script 65) at 1 by lia. congruence.
Qed.

Lemma CompressScript_spec script w :
  CompressScript fully_valid script = Some w → compressed_as script w.
Proof using Hlaw.
  unfold CompressScript. destruct (IsToKeyID script) as [keyID|] eqn:E1.
  { intros [= <-]. by apply key_id_compressed. }
  destruct (IsToScriptID script) as [scriptID|] eqn:E2.
  { intros [= <-]. by apply script_id_compressed. }
  destruct (IsToPubKey fully_valid script) as [pubkey|] eqn:E3; [|done]. cbn [mbind option_bind].
  apply IsToPubKey_inv in E3 as [(k & x & Hk & Hx & -> & ->)|(x & y & Hx & Hy & -> & Hv & ->)].
  - assert (Hx' : take 32 x = x) by (apply take_ge; lia).
    destruct Hk as [-> | ->]; cbn [at_ nth Z.eqb Pos.eqb orb drop]; rewrite drop_0, Hx'; intros [= <-];
      eexists _, x; rewrite Hx; (split_and!; [done..| |unfold size; cbn; rewrite length_app; cbn; lia]);
      unfold DecompressScript; cbn [Z.eqb Pos.eqb orb]; by rewrite Hx'.
  - cbn [at_ nth Z.eqb Pos.eqb orb drop]. rewrite drop_0, take_app_length' by done. intros [= <-].
    assert (Ey : nth 63 (x ++ y) 0 = at_ y 31) by (rewrite app_nth2 by lia; by rewrite Hx).
    rewrite Ey. set (p := Z.land (at_ y 31) 1).
    assert (Hp : p = 0 ∨ p = 1).
    { subst p. rewrite (Z.land_ones _ 1) by lia. change (2 ^ 1) with 2. clear.
      pose proof (Z.mod_pos_bound (at_ y 31) 2 ltac:(lia)). lia. }
    assert (Hd : decompress (2 + p :: x) = Some (4 :: x ++ y)) by by apply Hlaw.
    assert (Hlen : take 65 (4 :: x ++ y) = 4 :: x ++ y) by (apply take_ge; cbn; rewrite length_app; lia).
    assert (Hx' : take 32 x = x) by (apply take_ge; lia).
    destruct Hp as [Ep|Ep]; rewrite Ep in Hd |- *; [exists 4, x|exists 5, x]; rewrite Hx;
      (split_and!; [done..| |unfold size; cbn; rewrite !length_app; cbn; lia]);
      unfold DecompressScript; cbn [Z.eqb Pos.eqb orb]; rewrite Hx';
      [change (4 - 2) with (2 + 0)|change (5 - 2) with (2 + 1)]; rewrite Hd; cbn [mbind option_bind];
      by rewrite Hlen.
Qed.

(** ** Writing and reading *)

Lemma varint_roundtrip nbits n :
  (7 <= nbits)%nat → 0 <= n < 2 ^ Z.of_nat nbits →
  ∃ w, ser_varint nbits n = Some w ∧ ∀ rest, deser_varint nbits (w ++ rest) = Ok (n, rest).
Proof.
  intros Hb Hn. destruct (WriteVarInt_tmp_total ((nbits + 6) / 7 - 1) 0 n) as [l Hl].
  { split; [lia|]. eapply Z.lt_le_trans; [apply Hn|]. apply Z.pow_le_mono_r; [lia|].
    pose proof (Nat.div_mod_eq (nbits + 6) 7). pose proof (Nat.mod_upper_bound (nbits + 6) 7). lia. }
  exists (rev l). unfold ser_varint, WriteVarInt, deser_varint, ReadVarInt. rewrite Hl. split; [done|].
  intros rest. rewrite (ReadVarInt_digits _ _ 0 n l) by (done || lia). done.
Qed.

Lemma read_special k s : 0 <= k < 6 → deser_varint 32 (k :: s) = Ok (k, s).
Proof.
  intros Hk. assert (k = 0 ∨ k = 1 ∨ k = 2 ∨ k = 3 ∨ k = 4 ∨ k = 5) as Hc by lia.
  by destruct Hc as [->|[->|[->|[->|[->| ->]]]]].
Qed.

(** A script of a length that can be spent is read back; a longer one is replaced
    by one that cannot be spent. *)
Lemma script_roundtrip script script0 rest :
  size script < 2 ^ 31 →
  ∃ w, ser_script fully_valid script = Some w ∧
    deser_script decompress script0 (w ++ rest)
    = Ok (if MAX_SCRIPT_SIZE <? size script then script0 ++ [opcode_byte OP_RETURN] else script, rest).
Proof using Hlaw.
  intros Hs. unfold ser_script. destruct (CompressScript fully_valid script) as [w|] eqn:Ec.
  - pose proof (CompressScript_spec script w Ec) as (k & v & -> & Hk & Hv & Hd & Hsz). eexists. split; [done|].
    unfold deser_script. cbn [app]. rewrite read_special by done. cbn [rbind].
    rewrite (proj2 (Z.ltb_lt _ _)) by (unfold nSpecialScripts; lia).
    rewrite read_blob_app by done. cbn [rbind]. rewrite Hd. cbn [default].
    rewrite (proj2 (Z.ltb_ge _ _)) by (unfold MAX_SCRIPT_SIZE; lia). done.
  - unfold size in *. pose proof (varint_roundtrip 32 (Z.of_nat (length script) + nSpecialScripts)) as (v & Hv & Hr);
      [lia|unfold nSpecialScripts; lia|].
    assert (u32 (Z.of_nat (length script) + nSpecialScripts) = Z.of_nat (length script) + nSpecialScripts) as ->
      by (unfold u32, nSpecialScripts; apply Z.mod_small; lia).
    rewrite Hv. cbn [mbind option_bind]. eexists. split; [done|]. unfold deser_script.
    rewrite <- app_assoc, Hr. cbn [rbind]. rewrite (proj2 (Z.ltb_ge _ _)) by lia.
    rewrite Z.add_simpl_r. destruct (Z.ltb_spec MAX_SCRIPT_SIZE (Z.of_nat (length script))).
    + unfold ignore. replace (i32 _) with (Z.of_nat (length script))
        by (unfold i32; rewrite Z.mod_small by lia; lia).
      rewrite (proj2 (Z.ltb_ge _ 0)) by lia. rewrite length_app, (proj2 (Z.ltb_ge _ _)) by lia.
      cbn [rbind]. by rewrite Nat2Z.id, drop_app_length.
    + by rewrite read_blob_app by done.
Qed.

Definition stored_script (script : bytes) : bytes :=
  if MAX_SCRIPT_SIZE <? size script then [opcode_byte OP_RETURN] else script.

Lemma txout_roundtrip o rest :
  0 <= nValue o <= MAX_MONEY → size (scriptPubKey o) < 2 ^ 31 →
  ∃ w, ser_txout fully_valid o = Some w ∧
    deser_txout decompress (out coinEmpty) (w ++ rest)
    = Ok (TxOut (nValue o) (stored_script (scriptPubKey o)), rest).
Proof using Hlaw.
  intros Hv Hs. unfold ser_txout. unfold MAX_MONEY, COIN in Hv.
  assert (u64 (nValue o) = nValue o) as -> by (unfold u64; apply Z.mod_small; lia).
  destruct (amount_spec (nValue o)) as (x & -> & Hx & Hd); [lia|]. cbn [mbind option_bind].
  destruct (varint_roundtrip 64 x) as (v & -> & Hr); [lia|exact Hx|]. cbn [mbind option_bind].
  destruct (script_roundtrip (scriptPubKey o) [] rest Hs) as (w & -> & Hw). cbn [mbind option_bind].
  eexists. split; [done|]. unfold deser_txout. rewrite <- app_assoc, Hr. cbn [rbind].
  change (scriptPubKey (out coinEmpty)) with ([] : bytes). rewrite Hw. cbn [rbind app]. rewrite Hd.
  unfold i64. rewrite Z.mod_small by lia. by rewrite Z.add_simpl_r.
Qed.

(** What can be stored: an amount in range, a height of 31 bits, a type of a byte. *)
Definition coin_ok (c : Coin) : Prop :=
  0 <= nValue (out c) <= MAX_MONEY ∧ size (scriptPubKey (out c)) < 2 ^ 31 ∧
  0 <= coin_nHeight c < 2 ^ 31 ∧ is_u8 (nType c).

Definition stored_coin (c : Coin) : Coin :=
  MkCoin (TxOut (nValue (out c)) (stored_script (scriptPubKey (out c)))) (fCoinBase c) (coin_nHeight c) (nType c).

Lemma coin_code h b :
  0 <= h < 2 ^ 31 →
  u32 (h * 2 + Z.b2z b) = h * 2 + Z.b2z b ∧ 0 <= h * 2 + Z.b2z b < 2 ^ Z.of_nat 32 ∧
  Z.odd (h * 2 + Z.b2z b) = b ∧ (h * 2 + Z.b2z b) / 2 = h.
Proof.
  intros Hh. assert (0 <= Z.b2z b <= 1) by (destruct b; cbn; lia).
  split_and!; [unfold u32; apply Z.mod_small; lia|lia|change (2 ^ Z.of_nat 32) with (2 ^ 32); lia| |].
  - rewrite Z.add_comm, (Z.mul_comm h), Z.odd_add_mul_2. by destruct b.
  - rewrite Z.add_comm, Z.div_add by done. rewrite Z.div_small; lia.
Qed.

Lemma txin_undo_roundtrip c rest :
  coin_ok c → ∃ w, ser_txin_undo fully_valid c = Some w ∧
    deser_txin_undo decompress (w ++ rest) = Ok (stored_coin c, rest).
Proof using Hlaw.
  intros (Hv & Hs & Hh & Ht). unfold ser_txin_undo.
  destruct (coin_code (coin_nHeight c) (fCoinBase c) Hh) as (-> & Hc & Ho & Hd).
  destruct (varint_roundtrip 32 _ ltac:(lia) Hc) as (v & -> & Hr). cbn [mbind option_bind].
  destruct (txout_roundtrip (out c) (c_ser c_u8 (nType c) ++ rest) Hv Hs) as (w & -> & Hw).
  cbn [mbind option_bind]. eexists. split; [done|]. unfold deser_txin_undo.
  rewrite <- !app_assoc, Hr. cbn [rbind]. rewrite Hd, Ho.
  assert (Hskip : ∀ s, (if 0 <? coin_nHeight c then deser_varint 32 ((if 0 <? coin_nHeight c then [0] else []) ++ s)
    else Ok (0, (if 0 <? coin_nHeight c then [0] else []) ++ s)) = Ok (0, s)).
  { intros s. by destruct (0 <? coin_nHeight c). }
  rewrite Hskip. cbn [rbind]. rewrite Hw. cbn [rbind]. rewrite codec_roundtrip by done. done.
Qed.

Lemma prevouts_roundtrip l rest :
  Forall coin_ok l → ∃ w, ser_prevouts fully_valid l = Some w ∧
    deser_prevouts decompress (length l) (w ++ rest) = Ok (map stored_coin l, rest).
Proof using Hlaw.
  induction 1 as [|c l Hc _ (w & Hw & IH)]; [by exists []|]. cbn [ser_prevouts].
  destruct (txin_undo_roundtrip c (w ++ rest) Hc) as (a & -> & Ha). cbn [mbind option_bind].
  rewrite Hw. cbn [mbind option_bind]. eexists. split; [done|]. cbn [length deser_prevouts].
  rewrite <- app_assoc, Ha. cbn [rbind]. rewrite IH. done.
Qed.

End Library.

(** ** Properties *)

(** A coin of the database is read back as it was written.  For an amount in
    range the compression of amounts does not overflow and is undone, and the
    record determines height, coinbase flag and script; a script that is too long
    to be executed comes back as [OP_RETURN], and outside of the node's own mode
    the type is not stored. *)
Theorem coin_record_roundtrip (fully_valid : bytes → bool) (decompress : bytes → option bytes)
    (mode : bool) (c : Coin) (rest : bytes) :
  decompress_law fully_valid decompress → coin_ok c →
  ∃ w, ser_coin fully_valid mode c = Some w ∧
    deser_coin decompress mode (w ++ rest)
    = Ok (MkCoin (out (stored_coin c)) (fCoinBase c) (coin_nHeight c)
            (if mode then nType c else OUTPUT_STANDARD), rest).
Proof.
  intros Hlaw (Hv & Hs & Hh & Ht). unfold ser_coin.
  assert (IsSpent c = false) as -> by (apply Z.eqb_neq; lia).
  destruct (coin_code (coin_nHeight c) (fCoinBase c) Hh) as (-> & Hc & Ho & Hd).
  destruct (varint_roundtrip 32 _ ltac:(lia) Hc) as (v & -> & Hr). cbn [mbind option_bind].
  destruct (txout_roundtrip fully_valid decompress Hlaw (out c)
    ((if mode then c_ser c_u8 (nType c) else []) ++ rest) Hv Hs) as (w & -> & Hw).
  cbn [mbind option_bind]. eexists. split; [done|]. unfold deser_coin.
  rewrite <- !app_assoc, Hr. cbn [rbind]. rewrite Hw. cbn [rbind].
  rewrite Z.shiftr_div_pow2 by done. change (2 ^ 1) with 2. rewrite Hd, Ho.
  destruct mode; [|done]. rewrite codec_roundtrip by done. done.
Qed.

(** Undo records are read back as they were written, up to the number of inputs
    a block can have; a record that claims more is rejected before it is read. *)
Theorem undo_record_roundtrip (fully_valid : bytes → bool) (decompress : bytes → option bytes)
    (vprevout : list Coin) (rest : bytes) :
  decompress_law fully_valid decompress → Forall coin_ok vprevout →
  Z.of_nat (length vprevout) <= 0x02000000 →
  ∃ w, ser_txundo fully_valid vprevout = Some w ∧
    deser_txundo decompress (w ++ rest)
    = if MAX_INPUTS_PER_BLOCK <? Z.of_nat (length vprevout) then Err TooManyRecords
      else Ok (map stored_coin vprevout, rest).
Proof.
  intros Hlaw Hl Hlen. unfold ser_txundo.
  destruct (prevouts_roundtrip fully_valid decompress Hlaw vprevout rest Hl) as (w & -> & Hw).
  cbn [mbind option_bind]. eexists. split; [done|]. unfold deser_txundo.
  rewrite <- app_assoc, ReadCompactSize_roundtrip by (widths; lia). cbn [rbind].
  destruct (_ <? _); [done|]. by rewrite Nat2Z.id.
Qed.

(** *** A library with one key *)

(** One point is on the curve: a first coordinate of ones and a second of zeros. *)
Definition toy_x : bytes := replicate 32 1.
Definition toy_y : bytes := replicate 32 0.
Definition toy_valid (k : bytes) : bool := bool_decide (k = 0x04 :: toy_x ++ toy_y).
Definition toy_decompress (k : bytes) : option bytes :=
  if bool_decide (k = 0x02 :: toy_x) then Some (0x04 :: toy_x ++ toy_y) else None.

Lemma toy_decompress_law : decompress_law toy_valid toy_decompress.
Proof.
  intros x y Hx Hy Hv. apply bool_decide_eq_true in Hv. apply (f_equal (drop 1)) in Hv.
  change (drop 0 (x ++ y) = drop 0 (toy_x ++ toy_y)) in Hv. rewrite !drop_0 in Hv.
  apply app_inj_1 in Hv as [-> ->]; [done|by rewrite Hx].
Qed.

Definition toy_coin : Coin :=
  MkCoin (TxOut (12345 * 10 ^ 8) ([65; 0x04] ++ toy_x ++ toy_y ++ [opcode_byte OP_CHECKSIG])) true 500000 OUTPUT_STANDARD.

Lemma toy_coin_ok : coin_ok toy_coin.
Proof. unfold coin_ok. split_and!; by_eval. Qed.

Lemma coin_record_roundtrip_witness :
  ∃ w, ser_coin toy_valid true toy_coin = Some w ∧ length w = 40%nat ∧
    deser_coin toy_decompress true (w ++ [7]) = Ok (toy_coin, [7]).
Proof.
  destruct (coin_record_roundtrip toy_valid toy_decompress true toy_coin [7] toy_decompress_law toy_coin_ok)
    as (w & E & Ew).
  exists w. split; [exact E|]. split; [vm_compute in E; injection E as <-; reflexivity|].
  rewrite Ew. vm_compute. reflexivity.
Defined.

Lemma undo_record_roundtrip_witness :
  ∃ w, ser_txundo toy_valid [toy_coin; toy_coin] = Some w ∧
    deser_txundo toy_decompress (w ++ [7]) = Ok ([toy_coin; toy_coin], [7]).
Proof.
  destruct (undo_record_roundtrip toy_valid toy_decompress [toy_coin; toy_coin] [7] toy_decompress_law)
    as (w & E & Ew).
  - repeat constructor; apply toy_coin_ok.
  - cbn. lia.
  - exists w. split; [exact E|]. rewrite Ew. vm_compute. reflexivity.
Defined.
