(* ===== verification/Anon.v ===== *)
(** Anonymous inputs and outputs: ring signatures over the outputs in an index,
    after [src/src/anon.cpp], [src/src/rctindex.h], the key images of
    [src/src/txmempool.cpp] and the index in the block database
    ([src/src/txdb.cpp]).

    A key is the 33 bytes of [CCmpPubKey].  Its order and its serialization look at
    the bytes after the first only when that is 2 or 3: [cmp_key] is what a
    [std::map] or [std::set] tells apart, [db_key] what the database does.

    The curve library is a record of functions; [Crash] is also a read of memory the
    code has not initialized. *)
From stdpp Require Import gmap strings.
From S2P Require Import Prelude Serialize Script Interpreter Transaction TxVerify.
Open Scope string_scope.
Open Scope list_scope.
Open Scope Z_scope.

(** ** Keys *)

Definition cmp_valid (k : bytes) : bool := (at_ k 0 =? 2) || (at_ k 0 =? 3).
Definition cmp_key (k : bytes) : bytes := if cmp_valid k then k else take 1 k.
Definition db_key (k : bytes) : bytes := if cmp_valid k then k else [].

(** ** The index *)

Record CAnonOutput := AnonOutput {
  ao_pubkey : bytes;
  ao_commitment : bytes;
  ao_outpoint : COutPoint;
  ao_nBlockHeight : Z;
  nCompromised : Z
}.

#[global] Instance CAnonOutput_eq_dec : EqDecision CAnonOutput.
Proof. solve_decision. Defined.

(** The records [DB_RCTOUTPUT], [DB_RCTOUTPUT_LINK] and [DB_RCTKEYIMAGE]. *)
Record rct_index := RctIndex {
  rct_outputs : gmap Z CAnonOutput;
  rct_links : gmap bytes Z;
  rct_key_images : gmap bytes bytes
}.

Definition ReadRCTOutput (x : rct_index) (i : Z) : option CAnonOutput := rct_outputs x !! i.
Definition WriteRCTOutput (x : rct_index) (i : Z) (ao : CAnonOutput) : rct_index :=
  RctIndex (<[i := ao]> (rct_outputs x)) (rct_links x) (rct_key_images x).
Definition EraseRCTOutput (x : rct_index) (i : Z) : rct_index :=
  RctIndex (delete i (rct_outputs x)) (rct_links x) (rct_key_images x).
Definition ReadRCTOutputLink (x : rct_index) (pk : bytes) : option Z := rct_links x !! db_key pk.
Definition WriteRCTOutputLink (x : rct_index) (pk : bytes) (i : Z) : rct_index :=
  RctIndex (rct_outputs x) (<[db_key pk := i]> (rct_links x)) (rct_key_images x).
Definition EraseRCTOutputLink (x : rct_index) (pk : bytes) : rct_index :=
  RctIndex (rct_outputs x) (delete (db_key pk) (rct_links x)) (rct_key_images x).
Definition ReadRCTKeyImage (x : rct_index) (ki : bytes) : option bytes := rct_key_images x !! db_key ki.
Definition WriteRCTKeyImage (x : rct_index) (ki txhash : bytes) : rct_index :=
  RctIndex (rct_outputs x) (rct_links x) (<[db_key ki := txhash]> (rct_key_images x)).
Definition EraseRCTKeyImage (x : rct_index) (ki : bytes) : rct_index :=
  RctIndex (rct_outputs x) (rct_links x) (delete (db_key ki) (rct_key_images x)).

(** ** The curve library *)

Record mlsag_lib := Mlsag {
  (** [secp256k1_pedersen_commit] with the blinding factor zero *)
  pedersen_commit : Z → option bytes;
  (** [secp256k1_prepare_mlsag]: columns, rows, the matrix, the input and output
      commitments; the matrix with its last row *)
  prepare_mlsag : Z → Z → bytes → list bytes → list bytes → option bytes;
  (** [secp256k1_verify_mlsag]: message, columns, rows, matrix, key images, the
      first 32 bytes of the signature and the rest *)
  verify_mlsag : bytes → Z → Z → bytes → bytes → bytes → bytes → bool;
  (** [secp256k1_pedersen_verify_tally] *)
  verify_tally : list bytes → list bytes → bool
}.

Definition MIN_RINGSIZE : Z := 3.
Definition MAX_RINGSIZE : Z := 32.
Definition MAX_ANON_INPUTS : Z := 32.

(** ** The memory pool's key images *)

(** The key images an input carries: [nInputs] of them, 33 bytes each. *)
Definition key_images_of (nInputs : Z) (vKeyImages : bytes) : list bytes :=
  map (λ k, take 33 (drop (33 * k) vKeyImages)) (seq 0 (Z.to_nat nInputs)).

Definition HaveKeyImage (pool : gmap bytes bytes) (ki : bytes) : option bytes := pool !! cmp_key ki.

(** The inputs of a transaction from some place on; [None]: an input without
    [scriptData] was dereferenced. *)
Fixpoint add_key_images (txhash : bytes) (ins : list CTxIn) (pool : gmap bytes bytes)
  : option (bool * gmap bytes bytes) :=
  match ins with
  | [] => Some (true, pool)
  | i :: ins' =>
      if negb (IsAnonInput i) then add_key_images txhash ins' pool
      else
        let '(nInputs, _) := GetAnonInfo i in
        match scriptData i with
        | [] => None
        | vKeyImages :: _ =>
            if negb (size vKeyImages =? u32 (nInputs * 33)) then Some (false, pool)
            else add_key_images txhash ins'
                   (foldl (λ p ki, <[cmp_key ki := txhash]> p) pool (key_images_of nInputs vKeyImages))
        end
  end.

Definition AddKeyImagesToMempool (H : bytes → bytes) (tx : CTransaction) (pool : gmap bytes bytes)
  : option (bool * gmap bytes bytes) :=
  txhash ← ComputeHash H tx;
  add_key_images txhash (vin tx) pool.

Definition RemoveKeyImagesFromMempool (txin : CTxIn) (pool : gmap bytes bytes)
  : option (bool * gmap bytes bytes) :=
  if negb (IsAnonInput txin) then Some (false, pool)
  else
    let '(nInputs, _) := GetAnonInfo txin in
    match scriptData txin with
    | [] => None
    | vKeyImages :: _ =>
        if negb (size vKeyImages =? u32 (nInputs * 33)) then Some (false, pool)
        else Some (true, foldl (λ p ki, delete (cmp_key ki) p) pool (key_images_of nInputs vKeyImages))
    end.

(** ** VerifyMLSAG *)

(** [GetPCommitment()] of the outputs. *)
Fixpoint output_commitments (l : list (option CTxOutBase)) : result tx_fail (list bytes) :=
  match l with
  | [] => Ok []
  | o :: l' =>
      let! o := deref o in
      let! cs := output_commitments l' in
      Ok (match o with CTxOutRingCT _ cm _ _ _ => cm :: cs | _ => cs end)
  end.

(** A key image recorded for another transaction. *)
Definition used_by_other (txhash : bytes) (o : option bytes) : bool :=
  match o with Some t => negb (bool_decide (t = txhash)) | None => false end.

Section VerifyMLSAG.
Context (lib : mlsag_lib) (H : bytes → bytes) (pblocktree : rct_index) (pool : gmap bytes bytes).

(** The two loops over the rows and columns, [n] entries in all: the outputs at the
    indices read from [vMI] at [ofs], and the indices seen. *)
Fixpoint read_ring (n : nat) (vMI : bytes) (ofs : nat) (setHaveI : gset Z)
  : result tx_fail (list CAnonOutput * gset Z) :=
  match n with
  | O => Ok ([], setHaveI)
  | S n' =>
      if (length vMI <=? ofs)%nat then Err Crash
      else
        let '(rc, i, nB) := GetVarInt vMI ofs 0 0 in
        if negb (rc =? 0) then reject 100 "bad-anonin-extract-i"
        else
          let nIndex := i64 i in
          if bool_decide (nIndex ∈ setHaveI) then reject 100 "bad-anonin-dup-i"
          else
            match ReadRCTOutput pblocktree nIndex with
            | None => reject 100 "bad-anonin-unknown-i"
            | Some ao =>
                let! (aos, setHaveI) :=
                  read_ring n' vMI (ofs + Z.to_nat nB) ({[nIndex]} ∪ setHaveI) in
                Ok (ao :: aos, setHaveI)
            end
  end.

Fixpoint check_key_images (txhash : bytes) (kis : list bytes) (setHaveKI : gset bytes)
  : result tx_fail (gset bytes) :=
  match kis with
  | [] => Ok setHaveKI
  | ki :: kis' =>
      if bool_decide (cmp_key ki ∈ setHaveKI) then reject 100 "bad-anonin-dup-ki"
      else if used_by_other txhash (HaveKeyImage pool ki) then reject 100 "bad-anonin-dup-ki"
      else if used_by_other txhash (ReadRCTKeyImage pblocktree ki) then reject 100 "bad-anonin-dup-ki"
      else check_key_images txhash kis' ({[cmp_key ki]} ∪ setHaveKI)
  end.

(** What the loop over the inputs carries. *)
Record mlsag_state := MlsagState {
  setHaveI : gset Z;
  setHaveKI : gset bytes;
  vpInputSplitCommits : list bytes
}.

(** The commitments an input is balanced against: the split commitment at the end of
    its signature, or the plain amount and the confidential outputs. *)
Definition out_commits (tx : CTransaction) (plainCommitment : option bytes) (fSplitCommitments : bool)
    (vDL : bytes) (sigLen : Z) : result tx_fail (list bytes) :=
  if fSplitCommitments then Ok [take 33 (drop (Z.to_nat sigLen) vDL)]
  else
    let! plain := deref plainCommitment in
    let! cs := output_commitments (vpout tx) in
    Ok (plain :: cs).

Definition verify_anon_input (tx : CTransaction) (plainCommitment : option bytes)
    (fSplitCommitments : bool) (txin : CTxIn) (s : mlsag_state) : result tx_fail mlsag_state :=
  if negb (IsAnonInput txin) then reject 100 "bad-anon-input"
  else
    let '(nInputs, nRingSize) := GetAnonInfo txin in
    if (nInputs <? 1) || (MAX_ANON_INPUTS <? nInputs) then reject 100 "bad-anon-num-inputs"
    else if (nRingSize <? MIN_RINGSIZE) || (MAX_RINGSIZE <? nRingSize) then reject 100 "bad-anon-ringsize"
    else
      let! txhash := deref (ComputeHash H tx) in
      let nCols := nRingSize in
      let nRows := nInputs + 1 in
      match scriptData txin with
      | [vKeyImages] =>
          match scriptWitness txin with
          | [vMI; vDL] =>
              let sigLen := (1 + (nInputs + 1) * nRingSize) * 32 in
              if negb (size vKeyImages =? nInputs * 33) then reject 100 "bad-anonin-keyimages-size"
              else if negb (size vDL =? sigLen + (if fSplitCommitments then 33 else 0))
              then reject 100 "bad-anonin-sig-size"
              else
                let! vpOutCommits := out_commits tx plainCommitment fSplitCommitments vDL sigLen in
                let! (aos, setHaveI) :=
                  read_ring (Z.to_nat (nInputs * nCols)) vMI 0 (setHaveI s) in
                let! setHaveKI :=
                  check_key_images txhash (key_images_of nInputs vKeyImages) (setHaveKI s) in
                let vM := concat (map ao_pubkey aos) ++ replicate (Z.to_nat (nCols * 33)) 0 in
                match prepare_mlsag lib nCols nRows vM (map ao_commitment aos) vpOutCommits with
                | None => reject 100 "prepare-mlsag-failed"
                | Some vM =>
                    if negb (verify_mlsag lib txhash nCols nRows vM vKeyImages (take 32 vDL) (drop 32 vDL))
                    then reject 100 "verify-mlsag-failed"
                    else Ok (MlsagState setHaveI setHaveKI
                               (vpInputSplitCommits s ++ (if fSplitCommitments then vpOutCommits else [])))
                end
          | _ => reject 100 "bad-anonin-wstack-size"
          end
      | _ => reject 100 "bad-anonin-dstack-size"
      end.

Fixpoint verify_anon_inputs (tx : CTransaction) (plainCommitment : option bytes)
    (fSplitCommitments : bool) (ins : list CTxIn) (s : mlsag_state) : result tx_fail mlsag_state :=
  match ins with
  | [] => Ok s
  | txin :: ins' =>
      let! s := verify_anon_input tx plainCommitment fSplitCommitments txin s in
      verify_anon_inputs tx plainCommitment fSplitCommitments ins' s
  end.

Definition VerifyMLSAG (tx : CTransaction) : result tx_fail unit :=
  let fSplitCommitments := (1 <? length (vin tx))%nat in
  let! (nPlainValueOut, _, _) := sum_or_throw (GetPlainValueOut tx 0 0) in
  let! fee := deref (GetCTFee tx 0) in
  match fee with
  | None => reject 100 "bad-fee-output"
  | Some nTxFee =>
      let nPlainValueOut := i64 (nPlainValueOut + nTxFee) in
      let! plainCommitment :=
        if 0 <? nPlainValueOut then
          match pedersen_commit lib nPlainValueOut with
          | None => reject 100 "bad-plain-commitment"
          | Some c => Ok (Some c)
          end
        else Ok None in
      let! s := verify_anon_inputs tx plainCommitment fSplitCommitments (vin tx) (MlsagState ∅ ∅ []) in
      if fSplitCommitments then
        let! plain := deref plainCommitment in
        let! cs := output_commitments (vpout tx) in
        if negb (verify_tally lib (vpInputSplitCommits s) (plain :: cs))
        then reject 100 "verify-commit-tally-failed" else Ok tt
      else Ok tt
  end.

End VerifyMLSAG.

(** ** Outputs *)

(** [AllAnonOutputsUnknown]: the return value and [state.fHasAnonOutput]. *)
Fixpoint all_unknown (x : rct_index) (txhash : bytes) (k : Z) (l : list (option CTxOutBase))
    (fHasAnonOutput : bool) : result tx_fail (bool * bool) :=
  match l with
  | [] => Ok (true, fHasAnonOutput)
  | o :: l' =>
      let! o := deref o in
      match o with
      | CTxOutRingCT pk _ _ _ _ =>
          match ReadRCTOutputLink x pk with
          | Some nTestExists =>
              if bool_decide (ao_outpoint <$> ReadRCTOutput x nTestExists = Some (OutPoint txhash k))
              then Ok (false, true)
              else reject 100 "duplicate-anon-output"
          | None => all_unknown x txhash (k + 1) l' true
          end
      | _ => all_unknown x txhash (k + 1) l' fHasAnonOutput
      end
  end.

Definition AllAnonOutputsUnknown (H : bytes → bytes) (x : rct_index) (tx : CTransaction)
  : result tx_fail (bool * bool) :=
  let! txhash := deref (ComputeHash H tx) in
  all_unknown x txhash 0 (vpout tx) false.

(** ** Rolling the index back *)

(** [while (true)]: erase upwards from [i]; the index where it stops. *)
Fixpoint erase_up (fuel : nat) (x : rct_index) (i : Z) : option (Z * rct_index) :=
  match ReadRCTOutput x i with
  | None => Some (i, x)
  | Some ao =>
      match fuel with
      | O => None
      | S f => erase_up f (EraseRCTOutputLink (EraseRCTOutput x i) (ao_pubkey ao)) (i + 1)
      end
  end.

(** [while (nRemRCTOutput > nLastValidRCTOutput)]: erase downwards. *)
Fixpoint erase_down (k : nat) (x : rct_index) (i : Z) : rct_index :=
  match k with
  | O => x
  | S k' =>
      match ReadRCTOutput x i with
      | None => x
      | Some ao => erase_down k' (EraseRCTOutputLink (EraseRCTOutput x i) (ao_pubkey ao)) (i - 1)
      end
  end.

Definition RollBackRCTIndex (x : rct_index) (nLastValidRCTOutput nExpectErase : Z) (setKi : list bytes)
  : option rct_index :=
  '(nRemRCTOutput, x) ← erase_up (base.size (rct_outputs x)) x (nLastValidRCTOutput + 1);
  let x := if nRemRCTOutput <? nExpectErase
           then erase_down (Z.to_nat (nExpectErase - nLastValidRCTOutput)) x nExpectErase else x in
  Some (foldl EraseRCTKeyImage x setKi).

(** ** Specification *)

(** The indices an encoding holds. *)
Fixpoint ring_indices (n : nat) (vMI : bytes) (ofs : nat) : list Z :=
  match n with
  | O => []
  | S n' =>
      let '(_, i, nB) := GetVarInt vMI ofs 0 0 in
      i64 i :: ring_indices n' vMI (ofs + Z.to_nat nB)
  end.

(** The ring members and the key images of an input. *)
Definition input_ring (i : CTxIn) : list Z :=
  ring_indices (Z.to_nat (fst (GetAnonInfo i) * snd (GetAnonInfo i))) (default [] (scriptWitness i !! 0%nat)) 0.
Definition input_key_images (i : CTxIn) : list bytes :=
  key_images_of (fst (GetAnonInfo i)) (default [] (scriptData i !! 0%nat)).

(** The split commitment of an input, at the end of its signature. *)
Definition split_commit (i : CTxIn) : bytes :=
  take 33 (drop (Z.to_nat ((1 + (fst (GetAnonInfo i) + 1) * snd (GetAnonInfo i)) * 32))
             (default [] (scriptWitness i !! 1%nat))).

(** The commitments the signature of an input is balanced against. *)
Definition input_commits (tx : CTransaction) (plain : option bytes) (split : bool) (i : CTxIn)
  : result tx_fail (list bytes) :=
  if split then Ok [split_commit i]
  else let! plain := deref plain in
       let! cs := output_commitments (vpout tx) in
       Ok (plain :: cs).

(** The amounts of a transaction tied together: a commitment to everything in the
    clear, fee included, the commitments of the confidential outputs, and, with more
    than one input, the equation between the split commitments and those. *)
Definition committed (lib : mlsag_lib) (tx : CTransaction) (plain : bytes) (cs : list bytes) : Prop :=
  ∃ v a b fee, GetPlainValueOut tx 0 0 = Ok (v, a, b) ∧ GetCTFee tx 0 = Some (Some fee) ∧
    0 < i64 (v + fee) ∧ pedersen_commit lib (i64 (v + fee)) = Some plain ∧
    output_commitments (vpout tx) = Ok cs ∧
    ((1 < length (vin tx))%nat → verify_tally lib (map split_commit (vin tx)) (plain :: cs) = true).

Definition anon_shape (i : CTxIn) : Prop :=
  IsAnonInput i = true ∧ 1 <= fst (GetAnonInfo i) <= MAX_ANON_INPUTS ∧
  MIN_RINGSIZE <= snd (GetAnonInfo i) <= MAX_RINGSIZE.

(** A key image that no other transaction uses, in the index or in the pool. *)
Definition unused_elsewhere (x : rct_index) (pool : gmap bytes bytes) (txhash ki : bytes) : Prop :=
  (∀ t, ReadRCTKeyImage x ki = Some t → t = txhash) ∧ (∀ t, HaveKeyImage pool ki = Some t → t = txhash).

(** The library accepted the signature of an input: over the keys and commitments of
    exactly the ring, for the key images it carries and this transaction. *)
Definition ring_signed (lib : mlsag_lib) (x : rct_index) (txhash : bytes) (outs : list bytes) (i : CTxIn)
  : Prop :=
  ∃ aos vM vDL,
    Forall2 (λ k ao, rct_outputs x !! k = Some ao) (input_ring i) aos ∧
    scriptWitness i !! 1%nat = Some vDL ∧
    prepare_mlsag lib (snd (GetAnonInfo i)) (fst (GetAnonInfo i) + 1)
      (concat (map ao_pubkey aos) ++ replicate (Z.to_nat (snd (GetAnonInfo i) * 33)) 0)
      (map ao_commitment aos) outs = Some vM ∧
    verify_mlsag lib txhash (snd (GetAnonInfo i)) (fst (GetAnonInfo i) + 1) vM
      (default [] (scriptData i !! 0%nat)) (take 32 vDL) (drop 32 vDL) = true.

(** New elements, without repetition, added to a set. *)
Definition fresh_in {A} `{Countable A} (l : list A) (s s' : gset A) : Prop :=
  NoDup l ∧ (∀ k, k ∈ l → k ∉ s) ∧ s' = list_to_set l ∪ s.

Lemma fresh_in_nil {A} `{Countable A} (s : gset A) : fresh_in [] s s.
Proof.
  split_and!; [constructor|by intros k ?%not_elem_of_nil|]. by rewrite list_to_set_nil, union_empty_l_L.
Qed.

Lemma fresh_in_cons {A} `{Countable A} k (l : list A) (s s' : gset A) :
  k ∉ s → fresh_in l ({[k]} ∪ s) s' → fresh_in (k :: l) s s'.
Proof.
  intros Hk (Hnd & Hdis & ->). split_and!.
  - constructor; [|done]. intros Hin. apply (Hdis k Hin). apply elem_of_union_l, elem_of_singleton_2. done.
  - intros j [->|Hj]%elem_of_cons; [done|]. intros Hs. apply (Hdis j Hj). by apply elem_of_union_r.
  - by rewrite list_to_set_cons, (union_assoc_L (list_to_set l)), (union_comm_L (list_to_set l)).
Qed.

Lemma fresh_in_app {A} `{Countable A} (l l' : list A) (s s1 s2 : gset A) :
  fresh_in l s s1 → fresh_in l' s1 s2 → fresh_in (l ++ l') s s2.
Proof.
  intros (Hnd & Hdis & ->) (Hnd' & Hdis' & ->). split_and!.
  - apply NoDup_app. split_and!; [done| |done]. intros k Hk Hk'. apply (Hdis' k Hk').
    by apply elem_of_union_l, elem_of_list_to_set.
  - intros k [Hk|Hk]%elem_of_app; [by apply Hdis|]. intros Hs. apply (Hdis' k Hk). by apply elem_of_union_r.
  - by rewrite list_to_set_app_L, union_assoc_L, (union_comm_L (list_to_set l')).
Qed.

Lemma used_by_other_false txhash o :
  used_by_other txhash o = false → ∀ t, o = Some t → t = txhash.
Proof. intros Hu t ->. unfold used_by_other in Hu. by case_bool_decide. Qed.

Section Facts.
Context (lib : mlsag_lib) (H : bytes → bytes) (x : rct_index) (pool : gmap bytes bytes).

Lemma read_ring_spec n vMI ofs s aos s' :
  read_ring x n vMI ofs s = Ok (aos, s') →
  Forall2 (λ k ao, rct_outputs x !! k = Some ao) (ring_indices n vMI ofs) aos ∧
  fresh_in (ring_indices n vMI ofs) s s'.
Proof.
  revert ofs s aos s'. induction n as [|n IH]; intros ofs s aos s'; cbn [read_ring ring_indices].
  { intros [= <- <-]. split; [constructor|apply fresh_in_nil]. }
  destruct (length vMI <=? ofs)%nat; [done|]. destruct (GetVarInt vMI ofs 0 0) as [[rc i] nB].
  destruct (rc =? 0); [|done]. cbn [negb]. case_bool_decide as Hi; [done|].
  destruct (ReadRCTOutput x (i64 i)) as [ao|] eqn:Hao; [|done].
  destruct (read_ring _ _ _ _ _) as [[aos1 s1]|] eqn:Hr; [|done]. cbn [rbind]. intros [= <- <-].
  apply IH in Hr as [Hf Hfresh]. split; [by constructor|by apply fresh_in_cons].
Qed.

Lemma check_key_images_spec txhash kis s s' :
  check_key_images x pool txhash kis s = Ok s' →
  Forall (unused_elsewhere x pool txhash) kis ∧ fresh_in (map cmp_key kis) s s'.
Proof.
  revert s s'. induction kis as [|ki kis IH]; intros s s'; cbn [check_key_images map].
  { intros [= <-]. split; [constructor|apply fresh_in_nil]. }
  case_bool_decide as Hi; [done|].
  destruct (used_by_other txhash (HaveKeyImage pool ki)) eqn:Hp; [done|].
  destruct (used_by_other txhash (ReadRCTKeyImage x ki)) eqn:Ht; [done|].
  intros [Hun Hfresh]%IH. split; [|by apply fresh_in_cons]. constructor; [|done].
  split; by apply used_by_other_false.
Qed.

(** What one input that passes adds. *)
Definition input_verified (tx : CTransaction) (txhash : bytes) (plain : option bytes) (split : bool)
    (i : CTxIn) : Prop :=
  anon_shape i ∧ Forall (λ k, is_Some (rct_outputs x !! k)) (input_ring i) ∧
  Forall (unused_elsewhere x pool txhash) (input_key_images i) ∧
  ∃ outs, input_commits tx plain split i = Ok outs ∧ ring_signed lib x txhash outs i.

Lemma verify_anon_input_spec tx txhash plain split i s s' :
  ComputeHash H tx = Some txhash →
  verify_anon_input lib H x pool tx plain split i s = Ok s' →
  input_verified tx txhash plain split i ∧
  fresh_in (input_ring i) (setHaveI s) (setHaveI s') ∧
  fresh_in (map cmp_key (input_key_images i)) (setHaveKI s) (setHaveKI s') ∧
  vpInputSplitCommits s' = vpInputSplitCommits s ++ (if split then [split_commit i] else []).
Proof.
  intros Hid. unfold verify_anon_input. destruct (IsAnonInput i) eqn:Ha; [|done]. cbn [negb].
  destruct (GetAnonInfo i) as [nIn nR] eqn:Hinfo.
  destruct ((nIn <? 1) || (MAX_ANON_INPUTS <? nIn)) eqn:E1; [done|].
  destruct ((nR <? MIN_RINGSIZE) || (MAX_RINGSIZE <? nR)) eqn:E2; [done|].
  apply orb_false_iff in E1 as [?%Z.ltb_ge ?%Z.ltb_ge], E2 as [?%Z.ltb_ge ?%Z.ltb_ge].
  rewrite Hid. cbn [deref rbind].
  destruct (scriptData i) as [|vKI [|]] eqn:Hsd; [done| |done].
  destruct (scriptWitness i) as [|vMI [|vDL [|]]] eqn:Hsw; [done|done| |done].
  destruct (size vKI =? nIn * 33); [|done]. cbn [negb].
  destruct (size vDL =? _); [|done]. cbn [negb].
  destruct (out_commits _ _ _ _ _) as [outs|] eqn:Hout; [|done]. cbn [rbind].
  destruct (read_ring _ _ _ _ _) as [[aos s1]|] eqn:Hr; [|done]. cbn [rbind].
  destruct (check_key_images _ _ _ _ _) as [s2|] eqn:Hk; [|done]. cbn [rbind].
  destruct (prepare_mlsag _ _ _ _ _ _) as [vM|] eqn:Hp; [|done].
  destruct (verify_mlsag _ _ _ _ _ _ _ _) eqn:Hv; [|done]. cbn [negb]. intros [= <-].
  apply read_ring_spec in Hr as [Hf Hfresh].
  apply check_key_images_spec in Hk as [Hun Hfresh'].
  assert (Er : input_ring i = ring_indices (Z.to_nat (nIn * nR)) vMI 0).
  { unfold input_ring. by rewrite Hinfo, Hsw. }
  assert (Ek : input_key_images i = key_images_of nIn vKI).
  { unfold input_key_images. by rewrite Hinfo, Hsd. }
  assert (Ec : split_commit i = take 33 (drop (Z.to_nat ((1 + (nIn + 1) * nR) * 32)) vDL)).
  { unfold split_commit. by rewrite Hinfo, Hsw. }
  assert (Eo : input_commits tx plain split i = Ok outs).
  { rewrite <- Hout. unfold input_commits, out_commits. by rewrite Ec. }
  unfold input_verified, anon_shape, ring_signed.
  rewrite Er, Ek, Hinfo, Hsw, Hsd. cbn [fst snd setHaveI setHaveKI vpInputSplitCommits].
  split_and!; try done || lia.
  - clear -Hf. induction Hf; constructor; [|done]. by eexists.
  - exists outs. split; [done|]. by exists aos, vM, vDL.
  - unfold input_commits in Eo. destruct split; [by injection Eo as <-|done].
Qed.

Lemma verify_anon_inputs_spec tx txhash plain split ins s s' :
  ComputeHash H tx = Some txhash →
  verify_anon_inputs lib H x pool tx plain split ins s = Ok s' →
  Forall (input_verified tx txhash plain split) ins ∧
  fresh_in (flat_map input_ring ins) (setHaveI s) (setHaveI s') ∧
  fresh_in (map cmp_key (flat_map input_key_images ins)) (setHaveKI s) (setHaveKI s') ∧
  vpInputSplitCommits s' = vpInputSplitCommits s ++ (if split then map split_commit ins else []).
Proof.
  intros Hid. revert s. induction ins as [|i ins IH]; intros s; cbn [verify_anon_inputs flat_map].
  { intros [= <-]. split_and!; [constructor|apply fresh_in_nil|apply fresh_in_nil|].
    by destruct split; rewrite app_nil_r. }
  destruct (verify_anon_input _ _ _ _ _ _ _ _ _) as [s1|] eqn:Hi; [|done]. cbn [rbind].
  apply (verify_anon_input_spec _ txhash) in Hi as (Hv & Hf1 & Hf2 & Ec); [|done].
  intros (Hvs & Hf3 & Hf4 & ->)%IH. split_and!.
  - by constructor.
  - by eapply fresh_in_app.
  - rewrite map_app. by eapply fresh_in_app.
  - rewrite Ec, <- app_assoc. by destruct split.
Qed.

Lemma VerifyMLSAG_inv tx txhash :
  vin tx ≠ [] → ComputeHash H tx = Some txhash → VerifyMLSAG lib H x pool tx = Ok tt →
  ∃ plain cs s, committed lib tx plain cs ∧
    verify_anon_inputs lib H x pool tx (Some plain) (1 <? length (vin tx))%nat (vin tx)
      (MlsagState ∅ ∅ []) = Ok s ∧
    ∀ i, input_commits tx (Some plain) (1 <? length (vin tx))%nat i
         = Ok (if (1 <? length (vin tx))%nat then [split_commit i] else plain :: cs).
Proof.
  intros Hne Hid. unfold VerifyMLSAG.
  destruct (GetPlainValueOut tx 0 0) as [[[v a] b]|[]] eqn:Hv; [|done..]. cbn [sum_or_throw rbind].
  destruct (GetCTFee tx 0) as [[fee|]|] eqn:Hfee; [|done..]. cbn [deref rbind].
  destruct (0 <? i64 (v + fee)) eqn:Hpos.
  2:{ cbn [rbind]. destruct (verify_anon_inputs _ _ _ _ _ _ _ _ _) as [s|] eqn:Hs; [|done].
      apply (verify_anon_inputs_spec _ txhash) in Hs as (Hall & _); [|done]. cbn [rbind].
      destruct (1 <? length (vin tx))%nat eqn:Hsplit; [done|]. intros _.
      destruct (vin tx) as [|i ins]; [done|]. apply Forall_cons in Hall as [(_ & _ & _ & outs & Ho & _) _].
      done. }
  destruct (pedersen_commit lib (i64 (v + fee))) as [plain|] eqn:Hp; [|done]. cbn [rbind].
  destruct (verify_anon_inputs _ _ _ _ _ _ _ _ _) as [s|] eqn:Hs; [|done]. cbn [rbind].
  pose proof Hs as (Hall & _ & _ & Hsp)%(verify_anon_inputs_spec _ txhash); [|done].
  cbn [vpInputSplitCommits app] in Hsp.
  destruct (Nat.ltb_spec 1 (length (vin tx))) as [Hsplit|Hsplit].
  - cbn [deref rbind]. destruct (output_commitments (vpout tx)) as [cs|] eqn:Hcs; [|done]. cbn [rbind].
    rewrite Hsp. destruct (verify_tally _ _ _) eqn:Ht; [|done]. intros _. exists plain, cs, s.
    split_and!; [|done|done]. exists v, a, b, fee. apply Z.ltb_lt in Hpos. done.
  - intros _. destruct (vin tx) as [|i ins] eqn:Hvin; [done|]. apply Forall_cons in Hall as [Hi _].
    destruct Hi as (_ & _ & _ & outs & Ho & _). unfold input_commits in Ho. cbn [deref rbind] in Ho.
    destruct (output_commitments (vpout tx)) as [cs|] eqn:Hcs; [|done]. exists plain, cs, s. split_and!.
    + exists v, a, b, fee. rewrite Hvin. apply Z.ltb_lt in Hpos. split_and!; try done. intros. lia.
    + done.
    + intros j. unfold input_commits. by rewrite Hcs.
Qed.

End Facts.

(** *** The pool *)

(** The same checks with one more key image in the pool, recorded for another
    transaction. *)
Section Pool.
Context (lib : mlsag_lib) (H : bytes → bytes) (x : rct_index) (pool : gmap bytes bytes).
Context (tx : CTransaction) (txhash : bytes) (Hid : ComputeHash H tx = Some txhash).
Context (ki t : bytes) (Ht : t ≠ txhash).
Local Abbreviation pool' := (<[cmp_key ki := t]> pool).

(** A step that accepts [r] for a list of key images: it still does, or the key image
    is one of them and is rejected. *)
Definition unless_seen {A} (kis : list bytes) (r : result tx_fail A) : result tx_fail A :=
  if bool_decide (cmp_key ki ∈ map cmp_key kis) then reject 100 "bad-anonin-dup-ki" else r.

Lemma unless_seen_nil {A} (r : result tx_fail A) : unless_seen [] r = r.
Proof using. unfold unless_seen. rewrite bool_decide_false; [done|]. apply not_elem_of_nil. Qed.

Lemma unless_seen_app {A B} kis kis' (a : A) (f : A → result tx_fail B) (r : result tx_fail B) :
  f a = unless_seen kis' r →
  rbind (unless_seen kis (Ok a)) f = unless_seen (kis ++ kis') r.
Proof using.
  intros Hf. unfold unless_seen in *. rewrite map_app.
  rewrite (bool_decide_ext (cmp_key ki ∈ _ ++ _) (cmp_key ki ∈ map cmp_key kis ∨ cmp_key ki ∈ map cmp_key kis'))
    by by rewrite elem_of_app.
  destruct (bool_decide_reflect (cmp_key ki ∈ map cmp_key kis)) as [Hk|Hk].
  - rewrite bool_decide_true by by left. done.
  - cbn [rbind]. rewrite Hf. by rewrite (bool_decide_ext (_ ∨ _) (cmp_key ki ∈ map cmp_key kis')) by intuition.
Qed.

Lemma unless_seen_bind {A B} kis (a : A) (f : A → result tx_fail B) (r : result tx_fail B) :
  f a = r → rbind (unless_seen kis (Ok a)) f = unless_seen kis r.
Proof using. intros Hf. rewrite <- (app_nil_r kis) at 2. apply unless_seen_app. by rewrite unless_seen_nil. Qed.

Lemma check_key_images_pool kis s s' :
  check_key_images x pool txhash kis s = Ok s' →
  check_key_images x pool' txhash kis s = unless_seen kis (Ok s').
Proof using Ht.
  revert s. induction kis as [|k kis IH]; intros s; cbn [check_key_images].
  { intros [= <-]. by rewrite unless_seen_nil. }
  case_bool_decide as Hi; [done|].
  destruct (used_by_other txhash (HaveKeyImage pool k)) eqn:Hp; [done|].
  destruct (used_by_other txhash (ReadRCTKeyImage x k)) eqn:Hx; [done|]. intros Hok.
  unfold unless_seen, HaveKeyImage in *. cbn [map].
  destruct (decide (cmp_key ki = cmp_key k)) as [E|E].
  - rewrite E, lookup_insert_eq, (bool_decide_true (_ ∈ _)) by apply list_elem_of_here.
    cbn [used_by_other]. by rewrite bool_decide_false.
  - rewrite lookup_insert_ne, Hp by done. rewrite (IH _ Hok).
    rewrite (bool_decide_ext (_ ∈ _ :: _) (cmp_key ki ∈ map cmp_key kis)); [done|].
    rewrite elem_of_cons. intuition.
Qed.

Lemma verify_anon_input_pool plain split i s s' :
  verify_anon_input lib H x pool tx plain split i s = Ok s' →
  verify_anon_input lib H x pool' tx plain split i s = unless_seen (input_key_images i) (Ok s').
Proof using Hid Ht.
  unfold verify_anon_input. destruct (negb _); [done|]. destruct (GetAnonInfo i) as [nIn nR] eqn:Hinfo.
  destruct (_ || _); [done|]. destruct (_ || _); [done|]. rewrite Hid. cbn [deref rbind].
  destruct (scriptData i) as [|vKI [|]] eqn:Hsd; [done| |done].
  destruct (scriptWitness i) as [|vMI [|vDL [|]]]; [done|done| |done].
  destruct (negb _); [done|]. destruct (negb _); [done|].
  destruct (out_commits _ _ _ _ _) as [outs|]; [|done]. cbn [rbind].
  destruct (read_ring _ _ _ _ _) as [[aos s1]|]; [|done]. cbn [rbind]. intros Hok.
  apply rbind_Ok in Hok as (s2 & Hk & Hok). rewrite (check_key_images_pool _ _ _ Hk).
  unfold input_key_images. rewrite Hinfo, Hsd. by apply unless_seen_bind.
Qed.

Lemma verify_anon_inputs_pool plain split ins s s' :
  verify_anon_inputs lib H x pool tx plain split ins s = Ok s' →
  verify_anon_inputs lib H x pool' tx plain split ins s = unless_seen (flat_map input_key_images ins) (Ok s').
Proof using Hid Ht.
  revert s. induction ins as [|i ins IH]; intros s; cbn [verify_anon_inputs flat_map].
  { intros [= <-]. by rewrite unless_seen_nil. }
  intros (s1 & Hi & Hs)%rbind_Ok. rewrite (verify_anon_input_pool _ _ _ _ _ Hi).
  apply unless_seen_app. by apply IH.
Qed.

Lemma VerifyMLSAG_pool :
  VerifyMLSAG lib H x pool tx = Ok tt →
  VerifyMLSAG lib H x pool' tx = unless_seen (flat_map input_key_images (vin tx)) (Ok tt).
Proof using Hid Ht.
  unfold VerifyMLSAG. destruct (sum_or_throw _) as [[[v a] b]|]; [|done]. cbn [rbind].
  destruct (deref (GetCTFee tx 0)) as [[fee|]|]; [|done..]. cbn [rbind].
  destruct (if 0 <? _ then _ else _) as [plain|]; [|done]. cbn [rbind].
  intros (s & Hs & Hok)%rbind_Ok. rewrite (verify_anon_inputs_pool _ _ _ _ _ Hs).
  by apply unless_seen_bind.
Qed.

End Pool.

(** *** The index *)

(** Every output has its link and every link its output. *)
Definition rct_links_ok (x : rct_index) : Prop :=
  (∀ i ao, rct_outputs x !! i = Some ao → rct_links x !! db_key (ao_pubkey ao) = Some i) ∧
  (∀ k i, rct_links x !! k = Some i → ∃ ao, rct_outputs x !! i = Some ao ∧ db_key (ao_pubkey ao) = k).

(** One index is another without the outputs of a range. *)
Definition range_erased (lo hi : Z) (x x' : rct_index) : Prop :=
  rct_links_ok x' ∧ rct_key_images x' = rct_key_images x ∧
  ∀ j, rct_outputs x' !! j = if bool_decide (lo <= j <= hi) then None else rct_outputs x !! j.

Lemma range_erased_refl lo x : rct_links_ok x → range_erased (lo + 1) lo x x.
Proof. intros Hx. split_and!; [done|done|]. intros j. rewrite bool_decide_false by lia. done. Qed.

Lemma erase_one x i ao :
  rct_links_ok x → rct_outputs x !! i = Some ao →
  range_erased i i x (EraseRCTOutputLink (EraseRCTOutput x i) (ao_pubkey ao)).
Proof.
  intros [H1 H2] Hi. split_and!; [split|done|].
  - cbn. intros j ao' [Hne Hj]%lookup_delete_Some. pose proof (H1 i ao Hi). pose proof (H1 j ao' Hj).
    rewrite lookup_delete_ne; [done|]. congruence.
  - cbn. intros k j [Hne Hj]%lookup_delete_Some. destruct (H2 k j Hj) as (ao' & Ho & Hk).
    exists ao'. split; [|done]. rewrite lookup_delete_ne; [done|]. congruence.
  - intros j. cbn. case_bool_decide as Hj; [|by rewrite lookup_delete_ne by lia].
    replace j with i by lia. apply lookup_delete_eq.
Qed.

Lemma range_erased_trans lo mid hi x x1 x2 :
  lo <= mid + 1 → mid <= hi → range_erased lo mid x x1 → range_erased (mid + 1) hi x1 x2 →
  range_erased lo hi x x2.
Proof.
  intros Hlo Hhi (_ & E1 & H1) (Hl & E2 & H2). split_and!; [done|congruence|].
  intros j. rewrite H2, H1. repeat case_bool_decide; try done; lia.
Qed.

Lemma range_erased_trans_down lo mid hi x x1 x2 :
  lo <= mid → mid <= hi + 1 → range_erased mid hi x x1 → range_erased lo (mid - 1) x1 x2 →
  range_erased lo hi x x2.
Proof.
  intros Hlo Hhi (_ & E1 & H1) (Hl & E2 & H2). split_and!; [done|congruence|].
  intros j. rewrite H2, H1. repeat case_bool_decide; try done; lia.
Qed.

Lemma erase_up_spec fuel x i a :
  rct_links_ok x → (base.size (rct_outputs x) <= fuel)%nat → i <= a + 1 →
  (∀ j, i <= j <= a → is_Some (rct_outputs x !! j)) → rct_outputs x !! (a + 1) = None →
  ∃ x', erase_up fuel x i = Some (a + 1, x') ∧ range_erased i a x x'.
Proof.
  revert x i. induction fuel as [|fuel IH]; intros x i Hx Hfuel Hi Hall Hend.
  all: destruct (decide (i = a + 1)) as [->|Hne];
    [exists x; cbn [erase_up]; unfold ReadRCTOutput; rewrite Hend; split; [done|by apply range_erased_refl]|].
  all: destruct (Hall i ltac:(lia)) as [ao Hao]; cbn [erase_up]; unfold ReadRCTOutput; rewrite Hao.
  { apply Nat.le_0_r, map_size_empty_inv in Hfuel. by rewrite Hfuel in Hao. }
  destruct (erase_one x i ao Hx Hao) as (Hl1 & E1 & H1).
  destruct (IH (EraseRCTOutputLink (EraseRCTOutput x i) (ao_pubkey ao)) (i + 1)) as (x' & Hx' & Hr).
  - done.
  - cbn. rewrite map_size_delete_Some by by eexists. lia.
  - lia.
  - intros j Hj. rewrite H1, bool_decide_false by lia. apply Hall. lia.
  - rewrite H1, bool_decide_false by lia. done.
  - exists x'. split; [done|]. eapply (range_erased_trans _ i); [lia|lia|by split_and!|done].
Qed.

Lemma erase_down_spec k x i b :
  rct_links_ok x → b <= i + 1 → i - (b - 1) <= Z.of_nat k →
  (∀ j, b <= j <= i → is_Some (rct_outputs x !! j)) → rct_outputs x !! (b - 1) = None →
  range_erased b i x (erase_down k x i).
Proof.
  revert x i. induction k as [|k IH]; intros x i Hx Hi Hk Hall Hend; cbn [erase_down].
  { replace b with (i + 1) by lia. by apply range_erased_refl. }
  unfold ReadRCTOutput. destruct (decide (i = b - 1)) as [->|Hne].
  { rewrite Hend. replace b with (b - 1 + 1) at 1 by lia. by apply range_erased_refl. }
  destruct (Hall i ltac:(lia)) as [ao Hao]. rewrite Hao.
  destruct (erase_one x i ao Hx Hao) as (Hl1 & E1 & H1).
  eapply (range_erased_trans_down _ i); [lia|lia|by split_and!|]. apply IH.
  - done.
  - lia.
  - lia.
  - intros j Hj. rewrite H1, bool_decide_false by lia. apply Hall. lia.
  - rewrite H1, bool_decide_false by lia. done.
Qed.

Lemma erase_key_images l x :
  foldl EraseRCTKeyImage x l
  = RctIndex (rct_outputs x) (rct_links x) (foldl (λ m ki, delete (db_key ki) m) (rct_key_images x) l).
Proof. revert x. induction l as [|ki l IH]; intros x; [by destruct x|]. cbn [foldl]. by rewrite IH. Qed.

Lemma delete_all_lookup {K A B} `{Countable K} (f : B → K) (l : list B) (m : gmap K A) k :
  foldl (λ m y, delete (f y) m) m l !! k = if bool_decide (k ∈ map f l) then None else m !! k.
Proof.
  revert m. induction l as [|y l IH]; intros m; [done|]. cbn [foldl map]. rewrite IH.
  destruct (decide (k = f y)) as [->|Hne].
  - rewrite lookup_delete_eq, (bool_decide_true (f y ∈ f y :: _)) by apply list_elem_of_here.
    by case_bool_decide.
  - rewrite lookup_delete_ne by done. erewrite (bool_decide_ext (k ∈ f y :: _)); [done|].
    rewrite elem_of_cons. intuition.
Qed.

(** ** Properties *)

(** C7: what [VerifyMLSAG] accepts.  Every input is anonymous, with between one and 32
    key images and rings of between 3 and 32 members; the members of all rings are
    known outputs, none used twice; the key images of the whole transaction are
    distinct, and none is recorded, in the index or in the memory pool, for another
    transaction; the library has accepted, for every input, a ring signature on the
    transaction's id over the keys of exactly that ring; and the signatures are
    balanced against one commitment to the amounts in the clear and the fee, and to
    all the confidential outputs. *)
Theorem VerifyMLSAG_sound (lib : mlsag_lib) (H : bytes → bytes) (x : rct_index)
    (pool : gmap bytes bytes) (tx : CTransaction) (txhash : bytes) :
  vin tx ≠ [] → ComputeHash H tx = Some txhash → VerifyMLSAG lib H x pool tx = Ok tt →
  Forall anon_shape (vin tx) ∧
  NoDup (flat_map input_ring (vin tx)) ∧
  Forall (λ k, is_Some (rct_outputs x !! k)) (flat_map input_ring (vin tx)) ∧
  NoDup (map cmp_key (flat_map input_key_images (vin tx))) ∧
  Forall (unused_elsewhere x pool txhash) (flat_map input_key_images (vin tx)) ∧
  ∃ plain cs, committed lib tx plain cs ∧
    Forall (λ i, ring_signed lib x txhash
      (if (1 <? length (vin tx))%nat then [split_commit i] else plain :: cs) i) (vin tx).
Proof.
  intros Hne Hid Hok. apply (VerifyMLSAG_inv _ _ _ _ _ txhash) in Hok as
    (plain & cs & s & Hc & Hv & Hs); [|done..].
  apply (verify_anon_inputs_spec _ _ _ _ _ txhash) in Hv as (Hall & (Hnd & _) & (Hnd' & _) & _); [|done].
  rewrite !Forall_forall in *. split_and!; try done.
  - intros i Hi. by apply Hall.
  - intros k (i & Hi & Hk)%list_elem_of_In%in_flat_map. apply list_elem_of_In in Hi, Hk.
    destruct (Hall i Hi) as (_ & Hr & _). rewrite Forall_forall in Hr. by apply Hr.
  - intros k (i & Hi & Hk)%list_elem_of_In%in_flat_map. apply list_elem_of_In in Hi, Hk.
    destruct (Hall i Hi) as (_ & _ & Hr & _). rewrite Forall_forall in Hr. by apply Hr.
  - exists plain, cs. split; [done|]. apply Forall_forall. intros i Hi.
    destruct (Hall i Hi) as (_ & _ & _ & outs & Ho & Hs'). rewrite Hs in Ho. by injection Ho as <-.
Qed.

(** C8: the validity of a block depends on the memory pool.  Let [VerifyMLSAG], which
    also checks the transactions of a block, accept a transaction.  As soon as the
    pool holds any of its key images for another transaction, [VerifyMLSAG] rejects
    it with the penalty of an invalid block, and otherwise the pool makes no
    difference. *)
Theorem pool_decides_validity (lib : mlsag_lib) (H : bytes → bytes) (x : rct_index)
    (pool : gmap bytes bytes) (tx : CTransaction) (txhash ki t : bytes) :
  ComputeHash H tx = Some txhash → VerifyMLSAG lib H x pool tx = Ok tt → t ≠ txhash →
  VerifyMLSAG lib H x (<[cmp_key ki := t]> pool) tx
  = if bool_decide (cmp_key ki ∈ map cmp_key (flat_map input_key_images (vin tx)))
    then reject 100 "bad-anonin-dup-ki" else Ok tt.
Proof. intros Hid Hok Ht. by apply (VerifyMLSAG_pool lib H x pool tx txhash). Qed.

(** Rolling the index back.  Let the outputs [1..a] be indexed and, after a gap left
    by an interrupted shutdown, those of [b..e]; then [RollBackRCTIndex], told the last
    valid index and [e], always ends, keeps exactly the outputs up to the last valid
    one, with their links, and forgets exactly the given key images. *)
Theorem RollBackRCTIndex_correct (x : rct_index) (last a b e : Z) (kis : list bytes) :
  rct_links_ok x → 0 <= last <= a → a + 1 < b <= e + 1 →
  (∀ i, is_Some (rct_outputs x !! i) ↔ 1 <= i <= a ∨ b <= i <= e) →
  ∃ x', RollBackRCTIndex x last e kis = Some x' ∧ rct_links_ok x' ∧
    (∀ i, rct_outputs x' !! i = if bool_decide (i <= last) then rct_outputs x !! i else None) ∧
    (∀ k, rct_key_images x' !! k = if bool_decide (k ∈ map db_key kis) then None else rct_key_images x !! k).
Proof.
  intros Hx Hlast Hb Hdom. unfold RollBackRCTIndex.
  assert (Hnone : ∀ i, ¬ (1 <= i <= a ∨ b <= i <= e) → rct_outputs x !! i = None).
  { intros i Hi. apply eq_None_not_Some. by rewrite Hdom. }
  destruct (erase_up_spec (base.size (rct_outputs x)) x (last + 1) a) as (x1 & -> & Hl1 & E1 & H1);
    [done|lia|lia|intros j Hj; apply Hdom; lia|apply Hnone; lia|].
  cbn [mbind option_bind]. set (x2 := if a + 1 <? e then _ else _).
  assert (Hr2 : range_erased b e x1 x2).
  { subst x2. destruct (Z.ltb_spec (a + 1) e).
    - apply erase_down_spec; [done|lia|lia| |].
      + intros j Hj. rewrite H1, bool_decide_false by lia. apply Hdom. lia.
      + rewrite H1. case_bool_decide; [done|]. apply Hnone. lia.
    - replace b with (e + 1) by lia. by apply range_erased_refl. }
  destruct Hr2 as (Hl2 & E2 & H2). eexists. split; [done|]. rewrite erase_key_images. split_and!; [done| |].
  - cbn. intros i. rewrite H2, H1. repeat case_bool_decide; try done; try lia. apply Hnone. lia.
  - cbn. intros k. by rewrite delete_all_lookup, E2, E1.
Qed.

(** ** A transaction from anonymous to anonymous *)

Definition toy_lib : mlsag_lib :=
  Mlsag (λ v, Some [v]) (λ _ _ vM _ _, Some vM) (λ _ _ _ _ _ _ _, true) (λ _ _, true).

Definition toy_anon_output (k : Z) : CAnonOutput :=
  AnonOutput (2 :: replicate 32 k) (8 :: replicate 32 k) (OutPoint (replicate 32 k) 0) 5 0.

(** An index of three outputs, and one that lost the third of five. *)
Definition toy_index_of (l : list Z) : rct_index :=
  RctIndex (list_to_map (map (λ k, (k, toy_anon_output k)) l))
    (list_to_map (map (λ k, (2 :: replicate 32 k, k)) l)) ∅.
Definition toy_index : rct_index := toy_index_of [1; 2; 3].
Definition toy_gap : rct_index := toy_index_of [1; 2; 4; 5].

Definition toy_key_image (k : Z) : bytes := 3 :: replicate 32 k.

(** One ring of three members. *)
Definition toy_anon_input (ki : bytes) : CTxIn :=
  TxIn (OutPoint ([1; 0; 0; 0; 3; 0; 0; 0] ++ replicate 24 0) ANON_MARKER) [] 0xffffffff
    [ki] [[1; 2; 3]; replicate 224 4].
Definition toy_anon_tx (ki : bytes) (out : Z) : CTransaction :=
  Transaction 0xA0 [toy_anon_input ki] []
    [Some (CTxOutData [DO_FEE; 10]);
     Some (CTxOutRingCT (2 :: replicate 32 out) (8 :: replicate 32 out) (replicate 33 1) [1] [])] 0.

Lemma VerifyMLSAG_sound_witness :
  let tx := toy_anon_tx (toy_key_image 9) 6 in
  flat_map input_ring (vin tx) = [1; 2; 3] ∧
  Forall (unused_elsewhere toy_index ∅ (default [] (ComputeHash id tx))) [toy_key_image 9] ∧
  ∃ plain cs, committed toy_lib tx plain cs.
Proof.
  intros tx. split; [vm_compute; reflexivity|].
  destruct (VerifyMLSAG_sound toy_lib id toy_index ∅ tx (default [] (ComputeHash id tx)))
    as (_ & _ & _ & _ & Hun & plain & cs & Hc & _).
  - discriminate.
  - vm_compute. reflexivity.
  - vm_compute. reflexivity.
  - split; [exact Hun|]. exists plain, cs. exact Hc.
Defined.

Lemma pool_decides_validity_witness :
  let tx := toy_anon_tx (toy_key_image 9) 6 in
  VerifyMLSAG toy_lib id toy_index ∅ tx = Ok tt ∧
  VerifyMLSAG toy_lib id toy_index {[toy_key_image 9 := [0]]} tx = reject 100 "bad-anonin-dup-ki".
Proof.
  intros tx. split; [vm_compute; reflexivity|].
  rewrite <- (insert_empty (toy_key_image 9) [0]).
  change (toy_key_image 9) with (cmp_key (toy_key_image 9)) at 1.
  rewrite (pool_decides_validity toy_lib id toy_index ∅ tx (default [] (ComputeHash id tx)) (toy_key_image 9) [0]).
  - vm_compute. reflexivity.
  - vm_compute. reflexivity.
  - vm_compute. reflexivity.
  - by_eval.
Defined.

Lemma toy_gap_links : rct_links_ok toy_gap.
Proof.
  split.
  - intros i ao Hi. revert i ao Hi. apply map_Forall_lookup. by_eval.
  - assert (Hall : map_Forall (λ k i, Is_true (bool_decide
      (db_key <$> (ao_pubkey <$> rct_outputs toy_gap !! i) = Some k))) (rct_links toy_gap)) by by_eval.
    intros k i Hk. pose proof (Hall k i Hk) as E%bool_decide_unpack.
    destruct (rct_outputs toy_gap !! i) as [ao|]; [|done]. injection E as <-. by exists ao.
Qed.

Lemma RollBackRCTIndex_correct_witness :
  ∃ x', RollBackRCTIndex toy_gap 1 5 [] = Some x' ∧ rct_links_ok x' ∧
    (∀ i, rct_outputs x' !! i = if bool_decide (i <= 1) then rct_outputs toy_gap !! i else None) ∧
    (∀ k, rct_key_images x' !! k = if bool_decide (k ∈ map db_key []) then None else rct_key_images toy_gap !! k).
Proof.
  apply (RollBackRCTIndex_correct toy_gap 1 2 4 5 []).
  - exact toy_gap_links.
  - lia.
  - lia.
  - intros i. unfold toy_gap, toy_index_of. cbn [rct_outputs].
    rewrite <- elem_of_dom, dom_list_to_map_L, elem_of_list_to_set. cbn. rewrite !elem_of_cons, elem_of_nil. lia.
Defined.
