(* ===== verification/Reward.v ===== *)
(** What a block may create: the yearly rate, the stake reward with its launch phase,
    the development fund, and the rule a coinstake is held to, after
    [src/src/chainparams.cpp], [GetBlockSubsidy] and the last part of [ConnectBlock]
    ([src/src/validation.cpp]).

    The launch phase scales the reward by a [double]; the product is computed here
    with the IEEE 754 operations of the Standard Library on 53-bit significands.
    [None] is a division by zero, a null dereference or a conversion of a [double]
    that does not fit. *)
From stdpp Require Import gmap strings.
From Stdlib Require Import SpecFloat.
From S2P Require Import Prelude Serialize Script Interpreter Transaction Chain TxVerify.
Open Scope string_scope.
Open Scope list_scope.
Open Scope Z_scope.

(** [pindex->nMoneySupply = ...; pindex->nAnonOutputs = ...]. *)
Definition set_supply (supply anon : Z) (b : CBlockIndex) : CBlockIndex :=
  BlockIndex (phashBlock b) (pprev b) (pskip b) (nHeight b) (nFile b) (nDataPos b) (nUndoPos b)
    (nChainWork b) (nTx b) (nChainTx b) (nFlags b) (bnStakeModifier b) (prevoutStake b) supply
    anon (nStatus b) (nVersion b) (hashMerkleRoot b) (hashWitnessMerkleRoot b)
    (nTime b) (nBits b) (nNonce b) (nSequenceId b) (nTimeMax b).

(** ** Doubles *)

(** [static_cast<double>(int64_t)] and back: towards zero. *)
Definition double_of_Z (z : Z) : spec_float := binary_normalize 53 1024 z 0 false.
Definition Z_of_double (x : spec_float) : option Z :=
  match x with
  | S754_zero _ => Some 0
  | S754_finite s m e =>
      let n := Z.shiftl (Z.pos m) e in
      let n := if s then - n else n in
      if bool_decide (is_i64 n) then Some n else None
  | _ => None
  end.

(** [z *= ratio] for an [int64_t] [z]. *)
Definition scale (z : Z) (ratio : spec_float) : option Z :=
  Z_of_double (SFmul 53 1024 (double_of_Z z) ratio).

(** ** Chain parameters *)

(** [DevFundSettings]; the address is its script, [None] when it does not decode. *)
Record DevFundSettings := DevFund {
  devFundScriptPubKey : option bytes;
  nMinDevStakePercent : Z;
  nDevOutputPeriod : Z
}.

Record reward_params := RewardParams {
  regtest : bool;
  genesis_nTime : Z;
  nCoinYearReward : Z;
  nTargetSpacing : Z;
  nLaunchPhaseEndHeight : Z;
  dLaunchPhaseRewardRatio : spec_float;
  vDevFundSettings : list (Z * DevFundSettings);
  nSubsidyHalvingInterval : Z
}.

Definition CENT : Z := 1000000.
Definition nSecondsInYear : Z := 365 * 24 * 60 * 60.

Definition GetCoinYearReward (ps : reward_params) (nTime : Z) : Z :=
  let nYearsSinceGenesis := Z.quot (nTime - genesis_nTime ps) nSecondsInYear in
  if negb (regtest ps) && (0 <=? nYearsSinceGenesis) && (nYearsSinceGenesis <? 5)
  then (5 - nYearsSinceGenesis) * CENT
  else if negb (regtest ps) && (5 <=? nYearsSinceGenesis) && (nYearsSinceGenesis <? 10) then 1 * CENT
  else if negb (regtest ps) && (10 <=? nYearsSinceGenesis) && (nYearsSinceGenesis <? 15)
  then CENT / 2
  else if negb (regtest ps) && (15 <=? nYearsSinceGenesis) && (nYearsSinceGenesis <? 25)
  then CENT / 5
  else if negb (regtest ps) && (25 <=? nYearsSinceGenesis) && (nYearsSinceGenesis <? 50)
  then CENT / 10
  else nCoinYearReward ps.

(** [365 * 24 * (60 * 60 / nTargetSpacing)], unsigned. *)
Definition blocks_per_year (ps : reward_params) : option Z :=
  if nTargetSpacing ps =? 0 then None
  else
    let d := u32 (365 * 24 * (60 * 60 / nTargetSpacing ps)) in
    if d =? 0 then None else Some d.

Definition GetProofOfStakeReward (ps : reward_params) (pindexPrev : CBlockIndex) (nFees : Z) : option Z :=
  d ← blocks_per_year ps;
  let nSubsidy :=
    Z.quot (i64 (Z.quot (nMoneySupply pindexPrev) COIN * GetCoinYearReward ps (nTime pindexPrev))) d in
  nSubsidy ← if nHeight pindexPrev <? nLaunchPhaseEndHeight ps
             then scale nSubsidy (dLaunchPhaseRewardRatio ps) else Some nSubsidy;
  Some (i64 (nSubsidy + nFees)).

(** The last entry of [l] whose time is past. *)
Fixpoint last_settings (nTime : Z) (l : list (Z * DevFundSettings)) : option DevFundSettings :=
  match l with
  | [] => None
  | (t, s) :: l' =>
      match last_settings nTime l' with
      | Some s' => Some s'
      | None => if t <? nTime then Some s else None
      end
  end.

Definition GetDevFundSettings (ps : reward_params) (nTime : Z) : option DevFundSettings :=
  last_settings nTime (vDevFundSettings ps).

(** The subsidy of a proof-of-work block. *)
Definition GetBlockSubsidy (ps : reward_params) (nHeight : Z) : option Z :=
  if nSubsidyHalvingInterval ps =? 0 then None
  else
    let halvings := Z.quot nHeight (nSubsidyHalvingInterval ps) in
    Some (if 64 <=? halvings then 0 else Z.shiftr (50 * COIN) halvings).

(** ** The rule for a coinstake *)

(** [while (pIndexDev && pIndexDev->nHeight >= low)]: the fund's share of the blocks
    from [p] back. *)
Fixpoint dev_reward_loop (fuel : nat) (ps : reward_params) (h : heap) (percent low : Z) (p : ptr)
    (nDevReward : Z) : option Z :=
  b ← h !! p;
  if low <=? nHeight b then
    r ← GetProofOfStakeReward ps b 0;
    let nDevReward := i64 (nDevReward + Z.quot (i64 (r * percent)) 100) in
    match pprev b, fuel with
    | None, _ => Some nDevReward
    | Some _, O => None
    | Some q, S f => dev_reward_loop f ps h percent low q nDevReward
    end
  else Some nDevReward.

(** The checks on the fund's output, the second of the coinstake; [GetStandardOutput]
    asserts that it is a standard one.  An address that does not decode makes the function
    return [error(...)], without a reason in the state. *)
Definition check_dev_output (s : DevFundSettings) (txCoinstake : CTransaction) (nDevReward : Z)
  : result tx_fail unit :=
  match devFundScriptPubKey s with
  | None => reject 0 "error"
  | Some script =>
      let! o := deref (vpout txCoinstake !! 1%nat) in
      let! o := deref o in
      match o with
      | CTxOutStandard v spk _ =>
          if negb (bool_decide (spk = script)) then reject 100 "bad-cs"
          else if negb (v =? nDevReward) then reject 100 "bad-cs-fund-amount"
          else Ok tt
      | _ => Err Crash
      end
  end.

(** [coinStakeCache.GetCoinStake] is a lookup of the coinstake of a block. *)
Definition check_previous_coinstake (GetCoinStake : bytes → option CTransaction) (prev : CBlockIndex)
  : result tx_fail unit :=
  if 0 <? nHeight prev then
    let! hash := deref (phashBlock prev) in
    match GetCoinStake hash with
    | None => reject 100 "bad-cs-amount"
    | Some t =>
        let! cs := deref (Transaction.IsCoinStake t) in
        if cs then Ok tt else Err Crash
    end
  else Ok tt.

(** The reward of a proof-of-stake block: [pindex] its index entry, [nBlockTime] its
    time. *)
Definition check_stake_reward (ps : reward_params) (h : heap) (GetCoinStake : bytes → option CTransaction)
    (pindex : CBlockIndex) (nBlockTime : Z) (txCoinstake : CTransaction) (nFees nStakeReward : Z)
  : result tx_fail unit :=
  let! q := deref (pprev pindex) in
  let! prev := deref (h !! q) in
  let! nCalculatedStakeReward := deref (GetProofOfStakeReward ps prev nFees) in
  let plain calculated :=
    if (nStakeReward <? 0) || negb (nStakeReward =? calculated) then reject 100 "bad-cs-amount"
    else Ok tt in
  match GetDevFundSettings ps nBlockTime with
  | None => plain nCalculatedStakeReward
  | Some s =>
      if nMinDevStakePercent s <=? 0 then plain nCalculatedStakeReward
      else if 100 <? nMinDevStakePercent s then Err Crash
      else
        let nCalculatedStakeReward :=
          Z.quot (i64 (nCalculatedStakeReward * (100 - nMinDevStakePercent s))) 100 in
        let! _ := check_previous_coinstake GetCoinStake prev in
        if nDevOutputPeriod s =? 0 then Err Crash
        else if Z.rem (nHeight pindex) (nDevOutputPeriod s) =? 0 then
          let! nDevReward :=
            deref (dev_reward_loop (Z.to_nat (nHeight prev)) ps h (nMinDevStakePercent s)
                     (nHeight pindex - nDevOutputPeriod s) q 0) in
          if negb (nStakeReward =? i64 (nDevReward + nCalculatedStakeReward))
          then reject 100 "bad-cs-amount"
          else check_dev_output s txCoinstake nDevReward
        else plain nCalculatedStakeReward
  end.

(** ** The product of the launch phase *)

Lemma digits2_pos_bounds p : 2 ^ (Z.pos (digits2_pos p) - 1) <= Z.pos p < 2 ^ Z.pos (digits2_pos p).
Proof.
  induction p as [p IH|p IH|]; cbn [digits2_pos]; [..|done].
  all: rewrite Pos2Z.inj_succ; replace (Z.succ (Z.pos (digits2_pos p)) - 1) with (Z.pos (digits2_pos p)) by lia;
    rewrite Z.pow_succ_r by lia;
    assert (E : 2 ^ Z.pos (digits2_pos p) = 2 * 2 ^ (Z.pos (digits2_pos p) - 1))
      by (rewrite <- Z.pow_succ_r by lia; f_equal; lia); lia.
Qed.

Lemma digits2_pos_unique p d : 2 ^ (d - 1) <= Z.pos p < 2 ^ d → Z.pos (digits2_pos p) = d.
Proof.
  intros Hd. pose proof (digits2_pos_bounds p) as Hp.
  destruct (Z.lt_trichotomy (Z.pos (digits2_pos p)) d) as [Hlt|[?|Hlt]]; [|done|].
  - pose proof (Z.pow_le_mono_r 2 (Z.pos (digits2_pos p)) (d - 1)). lia.
  - pose proof (Z.pow_le_mono_r 2 d (Z.pos (digits2_pos p) - 1)). lia.
Qed.

Lemma shr_1_div r : 0 <= shr_m r → shr_m (shr_1 r) = shr_m r / 2.
Proof.
  destruct r as [m a b]. cbn [shr_m]. intros Hm. rewrite <- Z.div2_div.
  by destruct m as [|[p|p|]|p]; cbn.
Qed.

Lemma div_pow_div m a b : 0 <= a → 0 <= b → m / 2 ^ a / 2 ^ b = m / 2 ^ (a + b).
Proof.
  intros Ha Hb. pose proof (Z.pow_pos_nonneg 2 a). pose proof (Z.pow_pos_nonneg 2 b).
  rewrite Z.div_div by lia. by rewrite <- Z.pow_add_r.
Qed.

Lemma div_pow_nonneg m a : 0 <= m → 0 <= a → 0 <= m / 2 ^ a.
Proof. intros Hm Ha. apply Z.div_pos; [done|]. by apply Z.pow_pos_nonneg. Qed.

Lemma div_pow_i64 m a : 0 <= m < 2 ^ 63 → 0 <= a → is_i64 (m / 2 ^ a).
Proof.
  intros Hm Ha. assert (0 < 2 ^ a) by by apply Z.pow_pos_nonneg.
  assert (m / 2 ^ a <= m) by (apply Z.div_le_upper_bound; [lia|]; nia).
  assert (0 <= m / 2 ^ a) by (apply div_pow_nonneg; lia). unfold is_i64. lia.
Qed.

Lemma iter_shr_div p r : 0 <= shr_m r → shr_m (SpecFloat.iter_pos shr_1 p r) = shr_m r / 2 ^ Z.pos p.
Proof.
  revert r. induction p as [p IH|p IH|]; intros r Hr; cbn [SpecFloat.iter_pos].
  - rewrite IH, IH, shr_1_div; [|done| |].
    + change (shr_m r / 2) with (shr_m r / 2 ^ 1). rewrite !div_pow_div by lia. f_equal. f_equal. lia.
    + rewrite shr_1_div by done. by apply (div_pow_nonneg _ 1).
    + rewrite IH, shr_1_div; [|done|rewrite shr_1_div by done; by apply (div_pow_nonneg _ 1)].
      apply div_pow_nonneg; [by apply (div_pow_nonneg _ 1)|done].
  - rewrite IH, IH; [|done|rewrite IH by done; by apply div_pow_nonneg].
    rewrite div_pow_div by lia. f_equal. f_equal. lia.
  - by rewrite shr_1_div.
Qed.

Lemma shr_none r e n : n <= 0 → shr r e n = (r, e).
Proof. by destruct n. Qed.

Lemma shr_div r e n : 0 <= shr_m r → 0 <= n → shr_m (shr r e n).1 = shr_m r / 2 ^ n ∧ (shr r e n).2 = e + n.
Proof.
  intros Hr Hn. destruct n as [|p|p]; cbn [shr fst snd]; [|by rewrite iter_shr_div|lia].
  rewrite Z.div_1_r. split; [done|lia].
Qed.

(** Rounding to 53 bits where nothing is lost. *)
Lemma binary_round_aux_exact m e :
  2 ^ 52 <= Z.pos m < 2 ^ 53 → -1000 <= e <= 900 →
  binary_round_aux 53 1024 false (Z.pos m) e loc_Exact = S754_finite false m e.
Proof.
  intros Hm He. unfold binary_round_aux, shr_fexp, fexp, emin. cbn [Zdigits2].
  rewrite (digits2_pos_unique m 53) by done. rewrite shr_none by lia. cbn [shr_m shr_record_of_loc].
  cbn [loc_of_shr_record round_nearest_even Zdigits2].
  rewrite (digits2_pos_unique m 53) by done. rewrite shr_none by lia. cbn [shr_m shr_record_of_loc].
  destruct (Z.leb_spec e (1024 - 53)); [done|lia].
Qed.

Lemma iter_xO p k : Z.pos (Pos.iter xO p k) = Z.pos p * 2 ^ Z.pos k.
Proof.
  induction k as [|k IH] using Pos.peano_ind; [cbn; lia|].
  rewrite Pos.iter_succ, Pos2Z.inj_xO, IH, Pos2Z.inj_succ, Z.pow_succ_r by lia. lia.
Qed.

Lemma double_of_Z_small n :
  0 < n < 2 ^ 53 →
  ∃ m d, double_of_Z n = S754_finite false m (d - 53) ∧ Z.pos m = n * 2 ^ (53 - d) ∧
         1 <= d <= 53 ∧ 2 ^ (d - 1) <= n < 2 ^ d ∧ 2 ^ 52 <= Z.pos m < 2 ^ 53.
Proof.
  intros Hn. destruct n as [|p|p]; [lia| |lia].
  pose proof (digits2_pos_bounds p) as Hd. set (d := Z.pos (digits2_pos p)) in *.
  assert (Hd53 : 1 <= d <= 53).
  { split; [lia|]. destruct (Z.le_gt_cases d 53); [done|].
    pose proof (Z.pow_le_mono_r 2 53 (d - 1)). lia. }
  assert (Ealign : ∃ m, shl_align p 0 (d - 53) = (m, d - 53) ∧ Z.pos m = Z.pos p * 2 ^ (53 - d)).
  { unfold shl_align. rewrite Z.sub_0_r. destruct (d - 53) as [|k|k] eqn:E; [|lia|].
    - exists p. split; [done|]. replace (53 - d) with 0 by lia. lia.
    - exists (Pos.iter xO p k). split; [done|]. replace (53 - d) with (Z.pos k) by lia.
      apply iter_xO. }
  destruct Ealign as (m & Ealign & Em).
  assert (Hm : 2 ^ 52 <= Z.pos m < 2 ^ 53).
  { rewrite Em. assert (E1 : 2 ^ 52 = 2 ^ (d - 1) * 2 ^ (53 - d)) by (rewrite <- Z.pow_add_r by lia; f_equal; lia).
    assert (E2 : 2 ^ 53 = 2 ^ d * 2 ^ (53 - d)) by (rewrite <- Z.pow_add_r by lia; f_equal; lia).
    rewrite E1, E2. pose proof (Z.pow_pos_nonneg 2 (53 - d)). nia. }
  exists m, d. split_and!; try done; try lia.
  unfold double_of_Z. cbn [binary_normalize]. unfold binary_round, fexp, emin. fold d.
  replace (Z.max (d + 0 - 53) (3 - 1024 - 53)) with (d - 53) by lia. rewrite Ealign.
  apply binary_round_aux_exact; [done|lia].
Qed.

(** Rounding a longer significand, then cutting the fraction off: the significand is
    cut to 53 bits and perhaps increased by one. *)
Lemma round_and_truncate m k j :
  2 ^ 52 <= m / 2 ^ k < 2 ^ 53 → 0 < k → 2 <= j <= 900 → 0 < m →
  ∃ f, m / 2 ^ k <= f <= m / 2 ^ k + 1 ∧
       Z_of_double (binary_round_aux 53 1024 false m (- k - j) loc_Exact) = Some (f / 2 ^ j).
Proof.
  intros Hm Hk Hj Hpos.
  assert (Hdig : Zdigits2 m = k + 53).
  { destruct m as [|p|p]; [lia| |lia]. cbn [Zdigits2]. apply digits2_pos_unique.
    pose proof (Z.pow_pos_nonneg 2 k). replace (k + 53 - 1) with (52 + k) by lia.
    replace (k + 53) with (53 + k) by lia. rewrite !Z.pow_add_r by lia.
    pose proof (Z.div_mod (Z.pos p) (2 ^ k)). pose proof (Z.mod_pos_bound (Z.pos p) (2 ^ k)). nia. }
  unfold binary_round_aux, shr_fexp at 1, fexp, emin. rewrite Hdig.
  replace (Z.max (k + 53 + (- k - j) - 53) (3 - 1024 - 53) - (- k - j)) with k by lia.
  destruct (shr _ _ k) as [r e1] eqn:Hshr.
  pose proof (shr_div (shr_record_of_loc m loc_Exact) (- k - j) k) as Hs. rewrite Hshr in Hs.
  cbn [fst snd shr_m shr_record_of_loc] in Hs. destruct Hs as [Hr He1]; [lia|lia|].
  set (f := round_nearest_even (shr_m r) (loc_of_shr_record r)).
  assert (Hf : m / 2 ^ k <= f <= m / 2 ^ k + 1).
  { rewrite <- Hr. subst f. unfold round_nearest_even.
    destruct (loc_of_shr_record r) as [|[]]; try destruct (Z.even _); lia. }
  exists f. split; [done|]. replace e1 with (- j) by lia. clear Hshr He1 Hr.
  clearbody f. clear r. destruct f as [|p|p]; [lia| |lia]. unfold shr_fexp. cbn [Zdigits2].
  destruct (decide (Z.pos p = 2 ^ 53)) as [E|Hne].
  - rewrite (digits2_pos_unique p 54) by (rewrite E; done). unfold fexp, emin.
    replace (Z.max (54 + - j - 53) (3 - 1024 - 53) - - j) with 1 by lia.
    assert (p = 9007199254740992%positive) as -> by lia. cbn [shr SpecFloat.iter_pos shr_1 shr_record_of_loc shr_m].
    destruct (Z.leb_spec (- j + 1) (1024 - 53)); [|lia]. unfold Z_of_double.
    rewrite Z.shiftl_div_pow2 by lia. replace (- (- j + 1)) with (j - 1) by lia.
    replace (9007199254740992 / 2 ^ j) with (2 ^ 52 / 2 ^ (j - 1)).
    2:{ change 9007199254740992 with (2 ^ 52 * 2 ^ 1). replace j with (j - 1 + 1) at 2 by lia.
        rewrite Z.pow_add_r by lia. pose proof (Z.pow_pos_nonneg 2 (j - 1)).
        rewrite Z.div_mul_cancel_r by lia. done. }
    rewrite bool_decide_true; [done|]. apply div_pow_i64; lia.
  - rewrite (digits2_pos_unique p 53) by lia. unfold fexp, emin. rewrite shr_none by lia.
    cbn [shr_m shr_record_of_loc]. destruct (Z.leb_spec (- j) (1024 - 53)); [|lia]. unfold Z_of_double.
    rewrite Z.shiftl_div_pow2 by lia. rewrite Z.opp_involutive.
    rewrite bool_decide_true; [done|]. apply div_pow_i64; lia.
Qed.

(** [0.05], the ratio of all networks: [2^57 / 20] rounded up, times [2^-57]. *)
Definition launch_ratio : spec_float := S754_finite false 7205759403792794 (-57).

(** The arithmetic of the product: [S = K * J] is its scale. *)
Lemma launch_bounds n P A f K J :
  0 < K → 0 < J → 0 <= n → A * K <= P < (A + 1) * K → A <= f <= A + 1 →
  n * (K * J) <= 20 * P → 20 * P + 20 * K < n * (K * J) + K * J →
  0 <= f - n / 20 * J < J.
Proof.
  intros HK HJ Hn HA Hf Hlow Hup. pose proof (Z.div_mod n 20). pose proof (Z.mod_pos_bound n 20).
  assert (n / 20 * J * K <= P) by nia. assert (n / 20 * J < A + 1) by nia.
  assert (f * K < (n / 20 + 1) * J * K) by nia. nia.
Qed.

(** The floating-point product is the exact quotient. *)
Lemma scale_launch n : 0 <= n < 2 ^ 51 → scale n launch_ratio = Some (n / 20).
Proof.
  intros Hn. destruct (decide (n = 0)) as [->|Hn0]; [done|].
  destruct (double_of_Z_small n) as (m & d & Hd & Em & Hd1 & Hd2 & Hm); [lia|].
  unfold scale. rewrite Hd. unfold launch_ratio. cbn [SFmul xorb].
  assert (d <= 51) by (destruct (Z.le_gt_cases d 51); [done|];
    pose proof (Z.pow_le_mono_r 2 51 (d - 1)); lia).
  set (M := 7205759403792794) in *.
  assert (HP : Z.pos (m * 7205759403792794) = n * M * 2 ^ (53 - d)) by (rewrite Pos2Z.inj_mul, Em; subst M; lia).
  rewrite HP. set (P := n * M * 2 ^ (53 - d)) in *.
  assert (HPm : P = Z.pos m * M) by (subst P; rewrite Em; lia).
  (** [k] is 52 or 53 *)
  assert (∃ k, 52 <= k <= 53 ∧ 2 ^ 52 <= P / 2 ^ k < 2 ^ 53) as (k & Hk & HkP).
  { rewrite HPm. destruct (Z.lt_ge_cases (Z.pos m * M) (2 ^ 105)) as [Hlt|Hge]; [exists 52|exists 53]; (split; [lia|]).
    - split; [apply Z.div_le_lower_bound; subst M; lia|apply Z.div_lt_upper_bound; subst M; lia].
    - split; [apply Z.div_le_lower_bound; subst M; lia|apply Z.div_lt_upper_bound; subst M; lia]. }
  set (j := 110 - d - k).
  destruct (round_and_truncate P k j) as (f & Hf & Ht); [done|lia|subst j; lia|subst M; lia|].
  replace (d - 53 + -57) with (- k - j) by (subst j; lia). rewrite Ht. f_equal.
  assert (HJ : 0 < 2 ^ j) by (apply Z.pow_pos_nonneg; subst j; lia).
  assert (HK : 0 < 2 ^ k <= 2 ^ 53) by (split; [apply Z.pow_pos_nonneg|apply Z.pow_le_mono_r]; lia).
  assert (HS : 2 ^ k * 2 ^ j = 2 ^ (110 - d)) by (rewrite <- Z.pow_add_r by (subst j; lia); f_equal; subst j; lia).
  assert (HS59 : 2 ^ 59 <= 2 ^ (110 - d)) by (apply Z.pow_le_mono_r; lia).
  assert (HP20 : 20 * P = n * 2 ^ (110 - d) + 8 * (n * 2 ^ (53 - d))).
  { replace (110 - d) with (57 + (53 - d)) by lia. rewrite (Z.pow_add_r 2 57) by lia. subst P M. lia. }
  assert (Hsmall : n * 2 ^ (53 - d) < 2 ^ 53) by (rewrite <- Em; lia).
  pose proof (Z.div_mod P (2 ^ k)). pose proof (Z.mod_pos_bound P (2 ^ k)).
  pose proof (Z.div_mod n 20). pose proof (Z.mod_pos_bound n 20).
  symmetry. apply Z.div_unique_pos with (r := f - n / 20 * 2 ^ j); [|lia].
  apply (launch_bounds n P (P / 2 ^ k) f (2 ^ k) (2 ^ j)); nia.
Qed.

(** ** The reward in whole numbers *)

(** Parameters of the kind the networks have. *)
Definition params_ok (ps : reward_params) : Prop :=
  1 <= nTargetSpacing ps <= 3600 ∧ 0 <= nCoinYearReward ps <= 5 * CENT ∧
  dLaunchPhaseRewardRatio ps = launch_ratio.

Definition year_blocks (ps : reward_params) : Z := 365 * 24 * (3600 / nTargetSpacing ps).

(** What a block on top of [b] creates. *)
Definition subsidy (ps : reward_params) (b : CBlockIndex) : Z :=
  let full := nMoneySupply b / COIN * GetCoinYearReward ps (nTime b) / year_blocks ps in
  if nHeight b <? nLaunchPhaseEndHeight ps then full / 20 else full.

Lemma GetCoinYearReward_range ps t : params_ok ps → 0 <= GetCoinYearReward ps t <= 5 * CENT.
Proof.
  intros (_ & Hc & _). unfold GetCoinYearReward. set (y := Z.quot _ _).
  assert (Hy : 0 <= CENT / 2 <= 5 * CENT ∧ 0 <= CENT / 5 <= 5 * CENT ∧ 0 <= CENT / 10 <= 5 * CENT) by done.
  destruct (negb (regtest ps) && (0 <=? y) && (y <? 5)) eqn:E.
  - apply andb_true_iff in E as [[_ ?%Z.leb_le]%andb_true_iff ?%Z.ltb_lt]. unfold CENT in *. lia.
  - repeat case_match; unfold CENT in *; lia.
Qed.

Lemma year_blocks_range ps : params_ok ps → 8760 <= year_blocks ps <= 8760 * 3600.
Proof.
  intros ((H1 & H2) & _). unfold year_blocks. set (sp := nTargetSpacing ps) in *.
  assert (1 <= 3600 / sp) by (apply Z.div_le_lower_bound; lia).
  assert (3600 / sp <= 3600) by (apply Z.div_le_upper_bound; nia). lia.
Qed.

(** The full subsidy is far below the limits of the machine. *)
Lemma full_subsidy_range ps b :
  params_ok ps → 0 <= nMoneySupply b <= MAX_MONEY →
  0 <= nMoneySupply b / COIN * GetCoinYearReward ps (nTime b) <= 5 * 10 ^ 16 ∧
  0 <= nMoneySupply b / COIN * GetCoinYearReward ps (nTime b) / year_blocks ps <= 6 * 10 ^ 12.
Proof.
  intros Hps Hs. pose proof (GetCoinYearReward_range ps (nTime b) Hps) as Hr.
  pose proof (year_blocks_range ps Hps) as Hy. unfold MAX_MONEY, COIN, CENT in *.
  assert (0 <= nMoneySupply b / 100000000 <= 10 ^ 10).
  { split; [apply Z.div_pos; lia|apply Z.div_le_upper_bound; lia]. }
  assert (0 <= nMoneySupply b / 100000000 * GetCoinYearReward ps (nTime b) <= 5 * 10 ^ 16) by nia.
  split; [done|]. split; [apply Z.div_pos; lia|]. apply Z.div_le_upper_bound; [lia|]. nia.
Qed.

Lemma subsidy_range ps b :
  params_ok ps → 0 <= nMoneySupply b <= MAX_MONEY → 0 <= subsidy ps b <= 6 * 10 ^ 12.
Proof.
  intros Hps Hs. destruct (full_subsidy_range ps b Hps Hs) as [_ Hf]. unfold subsidy.
  set (full := _ / year_blocks ps) in *. destruct (_ <? _); [|done].
  split; [apply Z.div_pos; lia|apply Z.div_le_upper_bound; lia].
Qed.

Lemma GetProofOfStakeReward_spec ps b nFees :
  params_ok ps → 0 <= nMoneySupply b <= MAX_MONEY → 0 <= nFees <= MAX_MONEY →
  GetProofOfStakeReward ps b nFees = Some (subsidy ps b + nFees).
Proof.
  intros Hps Hs Hfees. pose proof (year_blocks_range ps Hps) as Hy.
  destruct (full_subsidy_range ps b Hps Hs) as [Hp Hf].
  pose proof (subsidy_range ps b Hps Hs) as Hsub.
  unfold GetProofOfStakeReward, blocks_per_year. destruct (Z.eqb_spec (nTargetSpacing ps) 0) as [E|E].
  { destruct Hps as [? _]. lia. }
  assert (u32 (365 * 24 * (60 * 60 / nTargetSpacing ps)) = year_blocks ps) as ->.
  { change (365 * 24 * (60 * 60 / nTargetSpacing ps)) with (year_blocks ps). unfold u32.
    apply Z.mod_small. lia. }
  destruct (Z.eqb_spec (year_blocks ps) 0); [lia|]. cbn [mbind option_bind].
  rewrite (Z.quot_div_nonneg (nMoneySupply b)) by (unfold COIN; lia).
  rewrite i64_small by (unfold is_i64; lia). rewrite Z.quot_div_nonneg by lia.
  assert (Hfee : is_i64 (subsidy ps b + nFees)) by (unfold is_i64, MAX_MONEY, COIN in *; lia).
  unfold subsidy in *. destruct (_ <? _).
  - destruct Hps as (_ & _ & ->). rewrite scale_launch by lia. cbn [mbind option_bind].
    by rewrite i64_small.
  - cbn [mbind option_bind]. by rewrite i64_small.
Qed.

(** ** The development fund *)

Lemma percent_range a c B : 0 <= a <= B → 0 <= c <= 100 → 0 <= a * c <= B * 100 ∧ 0 <= a * c / 100 <= B.
Proof.
  intros Ha Hc. assert (0 <= a * c <= B * 100) by nia. split; [done|].
  split; [apply Z.div_pos; lia|apply Z.div_le_upper_bound; lia].
Qed.

(** The fund's share of the block on top of [b], and of [k] blocks from [p] back. *)
Definition fund_share (ps : reward_params) (percent : Z) (b : CBlockIndex) : Z :=
  subsidy ps b * percent / 100.
Fixpoint fund_total (ps : reward_params) (h : heap) (percent : Z) (k : nat) (p : ptr) : Z :=
  match k, h !! p with
  | S k', Some b =>
      fund_share ps percent b +
      match pprev b with Some q => fund_total ps h percent k' q | None => 0 end
  | _, _ => 0
  end.

Section Fund.
Context (ps : reward_params) (h : heap) (percent : Z).
Context (Hps : params_ok ps) (Hh : tree_ok h) (Hpc : 0 <= percent <= 100).
Context (Hsupply : map_Forall (λ _ b, 0 <= nMoneySupply b <= MAX_MONEY) h).

Lemma fund_share_range p b : h !! p = Some b → 0 <= fund_share ps percent b <= 6 * 10 ^ 12.
Proof using Hps Hpc Hsupply.
  intros Hb. pose proof (subsidy_range ps b Hps (Hsupply p b Hb)) as Hs. unfold fund_share.
  by apply percent_range.
Qed.

Lemma fund_total_range k p : 0 <= fund_total ps h percent k p <= Z.of_nat k * (6 * 10 ^ 12).
Proof using Hps Hpc Hsupply.
  revert p. induction k as [|k IH]; intros p; cbn [fund_total]; [lia|].
  destruct (h !! p) as [b|] eqn:Hb; [|lia]. pose proof (fund_share_range p b Hb).
  destruct (pprev b) as [q|]; [specialize (IH q)|]; lia.
Qed.

Lemma dev_reward_loop_spec fuel low p b acc :
  h !! p = Some b → nHeight b <= Z.of_nat fuel → 0 <= acc →
  acc + (nHeight b + 1 - low) * (6 * 10 ^ 12) < 2 ^ 63 → low <= nHeight b + 1 →
  dev_reward_loop fuel ps h percent low p acc
  = Some (acc + fund_total ps h percent (Z.to_nat (nHeight b + 1 - low)) p).
Proof using All.
  revert p b acc. induction fuel as [|fuel IH]; intros p b acc Hb Hf Hacc Hlim Hlow;
    cbn [dev_reward_loop]; rewrite Hb; cbn [mbind option_bind];
    (destruct (Z.leb_spec low (nHeight b)) as [Hle|Hgt];
     [|replace (Z.to_nat (nHeight b + 1 - low)) with O by lia; cbn [fund_total]; f_equal; lia]);
    pose proof (subsidy_range ps b Hps (Hsupply p b Hb)) as Hs;
    pose proof (fund_share_range p b Hb) as Hfs;
    rewrite (GetProofOfStakeReward_spec ps b 0) by (try apply (Hsupply p b Hb); unfold MAX_MONEY, COIN; done || lia);
    cbn [mbind option_bind]; rewrite Z.add_0_r; rewrite (i64_small (subsidy ps b * percent)) by (unfold is_i64; nia);
    rewrite Z.quot_div_nonneg by nia; fold (fund_share ps percent b);
    rewrite i64_small by (unfold is_i64; nia);
    replace (Z.to_nat (nHeight b + 1 - low)) with (S (Z.to_nat (nHeight b - low))) by lia;
    cbn [fund_total]; rewrite Hb; pose proof (Hh p b Hb) as (_ & Hpos & Hpar & _);
    destruct (pprev b) as [q|]; try (f_equal; lia).
  - destruct Hpar as (bq & Hq & E). pose proof (tree_height h Hh q bq Hq). lia.
  - destruct Hpar as (bq & Hq & E). rewrite (IH q bq) by (done || nia).
    replace (Z.to_nat (nHeight bq + 1 - low)) with (Z.to_nat (nHeight b - low)) by lia. f_equal. lia.
Qed.

End Fund.

Lemma check_dev_output_spec s tx v :
  check_dev_output s tx v = Ok tt ↔
  ∃ script sig, devFundScriptPubKey s = Some script ∧
                vpout tx !! 1%nat = Some (Some (CTxOutStandard v script sig)).
Proof.
  unfold check_dev_output. destruct (devFundScriptPubKey s) as [script|]; [|split; [done|intros (? & ? & ? & ?); congruence]].
  destruct (vpout tx !! 1%nat) as [[[v' spk sig|? ? ? ? ?|?]|]|]; cbn [deref rbind];
    try (split; [done|intros (? & ? & ? & ?); congruence]).
  case_bool_decide as E; cbn [negb]; [|split; [done|intros (? & ? & ? & ?); congruence]]. subst spk.
  destruct (Z.eqb_spec v' v) as [->|E]; cbn [negb]; [|split; [done|intros (? & ? & ? & ?); congruence]].
  split; [intros _; by exists script, sig|done].
Qed.

(** ** Properties *)

(** C10: the stake reward is exact.  Within the money limit [GetProofOfStakeReward] never
    overflows, its floating-point step included: it is the whole number of coins in
    existence times the year's rate, divided by the blocks of a year, a twentieth of
    that in the launch phase, plus the fees; and a year of blocks at that reward
    creates at most a twentieth of the supply. *)
Theorem GetProofOfStakeReward_exact (ps : reward_params) (b : CBlockIndex) (nFees : Z) :
  params_ok ps → 0 <= nMoneySupply b <= MAX_MONEY → 0 <= nFees <= MAX_MONEY →
  GetProofOfStakeReward ps b nFees = Some (subsidy ps b + nFees) ∧ 0 <= subsidy ps b ∧
  20 * (year_blocks ps * subsidy ps b) <= nMoneySupply b.
Proof.
  intros Hps Hs Hf. split; [by apply GetProofOfStakeReward_spec|].
  pose proof (subsidy_range ps b Hps Hs) as [H0 _]. split; [done|].
  pose proof (GetCoinYearReward_range ps (nTime b) Hps) as Hr.
  pose proof (year_blocks_range ps Hps) as Hy. unfold subsidy in *.
  set (x := nMoneySupply b / COIN) in *. set (r := GetCoinYearReward ps (nTime b)) in *.
  assert (Hx : x * COIN <= nMoneySupply b) by (subst x; unfold COIN; pose proof (Z.div_mod (nMoneySupply b) 100000000);
    pose proof (Z.mod_pos_bound (nMoneySupply b) 100000000); lia).
  assert (0 <= x) by (apply Z.div_pos; unfold COIN; lia).
  assert (Hfull : year_blocks ps * (x * r / year_blocks ps) <= x * r) by (apply Z.mul_div_le; lia).
  assert (20 * (x * r) <= nMoneySupply b) by (unfold CENT, COIN in *; nia).
  assert (0 <= x * r / year_blocks ps) by (apply Z.div_pos; nia).
  destruct (_ <? _); [|lia]. assert (x * r / year_blocks ps / 20 <= x * r / year_blocks ps)
    by (apply Z.div_le_upper_bound; lia). nia.
Qed.

(** C9: what a coinstake pays.  With a development fund of [percent] and a period, a
    block is accepted exactly when its coinstake takes [100 - percent] hundredths of
    subsidy and fees, and, at every height divisible by the period, in addition the
    fund's hundredths of the subsidies of the last period, paid in full to the fund's
    script by its second output.  (The fund's hundredths of the fees go to nobody.) *)
Theorem stake_reward_exact (ps : reward_params) (h : heap) (GetCoinStake : bytes → option CTransaction)
    (pindex prev : CBlockIndex) (q : ptr) (nBlockTime : Z) (txCoinstake : CTransaction)
    (nFees nStakeReward : Z) (s : DevFundSettings) :
  tree_ok h → params_ok ps → map_Forall (λ _ b, 0 <= nMoneySupply b <= MAX_MONEY) h →
  pprev pindex = Some q → h !! q = Some prev → nHeight pindex = nHeight prev + 1 →
  0 <= nFees <= 2 ^ 56 → GetDevFundSettings ps nBlockTime = Some s →
  1 <= nMinDevStakePercent s <= 100 → 1 <= nDevOutputPeriod s <= 10 ^ 6 →
  check_previous_coinstake GetCoinStake prev = Ok tt →
  check_stake_reward ps h GetCoinStake pindex nBlockTime txCoinstake nFees nStakeReward = Ok tt ↔
  let stake := (subsidy ps prev + nFees) * (100 - nMinDevStakePercent s) / 100 in
  let fund := fund_total ps h (nMinDevStakePercent s) (Z.to_nat (nDevOutputPeriod s)) q in
  if nHeight pindex mod nDevOutputPeriod s =? 0 then
    nStakeReward = fund + stake ∧
    ∃ script sig, devFundScriptPubKey s = Some script ∧
      vpout txCoinstake !! 1%nat = Some (Some (CTxOutStandard fund script sig))
  else nStakeReward = stake.
Proof.
  intros Hh Hps Hsupply Hq Hprev Hheight Hfees Hs Hpc Hper Hcs. cbv zeta.
  set (stake := (subsidy ps prev + nFees) * _ / 100).
  set (fund := fund_total ps h _ _ q).
  pose proof (subsidy_range ps prev Hps (Hsupply _ _ Hprev)) as Hsub.
  pose proof (tree_height h Hh q prev Hprev) as Hhp.
  unfold check_stake_reward. rewrite Hq. cbn [deref rbind]. rewrite Hprev. cbn [deref rbind].
  rewrite GetProofOfStakeReward_spec by (try apply (Hsupply _ _ Hprev); unfold MAX_MONEY, COIN; done || lia).
  cbn [deref rbind]. rewrite Hs. destruct (Z.leb_spec (nMinDevStakePercent s) 0); [lia|].
  destruct (Z.ltb_spec 100 (nMinDevStakePercent s)); [lia|]. rewrite Hcs. cbn [rbind].
  destruct (percent_range (subsidy ps prev + nFees) (100 - nMinDevStakePercent s) (8 * 10 ^ 16)) as [Hc Hstake];
    [lia|lia|]. fold stake in Hstake.
  rewrite i64_small by (unfold is_i64; lia). rewrite Z.quot_div_nonneg by lia. fold stake.
  destruct (Z.eqb_spec (nDevOutputPeriod s) 0); [lia|]. rewrite Z.rem_mod_nonneg by lia.
  assert (Hpc' : 0 <= nMinDevStakePercent s <= 100) by lia. destruct (_ mod _ =? 0).
  - rewrite (dev_reward_loop_spec ps h _ Hps Hh Hpc' Hsupply _ _ q prev) by (done || lia).
    replace (nHeight prev + 1 - (nHeight pindex - nDevOutputPeriod s)) with (nDevOutputPeriod s) by lia.
    cbn [deref rbind]. rewrite Z.add_0_l. fold fund.
    pose proof (fund_total_range ps h _ Hps Hpc' Hsupply (Z.to_nat (nDevOutputPeriod s)) q
      : 0 <= fund <= _) as Hfund.
    rewrite i64_small by (unfold is_i64; lia).
    destruct (Z.eqb_spec nStakeReward (fund + stake)) as [E|E]; cbn [negb].
    + rewrite check_dev_output_spec. split; [by intros ?|by intros [_ ?]].
    + split; [done|]. by intros [? _].
  - destruct (Z.ltb_spec nStakeReward 0), (Z.eqb_spec nStakeReward stake); cbn [orb negb]; split;
      intros; done || lia.
Qed.

(** ** A chain of two blocks *)

Definition main_reward : reward_params :=
  RewardParams false 1556236800 0 60 11000 launch_ratio [(0, DevFund (Some [1]) 30 2)] 210000.

Definition toy_block (prev : option ptr) (height supply : Z) : CBlockIndex :=
  set_phashBlock (Some [height])
    (set_supply supply 0 (set_links prev None height
       (of_header (CBlockHeader.Header 1 [] uint256_zero uint256_zero 1556236900 0 0)))).

Definition toy_heap : heap :=
  {[1%positive := toy_block None 0 (525600 * 400 * COIN);
    2%positive := toy_block (Some 1%positive) 1 (525600 * 400 * COIN)]}.
Definition toy_pindex : CBlockIndex := toy_block (Some 2%positive) 2 0.
Definition toy_stake (fund : Z) : CTransaction :=
  Transaction 0x02A0 [TxIn (OutPoint (replicate 32 1) 0) [] 0 [] []] []
    [Some (CTxOutData [2; 0; 0; 0]); Some (CTxOutStandard fund [1] [])] 0.

Lemma toy_heap_ok : tree_ok toy_heap.
Proof.
  apply map_Forall_insert_2; [|apply map_Forall_insert_2; [|apply map_Forall_empty]].
  - split_and!; by_eval || done.
  - split_and!; try (by_eval || done). exists (toy_block None 0 (525600 * 400 * COIN)).
    split; vm_compute; reflexivity.
Qed.

Lemma GetProofOfStakeReward_exact_witness :
  GetProofOfStakeReward main_reward (toy_block None 20000 (525600 * 400 * COIN)) 7 = Some (2000000000 + 7).
Proof.
  destruct (GetProofOfStakeReward_exact main_reward (toy_block None 20000 (525600 * 400 * COIN)) 7)
    as [E _].
  - split_and!; vm_compute; done || reflexivity.
  - by_eval.
  - by_eval.
  - rewrite E. vm_compute. reflexivity.
Defined.

(** Height 2 of a period of 2: seven tenths of the subsidy and of a fee of ten, and the
    fund's three tenths of two subsidies. *)
Lemma stake_reward_exact_witness :
  check_stake_reward main_reward toy_heap (λ _, Some (toy_stake 0)) toy_pindex 100
    (toy_stake 60000000) 10 (60000000 + 70000007) = Ok tt.
Proof.
  apply (stake_reward_exact main_reward toy_heap (λ _, Some (toy_stake 0)) toy_pindex
    (toy_block (Some 1%positive) 1 (525600 * 400 * COIN)) 2%positive 100 (toy_stake 60000000) 10
    (60000000 + 70000007) (DevFund (Some [1]) 30 2)).
  - exact toy_heap_ok.
  - split_and!; vm_compute; done || reflexivity.
  - by_eval.
  - reflexivity.
  - vm_compute. reflexivity.
  - reflexivity.
  - lia.
  - reflexivity.
  - cbn. lia.
  - cbn. lia.
  - vm_compute. reflexivity.
  - split; [vm_compute; reflexivity|]. exists [1], []. split; vm_compute; reflexivity.
Defined.
