(* ===== verification/ConnectBlock.v ===== *)
(** Connecting and disconnecting a block, after [CheckInputs], [GetBlockScriptFlags],
    [ConnectBlock], [DisconnectBlock] and [FlushView] of [src/src/validation.cpp].

    [ConnectBlock] is translated from the check for overwritten outputs on, that is
    after [CheckBlock] and [CheckProofOfStake], in the program's own mode
    ([fBitcoinCMode]); the address, spent and timestamp indexes, which are optional,
    and the writing of the undo file are left out.  A read through the cache may load
    a coin into it without changing what it holds ([FetchCoin_represents]); the checks
    read what the cache finds.  Script checks run at once or are queued and run at
    the end, as the number of threads is zero or not. *)
From stdpp Require Import gmap strings.
From S2P Require Import Prelude Serialize Script Interpreter Transaction Chain Merkle TxVerify SigHash.
From S2P Require Import Coins Connect Anon Reward.
Open Scope string_scope.
Open Scope list_scope.
Open Scope Z_scope.

(** A failure of [ConnectBlock]: a rejection, a crash, or [false] after an attempt to
    repair the index of anonymous outputs, with the index as it is then. *)
Inductive block_fail : Type :=
| Failed (f : tx_fail)
| RepairedIndex (pblocktree : rct_index).

Definition lift {A} (r : result tx_fail A) : result block_fail A :=
  match r with Ok a => Ok a | Err f => Err (Failed f) end.

(** An assertion of the coins code that fails is a crash. *)
Definition or_crash {A} (r : result coins_error A) : result block_fail A :=
  match r with Ok a => Ok a | Err _ => Err (Failed Crash) end.

Definition bad {A} (level : Z) (reason : string) : result block_fail A := lift (reject level reason).

(** ** Script checks *)

(** [CScriptCheck]. *)
Record script_check := ScriptCheck {
  check_scriptPubKey : bytes;
  check_vchAmount : bytes;
  ptxTo : CTransaction;
  check_nIn : nat;
  check_nFlags : Z;
  check_txdata : PrecomputedTransactionData
}.

Definition with_flags (flags : Z) (c : script_check) : script_check :=
  ScriptCheck (check_scriptPubKey c) (check_vchAmount c) (ptxTo c) (check_nIn c) flags (check_txdata c).

(** [STANDARD_NOT_MANDATORY_VERIFY_FLAGS]. *)
Definition NOT_MANDATORY_FLAGS : Z :=
  foldr Z.lor 0
    [SCRIPT_VERIFY_DERSIG; SCRIPT_VERIFY_STRICTENC; SCRIPT_VERIFY_MINIMALDATA; SCRIPT_VERIFY_NULLDUMMY;
     SCRIPT_VERIFY_DISCOURAGE_UPGRADABLE_NOPS; SCRIPT_VERIFY_CLEANSTACK; SCRIPT_VERIFY_MINIMALIF;
     SCRIPT_VERIFY_NULLFAIL; SCRIPT_VERIFY_CHECKLOCKTIMEVERIFY; SCRIPT_VERIFY_CHECKSEQUENCEVERIFY;
     SCRIPT_VERIFY_LOW_S; SCRIPT_VERIFY_WITNESS; SCRIPT_VERIFY_DISCOURAGE_UPGRADABLE_WITNESS_PROGRAM;
     SCRIPT_VERIFY_WITNESS_PUBKEYTYPE; SCRIPT_VERIFY_CONST_SCRIPTCODE].

(** [GetBlockScriptFlags] in the program's own mode. *)
Definition GetBlockScriptFlags (csp2shHeight : Z) (pindex : CBlockIndex) : Z :=
  let flags := foldr Z.lor 0
    [SCRIPT_VERIFY_P2SH; SCRIPT_VERIFY_DERSIG; SCRIPT_VERIFY_CHECKLOCKTIMEVERIFY;
     SCRIPT_VERIFY_CHECKSEQUENCEVERIFY; SCRIPT_VERIFY_WITNESS; SCRIPT_VERIFY_NULLDUMMY] in
  if nHeight pindex <? csp2shHeight then Z.lor flags SCRIPT_VERIFY_NO_CSP2SH else flags.

Definition MAX_BLOCK_SIGOPS_COST : Z := 80000.
Definition BLOCK_VALID_SCRIPTS : Z := 5.

(** ** The view of a block *)

(** The members of [CCoinsViewCache] for the anonymous outputs. *)
Record rct_view := RctView {
  nLastRCTOutput : Z;
  anonOutputs : list (Z * CAnonOutput);
  anonOutputLinks : gmap bytes Z;
  keyImages : list (bytes * bytes)
}.
Definition rct_view_empty : rct_view := RctView 0 [] ∅ [].

(** What the node brings to a block: the environment of the transaction rules, the
    curve library, signature verification, the index and the pool's key images, the
    script execution cache, and its parameters. *)
Record node := Node {
  the_env : env;
  the_lib : mlsag_lib;
  VerifySignature : bytes → bytes → bytes → bool;
  pblocktree : rct_index;
  pool_key_images : gmap bytes bytes;
  (** a witness hash and flags the script execution cache holds *)
  script_cached : bytes → Z → bool;
  rewards : reward_params;
  csp2shHeight : Z;
  hashGenesisBlock : bytes;
  GetCoinStake : bytes → option CTransaction;
  nScriptCheckThreads : nat;
  fScriptChecks : bool;
  fVerifyingDB : bool
}.

(** The local variables of the loop over the transactions. *)
Record block_state (V : Type) := BlockState {
  the_view : cache V;
  the_rct : rct_view;
  nFees : Z;
  nSigOpsCost : Z;
  nStakeReward : Z;
  nMoneyCreated : Z;
  vtxundo : list (list Coin);
  state_fHasAnonInput : bool;
  state_fHasAnonOutput : bool;
  queue : list script_check
}.
Arguments BlockState {V}.
Arguments the_view {V}.
Arguments the_rct {V}.
Arguments nFees {V}.
Arguments nSigOpsCost {V}.
Arguments nStakeReward {V}.
Arguments nMoneyCreated {V}.
Arguments vtxundo {V}.
Arguments state_fHasAnonInput {V}.
Arguments state_fHasAnonOutput {V}.
Arguments queue {V}.

Section ConnectBlock.
Context {V : Type} `{!CoinsView V}.
Context (nd : node) (h : heap) (pindex : ptr) (b : CBlockIndex).
Let e : env := the_env nd.
Let H : bytes → bytes := Hash (the_env nd).

(** What the cache finds. *)
Definition coins_of (c : cache V) : COutPoint → option Coin := λ o, fst (CCoinsViewCache.GetCoin c o).

(** [CScriptCheck::operator()]; a signature cache remembers successful checks only. *)
Definition run_check (c : script_check) : bool :=
  match vin (ptxTo c) !! check_nIn c with
  | None => false
  | Some i =>
      match VerifyScript (digests e) (scriptSig i) (check_scriptPubKey c) (Some (scriptWitness i))
              (check_nFlags c)
              (TransactionSignatureChecker H (VerifySignature nd) (ptxTo c) (check_nIn c)
                 (check_vchAmount c) (Some (check_txdata c))) with
      | Ok _ => true
      | Err _ => false
      end
  end.

(** The loop of [CheckInputs] over the inputs from the [k]-th on: the checks for the
    queue, and [fHasAnonInput]. *)
Fixpoint check_inputs_loop (inline : bool) (v : COutPoint → option Coin) (tx : CTransaction)
    (txdata : PrecomputedTransactionData) (flags : Z) (k : nat) (ins : list CTxIn)
  : result tx_fail (list script_check * bool) :=
  match ins with
  | [] => Ok ([], false)
  | i :: ins' =>
      if IsAnonInput i then
        let! (checks, _) := check_inputs_loop inline v tx txdata flags (S k) ins' in
        Ok (checks, true)
      else
        let coin := AccessCoin v (prevout i) in
        if IsSpent coin then Err Crash
        else
          let vchAmount := if nType coin =? OUTPUT_STANDARD then c_ser c_i64 (nValue (out coin)) else [] in
          let check := ScriptCheck (scriptPubKey (out coin)) vchAmount tx k flags txdata in
          if inline && negb (run_check check) then
            if has flags NOT_MANDATORY_FLAGS
               && run_check (with_flags (Z.land flags (u32 (Z.lnot NOT_MANDATORY_FLAGS))) check)
            then reject 0 "non-mandatory-script-verify-flag"
            else reject 100 "mandatory-script-verify-flag-failed"
          else
            let! (checks, anon) := check_inputs_loop inline v tx txdata flags (S k) ins' in
            Ok (if inline then checks else check :: checks, anon)
  end.

(** [CheckInputs] as [ConnectBlock] calls it. *)
Definition CheckInputs (v : COutPoint → option Coin) (tx : CTransaction)
    (txdata : PrecomputedTransactionData) (flags : Z) : result tx_fail (list script_check) :=
  if IsCoinBase tx then Ok []
  else if negb (fScriptChecks nd) then Ok []
  else
    let! witness_hash := deref (ComputeWitnessHash H tx) in
    if script_cached nd witness_hash flags then Ok []
    else
      let! (checks, fHasAnonInput) :=
        check_inputs_loop (nScriptCheckThreads nd =? 0)%nat v tx txdata flags 0 (vin tx) in
      let! _ := if fHasAnonInput
                then VerifyMLSAG (the_lib nd) H (pblocktree nd) (pool_key_images nd) tx else Ok tt in
      Ok checks.

(** *** Anonymous inputs and outputs *)

Definition prev_entry : option CBlockIndex := pprev b ≫= λ q, h !! q.

(** The key images of a transaction's inputs, for the index. *)
Fixpoint index_key_images (txhash : bytes) (ins : list CTxIn) : result tx_fail (list (bytes * bytes)) :=
  match ins with
  | [] => Ok []
  | i :: ins' =>
      if IsAnonInput i then
        match scriptData i with
        | [vKeyImages] =>
            if negb (size vKeyImages =? u32 (33 * fst (GetAnonInfo i))) then reject 0 "error"
            else
              let! l := index_key_images txhash ins' in
              Ok (map (λ ki, (ki, txhash)) (key_images_of (fst (GetAnonInfo i)) vKeyImages) ++ l)
        | _ => reject 0 "error"
        end
      else index_key_images txhash ins'
  end.

(** The anonymous outputs of a transaction from the [k]-th on. *)
Fixpoint index_outputs (txhash : bytes) (k : Z) (l : list (option CTxOutBase)) (r : rct_view)
  : result block_fail rct_view :=
  match l with
  | [] => Ok r
  | o :: l' =>
      let! o := lift (deref o) in
      match o with
      | CTxOutRingCT pk commitment _ _ _ =>
          match (if fVerifyingDB nd then None else ReadRCTOutputLink (pblocktree nd) pk) with
          | Some nTestExists =>
              let! prev := lift (deref prev_entry) in
              if nAnonOutputs prev <? nTestExists then
                let! x := lift (deref (RollBackRCTIndex (pblocktree nd) (nAnonOutputs prev) nTestExists [])) in
                Err (RepairedIndex x)
              else bad 0 "error"
          | None =>
              if negb (fVerifyingDB nd) && bool_decide (is_Some (anonOutputLinks r !! cmp_key pk))
              then bad 0 "error"
              else
                let nLast := nLastRCTOutput r + 1 in
                let ao := AnonOutput pk commitment (OutPoint txhash k) (nHeight b) 0 in
                index_outputs txhash (k + 1) l'
                  (RctView nLast (anonOutputs r ++ [(nLast, ao)])
                     (<[cmp_key pk := nLast]> (anonOutputLinks r)) (keyImages r))
          end
      | _ => index_outputs txhash (k + 1) l' r
      end
  end.

(** [if (view.nLastRCTOutput == 0) ...] and the indexing that follows. *)
Definition index_rct (txhash : bytes) (tx : CTransaction) (anon : bool) (r : rct_view)
  : result block_fail rct_view :=
  let r := if nLastRCTOutput r =? 0
           then RctView (match prev_entry with Some p => nAnonOutputs p | None => 0 end)
                  (anonOutputs r) (anonOutputLinks r) (keyImages r)
           else r in
  if anon then
    let! l := lift (index_key_images txhash (vin tx)) in
    index_outputs txhash 0 (vpout tx)
      (RctView (nLastRCTOutput r) (anonOutputs r) (anonOutputLinks r) (keyImages r ++ l))
  else Ok r.

(** *** One transaction *)

(** The checks of a transaction that is not a coinbase: the new state. *)
Definition check_tx_inputs (tx : CTransaction) (s : block_state V) : result block_fail (block_state V) :=
  let v := coins_of (the_view s) in
  let! r := lift (CheckTxInputs e tx v (nHeight b)) in
  let! cs := lift (deref (Transaction.IsCoinStake tx)) in
  let reward := if cs then i64 (nStakeReward s + nTxFee r) else nStakeReward s in
  let created := if cs then i64 (nMoneyCreated s + reward) else nMoneyCreated s in
  let fees := if cs then nFees s else i64 (nFees s + nTxFee r) in
  if negb (MoneyRange fees) then bad 100 "bad-txns-accumulated-fee-outofrange"
  else
    let prevheights :=
      map (λ i, if IsAnonInput i then 0 else coin_nHeight (AccessCoin v (prevout i))) (vin tx) in
    let! final := lift (deref (SequenceLocks tx LOCKTIME_VERIFY_SEQUENCE prevheights h pindex)) in
    if negb final then bad 100 "bad-txns-nonfinal"
    else Ok (BlockState (the_view s) (the_rct s) fees (nSigOpsCost s) reward created (vtxundo s)
               (fHasAnonInput r) (fHasAnonOutput r) (queue s)).

(** The coins and the undo record. *)
Definition update_coins (tx : CTransaction) (s : block_state V) : result block_fail (block_state V) :=
  if IsCoinBase tx then
    let! (_, c) := or_crash (UpdateCoins H (the_view s) tx (nHeight b)) in
    let! v := lift (sum_or_throw (GetValueOut tx)) in
    Ok (BlockState c (the_rct s) (nFees s) (nSigOpsCost s) (nStakeReward s) (i64 (nMoneyCreated s + v))
          (vtxundo s) (state_fHasAnonInput s) (state_fHasAnonOutput s) (queue s))
  else
    let! txdata := lift (deref (precompute H tx)) in
    let! checks := lift (CheckInputs (coins_of (the_view s)) tx txdata
                           (GetBlockScriptFlags (csp2shHeight nd) b)) in
    let! (undo, c) := or_crash (UpdateCoins H (the_view s) tx (nHeight b)) in
    Ok (BlockState c (the_rct s) (nFees s) (nSigOpsCost s) (nStakeReward s) (nMoneyCreated s)
          (vtxundo s ++ [undo]) (state_fHasAnonInput s) (state_fHasAnonOutput s) (queue s ++ checks)).

(** Signature operations; those of further coinbases are not counted. *)
Definition count_sigops (first : bool) (tx : CTransaction) (s : block_state V)
  : result block_fail (block_state V) :=
  let! cost := if first || negb (IsCoinBase tx)
               then lift (deref (GetTransactionSigOpCost e tx (coins_of (the_view s))
                                   (GetBlockScriptFlags (csp2shHeight nd) b)))
               else Ok 0 in
  let n := nSigOpsCost s + cost in
  if MAX_BLOCK_SIGOPS_COST <? n then bad 100 "bad-blk-sigops"
  else Ok (BlockState (the_view s) (the_rct s) (nFees s) n (nStakeReward s) (nMoneyCreated s) (vtxundo s)
             (state_fHasAnonInput s) (state_fHasAnonOutput s) (queue s)).

Definition connect_tx (first : bool) (tx : CTransaction) (s : block_state V)
  : result block_fail (block_state V) :=
  let! txhash := lift (deref (ComputeHash H tx)) in
  let! s := if IsCoinBase tx then Ok s else check_tx_inputs tx s in
  let! s := count_sigops first tx s in
  let! s := update_coins tx s in
  let! r := index_rct txhash tx (state_fHasAnonOutput s || state_fHasAnonInput s) (the_rct s) in
  Ok (BlockState (the_view s) r (nFees s) (nSigOpsCost s) (nStakeReward s) (nMoneyCreated s) (vtxundo s)
        (state_fHasAnonInput s) (state_fHasAnonOutput s) (queue s)).

Fixpoint connect_txs (first : bool) (txs : list CTransaction) (s : block_state V)
  : result block_fail (block_state V) :=
  match txs with
  | [] => Ok s
  | tx :: txs' => let! s := connect_tx first tx s in connect_txs false txs' s
  end.

(** *** The block *)

(** No output of the block may replace one that is unspent. *)
Fixpoint overwrites (c : cache V) (txs : list CTransaction) : result block_fail bool :=
  match txs with
  | [] => Ok false
  | tx :: txs' =>
      let! txhash := lift (deref (ComputeHash H tx)) in
      if existsb (λ o, fst (CCoinsViewCache.HaveCoin c (OutPoint txhash (u32 (Z.of_nat o)))))
           (seq 0 (GetNumVOuts tx))
      then Ok true
      else overwrites c txs'
  end.

(** The reward, when all checks have been run. *)
Definition check_reward (block : CBlock) (s : block_state V) : result block_fail unit :=
  let! first := lift (deref (head (vtx block))) in
  let! pos := lift (deref (Transaction.IsCoinStake first)) in
  if pos then
    lift (check_stake_reward (rewards nd) h (GetCoinStake nd) b (CBlockHeader.nTime (block_header block))
            first (nFees s) (nStakeReward s))
  else if bool_decide (CBlockHeader.GetHash H (block_header block) = hashGenesisBlock nd) then Ok tt
  else bad 100 "bad-cs".

(** What a connected block leaves behind: the view, the index entry and the undo
    records. *)
Record connected_block := ConnectedBlock {
  cb_view : cache V;
  cb_rct : rct_view;
  cb_index : CBlockIndex;
  cb_undo : list (list Coin)
}.

Definition ConnectBlock (block : CBlock) (view : cache V) (r : rct_view) (fJustCheck : bool)
  : result block_fail connected_block :=
  let! hash := lift (deref (phashBlock b)) in
  let! hashPrevBlock := match pprev b with
                        | None => Ok uint256_zero
                        | Some _ => lift (deref (prev_entry ≫= phashBlock))
                        end in
  let '(best, view) := CCoinsViewCache.GetBestBlock view in
  if negb (bool_decide (hashPrevBlock = best)) then Err (Failed Crash)
  else
    let! overwrite := overwrites view (vtx block) in
    if overwrite then bad 100 "bad-txns-BIP30"
    else
      let! s := connect_txs true (vtx block) (BlockState view r 0 0 0 0 [] false false []) in
      if negb (forallb run_check (queue s)) then bad 100 "block-validation-failed"
      else
        let! _ := check_reward block s in
        if fJustCheck then Ok (ConnectedBlock (the_view s) (the_rct s) b (vtxundo s))
        else
          let supply := match prev_entry with Some p => nMoneySupply p | None => 0 end in
          let b' := set_supply (i64 (supply + nMoneyCreated s)) (nLastRCTOutput (the_rct s)) b in
          let! (b', _) := lift (deref (RaiseValidity b' BLOCK_VALID_SCRIPTS)) in
          Ok (ConnectedBlock (CCoinsViewCache.SetBestBlock (the_view s) hash (nHeight b)) (the_rct s) b'
                (vtxundo s)).

End ConnectBlock.

(** ** Disconnecting *)

Section DisconnectBlock.
Context {V : Type} `{!CoinsView V}.
Context (H : bytes → bytes) (MAX_OUTPUTS_PER_BLOCK : nat) (pblocktree : rct_index) (fForceDisconnect : bool).
Context (h : heap) (b : CBlockIndex).

(** The anonymous outputs of a transaction taken back, from the last to the first;
    [None] is [DISCONNECT_FAILED]. *)
Fixpoint unindex_outputs (l : list (option CTxOutBase)) (r : rct_view)
  : result coins_error (option rct_view) :=
  match l with
  | [] => Ok (Some r)
  | o :: l' =>
      let! r := unindex_outputs l' r in
      match r, o with
      | None, _ => Ok None
      | _, None => Err NullDereference
      | Some r, Some (CTxOutRingCT pk _ _ _ _) =>
          let first := nLastRCTOutput r =? 0 in
          let nLast := if first then nAnonOutputs b else nLastRCTOutput r in
          let matches := match ReadRCTOutput pblocktree nLast with
                         | None => false
                         | Some ao => bool_decide (cmp_key (ao_pubkey ao) = cmp_key pk)
                         end in
          if first && negb matches && negb fForceDisconnect then Ok None
          else Ok (Some (RctView (nLast - 1) (anonOutputs r) (<[cmp_key pk := nLast]> (anonOutputLinks r))
                           (keyImages r)))
      | Some r, Some _ => Ok (Some r)
      end
  end.

Definition unindex_rct (txhash : bytes) (tx : CTransaction) (r : rct_view)
  : result coins_error (option rct_view) :=
  match index_key_images txhash (vin tx) with
  | Err _ => Ok None
  | Ok l =>
      unindex_outputs (vpout tx)
        (RctView (nLastRCTOutput r) (anonOutputs r) (anonOutputLinks r) (keyImages r ++ l))
  end.

(** The transactions from the last to the first: [txs] is the reversed list and
    [nVtxundo] the index of the next undo record.  After [DISCONNECT_FAILED] the view,
    which the callers drop, is given as it was before the failing step. *)
Fixpoint disconnect_txs (blockUndo : list (list Coin)) (txs : list CTransaction) (nVtxundo : Z)
    (c : cache V) (r : rct_view) (fClean : bool)
  : result coins_error (DisconnectResult * cache V * rct_view) :=
  match txs with
  | [] => Ok (if fClean then DISCONNECT_OK else DISCONNECT_UNCLEAN, c, r)
  | tx :: txs' =>
      let! txhash := or_null (ComputeHash H tx) in
      let! r' := unindex_rct txhash tx r in
      match r' with
      | None => Ok (DISCONNECT_FAILED, c, r)
      | Some r =>
          let missing := negb (IsCoinBase tx)
                         && ((nVtxundo <? 0) || (Z.of_nat (length blockUndo) <=? nVtxundo)) in
          if missing then Ok (DISCONNECT_FAILED, c, r)
          else
            let txundo := default [] (blockUndo !! Z.to_nat nVtxundo) in
            let! (res, c) := disconnect_tx H MAX_OUTPUTS_PER_BLOCK c tx txundo (nHeight b) in
            if bool_decide (res = DISCONNECT_FAILED) then Ok (DISCONNECT_FAILED, c, r)
            else disconnect_txs blockUndo txs' (if IsCoinBase tx then nVtxundo else nVtxundo - 1) c r
                   (fClean && negb (bool_decide (res = DISCONNECT_UNCLEAN)))
      end
  end.

(** [UndoReadFromDisk] is the argument [undo]: [None] when it fails. *)
Definition DisconnectBlock (block : CBlock) (undo : option (list (list Coin))) (c : cache V) (r : rct_view)
  : result coins_error (DisconnectResult * cache V * rct_view) :=
  let! hash := or_null (phashBlock b) in
  let '(best, c) := CCoinsViewCache.GetBestBlock c in
  if negb (bool_decide (hash = best)) then Err AssertFailed
  else
    match undo with
    | None => Ok (DISCONNECT_FAILED, c, r)
    | Some blockUndo =>
        let nExpectTxns := length (filter (λ tx, IsCoinBase tx = false) (vtx block)) in
        if negb (length blockUndo =? length (vtx block))%nat && negb (length blockUndo =? nExpectTxns)%nat
        then Ok (DISCONNECT_FAILED, c, r)
        else
          let! (res, c, r) :=
            disconnect_txs blockUndo (rev (vtx block)) (Z.of_nat (length blockUndo) - 1) c r true in
          if bool_decide (res = DISCONNECT_FAILED) then Ok (res, c, r)
          else
            let! prev := or_null (pprev b ≫= λ q, h !! q) in
            let! hashPrev := or_null (phashBlock prev) in
            Ok (res, CCoinsViewCache.SetBestBlock c hashPrev (nHeight prev), r)
    end.

End DisconnectBlock.

(** [FlushView] on the index: the entries of a view are written, or, when
    disconnecting, erased. *)
Definition flush_connected (r : rct_view) (x : rct_index) : rct_index :=
  let x := foldl (λ x '(ki, txhash), WriteRCTKeyImage x ki txhash) x (keyImages r) in
  let x := foldl (λ x '(i, ao), WriteRCTOutput x i ao) x (anonOutputs r) in
  foldl (λ x '(pk, i), WriteRCTOutputLink x pk i) x (map_to_list (anonOutputLinks r)).
Definition flush_disconnected (r : rct_view) (x : rct_index) : rct_index :=
  let x := foldl (λ x '(ki, _), EraseRCTKeyImage x ki) x (keyImages r) in
  foldl (λ x '(pk, i), EraseRCTOutputLink (EraseRCTOutput x i) pk) x (map_to_list (anonOutputLinks r)).

Definition FlushView {V} `{!CoinsView V}
    (iteration : gmap COutPoint CCoinsCacheEntry → list (COutPoint * CCoinsCacheEntry))
    (c : cache V) (r : rct_view) (x : rct_index) (fDisconnecting : bool)
  : result coins_error (bool * cache V * rct_view * rct_index) :=
  let! (flushed, c) := CCoinsViewCache.Flush iteration c in
  if negb flushed then Ok (false, c, r, x)
  else Ok (true, c, rct_view_empty, if fDisconnecting then flush_disconnected r x else flush_connected r x).

(** ** The coins of a block *)

(** What [CheckTransaction] has established of a transaction. *)
Definition tx_wf (H : bytes → bytes) (tx : CTransaction) : Prop :=
  Transaction.IsBitcoinCVersion tx = true ∧ Forall is_Some (vpout tx) ∧
  Forall (λ v, 0 <= v) (plain_values (vpout tx)) ∧ Z.of_nat (length (vpout tx)) <= 2 ^ 32 ∧
  is_Some (ComputeHash H tx) ∧ NoDup (map prevout (standard (vin tx))).

Definition tx_id (H : bytes → bytes) (tx : CTransaction) : bytes := default [] (ComputeHash H tx).
Definition tx_generated (tx : CTransaction) : bool := default false (is_generated tx).

(** Every coin of the set that the transactions spend can be restored from its undo
    record. *)
Definition spends_undoable (m : gmap COutPoint Coin) (txs : list CTransaction) : Prop :=
  Forall (λ tx, Forall (λ i, ∀ x, m !! prevout i = Some x → undoable x) (standard (vin tx))) txs.

(** The set after a transaction and after several, and the undo records. *)
Definition after_tx (H : bytes → bytes) (height : Z) (m : gmap COutPoint Coin) (tx : CTransaction)
  : gmap COutPoint Coin := connected m tx (tx_id H tx) height (tx_generated tx).
Definition after_txs (H : bytes → bytes) (height : Z) (m : gmap COutPoint Coin) (txs : list CTransaction)
  : gmap COutPoint Coin := foldl (after_tx H height) m txs.
Definition tx_undo (m : gmap COutPoint Coin) (tx : CTransaction) : list (list Coin) :=
  if IsCoinBase tx then [] else [undo_record m tx].
Fixpoint block_undo (H : bytes → bytes) (height : Z) (m : gmap COutPoint Coin) (txs : list CTransaction)
  : list (list Coin) :=
  match txs with
  | [] => []
  | tx :: txs' => tx_undo m tx ++ block_undo H height (after_tx H height m tx) txs'
  end.

(** Each transaction fits the set its predecessors leave. *)
Fixpoint all_connectable (H : bytes → bytes) (height : Z) (m : gmap COutPoint Coin)
    (txs : list CTransaction) : Prop :=
  match txs with
  | [] => True
  | tx :: txs' =>
      connectable m tx (tx_id H tx) height ∧ all_connectable H height (after_tx H height m tx) txs'
  end.

(** The coins each transaction spends can be restored. *)
Fixpoint all_restorable (H : bytes → bytes) (height : Z) (m : gmap COutPoint Coin)
    (txs : list CTransaction) : Prop :=
  match txs with
  | [] => True
  | tx :: txs' => restorable m tx ∧ all_restorable H height (after_tx H height m tx) txs'
  end.

Definition room_for (H : bytes → bytes) (m : gmap COutPoint Coin) (tx : CTransaction) : Prop :=
  free_from m (tx_id H tx) 0 (Z.of_nat (length (vpout tx))).

Lemma is_generated_total tx : Forall is_Some (vpout tx) → is_generated tx = Some (tx_generated tx).
Proof.
  intros Hs. unfold tx_generated, is_generated. destruct (IsCoinBase tx); [done|].
  by destruct (IsCoinStake_total tx Hs) as [cs ->].
Qed.

Lemma created_In height txid cb i l o x :
  (o, x) ∈ created txid height cb i l →
  ∃ v s sig, Some (CTxOutStandard v s sig) ∈ l ∧ IsUnspendable s = false ∧
             x = new_coin (TxOut v s) height cb.
Proof.
  revert i. induction l as [|y l IH]; intros i Hx; [by apply not_elem_of_nil in Hx|].
  assert (Hrec : (o, x) ∈ created txid height cb (i + 1) l →
    ∃ v s sig, Some (CTxOutStandard v s sig) ∈ y :: l ∧ IsUnspendable s = false ∧
               x = new_coin (TxOut v s) height cb).
  { intros (v & s & sig & Hin & Hrest)%IH. exists v, s, sig. split; [by apply list_elem_of_further|done]. }
  destruct y as [[v s sig|? ? ? ? ?|?]|]; cbn [created] in Hx; auto.
  destruct (IsUnspendable s) eqn:Hu; [auto|]. apply elem_of_cons in Hx as [[= -> ->]|Hx]; [|auto].
  exists v, s, sig. split; [apply list_elem_of_here|done].
Qed.

Lemma plain_values_In l v s sig : Some (CTxOutStandard v s sig) ∈ l → v ∈ plain_values l.
Proof.
  intros Hin%list_elem_of_In. apply list_elem_of_In, in_flat_map. eexists. split; [exact Hin|]. by left.
Qed.

Section CoinsOfBlock.
Context (H : bytes → bytes) (height : Z) (Hheight : 1 <= height < 2 ^ 31).
Implicit Types m : gmap COutPoint Coin.

(** A coin after a transaction is a new one, which can be restored, or was there. *)
Lemma after_tx_coin m tx o x :
  Forall (λ v, 0 <= v) (plain_values (vpout tx)) → after_tx H height m tx !! o = Some x →
  undoable x ∨ m !! o = Some x.
Proof using Hheight.
  intros Hv Hx. unfold after_tx, connected in Hx. rewrite create_lookup in Hx by apply created_NoDup.
  destruct (list_to_map _ !! o) as [y|] eqn:Hy.
  - injection Hx as ->. apply elem_of_list_to_map_2 in Hy.
    apply created_In in Hy as (v & s & sig & Hin & Hu & ->). apply plain_values_In in Hin.
    rewrite Forall_forall in Hv. specialize (Hv v Hin). unfold undoable, IsSpent, new_coin. cbn.
    left. rewrite Z.mod_small by lia. split_and!; [apply Z.eqb_neq; lia|lia|done].
  - right. destruct (IsCoinBase tx); [done|]. rewrite spend_lookup in Hx. by destruct (bool_decide _).
Qed.

Lemma spends_undoable_after m tx txs :
  Forall (λ v, 0 <= v) (plain_values (vpout tx)) → spends_undoable m txs →
  spends_undoable (after_tx H height m tx) txs.
Proof using Hheight.
  intros Hv Hm. eapply Forall_impl; [exact Hm|]. intros tx' Htx'. eapply Forall_impl; [exact Htx'|].
  intros i Hi x Hx. apply after_tx_coin in Hx as [Hx|Hx]; [done|by apply Hi|done].
Qed.

(** Transactions that fit and spend nothing of height zero can be undone. *)
Lemma connectable_restorable m tx :
  connectable m tx (tx_id H tx) height → spends_undoable m [tx] → restorable m tx.
Proof using.
  intros (_ & _ & _ & _ & _ & _ & Hin) [Hs _]%Forall_cons Hcb. destruct (Hin Hcb) as (_ & _ & Hsome).
  rewrite Forall_forall in Hs, Hsome |- *. intros i Hi. destruct (Hsome i Hi) as [x Hx]. rewrite Hx. by apply (Hs i Hi).
Qed.

Lemma all_connectable_restorable m txs :
  all_connectable H height m txs → spends_undoable m txs → all_restorable H height m txs.
Proof using Hheight.
  revert m. induction txs as [|tx txs IH]; intros m; [done|]. intros [Hc Hcs] Hs.
  apply Forall_cons in Hs as [Hs Hss]. split.
  - apply connectable_restorable; [done|]. by constructor.
  - apply IH; [done|]. apply spends_undoable_after; [|done]. apply Hc.
Qed.

Lemma all_restorable_snoc m txs tx :
  all_restorable H height m (txs ++ [tx]) →
  all_restorable H height m txs ∧ restorable (after_txs H height m txs) tx.
Proof using.
  revert m. induction txs as [|t txs IH]; intros m; cbn [all_restorable app]; [by intros [? _]|].
  intros [Ht [Hts Htx]%IH]. done.
Qed.

Lemma after_tx_room m tx tx' :
  tx_id H tx' ≠ tx_id H tx → room_for H m tx' → room_for H (after_tx H height m tx) tx'.
Proof using.
  intros Hne Hr j Hj. unfold after_tx, connected. rewrite create_lookup by apply created_NoDup.
  rewrite not_elem_of_list_to_map_1.
  - destruct (IsCoinBase tx); [by apply Hr|]. rewrite spend_lookup, Hr by done. by destruct (bool_decide _).
  - intros (k & [= E _] & _)%created_index. done.
Qed.

Lemma after_txs_snoc m txs tx :
  after_txs H height m (txs ++ [tx]) = after_tx H height (after_txs H height m txs) tx.
Proof using. unfold after_txs. by rewrite foldl_app. Qed.

Lemma block_undo_snoc m txs tx :
  block_undo H height m (txs ++ [tx]) = block_undo H height m txs ++ tx_undo (after_txs H height m txs) tx.
Proof using.
  revert m. induction txs as [|t txs IH]; intros m; cbn [block_undo app]; [by rewrite app_nil_r|].
  rewrite IH, app_assoc. done.
Qed.

Lemma all_connectable_snoc m txs tx :
  all_connectable H height m (txs ++ [tx]) →
  all_connectable H height m txs ∧ connectable (after_txs H height m txs) tx (tx_id H tx) height.
Proof using.
  revert m. induction txs as [|t txs IH]; intros m; cbn [all_connectable app]; [by intros [? _]|].
  intros [Ht [Hts Htx]%IH]. done.
Qed.

End CoinsOfBlock.

(** ** What a step of the loop does *)

(** The accepted transaction's part in the totals. *)
Definition money_step {V} `{!CoinsView V} (e : env) (height : Z) (tx : CTransaction) (s s' : block_state V) : Prop :=
  if IsCoinBase tx then
    ∃ v, GetValueOut tx = Ok v ∧ nFees s' = nFees s ∧ nStakeReward s' = nStakeReward s ∧
      nMoneyCreated s' = i64 (nMoneyCreated s + v) ∧
      state_fHasAnonInput s' = state_fHasAnonInput s ∧ state_fHasAnonOutput s' = state_fHasAnonOutput s
  else
    ∃ r cs, CheckTxInputs e tx (coins_of (the_view s)) height = Ok r ∧
      Transaction.IsCoinStake tx = Some cs ∧ MoneyRange (nFees s') = true ∧
      state_fHasAnonInput s' = fHasAnonInput r ∧ state_fHasAnonOutput s' = fHasAnonOutput r ∧
      if cs then nFees s' = nFees s ∧ nStakeReward s' = i64 (nStakeReward s + nTxFee r) ∧
                 nMoneyCreated s' = i64 (nMoneyCreated s + nStakeReward s')
      else nFees s' = i64 (nFees s + nTxFee r) ∧ nStakeReward s' = nStakeReward s ∧
           nMoneyCreated s' = nMoneyCreated s.

Section Loop.
Context {V : Type} `{!CoinsView V} `{!CoinsViewLaws V}.
Context (nd : node) (h : heap) (pindex : ptr) (b : CBlockIndex).
Local Abbreviation H := (Hash (the_env nd)).
Implicit Types s : block_state V.

(** What an accepted transaction goes through. *)
Record tx_step (tx : CTransaction) s s' : Prop := TxStep {
  step_hash : is_Some (ComputeHash H tx);
  step_money : money_step (the_env nd) (nHeight b) tx s s';
  step_coins : ∃ undo, UpdateCoins H (the_view s) tx (nHeight b) = Ok (undo, the_view s') ∧
                       vtxundo s' = vtxundo s ++ (if IsCoinBase tx then [] else [undo]);
  step_rct : index_rct nd h b (tx_id H tx) tx (state_fHasAnonOutput s' || state_fHasAnonInput s') (the_rct s)
             = Ok (the_rct s')
}.

Lemma lift_Ok {A} (r : result tx_fail A) a : lift r = Ok a → r = Ok a.
Proof. destruct r; [by intros [= ->]|done]. Qed.

Lemma deref_Ok {A} (o : option A) a : deref o = Ok a → o = Some a.
Proof. destruct o; [by intros [= ->]|done]. Qed.

Lemma count_sigops_inv first tx s s' :
  count_sigops nd b first tx s = Ok s' →
  ∃ n, s' = BlockState (the_view s) (the_rct s) (nFees s) n (nStakeReward s) (nMoneyCreated s) (vtxundo s)
              (state_fHasAnonInput s) (state_fHasAnonOutput s) (queue s).
Proof.
  unfold count_sigops. intros (cost & _ & Hs)%rbind_Ok. destruct (_ <? _); [done|].
  injection Hs as <-. by eexists.
Qed.

Lemma update_coins_inv tx s s' :
  update_coins nd b tx s = Ok s' →
  (∃ undo, UpdateCoins H (the_view s) tx (nHeight b) = Ok (undo, the_view s') ∧
           vtxundo s' = vtxundo s ++ (if IsCoinBase tx then [] else [undo])) ∧
  the_rct s' = the_rct s ∧ nFees s' = nFees s ∧ nStakeReward s' = nStakeReward s ∧
  state_fHasAnonInput s' = state_fHasAnonInput s ∧ state_fHasAnonOutput s' = state_fHasAnonOutput s ∧
  (if IsCoinBase tx then ∃ v, GetValueOut tx = Ok v ∧ nMoneyCreated s' = i64 (nMoneyCreated s + v)
   else nMoneyCreated s' = nMoneyCreated s).
Proof.
  unfold update_coins. destruct (IsCoinBase tx).
  - destruct (UpdateCoins _ _ _ _) as [[undo c]|]; [|done]. cbn [or_crash rbind].
    destruct (GetValueOut tx) as [v|[]]; [|done..]. cbn [sum_or_throw lift rbind]. intros [= <-]. cbn.
    split_and!; try done; [|by exists v]. exists undo. by rewrite app_nil_r.
  - intros (txdata & _ & Hs)%rbind_Ok. apply rbind_Ok in Hs as (checks & _ & Hs).
    destruct (UpdateCoins _ _ _ _) as [[undo c]|]; [|done]. cbn [or_crash rbind] in Hs.
    injection Hs as <-. cbn. split_and!; try done. by exists undo.
Qed.

Lemma check_tx_inputs_inv tx s s' :
  IsCoinBase tx = false → check_tx_inputs nd h pindex b tx s = Ok s' →
  the_view s' = the_view s ∧ the_rct s' = the_rct s ∧ vtxundo s' = vtxundo s ∧
  money_step (the_env nd) (nHeight b) tx s s'.
Proof.
  intros Hcb. unfold check_tx_inputs, money_step. rewrite Hcb.
  intros (r & Hr%lift_Ok & Hs)%rbind_Ok. apply rbind_Ok in Hs as (cs & Hcs%lift_Ok%deref_Ok & Hs).
  cbv zeta in Hs. destruct (MoneyRange _) eqn:Hrange; [|done]. cbn [negb] in Hs.
  apply rbind_Ok in Hs as (final & _ & Hs). destruct final; [|done]. injection Hs as <-. cbn.
  split_and!; try done. exists r, cs. split_and!; try done. by destruct cs.
Qed.

Lemma connect_tx_inv first tx s s' : connect_tx nd h pindex b first tx s = Ok s' → tx_step tx s s'.
Proof.
  unfold connect_tx. intros (txhash & Hid%lift_Ok%deref_Ok & Hs)%rbind_Ok.
  apply rbind_Ok in Hs as (s1 & H1 & Hs). apply rbind_Ok in Hs as (s2 & H2 & Hs).
  apply rbind_Ok in Hs as (s3 & H3 & Hs). apply rbind_Ok in Hs as (r & Hr & Hs). injection Hs as <-.
  apply count_sigops_inv in H2 as (n & ->). apply update_coins_inv in H3 as (Hc & E1 & E2 & E3 & E4 & E5 & E6).
  cbn in *. assert (tx_id H tx = txhash) as Eid by (unfold tx_id; by rewrite Hid).
  destruct (IsCoinBase tx) eqn:Hcb.
  - injection H1 as <-. split; cbn.
    + by eexists.
    + unfold money_step. rewrite Hcb. destruct E6 as (v & Hv & E6). exists v. cbn. by split_and!.
    + by rewrite Hcb.
    + by rewrite Eid, <- E1.
  - apply check_tx_inputs_inv in H1 as (Ev & Er & Eu & Hm); [|done]. split; cbn.
    + by eexists.
    + unfold money_step in *. rewrite Hcb in *. destruct Hm as (ri & cs & Ha & Hb & Hm1 & Hm2 & Hm3 & Hm4).
      exists ri, cs. cbn. rewrite E2, E3, E4, E5, E6. by split_and!.
    + rewrite Hcb, <- Ev, <- Eu. done.
    + rewrite Eid, <- Er, <- E1. done.
Qed.

End Loop.

Section CoinsLoop.
Context {V : Type} `{!CoinsView V} `{!CoinsViewLaws V}.
Context (nd : node) (h : heap) (pindex : ptr) (b : CBlockIndex).
Context (Hmode : fBitcoinCMode (the_env nd) = true) (Hheight : 1 <= nHeight b < 2 ^ 31).
Local Abbreviation H := (Hash (the_env nd)).
Implicit Types (c : cache V) (s : block_state V) (m : gmap COutPoint Coin).

Lemma coins_of_represents c m o : represents c m → coins_of c o = m !! o.
Proof using All.
  intros Hr. unfold coins_of. by destruct (GetCoin_represents c m o Hr) as (c' & -> & _).
Qed.

Lemma HaveCoin_is_Some c m o :
  represents c m → TxVerify.HaveCoin (coins_of c) o = true → is_Some (m !! o).
Proof using All.
  intros Hr. unfold TxVerify.HaveCoin. rewrite (coins_of_represents c m o Hr). by destruct (m !! o).
Qed.

Lemma checked_connectable c m tx :
  represents c m → tx_wf H tx → room_for H m tx →
  (IsCoinBase tx = false → ∃ r, CheckTxInputs (the_env nd) tx (coins_of c) (nHeight b) = Ok r) →
  connectable m tx (tx_id H tx) (nHeight b).
Proof using All.
  intros Hr (Hv & Hs & Hpos & Hlen & _ & Hnd) Hroom Hcheck. split_and!; try done; [lia|lia|].
  intros Hcb. destruct (Hcheck Hcb) as [r Hok].
  apply CheckTxInputs_inputs in Hok as [Hhave Hunm]; [|done..]. split_and!; [done|done|].
  unfold standard. apply Forall_forall. intros i [Hi Hin]%list_elem_of_filter.
  rewrite Forall_forall in Hhave. destruct (Hhave i Hin) as [Ha|Ha]; [congruence|].
  by apply (HaveCoin_is_Some c).
Qed.

Lemma step_represents m tx s s' :
  represents (the_view s) m → tx_wf H tx → room_for H m tx → tx_step nd h b tx s s' →
  connectable m tx (tx_id H tx) (nHeight b) ∧
  represents (the_view s') (after_tx H (nHeight b) m tx) ∧ vtxundo s' = vtxundo s ++ tx_undo m tx.
Proof using All.
  intros Hr Hwf Hroom [Hid Hmoney (undo & Hu & Eu) _].
  assert (Hc : connectable m tx (tx_id H tx) (nHeight b)).
  { apply (checked_connectable (the_view s)); [done..|]. intros Hcb. unfold money_step in Hmoney.
    rewrite Hcb in Hmoney. destruct Hmoney as (r & cs & Hr' & _). by exists r. }
  split; [done|]. destruct Hwf as (_ & Hs & _).
  destruct (UpdateCoins_spec H (the_view s) m tx (tx_id H tx) (nHeight b) (tx_generated tx))
    as (c' & Hu' & Hr'); [done| |by apply is_generated_total|done|].
  { unfold tx_id. by destruct Hid as [x ->]. }
  rewrite Hu in Hu'. injection Hu' as -> ->. split; [done|]. rewrite Eu. unfold tx_undo. by destruct (IsCoinBase tx).
Qed.

(** The loop leaves exactly the coins of the specification, and its undo records. *)
Lemma connect_txs_represents first txs s s' m :
  connect_txs nd h pindex b first txs s = Ok s' →
  represents (the_view s) m → Forall (tx_wf H) txs → NoDup (map (tx_id H) txs) →
  Forall (room_for H m) txs →
  all_connectable H (nHeight b) m txs ∧
  represents (the_view s') (after_txs H (nHeight b) m txs) ∧
  vtxundo s' = vtxundo s ++ block_undo H (nHeight b) m txs.
Proof using All.
  revert first s m. induction txs as [|tx txs IH]; intros first s m; cbn [connect_txs].
  { intros [= <-] Hr _ _ _. cbn. rewrite app_nil_r. done. }
  intros (s1 & H1 & Hs)%rbind_Ok Hr [Hwf Hwfs]%Forall_cons [Hni Hnd]%NoDup_cons [Hroom Hrooms]%Forall_cons.
  apply connect_tx_inv in H1. destruct (step_represents m tx s s1) as (Hc & Hr1 & Eu); [done..|].
  destruct (IH false s1 (after_tx H (nHeight b) m tx) Hs Hr1) as (Hcs & Hr2 & Eu2).
  - done.
  - done.
  - rewrite Forall_forall in Hrooms |- *. intros tx' Hin. apply after_tx_room; [|by apply Hrooms].
    intros E. apply Hni. rewrite <- E. by apply list_elem_of_fmap_2.
  - cbn [all_connectable block_undo]. split_and!; [done..|]. by rewrite Eu2, Eu, app_assoc.
Qed.

(** The check for overwritten outputs gives every transaction its room. *)
Lemma overwrites_room c m txs :
  represents c m → Forall (tx_wf H) txs → overwrites nd c txs = Ok false → Forall (room_for H m) txs.
Proof using All.
  intros Hr. induction 1 as [|tx txs Hwf _ IH]; [constructor|]. cbn [overwrites].
  destruct Hwf as (Hv & _ & _ & Hlen & [x Hid] & _). rewrite Hid. cbn [deref lift rbind].
  destruct (existsb _ _) eqn:He; [done|]. intros Ho. constructor; [|by apply IH].
  intros j Hj. apply eq_None_not_Some. intros Hsome.
  assert (Hex : existsb (λ o, fst (CCoinsViewCache.HaveCoin c (OutPoint x (u32 (Z.of_nat o)))))
    (seq 0 (GetNumVOuts tx)) = true).
  { apply existsb_exists. exists (Z.to_nat j). split.
    - apply in_seq. unfold GetNumVOuts. rewrite Hv. lia.
    - rewrite Z2Nat.id by lia. unfold u32. rewrite Z.mod_small by lia.
      destruct (HaveCoin_represents c m (OutPoint x j) Hr) as (c' & -> & _). cbn [fst].
      apply bool_decide_eq_true_2. unfold tx_id in Hsome. by rewrite Hid in Hsome. }
  by rewrite Hex in He.
Qed.

End CoinsLoop.
