(* ===== verification/BlockUndo.v ===== *)
(** Connecting a block and disconnecting it again, over [ConnectBlock]: the anonymous
    outputs and key images of a block in the index, and the theorem that
    [ConnectBlock], [FlushView], [DisconnectBlock] and [FlushView] in a row restore
    the coins and the index; and a spend that cannot be undone. *)
From stdpp Require Import gmap strings.
From S2P Require Import Prelude Serialize Script Interpreter Transaction Chain Merkle TxVerify SigHash.
From S2P Require Import Coins Connect Anon Reward ConnectBlock.
Open Scope Z_scope.

(** ** What a block adds to the index *)

(** The anonymous outputs of a transaction from the [k]-th output on. *)
Fixpoint tx_anon_outputs (height : Z) (txhash : bytes) (k : Z) (l : list (option CTxOutBase))
  : list CAnonOutput :=
  match l with
  | [] => []
  | Some (CTxOutRingCT pk commitment _ _ _) :: l' =>
      AnonOutput pk commitment (OutPoint txhash k) height 0 :: tx_anon_outputs height txhash (k + 1) l'
  | _ :: l' => tx_anon_outputs height txhash (k + 1) l'
  end.
Definition tx_outputs (H : bytes → bytes) (height : Z) (tx : CTransaction) : list CAnonOutput :=
  tx_anon_outputs height (tx_id H tx) 0 (vpout tx).
Definition block_outputs (H : bytes → bytes) (height : Z) (txs : list CTransaction) : list CAnonOutput :=
  flat_map (tx_outputs H height) txs.

(** The outputs with their indices, counted on from [n]. *)
Fixpoint numbered (n : Z) (l : list CAnonOutput) : list (Z * CAnonOutput) :=
  match l with [] => [] | ao :: l' => (n + 1, ao) :: numbered (n + 1) l' end.

(** The key images of a transaction's anonymous inputs. *)
Definition tx_key_images (H : bytes → bytes) (tx : CTransaction) : list (bytes * bytes) :=
  flat_map (λ i, if IsAnonInput i then map (λ ki, (ki, tx_id H tx)) (input_key_images i) else []) (vin tx).
Definition block_key_images (H : bytes → bytes) (txs : list CTransaction) : list (bytes * bytes) :=
  flat_map (tx_key_images H) txs.

Definition out_key (ao : CAnonOutput) : bytes := cmp_key (ao_pubkey ao).

(** A map that holds exactly the links of some numbered outputs. *)
Definition links_are (L : gmap bytes Z) (nl : list (Z * CAnonOutput)) : Prop :=
  ∀ k i, L !! k = Some i ↔ ∃ ao, (i, ao) ∈ nl ∧ out_key ao = k.

Lemma numbered_app n l l' : numbered n (l ++ l') = numbered n l ++ numbered (n + Z.of_nat (length l)) l'.
Proof.
  revert n. induction l as [|ao l IH]; intros n; cbn [numbered app length]; [f_equal; lia|].
  rewrite IH. do 3 f_equal. lia.
Qed.

Lemma numbered_In n l i ao : (i, ao) ∈ numbered n l → n < i <= n + Z.of_nat (length l) ∧ ao ∈ l.
Proof.
  revert n. induction l as [|a l IH]; intros n; cbn [numbered length]; [by intros ?%not_elem_of_nil|].
  intros [[= -> ->]|Hin]%elem_of_cons.
  - split; [lia|apply list_elem_of_here].
  - apply IH in Hin as [? ?]. split; [lia|by apply list_elem_of_further].
Qed.

Lemma numbered_NoDup n l : NoDup (numbered n l).*1.
Proof.
  revert n. induction l as [|a l IH]; intros n; cbn [numbered]; [constructor|].
  rewrite fmap_cons. cbn [fst]. constructor; [|done].
  intros ([i ao] & E & Hin)%list_elem_of_fmap. cbn [fst] in E. apply numbered_In in Hin as [? _]. lia.
Qed.

Lemma numbered_snd n l : (numbered n l).*2 = l.
Proof. revert n. induction l as [|a l IH]; intros n; cbn [numbered]; [done|]. by rewrite fmap_cons, IH. Qed.

Lemma links_are_nil : links_are ∅ [].
Proof. intros k i. rewrite lookup_empty. split; [done|]. by intros (ao & ?%not_elem_of_nil & _). Qed.

Lemma links_are_insert L nl nl' i ao :
  links_are L nl → L !! out_key ao = None → (∀ y, y ∈ nl' ↔ y = (i, ao) ∨ y ∈ nl) →
  links_are (<[out_key ao := i]> L) nl'.
Proof.
  intros HL Hn Hnl' k j. pose proof (HL k j) as HLk. rewrite lookup_insert_Some, HLk. split.
  - intros [[<- <-]|(Hne & ao' & Hin & Ek)].
    + exists ao. split; [apply Hnl'; by left|done].
    + exists ao'. split; [apply Hnl'; by right|done].
  - intros (ao' & [[= -> ->]|Hin]%Hnl' & Ek); [by left|]. right. split.
    + intros E. assert (L !! out_key ao = Some j) as E'; [|congruence].
      apply HL. exists ao'. split; [done|congruence].
    + by exists ao'.
Qed.

Lemma index_key_images_spec H tx ins l :
  index_key_images (tx_id H tx) ins = Ok l →
  l = flat_map (λ i, if IsAnonInput i then map (λ ki, (ki, tx_id H tx)) (input_key_images i) else []) ins.
Proof.
  revert l. induction ins as [|i ins IH]; intros l; cbn [index_key_images flat_map]; [by intros [= <-]|].
  destruct (IsAnonInput i); [|apply IH].
  destruct (scriptData i) as [|v [|]] eqn:Hsd; [done| |done]. destruct (negb _); [done|].
  intros (l' & Hl & E)%rbind_Ok. injection E as <-. rewrite (IH l' Hl). f_equal.
  unfold input_key_images. by rewrite Hsd.
Qed.

Lemma tx_anon_outputs_length height txhash k l :
  Z.of_nat (length (tx_anon_outputs height txhash k l)) = count_ringct l.
Proof.
  unfold count_ringct. revert k. induction l as [|o l IH]; intros k; [done|]. rewrite filter_cons.
  destruct o as [[v s sig|pk cm d rp sig|d]|]; cbn [tx_anon_outputs];
    try (rewrite decide_False by done; apply IH).
  rewrite decide_True by done. cbn [length]. specialize (IH (k + 1)). lia.
Qed.

Lemma no_outputs height txhash k l : count_ringct l <= 0 → tx_anon_outputs height txhash k l = [].
Proof. rewrite <- (tx_anon_outputs_length height txhash k). by destruct (tx_anon_outputs _ _ _ _). Qed.

Lemma no_key_images H tx : Forall (λ i, IsAnonInput i = false) (vin tx) → tx_key_images H tx = [].
Proof. unfold tx_key_images. induction 1 as [|i ins Hi _ IH]; [done|]. cbn [flat_map]. by rewrite Hi. Qed.

Lemma index_key_images_plain txhash ins :
  Forall (λ i, IsAnonInput i = false) ins → index_key_images txhash ins = Ok [].
Proof. induction 1 as [|i ins Hi _ IH]; [done|]. cbn [index_key_images]. by rewrite Hi. Qed.

Lemma coinbase_input tx : IsCoinBase tx = true → Forall (λ i, IsAnonInput i = false) (vin tx).
Proof.
  unfold IsCoinBase. destruct (vin tx) as [|i [|]]; [done| |done].
  intros [_ [_ Hn]%andb_true_iff]%andb_true_iff. repeat constructor.
  unfold IsAnonInput, COutPoint_IsAnonInput. apply Z.eqb_eq in Hn as ->. done.
Qed.

(** A coinbase has no confidential outputs. *)
Definition coinbase_plain (tx : CTransaction) : Prop := IsCoinBase tx = true → count_ringct (vpout tx) = 0.

Section Index.
Context (nd : node) (h : heap) (b : CBlockIndex).
Context (Hverify : fVerifyingDB nd = false).

Lemma index_outputs_spec txhash k l r r' nl :
  index_outputs nd h b txhash k l r = Ok r' → links_are (anonOutputLinks r) nl →
  let new := tx_anon_outputs (nHeight b) txhash k l in
  let added := numbered (nLastRCTOutput r) new in
  nLastRCTOutput r' = nLastRCTOutput r + Z.of_nat (length new) ∧
  anonOutputs r' = anonOutputs r ++ added ∧ links_are (anonOutputLinks r') (nl ++ added) ∧
  keyImages r' = keyImages r ∧
  Forall (λ ao, ReadRCTOutputLink (pblocktree nd) (ao_pubkey ao) = None) new.
Proof using Hverify.
  revert k r nl. induction l as [|o l IH]; intros k r nl; cbn [index_outputs tx_anon_outputs numbered].
  { intros [= <-] HL. cbn. rewrite !app_nil_r. split_and!; [lia|done..|constructor]. }
  destruct o as [o|]; [|done]. cbn [deref lift rbind].
  destruct o as [v s sig|pk cm d rp sig|d]; [apply IH| |apply IH]. rewrite Hverify.
  destruct (ReadRCTOutputLink (pblocktree nd) pk) as [i|] eqn:Hlink.
  { intros (prev & _ & E)%rbind_Ok. destruct (_ <? _); [|done]. by apply rbind_Ok in E as (x & _ & ?). }
  cbn [negb andb]. case_bool_decide as Hin; [done|]. apply eq_None_not_Some in Hin.
  set (ao := AnonOutput pk cm (OutPoint txhash k) (nHeight b) 0). intros Hok HL.
  eapply (IH _ _ (nl ++ [(nLastRCTOutput r + 1, ao)])) in Hok.
  2:{ cbn [anonOutputLinks]. apply (links_are_insert _ nl _ _ ao); [done..|].
      intros y. rewrite elem_of_app, list_elem_of_singleton. intuition. }
  cbv zeta in *. cbn [nLastRCTOutput anonOutputs anonOutputLinks keyImages length numbered] in *.
  destruct Hok as (E1 & E2 & E3 & E4 & E5). rewrite E1, E2, E4. rewrite <- app_assoc in E3 |- *.
  split_and!; [lia|done..|by constructor].
Qed.

(** The last index before the block. *)
Definition last_before : Z := match prev_entry h b with Some p => nAnonOutputs p | None => 0 end.

(** The view of a block that has added some outputs and key images. *)
Definition rct_holds (aos : list CAnonOutput) (kis : list (bytes * bytes)) (r : rct_view) : Prop :=
  (if nLastRCTOutput r =? 0 then last_before else nLastRCTOutput r) = last_before + Z.of_nat (length aos) ∧
  anonOutputs r = numbered last_before aos ∧ links_are (anonOutputLinks r) (numbered last_before aos) ∧
  keyImages r = kis.

Lemma rct_holds_empty : rct_holds [] [] rct_view_empty.
Proof using. split_and!; [cbn; lia|done|apply links_are_nil|done]. Qed.

Lemma index_rct_spec H tx anon r r' aos kis :
  index_rct nd h b (tx_id H tx) tx anon r = Ok r' → rct_holds aos kis r → 0 <= last_before →
  (anon = false → tx_outputs H (nHeight b) tx = [] ∧ Forall (λ i, IsAnonInput i = false) (vin tx)) →
  index_key_images (tx_id H tx) (vin tx) = Ok (tx_key_images H tx) ∧
  rct_holds (aos ++ tx_outputs H (nHeight b) tx) (kis ++ tx_key_images H tx) r' ∧
  nLastRCTOutput r' = last_before + Z.of_nat (length (aos ++ tx_outputs H (nHeight b) tx)) ∧
  Forall (λ ao, ReadRCTOutputLink (pblocktree nd) (ao_pubkey ao) = None) (tx_outputs H (nHeight b) tx).
Proof using Hverify.
  unfold index_rct. fold last_before. intros Hok (Hn & Ho & HL & Hk) Hpos Hanon.
  set (r1 := if nLastRCTOutput r =? 0 then _ else r) in Hok.
  assert (nLastRCTOutput r1 = last_before + Z.of_nat (length aos) ∧ anonOutputs r1 = numbered last_before aos ∧
    links_are (anonOutputLinks r1) (numbered last_before aos) ∧ keyImages r1 = kis) as (E1 & E2 & E3 & E4).
  { subst r1. destruct (nLastRCTOutput r =? 0); done. }
  clearbody r1. destruct anon.
  - apply rbind_Ok in Hok as (l & Hl%lift_Ok & Hok). pose proof Hl as E%index_key_images_spec.
    fold (tx_key_images H tx) in E. subst l.
    apply (index_outputs_spec _ _ _ _ _ (numbered last_before aos)) in Hok; [|done].
    cbv zeta in Hok. cbn [nLastRCTOutput anonOutputs anonOutputLinks keyImages] in Hok.
    fold (tx_outputs H (nHeight b) tx) in Hok. destruct Hok as (F1 & F2 & F3 & F4 & F5).
    rewrite E1 in F1, F2, F3. rewrite E2 in F2. rewrite E4 in F4. rewrite <- numbered_app in F2, F3.
    rewrite length_app. split_and!; [done| |lia|done]. split_and!; [|done..]. rewrite length_app.
    destruct (Z.eqb_spec (nLastRCTOutput r') 0); lia.
  - injection Hok as <-. destruct (Hanon eq_refl) as [-> Hin]. rewrite (index_key_images_plain _ _ Hin).
    rewrite (no_key_images H tx Hin), !app_nil_r. split_and!; [done| |done|constructor].
    split_and!; [|done..]. destruct (Z.eqb_spec (nLastRCTOutput r1) 0); lia.
Qed.

End Index.

Section IndexLoop.
Context {V : Type} `{!CoinsView V}.
Context (nd : node) (h : heap) (pindex : ptr) (b : CBlockIndex).
Context (Hmode : fBitcoinCMode (the_env nd) = true) (Hverify : fVerifyingDB nd = false).
Context (Hpos : 0 <= last_before h b).
Local Abbreviation H := (Hash (the_env nd)).
Implicit Types s : block_state V.

(** When the flags of the state are down there is nothing to index. *)
Lemma step_nothing tx s s' :
  coinbase_plain tx → money_step (the_env nd) (nHeight b) tx s s' →
  state_fHasAnonOutput s' || state_fHasAnonInput s' = false →
  tx_outputs H (nHeight b) tx = [] ∧ Forall (λ i, IsAnonInput i = false) (vin tx).
Proof using Hmode.
  intros Hcbp Hm Hfl. apply orb_false_iff in Hfl as [Hf1 Hf2]. unfold money_step in Hm.
  destruct (IsCoinBase tx) eqn:Hcb.
  - split; [apply no_outputs; rewrite (Hcbp Hcb); done|]. by apply coinbase_input.
  - destruct Hm as (r & cs & Hr & _ & _ & Ei & Eo & _). rewrite Ei in Hf2. rewrite Eo in Hf1.
    apply CheckTxInputs_flags in Hr as [Hi Ho]; [|done].
    split; [by apply no_outputs, Ho|by apply Hi].
Qed.

Lemma connect_txs_index first txs s s' aos kis :
  connect_txs nd h pindex b first txs s = Ok s' → Forall coinbase_plain txs →
  rct_holds h b aos kis (the_rct s) →
  rct_holds h b (aos ++ block_outputs H (nHeight b) txs) (kis ++ block_key_images H txs) (the_rct s') ∧
  (txs ≠ [] → nLastRCTOutput (the_rct s')
              = last_before h b + Z.of_nat (length (aos ++ block_outputs H (nHeight b) txs))) ∧
  Forall (λ ao, ReadRCTOutputLink (pblocktree nd) (ao_pubkey ao) = None) (block_outputs H (nHeight b) txs) ∧
  Forall (λ tx, index_key_images (tx_id H tx) (vin tx) = Ok (tx_key_images H tx)) txs.
Proof using Hmode Hverify Hpos.
  revert first s aos kis. induction txs as [|tx txs IH]; intros first s aos kis; cbn [connect_txs].
  { intros [= <-] _ Hh. cbn. rewrite !app_nil_r. split_and!; [done..|constructor|constructor]. }
  intros (s1 & H1 & Hs)%rbind_Ok [Hcbp Hcbps]%Forall_cons Hh. apply connect_tx_inv in H1 as [_ Hm _ Hr].
  apply (index_rct_spec _ _ _ Hverify _ _ _ _ _ aos kis) in Hr as (Hki1 & Hh1 & Hn1 & Hl1); [|done..|].
  2:{ intros Hfl. by apply (step_nothing tx s s1). }
  destruct (IH false s1 _ _ Hs Hcbps Hh1) as (Hh2 & Hn2 & Hl2 & Hki2).
  unfold block_outputs, block_key_images in *. cbn [flat_map]. rewrite !app_assoc.
  split_and!; [done| |by apply Forall_app|by constructor].
  intros _. destruct txs as [|t txs]; [|by apply Hn2]. injection Hs as <-.
  rewrite Hn1. cbn [flat_map]. by rewrite app_nil_r.
Qed.

End IndexLoop.

(** ** Writing the index *)

Lemma foldl_proj {S M A} (f : S → A → S) (g : S → M) (f' : M → A → M) (l : list A) (s : S) :
  (∀ s a, g (f s a) = f' (g s) a) → g (foldl f s l) = foldl f' (g s) l.
Proof. intros Hf. revert s. induction l as [|a l IH]; intros s; [done|]. cbn [foldl]. by rewrite IH, Hf. Qed.

Lemma foldl_const {S M A} (f : S → A → S) (g : S → M) (l : list A) (s : S) :
  (∀ s a, g (f s a) = g s) → g (foldl f s l) = g s.
Proof. intros Hf. revert s. induction l as [|a l IH]; intros s; [done|]. cbn [foldl]. by rewrite IH, Hf. Qed.

Lemma insert_all_lookup {K A B} `{Countable K} (key : B → K) (val : B → A) (l : list B) (m : gmap K A) k :
  k ∉ map key l → foldl (λ m y, <[key y := val y]> m) m l !! k = m !! k.
Proof.
  revert m. induction l as [|y l IH]; intros m Hk; [done|]. cbn [foldl map] in *.
  apply not_elem_of_cons in Hk as [Hne Hk]. by rewrite IH, lookup_insert_ne.
Qed.

Lemma insert_all_lookup_in {K A B} `{Countable K} (key : B → K) (val : B → A) (l : list B) (m : gmap K A) y :
  NoDup (map key l) → y ∈ l → foldl (λ m y, <[key y := val y]> m) m l !! key y = Some (val y).
Proof.
  revert m. induction l as [|z l IH]; intros m Hnd Hy; [by apply not_elem_of_nil in Hy|].
  cbn [foldl map] in *. apply NoDup_cons in Hnd as [Hni Hnd]. apply elem_of_cons in Hy as [->|Hy]; [|by apply IH].
  by rewrite insert_all_lookup, lookup_insert_eq.
Qed.

Lemma flush_connected_outputs r x :
  rct_outputs (flush_connected r x) = foldl (λ m y, <[y.1 := y.2]> m) (rct_outputs x) (anonOutputs r).
Proof.
  unfold flush_connected. rewrite (foldl_const _ rct_outputs) by by intros ? []. 
  rewrite (foldl_proj _ rct_outputs (λ m y, <[y.1 := y.2]> m)) by by intros ? [].
  f_equal. by rewrite (foldl_const _ rct_outputs) by by intros ? [].
Qed.

Lemma flush_connected_links r x :
  rct_links (flush_connected r x)
  = foldl (λ m y, <[db_key y.1 := y.2]> m) (rct_links x) (map_to_list (anonOutputLinks r)).
Proof.
  unfold flush_connected. rewrite (foldl_proj _ rct_links (λ m y, <[db_key y.1 := y.2]> m)) by by intros ? [].
  f_equal. rewrite (foldl_const _ rct_links) by by intros ? []. by rewrite (foldl_const _ rct_links) by by intros ? [].
Qed.

Lemma flush_connected_key_images r x :
  rct_key_images (flush_connected r x)
  = foldl (λ m y, <[db_key y.1 := y.2]> m) (rct_key_images x) (keyImages r).
Proof.
  unfold flush_connected. do 2 rewrite (foldl_const _ rct_key_images) by by intros ? [].
  by rewrite (foldl_proj _ rct_key_images (λ m y, <[db_key y.1 := y.2]> m)) by by intros ? [].
Qed.

Lemma flush_disconnected_eq r x :
  flush_disconnected r x = RctIndex
    (foldl (λ m y, delete y.2 m) (rct_outputs x) (map_to_list (anonOutputLinks r)))
    (foldl (λ m y, delete (db_key y.1) m) (rct_links x) (map_to_list (anonOutputLinks r)))
    (foldl (λ m y, delete (db_key y.1) m) (rct_key_images x) (keyImages r)).
Proof.
  unfold flush_disconnected. set (x1 := foldl _ x (keyImages r)).
  assert (E : x1 = RctIndex (rct_outputs x) (rct_links x)
    (foldl (λ m y, delete (db_key y.1) m) (rct_key_images x) (keyImages r))).
  { subst x1. generalize (keyImages r). intros l. revert x. induction l as [|[ki t] l IH]; intros x;
      [by destruct x|]. cbn [foldl]. by rewrite IH. }
  rewrite E. clear. generalize (map_to_list (anonOutputLinks r)). intros l.
  generalize (foldl (λ m y, delete (db_key y.1) m) (rct_key_images x) (keyImages r)). intros k.
  generalize (rct_outputs x) (rct_links x). clear x. induction l as [|[pk i] l IH]; intros o ln; [done|].
  cbn [foldl]. by rewrite <- IH.
Qed.

Lemma db_cmp_key k : db_key (cmp_key k) = db_key k.
Proof.
  unfold db_key, cmp_key. destruct (cmp_valid k) eqn:E; [by rewrite E|].
  assert (cmp_valid (take 1 k) = cmp_valid k) as -> by by destruct k. by rewrite E.
Qed.

(** Entries written for a block, then erased again. *)
Lemma flush_restores x r r' nl kis :
  anonOutputs r = nl → links_are (anonOutputLinks r) nl → links_are (anonOutputLinks r') nl →
  keyImages r = kis → keyImages r' ≡ₚ kis →
  Forall (λ y, rct_outputs x !! y.1 = None ∧ ReadRCTOutputLink x (ao_pubkey y.2) = None) nl →
  Forall (λ y, ReadRCTKeyImage x y.1 = None) kis →
  flush_disconnected r' (flush_connected r x) = x.
Proof.
  intros <- HL HL' <- Hp Hnl Hkis. rewrite flush_disconnected_eq, flush_connected_outputs,
    flush_connected_links, flush_connected_key_images. rewrite Forall_forall in Hnl. rewrite Forall_forall in Hkis.
  assert (Hlink : ∀ L pk i, links_are L (anonOutputs r) → (pk, i) ∈ map_to_list L →
    ∃ ao, (i, ao) ∈ anonOutputs r ∧ out_key ao = pk).
  { intros L pk i HL0 Hin%elem_of_map_to_list. by apply HL0. }
  destruct x as [xo xl xk]. cbn [rct_outputs rct_links rct_key_images] in *. f_equal; apply map_eq; intros k;
    rewrite delete_all_lookup; case_bool_decide as Hk.
  - apply list_elem_of_fmap in Hk as ([pk i] & -> & Hin). apply (Hlink _ pk i HL') in Hin as (ao & Hin & _).
    by destruct (Hnl _ Hin) as [? _].
  - apply insert_all_lookup. intros ([i ao] & -> & Hin)%list_elem_of_fmap. apply Hk.
    apply list_elem_of_fmap. exists (out_key ao, i). split; [done|]. apply elem_of_map_to_list, HL'. by exists ao.
  - apply list_elem_of_fmap in Hk as ([pk i] & -> & Hin). apply (Hlink _ pk i HL') in Hin as (ao & Hin & <-).
    cbn [fst]. unfold out_key. rewrite db_cmp_key. by destruct (Hnl _ Hin) as [_ ?].
  - apply insert_all_lookup. intros ([pk i] & -> & Hin)%list_elem_of_fmap. apply Hk.
    apply (Hlink _ pk i HL) in Hin as (ao & Hin & <-). apply list_elem_of_fmap. exists (out_key ao, i).
    split; [done|]. apply elem_of_map_to_list, HL'. by exists ao.
  - apply list_elem_of_fmap in Hk as (y & -> & Hin). rewrite Hp in Hin. symmetry. by apply (Hkis y).
  - apply insert_all_lookup. intros (y & -> & Hin)%list_elem_of_fmap. apply Hk. apply list_elem_of_fmap.
    exists y. split; [done|]. by rewrite Hp.
Qed.

(** ** Taking a block back *)

Section Unindex.
Context (x1 : rct_index) (force : bool) (b1 : CBlockIndex).

Definition current (r : rct_view) : Z := if nLastRCTOutput r =? 0 then nAnonOutputs b1 else nLastRCTOutput r.

(** The index of an output, [base] the index before the first. *)
Definition ready (base : Z) (new : list CAnonOutput) (nl : list (Z * CAnonOutput)) (r : rct_view) : Prop :=
  links_are (anonOutputLinks r) nl ∧ 0 <= base ∧ (new ≠ [] → current r = base + Z.of_nat (length new)) ∧
  Forall (λ y, rct_outputs x1 !! y.1 = Some y.2) (numbered base new) ∧
  NoDup (map out_key (new ++ nl.*2)).

Lemma links_are_fresh L nl ao : links_are L nl → out_key ao ∉ map out_key nl.*2 → L !! out_key ao = None.
Proof using.
  intros HL Hni. apply eq_None_not_Some. intros [i (ao' & Hin & E)%HL]. apply Hni. rewrite <- E.
  by apply list_elem_of_fmap_2, (list_elem_of_fmap_2 snd nl (i, ao')).
Qed.

Lemma unindex_outputs_spec height txhash k l r base nl :
  Forall is_Some l → ready base (tx_anon_outputs height txhash k l) nl r →
  ∃ r', unindex_outputs x1 force b1 l r = Ok (Some r') ∧
    links_are (anonOutputLinks r') (numbered base (tx_anon_outputs height txhash k l) ++ nl) ∧
    keyImages r' = keyImages r ∧
    nLastRCTOutput r' = match tx_anon_outputs height txhash k l with [] => nLastRCTOutput r | _ => base end.
Proof using.
  intros Hs. revert k base. induction Hs as [|o l [o' ->] _ IH]; intros k base Hready.
  { exists r. by destruct Hready. }
  cbn [unindex_outputs]. destruct o' as [v s sig|pk cm d rp sig|d]; cbn [tx_anon_outputs] in *.
  1,3: destruct (IH (k + 1) base Hready) as (r' & -> & HL & Hk & Hn); cbn [rbind]; by exists r'.
  set (ao := AnonOutput pk cm (OutPoint txhash k) height 0) in *.
  set (new := tx_anon_outputs height txhash (k + 1) l) in *.
  destruct Hready as (HL & Hb & Hcur & Hdb & Hnd). cbn [numbered] in Hdb. apply Forall_cons in Hdb as [Hao Hdb].
  cbn [map app] in Hnd. apply NoDup_cons in Hnd as [Hni Hnd]. specialize (Hcur ltac:(done)). cbn [length] in Hcur.
  destruct (IH (k + 1) (base + 1)) as (r1 & -> & HL1 & Hk1 & Hn1).
  { fold new. split_and!; [done|lia|intros _; lia|done|done]. }
  fold new in HL1, Hn1. cbn [rbind]. fold (current r1).
  assert (Hcur1 : current r1 = base + 1).
  { destruct new as [|a new']; unfold current in *; rewrite Hn1; [cbn [length] in Hcur; lia|].
    destruct (Z.eqb_spec (base + 1) 0); lia. }
  rewrite Hcur1. unfold ReadRCTOutput. cbn [fst snd] in Hao. rewrite Hao. cbn [ao_pubkey].
  rewrite bool_decide_true by done. rewrite andb_false_r. cbn [negb andb].
  eexists. split; [done|]. cbn [anonOutputLinks keyImages nLastRCTOutput numbered]. split_and!; [|done|lia].
  apply (links_are_insert _ _ _ _ ao HL1); [|by intros y; rewrite <- app_comm_cons, elem_of_cons].
  apply (links_are_fresh _ _ _ HL1). rewrite fmap_app, numbered_snd. done.
Qed.

End Unindex.

Section Disconnect.
Context {V : Type} `{!CoinsView V} `{!CoinsViewLaws V}.
Context (H : bytes → bytes) (MAX : nat) (x1 : rct_index) (force : bool) (b1 : CBlockIndex).
Implicit Types (c : cache V) (m : gmap COutPoint Coin).
Local Abbreviation height := (nHeight b1).

Lemma disconnect_coinbase c tx u u' :
  IsCoinBase tx = true → disconnect_tx H MAX c tx u height = disconnect_tx H MAX c tx u' height.
Proof using. intros Hcb. unfold disconnect_tx. by rewrite Hcb. Qed.

(** One transaction: its coins restored and its outputs out of the index. *)
Lemma disconnect_one c m tx r base nl :
  tx_wf H tx → connectable m tx (tx_id H tx) height → restorable m tx → represents c (after_tx H height m tx) →
  index_key_images (tx_id H tx) (vin tx) = Ok (tx_key_images H tx) →
  ready x1 b1 base (tx_outputs H height tx) nl r →
  ∃ c' r', unindex_rct x1 force b1 (tx_id H tx) tx r = Ok (Some r') ∧
    disconnect_tx H MAX c tx (undo_record m tx) height = Ok (DISCONNECT_OK, c') ∧ represents c' m ∧
    links_are (anonOutputLinks r') (numbered base (tx_outputs H height tx) ++ nl) ∧
    keyImages r' = keyImages r ++ tx_key_images H tx ∧
    nLastRCTOutput r' = match tx_outputs H height tx with [] => nLastRCTOutput r | _ => base end.
Proof using All.
  intros (_ & Hs & _ & _ & [x Hid] & _) Hc Hrest Hr Hki Hready.
  destruct (disconnect_tx_spec H MAX c m tx (tx_id H tx) height (tx_generated tx))
    as (c' & Hd & Hr'); [by unfold tx_id; rewrite Hid|by apply is_generated_total|done..|].
  unfold unindex_rct. rewrite Hki.
  destruct (unindex_outputs_spec x1 force b1 height (tx_id H tx) 0 (vpout tx)
    (RctView (nLastRCTOutput r) (anonOutputs r) (anonOutputLinks r) (keyImages r ++ tx_key_images H tx)) base nl)
    as (r' & Hu & HL & Hk & Hn); [done|exact Hready|].
  exists c', r'. by split_and!.
Qed.

Lemma disconnect_txs_spec txs c r m base nl rest :
  all_connectable H height m txs → all_restorable H height m txs → Forall (tx_wf H) txs → represents c (after_txs H height m txs) →
  Forall (λ tx, index_key_images (tx_id H tx) (vin tx) = Ok (tx_key_images H tx)) txs →
  ready x1 b1 base (block_outputs H height txs) nl r →
  ∃ c' r',
    disconnect_txs H MAX x1 force b1 (block_undo H height m txs ++ rest) (rev txs)
      (Z.of_nat (length (block_undo H height m txs)) - 1) c r true = Ok (DISCONNECT_OK, c', r') ∧
    represents c' m ∧ links_are (anonOutputLinks r') (numbered base (block_outputs H height txs) ++ nl) ∧
    keyImages r' ≡ₚ block_key_images H txs ++ keyImages r.
Proof using All.
  revert c r nl rest. induction txs as [|tx txs IH] using rev_ind; intros c r nl rest Hc Hrest Hwf Hr Hki Hready.
  { exists c, r. by destruct Hready. }
  apply all_connectable_snoc in Hc as [Hcs Hc]. apply all_restorable_snoc in Hrest as [Hrests Hrest]. apply Forall_app in Hwf as [Hwfs [Hwf _]%Forall_cons].
  apply Forall_app in Hki as [Hkis [Hki _]%Forall_cons]. rewrite after_txs_snoc in Hr.
  unfold block_outputs, block_key_images in *. rewrite !flat_map_app in *. cbn [flat_map] in *. rewrite !app_nil_r in *.
  set (A := flat_map (tx_outputs H height) txs) in *. set (m1 := after_txs H height m txs) in *.
  destruct Hready as (HL & Hb & Hcur & Hdb & Hnd). rewrite numbered_app in *. apply Forall_app in Hdb as [HdbA HdbB].
  set (base' := base + Z.of_nat (length A)) in *. rewrite length_app in Hcur.
  destruct (disconnect_one c m1 tx r base' nl Hwf Hc Hrest Hr Hki) as (c1 & r1 & Hun & Hd & Hr1 & HL1 & Hk1 & Hn1).
  { split_and!; [done|lia| |done|].
    - intros HB. rewrite Hcur by (destruct A; done). lia.
    - rewrite <- app_assoc, map_app in Hnd. by apply NoDup_app in Hnd as (_ & _ & ?). }
  rewrite rev_app_distr. cbn [rev app disconnect_txs].
  assert (or_null (ComputeHash H tx) = Ok (tx_id H tx)) as ->.
  { destruct Hwf as (_ & _ & _ & _ & [x Hid] & _). unfold tx_id. by rewrite Hid. }
  cbn [rbind]. rewrite Hun. cbn [rbind]. rewrite block_undo_snoc. fold m1.
  set (U := block_undo H height m txs) in *.
  destruct (IH c1 r1 (numbered base' (tx_outputs H height tx) ++ nl) (tx_undo m1 tx ++ rest))
    as (c' & r' & Hloop & Hr' & HL' & Hk'); [done..| |].
  { split_and!; [done|done| |done|].
    - intros HA. unfold current in *. rewrite Hn1. destruct (tx_outputs H height tx) as [|a B].
      + cbn [length] in Hcur. rewrite Hcur by (destruct A; done). lia.
      + destruct (Z.eqb_spec base' 0); [|done]. destruct A; [done|]. subst base'. cbn [length] in *. lia.
    - rewrite (fmap_app snd), numbered_snd, app_assoc. done. }
  exists c', r'. split_and!; [|done|by rewrite <- app_assoc|].
  2:{ rewrite Hk', Hk1. rewrite (Permutation_app_comm (keyImages r)), app_assoc. done. }
  unfold tx_undo in *. destruct (IsCoinBase tx) eqn:Hcb; cbn [negb andb].
  - cbn [app] in *. rewrite !app_nil_r. rewrite (disconnect_coinbase c tx _ (undo_record m1 tx) Hcb), Hd.
    cbn [rbind]. rewrite !bool_decide_false by done. done.
  - rewrite <- app_assoc in *. cbn [app] in *. rewrite !length_app. cbn [length].
    replace (Z.of_nat (length U + 1) - 1) with (Z.of_nat (length U)) by lia.
    destruct (Z.ltb_spec (Z.of_nat (length U)) 0); [lia|].
    destruct (Z.leb_spec (Z.of_nat (length U + S (length rest))) (Z.of_nat (length U))); [lia|]. cbn [orb].
    rewrite Nat2Z.id, lookup_app_r, Nat.sub_diag by lia. cbn [lookup list_lookup from_option id]. rewrite Hd.
    cbn [rbind]. rewrite !bool_decide_false by done. done.
Qed.

End Disconnect.

(** ** The whole block *)

Lemma links_are_NoDup L n aos : links_are L (numbered n aos) → NoDup (map out_key aos).
Proof.
  intros HL.
  assert (Hinj : ∀ i j ao ao', (i, ao) ∈ numbered n aos → (j, ao') ∈ numbered n aos →
    out_key ao = out_key ao' → i = j).
  { intros i j ao ao' Hi Hj E. assert (L !! out_key ao = Some i) as E1 by (apply HL; by exists ao).
    assert (L !! out_key ao = Some j) as E2 by (apply HL; by exists ao'). congruence. }
  clear HL. revert n Hinj. induction aos as [|ao aos IH]; intros n Hinj; cbn [map]; [constructor|].
  cbn [numbered] in Hinj. constructor.
  - intros (ao' & E & Hin)%list_elem_of_fmap. rewrite <- (numbered_snd (n + 1) aos) in Hin.
    apply list_elem_of_fmap in Hin as ([j a] & -> & Hin). cbn [snd] in E.
    pose proof (numbered_In _ _ _ _ Hin) as [? _].
    assert (n + 1 = j); [|lia]. apply (Hinj _ _ ao a); [apply list_elem_of_here|by apply list_elem_of_further|done].
  - apply (IH (n + 1)). intros i j a a' Hi Hj. apply Hinj; by apply list_elem_of_further.
Qed.

Lemma block_undo_length H height m txs :
  length (block_undo H height m txs) = length (filter (λ tx, IsCoinBase tx = false) txs).
Proof.
  revert m. induction txs as [|tx txs IH]; intros m; [done|]. cbn [block_undo]. rewrite length_app, IH, filter_cons.
  unfold tx_undo. destruct (IsCoinBase tx); [by rewrite decide_False|by rewrite decide_True].
Qed.

Lemma RaiseValidity_fields b b' n :
  RaiseValidity b n = Some (b', true) ∨ RaiseValidity b n = Some (b', false) →
  nHeight b' = nHeight b ∧ nAnonOutputs b' = nAnonOutputs b ∧ phashBlock b' = phashBlock b ∧
  pprev b' = pprev b ∧ nMoneySupply b' = nMoneySupply b.
Proof.
  unfold RaiseValidity. destruct (negb _); [by intros [|]|]. destruct (negb _); [by intros [[=]|[= <-]]|].
  destruct (_ <? _); by intros [[= <-]|[= <-]].
Qed.

Section Block.
Context {V : Type} `{!CoinsView V}.
Context (nd : node) (h : heap) (pindex : ptr) (b : CBlockIndex).
Local Abbreviation H := (Hash (the_env nd)).

(** A block that is connected: the loop ran, and the entry carries its results. *)
Lemma ConnectBlock_inv block (view : cache V) r cb :
  ConnectBlock nd h pindex b block view r false = Ok cb →
  ∃ hash s, phashBlock b = Some hash ∧ vtx block ≠ [] ∧
    let view := snd (CCoinsViewCache.GetBestBlock view) in
    overwrites nd view (vtx block) = Ok false ∧
    connect_txs nd h pindex b true (vtx block) (BlockState view r 0 0 0 0 [] false false []) = Ok s ∧
    forallb (run_check nd) (queue s) = true ∧ check_reward nd h b block s = Ok tt ∧
    cb_view cb = CCoinsViewCache.SetBestBlock (the_view s) hash (nHeight b) ∧ cb_rct cb = the_rct s ∧
    cb_undo cb = vtxundo s ∧ nHeight (cb_index cb) = nHeight b ∧
    nAnonOutputs (cb_index cb) = nLastRCTOutput (the_rct s) ∧ phashBlock (cb_index cb) = Some hash ∧
    pprev (cb_index cb) = pprev b ∧
    nMoneySupply (cb_index cb)
    = i64 (match prev_entry h b with Some p => nMoneySupply p | None => 0 end + nMoneyCreated s).
Proof.
  unfold ConnectBlock. intros (hash & Hhash%lift_Ok%deref_Ok & Hok)%rbind_Ok.
  apply rbind_Ok in Hok as (hp & _ & Hok). destruct (CCoinsViewCache.GetBestBlock view) as [best view'].
  cbn [snd]. case_bool_decide; [|done]. cbn [negb] in Hok.
  apply rbind_Ok in Hok as (ow & How & Hok). destruct ow; [done|].
  apply rbind_Ok in Hok as (s & Hs & Hok). destruct (forallb _ (queue s)) eqn:Hq; [|done]. cbn [negb] in Hok.
  apply rbind_Ok in Hok as ([] & Hrew & Hok). cbn zeta in Hok.
  apply rbind_Ok in Hok as ([b' raised] & Hb'%lift_Ok%deref_Ok & Hok). injection Hok as <-.
  assert (Hf : RaiseValidity _ BLOCK_VALID_SCRIPTS = Some (b', true)
    ∨ RaiseValidity _ BLOCK_VALID_SCRIPTS = Some (b', false)) by (destruct raised; [by left|by right]).
  apply RaiseValidity_fields in Hf as (F1 & F2 & F3 & F4 & F5). cbn in *.
  exists hash, s. split_and!; try done; [|by rewrite F3].
  intros E. unfold check_reward in Hrew. by rewrite E in Hrew.
Qed.

End Block.

(** ** Properties *)

(** A block on top of a chain: its entry and its parent's, the coins before it, and an
    index that ends where the parent's entry says and knows none of the block's key
    images.  Its transactions have passed [CheckTransaction]. *)
Record block_context (nd : node) (h : heap) (b : CBlockIndex) (block : CBlock) (m : gmap COutPoint Coin)
    (hash hashPrev : bytes) : Prop := BlockContext {
  ctx_mode : fBitcoinCMode (the_env nd) = true;
  ctx_verifying : fVerifyingDB nd = false;
  ctx_height : 1 <= nHeight b < 2 ^ 31;
  ctx_hash : phashBlock b = Some hash ∧ hash_IsNull hash = false;
  ctx_prev : ∃ prev, prev_entry h b = Some prev ∧ phashBlock prev = Some hashPrev ∧ 0 <= nAnonOutputs prev ∧
    ∀ i, nAnonOutputs prev < i → rct_outputs (pblocktree nd) !! i = None;
  ctx_txs : Forall (tx_wf (Hash (the_env nd))) (vtx block);
  ctx_ids : NoDup (map (tx_id (Hash (the_env nd))) (vtx block));
  ctx_coinbase : Forall coinbase_plain (vtx block);
  ctx_key_images :
    Forall (λ ki, ReadRCTKeyImage (pblocktree nd) ki.1 = None)
      (block_key_images (Hash (the_env nd)) (vtx block))
}.

Section Roundtrip.
Context {V : Type} `{!CoinsView V} `{!CoinsViewLaws V}.
Context (nd : node) (h : heap) (pindex : ptr) (b : CBlockIndex) (block : CBlock).
Context (m : gmap COutPoint Coin) (hash hashPrev : bytes).
Context (Hctx : block_context nd h b block m hash hashPrev).
Local Abbreviation H := (Hash (the_env nd)).

(** The index after the block has been written holds its outputs. *)
Lemma flushed_outputs r aos kis :
  rct_holds h b aos kis r →
  Forall (λ y, rct_outputs (flush_connected r (pblocktree nd)) !! y.1 = Some y.2) (numbered (last_before h b) aos).
Proof using.
  intros (_ & Ho & _ & _). apply Forall_forall. intros y Hy. rewrite flush_connected_outputs, Ho.
  apply (insert_all_lookup_in fst snd); [|done]. change (NoDup (numbered (last_before h b) aos).*1).
  apply numbered_NoDup.
Qed.

Lemma connected_coins (view : cache V) cb :
  represents view m → ConnectBlock nd h pindex b block view rct_view_empty false = Ok cb →
  represents (cb_view cb) (after_txs H (nHeight b) m (vtx block)) ∧
  all_connectable H (nHeight b) m (vtx block) ∧ cb_undo cb = block_undo H (nHeight b) m (vtx block).
Proof using All.
  intros Hr (hash' & s & _ & _ & How & Hs & _ & _ & Ev & _ & Eu & _)%ConnectBlock_inv.
  destruct (GetBestBlock_represents view m Hr) as (best & view' & E & Hr'). rewrite E in *. cbn [snd] in *.
  destruct Hctx as [Hmode _ Hh _ _ Hwf Hids _ _].
  pose proof (overwrites_room nd h pindex b Hmode Hh view' m _ Hr' Hwf How) as Hroom.
  destruct (connect_txs_represents nd h pindex b Hmode Hh true _ _ s m Hs Hr' Hwf Hids Hroom)
    as (Hc & Hrs & Hu). rewrite Ev, Eu, Hu. by split_and!.
Qed.

Lemma disconnected (view c1 : cache V) cb MAX :
  represents view m → ConnectBlock nd h pindex b block view rct_view_empty false = Ok cb →
  spends_undoable m (vtx block) → represents c1 (after_txs H (nHeight b) m (vtx block)) → hashBlock c1 = hash →
  ∃ c' r',
    DisconnectBlock H MAX (flush_connected (cb_rct cb) (pblocktree nd)) false h (cb_index cb) block
      (Some (cb_undo cb)) c1 rct_view_empty = Ok (DISCONNECT_OK, c', r') ∧
    represents c' m ∧ hashBlock c' = hashPrev ∧
    flush_disconnected r' (flush_connected (cb_rct cb) (pblocktree nd)) = pblocktree nd.
Proof using All.
  intros Hr Hcb Hund Hr1 Hh1. destruct (connected_coins view cb Hr Hcb) as (_ & Hcs & Eu).
  apply ConnectBlock_inv in Hcb as (hash' & s & Eh & Hne & _ & Hs & _ & _ & _ & Er & _ & Fh & Fa & Fhash & Fp & _).
  destruct Hctx as [Hmode Hver Hh [Hhash Hnull] (prev & Hprev & Hhp & Hpos & Hend) Hwf Hids Hcbp Hki].
  assert (hash' = hash) as -> by congruence.
  assert (Elast : last_before h b = nAnonOutputs prev) by (unfold last_before; by rewrite Hprev).
  destruct (connect_txs_index nd h pindex b Hmode Hver ltac:(rewrite Elast; done) true _ _ s [] [] Hs Hcbp
    (rct_holds_empty h b)) as (Hholds & Hlast & Hlinks & Hkis).
  cbn [app] in *. specialize (Hlast Hne). rewrite Er in *. set (x1 := flush_connected (the_rct s) (pblocktree nd)).
  set (aos := block_outputs H (nHeight b) (vtx block)) in *.
  pose proof (flushed_outputs _ _ _ Hholds) as Hdb. destruct Hholds as (_ & Ho & HL & Hk).
  unfold DisconnectBlock. rewrite Fhash. cbn [or_null rbind]. unfold CCoinsViewCache.GetBestBlock.
  rewrite Hh1, Hnull, bool_decide_true by done. cbn [negb]. rewrite Eu.
  rewrite block_undo_length, Nat.eqb_refl, andb_false_r, <- (block_undo_length H (nHeight b) m).
  destruct (disconnect_txs_spec H MAX x1 false (cb_index cb) (vtx block) c1 rct_view_empty m (last_before h b) [] [])
    as (c' & r' & Hd & Hr' & HL' & Hk'); rewrite ?Fh; try done.
  { by apply all_connectable_restorable. }
  { split_and!; [apply links_are_nil|lia| |done|].
    - intros _. unfold current. cbn [rct_view_empty nLastRCTOutput Z.eqb]. rewrite Fa. done.
    - cbn. rewrite app_nil_r. by apply links_are_NoDup in HL. }
  rewrite Fh in Hd. rewrite app_nil_r in Hd. rewrite Hd. cbn [rbind]. rewrite bool_decide_false by done.
  rewrite Fp. fold (prev_entry h b). rewrite Hprev. cbn [or_null rbind]. rewrite Hhp. cbn [or_null rbind].
  eexists _, r'. split_and!; [done|done|done|]. rewrite app_nil_r in Hk', HL'.
  apply (flush_restores _ (the_rct s) r' (numbered (last_before h b) aos) (block_key_images H (vtx block)));
    try done; [by rewrite Fh in HL'|].
  apply Forall_forall. intros [i ao] Hin. pose proof (numbered_In _ _ _ _ Hin) as [? Hao]. cbn [fst snd]. split.
  - apply Hend. lia.
  - rewrite Forall_forall in Hlinks. by apply Hlinks.
Qed.

End Roundtrip.

(** C4: disconnecting a block undoes connecting it.  Whenever [ConnectBlock] accepts a
    block on top of a set of coins, its view holds exactly the set after the
    transactions; and if no coin of height zero is spent, then, when the index has been
    written, [DisconnectBlock] with the undo data, from any view of the same coins, ends
    cleanly, at the parent block, with exactly the coins there were, and writing its index
    gives back the index there was.  Coins of height zero may be in the set: the outputs
    of the genesis block are, and [genesis_spend_not_undone] shows why none may be spent. *)
Theorem block_roundtrip {V : Type} `{!CoinsView V} `{!CoinsViewLaws V} (nd : node) (h : heap)
    (pindex : ptr) (b : CBlockIndex) (block : CBlock) (m : gmap COutPoint Coin) (hash hashPrev : bytes)
    (view c1 : cache V) (cb : connected_block) (MAX : nat) :
  block_context nd h b block m hash hashPrev → represents view m →
  ConnectBlock nd h pindex b block view rct_view_empty false = Ok cb →
  let m' := after_txs (Hash (the_env nd)) (nHeight b) m (vtx block) in
  let x1 := flush_connected (cb_rct cb) (pblocktree nd) in
  represents (cb_view cb) m' ∧
  (spends_undoable m (vtx block) → represents c1 m' → hashBlock c1 = hash →
   ∃ c' r',
     DisconnectBlock (Hash (the_env nd)) MAX x1 false h (cb_index cb) block (Some (cb_undo cb)) c1
       rct_view_empty = Ok (DISCONNECT_OK, c', r') ∧
     represents c' m ∧ hashBlock c' = hashPrev ∧ flush_disconnected r' x1 = pblocktree nd).
Proof.
  intros Hctx Hr Hcb m' x1. split; [by eapply connected_coins|]. intros. by eapply disconnected.
Qed.

(** ** A spend that cannot be undone *)

Lemma AccessByTxid_none {V : Type} `{!CoinsView V} `{!CoinsViewLaws V} fuel (c : cache V) m txid k :
  represents c m → (∀ j, m !! OutPoint txid j = None) →
  ∃ x c', AccessByTxid fuel c txid k = (x, c') ∧ IsSpent x = true ∧ represents c' m.
Proof.
  intros Hr Hnone. revert c k Hr. induction fuel as [|fuel IH]; intros c k Hr; cbn [AccessByTxid].
  { by exists coinEmpty, c. }
  destruct (AccessCoin_represents c m (OutPoint txid k) Hr) as (x & c1 & -> & Hx & Hr1 & _).
  rewrite Hnone in Hx. unfold unspent in Hx. destruct (IsSpent x) eqn:E; [|done]. cbn [negb]. by apply IH.
Qed.

(** A transaction, in the program's format and with room for its outputs, whose only
    input spends the coin [x] of height zero, the last unspent output of its
    transaction. *)
Record genesis_spend (H : bytes → bytes) (m : gmap COutPoint Coin) (tx : CTransaction) (txid : bytes)
    (height : Z) (cb : bool) (i : CTxIn) (x : Coin) : Prop := GenesisSpend {
  gs_id : ComputeHash H tx = Some txid;
  gs_generated : is_generated tx = Some cb;
  gs_version : Transaction.IsBitcoinCVersion tx = true;
  gs_outputs : Forall is_Some (vpout tx);
  gs_values : Forall (λ v, 0 <= v) (plain_values (vpout tx));
  gs_length : Z.of_nat (length (vpout tx)) <= 2 ^ 32;
  gs_height : 0 <= height < 2 ^ 31;
  gs_room : free_from m txid 0 (Z.of_nat (length (vpout tx)));
  gs_not_coinbase : IsCoinBase tx = false;
  gs_inputs : vin tx = [i];
  gs_plain : IsAnonInput i = false;
  gs_coin : m !! prevout i = Some x;
  gs_zero : coin_nHeight x = 0;
  gs_last : ∀ j, j ≠ n (prevout i) → m !! OutPoint (Transaction.hash (prevout i)) j = None;
  gs_other : txid ≠ Transaction.hash (prevout i)
}.

(** A coin of height zero.  The outputs of the genesis block are spendable, and their
    height is zero, which in an undo record means that the height is missing.  A
    transaction that spends the last unspent output of such a transaction is connected
    like any other, but no view of the coins after it can be disconnected:
    [ApplyTxInUndo] looks for another output of the same transaction, and there is
    none. *)
Theorem genesis_spend_not_undone {V : Type} `{!CoinsView V} `{!CoinsViewLaws V} (H : bytes → bytes)
    (MAX : nat) (c c1 : cache V) (m : gmap COutPoint Coin) (tx : CTransaction) (txid : bytes) (height : Z)
    (cb : bool) (i : CTxIn) (x : Coin) :
  genesis_spend H m tx txid height cb i x → represents c m →
  (∃ c', UpdateCoins H c tx height = Ok ([x], c') ∧ represents c' (connected m tx txid height cb)) ∧
  (represents c1 (connected m tx txid height cb) →
   ∃ c', disconnect_tx H MAX c1 tx [x] height = Ok (DISCONNECT_FAILED, c')).
Proof.
  intros [Hid Hcb Hv Hs Hpos Hlen Hh Hfree Hncb Hvin Ha Hx Hx0 Hothers Hne] Hr.
  assert (Estd : standard (vin tx) = [i]) by (rewrite Hvin, standard_cons, Ha; done).
  assert (Eundo : [x] = spent_coins m (standard (vin tx))) by (rewrite Estd; cbn; by rewrite Hx).
  assert (Hcr : ∀ o, o ∈ (created txid height cb 0 (vpout tx)).*1 → m !! o = None).
  { intros o (j & -> & Hj)%created_index. apply Hfree. lia. }
  split.
  - unfold UpdateCoins, AddCoins. rewrite Hncb.
    destruct (spend_inputs_represents c m (vin tx) Hr) as (c2 & -> & Hr2).
    { rewrite Estd. cbn. repeat constructor. apply not_elem_of_nil. }
    { rewrite Estd. repeat constructor. by eexists. }
    cbn [rbind]. rewrite Hcb, Hid, Hv. cbn [or_null rbind].
    destruct (add_vpout_represents c2 _ txid 0 (vpout tx) height false cb Hr2) as (c3 & -> & Hr3);
      [lia|lia|done|done| |cbn [rbind]; exists c3; split; [by rewrite Eundo|]].
    + intros j Hj. rewrite spend_lookup, Hfree by done. by destruct (bool_decide _).
    + unfold connected. by rewrite Hncb.
  - intros Hr1. unfold disconnect_tx. rewrite Hid, Hcb. cbn [or_null rbind].
    unfold connected in Hr1. rewrite Hncb in *. pose proof (created_NoDup txid height cb 0 (vpout tx)) as Hnd.
    destruct (remove_outputs_represents c1 _ txid 0 (vpout tx) height cb Hr1) as (c2 & -> & Hr2);
      [lia|lia|done|done| |].
    { apply Forall_forall. intros [o y] Hy. rewrite create_lookup by done. cbn [fst snd].
      by rewrite (elem_of_list_to_map_1 _ o y). }
    assert (Hsome : Forall (λ i, is_Some (m !! prevout i)) (standard (vin tx)))
      by (rewrite Estd; repeat constructor; by eexists).
    cbn [rbind]. rewrite (proj1 (undo_all m _ _ Hnd Hsome Hcr)) in Hr2.
    replace (length (filter _ (vin tx))) with 1%nat by (symmetry; exact (f_equal length Estd)).
    rewrite Estd in Hr2. cbn [length Nat.eqb negb]. rewrite Hvin.
    cbn [restore_inputs rbind]. rewrite bool_decide_false, Ha by done. cbn [lookup list_lookup].
    assert (Hgone : ∀ j, spend m [i] !! OutPoint (Transaction.hash (prevout i)) j = None).
    { intros j. rewrite spend_lookup. case_bool_decide as Hj; [done|]. apply Hothers. intros ->. apply Hj.
      cbn. rewrite list_elem_of_singleton. by destruct (prevout i). }
    unfold ApplyTxInUndo. destruct (HaveCoin_represents c2 _ (prevout i) Hr2) as (c3 & -> & Hr3 & _).
    rewrite Hx0. cbn [Z.eqb].
    destruct (AccessByTxid_none MAX c3 _ (Transaction.hash (prevout i)) 0 Hr3 Hgone) as (y & c4 & -> & Hy & _).
    rewrite Hy. cbn [negb rbind]. by eexists.
Qed.

(** ** A block connected and disconnected *)

(** Height 2 of a chain whose index holds three anonymous outputs: a coinstake, a
    payment and a transaction from anonymous to anonymous.  An output of the genesis
    block is among the coins. *)
Definition stake_script : bytes := [0x51].
Definition block_coin (v : Z) : Coin := MkCoin (TxOut v stake_script) false 1 OUTPUT_STANDARD.
Definition genesis_coin : Coin := MkCoin (TxOut 50 stake_script) true 0 OUTPUT_STANDARD.
Definition block_coins : gmap COutPoint Coin :=
  {[toy_point 0 := block_coin 1000; toy_point 1 := block_coin 50; toy_point 2 := genesis_coin]}.
Definition block_view : cache CCoinsViewDB.t :=
  Cache (CCoinsViewDB.DB block_coins (Some [1]) None (λ _, false)) [] 0 ∅.

Definition block_parent : CBlockIndex := set_supply (525600 * 400 * COIN) 3 (toy_block (Some 1%positive) 1 0).
Definition block_entry : CBlockIndex := toy_block (Some 2%positive) 2 0.
Definition block_heap : heap :=
  {[1%positive := toy_block None 0 (525600 * 400 * COIN); 2%positive := block_parent;
    3%positive := block_entry]}.

Definition final_in (o : COutPoint) : CTxIn := TxIn o [] 0xffffffff [] [].
Definition coinstake (reward : Z) : CTransaction :=
  Transaction 0x02A0 [final_in (toy_point 0)] []
    [Some (CTxOutData [2; 0; 0; 0]); Some (CTxOutStandard 60000000 [1] []);
     Some (CTxOutStandard (1000 + reward) stake_script [])] 0.
Definition plain_payment : CTransaction :=
  Transaction 0xA0 [final_in (toy_point 1)] [] [Some (CTxOutStandard 40 stake_script [])] 0.
Definition toy_header : CBlockHeader.t := CBlockHeader.Header 1 [1] uint256_zero uint256_zero 1556236960 0 0.
Definition anon_block : CBlock :=
  Block toy_header [coinstake 70000014; plain_payment; toy_anon_tx (toy_key_image 9) 6] [].

Definition block_node : node :=
  Node toy_env toy_lib (λ _ _ _, true) toy_index ∅ (λ _ _, false) main_reward 0 []
    (λ _, Some (toy_stake 0)) 0 true false.

Definition result_view {A} (r : result block_fail A) : option A :=
  match r with Ok a => Some a | _ => None end.

(** Well-formed transactions, by evaluation. *)
Ltac txs_wf_eval :=
  cbn [vtx]; repeat (apply Forall_cons; split); [split_and!; by_eval..|constructor].

(** What a block spends of a set, by evaluation. *)
Ltac each tac := first [apply Forall_nil; exact I|apply Forall_cons; split; [tac|each tac]].
Ltac spend_eval :=
  let x := fresh in let Hx := fresh in
  intros x Hx; vm_compute in Hx; first [discriminate Hx|injection Hx as <-; by_eval].
Ltac spends_eval := unfold spends_undoable; cbn [vtx]; each ltac:(each spend_eval).

Lemma anon_block_context : block_context block_node block_heap block_entry anon_block block_coins [2] [1].
Proof.
  split.
  - reflexivity.
  - reflexivity.
  - by_eval.
  - split; reflexivity.
  - exists block_parent. split_and!; [vm_compute; reflexivity|reflexivity|by_eval|].
    intros i Hi. change (3 < i) in Hi. apply not_elem_of_list_to_map_1. cbn.
    rewrite !not_elem_of_cons. split_and!; try lia. apply not_elem_of_nil.
  - unfold anon_block. txs_wf_eval.
  - by_eval.
  - by_eval.
  - by_eval.
Qed.

Lemma block_view_represents : represents block_view block_coins.
Proof.
  split; [|done]. split; [|apply map_Forall_empty]. split; [|done].
  change (map_Forall (λ _ x, IsSpent x = false) block_coins). by_eval.
Qed.

(** What [ConnectBlock] makes of the block. *)
Definition connected_anon_block : connected_block :=
  default (ConnectedBlock block_view rct_view_empty block_entry [])
    (result_view (ConnectBlock block_node block_heap 3%positive block_entry anon_block block_view
                    rct_view_empty false)).

Lemma block_roundtrip_witness :
  anonOutputs (cb_rct connected_anon_block) = [(4, AnonOutput (2 :: replicate 32 6) (8 :: replicate 32 6)
    (OutPoint (tx_id id (toy_anon_tx (toy_key_image 9) 6)) 1) 2 0)] ∧
  ∃ c' r',
    DisconnectBlock id 10 (flush_connected (cb_rct connected_anon_block) toy_index) false block_heap
      (cb_index connected_anon_block) anon_block (Some (cb_undo connected_anon_block))
      (cb_view connected_anon_block) rct_view_empty = Ok (DISCONNECT_OK, c', r') ∧
    represents c' block_coins ∧
    flush_disconnected r' (flush_connected (cb_rct connected_anon_block) toy_index) = toy_index.
Proof.
  split; [vm_compute; reflexivity|].
  destruct (block_roundtrip block_node block_heap 3%positive block_entry anon_block block_coins [2] [1]
    block_view (cb_view connected_anon_block) connected_anon_block 10) as [Hr Hd].
  - exact anon_block_context.
  - exact block_view_represents.
  - vm_compute. reflexivity.
  - destruct (Hd ltac:(unfold anon_block; spends_eval) Hr) as (c' & r' & Hok & Hrep & _ & Hx); [vm_compute; reflexivity|].
    exists c', r'. split; [exact Hok|]. split; [exact Hrep|exact Hx].
Defined.

(** The only output of the genesis block, spent. *)
Definition genesis_coins : gmap COutPoint Coin := {[toy_point 1 := genesis_coin]}.

Lemma genesis_spend_not_undone_witness :
  let txid := tx_id id plain_payment in
  (∃ c', UpdateCoins id (cache_of genesis_coins) plain_payment 200 = Ok ([genesis_coin], c') ∧
         represents c' (connected genesis_coins plain_payment txid 200 false)) ∧
  ∃ c', disconnect_tx id 10 (cache_of (connected genesis_coins plain_payment txid 200 false)) plain_payment
          [genesis_coin] 200 = Ok (DISCONNECT_FAILED, c').
Proof.
  intros txid.
  destruct (genesis_spend_not_undone id 10 (cache_of genesis_coins)
    (cache_of (connected genesis_coins plain_payment txid 200 false)) genesis_coins plain_payment txid 200
    false (final_in (toy_point 1)) genesis_coin) as [Hu Hd].
  - split; try (reflexivity || by_eval).
    + intros j _. unfold genesis_coins. apply lookup_singleton_ne. intros [=].
    + intros j Hj. unfold genesis_coins. apply lookup_singleton_ne. intros [= E]. apply Hj. symmetry. exact E.
  - apply cache_of_represents. by_eval.
  - split; [exact Hu|]. apply Hd. apply cache_of_represents. by_eval.
Defined.
