(* ===== verification/BlockMoney.v ===== *)
(** The money of a block, over [ConnectBlock]: what connecting a block does to the sum
    of all coins, how that compares with the money supply its index entry records, and
    what the loop does not look at between the transactions of one block. *)
From stdpp Require Import gmap strings.
From S2P Require Import Prelude Serialize Script Interpreter Transaction Chain Merkle TxVerify SigHash.
From S2P Require Import Coins Connect Anon Reward ConnectBlock BlockUndo.
Open Scope Z_scope.

(** ** The sum of the coins *)

Definition coin_amount (x : Coin) : Z := nValue (out x).
Definition total (m : gmap COutPoint Coin) : Z := map_fold (λ _ x acc, coin_amount x + acc) 0 m.

Lemma total_insert m o x : m !! o = None → total (<[o := x]> m) = coin_amount x + total m.
Proof. intros Ho. unfold total. rewrite map_fold_insert_L; [done| |done]. intros. lia. Qed.

Lemma total_delete m o x : m !! o = Some x → total (delete o m) = total m - coin_amount x.
Proof.
  intros Ho. rewrite <- (insert_delete_id m o x Ho) at 2. rewrite total_insert by apply lookup_delete_eq. lia.
Qed.

(** The value of some inputs in a set. *)
Definition inputs_amount (m : gmap COutPoint Coin) (ins : list CTxIn) : Z :=
  sum (map coin_amount (spent_coins m ins)).

Lemma spend_total m ins :
  NoDup (map prevout ins) → Forall (λ i, is_Some (m !! prevout i)) ins →
  total (spend m ins) = total m - inputs_amount m ins.
Proof.
  unfold inputs_amount, spent_coins.
  revert m. induction ins as [|i ins IH]; intros m Hnd Hm; [cbn; lia|].
  apply NoDup_cons in Hnd as [Hni Hnd]. apply Forall_cons in Hm as [[x Hx] Hm].
  assert (Hsame : ∀ k, k ∈ ins → delete (prevout i) m !! prevout k = m !! prevout k).
  { intros k Hk. apply lookup_delete_ne. intros E. apply Hni. rewrite E. by apply list_elem_of_fmap_2. }
  cbn [spend foldl map sum foldr]. fold (spend (delete (prevout i) m) ins). rewrite IH; [|done|].
  - rewrite (total_delete m _ x Hx), Hx. cbn [from_option id]. unfold sum.
    rewrite (map_ext_in _ (λ i, default coinEmpty (m !! prevout i)) ins); [lia|].
    intros k Hk. by rewrite Hsame by by apply list_elem_of_In.
  - rewrite Forall_forall in Hm |- *. intros k Hk. rewrite Hsame by done. by apply Hm.
Qed.

Lemma create_total m l :
  NoDup l.*1 → (∀ o, o ∈ l.*1 → m !! o = None) →
  total (create m l) = total m + sum (map coin_amount l.*2).
Proof.
  revert m. induction l as [|[o x] l IH]; intros m Hnd Hm; [cbn; lia|].
  apply NoDup_cons in Hnd as [Hni Hnd]. cbn [create foldl fst snd]. fold (create (<[o := x]> m) l).
  rewrite IH; [|done|].
  - rewrite total_insert by (apply Hm; apply list_elem_of_here). cbn [fmap list_fmap map sum foldr snd].
    unfold sum. lia.
  - intros k Hk. rewrite lookup_insert_ne by by intros ->. apply Hm. by apply list_elem_of_further.
Qed.

(** The value of the standard outputs that can never be spent. *)
Definition burned (l : list (option CTxOutBase)) : Z :=
  sum (map (λ o, match o with
                 | Some (CTxOutStandard v s _) => if IsUnspendable s then v else 0
                 | _ => 0
                 end) l).

Lemma created_total txid height cb i l :
  sum (map coin_amount (created txid height cb i l).*2) + burned l = sum (plain_values l).
Proof.
  unfold burned, sum, plain_values. revert i. induction l as [|o l IH]; intros i; [done|].
  specialize (IH (i + 1)).
  destruct o as [[v s sig|? ? ? ? ?|?]|]; cbn [created map flat_map foldr app]; try lia.
  destruct (IsUnspendable s); cbn [fmap list_fmap map foldr snd coin_amount new_coin out nValue];
    unfold coin_amount in *; cbn [out nValue new_coin] in *; lia.
Qed.

(** What a transaction that fits does to the sum. *)
Lemma after_tx_total H height m tx :
  connectable m tx (tx_id H tx) height →
  total (after_tx H height m tx)
  = total m - (if IsCoinBase tx then 0 else inputs_amount m (standard (vin tx)))
    + plain_value_out tx - burned (vpout tx).
Proof.
  intros (_ & _ & _ & _ & _ & Hfree & Hin). unfold after_tx, connected.
  pose proof (created_total (tx_id H tx) height (tx_generated tx) 0 (vpout tx)) as E.
  rewrite create_total; [|apply created_NoDup|].
  - unfold plain_value_out. destruct (IsCoinBase tx); [lia|]. destruct (Hin eq_refl) as (_ & Hnd & Hall).
    rewrite spend_total; [lia|done..].
  - intros o (j & -> & Hj)%created_index. destruct (IsCoinBase tx); [apply Hfree; lia|].
    rewrite spend_lookup, Hfree by lia. by destruct (bool_decide _).
Qed.

(** ** The parts of a block *)

Definition is_coinstake (tx : CTransaction) : bool := default false (Transaction.IsCoinStake tx).

(** The fee an ordinary transaction leaves, what a coinstake adds, and what a coinbase
    creates. *)
Definition fee_of (m : gmap COutPoint Coin) (tx : CTransaction) : Z :=
  if IsCoinBase tx || is_coinstake tx then 0 else inputs_amount m (vin tx) - plain_value_out tx.
Definition stake_of (m : gmap COutPoint Coin) (tx : CTransaction) : Z :=
  if negb (IsCoinBase tx) && is_coinstake tx then plain_value_out tx - inputs_amount m (vin tx) else 0.
Definition coinbase_of (m : gmap COutPoint Coin) (tx : CTransaction) : Z :=
  if IsCoinBase tx then plain_value_out tx else 0.
Definition burned_of (m : gmap COutPoint Coin) (tx : CTransaction) : Z := burned (vpout tx).

(** The sum of a part over the transactions of a block. *)
Fixpoint block_sum (part : gmap COutPoint Coin → CTransaction → Z) (H : bytes → bytes) (height : Z)
    (m : gmap COutPoint Coin) (txs : list CTransaction) : Z :=
  match txs with
  | [] => 0
  | tx :: txs' => part m tx + block_sum part H height (after_tx H height m tx) txs'
  end.

(** A transaction with nothing confidential in it. *)
Definition plain_tx (tx : CTransaction) : Prop :=
  Forall (λ i, IsAnonInput i = false) (vin tx) ∧ Forall (λ o, is_ringct o = false) (vpout tx) ∧
  Forall is_i64 (plain_values (vpout tx)) ∧ vout tx = [].

Definition amounts_in_range (m : gmap COutPoint Coin) : Prop := map_Forall (λ _ x, is_i64 (coin_amount x)) m.

Lemma block_total H height m txs :
  all_connectable H height m txs → Forall plain_tx txs →
  total (after_txs H height m txs)
  = total m + block_sum stake_of H height m txs + block_sum coinbase_of H height m txs
    - block_sum fee_of H height m txs - block_sum burned_of H height m txs.
Proof.
  revert m. induction txs as [|tx txs IH]; intros m; [cbn; lia|].
  intros [Hc Hcs] [(Ha & _) Hps]%Forall_cons. cbn [block_sum after_txs foldl].
  fold (after_txs H height (after_tx H height m tx) txs). rewrite IH, after_tx_total by done.
  unfold standard. rewrite (filter_all _ _ Ha). unfold stake_of, coinbase_of, fee_of, burned_of.
  destruct (IsCoinBase tx); cbn [negb andb orb]; [lia|]. destruct (is_coinstake tx); lia.
Qed.

Section Money.
Context {V : Type} `{!CoinsView V} `{!CoinsViewLaws V}.
Context (nd : node) (h : heap) (pindex : ptr) (b : CBlockIndex).
Context (Hmode : fBitcoinCMode (the_env nd) = true) (Hheight : 1 <= nHeight b < 2 ^ 31).
Local Abbreviation H := (Hash (the_env nd)).
Implicit Types (c : cache V) (s : block_state V) (m : gmap COutPoint Coin).

Lemma value_in_inputs c m tx : represents c m → value_in (coins_of c) tx = inputs_amount m (vin tx).
Proof using All.
  intros Hr. unfold value_in, inputs_amount, spent_coins. rewrite map_map. f_equal. apply map_ext. intros i.
  unfold coin_value, coin_amount, TxVerify.AccessCoin. by rewrite (coins_of_represents nd h pindex b Hmode Hheight c m).
Qed.

Lemma amounts_i64_inputs c m tx : represents c m → amounts_in_range m → plain_tx tx → amounts_i64 (coins_of c) tx.
Proof using All.
  intros Hr Hm (_ & _ & Hi & _). split; [|done]. apply Forall_forall. intros i _.
  unfold coin_value, TxVerify.AccessCoin. rewrite (coins_of_represents nd h pindex b Hmode Hheight c m) by done.
  destruct (m !! prevout i) as [x|] eqn:E; [by apply (Hm _ _ E)|]. by_eval.
Qed.

(** A transaction's part in the totals of the loop. *)
Lemma step_parts m tx s s' :
  represents (the_view s) m → amounts_in_range m → tx_wf H tx → plain_tx tx →
  money_step (the_env nd) (nHeight b) tx s s' → MoneyRange (nFees s) = true →
  nFees s' = nFees s + fee_of m tx ∧ MoneyRange (nFees s') = true ∧ Z.abs (stake_of m tx) <= MAX_MONEY ∧
  0 <= coinbase_of m tx <= MAX_MONEY ∧
  (if IsCoinBase tx then nStakeReward s' = nStakeReward s ∧
                         nMoneyCreated s' = i64 (nMoneyCreated s + coinbase_of m tx)
   else if is_coinstake tx then nStakeReward s' = i64 (nStakeReward s + stake_of m tx) ∧
                                nMoneyCreated s' = i64 (nMoneyCreated s + nStakeReward s')
   else nStakeReward s' = nStakeReward s ∧ nMoneyCreated s' = nMoneyCreated s).
Proof using All.
  intros Hr Hm (Hv & Hs & _) Hp Hmoney Hfees. pose proof Hp as (Ha & Hrc & Hi & Hvout).
  unfold money_step in Hmoney. unfold fee_of, stake_of, coinbase_of.
  assert (0 <= 0 <= MAX_MONEY) as H0 by (unfold MAX_MONEY, COIN; lia).
  destruct (IsCoinBase tx) eqn:Hcb; cbn [orb negb andb].
  - destruct Hmoney as (v & Hval & E1 & E2 & E3 & _). unfold GetValueOut in Hval. rewrite Hvout in Hval.
    apply rbind_Ok in Hval as (v0 & [= <-] & Hval). apply rbind_Ok in Hval as ([[v1 x] y] & Hval & [= <-]).
    apply sum_vpout_spec in Hval as [[Hr1 Hle] ->]; [|done..]. pose proof (sum_nonneg _ Hr1).
    rewrite Z.add_0_l in *. fold (plain_value_out tx) in *. split_and!; first [done|lia|by rewrite E1].
  - destruct Hmoney as (r & cs & Hok & Hcs & Hrange & _ & _ & Hrest).
    assert (is_coinstake tx = cs) as -> by (unfold is_coinstake; by rewrite Hcs).
    assert (Hne : vin tx ≠ []).
    { intros E. unfold CheckTxInputs in Hok. rewrite Hv, E, bool_decide_true in Hok by done. done. }
    apply (CheckTxInputs_spec (the_env nd) tx _ _ r Hmode Hne (conj Ha Hs)
      (amounts_i64_inputs _ m tx Hr Hm Hp) Hrc) in Hok as ((_ & [Hr1 Hle1] & [Hr2 Hle2]) & _ & _ & Hfee).
    pose proof (sum_nonneg _ Hr1). pose proof (sum_nonneg _ Hr2). rewrite Z.add_0_l in *.
    fold (value_in (coins_of (the_view s)) tx) in *. fold (plain_value_out tx) in *.
    rewrite (value_in_inputs _ m tx Hr) in *. rewrite Hcs in Hfee. destruct cs; cbn [orb].
    + rewrite bool_decide_true in Hfee by done. destruct Hrest as (E1 & E2 & E3).
      rewrite Hfee in E2. split_and!; try done; lia.
    + rewrite bool_decide_false in Hfee by done. destruct Hrest as (E1 & E2 & E3). destruct Hfee as [Hfee Hpos].
      apply MoneyRange_iff in Hfees. rewrite i64_small in E1 by (unfold is_i64, MAX_MONEY, COIN in *; lia).
      split_and!; try done; lia.
Qed.

Lemma after_tx_amounts m tx :
  amounts_in_range m → Forall is_i64 (plain_values (vpout tx)) → amounts_in_range (after_tx H (nHeight b) m tx).
Proof using.
  intros Hm Hv o x Hx. unfold after_tx, connected in Hx. rewrite create_lookup in Hx by apply created_NoDup.
  destruct (list_to_map _ !! o) as [y|] eqn:Hy.
  - injection Hx as ->. apply elem_of_list_to_map_2 in Hy.
    apply created_In in Hy as (v & sc & sig & Hin & _ & ->). apply plain_values_In in Hin.
    rewrite Forall_forall in Hv. by apply Hv.
  - apply (Hm o). destruct (IsCoinBase tx); [done|]. rewrite spend_lookup in Hx. by destruct (bool_decide _).
Qed.

Lemma coinbase_sum_nonneg m txs : Forall (tx_wf H) txs → 0 <= block_sum coinbase_of H (nHeight b) m txs.
Proof using.
  intros Hwf. revert m. induction Hwf as [|tx txs (_ & _ & Hpos & _) _ IH]; intros m; cbn [block_sum]; [done|].
  specialize (IH (after_tx H (nHeight b) m tx)). unfold coinbase_of at 1. destruct (IsCoinBase tx); [|lia].
  assert (0 <= plain_value_out tx); [|lia]. unfold plain_value_out, sum. clear -Hpos.
  induction Hpos; cbn [foldr]; lia.
Qed.

(** After the first transaction of a block no other is a coinstake. *)
Lemma connect_txs_parts first txs s s' m :
  connect_txs nd h pindex b first txs s = Ok s' →
  represents (the_view s) m → amounts_in_range m → Forall (tx_wf H) txs →
  NoDup (map (tx_id H) txs) → Forall (room_for H m) txs → Forall plain_tx txs →
  Forall (λ tx, is_coinstake tx = false) txs → MoneyRange (nFees s) = true →
  - 2 ^ 62 <= nMoneyCreated s → nMoneyCreated s + block_sum coinbase_of H (nHeight b) m txs <= 2 ^ 62 →
  nFees s' = nFees s + block_sum fee_of H (nHeight b) m txs ∧ nStakeReward s' = nStakeReward s ∧
  nMoneyCreated s' = nMoneyCreated s + block_sum coinbase_of H (nHeight b) m txs ∧
  block_sum stake_of H (nHeight b) m txs = 0.
Proof using All.
  revert first s m. induction txs as [|tx txs IH]; intros first s m; cbn [connect_txs].
  { intros [= <-]. intros. cbn. split_and!; lia. }
  intros (s1 & H1 & Hs)%rbind_Ok Hr Hi [Hwf Hwfs]%Forall_cons [Hni Hnd]%NoDup_cons
    [Hroom Hrooms]%Forall_cons [Hp Hps]%Forall_cons [Hcs Hcss]%Forall_cons Hfees Hlo Hhi. cbn [block_sum] in *.
  apply connect_tx_inv in H1.
  destruct (step_represents nd h pindex b Hmode Hheight m tx s s1) as (Hc & Hr1 & _); [done..|].
  destruct (step_parts m tx s s1 Hr Hi Hwf Hp (step_money _ _ _ _ _ _ H1) Hfees)
    as (E1 & Hfees1 & _ & Hcb & E2). rewrite Hcs in E2.
  pose proof (coinbase_sum_nonneg (after_tx H (nHeight b) m tx) txs Hwfs) as Hrest.
  assert (nStakeReward s1 = nStakeReward s ∧ nMoneyCreated s1 = nMoneyCreated s + coinbase_of m tx) as [E3 E4].
  { unfold coinbase_of in *. destruct (IsCoinBase tx); destruct E2 as [-> ->]; (split; [done|]); [|lia].
    apply i64_small. unfold is_i64. lia. }
  destruct (IH false s1 (after_tx H (nHeight b) m tx) Hs Hr1) as (F1 & F2 & F3 & F4); try done; try lia.
  - apply after_tx_amounts; [done|]. apply Hp.
  - rewrite Forall_forall in Hrooms |- *. intros tx' Hin. apply after_tx_room; [|by apply Hrooms].
    intros E. apply Hni. rewrite <- E. by apply list_elem_of_fmap_2.
  - assert (stake_of m tx = 0) by (unfold stake_of; rewrite Hcs, andb_false_r; done). split_and!; lia || congruence.
Qed.

(** The whole list, when only the first transaction may be a coinstake. *)
Lemma block_parts txs c s' m r :
  connect_txs nd h pindex b true txs (BlockState c r 0 0 0 0 [] false false []) = Ok s' →
  represents c m → amounts_in_range m → Forall (tx_wf H) txs →
  NoDup (map (tx_id H) txs) → Forall (room_for H m) txs → Forall plain_tx txs →
  Forall (λ tx, is_coinstake tx = false) (tail txs) →
  block_sum coinbase_of H (nHeight b) m txs <= MAX_MONEY →
  nFees s' = block_sum fee_of H (nHeight b) m txs ∧
  nMoneyCreated s' = block_sum stake_of H (nHeight b) m txs + block_sum coinbase_of H (nHeight b) m txs ∧
  Z.abs (block_sum stake_of H (nHeight b) m txs) <= MAX_MONEY.
Proof using All.
  destruct txs as [|tx txs]; cbn [connect_txs tail].
  { intros [= <-]. intros. cbn. unfold MAX_MONEY, COIN. lia. }
  intros (s1 & H1 & Hs)%rbind_Ok Hr Hi [Hwf Hwfs]%Forall_cons [Hni Hnd]%NoDup_cons
    [Hroom Hrooms]%Forall_cons [Hp Hps]%Forall_cons Hcss Hle. cbn [block_sum] in *.
  apply connect_tx_inv in H1.
  set (s := BlockState c r 0 0 0 0 [] false false []) in *. change (represents (the_view s) m) in Hr.
  destruct (step_represents nd h pindex b Hmode Hheight m tx s s1 Hr Hwf Hroom H1) as (Hc & Hr1 & _).
  destruct (step_parts m tx s s1 Hr Hi Hwf Hp (step_money _ _ _ _ _ _ H1) ltac:(by_eval))
    as (E1 & Hfees1 & Hst & Hcb & E2). cbn [s nFees nStakeReward nMoneyCreated] in *. rewrite !Z.add_0_l in *.
  pose proof (coinbase_sum_nonneg (after_tx H (nHeight b) m tx) txs Hwfs) as Hrest.
  assert (nMoneyCreated s1 = stake_of m tx + coinbase_of m tx) as E4.
  { assert (Hsm : ∀ z, Z.abs z <= MAX_MONEY → i64 z = z).
    { intros z Hz. apply i64_small. unfold is_i64, MAX_MONEY, COIN in *. lia. }
    unfold coinbase_of, stake_of in *.
    destruct (IsCoinBase tx), (is_coinstake tx); cbn [negb andb] in *; destruct E2 as [E2 ->];
      rewrite ?E2, ?Hsm by (rewrite ?Hsm; lia); lia. }
  destruct (connect_txs_parts false txs s1 s' (after_tx H (nHeight b) m tx) Hs Hr1) as (F1 & F2 & F3 & F4);
    try done; try (unfold MAX_MONEY, COIN in *; lia).
  - apply after_tx_amounts; [done|]. apply Hp.
  - rewrite Forall_forall in Hrooms |- *. intros tx' Hin. apply after_tx_room; [|by apply Hrooms].
    intros E. apply Hni. rewrite <- E. by apply list_elem_of_fmap_2.
Qed.

End Money.

(** ** Properties *)

(** C5: the money of a block.  When [ConnectBlock] accepts a block of plain transactions
    of which at most the first is a coinstake, the money supply of its index entry is
    the parent's plus what the coinstake adds and the coinbases create; but the sum of
    all coins grows by that less the fees, which a coinstake may claim and which were
    counted before, and less the outputs nobody can spend.  So the recorded supply,
    from which later rewards are computed, exceeds the sum of the coins by the fees and
    the burned outputs of every block. *)
Theorem block_money {V : Type} `{!CoinsView V} `{!CoinsViewLaws V} (nd : node) (h : heap) (pindex : ptr)
    (b prev : CBlockIndex) (block : CBlock) (m : gmap COutPoint Coin) (hash hashPrev : bytes)
    (view : cache V) (cb : connected_block) :
  block_context nd h b block m hash hashPrev → represents view m →
  ConnectBlock nd h pindex b block view rct_view_empty false = Ok cb →
  Forall plain_tx (vtx block) → Forall (λ tx, is_coinstake tx = false) (tail (vtx block)) →
  amounts_in_range m → prev_entry h b = Some prev → MoneyRange (nMoneySupply prev) = true →
  let part f := block_sum f (Hash (the_env nd)) (nHeight b) m (vtx block) in
  part coinbase_of <= MAX_MONEY →
  ∃ m', represents (cb_view cb) m' ∧
    nMoneySupply (cb_index cb) = nMoneySupply prev + part stake_of + part coinbase_of ∧
    total m' = total m + part stake_of + part coinbase_of - part fee_of - part burned_of ∧
    nMoneySupply (cb_index cb) - total m' = nMoneySupply prev - total m + part fee_of + part burned_of.
Proof.
  intros Hctx Hr Hcb Hp Hcs Hi Hprev Hsupply part Hle.
  destruct (connected_coins nd h pindex b block m hash hashPrev Hctx view cb Hr Hcb) as (Hr' & Hc & _).
  eexists. split; [exact Hr'|].
  apply ConnectBlock_inv in Hcb as (hash' & s & _ & _ & How & Hs & _ & _ & _ & _ & _ & _ & _ & _ & _ & Hsup).
  destruct (GetBestBlock_represents view m Hr) as (best & view' & E & Hrv). rewrite E in *. cbn [snd] in *.
  destruct Hctx as [Hmode _ Hh _ _ Hwf Hids _ _].
  pose proof (overwrites_room nd h pindex b Hmode Hh view' m _ Hrv Hwf How) as Hroom.
  destruct (block_parts nd h pindex b Hmode Hh (vtx block) view' s m rct_view_empty Hs) as (_ & E2 & E3); try done.
  rewrite Hprev, E2 in Hsup. apply MoneyRange_iff in Hsupply.
  fold part in E3. fold (part stake_of) (part coinbase_of) in *.
  pose proof (coinbase_sum_nonneg nd b m _ Hwf) as Hpos. fold (part coinbase_of) in Hpos.
  rewrite i64_small in Hsup by (unfold is_i64, MAX_MONEY, COIN in *; lia).
  pose proof (block_total _ _ m _ Hc Hp) as Et. fold (part stake_of) (part coinbase_of) (part fee_of) (part burned_of) in Et.
  split_and!; lia.
Qed.

(** ** What the loop does not look at *)

Definition forget_images (r : rct_view) : rct_view :=
  RctView (nLastRCTOutput r) (anonOutputs r) (anonOutputLinks r) [].
Definition forget {V} (s : block_state V) : block_state V :=
  BlockState (the_view s) (forget_images (the_rct s)) (nFees s) (nSigOpsCost s) (nStakeReward s)
    (nMoneyCreated s) (vtxundo s) (state_fHasAnonInput s) (state_fHasAnonOutput s) (queue s).
Definition map_ok {E A B} (f : A → B) (r : result E A) : result E B :=
  match r with Ok a => Ok (f a) | Err x => Err x end.

(** Two computations that agree up to [f] continue alike when what follows respects
    [f]. *)
Lemma map_ok_rbind {E A B C D} (f : A → C) (k : B → D) (r r' : result E A) (g : A → result E B) :
  map_ok f r = map_ok f r' → (∀ a a', f a = f a' → map_ok k (g a) = map_ok k (g a')) →
  map_ok k (rbind r g) = map_ok k (rbind r' g).
Proof.
  intros Hr Hg. destruct r, r'; cbn in *; try congruence. apply Hg. congruence.
Qed.

Section Images.
Context {V : Type} `{!CoinsView V}.
Context (nd : node) (h : heap) (pindex : ptr) (b : CBlockIndex).
Implicit Types s : block_state V.

Lemma index_outputs_images txhash l k r r' :
  forget_images r = forget_images r' →
  map_ok forget_images (index_outputs nd h b txhash k l r)
  = map_ok forget_images (index_outputs nd h b txhash k l r').
Proof.
  revert k r r'. induction l as [|o l IH]; intros k r r' E; cbn [index_outputs]; [by cbn; rewrite E|].
  injection E as E1 E2 E3. destruct o as [[]|]; cbn [deref lift rbind]; try done;
    try (apply IH; unfold forget_images; by rewrite E1, E2, E3).
  destruct (if fVerifyingDB nd then None else _); [done|]. rewrite E3. destruct (_ && _); [done|].
  apply IH. unfold forget_images. cbn. by rewrite E1, E2.
Qed.

Lemma index_rct_images txhash tx anon r r' :
  forget_images r = forget_images r' →
  map_ok forget_images (index_rct nd h b txhash tx anon r)
  = map_ok forget_images (index_rct nd h b txhash tx anon r').
Proof.
  intros E. injection E as E1 E2 E3. unfold index_rct. rewrite E1. cbv zeta.
  assert (Hr : forget_images (if nLastRCTOutput r' =? 0
      then RctView match prev_entry h b with Some p => nAnonOutputs p | None => 0 end (anonOutputs r)
             (anonOutputLinks r) (keyImages r) else r)
    = forget_images (if nLastRCTOutput r' =? 0
      then RctView match prev_entry h b with Some p => nAnonOutputs p | None => 0 end (anonOutputs r')
             (anonOutputLinks r') (keyImages r') else r'))
    by (destruct (_ =? 0); unfold forget_images; cbn; congruence).
  destruct anon; [|by cbn; rewrite Hr]. destruct (lift _); [|done]. cbn [rbind].
  apply index_outputs_images. injection Hr as F1 F2 F3. unfold forget_images. cbn. by rewrite F1, F2, F3.
Qed.

(** The other steps carry the view of the anonymous outputs along. *)
Definition put_rct (r : rct_view) s : block_state V :=
  BlockState (the_view s) r (nFees s) (nSigOpsCost s) (nStakeReward s) (nMoneyCreated s) (vtxundo s)
    (state_fHasAnonInput s) (state_fHasAnonOutput s) (queue s).

Lemma check_tx_inputs_rct r tx s :
  check_tx_inputs nd h pindex b tx (put_rct r s) = map_ok (put_rct r) (check_tx_inputs nd h pindex b tx s).
Proof.
  unfold check_tx_inputs, put_rct. cbn [the_view nFees nSigOpsCost nStakeReward nMoneyCreated vtxundo queue].
  destruct (lift (CheckTxInputs _ _ _ _)); [|done]. cbn [rbind]. destruct (lift _); [|done]. cbn [rbind].
  cbv zeta. destruct (negb (MoneyRange _)); [done|]. destruct (lift _) as [[]|]; done.
Qed.

Lemma count_sigops_rct r first tx s :
  count_sigops nd b first tx (put_rct r s) = map_ok (put_rct r) (count_sigops nd b first tx s).
Proof.
  unfold count_sigops, put_rct. cbn [the_view nFees nSigOpsCost nStakeReward nMoneyCreated vtxundo queue].
  destruct (if _ : bool then _ else _); [|done]. cbn [rbind]. cbv zeta. by destruct (_ <? _).
Qed.

Lemma update_coins_rct r tx s :
  update_coins nd b tx (put_rct r s) = map_ok (put_rct r) (update_coins nd b tx s).
Proof.
  unfold update_coins, put_rct. cbn [the_view nFees nSigOpsCost nStakeReward nMoneyCreated vtxundo queue].
  destruct (IsCoinBase tx).
  - destruct (or_crash _) as [[]|]; [|done]. cbn [rbind]. by destruct (lift _).
  - destruct (lift (deref _)); [|done]. cbn [rbind]. destruct (lift _); [|done]. cbn [rbind].
    by destruct (or_crash _) as [[]|].
Qed.

Lemma connect_tx_images first tx s r r' :
  forget_images r = forget_images r' →
  map_ok forget (connect_tx nd h pindex b first tx (put_rct r s))
  = map_ok forget (connect_tx nd h pindex b first tx (put_rct r' s)).
Proof.
  intros E. unfold connect_tx. destruct (lift _) as [txhash|]; [|done]. cbn [rbind].
  assert (Hfirst : ∀ r, (if IsCoinBase tx then Ok (put_rct r s) else check_tx_inputs nd h pindex b tx (put_rct r s))
    = map_ok (put_rct r) (if IsCoinBase tx then Ok s else check_tx_inputs nd h pindex b tx s)).
  { intros r0. destruct (IsCoinBase tx); [done|]. apply check_tx_inputs_rct. }
  rewrite !Hfirst. destruct (if IsCoinBase tx then _ else _) as [s1|]; [|done]. cbn [map_ok rbind].
  rewrite !count_sigops_rct. destruct (count_sigops _ _ _ _ _) as [s2|]; [|done]. cbn [map_ok rbind].
  rewrite !update_coins_rct. destruct (update_coins _ _ _ _) as [s3|]; [|done]. cbn [map_ok rbind].
  unfold put_rct. cbn [the_rct state_fHasAnonInput state_fHasAnonOutput].
  pose proof (index_rct_images txhash tx (state_fHasAnonOutput s3 || state_fHasAnonInput s3) r r' E) as Hi.
  destruct (index_rct _ _ _ _ _ _ r), (index_rct _ _ _ _ _ _ r'); cbn [map_ok rbind] in Hi |- *; try congruence.
  injection Hi as F1 F2 F3. cbn. unfold forget, forget_images. cbn. by rewrite F1, F2, F3.
Qed.

Lemma put_the_rct s : put_rct (the_rct s) s = s.
Proof. by destruct s. Qed.

Lemma connect_txs_images first txs s s' :
  forget s = forget s' →
  map_ok forget (connect_txs nd h pindex b first txs s) = map_ok forget (connect_txs nd h pindex b first txs s').
Proof.
  revert first s s'. induction txs as [|tx txs IH]; intros first s s' E; cbn [connect_txs]; [by cbn; rewrite E|].
  apply (map_ok_rbind forget); [|intros; by apply IH].
  assert (Es : s' = put_rct (the_rct s') s) by (destruct s, s'; unfold forget, put_rct in *; cbn in *; congruence).
  rewrite Es. rewrite <- (put_the_rct s) at 1. apply connect_tx_images.
  destruct s, s'; unfold forget in *; cbn in *; congruence.
Qed.

End Images.

(** C6: the key images of a block are not compared with each other.  The loop over the
    transactions ends the same way, with the same error or with the same state, whatever
    key images the earlier transactions of the block have left in the view: a key image
    is only looked up in the index, which is written when the whole block has been
    connected, and in the pool.  Nothing else in [ConnectBlock] keeps two transactions
    of one block from spending the same anonymous output ([double_spend_connected]). *)
Theorem key_images_not_compared {V : Type} `{!CoinsView V} (nd : node) (h : heap) (pindex : ptr)
    (b : CBlockIndex) (first : bool) (txs : list CTransaction) (s : block_state V) (images : list (bytes * bytes)) :
  let r := the_rct s in
  let s' := put_rct (RctView (nLastRCTOutput r) (anonOutputs r) (anonOutputLinks r) images) s in
  map_ok forget (connect_txs nd h pindex b first txs s') = map_ok forget (connect_txs nd h pindex b first txs s).
Proof. intros r s'. apply connect_txs_images. by destruct s. Qed.

(** ** Two blocks *)

(** A coinstake, and a payment of 50 that leaves a fee of 10 and burns 10. *)
Definition burning_payment : CTransaction :=
  Transaction 0xA0 [final_in (toy_point 1)] []
    [Some (CTxOutStandard 30 stake_script []); Some (CTxOutStandard 10 [0x6a] [])] 0.
Definition money_block : CBlock := Block toy_header [coinstake 70000007; burning_payment] [].
Definition connected_money_block : connected_block :=
  default (ConnectedBlock block_view rct_view_empty block_entry [])
    (result_view (ConnectBlock block_node block_heap 3%positive block_entry money_block block_view
                    rct_view_empty false)).

Lemma money_block_context : block_context block_node block_heap block_entry money_block block_coins [2] [1].
Proof.
  destruct anon_block_context as [H1 H2 H3 H4 H5 _ _ _ _]. split; try assumption.
  - unfold money_block. txs_wf_eval.
  - by_eval.
  - by_eval.
  - by_eval.
Qed.

Lemma block_money_witness :
  ∃ m', represents (cb_view connected_money_block) m' ∧
    nMoneySupply (cb_index connected_money_block) = nMoneySupply block_parent + 130000007 ∧
    total m' = total block_coins + 130000007 - 20.
Proof.
  destruct (block_money block_node block_heap 3%positive block_entry block_parent money_block block_coins
    [2] [1] block_view connected_money_block) as (m' & Hr & Hs & Ht & _).
  - exact money_block_context.
  - exact block_view_represents.
  - vm_compute. reflexivity.
  - unfold money_block. cbn [vtx]. repeat (apply Forall_cons; split); [split_and!; by_eval..|constructor].
  - by_eval.
  - by_eval.
  - vm_compute. reflexivity.
  - reflexivity.
  - by_eval.
  - exists m'. split; [exact Hr|]. split.
    + rewrite Hs. vm_compute. reflexivity.
    + rewrite Ht. vm_compute. reflexivity.
Defined.

(** Two transactions with one key image, and different ids, in one block. *)
Definition double_spend : list CTransaction :=
  [toy_anon_tx (toy_key_image 9) 6; toy_anon_tx (toy_key_image 9) 7].
Definition double_spend_block : CBlock := Block toy_header (coinstake 70000014 :: double_spend) [].

Example double_spend_connected :
  NoDup (map (tx_id id) double_spend) ∧
  (block_key_images id double_spend).*1 = [toy_key_image 9; toy_key_image 9] ∧
  (λ cb, map fst (anonOutputs (cb_rct cb))) <$>
    result_view (ConnectBlock block_node block_heap 3%positive block_entry double_spend_block block_view
                   rct_view_empty false) = Some [4; 5].
Proof. split_and!; [by_eval|vm_compute; reflexivity..]. Qed.
