(* ===== verification/Text.v ===== *)
(** Text at the edges of the program: C strings, the character classes of the C
    locale, and numbers written in a positional system, shared by the files on
    Base58, Bech32 and amounts.

    A string is the list of its bytes. *)
From stdpp Require Import list strings.
From S2P Require Import Prelude Serialize.
Open Scope string_scope.
Open Scope list_scope.
Open Scope Z_scope.

(** The bytes of a literal. *)
Definition codes (s : string) : bytes := map (λ c, Z.of_N (Ascii.N_of_ascii c)) (String.list_ascii_of_string s).

(** [std::string::c_str()] read as a C string: it ends at the first null byte. *)
Fixpoint c_str (s : bytes) : bytes :=
  match s with
  | [] => []
  | c :: s' => if c =? 0 then [] else c :: c_str s'
  end.

(** [isspace] and [isdigit] in the C locale. *)
Definition isspace (c : Z) : bool := ((9 <=? c) && (c <=? 13)) || (c =? 32).
Definition isdigit (c : Z) : bool := (48 <=? c) && (c <=? 57).

(** The loop that moves an iterator on while [p] holds of what it points at. *)
Fixpoint skip (p : Z → bool) (s : bytes) : bytes :=
  match s with
  | [] => []
  | c :: s' => if p c then skip p s' else s
  end.
(** What it skips. *)
Fixpoint span (p : Z → bool) (s : bytes) : bytes :=
  match s with
  | [] => []
  | c :: s' => if p c then c :: span p s' else []
  end.

Lemma c_str_id s : Forall (λ c, c ≠ 0) s → c_str s = s.
Proof.
  induction 1 as [|c s Hc _ IH]; cbn [c_str]; [done|]. destruct (Z.eqb_spec c 0); [done|]. by rewrite IH.
Qed.

Lemma span_skip p s : span p s ++ skip p s = s.
Proof. induction s as [|c s IH]; cbn; [done|]. destruct (p c); cbn; [by rewrite IH|done]. Qed.

Lemma span_all p s : Forall (λ c, p c = true) (span p s).
Proof.
  induction s as [|c s IH]; cbn [span]; [constructor|]. destruct (p c) eqn:E; [|constructor]. by constructor.
Qed.

Lemma skip_app p s t : Forall (λ c, p c = true) s → skip p (s ++ t) = skip p t.
Proof. induction 1 as [|c s Hc _ IH]; cbn [app skip]; [done|]. by rewrite Hc. Qed.

Lemma span_app p s t : Forall (λ c, p c = true) s → span p (s ++ t) = s ++ span p t.
Proof. induction 1 as [|c s Hc _ IH]; cbn [app span]; [done|]. by rewrite Hc, IH. Qed.

Lemma skip_all p s : Forall (λ c, p c = true) s → skip p s = [].
Proof. intros Hs. rewrite <- (app_nil_r s), skip_app by done. done. Qed.

Lemma skip_none p s : (∀ c t, s = c :: t → p c = false) → skip p s = s.
Proof. destruct s as [|c t]; [done|]. intros Hs. cbn [skip]. by rewrite (Hs c t). Qed.

Lemma skip_head p s c t : skip p s = c :: t → p c = false.
Proof.
  induction s as [|d s IH]; cbn [skip]; [done|]. destruct (p d) eqn:E; [apply IH|]. by intros [= <- <-].
Qed.

Lemma skip_length p s : (length (skip p s) <= length s)%nat.
Proof. induction s as [|c s IH]; cbn [skip length]; [lia|]. destruct (p c); cbn [length]; lia. Qed.

Lemma skip_forall (P : Z → Prop) p s : Forall P s → Forall P (skip p s).
Proof. induction 1 as [|c s Hc Hs IH]; cbn [skip]; [constructor|]. destruct (p c); [done|by constructor]. Qed.

(** ** Positional systems *)

Section Positional.
Context (b : Z) (Hb : 1 < b).

(** The number of a list of digits, least significant first, and first. *)
Fixpoint le_num (l : list Z) : Z := match l with [] => 0 | d :: l' => d + b * le_num l' end.
Definition be_num (l : list Z) : Z := le_num (rev l).
Definition digits (l : list Z) : Prop := Forall (λ d, 0 <= d < b) l.

Lemma le_num_range l : digits l → 0 <= le_num l < b ^ Z.of_nat (length l).
Proof using Hb.
  induction 1 as [|d l Hd _ IH]; cbn [le_num length]; [cbn; lia|].
  rewrite Nat2Z.inj_succ, Z.pow_succ_r by lia. nia.
Qed.

Lemma le_num_app l l' : le_num (l ++ l') = le_num l + b ^ Z.of_nat (length l) * le_num l'.
Proof using.
  induction l as [|d l IH]; cbn [app le_num length]; [cbn [Z.of_nat]; lia|].
  rewrite Nat2Z.inj_succ, Z.pow_succ_r, IH by lia. ring.
Qed.

Lemma le_num_zeros n : le_num (replicate n 0) = 0.
Proof using. induction n as [|n IH]; cbn; [done|]. rewrite IH. lia. Qed.

Lemma be_num_snoc l d : be_num (l ++ [d]) = b * be_num l + d.
Proof using. unfold be_num. rewrite rev_app_distr. cbn. lia. Qed.

(** Lists of the same length with the same number are equal. *)
Lemma le_num_inj l l' : digits l → digits l' → length l = length l' → le_num l = le_num l' → l = l'.
Proof using Hb.
  intros Hl. revert l'. induction Hl as [|d l Hd Hl IH]; intros [|d' l'] Hl' Hlen E; [done..|].
  apply Forall_cons in Hl' as [Hd' Hl']. cbn [le_num] in E.
  assert (d = d' ∧ le_num l = le_num l') as [-> E'].
  { assert (d mod b = d' mod b) as Em.
    { rewrite <- (Z.mod_add d (le_num l) b), <- (Z.mod_add d' (le_num l') b) by lia. f_equal. lia. }
    rewrite !Z.mod_small in Em by done. split; [done|]. nia. }
  f_equal. apply IH; [done|by injection Hlen|done].
Qed.

(** A number has one representation that does not start with zero. *)
Definition canonical (l : list Z) : Prop := digits l ∧ head l ≠ Some 0.

Lemma canonical_length l :
  canonical l → l ≠ [] → b ^ (Z.of_nat (length l) - 1) <= be_num l < b ^ Z.of_nat (length l).
Proof using Hb.
  intros [Hl Hz] Hne. destruct l as [|d l]; [done|]. unfold be_num. cbn [rev length].
  assert (Hd : 1 <= d) by (apply Forall_cons in Hl as [? _]; cbn in Hz; assert (d ≠ 0) by congruence; lia).
  assert (digits (rev (d :: l))) as Hr by (by apply Forall_rev).
  pose proof (le_num_range _ Hr) as Hrange. cbn [rev] in Hrange. rewrite !length_app in Hrange. cbn [length] in Hrange.
  rewrite length_rev in Hrange. replace (length l + 1)%nat with (S (length l)) in Hrange by lia. split; [|lia].
  rewrite le_num_app, length_rev. cbn [le_num]. rewrite Nat2Z.inj_succ.
  replace (Z.succ (Z.of_nat (length l)) - 1) with (Z.of_nat (length l)) by lia.
  apply Forall_cons in Hl as [_ Hl]. pose proof (le_num_range (rev l) (Forall_rev Hl)). nia.
Qed.

Lemma canonical_nil_num l : canonical l → be_num l = 0 → l = [].
Proof using Hb.
  intros Hc E. destruct l as [|d l]; [done|]. pose proof (canonical_length _ Hc ltac:(done)) as H.
  rewrite E in H. pose proof (Z.pow_pos_nonneg b (Z.of_nat (length (d :: l)) - 1)). cbn [length] in *. lia.
Qed.

Lemma canonical_unique l l' : canonical l → canonical l' → be_num l = be_num l' → l = l'.
Proof using Hb.
  intros Hc Hc' E. destruct (decide (l = [])) as [->|Hne].
  { symmetry. by apply canonical_nil_num. }
  destruct (decide (l' = [])) as [->|Hne']; [by apply canonical_nil_num|].
  pose proof (canonical_length l Hc Hne) as H1. pose proof (canonical_length l' Hc' Hne') as H2.
  assert (length l ≠ 0%nat) by (by destruct l). assert (length l' ≠ 0%nat) by (by destruct l').
  assert (Hlen : length l = length l').
  { destruct (Nat.lt_trichotomy (length l) (length l')) as [Hlt|[Heq|Hgt]]; [exfalso|done|exfalso].
    - pose proof (Z.pow_le_mono_r b (Z.of_nat (length l)) (Z.of_nat (length l') - 1)). lia.
    - pose proof (Z.pow_le_mono_r b (Z.of_nat (length l')) (Z.of_nat (length l) - 1)). lia. }
  destruct Hc as [Hl _], Hc' as [Hl' _]. rewrite <- (rev_involutive l), <- (rev_involutive l'). f_equal.
  apply le_num_inj; try (by apply Forall_rev); [|done]. by rewrite !length_rev.
Qed.

(** Leading zeros do not count. *)
Lemma be_num_skip l : be_num (skip (Z.eqb 0) l) = be_num l.
Proof using.
  induction l as [|d l IH]; cbn [skip]; [done|]. destruct (Z.eqb_spec 0 d) as [<-|]; [|done].
  rewrite IH. unfold be_num. cbn [rev]. rewrite le_num_app. cbn. lia.
Qed.

Lemma skip_canonical l : digits l → canonical (skip (Z.eqb 0) l).
Proof using.
  intros Hl. split; [by apply skip_forall|]. destruct (skip (Z.eqb 0) l) as [|d t] eqn:E; [done|].
  apply skip_head in E. cbn. intros [= ->]. done.
Qed.

End Positional.

Lemma be_num_cons b d l : be_num b (d :: l) = d * b ^ Z.of_nat (length l) + be_num b l.
Proof. unfold be_num. cbn [rev]. rewrite le_num_app, length_rev. cbn. lia. Qed.

Lemma be_num_nonneg b l : 1 < b → digits b l → 0 <= be_num b l < b ^ Z.of_nat (length l).
Proof.
  intros Hb Hl. unfold be_num. rewrite <- (length_rev l). apply le_num_range; [done|]. by apply Forall_rev.
Qed.

Lemma be_num_app b l l' : be_num b (l ++ l') = be_num b l * b ^ Z.of_nat (length l') + be_num b l'.
Proof. unfold be_num. rewrite rev_app_distr, le_num_app, length_rev. lia. Qed.
