(* ===== verification/Base58.v ===== *)
(** Base58, with and without a checksum, after [src/src/base58.cpp].

    The vectors of digits are kept in the order of the reverse iterators that walk
    them: least significant digit first.  [Err] is a failed assertion or a length that
    does not fit the [int] it is stored in; [Ok None] is [return false]. *)
From stdpp Require Import list strings.
From S2P Require Import Prelude Serialize Text.
Open Scope string_scope.
Open Scope list_scope.
Open Scope Z_scope.

Inductive base58_error : Set := AssertFailed | BadLength.

Definition pszBase58 : bytes := codes "123456789ABCDEFGHJKLMNPQRSTUVWXYZabcdefghijkmnopqrstuvwxyz".

Definition mapBase58 : list Z :=
  [-1;-1;-1;-1;-1;-1;-1;-1; -1;-1;-1;-1;-1;-1;-1;-1;
   -1;-1;-1;-1;-1;-1;-1;-1; -1;-1;-1;-1;-1;-1;-1;-1;
   -1;-1;-1;-1;-1;-1;-1;-1; -1;-1;-1;-1;-1;-1;-1;-1;
   -1; 0; 1; 2; 3; 4; 5; 6;  7; 8;-1;-1;-1;-1;-1;-1;
   -1; 9;10;11;12;13;14;15; 16;-1;17;18;19;20;21;-1;
   22;23;24;25;26;27;28;29; 30;31;32;-1;-1;-1;-1;-1;
   -1;33;34;35;36;37;38;39; 40;41;42;43;-1;44;45;46;
   47;48;49;50;51;52;53;54; 55;56;57;-1;-1;-1;-1;-1]
  ++ replicate 128 (-1).

(** ** The loops *)

(** One digit more: [buf = buf * mul + carry] in base [base], where [length] digits are
    in use and [i] have been seen; the new digits, the last carry and the new [i]. *)
Fixpoint mul_add (mul base : Z) (length i : nat) (carry : Z) (buf : list Z) : list Z * Z * nat :=
  match buf with
  | [] => ([], carry, i)
  | d :: buf' =>
      if negb (carry =? 0) || (i <? length)%nat then
        let carry := carry + mul * d in
        let '(buf', c, i') := mul_add mul base length (S i) (carry / base) buf' in
        (carry mod base :: buf', c, i')
      else (buf, carry, i)
  end.

(** [assert(carry == 0); length = i;]. *)
Definition digit_step (mul base : Z) (length : nat) (carry : Z) (buf : list Z)
  : result base58_error (list Z * nat) :=
  let '(buf, carry, i) := mul_add mul base length 0 carry buf in
  if negb (carry =? 0) then Err AssertFailed else Ok (buf, i).

(** [std::vector<unsigned char> v(size)] for an [int]. *)
Definition int_vector (n : Z) : result base58_error (list Z) :=
  if i32 n <? 0 then Err BadLength else Ok (replicate (Z.to_nat (i32 n)) 0).

(** The digits in use, most significant first, without leading zeros. *)
Definition significant (buf : list Z) (len : nat) : list Z :=
  skip (Z.eqb 0) (drop (length buf - len) (rev buf)).

(** ** Decoding *)

(** The characters up to a space; what is left of the string is the last component. *)
Fixpoint decode_chars (length : nat) (buf : list Z) (psz : bytes)
  : result base58_error (option (list Z * nat * bytes)) :=
  match psz with
  | [] => Ok (Some (buf, length, []))
  | c :: psz' =>
      if isspace c then Ok (Some (buf, length, psz))
      else
        let carry := nth (Z.to_nat (u8 c)) mapBase58 (-1) in
        if carry =? -1 then Ok None
        else
          let! (buf, length) := digit_step 58 256 length carry buf in
          decode_chars length buf psz'
  end.

Definition DecodeBase58 (str : bytes) : result base58_error (option bytes) :=
  let psz := skip isspace (c_str str) in
  let zeroes := length (span (Z.eqb 49) psz) in
  let psz := skip (Z.eqb 49) psz in
  let! b256 := int_vector (Z.of_nat (length psz) * 733 / 1000 + 1) in
  let! r := decode_chars 0 b256 psz in
  Ok (match r with
      | None => None
      | Some (b256, length, psz) =>
          match skip isspace psz with
          | [] => Some (replicate zeroes 0 ++ significant b256 length)
          | _ => None
          end
      end).

(** ** Encoding *)

Fixpoint encode_bytes (length : nat) (buf : list Z) (v : bytes) : result base58_error (list Z * nat) :=
  match v with
  | [] => Ok (buf, length)
  | c :: v' =>
      let! (buf, length) := digit_step 256 58 length c buf in
      encode_bytes length buf v'
  end.

Definition EncodeBase58 (vch : bytes) : result base58_error bytes :=
  let zeroes := length (span (Z.eqb 0) vch) in
  let v := skip (Z.eqb 0) vch in
  let! b58 := int_vector (Z.of_nat (length v) * 138 / 100 + 1) in
  let! (b58, length) := encode_bytes 0 b58 v in
  Ok (replicate zeroes 49 ++ map (λ d, nth (Z.to_nat d) pszBase58 0) (significant b58 length)).

(** ** Checksums *)

Section Check.
Context (Hash : bytes → bytes).

Definition EncodeBase58Check (vchIn : bytes) : result base58_error bytes :=
  EncodeBase58 (vchIn ++ take 4 (Hash vchIn)).

Definition DecodeBase58Check (str : bytes) : result base58_error (option bytes) :=
  let! r := DecodeBase58 str in
  Ok (match r with
      | Some vch =>
          if (length vch <? 4)%nat then None
          else
            let body := take (length vch - 4) vch in
            if bool_decide (take 4 (Hash body) = drop (length vch - 4) vch) then Some body else None
      | None => None
      end).

End Check.

(** ** Lemmas *)

Definition zeros (l : list Z) : Prop := Forall (λ d, d = 0) l.

Lemma zeros_num b l : zeros l → le_num b l = 0.
Proof. induction 1 as [|d l -> _ IH]; cbn; [done|]. rewrite IH. lia. Qed.

Section Loop.
Context (mul base : Z) (Hmul : 1 < mul) (Hbase : 1 < base).

Lemma mul_add_spec len i carry buf :
  digits base buf → 0 <= carry → zeros (drop (len - i) buf) →
  let '(buf', carry', i') := mul_add mul base len i carry buf in
  length buf' = length buf ∧ digits base buf' ∧ 0 <= carry' ∧ (i <= i')%nat ∧ zeros (drop (i' - i) buf') ∧
  le_num base buf' + base ^ Z.of_nat (length buf) * carry' = mul * le_num base buf + carry.
Proof using All.
  intros Hd. revert i carry. induction Hd as [|d buf Hd Hds IH]; intros i carry Hc Hz; cbn [mul_add].
  { cbn [length le_num Z.of_nat]. rewrite Z.pow_0_r, drop_nil. split_and!; [done|constructor|done|lia|constructor|lia]. }
  destruct (negb (carry =? 0) || (i <? len)%nat) eqn:Ego.
  - specialize (IH (S i) ((carry + mul * d) / base)). destruct (mul_add _ _ _ _ _ _) as [[buf' c'] i'].
    destruct IH as (E1 & E2 & E3 & E4 & E5 & E6); [apply Z.div_pos; nia| |].
    { destruct (len - i)%nat as [|k] eqn:Ek.
      - apply Forall_cons in Hz as [_ Hz]. by replace (len - S i)%nat with 0%nat by lia.
      - by replace (len - S i)%nat with k by lia. }
    cbn [length le_num]. split_and!; [lia| |done|lia| |].
    + constructor; [|done]. apply Z.mod_pos_bound. lia.
    + replace (i' - i)%nat with (S (i' - S i)) by lia. done.
    + rewrite Nat2Z.inj_succ, Z.pow_succ_r by lia. pose proof (Z.div_mod (carry + mul * d) base). nia.
  - apply orb_false_iff in Ego as [Ec%negb_false_iff%Z.eqb_eq Ei%Nat.ltb_ge]. subst carry.
    replace (len - i)%nat with 0%nat in Hz by lia. cbn [drop] in Hz.
    replace (i - i)%nat with 0%nat by lia. cbn [drop].
    rewrite (zeros_num base _ Hz). split_and!; [done|by constructor|done|lia|done|lia].
Qed.

(** The buffer and the number of digits in use. *)
Definition holds (buf : list Z) (len : nat) (n : Z) : Prop :=
  digits base buf ∧ zeros (drop len buf) ∧ le_num base buf = n.

Lemma digit_step_spec buf len carry n :
  holds buf len n → 0 <= carry → mul * n + carry < base ^ Z.of_nat (length buf) →
  ∃ buf' len', digit_step mul base len carry buf = Ok (buf', len') ∧ length buf' = length buf ∧
               holds buf' len' (mul * n + carry).
Proof using All.
  intros (Hd & Hz & Hn) Hc Hlt. unfold digit_step. pose proof (mul_add_spec len 0 carry buf Hd Hc) as H.
  rewrite Nat.sub_0_r in H. specialize (H Hz). destruct (mul_add _ _ _ _ _ _) as [[buf' c'] i'].
  destruct H as (E1 & E2 & E3 & _ & E5 & E6). rewrite Nat.sub_0_r in E5.
  pose proof (le_num_range base Hbase buf' E2). assert (c' = 0) as -> by nia. cbn [Z.eqb negb].
  exists buf', i'. split_and!; [done|done|]. split_and!; [done|done|lia].
Qed.

Lemma significant_spec buf len n :
  holds buf len n → canonical base (significant buf len) ∧ be_num base (significant buf len) = n.
Proof using All.
  intros (Hd & Hz & Hn). unfold significant.
  assert (Hr : digits base (drop (length buf - len) (rev buf))) by (apply Forall_drop, Forall_rev, Hd).
  split; [by apply skip_canonical|]. rewrite be_num_skip, <- Hn. unfold be_num.
  assert (rev (drop (length buf - len) (rev buf)) = take len buf) as ->.
  { pose proof (firstn_rev len (rev buf)) as E. by rewrite rev_involutive, length_rev in E. }
  rewrite <- (take_drop len buf), le_num_app, (zeros_num _ _ Hz), take_drop. lia.
Qed.

End Loop.

(** The buffers are long enough: [x^n <= y^s] when [x^p <= y^q] and [q*n <= p*s]. *)
Lemma pow_scale x y p q n s :
  0 < x → 1 < y → 0 < p → 0 <= q → 0 <= n → 0 <= s → x ^ p <= y ^ q → q * n <= p * s → x ^ n <= y ^ s.
Proof.
  intros Hx Hy Hp Hq Hn Hs Hpq Hle. apply Z.le_ngt. intros Hlt.
  pose proof (Z.pow_pos_nonneg y s ltac:(lia) Hs) as Hpos.
  assert (Hl : (y ^ s) ^ p < (x ^ n) ^ p) by (apply Z.pow_lt_mono_l; lia).
  rewrite <- !Z.pow_mul_r in Hl by lia. rewrite (Z.mul_comm n p), (Z.pow_mul_r x) in Hl by lia.
  pose proof (Z.pow_pos_nonneg x p Hx ltac:(lia)) as Hxp.
  assert (Hn' : (x ^ p) ^ n <= (y ^ q) ^ n) by (apply Z.pow_le_mono_l; lia).
  rewrite <- (Z.pow_mul_r y) in Hn' by lia.
  assert (y ^ (q * n) <= y ^ (s * p)) by (apply Z.pow_le_mono_r; lia). lia.
Qed.

Lemma int_vector_ok n : 0 <= n < 2 ^ 31 → int_vector n = Ok (replicate (Z.to_nat n) 0).
Proof.
  intros Hn. unfold int_vector. rewrite i32_small by (unfold is_i32; lia). destruct (Z.ltb_spec n 0); [lia|done].
Qed.

Lemma holds_start b n : 1 < b → holds b (replicate n 0) 0 0.
Proof.
  intros Hb. split_and!; [apply Forall_replicate; lia|cbn [drop]; by apply Forall_replicate|apply le_num_zeros].
Qed.

Lemma encode_bytes_spec v buf len n :
  holds 58 buf len n → 0 <= n → digits 256 v →
  n * 256 ^ Z.of_nat (length v) + be_num 256 v < 58 ^ Z.of_nat (length buf) →
  ∃ buf' len', encode_bytes len buf v = Ok (buf', len') ∧
               holds 58 buf' len' (n * 256 ^ Z.of_nat (length v) + be_num 256 v).
Proof.
  intros Hh Hn Hv. revert buf len n Hh Hn. induction Hv as [|c v Hc Hv IH]; intros buf len n Hh Hn Hlt.
  { exists buf, len. split; [done|]. cbn in *. by rewrite Z.mul_1_r, Z.add_0_r. }
  cbn [encode_bytes]. rewrite be_num_cons in *. cbn [length] in *.
  rewrite Nat2Z.inj_succ, Z.pow_succ_r in * by lia. pose proof (be_num_nonneg 256 v ltac:(lia) Hv) as Hbv.
  assert (Hp : 1 <= 256 ^ Z.of_nat (length v)) by (pose proof (Z.pow_pos_nonneg 256 (Z.of_nat (length v))); lia).
  destruct (digit_step_spec 256 58 ltac:(lia) ltac:(lia) buf len c n Hh) as (buf1 & len1 & -> & El & Hh1); [lia|nia|].
  cbn [rbind]. destruct (IH buf1 len1 _ Hh1) as (buf2 & len2 & -> & Hh2); [lia|rewrite El; nia|].
  exists buf2, len2. split; [done|].
  by replace (n * (256 * 256 ^ Z.of_nat (length v)) + (c * 256 ^ Z.of_nat (length v) + be_num 256 v))
    with ((256 * n + c) * 256 ^ Z.of_nat (length v) + be_num 256 v) by ring.
Qed.

(** What encoding gives: a character for every leading zero, and the digits of the
    rest. *)
Definition ch (d : Z) : Z := nth (Z.to_nat d) pszBase58 0.

Lemma EncodeBase58_spec v :
  digits 256 v → Z.of_nat (length v) < 2 ^ 30 →
  ∃ ds, EncodeBase58 v = Ok (replicate (length (span (Z.eqb 0) v)) 49 ++ map ch ds) ∧
    canonical 58 ds ∧ be_num 58 ds = be_num 256 (skip (Z.eqb 0) v).
Proof.
  intros Hv Hlen. unfold EncodeBase58. set (w := skip (Z.eqb 0) v).
  assert (Hw : digits 256 w) by (by apply skip_forall).
  pose proof (skip_length (Z.eqb 0) v : (length w <= length v)%nat) as Hlw.
  set (N := Z.of_nat (length w)) in *. pose proof (Z.div_mod (N * 138) 100). pose proof (Z.mod_pos_bound (N * 138) 100).
  rewrite int_vector_ok by lia. cbn [rbind].
  destruct (encode_bytes_spec w (replicate (Z.to_nat (N * 138 / 100 + 1)) 0) 0 0) as (buf & len & -> & Hh);
    [by apply holds_start|done|done| |].
  - rewrite length_replicate, Z2Nat.id by lia. pose proof (be_num_nonneg 256 w ltac:(lia) Hw) as Hb.
    assert (256 ^ N <= 58 ^ (N * 138 / 100 + 1)); [|fold N in Hb |- *; lia].
    apply (pow_scale 256 58 100 138); lia.
  - cbn [rbind]. eexists. split; [done|]. rewrite Z.add_0_l in Hh.
    by apply (significant_spec 256 58 ltac:(lia) ltac:(lia)).
Qed.

(** *** Decoding *)

(** The digits at the front of a string, up to a space. *)
Fixpoint word (s : bytes) : option (list Z * bytes) :=
  match s with
  | [] => Some ([], [])
  | c :: s' =>
      if isspace c then Some ([], s)
      else
        let d := nth (Z.to_nat (u8 c)) mapBase58 (-1) in
        if d =? -1 then None else '(ds, rest) ← word s'; Some (d :: ds, rest)
  end.

Lemma map_ch d : 0 <= d < 58 →
  nth (Z.to_nat (u8 (ch d))) mapBase58 (-1) = d ∧ 0 < ch d < 256 ∧ isspace (ch d) = false ∧ (ch d = 49 ↔ d = 0).
Proof.
  intros Hd. assert (Hall : Forall (λ k, nth (Z.to_nat (u8 (ch (Z.of_nat k)))) mapBase58 (-1) = Z.of_nat k
    ∧ 0 < ch (Z.of_nat k) < 256 ∧ isspace (ch (Z.of_nat k)) = false ∧ (ch (Z.of_nat k) = 49 ↔ Z.of_nat k = 0))
    (seq 0 58)) by by_eval.
  rewrite Forall_forall in Hall. specialize (Hall (Z.to_nat d)).
  rewrite Z2Nat.id in Hall by lia. apply Hall. apply elem_of_seq. lia.
Qed.

Lemma ch_map c : 0 <= c < 256 → let d := nth (Z.to_nat (u8 c)) mapBase58 (-1) in
  d ≠ -1 → 0 <= d < 58 ∧ ch d = c.
Proof.
  intros Hc. assert (Hall : Forall (λ k, nth (Z.to_nat (u8 (Z.of_nat k))) mapBase58 (-1) = -1
    ∨ 0 <= nth (Z.to_nat (u8 (Z.of_nat k))) mapBase58 (-1) < 58
      ∧ ch (nth (Z.to_nat (u8 (Z.of_nat k))) mapBase58 (-1)) = Z.of_nat k) (seq 0 256)) by by_eval.
  rewrite Forall_forall in Hall. specialize (Hall (Z.to_nat c)). rewrite Z2Nat.id in Hall by lia.
  intros d Hd. destruct Hall as [?|Hall]; [apply elem_of_seq; lia|done|done].
Qed.

Definition at_space (s : bytes) : Prop := match s with [] => True | c :: _ => isspace c = true end.

Lemma word_spec s ds rest :
  digits 256 s → word s = Some (ds, rest) ↔ s = map ch ds ++ rest ∧ digits 58 ds ∧ at_space rest.
Proof.
  intros Hs. revert ds rest. induction Hs as [|c s Hc Hs IH]; intros ds rest; cbn [word].
  - split; [intros [= <- <-]; split_and!; [done|constructor|done]|]. intros (E & _ & _).
    symmetry in E. apply app_nil in E as [E ->]. by apply map_eq_nil in E as ->.
  - destruct (isspace c) eqn:Esp.
    + split; [intros [= <- <-]; split_and!; [done|constructor|done]|]. intros (E & Hd & Hr).
      destruct ds as [|d ds]; cbn [map app] in E; [by rewrite E|]. injection E as -> ->.
      apply Forall_cons in Hd as [Hd _]. destruct (map_ch d Hd) as (_ & _ & ? & _). congruence.
    + cbv zeta. pose proof (ch_map c Hc) as Hch. cbv zeta in Hch. set (d0 := nth _ _ _) in *.
      destruct (Z.eqb_spec d0 (-1)) as [E0|E0].
      * split; [done|]. intros (E & Hd & Hr). destruct ds as [|d ds]; cbn [map app] in E.
        { subst rest. cbn [at_space] in Hr. congruence. }
        injection E as -> ->. apply Forall_cons in Hd as [Hd _]. destruct (map_ch d Hd) as (? & _). subst d0. lia.
      * destruct (Hch E0) as [Hd0 Ec]. destruct (word s) as [[ds' rest']|]; cbn [mbind option_bind].
        -- split.
           ++ intros [= <- <-]. destruct (proj1 (IH ds' rest') eq_refl) as (-> & Hd' & Hr').
              split_and!; [by rewrite <- Ec|by constructor|done].
           ++ intros (E & Hd & Hr). destruct ds as [|d ds]; cbn [map app] in E; [subst rest; cbn [at_space] in Hr; congruence|].
              injection E as E1 E2. apply Forall_cons in Hd as [Hd Hds].
              assert (Some (ds', rest') = Some (ds, rest)) as [= -> ->] by (by apply IH).
              destruct (map_ch d Hd) as (E3 & _). subst d0. rewrite E1, E3. done.
        -- split; [done|]. intros (E & Hd & Hr). destruct ds as [|d ds]; cbn [map app] in E; [subst rest; cbn [at_space] in Hr; congruence|].
           injection E as E1 E2. apply Forall_cons in Hd as [Hd Hds].
           assert (None = Some (ds, rest)) as ?; [by apply IH|done].
Qed.

(** The loop returns, and with the digits of the word. *)
Lemma decode_chars_spec s buf len n :
  holds 256 buf len n → 0 <= n → digits 256 s →
  (n + 1) * 58 ^ Z.of_nat (length s) <= 256 ^ Z.of_nat (length buf) →
  match word s with
  | None => decode_chars len buf s = Ok None
  | Some (ds, rest) =>
      ∃ buf' len', decode_chars len buf s = Ok (Some (buf', len', rest)) ∧
                   holds 256 buf' len' (n * 58 ^ Z.of_nat (length ds) + be_num 58 ds)
  end.
Proof.
  intros Hh Hn Hs. revert buf len n Hh Hn. induction Hs as [|c s Hc Hs IH]; intros buf len n Hh Hn Hlt;
    cbn [word decode_chars].
  { exists buf, len. split; [done|]. cbn. by rewrite Z.mul_1_r, Z.add_0_r. }
  destruct (isspace c) eqn:Esp.
  { exists buf, len. split; [done|]. cbn. by rewrite Z.mul_1_r, Z.add_0_r. }
  cbv zeta. pose proof (ch_map c Hc) as Hch. cbv zeta in Hch. set (d := nth _ _ _) in *.
  destruct (Z.eqb_spec d (-1)) as [|Hd]; [done|]. destruct (Hch Hd) as [Hd58 _]. cbn [length] in Hlt.
  rewrite Nat2Z.inj_succ, Z.pow_succ_r in Hlt by lia.
  assert (Hp : 1 <= 58 ^ Z.of_nat (length s)) by (pose proof (Z.pow_pos_nonneg 58 (Z.of_nat (length s))); lia).
  destruct (digit_step_spec 58 256 ltac:(lia) ltac:(lia) buf len d n Hh) as (buf1 & len1 & -> & El & Hh1); [lia|nia|].
  cbn [rbind]. specialize (IH buf1 len1 _ Hh1 ltac:(lia)). rewrite El in IH. specialize (IH ltac:(nia)).
  destruct (word s) as [[ds rest]|]; cbn [mbind option_bind]; [|done].
  destruct IH as (buf2 & len2 & -> & Hh2). exists buf2, len2. split; [done|]. rewrite be_num_cons. cbn [length].
  rewrite Nat2Z.inj_succ, Z.pow_succ_r by lia.
  by replace (n * (58 * 58 ^ Z.of_nat (length ds)) + (d * 58 ^ Z.of_nat (length ds) + be_num 58 ds))
    with ((58 * n + d) * 58 ^ Z.of_nat (length ds) + be_num 58 ds) by ring.
Qed.

(** What decoding gives: the leading characters for zero, and the digits of the word,
    when only spaces follow. *)
Lemma DecodeBase58_spec s :
  digits 256 s → Forall (λ c, c ≠ 0) s → Z.of_nat (length s) < 2 ^ 30 →
  let w := skip isspace s in
  match word (skip (Z.eqb 49) w) with
  | None => DecodeBase58 s = Ok None
  | Some (ds, rest) =>
      match skip isspace rest with
      | [] => ∃ v, DecodeBase58 s = Ok (Some (replicate (length (span (Z.eqb 49) w)) 0 ++ v)) ∧
                   canonical 256 v ∧ be_num 256 v = be_num 58 ds
      | _ => DecodeBase58 s = Ok None
      end
  end.
Proof.
  intros Hs Hnul Hlen w. unfold DecodeBase58. rewrite (c_str_id s Hnul). fold w.
  set (t := skip (Z.eqb 49) w). assert (Ht : digits 256 t) by (by apply skip_forall, skip_forall).
  pose proof (skip_length isspace s : (length w <= _)%nat). pose proof (skip_length (Z.eqb 49) w : (length t <= _)%nat).
  set (N := Z.of_nat (length t)) in *. pose proof (Z.div_mod (N * 733) 1000). pose proof (Z.mod_pos_bound (N * 733) 1000).
  rewrite int_vector_ok by lia. cbn [rbind].
  pose proof (decode_chars_spec t (replicate (Z.to_nat (N * 733 / 1000 + 1)) 0) 0 0) as Hd.
  specialize (Hd ltac:(by apply holds_start) ltac:(lia) Ht). rewrite length_replicate, Z2Nat.id in Hd by lia.
  assert (Hsize : 58 ^ N <= 256 ^ (N * 733 / 1000 + 1)).
  { apply (pow_scale 58 256 1000 733); lia. }
  specialize (Hd ltac:(fold N; lia)). destruct (word t) as [[ds rest]|].
  - destruct Hd as (buf & len & -> & Hh). cbn [rbind]. destruct (skip isspace rest); [|done].
    eexists. split; [done|]. rewrite Z.add_0_l in Hh. by apply (significant_spec 58 256 ltac:(lia) ltac:(lia)).
  - by rewrite Hd.
Qed.

Lemma span_eqb k s : span (Z.eqb k) s = replicate (length (span (Z.eqb k) s)) k.
Proof.
  induction s as [|c s IH]; cbn [span]; [done|]. destruct (Z.eqb_spec k c) as [<-|]; [|done].
  cbn [length replicate]. by rewrite <- IH.
Qed.

Lemma span_replicate k n t :
  (∀ c t', t = c :: t' → c ≠ k) →
  span (Z.eqb k) (replicate n k ++ t) = replicate n k ∧ skip (Z.eqb k) (replicate n k ++ t) = t.
Proof.
  intros Ht. assert (Hk : Forall (λ c, (k =? c) = true) (replicate n k)).
  { apply Forall_replicate. apply Z.eqb_refl. }
  rewrite span_app, skip_app by done. destruct t as [|c t]; cbn [span skip]; [by rewrite app_nil_r|].
  destruct (Z.eqb_spec k c) as [->|_]; [by destruct (Ht c t)|]. by rewrite app_nil_r.
Qed.

Lemma canonical_head b l c t : canonical b l → l = c :: t → c ≠ 0.
Proof. intros [_ Hh] -> ->. by apply Hh. Qed.

Lemma canonical_digit b d l : canonical b (d :: l) → 0 <= d < b.
Proof. intros [Hl _]. by apply Forall_cons in Hl as [? _]. Qed.

Definition spaces (s : bytes) : Prop := Forall (λ c, isspace c = true) s.

Lemma skip_spaces s : skip isspace s = [] → spaces s.
Proof.
  intros E. rewrite <- (span_skip isspace s), E, app_nil_r. apply span_all.
Qed.

(** The two shapes determine each other. *)
Lemma encode_shape z v ds :
  canonical 256 v → canonical 58 ds → be_num 58 ds = be_num 256 v →
  Z.of_nat (length (replicate z 0 ++ v)) < 2 ^ 30 →
  EncodeBase58 (replicate z 0 ++ v) = Ok (replicate z 49 ++ map ch ds).
Proof.
  intros Hv Hds E Hlen. destruct (EncodeBase58_spec (replicate z 0 ++ v)) as (ds' & -> & Hds' & E').
  - apply Forall_app. split; [apply Forall_replicate; lia|]. apply Hv.
  - done.
  - destruct (span_replicate 0 z v) as [E1 E2]; [intros c t; by apply (canonical_head 256)|].
    rewrite E1, length_replicate. rewrite E2 in E'. do 3 f_equal.
    apply (canonical_unique 58 ltac:(lia)); [done..|congruence].
Qed.

Lemma decode_shape z v ds sp1 sp2 :
  canonical 256 v → canonical 58 ds → be_num 58 ds = be_num 256 v → spaces sp1 → spaces sp2 →
  let s := sp1 ++ (replicate z 49 ++ map ch ds) ++ sp2 in
  digits 256 s → Forall (λ c, c ≠ 0) s → Z.of_nat (length s) < 2 ^ 30 →
  DecodeBase58 s = Ok (Some (replicate z 0 ++ v)).
Proof.
  intros Hv Hds E Hsp1 Hsp2 s Hs Hnul Hlen. pose proof (DecodeBase58_spec s Hs Hnul Hlen) as Hd. cbv zeta in Hd.
  assert (Hch : ∀ c t, map ch ds ++ sp2 = c :: t → c ≠ 49).
  { intros c t Ec ->. destruct ds as [|d ds]; cbn [map app] in Ec.
    - subst sp2. by apply Forall_cons in Hsp2 as [? _].
    - injection Ec as Ec _. destruct (map_ch d) as (_ & _ & _ & Hz); [by apply (canonical_digit 58 d ds)|]. apply Hz in Ec.
      by apply (canonical_head 58 _ d ds Hds eq_refl). }
  assert (Hw : skip isspace s = replicate z 49 ++ map ch ds ++ sp2 ∨ z = 0%nat ∧ ds = [] ∧ skip isspace s = []).
  { subst s. rewrite skip_app by done. destruct z as [|z]; [|left; by rewrite <- app_assoc]. destruct ds as [|d ds].
    - right. split_and!; [done..|]. by apply skip_all.
    - left. cbn [replicate app map skip]. destruct (map_ch d) as (_ & _ & -> & _); [by apply (canonical_digit 58 d ds)|]. done. }
  assert (word (skip (Z.eqb 49) (skip isspace s)) = Some (ds, sp2) ∧ length (span (Z.eqb 49) (skip isspace s)) = z
    ∨ z = 0%nat ∧ ds = [] ∧ skip isspace s = []) as [[Ew Ez]|(-> & -> & Es)].
  { destruct Hw as [->|?]; [left|by right]. destruct (span_replicate 49 z (map ch ds ++ sp2) Hch) as [-> ->].
    rewrite length_replicate. split; [|done]. apply word_spec.
    - subst s. apply Forall_app in Hs as [_ Hs]. rewrite <- app_assoc in Hs. by apply Forall_app in Hs as [_ ?].
    - split_and!; [done|apply Hds|]. destruct Hsp2; done. }
  - rewrite Ew, Ez, skip_all in Hd by done. destruct Hd as (v' & -> & Hv' & E').
    do 3 f_equal. apply (canonical_unique 256 ltac:(lia)); [done..|congruence].
  - rewrite Es in Hd. cbn [skip word] in Hd. destruct Hd as (v' & -> & Hv' & E'). cbn [span length replicate app].
    do 2 f_equal. apply (canonical_unique 256 ltac:(lia)); [done..|congruence].
Qed.

Lemma decode_inv s v :
  digits 256 s → Forall (λ c, c ≠ 0) s → Z.of_nat (length s) < 2 ^ 30 → DecodeBase58 s = Ok (Some v) →
  ∃ z v' ds sp1 sp2, v = replicate z 0 ++ v' ∧ s = sp1 ++ (replicate z 49 ++ map ch ds) ++ sp2 ∧
    canonical 256 v' ∧ canonical 58 ds ∧ be_num 58 ds = be_num 256 v' ∧ spaces sp1 ∧ spaces sp2.
Proof.
  intros Hs Hnul Hlen Hok. pose proof (DecodeBase58_spec s Hs Hnul Hlen) as Hd. cbv zeta in Hd.
  set (w := skip isspace s) in *. destruct (word (skip (Z.eqb 49) w)) as [[ds rest]|] eqn:Ew; [|congruence].
  destruct (skip isspace rest) eqn:Er; [|congruence]. destruct Hd as (v' & Hv' & Hc & E).
  rewrite Hok in Hv'. injection Hv' as ->. apply word_spec in Ew as (Et & Hds & Hr).
  2:{ by apply skip_forall, skip_forall. }
  eexists _, v', ds, (span isspace s), rest. split_and!; [done| |done| |done|apply span_all|by apply skip_spaces].
  - rewrite <- (span_skip isspace s) at 1. f_equal. fold w. rewrite <- app_assoc, <- Et, <- span_eqb. by rewrite span_skip.
  - split; [done|]. destruct ds as [|d ds]; [done|]. cbn. intros [= ->].
    apply skip_head in Et as Hne. vm_compute in Hne. done.
Qed.

(** For inputs within the range of [int] no assertion fails, and decoding yields a
    byte string exactly from its encoding, with any spaces around it. *)
Lemma DecodeBase58_iff (s v : bytes) :
  bytes_ok s → bytes_ok v → Forall (λ c, c ≠ 0) s →
  Z.of_nat (length s) < 2 ^ 30 → Z.of_nat (length v) < 2 ^ 30 →
  (∃ r, DecodeBase58 s = Ok r) ∧ (∃ e, EncodeBase58 v = Ok e) ∧
  (DecodeBase58 s = Ok (Some v) ↔
   ∃ e sp1 sp2, EncodeBase58 v = Ok e ∧ spaces sp1 ∧ spaces sp2 ∧ s = sp1 ++ e ++ sp2).
Proof.
  intros Hs Hv Hnul Hls Hlv. destruct (EncodeBase58_spec v Hv Hlv) as (ds & He & Hds & E). split_and!.
  - pose proof (DecodeBase58_spec s Hs Hnul Hls) as Hd. cbv zeta in Hd.
    destruct (word _) as [[ds' rest]|]; [|by eexists]. destruct (skip isspace rest); [|by eexists].
    destruct Hd as (v' & -> & _). by eexists.
  - by eexists.
  - split.
    + intros (z & v' & ds' & sp1 & sp2 & -> & -> & Hv' & Hds' & E' & Hsp1 & Hsp2)%decode_inv; [|done..].
      exists (replicate z 49 ++ map ch ds'), sp1, sp2. split_and!; [by apply encode_shape|done..].
    + intros (e & sp1 & sp2 & He' & Hsp1 & Hsp2 & ->). rewrite He in He'. injection He' as <-.
      replace (Some v) with (Some (replicate (length (span (Z.eqb 0) v)) 0 ++ skip (Z.eqb 0) v))
        by (by rewrite <- span_eqb, span_skip).
      apply (decode_shape _ _ ds); [|done..]. by apply skip_canonical.
Qed.

(** The characters of an encoding, and how many there are. *)
Lemma chars_ok z ds : digits 58 ds → Forall (λ c, 0 < c < 256) (replicate z 49 ++ map ch ds).
Proof.
  intros Hd. apply Forall_app. split; [apply Forall_replicate; lia|]. apply Forall_map. eapply Forall_impl; [exact Hd|].
  intros d H. by destruct (map_ch d H) as (_ & ? & _).
Qed.

Lemma encoded_length ds w :
  canonical 58 ds → digits 256 w → be_num 58 ds = be_num 256 w → (length ds <= 2 * length w + 1)%nat.
Proof.
  intros Hds Hw E. destruct (decide (ds = [])) as [->|Hne]; [cbn; lia|].
  pose proof (canonical_length 58 ltac:(lia) ds Hds Hne) as [Hlo _]. pose proof (be_num_nonneg 256 w ltac:(lia) Hw) as [_ Hhi].
  assert (256 ^ Z.of_nat (length w) <= 58 ^ (2 * Z.of_nat (length w))).
  { rewrite Z.pow_mul_r by lia. apply Z.pow_le_mono_l. lia. }
  apply Nat2Z.inj_le. assert (Z.of_nat (length ds) - 1 < 2 * Z.of_nat (length w)); [|lia].
  apply (Z.pow_lt_mono_r_iff 58); lia.
Qed.

(** What is encoded with a checksum is read back. *)
Lemma DecodeBase58Check_Encode Hash v :
  (∀ x, bytes_ok (Hash x) ∧ length (Hash x) = 32%nat) → bytes_ok v → Z.of_nat (length v) < 2 ^ 20 →
  ∃ z ds, EncodeBase58Check Hash v = Ok (replicate z 49 ++ map ch ds) ∧
    z = length (span (Z.eqb 0) (v ++ take 4 (Hash v))) ∧ canonical 58 ds ∧
    be_num 58 ds = be_num 256 (skip (Z.eqb 0) (v ++ take 4 (Hash v))) ∧
    DecodeBase58Check Hash (replicate z 49 ++ map ch ds) = Ok (Some v).
Proof.
  intros Hh Hv Hlen. destruct (Hh v) as [Hok Hl32]. unfold EncodeBase58Check. set (w := v ++ take 4 (Hash v)).
  assert (Hw : bytes_ok w) by (apply Forall_app; split; [done|by apply Forall_take]).
  assert (Hl4 : length (take 4 (Hash v)) = 4%nat) by (rewrite length_take; lia).
  destruct (EncodeBase58_spec w) as (ds & E & Hc & Hn); [done|subst w; rewrite length_app; lia|].
  exists (length (span (Z.eqb 0) w)), ds. split_and!; [done..|]. unfold DecodeBase58Check.
  assert (Ed : DecodeBase58 (replicate (length (span (Z.eqb 0) w)) 49 ++ map ch ds) = Ok (Some w)).
  { pose proof (decode_shape (length (span (Z.eqb 0) w)) (skip (Z.eqb 0) w) ds [] []) as Hd. cbn zeta in Hd.
    rewrite app_nil_l, app_nil_r, <- span_eqb, span_skip in Hd.
    pose proof (chars_ok (length (span (Z.eqb 0) w)) ds (proj1 Hc)) as Hch.
    apply Hd; [by apply skip_canonical|done|done|constructor|constructor|..].
    1, 2: eapply Forall_impl; [exact Hch|]; cbn; lia.
    pose proof (skip_length (Z.eqb 0) w) as Hs. pose proof (f_equal length (span_skip (Z.eqb 0) w)) as Hsp.
    rewrite length_app in Hsp. assert (Hlw : (length w = length v + 4)%nat) by (subst w; rewrite length_app; lia).
    pose proof (encoded_length ds (skip (Z.eqb 0) w) Hc ltac:(by apply skip_forall) Hn).
    rewrite length_app, length_replicate, length_map. lia. }
  rewrite Ed. cbn [rbind]. subst w. rewrite length_app, Hl4.
  destruct (Nat.ltb_spec (length v + 4) 4); [lia|]. rewrite Nat.add_sub, take_app_length, drop_app_length.
  by rewrite bool_decide_true.
Qed.

(** ** Properties *)

(** Base58 with a checksum is exact.  For inputs within the range of [int] the
    buffers suffice: no assertion fails in encoding or in decoding, whatever the string;
    and [DecodeBase58Check] yields a byte string exactly from what [EncodeBase58Check]
    gives for it, with any spaces around it.  So decoding inverts encoding, no byte
    string has two encodings, and a decoded string carried the right checksum. *)
Theorem DecodeBase58Check_exact (Hash : bytes → bytes) (s v : bytes) :
  (∀ x, bytes_ok (Hash x) ∧ length (Hash x) = 32%nat) →
  bytes_ok s → bytes_ok v → Forall (λ c, c ≠ 0) s →
  Z.of_nat (length s) < 2 ^ 30 → Z.of_nat (length v) < 2 ^ 29 →
  (∃ r, DecodeBase58Check Hash s = Ok r) ∧ (∃ e, EncodeBase58Check Hash v = Ok e) ∧
  (DecodeBase58Check Hash s = Ok (Some v) ↔
   ∃ e sp1 sp2, EncodeBase58Check Hash v = Ok e ∧ spaces sp1 ∧ spaces sp2 ∧ s = sp1 ++ e ++ sp2).
Proof.
  intros Hh Hs Hv Hnul Hls Hlv. destruct (Hh v) as [Hok Hl32].
  assert (Hl4 : length (take 4 (Hash v)) = 4%nat) by (rewrite length_take; lia).
  destruct (DecodeBase58_iff s (v ++ take 4 (Hash v))) as ([r Hr] & He & Hiff); [done| |done|done| |].
  { apply Forall_app. split; [done|by apply Forall_take]. }
  { rewrite length_app. lia. }
  unfold DecodeBase58Check, EncodeBase58Check. rewrite Hr in *. cbn [rbind]. split_and!; [by eexists|done|].
  rewrite <- Hiff. destruct r as [vch|]; [|done]. destruct (Nat.ltb_spec (length vch) 4) as [Hlt|Hge].
  - split; [done|]. intros [= ->]. rewrite length_app in Hlt. lia.
  - split.
    + case_bool_decide as E; [|done]. intros [= <-]. by rewrite E, take_drop.
    + intros [= ->]. rewrite length_app, Hl4, Nat.add_sub, take_app_length, drop_app_length.
      by rewrite bool_decide_true.
Qed.

(** An address between spaces. *)
Definition toy_checksum (x : bytes) : bytes := take 32 (map (λ c, u8 (c * 7 + 1)) x ++ replicate 32 5).
Definition toy_payload : bytes := [0; 0; 9; 200; 31].
Definition toy_address : bytes := codes " 11NVynwtm4c".

Lemma toy_checksum_ok x : bytes_ok (toy_checksum x) ∧ length (toy_checksum x) = 32%nat.
Proof.
  split.
  - apply Forall_take, Forall_app. split; [|by_eval]. apply Forall_map, Forall_true. intros c. apply u8_range.
  - unfold toy_checksum. rewrite length_take, length_app, length_replicate. lia.
Qed.

Lemma DecodeBase58Check_exact_witness :
  EncodeBase58Check toy_checksum toy_payload = Ok (codes "11NVynwtm4c") ∧
  DecodeBase58Check toy_checksum toy_address = Ok (Some toy_payload).
Proof.
  split; [vm_compute; reflexivity|].
  apply (DecodeBase58Check_exact toy_checksum toy_address toy_payload).
  - apply toy_checksum_ok.
  - by_eval.
  - by_eval.
  - by_eval.
  - vm_compute. reflexivity.
  - vm_compute. reflexivity.
  - exists (codes "11NVynwtm4c"), [32], []. split; [vm_compute; reflexivity|].
    split; [by_eval|]. split; [by_eval|]. vm_compute. reflexivity.
Defined.
