(* ===== verification/Bech32.v ===== *)
(** Bech32, after [src/src/bech32.cpp], and the regrouping of bits it is used with,
    [ConvertBits] of [src/src/utilstrencodings.h]. *)
From stdpp Require Import list strings.
From S2P Require Import Prelude Serialize Text.
Open Scope string_scope.
Open Scope list_scope.
Open Scope Z_scope.

Definition CHARSET : bytes := codes "qpzry9x8gf2tvdw0s3jn54khce6mua7l".

Definition CHARSET_REV : list Z :=
  [-1; -1; -1; -1; -1; -1; -1; -1; -1; -1; -1; -1; -1; -1; -1; -1;
   -1; -1; -1; -1; -1; -1; -1; -1; -1; -1; -1; -1; -1; -1; -1; -1;
   -1; -1; -1; -1; -1; -1; -1; -1; -1; -1; -1; -1; -1; -1; -1; -1;
   15; -1; 10; 17; 21; 20; 26; 30;  7;  5; -1; -1; -1; -1; -1; -1;
   -1; 29; -1; 24; 13; 25;  9;  8; 23; -1; 18; 22; 31; 27; 19; -1;
    1;  0;  3; 16; 11; 28; 12; 14;  6;  4;  2; -1; -1; -1; -1; -1;
   -1; 29; -1; 24; 13; 25;  9;  8; 23; -1; 18; 22; 31; 27; 19; -1;
    1;  0;  3; 16; 11; 28; 12; 14;  6;  4;  2; -1; -1; -1; -1; -1].

(** ** The checksum *)

(** [if (c0 & bit) c ^= k;]. *)
Definition add_if (c0 bit k c : Z) : Z := if Z.land c0 bit =? 0 then c else Z.lxor c k.

(** The body of the loop of [PolyMod]. *)
Definition polymod_step (c v_i : Z) : Z :=
  let c0 := u8 (Z.shiftr c 25) in
  let c := Z.lxor (u32 (Z.shiftl (Z.land c 0x1ffffff) 5)) v_i in
  let c := add_if c0 1 0x3b6a57b2 c in
  let c := add_if c0 2 0x26508e6d c in
  let c := add_if c0 4 0x1ea119fa c in
  let c := add_if c0 8 0x3d4233dd c in
  add_if c0 16 0x2a1462b3 c.

Definition PolyMod (v : bytes) : Z := foldl polymod_step 1 v.

Definition LowerCase (c : Z) : Z := if (65 <=? c) && (c <=? 90) then c - 65 + 97 else c.

Definition ExpandHRP (hrp : bytes) : bytes :=
  map (λ c, Z.shiftr c 5) hrp ++ 0 :: map (λ c, Z.land c 0x1f) hrp.

Definition VerifyChecksum (hrp values : bytes) : bool := PolyMod (ExpandHRP hrp ++ values) =? 1.

Definition CreateChecksum (hrp values : bytes) : bytes :=
  let mod_ := Z.lxor (PolyMod (ExpandHRP hrp ++ values ++ replicate 6 0)) 1 in
  map (λ i, Z.land (Z.shiftr mod_ (5 * (5 - Z.of_nat i))) 31) (seq 0 6).

(** ** Strings *)

Definition charset (c : Z) : Z := nth (Z.to_nat c) CHARSET 0.

Definition Encode (hrp values : bytes) : bytes :=
  hrp ++ 49 :: map charset (values ++ CreateChecksum hrp values).

(** The loop over the characters: [lower] and [upper], or the early return. *)
Fixpoint scan_case (lower upper : bool) (str : bytes) : option (bool * bool) :=
  match str with
  | [] => Some (lower, upper)
  | c :: str' =>
      if (97 <=? c) && (c <=? 122) then scan_case true upper str'
      else if (65 <=? c) && (c <=? 90) then scan_case lower true str'
      else if (c <? 33) || (126 <? c) then None
      else scan_case lower upper str'
  end.

(** [str.rfind('1')]. *)
Fixpoint rfind (x : Z) (str : bytes) : option nat :=
  match str with
  | [] => None
  | c :: str' =>
      match rfind x str' with
      | Some p => Some (S p)
      | None => if c =? x then Some O else None
      end
  end.

Fixpoint decode_values (str : bytes) : option bytes :=
  match str with
  | [] => Some []
  | c :: str' =>
      let rev := nth (Z.to_nat c) CHARSET_REV (-1) in
      if rev =? -1 then None else v ← decode_values str'; Some (rev :: v)
  end.

(** The empty pair is failure. *)
Definition Decode (str : bytes) : bytes * bytes :=
  match scan_case false false str, rfind 49 str with
  | Some (lower, upper), Some pos =>
      if lower && upper then ([], [])
      else if (140 <? length str)%nat || (pos =? 0)%nat || (length str <? pos + 7)%nat || (83 <? pos)%nat
      then ([], [])
      else
        match decode_values (drop (pos + 1) str) with
        | None => ([], [])
        | Some values =>
            let hrp := map LowerCase (take pos str) in
            if VerifyChecksum hrp values then (hrp, take (length values - 6) values) else ([], [])
        end
  | _, _ => ([], [])
  end.

(** ** Regrouping bits *)

Section ConvertBits.
Context (frombits tobits : Z) (pad : bool).
Let maxv : Z := Z.shiftl 1 tobits - 1.
Let max_acc : Z := Z.shiftl 1 (frombits + tobits - 1) - 1.

(** [while (bits >= tobits)]: what it puts out, and [bits] after it. *)
Fixpoint emit (fuel : nat) (acc bits : Z) : list Z * Z :=
  if tobits <=? bits then
    match fuel with
    | O => ([], bits)
    | S f =>
        let bits := bits - tobits in
        let '(out, b) := emit f acc bits in
        (Z.land (Z.shiftr acc bits) maxv :: out, b)
    end
  else ([], bits).

Fixpoint convert_loop (acc bits : Z) (l : list Z) : list Z * Z * Z :=
  match l with
  | [] => ([], acc, bits)
  | x :: l' =>
      let acc := Z.land (Z.lor (u64 (Z.shiftl acc frombits)) x) max_acc in
      let bits := bits + frombits in
      let '(out, bits) := emit (Z.to_nat bits) acc bits in
      let '(out', acc, bits) := convert_loop acc bits l' in
      (out ++ out', acc, bits)
  end.

(** What was put out, and the return value. *)
Definition ConvertBits (l : list Z) : list Z * bool :=
  let '(out, acc, bits) := convert_loop 0 0 l in
  let last := Z.land (u64 (Z.shiftl acc (tobits - bits))) maxv in
  if pad then ((if bits =? 0 then out else out ++ [last]), true)
  else (out, negb ((frombits <=? bits) || negb (last =? 0))).

End ConvertBits.

(** ** The checksum is linear *)

(** The multiples of the generator, by the coefficient that leaves the window. *)
Definition kx (c0 : Z) : Z :=
  add_if c0 16 0x2a1462b3 (add_if c0 8 0x3d4233dd (add_if c0 4 0x1ea119fa
    (add_if c0 2 0x26508e6d (add_if c0 1 0x3b6a57b2 0)))).
Definition times_x (c : Z) : Z := Z.lxor (Z.shiftl (Z.land c (2 ^ 25 - 1)) 5) (kx (Z.shiftr c 25)).
Definition lin (c : Z) (vs : list Z) : Z := foldl (λ c v, Z.lxor (times_x c) v) c vs.

Definition is_u30 (c : Z) : Prop := 0 <= c < 2 ^ 30.

Lemma lxor_range n a b : 0 <= n → 0 <= a < 2 ^ n → 0 <= b < 2 ^ n → 0 <= Z.lxor a b < 2 ^ n.
Proof.
  intros Hn Ha Hb. assert (Hnn : 0 <= Z.lxor a b) by (apply Z.lxor_nonneg; lia). split; [done|].
  destruct (Z.eq_dec (Z.lxor a b) 0) as [->|Hne]; [lia|].
  apply Z.log2_lt_pow2; [lia|]. pose proof (Z.log2_lxor a b ltac:(lia) ltac:(lia)) as Hl.
  assert (∀ x, 0 <= x < 2 ^ n → x = 0 ∨ Z.log2 x < n) as Hlog.
  { intros x Hx. destruct (Z.eq_dec x 0); [by left|right]. apply Z.log2_lt_pow2; lia. }
  destruct (Hlog a Ha) as [->|?], (Hlog b Hb) as [->|?]; cbn [Z.log2] in *; try lia.
  all: destruct (Z.eq_dec n 0) as [->|]; [change (2 ^ 0) with 1 in *|]; try lia.
  all: rewrite ?Z.lxor_0_l, ?Z.lxor_0_r in *; cbn in *; try lia.
Qed.

Lemma add_if_lxor c0 bit k c : add_if c0 bit k c = Z.lxor c (add_if c0 bit k 0).
Proof. unfold add_if. destruct (_ =? 0); [by rewrite Z.lxor_0_r|by rewrite Z.lxor_0_l]. Qed.

Lemma polymod_step_times c v : is_u30 c → polymod_step c v = Z.lxor (times_x c) v.
Proof.
  intros Hc. unfold polymod_step, times_x.
  assert (Hs : 0 <= Z.shiftr c 25 < 32).
  { rewrite Z.shiftr_div_pow2 by lia. split; [apply Z.div_pos; unfold is_u30 in *; lia|].
    apply Z.div_lt_upper_bound; unfold is_u30 in *; lia. }
  replace (u8 (Z.shiftr c 25)) with (Z.shiftr c 25) by (unfold u8; rewrite Z.mod_small; lia).
  change 0x1ffffff with (2 ^ 25 - 1). set (x := Z.shiftl _ 5).
  replace (u32 x) with x.
  2:{ unfold u32. rewrite Z.mod_small; [done|]. subst x. rewrite land_ones_mod, Z.shiftl_mul_pow2 by lia.
      pose proof (Z.mod_pos_bound c (2 ^ 25)). lia. }
  unfold kx. set (c0 := Z.shiftr c 25). clearbody c0 x.
  repeat first [rewrite (add_if_lxor c0 _ _ (Z.lxor _ _))|rewrite (add_if_lxor c0 _ _ (add_if _ _ _ _))].
  apply Z.bits_inj'. intros n _. rewrite !Z.lxor_spec. repeat (destruct (Z.testbit _ n)); done.
Qed.

Lemma kx_range c0 : 0 <= c0 < 32 → is_u30 (kx c0) ∧ (Z.land (kx c0) 31 = 0 → c0 = 0).
Proof.
  intros Hc. assert (Hall : Forall (λ k, 0 <= kx (Z.of_nat k) < 2 ^ 30 ∧
    (Z.land (kx (Z.of_nat k)) 31 ≠ 0 ∨ Z.of_nat k = 0)) (seq 0 32)) by by_eval.
  rewrite Forall_forall in Hall. destruct (Hall (Z.to_nat c0)) as [H1 H2]; [apply elem_of_seq; lia|].
  rewrite Z2Nat.id in * by lia. split; [done|]. by destruct H2.
Qed.

Lemma kx_linear a b : 0 <= a < 32 → 0 <= b < 32 → kx (Z.lxor a b) = Z.lxor (kx a) (kx b).
Proof.
  intros Ha Hb. assert (Hall : Forall (λ i, Forall (λ j,
    kx (Z.lxor (Z.of_nat i) (Z.of_nat j)) = Z.lxor (kx (Z.of_nat i)) (kx (Z.of_nat j))) (seq 0 32)) (seq 0 32))
    by by_eval.
  rewrite Forall_forall in Hall. specialize (Hall (Z.to_nat a)).
  specialize (Hall ltac:(apply elem_of_seq; lia)). rewrite Forall_forall in Hall.
  specialize (Hall (Z.to_nat b) ltac:(apply elem_of_seq; lia)). by rewrite !Z2Nat.id in Hall by lia.
Qed.

Lemma shiftr_25 c : is_u30 c → 0 <= Z.shiftr c 25 < 32.
Proof.
  unfold is_u30. intros Hc. rewrite Z.shiftr_div_pow2 by lia.
  split; [apply Z.div_pos; lia|apply Z.div_lt_upper_bound; lia].
Qed.

Lemma times_x_low c : 0 <= Z.shiftl (Z.land c (2 ^ 25 - 1)) 5 < 2 ^ 30.
Proof.
  rewrite land_ones_mod, Z.shiftl_mul_pow2 by lia. pose proof (Z.mod_pos_bound c (2 ^ 25)). lia.
Qed.

Lemma times_x_u30 c : is_u30 c → is_u30 (times_x c).
Proof.
  intros Hc. apply lxor_range; [lia|apply times_x_low|]. by apply kx_range, shiftr_25.
Qed.

Lemma times_x_linear a b : is_u30 a → is_u30 b → times_x (Z.lxor a b) = Z.lxor (times_x a) (times_x b).
Proof.
  intros Ha Hb. unfold times_x. rewrite Z.shiftr_lxor, kx_linear by by apply shiftr_25.
  assert (Z.land (Z.lxor a b) (2 ^ 25 - 1) = Z.lxor (Z.land a (2 ^ 25 - 1)) (Z.land b (2 ^ 25 - 1))) as ->.
  { apply Z.bits_inj'. intros n _. rewrite !Z.lxor_spec, !Z.land_spec, Z.lxor_spec.
    repeat (destruct (Z.testbit _ n)); done. }
  rewrite Z.shiftl_lxor. apply Z.bits_inj'. intros n _. rewrite !Z.lxor_spec.
  repeat (destruct (Z.testbit _ n)); done.
Qed.

(** Multiplication by [x] loses nothing. *)
Lemma times_x_zero c : is_u30 c → times_x c = 0 → c = 0.
Proof.
  intros Hc H0. pose proof (shiftr_25 c Hc) as Hs. destruct (kx_range _ Hs) as [Hk Hz].
  unfold times_x in H0. apply Z.lxor_eq in H0.
  assert (Hs0 : Z.shiftr c 25 = 0).
  { apply Hz. rewrite <- H0. change 31 with (2 ^ 5 - 1). rewrite land_ones_mod, Z.shiftl_mul_pow2 by lia.
    by rewrite Z.mod_mul. }
  rewrite Hs0 in H0. change (kx 0) with 0 in H0. rewrite land_ones_mod, Z.shiftl_mul_pow2 in H0 by lia.
  rewrite Z.shiftr_div_pow2 in Hs0 by lia. pose proof (Z.div_mod c (2 ^ 25)). lia.
Qed.

(** Five more bits. *)
Lemma times_x_shift c d : 0 <= c < 2 ^ 25 → 0 <= d < 32 → Z.lxor (times_x c) d = c * 32 + d.
Proof.
  intros Hc Hd. unfold times_x. replace (Z.shiftr c 25) with 0.
  2:{ rewrite Z.shiftr_div_pow2 by lia. by rewrite Z.div_small. }
  change (kx 0) with 0. rewrite Z.lxor_0_r, land_ones_mod, Z.mod_small, Z.shiftl_mul_pow2 by lia.
  rewrite <- Z.add_nocarry_lxor; [lia|]. apply Z.bits_inj'. intros n Hn. rewrite Z.land_spec, Z.bits_0.
  destruct (Z.lt_ge_cases n 5) as [Hlt|Hge]; [by rewrite Z.mul_pow2_bits_low|].
  rewrite <- (Z.mod_small d (2 ^ 5)) by done. rewrite (Z.mod_pow2_bits_high d 5 n) by lia. apply andb_false_r.
Qed.

Definition fives (l : list Z) : Prop := digits 32 l.

Lemma u30_small d : 0 <= d < 32 → is_u30 d.
Proof. unfold is_u30. lia. Qed.

Lemma lin_u30 c vs : is_u30 c → fives vs → is_u30 (lin c vs).
Proof.
  intros Hc Hv. revert c Hc. induction Hv as [|v vs Hv _ IH]; intros c Hc; [done|]. cbn [lin foldl].
  apply IH. apply lxor_range; [lia|by apply times_x_u30|by apply u30_small].
Qed.

Lemma lin_app c u v : lin c (u ++ v) = lin (lin c u) v.
Proof. apply foldl_app. Qed.

Lemma PolyMod_lin vs : fives vs → PolyMod vs = lin 1 vs.
Proof.
  unfold PolyMod, lin. assert (is_u30 1) as H1 by by_eval. revert H1. generalize 1. intros c Hc Hv.
  revert c Hc. induction Hv as [|v vs Hv _ IH]; intros c Hc; [done|]. cbn [foldl].
  rewrite polymod_step_times by done. apply IH. apply lxor_range; [lia|by apply times_x_u30|by apply u30_small].
Qed.

Lemma lin_linear a b u v :
  is_u30 a → is_u30 b → fives u → fives v → length u = length v →
  lin (Z.lxor a b) (zip_with Z.lxor u v) = Z.lxor (lin a u) (lin b v).
Proof.
  intros Ha Hb Hu. revert a b v Ha Hb. induction Hu as [|x u Hx _ IH]; intros a b [|y v] Ha Hb Hv Hl; [done..|].
  apply Forall_cons in Hv as [Hy Hv]. cbn [zip_with lin foldl]. fold (lin (Z.lxor (times_x a) x) u)
    (lin (Z.lxor (times_x b) y) v).
  rewrite <- IH; [|by apply lxor_range; [lia|apply times_x_u30|apply u30_small]..|done|by injection Hl].
  unfold lin. f_equal. rewrite times_x_linear by done. apply Z.bits_inj'. intros n _. rewrite !Z.lxor_spec.
  repeat (destruct (Z.testbit _ n)); done.
Qed.

Lemma lin_small w : fives w → (length w <= 6)%nat → lin 0 w = be_num 32 w.
Proof.
  induction w as [|d w IH] using rev_ind; intros Hw Hl; [done|]. rewrite length_app in Hl. cbn [length] in Hl.
  apply Forall_app in Hw as [Hw [Hd _]%Forall_cons]. rewrite lin_app, IH, be_num_snoc by (done || lia). cbn [lin foldl].
  pose proof (be_num_nonneg 32 w ltac:(lia) Hw) as Hb.
  assert (32 ^ Z.of_nat (length w) <= 32 ^ 5) by (apply Z.pow_le_mono_r; lia).
  rewrite times_x_shift; lia.
Qed.

Lemma lin_zeros_zero c n : is_u30 c → lin c (replicate n 0) = 0 → c = 0.
Proof.
  revert c. induction n as [|n IH]; intros c Hc; [done|]. cbn [replicate lin foldl].
  fold (lin (Z.lxor (times_x c) 0) (replicate n 0)). rewrite Z.lxor_0_r. intros H0%IH; [|by apply times_x_u30].
  by apply times_x_zero.
Qed.

Lemma lin_0_zeros n : lin 0 (replicate n 0) = 0.
Proof. induction n as [|n IH]; [done|]. cbn [replicate lin foldl]. exact IH. Qed.

Lemma fives_zeros n : fives (replicate n 0).
Proof. apply Forall_replicate. lia. Qed.

Lemma ExpandHRP_fives hrp : bytes_ok hrp → fives (ExpandHRP hrp).
Proof.
  intros Hh. unfold fives, digits, ExpandHRP. apply Forall_app. split; [|constructor; [lia|]]; apply Forall_map;
    (eapply Forall_impl; [exact Hh|]); intros c Hc; unfold is_u8 in Hc; cbn.
  - rewrite Z.shiftr_div_pow2 by lia. split; [apply Z.div_pos; lia|apply Z.div_lt_upper_bound; lia].
  - change 31 with (2 ^ 5 - 1). rewrite land_ones_mod by lia. apply Z.mod_pos_bound. lia.
Qed.

(** The six groups of five bits of a number. *)
Lemma groups_num m : is_u30 m →
  let cs := map (λ i, Z.land (Z.shiftr m (5 * (5 - Z.of_nat i))) 31) (seq 0 6) in
  fives cs ∧ length cs = 6%nat ∧ be_num 32 cs = m.
Proof.
  intros Hm cs. unfold is_u30 in Hm.
  assert (E : cs = map (λ i, m / 2 ^ (5 * (5 - Z.of_nat i)) mod 32) (seq 0 6)).
  { subst cs. apply map_ext_in. intros i Hi%in_seq. change 31 with (2 ^ 5 - 1).
    by rewrite land_ones_mod, Z.shiftr_div_pow2 by lia. }
  rewrite E. split_and!; [|done|].
  - apply Forall_map, Forall_true. intros i. apply Z.mod_pos_bound. lia.
  - unfold be_num. cbn -[Z.div Z.modulo Z.pow Z.mul Z.add].
    repeat match goal with |- context [5 * ?x] => let y := eval vm_compute in (5 * x) in change (5 * x) with y end.
    change (2 ^ 0) with 1. rewrite Z.div_1_r. Z.to_euclidean_division_equations; lia.
Qed.

Lemma zip_zeros w : zip_with Z.lxor (replicate (length w) 0) w = w.
Proof. induction w as [|d w IH]; [done|]. cbn [length replicate zip_with]. by rewrite IH, Z.lxor_0_l. Qed.

Lemma lin_split c w : is_u30 c → fives w → lin c w = Z.lxor (lin c (replicate (length w) 0)) (lin 0 w).
Proof.
  intros Hc Hw. rewrite <- lin_linear by (done || by_eval || apply fives_zeros || by rewrite length_replicate).
  by rewrite Z.lxor_0_r, zip_zeros.
Qed.

Lemma CreateChecksum_spec hrp values :
  bytes_ok hrp → fives values →
  fives (CreateChecksum hrp values) ∧ length (CreateChecksum hrp values) = 6%nat ∧
  VerifyChecksum hrp (values ++ CreateChecksum hrp values) = true.
Proof.
  intros Hh Hv. unfold CreateChecksum. pose proof (ExpandHRP_fives hrp Hh) as He.
  assert (Hev : fives (ExpandHRP hrp ++ values)) by by apply Forall_app.
  assert (H1 : is_u30 1) by by_eval. rewrite app_assoc, PolyMod_lin by (apply Forall_app; split; [done|apply fives_zeros]).
  set (P := lin 1 ((ExpandHRP hrp ++ values) ++ replicate 6 0)).
  assert (HP : is_u30 P) by (apply lin_u30; [done|]; apply Forall_app; split; [done|apply fives_zeros]).
  destruct (groups_num (Z.lxor P 1)) as (Hcs & Hlen & Hnum); [by apply lxor_range; [lia| |]|].
  set (cs := map _ (seq 0 6)) in *. split_and!; [done|done|].
  unfold VerifyChecksum. rewrite app_assoc, PolyMod_lin by by apply Forall_app. apply Z.eqb_eq.
  rewrite lin_app, lin_split by (done || by apply lin_u30). rewrite Hlen, <- lin_app. fold P.
  rewrite lin_small, Hnum by (done || lia). by rewrite <- Z.lxor_assoc, Z.lxor_nilpotent.
Qed.

(** Two words with the same checksum that differ only in a window of six are equal. *)
Lemma VerifyChecksum_window hrp p w w' q :
  bytes_ok hrp → fives (p ++ w ++ q) → fives (p ++ w' ++ q) → length w = length w' → (length w <= 6)%nat →
  VerifyChecksum hrp (p ++ w ++ q) = true → VerifyChecksum hrp (p ++ w' ++ q) = true → w = w'.
Proof.
  intros Hh Hu Hu' Hl Hl6. pose proof (ExpandHRP_fives hrp Hh) as He. unfold VerifyChecksum.
  rewrite !PolyMod_lin by by apply Forall_app. intros E1%Z.eqb_eq E2%Z.eqb_eq.
  apply Forall_app in Hu as [Hp [Hw Hq]%Forall_app], Hu' as [_ [Hw' _]%Forall_app].
  rewrite !lin_app in E1. rewrite !lin_app in E2. set (c := lin (lin 1 _) p) in *.
  assert (Hc : is_u30 c) by (apply lin_u30; [apply lin_u30; [by_eval|done]|done]).
  pose proof (lin_linear (lin c w) (lin c w') q q) as E. rewrite E1, E2, Z.lxor_nilpotent in E.
  assert (Eq : zip_with Z.lxor q q = replicate (length q) 0).
  { clear. induction q as [|d q IH]; [done|]. cbn [zip_with length replicate]. by rewrite Z.lxor_nilpotent, IH. }
  rewrite Eq in E. apply lin_zeros_zero in E; [|by apply lxor_range; [lia|apply lin_u30..]|by apply lin_u30..|done|done|done].
  rewrite (lin_split c w), (lin_split c w'), <- Hl, !(lin_small w), (lin_small w') in E by (done || lia).
  assert (Ew : be_num 32 w = be_num 32 w').
  { apply Z.lxor_eq. rewrite <- E. apply Z.bits_inj'. intros n _. rewrite !Z.lxor_spec.
    repeat (destruct (Z.testbit _ n)); done. }
  rewrite <- (rev_involutive w), <- (rev_involutive w'). f_equal.
  apply (le_num_inj 32 ltac:(lia)); [by apply Forall_rev..|by rewrite !length_rev|done].
Qed.

(** ** Strings *)

Lemma charset_spec d : 0 <= d < 32 →
  nth (Z.to_nat (charset d)) CHARSET_REV (-1) = d ∧ 33 <= charset d <= 126 ∧ charset d ≠ 49 ∧
  ¬ (65 <= charset d <= 90).
Proof.
  intros Hd. assert (Hall : Forall (λ k, nth (Z.to_nat (charset (Z.of_nat k))) CHARSET_REV (-1) = Z.of_nat k ∧
    33 <= charset (Z.of_nat k) <= 126 ∧ charset (Z.of_nat k) ≠ 49 ∧ ¬ (65 <= charset (Z.of_nat k) <= 90))
    (seq 0 32)) by by_eval.
  rewrite Forall_forall in Hall. specialize (Hall (Z.to_nat d)). rewrite Z2Nat.id in Hall by lia.
  apply Hall. apply elem_of_seq. lia.
Qed.

Lemma CHARSET_REV_range c : nth c CHARSET_REV (-1) = -1 ∨ 0 <= nth c CHARSET_REV (-1) < 32.
Proof.
  destruct (Nat.lt_ge_cases c 128) as [Hlt|Hge]; [|left; by apply nth_overflow].
  assert (Hall : Forall (λ k, nth k CHARSET_REV (-1) = -1 ∨ 0 <= nth k CHARSET_REV (-1) < 32) (seq 0 128)) by by_eval.
  rewrite Forall_forall in Hall. apply Hall. apply elem_of_seq. lia.
Qed.

(** Characters of a lower-case string. *)
Definition lower_char (c : Z) : Prop := 33 <= c <= 126 ∧ ¬ (65 <= c <= 90).

Lemma scan_case_lower s lower : Forall lower_char s → ∃ l, scan_case lower false s = Some (l, false).
Proof.
  intros Hs. revert lower. induction Hs as [|c s [Hc Hn] _ IH]; intros lower; cbn [scan_case]; [by eexists|].
  destruct ((97 <=? c) && (c <=? 122)); [apply IH|].
  destruct ((65 <=? c) && (c <=? 90)) eqn:E.
  { apply andb_true_iff in E as [?%Z.leb_le ?%Z.leb_le]. lia. }
  destruct (Z.ltb_spec c 33), (Z.ltb_spec 126 c); try lia. apply IH.
Qed.

Lemma rfind_none x s : rfind x s = None ↔ x ∉ s.
Proof.
  induction s as [|c s IH]; cbn [rfind]; [split; [intros _; apply not_elem_of_nil|done]|].
  rewrite not_elem_of_cons, <- IH. destruct (rfind x s); [split; [done|by intros [_ ?]]|].
  destruct (Z.eqb_spec c x) as [->|]; [split; [done|by intros [? _]]|]. split; [by split|done].
Qed.

Lemma rfind_app x s t : rfind x t = None → rfind x (s ++ x :: t) = Some (length s).
Proof.
  intros Ht. induction s as [|c s IH]; cbn [app rfind length]; [by rewrite Ht, Z.eqb_refl|]. by rewrite IH.
Qed.

Lemma rfind_some x s p : rfind x s = Some p → ∃ t, s = take p s ++ x :: t ∧ rfind x t = None ∧ (p < length s)%nat.
Proof.
  revert p. induction s as [|c s IH]; intros p; cbn [rfind]; [done|]. destruct (rfind x s) as [q|] eqn:E.
  - intros [= <-]. destruct (IH q eq_refl) as (t & Es & Ht & Hl). exists t. cbn [take app length].
    split_and!; [by rewrite <- Es|done|lia].
  - destruct (Z.eqb_spec c x) as [->|]; [|done]. intros [= <-]. exists s. cbn [take app length]. split_and!; [done|done|lia].
Qed.

Lemma decode_values_app s t :
  decode_values (s ++ t) = (v ← decode_values s; w ← decode_values t; Some (v ++ w)).
Proof.
  induction s as [|c s IH]; cbn [app decode_values mbind option_bind]; [by destruct (decode_values t)|].
  destruct (_ =? -1); [done|]. rewrite IH. destruct (decode_values s); [|done]. cbn.
  by destruct (decode_values t).
Qed.

Lemma decode_values_charset v : fives v → decode_values (map charset v) = Some v.
Proof.
  induction 1 as [|d v Hd _ IH]; [done|]. cbn [map decode_values].
  destruct (charset_spec d Hd) as (-> & _). destruct (Z.eqb_spec d (-1)); [lia|]. by rewrite IH.
Qed.

Lemma decode_values_spec s v : decode_values s = Some v → fives v ∧ length v = length s.
Proof.
  revert v. induction s as [|c s IH]; intros v; cbn [decode_values]; [intros [= <-]; split; [constructor|done]|].
  destruct (CHARSET_REV_range (Z.to_nat c)) as [E|E]; destruct (Z.eqb_spec (nth (Z.to_nat c) CHARSET_REV (-1)) (-1));
    try done. destruct (decode_values s) as [w|]; [|done]. cbn. intros [= <-].
  destruct (IH w eq_refl) as [Hw Hl]. split; [by constructor|]. cbn [length]. lia.
Qed.

Lemma scan_case_range l u s r : scan_case l u s = Some r → Forall (λ c, 33 <= c <= 126) s.
Proof.
  revert l u. induction s as [|c s IH]; intros l u; cbn [scan_case]; [constructor|].
  destruct ((97 <=? c) && (c <=? 122)) eqn:E1.
  { apply andb_true_iff in E1 as [?%Z.leb_le ?%Z.leb_le]. intros ?%IH. constructor; [lia|done]. }
  destruct ((65 <=? c) && (c <=? 90)) eqn:E2.
  { apply andb_true_iff in E2 as [?%Z.leb_le ?%Z.leb_le]. intros ?%IH. constructor; [lia|done]. }
  destruct (Z.ltb_spec c 33), (Z.ltb_spec 126 c); cbn [orb]; try done. intros ?%IH. constructor; [lia|done].
Qed.

Lemma LowerCase_lower c : lower_char c → LowerCase c = c.
Proof.
  intros [_ Hn]. unfold LowerCase. destruct ((65 <=? c) && (c <=? 90)) eqn:E; [|done].
  apply andb_true_iff in E as [?%Z.leb_le ?%Z.leb_le]. lia.
Qed.

Lemma LowerCase_byte c : 33 <= c <= 126 → is_u8 (LowerCase c).
Proof.
  intros Hc. unfold LowerCase, is_u8. destruct ((65 <=? c) && (c <=? 90)) eqn:E; [|lia].
  apply andb_true_iff in E as [?%Z.leb_le ?%Z.leb_le]. lia.
Qed.

(** What a string that decodes looks like. *)
Definition decodes_as (s hrp d : bytes) (pos : nat) (values : bytes) : Prop :=
  rfind 49 s = Some pos ∧ decode_values (drop (pos + 1) s) = Some values ∧
  hrp = map LowerCase (take pos s) ∧ d = take (length values - 6) values ∧ bytes_ok hrp ∧
  VerifyChecksum hrp values = true.

Lemma Decode_cases s :
  Decode s = ([], []) ∨ ∃ hrp d pos values, Decode s = (hrp, d) ∧ decodes_as s hrp d pos values.
Proof.
  unfold Decode. destruct (scan_case false false s) as [[lower upper]|] eqn:Hs; [|by left].
  destruct (rfind 49 s) as [pos|] eqn:Hr; [|by left]. destruct (lower && upper); [by left|].
  destruct (_ || _); [by left|]. destruct (decode_values _) as [values|] eqn:Hv; [|by left].
  destruct (VerifyChecksum _ _) eqn:Hc; [|by left]. right. eexists _, _, pos, values. split; [done|].
  split_and!; try done. apply Forall_map, Forall_take. eapply Forall_impl; [by eapply scan_case_range|].
  intros c. apply LowerCase_byte.
Qed.

(** The separator stays where it is. *)
Lemma rfind_replace a t t' pos :
  rfind 49 (a ++ t) = Some pos → (pos < length a)%nat → 49 ∉ t' →
  ∃ a2, a = take pos a ++ 49 :: a2 ∧ (49 ∉ t) ∧ rfind 49 (a ++ t') = Some pos.
Proof.
  intros (u & Es & Hu & _)%rfind_some Hlt Ht'. rewrite take_app_le in Es by lia. apply rfind_none in Hu.
  assert (Ea : take (pos + 1) (a ++ t) = take pos a ++ [49]).
  { rewrite Es, take_app_ge by (rewrite length_take; lia). rewrite length_take.
    by replace (pos + 1 - (pos `min` length a))%nat with 1%nat by lia. }
  rewrite take_app_le in Ea by lia. assert (Ea2 : a = take pos a ++ 49 :: drop (pos + 1) a).
  { rewrite <- (take_drop (pos + 1) a) at 1. by rewrite Ea, <- app_assoc. }
  exists (drop (pos + 1) a). split; [done|].
  assert (Eu : u = drop (pos + 1) a ++ t).
  { apply (f_equal (drop (pos + 1))) in Es. rewrite drop_app_le in Es by lia. rewrite Es.
    rewrite drop_app_ge by (rewrite length_take; lia). rewrite length_take.
    by replace (pos + 1 - (pos `min` length a))%nat with 1%nat by lia. }
  rewrite Eu in Hu. apply not_elem_of_app in Hu as [Hu1 Hu2]. split; [done|].
  rewrite Ea2, <- app_assoc. cbn [app]. rewrite rfind_app; [f_equal; rewrite length_take; lia|].
  apply rfind_none. by apply not_elem_of_app.
Qed.

(** ** Regrouping bits *)

Section Regroup.
Context (f t : Z) (Hf : 0 < f <= 8) (Ht : 0 < t <= 8).

(** Two numbers agree in their low bits. *)
Definition agree (bits a n : Z) : Prop := a mod 2 ^ bits = n mod 2 ^ bits.

Lemma agree_window lo a n : 0 <= lo → agree (lo + t) a n → (a / 2 ^ lo) mod 2 ^ t = (n / 2 ^ lo) mod 2 ^ t.
Proof using All.
  unfold agree. intros Hlo. rewrite Z.pow_add_r by lia.
  pose proof (Z.pow_pos_nonneg 2 lo). pose proof (Z.pow_pos_nonneg 2 t).
  rewrite !Z.rem_mul_r by lia. intros E.
  assert (a mod 2 ^ lo = n mod 2 ^ lo) as E1.
  { apply (f_equal (λ z, z mod 2 ^ lo)) in E. rewrite !(Z.mul_comm (2 ^ lo)), !Z.mod_add, !Z.mod_mod in E by lia. done. }
  nia.
Qed.

Lemma agree_low lo hi a n : 0 <= lo <= hi → agree hi a n → agree lo a n.
Proof using.
  unfold agree. intros Hl E. assert (Hd : 2 ^ hi = 2 ^ (hi - lo) * 2 ^ lo)
    by (rewrite <- Z.pow_add_r by lia; f_equal; lia).
  pose proof (Z.pow_pos_nonneg 2 lo). pose proof (Z.pow_pos_nonneg 2 (hi - lo)).
  apply (f_equal (λ z, z mod 2 ^ lo)) in E. rewrite Hd in E.
  assert (Hm : ∀ x, (x mod (2 ^ (hi - lo) * 2 ^ lo)) mod 2 ^ lo = x mod 2 ^ lo).
  { intros x. rewrite (Z.mul_comm (2 ^ (hi - lo))), Z.rem_mul_r, (Z.mul_comm (2 ^ lo)), Z.mod_add, Z.mod_mod by lia. done. }
  by rewrite !Hm in E.
Qed.

Lemma emit_spec fuel acc bits n out b :
  0 <= bits <= Z.of_nat fuel → agree bits acc n → emit t fuel acc bits = (out, b) →
  0 <= b < t ∧ bits = b + t * Z.of_nat (length out) ∧ digits (2 ^ t) out ∧
  n / 2 ^ b = n / 2 ^ bits * 2 ^ (t * Z.of_nat (length out)) + be_num (2 ^ t) out.
Proof using All.
  revert bits out b. induction fuel as [|fuel IH]; intros bits out b Hbits Ha; cbn [emit];
    destruct (Z.leb_spec t bits) as [Hle|Hlt]; try lia.
  1, 3: intros [= <- <-]; cbn [length be_num rev le_num]; change (Z.of_nat 0) with 0; rewrite Z.mul_0_r;
    split_and!; [lia..|constructor|lia].
  destruct (emit t fuel acc (bits - t)) as [o b1] eqn:E. intros [= <- <-].
  apply IH in E as (Hb & Eb & Hd & En); [|lia|by apply (agree_low _ bits); [lia|]].
  pose proof (Z.pow_pos_nonneg 2 (bits - t)). pose proof (Z.pow_pos_nonneg 2 t).
  rewrite Z.shiftl_mul_pow2, Z.mul_1_l, land_ones_mod, Z.shiftr_div_pow2 by lia. rewrite (agree_window _ _ n) by (lia || by rewrite Z.sub_add).
  cbn [length]. rewrite be_num_cons, Nat2Z.inj_succ. split_and!; [lia..| |].
  { constructor; [apply Z.mod_pos_bound; lia|done]. }
  rewrite En. replace (t * Z.succ _) with (t + t * Z.of_nat (length o)) by lia.
  rewrite Z.pow_add_r, <- Z.pow_mul_r by lia.
  replace (2 ^ bits) with (2 ^ (bits - t) * 2 ^ t) by (rewrite <- Z.pow_add_r by lia; f_equal; lia).
  rewrite <- Z.div_div by lia. pose proof (Z.div_mod (n / 2 ^ (bits - t)) (2 ^ t)). nia.
Qed.

(** One group in: what [acc] holds then. *)
Lemma acc_spec acc bits n x :
  0 <= bits < t → 0 <= acc < 2 ^ (f + t - 1) → agree bits acc n → 0 <= x < 2 ^ f →
  let acc' := Z.land (Z.lor (u64 (Z.shiftl acc f)) x) (Z.shiftl 1 (f + t - 1) - 1) in
  0 <= acc' < 2 ^ (f + t - 1) ∧ agree (bits + f) acc' (n * 2 ^ f + x).
Proof using All.
  intros Hb Hacc Ha Hx. cbn zeta. pose proof (Z.pow_pos_nonneg 2 f). pose proof (Z.pow_pos_nonneg 2 (f + t - 1)).
  rewrite (Z.shiftl_mul_pow2 1), Z.mul_1_l, land_ones_mod, Z.shiftl_mul_pow2 by lia.
  assert (2 ^ f <= 2 ^ 8) by (apply Z.pow_le_mono_r; lia).
  assert (2 ^ (f + t - 1) <= 2 ^ 15) by (apply Z.pow_le_mono_r; lia).
  replace (u64 (acc * 2 ^ f)) with (acc * 2 ^ f) by (unfold u64; rewrite Z.mod_small; nia).
  rewrite Z.lor_comm, lor_add_disjoint, Z.add_comm by lia. split; [apply Z.mod_pos_bound; lia|].
  assert (agree (bits + f) (acc * 2 ^ f + x) (n * 2 ^ f + x)) as E.
  { unfold agree in *. rewrite (Z.add_comm bits), Z.pow_add_r by lia. pose proof (Z.pow_pos_nonneg 2 bits).
    rewrite !Z.rem_mul_r, !Z.div_add_l, !Z.div_small, !Z.add_0_r, Ha by lia. f_equal.
    by rewrite !(Z.add_comm _ x), !Z.mod_add by lia. }
  etransitivity; [|exact E]. apply (agree_low (bits + f) (f + t - 1)); [lia|]. unfold agree. by rewrite Z.mod_mod by lia.
Qed.

Lemma convert_loop_spec l acc bits n out acc' bits' :
  0 <= bits < t → 0 <= acc < 2 ^ (f + t - 1) → agree bits acc n → digits (2 ^ f) l →
  convert_loop f t acc bits l = (out, acc', bits') →
  let n' := n * 2 ^ (f * Z.of_nat (length l)) + be_num (2 ^ f) l in
  0 <= bits' < t ∧ agree bits' acc' n' ∧ 0 <= acc' < 2 ^ (f + t - 1) ∧ digits (2 ^ t) out ∧
  bits + f * Z.of_nat (length l) = bits' + t * Z.of_nat (length out) ∧
  n' / 2 ^ bits' = n / 2 ^ bits * 2 ^ (t * Z.of_nat (length out)) + be_num (2 ^ t) out.
Proof using All.
  intros Hb Hacc Ha Hl. revert acc bits n out Hb Hacc Ha.
  induction Hl as [|x l Hx _ IH]; intros acc bits n out Hb Hacc Ha; cbn [convert_loop].
  { intros [= <- <- <-]. cbn [length be_num rev le_num]. change (Z.of_nat 0) with 0. rewrite !Z.mul_0_r. cbn zeta.
    rewrite !Z.mul_1_r, !Z.add_0_r. split_and!; try (done || lia). constructor. }
  destruct (acc_spec acc bits n x Hb Hacc Ha Hx) as [Hacc1 Ha1]. set (acc1 := Z.land _ _) in *.
  destruct (emit _ _ _ _) as [o1 b1] eqn:E1. destruct (convert_loop _ _ acc1 b1 l) as [[o2 acc2] b2] eqn:E2.
  intros [= <- <- <-].
  apply (emit_spec _ _ _ (n * 2 ^ f + x)) in E1 as (Hb1 & Eb1 & Hd1 & En1); [|lia|done].
  apply (IH _ _ (n * 2 ^ f + x)) in E2 as (Hb2 & Ha2 & Hacc2 & Hd2 & Eb2 & En2);
    [|done..|apply (agree_low _ (bits + f)); [lia|done]].
  cbn zeta. cbn [length]. rewrite Nat2Z.inj_succ, be_num_cons, length_app, Nat2Z.inj_add.
  replace (n * 2 ^ (f * Z.succ _) + _) with ((n * 2 ^ f + x) * 2 ^ (f * Z.of_nat (length l)) + be_num (2 ^ f) l).
  2:{ replace (f * Z.succ (Z.of_nat (length l))) with (f + f * Z.of_nat (length l)) by lia.
      rewrite Z.pow_add_r, <- Z.pow_mul_r by lia. ring. }
  split_and!; [lia..|done|lia|lia|by apply Forall_app|lia|].
  rewrite En2, En1, be_num_app. replace ((n * 2 ^ f + x) / 2 ^ (bits + f)) with (n / 2 ^ bits).
  - rewrite Z.mul_add_distr_l, Z.pow_add_r, <- Z.pow_mul_r by lia. ring.
  - rewrite Z.add_comm, (Z.add_comm bits), Z.pow_add_r by lia.
    rewrite <- Z.div_div, Z.div_add, (Z.div_small x) by lia. done.
Qed.

(** The bits that are left, moved up to fill a group. *)
Lemma last_spec acc bits n :
  0 <= bits < t → 0 <= acc < 2 ^ (f + t - 1) → agree bits acc n →
  Z.land (u64 (Z.shiftl acc (t - bits))) (Z.shiftl 1 t - 1) = n mod 2 ^ bits * 2 ^ (t - bits).
Proof using All.
  intros Hb Hacc Ha. rewrite !Z.shiftl_mul_pow2, Z.mul_1_l, land_ones_mod by lia.
  assert (2 ^ (t - bits) <= 2 ^ 8) by (apply Z.pow_le_mono_r; lia).
  assert (2 ^ (f + t - 1) <= 2 ^ 15) by (apply Z.pow_le_mono_r; lia).
  pose proof (Z.pow_pos_nonneg 2 (t - bits)). pose proof (Z.pow_pos_nonneg 2 bits).
  replace (u64 (acc * 2 ^ (t - bits))) with (acc * 2 ^ (t - bits)) by (unfold u64; rewrite Z.mod_small; nia).
  replace (2 ^ t) with (2 ^ bits * 2 ^ (t - bits)) by (rewrite <- Z.pow_add_r by lia; f_equal; lia).
  rewrite Z.mul_mod_distr_r by lia. by rewrite Ha.
Qed.

Lemma convert_whole l out acc bits :
  digits (2 ^ f) l → convert_loop f t 0 0 l = (out, acc, bits) →
  0 <= bits < t ∧ agree bits acc (be_num (2 ^ f) l) ∧ 0 <= acc < 2 ^ (f + t - 1) ∧ digits (2 ^ t) out ∧
  f * Z.of_nat (length l) = bits + t * Z.of_nat (length out) ∧ be_num (2 ^ f) l / 2 ^ bits = be_num (2 ^ t) out.
Proof using All.
  intros Hl E. pose proof (Z.pow_pos_nonneg 2 (f + t - 1)).
  apply (convert_loop_spec _ _ _ 0) in E as (? & ? & ? & ? & ? & ?); [|lia|lia|done|done].
  rewrite Z.mul_0_l, Z.add_0_l in *. rewrite Z.div_0_l, Z.mul_0_l, Z.add_0_l in * by lia. split_and!; lia || done.
Qed.

Lemma ConvertBits_pad_spec l :
  digits (2 ^ f) l → ∃ out p, ConvertBits f t true l = (out, true) ∧ 0 <= p < t ∧ digits (2 ^ t) out ∧
    t * Z.of_nat (length out) = f * Z.of_nat (length l) + p ∧ be_num (2 ^ t) out = be_num (2 ^ f) l * 2 ^ p.
Proof using All.
  intros Hl. unfold ConvertBits. destruct (convert_loop f t 0 0 l) as [[out acc] bits] eqn:E.
  destruct (convert_whole l out acc bits Hl E) as (Hb & Ha & Hacc & Hd & Hlen & Hnum).
  destruct (Z.eqb_spec bits 0) as [->|Hne].
  { exists out, 0. rewrite Z.pow_0_r, Z.div_1_r in *. split_and!; lia || done. }
  rewrite (last_spec acc bits _ Hb Hacc Ha). eexists _, (t - bits). split; [done|].
  pose proof (Z.pow_pos_nonneg 2 (t - bits)). pose proof (Z.pow_pos_nonneg 2 bits).
  assert (Et : 2 ^ t = 2 ^ bits * 2 ^ (t - bits)) by (rewrite <- Z.pow_add_r by lia; f_equal; lia).
  pose proof (Z.mod_pos_bound (be_num (2 ^ f) l) (2 ^ bits)). rewrite length_app. cbn [length].
  split_and!; [lia..| |lia|].
  - apply Forall_app. split; [done|]. constructor; [|constructor]. rewrite Et. nia.
  - rewrite be_num_snoc, <- Hnum, Et. pose proof (Z.div_mod (be_num (2 ^ f) l) (2 ^ bits)). nia.
Qed.

Lemma ConvertBits_exact_spec l :
  digits (2 ^ f) l → ∃ out b, 0 <= b < t ∧ digits (2 ^ t) out ∧
    f * Z.of_nat (length l) = b + t * Z.of_nat (length out) ∧ be_num (2 ^ t) out = be_num (2 ^ f) l / 2 ^ b ∧
    ConvertBits f t false l = (out, (b <? f) && (be_num (2 ^ f) l mod 2 ^ b =? 0)).
Proof using All.
  intros Hl. unfold ConvertBits. destruct (convert_loop f t 0 0 l) as [[out acc] bits] eqn:E.
  destruct (convert_whole l out acc bits Hl E) as (Hb & Ha & Hacc & Hd & Hlen & Hnum).
  exists out, bits. rewrite (last_spec acc bits _ Hb Hacc Ha). split_and!; [lia..|done|lia|done|].
  f_equal. pose proof (Z.pow_pos_nonneg 2 (t - bits)). rewrite negb_orb, negb_involutive. f_equal.
  - destruct (Z.leb_spec f bits), (Z.ltb_spec bits f); done || lia.
  - destruct (Z.eqb_spec (be_num (2 ^ f) l mod 2 ^ bits) 0) as [->|]; [done|]. apply Z.eqb_neq. nia.
Qed.

End Regroup.

(** Whole bytes to groups of five bits. *)
Lemma ConvertBits_groups l : bytes_ok l → fives (ConvertBits 8 5 true l).1.
Proof. intros Hl. by destruct (ConvertBits_pad_spec 8 5 ltac:(lia) ltac:(lia) l Hl) as (o & p & -> & _ & Ho & _). Qed.

(** And back: the padding is recognised and dropped. *)
Lemma ConvertBits_inverse l : bytes_ok l → ConvertBits 5 8 false (ConvertBits 8 5 true l).1 = (l, true).
Proof.
  intros Hl. destruct (ConvertBits_pad_spec 8 5 ltac:(lia) ltac:(lia) l Hl) as (o & p & -> & Hp & Ho & Hlen & Hnum).
  cbn [fst]. destruct (ConvertBits_exact_spec 5 8 ltac:(lia) ltac:(lia) o Ho) as (r & b & Hb & Hr & Hlen' & Hnum' & ->).
  assert (b = p ∧ length r = length l) as [-> Hrl] by lia. pose proof (Z.pow_pos_nonneg 2 p).
  rewrite Hnum in *. rewrite Z.div_mul, Z.mod_mul in * by lia.
  destruct (Z.ltb_spec p 5); [|lia]. f_equal.
  rewrite <- (rev_involutive r), <- (rev_involutive l). f_equal.
  apply (le_num_inj (2 ^ 8) ltac:(done)); [by apply Forall_rev..|by rewrite !length_rev|done].
Qed.

(** What is read back without the padding encodes to what was read. *)
Lemma ConvertBits_exact_inverse g l :
  fives g → ConvertBits 5 8 false g = (l, true) → (ConvertBits 8 5 true l).1 = g ∧ bytes_ok l.
Proof.
  intros Hg E. destruct (ConvertBits_exact_spec 5 8 ltac:(lia) ltac:(lia) g Hg) as (r & b & Hb & Hr & Hlen & Hnum & E').
  rewrite E in E'. injection E' as <- Hok. symmetry in Hok. apply andb_true_iff in Hok as [H5%Z.ltb_lt H0%Z.eqb_eq].
  destruct (ConvertBits_pad_spec 8 5 ltac:(lia) ltac:(lia) l Hr) as (o & p & -> & Hp & Ho & Hlen' & Hnum').
  assert (b = p ∧ length o = length g) as [-> Hol] by lia. split; [|done]. cbn [fst].
  pose proof (Z.pow_pos_nonneg 2 p). pose proof (Z.div_mod (be_num (2 ^ 5) g) (2 ^ p)).
  rewrite <- (rev_involutive o), <- (rev_involutive g). f_equal.
  apply (le_num_inj 32 ltac:(done)); [by apply Forall_rev..|by rewrite !length_rev|].
  change (be_num 32 o = be_num 32 g). change (2 ^ 5) with 32 in *. lia.
Qed.

(** What [Encode] gives for a lower-case human-readable part of 1 to 83 characters,
    with at most 140 characters in all, is read back. *)
Lemma Decode_Encode (hrp values : bytes) :
  Forall lower_char hrp → (1 <= length hrp <= 83)%nat → Forall (λ v, 0 <= v < 32) values →
  (length hrp + 1 + length values + 6 <= 140)%nat →
  Decode (Encode hrp values) = (hrp, values).
Proof.
  intros Hh Hl Hv Hlen.
  assert (Hb : bytes_ok hrp) by (eapply Forall_impl; [exact Hh|]; intros c [? _]; unfold is_u8; lia).
  destruct (CreateChecksum_spec hrp values Hb Hv) as (Hcs & Hl6 & Hver). unfold Encode.
  set (all := values ++ CreateChecksum hrp values) in *.
  assert (Hall : fives all) by by apply Forall_app. assert (Hla : length all = (length values + 6)%nat)
    by (subst all; by rewrite length_app, Hl6).
  assert (Hchars : Forall lower_char (hrp ++ 49 :: map charset all)).
  { apply Forall_app. split; [done|]. constructor; [split; lia|]. apply Forall_map.
    eapply Forall_impl; [exact Hall|]. intros d Hd. by destruct (charset_spec d Hd) as (_ & ? & _ & ?). }
  assert (Hr : rfind 49 (map charset all) = None).
  { apply rfind_none. intros (d & E & Hd)%list_elem_of_fmap. unfold fives, digits in Hall. rewrite Forall_forall in Hall.
    destruct (charset_spec d (Hall d Hd)) as (_ & _ & ? & _). congruence. }
  unfold Decode. destruct (scan_case_lower _ false Hchars) as [lo ->]. rewrite rfind_app by done.
  rewrite andb_false_r. rewrite length_app. cbn [length]. rewrite length_map, Hla.
  destruct (Nat.ltb_spec 140 (length hrp + S (length values + 6))); [lia|].
  destruct (Nat.eqb_spec (length hrp) 0); [lia|].
  destruct (Nat.ltb_spec (length hrp + S (length values + 6)) (length hrp + 7)); [lia|].
  destruct (Nat.ltb_spec 83 (length hrp)); [lia|]. cbn [orb].
  replace (drop (length hrp + 1) (hrp ++ 49 :: map charset all)) with (map charset all)
    by (by rewrite drop_app_add).
  rewrite decode_values_charset, take_app_length by done.
  assert (map LowerCase hrp = hrp) as ->.
  { clear -Hh. induction Hh as [|c hrp Hc _ IH]; [done|]. cbn [map]. by rewrite IH, LowerCase_lower. }
  rewrite Hver, Hla, Nat.add_sub. subst all. by rewrite take_app_length.
Qed.

(** ** Properties *)

(** C27: short bursts of errors are detected.  Let a string decode, and replace up to six
    consecutive characters after the separator by others, none of them a separator.
    Then the changed string does not decode, unless the new characters stand for the
    same values (in the other case). *)
Theorem bech32_burst_detected (a x x' c hrp d : bytes) (pos : nat) :
  Decode (a ++ x ++ c) = (hrp, d) → hrp ≠ [] → rfind 49 (a ++ x ++ c) = Some pos → (pos < length a)%nat →
  length x' = length x → (length x <= 6)%nat → 49 ∉ x' →
  Decode (a ++ x' ++ c) = ([], []) ∨
  Decode (a ++ x' ++ c) = (hrp, d) ∧ decode_values x' = decode_values x.
Proof.
  intros Hd Hne Hpos Hlt Hl Hl6 Hsep.
  destruct (Decode_cases (a ++ x ++ c)) as [?|(h1 & d1 & pos1 & v & Hd1 & Hp1 & Hv & Eh & Ed & Hb & Hver)]; [congruence|].
  rewrite Hd in Hd1. injection Hd1 as <- <-. rewrite Hpos in Hp1. injection Hp1 as <-.
  destruct (Decode_cases (a ++ x' ++ c)) as [?|(h2 & d2 & pos2 & v' & Hd2 & Hp2 & Hv' & Eh' & Ed' & _ & Hver')];
    [by left|right].
  destruct (rfind_replace a (x ++ c) [] pos Hpos Hlt ltac:(apply not_elem_of_nil)) as (_ & _ & Hxc & _).
  destruct (rfind_replace a (x ++ c) (x' ++ c) pos Hpos Hlt) as (_ & _ & _ & Hp').
  { apply not_elem_of_app in Hxc as [_ Hc]. by apply not_elem_of_app. }
  rewrite Hp2 in Hp'. injection Hp' as ->. rewrite take_app_le in Eh, Eh' by lia. subst h2.
  rewrite <- Eh in Hver'. rewrite drop_app_le in Hv, Hv' by lia.
  pose proof (decode_values_spec _ _ Hv) as [Fv _]. pose proof (decode_values_spec _ _ Hv') as [Fv' _].
  rewrite !decode_values_app in Hv, Hv'.
  destruct (decode_values (drop (pos + 1) a)) as [p|]; [|done]. cbn [mbind option_bind] in *.
  destruct (decode_values x) as [w|] eqn:Hw; [|done]. destruct (decode_values x') as [w'|] eqn:Hw'; [|done].
  cbn [mbind option_bind] in *. destruct (decode_values c) as [q|]; [|done]. cbn in Hv, Hv'.
  destruct (decode_values_spec x w Hw) as [_ Lw]. destruct (decode_values_spec x' w' Hw') as [_ Lw'].
  injection Hv as <-. injection Hv' as <-.
  assert (w = w') as <-; [|by rewrite Hd2, Ed', Ed, Eh].
  apply (VerifyChecksum_window hrp p w w' q); [done|done|done|lia|lia|done|done].
Qed.

(** Three characters exchanged for others. *)
Lemma bech32_burst_detected_witness :
  Decode (codes "ph1pz" ++ codes "xxx" ++ drop 8 (Encode (codes "ph") [1; 2; 31; 0; 17])) = ([], []) ∨
  Decode (codes "ph1pz" ++ codes "xxx" ++ drop 8 (Encode (codes "ph") [1; 2; 31; 0; 17])) =
    (codes "ph", [1; 2; 31; 0; 17]) ∧ decode_values (codes "xxx") = decode_values (codes "lq3").
Proof. apply (bech32_burst_detected _ _ _ _ _ _ 2); by_eval. Defined.
