(* ===== verification/Stealth.v ===== *)
(** Stealth addresses as byte strings, after [src/src/key/stealth.cpp] and
    [src/src/key/stealth.h].

    [FromRaw] walks a pointer: it is given the bytes that lie in the buffer from that
    pointer on and, apart from them, the size it is told.  Reading past the buffer and
    writing past a field are errors of the model; the program does not notice them. *)
From stdpp Require Import list.
From S2P Require Import Prelude Serialize.
Open Scope Z_scope.

Inductive memory_error : Set := ReadBeyond | WriteBeyond.

#[global] Instance memory_error_eq_dec : EqDecision memory_error.
Proof. solve_decision. Defined.

Definition MIN_STEALTH_RAW_SIZE : Z := 1 + 33 + 1 + 33 + 1 + 1.
Definition EC_COMPRESSED_SIZE : Z := 33.

Record stealth_prefix : Set := mkPrefix { number_bits : Z; bitfield : Z }.

(** The fields that the raw form carries. *)
Record CStealthAddress : Set := mkStealth {
  options : Z;
  prefix : stealth_prefix;
  number_signatures : Z;
  scan_pubkey : bytes;
  spend_pubkey : bytes
}.

#[global] Instance stealth_prefix_eq_dec : EqDecision stealth_prefix.
Proof. solve_decision. Defined.
#[global] Instance CStealthAddress_eq_dec : EqDecision CStealthAddress.
Proof. solve_decision. Defined.

(** What the constructor leaves; [bitfield] is not initialised, any value will do. *)
Definition new_stealth (junk : Z) : CStealthAddress := mkStealth 0 (mkPrefix 0 junk) 0 [] [].

(** [memcpy] from the pointer, which moves on. *)
Definition read_mem (n : Z) (p : bytes) : result memory_error (bytes * bytes) :=
  if Z.of_nat (length p) <? n then Err ReadBeyond else Ok (take (Z.to_nat n) p, drop (Z.to_nat n) p).

(** [*p++]. *)
Definition read_byte (p : bytes) : result memory_error (Z * bytes) :=
  match p with
  | [] => Err ReadBeyond
  | c :: p => Ok (c, p)
  end.

(** [std::ceil((float)number_bits / 8.0)], exact for a byte. *)
Definition prefix_bytes (bits : Z) : Z := (bits + 7) / 8.

(** [MIN_STEALTH_RAW_SIZE + EC_COMPRESSED_SIZE * (spend_pubkeys-1)], as [size_t]. *)
Definition size_with (spend_pubkeys : Z) : Z :=
  u64 (MIN_STEALTH_RAW_SIZE + u64 (EC_COMPRESSED_SIZE * u64 (spend_pubkeys - 1))).

(** The object after the call, and what the call returns. *)
Definition FromRaw (sx : CStealthAddress) (p : bytes) (nSize : Z) : result memory_error (CStealthAddress * Z) :=
  if nSize <? MIN_STEALTH_RAW_SIZE then Ok (sx, 1)
  else
    let! (opts, p) := read_byte p in
    let! (scan, p) := read_mem EC_COMPRESSED_SIZE p in
    let sx := mkStealth opts (prefix sx) (number_signatures sx) scan (spend_pubkey sx) in
    let! (spend_pubkeys, p) := read_byte p in
    if nSize <? size_with spend_pubkeys then Ok (sx, 1)
    else
      let! (spend, p) := read_mem (EC_COMPRESSED_SIZE * spend_pubkeys) p in
      let! (nsigs, p) := read_byte p in
      let! (nbits, p) := read_byte p in
      let sx := mkStealth opts (mkPrefix nbits 0) nsigs scan spend in
      let nPrefixBytes := prefix_bytes nbits in
      if nSize <? u64 (size_with spend_pubkeys + nPrefixBytes) then Ok (sx, 1)
      else if nPrefixBytes =? 0 then Ok (sx, 0)
      else
        let! (bits, _) := read_mem nPrefixBytes p in
        if 4 <? nPrefixBytes then Err WriteBeyond
        else Ok (mkStealth opts (mkPrefix nbits (le_value bits)) nsigs scan spend, 0).

(** [None] is the return value 1. *)
Definition ToRaw (sx : CStealthAddress) : option bytes :=
  let nPrefixBytes := prefix_bytes (number_bits (prefix sx)) in
  let nPkSpend := Z.of_nat (length (spend_pubkey sx)) / EC_COMPRESSED_SIZE in
  if negb (Z.of_nat (length (scan_pubkey sx)) =? EC_COMPRESSED_SIZE)
     || (Z.of_nat (length (spend_pubkey sx)) <? EC_COMPRESSED_SIZE)
     || negb (Z.of_nat (length (spend_pubkey sx)) mod EC_COMPRESSED_SIZE =? 0)
     || (255 <? nPkSpend) || (4 <? nPrefixBytes)
  then None
  else Some (options sx :: scan_pubkey sx ++ nPkSpend :: spend_pubkey sx ++
             u8 (number_signatures sx) :: number_bits (prefix sx) ::
             le_bytes (Z.to_nat nPrefixBytes) (bitfield (prefix sx))).

(** ** Lemmas *)

(** The widths of the fields, and a bit field no longer than its length says. *)
Definition stealth_ok (sx : CStealthAddress) : Prop :=
  is_u8 (options sx) ∧ is_u8 (number_bits (prefix sx)) ∧ is_u8 (number_signatures sx) ∧
  bytes_ok (scan_pubkey sx) ∧ bytes_ok (spend_pubkey sx) ∧
  0 <= bitfield (prefix sx) < 2 ^ (8 * prefix_bytes (number_bits (prefix sx))).

Lemma prefix_bytes_range b : is_u8 b → 0 <= prefix_bytes b <= 32 ∧ (prefix_bytes b <= 4 ↔ b <= 32) ∧ (prefix_bytes b = 0 ↔ b = 0).
Proof. unfold is_u8, prefix_bytes. intros Hb. Z.to_euclidean_division_equations; lia. Qed.

Lemma size_with_value k : is_u8 k → size_with k = 37 + 33 * k.
Proof.
  unfold is_u8, size_with, u64, MIN_STEALTH_RAW_SIZE, EC_COMPRESSED_SIZE. intros Hk.
  rewrite Zmult_mod_idemp_r, Zplus_mod_idemp_r. rewrite Z.mod_small; lia.
Qed.

Lemma size_with_prefix k b : is_u8 k → is_u8 b → u64 (size_with k + prefix_bytes b) = 37 + 33 * k + prefix_bytes b.
Proof.
  intros Hk Hb. rewrite size_with_value by done. pose proof (prefix_bytes_range b Hb). unfold is_u8 in Hk, Hb.
  unfold u64. rewrite Z.mod_small; lia.
Qed.

Lemma read_mem_app n x p : Z.of_nat (length x) = n → read_mem n (x ++ p) = Ok (x, p).
Proof.
  intros <-. unfold read_mem. rewrite length_app. destruct (Z.ltb_spec (Z.of_nat (length x + length p)) (Z.of_nat (length x))); [lia|].
  by rewrite Nat2Z.id, take_app_length, drop_app_length.
Qed.

(** What [FromRaw] makes of a string with a whole layout. *)
Lemma FromRaw_layout sx opts scan k spend nsigs nbits rest nSize :
  is_u8 k → is_u8 nbits → Z.of_nat (length scan) = 33 → Z.of_nat (length spend) = 33 * k →
  70 <= nSize → 37 + 33 * k <= nSize →
  FromRaw sx (opts :: scan ++ k :: spend ++ nsigs :: nbits :: rest) nSize =
    if nSize <? 37 + 33 * k + prefix_bytes nbits then Ok (mkStealth opts (mkPrefix nbits 0) nsigs scan spend, 1)
    else if prefix_bytes nbits =? 0 then Ok (mkStealth opts (mkPrefix nbits 0) nsigs scan spend, 0)
    else
      let! (bits, _) := read_mem (prefix_bytes nbits) rest in
      if 4 <? prefix_bytes nbits then Err WriteBeyond
      else Ok (mkStealth opts (mkPrefix nbits (le_value bits)) nsigs scan spend, 0).
Proof.
  intros Hk Hn Hscan Hspend H70 Hsz. unfold FromRaw.
  destruct (Z.ltb_spec nSize MIN_STEALTH_RAW_SIZE); [unfold MIN_STEALTH_RAW_SIZE in *; lia|].
  cbn [read_byte rbind]. rewrite read_mem_app by done. cbn [rbind read_byte].
  destruct (Z.ltb_spec nSize (size_with k)); [rewrite size_with_value in * by done; lia|].
  rewrite read_mem_app by done. cbn [rbind read_byte]. by rewrite size_with_prefix.
Qed.

(** What it makes of a string that is too short for its keys. *)
Lemma FromRaw_short sx opts scan k rest nSize :
  is_u8 k → Z.of_nat (length scan) = 33 → 70 <= nSize < 37 + 33 * k →
  FromRaw sx (opts :: scan ++ k :: rest) nSize =
    Ok (mkStealth opts (prefix sx) (number_signatures sx) scan (spend_pubkey sx), 1).
Proof.
  intros Hk Hscan Hsz. unfold FromRaw.
  destruct (Z.ltb_spec nSize MIN_STEALTH_RAW_SIZE); [unfold MIN_STEALTH_RAW_SIZE in *; lia|].
  cbn [read_byte rbind]. rewrite read_mem_app by done. cbn [rbind read_byte].
  destruct (Z.ltb_spec nSize (size_with k)); [done|]. rewrite size_with_value in * by done. lia.
Qed.

(** A string cut into the fields of the layout. *)
Lemma raw_head (p : bytes) : 70 <= Z.of_nat (length p) →
  ∃ opts scan k rest, p = opts :: scan ++ k :: rest ∧ length scan = 33%nat.
Proof.
  intros Hl. destruct p as [|opts p]; [cbn in Hl; lia|]. cbn [length] in Hl.
  destruct (lookup_lt_is_Some_2 p 33) as [k Hk]; [lia|]. exists opts, (take 33 p), k, (drop 34 p).
  split; [|rewrite length_take; lia]. f_equal. symmetry. by apply take_drop_middle.
Qed.

Lemma raw_tail (rest : bytes) n : (n + 2 <= length rest)%nat →
  ∃ spend nsigs nbits rest', rest = spend ++ nsigs :: nbits :: rest' ∧ length spend = n.
Proof.
  intros Hl. destruct (lookup_lt_is_Some_2 rest n) as [x Hx]; [lia|].
  destruct (lookup_lt_is_Some_2 rest (S n)) as [y Hy]; [lia|].
  exists (take n rest), x, y, (drop (S (S n)) rest). split; [|rewrite length_take; lia].
  rewrite <- (take_drop n rest) at 1. f_equal. by rewrite (drop_S _ _ _ Hx), (drop_S _ _ _ Hy).
Qed.

(** Strings whose bit field does not fit: the size is enough for every field and more
    than 32 bits are announced. *)
Definition too_wide (p : bytes) (nSize : Z) : Prop :=
  ∃ k b, p !! 34%nat = Some k ∧ p !! Z.to_nat (36 + 33 * k) = Some b ∧
    70 <= nSize ∧ 37 + 33 * k + prefix_bytes b <= nSize ∧ 32 < b.

(** What a stealth address is written to is read back, without a fault, whatever object
    [FromRaw] is called on. *)
Lemma FromRaw_ToRaw (sx sx0 : CStealthAddress) (raw : bytes) :
  stealth_ok sx → ToRaw sx = Some raw → FromRaw sx0 raw (Z.of_nat (length raw)) = Ok (sx, 0).
Proof.
  intros (Ho & Hb & Hs & _ & _ & Hf) Hraw. unfold ToRaw in Hraw. destruct sx as [opts [nbits bits] nsigs scan spend].
  cbn [options prefix number_bits bitfield number_signatures scan_pubkey spend_pubkey] in *.
  unfold EC_COMPRESSED_SIZE in *. set (k := Z.of_nat (length spend) / 33) in *.
  destruct (Z.eqb_spec (Z.of_nat (length scan)) 33) as [Hscan|]; [|done].
  destruct (Z.ltb_spec (Z.of_nat (length spend)) 33) as [|Hge]; [done|].
  destruct (Z.eqb_spec (Z.of_nat (length spend) mod 33) 0) as [Hmod|]; [|done].
  destruct (Z.ltb_spec 255 k) as [|Hk]; [done|]. destruct (Z.ltb_spec 4 (prefix_bytes nbits)) as [|H4]; [done|].
  cbn [negb orb] in Hraw. injection Hraw as <-. destruct (prefix_bytes_range nbits Hb) as (Hpb & _ & _).
  assert (Hspend : Z.of_nat (length spend) = 33 * k) by (pose proof (Z.div_mod (Z.of_nat (length spend)) 33); lia).
  assert (Hk8 : is_u8 k) by (unfold is_u8; lia).
  replace (u8 nsigs) with nsigs by (unfold u8, is_u8 in *; by rewrite Z.mod_small).
  set (tail := le_bytes _ bits). assert (Ht : length tail = Z.to_nat (prefix_bytes nbits)) by apply length_le_bytes.
  assert (Hlen : Z.of_nat (length (opts :: scan ++ k :: spend ++ nsigs :: nbits :: tail)) = 37 + 33 * k + prefix_bytes nbits).
  { cbn [length]. rewrite length_app. cbn [length]. rewrite length_app. cbn [length]. rewrite Ht. lia. }
  rewrite Hlen, FromRaw_layout by (done || lia). rewrite Z.ltb_irrefl.
  destruct (Z.eqb_spec (prefix_bytes nbits) 0) as [E0|_].
  { rewrite E0 in Hf. change (2 ^ (8 * 0)) with 1 in Hf. by replace bits with 0 by lia. }
  rewrite <- (app_nil_r tail) at 1. rewrite read_mem_app by lia. cbn [rbind].
  destruct (Z.ltb_spec 4 (prefix_bytes nbits)); [lia|]. do 3 f_equal. subst tail.
  rewrite le_value_le_bytes, Z2Nat.id by lia. f_equal. by apply Z.mod_small.
Qed.

(** The usual stealth address: one key to spend with, and at most 32 prefix bits. *)
Definition one_key (sx : CStealthAddress) : Prop :=
  stealth_ok sx ∧ length (scan_pubkey sx) = 33%nat ∧ length (spend_pubkey sx) = 33%nat ∧ number_bits (prefix sx) <= 32.

Lemma ToRaw_one_key sx : one_key sx →
  ∃ raw, ToRaw sx = Some raw ∧ bytes_ok raw ∧
    Z.of_nat (length raw) = 70 + prefix_bytes (number_bits (prefix sx)) ∧
    nth 34 raw 0 = 1 ∧ nth 69 raw 0 = number_bits (prefix sx).
Proof.
  intros ((Ho & Hb & Hs & Hsc & Hsp & Hf) & Lsc & Lsp & H32). destruct sx as [opts [nbits bits] nsigs scan spend].
  cbn [options prefix number_bits bitfield number_signatures scan_pubkey spend_pubkey] in *.
  destruct (prefix_bytes_range nbits Hb) as (Hpb & H4 & _). unfold ToRaw, EC_COMPRESSED_SIZE.
  cbn [options prefix number_bits bitfield number_signatures scan_pubkey spend_pubkey].
  rewrite Lsc, Lsp. change (Z.of_nat 33) with 33. cbn [Z.eqb Pos.eqb Z.ltb Z.compare Pos.compare Pos.compare_cont negb orb].
  change (33 / 33) with 1. change (33 mod 33 =? 0) with true. change (255 <? 1) with false. cbn [negb orb].
  destruct (Z.ltb_spec 4 (prefix_bytes nbits)); [lia|]. eexists. split; [done|]. split_and!.
  - constructor; [done|]. apply Forall_app. split; [done|]. constructor; [unfold is_u8; lia|]. apply Forall_app.
    split; [done|]. constructor; [apply u8_range|]. constructor; [done|apply le_bytes_ok].
  - cbn [length]. rewrite length_app. cbn [length]. rewrite length_app. cbn [length]. rewrite length_le_bytes. lia.
  - cbn [nth]. rewrite app_nth2 by lia. by rewrite Lsc.
  - cbn [nth]. rewrite app_nth2 by lia. rewrite Lsc. cbn [Nat.sub nth]. rewrite app_nth2 by lia. by rewrite Lsp.
Qed.

(** ** Properties *)

(** The one memory fault of reading a stealth address.  With a size no larger than
    the buffer, [FromRaw] never reads past the buffer, and it writes past the four bytes
    of the bit field exactly for the strings that announce more than 32 prefix bits and
    are long enough: the number of bits is not checked. *)
Theorem FromRaw_fault (sx : CStealthAddress) (p : bytes) (nSize : Z) :
  bytes_ok p → nSize <= Z.of_nat (length p) →
  FromRaw sx p nSize ≠ Err ReadBeyond ∧ (FromRaw sx p nSize = Err WriteBeyond ↔ too_wide p nSize).
Proof.
  intros Hp Hsz. destruct (Z.lt_ge_cases nSize 70) as [Hlt|H70].
  { unfold FromRaw, MIN_STEALTH_RAW_SIZE. destruct (Z.ltb_spec nSize (1 + 33 + 1 + 33 + 1 + 1)); [|lia].
    split; [done|]. split; [done|]. intros (k & b & _ & _ & ? & _). lia. }
  destruct (raw_head p) as (opts & scan & k & rest & -> & Hscan); [lia|].
  assert (E34 : (opts :: scan ++ k :: rest) !! 34%nat = Some k).
  { cbn [lookup list_lookup]. change ((scan ++ k :: rest) !! 33%nat = Some k). rewrite <- Hscan. apply list_lookup_middle. done. }
  cbn [length] in Hsz. rewrite length_app in Hsz. cbn [length] in Hsz.
  apply Forall_cons in Hp as [_ [_ [Hk Hrest]%Forall_cons]%Forall_app]. unfold is_u8 in Hk.
  destruct (Z.lt_ge_cases nSize (37 + 33 * k)) as [Hlt|Hge].
  { rewrite FromRaw_short by (done || lia). split; [done|]. split; [done|].
    intros (k' & b & Ek & Eb & _ & Hn & Hb). rewrite E34 in Ek. injection Ek as <-.
    unfold prefix_bytes in Hn. Z.to_euclidean_division_equations; lia. }
  destruct (raw_tail rest (Z.to_nat (33 * k))) as (spend & nsigs & nbits & rest' & -> & Hspend); [lia|].
  assert (E2 : (opts :: scan ++ k :: spend ++ nsigs :: nbits :: rest') !! Z.to_nat (36 + 33 * k) = Some nbits).
  { replace (opts :: scan ++ _) with ((opts :: scan ++ k :: spend ++ [nsigs]) ++ nbits :: rest')
      by (cbn [app]; by rewrite <- app_assoc; cbn [app]; rewrite <- app_assoc).
    apply list_lookup_middle. cbn [length]. rewrite length_app. cbn [length]. rewrite length_app. cbn [length]. lia. }
  apply Forall_app in Hrest as [_ [_ [Hnb _]%Forall_cons]%Forall_cons].
  destruct (prefix_bytes_range nbits Hnb) as (Hpb & H4 & _).
  rewrite FromRaw_layout by (done || lia). rewrite length_app in Hsz. cbn [length] in Hsz.
  assert (Hw : too_wide (opts :: scan ++ k :: spend ++ nsigs :: nbits :: rest') nSize ↔
    37 + 33 * k + prefix_bytes nbits <= nSize ∧ 32 < nbits).
  { split; [|by intros [? ?]; exists k, nbits]. intros (k' & b & Ek & Eb & _ & Hn & Hb).
    rewrite E34 in Ek. injection Ek as <-. rewrite E2 in Eb. by injection Eb as <-. }
  rewrite Hw. destruct (Z.ltb_spec nSize (37 + 33 * k + prefix_bytes nbits)); [by split; [|split; [|lia]]|].
  destruct (Z.eqb_spec (prefix_bytes nbits) 0); [by split; [|split; [|lia]]|].
  unfold read_mem. destruct (Z.ltb_spec (Z.of_nat (length rest')) (prefix_bytes nbits)); [lia|]. cbn [rbind].
  destruct (Z.ltb_spec 4 (prefix_bytes nbits)); split; try done; split; try done; lia.
Qed.

(** ** Examples *)

(** Thirty-three prefix bits. *)
Definition wide_raw : bytes := 0 :: replicate 33 2 ++ 1 :: replicate 33 3 ++ [0; 33] ++ replicate 5 0.

Lemma FromRaw_fault_witness : FromRaw (new_stealth 0) wide_raw 75 = Err WriteBeyond.
Proof.
  apply (FromRaw_fault (new_stealth 0) wide_raw 75); [by_eval|by_eval|].
  exists 1, 33. repeat split; by_eval.
Defined.
