(* ===== verification/ExtKey.v ===== *)
(** Keys and extended key pairs as byte strings, after [src/src/key.h],
    [src/src/key.cpp], [src/src/pubkey.h] and [src/src/key/extkey.cpp].

    The curve library is a parameter: which 32 bytes are a private key, and the
    serialized point of a private key.  [Err] is a failed assertion. *)
From stdpp Require Import list.
From S2P Require Import Prelude Serialize.
Open Scope Z_scope.

Inductive key_error : Set := InvalidKey | BadPubKeySize.

#[global] Instance key_error_eq_dec : EqDecision key_error.
Proof. solve_decision. Defined.

Record CKey : Set := mkKey { fValid : bool; fCompressed : bool; keydata : bytes }.

(** [CKey()]. *)
Definition new_key : CKey := mkKey false false (replicate 32 0).
Definition key_size (k : CKey) : Z := if fValid k then Z.of_nat (length (keydata k)) else 0.
Definition Clear (k : CKey) : CKey :=
  mkKey false true (replicate (Z.to_nat (key_size k)) 0 ++ drop (Z.to_nat (key_size k)) (keydata k)).

(** A public key is the bytes it stores, as far as they count. *)
Definition GetLen (chHeader : Z) : Z :=
  if (chHeader =? 2) || (chHeader =? 3) then 33
  else if (chHeader =? 4) || (chHeader =? 6) || (chHeader =? 7) then 65
  else 0.
Definition pubkey_size (vch : bytes) : Z := GetLen (nth 0 vch 0xFF).
Definition Invalidated : bytes := [0xFF].
Definition CPubKey_Set (l : bytes) : bytes :=
  let len := match l with [] => 0 | c :: _ => GetLen c end in
  if negb (len =? 0) && (len =? Z.of_nat (length l)) then l else Invalidated.

Record CExtKeyPair : Set := mkExt {
  nDepth : Z;
  vchFingerprint : bytes;
  nChild : Z;
  chaincode : bytes;
  key : CKey;
  pubkey : bytes
}.

#[global] Instance CKey_eq_dec : EqDecision CKey.
Proof. solve_decision. Defined.
#[global] Instance CExtKeyPair_eq_dec : EqDecision CExtKeyPair.
Proof. solve_decision. Defined.

(** [code[5]] to [code[8]]. *)
Definition child_bytes (n : Z) : bytes :=
  [Z.land (Z.shiftr n 24) 0xFF; Z.land (Z.shiftr n 16) 0xFF; Z.land (Z.shiftr n 8) 0xFF; Z.land (Z.shiftr n 0) 0xFF].
Definition child_of (code : bytes) : Z :=
  u32 (Z.lor (Z.lor (Z.lor (Z.shiftl (nth 5 code 0) 24) (Z.shiftl (nth 6 code 0) 16)) (Z.shiftl (nth 7 code 0) 8))
         (nth 8 code 0)).

(** [n] bytes of [code] from [i]. *)
Definition slice (i n : nat) (code : bytes) : bytes := take n (drop i code).

Section Curve.
Context (Check : bytes → bool) (point : bool → bytes → bytes).

(** [CKey::Set] and [CKey::GetPubKey]. *)
Definition CKey_Set (k : CKey) (l : bytes) (fCompressedIn : bool) : CKey :=
  if negb (Z.of_nat (length l) =? Z.of_nat (length (keydata k))) then mkKey false (fCompressed k) (keydata k)
  else if Check l then mkKey true fCompressedIn l
  else mkKey false (fCompressed k) (keydata k).
Definition GetPubKey (k : CKey) : result key_error bytes :=
  if fValid k then Ok (point (fCompressed k) (keydata k)) else Err InvalidKey.

Definition EncodeV (kp : CExtKeyPair) : result key_error bytes :=
  if key_size (key kp) =? 32
  then Ok (nDepth kp :: vchFingerprint kp ++ child_bytes (nChild kp) ++ chaincode kp ++ 0 :: keydata (key kp))
  else Err InvalidKey.

Definition DecodeV (code : bytes) : result key_error CExtKeyPair :=
  let k := CKey_Set new_key (slice 42 32 code) true in
  let! pk := GetPubKey k in
  Ok (mkExt (nth 0 code 0) (slice 1 4 code) (child_of code) (slice 9 32 code) k pk).

Definition EncodeP (kp : CExtKeyPair) : result key_error bytes :=
  if pubkey_size (pubkey kp) =? 33
  then Ok (nDepth kp :: vchFingerprint kp ++ child_bytes (nChild kp) ++ chaincode kp ++ take 33 (pubkey kp))
  else Err BadPubKeySize.

Definition DecodeP (code : bytes) : CExtKeyPair :=
  mkExt (nth 0 code 0) (slice 1 4 code) (child_of code) (slice 9 32 code) (Clear new_key) (CPubKey_Set (slice 41 33 code)).

(** [CExtKeyPair::Neutered]. *)
Definition Neutered (kp : CExtKeyPair) : CExtKeyPair :=
  mkExt (nDepth kp) (vchFingerprint kp) (nChild kp) (chaincode kp) (Clear new_key) (pubkey kp).

End Curve.

(** ** Lemmas *)

(** The widths of the fields. *)
Definition ext_ok (kp : CExtKeyPair) : Prop :=
  is_u8 (nDepth kp) ∧ bytes_ok (vchFingerprint kp) ∧ length (vchFingerprint kp) = 4%nat ∧ is_u32 (nChild kp) ∧
  bytes_ok (chaincode kp) ∧ length (chaincode kp) = 32%nat ∧
  bytes_ok (pubkey kp) ∧ Z.of_nat (length (pubkey kp)) = pubkey_size (pubkey kp).

Lemma child_bytes_ok n : bytes_ok (child_bytes n).
Proof.
  unfold child_bytes, bytes_ok, is_u8. change 0xFF with (2 ^ 8 - 1). repeat (rewrite land_ones_mod by lia).
  repeat constructor; apply Z.mod_pos_bound; lia.
Qed.

Lemma lor_bytes a b c e :
  is_u8 b → is_u8 c → is_u8 e →
  Z.lor (Z.lor (Z.lor (Z.shiftl a 24) (Z.shiftl b 16)) (Z.shiftl c 8)) e = ((a * 2 ^ 8 + b) * 2 ^ 8 + c) * 2 ^ 8 + e.
Proof.
  unfold is_u8. intros Hb Hc He. rewrite !Z.shiftl_mul_pow2 by lia.
  assert (Hlor : ∀ m k x, 0 <= k → 0 <= x < 2 ^ k → Z.lor (m * 2 ^ k) x = m * 2 ^ k + x).
  { intros m k x Hk Hx. rewrite Z.lor_comm, lor_add_disjoint by done. lia. }
  rewrite (Hlor a 24 (b * 2 ^ 16)) by lia. replace (a * 2 ^ 24 + b * 2 ^ 16) with ((a * 2 ^ 8 + b) * 2 ^ 16) by lia.
  rewrite Hlor by lia. replace ((a * 2 ^ 8 + b) * 2 ^ 16 + c * 2 ^ 8) with (((a * 2 ^ 8 + b) * 2 ^ 8 + c) * 2 ^ 8) by lia.
  by rewrite Hlor by lia.
Qed.

Lemma child_roundtrip n d fp rest :
  is_u32 n → length fp = 4%nat → child_of (d :: fp ++ child_bytes n ++ rest) = n.
Proof.
  intros Hn Hfp. destruct fp as [|f1 [|f2 [|f3 [|f4 [|]]]]]; try done. pose proof (child_bytes_ok n) as Hok.
  unfold child_of, child_bytes in *. cbn [app nth]. unfold bytes_ok in Hok. rewrite !Forall_cons in Hok. destruct Hok as (_ & Hb & Hc & He & _).
  rewrite lor_bytes by done. change 0xFF with (2 ^ 8 - 1). repeat (rewrite land_ones_mod by lia).
  rewrite !Z.shiftr_div_pow2 by lia. unfold u32, is_u32 in *. change (2 ^ 0) with 1. rewrite Z.div_1_r.
  Z.to_euclidean_division_equations; lia.
Qed.

(** The fields of a code. *)
Lemma slices d fp ch cc tl :
  length fp = 4%nat → length ch = 4%nat → length cc = 32%nat →
  let code := d :: fp ++ ch ++ cc ++ tl in
  nth 0 code 0 = d ∧ slice 1 4 code = fp ∧ slice 9 32 code = cc ∧ drop 41 code = tl.
Proof.
  intros Hf Hc Hcc. cbn zeta. unfold slice. split; [done|]. cbn [drop]. split; [|split].
  - rewrite <- Hf. apply take_app_length.
  - rewrite (app_assoc fp). rewrite drop_app_ge by (rewrite length_app; lia).
    rewrite length_app, Hf, Hc. cbn [Nat.add Nat.sub drop]. rewrite <- Hcc. apply take_app_length.
  - rewrite !(app_assoc fp), (app_assoc (fp ++ ch)). rewrite drop_app_ge by (rewrite !length_app; lia).
    rewrite !length_app, Hf, Hc, Hcc. done.
Qed.

Lemma GetLen_values c : GetLen c = 0 ∨ GetLen c = 33 ∨ GetLen c = 65.
Proof. unfold GetLen. destruct (_ || _); [auto|]. destruct (_ || _); auto. Qed.

(** Writing the public half and reading it back drops the private key. *)
Lemma DecodeP_EncodeP kp code :
  ext_ok kp → EncodeP kp = Ok code → DecodeP code = Neutered kp ∧ length code = 74%nat ∧ bytes_ok code.
Proof.
  intros (Hd & Hfp & Lfp & Hch & Hcc & Lcc & Hpk & Lpk) E. unfold EncodeP in E.
  destruct (Z.eqb_spec (pubkey_size (pubkey kp)) 33) as [E33|]; [|done].
  set (c0 := _ :: _) in E. assert (code = c0) as -> by congruence. subst c0. clear E.
  assert (Hl : length (pubkey kp) = 33%nat) by lia. rewrite (take_ge (pubkey kp)) by lia.
  destruct (slices (nDepth kp) (vchFingerprint kp) (child_bytes (nChild kp)) (chaincode kp) (pubkey kp)) as (E0 & E1 & E2 & E3);
    [done..|]. cbn zeta in E0, E1, E2, E3. split_and!.
  - unfold DecodeP. rewrite E0, E1, E2, child_roundtrip by done. unfold slice at 1. rewrite E3, take_ge by lia.
    unfold Neutered. f_equal. unfold CPubKey_Set, pubkey_size in *. destruct (pubkey kp) as [|c pk]; [done|].
    cbn [nth] in *. rewrite E33. cbn [length] in *. by replace (Z.of_nat (S (length pk))) with 33 by lia.
  - cbn [length]. rewrite !length_app, Lfp, Lcc, Hl. done.
  - constructor; [done|]. repeat (apply Forall_app; split; [done || apply child_bytes_ok|]). done.
Qed.
