(* ===== verification/Address.v ===== *)
(** Addresses, after [src/src/key_io.cpp], [src/src/key_io.h] and the prefixes of
    [src/src/chainparams.cpp].

    The hash of the checksum and the curve library are parameters.  [Err] is a failed
    assertion, or a fault of memory that the program does not notice. *)
From stdpp Require Import list strings.
From S2P Require Import Prelude Serialize Text Base58 Bech32.
From S2P Require Import Stealth ExtKey.
Open Scope string_scope.
Open Scope list_scope.
Open Scope Z_scope.

Inductive address_error : Set :=
| Base58Error (e : base58_error)
| MemoryError (e : memory_error)
| KeyError (e : key_error).

(** An error of one kind as an error of this file. *)
Definition lift {E A} (f : E → address_error) (m : result E A) : result address_error A :=
  match m with
  | Ok a => Ok a
  | Err e => Err (f e)
  end.

(** ** Chain parameters *)

Inductive Base58Type : Set :=
| PUBKEY_ADDRESS | SCRIPT_ADDRESS | SECRET_KEY | EXT_PUBLIC_KEY | EXT_SECRET_KEY | STEALTH_ADDRESS
| EXT_KEY_HASH | EXT_ACC_HASH | EXT_PUBLIC_KEY_BTC | EXT_SECRET_KEY_BTC | PUBKEY_ADDRESS_256 | SCRIPT_ADDRESS_256
| STAKE_ONLY_PKADDR | SC_PUBKEY_ADDRESS | SC_SCRIPT_ADDRESS | SC_SECRET_KEY.

#[global] Instance Base58Type_eq_dec : EqDecision Base58Type.
Proof. solve_decision. Defined.

(** In the order of the loops. *)
Definition all_types : list Base58Type :=
  [PUBKEY_ADDRESS; SCRIPT_ADDRESS; SECRET_KEY; EXT_PUBLIC_KEY; EXT_SECRET_KEY; STEALTH_ADDRESS;
   EXT_KEY_HASH; EXT_ACC_HASH; EXT_PUBLIC_KEY_BTC; EXT_SECRET_KEY_BTC; PUBKEY_ADDRESS_256; SCRIPT_ADDRESS_256;
   STAKE_ONLY_PKADDR; SC_PUBKEY_ADDRESS; SC_SCRIPT_ADDRESS; SC_SECRET_KEY].

(** The arrays of prefixes, by type; a type without one has the empty vector. *)
Record CChainParams : Type := mkParams {
  Base58Prefix : Base58Type → bytes;
  Bech32Prefix : Base58Type → bytes;
  Bech32HRP : bytes
}.

Definition CMainParams : CChainParams := {|
  Base58Prefix := λ t, match t with
    | PUBKEY_ADDRESS => [0x55] | SCRIPT_ADDRESS => [0x0A]
    | PUBKEY_ADDRESS_256 => [0x99] | SCRIPT_ADDRESS_256 => [0x3d] | SECRET_KEY => [0x4B]
    | EXT_PUBLIC_KEY => [0x02; 0xD4; 0x13; 0xFF] | EXT_SECRET_KEY => [0x02; 0xD4; 0x0F; 0xC5]
    | STEALTH_ADDRESS => [0x08] | EXT_KEY_HASH => [0x4b] | EXT_ACC_HASH => [0x17]
    | EXT_PUBLIC_KEY_BTC => [0x04; 0x88; 0xB2; 0x1E] | EXT_SECRET_KEY_BTC => [0x04; 0x88; 0xAD; 0xE4]
    | SC_PUBKEY_ADDRESS => [0x3F] | SC_SCRIPT_ADDRESS => [0x12] | SC_SECRET_KEY => [0xBF]
    | STAKE_ONLY_PKADDR => []
    end;
  Bech32Prefix := λ t, match t with
    | PUBKEY_ADDRESS => codes "bh" | SCRIPT_ADDRESS => codes "br"
    | PUBKEY_ADDRESS_256 => codes "bl" | SCRIPT_ADDRESS_256 => codes "bj" | SECRET_KEY => codes "bx"
    | EXT_PUBLIC_KEY => codes "bep" | EXT_SECRET_KEY => codes "bex" | STEALTH_ADDRESS => codes "bs"
    | EXT_KEY_HASH => codes "bek" | EXT_ACC_HASH => codes "bea" | STAKE_ONLY_PKADDR => codes "bcs"
    | _ => []
    end;
  Bech32HRP := codes "bc"
|}.

(** [IsBech32Prefix] of a vector, without and with the type, and of a string. *)
Definition IsBech32Prefix (P : CChainParams) (vchPrefixIn : bytes) : bool :=
  existsb (λ t, bool_decide (vchPrefixIn = Bech32Prefix P t)) all_types.
Definition prefix_type (P : CChainParams) (vchPrefixIn : bytes) : option Base58Type :=
  find (λ t, bool_decide (vchPrefixIn = Bech32Prefix P t)) all_types.
Definition string_prefix_type (P : CChainParams) (ps : bytes) : option Base58Type :=
  find (λ t,
    let hrp := Bech32Prefix P t in
    (0 <? length hrp)%nat && (length hrp <? length ps)%nat && bool_decide (take (length hrp) ps = hrp)) all_types.

(** ** Destinations and encoded data *)

(** The bytes of the hashes, in memory order. *)
Inductive CTxDestination : Set :=
| CNoDestination
| CKeyID (id : bytes)
| CScriptID (id : bytes)
| WitnessV0ScriptHash (id : bytes)
| WitnessV0KeyHash (id : bytes)
| WitnessUnknown (version : Z) (program : bytes)
| StealthDest (sx : CStealthAddress)
| ExtKeyDest (ek : CExtKeyPair)
| CKeyID256 (id : bytes)
| CScriptID256 (id : bytes).

Record CBase58Data : Set := mkData { vchVersion : bytes; vchData : bytes; fBech32 : bool }.

(** The constructor. *)
Definition new_data : CBase58Data := mkData [] [] false.

Section KeyIO.
Context (Hash : bytes → bytes) (Check : bytes → bool) (point : bool → bytes → bytes) (P : CChainParams).

Definition SetData (vchVersionIn data : bytes) : CBase58Data :=
  mkData vchVersionIn data (IsBech32Prefix P vchVersionIn).

(** The first four bytes, for [memcmp]. *)
Definition has_version (v : bytes) (t : Base58Type) : bool := bool_decide (take 4 v = take 4 (Base58Prefix P t)).

(** The object after the call, and what it returns. *)
Definition SetString (d : CBase58Data) (psz : bytes) (nVersionBytes : nat)
  : result address_error (CBase58Data * bool) :=
  match string_prefix_type P psz with
  | Some prefixType =>
      let d := mkData (Bech32Prefix P prefixType) (vchData d) true in
      let ret := Decode psz in
      if (length ret.2 =? 0)%nat then Ok (d, false)
      else
        let '(data, ok) := ConvertBits 5 8 false ret.2 in
        if negb ok then Ok (d, false) else Ok (mkData (vchVersion d) data true, true)
  | None =>
      let! r := lift Base58Error (DecodeBase58Check Hash psz) in
      let rc58 := bool_decide (r ≠ None) in
      let vchTemp := default [] r in
      let ext := rc58 && negb (nVersionBytes =? 4)%nat && (length vchTemp =? 78)%nat in
      if ext && negb (has_version vchTemp EXT_PUBLIC_KEY) && has_version vchTemp EXT_SECRET_KEY then
        let! ekp := lift KeyError (DecodeV Check point (drop 4 vchTemp)) in
        let! data := lift KeyError (EncodeP ekp) in
        Ok (mkData (Base58Prefix P EXT_PUBLIC_KEY) data false, true)
      else
        let nVersionBytes := if ext && has_version vchTemp EXT_PUBLIC_KEY then 4%nat else nVersionBytes in
        if negb rc58 || (length vchTemp <? nVersionBytes)%nat then Ok (mkData [] [] false, false)
        else Ok (mkData (take nVersionBytes vchTemp) (drop nVersionBytes vchTemp) false, true)
  end.

Definition ToString (d : CBase58Data) : result address_error bytes :=
  if fBech32 d then
    let rv := Encode (vchVersion d) (ConvertBits 8 5 true (vchData d)).1 in
    Ok (if (length rv =? 0)%nat then codes "bech32 encode failed." else rv)
  else lift Base58Error (EncodeBase58Check Hash (vchVersion d ++ vchData d)).

(** The prefix of a type, in one of the two forms. *)
Definition version_of (bech : bool) (t : Base58Type) : bytes := if bech then Bech32Prefix P t else Base58Prefix P t.

(** [CBitcoinAddress::Set], and its visitor. *)
Definition Set_ (d : CBase58Data) (dest : CTxDestination) (bech : bool) : result address_error (CBase58Data * bool) :=
  match dest with
  | CKeyID id => Ok (SetData (version_of bech PUBKEY_ADDRESS) (take 20 id), true)
  | CScriptID id => Ok (SetData (version_of bech SCRIPT_ADDRESS) (take 20 id), true)
  | CKeyID256 id => Ok (SetData (version_of bech PUBKEY_ADDRESS_256) (take 32 id), true)
  | CScriptID256 id => Ok (SetData (version_of bech SCRIPT_ADDRESS_256) (take 32 id), true)
  | StealthDest sx =>
      match ToRaw sx with
      | None => Ok (d, false)
      | Some raw => Ok (SetData (version_of bech STEALTH_ADDRESS) raw, true)
      end
  | ExtKeyDest ek =>
      let! data := lift KeyError (EncodeP ek) in
      Ok (SetData (version_of bech EXT_PUBLIC_KEY) data, true)
  | _ => Ok (d, false)
  end.

(** [vchVersion == Params().Base58Prefix(t) || vchVersion == Params().Bech32Prefix(t)]. *)
Definition is_version (v : bytes) (t : Base58Type) : bool :=
  bool_decide (v = Base58Prefix P t) || bool_decide (v = Bech32Prefix P t).

Definition IsValidStealthAddress (d : CBase58Data) : bool :=
  if negb (is_version (vchVersion d) STEALTH_ADDRESS) then false
  else if Z.of_nat (length (vchData d)) <? MIN_STEALTH_RAW_SIZE then false
  else
    let nPkSpend := nth 34 (vchData d) 0 in
    if negb (nPkSpend =? 1) then false
    else
      let nBits := nth (Z.to_nat (35 + EC_COMPRESSED_SIZE * nPkSpend + 1)) (vchData d) 0 in
      if 32 <? nBits then false
      else Z.of_nat (length (vchData d)) =?
             MIN_STEALTH_RAW_SIZE + EC_COMPRESSED_SIZE * (nPkSpend - 1) + prefix_bytes nBits.

(** [IsValid(const CChainParams&)]. *)
Definition IsValid (d : CBase58Data) : bool :=
  let size := Z.of_nat (length (vchData d)) in
  let known t := bool_decide (vchVersion d = Base58Prefix P t) in
  if fBech32 d then
    match prefix_type P (vchVersion d) with
    | None => false
    | Some prefix =>
        match prefix with
        | PUBKEY_ADDRESS | SCRIPT_ADDRESS | EXT_KEY_HASH | EXT_ACC_HASH | STAKE_ONLY_PKADDR => size =? 20
        | PUBKEY_ADDRESS_256 | SCRIPT_ADDRESS_256 => size =? 32
        | EXT_PUBLIC_KEY | EXT_SECRET_KEY => size =? 74
        | STEALTH_ADDRESS => IsValidStealthAddress d
        | _ => false
        end
    end
  else if (size =? 20) && (known PUBKEY_ADDRESS || known SCRIPT_ADDRESS) then true
  else if IsValidStealthAddress d then true
  else if (length (vchVersion d) =? 4)%nat && (known EXT_PUBLIC_KEY || known EXT_SECRET_KEY) then size =? 74
  else (known PUBKEY_ADDRESS_256 || known SCRIPT_ADDRESS_256) && (size =? 32).

Definition Get (d : CBase58Data) : result address_error CTxDestination :=
  let v := vchVersion d in
  if negb (IsValid d) then Ok CNoDestination
  else if is_version v PUBKEY_ADDRESS then Ok (CKeyID (take 20 (vchData d)))
  else if is_version v SCRIPT_ADDRESS then Ok (CScriptID (take 20 (vchData d)))
  else if is_version v EXT_SECRET_KEY then
    let! kp := lift KeyError (DecodeV Check point (vchData d)) in Ok (ExtKeyDest kp)
  else if is_version v STEALTH_ADDRESS then
    let! (sx, rc) := lift MemoryError (FromRaw (new_stealth 0) (vchData d) (Z.of_nat (length (vchData d)))) in
    Ok (if rc =? 0 then StealthDest sx else CNoDestination)
  else if is_version v EXT_PUBLIC_KEY then Ok (ExtKeyDest (DecodeP (vchData d)))
  else if is_version v PUBKEY_ADDRESS_256 then Ok (CKeyID256 (take 32 (vchData d)))
  else if is_version v SCRIPT_ADDRESS_256 then Ok (CScriptID256 (take 32 (vchData d)))
  else Ok CNoDestination.

(** [CBitcoinAddress(dest, bech).ToString()]. *)
Definition address_string (dest : CTxDestination) (bech : bool) : result address_error bytes :=
  let! (addr, _) := Set_ new_data dest bech in ToString addr.

(** [bech32::Encode(hrp, ...)] of whole bytes, after some groups. *)
Definition bech32_string (hrp groups data : bytes) : bytes := Encode hrp (groups ++ (ConvertBits 8 5 true data).1).

(** [EncodeDestination], and the visitor [DestinationEncoder]. *)
Definition EncodeDestination (dest : CTxDestination) (bech stake_only : bool) : result address_error bytes :=
  match dest with
  | CKeyID id =>
      if bech then
        Ok (bech32_string (Bech32Prefix P (if stake_only then STAKE_ONLY_PKADDR else PUBKEY_ADDRESS)) [] id)
      else lift Base58Error (EncodeBase58Check Hash (Base58Prefix P PUBKEY_ADDRESS ++ id))
  | CScriptID id =>
      if bech then Ok (bech32_string (Bech32Prefix P SCRIPT_ADDRESS) [] id)
      else lift Base58Error (EncodeBase58Check Hash (Base58Prefix P SCRIPT_ADDRESS ++ id))
  | WitnessV0KeyHash id | WitnessV0ScriptHash id => Ok (bech32_string (Bech32HRP P) [0] id)
  | WitnessUnknown version program =>
      let len := Z.of_nat (length program) in
      if (version <? 1) || (16 <? version) || (len <? 2) || (40 <? len) then Ok []
      else Ok (bech32_string (Bech32HRP P) [version] program)
  | CNoDestination => Ok []
  | ExtKeyDest _ | StealthDest _ | CKeyID256 _ | CScriptID256 _ => address_string dest bech
  end.

(** The last part of [DecodeDestination]: witness programs. *)
Definition decode_witness (str : bytes) : CTxDestination :=
  match Decode str with
  | (hrp, v :: prog) =>
      if bool_decide (hrp = Bech32HRP P) then
        let '(data, ok) := ConvertBits 5 8 false prog in
        if negb ok then CNoDestination
        else if v =? 0 then
          if (length data =? 20)%nat then WitnessV0KeyHash data
          else if (length data =? 32)%nat then WitnessV0ScriptHash data
          else CNoDestination
        else if (16 <? v) || (length data <? 2)%nat || (40 <? length data)%nat then CNoDestination
        else WitnessUnknown v data
      else CNoDestination
  | _ => CNoDestination
  end.

(** [data.size() == 20 + prefix.size() && std::equal(prefix.begin(), prefix.end(), data.begin())]. *)
Definition hash_with_prefix (t : Base58Type) (data : bytes) : bool :=
  let prefix := Base58Prefix P t in
  (length data =? 20 + length prefix)%nat && bool_decide (take (length prefix) data = prefix).

Definition DecodeDestination (str : bytes) (allow_stake_only : bool) : result address_error CTxDestination :=
  let! (addr, _) := SetString new_data (c_str str) 1 in
  if IsValid addr then
    Get (if allow_stake_only && bool_decide (vchVersion addr = Bech32Prefix P STAKE_ONLY_PKADDR)
         then mkData (Bech32Prefix P PUBKEY_ADDRESS) (vchData addr) (fBech32 addr)
         else addr)
  else
    let! r := lift Base58Error (DecodeBase58Check Hash (c_str str)) in
    match r with
    | None => Ok (decode_witness str)
    | Some data =>
        let stealth := Base58Prefix P STEALTH_ADDRESS in
        if hash_with_prefix PUBKEY_ADDRESS data then Ok (CKeyID (drop (length (Base58Prefix P PUBKEY_ADDRESS)) data))
        else if hash_with_prefix SCRIPT_ADDRESS data then Ok (CScriptID (drop (length (Base58Prefix P SCRIPT_ADDRESS)) data))
        else if (length stealth <? length data)%nat && bool_decide (take (length stealth) data = stealth) then
          let! (sx, rc) := lift MemoryError
            (FromRaw (new_stealth 0) (drop (length stealth) data) (Z.of_nat (length data))) in
          Ok (if rc =? 0 then StealthDest sx else CNoDestination)
        else Ok (decode_witness str)
    end.

End KeyIO.

(** ** No confusion of the two forms *)

Definition unch (c : Z) : Z := nth (Z.to_nat (u8 c)) mapBase58 (-1).

(** None of the intervals from [H * p] to [(H + 1) * p], for [p] multiplied by 58 again
    and again, meets the one from [lo] to [hi]. *)
Fixpoint none_meets (fuel : nat) (H lo hi p : Z) : bool :=
  match fuel with
  | O => true
  | S f => negb ((H * p <? hi) && (lo <? (H + 1) * p)) && none_meets f H lo hi (58 * p)
  end.

Lemma none_meets_spec fuel H lo hi p k :
  none_meets fuel H lo hi p = true → (k < fuel)%nat →
  hi <= H * (p * 58 ^ Z.of_nat k) ∨ (H + 1) * (p * 58 ^ Z.of_nat k) <= lo.
Proof.
  revert p k. induction fuel as [|fuel IH]; intros p k; [lia|]. cbn [none_meets].
  intros [Hn Hr]%andb_true_iff Hk. destruct k as [|k].
  - rewrite Z.mul_1_r. apply negb_true_iff, andb_false_iff in Hn as [?%Z.ltb_ge|?%Z.ltb_ge]; [by left|by right].
  - destruct (IH (58 * p) k Hr ltac:(lia)) as [E|E]; [left|right]; rewrite Nat2Z.inj_succ, Z.pow_succ_r by lia; lia.
Qed.

(** No number of [n] bytes that starts with [ver] has a Base58 form that starts with
    the characters [h]. *)
Definition apart (ver : bytes) (n : nat) (h : bytes) : bool :=
  let m := Z.of_nat n - Z.of_nat (length ver) in
  let lo := be_num 256 ver * 256 ^ m in
  let hi := (be_num 256 ver + 1) * 256 ^ m in
  let H := be_num 58 (map unch h) in
  existsb (λ c, unch c =? -1) h ||
  none_meets (2 * n + 2) H lo hi 1.

Lemma apart_spec ver rest h z ds :
  digits 256 (ver ++ rest) → head ver ≠ Some 0 → ver ≠ [] → canonical 58 ds →
  z = length (span (Z.eqb 0) (ver ++ rest)) → be_num 58 ds = be_num 256 (skip (Z.eqb 0) (ver ++ rest)) →
  apart ver (length (ver ++ rest)) h = true → h ≠ [] → take (length h) (replicate z 49 ++ map ch ds) ≠ h.
Proof.
  intros Hv Hhd Hne Hds Hz Hn Ha Hh E. destruct ver as [|v0 ver]; [done|]. cbn [app span skip head] in *.
  destruct (Z.eqb_spec 0 v0) as [<-|Hv0]; [done|]. subst z. cbn [length replicate app] in *.
  set (w := v0 :: ver ++ rest) in *. rewrite <- fmap_take in E. 
  set (hd := take (length h) ds) in *. set (tl := drop (length h) ds).
  assert (Eds : ds = hd ++ tl) by (symmetry; apply take_drop).
  assert (Hd : digits 58 hd) by (apply Forall_take, Hds). assert (Ht : digits 58 tl) by (apply Forall_drop, Hds).
  assert (Hun : map unch h = hd).
  { rewrite <- E. clear -Hd. induction Hd as [|d l Hd _ IH]; [done|]. cbn [fmap list_fmap map]. rewrite IH. f_equal.
    by destruct (map_ch d Hd) as (? & _). }
  apply orb_true_iff in Ha as [Ha|Ha].
  - apply existsb_exists in Ha as (c & Hc & Hm%Z.eqb_eq). assert (unch c ∈ hd) as Hin.
    { rewrite <- Hun. apply list_elem_of_In, in_map, Hc. }
    unfold digits in Hd. rewrite Forall_forall in Hd. specialize (Hd _ Hin). cbv beta in Hd. lia.
  - pose proof (encoded_length ds w Hds Hv Hn) as Hlen.
    assert (length tl <= length ds)%nat by (subst tl; rewrite length_drop; lia).
    apply (none_meets_spec _ _ _ _ _ (length tl)) in Ha; [|unfold w in Hlen; cbn [length] in *; lia]. rewrite Hun, Z.mul_1_l in Ha.
    rewrite Eds, be_num_app in Hn.
    pose proof (be_num_nonneg 58 tl ltac:(lia) Ht) as Htl.
    assert (Ew : be_num 256 w = be_num 256 (v0 :: ver) * 256 ^ Z.of_nat (length rest) + be_num 256 rest)
      by apply (be_num_app 256 (v0 :: ver) rest).
    apply (Forall_app _ (v0 :: ver) rest) in Hv as [_ Hrest].
    pose proof (be_num_nonneg 256 rest ltac:(lia) Hrest) as Hr.
    replace (Z.of_nat _ - Z.of_nat (length (v0 :: ver))) with (Z.of_nat (length rest)) in Ha
      by (cbn [length]; rewrite length_app; lia).
    lia.
Qed.

(** No address of this version and length is taken for a Bech32 string of the main
    chain. *)
Definition all_apart (ver : bytes) (n : nat) : bool :=
  forallb (λ t, let h := Bech32Prefix CMainParams t in bool_decide (h = []) || apart ver n h) all_types.

Section Main.
Context (Hash : bytes → bytes) (Check : bytes → bool) (point : bool → bytes → bytes).
Hypothesis Hash_ok : ∀ x, bytes_ok (Hash x) ∧ length (Hash x) = 32%nat.

Abbreviation main := CMainParams.
Abbreviation decode s := (DecodeDestination Hash Check point main s false).

(** A Base58 address of the main chain is read as one. *)
Lemma base58_form ver data :
  bytes_ok (ver ++ data) → head ver ≠ Some 0 → ver ≠ [] → Z.of_nat (length (ver ++ data)) < 2 ^ 20 →
  all_apart ver (length (ver ++ data) + 4) = true →
  ∃ s, EncodeBase58Check Hash (ver ++ data) = Ok s ∧ c_str s = s ∧ string_prefix_type main s = None ∧
    DecodeBase58Check Hash s = Ok (Some (ver ++ data)).
Proof using Hash_ok.
  intros Hv Hhd Hne Hlen Ha. destruct (DecodeBase58Check_Encode Hash (ver ++ data) Hash_ok Hv Hlen)
    as (z & ds & He & Hz & Hds & Hn & Hd). exists (replicate z 49 ++ map ch ds). split_and!; [done| | |done].
  - apply c_str_id. eapply Forall_impl; [apply chars_ok, Hds|]. cbn. lia.
  - unfold string_prefix_type. destruct (find _ _) as [t|] eqn:Ef; [exfalso|done]. apply find_some in Ef as [Ht Ef]. cbv beta zeta in Ef.
    unfold all_apart in Ha. rewrite forallb_forall in Ha. specialize (Ha t Ht). cbv zeta in Ha.
    set (h := Bech32Prefix main t) in *. destruct (decide (h = [])) as [->|Hh]; [done|].
    rewrite bool_decide_false in Ha by done. cbn [orb] in Ha. apply andb_true_iff in Ef as [_ Ef%bool_decide_eq_true]. revert Ef.
    destruct (Hash_ok (ver ++ data)) as [Hok Hl32].
    apply (apart_spec ver (data ++ take 4 (Hash (ver ++ data)))); try rewrite app_assoc; try done.
    + apply Forall_app. split; [done|by apply Forall_take].
    + rewrite length_app, length_take, Hl32. done.
Qed.

(** What [SetString] makes of the Base58 form. *)
Lemma base58_set t data s d :
  string_prefix_type main s = None → DecodeBase58Check Hash s = Ok (Some (Base58Prefix main t ++ data)) →
  (length (Base58Prefix main t) = 1%nat ∧ length data ≠ 77%nat ∨ t = EXT_PUBLIC_KEY ∧ length data = 74%nat) →
  SetString Hash Check point main d s 1 = Ok (mkData (Base58Prefix main t) data false, true).
Proof using.
  intros Hp Hd Ht. unfold SetString. rewrite Hp, Hd. cbn [lift rbind from_option]. unfold id. rewrite bool_decide_true by done.
  rewrite length_app. destruct Ht as [[Hl Hne]|[-> Hl]].
  - rewrite Hl. destruct (Nat.eqb_spec (1 + length data) 78); [lia|]. cbn [andb negb Nat.eqb orb].
    destruct (Nat.ltb_spec (1 + length data) 1); [lia|].
    rewrite <- Hl. by rewrite take_app_length, drop_app_length.
  - rewrite Hl. cbn [length Base58Prefix main]. cbn [Nat.eqb Nat.add andb negb orb].
    change (has_version main (Base58Prefix main EXT_PUBLIC_KEY ++ data) EXT_PUBLIC_KEY) with true. done.
Qed.

(** And of the Bech32 form. *)
Lemma bech32_prefix t rest :
  Bech32Prefix main t ≠ [] → string_prefix_type main (Bech32Prefix main t ++ 49 :: rest) = Some t.
Proof using. destruct t; intros H; try done; destruct rest; vm_compute; reflexivity. Qed.

Lemma main_hrp t : Bech32Prefix main t ≠ [] →
  Forall lower_char (Bech32Prefix main t) ∧ (1 <= length (Bech32Prefix main t) <= 3)%nat ∧
  prefix_type main (Bech32Prefix main t) = Some t.
Proof using. destruct t; intros H; try done; by_eval. Qed.

(** The groups of a short string, and what they encode to. *)
Lemma groups_length data :
  bytes_ok data → (0 < length data <= 80)%nat →
  fives (ConvertBits 8 5 true data).1 ∧ (0 < length (ConvertBits 8 5 true data).1 <= 128)%nat.
Proof using.
  intros Hd Hl. destruct (ConvertBits_pad_spec 8 5 ltac:(lia) ltac:(lia) data Hd) as (o & p & -> & Hp & Ho & Hlen & _).
  split; [done|]. cbn [fst]. lia.
Qed.

Lemma charset_nonzero v : fives v → Forall (λ c, c ≠ 0) (map charset v).
Proof using.
  intros Hv. apply Forall_map. eapply Forall_impl; [exact Hv|]. intros d Hd.
  destruct (charset_spec d Hd) as (_ & ? & _). cbv beta. lia.
Qed.

Lemma bech32_string_ok hrp data :
  Forall lower_char hrp → (1 <= length hrp <= 83)%nat → bytes_ok data → (0 < length data <= 80)%nat →
  (length hrp + 7 + length (ConvertBits 8 5 true data).1 <= 140)%nat →
  let s := Encode hrp (ConvertBits 8 5 true data).1 in
  c_str s = s ∧ Decode s = (hrp, (ConvertBits 8 5 true data).1).
Proof using.
  intros Hh Hl Hd Hld H140. destruct (groups_length data Hd Hld) as [Hg Hlg]. cbn zeta. split.
  - assert (Hb : bytes_ok hrp) by (eapply Forall_impl; [exact Hh|]; intros c [? _]; unfold is_u8; lia).
    destruct (CreateChecksum_spec hrp _ Hb Hg) as (Hcs & _ & _). apply c_str_id. apply Forall_app. split.
    + eapply Forall_impl; [exact Hh|]. intros c [? _]. lia.
    + constructor; [lia|]. apply charset_nonzero. by apply Forall_app.
  - apply Decode_Encode; [done|lia|done|lia].
Qed.

Lemma bech32_set t data s d :
  Bech32Prefix main t ≠ [] → bytes_ok data → (0 < length data <= 80)%nat →
  string_prefix_type main s = Some t → (∃ hrp, Decode s = (hrp, (ConvertBits 8 5 true data).1)) →
  SetString Hash Check point main d s 1 = Ok (mkData (Bech32Prefix main t) data true, true).
Proof using.
  intros Ht Hd Hl Hs [hrp Hdec]. destruct (groups_length data Hd Hl) as [Hg Hlg]. unfold SetString.
  rewrite Hs, Hdec. cbn [snd]. destruct (Nat.eqb_spec (length (ConvertBits 8 5 true data).1) 0); [lia|].
  by rewrite ConvertBits_inverse.
Qed.

Lemma decode_valid s addr b allow :
  c_str s = s → SetString Hash Check point main new_data s 1 = Ok (addr, b) → IsValid main addr = true →
  vchVersion addr ≠ Bech32Prefix main STAKE_ONLY_PKADDR →
  DecodeDestination Hash Check point main s allow = Get Check point main addr.
Proof using.
  intros Hc Hs Hv Hne. unfold DecodeDestination. rewrite Hc, Hs. cbn [rbind]. rewrite Hv.
  rewrite bool_decide_false by done. by rewrite andb_false_r.
Qed.

(** The two forms of a type and data, read back as an object. *)
Lemma forms_read t data (bech : bool) :
  Bech32Prefix main t ≠ [] → bytes_ok (Base58Prefix main t ++ data) → (0 < length data <= 80)%nat →
  (length (Base58Prefix main t) = 1%nat ∧ length data ≠ 77%nat ∨ t = EXT_PUBLIC_KEY ∧ length data = 74%nat) →
  head (Base58Prefix main t) ≠ Some 0 → all_apart (Base58Prefix main t) (length (Base58Prefix main t ++ data) + 4) = true →
  ∃ s, (if bech then Ok (Encode (Bech32Prefix main t) (ConvertBits 8 5 true data).1)
        else lift Base58Error (EncodeBase58Check Hash (Base58Prefix main t ++ data))) = Ok s ∧ c_str s = s ∧
    SetString Hash Check point main new_data s 1 = Ok (mkData (version_of main bech t) data bech, true).
Proof using Hash_ok.
  intros Ht Hok Hl Hv Hhd Ha. destruct (main_hrp t Ht) as (Hlow & Hlh & _).
  assert (Hd : bytes_ok data) by by apply Forall_app in Hok as [_ ?]. destruct bech.
  - destruct (bech32_string_ok (Bech32Prefix main t) data) as [Hc Hdec];
      [done|lia|done|lia|pose proof (groups_length data Hd Hl); lia|].
    eexists. split_and!; [done|done|]. apply bech32_set; [done|done|lia|by apply bech32_prefix|by eexists].
  - destruct (base58_form (Base58Prefix main t) data) as (s & He & Hc & Hp & Hdec); [done|done| | |done|].
    + destruct t; try done; destruct Hv as [[? _]|[? _]]; done.
    + rewrite length_app. destruct Hv as [[-> _]|[-> _]]; cbn [Base58Prefix main length]; lia.
    + exists s. rewrite He. split_and!; [done|done|]. by apply base58_set.
Qed.

(** Types that stand for destinations. *)
Definition dest_type (t : Base58Type) : Prop :=
  t ∈ [PUBKEY_ADDRESS; SCRIPT_ADDRESS; PUBKEY_ADDRESS_256; SCRIPT_ADDRESS_256; STEALTH_ADDRESS; EXT_PUBLIC_KEY].

Lemma ToString_form t data (bech : bool) :
  dest_type t →
  ToString Hash (SetData main (version_of main bech t) data) =
    if bech then Ok (Encode (Bech32Prefix main t) (ConvertBits 8 5 true data).1)
    else lift Base58Error (EncodeBase58Check Hash (Base58Prefix main t ++ data)).
Proof using.
  intros Ht. unfold ToString, SetData. cbn [fBech32 vchVersion vchData].
  assert (IsBech32Prefix main (version_of main bech t) = bech) as ->.
  { unfold dest_type in Ht. repeat (apply elem_of_cons in Ht as [->|Ht]; [by destruct bech|]). by apply elem_of_nil in Ht. }
  destruct bech; [|done]. unfold Encode. rewrite length_app. cbn [length].
  by replace ((length (version_of main true t) + S _ =? 0)%nat) with false by (symmetry; apply Nat.eqb_neq; lia).
Qed.

(** What [Get] makes of the object, by type. *)
Lemma get_hash t data bech :
  (t = PUBKEY_ADDRESS ∨ t = SCRIPT_ADDRESS) → length data = 20%nat →
  let d := mkData (version_of main bech t) data bech in
  IsValid main d = true ∧
  Get Check point main d = Ok (if decide (t = PUBKEY_ADDRESS) then CKeyID data else CScriptID data).
Proof using.
  intros Ht Hl. assert (Hv : IsValid main (mkData (version_of main bech t) data bech) = true).
  { unfold IsValid. cbn [vchVersion vchData fBech32]. rewrite Hl. by destruct Ht as [-> | ->], bech. }
  cbn zeta. split; [done|]. unfold Get. rewrite Hv. cbn [negb vchVersion vchData]. rewrite (take_ge data) by lia.
  by destruct Ht as [-> | ->], bech.
Qed.

Lemma get_hash256 t data bech :
  (t = PUBKEY_ADDRESS_256 ∨ t = SCRIPT_ADDRESS_256) → length data = 32%nat →
  let d := mkData (version_of main bech t) data bech in
  IsValid main d = true ∧
  Get Check point main d = Ok (if decide (t = PUBKEY_ADDRESS_256) then CKeyID256 data else CScriptID256 data).
Proof using.
  intros Ht Hl. assert (Hv : IsValid main (mkData (version_of main bech t) data bech) = true).
  { unfold IsValid. cbn [vchVersion vchData fBech32]. rewrite Hl. by destruct Ht as [-> | ->], bech. }
  cbn zeta. split; [done|]. unfold Get. rewrite Hv. cbn [negb vchVersion vchData]. rewrite !(take_ge data 32) by lia.
  by destruct Ht as [-> | ->], bech.
Qed.

Lemma get_ext data bech :
  length data = 74%nat →
  let d := mkData (version_of main bech EXT_PUBLIC_KEY) data bech in
  IsValid main d = true ∧ Get Check point main d = Ok (ExtKeyDest (DecodeP data)).
Proof using.
  intros Hl. assert (Hv : IsValid main (mkData (version_of main bech EXT_PUBLIC_KEY) data bech) = true).
  { unfold IsValid. cbn [vchVersion vchData fBech32]. rewrite Hl. by destruct bech. }
  cbn zeta. split; [done|]. unfold Get. rewrite Hv. cbn [negb vchVersion vchData]. by destruct bech.
Qed.

Lemma get_stealth sx raw bech :
  one_key sx → ToRaw sx = Some raw →
  let d := mkData (version_of main bech STEALTH_ADDRESS) raw bech in
  IsValid main d = true ∧ Get Check point main d = Ok (StealthDest sx).
Proof using.
  intros Hk Hr. destruct (ToRaw_one_key sx Hk) as (raw' & Hr' & Hok & Hlen & H34 & H69).
  rewrite Hr in Hr'. injection Hr' as <-. destruct Hk as (Hsx & _ & _ & H32).
  pose proof (prefix_bytes_range _ (proj1 (proj2 Hsx))) as (Hpb & _ & _).
  assert (Hst : IsValidStealthAddress main (mkData (version_of main bech STEALTH_ADDRESS) raw bech) = true).
  { unfold IsValidStealthAddress. cbn [vchVersion vchData]. replace (is_version main _ _) with true by by destruct bech.
    cbn [negb]. rewrite Hlen. unfold MIN_STEALTH_RAW_SIZE, EC_COMPRESSED_SIZE.
    destruct (Z.ltb_spec (70 + prefix_bytes (number_bits (prefix sx))) (1 + 33 + 1 + 33 + 1 + 1)); [lia|].
    rewrite H34. cbn [Z.eqb Pos.eqb negb]. change (Z.to_nat (35 + 33 * 1 + 1)) with 69%nat. rewrite H69.
    destruct (Z.ltb_spec 32 (number_bits (prefix sx))); [lia|]. apply Z.eqb_eq. lia. }
  assert (Hv : IsValid main (mkData (version_of main bech STEALTH_ADDRESS) raw bech) = true).
  { unfold IsValid. rewrite Hst. cbn [vchVersion vchData fBech32]. by destruct bech, (_ =? 20). }
  cbn zeta. split; [done|]. unfold Get. rewrite Hv. cbn [negb vchVersion vchData].
  rewrite (FromRaw_ToRaw sx) by done. by destruct bech.
Qed.

(** Destinations that addresses are made for, and what is read back: an extended key
    comes back without its private half. *)
Definition addressable (dest : CTxDestination) : Prop :=
  match dest with
  | CKeyID id | CScriptID id => bytes_ok id ∧ length id = 20%nat
  | CKeyID256 id | CScriptID256 id => bytes_ok id ∧ length id = 32%nat
  | StealthDest sx => one_key sx
  | ExtKeyDest ek => ext_ok ek ∧ pubkey_size (pubkey ek) = 33
  | _ => False
  end.
Definition read_as (dest : CTxDestination) : CTxDestination :=
  match dest with
  | ExtKeyDest ek => ExtKeyDest (Neutered ek)
  | _ => dest
  end.

(** The lengths that occur keep the two forms apart. *)
Lemma apart_main t n : (n, t) ∈ [(20, PUBKEY_ADDRESS); (20, SCRIPT_ADDRESS); (32, PUBKEY_ADDRESS_256);
    (32, SCRIPT_ADDRESS_256); (70, STEALTH_ADDRESS); (71, STEALTH_ADDRESS); (72, STEALTH_ADDRESS);
    (73, STEALTH_ADDRESS); (74, STEALTH_ADDRESS); (74, EXT_PUBLIC_KEY)]%nat →
  all_apart (Base58Prefix main t) (length (Base58Prefix main t) + n + 4) = true.
Proof using.
  intros H. repeat (apply elem_of_cons in H as [[= -> ->]|H]; [vm_compute; reflexivity|]). by apply elem_of_nil in H.
Qed.

(** What it takes to be read back: a type and data, with the string that is written and
    the destination that is got. *)
Definition payload (dest : CTxDestination) (bech : bool) (t : Base58Type) (data : bytes) : Prop :=
  dest_type t ∧ bytes_ok data ∧
  EncodeDestination Hash main dest bech false =
    (if bech then Ok (Encode (Bech32Prefix main t) (ConvertBits 8 5 true data).1)
     else lift Base58Error (EncodeBase58Check Hash (Base58Prefix main t ++ data))) ∧
  IsValid main (mkData (version_of main bech t) data bech) = true ∧
  Get Check point main (mkData (version_of main bech t) data bech) = Ok (read_as dest) ∧
  (length data, t) ∈ [(20, PUBKEY_ADDRESS); (20, SCRIPT_ADDRESS); (32, PUBKEY_ADDRESS_256);
    (32, SCRIPT_ADDRESS_256); (70, STEALTH_ADDRESS); (71, STEALTH_ADDRESS); (72, STEALTH_ADDRESS);
    (73, STEALTH_ADDRESS); (74, STEALTH_ADDRESS); (74, EXT_PUBLIC_KEY)]%nat.

Lemma payload_exists dest bech : addressable dest → ∃ t data, payload dest bech t data.
Proof using.
  unfold payload. destruct dest as [|id|id| | | |sx|ek|id|id]; cbn [addressable]; try done.
  - intros [Hok Hl]. exists PUBKEY_ADDRESS, id. destruct (get_hash PUBKEY_ADDRESS id bech) as [Hv Hg]; [by left|done|].
    split_and!; [by_eval|done|by destruct bech|done|done|rewrite Hl; by_eval].
  - intros [Hok Hl]. exists SCRIPT_ADDRESS, id. destruct (get_hash SCRIPT_ADDRESS id bech) as [Hv Hg]; [by right|done|].
    split_and!; [by_eval|done|by destruct bech|done|done|rewrite Hl; by_eval].
  - intros Hk. destruct (ToRaw_one_key sx Hk) as (raw & Hr & Hok & Hlen & _). exists STEALTH_ADDRESS, raw.
    destruct (get_stealth sx raw bech Hk Hr) as [Hv Hg]. split_and!; [by_eval|done| |done|done|].
    + rewrite <- ToString_form by by_eval. cbn [EncodeDestination]. unfold address_string, Set_. by rewrite Hr.
    + destruct Hk as ((_ & Hb & _) & _ & _ & H32). destruct (prefix_bytes_range _ Hb) as (Hpb & H4 & _).
      assert (length raw = 70 ∨ length raw = 71 ∨ length raw = 72 ∨ length raw = 73 ∨ length raw = 74)%nat
        as [-> |[-> |[-> |[-> | ->]]]] by lia; by_eval.
  - intros [Hek H33]. assert (He : ∃ code, EncodeP ek = Ok code) by (unfold EncodeP; rewrite H33; by eexists).
    destruct He as [code He]. destruct (DecodeP_EncodeP ek code Hek He) as (Hdec & Hl & Hok).
    exists EXT_PUBLIC_KEY, code. destruct (get_ext code bech Hl) as [Hv Hg]. rewrite Hdec in Hg.
    split_and!; [by_eval|done| |done|done|rewrite Hl; by_eval].
    rewrite <- ToString_form by by_eval. cbn [EncodeDestination]. unfold address_string, Set_. by rewrite He.
  - intros [Hok Hl]. exists PUBKEY_ADDRESS_256, id. destruct (get_hash256 PUBKEY_ADDRESS_256 id bech) as [Hv Hg]; [by left|done|].
    split_and!; [by_eval|done| |done|done|rewrite Hl; by_eval]. rewrite <- ToString_form by by_eval.
    cbn [EncodeDestination]. unfold address_string, Set_. by rewrite take_ge by lia.
  - intros [Hok Hl]. exists SCRIPT_ADDRESS_256, id. destruct (get_hash256 SCRIPT_ADDRESS_256 id bech) as [Hv Hg]; [by right|done|].
    split_and!; [by_eval|done| |done|done|rewrite Hl; by_eval]. rewrite <- ToString_form by by_eval.
    cbn [EncodeDestination]. unfold address_string, Set_. by rewrite take_ge by lia.
Qed.

End Main.

(** A stealth address that [IsValid] rejects is read once more, with the size of the
    whole string. *)
Lemma stealth_fallback Hash Check point p allow :
  (∀ x, bytes_ok (Hash x) ∧ length (Hash x) = 32%nat) → bytes_ok p → (60 <= length p <= 76)%nat →
  all_apart [8] (1 + length p + 4) = true → IsValidStealthAddress CMainParams (mkData [8] p false) = false →
  ∃ s, EncodeBase58Check Hash (8 :: p) = Ok s ∧
    DecodeDestination Hash Check point CMainParams s allow =
      let! (sx, rc) := lift MemoryError (FromRaw (new_stealth 0) p (Z.of_nat (length p) + 1)) in
      Ok (if rc =? 0 then StealthDest sx else CNoDestination).
Proof.
  intros Hh Hp Hl Ha Hst. destruct (base58_form Hash Hh [8] p) as (s & He & Hc & Hpre & Hdec); try done.
  { constructor; [unfold is_u8; lia|done]. }
  { cbn [app length]. lia. }
  exists s. split; [exact He|]. unfold DecodeDestination. rewrite Hc.
  rewrite (base58_set Hash Check point STEALTH_ADDRESS p s) by (done || (left; split; [done|lia])).
  cbn [rbind]. change (Base58Prefix CMainParams STEALTH_ADDRESS) with [8] in *.
  assert (IsValid CMainParams (mkData [8] p false) = false) as ->.
  { unfold IsValid. rewrite Hst. cbn [fBech32 vchVersion vchData]. rewrite (bool_decide_false ([8] = _)) by done.
    rewrite (bool_decide_false ([8] = _)) by done. by rewrite andb_false_r. }
  rewrite Hdec. cbn [lift rbind app]. unfold hash_with_prefix. cbn [length Base58Prefix CMainParams].
  destruct (Nat.eqb_spec (S (length p)) (20 + 1)); [lia|]. cbn [andb].
  rewrite bool_decide_true by done. destruct (Nat.ltb_spec 1 (S (length p))); [|lia]. cbn [andb drop].
  by replace (Z.of_nat (S (length p))) with (Z.of_nat (length p) + 1) by lia.
Qed.

(** The three kinds of hostile strings. *)
Lemma wide_fault Hash Check point opts scan spend nsigs nbits bits allow :
  (∀ x, bytes_ok (Hash x) ∧ length (Hash x) = 32%nat) → bytes_ok (opts :: scan ++ 1 :: spend ++ nsigs :: nbits :: bits) →
  length scan = 33%nat → length spend = 33%nat → 32 < nbits <= 48 → Z.of_nat (length bits) = prefix_bytes nbits →
  ∃ s, EncodeBase58Check Hash (8 :: opts :: scan ++ 1 :: spend ++ nsigs :: nbits :: bits) = Ok s ∧
    DecodeDestination Hash Check point CMainParams s allow = Err (MemoryError WriteBeyond).
Proof.
  intros Hh Hp Hs1 Hs2 Hn Hb. set (p := opts :: _) in *.
  assert (Hpb : prefix_bytes nbits = 5 ∨ prefix_bytes nbits = 6) by (unfold prefix_bytes; Z.to_euclidean_division_equations; lia).
  assert (Hl : length p = (70 + length bits)%nat).
  { subst p. cbn [length]. rewrite length_app. cbn [length]. rewrite length_app. cbn [length]. lia. }
  destruct (stealth_fallback Hash Check point p allow) as (s & He & Hd); [done|done|lia| | |].
  - rewrite Hl. assert (length bits = 5 ∨ length bits = 6)%nat as [-> | ->] by lia; vm_compute; reflexivity.
  - unfold IsValidStealthAddress. cbn [vchVersion vchData]. change (is_version _ _ _) with true. cbn [negb].
    unfold MIN_STEALTH_RAW_SIZE. destruct (Z.ltb_spec (Z.of_nat (length p)) (1 + 33 + 1 + 33 + 1 + 1)); [lia|].
    assert (nth 34 p 0 = 1) as ->. { subst p. cbn [nth]. rewrite app_nth2 by lia. by rewrite Hs1. }
    cbn [Z.eqb Pos.eqb negb]. change (Z.to_nat _) with 69%nat. assert (nth 69 p 0 = nbits) as ->.
    { subst p. cbn [nth]. rewrite app_nth2 by lia. rewrite Hs1. cbn [Nat.sub nth]. rewrite app_nth2 by lia. by rewrite Hs2. }
    destruct (Z.ltb_spec 32 nbits); [done|lia].
  - exists s. split; [exact He|]. rewrite Hd. subst p. rewrite FromRaw_layout by (unfold is_u8; lia).
    rewrite Hl. destruct (Z.ltb_spec (Z.of_nat (70 + length bits) + 1) (37 + 33 * 1 + prefix_bytes nbits)); [lia|].
    destruct (Z.eqb_spec (prefix_bytes nbits) 0); [lia|]. unfold read_mem.
    destruct (Z.ltb_spec (Z.of_nat (length bits)) (prefix_bytes nbits)); [lia|]. cbn [rbind].
    destruct (Z.ltb_spec 4 (prefix_bytes nbits)); [done|lia].
Qed.

Lemma short_fault Hash Check point opts scan spend nsigs allow :
  (∀ x, bytes_ok (Hash x) ∧ length (Hash x) = 32%nat) → bytes_ok (opts :: scan ++ 1 :: spend ++ [nsigs]) →
  length scan = 33%nat → length spend = 33%nat →
  ∃ s, EncodeBase58Check Hash (8 :: opts :: scan ++ 1 :: spend ++ [nsigs]) = Ok s ∧
    DecodeDestination Hash Check point CMainParams s allow = Err (MemoryError ReadBeyond).
Proof.
  intros Hh Hp Hs1 Hs2. set (p := opts :: _) in *. assert (Hl : length p = 69%nat).
  { subst p. cbn [length]. rewrite length_app. cbn [length]. rewrite length_app. cbn [length]. lia. }
  destruct (stealth_fallback Hash Check point p allow) as (s & He & Hd); [done|done|lia| | |].
  - rewrite Hl. vm_compute. reflexivity.
  - unfold IsValidStealthAddress. cbn [vchVersion vchData]. change (is_version _ _ _) with true. cbn [negb].
    by rewrite Hl.
  - exists s. split; [exact He|]. rewrite Hd, Hl. subst p. unfold FromRaw. change (Z.of_nat 69 + 1 <? MIN_STEALTH_RAW_SIZE) with false.
    cbn [read_byte rbind]. rewrite read_mem_app by (unfold EC_COMPRESSED_SIZE; lia). cbn [rbind read_byte].
    change (Z.of_nat 69 + 1 <? size_with 1) with false. cbn match.
    rewrite read_mem_app by (unfold EC_COMPRESSED_SIZE; lia). done.
Qed.

Lemma secret_assertion Hash Check point code allow :
  (∀ x, bytes_ok (Hash x) ∧ length (Hash x) = 32%nat) → bytes_ok code → length code = 74%nat →
  Check (slice 42 32 code) = false →
  ∃ s, EncodeBase58Check Hash (Base58Prefix CMainParams EXT_SECRET_KEY ++ code) = Ok s ∧
    DecodeDestination Hash Check point CMainParams s allow = Err (KeyError InvalidKey).
Proof.
  intros Hh Hp Hl Hck. destruct (base58_form Hash Hh (Base58Prefix CMainParams EXT_SECRET_KEY) code) as (s & He & Hc & Hpre & Hdec).
  { apply Forall_app. split; [by_eval|done]. }
  { done. }
  { done. }
  { rewrite length_app, Hl. done. }
  { rewrite length_app, Hl. vm_compute. reflexivity. }
  exists s. split; [done|]. unfold DecodeDestination. rewrite Hc. unfold SetString. rewrite Hpre, Hdec.
  cbn [lift rbind from_option]. unfold id. rewrite bool_decide_true by done. rewrite length_app, Hl.
  change (has_version CMainParams (Base58Prefix CMainParams EXT_SECRET_KEY ++ code) EXT_PUBLIC_KEY) with false.
  change (has_version CMainParams (Base58Prefix CMainParams EXT_SECRET_KEY ++ code) EXT_SECRET_KEY) with true.
  cbn [Base58Prefix CMainParams length Nat.add Nat.eqb andb negb]. change (drop 4 _) with code.
  unfold DecodeV, CKey_Set, GetPubKey. rewrite Hck. by destruct (negb _).
Qed.

(** ** Properties *)

(** C23: the addresses of the main chain are read back.  Whatever the 32-byte hash and
    the curve, for every key hash, script hash (of 20 or 32 bytes), stealth address with
    one key to spend with and extended key, in Base58 and in Bech32,
    [EncodeDestination] gives a string and [DecodeDestination] gives the destination
    back, an extended key without its private half: no fault, no Base58 address taken
    for a Bech32 one, no type taken for another. *)
Theorem address_roundtrip (Hash : bytes → bytes) (Check : bytes → bool) (point : bool → bytes → bytes)
    (dest : CTxDestination) (bech allow : bool) :
  (∀ x, bytes_ok (Hash x) ∧ length (Hash x) = 32%nat) → addressable dest →
  ∃ s, EncodeDestination Hash CMainParams dest bech false = Ok s ∧
    DecodeDestination Hash Check point CMainParams s allow = Ok (read_as dest).
Proof.
  intros Hh Hd. destruct (payload_exists Hash Check point dest bech Hd)
    as (t & data & Ht & Hok & Henc & Hv & Hg & Hin).
  assert (Hb : Bech32Prefix CMainParams t ≠ [] ∧ head (Base58Prefix CMainParams t) ≠ Some 0 ∧
    bytes_ok (Base58Prefix CMainParams t) ∧ version_of CMainParams bech t ≠ Bech32Prefix CMainParams STAKE_ONLY_PKADDR).
  { unfold dest_type in Ht. repeat (apply elem_of_cons in Ht as [->|Ht]; [split_and!; [by_eval..|by destruct bech]|]).
    by apply elem_of_nil in Ht. }
  destruct Hb as (Hne & Hhd & Hpre & Hst).
  assert (Hl : (0 < length data <= 80)%nat ∧
    (length (Base58Prefix CMainParams t) = 1%nat ∧ length data ≠ 77%nat ∨ t = EXT_PUBLIC_KEY ∧ length data = 74%nat)).
  { clear -Hin. repeat (apply elem_of_cons in Hin as [[= -> ->]|Hin]; [split; [lia|by_eval]|]). by apply elem_of_nil in Hin. }
  destruct Hl as [Hl Hcase]. pose proof (apart_main t (length data) Hin) as Ha.
  destruct (forms_read Hash Check point Hh t data bech) as (s & Hs & Hc & Hset); [done| |done|done|done| |].
  { by apply Forall_app. }
  { by rewrite length_app. }
  exists s. split; [congruence|]. rewrite (decode_valid Hash Check point s _ true allow Hc Hset) by done. done.
Qed.

(** A key hash, in both forms. *)
Lemma address_roundtrip_witness :
  ∃ s, EncodeDestination toy_checksum CMainParams (CKeyID (replicate 20 7)) true false = Ok s ∧
    DecodeDestination toy_checksum (λ _, true) (λ _ x, 2 :: x) CMainParams s false = Ok (CKeyID (replicate 20 7)).
Proof.
  apply (address_roundtrip toy_checksum (λ _, true) (λ _ x, 2 :: x) (CKeyID (replicate 20 7)) true false toy_checksum_ok).
  split; by_eval.
Defined.

(** C25: a Bech32 address of another chain is taken for a key hash of this one.
    [SetString] looks only at how the string starts and forgets the human-readable part
    that was decoded: for every extension of the prefix "bh" the string that encodes 20
    bytes under the longer prefix is accepted, and yields those bytes as a key hash. *)
Theorem foreign_prefix_accepted (Hash : bytes → bytes) (Check : bytes → bool) (point : bool → bytes → bytes)
    (x id : bytes) (allow : bool) :
  Forall lower_char x → (length x <= 81)%nat → bytes_ok id → length id = 20%nat →
  DecodeDestination Hash Check point CMainParams (Encode (codes "bh" ++ x) (ConvertBits 8 5 true id).1) allow =
    Ok (CKeyID id).
Proof.
  intros Hx Hl Hid L20. destruct (ConvertBits_pad_spec 8 5 ltac:(lia) ltac:(lia) id Hid) as (o & p & Eo & Hp & _ & Ho & _).
  destruct (bech32_string_ok (codes "bh" ++ x) id) as [Hc Hdec]; [|rewrite length_app; cbn; lia|done|lia| |].
  { apply Forall_app. split; [by_eval|done]. }
  { rewrite Eo, length_app. cbn [fst]. change (length (codes "bh")) with 2%nat. lia. }
  destruct (get_hash Check point PUBKEY_ADDRESS id true) as [Hv Hg]; [by left|done|]. cbn zeta in Hv, Hg.
  assert (Hset : SetString Hash Check point CMainParams new_data (Encode (codes "bh" ++ x) (ConvertBits 8 5 true id).1) 1 =
    Ok (mkData (version_of CMainParams true PUBKEY_ADDRESS) id true, true)).
  { apply (bech32_set Hash Check point PUBKEY_ADDRESS); [done|done|lia| |by eexists]. unfold Encode.
    set (r := map charset _). clearbody r. clear. destruct x as [|? x]; vm_compute; reflexivity. }
  rewrite (decode_valid Hash Check point _ _ _ allow Hc Hset Hv) by done. exact Hg.
Qed.

(** Sixteen letters from nowhere. *)
Lemma foreign_prefix_accepted_witness :
  DecodeDestination toy_checksum (λ _, true) (λ _ x, 2 :: x) CMainParams
    (Encode (codes "bh-another-chain") (ConvertBits 8 5 true (replicate 20 7)).1) false = Ok (CKeyID (replicate 20 7)).
Proof.
  apply (foreign_prefix_accepted toy_checksum (λ _, true) (λ _ x, 2 :: x) (codes "-another-chain") (replicate 20 7) false); by_eval.
Defined.

(** C26: three kinds of addresses with a correct checksum that the program does not
    survive, or not unharmed.  Decoding a stealth address that announces 33 to 48 prefix
    bits writes past the four bytes of the bit field; decoding one that lacks its last
    byte reads past the decoded string; decoding an extended private key whose 32 bytes
    are not a private key fails the assertion of [GetPubKey], which ends the process. *)
Theorem hostile_addresses (Hash : bytes → bytes) (Check : bytes → bool) (point : bool → bytes → bytes)
    (opts nsigs nbits : Z) (scan spend bits code : bytes) (allow : bool) :
  (∀ x, bytes_ok (Hash x) ∧ length (Hash x) = 32%nat) →
  bytes_ok (opts :: scan ++ 1 :: spend ++ nsigs :: nbits :: bits) → bytes_ok code →
  length scan = 33%nat → length spend = 33%nat → 32 < nbits <= 48 → Z.of_nat (length bits) = prefix_bytes nbits →
  length code = 74%nat → Check (slice 42 32 code) = false →
  (∃ s, EncodeBase58Check Hash (8 :: opts :: scan ++ 1 :: spend ++ nsigs :: nbits :: bits) = Ok s ∧
     DecodeDestination Hash Check point CMainParams s allow = Err (MemoryError WriteBeyond)) ∧
  (∃ s, EncodeBase58Check Hash (8 :: opts :: scan ++ 1 :: spend ++ [nsigs]) = Ok s ∧
     DecodeDestination Hash Check point CMainParams s allow = Err (MemoryError ReadBeyond)) ∧
  (∃ s, EncodeBase58Check Hash ([0x02; 0xD4; 0x0F; 0xC5] ++ code) = Ok s ∧
     DecodeDestination Hash Check point CMainParams s allow = Err (KeyError InvalidKey)).
Proof.
  intros Hh Hp Hcode Hs1 Hs2 Hn Hb Hlc Hck. split_and!.
  - by apply wide_fault.
  - apply short_fault; try done. apply Forall_cons in Hp as [? [? [? [? [? _]%Forall_cons]%Forall_app]%Forall_cons]%Forall_app].
    constructor; [done|]. apply Forall_app. split; [done|]. constructor; [done|]. apply Forall_app. split; [done|]. by apply Forall_singleton.
  - by apply secret_assertion.
Qed.

Lemma hostile_addresses_witness :
  ∃ s, EncodeBase58Check toy_checksum (8 :: wide_raw) = Ok s ∧
    DecodeDestination toy_checksum (λ _, false) (λ _ x, 2 :: x) CMainParams s false = Err (MemoryError WriteBeyond).
Proof.
  apply (hostile_addresses toy_checksum (λ _, false) (λ _ x, 2 :: x) 0 0 33 (replicate 33 2) (replicate 33 3)
    (replicate 5 0) (replicate 74 0) false toy_checksum_ok); by_eval.
Defined.
