(* ===== verification/Money.v ===== *)
(** Amounts as text, after [src/src/utilmoneystr.cpp]. *)
From stdpp Require Import list strings.
From S2P Require Import Prelude Serialize Text.
From S2P Require Import Transaction.
Open Scope Z_scope.

Definition CENT : Z := 1000000.

(** The decimal digits of a natural number, as [%d] prints them, and with [%08d]. *)
Fixpoint decimal (fuel : nat) (n : Z) : list Z :=
  match fuel with
  | O => []
  | S f => if n <? 10 then [n] else decimal f (n / 10) ++ [n mod 10]
  end.
Definition print_d (n : Z) : bytes := map (Z.add 48) (decimal 20 n).
Definition print_08d (n : Z) : bytes := let s := print_d n in replicate (8 - length s) 48 ++ s.

(** The loop that counts the zeros to trim; the string from its end. *)
Fixpoint trim_count (s : bytes) : nat :=
  match s with
  | c :: ((_ :: e :: _) as s') => if (c =? 48) && isdigit e then S (trim_count s') else O
  | _ => O
  end.

Definition FormatMoney (n : Z) : bytes :=
  let n_abs := if 0 <? n then n else i64 (- n) in
  let quotient := n_abs `quot` COIN in
  let remainder := n_abs `rem` COIN in
  let str := print_d quotient ++ 46 :: print_08d remainder in
  let str := take (length str - trim_count (rev str)) str in
  if n <? 0 then 45 :: str else str.

(** The loop behind the point: what it adds to [nUnits], and the rest of the string. *)
Fixpoint parse_units (nMult : Z) (p : bytes) : Z * bytes :=
  match p with
  | c :: p' =>
      if isdigit c && (0 <? nMult) then
        let '(units, rest) := parse_units (nMult / 10) p' in (nMult * (c - 48) + units, rest)
      else (0, p)
  | [] => (0, [])
  end.

(** The loop before it: [strWhole], [nUnits] and the rest, or [return false]. *)
Fixpoint parse_whole (strWhole p : bytes) : option (bytes * Z * bytes) :=
  match p with
  | [] => Some (strWhole, 0, [])
  | c :: p' =>
      if c =? 46 then
        let '(units, rest) := parse_units (CENT * 10) p' in Some (strWhole, units, rest)
      else if isspace c then Some (strWhole, 0, p)
      else if negb (isdigit c) then None
      else parse_whole (strWhole ++ [c]) p'
  end.

(** [atoi64] of a string of digits. *)
Definition atoi64 (s : bytes) : Z := be_num 10 (map (λ c, c - 48) s).

(** [nRet], or [return false]. *)
Definition ParseMoney (str : bytes) : option Z :=
  '(strWhole, nUnits, rest) ← parse_whole [] (skip isspace (c_str str));
  if negb (forallb isspace rest) then None
  else if (10 <? length strWhole)%nat then None
  else if (nUnits <? 0) || (COIN <? nUnits) then None
  else Some (i64 (atoi64 strWhole * COIN + nUnits)).

(** ** Lemmas *)

Lemma decimal_spec fuel n :
  0 <= n < 10 ^ Z.of_nat fuel → (0 < fuel)%nat →
  digits 10 (decimal fuel n) ∧ be_num 10 (decimal fuel n) = n ∧ (1 <= length (decimal fuel n))%nat ∧
  (n = 0 ∨ 10 ^ (Z.of_nat (length (decimal fuel n)) - 1) <= n).
Proof.
  revert n. induction fuel as [|f IH]; intros n Hn Hf; [lia|]. cbn [decimal].
  rewrite Nat2Z.inj_succ, Z.pow_succ_r in Hn by lia.
  destruct (Z.ltb_spec n 10) as [Hlt|Hge].
  { split_and!; [apply Forall_singleton; lia|cbn; lia|cbn; lia|cbn [length]; change (10 ^ (Z.of_nat 1 - 1)) with 1; lia]. }
  destruct f as [|f']; [cbn in Hn; lia|]. set (f := S f') in *.
  pose proof (Z.div_mod n 10). pose proof (Z.mod_pos_bound n 10).
  destruct (IH (n / 10)) as (Hd & Hnum & Hl & Hlo); [split; [apply Z.div_pos; lia|apply Z.div_lt_upper_bound; lia]|lia|].
  rewrite be_num_snoc, length_app, Hnum. cbn [length]. split_and!; [|lia|lia|right].
  - apply Forall_app. split; [done|]. apply Forall_singleton; lia.
  - rewrite Nat2Z.inj_add. replace (_ + Z.of_nat 1 - 1) with (Z.succ (Z.of_nat (length (decimal f (n / 10))) - 1)) by lia.
    rewrite Z.pow_succ_r by lia. destruct Hlo as [E|Hlo]; [rewrite E in *; lia|lia].
Qed.

(** Characters of digits. *)
Lemma digit_char d : 0 <= d < 10 → isdigit (48 + d) = true ∧ isspace (48 + d) = false ∧ 48 + d ≠ 46.
Proof.
  intros Hd. unfold isdigit, isspace. split_and!; [apply andb_true_iff; split; apply Z.leb_le; lia| |lia].
  apply orb_false_iff. split; [apply andb_false_iff; right; apply Z.leb_gt; lia|apply Z.eqb_neq; lia].
Qed.

Lemma chars_digits ds : map (λ c, c - 48) (map (Z.add 48) ds) = ds.
Proof. induction ds as [|d ds IH]; [done|]. cbn [map]. rewrite IH. f_equal. lia. Qed.

(** Reading the digits before the point, and behind it. *)
Lemma parse_whole_digits w ds p :
  digits 10 ds → parse_whole w (map (Z.add 48) ds ++ 46 :: p) =
    (let '(units, rest) := parse_units (CENT * 10) p in Some (w ++ map (Z.add 48) ds, units, rest)).
Proof.
  intros Hd. revert w. induction Hd as [|d ds Hd _ IH]; intros w; cbn [map app parse_whole]; [by rewrite app_nil_r|].
  destruct (digit_char d Hd) as (-> & -> & Hne). destruct (Z.eqb_spec (48 + d) 46); [done|]. cbn [negb].
  rewrite IH. destruct (parse_units _ p). by rewrite <- app_assoc.
Qed.

Lemma parse_units_digits k ds :
  digits 10 ds → (length ds <= k)%nat → (1 <= k)%nat →
  parse_units (10 ^ (Z.of_nat k - 1)) (map (Z.add 48) ds) = (be_num 10 ds * 10 ^ (Z.of_nat k - Z.of_nat (length ds)), []).
Proof.
  intros Hd. revert k. induction Hd as [|d ds Hd _ IH]; intros k Hk H1; [done|]. cbn [map parse_units length] in *.
  destruct (digit_char d Hd) as (-> & _). pose proof (Z.pow_pos_nonneg 10 (Z.of_nat k - 1)).
  destruct (Z.ltb_spec 0 (10 ^ (Z.of_nat k - 1))); [|lia]. cbn [andb]. rewrite be_num_cons.
  destruct k as [|[|k]]; [lia| |].
  - destruct ds; [|cbn [length] in Hk; lia]. cbn [map parse_units length be_num rev le_num].
    change (10 ^ (Z.of_nat 1 - 1)) with 1. f_equal. change (Z.of_nat 1 - Z.of_nat 1) with 0. change (10 ^ Z.of_nat 0) with 1. lia.
  - replace (10 ^ (Z.of_nat (S (S k)) - 1) / 10) with (10 ^ (Z.of_nat (S k) - 1)).
    2:{ replace (Z.of_nat (S (S k)) - 1) with (Z.succ (Z.of_nat (S k) - 1)) by lia.
        rewrite Z.pow_succ_r by lia. by rewrite Z.mul_comm, Z.div_mul. }
    rewrite IH by lia. f_equal. replace (48 + d - 48) with d by lia.
    replace (Z.of_nat (S (S k)) - Z.of_nat (S (length ds))) with (Z.of_nat (S k) - Z.of_nat (length ds)) by lia.
    rewrite Z.mul_add_distr_r. f_equal. rewrite Z.mul_comm, <- Z.mul_assoc, <- Z.pow_add_r by lia. f_equal. f_equal. lia.
Qed.

(** Zeros are trimmed from the end, and two digits stay. *)
Lemma trim_count_spec r w :
  digits 10 r → (2 <= length r)%nat →
  let k := trim_count (map (Z.add 48) r ++ 46 :: w) in (k + 2 <= length r)%nat ∧ take k r = replicate k 0.
Proof.
  cbv zeta. intros Hd. induction Hd as [|d r Hd Hr IH]; intros Hl; cbn [length] in *; [lia|].
  destruct r as [|d1 [|d2 r]]; cbn [map app trim_count length] in *; [lia| |].
  - change (isdigit 46) with false. rewrite andb_false_r. split; [lia|done].
  - assert (isdigit (48 + d2) = true) as ->.
    { apply Forall_cons in Hr as [_ [Hd2 _]%Forall_cons]. by destruct (digit_char d2 Hd2). }
    destruct (Z.eqb_spec (48 + d) 48) as [E|]; cbn [andb]; [|split; [lia|done]].
    destruct IH as [Hk Ht]; [lia|]. split; [lia|]. cbn [take replicate]. f_equal; [lia|done].
Qed.

Lemma rev_zeros k : rev (replicate k 0) = replicate k 0.
Proof. induction k as [|k IH]; [done|]. cbn [replicate rev]. rewrite IH. symmetry. apply replicate_cons_app. Qed.

Lemma be_num_zeros b k l : be_num b (replicate k 0 ++ l) = be_num b l.
Proof. induction k as [|k IH]; [done|]. cbn [replicate app]. rewrite be_num_cons. lia. Qed.

Lemma be_num_trailing b l k : be_num b (l ++ replicate k 0) = be_num b l * b ^ Z.of_nat k.
Proof.
  rewrite be_num_app, length_replicate. rewrite <- (app_nil_r (replicate k 0)), be_num_zeros. cbn. lia.
Qed.

(** Eight digits behind the point. *)
Lemma print_08d_spec r : 0 <= r < COIN →
  ∃ F, print_08d r = map (Z.add 48) F ∧ digits 10 F ∧ length F = 8%nat ∧ be_num 10 F = r.
Proof.
  unfold COIN. intros Hr. destruct (decimal_spec 20 r) as (Hd & Hn & Hl & Hlo); [|lia|].
  { change (10 ^ Z.of_nat 20) with (10 ^ 20). lia. }
  assert (H8 : (length (decimal 20 r) <= 8)%nat).
  { destruct (Nat.le_gt_cases (length (decimal 20 r)) 8) as [|Hgt]; [done|exfalso].
    destruct Hlo as [->|Hlo]; [vm_compute in Hgt; lia|].
    pose proof (Z.pow_le_mono_r 10 8 (Z.of_nat (length (decimal 20 r)) - 1)). lia. }
  exists (replicate (8 - length (decimal 20 r)) 0 ++ decimal 20 r). unfold print_08d, print_d. rewrite length_map.
  split_and!.
  - rewrite map_app. f_equal. exact (eq_sym (fmap_replicate (Z.add 48) _ 0)).
  - apply Forall_app. split; [apply Forall_replicate; lia|done].
  - rewrite length_app, length_replicate. lia.
  - by rewrite be_num_zeros.
Qed.

(** What [FormatMoney] gives for an amount that is not negative. *)
Lemma FormatMoney_shape n : 0 <= n < 2 ^ 63 →
  ∃ W F, FormatMoney n = map (Z.add 48) W ++ 46 :: map (Z.add 48) F ∧ digits 10 W ∧ digits 10 F ∧
    (2 <= length F <= 8)%nat ∧ (1 <= length W)%nat ∧ be_num 10 W = n / COIN ∧
    be_num 10 F * 10 ^ (8 - Z.of_nat (length F)) = n mod COIN ∧
    (n / COIN = 0 ∧ length W = 1%nat ∨ 10 ^ (Z.of_nat (length W) - 1) <= n / COIN).
Proof.
  intros Hn. unfold FormatMoney. replace (if 0 <? n then n else i64 (- n)) with n.
  2:{ destruct (Z.ltb_spec 0 n); [done|]. by replace n with 0 by lia. }
  destruct (Z.ltb_spec n 0); [lia|]. rewrite Z.quot_div_nonneg, Z.rem_mod_nonneg by (unfold COIN; lia).
  assert (HC : 0 < COIN) by (unfold COIN; lia).
  destruct (print_08d_spec (n mod COIN)) as (F8 & -> & HF & LF & NF); [by apply Z.mod_pos_bound|].
  assert (Hq : 0 <= n / COIN < 10 ^ Z.of_nat 20).
  { split; [apply Z.div_pos; lia|]. apply Z.div_lt_upper_bound; [lia|]. change (10 ^ Z.of_nat 20) with (10 ^ 20). unfold COIN. lia. }
  destruct (decimal_spec 20 (n / COIN) Hq ltac:(lia)) as (HW & NW & LW & HloW). unfold print_d. set (W := decimal 20 (n / COIN)) in *.
  rewrite rev_app_distr. cbn [rev]. rewrite <- map_rev, <- app_assoc. cbn [app].
  destruct (trim_count_spec (rev F8) (rev (map (Z.add 48) W))) as [Hk Ht]; [by apply Forall_rev|rewrite length_rev; lia|].
  set (k := trim_count _) in *. rewrite length_rev in Hk.
  assert (EF : F8 = take (8 - k) F8 ++ replicate k 0).
  { rewrite <- (take_drop (8 - k) F8) at 1. f_equal. rewrite firstn_rev, LF in Ht.
    rewrite <- (rev_involutive (drop _ _)), Ht. apply rev_zeros. }
  exists W, (take (8 - k) F8). assert (Lk : length (take (8 - k) F8) = (8 - k)%nat) by (rewrite length_take; lia).
  split_and!; [|done|by apply Forall_take|lia|lia|done|done| |].
  - rewrite length_app. cbn [length]. rewrite (length_map (Z.add 48) F8), LF.
    replace (_ + 9 - k)%nat with (length (map (Z.add 48) W) + S (8 - k))%nat by lia.
    rewrite take_app_add. cbn [take]. by rewrite firstn_map.
  - assert (E8 : be_num 10 F8 = be_num 10 (take (8 - k) F8) * 10 ^ Z.of_nat k) by (rewrite EF at 1; apply be_num_trailing).
    rewrite <- NF, E8, Lk. f_equal. f_equal. lia.
  - destruct HloW as [E|]; [left|by right]. split; [done|]. subst W. by rewrite E.
Qed.

(** ** Properties *)

(** C28: amounts are read back, as far as they go.  For an amount that is not negative
    the text of [FormatMoney] is read by [ParseMoney] as the same amount below [10^18],
    and rejected from there on: [MAX_MONEY] itself, which is [10^18], is a valid amount
    whose text is refused, because its whole part has eleven digits. *)
Theorem money_roundtrip (n : Z) :
  0 <= n < 2 ^ 63 → ParseMoney (FormatMoney n) = if n <? MAX_MONEY then Some n else None.
Proof.
  intros Hn. destruct (FormatMoney_shape n Hn) as (W & F & -> & HW & HF & LF & LW & NW & NF & Hlo).
  assert (HC : 0 < COIN) by (unfold COIN; lia). pose proof (Z.div_mod n COIN ltac:(lia)) as Hdm.
  pose proof (Z.mod_pos_bound n COIN HC) as Hm. unfold ParseMoney.
  rewrite c_str_id by (apply Forall_app; split; [|constructor; [lia|]]; apply Forall_map;
    (eapply Forall_impl; [eassumption|]); cbv beta; lia).
  rewrite skip_none.
  2:{ intros c t. destruct HW as [|d W Hd _]; [cbn in LW; lia|]. cbn [map app]. intros [= <- _]. by destruct (digit_char d Hd) as (_ & ? & _). }
  rewrite parse_whole_digits by done. change (CENT * 10) with (10 ^ (Z.of_nat 8 - 1)).
  rewrite parse_units_digits by (done || lia). cbn [mbind option_bind forallb negb]. change (Z.of_nat 8) with 8.
  rewrite NF, app_nil_l, length_map. unfold atoi64. rewrite chars_digits, NW.
  pose proof (be_num_nonneg 10 W ltac:(lia) HW) as Hb. rewrite NW in Hb. unfold MAX_MONEY.
  destruct (Nat.ltb_spec 10 (length W)) as [Hgt|Hle].
  - destruct (Z.ltb_spec n (10000000000 * COIN)) as [Hlt|]; [exfalso|done].
    assert (10 ^ 10 <= 10 ^ (Z.of_nat (length W) - 1)) by (apply Z.pow_le_mono_r; lia).
    destruct Hlo as [[_ ?]|Hlo]; [lia|]. nia.
  - assert (10 ^ Z.of_nat (length W) <= 10 ^ 10) by (apply Z.pow_le_mono_r; lia).
    destruct (Z.ltb_spec n (10000000000 * COIN)) as [Hlt|]; [|nia].
    destruct (Z.ltb_spec (n mod COIN) 0); [lia|]. destruct (Z.ltb_spec COIN (n mod COIN)); [lia|]. cbn [orb].
    replace (n / COIN * COIN + n mod COIN) with n by lia. f_equal. apply i64_small. unfold is_i64. lia.
Qed.

Lemma money_roundtrip_witness :
  ParseMoney (FormatMoney 1230000000) = Some 1230000000 ∧ ParseMoney (FormatMoney MAX_MONEY) = None.
Proof.
  split.
  - apply (money_roundtrip 1230000000). by_eval.
  - apply (money_roundtrip MAX_MONEY). by_eval.
Defined.
