(* ===== verification/CoinSelection.v ===== *)
(** The choice of coins to spend, after [src/src/wallet/coinselection.cpp]:
    the branch and bound search [SelectCoinsBnB] and the randomised [KnapsackSolver].

    A coin is known by its outpoint.  The order that [std::sort] leaves between equal
    elements, the shuffle and the coin flips are parameters.  Amounts are integers
    without bounds: in the source an overflow of [int64_t] would be undefined, and the
    sums formed here are sums of amounts of one wallet. *)
From stdpp Require Import list gmap sorting.
From S2P Require Import Prelude Serialize Transaction Coins.
Open Scope Z_scope.

Inductive selection_error : Set := NotPositive | OutOfRange.

Record OutputGroup : Type := mkGroup {
  m_outputs : list COutPoint;
  m_value : Z;
  effective_value : Z;
  fee : Z;
  long_term_fee : Z
}.

(** [utxo.fee - utxo.long_term_fee]. *)
Definition fee_gap (g : OutputGroup) : Z := fee g - long_term_fee g.

(** The order of the comparator [descending]. *)
Definition descending (a b : OutputGroup) : Prop := effective_value b <= effective_value a.

(** ** Branch and bound *)

Definition TOTAL_TRIES : nat := Z.to_nat 100000.

(** The variables of the loop; [curr_selection] from its back. *)
Record bnb : Type := mkBnb {
  curr_value : Z;
  curr_available_value : Z;
  curr_selection : list bool;
  curr_waste : Z;
  best_selection : list bool;
  best_waste : Z
}.

(** [utxo_pool.at(i)]. *)
Definition at_ {A} (pool : list A) (i : nat) : result selection_error A :=
  match pool !! i with
  | Some g => Ok g
  | None => Err OutOfRange
  end.

(** The walk back over omitted groups, which become available again. *)
Fixpoint walk_back (pool : list OutputGroup) (sel : list bool) (avail : Z) : result selection_error (list bool * Z) :=
  match sel with
  | false :: sel =>
      let! g := at_ pool (length sel) in walk_back pool sel (avail + effective_value g)
  | _ => Ok (sel, avail)
  end.

(** [resize]. *)
Definition resize (n : nat) (l : list bool) : list bool := take n l ++ replicate (n - length l) false.

Section BnB.
Context (pool : list OutputGroup) (actual_target cost_of_change : Z).

(** [(utxo_pool.at(0).fee - utxo_pool.at(0).long_term_fee) > 0], evaluated only if the
    waste exceeds the best one. *)
Definition too_wasteful (s : bnb) : result selection_error bool :=
  if best_waste s <? curr_waste s then let! g := at_ pool 0 in Ok (0 <? fee_gap g) else Ok false.

(** The first part of an iteration: the conditions for a backtrack, and the solution
    that may be noted. *)
Definition examine (s : bnb) : result selection_error (bnb * bool) :=
  if (curr_value s + curr_available_value s <? actual_target) || (actual_target + cost_of_change <? curr_value s)
  then Ok (s, true)
  else
    let! w := too_wasteful s in
    if w then Ok (s, true)
    else if actual_target <=? curr_value s then
      let waste := curr_waste s + (curr_value s - actual_target) in
      if waste <=? best_waste s then
        Ok (mkBnb (curr_value s) (curr_available_value s) (curr_selection s) (curr_waste s)
              (resize (length pool) (rev (curr_selection s))) waste, true)
      else Ok (s, true)
    else Ok (s, false).

(** Backtracking; [None] is [break]. *)
Definition backtrack (s : bnb) : result selection_error (option bnb) :=
  let! (sel, avail) := walk_back pool (curr_selection s) (curr_available_value s) in
  match sel with
  | [] => Ok None
  | _ :: sel =>
      let! g := at_ pool (length sel) in
      Ok (Some (mkBnb (curr_value s - effective_value g) avail (false :: sel) (curr_waste s - fee_gap g)
                  (best_selection s) (best_waste s)))
  end.

(** Whether the next group is like the one before it, which was omitted. *)
Definition like_omitted (sel : list bool) (g : OutputGroup) : result selection_error bool :=
  match sel with
  | false :: sel =>
      let! p := at_ pool (length sel) in
      Ok ((effective_value g =? effective_value p) && (fee g =? fee p))
  | _ => Ok false
  end.

(** Moving forwards. *)
Definition forward (s : bnb) : result selection_error bnb :=
  let! g := at_ pool (length (curr_selection s)) in
  let avail := curr_available_value s - effective_value g in
  let! skip := like_omitted (curr_selection s) g in
  if skip then
    Ok (mkBnb (curr_value s) avail (false :: curr_selection s) (curr_waste s) (best_selection s) (best_waste s))
  else
    Ok (mkBnb (curr_value s + effective_value g) avail (true :: curr_selection s) (curr_waste s + fee_gap g)
          (best_selection s) (best_waste s)).

(** The body of the loop; [None] is [break]. The noted solution survives the break. *)
Definition bnb_step (s : bnb) : result selection_error (bnb * bool) :=
  let! (s, back) := examine s in
  if back then
    let! r := backtrack s in
    match r with
    | Some s => Ok (s, true)
    | None => Ok (s, false)
    end
  else let! s := forward s in Ok (s, true).

(** The loop: the variables after it, and whether it ended in the break. *)
Fixpoint bnb_loop (tries : nat) (s : bnb) : result selection_error (bnb * bool) :=
  match tries with
  | O => Ok (s, false)
  | S tries =>
      let! (s, more) := bnb_step s in
      if more then bnb_loop tries s else Ok (s, true)
  end.

End BnB.

(** The sum of [f] over the groups that are selected. *)
Fixpoint sum_over (f : OutputGroup → Z) (sel : list bool) (pool : list OutputGroup) : Z :=
  match sel, pool with
  | b :: sel, g :: pool => (if b then f g else 0) + sum_over f sel pool
  | _, _ => 0
  end.
Definition total (f : OutputGroup → Z) (pool : list OutputGroup) : Z := foldr (λ g z, f g + z) 0 pool.

(** The outputs that are selected. *)
Fixpoint outputs_of (sel : list bool) (pool : list OutputGroup) : gset COutPoint :=
  match sel, pool with
  | b :: sel, g :: pool => (if b then list_to_set (m_outputs g) else ∅) ∪ outputs_of sel pool
  | _, _ => ∅
  end.

Definition bnb_start (pool : list OutputGroup) : bnb := mkBnb 0 (total effective_value pool) [] 0 [] MAX_MONEY.

(** If the search succeeds, the outputs and their value; [None] is [return false].
    [tries] is [TOTAL_TRIES], and [sort] is [std::sort] by [descending]. *)
Definition SelectCoinsBnB (sort : list OutputGroup → list OutputGroup) (tries : nat) (utxo_pool : list OutputGroup)
    (target_value cost_of_change not_input_fees : Z)
  : result selection_error (option (gset COutPoint * Z)) :=
  let actual_target := not_input_fees + target_value in
  if existsb (λ g, negb (0 <? effective_value g)) utxo_pool then Err NotPositive
  else if total effective_value utxo_pool <? actual_target then Ok None
  else
    let pool := sort utxo_pool in
    let! (s, _) := bnb_loop pool actual_target cost_of_change tries (bnb_start pool) in
    match best_selection s with
    | [] => Ok None
    | best => Ok (Some (outputs_of best pool, sum_over m_value best pool))
    end.

(** ** The knapsack solver *)

Definition MIN_CHANGE : Z := 1000000.

(** One pass over the groups: the total, whether the target was reached, what is
    included, and the best so far.  [take_it i included] is the condition of the pass.
    The index runs over the groups; [vfIncluded] is a vector. *)
Record pass_state : Type := mkPass {
  nTotal : Z;
  fReachedTarget : bool;
  vfIncluded : list bool;
  vfBest : list bool;
  nBest : Z
}.

Definition pass_step (nTargetValue : Z) (take_it : nat → bool → bool) (s : pass_state) (ig : nat * OutputGroup) : pass_state :=
  let '(i, g) := ig in
  if take_it i (nth i (vfIncluded s) false) then
    let total := nTotal s + m_value g in
    let inc := <[i := true]> (vfIncluded s) in
    if nTargetValue <=? total then
      let '(best, nbest) := if total <? nBest s then (inc, total) else (vfBest s, nBest s) in
      mkPass (total - m_value g) true (<[i := false]> inc) best nbest
    else mkPass total (fReachedTarget s) inc (vfBest s) (nBest s)
  else s.

Definition pass (nTargetValue : Z) (take_it : nat → bool → bool) (groups : list OutputGroup) (s : pass_state) : pass_state :=
  foldl (pass_step nTargetValue take_it) s (zip (seq 0 (length groups)) groups).

(** One repetition: a random pass, and if it does not reach the target one over what it
    left out. *)
Definition repetition (nTargetValue : Z) (flip : nat → bool) (groups : list OutputGroup) (best : list bool) (nbest : Z)
  : list bool * Z :=
  let s := pass nTargetValue (λ i _, flip i) groups
             (mkPass 0 false (replicate (length groups) false) best nbest) in
  let s := if fReachedTarget s then s else pass nTargetValue (λ _ inc, negb inc) groups s in
  (vfBest s, nBest s).

(** The repetitions; [flips r] are the coin flips of repetition [r]. *)
Fixpoint repetitions (iterations : nat) (nTargetValue : Z) (flips : nat → nat → bool) (groups : list OutputGroup)
    (best : list bool) (nbest : Z) : list bool * Z :=
  match iterations with
  | O => (best, nbest)
  | S it =>
      if nbest =? nTargetValue then (best, nbest)
      else
        let '(best, nbest) := repetition nTargetValue (flips it) groups best nbest in
        repetitions it nTargetValue flips groups best nbest
  end.

Definition ApproximateBestSubset (groups : list OutputGroup) (nTotalLower nTargetValue : Z) (flips : nat → nat → bool)
  : list bool * Z :=
  repetitions 1000 nTargetValue flips groups (replicate (length groups) true) nTotalLower.

(** The loop over the groups: an exact match, or what it leaves. *)
Fixpoint partition_groups (nTargetValue : Z) (groups applicable : list OutputGroup) (nTotalLower : Z)
    (lowest_larger : option OutputGroup) : OutputGroup + list OutputGroup * Z * option OutputGroup :=
  match groups with
  | [] => inr (applicable, nTotalLower, lowest_larger)
  | g :: groups =>
      if m_value g =? nTargetValue then inl g
      else if m_value g <? nTargetValue + MIN_CHANGE then
        partition_groups nTargetValue groups (applicable ++ [g]) (nTotalLower + m_value g) lowest_larger
      else
        partition_groups nTargetValue groups applicable nTotalLower
          (match lowest_larger with
           | Some l => if m_value g <? m_value l then Some g else lowest_larger
           | None => Some g
           end)
  end.

(** The groups that are returned, and [nValueRet]; [None] is [return false]. *)
Definition KnapsackSolver (shuffle sort : list OutputGroup → list OutputGroup) (flips flips' : nat → nat → bool)
    (nTargetValue : Z) (groups : list OutputGroup) : option (gset COutPoint * Z) :=
  let single g := Some (list_to_set (m_outputs g), m_value g) in
  match partition_groups nTargetValue (shuffle groups) [] 0 None with
  | inl g => single g
  | inr (applicable, nTotalLower, lowest_larger) =>
      if nTotalLower =? nTargetValue then
        let all := replicate (length applicable) true in
        Some (outputs_of all applicable, sum_over m_value all applicable)
      else if nTotalLower <? nTargetValue then lowest_larger ≫= single
      else
        let applicable := sort applicable in
        let '(vfBest, nBest) := ApproximateBestSubset applicable nTotalLower nTargetValue flips in
        let '(vfBest, nBest) :=
          if negb (nBest =? nTargetValue) && (nTargetValue + MIN_CHANGE <=? nTotalLower)
          then ApproximateBestSubset applicable nTotalLower (nTargetValue + MIN_CHANGE) flips'
          else (vfBest, nBest) in
        match lowest_larger with
        | Some l =>
            if (negb (nBest =? nTargetValue) && (nBest <? nTargetValue + MIN_CHANGE)) || (m_value l <=? nBest)
            then single l
            else Some (outputs_of vfBest applicable, sum_over m_value vfBest applicable)
        | None => Some (outputs_of vfBest applicable, sum_over m_value vfBest applicable)
        end
  end.

(** ** Sums over selections *)

Lemma sum_over_app f s1 s2 pool :
  sum_over f (s1 ++ s2) pool = sum_over f s1 pool + sum_over f s2 (drop (length s1) pool).
Proof.
  revert pool. induction s1 as [|b s1 IH]; intros pool; cbn [app sum_over length drop]; [done|].
  destruct pool as [|g pool]; [destruct s2; cbn [drop sum_over]; done|]. cbn [drop]. rewrite IH. lia.
Qed.

Lemma sum_over_false f k pool : sum_over f (replicate k false) pool = 0.
Proof. revert pool. induction k as [|k IH]; intros [|g pool]; cbn [replicate sum_over]; [done..|]. by rewrite IH. Qed.

Lemma sum_over_bound f sel pool :
  Forall (λ g, 0 <= f g) pool → 0 <= sum_over f sel pool <= total f pool.
Proof.
  intros Hf. revert sel. induction Hf as [|g pool Hg _ IH]; intros [|b sel]; cbn [sum_over total foldr]; try lia.
  - specialize (IH []). unfold total in IH. cbn [sum_over] in IH. destruct pool; cbn in IH |- *; lia.
  - specialize (IH sel). unfold total in IH. destruct b; lia.
Qed.

Lemma sum_over_le f h sel pool : (∀ g, f g <= h g) → sum_over f sel pool <= sum_over h sel pool.
Proof.
  intros Hf. revert pool. induction sel as [|b sel IH]; intros [|g pool]; cbn [sum_over]; try lia.
  specialize (IH pool). specialize (Hf g). destruct b; lia.
Qed.

Lemma total_drop_S f pool i g :
  pool !! i = Some g → total f (drop i pool) = f g + total f (drop (S i) pool).
Proof. intros H. by rewrite (drop_S _ _ _ H). Qed.

Lemma at_some {A} (pool : list A) i : (i < length pool)%nat → ∃ g, pool !! i = Some g ∧ at_ pool i = Ok g.
Proof. intros [g H]%lookup_lt_is_Some. exists g. unfold at_. by rewrite H. Qed.

(** The walk back stops at the last group that was included. *)
Lemma walk_back_stop pool sel :
  (length sel <= length pool)%nat →
  ∃ k rest, walk_back pool sel (total effective_value (drop (length sel) pool)) =
      Ok (rest, total effective_value (drop (length rest) pool)) ∧
    sel = replicate k false ++ rest ∧ (rest = [] ∨ ∃ r, rest = true :: r).
Proof.
  induction sel as [|[] sel IH]; intros Hl; cbn [length walk_back] in *.
  - by exists O, []; eauto.
  - exists O, (true :: sel). split_and!; eauto.
  - destruct (at_some pool (length sel)) as (g & Hg & ->); [lia|]. cbn [rbind].
    rewrite Z.add_comm, <- total_drop_S by done. destruct IH as (k & rest & -> & -> & Hr); [lia|].
    exists (S k), rest. done.
Qed.

Lemma length_pos {A} (l : list A) : l ≠ [] → (0 < length l)%nat.
Proof. destruct l; [done|]. cbn. lia. Qed.

(** The places where a selection can be left, before and after its last step. *)
Lemma rev_false k (r : list bool) : rev (replicate k false ++ r) = rev r ++ replicate k false.
Proof.
  rewrite rev_app_distr. f_equal. induction k as [|k IH]; [done|]. cbn [replicate rev]. rewrite IH. symmetry. apply replicate_cons_app.
Qed.

Lemma all_false_split k (p q : list bool) : replicate k false = p ++ true :: q → False.
Proof.
  intros E. assert (true ∈ replicate k false) as [? _]%elem_of_replicate; [|done]. rewrite E. set_solver.
Qed.

Lemma branch_split p q a k :
  p ++ true :: q = a ++ true :: replicate k false → p = a ∨ ∃ q', a = p ++ true :: q'.
Proof.
  intros E. apply app_eq_inv in E as [(u & -> & E)|(u & -> & E)].
  - destruct u as [|x u]; [left; by rewrite app_nil_r|]. cbn [app] in E. injection E as <- E.
    by apply all_false_split in E.
  - destruct u as [|x u]; [left; by rewrite app_nil_r|]. cbn [app] in E. injection E as <- _. right. by eexists.
Qed.

(** ** The search *)

Section Search.
Context (pool : list OutputGroup) (target cost : Z) (opt : bool).
Let n := length pool.
Hypothesis positive : Forall (λ g, 0 < effective_value g) pool.
Hypothesis bounded : total (λ g, Z.abs (fee_gap g)) pool + cost <= MAX_MONEY.
Hypothesis target_pos : 0 < target.
Hypothesis cost_nonneg : 0 <= cost.
Hypothesis gaps : opt = true → Forall (λ g, 0 <= fee_gap g) pool ∧
  ∀ g h, g ∈ pool → h ∈ pool → fee g = fee h → fee_gap g = fee_gap h.

Definition value (sel : list bool) : Z := sum_over effective_value sel pool.
Definition waste (sel : list bool) : Z := sum_over fee_gap sel pool + (value sel - target).
Definition solution (t : list bool) : Prop := length t = n ∧ target <= value t <= target + cost.

(** What is still to be seen from a partial selection: its extensions, and the omission
    branches of the groups it includes. *)
Definition extends (sel t : list bool) : Prop := ∃ r, t = sel ++ r.
Definition remaining (sel t : list bool) : Prop :=
  extends sel t ∨ ∃ p q r, sel = p ++ true :: q ∧ t = p ++ false :: r.

(** What is known of a selection that has been passed: nothing better than the best is
    lost if [opt], and something has been found otherwise. *)
Definition covered (s : bnb) (t : list bool) : Prop :=
  if opt then best_waste s <= waste t else best_selection s ≠ [].

Definition noted (s : bnb) : Prop :=
  best_selection s = [] ∧ best_waste s = MAX_MONEY ∨
  solution (best_selection s) ∧ best_waste s = waste (best_selection s).

Definition places (s : bnb) : Prop :=
  let sel := rev (curr_selection s) in
  (length sel <= n)%nat ∧ curr_value s = value sel ∧
  curr_available_value s = total effective_value (drop (length sel) pool) ∧
  curr_waste s = sum_over fee_gap sel pool ∧ noted s.

Definition inv (s : bnb) : Prop :=
  places s ∧ ∀ t, solution t → remaining (rev (curr_selection s)) t ∨ covered s t.

Lemma values_nonneg p : p ⊆ pool → Forall (λ g, 0 <= effective_value g) p.
Proof using positive.
  intros Hp. apply Forall_forall. intros g Hg. pose proof (proj1 (Forall_forall _ _) positive g (Hp g Hg)) as H. cbv beta in *. lia.
Qed.

Lemma drop_subseteq i : drop i pool ⊆ pool.
Proof using. intros g Hg. apply list_elem_of_lookup in Hg as [j Hj]. rewrite lookup_drop in Hj. by eapply list_elem_of_lookup_2. Qed.

(** The values of the extensions of a selection. *)
Lemma extends_value sel t : extends sel t → value sel <= value t <= value sel + total effective_value (drop (length sel) pool).
Proof using positive.
  intros [r ->]. unfold value. rewrite sum_over_app.
  pose proof (sum_over_bound effective_value r (drop (length sel) pool) (values_nonneg _ (drop_subseteq _))). lia.
Qed.

(** No partial waste exceeds the initial best one. *)
Lemma waste_bound sel : sum_over fee_gap sel pool + cost <= MAX_MONEY.
Proof using bounded.
  set (h := λ g, Z.abs (fee_gap g)). assert (H1 : sum_over fee_gap sel pool <= sum_over h sel pool).
  { apply sum_over_le. intros g. subst h. cbv beta. lia. }
  assert (H2 : 0 <= sum_over h sel pool <= total h pool).
  { apply sum_over_bound. apply Forall_true. intros g. subst h. cbv beta. lia. }
  fold h in bounded. lia.
Qed.

Lemma extends_waste sel t : opt = true → extends sel t → sum_over fee_gap sel pool <= sum_over fee_gap t pool.
Proof using gaps.
  intros Ho [r ->]. rewrite sum_over_app. destruct (gaps Ho) as [Hg _].
  assert (Forall (λ g, 0 <= fee_gap g) (drop (length sel) pool)) as Hd by by apply Forall_drop.
  pose proof (sum_over_bound fee_gap r _ Hd). lia.
Qed.

Lemma opt_cases : opt = true ∨ opt = false.
Proof using. clear gaps. destruct opt; auto. Qed.

Lemma full_nonempty (l : list bool) : pool ≠ [] → length l = n → l ≠ [].
Proof using. intros Hne Hl ->. by apply Hne, nil_length_inv. Qed.

(** A selection padded with omissions. *)
Lemma resize_sum f sel : (length sel <= n)%nat → sum_over f (resize n sel) pool = sum_over f sel pool.
Proof using.
  intros Hl. unfold resize. rewrite take_ge by lia. rewrite sum_over_app, sum_over_false. lia.
Qed.

Lemma resize_length sel : (length sel <= n)%nat → length (resize n sel) = n.
Proof using. intros Hl. unfold resize. rewrite length_app, length_take, length_replicate. lia. Qed.

(** Nothing was found, and nothing is too wasteful. *)
Lemma uncovered_bound s sel : noted s → pool ≠ [] → ¬ best_selection s ≠ [] →
  best_waste s = MAX_MONEY ∧ sum_over fee_gap sel pool + cost <= best_waste s.
Proof using bounded.
  intros Hn Hne Hb. assert (best_waste s = MAX_MONEY) as E.
  { destruct Hn as [[_ ?]|[[Hl _] _]]; [done|]. destruct Hb. by apply full_nonempty. }
  split; [done|]. rewrite E. apply waste_bound.
Qed.

Lemma pool_nonempty s : places s → target <= curr_value s + curr_available_value s → pool ≠ [].
Proof using target_pos.
  intros (_ & Hv & Ha & _) Ht E. rewrite Hv, Ha in Ht. unfold value in Ht. rewrite E, drop_nil in Ht. cbn in Ht.
  destruct (rev (curr_selection s)); cbn in Ht; lia.
Qed.

(** After the first part of an iteration: either the extensions of the selection are
    done with, or it can be extended. *)
Definition examined (s s' : bnb) (back : bool) : Prop :=
  curr_selection s' = curr_selection s ∧ places s' ∧ (∀ t, covered s t → covered s' t) ∧
  if back then ∀ t, solution t → extends (rev (curr_selection s)) t → covered s' t
  else s' = s ∧ (length (curr_selection s) < n)%nat.

Lemma examined_same s : places s →
  (∀ t, solution t → extends (rev (curr_selection s)) t → covered s t) → examined s s true.
Proof using. done. Qed.

Lemma wasteful_covered s t : places s → pool ≠ [] → best_waste s < curr_waste s → solution t →
  extends (rev (curr_selection s)) t → covered s t.
Proof using bounded gaps cost_nonneg.
  intros (_ & _ & _ & Hw & Hn) Hne Hlt [_ Ht] He. unfold covered. destruct opt_cases as [Ho|Ho]; rewrite Ho.
  - pose proof (extends_waste _ t Ho He). unfold waste. rewrite Hw in Hlt. lia.
  - intros E. destruct (uncovered_bound s (rev (curr_selection s)) Hn Hne) as [_ Hb]; [intros H; by apply H|]. lia.
Qed.

Lemma in_range_covered s s' t : places s → pool ≠ [] → target <= curr_value s <= target + cost →
  best_waste s' <= curr_waste s + (curr_value s - target) → best_selection s' ≠ [] → solution t →
  extends (rev (curr_selection s)) t → covered s' t.
Proof using positive gaps.
  intros (_ & Hv & _ & Hw & _) Hne Hr Hb Hs [_ Ht] He. unfold covered. destruct opt_cases as [Ho|Ho]; rewrite Ho; [|done].
  pose proof (extends_waste _ t Ho He). pose proof (extends_value _ t He). unfold waste. lia.
Qed.

Lemma examine_spec s : places s → ∃ s' back, examine pool target cost s = Ok (s', back) ∧ examined s s' back.
Proof using positive bounded target_pos cost_nonneg gaps.
  intros Hp. pose proof Hp as (Hl & Hv & Ha & Hw & Hn). unfold examine.
  destruct (Z.ltb_spec (curr_value s + curr_available_value s) target) as [Hlo|Hlo]; cbn [orb].
  { exists s, true. split; [done|]. apply examined_same; [done|]. intros t [_ Ht] He%extends_value. lia. }
  destruct (Z.ltb_spec (target + cost) (curr_value s)) as [Hhi|Hhi].
  { exists s, true. split; [done|]. apply examined_same; [done|]. intros t [_ Ht] He%extends_value. lia. }
  pose proof (pool_nonempty s Hp Hlo) as Hne. unfold too_wasteful.
  destruct (at_some pool 0) as (g0 & _ & Hg0); [by apply length_pos|].
  assert (Hw2 : ∃ w, (if best_waste s <? curr_waste s then let! g := at_ pool 0 in Ok (0 <? fee_gap g) else Ok false) = Ok w
    ∧ (w = true → best_waste s < curr_waste s)).
  { destruct (Z.ltb_spec (best_waste s) (curr_waste s)); [rewrite Hg0; by eexists|by exists false]. }
  destruct Hw2 as (w & -> & Hw2). cbn [rbind]. destruct w.
  { exists s, true. split; [done|]. apply examined_same; [done|]. intros t Ht He. apply wasteful_covered; auto. }
  destruct (Z.leb_spec target (curr_value s)) as [Hin|Hout].
  2:{ exists s, false. split; [done|]. split_and!; [done|done|done|done|].
      destruct (Nat.lt_ge_cases (length (curr_selection s)) n) as [|Hge]; [done|exfalso].
      rewrite length_rev in Ha. rewrite drop_ge in Ha by done. cbn in Ha. lia. }
  set (w' := curr_waste s + (curr_value s - target)). destruct (Z.leb_spec w' (best_waste s)) as [Hle|Hgt].
  - set (b := resize n (rev (curr_selection s))). set (s' := mkBnb _ _ _ _ _ _). exists s', true. split; [done|].
    assert (Hb : solution b ∧ w' = waste b).
    { unfold solution, waste, value, b. rewrite !resize_sum, resize_length by done. unfold value in Hv. subst w'. lia. }
    assert (Hb0 : b ≠ []) by (by apply full_nonempty; [|apply Hb]).
    split_and!; [done| | |].
    + unfold places. cbn [curr_selection curr_value curr_available_value curr_waste]. split_and!; try done. right. done.
    + intros t. unfold covered. destruct opt_cases as [Ho|Ho]; rewrite Ho; [cbn [best_waste s']; lia|done].
    + intros t Ht He. by apply (in_range_covered s s' t Hp Hne).
  - exists s, true. split; [done|]. apply examined_same; [done|]. intros t Ht He.
    apply (in_range_covered s s t Hp Hne); [done|subst w'; lia| |done|done].
    intros E. destruct (uncovered_bound s (rev (curr_selection s)) Hn Hne) as [_ Hb]; [intros H; by apply H|]. subst w'. lia.
Qed.

(** Nodes of the tree that are left. *)
Definition size (d : nat) : nat := (2 ^ (n - d + 1) - 1)%nat.
Fixpoint branches (sel : list bool) : nat :=
  match sel with
  | [] => 0
  | b :: sel => (if b then size (S (length sel)) else 0) + branches sel
  end%nat.
Definition nodes (sel : list bool) : nat := (size (length sel) + branches sel)%nat.

Lemma size_pos d : (1 <= size d)%nat.
Proof using. unfold size. pose proof (Nat.pow_gt_1 2 (n - d + 1)). lia. Qed.

Lemma size_S d : (d < n)%nat → size d = (1 + 2 * size (S d))%nat.
Proof using.
  intros Hd. unfold size. replace (n - d + 1)%nat with (S (n - S d + 1)) by lia. rewrite Nat.pow_succ_r'.
  pose proof (Nat.pow_nonzero 2 (n - S d + 1)). lia.
Qed.

Lemma branches_false k sel : branches (replicate k false ++ sel) = branches sel.
Proof using. induction k as [|k IH]; [done|]. cbn [replicate app branches]. lia. Qed.

Lemma sum_at f p b q g :
  pool !! length p = Some g →
  sum_over f (p ++ b :: q) pool = sum_over f p pool + (if b then f g else 0) + sum_over f q (drop (S (length p)) pool).
Proof using. intros Hg. rewrite sum_over_app, (drop_S _ _ _ Hg). cbn [sum_over]. lia. Qed.

Lemma backtrack_spec s :
  inv s → (∀ t, solution t → extends (rev (curr_selection s)) t → covered s t) →
  backtrack pool s = Ok None ∧ (∀ t, solution t → covered s t) ∨
  ∃ s', backtrack pool s = Ok (Some s') ∧ inv s' ∧ (nodes (curr_selection s') < nodes (curr_selection s))%nat.
Proof using.
  intros [(Hl & Hv & Ha & Hw & Hn) Hr] Hext. unfold backtrack. rewrite length_rev in Hl, Ha. rewrite Ha.
  destruct (walk_back_stop pool (curr_selection s) Hl) as (k & rest & -> & Es & Hrest). cbn [rbind].
  rewrite Es, rev_false in *. destruct Hrest as [->|[r ->]].
  - left. split; [done|]. intros t Ht. destruct (Hr t Ht) as [[He|(p & q & r & E & _)]|?]; [auto| |done].
    by apply all_false_split in E.
  - right. rewrite length_app in Hl. cbn [length] in Hl.
    destruct (at_some pool (length r)) as (g & Hg & ->); [lia|]. cbn [rbind]. eexists. split; [done|].
    cbn [rev] in *. rewrite <- app_assoc in *. cbn [app] in *.
    assert (Hg' : pool !! length (rev r) = Some g) by by rewrite length_rev.
    assert (Hsum : ∀ f, sum_over f (rev r ++ true :: replicate k false) pool - f g = sum_over f (rev r ++ [false]) pool).
    { intros f. rewrite !(sum_at f _ _ _ g Hg'), sum_over_false. cbn [sum_over]. lia. }
    split; [split|].
    + unfold places. cbn [curr_selection curr_value curr_available_value curr_waste rev].
      split_and!; [rewrite length_app, length_rev; cbn [length]; lia| | | |done].
      * rewrite Hv. apply Hsum.
      * rewrite length_app, length_rev. cbn [length]. by rewrite Nat.add_1_r.
      * rewrite Hw. apply Hsum.
    + intros t Ht. destruct (Hr t Ht) as [[He|(p & q & r0 & E & ->)]|?]; [by right; apply Hext| |by right].
      left. cbn [curr_selection rev]. symmetry in E. apply branch_split in E as [->|[q' E]].
      * left. exists r0. by rewrite <- app_assoc.
      * right. exists p, (q' ++ [false]), r0. split; [|done]. by rewrite E, <- app_assoc.
    + unfold nodes. cbn [curr_selection length branches]. rewrite branches_false. cbn [branches].
      pose proof (size_pos (length (replicate k false ++ true :: r))). lia.
Qed.

(** Two groups that are alike can change places. *)
Lemma swap_covered s a r g h :
  inv s → curr_selection s = false :: rev a → pool !! length a = Some g → pool !! S (length a) = Some h →
  effective_value h = effective_value g → fee h = fee g →
  solution (a ++ false :: true :: r) → covered s (a ++ false :: true :: r).
Proof using gaps.
  intros [_ Hr] Es Hg Hh Ev Ef [Hlt Ht]. set (t := a ++ false :: true :: r) in *. set (t' := a ++ true :: false :: r).
  assert (Hsum : ∀ f, f h = f g → sum_over f t pool = sum_over f t' pool).
  { intros f E. unfold t, t'. rewrite !(sum_at f _ _ _ g Hg). rewrite (drop_S _ _ _ Hh). cbn [sum_over]. lia. }
  assert (Hsol : solution t').
  { split; [|unfold value; rewrite <- Hsum by done; done]. unfold t, t' in *. rewrite length_app in *. done. }
  destruct (Hr t' Hsol) as [[[q E]|(p & q & r0 & E & E')]|Hc].
  - exfalso. rewrite Es in E. cbn [rev] in E. rewrite rev_involutive, <- app_assoc in E. by apply app_inv_head in E.
  - exfalso. rewrite Es in E. cbn [rev] in E. rewrite rev_involutive in E.
    apply app_eq_inv in E as [(u & -> & E)|(u & -> & E)].
    + destruct u as [|x u]; [done|]. cbn [app] in E. injection E as <- E.
      unfold t' in E'. rewrite <- app_assoc in E'. by apply app_inv_head in E'.
    + destruct u as [|x u]; cbn [app] in E; [done|]. injection E as <- E. by destruct u.
  - revert Hc. unfold covered. destruct opt_cases as [Ho|Ho]; rewrite Ho; [|done]. destruct (gaps Ho) as [_ Heq].
    assert (fee_gap h = fee_gap g) as Eg by (apply Heq; [by eapply list_elem_of_lookup_2..|done]).
    unfold waste, value. rewrite !Hsum by done. done.
Qed.

(** The next group included or omitted. *)
Definition push (s : bnb) (g : OutputGroup) (b : bool) : bnb :=
  mkBnb (if b then curr_value s + effective_value g else curr_value s) (curr_available_value s - effective_value g)
    (b :: curr_selection s) (if b then curr_waste s + fee_gap g else curr_waste s) (best_selection s) (best_waste s).

Lemma push_nodes s g b : (length (curr_selection s) < n)%nat →
  (nodes (curr_selection (push s g b)) < nodes (curr_selection s))%nat.
Proof using.
  intros Hlt. unfold nodes, push. cbn [curr_selection length branches]. rewrite (size_S (length (curr_selection s))) by done.
  pose proof (size_pos (S (length (curr_selection s)))). destruct b; lia.
Qed.

Lemma push_places s g b :
  places s → (length (curr_selection s) < n)%nat → pool !! length (curr_selection s) = Some g → places (push s g b).
Proof using.
  intros (Hl & Hv & Ha & Hw & Hn) Hlt Hg. rewrite length_rev in Ha.
  assert (Hsum : ∀ f, sum_over f (rev (curr_selection s) ++ [b]) pool = sum_over f (rev (curr_selection s)) pool + (if b then f g else 0)).
  { intros f. rewrite (sum_at f _ _ _ g) by by rewrite length_rev. cbn [sum_over]. lia. }
  unfold places, push. cbn [curr_selection curr_value curr_available_value curr_waste rev]. unfold value in *.
  rewrite length_app, length_rev, !Hsum, Ha, (total_drop_S _ _ _ _ Hg). cbn [length]. rewrite Nat.add_1_r.
  split_and!; [lia|destruct b; lia|lia|destruct b; lia|done].
Qed.

Lemma push_inv s g b :
  inv s → (length (curr_selection s) < n)%nat → pool !! length (curr_selection s) = Some g →
  (b = false → ∀ r, solution (rev (curr_selection s) ++ true :: r) → covered s (rev (curr_selection s) ++ true :: r)) →
  inv (push s g b).
Proof using.
  intros [Hp Hr] Hlt Hg Hskip. split; [by apply push_places|]. intros t Ht. unfold push. cbn [curr_selection rev].
  destruct (Hr t Ht) as [[[r ->]|(p & q & r & E & ->)]|Hc]; [|left; right|by right].
  - destruct r as [|[] r].
    + destruct Ht as [Hlen _]. rewrite app_nil_r, length_rev in Hlen. lia.
    + destruct b; [left; left; exists r; by rewrite <- app_assoc|right; by apply Hskip].
    + left. destruct b; [right; by exists (rev (curr_selection s)), [], r|left; exists r; by rewrite <- app_assoc].
  - exists p, (q ++ [b]), r. by rewrite E, <- app_assoc.
Qed.

Lemma forward_spec s :
  inv s → (length (curr_selection s) < n)%nat →
  ∃ s', forward pool s = Ok s' ∧ inv s' ∧ (nodes (curr_selection s') < nodes (curr_selection s))%nat.
Proof using gaps.
  intros Hinv Hlt. unfold forward. destruct (at_some pool (length (curr_selection s))) as (g & Hg & ->); [done|]. cbn [rbind].
  assert (Hgo : ∀ b, (b = false → ∀ r, solution (rev (curr_selection s) ++ true :: r) → covered s (rev (curr_selection s) ++ true :: r)) →
    ∃ s', Ok (push s g b) = @Ok selection_error bnb s' ∧ inv s' ∧ (nodes (curr_selection s') < nodes (curr_selection s))%nat).
  { intros b Hb. exists (push s g b). split_and!; [done|by apply push_inv|by apply push_nodes]. }
  unfold push in Hgo. destruct (curr_selection s) as [|[] sel] eqn:Es; cbn [like_omitted rbind]; [by apply (Hgo true)..|].
  destruct (at_some pool (length sel)) as (p & Hp & ->); [cbn [length] in Hlt; lia|]. cbn [rbind].
  destruct (Z.eqb_spec (effective_value g) (effective_value p)) as [Ev|]; cbn [andb]; [|by apply (Hgo true)].
  destruct (Z.eqb_spec (fee g) (fee p)) as [Ef|]; [|by apply (Hgo true)]. apply (Hgo false). intros _ r Hr.
  cbn [rev length] in *. rewrite <- app_assoc in *. cbn [app] in *.
  apply (swap_covered s (rev sel) r p g); try done; by rewrite ?rev_involutive, ?length_rev.
Qed.

Lemma bnb_step_spec s : inv s →
  (∃ s', bnb_step pool target cost s = Ok (s', true) ∧ inv s' ∧ (nodes (curr_selection s') < nodes (curr_selection s))%nat) ∨
  (∃ s', bnb_step pool target cost s = Ok (s', false) ∧ noted s' ∧ ∀ t, solution t → covered s' t).
Proof using positive bounded target_pos cost_nonneg gaps.
  intros [Hp Hr]. unfold bnb_step. destruct (examine_spec s Hp) as (s' & back & -> & Es & Hp' & Hmono & Hback). cbn [rbind].
  assert (Hinv : inv s').
  { split; [done|]. intros t Ht. rewrite Es. destruct (Hr t Ht); [by left|right; auto]. }
  rewrite <- Es in *. destruct back.
  - destruct (backtrack_spec s' Hinv Hback) as [[-> Hall]|(s2 & -> & Hi & Hm)]; cbn [rbind].
    + right. exists s'. split_and!; [done|apply Hp'|done].
    + left. exists s2. done.
  - destruct Hback as [-> Hlt]. destruct (forward_spec s Hinv Hlt) as (s2 & -> & Hi & Hm). cbn [rbind]. left. by exists s2.
Qed.

(** The loop never leaves the vector, notes only solutions, and if it has as many tries
    as there are nodes left it sees them all. *)
Lemma bnb_loop_spec tries s : inv s →
  ∃ s' ended, bnb_loop pool target cost tries s = Ok (s', ended) ∧ noted s' ∧
    (ended = true → ∀ t, solution t → covered s' t) ∧
    ((nodes (curr_selection s) <= tries)%nat → ended = true).
Proof using positive bounded target_pos cost_nonneg gaps.
  revert s. induction tries as [|tries IH]; intros s Hi; cbn [bnb_loop].
  - exists s, false. split_and!; [done|apply Hi|done|]. unfold nodes. pose proof (size_pos (length (curr_selection s))). lia.
  - destruct (bnb_step_spec s Hi) as [(s1 & -> & Hi1 & Hm)|(s1 & -> & Hn & Hall)]; cbn [rbind].
    + destruct (IH s1 Hi1) as (s' & ended & -> & Hn & Hc & He). exists s', ended. split_and!; [done|done|done|].
      intros Hle. apply He. lia.
    + exists s1, true. done.
Qed.

Lemma start_inv : inv (bnb_start pool).
Proof using.
  split; [|intros t _; left; left; by exists t]. unfold places. cbn. split_and!; [lia|done|done|done|by left].
Qed.

Lemma start_nodes : nodes (curr_selection (bnb_start pool)) = (2 ^ (n + 1) - 1)%nat.
Proof using. unfold nodes, size, bnb_start. cbn [curr_selection length branches]. rewrite Nat.sub_0_r. lia. Qed.

End Search.

(** ** Selections as groups *)

Fixpoint selected (sel : list bool) (pool : list OutputGroup) : list OutputGroup :=
  match sel, pool with
  | b :: sel, g :: pool => if b then g :: selected sel pool else selected sel pool
  | _, _ => []
  end.

Lemma sum_selected f sel pool : sum_over f sel pool = total f (selected sel pool).
Proof.
  revert pool. induction sel as [|[] sel IH]; intros [|g pool]; cbn [sum_over selected]; try done;
    rewrite IH; unfold total; cbn [foldr]; lia.
Qed.

(** The outputs of a list of groups. *)
Definition all_outputs (l : list OutputGroup) : gset COutPoint := ⋃ (list_to_set ∘ m_outputs <$> l).

Lemma outputs_selected sel pool : outputs_of sel pool = all_outputs (selected sel pool).
Proof.
  unfold all_outputs. revert pool. induction sel as [|[] sel IH]; intros [|g pool]; cbn [outputs_of selected]; try done;
    rewrite IH; [done|]. by rewrite (left_id_L ∅ (∪)).
Qed.

Lemma selected_sublist sel pool : selected sel pool `sublist_of` pool.
Proof.
  revert pool. induction sel as [|[] sel IH]; intros [|g pool]; cbn [selected]; try apply sublist_nil_l.
  - by apply sublist_skip.
  - by apply sublist_cons.
Qed.

Lemma sublist_selected l pool : l `sublist_of` pool → ∃ sel, length sel = length pool ∧ selected sel pool = l.
Proof.
  induction 1 as [|g l pool _ (sel & Hl & E)|g l pool _ (sel & Hl & E)].
  - by exists [].
  - exists (true :: sel). cbn [length selected]. by rewrite Hl, E.
  - exists (false :: sel). cbn [length selected]. by rewrite Hl, E.
Qed.

Lemma total_perm f l l' : l ≡ₚ l' → total f l = total f l'.
Proof. unfold total. induction 1; cbn [foldr]; lia. Qed.

Lemma total_submseteq f sub pool : sub ⊆+ pool → Forall (λ g, 0 <= f g) pool → total f sub <= total f pool.
Proof.
  intros [k Hk]%submseteq_Permutation Hf. rewrite (total_perm f _ _ Hk). rewrite Hk in Hf. apply Forall_app in Hf as [_ Hf].
  pose proof (sum_over_bound f [] k Hf) as H. cbn [sum_over] in H. unfold total in *. rewrite foldr_app.
  clear -H. induction sub as [|g sub IH]; cbn [foldr]; lia.
Qed.

(** Selections of a pool and parts of it are the same. *)
Lemma part_selected (pool sub : list OutputGroup) :
  sub ⊆+ pool → ∃ sel, length sel = length pool ∧ selected sel pool ≡ₚ sub.
Proof.
  intros (k & Hp & Hs)%submseteq_sublist_r. destruct (sublist_selected k pool Hs) as (sel & Hl & <-). by exists sel.
Qed.

(** A part whose value is in the range, and its waste. *)
Definition pays (pool : list OutputGroup) (target cost : Z) (sub : list OutputGroup) : Prop :=
  sub ⊆+ pool ∧ target <= total effective_value sub <= target + cost.
Definition waste_of (target : Z) (sub : list OutputGroup) : Z :=
  total fee_gap sub + (total effective_value sub - target).

Lemma pays_solution pool pool' target cost sub :
  pool' ≡ₚ pool → pays pool target cost sub →
  ∃ t, solution pool' target cost t ∧ selected t pool' ≡ₚ sub.
Proof.
  intros Hp [Hs Hr]. rewrite <- Hp in Hs. destruct (part_selected pool' sub Hs) as (sel & Hl & E). exists sel. split; [|done].
  split; [done|]. unfold value. by rewrite sum_selected, (total_perm _ _ _ E).
Qed.

Lemma solution_pays pool pool' target cost t :
  pool' ≡ₚ pool → solution pool' target cost t → pays pool target cost (selected t pool').
Proof.
  intros Hp [_ Hr]. split; [|unfold value in Hr; by rewrite sum_selected in Hr].
  rewrite <- Hp. apply sublist_submseteq, selected_sublist.
Qed.

Lemma waste_selected pool target t : waste pool target t = waste_of target (selected t pool).
Proof. unfold waste, waste_of, value. by rewrite !sum_selected. Qed.

(** The fees at hand are never below the long-term ones, and groups with the same fee
    have the same long-term fee. *)
Definition gaps_ok (pool : list OutputGroup) : Prop :=
  Forall (λ g, 0 <= fee_gap g) pool ∧ ∀ g h, g ∈ pool → h ∈ pool → fee g = fee h → fee_gap g = fee_gap h.

Lemma tries_enough k : (k <= 15)%nat → (2 ^ (k + 1) - 1 <= TOTAL_TRIES)%nat.
Proof.
  intros Hk. assert (H : (2 ^ (k + 1) <= 2 ^ 16)%nat) by (apply Nat.pow_le_mono_r; lia).
  apply Nat2Z.inj_le in H. rewrite (Nat2Z.inj_pow 2 16) in H. change (Z.of_nat 2 ^ Z.of_nat 16) with 65536 in H.
  unfold TOTAL_TRIES. lia.
Qed.

(** ** The approximation *)

Lemma sum_over_insert f sel pool i g :
  sel !! i = Some false → pool !! i = Some g → sum_over f (<[i := true]> sel) pool = sum_over f sel pool + f g.
Proof.
  revert pool i. induction sel as [|b sel IH]; intros [|h pool] [|i] Hs Hp; try done.
  - injection Hs as ->. injection Hp as ->. cbn [insert list_insert sum_over]. lia.
  - change (<[S i:=true]> (b :: sel)) with (b :: <[i:=true]> sel). cbn [sum_over]. rewrite IH by done. lia.
Qed.

Lemma sum_over_all f pool : sum_over f (replicate (length pool) true) pool = total f pool.
Proof. induction pool as [|g pool IH]; [done|]. cbn [length replicate sum_over]. rewrite IH. done. Qed.

Lemma nth_replicate_false j k : nth j (replicate k false) false = false.
Proof. revert k. induction j as [|j IH]; intros [|k]; cbn [nth replicate]; auto. Qed.

Section Approximation.
Context (groups : list OutputGroup) (target : Z).
Let m := length groups.

(** The totals are those of the vectors, and the best one reaches the target. *)
Definition best_ok (best : list bool) (nbest : Z) : Prop :=
  length best = m ∧ nbest = sum_over m_value best groups ∧ target <= nbest.
Definition pass_ok (s : pass_state) : Prop :=
  length (vfIncluded s) = m ∧ nTotal s = sum_over m_value (vfIncluded s) groups ∧ best_ok (vfBest s) (nBest s).

(** From an index on nothing is included. *)
Definition clean (k : nat) (s : pass_state) : Prop := ∀ j, (k <= j)%nat → nth j (vfIncluded s) false = false.

Lemma pass_step_ok take_it s i g :
  groups !! i = Some g → (take_it i (nth i (vfIncluded s) false) = true → nth i (vfIncluded s) false = false) →
  pass_ok s → pass_ok (pass_step target take_it s (i, g)) ∧
    ∀ k, (i < k)%nat → clean k s → clean k (pass_step target take_it s (i, g)).
Proof using.
  intros Hg Ht (Hl & Hs & Hb). pose proof (lookup_lt_Some _ _ _ Hg) as Hi. unfold pass_step.
  destruct (take_it i _); [|by split]. specialize (Ht eq_refl).
  assert (Hf : vfIncluded s !! i = Some false).
  { destruct (nth_lookup_or_length (vfIncluded s) i false) as [E|]; [by rewrite Ht in E|lia]. }
  assert (Hsum : nTotal s + m_value g = sum_over m_value (<[i:=true]> (vfIncluded s)) groups).
  { rewrite (sum_over_insert m_value _ _ _ g) by done. lia. }
  assert (Hclean : ∀ (b : bool) inc k, (i < k)%nat → (∀ j, (k <= j)%nat → nth j inc false = false) →
    ∀ j, (k <= j)%nat → nth j (<[i:=b]> inc) false = false).
  { intros b inc k Hk Hc j Hj. rewrite nth_lookup, list_lookup_insert_ne by lia. rewrite <- nth_lookup. auto. }
  destruct (Z.leb_spec target (nTotal s + m_value g)) as [Hge|Hlt].
  - destruct (if _ <? _ then _ else _) as [best nbest] eqn:E. split.
    + unfold pass_ok. cbn [vfIncluded nTotal vfBest nBest]. rewrite list_insert_insert_eq, list_insert_id by done.
      split_and!; [done|lia|]. destruct (Z.ltb_spec (nTotal s + m_value g) (nBest s)); injection E as <- <-; [|done].
      split_and!; [by rewrite length_insert|done|done].
    + intros k Hk Hc j Hj. cbn [vfIncluded]. apply (Hclean false _ k Hk); [|done]. by apply Hclean.
  - split.
    + unfold pass_ok. cbn [vfIncluded nTotal vfBest nBest]. rewrite length_insert. done.
    + intros k Hk Hc j Hj. cbn [vfIncluded]. by apply (Hclean true _ k Hk).
Qed.

Lemma pass_ok_foldl take_it rest k s :
  (∀ i g, rest !! i = Some g → groups !! (k + i)%nat = Some g) →
  (∀ i b, take_it i b = true → b = false) ∨ clean k s →
  pass_ok s → pass_ok (foldl (pass_step target take_it) s (zip (seq k (length rest)) rest)).
Proof using.
  revert k s. induction rest as [|g rest IH]; intros k s Hr Hc Hs; [done|]. cbn [length seq zip zip_with foldl].
  destruct (pass_step_ok take_it s k g) as [Hs' Hc']; [|destruct Hc as [Hc|Hc]; [apply Hc|intros _; by apply Hc]|done|].
  { specialize (Hr O g eq_refl). by rewrite Nat.add_0_r in Hr. }
  apply IH; [|destruct Hc as [Hc|Hc]; [by left|right; apply Hc'; [lia|]; intros j Hj; apply Hc; lia]|done].
  intros i h Hi. specialize (Hr (S i) h Hi). by rewrite Nat.add_succ_r in Hr.
Qed.

Lemma repetition_ok flip best nbest :
  best_ok best nbest → best_ok (repetition target flip groups best nbest).1 (repetition target flip groups best nbest).2.
Proof using.
  intros Hb. unfold repetition. set (s0 := mkPass _ _ _ _ _). assert (H0 : pass_ok s0).
  { split_and!; [apply length_replicate|symmetry; apply sum_over_false|apply Hb..]. }
  assert (H1 : pass_ok (pass target (λ i _, flip i) groups s0)).
  { apply pass_ok_foldl; [done| |done]. right. intros j _. cbn [vfIncluded s0]. apply nth_replicate_false. }
  cbn [fst snd]. destruct (fReachedTarget _); [apply H1|].
  apply pass_ok_foldl; [done| |done]. left. by intros i [].
Qed.

Lemma repetitions_ok it flips best nbest :
  best_ok best nbest → best_ok (repetitions it target flips groups best nbest).1 (repetitions it target flips groups best nbest).2.
Proof using.
  revert best nbest. induction it as [|it IH]; intros best nbest Hb; cbn [repetitions]; [done|].
  destruct (_ =? _); [done|]. pose proof (repetition_ok (flips it) best nbest Hb) as Hr.
  destruct (repetition _ _ _ _ _) as [best' nbest']. by apply IH.
Qed.

(** The subset that is approximated reaches the target. *)
Lemma ApproximateBestSubset_ok flips :
  target <= total m_value groups →
  best_ok (ApproximateBestSubset groups (total m_value groups) target flips).1
    (ApproximateBestSubset groups (total m_value groups) target flips).2.
Proof using.
  intros Ht. apply repetitions_ok. split_and!; [apply length_replicate|by rewrite sum_over_all|done].
Qed.

End Approximation.

Lemma total_app f l l' : total f (l ++ l') = total f l + total f l'.
Proof. unfold total. induction l as [|g l IH]; cbn [app foldr]; lia. Qed.

(** The groups that are too large to be combined, and the one that is kept of them. *)
Definition larger_ok (target : Z) (larger : list OutputGroup) (lowest : option OutputGroup) : Prop :=
  Forall (λ g, target + MIN_CHANGE <= m_value g) larger ∧
  (lowest = None ∧ larger = [] ∨ ∃ l, lowest = Some l ∧ l ∈ larger).

Lemma partition_spec target groups app larger lowest :
  larger_ok target larger lowest →
  match partition_groups target groups app (total m_value app) lowest with
  | inl g => g ∈ groups ∧ m_value g = target
  | inr (app', tl, lowest') =>
      tl = total m_value app' ∧ ∃ larger', app' ++ larger' ≡ₚ groups ++ app ++ larger ∧ larger_ok target larger' lowest'
  end.
Proof.
  revert app larger lowest. induction groups as [|g groups IH]; intros app larger lowest Hok; cbn [partition_groups].
  { split; [done|]. by exists larger. }
  destruct (Z.eqb_spec (m_value g) target) as [E|_]; [split; [left|done]|].
  destruct (Z.ltb_spec (m_value g) (target + MIN_CHANGE)) as [Hlt|Hge].
  - specialize (IH (app ++ [g]) larger lowest Hok). replace (total m_value (app ++ [g])) with (total m_value app + m_value g) in IH
      by (rewrite total_app; unfold total; cbn [foldr]; lia).
    destruct (partition_groups _ _ _ _ _) as [h|[[app' tl] lw]]; [split; [right|]; apply IH|].
    destruct IH as (Htl & larger' & Hp & Hl). split; [done|]. exists larger'. split; [|done]. rewrite Hp. solve_Permutation.
  - set (lw := match lowest with Some _ => _ | None => _ end). assert (Hok' : larger_ok target (g :: larger) lw).
    { destruct Hok as [Hf Hc]. split; [by constructor|]. right. subst lw. destruct Hc as [[-> ->]|(l & -> & Hl)].
      - exists g. split; [done|left].
      - destruct (m_value g <? m_value l); [exists g; split; [done|left]|exists l; split; [done|by right]]. }
    specialize (IH app (g :: larger) lw Hok').
    destruct (partition_groups _ _ _ _ _) as [h|[[app' tl] lw']]; [split; [right|]; apply IH|].
    destruct IH as (Htl & larger' & Hp & Hl). split; [done|]. exists larger'. split; [|done]. rewrite Hp. solve_Permutation.
Qed.

(** A part of the groups that is worth the target at least, and what is returned for it. *)
Definition worth (groups : list OutputGroup) (target : Z) (r : option (gset COutPoint * Z)) : Prop :=
  match r with
  | Some (out, v) => ∃ sub, sub ⊆+ groups ∧ out = all_outputs sub ∧ v = total m_value sub ∧ target <= v
  | None => total m_value groups < target
  end.

Lemma worth_single groups target g :
  g ∈ groups → target <= m_value g → worth groups target (Some (list_to_set (m_outputs g), m_value g)).
Proof.
  intros Hg Ht. exists [g]. split_and!; [by apply singleton_submseteq_l| |unfold total; cbn; lia|done].
  unfold all_outputs. cbn. by rewrite (right_id_L ∅ (∪)).
Qed.

Lemma worth_selection groups app target sel :
  app ⊆+ groups → target <= sum_over m_value sel app →
  worth groups target (Some (outputs_of sel app, sum_over m_value sel app)).
Proof.
  intros Ha Ht. exists (selected sel app). split_and!; [|apply outputs_selected|apply sum_selected|done].
  etrans; [apply sublist_submseteq, selected_sublist|done].
Qed.

(** Both approximations reach the target. *)
Lemma approximate_twice groups target flips flips' :
  target <= total m_value groups →
  let '(best, nbest) := ApproximateBestSubset groups (total m_value groups) target flips in
  let '(best, _) :=
    if negb (nbest =? target) && (target + MIN_CHANGE <=? total m_value groups)
    then ApproximateBestSubset groups (total m_value groups) (target + MIN_CHANGE) flips' else (best, nbest) in
  target <= sum_over m_value best groups.
Proof.
  intros Ht. pose proof (ApproximateBestSubset_ok groups target flips Ht) as H1.
  destruct (ApproximateBestSubset _ _ target _) as [b1 n1]. destruct H1 as (_ & E1 & H1). cbn [fst snd] in E1, H1.
  destruct (negb _); cbn [andb]; [|lia].
  destruct (Z.leb_spec (target + MIN_CHANGE) (total m_value groups)) as [Hc|]; [|lia].
  pose proof (ApproximateBestSubset_ok groups (target + MIN_CHANGE) flips' Hc) as H2.
  destruct (ApproximateBestSubset _ _ _ _) as [b2 n2]. destruct H2 as (_ & E2 & H2). unfold MIN_CHANGE in *.
  cbn [fst snd] in *. lia.
Qed.

(** ** Properties *)

(** C21: branch and bound is exact for up to fifteen groups.  With positive values, a
    positive target and fees that stay within [MAX_MONEY], whatever order the sort leaves
    between equal groups: no access leaves the pool, and the search succeeds exactly if
    some part of the pool has a value between the target and the target plus the cost of
    change.  The outputs and the value are those of such a part; and if the fees are not
    below the long-term ones, no other part wastes less. *)
Theorem SelectCoinsBnB_exact (sort : list OutputGroup → list OutputGroup) (pool : list OutputGroup)
    (target_value cost not_input_fees : Z) :
  (∀ l, sort l ≡ₚ l) → Forall (λ g, 0 < effective_value g) pool →
  total (λ g, Z.abs (fee_gap g)) pool + cost <= MAX_MONEY → 0 <= cost → 0 < not_input_fees + target_value →
  (length pool <= 15)%nat →
  let target := not_input_fees + target_value in
  ∃ r, SelectCoinsBnB sort TOTAL_TRIES pool target_value cost not_input_fees = Ok r ∧
    (r = None ↔ ¬ ∃ sub, pays pool target cost sub) ∧
    ∀ out v, r = Some (out, v) →
      ∃ sub, pays pool target cost sub ∧ out = all_outputs sub ∧ v = total m_value sub ∧
        (gaps_ok pool → ∀ sub', pays pool target cost sub' → waste_of target sub <= waste_of target sub').
Proof.
  intros Hsort Hpos Hb Hc Ht Hl. cbv zeta. set (target := not_input_fees + target_value) in *. unfold SelectCoinsBnB. fold target.
  replace (existsb _ pool) with false.
  2:{ symmetry. apply not_true_is_false. rewrite existsb_exists. intros (g & Hg%list_elem_of_In & E%negb_true_iff%Z.ltb_ge).
      rewrite Forall_forall in Hpos. specialize (Hpos g Hg). cbv beta in Hpos. lia. }
  destruct (Z.ltb_spec (total effective_value pool) target) as [Hlt|Hge].
  { exists None. split; [done|]. split; [|done]. split; [intros _ (sub & [Hs Hr])|done].
    assert (Hnn : Forall (λ g, 0 <= effective_value g) pool) by (eapply Forall_impl; [exact Hpos|]; intros g; cbv beta; lia).
    pose proof (total_submseteq effective_value sub pool Hs Hnn). lia. }
  specialize (Hsort pool). set (p := sort pool) in *.
  assert (Hpos' : Forall (λ g, 0 < effective_value g) p) by by rewrite Hsort.
  assert (Hb' : total (λ g, Z.abs (fee_gap g)) p + cost <= MAX_MONEY) by by rewrite (total_perm _ _ _ Hsort).
  assert (Hl' : (length p <= 15)%nat) by by rewrite Hsort.
  destruct (bnb_loop_spec p target cost false Hpos' Hb' Ht Hc ltac:(done) TOTAL_TRIES (bnb_start p) (start_inv _ _ _ _))
    as (s & ended & Hloop & Hn & Hcov & Hend).
  rewrite start_nodes in Hend. specialize (Hend (tries_enough _ Hl')). subst ended. specialize (Hcov eq_refl).
  rewrite Hloop. cbn [rbind]. destruct (best_selection s) as [|b best] eqn:Eb.
  - exists None. split; [done|]. split; [|done]. split; [intros _ (sub & Hsub)|done].
    destruct (pays_solution pool p target cost sub Hsort Hsub) as (t & Htsol & _). by apply (Hcov t Htsol).
  - eexists. split; [done|]. destruct Hn as [[? _]|[Hsol Hw]]; [congruence|]. rewrite Eb in Hsol, Hw.
    pose proof (solution_pays pool p target cost _ Hsort Hsol) as Hpay. split.
    { split; [done|]. intros Hno. destruct Hno. by eexists. }
    intros out v [= <- <-]. exists (selected (b :: best) p). split_and!; [done|exact (outputs_selected (b :: best) p)|exact (sum_selected m_value (b :: best) p)|].
    intros [Hg Hf] sub' Hsub'. destruct (pays_solution pool p target cost sub' Hsort Hsub') as (t & Htsol & Et).
    assert (Hgp : true = true → Forall (λ g, 0 <= fee_gap g) p ∧ ∀ g h, g ∈ p → h ∈ p → fee g = fee h → fee_gap g = fee_gap h).
    { intros _. split; [by rewrite Hsort|]. intros g h Hgi Hhi. apply Hf; by rewrite <- Hsort. }
    destruct (bnb_loop_spec p target cost true Hpos' Hb' Ht Hc Hgp TOTAL_TRIES (bnb_start p) (start_inv _ _ _ _))
      as (s2 & ended2 & Hloop2 & _ & Hcov2 & Hend2).
    rewrite Hloop in Hloop2. injection Hloop2 as <- <-. specialize (Hcov2 eq_refl t Htsol). unfold covered in Hcov2.
    rewrite Hw, !waste_selected in Hcov2. unfold waste_of in *. by rewrite !(total_perm _ _ _ Et) in Hcov2.
Qed.

(** Three coins, of which two pay exactly. *)
#[global] Instance descending_dec : RelDecision descending.
Proof. intros a b. unfold descending. apply _. Defined.

Definition coin (i v : Z) : OutputGroup := mkGroup [OutPoint [] i] v v 2 1.
Definition three_coins : list OutputGroup := [coin 0 5; coin 1 9; coin 2 7].

Lemma SelectCoinsBnB_exact_witness :
  SelectCoinsBnB (merge_sort descending) TOTAL_TRIES three_coins 10 1 2 ≠ Ok None.
Proof.
  destruct (SelectCoinsBnB_exact (merge_sort descending) three_coins 10 1 2) as (r & -> & Hr & _);
    [intros l; apply merge_sort_Permutation|by_eval|by_eval|by_eval|by_eval|by_eval|].
  intros [= ->]. destruct Hr as [Hr _]. apply Hr; [done|]. exists [coin 0 5; coin 2 7]. split; [|by_eval].
  apply sublist_submseteq. apply sublist_skip, sublist_cons, sublist_skip, sublist_nil.
Defined.

(** C22: the knapsack solver finds coins if there are enough.  Whatever the shuffle, the
    order of equal groups and the coin flips: with positive values and a positive target
    it fails exactly if all the groups together are worth less than the target, and
    otherwise it returns the outputs and the value of a part of the groups that is worth
    at least the target. *)
Theorem KnapsackSolver_enough (shuffle sort : list OutputGroup → list OutputGroup) (flips flips' : nat → nat → bool)
    (target : Z) (groups : list OutputGroup) :
  (∀ l, shuffle l ≡ₚ l) → (∀ l, sort l ≡ₚ l) → Forall (λ g, 0 < m_value g) groups → 0 < target →
  worth groups target (KnapsackSolver shuffle sort flips flips' target groups) ∧
  (KnapsackSolver shuffle sort flips flips' target groups = None ↔ total m_value groups < target).
Proof.
  intros Hsh Hso Hpos Ht. assert (Hw : worth groups target (KnapsackSolver shuffle sort flips flips' target groups)).
  { unfold KnapsackSolver. pose proof (partition_spec target (shuffle groups) [] [] None) as Hp.
    destruct (partition_groups _ _ _ _ _) as [g|[[app tl] lowest]].
    { destruct Hp as [Hg E]; [split; [constructor|by left]|]. apply worth_single; [by rewrite <- Hsh|lia]. }
    destruct Hp as (-> & larger & Hp & Hf & Hlow); [split; [constructor|by left]|]. rewrite !app_nil_r, Hsh in Hp.
    assert (Happ : app ⊆+ groups) by (rewrite <- Hp; apply submseteq_inserts_r; done).
    assert (Hsingle : ∀ l, lowest = Some l → worth groups target (Some (list_to_set (m_outputs l), m_value l))).
    { intros l ->. destruct Hlow as [[? _]|(l' & [= <-] & Hl)]; [done|]. unfold MIN_CHANGE in Hf.
      rewrite Forall_forall in Hf. specialize (Hf l Hl). cbv beta in Hf. apply worth_single; [rewrite <- Hp; set_solver|lia]. }
    destruct (Z.eqb_spec (total m_value app) target) as [E|Hne].
    { apply worth_selection; [done|]. rewrite sum_over_all. lia. }
    destruct (Z.ltb_spec (total m_value app) target) as [Hlt|Hge].
    { destruct lowest as [l|]; [by apply Hsingle|]. destruct Hlow as [[_ ->]|(? & ? & _)]; [|done].
      cbn. by rewrite <- (total_perm _ _ _ Hp), app_nil_r. }
    rewrite <- (total_perm m_value (sort app) app (Hso app)) in *.
    assert (Happ' : sort app ⊆+ groups) by by rewrite Hso.
    pose proof (approximate_twice (sort app) target flips flips' ltac:(lia)) as H2.
    destruct (ApproximateBestSubset _ _ target _) as [b1 n1]. destruct (if _ && _ then _ else _) as [b n]. rename H2 into Hb.
    destruct lowest as [l|]; [|by apply worth_selection].
    destruct (_ || _); [by apply Hsingle|by apply worth_selection]. }
  split; [done|]. destruct (KnapsackSolver _ _ _ _ _ _) as [[out v]|]; [|done]. split; [done|]. intros Hlt. exfalso.
  destruct Hw as (sub & Hs & _ & -> & Hge).
  assert (Hnn : Forall (λ g, 0 <= m_value g) groups) by (eapply Forall_impl; [exact Hpos|]; intros g; cbv beta; lia).
  pose proof (total_submseteq m_value sub groups Hs Hnn). lia.
Qed.

Lemma KnapsackSolver_enough_witness :
  KnapsackSolver id id (λ _ i, Nat.even i) (λ _ _, true) 13 three_coins ≠ None ∧
  KnapsackSolver id id (λ _ i, Nat.even i) (λ _ _, true) 22 three_coins = None.
Proof.
  split.
  - intros E. apply (KnapsackSolver_enough id id (λ _ i, Nat.even i) (λ _ _, true) 13 three_coins) in E;
      [vm_compute in E; done|done|done|by_eval|by_eval].
  - apply (KnapsackSolver_enough id id (λ _ i, Nat.even i) (λ _ _, true) 22 three_coins); [done|done|by_eval|by_eval|by_eval].
Defined.
