(* ===== verification/BestChain.v ===== *)
(** The choice of the chain to follow, after [CBlockIndexWorkComparator],
    [CChainState::FindMostWorkChain] and [CChainState::PruneBlockIndexCandidates] of
    [src/src/validation.cpp].

    Pointers and errors are those of the file on the block index: a [CBlockIndex*] is a
    key of the store, and keys compare as addresses; [None] is a null pointer that is
    dereferenced, a failed assertion or a loop that exceeds its bound. *)
From stdpp Require Import gmap sorting.
From S2P Require Import Prelude ArithUint256 Serialize Transaction Chain.
Import base_uint arith_uint256.

Definition BLOCK_HAVE_DATA : Z := 8.
Definition BLOCK_FAILED_CHILD : Z := 64.
Definition BLOCK_FAILED_DUPLICATE_STAKE : Z := 8.

Record chain_state := ChainState {
  index : heap;
  chainActive : CChain;
  setBlockIndexCandidates : gset ptr;
  pindexBestInvalid : option ptr;
  mapBlocksUnlinked : list (option ptr * ptr)
}.

Definition set_nFlags (x : Z) (b : CBlockIndex) : CBlockIndex :=
  BlockIndex (phashBlock b) (pprev b) (pskip b) (nHeight b) (nFile b) (nDataPos b) (nUndoPos b)
    (nChainWork b) (nTx b) (nChainTx b) x (bnStakeModifier b) (prevoutStake b)
    (nMoneySupply b) (nAnonOutputs b) (nStatus b) (nVersion b) (hashMerkleRoot b)
    (hashWitnessMerkleRoot b) (nTime b) (nBits b) (nNonce b) (nSequenceId b) (nTimeMax b).

(** [CBlockIndexWorkComparator]. *)
Definition work_less (pa : ptr) (a : CBlockIndex) (pb : ptr) (b : CBlockIndex) : bool :=
  let c := CompareTo W256 (nChainWork a) (nChainWork b) in
  if 0 <? c then false
  else if c <? 0 then true
  else if nSequenceId a <? nSequenceId b then false
  else if nSequenceId b <? nSequenceId a then true
  else if (pa <? pb)%positive then false
  else (pb <? pa)%positive.

(** The last element of a set in this order, and the first. *)
Fixpoint last_of (h : heap) (l : list ptr) : option (option ptr) :=
  match l with
  | [] => Some None
  | p :: l =>
      r ← last_of h l;
      match r with
      | None => Some (Some p)
      | Some q => a ← h !! p; b ← h !! q; Some (Some (if work_less q b p a then p else q))
      end
  end.
Fixpoint first_of (h : heap) (l : list ptr) : option (option ptr) :=
  match l with
  | [] => Some None
  | p :: l =>
      r ← first_of h l;
      match r with
      | None => Some (Some p)
      | Some q => a ← h !! p; b ← h !! q; Some (Some (if work_less p a q b then p else q))
      end
  end.

(** The walk from a candidate to the active chain: the first block that cannot be used,
    and whether it failed. *)
Fixpoint first_bad (fuel : nat) (h : heap) (v : CChain) (pindexTest : option ptr) : option (option (ptr * bool)) :=
  match pindexTest with
  | None => Some None
  | Some p =>
      c ← Contains h v p;
      if c : bool then Some None
      else
        b ← h !! p;
        if (nChainTx b =? 0) && negb (nHeight b =? 0) then None
        else
          let fFailedChain := negb (Z.land (nStatus b) BLOCK_FAILED_MASK =? 0) in
          let fMissingData := Z.land (nStatus b) BLOCK_HAVE_DATA =? 0 in
          if fFailedChain || fMissingData then Some (Some (p, fFailedChain))
          else match fuel with
               | O => None
               | S f => first_bad f h v (pprev b)
               end
  end.

(** The body of [while (pindexTest != pindexFailed)], for the entries [bt] and [b] of the
    two, up to the step back. *)
Definition remove_one (bt : CBlockIndex) (fFailedChain : bool) (pindexFailed : ptr) (b : CBlockIndex) (s : chain_state)
  : chain_state :=
  let s :=
    if fFailedChain then
      let b := if negb (Z.land (nFlags bt) BLOCK_FAILED_DUPLICATE_STAKE =? 0)
               then set_nFlags (Z.lor (nFlags b) BLOCK_FAILED_DUPLICATE_STAKE) b else b in
      ChainState (<[pindexFailed := set_nStatus (Z.lor (nStatus b) BLOCK_FAILED_CHILD) b]> (index s)) (chainActive s)
        (setBlockIndexCandidates s) (pindexBestInvalid s) (mapBlocksUnlinked s)
    else
      ChainState (index s) (chainActive s) (setBlockIndexCandidates s) (pindexBestInvalid s)
        (mapBlocksUnlinked s ++ [(pprev b, pindexFailed)]) in
  ChainState (index s) (chainActive s) (setBlockIndexCandidates s ∖ {[pindexFailed]})
    (pindexBestInvalid s) (mapBlocksUnlinked s).

Fixpoint remove_chain (fuel : nat) (pindexTest : ptr) (fFailedChain : bool) (pindexFailed : ptr) (s : chain_state)
  : option chain_state :=
  if bool_decide (pindexTest = pindexFailed) then Some s
  else
    bt ← index s !! pindexTest;
    b ← index s !! pindexFailed;
    match fuel with
    | O => None
    | S f => q ← pprev b; remove_chain f pindexTest fFailedChain q (remove_one bt fFailedChain pindexFailed b s)
    end.

(** [if (fFailedChain && (pindexBestInvalid == nullptr || ...)) pindexBestInvalid = pindexNew;]. *)
Definition note_invalid (pindexNew : ptr) (fFailedChain : bool) (s : chain_state) : option chain_state :=
  if negb fFailedChain then Some s
  else
    better ← match pindexBestInvalid s with
             | None => Some true
             | Some q => a ← index s !! pindexNew; b ← index s !! q;
                         Some (0 <? CompareTo W256 (nChainWork a) (nChainWork b))
             end;
    Some (if better : bool
          then ChainState (index s) (chainActive s) (setBlockIndexCandidates s) (Some pindexNew) (mapBlocksUnlinked s)
          else s).

(** What is done with a candidate whose chain has the block [pindexTest] in it. *)
Definition discard (pindexNew pindexTest : ptr) (fFailedChain : bool) (s : chain_state) : option chain_state :=
  s ← note_invalid pindexNew fFailedChain s;
  b ← index s !! pindexNew;
  s ← remove_chain (Z.to_nat (nHeight b)) pindexTest fFailedChain pindexNew s;
  Some (ChainState (index s) (chainActive s) (setBlockIndexCandidates s ∖ {[pindexTest]})
          (pindexBestInvalid s) (mapBlocksUnlinked s)).

Fixpoint FindMostWorkChain_loop (fuel : nat) (s : chain_state) : option (option ptr * chain_state) :=
  match fuel with
  | O => None
  | S f =>
      r ← last_of (index s) (elements (setBlockIndexCandidates s));
      match r with
      | None => Some (None, s)
      | Some pindexNew =>
          b ← index s !! pindexNew;
          bad ← first_bad (S (Z.to_nat (nHeight b))) (index s) (chainActive s) (Some pindexNew);
          match bad with
          | None => Some (Some pindexNew, s)
          | Some (pindexTest, fFailedChain) =>
              s ← discard pindexNew pindexTest fFailedChain s;
              FindMostWorkChain_loop f s
          end
      end
  end.

(** One round for every candidate, and one more. *)
Definition FindMostWorkChain (s : chain_state) : option (option ptr * chain_state) :=
  FindMostWorkChain_loop (S (size (setBlockIndexCandidates s))) s.

Fixpoint Prune_loop (fuel : nat) (h : heap) (tip : ptr) (cands : gset ptr) : option (gset ptr) :=
  r ← first_of h (elements cands);
  match r with
  | None => Some cands
  | Some p =>
      a ← h !! p;
      b ← h !! tip;
      if work_less p a tip b then
        match fuel with
        | O => None
        | S f => Prune_loop f h tip (cands ∖ {[p]})
        end
      else Some cands
  end.

Definition PruneBlockIndexCandidates (s : chain_state) : option chain_state :=
  match Tip (chainActive s) with
  | None => None
  | Some tip =>
      cands ← Prune_loop (size (setBlockIndexCandidates s)) (index s) tip (setBlockIndexCandidates s);
      if bool_decide (cands = ∅) then None
      else Some (ChainState (index s) (chainActive s) cands (pindexBestInvalid s) (mapBlocksUnlinked s))
  end.

(** ** The order *)

Definition work_ok (h : heap) : Prop := map_Forall (λ _ b, ok256 (nChainWork b)) h.

(** [q] comes after [p]: more work, or as much and received earlier. *)
Definition before (h : heap) (p q : ptr) : Prop :=
  ∃ a b, h !! p = Some a ∧ h !! q = Some b ∧ work_less p a q b = true.

Lemma work_less_spec p a q b :
  ok256 (nChainWork a) → ok256 (nChainWork b) →
  work_less p a q b = true ↔
    value (nChainWork a) < value (nChainWork b) ∨
    value (nChainWork a) = value (nChainWork b) ∧
      (nSequenceId b < nSequenceId a ∨ nSequenceId a = nSequenceId b ∧ (q < p)%positive).
Proof.
  intros Ha Hb. unfold work_less. rewrite CompareTo_spec by done.
  destruct (Z.compare_spec (value (nChainWork a)) (value (nChainWork b))); cbn [Z.ltb Z.compare]; [|split; [by left|done]|split; [done|lia]].
  destruct (Z.ltb_spec (nSequenceId a) (nSequenceId b)); [split; [done|lia]|].
  destruct (Z.ltb_spec (nSequenceId b) (nSequenceId a)); [split; [by right; split; [|left]|done]|].
  destruct (Pos.ltb_spec p q), (Pos.ltb_spec q p); split; try done; try lia.
Qed.

Section Order.
Context (h : heap) (Hw : work_ok h).

Lemma before_irrefl p : ¬ before h p p.
Proof using Hw.
  intros (a & b & Ha & Hb & Hl). simplify_eq. apply work_less_spec in Hl; [|by eapply Hw..]. lia.
Qed.

Lemma before_trans p q r : before h p q → before h q r → before h p r.
Proof using Hw.
  intros (a & b & Ha & Hb & H1) (b' & c & Hb' & Hc & H2). simplify_eq. exists a, c. split_and!; [done|done|].
  apply work_less_spec in H1, H2; [|by eapply Hw..]. apply work_less_spec; [by eapply Hw..|]. lia.
Qed.

Lemma before_total p q a b : h !! p = Some a → h !! q = Some b → p = q ∨ before h p q ∨ before h q p.
Proof using Hw.
  intros Ha Hb. pose proof (Hw _ _ Ha) as Oa. pose proof (Hw _ _ Hb) as Ob. cbv beta in *.
  destruct (decide (p = q)) as [|Hne]; [by left|right].
  destruct (work_less p a q b) eqn:E; [left; by exists a, b|right]. exists b, a. split_and!; [done|done|].
  apply not_true_iff_false in E. rewrite work_less_spec in E by done. rewrite work_less_spec by done. lia.
Qed.

Lemma not_before_trans p q r :
  is_Some (h !! p) → is_Some (h !! q) → is_Some (h !! r) → ¬ before h p q → ¬ before h q r → ¬ before h p r.
Proof using Hw.
  intros [a Ha] [b Hb] [c Hc] H1 H2 H3. destruct (before_total p q a b Ha Hb) as [->|[?|Hqp]]; [done..|].
  apply H2. by apply (before_trans q p r).
Qed.

Lemma last_of_spec l : (∀ p, p ∈ l → is_Some (h !! p)) →
  ∃ r, last_of h l = Some r ∧
    match r with None => l = [] | Some p => p ∈ l ∧ ∀ q, q ∈ l → ¬ before h p q end.
Proof using Hw.
  induction l as [|p l IH]; intros Hl; [by exists None|]. cbn [last_of].
  destruct IH as (r & -> & Hr); [intros q Hq; apply Hl; by right|]. cbn [mbind option_bind]. destruct r as [q|].
  - destruct Hr as [Hq Hmax]. destruct (Hl p) as [a Ha]; [by left|]. destruct (Hl q) as [b Hb]; [by right|].
    rewrite Ha, Hb. cbn [mbind option_bind]. eexists. split; [done|]. destruct (work_less q b p a) eqn:E.
    + split; [by left|]. intros x [->|Hx]%elem_of_cons; [apply before_irrefl|]. intros Hbx.
      apply (Hmax x Hx). apply (before_trans q p x); [by exists b, a|done].
    + split; [by right|]. intros x [->|Hx]%elem_of_cons; [|by apply Hmax].
      intros (b' & a' & Hb' & Ha' & Hbx). simplify_eq. congruence.
  - subst l. exists (Some p). split; [done|]. split; [by left|]. intros q [->|Hq]%elem_of_cons; [apply before_irrefl|].
    by apply elem_of_nil in Hq.
Qed.

Lemma first_of_spec l : (∀ p, p ∈ l → is_Some (h !! p)) →
  ∃ r, first_of h l = Some r ∧
    match r with None => l = [] | Some p => p ∈ l ∧ ∀ q, q ∈ l → ¬ before h q p end.
Proof using Hw.
  induction l as [|p l IH]; intros Hl; [by exists None|]. cbn [first_of].
  destruct IH as (r & -> & Hr); [intros q Hq; apply Hl; by right|]. cbn [mbind option_bind]. destruct r as [q|].
  - destruct Hr as [Hq Hmin]. destruct (Hl p) as [a Ha]; [by left|]. destruct (Hl q) as [b Hb]; [by right|].
    rewrite Ha, Hb. cbn [mbind option_bind]. eexists. split; [done|]. destruct (work_less p a q b) eqn:E.
    + split; [by left|]. intros x [->|Hx]%elem_of_cons; [apply before_irrefl|]. intros Hbx.
      apply (Hmin x Hx). apply (before_trans x p q); [done|by exists a, b].
    + split; [by right|]. intros x [->|Hx]%elem_of_cons; [|by apply Hmin].
      intros (a' & b' & Ha' & Hb' & Hbx). simplify_eq. congruence.
  - subst l. exists (Some p). split; [done|]. split; [by left|]. intros q [->|Hq]%elem_of_cons; [apply before_irrefl|].
    by apply elem_of_nil in Hq.
Qed.

End Order.

(** ** Blocks that cannot be used *)

Definition failed (b : CBlockIndex) : bool := negb (Z.land (nStatus b) BLOCK_FAILED_MASK =? 0).
Definition bad (h : heap) (p : ptr) : Prop :=
  ∃ b, h !! p = Some b ∧ failed b || (Z.land (nStatus b) BLOCK_HAVE_DATA =? 0) = true.

(** Every block of the branch that is not in the active chain is valid and at hand. *)
Definition usable (h : heap) (v : CChain) (p : ptr) : Prop :=
  ∀ q, ancestor h q p → Contains h v q ≠ Some true → ¬ bad h q.

(** Stores that differ in the states and flags only. *)
Definition skel (b : CBlockIndex) := (pprev b, pskip b, nHeight b, nChainTx b, nChainWork b, nSequenceId b).
Definition similar (h h' : heap) : Prop := skel <$> h = skel <$> h'.

Lemma similar_lookup h h' p b :
  similar h h' → h !! p = Some b → ∃ b', h' !! p = Some b' ∧ skel b' = skel b.
Proof.
  intros Hs Hp. pose proof (f_equal (lookup p) Hs) as E. rewrite !lookup_fmap, Hp in E. cbn in E.
  destruct (h' !! p) as [b'|]; [|done]. exists b'. cbn in E. split; [done|congruence].
Qed.

Lemma similar_sym h h' : similar h h' → similar h' h.
Proof. by unfold similar. Qed.

Lemma similar_insert h p b b' : h !! p = Some b → skel b' = skel b → similar h (<[p := b']> h).
Proof.
  intros Hp E. unfold similar. rewrite fmap_insert, E. symmetry. apply insert_id. by rewrite lookup_fmap, Hp.
Qed.

Lemma similar_none h h' p : similar h h' → h !! p = None → h' !! p = None.
Proof.
  intros Hs Hp. pose proof (f_equal (lookup p) Hs) as E. rewrite !lookup_fmap, Hp in E. cbn in E. by destruct (h' !! p).
Qed.

Lemma similar_walk h h' k p : similar h h' → walk h' k p = walk h k p.
Proof.
  intros Hs. revert p. induction k as [|k IH]; intros p; [done|]. cbn [walk].
  destruct (h !! p) as [b|] eqn:Hp.
  - destruct (similar_lookup h h' p b Hs Hp) as (b' & -> & E). injection E as E1 E2 E3 E4 E5 E6. cbn [mbind option_bind]. rewrite E1.
    destruct (pprev b); [apply IH|done].
  - by rewrite (similar_none h h' p Hs Hp).
Qed.

Lemma similar_ancestor h h' q p : similar h h' → ancestor h' q p ↔ ancestor h q p.
Proof. intros Hs. unfold ancestor. split; intros [k Hk]; exists k; by rewrite (similar_walk h h') in *. Qed.

Lemma similar_Contains h h' v p : similar h h' → Contains h' v p = Contains h v p.
Proof.
  intros Hs. unfold Contains. destruct (h !! p) as [b|] eqn:Hp.
  - destruct (similar_lookup h h' p b Hs Hp) as (b' & -> & E). injection E as E1 E2 E3 E4 E5 E6. cbn [mbind option_bind]. by rewrite E3.
  - by rewrite (similar_none h h' p Hs Hp).
Qed.

Lemma similar_before h h' p q : similar h h' → before h p q → before h' p q.
Proof.
  intros Hs (a & b & Ha & Hb & Hl). destruct (similar_lookup h h' p a Hs Ha) as (a' & Ha' & Ea).
  destruct (similar_lookup h h' q b Hs Hb) as (b' & Hb' & Eb). exists a', b'. split_and!; [done|done|].
  injection Ea as A1 A2 A3 A4 A5 A6. injection Eb as B1 B2 B3 B4 B5 B6. unfold work_less in *. by rewrite A5, A6, B5, B6.
Qed.

Lemma similar_tree h h' : similar h h' → tree_ok h → tree_ok h'.
Proof.
  intros Hs Ht p b' Hp. destruct (similar_lookup h' h p b' (similar_sym _ _ Hs) Hp) as (b & Hb & E).
  injection E as E1 E2 E3 E4 E5 E6. destruct (Ht p b Hb) as (H1 & H2 & H3 & H4). unfold links_ok.
  rewrite <- E1, <- E2, <- E3. split_and!; [done|done| |].
  - destruct (pprev b) as [q|]; [|done]. destruct H3 as (bq & Hq & Hh). destruct (similar_lookup h h' q bq Hs Hq) as (bq' & Hq' & E).
    injection E as F1 F2 F3 F4 F5 F6. exists bq'. by rewrite F3.
  - destruct (pskip b); [|done]. by rewrite (similar_walk h h').
Qed.

Lemma similar_work h h' : similar h h' → work_ok h → work_ok h'.
Proof.
  intros Hs Ht p b' Hp. destruct (similar_lookup h' h p b' (similar_sym _ _ Hs) Hp) as (b & Hb & E).
  injection E as E1 E2 E3 E4 E5 E6. cbv beta. rewrite <- E5. by apply (Ht p b).
Qed.

Lemma similar_path h h' v tip : similar h h' → is_path h v tip → is_path h' v tip.
Proof.
  intros Hs (b & Hb & Hl & Hv). destruct (similar_lookup h h' tip b Hs Hb) as (b' & Hb' & E).
  injection E as E1 E2 E3 E4 E5 E6. exists b'. rewrite E3. split_and!; [done|done|]. intros i Hi.
  rewrite (similar_walk h h') by done. by apply Hv.
Qed.

(** Marking blocks that have a bad block below them changes nothing. *)
Lemma usable_similar h h' v :
  similar h h' → (∀ p, bad h p → bad h' p) →
  (∀ p, bad h' p → bad h p ∨ ∃ q, ancestor h q p ∧ Contains h v q ≠ Some true ∧ bad h q) →
  ∀ p, usable h' v p ↔ usable h v p.
Proof.
  intros Hs H1 H2 p. unfold usable. split; intros Hu q Hq Hc Hb.
  - apply (Hu q); [by rewrite (similar_ancestor h h')|by rewrite (similar_Contains h h')|auto].
  - rewrite (similar_ancestor h h') in Hq by done. rewrite (similar_Contains h h') in Hc by done.
    destruct (H2 q Hb) as [Hb'|(r & Hr & Hrc & Hrb)]; [by apply (Hu q)|].
    apply (Hu r); [|done|done]. by apply (ancestor_trans h r q p).
Qed.

(** Everything below a block with transactions has transactions. *)
Definition linked (h : heap) (p : ptr) : Prop :=
  ∀ q b, ancestor h q p → h !! q = Some b → nChainTx b ≠ 0 ∨ nHeight b = 0.

Lemma contained_usable h v tip p b :
  tree_ok h → is_path h v tip → h !! p = Some b → Contains h v p = Some true → usable h v p.
Proof.
  intros Ht Hv Hp Hc q [k Hk] Hq. exfalso. apply Hq.
  destruct (Contains_spec h Ht v tip p b Hv Hp) as (c & Hc' & Htip). rewrite Hc in Hc'. injection Hc' as <-.
  destruct (walk_inv h Ht k p b q Hp Hk) as (bq & Hbq & _).
  destruct (Contains_spec h Ht v tip q bq Hv Hbq) as (c & -> & Hct). f_equal. apply Hct.
  apply (ancestor_trans h q p tip); [by exists k|by apply Htip].
Qed.

(** One round of the walk. *)
Lemma first_bad_step h v tip fuel p b :
  tree_ok h → is_path h v tip → h !! p = Some b → (nChainTx b ≠ 0 ∨ nHeight b = 0) →
  (first_bad fuel h v (Some p) = Some None ∧ usable h v p) ∨
  (first_bad fuel h v (Some p) = Some (Some (p, failed b)) ∧ Contains h v p ≠ Some true ∧ bad h p) ∨
  (first_bad fuel h v (Some p) = match fuel with O => None | S f => first_bad f h v (pprev b) end ∧ ¬ bad h p).
Proof.
  intros Ht Hv Hp Hx. destruct (Contains_spec h Ht v tip p b Hv Hp) as (c & Hc & _).
  assert (Hassert : (nChainTx b =? 0) && negb (nHeight b =? 0) = false)
    by (destruct (Z.eqb_spec (nChainTx b) 0), (Z.eqb_spec (nHeight b) 0); try done; by destruct Hx).
  destruct c; [left; split; [destruct fuel; cbn [first_bad]; by rewrite Hc|by eapply contained_usable]|right].
  destruct (failed b || (Z.land (nStatus b) BLOCK_HAVE_DATA =? 0)) eqn:Eb; [left|right].
  - split_and!; [|by rewrite Hc|by exists b]. destruct fuel; cbn [first_bad]; rewrite Hc, Hp; cbn [mbind option_bind];
      rewrite Hassert; fold (failed b); by rewrite Eb.
  - split; [|intros (b' & Hb' & E'); simplify_eq; congruence]. destruct fuel; cbn [first_bad]; rewrite Hc, Hp; cbn [mbind option_bind];
      rewrite Hassert; fold (failed b); by rewrite Eb.
Qed.

Lemma linked_parent h p q b : h !! p = Some b → pprev b = Some q → linked h p → linked h q.
Proof.
  intros Hp Hq Hl r br Hr. apply Hl. rewrite (ancestor_cases h r p b Hp). right. by exists q.
Qed.

Lemma first_bad_spec h v tip fuel p b :
  tree_ok h → is_path h v tip → h !! p = Some b → linked h p → nHeight b < Z.of_nat fuel →
  ∃ r, first_bad fuel h v (Some p) = Some r ∧
    match r with
    | None => usable h v p
    | Some (t, f) => ancestor h t p ∧ Contains h v t ≠ Some true ∧ bad h t ∧ ∃ bt, h !! t = Some bt ∧ f = failed bt
    end.
Proof.
  intros Ht Hv. revert p b. induction fuel as [|fuel IH]; intros p b Hp Hlk Hf; [pose proof (tree_height h Ht p b Hp); lia|].
  destruct (first_bad_step h v tip (S fuel) p b Ht Hv Hp (Hlk p b (ancestor_refl h p) Hp)) as [[E Hu]|[(E & Hc & Hb)|[E Hnb]]].
  - exists None. by split.
  - exists (Some (p, failed b)). split_and!; [done|apply ancestor_refl|done|done|by exists b].
  - rewrite E. destruct (Ht p b Hp) as (_ & _ & Hpar & _). destruct (pprev b) as [q|] eqn:Hq.
    + destruct Hpar as (bq & Hbq & Hh). destruct (IH q bq Hbq) as (r & Er & Hr); [exact (linked_parent h p q b Hp Hq Hlk)|lia|].
      exists r. split; [done|]. destruct r as [[t f]|].
      * destruct Hr as (Ha & Hrest). split; [|done]. rewrite (ancestor_cases h t p b Hp). right. by exists q.
      * intros x Hx Hxc. rewrite (ancestor_cases h x p b Hp) in Hx. destruct Hx as [->|(q' & Eq & Hx)]; [done|].
        simplify_eq. by apply Hr.
    + exists None. split; [by destruct fuel|]. intros x Hx _. rewrite (ancestor_cases h x p b Hp) in Hx.
      destruct Hx as [->|(q' & Eq & _)]; [done|]. simplify_eq.
Qed.

(** ** Removing a chain *)

Lemma failed_child b : failed (set_nStatus (Z.lor (nStatus b) BLOCK_FAILED_CHILD) b) = true.
Proof.
  unfold failed. cbn [nStatus set_nStatus]. apply negb_true_iff, Z.eqb_neq. intros E.
  apply (f_equal (λ z, Z.testbit z 6)) in E. rewrite Z.land_spec, Z.lor_spec in E. change (Z.testbit BLOCK_FAILED_CHILD 6) with true in E.
  change (Z.testbit BLOCK_FAILED_MASK 6) with true in E. rewrite orb_true_r in E. done.
Qed.

Definition best_valid (s : chain_state) : Prop := ∀ q, pindexBestInvalid s = Some q → is_Some (index s !! q).

(** From one state to another: the store is similar, the marks are on blocks above [t],
    and so are the candidates that are gone. *)
Definition removed (t : ptr) (f : bool) (s s' : chain_state) : Prop :=
  similar (index s) (index s') ∧ chainActive s' = chainActive s ∧
  (∀ p, bad (index s) p → bad (index s') p) ∧
  (∀ p, bad (index s') p → bad (index s) p ∨ f = true ∧ ancestor (index s) t p) ∧
  setBlockIndexCandidates s' ⊆ setBlockIndexCandidates s ∧
  (∀ q, q ∈ setBlockIndexCandidates s → q ∉ setBlockIndexCandidates s' → ancestor (index s) t q) ∧
  (best_valid s → best_valid s').

Lemma removed_refl t f s : removed t f s s.
Proof. split_and!; [done|done|auto|auto|done|done|done]. Qed.

Lemma removed_trans t f s1 s2 s3 : removed t f s1 s2 → removed t f s2 s3 → removed t f s1 s3.
Proof.
  intros (A1 & A2 & A3 & A4 & A5 & A6 & A7) (B1 & B2 & B3 & B4 & B5 & B6 & B7). split_and!.
  - unfold similar in *. congruence.
  - congruence.
  - auto.
  - intros p [Hb|[Hf Ha]]%B4; [auto|]. right. split; [done|]. by rewrite (similar_ancestor (index s1) (index s2)) in Ha.
  - by etrans.
  - intros q Hq Hn. destruct (decide (q ∈ setBlockIndexCandidates s2)) as [H2|H2]; [|auto].
    rewrite <- (similar_ancestor (index s1) (index s2)) by done. auto.
  - auto.
Qed.

Lemma gone_eq (C : gset ptr) (p q : ptr) : q ∈ C → q ∉ C ∖ {[p]} → q = p.
Proof.
  intros Hq Hn. destruct (decide (q = p)) as [|Hne]; [done|]. exfalso. apply Hn.
  by rewrite elem_of_difference, elem_of_singleton.
Qed.

Lemma gone_not (C : gset ptr) (p : ptr) : p ∉ C ∖ {[p]}.
Proof. rewrite elem_of_difference, elem_of_singleton. by intros [_ ?]. Qed.

Lemma gone_sub (C : gset ptr) (p : ptr) : C ∖ {[p]} ⊆ C.
Proof. intros q. rewrite elem_of_difference. by intros [? _]. Qed.

Lemma remove_one_spec t f bt p b s :
  index s !! p = Some b → ancestor (index s) t p →
  removed t f s (remove_one bt f p b s) ∧ p ∉ setBlockIndexCandidates (remove_one bt f p b s).
Proof.
  intros Hp Ha. unfold remove_one. destruct f.
  - set (b1 := if negb _ then _ else b). set (b2 := set_nStatus _ b1).
    assert (Es : skel b2 = skel b ∧ failed b2 = true).
    { subst b2 b1. split; [by destruct (negb _)|apply failed_child]. }
    destruct Es as [Es Hf]. clearbody b2. clear b1. cbn [setBlockIndexCandidates]. split; [|apply gone_not].
    unfold removed. cbn [index chainActive setBlockIndexCandidates]. split_and!.
    + by apply (similar_insert _ _ b).
    + done.
    + intros q (bq & Hq & Eq). destruct (decide (p = q)) as [->|Hne].
      * exists b2. split; [apply lookup_insert_eq|by rewrite Hf].
      * exists bq. split; [by rewrite lookup_insert_ne|done].
    + intros q (bq & Hq & Eq). destruct (decide (p = q)) as [->|Hne]; [by right|]. left. exists bq.
      by rewrite lookup_insert_ne in Hq.
    + apply gone_sub.
    + intros q Hq Hn. by rewrite (gone_eq _ _ _ Hq Hn).
    + intros Hb q Hq. cbn [index pindexBestInvalid] in *. destruct (decide (p = q)) as [->|]; [by rewrite lookup_insert_eq|].
      rewrite lookup_insert_ne by done. by apply Hb.
  - cbn [setBlockIndexCandidates]. split; [|apply gone_not]. unfold removed. cbn [index chainActive setBlockIndexCandidates].
    split_and!; [done|done|auto|auto|apply gone_sub| |done]. intros q Hq Hn. by rewrite (gone_eq _ _ _ Hq Hn).
Qed.

Lemma remove_chain_spec fuel t f p s b bt :
  tree_ok (index s) → index s !! p = Some b → index s !! t = Some bt → ancestor (index s) t p →
  nHeight b - nHeight bt <= Z.of_nat fuel →
  ∃ s', remove_chain fuel t f p s = Some s' ∧ removed t f s s' ∧ (p ≠ t → p ∉ setBlockIndexCandidates s').
Proof.
  revert p s b bt. induction fuel as [|fuel IH]; intros p s b bt Ht Hp Hbt Ha Hf; cbn [remove_chain];
    (case_bool_decide as Etp; [exists s; split_and!; [done|apply removed_refl|congruence]|]).
  { exfalso. apply Etp. pose proof (ancestor_height (index s) Ht t p b bt Hp Hbt Ha).
    apply (ancestor_same_height (index s) Ht t p bt b); [done|done|lia|done]. }
  rewrite Hbt, Hp. cbn [mbind option_bind]. destruct (remove_one_spec t f bt p b s Hp Ha) as [Hr Hnp].
  set (s1 := remove_one bt f p b s) in *. pose proof Hr as (Hs & _). destruct (Ht p b Hp) as (_ & _ & Hpar & _).
  rewrite (ancestor_cases (index s) t p b Hp) in Ha. destruct Ha as [?|(q & Hq & Ha)]; [done|]. rewrite Hq in *.
  destruct Hpar as (bq & Hbq & Hh). cbn [mbind option_bind].
  destruct (similar_lookup _ _ q bq Hs Hbq) as (bq' & Hbq' & Eq). destruct (similar_lookup _ _ t bt Hs Hbt) as (bt' & Hbt' & Et).
  injection Eq as Q1 Q2 Q3 Q4 Q5 Q6. injection Et as T1 T2 T3 T4 T5 T6.
  destruct (IH q s1 bq' bt') as (s' & E & Hr' & _); [by eapply similar_tree|done|done|by rewrite (similar_ancestor (index s))|lia|].
  exists s'. split_and!; [done|by eapply removed_trans|]. intros _. destruct Hr' as (_ & _ & _ & _ & Hsub & _). intros Hin. by apply Hnp, Hsub.
Qed.

Lemma note_invalid_spec t p f s :
  is_Some (index s !! p) → best_valid s →
  ∃ s', note_invalid p f s = Some s' ∧ removed t f s s' ∧ index s' = index s.
Proof.
  intros [b Hp] Hb. unfold note_invalid. destruct f; cbn [negb]; [|exists s; split_and!; [done|apply removed_refl|done]].
  assert (Hx : ∃ better, match pindexBestInvalid s with
    | None => Some true
    | Some q => a ← index s !! p; b ← index s !! q; Some (0 <? CompareTo W256 (nChainWork a) (nChainWork b)) end = Some better).
  { destruct (pindexBestInvalid s) as [q|] eqn:Eq; [|by eexists]. destruct (Hb q Eq) as [bq Hq]. rewrite Hp, Hq. by eexists. }
  destruct Hx as [better ->]. cbn [mbind option_bind]. eexists. split; [done|]. destruct better; [|split; [apply removed_refl|done]].
  split; [|done]. split_and!; [done|done|auto|auto|done|done|]. intros _ q [= <-]. by eexists.
Qed.

Lemma discard_spec t p f s b bt :
  tree_ok (index s) → best_valid s → index s !! p = Some b → index s !! t = Some bt → ancestor (index s) t p →
  ∃ s', discard p t f s = Some s' ∧ removed t f s s' ∧ p ∉ setBlockIndexCandidates s'.
Proof.
  intros Ht Hb Hp Hbt Ha. unfold discard. destruct (note_invalid_spec t p f s) as (s1 & -> & Hr1 & E1); [by eexists|done|].
  cbn [mbind option_bind]. rewrite E1, Hp. cbn [mbind option_bind]. pose proof (tree_height (index s) Ht _ _ Hp).
  pose proof (tree_height (index s) Ht _ _ Hbt).
  destruct (remove_chain_spec (Z.to_nat (nHeight b)) t f p s1 b bt) as (s2 & -> & Hr2 & Hp2); try (by rewrite E1); [lia|].
  cbn [mbind option_bind]. eexists. split; [done|]. split.
  - apply (removed_trans t f s s1); [done|]. apply (removed_trans t f s1 s2); [done|].
    split_and!; [done|done|auto|auto|apply gone_sub| |done]. intros q Hq Hn. cbn [setBlockIndexCandidates] in Hn.
    rewrite (gone_eq _ _ _ Hq Hn). apply ancestor_refl.
  - cbn [setBlockIndexCandidates]. destruct (decide (p = t)) as [->|Hne]; [apply gone_not|].
    intros Hin%gone_sub. by apply (Hp2 Hne).
Qed.

(** ** The search *)

Definition candidates_ok (s : chain_state) (tip : ptr) : Prop :=
  tree_ok (index s) ∧ work_ok (index s) ∧ is_path (index s) (chainActive s) tip ∧ best_valid s ∧
  ∀ p, p ∈ setBlockIndexCandidates s → is_Some (index s !! p) ∧ linked (index s) p.

(** Nothing that can be used is lost. *)
Definition safe (s s' : chain_state) : Prop :=
  similar (index s) (index s') ∧ chainActive s' = chainActive s ∧
  (∀ p, usable (index s') (chainActive s) p ↔ usable (index s) (chainActive s) p) ∧
  setBlockIndexCandidates s' ⊆ setBlockIndexCandidates s ∧
  ∀ q, q ∈ setBlockIndexCandidates s → q ∉ setBlockIndexCandidates s' → ¬ usable (index s) (chainActive s) q.

Lemma safe_refl s : safe s s.
Proof. by split_and!. Qed.

Lemma safe_trans s1 s2 s3 : safe s1 s2 → safe s2 s3 → safe s1 s3.
Proof.
  intros (A1 & A2 & A3 & A4 & A5) (B1 & B2 & B3 & B4 & B5). rewrite A2 in *. split_and!.
  - unfold similar in *. congruence.
  - congruence.
  - intros p. by rewrite B3, A3.
  - by etrans.
  - intros q Hq Hn. destruct (decide (q ∈ setBlockIndexCandidates s2)) as [H2|H2]; [|auto]. rewrite <- A3. auto.
Qed.

Lemma removed_safe t f s s' :
  Contains (index s) (chainActive s) t ≠ Some true → bad (index s) t → removed t f s s' → safe s s'.
Proof.
  intros Hc Hb (A1 & A2 & A3 & A4 & A5 & A6 & _). split_and!; [done|done| |done|].
  - apply usable_similar; [done|done|]. intros p [?|[_ Ha]]%A4; [by left|right]. by exists t.
  - intros q Hq Hn Hu. by apply (Hu t); [apply A6| |].
Qed.

Lemma similar_linked h h' p : similar h h' → linked h p → linked h' p.
Proof.
  intros Hs Hl q b' Hq Hb'. destruct (similar_lookup h' h q b' (similar_sym _ _ Hs) Hb') as (b & Hb & E).
  injection E as E1 E2 E3 E4 E5 E6. rewrite <- E3, <- E4. apply (Hl q); [by rewrite <- (similar_ancestor h h')|done].
Qed.

Lemma safe_ok s s' tip : safe s s' → best_valid s' → candidates_ok s tip → candidates_ok s' tip.
Proof.
  intros (Hs & Hv & _ & Hc & _) Hb (H1 & H2 & H3 & _ & H5). split_and!.
  - by eapply similar_tree.
  - by eapply similar_work.
  - rewrite Hv. by eapply similar_path.
  - done.
  - intros p Hp. destruct (H5 p (Hc p Hp)) as [[b Hb'] Hl]. split; [|by eapply similar_linked].
    destruct (similar_lookup _ _ p b Hs Hb') as (b' & ? & _). by eexists.
Qed.

(** What the search returns: the best of the candidates that can be used. *)
Definition best_choice (s : chain_state) (r : option ptr) : Prop :=
  match r with
  | None => ∀ q, q ∈ setBlockIndexCandidates s → ¬ usable (index s) (chainActive s) q
  | Some p => p ∈ setBlockIndexCandidates s ∧ usable (index s) (chainActive s) p ∧
      ∀ q, q ∈ setBlockIndexCandidates s → usable (index s) (chainActive s) q → ¬ before (index s) p q
  end.

Lemma best_choice_safe s s' r : safe s s' → best_choice s' r → best_choice s r.
Proof.
  intros (Hs & Hv & Hu & Hc & Hg) Hb. destruct r as [p|]; cbn [best_choice] in *; rewrite Hv in Hb.
  - destruct Hb as (Hp & Hup & Hmax). split_and!; [by apply Hc|by apply Hu|]. intros q Hq Huq Hbef.
    destruct (decide (q ∈ setBlockIndexCandidates s')) as [Hq'|Hq']; [|by apply (Hg q)].
    apply (Hmax q Hq'); [by apply Hu|by eapply similar_before].
  - intros q Hq Huq. destruct (decide (q ∈ setBlockIndexCandidates s')) as [Hq'|Hq']; [|by apply (Hg q)].
    apply (Hb q Hq'). by apply Hu.
Qed.

Lemma FindMostWorkChain_loop_spec fuel s tip :
  candidates_ok s tip → (size (setBlockIndexCandidates s) < fuel)%nat →
  ∃ r s', FindMostWorkChain_loop fuel s = Some (r, s') ∧ safe s s' ∧ best_choice s r ∧
    (∀ p, r = Some p → p ∈ setBlockIndexCandidates s') ∧ candidates_ok s' tip.
Proof.
  revert s. induction fuel as [|fuel IH]; intros s Hok Hf; [lia|]. cbn [FindMostWorkChain_loop].
  pose proof Hok as (Ht & Hw & Hv & Hbv & Hc).
  destruct (last_of_spec (index s) Hw (elements (setBlockIndexCandidates s))) as (r & -> & Hr).
  { intros p Hp%elem_of_elements. by apply Hc. }
  cbn [mbind option_bind]. destruct r as [p|].
  2:{ exists None, s. split_and!; [done|apply safe_refl| |done|done]. intros q Hq%elem_of_elements. rewrite Hr in Hq. by apply elem_of_nil in Hq. }
  destruct Hr as [Hp%elem_of_elements Hmax]. destruct (Hc p Hp) as [[b Hb] Hl]. rewrite Hb. cbn [mbind option_bind].
  pose proof (tree_height (index s) Ht p b Hb).
  destruct (first_bad_spec (index s) (chainActive s) tip (S (Z.to_nat (nHeight b))) p b) as (bad_ & -> & Hbad); [done|done|done|done|lia|].
  cbn [mbind option_bind]. destruct bad_ as [[t f]|].
  - destruct Hbad as (Ha & Hoff & Hbt & bt & Ht' & ->).
    destruct (discard_spec t p (failed bt) s b bt) as (s1 & -> & Hr1 & Hn1); [done..|]. cbn [mbind option_bind].
    pose proof (removed_safe _ _ _ _ Hoff Hbt Hr1) as Hsafe.
    assert (Hb1 : best_valid s1) by (destruct Hr1 as (_ & _ & _ & _ & _ & _ & H7); auto).
    assert (Hlt : (size (setBlockIndexCandidates s1) < size (setBlockIndexCandidates s))%nat).
    { apply subset_size. destruct Hsafe as (_ & _ & _ & Hsub & _). split; [done|]. intros Hsup. by apply Hn1, Hsup. }
    destruct (IH s1 (safe_ok s s1 tip Hsafe Hb1 Hok) ltac:(lia)) as (r & s' & E & Hs' & Hch & Hin & Hok').
    exists r, s'. split_and!; [done|by eapply safe_trans|by eapply best_choice_safe|done|done].
  - exists (Some p), s. split_and!; [done|apply safe_refl| |by intros ? [= <-]|done]. split_and!; [done|done|].
    intros q Hq _. apply Hmax. by apply elem_of_elements.
Qed.

(** ** Pruning *)

Lemma Prune_loop_spec fuel h tip cands :
  work_ok h → is_Some (h !! tip) → (∀ p, p ∈ cands → is_Some (h !! p)) → (size cands <= fuel)%nat →
  ∃ cands', Prune_loop fuel h tip cands = Some cands' ∧ ∀ p, p ∈ cands' ↔ p ∈ cands ∧ ¬ before h p tip.
Proof.
  intros Hw Htip. revert cands. induction fuel as [|fuel IH]; intros cands Hc Hf; cbn [Prune_loop];
    destruct (first_of_spec h Hw (elements cands)) as (r & -> & Hr);
    try (by intros p Hp%elem_of_elements; apply Hc); cbn [mbind option_bind].
  all: destruct r as [p|]; [|exists cands; split; [done|]; intros q; split; [|by intros [? _]]; intros Hq; exfalso;
    apply elem_of_elements in Hq; rewrite Hr in Hq; by apply elem_of_nil in Hq].
  all: destruct Hr as [Hp%elem_of_elements Hmin]; destruct (Hc p Hp) as [a Ha]; destruct Htip as [b Hb];
    rewrite Ha, Hb; cbn [mbind option_bind].
  { exfalso. assert (size cands = 0%nat) as E%size_empty_inv by lia. apply E in Hp. by apply not_elem_of_empty in Hp. }
  destruct (work_less p a tip b) eqn:E.
  - destruct (IH (cands ∖ {[p]})) as (c' & -> & Hc').
    { intros q Hq%gone_sub. by apply Hc. }
    { rewrite size_difference by by apply singleton_subseteq_l. rewrite size_singleton. lia. }
    exists c'. split; [done|]. intros q. rewrite Hc', elem_of_difference, elem_of_singleton.
    split; [by intros [[? _] ?]|]. intros [Hq Hn]. split_and!; [done| |done]. intros ->. apply Hn. by exists a, b.
  - exists cands. split; [done|]. intros q. split; [|by intros [? _]]. intros Hq. split; [done|].
    apply elem_of_elements in Hq as Hq'. intros Hbq. destruct (Hc q Hq) as [c Hcq].
    destruct (before_total h Hw p q a c Ha Hcq) as [->|[Hpq|Hqp]].
    + destruct Hbq as (? & ? & ? & ? & ?). simplify_eq. congruence.
    + pose proof (before_trans h Hw p q tip Hpq Hbq) as (? & ? & ? & ? & ?). simplify_eq. congruence.
    + by apply (Hmin q Hq').
Qed.

(** Pruning keeps the candidates that are not worse than the tip, and the tip. *)
Lemma PruneBlockIndexCandidates_spec s tip :
  candidates_ok s tip → tip ∈ setBlockIndexCandidates s →
  ∃ s', PruneBlockIndexCandidates s = Some s' ∧ index s' = index s ∧ chainActive s' = chainActive s ∧
    tip ∈ setBlockIndexCandidates s' ∧
    ∀ p, p ∈ setBlockIndexCandidates s' ↔ p ∈ setBlockIndexCandidates s ∧ ¬ before (index s) p tip.
Proof.
  intros (Ht & Hw & Hv & _ & Hc) Htip. destruct (Hc tip Htip) as [[b Hb] _]. unfold PruneBlockIndexCandidates.
  rewrite (path_Tip (index s) (chainActive s) tip b Hb (tree_height _ Ht _ _ Hb) Hv).
  destruct (Prune_loop_spec (size (setBlockIndexCandidates s)) (index s) tip (setBlockIndexCandidates s)) as (c & -> & Hcs);
    [done|by eexists|by intros p Hp; apply Hc|done|]. cbn [mbind option_bind].
  assert (Hin : tip ∈ c) by (apply Hcs; split; [done|by apply before_irrefl]).
  rewrite bool_decide_false by (intros ->; set_solver). eexists. by split_and!.
Qed.

(** ** Properties *)

(** C20: the chain to follow is the best one that can be followed.  Over a consistent
    block index, [FindMostWorkChain] ends, dereferences no null pointer and fails no
    assertion.  It returns a candidate all of whose blocks off the active chain are valid
    and at hand, and no such candidate comes after it in the order of work and arrival;
    it returns null exactly when there is no such candidate.  The candidates it drops on
    the way and the blocks it marks as descending from a failed one were of no use: which
    blocks can be followed stays the same. *)
Theorem FindMostWorkChain_best (s : chain_state) (tip : ptr) :
  candidates_ok s tip →
  ∃ r s', FindMostWorkChain s = Some (r, s') ∧ best_choice s r ∧ safe s s' ∧ candidates_ok s' tip ∧
    ∀ p, r = Some p → p ∈ setBlockIndexCandidates s'.
Proof.
  intros Hok. destruct (FindMostWorkChain_loop_spec (S (size (setBlockIndexCandidates s))) s tip Hok) as (r & s' & E & H1 & H2 & H3 & H4); [lia|].
  by exists r, s'.
Qed.

(** A root, a failed block with more work on it, and a good one. *)
Definition sample_block (prev : option ptr) (height work status : Z) : CBlockIndex :=
  BlockIndex None prev None height 0 0 0 (of_u64 W256 work) 1 1 0 [] (OutPoint [] 0) 0 0 status 0 [] [] 0 0 0 0 0.
Definition sample_index : heap :=
  {[ 1%positive := sample_block None 0 1 11; 2%positive := sample_block (Some 1%positive) 1 9 43;
     3%positive := sample_block (Some 1%positive) 1 5 11 ]}.
Definition sample_state : chain_state :=
  ChainState sample_index [Some 1%positive] {[1%positive; 2%positive; 3%positive]} None [].

Lemma sample_entries p b : sample_index !! p = Some b →
  (p = 1%positive ∧ b = sample_block None 0 1 11) ∨ (p = 2%positive ∧ b = sample_block (Some 1%positive) 1 9 43) ∨
  (p = 3%positive ∧ b = sample_block (Some 1%positive) 1 5 11).
Proof.
  unfold sample_index. rewrite !lookup_insert_Some, lookup_singleton_Some.
  intros [[<- <-]|[_ [[<- <-]|[_ [<- <-]]]]]; auto.
Qed.

Lemma sample_ok : candidates_ok sample_state 1%positive.
Proof.
  split_and!.
  - intros p b [[-> ->]|[[-> ->]|[-> ->]]]%sample_entries; (split; [by_eval|]); (split; [by_eval|]);
      split; try done; by exists (sample_block None 0 1 11).
  - intros p b [[-> ->]|[[-> ->]|[-> ->]]]%sample_entries; by_eval.
  - exists (sample_block None 0 1 11). split_and!; [done|done|]. intros [|i] Hi; [done|cbn in Hi; lia].
  - by intros q.
  - intros p Hp. split; [cbn in Hp; set_unfold in Hp; destruct Hp as [[->| ->]| ->]; by eexists|].
    intros q b _ [[-> ->]|[[-> ->]|[-> ->]]]%sample_entries; left; done.
Qed.

Lemma FindMostWorkChain_best_witness : ∃ s', FindMostWorkChain sample_state = Some (Some 3%positive, s') ∧ safe sample_state s'.
Proof.
  destruct (FindMostWorkChain_best sample_state 1%positive sample_ok) as (r & s' & E & _ & Hs & _).
  exists s'. split; [|exact Hs]. rewrite E. do 2 f_equal.
  apply (f_equal (fmap fst)) in E. vm_compute in E. congruence.
Defined.
