(* ===== verification/Sha256.v ===== *)
(** SHA-256, after [src/src/crypto/sha256.cpp]: the unrolled [Transform] and
    [TransformD64], and the algorithm of FIPS 180-4, which they compute.

    Words are integers below [2^32].  Some constants of the source are of type
    [unsigned long]: sums with them are formed in 64 bits and cut to 32 when they are
    stored, which gives the same words. *)
From stdpp Require Import list.
From S2P Require Import Prelude Serialize.

(** ** The functions on words *)

(** Addition of [uint32_t]. *)
Definition add32 (x y : Z) : Z := u32 (x + y).
Declare Scope word_scope.
Infix "⊞" := add32 (at level 50, left associativity) : word_scope.
Open Scope word_scope.

(** An assignment to local variables, and what follows it. *)
Definition assign {A B} (e : A) (k : A → B) : B := k e.
Notation "'let~' x ':=' e 'in' k" := (assign e (fun x => k))
  (at level 10, x pattern, e at level 100, k at level 200) : word_scope.

(** [(x >> n | x << (32 - n))]. *)
Definition rotr (n x : Z) : Z := Z.lor (Z.shiftr x n) (u32 (Z.shiftl x (32 - n))).

Definition Ch (x y z : Z) : Z := Z.lxor z (Z.land x (Z.lxor y z)).
Definition Maj (x y z : Z) : Z := Z.lor (Z.land x y) (Z.land z (Z.lor x y)).
Definition Sigma0 (x : Z) : Z := Z.lxor (Z.lxor (rotr 2 x) (rotr 13 x)) (rotr 22 x).
Definition Sigma1 (x : Z) : Z := Z.lxor (Z.lxor (rotr 6 x) (rotr 11 x)) (rotr 25 x).
Definition sigma0 (x : Z) : Z := Z.lxor (Z.lxor (rotr 7 x) (rotr 18 x)) (Z.shiftr x 3).
Definition sigma1 (x : Z) : Z := Z.lxor (Z.lxor (rotr 17 x) (rotr 19 x)) (Z.shiftr x 10).

(** The new values of [d] and [h]. *)
Definition Round (a b c d e f g h k : Z) : Z * Z :=
  let t1 := h ⊞ Sigma1 e ⊞ Ch e f g ⊞ k in
  let t2 := Sigma0 a ⊞ Maj a b c in
  (d ⊞ t1, t1 ⊞ t2).

(** [uint32_t s[8]]. *)
Abbreviation state := (Z * Z * Z * Z * Z * Z * Z * Z)%type.

Definition Initialize : state :=
  (0x6a09e667, 0xbb67ae85, 0x3c6ef372, 0xa54ff53a,
   0x510e527f, 0x9b05688c, 0x1f83d9ab, 0x5be0cd19).

Definition ReadBE32 (p : bytes) (i : nat) : Z := le_value (rev (take 4 (drop i p))).
Definition WriteBE32 (x : Z) : bytes := rev (le_bytes 4 x).
Definition WriteBE64 (x : Z) : bytes := rev (le_bytes 8 x).

(** Eight words written one after the other. *)
Definition write_state (s : state) : bytes :=
  let '(a, b, c, d, e, f, g, h) := s in concat (map WriteBE32 [a; b; c; d; e; f; g; h]).

(** ** The unrolled transformations *)

(** [s[0] += a; ...; s[7] += h]. *)
Definition add_state (s v : state) : state :=
  let '(s0, s1, s2, s3, s4, s5, s6, s7) := s in
  let '(a, b, c, d, e, f, g, h) := v in
  (s0 ⊞ a, s1 ⊞ b, s2 ⊞ c, s3 ⊞ d, s4 ⊞ e, s5 ⊞ f, s6 ⊞ g, s7 ⊞ h).

(** The 64 rounds of [Transform]. *)
Definition transform_rounds (s : state) (chunk : bytes) : state :=
  let '(a, b, c, d, e, f, g, h) := s in
  let~ w0 := ReadBE32 chunk 0 in
  let~ (d, h) := Round a b c d e f g h (0x428a2f98 ⊞ w0) in
  let~ w1 := ReadBE32 chunk 4 in
  let~ (c, g) := Round h a b c d e f g (0x71374491 ⊞ w1) in
  let~ w2 := ReadBE32 chunk 8 in
  let~ (b, f) := Round g h a b c d e f (0xb5c0fbcf ⊞ w2) in
  let~ w3 := ReadBE32 chunk 12 in
  let~ (a, e) := Round f g h a b c d e (0xe9b5dba5 ⊞ w3) in
  let~ w4 := ReadBE32 chunk 16 in
  let~ (h, d) := Round e f g h a b c d (0x3956c25b ⊞ w4) in
  let~ w5 := ReadBE32 chunk 20 in
  let~ (g, c) := Round d e f g h a b c (0x59f111f1 ⊞ w5) in
  let~ w6 := ReadBE32 chunk 24 in
  let~ (f, b) := Round c d e f g h a b (0x923f82a4 ⊞ w6) in
  let~ w7 := ReadBE32 chunk 28 in
  let~ (e, a) := Round b c d e f g h a (0xab1c5ed5 ⊞ w7) in
  let~ w8 := ReadBE32 chunk 32 in
  let~ (d, h) := Round a b c d e f g h (0xd807aa98 ⊞ w8) in
  let~ w9 := ReadBE32 chunk 36 in
  let~ (c, g) := Round h a b c d e f g (0x12835b01 ⊞ w9) in
  let~ w10 := ReadBE32 chunk 40 in
  let~ (b, f) := Round g h a b c d e f (0x243185be ⊞ w10) in
  let~ w11 := ReadBE32 chunk 44 in
  let~ (a, e) := Round f g h a b c d e (0x550c7dc3 ⊞ w11) in
  let~ w12 := ReadBE32 chunk 48 in
  let~ (h, d) := Round e f g h a b c d (0x72be5d74 ⊞ w12) in
  let~ w13 := ReadBE32 chunk 52 in
  let~ (g, c) := Round d e f g h a b c (0x80deb1fe ⊞ w13) in
  let~ w14 := ReadBE32 chunk 56 in
  let~ (f, b) := Round c d e f g h a b (0x9bdc06a7 ⊞ w14) in
  let~ w15 := ReadBE32 chunk 60 in
  let~ (e, a) := Round b c d e f g h a (0xc19bf174 ⊞ w15) in
  let~ w0 := w0 ⊞ (sigma1 w14 ⊞ w9 ⊞ sigma0 w1) in
  let~ (d, h) := Round a b c d e f g h (0xe49b69c1 ⊞ w0) in
  let~ w1 := w1 ⊞ (sigma1 w15 ⊞ w10 ⊞ sigma0 w2) in
  let~ (c, g) := Round h a b c d e f g (0xefbe4786 ⊞ w1) in
  let~ w2 := w2 ⊞ (sigma1 w0 ⊞ w11 ⊞ sigma0 w3) in
  let~ (b, f) := Round g h a b c d e f (0x0fc19dc6 ⊞ w2) in
  let~ w3 := w3 ⊞ (sigma1 w1 ⊞ w12 ⊞ sigma0 w4) in
  let~ (a, e) := Round f g h a b c d e (0x240ca1cc ⊞ w3) in
  let~ w4 := w4 ⊞ (sigma1 w2 ⊞ w13 ⊞ sigma0 w5) in
  let~ (h, d) := Round e f g h a b c d (0x2de92c6f ⊞ w4) in
  let~ w5 := w5 ⊞ (sigma1 w3 ⊞ w14 ⊞ sigma0 w6) in
  let~ (g, c) := Round d e f g h a b c (0x4a7484aa ⊞ w5) in
  let~ w6 := w6 ⊞ (sigma1 w4 ⊞ w15 ⊞ sigma0 w7) in
  let~ (f, b) := Round c d e f g h a b (0x5cb0a9dc ⊞ w6) in
  let~ w7 := w7 ⊞ (sigma1 w5 ⊞ w0 ⊞ sigma0 w8) in
  let~ (e, a) := Round b c d e f g h a (0x76f988da ⊞ w7) in
  let~ w8 := w8 ⊞ (sigma1 w6 ⊞ w1 ⊞ sigma0 w9) in
  let~ (d, h) := Round a b c d e f g h (0x983e5152 ⊞ w8) in
  let~ w9 := w9 ⊞ (sigma1 w7 ⊞ w2 ⊞ sigma0 w10) in
  let~ (c, g) := Round h a b c d e f g (0xa831c66d ⊞ w9) in
  let~ w10 := w10 ⊞ (sigma1 w8 ⊞ w3 ⊞ sigma0 w11) in
  let~ (b, f) := Round g h a b c d e f (0xb00327c8 ⊞ w10) in
  let~ w11 := w11 ⊞ (sigma1 w9 ⊞ w4 ⊞ sigma0 w12) in
  let~ (a, e) := Round f g h a b c d e (0xbf597fc7 ⊞ w11) in
  let~ w12 := w12 ⊞ (sigma1 w10 ⊞ w5 ⊞ sigma0 w13) in
  let~ (h, d) := Round e f g h a b c d (0xc6e00bf3 ⊞ w12) in
  let~ w13 := w13 ⊞ (sigma1 w11 ⊞ w6 ⊞ sigma0 w14) in
  let~ (g, c) := Round d e f g h a b c (0xd5a79147 ⊞ w13) in
  let~ w14 := w14 ⊞ (sigma1 w12 ⊞ w7 ⊞ sigma0 w15) in
  let~ (f, b) := Round c d e f g h a b (0x06ca6351 ⊞ w14) in
  let~ w15 := w15 ⊞ (sigma1 w13 ⊞ w8 ⊞ sigma0 w0) in
  let~ (e, a) := Round b c d e f g h a (0x14292967 ⊞ w15) in
  let~ w0 := w0 ⊞ (sigma1 w14 ⊞ w9 ⊞ sigma0 w1) in
  let~ (d, h) := Round a b c d e f g h (0x27b70a85 ⊞ w0) in
  let~ w1 := w1 ⊞ (sigma1 w15 ⊞ w10 ⊞ sigma0 w2) in
  let~ (c, g) := Round h a b c d e f g (0x2e1b2138 ⊞ w1) in
  let~ w2 := w2 ⊞ (sigma1 w0 ⊞ w11 ⊞ sigma0 w3) in
  let~ (b, f) := Round g h a b c d e f (0x4d2c6dfc ⊞ w2) in
  let~ w3 := w3 ⊞ (sigma1 w1 ⊞ w12 ⊞ sigma0 w4) in
  let~ (a, e) := Round f g h a b c d e (0x53380d13 ⊞ w3) in
  let~ w4 := w4 ⊞ (sigma1 w2 ⊞ w13 ⊞ sigma0 w5) in
  let~ (h, d) := Round e f g h a b c d (0x650a7354 ⊞ w4) in
  let~ w5 := w5 ⊞ (sigma1 w3 ⊞ w14 ⊞ sigma0 w6) in
  let~ (g, c) := Round d e f g h a b c (0x766a0abb ⊞ w5) in
  let~ w6 := w6 ⊞ (sigma1 w4 ⊞ w15 ⊞ sigma0 w7) in
  let~ (f, b) := Round c d e f g h a b (0x81c2c92e ⊞ w6) in
  let~ w7 := w7 ⊞ (sigma1 w5 ⊞ w0 ⊞ sigma0 w8) in
  let~ (e, a) := Round b c d e f g h a (0x92722c85 ⊞ w7) in
  let~ w8 := w8 ⊞ (sigma1 w6 ⊞ w1 ⊞ sigma0 w9) in
  let~ (d, h) := Round a b c d e f g h (0xa2bfe8a1 ⊞ w8) in
  let~ w9 := w9 ⊞ (sigma1 w7 ⊞ w2 ⊞ sigma0 w10) in
  let~ (c, g) := Round h a b c d e f g (0xa81a664b ⊞ w9) in
  let~ w10 := w10 ⊞ (sigma1 w8 ⊞ w3 ⊞ sigma0 w11) in
  let~ (b, f) := Round g h a b c d e f (0xc24b8b70 ⊞ w10) in
  let~ w11 := w11 ⊞ (sigma1 w9 ⊞ w4 ⊞ sigma0 w12) in
  let~ (a, e) := Round f g h a b c d e (0xc76c51a3 ⊞ w11) in
  let~ w12 := w12 ⊞ (sigma1 w10 ⊞ w5 ⊞ sigma0 w13) in
  let~ (h, d) := Round e f g h a b c d (0xd192e819 ⊞ w12) in
  let~ w13 := w13 ⊞ (sigma1 w11 ⊞ w6 ⊞ sigma0 w14) in
  let~ (g, c) := Round d e f g h a b c (0xd6990624 ⊞ w13) in
  let~ w14 := w14 ⊞ (sigma1 w12 ⊞ w7 ⊞ sigma0 w15) in
  let~ (f, b) := Round c d e f g h a b (0xf40e3585 ⊞ w14) in
  let~ w15 := w15 ⊞ (sigma1 w13 ⊞ w8 ⊞ sigma0 w0) in
  let~ (e, a) := Round b c d e f g h a (0x106aa070 ⊞ w15) in
  let~ w0 := w0 ⊞ (sigma1 w14 ⊞ w9 ⊞ sigma0 w1) in
  let~ (d, h) := Round a b c d e f g h (0x19a4c116 ⊞ w0) in
  let~ w1 := w1 ⊞ (sigma1 w15 ⊞ w10 ⊞ sigma0 w2) in
  let~ (c, g) := Round h a b c d e f g (0x1e376c08 ⊞ w1) in
  let~ w2 := w2 ⊞ (sigma1 w0 ⊞ w11 ⊞ sigma0 w3) in
  let~ (b, f) := Round g h a b c d e f (0x2748774c ⊞ w2) in
  let~ w3 := w3 ⊞ (sigma1 w1 ⊞ w12 ⊞ sigma0 w4) in
  let~ (a, e) := Round f g h a b c d e (0x34b0bcb5 ⊞ w3) in
  let~ w4 := w4 ⊞ (sigma1 w2 ⊞ w13 ⊞ sigma0 w5) in
  let~ (h, d) := Round e f g h a b c d (0x391c0cb3 ⊞ w4) in
  let~ w5 := w5 ⊞ (sigma1 w3 ⊞ w14 ⊞ sigma0 w6) in
  let~ (g, c) := Round d e f g h a b c (0x4ed8aa4a ⊞ w5) in
  let~ w6 := w6 ⊞ (sigma1 w4 ⊞ w15 ⊞ sigma0 w7) in
  let~ (f, b) := Round c d e f g h a b (0x5b9cca4f ⊞ w6) in
  let~ w7 := w7 ⊞ (sigma1 w5 ⊞ w0 ⊞ sigma0 w8) in
  let~ (e, a) := Round b c d e f g h a (0x682e6ff3 ⊞ w7) in
  let~ w8 := w8 ⊞ (sigma1 w6 ⊞ w1 ⊞ sigma0 w9) in
  let~ (d, h) := Round a b c d e f g h (0x748f82ee ⊞ w8) in
  let~ w9 := w9 ⊞ (sigma1 w7 ⊞ w2 ⊞ sigma0 w10) in
  let~ (c, g) := Round h a b c d e f g (0x78a5636f ⊞ w9) in
  let~ w10 := w10 ⊞ (sigma1 w8 ⊞ w3 ⊞ sigma0 w11) in
  let~ (b, f) := Round g h a b c d e f (0x84c87814 ⊞ w10) in
  let~ w11 := w11 ⊞ (sigma1 w9 ⊞ w4 ⊞ sigma0 w12) in
  let~ (a, e) := Round f g h a b c d e (0x8cc70208 ⊞ w11) in
  let~ w12 := w12 ⊞ (sigma1 w10 ⊞ w5 ⊞ sigma0 w13) in
  let~ (h, d) := Round e f g h a b c d (0x90befffa ⊞ w12) in
  let~ w13 := w13 ⊞ (sigma1 w11 ⊞ w6 ⊞ sigma0 w14) in
  let~ (g, c) := Round d e f g h a b c (0xa4506ceb ⊞ w13) in
  let~ (f, b) := Round c d e f g h a b (0xbef9a3f7 ⊞ (w14 ⊞ sigma1 w12 ⊞ w7 ⊞ sigma0 w15)) in
  let~ (e, a) := Round b c d e f g h a (0xc67178f2 ⊞ (w15 ⊞ sigma1 w13 ⊞ w8 ⊞ sigma0 w0)) in
  (a, b, c, d, e, f, g, h).

(** [Transform(s, chunk, blocks)]. *)
Fixpoint Transform (blocks : nat) (s : state) (chunk : bytes) : state :=
  match blocks with
  | O => s
  | S blocks => Transform blocks (add_state s (transform_rounds s chunk)) (drop 64 chunk)
  end.

(** The rounds of the first transformation of [TransformD64], of the 64 bytes of the
    input; of the second one, of their padding; and of the third one, of the digest and
    its padding, with what is known of the words worked into the constants. *)
Definition rounds_1 (in_ : bytes) : state :=
  let '(a, b, c, d, e, f, g, h) := Initialize in
  let~ w0 := ReadBE32 in_ 0 in
  let~ (d, h) := Round a b c d e f g h (0x428a2f98 ⊞ w0) in
  let~ w1 := ReadBE32 in_ 4 in
  let~ (c, g) := Round h a b c d e f g (0x71374491 ⊞ w1) in
  let~ w2 := ReadBE32 in_ 8 in
  let~ (b, f) := Round g h a b c d e f (0xb5c0fbcf ⊞ w2) in
  let~ w3 := ReadBE32 in_ 12 in
  let~ (a, e) := Round f g h a b c d e (0xe9b5dba5 ⊞ w3) in
  let~ w4 := ReadBE32 in_ 16 in
  let~ (h, d) := Round e f g h a b c d (0x3956c25b ⊞ w4) in
  let~ w5 := ReadBE32 in_ 20 in
  let~ (g, c) := Round d e f g h a b c (0x59f111f1 ⊞ w5) in
  let~ w6 := ReadBE32 in_ 24 in
  let~ (f, b) := Round c d e f g h a b (0x923f82a4 ⊞ w6) in
  let~ w7 := ReadBE32 in_ 28 in
  let~ (e, a) := Round b c d e f g h a (0xab1c5ed5 ⊞ w7) in
  let~ w8 := ReadBE32 in_ 32 in
  let~ (d, h) := Round a b c d e f g h (0xd807aa98 ⊞ w8) in
  let~ w9 := ReadBE32 in_ 36 in
  let~ (c, g) := Round h a b c d e f g (0x12835b01 ⊞ w9) in
  let~ w10 := ReadBE32 in_ 40 in
  let~ (b, f) := Round g h a b c d e f (0x243185be ⊞ w10) in
  let~ w11 := ReadBE32 in_ 44 in
  let~ (a, e) := Round f g h a b c d e (0x550c7dc3 ⊞ w11) in
  let~ w12 := ReadBE32 in_ 48 in
  let~ (h, d) := Round e f g h a b c d (0x72be5d74 ⊞ w12) in
  let~ w13 := ReadBE32 in_ 52 in
  let~ (g, c) := Round d e f g h a b c (0x80deb1fe ⊞ w13) in
  let~ w14 := ReadBE32 in_ 56 in
  let~ (f, b) := Round c d e f g h a b (0x9bdc06a7 ⊞ w14) in
  let~ w15 := ReadBE32 in_ 60 in
  let~ (e, a) := Round b c d e f g h a (0xc19bf174 ⊞ w15) in
  let~ w0 := w0 ⊞ (sigma1 w14 ⊞ w9 ⊞ sigma0 w1) in
  let~ (d, h) := Round a b c d e f g h (0xe49b69c1 ⊞ w0) in
  let~ w1 := w1 ⊞ (sigma1 w15 ⊞ w10 ⊞ sigma0 w2) in
  let~ (c, g) := Round h a b c d e f g (0xefbe4786 ⊞ w1) in
  let~ w2 := w2 ⊞ (sigma1 w0 ⊞ w11 ⊞ sigma0 w3) in
  let~ (b, f) := Round g h a b c d e f (0x0fc19dc6 ⊞ w2) in
  let~ w3 := w3 ⊞ (sigma1 w1 ⊞ w12 ⊞ sigma0 w4) in
  let~ (a, e) := Round f g h a b c d e (0x240ca1cc ⊞ w3) in
  let~ w4 := w4 ⊞ (sigma1 w2 ⊞ w13 ⊞ sigma0 w5) in
  let~ (h, d) := Round e f g h a b c d (0x2de92c6f ⊞ w4) in
  let~ w5 := w5 ⊞ (sigma1 w3 ⊞ w14 ⊞ sigma0 w6) in
  let~ (g, c) := Round d e f g h a b c (0x4a7484aa ⊞ w5) in
  let~ w6 := w6 ⊞ (sigma1 w4 ⊞ w15 ⊞ sigma0 w7) in
  let~ (f, b) := Round c d e f g h a b (0x5cb0a9dc ⊞ w6) in
  let~ w7 := w7 ⊞ (sigma1 w5 ⊞ w0 ⊞ sigma0 w8) in
  let~ (e, a) := Round b c d e f g h a (0x76f988da ⊞ w7) in
  let~ w8 := w8 ⊞ (sigma1 w6 ⊞ w1 ⊞ sigma0 w9) in
  let~ (d, h) := Round a b c d e f g h (0x983e5152 ⊞ w8) in
  let~ w9 := w9 ⊞ (sigma1 w7 ⊞ w2 ⊞ sigma0 w10) in
  let~ (c, g) := Round h a b c d e f g (0xa831c66d ⊞ w9) in
  let~ w10 := w10 ⊞ (sigma1 w8 ⊞ w3 ⊞ sigma0 w11) in
  let~ (b, f) := Round g h a b c d e f (0xb00327c8 ⊞ w10) in
  let~ w11 := w11 ⊞ (sigma1 w9 ⊞ w4 ⊞ sigma0 w12) in
  let~ (a, e) := Round f g h a b c d e (0xbf597fc7 ⊞ w11) in
  let~ w12 := w12 ⊞ (sigma1 w10 ⊞ w5 ⊞ sigma0 w13) in
  let~ (h, d) := Round e f g h a b c d (0xc6e00bf3 ⊞ w12) in
  let~ w13 := w13 ⊞ (sigma1 w11 ⊞ w6 ⊞ sigma0 w14) in
  let~ (g, c) := Round d e f g h a b c (0xd5a79147 ⊞ w13) in
  let~ w14 := w14 ⊞ (sigma1 w12 ⊞ w7 ⊞ sigma0 w15) in
  let~ (f, b) := Round c d e f g h a b (0x06ca6351 ⊞ w14) in
  let~ w15 := w15 ⊞ (sigma1 w13 ⊞ w8 ⊞ sigma0 w0) in
  let~ (e, a) := Round b c d e f g h a (0x14292967 ⊞ w15) in
  let~ w0 := w0 ⊞ (sigma1 w14 ⊞ w9 ⊞ sigma0 w1) in
  let~ (d, h) := Round a b c d e f g h (0x27b70a85 ⊞ w0) in
  let~ w1 := w1 ⊞ (sigma1 w15 ⊞ w10 ⊞ sigma0 w2) in
  let~ (c, g) := Round h a b c d e f g (0x2e1b2138 ⊞ w1) in
  let~ w2 := w2 ⊞ (sigma1 w0 ⊞ w11 ⊞ sigma0 w3) in
  let~ (b, f) := Round g h a b c d e f (0x4d2c6dfc ⊞ w2) in
  let~ w3 := w3 ⊞ (sigma1 w1 ⊞ w12 ⊞ sigma0 w4) in
  let~ (a, e) := Round f g h a b c d e (0x53380d13 ⊞ w3) in
  let~ w4 := w4 ⊞ (sigma1 w2 ⊞ w13 ⊞ sigma0 w5) in
  let~ (h, d) := Round e f g h a b c d (0x650a7354 ⊞ w4) in
  let~ w5 := w5 ⊞ (sigma1 w3 ⊞ w14 ⊞ sigma0 w6) in
  let~ (g, c) := Round d e f g h a b c (0x766a0abb ⊞ w5) in
  let~ w6 := w6 ⊞ (sigma1 w4 ⊞ w15 ⊞ sigma0 w7) in
  let~ (f, b) := Round c d e f g h a b (0x81c2c92e ⊞ w6) in
  let~ w7 := w7 ⊞ (sigma1 w5 ⊞ w0 ⊞ sigma0 w8) in
  let~ (e, a) := Round b c d e f g h a (0x92722c85 ⊞ w7) in
  let~ w8 := w8 ⊞ (sigma1 w6 ⊞ w1 ⊞ sigma0 w9) in
  let~ (d, h) := Round a b c d e f g h (0xa2bfe8a1 ⊞ w8) in
  let~ w9 := w9 ⊞ (sigma1 w7 ⊞ w2 ⊞ sigma0 w10) in
  let~ (c, g) := Round h a b c d e f g (0xa81a664b ⊞ w9) in
  let~ w10 := w10 ⊞ (sigma1 w8 ⊞ w3 ⊞ sigma0 w11) in
  let~ (b, f) := Round g h a b c d e f (0xc24b8b70 ⊞ w10) in
  let~ w11 := w11 ⊞ (sigma1 w9 ⊞ w4 ⊞ sigma0 w12) in
  let~ (a, e) := Round f g h a b c d e (0xc76c51a3 ⊞ w11) in
  let~ w12 := w12 ⊞ (sigma1 w10 ⊞ w5 ⊞ sigma0 w13) in
  let~ (h, d) := Round e f g h a b c d (0xd192e819 ⊞ w12) in
  let~ w13 := w13 ⊞ (sigma1 w11 ⊞ w6 ⊞ sigma0 w14) in
  let~ (g, c) := Round d e f g h a b c (0xd6990624 ⊞ w13) in
  let~ w14 := w14 ⊞ (sigma1 w12 ⊞ w7 ⊞ sigma0 w15) in
  let~ (f, b) := Round c d e f g h a b (0xf40e3585 ⊞ w14) in
  let~ w15 := w15 ⊞ (sigma1 w13 ⊞ w8 ⊞ sigma0 w0) in
  let~ (e, a) := Round b c d e f g h a (0x106aa070 ⊞ w15) in
  let~ w0 := w0 ⊞ (sigma1 w14 ⊞ w9 ⊞ sigma0 w1) in
  let~ (d, h) := Round a b c d e f g h (0x19a4c116 ⊞ w0) in
  let~ w1 := w1 ⊞ (sigma1 w15 ⊞ w10 ⊞ sigma0 w2) in
  let~ (c, g) := Round h a b c d e f g (0x1e376c08 ⊞ w1) in
  let~ w2 := w2 ⊞ (sigma1 w0 ⊞ w11 ⊞ sigma0 w3) in
  let~ (b, f) := Round g h a b c d e f (0x2748774c ⊞ w2) in
  let~ w3 := w3 ⊞ (sigma1 w1 ⊞ w12 ⊞ sigma0 w4) in
  let~ (a, e) := Round f g h a b c d e (0x34b0bcb5 ⊞ w3) in
  let~ w4 := w4 ⊞ (sigma1 w2 ⊞ w13 ⊞ sigma0 w5) in
  let~ (h, d) := Round e f g h a b c d (0x391c0cb3 ⊞ w4) in
  let~ w5 := w5 ⊞ (sigma1 w3 ⊞ w14 ⊞ sigma0 w6) in
  let~ (g, c) := Round d e f g h a b c (0x4ed8aa4a ⊞ w5) in
  let~ w6 := w6 ⊞ (sigma1 w4 ⊞ w15 ⊞ sigma0 w7) in
  let~ (f, b) := Round c d e f g h a b (0x5b9cca4f ⊞ w6) in
  let~ w7 := w7 ⊞ (sigma1 w5 ⊞ w0 ⊞ sigma0 w8) in
  let~ (e, a) := Round b c d e f g h a (0x682e6ff3 ⊞ w7) in
  let~ w8 := w8 ⊞ (sigma1 w6 ⊞ w1 ⊞ sigma0 w9) in
  let~ (d, h) := Round a b c d e f g h (0x748f82ee ⊞ w8) in
  let~ w9 := w9 ⊞ (sigma1 w7 ⊞ w2 ⊞ sigma0 w10) in
  let~ (c, g) := Round h a b c d e f g (0x78a5636f ⊞ w9) in
  let~ w10 := w10 ⊞ (sigma1 w8 ⊞ w3 ⊞ sigma0 w11) in
  let~ (b, f) := Round g h a b c d e f (0x84c87814 ⊞ w10) in
  let~ w11 := w11 ⊞ (sigma1 w9 ⊞ w4 ⊞ sigma0 w12) in
  let~ (a, e) := Round f g h a b c d e (0x8cc70208 ⊞ w11) in
  let~ w12 := w12 ⊞ (sigma1 w10 ⊞ w5 ⊞ sigma0 w13) in
  let~ (h, d) := Round e f g h a b c d (0x90befffa ⊞ w12) in
  let~ w13 := w13 ⊞ (sigma1 w11 ⊞ w6 ⊞ sigma0 w14) in
  let~ (g, c) := Round d e f g h a b c (0xa4506ceb ⊞ w13) in
  let~ (f, b) := Round c d e f g h a b (0xbef9a3f7 ⊞ (w14 ⊞ sigma1 w12 ⊞ w7 ⊞ sigma0 w15)) in
  let~ (e, a) := Round b c d e f g h a (0xc67178f2 ⊞ (w15 ⊞ sigma1 w13 ⊞ w8 ⊞ sigma0 w0)) in
  (a, b, c, d, e, f, g, h).

Definition rounds_2 (t : state) : state :=
  let '(a, b, c, d, e, f, g, h) := t in
  let~ (d, h) := Round a b c d e f g h (0xc28a2f98) in
  let~ (c, g) := Round h a b c d e f g (0x71374491) in
  let~ (b, f) := Round g h a b c d e f (0xb5c0fbcf) in
  let~ (a, e) := Round f g h a b c d e (0xe9b5dba5) in
  let~ (h, d) := Round e f g h a b c d (0x3956c25b) in
  let~ (g, c) := Round d e f g h a b c (0x59f111f1) in
  let~ (f, b) := Round c d e f g h a b (0x923f82a4) in
  let~ (e, a) := Round b c d e f g h a (0xab1c5ed5) in
  let~ (d, h) := Round a b c d e f g h (0xd807aa98) in
  let~ (c, g) := Round h a b c d e f g (0x12835b01) in
  let~ (b, f) := Round g h a b c d e f (0x243185be) in
  let~ (a, e) := Round f g h a b c d e (0x550c7dc3) in
  let~ (h, d) := Round e f g h a b c d (0x72be5d74) in
  let~ (g, c) := Round d e f g h a b c (0x80deb1fe) in
  let~ (f, b) := Round c d e f g h a b (0x9bdc06a7) in
  let~ (e, a) := Round b c d e f g h a (0xc19bf374) in
  let~ (d, h) := Round a b c d e f g h (0x649b69c1) in
  let~ (c, g) := Round h a b c d e f g (0xf0fe4786) in
  let~ (b, f) := Round g h a b c d e f (0x0fe1edc6) in
  let~ (a, e) := Round f g h a b c d e (0x240cf254) in
  let~ (h, d) := Round e f g h a b c d (0x4fe9346f) in
  let~ (g, c) := Round d e f g h a b c (0x6cc984be) in
  let~ (f, b) := Round c d e f g h a b (0x61b9411e) in
  let~ (e, a) := Round b c d e f g h a (0x16f988fa) in
  let~ (d, h) := Round a b c d e f g h (0xf2c65152) in
  let~ (c, g) := Round h a b c d e f g (0xa88e5a6d) in
  let~ (b, f) := Round g h a b c d e f (0xb019fc65) in
  let~ (a, e) := Round f g h a b c d e (0xb9d99ec7) in
  let~ (h, d) := Round e f g h a b c d (0x9a1231c3) in
  let~ (g, c) := Round d e f g h a b c (0xe70eeaa0) in
  let~ (f, b) := Round c d e f g h a b (0xfdb1232b) in
  let~ (e, a) := Round b c d e f g h a (0xc7353eb0) in
  let~ (d, h) := Round a b c d e f g h (0x3069bad5) in
  let~ (c, g) := Round h a b c d e f g (0xcb976d5f) in
  let~ (b, f) := Round g h a b c d e f (0x5a0f118f) in
  let~ (a, e) := Round f g h a b c d e (0xdc1eeefd) in
  let~ (h, d) := Round e f g h a b c d (0x0a35b689) in
  let~ (g, c) := Round d e f g h a b c (0xde0b7a04) in
  let~ (f, b) := Round c d e f g h a b (0x58f4ca9d) in
  let~ (e, a) := Round b c d e f g h a (0xe15d5b16) in
  let~ (d, h) := Round a b c d e f g h (0x007f3e86) in
  let~ (c, g) := Round h a b c d e f g (0x37088980) in
  let~ (b, f) := Round g h a b c d e f (0xa507ea32) in
  let~ (a, e) := Round f g h a b c d e (0x6fab9537) in
  let~ (h, d) := Round e f g h a b c d (0x17406110) in
  let~ (g, c) := Round d e f g h a b c (0x0d8cd6f1) in
  let~ (f, b) := Round c d e f g h a b (0xcdaa3b6d) in
  let~ (e, a) := Round b c d e f g h a (0xc0bbbe37) in
  let~ (d, h) := Round a b c d e f g h (0x83613bda) in
  let~ (c, g) := Round h a b c d e f g (0xdb48a363) in
  let~ (b, f) := Round g h a b c d e f (0x0b02e931) in
  let~ (a, e) := Round f g h a b c d e (0x6fd15ca7) in
  let~ (h, d) := Round e f g h a b c d (0x521afaca) in
  let~ (g, c) := Round d e f g h a b c (0x31338431) in
  let~ (f, b) := Round c d e f g h a b (0x6ed41a95) in
  let~ (e, a) := Round b c d e f g h a (0x6d437890) in
  let~ (d, h) := Round a b c d e f g h (0xc39c91f2) in
  let~ (c, g) := Round h a b c d e f g (0x9eccabbd) in
  let~ (b, f) := Round g h a b c d e f (0xb5c9a0e6) in
  let~ (a, e) := Round f g h a b c d e (0x532fb63c) in
  let~ (h, d) := Round e f g h a b c d (0xd2c741c6) in
  let~ (g, c) := Round d e f g h a b c (0x07237ea3) in
  let~ (f, b) := Round c d e f g h a b (0xa4954b68) in
  let~ (e, a) := Round b c d e f g h a (0x4c191d76) in
  (a, b, c, d, e, f, g, h).

Definition rounds_3 (w : state) : state :=
  let '(w0, w1, w2, w3, w4, w5, w6, w7) := w in
  let '(a, b, c, d, e, f, g, h) := Initialize in
  let~ (d, h) := Round a b c d e f g h (0x428a2f98 ⊞ w0) in
  let~ (c, g) := Round h a b c d e f g (0x71374491 ⊞ w1) in
  let~ (b, f) := Round g h a b c d e f (0xb5c0fbcf ⊞ w2) in
  let~ (a, e) := Round f g h a b c d e (0xe9b5dba5 ⊞ w3) in
  let~ (h, d) := Round e f g h a b c d (0x3956c25b ⊞ w4) in
  let~ (g, c) := Round d e f g h a b c (0x59f111f1 ⊞ w5) in
  let~ (f, b) := Round c d e f g h a b (0x923f82a4 ⊞ w6) in
  let~ (e, a) := Round b c d e f g h a (0xab1c5ed5 ⊞ w7) in
  let~ (d, h) := Round a b c d e f g h (0x5807aa98) in
  let~ (c, g) := Round h a b c d e f g (0x12835b01) in
  let~ (b, f) := Round g h a b c d e f (0x243185be) in
  let~ (a, e) := Round f g h a b c d e (0x550c7dc3) in
  let~ (h, d) := Round e f g h a b c d (0x72be5d74) in
  let~ (g, c) := Round d e f g h a b c (0x80deb1fe) in
  let~ (f, b) := Round c d e f g h a b (0x9bdc06a7) in
  let~ (e, a) := Round b c d e f g h a (0xc19bf274) in
  let~ w0 := w0 ⊞ (sigma0 w1) in
  let~ (d, h) := Round a b c d e f g h (0xe49b69c1 ⊞ w0) in
  let~ w1 := w1 ⊞ (0xa00000 ⊞ sigma0 w2) in
  let~ (c, g) := Round h a b c d e f g (0xefbe4786 ⊞ w1) in
  let~ w2 := w2 ⊞ (sigma1 w0 ⊞ sigma0 w3) in
  let~ (b, f) := Round g h a b c d e f (0x0fc19dc6 ⊞ w2) in
  let~ w3 := w3 ⊞ (sigma1 w1 ⊞ sigma0 w4) in
  let~ (a, e) := Round f g h a b c d e (0x240ca1cc ⊞ w3) in
  let~ w4 := w4 ⊞ (sigma1 w2 ⊞ sigma0 w5) in
  let~ (h, d) := Round e f g h a b c d (0x2de92c6f ⊞ w4) in
  let~ w5 := w5 ⊞ (sigma1 w3 ⊞ sigma0 w6) in
  let~ (g, c) := Round d e f g h a b c (0x4a7484aa ⊞ w5) in
  let~ w6 := w6 ⊞ (sigma1 w4 ⊞ 0x100 ⊞ sigma0 w7) in
  let~ (f, b) := Round c d e f g h a b (0x5cb0a9dc ⊞ w6) in
  let~ w7 := w7 ⊞ (sigma1 w5 ⊞ w0 ⊞ 0x11002000) in
  let~ (e, a) := Round b c d e f g h a (0x76f988da ⊞ w7) in
  let~ w8 := 0x80000000 ⊞ sigma1 w6 ⊞ w1 in
  let~ (d, h) := Round a b c d e f g h (0x983e5152 ⊞ w8) in
  let~ w9 := sigma1 w7 ⊞ w2 in
  let~ (c, g) := Round h a b c d e f g (0xa831c66d ⊞ w9) in
  let~ w10 := sigma1 w8 ⊞ w3 in
  let~ (b, f) := Round g h a b c d e f (0xb00327c8 ⊞ w10) in
  let~ w11 := sigma1 w9 ⊞ w4 in
  let~ (a, e) := Round f g h a b c d e (0xbf597fc7 ⊞ w11) in
  let~ w12 := sigma1 w10 ⊞ w5 in
  let~ (h, d) := Round e f g h a b c d (0xc6e00bf3 ⊞ w12) in
  let~ w13 := sigma1 w11 ⊞ w6 in
  let~ (g, c) := Round d e f g h a b c (0xd5a79147 ⊞ w13) in
  let~ w14 := sigma1 w12 ⊞ w7 ⊞ 0x400022 in
  let~ (f, b) := Round c d e f g h a b (0x06ca6351 ⊞ w14) in
  let~ w15 := 0x100 ⊞ sigma1 w13 ⊞ w8 ⊞ sigma0 w0 in
  let~ (e, a) := Round b c d e f g h a (0x14292967 ⊞ w15) in
  let~ w0 := w0 ⊞ (sigma1 w14 ⊞ w9 ⊞ sigma0 w1) in
  let~ (d, h) := Round a b c d e f g h (0x27b70a85 ⊞ w0) in
  let~ w1 := w1 ⊞ (sigma1 w15 ⊞ w10 ⊞ sigma0 w2) in
  let~ (c, g) := Round h a b c d e f g (0x2e1b2138 ⊞ w1) in
  let~ w2 := w2 ⊞ (sigma1 w0 ⊞ w11 ⊞ sigma0 w3) in
  let~ (b, f) := Round g h a b c d e f (0x4d2c6dfc ⊞ w2) in
  let~ w3 := w3 ⊞ (sigma1 w1 ⊞ w12 ⊞ sigma0 w4) in
  let~ (a, e) := Round f g h a b c d e (0x53380d13 ⊞ w3) in
  let~ w4 := w4 ⊞ (sigma1 w2 ⊞ w13 ⊞ sigma0 w5) in
  let~ (h, d) := Round e f g h a b c d (0x650a7354 ⊞ w4) in
  let~ w5 := w5 ⊞ (sigma1 w3 ⊞ w14 ⊞ sigma0 w6) in
  let~ (g, c) := Round d e f g h a b c (0x766a0abb ⊞ w5) in
  let~ w6 := w6 ⊞ (sigma1 w4 ⊞ w15 ⊞ sigma0 w7) in
  let~ (f, b) := Round c d e f g h a b (0x81c2c92e ⊞ w6) in
  let~ w7 := w7 ⊞ (sigma1 w5 ⊞ w0 ⊞ sigma0 w8) in
  let~ (e, a) := Round b c d e f g h a (0x92722c85 ⊞ w7) in
  let~ w8 := w8 ⊞ (sigma1 w6 ⊞ w1 ⊞ sigma0 w9) in
  let~ (d, h) := Round a b c d e f g h (0xa2bfe8a1 ⊞ w8) in
  let~ w9 := w9 ⊞ (sigma1 w7 ⊞ w2 ⊞ sigma0 w10) in
  let~ (c, g) := Round h a b c d e f g (0xa81a664b ⊞ w9) in
  let~ w10 := w10 ⊞ (sigma1 w8 ⊞ w3 ⊞ sigma0 w11) in
  let~ (b, f) := Round g h a b c d e f (0xc24b8b70 ⊞ w10) in
  let~ w11 := w11 ⊞ (sigma1 w9 ⊞ w4 ⊞ sigma0 w12) in
  let~ (a, e) := Round f g h a b c d e (0xc76c51a3 ⊞ w11) in
  let~ w12 := w12 ⊞ (sigma1 w10 ⊞ w5 ⊞ sigma0 w13) in
  let~ (h, d) := Round e f g h a b c d (0xd192e819 ⊞ w12) in
  let~ w13 := w13 ⊞ (sigma1 w11 ⊞ w6 ⊞ sigma0 w14) in
  let~ (g, c) := Round d e f g h a b c (0xd6990624 ⊞ w13) in
  let~ w14 := w14 ⊞ (sigma1 w12 ⊞ w7 ⊞ sigma0 w15) in
  let~ (f, b) := Round c d e f g h a b (0xf40e3585 ⊞ w14) in
  let~ w15 := w15 ⊞ (sigma1 w13 ⊞ w8 ⊞ sigma0 w0) in
  let~ (e, a) := Round b c d e f g h a (0x106aa070 ⊞ w15) in
  let~ w0 := w0 ⊞ (sigma1 w14 ⊞ w9 ⊞ sigma0 w1) in
  let~ (d, h) := Round a b c d e f g h (0x19a4c116 ⊞ w0) in
  let~ w1 := w1 ⊞ (sigma1 w15 ⊞ w10 ⊞ sigma0 w2) in
  let~ (c, g) := Round h a b c d e f g (0x1e376c08 ⊞ w1) in
  let~ w2 := w2 ⊞ (sigma1 w0 ⊞ w11 ⊞ sigma0 w3) in
  let~ (b, f) := Round g h a b c d e f (0x2748774c ⊞ w2) in
  let~ w3 := w3 ⊞ (sigma1 w1 ⊞ w12 ⊞ sigma0 w4) in
  let~ (a, e) := Round f g h a b c d e (0x34b0bcb5 ⊞ w3) in
  let~ w4 := w4 ⊞ (sigma1 w2 ⊞ w13 ⊞ sigma0 w5) in
  let~ (h, d) := Round e f g h a b c d (0x391c0cb3 ⊞ w4) in
  let~ w5 := w5 ⊞ (sigma1 w3 ⊞ w14 ⊞ sigma0 w6) in
  let~ (g, c) := Round d e f g h a b c (0x4ed8aa4a ⊞ w5) in
  let~ w6 := w6 ⊞ (sigma1 w4 ⊞ w15 ⊞ sigma0 w7) in
  let~ (f, b) := Round c d e f g h a b (0x5b9cca4f ⊞ w6) in
  let~ w7 := w7 ⊞ (sigma1 w5 ⊞ w0 ⊞ sigma0 w8) in
  let~ (e, a) := Round b c d e f g h a (0x682e6ff3 ⊞ w7) in
  let~ w8 := w8 ⊞ (sigma1 w6 ⊞ w1 ⊞ sigma0 w9) in
  let~ (d, h) := Round a b c d e f g h (0x748f82ee ⊞ w8) in
  let~ w9 := w9 ⊞ (sigma1 w7 ⊞ w2 ⊞ sigma0 w10) in
  let~ (c, g) := Round h a b c d e f g (0x78a5636f ⊞ w9) in
  let~ w10 := w10 ⊞ (sigma1 w8 ⊞ w3 ⊞ sigma0 w11) in
  let~ (b, f) := Round g h a b c d e f (0x84c87814 ⊞ w10) in
  let~ w11 := w11 ⊞ (sigma1 w9 ⊞ w4 ⊞ sigma0 w12) in
  let~ (a, e) := Round f g h a b c d e (0x8cc70208 ⊞ w11) in
  let~ w12 := w12 ⊞ (sigma1 w10 ⊞ w5 ⊞ sigma0 w13) in
  let~ (h, d) := Round e f g h a b c d (0x90befffa ⊞ w12) in
  let~ w13 := w13 ⊞ (sigma1 w11 ⊞ w6 ⊞ sigma0 w14) in
  let~ (g, c) := Round d e f g h a b c (0xa4506ceb ⊞ w13) in
  let~ (f, b) := Round c d e f g h a b (0xbef9a3f7 ⊞ (w14 ⊞ sigma1 w12 ⊞ w7 ⊞ sigma0 w15)) in
  let~ (e, a) := Round b c d e f g h a (0xc67178f2 ⊞ (w15 ⊞ sigma1 w13 ⊞ w8 ⊞ sigma0 w0)) in
  (a, b, c, d, e, f, g, h).

Definition TransformD64 (in_ : bytes) : bytes :=
  let t := add_state (rounds_1 in_) Initialize in
  let w := add_state t (rounds_2 t) in
  write_state (add_state (rounds_3 w) Initialize).

(** ** FIPS 180-4 *)

Module FIPS.

(** The largest [r] with [r ^ d <= n], from [bits] bits. *)
Fixpoint root (d : Z) (bits : nat) (n r : Z) : Z :=
  match bits with
  | O => r
  | S i => let r' := r + 2 ^ Z.of_nat i in root d i n (if r' ^ d <=? n then r' else r)
  end.

(** The first 32 bits of the fractional part of the [d]-th root of a number [p < 2^12]. *)
Definition fraction (d p : Z) : Z := u32 (root d 38 (p * 2 ^ (32 * d)) 0).

(** The primes below [p + fuel], of which those below [p] are [before]. *)
Fixpoint primes (fuel : nat) (p : Z) (before : list Z) : list Z :=
  match fuel with
  | O => before
  | S fuel => primes fuel (p + 1) (if existsb (λ q, p mod q =? 0) before then before else before ++ [p])
  end.

(** The constants K of section 4.2.2, from the cube roots of the first 64 primes, and the
    initial value of section 5.3.3, from the square roots of the first eight. *)
Definition K : list Z := Eval vm_compute in map (fraction 3) (primes 310 2 []).
Definition H0 : state :=
  Eval vm_compute in
    match map (fraction 2) (primes 18 2 []) with
    | [a; b; c; d; e; f; g; h] => (a, b, c, d, e, f, g, h)
    | _ => (0, 0, 0, 0, 0, 0, 0, 0)
    end.

(** The functions of section 4.1.2. *)
Definition Ch (x y z : Z) : Z := Z.lxor (Z.land x y) (Z.land (Z.lnot x) z).
Definition Maj (x y z : Z) : Z := Z.lxor (Z.lxor (Z.land x y) (Z.land x z)) (Z.land y z).

(** The schedule of section 6.2.2: sixteen words of the block, and [n] more. *)
Fixpoint schedule (M : list Z) (n : nat) : list Z :=
  match n with
  | O => M
  | S n =>
      let W := schedule M n in
      let t := length W in
      W ++ [u32 (sigma1 (nth (t - 2) W 0) + nth (t - 7) W 0 + sigma0 (nth (t - 15) W 0) + nth (t - 16) W 0)]
  end.

(** Step 3 of section 6.2.2. *)
Definition step (v : state) (kw : Z * Z) : state :=
  let '(a, b, c, d, e, f, g, h) := v in
  let '(K_t, W_t) := kw in
  let T1 := u32 (h + Sigma1 e + Ch e f g + K_t + W_t) in
  let T2 := u32 (Sigma0 a + Maj a b c) in
  (u32 (T1 + T2), a, b, c, u32 (d + T1), e, f, g).

(** The sixteen words of a block, most significant byte first. *)
Definition words (block : bytes) : list Z := map (λ i, le_value (rev (take 4 (drop (4 * i) block)))) (seq 0 16).

(** The intermediate value after a block. *)
Definition compress (H : state) (block : bytes) : state :=
  add_state H (foldl step H (zip K (schedule (words block) 48))).

(** Section 5.1.1: a one bit, the least number of zeros, and the length in bits. *)
Definition pad (m : bytes) : bytes :=
  m ++ 0x80 :: replicate (Z.to_nat ((55 - Z.of_nat (length m)) mod 64)) 0 ++ rev (le_bytes 8 (8 * Z.of_nat (length m))).

(** The value after the first [n] blocks of a string. *)
Fixpoint blocks (n : nat) (H : state) (m : bytes) : state :=
  match n with
  | O => H
  | S n => blocks n (compress H (take 64 m)) (drop 64 m)
  end.

Definition SHA256 (m : bytes) : bytes :=
  let p := pad m in write_state (blocks (length p / 64) H0 p).

End FIPS.

(** ** Words *)

(** Congruence modulo [2^32], under which reductions inside a sum can be dropped. *)
Definition eq32 (x y : Z) : Prop := u32 x = u32 y.
#[global] Instance eq32_equivalence : Equivalence eq32.
Proof. split; red; unfold eq32; congruence. Qed.
#[global] Instance add_eq32 : Proper (eq32 ==> eq32 ==> eq32) Z.add.
Proof. intros x x' Hx y y' Hy. unfold eq32, u32 in *. by rewrite Zplus_mod, Hx, Hy, <- Zplus_mod. Qed.
Lemma u32_eq32 x : eq32 (u32 x) x.
Proof. apply Zmod_mod. Qed.
#[global] Instance u32_proper : Proper (eq32 ==> eq32) u32.
Proof. intros x y Hxy. by rewrite !u32_eq32. Qed.
Lemma eq32_eq x y : x = y → eq32 x y.
Proof. by intros ->. Qed.

(** Equality of sums of words, up to the order of the terms. *)
Ltac sum32 :=
  unfold add32;
  lazymatch goal with |- u32 ?x = u32 ?y => change (eq32 x y) end;
  rewrite ?u32_eq32; apply eq32_eq; ring.

Lemma Ch_fips x y z : FIPS.Ch x y z = Ch x y z.
Proof.
  apply Z.bits_inj'. intros n Hn. unfold FIPS.Ch, Ch.
  rewrite !Z.lxor_spec, !Z.land_spec, Z.lxor_spec, Z.lnot_spec by done.
  by destruct (Z.testbit x n), (Z.testbit y n), (Z.testbit z n).
Qed.

Lemma Maj_fips x y z : FIPS.Maj x y z = Maj x y z.
Proof.
  apply Z.bits_inj'. intros n Hn. unfold FIPS.Maj, Maj.
  rewrite !Z.lxor_spec, Z.lor_spec, !Z.land_spec, Z.lor_spec.
  by destruct (Z.testbit x n), (Z.testbit y n), (Z.testbit z n).
Qed.

(** ** One block *)

(** A step with the sum of constant and word, and the sums for a block with the words
    in a window of sixteen. *)
Definition kstep (v : state) (key : Z) : state :=
  let '(a, b, c, d, e, f, g, h) := v in
  let '(d, h) := Round a b c d e f g h key in (h, a, b, c, d, e, f, g).

Definition next_word (w : list Z) : Z :=
  nth 0 w 0 ⊞ (sigma1 (nth 14 w 0) ⊞ nth 9 w 0 ⊞ sigma0 (nth 1 w 0)).

Fixpoint round_keys (ks w : list Z) : list Z :=
  match ks with
  | [] => []
  | k :: ks => (k ⊞ hd 0 w) :: round_keys ks (tail w ++ [next_word w])
  end.

Lemma step_kstep v k w : FIPS.step v (k, w) = kstep v (k ⊞ w).
Proof.
  destruct v as [[[[[[[a b] c] d] e] f] g] h]. cbn [FIPS.step kstep Round fst snd].
  rewrite Ch_fips, Maj_fips. unfold Round.
  assert (u32 (h + Sigma1 e + Ch e f g + k + w) = h ⊞ Sigma1 e ⊞ Ch e f g ⊞ (k ⊞ w)) as -> by sum32.
  reflexivity.
Qed.

Lemma length_schedule M n : length (FIPS.schedule M n) = (length M + n)%nat.
Proof. induction n as [|n IH]; cbn [FIPS.schedule]; [lia|]. rewrite length_app, IH. cbn [length]. lia. Qed.

Lemma schedule_prefix M n k i :
  (i < length M + n)%nat → nth i (FIPS.schedule M (k + n)) 0 = nth i (FIPS.schedule M n) 0.
Proof.
  intros Hi. induction k as [|k IH]; [done|]. cbn [Nat.add FIPS.schedule].
  rewrite app_nth1; [done|]. rewrite length_schedule. lia.
Qed.

Lemma schedule_next M n i :
  length M = 16%nat → (i < n)%nat →
  let W := FIPS.schedule M n in
  nth (16 + i) W 0 = nth i W 0 ⊞ (sigma1 (nth (i + 14) W 0) ⊞ nth (i + 9) W 0 ⊞ sigma0 (nth (i + 1) W 0)).
Proof.
  intros HM Hi W. unfold W. replace n with ((n - S i) + S i)%nat by lia.
  rewrite !(schedule_prefix M (S i)) by lia. cbn [FIPS.schedule].
  rewrite (app_nth2 (FIPS.schedule M i)), length_schedule, HM, Nat.sub_diag by (rewrite length_schedule; lia).
  cbn [nth]. rewrite !app_nth1 by (rewrite length_schedule; lia).
  replace (16 + i - 2)%nat with (i + 14)%nat by lia. replace (16 + i - 7)%nat with (i + 9)%nat by lia.
  replace (16 + i - 15)%nat with (i + 1)%nat by lia. replace (16 + i - 16)%nat with i by lia.
  sum32.
Qed.

(** The window slides over the schedule. *)
Lemma round_keys_schedule M ks t :
  length M = 16%nat → (length ks + t <= 64)%nat →
  let W := FIPS.schedule M 64 in
  round_keys ks (map (λ i, nth i W 0) (seq t 16)) = zip_with add32 ks (map (λ i, nth i W 0) (seq t (length ks))).
Proof.
  intros HM. revert t. induction ks as [|k ks IH]; intros t Ht W; [done|]. cbn [length] in Ht.
  cbn [round_keys length seq map hd zip_with]. f_equal.
  specialize (IH (S t) ltac:(lia)). cbv zeta in IH. fold W in IH. rewrite <- IH. f_equal. cbn [seq map tail app]. do 16 f_equal.
  pose proof (schedule_next M 64 t HM ltac:(lia)) as E. cbv zeta in E. fold W in E.
  unfold next_word. cbn [nth]. rewrite !(Nat.add_comm t) in E. symmetry. exact E.
Qed.

Lemma nth_map_seq (l : list Z) : map (λ i, nth i l 0) (seq 0 (length l)) = l.
Proof.
  apply nth_ext with 0 0; [by rewrite length_map, length_seq|].
  intros i Hi. rewrite length_map, length_seq in Hi.
  rewrite (nth_indep _ _ (nth 0%nat l 0)) by (rewrite length_map, length_seq; lia).
  by rewrite (map_nth (λ i, nth i l 0) (seq 0 (length l)) 0%nat i), seq_nth by done.
Qed.

Lemma foldl_step v ks ws : foldl FIPS.step v (zip ks ws) = foldl kstep v (zip_with add32 ks ws).
Proof.
  revert v ws. induction ks as [|k ks IH]; intros v [|w ws]; [done..|].
  cbn [zip_with foldl]. by rewrite step_kstep, IH.
Qed.

Lemma fips_rounds M v :
  length M = 16%nat → foldl FIPS.step v (zip FIPS.K (FIPS.schedule M 48)) = foldl kstep v (round_keys FIPS.K M).
Proof.
  intros HM. rewrite foldl_step. f_equal.
  pose proof (round_keys_schedule M FIPS.K 0 HM ltac:(reflexivity)) as E. cbv zeta in E.
  rewrite <- (nth_map_seq (FIPS.schedule M 48)), length_schedule, HM.
  rewrite (map_ext_in _ (λ i, nth i (FIPS.schedule M 64) 0)).
  2:{ intros i Hi%in_seq. symmetry. apply (schedule_prefix M 48 16). lia. }
  change (16 + 48)%nat with (length FIPS.K). rewrite <- E. f_equal.
  rewrite <- (nth_map_seq M), HM at 1. apply map_ext_in. intros i Hi%in_seq.
  apply (schedule_prefix M 0 64 i). lia.
Qed.

Lemma compress_keys H block :
  FIPS.compress H block = add_state H (foldl kstep H (round_keys FIPS.K (FIPS.words block))).
Proof. unfold FIPS.compress. by rewrite fips_rounds. Qed.

(** The unrolled rounds run through the same steps: a word is computed when it is used,
    the window has it sixteen rounds earlier. *)
Lemma assign_run {A B} (e : A) (k : A → B) (r : B) : k e = r → assign e k = r.
Proof. done. Qed.

Lemma assign_word {B} (x e : Z) (k : Z → B) (r : B) : e = x → k x = r → assign e k = r.
Proof. by intros ->. Qed.

Lemma keys_cons (P : state → Prop) k ks w0 w1 w2 w3 w4 w5 w6 w7 w8 w9 w10 w11 w12 w13 w14 w15 a b c d e f g h :
  (∀ x, x = w0 ⊞ (sigma1 w14 ⊞ w9 ⊞ sigma0 w1) →
     P (let '(d, h) := Round a b c d e f g h (k ⊞ w0) in
        foldl kstep (h, a, b, c, d, e, f, g)
          (round_keys ks [w1; w2; w3; w4; w5; w6; w7; w8; w9; w10; w11; w12; w13; w14; w15; x]))) →
  P (foldl kstep (a, b, c, d, e, f, g, h)
       (round_keys (k :: ks) [w0; w1; w2; w3; w4; w5; w6; w7; w8; w9; w10; w11; w12; w13; w14; w15])).
Proof.
  intros H. specialize (H _ eq_refl). cbn [round_keys foldl hd tail app kstep].
  destruct (Round a b c d e f g h (k ⊞ w0)). exact H.
Qed.

Ltac known_sigmas :=
  change (sigma1 0) with 0; change (sigma1 0x100) with 0xa00000; change (sigma0 0) with 0;
  change (sigma0 0x80000000) with 0x11002000; change (sigma0 0x100) with 0x400022.

Ltac this_word x e :=
  lazymatch goal with
  | H : x = ?e' |- _ => first [constr_eq e e'; exact (eq_sym H) | rewrite H; clear; known_sigmas; sum32]
  end.

(** A word that is about to be used is the first one of the window. *)
Ltac next_assign :=
  lazymatch goal with
  | |- @assign Z _ ?e _ = foldl kstep _ (round_keys _ (?x :: _)) =>
      refine (assign_word x e _ _ _ _); [first [constr_eq e x; exact eq_refl | this_word x e] | cbv beta]
  | |- _ => idtac
  end.

Ltac same_round :=
  lazymatch goal with
  | |- assign ?r1 _ = (let '(_, _) := ?r2 in _) =>
      first [constr_eq r1 r2
            | replace r1 with r2 by (lazymatch r2 with Round _ _ _ _ _ _ _ _ (_ ⊞ ?x) => subst x; f_equal; sum32 end)
            | change r2 with r1];
      lazymatch goal with |- _ = (let '(_, _) := ?r in _) => destruct r as [? ?] end
  end; apply assign_run; cbv beta iota.

Ltac one_round :=
  next_assign;
  lazymatch goal with |- ?l = _ => apply (keys_cons (λ r, l = r)) end;
  intros ? ?; cbv beta; same_round.

Lemma words_reads chunk :
  FIPS.words chunk =
  [ReadBE32 chunk 0; ReadBE32 chunk 4; ReadBE32 chunk 8; ReadBE32 chunk 12;
   ReadBE32 chunk 16; ReadBE32 chunk 20; ReadBE32 chunk 24; ReadBE32 chunk 28;
   ReadBE32 chunk 32; ReadBE32 chunk 36; ReadBE32 chunk 40; ReadBE32 chunk 44;
   ReadBE32 chunk 48; ReadBE32 chunk 52; ReadBE32 chunk 56; ReadBE32 chunk 60].
Proof. reflexivity. Qed.

Lemma transform_rounds_keys v chunk : transform_rounds v chunk = foldl kstep v (round_keys FIPS.K (FIPS.words chunk)).
Proof.
  destruct v as [[[[[[[a b] c] d] e] f] g] h]. rewrite words_reads.
  cbv beta iota delta [transform_rounds FIPS.K]. do 64 one_round. reflexivity.
Qed.

Lemma rounds_1_keys in_ : rounds_1 in_ = foldl kstep Initialize (round_keys FIPS.K (FIPS.words in_)).
Proof.
  rewrite words_reads. cbv beta iota delta [rounds_1 Initialize FIPS.K]. do 64 one_round. reflexivity.
Qed.

(** The padding of 64 bytes, and of 32 bytes. *)
Definition padding1 : bytes := 0x80 :: replicate 61 0 ++ [2; 0].
Definition padding2 : bytes := 0x80 :: replicate 29 0 ++ [1; 0].

Lemma foldl_kstep k ks a b c d e f g h :
  foldl kstep (a, b, c, d, e, f, g, h) (k :: ks) =
  let '(d, h) := Round a b c d e f g h k in foldl kstep (h, a, b, c, d, e, f, g) ks.
Proof. cbn [foldl kstep]. by destruct (Round a b c d e f g h k). Qed.

Lemma rounds_2_keys t : rounds_2 t = foldl kstep t (round_keys FIPS.K (FIPS.words padding1)).
Proof.
  destruct t as [[[[[[[a b] c] d] e] f] g] h].
  let ks := eval vm_compute in (round_keys FIPS.K (FIPS.words padding1)) in
  assert (round_keys FIPS.K (FIPS.words padding1) = ks) as -> by (vm_compute; reflexivity).
  cbv beta iota delta [rounds_2].
  do 64 (rewrite foldl_kstep; same_round). reflexivity.
Qed.

Lemma rounds_3_keys w0 w1 w2 w3 w4 w5 w6 w7 :
  rounds_3 (w0, w1, w2, w3, w4, w5, w6, w7) =
  foldl kstep Initialize (round_keys FIPS.K [w0; w1; w2; w3; w4; w5; w6; w7; 0x80000000; 0; 0; 0; 0; 0; 0; 0x100]).
Proof. cbv beta iota delta [rounds_3 Initialize FIPS.K]. do 64 one_round. reflexivity. Qed.

(** ** Blocks *)

Lemma words_take chunk : FIPS.words (take 64 chunk) = FIPS.words chunk.
Proof.
  unfold FIPS.words. apply map_ext_in. intros i Hi%in_seq. do 2 f_equal.
  rewrite skipn_firstn_comm, take_take. f_equal. lia.
Qed.

(** [Transform] runs through the blocks as the algorithm does. *)
Lemma Transform_blocks n H m : Transform n H m = FIPS.blocks n H m.
Proof.
  revert H m. induction n as [|n IH]; intros H m; [done|]. cbn [Transform FIPS.blocks].
  by rewrite IH, compress_keys, transform_rounds_keys, words_take.
Qed.

Lemma add_state_comm v w : add_state v w = add_state w v.
Proof.
  destruct v as [[[[[[[v0 v1] v2] v3] v4] v5] v6] v7], w as [[[[[[[w0 w1] w2] w3] w4] w5] w6] w7].
  cbn [add_state]. unfold add32. by rewrite (Z.add_comm v0), (Z.add_comm v1), (Z.add_comm v2),
    (Z.add_comm v3), (Z.add_comm v4), (Z.add_comm v5), (Z.add_comm v6), (Z.add_comm v7).
Qed.

(** A state of words, and its bytes. *)
Definition state_ok (v : state) : Prop :=
  let '(a, b, c, d, e, f, g, h) := v in Forall is_u32 [a; b; c; d; e; f; g; h].

Lemma add_state_ok v w : state_ok (add_state v w).
Proof.
  destruct v as [[[[[[[v0 v1] v2] v3] v4] v5] v6] v7], w as [[[[[[[w0 w1] w2] w3] w4] w5] w6] w7].
  repeat constructor; apply u32_range.
Qed.

Lemma WriteBE32_value x : is_u32 x → le_value (rev (WriteBE32 x)) = x.
Proof. intros Hx. unfold WriteBE32. rewrite rev_involutive, le_value_le_bytes. by apply Z.mod_small. Qed.

Lemma length_WriteBE32 x : length (WriteBE32 x) = 4%nat.
Proof. unfold WriteBE32. by rewrite length_rev, length_le_bytes. Qed.

Lemma length_write_state v : length (write_state v) = 32%nat.
Proof. by destruct v as [[[[[[[a b] c] d] e] f] g] h]. Qed.

(** The words of the written state. *)
Lemma words_write_state a b c d e f g h :
  state_ok (a, b, c, d, e, f, g, h) →
  FIPS.words (write_state (a, b, c, d, e, f, g, h) ++ padding2) =
  [a; b; c; d; e; f; g; h; 0x80000000; 0; 0; 0; 0; 0; 0; 0x100].
Proof.
  cbn [state_ok]. rewrite !Forall_cons. intros (Ha & Hb & Hc & Hd & He & Hf & Hg & Hh & _).
  transitivity (map (λ x, le_value (rev (WriteBE32 x))) [a; b; c; d; e; f; g; h] ++
    map (λ i, le_value (rev (take 4 (drop (4 * i) padding2)))) (seq 0 8)).
  - reflexivity.
  - cbn [map]. rewrite !WriteBE32_value by done. reflexivity.
Qed.

(** ** Digests *)

Lemma rounds_3_words w :
  state_ok w → rounds_3 w = foldl kstep Initialize (round_keys FIPS.K (FIPS.words (write_state w ++ padding2))).
Proof.
  destruct w as [[[[[[[a b] c] d] e] f] g] h]. intros Hw. by rewrite rounds_3_keys, words_write_state.
Qed.

Lemma blocks_app n k H x : FIPS.blocks (n + k) H x = FIPS.blocks k (FIPS.blocks n H x) (drop (64 * n) x).
Proof.
  revert H x. induction n as [|n IH]; intros H x; [done|]. cbn [Nat.add FIPS.blocks]. rewrite IH, drop_drop.
  do 2 f_equal. lia.
Qed.

Lemma blocks_prefix n H x y : (64 * n <= length x)%nat → FIPS.blocks n H (x ++ y) = FIPS.blocks n H x.
Proof.
  revert H x. induction n as [|n IH]; intros H x Hl; [done|]. cbn [FIPS.blocks].
  rewrite take_app_le, drop_app_le by lia. apply IH. rewrite length_drop. lia.
Qed.

Lemma pad_64 m : length m = 64%nat → FIPS.pad m = m ++ padding1.
Proof. intros Hm. unfold FIPS.pad. by rewrite Hm. Qed.
Lemma pad_32 m : length m = 32%nat → FIPS.pad m = m ++ padding2.
Proof. intros Hm. unfold FIPS.pad. by rewrite Hm. Qed.

Lemma length_SHA256 m : length (FIPS.SHA256 m) = 32%nat.
Proof. apply length_write_state. Qed.

Lemma SHA256_64 m :
  length m = 64%nat → FIPS.SHA256 m = write_state (FIPS.compress (FIPS.compress FIPS.H0 m) padding1).
Proof.
  intros Hm. unfold FIPS.SHA256. rewrite pad_64, length_app, Hm by done. change ((64 + _) / 64)%nat with 2%nat.
  cbn [FIPS.blocks]. by rewrite take_app_length', drop_app_length' by done.
Qed.

Lemma SHA256_32 m : length m = 32%nat → FIPS.SHA256 m = write_state (FIPS.compress FIPS.H0 (m ++ padding2)).
Proof.
  intros Hm. unfold FIPS.SHA256. rewrite pad_32, length_app, Hm by done. change ((32 + _) / 64)%nat with 1%nat.
  cbn [FIPS.blocks]. rewrite take_ge; [done|]. by rewrite length_app, Hm.
Qed.

Lemma TransformD64_double in_ : length in_ = 64%nat → TransformD64 in_ = FIPS.SHA256 (FIPS.SHA256 in_).
Proof.
  intros Hin. unfold TransformD64. cbv zeta.
  rewrite SHA256_32 by apply length_SHA256. rewrite SHA256_64, !compress_keys by done. f_equal.
  rewrite rounds_3_words by apply add_state_ok.
  rewrite add_state_comm, rounds_1_keys, rounds_2_keys, (add_state_comm (foldl _ _ _) Initialize). done.
Qed.

(** C13: the unrolled transformations are SHA-256.  [Transform] computes the intermediate
    values of FIPS 180-4 for any number of blocks; and [TransformD64], in which the
    padding of the input and of its digest is worked into the constants of 128 rounds,
    computes the double SHA-256 of its 64 bytes. *)
Theorem transforms_exact (H : state) (n : nat) (m in_ : bytes) :
  length in_ = 64%nat →
  Transform n H m = FIPS.blocks n H m ∧ TransformD64 in_ = FIPS.SHA256 (FIPS.SHA256 in_).
Proof. intros Hin. split; [apply Transform_blocks|by apply TransformD64_double]. Qed.

Lemma transforms_exact_witness :
  length (replicate 64 7) = 64%nat ∧
  TransformD64 (replicate 64 7) = FIPS.SHA256 (FIPS.SHA256 (replicate 64 7)) ∧
  take 4 (TransformD64 (replicate 64 7)) = [166; 91; 23; 162].
Proof.
  split; [reflexivity|]. split; [|vm_compute; reflexivity].
  apply (transforms_exact FIPS.H0 0 [] (replicate 64 7)). reflexivity.
Defined.

(** The digest of "abc", as FIPS 180-4 has it. *)
Example SHA256_abc :
  FIPS.SHA256 [97; 98; 99] =
  [0xba; 0x78; 0x16; 0xbf; 0x8f; 0x01; 0xcf; 0xea; 0x41; 0x41; 0x40; 0xde; 0x5d; 0xae; 0x22; 0x23;
   0xb0; 0x03; 0x61; 0xa3; 0x96; 0x17; 0x7a; 0x9c; 0xb4; 0x10; 0xff; 0x61; 0xf2; 0x00; 0x15; 0xad].
Proof. vm_compute. reflexivity. Qed.
