(* ===== verification/Hasher.v ===== *)
(** The streams and batches over SHA-256: [CSHA256], [SHA256D64] and [SelfTest] of
    [src/src/crypto/sha256.h/.cpp], [CHash256] of [src/src/hash.h] and [CHMAC_SHA256] of
    [src/src/crypto/hmac_sha256.h/.cpp].

    [SHA256AutoDetect] may replace the transformations by assembly for the processor;
    they are arguments, and the class [Transforms] states what is relied on: that they
    compute what the portable ones compute, which are an instance. *)
From Stdlib Require Import ZifyNat.
From stdpp Require Import list strings.
From S2P Require Import Prelude Serialize Text Sha256.
Open Scope word_scope.

(** ** The stream *)

(** [memcpy(buf + off, l, length l)]. *)
Definition overwrite (buf : bytes) (off : nat) (l : bytes) : bytes := take off buf ++ l ++ drop (off + length l) buf.

Record CSHA256 := mkSHA256 {
  s : state;
  buf : bytes;
  bytes_ : Z
}.

(** The constructor leaves [buf] as it is. *)
Definition new_SHA256 (buf : bytes) : CSHA256 := mkSHA256 Initialize buf 0.
Definition Reset (h : CSHA256) : CSHA256 := mkSHA256 Initialize (buf h) 0.

(** [tr] is the transformation of blocks chosen by [SHA256AutoDetect]. *)
Section Stream.
Context (tr : nat → state → bytes → state).

Definition Write (h : CSHA256) (data : bytes) : CSHA256 :=
  let bufsize := Z.to_nat (bytes_ h mod 64) in
  let '(h, data, bufsize) :=
    if negb (bufsize =? 0)%nat && (64 <=? bufsize + length data)%nat then
      let b := overwrite (buf h) bufsize (take (64 - bufsize) data) in
      (mkSHA256 (tr 1 (s h) b) b (u64 (bytes_ h + Z.of_nat (64 - bufsize))), drop (64 - bufsize) data, O)
    else (h, data, bufsize) in
  let '(h, data) :=
    if (64 <=? length data)%nat then
      let blocks := (length data / 64)%nat in
      (mkSHA256 (tr blocks (s h) data) (buf h) (u64 (bytes_ h + Z.of_nat (64 * blocks))), drop (64 * blocks) data)
    else (h, data) in
  if (0 <? length data)%nat then
    mkSHA256 (s h) (overwrite (buf h) bufsize data) (u64 (bytes_ h + Z.of_nat (length data)))
  else h.

(** [TransformD64Wrapper]: a double digest from a transformation of blocks. *)
Definition TransformD64Wrapper (in_ : bytes) : bytes :=
  let s := tr 1 (tr 1 Initialize in_) padding1 in
  write_state (tr 1 Initialize (write_state s ++ padding2)).

(** The digest, and the object after it. *)
Definition Finalize (h : CSHA256) : bytes * CSHA256 :=
  let pad := 0x80 :: replicate 63 0 in
  let sizedesc := WriteBE64 (u64 (Z.shiftl (bytes_ h) 3)) in
  let h := Write h (take (Z.to_nat (1 + (119 - bytes_ h mod 64) mod 64)) pad) in
  let h := Write h sizedesc in
  (write_state (s h), h).

(** [CHash256]. *)
Definition CHash256_Finalize (h : CSHA256) : bytes * CSHA256 :=
  let '(b, h) := Finalize h in Finalize (Write (Reset h) b).

(** [CHMAC_SHA256]: the outer and the inner hash; [buf1], [buf2] and [buf3] are the
    buffers of the three objects when they are made. *)
Definition new_HMAC (buf1 buf2 buf3 key : bytes) : CSHA256 * CSHA256 :=
  let rkey :=
    if (length key <=? 64)%nat then key ++ replicate (64 - length key) 0
    else (Finalize (Write (new_SHA256 buf1) key)).1 ++ replicate 32 0 in
  let rkey := map (λ b, Z.lxor b 0x5c) rkey in
  let outer := Write (new_SHA256 buf2) rkey in
  let rkey := map (λ b, Z.lxor b (Z.lxor 0x5c 0x36)) rkey in
  (outer, Write (new_SHA256 buf3) rkey).
Definition HMAC_Write (h : CSHA256 * CSHA256) (data : bytes) : CSHA256 * CSHA256 := (h.1, Write h.2 data).
Definition HMAC_Finalize (h : CSHA256 * CSHA256) : bytes :=
  let '(temp, _) := Finalize h.2 in (Finalize (Write h.1 temp)).1.

End Stream.

(** The variables: the memory, [out], [in] and [blocks]. *)
Abbreviation d64_state := (bytes * nat * nat * nat)%type.

(** [SHA256D64], with the transformations of two, four and eight inputs that are there.
    Input and output are addresses of one memory, as [ComputeMerkleRoot] hashes in place. *)
Section D64.
Context (D64 : bytes → bytes) (D64_2way D64_4way D64_8way : option (bytes → bytes)).

(** [while (blocks >= n)] with a transformation of [n] inputs; [fuel] is [blocks]. *)
Fixpoint ways (n : nat) (f : bytes → bytes) (fuel : nat) (st : d64_state) : d64_state :=
  match fuel with
  | O => st
  | S fuel =>
      let '(mem, out, in_, blocks) := st in
      if (n <=? blocks)%nat then
        ways n f fuel
          (overwrite mem out (f (take (64 * n) (drop in_ mem))), (out + 32 * n)%nat, (in_ + 64 * n)%nat, (blocks - n)%nat)
      else st
  end.

Definition ways_if (n : nat) (f : option (bytes → bytes)) (st : d64_state) : d64_state :=
  match f with
  | None => st
  | Some f => ways n f st.2 st
  end.

Definition SHA256D64 (mem : bytes) (out in_ blocks : nat) : bytes :=
  let st := ways_if 8 D64_8way (mem, out, in_, blocks) in
  let st := ways_if 4 D64_4way st in
  let st := ways_if 2 D64_2way st in
  (ways_if 1 (Some D64) st).1.1.1.

End D64.

(** ** The self-test *)

(** The data, without the byte that keeps it from being aligned. *)
Definition test_data : bytes := codes
  ("Lorem ipsum dolor sit amet, consectetur adipiscing elit, sed do "
   ++ "eiusmod tempor incididunt ut labore et dolore magna aliqua. Et m"
   ++ "olestie ac feugiat sed lectus vestibulum mattis ullamcorper. Mor"
   ++ "bi blandit cursus risus at ultrices mi tempus imperdiet nulla. N"
   ++ "unc congue nisi vita suscipit tellus mauris. Imperdiet proin fer"
   ++ "mentum leo vel orci. Massa tempor nec feugiat nisl pretium fusce"
   ++ " id velit. Telus in metus vulputate eu scelerisque felis. Mi tem"
   ++ "pus imperdiet nulla malesuada pellentesque. Tristique magna sit.")%string.

(** The states after each number of blocks, and the double digests of the blocks. *)
Definition test_result : list state :=
  [(0x6a09e667, 0xbb67ae85, 0x3c6ef372, 0xa54ff53a, 0x510e527f, 0x9b05688c, 0x1f83d9ab, 0x5be0cd19);
   (0x91f8ec6b, 0x4da10fe3, 0x1c9c292c, 0x45e18185, 0x435cc111, 0x3ca26f09, 0xeb954cae, 0x402a7069);
   (0xcabea5ac, 0x374fb97c, 0x182ad996, 0x7bd69cbf, 0x450ff900, 0xc1d2be8a, 0x6a41d505, 0xe6212dc3);
   (0xbcff09d6, 0x3e76f36e, 0x3ecb2501, 0x78866e97, 0xe1c1e2fd, 0x32f4eaff, 0x8aa6c4e5, 0xdfc024bc);
   (0xa08c5d94, 0x0a862f93, 0x6b7f2f40, 0x8f9fae76, 0x6d40439f, 0x79dcee0c, 0x3e39ff3a, 0xdc3bdbb1);
   (0x216a0895, 0x9f1a3662, 0xe99946f9, 0x87ba4364, 0x0fb5db2c, 0x12bed3d3, 0x6689c0c7, 0x292f1b04);
   (0xca3067f8, 0xbc8c2656, 0x37cb7e0d, 0x9b6b8b0f, 0x46dc380b, 0xf1287f57, 0xc42e4b23, 0x3fefe94d);
   (0x3e4c4039, 0xbb6fca8c, 0x6f27d2f7, 0x301e44a4, 0x8352ba14, 0x5769ce37, 0x48a1155f, 0xc0e1c4c6);
   (0xfe2fa9dd, 0x69d0862b, 0x1ae0db23, 0x471f9244, 0xf55c0145, 0xc30f9c3b, 0x40a84ea0, 0x5b8a266c)].
Definition result_d64 : bytes :=
  [0x09; 0x3a; 0xc4; 0xd0; 0x0f; 0xf7; 0x57; 0xe1; 0x72; 0x85; 0x79; 0x42; 0xfe; 0xe7; 0xe0; 0xa0;
   0xfc; 0x52; 0xd7; 0xdb; 0x07; 0x63; 0x45; 0xfb; 0x53; 0x14; 0x7d; 0x17; 0x22; 0x86; 0xf0; 0x52;
   0x48; 0xb6; 0x11; 0x9e; 0x6e; 0x48; 0x81; 0x6d; 0xcc; 0x57; 0x1f; 0xb2; 0x97; 0xa8; 0xd5; 0x25;
   0x9b; 0x82; 0xaa; 0x89; 0xe2; 0xfd; 0x2d; 0x56; 0xe8; 0x28; 0x83; 0x0b; 0xe2; 0xfa; 0x53; 0xb7;
   0xd6; 0x6b; 0x07; 0x85; 0x83; 0xb0; 0x10; 0xa2; 0xf5; 0x51; 0x3c; 0xf9; 0x60; 0x03; 0xab; 0x45;
   0x6c; 0x15; 0x6e; 0xef; 0xb5; 0xac; 0x3e; 0x6c; 0xdf; 0xb4; 0x92; 0x22; 0x2d; 0xce; 0xbf; 0x3e;
   0xe9; 0xe5; 0xf6; 0x29; 0x0e; 0x01; 0x4f; 0xd2; 0xd4; 0x45; 0x65; 0xb3; 0xbb; 0xf2; 0x4c; 0x16;
   0x37; 0x50; 0x3c; 0x6e; 0x49; 0x8c; 0x5a; 0x89; 0x2b; 0x1b; 0xab; 0xc4; 0x37; 0xd1; 0x46; 0xe9;
   0x3d; 0x0e; 0x85; 0xa2; 0x50; 0x73; 0xa1; 0x5e; 0x54; 0x37; 0xd7; 0x94; 0x17; 0x56; 0xc2; 0xd8;
   0xe5; 0x9f; 0xed; 0x4e; 0xae; 0x15; 0x42; 0x06; 0x0d; 0x74; 0x74; 0x5e; 0x24; 0x30; 0xce; 0xd1;
   0x9e; 0x50; 0xa3; 0x9a; 0xb8; 0xf0; 0x4a; 0x57; 0x69; 0x78; 0x67; 0x12; 0x84; 0x58; 0xbe; 0xc7;
   0x36; 0xaa; 0xee; 0x7c; 0x64; 0xa3; 0x76; 0xec; 0xff; 0x55; 0x41; 0x00; 0x2a; 0x44; 0x68; 0x4d;
   0xb6; 0x53; 0x9e; 0x1c; 0x95; 0xb7; 0xca; 0xdc; 0x7f; 0x7d; 0x74; 0x27; 0x5c; 0x8e; 0xa6; 0x84;
   0xb5; 0xac; 0x87; 0xa9; 0xf3; 0xff; 0x75; 0xf2; 0x34; 0xcd; 0x1a; 0x3b; 0x82; 0x2c; 0x2b; 0x4e;
   0x6a; 0x46; 0x30; 0xa6; 0x89; 0x86; 0x23; 0xac; 0xf8; 0xa5; 0x15; 0xe9; 0x0a; 0xaa; 0x1e; 0x9a;
   0xd7; 0x93; 0x6b; 0x28; 0xe4; 0x3b; 0xfd; 0x59; 0xc6; 0xed; 0x7c; 0x5f; 0xa5; 0x41; 0xcb; 0x51].

Definition test_ways (n : nat) (f : option (bytes → bytes)) : bool :=
  match f with
  | None => true
  | Some f => bool_decide (f (take (64 * n) test_data) = take (32 * n) result_d64)
  end.

Definition SelfTest (tr : nat → state → bytes → state) (D64 : bytes → bytes)
    (D64_2way D64_4way D64_8way : option (bytes → bytes)) : bool :=
  forallb (λ '(i, r), bool_decide (tr i Initialize test_data = r)) (zip (seq 0 9) test_result) &&
  test_ways 1 (Some D64) && test_ways 2 D64_2way && test_ways 4 D64_4way && test_ways 8 D64_8way.

(** ** What the transformations promise *)

(** The double digests of [n] blocks of 64 bytes. *)
Fixpoint doubles (n : nat) (x : bytes) : bytes :=
  match n with
  | O => []
  | S n => FIPS.SHA256 (FIPS.SHA256 (take 64 x)) ++ doubles n (drop 64 x)
  end.

(** A transformation of [n] inputs writes their double digests. *)
Definition doubles_of (n : nat) (f : bytes → bytes) : Prop :=
  ∀ x, length x = (64 * n)%nat → f x = doubles n x.
Definition doubles_if (n : nat) (f : option (bytes → bytes)) : Prop :=
  match f with
  | None => True
  | Some f => doubles_of n f
  end.

Class Transforms (tr : nat → state → bytes → state) (D64 : bytes → bytes)
    (D64_2way D64_4way D64_8way : option (bytes → bytes)) : Prop := {
  tr_blocks n H m : tr n H m = FIPS.blocks n H m;
  D64_double : doubles_of 1 D64;
  D64_2way_double : doubles_if 2 D64_2way;
  D64_4way_double : doubles_if 4 D64_4way;
  D64_8way_double : doubles_if 8 D64_8way
}.

#[global] Instance portable_transforms : Transforms Transform TransformD64 None None None.
Proof.
  split; [apply Transform_blocks| |done..]. intros x Hx. cbn [doubles]. rewrite app_nil_r, take_ge by lia.
  by apply TransformD64_double.
Qed.

(** With the wrapper, a transformation of blocks makes a lawful choice. *)
#[global] Instance wrapper_transforms tr :
  (∀ n H m, tr n H m = FIPS.blocks n H m) → Transforms tr (TransformD64Wrapper tr) None None None.
Proof.
  intros Htr. split; [done| |done..]. intros x Hx. cbn [doubles]. rewrite app_nil_r, take_ge by lia.
  rewrite SHA256_32, SHA256_64 by (done || apply length_SHA256). unfold TransformD64Wrapper. rewrite !Htr.
  cbn [FIPS.blocks]. rewrite !take_ge by (rewrite ?length_app, ?length_write_state; cbn; lia). done.
Qed.

(** ** The stream *)

Section Stream.
Context (tr : nat → state → bytes → state) (D64 : bytes → bytes) (D2 D4 D8 : option (bytes → bytes)).
Context `{!Transforms tr D64 D2 D4 D8}.

(** The object after a message: whole blocks in the state, the rest in the buffer. *)
Record holds (h : CSHA256) (m : bytes) : Prop := {
  holds_s : s h = FIPS.blocks (length m / 64) FIPS.H0 m;
  holds_length : length (buf h) = 64%nat;
  holds_buf : take (length m mod 64) (buf h) = drop (64 * (length m / 64)) m;
  holds_bytes : bytes_ h = u64 (Z.of_nat (length m))
}.

Lemma new_holds b : length b = 64%nat → holds (new_SHA256 b) [].
Proof. intros Hb. by split. Qed.

Lemma length_overwrite b off l : (off + length l <= length b)%nat → length (overwrite b off l) = length b.
Proof. intros. unfold overwrite. rewrite !length_app, length_take, length_drop. lia. Qed.

Lemma take_overwrite b off l : (off <= length b)%nat → take (off + length l) (overwrite b off l) = take off b ++ l.
Proof.
  intros. unfold overwrite. rewrite app_assoc. apply take_app_length'. rewrite length_app, length_take. lia.
Qed.

Ltac divs := Zify.zify; Z.to_euclidean_division_equations; lia.

Lemma u64_add_len z (m : bytes) k : z = u64 (Z.of_nat (length m)) → u64 (z + Z.of_nat k) = u64 (Z.of_nat (length m + k)).
Proof. intros ->. unfold u64. rewrite Zplus_mod_idemp_l. f_equal. lia. Qed.

Lemma u64_mod_64 z : u64 z mod 64 = z mod 64.
Proof. apply Z.mod_mod_divide. by exists (2 ^ 58). Qed.

Lemma bufsize_holds h m : holds h m → Z.to_nat (bytes_ h mod 64) = (length m mod 64)%nat.
Proof.
  intros Hh. rewrite (holds_bytes _ _ Hh), u64_mod_64.
  rewrite <- (Nat2Z.id (length m mod 64)), Nat2Z.inj_mod. done.
Qed.

(** A piece that ends a block. *)
Lemma fill_holds h m data :
  holds h m → (length m mod 64 + length data = 64)%nat →
  let b := overwrite (buf h) (length m mod 64) data in
  holds (mkSHA256 (tr 1 (s h) b) b (u64 (bytes_ h + Z.of_nat (length data)))) (m ++ data).
Proof.
  intros Hh Hl b. pose proof (holds_length _ _ Hh) as Hb.
  assert (Eb : b = drop (64 * (length m / 64)) m ++ data).
  { unfold b, overwrite. rewrite (holds_buf _ _ Hh), Hl, (drop_ge (buf h)), app_nil_r by lia. done. }
  assert (Ed : (length (m ++ data) / 64 = length m / 64 + 1)%nat) by (rewrite length_app; divs).
  split; cbn [s buf bytes_].
  - rewrite Ed, blocks_app, tr_blocks, (holds_s _ _ Hh), (blocks_prefix (length m / 64)) by divs.
    rewrite drop_app_le by divs. by rewrite <- Eb.
  - unfold b. rewrite length_overwrite; lia.
  - rewrite Ed, drop_ge by (rewrite length_app; divs). rewrite length_app.
    replace ((length m + length data) mod 64)%nat with 0%nat by divs. done.
  - rewrite length_app. apply u64_add_len, (holds_bytes _ _ Hh).
Qed.

(** Whole blocks after whole blocks. *)
Lemma blocks_holds h m data n :
  holds h m → (length m mod 64 = 0)%nat → (64 * n <= length data)%nat →
  holds (mkSHA256 (tr n (s h) data) (buf h) (u64 (bytes_ h + Z.of_nat (64 * n)))) (m ++ take (64 * n) data).
Proof.
  intros Hh Hm Hl.
  assert (El : length (take (64 * n) data) = (64 * n)%nat) by (rewrite length_take; lia).
  assert (Ed : (length (m ++ take (64 * n) data) / 64 = length m / 64 + n)%nat) by (rewrite length_app, El; divs).
  split; cbn [s buf bytes_].
  - rewrite Ed, blocks_app, tr_blocks, (holds_s _ _ Hh), (blocks_prefix (length m / 64)) by divs.
    rewrite drop_app_length' by divs. rewrite <- (take_drop (64 * n) data) at 1. apply blocks_prefix. lia.
  - apply (holds_length _ _ Hh).
  - rewrite Ed, drop_ge by (rewrite length_app, El; divs). rewrite length_app, El.
    replace ((length m + 64 * n) mod 64)%nat with 0%nat by divs. done.
  - rewrite length_app, El. apply u64_add_len, (holds_bytes _ _ Hh).
Qed.

(** A piece within a block. *)
Lemma rest_holds h m data :
  holds h m → (length m mod 64 + length data < 64)%nat →
  holds (mkSHA256 (s h) (overwrite (buf h) (length m mod 64) data) (u64 (bytes_ h + Z.of_nat (length data)))) (m ++ data).
Proof.
  intros Hh Hl. pose proof (holds_length _ _ Hh) as Hb.
  assert (Ed : (length (m ++ data) / 64 = length m / 64)%nat) by (rewrite length_app; divs).
  split; cbn [s buf bytes_].
  - rewrite Ed, blocks_prefix by divs. apply (holds_s _ _ Hh).
  - rewrite length_overwrite; lia.
  - rewrite Ed, drop_app_le by divs. rewrite <- (holds_buf _ _ Hh).
    replace (length (m ++ data) mod 64)%nat with (length m mod 64 + length data)%nat by (rewrite length_app; divs).
    apply take_overwrite. lia.
  - rewrite length_app. apply u64_add_len, (holds_bytes _ _ Hh).
Qed.

(** The first part of [Write] leaves an object for some of the data, and either a whole
    number of blocks or less than a block to come. *)
Lemma first_part h m data :
  holds h m →
  let r := (length m mod 64)%nat in
  let b := overwrite (buf h) r (take (64 - r) data) in
  ∃ h1 m1 data1, holds h1 m1 ∧ m ++ data = m1 ++ data1 ∧
    (if negb (r =? 0)%nat && (64 <=? r + length data)%nat
     then (mkSHA256 (tr 1 (s h) b) b (u64 (bytes_ h + Z.of_nat (64 - r))), drop (64 - r) data, O)
     else (h, data, r)) = (h1, data1, (length m1 mod 64)%nat) ∧
    (length m1 mod 64 = 0 ∨ length m1 mod 64 + length data1 < 64)%nat.
Proof.
  intros Hh r b. assert (Hr : (r < 64)%nat) by (unfold r; divs).
  destruct (negb (r =? 0)%nat && (64 <=? r + length data)%nat) eqn:E.
  - apply andb_true_iff in E as [_ E%Nat.leb_le].
    assert (El : length (take (64 - r) data) = (64 - r)%nat) by (rewrite length_take; lia).
    assert (E0 : (length (m ++ take (64 - r) data) mod 64 = 0)%nat) by (rewrite length_app, El; unfold r in *; divs).
    eexists _, (m ++ take (64 - r) data), _. split_and!; [|..|by rewrite E0|by left].
    + pose proof (fill_holds h m (take (64 - r) data) Hh ltac:(fold r; lia)) as Hf. cbv zeta in Hf. by rewrite El in Hf.
    + by rewrite <- app_assoc, take_drop.
  - exists h, m, data. split_and!; [done..|]. fold r.
    apply andb_false_iff in E as [E%negb_false_iff%Nat.eqb_eq|E%Nat.leb_gt]; [by left|right; lia].
Qed.

(** The second part leaves less than a block to come. *)
Lemma second_part h m data :
  holds h m → (length m mod 64 = 0 ∨ length m mod 64 + length data < 64)%nat →
  let n := (length data / 64)%nat in
  ∃ h2 m2 data2, holds h2 m2 ∧ m ++ data = m2 ++ data2 ∧ (length m2 mod 64 = length m mod 64)%nat ∧
    (if (64 <=? length data)%nat
     then (mkSHA256 (tr n (s h) data) (buf h) (u64 (bytes_ h + Z.of_nat (64 * n))), drop (64 * n) data)
     else (h, data)) = (h2, data2) ∧ (length m2 mod 64 + length data2 < 64)%nat.
Proof.
  intros Hh Hcase n. destruct (Nat.leb_spec 64 (length data)) as [Hge|Hlt].
  - assert (Hm : (length m mod 64 = 0)%nat) by lia.
    assert (El : length (take (64 * n) data) = (64 * n)%nat) by (rewrite length_take; unfold n; divs).
    assert (E2 : (length (m ++ take (64 * n) data) mod 64 = length m mod 64)%nat) by (rewrite length_app, El; divs).
    eexists _, (m ++ take (64 * n) data), _. split_and!; [|..|reflexivity|].
    + apply blocks_holds; [done..|]. unfold n. divs.
    + by rewrite <- app_assoc, take_drop.
    + exact E2.
    + rewrite E2, Hm, length_drop. unfold n. divs.
  - exists h, m, data. split_and!; [done..|]. lia.
Qed.

Lemma Write_holds h m data : holds h m → holds (Write tr h data) (m ++ data).
Proof.
  intros Hh. unfold Write. rewrite (bufsize_holds h m Hh). cbv zeta.
  destruct (first_part h m data Hh) as (h1 & m1 & data1 & Hh1 & -> & -> & Hcase).
  destruct (second_part h1 m1 data1 Hh1 Hcase) as (h2 & m2 & data2 & Hh2 & -> & <- & -> & Hlt).
  destruct data2 as [|x data2]; cbn [length Nat.ltb Nat.leb]; [by rewrite app_nil_r|by apply rest_holds].
Qed.

Lemma Writes_holds chunks h m : holds h m → holds (foldl (Write tr) h chunks) (m ++ concat chunks).
Proof.
  revert h m. induction chunks as [|c cs IH]; intros h m Hh; cbn [foldl concat]; [by rewrite app_nil_r|].
  rewrite app_assoc. by apply IH, Write_holds.
Qed.

(** ** Digests *)

Lemma Finalize_holds h m :
  holds h m → (Finalize tr h).1 = FIPS.SHA256 m ∧ holds (Finalize tr h).2 (FIPS.pad m).
Proof.
  intros Hh. unfold Finalize. cbv zeta. cbn [fst snd].
  set (k := Z.to_nat (1 + (119 - bytes_ h mod 64) mod 64)).
  assert (Ek : take k (0x80 :: replicate 63 0) = 0x80 :: replicate (Z.to_nat ((55 - Z.of_nat (length m)) mod 64)) 0).
  { unfold k. rewrite (holds_bytes _ _ Hh), u64_mod_64.
    replace (Z.to_nat (1 + (119 - Z.of_nat (length m) mod 64) mod 64))
      with (S (Z.to_nat ((55 - Z.of_nat (length m)) mod 64))) by divs.
    cbn [take]. rewrite take_replicate. do 2 f_equal. divs. }
  assert (Es : WriteBE64 (u64 (Z.shiftl (bytes_ h) 3)) = rev (le_bytes 8 (8 * Z.of_nat (length m)))).
  { unfold WriteBE64. rewrite (le_bytes_mod 8 (8 * _)). do 2 f_equal. rewrite (holds_bytes _ _ Hh), Z.shiftl_mul_pow2 by lia.
    unfold u64. change (8 * Z.of_nat 8) with 64. rewrite Zmult_mod_idemp_l. f_equal. lia. }
  rewrite Ek, Es.
  assert (Hf : holds (Write tr (Write tr h (0x80 :: replicate (Z.to_nat ((55 - Z.of_nat (length m)) mod 64)) 0))
                 (rev (le_bytes 8 (8 * Z.of_nat (length m))))) (FIPS.pad m)).
  { unfold FIPS.pad. rewrite app_comm_cons, app_assoc. by apply Write_holds, Write_holds. }
  split; [|done]. unfold FIPS.SHA256. cbv zeta. by rewrite (holds_s _ _ Hf).
Qed.

Lemma Reset_holds h m : holds h m → holds (Reset h) [].
Proof. intros Hh. split; try done. apply (holds_length _ _ Hh). Qed.

Lemma digest_of_holds h m : holds h m → (Finalize tr h).1 = FIPS.SHA256 m.
Proof. intros Hh. by apply Finalize_holds. Qed.

Lemma CHash256_holds h m : holds h m → (CHash256_Finalize tr h).1 = FIPS.SHA256 (FIPS.SHA256 m).
Proof.
  intros Hh. destruct (Finalize_holds h m Hh) as [Ed Hf]. unfold CHash256_Finalize.
  destruct (Finalize tr h) as [b h']. cbn [fst snd] in *. subst b.
  apply digest_of_holds, (Write_holds _ []). by eapply Reset_holds.
Qed.

(** ** Keyed digests *)

(** HMAC, as RFC 2104 defines it. *)
Definition hmac_key (key : bytes) : bytes :=
  let k := if (length key <=? 64)%nat then key else FIPS.SHA256 key in k ++ replicate (64 - length k) 0.
Definition hmac (key m : bytes) : bytes :=
  let k := hmac_key key in
  FIPS.SHA256 (map (Z.lxor 0x5c) k ++ FIPS.SHA256 (map (Z.lxor 0x36) k ++ m)).

Lemma new_HMAC_holds b1 b2 b3 key :
  length b1 = 64%nat → length b2 = 64%nat → length b3 = 64%nat →
  holds (new_HMAC tr b1 b2 b3 key).1 (map (Z.lxor 0x5c) (hmac_key key)) ∧
  holds (new_HMAC tr b1 b2 b3 key).2 (map (Z.lxor 0x36) (hmac_key key)).
Proof.
  intros H1 H2 H3. unfold new_HMAC.
  assert ((if (length key <=? 64)%nat then key ++ replicate (64 - length key) 0
           else (Finalize tr (Write tr (new_SHA256 b1) key)).1 ++ replicate 32 0) = hmac_key key) as ->.
  { unfold hmac_key. destruct (length key <=? 64)%nat; [done|].
    rewrite (digest_of_holds _ key) by (apply (Write_holds _ []), new_holds; done). by rewrite length_SHA256. }
  cbv zeta. cbn [fst snd]. split.
  - rewrite (map_ext _ (Z.lxor 0x5c)) by (intros; apply Z.lxor_comm). by apply (Write_holds _ []), new_holds.
  - rewrite map_map, (map_ext _ (Z.lxor 0x36)); [by apply (Write_holds _ []), new_holds|].
    intros b. rewrite Z.lxor_assoc. change (Z.lxor 0x5c (Z.lxor 0x5c 0x36)) with 0x36. apply Z.lxor_comm.
Qed.

Lemma HMAC_Writes h chunks : foldl (HMAC_Write tr) h chunks = (h.1, foldl (Write tr) h.2 chunks).
Proof. revert h. induction chunks as [|c cs IH]; intros [h1 h2]; [done|]. cbn [foldl]. by rewrite IH. Qed.

Lemma HMAC_exact b1 b2 b3 key chunks :
  length b1 = 64%nat → length b2 = 64%nat → length b3 = 64%nat →
  HMAC_Finalize tr (foldl (HMAC_Write tr) (new_HMAC tr b1 b2 b3 key) chunks) = hmac key (concat chunks).
Proof.
  intros H1 H2 H3. destruct (new_HMAC_holds b1 b2 b3 key H1 H2 H3) as [Ho Hi]. rewrite HMAC_Writes.
  pose proof (digest_of_holds _ _ (Writes_holds chunks _ _ Hi)) as Ed. unfold HMAC_Finalize. cbn [fst snd].
  destruct (Finalize tr (foldl _ _ _)) as [temp ?]. cbn [fst] in Ed. subst temp.
  apply digest_of_holds. by apply Write_holds.
Qed.

End Stream.

(** ** Batches in place *)

Lemma length_doubles n x : length (doubles n x) = (32 * n)%nat.
Proof.
  revert x. induction n as [|n IH]; intros x; [done|]. cbn [doubles]. rewrite length_app, length_SHA256, IH. lia.
Qed.

Lemma doubles_app n k x : doubles (n + k) x = doubles n x ++ doubles k (drop (64 * n) x).
Proof.
  revert x. induction n as [|n IH]; intros x; [done|]. cbn [Nat.add doubles]. rewrite IH, drop_drop, <- app_assoc.
  do 4 f_equal. lia.
Qed.

Lemma doubles_take n k x : (64 * n <= k)%nat → doubles n (take k x) = doubles n x.
Proof.
  revert k x. induction n as [|n IH]; intros k x Hk; [done|]. cbn [doubles]. rewrite take_take, Nat.min_l by lia.
  by rewrite skipn_firstn_comm, IH by lia.
Qed.

Lemma overwrite_nil mem o : overwrite mem o [] = mem.
Proof. unfold overwrite. cbn [length app]. by rewrite Nat.add_0_r, take_drop. Qed.

Lemma drop_overwrite mem o a i :
  (o + length a <= i)%nat → (o <= length mem)%nat → drop i (overwrite mem o a) = drop i mem.
Proof.
  intros Hi Hl. unfold overwrite. rewrite (app_assoc (take o mem)), drop_app_ge by (rewrite length_app, length_take; lia).
  rewrite drop_drop, length_app, length_take. f_equal. lia.
Qed.

Lemma overwrite_after mem o a b :
  (o + length a <= length mem)%nat →
  overwrite (overwrite mem o a) (o + length a) b = overwrite mem o (a ++ b).
Proof.
  intros Hl. unfold overwrite at 1. rewrite take_overwrite, drop_overwrite by lia. unfold overwrite.
  by rewrite length_app, Nat.add_assoc, <- !app_assoc.
Qed.

Lemma st_eq (m m' : bytes) (o o' i i' b b' : nat) : m = m' → o = o' → i = i' → b = b' → (m, o, i, b) = (m', o', i', b').
Proof. congruence. Qed.

(** What a loop over groups of [n] blocks has done: it wrote the double digests of the
    blocks it has read, and the blocks to come are untouched. *)
Definition done_ (mem : bytes) (out in_ blocks : nat) (st : d64_state) : Prop :=
  ∃ k, (k <= blocks)%nat ∧
    st = (overwrite mem out (doubles k (drop in_ mem)), out + 32 * k, in_ + 64 * k, blocks - k)%nat.

(** The loop over single blocks leaves none. *)
Lemma ways_1_all f fuel st : (st.2 <= fuel)%nat → (ways 1 f fuel st).2 = 0%nat.
Proof.
  revert st. induction fuel as [|fuel IH]; intros [[[m o] i] b] Hb; cbn [ways snd] in *; [lia|].
  destruct (Nat.leb_spec 1 b); [|cbn; lia]. apply IH. cbn [snd]. lia.
Qed.

Section InPlace.
Context (mem : bytes) (out in_ blocks : nat).
Context (Hout : (out <= in_)%nat) (Hmem : (in_ + 64 * blocks <= length mem)%nat).

Lemma ways_done n f fuel st :
  (0 < n)%nat → doubles_of n f → done_ mem out in_ blocks st → done_ mem out in_ blocks (ways n f fuel st).
Proof using Hout Hmem.
  intros Hn Hf. revert st. induction fuel as [|fuel IH]; intros st Hst; [done|].
  destruct Hst as (k & Hk & ->). cbn [ways]. destruct (Nat.leb_spec n (blocks - k)) as [Hle|]; [|by exists k].
  apply IH. exists (k + n)%nat. split; [lia|].
  rewrite drop_overwrite by (rewrite ?length_doubles; lia). rewrite Hf by (rewrite length_take, length_drop; lia).
  rewrite doubles_take by lia.
  pose proof (overwrite_after mem out (doubles k (drop in_ mem)) (doubles n (drop (in_ + 64 * k) mem))) as E.
  rewrite length_doubles in E. rewrite E by lia. rewrite doubles_app, drop_drop.
  apply st_eq; [done|lia..].
Qed.

Lemma ways_if_done n f st :
  (0 < n)%nat → doubles_if n f → done_ mem out in_ blocks st → done_ mem out in_ blocks (ways_if n f st).
Proof using Hout Hmem. destruct f as [f|]; [|done]. intros Hn Hf Hst. by apply ways_done. Qed.

End InPlace.

(** C15: hashing pairs in place.  With any lawful transformations, also those of several
    inputs, and an output that starts at or before the input in the same memory, as
    [ComputeMerkleRoot] uses it, [SHA256D64] writes exactly the double SHA-256 of every
    64 bytes of the input as it was before, and nothing else. *)
Theorem SHA256D64_in_place (tr : nat → state → bytes → state) (D64 : bytes → bytes) (D2 D4 D8 : option (bytes → bytes))
    (mem : bytes) (out in_ blocks : nat) :
  Transforms tr D64 D2 D4 D8 → (out <= in_)%nat → (in_ + 64 * blocks <= length mem)%nat →
  SHA256D64 D64 D2 D4 D8 mem out in_ blocks = overwrite mem out (doubles blocks (drop in_ mem)).
Proof.
  intros Ht Hout Hmem. unfold SHA256D64. cbv zeta.
  set (st := ways_if 2 D2 (ways_if 4 D4 (ways_if 8 D8 (mem, out, in_, blocks)))).
  assert (Hst : done_ mem out in_ blocks st).
  { do 3 (apply ways_if_done; [done..|lia|apply Ht|]). exists 0%nat. split; [lia|].
    cbn [doubles]. rewrite overwrite_nil. apply st_eq; [done|lia..]. }
  pose proof (ways_1_all D64 st.2 st (Nat.le_refl _)) as E0.
  destruct (ways_done mem out in_ blocks Hout Hmem 1 D64 st.2 st ltac:(lia) ltac:(apply Ht) Hst) as (k & Hk & E).
  cbn [ways_if]. rewrite E in E0 |- *. cbn [fst snd] in *. do 2 f_equal. lia.
Qed.

Lemma SHA256D64_in_place_witness :
  let mem := replicate 192 5 in
  SHA256D64 TransformD64 (Some (doubles 2)) None None mem 0 0 3 = overwrite mem 0 (doubles 3 (drop 0 mem)) ∧
  take 2 (SHA256D64 TransformD64 (Some (doubles 2)) None None mem 0 0 3) = take 2 (doubles 1 mem).
Proof.
  split; [|vm_compute; reflexivity].
  apply (SHA256D64_in_place Transform); [|vm_compute; lia..].
  split; try apply portable_transforms. by intros x _.
Defined.

(** C14: the digests are those of the standard.  With any lawful transformations, whatever
    bytes the buffer has when the object is made and however the message is cut into
    pieces, [CSHA256] yields the SHA-256 of FIPS 180-4, [CHash256] the double digest, and
    [CHMAC_SHA256] the code of RFC 2104. *)
Theorem digests_exact (tr : nat → state → bytes → state) (D64 : bytes → bytes) (D2 D4 D8 : option (bytes → bytes))
    (b0 b1 b2 key : bytes) (chunks : list bytes) :
  Transforms tr D64 D2 D4 D8 → length b0 = 64%nat → length b1 = 64%nat → length b2 = 64%nat →
  let m := concat chunks in
  let h := foldl (Write tr) (new_SHA256 b0) chunks in
  (Finalize tr h).1 = FIPS.SHA256 m ∧
  (CHash256_Finalize tr h).1 = FIPS.SHA256 (FIPS.SHA256 m) ∧
  HMAC_Finalize tr (foldl (HMAC_Write tr) (new_HMAC tr b0 b1 b2 key) chunks) = hmac key m.
Proof.
  intros Ht H0 H1 H2 m h. assert (Hh : holds h m) by (apply (Writes_holds tr D64 D2 D4 D8 chunks _ []), new_holds; done).
  split_and!; [by eapply digest_of_holds|by eapply CHash256_holds|by eapply HMAC_exact].
Qed.

Lemma digests_exact_witness :
  let chunks := [[97]; []; [98; 99] ++ replicate 100 0; [1; 2]] in
  let z := replicate 64 0 in
  (Finalize Transform (foldl (Write Transform) (new_SHA256 (replicate 64 9)) chunks)).1 = FIPS.SHA256 (concat chunks) ∧
  (CHash256_Finalize Transform (foldl (Write Transform) (new_SHA256 (replicate 64 9)) chunks)).1 =
    FIPS.SHA256 (FIPS.SHA256 (concat chunks)) ∧
  HMAC_Finalize Transform (foldl (HMAC_Write Transform) (new_HMAC Transform (replicate 64 9) z z [1; 2; 3]) chunks) =
    hmac [1; 2; 3] (concat chunks).
Proof.
  exact (digests_exact Transform TransformD64 None None None (replicate 64 9) (replicate 64 0) (replicate 64 0) [1; 2; 3]
    [[97]; []; [98; 99] ++ replicate 100 0; [1; 2]] portable_transforms eq_refl eq_refl eq_refl).
Defined.

(** The self-test passes with every lawful choice, so the assertion of
    [SHA256AutoDetect] holds. *)
Lemma test_ways_pass n f : (n <= 8)%nat → doubles_if n f → doubles n test_data = take (32 * n) result_d64 → test_ways n f = true.
Proof.
  destruct f as [f|]; [|done]. intros Hn Hf E. apply bool_decide_eq_true. rewrite <- E, Hf.
  - by apply doubles_take.
  - rewrite length_take. change (length test_data) with 512%nat. lia.
Qed.

Theorem SelfTest_passes (tr : nat → state → bytes → state) (D64 : bytes → bytes) (D2 D4 D8 : option (bytes → bytes)) :
  Transforms tr D64 D2 D4 D8 → SelfTest tr D64 D2 D4 D8 = true.
Proof.
  intros Ht. unfold SelfTest. rewrite !andb_true_iff. split_and!.
  2-5: apply test_ways_pass; [lia|apply Ht|vm_compute; reflexivity].
  apply forallb_forall. intros [i r] Hi. apply bool_decide_eq_true. rewrite tr_blocks.
  assert (E : ∀ x, In x (zip (seq 0 9) test_result) → bool_decide (FIPS.blocks x.1 Initialize test_data = x.2) = true)
    by (apply forallb_forall; vm_compute; reflexivity).
  by apply (bool_decide_eq_true_1 _ (E _ Hi)).
Qed.
