(* ===== verification/Standard.v ===== *)
(** The standard output scripts, after [src/src/script/standard.h/.cpp]: [Solver],
    [ExtractDestination], [ExtractDestinations] and the scripts for destinations, keys
    and multisignatures.

    The hash of a public key is an argument.  [fBitcoinCMode] is the global switch for
    the program's own rules. *)
From stdpp Require Import list.
From S2P Require Import Prelude Serialize Script Interpreter Spending.
From S2P Require Import Stealth ExtKey Address.

Inductive txnouttype : Set :=
| TX_NONSTANDARD | TX_PUBKEY | TX_PUBKEYHASH | TX_SCRIPTHASH | TX_MULTISIG | TX_NULL_DATA
| TX_WITNESS_V0_SCRIPTHASH | TX_WITNESS_V0_KEYHASH | TX_WITNESS_UNKNOWN
| TX_SCRIPTHASH256 | TX_PUBKEYHASH256
| TX_TIMELOCKED_SCRIPTHASH | TX_TIMELOCKED_SCRIPTHASH256
| TX_TIMELOCKED_PUBKEYHASH | TX_TIMELOCKED_PUBKEYHASH256 | TX_TIMELOCKED_MULTISIG.
#[global] Instance txnouttype_eq_dec : EqDecision txnouttype.
Proof. solve_decision. Defined.

(** ** Matching *)

(** [valtype(script.begin() + i, script.begin() + j)]. *)
Definition range (script : bytes) (i j : nat) : bytes := take (j - i) (drop i script).

(** [CPubKey::ValidSize]. *)
Definition ValidSize (vch : bytes) : bool :=
  match vch with
  | [] => false
  | b :: _ => GetLen b =? size vch
  end.

(** The key, if the function returns true. *)
Definition MatchPayToPubkey (script : bytes) : option bytes :=
  let key n := let pubkey := range script 1 (n + 1) in if ValidSize pubkey then Some pubkey else None in
  if (size script =? 67) && (at_ script 0 =? 65) && (back script =? opcode_byte OP_CHECKSIG) then key 65%nat
  else if (size script =? 35) && (at_ script 0 =? 33) && (back script =? opcode_byte OP_CHECKSIG) then key 33%nat
  else None.

Definition MatchPayToPubkeyHash (script : bytes) : option bytes :=
  if (size script =? 25) && is_op script 0 OP_DUP && is_op script 1 OP_HASH160 && (at_ script 2 =? 20) &&
     is_op script 23 OP_EQUALVERIFY && is_op script 24 OP_CHECKSIG
  then Some (range script 3 23) else None.

Definition MatchPayToPubkeyHash256 (script : bytes) : option bytes :=
  if negb (IsPayToPublicKeyHash256 script) then None else Some (range script 3 35).

Definition IsSmallInteger (opcode : opcodetype) : bool := op_le OP_1 opcode && op_le opcode OP_16.

(** The loop over the keys: the keys, and the opcode and the place after it.  An
    instruction takes a byte or more, which bounds the loop by the length. *)
Fixpoint multisig_keys (fuel : nat) (it : bytes) (pubkeys : list bytes) : list bytes * opcodetype * bytes :=
  let d := GetScriptOp it in
  match fuel with
  | S fuel =>
      if d_ok d && ValidSize (d_vch d) then multisig_keys fuel (d_pc d) (pubkeys ++ [d_vch d])
      else (pubkeys, d_opcode d, d_pc d)
  | O => (pubkeys, d_opcode d, d_pc d)
  end.

(** [required] and [pubkeys], if it returns true. *)
Definition MatchMultisig (script : bytes) : option (Z * list bytes) :=
  if (size script <? 1) || negb (back script =? opcode_byte OP_CHECKMULTISIG) then None
  else
    let d := GetScriptOp script in
    if negb (d_ok d) || negb (IsSmallInteger (d_opcode d)) then None
    else
      required ← DecodeOP_N (d_opcode d);
      let '(pubkeys, opcode, it) := multisig_keys (length script) (d_pc d) [] in
      if negb (IsSmallInteger opcode) then None
      else
        keys ← DecodeOP_N opcode;
        if negb (Z.of_nat (length pubkeys) =? keys) || (keys <? required) then None
        else if size it =? 1 then Some (required, pubkeys) else None.

(** ** Solver *)

(** The loop over the first three instructions: the script after a time lock. *)
Definition time_locked (script : bytes) : option bytes :=
  let d := GetScriptOp script in
  if negb (d_ok d) || negb (op_le (d_opcode d) OP_PUSHDATA4) then None
  else
    let d := GetScriptOp (d_pc d) in
    if negb (d_ok d) ||
       (negb (op_eqb (d_opcode d) OP_CHECKLOCKTIMEVERIFY) && negb (op_eqb (d_opcode d) OP_CHECKSEQUENCEVERIFY))
    then None
    else
      let d := GetScriptOp (d_pc d) in
      if negb (d_ok d) || negb (op_eqb (d_opcode d) OP_DROP) then None else Some (d_pc d).

(** The part on witness programs; [None] is a script that is none, [Some None] is
    [return false]. *)
Definition solve_witness (script : bytes) : option (option (txnouttype * list bytes)) :=
  '(version, program) ← IsWitnessProgram script;
  Some (if (version =? 0) && (size program =? 20) then Some (TX_WITNESS_V0_KEYHASH, [program])
        else if (version =? 0) && (size program =? 32) then Some (TX_WITNESS_V0_SCRIPTHASH, [program])
        else if negb (version =? 0) then Some (TX_WITNESS_UNKNOWN, [[u8 version]; program])
        else None).

(** What comes after the script hashes and the witness programs. *)
Definition solve_rest (locked : bool) (script : bytes) : option (txnouttype * list bytes) :=
  if (1 <=? size script) && is_op script 0 OP_RETURN && IsPushOnly (drop 1 script) then Some (TX_NULL_DATA, [])
  else
    match MatchPayToPubkey script with
    | Some data => Some (TX_PUBKEY, [data])
    | None =>
    match MatchPayToPubkeyHash script with
    | Some data => Some (if locked then TX_TIMELOCKED_PUBKEYHASH else TX_PUBKEYHASH, [data])
    | None =>
    match MatchPayToPubkeyHash256 script with
    | Some data => Some (if locked then TX_TIMELOCKED_PUBKEYHASH256 else TX_PUBKEYHASH256, [data])
    | None =>
    match MatchMultisig script with
    | Some (required, keys) =>
        Some (if locked then TX_TIMELOCKED_MULTISIG else TX_MULTISIG,
              [u8 required] :: keys ++ [[u8 (Z.of_nat (length keys))]])
    | None => None
    end end end end.

(** The type and the solutions; [None] is [return false], with [TX_NONSTANDARD]. *)
Definition Solver (fBitcoinCMode : bool) (scriptPubKeyIn : bytes) : option (txnouttype * list bytes) :=
  let locked := bool_decide (is_Some (time_locked scriptPubKeyIn)) in
  let script := default scriptPubKeyIn (time_locked scriptPubKeyIn) in
  if IsPayToScriptHash script then
    Some (if locked then TX_TIMELOCKED_SCRIPTHASH else TX_SCRIPTHASH, [range script 2 22])
  else if IsPayToScriptHash256 script then
    Some (if locked then TX_TIMELOCKED_SCRIPTHASH256 else TX_SCRIPTHASH256, [range script 2 34])
  else
    match (if fBitcoinCMode then None else solve_witness script) with
    | Some r => r
    | None => solve_rest locked script
    end.

(** ** Destinations *)

Section Destinations.
Context (Hash160 : bytes → bytes) (fBitcoinCMode : bool).

(** [CPubKey::IsValid] and [CPubKey::GetID]. *)
Definition pubkey_id (vch : bytes) : option CTxDestination :=
  let pubKey := CPubKey_Set vch in
  if 0 <? pubkey_size pubKey then Some (CKeyID (Hash160 pubKey)) else None.

(** A script that is not for a coinstake. *)
Definition solved_destination (r : txnouttype * list bytes) : option CTxDestination :=
  let v0 := nth 0 r.2 [] in
  match r.1 with
  | TX_PUBKEY => pubkey_id v0
  | TX_PUBKEYHASH | TX_TIMELOCKED_PUBKEYHASH => Some (CKeyID v0)
  | TX_SCRIPTHASH | TX_TIMELOCKED_SCRIPTHASH => Some (CScriptID v0)
  | TX_WITNESS_V0_KEYHASH => Some (WitnessV0KeyHash v0)
  | TX_WITNESS_V0_SCRIPTHASH => Some (WitnessV0ScriptHash v0)
  | TX_WITNESS_UNKNOWN => Some (WitnessUnknown (nth 0 v0 0) (nth 1 r.2 []))
  | TX_PUBKEYHASH256 => Some (CKeyID256 v0)
  | TX_SCRIPTHASH256 => Some (CScriptID256 v0)
  | _ => None
  end.

(** A path of a coinstake script is shorter than the script: the length bounds the
    recursion. *)
Fixpoint ExtractDestination_fuel (fuel : nat) (script : bytes) : option CTxDestination :=
  match fuel with
  | O => None
  | S fuel =>
      if HasIsCoinstakeOp script then GetNonCoinstakeScriptPath script ≫= ExtractDestination_fuel fuel
      else Solver fBitcoinCMode script ≫= solved_destination
  end.
Definition ExtractDestination (script : bytes) : option CTxDestination :=
  ExtractDestination_fuel (S (length script)) script.

(** The solutions between the first and the last one. *)
Definition inner_solutions (v : list bytes) : list bytes := take (length v - 2) (drop 1 v).

(** What the function returns, the type, the destinations and the number required, which
    a [false] return may leave as it was.  For a coinstake script it returns true
    whatever the inner call says. *)
Fixpoint ExtractDestinations_fuel (fuel : nat) (script : bytes) (nRequired : Z)
  : bool * txnouttype * list CTxDestination * Z :=
  match fuel with
  | O => (false, TX_NONSTANDARD, [], nRequired)
  | S fuel =>
      if HasIsCoinstakeOp script then
        match GetNonCoinstakeScriptPath script with
        | None => (false, TX_NONSTANDARD, [], nRequired)
        | Some scriptB => let '(_, t, dests, n) := ExtractDestinations_fuel fuel scriptB nRequired in (true, t, dests, n)
        end
      else
        match Solver fBitcoinCMode script with
        | None => (false, TX_NONSTANDARD, [], nRequired)
        | Some (t, vSolutions) =>
            if bool_decide (t = TX_NULL_DATA) then (false, t, [], nRequired)
            else if bool_decide (t = TX_MULTISIG) || bool_decide (t = TX_TIMELOCKED_MULTISIG) then
              let dests := omap pubkey_id (inner_solutions vSolutions) in
              (negb (bool_decide (dests = [])), t, dests, nth 0 (nth 0 vSolutions []) 0)
            else
              match ExtractDestination script with
              | None => (false, t, [], 1)
              | Some dest => (true, t, [dest], 1)
              end
        end
  end.
Definition ExtractDestinations (script : bytes) (nRequired : Z) : bool * txnouttype * list CTxDestination * Z :=
  ExtractDestinations_fuel (S (length script)) script nRequired.

End Destinations.

(** ** Scripts for destinations *)

(** [None] is the failed assertion of [EncodeOP_N]. *)
Definition op_n (n : Z) : option bytes := op ← EncodeOP_N n; Some [opcode_byte op].

Definition GetScriptForDestination (dest : CTxDestination) : option bytes :=
  match dest with
  | CNoDestination | StealthDest _ | ExtKeyDest _ => Some []
  | CKeyID id => Some (ops [OP_DUP; OP_HASH160] ++ push_data id ++ ops [OP_EQUALVERIFY; OP_CHECKSIG])
  | CScriptID id => Some (ops [OP_HASH160] ++ push_data id ++ ops [OP_EQUAL])
  | WitnessV0KeyHash id | WitnessV0ScriptHash id => Some (ops [OP_0] ++ push_data id)
  | WitnessUnknown version program => v ← op_n version; Some (v ++ push_data program)
  | CKeyID256 id => Some (ops [OP_DUP; OP_SHA256] ++ push_data id ++ ops [OP_EQUALVERIFY; OP_CHECKSIG])
  | CScriptID256 id => Some (ops [OP_SHA256] ++ push_data id ++ ops [OP_EQUAL])
  end.

Definition GetScriptForRawPubKey (pubKey : bytes) : bytes :=
  push_data (take (Z.to_nat (pubkey_size pubKey)) pubKey) ++ ops [OP_CHECKSIG].

Definition GetScriptForMultisig (nRequired : Z) (keys : list bytes) : option bytes :=
  m ← op_n nRequired;
  n ← op_n (Z.of_nat (length keys));
  Some (m ++ concat (map push_data keys) ++ n ++ ops [OP_CHECKMULTISIG]).

(** ** Lemmas *)

(** A destination of the right width that has a script of its own. *)
Definition payable (dest : CTxDestination) : Prop :=
  match dest with
  | CKeyID id | CScriptID id | WitnessV0KeyHash id => length id = 20%nat
  | CKeyID256 id | CScriptID256 id | WitnessV0ScriptHash id => length id = 32%nat
  | WitnessUnknown version program => 1 <= version <= 16 ∧ (2 <= length program <= 40)%nat
  | _ => False
  end.

Definition is_witness (dest : CTxDestination) : bool :=
  match dest with
  | WitnessV0KeyHash _ | WitnessV0ScriptHash _ | WitnessUnknown _ _ => true
  | _ => false
  end.

(** A list of known length, element by element. *)
Ltac explode l H :=
  lazymatch type of H with
  | length l = 0%nat => apply length_zero_iff_nil in H; subst l
  | length l = S ?n =>
      let x := fresh "x" in let l' := fresh "l" in
      destruct l as [|x l']; [discriminate H|]; cbn [length] in H; apply Nat.succ_inj in H; explode l' H
  end.

Lemma solve_key_hash mode id : length id = 20%nat →
  Solver mode (ops [OP_DUP; OP_HASH160] ++ push_data id ++ ops [OP_EQUALVERIFY; OP_CHECKSIG]) = Some (TX_PUBKEYHASH, [id]).
Proof. intros H. explode id H. by destruct mode; vm_compute. Qed.

Lemma solve_key_hash_256 mode id : length id = 32%nat →
  Solver mode (ops [OP_DUP; OP_SHA256] ++ push_data id ++ ops [OP_EQUALVERIFY; OP_CHECKSIG]) = Some (TX_PUBKEYHASH256, [id]).
Proof. intros H. explode id H. by destruct mode; vm_compute. Qed.

Lemma solve_script_hash mode id : length id = 20%nat →
  Solver mode (ops [OP_HASH160] ++ push_data id ++ ops [OP_EQUAL]) = Some (TX_SCRIPTHASH, [id]).
Proof. intros H. explode id H. by destruct mode; vm_compute. Qed.

Lemma solve_script_hash_256 mode id : length id = 32%nat →
  Solver mode (ops [OP_SHA256] ++ push_data id ++ ops [OP_EQUAL]) = Some (TX_SCRIPTHASH256, [id]).
Proof. intros H. explode id H. by destruct mode; vm_compute. Qed.

(** ** Witness programs *)

Section WitnessScript.
Context (b : Z) (program : bytes).
Context (Hb : b = 0 ∨ 81 <= b <= 96) (Hl : (2 <= length program <= 40)%nat).

Local Abbreviation script := (b :: size program :: program).

Lemma program_size : 2 <= size program <= 40.
Proof using Hb Hl. unfold size. lia. Qed.

Lemma witness_first op : opcode_byte op ≠ 0 → ¬ (81 <= opcode_byte op <= 96) → is_op script 0 op = false.
Proof using Hb Hl. intros H0 H1. unfold is_op, at_. cbn [nth]. apply Z.eqb_neq. lia. Qed.

Lemma witness_second :
  GetScriptOp (size program :: program) = Decoded true (opcode_of_byte (size program)) program [].
Proof using Hb Hl.
  pose proof program_size. rewrite <- (app_nil_r program) at 2. apply GetScriptOp_direct; [cbn; lia|done].
Qed.

Lemma witness_head : GetScriptOp script = Decoded true (opcode_of_byte b) [] (size program :: program).
Proof using Hb Hl.
  destruct Hb as [->|Hb'].
  - exact (GetScriptOp_direct 0 [] (size program :: program) ltac:(reflexivity) eq_refl).
  - apply GetScriptOp_opcode. cbn. lia.
Qed.

Lemma witness_not_locked : time_locked script = None.
Proof using Hb Hl.
  pose proof program_size as Hk. unfold time_locked. rewrite witness_head. cbn [d_ok d_opcode d_pc negb orb].
  unfold op_le. rewrite opcode_byte_of_byte. destruct (Z.leb_spec b (opcode_byte OP_PUSHDATA4)) as [|]; [|done].
  rewrite witness_second. cbn [negb orb d_ok d_opcode]. unfold op_eqb. rewrite opcode_byte_of_byte.
  destruct (Z.eqb_spec (size program) (opcode_byte OP_CHECKLOCKTIMEVERIFY)) as [E|_]; [cbn in E; lia|].
  destruct (Z.eqb_spec (size program) (opcode_byte OP_CHECKSEQUENCEVERIFY)) as [E|_]; [cbn in E; lia|done].
Qed.

Lemma witness_not_small : IsSmallInteger (opcode_of_byte (size program)) = false.
Proof using Hb Hl.
  pose proof program_size. unfold IsSmallInteger, op_le. rewrite opcode_byte_of_byte.
  apply andb_false_iff. left. apply Z.leb_gt. cbn. lia.
Qed.

Lemma witness_not_multisig : MatchMultisig script = None.
Proof using Hb Hl.
  unfold MatchMultisig. destruct (_ || _); [done|]. rewrite witness_head. cbn [d_ok d_opcode d_pc negb orb].
  destruct (IsSmallInteger (opcode_of_byte b)); [|done]. cbn [negb]. destruct (DecodeOP_N _) as [required|]; [|done].
  cbn [mbind option_bind length multisig_keys]. rewrite witness_second. cbn [d_ok d_vch d_pc d_opcode andb].
  destruct (ValidSize program).
  - destruct (length program); reflexivity.
  - by rewrite witness_not_small.
Qed.

Lemma witness_not_pubkey : MatchPayToPubkey script = None.
Proof using Hb Hl.
  unfold MatchPayToPubkey. cbv zeta. unfold at_. cbn [nth].
  destruct (Z.eqb_spec b 65) as [E|_]; [lia|]. destruct (Z.eqb_spec b 33) as [E|_]; [lia|].
  by rewrite !andb_false_r.
Qed.

Lemma Solver_witness mode :
  Solver mode script =
  (if mode then None
   else if negb (b =? 0) then Some (TX_WITNESS_UNKNOWN, [[b - 80]; program])
   else if size program =? 20 then Some (TX_WITNESS_V0_KEYHASH, [program])
   else if size program =? 32 then Some (TX_WITNESS_V0_SCRIPTHASH, [program])
   else None).
Proof using Hb Hl.
  pose proof program_size as Hk. unfold Solver. rewrite witness_not_locked. cbn [default].
  unfold IsPayToScriptHash, IsPayToScriptHash256, MatchPayToScriptHash256. cbn [Nat.add].
  rewrite !witness_first, !andb_false_r by (cbn; lia). cbn [andb]. rewrite ?andb_false_r.
  destruct mode.
  - unfold solve_rest, MatchPayToPubkeyHash, MatchPayToPubkeyHash256, IsPayToPublicKeyHash256, MatchPayToPublicKeyHash256.
    cbn [Nat.add]. rewrite !witness_first, witness_not_pubkey, !andb_false_r by (cbn; lia). cbn [andb negb].
    rewrite ?andb_false_r. cbn [negb]. by rewrite witness_not_multisig.
  - unfold solve_witness, IsWitnessProgram.
    assert (Es : size script = size program + 2) by (unfold size; cbn [length]; lia).
    rewrite Es. destruct (Z.ltb_spec (size program + 2) 4); [lia|]. destruct (Z.ltb_spec 42 (size program + 2)); [lia|].
    cbn [orb]. unfold is_op, at_. cbn [nth]. rewrite Z.eqb_refl. cbn [drop].
    change (opcode_byte OP_0) with 0. change (opcode_byte OP_1) with 81. change (opcode_byte OP_16) with 96.
    destruct (Z.eqb_spec b 0) as [->|Hn]; cbn [negb andb].
    + cbn [mbind option_bind]. change (default 0 (DecodeOP_N (opcode_of_byte 0))) with 0. cbn [Z.eqb andb negb].
      by rewrite drop_0.
    + destruct (Z.ltb_spec b 81); [lia|]. destruct (Z.ltb_spec 96 b); [lia|]. cbn [orb mbind option_bind].
      assert (Ed : DecodeOP_N (opcode_of_byte b) = Some (b - 80)).
      { unfold DecodeOP_N, op_eqb, op_le. rewrite !opcode_byte_of_byte. change (opcode_byte OP_0) with 0.
        change (opcode_byte OP_1) with 81. change (opcode_byte OP_16) with 96.
        destruct (Z.eqb_spec b 0); [lia|]. destruct (Z.leb_spec 81 b); [|lia]. destruct (Z.leb_spec b 96); [|lia]. done. }
      rewrite Ed. change (default 0 (Some (b - 80))) with (b - 80). destruct (Z.eqb_spec (b - 80) 0); [lia|]. cbn [andb negb].
      by rewrite drop_0, u8_small by (widths; lia).
Qed.

End WitnessScript.

(** ** Destinations and their scripts *)

Lemma op_n_version v : 0 <= v <= 16 → op_n v = Some [if v =? 0 then 0 else 80 + v].
Proof.
  intros Hv. unfold op_n, EncodeOP_N. destruct (Z.leb_spec 0 v); [|lia]. destruct (Z.leb_spec v 16); [|lia].
  cbn [andb mbind option_bind]. destruct (Z.eqb_spec v 0) as [->|]; [done|]. rewrite opcode_byte_of_byte.
  change (opcode_byte OP_1) with 81. do 2 f_equal. lia.
Qed.

Lemma witness_script b program :
  (length program <= 40)%nat → [b] ++ push_data program = b :: size program :: program.
Proof. intros Hl. by rewrite (push_data_short program (size program)) by (unfold size; lia). Qed.

(** The script of a destination, and what [Solver] makes of it. *)
Lemma destination_script dest mode H160 :
  payable dest →
  ∃ script, GetScriptForDestination dest = Some script ∧ HasIsCoinstakeOp script = false ∧
    scans [OP_ELSE; OP_ENDIF] script = true ∧
    Solver mode script ≫= solved_destination H160 = if is_witness dest && mode then None else Some dest.
Proof.
  destruct dest as [|id|id|id|id|v p| | |id|id]; cbn [payable]; try done.
  - intros Hl. eexists. split; [reflexivity|]. rewrite solve_key_hash by done. split_and!; [| |done].
    all: explode id Hl; reflexivity.
  - intros Hl. eexists. split; [reflexivity|]. rewrite solve_script_hash by done. split_and!; [| |done].
    all: explode id Hl; reflexivity.
  - intros Hl. eexists. split; [reflexivity|]. change (ops [OP_0]) with [0]. rewrite witness_script by lia.
    rewrite (Solver_witness 0) by (auto; lia). assert (size id = 32) as -> by (unfold size; lia).
    split_and!; [| |by destruct mode]. all: explode id Hl; reflexivity.
  - intros Hl. eexists. split; [reflexivity|]. change (ops [OP_0]) with [0]. rewrite witness_script by lia.
    rewrite (Solver_witness 0) by (auto; lia). assert (size id = 20) as -> by (unfold size; lia).
    split_and!; [| |by destruct mode]. all: explode id Hl; reflexivity.
  - intros [Hv Hl]. cbn [GetScriptForDestination]. rewrite op_n_version by lia. destruct (Z.eqb_spec v 0); [lia|].
    eexists. split; [reflexivity|]. rewrite witness_script by lia.
    assert (Hb : 80 + v = 0 ∨ 81 <= 80 + v <= 96) by lia.
    split_and!.
    + unfold HasIsCoinstakeOp. rewrite (witness_head (80 + v)) by done. cbn [d_ok d_opcode andb]. unfold op_eqb.
      rewrite opcode_byte_of_byte. apply Z.eqb_neq. cbn. lia.
    + unfold scans. cbn [length scans_fuel]. rewrite (witness_head (80 + v)) by done. cbn [d_ok d_opcode d_pc].
      rewrite opcode_byte_of_byte. rewrite (witness_second (80 + v)) by done. cbn [d_ok d_opcode d_pc]. rewrite opcode_byte_of_byte.
      pose proof (program_size (80 + v) p Hb Hl). apply andb_true_iff. split.
      * apply andb_true_iff. split; [done|]. apply negb_true_iff, bool_decide_eq_false. cbn. set_unfold. lia.
      * apply andb_true_iff. split; [apply andb_true_iff; split; [done|]|by destruct (length p)].
        apply negb_true_iff, bool_decide_eq_false. cbn. set_unfold. lia.
    + rewrite (Solver_witness (80 + v)) by done. destruct (Z.eqb_spec (80 + v) 0); [lia|]. cbn [negb is_witness andb].
      destruct mode; [done|]. cbn. do 2 f_equal. lia.
  - intros Hl. eexists. split; [reflexivity|]. rewrite solve_key_hash_256 by done. split_and!; [| |done].
    all: explode id Hl; reflexivity.
  - intros Hl. eexists. split; [reflexivity|]. rewrite solve_script_hash_256 by done. split_and!; [| |done].
    all: explode id Hl; reflexivity.
Qed.

Section Extract.
Context (H160 : bytes → bytes) (mode : bool).

Lemma ExtractDestination_plain fuel script :
  HasIsCoinstakeOp script = false →
  ExtractDestination_fuel H160 mode (S fuel) script = Solver mode script ≫= solved_destination H160.
Proof. intros Hc. cbn [ExtractDestination_fuel]. by rewrite Hc. Qed.

(** Of a cold-staking script the destination is that of the spending side. *)
Lemma ExtractDestination_coldstake stake spend :
  scans [OP_ELSE] stake = true → scans [OP_ELSE; OP_ENDIF] spend = true → HasIsCoinstakeOp spend = false →
  ExtractDestination H160 mode (coldstake_script stake spend) = ExtractDestination H160 mode spend.
Proof.
  intros Hst Hsp Hc. unfold ExtractDestination. rewrite (ExtractDestination_plain _ spend Hc).
  assert (∃ n, length (coldstake_script stake spend) = S n) as [n ->] by by eexists.
  cbn [ExtractDestination_fuel]. assert (HasIsCoinstakeOp (coldstake_script stake spend) = true) as -> by done.
  rewrite GetNonCoinstakeScriptPath_coldstake by done. cbn [mbind option_bind].
  by rewrite Hc.
Qed.

End Extract.

(** ** What a recognised script is *)

Ltac known_bytes :=
  repeat match goal with
  | H : is_op _ _ _ = true |- _ => apply Z.eqb_eq in H; unfold at_ in H; cbn [nth Nat.add] in H; subst
  | H : (at_ _ _ =? _) = true |- _ => apply Z.eqb_eq in H; unfold at_ in H; cbn [nth Nat.add] in H; subst
  end.

Ltac split_tests H :=
  repeat match type of H with
  | (_ && _) = true => let H' := fresh in apply andb_true_iff in H as [H H']
  end.

Lemma size_length script (n : nat) : (size script =? Z.of_nat n) = true → length script = n.
Proof. intros H%Z.eqb_eq. unfold size in H. lia. Qed.

Lemma key_hash_sound script id :
  MatchPayToPubkeyHash script = Some id → GetScriptForDestination (CKeyID id) = Some script.
Proof.
  unfold MatchPayToPubkeyHash. destruct (_ && _) eqn:H; [|done]. intros [= <-]. split_tests H.
  apply (size_length _ 25) in H. explode script H. known_bytes. reflexivity.
Qed.

Lemma key_hash_256_sound script id :
  MatchPayToPubkeyHash256 script = Some id → GetScriptForDestination (CKeyID256 id) = Some script.
Proof.
  unfold MatchPayToPubkeyHash256, IsPayToPublicKeyHash256, MatchPayToPublicKeyHash256.
  destruct (negb _) eqn:H; [done|]. intros [= <-]. apply negb_false_iff in H. apply andb_true_iff in H as [H Hm].
  split_tests Hm. apply (size_length _ 37) in H. explode script H. known_bytes. reflexivity.
Qed.

Lemma script_hash_sound script :
  IsPayToScriptHash script = true → GetScriptForDestination (CScriptID (range script 2 22)) = Some script.
Proof.
  unfold IsPayToScriptHash. intros H. split_tests H.
  apply (size_length _ 23) in H. explode script H. known_bytes. reflexivity.
Qed.

Lemma script_hash_256_sound script :
  IsPayToScriptHash256 script = true → GetScriptForDestination (CScriptID256 (range script 2 34)) = Some script.
Proof.
  unfold IsPayToScriptHash256, MatchPayToScriptHash256. intros [H Hm]%andb_true_iff. split_tests Hm.
  apply (size_length _ 35) in H. explode script H. known_bytes. reflexivity.
Qed.

(** In the program's own mode, a script that is neither locked nor for a coinstake and
    has a destination is the script of that destination, or pays to a key itself. *)
Lemma extracted_script H160 script dest :
  HasIsCoinstakeOp script = false → time_locked script = None →
  ExtractDestination H160 true script = Some dest →
  GetScriptForDestination dest = Some script ∨ ∃ key, MatchPayToPubkey script = Some key ∧ pubkey_id H160 key = Some dest.
Proof.
  intros Hc Ht. unfold ExtractDestination. rewrite ExtractDestination_plain by done. unfold Solver. rewrite Ht. cbn [default].
  destruct (IsPayToScriptHash script) eqn:E1; [intros [= <-]; left; by apply script_hash_sound|].
  destruct (IsPayToScriptHash256 script) eqn:E2; [intros [= <-]; left; by apply script_hash_256_sound|].
  unfold solve_rest. destruct (_ && IsPushOnly _); [done|].
  destruct (MatchPayToPubkey script) as [key|]; [intros Hk; right; by exists key|].
  destruct (MatchPayToPubkeyHash script) as [id|] eqn:E3; [intros [= <-]; left; by apply key_hash_sound|].
  destruct (MatchPayToPubkeyHash256 script) as [id|] eqn:E4; [intros [= <-]; left; by apply key_hash_256_sound|].
  by destruct (MatchMultisig script) as [[??]|].
Qed.

(** ** Multisignatures *)

Lemma ValidSize_length k : ValidSize k = true → size k = 33 ∨ size k = 65.
Proof.
  destruct k as [|b k]; [done|]. cbn [ValidSize]. unfold GetLen. intros E%Z.eqb_eq. rewrite <- E.
  destruct (_ || _); [by left|]. destruct (_ || _); [by right|]. unfold size in E. cbn [length] in E. lia.
Qed.

Lemma multisig_keys_push keys fuel opcode rest acc :
  Forall (λ k, ValidSize k = true) keys → opcode_byte OP_PUSHDATA4 < opcode → (length keys <= fuel)%nat →
  multisig_keys fuel (concat (map push_data keys) ++ opcode :: rest) acc = (acc ++ keys, opcode_of_byte opcode, rest).
Proof.
  intros Hk Ho. revert fuel acc. induction Hk as [|k keys Hv _ IH]; intros fuel acc Hf; cbn [map concat app length] in *.
  - destruct fuel; cbn [multisig_keys]; rewrite GetScriptOp_opcode by done; cbn; by rewrite app_nil_r.
  - destruct fuel as [|fuel]; [lia|]. cbn [multisig_keys].
    pose proof (ValidSize_length k Hv) as Hl. rewrite (push_data_short k (size k)), <- app_assoc by lia. cbn [app].
    rewrite GetScriptOp_direct by (cbn; lia). cbn [d_ok d_vch d_pc andb]. rewrite Hv, IH by lia. by rewrite <- app_assoc.
Qed.

Lemma length_keys keys : (length keys <= length (concat (map push_data keys)))%nat.
Proof.
  induction keys as [|k keys IH]; [done|]. cbn [map concat length]. rewrite length_app.
  assert (1 <= length (push_data k))%nat; [|lia]. unfold push_data. rewrite length_app.
  destruct (_ <? _); [cbn; lia|]. destruct (_ <=? _); [cbn; lia|]. destruct (_ <=? _); cbn; lia.
Qed.

(** A multisignature script is taken apart into its keys. *)
Theorem MatchMultisig_script (nRequired : Z) (keys : list bytes) :
  1 <= nRequired <= Z.of_nat (length keys) → (length keys <= 16)%nat → Forall (λ k, ValidSize k = true) keys →
  ∃ script, GetScriptForMultisig nRequired keys = Some script ∧ MatchMultisig script = Some (nRequired, keys).
Proof.
  intros Hm Hn Hk. unfold GetScriptForMultisig. rewrite !op_n_version by lia.
  destruct (Z.eqb_spec nRequired 0); [lia|]. destruct (Z.eqb_spec (Z.of_nat (length keys)) 0); [lia|].
  cbn [mbind option_bind]. set (n_ := Z.of_nat (length keys)) in *. eexists. split; [reflexivity|].
  change (ops [OP_CHECKMULTISIG]) with [174]. cbn [app]. set (body := concat (map push_data keys) ++ 80 + n_ :: [174]).
  assert (Eb : back (80 + nRequired :: body) = 174).
  { unfold back, body. rewrite app_comm_cons. change (80 + n_ :: [174]) with ([80 + n_] ++ [174]). rewrite app_assoc. apply last_last. }
  unfold MatchMultisig. rewrite Eb. destruct (Z.ltb_spec (size (80 + nRequired :: body)) 1) as [Hs|_].
  { unfold size in Hs. cbn [length] in Hs. lia. }
  change (174 =? opcode_byte OP_CHECKMULTISIG) with true. cbn [negb orb].
  assert (Hsmall : ∀ z, 1 <= z <= 16 → IsSmallInteger (opcode_of_byte (80 + z)) = true ∧ DecodeOP_N (opcode_of_byte (80 + z)) = Some z).
  { intros z Hz. unfold IsSmallInteger, DecodeOP_N, op_le, op_eqb. rewrite !opcode_byte_of_byte.
    change (opcode_byte OP_0) with 0. change (opcode_byte OP_1) with 81. change (opcode_byte OP_16) with 96.
    destruct (Z.leb_spec 81 (80 + z)); [|lia]. destruct (Z.leb_spec (80 + z) 96); [|lia].
    destruct (Z.eqb_spec (80 + z) 0); [lia|]. split; [done|]. cbn [andb]. f_equal. lia. }
  rewrite GetScriptOp_opcode by (cbn; lia). cbn [d_ok d_opcode d_pc negb orb].
  destruct (Hsmall nRequired ltac:(lia)) as [-> ->]. cbn [negb mbind option_bind]. unfold body at 2.
  rewrite multisig_keys_push; [|done|cbn; lia|].
  - cbn [app]. destruct (Hsmall n_ ltac:(unfold n_ in *; lia)) as [-> ->]. cbn [negb mbind option_bind].
    fold n_. rewrite Z.eqb_refl. destruct (Z.ltb_spec n_ nRequired); [lia|]. reflexivity.
  - unfold body. cbn [length]. rewrite length_app. pose proof (length_keys keys). lia.
Qed.

(** ** Properties *)

(** C24: destinations and scripts correspond.  For every key hash, script hash and
    witness program the script made for it is taken back to it, on its own and as the
    spending side of a cold-staking script; but in the program's own mode no script of a
    witness program is recognised.  There, a script that is neither time-locked nor for a
    coinstake and yields the destination is the script made for it, or pays to a key with
    that hash. *)
Theorem destination_scripts (H160 : bytes → bytes) (mode : bool) (dest : CTxDestination) (stake : bytes) :
  payable dest → scans [OP_ELSE] stake = true →
  let found := if is_witness dest && mode then None else Some dest in
  ∃ script, GetScriptForDestination dest = Some script ∧
    ExtractDestination H160 mode script = found ∧
    ExtractDestination H160 mode (coldstake_script stake script) = found ∧
    (mode = true → ∀ script', HasIsCoinstakeOp script' = false → time_locked script' = None →
       ExtractDestination H160 mode script' = Some dest →
       script' = script ∨ ∃ key, MatchPayToPubkey script' = Some key ∧ pubkey_id H160 key = Some dest).
Proof.
  intros Hd Hst found. destruct (destination_script dest mode H160 Hd) as (script & Es & Hc & Hsc & Hf).
  assert (Ex : ExtractDestination H160 mode script = found)
    by (unfold ExtractDestination; by rewrite ExtractDestination_plain).
  exists script. split_and!; [done|done|by rewrite ExtractDestination_coldstake|].
  intros -> script' Hc' Ht He. destruct (extracted_script _ _ _ Hc' Ht He) as [E|?]; [left|by right]. congruence.
Qed.

Lemma destination_scripts_witness :
  let id := replicate 20 0x11 in
  ExtractDestination (λ x, x) true (coldstake_script (p2pkh_script (replicate 20 0x67)) (p2pkh_script id)) = Some (CKeyID id) ∧
  ExtractDestination (λ x, x) true (ops [OP_0] ++ push_data id) = None.
Proof.
  split.
  - destruct (destination_scripts (λ x, x) true (CKeyID (replicate 20 0x11)) (p2pkh_script (replicate 20 0x67)))
      as (script & [= <-] & _ & Hc & _); [reflexivity|reflexivity|]. exact Hc.
  - destruct (destination_scripts (λ x, x) true (WitnessV0KeyHash (replicate 20 0x11)) [])
      as (script & [= <-] & Hc & _); [reflexivity|reflexivity|]. exact Hc.
Defined.
