(* ===== verification/Bloom.v ===== *)
(** Bloom filters, after [src/src/bloom.h/.cpp], with [MurmurHash3] of
    [src/src/hash.cpp] and the filter messages of [src/src/net_processing.cpp].

    The sizes that the constructors compute with logarithms are arguments.  The id of a
    transaction, which the source keeps in the transaction, is an argument.  Dividing by
    the size of an empty filter and reading past a vector are errors. *)
From stdpp Require Import list.
From S2P Require Import Prelude ArithUint256 Serialize Script Transaction TxVerify.
From S2P Require Import Standard.
Import arith_uint256.

Inductive bloom_error : Set := DivisionByZero | NullPointer | OutOfBounds.

(** ** [MurmurHash3] *)

Definition ROTL32 (x r : Z) : Z := Z.lor (u32 (Z.shiftl x r)) (Z.shiftr x (32 - r)).

Definition mix_k1 (k1 : Z) : Z := u32 (ROTL32 (u32 (k1 * 0xcc9e2d51)) 15 * 0x1b873593).

Fixpoint murmur_body (nblocks : nat) (h1 : Z) (blocks : bytes) : Z :=
  match nblocks with
  | O => h1
  | S nblocks =>
      let h1 := Z.lxor h1 (mix_k1 (ReadLE32 blocks)) in
      let h1 := u32 (ROTL32 h1 13 * 5 + 0xe6546b64) in
      murmur_body nblocks h1 (drop 4 blocks)
  end.

Definition murmur_tail (h1 : Z) (tail : bytes) : Z :=
  match tail with
  | [] => h1
  | [t0] => Z.lxor h1 (mix_k1 t0)
  | [t0; t1] => Z.lxor h1 (mix_k1 (Z.lxor (Z.shiftl t1 8) t0))
  | t0 :: t1 :: t2 :: _ => Z.lxor h1 (mix_k1 (Z.lxor (Z.lxor (Z.shiftl t2 16) (Z.shiftl t1 8)) t0))
  end.

Definition murmur_final (h1 size : Z) : Z :=
  let h1 := Z.lxor h1 (u32 size) in
  let h1 := Z.lxor h1 (Z.shiftr h1 16) in
  let h1 := u32 (h1 * 0x85ebca6b) in
  let h1 := Z.lxor h1 (Z.shiftr h1 13) in
  let h1 := u32 (h1 * 0xc2b2ae35) in
  Z.lxor h1 (Z.shiftr h1 16).

Definition MurmurHash3 (nHashSeed : Z) (vDataToHash : bytes) : Z :=
  let nblocks := (length vDataToHash / 4)%nat in
  let h1 := murmur_body nblocks nHashSeed vDataToHash in
  let h1 := murmur_tail h1 (drop (4 * nblocks) vDataToHash) in
  murmur_final h1 (size vDataToHash).

(** ** [CBloomFilter] *)

Definition MAX_BLOOM_FILTER_SIZE : Z := 36000.
Definition MAX_HASH_FUNCS : Z := 50.
Definition BLOOM_UPDATE_ALL : Z := 1.
Definition BLOOM_UPDATE_P2PUBKEY_ONLY : Z := 2.
Definition BLOOM_UPDATE_MASK : Z := 3.

Record CBloomFilter := mkFilter {
  vData : bytes;
  isFull : bool;
  isEmpty : bool;
  nHashFuncs : Z;
  nTweak : Z;
  nFlags : Z
}.

(** The default constructor, and the public one with the sizes it computes. *)
Definition default_filter : CBloomFilter := mkFilter [] true false 0 0 0.
Definition new_filter (nBytes : nat) (nHashFuncs nTweakIn nFlagsIn : Z) : CBloomFilter :=
  mkFilter (replicate nBytes 0) false true nHashFuncs nTweakIn nFlagsIn.

Definition with_vData (f : CBloomFilter) (d : bytes) : CBloomFilter :=
  mkFilter d (isFull f) (isEmpty f) (nHashFuncs f) (nTweak f) (nFlags f).
Definition with_isEmpty (f : CBloomFilter) (b : bool) : CBloomFilter :=
  mkFilter (vData f) (isFull f) b (nHashFuncs f) (nTweak f) (nFlags f).

Definition Hash (f : CBloomFilter) (nHashNum : Z) (vDataToHash : bytes) : result bloom_error Z :=
  match vData f with
  | [] => Err DivisionByZero
  | _ => Ok (MurmurHash3 (u32 (nHashNum * 0xFBA4C795 + nTweak f)) vDataToHash mod (size (vData f) * 8))
  end.

(** [vData[nIndex >> 3] |= (1 << (7 & nIndex))], and the test of that bit. *)
Definition set_bit (d : bytes) (nIndex : Z) : result bloom_error bytes :=
  let k := Z.to_nat (Z.shiftr nIndex 3) in
  match d !! k with
  | Some b => Ok (<[k := u8 (Z.lor b (Z.shiftl 1 (Z.land 7 nIndex)))]> d)
  | None => Err OutOfBounds
  end.
Definition get_bit (d : bytes) (nIndex : Z) : result bloom_error bool :=
  match d !! Z.to_nat (Z.shiftr nIndex 3) with
  | Some b => Ok (negb (Z.land b (Z.shiftl 1 (Z.land 7 nIndex)) =? 0))
  | None => Err OutOfBounds
  end.

(** The loops over the hash functions, from number [i] on. *)
Fixpoint insert_loop (count : nat) (i : Z) (vKey : bytes) (f : CBloomFilter) : result bloom_error CBloomFilter :=
  match count with
  | O => Ok f
  | S count =>
      let! nIndex := Hash f i vKey in
      let! d := set_bit (vData f) nIndex in
      insert_loop count (i + 1) vKey (with_vData f d)
  end.
Fixpoint contains_loop (count : nat) (i : Z) (vKey : bytes) (f : CBloomFilter) : result bloom_error bool :=
  match count with
  | O => Ok true
  | S count =>
      let! nIndex := Hash f i vKey in
      let! b := get_bit (vData f) nIndex in
      if negb b then Ok false else contains_loop count (i + 1) vKey f
  end.

Definition insert_key (f : CBloomFilter) (vKey : bytes) : result bloom_error CBloomFilter :=
  if isFull f then Ok f
  else let! f := insert_loop (Z.to_nat (nHashFuncs f)) 0 vKey f in Ok (with_isEmpty f false).
Definition contains_key (f : CBloomFilter) (vKey : bytes) : result bloom_error bool :=
  if isFull f then Ok true
  else if isEmpty f then Ok false
  else contains_loop (Z.to_nat (nHashFuncs f)) 0 vKey f.

(** The overloads for an outpoint; a [uint256] is its bytes. *)
Definition insert_outpoint (f : CBloomFilter) (o : COutPoint) : result bloom_error CBloomFilter :=
  insert_key f (c_ser c_COutPoint o).
Definition contains_outpoint (f : CBloomFilter) (o : COutPoint) : result bloom_error bool :=
  contains_key f (c_ser c_COutPoint o).

Definition clear (f : CBloomFilter) : CBloomFilter :=
  mkFilter (replicate (length (vData f)) 0) false true (nHashFuncs f) (nTweak f) (nFlags f).
Definition reset (f : CBloomFilter) (nNewTweak : Z) : CBloomFilter :=
  let f := clear f in mkFilter (vData f) (isFull f) (isEmpty f) (nHashFuncs f) nNewTweak (nFlags f).

Definition IsWithinSizeConstraints (f : CBloomFilter) : bool :=
  (size (vData f) <=? MAX_BLOOM_FILTER_SIZE) && (nHashFuncs f <=? MAX_HASH_FUNCS).

Definition UpdateEmptyFull (f : CBloomFilter) : CBloomFilter :=
  mkFilter (vData f) (forallb (λ b, b =? 0xff) (vData f)) (forallb (λ b, b =? 0) (vData f))
    (nHashFuncs f) (nTweak f) (nFlags f).

(** ** Relevant transactions *)

(** The loop over the data of a script: whether the filter contains some of it.  An
    instruction takes a byte or more. *)
Fixpoint match_script (fuel : nat) (f : CBloomFilter) (pc : bytes) : result bloom_error bool :=
  match fuel, pc with
  | S fuel, _ :: _ =>
      let d := GetScriptOp pc in
      if negb (d_ok d) then Ok false
      else
        let! c := if negb (size (d_vch d) =? 0) then contains_key f (d_vch d) else Ok false in
        if c then Ok true else match_script fuel f (d_pc d)
  | _, _ => Ok false
  end.

Section Relevant.
Context (fBitcoinCMode : bool) (txid : bytes).

(** What is done about a matching output. *)
Definition update_output (f : CBloomFilter) (script : bytes) (i : Z) : result bloom_error CBloomFilter :=
  let update := Z.land (nFlags f) BLOOM_UPDATE_MASK in
  if update =? BLOOM_UPDATE_ALL then insert_outpoint f (OutPoint txid i)
  else if update =? BLOOM_UPDATE_P2PUBKEY_ONLY then
    match Solver fBitcoinCMode script with
    | Some (TX_PUBKEY, _) | Some (TX_MULTISIG, _) => insert_outpoint f (OutPoint txid i)
    | _ => Ok f
    end
  else Ok f.

Definition scan_output (f : CBloomFilter) (script : bytes) (i : Z) (fFound : bool)
  : result bloom_error (CBloomFilter * bool) :=
  let! m := match_script (length script) f script in
  if m then let! f := update_output f script i in Ok (f, true) else Ok (f, fFound).

Fixpoint scan_vout (f : CBloomFilter) (l : list CTxOut) (i : Z) (fFound : bool)
  : result bloom_error (CBloomFilter * bool) :=
  match l with
  | [] => Ok (f, fFound)
  | o :: l => let! (f, fFound) := scan_output f (scriptPubKey o) i fFound in scan_vout f l (i + 1) fFound
  end.
Fixpoint scan_vpout (f : CBloomFilter) (l : list (option CTxOutBase)) (i : Z) (fFound : bool)
  : result bloom_error (CBloomFilter * bool) :=
  match l with
  | [] => Ok (f, fFound)
  | None :: _ => Err NullPointer
  | Some o :: l =>
      let! (f, fFound) :=
        match GetPScriptPubKey o with
        | None => Ok (f, fFound)
        | Some script => scan_output f script i fFound
        end in
      scan_vpout f l (i + 1) fFound
  end.

Fixpoint scan_vin (f : CBloomFilter) (l : list CTxIn) : result bloom_error bool :=
  match l with
  | [] => Ok false
  | i :: l =>
      if IsAnonInput i then scan_vin f l
      else
        let! c := contains_outpoint f (prevout i) in
        if c then Ok true
        else
          let! m := match_script (length (scriptSig i)) f (scriptSig i) in
          if m then Ok true else scan_vin f l
  end.

Definition IsRelevantAndUpdate (f : CBloomFilter) (tx : CTransaction) : result bloom_error (CBloomFilter * bool) :=
  if isFull f then Ok (f, true)
  else if isEmpty f then Ok (f, false)
  else
    let! fFound := contains_key f txid in
    let! (f, fFound) := scan_vout f (vout tx) 0 fFound in
    let! (f, fFound) := scan_vpout f (vpout tx) 0 fFound in
    if fFound then Ok (f, true) else let! r := scan_vin f (vin tx) in Ok (f, r).

End Relevant.

(** ** The filter of a peer *)

(** The filter of a peer with what the filter messages change besides: whether
    transactions are relayed to it, its score, and whether to ban or disconnect it. *)
Record peer := mkPeer {
  pfilter : option CBloomFilter;
  fRelayTxes : bool;
  nMisbehavior : Z;
  fShouldBan : bool;
  fDisconnect : bool
}.
Definition new_peer : peer := mkPeer (Some default_filter) false 0 false false.
Definition with_pfilter (p : peer) (f : option CBloomFilter) : peer :=
  mkPeer f (fRelayTxes p) (nMisbehavior p) (fShouldBan p) (fDisconnect p).
Definition relaying (p : peer) : peer :=
  mkPeer (pfilter p) true (nMisbehavior p) (fShouldBan p) (fDisconnect p).
Definition disconnect (p : peer) : peer :=
  mkPeer (pfilter p) (fRelayTxes p) (nMisbehavior p) (fShouldBan p) true.

Definition Misbehaving (banscore howmuch : Z) (p : peer) : peer :=
  if howmuch =? 0 then p
  else
    let n := nMisbehavior p + howmuch in
    mkPeer (pfilter p) (fRelayTxes p) n
      (if (banscore <=? n) && (n - howmuch <? banscore) then true else fShouldBan p) (fDisconnect p).

Definition NO_BLOOM_VERSION : Z := 70011.

(** The messages, and the announcement of a transaction to the peer. *)
Inductive filter_message :=
| FILTERLOAD (d : bytes) (nHashFuncs nTweak nFlags : Z)
| FILTERADD (d : bytes)
| FILTERCLEAR
| ANNOUNCE (txid : bytes) (tx : CTransaction).

(** The node's mode, whether it offers the service [NODE_BLOOM] to the peer, the peer's
    version and [-banscore] are arguments. *)
Section Messages.
Context (fBitcoinCMode bloom : bool) (nVersion banscore : Z).

Definition FilterLoad (p : peer) (filter : CBloomFilter) : peer :=
  if negb (IsWithinSizeConstraints filter) then Misbehaving banscore 100 p
  else relaying (with_pfilter p (Some (UpdateEmptyFull filter))).

Definition FilterAdd (p : peer) (d : bytes) : result bloom_error peer :=
  if MAX_SCRIPT_ELEMENT_SIZE <? size d then Ok (Misbehaving banscore 100 p)
  else match pfilter p with
       | Some f => let! f := insert_key f d in Ok (with_pfilter p (Some f))
       | None => Ok (Misbehaving banscore 100 p)
       end.

Definition FilterClear (p : peer) : peer :=
  relaying (if bloom then with_pfilter p (Some default_filter) else p).

(** Refused at the head of [ProcessMessage]. *)
Definition NoBloom (p : peer) : peer :=
  if NO_BLOOM_VERSION <=? nVersion then Misbehaving banscore 100 p else disconnect p.

Definition ProcessFilter (p : peer) (m : filter_message) : result bloom_error (peer * bool) :=
  match m with
  | FILTERLOAD d k t fl =>
      if negb bloom then Ok (NoBloom p, false) else Ok (FilterLoad p (mkFilter d true false k t fl), false)
  | FILTERADD d =>
      if negb bloom then Ok (NoBloom p, false) else let! p := FilterAdd p d in Ok (p, false)
  | FILTERCLEAR => Ok (FilterClear p, false)
  | ANNOUNCE txid tx =>
      match pfilter p with
      | None => Ok (p, true)
      | Some f =>
          let! (f, r) := IsRelevantAndUpdate fBitcoinCMode txid f tx in
          Ok (with_pfilter p (Some f), r)
      end
  end.

End Messages.

(** ** Bits *)

(** A bit of a vector, false past its end, and the vector with the bit set. *)
Definition test_bit (d : bytes) (j : Z) : bool :=
  negb (Z.land (nth (Z.to_nat (Z.shiftr j 3)) d 0) (Z.shiftl 1 (Z.land 7 j)) =? 0).
Definition put_bit (d : bytes) (j : Z) : bytes :=
  let k := Z.to_nat (Z.shiftr j 3) in
  <[k := u8 (Z.lor (nth k d 0) (Z.shiftl 1 (Z.land 7 j)))]> d.

(** Within the vector they are what the source reads and writes. *)
Lemma bit_in_range d j : 0 <= j < size d * 8 → (Z.to_nat (Z.shiftr j 3) < length d)%nat.
Proof.
  unfold size. intros Hj. rewrite Z.shiftr_div_pow2 by lia. change (2 ^ 3) with 8.
  pose proof (Z.div_lt_upper_bound j 8 (Z.of_nat (length d))). pose proof (Z.div_pos j 8). lia.
Qed.

Lemma set_bit_ok d j : 0 <= j < size d * 8 → set_bit d j = Ok (put_bit d j).
Proof.
  intros Hj%bit_in_range. unfold set_bit, put_bit. destruct (lookup_lt_is_Some_2 d _ Hj) as [b Hb].
  by rewrite Hb, (nth_lookup_Some _ _ _ _ Hb).
Qed.

Lemma get_bit_ok d j : 0 <= j < size d * 8 → get_bit d j = Ok (test_bit d j).
Proof.
  intros Hj%bit_in_range. unfold get_bit, test_bit. destruct (lookup_lt_is_Some_2 d _ Hj) as [b Hb].
  by rewrite Hb, (nth_lookup_Some _ _ _ _ Hb).
Qed.

Lemma land_7 j : Z.land 7 j = j mod 8.
Proof. rewrite Z.land_comm. by apply (land_ones_mod j 3). Qed.

Lemma test_bit_testbit d j : test_bit d j = Z.testbit (nth (Z.to_nat (Z.shiftr j 3)) d 0) (j mod 8).
Proof.
  unfold test_bit. rewrite land_7, Z.shiftl_1_l. apply land_pow2_testbit. by apply Z.mod_pos_bound.
Qed.

Lemma length_put_bit d j : length (put_bit d j) = length d.
Proof. apply length_insert. Qed.

Lemma put_bit_other d j j' : test_bit d j' = true → test_bit (put_bit d j) j' = true.
Proof.
  rewrite !test_bit_testbit. unfold put_bit. intros H. set (k := Z.to_nat (Z.shiftr j 3)) in *.
  set (k' := Z.to_nat (Z.shiftr j' 3)) in *. pose proof (Z.mod_pos_bound j' 8 ltac:(lia)) as Hm.
  destruct (decide (k < length d)%nat) as [Hk|Hk]; [|by rewrite list_insert_ge by lia].
  destruct (decide (k = k')) as [<-|Hne].
  - rewrite (nth_lookup_Some _ _ _ _ (list_lookup_insert_eq _ _ _ Hk)). unfold u8.
    rewrite Z.mod_pow2_bits_low, Z.lor_spec, H by lia. done.
  - rewrite nth_lookup, list_lookup_insert_ne, <- nth_lookup by done. done.
Qed.

Lemma put_bit_self d j : 0 <= j < size d * 8 → test_bit (put_bit d j) j = true.
Proof.
  intros Hj. rewrite test_bit_testbit. unfold put_bit. pose proof (Z.mod_pos_bound j 8 ltac:(lia)) as Hm.
  assert (Hk : (Z.to_nat (Z.shiftr j 3) < length d)%nat).
  { unfold size in Hj. rewrite Z.shiftr_div_pow2 by lia. change (2 ^ 3) with 8.
    pose proof (Z.div_lt_upper_bound j 8 (Z.of_nat (length d))). lia. }
  rewrite (nth_lookup_Some _ _ _ _ (list_lookup_insert_eq _ _ _ Hk)). unfold u8.
  rewrite Z.mod_pow2_bits_low, Z.lor_spec, land_7, Z.shiftl_1_l, Z.pow2_bits_true by lia. apply orb_true_r.
Qed.

(** ** Filters that can be used *)

(** A filter that is full is never looked into; any other must have data. *)
Definition usable (f : CBloomFilter) : Prop := isFull f = true ∨ vData f ≠ [].

(** [g] has the parameters of [f] and at least its bits. *)
Record grows (f g : CBloomFilter) : Prop := {
  grows_full : isFull g = isFull f;
  grows_funcs : nHashFuncs g = nHashFuncs f;
  grows_tweak : nTweak g = nTweak f;
  grows_flags : nFlags g = nFlags f;
  grows_length : length (vData g) = length (vData f);
  grows_empty : isEmpty g = true → isEmpty f = true;
  grows_bits j : test_bit (vData f) j = true → test_bit (vData g) j = true
}.
#[global] Instance grows_preorder : PreOrder grows.
Proof.
  split; [by intros f; split|]. intros f g h [] []. split; try congruence; eauto.
Qed.

Lemma grows_usable f g : grows f g → usable f → usable g.
Proof.
  intros Hg [Hu|Hu]; [left; by rewrite (grows_full _ _ Hg)|right].
  pose proof (grows_length _ _ Hg) as Hl. by destruct (vData f), (vData g).
Qed.

Lemma Hash_ok f i key : vData f ≠ [] → ∃ j, Hash f i key = Ok j ∧ 0 <= j < size (vData f) * 8.
Proof.
  intros Hd. unfold Hash. destruct (vData f) as [|b d] eqn:E; [done|]. eexists. split; [done|].
  apply Z.mod_pos_bound. unfold size. cbn [length]. lia.
Qed.

Lemma Hash_range f i key j : Hash f i key = Ok j → 0 <= j < size (vData f) * 8.
Proof.
  intros Hj. destruct (Hash_ok f i key) as (j' & E & Hr); [|congruence]. intros Hd. unfold Hash in Hj. by rewrite Hd in Hj.
Qed.

Lemma Hash_grows f g i key : grows f g → Hash g i key = Hash f i key.
Proof.
  intros Hg. pose proof (grows_length _ _ Hg) as Hl. unfold Hash. rewrite (grows_tweak _ _ Hg).
  unfold size. destruct (vData f), (vData g); cbn in Hl |- *; congruence.
Qed.

Lemma contains_loop_grows f g count i key :
  grows f g → contains_loop count i key f = Ok true → contains_loop count i key g = Ok true.
Proof.
  intros Hg. revert i. induction count as [|count IH]; intros i; cbn [contains_loop]; [done|].
  rewrite (Hash_grows f g) by done. destruct (Hash f i key) as [j|] eqn:Ej; [|done]. cbn [rbind].
  apply Hash_range in Ej. rewrite !get_bit_ok by (try done; unfold size in *; by rewrite (grows_length _ _ Hg)). cbn [rbind].
  destruct (test_bit (vData f) j) eqn:E; cbn [negb]; [|done]. rewrite (grows_bits _ _ Hg j E). cbn [negb]. apply IH.
Qed.

Lemma contains_grows f g key : grows f g → contains_key f key = Ok true → contains_key g key = Ok true.
Proof.
  intros Hg. unfold contains_key. rewrite (grows_full _ _ Hg), (grows_funcs _ _ Hg). destruct (isFull f); [done|].
  destruct (isEmpty f) eqn:E; [done|]. destruct (isEmpty g) eqn:E'; [by rewrite (grows_empty _ _ Hg E') in E|].
  by apply contains_loop_grows.
Qed.

Lemma put_bit_grows f j : grows f (with_vData f (put_bit (vData f) j)).
Proof. split; try done; cbn; [apply length_put_bit|intros; by apply put_bit_other]. Qed.

Lemma insert_loop_ok count i key f :
  vData f ≠ [] →
  ∃ g, insert_loop count i key f = Ok g ∧ grows f g ∧ contains_loop count i key g = Ok true.
Proof.
  revert i f. induction count as [|count IH]; intros i f Hd; cbn [insert_loop contains_loop]; [by exists f|].
  destruct (Hash_ok f i key Hd) as (j & Ej & Hj). rewrite Ej. cbn [rbind]. rewrite set_bit_ok by done. cbn [rbind].
  set (f' := with_vData f (put_bit (vData f) j)). pose proof (put_bit_grows f j) as Hf. fold f' in Hf.
  destruct (IH (i + 1) f') as (g & -> & Hg & Hc).
  { cbn. intros E. apply (f_equal length) in E. rewrite length_put_bit in E. by destruct (vData f). }
  exists g. split; [done|]. split; [by transitivity f'|].
  assert (Hfg : grows f g) by (by transitivity f'). rewrite (Hash_grows f g) by done. rewrite Ej. cbn [rbind].
  rewrite get_bit_ok by (unfold size in *; by rewrite (grows_length _ _ Hfg)). cbn [rbind].
  rewrite (grows_bits _ _ Hg j) by (by apply put_bit_self). cbn [negb]. exact Hc.
Qed.

Lemma insert_key_ok f key :
  usable f → ∃ g, insert_key f key = Ok g ∧ grows f g ∧ contains_key g key = Ok true.
Proof.
  intros Hu. unfold insert_key. destruct (isFull f) eqn:Ef.
  { exists f. split; [done|]. split; [done|]. unfold contains_key. by rewrite Ef. }
  destruct Hu as [|Hd]; [congruence|]. destruct (insert_loop_ok (Z.to_nat (nHashFuncs f)) 0 key f Hd) as (g & -> & Hg & Hc).
  cbn [rbind]. exists (with_isEmpty g false). split; [done|]. split.
  - transitivity g; [done|]. by split.
  - unfold contains_key. cbn. rewrite (grows_full _ _ Hg), Ef, (grows_funcs _ _ Hg).
    apply (contains_loop_grows g); [by split|done].
Qed.

Lemma contains_ok f key : usable f → ∃ b, contains_key f key = Ok b.
Proof.
  intros Hu. unfold contains_key. destruct (isFull f) eqn:Ef; [by eexists|]. destruct (isEmpty f); [by eexists|].
  destruct Hu as [|Hd]; [congruence|]. generalize (Z.to_nat (nHashFuncs f)), 0. intros count.
  induction count as [|count IH]; intros i; cbn [contains_loop]; [by eexists|].
  destruct (Hash_ok f i key Hd) as (j & -> & Hj). cbn [rbind]. rewrite get_bit_ok by done. cbn [rbind]. destruct (test_bit _ _); [apply IH|by eexists].
Qed.

Lemma UpdateEmptyFull_usable f : usable (UpdateEmptyFull f).
Proof. unfold usable. cbn. destruct (vData f); [by left|by right]. Qed.

(** ** Relevant transactions *)

(** The data that a script pushes, up to where it cannot be read. *)
Fixpoint pushes (fuel : nat) (pc : bytes) : list bytes :=
  match fuel, pc with
  | S fuel, _ :: _ => let d := GetScriptOp pc in if d_ok d then d_vch d :: pushes fuel (d_pc d) else []
  | _, _ => []
  end.
Definition pushed (script : bytes) : list bytes := pushes (length script) script.

(** The filter contains something that the script pushes. *)
Definition hits (f : CBloomFilter) (script : bytes) : Prop :=
  ∃ d, d ∈ pushed script ∧ d ≠ [] ∧ contains_key f d = Ok true.

Lemma hits_grows f g script : grows f g → hits f script → hits g script.
Proof. intros Hg (d & Hd & Hn & Hc). exists d. split_and!; [done..|by eapply contains_grows]. Qed.

Lemma match_script_ok f fuel pc :
  usable f →
  ∃ b, match_script fuel f pc = Ok b ∧
    ((∃ d, d ∈ pushes fuel pc ∧ d ≠ [] ∧ contains_key f d = Ok true) → b = true).
Proof.
  intros Hu. revert pc. induction fuel as [|fuel IH]; intros pc; cbn [match_script pushes].
  { exists false. split; [done|]. intros (d & Hd & _). by apply elem_of_nil in Hd. }
  destruct pc as [|x pc]; [exists false; split; [done|]; intros (d & Hd & _); by apply elem_of_nil in Hd|].
  set (d := GetScriptOp (x :: pc)). destruct (d_ok d); cbn [negb].
  2:{ exists false. split; [done|]. intros (e & He & _). by apply elem_of_nil in He. }
  destruct (IH (d_pc d)) as (b & -> & Hb). destruct (Z.eqb_spec (size (d_vch d)) 0) as [E0|E0]; cbn [negb rbind].
  - exists b. split; [done|]. intros (e & [->|He]%elem_of_cons & Hn & Hc); [|apply Hb; eauto].
    by destruct (d_vch d).
  - destruct (contains_ok f (d_vch d) Hu) as [[] Ec]; rewrite Ec; cbn [rbind]; [by exists true|]. exists b. split; [done|].
    intros (e & [->|He]%elem_of_cons & Hn & Hc); [congruence|apply Hb; eauto].
Qed.

(** The filter follows the outputs of the transactions it matches. *)
Definition follows (f : CBloomFilter) : Prop := Z.land (nFlags f) BLOOM_UPDATE_MASK = BLOOM_UPDATE_ALL.

Section Scans.
Context (mode : bool) (txid : bytes).

Lemma update_output_ok f script i :
  usable f →
  ∃ g, update_output mode txid f script i = Ok g ∧ grows f g ∧
    (follows f → contains_outpoint g (OutPoint txid i) = Ok true).
Proof.
  intros Hu. unfold update_output, insert_outpoint, follows.
  destruct (insert_key_ok f (c_ser c_COutPoint (OutPoint txid i)) Hu) as (g & Hi & Hg & Hc).
  destruct (Z.eqb_spec (Z.land (nFlags f) BLOOM_UPDATE_MASK) BLOOM_UPDATE_ALL) as [E|E]; [by exists g|].
  rewrite Hi. destruct (_ =? BLOOM_UPDATE_P2PUBKEY_ONLY); [|by exists f].
  destruct (Solver mode script) as [[[] ?]|]; first [by exists g|by exists f].
Qed.

(** What a scan of outputs leaves: it grows, keeps what was found, and for an output that
    is hit it finds and follows. *)
Definition scanned (f : CBloomFilter) (found : bool) (outs : list (Z * bytes)) (r : CBloomFilter * bool) : Prop :=
  grows f r.1 ∧ (found = true → r.2 = true) ∧
  ∀ i script, (i, script) ∈ outs → hits f script →
    r.2 = true ∧ (follows f → contains_outpoint r.1 (OutPoint txid i) = Ok true).

Lemma scanned_nil f found : scanned f found [] (f, found).
Proof. split_and!; [done|done|]. by intros i script ?%elem_of_nil. Qed.

Lemma scanned_trans f found outs f1 found1 outs1 r :
  scanned f found outs (f1, found1) → scanned f1 found1 outs1 r → scanned f found (outs ++ outs1) r.
Proof.
  intros (Hg & Hf & Ho) (Hg1 & Hf1 & Ho1). cbn [fst snd] in *. split_and!; [by transitivity f1|auto|].
  intros i script [Hin|Hin]%elem_of_app Hh.
  - destruct (Ho i script Hin Hh) as [Hb Hc]. split; [auto|]. intros Hfl. eapply contains_grows; [done|]. by apply Hc.
  - destruct (Ho1 i script Hin) as [Hb Hc]; [by eapply hits_grows|]. split; [done|]. intros Hfl. apply Hc.
    unfold follows. by rewrite (grows_flags _ _ Hg).
Qed.

Lemma scan_output_ok f script i found :
  usable f → ∃ r, scan_output mode txid f script i found = Ok r ∧ scanned f found [(i, script)] r.
Proof.
  intros Hu. unfold scan_output. destruct (match_script_ok f (length script) script Hu) as (b & -> & Hb). cbn [rbind].
  destruct b.
  - destruct (update_output_ok f script i Hu) as (g & -> & Hg & Hc). exists (g, true). split; [done|].
    split_and!; [done|done|]. by intros i' s' [= -> ->]%list_elem_of_singleton _.
  - exists (f, found). split; [done|]. split_and!; [done|done|]. intros i' s' [= -> ->]%list_elem_of_singleton Hh.
    by specialize (Hb Hh).
Qed.

Definition vout_scripts (l : list CTxOut) (i : Z) : list (Z * bytes) :=
  imap (λ k o, (i + Z.of_nat k, scriptPubKey o)) l.

Lemma scan_vout_ok l f i found :
  usable f → ∃ r, scan_vout mode txid f l i found = Ok r ∧ scanned f found (vout_scripts l i) r.
Proof.
  revert f i found. induction l as [|o l IH]; intros f i found Hu; cbn [scan_vout].
  { eexists. split; [done|]. apply scanned_nil. }
  destruct (scan_output_ok f (scriptPubKey o) i found Hu) as ([f1 found1] & -> & Hs). cbn [rbind].
  destruct (IH f1 (i + 1) found1) as (r & -> & Hr); [by eapply grows_usable; [apply Hs|]|].
  exists r. split; [done|]. unfold vout_scripts. cbn [imap]. rewrite Z.add_0_r.
  rewrite (imap_ext _ (λ k o, (i + 1 + Z.of_nat k, scriptPubKey o))) by (intros; cbn; f_equal; lia).
  exact (scanned_trans _ _ [_] _ _ _ _ Hs Hr).
Qed.

Fixpoint vpout_scripts (l : list (option CTxOutBase)) (i : Z) : list (Z * bytes) :=
  match l with
  | [] => []
  | o :: l => match o ≫= GetPScriptPubKey with Some s => [(i, s)] | None => [] end ++ vpout_scripts l (i + 1)
  end.

Lemma scan_vpout_ok l f i found :
  usable f → Forall (λ o, o ≠ None) l →
  ∃ r, scan_vpout mode txid f l i found = Ok r ∧ scanned f found (vpout_scripts l i) r.
Proof.
  revert f i found. induction l as [|o l IH]; intros f i found Hu Hl; cbn [scan_vpout vpout_scripts].
  { eexists. split; [done|]. apply scanned_nil. }
  apply Forall_cons in Hl as [Ho Hl]. destruct o as [o|]; [|done]. cbn [mbind option_bind].
  assert (∃ r, match GetPScriptPubKey o with None => Ok (f, found) | Some script => scan_output mode txid f script i found end = Ok r ∧
    scanned f found (match GetPScriptPubKey o with Some s => [(i, s)] | None => [] end) r) as ([f1 found1] & -> & Hs).
  { destruct (GetPScriptPubKey o) as [s|]; [by apply scan_output_ok|]. eexists. split; [done|]. apply scanned_nil. }
  cbn [rbind]. destruct (IH f1 (i + 1) found1) as (r & -> & Hr); [by eapply grows_usable; [apply Hs|]|done|].
  exists r. split; [done|]. by eapply scanned_trans.
Qed.

Lemma scan_vin_ok l f :
  usable f →
  ∃ b, scan_vin f l = Ok b ∧
    ∀ i, i ∈ l → IsAnonInput i = false → contains_outpoint f (prevout i) = Ok true → b = true.
Proof.
  intros Hu. induction l as [|i l IH]; cbn [scan_vin].
  { exists false. split; [done|]. by intros i ?%elem_of_nil. }
  destruct IH as (b & Hb & IH). destruct (IsAnonInput i) eqn:Ea.
  { exists b. split; [done|]. intros i' [->|Hi]%elem_of_cons; [congruence|by apply IH]. }
  unfold contains_outpoint at 1. destruct (contains_ok f (c_ser c_COutPoint (prevout i)) Hu) as [[] Ec]; rewrite Ec; cbn [rbind].
  { by exists true. }
  destruct (match_script_ok f (length (scriptSig i)) (scriptSig i) Hu) as ([] & -> & _); cbn [rbind]; [by exists true|].
  exists b. split; [done|]. intros i' [->|Hi]%elem_of_cons Hn Hc; [|by eapply IH].
  unfold contains_outpoint in Hc. congruence.
Qed.

(** The outputs in the clear, with their numbers. *)
Definition outputs (tx : CTransaction) : list (Z * bytes) := vout_scripts (vout tx) 0 ++ vpout_scripts (vpout tx) 0.

Lemma IsRelevant_ok f tx :
  usable f → Forall (λ o, o ≠ None) (vpout tx) →
  ∃ r, IsRelevantAndUpdate mode txid f tx = Ok r ∧
    scanned f false (outputs tx) r ∧
    (contains_key f txid = Ok true → r.2 = true) ∧
    (∀ i, i ∈ vin tx → IsAnonInput i = false → contains_outpoint f (prevout i) = Ok true → r.2 = true).
Proof.
  intros Hu Hn. unfold IsRelevantAndUpdate. destruct (isFull f) eqn:Ef.
  { exists (f, true). split; [done|]. split; [|done]. split; [done|]. split; [done|].
    intros i s _ _. split; [done|]. intros _. unfold contains_outpoint, contains_key. cbn. by rewrite Ef. }
  assert (Hempty : isEmpty f = true → ∀ key, contains_key f key = Ok true → False).
  { intros Ee key. unfold contains_key. by rewrite Ef, Ee. }
  destruct (isEmpty f) eqn:Ee.
  { specialize (Hempty eq_refl). exists (f, false). split; [done|].
    split; [|split; [by intros ?%Hempty|by intros i _ _ ?%Hempty]].
    split; [done|]. split; [done|]. by intros i s _ (d & _ & _ & ?%Hempty). }
  clear Hempty. destruct (contains_ok f txid Hu) as (found & Ec). rewrite Ec. cbn [rbind].
  destruct (scan_vout_ok (vout tx) f 0 found Hu) as ([f1 found1] & -> & Hs1). cbn [rbind].
  assert (Hu1 : usable f1) by (eapply grows_usable; [apply Hs1|done]).
  destruct (scan_vpout_ok (vpout tx) f1 0 found1 Hu1 Hn) as ([f2 found2] & -> & Hs2). cbn [rbind].
  pose proof (scanned_trans _ _ _ _ _ _ _ Hs1 Hs2) as (Hg & Hf & Ho). cbn [fst snd] in *.
  destruct found2.
  { exists (f2, true). split; [done|]. split; [|done]. split; [done|]. split; [done|]. exact Ho. }
  destruct (scan_vin_ok (vin tx) f2) as (b & -> & Hb); [by eapply grows_usable|]. cbn [rbind].
  exists (f2, b). split; [done|]. split; [|split]; cbn [fst snd].
  - split; [done|]. split; [done|]. intros i s Hi Hh. by destruct (Ho i s Hi Hh).
  - intros [= ->]. by specialize (Hf eq_refl).
  - intros i Hi Ha Hc. apply (Hb i Hi Ha). by eapply contains_grows.
Qed.

End Scans.

(** ** The filter of a peer, over time *)

Section Peers.
Context (mode bloom : bool) (nVersion banscore : Z).

Fixpoint run_messages (p : peer) (ms : list filter_message) : result bloom_error peer :=
  match ms with
  | [] => Ok p
  | m :: ms => let! (p, _) := ProcessFilter mode bloom nVersion banscore p m in run_messages p ms
  end.

(** A transaction has outputs, not null pointers; a message that leaves the filter in
    place only adds to it. *)
Definition message_ok (m : filter_message) : Prop :=
  match m with ANNOUNCE _ tx => Forall (λ o, o ≠ None) (vpout tx) | _ => True end.
Definition adds (m : filter_message) : Prop :=
  match m with FILTERADD _ | ANNOUNCE _ _ => message_ok m | _ => False end.

Definition peer_usable (p : peer) : Prop := ∀ f, pfilter p = Some f → usable f.

Lemma Misbehaving_pfilter howmuch p : pfilter (Misbehaving banscore howmuch p) = pfilter p.
Proof. unfold Misbehaving. by destruct (_ =? _). Qed.

Lemma NoBloom_pfilter p : pfilter (NoBloom nVersion banscore p) = pfilter p.
Proof. unfold NoBloom. destruct (_ <=? _); [apply Misbehaving_pfilter|done]. Qed.

Lemma FilterAdd_ok p d :
  peer_usable p →
  ∃ p', FilterAdd banscore p d = Ok p' ∧ peer_usable p' ∧
    ∀ f, pfilter p = Some f → ∃ g, pfilter p' = Some g ∧ grows f g.
Proof.
  intros Hp. unfold FilterAdd.
  assert (Hbad : peer_usable (Misbehaving banscore 100 p) ∧
    ∀ f, pfilter p = Some f → ∃ g, pfilter (Misbehaving banscore 100 p) = Some g ∧ grows f g).
  { unfold peer_usable. rewrite Misbehaving_pfilter. split; [exact Hp|]. intros f E. by exists f. }
  destruct (_ <? _); [by eexists|]. destruct (pfilter p) as [f|] eqn:E; [|by eexists].
  destruct (insert_key_ok f d (Hp f E)) as (g & -> & Hg & _). eexists. split; [done|]. split.
  - intros g' [= <-]. eapply grows_usable; [done|]. by apply Hp.
  - intros f' [= <-]. by exists g.
Qed.

Lemma ProcessFilter_ok p m :
  peer_usable p → message_ok m → ∃ r, ProcessFilter mode bloom nVersion banscore p m = Ok r ∧ peer_usable r.1.
Proof.
  intros Hp Hm. assert (Hno : peer_usable (NoBloom nVersion banscore p)) by (unfold peer_usable; by rewrite NoBloom_pfilter).
  destruct m as [d k t fl|d| |txid tx]; cbn [ProcessFilter message_ok] in *.
  - destruct (negb bloom); [by eexists|]. eexists. split; [done|]. unfold FilterLoad. destruct (negb _).
    + unfold peer_usable. cbn [fst]. by rewrite Misbehaving_pfilter.
    + intros f [= <-]. apply UpdateEmptyFull_usable.
  - destruct (negb bloom); [by eexists|]. destruct (FilterAdd_ok p d Hp) as (p' & -> & Hp' & _). by eexists.
  - eexists. split; [done|]. unfold FilterClear. destruct bloom; [|exact Hp]. intros f [= <-]. by left.
  - destruct (pfilter p) as [f|] eqn:E; [|eexists; split; [done|]; cbn; congruence].
    destruct (IsRelevant_ok mode txid f tx (Hp f E) Hm) as ([g b] & -> & (Hg & _) & _). eexists. split; [done|].
    intros g' [= <-]. eapply grows_usable; [exact Hg|]. by apply Hp.
Qed.

Lemma run_messages_ok p ms :
  peer_usable p → Forall message_ok ms → ∃ p', run_messages p ms = Ok p' ∧ peer_usable p'.
Proof.
  intros Hp Hms. revert p Hp. induction Hms as [|m ms Hm _ IH]; intros p Hp; cbn [run_messages]; [by eexists|].
  destruct (ProcessFilter_ok p m Hp Hm) as ([p1 b] & -> & Hp1). cbn [rbind]. by apply IH.
Qed.

(** A message that only adds lets the filter grow. *)
Lemma ProcessFilter_grows p m f :
  pfilter p = Some f → usable f → adds m →
  ∃ p' b g, ProcessFilter mode bloom nVersion banscore p m = Ok (p', b) ∧ pfilter p' = Some g ∧ grows f g.
Proof.
  intros E Hu Hm. destruct m as [d k t fl|d| |txid tx]; cbn [ProcessFilter adds message_ok] in *; try done.
  - destruct (negb bloom); [eexists _, _, f; split; [done|]; by rewrite NoBloom_pfilter|].
    destruct (FilterAdd_ok p d) as (p' & -> & _ & Hg); [intros f'; by rewrite E; intros [= <-]|].
    destruct (Hg f E) as (g & Eg & Hgr). by eexists _, _, g.
  - rewrite E. destruct (IsRelevant_ok mode txid f tx Hu Hm) as ([g b] & -> & (Hg & _) & _). by eexists _, _, g.
Qed.

Lemma run_messages_grows p ms f :
  pfilter p = Some f → usable f → Forall adds ms →
  ∃ p' g, run_messages p ms = Ok p' ∧ pfilter p' = Some g ∧ grows f g.
Proof.
  intros E Hu Hms. revert p f E Hu. induction Hms as [|m ms Hm _ IH]; intros p f E Hu; cbn [run_messages].
  { by eexists _, f. }
  destruct (ProcessFilter_grows p m f E Hu Hm) as (p1 & b & g & -> & E1 & Hg). cbn [rbind].
  destruct (IH p1 g E1) as (p2 & g2 & -> & E2 & Hg2); [by eapply grows_usable|].
  exists p2, g2. split_and!; [done..|by transitivity g].
Qed.

End Peers.

(** The transaction spends the output. *)
Definition spends (tx : CTransaction) (o : COutPoint) : Prop :=
  ∃ i, i ∈ vin tx ∧ prevout i = o ∧ IsAnonInput i = false.

(** C30: the filter of a peer is safe and follows the money.  Whatever filter messages a
    peer sends, also filters without data, nothing divides by their size and no vector is
    overrun.  A transaction with an output whose script pushes something that is in the
    filter is announced; and if the filter follows outputs, then after any further
    additions and announcements so is every transaction that spends that output. *)
Theorem peer_filter_follows (mode bloom : bool) (nVersion banscore : Z) (ms : list filter_message) :
  Forall message_ok ms →
  ∃ p, run_messages mode bloom nVersion banscore new_peer ms = Ok p ∧
    ∀ f txid tx i script,
      pfilter p = Some f → message_ok (ANNOUNCE txid tx) → (i, script) ∈ outputs tx → hits f script →
      ∃ p1, ProcessFilter mode bloom nVersion banscore p (ANNOUNCE txid tx) = Ok (p1, true) ∧
        ∀ ms' txid' tx', Forall adds ms' → follows f → message_ok (ANNOUNCE txid' tx') → spends tx' (OutPoint txid i) →
          ∃ p2 p3, run_messages mode bloom nVersion banscore p1 ms' = Ok p2 ∧ ProcessFilter mode bloom nVersion banscore p2 (ANNOUNCE txid' tx') = Ok (p3, true).
Proof.
  intros Hms. destruct (run_messages_ok mode bloom nVersion banscore new_peer ms) as (p & Hrun & Hp); [|done|].
  { intros f [= <-]. by left. }
  exists p. split; [done|]. intros f txid tx i script Ef Htx Hin Hh.
  destruct (IsRelevant_ok mode txid f tx (Hp f Ef) Htx) as ([g b] & Er & (Hg & _ & Ho) & _).
  cbn [fst snd] in *. destruct (Ho i script Hin Hh) as [-> Hc].
  exists (with_pfilter p (Some g)). split; [cbn [ProcessFilter]; by rewrite Ef, Er|].
  intros ms' txid' tx' Hms' Hfl Htx' (inp & Hi & Hprev & Hanon).
  destruct (run_messages_grows mode bloom nVersion banscore (with_pfilter p (Some g)) ms' g eq_refl)
    as (p2 & g2 & -> & E2 & Hg2); [by eapply grows_usable; [|apply Hp]|done|].
  assert (Hu2 : usable g2) by (eapply grows_usable; [exact Hg2|]; by eapply grows_usable; [|apply Hp]).
  destruct (IsRelevant_ok mode txid' g2 tx' Hu2 Htx') as ([g3 b3] & Er3 & _ & _ & Hv). cbn [snd] in Hv.
  rewrite (Hv inp Hi Hanon) in Er3.
  - eexists _, _. split; [done|]. cbn [ProcessFilter]. by rewrite E2, Er3.
  - rewrite Hprev. eapply contains_grows; [exact Hg2|]. by apply Hc.
Qed.

(** A filter loaded with one hash function and one key, a transaction that pays to a
    script pushing the key, and one that spends it. *)
Lemma peer_filter_follows_witness :
  let script := [3; 1; 2; 3] in
  let tx := Transaction 2 [] [] [Some (CTxOutStandard 5 script [])] 0 in
  let tx' := Transaction 2 [TxIn (OutPoint (replicate 32 7) 0) [] 0 [] []] [] [] 0 in
  ∃ p p1 p2 p3, run_messages true true 70013 100 new_peer [FILTERADD [9]; FILTERLOAD [0; 0; 1] 2 5 1; FILTERADD [1; 2; 3]] = Ok p ∧
    ProcessFilter true true 70013 100 p (ANNOUNCE (replicate 32 7) tx) = Ok (p1, true) ∧
    run_messages true true 70013 100 p1 [FILTERADD [8]] = Ok p2 ∧
    ProcessFilter true true 70013 100 p2 (ANNOUNCE (replicate 32 8) tx') = Ok (p3, true).
Proof.
  destruct (peer_filter_follows true true 70013 100 [FILTERADD [9]; FILTERLOAD [0; 0; 1] 2 5 1; FILTERADD [1; 2; 3]])
    as (p & Hrun & Hp); [repeat constructor|].
  assert (Ef : ∃ f, pfilter p = Some f ∧ hits f [3; 1; 2; 3] ∧ follows f).
  { vm_compute in Hrun. injection Hrun as <-. eexists. split; [reflexivity|].
    split; [|reflexivity]. exists [1; 2; 3]. split_and!; [by left|done|vm_compute; reflexivity]. }
  destruct Ef as (f' & Ef & Hh & Hfl).
  destruct (Hp f' (replicate 32 7) (Transaction 2 [] [] [Some (CTxOutStandard 5 [3; 1; 2; 3] [])] 0) 0 [3; 1; 2; 3] Ef)
    as (p1 & H1 & Hp1); [repeat constructor; done|by left|done|].
  destruct (Hp1 [FILTERADD [8]] (replicate 32 8) (Transaction 2 [TxIn (OutPoint (replicate 32 7) 0) [] 0 [] []] [] [] 0))
    as (p2 & p3 & H2 & H3); [repeat constructor|done|constructor| |].
  - eexists. split; [by left|]. by split.
  - exists p, p1, p2, p3. split; [exact Hrun|]. split; [exact H1|]. split; [exact H2|exact H3].
Defined.
