(* ===== verification/RollingBloom.v ===== *)
(** The rolling Bloom filter, after [CRollingBloomFilter] of [src/src/bloom.h/.cpp].

    The number of hash functions and of bits, which the constructor computes with
    logarithms, and the random tweak are arguments.  Words of 64 bits are integers;
    reading or writing past the vector is an error. *)
From stdpp Require Import list.
From S2P Require Import Prelude ArithUint256 Serialize Bloom.

Record CRollingBloomFilter := mkRolling {
  nEntriesPerGeneration : Z;
  nEntriesThisGeneration : Z;
  nGeneration : Z;
  data : list Z;
  rTweak : Z;
  rHashFuncs : Z
}.

(** [reset]. *)
Definition rolling_reset (f : CRollingBloomFilter) (tweak : Z) : CRollingBloomFilter :=
  mkRolling (nEntriesPerGeneration f) 0 1 (map (λ _, 0) (data f)) tweak (rHashFuncs f).

Definition new_rolling (nElements nHashFuncs nFilterBits tweak : Z) : CRollingBloomFilter :=
  let words := Z.shiftl (u32 (nFilterBits + 63) / 64) 1 in
  rolling_reset (mkRolling (u32 (nElements + 1) / 2) 0 0 (replicate (Z.to_nat words) 0) 0 nHashFuncs) tweak.

Definition RollingBloomHash (nHashNum nTweak : Z) (vDataToHash : bytes) : Z :=
  MurmurHash3 (u32 (nHashNum * 0xFBA4C795 + nTweak)) vDataToHash.

Definition FastMod (x n : Z) : Z := u32 (Z.shiftr (u64 (x * n)) 32).

(** The loop that wipes the entries of a generation, two words at a time. *)
Fixpoint wipe (m1 m2 : Z) (d : list Z) : list Z :=
  match d with
  | p1 :: p2 :: d =>
      let mask := Z.lor (Z.lxor p1 m1) (Z.lxor p2 m2) in
      Z.land p1 mask :: Z.land p2 mask :: wipe m1 m2 d
  | _ => d
  end.

(** The start of [insert]: the next generation when this one is full. *)
Definition next_generation (f : CRollingBloomFilter) : CRollingBloomFilter :=
  if nEntriesThisGeneration f =? nEntriesPerGeneration f then
    let g := nGeneration f + 1 in
    let g := if g =? 4 then 1 else g in
    let nGenerationMask1 := u64 (0 - Z.land g 1) in
    let nGenerationMask2 := u64 (0 - Z.shiftr g 1) in
    mkRolling (nEntriesPerGeneration f) 0 g (wipe nGenerationMask1 nGenerationMask2 (data f)) (rTweak f) (rHashFuncs f)
  else f.

(** [data[k]], and [data[k] = (data[k] & ~(1 << bit)) | (b << bit)]. *)
Definition read_word (d : list Z) (k : Z) : result bloom_error Z :=
  match d !! Z.to_nat k with Some w => Ok w | None => Err OutOfBounds end.
Definition write_bit (d : list Z) (k bit b : Z) : result bloom_error (list Z) :=
  let! w := read_word d k in
  Ok (<[Z.to_nat k := Z.lor (Z.land w (u64 (Z.lnot (Z.shiftl 1 bit)))) (Z.shiftl b bit)]> d).

(** [pos & ~1] and [pos | 1]. *)
Definition even_pos (pos : Z) : Z := Z.land pos 0xFFFFFFFE.
Definition odd_pos (pos : Z) : Z := Z.lor pos 1.

Fixpoint rolling_insert_loop (count : nat) (n : Z) (tweak g : Z) (vKey : bytes) (d : list Z) : result bloom_error (list Z) :=
  match count with
  | O => Ok d
  | S count =>
      let h := RollingBloomHash n tweak vKey in
      let bit := Z.land h 0x3F in
      let pos := FastMod h (Z.of_nat (length d)) in
      let! d := write_bit d (even_pos pos) bit (Z.land g 1) in
      let! d := write_bit d (odd_pos pos) bit (Z.shiftr g 1) in
      rolling_insert_loop count (n + 1) tweak g vKey d
  end.

Definition rolling_insert (f : CRollingBloomFilter) (vKey : bytes) : result bloom_error CRollingBloomFilter :=
  let f := next_generation f in
  let! d := rolling_insert_loop (Z.to_nat (rHashFuncs f)) 0 (rTweak f) (nGeneration f) vKey (data f) in
  Ok (mkRolling (nEntriesPerGeneration f) (nEntriesThisGeneration f + 1) (nGeneration f) d (rTweak f) (rHashFuncs f)).

Fixpoint rolling_contains_loop (count : nat) (n tweak : Z) (vKey : bytes) (d : list Z) : result bloom_error bool :=
  match count with
  | O => Ok true
  | S count =>
      let h := RollingBloomHash n tweak vKey in
      let bit := Z.land h 0x3F in
      let pos := FastMod h (Z.of_nat (length d)) in
      let! w1 := read_word d (even_pos pos) in
      let! w2 := read_word d (odd_pos pos) in
      if Z.land (Z.shiftr (Z.lor w1 w2) bit) 1 =? 0 then Ok false
      else rolling_contains_loop count (n + 1) tweak vKey d
  end.
Definition rolling_contains (f : CRollingBloomFilter) (vKey : bytes) : result bloom_error bool :=
  rolling_contains_loop (Z.to_nat (rHashFuncs f)) 0 (rTweak f) vKey (data f).

(** ** Entries *)

(** The generation kept for bit [b] of the words [2 * m] and [2 * m + 1]. *)
Definition gen (d : list Z) (m : nat) (b : Z) : Z :=
  Z.b2z (Z.testbit (nth (2 * m) d 0) b) + 2 * Z.b2z (Z.testbit (nth (2 * m + 1) d 0) b).

(** A vector of pairs of words. *)
Definition paired (d : list Z) : Prop := ∃ L, length d = (2 * L)%nat ∧ (0 < L)%nat ∧ Z.of_nat (2 * L) < 2 ^ 32.

Lemma even_pos_spec pos : 0 <= pos < 2 ^ 32 → even_pos pos = 2 * (pos / 2).
Proof.
  intros Hp. unfold even_pos. change 0xFFFFFFFE with (Z.shiftl (2 ^ 31 - 1) 1).
  assert (Hq : 0 <= pos / 2 < 2 ^ 31) by (Z.to_euclidean_division_equations; lia).
  pose proof (Z.mod_pos_bound pos 2 ltac:(lia)) as Hm.
  assert (Ep : pos = Z.lor (pos mod 2) (Z.shiftl (pos / 2) 1)).
  { rewrite Z.shiftl_mul_pow2, (lor_add_disjoint _ _ 1) by lia. change (2 ^ 1) with 2. Z.to_euclidean_division_equations; lia. }
  rewrite Ep at 1. rewrite Z.land_lor_distr_l, <- Z.shiftl_land, land_ones_mod, (Z.mod_small (pos / 2)) by lia.
  assert (Z.land (pos mod 2) (Z.shiftl (2 ^ 31 - 1) 1) = 0) as ->.
  { assert (pos mod 2 = 0 ∨ pos mod 2 = 1) as [-> | ->] by lia; reflexivity. }
  rewrite Z.lor_0_l, Z.shiftl_mul_pow2 by lia. lia.
Qed.

Lemma odd_pos_spec pos : 0 <= pos → odd_pos pos = 2 * (pos / 2) + 1.
Proof.
  intros Hp. unfold odd_pos. apply Z.bits_inj'. intros i Hi. rewrite Z.lor_spec.
  destruct (Z.eq_dec i 0) as [->|Hi0].
  - rewrite Z.testbit_odd_0. by rewrite orb_true_r.
  - rewrite <- (Z.succ_pred i), Z.testbit_odd_succ by lia.
    rewrite <- Z.div2_div, Z.div2_spec, Z.shiftr_spec by lia. change 1 with (2 * 0 + 1) at 1.
    rewrite Z.testbit_odd_succ, Z.bits_0, orb_false_r by lia. f_equal; lia.
Qed.

Lemma FastMod_range x n : 0 <= x < 2 ^ 32 → 0 < n < 2 ^ 32 → 0 <= FastMod x n < n.
Proof.
  intros Hx Hn. unfold FastMod. rewrite u64_small by (widths; nia). rewrite Z.shiftr_div_pow2 by lia.
  assert (0 <= x * n / 2 ^ 32 < n).
  { split; [apply Z.div_pos; nia|apply Z.div_lt_upper_bound; nia]. }
  rewrite u32_small; [done|widths; lia].
Qed.

Lemma lxor_u32 a b : is_u32 a → is_u32 b → is_u32 (Z.lxor a b).
Proof.
  intros Ha Hb. assert (Z.lxor a b = Z.lxor a b mod 2 ^ 32) as ->; [|apply u32_range].
  apply Z.bits_inj'. intros i Hi. destruct (Z.lt_ge_cases i 32) as [Hlt|Hge].
  - by rewrite Z.mod_pow2_bits_low.
  - rewrite Z.mod_pow2_bits_high, Z.lxor_spec by lia.
    rewrite <- (u32_small a), <- (u32_small b) by done. unfold u32. by rewrite !Z.mod_pow2_bits_high by lia.
Qed.

Lemma RollingBloomHash_range n t key : is_u32 (RollingBloomHash n t key).
Proof.
  unfold RollingBloomHash, MurmurHash3, murmur_final. cbv zeta. set (h := u32 (_ * 0xc2b2ae35)).
  assert (Hh : is_u32 h) by apply u32_range. clearbody h. apply lxor_u32; [done|].
  unfold is_u32 in *. rewrite Z.shiftr_div_pow2 by lia. split; [apply Z.div_pos; lia|].
  apply Z.div_lt_upper_bound; lia.
Qed.

#[local] Opaque RollingBloomHash FastMod.

(** The place of function [n] for a key, in a vector of [len] words. *)
Definition place (tweak : Z) (len : nat) (key : bytes) (n : Z) : nat * Z :=
  let h := RollingBloomHash n tweak key in (Z.to_nat (FastMod h (Z.of_nat len) / 2), Z.land h 0x3F).

Lemma place_range tweak d key n :
  paired d → let '(m, b) := place tweak (length d) key n in (2 * m + 1 < length d)%nat ∧ 0 <= b < 64.
Proof.
  intros (L & HL & Hpos & Hlt). unfold place. pose proof (RollingBloomHash_range n tweak key) as Hh.
  pose proof (FastMod_range _ (Z.of_nat (length d)) Hh ltac:(lia)) as Hf. cbv zeta. split.
  - rewrite HL in *. Z.to_euclidean_division_equations; lia.
  - change 0x3F with (2 ^ 6 - 1). rewrite land_ones_mod by lia. apply Z.mod_pos_bound. lia.
Qed.

(** ** Writing and wiping *)

Lemma write_bit_ok d (k : nat) bit b :
  (k < length d)%nat → 0 <= bit < 64 → b = 0 ∨ b = 1 →
  ∃ d', write_bit d (Z.of_nat k) bit b = Ok d' ∧ length d' = length d ∧
    ∀ k' b', 0 <= b' < 64 →
      Z.testbit (nth k' d' 0) b' =
      if decide (k' = k ∧ b' = bit) then b =? 1 else Z.testbit (nth k' d 0) b'.
Proof.
  intros Hk Hbit Hb. unfold write_bit, read_word. rewrite Nat2Z.id.
  destruct (lookup_lt_is_Some_2 d k Hk) as [w Hw]. rewrite Hw. cbn [rbind]. eexists. split; [done|].
  split; [apply length_insert|]. intros k' b' Hb'. destruct (decide (k' = k)) as [->|Hne].
  - rewrite (nth_lookup_Some _ _ _ _ (list_lookup_insert_eq _ _ _ Hk)), (nth_lookup_Some _ _ _ _ Hw).
    unfold u64. rewrite Z.lor_spec, Z.land_spec, Z.mod_pow2_bits_low, Z.lnot_spec, Z.shiftl_1_l, Z.pow2_bits_eqb by lia.
    rewrite Z.shiftl_spec by lia. destruct (decide _) as [[_ ->]|Hn].
    + rewrite Z.eqb_refl, Z.sub_diag, andb_false_r. by destruct Hb as [-> | ->].
    + destruct (Z.eqb_spec bit b') as [->|Hne']; [by destruct Hn|]. rewrite andb_true_r.
      destruct Hb as [-> | ->]; [by rewrite Z.bits_0, orb_false_r|].
      destruct (Z.lt_ge_cases b' bit); [by rewrite (Z.testbit_neg_r 1), orb_false_r by lia|].
      assert (Z.testbit 1 (b' - bit) = false) as ->; [|by rewrite orb_false_r].
      change 1 with (2 ^ 0). apply Z.pow2_bits_false. lia.
  - rewrite nth_lookup, list_lookup_insert_ne, <- nth_lookup by done. rewrite decide_False; [done|]. by intros [].
Qed.

Lemma write_place d pos bit g :
  paired d → 0 <= pos < Z.of_nat (length d) → 0 <= bit < 64 → 1 <= g <= 3 →
  ∃ d', (let! d1 := write_bit d (even_pos pos) bit (Z.land g 1) in write_bit d1 (odd_pos pos) bit (Z.shiftr g 1)) = Ok d' ∧
    length d' = length d ∧
    ∀ m b, 0 <= b < 64 → gen d' m b = if decide ((m, b) = (Z.to_nat (pos / 2), bit)) then g else gen d m b.
Proof.
  intros (L & HL & HL0 & HL1) Hpos Hbit Hg. set (m := Z.to_nat (pos / 2)).
  assert (Em : Z.of_nat m = pos / 2) by (unfold m; apply Z2Nat.id, Z.div_pos; lia).
  assert (Hm : (2 * m + 1 < length d)%nat) by (pose proof (Z.div_lt_upper_bound pos 2 (Z.of_nat L)); lia).
  rewrite even_pos_spec, odd_pos_spec by lia. rewrite <- Em.
  replace (2 * Z.of_nat m + 1) with (Z.of_nat (2 * m + 1)) by lia. replace (2 * Z.of_nat m) with (Z.of_nat (2 * m)) by lia.
  assert (Hg' : g = 1 ∨ g = 2 ∨ g = 3) by lia.
  destruct (write_bit_ok d (2 * m) bit (Z.land g 1)) as (d1 & -> & Hl1 & H1); [lia|done|destruct Hg' as [-> |[-> | ->]]; auto|].
  cbn [rbind]. destruct (write_bit_ok d1 (2 * m + 1) bit (Z.shiftr g 1)) as (d2 & -> & Hl2 & H2);
    [lia|done|destruct Hg' as [-> |[-> | ->]]; auto|].
  exists d2. split; [done|]. split; [lia|]. intros m' b Hb. unfold gen. rewrite !H2, !H1 by done.
  destruct (decide ((m', b) = (m, bit))) as [[= -> ->]|Hn].
  - rewrite (decide_False (P := (2 * m = 2 * m + 1)%nat ∧ _)) by (intros [? _]; lia).
    rewrite (decide_True (P := (2 * m = 2 * m)%nat ∧ _)), (decide_True (P := (2 * m + 1 = 2 * m + 1)%nat ∧ _)) by done.
    by destruct Hg' as [-> |[-> | ->]].
  - repeat match goal with |- context [decide ?P] => rewrite (decide_False (P := P)) end; [done|..].
    all: intros [? ->]; first [lia|apply Hn; f_equal; lia].
Qed.

(** Wiping removes exactly the entries of a generation. *)
Lemma wipe_ok g L d m b :
  1 <= g <= 3 → length d = (2 * L)%nat → 0 <= b < 64 →
  let d' := wipe (u64 (0 - Z.land g 1)) (u64 (0 - Z.shiftr g 1)) d in
  length d' = length d ∧ gen d' m b = if gen d m b =? g then 0 else gen d m b.
Proof.
  intros Hg. set (m1 := u64 (0 - Z.land g 1)). set (m2 := u64 (0 - Z.shiftr g 1)).
  intros HL Hb. cbv zeta. revert d m HL. induction L as [|L IH]; intros d m HL.
  { destruct d; [|done]. split; [done|]. unfold gen. rewrite !nth_overflow by (cbn; lia). rewrite Z.bits_0. change (Z.b2z false + 2 * Z.b2z false) with 0. by destruct (0 =? g). }
  destruct d as [|p1 [|p2 d]]; cbn [length] in HL; [lia|lia|]. cbn [wipe]. cbv zeta.
  destruct (IH d (m - 1)%nat ltac:(lia)) as [Hl Hgen]. split; [cbn [length]; lia|].
  destruct m as [|m].
  - unfold gen. cbn [Nat.mul Nat.add nth]. rewrite !Z.land_spec, !Z.lor_spec, !Z.lxor_spec.
    assert (Hbits : Z.testbit m1 b = Z.testbit g 0 ∧ Z.testbit m2 b = Z.testbit g 1).
    { unfold m1, m2, u64. rewrite !Z.mod_pow2_bits_low by lia. rewrite !Z.sub_0_l.
      assert (g = 1 ∨ g = 2 ∨ g = 3) as [-> |[-> | ->]] by lia; split;
        first [apply (Z.bits_m1 b); lia|apply Z.bits_0]. }
    destruct Hbits as [-> ->]. assert (g = 1 ∨ g = 2 ∨ g = 3) as [-> |[-> | ->]] by lia;
      by destruct (Z.testbit p1 b), (Z.testbit p2 b).
  - replace (S m - 1)%nat with m in Hgen by lia. unfold gen in Hgen |- *.
    replace (2 * S m)%nat with (S (S (2 * m))) by lia. replace (S (S (2 * m)) + 1)%nat with (S (S (2 * m + 1))) by lia.
    exact Hgen.
Qed.

(** ** One key *)

(** What holds of the generations at the places of a key. *)
Definition at_places (d : list Z) (tweak : Z) (n : Z) (count : nat) (key : bytes) (P : Z → Prop) : Prop :=
  ∀ i, n <= i < n + Z.of_nat count → P (gen d (place tweak (length d) key i).1 (place tweak (length d) key i).2).

Lemma rolling_insert_loop_ok count n tweak g key d :
  paired d → 1 <= g <= 3 →
  ∃ d', rolling_insert_loop count n tweak g key d = Ok d' ∧ length d' = length d ∧
    at_places d' tweak n count key (λ x, x = g) ∧
    ∀ m b, 0 <= b < 64 → gen d' m b = gen d m b ∨
      gen d' m b = g ∧ ∃ i, n <= i < n + Z.of_nat count ∧ place tweak (length d) key i = (m, b).
Proof.
  intros Hd Hg. revert n d Hd. induction count as [|count IH]; intros n d Hd; cbn [rolling_insert_loop].
  { exists d. split_and!; [done|done| |by left]. intros i Hi. lia. }
  cbv zeta. pose proof (place_range tweak d key n Hd) as Hr. cbn [place] in Hr. cbv zeta in Hr. destruct Hr as [Hm Hb].
  pose proof (RollingBloomHash_range n tweak key) as Hh. set (h := RollingBloomHash n tweak key) in *.
  assert (Hlen : 0 < Z.of_nat (length d) < 2 ^ 32) by (destruct Hd as (L & -> & ?); lia).
  destruct (write_place d (FastMod h (Z.of_nat (length d))) (Z.land h 0x3F) g Hd) as (d1 & E1 & Hl1 & Hg1);
    [by apply FastMod_range|done|done|].
  assert (Hd1 : paired d1) by (destruct Hd as (L & HL & ?); exists L; by rewrite Hl1).
  destruct (write_bit d _ _ _) as [d0|]; [|done]. cbn [rbind] in *. rewrite E1. cbn [rbind].
  destruct (IH (n + 1) d1 Hd1) as (d2 & -> & Hl2 & Hp2 & Hg2). exists d2. split; [done|]. split; [lia|]. split.
  - intros i Hi. destruct (Z.eq_dec i n) as [->|Hne].
    + unfold place. fold h. cbv zeta. cbn [fst snd]. rewrite Hl2, Hl1.
      destruct (Hg2 (Z.to_nat (FastMod h (Z.of_nat (length d)) / 2)) _ Hb) as [E|[E _]]; rewrite E; [|done].
      rewrite Hg1 by done. by rewrite decide_True.
    + apply Hp2. lia.
  - intros m b Hb'. destruct (Hg2 m b Hb') as [-> |[-> (i & Hi & Hpl)]].
    + rewrite Hg1 by done. destruct (decide _) as [Eq|_]; [right|by left]. split; [done|]. exists n. split; [lia|by rewrite Eq].
    + right. split; [done|]. exists i. split; [lia|]. by rewrite <- Hl1.
Qed.

Lemma word_bits w1 w2 bit :
  0 <= bit → (Z.land (Z.shiftr (Z.lor w1 w2) bit) 1 =? 0) = negb (Z.testbit w1 bit || Z.testbit w2 bit).
Proof.
  intros Hb. change 1 with (2 ^ 1 - 1). rewrite land_ones_mod by lia. change (2 ^ 1) with 2.
  rewrite <- Z.bit0_mod, Z.shiftr_spec, Z.lor_spec by lia. rewrite Z.add_0_l. by destruct (_ || _).
Qed.

Lemma rolling_contains_loop_ok count n tweak key d :
  paired d →
  ∃ b, rolling_contains_loop count n tweak key d = Ok b ∧ (b = true ↔ at_places d tweak n count key (λ x, x ≠ 0)).
Proof.
  intros Hd. revert n. induction count as [|count IH]; intros n; cbn [rolling_contains_loop].
  { exists true. split; [done|]. split; [|done]. intros _ i Hi. lia. }
  cbv zeta.
  pose proof (place_range tweak d key n Hd) as Hr. cbn [place] in Hr. cbv zeta in Hr. destruct Hr as [Hm Hb].
  assert (Hhere : at_places d tweak n (S count) key (λ x, x ≠ 0) →
    gen d (Z.to_nat (FastMod (RollingBloomHash n tweak key) (Z.of_nat (length d)) / 2)) (Z.land (RollingBloomHash n tweak key) 0x3F) ≠ 0)
    by (intros Hp; apply (Hp n); lia).
  assert (Hcons : gen d (place tweak (length d) key n).1 (place tweak (length d) key n).2 ≠ 0 →
    at_places d tweak (n + 1) count key (λ x, x ≠ 0) → at_places d tweak n (S count) key (λ x, x ≠ 0)).
  { intros H0 Hp i Hi. destruct (Z.eq_dec i n) as [->|]; [exact H0|]. apply Hp. lia. }
  assert (Htl : at_places d tweak n (S count) key (λ x, x ≠ 0) → at_places d tweak (n + 1) count key (λ x, x ≠ 0))
    by (intros Hp i Hi; apply Hp; lia).
  unfold place in Hcons at 1 2. cbv zeta in Hcons. cbn [fst snd] in Hcons.
  pose proof (RollingBloomHash_range n tweak key) as Hh. set (h := RollingBloomHash n tweak key) in *.
  assert (Hlen : 0 < Z.of_nat (length d) < 2 ^ 32) by (destruct Hd as (L & -> & ?); lia).
  pose proof (FastMod_range h _ Hh Hlen) as Hf. set (pos := FastMod h (Z.of_nat (length d))) in *.
  rewrite even_pos_spec, odd_pos_spec by lia. set (m := Z.to_nat (pos / 2)) in *.
  assert (Em : Z.of_nat m = pos / 2) by (apply Z2Nat.id, Z.div_pos; lia). rewrite <- Em. unfold read_word.
  replace (Z.to_nat (2 * Z.of_nat m + 1)) with (2 * m + 1)%nat by lia.
  replace (Z.to_nat (2 * Z.of_nat m)) with (2 * m)%nat by lia.
  destruct (lookup_lt_is_Some_2 d (2 * m) ltac:(lia)) as [w1 E1]. destruct (lookup_lt_is_Some_2 d (2 * m + 1) Hm) as [w2 E2].
  rewrite E1, E2. cbn [rbind]. rewrite word_bits by lia. unfold gen in Hhere, Hcons at 1.
  rewrite (nth_lookup_Some _ _ _ _ E1), (nth_lookup_Some _ _ _ _ E2) in Hhere, Hcons.
  destruct (IH (n + 1)) as (b & -> & Hb').
  destruct (Z.testbit w1 (Z.land h 63)), (Z.testbit w2 (Z.land h 63)); cbn [orb negb].
  4:{ exists false. split; [done|]. split; [done|]. intros Hp. by destruct (Hhere Hp). }
  all: exists b; split; [done|]; rewrite Hb'; split; [by apply Hcons|exact Htl].
Qed.

(** ** Generations of keys *)

(** The abstract filter: the keys of the current generation and of the two before it. *)
Definition generations : Type := list bytes * list bytes * list bytes.
Definition remember (E : nat) (key : bytes) (a : generations) : generations :=
  let '(cur, p1, p2) := a in
  if (length cur =? E)%nat then ([key], cur, p1) else (key :: cur, p1, p2).
Definition remembered (a : generations) : list bytes := let '(cur, p1, p2) := a in cur ++ p1 ++ p2.

(** The number of the generation [a] before [g]. *)
Definition before (g a : Z) : Z := (g - 1 - a) mod 3 + 1.
Definition recent (g a x : Z) : Prop := ∃ a', 0 <= a' <= a ∧ x = before g a'.

(** A place of one of [keys]. *)
Definition marked (f : CRollingBloomFilter) (keys : list bytes) (m : nat) (b : Z) : Prop :=
  ∃ key i, key ∈ keys ∧ 0 <= i < Z.of_nat (Z.to_nat (rHashFuncs f)) ∧ place (rTweak f) (length (data f)) key i = (m, b).

(** Two filters that use the same places. *)
Definition same_places (f f' : CRollingBloomFilter) : Prop :=
  rHashFuncs f' = rHashFuncs f ∧ rTweak f' = rTweak f ∧ length (data f') = length (data f).

Lemma marked_same f f' keys m b : same_places f f' → marked f keys m b → marked f' keys m b.
Proof. intros (E1 & E2 & E3). unfold marked. by rewrite E1, E2, E3. Qed.

(** Against the abstract filter: every key of a generation is at its places in that
    generation or a later one, and a place in a generation is that of one of its keys. *)
Record refines (f : CRollingBloomFilter) (E : nat) (a : generations) : Prop := {
  ref_paired : paired (data f);
  ref_gen : 1 <= nGeneration f <= 3;
  ref_per : nEntriesPerGeneration f = Z.of_nat E;
  ref_this : nEntriesThisGeneration f = Z.of_nat (length a.1.1);
  ref_full : (length a.1.1 <= E)%nat;
  ref_places age keys key :
    (age, keys) ∈ [(0, a.1.1); (1, a.1.2); (2, a.2)] → key ∈ keys →
    at_places (data f) (rTweak f) 0 (Z.to_nat (rHashFuncs f)) key (recent (nGeneration f) age);
  ref_marked m b age keys :
    0 <= b < 64 → (age, keys) ∈ [(0, a.1.1); (1, a.1.2); (2, a.2)] → gen (data f) m b = before (nGeneration f) age →
    marked f keys m b
}.

Lemma before_0 g : 1 <= g <= 3 → before g 0 = g.
Proof. intros Hg. unfold before. rewrite Z.mod_small by lia. lia. Qed.

Lemma recent_nonzero g a x : recent g a x → x ≠ 0.
Proof. intros (a' & _ & ->). unfold before. pose proof (Z.mod_pos_bound (g - 1 - a') 3 ltac:(lia)) as Hm. intros E. lia. Qed.

Lemma recent_0 g a : 1 <= g <= 3 → 0 <= a → recent g a g.
Proof. intros Hg Ha. exists 0. split; [lia|]. by rewrite before_0. Qed.

(** In the next generation, what was recent up to age one is not wiped. *)
Lemma recent_next g a x :
  1 <= g <= 3 → a = 0 ∨ a = 1 → recent g a x →
  let g' := if g + 1 =? 4 then 1 else g + 1 in
  1 <= g' <= 3 ∧ x ≠ g' ∧ recent g' (a + 1) x.
Proof.
  intros Hg Ha (a' & Ha' & ->). assert (a' = 0 ∨ a' = 1) as [-> | ->] by lia.
  - assert (g = 1 ∨ g = 2 ∨ g = 3) as [-> |[-> | ->]] by lia; cbv zeta;
      (split; [by_eval|]; split; [by_eval|]; exists 1; split; [lia|reflexivity]).
  - assert (g = 1 ∨ g = 2 ∨ g = 3) as [-> |[-> | ->]] by lia; cbv zeta;
      (split; [by_eval|]; split; [by_eval|]; exists 2; split; [lia|reflexivity]).
Qed.

(** The generation before the next one is this one; the next one is the oldest. *)
Lemma before_next g a :
  1 <= g <= 3 → a = 0 ∨ a = 1 → before (if g + 1 =? 4 then 1 else g + 1) (a + 1) = before g a.
Proof.
  intros Hg Ha. assert (g = 1 ∨ g = 2 ∨ g = 3) as [-> |[-> | ->]] by lia; by destruct Ha as [-> | ->].
Qed.

Lemma gen_before d m b g : 1 <= g <= 3 → gen d m b ≠ 0 → ∃ age, (age = 0 ∨ age = 1 ∨ age = 2) ∧ gen d m b = before g age.
Proof.
  intros Hg. unfold gen. generalize (Z.testbit (nth (2 * m) d 0) b) (Z.testbit (nth (2 * m + 1) d 0) b). intros b1 b2 Hne.
  assert (g = 1 ∨ g = 2 ∨ g = 3) as [-> |[-> | ->]] by lia; destruct b1, b2; cbn in *; try done;
    first [by exists 0; auto|by exists 1; auto|by exists 2; auto].
Qed.

(** ** Insertion *)

Lemma at_places_impl d tweak n count key (P Q : Z → Prop) :
  (∀ x, P x → Q x) → at_places d tweak n count key P → at_places d tweak n count key Q.
Proof. intros HPQ HP i Hi. apply HPQ, HP. exact Hi. Qed.

(** Entering a generation. *)
Lemma next_generation_refines f E a :
  refines f E a →
  refines (next_generation f) E
    (if (length a.1.1 =? E)%nat then ([], a.1.1, a.1.2) else a) ∧
  same_places f (next_generation f).
Proof.
  intros Hr. unfold next_generation. rewrite (ref_this _ _ _ Hr), (ref_per _ _ _ Hr).
  destruct (Nat.eqb_spec (length a.1.1) E) as [El|El]; destruct (Z.eqb_spec (Z.of_nat (length a.1.1)) (Z.of_nat E)); try lia.
  2:{ split; [exact Hr|done]. }
  cbv zeta. set (g := nGeneration f). set (g' := if g + 1 =? 4 then 1 else g + 1).
  pose proof (ref_gen _ _ _ Hr) as Hg. fold g in Hg. pose proof (ref_paired _ _ _ Hr) as (L & HL & HL0).
  assert (Hg' : 1 <= g' <= 3) by (unfold g'; destruct (Z.eqb_spec (g + 1) 4); lia).
  set (d' := wipe _ _ _). assert (Hl : length d' = length (data f)) by (by apply (wipe_ok g' L (data f) 0 0)).
  split; [|done]. split; cbn [data nGeneration nEntriesPerGeneration nEntriesThisGeneration rTweak rHashFuncs fst snd length].
  - exists L. by rewrite Hl.
  - done.
  - done.
  - done.
  - lia.
  - intros age keys key Hin Hk.
    assert (∃ age0, age = age0 + 1 ∧ (age0 = 0 ∨ age0 = 1) ∧ (age0, keys) ∈ [(0, a.1.1); (1, a.1.2); (2, a.2)])
      as (age0 & -> & Ha & Hin0).
    { rewrite !elem_of_cons in Hin. destruct Hin as [[= -> ->]|[[= -> ->]|[[= -> ->]|Hin]]].
      - by apply elem_of_nil in Hk.
      - exists 0. split_and!; [done|by left|by left].
      - exists 1. split_and!; [done|by right|]. right. by left.
      - by apply elem_of_nil in Hin. }
    pose proof (ref_places _ _ _ Hr age0 keys key Hin0 Hk) as Hp. intros i Hi. specialize (Hp i Hi). rewrite Hl.
    pose proof (place_range (rTweak f) (data f) key i (ref_paired _ _ _ Hr)) as Hpl.
    destruct (place (rTweak f) (length (data f)) key i) as [m b]. cbn [fst snd] in *. destruct Hpl as [_ Hb].
    destruct (recent_next g age0 _ Hg Ha Hp) as (_ & Hne & Hrec). fold g' in Hne, Hrec.
    destruct (wipe_ok g' L (data f) m b Hg' HL Hb) as [_ Hw]. fold d' in Hw. rewrite Hw.
    destruct (Z.eqb_spec (gen (data f) m b) g'); [done|exact Hrec].
  - intros m b age keys Hb Hin. destruct (wipe_ok g' L (data f) m b Hg' HL Hb) as [_ Hw]. fold d' in Hw. rewrite Hw.
    intros Eg. apply (marked_same f); [done|]. rewrite !elem_of_cons in Hin.
    destruct Hin as [[= -> ->]|[[= -> ->]|[[= -> ->]|Hin]]]; [exfalso| | |by apply elem_of_nil in Hin].
    + rewrite before_0 in Eg by done. destruct (Z.eqb_spec (gen (data f) m b) g'); lia.
    + destruct (Z.eqb_spec (gen (data f) m b) g') as [_|_]; [exfalso; by apply (recent_nonzero g' 1 0); [exists 1; split; [lia|]|]|].
      apply (ref_marked _ _ _ Hr m b 0); [done|by left|]. rewrite Eg. by apply (before_next g 0); [|left].
    + destruct (Z.eqb_spec (gen (data f) m b) g') as [_|_]; [exfalso; by apply (recent_nonzero g' 2 0); [exists 2; split; [lia|]|]|].
      apply (ref_marked _ _ _ Hr m b 1); [done|right; by left|]. rewrite Eg. by apply (before_next g 1); [|right].
Qed.

Lemma rolling_insert_refines f E a key :
  (0 < E)%nat → refines f E a → ∃ f', rolling_insert f key = Ok f' ∧ refines f' E (remember E key a) ∧ same_places f f'.
Proof.
  intros HE Hr. destruct (next_generation_refines f E a Hr) as [Hn Hc]. unfold rolling_insert. cbv zeta.
  set (f1 := next_generation f) in *. set (a1 := if (length a.1.1 =? E)%nat then ([], a.1.1, a.1.2) else a) in *.
  destruct (rolling_insert_loop_ok (Z.to_nat (rHashFuncs f1)) 0 (rTweak f1) (nGeneration f1) key (data f1)
    (ref_paired _ _ _ Hn) (ref_gen _ _ _ Hn)) as (d' & -> & Hl & Hkey & Hold).
  cbn [rbind]. eexists. split; [done|].
  split; [|by destruct Hc as (E1 & E2 & E3); split_and!; cbn; [..|etrans]].
  assert (Ea : remember E key a = (key :: a1.1.1, a1.1.2, a1.2)).
  { unfold remember, a1. destruct a as [[cur p1] p2]. cbn [fst snd]. by destruct (length cur =? E)%nat. }
  assert (Hlt : (length a1.1.1 < E)%nat).
  { unfold a1. destruct (Nat.eqb_spec (length a.1.1) E); cbn [fst length]; [done|]. pose proof (ref_full _ _ _ Hr). lia. }
  rewrite Ea. split; cbn [data nGeneration nEntriesPerGeneration nEntriesThisGeneration rTweak rHashFuncs fst snd].
  - destruct (ref_paired _ _ _ Hn) as (L & HL). exists L. by rewrite Hl.
  - apply (ref_gen _ _ _ Hn).
  - apply (ref_per _ _ _ Hn).
  - rewrite (ref_this _ _ _ Hn). change (length (key :: a1.1.1)) with (S (length a1.1.1)). by rewrite Nat2Z.inj_succ.
  - change (length (key :: a1.1.1)) with (S (length a1.1.1)). exact Hlt.
  - assert (Hkeep : ∀ age keys k, 0 <= age → (age, keys) ∈ [(0, a1.1.1); (1, a1.1.2); (2, a1.2)] → k ∈ keys →
      at_places d' (rTweak f1) 0 (Z.to_nat (rHashFuncs f1)) k (recent (nGeneration f1) age)).
    { intros age keys k Hage Hin Hk i Hi. pose proof (ref_places _ _ _ Hn age keys k Hin Hk i Hi) as Hp. rewrite Hl.
      pose proof (place_range (rTweak f1) (data f1) k i (ref_paired _ _ _ Hn)) as Hpl.
      destruct (place (rTweak f1) (length (data f1)) k i) as [m b]. cbn [fst snd] in *. destruct Hpl as [_ Hb].
      destruct (Hold m b Hb) as [E1|[E1 _]]; rewrite E1; [exact Hp|]. apply recent_0; [apply (ref_gen _ _ _ Hn)|done]. }
    intros age keys k Hin Hk. rewrite !elem_of_cons in Hin. destruct Hin as [[= -> ->]|[[= -> ->]|[[= -> ->]|Hin]]].
    + apply elem_of_cons in Hk as [->|Hk].
      * eapply at_places_impl; [|exact Hkey]. intros x ->. apply recent_0; [apply (ref_gen _ _ _ Hn)|lia].
      * apply (Hkeep 0 a1.1.1); [lia|by left|done].
    + apply (Hkeep 1 a1.1.2); [lia|right; by left|done].
    + apply (Hkeep 2 a1.2); [lia|right; right; by left|done].
    + by apply elem_of_nil in Hin.
  - intros m b age keys Hb Hin Eg. apply (marked_same f1); [done|]. destruct (Hold m b Hb) as [E1|(E1 & i & Hi & Hpl)].
    + rewrite E1 in Eg. assert (∃ keys0, (age, keys0) ∈ [(0, a1.1.1); (1, a1.1.2); (2, a1.2)] ∧ keys0 ⊆ keys) as (keys0 & Hin0 & Hsub).
      { rewrite !elem_of_cons in Hin. destruct Hin as [[= -> ->]|[[= -> ->]|[[= -> ->]|Hin]]]; [..|by apply elem_of_nil in Hin].
        - exists a1.1.1. split; [by left|]. set_solver.
        - exists a1.1.2. split; [right; by left|done].
        - exists a1.2. split; [right; right; by left|done]. }
      destruct (ref_marked _ _ _ Hn m b age keys0 Hb Hin0 Eg) as (k & i & Hk & Hi). exists k, i. split; [by apply Hsub|done].
    + rewrite E1 in Eg. pose proof (ref_gen _ _ _ Hn) as Hg. assert (Hage : age = 0 ∧ keys = key :: a1.1.1).
      { rewrite !elem_of_cons in Hin. destruct Hin as [[= -> ->]|[[= -> ->]|[[= -> ->]|Hin]]]; [done|exfalso..].
        3: by apply elem_of_nil in Hin.
        all: revert Eg; assert (nGeneration f1 = 1 ∨ nGeneration f1 = 2 ∨ nGeneration f1 = 3) as [-> |[-> | ->]] by lia; done. }
      destruct Hage as [_ ->]. exists key, i. split; [by left|]. split; [lia|done].
Qed.

Lemma refines_contains f E a key :
  refines f E a →
  ∃ r, rolling_contains f key = Ok r ∧
    (r = true ↔ ∀ i, 0 <= i < Z.of_nat (Z.to_nat (rHashFuncs f)) →
       marked f (remembered a) (place (rTweak f) (length (data f)) key i).1 (place (rTweak f) (length (data f)) key i).2).
Proof.
  intros Hr. unfold rolling_contains. pose proof (ref_paired _ _ _ Hr) as Hd. pose proof (ref_gen _ _ _ Hr) as Hg.
  destruct (rolling_contains_loop_ok (Z.to_nat (rHashFuncs f)) 0 (rTweak f) key (data f) Hd) as (r & -> & Hiff).
  exists r. split; [done|]. rewrite Hiff. clear r Hiff. destruct a as [[cur p1] p2]. unfold at_places. split; intros Hall i Hi; specialize (Hall i Hi).
  - pose proof (place_range (rTweak f) (data f) key i Hd) as Hpl.
    destruct (place (rTweak f) (length (data f)) key i) as [m b]. cbn [fst snd] in *. destruct Hpl as [_ Hb].
    destruct (gen_before _ _ _ _ Hg Hall) as (age & Hage & Eg).
    assert (∃ keys, (age, keys) ∈ [(0, cur); (1, p1); (2, p2)] ∧ keys ⊆ cur ++ p1 ++ p2) as (keys & Hin & Hsub).
    { destruct Hage as [-> |[-> | ->]]; [exists cur|exists p1|exists p2]; (split; [set_solver|]); set_solver. }
    destruct (ref_marked _ _ _ Hr m b age keys Hb Hin Eg) as (k & j & Hk & Hj). exists k, j. split; [by apply Hsub|done].
  - destruct Hall as (k & j & Hk & Hj & Epl). unfold remembered in Hk.
    assert (∃ age keys, (age, keys) ∈ [(0, cur); (1, p1); (2, p2)] ∧ k ∈ keys) as (age & keys & Hin & Hkey).
    { rewrite !elem_of_app in Hk. destruct Hk as [Hk|[Hk|Hk]]; [exists 0, cur|exists 1, p1|exists 2, p2]; (split; [set_solver|done]). }
    pose proof (ref_places _ _ _ Hr age keys k Hin Hkey j Hj) as Hrec. rewrite Epl in Hrec. cbn [fst snd] in Hrec.
    by apply recent_nonzero in Hrec.
Qed.

(** ** Histories *)

(** All keys inserted, the latest first, against the generations: a generation before the
    current one that is not full has nothing before it. *)
Definition history (E : nat) (hist : list bytes) (a : generations) : Prop :=
  let '(cur, p1, p2) := a in
  ∃ old, hist = cur ++ p1 ++ p2 ++ old ∧ (length cur <= E)%nat ∧
    (length p1 = E ∨ p1 = [] ∧ p2 = [] ∧ old = []) ∧ (length p2 = E ∨ p2 = [] ∧ old = []).

Lemma remember_history E key hist a : (0 < E)%nat → history E hist a → history E (key :: hist) (remember E key a).
Proof.
  intros HE. destruct a as [[cur p1] p2]. intros (old & -> & Hc & H1 & H2). unfold remember.
  destruct (Nat.eqb_spec (length cur) E) as [El|El].
  - exists (p2 ++ old). split; [done|]. split; [cbn; lia|]. split; [by left|].
    destruct H1 as [H1|(-> & -> & ->)]; [by left|by right].
  - exists old. split; [done|]. split; [cbn; lia|]. done.
Qed.

(** The generations are a window of the history: its latest keys, at least two full
    generations of them if it is that long. *)
Lemma history_window E hist a :
  history E hist a →
  remembered a `prefix_of` hist ∧ (length (remembered a) <= 3 * E)%nat ∧
  (remembered a = hist ∨ (2 * E <= length (remembered a))%nat).
Proof.
  destruct a as [[cur p1] p2]. intros (old & -> & Hc & H1 & H2). unfold remembered. split; [exists old; by rewrite <- !app_assoc|].
  rewrite !length_app. destruct H2 as [H2|[-> ->]].
  - split; [|destruct H1 as [H1|(-> & -> & ->)]; [right; lia|by left]].
    destruct H1 as [H1|(-> & -> & ->)]; cbn in *; lia.
  - split; [|left; by rewrite !app_nil_r]. destruct H1 as [H1|(-> & _ & _)]; cbn in *; lia.
Qed.

(** Keys inserted one after another. *)
Fixpoint rolling_insert_all (f : CRollingBloomFilter) (ks : list bytes) : result bloom_error CRollingBloomFilter :=
  match ks with
  | [] => Ok f
  | k :: ks => let! f := rolling_insert f k in rolling_insert_all f ks
  end.

Lemma rolling_insert_all_refines E ks f a hist :
  (0 < E)%nat → refines f E a → history E hist a →
  ∃ f' a', rolling_insert_all f ks = Ok f' ∧ refines f' E a' ∧ history E (rev ks ++ hist) a' ∧ same_places f f'.
Proof.
  intros HE. revert f a hist. induction ks as [|k ks IH]; intros f a hist Hr Hh; cbn [rolling_insert_all].
  { exists f, a. done. }
  destruct (rolling_insert_refines f E a k HE Hr) as (f1 & -> & Hr1 & Hs1). cbn [rbind].
  destruct (IH f1 _ (k :: hist) Hr1 (remember_history E k hist a HE Hh)) as (f' & a' & -> & Hr' & Hh' & Hs').
  exists f', a'. split; [done|]. split; [done|]. cbn [rev]. rewrite <- app_assoc. split; [done|].
  destruct Hs1 as (? & ? & ?), Hs' as (? & ? & ?). split_and!; by etrans.
Qed.

Lemma nth_map_zero {A} (d : list A) k : nth k (map (λ _, 0) d) 0 = 0.
Proof. revert k. induction d as [|x d IH]; intros [|k]; cbn; auto. Qed.

Lemma new_rolling_refines nElements nHashFuncs nFilterBits tweak :
  1 <= nElements < 2 ^ 32 - 1 → 1 <= nFilterBits < 2 ^ 32 - 63 →
  refines (new_rolling nElements nHashFuncs nFilterBits tweak) (Z.to_nat ((nElements + 1) / 2)) ([], [], []).
Proof.
  intros HE HB. unfold new_rolling. cbv zeta. rewrite !u32_small by (widths; lia).
  rewrite Z.shiftl_mul_pow2 by lia. change (2 ^ 1) with 2. set (w := (nFilterBits + 63) / 64).
  assert (Hw : 1 <= w < 2 ^ 26 + 1) by (unfold w; Z.to_euclidean_division_equations; lia).
  split; cbn [rolling_reset data nGeneration nEntriesPerGeneration nEntriesThisGeneration rTweak rHashFuncs fst snd length].
  - exists (Z.to_nat w). rewrite length_map, length_replicate. lia.
  - lia.
  - rewrite Z2Nat.id; [done|]. apply Z.div_pos; lia.
  - done.
  - lia.
  - intros age keys key Hin Hk. exfalso. rewrite !elem_of_cons in Hin.
    destruct Hin as [[= -> ->]|[[= -> ->]|[[= -> ->]|Hin]]]; [by apply elem_of_nil in Hk..|by apply elem_of_nil in Hin].
  - intros m b age keys Hb Hin Eg. exfalso. apply (recent_nonzero 1 age 0); [|done]. exists age.
    rewrite <- Eg. unfold gen. rewrite !nth_map_zero, Z.bits_0. split; [|done].
    rewrite !elem_of_cons in Hin. destruct Hin as [[= -> _]|[[= -> _]|[[= -> _]|Hin]]]; [lia..|by apply elem_of_nil in Hin].
Qed.

(** C29: a rolling filter made for [nElements] entries is exactly the set of places of a
    window of the keys inserted.  Whatever keys have been inserted, no insertion and no query
    reads or writes past the vector of words, and there is a window of the latest keys - all
    of them, or at least [nElements] and never more than three generations - such that a key is
    reported as contained exactly when each of its places is a place of a key of the window.
    So the last [nElements] keys are always found, and what leaves the window leaves no bit. *)
Theorem rolling_remembers (nElements nHashFuncs nFilterBits tweak : Z) (ks : list bytes) :
  1 <= nElements < 2 ^ 32 - 1 → 1 <= nFilterBits < 2 ^ 32 - 63 →
  let f0 := new_rolling nElements nHashFuncs nFilterBits tweak in
  ∃ f window, rolling_insert_all f0 ks = Ok f ∧ window `prefix_of` rev ks ∧
    (window = rev ks ∨ nElements <= Z.of_nat (length window)) ∧
    Z.of_nat (length window) <= 3 * ((nElements + 1) / 2) ∧
    (∀ key, key ∈ window → rolling_contains f key = Ok true) ∧
    ∀ key, ∃ r, rolling_contains f key = Ok r ∧
      (r = true ↔ ∀ i, 0 <= i < nHashFuncs → ∃ key' j, key' ∈ window ∧ 0 <= j < nHashFuncs ∧
         place tweak (length (data f0)) key' j = place tweak (length (data f0)) key i).
Proof.
  intros HE HB f0. set (E := Z.to_nat ((nElements + 1) / 2)).
  assert (HE0 : (0 < E)%nat ∧ Z.of_nat E = (nElements + 1) / 2 ∧ nElements <= 2 * ((nElements + 1) / 2))
    by (unfold E; Z.to_euclidean_division_equations; lia).
  destruct HE0 as (HE0 & HE1 & HE2).
  pose proof (new_rolling_refines nElements nHashFuncs nFilterBits tweak HE HB) as Hr. fold E f0 in Hr.
  destruct (rolling_insert_all_refines E ks _ _ [] HE0 Hr) as (f & a & -> & Hr' & Hh & Hs).
  { exists []. split; [done|]. split; [cbn; lia|]. split; [by right|by right]. }
  rewrite app_nil_r in Hh. destruct (history_window E (rev ks) a Hh) as (Hpre & Hmax & Hmin).
  assert (Hmarked : ∀ keys m b, marked f keys m b ↔
    ∃ key' j, key' ∈ keys ∧ 0 <= j < nHashFuncs ∧ place tweak (length (data f0)) key' j = (m, b)).
  { intros keys m b. destruct Hs as (E1 & E2 & E3). unfold marked. rewrite E1, E2, E3.
    split; intros (k & i & Hk & Hi & Hpl); exists k, i; (split; [done|]; split; [cbn in *; lia|done]). }
  exists f, (remembered a). split; [done|]. split; [done|].
  split; [destruct Hmin as [->|Hmin]; [by left|right; lia]|]. split; [lia|].
  assert (Hq : ∀ key, ∃ r, rolling_contains f key = Ok r ∧
      (r = true ↔ ∀ i, 0 <= i < nHashFuncs → ∃ key' j, key' ∈ remembered a ∧ 0 <= j < nHashFuncs ∧
         place tweak (length (data f0)) key' j = place tweak (length (data f0)) key i)).
  { intros key. destruct (refines_contains f E a key Hr') as (r & Hc & Hiff). exists r. split; [done|]. rewrite Hiff.
    destruct Hs as (E1 & E2 & E3). rewrite E1, E2, E3. split; intros Hall i Hi.
    - destruct (proj1 (Hmarked _ _ _) (Hall i ltac:(cbn; lia))) as (k & j & Hk & Hj & Hpl).
      exists k, j. split; [done|]. split; [done|]. rewrite Hpl. symmetry. apply surjective_pairing.
    - apply Hmarked. destruct (Hall i ltac:(cbn in Hi; lia)) as (k & j & Hk & Hj & Hpl).
      exists k, j. split; [done|]. split; [done|]. rewrite <- surjective_pairing. exact Hpl. }
  split; [|exact Hq]. intros key Hk. destruct (Hq key) as (r & -> & Hiff). f_equal. apply Hiff. intros i Hi. by exists key, i.
Qed.

(** A filter for two keys, with one pair of words and three functions, after five insertions,
    when the generation numbers have come round: the last two keys are found. *)
Lemma rolling_remembers_witness :
  ∃ f, rolling_insert_all (new_rolling 2 3 64 7) [[1]; [2]; [3]; [4]; [5]] = Ok f ∧
    rolling_contains f [5] = Ok true ∧ rolling_contains f [4] = Ok true.
Proof.
  destruct (rolling_remembers 2 3 64 7 [[1]; [2]; [3]; [4]; [5]]) as (f & w & Hf & Hpre & Hlen & _ & Hin & _); [lia|lia|].
  exists f. split; [exact Hf|]. destruct Hpre as [old Hold].
  assert (Hw : ∃ w', w = [5] :: [4] :: w').
  { destruct Hlen as [->|Hlen]; [eexists; reflexivity|]. destruct w as [|k1 [|k2 w]]; cbn in Hlen; [lia|lia|].
    injection Hold as <- <- _. by eexists. }
  destruct Hw as [w' ->]. split; apply Hin; [left|right; left].
Defined.
