(* ===== verification/Locale.v ===== *)
(** Translation catalogues of the graphical client ([src/src/qt/locale/*.ts]) and
    the checks that [src/contrib/devtools/update-translations.py] applies to them
    before they are committed.

    A catalogue is a Qt Linguist document: contexts of messages, each with the
    places it is used at, its source text and its translations.  Texts are kept
    as they stand in the file (UTF-8, with XML entities); [text] is the sequence
    of code points the XML parser hands to the script.  An exception of the
    script is [Err]. *)
From S2P Require Import Prelude.
From stdpp Require Import gmap.
From Stdlib Require Import Strings.Byte.
Open Scope Z_scope.

(** ** Catalogues *)

(** A text of the file: its bytes. *)
Record txt := Txt { txt_bytes : list byte }.
Declare Scope txt_scope.
Delimit Scope txt_scope with txt.
Bind Scope txt_scope with txt.
String Notation txt Txt txt_bytes : txt_scope.
Open Scope txt_scope.

#[global] Instance byte_eq_dec : EqDecision byte := Byte.byte_eq_dec.
#[global] Instance txt_eq_dec : EqDecision txt.
Proof. solve_decision. Defined.

(** [<location filename=... line=.../>]; the file name may be left out. *)
Record location := Loc { filename : option txt; line : txt }.

(** [<message>]: [finished] is false when the translation has the type
    [unfinished]; [translations] has one text, or the numerus forms. *)
Record message := Message {
  numerus : bool;
  locations : list location;
  source : txt;
  finished : bool;
  translations : list txt
}.

Record context := Context { context_name : txt; messages : list message }.

Abbreviation catalogue := (list context) (only parsing).

(** ** Texts *)

Definition bytes_of_txt (s : txt) : bytes := map (λ c, Z.of_N (Byte.to_N c)) (txt_bytes s).

(** Code points of a UTF-8 byte string: [acc] is the part of the code point
    read so far and [k] the number of continuation bytes still to come. *)
Fixpoint utf8_decode (k : nat) (acc : Z) (b : bytes) : list Z :=
  match b with
  | [] => []
  | b0 :: b' =>
      match k with
      | O =>
          if b0 <? 0x80 then b0 :: utf8_decode 0 0 b'
          else if b0 <? 0xe0 then utf8_decode 1 (b0 - 0xc0) b'
          else if b0 <? 0xf0 then utf8_decode 2 (b0 - 0xe0) b'
          else utf8_decode 3 (b0 - 0xf0) b'
      | S k' =>
          let acc := acc * 2 ^ 6 + (b0 - 0x80) in
          match k' with
          | O => acc :: utf8_decode 0 0 b'
          | _ => utf8_decode k' acc b'
          end
      end
  end.

(** The predefined XML entities, as code points after the ampersand. *)
Definition entities : list (bytes * Z) :=
  [([0x61; 0x6d; 0x70; 0x3b], 0x26); ([0x6c; 0x74; 0x3b], 0x3c); ([0x67; 0x74; 0x3b], 0x3e);
   ([0x71; 0x75; 0x6f; 0x74; 0x3b], 0x22); ([0x61; 0x70; 0x6f; 0x73; 0x3b], 0x27)].

Definition starts_with (p s : list Z) : bool := bool_decide (take (length p) s = p).

(** [skip] characters of the entity being read are left to drop. *)
Fixpoint unescape (skip : nat) (s : list Z) : list Z :=
  match s with
  | [] => []
  | c :: s' =>
      match skip with
      | S k => unescape k s'
      | O =>
          if c =? 0x26 then
            match List.find (λ e, starts_with (fst e) s') entities with
            | Some (p, v) => v :: unescape (length p) s'
            | None => c :: unescape 0 s'
            end
          else c :: unescape 0 s'
      end
  end.

Definition text (s : txt) : list Z := unescape 0 (utf8_decode 0 0 (bytes_of_txt s)).

(** ** Checks of the script *)

Inductive py_error : Set := IndexError.

Definition PERCENT : Z := 0x25.

(** [find_format_specifiers]: the character after every percent sign; a percent
    sign at the end raises [IndexError]. *)
Fixpoint find_format_specifiers (s : list Z) : result py_error (list Z) :=
  match s with
  | [] => Ok []
  | c :: s' =>
      if c =? PERCENT then
        match s' with
        | [] => Err IndexError
        | f :: s'' => let! l := find_format_specifiers s'' in Ok (f :: l)
        end
      else find_format_specifiers s'
  end.

(** One of the characters [1] .. [9]. *)
Definition is_numeric (c : Z) : bool := (0x31 <=? c) && (c <=? 0x39).

(** [split_format_specifiers]: the set of Qt placeholders and the strprintf
    conversions in order; the latter are ignored when there are placeholders. *)
Definition split_format_specifiers (specifiers : list Z) : gset Z * list Z :=
  let numeric := List.filter is_numeric specifiers in
  let other := List.filter (λ c, negb (is_numeric c)) specifiers in
  (list_to_set numeric, match numeric with [] => other | _ => [] end).

Definition check_format_specifiers (source translation : list Z) (numerus : bool)
  : result py_error bool :=
  let! f := find_format_specifiers source in
  let source_f := split_format_specifiers f in
  match find_format_specifiers translation with
  | Err IndexError => Ok false
  | Ok g =>
      let translation_f := split_format_specifiers g in
      Ok (bool_decide (source_f = translation_f)
          || (numerus && bool_decide (source_f = (∅, [0x6e]))
              && bool_decide (translation_f = (∅, []))
              && negb (existsb (Z.eqb PERCENT) translation)))
  end.

Definition is_alnum (c : Z) : bool :=
  ((0x61 <=? c) && (c <=? 0x7a)) || ((0x41 <=? c) && (c <=? 0x5a))
  || ((0x30 <=? c) && (c <=? 0x39)).

(** [ADDRESS_REGEXP.match] at this position: [1], [3] or [bc1] and thirty
    alphanumeric characters. *)
Definition address_here (s : list Z) : bool :=
  let alnums r := if 30 <=? Z.of_nat (length (take 30 r)) then forallb is_alnum (take 30 r) else false in
  match s with
  | c :: r =>
      (if (c =? 0x31) || (c =? 0x33) then alnums r else false)
      || (if starts_with [0x62; 0x63; 0x31] s then alnums (drop 3 s) else false)
  | [] => false
  end.

Fixpoint contains_bitcoin_addr (s : list Z) : bool :=
  match s with
  | [] => false
  | _ :: s' => if address_here s then true else contains_bitcoin_addr s'
  end.

(** One translation of a message; an empty element has no text and is skipped. *)
Definition translation_valid (m : message) (t : txt) : result py_error bool :=
  match txt_bytes t with
  | [] => Ok true
  | _ =>
      let! ok := check_format_specifiers (text (source m)) (text t) (numerus m) in
      Ok (ok && negb (contains_bitcoin_addr (text t)))
  end.

Fixpoint all_valid (m : message) (ts : list txt) : result py_error bool :=
  match ts with
  | [] => Ok true
  | t :: ts' =>
      let! ok := translation_valid m t in
      let! oks := all_valid m ts' in
      Ok (ok && oks)
  end.

Definition message_valid (m : message) : result py_error bool := all_valid m (translations m).

(** [postprocess_translations] on a message: an invalid translation is cleared
    and marked unfinished, and unfinished messages are removed; location tags
    are dropped. *)
Definition postprocess_message (m : message) : result py_error (option message) :=
  let! ok := message_valid m in
  Ok (if ok && finished m
      then Some (Message (numerus m) [] (source m) true (translations m)) else None).

Fixpoint postprocess_messages (ms : list message) : result py_error (list message) :=
  match ms with
  | [] => Ok []
  | m :: ms' =>
      let! r := postprocess_message m in
      let! rs := postprocess_messages ms' in
      Ok (match r with Some m' => m' :: rs | None => rs end)
  end.

Fixpoint postprocess_contexts (cs : catalogue) : result py_error catalogue :=
  match cs with
  | [] => Ok []
  | c :: cs' =>
      let! ms := postprocess_messages (messages c) in
      let! rs := postprocess_contexts cs' in
      Ok (Context (context_name c) ms :: rs)
  end.

Definition MIN_NUM_MESSAGES : nat := 10.

Definition num_messages (cs : catalogue) : nat :=
  foldr (λ c n, (length (messages c) + n)%nat) 0%nat cs.

(** The catalogue written back, or [None] when too few messages are left. *)
Definition postprocess_translations (cs : catalogue) : result py_error (option catalogue) :=
  let! cs := postprocess_contexts cs in
  Ok (if bool_decide (num_messages cs < MIN_NUM_MESSAGES)%nat then None else Some cs).

(** ** Lemmas *)

Lemma find_format_specifiers_app a s :
  Forall (λ c, c ≠ PERCENT) a →
  find_format_specifiers (a ++ s) = find_format_specifiers s.
Proof.
  induction 1 as [|c a Hc _ IH]; [done|]. simpl.
  destruct (Z.eqb_spec c PERCENT); [done|]. exact IH.
Qed.

(** A text as plain parts, each followed by a conversion. *)
Fixpoint render (l : list (list Z * Z)) : list Z :=
  match l with
  | [] => []
  | (a, f) :: l' => a ++ PERCENT :: f :: render l'
  end.

Lemma find_render l tail :
  Forall (λ af, Forall (λ c, c ≠ PERCENT) (fst af)) l → Forall (λ c, c ≠ PERCENT) tail →
  find_format_specifiers (render l ++ tail) = Ok (map snd l).
Proof.
  intros Hl Ht. induction Hl as [|[a f] l Ha _ IH]; simpl.
  - rewrite <- (app_nil_r tail), find_format_specifiers_app by done. done.
  - rewrite <- app_assoc, find_format_specifiers_app by done. simpl. by rewrite IH.
Qed.

Lemma find_render_inv n s l :
  (length s <= n)%nat → find_format_specifiers s = Ok l →
  ∃ parts tail, s = render parts ++ tail ∧ map snd parts = l ∧
    Forall (λ af, Forall (λ c, c ≠ PERCENT) (fst af)) parts ∧ Forall (λ c, c ≠ PERCENT) tail.
Proof.
  revert s l. induction n as [|n IH]; intros s l Hn H.
  { destruct s; [|simpl in Hn; lia]. injection H as <-. by exists [], []. }
  destruct s as [|c s]; [injection H as <-; by exists [], []|]. simpl in H, Hn.
  destruct (Z.eqb_spec c PERCENT) as [->|Hc].
  - destruct s as [|f s]; [done|]. apply rbind_Ok in H as (l' & Hl & H). injection H as <-.
    destruct (IH s l') as (parts & tail & -> & <- & Hp & Ht); [simpl in Hn; lia|done|].
    exists (([], f) :: parts), tail. split_and!; try done. by constructor.
  - destruct (IH s l) as (parts & tail & -> & <- & Hp & Ht); [lia|done|].
    destruct parts as [|[a f] parts].
    + exists [], (c :: tail). split_and!; try done. by constructor.
    + apply Forall_cons in Hp as [Ha Hp]. exists ((c :: a, f) :: parts), tail.
      split_and!; try done. constructor; [|done]. by constructor.
Qed.

Lemma all_valid_true m ts :
  all_valid m ts = Ok true ↔ Forall (λ t, translation_valid m t = Ok true) ts.
Proof.
  induction ts as [|t ts IH]; simpl; [by split; [constructor|]|]. rewrite Forall_cons, <- IH.
  split.
  - intros H. apply rbind_Ok in H as (ok & H1 & H). apply rbind_Ok in H as (oks & H2 & H).
    injection H as H. apply andb_true_iff in H as [-> ->]. done.
  - intros [-> ->]. done.
Qed.

(** A message kept by the script, as it is written back. *)
Definition kept (m m' : message) : Prop :=
  message_valid m = Ok true ∧ finished m = true ∧
  m' = Message (numerus m) [] (source m) true (translations m).

Lemma message_valid_locations m l :
  message_valid (Message (numerus m) l (source m) true (translations m)) = message_valid m.
Proof.
  unfold message_valid. cbn [translations].
  assert (Hext : ∀ m' ts, numerus m' = numerus m → source m' = source m →
            all_valid m' ts = all_valid m ts).
  { intros m' ts Hn Hs. induction ts as [|t ts IH]; [done|]. simpl. rewrite IH.
    unfold translation_valid. by rewrite Hn, Hs. }
  by apply Hext.
Qed.

Lemma postprocess_message_spec m r :
  postprocess_message m = Ok r →
  match r with Some m' => kept m m' | None => ¬ ∃ m', kept m m' end.
Proof.
  unfold postprocess_message, kept. intros H. apply rbind_Ok in H as (ok & Hok & H).
  injection H as <-. destruct ok, (finished m); simpl; try done.
  all: rewrite Hok; intros (m' & H1 & H2 & _); congruence.
Qed.

Lemma postprocess_messages_spec ms rs :
  postprocess_messages ms = Ok rs → ∀ m', m' ∈ rs ↔ ∃ m, m ∈ ms ∧ kept m m'.
Proof.
  revert rs. induction ms as [|m ms IH]; intros rs H m'; simpl in H.
  { injection H as <-. split; [by intros ?%elem_of_nil|by intros (m & ?%elem_of_nil & _)]. }
  apply rbind_Ok in H as (r & Hr & H). apply rbind_Ok in H as (rs' & Hrs & H).
  injection H as <-. apply postprocess_message_spec in Hr. specialize (IH rs' Hrs m').
  destruct r as [m1|]; [rewrite elem_of_cons|]; rewrite IH; setoid_rewrite elem_of_cons.
  - split.
    + intros [->|(m0 & ? & ?)]; [exists m|exists m0]; auto.
    + intros (m0 & [->|Hm] & Hk); [left|right; eauto].
      destruct Hr as (_ & _ & ->), Hk as (_ & _ & ->). done.
  - split.
    + intros (m0 & ? & ?). exists m0. auto.
    + intros (m0 & [->|Hm] & Hk); [destruct Hr; by exists m'|eauto].
Qed.

Lemma postprocess_messages_idem ms rs :
  postprocess_messages ms = Ok rs → postprocess_messages rs = Ok rs.
Proof.
  revert rs. induction ms as [|m ms IH]; intros rs H; simpl in H; [by injection H as <-|].
  apply rbind_Ok in H as (r & Hr & H). apply rbind_Ok in H as (rs' & Hrs & H).
  injection H as <-. specialize (IH rs' Hrs). destruct r as [m1|]; [|done].
  apply postprocess_message_spec in Hr as (Hv & _ & ->). simpl.
  unfold postprocess_message. rewrite message_valid_locations, Hv. simpl. by rewrite IH.
Qed.

Lemma postprocess_contexts_idem cs rs :
  postprocess_contexts cs = Ok rs → postprocess_contexts rs = Ok rs.
Proof.
  revert rs. induction cs as [|c cs IH]; intros rs H; simpl in H; [by injection H as <-|].
  apply rbind_Ok in H as (ms & Hms & H). apply rbind_Ok in H as (rs' & Hrs & H).
  injection H as <-. simpl. by rewrite (postprocess_messages_idem _ _ Hms), (IH _ Hrs).
Qed.

Lemma postprocess_contexts_spec cs rs :
  postprocess_contexts cs = Ok rs →
  Forall2 (λ c r, context_name r = context_name c ∧
    ∀ m', m' ∈ messages r ↔ ∃ m, m ∈ messages c ∧ kept m m') cs rs.
Proof.
  revert rs. induction cs as [|c cs IH]; intros rs H; simpl in H; [by injection H as <-|].
  apply rbind_Ok in H as (ms & Hms & H). apply rbind_Ok in H as (rs' & Hrs & H).
  injection H as <-. constructor; [|by apply IH]. split; [done|].
  by apply postprocess_messages_spec.
Qed.

(** ** Properties *)

(** The conversions of a text.  [find_format_specifiers] returns the list [l]
    exactly when the text is made of parts without percent signs, separated by
    the conversions of [l] in order. *)
Theorem format_specifiers_parse (s l : list Z) :
  find_format_specifiers s = Ok l ↔
  ∃ parts tail, s = render parts ++ tail ∧ map snd parts = l ∧
    Forall (λ af, Forall (λ c, c ≠ PERCENT) (fst af)) parts ∧ Forall (λ c, c ≠ PERCENT) tail.
Proof.
  split; [by apply (find_render_inv (length s))|].
  intros (parts & tail & -> & <- & Hp & Ht). by apply find_render.
Qed.

(** An accepted translation asks for the same arguments as its source.  It
    contains a Qt placeholder exactly when the source does; without placeholders
    its strprintf conversions are those of the source, in the same order. *)
Theorem accepted_translation_arguments (source translation : list Z) :
  check_format_specifiers source translation false = Ok true →
  ∃ f g, find_format_specifiers source = Ok f ∧ find_format_specifiers translation = Ok g ∧
    (∀ c, is_numeric c = true → c ∈ f ↔ c ∈ g) ∧
    ((∀ c, c ∈ f → is_numeric c = false) → f = g).
Proof.
  unfold check_format_specifiers. intros H. apply rbind_Ok in H as (f & Hf & H).
  destruct (find_format_specifiers translation) as [g|[]] eqn:Hg; [|done].
  injection H as H. simpl in H. rewrite orb_false_r in H. apply bool_decide_eq_true in H.
  unfold split_format_specifiers in H. injection H as Hset Hlist.
  assert (Hnum : ∀ c, is_numeric c = true → c ∈ f ↔ c ∈ g).
  { intros c Hc. assert (c ∈ (list_to_set (List.filter is_numeric f) : gset Z) ↔
      c ∈ (list_to_set (List.filter is_numeric g) : gset Z)) as Hiff by by rewrite Hset.
    rewrite !elem_of_list_to_set, !list_elem_of_In, !filter_In, <- !list_elem_of_In in Hiff.
    tauto. }
  exists f, g. split_and!; try done. intros Hno.
  assert (Hf0 : ∀ l, (∀ c, c ∈ l → is_numeric c = false) →
    List.filter is_numeric l = [] ∧ List.filter (λ c, negb (is_numeric c)) l = l).
  { induction l as [|c l IH]; [done|]. intros Hl. simpl.
    destruct IH as [IH1 IH2]; [intros x Hx; apply Hl; by right|].
    rewrite (Hl c) by by left. simpl. by rewrite IH1, IH2. }
  assert (Hgno : ∀ c, c ∈ g → is_numeric c = false).
  { intros c Hc. destruct (is_numeric c) eqn:E; [|done]. apply Hnum in Hc; [|done].
    by rewrite (Hno c Hc) in E. }
  destruct (Hf0 f Hno) as [E1 E2], (Hf0 g Hgno) as [E3 E4].
  by rewrite E1, E2, E3, E4 in Hlist.
Qed.

Lemma accepted_translation_arguments_witness :
  let source := text "About %1 and %2" in
  let translation := text "%2 und %1" in
  ∃ f g, find_format_specifiers source = Ok f ∧ find_format_specifiers translation = Ok g ∧
    (∀ c, is_numeric c = true → c ∈ f ↔ c ∈ g) ∧
    ((∀ c, c ∈ f → is_numeric c = false) → f = g).
Proof.
  apply (accepted_translation_arguments (text "About %1 and %2") (text "%2 und %1")).
  vm_compute. reflexivity.
Defined.

(** What the script writes back.  Every context keeps exactly the messages
    that are finished and valid, in the form the script gives them, and running
    the script on its own output changes nothing. *)
Theorem postprocess_sound (cs rs : catalogue) :
  postprocess_translations cs = Ok (Some rs) →
  Forall2 (λ c r, context_name r = context_name c ∧
    ∀ m', m' ∈ messages r ↔ ∃ m, m ∈ messages c ∧ kept m m') cs rs ∧
  postprocess_translations rs = Ok (Some rs).
Proof.
  unfold postprocess_translations. intros H. apply rbind_Ok in H as (rs' & Hrs & H).
  destruct (bool_decide _) eqn:Hn; [done|]. injection H as <-. split.
  - by apply postprocess_contexts_spec.
  - rewrite (postprocess_contexts_idem _ _ Hrs). simpl. by rewrite Hn.
Qed.

(** Ten messages, one of them with a lost argument, and an eleventh that is
    not finished. *)
Definition sample : catalogue :=
  [Context "Sample" (replicate 10 (Message false [Loc None "+1"] "About %1" true ["%1 Info"])
     ++ [Message false [] "About %1" true ["Info"]; Message false [] "Quit" false ["Ende"]])].

Lemma postprocess_sound_witness :
  ∃ rs, postprocess_translations sample = Ok (Some rs) ∧
        postprocess_translations rs = Ok (Some rs).
Proof.
  eexists. split; [vm_compute; reflexivity|].
  eapply (postprocess_sound sample). vm_compute. reflexivity.
Defined.

(** A finished message of [src/src/qt/locale/bitcoin_de.ts] (line 4951). *)
Definition de_private_keys_warning : message :=
  Message false [Loc None "+3"]
    "Warning: Private keys detected in wallet {%s} with disabled private keys" true
    ["Warnung: Private Schlüssel, die in der Brieftasche mit deaktivierten privaten Schlüsseln erkannt werden"].

Example german_argument_lost :
  message_valid de_private_keys_warning = Ok false ∧
  postprocess_message de_private_keys_warning = Ok None.
Proof. split; vm_compute; reflexivity. Qed.
