(* ===== verification/Tinyformat.v ===== *)
(** [strprintf], after [src/src/tinyformat.h], and the messages it is given: [_] of
    [src/src/util.h] and [Translate] of [src/src/qt/bitcoin.cpp].

    A [char*] is the bytes before its terminator.  [TINYFORMAT_ERROR] throws.  How a value
    is written to a stream, and as an integer, is up to its type: an argument is a record
    of both.  The translator of the Qt library is a parameter, with what its documentation
    says of it. *)
From stdpp Require Import list.
From S2P Require Import Prelude Locale.
Open Scope list_scope.
Open Scope Z_scope.

(** ** Streams and arguments *)

Inductive adjustfield : Set := adjust_default | left_ | internal.
Inductive basefield : Set := base_default | dec | oct | hex.
Inductive floatfield : Set := float_default | fixed | scientific.

(** The state of the output stream that a conversion sets. *)
Record stream := Stream {
  width : Z;
  precision : Z;
  fill : Z;
  adjust : adjustfield;
  base : basefield;
  floating : floatfield;
  showpoint : bool;
  showbase : bool;
  showpos : bool;
  uppercase : bool;
  boolalpha : bool
}.

Inductive format_error : Set :=
| NotEnoughConversions | NoVariableWidth | NoVariablePrecision | HexFloat | CountConversion
| Unterminated | NotEnoughArguments | TooManyConversions | NotAnInteger.

(** [FormatArg]: [format] with the stream, the text of the conversion and [ntrunc]. *)
Record FormatArg := Arg {
  format : stream → bytes → Z → bytes;
  toInt : result format_error Z
}.

Definition default_stream : stream :=
  Stream 0 6 0x20 adjust_default base_default float_default false false false false false.

Definition with_width (w : Z) (o : stream) : stream :=
  Stream w (precision o) (fill o) (adjust o) (base o) (floating o) (showpoint o) (showbase o) (showpos o) (uppercase o) (boolalpha o).
Definition with_precision (p : Z) (o : stream) : stream :=
  Stream (width o) p (fill o) (adjust o) (base o) (floating o) (showpoint o) (showbase o) (showpos o) (uppercase o) (boolalpha o).
Definition padded (c : Z) (a : adjustfield) (o : stream) : stream :=
  Stream (width o) (precision o) c a (base o) (floating o) (showpoint o) (showbase o) (showpos o) (uppercase o) (boolalpha o).
Definition with_base (b : basefield) (o : stream) : stream :=
  Stream (width o) (precision o) (fill o) (adjust o) b (floating o) (showpoint o) (showbase o) (showpos o) (uppercase o) (boolalpha o).
Definition with_floating (f : floatfield) (o : stream) : stream :=
  Stream (width o) (precision o) (fill o) (adjust o) (base o) f (showpoint o) (showbase o) (showpos o) (uppercase o) (boolalpha o).
Definition with_alternate (o : stream) : stream :=
  Stream (width o) (precision o) (fill o) (adjust o) (base o) (floating o) true true (showpos o) (uppercase o) (boolalpha o).
Definition with_showpos (o : stream) : stream :=
  Stream (width o) (precision o) (fill o) (adjust o) (base o) (floating o) (showpoint o) (showbase o) true (uppercase o) (boolalpha o).
Definition with_uppercase (o : stream) : stream :=
  Stream (width o) (precision o) (fill o) (adjust o) (base o) (floating o) (showpoint o) (showbase o) (showpos o) true (boolalpha o).
Definition with_boolalpha (o : stream) : stream :=
  Stream (width o) (precision o) (fill o) (adjust o) (base o) (floating o) (showpoint o) (showbase o) (showpos o) (uppercase o) true.

(** ** Parsing *)

Definition is_digit (c : Z) : bool := (0x30 <=? c) && (c <=? 0x39).

(** The character at the pointer; the terminator past the end. *)
Definition char (c : bytes) : Z := match c with x :: _ => x | [] => 0 end.

Fixpoint parseIntAndAdvance (i : Z) (c : bytes) : Z * bytes :=
  match c with
  | x :: c' => if is_digit x then parseIntAndAdvance (i32 (10 * i + (x - 0x30))) c' else (i, c)
  | [] => (i, [])
  end.

(** What is printed, and where the next conversion starts. *)
Fixpoint printFormatStringLiteral (c : bytes) : bytes * bytes :=
  match c with
  | [] => ([], [])
  | x :: c' =>
      if x =? PERCENT then
        match c' with
        | y :: c'' =>
            if y =? PERCENT then let '(l, r) := printFormatStringLiteral c'' in (PERCENT :: l, r) else ([], c)
        | [] => ([], c)
        end
      else let '(l, r) := printFormatStringLiteral c' in (x :: l, r)
  end.

(** The flags: the stream, [spacePadPositive] and [widthExtra]. *)
Fixpoint parse_flags (o : stream) (space : bool) (extra : Z) (c : bytes) : stream * bool * Z * bytes :=
  match c with
  | x :: c' =>
      if x =? 0x23 then parse_flags (with_alternate o) space extra c'
      else if x =? 0x30 then
        parse_flags (match adjust o with left_ => o | _ => padded 0x30 internal o end) space extra c'
      else if x =? 0x2d then parse_flags (padded 0x20 left_ o) space extra c'
      else if x =? 0x20 then parse_flags o (if showpos o then space else true) extra c'
      else if x =? 0x2b then parse_flags (with_showpos o) false 1 c'
      else (o, space, extra, c)
  | [] => (o, space, extra, [])
  end.

(** The width: the stream, [widthSet], the rest of the text and of the arguments. *)
Definition parse_width (o : stream) (c : bytes) (args : list FormatArg)
  : result format_error (stream * bool * bytes * list FormatArg) :=
  let '(o, set, c) :=
    if is_digit (char c) then let '(w, c) := parseIntAndAdvance 0 c in (with_width w o, true, c)
    else (o, false, c) in
  if char c =? 0x2a then
    match args with
    | [] => Err NoVariableWidth
    | a :: args =>
        let! w := toInt a in
        let '(o, w) := if w <? 0 then (padded 0x20 left_ o, i32 (- w)) else (o, w) in
        Ok (with_width w o, true, tail c, args)
    end
  else Ok (o, set, c, args).

(** The precision: the stream, [precisionSet], the rest of the text and of the
    arguments. *)
Definition parse_precision (o : stream) (c : bytes) (args : list FormatArg)
  : result format_error (stream * bool * bytes * list FormatArg) :=
  if char c =? 0x2e then
    let c := tail c in
    if char c =? 0x2a then
      match args with
      | [] => Err NoVariablePrecision
      | a :: args => let! p := toInt a in Ok (with_precision p o, true, tail c, args)
      end
    else
      let '(p, c) :=
        if is_digit (char c) then parseIntAndAdvance 0 c
        else if char c =? 0x2d then (0, snd (parseIntAndAdvance 0 (tail c)))
        else (0, c) in
      Ok (with_precision p o, true, c, args)
  else Ok (o, false, c, args).

Fixpoint skip_length (c : bytes) : bytes :=
  match c with
  | x :: c' => if existsb (Z.eqb x) [0x6c; 0x68; 0x4c; 0x6a; 0x7a; 0x74] then skip_length c' else c
  | [] => []
  end.

(** The conversion character: the stream, [intConversion] and [ntrunc]. *)
Definition conversion (o : stream) (precisionSet : bool) (x : Z) : result format_error (stream * bool * Z) :=
  if existsb (Z.eqb x) [0x75; 0x64; 0x69] then Ok (with_base dec o, true, -1)
  else if x =? 0x6f then Ok (with_base oct o, true, -1)
  else if x =? 0x58 then Ok (with_base hex (with_uppercase o), true, -1)
  else if (x =? 0x78) || (x =? 0x70) then Ok (with_base hex o, true, -1)
  else if x =? 0x45 then Ok (with_base dec (with_floating scientific (with_uppercase o)), false, -1)
  else if x =? 0x65 then Ok (with_base dec (with_floating scientific o), false, -1)
  else if x =? 0x46 then Ok (with_floating fixed (with_uppercase o), false, -1)
  else if x =? 0x66 then Ok (with_floating fixed o, false, -1)
  else if x =? 0x47 then Ok (with_floating float_default (with_base dec (with_uppercase o)), false, -1)
  else if x =? 0x67 then Ok (with_floating float_default (with_base dec o), false, -1)
  else if (x =? 0x61) || (x =? 0x41) then Err HexFloat
  else if x =? 0x63 then Ok (o, false, -1)
  else if x =? 0x73 then Ok (with_boolalpha o, false, if precisionSet then precision o else -1)
  else if x =? 0x6e then Err CountConversion
  else if x =? 0 then Err Unterminated
  else Ok (o, false, -1).

(** [streamStateFromFormat]: the stream, [spacePadPositive], [ntrunc], the rest of the
    text and of the arguments. *)
Definition streamStateFromFormat (fmt : bytes) (args : list FormatArg)
  : result format_error (stream * bool * Z * bytes * list FormatArg) :=
  if negb (char fmt =? PERCENT) then Err NotEnoughConversions
  else
    let '(o, space, extra, c) := parse_flags default_stream false 0 (tail fmt) in
    let! (o, widthSet, c, args) := parse_width o c args in
    let! (o, precisionSet, c, args) := parse_precision o c args in
    let c := skip_length c in
    let! (o, intConversion, ntrunc) := conversion o precisionSet (char c) in
    let o :=
      if intConversion && precisionSet && negb widthSet
      then padded 0x30 internal (with_width (precision o + extra) o) else o in
    Ok (o, space, ntrunc, tail c, args).

(** ** Printing *)

(** What is written: a literal part, or a value and its text. *)
Inductive piece :=
| Literal (b : bytes)
| Shown (a : FormatArg) (b : bytes).

Definition piece_text (p : piece) : bytes := match p with Literal b => b | Shown _ b => b end.

(** The text of a conversion, from [fmt] up to [rest]. *)
Definition spec_text (fmt rest : bytes) : bytes := take (length fmt - length rest) fmt.

Definition print_arg (a : FormatArg) (o : stream) (space : bool) (ntrunc : Z) (spec : bytes) : bytes :=
  if space then map (λ x, if x =? 0x2b then 0x20 else x) (format a (with_showpos o) spec ntrunc)
  else format a o spec ntrunc.

(** [formatImpl].  Every round takes an argument or more: their number bounds the
    rounds. *)
Fixpoint formatImpl_loop (fuel : nat) (fmt : bytes) (args : list FormatArg) : result format_error (list piece) :=
  let '(l, fmt) := printFormatStringLiteral fmt in
  match args, fuel with
  | [], _ => match fmt with [] => Ok [Literal l] | _ => Err TooManyConversions end
  | _, O => Err NotEnoughArguments
  | _, S fuel =>
      let! (o, space, ntrunc, fmtEnd, args) := streamStateFromFormat fmt args in
      match args with
      | [] => Err NotEnoughArguments
      | a :: args =>
          let! out := formatImpl_loop fuel fmtEnd args in
          Ok (Literal l :: Shown a (print_arg a o space ntrunc (spec_text fmt fmtEnd)) :: out)
      end
  end.
Definition formatImpl (fmt : bytes) (args : list FormatArg) : result format_error (list piece) :=
  formatImpl_loop (length args) fmt args.

(** A string as the [char*] it is passed as. *)
Fixpoint c_str (s : bytes) : bytes :=
  match s with
  | [] => []
  | x :: s' => if x =? 0 then [] else x :: c_str s'
  end.

(** [strprintf], and the string it returns. *)
Definition strprintf (fmt : bytes) (args : list FormatArg) : result format_error (list piece) :=
  formatImpl (c_str fmt) args.
Definition str (out : list piece) : bytes := flat_map piece_text out.

(** The values shown, in order. *)
Definition shown (out : list piece) : list FormatArg :=
  flat_map (λ p, match p with Shown a _ => [a] | Literal _ => [] end) out.

(** ** Messages *)

(** The signal [translationInterface.Translate], with the slot of the graphical client or
    without one, and [_]. *)
Definition gettext (slot : option (bytes → bytes)) (psz : bytes) : bytes :=
  match slot with Some f => f psz | None => psz end.

(** [bitcoinc-core], the context that [Translate] asks for. *)
Definition TRANSLATE_CONTEXT : bytes :=
  [0x62; 0x69; 0x74; 0x63; 0x6f; 0x69; 0x6e; 0x63; 0x2d; 0x63; 0x6f; 0x72; 0x65].

Definition Translate (translate : catalogue → bytes → bytes → bytes) (installed : catalogue) (psz : bytes) : bytes :=
  translate installed TRANSLATE_CONTEXT psz.

(** A text of a catalogue, as the UTF-8 bytes the program sees. *)
Definition utf8_text (s : txt) : bytes := unescape 0 (bytes_of_txt s).

(** The installed catalogues have the text [t] for [src] in the context [ctx]. *)
Definition offers (installed : catalogue) (ctx src t : bytes) : Prop :=
  ∃ c m s, c ∈ installed ∧ utf8_text (context_name c) = ctx ∧ m ∈ messages c ∧
    utf8_text (source m) = src ∧ s ∈ translations m ∧ utf8_text s = t.

(** [QCoreApplication::translate]: a translation of the text in the context, from the
    installed catalogues, or else the text. *)
Class QtTranslate (translate : catalogue → bytes → bytes → bytes) : Prop := {
  qt_translate installed ctx src :
    translate installed ctx src = src ∨ offers installed ctx src (translate installed ctx src)
}.

(** ** Conversions without variable width *)

(** The number of conversions of a text that takes no width or precision from an
    argument. *)
Fixpoint conversions (fuel : nat) (fmt : bytes) : result format_error nat :=
  match snd (printFormatStringLiteral fmt), fuel with
  | [], _ => Ok 0%nat
  | _, O => Err Unterminated
  | c, S fuel =>
      let! (_, _, _, rest, _) := streamStateFromFormat c [] in
      let! n := conversions fuel rest in Ok (S n)
  end.
Definition count_conversions (fmt : bytes) : result format_error nat := conversions (length fmt) fmt.

(** A conversion that needs no argument to be read is read alike before any. *)
Lemma streamStateFromFormat_args c r o sp nt rest args :
  streamStateFromFormat c [] = Ok (o, sp, nt, rest, r) →
  streamStateFromFormat c args = Ok (o, sp, nt, rest, args).
Proof.
  unfold streamStateFromFormat. destruct (negb _); [done|].
  destruct (parse_flags _ _ _ _) as [[[o0 sp0] ex] c0]. unfold parse_width.
  destruct (if is_digit (char c0) then _ else _) as [[o1 ws] c1]. destruct (char c1 =? 0x2a); [done|].
  cbn [rbind]. unfold parse_precision. destruct (char c1 =? 0x2e).
  - destruct (char (tail c1) =? 0x2a); [done|]. destruct (if is_digit _ then _ else _) as [p c2]. cbn [rbind].
    destruct (conversion _ _ _) as [[[? ?] ?]|]; [|done]. cbn [rbind]. by intros [= <- <- <- <- _].
  - cbn [rbind]. destruct (conversion _ _ _) as [[[? ?] ?]|]; [|done]. cbn [rbind]. by intros [= <- <- <- <- _].
Qed.

(** With as many arguments as conversions every argument is shown, in order; with any
    other number the call throws. *)
Lemma formatImpl_loop_count fuel fmt n fuel' args :
  conversions fuel fmt = Ok n → (length args <= fuel')%nat →
  if decide (length args = n)
  then ∃ out, formatImpl_loop fuel' fmt args = Ok out ∧ shown out = args
  else ∃ e, formatImpl_loop fuel' fmt args = Err e.
Proof.
  revert fmt n fuel' args. induction fuel as [|fuel IH]; intros fmt n fuel' args;
    destruct fuel' as [|fuel']; cbn [conversions formatImpl_loop];
    destruct (printFormatStringLiteral fmt) as [l c] eqn:El; cbn [snd].
  1,2: destruct c; [|done]; intros [= <-] Hl; destruct args as [|a args]; cbn [length decide] in *;
    [rewrite decide_True by done; by eexists|try (cbn in Hl; lia)].
  - rewrite decide_False by done. by eexists.
  - intros Hc Hl. destruct args; [|cbn in Hl; lia]. destruct c as [|x c].
    + injection Hc as <-. rewrite decide_True by done. by eexists.
    + apply rbind_Ok in Hc as ([[[[o sp] nt] rest] r] & _ & Hc). apply rbind_Ok in Hc as (k & _ & [= <-]).
      rewrite decide_False by done. by eexists.
  - intros Hc Hl. destruct c as [|x c].
    + injection Hc as <-. destruct args as [|a args]; [rewrite decide_True by done; by eexists|].
      rewrite decide_False by done. by eexists.
    + apply rbind_Ok in Hc as ([[[[o sp] nt] rest] r] & Hs & Hc). apply rbind_Ok in Hc as (k & Hk & [= <-]).
      destruct args as [|a args]; [rewrite decide_False by done; by eexists|].
      rewrite (streamStateFromFormat_args _ _ _ _ _ _ (a :: args) Hs). cbn [rbind].
      specialize (IH rest k fuel' args Hk ltac:(cbn in Hl; lia)).
      destruct (decide (length args = k)) as [E|E].
      * rewrite decide_True by (cbn; lia). destruct IH as (out & -> & Hout). cbn [rbind].
        eexists. split; [done|]. cbn. by f_equal.
      * rewrite decide_False by (cbn; lia). destruct IH as (e & ->). by exists e.
Qed.

Lemma strprintf_count fmt n args :
  count_conversions (c_str fmt) = Ok n →
  if decide (length args = n) then ∃ out, strprintf fmt args = Ok out ∧ shown out = args
  else ∃ e, strprintf fmt args = Err e.
Proof. intros Hn. by eapply formatImpl_loop_count. Qed.

(** ** Texts of a catalogue *)

(** A translation in place of a format. *)
Definition formats_alike (src t : txt) : bool :=
  match count_conversions (c_str (utf8_text src)), count_conversions (c_str (utf8_text t)) with
  | Ok n, Ok n' => bool_decide (n = n')
  | _, _ => false
  end.

Lemma formats_alike_prints src t args out :
  formats_alike src t = true → strprintf (utf8_text src) args = Ok out →
  ∃ out', strprintf (utf8_text t) args = Ok out' ∧ shown out' = shown out.
Proof.
  unfold formats_alike. destruct (count_conversions _) as [n|] eqn:En; [|done].
  destruct (count_conversions (c_str (utf8_text t))) as [n'|] eqn:En'; [|done]. intros <-%bool_decide_eq_true Hout.
  pose proof (strprintf_count _ _ args En) as Hs. pose proof (strprintf_count _ _ args En') as Ht.
  destruct (decide (length args = n)); [|destruct Hs; congruence].
  destruct Hs as (out0 & E & <-), Ht as (out' & E' & Hsh). exists out'. split; [done|]. congruence.
Qed.

(** A translation that has another number of conversions. *)
Definition formats_clash (src t : txt) : bool :=
  match count_conversions (c_str (utf8_text src)), count_conversions (c_str (utf8_text t)) with
  | Ok n, Ok n' => negb (bool_decide (n = n'))
  | _, _ => false
  end.

Lemma formats_clash_throws src t args out :
  formats_clash src t = true → strprintf (utf8_text src) args = Ok out →
  ∃ e, strprintf (utf8_text t) args = Err e.
Proof.
  unfold formats_clash. destruct (count_conversions _) as [n|] eqn:En; [|done].
  destruct (count_conversions (c_str (utf8_text t))) as [n'|] eqn:En'; [|done].
  intros Hne%negb_true_iff%bool_decide_eq_false Hout.
  pose proof (strprintf_count _ _ args En) as Hs. pose proof (strprintf_count _ _ args En') as Ht.
  destruct (decide (length args = n)) as [El|]; [|destruct Hs; congruence].
  rewrite decide_False in Ht by congruence. exact Ht.
Qed.

(** ** An implementation of the translator *)

(** The first message with the text in the context, and its first translation. *)
Definition first_translation (installed : catalogue) (ctx src : bytes) : bytes :=
  default src (head (flat_map (λ c,
    if bool_decide (utf8_text (context_name c) = ctx) then
      flat_map (λ m, if bool_decide (utf8_text (source m) = src) then map utf8_text (translations m) else []) (messages c)
    else []) installed)).

#[global] Instance first_translation_qt : QtTranslate first_translation.
Proof.
  split. intros installed ctx src. unfold first_translation.
  destruct (flat_map _ installed) as [|t ts] eqn:E; [by left|right]. cbn.
  assert (Hin : t ∈ flat_map (λ c, if bool_decide (utf8_text (context_name c) = ctx) then
      flat_map (λ m, if bool_decide (utf8_text (source m) = src) then map utf8_text (translations m) else []) (messages c)
    else []) installed) by (rewrite E; by left).
  apply list_elem_of_In, in_flat_map in Hin as (c & Hc & Hin). case_bool_decide as Ectx; [|done].
  apply in_flat_map in Hin as (m & Hm & Hin). case_bool_decide as Esrc; [|done].
  apply in_map_iff in Hin as (s & Es & Hs). exists c, m, s. rewrite !list_elem_of_In. by split_and!.
Qed.
