(* ===== verification/CatalogueDe.v ===== *)
(** The German catalogue, [src/src/qt/locale/bitcoin_de_DE.ts], context by context; a long
    context is cut into parts.  Texts are as in the file. *)
From S2P Require Import Prelude Locale.
Open Scope txt_scope.
Open Scope list_scope.

Definition de_AddressBookPage_1 : list message :=
  [Message false [Loc (Some "../forms/addressbookpage.ui") "+27"]
     "Enter address or label to search" true
     ["Zu suchende Adresse oder Bezeichnung eingeben"];
   Message false [Loc None "+10"]
     "Right-click to edit address or label" true
     ["Rechtsklick zum Bearbeiten der Adresse oder der Bezeichnung"];
   Message false [Loc None "+30"; Loc None "+17"; Loc None "+17"]
     "Create a new address" true
     ["Neue Adresse erstellen"];
   Message false [Loc None "-31"]
     "&amp;New" true
     ["&amp;Neu"];
   Message false [Loc None "+17"]
     "&amp;New Stake address" true
     ["&amp;Neue Stake-Adresse"];
   Message false [Loc None "+17"]
     "&amp;New ColdStake address" true
     ["&amp;Neue ColdStake-Adresse"];
   Message false [Loc None "+14"]
     "Copy the currently selected address to the system clipboard" true
     ["Kopieren der aktuell ausgewählten Adresse in die System-Zwischenablage"];
   Message false [Loc None "+3"]
     "&amp;Copy" true
     ["&amp;Kopieren"];
   Message false [Loc None "+14"]
     "Delete the currently selected address from the list" true
     ["Löschen der aktuell ausgewählten Adresse aus der Liste"];
   Message false [Loc None "+3"]
     "&amp;Delete" true
     ["&amp;Löschen"];
   Message false [Loc None "+27"]
     "Export the data in the current tab to a file" true
     ["Exportieren der Daten auf der aktuellen Registerkarte in eine Datei"];
   Message false [Loc None "+3"]
     "&amp;Export" true
     ["&amp;Export"];
   Message false [Loc None "+20"]
     "C&amp;lose" true
     ["Sch&amp;ließen"];
   Message false [Loc (Some "../addressbookpage.cpp") "+84"]
     "These are your Bitcoin Confidential addresses for sending payments. Always check the amount and the receiving address before sending coins." true
     ["Dies sind Ihre Bitcoin Confidential Adressen zum Tätigen von Überweisungen. Überprüfen Sie immer den Betrag und die Empfangsadresse, bevor Sie Bitcoin Confidential überweisen."];
   Message false [Loc None "+8"]
     "Choose the address to send coins to" true
     ["Wählen Sie die Adresse aus, an die Sie Bitcoin Confidential senden möchten"];
   Message false [Loc None "+4"; Loc None "+22"; Loc None "+28"]
     "C&amp;hoose" true
     ["Auswä&amp;hlen"];
   Message false [Loc None "-44"]
     "Sending addresses" true
     ["Adressen Senden"];
   Message false [Loc None "+12"]
     "Choose the address to receive coins with" true
     ["Wählen Sie die Adresse aus, mit der Sie Bitcoin Confidential empfangen wollen"];
   Message false [Loc None "+10"]
     "Receiving addresses" true
     ["Adressen Empfangen"];
   Message false [Loc None "+1"]
     "These are your Bitcoin Confidential addresses for receiving payments. It is recommended to use a new receiving address for each transaction." true
     ["Dies sind Ihre Bitcoin Confidential-Adressen zum Empfangen von Zahlungen. Es wird empfohlen, für jede Transaktion eine neue Empfangsadresse zu verwenden."];
   Message false [Loc None "+13"]
     "Choose the Stake or ColdStake address" true
     ["Wählen Sie die Stake- oder ColdStake-Adresse"];
   Message false [Loc None "+1"]
     "These are your Bitcoin Confidential Stake and ColdStake addresses." true
     ["Dies sind Ihre Bitcoin Confidential Stake- und ColdStake-Adressen."];
   Message false [Loc None "+16"]
     "Stake and ColdStake addresses" true
     ["Stake- und ColdStake-Adressen"];
   Message false [Loc None "+1"]
     "These addresses cannot be used to receive coins from outside the wallet, such as payments or from exchanges.  Use the Receive tab to generate spending addresses.

Stake addresses, starting with &quot;%1&quot;, are used to convert spending funds into staking funds in the &quot;Convert to Staking&quot; tab. Funds in Stake addresses can be either used for hot staking or the activation of ColdStaking.

ColdStake addresses, starting with &quot;%2&quot;, are used to manually activate staking funds for ColdStaking. There is no need to generate ColdStake addresses when the automated ColdStaking activation from the Staking Status page is used." true
     ["Diese Adressen können nicht verwendet werden, um Bitcoin Confidential von außerhalb dieser Brieftasche zu empfangen. Verwenden Sie die Ansicht &quot;Empfangen&quot;, um normale Bitcoin Confidential Adressen zu generieren.

Stake-Adressen, beginnend mit &quot;%1&quot;, werden verwendet, um normale Bitcoin Confidential in &quot;Staking Bitcoin Confidential&quot; umzuwandeln. Dies ist in der Ansicht &quot;Konvertieren zu Staking&quot; möglich. Bitcoin Confidential in Stake-Adressen können entweder für Hot-Staking oder die Aktivierung von ColdStaking verwendet werden.

ColdStake-Adressen, beginnend mit &quot;%2&quot;, werden verwendet, um ColdStaking manuell zu aktivieren. Es ist nicht erforderlich, ColdStake-Adressen zu generieren, wenn die automatische ColdStaking-Aktivierung in der Ansicht &quot;Staking Status&quot; verwendet wird."];
   Message false [Loc None "+11"]
     "&amp;Copy Address" true
     ["Adresse kopieren"];
   Message false [Loc None "+1"]
     "Copy &amp;Label" true
     ["Label kopieren"];
   Message false [Loc None "+1"]
     "&amp;Edit" true
     ["&amp;Bearbeiten"]].

Definition de_AddressBookPage_2 : list message :=
  [Message false [Loc None "+186"]
     "Export Address List" true
     ["Adressliste exportieren"];
   Message false [Loc None "+1"]
     "Comma separated file (*.csv)" true
     ["Komma getrennte Datei (*.csv)"];
   Message false [Loc None "+13"]
     "Exporting Failed" true
     ["Fehler beim Exportieren"];
   Message false [Loc None "+1"]
     "There was an error trying to save the address list to %1. Please try again." true
     ["Beim Versuch, die Adressliste in %1 zu speichern, ist ein Fehler aufgetreten. Bitte versuchen Sie es erneut."]].

Definition de_AddressTableModel : list message :=
  [Message false [Loc (Some "../addresstablemodel.cpp") "+188"]
     "Label" true
     ["Etikett"];
   Message false [Loc None "+0"]
     "Address" true
     ["Adresse"];
   Message false [Loc None "+36"]
     "(no label)" true
     ["(kein Etikett)"]].

Definition de_AskPassphraseDialog_1 : list message :=
  [Message false [Loc (Some "../forms/askpassphrasedialog.ui") "+26"]
     "Passphrase Dialog" true
     ["Passwort-Dialog"];
   Message false [Loc None "+30"]
     "Enter passphrase" true
     ["Passwort eingeben"];
   Message false [Loc None "+14"]
     "New passphrase" true
     ["Neues Passwort"];
   Message false [Loc None "+14"]
     "Repeat new passphrase" true
     ["Neues Passwort wiederholen"];
   Message false [Loc None "+14"]
     "Show password" true
     ["Passwort anzeigen"];
   Message false [Loc None "+23"]
     "Unlock For Staking Only" true
     ["Entsperren nur für Staking"];
   Message false [Loc (Some "../askpassphrasedialog.cpp") "+48"]
     "Enter the new passphrase to the wallet.&lt;br/&gt;Please use a passphrase of &lt;b&gt;ten or more random characters&lt;/b&gt;, or &lt;b&gt;eight or more words&lt;/b&gt;." true
     ["Geben Sie das neue Passwort für die Brieftasche ein.&lt;br&gt;Verwenden Sie ein Passwort mit &lt;b&gt;zehn oder mehr zufälligen Zeichen&lt;/b&gt;oder acht oder mehr &lt;b&gt;Wörtern&lt;/b&gt;."];
   Message false [Loc None "+3"]
     "Encrypt wallet" true
     ["Brieftasche verschlüsseln"];
   Message false [Loc None "+3"; Loc None "+8"]
     "This operation needs your wallet passphrase to unlock the wallet." true
     ["Dieser Vorgang erfordert das Entsperren der Brieftasche."];
   Message false [Loc None "-3"; Loc None "+9"]
     "Unlock wallet" true
     ["Brieftasche Entsperren"];
   Message false [Loc None "+3"]
     "This operation needs your wallet passphrase to decrypt the wallet." true
     ["Dieser Vorgang erfordert das Entsperren der Brieftasche."];
   Message false [Loc None "+5"]
     "Decrypt wallet" true
     ["Brieftasche Entschlüsseln"];
   Message false [Loc None "+3"]
     "Change passphrase" true
     ["Passwort ändern"];
   Message false [Loc None "+1"]
     "Enter the old passphrase and new passphrase to the wallet." true
     ["Geben Sie das alte Passwort und das neue Passwort ein."];
   Message false [Loc None "+47"]
     "Confirm wallet encryption" true
     ["Bestätigen der Brieftaschen-Verschlüsselung"];
   Message false [Loc None "+1"]
     "Warning: If you encrypt your wallet and lose your passphrase, you will &lt;b&gt;LOSE ALL OF YOUR BITCOIN CONFIDENTIAL&lt;/b&gt;!" true
     ["Warnung: Wenn Sie Ihre Brieftasche verschlüsseln und das Passwort verlieren, werden Sie &lt;b&gt;ALLE IHRER BITCOIN CONFIDENTIAL VERLIEREN&lt;/b&gt;!"];
   Message false [Loc None "+0"]
     "Are you sure you wish to encrypt your wallet?" true
     ["Möchten Sie Ihre Brieftasche wirklich verschlüsseln?"];
   Message false [Loc None "+9"; Loc None "+59"]
     "Wallet encrypted" true
     ["Brieftasche verschlüsselt"];
   Message false [Loc None "-57"]
     "%1 will close now to finish the encryption process. Remember that encrypting your wallet cannot fully protect your Bitcoin Confidential from being stolen by malware infecting your computer." true
     ["%1 wird jetzt geschlossen, um den Verschlüsselungsprozess abzuschließen. Denken Sie daran, dass die Verschlüsselung Ihrer Brieftasche Sie nicht vollständig davor schützt ihre Bitcoin Confidential z.B. durch  einen durch Malware infizierte Computer zu verlieren."];
   Message false [Loc None "+4"]
     "IMPORTANT: Any previous backups you have made of your wallet file should be replaced with the newly generated, encrypted wallet file. For security reasons, previous backups of the unencrypted wallet file will become useless as soon as you start using the new, encrypted wallet." true
     ["WICHTIG: Alle vorherigen Backups, die Sie von Ihrer Brieftaschen-Datei gemacht haben, sollten durch die neu generierte, verschlüsselte Brieftaschen-Datei ersetzt werden. Aus Sicherheitsgründen werden frühere Sicherungen der unverschlüsselten Brieftaschen-Datei nutzlos, sobald Sie mit der neuen, verschlüsselten Brieftasche fortfahren."];
   Message false [Loc None "+9"; Loc None "+7"; Loc None "+43"; Loc None "+6"]
     "Wallet encryption failed" true
     ["Verschlüsseln der Brieftasche fehlgeschlagen"];
   Message false [Loc None "-55"]
     "Wallet encryption failed due to an internal error. Your wallet was not encrypted." true
     ["Die Brieftaschen-Verschlüsselung ist aufgrund eines internen Fehlers fehlgeschlagen. Ihre Brieftasche wurde nicht verschlüsselt."];
   Message false [Loc None "+7"; Loc None "+49"]
     "The supplied passphrases do not match." true
     ["Die eingegebenen Passwörter stimmen nicht überein."];
   Message false [Loc None "-37"]
     "Wallet unlock failed" true
     ["Entsperren der Brieftasche fehlgeschlagen"];
   Message false [Loc None "+1"; Loc None "+11"; Loc None "+19"]
     "The passphrase entered for the wallet decryption was incorrect." true
     ["Das eingegebene Passwort ist falsch."];
   Message false [Loc None "-20"]
     "Wallet decryption failed" true
     ["Entschlüsseln der Brieftasche fehlgeschlagen"];
   Message false [Loc None "+14"]
     "Wallet passphrase was successfully changed." true
     ["Das Brieftaschen Passwort wurde erfolgreich geändert."]].

Definition de_AskPassphraseDialog_2 : list message :=
  [Message false [Loc None "+48"; Loc None "+33"]
     "Warning: The Caps Lock key is on!" true
     ["Warnung: Die Feststell-Taste ist aktiviert!"]].

Definition de_BanTableModel : list message :=
  [Message false [Loc (Some "../bantablemodel.cpp") "+88"]
     "IP/Netmask" true
     ["IP/Netzmaske"];
   Message false [Loc None "+0"]
     "Banned Until" true
     ["Verbannt bis"]].

Definition de_BitcoinGUI_1 : list message :=
  [Message false [Loc (Some "../bitcoingui.cpp") "+94"]
     "Wallet" true
     ["Brieftasche"];
   Message false [Loc None "+2"]
     "Node" true
     ["Knoten"];
   Message false [Loc None "+169"]
     "Overview" true
     ["Überblick"];
   Message false [Loc None "+1"]
     "Show general overview of wallet" true
     ["Allgemeine Übersicht über die Brieftasche anzeigen"];
   Message false [Loc None "+7"]
     "Send" true
     ["Senden"];
   Message false [Loc None "+1"]
     "Send coins to a Bitcoin Confidential Spending address" true
     ["Senden von Bitcoin Confidential an eine vertrauliche Bitcoin Confidential Adresse"];
   Message false [Loc None "+11"]
     "Receive" true
     ["Empfangen"];
   Message false [Loc None "+1"]
     "Request payments (generates Spending address QR codes and bitcoinc: URIs)" true
     ["Zahlungsanforderung (generiert Empfangsadresse QR-Codes und BitcoinConfidential: URIs)"];
   Message false [Loc None "+11"]
     "Transactions" true
     ["Transaktionen"];
   Message false [Loc None "+1"]
     "Browse transaction history" true
     ["Transaktionsverlauf durchsuchen"];
   Message false [Loc None "+7"]
     "Staking" true
     ["Staking"];
   Message false [Loc None "+1"]
     "Setup staking" true
     ["Staking einrichten"];
   Message false [Loc None "+25"]
     "E&amp;xit" true
     ["Beenden"];
   Message false [Loc None "+1"]
     "Quit application" true
     ["Beenden der Anwendung"];
   Message false [Loc None "+3"]
     "&amp;About %1" true
     ["&amp;Über %1"];
   Message false [Loc None "+1"]
     "Show information about %1" true
     ["Anzeigen von Informationen zu %1"];
   Message false [Loc None "+3"]
     "About &amp;Qt" true
     ["Über &amp;Qt"];
   Message false [Loc None "+1"]
     "Show information about Qt" true
     ["Anzeigen von Informationen zu Qt"];
   Message false [Loc None "+2"]
     "&amp;Options..." true
     ["&amp;Optionen..."];
   Message false [Loc None "+1"]
     "Modify configuration options for %1" true
     ["Ändern der Konfigurationsoptionen für %1"];
   Message false [Loc None "+3"]
     "&amp;Show / Hide" true
     ["&amp;Anzeigen / Ausblenden"];
   Message false [Loc None "+1"]
     "Show or hide the main Window" true
     ["Anzeigen oder Ausblenden des Hauptfensters"];
   Message false [Loc None "+2"]
     "&amp;Encrypt Wallet..." true
     ["&amp;Brieftasche verschlüsseln..."];
   Message false [Loc None "+1"]
     "Encrypt the private keys that belong to your wallet" true
     ["Verschlüsseln Sie die privaten Schlüssel, die zu Ihrer Brieftasche gehören"];
   Message false [Loc None "+2"]
     "&amp;Backup Wallet..." true
     ["&amp;Backup Brieftasche..."];
   Message false [Loc None "+1"]
     "Backup wallet to another location" true
     ["Brieftasche an einen anderen Ort sichern"];
   Message false [Loc None "+1"]
     "&amp;Change Passphrase..." true
     ["&amp;Passwort ändern..."];
   Message false [Loc None "+1"]
     "Change the passphrase used for wallet encryption" true
     ["Ändern des Passwortes für die Brieftaschen-Verschlüsselung"];
   Message false [Loc None "+1"]
     "Sign &amp;message..." true
     ["Nachricht signieren..."]].

Definition de_BitcoinGUI_2 : list message :=
  [Message false [Loc None "+1"]
     "Sign messages with your Bitcoin Confidential addresses to prove you own them" true
     ["Signieren Sie Nachrichten mit Ihren Bitcoin Confidential Adressen, um zu beweisen, dass Sie sie besitzen"];
   Message false [Loc None "+1"]
     "&amp;Verify message..." true
     ["&amp;Nachricht überprüfen..."];
   Message false [Loc None "+1"]
     "Verify messages to ensure they were signed with specified Bitcoin Confidential addresses" true
     ["Überprüfen Sie Nachrichten, um sicherzustellen, dass sie mit bestimmten Bitcoin Confidential Adressen signiert wurden"];
   Message false [Loc None "+2"]
     "&amp;Debug window" true
     ["&amp;Debug-Fenster"];
   Message false [Loc None "+1"]
     "Open debugging and diagnostic console" true
     ["Öffnen der Debugging- und Diagnosekonsole"];
   Message false [Loc None "+4"]
     "&amp;Sending addresses..." true
     ["&amp;Adressen zum senden..."];
   Message false [Loc None "+1"]
     "Show the list of used sending addresses and labels" true
     ["Liste der verwendeten Sendeadressen und -Beschriftungen anzeigen"];
   Message false [Loc None "+1"]
     "&amp;Receiving addresses..." true
     ["&amp;Adressen zum Empfangen..."];
   Message false [Loc None "+1"]
     "Show the list of used receiving addresses and labels" true
     ["Liste der verwendeten Empfangsadressen und Beschriftungen anzeigen"];
   Message false [Loc None "+2"]
     "Open &amp;URI..." true
     ["Öffnen &amp;URI..."];
   Message false [Loc None "+1"]
     "Open a bitcoinc: URI or payment request" true
     ["Öffnen eines Bitcoinc: URI oder Zahlungsanforderung"];
   Message false [Loc None "+2"]
     "&amp;Command-line options" true
     ["&amp;Befehlszeilenoptionen"];
   Message false [Loc None "+2"]
     "Show the %1 help message to get a list with possible Bitcoin Confidential command-line options" true
     ["Zeige die %1-Hilfemeldung, um eine Liste mit möglichen Bitcoin Confidential-Befehlszeilenoptionen zu erhalten"];
   Message false [Loc None "+2"]
     "&amp;HD Wallet..." true
     ["&amp;HD Brieftasche..."];
   Message false [Loc None "+45"]
     "&amp;File" true
     ["&amp;Datei"];
   Message false [Loc None "+16"]
     "&amp;Settings" true
     ["&amp;Einstellungen"];
   Message false [Loc None "+9"]
     "&amp;Help" true
     ["&amp;Hilfe"];
   Message false [Loc None "+15"]
     "Tabs toolbar" true
     ["Tabs-Symbolleiste"];
   Message false [Loc None "+113"]
     "default wallet" true
     ["Standard-Brieftasche"];
   Message false [Loc None "+88"]
     "%1 client" true
     ["%1-Client"];
   Message true [Loc None "+189"]
     "%n active connection(s) to Bitcoin Confidential network" true
     ["%n aktive Verbindung(en) zum vertraulichen Bitcoin-Netzwerk"; "%n aktive Verbindung(en) zum Bitcoin Confidential-Netzwerk"];
   Message false [Loc None "+0"]
     "Click to disable network activity." true
     ["Klicken Sie hier, um die Netzwerkaktivität zu deaktivieren."];
   Message false [Loc None "+2"]
     "Network activity disabled." true
     ["Netzwerkaktivität deaktiviert."];
   Message false [Loc None "+0"]
     "Click to enable network activity again." true
     ["Klicken Sie hier, um die Netzwerkaktivität erneut zu aktivieren."];
   Message false [Loc None "+28"]
     "Syncing Headers (%1%)..." true
     ["Synchronisieren von Headern (%1%)..."];
   Message false [Loc None "+26"]
     "Synchronizing with network..." true
     ["Synchronisieren mit dem Netzwerk..."];
   Message false [Loc None "+5"]
     "Indexing blocks on disk..." true
     ["Indizierungsblöcke auf dem Datenträger..."];
   Message false [Loc None "+2"]
     "Processing blocks on disk..." true
     ["Blockverarbeitung auf dem Datenträger..."];
   Message false [Loc None "+4"]
     "Reindexing blocks on disk..." true
     ["Blöcke auf dem Datenträger neu indizieren..."];
   Message false [Loc None "+6"]
     "Connecting to peers..." true
     ["Verbinde zum Netzwerk..."]].

Definition de_BitcoinGUI_3 : list message :=
  [Message true [Loc None "+9"]
     "Processed %n block(s) of transaction history." true
     ["Verarbeitete %n-Block(e) des Transaktionsverlaufs."; "Verarbeitete %n-Block(e) des Transaktionsverlaufs."];
   Message false [Loc None "+5"]
     "Up to date" true
     ["Aktuell"];
   Message false [Loc None "+19"]
     "%1 behind" true
     ["%1 dahinter"];
   Message false [Loc None "+5"]
     "Catching up..." true
     ["Aufholen..."];
   Message false [Loc None "+19"]
     "Last received block was generated %1 ago." true
     ["Der letzte empfangene Block wurde vor %1 generiert."];
   Message false [Loc None "+2"]
     "Transactions after this will not yet be visible." true
     ["Transaktionen danach sind noch nicht sichtbar."];
   Message false [Loc None "+13"]
     "Bitcoin Confidential" true
     ["Bitcoin Confidential"];
   Message false [Loc None "+14"]
     "Error" true
     ["Fehler"];
   Message false [Loc None "+3"]
     "Warning" true
     ["Warnung"];
   Message false [Loc None "+3"]
     "Information" true
     ["Informationen"];
   Message false [Loc None "+116"]
     "Date: %1
" true
     ["Datum: %1"];
   Message false [Loc None "+1"]
     "Amount: %1
" true
     ["Betrag: %1"];
   Message false [Loc None "+2"]
     "Wallet: %1
" true
     ["Brieftasche: %1"];
   Message false [Loc None "+2"]
     "Type: %1
" true
     ["Typ: %1"];
   Message false [Loc None "+2"]
     "Label: %1
" true
     ["Bezeichnung: %1"];
   Message false [Loc None "+2"]
     "Address: %1
" true
     ["Adresse: %1"];
   Message false [Loc None "+1"]
     "Sent transaction" true
     ["Gesendete Transaktion"];
   Message false [Loc None "+0"]
     "Incoming transaction" true
     ["Eingehende Transaktion"];
   Message false [Loc None "+52"]
     "HD key generation is &lt;b&gt;enabled&lt;/b&gt;" true
     ["HD-Schlüsselgenerierung ist &lt;b&gt;aktiviert&lt;/b&gt;"];
   Message false [Loc None "+0"]
     "HD key generation is &lt;b&gt;disabled&lt;/b&gt;" true
     ["HD-Schlüsselgenerierung ist &lt;b&gt;deaktiviert&lt;/b&gt;"];
   Message false [Loc None "+13"]
     "Wallet is &lt;b&gt;not encrypted&lt;/b&gt;. Click the opened lock to encrypt it." true
     ["Brieftasche ist &lt;b&gt;nicht verschlüsselt&lt;/b&gt;. Klicken Sie auf das geöffnete Schloss, um sie zu verschlüsseln."];
   Message false [Loc None "+8"]
     "Wallet is &lt;b&gt;encrypted&lt;/b&gt; and currently &lt;b&gt;unlocked&lt;/b&gt;" true
     ["Brieftasche ist &lt;b&gt;verschlüsselt&lt;/b&gt; und derzeit &lt;b&gt;entsperrt&lt;/b&gt;"];
   Message false [Loc None "+8"]
     "Wallet is &lt;b&gt;encrypted&lt;/b&gt; and currently &lt;b&gt;unlocked&lt;/b&gt; for staking only" true
     ["Brieftasche ist &lt;b&gt;verschlüsselt&lt;/b&gt; und derzeit nur für Staking &lt;b&gt;entsperrt&lt;/b&gt;"];
   Message false [Loc None "+8"]
     "Wallet is &lt;b&gt;encrypted&lt;/b&gt; and currently &lt;b&gt;locked&lt;/b&gt;" true
     ["Brieftasche ist &lt;b&gt;verschlüsselt&lt;/b&gt; und derzeit &lt;b&gt;gesperrt&lt;/b&gt;"];
   Message false [Loc None "+58"]
     "Proxy is &lt;b&gt;enabled&lt;/b&gt;: %1" true
     ["Proxy ist &lt;b&gt;aktiviert&lt;/b&gt;: %1"];
   Message false [Loc None "+28"]
     "Tor is &lt;b&gt;enabled&lt;/b&gt;" true
     ["Tor ist &lt;b&gt;aktiviert&lt;/b&gt;"];
   Message false [Loc None "+3"]
     "Tor is &lt;b&gt;enabled&lt;/b&gt;, but its not the only network used. Use only onlynet=onion." true
     ["Tor ist &lt;b&gt;aktiviert&lt;/b&gt;, aber es ist nicht das einzige Netzwerk, das verwendet wird. Verwenden Sie onlynet=onion."];
   Message false [Loc None "+3"]
     "Tor is &lt;b&gt;disabled&lt;/b&gt;. To enhance your privacy setup consider using tor by setting &lt;b&gt;onlynet=onion&lt;/b&gt; in your &lt;b&gt;bitcoinc.conf&lt;/b&gt;." true
     ["Tor ist &lt;b&gt;deaktiviert&lt;/b&gt;. Um Ihre Privatsphäre-Setup zu verbessern, sollten Sie tor verwenden, indem Sie &lt;b&gt;onlynet=onion&lt;/b&gt; in Ihrem &lt;b&gt;bitcoinc.conf&lt;/b&gt;einstellen."]].

Definition de_BitcoinGUI_4 : list message :=
  [Message false [Loc (Some "../bitcoin.cpp") "+528"]
     "A fatal error occurred. Bitcoin Confidential can no longer continue safely and will quit." true
     ["Ein schwerwiegender Fehler ist aufgetreten. Bitcoin Confidential kann nicht mehr sicher fortfahren und wird beendet."]].

Definition de_CoinControlDialog_1 : list message :=
  [Message false [Loc (Some "../forms/coincontroldialog.ui") "+14"]
     "Coin Selection" true
     ["Münzauswahl"];
   Message false [Loc None "+34"]
     "Quantity:" true
     ["Anzahl:"];
   Message false [Loc None "+29"]
     "Bytes:" true
     ["Byte:"];
   Message false [Loc None "+45"]
     "Amount:" true
     ["Betrag:"];
   Message false [Loc None "+32"]
     "Dust:" true
     ["Dust:"];
   Message false [Loc None "+48"]
     "Fee:" true
     ["Gebühr:"];
   Message false [Loc None "+45"]
     "After Fee:" true
     ["Nach Gebühr:"];
   Message false [Loc None "+32"]
     "Change:" true
     ["Wechselgeld:"];
   Message false [Loc None "+57"]
     "Standard" true
     ["Standard"];
   Message false [Loc None "+5"]
     "Anon" true
     ["Anonym"];
   Message false [Loc None "+14"]
     "Show all" true
     ["Alle anzeigen"];
   Message false [Loc None "+13"]
     "(un)select all" true
     ["Alles (de)selektieren"];
   Message false [Loc None "+16"]
     "Tree mode" true
     ["Baumansicht"];
   Message false [Loc None "+13"]
     "List mode" true
     ["Listenansicht"];
   Message false [Loc None "+74"]
     "Amount" true
     ["Betrag"];
   Message false [Loc None "+8"]
     "Received with label" true
     ["Empfangen über Bezeichnung"];
   Message false [Loc None "+5"]
     "Received with address" true
     ["Empfangen über Adresse"];
   Message false [Loc None "+5"]
     "Date" true
     ["Datum"];
   Message false [Loc None "+5"]
     "Confirmations" true
     ["Bestätigungen"];
   Message false [Loc None "+3"]
     "Confirmed" true
     ["Bestätigt"];
   Message false [Loc (Some "../coincontroldialog.cpp") "+73"]
     "Copy address" true
     ["Adresse kopieren"];
   Message false [Loc None "+1"]
     "Copy label" true
     ["Bezeichnung kopieren"];
   Message false [Loc None "+1"; Loc None "+26"]
     "Copy amount" true
     ["Betrag kopieren"];
   Message false [Loc None "-25"]
     "Copy transaction ID" true
     ["Transaktions-ID kopieren"];
   Message false [Loc None "+1"]
     "Lock unspent" true
     ["Nicht ausgegebenen Betrag sperren"];
   Message false [Loc None "+1"]
     "Unlock unspent" true
     ["Nicht ausgegebenen Betrag entsperren"];
   Message false [Loc None "+22"]
     "Copy quantity" true
     ["Anzahl kopieren"];
   Message false [Loc None "+2"]
     "Copy fee" true
     ["Gebühr kopieren"];
   Message false [Loc None "+1"]
     "Copy after fee" true
     ["Abzüglich Gebühr kopieren"]].

Definition de_CoinControlDialog_2 : list message :=
  [Message false [Loc None "+1"]
     "Copy bytes" true
     ["Byte kopieren"];
   Message false [Loc None "+1"]
     "Copy dust" true
     ["Dust kopieren"];
   Message false [Loc None "+1"]
     "Copy change" true
     ["Wechselgeld kopieren"];
   Message false [Loc None "+340"]
     "(%1 locked)" true
     ["(%1 gesperrt)"];
   Message false [Loc None "+161"]
     "yes" true
     ["ja"];
   Message false [Loc None "+0"]
     "no" true
     ["Nein"];
   Message false [Loc None "+14"]
     "This label turns red if any recipient receives an amount smaller than the current dust threshold." true
     ["Diese Bezeichnung wird rot, wenn irgendein Empfänger einen Betrag kleiner als die derzeitige &quot;Staubgrenze&quot; erhält."];
   Message false [Loc None "+5"]
     "Can vary +/- %1 satoshi(s) per input." true
     ["Kann +/- %1 satoshi(s) pro Eingang variieren."];
   Message false [Loc None "+47"]
     "Hide immature" true
     ["Unreife ausblenden"];
   Message false [Loc None "+2"]
     "Hide locked" true
     ["Gesperrte ausblenden"];
   Message false [Loc None "+6"]
     "Show immature" true
     ["Unreife zeigen"];
   Message false [Loc None "+2"]
     "Show locked" true
     ["Gesperrte zeigen"];
   Message false [Loc None "+26"; Loc None "+66"; Loc None "+11"]
     "(no label)" true
     ["(kein Etikett)"];
   Message false [Loc None "-19"]
     "change from %1 (%2)" true
     ["Wechselgeld von %1 (%2)"];
   Message false [Loc None "+1"; Loc None "+20"]
     "(change)" true
     ["(Wechselgeld)"];
   Message false [Loc None "-17"]
     "spending from %1 (%2)" true
     ["Ausgaben von %1 (%2)"]].

Definition de_EditAddressDialog : list message :=
  [Message false [Loc (Some "../forms/editaddressdialog.ui") "+14"]
     "Edit Address" true
     ["Adresse bearbeiten"];
   Message false [Loc None "+11"]
     "&amp;Label" true
     ["&amp;Bezeichnung"];
   Message false [Loc None "+10"]
     "The label associated with this address list entry" true
     ["Die diesem Adresslisteneintrag zugeordnete Bezeichnung"];
   Message false [Loc None "+7"]
     "&amp;Address" true
     ["&amp;Adresse"];
   Message false [Loc None "+10"]
     "The address associated with this address list entry. This can only be modified for sending addresses." true
     ["Die Adresse, die diesem Adresslisteneintrag zugeordnet ist. Dies kann nur zum Senden von Adressen geändert werden."];
   Message false [Loc (Some "../editaddressdialog.cpp") "+29"]
     "New receiving address" true
     ["Neue Empfangsadresse"];
   Message false [Loc None "+5"]
     "New sending address" true
     ["Neue Sendeadresse"];
   Message false [Loc None "+3"]
     "New Stake address" true
     ["Neue Stake-Adresse"];
   Message false [Loc None "+5"]
     "New ColdStake address" true
     ["Neue ColdStake-Adresse"];
   Message false [Loc None "+5"]
     "Edit receiving address" true
     ["Empfangsadresse bearbeiten"];
   Message false [Loc None "+4"]
     "Edit sending address" true
     ["Sendeadresse bearbeiten"];
   Message false [Loc None "+87"]
     "The entered address &quot;%1&quot; is not a valid Bitcoin Confidential address." true
     ["Die eingegebene Adresse &quot;%1&quot; ist keine gültige Bitcoin Confidential Adresse."];
   Message false [Loc None "+10"]
     "Could not unlock wallet." true
     ["Die Brieftasche konnte nicht entsperrt werden."];
   Message false [Loc None "+5"]
     "New key generation failed." true
     ["Die neue Schlüsselgenerierung ist fehlgeschlagen."];
   Message false [Loc None "+18"]
     "Address &quot;%1&quot; already exists as a receiving address with label &quot;%2&quot; and so cannot be added as a sending address." true
     ["Die Adresse &quot;%1&quot; ist bereits als Empfangsadresse mit der Bezeichnung &quot;%2&quot; vorhanden und kann daher nicht als Sendeadresse hinzugefügt werden."];
   Message false [Loc None "+5"]
     "The entered address &quot;%1&quot; is already in the address book with label &quot;%2&quot;." true
     ["Die eingegebene Adresse &quot;%1&quot; befindet sich bereits im Adressbuch mit der Bezeichnung &quot;%2&quot;."]].

Definition de_FreespaceChecker : list message :=
  [Message false [Loc (Some "../intro.cpp") "+78"]
     "A new data directory will be created." true
     ["Es wird ein neues Datenverzeichnis erstellt."];
   Message false [Loc None "+22"]
     "name" true
     ["name"];
   Message false [Loc None "+2"]
     "Directory already exists. Add %1 if you intend to create a new directory here." true
     ["Verzeichnis ist bereits vorhanden. Fügen Sie %1 hinzu, wenn Sie hier ein neues Verzeichnis erstellen möchten."];
   Message false [Loc None "+3"]
     "Path already exists, and is not a directory." true
     ["Der Pfad ist bereits vorhanden und ist kein Verzeichnis."];
   Message false [Loc None "+7"]
     "Cannot create data directory here." true
     ["Hier kann kein Datenverzeichnis erstellt werden."]].

Definition de_HelpMessageDialog : list message :=
  [Message false [Loc (Some "../utilitydialog.cpp") "+41"]
     "version" true
     ["Version"];
   Message false [Loc None "+5"; Loc None "+2"]
     "(%1-bit)" true
     ["(%1-Bit)"];
   Message false [Loc None "+5"]
     "About %1" true
     ["Über %1"];
   Message false [Loc None "+19"]
     "Command-line options" true
     ["Befehlszeilenoptionen"]].

Definition de_Intro : list message :=
  [Message false [Loc (Some "../forms/intro.ui") "+14"]
     "Welcome" true
     ["Willkommen"];
   Message false [Loc None "+9"]
     "Welcome to %1." true
     ["Willkommen bei %1."];
   Message false [Loc None "+26"]
     "As this is the first time the program is launched, you can choose where %1 will store its data." true
     ["Da das Programm zum ersten Mal gestartet wird, können Sie auswählen, wo %1 seine Daten speichert."];
   Message false [Loc None "+17"]
     "Use the default data directory" true
     ["Verwenden des Standarddatenverzeichnisses"];
   Message false [Loc None "+7"]
     "Use a custom data directory:" true
     ["Verwenden Sie ein benutzerdefiniertes Datenverzeichnis:"];
   Message false [Loc None "+140"]
     "When you click OK, %1 will begin to download and process the full %4 block chain (%2GB) starting with the earliest transactions in %3 when %4 initially launched." true
     ["Wenn Sie auf OK klicken, beginnt %1 mit dem Herunterladen und Verarbeiten der vollständigen %4-Blockkette (%2 GB), beginnend mit den frühesten Transaktionen in %3, als %4 zum ersten Start gestartet wurde."];
   Message false [Loc None "+10"]
     "This initial synchronisation is very demanding, and may expose hardware problems with your computer that had previously gone unnoticed. Each time you run %1, it will continue downloading where it left off." true
     ["Diese anfängliche Synchronisierung ist sehr anspruchsvoll und kann Hardwareprobleme mit Ihrem Computer aufdecken, die zuvor unbemerkt geblieben waren. Jedes Mal, wenn Sie %1 ausführen, wird der Download dort fortgesetzt, wo es aufgehört hat."];
   Message false [Loc None "+10"]
     "If you have chosen to limit block chain storage (pruning), the historical data must still be downloaded and processed, but will be deleted afterward to keep your disk usage low." true
     ["Wenn Sie sich entschieden haben, den Blockkettenspeicher (Beschnitt) einzuschränken, müssen die historischen Daten weiterhin heruntergeladen und verarbeitet werden, werden jedoch anschließend gelöscht, um die Datenträgerauslastung gering zu halten."];
   Message false [Loc (Some "../intro.cpp") "+20"]
     "Bitcoin Confidential" true
     ["Bitcoin Confidential"];
   Message false [Loc None "+6"]
     "At least %1 GB of data will be stored in this directory, and it will grow over time." true
     ["Mindestens %1 GB Daten werden in diesem Verzeichnis gespeichert, und es wird im Laufe der Zeit wachsen."];
   Message false [Loc None "+5"]
     "Approximately %1 GB of data will be stored in this directory." true
     ["Ungefähr %1 GB Daten werden in diesem Verzeichnis gespeichert."];
   Message false [Loc None "+8"]
     "%1 will download and store a copy of the Bitcoin Confidential block chain." true
     ["%1 wird eine Kopie der Bitcoin Confidential Blockkette herunterladen und speichern."];
   Message false [Loc None "+2"]
     "The wallet will also be stored in this directory." true
     ["Die Brieftasche wird auch in diesem Verzeichnis gespeichert."];
   Message false [Loc None "+73"]
     "Error: Specified data directory &quot;%1&quot; cannot be created." true
     ["Fehler: Das angegebene Datenverzeichnis &quot;%1&quot; kann nicht erstellt werden."];
   Message false [Loc None "+27"]
     "Error" true
     ["Fehler"];
   Message true [Loc None "+9"]
     "%n GB of free space available" true
     ["%n GB freier Speicherplatz verfügbar"; "%n GB freier Speicherplatz verfügbar"];
   Message true [Loc None "+3"]
     "(of %n GB needed)" true
     ["(von %n GB erforderlich)"; "(von %n GB erforderlich)"]].

Definition de_MnemonicDialog_1 : list message :=
  [Message false [Loc (Some "../forms/mnemonicdialog.ui") "+14"]
     "HD Wallet Setup" true
     ["HD Wallet Setup"];
   Message false [Loc None "+11"]
     "Generate a mnemonic" true
     ["Generieren eines mnemonic"];
   Message false [Loc None "+10"]
     "Create the wallet" true
     ["Erstellen der Brieftasche"];
   Message false [Loc None "+22"]
     "Write down the Recovery Phrase/Mnemonic below or generate a new one with the desired settings by clicking &quot;NEW MNEMONIC&quot;. Store this phrase in a safe place. The clipboard will be cleared to ensure you have it recorded.  If you are recovering a backup, enter the Recovery Phrase/Mnemonic on the next screen.  Click the &quot;NEXT&quot; button to continue with the wallet creation." true
     ["Notieren Sie sich unten die Wiederherstellungsphrase/Mnemonic oder generieren Sie eine neue mit den gewünschten Einstellungen, indem Sie auf &quot;NEW MNEMONIC&quot; klicken. Bewahren Sie diesen Ausdruck an einem sicheren Ort auf. Die Zwischenablage wird gelöscht, um sicherzustellen, dass Sie sie aufgezeichnet haben.  Wenn Sie eine Sicherung wiederherstellen, geben Sie die Wiederherstellungsphrase/Mnemonic auf dem nächsten Bildschirm ein.  Klicken Sie auf die Schaltfläche &quot;NEXT&quot;, um mit der Erstellung der Brieftasche fortzufahren."];
   Message false [Loc None "+36"]
     "Bytes of Entropy " true
     ["Bytes der Entropie"];
   Message false [Loc None "+7"]
     "Language" true
     ["Sprache"];
   Message false [Loc None "+45"]
     "Entropy is an advanced feature. Your mnemonic may be insecure if this feature is used incorrectly." true
     ["Entropie ist ein erweitertes Feature. Ihr mnemonic ist möglicherweise unsicher, wenn diese Funktion falsch verwendet wird."];
   Message false [Loc None "+22"]
     "Select your language" true
     ["Wählen Sie Ihre Sprache"];
   Message false [Loc None "+4"]
     "English" true
     ["Englisch"];
   Message false [Loc None "+5"]
     "French" true
     ["Französisch"];
   Message false [Loc None "+5"]
     "Japanese" true
     ["Japanisch"];
   Message false [Loc None "+5"]
     "Spanish" true
     ["Spanisch"];
   Message false [Loc None "+5"]
     "Chinese_s" true
     ["Chinese_s"];
   Message false [Loc None "+5"]
     "Chinese_t" true
     ["Chinese_t"];
   Message false [Loc None "+39"]
     "New mnemonic" true
     ["Neue mnemonic"];
   Message false [Loc None "+19"]
     "Next" true
     ["Weiter"];
   Message false [Loc None "+19"; Loc None "+198"]
     "Cancel" true
     ["Abbrechen"];
   Message false [Loc None "-148"]
     "Recovery Passphrase " true
     ["Wiederherstellungscode"];
   Message false [Loc None "+7"]
     "Import Chain" true
     ["Import "];
   Message false [Loc None "+13"]
     "Warning" true
     ["Warnung"];
   Message false [Loc None "+33"]
     "Enter a passphrase to protect your Recovery Phrase (optional)" true
     ["Geben Sie ein Passwort ein, um Ihren Wiederherstellungscode zu schützen (optional)"];
   Message false [Loc None "+13"]
     "Only needed if you&apos;re importing " true
     ["Nur erforderlich, wenn Sie importieren"];
   Message false [Loc None "+16"]
     "Please ensure you backup your Recovery Phrase and Passphrase - they are not recoverable!" true
     ["Bitte stellen Sie sicher, dass Sie Ihr Wiederherstellungscode und das Passwort sichern - sie sind nicht wiederherstellbar!"];
   Message false [Loc None "+28"]
     "Back" true
     ["Zurück"];
   Message false [Loc None "+19"; Loc (Some "../mnemonicdialog.cpp") "+145"]
     "Import" true
     ["Importieren"];
   Message false [Loc (Some "../mnemonicdialog.cpp") "-102"]
     "Optionally enter a passphrase to protect the Recovery Phrase. (This is not a wallet password.)" true
     ["Geben Sie optional ein Passwort ein, um den Wiederherstellungscode zu schützen. (Dies ist kein Brieftaschen-Passwort.)"];
   Message false [Loc None "+2"]
     "Enter the Recovery Phrase/Mnemonic." true
     ["Geben Sie die Wiederherstellungscode/Mnemonic ein."];
   Message false [Loc None "+26"]
     "Create wallet" true
     ["Erstellen von Brieftaschen"];
   Message false [Loc None "+16"]
     "Generate a new Recovery Phrase/Mnemonic with the desired settings by clicking &quot;NEW MNEMONIC&quot;." true
     ["Generieren Sie eine neue Wiederherstellungsphrase/Mnemonic mit den gewünschten Einstellungen, indem Sie auf &quot;NEW MNEMONIC&quot; klicken."]].

Definition de_MnemonicDialog_2 : list message :=
  [Message false [Loc None "+5"]
     "Import a mnemonic" true
     ["Importieren eines mnemonic"];
   Message false [Loc None "+28"]
     "Confirm wallet creation cancel" true
     ["Bestätigen Sie die Erstellung der Brieftasche"];
   Message false [Loc None "+1"]
     "Are you sure you want to cancel the wallet creation?" true
     ["Möchten Sie die Erstellung der Brieftasche wirklich abbrechen?"];
   Message false [Loc None "+0"]
     "This is only recommended for advanced users to import with custom settings in the debug console or with the RPC interface." true
     ["Dies wird nur für fortgeschrittene Benutzer empfohlen, um sie mit benutzerdefinierten Einstellungen in der Debugkonsole oder mit der RPC-Schnittstelle zu importieren."]].

Definition de_ModalOverlay : list message :=
  [Message false [Loc (Some "../forms/modaloverlay.ui") "+14"]
     "Form" true
     ["Formular"];
   Message false [Loc None "+122"]
     "Recent transactions may not yet be visible, and therefore your wallet&apos;s balance might be incorrect. This information will be correct once your wallet has finished synchronizing with the Bitcoin Confidential network, as detailed below." true
     ["Die letzten Transaktionen sind möglicherweise noch nicht sichtbar, und daher ist das Guthaben Ihrer Brieftasche möglicherweise falsch. Diese Informationen werden korrekt sein, sobald Ihre Brieftasche die Synchronisierung mit dem Bitcoin Confidential Netzwerk abgeschlossen hat, wie unten beschrieben."];
   Message false [Loc None "+19"]
     "Attempting to spend coins that are affected by not-yet-displayed transactions will not be accepted by the network." true
     ["Der Versuch, Münzen auszugeben, die von noch nicht angezeigten Transaktionen betroffen sind, wird vom Netzwerk nicht akzeptiert."];
   Message false [Loc None "+63"]
     "Number of blocks left" true
     ["Anzahl der verbleibenden Blöcke"];
   Message false [Loc None "+7"; Loc None "+26"; Loc (Some "../modaloverlay.cpp") "+140"]
     "Unknown..." true
     ["Unbekannt..."];
   Message false [Loc None "-13"]
     "Last block time" true
     ["Letzte Blockzeit"];
   Message false [Loc None "+26"]
     "Progress" true
     ["Fortschritt"];
   Message false [Loc None "+34"]
     "Progress increase per hour" true
     ["Fortschrittssteigerung pro Stunde"];
   Message false [Loc None "+7"; Loc None "+20"]
     "calculating..." true
     ["Berechnung..."];
   Message false [Loc None "-7"]
     "Estimated time left until synced" true
     ["Geschätzte Zeit bis zur Synchronisierung"];
   Message false [Loc None "+40"]
     "Hide" true
     ["Ausblenden"];
   Message false [Loc (Some "../modaloverlay.cpp") "-1"]
     "Unknown. Syncing Headers (%1)..." true
     ["Unbekannt. Header synchronisieren (%1)..."]].

Definition de_OpenURIDialog : list message :=
  [Message false [Loc (Some "../forms/openuridialog.ui") "+14"]
     "Open URI" true
     ["URI öffnen"];
   Message false [Loc None "+6"]
     "Open payment request from URI or file" true
     ["Offene Zahlungsanforderung aus URI oder Datei"];
   Message false [Loc None "+9"]
     "URI:" true
     ["URI:"];
   Message false [Loc None "+10"]
     "Select payment request file" true
     ["Zahlungsanforderungsdatei auswählen"];
   Message false [Loc (Some "../openuridialog.cpp") "+45"]
     "Select payment request file to open" true
     ["Zahlungsanforderungsdatei zum Öffnen auswählen"]].

Definition de_OptionsDialog_1 : list message :=
  [Message false [Loc (Some "../forms/optionsdialog.ui") "+14"]
     "Options" true
     ["Optionen"];
   Message false [Loc None "+14"]
     "&amp;Main" true
     ["Allgemein"];
   Message false [Loc None "+13"]
     "W&amp;allet" true
     ["Brieftasche"];
   Message false [Loc None "+13"]
     "&amp;Network" true
     ["&amp;Netzwerk"];
   Message false [Loc None "+13"]
     "&amp;Window" true
     ["&amp;Fenster"];
   Message false [Loc None "+13"]
     "&amp;Display" true
     ["&amp;Display"];
   Message false [Loc None "+22"]
     "Automatically start %1 after logging in to the system." true
     ["Starten Sie %1 automatisch, nachdem Sie sich am System angemeldet haben."];
   Message false [Loc None "+3"]
     "&amp;Start %1 on system login" true
     ["&amp;Starten Sie %1 bei der Systemanmeldung"];
   Message false [Loc None "+22"]
     "Disables some advanced features but all blocks will still be fully validated. Reverting this setting requires re-downloading the entire blockchain. Actual disk usage may be somewhat higher." true
     ["Deaktiviert einige erweiterte Funktionen, aber alle Blöcke werden weiterhin vollständig validiert. Um diese Einstellung rückgängig zu machen, muss die gesamte Blockchain erneut heruntergeladen werden. Die tatsächliche Festplattenauslastung kann etwas höher sein."];
   Message false [Loc None "+3"]
     "Prune &amp;block storage to" true
     ["Prune &amp;block Storage zu"];
   Message false [Loc None "+17"]
     "GB" true
     ["Gb"];
   Message false [Loc None "+25"]
     "Reverting this setting requires re-downloading the entire blockchain." true
     ["Um diese Einstellung rückgängig zu machen, muss die gesamte Blockchain erneut heruntergeladen werden."];
   Message false [Loc None "+12"]
     "Size of &amp;database cache" true
     ["Größe des &amp;Datenbank-Cache"];
   Message false [Loc None "+23"]
     "MB" true
     ["Mb"];
   Message false [Loc None "+27"]
     "Number of script &amp;verification threads" true
     ["Anzahl der Skript- und Verifizierungsthreads"];
   Message false [Loc None "+19"]
     "(0 = auto, &lt;0 = leave that many cores free)" true
     ["(0 = auto,&lt;0 = leave that many cores free) ==&quot;&quot; leave=&quot;&quot; that=&quot;&quot; many=&quot;&quot; cores=&quot;&quot;&gt;&lt;/0 = leave that many cores free)&gt;"];
   Message false [Loc None "+39"]
     "Expert" true
     ["Experte"];
   Message false [Loc None "+6"]
     "Whether to show coin control features or not." true
     ["Gibt an, ob Münzsteuerungsfunktionen angezeigt werden sollen oder nicht."];
   Message false [Loc None "+3"]
     "Enable coin &amp;control features" true
     ["Aktivieren von Münz- &amp;kontrollfunktionen"];
   Message false [Loc None "+7"]
     "If you disable the spending of unconfirmed change, the change from a transaction cannot be used until that transaction has at least one confirmation. This also affects how your balance is computed." true
     ["Wenn Sie die Ausgabe unbestätigter Änderungen deaktivieren, kann die Änderung aus einer Transaktion erst verwendet werden, wenn diese Transaktion mindestens eine Bestätigung enthält. Dies wirkt sich auch darauf aus, wie Ihr Guthaben berechnet wird."];
   Message false [Loc None "+3"]
     "&amp;Spend unconfirmed change" true
     ["&amp;Spend unbestätigte Änderung"];
   Message false [Loc None "+7"]
     "Display notification dialog for incoming stake transactions." true
     ["Benachrichtigungsdialogfeld für eingehende Einsatztransaktionen anzeigen."];
   Message false [Loc None "+3"]
     "&amp;Show incoming stake notifications" true
     ["&amp;Eingehende Einsatzbenachrichtigungen anzeigen"];
   Message false [Loc None "+27"]
     "Automatically open the Bitcoin Confidential client port on the router. This only works when your router supports UPnP and it is enabled." true
     ["Öffnen Sie automatisch den Bitcoin Confidential-Clientport auf dem Router. Dies funktioniert nur, wenn Ihr Router UPnP unterstützt und aktiviert ist."];
   Message false [Loc None "+3"]
     "Map port using &amp;UPnP" true
     ["Ports über UPnP verwalten"];
   Message false [Loc None "+7"]
     "Accept connections from outside." true
     ["Akzeptieren Sie Verbindungen von außen."];
   Message false [Loc None "+3"]
     "Allow incomin&amp;g connections" true
     ["Eingehende Verbindungen zulassen"];
   Message false [Loc None "+7"]
     "Connect to the Bitcoin Confidential network through a SOCKS5 proxy." true
     ["Verbinden Sie sich mit dem Bitcoin Confidential Netzwerk über einen SOCKS5-Proxy."];
   Message false [Loc None "+3"]
     "&amp;Connect through SOCKS5 proxy (default proxy):" true
     ["&amp;Verbinden über SOCKS5-Proxy (Standardproxy):"]].

Definition de_OptionsDialog_2 : list message :=
  [Message false [Loc None "+9"; Loc None "+193"]
     "Proxy &amp;IP:" true
     ["Proxy &amp;IP:"];
   Message false [Loc None "-168"; Loc None "+193"]
     "IP address of the proxy (e.g. IPv4: 127.0.0.1 / IPv6: ::1)" true
     ["IP-Adresse des Proxys (z.B. IPv4: 127.0.0.1 / IPv6: ::1)"];
   Message false [Loc None "-183"; Loc None "+193"]
     "&amp;Port:" true
     ["&amp;Port:"];
   Message false [Loc None "-168"; Loc None "+193"]
     "Port of the proxy (e.g. 9050)" true
     ["Port des Proxys (z.B. 9050)"];
   Message false [Loc None "-166"]
     "Used for reaching peers via:" true
     ["Wird verwendet, um Peers zu erreichen über:"];
   Message false [Loc None "+13"; Loc None "+23"; Loc None "+23"]
     "Shows if the supplied default SOCKS5 proxy is used to reach peers via this network type." true
     ["Zeigt an, ob der angegebene SOCKS5-Standardproxy verwendet wird, um Peers über diesen Netzwerktyp zu erreichen."];
   Message false [Loc None "-36"]
     "IPv4" true
     ["IPv4"];
   Message false [Loc None "+23"]
     "IPv6" true
     ["IPv6"];
   Message false [Loc None "+23"]
     "Tor" true
     ["Tor"];
   Message false [Loc None "+25"]
     "Connect to the Bitcoin Confidential network through a separate SOCKS5 proxy for Tor hidden services." true
     ["Verbinden Sie sich mit dem Bitcoin Confidential Netzwerk über einen separaten SOCKS5-Proxy für versteckte Tor-Dienste."];
   Message false [Loc None "+3"]
     "Use separate SOCKS&amp;5 proxy to reach peers via Tor hidden services:" true
     ["Verwenden Sie separate SOCKS&amp;5-Proxy, um Peers über versteckte Tor-Dienste zu erreichen:"];
   Message false [Loc None "+111"]
     "Hide the icon from the system tray." true
     ["Blenden Sie das Symbol aus der Taskleiste aus."];
   Message false [Loc None "+3"]
     "&amp;Hide tray icon" true
     ["Taskleistensymbol ausblenden"];
   Message false [Loc None "+7"]
     "Show only a tray icon after minimizing the window." true
     ["Nach dem Minimieren des Fensters nur das Taskleistensymbol anzeigen. "];
   Message false [Loc None "+3"]
     "&amp;Minimize to the tray instead of the taskbar" true
     ["&amp;Minimieren auf das Fach anstelle der Taskleiste"];
   Message false [Loc None "+7"]
     "Minimize instead of exit the application when the window is closed. When this option is enabled, the application will be closed only after selecting Exit in the menu." true
     ["Minimieren, anstatt die Anwendung zu beenden, wenn das Fenster geschlossen wird. Wenn diese Option aktiviert ist, wird die Anwendung erst geschlossen, nachdem Sie im Menü Exit ausgewählt haben."];
   Message false [Loc None "+3"]
     "M&amp;inimize on close" true
     ["Minimieren statt schließen"];
   Message false [Loc None "+26"]
     "User Interface &amp;language:" true
     ["Benutzeroberfläche &amp;Sprache:"];
   Message false [Loc None "+22"]
     "The user interface language can be set here. This setting will take effect after restarting %1." true
     ["Die Sprache der Benutzeroberfläche kann hier eingestellt werden. Diese Einstellung wird nach dem Neustart von %1 wirksam."];
   Message false [Loc None "+11"]
     "&amp;Unit to show amounts in:" true
     ["Einheit zum Anzeigen der Beträge in:"];
   Message false [Loc None "+22"]
     "Choose the default subdivision unit to show in the interface and when sending coins." true
     ["Wählen Sie die Standard-Unterteilungseinheit aus, die in der Schnittstelle und beim Senden von Münzen angezeigt werden soll."];
   Message false [Loc None "+11"; Loc None "+22"]
     "Third party URLs (e.g. a block explorer) that appear in the transactions tab as context menu items. %s in the URL is replaced by transaction hash. Multiple URLs are separated by vertical bar |." true
     ["URLs von Drittanbietern (z. B. ein Block-Explorer), die auf der Registerkarte Transaktionen als Kontextmenüelemente angezeigt werden. %s in der URL wird durch Transaktionshash ersetzt. Mehrere URLs werden durch vertikale Balken |getrennt."];
   Message false [Loc None "-19"]
     "&amp;Third party transaction URLs" true
     ["&amp;Transaktionen von Drittanbietern URLs"];
   Message false [Loc None "+50"]
     "Active command-line options that override above options:" true
     ["Aktive Befehlszeilenoptionen, die oben genannten Optionen überschreiben:"];
   Message false [Loc None "+45"]
     "Open the %1 configuration file from the working directory." true
     ["Öffnen Sie die Konfigurationsdatei %1 aus dem Arbeitsverzeichnis."];
   Message false [Loc None "+3"]
     "Open Configuration File" true
     ["Öffnen der Konfigurationsdatei"];
   Message false [Loc None "+10"]
     "Reset all client options to default." true
     ["Setzen Sie alle Clientoptionen auf den Standardwert zurück."];
   Message false [Loc None "+3"]
     "&amp;Reset Options" true
     ["Optionen zurücksetzten"]].

Definition de_OptionsDialog_3 : list message :=
  [Message false [Loc None "+80"]
     "&amp;OK" true
     ["&amp;OK"];
   Message false [Loc None "+13"]
     "&amp;Cancel" true
     ["&amp;Abbrechen"];
   Message false [Loc (Some "../optionsdialog.cpp") "+109"]
     "default" true
     ["standard"];
   Message false [Loc None "+56"]
     "none" true
     ["nichts"];
   Message false [Loc None "+82"]
     "Confirm options reset" true
     ["Bestätigen sie, dass die Optionen zurückgesetzt werden"];
   Message false [Loc None "+1"; Loc None "+60"]
     "Client restart required to activate changes." true
     ["Clientneustart erforderlich, um Änderungen zu aktivieren."];
   Message false [Loc None "-60"]
     "Client will be shut down. Do you want to proceed?" true
     ["Der Client wird heruntergefahren. Möchten Sie fortfahren?"];
   Message false [Loc None "+15"]
     "Configuration options" true
     ["Konfigurationsoptionen"];
   Message false [Loc None "+1"]
     "The configuration file is used to specify advanced user options which override GUI settings. Additionally, any command-line options will override this configuration file." true
     ["Die Konfigurationsdatei wird verwendet, um erweiterte Benutzeroptionen anzugeben, die GUI-Einstellungen überschreiben. Darüber hinaus überschreiben alle Befehlszeilenoptionen diese Konfigurationsdatei."];
   Message false [Loc None "+5"]
     "Error" true
     ["Fehler"];
   Message false [Loc None "+0"]
     "The configuration file could not be opened." true
     ["Die Konfigurationsdatei konnte nicht geöffnet werden."];
   Message false [Loc None "+43"]
     "This change would require a client restart." true
     ["Diese Änderung würde einen Neustart des Clients erfordern."];
   Message false [Loc None "+28"]
     "The supplied proxy address is invalid." true
     ["Die angegebene Proxyadresse ist ungültig."]].

Definition de_OverviewPage : list message :=
  [Message false [Loc (Some "../forms/overviewpage.ui") "+14"]
     "Form" true
     ["Formular"];
   Message false [Loc None "+43"]
     "Bitcoin Confidential Core" true
     ["Bitcoin Confidential Core"];
   Message false [Loc None "+38"; Loc None "+114"; Loc None "+210"]
     "Pending" true
     ["Ausstehend"];
   Message false [Loc None "-308"]
     "Spending" true
     ["Normal"];
   Message false [Loc None "+108"]
     "Watch-only" true
     ["Beobachten"];
   Message false [Loc None "+73"; Loc None "+191"]
     "Available" true
     ["Verfügbar"];
   Message false [Loc None "-181"]
     "Spendable" true
     ["Spendable"];
   Message false [Loc None "+41"]
     "Staking" true
     ["Staking"];
   Message false [Loc None "+130"]
     "Immature" true
     ["Unreif"];
   Message false [Loc None "+86"]
     "Total" true
     ["Gesamt"];
   Message false [Loc None "+90"]
     "Recent transactions" true
     ["Aktuelle Transaktionen"];
   Message false [Loc None "+19"]
     "The displayed information may be out of date. Your wallet automatically synchronizes with the Bitcoin Confidential network after a connection is established, but this process has not completed yet." true
     ["Die angezeigten Informationen sind möglicherweise veraltet. Ihr Wallet synchronisiert sich automatisch mit dem Bitcoin Confidential Netzwerk, nachdem eine Verbindung hergestellt wurde, aber dieser Prozess ist noch nicht abgeschlossen."]].

Definition de_PaymentServer : list message :=
  [Message false [Loc (Some "../paymentserver.cpp") "+317"; Loc None "+215"; Loc None "+42"; Loc None "+110"; Loc None "+14"; Loc None "+18"]
     "Payment request error" true
     ["Zahlungsanforderungsfehler"];
   Message false [Loc None "-398"]
     "Cannot start bitcoinc: click-to-pay handler" true
     ["Bitcoinc kann nicht gestartet werden: Click-to-Pay-Handler"];
   Message false [Loc None "+82"; Loc None "+21"; Loc None "+13"; Loc None "+7"]
     "URI handling" true
     ["URI-Handhabung"];
   Message false [Loc None "-41"]
     "&apos;bitcoin://&apos; is not a valid URI. Use &apos;bitcoin:&apos; instead." true
     ["&apos;bitcoinc://&apos; ist kein gültiger URI. Verwenden Sie stattdessen &apos;bitcoinc:&apos;."];
   Message false [Loc None "+22"]
     "Payment request fetch URL is invalid: %1" true
     ["URL zum Abrufen von Zahlungsanfragen ist ungültig: %1"];
   Message false [Loc None "+12"]
     "Invalid payment address %1" true
     ["Ungültige Zahlungsadresse %1"];
   Message false [Loc None "+8"]
     "URI cannot be parsed! This can be caused by an invalid Bitcoin Confidential address or malformed URI parameters." true
     ["URI kann nicht analysiert werden! Dies kann durch eine ungültige Vertrauliche Bitcoin-Adresse oder falsch formatierte URI-Parameter verursacht werden."];
   Message false [Loc None "+13"]
     "Payment request file handling" true
     ["Behandlung von Zahlungsanforderungsdateien"];
   Message false [Loc None "+1"]
     "Payment request file cannot be read! This can be caused by an invalid payment request file." true
     ["Zahlungsanforderungsdatei kann nicht gelesen werden! Dies kann durch eine ungültige Zahlungsanforderungsdatei verursacht werden."];
   Message false [Loc None "+61"; Loc None "+9"; Loc None "+31"; Loc None "+10"; Loc None "+17"; Loc None "+85"]
     "Payment request rejected" true
     ["Zahlungsanforderung abgelehnt"];
   Message false [Loc None "-152"]
     "Payment request network doesn&apos;t match client network." true
     ["Das Zahlungsanforderungsnetzwerk stimmt nicht mit dem Clientnetzwerk überein."];
   Message false [Loc None "+9"]
     "Payment request expired." true
     ["Zahlungsanforderung abgelaufen."];
   Message false [Loc None "+6"]
     "Payment request is not initialized." true
     ["Die Zahlungsanforderung wird nicht initialisiert."];
   Message false [Loc None "+26"]
     "Unverified payment requests to custom payment scripts are unsupported." true
     ["Nicht überprüfte Zahlungsanforderungen an benutzerdefinierte Zahlungsskripts werden nicht unterstützt."];
   Message false [Loc None "+9"; Loc None "+17"]
     "Invalid payment request." true
     ["Ungültige Zahlungsanforderung."];
   Message false [Loc None "-10"]
     "Requested payment amount of %1 is too small (considered dust)." true
     ["Der angeforderte Zahlungsbetrag von %1 ist zu klein (als Staub betrachtet)."];
   Message false [Loc None "+65"]
     "Refund from %1" true
     ["Rückerstattung von %1"];
   Message false [Loc None "+31"]
     "Payment request %1 is too large (%2 bytes, allowed %3 bytes)." true
     ["Die Zahlungsanforderung %1 ist zu groß (%2 Bytes, zulässige %3 Bytes)."];
   Message false [Loc None "+9"]
     "Error communicating with %1: %2" true
     ["Fehler bei der Kommunikation mit %1: %2"];
   Message false [Loc None "+20"]
     "Payment request cannot be parsed!" true
     ["Zahlungsanforderung kann nicht analysiert werden!"];
   Message false [Loc None "+13"]
     "Bad response from server %1" true
     ["Fehlerhafte Antwort von Server %1"];
   Message false [Loc None "+22"]
     "Network request error" true
     ["Netzwerkanforderungsfehler"];
   Message false [Loc None "+11"]
     "Payment acknowledged" true
     ["Zahlung anerkannt"]].

Definition de_PeerTableModel : list message :=
  [Message false [Loc (Some "../peertablemodel.cpp") "+109"]
     "NodeId" true
     ["NodeId"];
   Message false [Loc None "+0"]
     "Node/Service" true
     ["Knoten/Dienst"];
   Message false [Loc None "+0"]
     "Ping" true
     ["Ping"];
   Message false [Loc None "+0"]
     "Sent" true
     ["Gesendet"];
   Message false [Loc None "+0"]
     "Received" true
     ["Empfangen"];
   Message false [Loc None "+0"]
     "User Agent" true
     ["User Agent"]].

Definition de_QObject : list message :=
  [Message false [Loc (Some "../bitcoinunits.cpp") "+196"]
     "Amount" true
     ["Betrag"];
   Message false [Loc (Some "../guiutil.cpp") "+96"]
     "Enter Spending address" true
     ["Bitcoin Confidential Adresse eingeben"];
   Message false [Loc None "+12"]
     "Enter ColdStake address" true
     ["ColdStake-Adresse eingeben"];
   Message false [Loc None "+2"]
     "Enter Stake address of remote node" true
     ["Geben Sie die Einsatzadresse des Remoteknotens ein."];
   Message false [Loc None "+2"]
     "Enter Stake address" true
     ["Stake-Adresse eingeben"];
   Message false [Loc None "+687"]
     "%1 d" true
     ["%1 d"];
   Message false [Loc None "+2"]
     "%1 h" true
     ["%1 h"];
   Message false [Loc None "+2"]
     "%1 m" true
     ["%1 m"];
   Message false [Loc None "+2"; Loc None "+53"]
     "%1 s" true
     ["%1 s"];
   Message false [Loc None "-10"]
     "None" true
     ["nichts"];
   Message false [Loc None "+5"]
     "N/A" true
     ["N/A"];
   Message false [Loc None "+0"]
     "%1 ms" true
     ["%1 ms"];
   Message true [Loc None "+18"]
     "%n second(s)" true
     ["%n Sekunde(n)"; "%n Sekunde(n)"];
   Message true [Loc None "+4"]
     "%n minute(s)" true
     ["%n Minute(s)"; "%n Minute(n)"];
   Message true [Loc None "+4"]
     "%n hour(s)" true
     ["%n Stunden(n)"; "%n Stunde(n)"];
   Message true [Loc None "+4"]
     "%n day(s)" true
     ["%n Tag(e)"; "%n Tag(e)"];
   Message true [Loc None "+4"; Loc None "+6"]
     "%n week(s)" true
     ["%n Wochen(e)"; "%n Woche(n)"];
   Message false [Loc None "+0"]
     "%1 and %2" true
     ["%1 und %2"];
   Message true [Loc None "+0"]
     "%n year(s)" true
     ["%n Jahr(e)"; "%n Jahr(e)"];
   Message false [Loc None "+8"]
     "%1 B" true
     ["%1 B"];
   Message false [Loc None "+2"]
     "%1 KB" true
     ["%1 KB"];
   Message false [Loc None "+2"]
     "%1 MB" true
     ["%1 MB"];
   Message false [Loc None "+2"]
     "%1 GB" true
     ["%1 GB"];
   Message false [Loc None "+71"]
     "All spending funds are sent and received anonymously. Only the sender and receiver have details of their side of the transaction. Staking funds need to be converted to spending before sending out of wallet. Funds require %1 confirmations (%2 minutes) before sending." true
     ["Alle Bitcoin Confidential werden anonym gesendet und empfangen. Nur der Absender und der Empfänger haben Details über ihre Seite der Transaktion. &quot;Staking Bitcoin Confidential&quot; müssen in normale Bitcoin Confidential umgewandelt werden, bevor sie aus der Brieftasche versendet werden können. Bitcoin Confidential benötigen %1 Bestätigungen (%2 Minuten) nach dem Empfangen bevor sie weiter versendet werden können."];
   Message false [Loc None "+15"]
     "Staking funds cannot be sent out of your wallet without converting to spending. After converting to spending, %1 confirmations (%2 minutes) are required before sending." true
     ["&quot;Staking Bitcoin Confidential&quot; können nicht aus Ihrer Brieftasche gesendet werden, ohne sie in normale Bitcoin Confidential umzuwandeln. Nach der Konvertierung in normale Bitcoin Confidential sind vor dem weiteren versenden %1 Bestätigungen (%2 Minuten) erforderlich."];
   Message false [Loc (Some "../modaloverlay.cpp") "-29"]
     "unknown" true
     ["unbekannt"];
   Message false [Loc (Some "../bitcoin.cpp") "+186"]
     "%1 didn&apos;t yet exit safely..." true
     ["%1 ist noch nicht sicher beendet..."]].

Definition de_QObject__QObject : list message :=
  [Message false [Loc None "-117"]
     "Error parsing command line arguments: %1." true
     ["Fehler beim Analysieren von Befehlszeilenargumenten: %1."];
   Message false [Loc None "+38"]
     "Error: Specified data directory &quot;%1&quot; does not exist." true
     ["Fehler: Das angegebene Datenverzeichnis &quot;%1&quot; ist nicht vorhanden."];
   Message false [Loc None "+5"]
     "Error: Cannot parse configuration file: %1." true
     ["Fehler: Konfigurationsdatei kann nicht analysiert werden: %1."];
   Message false [Loc None "+14"]
     "Error: %1" true
     ["Fehler: %1"]].

Definition de_QRImageWidget : list message :=
  [Message false [Loc (Some "../receiverequestdialog.cpp") "+32"]
     "&amp;Save Image..." true
     ["&amp;Bild speichern..."];
   Message false [Loc None "+3"]
     "&amp;Copy Image" true
     ["&amp;Bild kopieren"];
   Message false [Loc None "+32"]
     "Save QR Code" true
     ["QR-Code speichern"];
   Message false [Loc None "+0"]
     "PNG Image (*.png)" true
     ["PNG-Bild (*.png)"]].

Definition de_RPCConsole_1 : list message :=
  [Message false [Loc (Some "../forms/debugwindow.ui") "+14"]
     "Debug window" true
     ["Debugfenster"];
   Message false [Loc None "+11"]
     "Information" true
     ["information"];
   Message false [Loc None "+13"]
     "Console" true
     ["trösten"];
   Message false [Loc None "+10"]
     "Network Traffic" true
     ["Netzwerkverkehr"];
   Message false [Loc None "+10"]
     "Peers" true
     ["Gegenstellen"];
   Message false [Loc None "+21"; Loc None "+1004"]
     "User Agent" true
     ["User Agent"];
   Message false [Loc None "-988"]
     "Block chain" true
     ["Blockkette"];
   Message false [Loc None "+7"]
     "Client version" true
     ["Clientversion"];
   Message false [Loc None "+13"]
     "General" true
     ["Allgemein"];
   Message false [Loc None "+13"]
     "Memory Pool" true
     ["Speicherpool"];
   Message false [Loc None "+7"]
     "Current number of blocks" true
     ["Aktuelle Anzahl der Blöcke"];
   Message false [Loc None "+13"]
     "Network" true
     ["Netz"];
   Message false [Loc None "+7"]
     "Number of connections" true
     ["Anzahl der Verbindungen"];
   Message false [Loc None "+7"]
     "Startup time" true
     ["Startzeit"];
   Message false [Loc None "+7"]
     "Name" true
     ["Name"];
   Message false [Loc None "+7"]
     "Last block time" true
     ["Letzte Blockzeit"];
   Message false [Loc None "+7"]
     "Using BerkeleyDB version" true
     ["Verwenden der BerkeleyDB-Version"];
   Message false [Loc None "+10"]
     "Datadir" true
     ["Datadir"];
   Message false [Loc None "+7"]
     "Memory usage" true
     ["Speichernutzung"];
   Message false [Loc None "+7"]
     "Current number of transactions" true
     ["Aktuelle Anzahl der Transaktionen"];
   Message false [Loc None "+10"; Loc None "+16"; Loc None "+16"; Loc None "+16"; Loc None "+19"; Loc None "+16"; Loc None "+16"; Loc None "+16"; Loc None "+16"; Loc None "+16"; Loc None "+16"; Loc None "+644"; Loc None "+23"; Loc None "+23"; Loc None "+23"; Loc None "+23"; Loc None "+23"; Loc None "+23"; Loc None "+23"; Loc None "+23"; Loc None "+23"; Loc None "+23"; Loc None "+23"; Loc None "+23"; Loc None "+23"; Loc None "+23"; Loc None "+26"; Loc None "+23"; Loc None "+23"]
     "N/A" true
     ["N/A"];
   Message false [Loc None "-988"]
     "Debug log file" true
     ["Debugprotokolldatei"];
   Message false [Loc None "+7"]
     "Open the %1 debug log file from the current data directory. This can take a few seconds for large log files." true
     ["Öffnen Sie die %1-Debugprotokolldatei aus dem aktuellen Datenverzeichnis. Dies kann einige Sekunden dauern, wenn große Protokolldateien gespeichert werden."]].

Definition de_RPCConsole_2 : list message :=
  [Message false [Loc None "+3"]
     "&amp;Open" true
     ["Öffnen"];
   Message false [Loc None "+25"]
     "Wallet: " true
     ["Brieftasche:"];
   Message false [Loc None "+8"]
     "(none)" true
     ["(keine)"];
   Message false [Loc None "+27"]
     "Decrease font size" true
     ["Verringern der Schriftgröße"];
   Message false [Loc None "+32"]
     "Increase font size" true
     ["Erhöhen der Schriftgröße"];
   Message false [Loc None "+32"]
     "Clear console" true
     ["Konsole leeren"];
   Message false [Loc None "+111"]
     "&amp;Reset" true
     ["Zurücksetzten"];
   Message false [Loc None "+16"]
     "Totals" true
     ["Summe"];
   Message false [Loc None "+67"; Loc None "+555"]
     "Received" true
     ["Erhalten"];
   Message false [Loc None "-475"; Loc None "+452"]
     "Sent" true
     ["Versendet"];
   Message false [Loc None "-361"]
     "Banned peers" true
     ["Blockierte Gegenstellen"];
   Message false [Loc None "+60"; Loc (Some "../rpcconsole.cpp") "+510"; Loc None "+760"]
     "Select a peer to view detailed information." true
     ["Wählen Sie eine Gegenstelle aus, um detaillierte Informationen anzuzeigen."];
   Message false [Loc None "+25"]
     "Whitelisted" true
     ["Whitelisted"];
   Message false [Loc None "+23"]
     "Direction" true
     ["Richtung"];
   Message false [Loc None "+23"]
     "Version" true
     ["Version"];
   Message false [Loc None "+46"]
     "Services" true
     ["Dienstleistungen"];
   Message false [Loc None "+23"]
     "Starting Block" true
     ["Startblock"];
   Message false [Loc None "+23"]
     "Synced Headers" true
     ["Synchronisierte Header"];
   Message false [Loc None "+23"]
     "Synced Blocks" true
     ["Synchronisierte Blöcke"];
   Message false [Loc None "+23"]
     "Ban Score" true
     ["Ban-Score"];
   Message false [Loc None "+23"]
     "Connection Time" true
     ["Verbindungszeit"];
   Message false [Loc None "+23"]
     "Last Send" true
     ["Letztes Senden"];
   Message false [Loc None "+23"]
     "Last Receive" true
     ["Letztes Empfangen"];
   Message false [Loc None "+69"]
     "Ping Time" true
     ["Ping-Zeit"];
   Message false [Loc None "+23"]
     "The duration of a currently outstanding ping." true
     ["Die Dauer eines derzeit ausstehenden Pings."];
   Message false [Loc None "+3"]
     "Ping Wait" true
     ["Ping Wait"];
   Message false [Loc None "+23"]
     "Min Ping" true
     ["Min Ping"];
   Message false [Loc None "+23"]
     "Time Offset" true
     ["Zeitversatz"];
   Message false [Loc (Some "../rpcconsole.cpp") "-667"]
     "&amp;Disconnect" true
     ["Trennen"]].

Definition de_RPCConsole_3 : list message :=
  [Message false [Loc None "+1"; Loc None "+1"; Loc None "+1"; Loc None "+1"]
     "Ban for" true
     ["Blockiert für"];
   Message false [Loc None "-3"]
     "1 &amp;hour" true
     ["1 &amp;Stunde"];
   Message false [Loc None "+1"]
     "1 &amp;day" true
     ["1 &amp;Tag"];
   Message false [Loc None "+1"]
     "1 &amp;week" true
     ["1 &amp;Woche"];
   Message false [Loc None "+1"]
     "1 &amp;year" true
     ["1 &amp;Jahr"];
   Message false [Loc None "+48"]
     "&amp;Unban" true
     ["&amp;Freigeben"];
   Message false [Loc None "+54"]
     "default wallet" true
     ["Standard-Brieftasche"];
   Message false [Loc None "+110"]
     "Welcome to the %1 RPC console." true
     ["Willkommen in der %1 RPC-Konsole."];
   Message false [Loc None "+1"]
     "Use up and down arrows to navigate history, and %1 to clear screen." true
     ["Verwenden Sie die Pfeile nach oben und unten, um im Verlauf zu navigieren, und %1, um den Bildschirm zu löschen."];
   Message false [Loc None "+1"]
     "Type %1 for an overview of available commands." true
     ["Geben Sie %1 ein, um eine Übersicht über die verfügbaren Befehle anzuzeigen."];
   Message false [Loc None "+1"]
     "For more information on using this console type %1." true
     ["Weitere Informationen zur Verwendung dieses Konsolentyps %1."];
   Message false [Loc None "+2"]
     "WARNING: Scammers have been active, telling users to type commands here, stealing their wallet contents. Do not use this console without fully understanding the ramifications of a command." true
     ["WARNUNG: Betrüger waren aktiv und haben Benutzer aufgefordert, hier Befehle einzugeben und ihre Brieftasche zu stehlen. Verwenden Sie diese Konsole nicht, ohne die Auswirkungen eines Befehls vollständig zu verstehen."];
   Message false [Loc None "+32"]
     "In:" true
     ["Eingehend:"];
   Message false [Loc None "+1"]
     "Out:" true
     ["Ausgehend:"];
   Message false [Loc None "+3"]
     "Network activity disabled" true
     ["Netzwerkaktivität deaktiviert"];
   Message false [Loc None "+68"]
     "Executing command without any wallet" true
     ["Ausführen des Befehls ohne Brieftasche"];
   Message false [Loc None "+2"]
     "Executing command using &quot;%1&quot; wallet" true
     ["Ausführen des Befehls mit der Brieftasche &quot;%1&quot;"];
   Message false [Loc None "+190"]
     "(node id: %1)" true
     ["(Knoten-ID: %1)"];
   Message false [Loc None "+2"]
     "via %1" true
     ["über %1"];
   Message false [Loc None "+3"; Loc None "+1"]
     "never" true
     ["nie"];
   Message false [Loc None "+10"]
     "Inbound" true
     ["Eingehende"];
   Message false [Loc None "+0"]
     "Outbound" true
     ["Ausgehende"];
   Message false [Loc None "+2"]
     "Yes" true
     ["Ja"];
   Message false [Loc None "+0"]
     "No" true
     ["Nein"];
   Message false [Loc None "+12"; Loc None "+6"]
     "Unknown" true
     ["unbekannt"]].

Definition de_ReceiveCoinsDialog : list message :=
  [Message false [Loc (Some "../forms/receivecoinsdialog.ui") "+59"]
     "Stake" true
     ["Stake"];
   Message false [Loc None "+5"]
     "ColdStake" true
     ["ColdStake"];
   Message false [Loc None "+14"]
     "&amp;Request payment" true
     ["&amp;Zahlung anfordern"];
   Message false [Loc None "+17"]
     "Clear all fields of the form." true
     ["Löschen Sie alle Felder des Formulars."];
   Message false [Loc None "+3"]
     "Clear" true
     ["Löschen"];
   Message false [Loc None "+56"; Loc None "+79"]
     "An optional amount to request. Leave this empty or zero to not request a specific amount." true
     ["Anzufordernder Betrag (optional). Lassen Sie dieses Feld leer oder setzen Sie es auf Null, um keinen bestimmten Betrag anzufordern."];
   Message false [Loc None "-57"]
     "Use bech32 encoding." true
     ["Verwende bech32-Codierung."];
   Message false [Loc None "+3"]
     "Generate native segwit (Bech32) address" true
     ["Generieren der nativen Segwit-Adresse (Bech32)"];
   Message false [Loc None "+22"; Loc None "+55"]
     "An optional label to associate with the new receiving address." true
     ["Eine optionale Bezeichnung, die der neuen Empfangsadresse zugeordnet werden soll."];
   Message false [Loc None "-52"]
     "&amp;Label:" true
     ["Bezeichnung:"];
   Message false [Loc None "+13"; Loc None "+53"]
     "An optional message to attach to the payment request, which will be displayed when the request is opened. Note: The message will not be sent with the payment over the Bitcoin Confidential network." true
     ["Eine optionale Nachricht, die an die Zahlungsanforderung angehängt werden kann. Hinweis: Die Nachricht wird nicht mit der Zahlung über das Bitcoin Confidential Netzwerk gesendet."];
   Message false [Loc None "-50"]
     "&amp;Message:" true
     ["Nachricht:"];
   Message false [Loc None "+16"]
     "&amp;Amount:" true
     ["Betrag:"];
   Message false [Loc None "+13"]
     "Use this form to request payments. All fields are &lt;b&gt;optional&lt;/b&gt;." true
     ["Mithilfe dieses Formulars können Sie Zahlungen anfordern. Alle Felder sind &lt;b&gt;optional&lt;/b&gt;."];
   Message false [Loc None "+63"]
     "Requested payments history" true
     ["Verlauf der Zahlungsaufforderungen"];
   Message false [Loc None "+31"]
     "Show the selected request (does the same as double clicking an entry)" true
     ["Anzeigen der ausgewählten Anforderung (entspricht dem Doppelklicken auf einen Eintrag)"];
   Message false [Loc None "+3"]
     "Show" true
     ["Zeigen"];
   Message false [Loc None "+17"]
     "Remove the selected entries from the list" true
     ["Entfernen der ausgewählten Einträge aus der Liste"];
   Message false [Loc None "+3"]
     "Remove" true
     ["Entfernen"];
   Message false [Loc (Some "../receivecoinsdialog.cpp") "+40"]
     "Copy URI" true
     ["URI kopieren"];
   Message false [Loc None "+1"]
     "Copy label" true
     ["Bezeichnung kopieren"];
   Message false [Loc None "+1"]
     "Copy message" true
     ["Nachricht kopieren"];
   Message false [Loc None "+1"]
     "Copy amount" true
     ["Betrag kopieren"]].

Definition de_ReceiveRequestDialog : list message :=
  [Message false [Loc (Some "../forms/receiverequestdialog.ui") "+29"]
     "QR Code" true
     ["QR-Code"];
   Message false [Loc None "+46"]
     "Copy &amp;URI" true
     ["URI kopieren"];
   Message false [Loc None "+10"]
     "Copy &amp;Address" true
     ["Adresse kopieren"];
   Message false [Loc None "+10"]
     "&amp;Save Image..." true
     ["&amp;Bild speichern..."];
   Message false [Loc (Some "../receiverequestdialog.cpp") "+65"]
     "Request payment to %1" true
     ["Zahlung an %1 anfordern"];
   Message false [Loc None "+6"]
     "Payment information" true
     ["Zahlungsinformationen"];
   Message false [Loc None "+1"]
     "URI" true
     ["URI"];
   Message false [Loc None "+2"]
     "Address" true
     ["Adresse"];
   Message false [Loc None "+2"]
     "Amount" true
     ["Betrag"];
   Message false [Loc None "+2"]
     "Label" true
     ["Bezeichnung"];
   Message false [Loc None "+2"]
     "Message" true
     ["Nachricht"];
   Message false [Loc None "+2"]
     "Wallet" true
     ["Brieftasche"];
   Message false [Loc None "+11"]
     "Resulting URI too long, try to reduce the text for label / message." true
     ["Resultierender URI zu lang, versuchen Sie, den Text für Beschriftung / Nachricht zu reduzieren."];
   Message false [Loc None "+5"]
     "Error encoding URI into QR Code." true
     ["Fehler beim Codieren von URI in QR-Code."]].

Definition de_RecentRequestsTableModel : list message :=
  [Message false [Loc (Some "../recentrequeststablemodel.cpp") "+25"; Loc None "+4"]
     "Date" true
     ["Datum"];
   Message false [Loc None "-4"; Loc None "+4"]
     "Label" true
     ["Bezeichnung"];
   Message false [Loc None "+0"]
     "Message" true
     ["Nachricht"];
   Message false [Loc None "+42"]
     "(no label)" true
     ["(keine Bezeichnung)"];
   Message false [Loc None "+9"]
     "(no message)" true
     ["(keine Nachricht)"];
   Message false [Loc None "+8"]
     "(no amount requested)" true
     ["(kein Betrag angefordert)"];
   Message false [Loc None "+45"]
     "Requested" true
     ["Angefordert"]].

Definition de_SendCoinsDialog_1 : list message :=
  [Message false [Loc (Some "../forms/sendcoinsdialog.ui") "+14"; Loc (Some "../sendcoinsdialog.cpp") "+806"]
     "Send Coins" true
     ["Senden Von Münzen"];
   Message false [Loc None "+105"]
     "Inputs..." true
     ["Eingänge..."];
   Message false [Loc None "+10"]
     "automatically selected" true
     ["automatisch ausgewählt"];
   Message false [Loc None "+19"]
     "Insufficient funds!" true
     ["Unzureichende Mittel!"];
   Message false [Loc None "+89"]
     "Quantity:" true
     ["Menge:"];
   Message false [Loc None "+35"]
     "Bytes:" true
     ["Bytes:"];
   Message false [Loc None "+48"]
     "Amount:" true
     ["Betrag:"];
   Message false [Loc None "+32"]
     "Dust:" true
     ["Dust:"];
   Message false [Loc None "+48"]
     "Fee:" true
     ["Gebühr:"];
   Message false [Loc None "+51"]
     "After Fee:" true
     ["Nach Gebühr:"];
   Message false [Loc None "+32"]
     "Change:" true
     ["Wechselgeld:"];
   Message false [Loc None "+44"]
     "If this is activated, but the change address is empty or invalid, change will be sent to a newly generated address." true
     ["Wenn dies aktiviert ist, die Wechselgeldadresse jedoch leer oder ungültig ist, wird das Wechselgeld an eine neu generierte Adresse gesendet."];
   Message false [Loc None "+3"]
     "Custom change address" true
     ["Benutzerdefinierte Wechselgeldadresse"];
   Message false [Loc None "+256"]
     "Transaction Fee:" true
     ["Transaktionsgebühr:"];
   Message false [Loc None "+14"]
     "Choose..." true
     ["Auswählen..."];
   Message false [Loc None "+30"]
     "Using the fallbackfee can result in sending a transaction that will take several hours or days (or never) to confirm. Consider choosing your fee manually or wait until you have validated the complete chain." true
     ["Die Verwendung der Fallback-Gebühr kann zum Senden einer Transaktion führen, deren Bestätigung mehrere Stunden oder Tage (oder nie) dauern wird. Wählen Sie Ihre Gebühr manuell oder warten Sie, bis Sie die gesamte Blockchain validiert haben."];
   Message false [Loc None "+3"]
     "Warning: Fee estimation is currently not possible." true
     ["Warnung: Eine Gebührenschätzung ist derzeit nicht möglich."];
   Message false [Loc None "+26"]
     "collapse fee-settings" true
     ["Reduzieren von Gebühreneinstellungen"];
   Message false [Loc None "+3"]
     "Hide" true
     ["Ausblenden"];
   Message false [Loc None "+48"]
     "Specify a custom fee per kB (1,000 bytes) of the transaction's virtual size.

Note:  Since the fee is calculated on a per-byte basis, a fee of &quot;100 satoshis per kB&quot; for a transaction size of 500 bytes (half of 1 kB) would ultimately yield a fee of only 50 satoshis." true
     ["Geben Sie eine benutzerdefinierte Gebühr pro kB (1.000 Bytes) der virtuellen Transaktionsgröße an.

Anmerkung: Da die Gebühr pro Byte berechnet wird, würde eine Gebühr von &quot;100 Satoshis pro kB&quot; für eine Transaktionsgröße von 500 Bytes (die Hälfte von 1 kB) letztlich eine Gebühr von nur 50 Satoshis ergeben."];
   Message false [Loc None "+5"]
     "per kilobyte" true
     ["pro Kilobyte"];
   Message false [Loc None "+27"; Loc None "+13"]
     "Paying only the minimum fee is just fine as long as there is less transaction volume than space in the blocks. But be aware that this can end up in a never confirming transaction once there is more demand for Bitcoin Confidential transactions than the network can process." true
     ["Nur die Mindestgebühr zu bezahlen ist in Ordnung, solange es weniger Transaktionsvolumen als Platz in den Blöcken gibt. Aber seien Sie sich bewusst, dass dies in einer nie bestätigenden Transaktion enden kann, sobald es mehr Nachfrage nach Bitcoin Vertraulichen Transaktionen gibt, als das Netzwerk verarbeiten kann."];
   Message false [Loc None "+3"]
     "(read the tooltip)" true
     ["(Lesen Sie die QuickInfo)"];
   Message false [Loc None "+29"]
     "Recommended:" true
     ["Empfohlen:"];
   Message false [Loc None "+30"]
     "Custom:" true
     ["Manuell:"];
   Message false [Loc None "+52"]
     "(Smart fee not initialized yet. This usually takes a few blocks...)" true
     ["(Smart-Gebühr noch nicht initialisiert. Dies dauert in der Regel ein paar Blöcke...)"];
   Message false [Loc None "+29"]
     "Confirmation time target:" true
     ["Bestätigungszeitziel:"];
   Message false [Loc None "+74"]
     "With Replace-By-Fee (BIP-125) you can increase a transaction&apos;s fee after it is sent. Without this, a higher fee may be recommended to compensate for increased transaction delay risk." true
     ["Mit Replace-By-Fee (BIP-125) können Sie die Transaktionsgebühr nach dem Senden erhöhen. Andernfalls kann eine höhere Gebühr empfohlen werden, um das erhöhte Transaktionsverzögerungsrisiko auszugleichen."]].

Definition de_SendCoinsDialog_2 : list message :=
  [Message false [Loc None "+3"]
     "Enable Replace-By-Fee" true
     ["Replace-By-Fee aktivieren"];
   Message false [Loc None "+37"]
     "Confirm the send action" true
     ["Bestätigen der Sendeaktion"];
   Message false [Loc None "+3"]
     "S&amp;end" true
     ["Senden"];
   Message false [Loc None "+23"]
     "Clear all fields of the form." true
     ["Löschen Sie alle Felder des Formulars."];
   Message false [Loc None "+3"]
     "Clear &amp;All" true
     ["Alle löschen"];
   Message false [Loc None "+14"]
     "Send to multiple recipients at once" true
     ["Senden an mehrere Empfänger gleichzeitig"];
   Message false [Loc None "+3"]
     "Add &amp;Recipient" true
     ["Empfänger hinzufügen"];
   Message false [Loc None "+38"]
     "Balance:" true
     ["Kontostand:"];
   Message false [Loc (Some "../sendcoinsdialog.cpp") "-730"]
     "Add Output" true
     ["Empfänger hinzufügen"];
   Message false [Loc None "+3"]
     "Add Recipient" true
     ["Empfänger hinzufügen"];
   Message false [Loc None "+14"]
     "Copy quantity" true
     ["Menge kopieren"];
   Message false [Loc None "+1"]
     "Copy amount" true
     ["Betrag kopieren"];
   Message false [Loc None "+1"]
     "Copy fee" true
     ["Gebühr kopieren"];
   Message false [Loc None "+1"]
     "Copy after fee" true
     ["Nach Gebühr kopieren"];
   Message false [Loc None "+1"]
     "Copy bytes" true
     ["Bytes kopieren"];
   Message false [Loc None "+1"]
     "Copy dust" true
     ["Dust kopieren"];
   Message false [Loc None "+1"]
     "Copy change" true
     ["Wechselgeld kopieren"];
   Message false [Loc None "+88"]
     "%1 (%2 blocks)" true
     ["%1 (%2 Blöcke)"];
   Message false [Loc None "+39"]
     "This tab allows manually activating Staking funds for ColdStaking. This will take longer than the &quot;Automated ColdStaking activation&quot; to start staking but wallet does not need to be online for the activation." true
     ["Diese Registerkarte ermöglicht die manuelle Aktivierung von &quot;Staking Bitcoin Confidential&quot; für ColdStaking. Im Vergleich zu der &quot;Automatisierten ColdStaking-Aktivierung&quot; dauert es mit der manuellen Aktivierung länger bis mit dem Staking begonnen wird, aber die Brieftasche muss für die Aktivierung nicht online sein."];
   Message false [Loc None "+103"]
     "Error Remote Staking Address" true
     ["Fehler Remote-Staking-Adresse"];
   Message false [Loc None "+0"]
     "The remote stake address can&apos;t be part of this wallet." true
     ["Die Remote-Staking-Adresse kann nicht Teil dieser Brieftasche sein."];
   Message false [Loc None "+96"]
     "from wallet %1" true
     ["aus der Brieftasche %1"];
   Message false [Loc None "+21"; Loc None "+5"; Loc None "+5"; Loc None "+4"]
     "%1 to %2" true
     ["%1 bis %2"];
   Message false [Loc None "+6"]
     "Are you sure you want to send?" true
     ["Transaktion wirklich senden?"];
   Message false [Loc None "+2"]
     "Please, review your transaction." true
     ["Bitte überprüfen Sie Ihre Transaktion."];
   Message false [Loc None "+11"]
     "Estimated Transaction fee" true
     ["Geschätzte Transaktionsgebühr"];
   Message false [Loc None "+13"]
     "removed for transaction fee" true
     ["für Transaktionsgebühr entfernt"];
   Message false [Loc None "+2"]
     "added as transaction fee" true
     ["als Transaktionsgebühr hinzugefügt"];
   Message false [Loc None "+5"]
     "You can increase the fee later (signals Replace-By-Fee, BIP-125)." true
     ["Sie können die Gebühr später erhöhen (Signale Replace-By-Fee, BIP-125)."]].

Definition de_SendCoinsDialog_3 : list message :=
  [Message false [Loc None "+2"]
     "Not signalling Replace-By-Fee, BIP-125." true
     ["Nicht signalisieren Replace-By-Fee, BIP-125."];
   Message false [Loc None "+12"]
     "Total Amount" true
     ["Gesamtbetrag"];
   Message false [Loc None "+6"]
     "Your hardware device must be connected to sign this txn." true
     ["Ihr Hardwaregerät muss angeschlossen sein, um dieses Transaktion signieren zu können."];
   Message false [Loc None "+4"]
     "Confirm send coins" true
     ["Bestätigen des Sendens"];
   Message false [Loc None "+248"]
     "The recipient address is not valid. Please recheck." true
     ["Die Empfängeradresse ist ungültig. Bitte überprüfen Sie dies erneut."];
   Message false [Loc None "+3"]
     "The amount to pay must be larger than 0." true
     ["Der zu zahlende Betrag muss größer als 0 sein."];
   Message false [Loc None "+3"]
     "The amount exceeds your balance." true
     ["Der Betrag übersteigt Ihren Kontostand."];
   Message false [Loc None "+3"]
     "The total exceeds your balance when the %1 transaction fee is included." true
     ["Der Gesamtbetrag übersteigt Ihren Kontostand, wenn die Buchungsgebühr %1 enthalten ist."];
   Message false [Loc None "+3"]
     "Duplicate address found: addresses should only be used once each." true
     ["Doppelte Adresse gefunden: Adressen sollten nur einmal verwendet werden."];
   Message false [Loc None "+3"]
     "Transaction creation failed!" true
     ["Die Transaktionserstellung ist fehlgeschlagen!"];
   Message false [Loc None "+4"]
     "The transaction was rejected with the following reason: %1" true
     ["Die Transaktion wurde mit folgendem Grund abgelehnt: %1"];
   Message false [Loc None "+4"]
     "A fee higher than %1 is considered an absurdly high fee." true
     ["Eine Gebühr von mehr als %1 gilt als absurd hohe Gebühr."];
   Message false [Loc None "+3"]
     "Payment request expired." true
     ["Zahlungsanforderung abgelaufen."];
   Message false [Loc None "+96"]
     "Pay only the required fee of %1" true
     ["Zahlen Sie nur die erforderliche Gebühr von %1"];
   Message true [Loc None "+76"]
     "Estimated to begin confirmation within %n block(s)." true
     ["Geschätzt, um die Bestätigung innerhalb von %n Block(s) zu beginnen."; "Geschätzt, um die Bestätigung innerhalb von %n Block(s) zu beginnen."];
   Message false [Loc None "+130"]
     "Warning: Invalid Bitcoin Confidential address" true
     ["Warnung: Ungültige Bitcoin Confidential Adresse"];
   Message false [Loc None "+8"]
     "Error custom change address" true
     ["Fehler benutzerdefinierte Wechselgeld-Adresse"];
   Message false [Loc None "+0"]
     "The address you selected for change is not part of this wallet." true
     ["Die Adresse, die Sie für das Wechselgeld ausgewählt haben, ist nicht Teil dieser Brieftasche."];
   Message false [Loc None "+15"]
     "(no label)" true
     ["(keine Bezeichnung)"]].

Definition de_SendCoinsEntry_1 : list message :=
  [Message false [Loc (Some "../forms/sendcoinsentry.ui") "+30"]
     "This is a normal payment." true
     ["Dies ist eine normale Zahlung."];
   Message false [Loc None "+71"; Loc None "+463"; Loc None "+130"]
     "Subtract fee from amount" true
     ["Gebühr vom Betrag abziehen"];
   Message false [Loc None "-580"; Loc None "+463"; Loc None "+130"]
     "Use available balance" true
     ["Verfügbaren Kontostand verwenden"];
   Message false [Loc None "-562"]
     "Message" true
     ["Nachricht"];
   Message false [Loc None "+24"; Loc None "+261"]
     "The Bitcoin Confidential address to send the payment to" true
     ["Die Bitcoin Confidential Adresse, an die die Zahlung gesendet werden soll"];
   Message false [Loc None "-254"; Loc None "+261"; Loc None "+297"; Loc None "+104"]
     "Choose previously used address" true
     ["Wählen Sie aus zuvor verwendeten Adressen"];
   Message false [Loc None "-646"; Loc None "+261"; Loc None "+297"; Loc None "+104"]
     "Alt+A" true
     ["Alt+A"];
   Message false [Loc None "-655"; Loc None "+261"; Loc None "+297"; Loc None "+104"]
     "Paste address from clipboard" true
     ["Adresse aus Zwischenablage einfügen"];
   Message false [Loc None "-646"; Loc None "+261"; Loc None "+297"; Loc None "+104"]
     "Alt+P" true
     ["Alt+P"];
   Message false [Loc None "-655"; Loc None "+261"; Loc None "+401"; Loc None "+520"; Loc None "+564"]
     "Remove this entry" true
     ["Entfernen dieses Eintrags"];
   Message false [Loc None "-1718"; Loc None "+277"]
     "Pay To" true
     ["Bezahlen an"];
   Message false [Loc None "-258"; Loc None "+242"; Loc None "+277"]
     "Amount" true
     ["Betrag"];
   Message false [Loc None "-495"]
     "Enter a label for this address to add it to the list of used addresses" true
     ["Geben Sie eine Bezeichnung für diese Adresse ein, um sie der Liste der verwendeten Adressen hinzuzufügen."];
   Message false [Loc None "+15"]
     "Label" true
     ["Bezeichnung"];
   Message false [Loc None "+33"]
     "A short message sent over the Bitcoin Confidential network." true
     ["Eine kurze Nachricht, die über das Bitcoin Confidential Netzwerk versendet wird."];
   Message false [Loc None "+6"]
     "Encrypted message sent with the transaction (optional, max. 24 characters)." true
     ["Verschlüsselte Nachricht, die mit der Transaktion gesendet wird (optional, max. 24 Zeichen)."];
   Message false [Loc None "+261"]
     "This is a payment to a coldstake script." true
     ["Dies ist eine Zahlung an ein Coldstake-Skript."];
   Message false [Loc None "+83"]
     "The fee will be deducted from the amount being sent. The recipient will receive less Bitcoin Confidential than you enter in the amount field. If multiple recipients are selected, the fee is split equally." true
     ["Die Gebühr wird von dem gesendeten Betrag abgezogen. Der Empfänger erhält weniger Bitcoin Confidential, als Sie in das Feld Betrag eingeben. Wenn mehrere Empfänger ausgewählt sind, wird die Gebühr gleichmäßig aufgeteilt."];
   Message false [Loc None "+36"]
     "ColdStake address used by your remote staking node to stake your funds." true
     ["ColdStake-Adresse, die von Ihrer Remote Staking Node für das Staking verwendet wird."];
   Message false [Loc None "+80"]
     "ColdStake " true
     ["ColdStake"];
   Message false [Loc None "+24"]
     "The stake address on the remote node (cannot be in this wallet)" true
     ["Die Stake-Adresse der Remote-Staking-Node (kann nicht aus dieser Brieftasche sein)"];
   Message false [Loc None "+81"]
     " Stake " true
     ["Stake"];
   Message false [Loc None "+434"]
     "This is an unauthenticated payment request." true
     ["Dies ist eine nicht authentifizierte Zahlungsanforderung."];
   Message false [Loc None "+40"; Loc None "+560"]
     "Pay To:" true
     ["Bezahlen an:"]].

Definition de_SendCoinsEntry_2 : list message :=
  [Message false [Loc None "-526"; Loc None "+577"]
     "Memo:" true
     ["Memo:"];
   Message false [Loc None "-560"; Loc None "+547"]
     "A&amp;mount:" true
     ["Betrag:"];
   Message false [Loc None "-78"]
     "This is an authenticated payment request." true
     ["Dies ist eine authentifizierte Zahlungsanforderung."];
   Message false [Loc (Some "../sendcoinsentry.cpp") "+89"]
     "Enter a label for this address to add it to your address book" true
     ["Geben Sie eine Bezeichnung für diese Adresse ein, um sie Ihrem Adressbuch hinzuzufügen."]].

Definition de_SendConfirmationDialog : list message :=
  [Message false [Loc (Some "../sendcoinsdialog.cpp") "+85"; Loc None "+5"]
     "Yes" true
     ["Ja"]].

Definition de_ShutdownWindow : list message :=
  [Message false [Loc (Some "../utilitydialog.cpp") "+83"]
     "%1 is shutting down..." true
     ["%1 wird heruntergefahren..."];
   Message false [Loc None "+1"]
     "Do not shut down the computer until this window disappears." true
     ["Fahren Sie den Computer erst herunter, wenn dieses Fenster verschwindet."]].

Definition de_SignVerifyMessageDialog_1 : list message :=
  [Message false [Loc (Some "../forms/signverifymessagedialog.ui") "+14"]
     "Signatures - Sign / Verify a Message" true
     ["Signaturen - Signieren / Überprüfen einer Nachricht"];
   Message false [Loc None "+14"]
     "&amp;Sign Message" true
     ["Nachricht signieren"];
   Message false [Loc None "+10"]
     "&amp;Verify Message" true
     ["Nachricht überprüfen"];
   Message false [Loc None "+31"]
     "You can sign messages/agreements with your addresses to prove you can receive Bitcoin Confidential sent to them. Be careful not to sign anything vague or random, as phishing attacks may try to trick you into signing your identity over to them. Only sign fully-detailed statements you agree to." true
     ["Sie können Nachrichten/Vereinbarungen mit Ihren Adressen unterzeichnen, um zu beweisen, dass Sie Bitcoin Confidential erhalten können, die an sie gesendet werden. Achten Sie darauf, nichts Vages oder Zufälliges zu unterschreiben, da Phishing-Angriffe versuchen können, Sie dazu zu bringen, Ihre Identität an sie zu signieren. Unterschreiben Sie nur ausführliche Aussagen, denen Sie zustimmen."];
   Message false [Loc None "+18"]
     "The Bitcoin Confidential address to sign the message with" true
     ["Die Bitcoin Confidential Adresse zum Signieren der Nachricht"];
   Message false [Loc None "+7"; Loc None "+213"]
     "Choose previously used address" true
     ["Wählen Sie zuvor verwendete Adresse"];
   Message false [Loc None "-203"; Loc None "+213"]
     "Alt+A" true
     ["Alt+A"];
   Message false [Loc None "-203"]
     "Paste address from clipboard" true
     ["Adresse aus Zwischenablage einfügen"];
   Message false [Loc None "+10"]
     "Alt+P" true
     ["Alt+P"];
   Message false [Loc None "+12"]
     "Enter the message you want to sign here" true
     ["Geben Sie die Nachricht ein, die Sie signieren möchten."];
   Message false [Loc None "+7"]
     "Signature" true
     ["Signatur"];
   Message false [Loc None "+27"]
     "Copy the current signature to the system clipboard" true
     ["Kopieren der aktuellen Signatur in die Systemzwischenablage"];
   Message false [Loc None "+21"]
     "Sign the message to prove you own this Bitcoin Confidential address" true
     ["Signieren Sie die Nachricht, um zu beweisen, dass Sie diese Bitcoin Confidential Adresse besitzen"];
   Message false [Loc None "+3"]
     "Sign &amp;Message" true
     ["Nachricht signieren"];
   Message false [Loc None "+14"]
     "Reset all sign message fields" true
     ["Zurücksetzen aller Felder"];
   Message false [Loc None "+3"; Loc None "+153"]
     "Clear &amp;All" true
     ["Alles löschen"];
   Message false [Loc None "-85"]
     "Enter the receiver&apos;s address, message (ensure you copy line breaks, spaces, tabs, etc. exactly) and signature below to verify the message. Be careful not to read more into the signature than what is in the signed message itself, to avoid being tricked by a man-in-the-middle attack. Note that this only proves the signing party receives with the address, it cannot prove sendership of any transaction!" true
     ["Geben Sie die Adresse des Empfängers, die Nachricht (stellen Sie sicher, dass Sie Zeilenumbrüche, Leerzeichen, Registerkarten usw. genau kopieren) und die Signatur unten ein, um die Nachricht zu überprüfen. Achten Sie darauf, nicht mehr in die Signatur zu lesen, als das, was in der signierten Nachricht selbst ist, um zu vermeiden, von einem Man-in-the-Middle-Angriff ausgetrickst zu werden. Beachten Sie, dass dies nur beweist, dass die unterzeichnende Partei mit der Adresse empfängt. Es kann nicht den Absender von einer Transaktion beweisen!"];
   Message false [Loc None "+21"]
     "The Bitcoin Confidential address the message was signed with" true
     ["Die Bitcoin Confidential Adresse, mit der die Nachricht signiert wurde"];
   Message false [Loc None "+44"]
     "Verify the message to ensure it was signed with the specified Bitcoin Confidential address" true
     ["Überprüfen Sie die Nachricht, um sicherzustellen, dass sie mit der angegebenen Bitcoin Confidential Adresse signiert wurde."];
   Message false [Loc None "+3"]
     "Verify &amp;Message" true
     ["Nachricht überprüfen"];
   Message false [Loc None "+14"]
     "Reset all verify message fields" true
     ["Zurücksetzen aller Felder"];
   Message false [Loc (Some "../signverifymessagedialog.cpp") "+39"]
     "Click &quot;Sign Message&quot; to generate signature" true
     ["Klicken Sie auf &quot;Nachricht signieren&quot;, um eine Signatur zu generieren"];
   Message false [Loc None "+78"; Loc None "+78"]
     "The entered address is invalid." true
     ["Die eingegebene Adresse ist ungültig."];
   Message false [Loc None "-78"; Loc None "+7"; Loc None "+71"; Loc None "+6"]
     "Please check the address and try again." true
     ["Überprüfen Sie die Adresse, und versuchen Sie es erneut."];
   Message false [Loc None "-77"; Loc None "+77"]
     "The entered address does not refer to a key." true
     ["Die eingegebene Adresse bezieht sich nicht auf einen Schlüssel."];
   Message false [Loc None "-69"]
     "Wallet unlock was cancelled." true
     ["Die Freigabe der Brieftasche wurde abgebrochen."];
   Message false [Loc None "+8"]
     "Private key for the entered address is not available." true
     ["Der private Schlüssel für die eingegebene Adresse ist nicht verfügbar."];
   Message false [Loc None "+12"]
     "Message signing failed." true
     ["Fehler beim Signieren der Nachricht."]].

Definition de_SignVerifyMessageDialog_2 : list message :=
  [Message false [Loc None "+5"]
     "Message signed." true
     ["Nachricht signiert."];
   Message false [Loc None "+55"]
     "The signature could not be decoded." true
     ["Die Signatur konnte nicht decodiert werden."];
   Message false [Loc None "+0"; Loc None "+13"]
     "Please check the signature and try again." true
     ["Überprüfen Sie die Signatur, und versuchen Sie es erneut."];
   Message false [Loc None "+0"]
     "The signature did not match the message digest." true
     ["Die Signatur hat nicht mit dem Nachrichtendigest übereinstimmt."];
   Message false [Loc None "+6"]
     "Message verification failed." true
     ["Die Nachrichtenüberprüfung ist fehlgeschlagen."];
   Message false [Loc None "+5"]
     "Message verified." true
     ["Nachricht überprüft."]].

Definition de_SplashScreen : list message :=
  [Message false [Loc (Some "../networkstyle.cpp") "+19"]
     "[testnet]" true
     ["[Testnetz]"]].

Definition de_StakingDialog_1 : list message :=
  [Message false [Loc (Some "../forms/stakingdialog.ui") "+14"]
     "Send Coins" true
     ["Senden von Bitcoin Confidential"];
   Message false [Loc None "+23"]
     "Status" true
     ["Status"];
   Message false [Loc None "+19"]
     "Addresses" true
     ["Adressen"];
   Message false [Loc None "+16"]
     "Rewards" true
     ["Belohnungen"];
   Message false [Loc None "+16"]
     "Convert to Spending" true
     ["Konvertieren zu Bitcoin Confidential"];
   Message false [Loc None "+16"]
     "Convert to Staking" true
     ["Konvertieren zu Staking"];
   Message false [Loc None "+16"]
     "Activate ColdStaking" true
     ["Aktivieren von ColdStaking"];
   Message false [Loc None "+79"]
     "Total supply" true
     ["Gesamtanzahl"];
   Message false [Loc None "+26"]
     "Current block reward" true
     ["Aktuelle Blockbelohnung"];
   Message false [Loc None "+26"]
     "Current block height" true
     ["Aktuelle Blockhöhe"];
   Message false [Loc None "+20"]
     "Network difficulty" true
     ["Netzwerkschwierigkeit"];
   Message false [Loc None "+26"]
     "Annual staking reward" true
     ["Jährliche Staking-Belohnung"];
   Message false [Loc None "+13"]
     "Current staking reward" true
     ["Aktuelle Staking-Belohnung"];
   Message false [Loc None "+26"]
     "Network staking weight" true
     ["Netzwerk-Stakinggewicht"];
   Message false [Loc None "+20"]
     "Your estimated annual reward" true
     ["Ihre geschätzte jährliche Belohnung"];
   Message false [Loc None "+13"]
     "?" true
     ["?"];
   Message false [Loc None "+80"]
     "Staking" true
     ["Staking"];
   Message false [Loc None "+24"; Loc None "+233"]
     "ENABLED" true
     ["AKTIVIERT"];
   Message false [Loc None "-210"]
     "Pause" true
     ["Pause"];
   Message false [Loc None "+50"; Loc None "+425"]
     "Estimated reward frequency" true
     ["Geschätzte Belohnungshäufigkeit"];
   Message false [Loc None "-412"]
     "Stakable Funds" true
     ["Verfügbar für Staking"];
   Message false [Loc None "+20"]
     "Wallet staking weight" true
     ["Brieftasche-Staking-Gewicht"];
   Message false [Loc None "+103"]
     "Cold Staking" true
     ["ColdStaking"];
   Message false [Loc None "+55"]
     "Remote Stake address" true
     ["Remote-Stake-Adresse"];
   Message false [Loc None "+13"]
     "Automated ColdStaking activation" true
     ["Automatisierte ColdStaking-Aktivierung"];
   Message false [Loc None "+25"]
     "Enable " true
     ["Aktivieren"];
   Message false [Loc None "+57"]
     "Enable Hot Staking with the STAKING ENABLE button and leaving wallet open.  Enable automated ColdStake with COLDSTAKING ENABLE button and setting a remote stake address. On remote node enable staking with &quot;bitcoinc-cli walletsettings stakingstatus true&quot; and create a &quot;Stake&quot; address on your remote node with &quot;bitcoinc-cli getnewstakeaddress&quot;, or get a &quot;Stake&quot; address from a ColdStaking pool. Funds gradually transition over from hot staking to cold staking while your wallet is open. The time required for the activation depends on the wallet&apos;s staking weight and can take several days with a low weight. Once the activation bar shows complete, wallet can be closed.  Alternatively, use the Activate Coldstaking tab to send an activation transaction.  This will take longer to start staking but wallet does not need to be online." true
     ["Durch das Aktivieren der &quot;Automatisierten ColdStaking-Aktivierung&quot; können die vorhandenen Staking Bitcoin Confidential über einen längeren Zeitraum automatisch zu ColdStaking Bitcoin Confidential konvertiert (aktiviert) werden. Beim Aktivieren muss eine &quot;Remote Staking Adresse&quot; bereitgestellt werden. Diese kann auf der Remote Node mit &quot;bitcoinc-cli getnewstakeaddress&quot; generiert werden. Für die automatisierte Aktivierung muss HotStaking aktiviert, die Brieftasche geöffnet und für HotStaking entsperrt bleiben bleiben, bis der Aktivierungs-Fortschritt 100% erreicht hat.  Alternativ können über die &quot;Aktivieren von ColdStaking&quot;  Ansicht auch direkt alle Staking Bitcoin Confidential für ColdStaking aktiviert werden. Es dauert hierdurch unter umständen länger, bis das ColdStaking beginnt, jedoch muss die Brieftasche nach der Aktivierung nicht geöffnet bleiben. In beiden Fällen muss auf der Remote Node zusätzlich &quot;bitcoinc-cli walletsettings stakingstatus true&quot; ausgeführt werden um das ColdStaking zu starten. "];
   Message false [Loc None "+20"]
     "ColdStake activation progress" true
     ["ColdStaking-Aktivierungsfortschritt"];
   Message false [Loc None "+77"]
     "Amount activated for ColdStaking" true
     ["Für ColdStaking aktivierter Betrag"]].

Definition de_StakingDialog_2 : list message :=
  [Message false [Loc None "+13"]
     "Estimated weight" true
     ["Geschätztes Gewicht"];
   Message false [Loc None "+106"]
     "Filtered" true
     ["Gefiltert"];
   Message false [Loc None "+15"; Loc None "+88"]
     "Staking rewards" true
     ["Staking Belohnungen"];
   Message false [Loc None "-75"; Loc None "+48"]
     "Solved blocks" true
     ["Gelöste Blöcke"];
   Message false [Loc None "-41"; Loc None "+55"]
     "4000" true
     ["4000"];
   Message false [Loc None "-48"; Loc None "+41"]
     "100000BC" true
     ["100000BC"];
   Message false [Loc None "-22"]
     "Total" true
     ["Gesamt"];
   Message false [Loc (Some "../stakingdialog.cpp") "+258"; Loc None "+17"]
     "No stakable funds available. Use the &quot;Convert to staking&quot; tab to convert funds for staking." true
     ["Keine Staking Bitcoin Confidential vorhanden. Verwenden Sie die Registerkarte &quot;Konvertieren zu Staking&quot;, um Bitcoin Confidential zu Staking Bitcoin Confidential umzuwandeln."];
   Message false [Loc None "-15"; Loc None "+18"]
     "No eligible staking outputs available. Staking funds need to have 225 confirmations to be eligible." true
     ["Es sind keine Stakingfähigen Transaktions-Outputs verfügbar. Die Staking Bitcoin Confidential müssen über 225 Bestätigungen verfügen, um Stakingfähig zu sein."];
   Message false [Loc None "-9"]
     "Staking not initialized yet. Wait a moment." true
     ["Staking noch nicht initialisiert. Warte einen Moment."];
   Message false [Loc None "+3"]
     "Staking is stopped. Press the start button above to enable staking." true
     ["Staking ist gestoppt. Drücke &quot;Start&quot; um das Staking zu starten."];
   Message false [Loc None "+10"]
     "Wallet is locked. To start staking unlock the wallet for staking only. To unlock click the lock icon in the bottom right hand portion of the window." true
     ["Brieftasche ist gesperrt. Um mit dem Staking zu beginnen, entsperren Sie die Brieftasche nur für Staking. Um zu entsperren, klicken Sie auf das Schlosssymbol im unteren rechten Bereich des Fensters."];
   Message false [Loc None "+4"]
     "Wallet is not fully synced. To start staking make sure the wallet has connections to the network and wait until it catched up with the latest blocks." true
     ["Brieftasche ist nicht vollständig synchronisiert. Um mit dem Staking zu beginnen, stellen Sie sicher, dass die Brieftasche Verbindungen zum Netzwerk hat, und warten Sie, bis sie die neuesten Blöcke synchronisiert hat."];
   Message false [Loc None "+3"]
     "Staking is disabled. Set the config paramter &quot;staking=1&quot; in the bitcoinc.conf to enable it." true
     ["Staking ist deaktiviert. Legen Sie den Konfigurationsparamter &quot;staking=1&quot; in der datei &quot;bitcoinc.conf&quot; fest, um dies zu aktivieren."];
   Message false [Loc None "+72"]
     "No eligible coldstaking outputs available. Your coldstaking funds need to have 225 confirmations to be eligible." true
     ["Es sind keine ColdStaking fähigen Bitcoin Confidential verfügbar. Ihre ColdStaking Bitcoin Confidential müssen 225 Bestätigungen haben, um staking fähig zu sein."];
   Message false [Loc None "+160"]
     "Set Remote Staking Address" true
     ["Festlegen der Remote Staking Adresse"];
   Message false [Loc None "+1"]
     "Enter the remote staking address:" true
     ["Geben Sie die Remote Staking Adresse ein:"]].

Definition de_TrafficGraphWidget : list message :=
  [Message false [Loc (Some "../trafficgraphwidget.cpp") "+81"]
     "KB/s" true
     ["KB/s"]].

Definition de_TransactionDesc_1 : list message :=
  [Message true [Loc (Some "../transactiondesc.cpp") "+39"]
     "Open for %n more block(s)" true
     ["Offen für %n mehr Block(e)"; "Offen für %n mehr Block(e)"];
   Message false [Loc None "+2"]
     "Open until %1" true
     ["Geöffnet bis %1"];
   Message false [Loc None "+6"]
     "conflicted with a transaction with %1 confirmations" true
     ["In Konflikt mit einer Transaktion mit %1 Bestätigungen"];
   Message false [Loc None "+2"]
     "0/unconfirmed, %1" true
     ["0/unbestätigt, %1"];
   Message false [Loc None "+0"]
     "in memory pool" true
     ["im Speicherpool"];
   Message false [Loc None "+0"]
     "not in memory pool" true
     ["nicht im Speicherpool"];
   Message false [Loc None "+0"]
     "abandoned" true
     ["Zurückgezogen"];
   Message false [Loc None "+2"]
     "%1/unconfirmed" true
     ["%1/unbestätigt"];
   Message false [Loc None "+2"]
     "%1 confirmations" true
     ["%1 Bestätigungen"];
   Message false [Loc None "+29"]
     "Status" true
     ["Status"];
   Message false [Loc None "+3"]
     "Date" true
     ["Datum"];
   Message false [Loc None "+4"; Loc None "+223"]
     "Transaction ID" true
     ["Transaktions-ID"];
   Message false [Loc None "-210"; Loc None "+211"]
     "Transaction total size" true
     ["Transaktionsgesamtgröße"];
   Message false [Loc None "-209"]
     "Confirmations" true
     ["Bestätigungen"];
   Message false [Loc None "+4"]
     "Block hash" true
     ["Blockhash"];
   Message false [Loc None "+1"]
     "Block index" true
     ["Blockindex"];
   Message false [Loc None "+1"]
     "Block time" true
     ["Blockzeit"];
   Message false [Loc None "+21"]
     "Source" true
     ["Quelle"];
   Message false [Loc None "+0"]
     "Generated" true
     ["Generiert"];
   Message false [Loc None "+5"; Loc None "+14"; Loc None "+72"]
     "From" true
     ["Von"];
   Message false [Loc None "-72"]
     "unknown" true
     ["unbekannt"];
   Message false [Loc None "+1"; Loc None "+20"; Loc None "+72"]
     "To" true
     ["An"];
   Message false [Loc None "-90"]
     "own address" true
     ["eigene Adresse"];
   Message false [Loc None "+0"; Loc None "+69"]
     "watch-only" true
     ["Beobachten"];
   Message false [Loc None "-67"]
     "label" true
     ["Bezeichnung"];
   Message false [Loc None "+36"; Loc None "+12"; Loc None "+58"; Loc None "+37"; Loc None "+66"]
     "Credit" true
     ["Gutschrift"];
   Message true [Loc None "-171"]
     "matures in %n more block(s)" true
     ["reift in %n mehr Block(en)"; "reift in %n mehr Block(en)"]].

Definition de_TransactionDesc_2 : list message :=
  [Message false [Loc None "+2"]
     "not accepted" true
     ["nicht akzeptiert"];
   Message false [Loc None "+64"; Loc None "+26"; Loc None "+71"]
     "Debit" true
     ["Belastung"];
   Message false [Loc None "-87"]
     "Total debit" true
     ["Gesamte Belastung"];
   Message false [Loc None "+1"]
     "Total credit" true
     ["Gesamte Gutschrift"];
   Message false [Loc None "+5"]
     "Transaction fee" true
     ["Transaktionsgebühr"];
   Message false [Loc None "+27"]
     "Net amount" true
     ["Nettobetrag"];
   Message false [Loc None "+6"; Loc None "+12"]
     "Message" true
     ["Nachricht"];
   Message false [Loc None "-10"]
     "Comment" true
     ["Bemerkung"];
   Message false [Loc None "+4"]
     "Transaction virtual size" true
     ["Virtuelle Transaktionsgröße"];
   Message false [Loc None "+1"]
     "Output index" true
     ["Ausgabeindex"];
   Message false [Loc None "+10"]
     "Narration" true
     ["Nachricht"];
   Message false [Loc None "+13"]
     "Merchant" true
     ["Verkäufer"];
   Message false [Loc None "+7"]
     "Generated coins must mature %1 blocks before they can be spent. When you generated this block, it was broadcast to the network to be added to the block chain. If it fails to get into the chain, its state will change to &quot;not accepted&quot; and it won&apos;t be spendable. This may occasionally happen if another node generates a block within a few seconds of yours." true
     ["Generierte Bitcoin Confidential müssen %1 Blöcke reifen, bevor sie ausgegeben werden können. Beim Generieren dieses Blocks wurde er an das Netzwerk übertragen, das er der Blockkette hinzugefügt werden soll. Wenn der Block nicht in die Kette gelangt, ändert sich der Zustand der Transaktion in &quot;nicht akzeptiert&quot; und die Bitcoin Confidential können nicht ausgegeben werden. Dies kann gelegentlich passieren, wenn ein anderer Knoten innerhalb weniger Sekunden einen Block generiert."];
   Message false [Loc None "+8"]
     "Debug information" true
     ["Debuginformationen"];
   Message false [Loc None "+13"]
     "Transaction" true
     ["Transaktion"];
   Message false [Loc None "+3"]
     "Inputs" true
     ["Eingänge"];
   Message false [Loc None "+21"]
     "Amount" true
     ["Betrag"];
   Message false [Loc None "+1"; Loc None "+1"]
     "true" true
     ["true"];
   Message false [Loc None "-1"; Loc None "+1"]
     "false" true
     ["false"]].

Definition de_TransactionDescDialog : list message :=
  [Message false [Loc (Some "../forms/transactiondescdialog.ui") "+26"]
     "This pane shows a detailed description of the transaction" true
     ["Dieser Bereich zeigt eine detaillierte Beschreibung der Transaktion"];
   Message false [Loc (Some "../transactiondescdialog.cpp") "+17"]
     "Details for %1" true
     ["Details für %1"]].

Definition de_TransactionTableModel_1 : list message :=
  [Message false [Loc (Some "../transactiontablemodel.cpp") "+257"]
     "Date" true
     ["Datum"];
   Message false [Loc None "+2"]
     "Type" true
     ["Typ"];
   Message false [Loc None "+2"]
     "Label" true
     ["Bezeichnung"];
   Message false [Loc None "+3"]
     "In" true
     ["Eingang"];
   Message false [Loc None "+0"]
     "Out" true
     ["Ausgang"];
   Message true [Loc None "+73"]
     "Open for %n more block(s)" true
     ["Offen für %n mehr Block(e)"; "Offen für %n mehr Block(e)"];
   Message false [Loc None "+3"]
     "Open until %1" true
     ["Geöffnet bis %1"];
   Message false [Loc None "+3"]
     "Unconfirmed" true
     ["Unbestätigt"];
   Message false [Loc None "+4"]
     "Orphaned" true
     ["Verwaist"];
   Message false [Loc None "+2"]
     "Abandoned" true
     ["Zurückgezogen"];
   Message false [Loc None "+22"]
     "Confirming (%1 of %2 recommended confirmations)" true
     ["Bestätigen (%1 von %2 empfohlenen Bestätigungen)"];
   Message false [Loc None "+3"]
     "Confirmed (%1 confirmations)" true
     ["Bestätigt (%1 Bestätigungen)"];
   Message false [Loc None "+3"]
     "Conflicted" true
     ["Konflikt"];
   Message false [Loc None "+3"]
     "Immature (%1 confirmations, will be available after %2)" true
     ["Unreif (%1 Bestätigungen, wird nach %2 verfügbar sein)"];
   Message false [Loc None "+3"]
     "Generated but not accepted" true
     ["Erzeugt, aber nicht akzeptiert"];
   Message false [Loc None "+39"]
     "Received with" true
     ["Empfangen mit"];
   Message false [Loc None "+2"]
     "Received from" true
     ["Empfangen von"];
   Message false [Loc None "+3"]
     "Sent to" true
     ["Gesendet an"];
   Message false [Loc None "+2"]
     "Payment to yourself" true
     ["Zahlung an sich selbst"];
   Message false [Loc None "+2"]
     "Airdrop" true
     ["Airdrop"];
   Message false [Loc None "+2"]
     "Staked" true
     ["Staking"];
   Message false [Loc None "+30"]
     "watch-only" true
     ["Beobachten"];
   Message false [Loc None "+16"]
     "(n/a)" true
     ["(n/a)"];
   Message false [Loc None "+168"]
     "Unlock to show" true
     ["Entsperren, um anzuzeigen"];
   Message false [Loc None "+111"]
     "(no label)" true
     ["(keine Bezeichnung)"];
   Message false [Loc None "+42"; Loc None "+14"]
     "Transaction status. Hover over this field to show number of confirmations." true
     ["Transaktionsstatus. Zeigen Sie mit der Maus auf dieses Feld, um die Anzahl der Bestätigungen anzuzeigen."];
   Message false [Loc None "-12"]
     "Date and time that the reward was received." true
     ["Datum und Uhrzeit, zu der die Staking Belohnung erhalten wurde."];
   Message false [Loc None "+2"; Loc None "+16"]
     "Whether or not a watch-only address is involved in this transaction." true
     ["Gibt an, ob eine reine Beobachten-Adresse an dieser Transaktion beteiligt ist."];
   Message false [Loc None "-14"]
     "Address used for the block solving" true
     ["Für die Blocklösung verwendete Adresse"]].

Definition de_TransactionTableModel_2 : list message :=
  [Message false [Loc None "+2"]
     "Staking reward." true
     ["Staking Belohnung."];
   Message false [Loc None "+8"]
     "Date and time that the transaction was received." true
     ["Datum und Uhrzeit des Empfangens der Transaktion."];
   Message false [Loc None "+2"]
     "Type of transaction." true
     ["Art der Transaktion."];
   Message false [Loc None "+4"]
     "User-defined intent/purpose of the transaction." true
     ["Benutzerdefinierte Absicht/Zweck der Transaktion."];
   Message false [Loc None "+2"]
     "Type of input coin." true
     ["Art der Eingangs Bitcoin Confidential"];
   Message false [Loc None "+2"]
     "Type of output coin." true
     ["Art der Ausgangs Bitcoin Confidential."];
   Message false [Loc None "+2"]
     "Amount removed from or added to balance." true
     ["Betrag, der von dem Kontostand entfernt oder dem Kontostand hinzugefügt wurde."]].

Definition de_TransactionView_1 : list message :=
  [Message false [Loc (Some "../transactionview.cpp") "+53"; Loc None "+11"; Loc None "+18"]
     "All" true
     ["Alle"];
   Message false [Loc None "-17"]
     "Today" true
     ["Heute"];
   Message false [Loc None "+1"]
     "This week" true
     ["Diese Woche"];
   Message false [Loc None "+1"]
     "This month" true
     ["Dieser Monat"];
   Message false [Loc None "+1"]
     "Last month" true
     ["Letzter Monat"];
   Message false [Loc None "+1"]
     "This year" true
     ["Dieses Jahr"];
   Message false [Loc None "+1"]
     "Range..." true
     ["Zeitraum..."];
   Message false [Loc None "+13"]
     "Received with" true
     ["Empfangen mit"];
   Message false [Loc None "+2"]
     "Sent to" true
     ["Gesendet an"];
   Message false [Loc None "+2"]
     "To yourself" true
     ["Eigenüberweisung"];
   Message false [Loc None "+1"]
     "Other" true
     ["Andere"];
   Message false [Loc None "+1"]
     "Airdrop" true
     ["Airdrop"];
   Message false [Loc None "+5"]
     "Enter address, transaction id, or label to search" true
     ["Geben Sie Adresse, Transaktions-ID oder Bezeichnung ein, um zu suchen"];
   Message false [Loc None "+5"]
     "Min amount" true
     ["Min.-Betrag"];
   Message false [Loc None "+52"]
     "Abandon transaction" true
     ["Transaktion zurückziehen"];
   Message false [Loc None "+1"]
     "Increase transaction fee" true
     ["Erhöhung der Transaktionsgebühr"];
   Message false [Loc None "+2"]
     "Copy address" true
     ["Adresse kopieren"];
   Message false [Loc None "+1"]
     "Copy label" true
     ["Bezeichnung kopieren"];
   Message false [Loc None "+1"]
     "Copy amount" true
     ["Betrag kopieren"];
   Message false [Loc None "+1"]
     "Copy transaction ID" true
     ["Transaktions-ID kopieren"];
   Message false [Loc None "+1"]
     "Copy raw transaction" true
     ["Rohe Transaktionsdaten kopieren"];
   Message false [Loc None "+1"]
     "Copy full transaction details" true
     ["Vollständige Transaktionsdetails kopieren"];
   Message false [Loc None "+1"]
     "Edit label" true
     ["Bezeichnung bearbeiten"];
   Message false [Loc None "+1"]
     "Show transaction details" true
     ["Transaktionsdetails anzeigen"];
   Message false [Loc None "+239"]
     "Export Transaction History" true
     ["Transaktionsverlauf exportieren"];
   Message false [Loc None "+1"]
     "Comma separated file (*.csv)" true
     ["Komma getrennte Datei (*.csv)"];
   Message false [Loc None "+9"]
     "Confirmed" true
     ["Bestätigt"];
   Message false [Loc None "+2"]
     "Watch-only" true
     ["Beobachten"];
   Message false [Loc None "+1"]
     "Date" true
     ["Datum"]].

Definition de_TransactionView_2 : list message :=
  [Message false [Loc None "+2"]
     "Type" true
     ["Typ"];
   Message false [Loc None "+2"]
     "Label" true
     ["Bezeichnung"];
   Message false [Loc None "+1"]
     "Address" true
     ["Adresse"];
   Message false [Loc None "+2"]
     "ID" true
     ["ID"];
   Message false [Loc None "+3"]
     "Exporting Failed" true
     ["Fehler beim Exportieren"];
   Message false [Loc None "+0"]
     "There was an error trying to save the transaction history to %1." true
     ["Beim Versuch, den Transaktionsverlauf in %1 zu speichern, ist ein Fehler aufgetreten."];
   Message false [Loc None "+4"]
     "Exporting Successful" true
     ["Exportieren erfolgreich"];
   Message false [Loc None "+0"]
     "The transaction history was successfully saved to %1." true
     ["Der Transaktionsverlauf wurde erfolgreich in %1 gespeichert."];
   Message false [Loc None "+169"]
     "Range:" true
     ["Zeitraum:"];
   Message false [Loc None "+8"]
     "to" true
     ["An"]].

Definition de_TxViewDelegate : list message :=
  [Message false [Loc (Some "../overviewpage.cpp") "+95"]
     "Unlock to show" true
     ["Entsperren, um anzuzeigen"]].

Definition de_UnitDisplayStatusBarControl : list message :=
  [Message false [Loc (Some "../bitcoingui.cpp") "+122"]
     "Unit to show amounts in. Click to select another unit." true
     ["Einheit, in der Beträge angezeigt werden sollen. Klicken Sie hier, um eine andere Einheit auszuwählen."]].

Definition de_WalletFrame : list message :=
  [Message false [Loc (Some "../walletframe.cpp") "+29"]
     "No wallet has been loaded." true
     ["Es wurde keine Brieftasche geladen."]].

Definition de_WalletModel : list message :=
  [Message false [Loc (Some "../walletmodel.cpp") "+592"; Loc None "+4"; Loc None "+11"]
     "Wallet Model" true
     ["Brieftaschen-Modell"];
   Message false [Loc None "+65"; Loc None "+39"; Loc None "+6"]
     "Fee bump error" true
     ["Fehler beim Erhöhen der Gebühr"];
   Message false [Loc None "-45"]
     "Increasing transaction fee failed" true
     ["Erhöhen der Transaktionsgebühr fehlgeschlagen"];
   Message false [Loc None "+6"]
     "Do you want to increase the fee?" true
     ["Möchten Sie die Transaktionsgebühr erhöhen?"];
   Message false [Loc None "+4"]
     "Current fee:" true
     ["Aktuelle Transaktionsgebühr:"];
   Message false [Loc None "+4"]
     "Increase:" true
     ["Erhöhen um:"];
   Message false [Loc None "+4"]
     "New fee:" true
     ["Neue Transaktionsgebühr:"];
   Message false [Loc None "+4"]
     "Confirm fee bump" true
     ["Bestätigen Sie die Gebührenerhöhung"];
   Message false [Loc None "+17"]
     "Can&apos;t sign transaction." true
     ["Transaktion konnte nicht signiert werden."];
   Message false [Loc None "+6"]
     "Could not commit transaction" true
     ["Transaktion konnte nicht ins Netzwerk übertragen werden"]].

Definition de_WalletView : list message :=
  [Message false [Loc (Some "../walletview.cpp") "+46"; Loc None "+1"]
     "&amp;Export" true
     ["&amp;Exportieren"];
   Message false [Loc None "+9"; Loc None "+29"]
     "Export the data in the current tab to a file" true
     ["Exportieren der Daten auf der aktuellen Registerkarte in eine Datei"];
   Message false [Loc None "-19"]
     "Selected amount" true
     ["Ausgewählter Betrag"];
   Message false [Loc None "+290"]
     "Backup Wallet" true
     ["Backup der Brieftasche"];
   Message false [Loc None "+1"]
     "Wallet Data (*.dat)" true
     ["Brieftaschen-Datei (*.dat)"];
   Message false [Loc None "+6"]
     "Backup Failed" true
     ["Erstellen des Backups fehlgeschlagen"];
   Message false [Loc None "+0"]
     "There was an error trying to save the wallet data to %1." true
     ["Beim Versuch, die Brieftasche in %1 zu speichern, ist ein Fehler aufgetreten."];
   Message false [Loc None "+4"]
     "Backup Successful" true
     ["Backup erfolgreich"];
   Message false [Loc None "+0"]
     "The wallet data was successfully saved to %1." true
     ["Die Brieftaschen-Datei wurden erfolgreich in %1 gespeichert."];
   Message false [Loc None "+63"]
     "Cancel" true
     ["Abbrechen"]].

Definition de_bitcoin_core_1 : list message :=
  [Message false [Loc (Some "../bitcoinstrings.cpp") "+12"]
     "Bitcoin Confidential Core" true
     ["Bitcoin Confidential Core"];
   Message false [Loc None "+1"]
     "The %s developers" true
     ["Die %s-Entwickler"];
   Message false [Loc None "+1"]
     " is spendable from this wallet." true
     ["kann mit dieser Brieftasche verschickt werden"];
   Message false [Loc None "+1"]
     "-maxtxfee is set very high! Fees this large could be paid on a single transaction." true
     ["-maxtxfee ist sehr hoch eingestellt! Gebühren, die so hoch sind, könnten für eine einzige Transaktion bezahlt werden."];
   Message false [Loc None "+3"]
     "Can&apos;t generate a change-address key. Private keys are disabled for this wallet." true
     ["Es kann keine Wechselgeldadresse generiert werden. Private Schlüssel sind für diese Brieftasche deaktiviert."];
   Message false [Loc None "+3"]
     "Cannot obtain a lock on data directory %s. %s is probably already running." true
     ["Eine Sperre für das Datenverzeichnis %s kann nicht gesetzt werden. %s wird wahrscheinlich bereits ausgeführt."];
   Message false [Loc None "+2"]
     "Cannot provide specific connections and have addrman find outgoing connections at the same." true
     ["Es können keine spezifischen Verbindungen hergestellt werden, und addrman hat ausgehende Verbindungen gleichzeitig gefunden."];
   Message false [Loc None "+3"]
     "Cannot upgrade a non HD split wallet without upgrading to support pre split keypool. Please use -upgradewallet=169900 or -upgradewallet with no version specified." true
     ["Eine nicht HD-Split-Wallet kann nicht aktualisiert werden, ohne ein Upgrade durchzuführen, um pre-split keypool zu unterstützen. Bitte verwenden Sie -upgradewallet=169900 oder -upgradewallet ohne Angabe von Versionen."];
   Message false [Loc None "+4"]
     "Distributed under the MIT software license, see the accompanying file %s or %s" true
     ["Unter der MIT-Softwarelizenz verteilt, siehe die begleite Datei %s oder %s"];
   Message false [Loc None "+3"]
     "Error loading %s: You can&apos;t enable HD on an already existing non-HD wallet" true
     ["Fehler beim Laden von %s: Sie können HD für eine bereits vorhandene Nicht-HD-Wallet nicht aktivieren"];
   Message false [Loc None "+2"]
     "Error reading %s! All keys read correctly, but transaction data or address book entries might be missing or incorrect." true
     ["Fehler beim Lesen von %s! Alle Schlüssel werden korrekt gelesen, Transaktionsdaten oder Adressbucheinträge fehlen jedoch möglicherweise oder sind falsch."];
   Message false [Loc None "+3"]
     "Error: Listening for incoming connections failed (listen returned error %s)" true
     ["Fehler: Beim Abhören eingehender Verbindungen fehlgeschlagen (Listen fehlerfehler %s)"];
   Message false [Loc None "+2"]
     "Fee estimation failed. Fallbackfee is disabled. Wait a few blocks or enable -fallbackfee." true
     ["Die Gebührenschätzung ist fehlgeschlagen. Fallbackfee ist deaktiviert. Warten Sie ein paar Blöcke, oder aktivieren Sie -fallbackfee."];
   Message false [Loc None "+3"]
     "Generate a random master key and main account if no master key exists. (default: %s)" true
     ["Generieren Sie einen zufälligen Hauptschlüssel und ein Hauptkonto, wenn kein Hauptschlüssel vorhanden ist. (Standard: %s)"];
   Message false [Loc None "+3"]
     "Group outputs by address, selecting all or none, instead of selecting on a per-output basis. Privacy is improved as an address is only used once (unless someone sends to it after spending from it), but may result in slightly higher fees as suboptimal coin selection may result due to the added limitation (default: %u)" true
     ["Gruppieren Sie Ausgaben nach Adresse, wählen Sie alle oder keine, anstatt pro Ausgabe auszuwählen. Die Privatsphäre wird verbessert, da eine Adresse nur einmal verwendet wird (es sei denn, jemand sendet sie nach ausgaben), kann jedoch zu etwas höheren Gebühren führen, da die suboptimale Münzauswahl aufgrund der zusätzlichen Einschränkung resultieren kann (Standard: %u)"];
   Message false [Loc None "+6"]
     "Invalid amount for -maxtxfee=&lt;amount&gt;: &apos;%s&apos; (must be at least the minrelay fee of %s to prevent stuck transactions)" true
     ["Ungültiger Betrag für -maxtxfee=&lt;amount&gt;: &apos;%s&apos; (muss mindestens die Mindestgebühr von %s betragen, um festgefahrene Transaktionen zu verhindern)&lt;/amount&gt;"];
   Message false [Loc None "+3"]
     "Milliseconds between stake attempts. Lowering this param will not result in more stakes. (default: 500)" true
     ["Millisekunden zwischen Staking Versuchen. Die Senkung dieses Parameters wird nicht zu mehr Belohnungen führen. (Standard: 500)"];
   Message false [Loc None "+3"]
     "Not enough spending outputs available in the blockchain for privacy mixing. There are currently %d. For this transaction required: %d" true
     ["Nicht genügend normale Bitcoin Confidential-Outputs in der Blockchain für die Privatsphäre-Mischung zur Verfügung. Derzeit sind %d vorhanden. Für diese Transaktion erforderlich: %d"];
   Message false [Loc None "+3"]
     "Number of threads to start for staking, max 1 per active wallet, will divide wallets evenly between threads (default: 1)" true
     ["Anzahl der Threads, die für das Staking gestartet werden sollen, max. 1 pro aktiver Brieftasche, teilt Brieftaschen gleichmäßig zwischen Threads auf (Standard: 1)"];
   Message false [Loc None "+3"]
     "On saving a key from the lookahead pool, save all unsaved keys leading up to it too. (default: %s)" true
     ["Speichern Sie beim Speichern eines Schlüssels aus dem Lookahead-Pool alle nicht gespeicherten Schlüssel, die zu ihm führen. (Standard: %s)"];
   Message false [Loc None "+3"]
     "Please check that your computer&apos;s date and time are correct! If your clock is wrong, %s will not work properly." true
     ["Bitte überprüfen Sie, ob das Datum und die Uhrzeit Ihres Computers korrekt sind! Wenn Ihre Uhr falsch ist, funktioniert %s nicht ordnungsgemäß."];
   Message false [Loc None "+3"]
     "Please contribute if you find %s useful. Visit %s for further information about the software." true
     ["Bitte tragen Sie dazu bei, wenn Sie %s nützlich finden. Weitere Informationen zur Software finden Sie unter %s."];
   Message false [Loc None "+3"]
     "Prune configured below the minimum of %d MiB.  Please use a higher number." true
     ["Prune, die unter dem Minimum von %d MiB konfiguriert sind.  Bitte verwenden Sie eine höhere Zahl."];
   Message false [Loc None "+2"]
     "Prune: last wallet synchronisation goes beyond pruned data. You need to -reindex (download the whole blockchain again in case of pruned node)" true
     ["Prune: Die letzte Brieftaschen-Synchronisation geht über die gekürzten Daten hinaus. Sie müssen erneut mit -reindex starten. (Laden Sie die gesamte Blockchain erneut im Falle eines gekürzten Knotens)"];
   Message false [Loc None "+3"]
     "Rescans are not possible in pruned mode. You will need to use -reindex which will download the whole blockchain again." true
     ["Rescans sind im gekürzten Modus nicht möglich. Sie müssen -reindex verwenden, das die gesamte Blockchain erneut herunterlädt."];
   Message false [Loc None "+3"]
     "The block database contains a block which appears to be from the future. This may be due to your computer&apos;s date and time being set incorrectly. Only rebuild the block database if you are sure that your computer&apos;s date and time are correct" true
     ["Die Blockdatenbank enthält einen Block, der aus der Zukunft zu stammen scheint. Dies kann daran liegen, dass Das Datum und die Uhrzeit Ihres Computers falsch eingestellt wurden. Erstellen Sie die Blockdatenbank nur neu, wenn Sie sicher sind, dass das Datum und die Uhrzeit Ihres Computers korrekt sind."];
   Message false [Loc None "+5"]
     "The transaction amount is too small to send after the fee has been deducted" true
     ["Der Transaktionsbetrag ist zu klein, um ihn nach Abzug der Gebühr zu senden."];
   Message false [Loc None "+2"]
     "This is a pre-release test build - use at your own risk - do not use for mining or merchant applications" true
     ["Dies ist ein Vorabversionstestbuild - auf eigene Gefahr verwenden - nicht für Staking- oder Händleranwendungen verwenden"];
   Message false [Loc None "+3"]
     "This is the transaction fee you may discard if change is smaller than dust at this level" true
     ["Dies ist die Transaktionsgebühr, die Sie verwerfen können, wenn die Änderung kleiner ist als Dust auf dieser Ebene."]].

Definition de_bitcoin_core_2 : list message :=
  [Message false [Loc None "+3"]
     "This is the transaction fee you may pay when fee estimates are not available." true
     ["Dies ist die Transaktionsgebühr, die Sie zahlen können, wenn keine Gebührenvoranschläge verfügbar sind."];
   Message false [Loc None "+2"]
     "This product includes software developed by the OpenSSL Project for use in the OpenSSL Toolkit %s and cryptographic software written by Eric Young and UPnP software written by Thomas Bernard." true
     ["Dieses Produkt enthält Software, die vom OpenSSL-Projekt für den Einsatz in openSSL Toolkit %s entwickelt wurde, und kryptografische Software von Eric Young und UPnP-Software von Thomas Bernard."];
   Message false [Loc None "+4"]
     "Total length of network version string (%i) exceeds maximum length (%i). Reduce the number or size of uacomments." true
     ["Die Gesamtlänge der Netzwerkversionszeichenfolge (%i) überschreitet die maximale Länge (%i). Reduzieren Sie die Anzahl oder Größe von Uacomments."];
   Message false [Loc None "+3"]
     "Unable to replay blocks. You will need to rebuild the database using -reindex-chainstate." true
     ["Blöcke können nicht wiedergegeben werden. Sie müssen die Datenbank mit -reindex-chainstate neu erstellen."];
   Message false [Loc None "+3"]
     "Unable to rewind the database to a pre-fork state. You will need to redownload the blockchain" true
     ["Die Datenbank kann nicht in einen Vorverladungszustand zurückspulen. Sie müssen die Blockchain erneut herunterladen"];
   Message false [Loc None "+3"]
     "Unsupported argument -socks found. Setting SOCKS version isn&apos;t possible anymore, only SOCKS5 proxies are supported." true
     ["Nicht unterstütztes Argument -socks gefunden. Das Einstellen der SOCKS-Version ist nicht mehr möglich, nur SOCKS5-Proxys werden unterstützt."];
   Message false [Loc None "+3"]
     "Unsupported argument -whitelistalwaysrelay ignored, use -whitelistrelay and/or -whitelistforcerelay." true
     ["Nicht unterstütztes Argument -whitelistalwaysrelay ignoriert, verwenden Sie -whitelistrelay und/oder -whitelistforcerelay."];
   Message false [Loc None "+3"]
     "Warning: Private keys detected in wallet {%s} with disabled private keys" true
     ["Warnung: Private Schlüssel, die in der Brieftasche mit deaktivierten privaten Schlüsseln erkannt werden"];
   Message false [Loc None "+2"]
     "Warning: The network does not appear to fully agree! Some miners appear to be experiencing issues." true
     ["Achtung: Das Netzwerk scheint nicht vollständig zuzustimmen! Einige Bergleute scheinen Probleme zu haben."];
   Message false [Loc None "+3"]
     "Warning: Unknown block versions being mined! It&apos;s possible unknown rules are in effect" true
     ["Warnung: Unbekannte Blockversionen werden abgebaut! Es ist möglich, dass unbekannte Regeln in Kraft sind"];
   Message false [Loc None "+3"]
     "Warning: Wallet file corrupt, data salvaged! Original %s saved as %s in %s; if your balance or transactions are incorrect you should restore from a backup." true
     ["Warnung: Wallet-Datei beschädigt, Daten gerettet! Original %s als %s in %s gespeichert; Wenn Ihr Guthaben oder Ihre Transaktionen falsch sind, sollten Sie eine Sicherung wiederherstellen."];
   Message false [Loc None "+4"]
     "Warning: We do not appear to fully agree with our peers! You may need to upgrade, or other nodes may need to upgrade." true
     ["Achtung: Wir scheinen nicht vollständig mit unseren Kollegen übereinzustimmen! Möglicherweise müssen Sie ein Upgrade durchführen, oder andere Knoten müssen aktualisiert werden."];
   Message false [Loc None "+3"]
     "You need to rebuild the database using -reindex to change -timestampindex" true
     ["Sie müssen die Datenbank mit -reindex neu erstellen, um -timestampindex zu ändern."];
   Message false [Loc None "+2"]
     "You need to rebuild the database using -reindex to go back to unpruned mode.  This will redownload the entire blockchain" true
     ["Sie müssen die Datenbank mit -reindex neu erstellen, um in den nicht ausgeprunten Modus zurückzukehren.  Dadurch wird die gesamte Blockchain erneut heruntergeladen."];
   Message false [Loc None "+3"]
     "%d of last 100 blocks have unexpected version" true
     ["%d der letzten 100 Blöcke haben eine unerwartete Version"];
   Message false [Loc None "+1"]
     "%s corrupt, salvage failed" true
     ["%s beschädigt, Bergung fehlgeschlagen"];
   Message false [Loc None "+1"]
     "%s is set very high!" true
     ["%s ist sehr hoch eingestellt!"];
   Message false [Loc None "+1"]
     "-maxmempool must be at least %d MB" true
     ["-maxmempool muss mindestens %d MB betragen"];
   Message false [Loc None "+1"]
     "Account chain not found" true
     ["Kontokette nicht gefunden"];
   Message false [Loc None "+1"]
     "Address &apos;%s&apos; is not in the address book." true
     ["Die Adresse &apos;%s&apos; befindet sich nicht im Adressbuch."];
   Message false [Loc None "+1"]
     "Address &apos;%s&apos; is recorded in the address book." true
     ["Die Adresse &apos;%s&apos; wird im Adressbuch aufgezeichnet."];
   Message false [Loc None "+1"]
     "Anon output not found in db, %d" true
     ["Anon-Ausgabe nicht gefunden in db, %d"];
   Message false [Loc None "+1"]
     "Anon pubkey not found in db, %s" true
     ["Anon pubkey wurde in db, %s nicht gefunden"];
   Message false [Loc None "+1"]
     "Cannot downgrade wallet" true
     ["Brieftasche nicht herabgestuft"];
   Message false [Loc None "+1"]
     "Cannot resolve -%s address: &apos;%s&apos;" true
     ["Die Adresse von -%s kann nicht aufgelöst werden: &apos;%s&apos;"];
   Message false [Loc None "+1"]
     "Cannot write to data directory &apos;%s&apos;; check permissions." true
     ["In das Datenverzeichnis &apos;%s&apos; kann nicht geschrieben werden. Berechtigungen überprüfen."];
   Message false [Loc None "+1"]
     "Change index out of range" true
     ["Änderungsindex a-range"];
   Message false [Loc None "+1"]
     "Confidential chain set but not found" true
     ["Vertrauliche Kette gesetzt, aber nicht gefunden"];
   Message false [Loc None "+1"]
     "Copyright (C)" true
     ["Copyright (C)"];
   Message false [Loc None "+1"]
     "Corrupted block database detected" true
     ["Beschädigte Blockdatenbank erkannt"]].

Definition de_bitcoin_core_3 : list message :=
  [Message false [Loc None "+1"]
     "Could not convert prefix to number." true
     ["Präfix konnte nicht in Zahl konvertiert werden."];
   Message false [Loc None "+1"]
     "Could not decode scan secret as wif, hex or base58." true
     ["Scan-Geheimnis konnte nicht als wif, hex oder base58 decodiert werden."];
   Message false [Loc None "+1"]
     "Could not decode spend secret as hex or base58." true
     ["Das Ausgabengeheimnis als Hex oder base58 konnte nicht decodiert werden."];
   Message false [Loc None "+1"]
     "Could not get confidential chain from account." true
     ["Vertrauliche Kette konnte nicht vom Konto erhalten."];
   Message false [Loc None "+1"]
     "Could not get scan public key." true
     ["Der öffentliche Schlüssel konnte nicht getagt werden."];
   Message false [Loc None "+1"]
     "Could not get spend public key." true
     ["Der öffentliche Schlüssel konnte nicht ausgegeben werden."];
   Message false [Loc None "+1"]
     "Default account not found" true
     ["Standardkonto nicht gefunden"];
   Message false [Loc None "+1"]
     "DeriveNextKey failed" true
     ["DeriveNextKey ist fehlgeschlagen"];
   Message false [Loc None "+1"]
     "Do you want to rebuild the block database now?" true
     ["Möchten Sie die Blockdatenbank jetzt neu erstellen?"];
   Message false [Loc None "+1"]
     "Done loading" true
     ["Fertig geladen"];
   Message false [Loc None "+1"]
     "Duplicate index found, %d" true
     ["Doppelter Index gefunden, %d"];
   Message false [Loc None "+1"]
     "Empty wallet required for import." true
     ["Leere Brieftasche für den Import erforderlich."];
   Message false [Loc None "+1"]
     "Ensure available balance remains above reservebalance. (default: 0)" true
     ["Stellen Sie sicher, dass das verfügbare Gleichgewicht über dem Reservesaldo bleibt. (Standard: 0)"];
   Message false [Loc None "+1"]
     "EraseSetting failed." true
     ["Fehler beim Löschen."];
   Message false [Loc None "+1"]
     "Error creating %s: You can&apos;t create non-HD wallets with this version." true
     ["Fehler beim Erstellen von %s: Mit dieser Version können Keine Nicht-HD-Wallets erstellt werden."];
   Message false [Loc None "+1"]
     "Error initializing block database" true
     ["Fehler beim Initialisieren der Blockdatenbank"];
   Message false [Loc None "+1"]
     "Error initializing wallet database environment %s!" true
     ["Fehler beim Initialisieren der Brieftaschen-Datenbankumgebung %s!"];
   Message false [Loc None "+1"]
     "Error loading %s" true
     ["Fehler beim Laden von %s"];
   Message false [Loc None "+1"]
     "Error loading %s: Private keys can only be disabled during creation" true
     ["Fehler beim Laden von %s: Private Schlüssel können nur während der Erstellung deaktiviert werden"];
   Message false [Loc None "+1"]
     "Error loading %s: Wallet corrupted" true
     ["Fehler beim Laden von %s: Brieftasche beschädigt"];
   Message false [Loc None "+1"]
     "Error loading %s: Wallet requires newer version of %s" true
     ["Fehler beim Laden von %s: Brieftasche erfordert eine neuere Version von %s"];
   Message false [Loc None "+1"]
     "Error loading %s: You can&apos;t disable HD on an already existing HD wallet" true
     ["Fehler beim Laden von %s: Sie können HD auf einer bereits vorhandenen HD-Wallet nicht deaktivieren"];
   Message false [Loc None "+1"]
     "Error loading block database" true
     ["Fehler beim Laden der Blockdatenbank"];
   Message false [Loc None "+1"]
     "Error loading wallet %s. Duplicate -wallet filename specified." true
     ["Fehler beim Laden der Brieftasche %s. Duplicate -wallet Dateiname angegeben."];
   Message false [Loc None "+1"]
     "Error opening block database" true
     ["Fehler beim Öffnen der Blockdatenbank"];
   Message false [Loc None "+1"]
     "Error reading from database, shutting down." true
     ["Fehler beim Lesen aus der Datenbank, Herunterfahren."];
   Message false [Loc None "+1"]
     "Error upgrading chainstate database" true
     ["Fehler beim Aktualisieren der Chainstate-Datenbank"];
   Message false [Loc None "+1"]
     "Error" true
     ["Fehler"];
   Message false [Loc None "+1"]
     "Error: A fatal internal error occurred, see debug.log for details" true
     ["Fehler: Ein schwerwiegender interner Fehler ist aufgetreten, siehe debug.log für Details"];
   Message false [Loc None "+1"]
     "Error: Disk space is low!" true
     ["Fehler: Der Speicherplatz ist gering!"]].

Definition de_bitcoin_core_4 : list message :=
  [Message false [Loc None "+1"]
     "ExtKeyGetIndex failed." true
     ["ExtKeyGetIndex fehlgeschlagen."];
   Message false [Loc None "+1"]
     "ExtKeySaveAccountToDB failed" true
     ["ExtKeySaveAccountToDB fehlgeschlagen"];
   Message false [Loc None "+1"]
     "Failed to listen on any port. Use -listen=0 if you want this." true
     ["Fehler beim Abhören eines Ports. Verwenden Sie -listen=0, wenn Sie dies wünschen."];
   Message false [Loc None "+1"]
     "Failed to open dongle" true
     ["Dongle nicht geöffnet"];
   Message false [Loc None "+1"]
     "Failed to rescan the wallet during initialization" true
     ["Fehler beim erneuten Scannen der Brieftasche während der Initialisierung"];
   Message false [Loc None "+1"]
     "Hit nMaxTries limit, %d, %d" true
     ["Treffer nMaxTries-Grenze, %d, %d"];
   Message false [Loc None "+1"]
     "Import failed - AddKeyPubKey failed." true
     ["Import fehlgeschlagen - AddKeyPubKey fehlgeschlagen."];
   Message false [Loc None "+1"]
     "Import failed - stealth address exists." true
     ["Import fehlgeschlagen - Stealth-Adresse vorhanden."];
   Message false [Loc None "+1"]
     "Importing..." true
     ["Importieren..."];
   Message false [Loc None "+1"]
     "Incorrect or no genesis block found. Wrong datadir for network?" true
     ["Falsche oder keine Genese Block gefunden. Falsche Daten für das Netzwerk?"];
   Message false [Loc None "+1"]
     "Information" true
     ["information"];
   Message false [Loc None "+1"]
     "Initialization sanity check failed. %s is shutting down." true
     ["Initialisierungsüberprüfung fehlgeschlagen. %s wird heruntergefahren."];
   Message false [Loc None "+1"]
     "Insufficient funds" true
     ["Unzureichende Mittel"];
   Message false [Loc None "+1"]
     "Insufficient funds." true
     ["Unzureichende Mittel."];
   Message false [Loc None "+1"]
     "Invalid -onion address or hostname: &apos;%s&apos;" true
     ["Ungültige -onion-Adresse oder Hostname: &apos;%s&apos;"];
   Message false [Loc None "+1"]
     "Invalid -proxy address or hostname: &apos;%s&apos;" true
     ["Ungültige -Proxy-Adresse oder Hostname: &apos;%s&apos;"];
   Message false [Loc None "+1"]
     "Invalid BitcoinC address." true
     ["Ungültige Bitcoin Confidential Adresse."];
   Message false [Loc None "+1"]
     "Invalid amount for -%s=&lt;amount&gt;: &apos;%s&apos;" true
     ["Ungültiger Betrag für -%s=&lt;amount&gt;: &apos;%s&apos;&lt;/amount&gt;"];
   Message false [Loc None "+1"]
     "Invalid amount for -discardfee=&lt;amount&gt;: &apos;%s&apos;" true
     ["Ungültiger Betrag für -discardfee=&lt;amount&gt;: &apos;%s&apos;&lt;/amount&gt;"];
   Message false [Loc None "+1"]
     "Invalid amount for -fallbackfee=&lt;amount&gt;: &apos;%s&apos;" true
     ["Ungültiger Betrag für -fallbackfee=&lt;amount&gt;: &apos;%s&apos;&lt;/amount&gt;"];
   Message false [Loc None "+1"]
     "Invalid amount for -paytxfee=&lt;amount&gt;: &apos;%s&apos; (must be at least %s)" true
     ["Ungültiger Betrag für -paytxfee=&lt;amount&gt;: &apos;%s&apos; (muss mindestens %s sein)&lt;/amount&gt;"];
   Message false [Loc None "+1"]
     "Invalid amount for -reservebalance=&lt;amount&gt;" true
     ["Ungültiger Betrag für -reservebalance=&lt;amount&gt;&lt;/amount&gt;"];
   Message false [Loc None "+1"]
     "Invalid coldstakingaddress." true
     ["Ungültige ColdStaking Adresse."];
   Message false [Loc None "+1"]
     "Invalid input key." true
     ["Ungültiger Eingabeschlüssel."];
   Message false [Loc None "+1"]
     "Invalid key." true
     ["Ungültiger Schlüssel."];
   Message false [Loc None "+1"]
     "Invalid netmask specified in -whitelist: &apos;%s&apos;" true
     ["Ungültige Netzmaske in -whitelist angegeben: &apos;%s&apos;"];
   Message false [Loc None "+1"]
     "Invalid rewardaddress." true
     ["Ungültige Belohnungsadresse."];
   Message false [Loc None "+1"]
     "Keypool ran out, please call keypoolrefill first" true
     ["Keypool ausgelaufen, rufen Sie bitte keypoolrefill zuerst"];
   Message false [Loc None "+1"]
     "Loading P2P addresses..." true
     ["P2P-Adressen werden geladen..."]].

Definition de_bitcoin_core_5 : list message :=
  [Message false [Loc None "+1"]
     "Loading address book for %s.
" true
     ["Adressbuch für %s geladen."];
   Message false [Loc None "+1"]
     "Loading banlist..." true
     ["Banlist wird geladen..."];
   Message false [Loc None "+1"]
     "Loading block index..." true
     ["Blockindex wird geladen..."];
   Message false [Loc None "+1"]
     "Loading transaction records for %s.
" true
     ["Laden von Transaktionsdatensätzen für %s."];
   Message false [Loc None "+1"]
     "Loading wallet..." true
     ["Brieftasche wird geladen..."];
   Message false [Loc None "+1"]
     "Minimum time in seconds between successful stakes (default: 0)" true
     ["Mindestzeit in Sekunden zwischen erfolgreichen Einsätzen (Standard: 0)"];
   Message false [Loc None "+1"]
     "Must be json object." true
     ["Muss ein json-Objekt sein."];
   Message false [Loc None "+1"]
     "Must have account to save keys." true
     ["Muss über ein Konto verfügen, um Schlüssel zu speichern."];
   Message false [Loc None "+1"]
     "Must input a stealthaddress." true
     ["Es muss eine normale Bitcoin Confidential Adresse eingegeben werden."];
   Message false [Loc None "+1"]
     "Need a parameter to change." true
     ["Benötigt einen Parameter um geändert zu werden."];
   Message false [Loc None "+1"]
     "Need to specify a port with -whitebind: &apos;%s&apos;" true
     ["Notwendigkeit, einen Port mit -whitebind anzugeben: &apos;%s&apos;"];
   Message false [Loc None "+1"]
     "New state must be bool." true
     ["Neuer Zustand muss bool sein."];
   Message false [Loc None "+1"]
     "NewExtKeyFromAccount failed, %s." true
     ["NewExtKeyFromAccount fehlgeschlagen, %s."];
   Message false [Loc None "+1"]
     "NewExtKeyFromAccount failed." true
     ["NewExtKeyFromAccount ist fehlgeschlagen."];
   Message false [Loc None "+1"]
     "NewStealthKeyV2FromAccount failed." true
     ["NewStealthKeyV2FromAccount fehlgeschlagen."];
   Message false [Loc None "+1"]
     "No default account set." true
     ["Kein Standardkontosatz."];
   Message false [Loc None "+1"]
     "No key for anonoutput, %s" true
     ["Kein Schlüssel für anonoutput, %s"];
   Message false [Loc None "+1"]
     "Not anon output %s %d" true
     ["Nicht anon-Ausgabe %s %d"];
   Message false [Loc None "+1"]
     "Not enough file descriptors available." true
     ["Es sind nicht genügend Dateideskriptoren verfügbar."];
   Message false [Loc None "+1"]
     "Num inputs per signature out of range" true
     ["Num-Eingänge pro Signatur a-range"];
   Message false [Loc None "+1"]
     "Number of keys to load into the lookahead pool per chain. (default: %u)" true
     ["Anzahl der Schlüssel, die pro Kette in den Lookahead-Pool geladen werden sollen. (Standard: %u)"];
   Message false [Loc None "+1"]
     "Only able to send to stealth address." true
     ["Nur in der Lage, an Stealth-Adresse zu senden."];
   Message false [Loc None "+1"]
     "OpIsCoinstake is not active yet." true
     ["OpIsCoinstake ist noch nicht aktiv."];
   Message false [Loc None "+1"]
     "Output isn&apos;t standard." true
     ["Die Ausgabe ist kein Standard."];
   Message false [Loc None "+1"]
     "PrepareTransaction for device failed: %s" true
     ["PrepareTransaction für Gerätefehler: %s"];
   Message false [Loc None "+1"]
     "ProduceSignature from device failed: %s" true
     ["ProduceSignature vom Gerät fehlgeschlagen: %s"];
   Message false [Loc None "+1"]
     "Prune cannot be configured with a negative value." true
     ["Prune können nicht mit einem negativen Wert konfiguriert werden."];
   Message false [Loc None "+1"]
     "Prune mode is incompatible with -txindex." true
     ["Der Prune-Modus ist mit -txindex nicht kompatibel."];
   Message false [Loc None "+1"]
     "Pruning blockstore..." true
     ["Blockspeicher wird beschnitten..."]].

Definition de_bitcoin_core_6 : list message :=
  [Message false [Loc None "+1"]
     "ReadStoredTx failed for %s" true
     ["ReadStoredTx fehlgeschlagen für %s"];
   Message false [Loc None "+1"]
     "Reducing -maxconnections from %d to %d, because of system limitations." true
     ["Reduzieren von -maxVerbindungen von %d auf %d aufgrund von Systemeinschränkungen."];
   Message false [Loc None "+1"]
     "Replaying blocks..." true
     ["Blöcke werden wiedergegeben..."];
   Message false [Loc None "+1"]
     "Rescanning..." true
     ["Erneutes Scannen..."];
   Message false [Loc None "+1"]
     "Rewinding blocks..." true
     ["Blöcke werden zurückspulen..."];
   Message false [Loc None "+1"]
     "Ring size out of range [%d, %d]" true
     ["Ringgröße a-range [%d, %d]"];
   Message false [Loc None "+1"]
     "Ring size out of range" true
     ["Ringgröße a-range"];
   Message false [Loc None "+1"]
     "Scan secret is not 32 bytes." true
     ["Scan-Geheimnis ist nicht 32 Bytes."];
   Message false [Loc None "+1"]
     "SetSetting failed." true
     ["SetSetting fehlgeschlagen."];
   Message false [Loc None "+1"]
     "Signing transaction failed" true
     ["Signaturtransaktion fehlgeschlagen"];
   Message false [Loc None "+1"]
     "Specified -walletdir &quot;%s&quot; does not exist" true
     ["Angegeben -walletdir &quot;%s&quot; ist nicht vorhanden"];
   Message false [Loc None "+1"]
     "Specified -walletdir &quot;%s&quot; is a relative path" true
     ["Angegeben -walletdir &quot;%s&quot; ist ein relativer Pfad"];
   Message false [Loc None "+1"]
     "Specified -walletdir &quot;%s&quot; is not a directory" true
     ["Specified -walletdir &quot;%s&quot; ist kein Verzeichnis"];
   Message false [Loc None "+1"]
     "Specified blocks directory &quot;%s&quot; does not exist." true
     ["Das angegebene Blockverzeichnis &quot;%s&quot; ist nicht vorhanden."];
   Message false [Loc None "+1"]
     "Spend secret is not 32 bytes." true
     ["Das Geheimnis &quot;Ausgeben&quot; beträgt nicht 32 Bytes."];
   Message false [Loc None "+1"]
     "Spend secret must be different to scan secret." true
     ["Das Ausgabengeheimnis muss sich vom Scan-Geheimnis unterscheiden."];
   Message false [Loc None "+1"]
     "Stake your coins to support network and gain reward (default: true)" true
     ["Setzen Sie Ihre Münzen, um Netzwerk zu unterstützen und Belohnung zu gewinnen (Standard: wahr)"];
   Message false [Loc None "+1"]
     "Starting network threads..." true
     ["Netzwerkthreads werden gestartet..."];
   Message false [Loc None "+1"]
     "StealthSecret failed, try again." true
     ["StealthSecret fehlgeschlagen, versuchen Sie es erneut."];
   Message false [Loc None "+1"]
     "The source code is available from %s." true
     ["Der Quellcode ist von %s verfügbar."];
   Message false [Loc None "+1"]
     "The transaction amount is too small to pay the fee" true
     ["Der Transaktionsbetrag ist zu klein, um die Gebühr zu bezahlen"];
   Message false [Loc None "+1"]
     "The wallet will avoid paying less than the minimum relay fee." true
     ["Das Portemonnaie wird vermeiden, weniger als die minimale Relaisgebühr zu zahlen."];
   Message false [Loc None "+1"]
     "This is experimental software." true
     ["Dies ist experimentelle Software."];
   Message false [Loc None "+1"]
     "This is the minimum transaction fee you pay on every transaction." true
     ["Dies ist die Mindesttransaktionsgebühr, die Sie für jede Transaktion zahlen."];
   Message false [Loc None "+1"]
     "This is the transaction fee you will pay if you send a transaction." true
     ["Dies ist die Transaktionsgebühr, die Sie zahlen, wenn Sie eine Transaktion senden."];
   Message false [Loc None "+1"]
     "Transaction amount too small" true
     ["Transaktionsbetrag zu klein"];
   Message false [Loc None "+1"]
     "Transaction amounts must not be negative" true
     ["Transaktionsbeträge dürfen nicht negativ sein"];
   Message false [Loc None "+1"]
     "Transaction amounts must not be negative." true
     ["Transaktionsbeträge dürfen nicht negativ sein."];
   Message false [Loc None "+1"]
     "Transaction fee and change calculation failed" true
     ["Transaktionsgebühr und Änderungsberechnung fehlgeschlagen"];
   Message false [Loc None "+1"]
     "Transaction fee and change calculation failed." true
     ["Transaktionsgebühr und Änderungsberechnung sind fehlgeschlagen."]].

Definition de_bitcoin_core_7 : list message :=
  [Message false [Loc None "+1"]
     "Transaction has too long of a mempool chain" true
     ["Transaktion hat zu lange von einer Mempool-Kette"];
   Message false [Loc None "+1"]
     "Transaction must have at least one recipient" true
     ["Transaktion muss mindestens einen Empfänger haben"];
   Message false [Loc None "+1"]
     "Transaction must have at least one recipient." true
     ["Die Transaktion muss mindestens einen Empfänger haben."];
   Message false [Loc None "+1"]
     "Transaction too large for fee policy" true
     ["Transaktion zu groß für Gebührenpolitik"];
   Message false [Loc None "+1"]
     "Transaction too large for fee policy." true
     ["Transaktion zu groß für Gebührenpolitik."];
   Message false [Loc None "+1"]
     "Transaction too large" true
     ["Transaktion zu groß"];
   Message false [Loc None "+1"]
     "TxnBegin failed." true
     ["TxnBegin ist fehlgeschlagen."];
   Message false [Loc None "+1"]
     "Unable to bind to %s on this computer (bind returned error %s)" true
     ["Auf diesem Computer kann auf diesem Computer keine Bindung an %s möglich sein (Bindung des zurückgegebenen Fehlers %s)"];
   Message false [Loc None "+1"]
     "Unable to bind to %s on this computer. %s is probably already running." true
     ["Auf diesem Computer kann die Bindung an %s nicht möglich sein. %s wird wahrscheinlich bereits ausgeführt."];
   Message false [Loc None "+1"]
     "Unable to generate initial keys" true
     ["Anfangsschlüssel können nicht generiert werden"];
   Message false [Loc None "+1"]
     "Unable to generate keys" true
     ["Schlüssel können nicht generiert werden"];
   Message false [Loc None "+1"]
     "Unable to start HTTP server. See debug log for details." true
     ["HTTP-Server können nicht gestartet werden. Weitere Informationen finden Sie im Debugprotokoll."];
   Message false [Loc None "+1"]
     "Unknown account." true
     ["Unbekanntes Konto."];
   Message false [Loc None "+1"]
     "Unknown action, must be one of &apos;add/edit/del&apos;." true
     ["Unbekannte Aktion, muss eine von &apos;add/edit/del&apos; sein."];
   Message false [Loc None "+1"]
     "Unknown argument for 256bithash: %s." true
     ["Unbekanntes Argument für 256bithash: %s."];
   Message false [Loc None "+1"]
     "Unknown argument for add_to_addressbook: %s." true
     ["Unbekanntes Argument für add_to_addressbook: %s."];
   Message false [Loc None "+1"]
     "Unknown chain." true
     ["Unbekannte Kette."];
   Message false [Loc None "+1"]
     "Unknown input key version." true
     ["Unbekannte Eingabeschlüsselversion."];
   Message false [Loc None "+1"]
     "Unknown network specified in -onlynet: &apos;%s&apos;" true
     ["Unbekanntes Netzwerk in -onlynet: &apos;%s&apos;"];
   Message false [Loc None "+1"]
     "Unknown setting" true
     ["Unbekannte Einstellung"];
   Message false [Loc None "+1"]
     "Unsupported argument -benchmark ignored, use -debug=bench." true
     ["Nicht unterstütztes Argument -benchmark ignoriert, verwenden Sie -debug=bench."];
   Message false [Loc None "+1"]
     "Unsupported argument -debugnet ignored, use -debug=net." true
     ["Nicht unterstütztes Argument -debugnet ignoriert, verwenden Sie -debug=net."];
   Message false [Loc None "+1"]
     "Unsupported argument -debugnet ignored, use -debug=smsg." true
     ["Nicht unterstütztes Argument -debugnet ignoriert, verwenden Sie -debug=smsg."];
   Message false [Loc None "+1"]
     "Unsupported argument -tor found, use -onion." true
     ["Nicht unterstütztes Argument -tor gefunden, verwenden Sie -onion."];
   Message false [Loc None "+1"]
     "Unsupported logging category %s=%s." true
     ["Nicht unterstützte Protokollierungskategorie %s=%s."];
   Message false [Loc None "+1"]
     "Upgrading txindex database" true
     ["Aktualisieren der txindex-Datenbank"];
   Message false [Loc None "+1"]
     "User Agent comment (%s) contains unsafe characters." true
     ["Der Kommentar des Benutzer-Agenten (%s) enthält unsichere Zeichen."];
   Message false [Loc None "+1"]
     "Verifying blocks..." true
     ["Blöcke werden überprüft..."];
   Message false [Loc None "+1"]
     "Verifying wallet(s)..." true
     ["Brieftasche wird überprüft..."];
   Message false [Loc None "+1"]
     "Wallet %s resides outside wallet directory %s" true
     ["Brieftasche %s befindet sich außerhalb des Brieftaschen-Verzeichnisses %s"]].

Definition de_bitcoin_core_8 : list message :=
  [Message false [Loc None "+1"]
     "Wallet has no active master key." true
     ["Brieftasche hat keinen aktiven Hauptschlüssel."];
   Message false [Loc None "+1"]
     "Wallet must be unlocked." true
     ["Brieftasche muss entsperrt werden."];
   Message false [Loc None "+1"]
     "Wallet must have a default account set." true
     ["Brieftasche muss über ein Standardkonto festgelegt sein."];
   Message false [Loc None "+1"]
     "Wallet needed to be rewritten: restart %s to complete" true
     ["Brieftasche musste neu geschrieben werden: starten Sie %s neu, um sie abzuschließen"];
   Message false [Loc None "+1"]
     "Warning" true
     ["Warnung"];
   Message false [Loc None "+1"]
     "Warning: unknown new rules activated (versionbit %i)" true
     ["Warnung: Unbekannte neue Regeln aktiviert (Versionsbit %i)"];
   Message false [Loc None "+1"]
     "You need to rebuild the database using -reindex to change -addressindex" true
     ["Sie müssen die Datenbank mithilfe von -reindex neu erstellen, um -addressindex zu ändern."];
   Message false [Loc None "+1"]
     "You need to rebuild the database using -reindex to change -spentindex" true
     ["Sie müssen die Datenbank mithilfe von -reindex neu erstellen, um -spentindex zu ändern."];
   Message false [Loc None "+1"]
     "Zapping all transactions from wallet..." true
     ["Alle Transaktionen aus der Brieftasche zappen..."];
   Message false [Loc None "+1"]
     "accounts missing." true
     ["Konten fehlen."];
   Message false [Loc None "+1"]
     "accounts must be an array." true
     ["Konten muss ein Array sein."];
   Message false [Loc None "+1"]
     "add_to_addressbook can&apos;t be set without save" true
     ["add_to_addressbook kann nicht ohne Speichern festgelegt werden"];
   Message false [Loc None "+1"]
     "address_standard must be a string." true
     ["address_standard muss eine Zeichenfolge sein."];
   Message false [Loc None "+1"]
     "bad childNo." true
     ["schlechte childNo.."];
   Message false [Loc None "+1"]
     "bech32 encode failed." true
     ["bech32-Codierung fehlgeschlagen."];
   Message false [Loc None "+1"]
     "coldstakingaddress can&apos;t be a stealthaddress." true
     ["ColdStaking Adresse kann keine normale Bitcoin Confidential Adresse sein."];
   Message false [Loc None "+1"]
     "coldstakingaddress must be a string." true
     ["ColdStaking Adresse muss eine Zeichenkette sein."];
   Message false [Loc None "+1"]
     "extkey must have private key to derive hardened keys." true
     ["extkey muss über einen privaten Schlüssel verfügen, um gehärtete Schlüssel abzuleiten."];
   Message false [Loc None "+1"]
     "foundationdonationpercent must be a number." true
     ["Stiftungsspendeprozent muss eine Zahl sein."];
   Message false [Loc None "+1"]
     "height must be a number." true
     ["Höhe muss eine Zahl sein."];
   Message false [Loc None "+1"]
     "loose_extkeys missing." true
     ["loose_extkeys fehlt."];
   Message false [Loc None "+1"]
     "loose_extkeys must be an array." true
     ["loose_extkeys muss ein Array sein."];
   Message false [Loc None "+1"]
     "num_derives to int failed." true
     ["num_derives to int failed."];
   Message false [Loc None "+1"]
     "num_derives_h to int failed." true
     ["num_derives_h zu int failed."];
   Message false [Loc None "+1"]
     "num_prefix_bits invalid number." true
     ["num_prefix_bits ungültige Zahl."];
   Message false [Loc None "+1"]
     "num_prefix_bits must be &lt;= 32." true
     ["num_prefix_bits muss&lt;= 32.&gt;&lt;/= 32.&gt;"];
   Message false [Loc None "+1"]
     "rewardaddress must be a string." true
     ["rewardaddress muss eine Zeichenfolge sein."];
   Message false [Loc None "+1"]
     "secp256k1_generate_mlsag failed %d" true
     ["secp256k1_generate_mlsag fehlgeschlagen %d"];
   Message false [Loc None "+1"]
     "secp256k1_get_keyimage failed %d" true
     ["secp256k1_get_keyimage fehlgeschlagen %d"];
   Message false [Loc None "+1"]
     "secp256k1_prepare_mlsag failed %d" true
     ["secp256k1_prepare_mlsag fehlgeschlagen %d"]].

Definition de_bitcoin_core_9 : list message :=
  [Message false [Loc None "+1"]
     "stakecombinethreshold can&apos;t be negative." true
     ["stakecombinethreshold kann nicht negativ sein."];
   Message false [Loc None "+1"]
     "stakesplitthreshold can&apos;t be negative." true
     ["stakesplitthreshold kann nicht negativ sein."]].

(** The whole document. *)
Definition bitcoin_de_DE : catalogue :=
  [Context "AddressBookPage" (de_AddressBookPage_1 ++ de_AddressBookPage_2);
   Context "AddressTableModel" (de_AddressTableModel);
   Context "AskPassphraseDialog" (de_AskPassphraseDialog_1 ++ de_AskPassphraseDialog_2);
   Context "BanTableModel" (de_BanTableModel);
   Context "BitcoinGUI" (de_BitcoinGUI_1 ++ de_BitcoinGUI_2 ++ de_BitcoinGUI_3 ++ de_BitcoinGUI_4);
   Context "CoinControlDialog" (de_CoinControlDialog_1 ++ de_CoinControlDialog_2);
   Context "EditAddressDialog" (de_EditAddressDialog);
   Context "FreespaceChecker" (de_FreespaceChecker);
   Context "HelpMessageDialog" (de_HelpMessageDialog);
   Context "Intro" (de_Intro);
   Context "MnemonicDialog" (de_MnemonicDialog_1 ++ de_MnemonicDialog_2);
   Context "ModalOverlay" (de_ModalOverlay);
   Context "OpenURIDialog" (de_OpenURIDialog);
   Context "OptionsDialog" (de_OptionsDialog_1 ++ de_OptionsDialog_2 ++ de_OptionsDialog_3);
   Context "OverviewPage" (de_OverviewPage);
   Context "PaymentServer" (de_PaymentServer);
   Context "PeerTableModel" (de_PeerTableModel);
   Context "QObject" (de_QObject);
   Context "QObject::QObject" (de_QObject__QObject);
   Context "QRImageWidget" (de_QRImageWidget);
   Context "RPCConsole" (de_RPCConsole_1 ++ de_RPCConsole_2 ++ de_RPCConsole_3);
   Context "ReceiveCoinsDialog" (de_ReceiveCoinsDialog);
   Context "ReceiveRequestDialog" (de_ReceiveRequestDialog);
   Context "RecentRequestsTableModel" (de_RecentRequestsTableModel);
   Context "SendCoinsDialog" (de_SendCoinsDialog_1 ++ de_SendCoinsDialog_2 ++ de_SendCoinsDialog_3);
   Context "SendCoinsEntry" (de_SendCoinsEntry_1 ++ de_SendCoinsEntry_2);
   Context "SendConfirmationDialog" (de_SendConfirmationDialog);
   Context "ShutdownWindow" (de_ShutdownWindow);
   Context "SignVerifyMessageDialog" (de_SignVerifyMessageDialog_1 ++ de_SignVerifyMessageDialog_2);
   Context "SplashScreen" (de_SplashScreen);
   Context "StakingDialog" (de_StakingDialog_1 ++ de_StakingDialog_2);
   Context "TrafficGraphWidget" (de_TrafficGraphWidget);
   Context "TransactionDesc" (de_TransactionDesc_1 ++ de_TransactionDesc_2);
   Context "TransactionDescDialog" (de_TransactionDescDialog);
   Context "TransactionTableModel" (de_TransactionTableModel_1 ++ de_TransactionTableModel_2);
   Context "TransactionView" (de_TransactionView_1 ++ de_TransactionView_2);
   Context "TxViewDelegate" (de_TxViewDelegate);
   Context "UnitDisplayStatusBarControl" (de_UnitDisplayStatusBarControl);
   Context "WalletFrame" (de_WalletFrame);
   Context "WalletModel" (de_WalletModel);
   Context "WalletView" (de_WalletView);
   Context "bitcoin-core" (de_bitcoin_core_1 ++ de_bitcoin_core_2 ++ de_bitcoin_core_3 ++ de_bitcoin_core_4 ++ de_bitcoin_core_5 ++ de_bitcoin_core_6 ++ de_bitcoin_core_7 ++ de_bitcoin_core_8 ++ de_bitcoin_core_9)].
