(* ===== verification/CatalogueEl.v ===== *)
(** The Greek catalogue, [src/src/qt/locale/bitcoin_el_GR.ts], context by context; a long
    context is cut into parts.  Texts are as in the file. *)
From S2P Require Import Prelude Locale.
Open Scope txt_scope.
Open Scope list_scope.

Definition el_AddressBookPage_1 : list message :=
  [Message false [Loc (Some "../forms/addressbookpage.ui") "+27"]
     "Enter address or label to search" true
     ["Εισαγωγή διεύθυνσης ή ετικέτας για αναζήτηση"];
   Message false [Loc None "+10"]
     "Right-click to edit address or label" true
     ["Κάντε δεξιό κλικ για να επεξεργαστείτε τη διεύθυνση ή την ετικέτα"];
   Message false [Loc None "+30"; Loc None "+17"; Loc None "+17"]
     "Create a new address" true
     ["Δημιουργία νέας διεύθυνσης"];
   Message false [Loc None "-31"]
     "&amp;New" true
     ["Και νέα"];
   Message false [Loc None "+17"]
     "&amp;New Stake address" true
     ["Και νέα διεύθυνση πασσάλου"];
   Message false [Loc None "+17"]
     "&amp;New ColdStake address" true
     ["Και νέα διεύθυνση ψυχρού πασσάλου"];
   Message false [Loc None "+14"]
     "Copy the currently selected address to the system clipboard" true
     ["Αντιγραφή της τρέχουσας επιλεγμένης διεύθυνσης στο Πρόχειρο του συστήματος"];
   Message false [Loc None "+3"]
     "&amp;Copy" true
     ["Και αντιγραφή"];
   Message false [Loc None "+14"]
     "Delete the currently selected address from the list" true
     ["Διαγραφή της τρέχουσας επιλεγμένης διεύθυνσης από τη λίστα"];
   Message false [Loc None "+3"]
     "&amp;Delete" true
     ["Και διαγραφή"];
   Message false [Loc None "+27"]
     "Export the data in the current tab to a file" true
     ["Εξαγωγή των δεδομένων στην τρέχουσα καρτέλα σε ένα αρχείο"];
   Message false [Loc None "+3"]
     "&amp;Export" true
     ["Και εξαγωγή"];
   Message false [Loc None "+20"]
     "C&amp;lose" true
     ["C&amp;Lose"];
   Message false [Loc (Some "../addressbookpage.cpp") "+84"]
     "These are your Bitcoin Confidential addresses for sending payments. Always check the amount and the receiving address before sending coins." true
     ["Αυτές είναι οι διευθύνσεις σας Bitcoin εμπιστευτικό για την αποστολή πληρωμών. Πάντα να ελέγχετε το ποσό και τη διεύθυνση λήψης πριν από την αποστολή κερμάτων."];
   Message false [Loc None "+8"]
     "Choose the address to send coins to" true
     ["Επιλέξτε τη διεύθυνση για την αποστολή κερμάτων σε"];
   Message false [Loc None "+4"; Loc None "+22"; Loc None "+28"]
     "C&amp;hoose" true
     ["C&amp;Hoose"];
   Message false [Loc None "-44"]
     "Sending addresses" true
     ["Αποστολή διευθύνσεων"];
   Message false [Loc None "+12"]
     "Choose the address to receive coins with" true
     ["Επιλέξτε τη διεύθυνση για να λαμβάνετε κέρματα με"];
   Message false [Loc None "+10"]
     "Receiving addresses" true
     ["Λήψη διευθύνσεων"];
   Message false [Loc None "+1"]
     "These are your Bitcoin Confidential addresses for receiving payments. It is recommended to use a new receiving address for each transaction." true
     ["Αυτές είναι οι διευθύνσεις σας Bitcoin εμπιστευτικό για τη λήψη πληρωμών. Συνιστάται η χρήση μιας νέας διεύθυνσης λήψης για κάθε συναλλαγή."];
   Message false [Loc None "+13"]
     "Choose the Stake or ColdStake address" true
     ["Επιλέξτε τη διεύθυνση πασσάλου ή ψυχρού πονταρίσματος"];
   Message false [Loc None "+1"]
     "These are your Bitcoin Confidential Stake and ColdStake addresses." true
     ["Αυτές είναι οι διευθύνσεις σας Bitcoin εμπιστευτικό και ψυχρό ποντάρισμα."];
   Message false [Loc None "+16"]
     "Stake and ColdStake addresses" true
     ["Διευθύνσεις πασσάλου και ψυχρού στοιχήματος"];
   Message false [Loc None "+1"]
     "These addresses cannot be used to receive coins from outside the wallet, such as payments or from exchanges.  Use the Receive tab to generate spending addresses.

Stake addresses, starting with &quot;%1&quot;, are used to convert spending funds into staking funds in the &quot;Convert to Staking&quot; tab. Funds in Stake addresses can be either used for hot staking or the activation of ColdStaking.

ColdStake addresses, starting with &quot;%2&quot;, are used to manually activate staking funds for ColdStaking. There is no need to generate ColdStake addresses when the automated ColdStaking activation from the Staking Status page is used." true
     ["Αυτές οι διευθύνσεις δεν μπορούν να χρησιμοποιηθούν για τη λήψη κερμάτων εκτός του πορτοφολιού, όπως πληρωμές ή από ανταλλαγές.  Χρησιμοποιήστε την καρτέλα λήψη για να δημιουργήσετε διευθύνσεις δαπανών.

Οι διευθύνσεις πασσάλου, ξεκινώντας με το &quot;% 1&quot;, χρησιμοποιούνται για τη μετατροπή κεφαλαίων δαπανών σε κεφάλαια που διακυβεύονται στην καρτέλα &quot;μετατροπή σε πασσάλου&quot;. τα κεφάλαια σε διευθύνσεις πονταρίσματος μπορούν να χρησιμοποιηθούν είτε για ζεστό ποντάρισμά τους είτε για την ενεργοποίηση του ψυχρού νερού.

Οι διευθύνσεις ψυχρού πασσάλου, ξεκινώντας με το &quot;% 2&quot;, χρησιμοποιούνται για τη μη αυτόματη ενεργοποίηση των κεφαλαίων που στοιχηματίζετε. Δεν χρειάζεται να δημιουργηθούν διευθύνσεις ψυχρού στοιχήματος όταν χρησιμοποιείται η αυτοματοποιημένη ενεργοποίηση ψυχρού νερού από τη σελίδα κατάσταση πασσάλου."];
   Message false [Loc None "+11"]
     "&amp;Copy Address" true
     ["Και Αντιγραφή διεύθυνσης"];
   Message false [Loc None "+1"]
     "Copy &amp;Label" true
     ["Αντιγραφή και ετικέτα"];
   Message false [Loc None "+1"]
     "&amp;Edit" true
     ["Και επεξεργασία"]].

Definition el_AddressBookPage_2 : list message :=
  [Message false [Loc None "+186"]
     "Export Address List" true
     ["Εξαγωγή λίστας διευθύνσεων"];
   Message false [Loc None "+1"]
     "Comma separated file (*.csv)" true
     ["Αρχείο διαχωρισμένου με κόμμα (*. csv)"];
   Message false [Loc None "+13"]
     "Exporting Failed" true
     ["Η εξαγωγή απέτυχε"];
   Message false [Loc None "+1"]
     "There was an error trying to save the address list to %1. Please try again." true
     ["Παρουσιάστηκε σφάλμα κατά την προσπάθεια αποθήκευσης της λίστας διευθύνσεων στο% 1. Σε παρακαλώ, προσπάθησε ξανά."]].

Definition el_AddressTableModel : list message :=
  [Message false [Loc (Some "../addresstablemodel.cpp") "+188"]
     "Label" true
     ["Ετικέτα"];
   Message false [Loc None "+0"]
     "Address" true
     ["Διεύθυνση"];
   Message false [Loc None "+36"]
     "(no label)" true
     ["(χωρίς ετικέτα)"]].

Definition el_AskPassphraseDialog_1 : list message :=
  [Message false [Loc (Some "../forms/askpassphrasedialog.ui") "+26"]
     "Passphrase Dialog" true
     ["Παράθυρο διαλόγου συνθηματικής φράσης"];
   Message false [Loc None "+30"]
     "Enter passphrase" true
     ["Εισαγωγή φράσης πρόσβασης"];
   Message false [Loc None "+14"]
     "New passphrase" true
     ["Νέα συνθηματική φράση"];
   Message false [Loc None "+14"]
     "Repeat new passphrase" true
     ["Επανάληψη νέας συνθηματικής φράσης"];
   Message false [Loc None "+14"]
     "Show password" true
     ["Εμφάνιση κωδικού πρόσβασης"];
   Message false [Loc None "+23"]
     "Unlock For Staking Only" true
     ["Ξεκλείδωμα μόνο για Ποντς"];
   Message false [Loc (Some "../askpassphrasedialog.cpp") "+48"]
     "Enter the new passphrase to the wallet.&lt;br/&gt;Please use a passphrase of &lt;b&gt;ten or more random characters&lt;/b&gt;, or &lt;b&gt;eight or more words&lt;/b&gt;." true
     ["Εισαγάγετε τη νέα συνθηματική φράση στο πορτοφόλι.&lt;br&gt;Χρησιμοποιήστε μια συνθηματική φράση με &lt;b&gt;δέκα ή περισσότερους τυχαίους χαρακτήρες&lt;/b&gt;ή &lt;b&gt;οκτώ ή περισσότερες λέξεις&lt;/b&gt;."];
   Message false [Loc None "+3"]
     "Encrypt wallet" true
     ["Κρυπτογράφηση πορτοφολιού"];
   Message false [Loc None "+3"; Loc None "+8"]
     "This operation needs your wallet passphrase to unlock the wallet." true
     ["Αυτή η λειτουργία χρειάζεται τη φράση πρόσβασης πορτοφολιού για να ξεκλειδώσετε το πορτοφόλι."];
   Message false [Loc None "-3"; Loc None "+9"]
     "Unlock wallet" true
     ["Ξεκλείδωμα πορτοφολιού"];
   Message false [Loc None "+3"]
     "This operation needs your wallet passphrase to decrypt the wallet." true
     ["Αυτή η λειτουργία χρειάζεται τη φράση πρόσβασης πορτοφολιού για την αποκρυπτογράφηση του πορτοφολιού."];
   Message false [Loc None "+5"]
     "Decrypt wallet" true
     ["Αποκρυπτογράφηση πορτοφολιού"];
   Message false [Loc None "+3"]
     "Change passphrase" true
     ["Αλλαγή φράσης πρόσβασης"];
   Message false [Loc None "+1"]
     "Enter the old passphrase and new passphrase to the wallet." true
     ["Εισαγάγετε την παλιά συνθηματική φράση και τη νέα συνθηματική φράση στο πορτοφόλι."];
   Message false [Loc None "+47"]
     "Confirm wallet encryption" true
     ["Επιβεβαίωση κρυπτογράφησης πορτοφολιού"];
   Message false [Loc None "+1"]
     "Warning: If you encrypt your wallet and lose your passphrase, you will &lt;b&gt;LOSE ALL OF YOUR BITCOIN CONFIDENTIAL&lt;/b&gt;!" true
     ["Προειδοποίηση: Αν κρυπτογραφήσετε το πορτοφόλι σας και χάσετε τη συνθηματική φράση σας, θα &lt;b&gt;χάσετε όλο το Bitcoin ΕΜΠΙΣΤΕΥΤΙΚΟ&lt;/b&gt;ΣΑΣ!"];
   Message false [Loc None "+0"]
     "Are you sure you wish to encrypt your wallet?" true
     ["Είστε βέβαιοι ότι θέλετε να κρυπτογραφήσετε το πορτοφόλι σας;"];
   Message false [Loc None "+9"; Loc None "+59"]
     "Wallet encrypted" true
     ["Κρυπτογραφημένα πορτοφόλια"];
   Message false [Loc None "-57"]
     "%1 will close now to finish the encryption process. Remember that encrypting your wallet cannot fully protect your Bitcoin Confidential from being stolen by malware infecting your computer." true
     ["το% 1 θα κλείσει τώρα για να ολοκληρωθεί η διαδικασία κρυπτογράφησης. Να θυμάστε ότι η κρυπτογράφηση του πορτοφολιού σας δεν μπορεί να προστατεύσει πλήρως το Bitcoin εμπιστευτικό από κλοπή από κακόβουλο λογισμικό που μολύνει τον υπολογιστή σας."];
   Message false [Loc None "+4"]
     "IMPORTANT: Any previous backups you have made of your wallet file should be replaced with the newly generated, encrypted wallet file. For security reasons, previous backups of the unencrypted wallet file will become useless as soon as you start using the new, encrypted wallet." true
     ["ΣΗΜΑΝΤΙΚΟ: οποιαδήποτε προηγούμενα αντίγραφα ασφαλείας που έχετε κάνει από το αρχείο πορτοφολιού σας θα πρέπει να αντικατασταθούν με το πρόσφατα δημιουργημένο, κρυπτογραφημένο αρχείο πορτοφολιού. Για λόγους ασφαλείας, τα προηγούμενα αντίγραφα ασφαλείας του μη κρυπτογραφημένου αρχείου πορτοφολιού θα γίνουν άχρηστα μόλις αρχίσετε να χρησιμοποιείτε το νέο, κρυπτογραφημένο πορτοφόλι."];
   Message false [Loc None "+9"; Loc None "+7"; Loc None "+43"; Loc None "+6"]
     "Wallet encryption failed" true
     ["Η κρυπτογράφηση πορτοφολιού απέτυχε"];
   Message false [Loc None "-55"]
     "Wallet encryption failed due to an internal error. Your wallet was not encrypted." true
     ["Η κρυπτογράφηση πορτοφολιού απέτυχε λόγω εσωτερικού σφάλματος. Το πορτοφόλι σου δεν ήταν κρυπτογραφημένο."];
   Message false [Loc None "+7"; Loc None "+49"]
     "The supplied passphrases do not match." true
     ["Οι παρεχόμενες φράσεις πρόσβασης δεν ταιριάζουν."];
   Message false [Loc None "-37"]
     "Wallet unlock failed" true
     ["Το πορτοφόλι ξεκλειδώματος απέτυχε"];
   Message false [Loc None "+1"; Loc None "+11"; Loc None "+19"]
     "The passphrase entered for the wallet decryption was incorrect." true
     ["Η συνθηματική φράση που καταχωρήθηκε για την αποκρυπτογράφηση πορτοφολιού ήταν λανθασμένη."];
   Message false [Loc None "-20"]
     "Wallet decryption failed" true
     ["Η αποκρυπτογράφηση πορτοφολιού απέτυχε"];
   Message false [Loc None "+14"]
     "Wallet passphrase was successfully changed." true
     ["Η φράση πρόσβασης πορτοφολιού άλλαξε με επιτυχία."]].

Definition el_AskPassphraseDialog_2 : list message :=
  [Message false [Loc None "+48"; Loc None "+33"]
     "Warning: The Caps Lock key is on!" true
     ["Προειδοποίηση: το πλήκτρο Caps Lock είναι επάνω!"]].

Definition el_BanTableModel : list message :=
  [Message false [Loc (Some "../bantablemodel.cpp") "+88"]
     "IP/Netmask" true
     ["Μάσκα IP/δικτύου"];
   Message false [Loc None "+0"]
     "Banned Until" true
     ["Απαγορευμένη μέχρι"]].

Definition el_BitcoinGUI_1 : list message :=
  [Message false [Loc (Some "../bitcoingui.cpp") "+94"]
     "Wallet" true
     ["Πορτοφόλι"];
   Message false [Loc None "+2"]
     "Node" true
     ["Κόμβο"];
   Message false [Loc None "+169"]
     "Overview" true
     ["Επισκόπηση"];
   Message false [Loc None "+1"]
     "Show general overview of wallet" true
     ["Εμφάνιση γενικής επισκόπησης πορτοφολιού"];
   Message false [Loc None "+7"]
     "Send" true
     ["Στείλτε"];
   Message false [Loc None "+1"]
     "Send coins to a Bitcoin Confidential Spending address" true
     ["Στείλτε κέρματα σε μια διεύθυνση εμπιστευτικών δαπανών Bitcoin"];
   Message false [Loc None "+11"]
     "Receive" true
     ["Λάβετε"];
   Message false [Loc None "+1"]
     "Request payments (generates Spending address QR codes and bitcoinc: URIs)" true
     ["Ζητήστε πληρωμές (δημιουργεί διεύθυνση δαπανών κωδικούς QR και bitcoinc: URI)"];
   Message false [Loc None "+11"]
     "Transactions" true
     ["Συναλλαγές"];
   Message false [Loc None "+1"]
     "Browse transaction history" true
     ["Αναζήτηση ιστορικού συναλλαγών"];
   Message false [Loc None "+7"]
     "Staking" true
     ["Πονταρίσματος"];
   Message false [Loc None "+1"]
     "Setup staking" true
     ["Ρύθμιση πονταρίσματος"];
   Message false [Loc None "+25"]
     "E&amp;xit" true
     ["E&amp;xit"];
   Message false [Loc None "+1"]
     "Quit application" true
     ["Κλείσιμο εφαρμογής"];
   Message false [Loc None "+3"]
     "&amp;About %1" true
     ["Και περίπου% 1"];
   Message false [Loc None "+1"]
     "Show information about %1" true
     ["Εμφάνιση πληροφοριών για το% 1"];
   Message false [Loc None "+3"]
     "About &amp;Qt" true
     ["Σχετικά με το &amp; QT"];
   Message false [Loc None "+1"]
     "Show information about Qt" true
     ["Εμφάνιση πληροφοριών σχετικά με το QT"];
   Message false [Loc None "+2"]
     "&amp;Options..." true
     ["Και επιλογές..."];
   Message false [Loc None "+1"]
     "Modify configuration options for %1" true
     ["Τροποποίηση επιλογών ρύθμισης παραμέτρων για το% 1"];
   Message false [Loc None "+3"]
     "&amp;Show / Hide" true
     ["Και εμφάνιση/απόκρυψη"];
   Message false [Loc None "+1"]
     "Show or hide the main Window" true
     ["Εμφάνιση ή απόκρυψη του κύριου παραθύρου"];
   Message false [Loc None "+2"]
     "&amp;Encrypt Wallet..." true
     ["Και κρυπτογράφηση πορτοφολιού..."];
   Message false [Loc None "+1"]
     "Encrypt the private keys that belong to your wallet" true
     ["Κρυπτογράφηση των ιδιωτικών κλειδιών που ανήκουν στο πορτοφόλι σας"];
   Message false [Loc None "+2"]
     "&amp;Backup Wallet..." true
     ["Και εφεδρικό πορτοφόλι..."];
   Message false [Loc None "+1"]
     "Backup wallet to another location" true
     ["Αντίγραφο ασφαλείας πορτοφολιού σε άλλη θέση"];
   Message false [Loc None "+1"]
     "&amp;Change Passphrase..." true
     ["Και αλλαγή φράσης πρόσβασης..."];
   Message false [Loc None "+1"]
     "Change the passphrase used for wallet encryption" true
     ["Αλλαγή της συνθηματικής φράσης που χρησιμοποιείται για την κρυπτογράφηση πορτοφολιού"];
   Message false [Loc None "+1"]
     "Sign &amp;message..." true
     ["Υπογραφή &amp; μήνυμα..."]].

Definition el_BitcoinGUI_2 : list message :=
  [Message false [Loc None "+1"]
     "Sign messages with your Bitcoin Confidential addresses to prove you own them" true
     ["Υπογράψτε τα μηνύματα με το Bitcoin εμπιστευτικές διευθύνσεις σας για να αποδείξετε ότι σας ανήκουν"];
   Message false [Loc None "+1"]
     "&amp;Verify message..." true
     ["Και επιβεβαιώστε το μήνυμα..."];
   Message false [Loc None "+1"]
     "Verify messages to ensure they were signed with specified Bitcoin Confidential addresses" true
     ["Επαληθεύστε τα μηνύματα για να βεβαιωθείτε ότι υπεγράφησαν με καθορισμένες εμπιστευτικές διευθύνσεις Bitcoin"];
   Message false [Loc None "+2"]
     "&amp;Debug window" true
     ["Και παράθυρο εντοπισμού σφαλμάτων"];
   Message false [Loc None "+1"]
     "Open debugging and diagnostic console" true
     ["Άνοιγμα της κονσόλας εντοπισμού σφαλμάτων και διαγνωστικών"];
   Message false [Loc None "+4"]
     "&amp;Sending addresses..." true
     ["Και αποστολή διευθύνσεων..."];
   Message false [Loc None "+1"]
     "Show the list of used sending addresses and labels" true
     ["Εμφάνιση της λίστας των χρησιμοποιούμενων διευθύνσεων και ετικετών"];
   Message false [Loc None "+1"]
     "&amp;Receiving addresses..." true
     ["Και λήψη διευθύνσεων..."];
   Message false [Loc None "+1"]
     "Show the list of used receiving addresses and labels" true
     ["Εμφάνιση της λίστας των χρησιμοποιούμενων διευθύνσεων και ετικετών"];
   Message false [Loc None "+2"]
     "Open &amp;URI..." true
     ["Ανοίξτε και URI..."];
   Message false [Loc None "+1"]
     "Open a bitcoinc: URI or payment request" true
     ["Ανοίξτε μια δόση bitcoinc: URI ή αίτησης πληρωμής"];
   Message false [Loc None "+2"]
     "&amp;Command-line options" true
     ["Και επιλογές γραμμής εντολών"];
   Message false [Loc None "+2"]
     "Show the %1 help message to get a list with possible Bitcoin Confidential command-line options" true
     ["Εμφάνιση του μηνύματος βοήθειας% 1 για τη λήψη μιας λίστας με πιθανές επιλογές γραμμής εντολών Bitcoin εμπιστευτικού"];
   Message false [Loc None "+2"]
     "&amp;HD Wallet..." true
     ["Και πορτοφόλι HD..."];
   Message false [Loc None "+45"]
     "&amp;File" true
     ["&amp; Αρχείο"];
   Message false [Loc None "+16"]
     "&amp;Settings" true
     ["Και ρυθμίσεις"];
   Message false [Loc None "+9"]
     "&amp;Help" true
     ["Και βοήθεια"];
   Message false [Loc None "+15"]
     "Tabs toolbar" true
     ["Γραμμή εργαλείων &quot;Στηλοθέτες&quot;"];
   Message false [Loc None "+113"]
     "default wallet" true
     ["προεπιλεγμένο πορτοφόλι"];
   Message false [Loc None "+88"]
     "%1 client" true
     ["% 1 υπολογιστής-πελάτης"];
   Message true [Loc None "+189"]
     "%n active connection(s) to Bitcoin Confidential network" true
     ["% n ενεργή σύνδεση (ες) με δίκτυο εμπιστευτικό"; "% n ενεργή σύνδεση (ες) με δίκτυο εμπιστευτικό"];
   Message false [Loc None "+0"]
     "Click to disable network activity." true
     ["Κάντε κλικ για να απενεργοποιήσετε τη δραστηριότητα δικτύου."];
   Message false [Loc None "+2"]
     "Network activity disabled." true
     ["Η δραστηριότητα δικτύου απενεργοποιήθηκε."];
   Message false [Loc None "+0"]
     "Click to enable network activity again." true
     ["Κάντε κλικ για να ενεργοποιήσετε ξανά τη δραστηριότητα δικτύου."];
   Message false [Loc None "+28"]
     "Syncing Headers (%1%)..." true
     ["Συγχρονισμός κεφαλίδων (% 1%)..."];
   Message false [Loc None "+26"]
     "Synchronizing with network..." true
     ["Συγχρονισμός με το δίκτυο..."];
   Message false [Loc None "+5"]
     "Indexing blocks on disk..." true
     ["Δημιουργία ευρετηρίου μπλοκ στο δίσκο..."];
   Message false [Loc None "+2"]
     "Processing blocks on disk..." true
     ["Επεξεργασία μπλοκ στο δίσκο..."];
   Message false [Loc None "+4"]
     "Reindexing blocks on disk..." true
     ["Επαναευρετηριοποίηση μπλοκ στο δίσκο..."];
   Message false [Loc None "+6"]
     "Connecting to peers..." true
     ["Σύνδεση σε ομότιμους..."]].

Definition el_BitcoinGUI_3 : list message :=
  [Message true [Loc None "+9"]
     "Processed %n block(s) of transaction history." true
     ["Επεξεργασία% n μπλοκ (α) του ιστορικού συναλλαγών."; "Επεξεργασία% n μπλοκ (α) του ιστορικού συναλλαγών."];
   Message false [Loc None "+5"]
     "Up to date" true
     ["Ενημερωμένο"];
   Message false [Loc None "+19"]
     "%1 behind" true
     ["% 1 πίσω από"];
   Message false [Loc None "+5"]
     "Catching up..." true
     ["Η σύλληψη..."];
   Message false [Loc None "+19"]
     "Last received block was generated %1 ago." true
     ["Το τελευταίο μπλοκ που παραλήφθηκε δημιουργήθηκε% 1 πριν."];
   Message false [Loc None "+2"]
     "Transactions after this will not yet be visible." true
     ["Οι συναλλαγές μετά από αυτό δεν θα είναι ακόμα ορατές."];
   Message false [Loc None "+13"]
     "Bitcoin Confidential" true
     ["Bitcoin εμπιστευτικό"];
   Message false [Loc None "+14"]
     "Error" true
     ["Σφάλμα"];
   Message false [Loc None "+3"]
     "Warning" true
     ["Προειδοποίηση"];
   Message false [Loc None "+3"]
     "Information" true
     ["Πληροφορίες"];
   Message false [Loc None "+116"]
     "Date: %1
" true
     ["Ημερομηνία:% 1"];
   Message false [Loc None "+1"]
     "Amount: %1
" true
     ["Ποσό:% 1"];
   Message false [Loc None "+2"]
     "Wallet: %1
" true
     ["Πορτοφόλι:% 1"];
   Message false [Loc None "+2"]
     "Type: %1
" true
     ["Τύπος:% 1"];
   Message false [Loc None "+2"]
     "Label: %1
" true
     ["Ετικέτα:% 1"];
   Message false [Loc None "+2"]
     "Address: %1
" true
     ["Διεύθυνση:% 1"];
   Message false [Loc None "+1"]
     "Sent transaction" true
     ["Αποστολή συναλλαγής"];
   Message false [Loc None "+0"]
     "Incoming transaction" true
     ["Εισερχόμενη συναλλαγή"];
   Message false [Loc None "+52"]
     "HD key generation is &lt;b&gt;enabled&lt;/b&gt;" true
     ["Η δημιουργία πλήκτρων HD είναι &lt;b&gt;ενεργοποιημένη&lt;/b&gt;"];
   Message false [Loc None "+0"]
     "HD key generation is &lt;b&gt;disabled&lt;/b&gt;" true
     ["Η δημιουργία πλήκτρων HD είναι &lt;b&gt;απενεργοποιημένη&lt;/b&gt;"];
   Message false [Loc None "+13"]
     "Wallet is &lt;b&gt;not encrypted&lt;/b&gt;. Click the opened lock to encrypt it." true
     ["Το πορτοφόλι &lt;b&gt;δεν είναι κρυπτογραφημένο&lt;/b&gt;. Κάντε κλικ στο ανοιχτό κλείδωμα για να το κρυπτογραφήσετε."];
   Message false [Loc None "+8"]
     "Wallet is &lt;b&gt;encrypted&lt;/b&gt; and currently &lt;b&gt;unlocked&lt;/b&gt;" true
     ["Το πορτοφόλι είναι &lt;b&gt;κρυπτογραφημένο&lt;/b&gt; και &lt;b&gt;ξεκλείδωτο&lt;/b&gt; αυτήν τη στιγμή"];
   Message false [Loc None "+8"]
     "Wallet is &lt;b&gt;encrypted&lt;/b&gt; and currently &lt;b&gt;unlocked&lt;/b&gt; for staking only" true
     ["Το πορτοφόλι είναι &lt;b&gt;κρυπτογραφημένο&lt;/b&gt; και είναι &lt;b&gt;ξεκλείδωτο&lt;/b&gt; για να στοιχηματίζετε μόνο"];
   Message false [Loc None "+8"]
     "Wallet is &lt;b&gt;encrypted&lt;/b&gt; and currently &lt;b&gt;locked&lt;/b&gt;" true
     ["Το πορτοφόλι είναι &lt;b&gt;κρυπτογραφημένο&lt;/b&gt; και αυτή τη στιγμή &lt;b&gt;κλειδωμένο&lt;/b&gt;"];
   Message false [Loc None "+58"]
     "Proxy is &lt;b&gt;enabled&lt;/b&gt;: %1" true
     ["Ο διακομιστής μεσολάβησης είναι &lt;b&gt;ενεργοποιημένος&lt;/b&gt;:% 1"];
   Message false [Loc None "+28"]
     "Tor is &lt;b&gt;enabled&lt;/b&gt;" true
     ["Ο Tor είναι &lt;b&gt;ενεργοποιημένος&lt;/b&gt;"];
   Message false [Loc None "+3"]
     "Tor is &lt;b&gt;enabled&lt;/b&gt;, but its not the only network used. Use only onlynet=onion." true
     ["Tor είναι &lt;b&gt;ενεργοποιημένη&lt;/b&gt;, αλλά δεν είναι το μόνο δίκτυο που χρησιμοποιείται. Χρήση μόνο μόνοnet = κρεμμύδι."];
   Message false [Loc None "+3"]
     "Tor is &lt;b&gt;disabled&lt;/b&gt;. To enhance your privacy setup consider using tor by setting &lt;b&gt;onlynet=onion&lt;/b&gt; in your &lt;b&gt;bitcoinc.conf&lt;/b&gt;." true
     ["Η Tor είναι &lt;b&gt;απενεργοποιημένη&lt;/b&gt;. Για να βελτιώσετε τη ρύθμιση απορρήτου σας, εξετάστε το ενδεχόμενο να χρησιμοποιήσετε το Tor Ορίζοντας &lt;b&gt;μόνοnet = κρεμμύδι&lt;/b&gt; στο &lt;b&gt;bitcoinc.&lt;/b&gt;"]].

Definition el_BitcoinGUI_4 : list message :=
  [Message false [Loc (Some "../bitcoin.cpp") "+528"]
     "A fatal error occurred. Bitcoin Confidential can no longer continue safely and will quit." true
     ["Παρουσιάστηκε ανεπανόρθωτο σφάλμα. Bitcoin εμπιστευτικό δεν μπορεί πλέον να συνεχίσει με ασφάλεια και θα παραιτηθεί."]].

Definition el_CoinControlDialog_1 : list message :=
  [Message false [Loc (Some "../forms/coincontroldialog.ui") "+14"]
     "Coin Selection" true
     ["Επιλογή κερμάτων"];
   Message false [Loc None "+34"]
     "Quantity:" true
     ["Ποσότητα:"];
   Message false [Loc None "+29"]
     "Bytes:" true
     ["Byte:"];
   Message false [Loc None "+45"]
     "Amount:" true
     ["Ποσό:"];
   Message false [Loc None "+32"]
     "Dust:" true
     ["Σκόνη:"];
   Message false [Loc None "+48"]
     "Fee:" true
     ["Τέλος:"];
   Message false [Loc None "+45"]
     "After Fee:" true
     ["Μετά την χρέωση:"];
   Message false [Loc None "+32"]
     "Change:" true
     ["Αλλάξετε:"];
   Message false [Loc None "+57"]
     "Standard" true
     ["Πρότυπο"];
   Message false [Loc None "+5"]
     "Anon" true
     ["Anon"];
   Message false [Loc None "+14"]
     "Show all" true
     ["Εμφάνιση όλων"];
   Message false [Loc None "+13"]
     "(un)select all" true
     ["(un) Επιλέξτε όλα τα"];
   Message false [Loc None "+16"]
     "Tree mode" true
     ["Λειτουργία δέντρου"];
   Message false [Loc None "+13"]
     "List mode" true
     ["Λειτουργία λίστας"];
   Message false [Loc None "+74"]
     "Amount" true
     ["Ποσό"];
   Message false [Loc None "+8"]
     "Received with label" true
     ["Παραλήφθηκε με ετικέτα"];
   Message false [Loc None "+5"]
     "Received with address" true
     ["Παραλήφθηκε με διεύθυνση"];
   Message false [Loc None "+5"]
     "Date" true
     ["Ημερομηνία"];
   Message false [Loc None "+5"]
     "Confirmations" true
     ["Επιβεβαιώσεις"];
   Message false [Loc None "+3"]
     "Confirmed" true
     ["Επιβεβαίωσε"];
   Message false [Loc (Some "../coincontroldialog.cpp") "+73"]
     "Copy address" true
     ["Αντιγραφή διεύθυνσης"];
   Message false [Loc None "+1"]
     "Copy label" true
     ["Αντιγραφή ετικέτας"];
   Message false [Loc None "+1"; Loc None "+26"]
     "Copy amount" true
     ["Ποσό αντιγραφής"];
   Message false [Loc None "-25"]
     "Copy transaction ID" true
     ["Αντιγραφή αναγνωριστικού συναλλαγής"];
   Message false [Loc None "+1"]
     "Lock unspent" true
     ["Κλειδαριά αχρησιμοποίητα"];
   Message false [Loc None "+1"]
     "Unlock unspent" true
     ["Ξεκλειδώστε μη δαπανηθέντα"];
   Message false [Loc None "+22"]
     "Copy quantity" true
     ["Αντιγραφή ποσότητας"];
   Message false [Loc None "+2"]
     "Copy fee" true
     ["Τέλος αντιγραφής"];
   Message false [Loc None "+1"]
     "Copy after fee" true
     ["Αντιγραφή μετά από χρέωση"]].

Definition el_CoinControlDialog_2 : list message :=
  [Message false [Loc None "+1"]
     "Copy bytes" true
     ["Αντιγραφή byte"];
   Message false [Loc None "+1"]
     "Copy dust" true
     ["Αντιγραφή σκόνης"];
   Message false [Loc None "+1"]
     "Copy change" true
     ["Αλλαγή αντιγραφής"];
   Message false [Loc None "+340"]
     "(%1 locked)" true
     ["(% 1 κλειδωμένο)"];
   Message false [Loc None "+161"]
     "yes" true
     ["Ναι"];
   Message false [Loc None "+0"]
     "no" true
     ["Όχι"];
   Message false [Loc None "+14"]
     "This label turns red if any recipient receives an amount smaller than the current dust threshold." true
     ["Αυτή η ετικέτα γίνεται κόκκινη εάν κάποιος παραλήπτης λάβει ένα ποσό μικρότερο από το τρέχον όριο σκόνης."];
   Message false [Loc None "+5"]
     "Can vary +/- %1 satoshi(s) per input." true
     ["Μπορεί να ποικίλει +/-% 1 Σατόσι/ες ανά είσοδο."];
   Message false [Loc None "+47"]
     "Hide immature" true
     ["Κρύψτε τα ανώριμα"];
   Message false [Loc None "+2"]
     "Hide locked" true
     ["Απόκρυψη κλειδωμένους"];
   Message false [Loc None "+6"]
     "Show immature" true
     ["Δείξτε ανώριμη"];
   Message false [Loc None "+2"]
     "Show locked" true
     ["Εμφάνιση κλειδωμένους"];
   Message false [Loc None "+26"; Loc None "+66"; Loc None "+11"]
     "(no label)" true
     ["(χωρίς ετικέτα)"];
   Message false [Loc None "-19"]
     "change from %1 (%2)" true
     ["αλλαγή από% 1 (% 2)"];
   Message false [Loc None "+1"; Loc None "+20"]
     "(change)" true
     ["αλλαγή"];
   Message false [Loc None "-17"]
     "spending from %1 (%2)" true
     ["δαπάνες από% 1 (% 2)"]].

Definition el_EditAddressDialog : list message :=
  [Message false [Loc (Some "../forms/editaddressdialog.ui") "+14"]
     "Edit Address" true
     ["Επεξεργασία διεύθυνσης"];
   Message false [Loc None "+11"]
     "&amp;Label" true
     ["Και ετικέτα"];
   Message false [Loc None "+10"]
     "The label associated with this address list entry" true
     ["Η ετικέτα που συσχετίζεται με αυτήν την καταχώρηση λίστας διευθύνσεων"];
   Message false [Loc None "+7"]
     "&amp;Address" true
     ["Και διεύθυνση"];
   Message false [Loc None "+10"]
     "The address associated with this address list entry. This can only be modified for sending addresses." true
     ["Η διεύθυνση που συσχετίζεται με αυτήν την καταχώρηση λίστας διευθύνσεων. Αυτό μπορεί να τροποποιηθεί μόνο για αποστολή διευθύνσεων."];
   Message false [Loc (Some "../editaddressdialog.cpp") "+29"]
     "New receiving address" true
     ["Νέα διεύθυνση λήψης"];
   Message false [Loc None "+5"]
     "New sending address" true
     ["Νέα διεύθυνση αποστολής"];
   Message false [Loc None "+3"]
     "New Stake address" true
     ["Νέα διεύθυνση πονταρίσματος"];
   Message false [Loc None "+5"]
     "New ColdStake address" true
     ["Νέα διεύθυνση ψυχρού πασσάλου"];
   Message false [Loc None "+5"]
     "Edit receiving address" true
     ["Επεξεργασία λήψης διεύθυνσης"];
   Message false [Loc None "+4"]
     "Edit sending address" true
     ["Επεξεργασία διεύθυνσης αποστολής"];
   Message false [Loc None "+87"]
     "The entered address &quot;%1&quot; is not a valid Bitcoin Confidential address." true
     ["Η διεύθυνση &quot;% 1&quot; που πληκτρολογήσατε δεν είναι έγκυρη διεύθυνση απορρήτου Bitcoin."];
   Message false [Loc None "+10"]
     "Could not unlock wallet." true
     ["Δεν ήταν δυνατή η ξεκλείδωμα πορτοφολιού."];
   Message false [Loc None "+5"]
     "New key generation failed." true
     ["Η νέα γενιά κλειδιών απέτυχε."];
   Message false [Loc None "+18"]
     "Address &quot;%1&quot; already exists as a receiving address with label &quot;%2&quot; and so cannot be added as a sending address." true
     ["Η διεύθυνση &quot;% 1&quot; υπάρχει ήδη ως διεύθυνση λήψης με ετικέτα &quot;% 2&quot; και έτσι δεν είναι δυνατή η προσθήκη της ως διεύθυνσης αποστολής."];
   Message false [Loc None "+5"]
     "The entered address &quot;%1&quot; is already in the address book with label &quot;%2&quot;." true
     ["Η διεύθυνση &quot;% 1&quot; που πληκτρολογήσατε βρίσκεται ήδη στο βιβλίο διευθύνσεων με την ετικέτα &quot;% 2&quot;."]].

Definition el_FreespaceChecker : list message :=
  [Message false [Loc (Some "../intro.cpp") "+78"]
     "A new data directory will be created." true
     ["Θα δημιουργηθεί ένας νέος κατάλογος δεδομένων."];
   Message false [Loc None "+22"]
     "name" true
     ["Όνομα"];
   Message false [Loc None "+2"]
     "Directory already exists. Add %1 if you intend to create a new directory here." true
     ["Ο κατάλογος υπάρχει ήδη. Προσθέστε το% 1 αν σκοπεύετε να δημιουργήσετε έναν νέο κατάλογο εδώ."];
   Message false [Loc None "+3"]
     "Path already exists, and is not a directory." true
     ["Η διαδρομή υπάρχει ήδη και δεν είναι κατάλογος."];
   Message false [Loc None "+7"]
     "Cannot create data directory here." true
     ["Δεν είναι δυνατή η δημιουργία καταλόγου δεδομένων εδώ."]].

Definition el_HelpMessageDialog : list message :=
  [Message false [Loc (Some "../utilitydialog.cpp") "+41"]
     "version" true
     ["Έκδοση"];
   Message false [Loc None "+5"; Loc None "+2"]
     "(%1-bit)" true
     ["(% 1 bit)"];
   Message false [Loc None "+5"]
     "About %1" true
     ["Σχετικά με το% 1"];
   Message false [Loc None "+19"]
     "Command-line options" true
     ["Επιλογές γραμμής εντολών"]].

Definition el_Intro : list message :=
  [Message false [Loc (Some "../forms/intro.ui") "+14"]
     "Welcome" true
     ["Καλώς όρισες"];
   Message false [Loc None "+9"]
     "Welcome to %1." true
     ["Καλώς ορίσατε στο% 1."];
   Message false [Loc None "+26"]
     "As this is the first time the program is launched, you can choose where %1 will store its data." true
     ["Καθώς αυτή είναι η πρώτη φορά που εκκινείται το πρόγραμμα, μπορείτε να επιλέξετε το σημείο όπου το% 1 θα αποθηκεύσει τα δεδομένα του."];
   Message false [Loc None "+17"]
     "Use the default data directory" true
     ["Χρήση του προεπιλεγμένου καταλόγου δεδομένων"];
   Message false [Loc None "+7"]
     "Use a custom data directory:" true
     ["Χρήση ενός προσαρμοσμένου καταλόγου δεδομένων:"];
   Message false [Loc None "+140"]
     "When you click OK, %1 will begin to download and process the full %4 block chain (%2GB) starting with the earliest transactions in %3 when %4 initially launched." true
     ["Όταν κάνετε κλικ στο κουμπί &quot;ΟΚ&quot;, το% 1 θα αρχίσει να κάνει λήψη και επεξεργασία της πλήρους αλυσίδας μπλοκ% 4 (% 2GB), ξεκινώντας με τις παλαιότερες συναλλαγές στο% 3, όταν ξεκίνησε αρχικά το% 4."];
   Message false [Loc None "+10"]
     "This initial synchronisation is very demanding, and may expose hardware problems with your computer that had previously gone unnoticed. Each time you run %1, it will continue downloading where it left off." true
     ["Αυτός ο αρχικός συγχρονισμός είναι πολύ απαιτητικός και μπορεί να εκθέσει προβλήματα υλικού με τον υπολογιστή σας που προηγουμένως είχε περάσει απαρατήρητη. Κάθε φορά που εκτελείτε το% 1, θα συνεχίζεται η λήψη από εκεί που έμεινε."];
   Message false [Loc None "+10"]
     "If you have chosen to limit block chain storage (pruning), the historical data must still be downloaded and processed, but will be deleted afterward to keep your disk usage low." true
     ["Εάν έχετε επιλέξει να περιορίσετε την αποθήκευση αλυσίδας μπλοκ (κλάδεμα), τα ιστορικά δεδομένα πρέπει να ληφθούν και να υποβληθούν σε επεξεργασία, αλλά θα διαγραφούν αργότερα για να διατηρήσετε τη χρήση του δίσκου σας χαμηλή."];
   Message false [Loc (Some "../intro.cpp") "+20"]
     "Bitcoin Confidential" true
     ["Bitcoin εμπιστευτικό"];
   Message false [Loc None "+6"]
     "At least %1 GB of data will be stored in this directory, and it will grow over time." true
     ["Τουλάχιστον% 1 GB δεδομένων θα αποθηκευτούν σε αυτόν τον κατάλογο και θα αυξηθεί με την πάροδο του χρόνου."];
   Message false [Loc None "+5"]
     "Approximately %1 GB of data will be stored in this directory." true
     ["Σε αυτόν τον κατάλογο θα αποθηκευτούν περίπου% 1 GB δεδομένων."];
   Message false [Loc None "+8"]
     "%1 will download and store a copy of the Bitcoin Confidential block chain." true
     ["το% 1 θα κατεβάσει και θα αποθηκεύσει ένα αντίγραφο της αλυσίδας του Bitcoin εμπιστευτικού."];
   Message false [Loc None "+2"]
     "The wallet will also be stored in this directory." true
     ["Το πορτοφόλι θα αποθηκευτεί επίσης σε αυτόν τον κατάλογο."];
   Message false [Loc None "+73"]
     "Error: Specified data directory &quot;%1&quot; cannot be created." true
     ["Σφάλμα: δεν είναι δυνατή η δημιουργία του καθορισμένου καταλόγου δεδομένων &quot;% 1&quot;."];
   Message false [Loc None "+27"]
     "Error" true
     ["Σφάλμα"];
   Message true [Loc None "+9"]
     "%n GB of free space available" true
     ["% n GB ελεύθερου χώρου που είναι διαθέσιμος"; "% n GB ελεύθερου χώρου που είναι διαθέσιμος"];
   Message true [Loc None "+3"]
     "(of %n GB needed)" true
     ["(από% n GB απαιτείται)"; "(από% n GB απαιτείται)"]].

Definition el_MnemonicDialog_1 : list message :=
  [Message false [Loc (Some "../forms/mnemonicdialog.ui") "+14"]
     "HD Wallet Setup" true
     ["Ρύθμιση πορτοφολιού HD"];
   Message false [Loc None "+11"]
     "Generate a mnemonic" true
     ["Δημιουργία μνημονικού"];
   Message false [Loc None "+10"]
     "Create the wallet" true
     ["Δημιουργία του πορτοφολιού"];
   Message false [Loc None "+22"]
     "Write down the Recovery Phrase/Mnemonic below or generate a new one with the desired settings by clicking &quot;NEW MNEMONIC&quot;. Store this phrase in a safe place. The clipboard will be cleared to ensure you have it recorded.  If you are recovering a backup, enter the Recovery Phrase/Mnemonic on the next screen.  Click the &quot;NEXT&quot; button to continue with the wallet creation." true
     ["Καταγράψτε τη φράση ανάκτησης/μνημονικό παρακάτω ή δημιουργήστε μια νέα με τις επιθυμητές ρυθμίσεις κάνοντας κλικ στο &quot;ΝΕΑ ΜΝΗΜΟΝΙΚΉ&quot;. Αποθηκεύστε αυτή τη φράση σε ασφαλές μέρος. Το πρόχειρο θα καταργηθεί για να βεβαιωθείτε ότι το έχετε καταγράψει.  Εάν ανακάμπτει ένα αντίγραφο ασφαλείας, πληκτρολογήστε τη φράση ανάκτησης/μνημονικό στην επόμενη οθόνη.  Κάντε κλικ στο κουμπί &quot;NEXT&quot; για να συνεχίσετε με τη δημιουργία πορτοφολιού."];
   Message false [Loc None "+36"]
     "Bytes of Entropy " true
     ["Bytes εντροπίας"];
   Message false [Loc None "+7"]
     "Language" true
     ["Γλώσσα"];
   Message false [Loc None "+45"]
     "Entropy is an advanced feature. Your mnemonic may be insecure if this feature is used incorrectly." true
     ["Η εντροπία είναι ένα προηγμένο χαρακτηριστικό. Η μνημονική σας ενδέχεται να μην είναι ασφαλής, εάν αυτή η δυνατότητα χρησιμοποιείται εσφαλμένα."];
   Message false [Loc None "+22"]
     "Select your language" true
     ["Επιλέξτε τη γλώσσα σας"];
   Message false [Loc None "+4"]
     "English" true
     ["Αγγλικά"];
   Message false [Loc None "+5"]
     "French" true
     ["Γαλλικά"];
   Message false [Loc None "+5"]
     "Japanese" true
     ["Ιαπωνικά"];
   Message false [Loc None "+5"]
     "Spanish" true
     ["Ισπανικά"];
   Message false [Loc None "+5"]
     "Chinese_s" true
     ["Chinese_s"];
   Message false [Loc None "+5"]
     "Chinese_t" true
     ["Chinese_t"];
   Message false [Loc None "+39"]
     "New mnemonic" true
     ["Νέα μνημονική"];
   Message false [Loc None "+19"]
     "Next" true
     ["Επόμενη"];
   Message false [Loc None "+19"; Loc None "+198"]
     "Cancel" true
     ["Ακυρώσετε"];
   Message false [Loc None "-148"]
     "Recovery Passphrase " true
     ["Συνθηματική φράση αποκατάστασης"];
   Message false [Loc None "+7"]
     "Import Chain" true
     ["Αλυσίδα εισαγωγής"];
   Message false [Loc None "+13"]
     "Warning" true
     ["Προειδοποίηση"];
   Message false [Loc None "+33"]
     "Enter a passphrase to protect your Recovery Phrase (optional)" true
     ["Εισαγάγετε μια συνθηματική φράση για την προστασία της φράσης αποκατάστασης (προαιρετικά)"];
   Message false [Loc None "+13"]
     "Only needed if you&apos;re importing " true
     ["Απαιτείται μόνο εάν κάνετε εισαγωγή"];
   Message false [Loc None "+16"]
     "Please ensure you backup your Recovery Phrase and Passphrase - they are not recoverable!" true
     ["Βεβαιωθείτε ότι έχετε δημιουργήσει αντίγραφα ασφαλείας της φράσης ανάκτησης και της συνθηματικής σας-δεν αποδίδονται!"];
   Message false [Loc None "+28"]
     "Back" true
     ["Bck"];
   Message false [Loc None "+19"; Loc (Some "../mnemonicdialog.cpp") "+145"]
     "Import" true
     ["Εισαγωγή"];
   Message false [Loc (Some "../mnemonicdialog.cpp") "-102"]
     "Optionally enter a passphrase to protect the Recovery Phrase. (This is not a wallet password.)" true
     ["Προαιρετικά εισαγάγετε μια συνθηματική φράση για την προστασία της φράσης ανάκτησης. (Αυτός δεν είναι κωδικός πρόσβασης πορτοφολιού.)"];
   Message false [Loc None "+2"]
     "Enter the Recovery Phrase/Mnemonic." true
     ["Εισαγάγετε τη φράση/μνημονικό ανάκτησης."];
   Message false [Loc None "+26"]
     "Create wallet" true
     ["Δημιουργία πορτοφολιού"];
   Message false [Loc None "+16"]
     "Generate a new Recovery Phrase/Mnemonic with the desired settings by clicking &quot;NEW MNEMONIC&quot;." true
     ["Δημιουργήστε μια νέα φράση/μνημονικό ανάκτησης με τις επιθυμητές ρυθμίσεις κάνοντας κλικ στο &quot;ΝΕΑ ΜΝΗΜΟΝΙΚΉ&quot;."]].

Definition el_MnemonicDialog_2 : list message :=
  [Message false [Loc None "+5"]
     "Import a mnemonic" true
     ["Εισαγωγή μνημονικού"];
   Message false [Loc None "+28"]
     "Confirm wallet creation cancel" true
     ["Επιβεβαίωση δημιουργίας πορτοφολιού Άκυρο"];
   Message false [Loc None "+1"]
     "Are you sure you want to cancel the wallet creation?" true
     ["Είστε βέβαιοι ότι θέλετε να ακυρώσετε τη δημιουργία του πορτοφολιού;"];
   Message false [Loc None "+0"]
     "This is only recommended for advanced users to import with custom settings in the debug console or with the RPC interface." true
     ["Αυτό συνιστάται μόνο για προχωρημένους χρήστες να εισάγουν με προσαρμοσμένες ρυθμίσεις στην κονσόλα εντοπισμού σφαλμάτων ή με τη διασύνδεση RPC."]].

Definition el_ModalOverlay : list message :=
  [Message false [Loc (Some "../forms/modaloverlay.ui") "+14"]
     "Form" true
     ["Μορφή"];
   Message false [Loc None "+122"]
     "Recent transactions may not yet be visible, and therefore your wallet&apos;s balance might be incorrect. This information will be correct once your wallet has finished synchronizing with the Bitcoin Confidential network, as detailed below." true
     ["Οι πρόσφατες συναλλαγές ενδέχεται να μην είναι ακόμα ορατές και επομένως το υπόλοιπό σας στο πορτοφόλι μπορεί να είναι εσφαλμένο. Αυτές οι πληροφορίες θα είναι σωστές μόλις το πορτοφόλι σας έχει ολοκληρώσει το συγχρονισμό με το Bitcoin εμπιστευτικό δίκτυο, όπως περιγράφεται λεπτομερώς παρακάτω."];
   Message false [Loc None "+19"]
     "Attempting to spend coins that are affected by not-yet-displayed transactions will not be accepted by the network." true
     ["Η προσπάθεια να ξοδέψετε κέρματα που επηρεάζονται από μη-ακόμη εμφανιζόμενες συναλλαγές δεν θα γίνει δεκτή από το δίκτυο."];
   Message false [Loc None "+63"]
     "Number of blocks left" true
     ["Αριθμός τετραγώνων που απομένουν"];
   Message false [Loc None "+7"; Loc None "+26"; Loc (Some "../modaloverlay.cpp") "+140"]
     "Unknown..." true
     ["Άγνωστο..."];
   Message false [Loc None "-13"]
     "Last block time" true
     ["Χρόνος τελευταίου μπλοκ"];
   Message false [Loc None "+26"]
     "Progress" true
     ["Πρόοδο"];
   Message false [Loc None "+34"]
     "Progress increase per hour" true
     ["Αύξηση προόδου ανά ώρα"];
   Message false [Loc None "+7"; Loc None "+20"]
     "calculating..." true
     ["Τον υπολογισμό..."];
   Message false [Loc None "-7"]
     "Estimated time left until synced" true
     ["Εκτιμώμενος χρόνος που απομένει μέχρι να συγχρονιστεί"];
   Message false [Loc None "+40"]
     "Hide" true
     ["Απόκρυψη"];
   Message false [Loc (Some "../modaloverlay.cpp") "-1"]
     "Unknown. Syncing Headers (%1)..." true
     ["Άγνωστο. Συγχρονισμός κεφαλίδων (% 1)..."]].

Definition el_OpenURIDialog : list message :=
  [Message false [Loc (Some "../forms/openuridialog.ui") "+14"]
     "Open URI" true
     ["Άνοιγμα URI"];
   Message false [Loc None "+6"]
     "Open payment request from URI or file" true
     ["Άνοιγμα αίτησης πληρωμής από URI ή αρχείο"];
   Message false [Loc None "+9"]
     "URI:" true
     ["Uri:"];
   Message false [Loc None "+10"]
     "Select payment request file" true
     ["Επιλέξτε το αρχείο αίτησης πληρωμής"];
   Message false [Loc (Some "../openuridialog.cpp") "+45"]
     "Select payment request file to open" true
     ["Επιλέξτε το αρχείο αίτησης πληρωμής για να ανοίξετε"]].

Definition el_OptionsDialog_1 : list message :=
  [Message false [Loc (Some "../forms/optionsdialog.ui") "+14"]
     "Options" true
     ["Επιλογές"];
   Message false [Loc None "+14"]
     "&amp;Main" true
     ["Και Μέιν"];
   Message false [Loc None "+13"]
     "W&amp;allet" true
     ["Γου&amp;ν"];
   Message false [Loc None "+13"]
     "&amp;Network" true
     ["Και δίκτυο"];
   Message false [Loc None "+13"]
     "&amp;Window" true
     ["Και παράθυρο"];
   Message false [Loc None "+13"]
     "&amp;Display" true
     ["Και εμφάνιση"];
   Message false [Loc None "+22"]
     "Automatically start %1 after logging in to the system." true
     ["Αυτόματη εκκίνηση του% 1 μετά τη σύνδεση στο σύστημα."];
   Message false [Loc None "+3"]
     "&amp;Start %1 on system login" true
     ["Και έναρξη% 1 στη σύνδεση συστήματος"];
   Message false [Loc None "+22"]
     "Disables some advanced features but all blocks will still be fully validated. Reverting this setting requires re-downloading the entire blockchain. Actual disk usage may be somewhat higher." true
     ["Απενεργοποιεί ορισμένες προηγμένες δυνατότητες, αλλά όλα τα μπλοκ θα εξακολουθήσουν να είναι πλήρως επικυρωμένα. Η επαναφορά αυτής της ρύθμισης απαιτεί εκ νέου λήψη ολόκληρου του BlockChain. Η πραγματική χρήση του δίσκου μπορεί να είναι κάπως υψηλότερη."];
   Message false [Loc None "+3"]
     "Prune &amp;block storage to" true
     ["Αποθήκευση δαμάσκηνων και μπλοκ σε"];
   Message false [Loc None "+17"]
     "GB" true
     ["Gb"];
   Message false [Loc None "+25"]
     "Reverting this setting requires re-downloading the entire blockchain." true
     ["Η επαναφορά αυτής της ρύθμισης απαιτεί εκ νέου λήψη ολόκληρου του BlockChain."];
   Message false [Loc None "+12"]
     "Size of &amp;database cache" true
     ["Μέγεθος και cache βάσεων δεδομένων"];
   Message false [Loc None "+23"]
     "MB" true
     ["Mb"];
   Message false [Loc None "+27"]
     "Number of script &amp;verification threads" true
     ["Αριθμός νημάτων script και επαλήθευσης"];
   Message false [Loc None "+19"]
     "(0 = auto, &lt;0 = leave that many cores free)" true
     ["(0 = αυτόματο,&lt;0 = leave that many cores free) ==&quot;&quot; leave=&quot;&quot; that=&quot;&quot; many=&quot;&quot; cores=&quot;&quot;&gt;&lt;/0 = leave that many cores free)&gt;"];
   Message false [Loc None "+39"]
     "Expert" true
     ["Εμπειρογνωμόνων"];
   Message false [Loc None "+6"]
     "Whether to show coin control features or not." true
     ["Αν θα εμφανιστούν τα χαρακτηριστικά ελέγχου νομισμάτων ή όχι."];
   Message false [Loc None "+3"]
     "Enable coin &amp;control features" true
     ["Ενεργοποίηση χαρακτηριστικών νομίσματος και ελέγχου"];
   Message false [Loc None "+7"]
     "If you disable the spending of unconfirmed change, the change from a transaction cannot be used until that transaction has at least one confirmation. This also affects how your balance is computed." true
     ["Εάν απενεργοποιήσετε τη δαπάνη μη επιβεβαιωμένες αλλαγές, η αλλαγή από μια συναλλαγή δεν μπορεί να χρησιμοποιηθεί μέχρι αυτή η συναλλαγή να έχει τουλάχιστον μία επιβεβαίωση. Αυτό επηρεάζει επίσης τον τρόπο υπολογισμού του υπολοίπου σας."];
   Message false [Loc None "+3"]
     "&amp;Spend unconfirmed change" true
     ["Και να ξοδέψεις ανεπιβεβαίωτες αλλαγές"];
   Message false [Loc None "+7"]
     "Display notification dialog for incoming stake transactions." true
     ["Εμφάνιση διαλόγου ειδοποίησης για εισερχόμενες συναλλαγές πονταρίσματος."];
   Message false [Loc None "+3"]
     "&amp;Show incoming stake notifications" true
     ["Και Εμφάνιση εισερχόμενων ειδοποιήσεων πονταρίσματος"];
   Message false [Loc None "+27"]
     "Automatically open the Bitcoin Confidential client port on the router. This only works when your router supports UPnP and it is enabled." true
     ["Ανοίξτε αυτόματα το Bitcoin εμπιστευτικό θύρα πελάτη στο δρομολογητή. Αυτό λειτουργεί μόνο όταν ο δρομολογητής σας υποστηρίζει UPnP και είναι ενεργοποιημένη."];
   Message false [Loc None "+3"]
     "Map port using &amp;UPnP" true
     ["Χάρτης θύρας χρησιμοποιώντας &amp; UPnP"];
   Message false [Loc None "+7"]
     "Accept connections from outside." true
     ["Αποδοχή συνδέσεων από έξω."];
   Message false [Loc None "+3"]
     "Allow incomin&amp;g connections" true
     ["Δυνατότητα σύνδεσης με τις επικοινωνίες"];
   Message false [Loc None "+7"]
     "Connect to the Bitcoin Confidential network through a SOCKS5 proxy." true
     ["Συνδεθείτε με το Bitcoin εμπιστευτικό δίκτυο μέσω ενός διακομιστή μεσολάβησης SOCKS5."];
   Message false [Loc None "+3"]
     "&amp;Connect through SOCKS5 proxy (default proxy):" true
     ["Και σύνδεση μέσω SOCKS5 μεσολάβησης (προεπιλεγμένος διακομιστής μεσολάβησης):"]].

Definition el_OptionsDialog_2 : list message :=
  [Message false [Loc None "+9"; Loc None "+193"]
     "Proxy &amp;IP:" true
     ["Διακομιστής μεσολάβησης &amp; IP:"];
   Message false [Loc None "-168"; Loc None "+193"]
     "IP address of the proxy (e.g. IPv4: 127.0.0.1 / IPv6: ::1)" true
     ["Διεύθυνση IP του διακομιστή μεσολάβησης (π.χ. IPv4:127.0.0.1/IPv6::: 1)"];
   Message false [Loc None "-183"; Loc None "+193"]
     "&amp;Port:" true
     ["Λιμάνι"];
   Message false [Loc None "-168"; Loc None "+193"]
     "Port of the proxy (e.g. 9050)" true
     ["Λιμένας του πληρεξουσίου (π.χ. 9050)"];
   Message false [Loc None "-166"]
     "Used for reaching peers via:" true
     ["Χρησιμοποιείται για την επίτευξη ομοτίμων μέσω:"];
   Message false [Loc None "+13"; Loc None "+23"; Loc None "+23"]
     "Shows if the supplied default SOCKS5 proxy is used to reach peers via this network type." true
     ["Δείχνει εάν ο παρεχόμενου προεπιλεγμένος διακομιστής μεσολάβησης SOCKS5 χρησιμοποιείται για την προσέγγιση ομοτίμων μέσω αυτού του τύπου δικτύου."];
   Message false [Loc None "-36"]
     "IPv4" true
     ["IPv4"];
   Message false [Loc None "+23"]
     "IPv6" true
     ["IPv6"];
   Message false [Loc None "+23"]
     "Tor" true
     ["Tor"];
   Message false [Loc None "+25"]
     "Connect to the Bitcoin Confidential network through a separate SOCKS5 proxy for Tor hidden services." true
     ["Συνδεθείτε με το Bitcoin εμπιστευτικό δίκτυο μέσω ενός ξεχωριστού διακομιστή μεσολάβησης SOCKS5 για Tor κρυφές υπηρεσίες."];
   Message false [Loc None "+3"]
     "Use separate SOCKS&amp;5 proxy to reach peers via Tor hidden services:" true
     ["Χρησιμοποιήστε ξεχωριστές ΚΆΛΤΣΕς &amp; 5 proxy για να προσεγγίσετε ομοτίμους μέσω του Tor κρυφές υπηρεσίες:"];
   Message false [Loc None "+111"]
     "Hide the icon from the system tray." true
     ["Αποκρύψτε το εικονίδιο από τη θήκη του συστήματος."];
   Message false [Loc None "+3"]
     "&amp;Hide tray icon" true
     ["Και Απόκρυψη εικονιδίου κασέτας"];
   Message false [Loc None "+7"]
     "Show only a tray icon after minimizing the window." true
     ["Εμφάνιση μόνο ενός εικονιδίου κασέτας μετά την ελαχιστοποίηση του παραθύρου."];
   Message false [Loc None "+3"]
     "&amp;Minimize to the tray instead of the taskbar" true
     ["Και ελαχιστοποίηση στο δίσκο αντί για τη γραμμή εργασιών"];
   Message false [Loc None "+7"]
     "Minimize instead of exit the application when the window is closed. When this option is enabled, the application will be closed only after selecting Exit in the menu." true
     ["Ελαχιστοποίηση αντί για έξοδο από την εφαρμογή όταν το παράθυρο είναι κλειστό. Όταν αυτή η επιλογή είναι ενεργοποιημένη, η εφαρμογή θα κλείσει μόνο μετά την επιλογή Έξοδος από το μενού."];
   Message false [Loc None "+3"]
     "M&amp;inimize on close" true
     ["M&amp;inimize σε κοντινή απόσταση"];
   Message false [Loc None "+26"]
     "User Interface &amp;language:" true
     ["Διεπαφή χρήστη και γλώσσα:"];
   Message false [Loc None "+22"]
     "The user interface language can be set here. This setting will take effect after restarting %1." true
     ["Η γλώσσα του περιβάλλοντος εργασίας χρήστη μπορεί να οριστεί εδώ. Αυτή η ρύθμιση θα τεθεί σε ισχύ μετά την επανεκκίνηση του% 1."];
   Message false [Loc None "+11"]
     "&amp;Unit to show amounts in:" true
     ["&amp; Μονάδα για να εμφανίσετε ποσά σε:"];
   Message false [Loc None "+22"]
     "Choose the default subdivision unit to show in the interface and when sending coins." true
     ["Επιλέξτε την προεπιλεγμένη μονάδα υποδιαιρέσεως που θα εμφανίζεται στη διασύνδεση και κατά την αποστολή κερμάτων."];
   Message false [Loc None "+11"; Loc None "+22"]
     "Third party URLs (e.g. a block explorer) that appear in the transactions tab as context menu items. %s in the URL is replaced by transaction hash. Multiple URLs are separated by vertical bar |." true
     ["Διευθύνσεις URL τρίτου μέρους (π.χ. ένας εξερευνητής μπλοκ) που εμφανίζονται στην καρτέλα συναλλαγές ως στοιχεία μενού περιβάλλοντος. το% s στη διεύθυνση URL αντικαθίσταται από τον κατακερματισμό συναλλαγής. Πολλαπλές διευθύνσεις URL διαχωρίζονται με κατακόρυφη γραμμή |."];
   Message false [Loc None "-19"]
     "&amp;Third party transaction URLs" true
     ["Και διευθύνσεις URL συναλλαγών τρίτων μερών"];
   Message false [Loc None "+50"]
     "Active command-line options that override above options:" true
     ["Ενεργές επιλογές γραμμής εντολών που παρακάμπτουν τις παραπάνω επιλογές:"];
   Message false [Loc None "+45"]
     "Open the %1 configuration file from the working directory." true
     ["Ανοίξτε το αρχείο ρύθμισης παραμέτρων% 1 από τον κατάλογο εργασίας."];
   Message false [Loc None "+3"]
     "Open Configuration File" true
     ["Άνοιγμα αρχείου ρύθμισης παραμέτρων"];
   Message false [Loc None "+10"]
     "Reset all client options to default." true
     ["Επαναφορά όλων των επιλογών υπολογιστή-πελάτη στην προεπιλογή."];
   Message false [Loc None "+3"]
     "&amp;Reset Options" true
     ["Και επιλογές επαναφοράς"]].

Definition el_OptionsDialog_3 : list message :=
  [Message false [Loc None "+80"]
     "&amp;OK" true
     ["Και εντάξει."];
   Message false [Loc None "+13"]
     "&amp;Cancel" true
     ["Και άκυρο"];
   Message false [Loc (Some "../optionsdialog.cpp") "+109"]
     "default" true
     ["Προεπιλογή"];
   Message false [Loc None "+56"]
     "none" true
     ["Κανένας"];
   Message false [Loc None "+82"]
     "Confirm options reset" true
     ["Επιβεβαίωση επαναφοράς επιλογών"];
   Message false [Loc None "+1"; Loc None "+60"]
     "Client restart required to activate changes." true
     ["Απαιτείται επανεκκίνηση του προγράμματος-πελάτη για την ενεργοποίηση αλλαγών."];
   Message false [Loc None "-60"]
     "Client will be shut down. Do you want to proceed?" true
     ["Ο πελάτης θα κλείσει. Θέλετε να προχωρήσετε;"];
   Message false [Loc None "+15"]
     "Configuration options" true
     ["Επιλογές ρύθμισης παραμέτρων"];
   Message false [Loc None "+1"]
     "The configuration file is used to specify advanced user options which override GUI settings. Additionally, any command-line options will override this configuration file." true
     ["Το αρχείο ρύθμισης παραμέτρων χρησιμοποιείται για τον καθορισμό προηγμένων επιλογών χρήστη που αντικαθιστούν τις ρυθμίσεις GUI. Επιπλέον, όλες οι επιλογές γραμμής εντολών θα παρακάμψουν αυτό το αρχείο ρύθμισης παραμέτρων."];
   Message false [Loc None "+5"]
     "Error" true
     ["Σφάλμα"];
   Message false [Loc None "+0"]
     "The configuration file could not be opened." true
     ["Δεν ήταν δυνατό το άνοιγμα του αρχείου ρύθμισης παραμέτρων."];
   Message false [Loc None "+43"]
     "This change would require a client restart." true
     ["Αυτή η αλλαγή θα απαιτούσε επανεκκίνηση του προγράμματος-πελάτη."];
   Message false [Loc None "+28"]
     "The supplied proxy address is invalid." true
     ["Η παρεχόμενη διεύθυνση διακομιστή μεσολάβησης δεν είναι έγκυρη."]].

Definition el_OverviewPage : list message :=
  [Message false [Loc (Some "../forms/overviewpage.ui") "+14"]
     "Form" true
     ["Μορφή"];
   Message false [Loc None "+43"]
     "Bitcoin Confidential Core" true
     ["Bitcoin εμπιστευτικό πυρήνα"];
   Message false [Loc None "+38"; Loc None "+114"; Loc None "+210"]
     "Pending" true
     ["Εκκρεμείς"];
   Message false [Loc None "-308"]
     "Spending" true
     ["Δαπάνες"];
   Message false [Loc None "+108"]
     "Watch-only" true
     ["Μόνο για παρακολούθηση"];
   Message false [Loc None "+73"; Loc None "+191"]
     "Available" true
     ["Διαθέσιμα"];
   Message false [Loc None "-181"]
     "Spendable" true
     ["Διαθέσιμο"];
   Message false [Loc None "+41"]
     "Staking" true
     ["Πονταρίσματος"];
   Message false [Loc None "+130"]
     "Immature" true
     ["Ανώριμο"];
   Message false [Loc None "+86"]
     "Total" true
     ["Σύνολο"];
   Message false [Loc None "+90"]
     "Recent transactions" true
     ["Πρόσφατες συναλλαγές"];
   Message false [Loc None "+19"]
     "The displayed information may be out of date. Your wallet automatically synchronizes with the Bitcoin Confidential network after a connection is established, but this process has not completed yet." true
     ["Οι πληροφορίες που εμφανίζονται ενδέχεται να μην είναι ενημερωμένες. Το πορτοφόλι σου συγχρονίζεται αυτόματα με το Bitcoin εμπιστευτικό δίκτυο μετά την ολοκλήρωση μιας σύνδεσης, αλλά αυτή η διαδικασία δεν έχει ολοκληρωθεί ακόμα."]].

Definition el_PaymentServer : list message :=
  [Message false [Loc (Some "../paymentserver.cpp") "+317"; Loc None "+215"; Loc None "+42"; Loc None "+110"; Loc None "+14"; Loc None "+18"]
     "Payment request error" true
     ["Σφάλμα αίτησης πληρωμής"];
   Message false [Loc None "-398"]
     "Cannot start bitcoinc: click-to-pay handler" true
     ["Δεν είναι δυνατή η εκκίνηση του προγράμματος χειρισμού bitcoinc: κάντε κλικ προς πληρωμή"];
   Message false [Loc None "+82"; Loc None "+21"; Loc None "+13"; Loc None "+7"]
     "URI handling" true
     ["Χειρισμός URI"];
   Message false [Loc None "-41"]
     "&apos;bitcoin://&apos; is not a valid URI. Use &apos;bitcoin:&apos; instead." true
     ["το &apos; bitcoin://&apos; δεν είναι έγκυρο URI. Χρησιμοποιήστε το &apos; Bitcoin: &apos; αντ &apos; αυτού."];
   Message false [Loc None "+22"]
     "Payment request fetch URL is invalid: %1" true
     ["Η διεύθυνση URL της αίτησης πληρωμής δεν είναι έγκυρη:% 1"];
   Message false [Loc None "+12"]
     "Invalid payment address %1" true
     ["Μη έγκυρη διεύθυνση πληρωμής% 1"];
   Message false [Loc None "+8"]
     "URI cannot be parsed! This can be caused by an invalid Bitcoin Confidential address or malformed URI parameters." true
     ["Δεν είναι δυνατή η ανάλυση του URI! Αυτό μπορεί να προκληθεί από μια μη έγκυρη διεύθυνσή του Bitcoin εμπιστευτικό ή ακατάλληλες παραμέτρους URI."];
   Message false [Loc None "+13"]
     "Payment request file handling" true
     ["Χειρισμός αρχείων αίτησης πληρωμής"];
   Message false [Loc None "+1"]
     "Payment request file cannot be read! This can be caused by an invalid payment request file." true
     ["Δεν είναι δυνατή η ανάγνωση του αρχείου αίτησης πληρωμής! Αυτό μπορεί να προκληθεί από ένα μη έγκυρο αρχείο αίτησης πληρωμής."];
   Message false [Loc None "+61"; Loc None "+9"; Loc None "+31"; Loc None "+10"; Loc None "+17"; Loc None "+85"]
     "Payment request rejected" true
     ["Η αίτηση πληρωμής απορρίφθηκε"];
   Message false [Loc None "-152"]
     "Payment request network doesn&apos;t match client network." true
     ["Το δίκτυο αιτήσεων πληρωμής δεν συμφωνεί με το δίκτυο προγράμματος-πελάτη."];
   Message false [Loc None "+9"]
     "Payment request expired." true
     ["Η αίτηση πληρωμής έληξε."];
   Message false [Loc None "+6"]
     "Payment request is not initialized." true
     ["Η αίτηση πληρωμής δεν έχει προετοιμαστεί."];
   Message false [Loc None "+26"]
     "Unverified payment requests to custom payment scripts are unsupported." true
     ["Οι μη επαληθευμένες αιτήσεις πληρωμής σε προσαρμοσμένες δέσμες ενεργειών πληρωμής δεν υποστηρίζονται."];
   Message false [Loc None "+9"; Loc None "+17"]
     "Invalid payment request." true
     ["Μη έγκυρη αίτηση πληρωμής."];
   Message false [Loc None "-10"]
     "Requested payment amount of %1 is too small (considered dust)." true
     ["Το ποσό πληρωμής που ζητήθηκε% 1 είναι πολύ μικρό (θεωρείται σκόνη)."];
   Message false [Loc None "+65"]
     "Refund from %1" true
     ["Επιστροφή χρημάτων από% 1"];
   Message false [Loc None "+31"]
     "Payment request %1 is too large (%2 bytes, allowed %3 bytes)." true
     ["Η αίτηση πληρωμής% 1 είναι πολύ μεγάλη (% 2 byte, επιτρεπόμενος% 3 byte)."];
   Message false [Loc None "+9"]
     "Error communicating with %1: %2" true
     ["Παρουσιάστηκε σφάλμα κατά την επικοινωνία με το% 1:% 2"];
   Message false [Loc None "+20"]
     "Payment request cannot be parsed!" true
     ["Δεν είναι δυνατή η ανάλυση της αίτησης πληρωμής!"];
   Message false [Loc None "+13"]
     "Bad response from server %1" true
     ["Εσφαλμένη απόκριση από το διακομιστή% 1"];
   Message false [Loc None "+22"]
     "Network request error" true
     ["Σφάλμα αίτησης δικτύου"];
   Message false [Loc None "+11"]
     "Payment acknowledged" true
     ["Η πληρωμή αναγνωρίστηκε"]].

Definition el_PeerTableModel : list message :=
  [Message false [Loc (Some "../peertablemodel.cpp") "+109"]
     "NodeId" true
     ["Ο κωδικός"];
   Message false [Loc None "+0"]
     "Node/Service" true
     ["Κόμβος/υπηρεσία"];
   Message false [Loc None "+0"]
     "Ping" true
     ["Ping"];
   Message false [Loc None "+0"]
     "Sent" true
     ["Αποστέλλονται"];
   Message false [Loc None "+0"]
     "Received" true
     ["Λάβει"];
   Message false [Loc None "+0"]
     "User Agent" true
     ["Παράγοντας χρήστη"]].

Definition el_QObject : list message :=
  [Message false [Loc (Some "../bitcoinunits.cpp") "+196"]
     "Amount" true
     ["Ποσό"];
   Message false [Loc (Some "../guiutil.cpp") "+96"]
     "Enter Spending address" true
     ["Εισαγωγή διεύθυνσης δαπανών"];
   Message false [Loc None "+12"]
     "Enter ColdStake address" true
     ["Εισαγάγετε τη διεύθυνση του Ψυχρού στοιχήματος"];
   Message false [Loc None "+2"]
     "Enter Stake address of remote node" true
     ["Πληκτρολογήστε τη διεύθυνση πονταρίσματος του απομακρυσμένου κόμβου"];
   Message false [Loc None "+2"]
     "Enter Stake address" true
     ["Εισαγωγή διεύθυνσης πονταρίσματος"];
   Message false [Loc None "+687"]
     "%1 d" true
     ["% 1 d"];
   Message false [Loc None "+2"]
     "%1 h" true
     ["% 1 h"];
   Message false [Loc None "+2"]
     "%1 m" true
     ["% 1 m"];
   Message false [Loc None "+2"; Loc None "+53"]
     "%1 s" true
     ["% 1 s"];
   Message false [Loc None "-10"]
     "None" true
     ["Κανένας"];
   Message false [Loc None "+5"]
     "N/A" true
     ["Δ / υ"];
   Message false [Loc None "+0"]
     "%1 ms" true
     ["% 1 MS"];
   Message true [Loc None "+18"]
     "%n second(s)" true
     ["% n δευτερόλεπτο (α)"; "% n δευτερόλεπτο (α)"];
   Message true [Loc None "+4"]
     "%n minute(s)" true
     ["% n λεπτό (α)"; "% n λεπτό (α)"];
   Message true [Loc None "+4"]
     "%n hour(s)" true
     ["% n ώρα (ες)"; "% n ώρα (ες)"];
   Message true [Loc None "+4"]
     "%n day(s)" true
     ["% n ημέρα (ες)"; "% n ημέρα (ες)"];
   Message true [Loc None "+4"; Loc None "+6"]
     "%n week(s)" true
     ["% n εβδομάδα (ες)"; "% n εβδομάδα (ες)"];
   Message false [Loc None "+0"]
     "%1 and %2" true
     ["% 1 και% 2"];
   Message true [Loc None "+0"]
     "%n year(s)" true
     ["% n έτος (α)"; "% n έτος (α)"];
   Message false [Loc None "+8"]
     "%1 B" true
     ["% 1 B"];
   Message false [Loc None "+2"]
     "%1 KB" true
     ["% 1 KB"];
   Message false [Loc None "+2"]
     "%1 MB" true
     ["% 1 MB"];
   Message false [Loc None "+2"]
     "%1 GB" true
     ["% 1 GB"];
   Message false [Loc None "+71"]
     "All spending funds are sent and received anonymously. Only the sender and receiver have details of their side of the transaction. Staking funds need to be converted to spending before sending out of wallet. Funds require %1 confirmations (%2 minutes) before sending." true
     ["Όλα τα κονδύλια δαπανών αποστέλλονται και λαμβάνονται ανώνυμα. Μόνο ο αποστολέας και ο παραλήπτης έχουν στοιχεία για τη δική τους πλευρά της συναλλαγής. Τα κεφάλαια που στοιχηματίζετε πρέπει να μετατραπούν σε δαπάνες πριν από την αποστολή του πορτοφολιού. Τα κεφάλαια απαιτούν% 1 επιβεβαιώσεις (% 2 λεπτά) πριν από την αποστολή."];
   Message false [Loc None "+15"]
     "Staking funds cannot be sent out of your wallet without converting to spending. After converting to spending, %1 confirmations (%2 minutes) are required before sending." true
     ["Τα κεφάλαια που στοιχηματίζετε δεν μπορούν να σταλούν από το πορτοφόλι σας χωρίς να μετατραπούν σε δαπάνες. Μετά τη μετατροπή σε δαπάνες, απαιτούνται% 1 επιβεβαιώσεις (% 2 λεπτά) πριν από την αποστολή."];
   Message false [Loc (Some "../modaloverlay.cpp") "-29"]
     "unknown" true
     ["Άγνωστο"];
   Message false [Loc (Some "../bitcoin.cpp") "+186"]
     "%1 didn&apos;t yet exit safely..." true
     ["το% 1 δεν είχε ακόμη τερματιστεί με ασφάλεια..."]].

Definition el_QObject__QObject : list message :=
  [Message false [Loc None "-117"]
     "Error parsing command line arguments: %1." true
     ["Σφάλμα κατά την ανάλυση ορισμάτων γραμμής εντολών:% 1."];
   Message false [Loc None "+38"]
     "Error: Specified data directory &quot;%1&quot; does not exist." true
     ["Σφάλμα: ο καθορισμένος κατάλογος δεδομένων &quot;% 1&quot; δεν υπάρχει."];
   Message false [Loc None "+5"]
     "Error: Cannot parse configuration file: %1." true
     ["Σφάλμα: δεν είναι δυνατή η ανάλυση του αρχείου παραμέτρων:% 1."];
   Message false [Loc None "+14"]
     "Error: %1" true
     ["Σφάλμα:% 1"]].

Definition el_QRImageWidget : list message :=
  [Message false [Loc (Some "../receiverequestdialog.cpp") "+32"]
     "&amp;Save Image..." true
     ["Και Αποθήκευση εικόνας..."];
   Message false [Loc None "+3"]
     "&amp;Copy Image" true
     ["Και αντιγραφή εικόνας"];
   Message false [Loc None "+32"]
     "Save QR Code" true
     ["Αποθήκευση κωδικού QR"];
   Message false [Loc None "+0"]
     "PNG Image (*.png)" true
     ["PNG εικόνα (*. png)"]].

Definition el_RPCConsole_1 : list message :=
  [Message false [Loc (Some "../forms/debugwindow.ui") "+14"]
     "Debug window" true
     ["Παράθυρο εντοπισμού σφαλμάτων"];
   Message false [Loc None "+11"]
     "Information" true
     ["Πληροφορίες"];
   Message false [Loc None "+13"]
     "Console" true
     ["Κονσόλα"];
   Message false [Loc None "+10"]
     "Network Traffic" true
     ["Κυκλοφορία δικτύου"];
   Message false [Loc None "+10"]
     "Peers" true
     ["Συμμαθητές"];
   Message false [Loc None "+21"; Loc None "+1004"]
     "User Agent" true
     ["Παράγοντας χρήστη"];
   Message false [Loc None "-988"]
     "Block chain" true
     ["Αλυσίδα μπλοκ"];
   Message false [Loc None "+7"]
     "Client version" true
     ["Έκδοση προγράμματος-πελάτη"];
   Message false [Loc None "+13"]
     "General" true
     ["Γενική"];
   Message false [Loc None "+13"]
     "Memory Pool" true
     ["Πισίνα μνήμης"];
   Message false [Loc None "+7"]
     "Current number of blocks" true
     ["Τρέχων αριθμός τετραγώνων"];
   Message false [Loc None "+13"]
     "Network" true
     ["Δικτύου"];
   Message false [Loc None "+7"]
     "Number of connections" true
     ["Αριθμός συνδέσεων"];
   Message false [Loc None "+7"]
     "Startup time" true
     ["Χρόνος εκκίνησης"];
   Message false [Loc None "+7"]
     "Name" true
     ["Όνομα"];
   Message false [Loc None "+7"]
     "Last block time" true
     ["Χρόνος τελευταίου μπλοκ"];
   Message false [Loc None "+7"]
     "Using BerkeleyDB version" true
     ["Χρήση της έκδοσης BerkeleyDB"];
   Message false [Loc None "+10"]
     "Datadir" true
     ["DATADIR"];
   Message false [Loc None "+7"]
     "Memory usage" true
     ["Χρήση μνήμης"];
   Message false [Loc None "+7"]
     "Current number of transactions" true
     ["Τρέχων αριθμός συναλλαγών"];
   Message false [Loc None "+10"; Loc None "+16"; Loc None "+16"; Loc None "+16"; Loc None "+19"; Loc None "+16"; Loc None "+16"; Loc None "+16"; Loc None "+16"; Loc None "+16"; Loc None "+16"; Loc None "+644"; Loc None "+23"; Loc None "+23"; Loc None "+23"; Loc None "+23"; Loc None "+23"; Loc None "+23"; Loc None "+23"; Loc None "+23"; Loc None "+23"; Loc None "+23"; Loc None "+23"; Loc None "+23"; Loc None "+23"; Loc None "+23"; Loc None "+26"; Loc None "+23"; Loc None "+23"]
     "N/A" true
     ["Δ / υ"];
   Message false [Loc None "-988"]
     "Debug log file" true
     ["Αρχείο καταγραφής εντοπισμού σφαλμάτων"];
   Message false [Loc None "+7"]
     "Open the %1 debug log file from the current data directory. This can take a few seconds for large log files." true
     ["Ανοίξτε το αρχείο καταγραφής εντοπισμού σφαλμάτων% 1 από τον τρέχοντα κατάλογο δεδομένων. Αυτό μπορεί να διαρκέσει μερικά δευτερόλεπτα για μεγάλα αρχεία καταγραφής."]].

Definition el_RPCConsole_2 : list message :=
  [Message false [Loc None "+3"]
     "&amp;Open" true
     ["&amp; Ανοιχτό"];
   Message false [Loc None "+25"]
     "Wallet: " true
     ["Πορτοφόλι:"];
   Message false [Loc None "+8"]
     "(none)" true
     ["κανένα"];
   Message false [Loc None "+27"]
     "Decrease font size" true
     ["Μείωση μεγέθους γραμματοσειράς"];
   Message false [Loc None "+32"]
     "Increase font size" true
     ["Αύξηση μεγέθους γραμματοσειράς"];
   Message false [Loc None "+32"]
     "Clear console" true
     ["Απαλοιφή κονσόλας"];
   Message false [Loc None "+111"]
     "&amp;Reset" true
     ["Και επαναφορά"];
   Message false [Loc None "+16"]
     "Totals" true
     ["Σύνολα"];
   Message false [Loc None "+67"; Loc None "+555"]
     "Received" true
     ["Λάβει"];
   Message false [Loc None "-475"; Loc None "+452"]
     "Sent" true
     ["Αποστέλλονται"];
   Message false [Loc None "-361"]
     "Banned peers" true
     ["Απαγορευμένος ομότιμοι"];
   Message false [Loc None "+60"; Loc (Some "../rpcconsole.cpp") "+510"; Loc None "+760"]
     "Select a peer to view detailed information." true
     ["Επιλέξτε έναν ομότιμο υπολογιστή για να προβάλετε αναλυτικές πληροφορίες."];
   Message false [Loc None "+25"]
     "Whitelisted" true
     ["Στη λίστα επιτρεπόμενων"];
   Message false [Loc None "+23"]
     "Direction" true
     ["Κατεύθυνση"];
   Message false [Loc None "+23"]
     "Version" true
     ["Έκδοση"];
   Message false [Loc None "+46"]
     "Services" true
     ["Υπηρεσίες"];
   Message false [Loc None "+23"]
     "Starting Block" true
     ["Έναρξη μπλοκ"];
   Message false [Loc None "+23"]
     "Synced Headers" true
     ["Συγχρονισμένοι κεφαλίδες"];
   Message false [Loc None "+23"]
     "Synced Blocks" true
     ["Συγχρονισμένα μπλοκ"];
   Message false [Loc None "+23"]
     "Ban Score" true
     ["Βαθμολογία απαγόρευσης"];
   Message false [Loc None "+23"]
     "Connection Time" true
     ["Χρόνος σύνδεσης"];
   Message false [Loc None "+23"]
     "Last Send" true
     ["Τελευταία αποστολή"];
   Message false [Loc None "+23"]
     "Last Receive" true
     ["Τελευταία λήψη"];
   Message false [Loc None "+69"]
     "Ping Time" true
     ["Χρόνος ping"];
   Message false [Loc None "+23"]
     "The duration of a currently outstanding ping." true
     ["Η διάρκεια μιας τρέχουσας εκκρεμούς ping."];
   Message false [Loc None "+3"]
     "Ping Wait" true
     ["Περιοχή αναμονής ping"];
   Message false [Loc None "+23"]
     "Min Ping" true
     ["Min ping"];
   Message false [Loc None "+23"]
     "Time Offset" true
     ["Μετατόπιση χρόνου"];
   Message false [Loc (Some "../rpcconsole.cpp") "-667"]
     "&amp;Disconnect" true
     ["Και αποσύνδεση"]].

Definition el_RPCConsole_3 : list message :=
  [Message false [Loc None "+1"; Loc None "+1"; Loc None "+1"; Loc None "+1"]
     "Ban for" true
     ["Απαγόρευση για"];
   Message false [Loc None "-3"]
     "1 &amp;hour" true
     ["1 &amp; ώρα"];
   Message false [Loc None "+1"]
     "1 &amp;day" true
     ["1 &amp; ημέρα"];
   Message false [Loc None "+1"]
     "1 &amp;week" true
     ["1 &amp; εβδομάδα"];
   Message false [Loc None "+1"]
     "1 &amp;year" true
     ["1 και έτος"];
   Message false [Loc None "+48"]
     "&amp;Unban" true
     ["Και unban"];
   Message false [Loc None "+54"]
     "default wallet" true
     ["προεπιλεγμένο πορτοφόλι"];
   Message false [Loc None "+110"]
     "Welcome to the %1 RPC console." true
     ["Καλώς ορίσατε στην κονσόλα RPC% 1."];
   Message false [Loc None "+1"]
     "Use up and down arrows to navigate history, and %1 to clear screen." true
     ["Χρησιμοποιήστε βέλη πάνω και κάτω για να περιηγηθείτε στο ιστορικό και% 1 για να καθαρίσετε την οθόνη."];
   Message false [Loc None "+1"]
     "Type %1 for an overview of available commands." true
     ["Πληκτρολογήστε% 1 για μια επισκόπηση των διαθέσιμων εντολών."];
   Message false [Loc None "+1"]
     "For more information on using this console type %1." true
     ["Για περισσότερες πληροφορίες σχετικά με τη χρήση αυτού του τύπου κονσόλας% 1."];
   Message false [Loc None "+2"]
     "WARNING: Scammers have been active, telling users to type commands here, stealing their wallet contents. Do not use this console without fully understanding the ramifications of a command." true
     ["ΠΡΟΕΙΔΟΠΟΙΗΣΗ: οι απατεώνες είναι ενεργοί, λέγοντας στους χρήστες να πληκτρολογούν εντολές εδώ, κλέβοντας τα περιεχόμενα του πορτοφολιού τους. Μην χρησιμοποιείτε αυτήν την κονσόλα χωρίς να κατανοείτε πλήρως τις επιπτώσεις μιας εντολής."];
   Message false [Loc None "+32"]
     "In:" true
     ["In:"];
   Message false [Loc None "+1"]
     "Out:" true
     ["Έξω"];
   Message false [Loc None "+3"]
     "Network activity disabled" true
     ["Η δραστηριότητα δικτύου απενεργοποιήθηκε"];
   Message false [Loc None "+68"]
     "Executing command without any wallet" true
     ["Εκτέλεση εντολής χωρίς πορτοφόλι"];
   Message false [Loc None "+2"]
     "Executing command using &quot;%1&quot; wallet" true
     ["Εκτέλεση εντολής με χρήση του πορτοφολιού &quot;% 1&quot;"];
   Message false [Loc None "+190"]
     "(node id: %1)" true
     ["(αναγνωριστικό κόμβου:% 1)"];
   Message false [Loc None "+2"]
     "via %1" true
     ["μέσω% 1"];
   Message false [Loc None "+3"; Loc None "+1"]
     "never" true
     ["Ποτέ"];
   Message false [Loc None "+10"]
     "Inbound" true
     ["Εισερχόμενη"];
   Message false [Loc None "+0"]
     "Outbound" true
     ["Εξερχόμενη"];
   Message false [Loc None "+2"]
     "Yes" true
     ["Ναι"];
   Message false [Loc None "+0"]
     "No" true
     ["Όχι"];
   Message false [Loc None "+12"; Loc None "+6"]
     "Unknown" true
     ["Άγνωστο"]].

Definition el_ReceiveCoinsDialog : list message :=
  [Message false [Loc (Some "../forms/receivecoinsdialog.ui") "+59"]
     "Stake" true
     ["Ποντάρισμα"];
   Message false [Loc None "+5"]
     "ColdStake" true
     ["Κρύο παλούκι"];
   Message false [Loc None "+14"]
     "&amp;Request payment" true
     ["Και αίτηση πληρωμής"];
   Message false [Loc None "+17"]
     "Clear all fields of the form." true
     ["Απαλοιφή όλων των πεδίων της φόρμας."];
   Message false [Loc None "+3"]
     "Clear" true
     ["Σαφές"];
   Message false [Loc None "+56"; Loc None "+79"]
     "An optional amount to request. Leave this empty or zero to not request a specific amount." true
     ["Ένα προαιρετικό ποσό που πρέπει να ζητήσετε. Αφήστε αυτό το κενό ή μηδέν για να μην ζητήσετε ένα συγκεκριμένο ποσό."];
   Message false [Loc None "-57"]
     "Use bech32 encoding." true
     ["Χρησιμοποιήστε την κωδικοποίηση bech32."];
   Message false [Loc None "+3"]
     "Generate native segwit (Bech32) address" true
     ["Δημιουργία μητρικής διεύθυνσης (Bech32)"];
   Message false [Loc None "+22"; Loc None "+55"]
     "An optional label to associate with the new receiving address." true
     ["Μια προαιρετική ετικέτα για συσχέτιση με τη νέα διεύθυνση λήψης."];
   Message false [Loc None "-52"]
     "&amp;Label:" true
     ["Ετικέτα"];
   Message false [Loc None "+13"; Loc None "+53"]
     "An optional message to attach to the payment request, which will be displayed when the request is opened. Note: The message will not be sent with the payment over the Bitcoin Confidential network." true
     ["Ένα προαιρετικό μήνυμα που πρέπει να επισυνάψετε στην αίτηση πληρωμής, το οποίο θα εμφανίζεται κατά το άνοιγμα της αίτησης. Σημείωση: το μήνυμα δεν θα σταλεί με την πληρωμή πάνω από το Bitcoin εμπιστευτικό δίκτυο."];
   Message false [Loc None "-50"]
     "&amp;Message:" true
     ["Μήνυμα"];
   Message false [Loc None "+16"]
     "&amp;Amount:" true
     ["Ποσό"];
   Message false [Loc None "+13"]
     "Use this form to request payments. All fields are &lt;b&gt;optional&lt;/b&gt;." true
     ["Χρησιμοποιήστε αυτήν τη φόρμα για να ζητήσετε πληρωμές. Όλα τα πεδία είναι &lt;b&gt;Προαιρετικά&lt;/b&gt;."];
   Message false [Loc None "+63"]
     "Requested payments history" true
     ["Ιστορικό πληρωμών που ζητήθηκε"];
   Message false [Loc None "+31"]
     "Show the selected request (does the same as double clicking an entry)" true
     ["Εμφάνιση της επιλεγμένης αίτησης (κάνει το ίδιο με το διπλό κλικ σε μια καταχώρηση)"];
   Message false [Loc None "+3"]
     "Show" true
     ["Εμφάνιση"];
   Message false [Loc None "+17"]
     "Remove the selected entries from the list" true
     ["Κατάργηση των επιλεγμένων καταχωρήσεων από τη λίστα"];
   Message false [Loc None "+3"]
     "Remove" true
     ["Καταργήσετε"];
   Message false [Loc (Some "../receivecoinsdialog.cpp") "+40"]
     "Copy URI" true
     ["Αντιγραφή URI"];
   Message false [Loc None "+1"]
     "Copy label" true
     ["Αντιγραφή ετικέτας"];
   Message false [Loc None "+1"]
     "Copy message" true
     ["Αντιγραφή μηνύματος"];
   Message false [Loc None "+1"]
     "Copy amount" true
     ["Ποσό αντιγραφής"]].

Definition el_ReceiveRequestDialog : list message :=
  [Message false [Loc (Some "../forms/receiverequestdialog.ui") "+29"]
     "QR Code" true
     ["Κωδικός QR"];
   Message false [Loc None "+46"]
     "Copy &amp;URI" true
     ["Αντιγραφή και URI"];
   Message false [Loc None "+10"]
     "Copy &amp;Address" true
     ["Αντιγραφή και διεύθυνση"];
   Message false [Loc None "+10"]
     "&amp;Save Image..." true
     ["Και Αποθήκευση εικόνας..."];
   Message false [Loc (Some "../receiverequestdialog.cpp") "+65"]
     "Request payment to %1" true
     ["Αίτηση πληρωμής στο% 1"];
   Message false [Loc None "+6"]
     "Payment information" true
     ["Πληροφορίες πληρωμής"];
   Message false [Loc None "+1"]
     "URI" true
     ["Uri"];
   Message false [Loc None "+2"]
     "Address" true
     ["Διεύθυνση"];
   Message false [Loc None "+2"]
     "Amount" true
     ["Ποσό"];
   Message false [Loc None "+2"]
     "Label" true
     ["Ετικέτα"];
   Message false [Loc None "+2"]
     "Message" true
     ["Μήνυμα"];
   Message false [Loc None "+2"]
     "Wallet" true
     ["Πορτοφόλι"];
   Message false [Loc None "+11"]
     "Resulting URI too long, try to reduce the text for label / message." true
     ["Το URI που προκύπτει είναι πολύ μεγάλο, προσπαθήστε να μειώσετε το κείμενο για ετικέτα/μήνυμα."];
   Message false [Loc None "+5"]
     "Error encoding URI into QR Code." true
     ["Σφάλμα κωδικοποίησης URI σε QR code."]].

Definition el_RecentRequestsTableModel : list message :=
  [Message false [Loc (Some "../recentrequeststablemodel.cpp") "+25"; Loc None "+4"]
     "Date" true
     ["Ημερομηνία"];
   Message false [Loc None "-4"; Loc None "+4"]
     "Label" true
     ["Ετικέτα"];
   Message false [Loc None "+0"]
     "Message" true
     ["Μήνυμα"];
   Message false [Loc None "+42"]
     "(no label)" true
     ["(χωρίς ετικέτα)"];
   Message false [Loc None "+9"]
     "(no message)" true
     ["(χωρίς μήνυμα)"];
   Message false [Loc None "+8"]
     "(no amount requested)" true
     ["(δεν ζητήθηκε ποσό)"];
   Message false [Loc None "+45"]
     "Requested" true
     ["Ζήτησε"]].

Definition el_SendCoinsDialog_1 : list message :=
  [Message false [Loc (Some "../forms/sendcoinsdialog.ui") "+14"; Loc (Some "../sendcoinsdialog.cpp") "+806"]
     "Send Coins" true
     ["Αποστολή νομισμάτων"];
   Message false [Loc None "+105"]
     "Inputs..." true
     ["Εισροές..."];
   Message false [Loc None "+10"]
     "automatically selected" true
     ["επιλέγεται αυτόματα"];
   Message false [Loc None "+19"]
     "Insufficient funds!" true
     ["Ανεπαρκή κεφάλαια!"];
   Message false [Loc None "+89"]
     "Quantity:" true
     ["Ποσότητα:"];
   Message false [Loc None "+35"]
     "Bytes:" true
     ["Byte:"];
   Message false [Loc None "+48"]
     "Amount:" true
     ["Ποσό:"];
   Message false [Loc None "+32"]
     "Dust:" true
     ["Σκόνη:"];
   Message false [Loc None "+48"]
     "Fee:" true
     ["Τέλος:"];
   Message false [Loc None "+51"]
     "After Fee:" true
     ["Μετά την χρέωση:"];
   Message false [Loc None "+32"]
     "Change:" true
     ["Αλλάξετε:"];
   Message false [Loc None "+44"]
     "If this is activated, but the change address is empty or invalid, change will be sent to a newly generated address." true
     ["Εάν αυτό είναι ενεργοποιημένο, αλλά η διεύθυνση αλλαγής είναι κενή ή άκυρη, η αλλαγή θα σταλεί σε μια πρόσφατα δημιουργούμενη διεύθυνση."];
   Message false [Loc None "+3"]
     "Custom change address" true
     ["Προσαρμοσμένη διεύθυνση αλλαγής"];
   Message false [Loc None "+256"]
     "Transaction Fee:" true
     ["Τέλος συναλλαγής:"];
   Message false [Loc None "+14"]
     "Choose..." true
     ["Επιλέξτε..."];
   Message false [Loc None "+30"]
     "Using the fallbackfee can result in sending a transaction that will take several hours or days (or never) to confirm. Consider choosing your fee manually or wait until you have validated the complete chain." true
     ["Η χρήση του τέλους λειτουργίας μπορεί να έχει ως αποτέλεσμα την αποστολή μιας συναλλαγής που θα διαρκέσει αρκετές ώρες ή ημέρες (ή ποτέ) για επιβεβαίωση. Εξετάστε το ενδεχόμενο να επιλέξετε την αμοιβή σας χειροκίνητα ή περιμένετε μέχρι να επικυρώσετε την πλήρη αλυσίδα."];
   Message false [Loc None "+3"]
     "Warning: Fee estimation is currently not possible." true
     ["Προειδοποίηση: αυτή τη στιγμή δεν είναι δυνατή η εκτίμηση τελών."];
   Message false [Loc None "+26"]
     "collapse fee-settings" true
     ["Σύμπτυξη χρεώσεων-ρυθμίσεις"];
   Message false [Loc None "+3"]
     "Hide" true
     ["Απόκρυψη"];
   Message false [Loc None "+48"]
     "Specify a custom fee per kB (1,000 bytes) of the transaction's virtual size.

Note:  Since the fee is calculated on a per-byte basis, a fee of &quot;100 satoshis per kB&quot; for a transaction size of 500 bytes (half of 1 kB) would ultimately yield a fee of only 50 satoshis." true
     ["Καθορίστε ένα προσαρμοσμένο τέλος ανά kB (1.000 byte) του εικονικού μεγέθους της συναλλαγής.

Σημείωση: δεδομένου ότι το τέλος υπολογίζεται σε βάση ανά byte, ένα τέλος του &quot;100 satoshis ανά kB&quot; για ένα μέγεθος συναλλαγής 500 byte (μισό από 1 kB) θα αποφέρει τελικά ένα τέλος μόνο 50 satoshis."];
   Message false [Loc None "+5"]
     "per kilobyte" true
     ["ανά kilobyte"];
   Message false [Loc None "+27"; Loc None "+13"]
     "Paying only the minimum fee is just fine as long as there is less transaction volume than space in the blocks. But be aware that this can end up in a never confirming transaction once there is more demand for Bitcoin Confidential transactions than the network can process." true
     ["Η πληρωμή μόνο του ελάχιστου τέλους είναι μια χαρά αρκεί να υπάρχει λιγότερος όγκος συναλλαγών από το διάστημα στα μπλοκ. Αλλά να έχετε υπόψη σας ότι αυτό μπορεί να καταλήξει σε μια μη επιβεβαιωτική συναλλαγή όταν υπάρχει περισσότερη ζήτηση για Bitcoin εμπιστευτικές συναλλαγές από ό, τι το δίκτυο μπορεί να επεξεργαστεί."];
   Message false [Loc None "+3"]
     "(read the tooltip)" true
     ["(Διαβάστε τη συμβουλή εργαλείου)"];
   Message false [Loc None "+29"]
     "Recommended:" true
     ["Συνιστάται:"];
   Message false [Loc None "+30"]
     "Custom:" true
     ["Προσαρμοσμένη:"];
   Message false [Loc None "+52"]
     "(Smart fee not initialized yet. This usually takes a few blocks...)" true
     ["(Η έξυπνη χρέωση δεν έχει προετοιμαστεί ακόμα. Αυτό συνήθως παίρνει μερικά τετράγωνα...)"];
   Message false [Loc None "+29"]
     "Confirmation time target:" true
     ["Στόχος χρόνου επιβεβαίωσης:"];
   Message false [Loc None "+74"]
     "With Replace-By-Fee (BIP-125) you can increase a transaction&apos;s fee after it is sent. Without this, a higher fee may be recommended to compensate for increased transaction delay risk." true
     ["Με την αντικατάσταση με χρέωση (BIP-125) μπορείτε να αυξήσετε την αμοιβή μιας συναλλαγής μετά την αποστολή της. Χωρίς αυτό, μπορεί να προταθεί υψηλότερο τέλος για την αντιστάθμιση του αυξημένου κινδύνου καθυστέρησης της συναλλαγής."]].

Definition el_SendCoinsDialog_2 : list message :=
  [Message false [Loc None "+3"]
     "Enable Replace-By-Fee" true
     ["Ενεργοποίηση αντικατάστασης με χρέωση"];
   Message false [Loc None "+37"]
     "Confirm the send action" true
     ["Επιβεβαιώστε την ενέργεια αποστολής"];
   Message false [Loc None "+3"]
     "S&amp;end" true
     ["S&amp;end"];
   Message false [Loc None "+23"]
     "Clear all fields of the form." true
     ["Απαλοιφή όλων των πεδίων της φόρμας."];
   Message false [Loc None "+3"]
     "Clear &amp;All" true
     ["Καθαρά και όλα"];
   Message false [Loc None "+14"]
     "Send to multiple recipients at once" true
     ["Αποστολή σε πολλαπλούς παραλήπτες ταυτόχρονα"];
   Message false [Loc None "+3"]
     "Add &amp;Recipient" true
     ["Προσθήκη και παραλήπτης"];
   Message false [Loc None "+38"]
     "Balance:" true
     ["Ισορροπία:"];
   Message false [Loc (Some "../sendcoinsdialog.cpp") "-730"]
     "Add Output" true
     ["Προσθήκη εξόδου"];
   Message false [Loc None "+3"]
     "Add Recipient" true
     ["Προσθήκη παραλήπτη"];
   Message false [Loc None "+14"]
     "Copy quantity" true
     ["Αντιγραφή ποσότητας"];
   Message false [Loc None "+1"]
     "Copy amount" true
     ["Ποσό αντιγραφής"];
   Message false [Loc None "+1"]
     "Copy fee" true
     ["Τέλος αντιγραφής"];
   Message false [Loc None "+1"]
     "Copy after fee" true
     ["Αντιγραφή μετά από χρέωση"];
   Message false [Loc None "+1"]
     "Copy bytes" true
     ["Αντιγραφή byte"];
   Message false [Loc None "+1"]
     "Copy dust" true
     ["Αντιγραφή σκόνης"];
   Message false [Loc None "+1"]
     "Copy change" true
     ["Αλλαγή αντιγραφής"];
   Message false [Loc None "+88"]
     "%1 (%2 blocks)" true
     ["% 1 (% 2 μπλοκ)"];
   Message false [Loc None "+39"]
     "This tab allows manually activating Staking funds for ColdStaking. This will take longer than the &quot;Automated ColdStaking activation&quot; to start staking but wallet does not need to be online for the activation." true
     ["Αυτή η καρτέλα επιτρέπει τη μη αυτόματη ενεργοποίηση κεφαλαίων για το κρύο. Αυτό θα διαρκέσει περισσότερο από την &quot;αυτοματοποιημένη ενεργοποίηση Ψυχροποίησης&quot; για να ξεκινήσει στοιχηματίζετε, αλλά το πορτοφόλι δεν χρειάζεται να είναι online για την ενεργοποίηση."];
   Message false [Loc None "+103"]
     "Error Remote Staking Address" true
     ["Σφάλμα απομακρυσμένης διεύθυνσης πονταρίσματος"];
   Message false [Loc None "+0"]
     "The remote stake address can&apos;t be part of this wallet." true
     ["Η απομακρυσμένη διεύθυνση πονταρίσματος δεν μπορεί να είναι μέρος αυτού του πορτοφολιού."];
   Message false [Loc None "+96"]
     "from wallet %1" true
     ["από το πορτοφόλι% 1"];
   Message false [Loc None "+21"; Loc None "+5"; Loc None "+5"; Loc None "+4"]
     "%1 to %2" true
     ["% 1 έως% 2"];
   Message false [Loc None "+6"]
     "Are you sure you want to send?" true
     ["Είστε βέβαιοι ότι θέλετε να στείλετε;"];
   Message false [Loc None "+2"]
     "Please, review your transaction." true
     ["Παρακαλώ, εξετάστε τη συναλλαγή σας."];
   Message false [Loc None "+11"]
     "Estimated Transaction fee" true
     ["Εκτιμώμενη χρέωση συναλλαγής"];
   Message false [Loc None "+13"]
     "removed for transaction fee" true
     ["αφαιρεθεί για το τέλος συναλλαγής"];
   Message false [Loc None "+2"]
     "added as transaction fee" true
     ["προστίθενται ως τέλος συναλλαγής"];
   Message false [Loc None "+5"]
     "You can increase the fee later (signals Replace-By-Fee, BIP-125)." true
     ["Μπορείτε να αυξήσετε το τέλος αργότερα (αντικατάσταση σημάτων, BIP-125)."]].

Definition el_SendCoinsDialog_3 : list message :=
  [Message false [Loc None "+2"]
     "Not signalling Replace-By-Fee, BIP-125." true
     ["Μη σηματοδοτώντας την αντικατάσταση-με-χρέωση, BIP-125."];
   Message false [Loc None "+12"]
     "Total Amount" true
     ["Συνολικό ποσό"];
   Message false [Loc None "+6"]
     "Your hardware device must be connected to sign this txn." true
     ["Η συσκευή υλικού σας πρέπει να είναι συνδεδεμένη για να υπογράψει αυτό το αρχείο."];
   Message false [Loc None "+4"]
     "Confirm send coins" true
     ["Επιβεβαίωση αποστολής κερμάτων"];
   Message false [Loc None "+248"]
     "The recipient address is not valid. Please recheck." true
     ["Η διεύθυνση του παραλήπτη δεν είναι έγκυρη. Παρακαλώ επανελέγξτε."];
   Message false [Loc None "+3"]
     "The amount to pay must be larger than 0." true
     ["Το ποσό που πρέπει να πληρώσετε πρέπει να είναι μεγαλύτερο από 0."];
   Message false [Loc None "+3"]
     "The amount exceeds your balance." true
     ["Το ποσό υπερβαίνει το υπόλοιπό σας."];
   Message false [Loc None "+3"]
     "The total exceeds your balance when the %1 transaction fee is included." true
     ["Το σύνολο υπερβαίνει το υπόλοιπό σας όταν συμπεριλαμβάνεται το τέλος συναλλαγής% 1."];
   Message false [Loc None "+3"]
     "Duplicate address found: addresses should only be used once each." true
     ["Εντοπίστηκε διπλότυπη διεύθυνση: οι διευθύνσεις θα πρέπει να χρησιμοποιούνται μόνο μία φορά."];
   Message false [Loc None "+3"]
     "Transaction creation failed!" true
     ["Η δημιουργία συναλλαγής απέτυχε!"];
   Message false [Loc None "+4"]
     "The transaction was rejected with the following reason: %1" true
     ["Η συναλλαγή απορρίφθηκε με τον ακόλουθο λόγο:% 1"];
   Message false [Loc None "+4"]
     "A fee higher than %1 is considered an absurdly high fee." true
     ["Μια αμοιβή υψηλότερη από% 1 θεωρείται παράλογα υψηλή αμοιβή."];
   Message false [Loc None "+3"]
     "Payment request expired." true
     ["Η αίτηση πληρωμής έληξε."];
   Message false [Loc None "+96"]
     "Pay only the required fee of %1" true
     ["Πληρώστε μόνο το απαιτούμενο τέλος του% 1"];
   Message true [Loc None "+76"]
     "Estimated to begin confirmation within %n block(s)." true
     ["Εκτιμάται ότι θα ξεκινήσει η επιβεβαίωση εντός των% n μπλοκ (α)."; "Εκτιμάται ότι θα ξεκινήσει η επιβεβαίωση εντός των% n μπλοκ (α)."];
   Message false [Loc None "+130"]
     "Warning: Invalid Bitcoin Confidential address" true
     ["Προειδοποίηση: μη έγκυρη εμπιστευτική διεύθυνση Bitcoin"];
   Message false [Loc None "+8"]
     "Error custom change address" true
     ["Σφάλμα προσαρμοσμένης διεύθυνσης αλλαγής"];
   Message false [Loc None "+0"]
     "The address you selected for change is not part of this wallet." true
     ["Η διεύθυνση που επιλέξατε για αλλαγή δεν αποτελεί μέρος αυτού του πορτοφολιού."];
   Message false [Loc None "+15"]
     "(no label)" true
     ["(χωρίς ετικέτα)"]].

Definition el_SendCoinsEntry_1 : list message :=
  [Message false [Loc (Some "../forms/sendcoinsentry.ui") "+30"]
     "This is a normal payment." true
     ["Αυτή είναι μια κανονική πληρωμή."];
   Message false [Loc None "+71"; Loc None "+463"; Loc None "+130"]
     "Subtract fee from amount" true
     ["Αφαίρεση τέλους από το ποσό"];
   Message false [Loc None "-580"; Loc None "+463"; Loc None "+130"]
     "Use available balance" true
     ["Χρήση διαθέσιμου υπολοίπου"];
   Message false [Loc None "-562"]
     "Message" true
     ["Μήνυμα"];
   Message false [Loc None "+24"; Loc None "+261"]
     "The Bitcoin Confidential address to send the payment to" true
     ["Το Bitcoin εμπιστευτική διεύθυνση για να στείλετε την πληρωμή σε"];
   Message false [Loc None "-254"; Loc None "+261"; Loc None "+297"; Loc None "+104"]
     "Choose previously used address" true
     ["Επιλέξτε τη διεύθυνση που χρησιμοποιήσατε προηγουμένως"];
   Message false [Loc None "-646"; Loc None "+261"; Loc None "+297"; Loc None "+104"]
     "Alt+A" true
     ["ALT + A"];
   Message false [Loc None "-655"; Loc None "+261"; Loc None "+297"; Loc None "+104"]
     "Paste address from clipboard" true
     ["Επικόλληση διεύθυνσης από το Πρόχειρο"];
   Message false [Loc None "-646"; Loc None "+261"; Loc None "+297"; Loc None "+104"]
     "Alt+P" true
     ["ALT + P"];
   Message false [Loc None "-655"; Loc None "+261"; Loc None "+401"; Loc None "+520"; Loc None "+564"]
     "Remove this entry" true
     ["Κατάργηση αυτής της καταχώρησης"];
   Message false [Loc None "-1718"; Loc None "+277"]
     "Pay To" true
     ["Πληρωμή σε"];
   Message false [Loc None "-258"; Loc None "+242"; Loc None "+277"]
     "Amount" true
     ["Ποσό"];
   Message false [Loc None "-495"]
     "Enter a label for this address to add it to the list of used addresses" true
     ["Εισαγάγετε μια ετικέτα για αυτήν τη διεύθυνση, για να την προσθέσετε στη λίστα των χρησιμοποιούμενων διευθύνσεων"];
   Message false [Loc None "+15"]
     "Label" true
     ["Ετικέτα"];
   Message false [Loc None "+33"]
     "A short message sent over the Bitcoin Confidential network." true
     ["Ένα σύντομο μήνυμα που στάλθηκε πάνω από το Bitcoin εμπιστευτικό δίκτυο."];
   Message false [Loc None "+6"]
     "Encrypted message sent with the transaction (optional, max. 24 characters)." true
     ["Κρυπτογραφημένο μήνυμα που αποστέλλεται με τη συναλλαγή (προαιρετικά, μέγ. 24 χαρακτήρες)."];
   Message false [Loc None "+261"]
     "This is a payment to a coldstake script." true
     ["Αυτή είναι μια πληρωμή σε ένα σενάριο ψυχρού πασσάλου."];
   Message false [Loc None "+83"]
     "The fee will be deducted from the amount being sent. The recipient will receive less Bitcoin Confidential than you enter in the amount field. If multiple recipients are selected, the fee is split equally." true
     ["Το τέλος θα αφαιρεθεί από το ποσό που αποστέλλεται. Ο παραλήπτης θα λάβει λιγότερο Bitcoin εμπιστευτικό από ό, τι εισάγετε στο πεδίο ποσό. Εάν επιλεγούν πολλοί παραλήπτες, το τέλος χωρίζεται εξίσου."];
   Message false [Loc None "+36"]
     "ColdStake address used by your remote staking node to stake your funds." true
     ["Η διεύθυνση ψυχρού πασσάλου που χρησιμοποιείται από τον απομακρυσμένο κόμβο πονταρίσματος για να στοιχηματίζετε τα κεφάλαιά σας."];
   Message false [Loc None "+80"]
     "ColdStake " true
     ["Κρύο παλούκι"];
   Message false [Loc None "+24"]
     "The stake address on the remote node (cannot be in this wallet)" true
     ["Η διεύθυνση πονταρίσματος στον απομακρυσμένο κόμβο (δεν μπορεί να είναι σε αυτό το πορτοφόλι)"];
   Message false [Loc None "+81"]
     " Stake " true
     ["Ποντάρισμα"];
   Message false [Loc None "+434"]
     "This is an unauthenticated payment request." true
     ["Αυτή είναι μια αίτηση πληρωμής χωρίς έλεγχο ταυτότητας."];
   Message false [Loc None "+40"; Loc None "+560"]
     "Pay To:" true
     ["Πληρωμή σε:"]].

Definition el_SendCoinsEntry_2 : list message :=
  [Message false [Loc None "-526"; Loc None "+577"]
     "Memo:" true
     ["Τιμολόγιο:"];
   Message false [Loc None "-560"; Loc None "+547"]
     "A&amp;mount:" true
     ["Το όρος a&amp;mount:"];
   Message false [Loc None "-78"]
     "This is an authenticated payment request." true
     ["Αυτή είναι μια αίτηση πληρωμής με έλεγχο ταυτότητας."];
   Message false [Loc (Some "../sendcoinsentry.cpp") "+89"]
     "Enter a label for this address to add it to your address book" true
     ["Εισαγάγετε μια ετικέτα για αυτήν τη διεύθυνση, για να την προσθέσετε στο βιβλίο διευθύνσεών σας"]].

Definition el_SendConfirmationDialog : list message :=
  [Message false [Loc (Some "../sendcoinsdialog.cpp") "+85"; Loc None "+5"]
     "Yes" true
     ["Ναι"]].

Definition el_ShutdownWindow : list message :=
  [Message false [Loc (Some "../utilitydialog.cpp") "+83"]
     "%1 is shutting down..." true
     ["το% 1 τερματίζεται..."];
   Message false [Loc None "+1"]
     "Do not shut down the computer until this window disappears." true
     ["Μην κλείσετε τον υπολογιστή μέχρι να εξαφανιστεί αυτό το παράθυρο."]].

Definition el_SignVerifyMessageDialog_1 : list message :=
  [Message false [Loc (Some "../forms/signverifymessagedialog.ui") "+14"]
     "Signatures - Sign / Verify a Message" true
     ["Υπογραφές-υπογραφή/επιβεβαίωση μηνύματος"];
   Message false [Loc None "+14"]
     "&amp;Sign Message" true
     ["Και υπογραφή μηνύματος"];
   Message false [Loc None "+10"]
     "&amp;Verify Message" true
     ["Και επιβεβαιώστε το μήνυμα"];
   Message false [Loc None "+31"]
     "You can sign messages/agreements with your addresses to prove you can receive Bitcoin Confidential sent to them. Be careful not to sign anything vague or random, as phishing attacks may try to trick you into signing your identity over to them. Only sign fully-detailed statements you agree to." true
     ["Μπορείτε να υπογράψετε μηνύματα/συμφωνίες με τις διευθύνσεις σας για να αποδείξετε ότι μπορείτε να λάβετε Bitcoin εμπιστευτικό που αποστέλλονται σε αυτούς. Προσέξτε να μην υπογράψετε τίποτα ασαφές ή τυχαίο, καθώς οι επιθέσεις phishing μπορεί να προσπαθήσουν να σας ξεγελάσουν για να υπογράψετε την ταυτότητά σας. Υπογράφετε μόνο πλήρεις αναλυτικές δηλώσεις στις οποίες συμφωνείτε."];
   Message false [Loc None "+18"]
     "The Bitcoin Confidential address to sign the message with" true
     ["Την εμπιστευτική διεύθυνση Bitcoin για να υπογράψετε το μήνυμα με"];
   Message false [Loc None "+7"; Loc None "+213"]
     "Choose previously used address" true
     ["Επιλέξτε τη διεύθυνση που χρησιμοποιήσατε προηγουμένως"];
   Message false [Loc None "-203"; Loc None "+213"]
     "Alt+A" true
     ["ALT + A"];
   Message false [Loc None "-203"]
     "Paste address from clipboard" true
     ["Επικόλληση διεύθυνσης από το Πρόχειρο"];
   Message false [Loc None "+10"]
     "Alt+P" true
     ["ALT + P"];
   Message false [Loc None "+12"]
     "Enter the message you want to sign here" true
     ["Πληκτρολογήστε το μήνυμα που θέλετε να υπογράψετε εδώ"];
   Message false [Loc None "+7"]
     "Signature" true
     ["Υπογραφή"];
   Message false [Loc None "+27"]
     "Copy the current signature to the system clipboard" true
     ["Αντιγραφή της τρέχουσας υπογραφής στο Πρόχειρο του συστήματος"];
   Message false [Loc None "+21"]
     "Sign the message to prove you own this Bitcoin Confidential address" true
     ["Υπογράψτε το μήνυμα για να αποδείξετε ότι έχετε αυτή την εμπιστευτική διεύθυνση Bitcoin"];
   Message false [Loc None "+3"]
     "Sign &amp;Message" true
     ["Υπογραφή και μήνυμα"];
   Message false [Loc None "+14"]
     "Reset all sign message fields" true
     ["Επαναφορά όλων των πεδίων μηνύματος εισόδου"];
   Message false [Loc None "+3"; Loc None "+153"]
     "Clear &amp;All" true
     ["Καθαρά και όλα"];
   Message false [Loc None "-85"]
     "Enter the receiver&apos;s address, message (ensure you copy line breaks, spaces, tabs, etc. exactly) and signature below to verify the message. Be careful not to read more into the signature than what is in the signed message itself, to avoid being tricked by a man-in-the-middle attack. Note that this only proves the signing party receives with the address, it cannot prove sendership of any transaction!" true
     ["Πληκτρολογήστε τη διεύθυνση του παραλήπτη, το μήνυμα (βεβαιωθείτε ότι αντιγράφετε διαλείμματα γραμμής, διαστήματα, καρτέλες κ. λπ. ακριβώς) και την υπογραφή παρακάτω για να επαληθεύσετε το μήνυμα. Προσέξτε να μην διαβάσετε περισσότερα στην υπογραφή από ό, τι είναι στο υπογεγραμμένο μήνυμα από μόνο του, για να αποφύγετε να εξαπατηθεί από μια επίθεση στο μέσο του ανθρώπου. Σημειώστε ότι αυτό αποδεικνύει μόνο ότι το κόμμα υπογραφής λαμβάνει με τη διεύθυνση, δεν μπορεί να αποδείξει την αποστολή οποιασδήποτε συναλλαγής!"];
   Message false [Loc None "+21"]
     "The Bitcoin Confidential address the message was signed with" true
     ["Η διεύθυνση Bitcoin εμπιστευτικό το μήνυμα υπεγράφη με"];
   Message false [Loc None "+44"]
     "Verify the message to ensure it was signed with the specified Bitcoin Confidential address" true
     ["Επιβεβαιώστε το μήνυμα, για να βεβαιωθείτε ότι υπεγράφη με την καθορισμένη διεύθυνση απορρήτων Bitcoin"];
   Message false [Loc None "+3"]
     "Verify &amp;Message" true
     ["Επιβεβαίωση και μήνυμα"];
   Message false [Loc None "+14"]
     "Reset all verify message fields" true
     ["Επαναφορά όλων των πεδίων του μηνύματος επαλήθευσης"];
   Message false [Loc (Some "../signverifymessagedialog.cpp") "+39"]
     "Click &quot;Sign Message&quot; to generate signature" true
     ["Κάντε κλικ στην επιλογή &quot;υπογραφή μηνύματος&quot; για να δημιουργήσετε υπογραφή"];
   Message false [Loc None "+78"; Loc None "+78"]
     "The entered address is invalid." true
     ["Η διεύθυνση που πληκτρολογήσατε δεν είναι έγκυρη."];
   Message false [Loc None "-78"; Loc None "+7"; Loc None "+71"; Loc None "+6"]
     "Please check the address and try again." true
     ["Ελέγξτε τη διεύθυνση και προσπαθήστε ξανά."];
   Message false [Loc None "-77"; Loc None "+77"]
     "The entered address does not refer to a key." true
     ["Η διεύθυνση που πληκτρολογήσατε δεν αναφέρεται σε κλειδί."];
   Message false [Loc None "-69"]
     "Wallet unlock was cancelled." true
     ["Το ξεκλείδωμα του πορτοφολιού ακυρώθηκε."];
   Message false [Loc None "+8"]
     "Private key for the entered address is not available." true
     ["Το ιδιωτικό κλειδί για τη διεύθυνση που πληκτρολογήσατε δεν είναι διαθέσιμο."];
   Message false [Loc None "+12"]
     "Message signing failed." true
     ["Η υπογραφή του μηνύματος απέτυχε."]].

Definition el_SignVerifyMessageDialog_2 : list message :=
  [Message false [Loc None "+5"]
     "Message signed." true
     ["Μήνυμα υπογεγραμμένο."];
   Message false [Loc None "+55"]
     "The signature could not be decoded." true
     ["Δεν ήταν δυνατή η αποκωδικοποίηση της υπογραφής."];
   Message false [Loc None "+0"; Loc None "+13"]
     "Please check the signature and try again." true
     ["Ελέγξτε την υπογραφή και προσπαθήστε ξανά."];
   Message false [Loc None "+0"]
     "The signature did not match the message digest." true
     ["Η υπογραφή δεν ταιριάζει με τη σύνοψη του μηνύματος."];
   Message false [Loc None "+6"]
     "Message verification failed." true
     ["Η επαλήθευση μηνυμάτων απέτυχε."];
   Message false [Loc None "+5"]
     "Message verified." true
     ["Το μήνυμα επιβεβαιώθηκε."]].

Definition el_SplashScreen : list message :=
  [Message false [Loc (Some "../networkstyle.cpp") "+19"]
     "[testnet]" true
     ["[τεστ]"]].

Definition el_StakingDialog_1 : list message :=
  [Message false [Loc (Some "../forms/stakingdialog.ui") "+14"]
     "Send Coins" true
     ["Αποστολή νομισμάτων"];
   Message false [Loc None "+23"]
     "Status" true
     ["Κατάσταση"];
   Message false [Loc None "+19"]
     "Addresses" true
     ["Διευθύνσεις"];
   Message false [Loc None "+16"]
     "Rewards" true
     ["Ανταμοιβές"];
   Message false [Loc None "+16"]
     "Convert to Spending" true
     ["Μετατροπή σε δαπάνες"];
   Message false [Loc None "+16"]
     "Convert to Staking" true
     ["Μετατροπή σε Ποντς"];
   Message false [Loc None "+16"]
     "Activate ColdStaking" true
     ["Ενεργοποίηση ΨΥΧΡΩΝ ΠΟΝΤΩΝ"];
   Message false [Loc None "+79"]
     "Total supply" true
     ["Συνολική προμήθεια"];
   Message false [Loc None "+26"]
     "Current block reward" true
     ["Τρέχουσα ανταμοιβή μπλοκ"];
   Message false [Loc None "+26"]
     "Current block height" true
     ["Τρέχον ύψος μπλοκ"];
   Message false [Loc None "+20"]
     "Network difficulty" true
     ["Δυσκολία δικτύου"];
   Message false [Loc None "+26"]
     "Annual staking reward" true
     ["Ετήσια ανταμοιβή πονταρίσματος"];
   Message false [Loc None "+13"]
     "Current staking reward" true
     ["Τρέχουσα ανταμοιβή πονταρίσματος"];
   Message false [Loc None "+26"]
     "Network staking weight" true
     ["Βάρος σε δίκτυο"];
   Message false [Loc None "+20"]
     "Your estimated annual reward" true
     ["Η εκτιμώμενη ετήσια ανταμοιβή σας"];
   Message false [Loc None "+13"]
     "?" true
     ["?"];
   Message false [Loc None "+80"]
     "Staking" true
     ["Πονταρίσματος"];
   Message false [Loc None "+24"; Loc None "+233"]
     "ENABLED" true
     ["Ενεργοποιημένη"];
   Message false [Loc None "-210"]
     "Pause" true
     ["Παύση"];
   Message false [Loc None "+50"; Loc None "+425"]
     "Estimated reward frequency" true
     ["Εκτιμώμενη συχνότητα ανταμοιβής"];
   Message false [Loc None "-412"]
     "Stakable Funds" true
     ["Στατά κεφάλαια"];
   Message false [Loc None "+20"]
     "Wallet staking weight" true
     ["Πορτοφόλι σε βάρος"];
   Message false [Loc None "+103"]
     "Cold Staking" true
     ["Κρύα Ποντς"];
   Message false [Loc None "+55"]
     "Remote Stake address" true
     ["Απομακρυσμένη διεύθυνση πονταρίσματος"];
   Message false [Loc None "+13"]
     "Automated ColdStaking activation" true
     ["Αυτοματοποιημένη ενεργοποίηση ψυχρού νερού"];
   Message false [Loc None "+25"]
     "Enable " true
     ["Ενεργοποιήσετε"];
   Message false [Loc None "+57"]
     "Enable Hot Staking with the STAKING ENABLE button and leaving wallet open.  Enable automated ColdStake with COLDSTAKING ENABLE button and setting a remote stake address. On remote node enable staking with &quot;bitcoinc-cli walletsettings stakingstatus true&quot; and create a &quot;Stake&quot; address on your remote node with &quot;bitcoinc-cli getnewstakeaddress&quot;, or get a &quot;Stake&quot; address from a ColdStaking pool. Funds gradually transition over from hot staking to cold staking while your wallet is open. The time required for the activation depends on the wallet&apos;s staking weight and can take several days with a low weight. Once the activation bar shows complete, wallet can be closed.  Alternatively, use the Activate Coldstaking tab to send an activation transaction.  This will take longer to start staking but wallet does not need to be online." true
     ["Ενεργοποίηση ζεστού πονταρίσματος με το κουμπί Ενεργοποίηση ΠΟΝΤΑΡΊΣΜΑΤΟς και αφήνοντας το πορτοφόλι ανοιχτό.  Ενεργοποιήστε το αυτόματο ψυχρό ποντάρισμα με το κουμπί Ενεργοποίηση ΨΥΧΡΩΝ ποντων και ορίζοντας μια απομακρυσμένη διεύθυνση πονταρίσματος. Σε απομακρυσμένο κόμβο ενεργοποίηση πασσάλου με &quot;bitcoinc-κλισέ walletsettings στάτεςκατάσταση True&quot; και να δημιουργήσετε μια διεύθυνση &quot;πονταρίσματος&quot; στον απομακρυσμένο κόμβο σας με &quot;bitcoinc-κλισέ getnewπαρακολουθησηδιεύθυνση&quot;, ή να πάρει μια διεύθυνση &quot;πονταρίσματος&quot; από ένα χώρο συγκέντρωσης Ψυχροπασσάλου. Τα κεφάλαια σταδιακά μεταβαίνουν από το ζεστό στοιχηματίζετε σε κρύα Ποντς ενώ το πορτοφόλι σας είναι ανοιχτό. Ο απαιτούμενος χρόνος για την ενεργοποίηση εξαρτάται από το βάρος που στοιχηματίζετε στο πορτοφόλι και μπορεί να διαρκέσει αρκετές ημέρες με χαμηλό βάρος. Μόλις η γραμμή ενεργοποίησης εμφανιστεί πλήρης, το πορτοφόλι μπορεί να κλείσει.  Εναλλακτικά, χρησιμοποιήστε την καρτέλα Ενεργοποίηση ψυχρού νερού για να στείλετε μια συναλλαγή ενεργοποίησης.  Αυτό θα διαρκέσει περισσότερο χρόνο για να ξεκινήσει στοιχηματίζετε, αλλά πορτοφόλι δεν χρειάζεται να είναι σε απευθείας σύνδεση."];
   Message false [Loc None "+20"]
     "ColdStake activation progress" true
     ["Πρόοδος ενεργοποίησης ψυχρού πασσάλου"];
   Message false [Loc None "+77"]
     "Amount activated for ColdStaking" true
     ["Ποσό ενεργοποιημένο για ψυχρά"]].

Definition el_StakingDialog_2 : list message :=
  [Message false [Loc None "+13"]
     "Estimated weight" true
     ["Εκτιμώμενο βάρος"];
   Message false [Loc None "+106"]
     "Filtered" true
     ["Φιλτραρισμένο"];
   Message false [Loc None "+15"; Loc None "+88"]
     "Staking rewards" true
     ["Στοιχηματίζετε ανταμοιβές"];
   Message false [Loc None "-75"; Loc None "+48"]
     "Solved blocks" true
     ["Επιλύθηκαν τετράγωνα"];
   Message false [Loc None "-41"; Loc None "+55"]
     "4000" true
     ["4000"];
   Message false [Loc None "-48"; Loc None "+41"]
     "100000BC" true
     ["100000BC"];
   Message false [Loc None "-22"]
     "Total" true
     ["Σύνολο"];
   Message false [Loc (Some "../stakingdialog.cpp") "+258"; Loc None "+17"]
     "No stakable funds available. Use the &quot;Convert to staking&quot; tab to convert funds for staking." true
     ["Δεν υπάρχουν διαθέσιμα κεφάλαια. Χρησιμοποιήστε την καρτέλα &quot;μετατροπή σε Ποντς&quot; για να μετατρέψετε κεφάλαια για ποντς."];
   Message false [Loc None "-15"; Loc None "+18"]
     "No eligible staking outputs available. Staking funds need to have 225 confirmations to be eligible." true
     ["Δεν υπάρχουν διαθέσιμοι επιλέξιμοι έξοδοι πονταρίσματος. Τα κεφάλαια που στοιχηματίζετε πρέπει να έχουν 225 επιβεβαιώσεις για να είναι επιλέξιμα."];
   Message false [Loc None "-9"]
     "Staking not initialized yet. Wait a moment." true
     ["Το ποντς δεν προετοιμάστηκε ακόμα. Περίμενε μια στιγμή."];
   Message false [Loc None "+3"]
     "Staking is stopped. Press the start button above to enable staking." true
     ["Το ποντς σταμάτησε. Πατήστε το κουμπί έναρξης παραπάνω για να ενεργοποιήσετε το ποντς."];
   Message false [Loc None "+10"]
     "Wallet is locked. To start staking unlock the wallet for staking only. To unlock click the lock icon in the bottom right hand portion of the window." true
     ["Το πορτοφόλι είναι κλειδωμένο. Για να αρχίσετε να ποντάρετε Ξεκλειδώστε το πορτοφόλι μόνο για να ποντάρετε. Για να ξεκλειδώσετε κάντε κλικ στο εικονίδιο κλειδώματος στο κάτω δεξιό τμήμα του παραθύρου."];
   Message false [Loc None "+4"]
     "Wallet is not fully synced. To start staking make sure the wallet has connections to the network and wait until it catched up with the latest blocks." true
     ["Το πορτοφόλι δεν είναι πλήρως συγχρονισμένο. Για να αρχίσετε να ποντάρετε βεβαιωθείτε ότι το πορτοφόλι έχει συνδέσεις με το δίκτυο και περιμένετε μέχρι να ολοκληρωθεί με τα τελευταία τετράγωνα."];
   Message false [Loc None "+3"]
     "Staking is disabled. Set the config paramter &quot;staking=1&quot; in the bitcoinc.conf to enable it." true
     ["Το ποντς είναι απενεργοποιημένο. Ρυθμίστε τον ορισμό παραμέτρων &quot;ποντίζετε = 1&quot; στο bitcoinc. για να το ενεργοποιήσετε."];
   Message false [Loc None "+72"]
     "No eligible coldstaking outputs available. Your coldstaking funds need to have 225 confirmations to be eligible." true
     ["Δεν υπάρχουν διαθέσιμες κατάλληλες εξόδους ψυχρού νερού. Τα κεφάλαια σας πρέπει να έχουν 225 επιβεβαιώσεις για να είναι επιλέξιμα."];
   Message false [Loc None "+160"]
     "Set Remote Staking Address" true
     ["Ορισμός διεύθυνσης απομακρυσμένου πονταρίσματος"];
   Message false [Loc None "+1"]
     "Enter the remote staking address:" true
     ["Εισαγάγετε την απομακρυσμένη διεύθυνση πονταρίσματος:"]].

Definition el_TrafficGraphWidget : list message :=
  [Message false [Loc (Some "../trafficgraphwidget.cpp") "+81"]
     "KB/s" true
     ["KB/s"]].

Definition el_TransactionDesc_1 : list message :=
  [Message true [Loc (Some "../transactiondesc.cpp") "+39"]
     "Open for %n more block(s)" true
     ["Άνοιγμα για% n περισσότερα μπλοκ (α)"; "Άνοιγμα για% n περισσότερα μπλοκ (α)"];
   Message false [Loc None "+2"]
     "Open until %1" true
     ["Άνοιγμα μέχρι% 1"];
   Message false [Loc None "+6"]
     "conflicted with a transaction with %1 confirmations" true
     ["διένεξη με μια συναλλαγή με% 1 επιβεβαιώσεις"];
   Message false [Loc None "+2"]
     "0/unconfirmed, %1" true
     ["0/μη επιβεβαιωμένο,% 1"];
   Message false [Loc None "+0"]
     "in memory pool" true
     ["στο χώρο συγκέντρωσης μνήμης"];
   Message false [Loc None "+0"]
     "not in memory pool" true
     ["Δεν είναι στην πισίνα μνήμης"];
   Message false [Loc None "+0"]
     "abandoned" true
     ["Εγκαταλειφθεί"];
   Message false [Loc None "+2"]
     "%1/unconfirmed" true
     ["% 1/μη επιβεβαιωμένο"];
   Message false [Loc None "+2"]
     "%1 confirmations" true
     ["% 1 επιβεβαιώσεις"];
   Message false [Loc None "+29"]
     "Status" true
     ["Κατάσταση"];
   Message false [Loc None "+3"]
     "Date" true
     ["Ημερομηνία"];
   Message false [Loc None "+4"; Loc None "+223"]
     "Transaction ID" true
     ["Κωδ συναλλαγής"];
   Message false [Loc None "-210"; Loc None "+211"]
     "Transaction total size" true
     ["Συνολικό μέγεθος συναλλαγής"];
   Message false [Loc None "-209"]
     "Confirmations" true
     ["Επιβεβαιώσεις"];
   Message false [Loc None "+4"]
     "Block hash" true
     ["Αποκλεισμός κατακερματισμού"];
   Message false [Loc None "+1"]
     "Block index" true
     ["Ευρετήριο μπλοκ"];
   Message false [Loc None "+1"]
     "Block time" true
     ["Χρόνος αποκλεισμού"];
   Message false [Loc None "+21"]
     "Source" true
     ["Πηγή"];
   Message false [Loc None "+0"]
     "Generated" true
     ["Δημιουργείται"];
   Message false [Loc None "+5"; Loc None "+14"; Loc None "+72"]
     "From" true
     ["Από"];
   Message false [Loc None "-72"]
     "unknown" true
     ["Άγνωστο"];
   Message false [Loc None "+1"; Loc None "+20"; Loc None "+72"]
     "To" true
     ["Να"];
   Message false [Loc None "-90"]
     "own address" true
     ["διεύθυνση"];
   Message false [Loc None "+0"; Loc None "+69"]
     "watch-only" true
     ["μόνο για παρακολούθηση"];
   Message false [Loc None "-67"]
     "label" true
     ["Ετικέτα"];
   Message false [Loc None "+36"; Loc None "+12"; Loc None "+58"; Loc None "+37"; Loc None "+66"]
     "Credit" true
     ["Πιστωτική"];
   Message true [Loc None "-171"]
     "matures in %n more block(s)" true
     ["ωριμάζει σε% n περισσότερα μπλοκ (α)"; "ωριμάζει σε% n περισσότερα μπλοκ (α)"]].

Definition el_TransactionDesc_2 : list message :=
  [Message false [Loc None "+2"]
     "not accepted" true
     ["Δεν έγινε δεκτή"];
   Message false [Loc None "+64"; Loc None "+26"; Loc None "+71"]
     "Debit" true
     ["Χρεωστική"];
   Message false [Loc None "-87"]
     "Total debit" true
     ["Συνολική χρέωση"];
   Message false [Loc None "+1"]
     "Total credit" true
     ["Συνολική πίστωση"];
   Message false [Loc None "+5"]
     "Transaction fee" true
     ["Τέλος συναλλαγής"];
   Message false [Loc None "+27"]
     "Net amount" true
     ["Καθαρό ποσό"];
   Message false [Loc None "+6"; Loc None "+12"]
     "Message" true
     ["Μήνυμα"];
   Message false [Loc None "-10"]
     "Comment" true
     ["Σχόλιο"];
   Message false [Loc None "+4"]
     "Transaction virtual size" true
     ["Εικονικό μέγεθος συναλλαγής"];
   Message false [Loc None "+1"]
     "Output index" true
     ["Δείκτης εξόδου"];
   Message false [Loc None "+10"]
     "Narration" true
     ["Αφήγηση"];
   Message false [Loc None "+13"]
     "Merchant" true
     ["Έμπορος"];
   Message false [Loc None "+7"]
     "Generated coins must mature %1 blocks before they can be spent. When you generated this block, it was broadcast to the network to be added to the block chain. If it fails to get into the chain, its state will change to &quot;not accepted&quot; and it won&apos;t be spendable. This may occasionally happen if another node generates a block within a few seconds of yours." true
     ["Τα παραγόμενα κέρματα πρέπει να ωριμάζουν% 1 τετράγωνα πριν μπορούν να δαπανηθούν. Όταν δημιουργήσατε αυτό το μπλοκ, μεταδόθηκε στο δίκτυο για να προστεθεί στην αλυσίδα μπλοκ. Αν αποτύχει να μπει στην αλυσίδα, η κατάστασή της θα αλλάξει σε &quot;μη αποδεκτή&quot; και δεν θα είναι διαθέσιμο. Αυτό μπορεί να συμβεί περιστασιακά αν ένας άλλος κόμβος δημιουργήσει ένα μπλοκ μέσα σε λίγα δευτερόλεπτα από το δικό σας."];
   Message false [Loc None "+8"]
     "Debug information" true
     ["Πληροφορίες εντοπισμού σφαλμάτων"];
   Message false [Loc None "+13"]
     "Transaction" true
     ["Συναλλαγή"];
   Message false [Loc None "+3"]
     "Inputs" true
     ["Εισροές"];
   Message false [Loc None "+21"]
     "Amount" true
     ["Ποσό"];
   Message false [Loc None "+1"; Loc None "+1"]
     "true" true
     ["Αληθινή"];
   Message false [Loc None "-1"; Loc None "+1"]
     "false" true
     ["Ψευδείς"]].

Definition el_TransactionDescDialog : list message :=
  [Message false [Loc (Some "../forms/transactiondescdialog.ui") "+26"]
     "This pane shows a detailed description of the transaction" true
     ["Αυτό το παράθυρο δείχνει μια αναλυτική περιγραφή της συναλλαγής"];
   Message false [Loc (Some "../transactiondescdialog.cpp") "+17"]
     "Details for %1" true
     ["Λεπτομέρειες για το% 1"]].

Definition el_TransactionTableModel_1 : list message :=
  [Message false [Loc (Some "../transactiontablemodel.cpp") "+257"]
     "Date" true
     ["Ημερομηνία"];
   Message false [Loc None "+2"]
     "Type" true
     ["Πληκτρολογήστε"];
   Message false [Loc None "+2"]
     "Label" true
     ["Ετικέτα"];
   Message false [Loc None "+3"]
     "In" true
     ["In"];
   Message false [Loc None "+0"]
     "Out" true
     ["Έξω"];
   Message true [Loc None "+73"]
     "Open for %n more block(s)" true
     ["Άνοιγμα για% n περισσότερα μπλοκ (α)"; "Άνοιγμα για% n περισσότερα μπλοκ (α)"];
   Message false [Loc None "+3"]
     "Open until %1" true
     ["Άνοιγμα μέχρι% 1"];
   Message false [Loc None "+3"]
     "Unconfirmed" true
     ["Ανεπιβεβαίωτες"];
   Message false [Loc None "+4"]
     "Orphaned" true
     ["Ορφανά"];
   Message false [Loc None "+2"]
     "Abandoned" true
     ["Εγκαταλειφθεί"];
   Message false [Loc None "+22"]
     "Confirming (%1 of %2 recommended confirmations)" true
     ["Επιβεβαίωση (% 1 από% 2 συνιστώμενες επιβεβαιώσεις)"];
   Message false [Loc None "+3"]
     "Confirmed (%1 confirmations)" true
     ["Επιβεβαιώθηκε (% 1 επιβεβαιώσεις)"];
   Message false [Loc None "+3"]
     "Conflicted" true
     ["Μπερδεμένος"];
   Message false [Loc None "+3"]
     "Immature (%1 confirmations, will be available after %2)" true
     ["Ανώριμη (% 1 επιβεβαιώσεις, θα είναι διαθέσιμες μετά από% 2)"];
   Message false [Loc None "+3"]
     "Generated but not accepted" true
     ["Δημιουργήθηκε αλλά δεν έγινε αποδεκτό"];
   Message false [Loc None "+39"]
     "Received with" true
     ["Παραλήφθηκε με"];
   Message false [Loc None "+2"]
     "Received from" true
     ["Παραλήφθηκε από"];
   Message false [Loc None "+3"]
     "Sent to" true
     ["Στάλθηκε σε"];
   Message false [Loc None "+2"]
     "Payment to yourself" true
     ["Πληρωμή στον εαυτό σας"];
   Message false [Loc None "+2"]
     "Airdrop" true
     ["AirDrop"];
   Message false [Loc None "+2"]
     "Staked" true
     ["Στοιχήματος"];
   Message false [Loc None "+30"]
     "watch-only" true
     ["μόνο για παρακολούθηση"];
   Message false [Loc None "+16"]
     "(n/a)" true
     ["(ιδ/α)"];
   Message false [Loc None "+168"]
     "Unlock to show" true
     ["Ξεκλείδωμα για εμφάνιση"];
   Message false [Loc None "+111"]
     "(no label)" true
     ["(χωρίς ετικέτα)"];
   Message false [Loc None "+42"; Loc None "+14"]
     "Transaction status. Hover over this field to show number of confirmations." true
     ["Κατάσταση συναλλαγής. Τοποθετήστε το δείκτη του ποντικιού σε αυτό το πεδίο για να εμφανίσετε τον αριθμό επιβεβαιώσεων."];
   Message false [Loc None "-12"]
     "Date and time that the reward was received." true
     ["Ημερομηνία και ώρα παραλαβής της ανταμοιβής."];
   Message false [Loc None "+2"; Loc None "+16"]
     "Whether or not a watch-only address is involved in this transaction." true
     ["Αν εμπλέκεται μια διεύθυνση μόνο για παρακολούθηση σε αυτήν τη συναλλαγή."];
   Message false [Loc None "-14"]
     "Address used for the block solving" true
     ["Διεύθυνση που χρησιμοποιείται για την επίλυση μπλοκ"]].

Definition el_TransactionTableModel_2 : list message :=
  [Message false [Loc None "+2"]
     "Staking reward." true
     ["Να στοιχηματίζετε ανταμοιβή."];
   Message false [Loc None "+8"]
     "Date and time that the transaction was received." true
     ["Ημερομηνία και ώρα παραλαβής της συναλλαγής."];
   Message false [Loc None "+2"]
     "Type of transaction." true
     ["Τύπος συναλλαγής."];
   Message false [Loc None "+4"]
     "User-defined intent/purpose of the transaction." true
     ["Στόχος που ορίζεται από το χρήστη/σκοπός της συναλλαγής."];
   Message false [Loc None "+2"]
     "Type of input coin." true
     ["Τύπος νομίσματος εισόδου."];
   Message false [Loc None "+2"]
     "Type of output coin." true
     ["Τύπος νομίσματος εξόδου."];
   Message false [Loc None "+2"]
     "Amount removed from or added to balance." true
     ["Ποσό που αφαιρείται από ή προστίθεται στο υπόλοιπό."]].

Definition el_TransactionView_1 : list message :=
  [Message false [Loc (Some "../transactionview.cpp") "+53"; Loc None "+11"; Loc None "+18"]
     "All" true
     ["Όλα"];
   Message false [Loc None "-17"]
     "Today" true
     ["Σήμερα"];
   Message false [Loc None "+1"]
     "This week" true
     ["Αυτή την εβδομάδα"];
   Message false [Loc None "+1"]
     "This month" true
     ["Αυτό το μήνα"];
   Message false [Loc None "+1"]
     "Last month" true
     ["Τον προηγούμενο μήνα"];
   Message false [Loc None "+1"]
     "This year" true
     ["Φέτος"];
   Message false [Loc None "+1"]
     "Range..." true
     ["Εύρος..."];
   Message false [Loc None "+13"]
     "Received with" true
     ["Παραλήφθηκε με"];
   Message false [Loc None "+2"]
     "Sent to" true
     ["Στάλθηκε σε"];
   Message false [Loc None "+2"]
     "To yourself" true
     ["Για τον εαυτό σας"];
   Message false [Loc None "+1"]
     "Other" true
     ["Άλλα"];
   Message false [Loc None "+1"]
     "Airdrop" true
     ["AirDrop"];
   Message false [Loc None "+5"]
     "Enter address, transaction id, or label to search" true
     ["Εισαγωγή διεύθυνσης, αναγνωριστικού συναλλαγής ή ετικέτας για αναζήτηση"];
   Message false [Loc None "+5"]
     "Min amount" true
     ["Ελάχιστο ποσό"];
   Message false [Loc None "+52"]
     "Abandon transaction" true
     ["Εγκατάλειψη συναλλαγής"];
   Message false [Loc None "+1"]
     "Increase transaction fee" true
     ["Αύξηση αμοιβής συναλλαγής"];
   Message false [Loc None "+2"]
     "Copy address" true
     ["Αντιγραφή διεύθυνσης"];
   Message false [Loc None "+1"]
     "Copy label" true
     ["Αντιγραφή ετικέτας"];
   Message false [Loc None "+1"]
     "Copy amount" true
     ["Ποσό αντιγραφής"];
   Message false [Loc None "+1"]
     "Copy transaction ID" true
     ["Αντιγραφή αναγνωριστικού συναλλαγής"];
   Message false [Loc None "+1"]
     "Copy raw transaction" true
     ["Αντιγραφή πρώτης συναλλαγής"];
   Message false [Loc None "+1"]
     "Copy full transaction details" true
     ["Αντιγραφή πλήρων λεπτομερειών συναλλαγής"];
   Message false [Loc None "+1"]
     "Edit label" true
     ["Επεξεργασία ετικέτας"];
   Message false [Loc None "+1"]
     "Show transaction details" true
     ["Εμφάνιση λεπτομερειών συναλλαγής"];
   Message false [Loc None "+239"]
     "Export Transaction History" true
     ["Ιστορικό εξαγωγικών συναλλαγών"];
   Message false [Loc None "+1"]
     "Comma separated file (*.csv)" true
     ["Αρχείο διαχωρισμένου με κόμμα (*. csv)"];
   Message false [Loc None "+9"]
     "Confirmed" true
     ["Επιβεβαίωσε"];
   Message false [Loc None "+2"]
     "Watch-only" true
     ["Μόνο για παρακολούθηση"];
   Message false [Loc None "+1"]
     "Date" true
     ["Ημερομηνία"]].

Definition el_TransactionView_2 : list message :=
  [Message false [Loc None "+2"]
     "Type" true
     ["Πληκτρολογήστε"];
   Message false [Loc None "+2"]
     "Label" true
     ["Ετικέτα"];
   Message false [Loc None "+1"]
     "Address" true
     ["Διεύθυνση"];
   Message false [Loc None "+2"]
     "ID" true
     ["Αναγνωριστικό"];
   Message false [Loc None "+3"]
     "Exporting Failed" true
     ["Η εξαγωγή απέτυχε"];
   Message false [Loc None "+0"]
     "There was an error trying to save the transaction history to %1." true
     ["Παρουσιάστηκε σφάλμα κατά την προσπάθεια αποθήκευσης του ιστορικού συναλλαγών στο% 1."];
   Message false [Loc None "+4"]
     "Exporting Successful" true
     ["Η εξαγωγή ολοκληρώθηκε με επιτυχία"];
   Message false [Loc None "+0"]
     "The transaction history was successfully saved to %1." true
     ["Το ιστορικό συναλλαγών αποθηκεύτηκε με επιτυχία στο% 1."];
   Message false [Loc None "+169"]
     "Range:" true
     ["Εύρος:"];
   Message false [Loc None "+8"]
     "to" true
     ["Να"]].

Definition el_TxViewDelegate : list message :=
  [Message false [Loc (Some "../overviewpage.cpp") "+95"]
     "Unlock to show" true
     ["Ξεκλείδωμα για εμφάνιση"]].

Definition el_UnitDisplayStatusBarControl : list message :=
  [Message false [Loc (Some "../bitcoingui.cpp") "+122"]
     "Unit to show amounts in. Click to select another unit." true
     ["Μονάδα για να εμφανίσετε ποσά σε. Κάντε κλικ για να επιλέξετε μια άλλη μονάδα."]].

Definition el_WalletFrame : list message :=
  [Message false [Loc (Some "../walletframe.cpp") "+29"]
     "No wallet has been loaded." true
     ["Δεν έχει φορτωθεί πορτοφόλι."]].

Definition el_WalletModel : list message :=
  [Message false [Loc (Some "../walletmodel.cpp") "+592"; Loc None "+4"; Loc None "+11"]
     "Wallet Model" true
     ["Μοντέλο πορτοφολιού"];
   Message false [Loc None "+65"; Loc None "+39"; Loc None "+6"]
     "Fee bump error" true
     ["Λάθος χτύπημα τέλους"];
   Message false [Loc None "-45"]
     "Increasing transaction fee failed" true
     ["Η αύξηση του τέλους συναλλαγής απέτυχε"];
   Message false [Loc None "+6"]
     "Do you want to increase the fee?" true
     ["Θέλετε να αυξήσετε την αμοιβή;"];
   Message false [Loc None "+4"]
     "Current fee:" true
     ["Τρέχον τέλος:"];
   Message false [Loc None "+4"]
     "Increase:" true
     ["Αύξηση:"];
   Message false [Loc None "+4"]
     "New fee:" true
     ["Νέα αμοιβή:"];
   Message false [Loc None "+4"]
     "Confirm fee bump" true
     ["Επιβεβαίωση χτύπημα τέλους"];
   Message false [Loc None "+17"]
     "Can&apos;t sign transaction." true
     ["Δεν μπορώ να υπογράψω συναλλαγή."];
   Message false [Loc None "+6"]
     "Could not commit transaction" true
     ["Δεν ήταν δυνατή η ολοκλήρωση της συναλλαγής"]].

Definition el_WalletView : list message :=
  [Message false [Loc (Some "../walletview.cpp") "+46"; Loc None "+1"]
     "&amp;Export" true
     ["Και εξαγωγή"];
   Message false [Loc None "+9"; Loc None "+29"]
     "Export the data in the current tab to a file" true
     ["Εξαγωγή των δεδομένων στην τρέχουσα καρτέλα σε ένα αρχείο"];
   Message false [Loc None "-19"]
     "Selected amount" true
     ["Επιλεγμένο ποσό"];
   Message false [Loc None "+290"]
     "Backup Wallet" true
     ["Αντίγραφο ασφαλείας πορτοφολιού"];
   Message false [Loc None "+1"]
     "Wallet Data (*.dat)" true
     ["Δεδομένα πορτοφολιού (*. dat)"];
   Message false [Loc None "+6"]
     "Backup Failed" true
     ["Η δημιουργία αντιγράφου ασφαλείας απέτυχε"];
   Message false [Loc None "+0"]
     "There was an error trying to save the wallet data to %1." true
     ["Παρουσιάστηκε σφάλμα κατά την προσπάθεια αποθήκευσης των δεδομένων του πορτοφολιού στο% 1."];
   Message false [Loc None "+4"]
     "Backup Successful" true
     ["Επιτυχής δημιουργία αντιγράφου ασφαλείας"];
   Message false [Loc None "+0"]
     "The wallet data was successfully saved to %1." true
     ["Τα δεδομένα του πορτοφολιού αποθηκεύτηκαν με επιτυχία στο% 1."];
   Message false [Loc None "+63"]
     "Cancel" true
     ["Ακυρώσετε"]].

Definition el_bitcoin_core_1 : list message :=
  [Message false [Loc (Some "../bitcoinstrings.cpp") "+12"]
     "Bitcoin Confidential Core" true
     ["Bitcoin εμπιστευτικό πυρήνα"];
   Message false [Loc None "+1"]
     "The %s developers" true
     ["Οι προγραμματιστές% s"];
   Message false [Loc None "+1"]
     " is spendable from this wallet." true
     ["είναι διαθέσιμο από αυτό το πορτοφόλι."];
   Message false [Loc None "+1"]
     "-maxtxfee is set very high! Fees this large could be paid on a single transaction." true
     ["-maxtxfee τέλος έχει οριστεί πολύ υψηλή! Τα τέλη αυτού του μεγάλου μεγέθους θα μπορούσαν να πληρωθούν σε μια μεμονωμένη συναλλαγή."];
   Message false [Loc None "+3"]
     "Can&apos;t generate a change-address key. Private keys are disabled for this wallet." true
     ["Δεν είναι δυνατή η δημιουργία κλειδιού αλλαγής διεύθυνσης. Τα ιδιωτικά κλειδιά είναι απενεργοποιημένα για αυτό το πορτοφόλι."];
   Message false [Loc None "+3"]
     "Cannot obtain a lock on data directory %s. %s is probably already running." true
     ["Δεν είναι δυνατή η λήψη κλειδώματος στον κατάλογο δεδομένων% s.% s πιθανόν να εκτελείται ήδη."];
   Message false [Loc None "+2"]
     "Cannot provide specific connections and have addrman find outgoing connections at the same." true
     ["Δεν είναι δυνατή η παροχή συγκεκριμένων συνδέσεων και έχουν addrman βρείτε εξερχόμενες συνδέσεις στο ίδιο."];
   Message false [Loc None "+3"]
     "Cannot upgrade a non HD split wallet without upgrading to support pre split keypool. Please use -upgradewallet=169900 or -upgradewallet with no version specified." true
     ["Δεν είναι δυνατή η αναβάθμιση πορτοφολιού μη HD χωρίς αναβάθμιση για υποστήριξη πριν από τη διαίρεση keypool. Παρακαλείστε να χρησιμοποιήσετε την έκδοση eWallet = 169900 ή-αναβαθμίασ χωρίς να έχει καθοριστεί καμία εκδοχή."];
   Message false [Loc None "+4"]
     "Distributed under the MIT software license, see the accompanying file %s or %s" true
     ["Διανέμεται κάτω από την άδεια χρήσης λογισμικού MIT, ανατρέξτε στο συνοδευτικό αρχείο% s ή% s"];
   Message false [Loc None "+3"]
     "Error loading %s: You can&apos;t enable HD on an already existing non-HD wallet" true
     ["Σφάλμα κατά τη φόρτωση του% s: δεν μπορείτε να ενεργοποιήσετε το HD σε ένα ήδη υπάρχον πορτοφόλι που δεν είναι HD"];
   Message false [Loc None "+2"]
     "Error reading %s! All keys read correctly, but transaction data or address book entries might be missing or incorrect." true
     ["Σφάλμα κατά την ανάγνωση του% s! Όλα τα πλήκτρα διαβάζονται σωστά, αλλά τα δεδομένα συναλλαγών ή οι καταχωρήσεις του βιβλίου διευθύνσεων ενδέχεται να λείπουν ή να είναι εσφαλμένα."];
   Message false [Loc None "+3"]
     "Error: Listening for incoming connections failed (listen returned error %s)" true
     ["Σφάλμα: η ακρόαση για εισερχόμενες συνδέσεις απέτυχε (η ακρόαση επέστρεψε σφάλμα% s)"];
   Message false [Loc None "+2"]
     "Fee estimation failed. Fallbackfee is disabled. Wait a few blocks or enable -fallbackfee." true
     ["Η εκτίμηση της αμοιβής απέτυχε. Η αντίστροφη χρέωση είναι απενεργοποιημένη. Περιμένετε μερικά τετράγωνα ή να ενεργοποιήσετε-την αντίστροφη χρέωση."];
   Message false [Loc None "+3"]
     "Generate a random master key and main account if no master key exists. (default: %s)" true
     ["Δημιουργήστε ένα τυχαίο πρωτεύον κλειδί και κύριο λογαριασμό, εάν δεν υπάρχει πρωτεύον κλειδί. (προεπιλογή:% s)"];
   Message false [Loc None "+3"]
     "Group outputs by address, selecting all or none, instead of selecting on a per-output basis. Privacy is improved as an address is only used once (unless someone sends to it after spending from it), but may result in slightly higher fees as suboptimal coin selection may result due to the added limitation (default: %u)" true
     ["Ομαδοποίηση εκροών ανά διεύθυνση, επιλογή όλων ή κανενός, αντί να επιλέξετε σε βάση ανά έξοδο. Η προστασία προσωπικών δεδομένων βελτιώνεται καθώς μια διεύθυνση χρησιμοποιείται μόνο μία φορά (εκτός αν κάποιος την αποστείλει μετά από αυτήν), αλλά μπορεί να οδηγήσει σε ελαφρώς υψηλότερες αμοιβές, καθώς η επιλογή κερμάτων με μη βέλτιστα αποτελέσματα μπορεί να προκληθεί λόγω του περιορισμού που προστέθηκε (προεπιλογή:% u)"];
   Message false [Loc None "+6"]
     "Invalid amount for -maxtxfee=&lt;amount&gt;: &apos;%s&apos; (must be at least the minrelay fee of %s to prevent stuck transactions)" true
     ["Μη έγκυρο ποσό για-maxtxfee τέλος =&lt;amount&gt;: &apos;% s &apos; (πρέπει να είναι τουλάχιστον το τέλος αναμετάδοσης του% s για την αποτροπή συνδεδεμένων συναλλαγών)&lt;/amount&gt;"];
   Message false [Loc None "+3"]
     "Milliseconds between stake attempts. Lowering this param will not result in more stakes. (default: 500)" true
     ["Χιλιοστά του δευτερολέπτου μεταξύ προσπαθειών πονταρίσματος. Η μείωση αυτού του παρώ δεν θα οδηγήσει σε περισσότερα πονταρίσματα. (προεπιλογή: 500)"];
   Message false [Loc None "+3"]
     "Not enough spending outputs available in the blockchain for privacy mixing. There are currently %d. For this transaction required: %d" true
     ["Δεν υπάρχουν αρκετές εκροές δαπανών διαθέσιμες στο blockchain για ανάμιξη της ιδιωτικής ζωής. Αυτή τη στιγμή υπάρχουν% d. Για αυτήν τη συναλλαγή που απαιτείται:% d"];
   Message false [Loc None "+3"]
     "Number of threads to start for staking, max 1 per active wallet, will divide wallets evenly between threads (default: 1)" true
     ["Αριθμός νημάτων που θα ξεκινήσουν για Ποντς, μέγιστο 1 ανά ενεργό πορτοφόλι, θα διαιρέσουν τα πορτοφόλια ομοιόμορφα μεταξύ των νημάτων (προεπιλογή: 1)"];
   Message false [Loc None "+3"]
     "On saving a key from the lookahead pool, save all unsaved keys leading up to it too. (default: %s)" true
     ["Κατά την αποθήκευση ενός κλειδιού από την πισίνα αναζήτησης, αποθηκεύστε όλα τα μη αποθηκευμένα κλειδιά που οδηγούν σε αυτό πάρα πολύ. (προεπιλογή:% s)"];
   Message false [Loc None "+3"]
     "Please check that your computer&apos;s date and time are correct! If your clock is wrong, %s will not work properly." true
     ["Βεβαιωθείτε ότι η ημερομηνία και η ώρα του υπολογιστή σας είναι σωστές! Εάν το ρολόι σας είναι λανθασμένο, το% s δεν θα λειτουργεί σωστά."];
   Message false [Loc None "+3"]
     "Please contribute if you find %s useful. Visit %s for further information about the software." true
     ["Παρακαλώ συνεισφέρετε αν βρείτε το% s χρήσιμο. Επισκεφτείτε το% s για περισσότερες πληροφορίες σχετικά με το λογισμικό."];
   Message false [Loc None "+3"]
     "Prune configured below the minimum of %d MiB.  Please use a higher number." true
     ["Το δαμάσκηνο έχει ρυθμιστεί κάτω από το ελάχιστο των% d.  Παρακαλώ χρησιμοποιήστε έναν υψηλότερο αριθμό."];
   Message false [Loc None "+2"]
     "Prune: last wallet synchronisation goes beyond pruned data. You need to -reindex (download the whole blockchain again in case of pruned node)" true
     ["Δαμάσκηνου: ο συγχρονισμός τελευταίου πορτοφολιού υπερβαίνει τα κλαδευμένα δεδομένα. Θα πρέπει να-reindex (Κατεβάστε όλο το blockchain και πάλι σε περίπτωση κλαδωμένο κόμβο)"];
   Message false [Loc None "+3"]
     "Rescans are not possible in pruned mode. You will need to use -reindex which will download the whole blockchain again." true
     ["Τα επαναδοχεία δεν είναι δυνατά σε κατάσταση κλαστρών. Θα πρέπει να χρησιμοποιήσετε-reindex που θα κατεβάσετε όλο το blockchain και πάλι."];
   Message false [Loc None "+3"]
     "The block database contains a block which appears to be from the future. This may be due to your computer&apos;s date and time being set incorrectly. Only rebuild the block database if you are sure that your computer&apos;s date and time are correct" true
     ["Η βάση δεδομένων μπλοκ περιέχει ένα μπλοκ που φαίνεται να είναι από το μέλλον. Αυτό μπορεί να οφείλεται στην ημερομηνία και την ώρα που ο υπολογιστής σας δεν έχει οριστεί σωστά. Δημιουργήστε ξανά τη βάση δεδομένων αποκλεισμού μόνο αν είστε βέβαιοι ότι η ημερομηνία και η ώρα του υπολογιστή σας είναι σωστές"];
   Message false [Loc None "+5"]
     "The transaction amount is too small to send after the fee has been deducted" true
     ["Το ποσό της συναλλαγής είναι πολύ μικρό για να αποσταλεί μετά την αφαίρεση του τέλους"];
   Message false [Loc None "+2"]
     "This is a pre-release test build - use at your own risk - do not use for mining or merchant applications" true
     ["Αυτή είναι μια προ-έκδοση δοκιμή build-χρήση με δικό σας κίνδυνο-δεν χρησιμοποιούν για εξόρυξη ή εμπορικές εφαρμογές"];
   Message false [Loc None "+3"]
     "This is the transaction fee you may discard if change is smaller than dust at this level" true
     ["Αυτό είναι το τέλος συναλλαγής που μπορείτε να απορρίψετε εάν η αλλαγή είναι μικρότερη από τη σκόνη σε αυτό το επίπεδο"]].

Definition el_bitcoin_core_2 : list message :=
  [Message false [Loc None "+3"]
     "This is the transaction fee you may pay when fee estimates are not available." true
     ["Αυτό είναι το τέλος συναλλαγής που μπορείτε να πληρώσετε όταν δεν υπάρχουν διαθέσιμες εκτιμήσεις τελών."];
   Message false [Loc None "+2"]
     "This product includes software developed by the OpenSSL Project for use in the OpenSSL Toolkit %s and cryptographic software written by Eric Young and UPnP software written by Thomas Bernard." true
     ["Αυτό το προϊόν περιλαμβάνει λογισμικό που αναπτύχθηκε από το πρόγραμμα OpenSSL για χρήση στο κιτ εργαλείων OpenSSL% s και λογισμικό κρυπτογράφησης που γράφτηκε από τον Έρικ Γιανγκ και λογισμικό UPnP γραμμένο από τον Thomas Bernard."];
   Message false [Loc None "+4"]
     "Total length of network version string (%i) exceeds maximum length (%i). Reduce the number or size of uacomments." true
     ["Το συνολικό μήκος της συμβολοσειράς έκδοσης δικτύου (% i) υπερβαίνει το μέγιστο μήκος (% i). Μειώστε τον αριθμό ή το μέγεθος των αριθμών."];
   Message false [Loc None "+3"]
     "Unable to replay blocks. You will need to rebuild the database using -reindex-chainstate." true
     ["Δεν είναι δυνατή η αναπαραγωγή μπλοκ. Θα χρειαστεί να δημιουργήσετε ξανά τη βάση δεδομένων χρησιμοποιώντας την κατάσταση-reindex-αλυσίδα."];
   Message false [Loc None "+3"]
     "Unable to rewind the database to a pre-fork state. You will need to redownload the blockchain" true
     ["Δεν είναι δυνατή η επαναφορά της βάσης δεδομένων σε κατάσταση πριν από τη διακλάδωση. Θα πρέπει να κατεβάσετε ξανά το blockchain"];
   Message false [Loc None "+3"]
     "Unsupported argument -socks found. Setting SOCKS version isn&apos;t possible anymore, only SOCKS5 proxies are supported." true
     ["Δεν υποστηρίζεται το επιχείρημα-κάλτσες βρέθηκαν. Ρύθμιση ΚΆΛΤΣΕς έκδοση δεν είναι δυνατόν πλέον, υποστηρίζονται μόνο SOCKS5 διακομιστές μεσολάβησης."];
   Message false [Loc None "+3"]
     "Unsupported argument -whitelistalwaysrelay ignored, use -whitelistrelay and/or -whitelistforcerelay." true
     ["Το όρισμα που δεν υποστηρίζεται-λίστα αποκλεισμένων λιστών αγνοήθηκε, χρήση-λίστα αποκλεισμένων λειτουργιών"];
   Message false [Loc None "+3"]
     "Warning: Private keys detected in wallet {%s} with disabled private keys" true
     ["Προειδοποίηση: εντοπίστηκαν ιδιωτικά κλειδιά στο πορτοφόλι {% s} με απενεργοποιημένα ιδιωτικά κλειδιά"];
   Message false [Loc None "+2"]
     "Warning: The network does not appear to fully agree! Some miners appear to be experiencing issues." true
     ["Προειδοποίηση: το δίκτυο δεν φαίνεται να συμφωνεί πλήρως! Μερικοί ανθρακωρύχοι φαίνεται να αντιμετωπίζουν προβλήματα."];
   Message false [Loc None "+3"]
     "Warning: Unknown block versions being mined! It&apos;s possible unknown rules are in effect" true
     ["Προειδοποίηση: άγνωστες εκδόσεις μπλοκ που εξορύσσονται! Είναι πιθανό άγνωστοι κανόνες να ισχύουν"];
   Message false [Loc None "+3"]
     "Warning: Wallet file corrupt, data salvaged! Original %s saved as %s in %s; if your balance or transactions are incorrect you should restore from a backup." true
     ["Προειδοποίηση: το αρχείο πορτοφολιού κατεστραμμένο, τα δεδομένα διασώθηκαν! Το αρχικό% s αποθηκεύτηκε ως% s στο% s; Εάν το υπόλοιπό σας ή οι συναλλαγές σας είναι εσφαλμένες, θα πρέπει να επαναφέρετε από ένα αντίγραφο ασφαλείας."];
   Message false [Loc None "+4"]
     "Warning: We do not appear to fully agree with our peers! You may need to upgrade, or other nodes may need to upgrade." true
     ["Προειδοποίηση: δεν φαίνεται να συμφωνούμε πλήρως με τους ομολόγους μας! Ίσως χρειαστεί να κάνετε αναβάθμιση ή μπορεί να χρειαστεί να αναβαθμίσετε άλλους κόμβους."];
   Message false [Loc None "+3"]
     "You need to rebuild the database using -reindex to change -timestampindex" true
     ["Πρέπει να δημιουργήσετε ξανά τη βάση δεδομένων χρησιμοποιώντας-επαναευρετήριο για να αλλάξετε"];
   Message false [Loc None "+2"]
     "You need to rebuild the database using -reindex to go back to unpruned mode.  This will redownload the entire blockchain" true
     ["Θα πρέπει να δημιουργήσετε ξανά τη βάση δεδομένων χρησιμοποιώντας-reindex για να επιστρέψετε σε κατάσταση ακλακτώνονται.  Αυτό θα κατεβάσετε ξανά ολόκληρο το blockchain"];
   Message false [Loc None "+3"]
     "%d of last 100 blocks have unexpected version" true
     ["% d από τα τελευταία 100 μπλοκ έχουν μη αναμενόμενη έκδοση"];
   Message false [Loc None "+1"]
     "%s corrupt, salvage failed" true
     ["% s κατεστραμμένο, η διάσωση απέτυχε"];
   Message false [Loc None "+1"]
     "%s is set very high!" true
     ["το% s έχει οριστεί πολύ ψηλά!"];
   Message false [Loc None "+1"]
     "-maxmempool must be at least %d MB" true
     ["-το maxmempool πρέπει να είναι τουλάχιστον% d MB"];
   Message false [Loc None "+1"]
     "Account chain not found" true
     ["Η αλυσίδα λογαριασμού δεν βρέθηκε"];
   Message false [Loc None "+1"]
     "Address &apos;%s&apos; is not in the address book." true
     ["Η διεύθυνση &apos;% s &apos; δεν βρίσκεται στο βιβλίο διευθύνσεων."];
   Message false [Loc None "+1"]
     "Address &apos;%s&apos; is recorded in the address book." true
     ["Η διεύθυνση &apos;% s &apos; καταγράφεται στο βιβλίο διευθύνσεων."];
   Message false [Loc None "+1"]
     "Anon output not found in db, %d" true
     ["Η έξοδος δεν βρέθηκε σε dB,% d"];
   Message false [Loc None "+1"]
     "Anon pubkey not found in db, %s" true
     ["Δεν βρέθηκε το κλειδί στο DB,% s"];
   Message false [Loc None "+1"]
     "Cannot downgrade wallet" true
     ["Δεν είναι δυνατή η υποβάθμιση πορτοφολιού"];
   Message false [Loc None "+1"]
     "Cannot resolve -%s address: &apos;%s&apos;" true
     ["Δεν είναι δυνατή η επίλυση-% s διεύθυνση: &apos;% s &apos;"];
   Message false [Loc None "+1"]
     "Cannot write to data directory &apos;%s&apos;; check permissions." true
     ["Δεν είναι δυνατή η εγγραφή στον κατάλογο δεδομένων &apos;% s &apos;. δικαιώματα ελέγχου."];
   Message false [Loc None "+1"]
     "Change index out of range" true
     ["Αλλαγή ευρετηρίου εκτός εμβέλειας"];
   Message false [Loc None "+1"]
     "Confidential chain set but not found" true
     ["Εμπιστευτική αλυσίδα που δεν βρέθηκε"];
   Message false [Loc None "+1"]
     "Copyright (C)" true
     ["Πνευματικά δικαιώματα (C)"];
   Message false [Loc None "+1"]
     "Corrupted block database detected" true
     ["Εντοπίστηκε βάση δεδομένων κατεστραμμένου μπλοκ"]].

Definition el_bitcoin_core_3 : list message :=
  [Message false [Loc None "+1"]
     "Could not convert prefix to number." true
     ["Δεν ήταν δυνατή η μετατροπή προθέματος σε αριθμό."];
   Message false [Loc None "+1"]
     "Could not decode scan secret as wif, hex or base58." true
     ["Δεν ήταν δυνατή η αποκωδικοποίηση του μυστικού σάρωσης ως WIF, δεκαεξαδικού ή base58."];
   Message false [Loc None "+1"]
     "Could not decode spend secret as hex or base58." true
     ["Δεν ήταν δυνατή η αποκωδικοποίηση να ξοδέψετε μυστικά ως δεκαεξαδικά ή base58."];
   Message false [Loc None "+1"]
     "Could not get confidential chain from account." true
     ["Δεν μπορούσε να πάρει εμπιστευτική αλυσίδα από το λογαριασμό."];
   Message false [Loc None "+1"]
     "Could not get scan public key." true
     ["Δεν ήταν δυνατή η λήψη του δημόσιου κλειδιού σάρωσης."];
   Message false [Loc None "+1"]
     "Could not get spend public key." true
     ["Δεν μπορεί να περάσει το δημόσιο κλειδί."];
   Message false [Loc None "+1"]
     "Default account not found" true
     ["Ο προεπιλεγμένος λογαριασμός δεν βρέθηκε"];
   Message false [Loc None "+1"]
     "DeriveNextKey failed" true
     ["Απέτυχε το κλειδί"];
   Message false [Loc None "+1"]
     "Do you want to rebuild the block database now?" true
     ["Θέλετε να δημιουργήσετε ξανά τη βάση δεδομένων μπλοκ τώρα;"];
   Message false [Loc None "+1"]
     "Done loading" true
     ["Έγινε φόρτωση"];
   Message false [Loc None "+1"]
     "Duplicate index found, %d" true
     ["Εντοπίστηκε διπλότυπο ευρετήριο,% d"];
   Message false [Loc None "+1"]
     "Empty wallet required for import." true
     ["Απαιτείται κενό πορτοφόλι για εισαγωγή."];
   Message false [Loc None "+1"]
     "Ensure available balance remains above reservebalance. (default: 0)" true
     ["Βεβαιωθείτε ότι η διαθέσιμη ισορροπία παραμένει πάνω από την ισοισορροπία. (προεπιλογή: 0)"];
   Message false [Loc None "+1"]
     "EraseSetting failed." true
     ["Η ρύθμιση των Διαγραφων απέτυχε."];
   Message false [Loc None "+1"]
     "Error creating %s: You can&apos;t create non-HD wallets with this version." true
     ["Σφάλμα κατά τη δημιουργία του% s: δεν μπορείτε να δημιουργήσετε πορτοφόλια που δεν είναι HD με αυτήν την έκδοση."];
   Message false [Loc None "+1"]
     "Error initializing block database" true
     ["Σφάλμα κατά την προετοιμασία της βάσης δεδομένων μπλοκ"];
   Message false [Loc None "+1"]
     "Error initializing wallet database environment %s!" true
     ["Σφάλμα κατά την προετοιμασία του περιβάλλοντος βάσης δεδομένων πορτοφολιού% s!"];
   Message false [Loc None "+1"]
     "Error loading %s" true
     ["Σφάλμα κατά τη φόρτωση του% s"];
   Message false [Loc None "+1"]
     "Error loading %s: Private keys can only be disabled during creation" true
     ["Σφάλμα κατά τη φόρτωση του% s: τα ιδιωτικά κλειδιά μπορούν να απενεργοποιηθούν μόνο κατά τη δημιουργία"];
   Message false [Loc None "+1"]
     "Error loading %s: Wallet corrupted" true
     ["Σφάλμα κατά τη φόρτωση του% s: κατεστραμμένο πορτοφόλι"];
   Message false [Loc None "+1"]
     "Error loading %s: Wallet requires newer version of %s" true
     ["Σφάλμα κατά τη φόρτωση του% s: το πορτοφόλι απαιτεί νεότερη έκδοση του% s"];
   Message false [Loc None "+1"]
     "Error loading %s: You can&apos;t disable HD on an already existing HD wallet" true
     ["Σφάλμα κατά τη φόρτωση του% s: δεν μπορείτε να απενεργοποιήσετε το HD σε ένα ήδη υπάρχον πορτοφόλι HD"];
   Message false [Loc None "+1"]
     "Error loading block database" true
     ["Σφάλμα κατά τη φόρτωση βάσης δεδομένων μπλοκ"];
   Message false [Loc None "+1"]
     "Error loading wallet %s. Duplicate -wallet filename specified." true
     ["Σφάλμα κατά τη φόρτωση του πορτοφολιού% s. αντίγραφο του αρχείου πορτοφολιού που καθορίστηκε."];
   Message false [Loc None "+1"]
     "Error opening block database" true
     ["Σφάλμα κατά το άνοιγμα βάσης δεδομένων αποκλεισμού"];
   Message false [Loc None "+1"]
     "Error reading from database, shutting down." true
     ["Σφάλμα κατά την ανάγνωση από τη βάση δεδομένων, τερματισμός."];
   Message false [Loc None "+1"]
     "Error upgrading chainstate database" true
     ["Σφάλμα κατά την αναβάθμιση της βάσης δεδομένων αλυσίδας"];
   Message false [Loc None "+1"]
     "Error" true
     ["Σφάλμα"];
   Message false [Loc None "+1"]
     "Error: A fatal internal error occurred, see debug.log for details" true
     ["Σφάλμα: Παρουσιάστηκε ανεπανόρθωτο εσωτερικό σφάλμα, δείτε εντοπισμός σφαλμάτων. log για λεπτομέρειες"];
   Message false [Loc None "+1"]
     "Error: Disk space is low!" true
     ["Σφάλμα: ο χώρος στο δίσκο είναι χαμηλός!"]].

Definition el_bitcoin_core_4 : list message :=
  [Message false [Loc None "+1"]
     "ExtKeyGetIndex failed." true
     ["Απέτυχε το κλειδί."];
   Message false [Loc None "+1"]
     "ExtKeySaveAccountToDB failed" true
     ["ExtKeySaveAccountToDB απέτυχε"];
   Message false [Loc None "+1"]
     "Failed to listen on any port. Use -listen=0 if you want this." true
     ["Απέτυχε η ακρόαση σε οποιαδήποτε θύρα. Χρήση-Ακούστε = 0 αν θέλετε αυτό."];
   Message false [Loc None "+1"]
     "Failed to open dongle" true
     ["Απέτυχε το άνοιγμα του dongle"];
   Message false [Loc None "+1"]
     "Failed to rescan the wallet during initialization" true
     ["Απέτυχε η Επανασάρωση του πορτοφολιού κατά την προετοιμασία"];
   Message false [Loc None "+1"]
     "Hit nMaxTries limit, %d, %d" true
     ["Μείωση του ορίου nMaxTries% d,% d"];
   Message false [Loc None "+1"]
     "Import failed - AddKeyPubKey failed." true
     ["Η εισαγωγή απέτυχε-η προσθήκη Keykey απέτυχε."];
   Message false [Loc None "+1"]
     "Import failed - stealth address exists." true
     ["Η εισαγωγή απέτυχε-η διεύθυνση μυστικότητας υπάρχει."];
   Message false [Loc None "+1"]
     "Importing..." true
     ["Εισαγωγή..."];
   Message false [Loc None "+1"]
     "Incorrect or no genesis block found. Wrong datadir for network?" true
     ["Λάθος ή κανένα μπλοκ γένεσης βρέθηκε. Λάθος δεδομένων για το δίκτυο;"];
   Message false [Loc None "+1"]
     "Information" true
     ["Πληροφορίες"];
   Message false [Loc None "+1"]
     "Initialization sanity check failed. %s is shutting down." true
     ["Ο έλεγχος λογικής προετοιμασίας απέτυχε. το% s τερματίζεται."];
   Message false [Loc None "+1"]
     "Insufficient funds" true
     ["Ανεπαρκής χρηματοδότηση"];
   Message false [Loc None "+1"]
     "Insufficient funds." true
     ["Ανεπαρκής χρηματοδότηση."];
   Message false [Loc None "+1"]
     "Invalid -onion address or hostname: &apos;%s&apos;" true
     ["Μη έγκυρη-διεύθυνση ή όνομα κεντρικού υπολογιστή-κρεμμύδι: &apos;% s &apos;"];
   Message false [Loc None "+1"]
     "Invalid -proxy address or hostname: &apos;%s&apos;" true
     ["Μη έγκυρη διεύθυνση διακομιστή μεσολάβησης ή όνομα κεντρικού υπολογιστή: &apos;% s &apos;"];
   Message false [Loc None "+1"]
     "Invalid BitcoinC address." true
     ["Η διεύθυνση BitcoinC δεν είναι έγκυρη."];
   Message false [Loc None "+1"]
     "Invalid amount for -%s=&lt;amount&gt;: &apos;%s&apos;" true
     ["Μη έγκυρο ποσό για-% s =&lt;amount&gt;: &apos;% s &apos;&lt;/amount&gt;"];
   Message false [Loc None "+1"]
     "Invalid amount for -discardfee=&lt;amount&gt;: &apos;%s&apos;" true
     ["Μη έγκυρο ποσό για τη μη έγκυρη χρέωση =&lt;amount&gt;: &apos;% s &apos;&lt;/amount&gt;"];
   Message false [Loc None "+1"]
     "Invalid amount for -fallbackfee=&lt;amount&gt;: &apos;%s&apos;" true
     ["Μη έγκυρο ποσό για την τιμή-αντίστροφη χρέωση =&lt;amount&gt;: &apos;% s &apos;&lt;/amount&gt;"];
   Message false [Loc None "+1"]
     "Invalid amount for -paytxfee=&lt;amount&gt;: &apos;%s&apos; (must be at least %s)" true
     ["Μη έγκυρο ποσό για-αμοιβή πληρωμής =&lt;amount&gt;: &apos;% s &apos; (πρέπει να είναι τουλάχιστον% s)&lt;/amount&gt;"];
   Message false [Loc None "+1"]
     "Invalid amount for -reservebalance=&lt;amount&gt;" true
     ["Μη έγκυρο ποσό για-ισοσκέλεια =&lt;amount&gt;&lt;/amount&gt;"];
   Message false [Loc None "+1"]
     "Invalid coldstakingaddress." true
     ["Μη έγκυρη διεύθυνση ψυχρού νερού."];
   Message false [Loc None "+1"]
     "Invalid input key." true
     ["Το πλήκτρο εισόδου δεν είναι έγκυρο."];
   Message false [Loc None "+1"]
     "Invalid key." true
     ["Το κλειδί δεν είναι έγκυρο."];
   Message false [Loc None "+1"]
     "Invalid netmask specified in -whitelist: &apos;%s&apos;" true
     ["Η μη έγκυρη μάσκα δικτύου καθορίστηκε σε λευκή λίστα: &apos;% s &apos;"];
   Message false [Loc None "+1"]
     "Invalid rewardaddress." true
     ["Μη έγκυρη διεύθυνση αμοιβή."];
   Message false [Loc None "+1"]
     "Keypool ran out, please call keypoolrefill first" true
     ["Το keypool έτρεξε έξω, παρακαλώ καλέστε την κλειδοδεξαμενή πρώτα"];
   Message false [Loc None "+1"]
     "Loading P2P addresses..." true
     ["Φόρτωση διευθύνσεων Ρ2Ρ..."]].

Definition el_bitcoin_core_5 : list message :=
  [Message false [Loc None "+1"]
     "Loading address book for %s.
" true
     ["Φόρτωση του βιβλίου διευθύνσεων για το% s."];
   Message false [Loc None "+1"]
     "Loading banlist..." true
     ["Φόρτωση Banlist..."];
   Message false [Loc None "+1"]
     "Loading block index..." true
     ["Φόρτωση ευρετηρίου μπλοκ..."];
   Message false [Loc None "+1"]
     "Loading transaction records for %s.
" true
     ["Φόρτωση εγγραφών συναλλαγών για% s."];
   Message false [Loc None "+1"]
     "Loading wallet..." true
     ["Φόρτωση πορτοφολιού..."];
   Message false [Loc None "+1"]
     "Minimum time in seconds between successful stakes (default: 0)" true
     ["Ελάχιστος χρόνος σε δευτερόλεπτα μεταξύ επιτυχημένων πονταρίσματος (προεπιλογή: 0)"];
   Message false [Loc None "+1"]
     "Must be json object." true
     ["Πρέπει να είναι JSON αντικείμενο."];
   Message false [Loc None "+1"]
     "Must have account to save keys." true
     ["Πρέπει να έχετε λογαριασμό για να αποθηκεύσετε τα κλειδιά."];
   Message false [Loc None "+1"]
     "Must input a stealthaddress." true
     ["Πρέπει να εισάγω μια διεύθυνση."];
   Message false [Loc None "+1"]
     "Need a parameter to change." true
     ["Χρειάζομαι μια παράμετρο για να αλλάξω."];
   Message false [Loc None "+1"]
     "Need to specify a port with -whitebind: &apos;%s&apos;" true
     ["Πρέπει να καθορίσετε μια θύρα με τη σύνδεση: &apos;% s &apos;"];
   Message false [Loc None "+1"]
     "New state must be bool." true
     ["Η νέα πολιτεία πρέπει να είναι Μπούλ."];
   Message false [Loc None "+1"]
     "NewExtKeyFromAccount failed, %s." true
     ["Ο λογαριασμός νέας γραμμής απέτυχε,% s."];
   Message false [Loc None "+1"]
     "NewExtKeyFromAccount failed." true
     ["Απέτυχε ο λογαριασμός Nnenkeyof."];
   Message false [Loc None "+1"]
     "NewStealthKeyV2FromAccount failed." true
     ["NewStealthKeyV2FromAccount απέτυχε."];
   Message false [Loc None "+1"]
     "No default account set." true
     ["Δεν υπάρχει προεπιλεγμένο σύνολο λογαριασμών."];
   Message false [Loc None "+1"]
     "No key for anonoutput, %s" true
     ["Δεν υπάρχει κλειδί για την ανώνυμη έξοδο,% s"];
   Message false [Loc None "+1"]
     "Not anon output %s %d" true
     ["Χωρίς έξοδο% s% d"];
   Message false [Loc None "+1"]
     "Not enough file descriptors available." true
     ["Δεν υπάρχουν αρκετές περιγραφές αρχείων διαθέσιμες."];
   Message false [Loc None "+1"]
     "Num inputs per signature out of range" true
     ["Είσοδοι πληκτρολογίου ανά υπογραφή εκτός εμβέλειας"];
   Message false [Loc None "+1"]
     "Number of keys to load into the lookahead pool per chain. (default: %u)" true
     ["Αριθμός κλειδιών για φόρτωση στην ομάδα αναζήτησης ανά αλυσίδα. (προεπιλογή:% u)"];
   Message false [Loc None "+1"]
     "Only able to send to stealth address." true
     ["Μπορώ να στείλω μόνο σε μυστική διεύθυνση."];
   Message false [Loc None "+1"]
     "OpIsCoinstake is not active yet." true
     ["Το OpIsCoinstake δεν είναι ακόμα ενεργό."];
   Message false [Loc None "+1"]
     "Output isn&apos;t standard." true
     ["Η παραγωγή δεν είναι στάνταρ."];
   Message false [Loc None "+1"]
     "PrepareTransaction for device failed: %s" true
     ["Η συναλλαγή έτοιμου για τη συσκευή απέτυχε:% s"];
   Message false [Loc None "+1"]
     "ProduceSignature from device failed: %s" true
     ["Η παραγωγή υπογραφής από τη συσκευή απέτυχε:% s"];
   Message false [Loc None "+1"]
     "Prune cannot be configured with a negative value." true
     ["Δεν είναι δυνατή η ρύθμιση παραμέτρων με αρνητική τιμή."];
   Message false [Loc None "+1"]
     "Prune mode is incompatible with -txindex." true
     ["Η λειτουργία δαμάσκηνων δεν είναι συμβατή με-"];
   Message false [Loc None "+1"]
     "Pruning blockstore..." true
     ["Κατάστημα κλαδέματος..."]].

Definition el_bitcoin_core_6 : list message :=
  [Message false [Loc None "+1"]
     "ReadStoredTx failed for %s" true
     ["Η ανάγνωση του TX απέτυχε για% s"];
   Message false [Loc None "+1"]
     "Reducing -maxconnections from %d to %d, because of system limitations." true
     ["Μείωση-μέγιστη σύνδεση από% d σε% d, λόγω περιορισμών του συστήματος."];
   Message false [Loc None "+1"]
     "Replaying blocks..." true
     ["Αναπαίζοντας μπλοκ..."];
   Message false [Loc None "+1"]
     "Rescanning..." true
     ["Ρανακάνινγκ..."];
   Message false [Loc None "+1"]
     "Rewinding blocks..." true
     ["Μπλοκ ανατυλίγματος..."];
   Message false [Loc None "+1"]
     "Ring size out of range [%d, %d]" true
     ["Το μέγεθος του δακτυλίου είναι εκτός εμβέλειας [% d,% d]"];
   Message false [Loc None "+1"]
     "Ring size out of range" true
     ["Μέγεθος δακτυλίου εκτός εμβέλειας"];
   Message false [Loc None "+1"]
     "Scan secret is not 32 bytes." true
     ["Το μυστικό σάρωσης δεν είναι 32 byte."];
   Message false [Loc None "+1"]
     "SetSetting failed." true
     ["Η ρύθμιση SetSetting απέτυχε."];
   Message false [Loc None "+1"]
     "Signing transaction failed" true
     ["Η συναλλαγή υπογραφής απέτυχε"];
   Message false [Loc None "+1"]
     "Specified -walletdir &quot;%s&quot; does not exist" true
     ["Το καθορισμένο-walletdir &quot;% s&quot; δεν υπάρχει"];
   Message false [Loc None "+1"]
     "Specified -walletdir &quot;%s&quot; is a relative path" true
     ["Ο καθορισμένος-walletdir &quot;% s&quot; είναι μια σχετική διαδρομή"];
   Message false [Loc None "+1"]
     "Specified -walletdir &quot;%s&quot; is not a directory" true
     ["Ο καθορισμένος-walletdir &quot;% s&quot; δεν είναι κατάλογος"];
   Message false [Loc None "+1"]
     "Specified blocks directory &quot;%s&quot; does not exist." true
     ["Ο καθορισμένος κατάλογος μπλοκ &quot;% s&quot; δεν υπάρχει."];
   Message false [Loc None "+1"]
     "Spend secret is not 32 bytes." true
     ["Το μυστικό των ΔΑΠΑΝΩΝ δεν είναι 32 bytes."];
   Message false [Loc None "+1"]
     "Spend secret must be different to scan secret." true
     ["Το να ξοδεύεις μυστικά πρέπει να είναι διαφορετικό για να σαρώσεις μυστικά."];
   Message false [Loc None "+1"]
     "Stake your coins to support network and gain reward (default: true)" true
     ["Ποντάρετε τα κέρματα σας για να υποστηρίξετε το δίκτυο και να κερδίσετε ανταμοιβή (προεπιλογή: True)"];
   Message false [Loc None "+1"]
     "Starting network threads..." true
     ["Εκκίνηση νημάτων δικτύου..."];
   Message false [Loc None "+1"]
     "StealthSecret failed, try again." true
     ["Το κρυφό μυστικό απέτυχε, προσπάθησε ξανά."];
   Message false [Loc None "+1"]
     "The source code is available from %s." true
     ["Ο πηγαίος κωδικός είναι διαθέσιμος από το% s."];
   Message false [Loc None "+1"]
     "The transaction amount is too small to pay the fee" true
     ["Το ποσό της συναλλαγής είναι πολύ μικρό για να πληρώσει το τέλος"];
   Message false [Loc None "+1"]
     "The wallet will avoid paying less than the minimum relay fee." true
     ["Το πορτοφόλι θα αποφύγει να πληρώσει λιγότερο από το ελάχιστο κόστος αναμετάδοσης."];
   Message false [Loc None "+1"]
     "This is experimental software." true
     ["Αυτό είναι πειραματικό λογισμικό."];
   Message false [Loc None "+1"]
     "This is the minimum transaction fee you pay on every transaction." true
     ["Αυτή είναι η ελάχιστη χρέωση συναλλαγής που πληρώνετε για κάθε συναλλαγή."];
   Message false [Loc None "+1"]
     "This is the transaction fee you will pay if you send a transaction." true
     ["Αυτό είναι το τέλος συναλλαγής που θα πληρώσετε αν στείλετε μια συναλλαγή."];
   Message false [Loc None "+1"]
     "Transaction amount too small" true
     ["Το ποσό της συναλλαγής είναι πολύ μικρό"];
   Message false [Loc None "+1"]
     "Transaction amounts must not be negative" true
     ["Τα ποσά συναλλαγής δεν πρέπει να είναι αρνητικά"];
   Message false [Loc None "+1"]
     "Transaction amounts must not be negative." true
     ["Τα ποσά συναλλαγής δεν πρέπει να είναι αρνητικά."];
   Message false [Loc None "+1"]
     "Transaction fee and change calculation failed" true
     ["Τέλος συναλλαγής και υπολογισμός αλλαγής απέτυχε"];
   Message false [Loc None "+1"]
     "Transaction fee and change calculation failed." true
     ["Το τέλος συναλλαγής και ο υπολογισμός αλλαγής απέτυχαν."]].

Definition el_bitcoin_core_7 : list message :=
  [Message false [Loc None "+1"]
     "Transaction has too long of a mempool chain" true
     ["Η συναλλαγή έχει πολύ μεγάλο χρονικό διάστημα από μια αλυσίδα mempool"];
   Message false [Loc None "+1"]
     "Transaction must have at least one recipient" true
     ["Η συναλλαγή πρέπει να έχει τουλάχιστον έναν παραλήπτη"];
   Message false [Loc None "+1"]
     "Transaction must have at least one recipient." true
     ["Η συναλλαγή πρέπει να έχει τουλάχιστον έναν παραλήπτη."];
   Message false [Loc None "+1"]
     "Transaction too large for fee policy" true
     ["Η συναλλαγή είναι πολύ μεγάλη για την πολιτική τελών"];
   Message false [Loc None "+1"]
     "Transaction too large for fee policy." true
     ["Η συναλλαγή είναι πολύ μεγάλη για την πολιτική αμοιβής."];
   Message false [Loc None "+1"]
     "Transaction too large" true
     ["Η συναλλαγή είναι πολύ μεγάλη"];
   Message false [Loc None "+1"]
     "TxnBegin failed." true
     ["Η έναρξη απέτυχε."];
   Message false [Loc None "+1"]
     "Unable to bind to %s on this computer (bind returned error %s)" true
     ["Δεν είναι δυνατή η σύνδεση με% s σε αυτόν τον υπολογιστή (σύνδεση επέστρεψε σφάλμα% s)"];
   Message false [Loc None "+1"]
     "Unable to bind to %s on this computer. %s is probably already running." true
     ["Δεν είναι δυνατή η σύνδεση με% s σε αυτόν τον υπολογιστή. το% s πιθανότατα εκτελείται ήδη."];
   Message false [Loc None "+1"]
     "Unable to generate initial keys" true
     ["Δεν είναι δυνατή η δημιουργία αρχικών κλειδιών"];
   Message false [Loc None "+1"]
     "Unable to generate keys" true
     ["Δεν είναι δυνατή η δημιουργία κλειδιών"];
   Message false [Loc None "+1"]
     "Unable to start HTTP server. See debug log for details." true
     ["Δεν είναι δυνατή η εκκίνηση του διακομιστή HTTP. Δείτε το αρχείο καταγραφής εντοπισμού σφαλμάτων για λεπτομέρειες."];
   Message false [Loc None "+1"]
     "Unknown account." true
     ["Άγνωστος λογαριασμός."];
   Message false [Loc None "+1"]
     "Unknown action, must be one of &apos;add/edit/del&apos;." true
     ["Άγνωστη ενέργεια, πρέπει να είναι μία από τις &quot;Προσθήκη/επεξεργασία/del&quot;."];
   Message false [Loc None "+1"]
     "Unknown argument for 256bithash: %s." true
     ["Άγνωστο όρισμα για το 256 bithash:% s."];
   Message false [Loc None "+1"]
     "Unknown argument for add_to_addressbook: %s." true
     ["Άγνωστο όρισμα για add_to_addressbook:% s."];
   Message false [Loc None "+1"]
     "Unknown chain." true
     ["Άγνωστη αλυσίδα."];
   Message false [Loc None "+1"]
     "Unknown input key version." true
     ["Άγνωστη έκδοση κλειδιού εισόδου."];
   Message false [Loc None "+1"]
     "Unknown network specified in -onlynet: &apos;%s&apos;" true
     ["Άγνωστο δίκτυο που καθορίστηκε σε μόνο καθαρή: &apos;% s &apos;"];
   Message false [Loc None "+1"]
     "Unknown setting" true
     ["Άγνωστη ρύθμιση"];
   Message false [Loc None "+1"]
     "Unsupported argument -benchmark ignored, use -debug=bench." true
     ["Μη υποστηριζόμενο όρισμα-δείκτης αναφοράς αγνοήθηκε, χρήση-εντοπισμός σφαλμάτων = πάγκος."];
   Message false [Loc None "+1"]
     "Unsupported argument -debugnet ignored, use -debug=net." true
     ["Όρισμα που δεν υποστηρίζεται-παραβλέφθηκε, χρήση-εντοπισμός σφαλμάτων = NET."];
   Message false [Loc None "+1"]
     "Unsupported argument -debugnet ignored, use -debug=smsg." true
     ["Το όρισμα που δεν υποστηρίζεται-παραβλέφθηκε, χρήση-debug = SMSG."];
   Message false [Loc None "+1"]
     "Unsupported argument -tor found, use -onion." true
     ["Δεν υποστηρίζεται όρισμα που βρέθηκε, χρήση-κρεμμύδι."];
   Message false [Loc None "+1"]
     "Unsupported logging category %s=%s." true
     ["Μη υποστηριζόμενη κατηγορία καταγραφής% s =% s."];
   Message false [Loc None "+1"]
     "Upgrading txindex database" true
     ["Αναβάθμιση βάσης δεδομένων ευρετηρίου"];
   Message false [Loc None "+1"]
     "User Agent comment (%s) contains unsafe characters." true
     ["Το σχόλιο παράγοντα χρήστη (% s) περιέχει μη ασφαλείς χαρακτήρες."];
   Message false [Loc None "+1"]
     "Verifying blocks..." true
     ["Επαλήθευση μπλοκ..."];
   Message false [Loc None "+1"]
     "Verifying wallet(s)..." true
     ["Επαλήθευση πορτοφολιού..."];
   Message false [Loc None "+1"]
     "Wallet %s resides outside wallet directory %s" true
     ["Το πορτοφόλι% s βρίσκεται έξω από τον κατάλογο του πορτοφολιού% s"]].

Definition el_bitcoin_core_8 : list message :=
  [Message false [Loc None "+1"]
     "Wallet has no active master key." true
     ["Το πορτοφόλι δεν έχει ενεργό πρωτεύον κλειδί."];
   Message false [Loc None "+1"]
     "Wallet must be unlocked." true
     ["Το πορτοφόλι πρέπει να ξεκλειδωθεί."];
   Message false [Loc None "+1"]
     "Wallet must have a default account set." true
     ["Το πορτοφόλι πρέπει να έχει ένα προεπιλεγμένο σύνολο λογαριασμών."];
   Message false [Loc None "+1"]
     "Wallet needed to be rewritten: restart %s to complete" true
     ["Το πορτοφόλι έπρεπε να ξαναγραφεί: Επανεκκινήστε το% s για να ολοκληρωθεί"];
   Message false [Loc None "+1"]
     "Warning" true
     ["Προειδοποίηση"];
   Message false [Loc None "+1"]
     "Warning: unknown new rules activated (versionbit %i)" true
     ["Προειδοποίηση: οι άγνωστοι νέοι κανόνες ενεργοποιήθηκαν (versionbit% i)"];
   Message false [Loc None "+1"]
     "You need to rebuild the database using -reindex to change -addressindex" true
     ["Πρέπει να δημιουργήσετε ξανά τη βάση δεδομένων χρησιμοποιώντας-επαναευρετήριο για να αλλάξετε-διεύθυν"];
   Message false [Loc None "+1"]
     "You need to rebuild the database using -reindex to change -spentindex" true
     ["Πρέπει να δημιουργήσετε ξανά τη βάση δεδομένων χρησιμοποιώντας-reindex για να αλλάξετε-spentindex"];
   Message false [Loc None "+1"]
     "Zapping all transactions from wallet..." true
     ["Μεταμορφώνω όλες τις συναλλαγές από το πορτοφόλι..."];
   Message false [Loc None "+1"]
     "accounts missing." true
     ["λείπουν λογαριασμοί."];
   Message false [Loc None "+1"]
     "accounts must be an array." true
     ["Οι λογαριασμοί πρέπει να είναι πίνακας."];
   Message false [Loc None "+1"]
     "add_to_addressbook can&apos;t be set without save" true
     ["Δεν είναι δυνατή η ρύθμιση του add_to_addressbook χωρίς αποθήκευση"];
   Message false [Loc None "+1"]
     "address_standard must be a string." true
     ["address_standard πρέπει να είναι μια χορδή."];
   Message false [Loc None "+1"]
     "bad childNo." true
     ["κακή παιδική ηλικία."];
   Message false [Loc None "+1"]
     "bech32 encode failed." true
     ["η κωδικοποίηση bech32 απέτυχε."];
   Message false [Loc None "+1"]
     "coldstakingaddress can&apos;t be a stealthaddress." true
     ["η διεύθυνση δεν μπορεί να είναι κλέφτρα."];
   Message false [Loc None "+1"]
     "coldstakingaddress must be a string." true
     ["η διεύθυνση πρέπει να είναι συμβολοσειρά."];
   Message false [Loc None "+1"]
     "extkey must have private key to derive hardened keys." true
     ["το κλειδί πρέπει να έχει ιδιωτικό κλειδί για την άντληση των σκληρυμένα κλειδιά."];
   Message false [Loc None "+1"]
     "foundationdonationpercent must be a number." true
     ["Πρέπει να είναι αριθμός."];
   Message false [Loc None "+1"]
     "height must be a number." true
     ["ύψος πρέπει να είναι ένας αριθμός."];
   Message false [Loc None "+1"]
     "loose_extkeys missing." true
     ["loose_extkeys."];
   Message false [Loc None "+1"]
     "loose_extkeys must be an array." true
     ["loose_extkeys πρέπει να είναι ένας πίνακας."];
   Message false [Loc None "+1"]
     "num_derives to int failed." true
     ["num_derives σε int απέτυχε."];
   Message false [Loc None "+1"]
     "num_derives_h to int failed." true
     ["num_derives_h σε int απέτυχε."];
   Message false [Loc None "+1"]
     "num_prefix_bits invalid number." true
     ["num_prefix_bits μη έγκυρος αριθμός."];
   Message false [Loc None "+1"]
     "num_prefix_bits must be &lt;= 32." true
     ["num_prefix_bits πρέπει να&lt;= 32.&gt;&lt;/= 32.&gt;"];
   Message false [Loc None "+1"]
     "rewardaddress must be a string." true
     ["η διεύθυνση πρέπει να είναι συμβολοσειρά."];
   Message false [Loc None "+1"]
     "secp256k1_generate_mlsag failed %d" true
     ["secp256k1_generate_mlsag απέτυχε% d"];
   Message false [Loc None "+1"]
     "secp256k1_get_keyimage failed %d" true
     ["secp256k1_get_keyimage απέτυχε% d"];
   Message false [Loc None "+1"]
     "secp256k1_prepare_mlsag failed %d" true
     ["secp256k1_prepare_mlsag απέτυχε% d"]].

Definition el_bitcoin_core_9 : list message :=
  [Message false [Loc None "+1"]
     "stakecombinethreshold can&apos;t be negative." true
     ["όριο δεν μπορεί να είναι αρνητικό."];
   Message false [Loc None "+1"]
     "stakesplitthreshold can&apos;t be negative." true
     ["το κατώφλι δεν μπορεί να είναι αρνητικό."]].

(** The whole document. *)
Definition bitcoin_el_GR : catalogue :=
  [Context "AddressBookPage" (el_AddressBookPage_1 ++ el_AddressBookPage_2);
   Context "AddressTableModel" (el_AddressTableModel);
   Context "AskPassphraseDialog" (el_AskPassphraseDialog_1 ++ el_AskPassphraseDialog_2);
   Context "BanTableModel" (el_BanTableModel);
   Context "BitcoinGUI" (el_BitcoinGUI_1 ++ el_BitcoinGUI_2 ++ el_BitcoinGUI_3 ++ el_BitcoinGUI_4);
   Context "CoinControlDialog" (el_CoinControlDialog_1 ++ el_CoinControlDialog_2);
   Context "EditAddressDialog" (el_EditAddressDialog);
   Context "FreespaceChecker" (el_FreespaceChecker);
   Context "HelpMessageDialog" (el_HelpMessageDialog);
   Context "Intro" (el_Intro);
   Context "MnemonicDialog" (el_MnemonicDialog_1 ++ el_MnemonicDialog_2);
   Context "ModalOverlay" (el_ModalOverlay);
   Context "OpenURIDialog" (el_OpenURIDialog);
   Context "OptionsDialog" (el_OptionsDialog_1 ++ el_OptionsDialog_2 ++ el_OptionsDialog_3);
   Context "OverviewPage" (el_OverviewPage);
   Context "PaymentServer" (el_PaymentServer);
   Context "PeerTableModel" (el_PeerTableModel);
   Context "QObject" (el_QObject);
   Context "QObject::QObject" (el_QObject__QObject);
   Context "QRImageWidget" (el_QRImageWidget);
   Context "RPCConsole" (el_RPCConsole_1 ++ el_RPCConsole_2 ++ el_RPCConsole_3);
   Context "ReceiveCoinsDialog" (el_ReceiveCoinsDialog);
   Context "ReceiveRequestDialog" (el_ReceiveRequestDialog);
   Context "RecentRequestsTableModel" (el_RecentRequestsTableModel);
   Context "SendCoinsDialog" (el_SendCoinsDialog_1 ++ el_SendCoinsDialog_2 ++ el_SendCoinsDialog_3);
   Context "SendCoinsEntry" (el_SendCoinsEntry_1 ++ el_SendCoinsEntry_2);
   Context "SendConfirmationDialog" (el_SendConfirmationDialog);
   Context "ShutdownWindow" (el_ShutdownWindow);
   Context "SignVerifyMessageDialog" (el_SignVerifyMessageDialog_1 ++ el_SignVerifyMessageDialog_2);
   Context "SplashScreen" (el_SplashScreen);
   Context "StakingDialog" (el_StakingDialog_1 ++ el_StakingDialog_2);
   Context "TrafficGraphWidget" (el_TrafficGraphWidget);
   Context "TransactionDesc" (el_TransactionDesc_1 ++ el_TransactionDesc_2);
   Context "TransactionDescDialog" (el_TransactionDescDialog);
   Context "TransactionTableModel" (el_TransactionTableModel_1 ++ el_TransactionTableModel_2);
   Context "TransactionView" (el_TransactionView_1 ++ el_TransactionView_2);
   Context "TxViewDelegate" (el_TxViewDelegate);
   Context "UnitDisplayStatusBarControl" (el_UnitDisplayStatusBarControl);
   Context "WalletFrame" (el_WalletFrame);
   Context "WalletModel" (el_WalletModel);
   Context "WalletView" (el_WalletView);
   Context "bitcoin-core" (el_bitcoin_core_1 ++ el_bitcoin_core_2 ++ el_bitcoin_core_3 ++ el_bitcoin_core_4 ++ el_bitcoin_core_5 ++ el_bitcoin_core_6 ++ el_bitcoin_core_7 ++ el_bitcoin_core_8 ++ el_bitcoin_core_9)].
