(* ===== verification/CatalogueEs.v ===== *)
(** The Spanish catalogue, [src/src/qt/locale/bitcoin_es_ES.ts], context by context; a long
    context is cut into parts.  Texts are as in the file. *)
From S2P Require Import Prelude Locale.
Open Scope txt_scope.
Open Scope list_scope.

Definition es_AddressBookPage_1 : list message :=
  [Message false [Loc (Some "../forms/addressbookpage.ui") "+27"]
     "Enter address or label to search" true
     ["Introduzca la dirección o la etiqueta para buscar"];
   Message false [Loc None "+10"]
     "Right-click to edit address or label" true
     ["Haga clic con el botón derecho del botón derecho para editar la dirección o la etiqueta"];
   Message false [Loc None "+30"; Loc None "+17"; Loc None "+17"]
     "Create a new address" true
     ["Crear una nueva dirección"];
   Message false [Loc None "-31"]
     "&amp;New" true
     ["&amp;Nuevo"];
   Message false [Loc None "+17"]
     "&amp;New Stake address" true
     ["&amp;Nueva dirección de estaca"];
   Message false [Loc None "+17"]
     "&amp;New ColdStake address" true
     ["&amp;Nueva dirección de ColdStake"];
   Message false [Loc None "+14"]
     "Copy the currently selected address to the system clipboard" true
     ["Copie la dirección seleccionada actualmente en el portapapeles del sistema"];
   Message false [Loc None "+3"]
     "&amp;Copy" true
     ["&amp;a Copiar"];
   Message false [Loc None "+14"]
     "Delete the currently selected address from the list" true
     ["Elimine la dirección seleccionada actualmente de la lista"];
   Message false [Loc None "+3"]
     "&amp;Delete" true
     ["&amp;Eliminar"];
   Message false [Loc None "+27"]
     "Export the data in the current tab to a file" true
     ["Exportar los datos de la pestaña actual a un archivo"];
   Message false [Loc None "+3"]
     "&amp;Export" true
     ["&amp;gt; Exportar"];
   Message false [Loc None "+20"]
     "C&amp;lose" true
     ["C&amp;pere"];
   Message false [Loc (Some "../addressbookpage.cpp") "+84"]
     "These are your Bitcoin Confidential addresses for sending payments. Always check the amount and the receiving address before sending coins." true
     ["Estas son sus direcciones confidenciales Bitcoin para enviar pagos. Compruebe siempre la cantidad y la dirección de recepción antes de enviar monedas."];
   Message false [Loc None "+8"]
     "Choose the address to send coins to" true
     ["Elija la dirección a la que enviar monedas"];
   Message false [Loc None "+4"; Loc None "+22"; Loc None "+28"]
     "C&amp;hoose" true
     ["C&amp;hoose"];
   Message false [Loc None "-44"]
     "Sending addresses" true
     ["Envío de direcciones"];
   Message false [Loc None "+12"]
     "Choose the address to receive coins with" true
     ["Elija la dirección para recibir monedas con"];
   Message false [Loc None "+10"]
     "Receiving addresses" true
     ["Direcciones de recepción"];
   Message false [Loc None "+1"]
     "These are your Bitcoin Confidential addresses for receiving payments. It is recommended to use a new receiving address for each transaction." true
     ["Estas son sus direcciones confidenciales bitcoin para recibir pagos. Se recomienda utilizar una nueva dirección de recepción para cada transacción."];
   Message false [Loc None "+13"]
     "Choose the Stake or ColdStake address" true
     ["Elija la dirección de Estaca o ColdStake"];
   Message false [Loc None "+1"]
     "These are your Bitcoin Confidential Stake and ColdStake addresses." true
     ["Estas son sus direcciones de Bitcoin Confidential Stake y ColdStake."];
   Message false [Loc None "+16"]
     "Stake and ColdStake addresses" true
     ["Direcciones de estaca y ColdStake"];
   Message false [Loc None "+1"]
     "These addresses cannot be used to receive coins from outside the wallet, such as payments or from exchanges.  Use the Receive tab to generate spending addresses.

Stake addresses, starting with &quot;%1&quot;, are used to convert spending funds into staking funds in the &quot;Convert to Staking&quot; tab. Funds in Stake addresses can be either used for hot staking or the activation of ColdStaking.

ColdStake addresses, starting with &quot;%2&quot;, are used to manually activate staking funds for ColdStaking. There is no need to generate ColdStake addresses when the automated ColdStaking activation from the Staking Status page is used." true
     ["Estas direcciones no se pueden utilizar para recibir monedas de fuera de la cartera, como pagos o de intercambios.  Use la pestaña Recibir para generar direcciones de gasto.

Las direcciones de estaca, empezando por &quot;%1&quot;, se utilizan para convertir fondos de gastoen en fondos de participación en la pestaña &quot;Convertir en participación&quot;.

Las direcciones de ColdStake, empezando por &quot;%2&quot;, se utilizan para activar manualmente los fondos de estaca para ColdStaking. No es necesario generar direcciones de ColdStake cuando se utiliza la activación automatizada de ColdStaking desde la página Estado de stake."];
   Message false [Loc None "+11"]
     "&amp;Copy Address" true
     ["&amp;Copiar dirección"];
   Message false [Loc None "+1"]
     "Copy &amp;Label" true
     ["Copiar &amp;sión"];
   Message false [Loc None "+1"]
     "&amp;Edit" true
     ["&amp;Editar"]].

Definition es_AddressBookPage_2 : list message :=
  [Message false [Loc None "+186"]
     "Export Address List" true
     ["Exportar lista de direcciones"];
   Message false [Loc None "+1"]
     "Comma separated file (*.csv)" true
     ["Archivo separado por comas (*.csv)"];
   Message false [Loc None "+13"]
     "Exporting Failed" true
     ["Error al exportar"];
   Message false [Loc None "+1"]
     "There was an error trying to save the address list to %1. Please try again." true
     ["Se ha producido un error al intentar guardar la lista de direcciones en %1. Por favor, inténtelo de nuevo."]].

Definition es_AddressTableModel : list message :=
  [Message false [Loc (Some "../addresstablemodel.cpp") "+188"]
     "Label" true
     ["Etiqueta"];
   Message false [Loc None "+0"]
     "Address" true
     ["Dirección"];
   Message false [Loc None "+36"]
     "(no label)" true
     ["(sin etiqueta)"]].

Definition es_AskPassphraseDialog_1 : list message :=
  [Message false [Loc (Some "../forms/askpassphrasedialog.ui") "+26"]
     "Passphrase Dialog" true
     ["Diálogo de frase de contraseña"];
   Message false [Loc None "+30"]
     "Enter passphrase" true
     ["Introduzca la frase de contraseña"];
   Message false [Loc None "+14"]
     "New passphrase" true
     ["Nueva frase de contraseña"];
   Message false [Loc None "+14"]
     "Repeat new passphrase" true
     ["Repetir nueva frase de contraseña"];
   Message false [Loc None "+14"]
     "Show password" true
     ["Mostrar contraseña"];
   Message false [Loc None "+23"]
     "Unlock For Staking Only" true
     ["Desbloquear solo para participar"];
   Message false [Loc (Some "../askpassphrasedialog.cpp") "+48"]
     "Enter the new passphrase to the wallet.&lt;br/&gt;Please use a passphrase of &lt;b&gt;ten or more random characters&lt;/b&gt;, or &lt;b&gt;eight or more words&lt;/b&gt;." true
     ["Introduzca la nueva frase de contraseña en la cartera.&lt;br&gt;Utilice una frase de contraseña de &lt;b&gt;diez o más caracteres aleatorios,&lt;/b&gt;u ocho o más &lt;b&gt;palabras.&lt;/b&gt;"];
   Message false [Loc None "+3"]
     "Encrypt wallet" true
     ["Cifrar cartera"];
   Message false [Loc None "+3"; Loc None "+8"]
     "This operation needs your wallet passphrase to unlock the wallet." true
     ["Esta operación necesita su contraseña de la cartera para desbloquear la cartera."];
   Message false [Loc None "-3"; Loc None "+9"]
     "Unlock wallet" true
     ["Desbloquear cartera"];
   Message false [Loc None "+3"]
     "This operation needs your wallet passphrase to decrypt the wallet." true
     ["Esta operación necesita su contraseña de la cartera para descifrar la cartera."];
   Message false [Loc None "+5"]
     "Decrypt wallet" true
     ["Descifrar la cartera"];
   Message false [Loc None "+3"]
     "Change passphrase" true
     ["Cambiar contraseña"];
   Message false [Loc None "+1"]
     "Enter the old passphrase and new passphrase to the wallet." true
     ["Introduzca la frase de contraseña antigua y la nueva frase de contraseña en la cartera."];
   Message false [Loc None "+47"]
     "Confirm wallet encryption" true
     ["Confirmar el cifrado del monedero"];
   Message false [Loc None "+1"]
     "Warning: If you encrypt your wallet and lose your passphrase, you will &lt;b&gt;LOSE ALL OF YOUR BITCOIN CONFIDENTIAL&lt;/b&gt;!" true
     ["Advertencia: Si usted cifra su billetera y pierde su contraseña, perderá &lt;b&gt;todo su BITCOIN CONFIDENCIAL&lt;/b&gt;!"];
   Message false [Loc None "+0"]
     "Are you sure you wish to encrypt your wallet?" true
     ["¿Está seguro de que desea cifrar su billetera?"];
   Message false [Loc None "+9"; Loc None "+59"]
     "Wallet encrypted" true
     ["Monedero cifrado"];
   Message false [Loc None "-57"]
     "%1 will close now to finish the encryption process. Remember that encrypting your wallet cannot fully protect your Bitcoin Confidential from being stolen by malware infecting your computer." true
     ["%1 se cerrará ahora para finalizar el proceso de cifrado. Recuerde que el cifrado de su billetera no puede proteger completamente su Bitcoin Confidential de ser robado por malware que infecta su computadora."];
   Message false [Loc None "+4"]
     "IMPORTANT: Any previous backups you have made of your wallet file should be replaced with the newly generated, encrypted wallet file. For security reasons, previous backups of the unencrypted wallet file will become useless as soon as you start using the new, encrypted wallet." true
     ["IMPORTANTE: Cualquier copia de seguridad anterior que haya hecho de su archivo de cartera debe ser reemplazada por el archivo de cartera cifrado recién generado. Por razones de seguridad, copias de seguridad anteriores del archivo de cartera sin cifrar se volverán inútiles tan pronto como comience a utilizar la nueva cartera cifrada."];
   Message false [Loc None "+9"; Loc None "+7"; Loc None "+43"; Loc None "+6"]
     "Wallet encryption failed" true
     ["Error en el cifrado de la cartera"];
   Message false [Loc None "-55"]
     "Wallet encryption failed due to an internal error. Your wallet was not encrypted." true
     ["Error en el cifrado de la cartera debido a un error interno. Tu billetera no estaba encriptada."];
   Message false [Loc None "+7"; Loc None "+49"]
     "The supplied passphrases do not match." true
     ["Las frases de contraseña proporcionadas no coinciden."];
   Message false [Loc None "-37"]
     "Wallet unlock failed" true
     ["Error al desbloqueo de la cartera"];
   Message false [Loc None "+1"; Loc None "+11"; Loc None "+19"]
     "The passphrase entered for the wallet decryption was incorrect." true
     ["La frase de contraseña introducida para el descifrado de la cartera era incorrecta."];
   Message false [Loc None "-20"]
     "Wallet decryption failed" true
     ["Error en el descifrado de carteras"];
   Message false [Loc None "+14"]
     "Wallet passphrase was successfully changed." true
     ["La frase de contraseña de la cartera se ha cambiado correctamente."]].

Definition es_AskPassphraseDialog_2 : list message :=
  [Message false [Loc None "+48"; Loc None "+33"]
     "Warning: The Caps Lock key is on!" true
     ["Advertencia: ¡La tecla Bloq Mayús está activada!"]].

Definition es_BanTableModel : list message :=
  [Message false [Loc (Some "../bantablemodel.cpp") "+88"]
     "IP/Netmask" true
     ["IP/Netmask"];
   Message false [Loc None "+0"]
     "Banned Until" true
     ["Prohibido hasta"]].

Definition es_BitcoinGUI_1 : list message :=
  [Message false [Loc (Some "../bitcoingui.cpp") "+94"]
     "Wallet" true
     ["billetera"];
   Message false [Loc None "+2"]
     "Node" true
     ["Nodo"];
   Message false [Loc None "+169"]
     "Overview" true
     ["Visión general"];
   Message false [Loc None "+1"]
     "Show general overview of wallet" true
     ["Mostrar visión general de la cartera"];
   Message false [Loc None "+7"]
     "Send" true
     ["Enviar"];
   Message false [Loc None "+1"]
     "Send coins to a Bitcoin Confidential Spending address" true
     ["Enviar monedas a una dirección de gastos confidenciales de Bitcoin"];
   Message false [Loc None "+11"]
     "Receive" true
     ["Recibir"];
   Message false [Loc None "+1"]
     "Request payments (generates Spending address QR codes and bitcoinc: URIs)" true
     ["Solicitar pagos (genera códigos QR de dirección de gastos y bitcoinc: URI)"];
   Message false [Loc None "+11"]
     "Transactions" true
     ["Transacciones"];
   Message false [Loc None "+1"]
     "Browse transaction history" true
     ["Explorar el historial de transacciones"];
   Message false [Loc None "+7"]
     "Staking" true
     ["Staking"];
   Message false [Loc None "+1"]
     "Setup staking" true
     ["Configuración de la participación"];
   Message false [Loc None "+25"]
     "E&amp;xit" true
     ["E&amp;xit"];
   Message false [Loc None "+1"]
     "Quit application" true
     ["Salir de la aplicación"];
   Message false [Loc None "+3"]
     "&amp;About %1" true
     ["&amp;Acerca de %1"];
   Message false [Loc None "+1"]
     "Show information about %1" true
     ["Mostrar información sobre %1"];
   Message false [Loc None "+3"]
     "About &amp;Qt" true
     ["Acerca de &amp;Qt"];
   Message false [Loc None "+1"]
     "Show information about Qt" true
     ["Mostrar información sobre Qt"];
   Message false [Loc None "+2"]
     "&amp;Options..." true
     ["&amp;gt; &amp;gt;"];
   Message false [Loc None "+1"]
     "Modify configuration options for %1" true
     ["Modificar las opciones de configuración para %1"];
   Message false [Loc None "+3"]
     "&amp;Show / Hide" true
     ["&amp;Mostrar / Ocultar"];
   Message false [Loc None "+1"]
     "Show or hide the main Window" true
     ["Mostrar u ocultar la ventana principal"];
   Message false [Loc None "+2"]
     "&amp;Encrypt Wallet..." true
     ["&amp;Cifrar cartera..."];
   Message false [Loc None "+1"]
     "Encrypt the private keys that belong to your wallet" true
     ["Cifrar las claves privadas que pertenecen a su cartera"];
   Message false [Loc None "+2"]
     "&amp;Backup Wallet..." true
     ["&amp;Cartera de respaldo..."];
   Message false [Loc None "+1"]
     "Backup wallet to another location" true
     ["Cartera de respaldo en otra ubicación"];
   Message false [Loc None "+1"]
     "&amp;Change Passphrase..." true
     ["&amp;cambiar frase de contraseña..."];
   Message false [Loc None "+1"]
     "Change the passphrase used for wallet encryption" true
     ["Cambiar la frase de contraseña utilizada para el cifrado de carteras"];
   Message false [Loc None "+1"]
     "Sign &amp;message..." true
     ["Firma &amp;sesión..."]].

Definition es_BitcoinGUI_2 : list message :=
  [Message false [Loc None "+1"]
     "Sign messages with your Bitcoin Confidential addresses to prove you own them" true
     ["Firma mensajes con tus direcciones confidenciales de Bitcoin para demostrar que eres el propietario"];
   Message false [Loc None "+1"]
     "&amp;Verify message..." true
     ["&amp;Verificar mensaje..."];
   Message false [Loc None "+1"]
     "Verify messages to ensure they were signed with specified Bitcoin Confidential addresses" true
     ["Verifique los mensajes para asegurarse de que se firmaron con direcciones Confidenciales Bitcoin especificadas"];
   Message false [Loc None "+2"]
     "&amp;Debug window" true
     ["Ventana &amp;depuración"];
   Message false [Loc None "+1"]
     "Open debugging and diagnostic console" true
     ["Abra la consola de depuración y diagnóstico"];
   Message false [Loc None "+4"]
     "&amp;Sending addresses..." true
     ["&amp;Sending addresses..."];
   Message false [Loc None "+1"]
     "Show the list of used sending addresses and labels" true
     ["Mostrar la lista de direcciones y etiquetas de envío usadas"];
   Message false [Loc None "+1"]
     "&amp;Receiving addresses..." true
     ["&amp;Recepción de direcciones..."];
   Message false [Loc None "+1"]
     "Show the list of used receiving addresses and labels" true
     ["Mostrar la lista de direcciones de recepción y etiquetas usadas"];
   Message false [Loc None "+2"]
     "Open &amp;URI..." true
     ["Abrir &amp;URI..."];
   Message false [Loc None "+1"]
     "Open a bitcoinc: URI or payment request" true
     ["Abrir un bitcoinc: URI o solicitud de pago"];
   Message false [Loc None "+2"]
     "&amp;Command-line options" true
     ["&amp;Opciones de línea de comandos"];
   Message false [Loc None "+2"]
     "Show the %1 help message to get a list with possible Bitcoin Confidential command-line options" true
     ["Mostrar el mensaje de ayuda %1 para obtener una lista con posibles opciones de línea de comandos de Bitcoin Confidential"];
   Message false [Loc None "+2"]
     "&amp;HD Wallet..." true
     ["&amp;hd monedero..."];
   Message false [Loc None "+45"]
     "&amp;File" true
     ["&amp;Archivo"];
   Message false [Loc None "+16"]
     "&amp;Settings" true
     ["&amp;Configuración"];
   Message false [Loc None "+9"]
     "&amp;Help" true
     ["&amp;ayuda"];
   Message false [Loc None "+15"]
     "Tabs toolbar" true
     ["Barra de herramientas Pestañas"];
   Message false [Loc None "+113"]
     "default wallet" true
     ["monedero por defecto"];
   Message false [Loc None "+88"]
     "%1 client" true
     ["%1 cliente"];
   Message true [Loc None "+189"]
     "%n active connection(s) to Bitcoin Confidential network" true
     ["%n conexión(es) activa(s) a la red Bitcoin Confidential"; "%n conexión(es) activa(s) a la red Bitcoin Confidential"];
   Message false [Loc None "+0"]
     "Click to disable network activity." true
     ["Haga clic para deshabilitar la actividad de red."];
   Message false [Loc None "+2"]
     "Network activity disabled." true
     ["Actividad de red deshabilitada."];
   Message false [Loc None "+0"]
     "Click to enable network activity again." true
     ["Haga clic para volver a habilitar la actividad de red."];
   Message false [Loc None "+28"]
     "Syncing Headers (%1%)..." true
     ["Sincronización de encabezados (%1%)..."];
   Message false [Loc None "+26"]
     "Synchronizing with network..." true
     ["Sincronización con la red..."];
   Message false [Loc None "+5"]
     "Indexing blocks on disk..." true
     ["Indexación de bloques en disco..."];
   Message false [Loc None "+2"]
     "Processing blocks on disk..." true
     ["Procesamiento de bloques en disco..."];
   Message false [Loc None "+4"]
     "Reindexing blocks on disk..." true
     ["Reindexación de bloques en disco..."];
   Message false [Loc None "+6"]
     "Connecting to peers..." true
     ["Conectarse a compañeros..."]].

Definition es_BitcoinGUI_3 : list message :=
  [Message true [Loc None "+9"]
     "Processed %n block(s) of transaction history." true
     ["%n bloque(s) procesado(s) del historial de transacciones."; "%n bloque(s) procesado(s) del historial de transacciones."];
   Message false [Loc None "+5"]
     "Up to date" true
     ["Hasta la fecha"];
   Message false [Loc None "+19"]
     "%1 behind" true
     ["%1 detrás"];
   Message false [Loc None "+5"]
     "Catching up..." true
     ["Ponerse al día..."];
   Message false [Loc None "+19"]
     "Last received block was generated %1 ago." true
     ["El último bloque recibido se generó hace %1."];
   Message false [Loc None "+2"]
     "Transactions after this will not yet be visible." true
     ["Las transacciones posteriores a esto aún no serán visibles."];
   Message false [Loc None "+13"]
     "Bitcoin Confidential" true
     ["Bitcoin Confidencial"];
   Message false [Loc None "+14"]
     "Error" true
     ["Error"];
   Message false [Loc None "+3"]
     "Warning" true
     ["Advertencia"];
   Message false [Loc None "+3"]
     "Information" true
     ["Información"];
   Message false [Loc None "+116"]
     "Date: %1
" true
     ["Fecha: %1"];
   Message false [Loc None "+1"]
     "Amount: %1
" true
     ["Importe: %1"];
   Message false [Loc None "+2"]
     "Wallet: %1
" true
     ["Monedero: %1"];
   Message false [Loc None "+2"]
     "Type: %1
" true
     ["Tipo: %1"];
   Message false [Loc None "+2"]
     "Label: %1
" true
     ["Etiqueta: %1"];
   Message false [Loc None "+2"]
     "Address: %1
" true
     ["Dirección: %1"];
   Message false [Loc None "+1"]
     "Sent transaction" true
     ["Transacción enviada"];
   Message false [Loc None "+0"]
     "Incoming transaction" true
     ["Transacción entrante"];
   Message false [Loc None "+52"]
     "HD key generation is &lt;b&gt;enabled&lt;/b&gt;" true
     ["La generación de claves HD está &lt;b&gt;habilitada&lt;/b&gt;"];
   Message false [Loc None "+0"]
     "HD key generation is &lt;b&gt;disabled&lt;/b&gt;" true
     ["La generación de claves HD está &lt;b&gt;desactivada&lt;/b&gt;"];
   Message false [Loc None "+13"]
     "Wallet is &lt;b&gt;not encrypted&lt;/b&gt;. Click the opened lock to encrypt it." true
     ["Monedero &lt;b&gt;no&lt;/b&gt;está cifrado. Haga clic en el bloqueo abierto para cifrarlo."];
   Message false [Loc None "+8"]
     "Wallet is &lt;b&gt;encrypted&lt;/b&gt; and currently &lt;b&gt;unlocked&lt;/b&gt;" true
     ["Monedero está &lt;b&gt;encriptado&lt;/b&gt; y actualmente &lt;b&gt;desbloqueado&lt;/b&gt;"];
   Message false [Loc None "+8"]
     "Wallet is &lt;b&gt;encrypted&lt;/b&gt; and currently &lt;b&gt;unlocked&lt;/b&gt; for staking only" true
     ["Monedero está &lt;b&gt;encriptado&lt;/b&gt; y actualmente &lt;b&gt;desbloqueado&lt;/b&gt; para la participación sólo"];
   Message false [Loc None "+8"]
     "Wallet is &lt;b&gt;encrypted&lt;/b&gt; and currently &lt;b&gt;locked&lt;/b&gt;" true
     ["Monedero está &lt;b&gt;encriptado&lt;/b&gt; y actualmente &lt;b&gt;bloqueado&lt;/b&gt;"];
   Message false [Loc None "+58"]
     "Proxy is &lt;b&gt;enabled&lt;/b&gt;: %1" true
     ["El &lt;b&gt;&lt;/b&gt;proxy está habilitado: %1"];
   Message false [Loc None "+28"]
     "Tor is &lt;b&gt;enabled&lt;/b&gt;" true
     ["Tor está &lt;b&gt;habilitado&lt;/b&gt;"];
   Message false [Loc None "+3"]
     "Tor is &lt;b&gt;enabled&lt;/b&gt;, but its not the only network used. Use only onlynet=onion." true
     ["Tor &lt;b&gt;&lt;/b&gt;está habilitado, pero no es la única red utilizada. Utilice sólo cebolla de red."];
   Message false [Loc None "+3"]
     "Tor is &lt;b&gt;disabled&lt;/b&gt;. To enhance your privacy setup consider using tor by setting &lt;b&gt;onlynet=onion&lt;/b&gt; in your &lt;b&gt;bitcoinc.conf&lt;/b&gt;." true
     ["Tor &lt;b&gt;&lt;/b&gt;está deshabilitado. Para mejorar su configuración de privacidad considere el uso de tor mediante la configuración &lt;b&gt;de onlynet-onion&lt;/b&gt; en su &lt;b&gt;bitcoinc.conf&lt;/b&gt;."]].

Definition es_BitcoinGUI_4 : list message :=
  [Message false [Loc (Some "../bitcoin.cpp") "+528"]
     "A fatal error occurred. Bitcoin Confidential can no longer continue safely and will quit." true
     ["Se ha producido un error grave. Bitcoin Confidential ya no puede continuar de forma segura y se cerrará."]].

Definition es_CoinControlDialog_1 : list message :=
  [Message false [Loc (Some "../forms/coincontroldialog.ui") "+14"]
     "Coin Selection" true
     ["Selección de monedas"];
   Message false [Loc None "+34"]
     "Quantity:" true
     ["Cantidad:"];
   Message false [Loc None "+29"]
     "Bytes:" true
     ["Bytes:"];
   Message false [Loc None "+45"]
     "Amount:" true
     ["Cantidad:"];
   Message false [Loc None "+32"]
     "Dust:" true
     ["Polvo:"];
   Message false [Loc None "+48"]
     "Fee:" true
     ["Honorario:"];
   Message false [Loc None "+45"]
     "After Fee:" true
     ["Cargo después de la tarifa:"];
   Message false [Loc None "+32"]
     "Change:" true
     ["cambio:"];
   Message false [Loc None "+57"]
     "Standard" true
     ["Estándar"];
   Message false [Loc None "+5"]
     "Anon" true
     ["Anon"];
   Message false [Loc None "+14"]
     "Show all" true
     ["Mostrar todo"];
   Message false [Loc None "+13"]
     "(un)select all" true
     ["(des)seleccionar todos los"];
   Message false [Loc None "+16"]
     "Tree mode" true
     ["Modo árbol"];
   Message false [Loc None "+13"]
     "List mode" true
     ["Modo lista"];
   Message false [Loc None "+74"]
     "Amount" true
     ["Cantidad"];
   Message false [Loc None "+8"]
     "Received with label" true
     ["Recibido con etiqueta"];
   Message false [Loc None "+5"]
     "Received with address" true
     ["Recibido con dirección"];
   Message false [Loc None "+5"]
     "Date" true
     ["Fecha"];
   Message false [Loc None "+5"]
     "Confirmations" true
     ["Confirmaciones"];
   Message false [Loc None "+3"]
     "Confirmed" true
     ["Confirmado"];
   Message false [Loc (Some "../coincontroldialog.cpp") "+73"]
     "Copy address" true
     ["Copiar dirección"];
   Message false [Loc None "+1"]
     "Copy label" true
     ["Copiar etiqueta"];
   Message false [Loc None "+1"; Loc None "+26"]
     "Copy amount" true
     ["Copiar importe"];
   Message false [Loc None "-25"]
     "Copy transaction ID" true
     ["Copiar ID de transacción"];
   Message false [Loc None "+1"]
     "Lock unspent" true
     ["Cerradura sin gastar"];
   Message false [Loc None "+1"]
     "Unlock unspent" true
     ["Desbloquear sin gastar"];
   Message false [Loc None "+22"]
     "Copy quantity" true
     ["Copiar cantidad"];
   Message false [Loc None "+2"]
     "Copy fee" true
     ["Tarifa de copia"];
   Message false [Loc None "+1"]
     "Copy after fee" true
     ["Copiar después de la tarifa"]].

Definition es_CoinControlDialog_2 : list message :=
  [Message false [Loc None "+1"]
     "Copy bytes" true
     ["Copiar bytes"];
   Message false [Loc None "+1"]
     "Copy dust" true
     ["Copiar polvo"];
   Message false [Loc None "+1"]
     "Copy change" true
     ["Copiar cambio"];
   Message false [Loc None "+340"]
     "(%1 locked)" true
     ["(%1 bloqueado)"];
   Message false [Loc None "+161"]
     "yes" true
     ["Sí"];
   Message false [Loc None "+0"]
     "no" true
     ["No"];
   Message false [Loc None "+14"]
     "This label turns red if any recipient receives an amount smaller than the current dust threshold." true
     ["Esta etiqueta se vuelve roja si algún destinatario recibe una cantidad menor que el umbral de polvo actual."];
   Message false [Loc None "+5"]
     "Can vary +/- %1 satoshi(s) per input." true
     ["Puede variar +/- %1 satoshi(s) por entrada."];
   Message false [Loc None "+47"]
     "Hide immature" true
     ["Ocultar inmaduro"];
   Message false [Loc None "+2"]
     "Hide locked" true
     ["Ocultar bloqueado"];
   Message false [Loc None "+6"]
     "Show immature" true
     ["Mostrar inmaduro"];
   Message false [Loc None "+2"]
     "Show locked" true
     ["Mostrar bloqueado"];
   Message false [Loc None "+26"; Loc None "+66"; Loc None "+11"]
     "(no label)" true
     ["(sin etiqueta)"];
   Message false [Loc None "-19"]
     "change from %1 (%2)" true
     ["variación de %1 (%2)"];
   Message false [Loc None "+1"; Loc None "+20"]
     "(change)" true
     ["(cambio)"];
   Message false [Loc None "-17"]
     "spending from %1 (%2)" true
     ["gasto de %1 (%2)"]].

Definition es_EditAddressDialog : list message :=
  [Message false [Loc (Some "../forms/editaddressdialog.ui") "+14"]
     "Edit Address" true
     ["Editar dirección"];
   Message false [Loc None "+11"]
     "&amp;Label" true
     ["&amp;Etiqueta"];
   Message false [Loc None "+10"]
     "The label associated with this address list entry" true
     ["La etiqueta asociada a esta entrada de lista de direcciones"];
   Message false [Loc None "+7"]
     "&amp;Address" true
     ["&amp;Address"];
   Message false [Loc None "+10"]
     "The address associated with this address list entry. This can only be modified for sending addresses." true
     ["La dirección asociada a esta entrada de lista de direcciones. Esto solo se puede modificar para el envío de direcciones."];
   Message false [Loc (Some "../editaddressdialog.cpp") "+29"]
     "New receiving address" true
     ["Nueva dirección de recepción"];
   Message false [Loc None "+5"]
     "New sending address" true
     ["Nueva dirección de envío"];
   Message false [Loc None "+3"]
     "New Stake address" true
     ["Nueva dirección de estaca"];
   Message false [Loc None "+5"]
     "New ColdStake address" true
     ["Nueva dirección de ColdStake"];
   Message false [Loc None "+5"]
     "Edit receiving address" true
     ["Editar dirección de recepción"];
   Message false [Loc None "+4"]
     "Edit sending address" true
     ["Editar dirección de envío"];
   Message false [Loc None "+87"]
     "The entered address &quot;%1&quot; is not a valid Bitcoin Confidential address." true
     ["La dirección introducida &quot;%1&quot; no es una dirección confidencial de Bitcoin válida."];
   Message false [Loc None "+10"]
     "Could not unlock wallet." true
     ["No se pudo desbloquear la cartera."];
   Message false [Loc None "+5"]
     "New key generation failed." true
     ["Error en la nueva generación de claves."];
   Message false [Loc None "+18"]
     "Address &quot;%1&quot; already exists as a receiving address with label &quot;%2&quot; and so cannot be added as a sending address." true
     ["La dirección &quot;%1&quot; ya existe como una dirección de recepción con la etiqueta &quot;%2&quot; y por lo tanto no se puede agregar como una dirección de envío."];
   Message false [Loc None "+5"]
     "The entered address &quot;%1&quot; is already in the address book with label &quot;%2&quot;." true
     ["La dirección introducida &quot;%1&quot; ya está en la libreta de direcciones con la etiqueta &quot;%2&quot;."]].

Definition es_FreespaceChecker : list message :=
  [Message false [Loc (Some "../intro.cpp") "+78"]
     "A new data directory will be created." true
     ["Se creará un nuevo directorio de datos."];
   Message false [Loc None "+22"]
     "name" true
     ["Nombre"];
   Message false [Loc None "+2"]
     "Directory already exists. Add %1 if you intend to create a new directory here." true
     ["El directorio ya existe. Agregue %1 si desea crear un nuevo directorio aquí."];
   Message false [Loc None "+3"]
     "Path already exists, and is not a directory." true
     ["La ruta de acceso ya existe y no es un directorio."];
   Message false [Loc None "+7"]
     "Cannot create data directory here." true
     ["No se puede crear el directorio de datos aquí."]].

Definition es_HelpMessageDialog : list message :=
  [Message false [Loc (Some "../utilitydialog.cpp") "+41"]
     "version" true
     ["Versión"];
   Message false [Loc None "+5"; Loc None "+2"]
     "(%1-bit)" true
     ["(%1 bit)"];
   Message false [Loc None "+5"]
     "About %1" true
     ["Acerca de %1"];
   Message false [Loc None "+19"]
     "Command-line options" true
     ["Opciones de línea de comandos"]].

Definition es_Intro : list message :=
  [Message false [Loc (Some "../forms/intro.ui") "+14"]
     "Welcome" true
     ["Bienvenido"];
   Message false [Loc None "+9"]
     "Welcome to %1." true
     ["Bienvenido a %1."];
   Message false [Loc None "+26"]
     "As this is the first time the program is launched, you can choose where %1 will store its data." true
     ["Como esta es la primera vez que se inicia el programa, puede elegir dónde %1 almacenará sus datos."];
   Message false [Loc None "+17"]
     "Use the default data directory" true
     ["Utilice el directorio de datos predeterminado"];
   Message false [Loc None "+7"]
     "Use a custom data directory:" true
     ["Utilice un directorio de datos personalizado:"];
   Message false [Loc None "+140"]
     "When you click OK, %1 will begin to download and process the full %4 block chain (%2GB) starting with the earliest transactions in %3 when %4 initially launched." true
     ["Al hacer clic en Aceptar, %1 comenzará a descargar y procesar la cadena completa de bloques %4 (%2GB) a partir de las primeras transacciones en %3 cuando %4 se lanzó inicialmente."];
   Message false [Loc None "+10"]
     "This initial synchronisation is very demanding, and may expose hardware problems with your computer that had previously gone unnoticed. Each time you run %1, it will continue downloading where it left off." true
     ["Esta sincronización inicial es muy exigente, y puede exponer problemas de hardware con su equipo que anteriormente había pasado desapercibido. Cada vez que ejecute %1, continuará descargando donde lo dejó."];
   Message false [Loc None "+10"]
     "If you have chosen to limit block chain storage (pruning), the historical data must still be downloaded and processed, but will be deleted afterward to keep your disk usage low." true
     ["Si ha elegido limitar el almacenamiento en cadena de bloques (poda), los datos históricos deben descargarse y procesarse, pero se eliminarán después para mantener el uso del disco bajo."];
   Message false [Loc (Some "../intro.cpp") "+20"]
     "Bitcoin Confidential" true
     ["Bitcoin Confidencial"];
   Message false [Loc None "+6"]
     "At least %1 GB of data will be stored in this directory, and it will grow over time." true
     ["Al menos %1 GB de datos se almacenarán en este directorio y crecerá con el tiempo."];
   Message false [Loc None "+5"]
     "Approximately %1 GB of data will be stored in this directory." true
     ["Aproximadamente %1 GB de datos se almacenarán en este directorio."];
   Message false [Loc None "+8"]
     "%1 will download and store a copy of the Bitcoin Confidential block chain." true
     ["%1 descargará y almacenará una copia de la cadena de bloques Bitcoin Confidential."];
   Message false [Loc None "+2"]
     "The wallet will also be stored in this directory." true
     ["La cartera también se almacenará en este directorio."];
   Message false [Loc None "+73"]
     "Error: Specified data directory &quot;%1&quot; cannot be created." true
     ["Error: no se puede crear el directorio de datos especificado &quot;%1&quot;."];
   Message false [Loc None "+27"]
     "Error" true
     ["Error"];
   Message true [Loc None "+9"]
     "%n GB of free space available" true
     ["%n GB de espacio libre disponible"; "%n GB de espacio libre disponible"];
   Message true [Loc None "+3"]
     "(of %n GB needed)" true
     ["(de %n GB necesario)"; "(de %n GB necesario)"]].

Definition es_MnemonicDialog_1 : list message :=
  [Message false [Loc (Some "../forms/mnemonicdialog.ui") "+14"]
     "HD Wallet Setup" true
     ["Configuración de la cartera HD"];
   Message false [Loc None "+11"]
     "Generate a mnemonic" true
     ["Generar un mnemotécnico"];
   Message false [Loc None "+10"]
     "Create the wallet" true
     ["Crear la cartera"];
   Message false [Loc None "+22"]
     "Write down the Recovery Phrase/Mnemonic below or generate a new one with the desired settings by clicking &quot;NEW MNEMONIC&quot;. Store this phrase in a safe place. The clipboard will be cleared to ensure you have it recorded.  If you are recovering a backup, enter the Recovery Phrase/Mnemonic on the next screen.  Click the &quot;NEXT&quot; button to continue with the wallet creation." true
     ["Anote la frase de recuperación/Mnemotécnica a continuación o genere una nueva con la configuración deseada haciendo clic en &quot;NUEVA MNEMONIC&quot;. Guarde esta frase en un lugar seguro. El portapapeles se borrará para asegurarse de que lo tiene grabado.  Si está recuperando una copia de seguridad, introduzca la frase de recuperación/Mnemotécnica en la siguiente pantalla.  Haga clic en el botón &quot;Siguiente&quot; para continuar con la creación de la cartera."];
   Message false [Loc None "+36"]
     "Bytes of Entropy " true
     ["Bytes de entropía"];
   Message false [Loc None "+7"]
     "Language" true
     ["Lengua"];
   Message false [Loc None "+45"]
     "Entropy is an advanced feature. Your mnemonic may be insecure if this feature is used incorrectly." true
     ["La entropía es una característica avanzada. Su mnemotécnico puede ser inseguro si esta función se utiliza incorrectamente."];
   Message false [Loc None "+22"]
     "Select your language" true
     ["Seleccione su idioma"];
   Message false [Loc None "+4"]
     "English" true
     ["Inglés"];
   Message false [Loc None "+5"]
     "French" true
     ["Francés"];
   Message false [Loc None "+5"]
     "Japanese" true
     ["Japonés"];
   Message false [Loc None "+5"]
     "Spanish" true
     ["Español"];
   Message false [Loc None "+5"]
     "Chinese_s" true
     ["Chinese_s"];
   Message false [Loc None "+5"]
     "Chinese_t" true
     ["Chinese_t"];
   Message false [Loc None "+39"]
     "New mnemonic" true
     ["Nuevo mnemotécnico"];
   Message false [Loc None "+19"]
     "Next" true
     ["próximo"];
   Message false [Loc None "+19"; Loc None "+198"]
     "Cancel" true
     ["Cancelar"];
   Message false [Loc None "-148"]
     "Recovery Passphrase " true
     ["Contraseña de recuperación"];
   Message false [Loc None "+7"]
     "Import Chain" true
     ["Cadena de importación"];
   Message false [Loc None "+13"]
     "Warning" true
     ["Advertencia"];
   Message false [Loc None "+33"]
     "Enter a passphrase to protect your Recovery Phrase (optional)" true
     ["Introduzca una frase de contraseña para proteger su frase de recuperación (opcional)"];
   Message false [Loc None "+13"]
     "Only needed if you&apos;re importing " true
     ["Solo es necesario si está importando"];
   Message false [Loc None "+16"]
     "Please ensure you backup your Recovery Phrase and Passphrase - they are not recoverable!" true
     ["Por favor, asegúrese de hacer una copia de seguridad de su frase de recuperación y frase de contraseña - que no son recuperables!"];
   Message false [Loc None "+28"]
     "Back" true
     ["Atrás"];
   Message false [Loc None "+19"; Loc (Some "../mnemonicdialog.cpp") "+145"]
     "Import" true
     ["Importación"];
   Message false [Loc (Some "../mnemonicdialog.cpp") "-102"]
     "Optionally enter a passphrase to protect the Recovery Phrase. (This is not a wallet password.)" true
     ["Opcionalmente, escriba una frase de contraseña para proteger la frase de recuperación. (Esta no es una contraseña de monedero.)"];
   Message false [Loc None "+2"]
     "Enter the Recovery Phrase/Mnemonic." true
     ["Ingrese la frase de recuperación/Mnemonic."];
   Message false [Loc None "+26"]
     "Create wallet" true
     ["Crear monedero"];
   Message false [Loc None "+16"]
     "Generate a new Recovery Phrase/Mnemonic with the desired settings by clicking &quot;NEW MNEMONIC&quot;." true
     ["Genere una nueva frase de recuperación/Mnemotécnica con la configuración deseada haciendo clic en &quot;NUEVA MNEMONIC&quot;."]].

Definition es_MnemonicDialog_2 : list message :=
  [Message false [Loc None "+5"]
     "Import a mnemonic" true
     ["Importar un mnemotécnico"];
   Message false [Loc None "+28"]
     "Confirm wallet creation cancel" true
     ["Confirmar cancelación de creación de monedero"];
   Message false [Loc None "+1"]
     "Are you sure you want to cancel the wallet creation?" true
     ["¿Está seguro de que desea cancelar la creación de la billetera?"];
   Message false [Loc None "+0"]
     "This is only recommended for advanced users to import with custom settings in the debug console or with the RPC interface." true
     ["Esto solo se recomienda para que los usuarios avanzados importen con la configuración personalizada en la consola de depuración o con la interfaz RPC."]].

Definition es_ModalOverlay : list message :=
  [Message false [Loc (Some "../forms/modaloverlay.ui") "+14"]
     "Form" true
     ["Forma"];
   Message false [Loc None "+122"]
     "Recent transactions may not yet be visible, and therefore your wallet&apos;s balance might be incorrect. This information will be correct once your wallet has finished synchronizing with the Bitcoin Confidential network, as detailed below." true
     ["Es posible que las transacciones recientes aún no estén visibles y, por lo tanto, el saldo de su monedero sea incorrecto. Esta información será correcta una vez que su billetera haya terminado de sincronizarse con la red Bitcoin Confidential, como se detalla a continuación."];
   Message false [Loc None "+19"]
     "Attempting to spend coins that are affected by not-yet-displayed transactions will not be accepted by the network." true
     ["La red no aceptará el intento de gastar monedas que se vean afectadas por transacciones que aún no se muestran."];
   Message false [Loc None "+63"]
     "Number of blocks left" true
     ["Número de bloques restantes"];
   Message false [Loc None "+7"; Loc None "+26"; Loc (Some "../modaloverlay.cpp") "+140"]
     "Unknown..." true
     ["Desconocido..."];
   Message false [Loc None "-13"]
     "Last block time" true
     ["Tiempo del último bloque"];
   Message false [Loc None "+26"]
     "Progress" true
     ["Progreso"];
   Message false [Loc None "+34"]
     "Progress increase per hour" true
     ["Aumento del progreso por hora"];
   Message false [Loc None "+7"; Loc None "+20"]
     "calculating..." true
     ["Calcular..."];
   Message false [Loc None "-7"]
     "Estimated time left until synced" true
     ["Tiempo estimado restante hasta que se sincronice"];
   Message false [Loc None "+40"]
     "Hide" true
     ["Ocultar"];
   Message false [Loc (Some "../modaloverlay.cpp") "-1"]
     "Unknown. Syncing Headers (%1)..." true
     ["Desconocido. Sincronización de encabezados (%1)..."]].

Definition es_OpenURIDialog : list message :=
  [Message false [Loc (Some "../forms/openuridialog.ui") "+14"]
     "Open URI" true
     ["URI abierto"];
   Message false [Loc None "+6"]
     "Open payment request from URI or file" true
     ["Solicitud de pago abierta desde URI o archivo"];
   Message false [Loc None "+9"]
     "URI:" true
     ["Uri:"];
   Message false [Loc None "+10"]
     "Select payment request file" true
     ["Seleccione el archivo de solicitud de pago"];
   Message false [Loc (Some "../openuridialog.cpp") "+45"]
     "Select payment request file to open" true
     ["Seleccione el archivo de solicitud de pago para abrir"]].

Definition es_OptionsDialog_1 : list message :=
  [Message false [Loc (Some "../forms/optionsdialog.ui") "+14"]
     "Options" true
     ["Opciones"];
   Message false [Loc None "+14"]
     "&amp;Main" true
     ["&amp;Main"];
   Message false [Loc None "+13"]
     "W&amp;allet" true
     ["W&amp;allet"];
   Message false [Loc None "+13"]
     "&amp;Network" true
     ["&amp;Network"];
   Message false [Loc None "+13"]
     "&amp;Window" true
     ["&amp;Ventana"];
   Message false [Loc None "+13"]
     "&amp;Display" true
     ["&amp;gt; Display"];
   Message false [Loc None "+22"]
     "Automatically start %1 after logging in to the system." true
     ["Inicie automáticamente %1 después de iniciar sesión en el sistema."];
   Message false [Loc None "+3"]
     "&amp;Start %1 on system login" true
     ["&amp;Start %1 en el inicio de sesión del sistema"];
   Message false [Loc None "+22"]
     "Disables some advanced features but all blocks will still be fully validated. Reverting this setting requires re-downloading the entire blockchain. Actual disk usage may be somewhat higher." true
     ["Deshabilita algunas características avanzadas, pero todos los bloques seguirán siendo completamente validados. Revertir esta configuración requiere volver a descargar toda la cadena de bloques. El uso real del disco puede ser algo mayor."];
   Message false [Loc None "+3"]
     "Prune &amp;block storage to" true
     ["Prune &amp;block storage to"];
   Message false [Loc None "+17"]
     "GB" true
     ["Gb"];
   Message false [Loc None "+25"]
     "Reverting this setting requires re-downloading the entire blockchain." true
     ["Revertir esta configuración requiere volver a descargar toda la cadena de bloques."];
   Message false [Loc None "+12"]
     "Size of &amp;database cache" true
     ["Tamaño de la caché de la base de datos"];
   Message false [Loc None "+23"]
     "MB" true
     ["Mb"];
   Message false [Loc None "+27"]
     "Number of script &amp;verification threads" true
     ["Número de subprocesos de script y verificación"];
   Message false [Loc None "+19"]
     "(0 = auto, &lt;0 = leave that many cores free)" true
     ["(0o automático,&lt;0 = leave that many cores free) ==&quot;&quot; leave=&quot;&quot; that=&quot;&quot; many=&quot;&quot; cores=&quot;&quot;&gt;&lt;/0 = leave that many cores free)&gt;"];
   Message false [Loc None "+39"]
     "Expert" true
     ["Experto"];
   Message false [Loc None "+6"]
     "Whether to show coin control features or not." true
     ["Mostrar o no las funciones de control de monedas."];
   Message false [Loc None "+3"]
     "Enable coin &amp;control features" true
     ["Activar las funciones de control de monedas"];
   Message false [Loc None "+7"]
     "If you disable the spending of unconfirmed change, the change from a transaction cannot be used until that transaction has at least one confirmation. This also affects how your balance is computed." true
     ["Si deshabilita el gasto de cambio no confirmado, el cambio de una transacción no se puede utilizar hasta que esa transacción tenga al menos una confirmación. Esto también afecta a cómo se calcula el saldo."];
   Message false [Loc None "+3"]
     "&amp;Spend unconfirmed change" true
     ["&amp;spend unsconfirmed change"];
   Message false [Loc None "+7"]
     "Display notification dialog for incoming stake transactions." true
     ["Mostrar el cuadro de diálogo de notificación para las transacciones de estaca entrantes."];
   Message false [Loc None "+3"]
     "&amp;Show incoming stake notifications" true
     ["&amp;gt; Mostrar notificaciones de participación entrantes"];
   Message false [Loc None "+27"]
     "Automatically open the Bitcoin Confidential client port on the router. This only works when your router supports UPnP and it is enabled." true
     ["Abra automáticamente el puerto de cliente Bitcoin Confidential en el router. Esto sólo funciona cuando su router es compatible con UPnP y está habilitado."];
   Message false [Loc None "+3"]
     "Map port using &amp;UPnP" true
     ["Asignar puerto usando &amp;UPnP"];
   Message false [Loc None "+7"]
     "Accept connections from outside." true
     ["Acepte conexiones desde el exterior."];
   Message false [Loc None "+3"]
     "Allow incomin&amp;g connections" true
     ["Permitir conexiones incomin&amp;g"];
   Message false [Loc None "+7"]
     "Connect to the Bitcoin Confidential network through a SOCKS5 proxy." true
     ["Conéctese a la red Bitcoin Confidential a través de un proxy SOCKS5."];
   Message false [Loc None "+3"]
     "&amp;Connect through SOCKS5 proxy (default proxy):" true
     ["&amp;Connect through SOCKS5 proxy (proxy predeterminado):"]].

Definition es_OptionsDialog_2 : list message :=
  [Message false [Loc None "+9"; Loc None "+193"]
     "Proxy &amp;IP:" true
     ["Proxy &amp;sip:"];
   Message false [Loc None "-168"; Loc None "+193"]
     "IP address of the proxy (e.g. IPv4: 127.0.0.1 / IPv6: ::1)" true
     ["Dirección IP del proxy (por ejemplo, IPv4: 127.0.0.1 / IPv6: ::1)"];
   Message false [Loc None "-183"; Loc None "+193"]
     "&amp;Port:" true
     ["&amp;Puerto:"];
   Message false [Loc None "-168"; Loc None "+193"]
     "Port of the proxy (e.g. 9050)" true
     ["Puerto del proxy (por ejemplo, 9050)"];
   Message false [Loc None "-166"]
     "Used for reaching peers via:" true
     ["Se utiliza para llegar a los pares a través de:"];
   Message false [Loc None "+13"; Loc None "+23"; Loc None "+23"]
     "Shows if the supplied default SOCKS5 proxy is used to reach peers via this network type." true
     ["Muestra si el proxy SOCKS5 predeterminado proporcionado se utiliza para llegar a los pares a través de este tipo de red."];
   Message false [Loc None "-36"]
     "IPv4" true
     ["IPv4"];
   Message false [Loc None "+23"]
     "IPv6" true
     ["IPv6"];
   Message false [Loc None "+23"]
     "Tor" true
     ["Tor"];
   Message false [Loc None "+25"]
     "Connect to the Bitcoin Confidential network through a separate SOCKS5 proxy for Tor hidden services." true
     ["Conéctese a la red Bitcoin Confidential a través de un proxy SOCKS5 independiente para los servicios ocultos de Tor."];
   Message false [Loc None "+3"]
     "Use separate SOCKS&amp;5 proxy to reach peers via Tor hidden services:" true
     ["Utilice el proxy SOCKS&amp;5 separado para llegar a sus pares a través de los servicios ocultos de Tor:"];
   Message false [Loc None "+111"]
     "Hide the icon from the system tray." true
     ["Oculte el icono de la bandeja del sistema."];
   Message false [Loc None "+3"]
     "&amp;Hide tray icon" true
     ["Icono de la bandeja &amp;sin conexión"];
   Message false [Loc None "+7"]
     "Show only a tray icon after minimizing the window." true
     ["Mostrar sólo un icono de bandeja después de minimizar la ventana."];
   Message false [Loc None "+3"]
     "&amp;Minimize to the tray instead of the taskbar" true
     ["&amp;minimizar a la bandeja en lugar de en la barra de tareas"];
   Message false [Loc None "+7"]
     "Minimize instead of exit the application when the window is closed. When this option is enabled, the application will be closed only after selecting Exit in the menu." true
     ["Minimice en lugar de salir de la aplicación cuando se cierre la ventana. Cuando esta opción está habilitada, la aplicación se cerrará solo después de seleccionar Salir en el menú."];
   Message false [Loc None "+3"]
     "M&amp;inimize on close" true
     ["M&amp;inimize en el cierre"];
   Message false [Loc None "+26"]
     "User Interface &amp;language:" true
     ["Interfaz de usuario e idioma:"];
   Message false [Loc None "+22"]
     "The user interface language can be set here. This setting will take effect after restarting %1." true
     ["El idioma de la interfaz de usuario se puede establecer aquí. Esta configuración surtirá efecto después de reiniciar %1."];
   Message false [Loc None "+11"]
     "&amp;Unit to show amounts in:" true
     ["&amp;Unidad para mostrar los montos en:"];
   Message false [Loc None "+22"]
     "Choose the default subdivision unit to show in the interface and when sending coins." true
     ["Elija la unidad de subdivisión predeterminada que se mostrará en la interfaz y al enviar monedas."];
   Message false [Loc None "+11"; Loc None "+22"]
     "Third party URLs (e.g. a block explorer) that appear in the transactions tab as context menu items. %s in the URL is replaced by transaction hash. Multiple URLs are separated by vertical bar |." true
     ["DIRECCIONs URL de terceros (por ejemplo, un explorador de bloques) que aparecen en la pestaña transacciones como elementos de menú contextual. %s en la dirección URL se reemplaza por hash de transacción. Varias direcciones URL están separadas por la barra vertical."];
   Message false [Loc None "-19"]
     "&amp;Third party transaction URLs" true
     ["&amp;Url de transacciones de terceros"];
   Message false [Loc None "+50"]
     "Active command-line options that override above options:" true
     ["Opciones de línea de comandos activas que anulan las opciones anteriores:"];
   Message false [Loc None "+45"]
     "Open the %1 configuration file from the working directory." true
     ["Abra el archivo de configuración %1 desde el directorio de trabajo."];
   Message false [Loc None "+3"]
     "Open Configuration File" true
     ["Abrir archivo de configuración"];
   Message false [Loc None "+10"]
     "Reset all client options to default." true
     ["Restablezca todas las opciones de cliente a la predeterminada."];
   Message false [Loc None "+3"]
     "&amp;Reset Options" true
     ["&amp;gt; Opciones de restablecimiento"]].

Definition es_OptionsDialog_3 : list message :=
  [Message false [Loc None "+80"]
     "&amp;OK" true
     ["&amp;OK"];
   Message false [Loc None "+13"]
     "&amp;Cancel" true
     ["&amp;Cancelar"];
   Message false [Loc (Some "../optionsdialog.cpp") "+109"]
     "default" true
     ["Predeterminado"];
   Message false [Loc None "+56"]
     "none" true
     ["Ninguno"];
   Message false [Loc None "+82"]
     "Confirm options reset" true
     ["Confirmar restablecimiento de opciones"];
   Message false [Loc None "+1"; Loc None "+60"]
     "Client restart required to activate changes." true
     ["Reinicio del cliente necesario para activar los cambios."];
   Message false [Loc None "-60"]
     "Client will be shut down. Do you want to proceed?" true
     ["El cliente será cerrado. ¿Quieres continuar?"];
   Message false [Loc None "+15"]
     "Configuration options" true
     ["Opciones de configuración"];
   Message false [Loc None "+1"]
     "The configuration file is used to specify advanced user options which override GUI settings. Additionally, any command-line options will override this configuration file." true
     ["El archivo de configuración se utiliza para especificar opciones de usuario avanzadas que invalidan la configuración de la GUI. Además, cualquier opción de línea de comandos invalidará este archivo de configuración."];
   Message false [Loc None "+5"]
     "Error" true
     ["Error"];
   Message false [Loc None "+0"]
     "The configuration file could not be opened." true
     ["No se ha podido abrir el archivo de configuración."];
   Message false [Loc None "+43"]
     "This change would require a client restart." true
     ["Este cambio requeriría un reinicio del cliente."];
   Message false [Loc None "+28"]
     "The supplied proxy address is invalid." true
     ["La dirección proxy proporcionada no es válida."]].

Definition es_OverviewPage : list message :=
  [Message false [Loc (Some "../forms/overviewpage.ui") "+14"]
     "Form" true
     ["Forma"];
   Message false [Loc None "+43"]
     "Bitcoin Confidential Core" true
     ["Núcleo confidencial de Bitcoin"];
   Message false [Loc None "+38"; Loc None "+114"; Loc None "+210"]
     "Pending" true
     ["Pendiente"];
   Message false [Loc None "-308"]
     "Spending" true
     ["Gasto"];
   Message false [Loc None "+108"]
     "Watch-only" true
     ["Sólo mira"];
   Message false [Loc None "+73"; Loc None "+191"]
     "Available" true
     ["Disponible"];
   Message false [Loc None "-181"]
     "Spendable" true
     ["Gastable"];
   Message false [Loc None "+41"]
     "Staking" true
     ["Staking"];
   Message false [Loc None "+130"]
     "Immature" true
     ["Inmaduro"];
   Message false [Loc None "+86"]
     "Total" true
     ["Total"];
   Message false [Loc None "+90"]
     "Recent transactions" true
     ["Transacciones recientes"];
   Message false [Loc None "+19"]
     "The displayed information may be out of date. Your wallet automatically synchronizes with the Bitcoin Confidential network after a connection is established, but this process has not completed yet." true
     ["La información mostrada puede estar desactualizada. Su billetera se sincroniza automáticamente con la red Bitcoin Confidential después de establecer una conexión, pero este proceso aún no se ha completado."]].

Definition es_PaymentServer : list message :=
  [Message false [Loc (Some "../paymentserver.cpp") "+317"; Loc None "+215"; Loc None "+42"; Loc None "+110"; Loc None "+14"; Loc None "+18"]
     "Payment request error" true
     ["Error de solicitud de pago"];
   Message false [Loc None "-398"]
     "Cannot start bitcoinc: click-to-pay handler" true
     ["No se puede iniciar bitcoinc: click-to-pay handler"];
   Message false [Loc None "+82"; Loc None "+21"; Loc None "+13"; Loc None "+7"]
     "URI handling" true
     ["Manejo de URI"];
   Message false [Loc None "-41"]
     "&apos;bitcoin://&apos; is not a valid URI. Use &apos;bitcoin:&apos; instead." true
     ["&apos;bitcoin://&apos; no es un URI válido. Utilice &apos;bitcoin:&apos; en su lugar."];
   Message false [Loc None "+22"]
     "Payment request fetch URL is invalid: %1" true
     ["La URL de captura de solicitud de pago no es válida: %1"];
   Message false [Loc None "+12"]
     "Invalid payment address %1" true
     ["Dirección de pago no válida %1"];
   Message false [Loc None "+8"]
     "URI cannot be parsed! This can be caused by an invalid Bitcoin Confidential address or malformed URI parameters." true
     ["¡No se puede analizar URI! Esto puede deberse a una dirección Confidencial bitcoin no válida o a parámetros URI con formato incorrecto."];
   Message false [Loc None "+13"]
     "Payment request file handling" true
     ["Gestión de archivos de solicitud de pago"];
   Message false [Loc None "+1"]
     "Payment request file cannot be read! This can be caused by an invalid payment request file." true
     ["¡El archivo de solicitud de pago no se puede leer! Esto puede deberse a un archivo de solicitud de pago no válido."];
   Message false [Loc None "+61"; Loc None "+9"; Loc None "+31"; Loc None "+10"; Loc None "+17"; Loc None "+85"]
     "Payment request rejected" true
     ["Solicitud de pago rechazada"];
   Message false [Loc None "-152"]
     "Payment request network doesn&apos;t match client network." true
     ["La red de solicitudes de pago no coincide con la red del cliente."];
   Message false [Loc None "+9"]
     "Payment request expired." true
     ["La solicitud de pago expiró."];
   Message false [Loc None "+6"]
     "Payment request is not initialized." true
     ["La solicitud de pago no se inicializa."];
   Message false [Loc None "+26"]
     "Unverified payment requests to custom payment scripts are unsupported." true
     ["No se admiten las solicitudes de pago no verificadas a scripts de pago personalizados."];
   Message false [Loc None "+9"; Loc None "+17"]
     "Invalid payment request." true
     ["Solicitud de pago no válida."];
   Message false [Loc None "-10"]
     "Requested payment amount of %1 is too small (considered dust)." true
     ["El importe de pago solicitado de %1 es demasiado pequeño (considerado polvo)."];
   Message false [Loc None "+65"]
     "Refund from %1" true
     ["Reembolso desde %1"];
   Message false [Loc None "+31"]
     "Payment request %1 is too large (%2 bytes, allowed %3 bytes)." true
     ["La solicitud de pago %1 es demasiado grande (%2 bytes, %3 bytes permitidos)."];
   Message false [Loc None "+9"]
     "Error communicating with %1: %2" true
     ["Error de comunicación con %1: %2"];
   Message false [Loc None "+20"]
     "Payment request cannot be parsed!" true
     ["¡La solicitud de pago no se puede analizar!"];
   Message false [Loc None "+13"]
     "Bad response from server %1" true
     ["Mala respuesta del servidor %1"];
   Message false [Loc None "+22"]
     "Network request error" true
     ["Error de solicitud de red"];
   Message false [Loc None "+11"]
     "Payment acknowledged" true
     ["Pago reconocido"]].

Definition es_PeerTableModel : list message :=
  [Message false [Loc (Some "../peertablemodel.cpp") "+109"]
     "NodeId" true
     ["NodeId"];
   Message false [Loc None "+0"]
     "Node/Service" true
     ["Nodo/Servicio"];
   Message false [Loc None "+0"]
     "Ping" true
     ["Señal"];
   Message false [Loc None "+0"]
     "Sent" true
     ["Enviado"];
   Message false [Loc None "+0"]
     "Received" true
     ["Recibido"];
   Message false [Loc None "+0"]
     "User Agent" true
     ["Agente de usuario"]].

Definition es_QObject : list message :=
  [Message false [Loc (Some "../bitcoinunits.cpp") "+196"]
     "Amount" true
     ["Cantidad"];
   Message false [Loc (Some "../guiutil.cpp") "+96"]
     "Enter Spending address" true
     ["Ingrese la dirección de gasto"];
   Message false [Loc None "+12"]
     "Enter ColdStake address" true
     ["Introduzca la dirección de ColdStake"];
   Message false [Loc None "+2"]
     "Enter Stake address of remote node" true
     ["Introduzca la dirección de estaca del nodo remoto"];
   Message false [Loc None "+2"]
     "Enter Stake address" true
     ["Ingrese la dirección de la estaca"];
   Message false [Loc None "+687"]
     "%1 d" true
     ["%1 d"];
   Message false [Loc None "+2"]
     "%1 h" true
     ["%1 h"];
   Message false [Loc None "+2"]
     "%1 m" true
     ["%1 m"];
   Message false [Loc None "+2"; Loc None "+53"]
     "%1 s" true
     ["%1 s"];
   Message false [Loc None "-10"]
     "None" true
     ["Ninguno"];
   Message false [Loc None "+5"]
     "N/A" true
     ["N/A"];
   Message false [Loc None "+0"]
     "%1 ms" true
     ["%1 ms"];
   Message true [Loc None "+18"]
     "%n second(s)" true
     ["%n segundo(s)"; "%n segundo(s)"];
   Message true [Loc None "+4"]
     "%n minute(s)" true
     ["%n minutos (s)"; "%n minutos (s)"];
   Message true [Loc None "+4"]
     "%n hour(s)" true
     ["%n hora(s)"; "%n hora(s)"];
   Message true [Loc None "+4"]
     "%n day(s)" true
     ["%n día(s)"; "%n día(s)"];
   Message true [Loc None "+4"; Loc None "+6"]
     "%n week(s)" true
     ["%n semana(s)"; "%n semana(s)"];
   Message false [Loc None "+0"]
     "%1 and %2" true
     ["%1 y %2"];
   Message true [Loc None "+0"]
     "%n year(s)" true
     ["%n año(s)"; "%n año(s)"];
   Message false [Loc None "+8"]
     "%1 B" true
     ["%1 B"];
   Message false [Loc None "+2"]
     "%1 KB" true
     ["%1 KB"];
   Message false [Loc None "+2"]
     "%1 MB" true
     ["%1 MB"];
   Message false [Loc None "+2"]
     "%1 GB" true
     ["%1 GB"];
   Message false [Loc None "+71"]
     "All spending funds are sent and received anonymously. Only the sender and receiver have details of their side of the transaction. Staking funds need to be converted to spending before sending out of wallet. Funds require %1 confirmations (%2 minutes) before sending." true
     ["Todos los fondos de gastos se envían y reciben de forma anónima. Solo el remitente y el receptor tienen detalles de su lado de la transacción. Los fondos de las pymes deben convertirse en gastos antes de enviarlos de cartera. Los fondos requieren %1 confirmaciones (%2 minutos) antes del envío."];
   Message false [Loc None "+15"]
     "Staking funds cannot be sent out of your wallet without converting to spending. After converting to spending, %1 confirmations (%2 minutes) are required before sending." true
     ["Los fondos de las pymes no se pueden enviar fuera de su billetera sin convertirse en gastos. Después de convertir al gasto, se requieren %1 confirmaciones (%2 minutos) antes de enviar."];
   Message false [Loc (Some "../modaloverlay.cpp") "-29"]
     "unknown" true
     ["Desconocido"];
   Message false [Loc (Some "../bitcoin.cpp") "+186"]
     "%1 didn&apos;t yet exit safely..." true
     ["%1 aún no salió con seguridad..."]].

Definition es_QObject__QObject : list message :=
  [Message false [Loc None "-117"]
     "Error parsing command line arguments: %1." true
     ["Error al analizar argumentos de línea de comandos: %1."];
   Message false [Loc None "+38"]
     "Error: Specified data directory &quot;%1&quot; does not exist." true
     ["Error: el directorio de datos especificado &quot;%1&quot; no existe."];
   Message false [Loc None "+5"]
     "Error: Cannot parse configuration file: %1." true
     ["Error: No se puede analizar el archivo de configuración: %1."];
   Message false [Loc None "+14"]
     "Error: %1" true
     ["Error: %1"]].

Definition es_QRImageWidget : list message :=
  [Message false [Loc (Some "../receiverequestdialog.cpp") "+32"]
     "&amp;Save Image..." true
     ["&amp;guardar imagen..."];
   Message false [Loc None "+3"]
     "&amp;Copy Image" true
     ["&amp;copiar imagen"];
   Message false [Loc None "+32"]
     "Save QR Code" true
     ["Guardar código QR"];
   Message false [Loc None "+0"]
     "PNG Image (*.png)" true
     ["Imagen PNG (*.png)"]].

Definition es_RPCConsole_1 : list message :=
  [Message false [Loc (Some "../forms/debugwindow.ui") "+14"]
     "Debug window" true
     ["Ventana de depuración"];
   Message false [Loc None "+11"]
     "Information" true
     ["Información"];
   Message false [Loc None "+13"]
     "Console" true
     ["Consola"];
   Message false [Loc None "+10"]
     "Network Traffic" true
     ["Tráfico de red"];
   Message false [Loc None "+10"]
     "Peers" true
     ["Compañeros"];
   Message false [Loc None "+21"; Loc None "+1004"]
     "User Agent" true
     ["Agente de usuario"];
   Message false [Loc None "-988"]
     "Block chain" true
     ["Cadena de bloques"];
   Message false [Loc None "+7"]
     "Client version" true
     ["Versión del cliente"];
   Message false [Loc None "+13"]
     "General" true
     ["General"];
   Message false [Loc None "+13"]
     "Memory Pool" true
     ["Piscina de memoria"];
   Message false [Loc None "+7"]
     "Current number of blocks" true
     ["Número actual de bloques"];
   Message false [Loc None "+13"]
     "Network" true
     ["Red"];
   Message false [Loc None "+7"]
     "Number of connections" true
     ["Número de conexiones"];
   Message false [Loc None "+7"]
     "Startup time" true
     ["Tiempo de inicio"];
   Message false [Loc None "+7"]
     "Name" true
     ["Nombre"];
   Message false [Loc None "+7"]
     "Last block time" true
     ["Tiempo del último bloque"];
   Message false [Loc None "+7"]
     "Using BerkeleyDB version" true
     ["Uso de la versión BerkeleyDB"];
   Message false [Loc None "+10"]
     "Datadir" true
     ["Datadir"];
   Message false [Loc None "+7"]
     "Memory usage" true
     ["Uso de memoria"];
   Message false [Loc None "+7"]
     "Current number of transactions" true
     ["Número actual de transacciones"];
   Message false [Loc None "+10"; Loc None "+16"; Loc None "+16"; Loc None "+16"; Loc None "+19"; Loc None "+16"; Loc None "+16"; Loc None "+16"; Loc None "+16"; Loc None "+16"; Loc None "+16"; Loc None "+644"; Loc None "+23"; Loc None "+23"; Loc None "+23"; Loc None "+23"; Loc None "+23"; Loc None "+23"; Loc None "+23"; Loc None "+23"; Loc None "+23"; Loc None "+23"; Loc None "+23"; Loc None "+23"; Loc None "+23"; Loc None "+23"; Loc None "+26"; Loc None "+23"; Loc None "+23"]
     "N/A" true
     ["N/A"];
   Message false [Loc None "-988"]
     "Debug log file" true
     ["Archivo de registro de depuración"];
   Message false [Loc None "+7"]
     "Open the %1 debug log file from the current data directory. This can take a few seconds for large log files." true
     ["Abra el archivo de registro de depuración %1 desde el directorio de datos actual. Esto puede tardar unos segundos para los archivos de registro grandes."]].

Definition es_RPCConsole_2 : list message :=
  [Message false [Loc None "+3"]
     "&amp;Open" true
     ["&amp;Open"];
   Message false [Loc None "+25"]
     "Wallet: " true
     ["billetera:"];
   Message false [Loc None "+8"]
     "(none)" true
     ["(ninguno)"];
   Message false [Loc None "+27"]
     "Decrease font size" true
     ["Disminuir el tamaño de fuente"];
   Message false [Loc None "+32"]
     "Increase font size" true
     ["Aumentar el tamaño de fuente"];
   Message false [Loc None "+32"]
     "Clear console" true
     ["Consola transparente"];
   Message false [Loc None "+111"]
     "&amp;Reset" true
     ["&amp;reset"];
   Message false [Loc None "+16"]
     "Totals" true
     ["Totales"];
   Message false [Loc None "+67"; Loc None "+555"]
     "Received" true
     ["Recibido"];
   Message false [Loc None "-475"; Loc None "+452"]
     "Sent" true
     ["Enviado"];
   Message false [Loc None "-361"]
     "Banned peers" true
     ["Compañeros prohibidos"];
   Message false [Loc None "+60"; Loc (Some "../rpcconsole.cpp") "+510"; Loc None "+760"]
     "Select a peer to view detailed information." true
     ["Seleccione un par para ver información detallada."];
   Message false [Loc None "+25"]
     "Whitelisted" true
     ["Lista blanca"];
   Message false [Loc None "+23"]
     "Direction" true
     ["Dirección"];
   Message false [Loc None "+23"]
     "Version" true
     ["Versión"];
   Message false [Loc None "+46"]
     "Services" true
     ["Servicios"];
   Message false [Loc None "+23"]
     "Starting Block" true
     ["Bloqueo de inicio"];
   Message false [Loc None "+23"]
     "Synced Headers" true
     ["Encabezados sincronizados"];
   Message false [Loc None "+23"]
     "Synced Blocks" true
     ["Bloques sincronizados"];
   Message false [Loc None "+23"]
     "Ban Score" true
     ["Puntuación de prohibición"];
   Message false [Loc None "+23"]
     "Connection Time" true
     ["Tiempo de conexión"];
   Message false [Loc None "+23"]
     "Last Send" true
     ["Last Send"];
   Message false [Loc None "+23"]
     "Last Receive" true
     ["Ultima recepción"];
   Message false [Loc None "+69"]
     "Ping Time" true
     ["Tiempo de ping"];
   Message false [Loc None "+23"]
     "The duration of a currently outstanding ping." true
     ["La duración de un ping actualmente pendiente."];
   Message false [Loc None "+3"]
     "Ping Wait" true
     ["Ping Wait"];
   Message false [Loc None "+23"]
     "Min Ping" true
     ["Min Ping"];
   Message false [Loc None "+23"]
     "Time Offset" true
     ["Desplazamiento de tiempo"];
   Message false [Loc (Some "../rpcconsole.cpp") "-667"]
     "&amp;Disconnect" true
     ["&amp;desconectar"]].

Definition es_RPCConsole_3 : list message :=
  [Message false [Loc None "+1"; Loc None "+1"; Loc None "+1"; Loc None "+1"]
     "Ban for" true
     ["Prohibición de"];
   Message false [Loc None "-3"]
     "1 &amp;hour" true
     ["1 &amp;hora"];
   Message false [Loc None "+1"]
     "1 &amp;day" true
     ["1 &amp;día"];
   Message false [Loc None "+1"]
     "1 &amp;week" true
     ["1 &amp;semana"];
   Message false [Loc None "+1"]
     "1 &amp;year" true
     ["1 &amp;año"];
   Message false [Loc None "+48"]
     "&amp;Unban" true
     ["&amp;Unban"];
   Message false [Loc None "+54"]
     "default wallet" true
     ["monedero por defecto"];
   Message false [Loc None "+110"]
     "Welcome to the %1 RPC console." true
     ["Bienvenido a la consola RPC %1."];
   Message false [Loc None "+1"]
     "Use up and down arrows to navigate history, and %1 to clear screen." true
     ["Utilice las flechas arriba y abajo para navegar por el historial y %1 para borrar la pantalla."];
   Message false [Loc None "+1"]
     "Type %1 for an overview of available commands." true
     ["Escriba %1 para obtener una visión general de los comandos disponibles."];
   Message false [Loc None "+1"]
     "For more information on using this console type %1." true
     ["Para obtener más información sobre el uso de esta consola, escriba %1."];
   Message false [Loc None "+2"]
     "WARNING: Scammers have been active, telling users to type commands here, stealing their wallet contents. Do not use this console without fully understanding the ramifications of a command." true
     ["ADVERTENCIA: Los estafadores han estado activos, diciendo a los usuarios que escriban comandos aquí, robando su contenido de la cartera. No utilice esta consola sin comprender completamente las ramificaciones de un comando."];
   Message false [Loc None "+32"]
     "In:" true
     ["En:"];
   Message false [Loc None "+1"]
     "Out:" true
     ["Salida:"];
   Message false [Loc None "+3"]
     "Network activity disabled" true
     ["Actividad de red desactivada"];
   Message false [Loc None "+68"]
     "Executing command without any wallet" true
     ["Ejecución de comandos sin cartera"];
   Message false [Loc None "+2"]
     "Executing command using &quot;%1&quot; wallet" true
     ["Ejecución del comando mediante el monedero &quot;%1&quot;"];
   Message false [Loc None "+190"]
     "(node id: %1)" true
     ["(identificador de nodo: %1)"];
   Message false [Loc None "+2"]
     "via %1" true
     ["a través de %1"];
   Message false [Loc None "+3"; Loc None "+1"]
     "never" true
     ["Nunca"];
   Message false [Loc None "+10"]
     "Inbound" true
     ["Entrantes"];
   Message false [Loc None "+0"]
     "Outbound" true
     ["Saliente"];
   Message false [Loc None "+2"]
     "Yes" true
     ["Sí"];
   Message false [Loc None "+0"]
     "No" true
     ["No"];
   Message false [Loc None "+12"; Loc None "+6"]
     "Unknown" true
     ["Desconocido"]].

Definition es_ReceiveCoinsDialog : list message :=
  [Message false [Loc (Some "../forms/receivecoinsdialog.ui") "+59"]
     "Stake" true
     ["apostar"];
   Message false [Loc None "+5"]
     "ColdStake" true
     ["ColdStake"];
   Message false [Loc None "+14"]
     "&amp;Request payment" true
     ["&amp;repide el pago"];
   Message false [Loc None "+17"]
     "Clear all fields of the form." true
     ["Borre todos los campos del formulario."];
   Message false [Loc None "+3"]
     "Clear" true
     ["Claro"];
   Message false [Loc None "+56"; Loc None "+79"]
     "An optional amount to request. Leave this empty or zero to not request a specific amount." true
     ["Una cantidad opcional para solicitar. Deje esto vacío o cero para no solicitar una cantidad específica."];
   Message false [Loc None "-57"]
     "Use bech32 encoding." true
     ["Utilice la codificación bech32."];
   Message false [Loc None "+3"]
     "Generate native segwit (Bech32) address" true
     ["Generar dirección de segwit nativo (Bech32)"];
   Message false [Loc None "+22"; Loc None "+55"]
     "An optional label to associate with the new receiving address." true
     ["Una etiqueta opcional para asociar con la nueva dirección de recepción."];
   Message false [Loc None "-52"]
     "&amp;Label:" true
     ["&amp;etiqueta:"];
   Message false [Loc None "+13"; Loc None "+53"]
     "An optional message to attach to the payment request, which will be displayed when the request is opened. Note: The message will not be sent with the payment over the Bitcoin Confidential network." true
     ["Un mensaje opcional para adjuntar a la solicitud de pago, que se mostrará cuando se abra la solicitud. Nota: El mensaje no se enviará con el pago a través de la red Bitcoin Confidential."];
   Message false [Loc None "-50"]
     "&amp;Message:" true
     ["&amp;Mensaje:"];
   Message false [Loc None "+16"]
     "&amp;Amount:" true
     ["&amp;Cantidad:"];
   Message false [Loc None "+13"]
     "Use this form to request payments. All fields are &lt;b&gt;optional&lt;/b&gt;." true
     ["Utilice este formulario para solicitar pagos. Todos los &lt;b&gt;&lt;/b&gt;campos son opcionales."];
   Message false [Loc None "+63"]
     "Requested payments history" true
     ["Historial de pagos solicitado"];
   Message false [Loc None "+31"]
     "Show the selected request (does the same as double clicking an entry)" true
     ["Mostrar la solicitud seleccionada (hace lo mismo que hacer doble clic en una entrada)"];
   Message false [Loc None "+3"]
     "Show" true
     ["Mostrar"];
   Message false [Loc None "+17"]
     "Remove the selected entries from the list" true
     ["Eliminar las entradas seleccionadas de la lista"];
   Message false [Loc None "+3"]
     "Remove" true
     ["eliminar"];
   Message false [Loc (Some "../receivecoinsdialog.cpp") "+40"]
     "Copy URI" true
     ["Copiar URI"];
   Message false [Loc None "+1"]
     "Copy label" true
     ["Copiar etiqueta"];
   Message false [Loc None "+1"]
     "Copy message" true
     ["Copiar mensaje"];
   Message false [Loc None "+1"]
     "Copy amount" true
     ["Copiar importe"]].

Definition es_ReceiveRequestDialog : list message :=
  [Message false [Loc (Some "../forms/receiverequestdialog.ui") "+29"]
     "QR Code" true
     ["Código QR"];
   Message false [Loc None "+46"]
     "Copy &amp;URI" true
     ["Copiar &amp;URI"];
   Message false [Loc None "+10"]
     "Copy &amp;Address" true
     ["Copiar &amp;sdirección"];
   Message false [Loc None "+10"]
     "&amp;Save Image..." true
     ["&amp;guardar imagen..."];
   Message false [Loc (Some "../receiverequestdialog.cpp") "+65"]
     "Request payment to %1" true
     ["Solicitar el pago a %1"];
   Message false [Loc None "+6"]
     "Payment information" true
     ["Información de pago"];
   Message false [Loc None "+1"]
     "URI" true
     ["Uri"];
   Message false [Loc None "+2"]
     "Address" true
     ["Dirección"];
   Message false [Loc None "+2"]
     "Amount" true
     ["Cantidad"];
   Message false [Loc None "+2"]
     "Label" true
     ["Etiqueta"];
   Message false [Loc None "+2"]
     "Message" true
     ["Mensaje"];
   Message false [Loc None "+2"]
     "Wallet" true
     ["billetera"];
   Message false [Loc None "+11"]
     "Resulting URI too long, try to reduce the text for label / message." true
     ["URI resultante demasiado largo, intente reducir el texto de la etiqueta / mensaje."];
   Message false [Loc None "+5"]
     "Error encoding URI into QR Code." true
     ["Error al codificar URI en código QR."]].

Definition es_RecentRequestsTableModel : list message :=
  [Message false [Loc (Some "../recentrequeststablemodel.cpp") "+25"; Loc None "+4"]
     "Date" true
     ["Fecha"];
   Message false [Loc None "-4"; Loc None "+4"]
     "Label" true
     ["Etiqueta"];
   Message false [Loc None "+0"]
     "Message" true
     ["Mensaje"];
   Message false [Loc None "+42"]
     "(no label)" true
     ["(sin etiqueta)"];
   Message false [Loc None "+9"]
     "(no message)" true
     ["(sin mensaje)"];
   Message false [Loc None "+8"]
     "(no amount requested)" true
     ["(sin importe solicitado)"];
   Message false [Loc None "+45"]
     "Requested" true
     ["Solicitado"]].

Definition es_SendCoinsDialog_1 : list message :=
  [Message false [Loc (Some "../forms/sendcoinsdialog.ui") "+14"; Loc (Some "../sendcoinsdialog.cpp") "+806"]
     "Send Coins" true
     ["Enviar monedas"];
   Message false [Loc None "+105"]
     "Inputs..." true
     ["Entradas..."];
   Message false [Loc None "+10"]
     "automatically selected" true
     ["seleccionado automáticamente"];
   Message false [Loc None "+19"]
     "Insufficient funds!" true
     ["¡Fondos insuficientes!"];
   Message false [Loc None "+89"]
     "Quantity:" true
     ["Cantidad:"];
   Message false [Loc None "+35"]
     "Bytes:" true
     ["Bytes:"];
   Message false [Loc None "+48"]
     "Amount:" true
     ["Cantidad:"];
   Message false [Loc None "+32"]
     "Dust:" true
     ["Polvo:"];
   Message false [Loc None "+48"]
     "Fee:" true
     ["Honorario:"];
   Message false [Loc None "+51"]
     "After Fee:" true
     ["Cargo después de la tarifa:"];
   Message false [Loc None "+32"]
     "Change:" true
     ["cambio:"];
   Message false [Loc None "+44"]
     "If this is activated, but the change address is empty or invalid, change will be sent to a newly generated address." true
     ["Si se activa, pero la dirección de cambio está vacía o no es válida, el cambio se enviará a una dirección recién generada."];
   Message false [Loc None "+3"]
     "Custom change address" true
     ["Dirección de cambio personalizada"];
   Message false [Loc None "+256"]
     "Transaction Fee:" true
     ["Cargo por transacción:"];
   Message false [Loc None "+14"]
     "Choose..." true
     ["Elegir..."];
   Message false [Loc None "+30"]
     "Using the fallbackfee can result in sending a transaction that will take several hours or days (or never) to confirm. Consider choosing your fee manually or wait until you have validated the complete chain." true
     ["El uso de la tarifa de reserva puede resultar en el envío de una transacción que tardará varias horas o días (o nunca) en confirmar. Considere la posibilidad de elegir su tarifa manualmente o espere hasta que haya validado la cadena completa."];
   Message false [Loc None "+3"]
     "Warning: Fee estimation is currently not possible." true
     ["Advertencia: La estimación de tarifas no es posible actualmente."];
   Message false [Loc None "+26"]
     "collapse fee-settings" true
     ["colapsar los honorarios-ajustes"];
   Message false [Loc None "+3"]
     "Hide" true
     ["Ocultar"];
   Message false [Loc None "+48"]
     "Specify a custom fee per kB (1,000 bytes) of the transaction's virtual size.

Note:  Since the fee is calculated on a per-byte basis, a fee of &quot;100 satoshis per kB&quot; for a transaction size of 500 bytes (half of 1 kB) would ultimately yield a fee of only 50 satoshis." true
     ["Especifique una tarifa personalizada por kB (1.000 bytes) del tamaño virtual de la transacción.

Nota: Dado que la tarifa se calcula por byte, una tarifa de &quot;100 satoshis por kB&quot; para un tamaño de transacción de 500 bytes (la mitad de 1 kB) produciría en última instancia una tarifa de sólo 50 satoshis."];
   Message false [Loc None "+5"]
     "per kilobyte" true
     ["por kilobyte"];
   Message false [Loc None "+27"; Loc None "+13"]
     "Paying only the minimum fee is just fine as long as there is less transaction volume than space in the blocks. But be aware that this can end up in a never confirming transaction once there is more demand for Bitcoin Confidential transactions than the network can process." true
     ["Pagar sólo la tarifa mínima está bien siempre y cuando haya menos volumen de transacción que el espacio en los bloques. Pero ten en cuenta que esto puede terminar en una transacción que nunca confirma una vez que hay más demanda de transacciones confidenciales bitcoin de la que la red puede procesar."];
   Message false [Loc None "+3"]
     "(read the tooltip)" true
     ["(leer la información sobre herramientas)"];
   Message false [Loc None "+29"]
     "Recommended:" true
     ["Recomienda:"];
   Message false [Loc None "+30"]
     "Custom:" true
     ["Personalizado:"];
   Message false [Loc None "+52"]
     "(Smart fee not initialized yet. This usually takes a few blocks...)" true
     ["(Tarifa inteligente aún no inicializada. Esto suele tardar unas cuantas cuadras...)"];
   Message false [Loc None "+29"]
     "Confirmation time target:" true
     ["Objetivo de tiempo de confirmación:"];
   Message false [Loc None "+74"]
     "With Replace-By-Fee (BIP-125) you can increase a transaction&apos;s fee after it is sent. Without this, a higher fee may be recommended to compensate for increased transaction delay risk." true
     ["Con Replace-By-Fee (BIP-125) puede aumentar la tarifa de una transacción después de que se envíe. Sin esto, se puede recomendar una tarifa más alta para compensar el aumento del riesgo de retraso de transacción."]].

Definition es_SendCoinsDialog_2 : list message :=
  [Message false [Loc None "+3"]
     "Enable Replace-By-Fee" true
     ["Habilitar Reemplazar por cuota"];
   Message false [Loc None "+37"]
     "Confirm the send action" true
     ["Confirmar la acción de envío"];
   Message false [Loc None "+3"]
     "S&amp;end" true
     ["S&amp;end"];
   Message false [Loc None "+23"]
     "Clear all fields of the form." true
     ["Borre todos los campos del formulario."];
   Message false [Loc None "+3"]
     "Clear &amp;All" true
     ["Clear &amp;all"];
   Message false [Loc None "+14"]
     "Send to multiple recipients at once" true
     ["Enviar a varios destinatarios a la vez"];
   Message false [Loc None "+3"]
     "Add &amp;Recipient" true
     ["Añadir &amp;destinatario"];
   Message false [Loc None "+38"]
     "Balance:" true
     ["equilibrar:"];
   Message false [Loc (Some "../sendcoinsdialog.cpp") "-730"]
     "Add Output" true
     ["Añadir salida"];
   Message false [Loc None "+3"]
     "Add Recipient" true
     ["Añadir destinatario"];
   Message false [Loc None "+14"]
     "Copy quantity" true
     ["Copiar cantidad"];
   Message false [Loc None "+1"]
     "Copy amount" true
     ["Copiar importe"];
   Message false [Loc None "+1"]
     "Copy fee" true
     ["Tarifa de copia"];
   Message false [Loc None "+1"]
     "Copy after fee" true
     ["Copiar después de la tarifa"];
   Message false [Loc None "+1"]
     "Copy bytes" true
     ["Copiar bytes"];
   Message false [Loc None "+1"]
     "Copy dust" true
     ["Copiar polvo"];
   Message false [Loc None "+1"]
     "Copy change" true
     ["Copiar cambio"];
   Message false [Loc None "+88"]
     "%1 (%2 blocks)" true
     ["%1 (%2 bloques)"];
   Message false [Loc None "+39"]
     "This tab allows manually activating Staking funds for ColdStaking. This will take longer than the &quot;Automated ColdStaking activation&quot; to start staking but wallet does not need to be online for the activation." true
     ["Esta pestaña permite activar manualmente los fondos de la Participación para ColdStaking. Esto tomará más tiempo que la &quot;Activación automática de ColdStaking&quot; para comenzar a realizar apuestas, pero la cartera no necesita estar en línea para la activación."];
   Message false [Loc None "+103"]
     "Error Remote Staking Address" true
     ["Dirección de toma remota de error"];
   Message false [Loc None "+0"]
     "The remote stake address can&apos;t be part of this wallet." true
     ["La dirección de estaca remota no puede ser parte de esta billetera."];
   Message false [Loc None "+96"]
     "from wallet %1" true
     ["de la cartera %1"];
   Message false [Loc None "+21"; Loc None "+5"; Loc None "+5"; Loc None "+4"]
     "%1 to %2" true
     ["%1 a %2"];
   Message false [Loc None "+6"]
     "Are you sure you want to send?" true
     ["¿Seguro que quieres enviar?"];
   Message false [Loc None "+2"]
     "Please, review your transaction." true
     ["Por favor, revise su transacción."];
   Message false [Loc None "+11"]
     "Estimated Transaction fee" true
     ["Tarifa de transacción estimada"];
   Message false [Loc None "+13"]
     "removed for transaction fee" true
     ["eliminado por la tarifa de transacción"];
   Message false [Loc None "+2"]
     "added as transaction fee" true
     ["añadido como tarifa de transacción"];
   Message false [Loc None "+5"]
     "You can increase the fee later (signals Replace-By-Fee, BIP-125)." true
     ["Puede aumentar la tarifa más tarde (señales Replace-By-Fee, BIP-125)."]].

Definition es_SendCoinsDialog_3 : list message :=
  [Message false [Loc None "+2"]
     "Not signalling Replace-By-Fee, BIP-125." true
     ["No señalización Replace-By-Fee, BIP-125."];
   Message false [Loc None "+12"]
     "Total Amount" true
     ["Importe total"];
   Message false [Loc None "+6"]
     "Your hardware device must be connected to sign this txn." true
     ["El dispositivo de hardware debe estar conectado para firmar este pin."];
   Message false [Loc None "+4"]
     "Confirm send coins" true
     ["Confirmar enviar monedas"];
   Message false [Loc None "+248"]
     "The recipient address is not valid. Please recheck." true
     ["La dirección del destinatario no es válida. Por favor, vuelva a comprobarlo."];
   Message false [Loc None "+3"]
     "The amount to pay must be larger than 0." true
     ["El importe a pagar debe ser mayor que 0."];
   Message false [Loc None "+3"]
     "The amount exceeds your balance." true
     ["El monto excede su saldo."];
   Message false [Loc None "+3"]
     "The total exceeds your balance when the %1 transaction fee is included." true
     ["El total supera su saldo cuando se incluye la tarifa de transacción %1."];
   Message false [Loc None "+3"]
     "Duplicate address found: addresses should only be used once each." true
     ["Dirección duplicada encontrada: las direcciones solo se deben usar una vez cada una."];
   Message false [Loc None "+3"]
     "Transaction creation failed!" true
     ["¡Error en la creación de transacciones!"];
   Message false [Loc None "+4"]
     "The transaction was rejected with the following reason: %1" true
     ["La transacción fue rechazada por la siguiente razón: %1"];
   Message false [Loc None "+4"]
     "A fee higher than %1 is considered an absurdly high fee." true
     ["Una tasa superior a %1 se considera una tasa absurdamente alta."];
   Message false [Loc None "+3"]
     "Payment request expired." true
     ["La solicitud de pago expiró."];
   Message false [Loc None "+96"]
     "Pay only the required fee of %1" true
     ["Pagar sólo la tarifa requerida de %1"];
   Message true [Loc None "+76"]
     "Estimated to begin confirmation within %n block(s)." true
     ["Se estima que comienza la confirmación dentro de %n bloque(s)."; "Se estima que comienza la confirmación dentro de %n bloque(s)."];
   Message false [Loc None "+130"]
     "Warning: Invalid Bitcoin Confidential address" true
     ["Advertencia: Dirección confidencial de Bitcoin no válida"];
   Message false [Loc None "+8"]
     "Error custom change address" true
     ["Error de dirección de cambio personalizada"];
   Message false [Loc None "+0"]
     "The address you selected for change is not part of this wallet." true
     ["La dirección seleccionada para el cambio no forma parte de este monedero."];
   Message false [Loc None "+15"]
     "(no label)" true
     ["(sin etiqueta)"]].

Definition es_SendCoinsEntry_1 : list message :=
  [Message false [Loc (Some "../forms/sendcoinsentry.ui") "+30"]
     "This is a normal payment." true
     ["Este es un pago normal."];
   Message false [Loc None "+71"; Loc None "+463"; Loc None "+130"]
     "Subtract fee from amount" true
     ["Restar la tarifa de la cantidad"];
   Message false [Loc None "-580"; Loc None "+463"; Loc None "+130"]
     "Use available balance" true
     ["Usar saldo disponible"];
   Message false [Loc None "-562"]
     "Message" true
     ["Mensaje"];
   Message false [Loc None "+24"; Loc None "+261"]
     "The Bitcoin Confidential address to send the payment to" true
     ["La dirección Confidencial de Bitcoin para enviar el pago a"];
   Message false [Loc None "-254"; Loc None "+261"; Loc None "+297"; Loc None "+104"]
     "Choose previously used address" true
     ["Elija la dirección utilizada anteriormente"];
   Message false [Loc None "-646"; Loc None "+261"; Loc None "+297"; Loc None "+104"]
     "Alt+A" true
     ["Alt+A"];
   Message false [Loc None "-655"; Loc None "+261"; Loc None "+297"; Loc None "+104"]
     "Paste address from clipboard" true
     ["Pegar dirección desde el portapapeles"];
   Message false [Loc None "-646"; Loc None "+261"; Loc None "+297"; Loc None "+104"]
     "Alt+P" true
     ["Alt+P"];
   Message false [Loc None "-655"; Loc None "+261"; Loc None "+401"; Loc None "+520"; Loc None "+564"]
     "Remove this entry" true
     ["Eliminar esta entrada"];
   Message false [Loc None "-1718"; Loc None "+277"]
     "Pay To" true
     ["Pagar a"];
   Message false [Loc None "-258"; Loc None "+242"; Loc None "+277"]
     "Amount" true
     ["Cantidad"];
   Message false [Loc None "-495"]
     "Enter a label for this address to add it to the list of used addresses" true
     ["Introduzca una etiqueta para esta dirección para agregarla a la lista de direcciones usadas"];
   Message false [Loc None "+15"]
     "Label" true
     ["Etiqueta"];
   Message false [Loc None "+33"]
     "A short message sent over the Bitcoin Confidential network." true
     ["Un breve mensaje enviado a través de la red Bitcoin Confidential."];
   Message false [Loc None "+6"]
     "Encrypted message sent with the transaction (optional, max. 24 characters)." true
     ["Mensaje cifrado enviado con la transacción (opcional, máx. 24 caracteres)."];
   Message false [Loc None "+261"]
     "This is a payment to a coldstake script." true
     ["Este es un pago a un guión de coldstake."];
   Message false [Loc None "+83"]
     "The fee will be deducted from the amount being sent. The recipient will receive less Bitcoin Confidential than you enter in the amount field. If multiple recipients are selected, the fee is split equally." true
     ["La tarifa se deducirá del importe que se envíe. El destinatario recibirá menos Bitcoin Confidencial de lo que introduzca en el campo de cantidad. Si se seleccionan varios destinatarios, la tarifa se divide por igual."];
   Message false [Loc None "+36"]
     "ColdStake address used by your remote staking node to stake your funds." true
     ["Dirección de ColdStake utilizada por su nodo de estaca remota para arriesgar sus fondos."];
   Message false [Loc None "+80"]
     "ColdStake " true
     ["ColdStake"];
   Message false [Loc None "+24"]
     "The stake address on the remote node (cannot be in this wallet)" true
     ["La dirección de estaca en el nodo remoto (no puede estar en este monedero)"];
   Message false [Loc None "+81"]
     " Stake " true
     ["apostar"];
   Message false [Loc None "+434"]
     "This is an unauthenticated payment request." true
     ["Se trata de una solicitud de pago no autenticada."];
   Message false [Loc None "+40"; Loc None "+560"]
     "Pay To:" true
     ["Pagar a:"]].

Definition es_SendCoinsEntry_2 : list message :=
  [Message false [Loc None "-526"; Loc None "+577"]
     "Memo:" true
     ["memorándum:"];
   Message false [Loc None "-560"; Loc None "+547"]
     "A&amp;mount:" true
     ["Montaje A&amp;:"];
   Message false [Loc None "-78"]
     "This is an authenticated payment request." true
     ["Se trata de una solicitud de pago autenticada."];
   Message false [Loc (Some "../sendcoinsentry.cpp") "+89"]
     "Enter a label for this address to add it to your address book" true
     ["Introduzca una etiqueta para esta dirección para agregarla a su libreta de direcciones"]].

Definition es_SendConfirmationDialog : list message :=
  [Message false [Loc (Some "../sendcoinsdialog.cpp") "+85"; Loc None "+5"]
     "Yes" true
     ["Sí"]].

Definition es_ShutdownWindow : list message :=
  [Message false [Loc (Some "../utilitydialog.cpp") "+83"]
     "%1 is shutting down..." true
     ["%1 se está apagando..."];
   Message false [Loc None "+1"]
     "Do not shut down the computer until this window disappears." true
     ["No apague el equipo hasta que esta ventana desaparezca."]].

Definition es_SignVerifyMessageDialog_1 : list message :=
  [Message false [Loc (Some "../forms/signverifymessagedialog.ui") "+14"]
     "Signatures - Sign / Verify a Message" true
     ["Firmas - Firmar / Verificar un mensaje"];
   Message false [Loc None "+14"]
     "&amp;Sign Message" true
     ["&amp;Sign Message"];
   Message false [Loc None "+10"]
     "&amp;Verify Message" true
     ["&amp;verificar mensaje"];
   Message false [Loc None "+31"]
     "You can sign messages/agreements with your addresses to prove you can receive Bitcoin Confidential sent to them. Be careful not to sign anything vague or random, as phishing attacks may try to trick you into signing your identity over to them. Only sign fully-detailed statements you agree to." true
     ["Puede firmar mensajes/acuerdos con sus direcciones para demostrar que puede recibir Bitcoin Confidential enviado a ellos. Tenga cuidado de no firmar nada vago o aleatorio, ya que los ataques de phishing pueden tratar de engañarle para que firme su identidad en ellos. Solo firme declaraciones detalladas que usted acepte."];
   Message false [Loc None "+18"]
     "The Bitcoin Confidential address to sign the message with" true
     ["La dirección Confidencial de Bitcoin para firmar el mensaje con"];
   Message false [Loc None "+7"; Loc None "+213"]
     "Choose previously used address" true
     ["Elija la dirección utilizada anteriormente"];
   Message false [Loc None "-203"; Loc None "+213"]
     "Alt+A" true
     ["Alt+A"];
   Message false [Loc None "-203"]
     "Paste address from clipboard" true
     ["Pegar dirección desde el portapapeles"];
   Message false [Loc None "+10"]
     "Alt+P" true
     ["Alt+P"];
   Message false [Loc None "+12"]
     "Enter the message you want to sign here" true
     ["Introduzca el mensaje que desea firmar aquí"];
   Message false [Loc None "+7"]
     "Signature" true
     ["Firma"];
   Message false [Loc None "+27"]
     "Copy the current signature to the system clipboard" true
     ["Copie la firma actual en el portapapeles del sistema"];
   Message false [Loc None "+21"]
     "Sign the message to prove you own this Bitcoin Confidential address" true
     ["Firme el mensaje para demostrar que es el propietario de esta dirección confidencial de Bitcoin"];
   Message false [Loc None "+3"]
     "Sign &amp;Message" true
     ["Sign &amp;s Message"];
   Message false [Loc None "+14"]
     "Reset all sign message fields" true
     ["Restablecer todos los campos de mensajes de signo"];
   Message false [Loc None "+3"; Loc None "+153"]
     "Clear &amp;All" true
     ["Clear &amp;all"];
   Message false [Loc None "-85"]
     "Enter the receiver&apos;s address, message (ensure you copy line breaks, spaces, tabs, etc. exactly) and signature below to verify the message. Be careful not to read more into the signature than what is in the signed message itself, to avoid being tricked by a man-in-the-middle attack. Note that this only proves the signing party receives with the address, it cannot prove sendership of any transaction!" true
     ["Introduzca la dirección del receptor, el mensaje (asegúrese de copiar saltos de línea, espacios, pestañas, etc. exactamente) y la firma siguiente para verificar el mensaje. Tenga cuidado de no leer más en la firma que lo que está en el mensaje firmado en sí, para evitar ser engañado por un ataque de hombre en el medio. Tenga en cuenta que esto sólo demuestra que la parte firmada recibe con la dirección, no puede probar el envío de ninguna transacción!"];
   Message false [Loc None "+21"]
     "The Bitcoin Confidential address the message was signed with" true
     ["La dirección Bitcoin Confidential con la que se firmó el mensaje"];
   Message false [Loc None "+44"]
     "Verify the message to ensure it was signed with the specified Bitcoin Confidential address" true
     ["Verifique el mensaje para asegurarse de que fue firmado con la dirección Confidencial Bitcoin especificada"];
   Message false [Loc None "+3"]
     "Verify &amp;Message" true
     ["Verificar &amp;mensaje"];
   Message false [Loc None "+14"]
     "Reset all verify message fields" true
     ["Restablecer todos los campos de mensaje de verificación"];
   Message false [Loc (Some "../signverifymessagedialog.cpp") "+39"]
     "Click &quot;Sign Message&quot; to generate signature" true
     ["Haga clic en &quot;Firmar mensaje&quot; para generar la firma"];
   Message false [Loc None "+78"; Loc None "+78"]
     "The entered address is invalid." true
     ["La dirección introducida no es válida."];
   Message false [Loc None "-78"; Loc None "+7"; Loc None "+71"; Loc None "+6"]
     "Please check the address and try again." true
     ["Compruebe la dirección e inténtelo de nuevo."];
   Message false [Loc None "-77"; Loc None "+77"]
     "The entered address does not refer to a key." true
     ["La dirección introducida no hace referencia a una clave."];
   Message false [Loc None "-69"]
     "Wallet unlock was cancelled." true
     ["El desbloqueo de la cartera fue cancelado."];
   Message false [Loc None "+8"]
     "Private key for the entered address is not available." true
     ["La clave privada para la dirección introducida no está disponible."];
   Message false [Loc None "+12"]
     "Message signing failed." true
     ["Error al firmar mensajes."]].

Definition es_SignVerifyMessageDialog_2 : list message :=
  [Message false [Loc None "+5"]
     "Message signed." true
     ["Mensaje firmado."];
   Message false [Loc None "+55"]
     "The signature could not be decoded." true
     ["La firma no se pudo decodificar."];
   Message false [Loc None "+0"; Loc None "+13"]
     "Please check the signature and try again." true
     ["Compruebe la firma e inténtelo de nuevo."];
   Message false [Loc None "+0"]
     "The signature did not match the message digest." true
     ["La firma no coincide con el resumen del mensaje."];
   Message false [Loc None "+6"]
     "Message verification failed." true
     ["Error en la verificación del mensaje."];
   Message false [Loc None "+5"]
     "Message verified." true
     ["Mensaje verificado."]].

Definition es_SplashScreen : list message :=
  [Message false [Loc (Some "../networkstyle.cpp") "+19"]
     "[testnet]" true
     ["[testnet]"]].

Definition es_StakingDialog_1 : list message :=
  [Message false [Loc (Some "../forms/stakingdialog.ui") "+14"]
     "Send Coins" true
     ["Enviar monedas"];
   Message false [Loc None "+23"]
     "Status" true
     ["Estado"];
   Message false [Loc None "+19"]
     "Addresses" true
     ["Direcciones"];
   Message false [Loc None "+16"]
     "Rewards" true
     ["Recompensas"];
   Message false [Loc None "+16"]
     "Convert to Spending" true
     ["Convertir en gasto"];
   Message false [Loc None "+16"]
     "Convert to Staking" true
     ["Convertir en Staking"];
   Message false [Loc None "+16"]
     "Activate ColdStaking" true
     ["Activar ColdStaking"];
   Message false [Loc None "+79"]
     "Total supply" true
     ["Suministro total"];
   Message false [Loc None "+26"]
     "Current block reward" true
     ["Recompensa de bloque actual"];
   Message false [Loc None "+26"]
     "Current block height" true
     ["Altura actual del bloque"];
   Message false [Loc None "+20"]
     "Network difficulty" true
     ["Dificultad de la red"];
   Message false [Loc None "+26"]
     "Annual staking reward" true
     ["Recompensa anual de participación"];
   Message false [Loc None "+13"]
     "Current staking reward" true
     ["Recompensa de participación actual"];
   Message false [Loc None "+26"]
     "Network staking weight" true
     ["Peso de las unidades de red"];
   Message false [Loc None "+20"]
     "Your estimated annual reward" true
     ["Su recompensa anual estimada"];
   Message false [Loc None "+13"]
     "?" true
     ["?"];
   Message false [Loc None "+80"]
     "Staking" true
     ["Staking"];
   Message false [Loc None "+24"; Loc None "+233"]
     "ENABLED" true
     ["Habilitado"];
   Message false [Loc None "-210"]
     "Pause" true
     ["Pausa"];
   Message false [Loc None "+50"; Loc None "+425"]
     "Estimated reward frequency" true
     ["Frecuencia estimada de recompensas"];
   Message false [Loc None "-412"]
     "Stakable Funds" true
     ["Fondos considerables"];
   Message false [Loc None "+20"]
     "Wallet staking weight" true
     ["Peso de la cartera"];
   Message false [Loc None "+103"]
     "Cold Staking" true
     ["Cold Staking"];
   Message false [Loc None "+55"]
     "Remote Stake address" true
     ["Dirección de estaca remota"];
   Message false [Loc None "+13"]
     "Automated ColdStaking activation" true
     ["Activación automatizada de ColdStaking"];
   Message false [Loc None "+25"]
     "Enable " true
     ["habilitar"];
   Message false [Loc None "+57"]
     "Enable Hot Staking with the STAKING ENABLE button and leaving wallet open.  Enable automated ColdStake with COLDSTAKING ENABLE button and setting a remote stake address. On remote node enable staking with &quot;bitcoinc-cli walletsettings stakingstatus true&quot; and create a &quot;Stake&quot; address on your remote node with &quot;bitcoinc-cli getnewstakeaddress&quot;, or get a &quot;Stake&quot; address from a ColdStaking pool. Funds gradually transition over from hot staking to cold staking while your wallet is open. The time required for the activation depends on the wallet&apos;s staking weight and can take several days with a low weight. Once the activation bar shows complete, wallet can be closed.  Alternatively, use the Activate Coldstaking tab to send an activation transaction.  This will take longer to start staking but wallet does not need to be online." true
     ["Active Hot Staking con el botón STAKING ENABLE y deje la cartera abierta.  Habilite ColdStake automatizado con el botón COLDSTAKING ENABLE y establezca una dirección de estaca remota. En el nodo remoto, habilite la participación con &quot;bitcoinc-cli walletsettings stakingstatus true&quot; y cree una dirección &quot;Stake&quot; en su nodo remoto con &quot;bitcoinc-cli getnewstakeaddress&quot;, u obtenga una dirección &quot;Stake&quot; de un grupo de ColdStaking. Los fondos pasan gradualmente de las acciones en caliente a las de las tomas frías mientras su billetera está abierta. El tiempo necesario para la activación depende del peso de la cartera y puede tardar varios días con un peso bajo. Una vez completada la barra de activación, el monedero se puede cerrar.  Como alternativa, utilice la pestaña Activar Coldstaking para enviar una transacción de activación.  Esto tomará más tiempo para comenzar a participar, pero la cartera no necesita estar en línea."];
   Message false [Loc None "+20"]
     "ColdStake activation progress" true
     ["Progreso de activación de ColdStake"];
   Message false [Loc None "+77"]
     "Amount activated for ColdStaking" true
     ["Cantidad activada para ColdStaking"]].

Definition es_StakingDialog_2 : list message :=
  [Message false [Loc None "+13"]
     "Estimated weight" true
     ["Peso estimado"];
   Message false [Loc None "+106"]
     "Filtered" true
     ["Filtrada"];
   Message false [Loc None "+15"; Loc None "+88"]
     "Staking rewards" true
     ["Recompensas de participación"];
   Message false [Loc None "-75"; Loc None "+48"]
     "Solved blocks" true
     ["Bloques resueltos"];
   Message false [Loc None "-41"; Loc None "+55"]
     "4000" true
     ["4000"];
   Message false [Loc None "-48"; Loc None "+41"]
     "100000BC" true
     ["100000BC"];
   Message false [Loc None "-22"]
     "Total" true
     ["Total"];
   Message false [Loc (Some "../stakingdialog.cpp") "+258"; Loc None "+17"]
     "No stakable funds available. Use the &quot;Convert to staking&quot; tab to convert funds for staking." true
     ["No hay fondos notables disponibles. Utilice la pestaña &quot;Convertir a participación&quot; para convertir fondos para participar."];
   Message false [Loc None "-15"; Loc None "+18"]
     "No eligible staking outputs available. Staking funds need to have 225 confirmations to be eligible." true
     ["No se dispone de resultados de participación elegibles. Los fondos de las participaciones deben tener 225 confirmaciones para ser elegibles."];
   Message false [Loc None "-9"]
     "Staking not initialized yet. Wait a moment." true
     ["Staking no inicializado todavía. Espera un momento."];
   Message false [Loc None "+3"]
     "Staking is stopped. Press the start button above to enable staking." true
     ["La participación se detiene. Pulse el botón de inicio de arriba para activar las partidas."];
   Message false [Loc None "+10"]
     "Wallet is locked. To start staking unlock the wallet for staking only. To unlock click the lock icon in the bottom right hand portion of the window." true
     ["La billetera está cerrada. Para empezar a participar desbloquear la cartera para la participación sólo. Para desbloquear haga clic en el icono de candado en la parte inferior derecha de la ventana."];
   Message false [Loc None "+4"]
     "Wallet is not fully synced. To start staking make sure the wallet has connections to the network and wait until it catched up with the latest blocks." true
     ["Monedero no está completamente sincronizado. Para empezar a hacer apuestas, asegúrate de que la cartera tenga conexiones a la red y espera hasta que se ponga al día con los últimos bloques."];
   Message false [Loc None "+3"]
     "Staking is disabled. Set the config paramter &quot;staking=1&quot; in the bitcoinc.conf to enable it." true
     ["La participación está desactivada. Establezca el parámetro de configuración &quot;staking-1&quot; en bitcoinc.conf para habilitarlo."];
   Message false [Loc None "+72"]
     "No eligible coldstaking outputs available. Your coldstaking funds need to have 225 confirmations to be eligible." true
     ["No se dispone de salidas de toma de frío elegibles. Sus fondos para tomar resfriados deben tener 225 confirmaciones para ser elegibles."];
   Message false [Loc None "+160"]
     "Set Remote Staking Address" true
     ["Establecer dirección de participación remota"];
   Message false [Loc None "+1"]
     "Enter the remote staking address:" true
     ["Introduzca la dirección de participación remota:"]].

Definition es_TrafficGraphWidget : list message :=
  [Message false [Loc (Some "../trafficgraphwidget.cpp") "+81"]
     "KB/s" true
     ["KB/s"]].

Definition es_TransactionDesc_1 : list message :=
  [Message true [Loc (Some "../transactiondesc.cpp") "+39"]
     "Open for %n more block(s)" true
     ["Abierto para %n más bloque(s)"; "Abierto para %n más bloque(s)"];
   Message false [Loc None "+2"]
     "Open until %1" true
     ["Abierto hasta %1"];
   Message false [Loc None "+6"]
     "conflicted with a transaction with %1 confirmations" true
     ["en conflicto con una transacción con confirmaciones %1"];
   Message false [Loc None "+2"]
     "0/unconfirmed, %1" true
     ["0/sin confirmar, %1"];
   Message false [Loc None "+0"]
     "in memory pool" true
     ["en la piscina de memoria"];
   Message false [Loc None "+0"]
     "not in memory pool" true
     ["no en la piscina de memoria"];
   Message false [Loc None "+0"]
     "abandoned" true
     ["Abandonado"];
   Message false [Loc None "+2"]
     "%1/unconfirmed" true
     ["%1/sin confirmar"];
   Message false [Loc None "+2"]
     "%1 confirmations" true
     ["%1 confirmaciones"];
   Message false [Loc None "+29"]
     "Status" true
     ["Estado"];
   Message false [Loc None "+3"]
     "Date" true
     ["Fecha"];
   Message false [Loc None "+4"; Loc None "+223"]
     "Transaction ID" true
     ["ID de transacción"];
   Message false [Loc None "-210"; Loc None "+211"]
     "Transaction total size" true
     ["Tamaño total de la transacción"];
   Message false [Loc None "-209"]
     "Confirmations" true
     ["Confirmaciones"];
   Message false [Loc None "+4"]
     "Block hash" true
     ["Bloquear hash"];
   Message false [Loc None "+1"]
     "Block index" true
     ["Indice de bloques"];
   Message false [Loc None "+1"]
     "Block time" true
     ["Tiempo de bloqueo"];
   Message false [Loc None "+21"]
     "Source" true
     ["Fuente"];
   Message false [Loc None "+0"]
     "Generated" true
     ["Generado"];
   Message false [Loc None "+5"; Loc None "+14"; Loc None "+72"]
     "From" true
     ["De"];
   Message false [Loc None "-72"]
     "unknown" true
     ["Desconocido"];
   Message false [Loc None "+1"; Loc None "+20"; Loc None "+72"]
     "To" true
     ["Para"];
   Message false [Loc None "-90"]
     "own address" true
     ["dirección propia"];
   Message false [Loc None "+0"; Loc None "+69"]
     "watch-only" true
     ["sólo ver"];
   Message false [Loc None "-67"]
     "label" true
     ["Etiqueta"];
   Message false [Loc None "+36"; Loc None "+12"; Loc None "+58"; Loc None "+37"; Loc None "+66"]
     "Credit" true
     ["Crédito"];
   Message true [Loc None "-171"]
     "matures in %n more block(s)" true
     ["madura en %n más bloque(s)"; "madura en %n más bloque(s)"]].

Definition es_TransactionDesc_2 : list message :=
  [Message false [Loc None "+2"]
     "not accepted" true
     ["no aceptado"];
   Message false [Loc None "+64"; Loc None "+26"; Loc None "+71"]
     "Debit" true
     ["Débito"];
   Message false [Loc None "-87"]
     "Total debit" true
     ["Débito total"];
   Message false [Loc None "+1"]
     "Total credit" true
     ["Crédito total"];
   Message false [Loc None "+5"]
     "Transaction fee" true
     ["Tarifa de transacción"];
   Message false [Loc None "+27"]
     "Net amount" true
     ["Importe neto"];
   Message false [Loc None "+6"; Loc None "+12"]
     "Message" true
     ["Mensaje"];
   Message false [Loc None "-10"]
     "Comment" true
     ["Comentario"];
   Message false [Loc None "+4"]
     "Transaction virtual size" true
     ["Tamaño virtual de la transacción"];
   Message false [Loc None "+1"]
     "Output index" true
     ["Indice de salida"];
   Message false [Loc None "+10"]
     "Narration" true
     ["Narración"];
   Message false [Loc None "+13"]
     "Merchant" true
     ["Comerciante"];
   Message false [Loc None "+7"]
     "Generated coins must mature %1 blocks before they can be spent. When you generated this block, it was broadcast to the network to be added to the block chain. If it fails to get into the chain, its state will change to &quot;not accepted&quot; and it won&apos;t be spendable. This may occasionally happen if another node generates a block within a few seconds of yours." true
     ["Las monedas generadas deben madurar %1 bloques antes de que se puedan gastar. Cuando generó este bloque, se transmitió a la red que se agregará a la cadena de bloques. Si no entra en la cadena, su estado cambiará a &quot;no aceptado&quot; y no será gastable. Esto puede suceder ocasionalmente si otro nodo genera un bloque en unos segundos suyo."];
   Message false [Loc None "+8"]
     "Debug information" true
     ["Información de depuración"];
   Message false [Loc None "+13"]
     "Transaction" true
     ["Transacción"];
   Message false [Loc None "+3"]
     "Inputs" true
     ["Entradas"];
   Message false [Loc None "+21"]
     "Amount" true
     ["Cantidad"];
   Message false [Loc None "+1"; Loc None "+1"]
     "true" true
     ["Verdad"];
   Message false [Loc None "-1"; Loc None "+1"]
     "false" true
     ["Falso"]].

Definition es_TransactionDescDialog : list message :=
  [Message false [Loc (Some "../forms/transactiondescdialog.ui") "+26"]
     "This pane shows a detailed description of the transaction" true
     ["Este panel muestra una descripción detallada de la transacción"];
   Message false [Loc (Some "../transactiondescdialog.cpp") "+17"]
     "Details for %1" true
     ["Detalles de %1"]].

Definition es_TransactionTableModel_1 : list message :=
  [Message false [Loc (Some "../transactiontablemodel.cpp") "+257"]
     "Date" true
     ["Fecha"];
   Message false [Loc None "+2"]
     "Type" true
     ["Tipo"];
   Message false [Loc None "+2"]
     "Label" true
     ["Etiqueta"];
   Message false [Loc None "+3"]
     "In" true
     ["En"];
   Message false [Loc None "+0"]
     "Out" true
     ["Out"];
   Message true [Loc None "+73"]
     "Open for %n more block(s)" true
     ["Abierto para %n más bloque(s)"; "Abierto para %n más bloque(s)"];
   Message false [Loc None "+3"]
     "Open until %1" true
     ["Abierto hasta %1"];
   Message false [Loc None "+3"]
     "Unconfirmed" true
     ["Sin confirmar"];
   Message false [Loc None "+4"]
     "Orphaned" true
     ["Huérfanos"];
   Message false [Loc None "+2"]
     "Abandoned" true
     ["Abandonado"];
   Message false [Loc None "+22"]
     "Confirming (%1 of %2 recommended confirmations)" true
     ["Confirmación (%1 de %2 confirmaciones recomendadas)"];
   Message false [Loc None "+3"]
     "Confirmed (%1 confirmations)" true
     ["Confirmado (%1 confirmaciones)"];
   Message false [Loc None "+3"]
     "Conflicted" true
     ["Conflicto"];
   Message false [Loc None "+3"]
     "Immature (%1 confirmations, will be available after %2)" true
     ["Inmaduros (%1 confirmaciones, estarán disponibles después de %2)"];
   Message false [Loc None "+3"]
     "Generated but not accepted" true
     ["Generado pero no aceptado"];
   Message false [Loc None "+39"]
     "Received with" true
     ["Recibido con"];
   Message false [Loc None "+2"]
     "Received from" true
     ["Recibido de"];
   Message false [Loc None "+3"]
     "Sent to" true
     ["Enviado a"];
   Message false [Loc None "+2"]
     "Payment to yourself" true
     ["Pago a sí mismo"];
   Message false [Loc None "+2"]
     "Airdrop" true
     ["Airdrop"];
   Message false [Loc None "+2"]
     "Staked" true
     ["Apostado"];
   Message false [Loc None "+30"]
     "watch-only" true
     ["sólo ver"];
   Message false [Loc None "+16"]
     "(n/a)" true
     ["(n/a)"];
   Message false [Loc None "+168"]
     "Unlock to show" true
     ["Desbloquear para mostrar"];
   Message false [Loc None "+111"]
     "(no label)" true
     ["(sin etiqueta)"];
   Message false [Loc None "+42"; Loc None "+14"]
     "Transaction status. Hover over this field to show number of confirmations." true
     ["Estado de la transacción. Pase el cursor sobre este campo para mostrar el número de confirmaciones."];
   Message false [Loc None "-12"]
     "Date and time that the reward was received." true
     ["Fecha y hora en que se recibió la recompensa."];
   Message false [Loc None "+2"; Loc None "+16"]
     "Whether or not a watch-only address is involved in this transaction." true
     ["Si una dirección de solo vigilancia está involucrada en esta transacción."];
   Message false [Loc None "-14"]
     "Address used for the block solving" true
     ["Dirección utilizada para la resolución de bloques"]].

Definition es_TransactionTableModel_2 : list message :=
  [Message false [Loc None "+2"]
     "Staking reward." true
     ["Recompensa de stomando."];
   Message false [Loc None "+8"]
     "Date and time that the transaction was received." true
     ["Fecha y hora en que se recibió la transacción."];
   Message false [Loc None "+2"]
     "Type of transaction." true
     ["Tipo de transacción."];
   Message false [Loc None "+4"]
     "User-defined intent/purpose of the transaction." true
     ["Intención/propósito definido por el usuario de la transacción."];
   Message false [Loc None "+2"]
     "Type of input coin." true
     ["Tipo de moneda de entrada."];
   Message false [Loc None "+2"]
     "Type of output coin." true
     ["Tipo de moneda de salida."];
   Message false [Loc None "+2"]
     "Amount removed from or added to balance." true
     ["Importe eliminado o añadido al saldo."]].

Definition es_TransactionView_1 : list message :=
  [Message false [Loc (Some "../transactionview.cpp") "+53"; Loc None "+11"; Loc None "+18"]
     "All" true
     ["todo"];
   Message false [Loc None "-17"]
     "Today" true
     ["Hoy"];
   Message false [Loc None "+1"]
     "This week" true
     ["Esta semana"];
   Message false [Loc None "+1"]
     "This month" true
     ["Este mes"];
   Message false [Loc None "+1"]
     "Last month" true
     ["El mes pasado"];
   Message false [Loc None "+1"]
     "This year" true
     ["Este año"];
   Message false [Loc None "+1"]
     "Range..." true
     ["Gama..."];
   Message false [Loc None "+13"]
     "Received with" true
     ["Recibido con"];
   Message false [Loc None "+2"]
     "Sent to" true
     ["Enviado a"];
   Message false [Loc None "+2"]
     "To yourself" true
     ["Para ti mismo"];
   Message false [Loc None "+1"]
     "Other" true
     ["Otro"];
   Message false [Loc None "+1"]
     "Airdrop" true
     ["Airdrop"];
   Message false [Loc None "+5"]
     "Enter address, transaction id, or label to search" true
     ["Introduzca la dirección, el identificador de transacción o la etiqueta para buscar"];
   Message false [Loc None "+5"]
     "Min amount" true
     ["Cantidad mínima"];
   Message false [Loc None "+52"]
     "Abandon transaction" true
     ["Abandonar transacción"];
   Message false [Loc None "+1"]
     "Increase transaction fee" true
     ["Aumentar la tarifa de transacción"];
   Message false [Loc None "+2"]
     "Copy address" true
     ["Copiar dirección"];
   Message false [Loc None "+1"]
     "Copy label" true
     ["Copiar etiqueta"];
   Message false [Loc None "+1"]
     "Copy amount" true
     ["Copiar importe"];
   Message false [Loc None "+1"]
     "Copy transaction ID" true
     ["Copiar ID de transacción"];
   Message false [Loc None "+1"]
     "Copy raw transaction" true
     ["Copiar transacción sin procesar"];
   Message false [Loc None "+1"]
     "Copy full transaction details" true
     ["Copiar los detalles completos de la transacción"];
   Message false [Loc None "+1"]
     "Edit label" true
     ["Editar etiqueta"];
   Message false [Loc None "+1"]
     "Show transaction details" true
     ["Mostrar detalles de la transacción"];
   Message false [Loc None "+239"]
     "Export Transaction History" true
     ["Historial de transacciones de exportación"];
   Message false [Loc None "+1"]
     "Comma separated file (*.csv)" true
     ["Archivo separado por comas (*.csv)"];
   Message false [Loc None "+9"]
     "Confirmed" true
     ["Confirmado"];
   Message false [Loc None "+2"]
     "Watch-only" true
     ["Sólo mira"];
   Message false [Loc None "+1"]
     "Date" true
     ["Fecha"]].

Definition es_TransactionView_2 : list message :=
  [Message false [Loc None "+2"]
     "Type" true
     ["Tipo"];
   Message false [Loc None "+2"]
     "Label" true
     ["Etiqueta"];
   Message false [Loc None "+1"]
     "Address" true
     ["Dirección"];
   Message false [Loc None "+2"]
     "ID" true
     ["Id"];
   Message false [Loc None "+3"]
     "Exporting Failed" true
     ["Error al exportar"];
   Message false [Loc None "+0"]
     "There was an error trying to save the transaction history to %1." true
     ["Se ha producido un error al intentar guardar el historial de transacciones en %1."];
   Message false [Loc None "+4"]
     "Exporting Successful" true
     ["Exportación exitosa"];
   Message false [Loc None "+0"]
     "The transaction history was successfully saved to %1." true
     ["El historial de transacciones se ha guardado correctamente en %1."];
   Message false [Loc None "+169"]
     "Range:" true
     ["Gama:"];
   Message false [Loc None "+8"]
     "to" true
     ["Para"]].

Definition es_TxViewDelegate : list message :=
  [Message false [Loc (Some "../overviewpage.cpp") "+95"]
     "Unlock to show" true
     ["Desbloquear para mostrar"]].

Definition es_UnitDisplayStatusBarControl : list message :=
  [Message false [Loc (Some "../bitcoingui.cpp") "+122"]
     "Unit to show amounts in. Click to select another unit." true
     ["Unidad para mostrar las cantidades. Haga clic para seleccionar otra unidad."]].

Definition es_WalletFrame : list message :=
  [Message false [Loc (Some "../walletframe.cpp") "+29"]
     "No wallet has been loaded." true
     ["No se ha cargado ninguna billetera."]].

Definition es_WalletModel : list message :=
  [Message false [Loc (Some "../walletmodel.cpp") "+592"; Loc None "+4"; Loc None "+11"]
     "Wallet Model" true
     ["Modelo de monedero"];
   Message false [Loc None "+65"; Loc None "+39"; Loc None "+6"]
     "Fee bump error" true
     ["Error de aumento de tarifa"];
   Message false [Loc None "-45"]
     "Increasing transaction fee failed" true
     ["Error en el aumento de la tarifa de transacción"];
   Message false [Loc None "+6"]
     "Do you want to increase the fee?" true
     ["¿Quieres aumentar la tarifa?"];
   Message false [Loc None "+4"]
     "Current fee:" true
     ["Tarifa actual:"];
   Message false [Loc None "+4"]
     "Increase:" true
     ["Aumentar:"];
   Message false [Loc None "+4"]
     "New fee:" true
     ["Nueva tarifa:"];
   Message false [Loc None "+4"]
     "Confirm fee bump" true
     ["Confirmar aumento de tarifa"];
   Message false [Loc None "+17"]
     "Can&apos;t sign transaction." true
     ["No se puede firmar la transacción."];
   Message false [Loc None "+6"]
     "Could not commit transaction" true
     ["No se pudo confirmar la transacción"]].

Definition es_WalletView : list message :=
  [Message false [Loc (Some "../walletview.cpp") "+46"; Loc None "+1"]
     "&amp;Export" true
     ["&amp;gt; Exportar"];
   Message false [Loc None "+9"; Loc None "+29"]
     "Export the data in the current tab to a file" true
     ["Exportar los datos de la pestaña actual a un archivo"];
   Message false [Loc None "-19"]
     "Selected amount" true
     ["Importe seleccionado"];
   Message false [Loc None "+290"]
     "Backup Wallet" true
     ["Cartera de respaldo"];
   Message false [Loc None "+1"]
     "Wallet Data (*.dat)" true
     ["Datos de monedero (*.dat)"];
   Message false [Loc None "+6"]
     "Backup Failed" true
     ["Error de copia de seguridad"];
   Message false [Loc None "+0"]
     "There was an error trying to save the wallet data to %1." true
     ["Se ha producido un error al intentar guardar los datos del monedero en %1."];
   Message false [Loc None "+4"]
     "Backup Successful" true
     ["Copia de seguridad exitosa"];
   Message false [Loc None "+0"]
     "The wallet data was successfully saved to %1." true
     ["Los datos del monedero se guardaron correctamente en %1."];
   Message false [Loc None "+63"]
     "Cancel" true
     ["Cancelar"]].

Definition es_bitcoin_core_1 : list message :=
  [Message false [Loc (Some "../bitcoinstrings.cpp") "+12"]
     "Bitcoin Confidential Core" true
     ["Núcleo confidencial de Bitcoin"];
   Message false [Loc None "+1"]
     "The %s developers" true
     ["Los desarrolladores de %s"];
   Message false [Loc None "+1"]
     " is spendable from this wallet." true
     ["es gastado de esta cartera."];
   Message false [Loc None "+1"]
     "-maxtxfee is set very high! Fees this large could be paid on a single transaction." true
     ["-maxtxfee se establece muy alto! Las tarifas de este tamaño podrían pagarse en una sola transacción."];
   Message false [Loc None "+3"]
     "Can&apos;t generate a change-address key. Private keys are disabled for this wallet." true
     ["No se puede generar una clave de dirección de cambio. Las claves privadas están deshabilitadas para esta cartera."];
   Message false [Loc None "+3"]
     "Cannot obtain a lock on data directory %s. %s is probably already running." true
     ["No se puede obtener un bloqueo en el directorio de datos %s. %s probablemente ya se está ejecutando."];
   Message false [Loc None "+2"]
     "Cannot provide specific connections and have addrman find outgoing connections at the same." true
     ["No se pueden proporcionar conexiones específicas y hacer que addrman encuentre conexiones salientes al mismo tiempo."];
   Message false [Loc None "+3"]
     "Cannot upgrade a non HD split wallet without upgrading to support pre split keypool. Please use -upgradewallet=169900 or -upgradewallet with no version specified." true
     ["No se puede actualizar un monedero dividido no HD sin actualizar para admitir el keypool presplit. Por favor, utilice -upgradewallet-169900 o -upgradewallet sin ninguna versión especificada."];
   Message false [Loc None "+4"]
     "Distributed under the MIT software license, see the accompanying file %s or %s" true
     ["Distribuido bajo la licencia de software del MIT, véase el archivo adjunto %s o %s"];
   Message false [Loc None "+3"]
     "Error loading %s: You can&apos;t enable HD on an already existing non-HD wallet" true
     ["Error al cargar %s: No se puede habilitar HD en un monedero que ya existe en HD"];
   Message false [Loc None "+2"]
     "Error reading %s! All keys read correctly, but transaction data or address book entries might be missing or incorrect." true
     ["Error al leer %s! Todas las claves se leen correctamente, pero los datos de transacción o las entradas de la libreta de direcciones pueden faltar o ser incorrectos."];
   Message false [Loc None "+3"]
     "Error: Listening for incoming connections failed (listen returned error %s)" true
     ["Error: Error al escuchar las conexiones entrantes (error devuelto por escucha %s)"];
   Message false [Loc None "+2"]
     "Fee estimation failed. Fallbackfee is disabled. Wait a few blocks or enable -fallbackfee." true
     ["Error en la estimación de la tasa. Fallbackfee está desactivado. Espere unos bloques o habilite -fallbackfee."];
   Message false [Loc None "+3"]
     "Generate a random master key and main account if no master key exists. (default: %s)" true
     ["Genere una clave maestra aleatoria y una cuenta principal si no existe ninguna clave maestra. (predeterminado: %s)"];
   Message false [Loc None "+3"]
     "Group outputs by address, selecting all or none, instead of selecting on a per-output basis. Privacy is improved as an address is only used once (unless someone sends to it after spending from it), but may result in slightly higher fees as suboptimal coin selection may result due to the added limitation (default: %u)" true
     ["Agrupe las salidas por dirección, seleccionando todas o ninguna, en lugar de seleccionar por salida. La privacidad se mejora ya que una dirección solo se utiliza una vez (a menos que alguien le envíe después de gastar de ella), pero puede resultar en tarifas ligeramente más altas, ya que la selección de monedas subóptima puede resultar debido a la limitación adicional (predeterminado: %u)"];
   Message false [Loc None "+6"]
     "Invalid amount for -maxtxfee=&lt;amount&gt;: &apos;%s&apos; (must be at least the minrelay fee of %s to prevent stuck transactions)" true
     ["Importe no válido para -maxtxfee:&lt;amount&gt;&apos;%s&apos; (debe ser al menos la tarifa minrelay de %s para evitar transacciones atascadas)&lt;/amount&gt;"];
   Message false [Loc None "+3"]
     "Milliseconds between stake attempts. Lowering this param will not result in more stakes. (default: 500)" true
     ["Milisegundos entre intentos de estaca. Bajar este parámetro no resultará en más apuestas. (predeterminado: 500)"];
   Message false [Loc None "+3"]
     "Not enough spending outputs available in the blockchain for privacy mixing. There are currently %d. For this transaction required: %d" true
     ["No hay suficientes salidas de gasto disponibles en la cadena de bloques para la mezcla de privacidad. Actualmente hay %d. Para esta transacción requerida: %d"];
   Message false [Loc None "+3"]
     "Number of threads to start for staking, max 1 per active wallet, will divide wallets evenly between threads (default: 1)" true
     ["Número de hilos para comenzar para la apuesta, máximo 1 por billetera activa, dividirá las carteras uniformemente entre los hilos (predeterminado: 1)"];
   Message false [Loc None "+3"]
     "On saving a key from the lookahead pool, save all unsaved keys leading up to it too. (default: %s)" true
     ["Al guardar una clave del grupo de búsqueda anticipada, guarde todas las claves no guardadas que conducen a ella también. (predeterminado: %s)"];
   Message false [Loc None "+3"]
     "Please check that your computer&apos;s date and time are correct! If your clock is wrong, %s will not work properly." true
     ["Por favor, compruebe que la fecha y la hora de su computadora son correctas! Si su reloj está mal, %s no funcionará correctamente."];
   Message false [Loc None "+3"]
     "Please contribute if you find %s useful. Visit %s for further information about the software." true
     ["Por favor, contribuya si encuentra %s útil. Visite %s para obtener más información sobre el software."];
   Message false [Loc None "+3"]
     "Prune configured below the minimum of %d MiB.  Please use a higher number." true
     ["Prune configurado por debajo del mínimo de %d MiB.  Utilice un número más alto."];
   Message false [Loc None "+2"]
     "Prune: last wallet synchronisation goes beyond pruned data. You need to -reindex (download the whole blockchain again in case of pruned node)" true
     ["Prune: la última sincronización de cartera va más allá de los datos podados. Es necesario -reindexar (descargar toda la cadena de bloques de nuevo en caso de nodo podado)"];
   Message false [Loc None "+3"]
     "Rescans are not possible in pruned mode. You will need to use -reindex which will download the whole blockchain again." true
     ["Los reescaneos no son posibles en el modo podado. Usted tendrá que utilizar -reindex que descargará toda la cadena de bloques de nuevo."];
   Message false [Loc None "+3"]
     "The block database contains a block which appears to be from the future. This may be due to your computer&apos;s date and time being set incorrectly. Only rebuild the block database if you are sure that your computer&apos;s date and time are correct" true
     ["La base de datos de bloques contiene un bloque que parece ser del futuro. Esto puede deberse a que la fecha y la hora de su computadora se establecen incorrectamente. Solo vuelva a generar la base de datos de bloques si está seguro de que la fecha y la hora del equipo son correctas"];
   Message false [Loc None "+5"]
     "The transaction amount is too small to send after the fee has been deducted" true
     ["El importe de la transacción es demasiado pequeño para enviardespués de que se haya deducido la tarifa"];
   Message false [Loc None "+2"]
     "This is a pre-release test build - use at your own risk - do not use for mining or merchant applications" true
     ["Esta es una compilación de prueba de versión preliminar - uso bajo su propio riesgo - no se utiliza para aplicaciones mineras o comerciales"];
   Message false [Loc None "+3"]
     "This is the transaction fee you may discard if change is smaller than dust at this level" true
     ["Esta es la tarifa de transacción que puede descartar si el cambio es menor que el polvo en este nivel"]].

Definition es_bitcoin_core_2 : list message :=
  [Message false [Loc None "+3"]
     "This is the transaction fee you may pay when fee estimates are not available." true
     ["Esta es la tarifa de transacción que puede pagar cuando las estimaciones de cargos no están disponibles."];
   Message false [Loc None "+2"]
     "This product includes software developed by the OpenSSL Project for use in the OpenSSL Toolkit %s and cryptographic software written by Eric Young and UPnP software written by Thomas Bernard." true
     ["Este producto incluye software desarrollado por el Proyecto OpenSSL para su uso en el Kit de herramientas OpenSSL %s y software criptográfico escrito por Eric Young y software UPnP escrito por Thomas Bernard."];
   Message false [Loc None "+4"]
     "Total length of network version string (%i) exceeds maximum length (%i). Reduce the number or size of uacomments." true
     ["La longitud total de la cadena de versión de red (%i) supera la longitud máxima (%i). Reduzca el número o el tamaño de uacomments."];
   Message false [Loc None "+3"]
     "Unable to replay blocks. You will need to rebuild the database using -reindex-chainstate." true
     ["No se pueden reproducir bloques. Deberá volver a generar la base de datos mediante -reindex-chainstate."];
   Message false [Loc None "+3"]
     "Unable to rewind the database to a pre-fork state. You will need to redownload the blockchain" true
     ["No se puede rebobinar la base de datos a un estado de pre-fork. Tendrás que volver a descargar la cadena de bloques"];
   Message false [Loc None "+3"]
     "Unsupported argument -socks found. Setting SOCKS version isn&apos;t possible anymore, only SOCKS5 proxies are supported." true
     ["Argumento no admitido -socks encontrados. Establecer la versión SOCKS ya no es posible, solo se admiten proxies SOCKS5."];
   Message false [Loc None "+3"]
     "Unsupported argument -whitelistalwaysrelay ignored, use -whitelistrelay and/or -whitelistforcerelay." true
     ["Argumento no admitido -whitelistalwaysrelay ignorado, utilice -whitelistrelay y/o -whitelistforcerelay."];
   Message false [Loc None "+3"]
     "Warning: Private keys detected in wallet {%s} with disabled private keys" true
     ["Advertencia: Claves privadas detectadas en el monedero con claves privadas deshabilitadas"];
   Message false [Loc None "+2"]
     "Warning: The network does not appear to fully agree! Some miners appear to be experiencing issues." true
     ["Advertencia: ¡La red no parece estar completamente de acuerdo! Algunos mineros parecen estar experimentando problemas."];
   Message false [Loc None "+3"]
     "Warning: Unknown block versions being mined! It&apos;s possible unknown rules are in effect" true
     ["Advertencia: ¡Se están extradiciendo versiones de bloques desconocidos! Es posible que las reglas desconocidas estén en efecto"];
   Message false [Loc None "+3"]
     "Warning: Wallet file corrupt, data salvaged! Original %s saved as %s in %s; if your balance or transactions are incorrect you should restore from a backup." true
     ["Advertencia: Monedero archivo corrupto, datos recuperados! %s original guardado como %s en %s; si su saldo o transacciones son incorrectos, debe restaurar desde una copia de seguridad."];
   Message false [Loc None "+4"]
     "Warning: We do not appear to fully agree with our peers! You may need to upgrade, or other nodes may need to upgrade." true
     ["Advertencia: ¡No parece que estemos completamente de acuerdo con nuestros compañeros! Es posible que deba actualizar u otros nodos que deba actualizar."];
   Message false [Loc None "+3"]
     "You need to rebuild the database using -reindex to change -timestampindex" true
     ["Debe volver a generar la base de datos mediante -reindex para cambiar -timestampindex"];
   Message false [Loc None "+2"]
     "You need to rebuild the database using -reindex to go back to unpruned mode.  This will redownload the entire blockchain" true
     ["Debe volver a generar la base de datos mediante -reindex para volver al modo sin podar.  Esto volverá a descargar toda la cadena de bloques"];
   Message false [Loc None "+3"]
     "%d of last 100 blocks have unexpected version" true
     ["%d de los últimos 100 bloques tienen una versión inesperada"];
   Message false [Loc None "+1"]
     "%s corrupt, salvage failed" true
     ["%s corrupto, salvamento fallado"];
   Message false [Loc None "+1"]
     "%s is set very high!" true
     ["%s se establece muy alto!"];
   Message false [Loc None "+1"]
     "-maxmempool must be at least %d MB" true
     ["-maxmempool debe ser al menos %d MB"];
   Message false [Loc None "+1"]
     "Account chain not found" true
     ["Cadena de cuentas no encontrada"];
   Message false [Loc None "+1"]
     "Address &apos;%s&apos; is not in the address book." true
     ["La dirección &apos;%s&apos; no está en la libreta de direcciones."];
   Message false [Loc None "+1"]
     "Address &apos;%s&apos; is recorded in the address book." true
     ["La dirección &apos;%s&apos; se registra en la libreta de direcciones."];
   Message false [Loc None "+1"]
     "Anon output not found in db, %d" true
     ["La salida anon no se encuentra en db, %d"];
   Message false [Loc None "+1"]
     "Anon pubkey not found in db, %s" true
     ["Anon pubkey not found in db, %s"];
   Message false [Loc None "+1"]
     "Cannot downgrade wallet" true
     ["No se puede degradar la cartera"];
   Message false [Loc None "+1"]
     "Cannot resolve -%s address: &apos;%s&apos;" true
     ["No se puede resolver la dirección -%s: &apos;%s&apos;"];
   Message false [Loc None "+1"]
     "Cannot write to data directory &apos;%s&apos;; check permissions." true
     ["No se puede escribir en el directorio de datos &apos;%s&apos;; comprobar los permisos."];
   Message false [Loc None "+1"]
     "Change index out of range" true
     ["Cambiar índice fuera del rango"];
   Message false [Loc None "+1"]
     "Confidential chain set but not found" true
     ["Conjunto de cadenas confidencial pero no encontrado"];
   Message false [Loc None "+1"]
     "Copyright (C)" true
     ["Copyright (C)"];
   Message false [Loc None "+1"]
     "Corrupted block database detected" true
     ["Base de datos de bloques dañados detectados"]].

Definition es_bitcoin_core_3 : list message :=
  [Message false [Loc None "+1"]
     "Could not convert prefix to number." true
     ["No se pudo convertir el prefijo en número."];
   Message false [Loc None "+1"]
     "Could not decode scan secret as wif, hex or base58." true
     ["No se pudo decodificar el secreto de exploración como wif, hex o base58."];
   Message false [Loc None "+1"]
     "Could not decode spend secret as hex or base58." true
     ["No se pudo decodificar el secreto de gasto como hexadecimal o base58."];
   Message false [Loc None "+1"]
     "Could not get confidential chain from account." true
     ["No se pudo obtener la cadena confidencial de la cuenta."];
   Message false [Loc None "+1"]
     "Could not get scan public key." true
     ["No se pudo escanear la clave pública."];
   Message false [Loc None "+1"]
     "Could not get spend public key." true
     ["No se pudo conseguir gastar la clave pública."];
   Message false [Loc None "+1"]
     "Default account not found" true
     ["Cuenta predeterminada no encontrada"];
   Message false [Loc None "+1"]
     "DeriveNextKey failed" true
     ["Error de DeriveNextKey"];
   Message false [Loc None "+1"]
     "Do you want to rebuild the block database now?" true
     ["¿Desea volver a generar la base de datos de bloques ahora?"];
   Message false [Loc None "+1"]
     "Done loading" true
     ["Carga docada"];
   Message false [Loc None "+1"]
     "Duplicate index found, %d" true
     ["Se ha encontrado un índice duplicado, %d"];
   Message false [Loc None "+1"]
     "Empty wallet required for import." true
     ["Se requiere un monedero vacío para la importación."];
   Message false [Loc None "+1"]
     "Ensure available balance remains above reservebalance. (default: 0)" true
     ["Asegúrese de que el saldo disponible permanezca por encima del equilibrio de reserva. (predeterminado: 0)"];
   Message false [Loc None "+1"]
     "EraseSetting failed." true
     ["Error al Borrar configuración."];
   Message false [Loc None "+1"]
     "Error creating %s: You can&apos;t create non-HD wallets with this version." true
     ["Error al crear %s: No se pueden crear monederos que no sean HD con esta versión."];
   Message false [Loc None "+1"]
     "Error initializing block database" true
     ["Error al inicializar la base de datos de bloques"];
   Message false [Loc None "+1"]
     "Error initializing wallet database environment %s!" true
     ["Error al inicializar el entorno de la base de datos de la cartera %s!"];
   Message false [Loc None "+1"]
     "Error loading %s" true
     ["Error al cargar %s"];
   Message false [Loc None "+1"]
     "Error loading %s: Private keys can only be disabled during creation" true
     ["Error al cargar %s: las claves privadas solo se pueden deshabilitar durante la creación"];
   Message false [Loc None "+1"]
     "Error loading %s: Wallet corrupted" true
     ["Error al cargar %s: Monedero dañado"];
   Message false [Loc None "+1"]
     "Error loading %s: Wallet requires newer version of %s" true
     ["Error al cargar %s: Monedero requiere la versión más reciente de %s"];
   Message false [Loc None "+1"]
     "Error loading %s: You can&apos;t disable HD on an already existing HD wallet" true
     ["Error al cargar %s: No se puede deshabilitar HD en un monedero HD ya existente"];
   Message false [Loc None "+1"]
     "Error loading block database" true
     ["Error al cargar la base de datos de bloques"];
   Message false [Loc None "+1"]
     "Error loading wallet %s. Duplicate -wallet filename specified." true
     ["Error al cargar el monedero %s. Duplicar -nombre de archivo de cartera especificado."];
   Message false [Loc None "+1"]
     "Error opening block database" true
     ["Error al abrir la base de datos de bloques"];
   Message false [Loc None "+1"]
     "Error reading from database, shutting down." true
     ["Error al leer de la base de datos, apagar."];
   Message false [Loc None "+1"]
     "Error upgrading chainstate database" true
     ["Error al actualizar la base de datos de estado de cadena"];
   Message false [Loc None "+1"]
     "Error" true
     ["Error"];
   Message false [Loc None "+1"]
     "Error: A fatal internal error occurred, see debug.log for details" true
     ["Error: Se ha producido un error interno grave, consulte debug.log para obtener más información"];
   Message false [Loc None "+1"]
     "Error: Disk space is low!" true
     ["Error: ¡El espacio en disco es bajo!"]].

Definition es_bitcoin_core_4 : list message :=
  [Message false [Loc None "+1"]
     "ExtKeyGetIndex failed." true
     ["Error de ExtKeyGetIndex."];
   Message false [Loc None "+1"]
     "ExtKeySaveAccountToDB failed" true
     ["Error de ExtKeySaveAccountToDB"];
   Message false [Loc None "+1"]
     "Failed to listen on any port. Use -listen=0 if you want this." true
     ["No se pudo escuchar en ningún puerto. Utilice -listen-0 si desea esto."];
   Message false [Loc None "+1"]
     "Failed to open dongle" true
     ["No se pudo abrir el dongle"];
   Message false [Loc None "+1"]
     "Failed to rescan the wallet during initialization" true
     ["No se pudo volver a escanear el monedero durante la inicialización"];
   Message false [Loc None "+1"]
     "Hit nMaxTries limit, %d, %d" true
     ["Límite de nMaxTries, %d, %d"];
   Message false [Loc None "+1"]
     "Import failed - AddKeyPubKey failed." true
     ["Error al importar: error de AddKeyPubKey."];
   Message false [Loc None "+1"]
     "Import failed - stealth address exists." true
     ["Error de importación: existe una dirección oculta."];
   Message false [Loc None "+1"]
     "Importing..." true
     ["Importar..."];
   Message false [Loc None "+1"]
     "Incorrect or no genesis block found. Wrong datadir for network?" true
     ["Se ha encontrado un bloque de génesis incorrecto o no. ¿Dirdeda de datos incorrecto para la red?"];
   Message false [Loc None "+1"]
     "Information" true
     ["Información"];
   Message false [Loc None "+1"]
     "Initialization sanity check failed. %s is shutting down." true
     ["Error en la comprobación de cordura de inicialización. %s se está apagando."];
   Message false [Loc None "+1"]
     "Insufficient funds" true
     ["Fondos insuficientes"];
   Message false [Loc None "+1"]
     "Insufficient funds." true
     ["Fondos insuficientes."];
   Message false [Loc None "+1"]
     "Invalid -onion address or hostname: &apos;%s&apos;" true
     ["No válido -dirección de cebolla o nombre de host: &apos;%s&apos;"];
   Message false [Loc None "+1"]
     "Invalid -proxy address or hostname: &apos;%s&apos;" true
     ["Dirección -proxy no válida o nombre de host: &apos;%s&apos;"];
   Message false [Loc None "+1"]
     "Invalid BitcoinC address." true
     ["Dirección BitcoinC no válida."];
   Message false [Loc None "+1"]
     "Invalid amount for -%s=&lt;amount&gt;: &apos;%s&apos;" true
     ["Importe no válido para -%s:&lt;amount&gt;&apos;%s&apos;&lt;/amount&gt;"];
   Message false [Loc None "+1"]
     "Invalid amount for -discardfee=&lt;amount&gt;: &apos;%s&apos;" true
     ["Importe no válido para -discardfee:&lt;amount&gt;&apos;%s&apos;&lt;/amount&gt;"];
   Message false [Loc None "+1"]
     "Invalid amount for -fallbackfee=&lt;amount&gt;: &apos;%s&apos;" true
     ["Importe no válido para -fallbackfee:&lt;amount&gt;&apos;%s&apos;&lt;/amount&gt;"];
   Message false [Loc None "+1"]
     "Invalid amount for -paytxfee=&lt;amount&gt;: &apos;%s&apos; (must be at least %s)" true
     ["Importe no válido para -paytxfee:&lt;amount&gt;&apos;%s&apos; (debe ser al menos %s)&lt;/amount&gt;"];
   Message false [Loc None "+1"]
     "Invalid amount for -reservebalance=&lt;amount&gt;" true
     ["Importe no válido para -reservebalanceTM&lt;amount&gt;&lt;/amount&gt;"];
   Message false [Loc None "+1"]
     "Invalid coldstakingaddress." true
     ["Dirección de coldstakingdireccion no válida."];
   Message false [Loc None "+1"]
     "Invalid input key." true
     ["Clave de entrada no válida."];
   Message false [Loc None "+1"]
     "Invalid key." true
     ["Clave no válida."];
   Message false [Loc None "+1"]
     "Invalid netmask specified in -whitelist: &apos;%s&apos;" true
     ["Máscara de red no válida especificada en -whitelist: &apos;%s&apos;"];
   Message false [Loc None "+1"]
     "Invalid rewardaddress." true
     ["Dirección de recompensa no válida."];
   Message false [Loc None "+1"]
     "Keypool ran out, please call keypoolrefill first" true
     ["Keypool se agotó, por favor llame a keypoolrefill primero"];
   Message false [Loc None "+1"]
     "Loading P2P addresses..." true
     ["Cargando direcciones P2P..."]].

Definition es_bitcoin_core_5 : list message :=
  [Message false [Loc None "+1"]
     "Loading address book for %s.
" true
     ["Carga de la libreta de direcciones para %s."];
   Message false [Loc None "+1"]
     "Loading banlist..." true
     ["Cargando barlist..."];
   Message false [Loc None "+1"]
     "Loading block index..." true
     ["Cargando el índice de bloque..."];
   Message false [Loc None "+1"]
     "Loading transaction records for %s.
" true
     ["Carga de registros de transacciones para %s."];
   Message false [Loc None "+1"]
     "Loading wallet..." true
     ["Cargando cartera..."];
   Message false [Loc None "+1"]
     "Minimum time in seconds between successful stakes (default: 0)" true
     ["Tiempo mínimo en segundos entre apuestas exitosas (predeterminado: 0)"];
   Message false [Loc None "+1"]
     "Must be json object." true
     ["Debe ser un objeto json."];
   Message false [Loc None "+1"]
     "Must have account to save keys." true
     ["Debe tener una cuenta para guardar las claves."];
   Message false [Loc None "+1"]
     "Must input a stealthaddress." true
     ["Debe introducir una dirección de sigilo."];
   Message false [Loc None "+1"]
     "Need a parameter to change." true
     ["Necesita un parámetro para cambiar."];
   Message false [Loc None "+1"]
     "Need to specify a port with -whitebind: &apos;%s&apos;" true
     ["Necesidad de especificar un puerto con -whitebind: &apos;%s&apos;"];
   Message false [Loc None "+1"]
     "New state must be bool." true
     ["El nuevo estado debe ser bool."];
   Message false [Loc None "+1"]
     "NewExtKeyFromAccount failed, %s." true
     ["Error de NewExtKeyFromAccount, %s."];
   Message false [Loc None "+1"]
     "NewExtKeyFromAccount failed." true
     ["Error de NewExtKeyFromAccount."];
   Message false [Loc None "+1"]
     "NewStealthKeyV2FromAccount failed." true
     ["Error de NewStealthKeyV2FromAccount."];
   Message false [Loc None "+1"]
     "No default account set." true
     ["No hay un conjunto de cuentas predeterminado."];
   Message false [Loc None "+1"]
     "No key for anonoutput, %s" true
     ["Sin clave para anonoutput, %s"];
   Message false [Loc None "+1"]
     "Not anon output %s %d" true
     ["No salida anon %s %d"];
   Message false [Loc None "+1"]
     "Not enough file descriptors available." true
     ["No hay suficientes descriptores de archivo disponibles."];
   Message false [Loc None "+1"]
     "Num inputs per signature out of range" true
     ["Entradas num por firma fuera del rango"];
   Message false [Loc None "+1"]
     "Number of keys to load into the lookahead pool per chain. (default: %u)" true
     ["Número de claves que se cargarán en el grupo de búsqueda anticipada por cadena. (predeterminado: %u)"];
   Message false [Loc None "+1"]
     "Only able to send to stealth address." true
     ["Sólo es capaz de enviar a la dirección de sigilo."];
   Message false [Loc None "+1"]
     "OpIsCoinstake is not active yet." true
     ["OpIsCoinstake aún no está activo."];
   Message false [Loc None "+1"]
     "Output isn&apos;t standard." true
     ["La salida no es estándar."];
   Message false [Loc None "+1"]
     "PrepareTransaction for device failed: %s" true
     ["Error en PrepareTransaction para el dispositivo: %s"];
   Message false [Loc None "+1"]
     "ProduceSignature from device failed: %s" true
     ["ProduceSignature del dispositivo falló: %s"];
   Message false [Loc None "+1"]
     "Prune cannot be configured with a negative value." true
     ["La poda no se puede configurar con un valor negativo."];
   Message false [Loc None "+1"]
     "Prune mode is incompatible with -txindex." true
     ["El modo prune es incompatible con -txindex."];
   Message false [Loc None "+1"]
     "Pruning blockstore..." true
     ["Tienda de podas..."]].

Definition es_bitcoin_core_6 : list message :=
  [Message false [Loc None "+1"]
     "ReadStoredTx failed for %s" true
     ["Error de ReadStoredTx para %s"];
   Message false [Loc None "+1"]
     "Reducing -maxconnections from %d to %d, because of system limitations." true
     ["Reducción de -maxconnections de %d a %d, debido a las limitaciones del sistema."];
   Message false [Loc None "+1"]
     "Replaying blocks..." true
     ["Reproducción de bloques..."];
   Message false [Loc None "+1"]
     "Rescanning..." true
     ["Reescaneo..."];
   Message false [Loc None "+1"]
     "Rewinding blocks..." true
     ["Bloques de rebobinado..."];
   Message false [Loc None "+1"]
     "Ring size out of range [%d, %d]" true
     ["Tamaño del anillo fuera del rango [%d, %d]"];
   Message false [Loc None "+1"]
     "Ring size out of range" true
     ["Tamaño del anillo fuera de rango"];
   Message false [Loc None "+1"]
     "Scan secret is not 32 bytes." true
     ["El secreto de análisis no es de 32 bytes."];
   Message false [Loc None "+1"]
     "SetSetting failed." true
     ["Error al establecer."];
   Message false [Loc None "+1"]
     "Signing transaction failed" true
     ["Error en la transacción de firma"];
   Message false [Loc None "+1"]
     "Specified -walletdir &quot;%s&quot; does not exist" true
     ["Especificado -walletdir &quot;%s&quot; no existe"];
   Message false [Loc None "+1"]
     "Specified -walletdir &quot;%s&quot; is a relative path" true
     ["-walletdir especificado &quot;%s&quot; es una ruta relativa"];
   Message false [Loc None "+1"]
     "Specified -walletdir &quot;%s&quot; is not a directory" true
     ["Especificado -walletdir &quot;%s&quot; no es un directorio"];
   Message false [Loc None "+1"]
     "Specified blocks directory &quot;%s&quot; does not exist." true
     ["El directorio de bloques especificados &quot;%s&quot; no existe."];
   Message false [Loc None "+1"]
     "Spend secret is not 32 bytes." true
     ["Gastar secreto no es 32 bytes."];
   Message false [Loc None "+1"]
     "Spend secret must be different to scan secret." true
     ["Gastar secreto debe ser diferente para escanear en secreto."];
   Message false [Loc None "+1"]
     "Stake your coins to support network and gain reward (default: true)" true
     ["Estaca tus monedas para apoyar la red y ganar recompensa (predeterminado: true)"];
   Message false [Loc None "+1"]
     "Starting network threads..." true
     ["Inicio de subprocesos de red..."];
   Message false [Loc None "+1"]
     "StealthSecret failed, try again." true
     ["StealthSecret falló, inténtelo de nuevo."];
   Message false [Loc None "+1"]
     "The source code is available from %s." true
     ["El código fuente está disponible en %s."];
   Message false [Loc None "+1"]
     "The transaction amount is too small to pay the fee" true
     ["El monto de la transacción es demasiado pequeño para pagar la tarifa"];
   Message false [Loc None "+1"]
     "The wallet will avoid paying less than the minimum relay fee." true
     ["La cartera evitará pagar menos de la tarifa mínima de relevo."];
   Message false [Loc None "+1"]
     "This is experimental software." true
     ["Este es un software experimental."];
   Message false [Loc None "+1"]
     "This is the minimum transaction fee you pay on every transaction." true
     ["Esta es la tarifa mínima de transacción que usted paga en cada transacción."];
   Message false [Loc None "+1"]
     "This is the transaction fee you will pay if you send a transaction." true
     ["Esta es la tarifa de transacción que pagará si envía una transacción."];
   Message false [Loc None "+1"]
     "Transaction amount too small" true
     ["Importe de la transacción demasiado pequeño"];
   Message false [Loc None "+1"]
     "Transaction amounts must not be negative" true
     ["Los importes de las transacciones no deben ser negativos"];
   Message false [Loc None "+1"]
     "Transaction amounts must not be negative." true
     ["Los importes de transacción no deben ser negativos."];
   Message false [Loc None "+1"]
     "Transaction fee and change calculation failed" true
     ["Error en la tarifa de transacción y el cálculo de cambios"];
   Message false [Loc None "+1"]
     "Transaction fee and change calculation failed." true
     ["Error en la tarifa de transacción y el cálculo de cambios."]].

Definition es_bitcoin_core_7 : list message :=
  [Message false [Loc None "+1"]
     "Transaction has too long of a mempool chain" true
     ["La transacción tiene una cadena de mempool demasiado larga"];
   Message false [Loc None "+1"]
     "Transaction must have at least one recipient" true
     ["La transacción debe tener al menos un destinatario"];
   Message false [Loc None "+1"]
     "Transaction must have at least one recipient." true
     ["La transacción debe tener al menos un destinatario."];
   Message false [Loc None "+1"]
     "Transaction too large for fee policy" true
     ["Transacción demasiado grande para la política de tarifas"];
   Message false [Loc None "+1"]
     "Transaction too large for fee policy." true
     ["Transacción demasiado grande para la política de tarifas."];
   Message false [Loc None "+1"]
     "Transaction too large" true
     ["Transacción demasiado grande"];
   Message false [Loc None "+1"]
     "TxnBegin failed." true
     ["TxnBegin falló."];
   Message false [Loc None "+1"]
     "Unable to bind to %s on this computer (bind returned error %s)" true
     ["No se puede enlazar a %s en este equipo (error devuelto %s)"];
   Message false [Loc None "+1"]
     "Unable to bind to %s on this computer. %s is probably already running." true
     ["No se puede enlazar a %s en este equipo. %s probablemente ya se está ejecutando."];
   Message false [Loc None "+1"]
     "Unable to generate initial keys" true
     ["No se pueden generar claves iniciales"];
   Message false [Loc None "+1"]
     "Unable to generate keys" true
     ["No se pueden generar claves"];
   Message false [Loc None "+1"]
     "Unable to start HTTP server. See debug log for details." true
     ["No se puede iniciar el servidor HTTP. Consulte el registro de depuración para obtener más información."];
   Message false [Loc None "+1"]
     "Unknown account." true
     ["Cuenta desconocida."];
   Message false [Loc None "+1"]
     "Unknown action, must be one of &apos;add/edit/del&apos;." true
     ["Acción desconocida, debe ser uno de &apos;add/edit/del&apos;."];
   Message false [Loc None "+1"]
     "Unknown argument for 256bithash: %s." true
     ["Argumento desconocido para 256bithash: %s."];
   Message false [Loc None "+1"]
     "Unknown argument for add_to_addressbook: %s." true
     ["Argumento desconocido para add_to_addressbook: %s."];
   Message false [Loc None "+1"]
     "Unknown chain." true
     ["Cadena desconocida."];
   Message false [Loc None "+1"]
     "Unknown input key version." true
     ["Versión de clave de entrada desconocida."];
   Message false [Loc None "+1"]
     "Unknown network specified in -onlynet: &apos;%s&apos;" true
     ["Red desconocida especificada en -onlynet: &apos;%s&apos;"];
   Message false [Loc None "+1"]
     "Unknown setting" true
     ["Entorno desconocido"];
   Message false [Loc None "+1"]
     "Unsupported argument -benchmark ignored, use -debug=bench." true
     ["Argumento no admitido -benchmark ignorado, use -debug-bench."];
   Message false [Loc None "+1"]
     "Unsupported argument -debugnet ignored, use -debug=net." true
     ["Argumento no admitido -debugnet ignorado, use -debug-net."];
   Message false [Loc None "+1"]
     "Unsupported argument -debugnet ignored, use -debug=smsg." true
     ["Argumento no admitido -debugnet ignorado, use -debug-smsg."];
   Message false [Loc None "+1"]
     "Unsupported argument -tor found, use -onion." true
     ["No admitido argumento -tor encontrado, use -onion."];
   Message false [Loc None "+1"]
     "Unsupported logging category %s=%s." true
     ["Categoría de registro no admitida %s-%s."];
   Message false [Loc None "+1"]
     "Upgrading txindex database" true
     ["Actualización de la base de datos txindex"];
   Message false [Loc None "+1"]
     "User Agent comment (%s) contains unsafe characters." true
     ["El comentario del agente de usuario (%s) contiene caracteres no seguros."];
   Message false [Loc None "+1"]
     "Verifying blocks..." true
     ["Verificación de bloques..."];
   Message false [Loc None "+1"]
     "Verifying wallet(s)..." true
     ["Verificación de cartera(s)..."];
   Message false [Loc None "+1"]
     "Wallet %s resides outside wallet directory %s" true
     ["Monedero %s reside fuera del directorio de la cartera %s"]].

Definition es_bitcoin_core_8 : list message :=
  [Message false [Loc None "+1"]
     "Wallet has no active master key." true
     ["Monedero no tiene ninguna clave maestra activa."];
   Message false [Loc None "+1"]
     "Wallet must be unlocked." true
     ["La cartera debe estar desbloqueada."];
   Message false [Loc None "+1"]
     "Wallet must have a default account set." true
     ["Monedero debe tener un conjunto de cuentas predeterminado."];
   Message false [Loc None "+1"]
     "Wallet needed to be rewritten: restart %s to complete" true
     ["Monedero necesario para ser reescrito: reiniciar %s para completar"];
   Message false [Loc None "+1"]
     "Warning" true
     ["Advertencia"];
   Message false [Loc None "+1"]
     "Warning: unknown new rules activated (versionbit %i)" true
     ["Advertencia: nuevas reglas desconocidas activadas (versionbit %i)"];
   Message false [Loc None "+1"]
     "You need to rebuild the database using -reindex to change -addressindex" true
     ["Debe volver a generar la base de datos mediante -reindex para cambiar -addressindex"];
   Message false [Loc None "+1"]
     "You need to rebuild the database using -reindex to change -spentindex" true
     ["Debe volver a generar la base de datos mediante -reindex para cambiar -spentindex"];
   Message false [Loc None "+1"]
     "Zapping all transactions from wallet..." true
     ["Zapping todas las transacciones de la cartera..."];
   Message false [Loc None "+1"]
     "accounts missing." true
     ["cuentas que faltan."];
   Message false [Loc None "+1"]
     "accounts must be an array." true
     ["cuentas debe ser una matriz."];
   Message false [Loc None "+1"]
     "add_to_addressbook can&apos;t be set without save" true
     ["add_to_addressbook no se puede establecer sin guardar"];
   Message false [Loc None "+1"]
     "address_standard must be a string." true
     ["address_standard debe ser una cadena."];
   Message false [Loc None "+1"]
     "bad childNo." true
     ["niño maloNo."];
   Message false [Loc None "+1"]
     "bech32 encode failed." true
     ["Error en la codificación bech32."];
   Message false [Loc None "+1"]
     "coldstakingaddress can&apos;t be a stealthaddress." true
     ["coldstakingaddress no puede ser una dirección de sigilo."];
   Message false [Loc None "+1"]
     "coldstakingaddress must be a string." true
     ["coldstakingaddress debe ser una cadena."];
   Message false [Loc None "+1"]
     "extkey must have private key to derive hardened keys." true
     ["extkey debe tener clave privada para derivar claves endurecidas."];
   Message false [Loc None "+1"]
     "foundationdonationpercent must be a number." true
     ["el porcentaje de donación debe ser un número."];
   Message false [Loc None "+1"]
     "height must be a number." true
     ["altura debe ser un número."];
   Message false [Loc None "+1"]
     "loose_extkeys missing." true
     ["falta loose_extkeys."];
   Message false [Loc None "+1"]
     "loose_extkeys must be an array." true
     ["loose_extkeys debe ser una matriz."];
   Message false [Loc None "+1"]
     "num_derives to int failed." true
     ["error de num_derives a int."];
   Message false [Loc None "+1"]
     "num_derives_h to int failed." true
     ["error de num_derives_h a int."];
   Message false [Loc None "+1"]
     "num_prefix_bits invalid number." true
     ["número no válido num_prefix_bits."];
   Message false [Loc None "+1"]
     "num_prefix_bits must be &lt;= 32." true
     ["num_prefix_bits debe ser&lt;= 32.&gt;&lt;/= 32.&gt;"];
   Message false [Loc None "+1"]
     "rewardaddress must be a string." true
     ["rewardaddress debe ser una cadena."];
   Message false [Loc None "+1"]
     "secp256k1_generate_mlsag failed %d" true
     ["secp256k1_generate_mlsag falló %d"];
   Message false [Loc None "+1"]
     "secp256k1_get_keyimage failed %d" true
     ["secp256k1_get_keyimage falló %d"];
   Message false [Loc None "+1"]
     "secp256k1_prepare_mlsag failed %d" true
     ["secp256k1_prepare_mlsag falló %d"]].

Definition es_bitcoin_core_9 : list message :=
  [Message false [Loc None "+1"]
     "stakecombinethreshold can&apos;t be negative." true
     ["estacacombthreshold no puede ser negativo."];
   Message false [Loc None "+1"]
     "stakesplitthreshold can&apos;t be negative." true
     ["stakesplitthreshold no puede ser negativo."]].

(** The whole document. *)
Definition bitcoin_es_ES : catalogue :=
  [Context "AddressBookPage" (es_AddressBookPage_1 ++ es_AddressBookPage_2);
   Context "AddressTableModel" (es_AddressTableModel);
   Context "AskPassphraseDialog" (es_AskPassphraseDialog_1 ++ es_AskPassphraseDialog_2);
   Context "BanTableModel" (es_BanTableModel);
   Context "BitcoinGUI" (es_BitcoinGUI_1 ++ es_BitcoinGUI_2 ++ es_BitcoinGUI_3 ++ es_BitcoinGUI_4);
   Context "CoinControlDialog" (es_CoinControlDialog_1 ++ es_CoinControlDialog_2);
   Context "EditAddressDialog" (es_EditAddressDialog);
   Context "FreespaceChecker" (es_FreespaceChecker);
   Context "HelpMessageDialog" (es_HelpMessageDialog);
   Context "Intro" (es_Intro);
   Context "MnemonicDialog" (es_MnemonicDialog_1 ++ es_MnemonicDialog_2);
   Context "ModalOverlay" (es_ModalOverlay);
   Context "OpenURIDialog" (es_OpenURIDialog);
   Context "OptionsDialog" (es_OptionsDialog_1 ++ es_OptionsDialog_2 ++ es_OptionsDialog_3);
   Context "OverviewPage" (es_OverviewPage);
   Context "PaymentServer" (es_PaymentServer);
   Context "PeerTableModel" (es_PeerTableModel);
   Context "QObject" (es_QObject);
   Context "QObject::QObject" (es_QObject__QObject);
   Context "QRImageWidget" (es_QRImageWidget);
   Context "RPCConsole" (es_RPCConsole_1 ++ es_RPCConsole_2 ++ es_RPCConsole_3);
   Context "ReceiveCoinsDialog" (es_ReceiveCoinsDialog);
   Context "ReceiveRequestDialog" (es_ReceiveRequestDialog);
   Context "RecentRequestsTableModel" (es_RecentRequestsTableModel);
   Context "SendCoinsDialog" (es_SendCoinsDialog_1 ++ es_SendCoinsDialog_2 ++ es_SendCoinsDialog_3);
   Context "SendCoinsEntry" (es_SendCoinsEntry_1 ++ es_SendCoinsEntry_2);
   Context "SendConfirmationDialog" (es_SendConfirmationDialog);
   Context "ShutdownWindow" (es_ShutdownWindow);
   Context "SignVerifyMessageDialog" (es_SignVerifyMessageDialog_1 ++ es_SignVerifyMessageDialog_2);
   Context "SplashScreen" (es_SplashScreen);
   Context "StakingDialog" (es_StakingDialog_1 ++ es_StakingDialog_2);
   Context "TrafficGraphWidget" (es_TrafficGraphWidget);
   Context "TransactionDesc" (es_TransactionDesc_1 ++ es_TransactionDesc_2);
   Context "TransactionDescDialog" (es_TransactionDescDialog);
   Context "TransactionTableModel" (es_TransactionTableModel_1 ++ es_TransactionTableModel_2);
   Context "TransactionView" (es_TransactionView_1 ++ es_TransactionView_2);
   Context "TxViewDelegate" (es_TxViewDelegate);
   Context "UnitDisplayStatusBarControl" (es_UnitDisplayStatusBarControl);
   Context "WalletFrame" (es_WalletFrame);
   Context "WalletModel" (es_WalletModel);
   Context "WalletView" (es_WalletView);
   Context "bitcoin-core" (es_bitcoin_core_1 ++ es_bitcoin_core_2 ++ es_bitcoin_core_3 ++ es_bitcoin_core_4 ++ es_bitcoin_core_5 ++ es_bitcoin_core_6 ++ es_bitcoin_core_7 ++ es_bitcoin_core_8 ++ es_bitcoin_core_9)].
