(* ===== verification/CatalogueFa.v ===== *)
(** The Persian catalogue, [src/src/qt/locale/bitcoin_fa_IR.ts], context by context; a long
    context is cut into parts.  Texts are as in the file. *)
From S2P Require Import Prelude Locale.
Open Scope txt_scope.
Open Scope list_scope.

Definition fa_AddressBookPage_1 : list message :=
  [Message false [Loc (Some "../forms/addressbookpage.ui") "+27"]
     "Enter address or label to search" true
     ["آدرس یا برچسب را برای جستجو وارد کنید"];
   Message false [Loc None "+10"]
     "Right-click to edit address or label" true
     ["برای ویرایش نشانی یا برچسب راست کلیک کنید"];
   Message false [Loc None "+30"; Loc None "+17"; Loc None "+17"]
     "Create a new address" true
     ["ایجاد یک آدرس جدید"];
   Message false [Loc None "-31"]
     "&amp;New" true
     ["&amp; جدید"];
   Message false [Loc None "+17"]
     "&amp;New Stake address" true
     ["&amp; آدرس سهام جدید"];
   Message false [Loc None "+17"]
     "&amp;New ColdStake address" true
     ["&amp; آدرس جدید ColdStake"];
   Message false [Loc None "+14"]
     "Copy the currently selected address to the system clipboard" true
     ["آدرس فعلی انتخاب شده را در کلیپ بورد سیستم کپی کنید"];
   Message false [Loc None "+3"]
     "&amp;Copy" true
     ["&amp; کپی"];
   Message false [Loc None "+14"]
     "Delete the currently selected address from the list" true
     ["آدرس فعلی انتخاب شده را از لیست حذف کنید"];
   Message false [Loc None "+3"]
     "&amp;Delete" true
     ["&amp; حذف"];
   Message false [Loc None "+27"]
     "Export the data in the current tab to a file" true
     ["داده ها را در برگه فعلی به یک فایل صادر کنید"];
   Message false [Loc None "+3"]
     "&amp;Export" true
     ["صادرات &amp;"];
   Message false [Loc None "+20"]
     "C&amp;lose" true
     ["C&amp;lose"];
   Message false [Loc (Some "../addressbookpage.cpp") "+84"]
     "These are your Bitcoin Confidential addresses for sending payments. Always check the amount and the receiving address before sending coins." true
     ["این آدرس های محرمانه Bitcoin برای ارسال پرداخت ها هستند. همیشه قبل از ارسال سکه ، مقدار و آدرس دریافت را بررسی کنید."];
   Message false [Loc None "+8"]
     "Choose the address to send coins to" true
     ["انتخاب آدرس برای ارسال سکه به"];
   Message false [Loc None "+4"; Loc None "+22"; Loc None "+28"]
     "C&amp;hoose" true
     ["C&amp;hoose"];
   Message false [Loc None "-44"]
     "Sending addresses" true
     ["ارسال نشانی"];
   Message false [Loc None "+12"]
     "Choose the address to receive coins with" true
     ["آدرس را انتخاب کنید برای دریافت سکه با"];
   Message false [Loc None "+10"]
     "Receiving addresses" true
     ["دریافت آدرس"];
   Message false [Loc None "+1"]
     "These are your Bitcoin Confidential addresses for receiving payments. It is recommended to use a new receiving address for each transaction." true
     ["این آدرس های محرمانه بیت کوین شما برای دریافت پرداخت ها هستند. توصیه می شود از یک آدرس دریافت جدید برای هر تراکنش استفاده کنید."];
   Message false [Loc None "+13"]
     "Choose the Stake or ColdStake address" true
     ["آدرس سهام یا سهام را انتخاب کنید"];
   Message false [Loc None "+1"]
     "These are your Bitcoin Confidential Stake and ColdStake addresses." true
     ["این ها سهام محرمانه بیت کوین شما و آدرس های ColdStake هستند."];
   Message false [Loc None "+16"]
     "Stake and ColdStake addresses" true
     ["ادرس سهام و سهام"];
   Message false [Loc None "+1"]
     "These addresses cannot be used to receive coins from outside the wallet, such as payments or from exchanges.  Use the Receive tab to generate spending addresses.

Stake addresses, starting with &quot;%1&quot;, are used to convert spending funds into staking funds in the &quot;Convert to Staking&quot; tab. Funds in Stake addresses can be either used for hot staking or the activation of ColdStaking.

ColdStake addresses, starting with &quot;%2&quot;, are used to manually activate staking funds for ColdStaking. There is no need to generate ColdStake addresses when the automated ColdStaking activation from the Staking Status page is used." true
     ["از این نشانی ها نمی توان برای دریافت سکه از خارج از کیف پول ، مانند پرداخت یا از مبادلات استفاده کرد.  از زبانه دریافت برای ایجاد آدرس هزینه استفاده کنید.

آدرس های سهام ، با شروع از &quot;% 1&quot; ، برای تبدیل صندوق های هزینه به صندوق های موجود در تب &quot;تبدیل به ردی&quot; استفاده می شود. وجوه در آدرس های سهام را می توان یا برای استفاده های داغ و یا فعال سازی از ColdStaking.

آدرس های ColdStake ، با شروع از &quot;% 2&quot; ، استفاده می شود به صورت دستی فعال کردن وجوه موجود برای Coldstake. بدون نیاز به تولید آدرس های ColdStake زمانی که فعال کردن Coldstake خودکار از صفحه وضعیت از بین رفته است استفاده می شود."];
   Message false [Loc None "+11"]
     "&amp;Copy Address" true
     ["آدرس کپی &amp;"];
   Message false [Loc None "+1"]
     "Copy &amp;Label" true
     ["کپی برچسب &amp;"];
   Message false [Loc None "+1"]
     "&amp;Edit" true
     ["&amp; ویرایش"]].

Definition fa_AddressBookPage_2 : list message :=
  [Message false [Loc None "+186"]
     "Export Address List" true
     ["لیست آدرس صادرات"];
   Message false [Loc None "+1"]
     "Comma separated file (*.csv)" true
     ["پرونده جدا شده با ویرگول (*. csv)"];
   Message false [Loc None "+13"]
     "Exporting Failed" true
     ["صادر کردن ناموفق"];
   Message false [Loc None "+1"]
     "There was an error trying to save the address list to %1. Please try again." true
     ["خطایی در تلاش برای ذخیره لیست نشانی به% 1 وجود داشت. لطفاً دوباره امتحان کنید."]].

Definition fa_AddressTableModel : list message :=
  [Message false [Loc (Some "../addresstablemodel.cpp") "+188"]
     "Label" true
     ["برچسب"];
   Message false [Loc None "+0"]
     "Address" true
     ["آدرس"];
   Message false [Loc None "+36"]
     "(no label)" true
     ["(بدون برچسب)"]].

Definition fa_AskPassphraseDialog_1 : list message :=
  [Message false [Loc (Some "../forms/askpassphrasedialog.ui") "+26"]
     "Passphrase Dialog" true
     ["گفتگوی رمز عبور"];
   Message false [Loc None "+30"]
     "Enter passphrase" true
     ["وارد کردن عبارت عبور"];
   Message false [Loc None "+14"]
     "New passphrase" true
     ["رمز عبور جدید"];
   Message false [Loc None "+14"]
     "Repeat new passphrase" true
     ["تکرار رمز عبور جدید"];
   Message false [Loc None "+14"]
     "Show password" true
     ["نمایش رمز عبور"];
   Message false [Loc None "+23"]
     "Unlock For Staking Only" true
     ["باز کردن برای تنها ردی"];
   Message false [Loc (Some "../askpassphrasedialog.cpp") "+48"]
     "Enter the new passphrase to the wallet.&lt;br/&gt;Please use a passphrase of &lt;b&gt;ten or more random characters&lt;/b&gt;, or &lt;b&gt;eight or more words&lt;/b&gt;." true
     ["رمز عبور جدید را به کیف پول وارد کنید.&lt;br&gt;لطفاً یک عبارت عبور از &lt;b&gt;ده یا چند نویسه تصادفی&lt;/b&gt;یا &lt;b&gt;هشت یا چند کلمه&lt;/b&gt;استفاده کنید."];
   Message false [Loc None "+3"]
     "Encrypt wallet" true
     ["رمزگذاری کیف پول"];
   Message false [Loc None "+3"; Loc None "+8"]
     "This operation needs your wallet passphrase to unlock the wallet." true
     ["این عملیات نیاز به رمز عبور کیف پول شما برای باز کردن کیف پول دارد."];
   Message false [Loc None "-3"; Loc None "+9"]
     "Unlock wallet" true
     ["باز کردن کیف پول"];
   Message false [Loc None "+3"]
     "This operation needs your wallet passphrase to decrypt the wallet." true
     ["این عملیات نیاز به رمز عبور کیف پول شما برای رمزگشایی کیف پول دارد."];
   Message false [Loc None "+5"]
     "Decrypt wallet" true
     ["رمزگشایی کیف پول"];
   Message false [Loc None "+3"]
     "Change passphrase" true
     ["تغییر رمز عبور"];
   Message false [Loc None "+1"]
     "Enter the old passphrase and new passphrase to the wallet." true
     ["رمز عبور قدیمی و رمز عبور جدید را به کیف پول وارد کنید."];
   Message false [Loc None "+47"]
     "Confirm wallet encryption" true
     ["تایید رمزگذاری کیف پول"];
   Message false [Loc None "+1"]
     "Warning: If you encrypt your wallet and lose your passphrase, you will &lt;b&gt;LOSE ALL OF YOUR BITCOIN CONFIDENTIAL&lt;/b&gt;!" true
     ["هشدار: اگر کیف پول خود را رمزگذاری کرده و رمز عبور خود را از دست بدهید ، &lt;b&gt;همه بیت کوین را محرمانه خود از دست&lt;/b&gt;خواهید داد!"];
   Message false [Loc None "+0"]
     "Are you sure you wish to encrypt your wallet?" true
     ["آیا مطمئن هستید که می خواهید کیف پول خود را رمزگذاری کنید ؟"];
   Message false [Loc None "+9"; Loc None "+59"]
     "Wallet encrypted" true
     ["کیف پول رمزگذاری شده"];
   Message false [Loc None "-57"]
     "%1 will close now to finish the encryption process. Remember that encrypting your wallet cannot fully protect your Bitcoin Confidential from being stolen by malware infecting your computer." true
     ["% 1 در حال حاضر برای پایان دادن به فرآیند رمزگذاری بسته خواهد شد. به یاد داشته باشید که رمزگذاری کیف پول شما نمی تواند به طور کامل از بیت کوین شما محرمانه باشد که توسط بدافزار آلوده کردن رایانه شما به سرقت رفته است."];
   Message false [Loc None "+4"]
     "IMPORTANT: Any previous backups you have made of your wallet file should be replaced with the newly generated, encrypted wallet file. For security reasons, previous backups of the unencrypted wallet file will become useless as soon as you start using the new, encrypted wallet." true
     ["مهم: هر گونه پشتیبان قبلی که از فایل کیف پول خود ساخته اید باید با فایل کیف پول جدید تولید شده جایگزین شود. به دلایل امنیتی ، پشتیبان گیری قبلی فایل کیف پول رمزگذاری نشده به محض شروع به استفاده از کیف پول جدید و رمزگذاری شده بی فایده می شود."];
   Message false [Loc None "+9"; Loc None "+7"; Loc None "+43"; Loc None "+6"]
     "Wallet encryption failed" true
     ["رمزگذاری کیف پول انجام نشد"];
   Message false [Loc None "-55"]
     "Wallet encryption failed due to an internal error. Your wallet was not encrypted." true
     ["رمزگذاری کیف پول بدلیل خطای داخلی ناموفق بود. کیف پول شما رمزگذاری نشد."];
   Message false [Loc None "+7"; Loc None "+49"]
     "The supplied passphrases do not match." true
     ["رمزهای عبور ارائه شده با یکدیگر مطابقت ندارند."];
   Message false [Loc None "-37"]
     "Wallet unlock failed" true
     ["باز کردن کیف پول انجام نشد"];
   Message false [Loc None "+1"; Loc None "+11"; Loc None "+19"]
     "The passphrase entered for the wallet decryption was incorrect." true
     ["رمز عبور وارد شده برای آشکارسازی کیف پول صحیح نیست."];
   Message false [Loc None "-20"]
     "Wallet decryption failed" true
     ["رمزگشایی کیف پول انجام نشد"];
   Message false [Loc None "+14"]
     "Wallet passphrase was successfully changed." true
     ["کلمه عبور کیف پول با موفقیت تغییر یافت."]].

Definition fa_AskPassphraseDialog_2 : list message :=
  [Message false [Loc None "+48"; Loc None "+33"]
     "Warning: The Caps Lock key is on!" true
     ["هشدار: کلید قفل Caps روشن است!"]].

Definition fa_BanTableModel : list message :=
  [Message false [Loc (Some "../bantablemodel.cpp") "+88"]
     "IP/Netmask" true
     ["IP/Netmask"];
   Message false [Loc None "+0"]
     "Banned Until" true
     ["ممنوع تا"]].

Definition fa_BitcoinGUI_1 : list message :=
  [Message false [Loc (Some "../bitcoingui.cpp") "+94"]
     "Wallet" true
     ["کیف پول"];
   Message false [Loc None "+2"]
     "Node" true
     ["گره"];
   Message false [Loc None "+169"]
     "Overview" true
     ["مروری"];
   Message false [Loc None "+1"]
     "Show general overview of wallet" true
     ["نمایش کلی نمای کیف پول"];
   Message false [Loc None "+7"]
     "Send" true
     ["ارسال"];
   Message false [Loc None "+1"]
     "Send coins to a Bitcoin Confidential Spending address" true
     ["ارسال سکه به آدرس هزینه های محرمانه بیت کوین"];
   Message false [Loc None "+11"]
     "Receive" true
     ["دریافت"];
   Message false [Loc None "+1"]
     "Request payments (generates Spending address QR codes and bitcoinc: URIs)" true
     ["درخواست پرداخت (تولید نشانی از کدهای QR کد و bitcoinc: Uri ها)"];
   Message false [Loc None "+11"]
     "Transactions" true
     ["معاملات"];
   Message false [Loc None "+1"]
     "Browse transaction history" true
     ["مرور تاریخچه تراکنش"];
   Message false [Loc None "+7"]
     "Staking" true
     ["بزرگ هستند"];
   Message false [Loc None "+1"]
     "Setup staking" true
     ["راه اندازی ردی"];
   Message false [Loc None "+25"]
     "E&amp;xit" true
     ["E&amp;xit"];
   Message false [Loc None "+1"]
     "Quit application" true
     ["ترک برنامه"];
   Message false [Loc None "+3"]
     "&amp;About %1" true
     ["&amp; در مورد% 1"];
   Message false [Loc None "+1"]
     "Show information about %1" true
     ["نمایش اطلاعات درباره% 1"];
   Message false [Loc None "+3"]
     "About &amp;Qt" true
     ["درباره &amp; کوارت"];
   Message false [Loc None "+1"]
     "Show information about Qt" true
     ["نمایش اطلاعات در مورد کوارت"];
   Message false [Loc None "+2"]
     "&amp;Options..." true
     ["گزینه های &amp;..."];
   Message false [Loc None "+1"]
     "Modify configuration options for %1" true
     ["تغییر گزینه های پیکربندی برای% 1"];
   Message false [Loc None "+3"]
     "&amp;Show / Hide" true
     ["&amp; نمایش/پنهان کردن"];
   Message false [Loc None "+1"]
     "Show or hide the main Window" true
     ["نمایش یا پنهان کردن پنجره اصلی"];
   Message false [Loc None "+2"]
     "&amp;Encrypt Wallet..." true
     ["&amp; رمزبندی کیف پول..."];
   Message false [Loc None "+1"]
     "Encrypt the private keys that belong to your wallet" true
     ["رمزگذاری کلیدهای خصوصی که متعلق به کیف پول شماست"];
   Message false [Loc None "+2"]
     "&amp;Backup Wallet..." true
     ["&amp; پشتیبان گیری کیف پول..."];
   Message false [Loc None "+1"]
     "Backup wallet to another location" true
     ["کیف پول پشتیبان گیری به مکان دیگری"];
   Message false [Loc None "+1"]
     "&amp;Change Passphrase..." true
     ["&amp; تغییر رمز عبور..."];
   Message false [Loc None "+1"]
     "Change the passphrase used for wallet encryption" true
     ["تغییر رمز عبور مورد استفاده برای رمزگذاری کیف پول"];
   Message false [Loc None "+1"]
     "Sign &amp;message..." true
     ["امضای &amp; پیام..."]].

Definition fa_BitcoinGUI_2 : list message :=
  [Message false [Loc None "+1"]
     "Sign messages with your Bitcoin Confidential addresses to prove you own them" true
     ["پیام ها را با آدرس های محرمانه بیت کوینی خود امضا کنید تا آنها را ثابت کنید"];
   Message false [Loc None "+1"]
     "&amp;Verify message..." true
     ["&amp; تأیید پیام..."];
   Message false [Loc None "+1"]
     "Verify messages to ensure they were signed with specified Bitcoin Confidential addresses" true
     ["تأیید پیام ها برای اطمینان از اینکه آنها با آدرسهای محرمانه بیت کوینی مشخص شده امضا شده اند"];
   Message false [Loc None "+2"]
     "&amp;Debug window" true
     ["پنجره &amp; Debug"];
   Message false [Loc None "+1"]
     "Open debugging and diagnostic console" true
     ["باز کردن اشکال زدایی و کنسول تشخیصی"];
   Message false [Loc None "+4"]
     "&amp;Sending addresses..." true
     ["&amp; ارسال آدرس..."];
   Message false [Loc None "+1"]
     "Show the list of used sending addresses and labels" true
     ["نمایش لیست آدرس ها و برچسب های ارسالی استفاده شده"];
   Message false [Loc None "+1"]
     "&amp;Receiving addresses..." true
     ["&amp; دریافت آدرس..."];
   Message false [Loc None "+1"]
     "Show the list of used receiving addresses and labels" true
     ["نمایش لیست آدرس ها و برچسب های استفاده شده"];
   Message false [Loc None "+2"]
     "Open &amp;URI..." true
     ["باز &amp; URI..."];
   Message false [Loc None "+1"]
     "Open a bitcoinc: URI or payment request" true
     ["باز کردن bitcoinc: URI یا درخواست پرداخت"];
   Message false [Loc None "+2"]
     "&amp;Command-line options" true
     ["&amp; گزینه های خط فرمان"];
   Message false [Loc None "+2"]
     "Show the %1 help message to get a list with possible Bitcoin Confidential command-line options" true
     ["نمایش پیام راهنمای% 1 برای دریافت لیست با گزینه های خط فرمان محرمانه بیت کوین"];
   Message false [Loc None "+2"]
     "&amp;HD Wallet..." true
     ["کیف پول HD &amp;..."];
   Message false [Loc None "+45"]
     "&amp;File" true
     ["فایل &amp;"];
   Message false [Loc None "+16"]
     "&amp;Settings" true
     ["تنظیمات &amp;"];
   Message false [Loc None "+9"]
     "&amp;Help" true
     ["&amp; راهنما"];
   Message false [Loc None "+15"]
     "Tabs toolbar" true
     ["نوار ابزار زبانه ها"];
   Message false [Loc None "+113"]
     "default wallet" true
     ["کیف پول پیش فرض"];
   Message false [Loc None "+88"]
     "%1 client" true
     ["% 1 مشتری"];
   Message true [Loc None "+189"]
     "%n active connection(s) to Bitcoin Confidential network" true
     ["% n اتصال فعال (ها) به شبکه محرمانه بیت کوین"; "% n اتصال فعال (ها) به شبکه محرمانه بیت کوین"];
   Message false [Loc None "+0"]
     "Click to disable network activity." true
     ["برای غیر فعال کردن فعالیت شبکه کلیک کنید."];
   Message false [Loc None "+2"]
     "Network activity disabled." true
     ["فعالیت شبکه غیرفعال شد."];
   Message false [Loc None "+0"]
     "Click to enable network activity again." true
     ["برای فعال کردن فعالیت شبکه دوباره کلیک کنید."];
   Message false [Loc None "+28"]
     "Syncing Headers (%1%)..." true
     ["همگامسازی سرصفحه ها (% 1%)..."];
   Message false [Loc None "+26"]
     "Synchronizing with network..." true
     ["همگامی با شبکه..."];
   Message false [Loc None "+5"]
     "Indexing blocks on disk..." true
     ["بلوک های نمایه روی دیسک..."];
   Message false [Loc None "+2"]
     "Processing blocks on disk..." true
     ["پردازش بلوک بر روی دیسک..."];
   Message false [Loc None "+4"]
     "Reindexing blocks on disk..." true
     ["باز کردن بلوک های نمایه روی دیسک..."];
   Message false [Loc None "+6"]
     "Connecting to peers..." true
     ["اتصال به همسالان..."]].

Definition fa_BitcoinGUI_3 : list message :=
  [Message true [Loc None "+9"]
     "Processed %n block(s) of transaction history." true
     ["پردازش% n بلوک (ها) از تاریخ معامله."; "پردازش% n بلوک (ها) از تاریخ معامله."];
   Message false [Loc None "+5"]
     "Up to date" true
     ["به روز"];
   Message false [Loc None "+19"]
     "%1 behind" true
     ["% 1 پشت"];
   Message false [Loc None "+5"]
     "Catching up..." true
     ["ابتلا به..."];
   Message false [Loc None "+19"]
     "Last received block was generated %1 ago." true
     ["آخرین قطعه دریافت شده% 1 پیش بود."];
   Message false [Loc None "+2"]
     "Transactions after this will not yet be visible." true
     ["معاملات بعد از این هنوز قابل مشاهده نخواهد بود."];
   Message false [Loc None "+13"]
     "Bitcoin Confidential" true
     ["بیت کوین محرمانه"];
   Message false [Loc None "+14"]
     "Error" true
     ["خطا"];
   Message false [Loc None "+3"]
     "Warning" true
     ["هشدار"];
   Message false [Loc None "+3"]
     "Information" true
     ["اطلاعات"];
   Message false [Loc None "+116"]
     "Date: %1
" true
     ["تاریخ:% 1"];
   Message false [Loc None "+1"]
     "Amount: %1
" true
     ["مبلغ:% 1"];
   Message false [Loc None "+2"]
     "Wallet: %1
" true
     ["کیف پول:% 1"];
   Message false [Loc None "+2"]
     "Type: %1
" true
     ["نوع:% 1"];
   Message false [Loc None "+2"]
     "Label: %1
" true
     ["برچسب:% 1"];
   Message false [Loc None "+2"]
     "Address: %1
" true
     ["آدرس:% 1"];
   Message false [Loc None "+1"]
     "Sent transaction" true
     ["معامله ارسال شده"];
   Message false [Loc None "+0"]
     "Incoming transaction" true
     ["تراکنش های ورودی"];
   Message false [Loc None "+52"]
     "HD key generation is &lt;b&gt;enabled&lt;/b&gt;" true
     ["تولید کلید HD &lt;b&gt;فعال&lt;/b&gt; است"];
   Message false [Loc None "+0"]
     "HD key generation is &lt;b&gt;disabled&lt;/b&gt;" true
     ["تولید کلید HD &lt;b&gt;غیرفعال&lt;/b&gt; شده است"];
   Message false [Loc None "+13"]
     "Wallet is &lt;b&gt;not encrypted&lt;/b&gt;. Click the opened lock to encrypt it." true
     ["کیف پول &lt;b&gt;رمزگذاری نشده&lt;/b&gt;است. روی قفل باز شده برای رمزگذاری آن کلیک کنید."];
   Message false [Loc None "+8"]
     "Wallet is &lt;b&gt;encrypted&lt;/b&gt; and currently &lt;b&gt;unlocked&lt;/b&gt;" true
     ["کیف پول &lt;b&gt;رمزگذاری شده&lt;/b&gt; و در حال حاضر &lt;b&gt;قفل&lt;/b&gt;"];
   Message false [Loc None "+8"]
     "Wallet is &lt;b&gt;encrypted&lt;/b&gt; and currently &lt;b&gt;unlocked&lt;/b&gt; for staking only" true
     ["کیف پول &lt;b&gt;رمزگذاری شده&lt;/b&gt; است و در حال حاضر برای تنها ردی &lt;b&gt;باز&lt;/b&gt; است"];
   Message false [Loc None "+8"]
     "Wallet is &lt;b&gt;encrypted&lt;/b&gt; and currently &lt;b&gt;locked&lt;/b&gt;" true
     ["کیف پول &lt;b&gt;رمزگذاری شده&lt;/b&gt; و در حال حاضر &lt;b&gt;قفل&lt;/b&gt; است"];
   Message false [Loc None "+58"]
     "Proxy is &lt;b&gt;enabled&lt;/b&gt;: %1" true
     ["پراکسی &lt;b&gt;فعال&lt;/b&gt;شده است:% 1"];
   Message false [Loc None "+28"]
     "Tor is &lt;b&gt;enabled&lt;/b&gt;" true
     ["Tor &lt;b&gt;فعال&lt;/b&gt; شده است"];
   Message false [Loc None "+3"]
     "Tor is &lt;b&gt;enabled&lt;/b&gt;, but its not the only network used. Use only onlynet=onion." true
     ["Tor &lt;b&gt;فعال&lt;/b&gt;است ، اما نه تنها شبکه استفاده شده. استفاده از تنها onlynet = پیاز."];
   Message false [Loc None "+3"]
     "Tor is &lt;b&gt;disabled&lt;/b&gt;. To enhance your privacy setup consider using tor by setting &lt;b&gt;onlynet=onion&lt;/b&gt; in your &lt;b&gt;bitcoinc.conf&lt;/b&gt;." true
     ["تور &lt;b&gt;غیرفعال&lt;/b&gt;است. برای افزایش تنظیمات حریم خصوصی خود با استفاده از tor با تنظیم &lt;b&gt;onlynet = پیاز&lt;/b&gt; در &lt;b&gt;bitcoinc. conf&lt;/b&gt;خود را در نظر بگیرید."]].

Definition fa_BitcoinGUI_4 : list message :=
  [Message false [Loc (Some "../bitcoin.cpp") "+528"]
     "A fatal error occurred. Bitcoin Confidential can no longer continue safely and will quit." true
     ["یک خطای مخرب رخ داده است. بیت کوین محرمانه دیگر نمی تواند همچنان با خیال راحت و ترک خواهد شد."]].

Definition fa_CoinControlDialog_1 : list message :=
  [Message false [Loc (Some "../forms/coincontroldialog.ui") "+14"]
     "Coin Selection" true
     ["انتخاب سکه"];
   Message false [Loc None "+34"]
     "Quantity:" true
     ["مقدار:"];
   Message false [Loc None "+29"]
     "Bytes:" true
     ["بایت:"];
   Message false [Loc None "+45"]
     "Amount:" true
     ["مقدار:"];
   Message false [Loc None "+32"]
     "Dust:" true
     ["غبار:"];
   Message false [Loc None "+48"]
     "Fee:" true
     ["هزینه:"];
   Message false [Loc None "+45"]
     "After Fee:" true
     ["پس از پرداخت هزینه:"];
   Message false [Loc None "+32"]
     "Change:" true
     ["تغییر:"];
   Message false [Loc None "+57"]
     "Standard" true
     ["استاندارد"];
   Message false [Loc None "+5"]
     "Anon" true
     ["Anon"];
   Message false [Loc None "+14"]
     "Show all" true
     ["نمایش همه"];
   Message false [Loc None "+13"]
     "(un)select all" true
     ["(un) انتخاب همه"];
   Message false [Loc None "+16"]
     "Tree mode" true
     ["حالت درخت"];
   Message false [Loc None "+13"]
     "List mode" true
     ["حالت لیست"];
   Message false [Loc None "+74"]
     "Amount" true
     ["مقدار"];
   Message false [Loc None "+8"]
     "Received with label" true
     ["دریافت شده با برچسب"];
   Message false [Loc None "+5"]
     "Received with address" true
     ["دریافت شده همراه با آدرس"];
   Message false [Loc None "+5"]
     "Date" true
     ["تاریخ"];
   Message false [Loc None "+5"]
     "Confirmations" true
     ["تاییدیه"];
   Message false [Loc None "+3"]
     "Confirmed" true
     ["تایید"];
   Message false [Loc (Some "../coincontroldialog.cpp") "+73"]
     "Copy address" true
     ["کپی آدرس"];
   Message false [Loc None "+1"]
     "Copy label" true
     ["کپی برچسب"];
   Message false [Loc None "+1"; Loc None "+26"]
     "Copy amount" true
     ["مقدار کپی"];
   Message false [Loc None "-25"]
     "Copy transaction ID" true
     ["کپی معامله ID"];
   Message false [Loc None "+1"]
     "Lock unspent" true
     ["قفل کردن بدون صرف"];
   Message false [Loc None "+1"]
     "Unlock unspent" true
     ["باز کردن قفل نشده"];
   Message false [Loc None "+22"]
     "Copy quantity" true
     ["کپی مقدار"];
   Message false [Loc None "+2"]
     "Copy fee" true
     ["هزینه کپی"];
   Message false [Loc None "+1"]
     "Copy after fee" true
     ["کپی بعد از هزینه"]].

Definition fa_CoinControlDialog_2 : list message :=
  [Message false [Loc None "+1"]
     "Copy bytes" true
     ["کپی بایت"];
   Message false [Loc None "+1"]
     "Copy dust" true
     ["کپی گرد و غبار"];
   Message false [Loc None "+1"]
     "Copy change" true
     ["کپی تغییر"];
   Message false [Loc None "+340"]
     "(%1 locked)" true
     ["(% 1 قفل شده است)"];
   Message false [Loc None "+161"]
     "yes" true
     ["بله"];
   Message false [Loc None "+0"]
     "no" true
     ["نه"];
   Message false [Loc None "+14"]
     "This label turns red if any recipient receives an amount smaller than the current dust threshold." true
     ["این برچسب قرمز می شود اگر هر گیرنده مقدار کوچکتر از آستانه گرد و غبار فعلی دریافت می کند."];
   Message false [Loc None "+5"]
     "Can vary +/- %1 satoshi(s) per input." true
     ["می تواند متفاوت باشد +/-% 1 ساتوشی (s) در هر ورودی."];
   Message false [Loc None "+47"]
     "Hide immature" true
     ["پنهان کردن نابالغ"];
   Message false [Loc None "+2"]
     "Hide locked" true
     ["پنهان کردن قفل شده"];
   Message false [Loc None "+6"]
     "Show immature" true
     ["نمایش نابالغ"];
   Message false [Loc None "+2"]
     "Show locked" true
     ["نمایش قفل شده"];
   Message false [Loc None "+26"; Loc None "+66"; Loc None "+11"]
     "(no label)" true
     ["(بدون برچسب)"];
   Message false [Loc None "-19"]
     "change from %1 (%2)" true
     ["تغییر از% 1 (% 2)"];
   Message false [Loc None "+1"; Loc None "+20"]
     "(change)" true
     ["تغییر"];
   Message false [Loc None "-17"]
     "spending from %1 (%2)" true
     ["هزینه های% 1 (% 2)"]].

Definition fa_EditAddressDialog : list message :=
  [Message false [Loc (Some "../forms/editaddressdialog.ui") "+14"]
     "Edit Address" true
     ["ویرایش نشانی"];
   Message false [Loc None "+11"]
     "&amp;Label" true
     ["برچسب &amp;"];
   Message false [Loc None "+10"]
     "The label associated with this address list entry" true
     ["برچسب مرتبط با این ورودی لیست نشانی"];
   Message false [Loc None "+7"]
     "&amp;Address" true
     ["آدرس &amp;"];
   Message false [Loc None "+10"]
     "The address associated with this address list entry. This can only be modified for sending addresses." true
     ["آدرس مربوط به این ورودی لیست نشانی. این فقط برای ارسال نشانیها قابل تغییر است."];
   Message false [Loc (Some "../editaddressdialog.cpp") "+29"]
     "New receiving address" true
     ["آدرس دریافت جدید"];
   Message false [Loc None "+5"]
     "New sending address" true
     ["آدرس ارسال جدید"];
   Message false [Loc None "+3"]
     "New Stake address" true
     ["آدرس سهام جدید"];
   Message false [Loc None "+5"]
     "New ColdStake address" true
     ["آدرس جدید ColdStake"];
   Message false [Loc None "+5"]
     "Edit receiving address" true
     ["ویرایش نشانی دریافت"];
   Message false [Loc None "+4"]
     "Edit sending address" true
     ["ویرایش آدرس ارسال"];
   Message false [Loc None "+87"]
     "The entered address &quot;%1&quot; is not a valid Bitcoin Confidential address." true
     ["نشانی وارد شده &quot;% 1&quot; یک آدرس محرمانه بیت کوینی معتبری نیست."];
   Message false [Loc None "+10"]
     "Could not unlock wallet." true
     ["کیف پول را باز نمی کند."];
   Message false [Loc None "+5"]
     "New key generation failed." true
     ["نسل جدید کلید شکست خورد."];
   Message false [Loc None "+18"]
     "Address &quot;%1&quot; already exists as a receiving address with label &quot;%2&quot; and so cannot be added as a sending address." true
     ["آدرس &quot;% 1&quot; در حال حاضر به عنوان یک آدرس دریافت شده با برچسب &quot;% 2&quot; وجود دارد و بنابراین نمی تواند به عنوان یک نشانی ارسالی اضافه شود."];
   Message false [Loc None "+5"]
     "The entered address &quot;%1&quot; is already in the address book with label &quot;%2&quot;." true
     ["نشانی وارد شده &quot;% 1&quot; در حال حاضر در کتابچه نشانی با برچسب &quot;% 2&quot; است."]].

Definition fa_FreespaceChecker : list message :=
  [Message false [Loc (Some "../intro.cpp") "+78"]
     "A new data directory will be created." true
     ["یک فهرست داده جدید ایجاد خواهد شد."];
   Message false [Loc None "+22"]
     "name" true
     ["نام"];
   Message false [Loc None "+2"]
     "Directory already exists. Add %1 if you intend to create a new directory here." true
     ["فهرست در حال حاضر وجود دارد. اگر قصد ایجاد یک فهرست جدید را در اینجا دارید ،% 1 را اضافه کنید."];
   Message false [Loc None "+3"]
     "Path already exists, and is not a directory." true
     ["مسیر در حال حاضر وجود دارد ، و یک دایرکتوری نیست."];
   Message false [Loc None "+7"]
     "Cannot create data directory here." true
     ["قادر به ایجاد فهرست داده ها در اینجا نمی باشد."]].

Definition fa_HelpMessageDialog : list message :=
  [Message false [Loc (Some "../utilitydialog.cpp") "+41"]
     "version" true
     ["نسخهٔ"];
   Message false [Loc None "+5"; Loc None "+2"]
     "(%1-bit)" true
     ["(% 1 بیتی)"];
   Message false [Loc None "+5"]
     "About %1" true
     ["درباره% 1"];
   Message false [Loc None "+19"]
     "Command-line options" true
     ["گزینه های خط فرمان"]].

Definition fa_Intro : list message :=
  [Message false [Loc (Some "../forms/intro.ui") "+14"]
     "Welcome" true
     ["خوش آمدی"];
   Message false [Loc None "+9"]
     "Welcome to %1." true
     ["به% 1 خوش آمدید."];
   Message false [Loc None "+26"]
     "As this is the first time the program is launched, you can choose where %1 will store its data." true
     ["همانطور که این اولین بار است که برنامه راه اندازی شده است ، شما می توانید انتخاب کنید که در آن ٪ 1 داده های خود را ذخیره خواهد کرد."];
   Message false [Loc None "+17"]
     "Use the default data directory" true
     ["استفاده از فهرست پیش فرض داده"];
   Message false [Loc None "+7"]
     "Use a custom data directory:" true
     ["از یک دایرکتوری داده سفارشی استفاده کنید:"];
   Message false [Loc None "+140"]
     "When you click OK, %1 will begin to download and process the full %4 block chain (%2GB) starting with the earliest transactions in %3 when %4 initially launched." true
     ["وقتی روی تأیید کلیک می کنید ،% 1 شروع به دانلود و پردازش زنجیره بلاک% 4 کامل (% 2GB) آغاز می کند که با اولین تراکنش ها در% 3 زمانی که% 4 در ابتدا راه اندازی شد."];
   Message false [Loc None "+10"]
     "This initial synchronisation is very demanding, and may expose hardware problems with your computer that had previously gone unnoticed. Each time you run %1, it will continue downloading where it left off." true
     ["این همگام سازی اولیه بسیار خواستار است و ممکن است مشکلات سخت افزاری را با رایانه شما که قبلا خسته شده بود افشا کند. هر بار که شما% 1 را اجرا می کنید ، آن را ادامه خواهد داد دانلود جایی که آن را ترک کرد."];
   Message false [Loc None "+10"]
     "If you have chosen to limit block chain storage (pruning), the historical data must still be downloaded and processed, but will be deleted afterward to keep your disk usage low." true
     ["اگر شما را انتخاب کرده اند برای محدود کردن بلوک ذخیره سازی زنجیره ای (هرس) ، داده های تاریخی هنوز هم باید دریافت و پردازش شود ، اما پس از آن حذف خواهد شد برای حفظ استفاده از دیسک خود را کم است."];
   Message false [Loc (Some "../intro.cpp") "+20"]
     "Bitcoin Confidential" true
     ["بیت کوین محرمانه"];
   Message false [Loc None "+6"]
     "At least %1 GB of data will be stored in this directory, and it will grow over time." true
     ["حداقل% 1 گیگابایت داده ها در این فهرست ذخیره خواهد شد و در طول زمان رشد خواهد کرد."];
   Message false [Loc None "+5"]
     "Approximately %1 GB of data will be stored in this directory." true
     ["تقریبا% 1 گیگابایت داده در این فهرست ذخیره خواهد شد."];
   Message false [Loc None "+8"]
     "%1 will download and store a copy of the Bitcoin Confidential block chain." true
     ["% 1 یک نسخه از زنجیره بلاک محرمانه بیت کوین را دانلود و ذخیره خواهد کرد."];
   Message false [Loc None "+2"]
     "The wallet will also be stored in this directory." true
     ["کیف پول نیز در این فهرست ذخیره خواهد شد."];
   Message false [Loc None "+73"]
     "Error: Specified data directory &quot;%1&quot; cannot be created." true
     ["خطا: فهرست داده های مشخص شده &quot;% 1&quot; را نمی توان ایجاد کرد."];
   Message false [Loc None "+27"]
     "Error" true
     ["خطا"];
   Message true [Loc None "+9"]
     "%n GB of free space available" true
     ["% n گیگابایت فضای آزاد موجود است"; "% n گیگابایت فضای آزاد موجود است"];
   Message true [Loc None "+3"]
     "(of %n GB needed)" true
     ["(از% n گیگابایت مورد نیاز)"; "(از% n گیگابایت مورد نیاز)"]].

Definition fa_MnemonicDialog_1 : list message :=
  [Message false [Loc (Some "../forms/mnemonicdialog.ui") "+14"]
     "HD Wallet Setup" true
     ["راه اندازی کیف پول HD"];
   Message false [Loc None "+11"]
     "Generate a mnemonic" true
     ["تولید یک حفظی"];
   Message false [Loc None "+10"]
     "Create the wallet" true
     ["ایجاد کیف پول"];
   Message false [Loc None "+22"]
     "Write down the Recovery Phrase/Mnemonic below or generate a new one with the desired settings by clicking &quot;NEW MNEMONIC&quot;. Store this phrase in a safe place. The clipboard will be cleared to ensure you have it recorded.  If you are recovering a backup, enter the Recovery Phrase/Mnemonic on the next screen.  Click the &quot;NEXT&quot; button to continue with the wallet creation." true
     ["نوشتن عبارت بهبود/Mnemonic زیر و یا تولید یکی از جدید با تنظیمات مورد نظر را با کلیک کردن &quot;جدید MNEMONIC&quot;. این عبارت را در یک مکان امن ذخیره کنید. کلیپ بورد پاک خواهد شد تا اطمینان حاصل شود که آن را ضبط کرده اید.  اگر نسخه پشتیبان را بازیابی کرده اید ، عبارت بازیابی/Mnemonic را در صفحه بعدی وارد کنید.  با کلیک بر روی &quot;بعد&quot; را فشار دهید تا با ایجاد کیف پول ادامه خواهد داد."];
   Message false [Loc None "+36"]
     "Bytes of Entropy " true
     ["بایت آنتروپی"];
   Message false [Loc None "+7"]
     "Language" true
     ["زبان"];
   Message false [Loc None "+45"]
     "Entropy is an advanced feature. Your mnemonic may be insecure if this feature is used incorrectly." true
     ["آنتروپی یک ویژگی پیشرفته است. حفظی شما ممکن است ناامن باشد اگر این ویژگی نادرست استفاده شود."];
   Message false [Loc None "+22"]
     "Select your language" true
     ["زبان خود را انتخاب کنید"];
   Message false [Loc None "+4"]
     "English" true
     ["انگلیسی"];
   Message false [Loc None "+5"]
     "French" true
     ["فرانسوی"];
   Message false [Loc None "+5"]
     "Japanese" true
     ["ژاپنی"];
   Message false [Loc None "+5"]
     "Spanish" true
     ["اسپانیایی"];
   Message false [Loc None "+5"]
     "Chinese_s" true
     ["Chinese_s"];
   Message false [Loc None "+5"]
     "Chinese_t" true
     ["Chinese_t"];
   Message false [Loc None "+39"]
     "New mnemonic" true
     ["حفظی جدید"];
   Message false [Loc None "+19"]
     "Next" true
     ["بعدی"];
   Message false [Loc None "+19"; Loc None "+198"]
     "Cancel" true
     ["لغو"];
   Message false [Loc None "-148"]
     "Recovery Passphrase " true
     ["رمز عبور بازیابی"];
   Message false [Loc None "+7"]
     "Import Chain" true
     ["زنجیره واردات"];
   Message false [Loc None "+13"]
     "Warning" true
     ["هشدار"];
   Message false [Loc None "+33"]
     "Enter a passphrase to protect your Recovery Phrase (optional)" true
     ["یک رمز عبور برای حفاظت از عبارت بازیابی خود وارد کنید (اختیاری)"];
   Message false [Loc None "+13"]
     "Only needed if you&apos;re importing " true
     ["فقط اگر شما در حال وارد کردن"];
   Message false [Loc None "+16"]
     "Please ensure you backup your Recovery Phrase and Passphrase - they are not recoverable!" true
     ["لطفا مطمئن شوید که عبارت بازیابی و رمز عبور خود را پشتیبان گیری می کنید-آنها قابل بازیابی نیستند!"];
   Message false [Loc None "+28"]
     "Back" true
     ["بازگشت"];
   Message false [Loc None "+19"; Loc (Some "../mnemonicdialog.cpp") "+145"]
     "Import" true
     ["واردات"];
   Message false [Loc (Some "../mnemonicdialog.cpp") "-102"]
     "Optionally enter a passphrase to protect the Recovery Phrase. (This is not a wallet password.)" true
     ["به صورت اختیاری یک رمز عبور برای حفاظت از عبارت بازیابی وارد کنید. (این رمز عبور کیف پول نیست.)"];
   Message false [Loc None "+2"]
     "Enter the Recovery Phrase/Mnemonic." true
     ["عبارت بازیابی را وارد کنید/Mnemonic."];
   Message false [Loc None "+26"]
     "Create wallet" true
     ["ایجاد کیف پول"];
   Message false [Loc None "+16"]
     "Generate a new Recovery Phrase/Mnemonic with the desired settings by clicking &quot;NEW MNEMONIC&quot;." true
     ["یک عبارت بازیابی جدید/Mnemonic با تنظیمات مورد نظر با کلیک بر روی &quot;جدید MNEMONIC&quot; ایجاد کنید."]].

Definition fa_MnemonicDialog_2 : list message :=
  [Message false [Loc None "+5"]
     "Import a mnemonic" true
     ["وارد کردن یک مونمونیک"];
   Message false [Loc None "+28"]
     "Confirm wallet creation cancel" true
     ["تایید ایجاد کیف پول لغو"];
   Message false [Loc None "+1"]
     "Are you sure you want to cancel the wallet creation?" true
     ["آیا مطمئن هستید که می خواهید ایجاد کیف پول را لغو کنید ؟"];
   Message false [Loc None "+0"]
     "This is only recommended for advanced users to import with custom settings in the debug console or with the RPC interface." true
     ["این فقط برای کاربران پیشرفته توصیه می شود که با تنظیمات سفارشی در کنسول اشکالزدایی یا با رابط RPC وارد شوند."]].

Definition fa_ModalOverlay : list message :=
  [Message false [Loc (Some "../forms/modaloverlay.ui") "+14"]
     "Form" true
     ["فرم"];
   Message false [Loc None "+122"]
     "Recent transactions may not yet be visible, and therefore your wallet&apos;s balance might be incorrect. This information will be correct once your wallet has finished synchronizing with the Bitcoin Confidential network, as detailed below." true
     ["معاملات اخیر هنوز قابل مشاهده نیستند و بنابراین تعادل کیف پول شما ممکن است نادرست باشد. این اطلاعات صحیح خواهد بود هنگامی که کیف پول خود را همگام با شبکه محرمانه بیت کوین به پایان رسید, به عنوان جزئیات زیر."];
   Message false [Loc None "+19"]
     "Attempting to spend coins that are affected by not-yet-displayed transactions will not be accepted by the network." true
     ["تلاش برای صرف سکه هایی که تحت تأثیر تراکنش های عدم نمایش قرار می گیرند ، توسط شبکه پذیرفته نمی شوند."];
   Message false [Loc None "+63"]
     "Number of blocks left" true
     ["تعداد بلاک ها به سمت چپ"];
   Message false [Loc None "+7"; Loc None "+26"; Loc (Some "../modaloverlay.cpp") "+140"]
     "Unknown..." true
     ["ناشناخته..."];
   Message false [Loc None "-13"]
     "Last block time" true
     ["آخرین زمان بلاک"];
   Message false [Loc None "+26"]
     "Progress" true
     ["پیشرفت"];
   Message false [Loc None "+34"]
     "Progress increase per hour" true
     ["افزایش پیشرفت در هر ساعت"];
   Message false [Loc None "+7"; Loc None "+20"]
     "calculating..." true
     ["محاسبه..."];
   Message false [Loc None "-7"]
     "Estimated time left until synced" true
     ["زمان تخمینی باقیمانده تا همگام سازی"];
   Message false [Loc None "+40"]
     "Hide" true
     ["مخفی کردن"];
   Message false [Loc (Some "../modaloverlay.cpp") "-1"]
     "Unknown. Syncing Headers (%1)..." true
     ["ناشناخته. همگامسازی سرصفحه ها (% 1)..."]].

Definition fa_OpenURIDialog : list message :=
  [Message false [Loc (Some "../forms/openuridialog.ui") "+14"]
     "Open URI" true
     ["باز کردن URI"];
   Message false [Loc None "+6"]
     "Open payment request from URI or file" true
     ["درخواست پرداخت را از URI یا پرونده باز کنید"];
   Message false [Loc None "+9"]
     "URI:" true
     ["Uri:"];
   Message false [Loc None "+10"]
     "Select payment request file" true
     ["انتخاب پرونده پرداخت درخواست"];
   Message false [Loc (Some "../openuridialog.cpp") "+45"]
     "Select payment request file to open" true
     ["پرونده درخواست پرداخت را برای باز کردن انتخاب کنید"]].

Definition fa_OptionsDialog_1 : list message :=
  [Message false [Loc (Some "../forms/optionsdialog.ui") "+14"]
     "Options" true
     ["گزینه"];
   Message false [Loc None "+14"]
     "&amp;Main" true
     ["&amp; اصلی"];
   Message false [Loc None "+13"]
     "W&amp;allet" true
     ["W&amp;allet"];
   Message false [Loc None "+13"]
     "&amp;Network" true
     ["شبکه &amp;"];
   Message false [Loc None "+13"]
     "&amp;Window" true
     ["پنجره &amp;"];
   Message false [Loc None "+13"]
     "&amp;Display" true
     ["نمایش &amp;"];
   Message false [Loc None "+22"]
     "Automatically start %1 after logging in to the system." true
     ["بعد از ورود به سیستم ، به طور خودکار% 1 را شروع کنید."];
   Message false [Loc None "+3"]
     "&amp;Start %1 on system login" true
     ["&amp; شروع% 1 در ورود به سیستم"];
   Message false [Loc None "+22"]
     "Disables some advanced features but all blocks will still be fully validated. Reverting this setting requires re-downloading the entire blockchain. Actual disk usage may be somewhat higher." true
     ["برخی از ویژگی های پیشرفته را غیر فعال می کند ، اما تمام بلوک ها هنوز به طور کامل معتبر خواهند بود. برگرداندن این تنظیم نیاز به بارگیری مجدد کل بلاکچین دارد. استفاده از دیسک واقعی ممکن است تا حدودی بالاتر باشد."];
   Message false [Loc None "+3"]
     "Prune &amp;block storage to" true
     ["هرس &amp; بلوک ذخیره سازی به"];
   Message false [Loc None "+17"]
     "GB" true
     ["گیگابایت"];
   Message false [Loc None "+25"]
     "Reverting this setting requires re-downloading the entire blockchain." true
     ["برگرداندن این تنظیم نیاز به بارگیری مجدد کل بلاکچین دارد."];
   Message false [Loc None "+12"]
     "Size of &amp;database cache" true
     ["اندازه حافظه نهان پایگاه داده &amp;"];
   Message false [Loc None "+23"]
     "MB" true
     ["مگابایت"];
   Message false [Loc None "+27"]
     "Number of script &amp;verification threads" true
     ["تعداد موضوعات تایید &amp; اسکریپت"];
   Message false [Loc None "+19"]
     "(0 = auto, &lt;0 = leave that many cores free)" true
     ["(0 = خودکار ،&lt;0 = leave that many cores free) ==&quot;&quot; leave=&quot;&quot; that=&quot;&quot; many=&quot;&quot; cores=&quot;&quot;&gt;&lt;/0 = leave that many cores free)&gt;"];
   Message false [Loc None "+39"]
     "Expert" true
     ["کارشناس"];
   Message false [Loc None "+6"]
     "Whether to show coin control features or not." true
     ["آیا برای نشان دادن ویژگی های کنترل سکه یا نه."];
   Message false [Loc None "+3"]
     "Enable coin &amp;control features" true
     ["فعال کردن ویژگی های کنترل سکه &amp;"];
   Message false [Loc None "+7"]
     "If you disable the spending of unconfirmed change, the change from a transaction cannot be used until that transaction has at least one confirmation. This also affects how your balance is computed." true
     ["اگر هزینه های تغییر تأیید نشده را غیر فعال کنید ، تغییر از معامله نمی تواند مورد استفاده قرار گیرد تا زمانی که معامله حداقل یک تایید داشته باشد. این نیز تاثیر می گذارد چگونه تعادل خود را محاسبه می شود."];
   Message false [Loc None "+3"]
     "&amp;Spend unconfirmed change" true
     ["&amp; صرف تغییر تایید نشده"];
   Message false [Loc None "+7"]
     "Display notification dialog for incoming stake transactions." true
     ["نمایش محاوره ای اعلان برای معاملات سهام ورودی."];
   Message false [Loc None "+3"]
     "&amp;Show incoming stake notifications" true
     ["&amp; نمایش اعلان های سهام ورودی"];
   Message false [Loc None "+27"]
     "Automatically open the Bitcoin Confidential client port on the router. This only works when your router supports UPnP and it is enabled." true
     ["به طور خودکار پورت مشتری محرمانه Bitcoin را در روتر باز کنید. این تنها زمانی کار می کند که روتر شما از UPnP پشتیبانی کند و فعال باشد."];
   Message false [Loc None "+3"]
     "Map port using &amp;UPnP" true
     ["پورت نقشه با استفاده از &amp; UPnP"];
   Message false [Loc None "+7"]
     "Accept connections from outside." true
     ["پذیرش اتصالات از بیرون."];
   Message false [Loc None "+3"]
     "Allow incomin&amp;g connections" true
     ["اجازه دادن به اتصالات incomin&amp;g"];
   Message false [Loc None "+7"]
     "Connect to the Bitcoin Confidential network through a SOCKS5 proxy." true
     ["از طریق پراکسی SOCKS5 به شبکه محرمانه بیت کوینی متصل شوید."];
   Message false [Loc None "+3"]
     "&amp;Connect through SOCKS5 proxy (default proxy):" true
     ["&amp; اتصال از طریق پراکسی SOCKS5 (پروکسی پیش فرض):"]].

Definition fa_OptionsDialog_2 : list message :=
  [Message false [Loc None "+9"; Loc None "+193"]
     "Proxy &amp;IP:" true
     ["پروکسی &amp; IP:"];
   Message false [Loc None "-168"; Loc None "+193"]
     "IP address of the proxy (e.g. IPv4: 127.0.0.1 / IPv6: ::1)" true
     ["آدرس آی پی پروکسی (به عنوان مثال IPv4:127.0.0.1/IPv6::: 1)"];
   Message false [Loc None "-183"; Loc None "+193"]
     "&amp;Port:" true
     ["پورت"];
   Message false [Loc None "-168"; Loc None "+193"]
     "Port of the proxy (e.g. 9050)" true
     ["بندر پروکسی (به عنوان مثال ۹۰۵۰)"];
   Message false [Loc None "-166"]
     "Used for reaching peers via:" true
     ["مورد استفاده برای رسیدن به همسالان از طریق:"];
   Message false [Loc None "+13"; Loc None "+23"; Loc None "+23"]
     "Shows if the supplied default SOCKS5 proxy is used to reach peers via this network type." true
     ["نشان می دهد که آیا پروکسی SOCKS5 پیش فرض برای رسیدن به همسالان از طریق این نوع شبکه استفاده می شود."];
   Message false [Loc None "-36"]
     "IPv4" true
     ["IPv4"];
   Message false [Loc None "+23"]
     "IPv6" true
     ["IPv6"];
   Message false [Loc None "+23"]
     "Tor" true
     ["Tor"];
   Message false [Loc None "+25"]
     "Connect to the Bitcoin Confidential network through a separate SOCKS5 proxy for Tor hidden services." true
     ["اتصال به شبکه محرمانه بیت کوین از طریق یک پروکسی SOCKS5 جداگانه برای سرویس های پنهان تور."];
   Message false [Loc None "+3"]
     "Use separate SOCKS&amp;5 proxy to reach peers via Tor hidden services:" true
     ["استفاده از جوراب های جداگانه &amp; 5 پروکسی برای رسیدن به همسالان از طریق خدمات پنهان تور:"];
   Message false [Loc None "+111"]
     "Hide the icon from the system tray." true
     ["نماد را از سینی سیستم پنهان کنید."];
   Message false [Loc None "+3"]
     "&amp;Hide tray icon" true
     ["&amp; پنهان کردن آیکون سینی"];
   Message false [Loc None "+7"]
     "Show only a tray icon after minimizing the window." true
     ["نمایش فقط یک آیکون سینی پس از به حداقل رساندن پنجره."];
   Message false [Loc None "+3"]
     "&amp;Minimize to the tray instead of the taskbar" true
     ["&amp; به جای نوار وظیفه به سینی کوچک می شود"];
   Message false [Loc None "+7"]
     "Minimize instead of exit the application when the window is closed. When this option is enabled, the application will be closed only after selecting Exit in the menu." true
     ["به جای خروج از برنامه زمانی که پنجره بسته شده است ، به حداقل برسد. هنگامی که این گزینه فعال است ، برنامه تنها پس از انتخاب خروج در منو بسته خواهد شد."];
   Message false [Loc None "+3"]
     "M&amp;inimize on close" true
     ["M&amp;inimize در نزدیک"];
   Message false [Loc None "+26"]
     "User Interface &amp;language:" true
     ["رابط کاربری زبان &amp;:"];
   Message false [Loc None "+22"]
     "The user interface language can be set here. This setting will take effect after restarting %1." true
     ["زبان رابط کاربری را می توان در اینجا تنظیم کرد. این تنظیم پس از شروع مجدد% 1 اعمال خواهد شد."];
   Message false [Loc None "+11"]
     "&amp;Unit to show amounts in:" true
     ["واحد &amp; برای نشان دادن مقدار در:"];
   Message false [Loc None "+22"]
     "Choose the default subdivision unit to show in the interface and when sending coins." true
     ["واحد زیربخش پیش فرض را برای نشان دادن در رابط کاربری و هنگام ارسال سکه انتخاب کنید."];
   Message false [Loc None "+11"; Loc None "+22"]
     "Third party URLs (e.g. a block explorer) that appear in the transactions tab as context menu items. %s in the URL is replaced by transaction hash. Multiple URLs are separated by vertical bar |." true
     ["آدرس های شخص ثالث (به عنوان مثال یک اکسپلورر بلوک) که در زبانه معاملات به عنوان آیتم های منوی زمینه ظاهر می شود. % s در URL توسط هش معامله جایگزین شده است. Url های چندگانه توسط نوار عمودی |."];
   Message false [Loc None "-19"]
     "&amp;Third party transaction URLs" true
     ["آدرس های معامله شخص ثالث &amp;"];
   Message false [Loc None "+50"]
     "Active command-line options that override above options:" true
     ["گزینه های خط فرمان فعال که گزینه های بالا را لغو می کند:"];
   Message false [Loc None "+45"]
     "Open the %1 configuration file from the working directory." true
     ["پرونده پیکربندی% 1 را از فهرست کار باز کنید."];
   Message false [Loc None "+3"]
     "Open Configuration File" true
     ["باز کردن فایل پیکربندی"];
   Message false [Loc None "+10"]
     "Reset all client options to default." true
     ["همه گزینه های مشتری را به طور پیش فرض بازنشانی کنید."];
   Message false [Loc None "+3"]
     "&amp;Reset Options" true
     ["گزینه های تنظیم مجدد &amp;"]].

Definition fa_OptionsDialog_3 : list message :=
  [Message false [Loc None "+80"]
     "&amp;OK" true
     ["&amp; OK"];
   Message false [Loc None "+13"]
     "&amp;Cancel" true
     ["لغو &amp;"];
   Message false [Loc (Some "../optionsdialog.cpp") "+109"]
     "default" true
     ["پیش فرض"];
   Message false [Loc None "+56"]
     "none" true
     ["هیچ کدام"];
   Message false [Loc None "+82"]
     "Confirm options reset" true
     ["تأیید تنظیم مجدد گزینه ها"];
   Message false [Loc None "+1"; Loc None "+60"]
     "Client restart required to activate changes." true
     ["راه اندازی مجدد سرویس گیرنده برای فعال کردن تغییرات مورد نیاز است."];
   Message false [Loc None "-60"]
     "Client will be shut down. Do you want to proceed?" true
     ["مشتری خاموش خواهد شد. آیا می خواهید ادامه دهید ؟"];
   Message false [Loc None "+15"]
     "Configuration options" true
     ["گزینه های پیکربندی"];
   Message false [Loc None "+1"]
     "The configuration file is used to specify advanced user options which override GUI settings. Additionally, any command-line options will override this configuration file." true
     ["فایل پیکربندی برای مشخص کردن گزینه های کاربر پیشرفته که تنظیمات GUI را نادیده می گیرد استفاده شده است. علاوه بر این ، هر گزینه خط فرمان این فایل پیکربندی را لغو می کند."];
   Message false [Loc None "+5"]
     "Error" true
     ["خطا"];
   Message false [Loc None "+0"]
     "The configuration file could not be opened." true
     ["پرونده پیکربندی نتوانست گشوده شود."];
   Message false [Loc None "+43"]
     "This change would require a client restart." true
     ["این تغییر نیاز به راه اندازی مجدد مشتری دارد."];
   Message false [Loc None "+28"]
     "The supplied proxy address is invalid." true
     ["نشانی پراکسی ارائه شده غیرمعتبر است."]].

Definition fa_OverviewPage : list message :=
  [Message false [Loc (Some "../forms/overviewpage.ui") "+14"]
     "Form" true
     ["فرم"];
   Message false [Loc None "+43"]
     "Bitcoin Confidential Core" true
     ["هسته محرمانه بیت کوین"];
   Message false [Loc None "+38"; Loc None "+114"; Loc None "+210"]
     "Pending" true
     ["انتظار"];
   Message false [Loc None "-308"]
     "Spending" true
     ["صرف"];
   Message false [Loc None "+108"]
     "Watch-only" true
     ["دیده بان فقط"];
   Message false [Loc None "+73"; Loc None "+191"]
     "Available" true
     ["دسترس"];
   Message false [Loc None "-181"]
     "Spendable" true
     ["Spendable"];
   Message false [Loc None "+41"]
     "Staking" true
     ["بزرگ هستند"];
   Message false [Loc None "+130"]
     "Immature" true
     ["نابالغ"];
   Message false [Loc None "+86"]
     "Total" true
     ["مجموع"];
   Message false [Loc None "+90"]
     "Recent transactions" true
     ["معاملات اخیر"];
   Message false [Loc None "+19"]
     "The displayed information may be out of date. Your wallet automatically synchronizes with the Bitcoin Confidential network after a connection is established, but this process has not completed yet." true
     ["اطلاعات نمایش داده شده ممکن است بهنگام نباشد. کیف پول شما به طور خودکار با شبکه محرمانه بیت کوین پس از ایجاد ارتباط همگام سازی می شود ، اما این فرآیند هنوز کامل نشده است."]].

Definition fa_PaymentServer : list message :=
  [Message false [Loc (Some "../paymentserver.cpp") "+317"; Loc None "+215"; Loc None "+42"; Loc None "+110"; Loc None "+14"; Loc None "+18"]
     "Payment request error" true
     ["خطای درخواست پرداخت"];
   Message false [Loc None "-398"]
     "Cannot start bitcoinc: click-to-pay handler" true
     ["Bitcoinc را نمی توان شروع: کلیک کنید به پرداخت هندلر"];
   Message false [Loc None "+82"; Loc None "+21"; Loc None "+13"; Loc None "+7"]
     "URI handling" true
     ["جابجایی URI"];
   Message false [Loc None "-41"]
     "&apos;bitcoin://&apos; is not a valid URI. Use &apos;bitcoin:&apos; instead." true
     ["«bitcoin://» یک URI معتبر نیست. استفاده از بیت کوین: به جای آن."];
   Message false [Loc None "+22"]
     "Payment request fetch URL is invalid: %1" true
     ["درخواست پرداخت واکشی URL نامعتبر است:% 1"];
   Message false [Loc None "+12"]
     "Invalid payment address %1" true
     ["آدرس پرداخت غیرمعتبر% 1"];
   Message false [Loc None "+8"]
     "URI cannot be parsed! This can be caused by an invalid Bitcoin Confidential address or malformed URI parameters." true
     ["URI را نمی توان تجزیه کرد! این را می توان با یک آدرس محرمانه بیتکوین نامعتبر یا پارامترهای URI ناقص ایجاد کرد."];
   Message false [Loc None "+13"]
     "Payment request file handling" true
     ["درخواست پرداخت انتقال فایل"];
   Message false [Loc None "+1"]
     "Payment request file cannot be read! This can be caused by an invalid payment request file." true
     ["پرونده درخواست پرداخت قابل خواندن نیست! این می تواند توسط یک پرونده درخواست پرداخت نامعتبر ایجاد شود."];
   Message false [Loc None "+61"; Loc None "+9"; Loc None "+31"; Loc None "+10"; Loc None "+17"; Loc None "+85"]
     "Payment request rejected" true
     ["درخواست پرداخت رد شد"];
   Message false [Loc None "-152"]
     "Payment request network doesn&apos;t match client network." true
     ["شبکه درخواست پرداخت با شبکه مشتری مطابقت ندارد."];
   Message false [Loc None "+9"]
     "Payment request expired." true
     ["درخواست پرداخت منقضی شده است."];
   Message false [Loc None "+6"]
     "Payment request is not initialized." true
     ["درخواست پرداخت مقداردهی اولیه نمی باشد."];
   Message false [Loc None "+26"]
     "Unverified payment requests to custom payment scripts are unsupported." true
     ["درخواست های پرداخت تایید نشده به اسکریپت های پرداخت سفارشی پشتیبانی نمی شود."];
   Message false [Loc None "+9"; Loc None "+17"]
     "Invalid payment request." true
     ["درخواست پرداخت غیرمعتبر."];
   Message false [Loc None "-10"]
     "Requested payment amount of %1 is too small (considered dust)." true
     ["مقدار پرداخت درخواست شده% 1 بسیار کوچک است (در نظر گرفته گرد و غبار)."];
   Message false [Loc None "+65"]
     "Refund from %1" true
     ["بازپرداخت از% 1"];
   Message false [Loc None "+31"]
     "Payment request %1 is too large (%2 bytes, allowed %3 bytes)." true
     ["درخواست پرداخت% 1 بیش از حد بزرگ است (% 2 بایت ، اجازه داده شده% 3 بایت)."];
   Message false [Loc None "+9"]
     "Error communicating with %1: %2" true
     ["خطا در برقراری ارتباط با% 1:% 2"];
   Message false [Loc None "+20"]
     "Payment request cannot be parsed!" true
     ["درخواست پرداخت را نمی توان تجزیه کرد!"];
   Message false [Loc None "+13"]
     "Bad response from server %1" true
     ["پاسخ نادرست از سرور% 1"];
   Message false [Loc None "+22"]
     "Network request error" true
     ["خطای درخواست شبکه"];
   Message false [Loc None "+11"]
     "Payment acknowledged" true
     ["پرداخت اذعان کرد"]].

Definition fa_PeerTableModel : list message :=
  [Message false [Loc (Some "../peertablemodel.cpp") "+109"]
     "NodeId" true
     ["NodeId"];
   Message false [Loc None "+0"]
     "Node/Service" true
     ["گره/خدمات"];
   Message false [Loc None "+0"]
     "Ping" true
     ["پینگ"];
   Message false [Loc None "+0"]
     "Sent" true
     ["فرستاده"];
   Message false [Loc None "+0"]
     "Received" true
     ["دریافت"];
   Message false [Loc None "+0"]
     "User Agent" true
     ["عامل کاربر"]].

Definition fa_QObject : list message :=
  [Message false [Loc (Some "../bitcoinunits.cpp") "+196"]
     "Amount" true
     ["مقدار"];
   Message false [Loc (Some "../guiutil.cpp") "+96"]
     "Enter Spending address" true
     ["آدرس هزینه را وارد کنید"];
   Message false [Loc None "+12"]
     "Enter ColdStake address" true
     ["آدرس ColdStake را وارد کنید"];
   Message false [Loc None "+2"]
     "Enter Stake address of remote node" true
     ["آدرس را وارد کنید سهم گره از راه دور"];
   Message false [Loc None "+2"]
     "Enter Stake address" true
     ["آدرس را وارد کنید"];
   Message false [Loc None "+687"]
     "%1 d" true
     ["% 1 d"];
   Message false [Loc None "+2"]
     "%1 h" true
     ["% 1 h"];
   Message false [Loc None "+2"]
     "%1 m" true
     ["% 1 m"];
   Message false [Loc None "+2"; Loc None "+53"]
     "%1 s" true
     ["% 1 s"];
   Message false [Loc None "-10"]
     "None" true
     ["هیچ کدام"];
   Message false [Loc None "+5"]
     "N/A" true
     ["N/A"];
   Message false [Loc None "+0"]
     "%1 ms" true
     ["% 1 ms"];
   Message true [Loc None "+18"]
     "%n second(s)" true
     ["% n ثانیه"; "% n ثانیه"];
   Message true [Loc None "+4"]
     "%n minute(s)" true
     ["% n دقیقه"; "% n دقیقه"];
   Message true [Loc None "+4"]
     "%n hour(s)" true
     ["% n ساعت (ها)"; "% n ساعت (ها)"];
   Message true [Loc None "+4"]
     "%n day(s)" true
     ["% n روز"; "% n روز"];
   Message true [Loc None "+4"; Loc None "+6"]
     "%n week(s)" true
     ["% n هفته"; "% n هفته"];
   Message false [Loc None "+0"]
     "%1 and %2" true
     ["% 1 و% 2"];
   Message true [Loc None "+0"]
     "%n year(s)" true
     ["% n سال (ها)"; "% n سال (ها)"];
   Message false [Loc None "+8"]
     "%1 B" true
     ["% 1 B"];
   Message false [Loc None "+2"]
     "%1 KB" true
     ["% 1 کیلوبایت"];
   Message false [Loc None "+2"]
     "%1 MB" true
     ["% 1 مگابایت"];
   Message false [Loc None "+2"]
     "%1 GB" true
     ["% 1 GB"];
   Message false [Loc None "+71"]
     "All spending funds are sent and received anonymously. Only the sender and receiver have details of their side of the transaction. Staking funds need to be converted to spending before sending out of wallet. Funds require %1 confirmations (%2 minutes) before sending." true
     ["تمام وجوه هزینه ارسال و دریافت ناشناس. فقط فرستنده و گیرنده دارای جزئیات مربوط به سمت خود از معامله. وجوه ردی باید قبل از ارسال کیف پول به آن ها تبدیل شود. بودجه قبل از ارسال به تأیید% 1 (% 2 دقیقه) نیاز دارد."];
   Message false [Loc None "+15"]
     "Staking funds cannot be sent out of your wallet without converting to spending. After converting to spending, %1 confirmations (%2 minutes) are required before sending." true
     ["وجوه ردی از کیف پول شما بدون تبدیل به هزینه ها ارسال نمی شود. پس از تبدیل به هزینه ها ، تأییدیه های% 1 (% 2 دقیقه) قبل از ارسال لازم است."];
   Message false [Loc (Some "../modaloverlay.cpp") "-29"]
     "unknown" true
     ["ناشناخته"];
   Message false [Loc (Some "../bitcoin.cpp") "+186"]
     "%1 didn&apos;t yet exit safely..." true
     ["% 1 هنوز با خیال راحت خارج نمی شود..."]].

Definition fa_QObject__QObject : list message :=
  [Message false [Loc None "-117"]
     "Error parsing command line arguments: %1." true
     ["خطا در تجزیه آرگومان خط فرمان:% 1."];
   Message false [Loc None "+38"]
     "Error: Specified data directory &quot;%1&quot; does not exist." true
     ["خطا: فهرست داده های مشخص شده &quot;% 1&quot; وجود ندارد."];
   Message false [Loc None "+5"]
     "Error: Cannot parse configuration file: %1." true
     ["خطا: قادر به تجزیه پرونده پیکربندی نمی باشد:% 1."];
   Message false [Loc None "+14"]
     "Error: %1" true
     ["خطا:% 1"]].

Definition fa_QRImageWidget : list message :=
  [Message false [Loc (Some "../receiverequestdialog.cpp") "+32"]
     "&amp;Save Image..." true
     ["&amp; ذخیره تصویر..."];
   Message false [Loc None "+3"]
     "&amp;Copy Image" true
     ["&amp; کپی تصویر"];
   Message false [Loc None "+32"]
     "Save QR Code" true
     ["ذخیره کد QR"];
   Message false [Loc None "+0"]
     "PNG Image (*.png)" true
     ["تصویر PNG (*. png)"]].

Definition fa_RPCConsole_1 : list message :=
  [Message false [Loc (Some "../forms/debugwindow.ui") "+14"]
     "Debug window" true
     ["پنجره اشکالزدایی"];
   Message false [Loc None "+11"]
     "Information" true
     ["اطلاعات"];
   Message false [Loc None "+13"]
     "Console" true
     ["کنسول"];
   Message false [Loc None "+10"]
     "Network Traffic" true
     ["ترافیک شبکه"];
   Message false [Loc None "+10"]
     "Peers" true
     ["همسالان"];
   Message false [Loc None "+21"; Loc None "+1004"]
     "User Agent" true
     ["عامل کاربر"];
   Message false [Loc None "-988"]
     "Block chain" true
     ["زنجیره بلاک"];
   Message false [Loc None "+7"]
     "Client version" true
     ["نسخه مشتری"];
   Message false [Loc None "+13"]
     "General" true
     ["عمومی"];
   Message false [Loc None "+13"]
     "Memory Pool" true
     ["استخر حافظه"];
   Message false [Loc None "+7"]
     "Current number of blocks" true
     ["شماره فعلی بلاک ها"];
   Message false [Loc None "+13"]
     "Network" true
     ["شبکه"];
   Message false [Loc None "+7"]
     "Number of connections" true
     ["تعداد اتصالات"];
   Message false [Loc None "+7"]
     "Startup time" true
     ["زمان راه اندازی"];
   Message false [Loc None "+7"]
     "Name" true
     ["نام"];
   Message false [Loc None "+7"]
     "Last block time" true
     ["آخرین زمان بلاک"];
   Message false [Loc None "+7"]
     "Using BerkeleyDB version" true
     ["با استفاده از نسخه BerkeleyDB"];
   Message false [Loc None "+10"]
     "Datadir" true
     ["Datadir"];
   Message false [Loc None "+7"]
     "Memory usage" true
     ["استفاده از حافظه"];
   Message false [Loc None "+7"]
     "Current number of transactions" true
     ["تعداد فعلی معاملات"];
   Message false [Loc None "+10"; Loc None "+16"; Loc None "+16"; Loc None "+16"; Loc None "+19"; Loc None "+16"; Loc None "+16"; Loc None "+16"; Loc None "+16"; Loc None "+16"; Loc None "+16"; Loc None "+644"; Loc None "+23"; Loc None "+23"; Loc None "+23"; Loc None "+23"; Loc None "+23"; Loc None "+23"; Loc None "+23"; Loc None "+23"; Loc None "+23"; Loc None "+23"; Loc None "+23"; Loc None "+23"; Loc None "+23"; Loc None "+23"; Loc None "+26"; Loc None "+23"; Loc None "+23"]
     "N/A" true
     ["N/A"];
   Message false [Loc None "-988"]
     "Debug log file" true
     ["پرونده گزارش اشکال زدایی"];
   Message false [Loc None "+7"]
     "Open the %1 debug log file from the current data directory. This can take a few seconds for large log files." true
     ["فایل ورود به سیستم اشکالزدایی% 1 را از دایرکتوری داده فعلی باز کنید. این می تواند چند ثانیه برای فایل های ورود به سیستم بزرگ را."]].

Definition fa_RPCConsole_2 : list message :=
  [Message false [Loc None "+3"]
     "&amp;Open" true
     ["&amp; باز"];
   Message false [Loc None "+25"]
     "Wallet: " true
     ["کیف پول:"];
   Message false [Loc None "+8"]
     "(none)" true
     ["هیچ یک"];
   Message false [Loc None "+27"]
     "Decrease font size" true
     ["کاهش اندازه قلم"];
   Message false [Loc None "+32"]
     "Increase font size" true
     ["افزایش اندازه قلم"];
   Message false [Loc None "+32"]
     "Clear console" true
     ["پاک کردن کنسول"];
   Message false [Loc None "+111"]
     "&amp;Reset" true
     ["&amp; تنظیم مجدد"];
   Message false [Loc None "+16"]
     "Totals" true
     ["بالغ"];
   Message false [Loc None "+67"; Loc None "+555"]
     "Received" true
     ["دریافت"];
   Message false [Loc None "-475"; Loc None "+452"]
     "Sent" true
     ["فرستاده"];
   Message false [Loc None "-361"]
     "Banned peers" true
     ["همسالان ممنوعه"];
   Message false [Loc None "+60"; Loc (Some "../rpcconsole.cpp") "+510"; Loc None "+760"]
     "Select a peer to view detailed information." true
     ["برای مشاهده اطلاعات دقیق ، یک همکار را انتخاب کنید."];
   Message false [Loc None "+25"]
     "Whitelisted" true
     ["لیست"];
   Message false [Loc None "+23"]
     "Direction" true
     ["جهت"];
   Message false [Loc None "+23"]
     "Version" true
     ["نسخهٔ"];
   Message false [Loc None "+46"]
     "Services" true
     ["خدمات"];
   Message false [Loc None "+23"]
     "Starting Block" true
     ["شروع بلوک"];
   Message false [Loc None "+23"]
     "Synced Headers" true
     ["سرصفحه های همگام سازی شده"];
   Message false [Loc None "+23"]
     "Synced Blocks" true
     ["بلوک های همگام سازی شده"];
   Message false [Loc None "+23"]
     "Ban Score" true
     ["نمره ممنوعیت"];
   Message false [Loc None "+23"]
     "Connection Time" true
     ["زمان اتصال"];
   Message false [Loc None "+23"]
     "Last Send" true
     ["آخرین ارسال"];
   Message false [Loc None "+23"]
     "Last Receive" true
     ["آخرین دریافت"];
   Message false [Loc None "+69"]
     "Ping Time" true
     ["زمان پینگ"];
   Message false [Loc None "+23"]
     "The duration of a currently outstanding ping." true
     ["مدت زمان پینگ در حال حاضر برجسته."];
   Message false [Loc None "+3"]
     "Ping Wait" true
     ["پینگ صبر کنید"];
   Message false [Loc None "+23"]
     "Min Ping" true
     ["حداقل پینگ"];
   Message false [Loc None "+23"]
     "Time Offset" true
     ["زمان افست"];
   Message false [Loc (Some "../rpcconsole.cpp") "-667"]
     "&amp;Disconnect" true
     ["قطع ارتباط &amp;"]].

Definition fa_RPCConsole_3 : list message :=
  [Message false [Loc None "+1"; Loc None "+1"; Loc None "+1"; Loc None "+1"]
     "Ban for" true
     ["ممنوعیت برای"];
   Message false [Loc None "-3"]
     "1 &amp;hour" true
     ["1 &amp; ساعت"];
   Message false [Loc None "+1"]
     "1 &amp;day" true
     ["1 &amp; روز"];
   Message false [Loc None "+1"]
     "1 &amp;week" true
     ["1 &amp; در هفته"];
   Message false [Loc None "+1"]
     "1 &amp;year" true
     ["1 &amp; سال"];
   Message false [Loc None "+48"]
     "&amp;Unban" true
     ["&amp; بان"];
   Message false [Loc None "+54"]
     "default wallet" true
     ["کیف پول پیش فرض"];
   Message false [Loc None "+110"]
     "Welcome to the %1 RPC console." true
     ["به کنسول RPC% 1 خوش آمدید."];
   Message false [Loc None "+1"]
     "Use up and down arrows to navigate history, and %1 to clear screen." true
     ["از پیکان های بالا و پایین برای پیمایش تاریخ و% 1 برای پاک کردن صفحه استفاده کنید."];
   Message false [Loc None "+1"]
     "Type %1 for an overview of available commands." true
     ["برای یک نمای کلی از فرمان های موجود ،% 1 را تایپ کنید."];
   Message false [Loc None "+1"]
     "For more information on using this console type %1." true
     ["برای اطلاعات بیشتر در مورد استفاده از این نوع کنسول% 1."];
   Message false [Loc None "+2"]
     "WARNING: Scammers have been active, telling users to type commands here, stealing their wallet contents. Do not use this console without fully understanding the ramifications of a command." true
     ["هشدار: Scammers فعال شده اند ، به کاربران می گویند که دستورات را در اینجا تایپ کنند ، محتویات کیف پول خود را سرقت کنند. از این کنسول بدون درک کامل انشعابات یک دستور استفاده نکنید."];
   Message false [Loc None "+32"]
     "In:" true
     ["در:"];
   Message false [Loc None "+1"]
     "Out:" true
     ["رتبهٔ از"];
   Message false [Loc None "+3"]
     "Network activity disabled" true
     ["فعالیت شبکه غیرفعال شد"];
   Message false [Loc None "+68"]
     "Executing command without any wallet" true
     ["اجرای فرمان بدون هیچ کیف پول"];
   Message false [Loc None "+2"]
     "Executing command using &quot;%1&quot; wallet" true
     ["اجرای دستور با استفاده از کیف پول &quot;% 1&quot;"];
   Message false [Loc None "+190"]
     "(node id: %1)" true
     ["(شناسه گره:% 1)"];
   Message false [Loc None "+2"]
     "via %1" true
     ["از طریق% 1"];
   Message false [Loc None "+3"; Loc None "+1"]
     "never" true
     ["هرگز"];
   Message false [Loc None "+10"]
     "Inbound" true
     ["ورودی"];
   Message false [Loc None "+0"]
     "Outbound" true
     ["خروجی"];
   Message false [Loc None "+2"]
     "Yes" true
     ["بله"];
   Message false [Loc None "+0"]
     "No" true
     ["نه"];
   Message false [Loc None "+12"; Loc None "+6"]
     "Unknown" true
     ["ناشناخته"]].

Definition fa_ReceiveCoinsDialog : list message :=
  [Message false [Loc (Some "../forms/receivecoinsdialog.ui") "+59"]
     "Stake" true
     ["سهام"];
   Message false [Loc None "+5"]
     "ColdStake" true
     ["ColdStake"];
   Message false [Loc None "+14"]
     "&amp;Request payment" true
     ["&amp; درخواست پرداخت"];
   Message false [Loc None "+17"]
     "Clear all fields of the form." true
     ["پاک کردن تمام زمینه های فرم."];
   Message false [Loc None "+3"]
     "Clear" true
     ["روشن"];
   Message false [Loc None "+56"; Loc None "+79"]
     "An optional amount to request. Leave this empty or zero to not request a specific amount." true
     ["مقدار اختیاری برای درخواست. ترک این خالی یا صفر برای درخواست یک مقدار خاص."];
   Message false [Loc None "-57"]
     "Use bech32 encoding." true
     ["از کدگذاری bech32 استفاده کنید."];
   Message false [Loc None "+3"]
     "Generate native segwit (Bech32) address" true
     ["ایجاد آدرس بومی segwit (Bech32)"];
   Message false [Loc None "+22"; Loc None "+55"]
     "An optional label to associate with the new receiving address." true
     ["برچسب اختیاری برای مرتبط کردن با آدرس دریافت جدید."];
   Message false [Loc None "-52"]
     "&amp;Label:" true
     ["برچسب"];
   Message false [Loc None "+13"; Loc None "+53"]
     "An optional message to attach to the payment request, which will be displayed when the request is opened. Note: The message will not be sent with the payment over the Bitcoin Confidential network." true
     ["یک پیام اختیاری برای پیوست به درخواست پرداخت ، که هنگام باز شدن درخواست ، نمایش داده می شود. توجه: پیام با پرداخت روی شبکه محرمانه بیت کوین ارسال نخواهد شد."];
   Message false [Loc None "-50"]
     "&amp;Message:" true
     ["پیام"];
   Message false [Loc None "+16"]
     "&amp;Amount:" true
     ["مقدار"];
   Message false [Loc None "+13"]
     "Use this form to request payments. All fields are &lt;b&gt;optional&lt;/b&gt;." true
     ["از این فرم برای درخواست پرداخت استفاده کنید. همه فیلدها &lt;b&gt;اختیاری&lt;/b&gt;هستند."];
   Message false [Loc None "+63"]
     "Requested payments history" true
     ["تاریخچه پرداخت های درخواستی"];
   Message false [Loc None "+31"]
     "Show the selected request (does the same as double clicking an entry)" true
     ["درخواست انتخاب شده را نشان دهید (همانند دوبار کلیک کردن روی ورودی)"];
   Message false [Loc None "+3"]
     "Show" true
     ["نمایش"];
   Message false [Loc None "+17"]
     "Remove the selected entries from the list" true
     ["حذف ورودیهای انتخاب شده از لیست"];
   Message false [Loc None "+3"]
     "Remove" true
     ["حذف"];
   Message false [Loc (Some "../receivecoinsdialog.cpp") "+40"]
     "Copy URI" true
     ["کپی URI"];
   Message false [Loc None "+1"]
     "Copy label" true
     ["کپی برچسب"];
   Message false [Loc None "+1"]
     "Copy message" true
     ["کپی پیام"];
   Message false [Loc None "+1"]
     "Copy amount" true
     ["مقدار کپی"]].

Definition fa_ReceiveRequestDialog : list message :=
  [Message false [Loc (Some "../forms/receiverequestdialog.ui") "+29"]
     "QR Code" true
     ["کد QR"];
   Message false [Loc None "+46"]
     "Copy &amp;URI" true
     ["کپی &amp; وری"];
   Message false [Loc None "+10"]
     "Copy &amp;Address" true
     ["کپی آدرس &amp;"];
   Message false [Loc None "+10"]
     "&amp;Save Image..." true
     ["&amp; ذخیره تصویر..."];
   Message false [Loc (Some "../receiverequestdialog.cpp") "+65"]
     "Request payment to %1" true
     ["درخواست پرداخت به% 1"];
   Message false [Loc None "+6"]
     "Payment information" true
     ["اطلاعات پرداخت"];
   Message false [Loc None "+1"]
     "URI" true
     ["Uri"];
   Message false [Loc None "+2"]
     "Address" true
     ["آدرس"];
   Message false [Loc None "+2"]
     "Amount" true
     ["مقدار"];
   Message false [Loc None "+2"]
     "Label" true
     ["برچسب"];
   Message false [Loc None "+2"]
     "Message" true
     ["پیام"];
   Message false [Loc None "+2"]
     "Wallet" true
     ["کیف پول"];
   Message false [Loc None "+11"]
     "Resulting URI too long, try to reduce the text for label / message." true
     ["در نتیجه URI بیش از حد طولانی ، سعی کنید برای کاهش متن برچسب/پیام."];
   Message false [Loc None "+5"]
     "Error encoding URI into QR Code." true
     ["خطا در کدگذاری URI به کد QR."]].

Definition fa_RecentRequestsTableModel : list message :=
  [Message false [Loc (Some "../recentrequeststablemodel.cpp") "+25"; Loc None "+4"]
     "Date" true
     ["تاریخ"];
   Message false [Loc None "-4"; Loc None "+4"]
     "Label" true
     ["برچسب"];
   Message false [Loc None "+0"]
     "Message" true
     ["پیام"];
   Message false [Loc None "+42"]
     "(no label)" true
     ["(بدون برچسب)"];
   Message false [Loc None "+9"]
     "(no message)" true
     ["(بدون پیام)"];
   Message false [Loc None "+8"]
     "(no amount requested)" true
     ["(بدون مقدار درخواست)"];
   Message false [Loc None "+45"]
     "Requested" true
     ["درخواست"]].

Definition fa_SendCoinsDialog_1 : list message :=
  [Message false [Loc (Some "../forms/sendcoinsdialog.ui") "+14"; Loc (Some "../sendcoinsdialog.cpp") "+806"]
     "Send Coins" true
     ["ارسال سکه"];
   Message false [Loc None "+105"]
     "Inputs..." true
     ["ورودی..."];
   Message false [Loc None "+10"]
     "automatically selected" true
     ["به صورت خودکار انتخاب"];
   Message false [Loc None "+19"]
     "Insufficient funds!" true
     ["بودجه ناکافی!"];
   Message false [Loc None "+89"]
     "Quantity:" true
     ["مقدار:"];
   Message false [Loc None "+35"]
     "Bytes:" true
     ["بایت:"];
   Message false [Loc None "+48"]
     "Amount:" true
     ["مقدار:"];
   Message false [Loc None "+32"]
     "Dust:" true
     ["غبار:"];
   Message false [Loc None "+48"]
     "Fee:" true
     ["هزینه:"];
   Message false [Loc None "+51"]
     "After Fee:" true
     ["پس از پرداخت هزینه:"];
   Message false [Loc None "+32"]
     "Change:" true
     ["تغییر:"];
   Message false [Loc None "+44"]
     "If this is activated, but the change address is empty or invalid, change will be sent to a newly generated address." true
     ["اگر این فعال باشد ، اما آدرس تغییر خالی یا نامعتبر است ، تغییر خواهد شد به یک آدرس تازه تولید فرستاده می شود."];
   Message false [Loc None "+3"]
     "Custom change address" true
     ["آدرس تغییر سفارشی"];
   Message false [Loc None "+256"]
     "Transaction Fee:" true
     ["هزینه معامله:"];
   Message false [Loc None "+14"]
     "Choose..." true
     ["انتخاب..."];
   Message false [Loc None "+30"]
     "Using the fallbackfee can result in sending a transaction that will take several hours or days (or never) to confirm. Consider choosing your fee manually or wait until you have validated the complete chain." true
     ["با استفاده از fallbackfee می تواند در ارسال یک معامله است که چندین ساعت یا چند روز را (یا هرگز) برای تایید منجر شود. انتخاب هزینه خود را به صورت دستی و یا صبر کنید تا شما را معتبر زنجیره کامل."];
   Message false [Loc None "+3"]
     "Warning: Fee estimation is currently not possible." true
     ["اخطار: برآورد هزینه در حال حاضر امکان پذیر نیست."];
   Message false [Loc None "+26"]
     "collapse fee-settings" true
     ["بستن-تنظیمات هزینه"];
   Message false [Loc None "+3"]
     "Hide" true
     ["مخفی کردن"];
   Message false [Loc None "+48"]
     "Specify a custom fee per kB (1,000 bytes) of the transaction's virtual size.

Note:  Since the fee is calculated on a per-byte basis, a fee of &quot;100 satoshis per kB&quot; for a transaction size of 500 bytes (half of 1 kB) would ultimately yield a fee of only 50 satoshis." true
     ["مشخص کردن یک هزینه سفارشی در هر kB (۱,۰۰۰ بایت) از اندازه مجازی معامله.

توجه داشته باشید: از آنجا که هزینه بر اساس هر بایت محاسبه می شود ، هزینه ی &quot;۱۰۰ satoshis در kB&quot; برای اندازه معامله ۵۰۰ بایت (نیمی از 1 کیلوبایت) در نهایت هزینه تنها ۵۰ satoshis را عملکرد می کند."];
   Message false [Loc None "+5"]
     "per kilobyte" true
     ["در هر کیلوبایت"];
   Message false [Loc None "+27"; Loc None "+13"]
     "Paying only the minimum fee is just fine as long as there is less transaction volume than space in the blocks. But be aware that this can end up in a never confirming transaction once there is more demand for Bitcoin Confidential transactions than the network can process." true
     ["پرداخت تنها حداقل هزینه فقط خوب است تا زمانی که حجم معامله کمتر از فضا در بلوک وجود دارد. اما آگاه باشید که این می تواند تا پایان در یک معامله هرگز تایید یک بار تقاضا بیشتر برای معاملات محرمانه بیت کوین از شبکه می تواند روند وجود دارد."];
   Message false [Loc None "+3"]
     "(read the tooltip)" true
     ["(دفعات بازدید: tooltip)"];
   Message false [Loc None "+29"]
     "Recommended:" true
     ["توصیه:"];
   Message false [Loc None "+30"]
     "Custom:" true
     ["سفارشی:"];
   Message false [Loc None "+52"]
     "(Smart fee not initialized yet. This usually takes a few blocks...)" true
     ["(هزینه های هوشمند هنوز مقداردهی اولیه نشده است. این معمولا چند بلوک طول می کشد...)"];
   Message false [Loc None "+29"]
     "Confirmation time target:" true
     ["زمان تایید هدف:"];
   Message false [Loc None "+74"]
     "With Replace-By-Fee (BIP-125) you can increase a transaction&apos;s fee after it is sent. Without this, a higher fee may be recommended to compensate for increased transaction delay risk." true
     ["با تعویض با هزینه (BIP-۱۲۵) پس از ارسال ، می توانید هزینه معامله را افزایش دهید. بدون این, هزینه بالاتر ممکن است توصیه می شود برای جبران افزایش خطر تاخیر معامله."]].

Definition fa_SendCoinsDialog_2 : list message :=
  [Message false [Loc None "+3"]
     "Enable Replace-By-Fee" true
     ["فعال کردن جایگزین با هزینه"];
   Message false [Loc None "+37"]
     "Confirm the send action" true
     ["تایید عملکرد ارسال"];
   Message false [Loc None "+3"]
     "S&amp;end" true
     ["S&amp;end"];
   Message false [Loc None "+23"]
     "Clear all fields of the form." true
     ["پاک کردن تمام زمینه های فرم."];
   Message false [Loc None "+3"]
     "Clear &amp;All" true
     ["زدودن &amp; همه"];
   Message false [Loc None "+14"]
     "Send to multiple recipients at once" true
     ["ارسال به چند گیرنده در یک بار"];
   Message false [Loc None "+3"]
     "Add &amp;Recipient" true
     ["افزودن گيرنده &amp;"];
   Message false [Loc None "+38"]
     "Balance:" true
     ["تعادل:"];
   Message false [Loc (Some "../sendcoinsdialog.cpp") "-730"]
     "Add Output" true
     ["اضافه کردن خروجی"];
   Message false [Loc None "+3"]
     "Add Recipient" true
     ["افزودن گیرنده"];
   Message false [Loc None "+14"]
     "Copy quantity" true
     ["کپی مقدار"];
   Message false [Loc None "+1"]
     "Copy amount" true
     ["مقدار کپی"];
   Message false [Loc None "+1"]
     "Copy fee" true
     ["هزینه کپی"];
   Message false [Loc None "+1"]
     "Copy after fee" true
     ["کپی بعد از هزینه"];
   Message false [Loc None "+1"]
     "Copy bytes" true
     ["کپی بایت"];
   Message false [Loc None "+1"]
     "Copy dust" true
     ["کپی گرد و غبار"];
   Message false [Loc None "+1"]
     "Copy change" true
     ["کپی تغییر"];
   Message false [Loc None "+88"]
     "%1 (%2 blocks)" true
     ["% 1 (% 2 بلوک)"];
   Message false [Loc None "+39"]
     "This tab allows manually activating Staking funds for ColdStaking. This will take longer than the &quot;Automated ColdStaking activation&quot; to start staking but wallet does not need to be online for the activation." true
     ["این برگه اجازه می دهد تا به صورت دستی فعال کردن وجوه برای ColdStaking. این کار طولانی تر از &quot;خودکار ColdStaking فعال سازی&quot; را برای شروع به کوچک کردن اما کیف پول نیازی به آنلاین برای فعال سازی."];
   Message false [Loc None "+103"]
     "Error Remote Staking Address" true
     ["خطا در از راه دور آدرس ردی"];
   Message false [Loc None "+0"]
     "The remote stake address can&apos;t be part of this wallet." true
     ["نشانی سهام راه دور نمی تواند بخشی از این کیف پول باشد."];
   Message false [Loc None "+96"]
     "from wallet %1" true
     ["از کیف پول% 1"];
   Message false [Loc None "+21"; Loc None "+5"; Loc None "+5"; Loc None "+4"]
     "%1 to %2" true
     ["% 1 به% 2"];
   Message false [Loc None "+6"]
     "Are you sure you want to send?" true
     ["آیا مطمئنید که می خواهید ارسال کنید ؟"];
   Message false [Loc None "+2"]
     "Please, review your transaction." true
     ["لطفا معامله خود را بررسی کنید."];
   Message false [Loc None "+11"]
     "Estimated Transaction fee" true
     ["هزینه معامله تخمینی"];
   Message false [Loc None "+13"]
     "removed for transaction fee" true
     ["حذف برای هزینه معامله"];
   Message false [Loc None "+2"]
     "added as transaction fee" true
     ["اضافه شده به عنوان هزینه معامله"];
   Message false [Loc None "+5"]
     "You can increase the fee later (signals Replace-By-Fee, BIP-125)." true
     ["شما می توانید هزینه های بعد را افزایش دهد (سیگنال های جایگزین به هزینه ، BIP-۱۲۵)."]].

Definition fa_SendCoinsDialog_3 : list message :=
  [Message false [Loc None "+2"]
     "Not signalling Replace-By-Fee, BIP-125." true
     ["سیگنالینگ جایگزین توسط هزینه, BIP-۱۲۵."];
   Message false [Loc None "+12"]
     "Total Amount" true
     ["مقدار کل"];
   Message false [Loc None "+6"]
     "Your hardware device must be connected to sign this txn." true
     ["دستگاه سخت افزار شما باید برای امضای این txn متصل شود."];
   Message false [Loc None "+4"]
     "Confirm send coins" true
     ["تایید ارسال سکه ها"];
   Message false [Loc None "+248"]
     "The recipient address is not valid. Please recheck." true
     ["نشاني گيرنده معتبر نيست. لطفاً دوباره بررسی کنید."];
   Message false [Loc None "+3"]
     "The amount to pay must be larger than 0." true
     ["مبلغ پرداختی باید بزرگتر از 0 باشد."];
   Message false [Loc None "+3"]
     "The amount exceeds your balance." true
     ["مقدار بیش از تعادل خود را."];
   Message false [Loc None "+3"]
     "The total exceeds your balance when the %1 transaction fee is included." true
     ["مجموع موجودی شما هنگامی که مبلغ معامله% 1 شامل می شود ، بیشتر می شود."];
   Message false [Loc None "+3"]
     "Duplicate address found: addresses should only be used once each." true
     ["آدرس تکراری یافت شد: آدرس ها فقط یک بار باید استفاده شوند."];
   Message false [Loc None "+3"]
     "Transaction creation failed!" true
     ["ایجاد تراکنش انجام نشد!"];
   Message false [Loc None "+4"]
     "The transaction was rejected with the following reason: %1" true
     ["معامله به دلیل زیر رد شده است:% 1"];
   Message false [Loc None "+4"]
     "A fee higher than %1 is considered an absurdly high fee." true
     ["هزینه بالاتر از% 1 در نظر گرفته شده است absurdly هزینه بالا."];
   Message false [Loc None "+3"]
     "Payment request expired." true
     ["درخواست پرداخت منقضی شده است."];
   Message false [Loc None "+96"]
     "Pay only the required fee of %1" true
     ["پرداخت فقط هزینه مورد نیاز% 1"];
   Message true [Loc None "+76"]
     "Estimated to begin confirmation within %n block(s)." true
     ["تخمین زده شده برای شروع تایید در% n بلوک (ها)."; "تخمین زده شده برای شروع تایید در% n بلوک (ها)."];
   Message false [Loc None "+130"]
     "Warning: Invalid Bitcoin Confidential address" true
     ["اخطار: آدرس محرمانه بیت کوین نامعتبر است"];
   Message false [Loc None "+8"]
     "Error custom change address" true
     ["خطا آدرس تغییر سفارشی"];
   Message false [Loc None "+0"]
     "The address you selected for change is not part of this wallet." true
     ["آدرسی که برای تغییر انتخاب نموده اید بخشی از این کیف پول نمی باشد."];
   Message false [Loc None "+15"]
     "(no label)" true
     ["(بدون برچسب)"]].

Definition fa_SendCoinsEntry_1 : list message :=
  [Message false [Loc (Some "../forms/sendcoinsentry.ui") "+30"]
     "This is a normal payment." true
     ["این پرداخت طبیعی است."];
   Message false [Loc None "+71"; Loc None "+463"; Loc None "+130"]
     "Subtract fee from amount" true
     ["تفریق هزینه از مقدار"];
   Message false [Loc None "-580"; Loc None "+463"; Loc None "+130"]
     "Use available balance" true
     ["استفاده از موجودی موجود"];
   Message false [Loc None "-562"]
     "Message" true
     ["پیام"];
   Message false [Loc None "+24"; Loc None "+261"]
     "The Bitcoin Confidential address to send the payment to" true
     ["آدرس محرمانه بیت کوین برای ارسال پرداخت به"];
   Message false [Loc None "-254"; Loc None "+261"; Loc None "+297"; Loc None "+104"]
     "Choose previously used address" true
     ["انتخاب آدرس مورد استفاده پیشین"];
   Message false [Loc None "-646"; Loc None "+261"; Loc None "+297"; Loc None "+104"]
     "Alt+A" true
     ["Alt + A"];
   Message false [Loc None "-655"; Loc None "+261"; Loc None "+297"; Loc None "+104"]
     "Paste address from clipboard" true
     ["جای گذاری نشانی از تخته نگهدارنده"];
   Message false [Loc None "-646"; Loc None "+261"; Loc None "+297"; Loc None "+104"]
     "Alt+P" true
     ["Alt + P"];
   Message false [Loc None "-655"; Loc None "+261"; Loc None "+401"; Loc None "+520"; Loc None "+564"]
     "Remove this entry" true
     ["حذف این ورودی"];
   Message false [Loc None "-1718"; Loc None "+277"]
     "Pay To" true
     ["پرداخت به"];
   Message false [Loc None "-258"; Loc None "+242"; Loc None "+277"]
     "Amount" true
     ["مقدار"];
   Message false [Loc None "-495"]
     "Enter a label for this address to add it to the list of used addresses" true
     ["یک برچسب برای این آدرس وارد کنید تا آن را به لیست آدرس های مورد استفاده اضافه کنید"];
   Message false [Loc None "+15"]
     "Label" true
     ["برچسب"];
   Message false [Loc None "+33"]
     "A short message sent over the Bitcoin Confidential network." true
     ["پیام کوتاه ارسال شده بیش از شبکه محرمانه بیت کوین."];
   Message false [Loc None "+6"]
     "Encrypted message sent with the transaction (optional, max. 24 characters)." true
     ["پیام رمزگذاری شده با معامله (اختیاری ، حداکثر 24 کاراکتر)."];
   Message false [Loc None "+261"]
     "This is a payment to a coldstake script." true
     ["این یک پرداخت به یک اسکریپت coldstake است."];
   Message false [Loc None "+83"]
     "The fee will be deducted from the amount being sent. The recipient will receive less Bitcoin Confidential than you enter in the amount field. If multiple recipients are selected, the fee is split equally." true
     ["هزینه از مقدار ارسال شده کسر می شود. گیرنده کمتر از شما در فیلد مقدار ، بیت کوین را محرمانه دریافت خواهد کرد. اگر چند گیرنده انتخاب شوند ، هزینه به همان اندازه تقسیم می شود."];
   Message false [Loc None "+36"]
     "ColdStake address used by your remote staking node to stake your funds." true
     ["آدرس ColdStake توسط گره از راه دور شما استفاده می شود به سهام وجوه خود را."];
   Message false [Loc None "+80"]
     "ColdStake " true
     ["ColdStake"];
   Message false [Loc None "+24"]
     "The stake address on the remote node (cannot be in this wallet)" true
     ["آدرس سهام گره از راه دور (نمی تواند در این کیف پول باشد)"];
   Message false [Loc None "+81"]
     " Stake " true
     ["سهام"];
   Message false [Loc None "+434"]
     "This is an unauthenticated payment request." true
     ["این یک درخواست پرداخت تأیید نشده است."];
   Message false [Loc None "+40"; Loc None "+560"]
     "Pay To:" true
     ["پرداخت به:"]].

Definition fa_SendCoinsEntry_2 : list message :=
  [Message false [Loc None "-526"; Loc None "+577"]
     "Memo:" true
     ["یادداشت:"];
   Message false [Loc None "-560"; Loc None "+547"]
     "A&amp;mount:" true
     ["A&amp;mount:"];
   Message false [Loc None "-78"]
     "This is an authenticated payment request." true
     ["این یک درخواست پرداخت تأیید شده است."];
   Message false [Loc (Some "../sendcoinsentry.cpp") "+89"]
     "Enter a label for this address to add it to your address book" true
     ["یک برچسب برای این آدرس وارد کنید تا آن را به دفترچه آدرس خود اضافه کنید"]].

Definition fa_SendConfirmationDialog : list message :=
  [Message false [Loc (Some "../sendcoinsdialog.cpp") "+85"; Loc None "+5"]
     "Yes" true
     ["بله"]].

Definition fa_ShutdownWindow : list message :=
  [Message false [Loc (Some "../utilitydialog.cpp") "+83"]
     "%1 is shutting down..." true
     ["% 1 خاموش است..."];
   Message false [Loc None "+1"]
     "Do not shut down the computer until this window disappears." true
     ["تا زمانی که این پنجره از بین می رود ، رایانه را خاموش نکنید."]].

Definition fa_SignVerifyMessageDialog_1 : list message :=
  [Message false [Loc (Some "../forms/signverifymessagedialog.ui") "+14"]
     "Signatures - Sign / Verify a Message" true
     ["امضا--ثبت نام/تایید یک پیام"];
   Message false [Loc None "+14"]
     "&amp;Sign Message" true
     ["&amp; پیام امضا"];
   Message false [Loc None "+10"]
     "&amp;Verify Message" true
     ["&amp; تأیید پیام"];
   Message false [Loc None "+31"]
     "You can sign messages/agreements with your addresses to prove you can receive Bitcoin Confidential sent to them. Be careful not to sign anything vague or random, as phishing attacks may try to trick you into signing your identity over to them. Only sign fully-detailed statements you agree to." true
     ["شما می توانید پیام ها/توافق نامه با آدرس های خود را برای اثبات شما می توانید بیتکوین محرمانه ارسال شده به آنها را دریافت کنید. مراقب باشید که هیچ چیز مبهم یا تصادفی را امضا نکنید ، زیرا حملات فیشینگ ممکن است سعی کند شما را به امضای هویت شما نسبت به آنها فریب دهد. فقط بیانیه های کاملاً دقیق که به آن موافق هستید را امضا کنید."];
   Message false [Loc None "+18"]
     "The Bitcoin Confidential address to sign the message with" true
     ["آدرس محرمانه بیت کوین برای امضای پیام با"];
   Message false [Loc None "+7"; Loc None "+213"]
     "Choose previously used address" true
     ["انتخاب آدرس مورد استفاده پیشین"];
   Message false [Loc None "-203"; Loc None "+213"]
     "Alt+A" true
     ["Alt + A"];
   Message false [Loc None "-203"]
     "Paste address from clipboard" true
     ["جای گذاری نشانی از تخته نگهدارنده"];
   Message false [Loc None "+10"]
     "Alt+P" true
     ["Alt + P"];
   Message false [Loc None "+12"]
     "Enter the message you want to sign here" true
     ["پیامی را که می خواهید در اینجا امضاء شود وارد کنید"];
   Message false [Loc None "+7"]
     "Signature" true
     ["امضا"];
   Message false [Loc None "+27"]
     "Copy the current signature to the system clipboard" true
     ["امضای فعلی را به کلیپ بورد سیستم کپی کنید"];
   Message false [Loc None "+21"]
     "Sign the message to prove you own this Bitcoin Confidential address" true
     ["برای اثبات این آدرس محرمانه بیت کوین ، پیام را امضا کنید"];
   Message false [Loc None "+3"]
     "Sign &amp;Message" true
     ["ثبت پیام &amp;"];
   Message false [Loc None "+14"]
     "Reset all sign message fields" true
     ["بازنشاندن همه زمینه های پیام امضا"];
   Message false [Loc None "+3"; Loc None "+153"]
     "Clear &amp;All" true
     ["زدودن &amp; همه"];
   Message false [Loc None "-85"]
     "Enter the receiver&apos;s address, message (ensure you copy line breaks, spaces, tabs, etc. exactly) and signature below to verify the message. Be careful not to read more into the signature than what is in the signed message itself, to avoid being tricked by a man-in-the-middle attack. Note that this only proves the signing party receives with the address, it cannot prove sendership of any transaction!" true
     ["آدرس گیرنده را وارد کنید ، پیام (اطمینان حاصل کنید که شکستن خط ، فضاها ، زبانه ها ، و غیره دقیقا) و امضای زیر را به منظور بررسی پیام. مراقب باشید به خواندن بیشتر به امضا از آنچه که در پیام امضا شده خود را ، برای جلوگیری از فریب مرد در-حمله-متوسط است. توجه داشته باشید که این تنها نشان می دهد حزب امضا دریافت با آدرس ، آن را می توانید sendership از هر معامله را اثبات نمی کند!"];
   Message false [Loc None "+21"]
     "The Bitcoin Confidential address the message was signed with" true
     ["آدرس محرمانه بیت کوین پیام با امضا شد"];
   Message false [Loc None "+44"]
     "Verify the message to ensure it was signed with the specified Bitcoin Confidential address" true
     ["پیام را تأیید کنید تا اطمینان حاصل شود که با آدرس محرمانه بیت کوینی مشخص شده امضا شده است"];
   Message false [Loc None "+3"]
     "Verify &amp;Message" true
     ["تایید پیام &amp;"];
   Message false [Loc None "+14"]
     "Reset all verify message fields" true
     ["بازنشاندن همه زمینه های پیام تایید"];
   Message false [Loc (Some "../signverifymessagedialog.cpp") "+39"]
     "Click &quot;Sign Message&quot; to generate signature" true
     ["برای ایجاد امضا روی &quot;پیام امضا&quot; کلیک کنید"];
   Message false [Loc None "+78"; Loc None "+78"]
     "The entered address is invalid." true
     ["آدرس وارد شده غیرمعتبر است."];
   Message false [Loc None "-78"; Loc None "+7"; Loc None "+71"; Loc None "+6"]
     "Please check the address and try again." true
     ["لطفاً نشاني را بررسي كرده و مجدداً سعي كنيد."];
   Message false [Loc None "-77"; Loc None "+77"]
     "The entered address does not refer to a key." true
     ["نشانی وارد شده به یک کلید مراجعه نمی کند."];
   Message false [Loc None "-69"]
     "Wallet unlock was cancelled." true
     ["باز کردن کیف پول لغو شد."];
   Message false [Loc None "+8"]
     "Private key for the entered address is not available." true
     ["کلید خصوصی برای نشانی وارد شده در دسترس نمی باشد."];
   Message false [Loc None "+12"]
     "Message signing failed." true
     ["امضای پیام انجام نشد."]].

Definition fa_SignVerifyMessageDialog_2 : list message :=
  [Message false [Loc None "+5"]
     "Message signed." true
     ["پیام امضا شد."];
   Message false [Loc None "+55"]
     "The signature could not be decoded." true
     ["امضا نمی تواند رمزگشایی شود."];
   Message false [Loc None "+0"; Loc None "+13"]
     "Please check the signature and try again." true
     ["لطفاً امضا را بررسی کرده و دوباره امتحان کنید."];
   Message false [Loc None "+0"]
     "The signature did not match the message digest." true
     ["امضا با هضم پیام مطابقت ندارد."];
   Message false [Loc None "+6"]
     "Message verification failed." true
     ["تأیید پیام انجام نشد."];
   Message false [Loc None "+5"]
     "Message verified." true
     ["پیام تایید شده است."]].

Definition fa_SplashScreen : list message :=
  [Message false [Loc (Some "../networkstyle.cpp") "+19"]
     "[testnet]" true
     ["[testnet]"]].

Definition fa_StakingDialog_1 : list message :=
  [Message false [Loc (Some "../forms/stakingdialog.ui") "+14"]
     "Send Coins" true
     ["ارسال سکه"];
   Message false [Loc None "+23"]
     "Status" true
     ["وضعیت"];
   Message false [Loc None "+19"]
     "Addresses" true
     ["آدرس"];
   Message false [Loc None "+16"]
     "Rewards" true
     ["پاداش"];
   Message false [Loc None "+16"]
     "Convert to Spending" true
     ["تبدیل به هزینه"];
   Message false [Loc None "+16"]
     "Convert to Staking" true
     ["تبدیل به ردی"];
   Message false [Loc None "+16"]
     "Activate ColdStaking" true
     ["فعال کردن ColdStaking"];
   Message false [Loc None "+79"]
     "Total supply" true
     ["کل تامین"];
   Message false [Loc None "+26"]
     "Current block reward" true
     ["پاداش بلوک کنونی"];
   Message false [Loc None "+26"]
     "Current block height" true
     ["ارتفاع بلوک کنونی"];
   Message false [Loc None "+20"]
     "Network difficulty" true
     ["مشکل شبکه"];
   Message false [Loc None "+26"]
     "Annual staking reward" true
     ["جایزه سالانه ردی"];
   Message false [Loc None "+13"]
     "Current staking reward" true
     ["پاداش موجود در حال حاضر"];
   Message false [Loc None "+26"]
     "Network staking weight" true
     ["شبکه وزن ردی"];
   Message false [Loc None "+20"]
     "Your estimated annual reward" true
     ["پاداش سالانه خود را برآورد"];
   Message false [Loc None "+13"]
     "?" true
     ["?"];
   Message false [Loc None "+80"]
     "Staking" true
     ["بزرگ هستند"];
   Message false [Loc None "+24"; Loc None "+233"]
     "ENABLED" true
     ["فعال"];
   Message false [Loc None "-210"]
     "Pause" true
     ["مکث"];
   Message false [Loc None "+50"; Loc None "+425"]
     "Estimated reward frequency" true
     ["فرکانس پاداش برآورد شده"];
   Message false [Loc None "-412"]
     "Stakable Funds" true
     ["صندوق های Stakable"];
   Message false [Loc None "+20"]
     "Wallet staking weight" true
     ["کیف پول و وزن"];
   Message false [Loc None "+103"]
     "Cold Staking" true
     ["سرد است"];
   Message false [Loc None "+55"]
     "Remote Stake address" true
     ["آدرس مبلغ از راه دور"];
   Message false [Loc None "+13"]
     "Automated ColdStaking activation" true
     ["فعال سازی ColdStaking خودکار"];
   Message false [Loc None "+25"]
     "Enable " true
     ["فعال"];
   Message false [Loc None "+57"]
     "Enable Hot Staking with the STAKING ENABLE button and leaving wallet open.  Enable automated ColdStake with COLDSTAKING ENABLE button and setting a remote stake address. On remote node enable staking with &quot;bitcoinc-cli walletsettings stakingstatus true&quot; and create a &quot;Stake&quot; address on your remote node with &quot;bitcoinc-cli getnewstakeaddress&quot;, or get a &quot;Stake&quot; address from a ColdStaking pool. Funds gradually transition over from hot staking to cold staking while your wallet is open. The time required for the activation depends on the wallet&apos;s staking weight and can take several days with a low weight. Once the activation bar shows complete, wallet can be closed.  Alternatively, use the Activate Coldstaking tab to send an activation transaction.  This will take longer to start staking but wallet does not need to be online." true
     ["با باز کردن دکمه ENABLE و خروج از کیف پول ، شما را قادر به گسترش داغ.  فعال کردن خودکار coldstake دکمه فعال کردن و تنظیم یک آدرس سهام از راه دور. در گره از راه دور ، با &quot;bitcoinc-cli stakingstatus true&quot; را فعال کنید و یک آدرس &quot;مخاطره&quot; را در گره از راه دور خود با &quot;bitcoinc-cli getnewstakeaddress&quot; ایجاد کنید و یا یک آدرس &quot;سهام&quot; را از یک استخر ColdStaking وجوه به تدریج بیش از از بین می روند تا سرد شدن در حالی که کیف پول شما باز است. زمان مورد نیاز برای فعال سازی بستگی به وزن کم بودن کیف پول دارد و می تواند چند روز با وزن پایین داشته باشد. هنگامی که نوار فعال سازی کامل نشان می دهد ، کیف پول را می توان بسته است.  متناوبا ، استفاده از فعال کردن Coldstaking زبانه برای ارسال یک معامله فعال سازی.  این بیشتر طول خواهد کشید تا شروع به ردی اما کیف پول نیازی به آنلاین نیست."];
   Message false [Loc None "+20"]
     "ColdStake activation progress" true
     ["پیشرفت فعال سازی ColdStake"];
   Message false [Loc None "+77"]
     "Amount activated for ColdStaking" true
     ["مقدار فعال شده برای ColdStaking"]].

Definition fa_StakingDialog_2 : list message :=
  [Message false [Loc None "+13"]
     "Estimated weight" true
     ["وزن تخمینی"];
   Message false [Loc None "+106"]
     "Filtered" true
     ["فیلتر"];
   Message false [Loc None "+15"; Loc None "+88"]
     "Staking rewards" true
     ["پاداش های ردی"];
   Message false [Loc None "-75"; Loc None "+48"]
     "Solved blocks" true
     ["بلوک های حل شده"];
   Message false [Loc None "-41"; Loc None "+55"]
     "4000" true
     ["۴۰۰۰"];
   Message false [Loc None "-48"; Loc None "+41"]
     "100000BC" true
     ["100000BC"];
   Message false [Loc None "-22"]
     "Total" true
     ["مجموع"];
   Message false [Loc (Some "../stakingdialog.cpp") "+258"; Loc None "+17"]
     "No stakable funds available. Use the &quot;Convert to staking&quot; tab to convert funds for staking." true
     ["هیچ صندوق stakable در دسترس نیست. با استفاده از &quot;تبدیل به ردی&quot; تب برای تبدیل وجوه برای ردی."];
   Message false [Loc None "-15"; Loc None "+18"]
     "No eligible staking outputs available. Staking funds need to have 225 confirmations to be eligible." true
     ["هیچ یک از خروجی های واجد شرایط در دسترس نیست. بودجه های ردی نیاز به ۲۲۵ تاییدیه دارند."];
   Message false [Loc None "-9"]
     "Staking not initialized yet. Wait a moment." true
     ["ردی هنوز مقداردهی اولیه نشده است. یک لحظه صبر کنید."];
   Message false [Loc None "+3"]
     "Staking is stopped. Press the start button above to enable staking." true
     ["ردی متوقف شده است. دکمه start را در بالا برای فعال کردن این گزینه فشار دهید."];
   Message false [Loc None "+10"]
     "Wallet is locked. To start staking unlock the wallet for staking only. To unlock click the lock icon in the bottom right hand portion of the window." true
     ["کیف پول قفل شده است. برای شروع به باز کردن قفل کیف پول برای تنها ردی. برای باز کردن قفل نماد قفل در قسمت پایین سمت راست پنجره کلیک کنید."];
   Message false [Loc None "+4"]
     "Wallet is not fully synced. To start staking make sure the wallet has connections to the network and wait until it catched up with the latest blocks." true
     ["کیف پول به طور کامل همگام سازی نمی شود. برای شروع به کسب اطلاعات بیشتر ، اطمینان حاصل کنید که کیف پول به شبکه متصل است و منتظر بمانید تا با آخرین بلوک ها ارتباط برقرار شود."];
   Message false [Loc None "+3"]
     "Staking is disabled. Set the config paramter &quot;staking=1&quot; in the bitcoinc.conf to enable it." true
     ["ردی غیر فعال شده است. تنظیم پاراter پیکربندی &quot;ردی = 1&quot; در bitcoinc. conf به آن را فعال کنید."];
   Message false [Loc None "+72"]
     "No eligible coldstaking outputs available. Your coldstaking funds need to have 225 confirmations to be eligible." true
     ["بدون واجد شرایط خروجی های موجود در دسترس است. بودجه خود را coldstaking نیاز به ۲۲۵ تاییدیه به واجد شرایط بودن."];
   Message false [Loc None "+160"]
     "Set Remote Staking Address" true
     ["تعیین آدرس از راه دور"];
   Message false [Loc None "+1"]
     "Enter the remote staking address:" true
     ["آدرس از راه دور را وارد کنید:"]].

Definition fa_TrafficGraphWidget : list message :=
  [Message false [Loc (Some "../trafficgraphwidget.cpp") "+81"]
     "KB/s" true
     ["KB/s"]].

Definition fa_TransactionDesc_1 : list message :=
  [Message true [Loc (Some "../transactiondesc.cpp") "+39"]
     "Open for %n more block(s)" true
     ["باز کردن برای% n بیشتر بلاک ها"; "باز کردن برای% n بیشتر بلاک ها"];
   Message false [Loc None "+2"]
     "Open until %1" true
     ["باز کردن تا% 1"];
   Message false [Loc None "+6"]
     "conflicted with a transaction with %1 confirmations" true
     ["تناقض با یک معامله با تأیید% 1"];
   Message false [Loc None "+2"]
     "0/unconfirmed, %1" true
     ["0/تأیید نشده ،% 1"];
   Message false [Loc None "+0"]
     "in memory pool" true
     ["در استخر حافظه"];
   Message false [Loc None "+0"]
     "not in memory pool" true
     ["نه در استخر حافظه"];
   Message false [Loc None "+0"]
     "abandoned" true
     ["رها"];
   Message false [Loc None "+2"]
     "%1/unconfirmed" true
     ["% 1/تأیید نشده"];
   Message false [Loc None "+2"]
     "%1 confirmations" true
     ["% 1 تاییدیه"];
   Message false [Loc None "+29"]
     "Status" true
     ["وضعیت"];
   Message false [Loc None "+3"]
     "Date" true
     ["تاریخ"];
   Message false [Loc None "+4"; Loc None "+223"]
     "Transaction ID" true
     ["شناسه تراکنش"];
   Message false [Loc None "-210"; Loc None "+211"]
     "Transaction total size" true
     ["حجم کل تراکنش"];
   Message false [Loc None "-209"]
     "Confirmations" true
     ["تاییدیه"];
   Message false [Loc None "+4"]
     "Block hash" true
     ["هش بلوک"];
   Message false [Loc None "+1"]
     "Block index" true
     ["شاخص بلوک"];
   Message false [Loc None "+1"]
     "Block time" true
     ["زمان مسدود"];
   Message false [Loc None "+21"]
     "Source" true
     ["منبع"];
   Message false [Loc None "+0"]
     "Generated" true
     ["تولید"];
   Message false [Loc None "+5"; Loc None "+14"; Loc None "+72"]
     "From" true
     ["از"];
   Message false [Loc None "-72"]
     "unknown" true
     ["ناشناخته"];
   Message false [Loc None "+1"; Loc None "+20"; Loc None "+72"]
     "To" true
     ["به"];
   Message false [Loc None "-90"]
     "own address" true
     ["آدرس خود"];
   Message false [Loc None "+0"; Loc None "+69"]
     "watch-only" true
     ["دیده بان فقط"];
   Message false [Loc None "-67"]
     "label" true
     ["برچسب"];
   Message false [Loc None "+36"; Loc None "+12"; Loc None "+58"; Loc None "+37"; Loc None "+66"]
     "Credit" true
     ["اعتباری"];
   Message true [Loc None "-171"]
     "matures in %n more block(s)" true
     ["matures در% n بیشتر بلوک (ها)"; "matures در% n بیشتر بلوک (ها)"]].

Definition fa_TransactionDesc_2 : list message :=
  [Message false [Loc None "+2"]
     "not accepted" true
     ["پذیرفته نشده"];
   Message false [Loc None "+64"; Loc None "+26"; Loc None "+71"]
     "Debit" true
     ["بدهی"];
   Message false [Loc None "-87"]
     "Total debit" true
     ["کل بدهی"];
   Message false [Loc None "+1"]
     "Total credit" true
     ["مجموع اعتبارات"];
   Message false [Loc None "+5"]
     "Transaction fee" true
     ["هزینه معامله"];
   Message false [Loc None "+27"]
     "Net amount" true
     ["مبلغ خالص"];
   Message false [Loc None "+6"; Loc None "+12"]
     "Message" true
     ["پیام"];
   Message false [Loc None "-10"]
     "Comment" true
     ["نظر"];
   Message false [Loc None "+4"]
     "Transaction virtual size" true
     ["اندازه مجازی معامله"];
   Message false [Loc None "+1"]
     "Output index" true
     ["شاخص خروجی"];
   Message false [Loc None "+10"]
     "Narration" true
     ["نقل"];
   Message false [Loc None "+13"]
     "Merchant" true
     ["تاجر"];
   Message false [Loc None "+7"]
     "Generated coins must mature %1 blocks before they can be spent. When you generated this block, it was broadcast to the network to be added to the block chain. If it fails to get into the chain, its state will change to &quot;not accepted&quot; and it won&apos;t be spendable. This may occasionally happen if another node generates a block within a few seconds of yours." true
     ["سکه های تولید شده باید بالغ% 1 بلوک قبل از آنها را می توان صرف. هنگامی که شما تولید این بلوک ، آن را به شبکه پخش می شود به زنجیره بلاک اضافه شده است. اگر نتواند به زنجیره ای وارد شود ، دولت آن را به &quot;پذیرفته نشده&quot; تغییر خواهد کرد و آن را نمی خواهد spendable. این ممکن است گاهی اوقات اتفاق می افتد اگر گره دیگری تولید یک بلوک در عرض چند ثانیه از شما."];
   Message false [Loc None "+8"]
     "Debug information" true
     ["اطلاعات اشکال زدایی"];
   Message false [Loc None "+13"]
     "Transaction" true
     ["معامله"];
   Message false [Loc None "+3"]
     "Inputs" true
     ["ورودی"];
   Message false [Loc None "+21"]
     "Amount" true
     ["مقدار"];
   Message false [Loc None "+1"; Loc None "+1"]
     "true" true
     ["واقعی"];
   Message false [Loc None "-1"; Loc None "+1"]
     "false" true
     ["نادرست"]].

Definition fa_TransactionDescDialog : list message :=
  [Message false [Loc (Some "../forms/transactiondescdialog.ui") "+26"]
     "This pane shows a detailed description of the transaction" true
     ["این صفحه شرح مفصلی از معامله را نشان می دهد"];
   Message false [Loc (Some "../transactiondescdialog.cpp") "+17"]
     "Details for %1" true
     ["جزئیات برای% 1"]].

Definition fa_TransactionTableModel_1 : list message :=
  [Message false [Loc (Some "../transactiontablemodel.cpp") "+257"]
     "Date" true
     ["تاریخ"];
   Message false [Loc None "+2"]
     "Type" true
     ["نوع"];
   Message false [Loc None "+2"]
     "Label" true
     ["برچسب"];
   Message false [Loc None "+3"]
     "In" true
     ["در"];
   Message false [Loc None "+0"]
     "Out" true
     ["رتبهٔ از"];
   Message true [Loc None "+73"]
     "Open for %n more block(s)" true
     ["باز کردن برای% n بیشتر بلاک ها"; "باز کردن برای% n بیشتر بلاک ها"];
   Message false [Loc None "+3"]
     "Open until %1" true
     ["باز کردن تا% 1"];
   Message false [Loc None "+3"]
     "Unconfirmed" true
     ["تأیید نشده"];
   Message false [Loc None "+4"]
     "Orphaned" true
     ["یتیم"];
   Message false [Loc None "+2"]
     "Abandoned" true
     ["رها"];
   Message false [Loc None "+22"]
     "Confirming (%1 of %2 recommended confirmations)" true
     ["تایید (% 1 از% 2 تاییدیه های توصیه شده)"];
   Message false [Loc None "+3"]
     "Confirmed (%1 confirmations)" true
     ["تایید شد (% 1 تأیید)"];
   Message false [Loc None "+3"]
     "Conflicted" true
     ["تضاد"];
   Message false [Loc None "+3"]
     "Immature (%1 confirmations, will be available after %2)" true
     ["نابالغ (% 1 تاییدیه ها ، پس از% 2 در دسترس خواهد بود)"];
   Message false [Loc None "+3"]
     "Generated but not accepted" true
     ["تولید شده اما پذیرفته نشده"];
   Message false [Loc None "+39"]
     "Received with" true
     ["دریافت شده با"];
   Message false [Loc None "+2"]
     "Received from" true
     ["دریافت شده از"];
   Message false [Loc None "+3"]
     "Sent to" true
     ["فرستاده شده به"];
   Message false [Loc None "+2"]
     "Payment to yourself" true
     ["پرداخت به خودتان"];
   Message false [Loc None "+2"]
     "Airdrop" true
     ["Airdrop"];
   Message false [Loc None "+2"]
     "Staked" true
     ["Staked"];
   Message false [Loc None "+30"]
     "watch-only" true
     ["دیده بان فقط"];
   Message false [Loc None "+16"]
     "(n/a)" true
     ["(n/a)"];
   Message false [Loc None "+168"]
     "Unlock to show" true
     ["باز کردن برای نشان دادن"];
   Message false [Loc None "+111"]
     "(no label)" true
     ["(بدون برچسب)"];
   Message false [Loc None "+42"; Loc None "+14"]
     "Transaction status. Hover over this field to show number of confirmations." true
     ["وضعیت معامله. برای نشان دادن تعداد تاییدیه ها ، روی این فیلد حرکت کنید."];
   Message false [Loc None "-12"]
     "Date and time that the reward was received." true
     ["تاریخ و زمان دریافت پاداش."];
   Message false [Loc None "+2"; Loc None "+16"]
     "Whether or not a watch-only address is involved in this transaction." true
     ["این که آیا یک نشانی فقط یک ساعت مچی در این معامله دخیل است یا خیر."];
   Message false [Loc None "-14"]
     "Address used for the block solving" true
     ["آدرس مورد استفاده برای حل بلوک"]].

Definition fa_TransactionTableModel_2 : list message :=
  [Message false [Loc None "+2"]
     "Staking reward." true
     ["پاداش ردی."];
   Message false [Loc None "+8"]
     "Date and time that the transaction was received." true
     ["تاریخ و زمانی که معامله دریافت شد."];
   Message false [Loc None "+2"]
     "Type of transaction." true
     ["نوع معامله."];
   Message false [Loc None "+4"]
     "User-defined intent/purpose of the transaction." true
     ["قصد تعریف شده توسط کاربر/هدف معامله."];
   Message false [Loc None "+2"]
     "Type of input coin." true
     ["نوع سکه ورودی."];
   Message false [Loc None "+2"]
     "Type of output coin." true
     ["نوع سکه خروجی."];
   Message false [Loc None "+2"]
     "Amount removed from or added to balance." true
     ["مقدار حذف شده از یا اضافه به تعادل."]].

Definition fa_TransactionView_1 : list message :=
  [Message false [Loc (Some "../transactionview.cpp") "+53"; Loc None "+11"; Loc None "+18"]
     "All" true
     ["همه"];
   Message false [Loc None "-17"]
     "Today" true
     ["امروز"];
   Message false [Loc None "+1"]
     "This week" true
     ["این هفته"];
   Message false [Loc None "+1"]
     "This month" true
     ["این ماه"];
   Message false [Loc None "+1"]
     "Last month" true
     ["ماه گذشته"];
   Message false [Loc None "+1"]
     "This year" true
     ["امسال"];
   Message false [Loc None "+1"]
     "Range..." true
     ["محدوده..."];
   Message false [Loc None "+13"]
     "Received with" true
     ["دریافت شده با"];
   Message false [Loc None "+2"]
     "Sent to" true
     ["فرستاده شده به"];
   Message false [Loc None "+2"]
     "To yourself" true
     ["به خودتان"];
   Message false [Loc None "+1"]
     "Other" true
     ["دیگر"];
   Message false [Loc None "+1"]
     "Airdrop" true
     ["Airdrop"];
   Message false [Loc None "+5"]
     "Enter address, transaction id, or label to search" true
     ["آدرس ، شناسه معامله یا برچسب را برای جستجو وارد کنید"];
   Message false [Loc None "+5"]
     "Min amount" true
     ["مقدار حداقل"];
   Message false [Loc None "+52"]
     "Abandon transaction" true
     ["رها کردن معامله"];
   Message false [Loc None "+1"]
     "Increase transaction fee" true
     ["افزایش هزینه معامله"];
   Message false [Loc None "+2"]
     "Copy address" true
     ["کپی آدرس"];
   Message false [Loc None "+1"]
     "Copy label" true
     ["کپی برچسب"];
   Message false [Loc None "+1"]
     "Copy amount" true
     ["مقدار کپی"];
   Message false [Loc None "+1"]
     "Copy transaction ID" true
     ["کپی معامله ID"];
   Message false [Loc None "+1"]
     "Copy raw transaction" true
     ["کپی تراکنش خام"];
   Message false [Loc None "+1"]
     "Copy full transaction details" true
     ["کپی جزئیات معامله کامل"];
   Message false [Loc None "+1"]
     "Edit label" true
     ["ویرایش برچسب"];
   Message false [Loc None "+1"]
     "Show transaction details" true
     ["نمایش جزئیات تراکنش"];
   Message false [Loc None "+239"]
     "Export Transaction History" true
     ["صادرات تاریخچه معامله"];
   Message false [Loc None "+1"]
     "Comma separated file (*.csv)" true
     ["پرونده جدا شده با ویرگول (*. csv)"];
   Message false [Loc None "+9"]
     "Confirmed" true
     ["تایید"];
   Message false [Loc None "+2"]
     "Watch-only" true
     ["دیده بان فقط"];
   Message false [Loc None "+1"]
     "Date" true
     ["تاریخ"]].

Definition fa_TransactionView_2 : list message :=
  [Message false [Loc None "+2"]
     "Type" true
     ["نوع"];
   Message false [Loc None "+2"]
     "Label" true
     ["برچسب"];
   Message false [Loc None "+1"]
     "Address" true
     ["آدرس"];
   Message false [Loc None "+2"]
     "ID" true
     ["شناسه"];
   Message false [Loc None "+3"]
     "Exporting Failed" true
     ["صادر کردن ناموفق"];
   Message false [Loc None "+0"]
     "There was an error trying to save the transaction history to %1." true
     ["خطایی در تلاش برای ذخیره تاریخچه تراکنش در% 1 وجود داشت."];
   Message false [Loc None "+4"]
     "Exporting Successful" true
     ["صادرات موفق"];
   Message false [Loc None "+0"]
     "The transaction history was successfully saved to %1." true
     ["سابقه معامله با موفقیت در% 1 ذخیره شد."];
   Message false [Loc None "+169"]
     "Range:" true
     ["محدوده:"];
   Message false [Loc None "+8"]
     "to" true
     ["به"]].

Definition fa_TxViewDelegate : list message :=
  [Message false [Loc (Some "../overviewpage.cpp") "+95"]
     "Unlock to show" true
     ["باز کردن برای نشان دادن"]].

Definition fa_UnitDisplayStatusBarControl : list message :=
  [Message false [Loc (Some "../bitcoingui.cpp") "+122"]
     "Unit to show amounts in. Click to select another unit." true
     ["واحد برای نشان دادن مقدار در. برای انتخاب یک واحد دیگر کلیک کنید."]].

Definition fa_WalletFrame : list message :=
  [Message false [Loc (Some "../walletframe.cpp") "+29"]
     "No wallet has been loaded." true
     ["هیچ کیف پول بارگیری نشده است."]].

Definition fa_WalletModel : list message :=
  [Message false [Loc (Some "../walletmodel.cpp") "+592"; Loc None "+4"; Loc None "+11"]
     "Wallet Model" true
     ["مدل کیف پول"];
   Message false [Loc None "+65"; Loc None "+39"; Loc None "+6"]
     "Fee bump error" true
     ["خطای دست انداز هزینه"];
   Message false [Loc None "-45"]
     "Increasing transaction fee failed" true
     ["افزایش هزینه معامله انجام نشد"];
   Message false [Loc None "+6"]
     "Do you want to increase the fee?" true
     ["آیا می خواهید هزینه را افزایش دهید ؟"];
   Message false [Loc None "+4"]
     "Current fee:" true
     ["هزینه فعلی:"];
   Message false [Loc None "+4"]
     "Increase:" true
     ["افزایش:"];
   Message false [Loc None "+4"]
     "New fee:" true
     ["هزینه جدید:"];
   Message false [Loc None "+4"]
     "Confirm fee bump" true
     ["تأیید هزینه دست انداز"];
   Message false [Loc None "+17"]
     "Can&apos;t sign transaction." true
     ["تراکنش را نمی توان امضا کرد."];
   Message false [Loc None "+6"]
     "Could not commit transaction" true
     ["نمی تواند معامله را مرتکب"]].

Definition fa_WalletView : list message :=
  [Message false [Loc (Some "../walletview.cpp") "+46"; Loc None "+1"]
     "&amp;Export" true
     ["صادرات &amp;"];
   Message false [Loc None "+9"; Loc None "+29"]
     "Export the data in the current tab to a file" true
     ["داده ها را در برگه فعلی به یک فایل صادر کنید"];
   Message false [Loc None "-19"]
     "Selected amount" true
     ["مقدار انتخاب شده"];
   Message false [Loc None "+290"]
     "Backup Wallet" true
     ["کیف پول پشتیبان"];
   Message false [Loc None "+1"]
     "Wallet Data (*.dat)" true
     ["داده های کیف پول (*. dat)"];
   Message false [Loc None "+6"]
     "Backup Failed" true
     ["پشتیبان گیری انجام نشد"];
   Message false [Loc None "+0"]
     "There was an error trying to save the wallet data to %1." true
     ["خطایی در تلاش برای ذخیره داده های کیف پول در% 1 وجود داشت."];
   Message false [Loc None "+4"]
     "Backup Successful" true
     ["پشتیبان گیری موفقیت آمیز"];
   Message false [Loc None "+0"]
     "The wallet data was successfully saved to %1." true
     ["داده کیف پول با موفقیت در% 1 ذخیره شد."];
   Message false [Loc None "+63"]
     "Cancel" true
     ["لغو"]].

Definition fa_bitcoin_core_1 : list message :=
  [Message false [Loc (Some "../bitcoinstrings.cpp") "+12"]
     "Bitcoin Confidential Core" true
     ["هسته محرمانه بیت کوین"];
   Message false [Loc None "+1"]
     "The %s developers" true
     ["توسعه دهندگان% s"];
   Message false [Loc None "+1"]
     " is spendable from this wallet." true
     ["از این کیف پول spendable است."];
   Message false [Loc None "+1"]
     "-maxtxfee is set very high! Fees this large could be paid on a single transaction." true
     ["--maxtxfee تنظیم شده است بسیار بالا! هزینه های این بزرگ می تواند بر روی یک معامله پرداخت شود."];
   Message false [Loc None "+3"]
     "Can&apos;t generate a change-address key. Private keys are disabled for this wallet." true
     ["نمی توان یک کلید تغییر آدرس ایجاد کرد. کلیدهای خصوصی برای این کیف پول غیرفعال شده اند."];
   Message false [Loc None "+3"]
     "Cannot obtain a lock on data directory %s. %s is probably already running." true
     ["نمی توان قفل را در فهرست داده% s.% s به دست آورد احتمالا در حال حاضر در حال اجرا است."];
   Message false [Loc None "+2"]
     "Cannot provide specific connections and have addrman find outgoing connections at the same." true
     ["قادر به ارائه اتصالات خاص نیست و addrman اتصالات خروجی را در همان پیدا کنید."];
   Message false [Loc None "+3"]
     "Cannot upgrade a non HD split wallet without upgrading to support pre split keypool. Please use -upgradewallet=169900 or -upgradewallet with no version specified." true
     ["بدون ارتقاء برای پشتیبانی از پیش تقسیم keypool ، نمی توان یک کیف پول HD تقسیم کرد. لطفا از-upgradewallet = 169900 یا-upgradewallet بدون نسخه مشخص شده استفاده کنید."];
   Message false [Loc None "+4"]
     "Distributed under the MIT software license, see the accompanying file %s or %s" true
     ["تحت مجوز نرم افزار MIT توزیع شده ، به پرونده همراه% s یا% s مراجعه کنید"];
   Message false [Loc None "+3"]
     "Error loading %s: You can&apos;t enable HD on an already existing non-HD wallet" true
     ["خطای بارگیری% s: شما نمی توانید HD را در کیف پول غیر HD موجود فعال کنید"];
   Message false [Loc None "+2"]
     "Error reading %s! All keys read correctly, but transaction data or address book entries might be missing or incorrect." true
     ["خطای خواندن% s! همه کلیدها به درستی خوانده می شوند ، اما داده های تراکنش یا ورودی های کتاب آدرس ممکن است از بین رفته یا نادرست باشند."];
   Message false [Loc None "+3"]
     "Error: Listening for incoming connections failed (listen returned error %s)" true
     ["خطا: گوش دادن برای اتصالات ورودی انجام نشد (گوش دادن به خطای بازگشت% s)"];
   Message false [Loc None "+2"]
     "Fee estimation failed. Fallbackfee is disabled. Wait a few blocks or enable -fallbackfee." true
     ["برآورد هزینه انجام نشد. Fallbackfee غیر فعال است. چند بلوک را صبر کنید یا فعال--fallbackfee."];
   Message false [Loc None "+3"]
     "Generate a random master key and main account if no master key exists. (default: %s)" true
     ["اگر هیچ کلید اصلی وجود نداشته باشد ، یک کلید اصلی و حساب اصلی ایجاد کنید. (به طور پیش فرض:% s)"];
   Message false [Loc None "+3"]
     "Group outputs by address, selecting all or none, instead of selecting on a per-output basis. Privacy is improved as an address is only used once (unless someone sends to it after spending from it), but may result in slightly higher fees as suboptimal coin selection may result due to the added limitation (default: %u)" true
     ["خروجی های گروه توسط آدرس ، انتخاب همه یا هیچ ، به جای انتخاب بر اساس هر خروجی. حفظ حریم خصوصی به عنوان یک آدرس تنها یک بار استفاده می شود (مگر اینکه کسی پس از صرف نظر از آن ارسال کند) ، اما ممکن است منجر به هزینه های کمی بالاتر شود ، زیرا انتخاب سکه مطلوب ممکن است منجر به محدودیت افزوده (به طور پیش فرض:% u)"];
   Message false [Loc None "+6"]
     "Invalid amount for -maxtxfee=&lt;amount&gt;: &apos;%s&apos; (must be at least the minrelay fee of %s to prevent stuck transactions)" true
     ["مقدار نامعتبر برای-maxtxfee =&lt;amount&gt;: &apos;% s &apos; (باید حداقل هزینه minrelay% s برای جلوگیری از تراکنش های گیر)&lt;/amount&gt;"];
   Message false [Loc None "+3"]
     "Milliseconds between stake attempts. Lowering this param will not result in more stakes. (default: 500)" true
     ["میلی ثانیه بین تلاش های مخاطره. کاهش این param خواهد شد در مخاطره بیشتر منجر شود. (به طور پیش فرض: ۵۰۰)"];
   Message false [Loc None "+3"]
     "Not enough spending outputs available in the blockchain for privacy mixing. There are currently %d. For this transaction required: %d" true
     ["به اندازه کافی هزینه های خروجی موجود در بلاکچین برای حفظ حریم خصوصی اختلاط. در حال حاضر% d وجود دارد. برای این معامله مورد نیاز:% d"];
   Message false [Loc None "+3"]
     "Number of threads to start for staking, max 1 per active wallet, will divide wallets evenly between threads (default: 1)" true
     ["تعداد موضوعات برای شروع برای ردی ، حداکثر 1 در هر کیف پول فعال ، کیف پول را به طور مساوی بین موضوعات تقسیم می کند (پیش فرض: 1)"];
   Message false [Loc None "+3"]
     "On saving a key from the lookahead pool, save all unsaved keys leading up to it too. (default: %s)" true
     ["در صرفه جویی در یک کلید از استخر lookahead, ذخیره تمام کلید های ذخیره نشده که منجر به آن بیش از حد. (به طور پیش فرض:% s)"];
   Message false [Loc None "+3"]
     "Please check that your computer&apos;s date and time are correct! If your clock is wrong, %s will not work properly." true
     ["لطفا بررسی کنید که تاریخ و زمان رایانه شما صحیح است! اگر ساعت شما اشتباه است ،% s درست کار نمی کند."];
   Message false [Loc None "+3"]
     "Please contribute if you find %s useful. Visit %s for further information about the software." true
     ["لطفا اگر% s مفید باشد ، کمک کنید. برای اطلاعات بیشتر درباره نرم افزار به% s مراجعه کنید."];
   Message false [Loc None "+3"]
     "Prune configured below the minimum of %d MiB.  Please use a higher number." true
     ["هرس زیر حداقل% d مگابایت پیکربندی شده است.  لطفاً از تعداد بالاتر استفاده کنید."];
   Message false [Loc None "+2"]
     "Prune: last wallet synchronisation goes beyond pruned data. You need to -reindex (download the whole blockchain again in case of pruned node)" true
     ["هرس: آخرین هماهنگ سازی کیف پول فراتر از داده های هرس می شود. شما نیاز دارید-reindex (کل بلاکچین را دوباره در صورت گره هرس دانلود کنید)"];
   Message false [Loc None "+3"]
     "Rescans are not possible in pruned mode. You will need to use -reindex which will download the whole blockchain again." true
     ["Rescans در حالت هرس امکان پذیر نیست. شما باید از آن استفاده کنید-reindex که کل بلاکچین را دوباره دانلود خواهد کرد."];
   Message false [Loc None "+3"]
     "The block database contains a block which appears to be from the future. This may be due to your computer&apos;s date and time being set incorrectly. Only rebuild the block database if you are sure that your computer&apos;s date and time are correct" true
     ["پایگاه داده بلوک شامل یک بلوک است که به نظر می رسد از آینده است. این ممکن است به دلیل تاریخ و زمان رایانه شما به اشتباه تنظیم شود. اگر مطمئن هستید که تاریخ و زمان رایانه شما درست است ، فقط پایگاه داده بلاک را بازسازی کنید"];
   Message false [Loc None "+5"]
     "The transaction amount is too small to send after the fee has been deducted" true
     ["مبلغ معامله خیلی کوچک است تا پس از کسر هزینه ، ارسال شود"];
   Message false [Loc None "+2"]
     "This is a pre-release test build - use at your own risk - do not use for mining or merchant applications" true
     ["این یک پیش انتشار تست ساخت استفاده در معرض خطر خود را--برای استفاده از معدن و یا برنامه های کاربردی تاجر"];
   Message false [Loc None "+3"]
     "This is the transaction fee you may discard if change is smaller than dust at this level" true
     ["این هزینه معامله است که ممکن است در صورت تغییر کمتر از گرد و غبار در این سطح باشد"]].

Definition fa_bitcoin_core_2 : list message :=
  [Message false [Loc None "+3"]
     "This is the transaction fee you may pay when fee estimates are not available." true
     ["این هزینه معامله شما ممکن است پرداخت زمانی که برآورد هزینه در دسترس نیست."];
   Message false [Loc None "+2"]
     "This product includes software developed by the OpenSSL Project for use in the OpenSSL Toolkit %s and cryptographic software written by Eric Young and UPnP software written by Thomas Bernard." true
     ["این محصول شامل نرم افزاری است که توسط پروژه OpenSSL برای استفاده در ابزار OpenSSL% s و نرم افزار رمزنگاری شده توسط Eric Young و نرم افزاری که توسط توماس برنارد نوشته است ، توسعه یافته است."];
   Message false [Loc None "+4"]
     "Total length of network version string (%i) exceeds maximum length (%i). Reduce the number or size of uacomments." true
     ["طول کل رشته نسخه شبکه (% i) از حداکثر طول (% i) فراتر رفته است. کاهش تعداد یا اندازه uacomments."];
   Message false [Loc None "+3"]
     "Unable to replay blocks. You will need to rebuild the database using -reindex-chainstate." true
     ["قادر به پخش بلوک نیست. شما نیاز به بازسازی پایگاه داده با استفاده از-reindex-chainstate."];
   Message false [Loc None "+3"]
     "Unable to rewind the database to a pre-fork state. You will need to redownload the blockchain" true
     ["قادر به برگرداندن پایگاه اطلاعات به حالت پیش چنگال نیست. شما باید بلاکچین را دوباره دانلود کنید"];
   Message false [Loc None "+3"]
     "Unsupported argument -socks found. Setting SOCKS version isn&apos;t possible anymore, only SOCKS5 proxies are supported." true
     ["بحث پشتیبانی نشده-جوراب در بر داشت. تنظیم جوراب نسخه دیگر امکان پذیر نیست ، تنها پروکسی های SOCKS5 پشتیبانی می شوند."];
   Message false [Loc None "+3"]
     "Unsupported argument -whitelistalwaysrelay ignored, use -whitelistrelay and/or -whitelistforcerelay." true
     ["نشانوند پشتیبانی نشده-whitelistalwaysra نادیده گرفته شده است, استفاده از-whitelistrs و/یا-whitelistforceror."];
   Message false [Loc None "+3"]
     "Warning: Private keys detected in wallet {%s} with disabled private keys" true
     ["اخطار: کلیدهای خصوصی شناسایی شده در کیف پول {% s} با کلیدهای خصوصی غیرفعال شده"];
   Message false [Loc None "+2"]
     "Warning: The network does not appear to fully agree! Some miners appear to be experiencing issues." true
     ["اخطار: شبکه به نظر نمی رسد به طور کامل به توافق برسند! برخی از معدنچیان به نظر می رسد مسائل را تجربه کنند."];
   Message false [Loc None "+3"]
     "Warning: Unknown block versions being mined! It&apos;s possible unknown rules are in effect" true
     ["اخطار: نسخه های ناشناخته بلوک در حال استخراج! ممکن است قوانین ناشناخته در اثر باشد"];
   Message false [Loc None "+3"]
     "Warning: Wallet file corrupt, data salvaged! Original %s saved as %s in %s; if your balance or transactions are incorrect you should restore from a backup." true
     ["اخطار: پرونده کیف پول فاسد ، salvaged داده ها! % S اصلی ذخیره شده به عنوان% s در% s; اگر موجودی یا تراکنش هایتان نادرست است ، باید از نسخه پشتیبان بازیابی کنید."];
   Message false [Loc None "+4"]
     "Warning: We do not appear to fully agree with our peers! You may need to upgrade, or other nodes may need to upgrade." true
     ["اخطار: ما به نظر نمی رسد به طور کامل با همسالان ما موافقم! شما ممکن است نیاز به ارتقاء داشته باشید ، یا گره های دیگر ممکن است نیاز به ارتقاء داشته باشند."];
   Message false [Loc None "+3"]
     "You need to rebuild the database using -reindex to change -timestampindex" true
     ["شما نیاز به بازسازی پایگاه داده با استفاده از-شاخص برای تغییر-timestampindex"];
   Message false [Loc None "+2"]
     "You need to rebuild the database using -reindex to go back to unpruned mode.  This will redownload the entire blockchain" true
     ["شما نیاز به بازسازی پایگاه داده با استفاده از-reindex به بازگشت به حالت بدون هرس.  این کار کل بلاکچین را دوباره دانلود خواهد کرد"];
   Message false [Loc None "+3"]
     "%d of last 100 blocks have unexpected version" true
     ["% d از آخرین ۱۰۰ بلوک نسخه غیر منتظره دارند"];
   Message false [Loc None "+1"]
     "%s corrupt, salvage failed" true
     ["% s خراب شد ، نجات نیافتند"];
   Message false [Loc None "+1"]
     "%s is set very high!" true
     ["% s تنظیم بسیار زیاد است!"];
   Message false [Loc None "+1"]
     "-maxmempool must be at least %d MB" true
     ["-maxmempool باید حداقل% d مگابایت باشد"];
   Message false [Loc None "+1"]
     "Account chain not found" true
     ["زنجیره حساب یافت نشد"];
   Message false [Loc None "+1"]
     "Address &apos;%s&apos; is not in the address book." true
     ["نشانی &quot;% s&quot; در کتابچه نشانی نمی باشد."];
   Message false [Loc None "+1"]
     "Address &apos;%s&apos; is recorded in the address book." true
     ["نشانی &quot;% s&quot; در کتابچه نشانی ثبت شده است."];
   Message false [Loc None "+1"]
     "Anon output not found in db, %d" true
     ["خروجی چند لحظه در دسی بل یافت نشد ،% d"];
   Message false [Loc None "+1"]
     "Anon pubkey not found in db, %s" true
     ["Anon pubkey در دسی بل ،% s یافت نشد"];
   Message false [Loc None "+1"]
     "Cannot downgrade wallet" true
     ["کیف پول را نمی توان جمع و جور"];
   Message false [Loc None "+1"]
     "Cannot resolve -%s address: &apos;%s&apos;" true
     ["نمی توان رفع کرد-% s آدرس: &apos;% s &apos;"];
   Message false [Loc None "+1"]
     "Cannot write to data directory &apos;%s&apos;; check permissions." true
     ["نمی توان به فهرست داده ها &quot;% s&quot; نوشت. بررسی مجوزها."];
   Message false [Loc None "+1"]
     "Change index out of range" true
     ["تغییر فهرست خارج از محدوده"];
   Message false [Loc None "+1"]
     "Confidential chain set but not found" true
     ["مجموعه زنجیره ای محرمانه اما یافت نشد"];
   Message false [Loc None "+1"]
     "Copyright (C)" true
     ["کپی رایت (C)"];
   Message false [Loc None "+1"]
     "Corrupted block database detected" true
     ["پایگاه داده بلوک خراب شناسایی شده است"]].

Definition fa_bitcoin_core_3 : list message :=
  [Message false [Loc None "+1"]
     "Could not convert prefix to number." true
     ["قادر به تبدیل پیشوند به شماره نمی باشد."];
   Message false [Loc None "+1"]
     "Could not decode scan secret as wif, hex or base58." true
     ["نمی تواند راز اسکن را به عنوان wif ، هگز یا base58 رمزگشایی کند."];
   Message false [Loc None "+1"]
     "Could not decode spend secret as hex or base58." true
     ["نمی تواند راز صرف را به عنوان hex یا base58 رمزگشایی کند."];
   Message false [Loc None "+1"]
     "Could not get confidential chain from account." true
     ["نمی تواند زنجیره محرمانه را از حساب دریافت کند."];
   Message false [Loc None "+1"]
     "Could not get scan public key." true
     ["نتوانست کلید عمومی را اسکن کند."];
   Message false [Loc None "+1"]
     "Could not get spend public key." true
     ["نمی توان کلید عمومی را صرف کرد."];
   Message false [Loc None "+1"]
     "Default account not found" true
     ["حساب پیش فرض یافت نشد"];
   Message false [Loc None "+1"]
     "DeriveNextKey failed" true
     ["DeriveNextKey شکست خورد"];
   Message false [Loc None "+1"]
     "Do you want to rebuild the block database now?" true
     ["آیا مایلید که پایگاه اطلاعات بلاک را هم اکنون بازسازی کنید ؟"];
   Message false [Loc None "+1"]
     "Done loading" true
     ["انجام بارگیری"];
   Message false [Loc None "+1"]
     "Duplicate index found, %d" true
     ["شاخص تکراری یافت شد ،% d"];
   Message false [Loc None "+1"]
     "Empty wallet required for import." true
     ["کیف پول خالی مورد نیاز برای واردات."];
   Message false [Loc None "+1"]
     "Ensure available balance remains above reservebalance. (default: 0)" true
     ["اطمینان حاصل کنید که تعادل موجود در بالا ذکر خواهد شد. (به طور پیش فرض: 0)"];
   Message false [Loc None "+1"]
     "EraseSetting failed." true
     ["EraseSetting نشد."];
   Message false [Loc None "+1"]
     "Error creating %s: You can&apos;t create non-HD wallets with this version." true
     ["خطای ایجاد% s: نمی توانید کیف پولهای غیر HD را با این نسخه ایجاد کنید."];
   Message false [Loc None "+1"]
     "Error initializing block database" true
     ["خطا در آماده سازی پایگاه داده بلوک"];
   Message false [Loc None "+1"]
     "Error initializing wallet database environment %s!" true
     ["خطای مقدار دهی اولیه محیط پایگاه داده کیف پول% s!"];
   Message false [Loc None "+1"]
     "Error loading %s" true
     ["خطای بارگیری% s"];
   Message false [Loc None "+1"]
     "Error loading %s: Private keys can only be disabled during creation" true
     ["خطای بارگیری% s: کلیدهای خصوصی فقط در حین ایجاد می توانند غیرفعال شوند"];
   Message false [Loc None "+1"]
     "Error loading %s: Wallet corrupted" true
     ["خطای بارگیری% s: کیف پول خراب شده"];
   Message false [Loc None "+1"]
     "Error loading %s: Wallet requires newer version of %s" true
     ["خطای بارگیری% s: کیف پول نیاز به نسخه جدیدتری از% s دارد"];
   Message false [Loc None "+1"]
     "Error loading %s: You can&apos;t disable HD on an already existing HD wallet" true
     ["خطای بارگیری% s: نمی توانید HD را در کیف پول HD موجود غیرفعال کنید"];
   Message false [Loc None "+1"]
     "Error loading block database" true
     ["خطا در بارگیری پایگاه اطلاعات بلاک"];
   Message false [Loc None "+1"]
     "Error loading wallet %s. Duplicate -wallet filename specified." true
     ["خطا در بارگیری &quot;کیف پول&quot;% s. نام پرونده کپی شده."];
   Message false [Loc None "+1"]
     "Error opening block database" true
     ["خطا در باز کردن پایگاه اطلاعات بلوک"];
   Message false [Loc None "+1"]
     "Error reading from database, shutting down." true
     ["خطای خواندن از پایگاه اطلاعات ، خاموش کردن."];
   Message false [Loc None "+1"]
     "Error upgrading chainstate database" true
     ["خطا در ارتقاء پایگاه داده chainstate"];
   Message false [Loc None "+1"]
     "Error" true
     ["خطا"];
   Message false [Loc None "+1"]
     "Error: A fatal internal error occurred, see debug.log for details" true
     ["خطا: خطای داخلی مهلک رخ داده است ، به اشکالزدایی مراجعه کنید. ورود به سیستم برای جزئیات بیشتر"];
   Message false [Loc None "+1"]
     "Error: Disk space is low!" true
     ["خطا: فضای دیسک کم است!"]].

Definition fa_bitcoin_core_4 : list message :=
  [Message false [Loc None "+1"]
     "ExtKeyGetIndex failed." true
     ["ExtKeyGetIndex موفق شد."];
   Message false [Loc None "+1"]
     "ExtKeySaveAccountToDB failed" true
     ["Exta شکست خورده"];
   Message false [Loc None "+1"]
     "Failed to listen on any port. Use -listen=0 if you want this." true
     ["در هر درگاه گوش نکرد. استفاده--گوش دادن = 0 اگر شما می خواهید این."];
   Message false [Loc None "+1"]
     "Failed to open dongle" true
     ["دانگل باز نشد"];
   Message false [Loc None "+1"]
     "Failed to rescan the wallet during initialization" true
     ["در طول دهی اولیه کیف پول را دوباره اسکن نکرد"];
   Message false [Loc None "+1"]
     "Hit nMaxTries limit, %d, %d" true
     ["محدودیت آمار nMaxTries ،% d ،% d"];
   Message false [Loc None "+1"]
     "Import failed - AddKeyPubKey failed." true
     ["وارد کردن ناموفق-AddKeyPubKey ناموفق بود."];
   Message false [Loc None "+1"]
     "Import failed - stealth address exists." true
     ["وارد کردن نشانی ناموفق-مخفیکاری وجود دارد."];
   Message false [Loc None "+1"]
     "Importing..." true
     ["واردات..."];
   Message false [Loc None "+1"]
     "Incorrect or no genesis block found. Wrong datadir for network?" true
     ["بلوک پیدایش نادرست و یا هیچ موجود نیست. Datadir اشتباه برای شبکه ؟"];
   Message false [Loc None "+1"]
     "Information" true
     ["اطلاعات"];
   Message false [Loc None "+1"]
     "Initialization sanity check failed. %s is shutting down." true
     ["راه اندازی سلامت عقل بررسی شکست خورده است. % s در حال خاموش شدن است."];
   Message false [Loc None "+1"]
     "Insufficient funds" true
     ["بودجه ناکافی"];
   Message false [Loc None "+1"]
     "Insufficient funds." true
     ["بودجه ناکافی."];
   Message false [Loc None "+1"]
     "Invalid -onion address or hostname: &apos;%s&apos;" true
     ["نشانی یا نام میزبان نامعتبر-پیاز: &apos;% s &apos;"];
   Message false [Loc None "+1"]
     "Invalid -proxy address or hostname: &apos;%s&apos;" true
     ["نشانی پراکسی نامعتبر یا نام میزبان: &apos;% s &apos;"];
   Message false [Loc None "+1"]
     "Invalid BitcoinC address." true
     ["آدرس BitcoinC نامعتبر است."];
   Message false [Loc None "+1"]
     "Invalid amount for -%s=&lt;amount&gt;: &apos;%s&apos;" true
     ["مقدار نامعتبر برای-% s =&lt;amount&gt;: &apos;% s &apos;&lt;/amount&gt;"];
   Message false [Loc None "+1"]
     "Invalid amount for -discardfee=&lt;amount&gt;: &apos;%s&apos;" true
     ["مقدار نامعتبر برای-discardfee =&lt;amount&gt;: &apos;% s &apos;&lt;/amount&gt;"];
   Message false [Loc None "+1"]
     "Invalid amount for -fallbackfee=&lt;amount&gt;: &apos;%s&apos;" true
     ["مقدار نامعتبر برای-fallbackfee =&lt;amount&gt;: &apos;% s &apos;&lt;/amount&gt;"];
   Message false [Loc None "+1"]
     "Invalid amount for -paytxfee=&lt;amount&gt;: &apos;%s&apos; (must be at least %s)" true
     ["مقدار نامعتبر برای-paytxfee =&lt;amount&gt;: &apos;% s &apos; (باید حداقل% s باشد)&lt;/amount&gt;"];
   Message false [Loc None "+1"]
     "Invalid amount for -reservebalance=&lt;amount&gt;" true
     ["مقدار نامعتبر برای--reservebalance =&lt;amount&gt;&lt;/amount&gt;"];
   Message false [Loc None "+1"]
     "Invalid coldstakingaddress." true
     ["Coldstakingaddress غیرمعتبر."];
   Message false [Loc None "+1"]
     "Invalid input key." true
     ["کلید ورودی غیرمعتبر."];
   Message false [Loc None "+1"]
     "Invalid key." true
     ["کلید نامعتبر است."];
   Message false [Loc None "+1"]
     "Invalid netmask specified in -whitelist: &apos;%s&apos;" true
     ["ماسک شبکه نامعتبر در-لیست سفید مشخص شده: &apos;% s &apos;"];
   Message false [Loc None "+1"]
     "Invalid rewardaddress." true
     ["Rewardaddress غیرمعتبر."];
   Message false [Loc None "+1"]
     "Keypool ran out, please call keypoolrefill first" true
     ["Keypool بیرون زد ، لطفا تماس بگیرید keyپولادی دوباره پر کردن اول"];
   Message false [Loc None "+1"]
     "Loading P2P addresses..." true
     ["در حال بارگذاری آدرس های P2P..."]].

Definition fa_bitcoin_core_5 : list message :=
  [Message false [Loc None "+1"]
     "Loading address book for %s.
" true
     ["بارگیری کتابچه نشانی برای% s."];
   Message false [Loc None "+1"]
     "Loading banlist..." true
     ["در حال بارگذاری لیست banlist..."];
   Message false [Loc None "+1"]
     "Loading block index..." true
     ["در حال بارگذاری شاخص بلوک..."];
   Message false [Loc None "+1"]
     "Loading transaction records for %s.
" true
     ["در حال بارگیری رکوردهای تراکنش برای% s."];
   Message false [Loc None "+1"]
     "Loading wallet..." true
     ["در حال بارگیری کیف پول..."];
   Message false [Loc None "+1"]
     "Minimum time in seconds between successful stakes (default: 0)" true
     ["حداقل زمان در چند ثانیه بین مخاطرات موفق (به طور پیش فرض: 0)"];
   Message false [Loc None "+1"]
     "Must be json object." true
     ["باید شی json باشد."];
   Message false [Loc None "+1"]
     "Must have account to save keys." true
     ["باید حساب برای ذخیره کلیدها داشته باشد."];
   Message false [Loc None "+1"]
     "Must input a stealthaddress." true
     ["باید stealthaddress را وارد کنید."];
   Message false [Loc None "+1"]
     "Need a parameter to change." true
     ["نیاز به یک پارامتر برای تغییر."];
   Message false [Loc None "+1"]
     "Need to specify a port with -whitebind: &apos;%s&apos;" true
     ["نیاز به تعیین پورت با-whitebind: &apos;% s &apos;"];
   Message false [Loc None "+1"]
     "New state must be bool." true
     ["حالت جدید باید bool باشد."];
   Message false [Loc None "+1"]
     "NewExtKeyFromAccount failed, %s." true
     ["NewExtKeyFromAccount انجام نشد,% s."];
   Message false [Loc None "+1"]
     "NewExtKeyFromAccount failed." true
     ["NewExtKeyFromAccount شکست خورده است."];
   Message false [Loc None "+1"]
     "NewStealthKeyV2FromAccount failed." true
     ["NewStealthKeyV2FromAccount نشد."];
   Message false [Loc None "+1"]
     "No default account set." true
     ["هیچ مجموعه حساب پیش فرض وجود ندارد."];
   Message false [Loc None "+1"]
     "No key for anonoutput, %s" true
     ["هیچ کلید برای anonoutput,% s"];
   Message false [Loc None "+1"]
     "Not anon output %s %d" true
     ["نه چند لحظه خروجی% s% d"];
   Message false [Loc None "+1"]
     "Not enough file descriptors available." true
     ["توصیف پرونده به اندازه کافی موجود نیست."];
   Message false [Loc None "+1"]
     "Num inputs per signature out of range" true
     ["به ورودی در هر امضای خارج از محدوده"];
   Message false [Loc None "+1"]
     "Number of keys to load into the lookahead pool per chain. (default: %u)" true
     ["تعداد کلید برای بارگذاری به استخر lookahead در هر زنجیره. (پیش فرض:% u)"];
   Message false [Loc None "+1"]
     "Only able to send to stealth address." true
     ["فقط قادر به ارسال به آدرس مخفیکاری."];
   Message false [Loc None "+1"]
     "OpIsCoinstake is not active yet." true
     ["OpIsCoinstake هنوز فعال است."];
   Message false [Loc None "+1"]
     "Output isn&apos;t standard." true
     ["خروجی استاندارد نیست."];
   Message false [Loc None "+1"]
     "PrepareTransaction for device failed: %s" true
     ["PrepareTransaction برای دستگاه انجام نشد:% s"];
   Message false [Loc None "+1"]
     "ProduceSignature from device failed: %s" true
     ["عدم موفقیت درامضای دستگاه:% s"];
   Message false [Loc None "+1"]
     "Prune cannot be configured with a negative value." true
     ["هرس نمی تواند با مقدار منفی پیکربندی شود."];
   Message false [Loc None "+1"]
     "Prune mode is incompatible with -txindex." true
     ["حالت هرس با-txindex ناسازگار است."];
   Message false [Loc None "+1"]
     "Pruning blockstore..." true
     ["فروشگاه هرس بلوو..."]].

Definition fa_bitcoin_core_6 : list message :=
  [Message false [Loc None "+1"]
     "ReadStoredTx failed for %s" true
     ["عدم موفقیت Readstortx برای% s"];
   Message false [Loc None "+1"]
     "Reducing -maxconnections from %d to %d, because of system limitations." true
     ["قابلیت های کاهش-maxconnections% d به% d, به دلیل محدودیت های سیستم."];
   Message false [Loc None "+1"]
     "Replaying blocks..." true
     ["بلوک های پخش مجدد..."];
   Message false [Loc None "+1"]
     "Rescanning..." true
     ["Rescanning..."];
   Message false [Loc None "+1"]
     "Rewinding blocks..." true
     ["روندنج بلوک..."];
   Message false [Loc None "+1"]
     "Ring size out of range [%d, %d]" true
     ["اندازه حلقه خارج از محدوده [% d,% d]"];
   Message false [Loc None "+1"]
     "Ring size out of range" true
     ["اندازه حلقه خارج از محدوده"];
   Message false [Loc None "+1"]
     "Scan secret is not 32 bytes." true
     ["راز اسکن ۳۲ بایت نیست."];
   Message false [Loc None "+1"]
     "SetSetting failed." true
     ["SetSetting انجام نشد."];
   Message false [Loc None "+1"]
     "Signing transaction failed" true
     ["امضای تراکنش ناموفق بود"];
   Message false [Loc None "+1"]
     "Specified -walletdir &quot;%s&quot; does not exist" true
     ["مشخص-walletdir &quot;% s&quot; وجود ندارد"];
   Message false [Loc None "+1"]
     "Specified -walletdir &quot;%s&quot; is a relative path" true
     ["مشخص-walletdir &quot;% s&quot; یک مسیر نسبی است"];
   Message false [Loc None "+1"]
     "Specified -walletdir &quot;%s&quot; is not a directory" true
     ["مشخص-walletdir &quot;% s&quot; یک فهرست نیست"];
   Message false [Loc None "+1"]
     "Specified blocks directory &quot;%s&quot; does not exist." true
     ["فهرست بلاک های مشخص شده &quot;% s&quot; وجود ندارد."];
   Message false [Loc None "+1"]
     "Spend secret is not 32 bytes." true
     ["صرف راز است ۳۲ بایت نیست."];
   Message false [Loc None "+1"]
     "Spend secret must be different to scan secret." true
     ["صرف راز باید متفاوت باشد برای اسکن راز."];
   Message false [Loc None "+1"]
     "Stake your coins to support network and gain reward (default: true)" true
     ["سهام سکه های خود را برای حمایت از شبکه و به دست آوردن پاداش (به طور پیش فرض: درست)"];
   Message false [Loc None "+1"]
     "Starting network threads..." true
     ["شروع موضوعات شبکه..."];
   Message false [Loc None "+1"]
     "StealthSecret failed, try again." true
     ["StealthSecret نشد ، دوباره امتحان کنید."];
   Message false [Loc None "+1"]
     "The source code is available from %s." true
     ["کد منبع از% s در دسترس است."];
   Message false [Loc None "+1"]
     "The transaction amount is too small to pay the fee" true
     ["مبلغ معامله برای پرداخت هزینه خیلی کوچک است"];
   Message false [Loc None "+1"]
     "The wallet will avoid paying less than the minimum relay fee." true
     ["کیف پول از پرداخت کمتر از حداقل هزینه رله جلوگیری می کند."];
   Message false [Loc None "+1"]
     "This is experimental software." true
     ["این نرم افزار تجربی است."];
   Message false [Loc None "+1"]
     "This is the minimum transaction fee you pay on every transaction." true
     ["این حداقل هزینه معامله ای است که شما در هر معامله پرداخت می کنید."];
   Message false [Loc None "+1"]
     "This is the transaction fee you will pay if you send a transaction." true
     ["این هزینه معامله شما پرداخت خواهد شد اگر شما ارسال یک معامله است."];
   Message false [Loc None "+1"]
     "Transaction amount too small" true
     ["مقدار معامله خیلی کوچک است"];
   Message false [Loc None "+1"]
     "Transaction amounts must not be negative" true
     ["مقدار معامله نباید منفی باشد"];
   Message false [Loc None "+1"]
     "Transaction amounts must not be negative." true
     ["مقدار معامله نباید منفی باشد."];
   Message false [Loc None "+1"]
     "Transaction fee and change calculation failed" true
     ["هزینه معامله و محاسبه تغییر انجام نشد"];
   Message false [Loc None "+1"]
     "Transaction fee and change calculation failed." true
     ["هزینه معامله و محاسبه تغییر انجام نشد."]].

Definition fa_bitcoin_core_7 : list message :=
  [Message false [Loc None "+1"]
     "Transaction has too long of a mempool chain" true
     ["معامله بیش از حد طولانی از یک زنجیره mempool"];
   Message false [Loc None "+1"]
     "Transaction must have at least one recipient" true
     ["معامله باید حداقل یک گیرنده داشته باشد"];
   Message false [Loc None "+1"]
     "Transaction must have at least one recipient." true
     ["تراکنش باید حداقل یک گیرنده داشته باشد."];
   Message false [Loc None "+1"]
     "Transaction too large for fee policy" true
     ["معامله برای سیاست هزینه خیلی بزرگ است"];
   Message false [Loc None "+1"]
     "Transaction too large for fee policy." true
     ["معامله برای سیاست هزینه خیلی بزرگ است."];
   Message false [Loc None "+1"]
     "Transaction too large" true
     ["معامله خیلی بزرگ است"];
   Message false [Loc None "+1"]
     "TxnBegin failed." true
     ["TxnBegin نشد."];
   Message false [Loc None "+1"]
     "Unable to bind to %s on this computer (bind returned error %s)" true
     ["اتصال به% s روی این رایانه امکان پذیر نیست (اتصال خطای برگردانده% s)"];
   Message false [Loc None "+1"]
     "Unable to bind to %s on this computer. %s is probably already running." true
     ["قادر به اتصال به% s روی این رایانه نیست. % s احتمالا در حال حاضر در حال اجراست."];
   Message false [Loc None "+1"]
     "Unable to generate initial keys" true
     ["قادر به تولید کلیدهای اولیه نمی باشد"];
   Message false [Loc None "+1"]
     "Unable to generate keys" true
     ["قادر به تولید کلیدها نیست"];
   Message false [Loc None "+1"]
     "Unable to start HTTP server. See debug log for details." true
     ["قادر به آغاز سرویس دهنده HTTP نمی باشد. برای جزئیات بیشتر به گزارش اشکال زدایی مراجعه کنید."];
   Message false [Loc None "+1"]
     "Unknown account." true
     ["حساب ناشناخته."];
   Message false [Loc None "+1"]
     "Unknown action, must be one of &apos;add/edit/del&apos;." true
     ["عمل ناشناخته ، باید یکی از &quot;افزودن/ویرایش/دل&quot; باشد."];
   Message false [Loc None "+1"]
     "Unknown argument for 256bithash: %s." true
     ["آرگومان ناشناخته برای 256bithash:% s."];
   Message false [Loc None "+1"]
     "Unknown argument for add_to_addressbook: %s." true
     ["آرگومان ناشناخته برای add_to_addressbook:% s."];
   Message false [Loc None "+1"]
     "Unknown chain." true
     ["زنجیره ای ناشناخته است."];
   Message false [Loc None "+1"]
     "Unknown input key version." true
     ["نسخه کلید ورودی ناشناخته."];
   Message false [Loc None "+1"]
     "Unknown network specified in -onlynet: &apos;%s&apos;" true
     ["شبکه ناشناخته مشخص شده در-onlynet: &apos;% s &apos;"];
   Message false [Loc None "+1"]
     "Unknown setting" true
     ["تنظیمات ناشناخته"];
   Message false [Loc None "+1"]
     "Unsupported argument -benchmark ignored, use -debug=bench." true
     ["نشانوند پشتیبانی نشده-معیار نادیده گرفته شده ، استفاده-debug = bench."];
   Message false [Loc None "+1"]
     "Unsupported argument -debugnet ignored, use -debug=net." true
     ["آرگومان پشتیبانی نشده-debugnet نادیده گرفته شده است ، استفاده از-debug = net."];
   Message false [Loc None "+1"]
     "Unsupported argument -debugnet ignored, use -debug=smsg." true
     ["آرگومان پشتیبانی نشده-debugnet نادیده گرفته شده ، استفاده-debug = smsg."];
   Message false [Loc None "+1"]
     "Unsupported argument -tor found, use -onion." true
     ["نشانوند پشتیبانی نشده-tor یافت شد ، استفاده از پیاز."];
   Message false [Loc None "+1"]
     "Unsupported logging category %s=%s." true
     ["دسته ورود به سیستم پشتیبانی نشده% s =% s."];
   Message false [Loc None "+1"]
     "Upgrading txindex database" true
     ["ارتقاء پایگاه داده txindex"];
   Message false [Loc None "+1"]
     "User Agent comment (%s) contains unsafe characters." true
     ["توضیح عامل کاربر (% s) شامل نویسه های ناامن است."];
   Message false [Loc None "+1"]
     "Verifying blocks..." true
     ["در حال تایید بلوک..."];
   Message false [Loc None "+1"]
     "Verifying wallet(s)..." true
     ["تایید کیف پول (ها)..."];
   Message false [Loc None "+1"]
     "Wallet %s resides outside wallet directory %s" true
     ["کیف پول% s در خارج از دایرکتوری کیف پول% s"]].

Definition fa_bitcoin_core_8 : list message :=
  [Message false [Loc None "+1"]
     "Wallet has no active master key." true
     ["کیف پول دارای کلید اصلی فعال نیست."];
   Message false [Loc None "+1"]
     "Wallet must be unlocked." true
     ["کیف پول باید قفل شود."];
   Message false [Loc None "+1"]
     "Wallet must have a default account set." true
     ["کیف پول باید یک مجموعه حساب پیش فرض داشته باشد."];
   Message false [Loc None "+1"]
     "Wallet needed to be rewritten: restart %s to complete" true
     ["کیف پول مورد نیاز برای بازنویسی: راه اندازی مجدد% s برای تکمیل"];
   Message false [Loc None "+1"]
     "Warning" true
     ["هشدار"];
   Message false [Loc None "+1"]
     "Warning: unknown new rules activated (versionbit %i)" true
     ["اخطار: قوانین جدید ناشناخته فعال (versionbit ٪ i)"];
   Message false [Loc None "+1"]
     "You need to rebuild the database using -reindex to change -addressindex" true
     ["شما نیاز به بازسازی پایگاه داده با استفاده از-شاخص reindex به تغییر-نشانی"];
   Message false [Loc None "+1"]
     "You need to rebuild the database using -reindex to change -spentindex" true
     ["شما نیاز به بازسازی پایگاه داده با استفاده از-شاخص reindex به تغییر-spentindex"];
   Message false [Loc None "+1"]
     "Zapping all transactions from wallet..." true
     ["نحو تمام معاملات از کیف پول..."];
   Message false [Loc None "+1"]
     "accounts missing." true
     ["حساب های از دست رفته."];
   Message false [Loc None "+1"]
     "accounts must be an array." true
     ["حساب باید آرایه باشد."];
   Message false [Loc None "+1"]
     "add_to_addressbook can&apos;t be set without save" true
     ["add_to_addressbook را نمیتوان بدون ذخیره تنظیم کرد"];
   Message false [Loc None "+1"]
     "address_standard must be a string." true
     ["address_standard باید یک رشته باشد."];
   Message false [Loc None "+1"]
     "bad childNo." true
     ["بد کودکانه"];
   Message false [Loc None "+1"]
     "bech32 encode failed." true
     ["رمز bech32 انجام نشد."];
   Message false [Loc None "+1"]
     "coldstakingaddress can&apos;t be a stealthaddress." true
     ["coldstakingaddress نمی تواند stealthaddress باشد."];
   Message false [Loc None "+1"]
     "coldstakingaddress must be a string." true
     ["coldstakingaddress باید یک رشته باشد."];
   Message false [Loc None "+1"]
     "extkey must have private key to derive hardened keys." true
     ["extkey باید کلید خصوصی به استخراج کلید های سخت است."];
   Message false [Loc None "+1"]
     "foundationdonationpercent must be a number." true
     ["foundationdonationpercent باید عدد باشد."];
   Message false [Loc None "+1"]
     "height must be a number." true
     ["ارتفاع باید یک عدد باشد."];
   Message false [Loc None "+1"]
     "loose_extkeys missing." true
     ["loose_extkeys از دست رفته."];
   Message false [Loc None "+1"]
     "loose_extkeys must be an array." true
     ["loose_extkeys باید آرایه باشد."];
   Message false [Loc None "+1"]
     "num_derives to int failed." true
     ["num_derives به دانشنامه هوشمند شکست خورد."];
   Message false [Loc None "+1"]
     "num_derives_h to int failed." true
     ["num_derives_h به دانشنامه هوشمند شکست خورد."];
   Message false [Loc None "+1"]
     "num_prefix_bits invalid number." true
     ["num_prefix_bits شماره نامعتبر است."];
   Message false [Loc None "+1"]
     "num_prefix_bits must be &lt;= 32." true
     ["num_prefix_bits باید&lt;= 32.&gt;&lt;/= 32.&gt;"];
   Message false [Loc None "+1"]
     "rewardaddress must be a string." true
     ["rewardaddress باید یک رشته باشد."];
   Message false [Loc None "+1"]
     "secp256k1_generate_mlsag failed %d" true
     ["secp256k1_generate_mlsag% d انجام نشد"];
   Message false [Loc None "+1"]
     "secp256k1_get_keyimage failed %d" true
     ["secp256k1_get_keyimage% d انجام نشد"];
   Message false [Loc None "+1"]
     "secp256k1_prepare_mlsag failed %d" true
     ["secp256k1_prepare_mlsag% d انجام نشد"]].

Definition fa_bitcoin_core_9 : list message :=
  [Message false [Loc None "+1"]
     "stakecombinethreshold can&apos;t be negative." true
     ["stakecombinethreshold نمی تواند منفی باشد."];
   Message false [Loc None "+1"]
     "stakesplitthreshold can&apos;t be negative." true
     ["stakesplitthreshold نمی تواند منفی باشد."]].

(** The whole document. *)
Definition bitcoin_fa_IR : catalogue :=
  [Context "AddressBookPage" (fa_AddressBookPage_1 ++ fa_AddressBookPage_2);
   Context "AddressTableModel" (fa_AddressTableModel);
   Context "AskPassphraseDialog" (fa_AskPassphraseDialog_1 ++ fa_AskPassphraseDialog_2);
   Context "BanTableModel" (fa_BanTableModel);
   Context "BitcoinGUI" (fa_BitcoinGUI_1 ++ fa_BitcoinGUI_2 ++ fa_BitcoinGUI_3 ++ fa_BitcoinGUI_4);
   Context "CoinControlDialog" (fa_CoinControlDialog_1 ++ fa_CoinControlDialog_2);
   Context "EditAddressDialog" (fa_EditAddressDialog);
   Context "FreespaceChecker" (fa_FreespaceChecker);
   Context "HelpMessageDialog" (fa_HelpMessageDialog);
   Context "Intro" (fa_Intro);
   Context "MnemonicDialog" (fa_MnemonicDialog_1 ++ fa_MnemonicDialog_2);
   Context "ModalOverlay" (fa_ModalOverlay);
   Context "OpenURIDialog" (fa_OpenURIDialog);
   Context "OptionsDialog" (fa_OptionsDialog_1 ++ fa_OptionsDialog_2 ++ fa_OptionsDialog_3);
   Context "OverviewPage" (fa_OverviewPage);
   Context "PaymentServer" (fa_PaymentServer);
   Context "PeerTableModel" (fa_PeerTableModel);
   Context "QObject" (fa_QObject);
   Context "QObject::QObject" (fa_QObject__QObject);
   Context "QRImageWidget" (fa_QRImageWidget);
   Context "RPCConsole" (fa_RPCConsole_1 ++ fa_RPCConsole_2 ++ fa_RPCConsole_3);
   Context "ReceiveCoinsDialog" (fa_ReceiveCoinsDialog);
   Context "ReceiveRequestDialog" (fa_ReceiveRequestDialog);
   Context "RecentRequestsTableModel" (fa_RecentRequestsTableModel);
   Context "SendCoinsDialog" (fa_SendCoinsDialog_1 ++ fa_SendCoinsDialog_2 ++ fa_SendCoinsDialog_3);
   Context "SendCoinsEntry" (fa_SendCoinsEntry_1 ++ fa_SendCoinsEntry_2);
   Context "SendConfirmationDialog" (fa_SendConfirmationDialog);
   Context "ShutdownWindow" (fa_ShutdownWindow);
   Context "SignVerifyMessageDialog" (fa_SignVerifyMessageDialog_1 ++ fa_SignVerifyMessageDialog_2);
   Context "SplashScreen" (fa_SplashScreen);
   Context "StakingDialog" (fa_StakingDialog_1 ++ fa_StakingDialog_2);
   Context "TrafficGraphWidget" (fa_TrafficGraphWidget);
   Context "TransactionDesc" (fa_TransactionDesc_1 ++ fa_TransactionDesc_2);
   Context "TransactionDescDialog" (fa_TransactionDescDialog);
   Context "TransactionTableModel" (fa_TransactionTableModel_1 ++ fa_TransactionTableModel_2);
   Context "TransactionView" (fa_TransactionView_1 ++ fa_TransactionView_2);
   Context "TxViewDelegate" (fa_TxViewDelegate);
   Context "UnitDisplayStatusBarControl" (fa_UnitDisplayStatusBarControl);
   Context "WalletFrame" (fa_WalletFrame);
   Context "WalletModel" (fa_WalletModel);
   Context "WalletView" (fa_WalletView);
   Context "bitcoin-core" (fa_bitcoin_core_1 ++ fa_bitcoin_core_2 ++ fa_bitcoin_core_3 ++ fa_bitcoin_core_4 ++ fa_bitcoin_core_5 ++ fa_bitcoin_core_6 ++ fa_bitcoin_core_7 ++ fa_bitcoin_core_8 ++ fa_bitcoin_core_9)].
