(* ===== verification/CatalogueFr.v ===== *)
(** The French catalogue, [src/src/qt/locale/bitcoin_fr_FR.ts], context by context; a long
    context is cut into parts.  Texts are as in the file. *)
From S2P Require Import Prelude Locale.
Open Scope txt_scope.
Open Scope list_scope.

Definition fr_AddressBookPage_1 : list message :=
  [Message false [Loc (Some "../forms/addressbookpage.ui") "+27"]
     "Enter address or label to search" true
     ["Entrez l&apos;adresse ou l&apos;étiquette pour rechercher"];
   Message false [Loc None "+10"]
     "Right-click to edit address or label" true
     ["Clic droit pour modifier l&apos;adresse ou l&apos;étiquette"];
   Message false [Loc None "+30"; Loc None "+17"; Loc None "+17"]
     "Create a new address" true
     ["Créer une nouvelle adresse"];
   Message false [Loc None "-31"]
     "&amp;New" true
     ["- Nouveau"];
   Message false [Loc None "+17"]
     "&amp;New Stake address" true
     ["Nouvelle adresse de pieu"];
   Message false [Loc None "+17"]
     "&amp;New ColdStake address" true
     ["Nouvelle adresse ColdStake"];
   Message false [Loc None "+14"]
     "Copy the currently selected address to the system clipboard" true
     ["Copiez l&apos;adresse actuellement sélectionnée sur le presse-papiers du système"];
   Message false [Loc None "+3"]
     "&amp;Copy" true
     ["Copie"];
   Message false [Loc None "+14"]
     "Delete the currently selected address from the list" true
     ["Supprimer l&apos;adresse actuellement sélectionnée de la liste"];
   Message false [Loc None "+3"]
     "&amp;Delete" true
     ["Supprimer"];
   Message false [Loc None "+27"]
     "Export the data in the current tab to a file" true
     ["Exporter les données dans l&apos;onglet actuel vers un fichier"];
   Message false [Loc None "+3"]
     "&amp;Export" true
     ["Exportation"];
   Message false [Loc None "+20"]
     "C&amp;lose" true
     ["Perdre de la C-perdre"];
   Message false [Loc (Some "../addressbookpage.cpp") "+84"]
     "These are your Bitcoin Confidential addresses for sending payments. Always check the amount and the receiving address before sending coins." true
     ["Ce sont vos adresses Bitcoin Confidential pour l&apos;envoi de paiements. Vérifiez toujours le montant et l&apos;adresse de réception avant d&apos;envoyer des pièces de monnaie."];
   Message false [Loc None "+8"]
     "Choose the address to send coins to" true
     ["Choisissez l&apos;adresse pour envoyer des pièces de monnaie à"];
   Message false [Loc None "+4"; Loc None "+22"; Loc None "+28"]
     "C&amp;hoose" true
     ["C-hoose (en)"];
   Message false [Loc None "-44"]
     "Sending addresses" true
     ["Envoi d&apos;adresses"];
   Message false [Loc None "+12"]
     "Choose the address to receive coins with" true
     ["Choisissez l&apos;adresse pour recevoir des pièces avec"];
   Message false [Loc None "+10"]
     "Receiving addresses" true
     ["Réception d&apos;adresses"];
   Message false [Loc None "+1"]
     "These are your Bitcoin Confidential addresses for receiving payments. It is recommended to use a new receiving address for each transaction." true
     ["Il s&apos;agit de vos adresses Bitcoin Confidential pour recevoir des paiements. Il est recommandé d&apos;utiliser une nouvelle adresse de réception pour chaque transaction."];
   Message false [Loc None "+13"]
     "Choose the Stake or ColdStake address" true
     ["Choisissez l&apos;adresse enjeu ou ColdStake"];
   Message false [Loc None "+1"]
     "These are your Bitcoin Confidential Stake and ColdStake addresses." true
     ["Il s&apos;agit de vos adresses Bitcoin Confidential Stake et ColdStake."];
   Message false [Loc None "+16"]
     "Stake and ColdStake addresses" true
     ["Adresses pieu et ColdStake"];
   Message false [Loc None "+1"]
     "These addresses cannot be used to receive coins from outside the wallet, such as payments or from exchanges.  Use the Receive tab to generate spending addresses.

Stake addresses, starting with &quot;%1&quot;, are used to convert spending funds into staking funds in the &quot;Convert to Staking&quot; tab. Funds in Stake addresses can be either used for hot staking or the activation of ColdStaking.

ColdStake addresses, starting with &quot;%2&quot;, are used to manually activate staking funds for ColdStaking. There is no need to generate ColdStake addresses when the automated ColdStaking activation from the Staking Status page is used." true
     ["Ces adresses ne peuvent pas être utilisées pour recevoir des pièces de monnaie provenant de l&apos;extérieur du portefeuille, comme des paiements ou des échanges.  Utilisez l&apos;onglet Recevoir pour générer des adresses de dépenses.

Les adresses de pieu, à partir de « % 1 », sont utilisées pour convertir les fonds de dépenses en fonds de jalonnement dans l&apos;onglet « Convertir en jalonnement ». Les fonds dans les adresses de pieu peuvent être utilisés pour le jalonnement à chaud ou l&apos;activation de ColdStaking.

Les adresses ColdStake, à partir de &quot; %2 &quot;, sont utilisées pour activer manuellement les fonds de jalonnement pour ColdStaking. Il n&apos;est pas nécessaire de générer des adresses ColdStake lorsque l&apos;activation de ColdStaking automatisée à partir de la page d&apos;état de prise est utilisée."];
   Message false [Loc None "+11"]
     "&amp;Copy Address" true
     ["Adresse de copie"];
   Message false [Loc None "+1"]
     "Copy &amp;Label" true
     ["Copie et étiquette"];
   Message false [Loc None "+1"]
     "&amp;Edit" true
     ["Modifier"]].

Definition fr_AddressBookPage_2 : list message :=
  [Message false [Loc None "+186"]
     "Export Address List" true
     ["Liste d&apos;adresses à l&apos;exportation"];
   Message false [Loc None "+1"]
     "Comma separated file (*.csv)" true
     ["Comma fichier séparé (.csv)"];
   Message false [Loc None "+13"]
     "Exporting Failed" true
     ["Exportation échouée"];
   Message false [Loc None "+1"]
     "There was an error trying to save the address list to %1. Please try again." true
     ["Il y a eu une erreur en essayant d&apos;enregistrer la liste d&apos;adresses à %1. S&apos;ll vous plaît, réessayez."]].

Definition fr_AddressTableModel : list message :=
  [Message false [Loc (Some "../addresstablemodel.cpp") "+188"]
     "Label" true
     ["étiquette"];
   Message false [Loc None "+0"]
     "Address" true
     ["adresse"];
   Message false [Loc None "+36"]
     "(no label)" true
     ["(pas d&apos;étiquette)"]].

Definition fr_AskPassphraseDialog_1 : list message :=
  [Message false [Loc (Some "../forms/askpassphrasedialog.ui") "+26"]
     "Passphrase Dialog" true
     ["Dialogue de passphrase"];
   Message false [Loc None "+30"]
     "Enter passphrase" true
     ["Entrez mot d&apos;après-passe"];
   Message false [Loc None "+14"]
     "New passphrase" true
     ["Nouvelle phrase de passe"];
   Message false [Loc None "+14"]
     "Repeat new passphrase" true
     ["Répéter la nouvelle phrase de passage"];
   Message false [Loc None "+14"]
     "Show password" true
     ["Afficher le mot de passe"];
   Message false [Loc None "+23"]
     "Unlock For Staking Only" true
     ["Déverrouillage pour le jalonnement uniquement"];
   Message false [Loc (Some "../askpassphrasedialog.cpp") "+48"]
     "Enter the new passphrase to the wallet.&lt;br/&gt;Please use a passphrase of &lt;b&gt;ten or more random characters&lt;/b&gt;, or &lt;b&gt;eight or more words&lt;/b&gt;." true
     ["Entrez la nouvelle phrase de passage dans le portefeuille.&lt;br&gt;S&apos;il vous plaît utiliser une phrase de passage de dix caractères aléatoires &lt;b&gt;ou plus&lt;/b&gt;, ou huit mots ou &lt;b&gt;plus&lt;/b&gt;."];
   Message false [Loc None "+3"]
     "Encrypt wallet" true
     ["Chiffrer le portefeuille"];
   Message false [Loc None "+3"; Loc None "+8"]
     "This operation needs your wallet passphrase to unlock the wallet." true
     ["Cette opération a besoin de votre mot de passe portefeuille pour déverrouiller le portefeuille."];
   Message false [Loc None "-3"; Loc None "+9"]
     "Unlock wallet" true
     ["Débloquez le portefeuille"];
   Message false [Loc None "+3"]
     "This operation needs your wallet passphrase to decrypt the wallet." true
     ["Cette opération a besoin de votre carte de portefeuille pour déchiffrer le portefeuille."];
   Message false [Loc None "+5"]
     "Decrypt wallet" true
     ["Décrypter le portefeuille"];
   Message false [Loc None "+3"]
     "Change passphrase" true
     ["Modifier la phrase"];
   Message false [Loc None "+1"]
     "Enter the old passphrase and new passphrase to the wallet." true
     ["Entrez l&apos;ancien mot de passe et le nouveau mot à mot dans le portefeuille."];
   Message false [Loc None "+47"]
     "Confirm wallet encryption" true
     ["Confirmer le chiffrement du portefeuille"];
   Message false [Loc None "+1"]
     "Warning: If you encrypt your wallet and lose your passphrase, you will &lt;b&gt;LOSE ALL OF YOUR BITCOIN CONFIDENTIAL&lt;/b&gt;!" true
     ["Avertissement: Si vous chiffrez votre portefeuille et perdez votre mot de passe, vous perdrez &lt;b&gt;TOUS DE VOTRE BITCOIN CONFIDENTIAL&lt;/b&gt;!"];
   Message false [Loc None "+0"]
     "Are you sure you wish to encrypt your wallet?" true
     ["Etes-vous sûr de vouloir chiffrer votre portefeuille ?"];
   Message false [Loc None "+9"; Loc None "+59"]
     "Wallet encrypted" true
     ["Portefeuille crypté"];
   Message false [Loc None "-57"]
     "%1 will close now to finish the encryption process. Remember that encrypting your wallet cannot fully protect your Bitcoin Confidential from being stolen by malware infecting your computer." true
     ["%1 fermera maintenant pour terminer le processus de cryptage. N&apos;oubliez pas que le cryptage de votre portefeuille ne peut pas protéger entièrement votre Bitcoin Confidential contre le vol de logiciels malveillants infectant votre ordinateur."];
   Message false [Loc None "+4"]
     "IMPORTANT: Any previous backups you have made of your wallet file should be replaced with the newly generated, encrypted wallet file. For security reasons, previous backups of the unencrypted wallet file will become useless as soon as you start using the new, encrypted wallet." true
     ["IMPORTANT : Toutes les sauvegardes précédentes que vous avez faites de votre fichier portefeuille doivent être remplacées par le fichier de portefeuille crypté nouvellement généré. Pour des raisons de sécurité, les sauvegardes précédentes du fichier de portefeuille non crypté deviendront inutiles dès que vous commencerez à utiliser le nouveau portefeuille crypté."];
   Message false [Loc None "+9"; Loc None "+7"; Loc None "+43"; Loc None "+6"]
     "Wallet encryption failed" true
     ["Le chiffrement du portefeuille a échoué"];
   Message false [Loc None "-55"]
     "Wallet encryption failed due to an internal error. Your wallet was not encrypted." true
     ["Le chiffrement du portefeuille a échoué en raison d&apos;une erreur interne. Votre portefeuille n&apos;était pas crypté."];
   Message false [Loc None "+7"; Loc None "+49"]
     "The supplied passphrases do not match." true
     ["Les phrases de passe fournies ne correspondent pas."];
   Message false [Loc None "-37"]
     "Wallet unlock failed" true
     ["Déverrouillage de portefeuille a échoué"];
   Message false [Loc None "+1"; Loc None "+11"; Loc None "+19"]
     "The passphrase entered for the wallet decryption was incorrect." true
     ["La phrase de passage saisie pour le décryptage du portefeuille était incorrecte."];
   Message false [Loc None "-20"]
     "Wallet decryption failed" true
     ["Le décryptage du portefeuille a échoué"];
   Message false [Loc None "+14"]
     "Wallet passphrase was successfully changed." true
     ["La phrase de passe de portefeuille a été changée avec succès."]].

Definition fr_AskPassphraseDialog_2 : list message :=
  [Message false [Loc None "+48"; Loc None "+33"]
     "Warning: The Caps Lock key is on!" true
     ["Avertissement: La clé De verrouillage Caps est allumée!"]].

Definition fr_BanTableModel : list message :=
  [Message false [Loc (Some "../bantablemodel.cpp") "+88"]
     "IP/Netmask" true
     ["IP/Netmask"];
   Message false [Loc None "+0"]
     "Banned Until" true
     ["Interdit jusqu&apos;à"]].

Definition fr_BitcoinGUI_1 : list message :=
  [Message false [Loc (Some "../bitcoingui.cpp") "+94"]
     "Wallet" true
     ["portefeuille"];
   Message false [Loc None "+2"]
     "Node" true
     ["nodule"];
   Message false [Loc None "+169"]
     "Overview" true
     ["vue d&apos;ensemble"];
   Message false [Loc None "+1"]
     "Show general overview of wallet" true
     ["Afficher l&apos;aperçu général du portefeuille"];
   Message false [Loc None "+7"]
     "Send" true
     ["Envoyer"];
   Message false [Loc None "+1"]
     "Send coins to a Bitcoin Confidential Spending address" true
     ["Envoyer des pièces à une adresse de dépenses confidentielles Bitcoin"];
   Message false [Loc None "+11"]
     "Receive" true
     ["recevoir"];
   Message false [Loc None "+1"]
     "Request payments (generates Spending address QR codes and bitcoinc: URIs)" true
     ["Demande de paiements (génère des codes QR et bitcoinc : URI)"];
   Message false [Loc None "+11"]
     "Transactions" true
     ["Transactions"];
   Message false [Loc None "+1"]
     "Browse transaction history" true
     ["Parcourir l&apos;historique des transactions"];
   Message false [Loc None "+7"]
     "Staking" true
     ["Jalonnement"];
   Message false [Loc None "+1"]
     "Setup staking" true
     ["Mise en place"];
   Message false [Loc None "+25"]
     "E&amp;xit" true
     ["E xit (en)"];
   Message false [Loc None "+1"]
     "Quit application" true
     ["Demande d&apos;abandon"];
   Message false [Loc None "+3"]
     "&amp;About %1" true
     ["À propos de %1"];
   Message false [Loc None "+1"]
     "Show information about %1" true
     ["Afficher des informations sur %1"];
   Message false [Loc None "+3"]
     "About &amp;Qt" true
     ["À propos de Qt"];
   Message false [Loc None "+1"]
     "Show information about Qt" true
     ["Afficher des informations sur Qt"];
   Message false [Loc None "+2"]
     "&amp;Options..." true
     ["Options..."];
   Message false [Loc None "+1"]
     "Modify configuration options for %1" true
     ["Modifier les options de configuration pour %1"];
   Message false [Loc None "+3"]
     "&amp;Show / Hide" true
     ["Spectacle / Masquer"];
   Message false [Loc None "+1"]
     "Show or hide the main Window" true
     ["Afficher ou masquer la fenêtre principale"];
   Message false [Loc None "+2"]
     "&amp;Encrypt Wallet..." true
     ["Portefeuille de chiffrement..."];
   Message false [Loc None "+1"]
     "Encrypt the private keys that belong to your wallet" true
     ["Chiffrez les clés privées qui appartiennent à votre portefeuille"];
   Message false [Loc None "+2"]
     "&amp;Backup Wallet..." true
     ["Portefeuille de sauvegarde..."];
   Message false [Loc None "+1"]
     "Backup wallet to another location" true
     ["Portefeuille de sauvegarde à un autre endroit"];
   Message false [Loc None "+1"]
     "&amp;Change Passphrase..." true
     ["Passphrase de changement..."];
   Message false [Loc None "+1"]
     "Change the passphrase used for wallet encryption" true
     ["Modifier la phrase de passage utilisée pour le chiffrement du portefeuille"];
   Message false [Loc None "+1"]
     "Sign &amp;message..." true
     ["Signez le message..."]].

Definition fr_BitcoinGUI_2 : list message :=
  [Message false [Loc None "+1"]
     "Sign messages with your Bitcoin Confidential addresses to prove you own them" true
     ["Signez des messages avec vos adresses Bitcoin Confidential pour prouver que vous les possédez"];
   Message false [Loc None "+1"]
     "&amp;Verify message..." true
     ["Message de vérification..."];
   Message false [Loc None "+1"]
     "Verify messages to ensure they were signed with specified Bitcoin Confidential addresses" true
     ["Vérifier les messages pour s&apos;assurer qu&apos;ils ont été signés avec des adresses Bitcoin Confidential spécifiées"];
   Message false [Loc None "+2"]
     "&amp;Debug window" true
     ["Fenêtre de débogage"];
   Message false [Loc None "+1"]
     "Open debugging and diagnostic console" true
     ["Ouvrez le débogage et la console de diagnostic"];
   Message false [Loc None "+4"]
     "&amp;Sending addresses..." true
     ["Les adresses d&apos;envoi..."];
   Message false [Loc None "+1"]
     "Show the list of used sending addresses and labels" true
     ["Afficher la liste des adresses et étiquettes d&apos;envoi usagées"];
   Message false [Loc None "+1"]
     "&amp;Receiving addresses..." true
     ["- Réception d&apos;adresses..."];
   Message false [Loc None "+1"]
     "Show the list of used receiving addresses and labels" true
     ["Afficher la liste des adresses et étiquettes de réception usagées"];
   Message false [Loc None "+2"]
     "Open &amp;URI..." true
     ["Ouvrez l&apos;URI..."];
   Message false [Loc None "+1"]
     "Open a bitcoinc: URI or payment request" true
     ["Ouvrez un bitcoinc : URI ou demande de paiement"];
   Message false [Loc None "+2"]
     "&amp;Command-line options" true
     ["Options de ligne de commandement"];
   Message false [Loc None "+2"]
     "Show the %1 help message to get a list with possible Bitcoin Confidential command-line options" true
     ["Afficher le message d&apos;aide %1 pour obtenir une liste avec d&apos;éventuelles options de ligne de commande Bitcoin Confidential"];
   Message false [Loc None "+2"]
     "&amp;HD Wallet..." true
     ["Portefeuille HD..."];
   Message false [Loc None "+45"]
     "&amp;File" true
     ["Fichier"];
   Message false [Loc None "+16"]
     "&amp;Settings" true
     ["Paramètres"];
   Message false [Loc None "+9"]
     "&amp;Help" true
     ["Aide"];
   Message false [Loc None "+15"]
     "Tabs toolbar" true
     ["Tablature de la barre d&apos;outils"];
   Message false [Loc None "+113"]
     "default wallet" true
     ["portefeuille par défaut"];
   Message false [Loc None "+88"]
     "%1 client" true
     ["%1 client"];
   Message true [Loc None "+189"]
     "%n active connection(s) to Bitcoin Confidential network" true
     ["%n connexion active (s) au réseau Bitcoin Confidential"; "%n connexion active (s) au réseau Bitcoin Confidential"];
   Message false [Loc None "+0"]
     "Click to disable network activity." true
     ["Cliquez pour désactiver l&apos;activité du réseau."];
   Message false [Loc None "+2"]
     "Network activity disabled." true
     ["Activité réseau désactivée."];
   Message false [Loc None "+0"]
     "Click to enable network activity again." true
     ["Cliquez pour activer à nouveau l&apos;activité du réseau."];
   Message false [Loc None "+28"]
     "Syncing Headers (%1%)..." true
     ["En-têtes de synchronisation (%1%)..."];
   Message false [Loc None "+26"]
     "Synchronizing with network..." true
     ["Synchronisation avec le réseau..."];
   Message false [Loc None "+5"]
     "Indexing blocks on disk..." true
     ["Indexation des blocs sur disque..."];
   Message false [Loc None "+2"]
     "Processing blocks on disk..." true
     ["Blocs de traitement sur disque..."];
   Message false [Loc None "+4"]
     "Reindexing blocks on disk..." true
     ["Réindexation des blocs sur disque..."];
   Message false [Loc None "+6"]
     "Connecting to peers..." true
     ["Connexion avec ses pairs..."]].

Definition fr_BitcoinGUI_3 : list message :=
  [Message true [Loc None "+9"]
     "Processed %n block(s) of transaction history." true
     ["Bloc (s) de l&apos;historique des transactions."; "Bloc (s) de l&apos;historique des transactions."];
   Message false [Loc None "+5"]
     "Up to date" true
     ["Actuel"];
   Message false [Loc None "+19"]
     "%1 behind" true
     ["%1 derrière"];
   Message false [Loc None "+5"]
     "Catching up..." true
     ["Rattrapage..."];
   Message false [Loc None "+19"]
     "Last received block was generated %1 ago." true
     ["Le dernier bloc reçu a été généré il y a 1 %."];
   Message false [Loc None "+2"]
     "Transactions after this will not yet be visible." true
     ["Les transactions après cela ne seront pas encore visibles."];
   Message false [Loc None "+13"]
     "Bitcoin Confidential" true
     ["Bitcoin Confidentiel"];
   Message false [Loc None "+14"]
     "Error" true
     ["Erreur"];
   Message false [Loc None "+3"]
     "Warning" true
     ["alerte"];
   Message false [Loc None "+3"]
     "Information" true
     ["renseignements"];
   Message false [Loc None "+116"]
     "Date: %1
" true
     ["Date: %1"];
   Message false [Loc None "+1"]
     "Amount: %1
" true
     ["Montant: %1"];
   Message false [Loc None "+2"]
     "Wallet: %1
" true
     ["Portefeuille: %1"];
   Message false [Loc None "+2"]
     "Type: %1
" true
     ["Type: %1"];
   Message false [Loc None "+2"]
     "Label: %1
" true
     ["Étiquette: %1"];
   Message false [Loc None "+2"]
     "Address: %1
" true
     ["Adresse: %1"];
   Message false [Loc None "+1"]
     "Sent transaction" true
     ["Transaction envoyée"];
   Message false [Loc None "+0"]
     "Incoming transaction" true
     ["Transaction entrante"];
   Message false [Loc None "+52"]
     "HD key generation is &lt;b&gt;enabled&lt;/b&gt;" true
     ["La génération de clés HD est &lt;b&gt;activée&lt;/b&gt;"];
   Message false [Loc None "+0"]
     "HD key generation is &lt;b&gt;disabled&lt;/b&gt;" true
     ["La génération de clés HD est &lt;b&gt;désactivée&lt;/b&gt;"];
   Message false [Loc None "+13"]
     "Wallet is &lt;b&gt;not encrypted&lt;/b&gt;. Click the opened lock to encrypt it." true
     ["Portefeuille n&apos;est &lt;b&gt;pas crypté&lt;/b&gt;. Cliquez sur le verrou ouvert pour le chiffrer."];
   Message false [Loc None "+8"]
     "Wallet is &lt;b&gt;encrypted&lt;/b&gt; and currently &lt;b&gt;unlocked&lt;/b&gt;" true
     ["Le portefeuille est &lt;b&gt;crypté&lt;/b&gt; et actuellement &lt;b&gt;déverrouillé&lt;/b&gt;"];
   Message false [Loc None "+8"]
     "Wallet is &lt;b&gt;encrypted&lt;/b&gt; and currently &lt;b&gt;unlocked&lt;/b&gt; for staking only" true
     ["Portefeuille est &lt;b&gt;crypté&lt;/b&gt; et actuellement &lt;b&gt;déverrouillé&lt;/b&gt; pour le jalonnement seulement"];
   Message false [Loc None "+8"]
     "Wallet is &lt;b&gt;encrypted&lt;/b&gt; and currently &lt;b&gt;locked&lt;/b&gt;" true
     ["Le portefeuille est &lt;b&gt;crypté&lt;/b&gt; et actuellement &lt;b&gt;verrouillé&lt;/b&gt;"];
   Message false [Loc None "+58"]
     "Proxy is &lt;b&gt;enabled&lt;/b&gt;: %1" true
     ["Proxy &lt;b&gt;activé&lt;/b&gt;: %1"];
   Message false [Loc None "+28"]
     "Tor is &lt;b&gt;enabled&lt;/b&gt;" true
     ["Tor est &lt;b&gt;activé&lt;/b&gt;"];
   Message false [Loc None "+3"]
     "Tor is &lt;b&gt;enabled&lt;/b&gt;, but its not the only network used. Use only onlynet=onion." true
     ["Tor &lt;b&gt;&lt;/b&gt;est activé, mais ce n&apos;est pas le seul réseau utilisé. N&apos;utiliser que l&apos;oignon net."];
   Message false [Loc None "+3"]
     "Tor is &lt;b&gt;disabled&lt;/b&gt;. To enhance your privacy setup consider using tor by setting &lt;b&gt;onlynet=onion&lt;/b&gt; in your &lt;b&gt;bitcoinc.conf&lt;/b&gt;." true
     ["Tor est &lt;b&gt;désactivé&lt;/b&gt;. Pour améliorer votre configuration de confidentialité envisager d&apos;utiliser tor en définissant &lt;b&gt;onlynet-onion&lt;/b&gt; dans votre &lt;b&gt;bitcoinc.conf&lt;/b&gt;."]].

Definition fr_BitcoinGUI_4 : list message :=
  [Message false [Loc (Some "../bitcoin.cpp") "+528"]
     "A fatal error occurred. Bitcoin Confidential can no longer continue safely and will quit." true
     ["Une erreur fatale s&apos;est produite. Bitcoin Confidential ne peut plus continuer en toute sécurité et cesser acquit."]].

Definition fr_CoinControlDialog_1 : list message :=
  [Message false [Loc (Some "../forms/coincontroldialog.ui") "+14"]
     "Coin Selection" true
     ["Sélection de pièces"];
   Message false [Loc None "+34"]
     "Quantity:" true
     ["quantité:"];
   Message false [Loc None "+29"]
     "Bytes:" true
     ["Octets:"];
   Message false [Loc None "+45"]
     "Amount:" true
     ["quantité:"];
   Message false [Loc None "+32"]
     "Dust:" true
     ["poussière:"];
   Message false [Loc None "+48"]
     "Fee:" true
     ["honoraires:"];
   Message false [Loc None "+45"]
     "After Fee:" true
     ["Après frais:"];
   Message false [Loc None "+32"]
     "Change:" true
     ["changement:"];
   Message false [Loc None "+57"]
     "Standard" true
     ["standard"];
   Message false [Loc None "+5"]
     "Anon" true
     ["sous peu"];
   Message false [Loc None "+14"]
     "Show all" true
     ["Afficher tous les"];
   Message false [Loc None "+13"]
     "(un)select all" true
     ["(non)sélectionner tous les"];
   Message false [Loc None "+16"]
     "Tree mode" true
     ["Mode Arbre"];
   Message false [Loc None "+13"]
     "List mode" true
     ["Mode liste"];
   Message false [Loc None "+74"]
     "Amount" true
     ["quantité"];
   Message false [Loc None "+8"]
     "Received with label" true
     ["Reçu avec étiquette"];
   Message false [Loc None "+5"]
     "Received with address" true
     ["Reçu avec adresse"];
   Message false [Loc None "+5"]
     "Date" true
     ["date"];
   Message false [Loc None "+5"]
     "Confirmations" true
     ["Confirmations"];
   Message false [Loc None "+3"]
     "Confirmed" true
     ["invétéré"];
   Message false [Loc (Some "../coincontroldialog.cpp") "+73"]
     "Copy address" true
     ["Adresse de copie"];
   Message false [Loc None "+1"]
     "Copy label" true
     ["Étiquette de copie"];
   Message false [Loc None "+1"; Loc None "+26"]
     "Copy amount" true
     ["Montant de copie"];
   Message false [Loc None "-25"]
     "Copy transaction ID" true
     ["ID de transaction de copie"];
   Message false [Loc None "+1"]
     "Lock unspent" true
     ["Verrouillage non dépensé"];
   Message false [Loc None "+1"]
     "Unlock unspent" true
     ["Déblocage non dépensé"];
   Message false [Loc None "+22"]
     "Copy quantity" true
     ["Quantité de copie"];
   Message false [Loc None "+2"]
     "Copy fee" true
     ["Frais de copie"];
   Message false [Loc None "+1"]
     "Copy after fee" true
     ["Copie après frais"]].

Definition fr_CoinControlDialog_2 : list message :=
  [Message false [Loc None "+1"]
     "Copy bytes" true
     ["Copier les octets"];
   Message false [Loc None "+1"]
     "Copy dust" true
     ["Copier la poussière"];
   Message false [Loc None "+1"]
     "Copy change" true
     ["Modification de copie"];
   Message false [Loc None "+340"]
     "(%1 locked)" true
     ["(%1 verrouillé)"];
   Message false [Loc None "+161"]
     "yes" true
     ["ouais"];
   Message false [Loc None "+0"]
     "no" true
     ["non"];
   Message false [Loc None "+14"]
     "This label turns red if any recipient receives an amount smaller than the current dust threshold." true
     ["Cette étiquette devient rouge si un destinataire reçoit une quantité inférieure au seuil de poussière actuel."];
   Message false [Loc None "+5"]
     "Can vary +/- %1 satoshi(s) per input." true
     ["Peut varier à 1 % par entrée."];
   Message false [Loc None "+47"]
     "Hide immature" true
     ["Masquer immature"];
   Message false [Loc None "+2"]
     "Hide locked" true
     ["Masquer verrouillé"];
   Message false [Loc None "+6"]
     "Show immature" true
     ["Afficher immature"];
   Message false [Loc None "+2"]
     "Show locked" true
     ["Afficher verrouillé"];
   Message false [Loc None "+26"; Loc None "+66"; Loc None "+11"]
     "(no label)" true
     ["(pas d&apos;étiquette)"];
   Message false [Loc None "-19"]
     "change from %1 (%2)" true
     ["changement par rapport au %1 (%2)"];
   Message false [Loc None "+1"; Loc None "+20"]
     "(change)" true
     ["(changement)"];
   Message false [Loc None "-17"]
     "spending from %1 (%2)" true
     ["dépenses de %1 (%2)"]].

Definition fr_EditAddressDialog : list message :=
  [Message false [Loc (Some "../forms/editaddressdialog.ui") "+14"]
     "Edit Address" true
     ["Modifier l&apos;adresse"];
   Message false [Loc None "+11"]
     "&amp;Label" true
     ["Étiquette"];
   Message false [Loc None "+10"]
     "The label associated with this address list entry" true
     ["L&apos;étiquette associée à cette entrée de liste d&apos;adresses"];
   Message false [Loc None "+7"]
     "&amp;Address" true
     ["Adresse"];
   Message false [Loc None "+10"]
     "The address associated with this address list entry. This can only be modified for sending addresses." true
     ["L&apos;adresse associée à cette entrée de liste d&apos;adresses. Cela ne peut être modifié que pour l&apos;envoi d&apos;adresses."];
   Message false [Loc (Some "../editaddressdialog.cpp") "+29"]
     "New receiving address" true
     ["Nouvelle adresse de réception"];
   Message false [Loc None "+5"]
     "New sending address" true
     ["Nouvelle adresse d&apos;envoi"];
   Message false [Loc None "+3"]
     "New Stake address" true
     ["Nouvelle adresse de pieu"];
   Message false [Loc None "+5"]
     "New ColdStake address" true
     ["Nouvelle adresse ColdStake"];
   Message false [Loc None "+5"]
     "Edit receiving address" true
     ["Modifier l&apos;adresse de réception"];
   Message false [Loc None "+4"]
     "Edit sending address" true
     ["Modifier l&apos;adresse d&apos;envoi"];
   Message false [Loc None "+87"]
     "The entered address &quot;%1&quot; is not a valid Bitcoin Confidential address." true
     ["L&apos;adresse saisie &quot;%1&quot; n&apos;est pas une adresse Bitcoin Confidential valide."];
   Message false [Loc None "+10"]
     "Could not unlock wallet." true
     ["Impossible de déverrouiller le portefeuille."];
   Message false [Loc None "+5"]
     "New key generation failed." true
     ["La nouvelle génération clé a échoué."];
   Message false [Loc None "+18"]
     "Address &quot;%1&quot; already exists as a receiving address with label &quot;%2&quot; and so cannot be added as a sending address." true
     ["L&apos;adresse « %1 » existe déjà en tant qu&apos;adresse de réception avec l&apos;étiquette « % 2 » et ne peut donc pas être ajoutée comme adresse d&apos;envoi."];
   Message false [Loc None "+5"]
     "The entered address &quot;%1&quot; is already in the address book with label &quot;%2&quot;." true
     ["L&apos;adresse saisie &quot;%1&quot; est déjà dans le carnet d&apos;adresses avec l&apos;étiquette &quot;%2&quot;."]].

Definition fr_FreespaceChecker : list message :=
  [Message false [Loc (Some "../intro.cpp") "+78"]
     "A new data directory will be created." true
     ["Un nouveau répertoire de données sera créé."];
   Message false [Loc None "+22"]
     "name" true
     ["nom"];
   Message false [Loc None "+2"]
     "Directory already exists. Add %1 if you intend to create a new directory here." true
     ["L&apos;annuaire existe déjà. Ajoutez %1 si vous avez l&apos;intention de créer un nouvel annuaire ici."];
   Message false [Loc None "+3"]
     "Path already exists, and is not a directory." true
     ["Chemin existe déjà, et n&apos;est pas un répertoire."];
   Message false [Loc None "+7"]
     "Cannot create data directory here." true
     ["Impossible de créer un répertoire de données ici."]].

Definition fr_HelpMessageDialog : list message :=
  [Message false [Loc (Some "../utilitydialog.cpp") "+41"]
     "version" true
     ["Version"];
   Message false [Loc None "+5"; Loc None "+2"]
     "(%1-bit)" true
     ["(%1 bit)"];
   Message false [Loc None "+5"]
     "About %1" true
     ["À propos de %1"];
   Message false [Loc None "+19"]
     "Command-line options" true
     ["Options de ligne de commandement"]].

Definition fr_Intro : list message :=
  [Message false [Loc (Some "../forms/intro.ui") "+14"]
     "Welcome" true
     ["accueillir"];
   Message false [Loc None "+9"]
     "Welcome to %1." true
     ["Bienvenue à %1."];
   Message false [Loc None "+26"]
     "As this is the first time the program is launched, you can choose where %1 will store its data." true
     ["Comme c&apos;est la première fois que le programme est lancé, vous pouvez choisir où %1 stockera ses données."];
   Message false [Loc None "+17"]
     "Use the default data directory" true
     ["Utiliser l&apos;annuaire de données par défaut"];
   Message false [Loc None "+7"]
     "Use a custom data directory:" true
     ["Utilisez un répertoire de données personnalisé :"];
   Message false [Loc None "+140"]
     "When you click OK, %1 will begin to download and process the full %4 block chain (%2GB) starting with the earliest transactions in %3 when %4 initially launched." true
     ["Lorsque vous cliquez sur OK, %1 commencera à télécharger et traiter la chaîne de blocs %4 (%2 Go) en commençant par les premières transactions en %3 lorsque %4 initialement lancé."];
   Message false [Loc None "+10"]
     "This initial synchronisation is very demanding, and may expose hardware problems with your computer that had previously gone unnoticed. Each time you run %1, it will continue downloading where it left off." true
     ["Cette synchronisation initiale est très exigeante, et peut exposer des problèmes matériels avec votre ordinateur qui était auparavant passé inaperçu. Chaque fois que vous exécutez %1, il continuera à télécharger là où il s&apos;est éteint."];
   Message false [Loc None "+10"]
     "If you have chosen to limit block chain storage (pruning), the historical data must still be downloaded and processed, but will be deleted afterward to keep your disk usage low." true
     ["Si vous avez choisi de limiter le stockage en chaîne de blocs (élagage), les données historiques doivent toujours être téléchargées et traitées, mais seront supprimées par la suite pour maintenir votre utilisation du disque faible."];
   Message false [Loc (Some "../intro.cpp") "+20"]
     "Bitcoin Confidential" true
     ["Bitcoin Confidentiel"];
   Message false [Loc None "+6"]
     "At least %1 GB of data will be stored in this directory, and it will grow over time." true
     ["Au moins %1 Go de données seront stockées dans ce répertoire, et il se développera au fil du temps."];
   Message false [Loc None "+5"]
     "Approximately %1 GB of data will be stored in this directory." true
     ["Environ % 1 Go de données seront stockées dans ce répertoire."];
   Message false [Loc None "+8"]
     "%1 will download and store a copy of the Bitcoin Confidential block chain." true
     ["%1 téléchargera et stockera une copie de la chaîne de blocs Bitcoin Confidential."];
   Message false [Loc None "+2"]
     "The wallet will also be stored in this directory." true
     ["Le portefeuille sera également stocké dans ce répertoire."];
   Message false [Loc None "+73"]
     "Error: Specified data directory &quot;%1&quot; cannot be created." true
     ["Erreur : L&apos;annuaire de données spécifiés « %1 » ne peut pas être créé."];
   Message false [Loc None "+27"]
     "Error" true
     ["Erreur"];
   Message true [Loc None "+9"]
     "%n GB of free space available" true
     ["%n Gb d&apos;espace libre disponible"; "%n Gb d&apos;espace libre disponible"];
   Message true [Loc None "+3"]
     "(of %n GB needed)" true
     ["(de %n GB nécessaire)"; "(de %n GB nécessaire)"]].

Definition fr_MnemonicDialog_1 : list message :=
  [Message false [Loc (Some "../forms/mnemonicdialog.ui") "+14"]
     "HD Wallet Setup" true
     ["Configuration du portefeuille HD"];
   Message false [Loc None "+11"]
     "Generate a mnemonic" true
     ["Générer un mnémonique"];
   Message false [Loc None "+10"]
     "Create the wallet" true
     ["Créer le portefeuille"];
   Message false [Loc None "+22"]
     "Write down the Recovery Phrase/Mnemonic below or generate a new one with the desired settings by clicking &quot;NEW MNEMONIC&quot;. Store this phrase in a safe place. The clipboard will be cleared to ensure you have it recorded.  If you are recovering a backup, enter the Recovery Phrase/Mnemonic on the next screen.  Click the &quot;NEXT&quot; button to continue with the wallet creation." true
     ["Notez ci-dessous la phrase de récupération/mnemonic ou en générez une nouvelle avec les paramètres souhaités en cliquant sur « NOUVEAU MNEMONIC ». Conservez cette phrase dans un endroit sûr. Le presse-papiers sera effacé pour s&apos;assurer que vous l&apos;avez enregistré.  Si vous récupérez une sauvegarde, entrez la phrase de récupération/Mnemonic sur l&apos;écran suivant.  Cliquez sur le bouton &quot;NEXT&quot; pour continuer avec la création du portefeuille."];
   Message false [Loc None "+36"]
     "Bytes of Entropy " true
     ["Bytes de l&apos;entropie"];
   Message false [Loc None "+7"]
     "Language" true
     ["langage"];
   Message false [Loc None "+45"]
     "Entropy is an advanced feature. Your mnemonic may be insecure if this feature is used incorrectly." true
     ["L&apos;entropie est une fonctionnalité avancée. Votre mnemonic peut être incertain si cette fonctionnalité est utilisée incorrectement."];
   Message false [Loc None "+22"]
     "Select your language" true
     ["Sélectionnez votre langue"];
   Message false [Loc None "+4"]
     "English" true
     ["Anglais"];
   Message false [Loc None "+5"]
     "French" true
     ["Français"];
   Message false [Loc None "+5"]
     "Japanese" true
     ["Japonais"];
   Message false [Loc None "+5"]
     "Spanish" true
     ["Espagnol"];
   Message false [Loc None "+5"]
     "Chinese_s" true
     ["Chinois"];
   Message false [Loc None "+5"]
     "Chinese_t" true
     ["Chinois"];
   Message false [Loc None "+39"]
     "New mnemonic" true
     ["Nouveau mnémonique"];
   Message false [Loc None "+19"]
     "Next" true
     ["prochain"];
   Message false [Loc None "+19"; Loc None "+198"]
     "Cancel" true
     ["Annuler"];
   Message false [Loc None "-148"]
     "Recovery Passphrase " true
     ["Passphrase de récupération"];
   Message false [Loc None "+7"]
     "Import Chain" true
     ["Chaîne d&apos;importation"];
   Message false [Loc None "+13"]
     "Warning" true
     ["alerte"];
   Message false [Loc None "+33"]
     "Enter a passphrase to protect your Recovery Phrase (optional)" true
     ["Entrez un mot de passe pour protéger votre phrase de récupération (facultatif)"];
   Message false [Loc None "+13"]
     "Only needed if you&apos;re importing " true
     ["Seulement nécessaire si vous importez"];
   Message false [Loc None "+16"]
     "Please ensure you backup your Recovery Phrase and Passphrase - they are not recoverable!" true
     ["S&apos;il vous plaît assurez-vous de sauvegarde de votre phrase de récupération et passphrase - ils ne sont pas récupérables!"];
   Message false [Loc None "+28"]
     "Back" true
     ["Précédent"];
   Message false [Loc None "+19"; Loc (Some "../mnemonicdialog.cpp") "+145"]
     "Import" true
     ["produit importé"];
   Message false [Loc (Some "../mnemonicdialog.cpp") "-102"]
     "Optionally enter a passphrase to protect the Recovery Phrase. (This is not a wallet password.)" true
     ["Entrez une phrase de passage pour protéger la phrase de récupération. (Ce n&apos;est pas un mot de passe portefeuille.)"];
   Message false [Loc None "+2"]
     "Enter the Recovery Phrase/Mnemonic." true
     ["Entrez la phrase de récupération/mnemonic."];
   Message false [Loc None "+26"]
     "Create wallet" true
     ["Créer un portefeuille"];
   Message false [Loc None "+16"]
     "Generate a new Recovery Phrase/Mnemonic with the desired settings by clicking &quot;NEW MNEMONIC&quot;." true
     ["Générez une nouvelle phrase de récupération/mnémonique avec les paramètres souhaités en cliquant sur &quot;NOUVEAU MNEMONIC&quot;."]].

Definition fr_MnemonicDialog_2 : list message :=
  [Message false [Loc None "+5"]
     "Import a mnemonic" true
     ["Importer un mnémonique"];
   Message false [Loc None "+28"]
     "Confirm wallet creation cancel" true
     ["Confirmer la création de portefeuille annuler"];
   Message false [Loc None "+1"]
     "Are you sure you want to cancel the wallet creation?" true
     ["Etes-vous sûr que vous voulez annuler la création de portefeuille?"];
   Message false [Loc None "+0"]
     "This is only recommended for advanced users to import with custom settings in the debug console or with the RPC interface." true
     ["Ceci est seulement recommandé pour les utilisateurs avancés d&apos;importer avec des paramètres personnalisés dans la console de débogage ou avec l&apos;interface RPC."]].

Definition fr_ModalOverlay : list message :=
  [Message false [Loc (Some "../forms/modaloverlay.ui") "+14"]
     "Form" true
     ["forme"];
   Message false [Loc None "+122"]
     "Recent transactions may not yet be visible, and therefore your wallet&apos;s balance might be incorrect. This information will be correct once your wallet has finished synchronizing with the Bitcoin Confidential network, as detailed below." true
     ["Les transactions récentes peuvent ne pas encore être visibles, et donc le solde de votre portefeuille peut être incorrect. Ces informations seront correctes une fois que votre portefeuille aura terminé sa synchronisation avec le réseau Bitcoin Confidential, comme détaillé ci-dessous."];
   Message false [Loc None "+19"]
     "Attempting to spend coins that are affected by not-yet-displayed transactions will not be accepted by the network." true
     ["Le réseau ne sera pas accepté pour tenter de dépenser des pièces qui sont affectées par des transactions qui ne sont pas encore affichées."];
   Message false [Loc None "+63"]
     "Number of blocks left" true
     ["Nombre de blocs restants"];
   Message false [Loc None "+7"; Loc None "+26"; Loc (Some "../modaloverlay.cpp") "+140"]
     "Unknown..." true
     ["inconnu..."];
   Message false [Loc None "-13"]
     "Last block time" true
     ["Dernière heure de bloc"];
   Message false [Loc None "+26"]
     "Progress" true
     ["progrès"];
   Message false [Loc None "+34"]
     "Progress increase per hour" true
     ["Augmentation des progrès par heure"];
   Message false [Loc None "+7"; Loc None "+20"]
     "calculating..." true
     ["calculateur..."];
   Message false [Loc None "-7"]
     "Estimated time left until synced" true
     ["Temps estimé restant jusqu&apos;à ce qu&apos;il soit synchronisé"];
   Message false [Loc None "+40"]
     "Hide" true
     ["cacher"];
   Message false [Loc (Some "../modaloverlay.cpp") "-1"]
     "Unknown. Syncing Headers (%1)..." true
     ["inconnu. En-têtes de synchronisation (%1)..."]].

Definition fr_OpenURIDialog : list message :=
  [Message false [Loc (Some "../forms/openuridialog.ui") "+14"]
     "Open URI" true
     ["Ouvrez URI"];
   Message false [Loc None "+6"]
     "Open payment request from URI or file" true
     ["Demande de paiement ouverte de l&apos;URI ou du fichier"];
   Message false [Loc None "+9"]
     "URI:" true
     ["Uri:"];
   Message false [Loc None "+10"]
     "Select payment request file" true
     ["Sélectionnez le fichier de demande de paiement"];
   Message false [Loc (Some "../openuridialog.cpp") "+45"]
     "Select payment request file to open" true
     ["Sélectionnez le fichier de demande de paiement pour l&apos;ouvrir"]].

Definition fr_OptionsDialog_1 : list message :=
  [Message false [Loc (Some "../forms/optionsdialog.ui") "+14"]
     "Options" true
     ["Options"];
   Message false [Loc None "+14"]
     "&amp;Main" true
     ["-Main"];
   Message false [Loc None "+13"]
     "W&amp;allet" true
     ["L&apos;allet W-allet"];
   Message false [Loc None "+13"]
     "&amp;Network" true
     ["Réseau"];
   Message false [Loc None "+13"]
     "&amp;Window" true
     ["Fenêtre"];
   Message false [Loc None "+13"]
     "&amp;Display" true
     ["Affichage"];
   Message false [Loc None "+22"]
     "Automatically start %1 after logging in to the system." true
     ["Démarrez automatiquement %1 après vous être rconnecté au système."];
   Message false [Loc None "+3"]
     "&amp;Start %1 on system login" true
     ["Démarrer %1 sur la connexion du système"];
   Message false [Loc None "+22"]
     "Disables some advanced features but all blocks will still be fully validated. Reverting this setting requires re-downloading the entire blockchain. Actual disk usage may be somewhat higher." true
     ["Désapire certaines fonctionnalités avancées, mais tous les blocs seront toujours entièrement validés. Pour inverser ce paramètre, il faut re-télécharger toute la blockchain. L&apos;utilisation réelle du disque peut être un peu plus élevée."];
   Message false [Loc None "+3"]
     "Prune &amp;block storage to" true
     ["Stockage de pruneàpour"];
   Message false [Loc None "+17"]
     "GB" true
     ["Go"];
   Message false [Loc None "+25"]
     "Reverting this setting requires re-downloading the entire blockchain." true
     ["Pour inverser ce paramètre, il faut re-télécharger toute la blockchain."];
   Message false [Loc None "+12"]
     "Size of &amp;database cache" true
     ["Taille du cache de base de données"];
   Message false [Loc None "+23"]
     "MB" true
     ["Mb"];
   Message false [Loc None "+27"]
     "Number of script &amp;verification threads" true
     ["Nombre de threads de script et de vérification"];
   Message false [Loc None "+19"]
     "(0 = auto, &lt;0 = leave that many cores free)" true
     ["(0 auto,&lt;0 = leave that many cores free) ==&quot;&quot; leave=&quot;&quot; that=&quot;&quot; many=&quot;&quot; cores=&quot;&quot;&gt;&lt;/0 = leave that many cores free)&gt;"];
   Message false [Loc None "+39"]
     "Expert" true
     ["expert"];
   Message false [Loc None "+6"]
     "Whether to show coin control features or not." true
     ["Que ce soit pour afficher des caractéristiques de contrôle des pièces ou non."];
   Message false [Loc None "+3"]
     "Enable coin &amp;control features" true
     ["Activer les caractéristiques de contrôle de la pièce de monnaie"];
   Message false [Loc None "+7"]
     "If you disable the spending of unconfirmed change, the change from a transaction cannot be used until that transaction has at least one confirmation. This also affects how your balance is computed." true
     ["Si vous désarignez les dépenses de modification non confirmée, la modification d&apos;une transaction ne peut pas être utilisée jusqu&apos;à ce que cette transaction ait au moins une confirmation. Cela affecte également la façon dont votre équilibre est calculé."];
   Message false [Loc None "+3"]
     "&amp;Spend unconfirmed change" true
     ["-Dépensez le changement non confirmé"];
   Message false [Loc None "+7"]
     "Display notification dialog for incoming stake transactions." true
     ["Afficher le dialogue de notification pour les transactions de pieu entrantes."];
   Message false [Loc None "+3"]
     "&amp;Show incoming stake notifications" true
     ["Afficher les notifications de pieu entrantes"];
   Message false [Loc None "+27"]
     "Automatically open the Bitcoin Confidential client port on the router. This only works when your router supports UPnP and it is enabled." true
     ["Ouvrez automatiquement le port client Bitcoin Confidential sur le routeur. Cela ne fonctionne que lorsque votre routeur prend en charge UPnP et il est activé."];
   Message false [Loc None "+3"]
     "Map port using &amp;UPnP" true
     ["Port de carte à l&apos;aide de l&apos;UPnP"];
   Message false [Loc None "+7"]
     "Accept connections from outside." true
     ["Acceptez les connexions de l&apos;extérieur."];
   Message false [Loc None "+3"]
     "Allow incomin&amp;g connections" true
     ["Autoriser les connexions incomin-g"];
   Message false [Loc None "+7"]
     "Connect to the Bitcoin Confidential network through a SOCKS5 proxy." true
     ["Connectez-vous au réseau Bitcoin Confidential via un proxy SOCKS5."];
   Message false [Loc None "+3"]
     "&amp;Connect through SOCKS5 proxy (default proxy):" true
     ["Connectez-vous via le proxy SOCKS5 (proxy par défaut) :"]].

Definition fr_OptionsDialog_2 : list message :=
  [Message false [Loc None "+9"; Loc None "+193"]
     "Proxy &amp;IP:" true
     ["Proxy IP:"];
   Message false [Loc None "-168"; Loc None "+193"]
     "IP address of the proxy (e.g. IPv4: 127.0.0.1 / IPv6: ::1)" true
     ["Adresse IP du proxy (p. ex. IPv4: 127.0.0.1 / IPv6: ::1)"];
   Message false [Loc None "-183"; Loc None "+193"]
     "&amp;Port:" true
     ["Port:"];
   Message false [Loc None "-168"; Loc None "+193"]
     "Port of the proxy (e.g. 9050)" true
     ["Port de la procuration (p. ex. 9050)"];
   Message false [Loc None "-166"]
     "Used for reaching peers via:" true
     ["Utilisé pour atteindre ses pairs via :"];
   Message false [Loc None "+13"; Loc None "+23"; Loc None "+23"]
     "Shows if the supplied default SOCKS5 proxy is used to reach peers via this network type." true
     ["Affiche si le proxy SOCKS5 par défaut fourni est utilisé pour atteindre ses pairs via ce type de réseau."];
   Message false [Loc None "-36"]
     "IPv4" true
     ["IPv4 (en)"];
   Message false [Loc None "+23"]
     "IPv6" true
     ["IPv6 (en)"];
   Message false [Loc None "+23"]
     "Tor" true
     ["Tor"];
   Message false [Loc None "+25"]
     "Connect to the Bitcoin Confidential network through a separate SOCKS5 proxy for Tor hidden services." true
     ["Connectez-vous au réseau Bitcoin Confidential via un proxy SOCKS5 distinct pour les services cachés Tor."];
   Message false [Loc None "+3"]
     "Use separate SOCKS&amp;5 proxy to reach peers via Tor hidden services:" true
     ["Utilisez un proxy SOCKS-5 distinct pour atteindre vos pairs via les services cachés Tor :"];
   Message false [Loc None "+111"]
     "Hide the icon from the system tray." true
     ["Cachez l&apos;icône du plateau du système."];
   Message false [Loc None "+3"]
     "&amp;Hide tray icon" true
     ["Icône de plateau de cache"];
   Message false [Loc None "+7"]
     "Show only a tray icon after minimizing the window." true
     ["Afficher uniquement une icône de plateau après avoir minimisé la fenêtre."];
   Message false [Loc None "+3"]
     "&amp;Minimize to the tray instead of the taskbar" true
     ["Minimiser le plateau au lieu de la barre des tâches"];
   Message false [Loc None "+7"]
     "Minimize instead of exit the application when the window is closed. When this option is enabled, the application will be closed only after selecting Exit in the menu." true
     ["Minimisez au lieu de quitter l&apos;application lorsque la fenêtre est fermée. Lorsque cette option est activée, l&apos;application ne sera fermée qu&apos;après avoir sélectionné Exit dans le menu."];
   Message false [Loc None "+3"]
     "M&amp;inimize on close" true
     ["M-inimize sur la fermeture"];
   Message false [Loc None "+26"]
     "User Interface &amp;language:" true
     ["Interface utilisateur et langue :"];
   Message false [Loc None "+22"]
     "The user interface language can be set here. This setting will take effect after restarting %1." true
     ["Le langage de l&apos;interface utilisateur peut être réglé ici. Ce paramètre entrera en vigueur après le redémarrage du %1."];
   Message false [Loc None "+11"]
     "&amp;Unit to show amounts in:" true
     ["Unité pour afficher les montants dans :"];
   Message false [Loc None "+22"]
     "Choose the default subdivision unit to show in the interface and when sending coins." true
     ["Choisissez l&apos;unité de subdivision par défaut à afficher dans l&apos;interface et lors de l&apos;envoi de pièces de monnaie."];
   Message false [Loc None "+11"; Loc None "+22"]
     "Third party URLs (e.g. a block explorer) that appear in the transactions tab as context menu items. %s in the URL is replaced by transaction hash. Multiple URLs are separated by vertical bar |." true
     ["URL de tiers (par exemple un explorateur de bloc) qui apparaissent dans l&apos;onglet transactions en tant qu&apos;éléments de menu contextuel. %s dans l&apos;URL est remplacé par le hhassme de transaction. Plusieurs URL sont séparées par une barre verticale."];
   Message false [Loc None "-19"]
     "&amp;Third party transaction URLs" true
     ["URL de transaction de tiers"];
   Message false [Loc None "+50"]
     "Active command-line options that override above options:" true
     ["Options de ligne de commande actives qui l&apos;emportent sur les options ci-dessus :"];
   Message false [Loc None "+45"]
     "Open the %1 configuration file from the working directory." true
     ["Ouvrez le fichier de configuration %1 à partir de l&apos;annuaire de travail."];
   Message false [Loc None "+3"]
     "Open Configuration File" true
     ["Fichier de configuration ouvert"];
   Message false [Loc None "+10"]
     "Reset all client options to default." true
     ["Réinitialisez toutes les options client par défaut."];
   Message false [Loc None "+3"]
     "&amp;Reset Options" true
     ["Options de réinitialise"]].

Definition fr_OptionsDialog_3 : list message :=
  [Message false [Loc None "+80"]
     "&amp;OK" true
     ["OK"];
   Message false [Loc None "+13"]
     "&amp;Cancel" true
     ["Annulation"];
   Message false [Loc (Some "../optionsdialog.cpp") "+109"]
     "default" true
     ["manquer à ses engagements"];
   Message false [Loc None "+56"]
     "none" true
     ["aucun"];
   Message false [Loc None "+82"]
     "Confirm options reset" true
     ["Confirmer les options réinitialisé"];
   Message false [Loc None "+1"; Loc None "+60"]
     "Client restart required to activate changes." true
     ["Redémarrage du client nécessaire pour activer les modifications."];
   Message false [Loc None "-60"]
     "Client will be shut down. Do you want to proceed?" true
     ["Le client sera arrêté. Voulez-vous aller de l&apos;avant?"];
   Message false [Loc None "+15"]
     "Configuration options" true
     ["Options de configuration"];
   Message false [Loc None "+1"]
     "The configuration file is used to specify advanced user options which override GUI settings. Additionally, any command-line options will override this configuration file." true
     ["Le fichier de configuration est utilisé pour spécifier les options d&apos;utilisateur avancées qui l&apos;emportent sur les paramètres de l&apos;interface graphique. En outre, toutes les options de ligne de commande remplaceront ce fichier de configuration."];
   Message false [Loc None "+5"]
     "Error" true
     ["Erreur"];
   Message false [Loc None "+0"]
     "The configuration file could not be opened." true
     ["Le fichier de configuration n&apos;a pas pu être ouvert."];
   Message false [Loc None "+43"]
     "This change would require a client restart." true
     ["Cette modification nécessiterait un redémarrage du client."];
   Message false [Loc None "+28"]
     "The supplied proxy address is invalid." true
     ["L&apos;adresse proxy fournie est invalide."]].

Definition fr_OverviewPage : list message :=
  [Message false [Loc (Some "../forms/overviewpage.ui") "+14"]
     "Form" true
     ["forme"];
   Message false [Loc None "+43"]
     "Bitcoin Confidential Core" true
     ["Noyau confidentiel Bitcoin"];
   Message false [Loc None "+38"; Loc None "+114"; Loc None "+210"]
     "Pending" true
     ["en instance"];
   Message false [Loc None "-308"]
     "Spending" true
     ["dépenses"];
   Message false [Loc None "+108"]
     "Watch-only" true
     ["Regarder uniquement"];
   Message false [Loc None "+73"; Loc None "+191"]
     "Available" true
     ["disponible"];
   Message false [Loc None "-181"]
     "Spendable" true
     ["Dépérable"];
   Message false [Loc None "+41"]
     "Staking" true
     ["Jalonnement"];
   Message false [Loc None "+130"]
     "Immature" true
     ["immature"];
   Message false [Loc None "+86"]
     "Total" true
     ["total"];
   Message false [Loc None "+90"]
     "Recent transactions" true
     ["Transactions récentes"];
   Message false [Loc None "+19"]
     "The displayed information may be out of date. Your wallet automatically synchronizes with the Bitcoin Confidential network after a connection is established, but this process has not completed yet." true
     ["Les informations affichées peuvent être périmées. Votre portefeuille se synchronise automatiquement avec le réseau Bitcoin Confidential après la création d&apos;une connexion, mais ce processus n&apos;est pas encore terminé."]].

Definition fr_PaymentServer : list message :=
  [Message false [Loc (Some "../paymentserver.cpp") "+317"; Loc None "+215"; Loc None "+42"; Loc None "+110"; Loc None "+14"; Loc None "+18"]
     "Payment request error" true
     ["Erreur de demande de paiement"];
   Message false [Loc None "-398"]
     "Cannot start bitcoinc: click-to-pay handler" true
     ["Impossible de commencer bitcoinc: click-to-pay handler"];
   Message false [Loc None "+82"; Loc None "+21"; Loc None "+13"; Loc None "+7"]
     "URI handling" true
     ["Manipulation de l&apos;URI"];
   Message false [Loc None "-41"]
     "&apos;bitcoin://&apos; is not a valid URI. Use &apos;bitcoin:&apos; instead." true
     ["&apos;bitcoin://&apos; n&apos;est pas un URI valide. Utilisez &apos;bitcoin:&apos; à la place."];
   Message false [Loc None "+22"]
     "Payment request fetch URL is invalid: %1" true
     ["Demande de paiement chercher URL est invalide: %1"];
   Message false [Loc None "+12"]
     "Invalid payment address %1" true
     ["Adresse de paiement invalide %1"];
   Message false [Loc None "+8"]
     "URI cannot be parsed! This can be caused by an invalid Bitcoin Confidential address or malformed URI parameters." true
     ["URI ne peut pas être anapé! Cela peut être causé par une adresse Bitcoin Confidential invalide ou des paramètres URI mal formés."];
   Message false [Loc None "+13"]
     "Payment request file handling" true
     ["Traitement des dossiers de demande de paiement"];
   Message false [Loc None "+1"]
     "Payment request file cannot be read! This can be caused by an invalid payment request file." true
     ["Le fichier de demande de paiement ne peut pas être lu! Cela peut être causé par un fichier de demande de paiement non valide."];
   Message false [Loc None "+61"; Loc None "+9"; Loc None "+31"; Loc None "+10"; Loc None "+17"; Loc None "+85"]
     "Payment request rejected" true
     ["Demande de paiement rejetée"];
   Message false [Loc None "-152"]
     "Payment request network doesn&apos;t match client network." true
     ["Le réseau de demande de paiement ne correspond pas au réseau client."];
   Message false [Loc None "+9"]
     "Payment request expired." true
     ["La demande de paiement a expiré."];
   Message false [Loc None "+6"]
     "Payment request is not initialized." true
     ["La demande de paiement n&apos;est pas paraphée."];
   Message false [Loc None "+26"]
     "Unverified payment requests to custom payment scripts are unsupported." true
     ["Les demandes de paiement non vérifiées aux scripts de paiement personnalisés ne sont pas prises en charge."];
   Message false [Loc None "+9"; Loc None "+17"]
     "Invalid payment request." true
     ["Demande de paiement invalide."];
   Message false [Loc None "-10"]
     "Requested payment amount of %1 is too small (considered dust)." true
     ["Le montant de paiement demandé de %1 est trop petit (considéré comme de la poussière)."];
   Message false [Loc None "+65"]
     "Refund from %1" true
     ["Remboursement à partir de %1"];
   Message false [Loc None "+31"]
     "Payment request %1 is too large (%2 bytes, allowed %3 bytes)." true
     ["La demande de paiement %1 est trop grande (%2 octets, octets autorisés %3)."];
   Message false [Loc None "+9"]
     "Error communicating with %1: %2" true
     ["Erreur de communication avec %1: %2"];
   Message false [Loc None "+20"]
     "Payment request cannot be parsed!" true
     ["La demande de paiement ne peut pas être anadisée!"];
   Message false [Loc None "+13"]
     "Bad response from server %1" true
     ["Mauvaise réponse du serveur %1"];
   Message false [Loc None "+22"]
     "Network request error" true
     ["Erreur de demande réseau"];
   Message false [Loc None "+11"]
     "Payment acknowledged" true
     ["Paiement reconnu"]].

Definition fr_PeerTableModel : list message :=
  [Message false [Loc (Some "../peertablemodel.cpp") "+109"]
     "NodeId" true
     ["NodeId (NodeId)"];
   Message false [Loc None "+0"]
     "Node/Service" true
     ["Noeud/service"];
   Message false [Loc None "+0"]
     "Ping" true
     ["tintement"];
   Message false [Loc None "+0"]
     "Sent" true
     ["Envoyé"];
   Message false [Loc None "+0"]
     "Received" true
     ["Reçu"];
   Message false [Loc None "+0"]
     "User Agent" true
     ["Agent utilisateur"]].

Definition fr_QObject : list message :=
  [Message false [Loc (Some "../bitcoinunits.cpp") "+196"]
     "Amount" true
     ["quantité"];
   Message false [Loc (Some "../guiutil.cpp") "+96"]
     "Enter Spending address" true
     ["Entrez l&apos;adresse Dépenses"];
   Message false [Loc None "+12"]
     "Enter ColdStake address" true
     ["Entrez l&apos;adresse ColdStake"];
   Message false [Loc None "+2"]
     "Enter Stake address of remote node" true
     ["Entrez l&apos;adresse de pieu du nœud distant"];
   Message false [Loc None "+2"]
     "Enter Stake address" true
     ["Entrez l&apos;adresse de pieu"];
   Message false [Loc None "+687"]
     "%1 d" true
     ["%1 d"];
   Message false [Loc None "+2"]
     "%1 h" true
     ["%1 h"];
   Message false [Loc None "+2"]
     "%1 m" true
     ["%1 m"];
   Message false [Loc None "+2"; Loc None "+53"]
     "%1 s" true
     ["%1 s"];
   Message false [Loc None "-10"]
     "None" true
     ["aucun"];
   Message false [Loc None "+5"]
     "N/A" true
     ["ne s&apos;applique pas"];
   Message false [Loc None "+0"]
     "%1 ms" true
     ["%1 ms"];
   Message true [Loc None "+18"]
     "%n second(s)" true
     ["%n seconde(s)"; "%n seconde(s)"];
   Message true [Loc None "+4"]
     "%n minute(s)" true
     ["%n minute(s)"; "%n minute(s)"];
   Message true [Loc None "+4"]
     "%n hour(s)" true
     ["%n heure (s)"; "%n heure (s)"];
   Message true [Loc None "+4"]
     "%n day(s)" true
     ["%n jour (s)"; "%n jour (s)"];
   Message true [Loc None "+4"; Loc None "+6"]
     "%n week(s)" true
     ["%n semaine (s)"; "%n semaine (s)"];
   Message false [Loc None "+0"]
     "%1 and %2" true
     ["%1 et %2"];
   Message true [Loc None "+0"]
     "%n year(s)" true
     ["%n année (s)"; "%n année (s)"];
   Message false [Loc None "+8"]
     "%1 B" true
     ["%1 B"];
   Message false [Loc None "+2"]
     "%1 KB" true
     ["%1 KB"];
   Message false [Loc None "+2"]
     "%1 MB" true
     ["%1 Mo"];
   Message false [Loc None "+2"]
     "%1 GB" true
     ["%1 Go"];
   Message false [Loc None "+71"]
     "All spending funds are sent and received anonymously. Only the sender and receiver have details of their side of the transaction. Staking funds need to be converted to spending before sending out of wallet. Funds require %1 confirmations (%2 minutes) before sending." true
     ["Tous les fonds de dépenses sont envoyés et reçus anonymement. Seul l&apos;expéditeur et le récepteur ont des détails sur leur côté de la transaction. Les fonds de jalonnement doivent être convertis en dépenses avant d&apos;envoyer hors du portefeuille. Les fonds nécessitent des confirmations %1 (%2 minutes) avant d&apos;envoyer."];
   Message false [Loc None "+15"]
     "Staking funds cannot be sent out of your wallet without converting to spending. After converting to spending, %1 confirmations (%2 minutes) are required before sending." true
     ["Les fonds de jalonnement ne peuvent pas être envoyés hors de votre portefeuille sans se convertir aux dépenses. Après la conversion aux dépenses, %1 confirmations (%2 minutes) sont nécessaires avant l&apos;envoi."];
   Message false [Loc (Some "../modaloverlay.cpp") "-29"]
     "unknown" true
     ["inconnu"];
   Message false [Loc (Some "../bitcoin.cpp") "+186"]
     "%1 didn&apos;t yet exit safely..." true
     ["%1 n&apos;est pas encore sorti en toute sécurité..."]].

Definition fr_QObject__QObject : list message :=
  [Message false [Loc None "-117"]
     "Error parsing command line arguments: %1." true
     ["Erreur d&apos;analyse des arguments de la ligne de commande : %1."];
   Message false [Loc None "+38"]
     "Error: Specified data directory &quot;%1&quot; does not exist." true
     ["Erreur : Répertoire de données spécifiés « %1 » n&apos;existe pas."];
   Message false [Loc None "+5"]
     "Error: Cannot parse configuration file: %1." true
     ["Erreur : Impossible d&apos;analyse du fichier de configuration : %1."];
   Message false [Loc None "+14"]
     "Error: %1" true
     ["Erreur: %1"]].

Definition fr_QRImageWidget : list message :=
  [Message false [Loc (Some "../receiverequestdialog.cpp") "+32"]
     "&amp;Save Image..." true
     ["- Enregistrer l&apos;image ..."];
   Message false [Loc None "+3"]
     "&amp;Copy Image" true
     ["Image de copie"];
   Message false [Loc None "+32"]
     "Save QR Code" true
     ["Enregistrer le code QR"];
   Message false [Loc None "+0"]
     "PNG Image (*.png)" true
     ["Image PNG (.png)"]].

Definition fr_RPCConsole_1 : list message :=
  [Message false [Loc (Some "../forms/debugwindow.ui") "+14"]
     "Debug window" true
     ["Fenêtre Debug"];
   Message false [Loc None "+11"]
     "Information" true
     ["renseignements"];
   Message false [Loc None "+13"]
     "Console" true
     ["consoler"];
   Message false [Loc None "+10"]
     "Network Traffic" true
     ["Trafic réseau"];
   Message false [Loc None "+10"]
     "Peers" true
     ["Pairs"];
   Message false [Loc None "+21"; Loc None "+1004"]
     "User Agent" true
     ["Agent utilisateur"];
   Message false [Loc None "-988"]
     "Block chain" true
     ["Chaîne de bloc"];
   Message false [Loc None "+7"]
     "Client version" true
     ["Version client"];
   Message false [Loc None "+13"]
     "General" true
     ["culture générale"];
   Message false [Loc None "+13"]
     "Memory Pool" true
     ["Piscine Mémoire"];
   Message false [Loc None "+7"]
     "Current number of blocks" true
     ["Nombre actuel de blocs"];
   Message false [Loc None "+13"]
     "Network" true
     ["réseau"];
   Message false [Loc None "+7"]
     "Number of connections" true
     ["Nombre de connexions"];
   Message false [Loc None "+7"]
     "Startup time" true
     ["Temps de démarrage"];
   Message false [Loc None "+7"]
     "Name" true
     ["nom"];
   Message false [Loc None "+7"]
     "Last block time" true
     ["Dernière heure de bloc"];
   Message false [Loc None "+7"]
     "Using BerkeleyDB version" true
     ["Utilisation de la version BerkeleyDB"];
   Message false [Loc None "+10"]
     "Datadir" true
     ["Datadir (en anglais)"];
   Message false [Loc None "+7"]
     "Memory usage" true
     ["Utilisation de la mémoire"];
   Message false [Loc None "+7"]
     "Current number of transactions" true
     ["Nombre actuel de transactions"];
   Message false [Loc None "+10"; Loc None "+16"; Loc None "+16"; Loc None "+16"; Loc None "+19"; Loc None "+16"; Loc None "+16"; Loc None "+16"; Loc None "+16"; Loc None "+16"; Loc None "+16"; Loc None "+644"; Loc None "+23"; Loc None "+23"; Loc None "+23"; Loc None "+23"; Loc None "+23"; Loc None "+23"; Loc None "+23"; Loc None "+23"; Loc None "+23"; Loc None "+23"; Loc None "+23"; Loc None "+23"; Loc None "+23"; Loc None "+23"; Loc None "+26"; Loc None "+23"; Loc None "+23"]
     "N/A" true
     ["ne s&apos;applique pas"];
   Message false [Loc None "-988"]
     "Debug log file" true
     ["Fichier journal Debug"];
   Message false [Loc None "+7"]
     "Open the %1 debug log file from the current data directory. This can take a few seconds for large log files." true
     ["Ouvrez le fichier de journal de débogage %1 à partir de l&apos;annuaire de données actuel. Cela peut prendre quelques secondes pour les fichiers journaux volumineux."]].

Definition fr_RPCConsole_2 : list message :=
  [Message false [Loc None "+3"]
     "&amp;Open" true
     ["Ouvert"];
   Message false [Loc None "+25"]
     "Wallet: " true
     ["portefeuille:"];
   Message false [Loc None "+8"]
     "(none)" true
     ["(aucun)"];
   Message false [Loc None "+27"]
     "Decrease font size" true
     ["Diminuer la taille de la police"];
   Message false [Loc None "+32"]
     "Increase font size" true
     ["Augmenter la taille de la police"];
   Message false [Loc None "+32"]
     "Clear console" true
     ["Console claire"];
   Message false [Loc None "+111"]
     "&amp;Reset" true
     ["Réinitialisez"];
   Message false [Loc None "+16"]
     "Totals" true
     ["Totaux"];
   Message false [Loc None "+67"; Loc None "+555"]
     "Received" true
     ["Reçu"];
   Message false [Loc None "-475"; Loc None "+452"]
     "Sent" true
     ["Envoyé"];
   Message false [Loc None "-361"]
     "Banned peers" true
     ["Pairs interdits"];
   Message false [Loc None "+60"; Loc (Some "../rpcconsole.cpp") "+510"; Loc None "+760"]
     "Select a peer to view detailed information." true
     ["Sélectionnez un pair pour afficher des informations détaillées."];
   Message false [Loc None "+25"]
     "Whitelisted" true
     ["Liste blanche"];
   Message false [Loc None "+23"]
     "Direction" true
     ["direction"];
   Message false [Loc None "+23"]
     "Version" true
     ["Version"];
   Message false [Loc None "+46"]
     "Services" true
     ["Services"];
   Message false [Loc None "+23"]
     "Starting Block" true
     ["starting-block"];
   Message false [Loc None "+23"]
     "Synced Headers" true
     ["En-têtes synchronisés"];
   Message false [Loc None "+23"]
     "Synced Blocks" true
     ["Blocs synchronisés"];
   Message false [Loc None "+23"]
     "Ban Score" true
     ["Score d&apos;interdiction"];
   Message false [Loc None "+23"]
     "Connection Time" true
     ["Temps de connexion"];
   Message false [Loc None "+23"]
     "Last Send" true
     ["Dernier envoi"];
   Message false [Loc None "+23"]
     "Last Receive" true
     ["Dernière réception"];
   Message false [Loc None "+69"]
     "Ping Time" true
     ["Temps de Ping"];
   Message false [Loc None "+23"]
     "The duration of a currently outstanding ping." true
     ["La durée d&apos;un ping actuellement en suspens."];
   Message false [Loc None "+3"]
     "Ping Wait" true
     ["Ping Attendre"];
   Message false [Loc None "+23"]
     "Min Ping" true
     ["Min Ping (en)"];
   Message false [Loc None "+23"]
     "Time Offset" true
     ["Décalage temporel"];
   Message false [Loc (Some "../rpcconsole.cpp") "-667"]
     "&amp;Disconnect" true
     ["Déconnexion"]].

Definition fr_RPCConsole_3 : list message :=
  [Message false [Loc None "+1"; Loc None "+1"; Loc None "+1"; Loc None "+1"]
     "Ban for" true
     ["Interdiction pour"];
   Message false [Loc None "-3"]
     "1 &amp;hour" true
     ["1 heure"];
   Message false [Loc None "+1"]
     "1 &amp;day" true
     ["1 jour"];
   Message false [Loc None "+1"]
     "1 &amp;week" true
     ["1 semaine"];
   Message false [Loc None "+1"]
     "1 &amp;year" true
     ["1 an et plus"];
   Message false [Loc None "+48"]
     "&amp;Unban" true
     ["Unban"];
   Message false [Loc None "+54"]
     "default wallet" true
     ["portefeuille par défaut"];
   Message false [Loc None "+110"]
     "Welcome to the %1 RPC console." true
     ["Bienvenue sur la console %1 RPC."];
   Message false [Loc None "+1"]
     "Use up and down arrows to navigate history, and %1 to clear screen." true
     ["Utilisez des flèches de haut en bas pour naviguer dans l&apos;historique, et %1 pour effacer l&apos;écran."];
   Message false [Loc None "+1"]
     "Type %1 for an overview of available commands." true
     ["Type %1 pour un aperçu des commandes disponibles."];
   Message false [Loc None "+1"]
     "For more information on using this console type %1." true
     ["Pour plus d&apos;informations sur l&apos;utilisation de ce type de console %1."];
   Message false [Loc None "+2"]
     "WARNING: Scammers have been active, telling users to type commands here, stealing their wallet contents. Do not use this console without fully understanding the ramifications of a command." true
     ["AVERTISSEMENT: Les fraudeurs ont été actifs, en disant aux utilisateurs de taper des commandes ici, voler leur contenu de portefeuille. N&apos;utilisez pas cette console sans bien comprendre les ramifications d&apos;une commande."];
   Message false [Loc None "+32"]
     "In:" true
     ["dans:"];
   Message false [Loc None "+1"]
     "Out:" true
     ["hors de:"];
   Message false [Loc None "+3"]
     "Network activity disabled" true
     ["Activité réseau désactivée"];
   Message false [Loc None "+68"]
     "Executing command without any wallet" true
     ["Exécution de la commande sans portefeuille"];
   Message false [Loc None "+2"]
     "Executing command using &quot;%1&quot; wallet" true
     ["Exécution de la commande à l&apos;aide du portefeuille &quot;%1&quot;"];
   Message false [Loc None "+190"]
     "(node id: %1)" true
     ["(noeud id: %1)"];
   Message false [Loc None "+2"]
     "via %1" true
     ["via %1"];
   Message false [Loc None "+3"; Loc None "+1"]
     "never" true
     ["jamais"];
   Message false [Loc None "+10"]
     "Inbound" true
     ["en provenance"];
   Message false [Loc None "+0"]
     "Outbound" true
     ["aller"];
   Message false [Loc None "+2"]
     "Yes" true
     ["ouais"];
   Message false [Loc None "+0"]
     "No" true
     ["non"];
   Message false [Loc None "+12"; Loc None "+6"]
     "Unknown" true
     ["inconnu"]].

Definition fr_ReceiveCoinsDialog : list message :=
  [Message false [Loc (Some "../forms/receivecoinsdialog.ui") "+59"]
     "Stake" true
     ["intérêt"];
   Message false [Loc None "+5"]
     "ColdStake" true
     ["ColdStake (en)"];
   Message false [Loc None "+14"]
     "&amp;Request payment" true
     ["Paiement de la demande"];
   Message false [Loc None "+17"]
     "Clear all fields of the form." true
     ["Effacer tous les champs de la forme."];
   Message false [Loc None "+3"]
     "Clear" true
     ["débarrasser"];
   Message false [Loc None "+56"; Loc None "+79"]
     "An optional amount to request. Leave this empty or zero to not request a specific amount." true
     ["Un montant facultatif à demander. Laissez ce vide ou zéro de ne pas demander un montant spécifique."];
   Message false [Loc None "-57"]
     "Use bech32 encoding." true
     ["Utilisez l&apos;encodage bech32."];
   Message false [Loc None "+3"]
     "Generate native segwit (Bech32) address" true
     ["Générer l&apos;adresse segwit (Bech32) native"];
   Message false [Loc None "+22"; Loc None "+55"]
     "An optional label to associate with the new receiving address." true
     ["Une étiquette facultative à associer à la nouvelle adresse de réception."];
   Message false [Loc None "-52"]
     "&amp;Label:" true
     ["Étiquette :"];
   Message false [Loc None "+13"; Loc None "+53"]
     "An optional message to attach to the payment request, which will be displayed when the request is opened. Note: The message will not be sent with the payment over the Bitcoin Confidential network." true
     ["Un message facultatif à joindre à la demande de paiement, qui sera affiché lors de l&apos;ouverture de la demande. Remarque : Le message ne sera pas envoyé avec le paiement sur le réseau Bitcoin Confidential."];
   Message false [Loc None "-50"]
     "&amp;Message:" true
     ["Message:"];
   Message false [Loc None "+16"]
     "&amp;Amount:" true
     ["Montant :"];
   Message false [Loc None "+13"]
     "Use this form to request payments. All fields are &lt;b&gt;optional&lt;/b&gt;." true
     ["Utilisez ce formulaire pour demander des paiements. Tous les &lt;b&gt;&lt;/b&gt;champs sont facultatifs."];
   Message false [Loc None "+63"]
     "Requested payments history" true
     ["Historique des paiements demandés"];
   Message false [Loc None "+31"]
     "Show the selected request (does the same as double clicking an entry)" true
     ["Afficher la demande sélectionnée (fait la même chose que le double clic d&apos;une entrée)"];
   Message false [Loc None "+3"]
     "Show" true
     ["montrer"];
   Message false [Loc None "+17"]
     "Remove the selected entries from the list" true
     ["Supprimer les entrées sélectionnées de la liste"];
   Message false [Loc None "+3"]
     "Remove" true
     ["enlever"];
   Message false [Loc (Some "../receivecoinsdialog.cpp") "+40"]
     "Copy URI" true
     ["Copier URI"];
   Message false [Loc None "+1"]
     "Copy label" true
     ["Étiquette de copie"];
   Message false [Loc None "+1"]
     "Copy message" true
     ["Copier le message"];
   Message false [Loc None "+1"]
     "Copy amount" true
     ["Montant de copie"]].

Definition fr_ReceiveRequestDialog : list message :=
  [Message false [Loc (Some "../forms/receiverequestdialog.ui") "+29"]
     "QR Code" true
     ["Code QR"];
   Message false [Loc None "+46"]
     "Copy &amp;URI" true
     ["Copie de l&apos;URI"];
   Message false [Loc None "+10"]
     "Copy &amp;Address" true
     ["Copie et adresse"];
   Message false [Loc None "+10"]
     "&amp;Save Image..." true
     ["- Enregistrer l&apos;image ..."];
   Message false [Loc (Some "../receiverequestdialog.cpp") "+65"]
     "Request payment to %1" true
     ["Demande de paiement au %1"];
   Message false [Loc None "+6"]
     "Payment information" true
     ["Informations de paiement"];
   Message false [Loc None "+1"]
     "URI" true
     ["Uri"];
   Message false [Loc None "+2"]
     "Address" true
     ["adresse"];
   Message false [Loc None "+2"]
     "Amount" true
     ["quantité"];
   Message false [Loc None "+2"]
     "Label" true
     ["étiquette"];
   Message false [Loc None "+2"]
     "Message" true
     ["Message"];
   Message false [Loc None "+2"]
     "Wallet" true
     ["portefeuille"];
   Message false [Loc None "+11"]
     "Resulting URI too long, try to reduce the text for label / message." true
     ["Résultat URI trop longtemps, essayez de réduire le texte pour l&apos;étiquette / message."];
   Message false [Loc None "+5"]
     "Error encoding URI into QR Code." true
     ["Erreur de codage URI dans Le code QR."]].

Definition fr_RecentRequestsTableModel : list message :=
  [Message false [Loc (Some "../recentrequeststablemodel.cpp") "+25"; Loc None "+4"]
     "Date" true
     ["date"];
   Message false [Loc None "-4"; Loc None "+4"]
     "Label" true
     ["étiquette"];
   Message false [Loc None "+0"]
     "Message" true
     ["Message"];
   Message false [Loc None "+42"]
     "(no label)" true
     ["(pas d&apos;étiquette)"];
   Message false [Loc None "+9"]
     "(no message)" true
     ["(pas de message)"];
   Message false [Loc None "+8"]
     "(no amount requested)" true
     ["(aucun montant demandé)"];
   Message false [Loc None "+45"]
     "Requested" true
     ["Demandé"]].

Definition fr_SendCoinsDialog_1 : list message :=
  [Message false [Loc (Some "../forms/sendcoinsdialog.ui") "+14"; Loc (Some "../sendcoinsdialog.cpp") "+806"]
     "Send Coins" true
     ["Envoyer des pièces"];
   Message false [Loc None "+105"]
     "Inputs..." true
     ["Entrées..."];
   Message false [Loc None "+10"]
     "automatically selected" true
     ["sélectionnée automatiquement"];
   Message false [Loc None "+19"]
     "Insufficient funds!" true
     ["Des fonds insuffisants !"];
   Message false [Loc None "+89"]
     "Quantity:" true
     ["quantité:"];
   Message false [Loc None "+35"]
     "Bytes:" true
     ["Octets:"];
   Message false [Loc None "+48"]
     "Amount:" true
     ["quantité:"];
   Message false [Loc None "+32"]
     "Dust:" true
     ["poussière:"];
   Message false [Loc None "+48"]
     "Fee:" true
     ["honoraires:"];
   Message false [Loc None "+51"]
     "After Fee:" true
     ["Après frais:"];
   Message false [Loc None "+32"]
     "Change:" true
     ["changement:"];
   Message false [Loc None "+44"]
     "If this is activated, but the change address is empty or invalid, change will be sent to a newly generated address." true
     ["Si cela est activé, mais que l&apos;adresse de modification est vide ou invalide, la modification sera envoyée à une adresse nouvellement générée."];
   Message false [Loc None "+3"]
     "Custom change address" true
     ["Adresse de changement personnalisée"];
   Message false [Loc None "+256"]
     "Transaction Fee:" true
     ["Frais de transaction:"];
   Message false [Loc None "+14"]
     "Choose..." true
     ["choisir..."];
   Message false [Loc None "+30"]
     "Using the fallbackfee can result in sending a transaction that will take several hours or days (or never) to confirm. Consider choosing your fee manually or wait until you have validated the complete chain." true
     ["L&apos;utilisation du frais de repli peut entraîner l&apos;envoi d&apos;une transaction qui prendra plusieurs heures ou plusieurs jours (ou jamais) à confirmer. Envisagez de choisir vos frais manuellement ou d&apos;attendre d&apos;avoir validé la chaîne complète."];
   Message false [Loc None "+3"]
     "Warning: Fee estimation is currently not possible." true
     ["Avertissement : L&apos;estimation des frais n&apos;est actuellement pas possible."];
   Message false [Loc None "+26"]
     "collapse fee-settings" true
     ["effondrement des frais-réglages"];
   Message false [Loc None "+3"]
     "Hide" true
     ["cacher"];
   Message false [Loc None "+48"]
     "Specify a custom fee per kB (1,000 bytes) of the transaction's virtual size.

Note:  Since the fee is calculated on a per-byte basis, a fee of &quot;100 satoshis per kB&quot; for a transaction size of 500 bytes (half of 1 kB) would ultimately yield a fee of only 50 satoshis." true
     ["Spécifiez des frais personnalisés par kB (1 000 octets) de la taille virtuelle de la transaction.

Remarque : Étant donné que les frais sont calculés au per-octet, des frais de « 100 satoshis par kB » pour une transaction de 500 octets (la moitié de 1 kB) rapporteraient finalement des frais de seulement 50 satoshis."];
   Message false [Loc None "+5"]
     "per kilobyte" true
     ["par kilooctet"];
   Message false [Loc None "+27"; Loc None "+13"]
     "Paying only the minimum fee is just fine as long as there is less transaction volume than space in the blocks. But be aware that this can end up in a never confirming transaction once there is more demand for Bitcoin Confidential transactions than the network can process." true
     ["Payer seulement les frais minimums est très bien tant qu&apos;il ya moins de volume de transaction que l&apos;espace dans les blocs. Mais sachez que cela peut se retrouver dans une transaction de ne jamais confirmer une fois qu&apos;il ya plus de demande pour les transactions Bitcoin Confidential que le réseau peut traiter."];
   Message false [Loc None "+3"]
     "(read the tooltip)" true
     ["(lire l&apos;outil)"];
   Message false [Loc None "+29"]
     "Recommended:" true
     ["conseillé:"];
   Message false [Loc None "+30"]
     "Custom:" true
     ["coutume:"];
   Message false [Loc None "+52"]
     "(Smart fee not initialized yet. This usually takes a few blocks...)" true
     ["(Frais intelligents pas encore paraphés. Cela prend généralement quelques blocs ...)"];
   Message false [Loc None "+29"]
     "Confirmation time target:" true
     ["Objectif de temps de confirmation :"];
   Message false [Loc None "+74"]
     "With Replace-By-Fee (BIP-125) you can increase a transaction&apos;s fee after it is sent. Without this, a higher fee may be recommended to compensate for increased transaction delay risk." true
     ["Avec Replace-By-Fee (BIP-125), vous pouvez augmenter les frais d&apos;une transaction après son envoi. Sans cela, des frais plus élevés peuvent être recommandés pour compenser l&apos;augmentation du risque de retard de transaction."]].

Definition fr_SendCoinsDialog_2 : list message :=
  [Message false [Loc None "+3"]
     "Enable Replace-By-Fee" true
     ["Activer remplacer par la taxe"];
   Message false [Loc None "+37"]
     "Confirm the send action" true
     ["Confirmer l&apos;action d&apos;envoi"];
   Message false [Loc None "+3"]
     "S&amp;end" true
     ["L&apos;estomnon"];
   Message false [Loc None "+23"]
     "Clear all fields of the form." true
     ["Effacer tous les champs de la forme."];
   Message false [Loc None "+3"]
     "Clear &amp;All" true
     ["Clair et tout"];
   Message false [Loc None "+14"]
     "Send to multiple recipients at once" true
     ["Envoyer à plusieurs destinataires à la fois"];
   Message false [Loc None "+3"]
     "Add &amp;Recipient" true
     ["Ajouter le destinataire"];
   Message false [Loc None "+38"]
     "Balance:" true
     ["équilibre:"];
   Message false [Loc (Some "../sendcoinsdialog.cpp") "-730"]
     "Add Output" true
     ["Ajouter la sortie"];
   Message false [Loc None "+3"]
     "Add Recipient" true
     ["Ajouter Le destinataire"];
   Message false [Loc None "+14"]
     "Copy quantity" true
     ["Quantité de copie"];
   Message false [Loc None "+1"]
     "Copy amount" true
     ["Montant de copie"];
   Message false [Loc None "+1"]
     "Copy fee" true
     ["Frais de copie"];
   Message false [Loc None "+1"]
     "Copy after fee" true
     ["Copie après frais"];
   Message false [Loc None "+1"]
     "Copy bytes" true
     ["Copier les octets"];
   Message false [Loc None "+1"]
     "Copy dust" true
     ["Copier la poussière"];
   Message false [Loc None "+1"]
     "Copy change" true
     ["Modification de copie"];
   Message false [Loc None "+88"]
     "%1 (%2 blocks)" true
     ["%1 (%2 blocs)"];
   Message false [Loc None "+39"]
     "This tab allows manually activating Staking funds for ColdStaking. This will take longer than the &quot;Automated ColdStaking activation&quot; to start staking but wallet does not need to be online for the activation." true
     ["Cet onglet permet d&apos;activer manuellement les fonds de jalonnement pour ColdStaking. Cela prendra plus de temps que l&apos;activation &quot;Automated ColdStaking&quot; pour commencer le jalonnement, mais le portefeuille n&apos;a pas besoin d&apos;être en ligne pour l&apos;activation."];
   Message false [Loc None "+103"]
     "Error Remote Staking Address" true
     ["Adresse de prise à distance d&apos;erreur"];
   Message false [Loc None "+0"]
     "The remote stake address can&apos;t be part of this wallet." true
     ["L&apos;adresse de pieu à distance ne peut pas faire partie de ce portefeuille."];
   Message false [Loc None "+96"]
     "from wallet %1" true
     ["du portefeuille %1"];
   Message false [Loc None "+21"; Loc None "+5"; Loc None "+5"; Loc None "+4"]
     "%1 to %2" true
     ["%1 à %2"];
   Message false [Loc None "+6"]
     "Are you sure you want to send?" true
     ["Etes-vous sûr que vous voulez envoyer?"];
   Message false [Loc None "+2"]
     "Please, review your transaction." true
     ["Veuillez examiner votre transaction."];
   Message false [Loc None "+11"]
     "Estimated Transaction fee" true
     ["Frais de transaction estimés"];
   Message false [Loc None "+13"]
     "removed for transaction fee" true
     ["supprimé pour frais de transaction"];
   Message false [Loc None "+2"]
     "added as transaction fee" true
     ["ajouté s&apos;il s&apos;ajoutait des frais de transaction"];
   Message false [Loc None "+5"]
     "You can increase the fee later (signals Replace-By-Fee, BIP-125)." true
     ["Vous pouvez augmenter les frais plus tard (signaux Remplacer-par-Fee, BIP-125)."]].

Definition fr_SendCoinsDialog_3 : list message :=
  [Message false [Loc None "+2"]
     "Not signalling Replace-By-Fee, BIP-125." true
     ["Ne pas signaler Remplacer-par-Fee, BIP-125."];
   Message false [Loc None "+12"]
     "Total Amount" true
     ["Montant total"];
   Message false [Loc None "+6"]
     "Your hardware device must be connected to sign this txn." true
     ["Votre appareil matériel doit être connecté pour signer ce txn."];
   Message false [Loc None "+4"]
     "Confirm send coins" true
     ["Confirmer envoyer des pièces"];
   Message false [Loc None "+248"]
     "The recipient address is not valid. Please recheck." true
     ["L&apos;adresse du destinataire n&apos;est pas valide. S&apos;ll vous plaît, vérifiez à nouveau."];
   Message false [Loc None "+3"]
     "The amount to pay must be larger than 0." true
     ["Le montant à payer doit être supérieur à 0."];
   Message false [Loc None "+3"]
     "The amount exceeds your balance." true
     ["Le montant dépasse votre solde."];
   Message false [Loc None "+3"]
     "The total exceeds your balance when the %1 transaction fee is included." true
     ["Le total dépasse votre solde lorsque les frais de transaction en % 1 sont inclus."];
   Message false [Loc None "+3"]
     "Duplicate address found: addresses should only be used once each." true
     ["Double adresse trouvée : les adresses ne doivent être utilisées qu&apos;une seule fois chacune."];
   Message false [Loc None "+3"]
     "Transaction creation failed!" true
     ["La création de transaction a échoué !"];
   Message false [Loc None "+4"]
     "The transaction was rejected with the following reason: %1" true
     ["La transaction a été rejetée pour la raison suivante : %1"];
   Message false [Loc None "+4"]
     "A fee higher than %1 is considered an absurdly high fee." true
     ["Un droit supérieur à %1 est considéré comme un droit absurdement élevé."];
   Message false [Loc None "+3"]
     "Payment request expired." true
     ["La demande de paiement a expiré."];
   Message false [Loc None "+96"]
     "Pay only the required fee of %1" true
     ["Ne payez que les frais requis de %1"];
   Message true [Loc None "+76"]
     "Estimated to begin confirmation within %n block(s)." true
     ["Estimation pour commencer la confirmation dans les blocs %n(s)."; "Estimation pour commencer la confirmation dans les blocs %n(s)."];
   Message false [Loc None "+130"]
     "Warning: Invalid Bitcoin Confidential address" true
     ["Avertissement: Adresse confidentielle Bitcoin invalide"];
   Message false [Loc None "+8"]
     "Error custom change address" true
     ["Adresse de changement personnalisée d&apos;erreur"];
   Message false [Loc None "+0"]
     "The address you selected for change is not part of this wallet." true
     ["L&apos;adresse que vous avez sélectionnée pour le changement ne fait pas partie de ce portefeuille."];
   Message false [Loc None "+15"]
     "(no label)" true
     ["(pas d&apos;étiquette)"]].

Definition fr_SendCoinsEntry_1 : list message :=
  [Message false [Loc (Some "../forms/sendcoinsentry.ui") "+30"]
     "This is a normal payment." true
     ["Il s&apos;agit d&apos;un paiement normal."];
   Message false [Loc None "+71"; Loc None "+463"; Loc None "+130"]
     "Subtract fee from amount" true
     ["Soustrayez les frais du montant"];
   Message false [Loc None "-580"; Loc None "+463"; Loc None "+130"]
     "Use available balance" true
     ["Utiliser le solde disponible"];
   Message false [Loc None "-562"]
     "Message" true
     ["Message"];
   Message false [Loc None "+24"; Loc None "+261"]
     "The Bitcoin Confidential address to send the payment to" true
     ["L&apos;adresse Bitcoin Confidential pour envoyer le paiement à"];
   Message false [Loc None "-254"; Loc None "+261"; Loc None "+297"; Loc None "+104"]
     "Choose previously used address" true
     ["Choisissez l&apos;adresse précédemment utilisée"];
   Message false [Loc None "-646"; Loc None "+261"; Loc None "+297"; Loc None "+104"]
     "Alt+A" true
     ["Alt-A (Alt-A)"];
   Message false [Loc None "-655"; Loc None "+261"; Loc None "+297"; Loc None "+104"]
     "Paste address from clipboard" true
     ["Adresse de pâte du presse-papiers"];
   Message false [Loc None "-646"; Loc None "+261"; Loc None "+297"; Loc None "+104"]
     "Alt+P" true
     ["Alt-P (en)"];
   Message false [Loc None "-655"; Loc None "+261"; Loc None "+401"; Loc None "+520"; Loc None "+564"]
     "Remove this entry" true
     ["Supprimer cette entrée"];
   Message false [Loc None "-1718"; Loc None "+277"]
     "Pay To" true
     ["Payer pour"];
   Message false [Loc None "-258"; Loc None "+242"; Loc None "+277"]
     "Amount" true
     ["quantité"];
   Message false [Loc None "-495"]
     "Enter a label for this address to add it to the list of used addresses" true
     ["Entrez une étiquette pour cette adresse pour l&apos;ajouter à la liste des adresses utilisées"];
   Message false [Loc None "+15"]
     "Label" true
     ["étiquette"];
   Message false [Loc None "+33"]
     "A short message sent over the Bitcoin Confidential network." true
     ["Un court message envoyé sur le réseau Bitcoin Confidential."];
   Message false [Loc None "+6"]
     "Encrypted message sent with the transaction (optional, max. 24 characters)." true
     ["Message chiffré envoyé avec la transaction (facultatif, max. 24 caractères)."];
   Message false [Loc None "+261"]
     "This is a payment to a coldstake script." true
     ["Il s&apos;agit d&apos;un paiement à un script coldstake."];
   Message false [Loc None "+83"]
     "The fee will be deducted from the amount being sent. The recipient will receive less Bitcoin Confidential than you enter in the amount field. If multiple recipients are selected, the fee is split equally." true
     ["Les frais seront déduits du montant envoyé. Le destinataire recevra moins de Bitcoin Confidential que vous n&apos;entrez dans le champ de montant. Si plusieurs destinataires sont sélectionnés, les frais sont partagés également."];
   Message false [Loc None "+36"]
     "ColdStake address used by your remote staking node to stake your funds." true
     ["Adresse ColdStake utilisée par votre nœud de jalonnement à distance pour jalonner vos fonds."];
   Message false [Loc None "+80"]
     "ColdStake " true
     ["ColdStake (en)"];
   Message false [Loc None "+24"]
     "The stake address on the remote node (cannot be in this wallet)" true
     ["L&apos;adresse de pieu sur le nœud distant (ne peut pas être dans ce portefeuille)"];
   Message false [Loc None "+81"]
     " Stake " true
     ["intérêt"];
   Message false [Loc None "+434"]
     "This is an unauthenticated payment request." true
     ["Il s&apos;agit d&apos;une demande de paiement non authentifiée."];
   Message false [Loc None "+40"; Loc None "+560"]
     "Pay To:" true
     ["Payer pour :"]].

Definition fr_SendCoinsEntry_2 : list message :=
  [Message false [Loc None "-526"; Loc None "+577"]
     "Memo:" true
     ["note:"];
   Message false [Loc None "-560"; Loc None "+547"]
     "A&amp;mount:" true
     ["A-mount:"];
   Message false [Loc None "-78"]
     "This is an authenticated payment request." true
     ["Il s&apos;agit d&apos;une demande de paiement authentifiée."];
   Message false [Loc (Some "../sendcoinsentry.cpp") "+89"]
     "Enter a label for this address to add it to your address book" true
     ["Entrez une étiquette pour cette adresse pour l&apos;ajouter à votre carnet d&apos;adresses"]].

Definition fr_SendConfirmationDialog : list message :=
  [Message false [Loc (Some "../sendcoinsdialog.cpp") "+85"; Loc None "+5"]
     "Yes" true
     ["ouais"]].

Definition fr_ShutdownWindow : list message :=
  [Message false [Loc (Some "../utilitydialog.cpp") "+83"]
     "%1 is shutting down..." true
     ["%1 s&apos;arrête..."];
   Message false [Loc None "+1"]
     "Do not shut down the computer until this window disappears." true
     ["N&apos;éteignez pas l&apos;ordinateur jusqu&apos;à ce que cette fenêtre disparaisse."]].

Definition fr_SignVerifyMessageDialog_1 : list message :=
  [Message false [Loc (Some "../forms/signverifymessagedialog.ui") "+14"]
     "Signatures - Sign / Verify a Message" true
     ["Signatures - Signe / Vérifier un message"];
   Message false [Loc None "+14"]
     "&amp;Sign Message" true
     ["Message de signe"];
   Message false [Loc None "+10"]
     "&amp;Verify Message" true
     ["Message de vérification"];
   Message false [Loc None "+31"]
     "You can sign messages/agreements with your addresses to prove you can receive Bitcoin Confidential sent to them. Be careful not to sign anything vague or random, as phishing attacks may try to trick you into signing your identity over to them. Only sign fully-detailed statements you agree to." true
     ["Vous pouvez signer des messages/accords avec vos adresses pour prouver que vous pouvez recevoir Bitcoin Confidential qui leur est envoyé. Veillez à ne pas signer quoi que ce soit de vague ou aléatoire, car les attaques d&apos;hameçonnage peuvent essayer de vous inciter à signer votre identité à eux. Ne signez que des instructions entièrement détaillées que vous acceptez."];
   Message false [Loc None "+18"]
     "The Bitcoin Confidential address to sign the message with" true
     ["L&apos;adresse Bitcoin Confidential pour signer le message avec"];
   Message false [Loc None "+7"; Loc None "+213"]
     "Choose previously used address" true
     ["Choisissez l&apos;adresse précédemment utilisée"];
   Message false [Loc None "-203"; Loc None "+213"]
     "Alt+A" true
     ["Alt-A (Alt-A)"];
   Message false [Loc None "-203"]
     "Paste address from clipboard" true
     ["Adresse de pâte du presse-papiers"];
   Message false [Loc None "+10"]
     "Alt+P" true
     ["Alt-P (en)"];
   Message false [Loc None "+12"]
     "Enter the message you want to sign here" true
     ["Entrez le message que vous souhaitez signer ici"];
   Message false [Loc None "+7"]
     "Signature" true
     ["signature"];
   Message false [Loc None "+27"]
     "Copy the current signature to the system clipboard" true
     ["Copiez la signature actuelle sur le presse-papiers du système"];
   Message false [Loc None "+21"]
     "Sign the message to prove you own this Bitcoin Confidential address" true
     ["Signez le message pour prouver que vous possédez cette adresse Bitcoin Confidential"];
   Message false [Loc None "+3"]
     "Sign &amp;Message" true
     ["Signez le message"];
   Message false [Loc None "+14"]
     "Reset all sign message fields" true
     ["Réinitialisez tous les champs de messages de signe"];
   Message false [Loc None "+3"; Loc None "+153"]
     "Clear &amp;All" true
     ["Clair et tout"];
   Message false [Loc None "-85"]
     "Enter the receiver&apos;s address, message (ensure you copy line breaks, spaces, tabs, etc. exactly) and signature below to verify the message. Be careful not to read more into the signature than what is in the signed message itself, to avoid being tricked by a man-in-the-middle attack. Note that this only proves the signing party receives with the address, it cannot prove sendership of any transaction!" true
     ["Entrez l&apos;adresse, le message du récepteur (assurez-vous de copier exactement les sauts de ligne, les espaces, les onglets, etc.) et la signature ci-dessous pour vérifier le message. Veillez à ne pas lire plus dans la signature que ce qui est dans le message signé lui-même, pour éviter d&apos;être trompé par une attaque de l&apos;homme dans le milieu. Notez que cela prouve seulement que la partie signataire reçoit avec l&apos;adresse, il ne peut pas prouver sendership de toute transaction!"];
   Message false [Loc None "+21"]
     "The Bitcoin Confidential address the message was signed with" true
     ["L&apos;adresse Bitcoin Confidential avec lequel le message a été signé"];
   Message false [Loc None "+44"]
     "Verify the message to ensure it was signed with the specified Bitcoin Confidential address" true
     ["Vérifier le message pour s&apos;assurer qu&apos;il a été signé avec l&apos;adresse Bitcoin Confidential spécifiée"];
   Message false [Loc None "+3"]
     "Verify &amp;Message" true
     ["Vérifier le message"];
   Message false [Loc None "+14"]
     "Reset all verify message fields" true
     ["Réinitialisez tous les champs de messages de vérification"];
   Message false [Loc (Some "../signverifymessagedialog.cpp") "+39"]
     "Click &quot;Sign Message&quot; to generate signature" true
     ["Cliquez sur &quot;Sign Message&quot; pour générer la signature"];
   Message false [Loc None "+78"; Loc None "+78"]
     "The entered address is invalid." true
     ["L&apos;adresse saisie est invalide."];
   Message false [Loc None "-78"; Loc None "+7"; Loc None "+71"; Loc None "+6"]
     "Please check the address and try again." true
     ["S&apos;il vous plaît vérifier l&apos;adresse et essayer à nouveau."];
   Message false [Loc None "-77"; Loc None "+77"]
     "The entered address does not refer to a key." true
     ["L&apos;adresse saisie ne fait pas référence à une clé."];
   Message false [Loc None "-69"]
     "Wallet unlock was cancelled." true
     ["Le déverrouillage du portefeuille a été annulé."];
   Message false [Loc None "+8"]
     "Private key for the entered address is not available." true
     ["La clé privée de l&apos;adresse saisie n&apos;est pas disponible."];
   Message false [Loc None "+12"]
     "Message signing failed." true
     ["La signature de messages a échoué."]].

Definition fr_SignVerifyMessageDialog_2 : list message :=
  [Message false [Loc None "+5"]
     "Message signed." true
     ["Message signé."];
   Message false [Loc None "+55"]
     "The signature could not be decoded." true
     ["La signature n&apos;a pas pu être décodée."];
   Message false [Loc None "+0"; Loc None "+13"]
     "Please check the signature and try again." true
     ["S&apos;il vous plaît vérifier la signature et essayer à nouveau."];
   Message false [Loc None "+0"]
     "The signature did not match the message digest." true
     ["La signature ne correspondait pas au résumé du message."];
   Message false [Loc None "+6"]
     "Message verification failed." true
     ["La vérification des messages a échoué."];
   Message false [Loc None "+5"]
     "Message verified." true
     ["Message vérifié."]].

Definition fr_SplashScreen : list message :=
  [Message false [Loc (Some "../networkstyle.cpp") "+19"]
     "[testnet]" true
     ["[testnet]"]].

Definition fr_StakingDialog_1 : list message :=
  [Message false [Loc (Some "../forms/stakingdialog.ui") "+14"]
     "Send Coins" true
     ["Envoyer des pièces"];
   Message false [Loc None "+23"]
     "Status" true
     ["statut"];
   Message false [Loc None "+19"]
     "Addresses" true
     ["Adresses"];
   Message false [Loc None "+16"]
     "Rewards" true
     ["Récompenses"];
   Message false [Loc None "+16"]
     "Convert to Spending" true
     ["Convertir aux dépenses"];
   Message false [Loc None "+16"]
     "Convert to Staking" true
     ["Convertissez-vous au jalonnement"];
   Message false [Loc None "+16"]
     "Activate ColdStaking" true
     ["Activer ColdStaking"];
   Message false [Loc None "+79"]
     "Total supply" true
     ["Approvisionnement total"];
   Message false [Loc None "+26"]
     "Current block reward" true
     ["Récompense de bloc actuelle"];
   Message false [Loc None "+26"]
     "Current block height" true
     ["Hauteur de bloc actuelle"];
   Message false [Loc None "+20"]
     "Network difficulty" true
     ["Difficulté réseau"];
   Message false [Loc None "+26"]
     "Annual staking reward" true
     ["Récompense annuelle de jalonnement"];
   Message false [Loc None "+13"]
     "Current staking reward" true
     ["Récompense de jalonnement actuelle"];
   Message false [Loc None "+26"]
     "Network staking weight" true
     ["Poids de jalonnement de réseau"];
   Message false [Loc None "+20"]
     "Your estimated annual reward" true
     ["Votre récompense annuelle estimée"];
   Message false [Loc None "+13"]
     "?" true
     ["?"];
   Message false [Loc None "+80"]
     "Staking" true
     ["Jalonnement"];
   Message false [Loc None "+24"; Loc None "+233"]
     "ENABLED" true
     ["Activé"];
   Message false [Loc None "-210"]
     "Pause" true
     ["pause"];
   Message false [Loc None "+50"; Loc None "+425"]
     "Estimated reward frequency" true
     ["Fréquence de récompense estimée"];
   Message false [Loc None "-412"]
     "Stakable Funds" true
     ["Fonds stakables"];
   Message false [Loc None "+20"]
     "Wallet staking weight" true
     ["Portefeuille jalonnement du poids"];
   Message false [Loc None "+103"]
     "Cold Staking" true
     ["Le ctaking à froid"];
   Message false [Loc None "+55"]
     "Remote Stake address" true
     ["Adresse de pieu à distance"];
   Message false [Loc None "+13"]
     "Automated ColdStaking activation" true
     ["Activation automatisée de ColdStaking"];
   Message false [Loc None "+25"]
     "Enable " true
     ["Activer"];
   Message false [Loc None "+57"]
     "Enable Hot Staking with the STAKING ENABLE button and leaving wallet open.  Enable automated ColdStake with COLDSTAKING ENABLE button and setting a remote stake address. On remote node enable staking with &quot;bitcoinc-cli walletsettings stakingstatus true&quot; and create a &quot;Stake&quot; address on your remote node with &quot;bitcoinc-cli getnewstakeaddress&quot;, or get a &quot;Stake&quot; address from a ColdStaking pool. Funds gradually transition over from hot staking to cold staking while your wallet is open. The time required for the activation depends on the wallet&apos;s staking weight and can take several days with a low weight. Once the activation bar shows complete, wallet can be closed.  Alternatively, use the Activate Coldstaking tab to send an activation transaction.  This will take longer to start staking but wallet does not need to be online." true
     ["Activez le ctaking à chaud avec le bouton STAKING ENABLE et laissez le portefeuille ouvert.  Activez ColdStake automatisé avec le bouton COLDSTAKING ENABLE et définiz une adresse de pieu à distance. Sur le nœud distant activer le jalonnement avec &quot;bitcoinc-cli walletsettings jalonnement vrai&quot; et créer une adresse &quot;Stake&quot; sur votre nœud distant avec &quot;bitcoinc-cli getnewstakeaddress&quot;, ou obtenir une adresse &quot;Stake&quot; à partir d&apos;un pool ColdStaking. Les fonds passent graduellement du jalonnement à froid au cieuàus à froid pendant que votre portefeuille est ouvert. Le temps requis pour l&apos;activation dépend du poids de jalonnement du portefeuille et peut prendre plusieurs jours avec un faible poids. Une fois la barre d&apos;activation terminée, le portefeuille peut être fermé.  Vous pouvez également utiliser l&apos;onglet Activate Coldstaking pour envoyer une transaction d&apos;activation.  Cela prendra plus de temps pour commencer à jalonnement, mais portefeuille n&apos;a pas besoin d&apos;être en ligne."];
   Message false [Loc None "+20"]
     "ColdStake activation progress" true
     ["Progrès d&apos;activation de ColdStake"];
   Message false [Loc None "+77"]
     "Amount activated for ColdStaking" true
     ["Montant activé pour ColdStaking"]].

Definition fr_StakingDialog_2 : list message :=
  [Message false [Loc None "+13"]
     "Estimated weight" true
     ["Poids estimé"];
   Message false [Loc None "+106"]
     "Filtered" true
     ["Filtrée"];
   Message false [Loc None "+15"; Loc None "+88"]
     "Staking rewards" true
     ["Récompenses de jalonnement"];
   Message false [Loc None "-75"; Loc None "+48"]
     "Solved blocks" true
     ["Blocs résolus"];
   Message false [Loc None "-41"; Loc None "+55"]
     "4000" true
     ["4000"];
   Message false [Loc None "-48"; Loc None "+41"]
     "100000BC" true
     ["100000avant JC"];
   Message false [Loc None "-22"]
     "Total" true
     ["total"];
   Message false [Loc (Some "../stakingdialog.cpp") "+258"; Loc None "+17"]
     "No stakable funds available. Use the &quot;Convert to staking&quot; tab to convert funds for staking." true
     ["Aucun fonds stakable disponible. Utilisez l&apos;onglet &quot; Convertir au jalonnement &quot; pour convertir les fonds en cours."];
   Message false [Loc None "-15"; Loc None "+18"]
     "No eligible staking outputs available. Staking funds need to have 225 confirmations to be eligible." true
     ["Aucune sortie de jalonnement éligible disponible. Les fonds de jalonnement doivent avoir 225 confirmations pour être admissibles."];
   Message false [Loc None "-9"]
     "Staking not initialized yet. Wait a moment." true
     ["Le jalonnement n&apos;est pas encore initialisé. Attends un moment."];
   Message false [Loc None "+3"]
     "Staking is stopped. Press the start button above to enable staking." true
     ["Le jalonnement est arrêté. Appuyez sur le bouton de démarrage ci-dessus pour activer le jalonnement."];
   Message false [Loc None "+10"]
     "Wallet is locked. To start staking unlock the wallet for staking only. To unlock click the lock icon in the bottom right hand portion of the window." true
     ["Le portefeuille est verrouillé. Pour commencer à jalonner déverrouiller le portefeuille pour le jalonnement seulement. Pour déverrouiller, cliquez sur l&apos;icône de verrouillage dans la partie inférieure droite de la fenêtre."];
   Message false [Loc None "+4"]
     "Wallet is not fully synced. To start staking make sure the wallet has connections to the network and wait until it catched up with the latest blocks." true
     ["Portefeuille n&apos;est pas entièrement synchronisé. Pour commencer à jalonner assurez-vous que le portefeuille a des connexions au réseau et attendre jusqu&apos;à ce qu&apos;il rattrapé avec les derniers blocs."];
   Message false [Loc None "+3"]
     "Staking is disabled. Set the config paramter &quot;staking=1&quot; in the bitcoinc.conf to enable it." true
     ["Le jalonnement est désactivé. Définir le paramter config &quot;staking&apos;1&quot; dans le bitcoinc.conf pour l&apos;activer."];
   Message false [Loc None "+72"]
     "No eligible coldstaking outputs available. Your coldstaking funds need to have 225 confirmations to be eligible." true
     ["Aucune sortie de prise de froid admissible disponible. Vos fonds de prise de froid doivent avoir 225 confirmations pour être admissible."];
   Message false [Loc None "+160"]
     "Set Remote Staking Address" true
     ["Définir l&apos;adresse de prise à distance"];
   Message false [Loc None "+1"]
     "Enter the remote staking address:" true
     ["Entrez l&apos;adresse de jalonnement à distance :"]].

Definition fr_TrafficGraphWidget : list message :=
  [Message false [Loc (Some "../trafficgraphwidget.cpp") "+81"]
     "KB/s" true
     ["KB/s"]].

Definition fr_TransactionDesc_1 : list message :=
  [Message true [Loc (Some "../transactiondesc.cpp") "+39"]
     "Open for %n more block(s)" true
     ["Ouvert pour %n plus de bloc (s)"; "Ouvert pour %n plus de bloc (s)"];
   Message false [Loc None "+2"]
     "Open until %1" true
     ["Ouvert jusqu&apos;à %1"];
   Message false [Loc None "+6"]
     "conflicted with a transaction with %1 confirmations" true
     ["en conflit avec une transaction avec des confirmations %1"];
   Message false [Loc None "+2"]
     "0/unconfirmed, %1" true
     ["0/non confirmé, %1"];
   Message false [Loc None "+0"]
     "in memory pool" true
     ["dans le pool de mémoire"];
   Message false [Loc None "+0"]
     "not in memory pool" true
     ["pas dans le pool de mémoire"];
   Message false [Loc None "+0"]
     "abandoned" true
     ["abandonné"];
   Message false [Loc None "+2"]
     "%1/unconfirmed" true
     ["%1/non confirmé"];
   Message false [Loc None "+2"]
     "%1 confirmations" true
     ["Confirmations %1"];
   Message false [Loc None "+29"]
     "Status" true
     ["statut"];
   Message false [Loc None "+3"]
     "Date" true
     ["date"];
   Message false [Loc None "+4"; Loc None "+223"]
     "Transaction ID" true
     ["ID de transaction"];
   Message false [Loc None "-210"; Loc None "+211"]
     "Transaction total size" true
     ["Taille totale de la transaction"];
   Message false [Loc None "-209"]
     "Confirmations" true
     ["Confirmations"];
   Message false [Loc None "+4"]
     "Block hash" true
     ["Hh de bloc"];
   Message false [Loc None "+1"]
     "Block index" true
     ["Indice de bloc"];
   Message false [Loc None "+1"]
     "Block time" true
     ["Temps de blocage"];
   Message false [Loc None "+21"]
     "Source" true
     ["source"];
   Message false [Loc None "+0"]
     "Generated" true
     ["Generated"];
   Message false [Loc None "+5"; Loc None "+14"; Loc None "+72"]
     "From" true
     ["De"];
   Message false [Loc None "-72"]
     "unknown" true
     ["inconnu"];
   Message false [Loc None "+1"; Loc None "+20"; Loc None "+72"]
     "To" true
     ["À"];
   Message false [Loc None "-90"]
     "own address" true
     ["propre adresse"];
   Message false [Loc None "+0"; Loc None "+69"]
     "watch-only" true
     ["montre seulement"];
   Message false [Loc None "-67"]
     "label" true
     ["étiquette"];
   Message false [Loc None "+36"; Loc None "+12"; Loc None "+58"; Loc None "+37"; Loc None "+66"]
     "Credit" true
     ["réputation de payer ses dettes"];
   Message true [Loc None "-171"]
     "matures in %n more block(s)" true
     ["mûrit en %n plus bloc(s)"; "mûrit en %n plus bloc(s)"]].

Definition fr_TransactionDesc_2 : list message :=
  [Message false [Loc None "+2"]
     "not accepted" true
     ["non accepté"];
   Message false [Loc None "+64"; Loc None "+26"; Loc None "+71"]
     "Debit" true
     ["débit"];
   Message false [Loc None "-87"]
     "Total debit" true
     ["Débit total"];
   Message false [Loc None "+1"]
     "Total credit" true
     ["Total du crédit"];
   Message false [Loc None "+5"]
     "Transaction fee" true
     ["Frais de transaction"];
   Message false [Loc None "+27"]
     "Net amount" true
     ["Montant net"];
   Message false [Loc None "+6"; Loc None "+12"]
     "Message" true
     ["Message"];
   Message false [Loc None "-10"]
     "Comment" true
     ["commentaire"];
   Message false [Loc None "+4"]
     "Transaction virtual size" true
     ["Taille virtuelle transactionnelle"];
   Message false [Loc None "+1"]
     "Output index" true
     ["Indice de sortie"];
   Message false [Loc None "+10"]
     "Narration" true
     ["narration"];
   Message false [Loc None "+13"]
     "Merchant" true
     ["négociant"];
   Message false [Loc None "+7"]
     "Generated coins must mature %1 blocks before they can be spent. When you generated this block, it was broadcast to the network to be added to the block chain. If it fails to get into the chain, its state will change to &quot;not accepted&quot; and it won&apos;t be spendable. This may occasionally happen if another node generates a block within a few seconds of yours." true
     ["Les pièces générées doivent mûrir %1 blocs avant qu&apos;ils puissent être dépensés. Lorsque vous avez généré ce bloc, il a été diffusé sur le réseau pour être ajouté à la chaîne de blocs. S&apos;il ne parvient pas à entrer dans la chaîne, son état changera pour «non accepté» et il ne sera pas dépensable. Cela peut parfois se produire si un autre nœud génère un bloc en quelques secondes du vôtre."];
   Message false [Loc None "+8"]
     "Debug information" true
     ["Informations sur le débogage"];
   Message false [Loc None "+13"]
     "Transaction" true
     ["transaction"];
   Message false [Loc None "+3"]
     "Inputs" true
     ["Entrées"];
   Message false [Loc None "+21"]
     "Amount" true
     ["quantité"];
   Message false [Loc None "+1"; Loc None "+1"]
     "true" true
     ["véritable"];
   Message false [Loc None "-1"; Loc None "+1"]
     "false" true
     ["sous des prétextes fallacieux"]].

Definition fr_TransactionDescDialog : list message :=
  [Message false [Loc (Some "../forms/transactiondescdialog.ui") "+26"]
     "This pane shows a detailed description of the transaction" true
     ["Ce volet montre une description détaillée de la transaction"];
   Message false [Loc (Some "../transactiondescdialog.cpp") "+17"]
     "Details for %1" true
     ["Détails pour %1"]].

Definition fr_TransactionTableModel_1 : list message :=
  [Message false [Loc (Some "../transactiontablemodel.cpp") "+257"]
     "Date" true
     ["date"];
   Message false [Loc None "+2"]
     "Type" true
     ["type"];
   Message false [Loc None "+2"]
     "Label" true
     ["étiquette"];
   Message false [Loc None "+3"]
     "In" true
     ["dans"];
   Message false [Loc None "+0"]
     "Out" true
     ["hors de"];
   Message true [Loc None "+73"]
     "Open for %n more block(s)" true
     ["Ouvert pour %n plus de bloc (s)"; "Ouvert pour %n plus de bloc (s)"];
   Message false [Loc None "+3"]
     "Open until %1" true
     ["Ouvert jusqu&apos;à %1"];
   Message false [Loc None "+3"]
     "Unconfirmed" true
     ["non confirmé"];
   Message false [Loc None "+4"]
     "Orphaned" true
     ["Orphelins"];
   Message false [Loc None "+2"]
     "Abandoned" true
     ["abandonné"];
   Message false [Loc None "+22"]
     "Confirming (%1 of %2 recommended confirmations)" true
     ["Confirmation (%1 des %2 confirmations recommandées)"];
   Message false [Loc None "+3"]
     "Confirmed (%1 confirmations)" true
     ["Confirmé (%1 confirmations)"];
   Message false [Loc None "+3"]
     "Conflicted" true
     ["Conflit"];
   Message false [Loc None "+3"]
     "Immature (%1 confirmations, will be available after %2)" true
     ["Immature (%1 confirmations, sera disponible après %2)"];
   Message false [Loc None "+3"]
     "Generated but not accepted" true
     ["Généré mais non accepté"];
   Message false [Loc None "+39"]
     "Received with" true
     ["Reçu avec"];
   Message false [Loc None "+2"]
     "Received from" true
     ["Reçu de"];
   Message false [Loc None "+3"]
     "Sent to" true
     ["Envoyé à"];
   Message false [Loc None "+2"]
     "Payment to yourself" true
     ["Paiement à vous-même"];
   Message false [Loc None "+2"]
     "Airdrop" true
     ["Largage d&apos;air"];
   Message false [Loc None "+2"]
     "Staked" true
     ["Jalonné"];
   Message false [Loc None "+30"]
     "watch-only" true
     ["montre seulement"];
   Message false [Loc None "+16"]
     "(n/a)" true
     ["(n/a)"];
   Message false [Loc None "+168"]
     "Unlock to show" true
     ["Déverrouillage pour montrer"];
   Message false [Loc None "+111"]
     "(no label)" true
     ["(pas d&apos;étiquette)"];
   Message false [Loc None "+42"; Loc None "+14"]
     "Transaction status. Hover over this field to show number of confirmations." true
     ["Statut de transaction. Survoldez ce champ pour afficher le nombre de confirmations."];
   Message false [Loc None "-12"]
     "Date and time that the reward was received." true
     ["Date et heure à laquelle la récompense a été reçue."];
   Message false [Loc None "+2"; Loc None "+16"]
     "Whether or not a watch-only address is involved in this transaction." true
     ["Qu&apos;une adresse réservée aux montres soit impliquée ou non dans cette transaction."];
   Message false [Loc None "-14"]
     "Address used for the block solving" true
     ["Adresse utilisée pour la résolution de bloc"]].

Definition fr_TransactionTableModel_2 : list message :=
  [Message false [Loc None "+2"]
     "Staking reward." true
     ["Récompense de jalonnement."];
   Message false [Loc None "+8"]
     "Date and time that the transaction was received." true
     ["Date et heure de réception de la transaction."];
   Message false [Loc None "+2"]
     "Type of transaction." true
     ["Type de transaction."];
   Message false [Loc None "+4"]
     "User-defined intent/purpose of the transaction." true
     ["Intention/objet défini par l&apos;utilisateur de la transaction."];
   Message false [Loc None "+2"]
     "Type of input coin." true
     ["Type de pièce d&apos;entrée."];
   Message false [Loc None "+2"]
     "Type of output coin." true
     ["Type de pièce de monnaie de sortie."];
   Message false [Loc None "+2"]
     "Amount removed from or added to balance." true
     ["Montant supprimé ou ajouté à l&apos;équilibre."]].

Definition fr_TransactionView_1 : list message :=
  [Message false [Loc (Some "../transactionview.cpp") "+53"; Loc None "+11"; Loc None "+18"]
     "All" true
     ["tout le"];
   Message false [Loc None "-17"]
     "Today" true
     ["aujourd&apos;hui"];
   Message false [Loc None "+1"]
     "This week" true
     ["Cette semaine"];
   Message false [Loc None "+1"]
     "This month" true
     ["ce mois-ci"];
   Message false [Loc None "+1"]
     "Last month" true
     ["mois dernier"];
   Message false [Loc None "+1"]
     "This year" true
     ["cette année"];
   Message false [Loc None "+1"]
     "Range..." true
     ["gamme..."];
   Message false [Loc None "+13"]
     "Received with" true
     ["Reçu avec"];
   Message false [Loc None "+2"]
     "Sent to" true
     ["Envoyé à"];
   Message false [Loc None "+2"]
     "To yourself" true
     ["Pour vous-même"];
   Message false [Loc None "+1"]
     "Other" true
     ["autre"];
   Message false [Loc None "+1"]
     "Airdrop" true
     ["Largage d&apos;air"];
   Message false [Loc None "+5"]
     "Enter address, transaction id, or label to search" true
     ["Entrez l&apos;adresse, l&apos;id de transaction ou l&apos;étiquette pour rechercher"];
   Message false [Loc None "+5"]
     "Min amount" true
     ["Montant min"];
   Message false [Loc None "+52"]
     "Abandon transaction" true
     ["Abandon de la transaction"];
   Message false [Loc None "+1"]
     "Increase transaction fee" true
     ["Augmenter les frais de transaction"];
   Message false [Loc None "+2"]
     "Copy address" true
     ["Adresse de copie"];
   Message false [Loc None "+1"]
     "Copy label" true
     ["Étiquette de copie"];
   Message false [Loc None "+1"]
     "Copy amount" true
     ["Montant de copie"];
   Message false [Loc None "+1"]
     "Copy transaction ID" true
     ["ID de transaction de copie"];
   Message false [Loc None "+1"]
     "Copy raw transaction" true
     ["Copier la transaction brute"];
   Message false [Loc None "+1"]
     "Copy full transaction details" true
     ["Copier les détails complets de la transaction"];
   Message false [Loc None "+1"]
     "Edit label" true
     ["Étiquette d&apos;édition"];
   Message false [Loc None "+1"]
     "Show transaction details" true
     ["Afficher les détails de la transaction"];
   Message false [Loc None "+239"]
     "Export Transaction History" true
     ["Historique des transactions d&apos;exportation"];
   Message false [Loc None "+1"]
     "Comma separated file (*.csv)" true
     ["Comma fichier séparé (.csv)"];
   Message false [Loc None "+9"]
     "Confirmed" true
     ["invétéré"];
   Message false [Loc None "+2"]
     "Watch-only" true
     ["Regarder uniquement"];
   Message false [Loc None "+1"]
     "Date" true
     ["date"]].

Definition fr_TransactionView_2 : list message :=
  [Message false [Loc None "+2"]
     "Type" true
     ["type"];
   Message false [Loc None "+2"]
     "Label" true
     ["étiquette"];
   Message false [Loc None "+1"]
     "Address" true
     ["adresse"];
   Message false [Loc None "+2"]
     "ID" true
     ["Id"];
   Message false [Loc None "+3"]
     "Exporting Failed" true
     ["Exportation échouée"];
   Message false [Loc None "+0"]
     "There was an error trying to save the transaction history to %1." true
     ["Il y a eu une erreur en essayant d&apos;enregistrer l&apos;historique des transactions à %1."];
   Message false [Loc None "+4"]
     "Exporting Successful" true
     ["Exportation réussie"];
   Message false [Loc None "+0"]
     "The transaction history was successfully saved to %1." true
     ["L&apos;historique des transactions a été enregistré avec succès à %1."];
   Message false [Loc None "+169"]
     "Range:" true
     ["gamme:"];
   Message false [Loc None "+8"]
     "to" true
     ["À"]].

Definition fr_TxViewDelegate : list message :=
  [Message false [Loc (Some "../overviewpage.cpp") "+95"]
     "Unlock to show" true
     ["Déverrouillage pour montrer"]].

Definition fr_UnitDisplayStatusBarControl : list message :=
  [Message false [Loc (Some "../bitcoingui.cpp") "+122"]
     "Unit to show amounts in. Click to select another unit." true
     ["Unité pour afficher les montants. Cliquez pour sélectionner une autre unité."]].

Definition fr_WalletFrame : list message :=
  [Message false [Loc (Some "../walletframe.cpp") "+29"]
     "No wallet has been loaded." true
     ["Aucun portefeuille n&apos;a été chargé."]].

Definition fr_WalletModel : list message :=
  [Message false [Loc (Some "../walletmodel.cpp") "+592"; Loc None "+4"; Loc None "+11"]
     "Wallet Model" true
     ["Modèle Portefeuille"];
   Message false [Loc None "+65"; Loc None "+39"; Loc None "+6"]
     "Fee bump error" true
     ["Erreur de bosse de frais"];
   Message false [Loc None "-45"]
     "Increasing transaction fee failed" true
     ["L&apos;augmentation des frais de transaction a échoué"];
   Message false [Loc None "+6"]
     "Do you want to increase the fee?" true
     ["Voulez-vous augmenter les frais?"];
   Message false [Loc None "+4"]
     "Current fee:" true
     ["Frais courants:"];
   Message false [Loc None "+4"]
     "Increase:" true
     ["augmenter:"];
   Message false [Loc None "+4"]
     "New fee:" true
     ["Nouveaux frais:"];
   Message false [Loc None "+4"]
     "Confirm fee bump" true
     ["Confirmer la hausse des frais"];
   Message false [Loc None "+17"]
     "Can&apos;t sign transaction." true
     ["Impossible de signer la transaction."];
   Message false [Loc None "+6"]
     "Could not commit transaction" true
     ["Impossible de valider la transaction"]].

Definition fr_WalletView : list message :=
  [Message false [Loc (Some "../walletview.cpp") "+46"; Loc None "+1"]
     "&amp;Export" true
     ["Exportation"];
   Message false [Loc None "+9"; Loc None "+29"]
     "Export the data in the current tab to a file" true
     ["Exporter les données dans l&apos;onglet actuel vers un fichier"];
   Message false [Loc None "-19"]
     "Selected amount" true
     ["Montant sélectionné"];
   Message false [Loc None "+290"]
     "Backup Wallet" true
     ["Portefeuille de sauvegarde"];
   Message false [Loc None "+1"]
     "Wallet Data (*.dat)" true
     ["Données de portefeuille (.dat)"];
   Message false [Loc None "+6"]
     "Backup Failed" true
     ["Sauvegarde échouée"];
   Message false [Loc None "+0"]
     "There was an error trying to save the wallet data to %1." true
     ["Il y avait une erreur en essayant d&apos;enregistrer les données du portefeuille à %1."];
   Message false [Loc None "+4"]
     "Backup Successful" true
     ["Sauvegarde réussie"];
   Message false [Loc None "+0"]
     "The wallet data was successfully saved to %1." true
     ["Les données du portefeuille ont été enregistrées avec succès à %1."];
   Message false [Loc None "+63"]
     "Cancel" true
     ["Annuler"]].

Definition fr_bitcoin_core_1 : list message :=
  [Message false [Loc (Some "../bitcoinstrings.cpp") "+12"]
     "Bitcoin Confidential Core" true
     ["Noyau confidentiel Bitcoin"];
   Message false [Loc None "+1"]
     "The %s developers" true
     ["Les développeurs %s"];
   Message false [Loc None "+1"]
     " is spendable from this wallet." true
     ["est dépensait de ce portefeuille."];
   Message false [Loc None "+1"]
     "-maxtxfee is set very high! Fees this large could be paid on a single transaction." true
     ["-maxtxfee est réglé très haut! Des frais d&apos;une telle ampleur pourraient être payés sur une seule transaction."];
   Message false [Loc None "+3"]
     "Can&apos;t generate a change-address key. Private keys are disabled for this wallet." true
     ["Impossible de générer une clé d&apos;adresse de changement. Les clés privées sont désactivées pour ce portefeuille."];
   Message false [Loc None "+3"]
     "Cannot obtain a lock on data directory %s. %s is probably already running." true
     ["Impossible d&apos;obtenir un verrou sur l&apos;annuaire des données %s. %s est probablement déjà en cours d&apos;exécution."];
   Message false [Loc None "+2"]
     "Cannot provide specific connections and have addrman find outgoing connections at the same." true
     ["Impossible de fournir des connexions spécifiques et ont addrman trouver des connexions sortantes en même temps."];
   Message false [Loc None "+3"]
     "Cannot upgrade a non HD split wallet without upgrading to support pre split keypool. Please use -upgradewallet=169900 or -upgradewallet with no version specified." true
     ["Impossible de mettre à niveau un portefeuille fractionné non HD sans mise à niveau pour prendre en charge le pool de clés pré split. S&apos;il vous plaît utiliser -upgradewallet -169900 ou -upgradewallet sans version spécifiée."];
   Message false [Loc None "+4"]
     "Distributed under the MIT software license, see the accompanying file %s or %s" true
     ["Distribué sous la licence logicielle du MIT, voir le fichier d&apos;accompagnement %s ou %s"];
   Message false [Loc None "+3"]
     "Error loading %s: You can&apos;t enable HD on an already existing non-HD wallet" true
     ["Chargement d&apos;erreur %s : Vous ne pouvez pas activer la HD sur un portefeuille non HD déjà existant"];
   Message false [Loc None "+2"]
     "Error reading %s! All keys read correctly, but transaction data or address book entries might be missing or incorrect." true
     ["Erreur de lecture %s! Toutes les clés sont lues correctement, mais les données de transaction ou les entrées de carnet d&apos;adresses peuvent être manquantes ou incorrectes."];
   Message false [Loc None "+3"]
     "Error: Listening for incoming connections failed (listen returned error %s)" true
     ["Erreur : L&apos;écoute des connexions entrantes a échoué (écouter l&apos;erreur retournée %s)"];
   Message false [Loc None "+2"]
     "Fee estimation failed. Fallbackfee is disabled. Wait a few blocks or enable -fallbackfee." true
     ["L&apos;estimation des frais a échoué. Fallbackfee est désactivé. Attendez quelques pâtés de maisons ou activez -fallbackfee."];
   Message false [Loc None "+3"]
     "Generate a random master key and main account if no master key exists. (default: %s)" true
     ["Générez une clé principale aléatoire et un compte principal s&apos;il n&apos;existe pas de clé principale. (par défaut : %s)"];
   Message false [Loc None "+3"]
     "Group outputs by address, selecting all or none, instead of selecting on a per-output basis. Privacy is improved as an address is only used once (unless someone sends to it after spending from it), but may result in slightly higher fees as suboptimal coin selection may result due to the added limitation (default: %u)" true
     ["Groupez les sorties par adresse, en sélectionnant tout ou aucun, au lieu de sélectionner sur une base par sortie. La confidentialité est améliorée car une adresse n&apos;est utilisée qu&apos;une seule fois (sauf si quelqu&apos;un lui envoie après avoir dépensé de lui), mais peut entraîner des frais légèrement plus élevés que la sélection de pièces sous-optimale peut résulter en raison de la limitation supplémentaire (par défaut: %u)"];
   Message false [Loc None "+6"]
     "Invalid amount for -maxtxfee=&lt;amount&gt;: &apos;%s&apos; (must be at least the minrelay fee of %s to prevent stuck transactions)" true
     ["Montant invalide pour -maxtxfeeMD&lt;amount&gt;: &apos;%s&apos;(doit être au moins les frais de minrelay de %s pour empêcher les transactions bloquées)&lt;/amount&gt;"];
   Message false [Loc None "+3"]
     "Milliseconds between stake attempts. Lowering this param will not result in more stakes. (default: 500)" true
     ["Millisecondes entre les tentatives de pieu. L&apos;abaissement de ce param n&apos;entraînera pas plus d&apos;enjeux. (par défaut : 500)"];
   Message false [Loc None "+3"]
     "Not enough spending outputs available in the blockchain for privacy mixing. There are currently %d. For this transaction required: %d" true
     ["Pas assez de sorties de dépenses disponibles dans la blockchain pour le mélange de la vie privée. Il y a actuellement %d. Pour cette transaction requise : %d"];
   Message false [Loc None "+3"]
     "Number of threads to start for staking, max 1 per active wallet, will divide wallets evenly between threads (default: 1)" true
     ["Nombre de threads à démarrer pour le jalonnement, max 1 par portefeuille actif, divisera les portefeuilles uniformément entre les threads (par défaut: 1)"];
   Message false [Loc None "+3"]
     "On saving a key from the lookahead pool, save all unsaved keys leading up to it too. (default: %s)" true
     ["En sauvant une clé de la piscine de lookahead, enregistrez toutes les clés non enregistrées menant à elle aussi. (par défaut : %s)"];
   Message false [Loc None "+3"]
     "Please check that your computer&apos;s date and time are correct! If your clock is wrong, %s will not work properly." true
     ["S&apos;il vous plaît vérifier que la date et l&apos;heure de votre ordinateur sont correctes! Si votre horloge est mauvaise, %s ne fonctionnera pas correctement."];
   Message false [Loc None "+3"]
     "Please contribute if you find %s useful. Visit %s for further information about the software." true
     ["S&apos;il vous plaît contribuer si vous trouvez %s utile. Visitez %s pour plus d&apos;informations sur le logiciel."];
   Message false [Loc None "+3"]
     "Prune configured below the minimum of %d MiB.  Please use a higher number." true
     ["Prune configuré en dessous du minimum de %d MiB.  S&apos;il vous plaît utiliser un nombre plus élevé."];
   Message false [Loc None "+2"]
     "Prune: last wallet synchronisation goes beyond pruned data. You need to -reindex (download the whole blockchain again in case of pruned node)" true
     ["Prune : la dernière synchronisation du portefeuille va au-delà des données taillées. Vous avez besoin de réindexer (télécharger l&apos;ensemble de la blockchain à nouveau en cas de nœud taillé)"];
   Message false [Loc None "+3"]
     "Rescans are not possible in pruned mode. You will need to use -reindex which will download the whole blockchain again." true
     ["Les rescans ne sont pas possibles en mode élagage. Vous aurez besoin d&apos;utiliser -réindex qui va télécharger toute la blockchain à nouveau."];
   Message false [Loc None "+3"]
     "The block database contains a block which appears to be from the future. This may be due to your computer&apos;s date and time being set incorrectly. Only rebuild the block database if you are sure that your computer&apos;s date and time are correct" true
     ["La base de données de blocs contient un bloc qui semble être de l&apos;avenir. Cela peut être dû à la date et à l&apos;heure de votre ordinateur mal fixées. Ne reconstruisez la base de données de blocs que si vous êtes sûr que la date et l&apos;heure de votre ordinateur sont correctes"];
   Message false [Loc None "+5"]
     "The transaction amount is too small to send after the fee has been deducted" true
     ["Le montant de la transaction est trop faible pour être envoyé après la déduite des frais"];
   Message false [Loc None "+2"]
     "This is a pre-release test build - use at your own risk - do not use for mining or merchant applications" true
     ["Il s&apos;agit d&apos;une version préliminaire - utilisée à vos propres risques - ne pas être utilisée pour des applications minières ou commerciales"];
   Message false [Loc None "+3"]
     "This is the transaction fee you may discard if change is smaller than dust at this level" true
     ["Il s&apos;agit des frais de transaction que vous pouvez jeter si le changement est plus petit que la poussière à ce niveau"]].

Definition fr_bitcoin_core_2 : list message :=
  [Message false [Loc None "+3"]
     "This is the transaction fee you may pay when fee estimates are not available." true
     ["Il s&apos;agit des frais de transaction que vous pouvez payer lorsque les estimations des frais ne sont pas disponibles."];
   Message false [Loc None "+2"]
     "This product includes software developed by the OpenSSL Project for use in the OpenSSL Toolkit %s and cryptographic software written by Eric Young and UPnP software written by Thomas Bernard." true
     ["Ce produit comprend un logiciel développé par le projet OpenSSL pour une utilisation dans le logiciel OpenSSL Toolkit %s et cryptographique écrit par Eric Young et le logiciel UPnP écrit par Thomas Bernard."];
   Message false [Loc None "+4"]
     "Total length of network version string (%i) exceeds maximum length (%i). Reduce the number or size of uacomments." true
     ["La longueur totale de la chaîne de version réseau (%i) dépasse la longueur maximale (%i). Réduisez le nombre ou la taille des uacomments."];
   Message false [Loc None "+3"]
     "Unable to replay blocks. You will need to rebuild the database using -reindex-chainstate." true
     ["Impossible de rejouer les blocs. Vous devrez reconstruire la base de données à l&apos;aide de -réindex-chainstate."];
   Message false [Loc None "+3"]
     "Unable to rewind the database to a pre-fork state. You will need to redownload the blockchain" true
     ["Impossible de rembobiner la base de données à un état de pré-fourche. Vous devrez retélécharger la blockchain"];
   Message false [Loc None "+3"]
     "Unsupported argument -socks found. Setting SOCKS version isn&apos;t possible anymore, only SOCKS5 proxies are supported." true
     ["Argument non étayé - chaussettes trouvées. La version SOCKS de réglage n&apos;est plus possible, seules les procurations SOCKS5 sont prises en charge."];
   Message false [Loc None "+3"]
     "Unsupported argument -whitelistalwaysrelay ignored, use -whitelistrelay and/or -whitelistforcerelay." true
     ["Argument non étayé -whitelistalwaysrelay ignoré, utilisation -whitelistrelay et/ou -whitelistforcerelay."];
   Message false [Loc None "+3"]
     "Warning: Private keys detected in wallet {%s} with disabled private keys" true
     ["Avertissement : Clés privées détectées dans le portefeuille %% avec clés privées désactivées"];
   Message false [Loc None "+2"]
     "Warning: The network does not appear to fully agree! Some miners appear to be experiencing issues." true
     ["Avertissement: Le réseau ne semble pas entièrement d&apos;accord! Certains mineurs semblent éprouver des problèmes."];
   Message false [Loc None "+3"]
     "Warning: Unknown block versions being mined! It&apos;s possible unknown rules are in effect" true
     ["Avertissement : Des versions de blocs inconnues sont extraites ! Il est possible que des règles inconnues soient en vigueur"];
   Message false [Loc None "+3"]
     "Warning: Wallet file corrupt, data salvaged! Original %s saved as %s in %s; if your balance or transactions are incorrect you should restore from a backup." true
     ["Avertissement: Fichier portefeuille corrompu, données récupérées! %s d&apos;origine économisés en %s en %s; si votre solde ou vos transactions sont incorrects, vous devez restaurer à partir d&apos;une sauvegarde."];
   Message false [Loc None "+4"]
     "Warning: We do not appear to fully agree with our peers! You may need to upgrade, or other nodes may need to upgrade." true
     ["Avertissement: Nous ne semblons pas être entièrement d&apos;accord avec nos pairs! Vous devrez peut-être mettre à niveau, ou d&apos;autres nœuds peuvent avoir besoin de mise à niveau."];
   Message false [Loc None "+3"]
     "You need to rebuild the database using -reindex to change -timestampindex" true
     ["Vous devez reconstruire la base de données en utilisant -réindex pour changer -timestampindex"];
   Message false [Loc None "+2"]
     "You need to rebuild the database using -reindex to go back to unpruned mode.  This will redownload the entire blockchain" true
     ["Vous devez reconstruire la base de données en utilisant -réindex pour revenir en mode non taillé.  Cela va retélécharger toute la blockchain"];
   Message false [Loc None "+3"]
     "%d of last 100 blocks have unexpected version" true
     ["%d des 100 derniers blocs ont une version inattendue"];
   Message false [Loc None "+1"]
     "%s corrupt, salvage failed" true
     ["%s corrompu, sauvetage a échoué"];
   Message false [Loc None "+1"]
     "%s is set very high!" true
     ["%s est réglé très haut!"];
   Message false [Loc None "+1"]
     "-maxmempool must be at least %d MB" true
     ["-maxmempool doit être au moins %d MB"];
   Message false [Loc None "+1"]
     "Account chain not found" true
     ["Chaîne de compte introuvable"];
   Message false [Loc None "+1"]
     "Address &apos;%s&apos; is not in the address book." true
     ["L&apos;adresse &apos;%s&apos;n&apos;est pas dans le carnet d&apos;adresses."];
   Message false [Loc None "+1"]
     "Address &apos;%s&apos; is recorded in the address book." true
     ["L&apos;adresse &apos;%s&apos;est enregistrée dans le carnet d&apos;adresses."];
   Message false [Loc None "+1"]
     "Anon output not found in db, %d" true
     ["Sortie d&apos;anon introuvable en db, %d"];
   Message false [Loc None "+1"]
     "Anon pubkey not found in db, %s" true
     ["Anon pubkey pas trouvé dans db, %s"];
   Message false [Loc None "+1"]
     "Cannot downgrade wallet" true
     ["Ne peut pas déclasser le portefeuille"];
   Message false [Loc None "+1"]
     "Cannot resolve -%s address: &apos;%s&apos;" true
     ["Impossible de résoudre l&apos;adresse -%: &apos;%s&apos;"];
   Message false [Loc None "+1"]
     "Cannot write to data directory &apos;%s&apos;; check permissions." true
     ["Impossible d&apos;écrire à l&apos;annuaire des données &apos;%s&apos;; vérifier les autorisations."];
   Message false [Loc None "+1"]
     "Change index out of range" true
     ["Modifier l&apos;indice hors de portée"];
   Message false [Loc None "+1"]
     "Confidential chain set but not found" true
     ["Ensemble de chaîne confidentiel mais introuvable"];
   Message false [Loc None "+1"]
     "Copyright (C)" true
     ["Droit d&apos;auteur (C)"];
   Message false [Loc None "+1"]
     "Corrupted block database detected" true
     ["Base de données de blocs corrompus détectées"]].

Definition fr_bitcoin_core_3 : list message :=
  [Message false [Loc None "+1"]
     "Could not convert prefix to number." true
     ["Impossible de convertir le préfixe en nombre."];
   Message false [Loc None "+1"]
     "Could not decode scan secret as wif, hex or base58." true
     ["Impossible de décoder le secret de balayage comme wif, hexagone ou base58."];
   Message false [Loc None "+1"]
     "Could not decode spend secret as hex or base58." true
     ["Impossible de décoder passer secret comme hexagone ou base58."];
   Message false [Loc None "+1"]
     "Could not get confidential chain from account." true
     ["Impossible d&apos;obtenir la chaîne confidentielle à partir du compte."];
   Message false [Loc None "+1"]
     "Could not get scan public key." true
     ["Impossible d&apos;obtenir scan clé publique."];
   Message false [Loc None "+1"]
     "Could not get spend public key." true
     ["Impossible d&apos;obtenir dépenser la clé publique."];
   Message false [Loc None "+1"]
     "Default account not found" true
     ["Compte par défaut non trouvé"];
   Message false [Loc None "+1"]
     "DeriveNextKey failed" true
     ["DeriveNextKey a échoué"];
   Message false [Loc None "+1"]
     "Do you want to rebuild the block database now?" true
     ["Voulez-vous reconstruire la base de données de blocs maintenant?"];
   Message false [Loc None "+1"]
     "Done loading" true
     ["Chargement effectué"];
   Message false [Loc None "+1"]
     "Duplicate index found, %d" true
     ["Indice duplicate trouvé, %d"];
   Message false [Loc None "+1"]
     "Empty wallet required for import." true
     ["Portefeuille vide requis pour l&apos;importation."];
   Message false [Loc None "+1"]
     "Ensure available balance remains above reservebalance. (default: 0)" true
     ["Veiller à ce que le solde disponible demeure supérieur au solde des réserves. (par défaut: 0)"];
   Message false [Loc None "+1"]
     "EraseSetting failed." true
     ["EraseSetting a échoué."];
   Message false [Loc None "+1"]
     "Error creating %s: You can&apos;t create non-HD wallets with this version." true
     ["Erreur de création de %s: Vous ne pouvez pas créer des portefeuilles non-HD avec cette version."];
   Message false [Loc None "+1"]
     "Error initializing block database" true
     ["Initialisation d&apos;erreur de la base de données de blocs"];
   Message false [Loc None "+1"]
     "Error initializing wallet database environment %s!" true
     ["Erreur initialisant l&apos;environnement de base de données de portefeuille %s !"];
   Message false [Loc None "+1"]
     "Error loading %s" true
     ["Chargement d&apos;erreur %s"];
   Message false [Loc None "+1"]
     "Error loading %s: Private keys can only be disabled during creation" true
     ["Chargement d&apos;erreur %s : Les clés privées ne peuvent être désactivées que lors de la création"];
   Message false [Loc None "+1"]
     "Error loading %s: Wallet corrupted" true
     ["Erreur de chargement %s: Portefeuille corrompu"];
   Message false [Loc None "+1"]
     "Error loading %s: Wallet requires newer version of %s" true
     ["Chargement d&apos;erreur %s: Portefeuille nécessite une version plus récente de %s"];
   Message false [Loc None "+1"]
     "Error loading %s: You can&apos;t disable HD on an already existing HD wallet" true
     ["Chargement d&apos;erreur %s : vous ne pouvez pas désactiver la HD sur un portefeuille HD déjà existant"];
   Message false [Loc None "+1"]
     "Error loading block database" true
     ["Base de données de bloc de chargement d&apos;erreur"];
   Message false [Loc None "+1"]
     "Error loading wallet %s. Duplicate -wallet filename specified." true
     ["Portefeuille de chargement d&apos;erreur %s. Duplicate -portefeuille nom de fichier spécifié."];
   Message false [Loc None "+1"]
     "Error opening block database" true
     ["Base de données de bloc d&apos;ouverture d&apos;erreur"];
   Message false [Loc None "+1"]
     "Error reading from database, shutting down." true
     ["Lecture d&apos;erreur à partir de la base de données, arrêt."];
   Message false [Loc None "+1"]
     "Error upgrading chainstate database" true
     ["Base de données chainstate de mise à niveau d&apos;erreur"];
   Message false [Loc None "+1"]
     "Error" true
     ["Erreur"];
   Message false [Loc None "+1"]
     "Error: A fatal internal error occurred, see debug.log for details" true
     ["Erreur: Une erreur interne fatale s&apos;est produite, voir debug.log pour plus de détails"];
   Message false [Loc None "+1"]
     "Error: Disk space is low!" true
     ["Erreur: L&apos;espace disque est faible!"]].

Definition fr_bitcoin_core_4 : list message :=
  [Message false [Loc None "+1"]
     "ExtKeyGetIndex failed." true
     ["ExtKeyGetIndex a échoué."];
   Message false [Loc None "+1"]
     "ExtKeySaveAccountToDB failed" true
     ["ExtKeySaveAccountToDB a échoué"];
   Message false [Loc None "+1"]
     "Failed to listen on any port. Use -listen=0 if you want this." true
     ["A échoué à écouter sur n&apos;importe quel port. Utilisez -écouter 0 si vous voulez cela."];
   Message false [Loc None "+1"]
     "Failed to open dongle" true
     ["Échec de l&apos;ouverture du dongle"];
   Message false [Loc None "+1"]
     "Failed to rescan the wallet during initialization" true
     ["N&apos;a pas rescané le portefeuille lors de l&apos;initialisation"];
   Message false [Loc None "+1"]
     "Hit nMaxTries limit, %d, %d" true
     ["Hit nMaxTries limite, %d, %d"];
   Message false [Loc None "+1"]
     "Import failed - AddKeyPubKey failed." true
     ["Échec de l&apos;importation - AddKeyPubKey a échoué."];
   Message false [Loc None "+1"]
     "Import failed - stealth address exists." true
     ["Importation échouée - adresse furtive existe."];
   Message false [Loc None "+1"]
     "Importing..." true
     ["Importation..."];
   Message false [Loc None "+1"]
     "Incorrect or no genesis block found. Wrong datadir for network?" true
     ["Incorrect ou aucun bloc de genèse trouvé. Mauvais datadir pour le réseau?"];
   Message false [Loc None "+1"]
     "Information" true
     ["renseignements"];
   Message false [Loc None "+1"]
     "Initialization sanity check failed. %s is shutting down." true
     ["Le contrôle de santé mentale de initialisation a échoué. %s s&apos;arrête."];
   Message false [Loc None "+1"]
     "Insufficient funds" true
     ["Fonds insuffisants"];
   Message false [Loc None "+1"]
     "Insufficient funds." true
     ["Fonds insuffisants."];
   Message false [Loc None "+1"]
     "Invalid -onion address or hostname: &apos;%s&apos;" true
     ["Adresse ou nom d&apos;hôte invalide : &apos;%s&apos;"];
   Message false [Loc None "+1"]
     "Invalid -proxy address or hostname: &apos;%s&apos;" true
     ["Adresse invalide -proxy ou nom d&apos;hôte: &apos;%s&apos;"];
   Message false [Loc None "+1"]
     "Invalid BitcoinC address." true
     ["Adresse BitcoinC invalide."];
   Message false [Loc None "+1"]
     "Invalid amount for -%s=&lt;amount&gt;: &apos;%s&apos;" true
     ["Montant invalide pour -%s &apos;&lt;amount&gt;: &apos;%s&apos;&lt;/amount&gt;"];
   Message false [Loc None "+1"]
     "Invalid amount for -discardfee=&lt;amount&gt;: &apos;%s&apos;" true
     ["Montant invalide pour -discardfeeMD&lt;amount&gt;: &apos;%s&apos;&lt;/amount&gt;"];
   Message false [Loc None "+1"]
     "Invalid amount for -fallbackfee=&lt;amount&gt;: &apos;%s&apos;" true
     ["Montant invalide pour -fallbackfeeMD&lt;amount&gt;: &apos;%s&apos;&lt;/amount&gt;"];
   Message false [Loc None "+1"]
     "Invalid amount for -paytxfee=&lt;amount&gt;: &apos;%s&apos; (must be at least %s)" true
     ["Montant invalide pour -paytxfeeMD&lt;amount&gt;: &apos;%s&apos;(doit être au moins %s)&lt;/amount&gt;"];
   Message false [Loc None "+1"]
     "Invalid amount for -reservebalance=&lt;amount&gt;" true
     ["Montant invalide pour -réservebalanceMD&lt;amount&gt;&lt;/amount&gt;"];
   Message false [Loc None "+1"]
     "Invalid coldstakingaddress." true
     ["Coldstakingaddress invalide."];
   Message false [Loc None "+1"]
     "Invalid input key." true
     ["Clé d&apos;entrée non valide."];
   Message false [Loc None "+1"]
     "Invalid key." true
     ["Clé invalide."];
   Message false [Loc None "+1"]
     "Invalid netmask specified in -whitelist: &apos;%s&apos;" true
     ["Netmask invalide spécifié dans -liste blanche: &apos;%s&apos;"];
   Message false [Loc None "+1"]
     "Invalid rewardaddress." true
     ["Adresse de récompense invalide."];
   Message false [Loc None "+1"]
     "Keypool ran out, please call keypoolrefill first" true
     ["Keypool a manqué, s&apos;il vous plaît appelez keypoolrefill d&apos;abord"];
   Message false [Loc None "+1"]
     "Loading P2P addresses..." true
     ["Chargement des adresses P2P..."]].

Definition fr_bitcoin_core_5 : list message :=
  [Message false [Loc None "+1"]
     "Loading address book for %s.
" true
     ["Carnet d&apos;adresses de chargement pour %s."];
   Message false [Loc None "+1"]
     "Loading banlist..." true
     ["Banlist de chargement..."];
   Message false [Loc None "+1"]
     "Loading block index..." true
     ["Indice de bloc de chargement..."];
   Message false [Loc None "+1"]
     "Loading transaction records for %s.
" true
     ["Chargement des enregistrements de transactions pour %s."];
   Message false [Loc None "+1"]
     "Loading wallet..." true
     ["Chargement du portefeuille..."];
   Message false [Loc None "+1"]
     "Minimum time in seconds between successful stakes (default: 0)" true
     ["Temps minimum en secondes entre les enjeux réussis (par défaut : 0)"];
   Message false [Loc None "+1"]
     "Must be json object." true
     ["Ca doit être un objet json."];
   Message false [Loc None "+1"]
     "Must have account to save keys." true
     ["Doit avoir un compte pour enregistrer les clés."];
   Message false [Loc None "+1"]
     "Must input a stealthaddress." true
     ["Doit entrer une adresse furtive."];
   Message false [Loc None "+1"]
     "Need a parameter to change." true
     ["Besoin d&apos;un paramètre pour changer."];
   Message false [Loc None "+1"]
     "Need to specify a port with -whitebind: &apos;%s&apos;" true
     ["Besoin de spécifier un port avec -whitebind: &apos;%s&apos;"];
   Message false [Loc None "+1"]
     "New state must be bool." true
     ["Le nouvel état doit être bool."];
   Message false [Loc None "+1"]
     "NewExtKeyFromAccount failed, %s." true
     ["NewExtKeyFromAccount a échoué, %s."];
   Message false [Loc None "+1"]
     "NewExtKeyFromAccount failed." true
     ["NewExtKeyFromAccount a échoué."];
   Message false [Loc None "+1"]
     "NewStealthKeyV2FromAccount failed." true
     ["NewStealthKeyV2FromAccount a échoué."];
   Message false [Loc None "+1"]
     "No default account set." true
     ["Aucun ensemble de compte par défaut."];
   Message false [Loc None "+1"]
     "No key for anonoutput, %s" true
     ["Pas de clé pour l&apos;anonoutput, %s"];
   Message false [Loc None "+1"]
     "Not anon output %s %d" true
     ["Pas de sortie d&apos;anon %s %d"];
   Message false [Loc None "+1"]
     "Not enough file descriptors available." true
     ["Pas assez de scripteurs de fichiers disponibles."];
   Message false [Loc None "+1"]
     "Num inputs per signature out of range" true
     ["Nombre d&apos;entrées par signature hors de portée"];
   Message false [Loc None "+1"]
     "Number of keys to load into the lookahead pool per chain. (default: %u)" true
     ["Nombre de touches à charger dans la piscine de veille par chaîne. (par défaut : %u)"];
   Message false [Loc None "+1"]
     "Only able to send to stealth address." true
     ["Seulement capable d&apos;envoyer à l&apos;adresse furtive."];
   Message false [Loc None "+1"]
     "OpIsCoinstake is not active yet." true
     ["OpIsCoinstake n&apos;est pas encore actif."];
   Message false [Loc None "+1"]
     "Output isn&apos;t standard." true
     ["La sortie n&apos;est pas standard."];
   Message false [Loc None "+1"]
     "PrepareTransaction for device failed: %s" true
     ["PrepareTransaction pour l&apos;appareil a échoué: %s"];
   Message false [Loc None "+1"]
     "ProduceSignature from device failed: %s" true
     ["ProduceSignature de l&apos;appareil a échoué: %s"];
   Message false [Loc None "+1"]
     "Prune cannot be configured with a negative value." true
     ["Prune ne peut pas être configuré avec une valeur négative."];
   Message false [Loc None "+1"]
     "Prune mode is incompatible with -txindex." true
     ["Le mode Prune est incompatible avec -txindex."];
   Message false [Loc None "+1"]
     "Pruning blockstore..." true
     ["Élagage blockstore..."]].

Definition fr_bitcoin_core_6 : list message :=
  [Message false [Loc None "+1"]
     "ReadStoredTx failed for %s" true
     ["ReadStoredTx a échoué pour %s"];
   Message false [Loc None "+1"]
     "Reducing -maxconnections from %d to %d, because of system limitations." true
     ["Réduction des -maxconnections de %d à %d, en raison des limitations du système."];
   Message false [Loc None "+1"]
     "Replaying blocks..." true
     ["Rejouer les blocs..."];
   Message false [Loc None "+1"]
     "Rescanning..." true
     ["Rescanning..."];
   Message false [Loc None "+1"]
     "Rewinding blocks..." true
     ["Blocs de rembobinage..."];
   Message false [Loc None "+1"]
     "Ring size out of range [%d, %d]" true
     ["Taille de l&apos;anneau hors de portée [%d, %d]"];
   Message false [Loc None "+1"]
     "Ring size out of range" true
     ["Taille de l&apos;anneau hors de portée"];
   Message false [Loc None "+1"]
     "Scan secret is not 32 bytes." true
     ["Scan secret n&apos;est pas 32 octets."];
   Message false [Loc None "+1"]
     "SetSetting failed." true
     ["SetSetting a échoué."];
   Message false [Loc None "+1"]
     "Signing transaction failed" true
     ["Signature de la transaction a échoué"];
   Message false [Loc None "+1"]
     "Specified -walletdir &quot;%s&quot; does not exist" true
     ["Spécifié -walletdir &quot;%s&quot; n&apos;existe pas"];
   Message false [Loc None "+1"]
     "Specified -walletdir &quot;%s&quot; is a relative path" true
     ["Spécifié -walletdir &quot;%s&quot; est une voie relative"];
   Message false [Loc None "+1"]
     "Specified -walletdir &quot;%s&quot; is not a directory" true
     ["Spécifié -walletdir &quot;%s&quot; n&apos;est pas un répertoire"];
   Message false [Loc None "+1"]
     "Specified blocks directory &quot;%s&quot; does not exist." true
     ["L&apos;annuaire des blocs spécifiés &quot;%s&quot; n&apos;existe pas."];
   Message false [Loc None "+1"]
     "Spend secret is not 32 bytes." true
     ["Dépenser secret n&apos;est pas 32 octets."];
   Message false [Loc None "+1"]
     "Spend secret must be different to scan secret." true
     ["Dépenser secret doit être différent de scan secret."];
   Message false [Loc None "+1"]
     "Stake your coins to support network and gain reward (default: true)" true
     ["Miser vos pièces pour prendre en charge le réseau et gagner une récompense (par défaut: vrai)"];
   Message false [Loc None "+1"]
     "Starting network threads..." true
     ["Démarrage des threads réseau..."];
   Message false [Loc None "+1"]
     "StealthSecret failed, try again." true
     ["StealthSecret a échoué, essayez à nouveau."];
   Message false [Loc None "+1"]
     "The source code is available from %s." true
     ["Le code source est disponible à partir de %s."];
   Message false [Loc None "+1"]
     "The transaction amount is too small to pay the fee" true
     ["Le montant de la transaction est trop faible pour payer les frais"];
   Message false [Loc None "+1"]
     "The wallet will avoid paying less than the minimum relay fee." true
     ["Le portefeuille évitera de payer moins que les frais de relais minimum."];
   Message false [Loc None "+1"]
     "This is experimental software." true
     ["C&apos;est un logiciel expérimental."];
   Message false [Loc None "+1"]
     "This is the minimum transaction fee you pay on every transaction." true
     ["Il s&apos;agit des frais de transaction minimum que vous payez pour chaque transaction."];
   Message false [Loc None "+1"]
     "This is the transaction fee you will pay if you send a transaction." true
     ["Il s&apos;agit des frais de transaction que vous paierez si vous envoyez une transaction."];
   Message false [Loc None "+1"]
     "Transaction amount too small" true
     ["Montant des transactions trop faible"];
   Message false [Loc None "+1"]
     "Transaction amounts must not be negative" true
     ["Les montants des transactions ne doivent pas être négatifs"];
   Message false [Loc None "+1"]
     "Transaction amounts must not be negative." true
     ["Les montants des transactions ne doivent pas être négatifs."];
   Message false [Loc None "+1"]
     "Transaction fee and change calculation failed" true
     ["Échec des frais de transaction et du calcul des changements"];
   Message false [Loc None "+1"]
     "Transaction fee and change calculation failed." true
     ["Les frais de transaction et le calcul du changement ont échoué."]].

Definition fr_bitcoin_core_7 : list message :=
  [Message false [Loc None "+1"]
     "Transaction has too long of a mempool chain" true
     ["Transaction a trop longtemps d&apos;une chaîne mempool"];
   Message false [Loc None "+1"]
     "Transaction must have at least one recipient" true
     ["La transaction doit avoir au moins un destinataire"];
   Message false [Loc None "+1"]
     "Transaction must have at least one recipient." true
     ["La transaction doit avoir au moins un destinataire."];
   Message false [Loc None "+1"]
     "Transaction too large for fee policy" true
     ["Transaction trop importante pour la politique des frais"];
   Message false [Loc None "+1"]
     "Transaction too large for fee policy." true
     ["Transaction trop importante pour la politique de frais."];
   Message false [Loc None "+1"]
     "Transaction too large" true
     ["Transaction trop importante"];
   Message false [Loc None "+1"]
     "TxnBegin failed." true
     ["TxnBegin a échoué."];
   Message false [Loc None "+1"]
     "Unable to bind to %s on this computer (bind returned error %s)" true
     ["Incapable de se lier à %s sur cet ordinateur (bind retourné erreur %s)"];
   Message false [Loc None "+1"]
     "Unable to bind to %s on this computer. %s is probably already running." true
     ["Impossible de se lier à %s sur cet ordinateur. %s est probablement déjà en cours d&apos;exécution."];
   Message false [Loc None "+1"]
     "Unable to generate initial keys" true
     ["Incapable de générer les clés initiales"];
   Message false [Loc None "+1"]
     "Unable to generate keys" true
     ["Incapable de générer des clés"];
   Message false [Loc None "+1"]
     "Unable to start HTTP server. See debug log for details." true
     ["Impossible de démarrer le serveur HTTP. Voir le journal de débogage pour plus de détails."];
   Message false [Loc None "+1"]
     "Unknown account." true
     ["Compte inconnu."];
   Message false [Loc None "+1"]
     "Unknown action, must be one of &apos;add/edit/del&apos;." true
     ["Action inconnue, doit être l&apos;un des «add/edit/del»."];
   Message false [Loc None "+1"]
     "Unknown argument for 256bithash: %s." true
     ["Argument inconnu pour 256bithash: %s."];
   Message false [Loc None "+1"]
     "Unknown argument for add_to_addressbook: %s." true
     ["Argument inconnu pour add-to-addressbook: %s."];
   Message false [Loc None "+1"]
     "Unknown chain." true
     ["Chaîne inconnue."];
   Message false [Loc None "+1"]
     "Unknown input key version." true
     ["Version de clé d&apos;entrée inconnue."];
   Message false [Loc None "+1"]
     "Unknown network specified in -onlynet: &apos;%s&apos;" true
     ["Réseau inconnu spécifié dans -onlynet: &apos;%s&apos;"];
   Message false [Loc None "+1"]
     "Unknown setting" true
     ["Réglage inconnu"];
   Message false [Loc None "+1"]
     "Unsupported argument -benchmark ignored, use -debug=bench." true
     ["Argument non étayé -benchmark ignoré, utilisation -debug-bench."];
   Message false [Loc None "+1"]
     "Unsupported argument -debugnet ignored, use -debug=net." true
     ["Argument non étayé -debugnet ignoré, utilisation -debug-net."];
   Message false [Loc None "+1"]
     "Unsupported argument -debugnet ignored, use -debug=smsg." true
     ["Argument non étayé -debugnet ignoré, utilisation -debug-smsg."];
   Message false [Loc None "+1"]
     "Unsupported argument -tor found, use -onion." true
     ["Argument non étayé -tor trouvé, utilisation -oignon."];
   Message false [Loc None "+1"]
     "Unsupported logging category %s=%s." true
     ["Catégorie d&apos;exploitation forestière non prise en charge %s.s."];
   Message false [Loc None "+1"]
     "Upgrading txindex database" true
     ["Mise à niveau de la base de données txindex"];
   Message false [Loc None "+1"]
     "User Agent comment (%s) contains unsafe characters." true
     ["Commentaire de l&apos;agent utilisateur (%s) contient des caractères dangereux."];
   Message false [Loc None "+1"]
     "Verifying blocks..." true
     ["Vérification des blocs..."];
   Message false [Loc None "+1"]
     "Verifying wallet(s)..." true
     ["Vérification du portefeuille(s)..."];
   Message false [Loc None "+1"]
     "Wallet %s resides outside wallet directory %s" true
     ["Portefeuille %s réside à l&apos;extérieur portefeuille répertoire %s"]].

Definition fr_bitcoin_core_8 : list message :=
  [Message false [Loc None "+1"]
     "Wallet has no active master key." true
     ["Portefeuille n&apos;a pas de clé maître active."];
   Message false [Loc None "+1"]
     "Wallet must be unlocked." true
     ["Le portefeuille doit être déverrouillé."];
   Message false [Loc None "+1"]
     "Wallet must have a default account set." true
     ["Le portefeuille doit avoir un ensemble de compte par défaut."];
   Message false [Loc None "+1"]
     "Wallet needed to be rewritten: restart %s to complete" true
     ["Portefeuille à réécrire: redémarrer %s à compléter"];
   Message false [Loc None "+1"]
     "Warning" true
     ["alerte"];
   Message false [Loc None "+1"]
     "Warning: unknown new rules activated (versionbit %i)" true
     ["Avertissement : nouvelles règles inconnues activées (versionbit %i)"];
   Message false [Loc None "+1"]
     "You need to rebuild the database using -reindex to change -addressindex" true
     ["Vous devez reconstruire la base de données en utilisant -réindex pour modifier -addressindex"];
   Message false [Loc None "+1"]
     "You need to rebuild the database using -reindex to change -spentindex" true
     ["Vous devez reconstruire la base de données en utilisant -réindex pour modifier -dépenséindex"];
   Message false [Loc None "+1"]
     "Zapping all transactions from wallet..." true
     ["Zapping toutes les transactions à partir du portefeuille ..."];
   Message false [Loc None "+1"]
     "accounts missing." true
     ["comptes manquants."];
   Message false [Loc None "+1"]
     "accounts must be an array." true
     ["comptes doivent être un tableau."];
   Message false [Loc None "+1"]
     "add_to_addressbook can&apos;t be set without save" true
     ["add-to-addressbook ne peut pas être réglé sans enregistrer"];
   Message false [Loc None "+1"]
     "address_standard must be a string." true
     ["l&apos;adresse standard doit être une chaîne."];
   Message false [Loc None "+1"]
     "bad childNo." true
     ["mauvais enfantNon."];
   Message false [Loc None "+1"]
     "bech32 encode failed." true
     ["bech32 code échoué."];
   Message false [Loc None "+1"]
     "coldstakingaddress can&apos;t be a stealthaddress." true
     ["coldstakingaddress ne peut pas être un stealthaddress."];
   Message false [Loc None "+1"]
     "coldstakingaddress must be a string." true
     ["coldstakingaddress doit être une chaîne."];
   Message false [Loc None "+1"]
     "extkey must have private key to derive hardened keys." true
     ["extkey doit avoir la clé privée pour dériver les clés durcies."];
   Message false [Loc None "+1"]
     "foundationdonationpercent must be a number." true
     ["foundationdonationpercent doit être un nombre."];
   Message false [Loc None "+1"]
     "height must be a number." true
     ["la hauteur doit être un nombre."];
   Message false [Loc None "+1"]
     "loose_extkeys missing." true
     ["lâche-extkeys manquants."];
   Message false [Loc None "+1"]
     "loose_extkeys must be an array." true
     ["les lâches-extkeys doivent être un tableau."];
   Message false [Loc None "+1"]
     "num_derives to int failed." true
     ["num-derives à int échoué."];
   Message false [Loc None "+1"]
     "num_derives_h to int failed." true
     ["num-derives-h à int échoué."];
   Message false [Loc None "+1"]
     "num_prefix_bits invalid number." true
     ["num-prefix-bits nombre invalide."];
   Message false [Loc None "+1"]
     "num_prefix_bits must be &lt;= 32." true
     ["num-prefix-bits doit être&lt;= 32.&gt;&lt;/= 32.&gt;"];
   Message false [Loc None "+1"]
     "rewardaddress must be a string." true
     ["rewardaddress doit être une chaîne."];
   Message false [Loc None "+1"]
     "secp256k1_generate_mlsag failed %d" true
     ["secp256k1-generate-mlsag a échoué %d"];
   Message false [Loc None "+1"]
     "secp256k1_get_keyimage failed %d" true
     ["secp256k1-get-keyimage a échoué %d"];
   Message false [Loc None "+1"]
     "secp256k1_prepare_mlsag failed %d" true
     ["secp256k1-prepare-mlsag a échoué %d"]].

Definition fr_bitcoin_core_9 : list message :=
  [Message false [Loc None "+1"]
     "stakecombinethreshold can&apos;t be negative." true
     ["stakecombinethreshold ne peut pas être négatif."];
   Message false [Loc None "+1"]
     "stakesplitthreshold can&apos;t be negative." true
     ["stakesplitthreshold ne peut pas être négatif."]].

(** The whole document. *)
Definition bitcoin_fr_FR : catalogue :=
  [Context "AddressBookPage" (fr_AddressBookPage_1 ++ fr_AddressBookPage_2);
   Context "AddressTableModel" (fr_AddressTableModel);
   Context "AskPassphraseDialog" (fr_AskPassphraseDialog_1 ++ fr_AskPassphraseDialog_2);
   Context "BanTableModel" (fr_BanTableModel);
   Context "BitcoinGUI" (fr_BitcoinGUI_1 ++ fr_BitcoinGUI_2 ++ fr_BitcoinGUI_3 ++ fr_BitcoinGUI_4);
   Context "CoinControlDialog" (fr_CoinControlDialog_1 ++ fr_CoinControlDialog_2);
   Context "EditAddressDialog" (fr_EditAddressDialog);
   Context "FreespaceChecker" (fr_FreespaceChecker);
   Context "HelpMessageDialog" (fr_HelpMessageDialog);
   Context "Intro" (fr_Intro);
   Context "MnemonicDialog" (fr_MnemonicDialog_1 ++ fr_MnemonicDialog_2);
   Context "ModalOverlay" (fr_ModalOverlay);
   Context "OpenURIDialog" (fr_OpenURIDialog);
   Context "OptionsDialog" (fr_OptionsDialog_1 ++ fr_OptionsDialog_2 ++ fr_OptionsDialog_3);
   Context "OverviewPage" (fr_OverviewPage);
   Context "PaymentServer" (fr_PaymentServer);
   Context "PeerTableModel" (fr_PeerTableModel);
   Context "QObject" (fr_QObject);
   Context "QObject::QObject" (fr_QObject__QObject);
   Context "QRImageWidget" (fr_QRImageWidget);
   Context "RPCConsole" (fr_RPCConsole_1 ++ fr_RPCConsole_2 ++ fr_RPCConsole_3);
   Context "ReceiveCoinsDialog" (fr_ReceiveCoinsDialog);
   Context "ReceiveRequestDialog" (fr_ReceiveRequestDialog);
   Context "RecentRequestsTableModel" (fr_RecentRequestsTableModel);
   Context "SendCoinsDialog" (fr_SendCoinsDialog_1 ++ fr_SendCoinsDialog_2 ++ fr_SendCoinsDialog_3);
   Context "SendCoinsEntry" (fr_SendCoinsEntry_1 ++ fr_SendCoinsEntry_2);
   Context "SendConfirmationDialog" (fr_SendConfirmationDialog);
   Context "ShutdownWindow" (fr_ShutdownWindow);
   Context "SignVerifyMessageDialog" (fr_SignVerifyMessageDialog_1 ++ fr_SignVerifyMessageDialog_2);
   Context "SplashScreen" (fr_SplashScreen);
   Context "StakingDialog" (fr_StakingDialog_1 ++ fr_StakingDialog_2);
   Context "TrafficGraphWidget" (fr_TrafficGraphWidget);
   Context "TransactionDesc" (fr_TransactionDesc_1 ++ fr_TransactionDesc_2);
   Context "TransactionDescDialog" (fr_TransactionDescDialog);
   Context "TransactionTableModel" (fr_TransactionTableModel_1 ++ fr_TransactionTableModel_2);
   Context "TransactionView" (fr_TransactionView_1 ++ fr_TransactionView_2);
   Context "TxViewDelegate" (fr_TxViewDelegate);
   Context "UnitDisplayStatusBarControl" (fr_UnitDisplayStatusBarControl);
   Context "WalletFrame" (fr_WalletFrame);
   Context "WalletModel" (fr_WalletModel);
   Context "WalletView" (fr_WalletView);
   Context "bitcoin-core" (fr_bitcoin_core_1 ++ fr_bitcoin_core_2 ++ fr_bitcoin_core_3 ++ fr_bitcoin_core_4 ++ fr_bitcoin_core_5 ++ fr_bitcoin_core_6 ++ fr_bitcoin_core_7 ++ fr_bitcoin_core_8 ++ fr_bitcoin_core_9)].
