(* ===== verification/CatalogueHu.v ===== *)
(** The Hungarian catalogue, [src/src/qt/locale/bitcoin_hu_HU.ts], context by context; a long
    context is cut into parts.  Texts are as in the file. *)
From S2P Require Import Prelude Locale.
Open Scope txt_scope.
Open Scope list_scope.

Definition hu_AddressBookPage_1 : list message :=
  [Message false [Loc (Some "../forms/addressbookpage.ui") "+27"]
     "Enter address or label to search" true
     ["A kereséshez adja meg a címet vagy a címkét."];
   Message false [Loc None "+10"]
     "Right-click to edit address or label" true
     ["A jobb gombbal kattintva szerkesztheti a címet vagy a címkét"];
   Message false [Loc None "+30"; Loc None "+17"; Loc None "+17"]
     "Create a new address" true
     ["Új cím létrehozása"];
   Message false [Loc None "-31"]
     "&amp;New" true
     ["A New"];
   Message false [Loc None "+17"]
     "&amp;New Stake address" true
     ["Egy új tét címe"];
   Message false [Loc None "+17"]
     "&amp;New ColdStake address" true
     ["Reggeli új ColdStake cím"];
   Message false [Loc None "+14"]
     "Copy the currently selected address to the system clipboard" true
     ["Az aktuálisan kijelölt cím másolása a rendszer vágólapjára"];
   Message false [Loc None "+3"]
     "&amp;Copy" true
     ["A &quot;másolás&quot;"];
   Message false [Loc None "+14"]
     "Delete the currently selected address from the list" true
     ["Az aktuálisan kijelölt cím törlése a listáról."];
   Message false [Loc None "+3"]
     "&amp;Delete" true
     ["Törlés"];
   Message false [Loc None "+27"]
     "Export the data in the current tab to a file" true
     ["Az aktuális lap adatainak exportálása fájlba"];
   Message false [Loc None "+3"]
     "&amp;Export" true
     ["Reggeli kivitel"];
   Message false [Loc None "+20"]
     "C&amp;lose" true
     ["C&amp;veszít"];
   Message false [Loc (Some "../addressbookpage.cpp") "+84"]
     "These are your Bitcoin Confidential addresses for sending payments. Always check the amount and the receiving address before sending coins." true
     ["Ezek az Ön Bitcoin bizalmas címeket küld kifizetéseket. Mindig ellenőrizd az összeget és a fogadó címet, mielőtt érméket küldnél."];
   Message false [Loc None "+8"]
     "Choose the address to send coins to" true
     ["Válassza ki a címet küldeni érméket"];
   Message false [Loc None "+4"; Loc None "+22"; Loc None "+28"]
     "C&amp;hoose" true
     ["C&amp;Hoose"];
   Message false [Loc None "-44"]
     "Sending addresses" true
     ["Küldési címek"];
   Message false [Loc None "+12"]
     "Choose the address to receive coins with" true
     ["Válassza ki a címet kap-érmék"];
   Message false [Loc None "+10"]
     "Receiving addresses" true
     ["Bevételezés, címek"];
   Message false [Loc None "+1"]
     "These are your Bitcoin Confidential addresses for receiving payments. It is recommended to use a new receiving address for each transaction." true
     ["Ezek a Bitcoin bizalmas címek a fizetések fogadására. Ajánlott minden egyes tranzakcióhoz új bevételezési címet használni."];
   Message false [Loc None "+13"]
     "Choose the Stake or ColdStake address" true
     ["Válaszd ki a tét vagy ColdStake címét"];
   Message false [Loc None "+1"]
     "These are your Bitcoin Confidential Stake and ColdStake addresses." true
     ["Ezek az Ön Bitcoin bizalmas tét és ColdStake címeket."];
   Message false [Loc None "+16"]
     "Stake and ColdStake addresses" true
     ["A tét és a ColdStake címek"];
   Message false [Loc None "+1"]
     "These addresses cannot be used to receive coins from outside the wallet, such as payments or from exchanges.  Use the Receive tab to generate spending addresses.

Stake addresses, starting with &quot;%1&quot;, are used to convert spending funds into staking funds in the &quot;Convert to Staking&quot; tab. Funds in Stake addresses can be either used for hot staking or the activation of ColdStaking.

ColdStake addresses, starting with &quot;%2&quot;, are used to manually activate staking funds for ColdStaking. There is no need to generate ColdStake addresses when the automated ColdStaking activation from the Staking Status page is used." true
     ["Ezek a címek nem használhatók érmék fogadására a mobiltárcán kívülről, például fizetésekből vagy cserékből.  A fogadás lap segítségével kiadáscímeket hozhat létre.

A (z) &quot;% 1&quot;-vel kezdődő tétcímek a kiadási alapokat a &quot;Konvertálás Staking&quot; fülre alakítják. az alapok a tét címeket lehet használni a forró Staking vagy aktiválása ColdStaking.

A Coldtét cím, kezdve &quot;% 2&quot;, használják kézzel aktiválni Staking alapok ColdStaking. Nincs szükség-hoz létrehoz ColdStake címek Mikor a gyorsbüfé ColdStaking aktiválás-ból Staking helyzet oldal van használt."];
   Message false [Loc None "+11"]
     "&amp;Copy Address" true
     ["A cím másolása"];
   Message false [Loc None "+1"]
     "Copy &amp;Label" true
     ["Reggeli címke"];
   Message false [Loc None "+1"]
     "&amp;Edit" true
     ["Szerkesztés"]].

Definition hu_AddressBookPage_2 : list message :=
  [Message false [Loc None "+186"]
     "Export Address List" true
     ["Címlista exportálása"];
   Message false [Loc None "+1"]
     "Comma separated file (*.csv)" true
     ["Vesszővel tagolt fájl (*. csv)"];
   Message false [Loc None "+13"]
     "Exporting Failed" true
     ["Sikertelen exportálás"];
   Message false [Loc None "+1"]
     "There was an error trying to save the address list to %1. Please try again." true
     ["Hiba történt a címlista% 1 értékre történő mentése közben. Próbálkozzunk újra."]].

Definition hu_AddressTableModel : list message :=
  [Message false [Loc (Some "../addresstablemodel.cpp") "+188"]
     "Label" true
     ["Címke"];
   Message false [Loc None "+0"]
     "Address" true
     ["Cím"];
   Message false [Loc None "+36"]
     "(no label)" true
     ["(címke nélkül)"]].

Definition hu_AskPassphraseDialog_1 : list message :=
  [Message false [Loc (Some "../forms/askpassphrasedialog.ui") "+26"]
     "Passphrase Dialog" true
     ["Jelmondat párbeszédpanel"];
   Message false [Loc None "+30"]
     "Enter passphrase" true
     ["Írja be a jelmondatot"];
   Message false [Loc None "+14"]
     "New passphrase" true
     ["Új jelmondat"];
   Message false [Loc None "+14"]
     "Repeat new passphrase" true
     ["Új jelmondat ismétlése"];
   Message false [Loc None "+14"]
     "Show password" true
     ["Mutasd a jelszavam"];
   Message false [Loc None "+23"]
     "Unlock For Staking Only" true
     ["Kinyit a Staking csak"];
   Message false [Loc (Some "../askpassphrasedialog.cpp") "+48"]
     "Enter the new passphrase to the wallet.&lt;br/&gt;Please use a passphrase of &lt;b&gt;ten or more random characters&lt;/b&gt;, or &lt;b&gt;eight or more words&lt;/b&gt;." true
     ["Írja be az új jelmondatot a mobiltárcába.&lt;br&gt;Használjon &lt;b&gt;tíz vagy több véletlenszerű karaktert&lt;/b&gt;, illetve &lt;b&gt;nyolc vagy több szót&lt;/b&gt;tartalmazó jelmondatot."];
   Message false [Loc None "+3"]
     "Encrypt wallet" true
     ["Mobiltárca titkosítása"];
   Message false [Loc None "+3"; Loc None "+8"]
     "This operation needs your wallet passphrase to unlock the wallet." true
     ["Ez operáció szükséges-a levéltárca jelmondat-hoz kinyit a levéltárca."];
   Message false [Loc None "-3"; Loc None "+9"]
     "Unlock wallet" true
     ["Mobiltárca zárolásának feloldása"];
   Message false [Loc None "+3"]
     "This operation needs your wallet passphrase to decrypt the wallet." true
     ["Ez operáció szükséges-a levéltárca jelmondat-hoz hírbe hoz a levéltárca."];
   Message false [Loc None "+5"]
     "Decrypt wallet" true
     ["Mobiltárca visszafejtése"];
   Message false [Loc None "+3"]
     "Change passphrase" true
     ["Jelmondat módosítása"];
   Message false [Loc None "+1"]
     "Enter the old passphrase and new passphrase to the wallet." true
     ["A mobiltárcába írjuk be a régi jelszót és az új jelmondatot."];
   Message false [Loc None "+47"]
     "Confirm wallet encryption" true
     ["A mobiltárca titkosításának megerősítése"];
   Message false [Loc None "+1"]
     "Warning: If you encrypt your wallet and lose your passphrase, you will &lt;b&gt;LOSE ALL OF YOUR BITCOIN CONFIDENTIAL&lt;/b&gt;!" true
     ["Figyelmeztetés: Ha titkosítja a tárcáját, és elveszíti a jelmondatot, akkor elveszíti az &lt;b&gt;összes BITCOIN bizalmas&lt;/b&gt;!"];
   Message false [Loc None "+0"]
     "Are you sure you wish to encrypt your wallet?" true
     ["Biztosan titkosítani szeretné a pénztárcáját?"];
   Message false [Loc None "+9"; Loc None "+59"]
     "Wallet encrypted" true
     ["Mobiltárca kódolt"];
   Message false [Loc None "-57"]
     "%1 will close now to finish the encryption process. Remember that encrypting your wallet cannot fully protect your Bitcoin Confidential from being stolen by malware infecting your computer." true
     ["a (z)% 1 bezárja a titkosítási folyamatot. Ne feledje, hogy titkosítja a pénztárca nem tudja teljes mértékben megvédeni a Bitcoin bizalmas attól, hogy ellopják a malware megfertőzheti a számítógépet."];
   Message false [Loc None "+4"]
     "IMPORTANT: Any previous backups you have made of your wallet file should be replaced with the newly generated, encrypted wallet file. For security reasons, previous backups of the unencrypted wallet file will become useless as soon as you start using the new, encrypted wallet." true
     ["Fontos: minden korábbi biztonsági másolatot készített a pénztárca fájlt kell cserélni az újonnan generált, titkosított pénztárca fájlt. Részére biztonság okok, előző hát-ból titkosítatlan levéltárca reszelő akarat válik hiábavaló mihelyt lehet ön elkezd használ a új, encrypted levéltárca."];
   Message false [Loc None "+9"; Loc None "+7"; Loc None "+43"; Loc None "+6"]
     "Wallet encryption failed" true
     ["A mobiltárca titkosítása sikertelen"];
   Message false [Loc None "-55"]
     "Wallet encryption failed due to an internal error. Your wallet was not encrypted." true
     ["A mobiltárca titkosítása belső hiba miatt meghiúsult. A pénztárcád nem volt titkosítva."];
   Message false [Loc None "+7"; Loc None "+49"]
     "The supplied passphrases do not match." true
     ["A megadott jelmondat nem egyezik."];
   Message false [Loc None "-37"]
     "Wallet unlock failed" true
     ["Mobiltárca-zárolás feloldása sikertelen"];
   Message false [Loc None "+1"; Loc None "+11"; Loc None "+19"]
     "The passphrase entered for the wallet decryption was incorrect." true
     ["A mobiltárca visszafejtéséhez megadott jelmondat helytelen."];
   Message false [Loc None "-20"]
     "Wallet decryption failed" true
     ["A mobiltárca visszafejtési hiba"];
   Message false [Loc None "+14"]
     "Wallet passphrase was successfully changed." true
     ["A mobiltárca-jelszó sikeresen módosult."]].

Definition hu_AskPassphraseDialog_2 : list message :=
  [Message false [Loc None "+48"; Loc None "+33"]
     "Warning: The Caps Lock key is on!" true
     ["Figyelmeztetés: a CAPS LOCK be van kapcsolva!"]].

Definition hu_BanTableModel : list message :=
  [Message false [Loc (Some "../bantablemodel.cpp") "+88"]
     "IP/Netmask" true
     ["IP/hálózati maszk"];
   Message false [Loc None "+0"]
     "Banned Until" true
     ["Kitiltottak ig"]].

Definition hu_BitcoinGUI_1 : list message :=
  [Message false [Loc (Some "../bitcoingui.cpp") "+94"]
     "Wallet" true
     ["Pénztárca"];
   Message false [Loc None "+2"]
     "Node" true
     ["Csomópont"];
   Message false [Loc None "+169"]
     "Overview" true
     ["Áttekintés"];
   Message false [Loc None "+1"]
     "Show general overview of wallet" true
     ["A mobiltárca általános áttekintésének megjelenítése"];
   Message false [Loc None "+7"]
     "Send" true
     ["Küldj"];
   Message false [Loc None "+1"]
     "Send coins to a Bitcoin Confidential Spending address" true
     ["Küldje érmék a Bitcoin bizalmas kiadások cím"];
   Message false [Loc None "+11"]
     "Receive" true
     ["Kap"];
   Message false [Loc None "+1"]
     "Request payments (generates Spending address QR codes and bitcoinc: URIs)" true
     ["Kifizetések kérése (a QR-kódok és bitcoinc... címzés)"];
   Message false [Loc None "+11"]
     "Transactions" true
     ["Tranzakciók"];
   Message false [Loc None "+1"]
     "Browse transaction history" true
     ["A tranzakcióelőzmények tallózása"];
   Message false [Loc None "+7"]
     "Staking" true
     ["Staking"];
   Message false [Loc None "+1"]
     "Setup staking" true
     ["A telepítő Staking"];
   Message false [Loc None "+25"]
     "E&amp;xit" true
     ["Az e&amp;xit"];
   Message false [Loc None "+1"]
     "Quit application" true
     ["Kilépés az alkalmazásból"];
   Message false [Loc None "+3"]
     "&amp;About %1" true
     ["A (z)% 1"];
   Message false [Loc None "+1"]
     "Show information about %1" true
     ["Információ megjelenítése a (z)% 1"];
   Message false [Loc None "+3"]
     "About &amp;Qt" true
     ["A reggeli QT"];
   Message false [Loc None "+1"]
     "Show information about Qt" true
     ["Adatok megjelenítése a Qt-ről"];
   Message false [Loc None "+2"]
     "&amp;Options..." true
     ["A..."];
   Message false [Loc None "+1"]
     "Modify configuration options for %1" true
     ["% 1 konfigurációs beállításainak módosítása"];
   Message false [Loc None "+3"]
     "&amp;Show / Hide" true
     ["Reggeli megjelenítése/elrejtése"];
   Message false [Loc None "+1"]
     "Show or hide the main Window" true
     ["A főablak megjelenítése vagy elrejtése"];
   Message false [Loc None "+2"]
     "&amp;Encrypt Wallet..." true
     ["Reggeli titkosítása Wallet..."];
   Message false [Loc None "+1"]
     "Encrypt the private keys that belong to your wallet" true
     ["A mobiltárcába tartozó személyes kulcsok titkosítása"];
   Message false [Loc None "+2"]
     "&amp;Backup Wallet..." true
     ["Es Backup Wallet..."];
   Message false [Loc None "+1"]
     "Backup wallet to another location" true
     ["Biztonságimásolat-készítő tárca másik helyre"];
   Message false [Loc None "+1"]
     "&amp;Change Passphrase..." true
     ["Os változás passphrase..."];
   Message false [Loc None "+1"]
     "Change the passphrase used for wallet encryption" true
     ["A mobiltárca-titkosítás használt jelmondat módosítása"];
   Message false [Loc None "+1"]
     "Sign &amp;message..." true
     ["Az üzenet aláírása..."]].

Definition hu_BitcoinGUI_2 : list message :=
  [Message false [Loc None "+1"]
     "Sign messages with your Bitcoin Confidential addresses to prove you own them" true
     ["Jelentkezzen üzenetek a Bitcoin bizalmas címek bizonyítani, hogy a saját őket"];
   Message false [Loc None "+1"]
     "&amp;Verify message..." true
     ["A üzenet ellenőrzése..."];
   Message false [Loc None "+1"]
     "Verify messages to ensure they were signed with specified Bitcoin Confidential addresses" true
     ["Igazol üzenet-hoz biztosít ők voltak aláíró-val megjelölt Bitcoin bizalmas címek"];
   Message false [Loc None "+2"]
     "&amp;Debug window" true
     ["Os debug ablak"];
   Message false [Loc None "+1"]
     "Open debugging and diagnostic console" true
     ["Hibakereső-és diagnosztikai konzol megnyitása"];
   Message false [Loc None "+4"]
     "&amp;Sending addresses..." true
     ["Reggeli címküldés..."];
   Message false [Loc None "+1"]
     "Show the list of used sending addresses and labels" true
     ["A használt küldési címek és címcímkék listájának megjelenítése"];
   Message false [Loc None "+1"]
     "&amp;Receiving addresses..." true
     ["Reggeli fogadásának címe..."];
   Message false [Loc None "+1"]
     "Show the list of used receiving addresses and labels" true
     ["A használt fogadcímek és címcímkék listájának megjelenítése"];
   Message false [Loc None "+2"]
     "Open &amp;URI..." true
     ["Reggeli URI..."];
   Message false [Loc None "+1"]
     "Open a bitcoinc: URI or payment request" true
     ["Egy bitcoinc: URI vagy kifizetési kérelem megnyitása"];
   Message false [Loc None "+2"]
     "&amp;Command-line options" true
     ["Os parancssori kapcsolók"];
   Message false [Loc None "+2"]
     "Show the %1 help message to get a list with possible Bitcoin Confidential command-line options" true
     ["A (z)% 1 súgóüzenet megjelenítése a lehetséges Bitcoin bizalmas parancssori beállításokkal való listához"];
   Message false [Loc None "+2"]
     "&amp;HD Wallet..." true
     ["Os HD Wallet..."];
   Message false [Loc None "+45"]
     "&amp;File" true
     ["I fájl"];
   Message false [Loc None "+16"]
     "&amp;Settings" true
     ["Beállítások"];
   Message false [Loc None "+9"]
     "&amp;Help" true
     ["Os Súgó"];
   Message false [Loc None "+15"]
     "Tabs toolbar" true
     ["Tabulátorok eszköztár"];
   Message false [Loc None "+113"]
     "default wallet" true
     ["alapértelmezett mobiltárca"];
   Message false [Loc None "+88"]
     "%1 client" true
     ["% 1 ügyfél"];
   Message true [Loc None "+189"]
     "%n active connection(s) to Bitcoin Confidential network" true
     ["% n aktív kapcsolat Bitcoin bizalmas hálózathoz"; "% n aktív kapcsolat Bitcoin bizalmas hálózathoz"];
   Message false [Loc None "+0"]
     "Click to disable network activity." true
     ["Ide kattintva letiltható a hálózati tevékenység."];
   Message false [Loc None "+2"]
     "Network activity disabled." true
     ["Hálózati aktivitás letiltva."];
   Message false [Loc None "+0"]
     "Click to enable network activity again." true
     ["Ide kattintva ismét engedélyezheti a hálózati tevékenységet."];
   Message false [Loc None "+28"]
     "Syncing Headers (%1%)..." true
     ["Fejlécek szinkronizálása (% 1%)..."];
   Message false [Loc None "+26"]
     "Synchronizing with network..." true
     ["Szinkronizálás a hálózattal..."];
   Message false [Loc None "+5"]
     "Indexing blocks on disk..." true
     ["Indexelő blokkok a lemezen..."];
   Message false [Loc None "+2"]
     "Processing blocks on disk..." true
     ["Blokkfeldolgozási blokkok a lemezen..."];
   Message false [Loc None "+4"]
     "Reindexing blocks on disk..." true
     ["A lemezen lévő blokkok újraindexelése..."];
   Message false [Loc None "+6"]
     "Connecting to peers..." true
     ["Kapcsolódás társaikhoz..."]].

Definition hu_BitcoinGUI_3 : list message :=
  [Message true [Loc None "+9"]
     "Processed %n block(s) of transaction history." true
     ["% N feldolgozott tranzakció-előzmények tömbje (i)."; "% N feldolgozott tranzakció-előzmények tömbje (i)."];
   Message false [Loc None "+5"]
     "Up to date" true
     ["friss"];
   Message false [Loc None "+19"]
     "%1 behind" true
     ["hátra (% 1)"];
   Message false [Loc None "+5"]
     "Catching up..." true
     ["Felzárkózik..."];
   Message false [Loc None "+19"]
     "Last received block was generated %1 ago." true
     ["Az utolsó fogadott blokk generálása:% 1 ezelőtt."];
   Message false [Loc None "+2"]
     "Transactions after this will not yet be visible." true
     ["Azok a tranzakciók, amelyek után ez még nem lesz látható."];
   Message false [Loc None "+13"]
     "Bitcoin Confidential" true
     ["Bizalmas Bitcoin"];
   Message false [Loc None "+14"]
     "Error" true
     ["Hiba"];
   Message false [Loc None "+3"]
     "Warning" true
     ["Figyelmeztetés"];
   Message false [Loc None "+3"]
     "Information" true
     ["Információ"];
   Message false [Loc None "+116"]
     "Date: %1
" true
     ["Dátum:% 1"];
   Message false [Loc None "+1"]
     "Amount: %1
" true
     ["Összeg:% 1"];
   Message false [Loc None "+2"]
     "Wallet: %1
" true
     ["Mobiltárca:% 1"];
   Message false [Loc None "+2"]
     "Type: %1
" true
     ["Típus:% 1"];
   Message false [Loc None "+2"]
     "Label: %1
" true
     ["Címke:% 1"];
   Message false [Loc None "+2"]
     "Address: %1
" true
     ["Cím:% 1"];
   Message false [Loc None "+1"]
     "Sent transaction" true
     ["Elküldött tranzakció"];
   Message false [Loc None "+0"]
     "Incoming transaction" true
     ["Beérkező tranzakció"];
   Message false [Loc None "+52"]
     "HD key generation is &lt;b&gt;enabled&lt;/b&gt;" true
     ["A HD-kulcs létrehozása &lt;b&gt;engedélyezve&lt;/b&gt; van"];
   Message false [Loc None "+0"]
     "HD key generation is &lt;b&gt;disabled&lt;/b&gt;" true
     ["HD kulcs termelés van &lt;b&gt;meghibásodott&lt;/b&gt;"];
   Message false [Loc None "+13"]
     "Wallet is &lt;b&gt;not encrypted&lt;/b&gt;. Click the opened lock to encrypt it." true
     ["A mobiltárca &lt;b&gt;nincs titkosítva&lt;/b&gt;. A titkosításhoz kattintson a megnyitott zárolásra."];
   Message false [Loc None "+8"]
     "Wallet is &lt;b&gt;encrypted&lt;/b&gt; and currently &lt;b&gt;unlocked&lt;/b&gt;" true
     ["Pénztárca &lt;b&gt;titkosított&lt;/b&gt; , és jelenleg &lt;b&gt;nyitva&lt;/b&gt;"];
   Message false [Loc None "+8"]
     "Wallet is &lt;b&gt;encrypted&lt;/b&gt; and currently &lt;b&gt;unlocked&lt;/b&gt; for staking only" true
     ["Pénztárca &lt;b&gt;titkosított&lt;/b&gt; , és jelenleg &lt;b&gt;kinyitotta&lt;/b&gt; a Staking csak"];
   Message false [Loc None "+8"]
     "Wallet is &lt;b&gt;encrypted&lt;/b&gt; and currently &lt;b&gt;locked&lt;/b&gt;" true
     ["A mobiltárca &lt;b&gt;titkosított&lt;/b&gt; , és jelenleg &lt;b&gt;zárolva&lt;/b&gt; van"];
   Message false [Loc None "+58"]
     "Proxy is &lt;b&gt;enabled&lt;/b&gt;: %1" true
     ["A proxy &lt;b&gt;engedélyezve&lt;/b&gt;van:% 1"];
   Message false [Loc None "+28"]
     "Tor is &lt;b&gt;enabled&lt;/b&gt;" true
     ["Sírhalom van &lt;b&gt;lehetővé tett&lt;/b&gt;"];
   Message false [Loc None "+3"]
     "Tor is &lt;b&gt;enabled&lt;/b&gt;, but its not the only network used. Use only onlynet=onion." true
     ["Sírhalom van &lt;b&gt;lehetővé tett&lt;/b&gt;, de-a nem a egyetlen hálózat használt. Csak onlynet = vöröshagyma használata."];
   Message false [Loc None "+3"]
     "Tor is &lt;b&gt;disabled&lt;/b&gt;. To enhance your privacy setup consider using tor by setting &lt;b&gt;onlynet=onion&lt;/b&gt; in your &lt;b&gt;bitcoinc.conf&lt;/b&gt;." true
     ["Sírhalom van &lt;b&gt;meghibásodott&lt;/b&gt;. -Hoz növel-a magány beállít tekint használ Sírhalom mellett elintézés &lt;b&gt;onlynet = vöröshagyma&lt;/b&gt; -ban-a &lt;b&gt;bitcoinc. conf&lt;/b&gt;."]].

Definition hu_BitcoinGUI_4 : list message :=
  [Message false [Loc (Some "../bitcoin.cpp") "+528"]
     "A fatal error occurred. Bitcoin Confidential can no longer continue safely and will quit." true
     ["Végzetes hiba történt. Bitcoin bizalmas már nem is biztonságos, és kilép."]].

Definition hu_CoinControlDialog_1 : list message :=
  [Message false [Loc (Some "../forms/coincontroldialog.ui") "+14"]
     "Coin Selection" true
     ["Érmés kiválasztás"];
   Message false [Loc None "+34"]
     "Quantity:" true
     ["Mennyiség:"];
   Message false [Loc None "+29"]
     "Bytes:" true
     ["Bájt:"];
   Message false [Loc None "+45"]
     "Amount:" true
     ["Összeg:"];
   Message false [Loc None "+32"]
     "Dust:" true
     ["Por:"];
   Message false [Loc None "+48"]
     "Fee:" true
     ["Díj:"];
   Message false [Loc None "+45"]
     "After Fee:" true
     ["Díj után:"];
   Message false [Loc None "+32"]
     "Change:" true
     ["Módosítása:"];
   Message false [Loc None "+57"]
     "Standard" true
     ["Standard"];
   Message false [Loc None "+5"]
     "Anon" true
     ["Anon"];
   Message false [Loc None "+14"]
     "Show all" true
     ["Mutasd az összes"];
   Message false [Loc None "+13"]
     "(un)select all" true
     ["(un) válassza ki az összes"];
   Message false [Loc None "+16"]
     "Tree mode" true
     ["Fa üzemmódja"];
   Message false [Loc None "+13"]
     "List mode" true
     ["Lista üzemmód"];
   Message false [Loc None "+74"]
     "Amount" true
     ["Összeg"];
   Message false [Loc None "+8"]
     "Received with label" true
     ["Bevételezett címke"];
   Message false [Loc None "+5"]
     "Received with address" true
     ["Címhez érkezett"];
   Message false [Loc None "+5"]
     "Date" true
     ["Dátum"];
   Message false [Loc None "+5"]
     "Confirmations" true
     ["Visszaigazolások"];
   Message false [Loc None "+3"]
     "Confirmed" true
     ["Megerősítette"];
   Message false [Loc (Some "../coincontroldialog.cpp") "+73"]
     "Copy address" true
     ["Címmásolás"];
   Message false [Loc None "+1"]
     "Copy label" true
     ["Címke másolása"];
   Message false [Loc None "+1"; Loc None "+26"]
     "Copy amount" true
     ["Másolandó összeg"];
   Message false [Loc None "-25"]
     "Copy transaction ID" true
     ["Tranzakcióazonosító másolása"];
   Message false [Loc None "+1"]
     "Lock unspent" true
     ["El nem költött zárolása"];
   Message false [Loc None "+1"]
     "Unlock unspent" true
     ["El nem költött zárolásának feloldása"];
   Message false [Loc None "+22"]
     "Copy quantity" true
     ["Mennyiség másolása"];
   Message false [Loc None "+2"]
     "Copy fee" true
     ["Másolási díj"];
   Message false [Loc None "+1"]
     "Copy after fee" true
     ["Átmásolás díj után"]].

Definition hu_CoinControlDialog_2 : list message :=
  [Message false [Loc None "+1"]
     "Copy bytes" true
     ["Másolandó bájtok"];
   Message false [Loc None "+1"]
     "Copy dust" true
     ["Pormásolás"];
   Message false [Loc None "+1"]
     "Copy change" true
     ["Másolási változás"];
   Message false [Loc None "+340"]
     "(%1 locked)" true
     ["(% 1 zárolva)"];
   Message false [Loc None "+161"]
     "yes" true
     ["igen"];
   Message false [Loc None "+0"]
     "no" true
     ["nem"];
   Message false [Loc None "+14"]
     "This label turns red if any recipient receives an amount smaller than the current dust threshold." true
     ["Ez a címke pirosra változik, ha bármelyik címzett az aktuális porküszöbértéknél kisebb összeget kap."];
   Message false [Loc None "+5"]
     "Can vary +/- %1 satoshi(s) per input." true
     ["Változhat +/-% 1 Satoshi (ek) per bemenet."];
   Message false [Loc None "+47"]
     "Hide immature" true
     ["Éretlen elrejtése"];
   Message false [Loc None "+2"]
     "Hide locked" true
     ["Rejteni zárolt"];
   Message false [Loc None "+6"]
     "Show immature" true
     ["Az éretlen megjelenítése"];
   Message false [Loc None "+2"]
     "Show locked" true
     ["Zárolásnak megjelenítése"];
   Message false [Loc None "+26"; Loc None "+66"; Loc None "+11"]
     "(no label)" true
     ["(címke nélkül)"];
   Message false [Loc None "-19"]
     "change from %1 (%2)" true
     ["módosítás% 1-ről (% 2)"];
   Message false [Loc None "+1"; Loc None "+20"]
     "(change)" true
     ["módosítása"];
   Message false [Loc None "-17"]
     "spending from %1 (%2)" true
     ["kiadások% 1-ből (% 2)"]].

Definition hu_EditAddressDialog : list message :=
  [Message false [Loc (Some "../forms/editaddressdialog.ui") "+14"]
     "Edit Address" true
     ["Címszerkesztés"];
   Message false [Loc None "+11"]
     "&amp;Label" true
     ["Reggeli címke"];
   Message false [Loc None "+10"]
     "The label associated with this address list entry" true
     ["A címlista-bejegyzéshez társított címke"];
   Message false [Loc None "+7"]
     "&amp;Address" true
     ["Reggeli címe"];
   Message false [Loc None "+10"]
     "The address associated with this address list entry. This can only be modified for sending addresses." true
     ["A címlista-bejegyzéshez társított cím. Ezt csak címküldéshez lehet módosítani."];
   Message false [Loc (Some "../editaddressdialog.cpp") "+29"]
     "New receiving address" true
     ["Új bevételezési cím"];
   Message false [Loc None "+5"]
     "New sending address" true
     ["Új küldési cím"];
   Message false [Loc None "+3"]
     "New Stake address" true
     ["Új tét-cím"];
   Message false [Loc None "+5"]
     "New ColdStake address" true
     ["Új ColdStake cím"];
   Message false [Loc None "+5"]
     "Edit receiving address" true
     ["Bevételezési cím szerkesztése"];
   Message false [Loc None "+4"]
     "Edit sending address" true
     ["Küldési cím szerkesztése"];
   Message false [Loc None "+87"]
     "The entered address &quot;%1&quot; is not a valid Bitcoin Confidential address." true
     ["A beírt cím (&quot;% 1&quot;) nem érvényes Bitcoin bizalmas cím."];
   Message false [Loc None "+10"]
     "Could not unlock wallet." true
     ["Nem sikerült feloldani a mobiltárca zárolását."];
   Message false [Loc None "+5"]
     "New key generation failed." true
     ["Az új kulcsgenerálás nem sikerült."];
   Message false [Loc None "+18"]
     "Address &quot;%1&quot; already exists as a receiving address with label &quot;%2&quot; and so cannot be added as a sending address." true
     ["A (z) &quot;% 1&quot; cím már létezik fogadó címként a (z) &quot;% 2&quot; címkével, így nem adható hozzá küldési címként."];
   Message false [Loc None "+5"]
     "The entered address &quot;%1&quot; is already in the address book with label &quot;%2&quot;." true
     ["A beírt cím (&quot;% 1&quot;) már szerepel a (z) &quot;% 2&quot; címkével rendelkező címjegyzékben."]].

Definition hu_FreespaceChecker : list message :=
  [Message false [Loc (Some "../intro.cpp") "+78"]
     "A new data directory will be created." true
     ["Új adatkönyvtárat hoz létre a rendszer."];
   Message false [Loc None "+22"]
     "name" true
     ["név"];
   Message false [Loc None "+2"]
     "Directory already exists. Add %1 if you intend to create a new directory here." true
     ["A könyvtár már létezik. Ha itt új könyvtárat szeretne létrehozni, adja hozzá a következőt (% 1)."];
   Message false [Loc None "+3"]
     "Path already exists, and is not a directory." true
     ["Az elérési út már létezik, és nem könyvtár."];
   Message false [Loc None "+7"]
     "Cannot create data directory here." true
     ["Nem hozható létre adatkönyvtár."]].

Definition hu_HelpMessageDialog : list message :=
  [Message false [Loc (Some "../utilitydialog.cpp") "+41"]
     "version" true
     ["Változat"];
   Message false [Loc None "+5"; Loc None "+2"]
     "(%1-bit)" true
     ["(% 1 bites)"];
   Message false [Loc None "+5"]
     "About %1" true
     ["Körülbelül% 1"];
   Message false [Loc None "+19"]
     "Command-line options" true
     ["Parancssori kapcsolók"]].

Definition hu_Intro : list message :=
  [Message false [Loc (Some "../forms/intro.ui") "+14"]
     "Welcome" true
     ["üdvözlet"];
   Message false [Loc None "+9"]
     "Welcome to %1." true
     ["Üdvözli a (z)% 1."];
   Message false [Loc None "+26"]
     "As this is the first time the program is launched, you can choose where %1 will store its data." true
     ["Mivel ez az első alkalom, amikor a program elindul, megadhatja, hogy hol tárolja a (z)% 1 az adatait."];
   Message false [Loc None "+17"]
     "Use the default data directory" true
     ["Az alapértelmezett adatkönyvtár használata"];
   Message false [Loc None "+7"]
     "Use a custom data directory:" true
     ["Egyéni adatkönyvtár használata:"];
   Message false [Loc None "+140"]
     "When you click OK, %1 will begin to download and process the full %4 block chain (%2GB) starting with the earliest transactions in %3 when %4 initially launched." true
     ["Az OK gombra kattintva a (z)% 1 elkezdi letölteni és feldolgozni a teljes% 4 blokkláncot (% 2GB) kezdve a (z)% 3 legkorábbi tranzakcióitól, amikor% 4 kezdetben indultak."];
   Message false [Loc None "+10"]
     "This initial synchronisation is very demanding, and may expose hardware problems with your computer that had previously gone unnoticed. Each time you run %1, it will continue downloading where it left off." true
     ["Ez a kezdeti szinkronizálás nagyon igényes, és ki hardverproblémák a számítógép, hogy korábban elment észrevétlenül. A (z)% 1 futtatásakor a rendszer folytatja a letöltést, ha azt abbahagyta."];
   Message false [Loc None "+10"]
     "If you have chosen to limit block chain storage (pruning), the historical data must still be downloaded and processed, but will be deleted afterward to keep your disk usage low." true
     ["Ha úgy döntött, hogy korlátozza a blokklánc tárolását (metszés), az előzményadatokat továbbra is le kell tölteni és fel kell dolgozni, de ezt követően törlődik, hogy a lemez kihasználtsága alacsony legyen."];
   Message false [Loc (Some "../intro.cpp") "+20"]
     "Bitcoin Confidential" true
     ["Bizalmas Bitcoin"];
   Message false [Loc None "+6"]
     "At least %1 GB of data will be stored in this directory, and it will grow over time." true
     ["Legalább% 1 GB adat lesz tárolva ebben a könyvtárban, és az idővel növekedni fog."];
   Message false [Loc None "+5"]
     "Approximately %1 GB of data will be stored in this directory." true
     ["Körülbelül% 1 GB adat lesz tárolva ebben a könyvtárban."];
   Message false [Loc None "+8"]
     "%1 will download and store a copy of the Bitcoin Confidential block chain." true
     ["a (z)% 1 letölti és tárolja a Bitcoin bizalmas blokklánc egy másolatát."];
   Message false [Loc None "+2"]
     "The wallet will also be stored in this directory." true
     ["A mobiltárca ebben a könyvtárban is tárolódik."];
   Message false [Loc None "+73"]
     "Error: Specified data directory &quot;%1&quot; cannot be created." true
     ["Hiba: a megadott adatkönyvtár (&quot;% 1&quot;) nem hozható létre."];
   Message false [Loc None "+27"]
     "Error" true
     ["Hiba"];
   Message true [Loc None "+9"]
     "%n GB of free space available" true
     ["% n GB szabad hely áll rendelkezésre"; "% n GB szabad hely áll rendelkezésre"];
   Message true [Loc None "+3"]
     "(of %n GB needed)" true
     ["(% n GB szükséges)"; "(% n GB szükséges)"]].

Definition hu_MnemonicDialog_1 : list message :=
  [Message false [Loc (Some "../forms/mnemonicdialog.ui") "+14"]
     "HD Wallet Setup" true
     ["HD-mobiltárca beállítása"];
   Message false [Loc None "+11"]
     "Generate a mnemonic" true
     ["Létrehoz egy mnemonikus"];
   Message false [Loc None "+10"]
     "Create the wallet" true
     ["A mobiltárca létrehozása"];
   Message false [Loc None "+22"]
     "Write down the Recovery Phrase/Mnemonic below or generate a new one with the desired settings by clicking &quot;NEW MNEMONIC&quot;. Store this phrase in a safe place. The clipboard will be cleared to ensure you have it recorded.  If you are recovering a backup, enter the Recovery Phrase/Mnemonic on the next screen.  Click the &quot;NEXT&quot; button to continue with the wallet creation." true
     ["Ír legyőz a visszaszerzés mondat/mnemonic alul vagy létrehoz egy új egy-val a kívánatos elintézés mellett csattanó &quot;új MNEMONIC&quot;. Tárolja ezt a kifejezést biztonságos helyen. A vágólap törlődik, hogy megbizonyosodjon róla, hogy van-e rögzítve.  Ha Ön visszaszerzés egy hát, belép a visszaszerzés mondat/mnemonic-on következő képernyő.  Kettyenés a &quot;következő&quot; gomb-hoz folytatódik-val a levéltárca teremtés."];
   Message false [Loc None "+36"]
     "Bytes of Entropy " true
     ["Entropy bájtjai"];
   Message false [Loc None "+7"]
     "Language" true
     ["Nyelv"];
   Message false [Loc None "+45"]
     "Entropy is an advanced feature. Your mnemonic may be insecure if this feature is used incorrectly." true
     ["Entrópia egy fejlett funkció. A mnemonikus lehet bizonytalan, ha ezt a funkciót helytelenül használják."];
   Message false [Loc None "+22"]
     "Select your language" true
     ["Válassz nyelvet!"];
   Message false [Loc None "+4"]
     "English" true
     ["angol"];
   Message false [Loc None "+5"]
     "French" true
     ["francia"];
   Message false [Loc None "+5"]
     "Japanese" true
     ["japán"];
   Message false [Loc None "+5"]
     "Spanish" true
     ["spanyol"];
   Message false [Loc None "+5"]
     "Chinese_s" true
     ["Chinese_s"];
   Message false [Loc None "+5"]
     "Chinese_t" true
     ["Chinese_t"];
   Message false [Loc None "+39"]
     "New mnemonic" true
     ["Új mnemonikus"];
   Message false [Loc None "+19"]
     "Next" true
     ["Következő"];
   Message false [Loc None "+19"; Loc None "+198"]
     "Cancel" true
     ["Mégse gombra"];
   Message false [Loc None "-148"]
     "Recovery Passphrase " true
     ["Helyreállítási jelmondat"];
   Message false [Loc None "+7"]
     "Import Chain" true
     ["Importlánc"];
   Message false [Loc None "+13"]
     "Warning" true
     ["Figyelmeztetés"];
   Message false [Loc None "+33"]
     "Enter a passphrase to protect your Recovery Phrase (optional)" true
     ["Írja be a jelszót, hogy megvédje a helyreállítási mondat (nem kötelező)"];
   Message false [Loc None "+13"]
     "Only needed if you&apos;re importing " true
     ["Csak akkor szükséges, ha az importáló"];
   Message false [Loc None "+16"]
     "Please ensure you backup your Recovery Phrase and Passphrase - they are not recoverable!" true
     ["Legyen szíves biztosít ön hát-a visszaszerzés mondat és passphrase-ők nem visszaszerezhető!"];
   Message false [Loc None "+28"]
     "Back" true
     ["Vissza"];
   Message false [Loc None "+19"; Loc (Some "../mnemonicdialog.cpp") "+145"]
     "Import" true
     ["Importálása"];
   Message false [Loc (Some "../mnemonicdialog.cpp") "-102"]
     "Optionally enter a passphrase to protect the Recovery Phrase. (This is not a wallet password.)" true
     ["Opcionálisan írja be a jelmondatot, hogy megvédje a helyreállítási mondat. (Ez nem a mobiltárca jelszava.)"];
   Message false [Loc None "+2"]
     "Enter the Recovery Phrase/Mnemonic." true
     ["Adja meg a helyreállítási mondat/mnemonic."];
   Message false [Loc None "+26"]
     "Create wallet" true
     ["Mobiltárca létrehozása"];
   Message false [Loc None "+16"]
     "Generate a new Recovery Phrase/Mnemonic with the desired settings by clicking &quot;NEW MNEMONIC&quot;." true
     ["Létrehoz egy új helyreállítási mondat/mnemonic a kívánt beállításokat kattintva &quot;új MNEMONIC&quot;."]].

Definition hu_MnemonicDialog_2 : list message :=
  [Message false [Loc None "+5"]
     "Import a mnemonic" true
     ["Mnemonikus importálása"];
   Message false [Loc None "+28"]
     "Confirm wallet creation cancel" true
     ["Mobiltárca-létrehozás lemondása"];
   Message false [Loc None "+1"]
     "Are you sure you want to cancel the wallet creation?" true
     ["Biztosan megszakítja a mobiltárca létrehozását?"];
   Message false [Loc None "+0"]
     "This is only recommended for advanced users to import with custom settings in the debug console or with the RPC interface." true
     ["Ez csak haladó felhasználóknak ajánlott, akik a hibakeresési konzolon vagy az RPC interfészen keresztül egyéni beállításokkal importálnak."]].

Definition hu_ModalOverlay : list message :=
  [Message false [Loc (Some "../forms/modaloverlay.ui") "+14"]
     "Form" true
     ["Formában"];
   Message false [Loc None "+122"]
     "Recent transactions may not yet be visible, and therefore your wallet&apos;s balance might be incorrect. This information will be correct once your wallet has finished synchronizing with the Bitcoin Confidential network, as detailed below." true
     ["Előfordulhat, hogy a legutóbbi tranzakciók még nem láthatók, ezért a pénztárcájának egyenlege pontatlan lehet. Ez információ lesz kijavít egyszer-a pénztárca birtokol befejezett szinkronizál-val a Bitcoin bizalmas hálózat, mint részletes alul."];
   Message false [Loc None "+19"]
     "Attempting to spend coins that are affected by not-yet-displayed transactions will not be accepted by the network." true
     ["A hálózat nem fogadja el az olyan érmék megtöltésére tett kísérletet, amelyeket még nem jelenítenek meg."];
   Message false [Loc None "+63"]
     "Number of blocks left" true
     ["A balra álló blokkok száma"];
   Message false [Loc None "+7"; Loc None "+26"; Loc (Some "../modaloverlay.cpp") "+140"]
     "Unknown..." true
     ["Ismeretlen..."];
   Message false [Loc None "-13"]
     "Last block time" true
     ["Utolsó blokkidő"];
   Message false [Loc None "+26"]
     "Progress" true
     ["Haladás"];
   Message false [Loc None "+34"]
     "Progress increase per hour" true
     ["Folyamatonkénti emelkedés"];
   Message false [Loc None "+7"; Loc None "+20"]
     "calculating..." true
     ["Kiszámítása..."];
   Message false [Loc None "-7"]
     "Estimated time left until synced" true
     ["A becsült idő balra szinkronizálásig"];
   Message false [Loc None "+40"]
     "Hide" true
     ["Elrejtése"];
   Message false [Loc (Some "../modaloverlay.cpp") "-1"]
     "Unknown. Syncing Headers (%1)..." true
     ["Ismeretlen. Fejlécek szinkronizálása (% 1)..."]].

Definition hu_OpenURIDialog : list message :=
  [Message false [Loc (Some "../forms/openuridialog.ui") "+14"]
     "Open URI" true
     ["Nyílt URI-azonosító"];
   Message false [Loc None "+6"]
     "Open payment request from URI or file" true
     ["Fizetési kérelem megnyitása URI-tól vagy fájlból"];
   Message false [Loc None "+9"]
     "URI:" true
     ["Uri:"];
   Message false [Loc None "+10"]
     "Select payment request file" true
     ["Kifizetési kérelemfájl kiválasztása"];
   Message false [Loc (Some "../openuridialog.cpp") "+45"]
     "Select payment request file to open" true
     ["Válasszon kifizetési kérésfájlt a megnyitéshez"]].

Definition hu_OptionsDialog_1 : list message :=
  [Message false [Loc (Some "../forms/optionsdialog.ui") "+14"]
     "Options" true
     ["Lehetőségek"];
   Message false [Loc None "+14"]
     "&amp;Main" true
     ["Reggeli"];
   Message false [Loc None "+13"]
     "W&amp;allet" true
     ["W&amp;Allet"];
   Message false [Loc None "+13"]
     "&amp;Network" true
     ["Os hálózat"];
   Message false [Loc None "+13"]
     "&amp;Window" true
     ["Os ablak"];
   Message false [Loc None "+13"]
     "&amp;Display" true
     ["A"];
   Message false [Loc None "+22"]
     "Automatically start %1 after logging in to the system." true
     ["% 1 automatikus indítása a rendszerbe való bejelentkezést követően."];
   Message false [Loc None "+3"]
     "&amp;Start %1 on system login" true
     ["A rendszerlogika kezdete% 1"];
   Message false [Loc None "+22"]
     "Disables some advanced features but all blocks will still be fully validated. Reverting this setting requires re-downloading the entire blockchain. Actual disk usage may be somewhat higher." true
     ["Megbénít némely haladó jellegét meghatározza de minden márványtömbök akarat csendes lenni teljesen érvényesít. A beállítás visszaállítása esetén a teljes blokkláncot újra le kell letölteni. Tényleges korong használat május lenni némileg magasabb."];
   Message false [Loc None "+3"]
     "Prune &amp;block storage to" true
     ["A blokk-tároló a"];
   Message false [Loc None "+17"]
     "GB" true
     ["Gb"];
   Message false [Loc None "+25"]
     "Reverting this setting requires re-downloading the entire blockchain." true
     ["A beállítás visszaállítása esetén a teljes blokkláncot újra le kell letölteni."];
   Message false [Loc None "+12"]
     "Size of &amp;database cache" true
     ["Az adatbázis-gyorsítótár mérete"];
   Message false [Loc None "+23"]
     "MB" true
     ["Mb"];
   Message false [Loc None "+27"]
     "Number of script &amp;verification threads" true
     ["A parancsfájl-ellenőrzési szálak száma"];
   Message false [Loc None "+19"]
     "(0 = auto, &lt;0 = leave that many cores free)" true
     ["(0 = automatikus,&lt;0 = leave that many cores free) ==&quot;&quot; leave=&quot;&quot; that=&quot;&quot; many=&quot;&quot; cores=&quot;&quot;&gt;&lt;/0 = leave that many cores free)&gt;"];
   Message false [Loc None "+39"]
     "Expert" true
     ["Szakértő"];
   Message false [Loc None "+6"]
     "Whether to show coin control features or not." true
     ["Azt mutatják, hogy az érme-vezérlési funkciók, vagy sem."];
   Message false [Loc None "+3"]
     "Enable coin &amp;control features" true
     ["A pénzérme-vezérlési funkciók engedélyezése"];
   Message false [Loc None "+7"]
     "If you disable the spending of unconfirmed change, the change from a transaction cannot be used until that transaction has at least one confirmation. This also affects how your balance is computed." true
     ["Ha letiltja a nem megerősített módosítás kiadásait, a tranzakció módosítása addig nem használható, amíg az adott tranzakció nem rendelkezik legalább egy visszaigazolással. Ez az egyenleg kiszámításra vonatkozó módját is befolyásolja."];
   Message false [Loc None "+3"]
     "&amp;Spend unconfirmed change" true
     ["Egy nem megerősített változás"];
   Message false [Loc None "+7"]
     "Display notification dialog for incoming stake transactions." true
     ["Értesítési párbeszédpanel megjelenítése a beérkező téttranzakciókhoz."];
   Message false [Loc None "+3"]
     "&amp;Show incoming stake notifications" true
     ["A bejövő tétértesítések megjelenítése"];
   Message false [Loc None "+27"]
     "Automatically open the Bitcoin Confidential client port on the router. This only works when your router supports UPnP and it is enabled." true
     ["Gépiesen nyit a Bitcoin bizalmas ügyfél kikötő-on útvonal. Ez egyetlen szerkezet Mikor-a útvonal támogat UPnP és ez lehetővé tett."];
   Message false [Loc None "+3"]
     "Map port using &amp;UPnP" true
     ["Térkép Port a reggeli UPnP"];
   Message false [Loc None "+7"]
     "Accept connections from outside." true
     ["Kapcsolatok fogadása kívülről."];
   Message false [Loc None "+3"]
     "Allow incomin&amp;g connections" true
     ["Incomin&amp;g kapcsolatok engedélyezése"];
   Message false [Loc None "+7"]
     "Connect to the Bitcoin Confidential network through a SOCKS5 proxy." true
     ["Összeköt-hoz Bitcoin bizalmas hálózat átmenő egy SOCKS5 helyettes."];
   Message false [Loc None "+3"]
     "&amp;Connect through SOCKS5 proxy (default proxy):" true
     ["T csatlakoztatás SOCKS5 proxyn keresztül (alapértelmezett proxy):"]].

Definition hu_OptionsDialog_2 : list message :=
  [Message false [Loc None "+9"; Loc None "+193"]
     "Proxy &amp;IP:" true
     ["A VI."];
   Message false [Loc None "-168"; Loc None "+193"]
     "IP address of the proxy (e.g. IPv4: 127.0.0.1 / IPv6: ::1)" true
     ["A proxy IP-címe (pl. IPv4:127.0.0.1/IPv6::: 1)"];
   Message false [Loc None "-183"; Loc None "+193"]
     "&amp;Port:" true
     ["Port"];
   Message false [Loc None "-168"; Loc None "+193"]
     "Port of the proxy (e.g. 9050)" true
     ["A proxy kikötője (pl. 9050)"];
   Message false [Loc None "-166"]
     "Used for reaching peers via:" true
     ["Az alábbiak segítségével éri el a többiek:"];
   Message false [Loc None "+13"; Loc None "+23"; Loc None "+23"]
     "Shows if the supplied default SOCKS5 proxy is used to reach peers via this network type." true
     ["Azt mutatja, hogy a megadott alapértelmezett SOCKS5 proxy használható-e társakkal ezen a hálóziípuson keresztül."];
   Message false [Loc None "-36"]
     "IPv4" true
     ["IPv4"];
   Message false [Loc None "+23"]
     "IPv6" true
     ["IPv6-"];
   Message false [Loc None "+23"]
     "Tor" true
     ["Tor"];
   Message false [Loc None "+25"]
     "Connect to the Bitcoin Confidential network through a separate SOCKS5 proxy for Tor hidden services." true
     ["Összeköt-hoz Bitcoin bizalmas hálózat átmenő egy szétválaszt SOCKS5 helyettes részére Sírhalom rejtett szolgáltatás."];
   Message false [Loc None "+3"]
     "Use separate SOCKS&amp;5 proxy to reach peers via Tor hidden services:" true
     ["Használ szétválaszt zokni reggeli 5 helyettes-hoz nyúl után főnemes keresztül Sírhalom rejtett szolgáltatás:"];
   Message false [Loc None "+111"]
     "Hide the icon from the system tray." true
     ["Rejtse el az ikont a tálcán."];
   Message false [Loc None "+3"]
     "&amp;Hide tray icon" true
     ["Os tálcaikon elrejtése"];
   Message false [Loc None "+7"]
     "Show only a tray icon after minimizing the window." true
     ["Csak a tálca ikonjának megjelenítése az ablak kicsinyít után."];
   Message false [Loc None "+3"]
     "&amp;Minimize to the tray instead of the taskbar" true
     ["Reggeli a tálca helyett a tálcára kicsinyítése"];
   Message false [Loc None "+7"]
     "Minimize instead of exit the application when the window is closed. When this option is enabled, the application will be closed only after selecting Exit in the menu." true
     ["Minimalizál helyett kijárat a alkalmazás Mikor a ablak van csukott. Ha ez a beállítás engedélyezve van, akkor az alkalmazás csak a kilépés parancs választása után lesz bezárva."];
   Message false [Loc None "+3"]
     "M&amp;inimize on close" true
     ["M&amp;inimize közeli"];
   Message false [Loc None "+26"]
     "User Interface &amp;language:" true
     ["&quot;Felhasználói felület&quot; nyelv:"];
   Message false [Loc None "+22"]
     "The user interface language can be set here. This setting will take effect after restarting %1." true
     ["A felhasználói felület nyelve beállítható itt. Ez a beállítás a (z)% 1 újraindítását követően kerül érvénybe."];
   Message false [Loc None "+11"]
     "&amp;Unit to show amounts in:" true
     ["A készülék a következő összegeket jeleníti meg:"];
   Message false [Loc None "+22"]
     "Choose the default subdivision unit to show in the interface and when sending coins." true
     ["Válassza ki az alapértelmezett térfelosztási egységet, amely a felületen és az érmék küldésekor jelenik meg."];
   Message false [Loc None "+11"; Loc None "+22"]
     "Third party URLs (e.g. a block explorer) that appear in the transactions tab as context menu items. %s in the URL is replaced by transaction hash. Multiple URLs are separated by vertical bar |." true
     ["Külső fél által készített URL-címek (pl. egy blokkos Intéző), amely a tranzakciók lapon helyi menü elemként jelenik meg. a (z)% s URL-címet tranzakciókivonat váltja fel. A többszörös URL-címeket függőleges sáv választja el |"];
   Message false [Loc None "-19"]
     "&amp;Third party transaction URLs" true
     ["Reggeli harmadik fél tranzakció URL-jei"];
   Message false [Loc None "+50"]
     "Active command-line options that override above options:" true
     ["A fenti beállítások felülbírálásának aktív parancssori kapcsolói:"];
   Message false [Loc None "+45"]
     "Open the %1 configuration file from the working directory." true
     ["Nyissa meg a (z)% 1 konfigurációs fájlt a munkakönyvtárból."];
   Message false [Loc None "+3"]
     "Open Configuration File" true
     ["Konfigurációs fájl megnyitása"];
   Message false [Loc None "+10"]
     "Reset all client options to default." true
     ["Az összes ügyfélbeállítás visszaállítása alapértelmezettként."];
   Message false [Loc None "+3"]
     "&amp;Reset Options" true
     ["Reggeli opciók"]].

Definition hu_OptionsDialog_3 : list message :=
  [Message false [Loc None "+80"]
     "&amp;OK" true
     ["OK"];
   Message false [Loc None "+13"]
     "&amp;Cancel" true
     ["Reggeli Mégse"];
   Message false [Loc (Some "../optionsdialog.cpp") "+109"]
     "default" true
     ["Alapértelmezett"];
   Message false [Loc None "+56"]
     "none" true
     ["Nincs"];
   Message false [Loc None "+82"]
     "Confirm options reset" true
     ["A megerősítéshez a beállítások visszaállítása"];
   Message false [Loc None "+1"; Loc None "+60"]
     "Client restart required to activate changes." true
     ["Az ügyfél újraindítása szükséges a változtatások aktiválásához."];
   Message false [Loc None "-60"]
     "Client will be shut down. Do you want to proceed?" true
     ["Ügyfél lesz becsuk legyőz. Folytatja?"];
   Message false [Loc None "+15"]
     "Configuration options" true
     ["Konfigurációs beállítások"];
   Message false [Loc None "+1"]
     "The configuration file is used to specify advanced user options which override GUI settings. Additionally, any command-line options will override this configuration file." true
     ["A konfigurációs fájl olyan speciális felhasználói beállítások megadására szolgál, amelyek felülbírálják a GUI beállításait. Ezenkívül a parancssori kapcsolók felülbírálják ezt a konfigurációs fájlt."];
   Message false [Loc None "+5"]
     "Error" true
     ["Hiba"];
   Message false [Loc None "+0"]
     "The configuration file could not be opened." true
     ["A konfigurációs fájlt nem lehet megnyitni."];
   Message false [Loc None "+43"]
     "This change would require a client restart." true
     ["Ehhez a változításhoz az ügyfélnek újra kell indítania a számítógépet."];
   Message false [Loc None "+28"]
     "The supplied proxy address is invalid." true
     ["A megadott proxycím érvénytelen."]].

Definition hu_OverviewPage : list message :=
  [Message false [Loc (Some "../forms/overviewpage.ui") "+14"]
     "Form" true
     ["Formában"];
   Message false [Loc None "+43"]
     "Bitcoin Confidential Core" true
     ["Bitcoin bizalmas Core"];
   Message false [Loc None "+38"; Loc None "+114"; Loc None "+210"]
     "Pending" true
     ["Függőben lévő"];
   Message false [Loc None "-308"]
     "Spending" true
     ["Kiadások"];
   Message false [Loc None "+108"]
     "Watch-only" true
     ["Csak Watch"];
   Message false [Loc None "+73"; Loc None "+191"]
     "Available" true
     ["Elérhető"];
   Message false [Loc None "-181"]
     "Spendable" true
     ["Elkölthető"];
   Message false [Loc None "+41"]
     "Staking" true
     ["Staking"];
   Message false [Loc None "+130"]
     "Immature" true
     ["Éretlen"];
   Message false [Loc None "+86"]
     "Total" true
     ["Teljes"];
   Message false [Loc None "+90"]
     "Recent transactions" true
     ["Legutóbbi tranzakciói"];
   Message false [Loc None "+19"]
     "The displayed information may be out of date. Your wallet automatically synchronizes with the Bitcoin Confidential network after a connection is established, but this process has not completed yet." true
     ["Lehet, hogy a megjelenített információ elavult. A mobiltárca automatikusan szinkronizálja a Bitcoin bizalmas hálózatot a kapcsolat létrehozása után, de ez a folyamat még nem fejeződött be."]].

Definition hu_PaymentServer : list message :=
  [Message false [Loc (Some "../paymentserver.cpp") "+317"; Loc None "+215"; Loc None "+42"; Loc None "+110"; Loc None "+14"; Loc None "+18"]
     "Payment request error" true
     ["Fizetéskérő hiba"];
   Message false [Loc None "-398"]
     "Cannot start bitcoinc: click-to-pay handler" true
     ["A bitcoinc nem indítható el: Click-to-pay kezelő"];
   Message false [Loc None "+82"; Loc None "+21"; Loc None "+13"; Loc None "+7"]
     "URI handling" true
     ["URI-kezelés"];
   Message false [Loc None "-41"]
     "&apos;bitcoin://&apos; is not a valid URI. Use &apos;bitcoin:&apos; instead." true
     ["a &quot;bitcoin://&quot; nem érvényes URI. Használja inkább a &apos; Bitcoin: &apos; parancsot."];
   Message false [Loc None "+22"]
     "Payment request fetch URL is invalid: %1" true
     ["A kifizetési kérelem Fetch-URL-címe érvénytelen:% 1"];
   Message false [Loc None "+12"]
     "Invalid payment address %1" true
     ["Érvénytelen fizetési cím (% 1)"];
   Message false [Loc None "+8"]
     "URI cannot be parsed! This can be caused by an invalid Bitcoin Confidential address or malformed URI parameters." true
     ["Az URI nem értelmezhető! Ennek oka lehet egy érvénytelen Bitcoin bizalmas cím vagy hibás URI-paraméter."];
   Message false [Loc None "+13"]
     "Payment request file handling" true
     ["Kifizetési kérelem fájlkezelése"];
   Message false [Loc None "+1"]
     "Payment request file cannot be read! This can be caused by an invalid payment request file." true
     ["A kifizetési kérelem fájlja nem olvasható! Ennek oka lehet egy érvénytelen kifizetési kérelemfájl."];
   Message false [Loc None "+61"; Loc None "+9"; Loc None "+31"; Loc None "+10"; Loc None "+17"; Loc None "+85"]
     "Payment request rejected" true
     ["Visszautasított kifizetési kérelem"];
   Message false [Loc None "-152"]
     "Payment request network doesn&apos;t match client network." true
     ["A kifizetési kérelem hálózata nem felel meg az ügyfélhálózatnak."];
   Message false [Loc None "+9"]
     "Payment request expired." true
     ["A kifizetési kérelem lejárt."];
   Message false [Loc None "+6"]
     "Payment request is not initialized." true
     ["A kifizetési kérelem nincs inicializálva."];
   Message false [Loc None "+26"]
     "Unverified payment requests to custom payment scripts are unsupported." true
     ["Az egyéni fizetési parancsfájlok nem hitelesített fizetési kérelmei nem támogatottak."];
   Message false [Loc None "+9"; Loc None "+17"]
     "Invalid payment request." true
     ["Érvénytelen kifizetési kérelem."];
   Message false [Loc None "-10"]
     "Requested payment amount of %1 is too small (considered dust)." true
     ["A (z)% 1 kért fizetési összeg túl kicsi (a port figyelembe vett)."];
   Message false [Loc None "+65"]
     "Refund from %1" true
     ["Visszatérítés% 1-től"];
   Message false [Loc None "+31"]
     "Payment request %1 is too large (%2 bytes, allowed %3 bytes)." true
     ["A (z)% 1 kifizetési kérelem túl nagy (% 2 bájt, megengedve% 3 bájt)."];
   Message false [Loc None "+9"]
     "Error communicating with %1: %2" true
     ["Hiba történt a (z)% 1:% 2 kommunikációban."];
   Message false [Loc None "+20"]
     "Payment request cannot be parsed!" true
     ["A kifizetés iránti kérelem nem értelmezhető!"];
   Message false [Loc None "+13"]
     "Bad response from server %1" true
     ["Hibás válasz a kiszolgálóról (% 1)"];
   Message false [Loc None "+22"]
     "Network request error" true
     ["Hálózatkérés hibája"];
   Message false [Loc None "+11"]
     "Payment acknowledged" true
     ["Kifizetés visszaigazolva"]].

Definition hu_PeerTableModel : list message :=
  [Message false [Loc (Some "../peertablemodel.cpp") "+109"]
     "NodeId" true
     ["NodeId azonosító"];
   Message false [Loc None "+0"]
     "Node/Service" true
     ["Csomópont/szolgáltatás"];
   Message false [Loc None "+0"]
     "Ping" true
     ["Ping"];
   Message false [Loc None "+0"]
     "Sent" true
     ["Küldött"];
   Message false [Loc None "+0"]
     "Received" true
     ["Kapott"];
   Message false [Loc None "+0"]
     "User Agent" true
     ["Felhasználó ügynök"]].

Definition hu_QObject : list message :=
  [Message false [Loc (Some "../bitcoinunits.cpp") "+196"]
     "Amount" true
     ["Összeg"];
   Message false [Loc (Some "../guiutil.cpp") "+96"]
     "Enter Spending address" true
     ["Adja meg a költési címet"];
   Message false [Loc None "+12"]
     "Enter ColdStake address" true
     ["Adja meg ColdStake címét"];
   Message false [Loc None "+2"]
     "Enter Stake address of remote node" true
     ["A távoli csomópont tét-címének megadása"];
   Message false [Loc None "+2"]
     "Enter Stake address" true
     ["Adja meg a tét címét"];
   Message false [Loc None "+687"]
     "%1 d" true
     ["% 1 d"];
   Message false [Loc None "+2"]
     "%1 h" true
     ["% 1 óra"];
   Message false [Loc None "+2"]
     "%1 m" true
     ["% 1 m"];
   Message false [Loc None "+2"; Loc None "+53"]
     "%1 s" true
     ["% 1 s"];
   Message false [Loc None "-10"]
     "None" true
     ["Nincs"];
   Message false [Loc None "+5"]
     "N/A" true
     ["N/a"];
   Message false [Loc None "+0"]
     "%1 ms" true
     ["% 1 MS"];
   Message true [Loc None "+18"]
     "%n second(s)" true
     ["% n másodperc (s)"; "% n másodperc (s)"];
   Message true [Loc None "+4"]
     "%n minute(s)" true
     ["% n perc"; "% n perc"];
   Message true [Loc None "+4"]
     "%n hour(s)" true
     ["% n óra"; "% n óra"];
   Message true [Loc None "+4"]
     "%n day(s)" true
     ["% n nap"; "% n nap"];
   Message true [Loc None "+4"; Loc None "+6"]
     "%n week(s)" true
     ["% n hét"; "% n hét"];
   Message false [Loc None "+0"]
     "%1 and %2" true
     ["% 1 és% 2"];
   Message true [Loc None "+0"]
     "%n year(s)" true
     ["% n év"; "% n év"];
   Message false [Loc None "+8"]
     "%1 B" true
     ["% 1 B"];
   Message false [Loc None "+2"]
     "%1 KB" true
     ["% 1 KB"];
   Message false [Loc None "+2"]
     "%1 MB" true
     ["% 1 MB"];
   Message false [Loc None "+2"]
     "%1 GB" true
     ["% 1 GB"];
   Message false [Loc None "+71"]
     "All spending funds are sent and received anonymously. Only the sender and receiver have details of their side of the transaction. Staking funds need to be converted to spending before sending out of wallet. Funds require %1 confirmations (%2 minutes) before sending." true
     ["Minden költőpénzt anonim módon küldenek és kaptak. Csak a küldő és a fogadó fél rendelkezik a tranzakció oldalára vonatkozó részletekkel. Staking alapok szükség-hoz lenni megtérít-hoz költés előtt elküldés kívül levéltárca. Az alap küldés előtt% 1 visszaigazolások (% 2 perc) szükséges."];
   Message false [Loc None "+15"]
     "Staking funds cannot be sent out of your wallet without converting to spending. After converting to spending, %1 confirmations (%2 minutes) are required before sending." true
     ["Staking alapok nem lehet küldeni ki a tárcáját nélkül konvertáló kiadások. A kiadatásra konvertálás után% 1 visszaigazolások (% 2 perc) szükségesek a küldés előtt."];
   Message false [Loc (Some "../modaloverlay.cpp") "-29"]
     "unknown" true
     ["Ismeretlen"];
   Message false [Loc (Some "../bitcoin.cpp") "+186"]
     "%1 didn&apos;t yet exit safely..." true
     ["% 1 még nem állt ki biztonságosan..."]].

Definition hu_QObject__QObject : list message :=
  [Message false [Loc None "-117"]
     "Error parsing command line arguments: %1." true
     ["Hiba történt a következő parancssori argumentumok elemzésekor:% 1."];
   Message false [Loc None "+38"]
     "Error: Specified data directory &quot;%1&quot; does not exist." true
     ["Hiba: a megadott adatkönyvtár (&quot;% 1&quot;) nem létezik."];
   Message false [Loc None "+5"]
     "Error: Cannot parse configuration file: %1." true
     ["Hiba: nem sikerült feldolgozni a következő konfigurációs fájlt:% 1."];
   Message false [Loc None "+14"]
     "Error: %1" true
     ["Hiba:% 1"]].

Definition hu_QRImageWidget : list message :=
  [Message false [Loc (Some "../receiverequestdialog.cpp") "+32"]
     "&amp;Save Image..." true
     ["Reggeli kép mentése..."];
   Message false [Loc None "+3"]
     "&amp;Copy Image" true
     ["Át Image"];
   Message false [Loc None "+32"]
     "Save QR Code" true
     ["QR-kód mentése"];
   Message false [Loc None "+0"]
     "PNG Image (*.png)" true
     ["PNG kép (*. png)"]].

Definition hu_RPCConsole_1 : list message :=
  [Message false [Loc (Some "../forms/debugwindow.ui") "+14"]
     "Debug window" true
     ["Hibakeresési ablak"];
   Message false [Loc None "+11"]
     "Information" true
     ["Információ"];
   Message false [Loc None "+13"]
     "Console" true
     ["Konzol"];
   Message false [Loc None "+10"]
     "Network Traffic" true
     ["Hálózati forgalom"];
   Message false [Loc None "+10"]
     "Peers" true
     ["Társaik"];
   Message false [Loc None "+21"; Loc None "+1004"]
     "User Agent" true
     ["Felhasználó ügynök"];
   Message false [Loc None "-988"]
     "Block chain" true
     ["Blokklánc"];
   Message false [Loc None "+7"]
     "Client version" true
     ["Ügyfélverzió"];
   Message false [Loc None "+13"]
     "General" true
     ["Általános"];
   Message false [Loc None "+13"]
     "Memory Pool" true
     ["Memória-készlet"];
   Message false [Loc None "+7"]
     "Current number of blocks" true
     ["Aktuális blokkszám"];
   Message false [Loc None "+13"]
     "Network" true
     ["Hálózati"];
   Message false [Loc None "+7"]
     "Number of connections" true
     ["Kapcsolatok száma"];
   Message false [Loc None "+7"]
     "Startup time" true
     ["Indulási idő"];
   Message false [Loc None "+7"]
     "Name" true
     ["név"];
   Message false [Loc None "+7"]
     "Last block time" true
     ["Utolsó blokkidő"];
   Message false [Loc None "+7"]
     "Using BerkeleyDB version" true
     ["A BerkeleyDB verzió használata"];
   Message false [Loc None "+10"]
     "Datadir" true
     ["Adatmappa"];
   Message false [Loc None "+7"]
     "Memory usage" true
     ["Memóriahasználat"];
   Message false [Loc None "+7"]
     "Current number of transactions" true
     ["Tranzakciók aktuális száma"];
   Message false [Loc None "+10"; Loc None "+16"; Loc None "+16"; Loc None "+16"; Loc None "+19"; Loc None "+16"; Loc None "+16"; Loc None "+16"; Loc None "+16"; Loc None "+16"; Loc None "+16"; Loc None "+644"; Loc None "+23"; Loc None "+23"; Loc None "+23"; Loc None "+23"; Loc None "+23"; Loc None "+23"; Loc None "+23"; Loc None "+23"; Loc None "+23"; Loc None "+23"; Loc None "+23"; Loc None "+23"; Loc None "+23"; Loc None "+23"; Loc None "+26"; Loc None "+23"; Loc None "+23"]
     "N/A" true
     ["N/a"];
   Message false [Loc None "-988"]
     "Debug log file" true
     ["Hibakeresési naplófájl"];
   Message false [Loc None "+7"]
     "Open the %1 debug log file from the current data directory. This can take a few seconds for large log files." true
     ["Nyissa meg a hibakeresési naplófájlt (% 1) az aktuális adatkönyvtárból. Ez eltarthat néhány másodpercig a nagy log fájlokat."]].

Definition hu_RPCConsole_2 : list message :=
  [Message false [Loc None "+3"]
     "&amp;Open" true
     ["Reggeli"];
   Message false [Loc None "+25"]
     "Wallet: " true
     ["Pénztárca:"];
   Message false [Loc None "+8"]
     "(none)" true
     ["nincs"];
   Message false [Loc None "+27"]
     "Decrease font size" true
     ["Betűméret csökkentése"];
   Message false [Loc None "+32"]
     "Increase font size" true
     ["Betűméret növelése"];
   Message false [Loc None "+32"]
     "Clear console" true
     ["Konzol ürítése"];
   Message false [Loc None "+111"]
     "&amp;Reset" true
     ["Reset"];
   Message false [Loc None "+16"]
     "Totals" true
     ["Összegek"];
   Message false [Loc None "+67"; Loc None "+555"]
     "Received" true
     ["Kapott"];
   Message false [Loc None "-475"; Loc None "+452"]
     "Sent" true
     ["Küldött"];
   Message false [Loc None "-361"]
     "Banned peers" true
     ["Kitiltottak társaik"];
   Message false [Loc None "+60"; Loc (Some "../rpcconsole.cpp") "+510"; Loc None "+760"]
     "Select a peer to view detailed information." true
     ["A részletes információk megtekintéséhez jelöljön ki egy társat."];
   Message false [Loc None "+25"]
     "Whitelisted" true
     ["Whitelisted"];
   Message false [Loc None "+23"]
     "Direction" true
     ["Irányba"];
   Message false [Loc None "+23"]
     "Version" true
     ["Változat"];
   Message false [Loc None "+46"]
     "Services" true
     ["Szolgáltatások"];
   Message false [Loc None "+23"]
     "Starting Block" true
     ["Indítás blokkban"];
   Message false [Loc None "+23"]
     "Synced Headers" true
     ["Szinkronizált fejlécek"];
   Message false [Loc None "+23"]
     "Synced Blocks" true
     ["Szinkronizált blokkok"];
   Message false [Loc None "+23"]
     "Ban Score" true
     ["Ban pontszám"];
   Message false [Loc None "+23"]
     "Connection Time" true
     ["Kapcsolatidő"];
   Message false [Loc None "+23"]
     "Last Send" true
     ["Legutóbbi küldés"];
   Message false [Loc None "+23"]
     "Last Receive" true
     ["Utolsó fogadás"];
   Message false [Loc None "+69"]
     "Ping Time" true
     ["Ping-idő"];
   Message false [Loc None "+23"]
     "The duration of a currently outstanding ping." true
     ["Időtartamát a jelenleg kiemelkedő ping."];
   Message false [Loc None "+3"]
     "Ping Wait" true
     ["Ping-várakozás"];
   Message false [Loc None "+23"]
     "Min Ping" true
     ["Minimális pingelése"];
   Message false [Loc None "+23"]
     "Time Offset" true
     ["Időeltolás"];
   Message false [Loc (Some "../rpcconsole.cpp") "-667"]
     "&amp;Disconnect" true
     ["Ők lekapcsolódás"]].

Definition hu_RPCConsole_3 : list message :=
  [Message false [Loc None "+1"; Loc None "+1"; Loc None "+1"; Loc None "+1"]
     "Ban for" true
     ["Tilalom a"];
   Message false [Loc None "-3"]
     "1 &amp;hour" true
     ["1 óra"];
   Message false [Loc None "+1"]
     "1 &amp;day" true
     ["1 nap"];
   Message false [Loc None "+1"]
     "1 &amp;week" true
     ["1 hét"];
   Message false [Loc None "+1"]
     "1 &amp;year" true
     ["1 reggeli"];
   Message false [Loc None "+48"]
     "&amp;Unban" true
     ["Reggeli unban"];
   Message false [Loc None "+54"]
     "default wallet" true
     ["alapértelmezett mobiltárca"];
   Message false [Loc None "+110"]
     "Welcome to the %1 RPC console." true
     ["Üdvözli a (z)% 1 RPC-konzol."];
   Message false [Loc None "+1"]
     "Use up and down arrows to navigate history, and %1 to clear screen." true
     ["A felfelé és lefelé mutató nyilak segítségével navigáljon az előzményben, és a (z)% 1 segítségével törölje a képernyőt."];
   Message false [Loc None "+1"]
     "Type %1 for an overview of available commands." true
     ["A rendelkezésre álló parancsok áttekintéséhez írja be a következőt (% 1)."];
   Message false [Loc None "+1"]
     "For more information on using this console type %1." true
     ["A (z)% 1 konzoltípus használatáról további információ."];
   Message false [Loc None "+2"]
     "WARNING: Scammers have been active, telling users to type commands here, stealing their wallet contents. Do not use this console without fully understanding the ramifications of a command." true
     ["Figyelem: csalók aktív, hatásos használók-hoz típus parancsokat itt, lopás-uk levéltárca tartalom. Ne használja ezt a konzolt, anélkül, hogy teljesen megértse egy parancs következményeire."];
   Message false [Loc None "+32"]
     "In:" true
     ["A"];
   Message false [Loc None "+1"]
     "Out:" true
     ["Ki:"];
   Message false [Loc None "+3"]
     "Network activity disabled" true
     ["Hálózati aktivitás letiltva"];
   Message false [Loc None "+68"]
     "Executing command without any wallet" true
     ["Végrehajtó parancs nélkül pénztárca"];
   Message false [Loc None "+2"]
     "Executing command using &quot;%1&quot; wallet" true
     ["A parancs végrehajtása a (z) &quot;% 1&quot; pénztárcával"];
   Message false [Loc None "+190"]
     "(node id: %1)" true
     ["(csomópontazonosító:% 1)"];
   Message false [Loc None "+2"]
     "via %1" true
     ["% 1 segítségével"];
   Message false [Loc None "+3"; Loc None "+1"]
     "never" true
     ["Soha nem"];
   Message false [Loc None "+10"]
     "Inbound" true
     ["Bejövő"];
   Message false [Loc None "+0"]
     "Outbound" true
     ["Kimenő"];
   Message false [Loc None "+2"]
     "Yes" true
     ["igen"];
   Message false [Loc None "+0"]
     "No" true
     ["nem"];
   Message false [Loc None "+12"; Loc None "+6"]
     "Unknown" true
     ["Ismeretlen"]].

Definition hu_ReceiveCoinsDialog : list message :=
  [Message false [Loc (Some "../forms/receivecoinsdialog.ui") "+59"]
     "Stake" true
     ["Tét"];
   Message false [Loc None "+5"]
     "ColdStake" true
     ["A ColdStake"];
   Message false [Loc None "+14"]
     "&amp;Request payment" true
     ["Reggeli fizetésének kérése"];
   Message false [Loc None "+17"]
     "Clear all fields of the form." true
     ["Töröljük az űrlap összes mezőjét."];
   Message false [Loc None "+3"]
     "Clear" true
     ["Egyértelmű"];
   Message false [Loc None "+56"; Loc None "+79"]
     "An optional amount to request. Leave this empty or zero to not request a specific amount." true
     ["Igény szerint választható összeg. Ha az üres vagy a nulla értéket kívánja megadni, ne kérjen egy adott összeget."];
   Message false [Loc None "-57"]
     "Use bech32 encoding." true
     ["Használ bech32 rejtjelez."];
   Message false [Loc None "+3"]
     "Generate native segwit (Bech32) address" true
     ["Natív segwit (Bech32) cím generálása"];
   Message false [Loc None "+22"; Loc None "+55"]
     "An optional label to associate with the new receiving address." true
     ["Az új fogadó címhez társítandó választható címke."];
   Message false [Loc None "-52"]
     "&amp;Label:" true
     ["Címke"];
   Message false [Loc None "+13"; Loc None "+53"]
     "An optional message to attach to the payment request, which will be displayed when the request is opened. Note: The message will not be sent with the payment over the Bitcoin Confidential network." true
     ["A kifizetési kérelemhez csatolandó opcionális üzenet, amely a kérelem megnyitásakor fog megjelenni. Megjegyzés: az üzenet nem lesz elküldve a fizetés a Bitcoin bizalmas hálózat."];
   Message false [Loc None "-50"]
     "&amp;Message:" true
     ["Üzenetet"];
   Message false [Loc None "+16"]
     "&amp;Amount:" true
     ["Összeg"];
   Message false [Loc None "+13"]
     "Use this form to request payments. All fields are &lt;b&gt;optional&lt;/b&gt;." true
     ["A képernyő segítségével kifizetéseket kérhet. Minden mező nem &lt;b&gt;kötelező&lt;/b&gt;."];
   Message false [Loc None "+63"]
     "Requested payments history" true
     ["Kért befizetések előzményei"];
   Message false [Loc None "+31"]
     "Show the selected request (does the same as double clicking an entry)" true
     ["A kijelölt kérelem megjelenítése (megegyezik a bejegyzésre való dupla kattintással)"];
   Message false [Loc None "+3"]
     "Show" true
     ["Térkép"];
   Message false [Loc None "+17"]
     "Remove the selected entries from the list" true
     ["A kijelölt Bejegyzések eltávolítása a listáról."];
   Message false [Loc None "+3"]
     "Remove" true
     ["Eltávolít"];
   Message false [Loc (Some "../receivecoinsdialog.cpp") "+40"]
     "Copy URI" true
     ["Másolat-URI"];
   Message false [Loc None "+1"]
     "Copy label" true
     ["Címke másolása"];
   Message false [Loc None "+1"]
     "Copy message" true
     ["Üzenet másolása"];
   Message false [Loc None "+1"]
     "Copy amount" true
     ["Másolandó összeg"]].

Definition hu_ReceiveRequestDialog : list message :=
  [Message false [Loc (Some "../forms/receiverequestdialog.ui") "+29"]
     "QR Code" true
     ["QR-kód"];
   Message false [Loc None "+46"]
     "Copy &amp;URI" true
     ["Reggeli URI"];
   Message false [Loc None "+10"]
     "Copy &amp;Address" true
     ["Másolása a cím"];
   Message false [Loc None "+10"]
     "&amp;Save Image..." true
     ["Reggeli kép mentése..."];
   Message false [Loc (Some "../receiverequestdialog.cpp") "+65"]
     "Request payment to %1" true
     ["Kifizetés kérése a (z)% 1 részére"];
   Message false [Loc None "+6"]
     "Payment information" true
     ["Fizetéssel kapcsolatos információk"];
   Message false [Loc None "+1"]
     "URI" true
     ["Uri"];
   Message false [Loc None "+2"]
     "Address" true
     ["Cím"];
   Message false [Loc None "+2"]
     "Amount" true
     ["Összeg"];
   Message false [Loc None "+2"]
     "Label" true
     ["Címke"];
   Message false [Loc None "+2"]
     "Message" true
     ["Üzenetet"];
   Message false [Loc None "+2"]
     "Wallet" true
     ["Pénztárca"];
   Message false [Loc None "+11"]
     "Resulting URI too long, try to reduce the text for label / message." true
     ["A kapott URI túl hosszú, próbálja meg csökkenteni a címke/üzenet szövegét."];
   Message false [Loc None "+5"]
     "Error encoding URI into QR Code." true
     ["Hiba az URI-azonosító QR-kódba történő kódoláskor."]].

Definition hu_RecentRequestsTableModel : list message :=
  [Message false [Loc (Some "../recentrequeststablemodel.cpp") "+25"; Loc None "+4"]
     "Date" true
     ["Dátum"];
   Message false [Loc None "-4"; Loc None "+4"]
     "Label" true
     ["Címke"];
   Message false [Loc None "+0"]
     "Message" true
     ["Üzenetet"];
   Message false [Loc None "+42"]
     "(no label)" true
     ["(címke nélkül)"];
   Message false [Loc None "+9"]
     "(no message)" true
     ["(nincs üzenet)"];
   Message false [Loc None "+8"]
     "(no amount requested)" true
     ["(nincs kért összeg)"];
   Message false [Loc None "+45"]
     "Requested" true
     ["Kért"]].

Definition hu_SendCoinsDialog_1 : list message :=
  [Message false [Loc (Some "../forms/sendcoinsdialog.ui") "+14"; Loc (Some "../sendcoinsdialog.cpp") "+806"]
     "Send Coins" true
     ["Érmék küldése"];
   Message false [Loc None "+105"]
     "Inputs..." true
     ["Bemenetek..."];
   Message false [Loc None "+10"]
     "automatically selected" true
     ["automatikusan kiválaszott"];
   Message false [Loc None "+19"]
     "Insufficient funds!" true
     ["Elégtelen alapok!"];
   Message false [Loc None "+89"]
     "Quantity:" true
     ["Mennyiség:"];
   Message false [Loc None "+35"]
     "Bytes:" true
     ["Bájt:"];
   Message false [Loc None "+48"]
     "Amount:" true
     ["Összeg:"];
   Message false [Loc None "+32"]
     "Dust:" true
     ["Por:"];
   Message false [Loc None "+48"]
     "Fee:" true
     ["Díj:"];
   Message false [Loc None "+51"]
     "After Fee:" true
     ["Díj után:"];
   Message false [Loc None "+32"]
     "Change:" true
     ["Módosítása:"];
   Message false [Loc None "+44"]
     "If this is activated, but the change address is empty or invalid, change will be sent to a newly generated address." true
     ["Ha ez be van kapcsolva, de a Címváltozási cím üres vagy érvénytelen, a rendszer az újonnan generált címre küldi a változást."];
   Message false [Loc None "+3"]
     "Custom change address" true
     ["Egyéni Címváltozási cím"];
   Message false [Loc None "+256"]
     "Transaction Fee:" true
     ["Tranzakciós díj:"];
   Message false [Loc None "+14"]
     "Choose..." true
     ["Válassza ki..."];
   Message false [Loc None "+30"]
     "Using the fallbackfee can result in sending a transaction that will take several hours or days (or never) to confirm. Consider choosing your fee manually or wait until you have validated the complete chain." true
     ["A fallbackfee használata olyan tranzakció küldését eredményezheti, amely több órát vagy napot (vagy sohasem) fog megerõsítni. Fontolja meg a díj manuális kiválasztását, vagy várjon, amíg a teljes láncot el nem érvényesítette."];
   Message false [Loc None "+3"]
     "Warning: Fee estimation is currently not possible." true
     ["Figyelmeztetés: jelenleg nem lehetséges a Díjbecslés."];
   Message false [Loc None "+26"]
     "collapse fee-settings" true
     ["összecsukás, díjbeállítások"];
   Message false [Loc None "+3"]
     "Hide" true
     ["Elrejtése"];
   Message false [Loc None "+48"]
     "Specify a custom fee per kB (1,000 bytes) of the transaction's virtual size.

Note:  Since the fee is calculated on a per-byte basis, a fee of &quot;100 satoshis per kB&quot; for a transaction size of 500 bytes (half of 1 kB) would ultimately yield a fee of only 50 satoshis." true
     ["Adja meg a tranzakció virtuális méretének egyéni díját kB-ra (1 000 bájt).

Jegyzék óta a illetmény van számított-ra egy által-byte alap, egy illetmény-ból &quot;100 satoshis által kB&quot; részére egy lebonyolítás méret-ból 500 byte (fél-ból 1 kB) akar végül terem egy illetmény-ból egyetlen 50 satoshis."];
   Message false [Loc None "+5"]
     "per kilobyte" true
     ["/kilobájt"];
   Message false [Loc None "+27"; Loc None "+13"]
     "Paying only the minimum fee is just fine as long as there is less transaction volume than space in the blocks. But be aware that this can end up in a never confirming transaction once there is more demand for Bitcoin Confidential transactions than the network can process." true
     ["Kátrányozás egyetlen a minimális illetmény van csak finom olyan hosszan, mint van kevesebb lebonyolítás kötet mint hely-ban márványtömbök. De légy tudatában annak, hogy ez a végén egy soha nem igazolja ügylet után van több igény Bitcoin bizalmas tranzakciók, mint a hálózat képes feldolgozni."];
   Message false [Loc None "+3"]
     "(read the tooltip)" true
     ["(olvassa el a tooltip)"];
   Message false [Loc None "+29"]
     "Recommended:" true
     ["Ajánlott:"];
   Message false [Loc None "+30"]
     "Custom:" true
     ["Egyéni:"];
   Message false [Loc None "+52"]
     "(Smart fee not initialized yet. This usually takes a few blocks...)" true
     ["(Az intelligens díj még nincs inicializálva. Ez általában úgy néhány blokkot...)"];
   Message false [Loc None "+29"]
     "Confirmation time target:" true
     ["Visszaigazolási idő cél:"];
   Message false [Loc None "+74"]
     "With Replace-By-Fee (BIP-125) you can increase a transaction&apos;s fee after it is sent. Without this, a higher fee may be recommended to compensate for increased transaction delay risk." true
     ["A &quot;Replace-by-Fee&quot; (BIP-125) használatával növelheti a tranzakció díját a küldés után. Enélkül magasabb díjat javasolhat a megnövekedett tranzakciós késés kockázatának kompenzálására."]].

Definition hu_SendCoinsDialog_2 : list message :=
  [Message false [Loc None "+3"]
     "Enable Replace-By-Fee" true
     ["Helyettesítő díj engedélyezése"];
   Message false [Loc None "+37"]
     "Confirm the send action" true
     ["Erősítse meg a küldési műveletet"];
   Message false [Loc None "+3"]
     "S&amp;end" true
     ["S&amp;vége"];
   Message false [Loc None "+23"]
     "Clear all fields of the form." true
     ["Töröljük az űrlap összes mezőjét."];
   Message false [Loc None "+3"]
     "Clear &amp;All" true
     ["Tiszta az összes"];
   Message false [Loc None "+14"]
     "Send to multiple recipients at once" true
     ["Küldés egyszerre több címzettnek"];
   Message false [Loc None "+3"]
     "Add &amp;Recipient" true
     ["Szolgáltatás hozzáadása címzettként"];
   Message false [Loc None "+38"]
     "Balance:" true
     ["Egyensúly:"];
   Message false [Loc (Some "../sendcoinsdialog.cpp") "-730"]
     "Add Output" true
     ["Kimenet hozzáadása"];
   Message false [Loc None "+3"]
     "Add Recipient" true
     ["Címzettszám hozzáadása"];
   Message false [Loc None "+14"]
     "Copy quantity" true
     ["Mennyiség másolása"];
   Message false [Loc None "+1"]
     "Copy amount" true
     ["Másolandó összeg"];
   Message false [Loc None "+1"]
     "Copy fee" true
     ["Másolási díj"];
   Message false [Loc None "+1"]
     "Copy after fee" true
     ["Átmásolás díj után"];
   Message false [Loc None "+1"]
     "Copy bytes" true
     ["Másolandó bájtok"];
   Message false [Loc None "+1"]
     "Copy dust" true
     ["Pormásolás"];
   Message false [Loc None "+1"]
     "Copy change" true
     ["Másolási változás"];
   Message false [Loc None "+88"]
     "%1 (%2 blocks)" true
     ["% 1 (% 2 blokk)"];
   Message false [Loc None "+39"]
     "This tab allows manually activating Staking funds for ColdStaking. This will take longer than the &quot;Automated ColdStaking activation&quot; to start staking but wallet does not need to be online for the activation." true
     ["Ez a lap lehetővé teszi a kézi aktiválás Staking alapok ColdStaking. Ez akarat fog hosszabb mint a &quot;gyorsbüfé ColdStaking aktiválás&quot;-hoz elkezd Staking de levéltárca nem szükség-hoz lenni online részére a aktiválás."];
   Message false [Loc None "+103"]
     "Error Remote Staking Address" true
     ["Hiba távoli Staking cím"];
   Message false [Loc None "+0"]
     "The remote stake address can&apos;t be part of this wallet." true
     ["A távoli tét címe nem lehet része ennek a pénztárcájának."];
   Message false [Loc None "+96"]
     "from wallet %1" true
     ["a mobiltárcából (% 1)"];
   Message false [Loc None "+21"; Loc None "+5"; Loc None "+5"; Loc None "+4"]
     "%1 to %2" true
     ["% 1-% 2"];
   Message false [Loc None "+6"]
     "Are you sure you want to send?" true
     ["Biztos, hogy szeretne küldeni?"];
   Message false [Loc None "+2"]
     "Please, review your transaction." true
     ["Kérjük, tekintse át a tranzakciót."];
   Message false [Loc None "+11"]
     "Estimated Transaction fee" true
     ["Becsült tranzakciós díj"];
   Message false [Loc None "+13"]
     "removed for transaction fee" true
     ["eltávolítva a tranzakciós díj"];
   Message false [Loc None "+2"]
     "added as transaction fee" true
     ["hozzáadva tranzakciós díjként"];
   Message false [Loc None "+5"]
     "You can increase the fee later (signals Replace-By-Fee, BIP-125)." true
     ["A díjat később is megnövelheti (a jelek helyettesítik a díjat, BIP-125)."]].

Definition hu_SendCoinsDialog_3 : list message :=
  [Message false [Loc None "+2"]
     "Not signalling Replace-By-Fee, BIP-125." true
     ["Nem a díj helyettesítési díja, BIP-125."];
   Message false [Loc None "+12"]
     "Total Amount" true
     ["Végösszeg"];
   Message false [Loc None "+6"]
     "Your hardware device must be connected to sign this txn." true
     ["A hardvereszköznek kapcsolódnia kell a TXN aláírhoz."];
   Message false [Loc None "+4"]
     "Confirm send coins" true
     ["Érmék küldése"];
   Message false [Loc None "+248"]
     "The recipient address is not valid. Please recheck." true
     ["A címzettcím érvénytelen. Kérjük, ellenőrizze újra."];
   Message false [Loc None "+3"]
     "The amount to pay must be larger than 0." true
     ["A fizetendő összegnek 0-nál nagyobbnak kell lennie."];
   Message false [Loc None "+3"]
     "The amount exceeds your balance." true
     ["Az összeg meghaladja az egyenleged."];
   Message false [Loc None "+3"]
     "The total exceeds your balance when the %1 transaction fee is included." true
     ["A teljes egyenleg túllépi a (z)% 1 tranzakciós díjat."];
   Message false [Loc None "+3"]
     "Duplicate address found: addresses should only be used once each." true
     ["Duplikált cím található: a címeket csak egyszer kell használni."];
   Message false [Loc None "+3"]
     "Transaction creation failed!" true
     ["A tranzakció létrehozása nem sikerült!"];
   Message false [Loc None "+4"]
     "The transaction was rejected with the following reason: %1" true
     ["A tranzakciót a következő okból utasították vissza:% 1"];
   Message false [Loc None "+4"]
     "A fee higher than %1 is considered an absurdly high fee." true
     ["A (z)% 1 magasabb díj egy nevetségesen magas díj."];
   Message false [Loc None "+3"]
     "Payment request expired." true
     ["A kifizetési kérelem lejárt."];
   Message false [Loc None "+96"]
     "Pay only the required fee of %1" true
     ["Csak a szükséges% 1 díj megfizetése"];
   Message true [Loc None "+76"]
     "Estimated to begin confirmation within %n block(s)." true
     ["A visszaigazolási becslések szerint% n blokk (ok) n belül kezdődik."; "A visszaigazolási becslések szerint% n blokk (ok) n belül kezdődik."];
   Message false [Loc None "+130"]
     "Warning: Invalid Bitcoin Confidential address" true
     ["Figyelmeztetés: érvénytelen Bitcoin bizalmas cím"];
   Message false [Loc None "+8"]
     "Error custom change address" true
     ["Hiba az egyéni Címváltozási címben"];
   Message false [Loc None "+0"]
     "The address you selected for change is not part of this wallet." true
     ["A változásra kiválasztott cím nem része ennek a pénztárcájának."];
   Message false [Loc None "+15"]
     "(no label)" true
     ["(címke nélkül)"]].

Definition hu_SendCoinsEntry_1 : list message :=
  [Message false [Loc (Some "../forms/sendcoinsentry.ui") "+30"]
     "This is a normal payment." true
     ["Ez egy normál fizetési."];
   Message false [Loc None "+71"; Loc None "+463"; Loc None "+130"]
     "Subtract fee from amount" true
     ["Illeték kivonása az összegből"];
   Message false [Loc None "-580"; Loc None "+463"; Loc None "+130"]
     "Use available balance" true
     ["Használható egyenleg használata"];
   Message false [Loc None "-562"]
     "Message" true
     ["Üzenetet"];
   Message false [Loc None "+24"; Loc None "+261"]
     "The Bitcoin Confidential address to send the payment to" true
     ["A Bitcoin bizalmas címet, hogy elküldi a kifizetést"];
   Message false [Loc None "-254"; Loc None "+261"; Loc None "+297"; Loc None "+104"]
     "Choose previously used address" true
     ["Régebben használt cím kiválasztása"];
   Message false [Loc None "-646"; Loc None "+261"; Loc None "+297"; Loc None "+104"]
     "Alt+A" true
     ["ALT + A"];
   Message false [Loc None "-655"; Loc None "+261"; Loc None "+297"; Loc None "+104"]
     "Paste address from clipboard" true
     ["A vágólap címének beillesztése"];
   Message false [Loc None "-646"; Loc None "+261"; Loc None "+297"; Loc None "+104"]
     "Alt+P" true
     ["ALT + P"];
   Message false [Loc None "-655"; Loc None "+261"; Loc None "+401"; Loc None "+520"; Loc None "+564"]
     "Remove this entry" true
     ["A bejegyzés eltávolítása"];
   Message false [Loc None "-1718"; Loc None "+277"]
     "Pay To" true
     ["Fizetsz"];
   Message false [Loc None "-258"; Loc None "+242"; Loc None "+277"]
     "Amount" true
     ["Összeg"];
   Message false [Loc None "-495"]
     "Enter a label for this address to add it to the list of used addresses" true
     ["Adja meg a cím címkéjét, amelyet fel szeretne adni a használt címek listájába."];
   Message false [Loc None "+15"]
     "Label" true
     ["Címke"];
   Message false [Loc None "+33"]
     "A short message sent over the Bitcoin Confidential network." true
     ["Egy rövid üzenetet küldött át a Bitcoin bizalmas hálózat."];
   Message false [Loc None "+6"]
     "Encrypted message sent with the transaction (optional, max. 24 characters)." true
     ["A tranzakcióval küldött titkosított üzenet (nem kötelező, legfeljebb 24 karakter)."];
   Message false [Loc None "+261"]
     "This is a payment to a coldstake script." true
     ["Ez a kifizetés a coldstake forgatókönyvet."];
   Message false [Loc None "+83"]
     "The fee will be deducted from the amount being sent. The recipient will receive less Bitcoin Confidential than you enter in the amount field. If multiple recipients are selected, the fee is split equally." true
     ["A díj levonásra kerül a küldendő összegből. A fogékony akarat kap kevesebb Bitcoin bizalmas mint te belép-ban összeg mező. Ha több címzett van kijelölve, a díj egyenlően oszlik meg."];
   Message false [Loc None "+36"]
     "ColdStake address used by your remote staking node to stake your funds." true
     ["ColdStake címet használja a távoli Staking csomópont tét a pénzeszközök."];
   Message false [Loc None "+80"]
     "ColdStake " true
     ["A ColdStake"];
   Message false [Loc None "+24"]
     "The stake address on the remote node (cannot be in this wallet)" true
     ["A távoli csomóponton lévő tétcím (nem lehet ebben a mobiltárcában)"];
   Message false [Loc None "+81"]
     " Stake " true
     ["Tét"];
   Message false [Loc None "+434"]
     "This is an unauthenticated payment request." true
     ["Ez egy nem hitelesített kifizetési kérelem."];
   Message false [Loc None "+40"; Loc None "+560"]
     "Pay To:" true
     ["Fizetés:"]].

Definition hu_SendCoinsEntry_2 : list message :=
  [Message false [Loc None "-526"; Loc None "+577"]
     "Memo:" true
     ["Kamatszámla:"];
   Message false [Loc None "-560"; Loc None "+547"]
     "A&amp;mount:" true
     ["A&amp;Mount:"];
   Message false [Loc None "-78"]
     "This is an authenticated payment request." true
     ["Ez egy hitelesített kifizetési kérelem."];
   Message false [Loc (Some "../sendcoinsentry.cpp") "+89"]
     "Enter a label for this address to add it to your address book" true
     ["Adja meg a címjegyzékbe felvenni kívánt cím címkéjét"]].

Definition hu_SendConfirmationDialog : list message :=
  [Message false [Loc (Some "../sendcoinsdialog.cpp") "+85"; Loc None "+5"]
     "Yes" true
     ["igen"]].

Definition hu_ShutdownWindow : list message :=
  [Message false [Loc (Some "../utilitydialog.cpp") "+83"]
     "%1 is shutting down..." true
     ["a (z)% 1 leáll..."];
   Message false [Loc None "+1"]
     "Do not shut down the computer until this window disappears." true
     ["Ne állítsa le a számítógépet, amíg ez az ablak el nem tűnik."]].

Definition hu_SignVerifyMessageDialog_1 : list message :=
  [Message false [Loc (Some "../forms/signverifymessagedialog.ui") "+14"]
     "Signatures - Sign / Verify a Message" true
     ["Aláírások-üzenetek aláírása/ellenőrzése"];
   Message false [Loc None "+14"]
     "&amp;Sign Message" true
     ["Az üzenet aláírása"];
   Message false [Loc None "+10"]
     "&amp;Verify Message" true
     ["Az üzenet ellenőrzése"];
   Message false [Loc None "+31"]
     "You can sign messages/agreements with your addresses to prove you can receive Bitcoin Confidential sent to them. Be careful not to sign anything vague or random, as phishing attacks may try to trick you into signing your identity over to them. Only sign fully-detailed statements you agree to." true
     ["Tudod jel üzenetek/megállapodások a címek bizonyítani kaphat Bitcoin bizalmas küldött nekik. Ügyeljen arra, hogy ne írja alá semmi homályos vagy véletlenszerű, az adathalász-támadások is próbálja becsapni Önt aláírásával a személyazonosságát át őket. Csak jel teljesen részletes kimutatásokat Ön elfogadja."];
   Message false [Loc None "+18"]
     "The Bitcoin Confidential address to sign the message with" true
     ["Az üzenet aláírására szolgáló Bitcoin bizalmas cím"];
   Message false [Loc None "+7"; Loc None "+213"]
     "Choose previously used address" true
     ["Régebben használt cím kiválasztása"];
   Message false [Loc None "-203"; Loc None "+213"]
     "Alt+A" true
     ["ALT + A"];
   Message false [Loc None "-203"]
     "Paste address from clipboard" true
     ["A vágólap címének beillesztése"];
   Message false [Loc None "+10"]
     "Alt+P" true
     ["ALT + P"];
   Message false [Loc None "+12"]
     "Enter the message you want to sign here" true
     ["Adja meg az aláírni kívánt üzenetet"];
   Message false [Loc None "+7"]
     "Signature" true
     ["Aláírás"];
   Message false [Loc None "+27"]
     "Copy the current signature to the system clipboard" true
     ["Az aktuális aláírás másolása a rendszer vágólapjára"];
   Message false [Loc None "+21"]
     "Sign the message to prove you own this Bitcoin Confidential address" true
     ["Jel a üzenet-hoz bebizonyít Ön saját ez Bitcoin bizalmas cím"];
   Message false [Loc None "+3"]
     "Sign &amp;Message" true
     ["&quot;Üzenet&quot; aláírása"];
   Message false [Loc None "+14"]
     "Reset all sign message fields" true
     ["Az összes előjelüzenet-mező alaphelyzetbe állítása"];
   Message false [Loc None "+3"; Loc None "+153"]
     "Clear &amp;All" true
     ["Tiszta az összes"];
   Message false [Loc None "-85"]
     "Enter the receiver&apos;s address, message (ensure you copy line breaks, spaces, tabs, etc. exactly) and signature below to verify the message. Be careful not to read more into the signature than what is in the signed message itself, to avoid being tricked by a man-in-the-middle attack. Note that this only proves the signing party receives with the address, it cannot prove sendership of any transaction!" true
     ["Adja meg a fogadó címét, üzenet (biztos, hogy másolni sortörések, terek, fülek, stb pontosan) és az aláírás alatt ellenőrzi az üzenetet. Legyen óvatos, nehogy tovább az aláírást, mint ami az aláírt üzenet maga, hogy elkerüljék, hogy becsapott egy ember-in-the-Middle támadást. Megjegyzendő, hogy ez csak azt bizonyítja, az aláíró fél megkapja a címet, nem tudja bizonyítani, sendership bármely ügylet!"];
   Message false [Loc None "+21"]
     "The Bitcoin Confidential address the message was signed with" true
     ["Az üzenet aláírva a Bitcoin bizalmas címet"];
   Message false [Loc None "+44"]
     "Verify the message to ensure it was signed with the specified Bitcoin Confidential address" true
     ["Igazol a üzenet-hoz biztosít volt aláíró-val a megjelölt Bitcoin bizalmas cím"];
   Message false [Loc None "+3"]
     "Verify &amp;Message" true
     ["A fenti üzenet ellenőrzése"];
   Message false [Loc None "+14"]
     "Reset all verify message fields" true
     ["Az összes ellenőrzése üzenetmező alaphelyzetbe állítása"];
   Message false [Loc (Some "../signverifymessagedialog.cpp") "+39"]
     "Click &quot;Sign Message&quot; to generate signature" true
     ["Kattintson az &quot;üzenet aláírása&quot; elemre az aláírás létrehozásához."];
   Message false [Loc None "+78"; Loc None "+78"]
     "The entered address is invalid." true
     ["A beírt cím érvénytelen."];
   Message false [Loc None "-78"; Loc None "+7"; Loc None "+71"; Loc None "+6"]
     "Please check the address and try again." true
     ["Kérjük, ellenőrizze a címet, és próbálkozzon újra."];
   Message false [Loc None "-77"; Loc None "+77"]
     "The entered address does not refer to a key." true
     ["A beírt cím nem hivatkozik a kulcsra."];
   Message false [Loc None "-69"]
     "Wallet unlock was cancelled." true
     ["A mobiltárca zárolásának feloldása törölve."];
   Message false [Loc None "+8"]
     "Private key for the entered address is not available." true
     ["A beírt címhez nem áll rendelkezésre személyes kulcs."];
   Message false [Loc None "+12"]
     "Message signing failed." true
     ["Sikertelen üzenetaláírás."]].

Definition hu_SignVerifyMessageDialog_2 : list message :=
  [Message false [Loc None "+5"]
     "Message signed." true
     ["Üzenet aláírva."];
   Message false [Loc None "+55"]
     "The signature could not be decoded." true
     ["Az aláírást nem lehetett dekódolt."];
   Message false [Loc None "+0"; Loc None "+13"]
     "Please check the signature and try again." true
     ["Ellenőrizze az aláírást, majd próbálkozzon újra."];
   Message false [Loc None "+0"]
     "The signature did not match the message digest." true
     ["Az aláírás nem egyezik az üzenetkivonatoláshoz."];
   Message false [Loc None "+6"]
     "Message verification failed." true
     ["Az üzenetellenőrzés sikertelen."];
   Message false [Loc None "+5"]
     "Message verified." true
     ["Üzenet ellenőrizve."]].

Definition hu_SplashScreen : list message :=
  [Message false [Loc (Some "../networkstyle.cpp") "+19"]
     "[testnet]" true
     ["TestNet"]].

Definition hu_StakingDialog_1 : list message :=
  [Message false [Loc (Some "../forms/stakingdialog.ui") "+14"]
     "Send Coins" true
     ["Érmék küldése"];
   Message false [Loc None "+23"]
     "Status" true
     ["Állapot"];
   Message false [Loc None "+19"]
     "Addresses" true
     ["Címek"];
   Message false [Loc None "+16"]
     "Rewards" true
     ["Jutalmak"];
   Message false [Loc None "+16"]
     "Convert to Spending" true
     ["Átalakítás Költekhez"];
   Message false [Loc None "+16"]
     "Convert to Staking" true
     ["Konvertálás Staking"];
   Message false [Loc None "+16"]
     "Activate ColdStaking" true
     ["Aktiválja ColdStaking"];
   Message false [Loc None "+79"]
     "Total supply" true
     ["Teljes ellátás"];
   Message false [Loc None "+26"]
     "Current block reward" true
     ["Aktuális blokkjutalom"];
   Message false [Loc None "+26"]
     "Current block height" true
     ["Aktuális blokkmagasság"];
   Message false [Loc None "+20"]
     "Network difficulty" true
     ["Hálózati nehézségi fok"];
   Message false [Loc None "+26"]
     "Annual staking reward" true
     ["Éves Staking jutalom"];
   Message false [Loc None "+13"]
     "Current staking reward" true
     ["Jelenlegi Staking jutalom"];
   Message false [Loc None "+26"]
     "Network staking weight" true
     ["Hálózati Staking súlya"];
   Message false [Loc None "+20"]
     "Your estimated annual reward" true
     ["A becsült éves jutalom"];
   Message false [Loc None "+13"]
     "?" true
     ["?"];
   Message false [Loc None "+80"]
     "Staking" true
     ["Staking"];
   Message false [Loc None "+24"; Loc None "+233"]
     "ENABLED" true
     ["Engedélyezve"];
   Message false [Loc None "-210"]
     "Pause" true
     ["Szünet"];
   Message false [Loc None "+50"; Loc None "+425"]
     "Estimated reward frequency" true
     ["Becsült jutalmazási gyakoriság"];
   Message false [Loc None "-412"]
     "Stakable Funds" true
     ["Stakable alapok"];
   Message false [Loc None "+20"]
     "Wallet staking weight" true
     ["Pénztárca Staking súlya"];
   Message false [Loc None "+103"]
     "Cold Staking" true
     ["Hideg Staking"];
   Message false [Loc None "+55"]
     "Remote Stake address" true
     ["Távoli tét címe"];
   Message false [Loc None "+13"]
     "Automated ColdStaking activation" true
     ["Automatizált ColdStaking aktiválás"];
   Message false [Loc None "+25"]
     "Enable " true
     ["Engedélyezi"];
   Message false [Loc None "+57"]
     "Enable Hot Staking with the STAKING ENABLE button and leaving wallet open.  Enable automated ColdStake with COLDSTAKING ENABLE button and setting a remote stake address. On remote node enable staking with &quot;bitcoinc-cli walletsettings stakingstatus true&quot; and create a &quot;Stake&quot; address on your remote node with &quot;bitcoinc-cli getnewstakeaddress&quot;, or get a &quot;Stake&quot; address from a ColdStaking pool. Funds gradually transition over from hot staking to cold staking while your wallet is open. The time required for the activation depends on the wallet&apos;s staking weight and can take several days with a low weight. Once the activation bar shows complete, wallet can be closed.  Alternatively, use the Activate Coldstaking tab to send an activation transaction.  This will take longer to start staking but wallet does not need to be online." true
     ["Képessé tesz forró Staking-val a STAKING képessé tesz gomb és kilépő levéltárca nyit.  Képessé tesz gyorsbüfé ColdStake-val COLDSTAKING képessé tesz gomb és elintézés egy távoli tét cím. Távoli csomóponton engedélyezze a &quot;bitcoinc-CLI walletsettings stakingstatus true&quot; beállítást, és hozzon létre egy &quot;Stake&quot; címet a távoli csomóponton a &quot;bitcoinc-CLI getnewmegfigyelés&quot; címmel, vagy kap egy &quot;Stake&quot; címet egy ColdStaking készletből. Alapok fokozatosan áttért a forró Staking hideg Staking, miközben a pénztárca nyitva van. A idő szükséges részére a aktiválás függ-on levéltárca &apos; Staking mér és tud fog több napok-val egy alacsony mér. Egyszer a aktiválás büfé mutat kiegészít, levéltárca lehet csukott.  Vagylagosan, használ a hatékonnyá tesz Coldstaking pánt-hoz küld egy aktiválás lebonyolítás.  Ez akarat fog hosszabb-hoz elkezd Staking de levéltárca nem szükség-hoz lenni online."];
   Message false [Loc None "+20"]
     "ColdStake activation progress" true
     ["ColdStake aktiválás haladás"];
   Message false [Loc None "+77"]
     "Amount activated for ColdStaking" true
     ["Az összeg aktiválva ColdStaking"]].

Definition hu_StakingDialog_2 : list message :=
  [Message false [Loc None "+13"]
     "Estimated weight" true
     ["Becsült súly"];
   Message false [Loc None "+106"]
     "Filtered" true
     ["Szűrt"];
   Message false [Loc None "+15"; Loc None "+88"]
     "Staking rewards" true
     ["Staking jutalmak"];
   Message false [Loc None "-75"; Loc None "+48"]
     "Solved blocks" true
     ["Megoldott blokkok"];
   Message false [Loc None "-41"; Loc None "+55"]
     "4000" true
     ["4000"];
   Message false [Loc None "-48"; Loc None "+41"]
     "100000BC" true
     ["100000BC"];
   Message false [Loc None "-22"]
     "Total" true
     ["Teljes"];
   Message false [Loc (Some "../stakingdialog.cpp") "+258"; Loc None "+17"]
     "No stakable funds available. Use the &quot;Convert to staking&quot; tab to convert funds for staking." true
     ["Nincs stakable rendelkezésre álló pénzeszközök. Használja a &quot;Konvertálás Staking&quot; fület átalakítani alapok Staking."];
   Message false [Loc None "-15"; Loc None "+18"]
     "No eligible staking outputs available. Staking funds need to have 225 confirmations to be eligible." true
     ["Nem áll rendelkezésre támogatható Staking kimenetek. Staking alapok szükség van 225 visszaigazolások, hogy jogosultak legyenek."];
   Message false [Loc None "-9"]
     "Staking not initialized yet. Wait a moment." true
     ["Staking nem inicializált még. Várj egy pillanatot."];
   Message false [Loc None "+3"]
     "Staking is stopped. Press the start button above to enable staking." true
     ["Staking leállt. Nyomja meg a fenti Start gombot a Staking engedélyezéséhez."];
   Message false [Loc None "+10"]
     "Wallet is locked. To start staking unlock the wallet for staking only. To unlock click the lock icon in the bottom right hand portion of the window." true
     ["A mobiltárca zárolva van. -Hoz elkezd Staking kinyit a levéltárca részére Staking egyetlen. Feloldásához kattintson a lakat ikonra a jobb alsó részén az ablakon."];
   Message false [Loc None "+4"]
     "Wallet is not fully synced. To start staking make sure the wallet has connections to the network and wait until it catched up with the latest blocks." true
     ["A mobiltárca nincs teljesen szinkronizálva. -Hoz elkezd csípés győződj meg a levéltárca birtokol kapcsolatok-hoz hálózat és vár amíg ez ravasz megjelöl-val a legutolsó márványtömbök."];
   Message false [Loc None "+3"]
     "Staking is disabled. Set the config paramter &quot;staking=1&quot; in the bitcoinc.conf to enable it." true
     ["Staking le van tiltva. Állítsuk be a config paraméter &quot;Staking = 1&quot; a bitcoinc. conf-hoz képessé tesz ez."];
   Message false [Loc None "+72"]
     "No eligible coldstaking outputs available. Your coldstaking funds need to have 225 confirmations to be eligible." true
     ["Nem áll rendelkezésre támogatható coldstaking kimenet. Ön coldstaking alapok szükség van 225 visszaigazolások, hogy jogosultak legyenek."];
   Message false [Loc None "+160"]
     "Set Remote Staking Address" true
     ["Távoli Staking cím beállítása"];
   Message false [Loc None "+1"]
     "Enter the remote staking address:" true
     ["Adja meg a távoli Staking címet:"]].

Definition hu_TrafficGraphWidget : list message :=
  [Message false [Loc (Some "../trafficgraphwidget.cpp") "+81"]
     "KB/s" true
     ["KB/s"]].

Definition hu_TransactionDesc_1 : list message :=
  [Message true [Loc (Some "../transactiondesc.cpp") "+39"]
     "Open for %n more block(s)" true
     ["Megnyitás% n további blokkra"; "Megnyitás% n további blokkra"];
   Message false [Loc None "+2"]
     "Open until %1" true
     ["Nyitva, amíg% 1"];
   Message false [Loc None "+6"]
     "conflicted with a transaction with %1 confirmations" true
     ["ütközött egy% 1 visszaigazolások tranzakcióval"];
   Message false [Loc None "+2"]
     "0/unconfirmed, %1" true
     ["0/nem megerősített,% 1"];
   Message false [Loc None "+0"]
     "in memory pool" true
     ["a memória-készletben"];
   Message false [Loc None "+0"]
     "not in memory pool" true
     ["nincs a memóriaterületen"];
   Message false [Loc None "+0"]
     "abandoned" true
     ["Elhagyott"];
   Message false [Loc None "+2"]
     "%1/unconfirmed" true
     ["% 1/meg nem erősített"];
   Message false [Loc None "+2"]
     "%1 confirmations" true
     ["% 1 visszaigazolások"];
   Message false [Loc None "+29"]
     "Status" true
     ["Állapot"];
   Message false [Loc None "+3"]
     "Date" true
     ["Dátum"];
   Message false [Loc None "+4"; Loc None "+223"]
     "Transaction ID" true
     ["Tranzakció-azonosító"];
   Message false [Loc None "-210"; Loc None "+211"]
     "Transaction total size" true
     ["Tranzakció összmérete"];
   Message false [Loc None "-209"]
     "Confirmations" true
     ["Visszaigazolások"];
   Message false [Loc None "+4"]
     "Block hash" true
     ["Sorkivonat blokkolása"];
   Message false [Loc None "+1"]
     "Block index" true
     ["Blokk-index"];
   Message false [Loc None "+1"]
     "Block time" true
     ["Blokkolási idő"];
   Message false [Loc None "+21"]
     "Source" true
     ["Forrás"];
   Message false [Loc None "+0"]
     "Generated" true
     ["Generált"];
   Message false [Loc None "+5"; Loc None "+14"; Loc None "+72"]
     "From" true
     ["A"];
   Message false [Loc None "-72"]
     "unknown" true
     ["Ismeretlen"];
   Message false [Loc None "+1"; Loc None "+20"; Loc None "+72"]
     "To" true
     ["Hogy"];
   Message false [Loc None "-90"]
     "own address" true
     ["saját címből"];
   Message false [Loc None "+0"; Loc None "+69"]
     "watch-only" true
     ["csak nézni"];
   Message false [Loc None "-67"]
     "label" true
     ["Címke"];
   Message false [Loc None "+36"; Loc None "+12"; Loc None "+58"; Loc None "+37"; Loc None "+66"]
     "Credit" true
     ["Hitel"];
   Message true [Loc None "-171"]
     "matures in %n more block(s)" true
     ["megérik% n több blokk (ok)"; "megérik% n több blokk (ok)"]].

Definition hu_TransactionDesc_2 : list message :=
  [Message false [Loc None "+2"]
     "not accepted" true
     ["nincs elfogadva"];
   Message false [Loc None "+64"; Loc None "+26"; Loc None "+71"]
     "Debit" true
     ["Tartozik"];
   Message false [Loc None "-87"]
     "Total debit" true
     ["Tartozás összege"];
   Message false [Loc None "+1"]
     "Total credit" true
     ["Teljes hitelállomány"];
   Message false [Loc None "+5"]
     "Transaction fee" true
     ["Tranzakciós díj"];
   Message false [Loc None "+27"]
     "Net amount" true
     ["Nettó összeg"];
   Message false [Loc None "+6"; Loc None "+12"]
     "Message" true
     ["Üzenetet"];
   Message false [Loc None "-10"]
     "Comment" true
     ["Megjegyzést"];
   Message false [Loc None "+4"]
     "Transaction virtual size" true
     ["Virtuális tranzakció-méret"];
   Message false [Loc None "+1"]
     "Output index" true
     ["Output-index"];
   Message false [Loc None "+10"]
     "Narration" true
     ["Elbeszélés"];
   Message false [Loc None "+13"]
     "Merchant" true
     ["Kereskedő"];
   Message false [Loc None "+7"]
     "Generated coins must mature %1 blocks before they can be spent. When you generated this block, it was broadcast to the network to be added to the block chain. If it fails to get into the chain, its state will change to &quot;not accepted&quot; and it won&apos;t be spendable. This may occasionally happen if another node generates a block within a few seconds of yours." true
     ["Generált érmék kell érett% 1 blokkok, mielőtt azok elköltöttek. Amikor ezt a blokkot előállították, a hálózat a blokkláncba való hozzáadásra adódott. Ha ez megbukik-hoz kap levegőbe lánc,-a állapot akarat cserél-hoz &quot;nem elfogadott&quot; és ez szokás &apos; lenni spendable. Ez esetenként megtörténhet, ha egy másik csomópont néhány másodpercen belül blokkot generál."];
   Message false [Loc None "+8"]
     "Debug information" true
     ["Hibakeresési információk"];
   Message false [Loc None "+13"]
     "Transaction" true
     ["Tranzakció"];
   Message false [Loc None "+3"]
     "Inputs" true
     ["Bemenetek"];
   Message false [Loc None "+21"]
     "Amount" true
     ["Összeg"];
   Message false [Loc None "+1"; Loc None "+1"]
     "true" true
     ["Igaz"];
   Message false [Loc None "-1"; Loc None "+1"]
     "false" true
     ["Hamis"]].

Definition hu_TransactionDescDialog : list message :=
  [Message false [Loc (Some "../forms/transactiondescdialog.ui") "+26"]
     "This pane shows a detailed description of the transaction" true
     ["Ez az ablaktábla a tranzakció részletes leírását tartalmazza"];
   Message false [Loc (Some "../transactiondescdialog.cpp") "+17"]
     "Details for %1" true
     ["% 1 részletei"]].

Definition hu_TransactionTableModel_1 : list message :=
  [Message false [Loc (Some "../transactiontablemodel.cpp") "+257"]
     "Date" true
     ["Dátum"];
   Message false [Loc None "+2"]
     "Type" true
     ["Típus"];
   Message false [Loc None "+2"]
     "Label" true
     ["Címke"];
   Message false [Loc None "+3"]
     "In" true
     ["A"];
   Message false [Loc None "+0"]
     "Out" true
     ["Ki"];
   Message true [Loc None "+73"]
     "Open for %n more block(s)" true
     ["Megnyitás% n további blokkra"; "Megnyitás% n további blokkra"];
   Message false [Loc None "+3"]
     "Open until %1" true
     ["Nyitva, amíg% 1"];
   Message false [Loc None "+3"]
     "Unconfirmed" true
     ["Ellenőrizetlen"];
   Message false [Loc None "+4"]
     "Orphaned" true
     ["Árva"];
   Message false [Loc None "+2"]
     "Abandoned" true
     ["Elhagyott"];
   Message false [Loc None "+22"]
     "Confirming (%1 of %2 recommended confirmations)" true
     ["Megerősítve (% 1% 2 ajánlott visszaigazolások)"];
   Message false [Loc None "+3"]
     "Confirmed (%1 confirmations)" true
     ["Megerősítve (% 1 visszaigazolások)"];
   Message false [Loc None "+3"]
     "Conflicted" true
     ["Ütközött"];
   Message false [Loc None "+3"]
     "Immature (%1 confirmations, will be available after %2)" true
     ["Éretlen (% 1 megerősítés a% 2 után lesz elérhető)"];
   Message false [Loc None "+3"]
     "Generated but not accepted" true
     ["Létrehozva, de nem elfogadva"];
   Message false [Loc None "+39"]
     "Received with" true
     ["Bevételezett"];
   Message false [Loc None "+2"]
     "Received from" true
     ["Beérkezett"];
   Message false [Loc None "+3"]
     "Sent to" true
     ["Elküldésre"];
   Message false [Loc None "+2"]
     "Payment to yourself" true
     ["Fizetés magadnak"];
   Message false [Loc None "+2"]
     "Airdrop" true
     ["Földre száll"];
   Message false [Loc None "+2"]
     "Staked" true
     ["Fogadott"];
   Message false [Loc None "+30"]
     "watch-only" true
     ["csak nézni"];
   Message false [Loc None "+16"]
     "(n/a)" true
     ["(n/a)"];
   Message false [Loc None "+168"]
     "Unlock to show" true
     ["Kinyit-hoz mutat"];
   Message false [Loc None "+111"]
     "(no label)" true
     ["(címke nélkül)"];
   Message false [Loc None "+42"; Loc None "+14"]
     "Transaction status. Hover over this field to show number of confirmations." true
     ["Tranzakció állapota. Vigye az egérmutatót ezen mező fölé a visszaigazolások számának megjelenítéséhez."];
   Message false [Loc None "-12"]
     "Date and time that the reward was received." true
     ["Az a dátum és időpont, amikor a jutalom megérkezett."];
   Message false [Loc None "+2"; Loc None "+16"]
     "Whether or not a watch-only address is involved in this transaction." true
     ["Azt jelzi, hogy a tranzakcióban részt vesz-e a csak figyelőcím."];
   Message false [Loc None "-14"]
     "Address used for the block solving" true
     ["A blokkmegoldáshoz használt cím"]].

Definition hu_TransactionTableModel_2 : list message :=
  [Message false [Loc None "+2"]
     "Staking reward." true
     ["Staking jutalmat."];
   Message false [Loc None "+8"]
     "Date and time that the transaction was received." true
     ["A tranzakció Beérkezés dátuma és időpontja"];
   Message false [Loc None "+2"]
     "Type of transaction." true
     ["A tranzakció típusa."];
   Message false [Loc None "+4"]
     "User-defined intent/purpose of the transaction." true
     ["A tranzakció felhasználó által meghatározott szándéka/célja."];
   Message false [Loc None "+2"]
     "Type of input coin." true
     ["A bevitt érme típusa."];
   Message false [Loc None "+2"]
     "Type of output coin." true
     ["A kimeneti érme típusa."];
   Message false [Loc None "+2"]
     "Amount removed from or added to balance." true
     ["Egyenlegből eltávolított vagy hozzáadott összeg."]].

Definition hu_TransactionView_1 : list message :=
  [Message false [Loc (Some "../transactionview.cpp") "+53"; Loc None "+11"; Loc None "+18"]
     "All" true
     ["Minden"];
   Message false [Loc None "-17"]
     "Today" true
     ["Ma"];
   Message false [Loc None "+1"]
     "This week" true
     ["Ezen a héten"];
   Message false [Loc None "+1"]
     "This month" true
     ["A hónap"];
   Message false [Loc None "+1"]
     "Last month" true
     ["A múlt hónapban"];
   Message false [Loc None "+1"]
     "This year" true
     ["Idén"];
   Message false [Loc None "+1"]
     "Range..." true
     ["Tartomány..."];
   Message false [Loc None "+13"]
     "Received with" true
     ["Bevételezett"];
   Message false [Loc None "+2"]
     "Sent to" true
     ["Elküldésre"];
   Message false [Loc None "+2"]
     "To yourself" true
     ["Magadnak"];
   Message false [Loc None "+1"]
     "Other" true
     ["Más"];
   Message false [Loc None "+1"]
     "Airdrop" true
     ["Földre száll"];
   Message false [Loc None "+5"]
     "Enter address, transaction id, or label to search" true
     ["A keresett cím, tranzakcióazonosító vagy címke megadása"];
   Message false [Loc None "+5"]
     "Min amount" true
     ["Min. összeg"];
   Message false [Loc None "+52"]
     "Abandon transaction" true
     ["Feladási tranzakció"];
   Message false [Loc None "+1"]
     "Increase transaction fee" true
     ["Tranzakciódíj növelése"];
   Message false [Loc None "+2"]
     "Copy address" true
     ["Címmásolás"];
   Message false [Loc None "+1"]
     "Copy label" true
     ["Címke másolása"];
   Message false [Loc None "+1"]
     "Copy amount" true
     ["Másolandó összeg"];
   Message false [Loc None "+1"]
     "Copy transaction ID" true
     ["Tranzakcióazonosító másolása"];
   Message false [Loc None "+1"]
     "Copy raw transaction" true
     ["Nyerstranzakció másolása"];
   Message false [Loc None "+1"]
     "Copy full transaction details" true
     ["Teljes tranzakciórészletek másolása"];
   Message false [Loc None "+1"]
     "Edit label" true
     ["Címke szerkesztése"];
   Message false [Loc None "+1"]
     "Show transaction details" true
     ["Tranzakciórészletek megjelenítése"];
   Message false [Loc None "+239"]
     "Export Transaction History" true
     ["Tranzakcióelőzmények exportálása"];
   Message false [Loc None "+1"]
     "Comma separated file (*.csv)" true
     ["Vesszővel tagolt fájl (*. csv)"];
   Message false [Loc None "+9"]
     "Confirmed" true
     ["Megerősítette"];
   Message false [Loc None "+2"]
     "Watch-only" true
     ["Csak Watch"];
   Message false [Loc None "+1"]
     "Date" true
     ["Dátum"]].

Definition hu_TransactionView_2 : list message :=
  [Message false [Loc None "+2"]
     "Type" true
     ["Típus"];
   Message false [Loc None "+2"]
     "Label" true
     ["Címke"];
   Message false [Loc None "+1"]
     "Address" true
     ["Cím"];
   Message false [Loc None "+2"]
     "ID" true
     ["Id"];
   Message false [Loc None "+3"]
     "Exporting Failed" true
     ["Sikertelen exportálás"];
   Message false [Loc None "+0"]
     "There was an error trying to save the transaction history to %1." true
     ["Hiba történt a (z)% 1 tranzakcióelőzmények mentése közben."];
   Message false [Loc None "+4"]
     "Exporting Successful" true
     ["Sikeres exportálás"];
   Message false [Loc None "+0"]
     "The transaction history was successfully saved to %1." true
     ["A tranzakció előzményeit a program sikeresen mentette% 1 értékre."];
   Message false [Loc None "+169"]
     "Range:" true
     ["Tartomány:"];
   Message false [Loc None "+8"]
     "to" true
     ["hogy"]].

Definition hu_TxViewDelegate : list message :=
  [Message false [Loc (Some "../overviewpage.cpp") "+95"]
     "Unlock to show" true
     ["Kinyit-hoz mutat"]].

Definition hu_UnitDisplayStatusBarControl : list message :=
  [Message false [Loc (Some "../bitcoingui.cpp") "+122"]
     "Unit to show amounts in. Click to select another unit." true
     ["Az az egység, amely az összegeket jeleníti meg. Kattintson egy másik egység kiválasztásához."]].

Definition hu_WalletFrame : list message :=
  [Message false [Loc (Some "../walletframe.cpp") "+29"]
     "No wallet has been loaded." true
     ["A mobiltárca nincs betöltve."]].

Definition hu_WalletModel : list message :=
  [Message false [Loc (Some "../walletmodel.cpp") "+592"; Loc None "+4"; Loc None "+11"]
     "Wallet Model" true
     ["Mobiltárca-modell"];
   Message false [Loc None "+65"; Loc None "+39"; Loc None "+6"]
     "Fee bump error" true
     ["A díjbump hibája"];
   Message false [Loc None "-45"]
     "Increasing transaction fee failed" true
     ["A tranzakciódíj növelése meghiúsult"];
   Message false [Loc None "+6"]
     "Do you want to increase the fee?" true
     ["Szeretné növelni a díjat?"];
   Message false [Loc None "+4"]
     "Current fee:" true
     ["Aktuális díj:"];
   Message false [Loc None "+4"]
     "Increase:" true
     ["Növeli:"];
   Message false [Loc None "+4"]
     "New fee:" true
     ["Új díj:"];
   Message false [Loc None "+4"]
     "Confirm fee bump" true
     ["Díjbump visszaigazolásához"];
   Message false [Loc None "+17"]
     "Can&apos;t sign transaction." true
     ["Nem lehet aláírni a tranzakciót."];
   Message false [Loc None "+6"]
     "Could not commit transaction" true
     ["Nem sikerült véglegesíteni a tranzakciót."]].

Definition hu_WalletView : list message :=
  [Message false [Loc (Some "../walletview.cpp") "+46"; Loc None "+1"]
     "&amp;Export" true
     ["Reggeli kivitel"];
   Message false [Loc None "+9"; Loc None "+29"]
     "Export the data in the current tab to a file" true
     ["Az aktuális lap adatainak exportálása fájlba"];
   Message false [Loc None "-19"]
     "Selected amount" true
     ["Kiválasztott összeg"];
   Message false [Loc None "+290"]
     "Backup Wallet" true
     ["Biztonsági másolat mobiltárca"];
   Message false [Loc None "+1"]
     "Wallet Data (*.dat)" true
     ["Mobiltárca-adatok (*. dat)"];
   Message false [Loc None "+6"]
     "Backup Failed" true
     ["Sikertelen biztonságimásolat-készítés"];
   Message false [Loc None "+0"]
     "There was an error trying to save the wallet data to %1." true
     ["Hiba történt a mobiltárca-adatok% 1 értékre történő mentése közben."];
   Message false [Loc None "+4"]
     "Backup Successful" true
     ["Sikeres biztonságimásolat-készítés"];
   Message false [Loc None "+0"]
     "The wallet data was successfully saved to %1." true
     ["A mobiltárca adatai sikeresen mentve a (z)% 1 értékre."];
   Message false [Loc None "+63"]
     "Cancel" true
     ["Mégse gombra"]].

Definition hu_bitcoin_core_1 : list message :=
  [Message false [Loc (Some "../bitcoinstrings.cpp") "+12"]
     "Bitcoin Confidential Core" true
     ["Bitcoin bizalmas Core"];
   Message false [Loc None "+1"]
     "The %s developers" true
     ["A (z)% s fejlesztői"];
   Message false [Loc None "+1"]
     " is spendable from this wallet." true
     ["van elkölthető abból a-ból levéltárca."];
   Message false [Loc None "+1"]
     "-maxtxfee is set very high! Fees this large could be paid on a single transaction." true
     ["-maxtxfee van beállítva nagyon magas! A nagy díjak egyetlen tranzakcióra fizethetnének."];
   Message false [Loc None "+3"]
     "Can&apos;t generate a change-address key. Private keys are disabled for this wallet." true
     ["Nem lehet létrehozni egy módosítási címet tartalmazó kulcsot. A személyes kulcsok a mobiltárcában le vannak tiltva."];
   Message false [Loc None "+3"]
     "Cannot obtain a lock on data directory %s. %s is probably already running." true
     ["Nem szerezhető zárolás a (z)% s adatkönyvtárhoz.% s valószínűleg már fut."];
   Message false [Loc None "+2"]
     "Cannot provide specific connections and have addrman find outgoing connections at the same." true
     ["Nem tud beszerez különleges kapcsolatok és volna addrman talál kifelé tartó kapcsolatok ugyanakkor."];
   Message false [Loc None "+3"]
     "Cannot upgrade a non HD split wallet without upgrading to support pre split keypool. Please use -upgradewallet=169900 or -upgradewallet with no version specified." true
     ["Nem tud feljavít egy nem HD hasít levéltárca nélkül felminősítő-hoz támogat előtti hasít keypool. Kérjük, használja a-upgradewallet = 169900 vagy-upgradewallet, nincs megadva verzió."];
   Message false [Loc None "+4"]
     "Distributed under the MIT software license, see the accompanying file %s or %s" true
     ["Terjesztésre az MIT szoftverlicenc alatt, lásd a következő csatolt fájlt:% s vagy% s"];
   Message false [Loc None "+3"]
     "Error loading %s: You can&apos;t enable HD on an already existing non-HD wallet" true
     ["Hiba történt a (z)% s betöltésekor: nem lehet HD-t engedélyezni egy már meglévő, nem HD-alapú pénztárcán"];
   Message false [Loc None "+2"]
     "Error reading %s! All keys read correctly, but transaction data or address book entries might be missing or incorrect." true
     ["Hiba történt a következő olvasásakor% s! A kulcsok helyesen olvashatók, de a Tranzakcióadatok vagy címjegyzék-bejegyzések hiányoznak vagy hibásak."];
   Message false [Loc None "+3"]
     "Error: Listening for incoming connections failed (listen returned error %s)" true
     ["Hiba: a bejövő kapcsolatok hallgatása sikertelen (a figyelés a következő hibával tért vissza:% s)"];
   Message false [Loc None "+2"]
     "Fee estimation failed. Fallbackfee is disabled. Wait a few blocks or enable -fallbackfee." true
     ["A díjbecslés nem sikerült. A fallbackfee le van tiltva. Várjon néhány blokkot, vagy engedélyezze-fallbackfee."];
   Message false [Loc None "+3"]
     "Generate a random master key and main account if no master key exists. (default: %s)" true
     ["Ha nem létezik főkulcs, a véletlenszerű főkulcsot és a főfiókot hozza létre. (alapértelmezett:% s)"];
   Message false [Loc None "+3"]
     "Group outputs by address, selecting all or none, instead of selecting on a per-output basis. Privacy is improved as an address is only used once (unless someone sends to it after spending from it), but may result in slightly higher fees as suboptimal coin selection may result due to the added limitation (default: %u)" true
     ["Csoportos kimenetek cím szerint, Mindet kijelöli, vagy egyiket sem, így nem kell kiválasztani a kimenetenkénti alapon. Magány van közművesített mint egy cím van egyetlen használt egyszer (hacsak valaki küld-hoz ez után költés tőle), de május eredmény-ban alig magasabb illetmények mint gyengébb érme kiválasztás május eredmény köszönhetően a hozzáadott korlátozás (hiba:% u)"];
   Message false [Loc None "+6"]
     "Invalid amount for -maxtxfee=&lt;amount&gt;: &apos;%s&apos; (must be at least the minrelay fee of %s to prevent stuck transactions)" true
     ["Érvénytelen összeg-maxtxfee =&lt;amount&gt;: &apos;% s &apos; (a beragadt tranzakciók megakadályozása érdekében legalább% s minrelay-díjjal kell rendelkeznie)&lt;/amount&gt;"];
   Message false [Loc None "+3"]
     "Milliseconds between stake attempts. Lowering this param will not result in more stakes. (default: 500)" true
     ["Milliszekundum közötti tét próbálkozás. A param leeresztése nem eredményez több tétet. (alapértelmezett: 500)"];
   Message false [Loc None "+3"]
     "Not enough spending outputs available in the blockchain for privacy mixing. There are currently %d. For this transaction required: %d" true
     ["Nincs elég kiadások kimenet elérhető a blockchain az adatvédelem keverés. Jelenleg% d. Ehhez a tranzakcióhoz szükséges:% d"];
   Message false [Loc None "+3"]
     "Number of threads to start for staking, max 1 per active wallet, will divide wallets evenly between threads (default: 1)" true
     ["Száma szálak kezdeni Staking, Max 1 egy aktív pénztárca, majd osztani pénztárcák egyenletesen közötti szálak (alapértelmezett: 1)"];
   Message false [Loc None "+3"]
     "On saving a key from the lookahead pool, save all unsaved keys leading up to it too. (default: %s)" true
     ["Ha egy kulcs mentését a lookahead készletbe menti, mentse az összes nem mentett kulcsot. (alapértelmezett:% s)"];
   Message false [Loc None "+3"]
     "Please check that your computer&apos;s date and time are correct! If your clock is wrong, %s will not work properly." true
     ["Kérjük, ellenőrizze, hogy a számítógép dátum és idő helyesek! Ha az óra hibás, a (z)% s nem fog megfelelően működni."];
   Message false [Loc None "+3"]
     "Please contribute if you find %s useful. Visit %s for further information about the software." true
     ["Kérjük, járuljon hozzá, ha% s hasznosnak találja. További információt a szoftverről a (z)% s webhelyén olvashat."];
   Message false [Loc None "+3"]
     "Prune configured below the minimum of %d MiB.  Please use a higher number." true
     ["A minimális% d MiB alatt beállított Prune.  Kérjük, használjon nagyobb számot."];
   Message false [Loc None "+2"]
     "Prune: last wallet synchronisation goes beyond pruned data. You need to -reindex (download the whole blockchain again in case of pruned node)" true
     ["Prune: az utolsó pénztárca szinkronizáció túlmutat a metszett adatokon. Sírnod kell-reindex (letölt a egész blockchain újra abban az esetben-ból metszett csomópont)"];
   Message false [Loc None "+3"]
     "Rescans are not possible in pruned mode. You will need to use -reindex which will download the whole blockchain again." true
     ["Rescans van nem lehetséges-ban metszett mód. Lesz szükség-hoz használ-reindex melyik akarat letölt a egész blockchain újra."];
   Message false [Loc None "+3"]
     "The block database contains a block which appears to be from the future. This may be due to your computer&apos;s date and time being set incorrectly. Only rebuild the block database if you are sure that your computer&apos;s date and time are correct" true
     ["A blokk adatbázis tartalmaz egy blokkot, amely úgy tűnik, hogy a jövőben. Ennek oka lehet, hogy a számítógép helytelenül van beállítva. Csak akkor építse újra a blokk adatbázist, ha biztos abban, hogy a számítógép dátuma és ideje helyes"];
   Message false [Loc None "+5"]
     "The transaction amount is too small to send after the fee has been deducted" true
     ["A tranzakció összege túl kicsi a küldéshez a díj levonása után"];
   Message false [Loc None "+2"]
     "This is a pre-release test build - use at your own risk - do not use for mining or merchant applications" true
     ["Ez egy pre-release teszt Build-használat saját felelősségére-nem használja a bányászati és kereskedelmi alkalmazások"];
   Message false [Loc None "+3"]
     "This is the transaction fee you may discard if change is smaller than dust at this level" true
     ["Ez a tranzakciós díj akkor lehet megválni, ha a változás kisebb, mint a por ezen a szinten"]].

Definition hu_bitcoin_core_2 : list message :=
  [Message false [Loc None "+3"]
     "This is the transaction fee you may pay when fee estimates are not available." true
     ["Ez az a tranzakciós díj, amit kifizethet, ha nem állnak rendelkezésre díjbecslések."];
   Message false [Loc None "+2"]
     "This product includes software developed by the OpenSSL Project for use in the OpenSSL Toolkit %s and cryptographic software written by Eric Young and UPnP software written by Thomas Bernard." true
     ["Ez a termék magában foglalja az OpenSSL Project által kifejlesztett szoftvert az OpenSSL Toolkit% s és a titkosító szoftver által írt Eric Young és UPnP szoftver írta Thomas Bernard."];
   Message false [Loc None "+4"]
     "Total length of network version string (%i) exceeds maximum length (%i). Reduce the number or size of uacomments." true
     ["A hálózati verzió karakterláncának (% i) teljes hossza meghaladja a maximális hosszt (% i). Csökkentse az uacomments számát vagy méretét."];
   Message false [Loc None "+3"]
     "Unable to replay blocks. You will need to rebuild the database using -reindex-chainstate." true
     ["Nem lehet visszajátszani a blokkokat. Újra kell építenie az adatbázist a-reindex-chainstate használatával."];
   Message false [Loc None "+3"]
     "Unable to rewind the database to a pre-fork state. You will need to redownload the blockchain" true
     ["Nem lehet visszatekerni az adatbázist előre elágazás állapotba. Lesz szükség-hoz redownload a blockchain"];
   Message false [Loc None "+3"]
     "Unsupported argument -socks found. Setting SOCKS version isn&apos;t possible anymore, only SOCKS5 proxies are supported." true
     ["Nem támogatott argumentum-zokni található. Elintézés zokni változat isnt &apos; lehetséges anymore, egyetlen SOCKS5 legközelebbi van támogatott."];
   Message false [Loc None "+3"]
     "Unsupported argument -whitelistalwaysrelay ignored, use -whitelistrelay and/or -whitelistforcerelay." true
     ["Nem támogatott argumentum-whitelistalwaysrelay figyelmen kívül hagyta, használja-whitelistrelay és/vagy-whitelistforcerelay."];
   Message false [Loc None "+3"]
     "Warning: Private keys detected in wallet {%s} with disabled private keys" true
     ["Figyelmeztetés: személyes kulcs észlelhető a mobiltárcában {% s} a letiltott személyes kulcsokkal"];
   Message false [Loc None "+2"]
     "Warning: The network does not appear to fully agree! Some miners appear to be experiencing issues." true
     ["Figyelem: a hálózat nem úgy tűnik, hogy teljes mértékben egyetért! Egyes bányászok úgy tűnik, hogy tapasztalt kérdésekben."];
   Message false [Loc None "+3"]
     "Warning: Unknown block versions being mined! It&apos;s possible unknown rules are in effect" true
     ["Figyelmeztetés: ismeretlen blokkverziók bányásznak! Lehetséges, hogy ismeretlen szabályok vannak érvényben"];
   Message false [Loc None "+3"]
     "Warning: Wallet file corrupt, data salvaged! Original %s saved as %s in %s; if your balance or transactions are incorrect you should restore from a backup." true
     ["Figyelem: mobiltárca-fájl sérült, adatok megmenthető! Eredeti% s mentve% s néven% s; Ha az egyenleg vagy a tranzakciók nem megfelelőek, érdemes visszaállítani a biztonsági másolatból."];
   Message false [Loc None "+4"]
     "Warning: We do not appear to fully agree with our peers! You may need to upgrade, or other nodes may need to upgrade." true
     ["Figyelem: nem úgy tűnik, hogy teljes mértékben egyetértünk a társaik! Lehet, hogy frissítenie kell, vagy más csomópontoknak esetleg frissítenie kell."];
   Message false [Loc None "+3"]
     "You need to rebuild the database using -reindex to change -timestampindex" true
     ["Meg kell újjáépíteni az adatbázis-reindex változás-timestampindex"];
   Message false [Loc None "+2"]
     "You need to rebuild the database using -reindex to go back to unpruned mode.  This will redownload the entire blockchain" true
     ["Sírnod kell újjáépít a adatbázis használ-reindex-hoz visszamegy-hoz unpruned mód.  Ez akarat redownload a teljes blockchain"];
   Message false [Loc None "+3"]
     "%d of last 100 blocks have unexpected version" true
     ["% d az utolsó 100 blokkok váratlan verzió"];
   Message false [Loc None "+1"]
     "%s corrupt, salvage failed" true
     ["% s sérült, a Mentés nem sikerült"];
   Message false [Loc None "+1"]
     "%s is set very high!" true
     ["a (z)% s nagyon magasra van állítva!"];
   Message false [Loc None "+1"]
     "-maxmempool must be at least %d MB" true
     ["-maxmempool kell legalább% d MB"];
   Message false [Loc None "+1"]
     "Account chain not found" true
     ["A fióklánc nem található"];
   Message false [Loc None "+1"]
     "Address &apos;%s&apos; is not in the address book." true
     ["A (z) &apos;% s &apos; cím nincs a címjegyzékben."];
   Message false [Loc None "+1"]
     "Address &apos;%s&apos; is recorded in the address book." true
     ["A (z) &apos;% s &apos; címet a címjegyzék rögzíti."];
   Message false [Loc None "+1"]
     "Anon output not found in db, %d" true
     ["Anon kimenet nem található db,% d"];
   Message false [Loc None "+1"]
     "Anon pubkey not found in db, %s" true
     ["Anon autentikációhoz nem található db,% s"];
   Message false [Loc None "+1"]
     "Cannot downgrade wallet" true
     ["Nem visszaminősítés pénztárca"];
   Message false [Loc None "+1"]
     "Cannot resolve -%s address: &apos;%s&apos;" true
     ["A (z)-% s cím nem oldható fel: &apos;% s &apos;"];
   Message false [Loc None "+1"]
     "Cannot write to data directory &apos;%s&apos;; check permissions." true
     ["Nem lehet írni az adatkönyvtárba (&apos;% s &apos;); Ellenőrizze a jogosultságokat."];
   Message false [Loc None "+1"]
     "Change index out of range" true
     ["Tartományon kívül lévő index módosítása"];
   Message false [Loc None "+1"]
     "Confidential chain set but not found" true
     ["Bizalmas lánckészlet, de nem található"];
   Message false [Loc None "+1"]
     "Copyright (C)" true
     ["Copyright (C)"];
   Message false [Loc None "+1"]
     "Corrupted block database detected" true
     ["Sérült blokkadatbázis észlelhető"]].

Definition hu_bitcoin_core_3 : list message :=
  [Message false [Loc None "+1"]
     "Could not convert prefix to number." true
     ["Az előtag nem konvertálható számmá."];
   Message false [Loc None "+1"]
     "Could not decode scan secret as wif, hex or base58." true
     ["Nem tudott megfejt átkutat titok mint WIF, hex vagy base58."];
   Message false [Loc None "+1"]
     "Could not decode spend secret as hex or base58." true
     ["Nem tudott megfejt kiad titok mint hex vagy base58."];
   Message false [Loc None "+1"]
     "Could not get confidential chain from account." true
     ["Nem sikerült a bizalmas lánchoz jutni a számlából."];
   Message false [Loc None "+1"]
     "Could not get scan public key." true
     ["Nem sikerült beolvasni a nyilvános kulcs beolvasásához."];
   Message false [Loc None "+1"]
     "Could not get spend public key." true
     ["Nem lehet elkölteni a nyilvános kulcsot."];
   Message false [Loc None "+1"]
     "Default account not found" true
     ["Az alapértelmezett fiók nem található"];
   Message false [Loc None "+1"]
     "DeriveNextKey failed" true
     ["A DeriveNextKey sikertelen"];
   Message false [Loc None "+1"]
     "Do you want to rebuild the block database now?" true
     ["Szeretné most újrafordítani a blokkadatbázist?"];
   Message false [Loc None "+1"]
     "Done loading" true
     ["Elvégzett betöltés"];
   Message false [Loc None "+1"]
     "Duplicate index found, %d" true
     ["Duplikált index található,% d"];
   Message false [Loc None "+1"]
     "Empty wallet required for import." true
     ["Az importok számára szükséges üres pénztárca."];
   Message false [Loc None "+1"]
     "Ensure available balance remains above reservebalance. (default: 0)" true
     ["A rendelkezésre álló egyenleg továbbra is a reservebalance felett marad. (alapértelmezett: 0)"];
   Message false [Loc None "+1"]
     "EraseSetting failed." true
     ["A EraseSetting sikertelen."];
   Message false [Loc None "+1"]
     "Error creating %s: You can&apos;t create non-HD wallets with this version." true
     ["Hiba (% s) létrehozásakor: nem lehet létrehozni nem HD pénztárcát ezzel a verzióval."];
   Message false [Loc None "+1"]
     "Error initializing block database" true
     ["Hiba a blokkadatbázis inicializálásakor"];
   Message false [Loc None "+1"]
     "Error initializing wallet database environment %s!" true
     ["Hiba a mobiltárca-adatbázis környezetének (% s) inicializálásakor."];
   Message false [Loc None "+1"]
     "Error loading %s" true
     ["Hiba történt a következő betöltésekor% s"];
   Message false [Loc None "+1"]
     "Error loading %s: Private keys can only be disabled during creation" true
     ["Hiba történt% s betöltésekor: a személyes kulcsok csak a létrehozás során tilthatók le"];
   Message false [Loc None "+1"]
     "Error loading %s: Wallet corrupted" true
     ["Hiba történt a (z)% s betöltése közben: a mobiltárca sérült"];
   Message false [Loc None "+1"]
     "Error loading %s: Wallet requires newer version of %s" true
     ["Hiba történt a (z)% s betöltésekor: a Wallet a% s újabb verzióját igényli"];
   Message false [Loc None "+1"]
     "Error loading %s: You can&apos;t disable HD on an already existing HD wallet" true
     ["Hiba történt a (z)% s betöltése közben: nem tiltható le a HD a már meglévő HD pénztárcán"];
   Message false [Loc None "+1"]
     "Error loading block database" true
     ["Hiba a blokkadatbázis betöltésekor"];
   Message false [Loc None "+1"]
     "Error loading wallet %s. Duplicate -wallet filename specified." true
     ["Hiba a (z)% s mobiltárca betöltése közben. kettőzött-Wallet fájlnév megadva."];
   Message false [Loc None "+1"]
     "Error opening block database" true
     ["Hiba a blokkadatbázis megnyitásakor"];
   Message false [Loc None "+1"]
     "Error reading from database, shutting down." true
     ["Hiba az adatbázisból való olvasásakor, leállítás."];
   Message false [Loc None "+1"]
     "Error upgrading chainstate database" true
     ["Hiba a chainstate adatbázis frissítésekor"];
   Message false [Loc None "+1"]
     "Error" true
     ["Hiba"];
   Message false [Loc None "+1"]
     "Error: A fatal internal error occurred, see debug.log for details" true
     ["Hiba: végzetes belső hiba történt a részletekért lásd a Debug. log naplót"];
   Message false [Loc None "+1"]
     "Error: Disk space is low!" true
     ["Hiba: kevés a lemezterület!"]].

Definition hu_bitcoin_core_4 : list message :=
  [Message false [Loc None "+1"]
     "ExtKeyGetIndex failed." true
     ["Az ExtKeyGetIndex végrehajtása nem sikerült."];
   Message false [Loc None "+1"]
     "ExtKeySaveAccountToDB failed" true
     ["ExtKeySaveAccountToDB sikertelen"];
   Message false [Loc None "+1"]
     "Failed to listen on any port. Use -listen=0 if you want this." true
     ["Nem sikerült minden portot figyelni. Use-figyelj = 0, ha akarod ezt."];
   Message false [Loc None "+1"]
     "Failed to open dongle" true
     ["Nem sikerült megnyitni a dongle-t"];
   Message false [Loc None "+1"]
     "Failed to rescan the wallet during initialization" true
     ["A mobiltárca inicializációja nem sikerült."];
   Message false [Loc None "+1"]
     "Hit nMaxTries limit, %d, %d" true
     ["Hit Nmaxpróbál határérték,% d,% d"];
   Message false [Loc None "+1"]
     "Import failed - AddKeyPubKey failed." true
     ["Az importálás nem sikerült-AddKeyPubKey sikertelen."];
   Message false [Loc None "+1"]
     "Import failed - stealth address exists." true
     ["Az importálás sikertelen-lopakodó cím létezik."];
   Message false [Loc None "+1"]
     "Importing..." true
     ["Importáló..."];
   Message false [Loc None "+1"]
     "Incorrect or no genesis block found. Wrong datadir for network?" true
     ["Helytelen vagy nem talált Genesis blokk. Nem megfelelő a hálózat adatmappa?"];
   Message false [Loc None "+1"]
     "Information" true
     ["Információ"];
   Message false [Loc None "+1"]
     "Initialization sanity check failed. %s is shutting down." true
     ["Az inicializálási józanság ellenőrzése sikertelen. a (z)% s leáll."];
   Message false [Loc None "+1"]
     "Insufficient funds" true
     ["Elégtelen pénzeszközök"];
   Message false [Loc None "+1"]
     "Insufficient funds." true
     ["Elégtelen pénzeszközök."];
   Message false [Loc None "+1"]
     "Invalid -onion address or hostname: &apos;%s&apos;" true
     ["Érvénytelen-vöröshagyma cím vagy állomásnév: &apos;% s &apos;"];
   Message false [Loc None "+1"]
     "Invalid -proxy address or hostname: &apos;%s&apos;" true
     ["Érvénytelen-proxycím vagy állomásnév: &apos;% s &apos;"];
   Message false [Loc None "+1"]
     "Invalid BitcoinC address." true
     ["Érvénytelen BitcoinC-cím."];
   Message false [Loc None "+1"]
     "Invalid amount for -%s=&lt;amount&gt;: &apos;%s&apos;" true
     ["Érvénytelen összeg-% s =&lt;amount&gt;: &apos;% s &apos;&lt;/amount&gt;"];
   Message false [Loc None "+1"]
     "Invalid amount for -discardfee=&lt;amount&gt;: &apos;%s&apos;" true
     ["Érvénytelen összeg-discardfee =&lt;amount&gt;: &apos;% s &apos;&lt;/amount&gt;"];
   Message false [Loc None "+1"]
     "Invalid amount for -fallbackfee=&lt;amount&gt;: &apos;%s&apos;" true
     ["Érvénytelen összeg-fallbackfee =&lt;amount&gt;: &apos;% s &apos;&lt;/amount&gt;"];
   Message false [Loc None "+1"]
     "Invalid amount for -paytxfee=&lt;amount&gt;: &apos;%s&apos; (must be at least %s)" true
     ["Érvénytelen összeg-paytxfee =&lt;amount&gt;: &apos;% s &apos; (legalább% s kell lennie)&lt;/amount&gt;"];
   Message false [Loc None "+1"]
     "Invalid amount for -reservebalance=&lt;amount&gt;" true
     ["Érvénytelen összeg-reservebalance =&lt;amount&gt;&lt;/amount&gt;"];
   Message false [Loc None "+1"]
     "Invalid coldstakingaddress." true
     ["Érvénytelen coldstakingaddress."];
   Message false [Loc None "+1"]
     "Invalid input key." true
     ["Érvénytelen bemeneti kulcs."];
   Message false [Loc None "+1"]
     "Invalid key." true
     ["Érvénytelen kulcs."];
   Message false [Loc None "+1"]
     "Invalid netmask specified in -whitelist: &apos;%s&apos;" true
     ["Érvénytelen hálózati maszk van megadva-whitelist: &apos;% s &apos;"];
   Message false [Loc None "+1"]
     "Invalid rewardaddress." true
     ["Érvénytelen rewardaddress."];
   Message false [Loc None "+1"]
     "Keypool ran out, please call keypoolrefill first" true
     ["Keypool kifogyott, kérjük, hívja keypoolrefill első"];
   Message false [Loc None "+1"]
     "Loading P2P addresses..." true
     ["Betöltése P2P címek..."]].

Definition hu_bitcoin_core_5 : list message :=
  [Message false [Loc None "+1"]
     "Loading address book for %s.
" true
     ["% S címkönyvének betöltése."];
   Message false [Loc None "+1"]
     "Loading banlist..." true
     ["Banlista betöltése..."];
   Message false [Loc None "+1"]
     "Loading block index..." true
     ["Blokkindex betöltése..."];
   Message false [Loc None "+1"]
     "Loading transaction records for %s.
" true
     ["% S tranzakciórekordjainak betöltése."];
   Message false [Loc None "+1"]
     "Loading wallet..." true
     ["Mobiltárca betöltése..."];
   Message false [Loc None "+1"]
     "Minimum time in seconds between successful stakes (default: 0)" true
     ["A sikeres fogadások közötti minimális idő másodpercben (alapértelmezett: 0)"];
   Message false [Loc None "+1"]
     "Must be json object." true
     ["Kell JSON objektumot."];
   Message false [Loc None "+1"]
     "Must have account to save keys." true
     ["Must volna számla-hoz megment kulcsok."];
   Message false [Loc None "+1"]
     "Must input a stealthaddress." true
     ["Kell adnia egy stealthaddress."];
   Message false [Loc None "+1"]
     "Need a parameter to change." true
     ["Módosítani kell egy paramétert."];
   Message false [Loc None "+1"]
     "Need to specify a port with -whitebind: &apos;%s&apos;" true
     ["Portot kell megadnia-whitebind: &apos;% s &apos;"];
   Message false [Loc None "+1"]
     "New state must be bool." true
     ["Új állam kell bool."];
   Message false [Loc None "+1"]
     "NewExtKeyFromAccount failed, %s." true
     ["A NewExtKeyFromAccount sikertelen,% s."];
   Message false [Loc None "+1"]
     "NewExtKeyFromAccount failed." true
     ["A NewExtKeyFromAccount sikertelen."];
   Message false [Loc None "+1"]
     "NewStealthKeyV2FromAccount failed." true
     ["NewStealthKeyV2FromAccount sikertelen."];
   Message false [Loc None "+1"]
     "No default account set." true
     ["Nincs alapértelmezett fiókkészlet."];
   Message false [Loc None "+1"]
     "No key for anonoutput, %s" true
     ["Nincs kulcs anonoutput számára,% s"];
   Message false [Loc None "+1"]
     "Not anon output %s %d" true
     ["Nem a névtelen szerző kimenete (% s% d)"];
   Message false [Loc None "+1"]
     "Not enough file descriptors available." true
     ["Nem áll rendelkezésre elegendő fájlleíró."];
   Message false [Loc None "+1"]
     "Num inputs per signature out of range" true
     ["Egy-egy bemenet az aláírásonként a tartományon kívül"];
   Message false [Loc None "+1"]
     "Number of keys to load into the lookahead pool per chain. (default: %u)" true
     ["Azoknak a kulcsnak a száma, amelyek a lookahead készletbe kerülnek egy lánccal. (alapértelmezett:% u)"];
   Message false [Loc None "+1"]
     "Only able to send to stealth address." true
     ["Egyetlen képes-hoz küld-hoz lopva cím."];
   Message false [Loc None "+1"]
     "OpIsCoinstake is not active yet." true
     ["Az OpIsCoinstake még nem aktív."];
   Message false [Loc None "+1"]
     "Output isn&apos;t standard." true
     ["A kimenet nem szabványos."];
   Message false [Loc None "+1"]
     "PrepareTransaction for device failed: %s" true
     ["A PrepareTransaction nem sikerült:% s"];
   Message false [Loc None "+1"]
     "ProduceSignature from device failed: %s" true
     ["Az eszközből származó ProduceSignature sikertelen:% s"];
   Message false [Loc None "+1"]
     "Prune cannot be configured with a negative value." true
     ["A Prune nem konfigurálható negatív értékkel."];
   Message false [Loc None "+1"]
     "Prune mode is incompatible with -txindex." true
     ["A Prune üzemmód nem kompatibilis a-txindex móddal."];
   Message false [Loc None "+1"]
     "Pruning blockstore..." true
     ["A blotár metszése..."]].

Definition hu_bitcoin_core_6 : list message :=
  [Message false [Loc None "+1"]
     "ReadStoredTx failed for %s" true
     ["A ReadStoredTx nem sikerült (% s)"];
   Message false [Loc None "+1"]
     "Reducing -maxconnections from %d to %d, because of system limitations." true
     ["A-MaxConnections tulajdonság csökkentése% d és% d között a rendszerkorlátozások miatt."];
   Message false [Loc None "+1"]
     "Replaying blocks..." true
     ["Replaying blokkok..."];
   Message false [Loc None "+1"]
     "Rescanning..." true
     ["Rescanning..."];
   Message false [Loc None "+1"]
     "Rewinding blocks..." true
     ["Felhúzás blokkok..."];
   Message false [Loc None "+1"]
     "Ring size out of range [%d, %d]" true
     ["A gyűrűméret a tartományon kívül [% d,% d]"];
   Message false [Loc None "+1"]
     "Ring size out of range" true
     ["A gyűrűméret az adott tartományon kívül van"];
   Message false [Loc None "+1"]
     "Scan secret is not 32 bytes." true
     ["Átkutat titok van nem 32 byte."];
   Message false [Loc None "+1"]
     "SetSetting failed." true
     ["A SetSetting sikertelen."];
   Message false [Loc None "+1"]
     "Signing transaction failed" true
     ["Sikertelen aláírási tranzakció"];
   Message false [Loc None "+1"]
     "Specified -walletdir &quot;%s&quot; does not exist" true
     ["Megadott-a walletdir &quot;% s&quot; nem létezik"];
   Message false [Loc None "+1"]
     "Specified -walletdir &quot;%s&quot; is a relative path" true
     ["Megadott-a walletdir &quot;% s&quot; relatív elérési út"];
   Message false [Loc None "+1"]
     "Specified -walletdir &quot;%s&quot; is not a directory" true
     ["Megadott-a walletdir &quot;% s&quot; nem könyvtár"];
   Message false [Loc None "+1"]
     "Specified blocks directory &quot;%s&quot; does not exist." true
     ["A megadott blokkkönyvtár (&quot;% s&quot;) nem létezik."];
   Message false [Loc None "+1"]
     "Spend secret is not 32 bytes." true
     ["Töltsön titok nem 32 bájt."];
   Message false [Loc None "+1"]
     "Spend secret must be different to scan secret." true
     ["Kiad titok kell lenni különböző-hoz átkutat titok."];
   Message false [Loc None "+1"]
     "Stake your coins to support network and gain reward (default: true)" true
     ["Tét az érmék támogatására hálózat-és nyereség jutalom (alapértelmezett: true)"];
   Message false [Loc None "+1"]
     "Starting network threads..." true
     ["Hálózatszálak indítása..."];
   Message false [Loc None "+1"]
     "StealthSecret failed, try again." true
     ["StealthSecret sikertelen, próbálja újra."];
   Message false [Loc None "+1"]
     "The source code is available from %s." true
     ["A forráskód (% s) elérhető a forráskódban."];
   Message false [Loc None "+1"]
     "The transaction amount is too small to pay the fee" true
     ["A tranzakció összege túl kicsi ahhoz, hogy kifizesse a díjat"];
   Message false [Loc None "+1"]
     "The wallet will avoid paying less than the minimum relay fee." true
     ["A tárca akarat elkerül kátrányozás kevésbé mint a minimális Relay illetmény."];
   Message false [Loc None "+1"]
     "This is experimental software." true
     ["Ez egy kísérleti szoftver."];
   Message false [Loc None "+1"]
     "This is the minimum transaction fee you pay on every transaction." true
     ["Ez az a minimális tranzakciós díj, amit minden tranzakción fizetnie kell."];
   Message false [Loc None "+1"]
     "This is the transaction fee you will pay if you send a transaction." true
     ["Ez az a tranzakciós díj, amelyet akkor fizet, ha tranzakciót küldünk."];
   Message false [Loc None "+1"]
     "Transaction amount too small" true
     ["Túl kicsi a tranzakcióösszeg"];
   Message false [Loc None "+1"]
     "Transaction amounts must not be negative" true
     ["A tranzakciós összegek nem lehetnek negatívak."];
   Message false [Loc None "+1"]
     "Transaction amounts must not be negative." true
     ["A tranzakciós összegek nem lehetnek negatívak."];
   Message false [Loc None "+1"]
     "Transaction fee and change calculation failed" true
     ["Tranzakciós díj és a változás számítása nem sikerült."];
   Message false [Loc None "+1"]
     "Transaction fee and change calculation failed." true
     ["A tranzakciós díj és a változás számítása nem sikerült."]].

Definition hu_bitcoin_core_7 : list message :=
  [Message false [Loc None "+1"]
     "Transaction has too long of a mempool chain" true
     ["A tranzakció túl hosszú a mempool láncból"];
   Message false [Loc None "+1"]
     "Transaction must have at least one recipient" true
     ["A tranzakciónak legalább egy címzettet kell tartalmaznia"];
   Message false [Loc None "+1"]
     "Transaction must have at least one recipient." true
     ["A tranzakciónak legalább egy címzettnek kell lennie."];
   Message false [Loc None "+1"]
     "Transaction too large for fee policy" true
     ["Túl nagy a tranzakció a díjházirendhez"];
   Message false [Loc None "+1"]
     "Transaction too large for fee policy." true
     ["A tranzakció túl nagy a díjházirendhez."];
   Message false [Loc None "+1"]
     "Transaction too large" true
     ["Túl nagy a tranzakció"];
   Message false [Loc None "+1"]
     "TxnBegin failed." true
     ["A TxnBegin nem sikerült."];
   Message false [Loc None "+1"]
     "Unable to bind to %s on this computer (bind returned error %s)" true
     ["Nem lehet kötést létrehozni a (z)% s számára ezen a számítógépen (a kötés a következő hibával tért vissza% s)"];
   Message false [Loc None "+1"]
     "Unable to bind to %s on this computer. %s is probably already running." true
     ["A számítógépen nem lehet% s-hoz kötést kötni. a (z)% s valószínűleg már fut."];
   Message false [Loc None "+1"]
     "Unable to generate initial keys" true
     ["Nem lehet kezdőkulcsokat létrehozni"];
   Message false [Loc None "+1"]
     "Unable to generate keys" true
     ["Nem sikerült generálni a kulcsokat"];
   Message false [Loc None "+1"]
     "Unable to start HTTP server. See debug log for details." true
     ["Nem lehet elindítani a HTTP-kiszolgálót. A részletekért lásd a hibakeresési naplót."];
   Message false [Loc None "+1"]
     "Unknown account." true
     ["Ismeretlen-fiók."];
   Message false [Loc None "+1"]
     "Unknown action, must be one of &apos;add/edit/del&apos;." true
     ["Az ismeretlen művelet a &quot;Hozzáadás/szerkesztés/del&quot; egyike kell, hogy legyen."];
   Message false [Loc None "+1"]
     "Unknown argument for 256bithash: %s." true
     ["Ismeretlen argumentum 256bithash-hez:% s."];
   Message false [Loc None "+1"]
     "Unknown argument for add_to_addressbook: %s." true
     ["Ismeretlen argumentum a add_to_addressbook:% s."];
   Message false [Loc None "+1"]
     "Unknown chain." true
     ["Ismeretlen láncolat."];
   Message false [Loc None "+1"]
     "Unknown input key version." true
     ["Ismeretlen bemeneti kulcsverzió."];
   Message false [Loc None "+1"]
     "Unknown network specified in -onlynet: &apos;%s&apos;" true
     ["Ismeretlen a (z)-onlynet-ben megadott hálózat: &apos;% s &apos;"];
   Message false [Loc None "+1"]
     "Unknown setting" true
     ["Ismeretlen beállítás"];
   Message false [Loc None "+1"]
     "Unsupported argument -benchmark ignored, use -debug=bench." true
     ["Nem támogatott argumentum-benchmark figyelmen kívül hagyva, use-debug = pad."];
   Message false [Loc None "+1"]
     "Unsupported argument -debugnet ignored, use -debug=net." true
     ["Nem támogatott argumentum-debugnet figyelmen kívül hagyva, use-debug = net."];
   Message false [Loc None "+1"]
     "Unsupported argument -debugnet ignored, use -debug=smsg." true
     ["Nem támogatott argumentum-debugnet mellőzve, használat-debug = SMSG."];
   Message false [Loc None "+1"]
     "Unsupported argument -tor found, use -onion." true
     ["Nem támogatott argumentum-leíró található, használja-hagyma."];
   Message false [Loc None "+1"]
     "Unsupported logging category %s=%s." true
     ["Nem támogatott naplózási kategória-% s =% s."];
   Message false [Loc None "+1"]
     "Upgrading txindex database" true
     ["Txindex adatbázis frissítése"];
   Message false [Loc None "+1"]
     "User Agent comment (%s) contains unsafe characters." true
     ["A felhasználói ügynök megjegyzésem (% s) nem biztonságos karaktereket tartalmaz."];
   Message false [Loc None "+1"]
     "Verifying blocks..." true
     ["Blokkok ellenőrzése..."];
   Message false [Loc None "+1"]
     "Verifying wallet(s)..." true
     ["A mobiltárca (ok) ellenőrzése..."];
   Message false [Loc None "+1"]
     "Wallet %s resides outside wallet directory %s" true
     ["A (z)% s mobiltárca a mobiltárca% s könyvtárán kívül található"]].

Definition hu_bitcoin_core_8 : list message :=
  [Message false [Loc None "+1"]
     "Wallet has no active master key." true
     ["A mobiltárca nem rendelkezik aktív főkulccsal."];
   Message false [Loc None "+1"]
     "Wallet must be unlocked." true
     ["A pénztárcát fel kell oldani."];
   Message false [Loc None "+1"]
     "Wallet must have a default account set." true
     ["A mobiltárca alapértelmezett fiókkészletet kell, hogy legyen."];
   Message false [Loc None "+1"]
     "Wallet needed to be rewritten: restart %s to complete" true
     ["A mobiltárca újraírásához szükséges: indítsa újra a (z)% s programot."];
   Message false [Loc None "+1"]
     "Warning" true
     ["Figyelmeztetés"];
   Message false [Loc None "+1"]
     "Warning: unknown new rules activated (versionbit %i)" true
     ["Figyelmeztetés: ismeretlen új szabályok aktiválva (versionbit% i)"];
   Message false [Loc None "+1"]
     "You need to rebuild the database using -reindex to change -addressindex" true
     ["Meg kell újjáépíteni az adatbázis-reindex változtatni-addressindex"];
   Message false [Loc None "+1"]
     "You need to rebuild the database using -reindex to change -spentindex" true
     ["Meg kell újjáépíteni az adatbázis-reindex változás-spentindex"];
   Message false [Loc None "+1"]
     "Zapping all transactions from wallet..." true
     ["A Pénztárcából érkező összes tranzakció Zapping..."];
   Message false [Loc None "+1"]
     "accounts missing." true
     ["hiányzik a fiókunk."];
   Message false [Loc None "+1"]
     "accounts must be an array." true
     ["a fiókoknak tömbnek kell lenniük."];
   Message false [Loc None "+1"]
     "add_to_addressbook can&apos;t be set without save" true
     ["add_to_addressbook nem lehet beállítani mentés nélkül"];
   Message false [Loc None "+1"]
     "address_standard must be a string." true
     ["a address_standard karakterláncnak kell lennie."];
   Message false [Loc None "+1"]
     "bad childNo." true
     ["rossz childNo."];
   Message false [Loc None "+1"]
     "bech32 encode failed." true
     ["bech32 kódolás nem sikerült."];
   Message false [Loc None "+1"]
     "coldstakingaddress can&apos;t be a stealthaddress." true
     ["coldstakingaddress vidám &apos; lenni stealthaddress."];
   Message false [Loc None "+1"]
     "coldstakingaddress must be a string." true
     ["coldstakingaddress kell egy string."];
   Message false [Loc None "+1"]
     "extkey must have private key to derive hardened keys." true
     ["az extkey-nek a megkeményített kulcsok származtatása érdekében saját kulccsal kell rendelkeznie."];
   Message false [Loc None "+1"]
     "foundationdonationpercent must be a number." true
     ["foundationdonationpercent kell egy számot."];
   Message false [Loc None "+1"]
     "height must be a number." true
     ["a magasságnak számnak kell lennie."];
   Message false [Loc None "+1"]
     "loose_extkeys missing." true
     ["loose_extkeys hiányzik."];
   Message false [Loc None "+1"]
     "loose_extkeys must be an array." true
     ["loose_extkeys kell egy tömb."];
   Message false [Loc None "+1"]
     "num_derives to int failed." true
     ["num_derives-hoz int megbukik."];
   Message false [Loc None "+1"]
     "num_derives_h to int failed." true
     ["num_derives_h-hoz int megbukik."];
   Message false [Loc None "+1"]
     "num_prefix_bits invalid number." true
     ["num_prefix_bits érvénytelen szám."];
   Message false [Loc None "+1"]
     "num_prefix_bits must be &lt;= 32." true
     ["num_prefix_bits kell&lt;= 32.&gt;&lt;/= 32.&gt;"];
   Message false [Loc None "+1"]
     "rewardaddress must be a string." true
     ["a rewardaddress karakterláncnak kell lennie."];
   Message false [Loc None "+1"]
     "secp256k1_generate_mlsag failed %d" true
     ["secp256k1_generate_mlsag sikertelen% d"];
   Message false [Loc None "+1"]
     "secp256k1_get_keyimage failed %d" true
     ["secp256k1_get_keyimage sikertelen% d"];
   Message false [Loc None "+1"]
     "secp256k1_prepare_mlsag failed %d" true
     ["secp256k1_prepare_mlsag sikertelen% d"]].

Definition hu_bitcoin_core_9 : list message :=
  [Message false [Loc None "+1"]
     "stakecombinethreshold can&apos;t be negative." true
     ["stakecombinethreshold nem lehet negatív."];
   Message false [Loc None "+1"]
     "stakesplitthreshold can&apos;t be negative." true
     ["stakesplitthreshold nem lehet negatív."]].

(** The whole document. *)
Definition bitcoin_hu_HU : catalogue :=
  [Context "AddressBookPage" (hu_AddressBookPage_1 ++ hu_AddressBookPage_2);
   Context "AddressTableModel" (hu_AddressTableModel);
   Context "AskPassphraseDialog" (hu_AskPassphraseDialog_1 ++ hu_AskPassphraseDialog_2);
   Context "BanTableModel" (hu_BanTableModel);
   Context "BitcoinGUI" (hu_BitcoinGUI_1 ++ hu_BitcoinGUI_2 ++ hu_BitcoinGUI_3 ++ hu_BitcoinGUI_4);
   Context "CoinControlDialog" (hu_CoinControlDialog_1 ++ hu_CoinControlDialog_2);
   Context "EditAddressDialog" (hu_EditAddressDialog);
   Context "FreespaceChecker" (hu_FreespaceChecker);
   Context "HelpMessageDialog" (hu_HelpMessageDialog);
   Context "Intro" (hu_Intro);
   Context "MnemonicDialog" (hu_MnemonicDialog_1 ++ hu_MnemonicDialog_2);
   Context "ModalOverlay" (hu_ModalOverlay);
   Context "OpenURIDialog" (hu_OpenURIDialog);
   Context "OptionsDialog" (hu_OptionsDialog_1 ++ hu_OptionsDialog_2 ++ hu_OptionsDialog_3);
   Context "OverviewPage" (hu_OverviewPage);
   Context "PaymentServer" (hu_PaymentServer);
   Context "PeerTableModel" (hu_PeerTableModel);
   Context "QObject" (hu_QObject);
   Context "QObject::QObject" (hu_QObject__QObject);
   Context "QRImageWidget" (hu_QRImageWidget);
   Context "RPCConsole" (hu_RPCConsole_1 ++ hu_RPCConsole_2 ++ hu_RPCConsole_3);
   Context "ReceiveCoinsDialog" (hu_ReceiveCoinsDialog);
   Context "ReceiveRequestDialog" (hu_ReceiveRequestDialog);
   Context "RecentRequestsTableModel" (hu_RecentRequestsTableModel);
   Context "SendCoinsDialog" (hu_SendCoinsDialog_1 ++ hu_SendCoinsDialog_2 ++ hu_SendCoinsDialog_3);
   Context "SendCoinsEntry" (hu_SendCoinsEntry_1 ++ hu_SendCoinsEntry_2);
   Context "SendConfirmationDialog" (hu_SendConfirmationDialog);
   Context "ShutdownWindow" (hu_ShutdownWindow);
   Context "SignVerifyMessageDialog" (hu_SignVerifyMessageDialog_1 ++ hu_SignVerifyMessageDialog_2);
   Context "SplashScreen" (hu_SplashScreen);
   Context "StakingDialog" (hu_StakingDialog_1 ++ hu_StakingDialog_2);
   Context "TrafficGraphWidget" (hu_TrafficGraphWidget);
   Context "TransactionDesc" (hu_TransactionDesc_1 ++ hu_TransactionDesc_2);
   Context "TransactionDescDialog" (hu_TransactionDescDialog);
   Context "TransactionTableModel" (hu_TransactionTableModel_1 ++ hu_TransactionTableModel_2);
   Context "TransactionView" (hu_TransactionView_1 ++ hu_TransactionView_2);
   Context "TxViewDelegate" (hu_TxViewDelegate);
   Context "UnitDisplayStatusBarControl" (hu_UnitDisplayStatusBarControl);
   Context "WalletFrame" (hu_WalletFrame);
   Context "WalletModel" (hu_WalletModel);
   Context "WalletView" (hu_WalletView);
   Context "bitcoin-core" (hu_bitcoin_core_1 ++ hu_bitcoin_core_2 ++ hu_bitcoin_core_3 ++ hu_bitcoin_core_4 ++ hu_bitcoin_core_5 ++ hu_bitcoin_core_6 ++ hu_bitcoin_core_7 ++ hu_bitcoin_core_8 ++ hu_bitcoin_core_9)].
