(* ===== verification/CatalogueIt.v ===== *)
(** The Italian catalogue, [src/src/qt/locale/bitcoin_it_IT.ts], context by context; a long
    context is cut into parts.  Texts are as in the file. *)
From S2P Require Import Prelude Locale.
Open Scope txt_scope.
Open Scope list_scope.

Definition it_AddressBookPage_1 : list message :=
  [Message false [Loc (Some "../forms/addressbookpage.ui") "+27"]
     "Enter address or label to search" true
     ["Immettere l&apos;indirizzo o l&apos;etichetta da cercare"];
   Message false [Loc None "+10"]
     "Right-click to edit address or label" true
     ["Fare clic con il pulsante destro del mouse per modificare l&apos;indirizzo o l&apos;etichetta"];
   Message false [Loc None "+30"; Loc None "+17"; Loc None "+17"]
     "Create a new address" true
     ["Creare un nuovo indirizzo"];
   Message false [Loc None "-31"]
     "&amp;New" true
     ["&amp;Nuovo"];
   Message false [Loc None "+17"]
     "&amp;New Stake address" true
     ["&amp;Nuovo indirizzo di puntata"];
   Message false [Loc None "+17"]
     "&amp;New ColdStake address" true
     ["&amp;Nuovo indirizzo ColdStake"];
   Message false [Loc None "+14"]
     "Copy the currently selected address to the system clipboard" true
     ["Copiare l&apos;indirizzo attualmente selezionato negli Appunti di sistema"];
   Message false [Loc None "+3"]
     "&amp;Copy" true
     ["&amp;Copia"];
   Message false [Loc None "+14"]
     "Delete the currently selected address from the list" true
     ["Eliminare l&apos;indirizzo attualmente selezionato dall&apos;elenco"];
   Message false [Loc None "+3"]
     "&amp;Delete" true
     ["&amp;Elimina"];
   Message false [Loc None "+27"]
     "Export the data in the current tab to a file" true
     ["Esportare i dati nella scheda corrente in un file"];
   Message false [Loc None "+3"]
     "&amp;Export" true
     ["&amp;Esporta"];
   Message false [Loc None "+20"]
     "C&amp;lose" true
     ["C&amp;amp;lose"];
   Message false [Loc (Some "../addressbookpage.cpp") "+84"]
     "These are your Bitcoin Confidential addresses for sending payments. Always check the amount and the receiving address before sending coins." true
     ["Questi sono i tuoi indirizzi Bitcoin Confidential per l&apos;invio di pagamenti. Controllare sempre l&apos;importo e l&apos;indirizzo di ricezione prima di inviare monete."];
   Message false [Loc None "+8"]
     "Choose the address to send coins to" true
     ["Scegliere l&apos;indirizzo a cui inviare le monete"];
   Message false [Loc None "+4"; Loc None "+22"; Loc None "+28"]
     "C&amp;hoose" true
     ["C&amp;hoose"];
   Message false [Loc None "-44"]
     "Sending addresses" true
     ["Invio di indirizzi"];
   Message false [Loc None "+12"]
     "Choose the address to receive coins with" true
     ["Scegli l&apos;indirizzo per ricevere monete con"];
   Message false [Loc None "+10"]
     "Receiving addresses" true
     ["Indirizzi di ricezione"];
   Message false [Loc None "+1"]
     "These are your Bitcoin Confidential addresses for receiving payments. It is recommended to use a new receiving address for each transaction." true
     ["Questi sono i tuoi indirizzi Bitcoin Confidential per ricevere i pagamenti. Si consiglia di utilizzare un nuovo indirizzo di ricezione per ogni transazione."];
   Message false [Loc None "+13"]
     "Choose the Stake or ColdStake address" true
     ["Scegli l&apos;indirizzo Palo o ColdStake"];
   Message false [Loc None "+1"]
     "These are your Bitcoin Confidential Stake and ColdStake addresses." true
     ["Questi sono i tuoi indirizzi Di stake e ColdStake riservati Bitcoin."];
   Message false [Loc None "+16"]
     "Stake and ColdStake addresses" true
     ["Indirizzi di Palo e ColdStake"];
   Message false [Loc None "+1"]
     "These addresses cannot be used to receive coins from outside the wallet, such as payments or from exchanges.  Use the Receive tab to generate spending addresses.

Stake addresses, starting with &quot;%1&quot;, are used to convert spending funds into staking funds in the &quot;Convert to Staking&quot; tab. Funds in Stake addresses can be either used for hot staking or the activation of ColdStaking.

ColdStake addresses, starting with &quot;%2&quot;, are used to manually activate staking funds for ColdStaking. There is no need to generate ColdStake addresses when the automated ColdStaking activation from the Staking Status page is used." true
     ["Questi indirizzi non possono essere utilizzati per ricevere monete dall&apos;esterno del portafoglio, come i pagamenti o dagli scambi.  Utilizzare la scheda Ricevi per generare indirizzi di spesa.

Gli indirizzi delle puntate, a partire da &quot;%1&quot;, vengono utilizzati per convertire i fondi di spesa in fondi di puntata nella scheda &quot;Converti in puntata&quot;.

Gli indirizzi ColdStake, a partire da &quot;%2&quot;, vengono utilizzati per attivare manualmente i fondi di puntata per ColdStaking. Non è necessario generare indirizzi ColdStake quando viene utilizzata l&apos;attivazione automatica di ColdStaking dalla pagina Stato staking."];
   Message false [Loc None "+11"]
     "&amp;Copy Address" true
     ["&amp;Copia indirizzo"];
   Message false [Loc None "+1"]
     "Copy &amp;Label" true
     ["Copia &amp;gt; Etichetta"];
   Message false [Loc None "+1"]
     "&amp;Edit" true
     ["&amp;Modifica"]].

Definition it_AddressBookPage_2 : list message :=
  [Message false [Loc None "+186"]
     "Export Address List" true
     ["Esporta elenco indirizzi"];
   Message false [Loc None "+1"]
     "Comma separated file (*.csv)" true
     ["File separato da virgole (con estensione csv)"];
   Message false [Loc None "+13"]
     "Exporting Failed" true
     ["Esportazione non riuscita"];
   Message false [Loc None "+1"]
     "There was an error trying to save the address list to %1. Please try again." true
     ["Si è verificato un errore durante il tentativo di salvare l&apos;elenco di indirizzi in %1. Riprovare."]].

Definition it_AddressTableModel : list message :=
  [Message false [Loc (Some "../addresstablemodel.cpp") "+188"]
     "Label" true
     ["etichetta"];
   Message false [Loc None "+0"]
     "Address" true
     ["indirizzo"];
   Message false [Loc None "+36"]
     "(no label)" true
     ["(nessuna etichetta)"]].

Definition it_AskPassphraseDialog_1 : list message :=
  [Message false [Loc (Some "../forms/askpassphrasedialog.ui") "+26"]
     "Passphrase Dialog" true
     ["Finestra di dialogo Passphrase"];
   Message false [Loc None "+30"]
     "Enter passphrase" true
     ["Inserisci passphrase"];
   Message false [Loc None "+14"]
     "New passphrase" true
     ["Nuova passphrase"];
   Message false [Loc None "+14"]
     "Repeat new passphrase" true
     ["Ripeti nuova passphrase"];
   Message false [Loc None "+14"]
     "Show password" true
     ["Mostra password"];
   Message false [Loc None "+23"]
     "Unlock For Staking Only" true
     ["Sblocca solo per staking"];
   Message false [Loc (Some "../askpassphrasedialog.cpp") "+48"]
     "Enter the new passphrase to the wallet.&lt;br/&gt;Please use a passphrase of &lt;b&gt;ten or more random characters&lt;/b&gt;, or &lt;b&gt;eight or more words&lt;/b&gt;." true
     ["Immettere la nuova passphrase al portafoglio.&lt;br&gt;Si prega di utilizzare una passphrase di &lt;b&gt;dieci o più caratteri casuali&lt;/b&gt;o otto o più &lt;b&gt;parole&lt;/b&gt;."];
   Message false [Loc None "+3"]
     "Encrypt wallet" true
     ["Crittografare il portafoglio"];
   Message false [Loc None "+3"; Loc None "+8"]
     "This operation needs your wallet passphrase to unlock the wallet." true
     ["Questa operazione richiede la passphrase del portafoglio per sbloccare il portafoglio."];
   Message false [Loc None "-3"; Loc None "+9"]
     "Unlock wallet" true
     ["Sblocca il portafoglio"];
   Message false [Loc None "+3"]
     "This operation needs your wallet passphrase to decrypt the wallet." true
     ["Questa operazione richiede la passphrase portafoglio per decifrare il portafoglio."];
   Message false [Loc None "+5"]
     "Decrypt wallet" true
     ["Decrittografa portafoglio"];
   Message false [Loc None "+3"]
     "Change passphrase" true
     ["Modificare la passphrase"];
   Message false [Loc None "+1"]
     "Enter the old passphrase and new passphrase to the wallet." true
     ["Immettere la vecchia passphrase e la nuova passphrase nel portafoglio."];
   Message false [Loc None "+47"]
     "Confirm wallet encryption" true
     ["Confermare la crittografia del portafoglio"];
   Message false [Loc None "+1"]
     "Warning: If you encrypt your wallet and lose your passphrase, you will &lt;b&gt;LOSE ALL OF YOUR BITCOIN CONFIDENTIAL&lt;/b&gt;!" true
     ["Attenzione: Se si crittografa il portafoglio e si perde la passphrase, si &lt;b&gt;SARÀ LOSE TUTTI DEL VOSTRO BITCOIN&lt;/b&gt;CONFIDENTIAL!"];
   Message false [Loc None "+0"]
     "Are you sure you wish to encrypt your wallet?" true
     ["Sei sicuro di voler crittografare il tuo portafoglio?"];
   Message false [Loc None "+9"; Loc None "+59"]
     "Wallet encrypted" true
     ["Portafoglio criptato"];
   Message false [Loc None "-57"]
     "%1 will close now to finish the encryption process. Remember that encrypting your wallet cannot fully protect your Bitcoin Confidential from being stolen by malware infecting your computer." true
     ["%1 si chiuderà ora per completare il processo di crittografia. Ricorda che la crittografia del portafoglio non può proteggere completamente il tuo Bitcoin Confidential da essere rubato da malware che infetta il tuo computer."];
   Message false [Loc None "+4"]
     "IMPORTANT: Any previous backups you have made of your wallet file should be replaced with the newly generated, encrypted wallet file. For security reasons, previous backups of the unencrypted wallet file will become useless as soon as you start using the new, encrypted wallet." true
     ["IMPORTANTE: Qualsiasi backup precedente che hai fatto del tuo file portafoglio deve essere sostituito con il nuovo file portafoglio crittografato. Per motivi di sicurezza, i backup precedenti del file portafoglio non crittografato diventerà inutile non appena si inizia a utilizzare il nuovo portafoglio crittografato."];
   Message false [Loc None "+9"; Loc None "+7"; Loc None "+43"; Loc None "+6"]
     "Wallet encryption failed" true
     ["Crittografia portafoglio non riuscita"];
   Message false [Loc None "-55"]
     "Wallet encryption failed due to an internal error. Your wallet was not encrypted." true
     ["Crittografia portafoglio non riuscita a causa di un errore interno. Il tuo portafoglio non era criptato."];
   Message false [Loc None "+7"; Loc None "+49"]
     "The supplied passphrases do not match." true
     ["Le passphrase fornite non corrispondono."];
   Message false [Loc None "-37"]
     "Wallet unlock failed" true
     ["Blocco portafoglio non riuscito"];
   Message false [Loc None "+1"; Loc None "+11"; Loc None "+19"]
     "The passphrase entered for the wallet decryption was incorrect." true
     ["La passphrase immessa per la decrittografia del portafoglio non è corretta."];
   Message false [Loc None "-20"]
     "Wallet decryption failed" true
     ["Decrittografia portafoglio non riuscita"];
   Message false [Loc None "+14"]
     "Wallet passphrase was successfully changed." true
     ["La passphrase del portafoglio è stata modificata correttamente."]].

Definition it_AskPassphraseDialog_2 : list message :=
  [Message false [Loc None "+48"; Loc None "+33"]
     "Warning: The Caps Lock key is on!" true
     ["Attenzione: il tasto BLOC MAIUSC è acceso!"]].

Definition it_BanTableModel : list message :=
  [Message false [Loc (Some "../bantablemodel.cpp") "+88"]
     "IP/Netmask" true
     ["Maschera di rete/IP"];
   Message false [Loc None "+0"]
     "Banned Until" true
     ["Banned Fino a quando"]].

Definition it_BitcoinGUI_1 : list message :=
  [Message false [Loc (Some "../bitcoingui.cpp") "+94"]
     "Wallet" true
     ["portafoglio"];
   Message false [Loc None "+2"]
     "Node" true
     ["nodo"];
   Message false [Loc None "+169"]
     "Overview" true
     ["visione f d&apos;insieme"];
   Message false [Loc None "+1"]
     "Show general overview of wallet" true
     ["Mostra panoramica generale del portafoglio"];
   Message false [Loc None "+7"]
     "Send" true
     ["Invia"];
   Message false [Loc None "+1"]
     "Send coins to a Bitcoin Confidential Spending address" true
     ["Inviare monete a un indirizzo di spesa riservata Bitcoin"];
   Message false [Loc None "+11"]
     "Receive" true
     ["ricevere"];
   Message false [Loc None "+1"]
     "Request payments (generates Spending address QR codes and bitcoinc: URIs)" true
     ["Richiedi pagamenti (genera codici QR indirizzo di spesa e bitcoinc: URI)"];
   Message false [Loc None "+11"]
     "Transactions" true
     ["Transazioni"];
   Message false [Loc None "+1"]
     "Browse transaction history" true
     ["Sfoglia la cronologia delle transazioni"];
   Message false [Loc None "+7"]
     "Staking" true
     ["Picchettamento"];
   Message false [Loc None "+1"]
     "Setup staking" true
     ["Scansione della configurazione"];
   Message false [Loc None "+25"]
     "E&amp;xit" true
     ["E&amp;xit"];
   Message false [Loc None "+1"]
     "Quit application" true
     ["Uscire dall&apos;applicazione"];
   Message false [Loc None "+3"]
     "&amp;About %1" true
     ["&amp;A proposito di %1"];
   Message false [Loc None "+1"]
     "Show information about %1" true
     ["Mostra informazioni su %1"];
   Message false [Loc None "+3"]
     "About &amp;Qt" true
     ["Informazioni su &amp;amp; Qt"];
   Message false [Loc None "+1"]
     "Show information about Qt" true
     ["Mostra informazioni su Qt"];
   Message false [Loc None "+2"]
     "&amp;Options..." true
     ["&amp;Opzioni..."];
   Message false [Loc None "+1"]
     "Modify configuration options for %1" true
     ["Modificare le opzioni di configurazione per %1"];
   Message false [Loc None "+3"]
     "&amp;Show / Hide" true
     ["&amp;Mostra/ Nascondi"];
   Message false [Loc None "+1"]
     "Show or hide the main Window" true
     ["Mostrare o nascondere la finestra principale"];
   Message false [Loc None "+2"]
     "&amp;Encrypt Wallet..." true
     ["&amp;Crittografa Portafoglio..."];
   Message false [Loc None "+1"]
     "Encrypt the private keys that belong to your wallet" true
     ["Crittografare le chiavi private che appartengono al portafoglio"];
   Message false [Loc None "+2"]
     "&amp;Backup Wallet..." true
     ["&amp;Backup Portafoglio..."];
   Message false [Loc None "+1"]
     "Backup wallet to another location" true
     ["Portafoglio di backup in un&apos;altra posizione"];
   Message false [Loc None "+1"]
     "&amp;Change Passphrase..." true
     ["&amp;Cambia passphrase..."];
   Message false [Loc None "+1"]
     "Change the passphrase used for wallet encryption" true
     ["Modificare la passphrase utilizzata per la crittografia portafoglio"];
   Message false [Loc None "+1"]
     "Sign &amp;message..." true
     ["Firma &amp;messaggio..."]].

Definition it_BitcoinGUI_2 : list message :=
  [Message false [Loc None "+1"]
     "Sign messages with your Bitcoin Confidential addresses to prove you own them" true
     ["Firma messaggi con i tuoi indirizzi Bitcoin Confidential per dimostrare che li possiedi"];
   Message false [Loc None "+1"]
     "&amp;Verify message..." true
     ["&amp;Verifica messaggio..."];
   Message false [Loc None "+1"]
     "Verify messages to ensure they were signed with specified Bitcoin Confidential addresses" true
     ["Verificare i messaggi per assicurarsi che siano stati firmati con gli indirizzi Bitcoin Confidential specificati"];
   Message false [Loc None "+2"]
     "&amp;Debug window" true
     ["&amp;Debug (finestra)"];
   Message false [Loc None "+1"]
     "Open debugging and diagnostic console" true
     ["Aprire il debug e la console di diagnostica"];
   Message false [Loc None "+4"]
     "&amp;Sending addresses..." true
     ["&amp;Indirizzi di invio..."];
   Message false [Loc None "+1"]
     "Show the list of used sending addresses and labels" true
     ["Visualizzare l&apos;elenco degli indirizzi di invio e delle etichette utilizzati"];
   Message false [Loc None "+1"]
     "&amp;Receiving addresses..." true
     ["&amp;Indirizzi di ricezione..."];
   Message false [Loc None "+1"]
     "Show the list of used receiving addresses and labels" true
     ["Visualizzare l&apos;elenco degli indirizzi e delle etichette di ricezione utilizzati"];
   Message false [Loc None "+2"]
     "Open &amp;URI..." true
     ["Apri &amp;uri..."];
   Message false [Loc None "+1"]
     "Open a bitcoinc: URI or payment request" true
     ["Aprire un bitcoinc: URI o richiesta di pagamento"];
   Message false [Loc None "+2"]
     "&amp;Command-line options" true
     ["&amp;Opzioni della riga di comando"];
   Message false [Loc None "+2"]
     "Show the %1 help message to get a list with possible Bitcoin Confidential command-line options" true
     ["Mostra il messaggio di aiuto %1 per ottenere un elenco con possibili opzioni della riga di comando Bitcoin Confidential"];
   Message false [Loc None "+2"]
     "&amp;HD Wallet..." true
     ["Portafoglio HD..."];
   Message false [Loc None "+45"]
     "&amp;File" true
     ["&amp;File"];
   Message false [Loc None "+16"]
     "&amp;Settings" true
     ["&amp;Menu &amp;GT;Impostazioni"];
   Message false [Loc None "+9"]
     "&amp;Help" true
     ["&amp;Aiuto"];
   Message false [Loc None "+15"]
     "Tabs toolbar" true
     ["Barra degli strumenti Schede"];
   Message false [Loc None "+113"]
     "default wallet" true
     ["portafoglio predefinito"];
   Message false [Loc None "+88"]
     "%1 client" true
     ["%1 client"];
   Message true [Loc None "+189"]
     "%n active connection(s) to Bitcoin Confidential network" true
     ["%n connessioni attive alla rete riservata Bitcoin"; "%n connessioni attive alla rete riservata Bitcoin"];
   Message false [Loc None "+0"]
     "Click to disable network activity." true
     ["Fare clic per disabilitare l&apos;attività di rete."];
   Message false [Loc None "+2"]
     "Network activity disabled." true
     ["Attività di rete disabilitata.Network activity disabled."];
   Message false [Loc None "+0"]
     "Click to enable network activity again." true
     ["Fare clic per abilitare nuovamente l&apos;attività di rete."];
   Message false [Loc None "+28"]
     "Syncing Headers (%1%)..." true
     ["Intestazioni di sincronizzazione (%1%)..."];
   Message false [Loc None "+26"]
     "Synchronizing with network..." true
     ["Sincronizzazione con la rete..."];
   Message false [Loc None "+5"]
     "Indexing blocks on disk..." true
     ["Blocchi di indicizzazione su disco in corso..."];
   Message false [Loc None "+2"]
     "Processing blocks on disk..." true
     ["Blocchi di elaborazione su disco in corso..."];
   Message false [Loc None "+4"]
     "Reindexing blocks on disk..." true
     ["Reindicizzazione dei blocchi su disco..."];
   Message false [Loc None "+6"]
     "Connecting to peers..." true
     ["Connessione ai peer in corso..."]].

Definition it_BitcoinGUI_3 : list message :=
  [Message true [Loc None "+9"]
     "Processed %n block(s) of transaction history." true
     ["Elaborati %n blocchi della cronologia delle transazioni."; "Elaborati %n blocchi della cronologia delle transazioni."];
   Message false [Loc None "+5"]
     "Up to date" true
     ["Aggiornato"];
   Message false [Loc None "+19"]
     "%1 behind" true
     ["%1 dietro"];
   Message false [Loc None "+5"]
     "Catching up..." true
     ["Recuperando..."];
   Message false [Loc None "+19"]
     "Last received block was generated %1 ago." true
     ["L&apos;ultimo blocco ricevuto è stato generato %1 fa."];
   Message false [Loc None "+2"]
     "Transactions after this will not yet be visible." true
     ["Le transazioni successive non saranno ancora visibili."];
   Message false [Loc None "+13"]
     "Bitcoin Confidential" true
     ["Bitcoin Confidentiale"];
   Message false [Loc None "+14"]
     "Error" true
     ["errore m"];
   Message false [Loc None "+3"]
     "Warning" true
     ["avviso"];
   Message false [Loc None "+3"]
     "Information" true
     ["informazioni"];
   Message false [Loc None "+116"]
     "Date: %1
" true
     ["Data: %1"];
   Message false [Loc None "+1"]
     "Amount: %1
" true
     ["Importo: %1"];
   Message false [Loc None "+2"]
     "Wallet: %1
" true
     ["Portafoglio: %1"];
   Message false [Loc None "+2"]
     "Type: %1
" true
     ["Tipo: %1"];
   Message false [Loc None "+2"]
     "Label: %1
" true
     ["Etichetta: %1"];
   Message false [Loc None "+2"]
     "Address: %1
" true
     ["Indirizzo: %1"];
   Message false [Loc None "+1"]
     "Sent transaction" true
     ["Transazione inviata"];
   Message false [Loc None "+0"]
     "Incoming transaction" true
     ["Transazione in entrata"];
   Message false [Loc None "+52"]
     "HD key generation is &lt;b&gt;enabled&lt;/b&gt;" true
     ["La generazione di chiavi HD è &lt;b&gt;abilitata&lt;/b&gt;"];
   Message false [Loc None "+0"]
     "HD key generation is &lt;b&gt;disabled&lt;/b&gt;" true
     ["La generazione di chiavi HD è &lt;b&gt;disabilitata&lt;/b&gt;"];
   Message false [Loc None "+13"]
     "Wallet is &lt;b&gt;not encrypted&lt;/b&gt;. Click the opened lock to encrypt it." true
     ["Portafoglio non è &lt;b&gt;crittografato&lt;/b&gt;. Fare clic sul blocco aperto per crittografarlo."];
   Message false [Loc None "+8"]
     "Wallet is &lt;b&gt;encrypted&lt;/b&gt; and currently &lt;b&gt;unlocked&lt;/b&gt;" true
     ["Portafoglio è &lt;b&gt;criptato&lt;/b&gt; e attualmente &lt;b&gt;sbloccato&lt;/b&gt;"];
   Message false [Loc None "+8"]
     "Wallet is &lt;b&gt;encrypted&lt;/b&gt; and currently &lt;b&gt;unlocked&lt;/b&gt; for staking only" true
     ["Portafoglio è &lt;b&gt;criptato&lt;/b&gt; e attualmente &lt;b&gt;sbloccato&lt;/b&gt; solo per la ricerca"];
   Message false [Loc None "+8"]
     "Wallet is &lt;b&gt;encrypted&lt;/b&gt; and currently &lt;b&gt;locked&lt;/b&gt;" true
     ["Portafoglio è &lt;b&gt;criptato&lt;/b&gt; e attualmente &lt;b&gt;bloccato&lt;/b&gt;"];
   Message false [Loc None "+58"]
     "Proxy is &lt;b&gt;enabled&lt;/b&gt;: %1" true
     ["Il proxy è &lt;b&gt;abilitato&lt;/b&gt;: %1"];
   Message false [Loc None "+28"]
     "Tor is &lt;b&gt;enabled&lt;/b&gt;" true
     ["Tor è &lt;b&gt;abilitato&lt;/b&gt;"];
   Message false [Loc None "+3"]
     "Tor is &lt;b&gt;enabled&lt;/b&gt;, but its not the only network used. Use only onlynet=onion." true
     ["Tor è &lt;b&gt;abilitato&lt;/b&gt;, ma non l&apos;unica rete utilizzata. Utilizzare onlynet-onion."];
   Message false [Loc None "+3"]
     "Tor is &lt;b&gt;disabled&lt;/b&gt;. To enhance your privacy setup consider using tor by setting &lt;b&gt;onlynet=onion&lt;/b&gt; in your &lt;b&gt;bitcoinc.conf&lt;/b&gt;." true
     ["Tor è &lt;b&gt;disabilitato&lt;/b&gt;. Per migliorare la tua configurazione della privacy prendi in considerazione l&apos;uso di tor impostando &lt;b&gt;onlynet-onion&lt;/b&gt; nel tuo &lt;b&gt;bitcoinc.conf&lt;/b&gt;."]].

Definition it_BitcoinGUI_4 : list message :=
  [Message false [Loc (Some "../bitcoin.cpp") "+528"]
     "A fatal error occurred. Bitcoin Confidential can no longer continue safely and will quit." true
     ["Si è verificato un errore irreversibile. Bitcoin Confidential non può più continuare in modo sicuro e si chiuderà."]].

Definition it_CoinControlDialog_1 : list message :=
  [Message false [Loc (Some "../forms/coincontroldialog.ui") "+14"]
     "Coin Selection" true
     ["Selezione di monete"];
   Message false [Loc None "+34"]
     "Quantity:" true
     ["quantità:"];
   Message false [Loc None "+29"]
     "Bytes:" true
     ["Byte:"];
   Message false [Loc None "+45"]
     "Amount:" true
     ["quantità:"];
   Message false [Loc None "+32"]
     "Dust:" true
     ["polvere:"];
   Message false [Loc None "+48"]
     "Fee:" true
     ["onorario:"];
   Message false [Loc None "+45"]
     "After Fee:" true
     ["Dopo la tassa:"];
   Message false [Loc None "+32"]
     "Change:" true
     ["cambiare:"];
   Message false [Loc None "+57"]
     "Standard" true
     ["scala di valori"];
   Message false [Loc None "+5"]
     "Anon" true
     ["Anon"];
   Message false [Loc None "+14"]
     "Show all" true
     ["Mostra tutto"];
   Message false [Loc None "+13"]
     "(un)select all" true
     ["(dedici)Selezionare tutti i"];
   Message false [Loc None "+16"]
     "Tree mode" true
     ["Modalità albero"];
   Message false [Loc None "+13"]
     "List mode" true
     ["Modalità elenco"];
   Message false [Loc None "+74"]
     "Amount" true
     ["quantità"];
   Message false [Loc None "+8"]
     "Received with label" true
     ["Ricevuto con etichetta"];
   Message false [Loc None "+5"]
     "Received with address" true
     ["Ricevuto con indirizzo"];
   Message false [Loc None "+5"]
     "Date" true
     ["data"];
   Message false [Loc None "+5"]
     "Confirmations" true
     ["Conferme"];
   Message false [Loc None "+3"]
     "Confirmed" true
     ["Confermato"];
   Message false [Loc (Some "../coincontroldialog.cpp") "+73"]
     "Copy address" true
     ["Copia indirizzo"];
   Message false [Loc None "+1"]
     "Copy label" true
     ["Copia etichetta"];
   Message false [Loc None "+1"; Loc None "+26"]
     "Copy amount" true
     ["Copia importo"];
   Message false [Loc None "-25"]
     "Copy transaction ID" true
     ["Copia ID transazione"];
   Message false [Loc None "+1"]
     "Lock unspent" true
     ["Blocco non speso"];
   Message false [Loc None "+1"]
     "Unlock unspent" true
     ["Sblocca non speso"];
   Message false [Loc None "+22"]
     "Copy quantity" true
     ["Copia quantità"];
   Message false [Loc None "+2"]
     "Copy fee" true
     ["Tassa di copia"];
   Message false [Loc None "+1"]
     "Copy after fee" true
     ["Copia dopo la tassa"]].

Definition it_CoinControlDialog_2 : list message :=
  [Message false [Loc None "+1"]
     "Copy bytes" true
     ["Copia byte"];
   Message false [Loc None "+1"]
     "Copy dust" true
     ["Copia polvere"];
   Message false [Loc None "+1"]
     "Copy change" true
     ["Copia modifica"];
   Message false [Loc None "+340"]
     "(%1 locked)" true
     ["(%1 bloccato)"];
   Message false [Loc None "+161"]
     "yes" true
     ["sì"];
   Message false [Loc None "+0"]
     "no" true
     ["No"];
   Message false [Loc None "+14"]
     "This label turns red if any recipient receives an amount smaller than the current dust threshold." true
     ["Questa etichetta diventa rossa se un destinatario riceve una quantità inferiore alla soglia di polvere corrente."];
   Message false [Loc None "+5"]
     "Can vary +/- %1 satoshi(s) per input." true
     ["Può variare il numero di satoshi %1 per input."];
   Message false [Loc None "+47"]
     "Hide immature" true
     ["Nascondi immaturo"];
   Message false [Loc None "+2"]
     "Hide locked" true
     ["Nascondi bloccato"];
   Message false [Loc None "+6"]
     "Show immature" true
     ["Mostra immaturo"];
   Message false [Loc None "+2"]
     "Show locked" true
     ["Mostra bloccato"];
   Message false [Loc None "+26"; Loc None "+66"; Loc None "+11"]
     "(no label)" true
     ["(nessuna etichetta)"];
   Message false [Loc None "-19"]
     "change from %1 (%2)" true
     ["variazione da %1 (%2)"];
   Message false [Loc None "+1"; Loc None "+20"]
     "(change)" true
     ["(Modificare)"];
   Message false [Loc None "-17"]
     "spending from %1 (%2)" true
     ["spesa da %1 (%2)"]].

Definition it_EditAddressDialog : list message :=
  [Message false [Loc (Some "../forms/editaddressdialog.ui") "+14"]
     "Edit Address" true
     ["Modifica indirizzo"];
   Message false [Loc None "+11"]
     "&amp;Label" true
     ["&amp;Etichetta"];
   Message false [Loc None "+10"]
     "The label associated with this address list entry" true
     ["L&apos;etichetta associata a questa voce dell&apos;elenco indirizzi"];
   Message false [Loc None "+7"]
     "&amp;Address" true
     ["&amp;Indirizzo"];
   Message false [Loc None "+10"]
     "The address associated with this address list entry. This can only be modified for sending addresses." true
     ["Indirizzo associato a questa voce dell&apos;elenco indirizzi. Questo può essere modificato solo per l&apos;invio di indirizzi."];
   Message false [Loc (Some "../editaddressdialog.cpp") "+29"]
     "New receiving address" true
     ["Nuovo indirizzo di ricezione"];
   Message false [Loc None "+5"]
     "New sending address" true
     ["Nuovo indirizzo di invio"];
   Message false [Loc None "+3"]
     "New Stake address" true
     ["Nuovo indirizzo di puntata"];
   Message false [Loc None "+5"]
     "New ColdStake address" true
     ["Nuovo indirizzo ColdStake"];
   Message false [Loc None "+5"]
     "Edit receiving address" true
     ["Modifica indirizzo ricevente"];
   Message false [Loc None "+4"]
     "Edit sending address" true
     ["Modifica indirizzo di invio"];
   Message false [Loc None "+87"]
     "The entered address &quot;%1&quot; is not a valid Bitcoin Confidential address." true
     ["L&apos;indirizzo inserito &quot;%1&quot; non è un indirizzo riservato Bitcoin valido."];
   Message false [Loc None "+10"]
     "Could not unlock wallet." true
     ["Impossibile sbloccare il portafoglio."];
   Message false [Loc None "+5"]
     "New key generation failed." true
     ["Generazione della nuova chiave non riuscita."];
   Message false [Loc None "+18"]
     "Address &quot;%1&quot; already exists as a receiving address with label &quot;%2&quot; and so cannot be added as a sending address." true
     ["L&apos;indirizzo &quot;%1&quot; esiste già come indirizzo di ricezione con etichetta &quot;%2&quot; e pertanto non può essere aggiunto come indirizzo di invio."];
   Message false [Loc None "+5"]
     "The entered address &quot;%1&quot; is already in the address book with label &quot;%2&quot;." true
     ["L&apos;indirizzo immesso &quot;%1&quot; è già presente nella rubrica con etichetta &quot;%2&quot;."]].

Definition it_FreespaceChecker : list message :=
  [Message false [Loc (Some "../intro.cpp") "+78"]
     "A new data directory will be created." true
     ["Verrà creata una nuova directory di dati."];
   Message false [Loc None "+22"]
     "name" true
     ["nome"];
   Message false [Loc None "+2"]
     "Directory already exists. Add %1 if you intend to create a new directory here." true
     ["Directory già esistente. Aggiungere %1 se si intende creare una nuova directory."];
   Message false [Loc None "+3"]
     "Path already exists, and is not a directory." true
     ["Percorso già esistente e non è una directory."];
   Message false [Loc None "+7"]
     "Cannot create data directory here." true
     ["Impossibile creare la directory dei dati qui."]].

Definition it_HelpMessageDialog : list message :=
  [Message false [Loc (Some "../utilitydialog.cpp") "+41"]
     "version" true
     ["Versione"];
   Message false [Loc None "+5"; Loc None "+2"]
     "(%1-bit)" true
     ["(%1 bit)"];
   Message false [Loc None "+5"]
     "About %1" true
     ["Informazioni su %1"];
   Message false [Loc None "+19"]
     "Command-line options" true
     ["Opzioni della riga di comando"]].

Definition it_Intro : list message :=
  [Message false [Loc (Some "../forms/intro.ui") "+14"]
     "Welcome" true
     ["benvenuto"];
   Message false [Loc None "+9"]
     "Welcome to %1." true
     ["Benvenuti a %1."];
   Message false [Loc None "+26"]
     "As this is the first time the program is launched, you can choose where %1 will store its data." true
     ["Poiché questa è la prima volta che il programma viene avviato, è possibile scegliere dove %1 memorizzerà i propri dati."];
   Message false [Loc None "+17"]
     "Use the default data directory" true
     ["Utilizzare la directory dei dati predefinita"];
   Message false [Loc None "+7"]
     "Use a custom data directory:" true
     ["Utilizzare una directory di dati personalizzata:Use a custom data directory:"];
   Message false [Loc None "+140"]
     "When you click OK, %1 will begin to download and process the full %4 block chain (%2GB) starting with the earliest transactions in %3 when %4 initially launched." true
     ["Quando si fa clic su OK, %1 inizierà a scaricare ed elaborare l&apos;intera catena di blocchi %4 (%2GB) a partire dalle prime transazioni in %3 quando %4 è stato lanciato inizialmente."];
   Message false [Loc None "+10"]
     "This initial synchronisation is very demanding, and may expose hardware problems with your computer that had previously gone unnoticed. Each time you run %1, it will continue downloading where it left off." true
     ["Questa sincronizzazione iniziale è molto impegnativa e può esporre problemi hardware con il computer che in precedenza era passato inosservato. Ogni volta che si esegue %1, continuerà a scaricare dal punto in cui era stato interrotto."];
   Message false [Loc None "+10"]
     "If you have chosen to limit block chain storage (pruning), the historical data must still be downloaded and processed, but will be deleted afterward to keep your disk usage low." true
     ["Se si è scelto di limitare l&apos;archiviazione della catena di blocchi (eliminazione), i dati cronologici devono comunque essere scaricati ed elaborati, ma verranno eliminati successivamente per mantenere basso l&apos;utilizzo del disco."];
   Message false [Loc (Some "../intro.cpp") "+20"]
     "Bitcoin Confidential" true
     ["Bitcoin Confidentiale"];
   Message false [Loc None "+6"]
     "At least %1 GB of data will be stored in this directory, and it will grow over time." true
     ["Almeno %1 GB di dati verranno archiviati in questa directory e aumenteranno nel tempo."];
   Message false [Loc None "+5"]
     "Approximately %1 GB of data will be stored in this directory." true
     ["In questa directory verranno archiviati circa %1 GB di dati."];
   Message false [Loc None "+8"]
     "%1 will download and store a copy of the Bitcoin Confidential block chain." true
     ["%1 scaricherà e memorizzerà una copia della catena di blocchi Bitcoin Confidential."];
   Message false [Loc None "+2"]
     "The wallet will also be stored in this directory." true
     ["Anche il portafoglio verrà memorizzato in questa directory."];
   Message false [Loc None "+73"]
     "Error: Specified data directory &quot;%1&quot; cannot be created." true
     ["Errore: Impossibile creare la directory dei dati specificata &quot;%1&quot;."];
   Message false [Loc None "+27"]
     "Error" true
     ["errore m"];
   Message true [Loc None "+9"]
     "%n GB of free space available" true
     ["%n GB di spazio libero disponibile"; "%n GB di spazio libero disponibile"];
   Message true [Loc None "+3"]
     "(of %n GB needed)" true
     ["(di %n GB necessari)"; "(di %n GB necessari)"]].

Definition it_MnemonicDialog_1 : list message :=
  [Message false [Loc (Some "../forms/mnemonicdialog.ui") "+14"]
     "HD Wallet Setup" true
     ["Configurazione portafoglio HD"];
   Message false [Loc None "+11"]
     "Generate a mnemonic" true
     ["Generare un sistema di scelta rapida"];
   Message false [Loc None "+10"]
     "Create the wallet" true
     ["Creare il portafoglio"];
   Message false [Loc None "+22"]
     "Write down the Recovery Phrase/Mnemonic below or generate a new one with the desired settings by clicking &quot;NEW MNEMONIC&quot;. Store this phrase in a safe place. The clipboard will be cleared to ensure you have it recorded.  If you are recovering a backup, enter the Recovery Phrase/Mnemonic on the next screen.  Click the &quot;NEXT&quot; button to continue with the wallet creation." true
     ["Annotare la frase di ripristino/Mnemonico di seguito o generarne uno nuovo con le impostazioni desiderate facendo clic su &quot;NUOVO MNEMONIC&quot;. Conserva questa frase in un luogo sicuro. Gli Appunti verranno cancellati per assicurarsi di averlo registrato.  Se si sta ripristinando un backup, immettere la frase di ripristino/Mnemonico nella schermata successiva.  Fare clic sul pulsante &quot;AVANTI&quot; per continuare con la creazione del portafoglio."];
   Message false [Loc None "+36"]
     "Bytes of Entropy " true
     ["Byte di entropia"];
   Message false [Loc None "+7"]
     "Language" true
     ["lingua"];
   Message false [Loc None "+45"]
     "Entropy is an advanced feature. Your mnemonic may be insecure if this feature is used incorrectly." true
     ["L&apos;entropia è una funzionalità avanzata. Il tuo mnemonico potrebbe non essere sicuro se questa funzione viene utilizzata in modo non corretto."];
   Message false [Loc None "+22"]
     "Select your language" true
     ["Seleziona la tua lingua"];
   Message false [Loc None "+4"]
     "English" true
     ["Inglese"];
   Message false [Loc None "+5"]
     "French" true
     ["Francese"];
   Message false [Loc None "+5"]
     "Japanese" true
     ["Giapponese"];
   Message false [Loc None "+5"]
     "Spanish" true
     ["Spagnolo"];
   Message false [Loc None "+5"]
     "Chinese_s" true
     ["Cinese_s"];
   Message false [Loc None "+5"]
     "Chinese_t" true
     ["Cinese_t"];
   Message false [Loc None "+39"]
     "New mnemonic" true
     ["Nuovo mnemonico"];
   Message false [Loc None "+19"]
     "Next" true
     ["prossimo"];
   Message false [Loc None "+19"; Loc None "+198"]
     "Cancel" true
     ["Annulla"];
   Message false [Loc None "-148"]
     "Recovery Passphrase " true
     ["Passphrase di ripristino"];
   Message false [Loc None "+7"]
     "Import Chain" true
     ["Catena di importazione"];
   Message false [Loc None "+13"]
     "Warning" true
     ["avviso"];
   Message false [Loc None "+33"]
     "Enter a passphrase to protect your Recovery Phrase (optional)" true
     ["Immettere una passphrase per proteggere la frase di ripristino (facoltativo)"];
   Message false [Loc None "+13"]
     "Only needed if you&apos;re importing " true
     ["Necessario solo se si sta importando"];
   Message false [Loc None "+16"]
     "Please ensure you backup your Recovery Phrase and Passphrase - they are not recoverable!" true
     ["Assicurati di eseguire il backup della frase di ripristino e della passphrase : non sono recuperabili!"];
   Message false [Loc None "+28"]
     "Back" true
     ["Indietro"];
   Message false [Loc None "+19"; Loc (Some "../mnemonicdialog.cpp") "+145"]
     "Import" true
     ["importazione"];
   Message false [Loc (Some "../mnemonicdialog.cpp") "-102"]
     "Optionally enter a passphrase to protect the Recovery Phrase. (This is not a wallet password.)" true
     ["Facoltativamente, immettere una passphrase per proteggere la frase di ripristino. (Questa non è una password portafoglio.)"];
   Message false [Loc None "+2"]
     "Enter the Recovery Phrase/Mnemonic." true
     ["Immettere la frase di ripristino/Mnemonico."];
   Message false [Loc None "+26"]
     "Create wallet" true
     ["Crea portafoglio"];
   Message false [Loc None "+16"]
     "Generate a new Recovery Phrase/Mnemonic with the desired settings by clicking &quot;NEW MNEMONIC&quot;." true
     ["Generare una nuova frase di ripristino/Mnemonico con le impostazioni desiderate facendo clic su &quot;NUOVO MNEMONIC&quot;."]].

Definition it_MnemonicDialog_2 : list message :=
  [Message false [Loc None "+5"]
     "Import a mnemonic" true
     ["Importare un metodo mnemonicoImport a mnemonic"];
   Message false [Loc None "+28"]
     "Confirm wallet creation cancel" true
     ["Conferma annullamento della creazione del portafoglio"];
   Message false [Loc None "+1"]
     "Are you sure you want to cancel the wallet creation?" true
     ["Sei sicuro di voler annullare la creazione del portafoglio?"];
   Message false [Loc None "+0"]
     "This is only recommended for advanced users to import with custom settings in the debug console or with the RPC interface." true
     ["Questa operazione è consigliata solo per l&apos;importazione di utenti avanzati con impostazioni personalizzate nella console di debug o con l&apos;interfaccia RPC."]].

Definition it_ModalOverlay : list message :=
  [Message false [Loc (Some "../forms/modaloverlay.ui") "+14"]
     "Form" true
     ["modulo"];
   Message false [Loc None "+122"]
     "Recent transactions may not yet be visible, and therefore your wallet&apos;s balance might be incorrect. This information will be correct once your wallet has finished synchronizing with the Bitcoin Confidential network, as detailed below." true
     ["Le transazioni recenti potrebbero non essere ancora visibili e pertanto il saldo del portafoglio potrebbe non essere corretto. Queste informazioni saranno corrette una volta che il portafoglio ha terminato la sincronizzazione con la rete Bitcoin Confidential, come descritto di seguito."];
   Message false [Loc None "+19"]
     "Attempting to spend coins that are affected by not-yet-displayed transactions will not be accepted by the network." true
     ["Il tentativo di spendere monete interessate da transazioni non ancora visualizzate non sarà accettato dalla rete."];
   Message false [Loc None "+63"]
     "Number of blocks left" true
     ["Numero di blocchi rimasti"];
   Message false [Loc None "+7"; Loc None "+26"; Loc (Some "../modaloverlay.cpp") "+140"]
     "Unknown..." true
     ["sconosciuto..."];
   Message false [Loc None "-13"]
     "Last block time" true
     ["Ora ultimo blocco"];
   Message false [Loc None "+26"]
     "Progress" true
     ["progresso"];
   Message false [Loc None "+34"]
     "Progress increase per hour" true
     ["Aumento dei progressi all&apos;ora"];
   Message false [Loc None "+7"; Loc None "+20"]
     "calculating..." true
     ["Calcolo..."];
   Message false [Loc None "-7"]
     "Estimated time left until synced" true
     ["Tempo stimato rimanente fino alla sincronizzazione"];
   Message false [Loc None "+40"]
     "Hide" true
     ["nascondere"];
   Message false [Loc (Some "../modaloverlay.cpp") "-1"]
     "Unknown. Syncing Headers (%1)..." true
     ["sconosciuto. Intestazioni di sincronizzazione (%1)..."]].

Definition it_OpenURIDialog : list message :=
  [Message false [Loc (Some "../forms/openuridialog.ui") "+14"]
     "Open URI" true
     ["URI aperto"];
   Message false [Loc None "+6"]
     "Open payment request from URI or file" true
     ["Apri la richiesta di pagamento dall&apos;URI o dal file"];
   Message false [Loc None "+9"]
     "URI:" true
     ["Uri:"];
   Message false [Loc None "+10"]
     "Select payment request file" true
     ["Seleziona file di richiesta di pagamento"];
   Message false [Loc (Some "../openuridialog.cpp") "+45"]
     "Select payment request file to open" true
     ["Selezionare il file di richiesta di pagamento da aprire"]].

Definition it_OptionsDialog_1 : list message :=
  [Message false [Loc (Some "../forms/optionsdialog.ui") "+14"]
     "Options" true
     ["Opzioni"];
   Message false [Loc None "+14"]
     "&amp;Main" true
     ["&amp;Principale"];
   Message false [Loc None "+13"]
     "W&amp;allet" true
     ["W&amp;allet"];
   Message false [Loc None "+13"]
     "&amp;Network" true
     ["&amp;Rete"];
   Message false [Loc None "+13"]
     "&amp;Window" true
     ["&amp;a0&gt;Finestra"];
   Message false [Loc None "+13"]
     "&amp;Display" true
     ["&amp;Visualizza"];
   Message false [Loc None "+22"]
     "Automatically start %1 after logging in to the system." true
     ["Avvia automaticamente %1 dopo l&apos;accesso al sistema."];
   Message false [Loc None "+3"]
     "&amp;Start %1 on system login" true
     ["&amp;Avvia %1 all&apos;accesso di sistema"];
   Message false [Loc None "+22"]
     "Disables some advanced features but all blocks will still be fully validated. Reverting this setting requires re-downloading the entire blockchain. Actual disk usage may be somewhat higher." true
     ["Disabilita alcune funzionalità avanzate, ma tutti i blocchi verranno comunque convalidati completamente. Il ripristino di questa impostazione richiede il nuovo download dell&apos;intero blockchain. L&apos;utilizzo effettivo del disco potrebbe essere leggermente superiore."];
   Message false [Loc None "+3"]
     "Prune &amp;block storage to" true
     ["Prune &amp;block storage to"];
   Message false [Loc None "+17"]
     "GB" true
     ["Gb"];
   Message false [Loc None "+25"]
     "Reverting this setting requires re-downloading the entire blockchain." true
     ["Il ripristino di questa impostazione richiede il nuovo download dell&apos;intero blockchain."];
   Message false [Loc None "+12"]
     "Size of &amp;database cache" true
     ["Dimensioni della cache del database"];
   Message false [Loc None "+23"]
     "MB" true
     ["Mb"];
   Message false [Loc None "+27"]
     "Number of script &amp;verification threads" true
     ["Numero di thread di script e verifica"];
   Message false [Loc None "+19"]
     "(0 = auto, &lt;0 = leave that many cores free)" true
     ["(0 - auto,&lt;0 = leave that many cores free) ==&quot;&quot; leave=&quot;&quot; that=&quot;&quot; many=&quot;&quot; cores=&quot;&quot;&gt;&lt;/0 = leave that many cores free)&gt;"];
   Message false [Loc None "+39"]
     "Expert" true
     ["esperto"];
   Message false [Loc None "+6"]
     "Whether to show coin control features or not." true
     ["Se mostrare le funzioni di controllo della moneta o no."];
   Message false [Loc None "+3"]
     "Enable coin &amp;control features" true
     ["Abilita le funzioni di controllo delle monete"];
   Message false [Loc None "+7"]
     "If you disable the spending of unconfirmed change, the change from a transaction cannot be used until that transaction has at least one confirmation. This also affects how your balance is computed." true
     ["Se si disabilita la spesa della modifica non confermata, la modifica di una transazione non potrà essere utilizzata fino a quando tale transazione non ha almeno una conferma. Ciò influisce anche sulla modalità di calcolo dell&apos;equilibrio."];
   Message false [Loc None "+3"]
     "&amp;Spend unconfirmed change" true
     ["&amp;Spend cambio non confermato"];
   Message false [Loc None "+7"]
     "Display notification dialog for incoming stake transactions." true
     ["Visualizzare la finestra di dialogo di notifica per le transazioni di posta in arrivo."];
   Message false [Loc None "+3"]
     "&amp;Show incoming stake notifications" true
     ["&amp;Mostra notifiche puntate in arrivo"];
   Message false [Loc None "+27"]
     "Automatically open the Bitcoin Confidential client port on the router. This only works when your router supports UPnP and it is enabled." true
     ["Aprire automaticamente la porta client Confidenziale Bitcoin sul router. Questo funziona solo quando il router supporta UPnP ed è abilitato."];
   Message false [Loc None "+3"]
     "Map port using &amp;UPnP" true
     ["Porta mappa con &amp;UPnP"];
   Message false [Loc None "+7"]
     "Accept connections from outside." true
     ["Accettare connessioni dall&apos;esterno."];
   Message false [Loc None "+3"]
     "Allow incomin&amp;g connections" true
     ["Consenti connessioni incomin&amp;amp;g"];
   Message false [Loc None "+7"]
     "Connect to the Bitcoin Confidential network through a SOCKS5 proxy." true
     ["Connettersi alla rete fiancheziale Bitcoin tramite un proxy SOCKS5."];
   Message false [Loc None "+3"]
     "&amp;Connect through SOCKS5 proxy (default proxy):" true
     ["&amp;Connetti tramite proxy SOCKS5 (proxy predefinito):"]].

Definition it_OptionsDialog_2 : list message :=
  [Message false [Loc None "+9"; Loc None "+193"]
     "Proxy &amp;IP:" true
     ["Proxy &amp;GT;"];
   Message false [Loc None "-168"; Loc None "+193"]
     "IP address of the proxy (e.g. IPv4: 127.0.0.1 / IPv6: ::1)" true
     ["Indirizzo IP del proxy (ad esempio IPv4: 127.0.0.1 / IPv6: ::1)"];
   Message false [Loc None "-183"; Loc None "+193"]
     "&amp;Port:" true
     ["&amp;Porta:"];
   Message false [Loc None "-168"; Loc None "+193"]
     "Port of the proxy (e.g. 9050)" true
     ["Porta del proxy (ad es. 9050)"];
   Message false [Loc None "-166"]
     "Used for reaching peers via:" true
     ["Utilizzato per raggiungere i peer tramite:"];
   Message false [Loc None "+13"; Loc None "+23"; Loc None "+23"]
     "Shows if the supplied default SOCKS5 proxy is used to reach peers via this network type." true
     ["Indica se il proxy SOCKS5 predefinito fornito viene utilizzato per raggiungere i peer tramite questo tipo di rete."];
   Message false [Loc None "-36"]
     "IPv4" true
     ["IPv4 (in modo iPv)"];
   Message false [Loc None "+23"]
     "IPv6" true
     ["IPv6"];
   Message false [Loc None "+23"]
     "Tor" true
     ["Tor"];
   Message false [Loc None "+25"]
     "Connect to the Bitcoin Confidential network through a separate SOCKS5 proxy for Tor hidden services." true
     ["Connettersi alla rete bitcoin Confidential attraverso un proxy SOCKS5 separato per i servizi nascosti Tor."];
   Message false [Loc None "+3"]
     "Use separate SOCKS&amp;5 proxy to reach peers via Tor hidden services:" true
     ["Utilizzare il proxy SOCKS&amp;5 separato per raggiungere i peer tramite i servizi nascosti Tor:"];
   Message false [Loc None "+111"]
     "Hide the icon from the system tray." true
     ["Nascondere l&apos;icona dalla barra delle applicazioni."];
   Message false [Loc None "+3"]
     "&amp;Hide tray icon" true
     ["&amp;Hide tray icona"];
   Message false [Loc None "+7"]
     "Show only a tray icon after minimizing the window." true
     ["Mostra solo l&apos;icona di una barra delle applicazioni dopo aver ridotto a icona la finestra."];
   Message false [Loc None "+3"]
     "&amp;Minimize to the tray instead of the taskbar" true
     ["&amp;Riduci a icona sulla barra delle applicazioni invece che sulla barra delle applicazioni"];
   Message false [Loc None "+7"]
     "Minimize instead of exit the application when the window is closed. When this option is enabled, the application will be closed only after selecting Exit in the menu." true
     ["Ridurre a icona anziché uscire dall&apos;applicazione quando la finestra viene chiusa. Quando questa opzione è abilitata, l&apos;applicazione verrà chiusa solo dopo aver selezionato Esci nel menu."];
   Message false [Loc None "+3"]
     "M&amp;inimize on close" true
     ["M&amp;inimize in chiusura"];
   Message false [Loc None "+26"]
     "User Interface &amp;language:" true
     ["Interfaccia utente &amp;gt;"];
   Message false [Loc None "+22"]
     "The user interface language can be set here. This setting will take effect after restarting %1." true
     ["La lingua dell&apos;interfaccia utente può essere impostata qui. Questa impostazione avrà effetto dopo il riavvio %1."];
   Message false [Loc None "+11"]
     "&amp;Unit to show amounts in:" true
     ["&amp;Unità per mostrare gli importi in:"];
   Message false [Loc None "+22"]
     "Choose the default subdivision unit to show in the interface and when sending coins." true
     ["Scegliere l&apos;unità di suddivisione predefinita da visualizzare nell&apos;interfaccia e durante l&apos;invio delle monete."];
   Message false [Loc None "+11"; Loc None "+22"]
     "Third party URLs (e.g. a block explorer) that appear in the transactions tab as context menu items. %s in the URL is replaced by transaction hash. Multiple URLs are separated by vertical bar |." true
     ["URL di terze parti (ad esempio un esploratore di blocchi) visualizzati nella scheda Transazioni come voci di menu di scelta rapida. %s nell&apos;URL viene sostituito dall&apos;hash della transazione. Più URL sono separati da una barra verticale."];
   Message false [Loc None "-19"]
     "&amp;Third party transaction URLs" true
     ["&amp;A00/E/o URL transazioni di terze parti"];
   Message false [Loc None "+50"]
     "Active command-line options that override above options:" true
     ["Opzioni della riga di comando attive che eseguono l&apos;override delle opzioni precedenti:"];
   Message false [Loc None "+45"]
     "Open the %1 configuration file from the working directory." true
     ["Aprire il file di configurazione %1 dalla directory di lavoro."];
   Message false [Loc None "+3"]
     "Open Configuration File" true
     ["Apri file di configurazione"];
   Message false [Loc None "+10"]
     "Reset all client options to default." true
     ["Ripristinare tutte le opzioni client predefinite."];
   Message false [Loc None "+3"]
     "&amp;Reset Options" true
     ["&amp;Reimposta opzioni"]].

Definition it_OptionsDialog_3 : list message :=
  [Message false [Loc None "+80"]
     "&amp;OK" true
     ["&amp;OK"];
   Message false [Loc None "+13"]
     "&amp;Cancel" true
     ["&amp;Annulla"];
   Message false [Loc (Some "../optionsdialog.cpp") "+109"]
     "default" true
     ["default m inv"];
   Message false [Loc None "+56"]
     "none" true
     ["nessuno"];
   Message false [Loc None "+82"]
     "Confirm options reset" true
     ["Conferma ripristino opzioni"];
   Message false [Loc None "+1"; Loc None "+60"]
     "Client restart required to activate changes." true
     ["Riavvio del client necessario per attivare le modifiche."];
   Message false [Loc None "-60"]
     "Client will be shut down. Do you want to proceed?" true
     ["Il client verrà arrestato. Vuoi procedere?"];
   Message false [Loc None "+15"]
     "Configuration options" true
     ["Opzioni di configurazione"];
   Message false [Loc None "+1"]
     "The configuration file is used to specify advanced user options which override GUI settings. Additionally, any command-line options will override this configuration file." true
     ["Il file di configurazione viene utilizzato per specificare le opzioni utente avanzate che sostituiscono le impostazioni GUI. Inoltre, tutte le opzioni della riga di comando sostituiranno questo file di configurazione."];
   Message false [Loc None "+5"]
     "Error" true
     ["errore m"];
   Message false [Loc None "+0"]
     "The configuration file could not be opened." true
     ["Impossibile aprire il file di configurazione."];
   Message false [Loc None "+43"]
     "This change would require a client restart." true
     ["Questa modifica richiederebbe un riavvio del client."];
   Message false [Loc None "+28"]
     "The supplied proxy address is invalid." true
     ["L&apos;indirizzo proxy fornito non è valido."]].

Definition it_OverviewPage : list message :=
  [Message false [Loc (Some "../forms/overviewpage.ui") "+14"]
     "Form" true
     ["modulo"];
   Message false [Loc None "+43"]
     "Bitcoin Confidential Core" true
     ["Bitcoin Riservato Nucleo"];
   Message false [Loc None "+38"; Loc None "+114"; Loc None "+210"]
     "Pending" true
     ["In sospeso"];
   Message false [Loc None "-308"]
     "Spending" true
     ["spesa"];
   Message false [Loc None "+108"]
     "Watch-only" true
     ["Solo orologio"];
   Message false [Loc None "+73"; Loc None "+191"]
     "Available" true
     ["disponibile"];
   Message false [Loc None "-181"]
     "Spendable" true
     ["Spendable"];
   Message false [Loc None "+41"]
     "Staking" true
     ["Picchettamento"];
   Message false [Loc None "+130"]
     "Immature" true
     ["immaturo"];
   Message false [Loc None "+86"]
     "Total" true
     ["totale"];
   Message false [Loc None "+90"]
     "Recent transactions" true
     ["Transazioni recenti"];
   Message false [Loc None "+19"]
     "The displayed information may be out of date. Your wallet automatically synchronizes with the Bitcoin Confidential network after a connection is established, but this process has not completed yet." true
     ["Le informazioni visualizzate potrebbero non essere aggiornate. Il tuo portafoglio si sincronizza automaticamente con la rete Bitcoin Confidential dopo che è stata stabilita una connessione, ma questo processo non è ancora stato completato."]].

Definition it_PaymentServer : list message :=
  [Message false [Loc (Some "../paymentserver.cpp") "+317"; Loc None "+215"; Loc None "+42"; Loc None "+110"; Loc None "+14"; Loc None "+18"]
     "Payment request error" true
     ["Errore di richiesta di pagamento"];
   Message false [Loc None "-398"]
     "Cannot start bitcoinc: click-to-pay handler" true
     ["Impossibile avviare bitcoinc: gestore click-to-pay"];
   Message false [Loc None "+82"; Loc None "+21"; Loc None "+13"; Loc None "+7"]
     "URI handling" true
     ["Gestione URI"];
   Message false [Loc None "-41"]
     "&apos;bitcoin://&apos; is not a valid URI. Use &apos;bitcoin:&apos; instead." true
     ["&apos;bitcoin://&apos; non è un URI valido. Usa invece &apos;bitcoin:&apos;."];
   Message false [Loc None "+22"]
     "Payment request fetch URL is invalid: %1" true
     ["L&apos;URL di recupero richiesta di pagamento non è valido: %1"];
   Message false [Loc None "+12"]
     "Invalid payment address %1" true
     ["Indirizzo di pagamento %1 non valido"];
   Message false [Loc None "+8"]
     "URI cannot be parsed! This can be caused by an invalid Bitcoin Confidential address or malformed URI parameters." true
     ["Non è possibile analizzare l&apos;URI. Ciò può essere causato da un indirizzo Bitcoin Confidential non valido o da parametri URI in formato non valido."];
   Message false [Loc None "+13"]
     "Payment request file handling" true
     ["Gestione dei file di richiesta di pagamento"];
   Message false [Loc None "+1"]
     "Payment request file cannot be read! This can be caused by an invalid payment request file." true
     ["Impossibile leggere il file di richiesta di pagamento! Ciò può essere causato da un file di richiesta di pagamento non valido."];
   Message false [Loc None "+61"; Loc None "+9"; Loc None "+31"; Loc None "+10"; Loc None "+17"; Loc None "+85"]
     "Payment request rejected" true
     ["Richiesta di pagamento rifiutata"];
   Message false [Loc None "-152"]
     "Payment request network doesn&apos;t match client network." true
     ["La rete di richieste di pagamento non corrisponde alla rete client."];
   Message false [Loc None "+9"]
     "Payment request expired." true
     ["Richiesta di pagamento scaduta."];
   Message false [Loc None "+6"]
     "Payment request is not initialized." true
     ["La richiesta di pagamento non è inizializzata."];
   Message false [Loc None "+26"]
     "Unverified payment requests to custom payment scripts are unsupported." true
     ["Le richieste di pagamento non verificate agli script di pagamento personalizzati non sono supportate."];
   Message false [Loc None "+9"; Loc None "+17"]
     "Invalid payment request." true
     ["Richiesta di pagamento non valida."];
   Message false [Loc None "-10"]
     "Requested payment amount of %1 is too small (considered dust)." true
     ["L&apos;importo di pagamento richiesto di %1 è troppo piccolo (considerata polvere)."];
   Message false [Loc None "+65"]
     "Refund from %1" true
     ["Rimborso da %1"];
   Message false [Loc None "+31"]
     "Payment request %1 is too large (%2 bytes, allowed %3 bytes)." true
     ["La richiesta di pagamento %1 è troppo grande (%2 byte, consentiti %3 byte)."];
   Message false [Loc None "+9"]
     "Error communicating with %1: %2" true
     ["Errore di comunicazione con %1: %2"];
   Message false [Loc None "+20"]
     "Payment request cannot be parsed!" true
     ["La richiesta di pagamento non può essere analizzata!"];
   Message false [Loc None "+13"]
     "Bad response from server %1" true
     ["Risposta errata dal server %1"];
   Message false [Loc None "+22"]
     "Network request error" true
     ["Errore di richiesta di rete"];
   Message false [Loc None "+11"]
     "Payment acknowledged" true
     ["Pagamento riconosciuto"]].

Definition it_PeerTableModel : list message :=
  [Message false [Loc (Some "../peertablemodel.cpp") "+109"]
     "NodeId" true
     ["Nodeid"];
   Message false [Loc None "+0"]
     "Node/Service" true
     ["Nodo/Servizio"];
   Message false [Loc None "+0"]
     "Ping" true
     ["suono metallico"];
   Message false [Loc None "+0"]
     "Sent" true
     ["passato semplice e participio passato di &quot;send&quot;"];
   Message false [Loc None "+0"]
     "Received" true
     ["generalmente accettato"];
   Message false [Loc None "+0"]
     "User Agent" true
     ["Agente utente"]].

Definition it_QObject : list message :=
  [Message false [Loc (Some "../bitcoinunits.cpp") "+196"]
     "Amount" true
     ["quantità"];
   Message false [Loc (Some "../guiutil.cpp") "+96"]
     "Enter Spending address" true
     ["Immettere l&apos;indirizzo di spesa"];
   Message false [Loc None "+12"]
     "Enter ColdStake address" true
     ["Immettere l&apos;indirizzo ColdStake"];
   Message false [Loc None "+2"]
     "Enter Stake address of remote node" true
     ["Immettere l&apos;indirizzo del palo del nodo remoto"];
   Message false [Loc None "+2"]
     "Enter Stake address" true
     ["Inserisci l&apos;indirizzo del puntata"];
   Message false [Loc None "+687"]
     "%1 d" true
     ["%1 d"];
   Message false [Loc None "+2"]
     "%1 h" true
     ["%1 h"];
   Message false [Loc None "+2"]
     "%1 m" true
     ["%1 m"];
   Message false [Loc None "+2"; Loc None "+53"]
     "%1 s" true
     ["%1 s"];
   Message false [Loc None "-10"]
     "None" true
     ["nessuno"];
   Message false [Loc None "+5"]
     "N/A" true
     ["non pertinente"];
   Message false [Loc None "+0"]
     "%1 ms" true
     ["%1 ms"];
   Message true [Loc None "+18"]
     "%n second(s)" true
     ["%n secondi"; "%n secondi"];
   Message true [Loc None "+4"]
     "%n minute(s)" true
     ["%n minuti"; "%n minuti"];
   Message true [Loc None "+4"]
     "%n hour(s)" true
     ["%n ore"; "%n ore"];
   Message true [Loc None "+4"]
     "%n day(s)" true
     ["%n giorno/i"; "%n giorno/i"];
   Message true [Loc None "+4"; Loc None "+6"]
     "%n week(s)" true
     ["%n settimana/e"; "%n settimana/e"];
   Message false [Loc None "+0"]
     "%1 and %2" true
     ["%1 e %2"];
   Message true [Loc None "+0"]
     "%n year(s)" true
     ["%n anno/i"; "%n anno/i"];
   Message false [Loc None "+8"]
     "%1 B" true
     ["%1 B (in vietito il sistema"];
   Message false [Loc None "+2"]
     "%1 KB" true
     ["%1 KB (informazioni in base a un articolo con"];
   Message false [Loc None "+2"]
     "%1 MB" true
     ["%1 MB"];
   Message false [Loc None "+2"]
     "%1 GB" true
     ["%1 GB"];
   Message false [Loc None "+71"]
     "All spending funds are sent and received anonymously. Only the sender and receiver have details of their side of the transaction. Staking funds need to be converted to spending before sending out of wallet. Funds require %1 confirmations (%2 minutes) before sending." true
     ["Tutti i fondi di spesa vengono inviati e ricevuti in forma anonima. Solo il mittente e il destinatario hanno i dettagli del loro lato della transazione. I fondi di scommessa devono essere convertiti in spesa prima di inviarli dal portafoglio. I fondi richiedono %1 conferme (%2 minuti) prima dell&apos;invio."];
   Message false [Loc None "+15"]
     "Staking funds cannot be sent out of your wallet without converting to spending. After converting to spending, %1 confirmations (%2 minutes) are required before sending." true
     ["I fondi di scommessa non possono essere inviati dal tuo portafoglio senza convertirlo in spesa. Dopo la conversione in spesa, sono necessarie %1 conferme (%2 minuti) prima dell&apos;invio."];
   Message false [Loc (Some "../modaloverlay.cpp") "-29"]
     "unknown" true
     ["sconosciuto"];
   Message false [Loc (Some "../bitcoin.cpp") "+186"]
     "%1 didn&apos;t yet exit safely..." true
     ["%1 non è ancora stato chiuso in modo sicuro..."]].

Definition it_QObject__QObject : list message :=
  [Message false [Loc None "-117"]
     "Error parsing command line arguments: %1." true
     ["Errore durante l&apos;analisi degli argomenti della riga di comando: %1."];
   Message false [Loc None "+38"]
     "Error: Specified data directory &quot;%1&quot; does not exist." true
     ["Errore: la directory dei dati specificata &quot;%1&quot; non esiste."];
   Message false [Loc None "+5"]
     "Error: Cannot parse configuration file: %1." true
     ["Errore: impossibile analizzare il file di configurazione: %1."];
   Message false [Loc None "+14"]
     "Error: %1" true
     ["Errore: %1"]].

Definition it_QRImageWidget : list message :=
  [Message false [Loc (Some "../receiverequestdialog.cpp") "+32"]
     "&amp;Save Image..." true
     ["&amp;ESalva immagine..."];
   Message false [Loc None "+3"]
     "&amp;Copy Image" true
     ["&amp;Copia immagine"];
   Message false [Loc None "+32"]
     "Save QR Code" true
     ["Salva codice QR"];
   Message false [Loc None "+0"]
     "PNG Image (*.png)" true
     ["Immagine PNG (file con estensione png)"]].

Definition it_RPCConsole_1 : list message :=
  [Message false [Loc (Some "../forms/debugwindow.ui") "+14"]
     "Debug window" true
     ["Finestra Debug"];
   Message false [Loc None "+11"]
     "Information" true
     ["informazioni"];
   Message false [Loc None "+13"]
     "Console" true
     ["consolare"];
   Message false [Loc None "+10"]
     "Network Traffic" true
     ["Traffico di rete"];
   Message false [Loc None "+10"]
     "Peers" true
     ["Coetanei"];
   Message false [Loc None "+21"; Loc None "+1004"]
     "User Agent" true
     ["Agente utente"];
   Message false [Loc None "-988"]
     "Block chain" true
     ["Catena di blocchi"];
   Message false [Loc None "+7"]
     "Client version" true
     ["Versione client"];
   Message false [Loc None "+13"]
     "General" true
     ["generico"];
   Message false [Loc None "+13"]
     "Memory Pool" true
     ["Pool di memoria"];
   Message false [Loc None "+7"]
     "Current number of blocks" true
     ["Numero corrente di blocchi"];
   Message false [Loc None "+13"]
     "Network" true
     ["rete"];
   Message false [Loc None "+7"]
     "Number of connections" true
     ["Numero di connessioni"];
   Message false [Loc None "+7"]
     "Startup time" true
     ["Tempo di avvio"];
   Message false [Loc None "+7"]
     "Name" true
     ["nome"];
   Message false [Loc None "+7"]
     "Last block time" true
     ["Ora ultimo blocco"];
   Message false [Loc None "+7"]
     "Using BerkeleyDB version" true
     ["Utilizzo della versione BerkeleyDB"];
   Message false [Loc None "+10"]
     "Datadir" true
     ["Datadir"];
   Message false [Loc None "+7"]
     "Memory usage" true
     ["Utilizzo della memoria"];
   Message false [Loc None "+7"]
     "Current number of transactions" true
     ["Numero corrente di transazioni"];
   Message false [Loc None "+10"; Loc None "+16"; Loc None "+16"; Loc None "+16"; Loc None "+19"; Loc None "+16"; Loc None "+16"; Loc None "+16"; Loc None "+16"; Loc None "+16"; Loc None "+16"; Loc None "+644"; Loc None "+23"; Loc None "+23"; Loc None "+23"; Loc None "+23"; Loc None "+23"; Loc None "+23"; Loc None "+23"; Loc None "+23"; Loc None "+23"; Loc None "+23"; Loc None "+23"; Loc None "+23"; Loc None "+23"; Loc None "+23"; Loc None "+26"; Loc None "+23"; Loc None "+23"]
     "N/A" true
     ["non pertinente"];
   Message false [Loc None "-988"]
     "Debug log file" true
     ["File di registro di debug"];
   Message false [Loc None "+7"]
     "Open the %1 debug log file from the current data directory. This can take a few seconds for large log files." true
     ["Aprire il file di registro di debug %1 dalla directory dei dati corrente. Questa operazione può richiedere alcuni secondi per i file di registro di grandi dimensioni."]].

Definition it_RPCConsole_2 : list message :=
  [Message false [Loc None "+3"]
     "&amp;Open" true
     ["&amp;Aperto"];
   Message false [Loc None "+25"]
     "Wallet: " true
     ["portafoglio:"];
   Message false [Loc None "+8"]
     "(none)" true
     ["(nessuno)"];
   Message false [Loc None "+27"]
     "Decrease font size" true
     ["Diminuire la dimensione del carattere"];
   Message false [Loc None "+32"]
     "Increase font size" true
     ["Aumentare la dimensione del carattere"];
   Message false [Loc None "+32"]
     "Clear console" true
     ["Cancella console"];
   Message false [Loc None "+111"]
     "&amp;Reset" true
     ["&amp;Reimposta"];
   Message false [Loc None "+16"]
     "Totals" true
     ["Totali"];
   Message false [Loc None "+67"; Loc None "+555"]
     "Received" true
     ["generalmente accettato"];
   Message false [Loc None "-475"; Loc None "+452"]
     "Sent" true
     ["passato semplice e participio passato di &quot;send&quot;"];
   Message false [Loc None "-361"]
     "Banned peers" true
     ["Osche escluse"];
   Message false [Loc None "+60"; Loc (Some "../rpcconsole.cpp") "+510"; Loc None "+760"]
     "Select a peer to view detailed information." true
     ["Selezionare un peer per visualizzare informazioni dettagliate."];
   Message false [Loc None "+25"]
     "Whitelisted" true
     ["Inserito nella whitelist"];
   Message false [Loc None "+23"]
     "Direction" true
     ["indicazioni stradali"];
   Message false [Loc None "+23"]
     "Version" true
     ["Versione"];
   Message false [Loc None "+46"]
     "Services" true
     ["Servizi"];
   Message false [Loc None "+23"]
     "Starting Block" true
     ["Blocco iniziale"];
   Message false [Loc None "+23"]
     "Synced Headers" true
     ["Intestazioni sincronizzate"];
   Message false [Loc None "+23"]
     "Synced Blocks" true
     ["Blocchi sincronizzati"];
   Message false [Loc None "+23"]
     "Ban Score" true
     ["Punteggio di divieto"];
   Message false [Loc None "+23"]
     "Connection Time" true
     ["Tempo di connessione"];
   Message false [Loc None "+23"]
     "Last Send" true
     ["Ultimo invio"];
   Message false [Loc None "+23"]
     "Last Receive" true
     ["Ultima ricezione"];
   Message false [Loc None "+69"]
     "Ping Time" true
     ["Tempo di ping"];
   Message false [Loc None "+23"]
     "The duration of a currently outstanding ping." true
     ["Durata di un ping attualmente in sospeso."];
   Message false [Loc None "+3"]
     "Ping Wait" true
     ["Attesa ping"];
   Message false [Loc None "+23"]
     "Min Ping" true
     ["Ping Min"];
   Message false [Loc None "+23"]
     "Time Offset" true
     ["Scostamento tempo"];
   Message false [Loc (Some "../rpcconsole.cpp") "-667"]
     "&amp;Disconnect" true
     ["&amp;Disconnetti"]].

Definition it_RPCConsole_3 : list message :=
  [Message false [Loc None "+1"; Loc None "+1"; Loc None "+1"; Loc None "+1"]
     "Ban for" true
     ["Divieto per"];
   Message false [Loc None "-3"]
     "1 &amp;hour" true
     ["1 &amp;amp;ora"];
   Message false [Loc None "+1"]
     "1 &amp;day" true
     ["1 &amp;amp; giorno"];
   Message false [Loc None "+1"]
     "1 &amp;week" true
     ["1 &amp;amp; settimana"];
   Message false [Loc None "+1"]
     "1 &amp;year" true
     ["1 &amp;amp; anno"];
   Message false [Loc None "+48"]
     "&amp;Unban" true
     ["&amp;Annulla ban"];
   Message false [Loc None "+54"]
     "default wallet" true
     ["portafoglio predefinito"];
   Message false [Loc None "+110"]
     "Welcome to the %1 RPC console." true
     ["Benvenuti nella console RPC %1."];
   Message false [Loc None "+1"]
     "Use up and down arrows to navigate history, and %1 to clear screen." true
     ["Utilizzare le frecce su e giù per esplorare la cronologia e %1 per cancellare lo schermo."];
   Message false [Loc None "+1"]
     "Type %1 for an overview of available commands." true
     ["Digitare %1 per una panoramica dei comandi disponibili."];
   Message false [Loc None "+1"]
     "For more information on using this console type %1." true
     ["Per ulteriori informazioni sull&apos;utilizzo di questa console digitare %1."];
   Message false [Loc None "+2"]
     "WARNING: Scammers have been active, telling users to type commands here, stealing their wallet contents. Do not use this console without fully understanding the ramifications of a command." true
     ["AVVISO: i truffatori sono stati attivi, dicendo agli utenti di digitare comandi qui, rubando i loro contenuti portafoglio. Non utilizzare questa console senza comprendere appieno le ramificazioni di un comando."];
   Message false [Loc None "+32"]
     "In:" true
     ["in:"];
   Message false [Loc None "+1"]
     "Out:" true
     ["Cambio:"];
   Message false [Loc None "+3"]
     "Network activity disabled" true
     ["Attività di rete disabilitata"];
   Message false [Loc None "+68"]
     "Executing command without any wallet" true
     ["Esecuzione di comandi senza portafoglio"];
   Message false [Loc None "+2"]
     "Executing command using &quot;%1&quot; wallet" true
     ["Comando di esecuzione utilizzando il portafoglio &quot;%1&quot;"];
   Message false [Loc None "+190"]
     "(node id: %1)" true
     ["(ID nodo: %1)"];
   Message false [Loc None "+2"]
     "via %1" true
     ["tramite %1"];
   Message false [Loc None "+3"; Loc None "+1"]
     "never" true
     ["Mai"];
   Message false [Loc None "+10"]
     "Inbound" true
     ["Inbound"];
   Message false [Loc None "+0"]
     "Outbound" true
     ["Outbound"];
   Message false [Loc None "+2"]
     "Yes" true
     ["sì"];
   Message false [Loc None "+0"]
     "No" true
     ["No"];
   Message false [Loc None "+12"; Loc None "+6"]
     "Unknown" true
     ["sconosciuto"]].

Definition it_ReceiveCoinsDialog : list message :=
  [Message false [Loc (Some "../forms/receivecoinsdialog.ui") "+59"]
     "Stake" true
     ["Gioco"];
   Message false [Loc None "+5"]
     "ColdStake" true
     ["ColdStake"];
   Message false [Loc None "+14"]
     "&amp;Request payment" true
     ["&amp;Richiedi pagamento"];
   Message false [Loc None "+17"]
     "Clear all fields of the form." true
     ["Cancellare tutti i campi del modulo."];
   Message false [Loc None "+3"]
     "Clear" true
     ["chiaro"];
   Message false [Loc None "+56"; Loc None "+79"]
     "An optional amount to request. Leave this empty or zero to not request a specific amount." true
     ["Importo facoltativo da richiedere. Lasciare vuoto o zero per non richiedere un importo specifico."];
   Message false [Loc None "-57"]
     "Use bech32 encoding." true
     ["Utilizzare la codifica bech32."];
   Message false [Loc None "+3"]
     "Generate native segwit (Bech32) address" true
     ["Genera indirizzo segwit (Bech32) nativo"];
   Message false [Loc None "+22"; Loc None "+55"]
     "An optional label to associate with the new receiving address." true
     ["Etichetta facoltativa da associare al nuovo indirizzo di ricezione."];
   Message false [Loc None "-52"]
     "&amp;Label:" true
     ["&amp;Etichetta:"];
   Message false [Loc None "+13"; Loc None "+53"]
     "An optional message to attach to the payment request, which will be displayed when the request is opened. Note: The message will not be sent with the payment over the Bitcoin Confidential network." true
     ["Messaggio facoltativo da allegare alla richiesta di pagamento, che verrà visualizzato all&apos;apertura della richiesta. Nota: il messaggio non verrà inviato con il pagamento tramite la rete riservata Bitcoin."];
   Message false [Loc None "-50"]
     "&amp;Message:" true
     ["&amp;Messaggio:"];
   Message false [Loc None "+16"]
     "&amp;Amount:" true
     ["&amp;Importo:"];
   Message false [Loc None "+13"]
     "Use this form to request payments. All fields are &lt;b&gt;optional&lt;/b&gt;." true
     ["Utilizzare questo modulo per richiedere i pagamenti. Tutti i campi sono &lt;b&gt;facoltativi.&lt;/b&gt;"];
   Message false [Loc None "+63"]
     "Requested payments history" true
     ["Storico pagamenti richiesti"];
   Message false [Loc None "+31"]
     "Show the selected request (does the same as double clicking an entry)" true
     ["Mostrare la richiesta selezionata (fa come fare doppio clic su una voce)"];
   Message false [Loc None "+3"]
     "Show" true
     ["mostrare"];
   Message false [Loc None "+17"]
     "Remove the selected entries from the list" true
     ["Rimuovere le voci selezionate dall&apos;elenco"];
   Message false [Loc None "+3"]
     "Remove" true
     ["togliere"];
   Message false [Loc (Some "../receivecoinsdialog.cpp") "+40"]
     "Copy URI" true
     ["Copia URI"];
   Message false [Loc None "+1"]
     "Copy label" true
     ["Copia etichetta"];
   Message false [Loc None "+1"]
     "Copy message" true
     ["Copia messaggio"];
   Message false [Loc None "+1"]
     "Copy amount" true
     ["Copia importo"]].

Definition it_ReceiveRequestDialog : list message :=
  [Message false [Loc (Some "../forms/receiverequestdialog.ui") "+29"]
     "QR Code" true
     ["Codice QR"];
   Message false [Loc None "+46"]
     "Copy &amp;URI" true
     ["Copia &amp;amp;URI"];
   Message false [Loc None "+10"]
     "Copy &amp;Address" true
     ["Copia &amp;amp; Indirizzo"];
   Message false [Loc None "+10"]
     "&amp;Save Image..." true
     ["&amp;ESalva immagine..."];
   Message false [Loc (Some "../receiverequestdialog.cpp") "+65"]
     "Request payment to %1" true
     ["Richiedi pagamento a %1"];
   Message false [Loc None "+6"]
     "Payment information" true
     ["Informazioni sul pagamento"];
   Message false [Loc None "+1"]
     "URI" true
     ["Uri"];
   Message false [Loc None "+2"]
     "Address" true
     ["indirizzo"];
   Message false [Loc None "+2"]
     "Amount" true
     ["quantità"];
   Message false [Loc None "+2"]
     "Label" true
     ["etichetta"];
   Message false [Loc None "+2"]
     "Message" true
     ["Messaggio"];
   Message false [Loc None "+2"]
     "Wallet" true
     ["portafoglio"];
   Message false [Loc None "+11"]
     "Resulting URI too long, try to reduce the text for label / message." true
     ["URI risultante troppo lungo, provare a ridurre il testo per etichetta / messaggio."];
   Message false [Loc None "+5"]
     "Error encoding URI into QR Code." true
     ["Errore durante la codifica dell&apos;URI nel codice QR."]].

Definition it_RecentRequestsTableModel : list message :=
  [Message false [Loc (Some "../recentrequeststablemodel.cpp") "+25"; Loc None "+4"]
     "Date" true
     ["data"];
   Message false [Loc None "-4"; Loc None "+4"]
     "Label" true
     ["etichetta"];
   Message false [Loc None "+0"]
     "Message" true
     ["Messaggio"];
   Message false [Loc None "+42"]
     "(no label)" true
     ["(nessuna etichetta)"];
   Message false [Loc None "+9"]
     "(no message)" true
     ["(nessun messaggio)"];
   Message false [Loc None "+8"]
     "(no amount requested)" true
     ["(nessun importo richiesto)"];
   Message false [Loc None "+45"]
     "Requested" true
     ["Richiesto"]].

Definition it_SendCoinsDialog_1 : list message :=
  [Message false [Loc (Some "../forms/sendcoinsdialog.ui") "+14"; Loc (Some "../sendcoinsdialog.cpp") "+806"]
     "Send Coins" true
     ["Invia monete"];
   Message false [Loc None "+105"]
     "Inputs..." true
     ["Ingressi..."];
   Message false [Loc None "+10"]
     "automatically selected" true
     ["selezionato automaticamente"];
   Message false [Loc None "+19"]
     "Insufficient funds!" true
     ["Fondi insufficienti!"];
   Message false [Loc None "+89"]
     "Quantity:" true
     ["quantità:"];
   Message false [Loc None "+35"]
     "Bytes:" true
     ["Byte:"];
   Message false [Loc None "+48"]
     "Amount:" true
     ["quantità:"];
   Message false [Loc None "+32"]
     "Dust:" true
     ["polvere:"];
   Message false [Loc None "+48"]
     "Fee:" true
     ["onorario:"];
   Message false [Loc None "+51"]
     "After Fee:" true
     ["Dopo la tassa:"];
   Message false [Loc None "+32"]
     "Change:" true
     ["cambiare:"];
   Message false [Loc None "+44"]
     "If this is activated, but the change address is empty or invalid, change will be sent to a newly generated address." true
     ["Se questa opzione è attivata, ma l&apos;indirizzo di modifica è vuoto o non valido, la modifica verrà inviata a un indirizzo appena generato."];
   Message false [Loc None "+3"]
     "Custom change address" true
     ["Indirizzo di modifica personalizzato"];
   Message false [Loc None "+256"]
     "Transaction Fee:" true
     ["Commissione transazione:"];
   Message false [Loc None "+14"]
     "Choose..." true
     ["scegliere..."];
   Message false [Loc None "+30"]
     "Using the fallbackfee can result in sending a transaction that will take several hours or days (or never) to confirm. Consider choosing your fee manually or wait until you have validated the complete chain." true
     ["L&apos;utilizzo di fallbackfee può comportare l&apos;invio di una transazione che richiederà diverse ore o giorni (o mai) per confermare. Prendi in considerazione la possibilità di scegliere la tua tariffa manualmente o attendi di aver convalidato l&apos;intera catena."];
   Message false [Loc None "+3"]
     "Warning: Fee estimation is currently not possible." true
     ["Attenzione: la stima delle commissioni non è attualmente possibile."];
   Message false [Loc None "+26"]
     "collapse fee-settings" true
     ["comprimi le impostazioni delle commissioni"];
   Message false [Loc None "+3"]
     "Hide" true
     ["nascondere"];
   Message false [Loc None "+48"]
     "Specify a custom fee per kB (1,000 bytes) of the transaction's virtual size.

Note:  Since the fee is calculated on a per-byte basis, a fee of &quot;100 satoshis per kB&quot; for a transaction size of 500 bytes (half of 1 kB) would ultimately yield a fee of only 50 satoshis." true
     ["Specificare una commissione personalizzata per kB (1.000 byte) della dimensione virtuale della transazione.

Nota: Poiché la commissione viene calcolata in base al byte, una commissione di &quot;100 satoshis per kB&quot; per una dimensione di transazione di 500 byte (metà di 1 kB) produrrebbe in ultima analisi una commissione di soli 50 satoshis."];
   Message false [Loc None "+5"]
     "per kilobyte" true
     ["per kilobyte"];
   Message false [Loc None "+27"; Loc None "+13"]
     "Paying only the minimum fee is just fine as long as there is less transaction volume than space in the blocks. But be aware that this can end up in a never confirming transaction once there is more demand for Bitcoin Confidential transactions than the network can process." true
     ["Pagare solo la tassa minima va bene finché c&apos;è meno volume di transazione rispetto allo spazio nei blocchi. Ma essere consapevoli del fatto che questo può finire in una transazione mai confermando una volta che c&apos;è più domanda di transazioni Bitcoin riservate di quanto la rete può elaborare."];
   Message false [Loc None "+3"]
     "(read the tooltip)" true
     ["(leggi la descrizione comando)"];
   Message false [Loc None "+29"]
     "Recommended:" true
     ["Consigliato:"];
   Message false [Loc None "+30"]
     "Custom:" true
     ["usanza:"];
   Message false [Loc None "+52"]
     "(Smart fee not initialized yet. This usually takes a few blocks...)" true
     ["(Tariffa intelligente non ancora inizializzata. Questo di solito richiede un paio di isolati ...)"];
   Message false [Loc None "+29"]
     "Confirmation time target:" true
     ["Obiettivo tempo di conferma:"];
   Message false [Loc None "+74"]
     "With Replace-By-Fee (BIP-125) you can increase a transaction&apos;s fee after it is sent. Without this, a higher fee may be recommended to compensate for increased transaction delay risk." true
     ["Con Replace-By-Fee (BIP-125) puoi aumentare la commissione di una transazione dopo l&apos;invio. Senza questo, una tassa più alta può essere raccomandato per compensare l&apos;aumento del rischio di ritardo di transazione."]].

Definition it_SendCoinsDialog_2 : list message :=
  [Message false [Loc None "+3"]
     "Enable Replace-By-Fee" true
     ["Abilita sostituzione per commissione"];
   Message false [Loc None "+37"]
     "Confirm the send action" true
     ["Confermare l&apos;azione di invio"];
   Message false [Loc None "+3"]
     "S&amp;end" true
     ["S&amp;end"];
   Message false [Loc None "+23"]
     "Clear all fields of the form." true
     ["Cancellare tutti i campi del modulo."];
   Message false [Loc None "+3"]
     "Clear &amp;All" true
     ["Cancella &amp;tutti"];
   Message false [Loc None "+14"]
     "Send to multiple recipients at once" true
     ["Invia a più destinatari contemporaneamente"];
   Message false [Loc None "+3"]
     "Add &amp;Recipient" true
     ["Aggiungi &amp;gt; Destinatario"];
   Message false [Loc None "+38"]
     "Balance:" true
     ["equilibrio:"];
   Message false [Loc (Some "../sendcoinsdialog.cpp") "-730"]
     "Add Output" true
     ["Aggiungi output"];
   Message false [Loc None "+3"]
     "Add Recipient" true
     ["Aggiungi destinatario"];
   Message false [Loc None "+14"]
     "Copy quantity" true
     ["Copia quantità"];
   Message false [Loc None "+1"]
     "Copy amount" true
     ["Copia importo"];
   Message false [Loc None "+1"]
     "Copy fee" true
     ["Tassa di copia"];
   Message false [Loc None "+1"]
     "Copy after fee" true
     ["Copia dopo la tassa"];
   Message false [Loc None "+1"]
     "Copy bytes" true
     ["Copia byte"];
   Message false [Loc None "+1"]
     "Copy dust" true
     ["Copia polvere"];
   Message false [Loc None "+1"]
     "Copy change" true
     ["Copia modifica"];
   Message false [Loc None "+88"]
     "%1 (%2 blocks)" true
     ["%1 (%2 blocchi)"];
   Message false [Loc None "+39"]
     "This tab allows manually activating Staking funds for ColdStaking. This will take longer than the &quot;Automated ColdStaking activation&quot; to start staking but wallet does not need to be online for the activation." true
     ["Questa scheda consente l&apos;attivazione manuale dei fondi di Staking per ColdStaking. Questo richiederà più tempo rispetto all&apos;&quot;attivazione automatica di ColdStaking&quot; per iniziare a fare la puntata, ma il portafoglio non deve essere online per l&apos;attivazione."];
   Message false [Loc None "+103"]
     "Error Remote Staking Address" true
     ["Errore Indirizzo di staking remoto"];
   Message false [Loc None "+0"]
     "The remote stake address can&apos;t be part of this wallet." true
     ["L&apos;indirizzo di puntata remoto non può far parte di questo portafoglio."];
   Message false [Loc None "+96"]
     "from wallet %1" true
     ["dal portafoglio %1"];
   Message false [Loc None "+21"; Loc None "+5"; Loc None "+5"; Loc None "+4"]
     "%1 to %2" true
     ["Da %1 a %2"];
   Message false [Loc None "+6"]
     "Are you sure you want to send?" true
     ["Sei sicuro di voler inviare?"];
   Message false [Loc None "+2"]
     "Please, review your transaction." true
     ["Per favore, rivedere la transazione."];
   Message false [Loc None "+11"]
     "Estimated Transaction fee" true
     ["Commissione di transazione stimata"];
   Message false [Loc None "+13"]
     "removed for transaction fee" true
     ["rimosso per la commissione di transazione"];
   Message false [Loc None "+2"]
     "added as transaction fee" true
     ["aggiunto come commissione di transazione"];
   Message false [Loc None "+5"]
     "You can increase the fee later (signals Replace-By-Fee, BIP-125)." true
     ["È possibile aumentare la tassa in un secondo momento (segnali Replace-By-Fee, BIP-125)."]].

Definition it_SendCoinsDialog_3 : list message :=
  [Message false [Loc None "+2"]
     "Not signalling Replace-By-Fee, BIP-125." true
     ["Non segnalando Replace-By-Fee, BIP-125."];
   Message false [Loc None "+12"]
     "Total Amount" true
     ["Importo totale"];
   Message false [Loc None "+6"]
     "Your hardware device must be connected to sign this txn." true
     ["Il dispositivo hardware deve essere collegato per firmare questo txn."];
   Message false [Loc None "+4"]
     "Confirm send coins" true
     ["Conferma di inviare monete"];
   Message false [Loc None "+248"]
     "The recipient address is not valid. Please recheck." true
     ["L&apos;indirizzo del destinatario non è valido. Si prega di ricontrollare."];
   Message false [Loc None "+3"]
     "The amount to pay must be larger than 0." true
     ["L&apos;importo da pagare deve essere maggiore di 0."];
   Message false [Loc None "+3"]
     "The amount exceeds your balance." true
     ["L&apos;importo supera il saldo."];
   Message false [Loc None "+3"]
     "The total exceeds your balance when the %1 transaction fee is included." true
     ["Il totale supera il saldo quando viene inclusa la commissione di transazione %1."];
   Message false [Loc None "+3"]
     "Duplicate address found: addresses should only be used once each." true
     ["Indirizzo duplicato trovato: gli indirizzi devono essere utilizzati solo una volta ciascuno."];
   Message false [Loc None "+3"]
     "Transaction creation failed!" true
     ["Creazione della transazione non riuscita!"];
   Message false [Loc None "+4"]
     "The transaction was rejected with the following reason: %1" true
     ["La transazione è stata rifiutata con il seguente motivo: %1"];
   Message false [Loc None "+4"]
     "A fee higher than %1 is considered an absurdly high fee." true
     ["Una tassa superiore a %1 è considerata una tassa assurdamente alta."];
   Message false [Loc None "+3"]
     "Payment request expired." true
     ["Richiesta di pagamento scaduta."];
   Message false [Loc None "+96"]
     "Pay only the required fee of %1" true
     ["Pagare solo la tassa richiesta di %1"];
   Message true [Loc None "+76"]
     "Estimated to begin confirmation within %n block(s)." true
     ["Stimata per iniziare la conferma all&apos;interno di %n blocchi."; "Stimata per iniziare la conferma all&apos;interno di %n blocchi."];
   Message false [Loc None "+130"]
     "Warning: Invalid Bitcoin Confidential address" true
     ["Attenzione: Indirizzo riservato Bitcoin non valido"];
   Message false [Loc None "+8"]
     "Error custom change address" true
     ["Errore indirizzo di modifica personalizzato"];
   Message false [Loc None "+0"]
     "The address you selected for change is not part of this wallet." true
     ["L&apos;indirizzo selezionato per il cambiamento non fa parte di questo portafoglio."];
   Message false [Loc None "+15"]
     "(no label)" true
     ["(nessuna etichetta)"]].

Definition it_SendCoinsEntry_1 : list message :=
  [Message false [Loc (Some "../forms/sendcoinsentry.ui") "+30"]
     "This is a normal payment." true
     ["Questo è un pagamento normale."];
   Message false [Loc None "+71"; Loc None "+463"; Loc None "+130"]
     "Subtract fee from amount" true
     ["Sottrarre la commissione dall&apos;importo"];
   Message false [Loc None "-580"; Loc None "+463"; Loc None "+130"]
     "Use available balance" true
     ["Usa saldo disponibile"];
   Message false [Loc None "-562"]
     "Message" true
     ["Messaggio"];
   Message false [Loc None "+24"; Loc None "+261"]
     "The Bitcoin Confidential address to send the payment to" true
     ["L&apos;indirizzo riservato Bitcoin a cui inviare il pagamento"];
   Message false [Loc None "-254"; Loc None "+261"; Loc None "+297"; Loc None "+104"]
     "Choose previously used address" true
     ["Scegliere l&apos;indirizzo utilizzato in precedenza"];
   Message false [Loc None "-646"; Loc None "+261"; Loc None "+297"; Loc None "+104"]
     "Alt+A" true
     ["ALT , A"];
   Message false [Loc None "-655"; Loc None "+261"; Loc None "+297"; Loc None "+104"]
     "Paste address from clipboard" true
     ["Incolla indirizzo dagli Appunti"];
   Message false [Loc None "-646"; Loc None "+261"; Loc None "+297"; Loc None "+104"]
     "Alt+P" true
     ["Alt : P (Alt)"];
   Message false [Loc None "-655"; Loc None "+261"; Loc None "+401"; Loc None "+520"; Loc None "+564"]
     "Remove this entry" true
     ["Rimuovi questa voce"];
   Message false [Loc None "-1718"; Loc None "+277"]
     "Pay To" true
     ["Paga per"];
   Message false [Loc None "-258"; Loc None "+242"; Loc None "+277"]
     "Amount" true
     ["quantità"];
   Message false [Loc None "-495"]
     "Enter a label for this address to add it to the list of used addresses" true
     ["Immettere un&apos;etichetta per questo indirizzo per aggiungerlo all&apos;elenco degli indirizzi utilizzati"];
   Message false [Loc None "+15"]
     "Label" true
     ["etichetta"];
   Message false [Loc None "+33"]
     "A short message sent over the Bitcoin Confidential network." true
     ["Un breve messaggio inviato sulla rete Bitcoin Confidential."];
   Message false [Loc None "+6"]
     "Encrypted message sent with the transaction (optional, max. 24 characters)." true
     ["Messaggio crittografato inviato con la transazione (facoltativo, massimo 24 caratteri)."];
   Message false [Loc None "+261"]
     "This is a payment to a coldstake script." true
     ["Questo è un pagamento a uno script coldstake."];
   Message false [Loc None "+83"]
     "The fee will be deducted from the amount being sent. The recipient will receive less Bitcoin Confidential than you enter in the amount field. If multiple recipients are selected, the fee is split equally." true
     ["La commissione verrà detratta dall&apos;importo inviato. Il destinatario riceverà meno Bitcoin Confidential di quello che inserisci nel campo dell&apos;importo. Se sono selezionati più destinatari, la commissione viene suddivisa equamente."];
   Message false [Loc None "+36"]
     "ColdStake address used by your remote staking node to stake your funds." true
     ["ColdStake indirizzo utilizzato dal nodo di puntata remoto per sorfare i vostri fondi."];
   Message false [Loc None "+80"]
     "ColdStake " true
     ["ColdStake"];
   Message false [Loc None "+24"]
     "The stake address on the remote node (cannot be in this wallet)" true
     ["L&apos;indirizzo della puntata sul nodo remoto (non può essere in questo portafoglio)"];
   Message false [Loc None "+81"]
     " Stake " true
     ["Gioco"];
   Message false [Loc None "+434"]
     "This is an unauthenticated payment request." true
     ["Si tratta di una richiesta di pagamento non autenticata."];
   Message false [Loc None "+40"; Loc None "+560"]
     "Pay To:" true
     ["Paga a:"]].

Definition it_SendCoinsEntry_2 : list message :=
  [Message false [Loc None "-526"; Loc None "+577"]
     "Memo:" true
     ["promemoria m inv:"];
   Message false [Loc None "-560"; Loc None "+547"]
     "A&amp;mount:" true
     ["A&amp;mount:"];
   Message false [Loc None "-78"]
     "This is an authenticated payment request." true
     ["Si tratta di una richiesta di pagamento autenticata."];
   Message false [Loc (Some "../sendcoinsentry.cpp") "+89"]
     "Enter a label for this address to add it to your address book" true
     ["Immettere un&apos;etichetta per questo indirizzo per aggiungerlo alla rubrica"]].

Definition it_SendConfirmationDialog : list message :=
  [Message false [Loc (Some "../sendcoinsdialog.cpp") "+85"; Loc None "+5"]
     "Yes" true
     ["sì"]].

Definition it_ShutdownWindow : list message :=
  [Message false [Loc (Some "../utilitydialog.cpp") "+83"]
     "%1 is shutting down..." true
     ["%1 sta arrestando..."];
   Message false [Loc None "+1"]
     "Do not shut down the computer until this window disappears." true
     ["Non spegnere il computer finché questa finestra non scompare."]].

Definition it_SignVerifyMessageDialog_1 : list message :=
  [Message false [Loc (Some "../forms/signverifymessagedialog.ui") "+14"]
     "Signatures - Sign / Verify a Message" true
     ["Firme - Firma / Verifica di un messaggio"];
   Message false [Loc None "+14"]
     "&amp;Sign Message" true
     ["&amp;Firma messaggio"];
   Message false [Loc None "+10"]
     "&amp;Verify Message" true
     ["&amp;Verifica messaggio"];
   Message false [Loc None "+31"]
     "You can sign messages/agreements with your addresses to prove you can receive Bitcoin Confidential sent to them. Be careful not to sign anything vague or random, as phishing attacks may try to trick you into signing your identity over to them. Only sign fully-detailed statements you agree to." true
     ["Puoi firmare messaggi /accordi con i tuoi indirizzi per dimostrare che puoi ricevere Bitcoin Confidential inviato loro. Fai attenzione a non firmare nulla di vago o casuale, poiché gli attacchi di phishing potrebbero tentare di indurti a firmare la tua identità. Firmare solo dichiarazioni dettagliate a cui l&apos;utente accetta."];
   Message false [Loc None "+18"]
     "The Bitcoin Confidential address to sign the message with" true
     ["L&apos;indirizzo riservato Bitcoin con cui firmare il messaggio"];
   Message false [Loc None "+7"; Loc None "+213"]
     "Choose previously used address" true
     ["Scegliere l&apos;indirizzo utilizzato in precedenza"];
   Message false [Loc None "-203"; Loc None "+213"]
     "Alt+A" true
     ["ALT , A"];
   Message false [Loc None "-203"]
     "Paste address from clipboard" true
     ["Incolla indirizzo dagli Appunti"];
   Message false [Loc None "+10"]
     "Alt+P" true
     ["Alt : P (Alt)"];
   Message false [Loc None "+12"]
     "Enter the message you want to sign here" true
     ["Inserisci qui il messaggio che vuoi firmare"];
   Message false [Loc None "+7"]
     "Signature" true
     ["firma"];
   Message false [Loc None "+27"]
     "Copy the current signature to the system clipboard" true
     ["Copiare la firma corrente negli Appunti di sistema"];
   Message false [Loc None "+21"]
     "Sign the message to prove you own this Bitcoin Confidential address" true
     ["Firma il messaggio per dimostrare di essere il proprietario di questo indirizzo riservato Bitcoin"];
   Message false [Loc None "+3"]
     "Sign &amp;Message" true
     ["Firma &amp;messaggio"];
   Message false [Loc None "+14"]
     "Reset all sign message fields" true
     ["Reimpostare tutti i campi dei messaggi di firma"];
   Message false [Loc None "+3"; Loc None "+153"]
     "Clear &amp;All" true
     ["Cancella &amp;tutti"];
   Message false [Loc None "-85"]
     "Enter the receiver&apos;s address, message (ensure you copy line breaks, spaces, tabs, etc. exactly) and signature below to verify the message. Be careful not to read more into the signature than what is in the signed message itself, to avoid being tricked by a man-in-the-middle attack. Note that this only proves the signing party receives with the address, it cannot prove sendership of any transaction!" true
     ["Inserisci l&apos;indirizzo del destinatario, il messaggio (assicurarsi di copiare esattamente le interruzioni di riga, gli spazi, le tabulazioni, ecc.) e la firma qui sotto per verificare il messaggio. Fare attenzione a non leggere più nella firma rispetto a ciò che è nel messaggio firmato stesso, per evitare di essere ingannati da un attacco man-in-the-middle. Si noti che questo dimostra solo che la parte che firma riceve con l&apos;indirizzo, non può dimostrare la mittentenave di qualsiasi transazione!"];
   Message false [Loc None "+21"]
     "The Bitcoin Confidential address the message was signed with" true
     ["L&apos;indirizzo riservato Bitcoin con cui è stato firmato il messaggio"];
   Message false [Loc None "+44"]
     "Verify the message to ensure it was signed with the specified Bitcoin Confidential address" true
     ["Verificare il messaggio per assicurarsi che sia stato firmato con l&apos;indirizzo Bitcoin Confidential specificato"];
   Message false [Loc None "+3"]
     "Verify &amp;Message" true
     ["Verifica &amp;gt; Messaggio"];
   Message false [Loc None "+14"]
     "Reset all verify message fields" true
     ["Reimposta tutti i campi dei messaggi di verifica"];
   Message false [Loc (Some "../signverifymessagedialog.cpp") "+39"]
     "Click &quot;Sign Message&quot; to generate signature" true
     ["Fare clic su &quot;Firma messaggio&quot; per generare la firma"];
   Message false [Loc None "+78"; Loc None "+78"]
     "The entered address is invalid." true
     ["L&apos;indirizzo immesso non è valido."];
   Message false [Loc None "-78"; Loc None "+7"; Loc None "+71"; Loc None "+6"]
     "Please check the address and try again." true
     ["Controllare l&apos;indirizzo e riprovare."];
   Message false [Loc None "-77"; Loc None "+77"]
     "The entered address does not refer to a key." true
     ["L&apos;indirizzo inserito non fa riferimento a una chiave."];
   Message false [Loc None "-69"]
     "Wallet unlock was cancelled." true
     ["Lo sblocco del portafoglio è stato annullato."];
   Message false [Loc None "+8"]
     "Private key for the entered address is not available." true
     ["La chiave privata per l&apos;indirizzo immesso non è disponibile."];
   Message false [Loc None "+12"]
     "Message signing failed." true
     ["Firma del messaggio non riuscita."]].

Definition it_SignVerifyMessageDialog_2 : list message :=
  [Message false [Loc None "+5"]
     "Message signed." true
     ["Messaggio firmato."];
   Message false [Loc None "+55"]
     "The signature could not be decoded." true
     ["Impossibile decodificare la firma."];
   Message false [Loc None "+0"; Loc None "+13"]
     "Please check the signature and try again." true
     ["Controllare la firma e riprovare."];
   Message false [Loc None "+0"]
     "The signature did not match the message digest." true
     ["La firma non corrisponde al digest del messaggio."];
   Message false [Loc None "+6"]
     "Message verification failed." true
     ["Verifica del messaggio non riuscita."];
   Message false [Loc None "+5"]
     "Message verified." true
     ["Messaggio verificato."]].

Definition it_SplashScreen : list message :=
  [Message false [Loc (Some "../networkstyle.cpp") "+19"]
     "[testnet]" true
     ["[testnet]"]].

Definition it_StakingDialog_1 : list message :=
  [Message false [Loc (Some "../forms/stakingdialog.ui") "+14"]
     "Send Coins" true
     ["Invia monete"];
   Message false [Loc None "+23"]
     "Status" true
     ["Stato"];
   Message false [Loc None "+19"]
     "Addresses" true
     ["Indirizzi"];
   Message false [Loc None "+16"]
     "Rewards" true
     ["Ricompense"];
   Message false [Loc None "+16"]
     "Convert to Spending" true
     ["Converti in spesa"];
   Message false [Loc None "+16"]
     "Convert to Staking" true
     ["Converti in Staking"];
   Message false [Loc None "+16"]
     "Activate ColdStaking" true
     ["Attivare ColdStaking"];
   Message false [Loc None "+79"]
     "Total supply" true
     ["Fornitura totale"];
   Message false [Loc None "+26"]
     "Current block reward" true
     ["Ricompensa del blocco attuale"];
   Message false [Loc None "+26"]
     "Current block height" true
     ["Altezza blocco corrente"];
   Message false [Loc None "+20"]
     "Network difficulty" true
     ["Difficoltà di rete"];
   Message false [Loc None "+26"]
     "Annual staking reward" true
     ["Ricompensa di presa annuale"];
   Message false [Loc None "+13"]
     "Current staking reward" true
     ["Ricompensa di valutazione attuale"];
   Message false [Loc None "+26"]
     "Network staking weight" true
     ["Peso della presa in rete"];
   Message false [Loc None "+20"]
     "Your estimated annual reward" true
     ["Il tuo premio annuale stimato"];
   Message false [Loc None "+13"]
     "?" true
     ["?"];
   Message false [Loc None "+80"]
     "Staking" true
     ["Picchettamento"];
   Message false [Loc None "+24"; Loc None "+233"]
     "ENABLED" true
     ["Abilitato"];
   Message false [Loc None "-210"]
     "Pause" true
     ["fare una pausa"];
   Message false [Loc None "+50"; Loc None "+425"]
     "Estimated reward frequency" true
     ["Frequenza di ricompensa stimata"];
   Message false [Loc None "-412"]
     "Stakable Funds" true
     ["Fondi Stakable"];
   Message false [Loc None "+20"]
     "Wallet staking weight" true
     ["Peso della presa del portafoglio"];
   Message false [Loc None "+103"]
     "Cold Staking" true
     ["Staking freddo"];
   Message false [Loc None "+55"]
     "Remote Stake address" true
     ["Indirizzo di puntata remoto"];
   Message false [Loc None "+13"]
     "Automated ColdStaking activation" true
     ["Attivazione ColdStaking automatizzata"];
   Message false [Loc None "+25"]
     "Enable " true
     ["permettere"];
   Message false [Loc None "+57"]
     "Enable Hot Staking with the STAKING ENABLE button and leaving wallet open.  Enable automated ColdStake with COLDSTAKING ENABLE button and setting a remote stake address. On remote node enable staking with &quot;bitcoinc-cli walletsettings stakingstatus true&quot; and create a &quot;Stake&quot; address on your remote node with &quot;bitcoinc-cli getnewstakeaddress&quot;, or get a &quot;Stake&quot; address from a ColdStaking pool. Funds gradually transition over from hot staking to cold staking while your wallet is open. The time required for the activation depends on the wallet&apos;s staking weight and can take several days with a low weight. Once the activation bar shows complete, wallet can be closed.  Alternatively, use the Activate Coldstaking tab to send an activation transaction.  This will take longer to start staking but wallet does not need to be online." true
     ["Abilita Hot Staking con il pulsante STAKING ENABLE e lascia il portafoglio aperto.  Abilita ColdStake automatizzato con il pulsante COLDSTAKING ENABLE e imposta un indirizzo di puntata remoto. Sul nodo remoto abilitare la puntata con &quot;bitcoinc-cli walletsettings stakingstatus true&quot; e creare un indirizzo &quot;Stake&quot; sul nodo remoto con &quot;bitcoinc-cli getnewstakeaddress&quot;, o ottenere un indirizzo &quot;Stake&quot; da un pool ColdStaking. I fondi passano gradualmente dalla posta in discosa a caldo alla posta in dicia a freddo mentre il portafoglio è aperto. Il tempo necessario per l&apos;attivazione dipende dal peso di puntata del portafoglio e può richiedere diversi giorni con un peso ridotto. Una volta che la barra di attivazione mostra completa, portafoglio può essere chiuso.  In alternativa, utilizzare la scheda Attiva Coldstaking per inviare una transazione di attivazione.  Questo richiederà più tempo per iniziare a puntate, ma portafoglio non ha bisogno di essere online."];
   Message false [Loc None "+20"]
     "ColdStake activation progress" true
     ["Avanzamento dell&apos;attivazione di ColdStake"];
   Message false [Loc None "+77"]
     "Amount activated for ColdStaking" true
     ["Importo attivato per ColdStaking"]].

Definition it_StakingDialog_2 : list message :=
  [Message false [Loc None "+13"]
     "Estimated weight" true
     ["Peso stimato"];
   Message false [Loc None "+106"]
     "Filtered" true
     ["Filtrata"];
   Message false [Loc None "+15"; Loc None "+88"]
     "Staking rewards" true
     ["Ricompense per la presa di sorfa"];
   Message false [Loc None "-75"; Loc None "+48"]
     "Solved blocks" true
     ["Blocchi risolti"];
   Message false [Loc None "-41"; Loc None "+55"]
     "4000" true
     ["4000"];
   Message false [Loc None "-48"; Loc None "+41"]
     "100000BC" true
     ["100000A.C."];
   Message false [Loc None "-22"]
     "Total" true
     ["totale"];
   Message false [Loc (Some "../stakingdialog.cpp") "+258"; Loc None "+17"]
     "No stakable funds available. Use the &quot;Convert to staking&quot; tab to convert funds for staking." true
     ["Nessun fondo stakable disponibile. Utilizza la scheda &quot;Converti in più&quot; per convertire i fondi per la ricerca."];
   Message false [Loc None "-15"; Loc None "+18"]
     "No eligible staking outputs available. Staking funds need to have 225 confirmations to be eligible." true
     ["Non sono disponibili output di presa idonei. I fondi di scommessa devono avere 225 conferme per essere ammissibili."];
   Message false [Loc None "-9"]
     "Staking not initialized yet. Wait a moment." true
     ["La presa non è ancora inizializzata. Aspetta un momento."];
   Message false [Loc None "+3"]
     "Staking is stopped. Press the start button above to enable staking." true
     ["La staking è interrotta. Premere il pulsante di avvio qui sopra per abilitare la posta in dicicono."];
   Message false [Loc None "+10"]
     "Wallet is locked. To start staking unlock the wallet for staking only. To unlock click the lock icon in the bottom right hand portion of the window." true
     ["Portafoglio è bloccato. Per iniziare a sfare sblocca il portafoglio solo per la presa. Per sbloccare clicca sull&apos;icona del lucchetto nella parte in basso a destra della finestra."];
   Message false [Loc None "+4"]
     "Wallet is not fully synced. To start staking make sure the wallet has connections to the network and wait until it catched up with the latest blocks." true
     ["Wallet non è completamente sincronizzato. Per iniziare a scommettere assicurarsi che il portafoglio ha connessioni alla rete e attendere fino a quando non ha raggiunto con gli ultimi blocchi."];
   Message false [Loc None "+3"]
     "Staking is disabled. Set the config paramter &quot;staking=1&quot; in the bitcoinc.conf to enable it." true
     ["La posta è disabilitata. Impostare il parametro di configurazione &quot;staking 1&quot; nel file bitcoinc.conf per abilitarlo."];
   Message false [Loc None "+72"]
     "No eligible coldstaking outputs available. Your coldstaking funds need to have 225 confirmations to be eligible." true
     ["Non sono disponibili uscite ammissibili per lo sorprendono a freddo. I tuoi fondi per il coldstaking devono avere 225 conferme per essere idonei."];
   Message false [Loc None "+160"]
     "Set Remote Staking Address" true
     ["Imposta indirizzo di staking remoto"];
   Message false [Loc None "+1"]
     "Enter the remote staking address:" true
     ["Immettere l&apos;indirizzo di staking remoto:"]].

Definition it_TrafficGraphWidget : list message :=
  [Message false [Loc (Some "../trafficgraphwidget.cpp") "+81"]
     "KB/s" true
     ["KB/s"]].

Definition it_TransactionDesc_1 : list message :=
  [Message true [Loc (Some "../transactiondesc.cpp") "+39"]
     "Open for %n more block(s)" true
     ["Apri per %n più blocchi"; "Apri per %n più blocchi"];
   Message false [Loc None "+2"]
     "Open until %1" true
     ["Aperto fino a %1"];
   Message false [Loc None "+6"]
     "conflicted with a transaction with %1 confirmations" true
     ["in conflitto con una transazione con %1 conferme"];
   Message false [Loc None "+2"]
     "0/unconfirmed, %1" true
     ["0/non confermato, %1"];
   Message false [Loc None "+0"]
     "in memory pool" true
     ["nel pool di memoria"];
   Message false [Loc None "+0"]
     "not in memory pool" true
     ["non nel pool di memoria"];
   Message false [Loc None "+0"]
     "abandoned" true
     ["disinvolto"];
   Message false [Loc None "+2"]
     "%1/unconfirmed" true
     ["%1/non confermato"];
   Message false [Loc None "+2"]
     "%1 confirmations" true
     ["%1 conferme"];
   Message false [Loc None "+29"]
     "Status" true
     ["Stato"];
   Message false [Loc None "+3"]
     "Date" true
     ["data"];
   Message false [Loc None "+4"; Loc None "+223"]
     "Transaction ID" true
     ["ID transazione"];
   Message false [Loc None "-210"; Loc None "+211"]
     "Transaction total size" true
     ["Dimensione totale transazione"];
   Message false [Loc None "-209"]
     "Confirmations" true
     ["Conferme"];
   Message false [Loc None "+4"]
     "Block hash" true
     ["Hash blocco"];
   Message false [Loc None "+1"]
     "Block index" true
     ["Indice di blocco"];
   Message false [Loc None "+1"]
     "Block time" true
     ["Tempo di blocco"];
   Message false [Loc None "+21"]
     "Source" true
     ["fonte"];
   Message false [Loc None "+0"]
     "Generated" true
     ["Generato"];
   Message false [Loc None "+5"; Loc None "+14"; Loc None "+72"]
     "From" true
     ["Da"];
   Message false [Loc None "-72"]
     "unknown" true
     ["sconosciuto"];
   Message false [Loc None "+1"; Loc None "+20"; Loc None "+72"]
     "To" true
     ["A"];
   Message false [Loc None "-90"]
     "own address" true
     ["proprio indirizzo"];
   Message false [Loc None "+0"; Loc None "+69"]
     "watch-only" true
     ["solo orologio"];
   Message false [Loc None "-67"]
     "label" true
     ["etichetta"];
   Message false [Loc None "+36"; Loc None "+12"; Loc None "+58"; Loc None "+37"; Loc None "+66"]
     "Credit" true
     ["credito"];
   Message true [Loc None "-171"]
     "matures in %n more block(s)" true
     ["matura in %n più blocchi"; "matura in %n più blocchi"]].

Definition it_TransactionDesc_2 : list message :=
  [Message false [Loc None "+2"]
     "not accepted" true
     ["non accettato"];
   Message false [Loc None "+64"; Loc None "+26"; Loc None "+71"]
     "Debit" true
     ["addebito"];
   Message false [Loc None "-87"]
     "Total debit" true
     ["Totale in Dare"];
   Message false [Loc None "+1"]
     "Total credit" true
     ["Credito totale"];
   Message false [Loc None "+5"]
     "Transaction fee" true
     ["Commissione di transazione"];
   Message false [Loc None "+27"]
     "Net amount" true
     ["Importo netto"];
   Message false [Loc None "+6"; Loc None "+12"]
     "Message" true
     ["Messaggio"];
   Message false [Loc None "-10"]
     "Comment" true
     ["commento"];
   Message false [Loc None "+4"]
     "Transaction virtual size" true
     ["Dimensione virtuale transazione"];
   Message false [Loc None "+1"]
     "Output index" true
     ["Indice di uscita"];
   Message false [Loc None "+10"]
     "Narration" true
     ["narrazione"];
   Message false [Loc None "+13"]
     "Merchant" true
     ["commerciante"];
   Message false [Loc None "+7"]
     "Generated coins must mature %1 blocks before they can be spent. When you generated this block, it was broadcast to the network to be added to the block chain. If it fails to get into the chain, its state will change to &quot;not accepted&quot; and it won&apos;t be spendable. This may occasionally happen if another node generates a block within a few seconds of yours." true
     ["Le monete generate devono maturare %1 blocchi prima di poter essere spese. Quando è stato generato questo blocco, è stato trasmesso alla rete per essere aggiunto alla catena di blocchi. Se non riesce a entrare nella catena, il suo stato cambierà in &quot;non accettato&quot; e non sarà spendibile. Questo può accadere occasionalmente se un altro nodo genera un blocco entro pochi secondi dal tuo."];
   Message false [Loc None "+8"]
     "Debug information" true
     ["Informazioni di debug"];
   Message false [Loc None "+13"]
     "Transaction" true
     ["atti mpl"];
   Message false [Loc None "+3"]
     "Inputs" true
     ["Ingressi"];
   Message false [Loc None "+21"]
     "Amount" true
     ["quantità"];
   Message false [Loc None "+1"; Loc None "+1"]
     "true" true
     ["vero"];
   Message false [Loc None "-1"; Loc None "+1"]
     "false" true
     ["falso"]].

Definition it_TransactionDescDialog : list message :=
  [Message false [Loc (Some "../forms/transactiondescdialog.ui") "+26"]
     "This pane shows a detailed description of the transaction" true
     ["Questo riquadro mostra una descrizione dettagliata della transazione"];
   Message false [Loc (Some "../transactiondescdialog.cpp") "+17"]
     "Details for %1" true
     ["Dettagli per %1"]].

Definition it_TransactionTableModel_1 : list message :=
  [Message false [Loc (Some "../transactiontablemodel.cpp") "+257"]
     "Date" true
     ["data"];
   Message false [Loc None "+2"]
     "Type" true
     ["digitare"];
   Message false [Loc None "+2"]
     "Label" true
     ["etichetta"];
   Message false [Loc None "+3"]
     "In" true
     ["in"];
   Message false [Loc None "+0"]
     "Out" true
     ["Cambio"];
   Message true [Loc None "+73"]
     "Open for %n more block(s)" true
     ["Apri per %n più blocchi"; "Apri per %n più blocchi"];
   Message false [Loc None "+3"]
     "Open until %1" true
     ["Aperto fino a %1"];
   Message false [Loc None "+3"]
     "Unconfirmed" true
     ["non confermato"];
   Message false [Loc None "+4"]
     "Orphaned" true
     ["Orfani"];
   Message false [Loc None "+2"]
     "Abandoned" true
     ["disinvolto"];
   Message false [Loc None "+22"]
     "Confirming (%1 of %2 recommended confirmations)" true
     ["Conferma (%1 delle %2 conferme consigliate)"];
   Message false [Loc None "+3"]
     "Confirmed (%1 confirmations)" true
     ["Confermato (%1 conferme)"];
   Message false [Loc None "+3"]
     "Conflicted" true
     ["Conflitto"];
   Message false [Loc None "+3"]
     "Immature (%1 confirmations, will be available after %2)" true
     ["Immaturo (%1 conferme, sarà disponibile dopo %2)"];
   Message false [Loc None "+3"]
     "Generated but not accepted" true
     ["Generato ma non accettato"];
   Message false [Loc None "+39"]
     "Received with" true
     ["Ricevuto con"];
   Message false [Loc None "+2"]
     "Received from" true
     ["Ricevuto da"];
   Message false [Loc None "+3"]
     "Sent to" true
     ["Inviato a"];
   Message false [Loc None "+2"]
     "Payment to yourself" true
     ["Pagamento a te stesso"];
   Message false [Loc None "+2"]
     "Airdrop" true
     ["Airdrop"];
   Message false [Loc None "+2"]
     "Staked" true
     ["Puntato"];
   Message false [Loc None "+30"]
     "watch-only" true
     ["solo orologio"];
   Message false [Loc None "+16"]
     "(n/a)" true
     ["(n/a)"];
   Message false [Loc None "+168"]
     "Unlock to show" true
     ["Sblocca per mostrare"];
   Message false [Loc None "+111"]
     "(no label)" true
     ["(nessuna etichetta)"];
   Message false [Loc None "+42"; Loc None "+14"]
     "Transaction status. Hover over this field to show number of confirmations." true
     ["Stato della transazione. Passare il mouse su questo campo per visualizzare il numero di conferme."];
   Message false [Loc None "-12"]
     "Date and time that the reward was received." true
     ["Data e ora in cui il premio è stato ricevuto."];
   Message false [Loc None "+2"; Loc None "+16"]
     "Whether or not a watch-only address is involved in this transaction." true
     ["Se un indirizzo di sola visualizzazione è coinvolto o meno in questa transazione."];
   Message false [Loc None "-14"]
     "Address used for the block solving" true
     ["Indirizzo utilizzato per la risoluzione dei blocchi"]].

Definition it_TransactionTableModel_2 : list message :=
  [Message false [Loc None "+2"]
     "Staking reward." true
     ["Ricompensa di sorpasso."];
   Message false [Loc None "+8"]
     "Date and time that the transaction was received." true
     ["Data e ora in cui la transazione è stata ricevuta."];
   Message false [Loc None "+2"]
     "Type of transaction." true
     ["Tipo di transazione."];
   Message false [Loc None "+4"]
     "User-defined intent/purpose of the transaction." true
     ["Finalità/scopo definito dall&apos;utente della transazione."];
   Message false [Loc None "+2"]
     "Type of input coin." true
     ["Tipo di moneta di input."];
   Message false [Loc None "+2"]
     "Type of output coin." true
     ["Tipo di moneta di uscita."];
   Message false [Loc None "+2"]
     "Amount removed from or added to balance." true
     ["Importo rimosso o aggiunto al saldo."]].

Definition it_TransactionView_1 : list message :=
  [Message false [Loc (Some "../transactionview.cpp") "+53"; Loc None "+11"; Loc None "+18"]
     "All" true
     ["tutti"];
   Message false [Loc None "-17"]
     "Today" true
     ["oggi"];
   Message false [Loc None "+1"]
     "This week" true
     ["questa settimana"];
   Message false [Loc None "+1"]
     "This month" true
     ["Questo mese"];
   Message false [Loc None "+1"]
     "Last month" true
     ["Mese scorso"];
   Message false [Loc None "+1"]
     "This year" true
     ["Quest&apos;anno"];
   Message false [Loc None "+1"]
     "Range..." true
     ["serie..."];
   Message false [Loc None "+13"]
     "Received with" true
     ["Ricevuto con"];
   Message false [Loc None "+2"]
     "Sent to" true
     ["Inviato a"];
   Message false [Loc None "+2"]
     "To yourself" true
     ["A te stesso"];
   Message false [Loc None "+1"]
     "Other" true
     ["Altro"];
   Message false [Loc None "+1"]
     "Airdrop" true
     ["Airdrop"];
   Message false [Loc None "+5"]
     "Enter address, transaction id, or label to search" true
     ["Immettere l&apos;indirizzo, l&apos;ID transazione o l&apos;etichetta da cercare"];
   Message false [Loc None "+5"]
     "Min amount" true
     ["Importo minimo"];
   Message false [Loc None "+52"]
     "Abandon transaction" true
     ["Abbandona transazione"];
   Message false [Loc None "+1"]
     "Increase transaction fee" true
     ["Aumentare la commissione di transazione"];
   Message false [Loc None "+2"]
     "Copy address" true
     ["Copia indirizzo"];
   Message false [Loc None "+1"]
     "Copy label" true
     ["Copia etichetta"];
   Message false [Loc None "+1"]
     "Copy amount" true
     ["Copia importo"];
   Message false [Loc None "+1"]
     "Copy transaction ID" true
     ["Copia ID transazione"];
   Message false [Loc None "+1"]
     "Copy raw transaction" true
     ["Copia transazione non elaborata"];
   Message false [Loc None "+1"]
     "Copy full transaction details" true
     ["Copiare i dettagli completi della transazione"];
   Message false [Loc None "+1"]
     "Edit label" true
     ["Modifica etichetta"];
   Message false [Loc None "+1"]
     "Show transaction details" true
     ["Mostra dettagli transazione"];
   Message false [Loc None "+239"]
     "Export Transaction History" true
     ["Esporta cronologia transazioni"];
   Message false [Loc None "+1"]
     "Comma separated file (*.csv)" true
     ["File separato da virgole (con estensione csv)"];
   Message false [Loc None "+9"]
     "Confirmed" true
     ["Confermato"];
   Message false [Loc None "+2"]
     "Watch-only" true
     ["Solo orologio"];
   Message false [Loc None "+1"]
     "Date" true
     ["data"]].

Definition it_TransactionView_2 : list message :=
  [Message false [Loc None "+2"]
     "Type" true
     ["digitare"];
   Message false [Loc None "+2"]
     "Label" true
     ["etichetta"];
   Message false [Loc None "+1"]
     "Address" true
     ["indirizzo"];
   Message false [Loc None "+2"]
     "ID" true
     ["id m"];
   Message false [Loc None "+3"]
     "Exporting Failed" true
     ["Esportazione non riuscita"];
   Message false [Loc None "+0"]
     "There was an error trying to save the transaction history to %1." true
     ["Si è verificato un errore durante il tentativo di salvare la cronologia delle transazioni in %1."];
   Message false [Loc None "+4"]
     "Exporting Successful" true
     ["Esportazione riuscita"];
   Message false [Loc None "+0"]
     "The transaction history was successfully saved to %1." true
     ["La cronologia delle transazioni è stata salvata correttamente in %1."];
   Message false [Loc None "+169"]
     "Range:" true
     ["serie:"];
   Message false [Loc None "+8"]
     "to" true
     ["A"]].

Definition it_TxViewDelegate : list message :=
  [Message false [Loc (Some "../overviewpage.cpp") "+95"]
     "Unlock to show" true
     ["Sblocca per mostrare"]].

Definition it_UnitDisplayStatusBarControl : list message :=
  [Message false [Loc (Some "../bitcoingui.cpp") "+122"]
     "Unit to show amounts in. Click to select another unit." true
     ["Unità in cui visualizzare gli importi. Fare clic per selezionare un&apos;altra unità."]].

Definition it_WalletFrame : list message :=
  [Message false [Loc (Some "../walletframe.cpp") "+29"]
     "No wallet has been loaded." true
     ["Nessun portafoglio è stato caricato."]].

Definition it_WalletModel : list message :=
  [Message false [Loc (Some "../walletmodel.cpp") "+592"; Loc None "+4"; Loc None "+11"]
     "Wallet Model" true
     ["Modello Portafoglio"];
   Message false [Loc None "+65"; Loc None "+39"; Loc None "+6"]
     "Fee bump error" true
     ["Errore di rilievo della commissione"];
   Message false [Loc None "-45"]
     "Increasing transaction fee failed" true
     ["Aumento della commissione per le transazioni non riuscito"];
   Message false [Loc None "+6"]
     "Do you want to increase the fee?" true
     ["Vuoi aumentare la tassa?"];
   Message false [Loc None "+4"]
     "Current fee:" true
     ["Tassa corrente:"];
   Message false [Loc None "+4"]
     "Increase:" true
     ["Aumentare:"];
   Message false [Loc None "+4"]
     "New fee:" true
     ["Nuova tassa:"];
   Message false [Loc None "+4"]
     "Confirm fee bump" true
     ["Conferma urto a pagamento"];
   Message false [Loc None "+17"]
     "Can&apos;t sign transaction." true
     ["Impossibile firmare la transazione."];
   Message false [Loc None "+6"]
     "Could not commit transaction" true
     ["Impossibile eseguire il commit della transazione"]].

Definition it_WalletView : list message :=
  [Message false [Loc (Some "../walletview.cpp") "+46"; Loc None "+1"]
     "&amp;Export" true
     ["&amp;Esporta"];
   Message false [Loc None "+9"; Loc None "+29"]
     "Export the data in the current tab to a file" true
     ["Esportare i dati nella scheda corrente in un file"];
   Message false [Loc None "-19"]
     "Selected amount" true
     ["Importo selezionato"];
   Message false [Loc None "+290"]
     "Backup Wallet" true
     ["Portafoglio di backup"];
   Message false [Loc None "+1"]
     "Wallet Data (*.dat)" true
     ["Dati Portafoglio (.dat)"];
   Message false [Loc None "+6"]
     "Backup Failed" true
     ["Backup non riuscito"];
   Message false [Loc None "+0"]
     "There was an error trying to save the wallet data to %1." true
     ["Si è verificato un errore durante il tentativo di salvataggio dei dati del portafoglio in %1."];
   Message false [Loc None "+4"]
     "Backup Successful" true
     ["Backup riuscito"];
   Message false [Loc None "+0"]
     "The wallet data was successfully saved to %1." true
     ["I dati del portafoglio sono stati salvati correttamente in %1."];
   Message false [Loc None "+63"]
     "Cancel" true
     ["Annulla"]].

Definition it_bitcoin_core_1 : list message :=
  [Message false [Loc (Some "../bitcoinstrings.cpp") "+12"]
     "Bitcoin Confidential Core" true
     ["Bitcoin Riservato Nucleo"];
   Message false [Loc None "+1"]
     "The %s developers" true
     ["Gli sviluppatori %s"];
   Message false [Loc None "+1"]
     " is spendable from this wallet." true
     ["è spendibile da questo portafoglio."];
   Message false [Loc None "+1"]
     "-maxtxfee is set very high! Fees this large could be paid on a single transaction." true
     ["-maxtxfee è impostato molto alto! Tasse così grandi potrebbero essere pagate su una singola transazione."];
   Message false [Loc None "+3"]
     "Can&apos;t generate a change-address key. Private keys are disabled for this wallet." true
     ["Impossibile generare una chiave di modifica dell&apos;indirizzo. Le chiavi private sono disabilitate per questo portafoglio."];
   Message false [Loc None "+3"]
     "Cannot obtain a lock on data directory %s. %s is probably already running." true
     ["Impossibile ottenere un blocco sulla directory dei dati %s. %s probabilmente già in esecuzione."];
   Message false [Loc None "+2"]
     "Cannot provide specific connections and have addrman find outgoing connections at the same." true
     ["Impossibile fornire connessioni specifiche e fare in modo che addrman trovi le connessioni in uscita allo stesso modo."];
   Message false [Loc None "+3"]
     "Cannot upgrade a non HD split wallet without upgrading to support pre split keypool. Please use -upgradewallet=169900 or -upgradewallet with no version specified." true
     ["Impossibile aggiornare un portafoglio non HD diviso senza eseguire l&apos;aggiornamento per supportare il keypool pre-split. Si prega di utilizzare -upgradewallet-169900 o -upgradewallet senza alcuna versione specificata."];
   Message false [Loc None "+4"]
     "Distributed under the MIT software license, see the accompanying file %s or %s" true
     ["Distribuito con la licenza software MIT, vedere il file di accompagnamento %s o %s"];
   Message false [Loc None "+3"]
     "Error loading %s: You can&apos;t enable HD on an already existing non-HD wallet" true
     ["Errore durante il caricamento di %s: non è possibile abilitare l&apos;HD su un portafoglio non HD già esistente"];
   Message false [Loc None "+2"]
     "Error reading %s! All keys read correctly, but transaction data or address book entries might be missing or incorrect." true
     ["Errore durante la lettura di %s! Tutte le chiavi vengono lette correttamente, ma i dati delle transazioni o le voci della rubrica potrebbero essere mancanti o non corretti."];
   Message false [Loc None "+3"]
     "Error: Listening for incoming connections failed (listen returned error %s)" true
     ["Errore: ascolto delle connessioni in ingresso non riuscito (l&apos;ascolto ha restituito l&apos;errore %s)"];
   Message false [Loc None "+2"]
     "Fee estimation failed. Fallbackfee is disabled. Wait a few blocks or enable -fallbackfee." true
     ["Stima delle commissioni non riuscita. Fallbackfee è disabilitato. Attendere alcuni blocchi o abilitare -fallbackfee."];
   Message false [Loc None "+3"]
     "Generate a random master key and main account if no master key exists. (default: %s)" true
     ["Generare una chiave master casuale e un conto principale se non esiste alcuna chiave master. (impostazione predefinita: %s)"];
   Message false [Loc None "+3"]
     "Group outputs by address, selecting all or none, instead of selecting on a per-output basis. Privacy is improved as an address is only used once (unless someone sends to it after spending from it), but may result in slightly higher fees as suboptimal coin selection may result due to the added limitation (default: %u)" true
     ["Raggruppare le uscite in base all&apos;indirizzo, selezionando tutte o nessuna, invece di selezionarle in base all&apos;output. La privacy è migliorata in quanto un indirizzo viene utilizzato solo una volta (a meno che qualcuno invia ad esso dopo aver trascorso da esso), ma può comportare commissioni leggermente più elevate come la selezione di monete non ottimale può provocare a causa della limitazione aggiuntiva (impostazione predefinita: %u)"];
   Message false [Loc None "+6"]
     "Invalid amount for -maxtxfee=&lt;amount&gt;: &apos;%s&apos; (must be at least the minrelay fee of %s to prevent stuck transactions)" true
     ["Importo non valido per -maxtxfee:&lt;amount&gt;&apos;%s&apos; (deve essere almeno la commissione minrelay di %s per evitare transazioni bloccate)&lt;/amount&gt;"];
   Message false [Loc None "+3"]
     "Milliseconds between stake attempts. Lowering this param will not result in more stakes. (default: 500)" true
     ["Millisecondi tra i tentativi di puntata. Abbassare questo parametro non si tradurrà in più puntate. (impostazione predefinita: 500)"];
   Message false [Loc None "+3"]
     "Not enough spending outputs available in the blockchain for privacy mixing. There are currently %d. For this transaction required: %d" true
     ["Non abbastanza uscite di spesa disponibili nella blockchain per la miscelazione della privacy. Attualmente sono presenti %d. Per questa transazione richiesta: %d"];
   Message false [Loc None "+3"]
     "Number of threads to start for staking, max 1 per active wallet, will divide wallets evenly between threads (default: 1)" true
     ["Numero di thread da avviare per la partecipazione, max 1 per portafoglio attivo, dividerà i portafogli in modo uniforme tra i thread (impostazione predefinita: 1)"];
   Message false [Loc None "+3"]
     "On saving a key from the lookahead pool, save all unsaved keys leading up to it too. (default: %s)" true
     ["Per salvare una chiave dal pool lookahead, salvare tutte le chiavi non salvate che portano ad esso troppo. (impostazione predefinita: %s)"];
   Message false [Loc None "+3"]
     "Please check that your computer&apos;s date and time are correct! If your clock is wrong, %s will not work properly." true
     ["Si prega di verificare che la data e l&apos;ora del computer siano corrette! Se l&apos;orologio è errato, %s non funzionerà correttamente."];
   Message false [Loc None "+3"]
     "Please contribute if you find %s useful. Visit %s for further information about the software." true
     ["Si prega di contribuire se si trova %s utile. Visitare %s per ulteriori informazioni sul software."];
   Message false [Loc None "+3"]
     "Prune configured below the minimum of %d MiB.  Please use a higher number." true
     ["Prune configurato al di sotto del minimo di %d MiB.  Si prega di utilizzare un numero più alto."];
   Message false [Loc None "+2"]
     "Prune: last wallet synchronisation goes beyond pruned data. You need to -reindex (download the whole blockchain again in case of pruned node)" true
     ["Prune: l&apos;ultima sincronizzazione portafoglio va oltre i dati potati. È necessario -reindex (scaricare l&apos;intera blockchain di nuovo in caso di nodo potato)"];
   Message false [Loc None "+3"]
     "Rescans are not possible in pruned mode. You will need to use -reindex which will download the whole blockchain again." true
     ["Le ripetizioni non sono possibili in modalità potata. Sarà necessario utilizzare -reindex che scaricherà l&apos;intera blockchain di nuovo."];
   Message false [Loc None "+3"]
     "The block database contains a block which appears to be from the future. This may be due to your computer&apos;s date and time being set incorrectly. Only rebuild the block database if you are sure that your computer&apos;s date and time are correct" true
     ["Il database a blocchi contiene un blocco che sembra provenire dal futuro. Ciò potrebbe essere dovuto alla data e all&apos;ora del computer impostate in modo non corretto. Ricostruisci il database di blocco solo se sei sicuro che la data e l&apos;ora del computer siano corrette"];
   Message false [Loc None "+5"]
     "The transaction amount is too small to send after the fee has been deducted" true
     ["L&apos;importo della transazione è troppo piccolo per essere inviato dopo che la commissione è stata dedotta"];
   Message false [Loc None "+2"]
     "This is a pre-release test build - use at your own risk - do not use for mining or merchant applications" true
     ["Si tratta di una build di test pre-release - utilizzare a proprio rischio - non utilizzare per le applicazioni di data mining o commerciante"];
   Message false [Loc None "+3"]
     "This is the transaction fee you may discard if change is smaller than dust at this level" true
     ["Questa è la commissione di transazione che si può scartare se il cambiamento è inferiore alla polvere a questo livello"]].

Definition it_bitcoin_core_2 : list message :=
  [Message false [Loc None "+3"]
     "This is the transaction fee you may pay when fee estimates are not available." true
     ["Questa è la commissione di transazione che puoi pagare quando le stime delle commissioni non sono disponibili."];
   Message false [Loc None "+2"]
     "This product includes software developed by the OpenSSL Project for use in the OpenSSL Toolkit %s and cryptographic software written by Eric Young and UPnP software written by Thomas Bernard." true
     ["Questo prodotto include software sviluppato dal progetto OpenSSL per l&apos;utilizzo nel toolkit OpenSSL %s e nel software crittografico scritto da Eric Young e dal software UPnP scritto da Thomas Bernard."];
   Message false [Loc None "+4"]
     "Total length of network version string (%i) exceeds maximum length (%i). Reduce the number or size of uacomments." true
     ["La lunghezza totale della stringa della versione di rete (%i) supera la lunghezza massima (%i). Ridurre il numero o le dimensioni di uacomments."];
   Message false [Loc None "+3"]
     "Unable to replay blocks. You will need to rebuild the database using -reindex-chainstate." true
     ["Impossibile riprodurre i blocchi. Sarà necessario ricompilare il database utilizzando -reindex-chainstate."];
   Message false [Loc None "+3"]
     "Unable to rewind the database to a pre-fork state. You will need to redownload the blockchain" true
     ["Impossibile riavvolgere il database a uno stato di pre-fork. Sarà necessario scaricare nuovamente la blockchain"];
   Message false [Loc None "+3"]
     "Unsupported argument -socks found. Setting SOCKS version isn&apos;t possible anymore, only SOCKS5 proxies are supported." true
     ["Trovato argomento non supportato -calzini. L&apos;impostazione della versione SOCKS non è più possibile, sono supportati solo i proxy SOCKS5."];
   Message false [Loc None "+3"]
     "Unsupported argument -whitelistalwaysrelay ignored, use -whitelistrelay and/or -whitelistforcerelay." true
     ["Argomento non supportato -whitelistAlwaysrelay ignorato, utilizzare -whitelistrelay e/o -whitelistforcerelay."];
   Message false [Loc None "+3"]
     "Warning: Private keys detected in wallet {%s} with disabled private keys" true
     ["Avvertenza: Chiavi private rilevate nel portafoglio &quot;%s&quot; con chiavi private disabilitate"];
   Message false [Loc None "+2"]
     "Warning: The network does not appear to fully agree! Some miners appear to be experiencing issues." true
     ["Attenzione: La rete non sembra essere pienamente d&apos;accordo! Alcuni minatori sembrano avere problemi."];
   Message false [Loc None "+3"]
     "Warning: Unknown block versions being mined! It&apos;s possible unknown rules are in effect" true
     ["Attenzione: versioni a blocchi sconosciute che vengono estratte! È possibile che siano in vigore regole sconosciute"];
   Message false [Loc None "+3"]
     "Warning: Wallet file corrupt, data salvaged! Original %s saved as %s in %s; if your balance or transactions are incorrect you should restore from a backup." true
     ["Attenzione: file portafoglio corrotto, dati recuperati! %s originale salvato come %s in %s; se il saldo o le transazioni non sono corrette è necessario eseguire il ripristino da un backup."];
   Message false [Loc None "+4"]
     "Warning: We do not appear to fully agree with our peers! You may need to upgrade, or other nodes may need to upgrade." true
     ["Attenzione: Non sembra che siamo pienamente d&apos;accordo con i nostri coetanei! Potrebbe essere necessario eseguire l&apos;aggiornamento o altri nodi potrebbero essere necessario eseguire l&apos;aggiornamento."];
   Message false [Loc None "+3"]
     "You need to rebuild the database using -reindex to change -timestampindex" true
     ["È necessario ricostruire il database usando -reindex per modificare -timestampindexYou need to rebuild the database using -reindex to change -timestampindex"];
   Message false [Loc None "+2"]
     "You need to rebuild the database using -reindex to go back to unpruned mode.  This will redownload the entire blockchain" true
     ["È necessario ricostruire il database utilizzando -reindex per tornare alla modalità non più disfunzione.  Questo scaricherà nuovamente l&apos;intera blockchain"];
   Message false [Loc None "+3"]
     "%d of last 100 blocks have unexpected version" true
     ["%d degli ultimi 100 blocchi ha una versione imprevista"];
   Message false [Loc None "+1"]
     "%s corrupt, salvage failed" true
     ["%s danneggiato, recupero non riuscito"];
   Message false [Loc None "+1"]
     "%s is set very high!" true
     ["%s è impostato su un valore molto alto!"];
   Message false [Loc None "+1"]
     "-maxmempool must be at least %d MB" true
     ["-maxmempool deve essere almeno %d MB"];
   Message false [Loc None "+1"]
     "Account chain not found" true
     ["Catena di account non trovata"];
   Message false [Loc None "+1"]
     "Address &apos;%s&apos; is not in the address book." true
     ["L&apos;indirizzo &apos;%s&apos; non è presente nella rubrica."];
   Message false [Loc None "+1"]
     "Address &apos;%s&apos; is recorded in the address book." true
     ["L&apos;indirizzo &apos;%s&apos; è registrato nella rubrica."];
   Message false [Loc None "+1"]
     "Anon output not found in db, %d" true
     ["Output anonenono non trovato in db, %d"];
   Message false [Loc None "+1"]
     "Anon pubkey not found in db, %s" true
     ["Anon pubkey non trovato in db, %s"];
   Message false [Loc None "+1"]
     "Cannot downgrade wallet" true
     ["Impossibile eseguire il downgrade del portafoglio"];
   Message false [Loc None "+1"]
     "Cannot resolve -%s address: &apos;%s&apos;" true
     ["Impossibile risolvere l&apos;indirizzo -%s: &apos;%s&apos;"];
   Message false [Loc None "+1"]
     "Cannot write to data directory &apos;%s&apos;; check permissions." true
     ["Impossibile scrivere nella directory di dati &apos;%s&apos;; controllare le autorizzazioni."];
   Message false [Loc None "+1"]
     "Change index out of range" true
     ["Modifica indice non compreso nell&apos;intervallo"];
   Message false [Loc None "+1"]
     "Confidential chain set but not found" true
     ["Set di catene riservate ma non trovato"];
   Message false [Loc None "+1"]
     "Copyright (C)" true
     ["Diritto d&apos;autore (C)"];
   Message false [Loc None "+1"]
     "Corrupted block database detected" true
     ["Rilevato database a blocchi danneggiato"]].

Definition it_bitcoin_core_3 : list message :=
  [Message false [Loc None "+1"]
     "Could not convert prefix to number." true
     ["Impossibile convertire il prefisso in numero."];
   Message false [Loc None "+1"]
     "Could not decode scan secret as wif, hex or base58." true
     ["Impossibile decodificare il segreto di scansione come wif, esadecimale o base58."];
   Message false [Loc None "+1"]
     "Could not decode spend secret as hex or base58." true
     ["Impossibile decodificare il segreto di spesa come esadecimale o base58."];
   Message false [Loc None "+1"]
     "Could not get confidential chain from account." true
     ["Impossibile ottenere catena confidenziale dall&apos;account."];
   Message false [Loc None "+1"]
     "Could not get scan public key." true
     ["Impossibile ottenere la chiave pubblica di scansione."];
   Message false [Loc None "+1"]
     "Could not get spend public key." true
     ["Impossibile ottenere spendere chiave pubblica."];
   Message false [Loc None "+1"]
     "Default account not found" true
     ["Account predefinito non trovato"];
   Message false [Loc None "+1"]
     "DeriveNextKey failed" true
     ["DeriveNextKey non riuscito"];
   Message false [Loc None "+1"]
     "Do you want to rebuild the block database now?" true
     ["Si desidera ricostruire il database di blocco ora?"];
   Message false [Loc None "+1"]
     "Done loading" true
     ["Caricamento completato"];
   Message false [Loc None "+1"]
     "Duplicate index found, %d" true
     ["Indice duplicato trovato, %d"];
   Message false [Loc None "+1"]
     "Empty wallet required for import." true
     ["Portafoglio vuoto necessario per l&apos;importazione."];
   Message false [Loc None "+1"]
     "Ensure available balance remains above reservebalance. (default: 0)" true
     ["Garantire che il saldo disponibile rimanga al di sopra del saldo di riserva. (valore predefinito: 0)"];
   Message false [Loc None "+1"]
     "EraseSetting failed." true
     ["Cancellazione Impostazione non riuscita."];
   Message false [Loc None "+1"]
     "Error creating %s: You can&apos;t create non-HD wallets with this version." true
     ["Errore durante la creazione di %s: non è possibile creare portafogli non HD con questa versione."];
   Message false [Loc None "+1"]
     "Error initializing block database" true
     ["Errore durante l&apos;inizializzazione del database dei blocchi"];
   Message false [Loc None "+1"]
     "Error initializing wallet database environment %s!" true
     ["Errore durante l&apos;inizializzazione dell&apos;ambiente di database portafoglio %s!"];
   Message false [Loc None "+1"]
     "Error loading %s" true
     ["Errore durante il caricamento di %s"];
   Message false [Loc None "+1"]
     "Error loading %s: Private keys can only be disabled during creation" true
     ["Errore durante il caricamento di %s: le chiavi private possono essere disabilitate solo durante la creazione"];
   Message false [Loc None "+1"]
     "Error loading %s: Wallet corrupted" true
     ["Errore durante il caricamento %s: Portafoglio danneggiato"];
   Message false [Loc None "+1"]
     "Error loading %s: Wallet requires newer version of %s" true
     ["Errore durante il caricamento di %s: Wallet richiede una versione più recente di %s"];
   Message false [Loc None "+1"]
     "Error loading %s: You can&apos;t disable HD on an already existing HD wallet" true
     ["Errore durante il caricamento di %s: non è possibile disabilitare l&apos;HD su un portafoglio HD già esistente"];
   Message false [Loc None "+1"]
     "Error loading block database" true
     ["Errore durante il caricamento del database di blocco"];
   Message false [Loc None "+1"]
     "Error loading wallet %s. Duplicate -wallet filename specified." true
     ["Errore durante il caricamento del portafoglio %s. Duplica -wallet nomefile specificato."];
   Message false [Loc None "+1"]
     "Error opening block database" true
     ["Errore durante l&apos;apertura del database dei blocchi"];
   Message false [Loc None "+1"]
     "Error reading from database, shutting down." true
     ["Errore durante la lettura dal database, l&apos;arresto."];
   Message false [Loc None "+1"]
     "Error upgrading chainstate database" true
     ["Errore durante l&apos;aggiornamento del database chainstate"];
   Message false [Loc None "+1"]
     "Error" true
     ["errore m"];
   Message false [Loc None "+1"]
     "Error: A fatal internal error occurred, see debug.log for details" true
     ["Errore: si è verificato un errore interno irreversibile, vedere debug.log per i dettagli"];
   Message false [Loc None "+1"]
     "Error: Disk space is low!" true
     ["Errore: lo spazio su disco è insufficiente."]].

Definition it_bitcoin_core_4 : list message :=
  [Message false [Loc None "+1"]
     "ExtKeyGetIndex failed." true
     ["ExtKeyGetIndex non riuscito."];
   Message false [Loc None "+1"]
     "ExtKeySaveAccountToDB failed" true
     ["ExtKeySaveAccountToDB non riuscito"];
   Message false [Loc None "+1"]
     "Failed to listen on any port. Use -listen=0 if you want this." true
     ["Impossibile eseguire l&apos;ascolto su alcuna porta. Se si desidera, utilizzare -listen."];
   Message false [Loc None "+1"]
     "Failed to open dongle" true
     ["Impossibile aprire dongle"];
   Message false [Loc None "+1"]
     "Failed to rescan the wallet during initialization" true
     ["Impossibile eseguire nuovamente l&apos;analisi del portafoglio durante l&apos;inizializzazione"];
   Message false [Loc None "+1"]
     "Hit nMaxTries limit, %d, %d" true
     ["Raggiunto nMaxTries limite, %d, %d"];
   Message false [Loc None "+1"]
     "Import failed - AddKeyPubKey failed." true
     ["Importazione non riuscita - AddKeyPubKey non riuscita."];
   Message false [Loc None "+1"]
     "Import failed - stealth address exists." true
     ["Importazione non riuscita- l&apos;indirizzo stealth esiste."];
   Message false [Loc None "+1"]
     "Importing..." true
     ["Importazione..."];
   Message false [Loc None "+1"]
     "Incorrect or no genesis block found. Wrong datadir for network?" true
     ["Trovato o nessun blocco di genesi errato o nessun blocco di genesi. Datadir errato per la rete?"];
   Message false [Loc None "+1"]
     "Information" true
     ["informazioni"];
   Message false [Loc None "+1"]
     "Initialization sanity check failed. %s is shutting down." true
     ["Controllo dell&apos;integrità non riuscito. %s è in arresto."];
   Message false [Loc None "+1"]
     "Insufficient funds" true
     ["Fondi insufficienti"];
   Message false [Loc None "+1"]
     "Insufficient funds." true
     ["Fondi insufficienti."];
   Message false [Loc None "+1"]
     "Invalid -onion address or hostname: &apos;%s&apos;" true
     ["Indirizzo o nome host -onion non valido: &apos;%s&apos;"];
   Message false [Loc None "+1"]
     "Invalid -proxy address or hostname: &apos;%s&apos;" true
     ["Indirizzo o nome host -proxy non valido: &apos;%s&apos;"];
   Message false [Loc None "+1"]
     "Invalid BitcoinC address." true
     ["Indirizzo BitcoinC non valido."];
   Message false [Loc None "+1"]
     "Invalid amount for -%s=&lt;amount&gt;: &apos;%s&apos;" true
     ["Importo non valido per -%s:&lt;amount&gt;&apos;%s&apos;&lt;/amount&gt;"];
   Message false [Loc None "+1"]
     "Invalid amount for -discardfee=&lt;amount&gt;: &apos;%s&apos;" true
     ["Importo non valido per -discardfee:&lt;amount&gt;&apos;%s&apos;&lt;/amount&gt;"];
   Message false [Loc None "+1"]
     "Invalid amount for -fallbackfee=&lt;amount&gt;: &apos;%s&apos;" true
     ["Importo non valido per -fallbackfee:&lt;amount&gt;&apos;%s&apos;&lt;/amount&gt;"];
   Message false [Loc None "+1"]
     "Invalid amount for -paytxfee=&lt;amount&gt;: &apos;%s&apos; (must be at least %s)" true
     ["Importo non valido per -paytxfee:&lt;amount&gt;&apos;%s&apos; (deve essere almeno %s)&lt;/amount&gt;"];
   Message false [Loc None "+1"]
     "Invalid amount for -reservebalance=&lt;amount&gt;" true
     ["Importo non valido per -reservebalance&lt;amount&gt;&lt;/amount&gt;"];
   Message false [Loc None "+1"]
     "Invalid coldstakingaddress." true
     ["Coldstakingaddress non valido."];
   Message false [Loc None "+1"]
     "Invalid input key." true
     ["Tasto di input non valido."];
   Message false [Loc None "+1"]
     "Invalid key." true
     ["Chiave non valida."];
   Message false [Loc None "+1"]
     "Invalid netmask specified in -whitelist: &apos;%s&apos;" true
     ["Netmask non valida specificata in -whitelist: &apos;%s&apos;"];
   Message false [Loc None "+1"]
     "Invalid rewardaddress." true
     ["Indirizzo di ricompensa non valido."];
   Message false [Loc None "+1"]
     "Keypool ran out, please call keypoolrefill first" true
     ["Keypool si è esaurito, si prega di chiamare keypoolrefill prima"];
   Message false [Loc None "+1"]
     "Loading P2P addresses..." true
     ["Caricamento degli indirizzi P2P in corso..."]].

Definition it_bitcoin_core_5 : list message :=
  [Message false [Loc None "+1"]
     "Loading address book for %s.
" true
     ["Caricamento della rubrica per %s."];
   Message false [Loc None "+1"]
     "Loading banlist..." true
     ["Lista di caricamento in corso..."];
   Message false [Loc None "+1"]
     "Loading block index..." true
     ["Caricamento dell&apos;indice di blocco in corso..."];
   Message false [Loc None "+1"]
     "Loading transaction records for %s.
" true
     ["Caricamento dei record delle transazioni per %s."];
   Message false [Loc None "+1"]
     "Loading wallet..." true
     ["Caricamento del portafoglio in corso..."];
   Message false [Loc None "+1"]
     "Minimum time in seconds between successful stakes (default: 0)" true
     ["Tempo minimo in secondi tra una puntata riuscita e l&apos;altra (impostazione predefinita: 0)"];
   Message false [Loc None "+1"]
     "Must be json object." true
     ["Deve essere un oggetto json."];
   Message false [Loc None "+1"]
     "Must have account to save keys." true
     ["Deve avere account per salvare le chiavi."];
   Message false [Loc None "+1"]
     "Must input a stealthaddress." true
     ["Deve inserire un stealthaddress."];
   Message false [Loc None "+1"]
     "Need a parameter to change." true
     ["È necessario un parametro per la modifica."];
   Message false [Loc None "+1"]
     "Need to specify a port with -whitebind: &apos;%s&apos;" true
     ["È necessario specificare una porta con -whitebind: &apos;%s&apos;"];
   Message false [Loc None "+1"]
     "New state must be bool." true
     ["Il nuovo stato deve essere bool."];
   Message false [Loc None "+1"]
     "NewExtKeyFromAccount failed, %s." true
     ["NewExtKeyFromAccount non riuscito, %s."];
   Message false [Loc None "+1"]
     "NewExtKeyFromAccount failed." true
     ["NewExtKeyFromAccount non riuscito."];
   Message false [Loc None "+1"]
     "NewStealthKeyV2FromAccount failed." true
     ["NewStealthKeyV2FromAccount non riuscito."];
   Message false [Loc None "+1"]
     "No default account set." true
     ["Nessun set di account predefinito."];
   Message false [Loc None "+1"]
     "No key for anonoutput, %s" true
     ["Nessuna chiave per l&apos;output anon, %s"];
   Message false [Loc None "+1"]
     "Not anon output %s %d" true
     ["Output non presente %s %d"];
   Message false [Loc None "+1"]
     "Not enough file descriptors available." true
     ["Descrittori di file insufficiente."];
   Message false [Loc None "+1"]
     "Num inputs per signature out of range" true
     ["Ingressi num per firma non compresa nell&apos;intervallo"];
   Message false [Loc None "+1"]
     "Number of keys to load into the lookahead pool per chain. (default: %u)" true
     ["Numero di chiavi da caricare nel pool lookahead per catena. (impostazione predefinita: %u)"];
   Message false [Loc None "+1"]
     "Only able to send to stealth address." true
     ["Solo in grado di inviare all&apos;indirizzo stealth."];
   Message false [Loc None "+1"]
     "OpIsCoinstake is not active yet." true
     ["OpIsCoinstake non è ancora attivo."];
   Message false [Loc None "+1"]
     "Output isn&apos;t standard." true
     ["L&apos;output non è standard."];
   Message false [Loc None "+1"]
     "PrepareTransaction for device failed: %s" true
     ["PrepareTransaction per il dispositivo non riuscito: %s"];
   Message false [Loc None "+1"]
     "ProduceSignature from device failed: %s" true
     ["ProdottoSignature dal dispositivo non riuscito: %s"];
   Message false [Loc None "+1"]
     "Prune cannot be configured with a negative value." true
     ["Prune non può essere configurato con un valore negativo."];
   Message false [Loc None "+1"]
     "Prune mode is incompatible with -txindex." true
     ["La modalità prune non è compatibile con -txindex."];
   Message false [Loc None "+1"]
     "Pruning blockstore..." true
     ["Pruning blockstore..."]].

Definition it_bitcoin_core_6 : list message :=
  [Message false [Loc None "+1"]
     "ReadStoredTx failed for %s" true
     ["ReadStoredTx non riuscito per %s"];
   Message false [Loc None "+1"]
     "Reducing -maxconnections from %d to %d, because of system limitations." true
     ["Riduzione delle connessioni -max da %d a %d, a causa delle limitazioni del sistema."];
   Message false [Loc None "+1"]
     "Replaying blocks..." true
     ["Riproduzione di blocchi in corso..."];
   Message false [Loc None "+1"]
     "Rescanning..." true
     ["Ripetizione della scansione in corso..."];
   Message false [Loc None "+1"]
     "Rewinding blocks..." true
     ["Blocchi di riavvolgimento in corso..."];
   Message false [Loc None "+1"]
     "Ring size out of range [%d, %d]" true
     ["Dimensione dell&apos;anello non compresa nell&apos;intervallo [%d, %d]"];
   Message false [Loc None "+1"]
     "Ring size out of range" true
     ["Dimensione dell&apos;anello non compresa nell&apos;intervallo"];
   Message false [Loc None "+1"]
     "Scan secret is not 32 bytes." true
     ["Il segreto di scansione non è 32 byte."];
   Message false [Loc None "+1"]
     "SetSetting failed." true
     ["SetSetting non riuscito."];
   Message false [Loc None "+1"]
     "Signing transaction failed" true
     ["Transazione di firma non riuscita"];
   Message false [Loc None "+1"]
     "Specified -walletdir &quot;%s&quot; does not exist" true
     ["Specificato -walletdir &quot;%s&quot; non esiste"];
   Message false [Loc None "+1"]
     "Specified -walletdir &quot;%s&quot; is a relative path" true
     ["Specified -walletdir &quot;%s&quot; è un percorso relativo"];
   Message false [Loc None "+1"]
     "Specified -walletdir &quot;%s&quot; is not a directory" true
     ["Specificato -walletdir &quot;%s&quot; non è una directory"];
   Message false [Loc None "+1"]
     "Specified blocks directory &quot;%s&quot; does not exist." true
     ["La directory dei blocchi specificata &quot;%s&quot; non esiste."];
   Message false [Loc None "+1"]
     "Spend secret is not 32 bytes." true
     ["Spendere segreto non è 32 byte."];
   Message false [Loc None "+1"]
     "Spend secret must be different to scan secret." true
     ["Il segreto di spesa deve essere diverso per eseguire la scansione del segreto."];
   Message false [Loc None "+1"]
     "Stake your coins to support network and gain reward (default: true)" true
     ["Puntate le monete per supportare la rete e ottenere la ricompensa (impostazione predefinita: vera)"];
   Message false [Loc None "+1"]
     "Starting network threads..." true
     ["Avvio dei thread di rete in corso..."];
   Message false [Loc None "+1"]
     "StealthSecret failed, try again." true
     ["StealthSecret ha fallito, riprova."];
   Message false [Loc None "+1"]
     "The source code is available from %s." true
     ["Il codice sorgente è disponibile da %s."];
   Message false [Loc None "+1"]
     "The transaction amount is too small to pay the fee" true
     ["L&apos;importo della transazione è troppo piccolo per pagare la commissione"];
   Message false [Loc None "+1"]
     "The wallet will avoid paying less than the minimum relay fee." true
     ["Il portafoglio eviterà di pagare meno della tassa minima di relè."];
   Message false [Loc None "+1"]
     "This is experimental software." true
     ["Questo è un software sperimentale."];
   Message false [Loc None "+1"]
     "This is the minimum transaction fee you pay on every transaction." true
     ["Questa è la commissione minima di transazione che paghi su ogni transazione."];
   Message false [Loc None "+1"]
     "This is the transaction fee you will pay if you send a transaction." true
     ["Questa è la commissione di transazione che pagherai se invii una transazione."];
   Message false [Loc None "+1"]
     "Transaction amount too small" true
     ["Importo della transazione troppo piccolo"];
   Message false [Loc None "+1"]
     "Transaction amounts must not be negative" true
     ["Gli importi delle transazioni non devono essere negativi"];
   Message false [Loc None "+1"]
     "Transaction amounts must not be negative." true
     ["Gli importi delle transazioni non devono essere negativi."];
   Message false [Loc None "+1"]
     "Transaction fee and change calculation failed" true
     ["Commissione di transazione e calcolo delle modifiche non riuscito"];
   Message false [Loc None "+1"]
     "Transaction fee and change calculation failed." true
     ["La commissione di transazione e il calcolo delle modifiche non sono riusciti."]].

Definition it_bitcoin_core_7 : list message :=
  [Message false [Loc None "+1"]
     "Transaction has too long of a mempool chain" true
     ["La transazione è troppo lunga in una catena di mempool"];
   Message false [Loc None "+1"]
     "Transaction must have at least one recipient" true
     ["La transazione deve avere almeno un destinatario"];
   Message false [Loc None "+1"]
     "Transaction must have at least one recipient." true
     ["La transazione deve avere almeno un destinatario."];
   Message false [Loc None "+1"]
     "Transaction too large for fee policy" true
     ["Transazione troppo grande per la politica tariffale"];
   Message false [Loc None "+1"]
     "Transaction too large for fee policy." true
     ["Transazione troppo grande per la politica delle commissioni."];
   Message false [Loc None "+1"]
     "Transaction too large" true
     ["Transazione troppo grande"];
   Message false [Loc None "+1"]
     "TxnBegin failed." true
     ["TxnBegin non riuscito."];
   Message false [Loc None "+1"]
     "Unable to bind to %s on this computer (bind returned error %s)" true
     ["Impossibile eseguire il binding a %s in questo computer (bind ha restituito l&apos;errore %s)"];
   Message false [Loc None "+1"]
     "Unable to bind to %s on this computer. %s is probably already running." true
     ["Impossibile eseguire il binding a %s in questo computer. %s è probabilmente già in esecuzione."];
   Message false [Loc None "+1"]
     "Unable to generate initial keys" true
     ["Impossibile generare le chiavi iniziali"];
   Message false [Loc None "+1"]
     "Unable to generate keys" true
     ["Impossibile generare le chiavi"];
   Message false [Loc None "+1"]
     "Unable to start HTTP server. See debug log for details." true
     ["Impossibile avviare il server HTTP. Per informazioni dettagliate, vedere il registro di debug."];
   Message false [Loc None "+1"]
     "Unknown account." true
     ["Account sconosciuto."];
   Message false [Loc None "+1"]
     "Unknown action, must be one of &apos;add/edit/del&apos;." true
     ["Azione sconosciuta, deve essere uno dei &apos;add/edit/del&apos;."];
   Message false [Loc None "+1"]
     "Unknown argument for 256bithash: %s." true
     ["Argomento sconosciuto per 256bithash: %s."];
   Message false [Loc None "+1"]
     "Unknown argument for add_to_addressbook: %s." true
     ["Argomento sconosciuto per add_to_addressbook: %s."];
   Message false [Loc None "+1"]
     "Unknown chain." true
     ["Catena sconosciuta."];
   Message false [Loc None "+1"]
     "Unknown input key version." true
     ["Versione del tasto di input sconosciuta."];
   Message false [Loc None "+1"]
     "Unknown network specified in -onlynet: &apos;%s&apos;" true
     ["Rete sconosciuta specificata in -onlynet: &apos;%s&apos;"];
   Message false [Loc None "+1"]
     "Unknown setting" true
     ["Impostazione sconosciuta"];
   Message false [Loc None "+1"]
     "Unsupported argument -benchmark ignored, use -debug=bench." true
     ["Argomento non supportato -benchmark ignorato, utilizzare -debug-bench."];
   Message false [Loc None "+1"]
     "Unsupported argument -debugnet ignored, use -debug=net." true
     ["Argomento non supportato -debugnet ignorato, utilizzare -debug.net."];
   Message false [Loc None "+1"]
     "Unsupported argument -debugnet ignored, use -debug=smsg." true
     ["Argomento non supportato -debugnet ignorato, utilizzare -debug-smsg."];
   Message false [Loc None "+1"]
     "Unsupported argument -tor found, use -onion." true
     ["Argomento non supportato -tor trovato, utilizzare -onion."];
   Message false [Loc None "+1"]
     "Unsupported logging category %s=%s." true
     ["Categoria di registrazione non supportata %s&apos;%s."];
   Message false [Loc None "+1"]
     "Upgrading txindex database" true
     ["Aggiornamento del database txindex"];
   Message false [Loc None "+1"]
     "User Agent comment (%s) contains unsafe characters." true
     ["Il commento dell&apos;agente utente (%s) contiene caratteri non sicuri."];
   Message false [Loc None "+1"]
     "Verifying blocks..." true
     ["Verifica dei blocchi in corso..."];
   Message false [Loc None "+1"]
     "Verifying wallet(s)..." true
     ["Verifica portafoglio/i in corso..."];
   Message false [Loc None "+1"]
     "Wallet %s resides outside wallet directory %s" true
     ["Wallet %s si trova all&apos;esterno della directory del portafoglio %s"]].

Definition it_bitcoin_core_8 : list message :=
  [Message false [Loc None "+1"]
     "Wallet has no active master key." true
     ["Wallet non ha una chiave master attiva."];
   Message false [Loc None "+1"]
     "Wallet must be unlocked." true
     ["Portafoglio deve essere sbloccato."];
   Message false [Loc None "+1"]
     "Wallet must have a default account set." true
     ["Wallet deve avere un set di account predefinito."];
   Message false [Loc None "+1"]
     "Wallet needed to be rewritten: restart %s to complete" true
     ["Portafoglio doveva essere riscritto: riavvio %s per completare"];
   Message false [Loc None "+1"]
     "Warning" true
     ["avviso"];
   Message false [Loc None "+1"]
     "Warning: unknown new rules activated (versionbit %i)" true
     ["Avviso: nuove regole sconosciute attivate (versionbit %i)"];
   Message false [Loc None "+1"]
     "You need to rebuild the database using -reindex to change -addressindex" true
     ["È necessario ricostruire il database utilizzando -reindex per modificare -addressindexYou need to rebuild the database using -reindex to change -addressindex"];
   Message false [Loc None "+1"]
     "You need to rebuild the database using -reindex to change -spentindex" true
     ["È necessario ricostruire il database utilizzando -reindex per modificare -spentindexYou need to rebuild the database using -reindex to change -spentindex"];
   Message false [Loc None "+1"]
     "Zapping all transactions from wallet..." true
     ["Tutte le transazioni dal portafoglio..."];
   Message false [Loc None "+1"]
     "accounts missing." true
     ["account mancanti."];
   Message false [Loc None "+1"]
     "accounts must be an array." true
     ["account devono essere un array."];
   Message false [Loc None "+1"]
     "add_to_addressbook can&apos;t be set without save" true
     ["Impossibile impostare add_to_addressbook senza salvataggio"];
   Message false [Loc None "+1"]
     "address_standard must be a string." true
     ["address_standard deve essere una stringa."];
   Message false [Loc None "+1"]
     "bad childNo." true
     ["cattivo bambinoNo."];
   Message false [Loc None "+1"]
     "bech32 encode failed." true
     ["codifica bech32 non riuscita."];
   Message false [Loc None "+1"]
     "coldstakingaddress can&apos;t be a stealthaddress." true
     ["coldstakingaddress non può essere un stealthaddress."];
   Message false [Loc None "+1"]
     "coldstakingaddress must be a string." true
     ["coldstakingaddress deve essere una stringa."];
   Message false [Loc None "+1"]
     "extkey must have private key to derive hardened keys." true
     ["extkey deve disporre di una chiave privata per derivare chiavi con protezione con protezione&lt;/a0&gt;."];
   Message false [Loc None "+1"]
     "foundationdonationpercent must be a number." true
     ["foundationdonationpercent deve essere un numero."];
   Message false [Loc None "+1"]
     "height must be a number." true
     ["l&apos;altezza deve essere un numero."];
   Message false [Loc None "+1"]
     "loose_extkeys missing." true
     ["loose_extkeys mancante."];
   Message false [Loc None "+1"]
     "loose_extkeys must be an array." true
     ["loose_extkeys deve essere una matrice."];
   Message false [Loc None "+1"]
     "num_derives to int failed." true
     ["num_deriva in int non riuscito."];
   Message false [Loc None "+1"]
     "num_derives_h to int failed." true
     ["num_derives_h a int non riuscito."];
   Message false [Loc None "+1"]
     "num_prefix_bits invalid number." true
     ["num_prefix_bits numero non valido."];
   Message false [Loc None "+1"]
     "num_prefix_bits must be &lt;= 32." true
     ["num_prefix_bits deve essere&lt;= 32.&gt;&lt;/= 32.&gt;"];
   Message false [Loc None "+1"]
     "rewardaddress must be a string." true
     ["rewardaddress deve essere una stringa."];
   Message false [Loc None "+1"]
     "secp256k1_generate_mlsag failed %d" true
     ["secp256k1_generate_mlsag non riuscito %d"];
   Message false [Loc None "+1"]
     "secp256k1_get_keyimage failed %d" true
     ["secp256k1_get_keyimage non riuscita %d"];
   Message false [Loc None "+1"]
     "secp256k1_prepare_mlsag failed %d" true
     ["secp256k1_prepare_mlsag non riuscito %d"]].

Definition it_bitcoin_core_9 : list message :=
  [Message false [Loc None "+1"]
     "stakecombinethreshold can&apos;t be negative." true
     ["stakecombinethreshold non può essere negativo."];
   Message false [Loc None "+1"]
     "stakesplitthreshold can&apos;t be negative." true
     ["stakesplitthreshold non può essere negativo."]].

(** The whole document. *)
Definition bitcoin_it_IT : catalogue :=
  [Context "AddressBookPage" (it_AddressBookPage_1 ++ it_AddressBookPage_2);
   Context "AddressTableModel" (it_AddressTableModel);
   Context "AskPassphraseDialog" (it_AskPassphraseDialog_1 ++ it_AskPassphraseDialog_2);
   Context "BanTableModel" (it_BanTableModel);
   Context "BitcoinGUI" (it_BitcoinGUI_1 ++ it_BitcoinGUI_2 ++ it_BitcoinGUI_3 ++ it_BitcoinGUI_4);
   Context "CoinControlDialog" (it_CoinControlDialog_1 ++ it_CoinControlDialog_2);
   Context "EditAddressDialog" (it_EditAddressDialog);
   Context "FreespaceChecker" (it_FreespaceChecker);
   Context "HelpMessageDialog" (it_HelpMessageDialog);
   Context "Intro" (it_Intro);
   Context "MnemonicDialog" (it_MnemonicDialog_1 ++ it_MnemonicDialog_2);
   Context "ModalOverlay" (it_ModalOverlay);
   Context "OpenURIDialog" (it_OpenURIDialog);
   Context "OptionsDialog" (it_OptionsDialog_1 ++ it_OptionsDialog_2 ++ it_OptionsDialog_3);
   Context "OverviewPage" (it_OverviewPage);
   Context "PaymentServer" (it_PaymentServer);
   Context "PeerTableModel" (it_PeerTableModel);
   Context "QObject" (it_QObject);
   Context "QObject::QObject" (it_QObject__QObject);
   Context "QRImageWidget" (it_QRImageWidget);
   Context "RPCConsole" (it_RPCConsole_1 ++ it_RPCConsole_2 ++ it_RPCConsole_3);
   Context "ReceiveCoinsDialog" (it_ReceiveCoinsDialog);
   Context "ReceiveRequestDialog" (it_ReceiveRequestDialog);
   Context "RecentRequestsTableModel" (it_RecentRequestsTableModel);
   Context "SendCoinsDialog" (it_SendCoinsDialog_1 ++ it_SendCoinsDialog_2 ++ it_SendCoinsDialog_3);
   Context "SendCoinsEntry" (it_SendCoinsEntry_1 ++ it_SendCoinsEntry_2);
   Context "SendConfirmationDialog" (it_SendConfirmationDialog);
   Context "ShutdownWindow" (it_ShutdownWindow);
   Context "SignVerifyMessageDialog" (it_SignVerifyMessageDialog_1 ++ it_SignVerifyMessageDialog_2);
   Context "SplashScreen" (it_SplashScreen);
   Context "StakingDialog" (it_StakingDialog_1 ++ it_StakingDialog_2);
   Context "TrafficGraphWidget" (it_TrafficGraphWidget);
   Context "TransactionDesc" (it_TransactionDesc_1 ++ it_TransactionDesc_2);
   Context "TransactionDescDialog" (it_TransactionDescDialog);
   Context "TransactionTableModel" (it_TransactionTableModel_1 ++ it_TransactionTableModel_2);
   Context "TransactionView" (it_TransactionView_1 ++ it_TransactionView_2);
   Context "TxViewDelegate" (it_TxViewDelegate);
   Context "UnitDisplayStatusBarControl" (it_UnitDisplayStatusBarControl);
   Context "WalletFrame" (it_WalletFrame);
   Context "WalletModel" (it_WalletModel);
   Context "WalletView" (it_WalletView);
   Context "bitcoin-core" (it_bitcoin_core_1 ++ it_bitcoin_core_2 ++ it_bitcoin_core_3 ++ it_bitcoin_core_4 ++ it_bitcoin_core_5 ++ it_bitcoin_core_6 ++ it_bitcoin_core_7 ++ it_bitcoin_core_8 ++ it_bitcoin_core_9)].
