(* ===== verification/CatalogueJa.v ===== *)
(** The Japanese catalogue, [src/src/qt/locale/bitcoin_ja_JP.ts], context by context; a long
    context is cut into parts.  Texts are as in the file. *)
From S2P Require Import Prelude Locale.
Open Scope txt_scope.
Open Scope list_scope.

Definition ja_AddressBookPage_1 : list message :=
  [Message false [Loc (Some "../forms/addressbookpage.ui") "+27"]
     "Enter address or label to search" true
     ["検索する住所またはラベルを入力する"];
   Message false [Loc None "+10"]
     "Right-click to edit address or label" true
     ["右クリックして住所またはラベルを編集する"];
   Message false [Loc None "+30"; Loc None "+17"; Loc None "+17"]
     "Create a new address" true
     ["新しい住所を作成する"];
   Message false [Loc None "-31"]
     "&amp;New" true
     ["&amp;新規"];
   Message false [Loc None "+17"]
     "&amp;New Stake address" true
     ["&amp;新ステークアドレス"];
   Message false [Loc None "+17"]
     "&amp;New ColdStake address" true
     ["&amp;新しいコールドステークアドレス"];
   Message false [Loc None "+14"]
     "Copy the currently selected address to the system clipboard" true
     ["現在選択されているアドレスをシステムクリップボードにコピーする"];
   Message false [Loc None "+3"]
     "&amp;Copy" true
     ["&amp;コピー"];
   Message false [Loc None "+14"]
     "Delete the currently selected address from the list" true
     ["現在選択されているアドレスを一覧から削除する"];
   Message false [Loc None "+3"]
     "&amp;Delete" true
     ["&amp;削除"];
   Message false [Loc None "+27"]
     "Export the data in the current tab to a file" true
     ["現在のタブのデータをファイルにエクスポートする"];
   Message false [Loc None "+3"]
     "&amp;Export" true
     ["&amp;エクスポート"];
   Message false [Loc None "+20"]
     "C&amp;lose" true
     ["C&amp;ロス"];
   Message false [Loc (Some "../addressbookpage.cpp") "+84"]
     "These are your Bitcoin Confidential addresses for sending payments. Always check the amount and the receiving address before sending coins." true
     ["これらは、お支払いを送信するためのあなたのビットコインの機密アドレスです。コインを送る前に必ず金額と受信先住所を確認してください。"];
   Message false [Loc None "+8"]
     "Choose the address to send coins to" true
     ["コインを送信するアドレスを選択します。"];
   Message false [Loc None "+4"; Loc None "+22"; Loc None "+28"]
     "C&amp;hoose" true
     ["C&amp;フース"];
   Message false [Loc None "-44"]
     "Sending addresses" true
     ["アドレスの送信"];
   Message false [Loc None "+12"]
     "Choose the address to receive coins with" true
     ["コインを受け取るアドレスを選択してください"];
   Message false [Loc None "+10"]
     "Receiving addresses" true
     ["受信アドレス"];
   Message false [Loc None "+1"]
     "These are your Bitcoin Confidential addresses for receiving payments. It is recommended to use a new receiving address for each transaction." true
     ["これらは、支払いを受け取るためのあなたのビットコイン機密アドレスです。トランザクションごとに新しい受信アドレスを使用することをお勧めします。"];
   Message false [Loc None "+13"]
     "Choose the Stake or ColdStake address" true
     ["ステークまたはコールドステークのアドレスを選択する"];
   Message false [Loc None "+1"]
     "These are your Bitcoin Confidential Stake and ColdStake addresses." true
     ["これらはあなたのビットコイン機密ステークとコールドステークアドレスです。"];
   Message false [Loc None "+16"]
     "Stake and ColdStake addresses" true
     ["ステークとコールドステークのアドレス"];
   Message false [Loc None "+1"]
     "These addresses cannot be used to receive coins from outside the wallet, such as payments or from exchanges.  Use the Receive tab to generate spending addresses.

Stake addresses, starting with &quot;%1&quot;, are used to convert spending funds into staking funds in the &quot;Convert to Staking&quot; tab. Funds in Stake addresses can be either used for hot staking or the activation of ColdStaking.

ColdStake addresses, starting with &quot;%2&quot;, are used to manually activate staking funds for ColdStaking. There is no need to generate ColdStake addresses when the automated ColdStaking activation from the Staking Status page is used." true
     ["これらのアドレスは、支払いや取引所など、財布の外側からコインを受け取るために使用することはできません。 [受信] タブを使用して、支出アドレスを生成します。

ステークアドレスは、「%1」で始まり、支出資金を「ステークに変換」タブでステークファンドに変換するために使用されます。

ColdStake アドレスは、&quot;%2&quot; で始まり、ColdSstake のステーク資金を手動で有効にするために使用されます。[ステークステータス]ページからコールドステークの自動アクティベーションを使用する場合、ColdStake アドレスを生成する必要はありません。"];
   Message false [Loc None "+11"]
     "&amp;Copy Address" true
     ["&amp;コピーアドレス"];
   Message false [Loc None "+1"]
     "Copy &amp;Label" true
     ["コピーとラベル"];
   Message false [Loc None "+1"]
     "&amp;Edit" true
     ["&amp;編集"]].

Definition ja_AddressBookPage_2 : list message :=
  [Message false [Loc None "+186"]
     "Export Address List" true
     ["エクスポート アドレス一覧"];
   Message false [Loc None "+1"]
     "Comma separated file (*.csv)" true
     ["コンマ区切りファイル (*.csv)"];
   Message false [Loc None "+13"]
     "Exporting Failed" true
     ["エクスポートに失敗しました"];
   Message false [Loc None "+1"]
     "There was an error trying to save the address list to %1. Please try again." true
     ["アドレス一覧を %1 に保存しようとしてエラーが発生しました。もう一度やり直してください。"]].

Definition ja_AddressTableModel : list message :=
  [Message false [Loc (Some "../addresstablemodel.cpp") "+188"]
     "Label" true
     ["ラベル"];
   Message false [Loc None "+0"]
     "Address" true
     ["アドレス"];
   Message false [Loc None "+36"]
     "(no label)" true
     ["(ラベルなし)"]].

Definition ja_AskPassphraseDialog_1 : list message :=
  [Message false [Loc (Some "../forms/askpassphrasedialog.ui") "+26"]
     "Passphrase Dialog" true
     ["パスフレーズダイアログ"];
   Message false [Loc None "+30"]
     "Enter passphrase" true
     ["パスフレーズを入力する"];
   Message false [Loc None "+14"]
     "New passphrase" true
     ["新しいパスフレーズ"];
   Message false [Loc None "+14"]
     "Repeat new passphrase" true
     ["新しいパスフレーズを繰り返す"];
   Message false [Loc None "+14"]
     "Show password" true
     ["パスワードの表示"];
   Message false [Loc None "+23"]
     "Unlock For Staking Only" true
     ["唯一の取り込みのためのロックを解除"];
   Message false [Loc (Some "../askpassphrasedialog.cpp") "+48"]
     "Enter the new passphrase to the wallet.&lt;br/&gt;Please use a passphrase of &lt;b&gt;ten or more random characters&lt;/b&gt;, or &lt;b&gt;eight or more words&lt;/b&gt;." true
     ["ウォレットに新しいパスフレーズを入力します。&lt;br&gt;&lt;b&gt;10 文字以上のランダム文字&lt;/b&gt;または&lt;b&gt;8 つ以上の単語&lt;/b&gt;のパスフレーズを使用してください。"];
   Message false [Loc None "+3"]
     "Encrypt wallet" true
     ["ウォレットの暗号化"];
   Message false [Loc None "+3"; Loc None "+8"]
     "This operation needs your wallet passphrase to unlock the wallet." true
     ["この操作では、ウォレットのロックを解除するためにウォレットパスフレーズが必要です。"];
   Message false [Loc None "-3"; Loc None "+9"]
     "Unlock wallet" true
     ["ウォレットのロックを解除する"];
   Message false [Loc None "+3"]
     "This operation needs your wallet passphrase to decrypt the wallet." true
     ["この操作では、ウォレットを復号化するためにウォレットパスフレーズが必要です。"];
   Message false [Loc None "+5"]
     "Decrypt wallet" true
     ["ウォレットの復号化"];
   Message false [Loc None "+3"]
     "Change passphrase" true
     ["パスフレーズの変更"];
   Message false [Loc None "+1"]
     "Enter the old passphrase and new passphrase to the wallet." true
     ["古いパスフレーズと新しいパスフレーズをウォレットに入力します。"];
   Message false [Loc None "+47"]
     "Confirm wallet encryption" true
     ["ウォレットの暗号化を確認する"];
   Message false [Loc None "+1"]
     "Warning: If you encrypt your wallet and lose your passphrase, you will &lt;b&gt;LOSE ALL OF YOUR BITCOIN CONFIDENTIAL&lt;/b&gt;!" true
     ["警告:あなたの財布を暗号化し、あなたのパスフレーズを失う場合は、&lt;b&gt;あなたのビットコインの機密のすべてを失うこと&lt;/b&gt;になります!"];
   Message false [Loc None "+0"]
     "Are you sure you wish to encrypt your wallet?" true
     ["ウォレットを暗号化しますか?"];
   Message false [Loc None "+9"; Loc None "+59"]
     "Wallet encrypted" true
     ["ウォレット暗号化"];
   Message false [Loc None "-57"]
     "%1 will close now to finish the encryption process. Remember that encrypting your wallet cannot fully protect your Bitcoin Confidential from being stolen by malware infecting your computer." true
     ["%1 は、暗号化プロセスを完了するために今すぐ閉じます。ウォレットを暗号化すると、コンピュータに感染するマルウェアによって機密情報ビットコインを完全に保護することはできません。"];
   Message false [Loc None "+4"]
     "IMPORTANT: Any previous backups you have made of your wallet file should be replaced with the newly generated, encrypted wallet file. For security reasons, previous backups of the unencrypted wallet file will become useless as soon as you start using the new, encrypted wallet." true
     ["重要: ウォレット ファイルで作成した以前のバックアップは、新しく生成された暗号化されたウォレット ファイルに置き換える必要があります。セキュリティ上の理由から、暗号化されていないウォレット ファイルの以前のバックアップは、新しい暗号化されたウォレットの使用を開始するとすぐに役に立ちなくなります。"];
   Message false [Loc None "+9"; Loc None "+7"; Loc None "+43"; Loc None "+6"]
     "Wallet encryption failed" true
     ["ウォレットの暗号化に失敗しました"];
   Message false [Loc None "-55"]
     "Wallet encryption failed due to an internal error. Your wallet was not encrypted." true
     ["内部エラーが発生したため、ウォレットの暗号化に失敗しました。ウォレットは暗号化されていません。"];
   Message false [Loc None "+7"; Loc None "+49"]
     "The supplied passphrases do not match." true
     ["指定されたパスフレーズが一致しません。"];
   Message false [Loc None "-37"]
     "Wallet unlock failed" true
     ["ウォレットのロック解除に失敗しました"];
   Message false [Loc None "+1"; Loc None "+11"; Loc None "+19"]
     "The passphrase entered for the wallet decryption was incorrect." true
     ["ウォレットの復号化に入力されたパスフレーズが正しくありません。"];
   Message false [Loc None "-20"]
     "Wallet decryption failed" true
     ["ウォレットの復号化に失敗しました"];
   Message false [Loc None "+14"]
     "Wallet passphrase was successfully changed." true
     ["ウォレットパスフレーズが正常に変更されました。"]].

Definition ja_AskPassphraseDialog_2 : list message :=
  [Message false [Loc None "+48"; Loc None "+33"]
     "Warning: The Caps Lock key is on!" true
     ["警告: Caps Lock キーがオンです。"]].

Definition ja_BanTableModel : list message :=
  [Message false [Loc (Some "../bantablemodel.cpp") "+88"]
     "IP/Netmask" true
     ["IP/ネットマスク"];
   Message false [Loc None "+0"]
     "Banned Until" true
     ["禁止まで"]].

Definition ja_BitcoinGUI_1 : list message :=
  [Message false [Loc (Some "../bitcoingui.cpp") "+94"]
     "Wallet" true
     ["財布"];
   Message false [Loc None "+2"]
     "Node" true
     ["ノード"];
   Message false [Loc None "+169"]
     "Overview" true
     ["概要"];
   Message false [Loc None "+1"]
     "Show general overview of wallet" true
     ["ウォレットの概要を表示する"];
   Message false [Loc None "+7"]
     "Send" true
     ["送信"];
   Message false [Loc None "+1"]
     "Send coins to a Bitcoin Confidential Spending address" true
     ["ビットコインの機密支出アドレスにコインを送る"];
   Message false [Loc None "+11"]
     "Receive" true
     ["受信"];
   Message false [Loc None "+1"]
     "Request payments (generates Spending address QR codes and bitcoinc: URIs)" true
     ["支払いをリクエストする(支出アドレスQRコードとビットコインを生成します:URI)"];
   Message false [Loc None "+11"]
     "Transactions" true
     ["トランザクション"];
   Message false [Loc None "+1"]
     "Browse transaction history" true
     ["トランザクション履歴の参照"];
   Message false [Loc None "+7"]
     "Staking" true
     ["カシメ"];
   Message false [Loc None "+1"]
     "Setup staking" true
     ["セットアップの取り込み"];
   Message false [Loc None "+25"]
     "E&amp;xit" true
     ["E&amp;xit"];
   Message false [Loc None "+1"]
     "Quit application" true
     ["アプリケーションを終了する"];
   Message false [Loc None "+3"]
     "&amp;About %1" true
     ["&amp;約 %1"];
   Message false [Loc None "+1"]
     "Show information about %1" true
     ["%1 に関する情報を表示する"];
   Message false [Loc None "+3"]
     "About &amp;Qt" true
     ["&amp;Qt について"];
   Message false [Loc None "+1"]
     "Show information about Qt" true
     ["Qt に関する情報を表示する"];
   Message false [Loc None "+2"]
     "&amp;Options..." true
     ["&amp;オプション..."];
   Message false [Loc None "+1"]
     "Modify configuration options for %1" true
     ["%1 の構成オプションを変更する"];
   Message false [Loc None "+3"]
     "&amp;Show / Hide" true
     ["&amp;表示/非表示"];
   Message false [Loc None "+1"]
     "Show or hide the main Window" true
     ["メイン ウィンドウを表示または非表示にする"];
   Message false [Loc None "+2"]
     "&amp;Encrypt Wallet..." true
     ["&amp;暗号化ウォレット..."];
   Message false [Loc None "+1"]
     "Encrypt the private keys that belong to your wallet" true
     ["ウォレットに属する秘密キーを暗号化する"];
   Message false [Loc None "+2"]
     "&amp;Backup Wallet..." true
     ["&amp;バックアップウォレット..."];
   Message false [Loc None "+1"]
     "Backup wallet to another location" true
     ["別の場所へのバックアップウォレット"];
   Message false [Loc None "+1"]
     "&amp;Change Passphrase..." true
     ["&amp;パスフレーズの変更..."];
   Message false [Loc None "+1"]
     "Change the passphrase used for wallet encryption" true
     ["ウォレットの暗号化に使用するパスフレーズを変更する"];
   Message false [Loc None "+1"]
     "Sign &amp;message..." true
     ["署名とメッセージ..."]].

Definition ja_BitcoinGUI_2 : list message :=
  [Message false [Loc None "+1"]
     "Sign messages with your Bitcoin Confidential addresses to prove you own them" true
     ["ビットコインの機密アドレスでメッセージに署名し、自分が所有しているっていることを証明する"];
   Message false [Loc None "+1"]
     "&amp;Verify message..." true
     ["&amp;メッセージを確認..."];
   Message false [Loc None "+1"]
     "Verify messages to ensure they were signed with specified Bitcoin Confidential addresses" true
     ["メッセージが指定されたビットコイン機密アドレスで署名されていることを確認します。"];
   Message false [Loc None "+2"]
     "&amp;Debug window" true
     ["&amp;デバッグウィンドウ"];
   Message false [Loc None "+1"]
     "Open debugging and diagnostic console" true
     ["オープンデバッグと診断コンソール"];
   Message false [Loc None "+4"]
     "&amp;Sending addresses..." true
     ["&amp;アドレスを送信しています..."];
   Message false [Loc None "+1"]
     "Show the list of used sending addresses and labels" true
     ["使用する送信先のアドレスとラベルの一覧を表示する"];
   Message false [Loc None "+1"]
     "&amp;Receiving addresses..." true
     ["&amp;受信アドレス..."];
   Message false [Loc None "+1"]
     "Show the list of used receiving addresses and labels" true
     ["使用済みの受信アドレスとラベルの一覧を表示する"];
   Message false [Loc None "+2"]
     "Open &amp;URI..." true
     ["オープン &amp;URI..."];
   Message false [Loc None "+1"]
     "Open a bitcoinc: URI or payment request" true
     ["ビットコインを開く: URI または支払い要求"];
   Message false [Loc None "+2"]
     "&amp;Command-line options" true
     ["&amp;コマンドラインオプション"];
   Message false [Loc None "+2"]
     "Show the %1 help message to get a list with possible Bitcoin Confidential command-line options" true
     ["%1 ヘルプ メッセージを表示して、機密コマンド ライン オプションを含む ビットコインのリストを取得する"];
   Message false [Loc None "+2"]
     "&amp;HD Wallet..." true
     ["&amp;HD ウォレット..."];
   Message false [Loc None "+45"]
     "&amp;File" true
     ["&amp;ファイル"];
   Message false [Loc None "+16"]
     "&amp;Settings" true
     ["&amp;設定"];
   Message false [Loc None "+9"]
     "&amp;Help" true
     ["&amp;ヘルプ"];
   Message false [Loc None "+15"]
     "Tabs toolbar" true
     ["タブ ツールバー"];
   Message false [Loc None "+113"]
     "default wallet" true
     ["デフォルトのウォレット"];
   Message false [Loc None "+88"]
     "%1 client" true
     ["%1 クライアント"];
   Message true [Loc None "+189"]
     "%n active connection(s) to Bitcoin Confidential network" false
     [(Txt [])];
   Message false [Loc None "+0"]
     "Click to disable network activity." true
     ["クリックしてネットワークアクティビティを無効にします。"];
   Message false [Loc None "+2"]
     "Network activity disabled." true
     ["ネットワーク アクティビティが無効です。"];
   Message false [Loc None "+0"]
     "Click to enable network activity again." true
     ["クリックして、ネットワークアクティビティを再度有効にします。"];
   Message false [Loc None "+28"]
     "Syncing Headers (%1%)..." true
     ["ヘッダーの同期 (%1%)..."];
   Message false [Loc None "+26"]
     "Synchronizing with network..." true
     ["ネットワークとの同期..."];
   Message false [Loc None "+5"]
     "Indexing blocks on disk..." true
     ["ディスク上のブロックのインデックスを作成しています..."];
   Message false [Loc None "+2"]
     "Processing blocks on disk..." true
     ["ディスク上のブロックを処理しています..."];
   Message false [Loc None "+4"]
     "Reindexing blocks on disk..." true
     ["ディスク上のブロックのインデックスを再作成しています..."];
   Message false [Loc None "+6"]
     "Connecting to peers..." true
     ["ピアに接続しています..."]].

Definition ja_BitcoinGUI_3 : list message :=
  [Message true [Loc None "+9"]
     "Processed %n block(s) of transaction history." false
     [(Txt [])];
   Message false [Loc None "+5"]
     "Up to date" true
     ["最新です"];
   Message false [Loc None "+19"]
     "%1 behind" true
     ["%1 後ろ"];
   Message false [Loc None "+5"]
     "Catching up..." true
     ["追いつく。。。"];
   Message false [Loc None "+19"]
     "Last received block was generated %1 ago." true
     ["最後に受信したブロックは %1 より前に生成されました。"];
   Message false [Loc None "+2"]
     "Transactions after this will not yet be visible." true
     ["この後のトランザクションはまだ表示されません。"];
   Message false [Loc None "+13"]
     "Bitcoin Confidential" true
     ["ビットコイン機密"];
   Message false [Loc None "+14"]
     "Error" true
     ["エラー"];
   Message false [Loc None "+3"]
     "Warning" true
     ["警告"];
   Message false [Loc None "+3"]
     "Information" true
     ["情報"];
   Message false [Loc None "+116"]
     "Date: %1
" true
     ["日付: %1"];
   Message false [Loc None "+1"]
     "Amount: %1
" true
     ["金額: %1"];
   Message false [Loc None "+2"]
     "Wallet: %1
" true
     ["ウォレット: %1"];
   Message false [Loc None "+2"]
     "Type: %1
" true
     ["タイプ: %1"];
   Message false [Loc None "+2"]
     "Label: %1
" true
     ["ラベル: %1"];
   Message false [Loc None "+2"]
     "Address: %1
" true
     ["住所: %1"];
   Message false [Loc None "+1"]
     "Sent transaction" true
     ["送信済トランザクション"];
   Message false [Loc None "+0"]
     "Incoming transaction" true
     ["受信トランザクション"];
   Message false [Loc None "+52"]
     "HD key generation is &lt;b&gt;enabled&lt;/b&gt;" true
     ["HD キー生成が&lt;b&gt;有効化されている&lt;/b&gt;"];
   Message false [Loc None "+0"]
     "HD key generation is &lt;b&gt;disabled&lt;/b&gt;" true
     ["HD キーの生成が&lt;b&gt;無効になっている&lt;/b&gt;"];
   Message false [Loc None "+13"]
     "Wallet is &lt;b&gt;not encrypted&lt;/b&gt;. Click the opened lock to encrypt it." true
     ["ウォレットは&lt;b&gt;暗号化されていません。&lt;/b&gt;開いたロックをクリックして暗号化します。"];
   Message false [Loc None "+8"]
     "Wallet is &lt;b&gt;encrypted&lt;/b&gt; and currently &lt;b&gt;unlocked&lt;/b&gt;" true
     ["ウォレットは&lt;b&gt;暗号化され、&lt;/b&gt;現在&lt;b&gt;ロックが解除されています&lt;/b&gt;"];
   Message false [Loc None "+8"]
     "Wallet is &lt;b&gt;encrypted&lt;/b&gt; and currently &lt;b&gt;unlocked&lt;/b&gt; for staking only" true
     ["ウォレットは&lt;b&gt;暗号化され、&lt;/b&gt;現在は取り込み専用の&lt;b&gt;ロックが解除されています&lt;/b&gt;"];
   Message false [Loc None "+8"]
     "Wallet is &lt;b&gt;encrypted&lt;/b&gt; and currently &lt;b&gt;locked&lt;/b&gt;" true
     ["ウォレットは&lt;b&gt;暗号化され、&lt;/b&gt;現在&lt;b&gt;ロックされています&lt;/b&gt;"];
   Message false [Loc None "+58"]
     "Proxy is &lt;b&gt;enabled&lt;/b&gt;: %1" true
     ["プロキシが&lt;b&gt;有効:&lt;/b&gt;%1"];
   Message false [Loc None "+28"]
     "Tor is &lt;b&gt;enabled&lt;/b&gt;" true
     ["Tor が&lt;b&gt;有効になっている&lt;/b&gt;"];
   Message false [Loc None "+3"]
     "Tor is &lt;b&gt;enabled&lt;/b&gt;, but its not the only network used. Use only onlynet=onion." true
     ["Tor は&lt;b&gt;有効&lt;/b&gt;になっていますが、使用されるネットワークはそれだけではありません。ネット=タマネギのみを使用してください。"];
   Message false [Loc None "+3"]
     "Tor is &lt;b&gt;disabled&lt;/b&gt;. To enhance your privacy setup consider using tor by setting &lt;b&gt;onlynet=onion&lt;/b&gt; in your &lt;b&gt;bitcoinc.conf&lt;/b&gt;." true
     ["Tor は&lt;b&gt;無効です。&lt;/b&gt;あなたのプライバシーの設定を強化するために、&lt;b&gt;あなたのbitcoinc.conf&lt;/b&gt;で&lt;b&gt;唯一のnet=タマネギ&lt;/b&gt;を設定することにより、torを使用することを検討してください。"]].

Definition ja_BitcoinGUI_4 : list message :=
  [Message false [Loc (Some "../bitcoin.cpp") "+528"]
     "A fatal error occurred. Bitcoin Confidential can no longer continue safely and will quit." true
     ["致命的なエラーが発生しました。ビットコイン 機密は安全に続行すうことができず、終了します。"]].

Definition ja_CoinControlDialog_1 : list message :=
  [Message false [Loc (Some "../forms/coincontroldialog.ui") "+14"]
     "Coin Selection" true
     ["コインセレクション"];
   Message false [Loc None "+34"]
     "Quantity:" true
     ["量："];
   Message false [Loc None "+29"]
     "Bytes:" true
     ["バイト："];
   Message false [Loc None "+45"]
     "Amount:" true
     ["量："];
   Message false [Loc None "+32"]
     "Dust:" true
     ["ほこり："];
   Message false [Loc None "+48"]
     "Fee:" true
     ["料金："];
   Message false [Loc None "+45"]
     "After Fee:" true
     ["料金の後:"];
   Message false [Loc None "+32"]
     "Change:" true
     ["変更："];
   Message false [Loc None "+57"]
     "Standard" true
     ["標準"];
   Message false [Loc None "+5"]
     "Anon" true
     ["アノン"];
   Message false [Loc None "+14"]
     "Show all" true
     ["すべて表示"];
   Message false [Loc None "+13"]
     "(un)select all" true
     ["(un)すべてを選択"];
   Message false [Loc None "+16"]
     "Tree mode" true
     ["ツリーモード"];
   Message false [Loc None "+13"]
     "List mode" true
     ["リスト モード"];
   Message false [Loc None "+74"]
     "Amount" true
     ["量"];
   Message false [Loc None "+8"]
     "Received with label" true
     ["ラベル付き受け取り"];
   Message false [Loc None "+5"]
     "Received with address" true
     ["アドレスで受信"];
   Message false [Loc None "+5"]
     "Date" true
     ["日付"];
   Message false [Loc None "+5"]
     "Confirmations" true
     ["確認"];
   Message false [Loc None "+3"]
     "Confirmed" true
     ["確認"];
   Message false [Loc (Some "../coincontroldialog.cpp") "+73"]
     "Copy address" true
     ["住所のコピー"];
   Message false [Loc None "+1"]
     "Copy label" true
     ["ラベルのコピー"];
   Message false [Loc None "+1"; Loc None "+26"]
     "Copy amount" true
     ["コピー金額"];
   Message false [Loc None "-25"]
     "Copy transaction ID" true
     ["トランザクション ID のコピー"];
   Message false [Loc None "+1"]
     "Lock unspent" true
     ["未使用のロック"];
   Message false [Loc None "+1"]
     "Unlock unspent" true
     ["未使用のロックを解除する"];
   Message false [Loc None "+22"]
     "Copy quantity" true
     ["数量のコピー"];
   Message false [Loc None "+2"]
     "Copy fee" true
     ["コピー料金"];
   Message false [Loc None "+1"]
     "Copy after fee" true
     ["手数料後のコピー"]].

Definition ja_CoinControlDialog_2 : list message :=
  [Message false [Loc None "+1"]
     "Copy bytes" true
     ["コピーバイト"];
   Message false [Loc None "+1"]
     "Copy dust" true
     ["ダストのコピー"];
   Message false [Loc None "+1"]
     "Copy change" true
     ["変更のコピー"];
   Message false [Loc None "+340"]
     "(%1 locked)" true
     ["(%1 ロック)"];
   Message false [Loc None "+161"]
     "yes" true
     ["はい"];
   Message false [Loc None "+0"]
     "no" true
     ["いいえ"];
   Message false [Loc None "+14"]
     "This label turns red if any recipient receives an amount smaller than the current dust threshold." true
     ["いずれかの受信者が現在のダストしきい値より小さい量を受け取った場合、このラベルは赤色に変わります。"];
   Message false [Loc None "+5"]
     "Can vary +/- %1 satoshi(s) per input." true
     ["入力ごとに +/- %1 サトシを変更できます。"];
   Message false [Loc None "+47"]
     "Hide immature" true
     ["未熟を隠す"];
   Message false [Loc None "+2"]
     "Hide locked" true
     ["非表示にする"];
   Message false [Loc None "+6"]
     "Show immature" true
     ["未熟な表示"];
   Message false [Loc None "+2"]
     "Show locked" true
     ["ロックされた表示"];
   Message false [Loc None "+26"; Loc None "+66"; Loc None "+11"]
     "(no label)" true
     ["(ラベルなし)"];
   Message false [Loc None "-19"]
     "change from %1 (%2)" true
     ["%1 (%2) からの変更"];
   Message false [Loc None "+1"; Loc None "+20"]
     "(change)" true
     ["(変更)"];
   Message false [Loc None "-17"]
     "spending from %1 (%2)" true
     ["%1 からの支出 (%2)"]].

Definition ja_EditAddressDialog : list message :=
  [Message false [Loc (Some "../forms/editaddressdialog.ui") "+14"]
     "Edit Address" true
     ["住所の編集"];
   Message false [Loc None "+11"]
     "&amp;Label" true
     ["&amp;ラベル"];
   Message false [Loc None "+10"]
     "The label associated with this address list entry" true
     ["このアドレス一覧エントリに関連付けられているラベル"];
   Message false [Loc None "+7"]
     "&amp;Address" true
     ["および住所"];
   Message false [Loc None "+10"]
     "The address associated with this address list entry. This can only be modified for sending addresses." true
     ["このアドレス 一覧エントリに関連付けられているアドレス。これは、アドレスを送信する場合にのみ変更できます。"];
   Message false [Loc (Some "../editaddressdialog.cpp") "+29"]
     "New receiving address" true
     ["新しい受信アドレス"];
   Message false [Loc None "+5"]
     "New sending address" true
     ["新しい送信アドレス"];
   Message false [Loc None "+3"]
     "New Stake address" true
     ["新しいステークアドレス"];
   Message false [Loc None "+5"]
     "New ColdStake address" true
     ["新しいコールドステークアドレス"];
   Message false [Loc None "+5"]
     "Edit receiving address" true
     ["受信アドレスの編集"];
   Message false [Loc None "+4"]
     "Edit sending address" true
     ["送信アドレスの編集"];
   Message false [Loc None "+87"]
     "The entered address &quot;%1&quot; is not a valid Bitcoin Confidential address." true
     ["入力されたアドレス &quot;%1&quot; は有効なビットコイン機密アドレスではありません。"];
   Message false [Loc None "+10"]
     "Could not unlock wallet." true
     ["ウォレットのロックを解除できませんでした。"];
   Message false [Loc None "+5"]
     "New key generation failed." true
     ["新しいキー生成に失敗しました。"];
   Message false [Loc None "+18"]
     "Address &quot;%1&quot; already exists as a receiving address with label &quot;%2&quot; and so cannot be added as a sending address." true
     ["アドレス &quot;%1&quot; は既にラベル &quot;%2&quot; の受信アドレスとして存在するため、送信アドレスとして追加できません。"];
   Message false [Loc None "+5"]
     "The entered address &quot;%1&quot; is already in the address book with label &quot;%2&quot;." true
     ["入力されたアドレス &quot;%1&quot; は、ラベル &quot;%2&quot; のアドレス帳に既に含まれています。"]].

Definition ja_FreespaceChecker : list message :=
  [Message false [Loc (Some "../intro.cpp") "+78"]
     "A new data directory will be created." true
     ["新しいデータ ディレクトリが作成されます。"];
   Message false [Loc None "+22"]
     "name" true
     ["名前"];
   Message false [Loc None "+2"]
     "Directory already exists. Add %1 if you intend to create a new directory here." true
     ["ディレクトリは既に存在します。ここで新しいディレクトリを作成する場合は、%1 を追加します。"];
   Message false [Loc None "+3"]
     "Path already exists, and is not a directory." true
     ["パスは既に存在し、ディレクトリではありません。"];
   Message false [Loc None "+7"]
     "Cannot create data directory here." true
     ["ここでデータ ディレクトリを作成できません。"]].

Definition ja_HelpMessageDialog : list message :=
  [Message false [Loc (Some "../utilitydialog.cpp") "+41"]
     "version" true
     ["バージョン"];
   Message false [Loc None "+5"; Loc None "+2"]
     "(%1-bit)" true
     ["(%1 ビット)"];
   Message false [Loc None "+5"]
     "About %1" true
     ["%1について"];
   Message false [Loc None "+19"]
     "Command-line options" true
     ["コマンドラインオプション"]].

Definition ja_Intro : list message :=
  [Message false [Loc (Some "../forms/intro.ui") "+14"]
     "Welcome" true
     ["ようこそ"];
   Message false [Loc None "+9"]
     "Welcome to %1." true
     ["%1 へようこそ。"];
   Message false [Loc None "+26"]
     "As this is the first time the program is launched, you can choose where %1 will store its data." true
     ["プログラムが起動されるのはこれが初めてですから、%1 がデータを格納する場所を選択できます。"];
   Message false [Loc None "+17"]
     "Use the default data directory" true
     ["既定のデータ ディレクトリを使用する"];
   Message false [Loc None "+7"]
     "Use a custom data directory:" true
     ["カスタム データ ディレクトリを使用します。"];
   Message false [Loc None "+140"]
     "When you click OK, %1 will begin to download and process the full %4 block chain (%2GB) starting with the earliest transactions in %3 when %4 initially launched." true
     ["[OK] をクリックすると、%1 は%4 ブロック チェーンの完全なダウンロードと処理を開始し、%4 が最初に起動されたときに最も早いトランザクションから %3 で開始されます。"];
   Message false [Loc None "+10"]
     "This initial synchronisation is very demanding, and may expose hardware problems with your computer that had previously gone unnoticed. Each time you run %1, it will continue downloading where it left off." true
     ["この最初の同期は非常に要求が厳しく、以前は気付かれなかったコンピュータのハードウェアの問題が発生する可能性があります。%1 を実行するたびに、中断した場所からダウンロードが続行されます。"];
   Message false [Loc None "+10"]
     "If you have chosen to limit block chain storage (pruning), the historical data must still be downloaded and processed, but will be deleted afterward to keep your disk usage low." true
     ["ブロックチェーンストレージ(プルーニング)を制限することを選択した場合、履歴データはダウンロードして処理する必要がありますが、ディスクの使用量を低く抑えるために後で削除されます。"];
   Message false [Loc (Some "../intro.cpp") "+20"]
     "Bitcoin Confidential" true
     ["ビットコイン機密"];
   Message false [Loc None "+6"]
     "At least %1 GB of data will be stored in this directory, and it will grow over time." true
     ["少なくとも %1 GB のデータがこのディレクトリに格納され、時間の経過とわりに増加します。"];
   Message false [Loc None "+5"]
     "Approximately %1 GB of data will be stored in this directory." true
     ["およそ %1 GB のデータがこのディレクトリに格納されます。"];
   Message false [Loc None "+8"]
     "%1 will download and store a copy of the Bitcoin Confidential block chain." true
     ["%1 は、ビットコイン機密ブロックチェーンのコピーをダウンロードして保存します。"];
   Message false [Loc None "+2"]
     "The wallet will also be stored in this directory." true
     ["ウォレットもこのディレクトリに保存されます。"];
   Message false [Loc None "+73"]
     "Error: Specified data directory &quot;%1&quot; cannot be created." true
     ["エラー: 指定されたデータ ディレクトリ &quot;%1&quot; を作成できません。"];
   Message false [Loc None "+27"]
     "Error" true
     ["エラー"];
   Message true [Loc None "+9"]
     "%n GB of free space available" false
     [(Txt [])];
   Message true [Loc None "+3"]
     "(of %n GB needed)" false
     [(Txt [])]].

Definition ja_MnemonicDialog_1 : list message :=
  [Message false [Loc (Some "../forms/mnemonicdialog.ui") "+14"]
     "HD Wallet Setup" true
     ["HDウォレットのセットアップ"];
   Message false [Loc None "+11"]
     "Generate a mnemonic" true
     ["ニーモニックを生成する"];
   Message false [Loc None "+10"]
     "Create the wallet" true
     ["ウォレットを作成する"];
   Message false [Loc None "+22"]
     "Write down the Recovery Phrase/Mnemonic below or generate a new one with the desired settings by clicking &quot;NEW MNEMONIC&quot;. Store this phrase in a safe place. The clipboard will be cleared to ensure you have it recorded.  If you are recovering a backup, enter the Recovery Phrase/Mnemonic on the next screen.  Click the &quot;NEXT&quot; button to continue with the wallet creation." true
     ["以下のリカバリフレーズ/ニーモニックを書き留めるか、「NEW MNEMONIC」をクリックして、希望する設定で新しいものを生成します。このフレーズは安全な場所に保管してください。クリップボードがクリアされ、記録されていることを確認します。 バックアップを回復する場合は、次の画面に「回復フレーズ/ニーモニック」を入力します。 「NEXT」ボタンをクリックして、ウォレットの作成を続行します。"];
   Message false [Loc None "+36"]
     "Bytes of Entropy " true
     ["エントロピーのバイト数"];
   Message false [Loc None "+7"]
     "Language" true
     ["言語"];
   Message false [Loc None "+45"]
     "Entropy is an advanced feature. Your mnemonic may be insecure if this feature is used incorrectly." true
     ["エントロピーは高度な機能です。この機能が正しく使用されていない場合、ニーモニックが安全でない可能性があります。"];
   Message false [Loc None "+22"]
     "Select your language" true
     ["言語を選択する"];
   Message false [Loc None "+4"]
     "English" true
     ["英語"];
   Message false [Loc None "+5"]
     "French" true
     ["フランス語"];
   Message false [Loc None "+5"]
     "Japanese" true
     ["日本語"];
   Message false [Loc None "+5"]
     "Spanish" true
     ["スペイン語"];
   Message false [Loc None "+5"]
     "Chinese_s" true
     ["中国語_s"];
   Message false [Loc None "+5"]
     "Chinese_t" true
     ["中国語_t"];
   Message false [Loc None "+39"]
     "New mnemonic" true
     ["新しいニーモニック"];
   Message false [Loc None "+19"]
     "Next" true
     ["次に"];
   Message false [Loc None "+19"; Loc None "+198"]
     "Cancel" true
     ["キャンセル"];
   Message false [Loc None "-148"]
     "Recovery Passphrase " true
     ["回復パスフレーズ"];
   Message false [Loc None "+7"]
     "Import Chain" true
     ["インポート チェーン"];
   Message false [Loc None "+13"]
     "Warning" true
     ["警告"];
   Message false [Loc None "+33"]
     "Enter a passphrase to protect your Recovery Phrase (optional)" true
     ["回復フレーズを保護するためのパスフレーズを入力します(オプション)"];
   Message false [Loc None "+13"]
     "Only needed if you&apos;re importing " true
     ["インポートする場合にのみ必要"];
   Message false [Loc None "+16"]
     "Please ensure you backup your Recovery Phrase and Passphrase - they are not recoverable!" true
     ["回復フレーズとパスフレーズをバックアップしてください - 彼らは回復できません!"];
   Message false [Loc None "+28"]
     "Back" true
     ["戻る"];
   Message false [Loc None "+19"; Loc (Some "../mnemonicdialog.cpp") "+145"]
     "Import" true
     ["インポート"];
   Message false [Loc (Some "../mnemonicdialog.cpp") "-102"]
     "Optionally enter a passphrase to protect the Recovery Phrase. (This is not a wallet password.)" true
     ["必要に応じて、回復フレーズを保護するためにパスフレーズを入力します。(これはウォレットパスワードではありません。"];
   Message false [Loc None "+2"]
     "Enter the Recovery Phrase/Mnemonic." true
     ["回復フレーズ/ニーモニックを入力します。"];
   Message false [Loc None "+26"]
     "Create wallet" true
     ["ウォレットの作成"];
   Message false [Loc None "+16"]
     "Generate a new Recovery Phrase/Mnemonic with the desired settings by clicking &quot;NEW MNEMONIC&quot;." true
     ["「NEW MNEMONIC」をクリックして、希望する設定で新しいリカバリフレーズ/ニーモニックを生成します。"]].

Definition ja_MnemonicDialog_2 : list message :=
  [Message false [Loc None "+5"]
     "Import a mnemonic" true
     ["ニーモニックのインポート"];
   Message false [Loc None "+28"]
     "Confirm wallet creation cancel" true
     ["ウォレット作成のキャンセルの確認"];
   Message false [Loc None "+1"]
     "Are you sure you want to cancel the wallet creation?" true
     ["ウォレットの作成をキャンセルしますか?"];
   Message false [Loc None "+0"]
     "This is only recommended for advanced users to import with custom settings in the debug console or with the RPC interface." true
     ["これは、上級ユーザーがデバッグ コンソールまたは RPC インターフェイスでカスタム設定を使用してインポートする場合にのみ推奨されます。"]].

Definition ja_ModalOverlay : list message :=
  [Message false [Loc (Some "../forms/modaloverlay.ui") "+14"]
     "Form" true
     ["フォーム"];
   Message false [Loc None "+122"]
     "Recent transactions may not yet be visible, and therefore your wallet&apos;s balance might be incorrect. This information will be correct once your wallet has finished synchronizing with the Bitcoin Confidential network, as detailed below." true
     ["最近の取引がまだ表示されない可能性があるため、ウォレットの残高が正しくない可能性があります。この情報は、以下に詳しく説明するように、ウォレットがビットコイン機密ネットワークとの同期を完了すると正しくなります。"];
   Message false [Loc None "+19"]
     "Attempting to spend coins that are affected by not-yet-displayed transactions will not be accepted by the network." true
     ["まだ表示されていない取引の影響を受けるコインを使おうとすると、ネットワークでは受け付けられません。"];
   Message false [Loc None "+63"]
     "Number of blocks left" true
     ["残りのブロック数"];
   Message false [Loc None "+7"; Loc None "+26"; Loc (Some "../modaloverlay.cpp") "+140"]
     "Unknown..." true
     ["未知。。。"];
   Message false [Loc None "-13"]
     "Last block time" true
     ["最後のブロック時間"];
   Message false [Loc None "+26"]
     "Progress" true
     ["進行 状況"];
   Message false [Loc None "+34"]
     "Progress increase per hour" true
     ["1 時間あたりの進捗率の増加"];
   Message false [Loc None "+7"; Loc None "+20"]
     "calculating..." true
     ["計算。。。"];
   Message false [Loc None "-7"]
     "Estimated time left until synced" true
     ["同期されるまでの推定残り時間"];
   Message false [Loc None "+40"]
     "Hide" true
     ["隠す"];
   Message false [Loc (Some "../modaloverlay.cpp") "-1"]
     "Unknown. Syncing Headers (%1)..." true
     ["未知。ヘッダーの同期 (%1)..."]].

Definition ja_OpenURIDialog : list message :=
  [Message false [Loc (Some "../forms/openuridialog.ui") "+14"]
     "Open URI" true
     ["URI を開く"];
   Message false [Loc None "+6"]
     "Open payment request from URI or file" true
     ["URI またはファイルから支払い要求を開く"];
   Message false [Loc None "+9"]
     "URI:" true
     ["Uri："];
   Message false [Loc None "+10"]
     "Select payment request file" true
     ["支払依頼ファイルの選択"];
   Message false [Loc (Some "../openuridialog.cpp") "+45"]
     "Select payment request file to open" true
     ["開く支払要求ファイルを選択します。"]].

Definition ja_OptionsDialog_1 : list message :=
  [Message false [Loc (Some "../forms/optionsdialog.ui") "+14"]
     "Options" true
     ["オプション"];
   Message false [Loc None "+14"]
     "&amp;Main" true
     ["&amp;メイン"];
   Message false [Loc None "+13"]
     "W&amp;allet" true
     ["W&amp;アレット"];
   Message false [Loc None "+13"]
     "&amp;Network" true
     ["&amp;ネットワーク"];
   Message false [Loc None "+13"]
     "&amp;Window" true
     ["&amp;ウィンドウ"];
   Message false [Loc None "+13"]
     "&amp;Display" true
     ["&amp;表示"];
   Message false [Loc None "+22"]
     "Automatically start %1 after logging in to the system." true
     ["システムにログインした後、%1 を自動的に開始します。"];
   Message false [Loc None "+3"]
     "&amp;Start %1 on system login" true
     ["&amp;システムログイン時に %1 を開始する"];
   Message false [Loc None "+22"]
     "Disables some advanced features but all blocks will still be fully validated. Reverting this setting requires re-downloading the entire blockchain. Actual disk usage may be somewhat higher." true
     ["一部の高度な機能を無効にしますが、すべてのブロックは完全に検証されます。この設定を元に戻すには、ブロックチェーン全体を再ダウンロードする必要があります。実際のディスク使用量は多少高くなる場合があります。"];
   Message false [Loc None "+3"]
     "Prune &amp;block storage to" true
     ["プルーネ&amp;ブロックストレージ"];
   Message false [Loc None "+17"]
     "GB" true
     ["Gb"];
   Message false [Loc None "+25"]
     "Reverting this setting requires re-downloading the entire blockchain." true
     ["この設定を元に戻すには、ブロックチェーン全体を再ダウンロードする必要があります。"];
   Message false [Loc None "+12"]
     "Size of &amp;database cache" true
     ["&amp;データベース キャッシュのサイズ"];
   Message false [Loc None "+23"]
     "MB" true
     ["Mb"];
   Message false [Loc None "+27"]
     "Number of script &amp;verification threads" true
     ["スクリプトと検証スレッドの数"];
   Message false [Loc None "+19"]
     "(0 = auto, &lt;0 = leave that many cores free)" true
     ["(0 = 自動、&lt;0 = leave that many cores free) ==&quot;&quot; leave=&quot;&quot; that=&quot;&quot; many=&quot;&quot; cores=&quot;&quot;&gt;&lt;/0 = leave that many cores free)&gt;"];
   Message false [Loc None "+39"]
     "Expert" true
     ["専門家"];
   Message false [Loc None "+6"]
     "Whether to show coin control features or not." true
     ["コインコントロール機能を表示するかどうか。"];
   Message false [Loc None "+3"]
     "Enable coin &amp;control features" true
     ["コイン&amp;コントロール機能を有効にする"];
   Message false [Loc None "+7"]
     "If you disable the spending of unconfirmed change, the change from a transaction cannot be used until that transaction has at least one confirmation. This also affects how your balance is computed." true
     ["未確認の変更の支出を無効にすると、そのトランザクションに少なくとも 1 つの確認が含まれるまで、トランザクションからの変更は使用できません。これは、残高の計算方法にも影響します。"];
   Message false [Loc None "+3"]
     "&amp;Spend unconfirmed change" true
     ["&amp;未確認の変更を過ごす"];
   Message false [Loc None "+7"]
     "Display notification dialog for incoming stake transactions." true
     ["入金ステークトランザクションの通知ダイアログを表示します。"];
   Message false [Loc None "+3"]
     "&amp;Show incoming stake notifications" true
     ["&amp;着信ステーク通知を表示"];
   Message false [Loc None "+27"]
     "Automatically open the Bitcoin Confidential client port on the router. This only works when your router supports UPnP and it is enabled." true
     ["ルータのビットコイン機密クライアント ポートを自動的に開きます。これは、ルータが UPnP をサポートし、有効になっている場合にのみ機能します。"];
   Message false [Loc None "+3"]
     "Map port using &amp;UPnP" true
     ["&amp;UPnP を使用したマップ ポート"];
   Message false [Loc None "+7"]
     "Accept connections from outside." true
     ["外部からの接続を受け入れます。"];
   Message false [Loc None "+3"]
     "Allow incomin&amp;g connections" true
     ["インコミン&amp;g 接続を許可する"];
   Message false [Loc None "+7"]
     "Connect to the Bitcoin Confidential network through a SOCKS5 proxy." true
     ["SOCKS5 プロキシを介してビットコイン機密ネットワークに接続します。"];
   Message false [Loc None "+3"]
     "&amp;Connect through SOCKS5 proxy (default proxy):" true
     ["&amp;SOCKS5 プロキシ (既定のプロキシ) を介して接続します。"]].

Definition ja_OptionsDialog_2 : list message :=
  [Message false [Loc None "+9"; Loc None "+193"]
     "Proxy &amp;IP:" true
     ["プロキシと IP:"];
   Message false [Loc None "-168"; Loc None "+193"]
     "IP address of the proxy (e.g. IPv4: 127.0.0.1 / IPv6: ::1)" true
     ["プロキシの IP アドレス (IPv4: 127.0.0.1 / IPv6: ::1)"];
   Message false [Loc None "-183"; Loc None "+193"]
     "&amp;Port:" true
     ["&amp;ポート:"];
   Message false [Loc None "-168"; Loc None "+193"]
     "Port of the proxy (e.g. 9050)" true
     ["プロキシのポート(例:9050)"];
   Message false [Loc None "-166"]
     "Used for reaching peers via:" true
     ["次の方法でピアに到達するために使用されます。"];
   Message false [Loc None "+13"; Loc None "+23"; Loc None "+23"]
     "Shows if the supplied default SOCKS5 proxy is used to reach peers via this network type." true
     ["このネットワークタイプを介してピアに到達するために、指定されたデフォルトの SOCKS5 プロキシが使用されているかどうかを示します。"];
   Message false [Loc None "-36"]
     "IPv4" true
     ["IPv4"];
   Message false [Loc None "+23"]
     "IPv6" true
     ["IPv6"];
   Message false [Loc None "+23"]
     "Tor" true
     ["Tor"];
   Message false [Loc None "+25"]
     "Connect to the Bitcoin Confidential network through a separate SOCKS5 proxy for Tor hidden services." true
     ["Tor隠しサービス用の別の SOCKS5 プロキシを介して、ビットコイン機密ネットワークに接続します。"];
   Message false [Loc None "+3"]
     "Use separate SOCKS&amp;5 proxy to reach peers via Tor hidden services:" true
     ["Tor隠しサービスを介してピアに到達するには、別々のSOCKS&amp;5プロキシを使用してください。"];
   Message false [Loc None "+111"]
     "Hide the icon from the system tray." true
     ["システム トレイからアイコンを非表示にします。"];
   Message false [Loc None "+3"]
     "&amp;Hide tray icon" true
     ["&amp;トレイアイコンを非表示にする"];
   Message false [Loc None "+7"]
     "Show only a tray icon after minimizing the window." true
     ["ウィンドウを最小化した後、トレイ アイコンのみを表示します。"];
   Message false [Loc None "+3"]
     "&amp;Minimize to the tray instead of the taskbar" true
     ["&amp;タスク バーの代わりにトレイに最小化"];
   Message false [Loc None "+7"]
     "Minimize instead of exit the application when the window is closed. When this option is enabled, the application will be closed only after selecting Exit in the menu." true
     ["ウィンドウが閉じられたときにアプリケーションを終了する代わりに最小化します。このオプションを有効にすると、メニューで [終了] を選択した後にのみアプリケーションが閉じられます。"];
   Message false [Loc None "+3"]
     "M&amp;inimize on close" true
     ["近くでM&amp;イニミズ"];
   Message false [Loc None "+26"]
     "User Interface &amp;language:" true
     ["ユーザー インターフェイスと言語:"];
   Message false [Loc None "+22"]
     "The user interface language can be set here. This setting will take effect after restarting %1." true
     ["ユーザー インターフェイス言語は、ここで設定できます。この設定は、%1 を再起動した後に有効になります。"];
   Message false [Loc None "+11"]
     "&amp;Unit to show amounts in:" true
     ["&amp;単位で金額を表示するには:"];
   Message false [Loc None "+22"]
     "Choose the default subdivision unit to show in the interface and when sending coins." true
     ["インターフェイスとコインの送信時に表示する既定のサブディビジョンユニットを選択します。"];
   Message false [Loc None "+11"; Loc None "+22"]
     "Third party URLs (e.g. a block explorer) that appear in the transactions tab as context menu items. %s in the URL is replaced by transaction hash. Multiple URLs are separated by vertical bar |." true
     ["トランザクション タブにコンテキスト メニュー項目として表示されるサード パーティの URL (ブロック エクスプローラなど)。URL の %s はトランザクション ハッシュに置き換えられます。複数の URL は垂直バーで区切られ |。"];
   Message false [Loc None "-19"]
     "&amp;Third party transaction URLs" true
     ["&amp;第三者取引URL"];
   Message false [Loc None "+50"]
     "Active command-line options that override above options:" true
     ["上記のオプションをオーバーライドするアクティブなコマンド ライン オプション:"];
   Message false [Loc None "+45"]
     "Open the %1 configuration file from the working directory." true
     ["作業ディレクトリから %1 構成ファイルを開きます。"];
   Message false [Loc None "+3"]
     "Open Configuration File" true
     ["構成ファイルを開く"];
   Message false [Loc None "+10"]
     "Reset all client options to default." true
     ["すべてのクライアント オプションを既定にリセットします。"];
   Message false [Loc None "+3"]
     "&amp;Reset Options" true
     ["&amp;リセットオプション"]].

Definition ja_OptionsDialog_3 : list message :=
  [Message false [Loc None "+80"]
     "&amp;OK" true
     ["&amp;OK"];
   Message false [Loc None "+13"]
     "&amp;Cancel" true
     ["&amp;キャンセル"];
   Message false [Loc (Some "../optionsdialog.cpp") "+109"]
     "default" true
     ["既定"];
   Message false [Loc None "+56"]
     "none" true
     ["なし"];
   Message false [Loc None "+82"]
     "Confirm options reset" true
     ["オプションのリセットの確認"];
   Message false [Loc None "+1"; Loc None "+60"]
     "Client restart required to activate changes." true
     ["変更をアクティブ化するためにクライアントの再起動が必要です。"];
   Message false [Loc None "-60"]
     "Client will be shut down. Do you want to proceed?" true
     ["クライアントはシャットダウンされます。続行しますか?"];
   Message false [Loc None "+15"]
     "Configuration options" true
     ["コンフィギュレーション オプション"];
   Message false [Loc None "+1"]
     "The configuration file is used to specify advanced user options which override GUI settings. Additionally, any command-line options will override this configuration file." true
     ["構成ファイルは、GUI 設定をオーバーライドする高度なユーザー オプションを指定するために使用されます。さらに、コマンド ライン オプションは、この構成ファイルをオーバーライドします。"];
   Message false [Loc None "+5"]
     "Error" true
     ["エラー"];
   Message false [Loc None "+0"]
     "The configuration file could not be opened." true
     ["構成ファイルを開けることができませんでした。"];
   Message false [Loc None "+43"]
     "This change would require a client restart." true
     ["この変更には、クライアントの再起動が必要です。"];
   Message false [Loc None "+28"]
     "The supplied proxy address is invalid." true
     ["指定されたプロキシ アドレスが無効です。"]].

Definition ja_OverviewPage : list message :=
  [Message false [Loc (Some "../forms/overviewpage.ui") "+14"]
     "Form" true
     ["フォーム"];
   Message false [Loc None "+43"]
     "Bitcoin Confidential Core" true
     ["ビットコインコンフィデンシャルコア"];
   Message false [Loc None "+38"; Loc None "+114"; Loc None "+210"]
     "Pending" true
     ["保留 中"];
   Message false [Loc None "-308"]
     "Spending" true
     ["支出"];
   Message false [Loc None "+108"]
     "Watch-only" true
     ["ウォッチのみ"];
   Message false [Loc None "+73"; Loc None "+191"]
     "Available" true
     ["利用 可能"];
   Message false [Loc None "-181"]
     "Spendable" true
     ["支出可能"];
   Message false [Loc None "+41"]
     "Staking" true
     ["カシメ"];
   Message false [Loc None "+130"]
     "Immature" true
     ["未熟"];
   Message false [Loc None "+86"]
     "Total" true
     ["合計"];
   Message false [Loc None "+90"]
     "Recent transactions" true
     ["最近のトランザクション"];
   Message false [Loc None "+19"]
     "The displayed information may be out of date. Your wallet automatically synchronizes with the Bitcoin Confidential network after a connection is established, but this process has not completed yet." true
     ["表示される情報が古い可能性があります。ウォレットは、接続が確立された後にビットコイン機密ネットワークと自動的に同期しますが、このプロセスはまだ完了していません。"]].

Definition ja_PaymentServer : list message :=
  [Message false [Loc (Some "../paymentserver.cpp") "+317"; Loc None "+215"; Loc None "+42"; Loc None "+110"; Loc None "+14"; Loc None "+18"]
     "Payment request error" true
     ["支払要求エラー"];
   Message false [Loc None "-398"]
     "Cannot start bitcoinc: click-to-pay handler" true
     ["ビットコインを開始できません: クリックから支払いハンドラ"];
   Message false [Loc None "+82"; Loc None "+21"; Loc None "+13"; Loc None "+7"]
     "URI handling" true
     ["URI の処理"];
   Message false [Loc None "-41"]
     "&apos;bitcoin://&apos; is not a valid URI. Use &apos;bitcoin:&apos; instead." true
     ["&apos;bitcoin://&apos; は有効な URI ではありません。代わりに &apos;bitcoin:&apos; を使用します。"];
   Message false [Loc None "+22"]
     "Payment request fetch URL is invalid: %1" true
     ["支払要求フェッチ URL が無効です: %1"];
   Message false [Loc None "+12"]
     "Invalid payment address %1" true
     ["無効な支払アドレス %1"];
   Message false [Loc None "+8"]
     "URI cannot be parsed! This can be caused by an invalid Bitcoin Confidential address or malformed URI parameters." true
     ["URI を解析できません。これは、無効なビットコイン機密アドレスまたは不正な URI パラメーターが原因で発生する可能性があります。"];
   Message false [Loc None "+13"]
     "Payment request file handling" true
     ["支払要求ファイルの処理"];
   Message false [Loc None "+1"]
     "Payment request file cannot be read! This can be caused by an invalid payment request file." true
     ["支払い要求ファイルを読み取ることができません!これは、無効な支払要求ファイルが原因で発生する可能性があります。"];
   Message false [Loc None "+61"; Loc None "+9"; Loc None "+31"; Loc None "+10"; Loc None "+17"; Loc None "+85"]
     "Payment request rejected" true
     ["支払要求が拒否されました"];
   Message false [Loc None "-152"]
     "Payment request network doesn&apos;t match client network." true
     ["支払要求ネットワークがクライアント ネットワークと一致しません。"];
   Message false [Loc None "+9"]
     "Payment request expired." true
     ["支払い要求の有効期限が切れました。"];
   Message false [Loc None "+6"]
     "Payment request is not initialized." true
     ["支払要求は初期化されません。"];
   Message false [Loc None "+26"]
     "Unverified payment requests to custom payment scripts are unsupported." true
     ["カスタム支払スクリプトに対する未確認の支払い要求はサポートされていません。"];
   Message false [Loc None "+9"; Loc None "+17"]
     "Invalid payment request." true
     ["無効な支払い要求です。"];
   Message false [Loc None "-10"]
     "Requested payment amount of %1 is too small (considered dust)." true
     ["要求された支払金額 %1 が小さすぎます (ほこりと見なされます)。"];
   Message false [Loc None "+65"]
     "Refund from %1" true
     ["%1 からの払い戻し"];
   Message false [Loc None "+31"]
     "Payment request %1 is too large (%2 bytes, allowed %3 bytes)." true
     ["支払要求 %1 が大きすぎます (%2 バイト、許可された %3 バイト)。"];
   Message false [Loc None "+9"]
     "Error communicating with %1: %2" true
     ["%1: %2 との通信中にエラーが発生しました"];
   Message false [Loc None "+20"]
     "Payment request cannot be parsed!" true
     ["支払い要求を解析できません。"];
   Message false [Loc None "+13"]
     "Bad response from server %1" true
     ["サーバー %1 からの応答が正しくなります"];
   Message false [Loc None "+22"]
     "Network request error" true
     ["ネットワーク要求エラー"];
   Message false [Loc None "+11"]
     "Payment acknowledged" true
     ["支払確認済み"]].

Definition ja_PeerTableModel : list message :=
  [Message false [Loc (Some "../peertablemodel.cpp") "+109"]
     "NodeId" true
     ["ノード Id"];
   Message false [Loc None "+0"]
     "Node/Service" true
     ["ノード/サービス"];
   Message false [Loc None "+0"]
     "Ping" true
     ["Ping"];
   Message false [Loc None "+0"]
     "Sent" true
     ["送信"];
   Message false [Loc None "+0"]
     "Received" true
     ["受信"];
   Message false [Loc None "+0"]
     "User Agent" true
     ["ユーザー エージェント"]].

Definition ja_QObject : list message :=
  [Message false [Loc (Some "../bitcoinunits.cpp") "+196"]
     "Amount" true
     ["量"];
   Message false [Loc (Some "../guiutil.cpp") "+96"]
     "Enter Spending address" true
     ["支出住所の入力"];
   Message false [Loc None "+12"]
     "Enter ColdStake address" true
     ["コールドステークアドレスを入力する"];
   Message false [Loc None "+2"]
     "Enter Stake address of remote node" true
     ["リモート ノードのステーク アドレスを入力します。"];
   Message false [Loc None "+2"]
     "Enter Stake address" true
     ["ステークアドレスの入力"];
   Message false [Loc None "+687"]
     "%1 d" true
     ["%1 d"];
   Message false [Loc None "+2"]
     "%1 h" true
     ["%1 h"];
   Message false [Loc None "+2"]
     "%1 m" true
     ["%1 m"];
   Message false [Loc None "+2"; Loc None "+53"]
     "%1 s" true
     ["%1 s"];
   Message false [Loc None "-10"]
     "None" true
     ["なし"];
   Message false [Loc None "+5"]
     "N/A" true
     ["N/a"];
   Message false [Loc None "+0"]
     "%1 ms" true
     ["%1 ミリ秒"];
   Message true [Loc None "+18"]
     "%n second(s)" false
     [(Txt [])];
   Message true [Loc None "+4"]
     "%n minute(s)" false
     [(Txt [])];
   Message true [Loc None "+4"]
     "%n hour(s)" false
     [(Txt [])];
   Message true [Loc None "+4"]
     "%n day(s)" false
     [(Txt [])];
   Message true [Loc None "+4"; Loc None "+6"]
     "%n week(s)" false
     [(Txt [])];
   Message false [Loc None "+0"]
     "%1 and %2" true
     ["%1 および %2"];
   Message true [Loc None "+0"]
     "%n year(s)" false
     [(Txt [])];
   Message false [Loc None "+8"]
     "%1 B" true
     ["%1 B"];
   Message false [Loc None "+2"]
     "%1 KB" true
     ["%1 KB"];
   Message false [Loc None "+2"]
     "%1 MB" true
     ["%1 MB"];
   Message false [Loc None "+2"]
     "%1 GB" true
     ["%1 GB"];
   Message false [Loc None "+71"]
     "All spending funds are sent and received anonymously. Only the sender and receiver have details of their side of the transaction. Staking funds need to be converted to spending before sending out of wallet. Funds require %1 confirmations (%2 minutes) before sending." true
     ["すべての支出資金は匿名で送受信されます。送信者と受信者だけが、トランザクションの側の詳細を持っています。財布から出る前に、資金を支出に変換する必要があります。資金は、送信前に%1 確認(%2分)を必要とします。"];
   Message false [Loc None "+15"]
     "Staking funds cannot be sent out of your wallet without converting to spending. After converting to spending, %1 confirmations (%2 minutes) are required before sending." true
     ["消費資金は、支出に変換せずに財布から送金することはできません。支出に変換した後、送信する前に %1 確認 (%2 分) が必要です。"];
   Message false [Loc (Some "../modaloverlay.cpp") "-29"]
     "unknown" true
     ["未知"];
   Message false [Loc (Some "../bitcoin.cpp") "+186"]
     "%1 didn&apos;t yet exit safely..." true
     ["%1 はまだ安全に終了していません..."]].

Definition ja_QObject__QObject : list message :=
  [Message false [Loc None "-117"]
     "Error parsing command line arguments: %1." true
     ["コマンド ライン引数の解析中にエラーが発生しました: %1 です。"];
   Message false [Loc None "+38"]
     "Error: Specified data directory &quot;%1&quot; does not exist." true
     ["エラー: 指定されたデータ ディレクトリ &quot;%1&quot; が存在しません。"];
   Message false [Loc None "+5"]
     "Error: Cannot parse configuration file: %1." true
     ["エラー: 構成ファイルを解析できません: %1。"];
   Message false [Loc None "+14"]
     "Error: %1" true
     ["エラー: %1"]].

Definition ja_QRImageWidget : list message :=
  [Message false [Loc (Some "../receiverequestdialog.cpp") "+32"]
     "&amp;Save Image..." true
     ["&amp;画像を保存..."];
   Message false [Loc None "+3"]
     "&amp;Copy Image" true
     ["&amp;画像のコピー"];
   Message false [Loc None "+32"]
     "Save QR Code" true
     ["QRコードを保存"];
   Message false [Loc None "+0"]
     "PNG Image (*.png)" true
     ["PNG 画像 (*.png)"]].

Definition ja_RPCConsole_1 : list message :=
  [Message false [Loc (Some "../forms/debugwindow.ui") "+14"]
     "Debug window" true
     ["デバッグ ウィンドウ"];
   Message false [Loc None "+11"]
     "Information" true
     ["情報"];
   Message false [Loc None "+13"]
     "Console" true
     ["コンソール"];
   Message false [Loc None "+10"]
     "Network Traffic" true
     ["ネットワーク トラフィック"];
   Message false [Loc None "+10"]
     "Peers" true
     ["ピア"];
   Message false [Loc None "+21"; Loc None "+1004"]
     "User Agent" true
     ["ユーザー エージェント"];
   Message false [Loc None "-988"]
     "Block chain" true
     ["ブロックチェーン"];
   Message false [Loc None "+7"]
     "Client version" true
     ["クライアントのバージョン"];
   Message false [Loc None "+13"]
     "General" true
     ["一般"];
   Message false [Loc None "+13"]
     "Memory Pool" true
     ["メモリ プール"];
   Message false [Loc None "+7"]
     "Current number of blocks" true
     ["現在のブロック数"];
   Message false [Loc None "+13"]
     "Network" true
     ["ネットワーク"];
   Message false [Loc None "+7"]
     "Number of connections" true
     ["接続数"];
   Message false [Loc None "+7"]
     "Startup time" true
     ["起動時間"];
   Message false [Loc None "+7"]
     "Name" true
     ["名前"];
   Message false [Loc None "+7"]
     "Last block time" true
     ["最後のブロック時間"];
   Message false [Loc None "+7"]
     "Using BerkeleyDB version" true
     ["バークレーDBバージョンの使用"];
   Message false [Loc None "+10"]
     "Datadir" true
     ["データディール"];
   Message false [Loc None "+7"]
     "Memory usage" true
     ["メモリ使用量"];
   Message false [Loc None "+7"]
     "Current number of transactions" true
     ["トランザクションの現在の数"];
   Message false [Loc None "+10"; Loc None "+16"; Loc None "+16"; Loc None "+16"; Loc None "+19"; Loc None "+16"; Loc None "+16"; Loc None "+16"; Loc None "+16"; Loc None "+16"; Loc None "+16"; Loc None "+644"; Loc None "+23"; Loc None "+23"; Loc None "+23"; Loc None "+23"; Loc None "+23"; Loc None "+23"; Loc None "+23"; Loc None "+23"; Loc None "+23"; Loc None "+23"; Loc None "+23"; Loc None "+23"; Loc None "+23"; Loc None "+23"; Loc None "+26"; Loc None "+23"; Loc None "+23"]
     "N/A" true
     ["N/a"];
   Message false [Loc None "-988"]
     "Debug log file" true
     ["ログ ファイルのデバッグ"];
   Message false [Loc None "+7"]
     "Open the %1 debug log file from the current data directory. This can take a few seconds for large log files." true
     ["現在のデータ ディレクトリから %1 デバッグ ログ ファイルを開きます。大きなログ ファイルの場合は、数秒かかる場合があります。"]].

Definition ja_RPCConsole_2 : list message :=
  [Message false [Loc None "+3"]
     "&amp;Open" true
     ["&amp;オープン"];
   Message false [Loc None "+25"]
     "Wallet: " true
     ["財布："];
   Message false [Loc None "+8"]
     "(none)" true
     ["(なし)"];
   Message false [Loc None "+27"]
     "Decrease font size" true
     ["フォント サイズを小さくする"];
   Message false [Loc None "+32"]
     "Increase font size" true
     ["フォント サイズを大きくする"];
   Message false [Loc None "+32"]
     "Clear console" true
     ["コンソールのクリア"];
   Message false [Loc None "+111"]
     "&amp;Reset" true
     ["&amp;リセット"];
   Message false [Loc None "+16"]
     "Totals" true
     ["合計"];
   Message false [Loc None "+67"; Loc None "+555"]
     "Received" true
     ["受信"];
   Message false [Loc None "-475"; Loc None "+452"]
     "Sent" true
     ["送信"];
   Message false [Loc None "-361"]
     "Banned peers" true
     ["禁止されたピア"];
   Message false [Loc None "+60"; Loc (Some "../rpcconsole.cpp") "+510"; Loc None "+760"]
     "Select a peer to view detailed information." true
     ["詳細情報を表示するには、ピアを選択します。"];
   Message false [Loc None "+25"]
     "Whitelisted" true
     ["ホワイトリストに登録"];
   Message false [Loc None "+23"]
     "Direction" true
     ["方向"];
   Message false [Loc None "+23"]
     "Version" true
     ["バージョン"];
   Message false [Loc None "+46"]
     "Services" true
     ["サービス"];
   Message false [Loc None "+23"]
     "Starting Block" true
     ["開始ブロック"];
   Message false [Loc None "+23"]
     "Synced Headers" true
     ["同期ヘッダー"];
   Message false [Loc None "+23"]
     "Synced Blocks" true
     ["同期ブロック"];
   Message false [Loc None "+23"]
     "Ban Score" true
     ["バンスコア"];
   Message false [Loc None "+23"]
     "Connection Time" true
     ["接続時間"];
   Message false [Loc None "+23"]
     "Last Send" true
     ["最後の送信"];
   Message false [Loc None "+23"]
     "Last Receive" true
     ["最後の受信"];
   Message false [Loc None "+69"]
     "Ping Time" true
     ["ピング時間"];
   Message false [Loc None "+23"]
     "The duration of a currently outstanding ping." true
     ["現在未処理の ping の継続時間。"];
   Message false [Loc None "+3"]
     "Ping Wait" true
     ["ピング待機"];
   Message false [Loc None "+23"]
     "Min Ping" true
     ["ミンピン"];
   Message false [Loc None "+23"]
     "Time Offset" true
     ["タイムオフセット"];
   Message false [Loc (Some "../rpcconsole.cpp") "-667"]
     "&amp;Disconnect" true
     ["&amp;切断"]].

Definition ja_RPCConsole_3 : list message :=
  [Message false [Loc None "+1"; Loc None "+1"; Loc None "+1"; Loc None "+1"]
     "Ban for" true
     ["禁止対象"];
   Message false [Loc None "-3"]
     "1 &amp;hour" true
     ["1 &amp;時間"];
   Message false [Loc None "+1"]
     "1 &amp;day" true
     ["1日"];
   Message false [Loc None "+1"]
     "1 &amp;week" true
     ["1 &amp;週"];
   Message false [Loc None "+1"]
     "1 &amp;year" true
     ["1 年と年"];
   Message false [Loc None "+48"]
     "&amp;Unban" true
     ["&amp;アンバン"];
   Message false [Loc None "+54"]
     "default wallet" true
     ["デフォルトのウォレット"];
   Message false [Loc None "+110"]
     "Welcome to the %1 RPC console." true
     ["%1 RPC コンソールへようこそ。"];
   Message false [Loc None "+1"]
     "Use up and down arrows to navigate history, and %1 to clear screen." true
     ["上下矢印を使用して履歴をナビゲートし、%1 を使用して画面をクリアします。"];
   Message false [Loc None "+1"]
     "Type %1 for an overview of available commands." true
     ["使用可能なコマンドの概要については、%1 と入力します。"];
   Message false [Loc None "+1"]
     "For more information on using this console type %1." true
     ["このコンソールタイプ %1 の使用の詳細については、次の情報を参照してください。"];
   Message false [Loc None "+2"]
     "WARNING: Scammers have been active, telling users to type commands here, stealing their wallet contents. Do not use this console without fully understanding the ramifications of a command." true
     ["警告: 詐欺師は、ここでコマンドを入力するようにユーザーに指示し、ウォレットの内容を盗んで、アクティブにしています。コマンドの影響を十分に理解せずに、このコンソールを使用しないでください。"];
   Message false [Loc None "+32"]
     "In:" true
     ["インチ："];
   Message false [Loc None "+1"]
     "Out:" true
     ["乙："];
   Message false [Loc None "+3"]
     "Network activity disabled" true
     ["ネットワーク アクティビティが無効"];
   Message false [Loc None "+68"]
     "Executing command without any wallet" true
     ["ウォレットなしでコマンドを実行する"];
   Message false [Loc None "+2"]
     "Executing command using &quot;%1&quot; wallet" true
     ["&quot;%1&quot; ウォレットを使用したコマンドの実行"];
   Message false [Loc None "+190"]
     "(node id: %1)" true
     ["(ノード ID: %1)"];
   Message false [Loc None "+2"]
     "via %1" true
     ["%1 経由"];
   Message false [Loc None "+3"; Loc None "+1"]
     "never" true
     ["ぜんぜん"];
   Message false [Loc None "+10"]
     "Inbound" true
     ["受信"];
   Message false [Loc None "+0"]
     "Outbound" true
     ["送信"];
   Message false [Loc None "+2"]
     "Yes" true
     ["はい"];
   Message false [Loc None "+0"]
     "No" true
     ["いいえ"];
   Message false [Loc None "+12"; Loc None "+6"]
     "Unknown" true
     ["未知"]].

Definition ja_ReceiveCoinsDialog : list message :=
  [Message false [Loc (Some "../forms/receivecoinsdialog.ui") "+59"]
     "Stake" true
     ["株式"];
   Message false [Loc None "+5"]
     "ColdStake" true
     ["コールドステーク"];
   Message false [Loc None "+14"]
     "&amp;Request payment" true
     ["&amp;支払いを要求する"];
   Message false [Loc None "+17"]
     "Clear all fields of the form." true
     ["フォームのすべてのフィールドをクリアします。"];
   Message false [Loc None "+3"]
     "Clear" true
     ["クリア"];
   Message false [Loc None "+56"; Loc None "+79"]
     "An optional amount to request. Leave this empty or zero to not request a specific amount." true
     ["要求するオプションの金額。特定の金額を要求しないように、この空または 0 のままにします。"];
   Message false [Loc None "-57"]
     "Use bech32 encoding." true
     ["bech32 エンコーディングを使用します。"];
   Message false [Loc None "+3"]
     "Generate native segwit (Bech32) address" true
     ["ネイティブ segwit (Bech32) アドレスの生成"];
   Message false [Loc None "+22"; Loc None "+55"]
     "An optional label to associate with the new receiving address." true
     ["新しい受信アドレスに関連付けるオプションのラベル。"];
   Message false [Loc None "-52"]
     "&amp;Label:" true
     ["&amp;ラベル:"];
   Message false [Loc None "+13"; Loc None "+53"]
     "An optional message to attach to the payment request, which will be displayed when the request is opened. Note: The message will not be sent with the payment over the Bitcoin Confidential network." true
     ["支払要求に添付するオプションのメッセージ。注: メッセージは、ビットコイン機密ネットワークを通して支払いを伴って送信されません。"];
   Message false [Loc None "-50"]
     "&amp;Message:" true
     ["&amp;メッセージ:"];
   Message false [Loc None "+16"]
     "&amp;Amount:" true
     ["&amp;金額:"];
   Message false [Loc None "+13"]
     "Use this form to request payments. All fields are &lt;b&gt;optional&lt;/b&gt;." true
     ["このフォームを使用して、支払いを要求します。すべてのフィールドは&lt;b&gt;省略可能&lt;/b&gt;です。"];
   Message false [Loc None "+63"]
     "Requested payments history" true
     ["要求された支払履歴"];
   Message false [Loc None "+31"]
     "Show the selected request (does the same as double clicking an entry)" true
     ["選択した要求を表示する (エントリをダブルクリックするのと同じ)"];
   Message false [Loc None "+3"]
     "Show" true
     ["表示"];
   Message false [Loc None "+17"]
     "Remove the selected entries from the list" true
     ["選択したエントリをリストから削除する"];
   Message false [Loc None "+3"]
     "Remove" true
     ["削除"];
   Message false [Loc (Some "../receivecoinsdialog.cpp") "+40"]
     "Copy URI" true
     ["URI のコピー"];
   Message false [Loc None "+1"]
     "Copy label" true
     ["ラベルのコピー"];
   Message false [Loc None "+1"]
     "Copy message" true
     ["メッセージのコピー"];
   Message false [Loc None "+1"]
     "Copy amount" true
     ["コピー金額"]].

Definition ja_ReceiveRequestDialog : list message :=
  [Message false [Loc (Some "../forms/receiverequestdialog.ui") "+29"]
     "QR Code" true
     ["QRコード"];
   Message false [Loc None "+46"]
     "Copy &amp;URI" true
     ["コピーと URI"];
   Message false [Loc None "+10"]
     "Copy &amp;Address" true
     ["コピーと住所"];
   Message false [Loc None "+10"]
     "&amp;Save Image..." true
     ["&amp;画像を保存..."];
   Message false [Loc (Some "../receiverequestdialog.cpp") "+65"]
     "Request payment to %1" true
     ["%1 への支払いを要求する"];
   Message false [Loc None "+6"]
     "Payment information" true
     ["支払情報"];
   Message false [Loc None "+1"]
     "URI" true
     ["Uri"];
   Message false [Loc None "+2"]
     "Address" true
     ["アドレス"];
   Message false [Loc None "+2"]
     "Amount" true
     ["量"];
   Message false [Loc None "+2"]
     "Label" true
     ["ラベル"];
   Message false [Loc None "+2"]
     "Message" true
     ["メッセージ"];
   Message false [Loc None "+2"]
     "Wallet" true
     ["財布"];
   Message false [Loc None "+11"]
     "Resulting URI too long, try to reduce the text for label / message." true
     ["結果としてURIが長すぎるので、ラベル/メッセージのテキストを減らしてみてください。"];
   Message false [Loc None "+5"]
     "Error encoding URI into QR Code." true
     ["URI を QR コードにエンコードするエラーがあります。"]].

Definition ja_RecentRequestsTableModel : list message :=
  [Message false [Loc (Some "../recentrequeststablemodel.cpp") "+25"; Loc None "+4"]
     "Date" true
     ["日付"];
   Message false [Loc None "-4"; Loc None "+4"]
     "Label" true
     ["ラベル"];
   Message false [Loc None "+0"]
     "Message" true
     ["メッセージ"];
   Message false [Loc None "+42"]
     "(no label)" true
     ["(ラベルなし)"];
   Message false [Loc None "+9"]
     "(no message)" true
     ["(メッセージなし)"];
   Message false [Loc None "+8"]
     "(no amount requested)" true
     ["(要求金額なし)"];
   Message false [Loc None "+45"]
     "Requested" true
     ["要求"]].

Definition ja_SendCoinsDialog_1 : list message :=
  [Message false [Loc (Some "../forms/sendcoinsdialog.ui") "+14"; Loc (Some "../sendcoinsdialog.cpp") "+806"]
     "Send Coins" true
     ["コインを送る"];
   Message false [Loc None "+105"]
     "Inputs..." true
     ["入力。。。"];
   Message false [Loc None "+10"]
     "automatically selected" true
     ["自動的に選択"];
   Message false [Loc None "+19"]
     "Insufficient funds!" true
     ["資金不足!"];
   Message false [Loc None "+89"]
     "Quantity:" true
     ["量："];
   Message false [Loc None "+35"]
     "Bytes:" true
     ["バイト："];
   Message false [Loc None "+48"]
     "Amount:" true
     ["量："];
   Message false [Loc None "+32"]
     "Dust:" true
     ["ほこり："];
   Message false [Loc None "+48"]
     "Fee:" true
     ["料金："];
   Message false [Loc None "+51"]
     "After Fee:" true
     ["料金の後:"];
   Message false [Loc None "+32"]
     "Change:" true
     ["変更："];
   Message false [Loc None "+44"]
     "If this is activated, but the change address is empty or invalid, change will be sent to a newly generated address." true
     ["これが有効になっているが、変更アドレスが空または無効である場合、変更は新しく生成されたアドレスに送信されます。"];
   Message false [Loc None "+3"]
     "Custom change address" true
     ["カスタム変更アドレス"];
   Message false [Loc None "+256"]
     "Transaction Fee:" true
     ["取引手数料:"];
   Message false [Loc None "+14"]
     "Choose..." true
     ["選択。。。"];
   Message false [Loc None "+30"]
     "Using the fallbackfee can result in sending a transaction that will take several hours or days (or never) to confirm. Consider choosing your fee manually or wait until you have validated the complete chain." true
     ["フォールバックフィーを使用すると、確認に数時間または数日 (または決して) かかるトランザクションが送信される可能性があります。料金を手動で選択するか、チェーン全体を検証するまで待つことを検討してください。"];
   Message false [Loc None "+3"]
     "Warning: Fee estimation is currently not possible." true
     ["警告: 手数料の見積もりは現在できません。"];
   Message false [Loc None "+26"]
     "collapse fee-settings" true
     ["手数料設定を折りたたむ"];
   Message false [Loc None "+3"]
     "Hide" true
     ["隠す"];
   Message false [Loc None "+48"]
     "Specify a custom fee per kB (1,000 bytes) of the transaction's virtual size.

Note:  Since the fee is calculated on a per-byte basis, a fee of &quot;100 satoshis per kB&quot; for a transaction size of 500 bytes (half of 1 kB) would ultimately yield a fee of only 50 satoshis." true
     ["トランザクションの仮想サイズの kB (1,000 バイト) あたりのカスタム料金を指定します。

注: 料金はバイト単位で計算されるので、500 バイト(1 kB の半分)のトランザクション サイズに対して「1kB あたり 100 サトシ」の手数料は最終的に 50 サトシのみになります。"];
   Message false [Loc None "+5"]
     "per kilobyte" true
     ["キロバイトあたり"];
   Message false [Loc None "+27"; Loc None "+13"]
     "Paying only the minimum fee is just fine as long as there is less transaction volume than space in the blocks. But be aware that this can end up in a never confirming transaction once there is more demand for Bitcoin Confidential transactions than the network can process." true
     ["最小手数料のみを支払うことは、ブロック内のスペースよりも取引量が少ない限り問題ありません。ただし、ネットワークが処理できるよりもビットコイン機密トランザクションに対する要求が多いと、これは決して確認されないトランザクションに終わる可能性があることに注意してください。"];
   Message false [Loc None "+3"]
     "(read the tooltip)" true
     ["(ツールチップを読む)"];
   Message false [Loc None "+29"]
     "Recommended:" true
     ["推奨："];
   Message false [Loc None "+30"]
     "Custom:" true
     ["カスタム："];
   Message false [Loc None "+52"]
     "(Smart fee not initialized yet. This usually takes a few blocks...)" true
     ["(スマート料金はまだ初期化されていません。これは通常、数ブロックかかります...)"];
   Message false [Loc None "+29"]
     "Confirmation time target:" true
     ["確認時間ターゲット:"];
   Message false [Loc None "+74"]
     "With Replace-By-Fee (BIP-125) you can increase a transaction&apos;s fee after it is sent. Without this, a higher fee may be recommended to compensate for increased transaction delay risk." true
     ["代わりの手数料 (BIP-125) を使用すると、送信後にトランザクションの手数料を増やすことができます。これがなければ、取引遅延リスクの増加を補うために、より高い手数料が推奨される場合があります。"]].

Definition ja_SendCoinsDialog_2 : list message :=
  [Message false [Loc None "+3"]
     "Enable Replace-By-Fee" true
     ["代わりの手数料を有効にする"];
   Message false [Loc None "+37"]
     "Confirm the send action" true
     ["送信アクションの確認"];
   Message false [Loc None "+3"]
     "S&amp;end" true
     ["S&amp;エンド"];
   Message false [Loc None "+23"]
     "Clear all fields of the form." true
     ["フォームのすべてのフィールドをクリアします。"];
   Message false [Loc None "+3"]
     "Clear &amp;All" true
     ["クリア &amp;すべて"];
   Message false [Loc None "+14"]
     "Send to multiple recipients at once" true
     ["一度に複数の受信者に送信"];
   Message false [Loc None "+3"]
     "Add &amp;Recipient" true
     ["追加と受信者"];
   Message false [Loc None "+38"]
     "Balance:" true
     ["バランス："];
   Message false [Loc (Some "../sendcoinsdialog.cpp") "-730"]
     "Add Output" true
     ["出力の追加"];
   Message false [Loc None "+3"]
     "Add Recipient" true
     ["受信者の追加"];
   Message false [Loc None "+14"]
     "Copy quantity" true
     ["数量のコピー"];
   Message false [Loc None "+1"]
     "Copy amount" true
     ["コピー金額"];
   Message false [Loc None "+1"]
     "Copy fee" true
     ["コピー料金"];
   Message false [Loc None "+1"]
     "Copy after fee" true
     ["手数料後のコピー"];
   Message false [Loc None "+1"]
     "Copy bytes" true
     ["コピーバイト"];
   Message false [Loc None "+1"]
     "Copy dust" true
     ["ダストのコピー"];
   Message false [Loc None "+1"]
     "Copy change" true
     ["変更のコピー"];
   Message false [Loc None "+88"]
     "%1 (%2 blocks)" true
     ["%1 (%2 ブロック)"];
   Message false [Loc None "+39"]
     "This tab allows manually activating Staking funds for ColdStaking. This will take longer than the &quot;Automated ColdStaking activation&quot; to start staking but wallet does not need to be online for the activation." true
     ["このタブでは、コールドテイクの手入れ資金を手動で有効にすることができます。これは、ステイクを開始するために「自動コールドテイクアクティベーション」よりも時間がかかりますが、ウォレットはアクティベーションのためにオンラインである必要はありません。"];
   Message false [Loc None "+103"]
     "Error Remote Staking Address" true
     ["エラー リモート 書き込みアドレス"];
   Message false [Loc None "+0"]
     "The remote stake address can&apos;t be part of this wallet." true
     ["リモートステークアドレスは、このウォレットの一部にすることはできません。"];
   Message false [Loc None "+96"]
     "from wallet %1" true
     ["ウォレット %1 から"];
   Message false [Loc None "+21"; Loc None "+5"; Loc None "+5"; Loc None "+4"]
     "%1 to %2" true
     ["%1 ~ %2"];
   Message false [Loc None "+6"]
     "Are you sure you want to send?" true
     ["送信しますか?"];
   Message false [Loc None "+2"]
     "Please, review your transaction." true
     ["取引を確認してください。"];
   Message false [Loc None "+11"]
     "Estimated Transaction fee" true
     ["見積トランザクション手数料"];
   Message false [Loc None "+13"]
     "removed for transaction fee" true
     ["取引手数料のために削除"];
   Message false [Loc None "+2"]
     "added as transaction fee" true
     ["取引手数料として追加"];
   Message false [Loc None "+5"]
     "You can increase the fee later (signals Replace-By-Fee, BIP-125)." true
     ["後で料金を引き上げることができます(信号交換料金、BIP-125)。"]].

Definition ja_SendCoinsDialog_3 : list message :=
  [Message false [Loc None "+2"]
     "Not signalling Replace-By-Fee, BIP-125." true
     ["交換手数料、BIP-125を合図しない。"];
   Message false [Loc None "+12"]
     "Total Amount" true
     ["総量"];
   Message false [Loc None "+6"]
     "Your hardware device must be connected to sign this txn." true
     ["この txn に署名するには、ハードウェア デバイスを接続する必要があります。"];
   Message false [Loc None "+4"]
     "Confirm send coins" true
     ["コインの送信を確認する"];
   Message false [Loc None "+248"]
     "The recipient address is not valid. Please recheck." true
     ["受信者のアドレスが無効です。再確認してください。"];
   Message false [Loc None "+3"]
     "The amount to pay must be larger than 0." true
     ["支払金額は 0 より大きくする必要があります。"];
   Message false [Loc None "+3"]
     "The amount exceeds your balance." true
     ["金額が残高を超えています。"];
   Message false [Loc None "+3"]
     "The total exceeds your balance when the %1 transaction fee is included." true
     ["%1 トランザクション手数料が含まれている場合、合計が残高を超えています。"];
   Message false [Loc None "+3"]
     "Duplicate address found: addresses should only be used once each." true
     ["重複するアドレスが見つかりました: アドレスはそれぞれ 1 回だけ使用する必要があります。"];
   Message false [Loc None "+3"]
     "Transaction creation failed!" true
     ["トランザクションの作成に失敗しました。"];
   Message false [Loc None "+4"]
     "The transaction was rejected with the following reason: %1" true
     ["トランザクションは 、%1 という理由で拒否されました。"];
   Message false [Loc None "+4"]
     "A fee higher than %1 is considered an absurdly high fee." true
     ["%1 より高い手数料は、不合理に高い手数料と見なされます。"];
   Message false [Loc None "+3"]
     "Payment request expired." true
     ["支払い要求の有効期限が切れました。"];
   Message false [Loc None "+96"]
     "Pay only the required fee of %1" true
     ["%1 の必要な手数料のみを支払う"];
   Message true [Loc None "+76"]
     "Estimated to begin confirmation within %n block(s)." false
     [(Txt [])];
   Message false [Loc None "+130"]
     "Warning: Invalid Bitcoin Confidential address" true
     ["警告: 機密アドレスビットコイン無効です"];
   Message false [Loc None "+8"]
     "Error custom change address" true
     ["エラーカスタム変更アドレス"];
   Message false [Loc None "+0"]
     "The address you selected for change is not part of this wallet." true
     ["変更用に選択した住所は、このウォレットの一部ではありません。"];
   Message false [Loc None "+15"]
     "(no label)" true
     ["(ラベルなし)"]].

Definition ja_SendCoinsEntry_1 : list message :=
  [Message false [Loc (Some "../forms/sendcoinsentry.ui") "+30"]
     "This is a normal payment." true
     ["これは通常の支払いです。"];
   Message false [Loc None "+71"; Loc None "+463"; Loc None "+130"]
     "Subtract fee from amount" true
     ["金額から手数料を差し引く"];
   Message false [Loc None "-580"; Loc None "+463"; Loc None "+130"]
     "Use available balance" true
     ["利用可能な残高を使用する"];
   Message false [Loc None "-562"]
     "Message" true
     ["メッセージ"];
   Message false [Loc None "+24"; Loc None "+261"]
     "The Bitcoin Confidential address to send the payment to" true
     ["支払いを送信するためのビットコインの機密アドレス"];
   Message false [Loc None "-254"; Loc None "+261"; Loc None "+297"; Loc None "+104"]
     "Choose previously used address" true
     ["以前に使用したアドレスを選択する"];
   Message false [Loc None "-646"; Loc None "+261"; Loc None "+297"; Loc None "+104"]
     "Alt+A" true
     ["アルト+A"];
   Message false [Loc None "-655"; Loc None "+261"; Loc None "+297"; Loc None "+104"]
     "Paste address from clipboard" true
     ["クリップボードからアドレスを貼り付け"];
   Message false [Loc None "-646"; Loc None "+261"; Loc None "+297"; Loc None "+104"]
     "Alt+P" true
     ["Alt+ P"];
   Message false [Loc None "-655"; Loc None "+261"; Loc None "+401"; Loc None "+520"; Loc None "+564"]
     "Remove this entry" true
     ["このエントリを削除する"];
   Message false [Loc None "-1718"; Loc None "+277"]
     "Pay To" true
     ["支払先"];
   Message false [Loc None "-258"; Loc None "+242"; Loc None "+277"]
     "Amount" true
     ["量"];
   Message false [Loc None "-495"]
     "Enter a label for this address to add it to the list of used addresses" true
     ["このアドレスのラベルを入力して、使用するアドレスの一覧に追加します。"];
   Message false [Loc None "+15"]
     "Label" true
     ["ラベル"];
   Message false [Loc None "+33"]
     "A short message sent over the Bitcoin Confidential network." true
     ["ビットコイン機密ネットワークを通して送信された短いメッセージ。"];
   Message false [Loc None "+6"]
     "Encrypted message sent with the transaction (optional, max. 24 characters)." true
     ["トランザクションと共に送信される暗号化メッセージ (オプション、最大 24 文字)。"];
   Message false [Loc None "+261"]
     "This is a payment to a coldstake script." true
     ["これはコールドステークスクリプトへの支払いです。"];
   Message false [Loc None "+83"]
     "The fee will be deducted from the amount being sent. The recipient will receive less Bitcoin Confidential than you enter in the amount field. If multiple recipients are selected, the fee is split equally." true
     ["料金は送付金額から差し引かれます。受信者は、金額フィールドに入力したビットコインよりも少ないビットコインを受け取ります。複数の受取人が選択されている場合、手数料は均等に分割されます。"];
   Message false [Loc None "+36"]
     "ColdStake address used by your remote staking node to stake your funds." true
     ["あなたの資金を賭けるためにあなたのリモートステークノードによって使用されるColdStakeアドレス。"];
   Message false [Loc None "+80"]
     "ColdStake " true
     ["コールドステーク"];
   Message false [Loc None "+24"]
     "The stake address on the remote node (cannot be in this wallet)" true
     ["リモート ノードのステーク アドレス (このウォレットに含めることはできません)"];
   Message false [Loc None "+81"]
     " Stake " true
     ["株式"];
   Message false [Loc None "+434"]
     "This is an unauthenticated payment request." true
     ["これは認証されていない支払い要求です。"];
   Message false [Loc None "+40"; Loc None "+560"]
     "Pay To:" true
     ["支払先:"]].

Definition ja_SendCoinsEntry_2 : list message :=
  [Message false [Loc None "-526"; Loc None "+577"]
     "Memo:" true
     ["メモ："];
   Message false [Loc None "-560"; Loc None "+547"]
     "A&amp;mount:" true
     ["A&amp;マウント:"];
   Message false [Loc None "-78"]
     "This is an authenticated payment request." true
     ["これは認証された支払い要求です。"];
   Message false [Loc (Some "../sendcoinsentry.cpp") "+89"]
     "Enter a label for this address to add it to your address book" true
     ["この住所のラベルを入力してアドレス帳に追加する"]].

Definition ja_SendConfirmationDialog : list message :=
  [Message false [Loc (Some "../sendcoinsdialog.cpp") "+85"; Loc None "+5"]
     "Yes" true
     ["はい"]].

Definition ja_ShutdownWindow : list message :=
  [Message false [Loc (Some "../utilitydialog.cpp") "+83"]
     "%1 is shutting down..." true
     ["%1 はシャットダウンしています..."];
   Message false [Loc None "+1"]
     "Do not shut down the computer until this window disappears." true
     ["このウィンドウが消えるまで、コンピュータをシャットダウンしないでください。"]].

Definition ja_SignVerifyMessageDialog_1 : list message :=
  [Message false [Loc (Some "../forms/signverifymessagedialog.ui") "+14"]
     "Signatures - Sign / Verify a Message" true
     ["署名 - 署名/メッセージの確認"];
   Message false [Loc None "+14"]
     "&amp;Sign Message" true
     ["&amp;署名メッセージ"];
   Message false [Loc None "+10"]
     "&amp;Verify Message" true
     ["&amp;メッセージの確認"];
   Message false [Loc None "+31"]
     "You can sign messages/agreements with your addresses to prove you can receive Bitcoin Confidential sent to them. Be careful not to sign anything vague or random, as phishing attacks may try to trick you into signing your identity over to them. Only sign fully-detailed statements you agree to." true
     ["アドレスとメッセージ/契約に署名して、送信された機密ビットコインを受け取ることができることを証明できます。フィッシング攻撃は、自分の身元を自分の身元に署名させようとする可能性があるため、あいまいまたはランダムなものに署名しないように注意してください。同意する完全に詳細なステートメントにのみ署名してください。"];
   Message false [Loc None "+18"]
     "The Bitcoin Confidential address to sign the message with" true
     ["メッセージに署名するビットコインの機密アドレス"];
   Message false [Loc None "+7"; Loc None "+213"]
     "Choose previously used address" true
     ["以前に使用したアドレスを選択する"];
   Message false [Loc None "-203"; Loc None "+213"]
     "Alt+A" true
     ["アルト+A"];
   Message false [Loc None "-203"]
     "Paste address from clipboard" true
     ["クリップボードからアドレスを貼り付け"];
   Message false [Loc None "+10"]
     "Alt+P" true
     ["Alt+ P"];
   Message false [Loc None "+12"]
     "Enter the message you want to sign here" true
     ["ここに署名するメッセージを入力します。"];
   Message false [Loc None "+7"]
     "Signature" true
     ["署名"];
   Message false [Loc None "+27"]
     "Copy the current signature to the system clipboard" true
     ["現在の署名をシステム クリップボードにコピーする"];
   Message false [Loc None "+21"]
     "Sign the message to prove you own this Bitcoin Confidential address" true
     ["このビットコインの機密アドレスを所有していることであることを証明するメッセージに署名する"];
   Message false [Loc None "+3"]
     "Sign &amp;Message" true
     ["署名とメッセージ"];
   Message false [Loc None "+14"]
     "Reset all sign message fields" true
     ["すべての署名メッセージ フィールドをリセットする"];
   Message false [Loc None "+3"; Loc None "+153"]
     "Clear &amp;All" true
     ["クリア &amp;すべて"];
   Message false [Loc None "-85"]
     "Enter the receiver&apos;s address, message (ensure you copy line breaks, spaces, tabs, etc. exactly) and signature below to verify the message. Be careful not to read more into the signature than what is in the signed message itself, to avoid being tricked by a man-in-the-middle attack. Note that this only proves the signing party receives with the address, it cannot prove sendership of any transaction!" true
     ["受信者のアドレス、メッセージ(改行、スペース、タブなどを正確にコピーしてください)と署名を入力して、メッセージを確認します。署名付きメッセージ自体の内容よりも署名を読み込まないように注意してください。これは、署名当事者がアドレスで受け取るだけであることを証明し、任意のトランザクションの送信者を証明することはできません!"];
   Message false [Loc None "+21"]
     "The Bitcoin Confidential address the message was signed with" true
     ["ビットコインの機密アドレスは、メッセージが署名されました"];
   Message false [Loc None "+44"]
     "Verify the message to ensure it was signed with the specified Bitcoin Confidential address" true
     ["メッセージを確認して、指定されたビットコインの機密アドレスで署名されたことを確認します。"];
   Message false [Loc None "+3"]
     "Verify &amp;Message" true
     ["確認とメッセージ"];
   Message false [Loc None "+14"]
     "Reset all verify message fields" true
     ["すべての確認メッセージ フィールドをリセットする"];
   Message false [Loc (Some "../signverifymessagedialog.cpp") "+39"]
     "Click &quot;Sign Message&quot; to generate signature" true
     ["[メッセージに署名] をクリックして署名を生成します。"];
   Message false [Loc None "+78"; Loc None "+78"]
     "The entered address is invalid." true
     ["入力されたアドレスが無効です。"];
   Message false [Loc None "-78"; Loc None "+7"; Loc None "+71"; Loc None "+6"]
     "Please check the address and try again." true
     ["アドレスを確認して、もう一度やり直してください。"];
   Message false [Loc None "-77"; Loc None "+77"]
     "The entered address does not refer to a key." true
     ["入力されたアドレスはキーを参照しません。"];
   Message false [Loc None "-69"]
     "Wallet unlock was cancelled." true
     ["ウォレットのロック解除が取り消されました。"];
   Message false [Loc None "+8"]
     "Private key for the entered address is not available." true
     ["入力されたアドレスの秘密キーは使用できません。"];
   Message false [Loc None "+12"]
     "Message signing failed." true
     ["メッセージの署名に失敗しました。"]].

Definition ja_SignVerifyMessageDialog_2 : list message :=
  [Message false [Loc None "+5"]
     "Message signed." true
     ["メッセージが署名されました。"];
   Message false [Loc None "+55"]
     "The signature could not be decoded." true
     ["署名をデコードできませんでした。"];
   Message false [Loc None "+0"; Loc None "+13"]
     "Please check the signature and try again." true
     ["署名を確認して、もう一度やり直してください。"];
   Message false [Loc None "+0"]
     "The signature did not match the message digest." true
     ["署名がメッセージ ダイジェストと一致しませんでした。"];
   Message false [Loc None "+6"]
     "Message verification failed." true
     ["メッセージの検証に失敗しました。"];
   Message false [Loc None "+5"]
     "Message verified." true
     ["メッセージが検証されました。"]].

Definition ja_SplashScreen : list message :=
  [Message false [Loc (Some "../networkstyle.cpp") "+19"]
     "[testnet]" true
     ["[テストネット]"]].

Definition ja_StakingDialog_1 : list message :=
  [Message false [Loc (Some "../forms/stakingdialog.ui") "+14"]
     "Send Coins" true
     ["コインを送る"];
   Message false [Loc None "+23"]
     "Status" true
     ["ステータス"];
   Message false [Loc None "+19"]
     "Addresses" true
     ["アドレス"];
   Message false [Loc None "+16"]
     "Rewards" true
     ["報酬"];
   Message false [Loc None "+16"]
     "Convert to Spending" true
     ["支出への変換"];
   Message false [Loc None "+16"]
     "Convert to Staking" true
     ["ステイクに変換"];
   Message false [Loc None "+16"]
     "Activate ColdStaking" true
     ["コールドテイクを有効にする"];
   Message false [Loc None "+79"]
     "Total supply" true
     ["総供給量"];
   Message false [Loc None "+26"]
     "Current block reward" true
     ["現在のブロック報酬"];
   Message false [Loc None "+26"]
     "Current block height" true
     ["現在のブロックの高さ"];
   Message false [Loc None "+20"]
     "Network difficulty" true
     ["ネットワークの問題"];
   Message false [Loc None "+26"]
     "Annual staking reward" true
     ["年間の取り組み報酬"];
   Message false [Loc None "+13"]
     "Current staking reward" true
     ["現在の取り組み報酬"];
   Message false [Loc None "+26"]
     "Network staking weight" true
     ["ネットワークの取り込み重量"];
   Message false [Loc None "+20"]
     "Your estimated annual reward" true
     ["あなたの推定年間報酬"];
   Message false [Loc None "+13"]
     "?" true
     ["?"];
   Message false [Loc None "+80"]
     "Staking" true
     ["カシメ"];
   Message false [Loc None "+24"; Loc None "+233"]
     "ENABLED" true
     ["有効"];
   Message false [Loc None "-210"]
     "Pause" true
     ["一時 停止"];
   Message false [Loc None "+50"; Loc None "+425"]
     "Estimated reward frequency" true
     ["推定報酬頻度"];
   Message false [Loc None "-412"]
     "Stakable Funds" true
     ["シュタカブルファンド"];
   Message false [Loc None "+20"]
     "Wallet staking weight" true
     ["財布の重量を取る"];
   Message false [Loc None "+103"]
     "Cold Staking" true
     ["コールド・ステイク"];
   Message false [Loc None "+55"]
     "Remote Stake address" true
     ["リモート ステーク アドレス"];
   Message false [Loc None "+13"]
     "Automated ColdStaking activation" true
     ["自動コールドテイクアクティベーション"];
   Message false [Loc None "+25"]
     "Enable " true
     ["有効"];
   Message false [Loc None "+57"]
     "Enable Hot Staking with the STAKING ENABLE button and leaving wallet open.  Enable automated ColdStake with COLDSTAKING ENABLE button and setting a remote stake address. On remote node enable staking with &quot;bitcoinc-cli walletsettings stakingstatus true&quot; and create a &quot;Stake&quot; address on your remote node with &quot;bitcoinc-cli getnewstakeaddress&quot;, or get a &quot;Stake&quot; address from a ColdStaking pool. Funds gradually transition over from hot staking to cold staking while your wallet is open. The time required for the activation depends on the wallet&apos;s staking weight and can take several days with a low weight. Once the activation bar shows complete, wallet can be closed.  Alternatively, use the Activate Coldstaking tab to send an activation transaction.  This will take longer to start staking but wallet does not need to be online." true
     ["[キーツイネーブル] ボタンを使用してホット・ステイクを有効にし、ウォレットを開いたままにします。 コールドテイク・イネーブル・ボタンを使用して自動ColdStakeを有効にし、リモート・ステーク・アドレスを設定します。リモートノードでは、「bitcoinc-cliウォレット設定のステークステータスはtrue」でステークを有効にし、「bitcoinc-cli getnewstakeaddress」を持つリモートノードに「ステーク」アドレスを作成するか、ColdStakeプールから「ステーク」アドレスを取得します。資金は、財布が開いている間、ホットス張りからコールドスチ取に徐々に移行します。アクティベーションに必要な時間は、財布の重量に依存し、低重量で数日かかることがあります。アクティベーションバーが完了したら、ウォレットを閉じることができます。 または、[コールドのアクティブ化] タブを使用して、アクティベーション トランザクションを送信します。 これは、盗み始めるのに時間がかかりますが、財布はオンラインである必要はありません。"];
   Message false [Loc None "+20"]
     "ColdStake activation progress" true
     ["コールドステークのアクティベーションの進行状況"];
   Message false [Loc None "+77"]
     "Amount activated for ColdStaking" true
     ["コールドテイクの有効化量"]].

Definition ja_StakingDialog_2 : list message :=
  [Message false [Loc None "+13"]
     "Estimated weight" true
     ["推定重量"];
   Message false [Loc None "+106"]
     "Filtered" true
     ["フィルター"];
   Message false [Loc None "+15"; Loc None "+88"]
     "Staking rewards" true
     ["チャンスの報酬"];
   Message false [Loc None "-75"; Loc None "+48"]
     "Solved blocks" true
     ["解決済みブロック"];
   Message false [Loc None "-41"; Loc None "+55"]
     "4000" true
     ["4000"];
   Message false [Loc None "-48"; Loc None "+41"]
     "100000BC" true
     ["100000BC"];
   Message false [Loc None "-22"]
     "Total" true
     ["合計"];
   Message false [Loc (Some "../stakingdialog.cpp") "+258"; Loc None "+17"]
     "No stakable funds available. Use the &quot;Convert to staking&quot; tab to convert funds for staking." true
     ["空手の資金はありません。「取り込みへの変換」タブを使用して、資金を取り消します。"];
   Message false [Loc None "-15"; Loc None "+18"]
     "No eligible staking outputs available. Staking funds need to have 225 confirmations to be eligible." true
     ["適格な sけ抜き出力がありません。受け入れ資金は、資格を得るために225の確認を持っている必要があります。"];
   Message false [Loc None "-9"]
     "Staking not initialized yet. Wait a moment." true
     ["ステイクはまだ初期化されていません。ちょっと待って下さい。"];
   Message false [Loc None "+3"]
     "Staking is stopped. Press the start button above to enable staking." true
     ["スタイスは止まる。上記のスタートボタンを押して、取り込みを有効にします。"];
   Message false [Loc None "+10"]
     "Wallet is locked. To start staking unlock the wallet for staking only. To unlock click the lock icon in the bottom right hand portion of the window." true
     ["ウォレットはロックされています。唯一の取り込みのために財布のロックを解除するロックを開始するには。ロックを解除するには、ウィンドウの右下にあるロック アイコンをクリックします。"];
   Message false [Loc None "+4"]
     "Wallet is not fully synced. To start staking make sure the wallet has connections to the network and wait until it catched up with the latest blocks." true
     ["ウォレットは完全に同期されていません。ウォレットがネットワークに接続されていることを確認し、最新のブロックに追いつくまで待ちます。"];
   Message false [Loc None "+3"]
     "Staking is disabled. Set the config paramter &quot;staking=1&quot; in the bitcoinc.conf to enable it." true
     ["取り付けは無効です。それを有効にするために、bitcoinc.confの設定パラメータ「sset=1」を設定します。"];
   Message false [Loc None "+72"]
     "No eligible coldstaking outputs available. Your coldstaking funds need to have 225 confirmations to be eligible." true
     ["適格なコールドテイク出力はありません。あなたの風邪の資金は、資格を得るために225の確認を持っている必要があります。"];
   Message false [Loc None "+160"]
     "Set Remote Staking Address" true
     ["リモート・セテイク・アドレスの設定"];
   Message false [Loc None "+1"]
     "Enter the remote staking address:" true
     ["リモートの取り込みアドレスを入力します。"]].

Definition ja_TrafficGraphWidget : list message :=
  [Message false [Loc (Some "../trafficgraphwidget.cpp") "+81"]
     "KB/s" true
     ["KB/s"]].

Definition ja_TransactionDesc_1 : list message :=
  [Message true [Loc (Some "../transactiondesc.cpp") "+39"]
     "Open for %n more block(s)" false
     [(Txt [])];
   Message false [Loc None "+2"]
     "Open until %1" true
     ["%1 まで開く"];
   Message false [Loc None "+6"]
     "conflicted with a transaction with %1 confirmations" true
     ["%1 確認を持つトランザクションと競合している"];
   Message false [Loc None "+2"]
     "0/unconfirmed, %1" true
     ["0/未確認、%1"];
   Message false [Loc None "+0"]
     "in memory pool" true
     ["メモリ プール内"];
   Message false [Loc None "+0"]
     "not in memory pool" true
     ["メモリ プールにない"];
   Message false [Loc None "+0"]
     "abandoned" true
     ["放棄"];
   Message false [Loc None "+2"]
     "%1/unconfirmed" true
     ["%1/未確認"];
   Message false [Loc None "+2"]
     "%1 confirmations" true
     ["%1 確認"];
   Message false [Loc None "+29"]
     "Status" true
     ["ステータス"];
   Message false [Loc None "+3"]
     "Date" true
     ["日付"];
   Message false [Loc None "+4"; Loc None "+223"]
     "Transaction ID" true
     ["トランザクション ID"];
   Message false [Loc None "-210"; Loc None "+211"]
     "Transaction total size" true
     ["トランザクションの合計サイズ"];
   Message false [Loc None "-209"]
     "Confirmations" true
     ["確認"];
   Message false [Loc None "+4"]
     "Block hash" true
     ["ブロックハッシュ"];
   Message false [Loc None "+1"]
     "Block index" true
     ["ブロックインデックス"];
   Message false [Loc None "+1"]
     "Block time" true
     ["ブロック時間"];
   Message false [Loc None "+21"]
     "Source" true
     ["ソース"];
   Message false [Loc None "+0"]
     "Generated" true
     ["生成"];
   Message false [Loc None "+5"; Loc None "+14"; Loc None "+72"]
     "From" true
     ["差出人"];
   Message false [Loc None "-72"]
     "unknown" true
     ["未知"];
   Message false [Loc None "+1"; Loc None "+20"; Loc None "+72"]
     "To" true
     ["宛先"];
   Message false [Loc None "-90"]
     "own address" true
     ["自分のアドレス"];
   Message false [Loc None "+0"; Loc None "+69"]
     "watch-only" true
     ["ウォッチのみ"];
   Message false [Loc None "-67"]
     "label" true
     ["ラベル"];
   Message false [Loc None "+36"; Loc None "+12"; Loc None "+58"; Loc None "+37"; Loc None "+66"]
     "Credit" true
     ["クレジット"];
   Message true [Loc None "-171"]
     "matures in %n more block(s)" false
     [(Txt [])]].

Definition ja_TransactionDesc_2 : list message :=
  [Message false [Loc None "+2"]
     "not accepted" true
     ["受け入れられません"];
   Message false [Loc None "+64"; Loc None "+26"; Loc None "+71"]
     "Debit" true
     ["デビット"];
   Message false [Loc None "-87"]
     "Total debit" true
     ["借対合計"];
   Message false [Loc None "+1"]
     "Total credit" true
     ["貸方合計"];
   Message false [Loc None "+5"]
     "Transaction fee" true
     ["取引手数料"];
   Message false [Loc None "+27"]
     "Net amount" true
     ["正味金額"];
   Message false [Loc None "+6"; Loc None "+12"]
     "Message" true
     ["メッセージ"];
   Message false [Loc None "-10"]
     "Comment" true
     ["コメント"];
   Message false [Loc None "+4"]
     "Transaction virtual size" true
     ["トランザクション仮想サイズ"];
   Message false [Loc None "+1"]
     "Output index" true
     ["出力インデックス"];
   Message false [Loc None "+10"]
     "Narration" true
     ["ナレーション"];
   Message false [Loc None "+13"]
     "Merchant" true
     ["商人"];
   Message false [Loc None "+7"]
     "Generated coins must mature %1 blocks before they can be spent. When you generated this block, it was broadcast to the network to be added to the block chain. If it fails to get into the chain, its state will change to &quot;not accepted&quot; and it won&apos;t be spendable. This may occasionally happen if another node generates a block within a few seconds of yours." true
     ["生成されたコインは、使い果たす前に%1ブロックを成熟する必要があります。このブロックを生成すると、ブロック チェーンに追加されるネットワークにブロードキャストされました。チェーンに入れなかった場合、その状態は「受け入れられません」に変わり、使い果たされません。これは、別のノードが数秒以内にブロックを生成した場合に発生することがあります。"];
   Message false [Loc None "+8"]
     "Debug information" true
     ["デバッグ情報"];
   Message false [Loc None "+13"]
     "Transaction" true
     ["トランザクション"];
   Message false [Loc None "+3"]
     "Inputs" true
     ["入力"];
   Message false [Loc None "+21"]
     "Amount" true
     ["量"];
   Message false [Loc None "+1"; Loc None "+1"]
     "true" true
     ["True"];
   Message false [Loc None "-1"; Loc None "+1"]
     "false" true
     ["False"]].

Definition ja_TransactionDescDialog : list message :=
  [Message false [Loc (Some "../forms/transactiondescdialog.ui") "+26"]
     "This pane shows a detailed description of the transaction" true
     ["このペインには、トランザクションの詳細な説明が表示されます。"];
   Message false [Loc (Some "../transactiondescdialog.cpp") "+17"]
     "Details for %1" true
     ["%1 の詳細"]].

Definition ja_TransactionTableModel_1 : list message :=
  [Message false [Loc (Some "../transactiontablemodel.cpp") "+257"]
     "Date" true
     ["日付"];
   Message false [Loc None "+2"]
     "Type" true
     ["型"];
   Message false [Loc None "+2"]
     "Label" true
     ["ラベル"];
   Message false [Loc None "+3"]
     "In" true
     ["インチ"];
   Message false [Loc None "+0"]
     "Out" true
     ["乙"];
   Message true [Loc None "+73"]
     "Open for %n more block(s)" false
     [(Txt [])];
   Message false [Loc None "+3"]
     "Open until %1" true
     ["%1 まで開く"];
   Message false [Loc None "+3"]
     "Unconfirmed" true
     ["未確認"];
   Message false [Loc None "+4"]
     "Orphaned" true
     ["孤立 した"];
   Message false [Loc None "+2"]
     "Abandoned" true
     ["放棄"];
   Message false [Loc None "+22"]
     "Confirming (%1 of %2 recommended confirmations)" true
     ["確認中 (%1 の %1 推奨確認)"];
   Message false [Loc None "+3"]
     "Confirmed (%1 confirmations)" true
     ["確認済み (%1 確認)"];
   Message false [Loc None "+3"]
     "Conflicted" true
     ["競合"];
   Message false [Loc None "+3"]
     "Immature (%1 confirmations, will be available after %2)" true
     ["未熟(%1確認、%2の後に利用可能)"];
   Message false [Loc None "+3"]
     "Generated but not accepted" true
     ["生成されたが受け入れられなかった"];
   Message false [Loc None "+39"]
     "Received with" true
     ["受信先"];
   Message false [Loc None "+2"]
     "Received from" true
     ["受け取り元"];
   Message false [Loc None "+3"]
     "Sent to" true
     ["送信先"];
   Message false [Loc None "+2"]
     "Payment to yourself" true
     ["自分への支払い"];
   Message false [Loc None "+2"]
     "Airdrop" true
     ["Airdrop"];
   Message false [Loc None "+2"]
     "Staked" true
     ["賭けて"];
   Message false [Loc None "+30"]
     "watch-only" true
     ["ウォッチのみ"];
   Message false [Loc None "+16"]
     "(n/a)" true
     ["(なし)"];
   Message false [Loc None "+168"]
     "Unlock to show" true
     ["表示するロックを解除する"];
   Message false [Loc None "+111"]
     "(no label)" true
     ["(ラベルなし)"];
   Message false [Loc None "+42"; Loc None "+14"]
     "Transaction status. Hover over this field to show number of confirmations." true
     ["トランザクションの状態。このフィールドにカーソルを合わせると、確認の数が表示されます。"];
   Message false [Loc None "-12"]
     "Date and time that the reward was received." true
     ["報酬を受け取った日時。"];
   Message false [Loc None "+2"; Loc None "+16"]
     "Whether or not a watch-only address is involved in this transaction." true
     ["ウォッチ専用アドレスがこのトランザクションに関与しているかどうか。"];
   Message false [Loc None "-14"]
     "Address used for the block solving" true
     ["ブロック解決に使用されるアドレス"]].

Definition ja_TransactionTableModel_2 : list message :=
  [Message false [Loc None "+2"]
     "Staking reward." true
     ["報酬を奪う"];
   Message false [Loc None "+8"]
     "Date and time that the transaction was received." true
     ["トランザクションが受信された日時。"];
   Message false [Loc None "+2"]
     "Type of transaction." true
     ["トランザクションの種類。"];
   Message false [Loc None "+4"]
     "User-defined intent/purpose of the transaction." true
     ["トランザクションのユーザー定義の意図/目的。"];
   Message false [Loc None "+2"]
     "Type of input coin." true
     ["入力コインの種類。"];
   Message false [Loc None "+2"]
     "Type of output coin." true
     ["出力コインの種類。"];
   Message false [Loc None "+2"]
     "Amount removed from or added to balance." true
     ["残高から削除または追加された金額。"]].

Definition ja_TransactionView_1 : list message :=
  [Message false [Loc (Some "../transactionview.cpp") "+53"; Loc None "+11"; Loc None "+18"]
     "All" true
     ["すべての"];
   Message false [Loc None "-17"]
     "Today" true
     ["本日は"];
   Message false [Loc None "+1"]
     "This week" true
     ["今週"];
   Message false [Loc None "+1"]
     "This month" true
     ["今月"];
   Message false [Loc None "+1"]
     "Last month" true
     ["先月"];
   Message false [Loc None "+1"]
     "This year" true
     ["今年の"];
   Message false [Loc None "+1"]
     "Range..." true
     ["範囲。。。"];
   Message false [Loc None "+13"]
     "Received with" true
     ["受信先"];
   Message false [Loc None "+2"]
     "Sent to" true
     ["送信先"];
   Message false [Loc None "+2"]
     "To yourself" true
     ["自分自身に"];
   Message false [Loc None "+1"]
     "Other" true
     ["他"];
   Message false [Loc None "+1"]
     "Airdrop" true
     ["Airdrop"];
   Message false [Loc None "+5"]
     "Enter address, transaction id, or label to search" true
     ["検索する住所、トランザクション ID、またはラベルを入力します。"];
   Message false [Loc None "+5"]
     "Min amount" true
     ["分額"];
   Message false [Loc None "+52"]
     "Abandon transaction" true
     ["トランザクションの破棄"];
   Message false [Loc None "+1"]
     "Increase transaction fee" true
     ["取引手数料の引き上げ"];
   Message false [Loc None "+2"]
     "Copy address" true
     ["住所のコピー"];
   Message false [Loc None "+1"]
     "Copy label" true
     ["ラベルのコピー"];
   Message false [Loc None "+1"]
     "Copy amount" true
     ["コピー金額"];
   Message false [Loc None "+1"]
     "Copy transaction ID" true
     ["トランザクション ID のコピー"];
   Message false [Loc None "+1"]
     "Copy raw transaction" true
     ["未加工トランザクションのコピー"];
   Message false [Loc None "+1"]
     "Copy full transaction details" true
     ["トランザクションの詳細を完全にコピーする"];
   Message false [Loc None "+1"]
     "Edit label" true
     ["ラベルの編集"];
   Message false [Loc None "+1"]
     "Show transaction details" true
     ["トランザクションの詳細の表示"];
   Message false [Loc None "+239"]
     "Export Transaction History" true
     ["トランザクション履歴のエクスポート"];
   Message false [Loc None "+1"]
     "Comma separated file (*.csv)" true
     ["コンマ区切りファイル (*.csv)"];
   Message false [Loc None "+9"]
     "Confirmed" true
     ["確認"];
   Message false [Loc None "+2"]
     "Watch-only" true
     ["ウォッチのみ"];
   Message false [Loc None "+1"]
     "Date" true
     ["日付"]].

Definition ja_TransactionView_2 : list message :=
  [Message false [Loc None "+2"]
     "Type" true
     ["型"];
   Message false [Loc None "+2"]
     "Label" true
     ["ラベル"];
   Message false [Loc None "+1"]
     "Address" true
     ["アドレス"];
   Message false [Loc None "+2"]
     "ID" true
     ["Id"];
   Message false [Loc None "+3"]
     "Exporting Failed" true
     ["エクスポートに失敗しました"];
   Message false [Loc None "+0"]
     "There was an error trying to save the transaction history to %1." true
     ["トランザクション履歴を %1 に保存しようとしてエラーが発生しました。"];
   Message false [Loc None "+4"]
     "Exporting Successful" true
     ["エクスポートに成功しました"];
   Message false [Loc None "+0"]
     "The transaction history was successfully saved to %1." true
     ["トランザクション履歴が %1 に正常に保存されました。"];
   Message false [Loc None "+169"]
     "Range:" true
     ["範囲："];
   Message false [Loc None "+8"]
     "to" true
     ["宛先"]].

Definition ja_TxViewDelegate : list message :=
  [Message false [Loc (Some "../overviewpage.cpp") "+95"]
     "Unlock to show" true
     ["表示するロックを解除する"]].

Definition ja_UnitDisplayStatusBarControl : list message :=
  [Message false [Loc (Some "../bitcoingui.cpp") "+122"]
     "Unit to show amounts in. Click to select another unit." true
     ["金額を表示する単位。クリックして別のユニットを選択します。"]].

Definition ja_WalletFrame : list message :=
  [Message false [Loc (Some "../walletframe.cpp") "+29"]
     "No wallet has been loaded." true
     ["ウォレットが読み込まれていません。"]].

Definition ja_WalletModel : list message :=
  [Message false [Loc (Some "../walletmodel.cpp") "+592"; Loc None "+4"; Loc None "+11"]
     "Wallet Model" true
     ["ウォレットモデル"];
   Message false [Loc None "+65"; Loc None "+39"; Loc None "+6"]
     "Fee bump error" true
     ["手数料バンプ エラー"];
   Message false [Loc None "-45"]
     "Increasing transaction fee failed" true
     ["取引手数料の増加に失敗しました"];
   Message false [Loc None "+6"]
     "Do you want to increase the fee?" true
     ["料金を増やしますか?"];
   Message false [Loc None "+4"]
     "Current fee:" true
     ["現在の料金:"];
   Message false [Loc None "+4"]
     "Increase:" true
     ["増加："];
   Message false [Loc None "+4"]
     "New fee:" true
     ["新料金:"];
   Message false [Loc None "+4"]
     "Confirm fee bump" true
     ["手数料バンプの確認"];
   Message false [Loc None "+17"]
     "Can&apos;t sign transaction." true
     ["トランザクションに署名できません。"];
   Message false [Loc None "+6"]
     "Could not commit transaction" true
     ["トランザクションをコミットできませんでした"]].

Definition ja_WalletView : list message :=
  [Message false [Loc (Some "../walletview.cpp") "+46"; Loc None "+1"]
     "&amp;Export" true
     ["&amp;エクスポート"];
   Message false [Loc None "+9"; Loc None "+29"]
     "Export the data in the current tab to a file" true
     ["現在のタブのデータをファイルにエクスポートする"];
   Message false [Loc None "-19"]
     "Selected amount" true
     ["選択した金額"];
   Message false [Loc None "+290"]
     "Backup Wallet" true
     ["バックアップウォレット"];
   Message false [Loc None "+1"]
     "Wallet Data (*.dat)" true
     ["ウォレットデータ (*.dat)"];
   Message false [Loc None "+6"]
     "Backup Failed" true
     ["バックアップに失敗しました"];
   Message false [Loc None "+0"]
     "There was an error trying to save the wallet data to %1." true
     ["ウォレット データを %1 に保存しようとしてエラーが発生しました。"];
   Message false [Loc None "+4"]
     "Backup Successful" true
     ["バックアップの成功"];
   Message false [Loc None "+0"]
     "The wallet data was successfully saved to %1." true
     ["ウォレット データが %1 に正常に保存されました。"];
   Message false [Loc None "+63"]
     "Cancel" true
     ["キャンセル"]].

Definition ja_bitcoin_core_1 : list message :=
  [Message false [Loc (Some "../bitcoinstrings.cpp") "+12"]
     "Bitcoin Confidential Core" true
     ["ビットコインコンフィデンシャルコア"];
   Message false [Loc None "+1"]
     "The %s developers" true
     ["%s 開発者"];
   Message false [Loc None "+1"]
     " is spendable from this wallet." true
     ["この財布から使える。"];
   Message false [Loc None "+1"]
     "-maxtxfee is set very high! Fees this large could be paid on a single transaction." true
     ["-maxtxfeeは非常に高く設定されています!この大きな手数料は、単一のトランザクションで支払うことができます。"];
   Message false [Loc None "+3"]
     "Can&apos;t generate a change-address key. Private keys are disabled for this wallet." true
     ["変更アドレスキーを生成できません。このウォレットの秘密キーは無効になっています。"];
   Message false [Loc None "+3"]
     "Cannot obtain a lock on data directory %s. %s is probably already running." true
     ["データ ディレクトリ %s . %s のロックを取得できません。"];
   Message false [Loc None "+2"]
     "Cannot provide specific connections and have addrman find outgoing connections at the same." true
     ["特定の接続を提供できず、addrman が同時に発信接続を検索できます。"];
   Message false [Loc None "+3"]
     "Cannot upgrade a non HD split wallet without upgrading to support pre split keypool. Please use -upgradewallet=169900 or -upgradewallet with no version specified." true
     ["プリスプリットキープールをサポートするためにアップグレードしないと、非HDスプリットウォレットをアップグレードすることはできません。-upgradewallet=169900 または -upgradewallet を使用してください。"];
   Message false [Loc None "+4"]
     "Distributed under the MIT software license, see the accompanying file %s or %s" true
     ["MIT ソフトウェア ライセンスの下で配布される、付属のファイル %s または %s を参照してください。"];
   Message false [Loc None "+3"]
     "Error loading %s: You can&apos;t enable HD on an already existing non-HD wallet" true
     ["%s の読み込み中にエラーが発生しました: 既存の非 HD ウォレットで HD を有効にすることはできません"];
   Message false [Loc None "+2"]
     "Error reading %s! All keys read correctly, but transaction data or address book entries might be missing or incorrect." true
     ["%s を読み取りエラーが発生しました。すべてのキーが正しく読み取られますが、トランザクション データまたはアドレス帳エントリが見つからないか、正しくない可能性があります。"];
   Message false [Loc None "+3"]
     "Error: Listening for incoming connections failed (listen returned error %s)" true
     ["エラー: 着信接続のリッスンに失敗しました (リッスンして返されたエラー %s)"];
   Message false [Loc None "+2"]
     "Fee estimation failed. Fallbackfee is disabled. Wait a few blocks or enable -fallbackfee." true
     ["手数料の見積もりに失敗しました。フォールバックフィーは無効です。数ブロック待つか、-フォールバックフィーを有効にします。"];
   Message false [Loc None "+3"]
     "Generate a random master key and main account if no master key exists. (default: %s)" true
     ["マスターキーが存在しない場合は、ランダムマスターキーとメインアカウントを生成します。(デフォルト: %s)"];
   Message false [Loc None "+3"]
     "Group outputs by address, selecting all or none, instead of selecting on a per-output basis. Privacy is improved as an address is only used once (unless someone sends to it after spending from it), but may result in slightly higher fees as suboptimal coin selection may result due to the added limitation (default: %u)" true
     ["出力ごとに選択するのではなく、アドレスごとに出力をグループ化し、すべてまたはなしを選択します。プライバシーは、アドレスが一度だけ使用される(誰かがそれから支出した後に送信されない限り)が、追加された制限(デフォルト:%u)のために最適でないコインの選択が起こり得るとして、わずかに高い手数料が生じる可能性があるため、プライバシーが改善されます。"];
   Message false [Loc None "+6"]
     "Invalid amount for -maxtxfee=&lt;amount&gt;: &apos;%s&apos; (must be at least the minrelay fee of %s to prevent stuck transactions)" true
     ["-maxtxfee= の無効な&lt;amount&gt;金額: &apos;%s&apos; (トランザクションのスタックを防ぐために、少なくとも %s の最小リレー料金である必要があります)&lt;/amount&gt;"];
   Message false [Loc None "+3"]
     "Milliseconds between stake attempts. Lowering this param will not result in more stakes. (default: 500)" true
     ["ステークの試行間のミリ秒。このパラメータを下げると、より多くの賭け金はもたらされません。(デフォルト: 500)"];
   Message false [Loc None "+3"]
     "Not enough spending outputs available in the blockchain for privacy mixing. There are currently %d. For this transaction required: %d" true
     ["プライバシーミキシングのためのブロックチェーンで利用可能な十分な支出出力がありません。現在%d があります。このトランザクションが必要な場合: %d"];
   Message false [Loc None "+3"]
     "Number of threads to start for staking, max 1 per active wallet, will divide wallets evenly between threads (default: 1)" true
     ["アクティブなウォレットごとに最大 1 のスチャージを開始するスレッドの数は、スレッド間でウォレットを均等に分割します (デフォルト: 1)"];
   Message false [Loc None "+3"]
     "On saving a key from the lookahead pool, save all unsaved keys leading up to it too. (default: %s)" true
     ["先読みプールからキーを保存する場合は、保存されていないすべてのキーも保存します。(デフォルト: %s)"];
   Message false [Loc None "+3"]
     "Please check that your computer&apos;s date and time are correct! If your clock is wrong, %s will not work properly." true
     ["お使いのコンピュータの日付と時刻が正しいことを確認してください!時計が間違っている場合、%sは正しく動作しません。"];
   Message false [Loc None "+3"]
     "Please contribute if you find %s useful. Visit %s for further information about the software." true
     ["%s が役に立つ場合は、投稿してください。ソフトウェアの詳細については、%s を参照してください。"];
   Message false [Loc None "+3"]
     "Prune configured below the minimum of %d MiB.  Please use a higher number." true
     ["%d MiB の最小値を下回るプルーネ設定。 より大きな数字を使用してください。"];
   Message false [Loc None "+2"]
     "Prune: last wallet synchronisation goes beyond pruned data. You need to -reindex (download the whole blockchain again in case of pruned node)" true
     ["プルーン: 最後のウォレットの同期は、プルー化されたデータを超えています。再インデックスを作成する必要があります(プルーディングノードの場合はブロックチェーン全体を再度ダウンロード)"];
   Message false [Loc None "+3"]
     "Rescans are not possible in pruned mode. You will need to use -reindex which will download the whole blockchain again." true
     ["再スキャンは、プルーディングモードではできません。ブロックチェーン全体を再度ダウンロードする -reindex を使用する必要があります。"];
   Message false [Loc None "+3"]
     "The block database contains a block which appears to be from the future. This may be due to your computer&apos;s date and time being set incorrectly. Only rebuild the block database if you are sure that your computer&apos;s date and time are correct" true
     ["ブロック データベースには、未来から来たように見えるブロックが含まれています。コンピュータの日付と時刻が正しく設定されていない可能性があります。コンピュータの日付と時刻が正しい場合にのみ、ブロック データベースを再構築します。"];
   Message false [Loc None "+5"]
     "The transaction amount is too small to send after the fee has been deducted" true
     ["手数料が差し引かれた後に送信するには取引金額が小さすぎます"];
   Message false [Loc None "+2"]
     "This is a pre-release test build - use at your own risk - do not use for mining or merchant applications" true
     ["これはプレリリースのテストビルドです - ご自身の責任で使用 - マイニングやマーチャントアプリケーションには使用しないでください"];
   Message false [Loc None "+3"]
     "This is the transaction fee you may discard if change is smaller than dust at this level" true
     ["これは、変更がこのレベルのほこりよりも小さい場合に廃棄する可能性のある取引手数料です。"]].

Definition ja_bitcoin_core_2 : list message :=
  [Message false [Loc None "+3"]
     "This is the transaction fee you may pay when fee estimates are not available." true
     ["これは、手数料の見積もりが利用できない場合に支払う取引手数料です。"];
   Message false [Loc None "+2"]
     "This product includes software developed by the OpenSSL Project for use in the OpenSSL Toolkit %s and cryptographic software written by Eric Young and UPnP software written by Thomas Bernard." true
     ["この製品には、OpenSSLプロジェクトによって開発されたソフトウェアが含まれており、OpenSSLツールキット%sおよびトーマス・バーナードによって書かれたエリック・ヤングとUPnPソフトウェアによって書かれた暗号ソフトウェアで使用されます。"];
   Message false [Loc None "+4"]
     "Total length of network version string (%i) exceeds maximum length (%i). Reduce the number or size of uacomments." true
     ["ネットワーク バージョン文字列 (%i) の合計長さが最大長 (%i) を超えています。uaコメントの数またはサイズを小さくします。"];
   Message false [Loc None "+3"]
     "Unable to replay blocks. You will need to rebuild the database using -reindex-chainstate." true
     ["ブロックを再生できません。-reindex-chainstate を使用してデータベースを再構築する必要があります。"];
   Message false [Loc None "+3"]
     "Unable to rewind the database to a pre-fork state. You will need to redownload the blockchain" true
     ["データベースをフォーク前の状態に巻き戻すことができません。ブロックチェーンを再ダウンロードする必要があります"];
   Message false [Loc None "+3"]
     "Unsupported argument -socks found. Setting SOCKS version isn&apos;t possible anymore, only SOCKS5 proxies are supported." true
     ["サポートされていない引数 - socks が見つかりました。SOCKS バージョンの設定はできなくなりましたが、SOCKS5 プロキシのみがサポートされています。"];
   Message false [Loc None "+3"]
     "Unsupported argument -whitelistalwaysrelay ignored, use -whitelistrelay and/or -whitelistforcerelay." true
     ["サポートされていない引数 -ホワイトリストリレーは常に無視され、-whitelistrelay および/または -whitelistforcerelay を使用します。"];
   Message false [Loc None "+3"]
     "Warning: Private keys detected in wallet {%s} with disabled private keys" true
     ["警告: ウォレット {%s} で無効な秘密キーで検出された秘密キー"];
   Message false [Loc None "+2"]
     "Warning: The network does not appear to fully agree! Some miners appear to be experiencing issues." true
     ["警告: ネットワークが完全に一致していないようです。一部の鉱夫は問題を抱えているようです。"];
   Message false [Loc None "+3"]
     "Warning: Unknown block versions being mined! It&apos;s possible unknown rules are in effect" true
     ["警告: 不明なブロックバージョンがマイニングされています!未知のルールが有効である可能性があります"];
   Message false [Loc None "+3"]
     "Warning: Wallet file corrupt, data salvaged! Original %s saved as %s in %s; if your balance or transactions are incorrect you should restore from a backup." true
     ["警告: ウォレットファイルが破損し、データが回収されました!元の %s を %s で %s として保存します。残高またはトランザクションが正しくない場合は、バックアップから復元する必要があります。"];
   Message false [Loc None "+4"]
     "Warning: We do not appear to fully agree with our peers! You may need to upgrade, or other nodes may need to upgrade." true
     ["警告:私たちは、私たちの仲間に完全に同意していないようです!アップグレードが必要な場合や、他のノードのアップグレードが必要な場合があります。"];
   Message false [Loc None "+3"]
     "You need to rebuild the database using -reindex to change -timestampindex" true
     ["-reindex を使用してデータベースを再構築して -timestampindex を変更する必要があります。"];
   Message false [Loc None "+2"]
     "You need to rebuild the database using -reindex to go back to unpruned mode.  This will redownload the entire blockchain" true
     ["-reindex を使用してデータベースを再構築して、プルンなしモードに戻す必要があります。 これは、全体のブロックチェーンを再ダウンロードします"];
   Message false [Loc None "+3"]
     "%d of last 100 blocks have unexpected version" true
     ["過去 100 ブロックの %d に予期しないバージョンがある"];
   Message false [Loc None "+1"]
     "%s corrupt, salvage failed" true
     ["%s が破損し、サルベージに失敗しました"];
   Message false [Loc None "+1"]
     "%s is set very high!" true
     ["%s は非常に高く設定されています!"];
   Message false [Loc None "+1"]
     "-maxmempool must be at least %d MB" true
     ["-maxmempool は少なくとも %d MB である必要があります"];
   Message false [Loc None "+1"]
     "Account chain not found" true
     ["アカウント チェーンが見つかりません"];
   Message false [Loc None "+1"]
     "Address &apos;%s&apos; is not in the address book." true
     ["アドレス &apos;%s&apos; はアドレス帳にありません。"];
   Message false [Loc None "+1"]
     "Address &apos;%s&apos; is recorded in the address book." true
     ["アドレス &apos;%s&apos; はアドレス帳に記録されます。"];
   Message false [Loc None "+1"]
     "Anon output not found in db, %d" true
     ["データベースに Anon 出力が見つかりません。"];
   Message false [Loc None "+1"]
     "Anon pubkey not found in db, %s" true
     ["アノンパキーが db に見つかりません, %s"];
   Message false [Loc None "+1"]
     "Cannot downgrade wallet" true
     ["ウォレットをダウングレードできません"];
   Message false [Loc None "+1"]
     "Cannot resolve -%s address: &apos;%s&apos;" true
     ["-%s アドレスを解決できません: &apos;%s&apos;"];
   Message false [Loc None "+1"]
     "Cannot write to data directory &apos;%s&apos;; check permissions." true
     ["データ ディレクトリ &apos;%s&apos; に書き込むことができません。アクセス許可を確認します。"];
   Message false [Loc None "+1"]
     "Change index out of range" true
     ["範囲外のインデックスを変更する"];
   Message false [Loc None "+1"]
     "Confidential chain set but not found" true
     ["機密チェーンセットが見つかりませんが、見つかりません"];
   Message false [Loc None "+1"]
     "Copyright (C)" true
     ["著作権 (C)"];
   Message false [Loc None "+1"]
     "Corrupted block database detected" true
     ["ブロック データベースが破損している場合"]].

Definition ja_bitcoin_core_3 : list message :=
  [Message false [Loc None "+1"]
     "Could not convert prefix to number." true
     ["プレフィックスを数値に変換できませんでした。"];
   Message false [Loc None "+1"]
     "Could not decode scan secret as wif, hex or base58." true
     ["ウィフ、六輪、base58としてスキャンシークレットをデコードできませんでした。"];
   Message false [Loc None "+1"]
     "Could not decode spend secret as hex or base58." true
     ["六ックまたはbase58として使用シークレットをデコードできませんでした。"];
   Message false [Loc None "+1"]
     "Could not get confidential chain from account." true
     ["アカウントから機密チェーンを取得できませんでした。"];
   Message false [Loc None "+1"]
     "Could not get scan public key." true
     ["公開キーをスキャンできませんでした。"];
   Message false [Loc None "+1"]
     "Could not get spend public key." true
     ["公開キーを使用できませんでした。"];
   Message false [Loc None "+1"]
     "Default account not found" true
     ["既定のアカウントが見つかりません"];
   Message false [Loc None "+1"]
     "DeriveNextKey failed" true
     ["派生ネクストキーが失敗しました"];
   Message false [Loc None "+1"]
     "Do you want to rebuild the block database now?" true
     ["ブロック データベースを今すぐ再構築しますか?"];
   Message false [Loc None "+1"]
     "Done loading" true
     ["読み込みが完了しました"];
   Message false [Loc None "+1"]
     "Duplicate index found, %d" true
     ["重複インデックスが見つかりました%d"];
   Message false [Loc None "+1"]
     "Empty wallet required for import." true
     ["インポートに必要な空のウォレット。"];
   Message false [Loc None "+1"]
     "Ensure available balance remains above reservebalance. (default: 0)" true
     ["利用可能な残高がリザーブバランスを上回っていることを確認します。(デフォルト: 0)"];
   Message false [Loc None "+1"]
     "EraseSetting failed." true
     ["消去に失敗しました。"];
   Message false [Loc None "+1"]
     "Error creating %s: You can&apos;t create non-HD wallets with this version." true
     ["%s の作成中にエラー: このバージョンでは HD 以外のウォレットを作成できません。"];
   Message false [Loc None "+1"]
     "Error initializing block database" true
     ["ブロック データベースの初期化エラー"];
   Message false [Loc None "+1"]
     "Error initializing wallet database environment %s!" true
     ["ウォレット データベース環境 %s の初期化エラー!"];
   Message false [Loc None "+1"]
     "Error loading %s" true
     ["%s の読み込み中にエラーが発生しました"];
   Message false [Loc None "+1"]
     "Error loading %s: Private keys can only be disabled during creation" true
     ["%s の読み込みエラー: 秘密キーは作成中にのみ無効にできます。"];
   Message false [Loc None "+1"]
     "Error loading %s: Wallet corrupted" true
     ["%s の読み込み中にエラーが発生しました: ウォレットが壊れています"];
   Message false [Loc None "+1"]
     "Error loading %s: Wallet requires newer version of %s" true
     ["エラー読み込み %s: ウォレットには新しいバージョンの %s が必要です。"];
   Message false [Loc None "+1"]
     "Error loading %s: You can&apos;t disable HD on an already existing HD wallet" true
     ["%s の読み込み中にエラーが発生しました: 既存の HD ウォレットで HD を無効にすることはできません"];
   Message false [Loc None "+1"]
     "Error loading block database" true
     ["ブロック データベースの読み込み中末にエラーが発生しました"];
   Message false [Loc None "+1"]
     "Error loading wallet %s. Duplicate -wallet filename specified." true
     ["ウォレット %s. 重複 - ウォレット ファイル名が指定されています。"];
   Message false [Loc None "+1"]
     "Error opening block database" true
     ["ブロック データベースを開くエラー"];
   Message false [Loc None "+1"]
     "Error reading from database, shutting down." true
     ["データベースからの読み取りエラー、シャットダウン。"];
   Message false [Loc None "+1"]
     "Error upgrading chainstate database" true
     ["チェーンステート データベースのアップグレード中にエラーが発生しました"];
   Message false [Loc None "+1"]
     "Error" true
     ["エラー"];
   Message false [Loc None "+1"]
     "Error: A fatal internal error occurred, see debug.log for details" true
     ["エラー: 致命的な内部エラーが発生しました。"];
   Message false [Loc None "+1"]
     "Error: Disk space is low!" true
     ["エラー: ディスク領域が不足しています。"]].

Definition ja_bitcoin_core_4 : list message :=
  [Message false [Loc None "+1"]
     "ExtKeyGetIndex failed." true
     ["ExtKeyGetIndex に失敗しました。"];
   Message false [Loc None "+1"]
     "ExtKeySaveAccountToDB failed" true
     ["ExtKeySaveAccountToDB に失敗しました"];
   Message false [Loc None "+1"]
     "Failed to listen on any port. Use -listen=0 if you want this." true
     ["どのポートでもリッスンできませんでした。これを必要に応じて -listen=0 を使用します。"];
   Message false [Loc None "+1"]
     "Failed to open dongle" true
     ["ドングルを開けられなかった"];
   Message false [Loc None "+1"]
     "Failed to rescan the wallet during initialization" true
     ["初期化中にウォレットの再スキャンに失敗しました"];
   Message false [Loc None "+1"]
     "Hit nMaxTries limit, %d, %d" true
     ["ヒット nMaxTries リミット、%d、%d"];
   Message false [Loc None "+1"]
     "Import failed - AddKeyPubKey failed." true
     ["インポートに失敗しました - AddKeyPubKey に失敗しました。"];
   Message false [Loc None "+1"]
     "Import failed - stealth address exists." true
     ["インポートに失敗しました - ステルス アドレスが存在します。"];
   Message false [Loc None "+1"]
     "Importing..." true
     ["インポート。。。"];
   Message false [Loc None "+1"]
     "Incorrect or no genesis block found. Wrong datadir for network?" true
     ["正しくないか、ジェネシスブロックが見つかりませんでした。ネットワークのデータが間違っていますか?"];
   Message false [Loc None "+1"]
     "Information" true
     ["情報"];
   Message false [Loc None "+1"]
     "Initialization sanity check failed. %s is shutting down." true
     ["初期化の正気チェックに失敗しました。%s はシャットダウンしています。"];
   Message false [Loc None "+1"]
     "Insufficient funds" true
     ["資金不足"];
   Message false [Loc None "+1"]
     "Insufficient funds." true
     ["資金が不足しています。"];
   Message false [Loc None "+1"]
     "Invalid -onion address or hostname: &apos;%s&apos;" true
     ["無効な -onion アドレスまたはホスト名: &apos;%s&apos;"];
   Message false [Loc None "+1"]
     "Invalid -proxy address or hostname: &apos;%s&apos;" true
     ["無効な -プロキシ アドレスまたはホスト名: &apos;%s&apos;"];
   Message false [Loc None "+1"]
     "Invalid BitcoinC address." true
     ["無効なビットコインCアドレス。"];
   Message false [Loc None "+1"]
     "Invalid amount for -%s=&lt;amount&gt;: &apos;%s&apos;" true
     ["-%s= の無効な金額&lt;amount&gt;: &apos;%s&apos;&lt;/amount&gt;"];
   Message false [Loc None "+1"]
     "Invalid amount for -discardfee=&lt;amount&gt;: &apos;%s&apos;" true
     ["-discardfee の無効な金額=&lt;amount&gt;: &apos;%s&apos;&lt;/amount&gt;"];
   Message false [Loc None "+1"]
     "Invalid amount for -fallbackfee=&lt;amount&gt;: &apos;%s&apos;" true
     ["-フォールバックフィーの無効な金額=&lt;amount&gt;: &apos;%s&apos;&lt;/amount&gt;"];
   Message false [Loc None "+1"]
     "Invalid amount for -paytxfee=&lt;amount&gt;: &apos;%s&apos; (must be at least %s)" true
     ["-paytxfee の無効な金額:&lt;amount&gt;&apos;%s&apos; (少なくとも %s である必要があります)&lt;/amount&gt;"];
   Message false [Loc None "+1"]
     "Invalid amount for -reservebalance=&lt;amount&gt;" true
     ["-引当金残高の無効な金額=&lt;amount&gt;&lt;/amount&gt;"];
   Message false [Loc None "+1"]
     "Invalid coldstakingaddress." true
     ["無効なコールドテイクアドレス。"];
   Message false [Loc None "+1"]
     "Invalid input key." true
     ["入力キーが無効です。"];
   Message false [Loc None "+1"]
     "Invalid key." true
     ["無効なキーです。"];
   Message false [Loc None "+1"]
     "Invalid netmask specified in -whitelist: &apos;%s&apos;" true
     ["-whitelist で指定された無効なネットマスク: &apos;%s&apos;"];
   Message false [Loc None "+1"]
     "Invalid rewardaddress." true
     ["無効な特典アドレスです。"];
   Message false [Loc None "+1"]
     "Keypool ran out, please call keypoolrefill first" true
     ["キープールがなくなったので、最初にキープールリフィルを呼び出してください"];
   Message false [Loc None "+1"]
     "Loading P2P addresses..." true
     ["P2P アドレスを読み込んでいます..."]].

Definition ja_bitcoin_core_5 : list message :=
  [Message false [Loc None "+1"]
     "Loading address book for %s.
" true
     ["%s のアドレス帳を読み込んでいます。"];
   Message false [Loc None "+1"]
     "Loading banlist..." true
     ["バンリストを読み込んでいます..."];
   Message false [Loc None "+1"]
     "Loading block index..." true
     ["ブロック インデックスを読み込んでいます..."];
   Message false [Loc None "+1"]
     "Loading transaction records for %s.
" true
     ["%s のトランザクション レコードを読み込んでいます。"];
   Message false [Loc None "+1"]
     "Loading wallet..." true
     ["ウォレットを読み込んでいます..."];
   Message false [Loc None "+1"]
     "Minimum time in seconds between successful stakes (default: 0)" true
     ["成功したステーク間の最小秒数 (デフォルト: 0)"];
   Message false [Loc None "+1"]
     "Must be json object." true
     ["json オブジェクトである必要があります。"];
   Message false [Loc None "+1"]
     "Must have account to save keys." true
     ["キーを保存するには、アカウントが必要です。"];
   Message false [Loc None "+1"]
     "Must input a stealthaddress." true
     ["ステルスアドレスを入力する必要があります。"];
   Message false [Loc None "+1"]
     "Need a parameter to change." true
     ["変更するパラメータが必要です。"];
   Message false [Loc None "+1"]
     "Need to specify a port with -whitebind: &apos;%s&apos;" true
     ["-whitebind: &apos;%s&apos; を持つポートを指定する必要がある"];
   Message false [Loc None "+1"]
     "New state must be bool." true
     ["新しい状態はブールでなければなりません。"];
   Message false [Loc None "+1"]
     "NewExtKeyFromAccount failed, %s." true
     ["NewExtKeyFromAccount が失敗しました。"];
   Message false [Loc None "+1"]
     "NewExtKeyFromAccount failed." true
     ["NewExtKeyFromAccount が失敗しました。"];
   Message false [Loc None "+1"]
     "NewStealthKeyV2FromAccount failed." true
     ["NewStealthKeyV2 FromAccount が失敗しました。"];
   Message false [Loc None "+1"]
     "No default account set." true
     ["既定のアカウントが設定されていない。"];
   Message false [Loc None "+1"]
     "No key for anonoutput, %s" true
     ["アノン出力のキーなし、%s"];
   Message false [Loc None "+1"]
     "Not anon output %s %d" true
     ["アノン出力 %s %d ではない"];
   Message false [Loc None "+1"]
     "Not enough file descriptors available." true
     ["ファイル記述子が不足しています。"];
   Message false [Loc None "+1"]
     "Num inputs per signature out of range" true
     ["範囲外のシグネチャごとの Num 入力"];
   Message false [Loc None "+1"]
     "Number of keys to load into the lookahead pool per chain. (default: %u)" true
     ["チェーンごとの先読みプールに読み込むキーの数。(デフォルト: %u)"];
   Message false [Loc None "+1"]
     "Only able to send to stealth address." true
     ["ステルスアドレスにのみ送信可能です。"];
   Message false [Loc None "+1"]
     "OpIsCoinstake is not active yet." true
     ["オピスコインテイクはまだアクティブではありません。"];
   Message false [Loc None "+1"]
     "Output isn&apos;t standard." true
     ["出力は標準ではありません。"];
   Message false [Loc None "+1"]
     "PrepareTransaction for device failed: %s" true
     ["デバイスのトランザクションの準備に失敗しました: %s"];
   Message false [Loc None "+1"]
     "ProduceSignature from device failed: %s" true
     ["デバイスからの署名の生成に失敗しました: %s"];
   Message false [Loc None "+1"]
     "Prune cannot be configured with a negative value." true
     ["除外値を指定してプルーネを構成することはできません。"];
   Message false [Loc None "+1"]
     "Prune mode is incompatible with -txindex." true
     ["プルーネ モードは -txindex と互換性がありません。"];
   Message false [Loc None "+1"]
     "Pruning blockstore..." true
     ["プルーニング ブロックストア..."]].

Definition ja_bitcoin_core_6 : list message :=
  [Message false [Loc None "+1"]
     "ReadStoredTx failed for %s" true
     ["%s に対して読み取り済みTxが失敗しました"];
   Message false [Loc None "+1"]
     "Reducing -maxconnections from %d to %d, because of system limitations." true
     ["システムの制限により、-maxconnections を %d から %d に減らします。"];
   Message false [Loc None "+1"]
     "Replaying blocks..." true
     ["ブロックを再生しています..."];
   Message false [Loc None "+1"]
     "Rescanning..." true
     ["再スキャンしています..."];
   Message false [Loc None "+1"]
     "Rewinding blocks..." true
     ["ブロックを巻き戻しています..."];
   Message false [Loc None "+1"]
     "Ring size out of range [%d, %d]" true
     ["リング サイズが範囲外 [%d,%d]"];
   Message false [Loc None "+1"]
     "Ring size out of range" true
     ["リングサイズが範囲外"];
   Message false [Loc None "+1"]
     "Scan secret is not 32 bytes." true
     ["スキャン シークレットは 32 バイトではありません。"];
   Message false [Loc None "+1"]
     "SetSetting failed." true
     ["SetSet に失敗しました。"];
   Message false [Loc None "+1"]
     "Signing transaction failed" true
     ["署名トランザクションに失敗しました"];
   Message false [Loc None "+1"]
     "Specified -walletdir &quot;%s&quot; does not exist" true
     ["指定された -walletdir &quot;%s&quot; が存在しません"];
   Message false [Loc None "+1"]
     "Specified -walletdir &quot;%s&quot; is a relative path" true
     ["指定された -walletdir &quot;%s&quot; は相対パスです"];
   Message false [Loc None "+1"]
     "Specified -walletdir &quot;%s&quot; is not a directory" true
     ["指定された -walletdir &quot;%s&quot; はディレクトリではありません"];
   Message false [Loc None "+1"]
     "Specified blocks directory &quot;%s&quot; does not exist." true
     ["指定されたブロック ディレクトリ &quot;%s&quot; が存在しません。"];
   Message false [Loc None "+1"]
     "Spend secret is not 32 bytes." true
     ["使用シークレットは 32 バイトではありません。"];
   Message false [Loc None "+1"]
     "Spend secret must be different to scan secret." true
     ["使用シークレットは、シークレットをスキャンするのとは異なる必要があります。"];
   Message false [Loc None "+1"]
     "Stake your coins to support network and gain reward (default: true)" true
     ["ネットワークをサポートし、報酬を得るためにあなたのコインを賭ける(デフォルト:真)"];
   Message false [Loc None "+1"]
     "Starting network threads..." true
     ["ネットワーク スレッドを開始しています..."];
   Message false [Loc None "+1"]
     "StealthSecret failed, try again." true
     ["ステルスシークレットが失敗しました、 もう一度やり直してください。"];
   Message false [Loc None "+1"]
     "The source code is available from %s." true
     ["ソース コードは %s から入手できます。"];
   Message false [Loc None "+1"]
     "The transaction amount is too small to pay the fee" true
     ["取引金額が小さすぎて手数料を支払えが行われない"];
   Message false [Loc None "+1"]
     "The wallet will avoid paying less than the minimum relay fee." true
     ["ウォレットは、最小中継料金未満の支払いを避けます。"];
   Message false [Loc None "+1"]
     "This is experimental software." true
     ["これは実験的なソフトウェアです。"];
   Message false [Loc None "+1"]
     "This is the minimum transaction fee you pay on every transaction." true
     ["これは、すべての取引で支払う最低取引手数料です。"];
   Message false [Loc None "+1"]
     "This is the transaction fee you will pay if you send a transaction." true
     ["これは、取引を送信する場合に支払う取引手数料です。"];
   Message false [Loc None "+1"]
     "Transaction amount too small" true
     ["取引金額が少なすぎる"];
   Message false [Loc None "+1"]
     "Transaction amounts must not be negative" true
     ["トランザクション金額を負の値にすることはできません。"];
   Message false [Loc None "+1"]
     "Transaction amounts must not be negative." true
     ["トランザクション金額は負の値にすることはできません。"];
   Message false [Loc None "+1"]
     "Transaction fee and change calculation failed" true
     ["取引手数料と変更計算に失敗しました"];
   Message false [Loc None "+1"]
     "Transaction fee and change calculation failed." true
     ["取引手数料と変更計算に失敗しました。"]].

Definition ja_bitcoin_core_7 : list message :=
  [Message false [Loc None "+1"]
     "Transaction has too long of a mempool chain" true
     ["トランザクションのメムプール チェーンが長すぎます"];
   Message false [Loc None "+1"]
     "Transaction must have at least one recipient" true
     ["トランザクションには少なくとも 1 人の受信者が必要です。"];
   Message false [Loc None "+1"]
     "Transaction must have at least one recipient." true
     ["トランザクションには、少なくとも 1 人の受信者が必要です。"];
   Message false [Loc None "+1"]
     "Transaction too large for fee policy" true
     ["手数料ポリシーに対してトランザクションが大きすぎます"];
   Message false [Loc None "+1"]
     "Transaction too large for fee policy." true
     ["手数料ポリシーではトランザクションが大きすぎます。"];
   Message false [Loc None "+1"]
     "Transaction too large" true
     ["トランザクションが大きすぎます"];
   Message false [Loc None "+1"]
     "TxnBegin failed." true
     ["TxnBegin が失敗しました。"];
   Message false [Loc None "+1"]
     "Unable to bind to %s on this computer (bind returned error %s)" true
     ["このコンピュータで %s にバインドできません (バインドが返されたエラー %s)"];
   Message false [Loc None "+1"]
     "Unable to bind to %s on this computer. %s is probably already running." true
     ["このコンピュータで %s にバインドできません。%s は既に実行中です。"];
   Message false [Loc None "+1"]
     "Unable to generate initial keys" true
     ["初期キーを生成できません"];
   Message false [Loc None "+1"]
     "Unable to generate keys" true
     ["キーを生成できません"];
   Message false [Loc None "+1"]
     "Unable to start HTTP server. See debug log for details." true
     ["HTTP サーバーを起動できません。詳細については、デバッグ ログを参照してください。"];
   Message false [Loc None "+1"]
     "Unknown account." true
     ["不明なアカウントです。"];
   Message false [Loc None "+1"]
     "Unknown action, must be one of &apos;add/edit/del&apos;." true
     ["不明なアクションは、「追加/編集/デル」のいずれかである必要があります。"];
   Message false [Loc None "+1"]
     "Unknown argument for 256bithash: %s." true
     ["256bithash の不明な引数: %s です。"];
   Message false [Loc None "+1"]
     "Unknown argument for add_to_addressbook: %s." true
     ["add_to_addressbook: %s の不明な引数です。"];
   Message false [Loc None "+1"]
     "Unknown chain." true
     ["不明なチェーンです。"];
   Message false [Loc None "+1"]
     "Unknown input key version." true
     ["入力キーのバージョンが不明です。"];
   Message false [Loc None "+1"]
     "Unknown network specified in -onlynet: &apos;%s&apos;" true
     ["-onlynet で指定された不明なネットワーク: &apos;%s&apos;"];
   Message false [Loc None "+1"]
     "Unknown setting" true
     ["不明な設定"];
   Message false [Loc None "+1"]
     "Unsupported argument -benchmark ignored, use -debug=bench." true
     ["サポートされていない引数 -ベンチマークは無視され、-debug=bench を使用します。"];
   Message false [Loc None "+1"]
     "Unsupported argument -debugnet ignored, use -debug=net." true
     ["サポートされていない引数 -debugnet は無視され、-debug=net を使用します。"];
   Message false [Loc None "+1"]
     "Unsupported argument -debugnet ignored, use -debug=smsg." true
     ["サポートされていない引数 -debugnet は無視され、-debug=smsg を使用します。"];
   Message false [Loc None "+1"]
     "Unsupported argument -tor found, use -onion." true
     ["サポートされていない引数 -tor が見つかり、-onion を使用します。"];
   Message false [Loc None "+1"]
     "Unsupported logging category %s=%s." true
     ["サポートされていないロギング カテゴリ %s=%s です。"];
   Message false [Loc None "+1"]
     "Upgrading txindex database" true
     ["txindex データベースのアップグレード"];
   Message false [Loc None "+1"]
     "User Agent comment (%s) contains unsafe characters." true
     ["ユーザー エージェント コメント (%s) には、安全でない文字が含まれています。"];
   Message false [Loc None "+1"]
     "Verifying blocks..." true
     ["ブロックを確認しています..."];
   Message false [Loc None "+1"]
     "Verifying wallet(s)..." true
     ["ウォレットを確認しています..."];
   Message false [Loc None "+1"]
     "Wallet %s resides outside wallet directory %s" true
     ["ウォレット %s はウォレット ディレクトリ %s の外部に存在します。"]].

Definition ja_bitcoin_core_8 : list message :=
  [Message false [Loc None "+1"]
     "Wallet has no active master key." true
     ["ウォレットにはアクティブなマスターキーがありません。"];
   Message false [Loc None "+1"]
     "Wallet must be unlocked." true
     ["ウォレットのロックを解除する必要があります。"];
   Message false [Loc None "+1"]
     "Wallet must have a default account set." true
     ["ウォレットにはデフォルトのアカウントが設定されています。"];
   Message false [Loc None "+1"]
     "Wallet needed to be rewritten: restart %s to complete" true
     ["ウォレットを書き換える必要がある: %s を再起動して完了する"];
   Message false [Loc None "+1"]
     "Warning" true
     ["警告"];
   Message false [Loc None "+1"]
     "Warning: unknown new rules activated (versionbit %i)" true
     ["警告: 不明な新しいルールがアクティブ化されました (バージョンビット %i)"];
   Message false [Loc None "+1"]
     "You need to rebuild the database using -reindex to change -addressindex" true
     ["-reindex を使用してデータベースを再構築して -addressindex を変更する必要があります。"];
   Message false [Loc None "+1"]
     "You need to rebuild the database using -reindex to change -spentindex" true
     ["-reindex を使用してデータベースを再構築して -spendindex を変更する必要があります。"];
   Message false [Loc None "+1"]
     "Zapping all transactions from wallet..." true
     ["ウォレットからすべてのトランザクションをザッピングしています..."];
   Message false [Loc None "+1"]
     "accounts missing." true
     ["アカウントが見つかりません。"];
   Message false [Loc None "+1"]
     "accounts must be an array." true
     ["アカウントは配列である必要があります。"];
   Message false [Loc None "+1"]
     "add_to_addressbook can&apos;t be set without save" true
     ["add_to_addressbook は保存なしでは設定できません"];
   Message false [Loc None "+1"]
     "address_standard must be a string." true
     ["address_standard は文字列でなければなりません。"];
   Message false [Loc None "+1"]
     "bad childNo." true
     ["悪い子いいえ。"];
   Message false [Loc None "+1"]
     "bech32 encode failed." true
     ["bech32 エンコードに失敗しました。"];
   Message false [Loc None "+1"]
     "coldstakingaddress can&apos;t be a stealthaddress." true
     ["コールドアドレスはステルスアドレスにすることはできません。"];
   Message false [Loc None "+1"]
     "coldstakingaddress must be a string." true
     ["コールドテイクアドレスは文字列でなければなりません。"];
   Message false [Loc None "+1"]
     "extkey must have private key to derive hardened keys." true
     ["extkey は、強化されたキーを派生させるには秘密キーを持っている必要があります。"];
   Message false [Loc None "+1"]
     "foundationdonationpercent must be a number." true
     ["寄付率は数値でなければなりません。"];
   Message false [Loc None "+1"]
     "height must be a number." true
     ["高さは数値でなければなりません。"];
   Message false [Loc None "+1"]
     "loose_extkeys missing." true
     ["loose_extキーが見つかりません。"];
   Message false [Loc None "+1"]
     "loose_extkeys must be an array." true
     ["loose_extkeys は配列である必要があります。"];
   Message false [Loc None "+1"]
     "num_derives to int failed." true
     ["num_は int に失敗しました。"];
   Message false [Loc None "+1"]
     "num_derives_h to int failed." true
     ["num_deris_h を int に失敗しました。"];
   Message false [Loc None "+1"]
     "num_prefix_bits invalid number." true
     ["num_prefix_bits 無効な数値です。"];
   Message false [Loc None "+1"]
     "num_prefix_bits must be &lt;= 32." true
     ["num_prefix_bits は次の値を指定する必要があります。&lt;= 32.&gt;&lt;/= 32.&gt;"];
   Message false [Loc None "+1"]
     "rewardaddress must be a string." true
     ["報酬アドレスは文字列でなければなりません。"];
   Message false [Loc None "+1"]
     "secp256k1_generate_mlsag failed %d" true
     ["secp256k1_generate_mlsag 失敗 %d"];
   Message false [Loc None "+1"]
     "secp256k1_get_keyimage failed %d" true
     ["secp256k1_get_keyimage で失敗しました %d"];
   Message false [Loc None "+1"]
     "secp256k1_prepare_mlsag failed %d" true
     ["secp256k1_prepare_mlsag が失敗した %d"]].

Definition ja_bitcoin_core_9 : list message :=
  [Message false [Loc None "+1"]
     "stakecombinethreshold can&apos;t be negative." true
     ["ステークコンバインしきい値は負にすることはできません。"];
   Message false [Loc None "+1"]
     "stakesplitthreshold can&apos;t be negative." true
     ["ステークスプリットしきい値を負にすることはできません。"]].

(** The whole document. *)
Definition bitcoin_ja_JP : catalogue :=
  [Context "AddressBookPage" (ja_AddressBookPage_1 ++ ja_AddressBookPage_2);
   Context "AddressTableModel" (ja_AddressTableModel);
   Context "AskPassphraseDialog" (ja_AskPassphraseDialog_1 ++ ja_AskPassphraseDialog_2);
   Context "BanTableModel" (ja_BanTableModel);
   Context "BitcoinGUI" (ja_BitcoinGUI_1 ++ ja_BitcoinGUI_2 ++ ja_BitcoinGUI_3 ++ ja_BitcoinGUI_4);
   Context "CoinControlDialog" (ja_CoinControlDialog_1 ++ ja_CoinControlDialog_2);
   Context "EditAddressDialog" (ja_EditAddressDialog);
   Context "FreespaceChecker" (ja_FreespaceChecker);
   Context "HelpMessageDialog" (ja_HelpMessageDialog);
   Context "Intro" (ja_Intro);
   Context "MnemonicDialog" (ja_MnemonicDialog_1 ++ ja_MnemonicDialog_2);
   Context "ModalOverlay" (ja_ModalOverlay);
   Context "OpenURIDialog" (ja_OpenURIDialog);
   Context "OptionsDialog" (ja_OptionsDialog_1 ++ ja_OptionsDialog_2 ++ ja_OptionsDialog_3);
   Context "OverviewPage" (ja_OverviewPage);
   Context "PaymentServer" (ja_PaymentServer);
   Context "PeerTableModel" (ja_PeerTableModel);
   Context "QObject" (ja_QObject);
   Context "QObject::QObject" (ja_QObject__QObject);
   Context "QRImageWidget" (ja_QRImageWidget);
   Context "RPCConsole" (ja_RPCConsole_1 ++ ja_RPCConsole_2 ++ ja_RPCConsole_3);
   Context "ReceiveCoinsDialog" (ja_ReceiveCoinsDialog);
   Context "ReceiveRequestDialog" (ja_ReceiveRequestDialog);
   Context "RecentRequestsTableModel" (ja_RecentRequestsTableModel);
   Context "SendCoinsDialog" (ja_SendCoinsDialog_1 ++ ja_SendCoinsDialog_2 ++ ja_SendCoinsDialog_3);
   Context "SendCoinsEntry" (ja_SendCoinsEntry_1 ++ ja_SendCoinsEntry_2);
   Context "SendConfirmationDialog" (ja_SendConfirmationDialog);
   Context "ShutdownWindow" (ja_ShutdownWindow);
   Context "SignVerifyMessageDialog" (ja_SignVerifyMessageDialog_1 ++ ja_SignVerifyMessageDialog_2);
   Context "SplashScreen" (ja_SplashScreen);
   Context "StakingDialog" (ja_StakingDialog_1 ++ ja_StakingDialog_2);
   Context "TrafficGraphWidget" (ja_TrafficGraphWidget);
   Context "TransactionDesc" (ja_TransactionDesc_1 ++ ja_TransactionDesc_2);
   Context "TransactionDescDialog" (ja_TransactionDescDialog);
   Context "TransactionTableModel" (ja_TransactionTableModel_1 ++ ja_TransactionTableModel_2);
   Context "TransactionView" (ja_TransactionView_1 ++ ja_TransactionView_2);
   Context "TxViewDelegate" (ja_TxViewDelegate);
   Context "UnitDisplayStatusBarControl" (ja_UnitDisplayStatusBarControl);
   Context "WalletFrame" (ja_WalletFrame);
   Context "WalletModel" (ja_WalletModel);
   Context "WalletView" (ja_WalletView);
   Context "bitcoin-core" (ja_bitcoin_core_1 ++ ja_bitcoin_core_2 ++ ja_bitcoin_core_3 ++ ja_bitcoin_core_4 ++ ja_bitcoin_core_5 ++ ja_bitcoin_core_6 ++ ja_bitcoin_core_7 ++ ja_bitcoin_core_8 ++ ja_bitcoin_core_9)].
