(* ===== verification/CatalogueKo.v ===== *)
(** The Korean catalogue, [src/src/qt/locale/bitcoin_ko_KR.ts], context by context; a long
    context is cut into parts.  Texts are as in the file. *)
From S2P Require Import Prelude Locale.
Open Scope txt_scope.
Open Scope list_scope.

Definition ko_AddressBookPage_1 : list message :=
  [Message false [Loc (Some "../forms/addressbookpage.ui") "+27"]
     "Enter address or label to search" true
     ["검색할 주소 또는 레이블 입력"];
   Message false [Loc None "+10"]
     "Right-click to edit address or label" true
     ["주소 또는 레이블을 편집하려면 마우스 오른쪽 단추를 클릭합니다."];
   Message false [Loc None "+30"; Loc None "+17"; Loc None "+17"]
     "Create a new address" true
     ["새 주소 만들기"];
   Message false [Loc None "-31"]
     "&amp;New" true
     ["&amp;amp; 신규"];
   Message false [Loc None "+17"]
     "&amp;New Stake address" true
     ["&amp;amp; 새로운 스테이크 주소"];
   Message false [Loc None "+17"]
     "&amp;New ColdStake address" true
     ["&amp;amp; 새로운 콜드스테이크 주소"];
   Message false [Loc None "+14"]
     "Copy the currently selected address to the system clipboard" true
     ["현재 선택한 주소를 시스템 클립보드에 복사"];
   Message false [Loc None "+3"]
     "&amp;Copy" true
     ["및 복사"];
   Message false [Loc None "+14"]
     "Delete the currently selected address from the list" true
     ["목록에서 현재 선택한 주소 삭제"];
   Message false [Loc None "+3"]
     "&amp;Delete" true
     ["및 삭제"];
   Message false [Loc None "+27"]
     "Export the data in the current tab to a file" true
     ["현재 탭의 데이터를 파일로 내보내기"];
   Message false [Loc None "+3"]
     "&amp;Export" true
     ["및 수출"];
   Message false [Loc None "+20"]
     "C&amp;lose" true
     ["C&amp;amp;로"];
   Message false [Loc (Some "../addressbookpage.cpp") "+84"]
     "These are your Bitcoin Confidential addresses for sending payments. Always check the amount and the receiving address before sending coins." true
     ["이들은 지불을 보내기위한 귀하의 비트 코인 기밀 주소입니다. 동전을 보내기 전에 항상 금액과 수신 주소를 확인하십시오."];
   Message false [Loc None "+8"]
     "Choose the address to send coins to" true
     ["동전을 보낼 주소를 선택합니다."];
   Message false [Loc None "+4"; Loc None "+22"; Loc None "+28"]
     "C&amp;hoose" true
     ["C&amp;amp;후스"];
   Message false [Loc None "-44"]
     "Sending addresses" true
     ["주소 보내기"];
   Message false [Loc None "+12"]
     "Choose the address to receive coins with" true
     ["동전을 받을 주소를 선택"];
   Message false [Loc None "+10"]
     "Receiving addresses" true
     ["주소 수신"];
   Message false [Loc None "+1"]
     "These are your Bitcoin Confidential addresses for receiving payments. It is recommended to use a new receiving address for each transaction." true
     ["이들은 지불을 받기위한 귀하의 비트 코인 기밀 주소입니다. 각 트랜잭션에 대해 새 수신 주소를 사용하는 것이 좋습니다."];
   Message false [Loc None "+13"]
     "Choose the Stake or ColdStake address" true
     ["스테이크 또는 콜드스테이크 주소 선택"];
   Message false [Loc None "+1"]
     "These are your Bitcoin Confidential Stake and ColdStake addresses." true
     ["비트코인 기밀 스테이크 및 콜드스테이크 주소입니다."];
   Message false [Loc None "+16"]
     "Stake and ColdStake addresses" true
     ["스테이크 및 콜드스테이크 주소"];
   Message false [Loc None "+1"]
     "These addresses cannot be used to receive coins from outside the wallet, such as payments or from exchanges.  Use the Receive tab to generate spending addresses.

Stake addresses, starting with &quot;%1&quot;, are used to convert spending funds into staking funds in the &quot;Convert to Staking&quot; tab. Funds in Stake addresses can be either used for hot staking or the activation of ColdStaking.

ColdStake addresses, starting with &quot;%2&quot;, are used to manually activate staking funds for ColdStaking. There is no need to generate ColdStake addresses when the automated ColdStaking activation from the Staking Status page is used." true
     ["이러한 주소는 결제 나 거래소와 같은 지갑 외부에서 동전을 받는 데 사용할 수 없습니다.  수신 탭을 사용하여 지출 주소를 생성합니다.

&quot;%1&quot;로 시작하는 스테이크 주소는 지출 자금을 &quot;스테이크로 전환&quot; 탭에서 스태팅 자금으로 변환하는 데 사용됩니다.

콜드스테이크 주소는 &quot;%2&quot;로 시작하여 콜드스테이크의 스태팅 기금을 수동으로 활성화하는 데 사용됩니다. 스테이징 상태 페이지에서 자동 콜드스테이징 활성화를 사용할 때 ColdStake 주소를 생성할 필요가 없습니다."];
   Message false [Loc None "+11"]
     "&amp;Copy Address" true
     ["주소 및 복사"];
   Message false [Loc None "+1"]
     "Copy &amp;Label" true
     ["복사 및 레이블"];
   Message false [Loc None "+1"]
     "&amp;Edit" true
     ["편집 및 편집"]].

Definition ko_AddressBookPage_2 : list message :=
  [Message false [Loc None "+186"]
     "Export Address List" true
     ["내보내기 주소 목록"];
   Message false [Loc None "+1"]
     "Comma separated file (*.csv)" true
     ["쉼표 분리 된 파일 (*.csv)"];
   Message false [Loc None "+13"]
     "Exporting Failed" true
     ["내보내기 실패"];
   Message false [Loc None "+1"]
     "There was an error trying to save the address list to %1. Please try again." true
     ["주소 목록을 %1로 저장하려고 하는 중오류가 발생했습니다. 다시 시도하십시오."]].

Definition ko_AddressTableModel : list message :=
  [Message false [Loc (Some "../addresstablemodel.cpp") "+188"]
     "Label" true
     ["레이블"];
   Message false [Loc None "+0"]
     "Address" true
     ["주소"];
   Message false [Loc None "+36"]
     "(no label)" true
     ["(레이블 없음)"]].

Definition ko_AskPassphraseDialog_1 : list message :=
  [Message false [Loc (Some "../forms/askpassphrasedialog.ui") "+26"]
     "Passphrase Dialog" true
     ["암호 대화 상자"];
   Message false [Loc None "+30"]
     "Enter passphrase" true
     ["암호를 입력합니다."];
   Message false [Loc None "+14"]
     "New passphrase" true
     ["새 암호"];
   Message false [Loc None "+14"]
     "Repeat new passphrase" true
     ["새 암호 반복"];
   Message false [Loc None "+14"]
     "Show password" true
     ["암호 표시"];
   Message false [Loc None "+23"]
     "Unlock For Staking Only" true
     ["만 을 위한 잠금 해제"];
   Message false [Loc (Some "../askpassphrasedialog.cpp") "+48"]
     "Enter the new passphrase to the wallet.&lt;br/&gt;Please use a passphrase of &lt;b&gt;ten or more random characters&lt;/b&gt;, or &lt;b&gt;eight or more words&lt;/b&gt;." true
     ["지갑에 새 암호를 입력합니다.&lt;br&gt;10개 이상의 &lt;b&gt;임의 문자&lt;/b&gt;또는 8개 &lt;b&gt;이상의&lt;/b&gt;단어의 암호를 사용하십시오."];
   Message false [Loc None "+3"]
     "Encrypt wallet" true
     ["암호화 지갑"];
   Message false [Loc None "+3"; Loc None "+8"]
     "This operation needs your wallet passphrase to unlock the wallet." true
     ["이 작업은 지갑의 잠금을 해제하기 위해 지갑 암호가 필요합니다."];
   Message false [Loc None "-3"; Loc None "+9"]
     "Unlock wallet" true
     ["지갑 잠금 해제"];
   Message false [Loc None "+3"]
     "This operation needs your wallet passphrase to decrypt the wallet." true
     ["이 작업은 지갑의 암호를 해독하기 위해 지갑 암호가 필요합니다."];
   Message false [Loc None "+5"]
     "Decrypt wallet" true
     ["해독 지갑"];
   Message false [Loc None "+3"]
     "Change passphrase" true
     ["암호 변경"];
   Message false [Loc None "+1"]
     "Enter the old passphrase and new passphrase to the wallet." true
     ["지갑에 이전 암호와 새 암호를 입력합니다."];
   Message false [Loc None "+47"]
     "Confirm wallet encryption" true
     ["지갑 암호화 확인"];
   Message false [Loc None "+1"]
     "Warning: If you encrypt your wallet and lose your passphrase, you will &lt;b&gt;LOSE ALL OF YOUR BITCOIN CONFIDENTIAL&lt;/b&gt;!" true
     ["경고 : 당신이 당신의 지갑을 암호화하고 암호를 분실하는 경우, 당신은 &lt;b&gt;당신의 비트 코인 기밀을 모두&lt;/b&gt;잃게됩니다!"];
   Message false [Loc None "+0"]
     "Are you sure you wish to encrypt your wallet?" true
     ["지갑을 암호화하시겠습니까?"];
   Message false [Loc None "+9"; Loc None "+59"]
     "Wallet encrypted" true
     ["지갑 암호화"];
   Message false [Loc None "-57"]
     "%1 will close now to finish the encryption process. Remember that encrypting your wallet cannot fully protect your Bitcoin Confidential from being stolen by malware infecting your computer." true
     ["%1은 암호화 프로세스를 완료하기 위해 이제 닫힙니다. 지갑을 암호화하는 것은 컴퓨터를 감염시키는 악성 코드에 의해 도난당하지 않도록 비트코인 기밀을 완전히 보호할 수 없다는 것을 기억하십시오."];
   Message false [Loc None "+4"]
     "IMPORTANT: Any previous backups you have made of your wallet file should be replaced with the newly generated, encrypted wallet file. For security reasons, previous backups of the unencrypted wallet file will become useless as soon as you start using the new, encrypted wallet." true
     ["중요: 지갑 파일로 만든 이전 백업은 새로 생성된 암호화된 지갑 파일로 대체해야 합니다. 보안상의 이유로 암호화되지 않은 새 지갑을 사용하기 시작하면 암호화되지 않은 지갑 파일의 이전 백업은 쓸모없게 됩니다."];
   Message false [Loc None "+9"; Loc None "+7"; Loc None "+43"; Loc None "+6"]
     "Wallet encryption failed" true
     ["지갑 암호화 실패"];
   Message false [Loc None "-55"]
     "Wallet encryption failed due to an internal error. Your wallet was not encrypted." true
     ["내부 오류로 인해 지갑 암호화가 실패했습니다. 지갑이 암호화되지 않았습니다."];
   Message false [Loc None "+7"; Loc None "+49"]
     "The supplied passphrases do not match." true
     ["제공된 암호가 일치하지 않습니다."];
   Message false [Loc None "-37"]
     "Wallet unlock failed" true
     ["지갑 잠금 해제 실패"];
   Message false [Loc None "+1"; Loc None "+11"; Loc None "+19"]
     "The passphrase entered for the wallet decryption was incorrect." true
     ["지갑 암호 해독에 입력된 암호가 올바르지 않았습니다."];
   Message false [Loc None "-20"]
     "Wallet decryption failed" true
     ["지갑 암호 해독 실패"];
   Message false [Loc None "+14"]
     "Wallet passphrase was successfully changed." true
     ["지갑 암호가 성공적으로 변경되었습니다."]].

Definition ko_AskPassphraseDialog_2 : list message :=
  [Message false [Loc None "+48"; Loc None "+33"]
     "Warning: The Caps Lock key is on!" true
     ["경고: 캡 잠금 키가 켜지요!"]].

Definition ko_BanTableModel : list message :=
  [Message false [Loc (Some "../bantablemodel.cpp") "+88"]
     "IP/Netmask" true
     ["IP/넷마스크"];
   Message false [Loc None "+0"]
     "Banned Until" true
     ["금지 된 때까지"]].

Definition ko_BitcoinGUI_1 : list message :=
  [Message false [Loc (Some "../bitcoingui.cpp") "+94"]
     "Wallet" true
     ["지갑"];
   Message false [Loc None "+2"]
     "Node" true
     ["노드"];
   Message false [Loc None "+169"]
     "Overview" true
     ["개요"];
   Message false [Loc None "+1"]
     "Show general overview of wallet" true
     ["지갑의 일반적인 개요 보기"];
   Message false [Loc None "+7"]
     "Send" true
     ["보내기"];
   Message false [Loc None "+1"]
     "Send coins to a Bitcoin Confidential Spending address" true
     ["비트코인 기밀 지출 주소로 코인 보내기"];
   Message false [Loc None "+11"]
     "Receive" true
     ["받기"];
   Message false [Loc None "+1"]
     "Request payments (generates Spending address QR codes and bitcoinc: URIs)" true
     ["결제 요청(지출 주소 QR 코드 및 비트코인: URI 생성)"];
   Message false [Loc None "+11"]
     "Transactions" true
     ["트랜잭션을"];
   Message false [Loc None "+1"]
     "Browse transaction history" true
     ["트랜잭션 기록 찾아보기"];
   Message false [Loc None "+7"]
     "Staking" true
     ["감시"];
   Message false [Loc None "+1"]
     "Setup staking" true
     ["설정 하기"];
   Message false [Loc None "+25"]
     "E&amp;xit" true
     ["E&amp;amp;xit"];
   Message false [Loc None "+1"]
     "Quit application" true
     ["응용 프로그램 종료"];
   Message false [Loc None "+3"]
     "&amp;About %1" true
     ["%1에 대해"];
   Message false [Loc None "+1"]
     "Show information about %1" true
     ["%1에 대한 정보 표시"];
   Message false [Loc None "+3"]
     "About &amp;Qt" true
     ["&amp;amp; Qt에 관하여"];
   Message false [Loc None "+1"]
     "Show information about Qt" true
     ["Qt에 대한 정보 표시"];
   Message false [Loc None "+2"]
     "&amp;Options..." true
     ["&amp;amp; 옵션..."];
   Message false [Loc None "+1"]
     "Modify configuration options for %1" true
     ["%1에 대한 구성 옵션 수정"];
   Message false [Loc None "+3"]
     "&amp;Show / Hide" true
     ["&amp;amp; 쇼 / 숨기기"];
   Message false [Loc None "+1"]
     "Show or hide the main Window" true
     ["기본 창 표시 또는 숨기기"];
   Message false [Loc None "+2"]
     "&amp;Encrypt Wallet..." true
     ["&amp;amp; 지갑 암호화 ..."];
   Message false [Loc None "+1"]
     "Encrypt the private keys that belong to your wallet" true
     ["지갑에 속한 개인 키 암호화"];
   Message false [Loc None "+2"]
     "&amp;Backup Wallet..." true
     ["및 백업 지갑 ..."];
   Message false [Loc None "+1"]
     "Backup wallet to another location" true
     ["다른 위치로의 백업 지갑"];
   Message false [Loc None "+1"]
     "&amp;Change Passphrase..." true
     ["패스프레이즈 변경..."];
   Message false [Loc None "+1"]
     "Change the passphrase used for wallet encryption" true
     ["지갑 암호화에 사용되는 암호 변경"];
   Message false [Loc None "+1"]
     "Sign &amp;message..." true
     ["서명 및 메시지..."]].

Definition ko_BitcoinGUI_2 : list message :=
  [Message false [Loc None "+1"]
     "Sign messages with your Bitcoin Confidential addresses to prove you own them" true
     ["비트코인 기밀 주소로 메시지에 서명하여 귀하가 소유하고 있음을 증명합니다."];
   Message false [Loc None "+1"]
     "&amp;Verify message..." true
     ["및 메시지 확인..."];
   Message false [Loc None "+1"]
     "Verify messages to ensure they were signed with specified Bitcoin Confidential addresses" true
     ["지정된 비트코인 기밀 주소로 서명되었는지 확인하기 위해 메시지 확인"];
   Message false [Loc None "+2"]
     "&amp;Debug window" true
     ["&amp;amp; 디버그 창"];
   Message false [Loc None "+1"]
     "Open debugging and diagnostic console" true
     ["오픈 디버깅 및 진단 콘솔"];
   Message false [Loc None "+4"]
     "&amp;Sending addresses..." true
     ["및 주소 보내기..."];
   Message false [Loc None "+1"]
     "Show the list of used sending addresses and labels" true
     ["사용된 보내는 주소 및 레이블 목록 표시"];
   Message false [Loc None "+1"]
     "&amp;Receiving addresses..." true
     ["주소 수신 중..."];
   Message false [Loc None "+1"]
     "Show the list of used receiving addresses and labels" true
     ["사용된 수신 주소 및 레이블 목록 표시"];
   Message false [Loc None "+2"]
     "Open &amp;URI..." true
     ["열기 및 URI ..."];
   Message false [Loc None "+1"]
     "Open a bitcoinc: URI or payment request" true
     ["bitcoinc 열기: URI 또는 결제 요청"];
   Message false [Loc None "+2"]
     "&amp;Command-line options" true
     ["및 명령줄 옵션"];
   Message false [Loc None "+2"]
     "Show the %1 help message to get a list with possible Bitcoin Confidential command-line options" true
     ["가능한 비트 코인 기밀 명령줄 옵션 목록을 얻기 위해 %1 도움말 메시지를 표시"];
   Message false [Loc None "+2"]
     "&amp;HD Wallet..." true
     ["&amp;AMP; HD 지갑 ..."];
   Message false [Loc None "+45"]
     "&amp;File" true
     ["및 파일"];
   Message false [Loc None "+16"]
     "&amp;Settings" true
     ["및 설정"];
   Message false [Loc None "+9"]
     "&amp;Help" true
     ["&amp;amp; 도움말"];
   Message false [Loc None "+15"]
     "Tabs toolbar" true
     ["탭 도구 모음"];
   Message false [Loc None "+113"]
     "default wallet" true
     ["기본 지갑"];
   Message false [Loc None "+88"]
     "%1 client" true
     ["%1 클라이언트"];
   Message true [Loc None "+189"]
     "%n active connection(s) to Bitcoin Confidential network" false
     [(Txt [])];
   Message false [Loc None "+0"]
     "Click to disable network activity." true
     ["클릭하여 네트워크 활동을 비활성화합니다."];
   Message false [Loc None "+2"]
     "Network activity disabled." true
     ["네트워크 활동을 사용할 수 없습니다."];
   Message false [Loc None "+0"]
     "Click to enable network activity again." true
     ["네트워크 활동을 다시 활성화하려면 클릭합니다."];
   Message false [Loc None "+28"]
     "Syncing Headers (%1%)..." true
     ["헤더 동기화 (%1%)..."];
   Message false [Loc None "+26"]
     "Synchronizing with network..." true
     ["네트워크와 동기화..."];
   Message false [Loc None "+5"]
     "Indexing blocks on disk..." true
     ["디스크에서 블록 인덱싱..."];
   Message false [Loc None "+2"]
     "Processing blocks on disk..." true
     ["디스크에서 블록 처리..."];
   Message false [Loc None "+4"]
     "Reindexing blocks on disk..." true
     ["디스크에서 블록 재인덱싱..."];
   Message false [Loc None "+6"]
     "Connecting to peers..." true
     ["피어에 연결..."]].

Definition ko_BitcoinGUI_3 : list message :=
  [Message true [Loc None "+9"]
     "Processed %n block(s) of transaction history." false
     [(Txt [])];
   Message false [Loc None "+5"]
     "Up to date" true
     ["최신"];
   Message false [Loc None "+19"]
     "%1 behind" true
     ["%1 뒤에"];
   Message false [Loc None "+5"]
     "Catching up..." true
     ["잡고..."];
   Message false [Loc None "+19"]
     "Last received block was generated %1 ago." true
     ["마지막으로 받은 블록은 %1 전에 생성되었습니다."];
   Message false [Loc None "+2"]
     "Transactions after this will not yet be visible." true
     ["이 이후의 트랜잭션은 아직 표시되지 않습니다."];
   Message false [Loc None "+13"]
     "Bitcoin Confidential" true
     ["비트코인 기밀"];
   Message false [Loc None "+14"]
     "Error" true
     ["오류"];
   Message false [Loc None "+3"]
     "Warning" true
     ["경고"];
   Message false [Loc None "+3"]
     "Information" true
     ["정보"];
   Message false [Loc None "+116"]
     "Date: %1
" true
     ["날짜: %1"];
   Message false [Loc None "+1"]
     "Amount: %1
" true
     ["금액: %1"];
   Message false [Loc None "+2"]
     "Wallet: %1
" true
     ["지갑: %1"];
   Message false [Loc None "+2"]
     "Type: %1
" true
     ["유형: %1"];
   Message false [Loc None "+2"]
     "Label: %1
" true
     ["라벨: %1"];
   Message false [Loc None "+2"]
     "Address: %1
" true
     ["주소: %1"];
   Message false [Loc None "+1"]
     "Sent transaction" true
     ["전송된 트랜잭션"];
   Message false [Loc None "+0"]
     "Incoming transaction" true
     ["들어오는 트랜잭션"];
   Message false [Loc None "+52"]
     "HD key generation is &lt;b&gt;enabled&lt;/b&gt;" true
     ["HD 키 &lt;b&gt;생성이&lt;/b&gt; 활성화됩니다."];
   Message false [Loc None "+0"]
     "HD key generation is &lt;b&gt;disabled&lt;/b&gt;" true
     ["HD 키 &lt;b&gt;&lt;/b&gt; 생성이 비활성화됨"];
   Message false [Loc None "+13"]
     "Wallet is &lt;b&gt;not encrypted&lt;/b&gt;. Click the opened lock to encrypt it." true
     ["지갑은 &lt;b&gt;암호화되지&lt;/b&gt;않습니다. 열린 잠금을 클릭하여 암호화합니다."];
   Message false [Loc None "+8"]
     "Wallet is &lt;b&gt;encrypted&lt;/b&gt; and currently &lt;b&gt;unlocked&lt;/b&gt;" true
     ["지갑은 &lt;b&gt;&lt;/b&gt; 암호화되어 현재 &lt;b&gt;잠금 해제됩니다.&lt;/b&gt;"];
   Message false [Loc None "+8"]
     "Wallet is &lt;b&gt;encrypted&lt;/b&gt; and currently &lt;b&gt;unlocked&lt;/b&gt; for staking only" true
     ["지갑은 &lt;b&gt;&lt;/b&gt; 암호화되어 현재 잠금 &lt;b&gt;해제되어&lt;/b&gt; 있습니다."];
   Message false [Loc None "+8"]
     "Wallet is &lt;b&gt;encrypted&lt;/b&gt; and currently &lt;b&gt;locked&lt;/b&gt;" true
     ["지갑은 암호화되어 현재 &lt;b&gt;잠겨&lt;/b&gt; &lt;b&gt;있습니다.&lt;/b&gt;"];
   Message false [Loc None "+58"]
     "Proxy is &lt;b&gt;enabled&lt;/b&gt;: %1" true
     ["프록시가 &lt;b&gt;&lt;/b&gt;활성화되어 있습니다: %1"];
   Message false [Loc None "+28"]
     "Tor is &lt;b&gt;enabled&lt;/b&gt;" true
     ["토르가 &lt;b&gt;활성화되어&lt;/b&gt; 있습니다."];
   Message false [Loc None "+3"]
     "Tor is &lt;b&gt;enabled&lt;/b&gt;, but its not the only network used. Use only onlynet=onion." true
     ["Tor가 &lt;b&gt;&lt;/b&gt;활성화되어 있지만 사용되는 유일한 네트워크는 아닙니다. 만 net = 양파를 사용합니다."];
   Message false [Loc None "+3"]
     "Tor is &lt;b&gt;disabled&lt;/b&gt;. To enhance your privacy setup consider using tor by setting &lt;b&gt;onlynet=onion&lt;/b&gt; in your &lt;b&gt;bitcoinc.conf&lt;/b&gt;." true
     ["Tor를 &lt;b&gt;사용할 수&lt;/b&gt;없습니다. 개인 정보 설정을 향상하려면 &lt;b&gt;bitcoinc.conf에서&lt;/b&gt; &lt;b&gt;onlynet=onion을&lt;/b&gt; 설정하여 토르를 사용하는 것이 좋습니다."]].

Definition ko_BitcoinGUI_4 : list message :=
  [Message false [Loc (Some "../bitcoin.cpp") "+528"]
     "A fatal error occurred. Bitcoin Confidential can no longer continue safely and will quit." true
     ["치명적인 오류가 발생했습니다. 비트코인 기밀은 더 이상 안전하게 지속될 수 없으며 종료됩니다."]].

Definition ko_CoinControlDialog_1 : list message :=
  [Message false [Loc (Some "../forms/coincontroldialog.ui") "+14"]
     "Coin Selection" true
     ["동전 선택"];
   Message false [Loc None "+34"]
     "Quantity:" true
     ["수량:"];
   Message false [Loc None "+29"]
     "Bytes:" true
     ["바이트:"];
   Message false [Loc None "+45"]
     "Amount:" true
     ["금액:"];
   Message false [Loc None "+32"]
     "Dust:" true
     ["먼지:"];
   Message false [Loc None "+48"]
     "Fee:" true
     ["요금:"];
   Message false [Loc None "+45"]
     "After Fee:" true
     ["수수료 후:"];
   Message false [Loc None "+32"]
     "Change:" true
     ["변경:"];
   Message false [Loc None "+57"]
     "Standard" true
     ["표준"];
   Message false [Loc None "+5"]
     "Anon" true
     ["Anon"];
   Message false [Loc None "+14"]
     "Show all" true
     ["모두 표시"];
   Message false [Loc None "+13"]
     "(un)select all" true
     ["(un)모두 선택"];
   Message false [Loc None "+16"]
     "Tree mode" true
     ["트리 모드"];
   Message false [Loc None "+13"]
     "List mode" true
     ["목록 모드"];
   Message false [Loc None "+74"]
     "Amount" true
     ["금액"];
   Message false [Loc None "+8"]
     "Received with label" true
     ["레이블이 있는 수신"];
   Message false [Loc None "+5"]
     "Received with address" true
     ["주소로 수령"];
   Message false [Loc None "+5"]
     "Date" true
     ["날짜"];
   Message false [Loc None "+5"]
     "Confirmations" true
     ["확인"];
   Message false [Loc None "+3"]
     "Confirmed" true
     ["확인"];
   Message false [Loc (Some "../coincontroldialog.cpp") "+73"]
     "Copy address" true
     ["주소 복사"];
   Message false [Loc None "+1"]
     "Copy label" true
     ["복사 레이블"];
   Message false [Loc None "+1"; Loc None "+26"]
     "Copy amount" true
     ["복사 량"];
   Message false [Loc None "-25"]
     "Copy transaction ID" true
     ["트랜잭션 ID 복사"];
   Message false [Loc None "+1"]
     "Lock unspent" true
     ["사용 되지 않은 잠금"];
   Message false [Loc None "+1"]
     "Unlock unspent" true
     ["사용되지 않은 잠금 해제"];
   Message false [Loc None "+22"]
     "Copy quantity" true
     ["복사 수량"];
   Message false [Loc None "+2"]
     "Copy fee" true
     ["사본 요금"];
   Message false [Loc None "+1"]
     "Copy after fee" true
     ["수수료 후 복사"]].

Definition ko_CoinControlDialog_2 : list message :=
  [Message false [Loc None "+1"]
     "Copy bytes" true
     ["바이트 복사"];
   Message false [Loc None "+1"]
     "Copy dust" true
     ["먼지 복사"];
   Message false [Loc None "+1"]
     "Copy change" true
     ["복사 변경"];
   Message false [Loc None "+340"]
     "(%1 locked)" true
     ["(%1 잠김)"];
   Message false [Loc None "+161"]
     "yes" true
     ["예"];
   Message false [Loc None "+0"]
     "no" true
     ["아니요"];
   Message false [Loc None "+14"]
     "This label turns red if any recipient receives an amount smaller than the current dust threshold." true
     ["받는 사람이 현재 먼지 임계값보다 작은 양을 받으면 이 레이블이 빨간색으로 바뀝니다."];
   Message false [Loc None "+5"]
     "Can vary +/- %1 satoshi(s) per input." true
     ["입력당 +/- %1 사토시(s)가 다를 수 있습니다."];
   Message false [Loc None "+47"]
     "Hide immature" true
     ["미숙한 숨기기"];
   Message false [Loc None "+2"]
     "Hide locked" true
     ["잠긴 숨기기"];
   Message false [Loc None "+6"]
     "Show immature" true
     ["미숙한 표시"];
   Message false [Loc None "+2"]
     "Show locked" true
     ["잠긴 표시"];
   Message false [Loc None "+26"; Loc None "+66"; Loc None "+11"]
     "(no label)" true
     ["(레이블 없음)"];
   Message false [Loc None "-19"]
     "change from %1 (%2)" true
     ["%1에서 변경 (%2)"];
   Message false [Loc None "+1"; Loc None "+20"]
     "(change)" true
     ["(변경)"];
   Message false [Loc None "-17"]
     "spending from %1 (%2)" true
     ["%1에서 지출 (%2)"]].

Definition ko_EditAddressDialog : list message :=
  [Message false [Loc (Some "../forms/editaddressdialog.ui") "+14"]
     "Edit Address" true
     ["주소 편집"];
   Message false [Loc None "+11"]
     "&amp;Label" true
     ["레이블"];
   Message false [Loc None "+10"]
     "The label associated with this address list entry" true
     ["이 주소 목록 항목과 연결된 레이블"];
   Message false [Loc None "+7"]
     "&amp;Address" true
     ["및 주소"];
   Message false [Loc None "+10"]
     "The address associated with this address list entry. This can only be modified for sending addresses." true
     ["이 주소 목록 항목과 연결된 주소입니다. 주소 전송에 대해서만 수정할 수 있습니다."];
   Message false [Loc (Some "../editaddressdialog.cpp") "+29"]
     "New receiving address" true
     ["새 수신 주소"];
   Message false [Loc None "+5"]
     "New sending address" true
     ["새 전송 주소"];
   Message false [Loc None "+3"]
     "New Stake address" true
     ["새로운 스테이크 주소"];
   Message false [Loc None "+5"]
     "New ColdStake address" true
     ["새로운 콜드스테이크 주소"];
   Message false [Loc None "+5"]
     "Edit receiving address" true
     ["수신 주소 편집"];
   Message false [Loc None "+4"]
     "Edit sending address" true
     ["보내는 주소 편집"];
   Message false [Loc None "+87"]
     "The entered address &quot;%1&quot; is not a valid Bitcoin Confidential address." true
     ["입력한 주소 &quot;%1&quot;은 유효한 비트코인 기밀 주소가 아닙니다."];
   Message false [Loc None "+10"]
     "Could not unlock wallet." true
     ["지갑의 잠금을 해제 할 수 없습니다."];
   Message false [Loc None "+5"]
     "New key generation failed." true
     ["새 키 생성에 실패했습니다."];
   Message false [Loc None "+18"]
     "Address &quot;%1&quot; already exists as a receiving address with label &quot;%2&quot; and so cannot be added as a sending address." true
     ["주소 &quot;%1&quot;은 이미 &quot;%2&quot;라는 레이블이 있는 수신 주소로 존재하므로 송신 주소로 추가할 수 없습니다."];
   Message false [Loc None "+5"]
     "The entered address &quot;%1&quot; is already in the address book with label &quot;%2&quot;." true
     ["입력한 주소 &quot;%1&quot;은 이미 &quot;%2&quot;라는 레이블이 있는 주소록에 있습니다."]].

Definition ko_FreespaceChecker : list message :=
  [Message false [Loc (Some "../intro.cpp") "+78"]
     "A new data directory will be created." true
     ["새 데이터 디렉터리가 만들어집니다."];
   Message false [Loc None "+22"]
     "name" true
     ["이름"];
   Message false [Loc None "+2"]
     "Directory already exists. Add %1 if you intend to create a new directory here." true
     ["디렉터리가 이미 있습니다. 여기에서 새 디렉터리를 만들려는 경우 %1을 추가합니다."];
   Message false [Loc None "+3"]
     "Path already exists, and is not a directory." true
     ["경로가 이미 존재하며 디렉터리가 아닙니다."];
   Message false [Loc None "+7"]
     "Cannot create data directory here." true
     ["여기에서 데이터 디렉토리를 만들 수 없습니다."]].

Definition ko_HelpMessageDialog : list message :=
  [Message false [Loc (Some "../utilitydialog.cpp") "+41"]
     "version" true
     ["버전"];
   Message false [Loc None "+5"; Loc None "+2"]
     "(%1-bit)" true
     ["(%1비트)"];
   Message false [Loc None "+5"]
     "About %1" true
     ["%1에 대해"];
   Message false [Loc None "+19"]
     "Command-line options" true
     ["명령줄 옵션"]].

Definition ko_Intro : list message :=
  [Message false [Loc (Some "../forms/intro.ui") "+14"]
     "Welcome" true
     ["환영"];
   Message false [Loc None "+9"]
     "Welcome to %1." true
     ["%1에 오신 것을 환영합니다."];
   Message false [Loc None "+26"]
     "As this is the first time the program is launched, you can choose where %1 will store its data." true
     ["프로그램이 처음 시작되면 %1이 데이터를 저장할 위치를 선택할 수 있습니다."];
   Message false [Loc None "+17"]
     "Use the default data directory" true
     ["기본 데이터 디렉토리 사용"];
   Message false [Loc None "+7"]
     "Use a custom data directory:" true
     ["사용자 지정 데이터 디렉토리를 사용합니다."];
   Message false [Loc None "+140"]
     "When you click OK, %1 will begin to download and process the full %4 block chain (%2GB) starting with the earliest transactions in %3 when %4 initially launched." true
     ["확인을 클릭하면 %1이 처음 시작되면 %4가 처음 시작되면 %3의 초기 트랜잭션부터 전체 %4 블록 체인(%2GB)을 다운로드하고 처리하기 시작합니다."];
   Message false [Loc None "+10"]
     "This initial synchronisation is very demanding, and may expose hardware problems with your computer that had previously gone unnoticed. Each time you run %1, it will continue downloading where it left off." true
     ["이 초기 동기화는 매우 까다롭고 이전에 는 발견되지 않았던 컴퓨터에 하드웨어 문제가 발생할 수 있습니다. %1을 실행할 때마다 중단된 위치의 다운로드가 계속됩니다."];
   Message false [Loc None "+10"]
     "If you have chosen to limit block chain storage (pruning), the historical data must still be downloaded and processed, but will be deleted afterward to keep your disk usage low." true
     ["블록 체인 저장소 (가지 치기)를 제한하도록 선택한 경우 기록 데이터는 여전히 다운로드및 처리되어야하지만 디스크 사용량을 낮게 유지하기 위해 나중에 삭제됩니다."];
   Message false [Loc (Some "../intro.cpp") "+20"]
     "Bitcoin Confidential" true
     ["비트코인 기밀"];
   Message false [Loc None "+6"]
     "At least %1 GB of data will be stored in this directory, and it will grow over time." true
     ["이 디렉터리에는 최소 %1GB의 데이터가 저장되며 시간이 지남에 따라 증가합니다."];
   Message false [Loc None "+5"]
     "Approximately %1 GB of data will be stored in this directory." true
     ["약 %1 GB의 데이터가 이 디렉터리에 저장됩니다."];
   Message false [Loc None "+8"]
     "%1 will download and store a copy of the Bitcoin Confidential block chain." true
     ["%1은 비트코인 기밀 블록체인의 사본을 다운로드하여 저장합니다."];
   Message false [Loc None "+2"]
     "The wallet will also be stored in this directory." true
     ["지갑은 이 디렉토리에도 저장됩니다."];
   Message false [Loc None "+73"]
     "Error: Specified data directory &quot;%1&quot; cannot be created." true
     ["오류: 지정된 데이터 디렉토리 &quot;%1&quot;을 만들 수 없습니다."];
   Message false [Loc None "+27"]
     "Error" true
     ["오류"];
   Message true [Loc None "+9"]
     "%n GB of free space available" false
     [(Txt [])];
   Message true [Loc None "+3"]
     "(of %n GB needed)" false
     [(Txt [])]].

Definition ko_MnemonicDialog_1 : list message :=
  [Message false [Loc (Some "../forms/mnemonicdialog.ui") "+14"]
     "HD Wallet Setup" true
     ["HD 지갑 설정"];
   Message false [Loc None "+11"]
     "Generate a mnemonic" true
     ["암충 생성"];
   Message false [Loc None "+10"]
     "Create the wallet" true
     ["지갑 만들기"];
   Message false [Loc None "+22"]
     "Write down the Recovery Phrase/Mnemonic below or generate a new one with the desired settings by clicking &quot;NEW MNEMONIC&quot;. Store this phrase in a safe place. The clipboard will be cleared to ensure you have it recorded.  If you are recovering a backup, enter the Recovery Phrase/Mnemonic on the next screen.  Click the &quot;NEXT&quot; button to continue with the wallet creation." true
     ["아래의 복구 구문 /Mnemonic을 적어 두거나 &quot;NEW MNEMONIC&quot;을 클릭하여 원하는 설정으로 새 것을 생성하십시오. 이 문구를 안전한 장소에 보관하십시오. 클립보드가 기록되었는지 확인하기 위해 지워집니다.  백업을 복구하는 경우 다음 화면에서 복구 구/Mnemonic을 입력합니다.  &quot;NEXT&quot; 버튼을 클릭하여 지갑 생성을 계속합니다."];
   Message false [Loc None "+36"]
     "Bytes of Entropy " true
     ["엔트로피 바이트"];
   Message false [Loc None "+7"]
     "Language" true
     ["언어"];
   Message false [Loc None "+45"]
     "Entropy is an advanced feature. Your mnemonic may be insecure if this feature is used incorrectly." true
     ["엔트로피는 고급 기능입니다. 이 기능을 잘못 사용하면 니모닉이 안전하지 않을 수 있습니다."];
   Message false [Loc None "+22"]
     "Select your language" true
     ["언어 선택"];
   Message false [Loc None "+4"]
     "English" true
     ["영어"];
   Message false [Loc None "+5"]
     "French" true
     ["프랑스어"];
   Message false [Loc None "+5"]
     "Japanese" true
     ["일본어"];
   Message false [Loc None "+5"]
     "Spanish" true
     ["스페인어"];
   Message false [Loc None "+5"]
     "Chinese_s" true
     ["중국어_s"];
   Message false [Loc None "+5"]
     "Chinese_t" true
     ["중국어_t"];
   Message false [Loc None "+39"]
     "New mnemonic" true
     ["새로운 암모닉"];
   Message false [Loc None "+19"]
     "Next" true
     ["다음"];
   Message false [Loc None "+19"; Loc None "+198"]
     "Cancel" true
     ["취소"];
   Message false [Loc None "-148"]
     "Recovery Passphrase " true
     ["복구 암호"];
   Message false [Loc None "+7"]
     "Import Chain" true
     ["가져오기 체인"];
   Message false [Loc None "+13"]
     "Warning" true
     ["경고"];
   Message false [Loc None "+33"]
     "Enter a passphrase to protect your Recovery Phrase (optional)" true
     ["복구 구를 보호하기 위해 암호를 입력합니다(선택 사항)"];
   Message false [Loc None "+13"]
     "Only needed if you&apos;re importing " true
     ["가져오는 경우에만 필요합니다."];
   Message false [Loc None "+16"]
     "Please ensure you backup your Recovery Phrase and Passphrase - they are not recoverable!" true
     ["복구 문구와 암호를 백업하십시오 - 복구 할 수 없습니다!"];
   Message false [Loc None "+28"]
     "Back" true
     ["뒤로"];
   Message false [Loc None "+19"; Loc (Some "../mnemonicdialog.cpp") "+145"]
     "Import" true
     ["가져오기"];
   Message false [Loc (Some "../mnemonicdialog.cpp") "-102"]
     "Optionally enter a passphrase to protect the Recovery Phrase. (This is not a wallet password.)" true
     ["선택적으로 복구 구를 보호하기 위해 암호를 입력합니다. (이것은 지갑 암호가 아닙니다.)"];
   Message false [Loc None "+2"]
     "Enter the Recovery Phrase/Mnemonic." true
     ["회복 문구/니모닉을 입력합니다."];
   Message false [Loc None "+26"]
     "Create wallet" true
     ["지갑 만들기"];
   Message false [Loc None "+16"]
     "Generate a new Recovery Phrase/Mnemonic with the desired settings by clicking &quot;NEW MNEMONIC&quot;." true
     ["&quot;NEW MNEMONIC&quot;을 클릭하여 원하는 설정으로 새로운 복구 구/니모닉을 생성합니다."]].

Definition ko_MnemonicDialog_2 : list message :=
  [Message false [Loc None "+5"]
     "Import a mnemonic" true
     ["니모닉 가져오기"];
   Message false [Loc None "+28"]
     "Confirm wallet creation cancel" true
     ["지갑 생성 취소 확인"];
   Message false [Loc None "+1"]
     "Are you sure you want to cancel the wallet creation?" true
     ["지갑 생성을 취소하시겠습니까?"];
   Message false [Loc None "+0"]
     "This is only recommended for advanced users to import with custom settings in the debug console or with the RPC interface." true
     ["고급 사용자가 디버그 콘솔또는 RPC 인터페이스에서 사용자 지정 설정을 사용하여 가져오는 경우에만 권장됩니다."]].

Definition ko_ModalOverlay : list message :=
  [Message false [Loc (Some "../forms/modaloverlay.ui") "+14"]
     "Form" true
     ["양식"];
   Message false [Loc None "+122"]
     "Recent transactions may not yet be visible, and therefore your wallet&apos;s balance might be incorrect. This information will be correct once your wallet has finished synchronizing with the Bitcoin Confidential network, as detailed below." true
     ["최근 거래는 아직 표시되지 않을 수 있으므로 지갑 잔액이 올바르지 않을 수 있습니다. 이 정보는 지갑이 아래와 같이 Bitcoin 기밀 네트워크와 동기화를 완료하면 정확합니다."];
   Message false [Loc None "+19"]
     "Attempting to spend coins that are affected by not-yet-displayed transactions will not be accepted by the network." true
     ["아직 표시되지 않은 거래의 영향을 받는 코인을 사용하려고 시도하는 것은 네트워크에서 허용되지 않습니다."];
   Message false [Loc None "+63"]
     "Number of blocks left" true
     ["남은 블록 수"];
   Message false [Loc None "+7"; Loc None "+26"; Loc (Some "../modaloverlay.cpp") "+140"]
     "Unknown..." true
     ["알려지지 않은..."];
   Message false [Loc None "-13"]
     "Last block time" true
     ["마지막 블록 시간"];
   Message false [Loc None "+26"]
     "Progress" true
     ["진행률"];
   Message false [Loc None "+34"]
     "Progress increase per hour" true
     ["시간당 진행률 증가"];
   Message false [Loc None "+7"; Loc None "+20"]
     "calculating..." true
     ["계산..."];
   Message false [Loc None "-7"]
     "Estimated time left until synced" true
     ["동기화될 때까지 남은 예상 시간"];
   Message false [Loc None "+40"]
     "Hide" true
     ["숨기기"];
   Message false [Loc (Some "../modaloverlay.cpp") "-1"]
     "Unknown. Syncing Headers (%1)..." true
     ["알려지지 않은. 헤더 동기화 (%1)..."]].

Definition ko_OpenURIDialog : list message :=
  [Message false [Loc (Some "../forms/openuridialog.ui") "+14"]
     "Open URI" true
     ["열기 URI"];
   Message false [Loc None "+6"]
     "Open payment request from URI or file" true
     ["URI 또는 파일에서 결제 요청 열기"];
   Message false [Loc None "+9"]
     "URI:" true
     ["Uri:"];
   Message false [Loc None "+10"]
     "Select payment request file" true
     ["결제 요청 파일 선택"];
   Message false [Loc (Some "../openuridialog.cpp") "+45"]
     "Select payment request file to open" true
     ["열 결제 요청 파일 선택"]].

Definition ko_OptionsDialog_1 : list message :=
  [Message false [Loc (Some "../forms/optionsdialog.ui") "+14"]
     "Options" true
     ["옵션"];
   Message false [Loc None "+14"]
     "&amp;Main" true
     ["&amp;amp; 메인 (주)"];
   Message false [Loc None "+13"]
     "W&amp;allet" true
     ["W&amp;amp;알레"];
   Message false [Loc None "+13"]
     "&amp;Network" true
     ["네트워크"];
   Message false [Loc None "+13"]
     "&amp;Window" true
     ["및 창"];
   Message false [Loc None "+13"]
     "&amp;Display" true
     ["디스플레이 및 디스플레이"];
   Message false [Loc None "+22"]
     "Automatically start %1 after logging in to the system." true
     ["시스템에 로그인한 후 %1이 자동으로 시작됩니다."];
   Message false [Loc None "+3"]
     "&amp;Start %1 on system login" true
     ["시스템 로그인 시 %1 시작"];
   Message false [Loc None "+22"]
     "Disables some advanced features but all blocks will still be fully validated. Reverting this setting requires re-downloading the entire blockchain. Actual disk usage may be somewhat higher." true
     ["일부 고급 기능을 사용하지 않도록 설정하지만 모든 블록은 여전히 완전히 검증됩니다. 이 설정을 되돌리려면 전체 블록 체인을 다시 다운로드해야합니다. 실제 디스크 사용량은 다소 높을 수 있습니다."];
   Message false [Loc None "+3"]
     "Prune &amp;block storage to" true
     ["정리 및 블록 저장에"];
   Message false [Loc None "+17"]
     "GB" true
     ["Gb"];
   Message false [Loc None "+25"]
     "Reverting this setting requires re-downloading the entire blockchain." true
     ["이 설정을 되돌리려면 전체 블록 체인을 다시 다운로드해야합니다."];
   Message false [Loc None "+12"]
     "Size of &amp;database cache" true
     ["데이터베이스 캐시의 크기"];
   Message false [Loc None "+23"]
     "MB" true
     ["Mb"];
   Message false [Loc None "+27"]
     "Number of script &amp;verification threads" true
     ["스크립트 및 확인 스레드 수"];
   Message false [Loc None "+19"]
     "(0 = auto, &lt;0 = leave that many cores free)" true
     ["(0 = 자동,&lt;0 = leave that many cores free) ==&quot;&quot; leave=&quot;&quot; that=&quot;&quot; many=&quot;&quot; cores=&quot;&quot;&gt;&lt;/0 = leave that many cores free)&gt;"];
   Message false [Loc None "+39"]
     "Expert" true
     ["전문가"];
   Message false [Loc None "+6"]
     "Whether to show coin control features or not." true
     ["동전 제어 기능을 표시할지 여부."];
   Message false [Loc None "+3"]
     "Enable coin &amp;control features" true
     ["코인 및 제어 기능 활성화"];
   Message false [Loc None "+7"]
     "If you disable the spending of unconfirmed change, the change from a transaction cannot be used until that transaction has at least one confirmation. This also affects how your balance is computed." true
     ["확인되지 않은 변경의 지출을 사용하지 않도록 설정하면 해당 트랜잭션에 하나 이상의 확인이 있을 때까지 트랜잭션의 변경 을 사용할 수 없습니다. 이는 저울을 계산하는 방식에도 영향을 미칩니다."];
   Message false [Loc None "+3"]
     "&amp;Spend unconfirmed change" true
     ["확인되지 않은 변경 지출"];
   Message false [Loc None "+7"]
     "Display notification dialog for incoming stake transactions." true
     ["들어오는 스테이크 거래에 대한 알림 대화 상자를 표시합니다."];
   Message false [Loc None "+3"]
     "&amp;Show incoming stake notifications" true
     ["수신 스테이크 알림 표시"];
   Message false [Loc None "+27"]
     "Automatically open the Bitcoin Confidential client port on the router. This only works when your router supports UPnP and it is enabled." true
     ["라우터에서 비트코인 기밀 클라이언트 포트를 자동으로 엽니다. 이 방법은 라우터가 UPnP를 지원하고 활성화된 경우에만 작동합니다."];
   Message false [Loc None "+3"]
     "Map port using &amp;UPnP" true
     ["및 UPnP를 사용하는 맵 포트"];
   Message false [Loc None "+7"]
     "Accept connections from outside." true
     ["외부연결을 수락합니다."];
   Message false [Loc None "+3"]
     "Allow incomin&amp;g connections" true
     ["인코닌&amp;amp;g 연결 허용"];
   Message false [Loc None "+7"]
     "Connect to the Bitcoin Confidential network through a SOCKS5 proxy." true
     ["SOCKS5 프록시를 통해 비트코인 기밀 네트워크에 연결합니다."];
   Message false [Loc None "+3"]
     "&amp;Connect through SOCKS5 proxy (default proxy):" true
     ["SOCKS5 프록시 (기본 프록시)를 통해 연결 :"]].

Definition ko_OptionsDialog_2 : list message :=
  [Message false [Loc None "+9"; Loc None "+193"]
     "Proxy &amp;IP:" true
     ["프록시 및 IP:"];
   Message false [Loc None "-168"; Loc None "+193"]
     "IP address of the proxy (e.g. IPv4: 127.0.0.1 / IPv6: ::1)" true
     ["프록시의 IP 주소(예: IPv4: 127.0.0.1 / IPv6: ::1)"];
   Message false [Loc None "-183"; Loc None "+193"]
     "&amp;Port:" true
     ["포트:"];
   Message false [Loc None "-168"; Loc None "+193"]
     "Port of the proxy (e.g. 9050)" true
     ["프록시 포트(예: 9050)"];
   Message false [Loc None "-166"]
     "Used for reaching peers via:" true
     ["다음을 통해 동료에게 도달하는 데 사용됩니다."];
   Message false [Loc None "+13"; Loc None "+23"; Loc None "+23"]
     "Shows if the supplied default SOCKS5 proxy is used to reach peers via this network type." true
     ["제공된 기본 SOCKS5 프록시가 이 네트워크 유형을 통해 피어에 도달하는 데 사용되는지 표시합니다."];
   Message false [Loc None "-36"]
     "IPv4" true
     ["IPv4"];
   Message false [Loc None "+23"]
     "IPv6" true
     ["IPv6"];
   Message false [Loc None "+23"]
     "Tor" true
     ["토르"];
   Message false [Loc None "+25"]
     "Connect to the Bitcoin Confidential network through a separate SOCKS5 proxy for Tor hidden services." true
     ["토르 숨겨진 서비스에 대한 별도의 SOCKS5 프록시를 통해 비트 코인 기밀 네트워크에 연결합니다."];
   Message false [Loc None "+3"]
     "Use separate SOCKS&amp;5 proxy to reach peers via Tor hidden services:" true
     ["별도의 SOCKS&amp;amp;5 프록시를 사용하여 Tor 숨겨진 서비스를 통해 동료에게 도달하십시오."];
   Message false [Loc None "+111"]
     "Hide the icon from the system tray." true
     ["시스템 트레이에서 아이콘을 숨깁니다."];
   Message false [Loc None "+3"]
     "&amp;Hide tray icon" true
     ["트레이 숨기기 아이콘"];
   Message false [Loc None "+7"]
     "Show only a tray icon after minimizing the window." true
     ["창을 최소화한 후 트레이 아이콘만 표시합니다."];
   Message false [Loc None "+3"]
     "&amp;Minimize to the tray instead of the taskbar" true
     ["작업 표시줄 대신 트레이에 최소화"];
   Message false [Loc None "+7"]
     "Minimize instead of exit the application when the window is closed. When this option is enabled, the application will be closed only after selecting Exit in the menu." true
     ["창이 닫혀 있을 때 응용 프로그램을 종료하는 대신 최소화합니다. 이 옵션을 사용하도록 설정하면 메뉴에서 종료를 선택한 후에만 응용 프로그램이 닫힙니다."];
   Message false [Loc None "+3"]
     "M&amp;inimize on close" true
     ["가까운 에 M&amp;amp;iimize"];
   Message false [Loc None "+26"]
     "User Interface &amp;language:" true
     ["사용자 인터페이스 및 언어:"];
   Message false [Loc None "+22"]
     "The user interface language can be set here. This setting will take effect after restarting %1." true
     ["사용자 인터페이스 언어는 여기에서 설정할 수 있습니다. 이 설정은 %1을 다시 시작한 후에 적용됩니다."];
   Message false [Loc None "+11"]
     "&amp;Unit to show amounts in:" true
     ["금액을 표시하는 단위 :"];
   Message false [Loc None "+22"]
     "Choose the default subdivision unit to show in the interface and when sending coins." true
     ["인터페이스에 표시할 기본 세분화 단위를 선택하고 동전을 보낼 때 선택합니다."];
   Message false [Loc None "+11"; Loc None "+22"]
     "Third party URLs (e.g. a block explorer) that appear in the transactions tab as context menu items. %s in the URL is replaced by transaction hash. Multiple URLs are separated by vertical bar |." true
     ["트랜잭션 탭에 컨텍스트 메뉴 항목으로 표시되는 타사 URL(예: 블록 탐색기)입니다. URL의 %s는 트랜잭션 해시로 대체됩니다. 여러 URL은 세로 막대로 구분됩니다.|"];
   Message false [Loc None "-19"]
     "&amp;Third party transaction URLs" true
     ["및 타사 거래 URL"];
   Message false [Loc None "+50"]
     "Active command-line options that override above options:" true
     ["옵션 위에 재정의하는 활성 명령줄 옵션:"];
   Message false [Loc None "+45"]
     "Open the %1 configuration file from the working directory." true
     ["작업 디렉토리에서 %1 구성 파일을 엽니다."];
   Message false [Loc None "+3"]
     "Open Configuration File" true
     ["구성 파일 열기"];
   Message false [Loc None "+10"]
     "Reset all client options to default." true
     ["모든 클라이언트 옵션을 기본값으로 재설정합니다."];
   Message false [Loc None "+3"]
     "&amp;Reset Options" true
     ["옵션 재설정"]].

Definition ko_OptionsDialog_3 : list message :=
  [Message false [Loc None "+80"]
     "&amp;OK" true
     ["OK"];
   Message false [Loc None "+13"]
     "&amp;Cancel" true
     ["취소 및 취소"];
   Message false [Loc (Some "../optionsdialog.cpp") "+109"]
     "default" true
     ["기본"];
   Message false [Loc None "+56"]
     "none" true
     ["없음"];
   Message false [Loc None "+82"]
     "Confirm options reset" true
     ["옵션 재설정 확인"];
   Message false [Loc None "+1"; Loc None "+60"]
     "Client restart required to activate changes." true
     ["변경 내용을 활성화하려면 클라이언트를 다시 시작해야 합니다."];
   Message false [Loc None "-60"]
     "Client will be shut down. Do you want to proceed?" true
     ["클라이언트가 종료됩니다. 계속하시겠습니까?"];
   Message false [Loc None "+15"]
     "Configuration options" true
     ["구성 옵션"];
   Message false [Loc None "+1"]
     "The configuration file is used to specify advanced user options which override GUI settings. Additionally, any command-line options will override this configuration file." true
     ["구성 파일은 GUI 설정을 재정의하는 고급 사용자 옵션을 지정하는 데 사용됩니다. 또한 모든 명령줄 옵션은 이 구성 파일을 재정의합니다."];
   Message false [Loc None "+5"]
     "Error" true
     ["오류"];
   Message false [Loc None "+0"]
     "The configuration file could not be opened." true
     ["구성 파일을 열 수 없습니다."];
   Message false [Loc None "+43"]
     "This change would require a client restart." true
     ["이 변경은 클라이언트를 다시 시작해야 합니다."];
   Message false [Loc None "+28"]
     "The supplied proxy address is invalid." true
     ["제공된 프록시 주소가 잘못되었습니다."]].

Definition ko_OverviewPage : list message :=
  [Message false [Loc (Some "../forms/overviewpage.ui") "+14"]
     "Form" true
     ["양식"];
   Message false [Loc None "+43"]
     "Bitcoin Confidential Core" true
     ["비트 코인 기밀 코어"];
   Message false [Loc None "+38"; Loc None "+114"; Loc None "+210"]
     "Pending" true
     ["보류 중인"];
   Message false [Loc None "-308"]
     "Spending" true
     ["지출"];
   Message false [Loc None "+108"]
     "Watch-only" true
     ["시계 전용"];
   Message false [Loc None "+73"; Loc None "+191"]
     "Available" true
     ["사용 가능"];
   Message false [Loc None "-181"]
     "Spendable" true
     ["지출 가능"];
   Message false [Loc None "+41"]
     "Staking" true
     ["감시"];
   Message false [Loc None "+130"]
     "Immature" true
     ["미 숙"];
   Message false [Loc None "+86"]
     "Total" true
     ["총"];
   Message false [Loc None "+90"]
     "Recent transactions" true
     ["최근 거래"];
   Message false [Loc None "+19"]
     "The displayed information may be out of date. Your wallet automatically synchronizes with the Bitcoin Confidential network after a connection is established, but this process has not completed yet." true
     ["표시된 정보가 오래되었을 수 있습니다. 지갑은 연결이 설정된 후 자동으로 비트코인 기밀 네트워크와 동기화되지만 이 프로세스는 아직 완료되지 않았습니다."]].

Definition ko_PaymentServer : list message :=
  [Message false [Loc (Some "../paymentserver.cpp") "+317"; Loc None "+215"; Loc None "+42"; Loc None "+110"; Loc None "+14"; Loc None "+18"]
     "Payment request error" true
     ["결제 요청 오류"];
   Message false [Loc None "-398"]
     "Cannot start bitcoinc: click-to-pay handler" true
     ["bitcoinc를 시작할 수 없습니다: 클릭 대 지불 처리기"];
   Message false [Loc None "+82"; Loc None "+21"; Loc None "+13"; Loc None "+7"]
     "URI handling" true
     ["URI 처리"];
   Message false [Loc None "-41"]
     "&apos;bitcoin://&apos; is not a valid URI. Use &apos;bitcoin:&apos; instead." true
     ["&apos;bitcoin://&apos;는 유효한 URI가 아닙니다. 대신 &apos;비트코인:&apos;을 사용합니다."];
   Message false [Loc None "+22"]
     "Payment request fetch URL is invalid: %1" true
     ["결제 요청 가져오기 URL이 잘못되었습니다: %1"];
   Message false [Loc None "+12"]
     "Invalid payment address %1" true
     ["잘못된 지불 주소 %1"];
   Message false [Loc None "+8"]
     "URI cannot be parsed! This can be caused by an invalid Bitcoin Confidential address or malformed URI parameters." true
     ["URI는 구문 분석할 수 없습니다! 이는 잘못된 비트코인 기밀 주소 또는 잘못된 URI 매개 변수로 인해 발생할 수 있습니다."];
   Message false [Loc None "+13"]
     "Payment request file handling" true
     ["지불 요청 파일 처리"];
   Message false [Loc None "+1"]
     "Payment request file cannot be read! This can be caused by an invalid payment request file." true
     ["지불 요청 파일을 읽을 수 없습니다! 이 인해 잘못 된 지불 요청 파일로 인해 발생할 수 있습니다."];
   Message false [Loc None "+61"; Loc None "+9"; Loc None "+31"; Loc None "+10"; Loc None "+17"; Loc None "+85"]
     "Payment request rejected" true
     ["결제 요청이 거부됨"];
   Message false [Loc None "-152"]
     "Payment request network doesn&apos;t match client network." true
     ["결제 요청 네트워크가 클라이언트 네트워크와 일치하지 않습니다."];
   Message false [Loc None "+9"]
     "Payment request expired." true
     ["결제 요청이 만료되었습니다."];
   Message false [Loc None "+6"]
     "Payment request is not initialized." true
     ["결제 요청은 초기화되지 않습니다."];
   Message false [Loc None "+26"]
     "Unverified payment requests to custom payment scripts are unsupported." true
     ["사용자 지정 결제 스크립트에 대한 확인되지 않은 결제 요청은 지원되지 않습니다."];
   Message false [Loc None "+9"; Loc None "+17"]
     "Invalid payment request." true
     ["잘못된 결제 요청입니다."];
   Message false [Loc None "-10"]
     "Requested payment amount of %1 is too small (considered dust)." true
     ["요청된 지불 금액 %1이 너무 작습니다(먼지로 간주됨)."];
   Message false [Loc None "+65"]
     "Refund from %1" true
     ["%1에서 환불"];
   Message false [Loc None "+31"]
     "Payment request %1 is too large (%2 bytes, allowed %3 bytes)." true
     ["지불 요청 %1이 너무 큽니다(%2바이트, 허용 %3 바이트)."];
   Message false [Loc None "+9"]
     "Error communicating with %1: %2" true
     ["%1로 통신하는 오류: %2"];
   Message false [Loc None "+20"]
     "Payment request cannot be parsed!" true
     ["지불 요청은 구문 분석 할 수 없습니다!"];
   Message false [Loc None "+13"]
     "Bad response from server %1" true
     ["서버에서 잘못된 응답 %1"];
   Message false [Loc None "+22"]
     "Network request error" true
     ["네트워크 요청 오류"];
   Message false [Loc None "+11"]
     "Payment acknowledged" true
     ["결제 승인"]].

Definition ko_PeerTableModel : list message :=
  [Message false [Loc (Some "../peertablemodel.cpp") "+109"]
     "NodeId" true
     ["노드 ID"];
   Message false [Loc None "+0"]
     "Node/Service" true
     ["노드/서비스"];
   Message false [Loc None "+0"]
     "Ping" true
     ["Ping"];
   Message false [Loc None "+0"]
     "Sent" true
     ["전송"];
   Message false [Loc None "+0"]
     "Received" true
     ["받은"];
   Message false [Loc None "+0"]
     "User Agent" true
     ["사용자 에이전트"]].

Definition ko_QObject : list message :=
  [Message false [Loc (Some "../bitcoinunits.cpp") "+196"]
     "Amount" true
     ["금액"];
   Message false [Loc (Some "../guiutil.cpp") "+96"]
     "Enter Spending address" true
     ["지출 주소 입력"];
   Message false [Loc None "+12"]
     "Enter ColdStake address" true
     ["콜드스테이크 주소 입력"];
   Message false [Loc None "+2"]
     "Enter Stake address of remote node" true
     ["원격 노드의 스테이크 주소를 입력합니다."];
   Message false [Loc None "+2"]
     "Enter Stake address" true
     ["스테이크 주소 입력"];
   Message false [Loc None "+687"]
     "%1 d" true
     ["%1 d"];
   Message false [Loc None "+2"]
     "%1 h" true
     ["%1 시간"];
   Message false [Loc None "+2"]
     "%1 m" true
     ["%1 m"];
   Message false [Loc None "+2"; Loc None "+53"]
     "%1 s" true
     ["%1 s"];
   Message false [Loc None "-10"]
     "None" true
     ["없음"];
   Message false [Loc None "+5"]
     "N/A" true
     ["해당/A"];
   Message false [Loc None "+0"]
     "%1 ms" true
     ["%1 ms"];
   Message true [Loc None "+18"]
     "%n second(s)" false
     [(Txt [])];
   Message true [Loc None "+4"]
     "%n minute(s)" false
     [(Txt [])];
   Message true [Loc None "+4"]
     "%n hour(s)" false
     [(Txt [])];
   Message true [Loc None "+4"]
     "%n day(s)" false
     [(Txt [])];
   Message true [Loc None "+4"; Loc None "+6"]
     "%n week(s)" false
     [(Txt [])];
   Message false [Loc None "+0"]
     "%1 and %2" true
     ["%1 및 %2"];
   Message true [Loc None "+0"]
     "%n year(s)" false
     [(Txt [])];
   Message false [Loc None "+8"]
     "%1 B" true
     ["%1 B"];
   Message false [Loc None "+2"]
     "%1 KB" true
     ["%1 KB"];
   Message false [Loc None "+2"]
     "%1 MB" true
     ["%1 MB"];
   Message false [Loc None "+2"]
     "%1 GB" true
     ["%1 GB"];
   Message false [Loc None "+71"]
     "All spending funds are sent and received anonymously. Only the sender and receiver have details of their side of the transaction. Staking funds need to be converted to spending before sending out of wallet. Funds require %1 confirmations (%2 minutes) before sending." true
     ["모든 지출 자금은 익명으로 송금되고 수령됩니다. 보낸 사람 및 수신자만 트랜잭션의 측면에 대한 세부 정보를 가지고 있습니다. Staking 자금은 지갑을 보내기 전에 지출로 전환해야합니다. 자금은 보내기 전에 %1 확인 (%2 분)이 필요합니다."];
   Message false [Loc None "+15"]
     "Staking funds cannot be sent out of your wallet without converting to spending. After converting to spending, %1 confirmations (%2 minutes) are required before sending." true
     ["스토킹 자금은 지출로 전환하지 않고 지갑에서 보낼 수 없습니다. 지출로 전환한 후 보내기 전에 %1 확인(%2분)이 필요합니다."];
   Message false [Loc (Some "../modaloverlay.cpp") "-29"]
     "unknown" true
     ["알려지지 않은"];
   Message false [Loc (Some "../bitcoin.cpp") "+186"]
     "%1 didn&apos;t yet exit safely..." true
     ["%1은 아직 안전하게 빠져나가지 못했습니다..."]].

Definition ko_QObject__QObject : list message :=
  [Message false [Loc None "-117"]
     "Error parsing command line arguments: %1." true
     ["명령줄 인수를 구문 분석하는 오류: %1."];
   Message false [Loc None "+38"]
     "Error: Specified data directory &quot;%1&quot; does not exist." true
     ["오류: 지정된 데이터 디렉토리 &quot;%1&quot;이 없습니다."];
   Message false [Loc None "+5"]
     "Error: Cannot parse configuration file: %1." true
     ["오류: 구성 파일을 구문 분석할 수 없음: %1."];
   Message false [Loc None "+14"]
     "Error: %1" true
     ["오류: %1"]].

Definition ko_QRImageWidget : list message :=
  [Message false [Loc (Some "../receiverequestdialog.cpp") "+32"]
     "&amp;Save Image..." true
     ["및 이미지 저장 ..."];
   Message false [Loc None "+3"]
     "&amp;Copy Image" true
     ["이미지 복사"];
   Message false [Loc None "+32"]
     "Save QR Code" true
     ["QR 코드 저장"];
   Message false [Loc None "+0"]
     "PNG Image (*.png)" true
     ["PNG 이미지(*.png)"]].

Definition ko_RPCConsole_1 : list message :=
  [Message false [Loc (Some "../forms/debugwindow.ui") "+14"]
     "Debug window" true
     ["디버그 창"];
   Message false [Loc None "+11"]
     "Information" true
     ["정보"];
   Message false [Loc None "+13"]
     "Console" true
     ["콘솔"];
   Message false [Loc None "+10"]
     "Network Traffic" true
     ["네트워크 트래픽"];
   Message false [Loc None "+10"]
     "Peers" true
     ["동료"];
   Message false [Loc None "+21"; Loc None "+1004"]
     "User Agent" true
     ["사용자 에이전트"];
   Message false [Loc None "-988"]
     "Block chain" true
     ["블록체인"];
   Message false [Loc None "+7"]
     "Client version" true
     ["클라이언트 버전"];
   Message false [Loc None "+13"]
     "General" true
     ["일반"];
   Message false [Loc None "+13"]
     "Memory Pool" true
     ["메모리 풀"];
   Message false [Loc None "+7"]
     "Current number of blocks" true
     ["현재 블록 수"];
   Message false [Loc None "+13"]
     "Network" true
     ["네트워크"];
   Message false [Loc None "+7"]
     "Number of connections" true
     ["연결 수"];
   Message false [Loc None "+7"]
     "Startup time" true
     ["시작 시간"];
   Message false [Loc None "+7"]
     "Name" true
     ["이름"];
   Message false [Loc None "+7"]
     "Last block time" true
     ["마지막 블록 시간"];
   Message false [Loc None "+7"]
     "Using BerkeleyDB version" true
     ["버클리DB 버전 사용"];
   Message false [Loc None "+10"]
     "Datadir" true
     ["데이터 디르"];
   Message false [Loc None "+7"]
     "Memory usage" true
     ["메모리 사용량"];
   Message false [Loc None "+7"]
     "Current number of transactions" true
     ["현재 트랜잭션 수"];
   Message false [Loc None "+10"; Loc None "+16"; Loc None "+16"; Loc None "+16"; Loc None "+19"; Loc None "+16"; Loc None "+16"; Loc None "+16"; Loc None "+16"; Loc None "+16"; Loc None "+16"; Loc None "+644"; Loc None "+23"; Loc None "+23"; Loc None "+23"; Loc None "+23"; Loc None "+23"; Loc None "+23"; Loc None "+23"; Loc None "+23"; Loc None "+23"; Loc None "+23"; Loc None "+23"; Loc None "+23"; Loc None "+23"; Loc None "+23"; Loc None "+26"; Loc None "+23"; Loc None "+23"]
     "N/A" true
     ["해당/A"];
   Message false [Loc None "-988"]
     "Debug log file" true
     ["디버그 로그 파일"];
   Message false [Loc None "+7"]
     "Open the %1 debug log file from the current data directory. This can take a few seconds for large log files." true
     ["현재 데이터 디렉토리에서 %1 디버그 로그 파일을 엽니다. 큰 로그 파일의 경우 몇 초 정도 걸릴 수 있습니다."]].

Definition ko_RPCConsole_2 : list message :=
  [Message false [Loc None "+3"]
     "&amp;Open" true
     ["열기"];
   Message false [Loc None "+25"]
     "Wallet: " true
     ["지갑:"];
   Message false [Loc None "+8"]
     "(none)" true
     ["(없음)"];
   Message false [Loc None "+27"]
     "Decrease font size" true
     ["글꼴 크기 감소"];
   Message false [Loc None "+32"]
     "Increase font size" true
     ["글꼴 크기 늘리기"];
   Message false [Loc None "+32"]
     "Clear console" true
     ["콘솔 지우기"];
   Message false [Loc None "+111"]
     "&amp;Reset" true
     ["및 재설정"];
   Message false [Loc None "+16"]
     "Totals" true
     ["합계"];
   Message false [Loc None "+67"; Loc None "+555"]
     "Received" true
     ["받은"];
   Message false [Loc None "-475"; Loc None "+452"]
     "Sent" true
     ["전송"];
   Message false [Loc None "-361"]
     "Banned peers" true
     ["금지된 피어"];
   Message false [Loc None "+60"; Loc (Some "../rpcconsole.cpp") "+510"; Loc None "+760"]
     "Select a peer to view detailed information." true
     ["자세한 정보를 보려면 피어를 선택합니다."];
   Message false [Loc None "+25"]
     "Whitelisted" true
     ["화이트리스트"];
   Message false [Loc None "+23"]
     "Direction" true
     ["방향"];
   Message false [Loc None "+23"]
     "Version" true
     ["버전"];
   Message false [Loc None "+46"]
     "Services" true
     ["서비스"];
   Message false [Loc None "+23"]
     "Starting Block" true
     ["시작 블록"];
   Message false [Loc None "+23"]
     "Synced Headers" true
     ["동기화된 헤더"];
   Message false [Loc None "+23"]
     "Synced Blocks" true
     ["동기화된 블록"];
   Message false [Loc None "+23"]
     "Ban Score" true
     ["금지 점수"];
   Message false [Loc None "+23"]
     "Connection Time" true
     ["연결 시간"];
   Message false [Loc None "+23"]
     "Last Send" true
     ["마지막 보내기"];
   Message false [Loc None "+23"]
     "Last Receive" true
     ["마지막 수신"];
   Message false [Loc None "+69"]
     "Ping Time" true
     ["핑 시간"];
   Message false [Loc None "+23"]
     "The duration of a currently outstanding ping." true
     ["현재 미해결 ping의 기간입니다."];
   Message false [Loc None "+3"]
     "Ping Wait" true
     ["핑 대기"];
   Message false [Loc None "+23"]
     "Min Ping" true
     ["민핑"];
   Message false [Loc None "+23"]
     "Time Offset" true
     ["시간 오프셋"];
   Message false [Loc (Some "../rpcconsole.cpp") "-667"]
     "&amp;Disconnect" true
     ["및 연결 해제"]].

Definition ko_RPCConsole_3 : list message :=
  [Message false [Loc None "+1"; Loc None "+1"; Loc None "+1"; Loc None "+1"]
     "Ban for" true
     ["금지"];
   Message false [Loc None "-3"]
     "1 &amp;hour" true
     ["1시간"];
   Message false [Loc None "+1"]
     "1 &amp;day" true
     ["1일"];
   Message false [Loc None "+1"]
     "1 &amp;week" true
     ["1 주"];
   Message false [Loc None "+1"]
     "1 &amp;year" true
     ["1년"];
   Message false [Loc None "+48"]
     "&amp;Unban" true
     ["앤 언반 ()반 (것)이"];
   Message false [Loc None "+54"]
     "default wallet" true
     ["기본 지갑"];
   Message false [Loc None "+110"]
     "Welcome to the %1 RPC console." true
     ["%1 RPC 콘솔에 오신 것을 환영합니다."];
   Message false [Loc None "+1"]
     "Use up and down arrows to navigate history, and %1 to clear screen." true
     ["위쪽 및 아래쪽 화살표를 사용하여 기록을 탐색하고 %1을 사용하여 화면을 지웁습니다."];
   Message false [Loc None "+1"]
     "Type %1 for an overview of available commands." true
     ["사용 가능한 명령에 대한 개요를 보려면 %1을 입력합니다."];
   Message false [Loc None "+1"]
     "For more information on using this console type %1." true
     ["이 콘솔 유형 %1 사용에 대한 자세한 내용은 % 1입니다."];
   Message false [Loc None "+2"]
     "WARNING: Scammers have been active, telling users to type commands here, stealing their wallet contents. Do not use this console without fully understanding the ramifications of a command." true
     ["경고 : 사기꾼은 활성화되어 있으며 사용자에게 여기에 명령을 입력하라고 말하고 지갑 내용을 훔치고 있습니다. 명령의 파급 효과를 완전히 이해하지 않고 이 콘솔을 사용하지 마십시오."];
   Message false [Loc None "+32"]
     "In:" true
     ["에서:"];
   Message false [Loc None "+1"]
     "Out:" true
     ["아웃:"];
   Message false [Loc None "+3"]
     "Network activity disabled" true
     ["네트워크 활동 사용 안 함"];
   Message false [Loc None "+68"]
     "Executing command without any wallet" true
     ["지갑 없이 명령 실행"];
   Message false [Loc None "+2"]
     "Executing command using &quot;%1&quot; wallet" true
     ["&quot;%1&quot; 지갑을 사용하여 명령 실행"];
   Message false [Loc None "+190"]
     "(node id: %1)" true
     ["(노드 ID: %1)"];
   Message false [Loc None "+2"]
     "via %1" true
     ["%1을 통해"];
   Message false [Loc None "+3"; Loc None "+1"]
     "never" true
     ["결코"];
   Message false [Loc None "+10"]
     "Inbound" true
     ["인바운드"];
   Message false [Loc None "+0"]
     "Outbound" true
     ["아웃 바운드"];
   Message false [Loc None "+2"]
     "Yes" true
     ["예"];
   Message false [Loc None "+0"]
     "No" true
     ["아니요"];
   Message false [Loc None "+12"; Loc None "+6"]
     "Unknown" true
     ["알려지지 않은"]].

Definition ko_ReceiveCoinsDialog : list message :=
  [Message false [Loc (Some "../forms/receivecoinsdialog.ui") "+59"]
     "Stake" true
     ["지분"];
   Message false [Loc None "+5"]
     "ColdStake" true
     ["콜드스테이크"];
   Message false [Loc None "+14"]
     "&amp;Request payment" true
     ["&amp;amp; 요청 지불"];
   Message false [Loc None "+17"]
     "Clear all fields of the form." true
     ["양식의 모든 필드를 지웁히 합니다."];
   Message false [Loc None "+3"]
     "Clear" true
     ["명확한"];
   Message false [Loc None "+56"; Loc None "+79"]
     "An optional amount to request. Leave this empty or zero to not request a specific amount." true
     ["요청할 선택적 금액입니다. 특정 금액을 요청하지 않도록 비우거나 0으로 둡니다."];
   Message false [Loc None "-57"]
     "Use bech32 encoding." true
     ["bech32 인코딩을 사용합니다."];
   Message false [Loc None "+3"]
     "Generate native segwit (Bech32) address" true
     ["네이티브 segwit(Bech32) 주소 생성"];
   Message false [Loc None "+22"; Loc None "+55"]
     "An optional label to associate with the new receiving address." true
     ["새 수신 주소와 연결할 선택적 레이블입니다."];
   Message false [Loc None "-52"]
     "&amp;Label:" true
     ["라벨:"];
   Message false [Loc None "+13"; Loc None "+53"]
     "An optional message to attach to the payment request, which will be displayed when the request is opened. Note: The message will not be sent with the payment over the Bitcoin Confidential network." true
     ["요청이 열릴 때 표시되는 결제 요청에 첨부할 선택적 메시지입니다. 참고: 메시지는 비트코인 기밀 네트워크를 통해 결제와 함께 전송되지 않습니다."];
   Message false [Loc None "-50"]
     "&amp;Message:" true
     ["및 메시지:"];
   Message false [Loc None "+16"]
     "&amp;Amount:" true
     ["금액:"];
   Message false [Loc None "+13"]
     "Use this form to request payments. All fields are &lt;b&gt;optional&lt;/b&gt;." true
     ["이 양식을 사용하여 결제를 요청합니다. 모든 필드는 &lt;b&gt;선택&lt;/b&gt;사항입니다."];
   Message false [Loc None "+63"]
     "Requested payments history" true
     ["요청된 결제 내역"];
   Message false [Loc None "+31"]
     "Show the selected request (does the same as double clicking an entry)" true
     ["선택한 요청 표시(항목을 두 번 클릭하는 것과 동일)"];
   Message false [Loc None "+3"]
     "Show" true
     ["표시"];
   Message false [Loc None "+17"]
     "Remove the selected entries from the list" true
     ["목록에서 선택한 항목을 제거합니다."];
   Message false [Loc None "+3"]
     "Remove" true
     ["제거"];
   Message false [Loc (Some "../receivecoinsdialog.cpp") "+40"]
     "Copy URI" true
     ["URI 복사"];
   Message false [Loc None "+1"]
     "Copy label" true
     ["복사 레이블"];
   Message false [Loc None "+1"]
     "Copy message" true
     ["메시지 복사"];
   Message false [Loc None "+1"]
     "Copy amount" true
     ["복사 량"]].

Definition ko_ReceiveRequestDialog : list message :=
  [Message false [Loc (Some "../forms/receiverequestdialog.ui") "+29"]
     "QR Code" true
     ["QR 코드"];
   Message false [Loc None "+46"]
     "Copy &amp;URI" true
     ["복사 및 URI"];
   Message false [Loc None "+10"]
     "Copy &amp;Address" true
     ["복사 및 주소"];
   Message false [Loc None "+10"]
     "&amp;Save Image..." true
     ["및 이미지 저장 ..."];
   Message false [Loc (Some "../receiverequestdialog.cpp") "+65"]
     "Request payment to %1" true
     ["%1로 지불 요청"];
   Message false [Loc None "+6"]
     "Payment information" true
     ["결제 정보"];
   Message false [Loc None "+1"]
     "URI" true
     ["Uri"];
   Message false [Loc None "+2"]
     "Address" true
     ["주소"];
   Message false [Loc None "+2"]
     "Amount" true
     ["금액"];
   Message false [Loc None "+2"]
     "Label" true
     ["레이블"];
   Message false [Loc None "+2"]
     "Message" true
     ["메시지"];
   Message false [Loc None "+2"]
     "Wallet" true
     ["지갑"];
   Message false [Loc None "+11"]
     "Resulting URI too long, try to reduce the text for label / message." true
     ["URI가 너무 길어도 레이블/메시지에 대한 텍스트를 줄이십시오."];
   Message false [Loc None "+5"]
     "Error encoding URI into QR Code." true
     ["QR 코드에 URI를 인코딩하는 오류입니다."]].

Definition ko_RecentRequestsTableModel : list message :=
  [Message false [Loc (Some "../recentrequeststablemodel.cpp") "+25"; Loc None "+4"]
     "Date" true
     ["날짜"];
   Message false [Loc None "-4"; Loc None "+4"]
     "Label" true
     ["레이블"];
   Message false [Loc None "+0"]
     "Message" true
     ["메시지"];
   Message false [Loc None "+42"]
     "(no label)" true
     ["(레이블 없음)"];
   Message false [Loc None "+9"]
     "(no message)" true
     ["(메시지 없음)"];
   Message false [Loc None "+8"]
     "(no amount requested)" true
     ["(금액 이 없음)"];
   Message false [Loc None "+45"]
     "Requested" true
     ["요청"]].

Definition ko_SendCoinsDialog_1 : list message :=
  [Message false [Loc (Some "../forms/sendcoinsdialog.ui") "+14"; Loc (Some "../sendcoinsdialog.cpp") "+806"]
     "Send Coins" true
     ["코인 보내기"];
   Message false [Loc None "+105"]
     "Inputs..." true
     ["입력..."];
   Message false [Loc None "+10"]
     "automatically selected" true
     ["자동으로 선택됨"];
   Message false [Loc None "+19"]
     "Insufficient funds!" true
     ["부족한 자금!"];
   Message false [Loc None "+89"]
     "Quantity:" true
     ["수량:"];
   Message false [Loc None "+35"]
     "Bytes:" true
     ["바이트:"];
   Message false [Loc None "+48"]
     "Amount:" true
     ["금액:"];
   Message false [Loc None "+32"]
     "Dust:" true
     ["먼지:"];
   Message false [Loc None "+48"]
     "Fee:" true
     ["요금:"];
   Message false [Loc None "+51"]
     "After Fee:" true
     ["수수료 후:"];
   Message false [Loc None "+32"]
     "Change:" true
     ["변경:"];
   Message false [Loc None "+44"]
     "If this is activated, but the change address is empty or invalid, change will be sent to a newly generated address." true
     ["이 활성이 활성화되었지만 변경 주소가 비어 있거나 유효하지 않은 경우 새로 생성된 주소로 변경이 전송됩니다."];
   Message false [Loc None "+3"]
     "Custom change address" true
     ["사용자 지정 변경 주소"];
   Message false [Loc None "+256"]
     "Transaction Fee:" true
     ["거래 수수료:"];
   Message false [Loc None "+14"]
     "Choose..." true
     ["선택..."];
   Message false [Loc None "+30"]
     "Using the fallbackfee can result in sending a transaction that will take several hours or days (or never) to confirm. Consider choosing your fee manually or wait until you have validated the complete chain." true
     ["대체 요금을 사용하면 확인하는 데 몇 시간 또는 며칠(또는 전혀 걸리지 않는) 트랜잭션이 전송될 수 있습니다. 수수료를 수동으로 선택하거나 전체 체인의 유효성을 검사할 때까지 기다립니다."];
   Message false [Loc None "+3"]
     "Warning: Fee estimation is currently not possible." true
     ["경고: 현재 요금 추정이 불가능합니다."];
   Message false [Loc None "+26"]
     "collapse fee-settings" true
     ["수수료 설정 축소"];
   Message false [Loc None "+3"]
     "Hide" true
     ["숨기기"];
   Message false [Loc None "+48"]
     "Specify a custom fee per kB (1,000 bytes) of the transaction's virtual size.

Note:  Since the fee is calculated on a per-byte basis, a fee of &quot;100 satoshis per kB&quot; for a transaction size of 500 bytes (half of 1 kB) would ultimately yield a fee of only 50 satoshis." true
     ["트랜잭션의 가상 크기의 kB(1,000바이트당 사용자 지정 요금)를 지정합니다.

참고: 수수료는 바이트 단위로 계산되므로 500바이트(1kB의 절반)의 거래 크기에 대해 &quot;kB당 100사토시스&quot;의 수수료는 궁극적으로 50사토시스의 수수료만 을 산출합니다."];
   Message false [Loc None "+5"]
     "per kilobyte" true
     ["킬로바이트당"];
   Message false [Loc None "+27"; Loc None "+13"]
     "Paying only the minimum fee is just fine as long as there is less transaction volume than space in the blocks. But be aware that this can end up in a never confirming transaction once there is more demand for Bitcoin Confidential transactions than the network can process." true
     ["블록의 공간보다 거래량이 적기 때문에 최소 수수료만 지불하는 것은 괜찮습니다. 그러나 네트워크가 처리할 수 있는 것보다 비트코인 기밀 거래에 대한 수요가 증가하면 거래가 확인되지 않을 수 있습니다."];
   Message false [Loc None "+3"]
     "(read the tooltip)" true
     ["(도구 설명 읽기)"];
   Message false [Loc None "+29"]
     "Recommended:" true
     ["권장:"];
   Message false [Loc None "+30"]
     "Custom:" true
     ["주문:"];
   Message false [Loc None "+52"]
     "(Smart fee not initialized yet. This usually takes a few blocks...)" true
     ["(스마트 요금은 아직 초기화되지 않았습니다. 이것은 일반적으로 몇 블록을 걸립니다 ...)"];
   Message false [Loc None "+29"]
     "Confirmation time target:" true
     ["확인 시간 대상:"];
   Message false [Loc None "+74"]
     "With Replace-By-Fee (BIP-125) you can increase a transaction&apos;s fee after it is sent. Without this, a higher fee may be recommended to compensate for increased transaction delay risk." true
     ["교체 수수료(BIP-125)를 사용하면 거래 수수료를 보낸 후 증가할 수 있습니다. 이렇게 하지 않으면 증가된 거래 지연 위험을 보상하기 위해 더 높은 수수료를 권장할 수 있습니다."]].

Definition ko_SendCoinsDialog_2 : list message :=
  [Message false [Loc None "+3"]
     "Enable Replace-By-Fee" true
     ["요금으로 교체 사용"];
   Message false [Loc None "+37"]
     "Confirm the send action" true
     ["보내기 작업 확인"];
   Message false [Loc None "+3"]
     "S&amp;end" true
     ["S&amp;amp;end"];
   Message false [Loc None "+23"]
     "Clear all fields of the form." true
     ["양식의 모든 필드를 지웁히 합니다."];
   Message false [Loc None "+3"]
     "Clear &amp;All" true
     ["클리어 및 모두"];
   Message false [Loc None "+14"]
     "Send to multiple recipients at once" true
     ["한 번에 여러 받는 사람에게 보내기"];
   Message false [Loc None "+3"]
     "Add &amp;Recipient" true
     ["추가 및 수신자"];
   Message false [Loc None "+38"]
     "Balance:" true
     ["균형:"];
   Message false [Loc (Some "../sendcoinsdialog.cpp") "-730"]
     "Add Output" true
     ["출력 추가"];
   Message false [Loc None "+3"]
     "Add Recipient" true
     ["받는 사람 추가"];
   Message false [Loc None "+14"]
     "Copy quantity" true
     ["복사 수량"];
   Message false [Loc None "+1"]
     "Copy amount" true
     ["복사 량"];
   Message false [Loc None "+1"]
     "Copy fee" true
     ["사본 요금"];
   Message false [Loc None "+1"]
     "Copy after fee" true
     ["수수료 후 복사"];
   Message false [Loc None "+1"]
     "Copy bytes" true
     ["바이트 복사"];
   Message false [Loc None "+1"]
     "Copy dust" true
     ["먼지 복사"];
   Message false [Loc None "+1"]
     "Copy change" true
     ["복사 변경"];
   Message false [Loc None "+88"]
     "%1 (%2 blocks)" true
     ["%1 (%2 블록)"];
   Message false [Loc None "+39"]
     "This tab allows manually activating Staking funds for ColdStaking. This will take longer than the &quot;Automated ColdStaking activation&quot; to start staking but wallet does not need to be online for the activation." true
     ["이 탭을 사용하면 콜드스테이킹을 위한 스태킹 자금을 수동으로 활성화할 수 있습니다. 이 경우 &quot;자동 콜드세이크 활성화&quot;보다 더 오래 걸리지만 정품 인증을 위해 지갑이 온라인 상태가 될 필요는 없습니다."];
   Message false [Loc None "+103"]
     "Error Remote Staking Address" true
     ["오류 원격 촬영 주소"];
   Message false [Loc None "+0"]
     "The remote stake address can&apos;t be part of this wallet." true
     ["원격 스테이크 주소는 이 지갑의 일부가 될 수 없습니다."];
   Message false [Loc None "+96"]
     "from wallet %1" true
     ["지갑 %1에서"];
   Message false [Loc None "+21"; Loc None "+5"; Loc None "+5"; Loc None "+4"]
     "%1 to %2" true
     ["%1 ~ %2"];
   Message false [Loc None "+6"]
     "Are you sure you want to send?" true
     ["보내고 싶으신가요?"];
   Message false [Loc None "+2"]
     "Please, review your transaction." true
     ["제발, 당신의 거래를 검토."];
   Message false [Loc None "+11"]
     "Estimated Transaction fee" true
     ["예상 거래 수수료"];
   Message false [Loc None "+13"]
     "removed for transaction fee" true
     ["거래 수수료로 제거됨"];
   Message false [Loc None "+2"]
     "added as transaction fee" true
     ["거래 수수료로 추가"];
   Message false [Loc None "+5"]
     "You can increase the fee later (signals Replace-By-Fee, BIP-125)." true
     ["나중에 수수료를 늘릴 수 있습니다(비약적인 교체, BIP-125 신호)."]].

Definition ko_SendCoinsDialog_3 : list message :=
  [Message false [Loc None "+2"]
     "Not signalling Replace-By-Fee, BIP-125." true
     ["비시 교체 수수료, BIP-125를 시그널링하지 않습니다."];
   Message false [Loc None "+12"]
     "Total Amount" true
     ["총 금액"];
   Message false [Loc None "+6"]
     "Your hardware device must be connected to sign this txn." true
     ["이 txn에 서명하려면 하드웨어 장치를 연결해야 합니다."];
   Message false [Loc None "+4"]
     "Confirm send coins" true
     ["동전 보내기 확인"];
   Message false [Loc None "+248"]
     "The recipient address is not valid. Please recheck." true
     ["받는 사람 주소가 잘못되었습니다. 다시 확인하시기 바랍니다."];
   Message false [Loc None "+3"]
     "The amount to pay must be larger than 0." true
     ["지불할 금액은 0보다 커야 합니다."];
   Message false [Loc None "+3"]
     "The amount exceeds your balance." true
     ["금액이 잔액을 초과합니다."];
   Message false [Loc None "+3"]
     "The total exceeds your balance when the %1 transaction fee is included." true
     ["%1 거래 수수료가 포함될 때 잔액을 초과합니다."];
   Message false [Loc None "+3"]
     "Duplicate address found: addresses should only be used once each." true
     ["중복 주소 발견: 주소는 각각 한 번만 사용해야 합니다."];
   Message false [Loc None "+3"]
     "Transaction creation failed!" true
     ["트랜잭션 생성에 실패했습니다!"];
   Message false [Loc None "+4"]
     "The transaction was rejected with the following reason: %1" true
     ["거래는 다음과 같은 이유로 거부되었습니다: %1"];
   Message false [Loc None "+4"]
     "A fee higher than %1 is considered an absurdly high fee." true
     ["%1보다 높은 수수료는 터무니없이 높은 수수료로 간주됩니다."];
   Message false [Loc None "+3"]
     "Payment request expired." true
     ["결제 요청이 만료되었습니다."];
   Message false [Loc None "+96"]
     "Pay only the required fee of %1" true
     ["필요한 수수료만 %1지불"];
   Message true [Loc None "+76"]
     "Estimated to begin confirmation within %n block(s)." false
     [(Txt [])];
   Message false [Loc None "+130"]
     "Warning: Invalid Bitcoin Confidential address" true
     ["경고: 유효하지 않은 비트코인 기밀 주소"];
   Message false [Loc None "+8"]
     "Error custom change address" true
     ["오류 사용자 지정 변경 주소"];
   Message false [Loc None "+0"]
     "The address you selected for change is not part of this wallet." true
     ["변경을 위해 선택한 주소는 이 지갑의 일부가 아닙니다."];
   Message false [Loc None "+15"]
     "(no label)" true
     ["(레이블 없음)"]].

Definition ko_SendCoinsEntry_1 : list message :=
  [Message false [Loc (Some "../forms/sendcoinsentry.ui") "+30"]
     "This is a normal payment." true
     ["이것은 정상적인 지불입니다."];
   Message false [Loc None "+71"; Loc None "+463"; Loc None "+130"]
     "Subtract fee from amount" true
     ["금액에서 수수료를 뺍니다."];
   Message false [Loc None "-580"; Loc None "+463"; Loc None "+130"]
     "Use available balance" true
     ["사용 가능한 잔액 사용"];
   Message false [Loc None "-562"]
     "Message" true
     ["메시지"];
   Message false [Loc None "+24"; Loc None "+261"]
     "The Bitcoin Confidential address to send the payment to" true
     ["비트코인 기밀 주소는"];
   Message false [Loc None "-254"; Loc None "+261"; Loc None "+297"; Loc None "+104"]
     "Choose previously used address" true
     ["이전에 사용한 주소 선택"];
   Message false [Loc None "-646"; Loc None "+261"; Loc None "+297"; Loc None "+104"]
     "Alt+A" true
     ["Alt+A"];
   Message false [Loc None "-655"; Loc None "+261"; Loc None "+297"; Loc None "+104"]
     "Paste address from clipboard" true
     ["클립보드에서 주소 붙여넣기"];
   Message false [Loc None "-646"; Loc None "+261"; Loc None "+297"; Loc None "+104"]
     "Alt+P" true
     ["대체+P"];
   Message false [Loc None "-655"; Loc None "+261"; Loc None "+401"; Loc None "+520"; Loc None "+564"]
     "Remove this entry" true
     ["이 항목 제거"];
   Message false [Loc None "-1718"; Loc None "+277"]
     "Pay To" true
     ["지불하려면"];
   Message false [Loc None "-258"; Loc None "+242"; Loc None "+277"]
     "Amount" true
     ["금액"];
   Message false [Loc None "-495"]
     "Enter a label for this address to add it to the list of used addresses" true
     ["이 주소의 레이블을 입력하여 사용된 주소 목록에 추가합니다."];
   Message false [Loc None "+15"]
     "Label" true
     ["레이블"];
   Message false [Loc None "+33"]
     "A short message sent over the Bitcoin Confidential network." true
     ["비트코인 기밀 네트워크를 통해 전송된 짧은 메시지입니다."];
   Message false [Loc None "+6"]
     "Encrypted message sent with the transaction (optional, max. 24 characters)." true
     ["트랜잭션과 함께 전송된 암호화된 메시지(선택 사항, 최대 24자)."];
   Message false [Loc None "+261"]
     "This is a payment to a coldstake script." true
     ["이것은 콜드 스테이크 스크립트에 대한 지불입니다."];
   Message false [Loc None "+83"]
     "The fee will be deducted from the amount being sent. The recipient will receive less Bitcoin Confidential than you enter in the amount field. If multiple recipients are selected, the fee is split equally." true
     ["수수료는 송금 금액에서 차감됩니다. 받는 사람은 금액 필드에 입력하는 것보다 더 적은 비트 코인 기밀을 받게됩니다. 여러 수신자를 선택하면 수수료가 균등하게 분할됩니다."];
   Message false [Loc None "+36"]
     "ColdStake address used by your remote staking node to stake your funds." true
     ["당신의 자금을 지분 원격 스테이크 노드에 의해 사용되는 ColdStake 주소."];
   Message false [Loc None "+80"]
     "ColdStake " true
     ["콜드스테이크"];
   Message false [Loc None "+24"]
     "The stake address on the remote node (cannot be in this wallet)" true
     ["원격 노드의 스테이크 주소(이 지갑에 있을 수 없음)"];
   Message false [Loc None "+81"]
     " Stake " true
     ["지분"];
   Message false [Loc None "+434"]
     "This is an unauthenticated payment request." true
     ["인증되지 않은 결제 요청입니다."];
   Message false [Loc None "+40"; Loc None "+560"]
     "Pay To:" true
     ["지불:"]].

Definition ko_SendCoinsEntry_2 : list message :=
  [Message false [Loc None "-526"; Loc None "+577"]
     "Memo:" true
     ["메모:"];
   Message false [Loc None "-560"; Loc None "+547"]
     "A&amp;mount:" true
     ["A&amp;amp;마운트:"];
   Message false [Loc None "-78"]
     "This is an authenticated payment request." true
     ["인증된 결제 요청입니다."];
   Message false [Loc (Some "../sendcoinsentry.cpp") "+89"]
     "Enter a label for this address to add it to your address book" true
     ["이 주소의 레이블을 입력하여 주소록에 추가합니다."]].

Definition ko_SendConfirmationDialog : list message :=
  [Message false [Loc (Some "../sendcoinsdialog.cpp") "+85"; Loc None "+5"]
     "Yes" true
     ["예"]].

Definition ko_ShutdownWindow : list message :=
  [Message false [Loc (Some "../utilitydialog.cpp") "+83"]
     "%1 is shutting down..." true
     ["%1이 종료됩니다..."];
   Message false [Loc None "+1"]
     "Do not shut down the computer until this window disappears." true
     ["이 창이 사라질 때까지 컴퓨터를 종료하지 마십시오."]].

Definition ko_SignVerifyMessageDialog_1 : list message :=
  [Message false [Loc (Some "../forms/signverifymessagedialog.ui") "+14"]
     "Signatures - Sign / Verify a Message" true
     ["서명 - 메시지 서명/확인"];
   Message false [Loc None "+14"]
     "&amp;Sign Message" true
     ["메시지 서명"];
   Message false [Loc None "+10"]
     "&amp;Verify Message" true
     ["메시지 확인"];
   Message false [Loc None "+31"]
     "You can sign messages/agreements with your addresses to prove you can receive Bitcoin Confidential sent to them. Be careful not to sign anything vague or random, as phishing attacks may try to trick you into signing your identity over to them. Only sign fully-detailed statements you agree to." true
     ["주소로 메시지/계약에 서명하여 비트코인 기밀을 받을 수 있음을 증명할 수 있습니다. 피싱 공격이 신원을 서명하도록 속이려고 할 수 있으므로 모호하거나 임의적인 것에 서명하지 않도록 주의하십시오. 동의하는 완전한 세부 진술서에만 서명하십시오."];
   Message false [Loc None "+18"]
     "The Bitcoin Confidential address to sign the message with" true
     ["메시지에 서명할 비트코인 기밀 주소"];
   Message false [Loc None "+7"; Loc None "+213"]
     "Choose previously used address" true
     ["이전에 사용한 주소 선택"];
   Message false [Loc None "-203"; Loc None "+213"]
     "Alt+A" true
     ["Alt+A"];
   Message false [Loc None "-203"]
     "Paste address from clipboard" true
     ["클립보드에서 주소 붙여넣기"];
   Message false [Loc None "+10"]
     "Alt+P" true
     ["대체+P"];
   Message false [Loc None "+12"]
     "Enter the message you want to sign here" true
     ["서명할 메시지를 여기에 입력합니다."];
   Message false [Loc None "+7"]
     "Signature" true
     ["서명"];
   Message false [Loc None "+27"]
     "Copy the current signature to the system clipboard" true
     ["현재 서명을 시스템 클립보드에 복사"];
   Message false [Loc None "+21"]
     "Sign the message to prove you own this Bitcoin Confidential address" true
     ["이 비트코인 기밀 주소를 소유하고 있음을 증명하는 메시지에 서명하십시오."];
   Message false [Loc None "+3"]
     "Sign &amp;Message" true
     ["서명 및 메시지"];
   Message false [Loc None "+14"]
     "Reset all sign message fields" true
     ["모든 기호 메시지 필드 재설정"];
   Message false [Loc None "+3"; Loc None "+153"]
     "Clear &amp;All" true
     ["클리어 및 모두"];
   Message false [Loc None "-85"]
     "Enter the receiver&apos;s address, message (ensure you copy line breaks, spaces, tabs, etc. exactly) and signature below to verify the message. Be careful not to read more into the signature than what is in the signed message itself, to avoid being tricked by a man-in-the-middle attack. Note that this only proves the signing party receives with the address, it cannot prove sendership of any transaction!" true
     ["수신자의 주소, 메시지(줄 바꿈, 공백, 탭 등을 정확하게 복사해야 있음)과 아래 서명을 입력하여 메시지를 확인합니다. 서명된 메시지 자체보다 서명에 더 많은 내용을 읽지 않도록 주의하여 중간자 공격에 속지 않도록 하십시오. 이것은 서명 당사자가 주소로 받는 것을 증명하지만, 어떤 거래의 발신자를 증명할 수 없습니다!"];
   Message false [Loc None "+21"]
     "The Bitcoin Confidential address the message was signed with" true
     ["메시지가 서명된 비트코인 기밀 주소"];
   Message false [Loc None "+44"]
     "Verify the message to ensure it was signed with the specified Bitcoin Confidential address" true
     ["지정된 비트코인 기밀 주소로 서명되었는지 메시지를 확인합니다."];
   Message false [Loc None "+3"]
     "Verify &amp;Message" true
     ["확인 및 메시지"];
   Message false [Loc None "+14"]
     "Reset all verify message fields" true
     ["모든 확인 메시지 필드 재설정"];
   Message false [Loc (Some "../signverifymessagedialog.cpp") "+39"]
     "Click &quot;Sign Message&quot; to generate signature" true
     ["&quot;서명 메시지&quot;를 클릭하여 서명을 생성합니다."];
   Message false [Loc None "+78"; Loc None "+78"]
     "The entered address is invalid." true
     ["입력한 주소가 잘못되었습니다."];
   Message false [Loc None "-78"; Loc None "+7"; Loc None "+71"; Loc None "+6"]
     "Please check the address and try again." true
     ["주소를 확인하고 다시 시도하십시오."];
   Message false [Loc None "-77"; Loc None "+77"]
     "The entered address does not refer to a key." true
     ["입력한 주소는 키를 참조하지 않습니다."];
   Message false [Loc None "-69"]
     "Wallet unlock was cancelled." true
     ["지갑 잠금 해제가 취소되었습니다."];
   Message false [Loc None "+8"]
     "Private key for the entered address is not available." true
     ["입력한 주소의 개인 키는 사용할 수 없습니다."];
   Message false [Loc None "+12"]
     "Message signing failed." true
     ["메시지 서명에 실패했습니다."]].

Definition ko_SignVerifyMessageDialog_2 : list message :=
  [Message false [Loc None "+5"]
     "Message signed." true
     ["메시지에 서명되었습니다."];
   Message false [Loc None "+55"]
     "The signature could not be decoded." true
     ["서명을 디코딩할 수 없습니다."];
   Message false [Loc None "+0"; Loc None "+13"]
     "Please check the signature and try again." true
     ["서명을 확인하고 다시 시도하십시오."];
   Message false [Loc None "+0"]
     "The signature did not match the message digest." true
     ["서명이 메시지 다이제스트와 일치하지 않습니다."];
   Message false [Loc None "+6"]
     "Message verification failed." true
     ["메시지 확인에 실패했습니다."];
   Message false [Loc None "+5"]
     "Message verified." true
     ["메시지가 확인되었습니다."]].

Definition ko_SplashScreen : list message :=
  [Message false [Loc (Some "../networkstyle.cpp") "+19"]
     "[testnet]" true
     ["[테스트넷]"]].

Definition ko_StakingDialog_1 : list message :=
  [Message false [Loc (Some "../forms/stakingdialog.ui") "+14"]
     "Send Coins" true
     ["코인 보내기"];
   Message false [Loc None "+23"]
     "Status" true
     ["상태"];
   Message false [Loc None "+19"]
     "Addresses" true
     ["주소"];
   Message false [Loc None "+16"]
     "Rewards" true
     ["보상"];
   Message false [Loc None "+16"]
     "Convert to Spending" true
     ["지출로 전환"];
   Message false [Loc None "+16"]
     "Convert to Staking" true
     ["스타게인으로 변환"];
   Message false [Loc None "+16"]
     "Activate ColdStaking" true
     ["콜드세이그 활성화"];
   Message false [Loc None "+79"]
     "Total supply" true
     ["총 공급량"];
   Message false [Loc None "+26"]
     "Current block reward" true
     ["현재 블록 보상"];
   Message false [Loc None "+26"]
     "Current block height" true
     ["현재 블록 높이"];
   Message false [Loc None "+20"]
     "Network difficulty" true
     ["네트워크 난이도"];
   Message false [Loc None "+26"]
     "Annual staking reward" true
     ["연간 스포잉 보상"];
   Message false [Loc None "+13"]
     "Current staking reward" true
     ["현재 점령 보상"];
   Message false [Loc None "+26"]
     "Network staking weight" true
     ["네트워크 스내시 웨이트"];
   Message false [Loc None "+20"]
     "Your estimated annual reward" true
     ["예상 연간 보상"];
   Message false [Loc None "+13"]
     "?" true
     ["?"];
   Message false [Loc None "+80"]
     "Staking" true
     ["감시"];
   Message false [Loc None "+24"; Loc None "+233"]
     "ENABLED" true
     ["사용"];
   Message false [Loc None "-210"]
     "Pause" true
     ["일시 중지"];
   Message false [Loc None "+50"; Loc None "+425"]
     "Estimated reward frequency" true
     ["예상 보상 빈도"];
   Message false [Loc None "-412"]
     "Stakable Funds" true
     ["스타태클펀드"];
   Message false [Loc None "+20"]
     "Wallet staking weight" true
     ["지갑 세거웨이트"];
   Message false [Loc None "+103"]
     "Cold Staking" true
     ["콜드 세이그"];
   Message false [Loc None "+55"]
     "Remote Stake address" true
     ["원격 스테이크 주소"];
   Message false [Loc None "+13"]
     "Automated ColdStaking activation" true
     ["자동 콜드세이그 활성화"];
   Message false [Loc None "+25"]
     "Enable " true
     ["사용"];
   Message false [Loc None "+57"]
     "Enable Hot Staking with the STAKING ENABLE button and leaving wallet open.  Enable automated ColdStake with COLDSTAKING ENABLE button and setting a remote stake address. On remote node enable staking with &quot;bitcoinc-cli walletsettings stakingstatus true&quot; and create a &quot;Stake&quot; address on your remote node with &quot;bitcoinc-cli getnewstakeaddress&quot;, or get a &quot;Stake&quot; address from a ColdStaking pool. Funds gradually transition over from hot staking to cold staking while your wallet is open. The time required for the activation depends on the wallet&apos;s staking weight and can take several days with a low weight. Once the activation bar shows complete, wallet can be closed.  Alternatively, use the Activate Coldstaking tab to send an activation transaction.  This will take longer to start staking but wallet does not need to be online." true
     ["STAKING 활성화 버튼으로 핫 스탁을 활성화하고 지갑을 열어 둡수로 사용할 수 있습니다.  COLDSTAKING 활성화 버튼과 원격 스테이크 주소를 설정하여 자동 콜드 스테이크를 활성화할 수 있습니다. 원격 노드에서 &quot;bitcoinc-cli walletsettings stakingstatus true&quot;로 스테이거팅을 활성화하고 &quot;bitcoinc-cli getnewstakeaddress&quot;로 원격 노드에 &quot;스테이크&quot;주소를 만들거나 ColdStaking 풀에서 &quot;스테이크&quot;주소를 얻을 수 있습니다. 지갑이 열려있는 동안 자금은 점차 뜨거운 스토그에서 차가운 스토스로 전환됩니다. 활성화에 필요한 시간은 지갑의 체중에 따라 다르며 무게가 낮은 데 며칠이 걸릴 수 있습니다. 활성화 표시줄이 완료되면 지갑을 닫을 수 있습니다.  또는 콜드테이시 활성화 탭을 사용하여 활성화 트랜잭션을 보냅니다.  이 걸리는 더 이상 걸릴 것입니다 staking 시작 하지만 지갑 온라인 필요가 없습니다."];
   Message false [Loc None "+20"]
     "ColdStake activation progress" true
     ["콜드스테이크 활성화 진행 상황"];
   Message false [Loc None "+77"]
     "Amount activated for ColdStaking" true
     ["콜드세이그시인스에 활성화된 양"]].

Definition ko_StakingDialog_2 : list message :=
  [Message false [Loc None "+13"]
     "Estimated weight" true
     ["예상 무게"];
   Message false [Loc None "+106"]
     "Filtered" true
     ["필터링"];
   Message false [Loc None "+15"; Loc None "+88"]
     "Staking rewards" true
     ["스큰리 보상"];
   Message false [Loc None "-75"; Loc None "+48"]
     "Solved blocks" true
     ["해결된 블록"];
   Message false [Loc None "-41"; Loc None "+55"]
     "4000" true
     ["4000"];
   Message false [Loc None "-48"; Loc None "+41"]
     "100000BC" true
     ["100000BC"];
   Message false [Loc None "-22"]
     "Total" true
     ["총"];
   Message false [Loc (Some "../stakingdialog.cpp") "+258"; Loc None "+17"]
     "No stakable funds available. Use the &quot;Convert to staking&quot; tab to convert funds for staking." true
     ["사용할 수 있는 자금이 없습니다. &quot;스태그로 전환&quot; 탭을 사용하여 스토그에 대한 자금을 변환합니다."];
   Message false [Loc None "-15"; Loc None "+18"]
     "No eligible staking outputs available. Staking funds need to have 225 confirmations to be eligible." true
     ["적격 한 스위일출력을 사용할 수 없습니다. 스위시 펀드는 225개의 확인서가 있어야 자격이 됩니다."];
   Message false [Loc None "-9"]
     "Staking not initialized yet. Wait a moment." true
     ["Staking는 아직 초기화되지 않았습니다. 조금만 기다리세요."];
   Message false [Loc None "+3"]
     "Staking is stopped. Press the start button above to enable staking." true
     ["스위츠가 중지됩니다. 위의 시작 버튼을 눌러 스위일취를 활성화합니다."];
   Message false [Loc None "+10"]
     "Wallet is locked. To start staking unlock the wallet for staking only. To unlock click the lock icon in the bottom right hand portion of the window." true
     ["지갑이 잠겨 있습니다. 스위츠를 시작하려면 만 을 위한 지갑의 잠금을 해제합니다. 잠금을 해제하려면 창의 오른쪽 하단에 있는 잠금 아이콘을 클릭합니다."];
   Message false [Loc None "+4"]
     "Wallet is not fully synced. To start staking make sure the wallet has connections to the network and wait until it catched up with the latest blocks." true
     ["지갑이 완전히 동기화되지 않았습니다. 스킹을 시작하려면 지갑이 네트워크에 연결되어 있는지 확인하고 최신 블록을 따라 잡을 때까지 기다립니다."];
   Message false [Loc None "+3"]
     "Staking is disabled. Set the config paramter &quot;staking=1&quot; in the bitcoinc.conf to enable it." true
     ["스위츠가 비활성화됩니다. bitcoinc.conf에서 구성 매개 변수 &quot;staking=1&quot;을 설정하여 활성화합니다."];
   Message false [Loc None "+72"]
     "No eligible coldstaking outputs available. Your coldstaking funds need to have 225 confirmations to be eligible." true
     ["적격 한 감기 출력을 사용할 수 없습니다. 감기 에 대한 자금은 225개의 확인서가 있어야 자격이 됩니다."];
   Message false [Loc None "+160"]
     "Set Remote Staking Address" true
     ["원격 촬영 주소 설정"];
   Message false [Loc None "+1"]
     "Enter the remote staking address:" true
     ["원격 지정 주소를 입력합니다."]].

Definition ko_TrafficGraphWidget : list message :=
  [Message false [Loc (Some "../trafficgraphwidget.cpp") "+81"]
     "KB/s" true
     ["KB /s"]].

Definition ko_TransactionDesc_1 : list message :=
  [Message true [Loc (Some "../transactiondesc.cpp") "+39"]
     "Open for %n more block(s)" false
     [(Txt [])];
   Message false [Loc None "+2"]
     "Open until %1" true
     ["%1까지 열기"];
   Message false [Loc None "+6"]
     "conflicted with a transaction with %1 confirmations" true
     ["%1 확인이 있는 트랜잭션과 충돌"];
   Message false [Loc None "+2"]
     "0/unconfirmed, %1" true
     ["0/미확인, %1"];
   Message false [Loc None "+0"]
     "in memory pool" true
     ["메모리 풀에서"];
   Message false [Loc None "+0"]
     "not in memory pool" true
     ["메모리 풀에 없습니다."];
   Message false [Loc None "+0"]
     "abandoned" true
     ["버려진"];
   Message false [Loc None "+2"]
     "%1/unconfirmed" true
     ["%1/미확인"];
   Message false [Loc None "+2"]
     "%1 confirmations" true
     ["%1 확인"];
   Message false [Loc None "+29"]
     "Status" true
     ["상태"];
   Message false [Loc None "+3"]
     "Date" true
     ["날짜"];
   Message false [Loc None "+4"; Loc None "+223"]
     "Transaction ID" true
     ["거래 ID"];
   Message false [Loc None "-210"; Loc None "+211"]
     "Transaction total size" true
     ["거래 총 규모"];
   Message false [Loc None "-209"]
     "Confirmations" true
     ["확인"];
   Message false [Loc None "+4"]
     "Block hash" true
     ["블록 해시"];
   Message false [Loc None "+1"]
     "Block index" true
     ["블록 인덱스"];
   Message false [Loc None "+1"]
     "Block time" true
     ["차단 시간"];
   Message false [Loc None "+21"]
     "Source" true
     ["소스"];
   Message false [Loc None "+0"]
     "Generated" true
     ["생성"];
   Message false [Loc None "+5"; Loc None "+14"; Loc None "+72"]
     "From" true
     ["보낸 사람"];
   Message false [Loc None "-72"]
     "unknown" true
     ["알려지지 않은"];
   Message false [Loc None "+1"; Loc None "+20"; Loc None "+72"]
     "To" true
     ["받는 사람"];
   Message false [Loc None "-90"]
     "own address" true
     ["자체 주소"];
   Message false [Loc None "+0"; Loc None "+69"]
     "watch-only" true
     ["시계 전용"];
   Message false [Loc None "-67"]
     "label" true
     ["레이블"];
   Message false [Loc None "+36"; Loc None "+12"; Loc None "+58"; Loc None "+37"; Loc None "+66"]
     "Credit" true
     ["신용"];
   Message true [Loc None "-171"]
     "matures in %n more block(s)" false
     [(Txt [])]].

Definition ko_TransactionDesc_2 : list message :=
  [Message false [Loc None "+2"]
     "not accepted" true
     ["허용되지 않음"];
   Message false [Loc None "+64"; Loc None "+26"; Loc None "+71"]
     "Debit" true
     ["직불"];
   Message false [Loc None "-87"]
     "Total debit" true
     ["총 차변"];
   Message false [Loc None "+1"]
     "Total credit" true
     ["총 크레딧"];
   Message false [Loc None "+5"]
     "Transaction fee" true
     ["거래 수수료"];
   Message false [Loc None "+27"]
     "Net amount" true
     ["순금액"];
   Message false [Loc None "+6"; Loc None "+12"]
     "Message" true
     ["메시지"];
   Message false [Loc None "-10"]
     "Comment" true
     ["코멘트"];
   Message false [Loc None "+4"]
     "Transaction virtual size" true
     ["트랜잭션 가상 크기"];
   Message false [Loc None "+1"]
     "Output index" true
     ["출력 인덱스"];
   Message false [Loc None "+10"]
     "Narration" true
     ["내레이션"];
   Message false [Loc None "+13"]
     "Merchant" true
     ["상인"];
   Message false [Loc None "+7"]
     "Generated coins must mature %1 blocks before they can be spent. When you generated this block, it was broadcast to the network to be added to the block chain. If it fails to get into the chain, its state will change to &quot;not accepted&quot; and it won&apos;t be spendable. This may occasionally happen if another node generates a block within a few seconds of yours." true
     ["생성 된 동전은 소비되기 전에 %1 블록을 성숙해야합니다. 이 블록을 생성하면, 블록체인에 추가되는 네트워크로 브로드캐스트되었다. 체인에 들어가지 못하면 해당 상태가 &quot;허용되지 않음&quot;으로 변경되고 지출할 수 없습니다. 다른 노드가 몇 초 내에 블록을 생성하는 경우 이러한 일이 발생할 수 있습니다."];
   Message false [Loc None "+8"]
     "Debug information" true
     ["디버그 정보"];
   Message false [Loc None "+13"]
     "Transaction" true
     ["트랜잭션"];
   Message false [Loc None "+3"]
     "Inputs" true
     ["입력"];
   Message false [Loc None "+21"]
     "Amount" true
     ["금액"];
   Message false [Loc None "+1"; Loc None "+1"]
     "true" true
     ["사실"];
   Message false [Loc None "-1"; Loc None "+1"]
     "false" true
     ["False"]].

Definition ko_TransactionDescDialog : list message :=
  [Message false [Loc (Some "../forms/transactiondescdialog.ui") "+26"]
     "This pane shows a detailed description of the transaction" true
     ["이 창에는 트랜잭션에 대한 자세한 설명이 표시됩니다."];
   Message false [Loc (Some "../transactiondescdialog.cpp") "+17"]
     "Details for %1" true
     ["%1에 대한 세부 정보"]].

Definition ko_TransactionTableModel_1 : list message :=
  [Message false [Loc (Some "../transactiontablemodel.cpp") "+257"]
     "Date" true
     ["날짜"];
   Message false [Loc None "+2"]
     "Type" true
     ["형식"];
   Message false [Loc None "+2"]
     "Label" true
     ["레이블"];
   Message false [Loc None "+3"]
     "In" true
     ["에서"];
   Message false [Loc None "+0"]
     "Out" true
     ["아웃 (것)으로"];
   Message true [Loc None "+73"]
     "Open for %n more block(s)" false
     [(Txt [])];
   Message false [Loc None "+3"]
     "Open until %1" true
     ["%1까지 열기"];
   Message false [Loc None "+3"]
     "Unconfirmed" true
     ["미확인"];
   Message false [Loc None "+4"]
     "Orphaned" true
     ["고아"];
   Message false [Loc None "+2"]
     "Abandoned" true
     ["버려진"];
   Message false [Loc None "+22"]
     "Confirming (%1 of %2 recommended confirmations)" true
     ["확인(%2 권장 확인의 %1)"];
   Message false [Loc None "+3"]
     "Confirmed (%1 confirmations)" true
     ["확인됨(%1 확인)"];
   Message false [Loc None "+3"]
     "Conflicted" true
     ["갈등"];
   Message false [Loc None "+3"]
     "Immature (%1 confirmations, will be available after %2)" true
     ["미숙 (%1 확인, %2 이후 사용 가능)"];
   Message false [Loc None "+3"]
     "Generated but not accepted" true
     ["생성되었지만 허용되지 않음"];
   Message false [Loc None "+39"]
     "Received with" true
     ["와 함께 받은"];
   Message false [Loc None "+2"]
     "Received from" true
     ["로부터 수령"];
   Message false [Loc None "+3"]
     "Sent to" true
     ["로 전송됩니다."];
   Message false [Loc None "+2"]
     "Payment to yourself" true
     ["자신에게 지불"];
   Message false [Loc None "+2"]
     "Airdrop" true
     ["공중 투하"];
   Message false [Loc None "+2"]
     "Staked" true
     ["스테이크 (것)"];
   Message false [Loc None "+30"]
     "watch-only" true
     ["시계 전용"];
   Message false [Loc None "+16"]
     "(n/a)" true
     ["(해당 있음)"];
   Message false [Loc None "+168"]
     "Unlock to show" true
     ["잠금을 해제하여 표시"];
   Message false [Loc None "+111"]
     "(no label)" true
     ["(레이블 없음)"];
   Message false [Loc None "+42"; Loc None "+14"]
     "Transaction status. Hover over this field to show number of confirmations." true
     ["트랜잭션 상태입니다. 확인 횟수를 표시하려면 이 필드 위로 마우스를 가져갑니다."];
   Message false [Loc None "-12"]
     "Date and time that the reward was received." true
     ["보상을 받은 날짜 및 시간입니다."];
   Message false [Loc None "+2"; Loc None "+16"]
     "Whether or not a watch-only address is involved in this transaction." true
     ["이 거래에 시계 전용 주소가 관련되어 있는지 여부입니다."];
   Message false [Loc None "-14"]
     "Address used for the block solving" true
     ["블록 해결에 사용되는 주소"]].

Definition ko_TransactionTableModel_2 : list message :=
  [Message false [Loc None "+2"]
     "Staking reward." true
     ["보상을 복용."];
   Message false [Loc None "+8"]
     "Date and time that the transaction was received." true
     ["트랜잭션이 수신된 날짜 및 시간입니다."];
   Message false [Loc None "+2"]
     "Type of transaction." true
     ["트랜잭션 유형입니다."];
   Message false [Loc None "+4"]
     "User-defined intent/purpose of the transaction." true
     ["트랜잭션의 사용자 정의 의도/목적입니다."];
   Message false [Loc None "+2"]
     "Type of input coin." true
     ["입력 동전의 유형입니다."];
   Message false [Loc None "+2"]
     "Type of output coin." true
     ["출력 동전의 유형입니다."];
   Message false [Loc None "+2"]
     "Amount removed from or added to balance." true
     ["균형을 맞추기 위해 제거되거나 추가된 양입니다."]].

Definition ko_TransactionView_1 : list message :=
  [Message false [Loc (Some "../transactionview.cpp") "+53"; Loc None "+11"; Loc None "+18"]
     "All" true
     ["모든"];
   Message false [Loc None "-17"]
     "Today" true
     ["오늘"];
   Message false [Loc None "+1"]
     "This week" true
     ["이번 주"];
   Message false [Loc None "+1"]
     "This month" true
     ["이번 달"];
   Message false [Loc None "+1"]
     "Last month" true
     ["지난 달"];
   Message false [Loc None "+1"]
     "This year" true
     ["올해는"];
   Message false [Loc None "+1"]
     "Range..." true
     ["범위..."];
   Message false [Loc None "+13"]
     "Received with" true
     ["와 함께 받은"];
   Message false [Loc None "+2"]
     "Sent to" true
     ["로 전송됩니다."];
   Message false [Loc None "+2"]
     "To yourself" true
     ["자신에게"];
   Message false [Loc None "+1"]
     "Other" true
     ["다른"];
   Message false [Loc None "+1"]
     "Airdrop" true
     ["공중 투하"];
   Message false [Loc None "+5"]
     "Enter address, transaction id, or label to search" true
     ["검색할 주소, 거래 ID 또는 레이블입력"];
   Message false [Loc None "+5"]
     "Min amount" true
     ["최소 금액"];
   Message false [Loc None "+52"]
     "Abandon transaction" true
     ["트랜잭션 포기"];
   Message false [Loc None "+1"]
     "Increase transaction fee" true
     ["거래 수수료 증가"];
   Message false [Loc None "+2"]
     "Copy address" true
     ["주소 복사"];
   Message false [Loc None "+1"]
     "Copy label" true
     ["복사 레이블"];
   Message false [Loc None "+1"]
     "Copy amount" true
     ["복사 량"];
   Message false [Loc None "+1"]
     "Copy transaction ID" true
     ["트랜잭션 ID 복사"];
   Message false [Loc None "+1"]
     "Copy raw transaction" true
     ["원시 트랜잭션 복사"];
   Message false [Loc None "+1"]
     "Copy full transaction details" true
     ["전체 트랜잭션 세부 정보 복사"];
   Message false [Loc None "+1"]
     "Edit label" true
     ["레이블 편집"];
   Message false [Loc None "+1"]
     "Show transaction details" true
     ["거래 세부 정보 표시"];
   Message false [Loc None "+239"]
     "Export Transaction History" true
     ["내보내기 거래 내역"];
   Message false [Loc None "+1"]
     "Comma separated file (*.csv)" true
     ["쉼표 분리 된 파일 (*.csv)"];
   Message false [Loc None "+9"]
     "Confirmed" true
     ["확인"];
   Message false [Loc None "+2"]
     "Watch-only" true
     ["시계 전용"];
   Message false [Loc None "+1"]
     "Date" true
     ["날짜"]].

Definition ko_TransactionView_2 : list message :=
  [Message false [Loc None "+2"]
     "Type" true
     ["형식"];
   Message false [Loc None "+2"]
     "Label" true
     ["레이블"];
   Message false [Loc None "+1"]
     "Address" true
     ["주소"];
   Message false [Loc None "+2"]
     "ID" true
     ["자료"];
   Message false [Loc None "+3"]
     "Exporting Failed" true
     ["내보내기 실패"];
   Message false [Loc None "+0"]
     "There was an error trying to save the transaction history to %1." true
     ["트랜잭션 기록을 %1로 저장하려고 하는 중오류가 발생했습니다."];
   Message false [Loc None "+4"]
     "Exporting Successful" true
     ["성공적인 내보내기"];
   Message false [Loc None "+0"]
     "The transaction history was successfully saved to %1." true
     ["트랜잭션 기록이 %1에 성공적으로 저장되었습니다."];
   Message false [Loc None "+169"]
     "Range:" true
     ["범위:"];
   Message false [Loc None "+8"]
     "to" true
     ["받는 사람"]].

Definition ko_TxViewDelegate : list message :=
  [Message false [Loc (Some "../overviewpage.cpp") "+95"]
     "Unlock to show" true
     ["잠금을 해제하여 표시"]].

Definition ko_UnitDisplayStatusBarControl : list message :=
  [Message false [Loc (Some "../bitcoingui.cpp") "+122"]
     "Unit to show amounts in. Click to select another unit." true
     ["단위에 금액을 표시 합니다. 클릭하여 다른 단위를 선택합니다."]].

Definition ko_WalletFrame : list message :=
  [Message false [Loc (Some "../walletframe.cpp") "+29"]
     "No wallet has been loaded." true
     ["지갑이 로드되지 않았습니다."]].

Definition ko_WalletModel : list message :=
  [Message false [Loc (Some "../walletmodel.cpp") "+592"; Loc None "+4"; Loc None "+11"]
     "Wallet Model" true
     ["지갑 모델"];
   Message false [Loc None "+65"; Loc None "+39"; Loc None "+6"]
     "Fee bump error" true
     ["수수료 범프 오류"];
   Message false [Loc None "-45"]
     "Increasing transaction fee failed" true
     ["거래 수수료 증가 실패"];
   Message false [Loc None "+6"]
     "Do you want to increase the fee?" true
     ["수수료를 인상하시겠습니까?"];
   Message false [Loc None "+4"]
     "Current fee:" true
     ["현재 수수료:"];
   Message false [Loc None "+4"]
     "Increase:" true
     ["증가:"];
   Message false [Loc None "+4"]
     "New fee:" true
     ["새로운 수수료:"];
   Message false [Loc None "+4"]
     "Confirm fee bump" true
     ["수수료 범프 확인"];
   Message false [Loc None "+17"]
     "Can&apos;t sign transaction." true
     ["트랜잭션에 서명할 수 없습니다."];
   Message false [Loc None "+6"]
     "Could not commit transaction" true
     ["트랜잭션을 커밋할 수 없습니다."]].

Definition ko_WalletView : list message :=
  [Message false [Loc (Some "../walletview.cpp") "+46"; Loc None "+1"]
     "&amp;Export" true
     ["및 수출"];
   Message false [Loc None "+9"; Loc None "+29"]
     "Export the data in the current tab to a file" true
     ["현재 탭의 데이터를 파일로 내보내기"];
   Message false [Loc None "-19"]
     "Selected amount" true
     ["선택한 금액"];
   Message false [Loc None "+290"]
     "Backup Wallet" true
     ["백업 지갑"];
   Message false [Loc None "+1"]
     "Wallet Data (*.dat)" true
     ["지갑 데이터(*.dat)"];
   Message false [Loc None "+6"]
     "Backup Failed" true
     ["백업 실패"];
   Message false [Loc None "+0"]
     "There was an error trying to save the wallet data to %1." true
     ["지갑 데이터를 %1로 저장하려고 하는 중오류가 발생했습니다."];
   Message false [Loc None "+4"]
     "Backup Successful" true
     ["백업 성공"];
   Message false [Loc None "+0"]
     "The wallet data was successfully saved to %1." true
     ["지갑 데이터가 %1로 성공적으로 저장되었습니다."];
   Message false [Loc None "+63"]
     "Cancel" true
     ["취소"]].

Definition ko_bitcoin_core_1 : list message :=
  [Message false [Loc (Some "../bitcoinstrings.cpp") "+12"]
     "Bitcoin Confidential Core" true
     ["비트 코인 기밀 코어"];
   Message false [Loc None "+1"]
     "The %s developers" true
     ["%s 개발자"];
   Message false [Loc None "+1"]
     " is spendable from this wallet." true
     ["이 지갑에서 사용할 수 있습니다."];
   Message false [Loc None "+1"]
     "-maxtxfee is set very high! Fees this large could be paid on a single transaction." true
     ["- 맥스 피는 매우 높게 설정되어 있습니다! 이 큰 수수료는 단일 거래에 지불 할 수 있습니다."];
   Message false [Loc None "+3"]
     "Can&apos;t generate a change-address key. Private keys are disabled for this wallet." true
     ["변경 주소 키를 생성할 수 없습니다. 이 지갑의 개인 키는 비활성화되어 있습니다."];
   Message false [Loc None "+3"]
     "Cannot obtain a lock on data directory %s. %s is probably already running." true
     ["데이터 디렉토리 %s%s에 대한 잠금을 가져올 수 없습니다."];
   Message false [Loc None "+2"]
     "Cannot provide specific connections and have addrman find outgoing connections at the same." true
     ["특정 연결을 제공할 수 없으며 addrman이 동일한 연결에서 나가는 연결을 찾게 할 수 있습니다."];
   Message false [Loc None "+3"]
     "Cannot upgrade a non HD split wallet without upgrading to support pre split keypool. Please use -upgradewallet=169900 or -upgradewallet with no version specified." true
     ["사전 분할 키풀을 지원하기 위해 업그레이드하지 않고는 비 HD 분할 지갑을 업그레이드 할 수 없습니다. -upgradewallet=169900 또는 -upgradewallet을 사용하십시오."];
   Message false [Loc None "+4"]
     "Distributed under the MIT software license, see the accompanying file %s or %s" true
     ["MIT 소프트웨어 라이센스에 따라 배포, 함께 제공되는 파일 %s 또는 %s 참조"];
   Message false [Loc None "+3"]
     "Error loading %s: You can&apos;t enable HD on an already existing non-HD wallet" true
     ["오류 로딩 %s: 기존 비 HD 지갑에서는 HD를 활성화할 수 없습니다."];
   Message false [Loc None "+2"]
     "Error reading %s! All keys read correctly, but transaction data or address book entries might be missing or incorrect." true
     ["오류 읽기 %s! 모든 키가 올바르게 읽혀지지만 트랜잭션 데이터 또는 주소록 항목이 누락되었거나 올바르지 않을 수 있습니다."];
   Message false [Loc None "+3"]
     "Error: Listening for incoming connections failed (listen returned error %s)" true
     ["오류: 들어오는 연결 수신 에 대한 수신 실패(반환된 오류 %s 듣기)"];
   Message false [Loc None "+2"]
     "Fee estimation failed. Fallbackfee is disabled. Wait a few blocks or enable -fallbackfee." true
     ["수수료 추정에 실패했습니다. 대체 수수료는 사용할 수 없습니다. 몇 블록을 기다리거나 -fallbackfee를 활성화합니다."];
   Message false [Loc None "+3"]
     "Generate a random master key and main account if no master key exists. (default: %s)" true
     ["마스터 키가 없는 경우 임의의 마스터 키와 기본 계정을 생성합니다. (기본값: %s)"];
   Message false [Loc None "+3"]
     "Group outputs by address, selecting all or none, instead of selecting on a per-output basis. Privacy is improved as an address is only used once (unless someone sends to it after spending from it), but may result in slightly higher fees as suboptimal coin selection may result due to the added limitation (default: %u)" true
     ["출력단위로 선택하는 대신 주소별로 출력을 그룹화하고 전부 또는 없음을 선택합니다. 주소가 한 번만 사용되기 때문에 개인 정보 보호가 향상되지만 (누군가가 지출 한 후 전송하지 않는 한), 추가 제한으로 인해 최적이 아닌 동전 선택이 발생할 수 있으므로 약간 더 높은 수수료가 발생할 수 있습니다 (기본값 : %u)."];
   Message false [Loc None "+6"]
     "Invalid amount for -maxtxfee=&lt;amount&gt;: &apos;%s&apos; (must be at least the minrelay fee of %s to prevent stuck transactions)" true
     ["-maxtxfee = : &apos;%s&apos;에 대한 유효하지 않은 금액&lt;amount&gt;(붙어있는 거래를 방지하기 위해 %s의 최소 중계 수수료여야 합니다)&lt;/amount&gt;"];
   Message false [Loc None "+3"]
     "Milliseconds between stake attempts. Lowering this param will not result in more stakes. (default: 500)" true
     ["스테이크 시도 사이의 밀리초. 이 매개 변수를 낮추면 더 많은 스테이크가 발생하지 않습니다. (기본값: 500)"];
   Message false [Loc None "+3"]
     "Not enough spending outputs available in the blockchain for privacy mixing. There are currently %d. For this transaction required: %d" true
     ["개인 정보 보호 혼합을위한 블록 체인에서 사용할 수있는 충분한 지출 출력이 없습니다. 현재 %d가 있습니다. 이 트랜잭션의 경우 필요한 경우: %d"];
   Message false [Loc None "+3"]
     "Number of threads to start for staking, max 1 per active wallet, will divide wallets evenly between threads (default: 1)" true
     ["스태그 시작 스레드 수, 활성 지갑당 최대 1개, 지갑을 스레드 간에 균등하게 나눕니다(기본값: 1)"];
   Message false [Loc None "+3"]
     "On saving a key from the lookahead pool, save all unsaved keys leading up to it too. (default: %s)" true
     ["미리 보기 풀에서 키를 저장할 때 저장되지 않은 키도 저장합니다. (기본값: %s)"];
   Message false [Loc None "+3"]
     "Please check that your computer&apos;s date and time are correct! If your clock is wrong, %s will not work properly." true
     ["컴퓨터의 날짜와 시간이 올바른지 확인하십시오! 시계가 잘못되면 %s가 제대로 작동하지 않습니다."];
   Message false [Loc None "+3"]
     "Please contribute if you find %s useful. Visit %s for further information about the software." true
     ["%s가 유용하다고 발견되면 기여하십시오. 소프트웨어에 대한 자세한 내용은 %s를 방문하십시오."];
   Message false [Loc None "+3"]
     "Prune configured below the minimum of %d MiB.  Please use a higher number." true
     ["자두는 %d MiB의 최소 이하로 구성.  더 높은 숫자를 사용하십시오."];
   Message false [Loc None "+2"]
     "Prune: last wallet synchronisation goes beyond pruned data. You need to -reindex (download the whole blockchain again in case of pruned node)" true
     ["정리: 마지막 지갑 동기화는 정리된 데이터를 넘어섭습니다. -reindex (가지 치기 노드의 경우 전체 블록 체인을 다시 다운로드)"];
   Message false [Loc None "+3"]
     "Rescans are not possible in pruned mode. You will need to use -reindex which will download the whole blockchain again." true
     ["가지 치기 모드에서는 다시 검사할 수 없습니다. 전체 블록 체인을 다시 다운로드할 -reindex를 사용해야합니다."];
   Message false [Loc None "+3"]
     "The block database contains a block which appears to be from the future. This may be due to your computer&apos;s date and time being set incorrectly. Only rebuild the block database if you are sure that your computer&apos;s date and time are correct" true
     ["블록 데이터베이스에는 향후 블록으로 보이는 블록이 포함되어 있습니다. 컴퓨터의 날짜와 시간이 잘못 설정되어 있기 때문일 수 있습니다. 컴퓨터의 날짜와 시간이 올바른 경우에만 블록 데이터베이스를 다시 빌드합니다."];
   Message false [Loc None "+5"]
     "The transaction amount is too small to send after the fee has been deducted" true
     ["수수료가 공제된 후 거래 금액이 너무 작아서 송금할 수 없습니다."];
   Message false [Loc None "+2"]
     "This is a pre-release test build - use at your own risk - do not use for mining or merchant applications" true
     ["이것은 시험판 테스트 빌드입니다 - 자신의 위험에 사용 - 마이닝 또는 상인 응용 프로그램에 사용하지 마십시오"];
   Message false [Loc None "+3"]
     "This is the transaction fee you may discard if change is smaller than dust at this level" true
     ["이 수준에서 변경이 먼지보다 작을 경우 폐기할 수 있는 거래 수수료입니다."]].

Definition ko_bitcoin_core_2 : list message :=
  [Message false [Loc None "+3"]
     "This is the transaction fee you may pay when fee estimates are not available." true
     ["수수료 견적을 사용할 수 없을 때 지불할 수 있는 거래 수수료입니다."];
   Message false [Loc None "+2"]
     "This product includes software developed by the OpenSSL Project for use in the OpenSSL Toolkit %s and cryptographic software written by Eric Young and UPnP software written by Thomas Bernard." true
     ["이 제품에는 OpenSSL 툴킷 %s에 사용하기 위해 OpenSSL 프로젝트에서 개발 한 소프트웨어와 토마스 버나드가 작성한 에릭 영 및 UPnP 소프트웨어가 작성한 암호화 소프트웨어가 포함되어 있습니다."];
   Message false [Loc None "+4"]
     "Total length of network version string (%i) exceeds maximum length (%i). Reduce the number or size of uacomments." true
     ["네트워크 버전 문자열(%i)의 총 길이가 최대 길이(%i)를 초과합니다. uacomments의 수 또는 크기를 줄입니다."];
   Message false [Loc None "+3"]
     "Unable to replay blocks. You will need to rebuild the database using -reindex-chainstate." true
     ["블록을 재생할 수 없습니다. -reindex-chainstate를 사용하여 데이터베이스를 다시 빌드해야 합니다."];
   Message false [Loc None "+3"]
     "Unable to rewind the database to a pre-fork state. You will need to redownload the blockchain" true
     ["데이터베이스를 사전 포크 상태로 되감을 수 없습니다. 블록 체인을 다시 다운로드해야합니다."];
   Message false [Loc None "+3"]
     "Unsupported argument -socks found. Setting SOCKS version isn&apos;t possible anymore, only SOCKS5 proxies are supported." true
     ["지원되지 않는 인수 -양말이 발견되었습니다. 설정 SOCKS 버전은 더 이상 불가능하며 SOCKS5 프록시만 지원됩니다."];
   Message false [Loc None "+3"]
     "Unsupported argument -whitelistalwaysrelay ignored, use -whitelistrelay and/or -whitelistforcerelay." true
     ["지원되지 않는 인수 -whitelist항상릴레이 무시, 사용 -화이트리스트 릴레이 및 / 또는 - 화이트 리스트 포스 릴레이."];
   Message false [Loc None "+3"]
     "Warning: Private keys detected in wallet {%s} with disabled private keys" true
     ["경고: 비활성화된 개인 키가 있는 지갑 {%s}에서 검색된 개인 키"];
   Message false [Loc None "+2"]
     "Warning: The network does not appear to fully agree! Some miners appear to be experiencing issues." true
     ["경고: 네트워크가 완전히 동의하는 것으로 나타나지 않습니다! 일부 광부는 문제가 있는 것으로 보입니다."];
   Message false [Loc None "+3"]
     "Warning: Unknown block versions being mined! It&apos;s possible unknown rules are in effect" true
     ["경고: 알 수 없는 블록 버전이 채굴중입니다! 알 수 없는 규칙이 적용될 수 있습니다."];
   Message false [Loc None "+3"]
     "Warning: Wallet file corrupt, data salvaged! Original %s saved as %s in %s; if your balance or transactions are incorrect you should restore from a backup." true
     ["경고 : 지갑 파일이 손상되고 데이터가 회수되었습니다! %s에서 %s로 저장된 원래 %s; 잔액 또는 트랜잭션이 올바르지 않은 경우 백업에서 복원해야 합니다."];
   Message false [Loc None "+4"]
     "Warning: We do not appear to fully agree with our peers! You may need to upgrade, or other nodes may need to upgrade." true
     ["경고 : 우리는 우리의 동료와 완전히 동의하는 것으로 보이지 않습니다! 업그레이드해야 하거나 다른 노드를 업그레이드해야 할 수 있습니다."];
   Message false [Loc None "+3"]
     "You need to rebuild the database using -reindex to change -timestampindex" true
     ["-timestampindex를 변경하려면 -reindex를 사용하여 데이터베이스를 다시 빌드해야 합니다."];
   Message false [Loc None "+2"]
     "You need to rebuild the database using -reindex to go back to unpruned mode.  This will redownload the entire blockchain" true
     ["-reindex를 사용하여 데이터베이스를 다시 빌드되지 않은 모드로 돌아가야 합니다.  이렇게 하면 전체 블록 체인이 다시 다운로드됩니다."];
   Message false [Loc None "+3"]
     "%d of last 100 blocks have unexpected version" true
     ["마지막 100 블록의 %d에는 예기치 않은 버전이 있습니다."];
   Message false [Loc None "+1"]
     "%s corrupt, salvage failed" true
     ["%s 손상, 인양 실패"];
   Message false [Loc None "+1"]
     "%s is set very high!" true
     ["%s는 매우 높게 설정되어 있습니다!"];
   Message false [Loc None "+1"]
     "-maxmempool must be at least %d MB" true
     ["- maxmempool은 적어도 %d MB이어야합니다"];
   Message false [Loc None "+1"]
     "Account chain not found" true
     ["계정 체인을 찾을 수 없습니다."];
   Message false [Loc None "+1"]
     "Address &apos;%s&apos; is not in the address book." true
     ["주소 &apos;%&apos;는 주소록에 없습니다."];
   Message false [Loc None "+1"]
     "Address &apos;%s&apos; is recorded in the address book." true
     ["주소 &apos;%&apos;는 주소록에 기록됩니다."];
   Message false [Loc None "+1"]
     "Anon output not found in db, %d" true
     ["DB에서 찾을 수 없는 Anon 출력, %d"];
   Message false [Loc None "+1"]
     "Anon pubkey not found in db, %s" true
     ["DB에서 찾을 수없는 Anon pubkey, %s"];
   Message false [Loc None "+1"]
     "Cannot downgrade wallet" true
     ["지갑을 다운 그레이드 할 수 없습니다."];
   Message false [Loc None "+1"]
     "Cannot resolve -%s address: &apos;%s&apos;" true
     ["해결할 수 없는 -%의 주소: &apos;%s&apos;"];
   Message false [Loc None "+1"]
     "Cannot write to data directory &apos;%s&apos;; check permissions." true
     ["데이터 디렉토리 &apos;%s&apos;에 쓸 수 없습니다. 권한을 확인합니다."];
   Message false [Loc None "+1"]
     "Change index out of range" true
     ["범위를 벗어난 인덱스 변경"];
   Message false [Loc None "+1"]
     "Confidential chain set but not found" true
     ["기밀 체인 세트가 있지만 찾을 수 없습니다."];
   Message false [Loc None "+1"]
     "Copyright (C)" true
     ["저작권 (C)"];
   Message false [Loc None "+1"]
     "Corrupted block database detected" true
     ["손상된 블록 데이터베이스가 검색되었습니다."]].

Definition ko_bitcoin_core_3 : list message :=
  [Message false [Loc None "+1"]
     "Could not convert prefix to number." true
     ["접두사를 숫자로 변환할 수 없습니다."];
   Message false [Loc None "+1"]
     "Could not decode scan secret as wif, hex or base58." true
     ["wif, 육주 또는 base58로 스캔 비밀을 디코딩 할 수 없습니다."];
   Message false [Loc None "+1"]
     "Could not decode spend secret as hex or base58." true
     ["헥스 또는 base58로 비밀을 디코딩 할 수 없습니다."];
   Message false [Loc None "+1"]
     "Could not get confidential chain from account." true
     ["계정에서 기밀 체인을 얻을 수 없습니다."];
   Message false [Loc None "+1"]
     "Could not get scan public key." true
     ["검색 공개 키를 얻을 수 없습니다."];
   Message false [Loc None "+1"]
     "Could not get spend public key." true
     ["공개 키를 사용할 수 없습니다."];
   Message false [Loc None "+1"]
     "Default account not found" true
     ["기본 계정을 찾을 수 없습니다."];
   Message false [Loc None "+1"]
     "DeriveNextKey failed" true
     ["DeriveNextKey실패"];
   Message false [Loc None "+1"]
     "Do you want to rebuild the block database now?" true
     ["지금 블록 데이터베이스를 다시 빌드하시겠습니까?"];
   Message false [Loc None "+1"]
     "Done loading" true
     ["로드 완료"];
   Message false [Loc None "+1"]
     "Duplicate index found, %d" true
     ["중복 인덱스 발견, %d"];
   Message false [Loc None "+1"]
     "Empty wallet required for import." true
     ["가져오기에 필요한 빈 지갑."];
   Message false [Loc None "+1"]
     "Ensure available balance remains above reservebalance. (default: 0)" true
     ["사용 가능한 잔액이 예비 잔액 이상으로 유지되도록 합니다. (기본값: 0)"];
   Message false [Loc None "+1"]
     "EraseSetting failed." true
     ["지우기 설정이 실패했습니다."];
   Message false [Loc None "+1"]
     "Error creating %s: You can&apos;t create non-HD wallets with this version." true
     ["%s 를 만드는 오류 : 이 버전으로는 HD가 아닌 지갑을 만들 수 없습니다."];
   Message false [Loc None "+1"]
     "Error initializing block database" true
     ["블록 데이터베이스 초기화 오류"];
   Message false [Loc None "+1"]
     "Error initializing wallet database environment %s!" true
     ["지갑 데이터베이스 환경 %s를 초기화하는 오류!"];
   Message false [Loc None "+1"]
     "Error loading %s" true
     ["오류 로딩 %s"];
   Message false [Loc None "+1"]
     "Error loading %s: Private keys can only be disabled during creation" true
     ["오류 로드 %s: 개인 키는 만드는 동안에만 비활성화할 수 있습니다."];
   Message false [Loc None "+1"]
     "Error loading %s: Wallet corrupted" true
     ["오류 로딩 %s: 지갑 손상"];
   Message false [Loc None "+1"]
     "Error loading %s: Wallet requires newer version of %s" true
     ["오류 로딩 %s: 지갑에는 %s의 최신 버전이 필요합니다."];
   Message false [Loc None "+1"]
     "Error loading %s: You can&apos;t disable HD on an already existing HD wallet" true
     ["오류 로딩 %s: 기존 HD 지갑에서 HD를 비활성화할 수 없습니다."];
   Message false [Loc None "+1"]
     "Error loading block database" true
     ["오류 로드 블록 데이터베이스"];
   Message false [Loc None "+1"]
     "Error loading wallet %s. Duplicate -wallet filename specified." true
     ["오류 로딩 지갑 %s. 중복 -지갑 파일 이름 지정."];
   Message false [Loc None "+1"]
     "Error opening block database" true
     ["오류 열기 블록 데이터베이스"];
   Message false [Loc None "+1"]
     "Error reading from database, shutting down." true
     ["데이터베이스에서 오류 읽기, 종료."];
   Message false [Loc None "+1"]
     "Error upgrading chainstate database" true
     ["체인상태 데이터베이스 오류 업그레이드"];
   Message false [Loc None "+1"]
     "Error" true
     ["오류"];
   Message false [Loc None "+1"]
     "Error: A fatal internal error occurred, see debug.log for details" true
     ["오류: 치명적인 내부 오류가 발생했습니다."];
   Message false [Loc None "+1"]
     "Error: Disk space is low!" true
     ["오류: 디스크 공간이 부족합니다!"]].

Definition ko_bitcoin_core_4 : list message :=
  [Message false [Loc None "+1"]
     "ExtKeyGetIndex failed." true
     ["ExtKeyGetIndex가 실패했습니다."];
   Message false [Loc None "+1"]
     "ExtKeySaveAccountToDB failed" true
     ["ExtKeySaveAccountToDB 실패"];
   Message false [Loc None "+1"]
     "Failed to listen on any port. Use -listen=0 if you want this." true
     ["모든 포트에서 수신 을 받지 못했습니다. 이 것을 원한다면 -listen=0을 사용합니다."];
   Message false [Loc None "+1"]
     "Failed to open dongle" true
     ["동글을 열지 못했습니다."];
   Message false [Loc None "+1"]
     "Failed to rescan the wallet during initialization" true
     ["초기화 중에 지갑을 다시 스캔하지 못했습니다."];
   Message false [Loc None "+1"]
     "Hit nMaxTries limit, %d, %d" true
     ["히트 nMaxTries 제한, %d, %d"];
   Message false [Loc None "+1"]
     "Import failed - AddKeyPubKey failed." true
     ["가져오기 실패 - AddKeyPubKey가 실패했습니다."];
   Message false [Loc None "+1"]
     "Import failed - stealth address exists." true
     ["가져오기 실패 - 스텔스 주소가 있습니다."];
   Message false [Loc None "+1"]
     "Importing..." true
     ["가져오기..."];
   Message false [Loc None "+1"]
     "Incorrect or no genesis block found. Wrong datadir for network?" true
     ["올바르지 않거나 창세기 블록을 찾을 수 없습니다. 네트워크에 대한 잘못된 데이터 디더?"];
   Message false [Loc None "+1"]
     "Information" true
     ["정보"];
   Message false [Loc None "+1"]
     "Initialization sanity check failed. %s is shutting down." true
     ["초기화 정신 확인에 실패했습니다. %s가 종료됩니다."];
   Message false [Loc None "+1"]
     "Insufficient funds" true
     ["부족한 자금"];
   Message false [Loc None "+1"]
     "Insufficient funds." true
     ["부족한 자금."];
   Message false [Loc None "+1"]
     "Invalid -onion address or hostname: &apos;%s&apos;" true
     ["잘못된 -양파 주소 또는 호스트 이름: &apos;%s&apos;"];
   Message false [Loc None "+1"]
     "Invalid -proxy address or hostname: &apos;%s&apos;" true
     ["잘못된 -프록시 주소 또는 호스트 이름: &apos;%s&apos;"];
   Message false [Loc None "+1"]
     "Invalid BitcoinC address." true
     ["잘못된 BitcoinC 주소."];
   Message false [Loc None "+1"]
     "Invalid amount for -%s=&lt;amount&gt;: &apos;%s&apos;" true
     ["-%s= 유효하지 않은 금액&lt;amount&gt;: &apos;%s&apos;&lt;/amount&gt;"];
   Message false [Loc None "+1"]
     "Invalid amount for -discardfee=&lt;amount&gt;: &apos;%s&apos;" true
     ["-discardfee에 대한 유효하지 않은 금액 =&lt;amount&gt;: &apos;%s&apos;&lt;/amount&gt;"];
   Message false [Loc None "+1"]
     "Invalid amount for -fallbackfee=&lt;amount&gt;: &apos;%s&apos;" true
     ["-fallbackfee에 대한 유효하지 않은 금액 =&lt;amount&gt;: &apos;%s&apos;&lt;/amount&gt;"];
   Message false [Loc None "+1"]
     "Invalid amount for -paytxfee=&lt;amount&gt;: &apos;%s&apos; (must be at least %s)" true
     ["-paytxfee에 대한 유효하지 않은 금액 =&lt;amount&gt;: &apos;%s&apos;(최소 %s여야 합니다)&lt;/amount&gt;"];
   Message false [Loc None "+1"]
     "Invalid amount for -reservebalance=&lt;amount&gt;" true
     ["-예비 잔액에 대한 유효하지 않은 금액=&lt;amount&gt;&lt;/amount&gt;"];
   Message false [Loc None "+1"]
     "Invalid coldstakingaddress." true
     ["잘못된 감기 촬영주소."];
   Message false [Loc None "+1"]
     "Invalid input key." true
     ["입력 키가 잘못되었습니다."];
   Message false [Loc None "+1"]
     "Invalid key." true
     ["유효하지 않은 키입니다."];
   Message false [Loc None "+1"]
     "Invalid netmask specified in -whitelist: &apos;%s&apos;" true
     ["-화이트리스트에 지정된 잘못된 넷마스크: &apos;%s&apos;"];
   Message false [Loc None "+1"]
     "Invalid rewardaddress." true
     ["잘못된 보상 주소."];
   Message false [Loc None "+1"]
     "Keypool ran out, please call keypoolrefill first" true
     ["키풀이 다 떨어졌고, 먼저 키풀리필에 전화하십시오."];
   Message false [Loc None "+1"]
     "Loading P2P addresses..." true
     ["P2P 주소 로드 중..."]].

Definition ko_bitcoin_core_5 : list message :=
  [Message false [Loc None "+1"]
     "Loading address book for %s.
" true
     ["%s에 대한 주소록로드."];
   Message false [Loc None "+1"]
     "Loading banlist..." true
     ["로드 금지 목록..."];
   Message false [Loc None "+1"]
     "Loading block index..." true
     ["블록 인덱스 로드 중..."];
   Message false [Loc None "+1"]
     "Loading transaction records for %s.
" true
     ["%s에 대한 트랜잭션 레코드로드."];
   Message false [Loc None "+1"]
     "Loading wallet..." true
     ["로딩 지갑..."];
   Message false [Loc None "+1"]
     "Minimum time in seconds between successful stakes (default: 0)" true
     ["성공한 스테이크 사이의 최소 시간(기본값: 0)"];
   Message false [Loc None "+1"]
     "Must be json object." true
     ["json 개체여야 합니다."];
   Message false [Loc None "+1"]
     "Must have account to save keys." true
     ["키를 저장하려면 계정이 있어야 합니다."];
   Message false [Loc None "+1"]
     "Must input a stealthaddress." true
     ["스텔스 주소를 입력해야 합니다."];
   Message false [Loc None "+1"]
     "Need a parameter to change." true
     ["변경하려면 매개 변수가 필요합니다."];
   Message false [Loc None "+1"]
     "Need to specify a port with -whitebind: &apos;%s&apos;" true
     ["-whitebind: &apos;%s&apos;가 있는 포트를 지정해야 합니다."];
   Message false [Loc None "+1"]
     "New state must be bool." true
     ["새 상태는 bool이어야 합니다."];
   Message false [Loc None "+1"]
     "NewExtKeyFromAccount failed, %s." true
     ["NewExtKeyFromAccount 실패, %s."];
   Message false [Loc None "+1"]
     "NewExtKeyFromAccount failed." true
     ["NewExtKeyFromAccount가 실패했습니다."];
   Message false [Loc None "+1"]
     "NewStealthKeyV2FromAccount failed." true
     ["NewStealthKeyV2FromAccount가 실패했습니다."];
   Message false [Loc None "+1"]
     "No default account set." true
     ["기본 계정 집합이 없습니다."];
   Message false [Loc None "+1"]
     "No key for anonoutput, %s" true
     ["[고수미원, %s]"];
   Message false [Loc None "+1"]
     "Not anon output %s %d" true
     ["아니 아논 출력 %d"];
   Message false [Loc None "+1"]
     "Not enough file descriptors available." true
     ["사용할 수 있는 파일 설명자가 부족합니다."];
   Message false [Loc None "+1"]
     "Num inputs per signature out of range" true
     ["범위를 벗어난 시그니처당 Num 입력"];
   Message false [Loc None "+1"]
     "Number of keys to load into the lookahead pool per chain. (default: %u)" true
     ["체인당 미리 보기 풀에 로드할 키 수입니다. (기본값: %u)"];
   Message false [Loc None "+1"]
     "Only able to send to stealth address." true
     ["스텔스 주소로만 보낼 수 있습니다."];
   Message false [Loc None "+1"]
     "OpIsCoinstake is not active yet." true
     ["OpisCoinstake는 아직 활성화되지 않았습니다."];
   Message false [Loc None "+1"]
     "Output isn&apos;t standard." true
     ["출력은 표준이 아닙니다."];
   Message false [Loc None "+1"]
     "PrepareTransaction for device failed: %s" true
     ["준비장치에 대한 트랜잭션 실패: %s"];
   Message false [Loc None "+1"]
     "ProduceSignature from device failed: %s" true
     ["장치에서 생성 서명 실패: %s"];
   Message false [Loc None "+1"]
     "Prune cannot be configured with a negative value." true
     ["정리는 음수 값으로 구성할 수 없습니다."];
   Message false [Loc None "+1"]
     "Prune mode is incompatible with -txindex." true
     ["가지 치기 모드는 -txindex와 호환되지 않습니다."];
   Message false [Loc None "+1"]
     "Pruning blockstore..." true
     ["가지 치기 블록 스토어 ..."]].

Definition ko_bitcoin_core_6 : list message :=
  [Message false [Loc None "+1"]
     "ReadStoredTx failed for %s" true
     ["ReadStoredTx %s에 대 한 실패"];
   Message false [Loc None "+1"]
     "Reducing -maxconnections from %d to %d, because of system limitations." true
     ["시스템 제한으로 인해 -maxconnections를 %d에서 %d로 줄입니다."];
   Message false [Loc None "+1"]
     "Replaying blocks..." true
     ["블록 재생 중..."];
   Message false [Loc None "+1"]
     "Rescanning..." true
     ["다시 검색..."];
   Message false [Loc None "+1"]
     "Rewinding blocks..." true
     ["블록 되감기..."];
   Message false [Loc None "+1"]
     "Ring size out of range [%d, %d]" true
     ["범위를 벗어난 링 크기 [%d, %d]"];
   Message false [Loc None "+1"]
     "Ring size out of range" true
     ["범위를 벗어난 링 크기"];
   Message false [Loc None "+1"]
     "Scan secret is not 32 bytes." true
     ["스캔 비밀은 32바이트가 아닙니다."];
   Message false [Loc None "+1"]
     "SetSetting failed." true
     ["SetSet설정에 실패했습니다."];
   Message false [Loc None "+1"]
     "Signing transaction failed" true
     ["서명 트랜잭션실패"];
   Message false [Loc None "+1"]
     "Specified -walletdir &quot;%s&quot; does not exist" true
     ["지정된 -walletdir &quot;%s&quot;가 존재하지 않습니다."];
   Message false [Loc None "+1"]
     "Specified -walletdir &quot;%s&quot; is a relative path" true
     ["지정된 -walletdir &quot;%s&quot;는 상대 경로입니다."];
   Message false [Loc None "+1"]
     "Specified -walletdir &quot;%s&quot; is not a directory" true
     ["지정된 -walletdir &quot;%s&quot;는 디렉토리가 아닙니다."];
   Message false [Loc None "+1"]
     "Specified blocks directory &quot;%s&quot; does not exist." true
     ["지정된 블록 디렉토리 &quot;%s&quot;가 존재하지 않습니다."];
   Message false [Loc None "+1"]
     "Spend secret is not 32 bytes." true
     ["지출 비밀은 32 바이트가 아닙니다."];
   Message false [Loc None "+1"]
     "Spend secret must be different to scan secret." true
     ["비밀을 스캔하기 위해 다른해야합니다 지출 비밀."];
   Message false [Loc None "+1"]
     "Stake your coins to support network and gain reward (default: true)" true
     ["네트워크를 지원하고 보상을 얻기 위해 동전을 지분 (기본 : 사실)"];
   Message false [Loc None "+1"]
     "Starting network threads..." true
     ["네트워크 스레드 시작 중..."];
   Message false [Loc None "+1"]
     "StealthSecret failed, try again." true
     ["스텔스비밀이 실패, 다시 시도."];
   Message false [Loc None "+1"]
     "The source code is available from %s." true
     ["소스 코드는 %s에서 사용할 수 있습니다."];
   Message false [Loc None "+1"]
     "The transaction amount is too small to pay the fee" true
     ["거래 금액이 너무 작아서 수수료를 지불할 수 없습니다."];
   Message false [Loc None "+1"]
     "The wallet will avoid paying less than the minimum relay fee." true
     ["지갑은 최소 릴레이 수수료보다 적은 금액을 지불하지 않습니다."];
   Message false [Loc None "+1"]
     "This is experimental software." true
     ["이것은 실험 소프트웨어입니다."];
   Message false [Loc None "+1"]
     "This is the minimum transaction fee you pay on every transaction." true
     ["이는 모든 거래에 대해 지불하는 최소 거래 수수료입니다."];
   Message false [Loc None "+1"]
     "This is the transaction fee you will pay if you send a transaction." true
     ["이 수수료는 거래를 보낼 때 지불할 거래 수수료입니다."];
   Message false [Loc None "+1"]
     "Transaction amount too small" true
     ["거래 금액이 너무 작음"];
   Message false [Loc None "+1"]
     "Transaction amounts must not be negative" true
     ["거래 금액은 음수여야 합니다."];
   Message false [Loc None "+1"]
     "Transaction amounts must not be negative." true
     ["트랜잭션 금액은 음수여야 합니다."];
   Message false [Loc None "+1"]
     "Transaction fee and change calculation failed" true
     ["거래 수수료 및 변경 계산실패"];
   Message false [Loc None "+1"]
     "Transaction fee and change calculation failed." true
     ["거래 수수료 및 변경 계산에 실패했습니다."]].

Definition ko_bitcoin_core_7 : list message :=
  [Message false [Loc None "+1"]
     "Transaction has too long of a mempool chain" true
     ["트랜잭션이 너무 긴 mempool 체인"];
   Message false [Loc None "+1"]
     "Transaction must have at least one recipient" true
     ["트랜잭션에는 받는 사람이 하나 이상 있어야 합니다."];
   Message false [Loc None "+1"]
     "Transaction must have at least one recipient." true
     ["트랜잭션에는 받는 사람이 하나 이상 있어야 합니다."];
   Message false [Loc None "+1"]
     "Transaction too large for fee policy" true
     ["수수료 정책에 너무 큰 거래"];
   Message false [Loc None "+1"]
     "Transaction too large for fee policy." true
     ["수수료 정책에 너무 큰 거래."];
   Message false [Loc None "+1"]
     "Transaction too large" true
     ["트랜잭션이 너무 큽"];
   Message false [Loc None "+1"]
     "TxnBegin failed." true
     ["TxnBegin이 실패했습니다."];
   Message false [Loc None "+1"]
     "Unable to bind to %s on this computer (bind returned error %s)" true
     ["이 컴퓨터에서 %s에 바인딩할 수 없음(반환된 오류 %s 바인딩)"];
   Message false [Loc None "+1"]
     "Unable to bind to %s on this computer. %s is probably already running." true
     ["이 컴퓨터에서 %s에 바인딩할 수 없습니다. %s는 이미 실행 중일 수 있습니다."];
   Message false [Loc None "+1"]
     "Unable to generate initial keys" true
     ["초기 키를 생성할 수 없음"];
   Message false [Loc None "+1"]
     "Unable to generate keys" true
     ["키를 생성할 수 없음"];
   Message false [Loc None "+1"]
     "Unable to start HTTP server. See debug log for details." true
     ["HTTP 서버를 시작할 수 없습니다. 자세한 내용은 디버그 로그를 참조하십시오."];
   Message false [Loc None "+1"]
     "Unknown account." true
     ["알 수 없는 계정입니다."];
   Message false [Loc None "+1"]
     "Unknown action, must be one of &apos;add/edit/del&apos;." true
     ["알 수 없는 작업은 &apos;추가/편집/del&apos; 중 하나여야 합니다."];
   Message false [Loc None "+1"]
     "Unknown argument for 256bithash: %s." true
     ["256bithash에 대한 알 수없는 인수 : %s."];
   Message false [Loc None "+1"]
     "Unknown argument for add_to_addressbook: %s." true
     ["add_to_주소록에 대한 알 수 없는 인수: %s."];
   Message false [Loc None "+1"]
     "Unknown chain." true
     ["알 수 없는 체인."];
   Message false [Loc None "+1"]
     "Unknown input key version." true
     ["알 수 없는 입력 키 버전입니다."];
   Message false [Loc None "+1"]
     "Unknown network specified in -onlynet: &apos;%s&apos;" true
     ["-onlynet에 지정된 알 수 없는 네트워크: &apos;%s&apos;"];
   Message false [Loc None "+1"]
     "Unknown setting" true
     ["알 수 없는 설정"];
   Message false [Loc None "+1"]
     "Unsupported argument -benchmark ignored, use -debug=bench." true
     ["지원되지 않는 인수 -벤치마크무시, -debug=벤치를 사용합니다."];
   Message false [Loc None "+1"]
     "Unsupported argument -debugnet ignored, use -debug=net." true
     ["지원되지 않는 인수 -debugnet 무시, 사용 -debug=net."];
   Message false [Loc None "+1"]
     "Unsupported argument -debugnet ignored, use -debug=smsg." true
     ["지원되지 않는 인수 -debugnet 무시, 사용 -debug=smsg."];
   Message false [Loc None "+1"]
     "Unsupported argument -tor found, use -onion." true
     ["지원되지 않는 인수 -tor가 발견되면 -onion을 사용합니다."];
   Message false [Loc None "+1"]
     "Unsupported logging category %s=%s." true
     ["지원되지 않는 로깅 범주 %s=%s."];
   Message false [Loc None "+1"]
     "Upgrading txindex database" true
     ["txindex 데이터베이스 업그레이드"];
   Message false [Loc None "+1"]
     "User Agent comment (%s) contains unsafe characters." true
     ["사용자 에이전트 주석(%s)에는 안전하지 않은 문자가 포함되어 있습니다."];
   Message false [Loc None "+1"]
     "Verifying blocks..." true
     ["블록 확인 중..."];
   Message false [Loc None "+1"]
     "Verifying wallet(s)..." true
     ["지갑 확인..."];
   Message false [Loc None "+1"]
     "Wallet %s resides outside wallet directory %s" true
     ["지갑 %s는 외부 지갑 디렉토리 %s에 상주"]].

Definition ko_bitcoin_core_8 : list message :=
  [Message false [Loc None "+1"]
     "Wallet has no active master key." true
     ["지갑에는 활성 마스터 키가 없습니다."];
   Message false [Loc None "+1"]
     "Wallet must be unlocked." true
     ["지갑을 잠금 해제해야 합니다."];
   Message false [Loc None "+1"]
     "Wallet must have a default account set." true
     ["지갑에는 기본 계정 집합이 있어야 합니다."];
   Message false [Loc None "+1"]
     "Wallet needed to be rewritten: restart %s to complete" true
     ["지갑을 다시 작성해야 합니다: %s를 다시 시작하여 완료합니다."];
   Message false [Loc None "+1"]
     "Warning" true
     ["경고"];
   Message false [Loc None "+1"]
     "Warning: unknown new rules activated (versionbit %i)" true
     ["경고: 알 수 없는 새 규칙이 활성화되었습니다(versionbit %i)"];
   Message false [Loc None "+1"]
     "You need to rebuild the database using -reindex to change -addressindex" true
     ["-addressindex를 변경하려면 -reindex를 사용하여 데이터베이스를 다시 빌드해야 합니다."];
   Message false [Loc None "+1"]
     "You need to rebuild the database using -reindex to change -spentindex" true
     ["-spentindex를 변경 하려면 -reindex를 사용 하 여 데이터베이스를 다시 빌드 해야 합니다."];
   Message false [Loc None "+1"]
     "Zapping all transactions from wallet..." true
     ["지갑에서 모든 거래를 Zapping ..."];
   Message false [Loc None "+1"]
     "accounts missing." true
     ["계정이 없습니다."];
   Message false [Loc None "+1"]
     "accounts must be an array." true
     ["계정은 배열이어야 합니다."];
   Message false [Loc None "+1"]
     "add_to_addressbook can&apos;t be set without save" true
     ["add_to_addressbook저장하지 않고 설정할 수 없습니다."];
   Message false [Loc None "+1"]
     "address_standard must be a string." true
     ["address_standard는 문자열이어야 합니다."];
   Message false [Loc None "+1"]
     "bad childNo." true
     ["나쁜 아이 아니오."];
   Message false [Loc None "+1"]
     "bech32 encode failed." true
     ["bech32 인코딩에 실패했습니다."];
   Message false [Loc None "+1"]
     "coldstakingaddress can&apos;t be a stealthaddress." true
     ["감기에 걸리는 주소는 스텔스 주소가 될 수 없습니다."];
   Message false [Loc None "+1"]
     "coldstakingaddress must be a string." true
     ["냉기주소는 끈이어야 합니다."];
   Message false [Loc None "+1"]
     "extkey must have private key to derive hardened keys." true
     ["extkey는 강화된 키를 파생하려면 개인 키가 있어야 합니다."];
   Message false [Loc None "+1"]
     "foundationdonationpercent must be a number." true
     ["기부퍼센트는 숫자여야 합니다."];
   Message false [Loc None "+1"]
     "height must be a number." true
     ["높이가 숫자여야 합니다."];
   Message false [Loc None "+1"]
     "loose_extkeys missing." true
     ["loose_extkeys가 없습니다."];
   Message false [Loc None "+1"]
     "loose_extkeys must be an array." true
     ["loose_extkeys는 배열이어야 합니다."];
   Message false [Loc None "+1"]
     "num_derives to int failed." true
     ["num_derives to int 실패."];
   Message false [Loc None "+1"]
     "num_derives_h to int failed." true
     ["num_derives_h int실패."];
   Message false [Loc None "+1"]
     "num_prefix_bits invalid number." true
     ["num_접두사_비트가 잘못된 번호입니다."];
   Message false [Loc None "+1"]
     "num_prefix_bits must be &lt;= 32." true
     ["num_접두사_비트는&lt;= 32.&gt;&lt;/= 32.&gt;"];
   Message false [Loc None "+1"]
     "rewardaddress must be a string." true
     ["보상 주소는 문자열이어야 합니다."];
   Message false [Loc None "+1"]
     "secp256k1_generate_mlsag failed %d" true
     ["secp256k1_generate_mlsag 실패 %d"];
   Message false [Loc None "+1"]
     "secp256k1_get_keyimage failed %d" true
     ["secp256k1_get_keyimage 실패 %d"];
   Message false [Loc None "+1"]
     "secp256k1_prepare_mlsag failed %d" true
     ["secp256k1_prepare_mlsag 실패 %d"]].

Definition ko_bitcoin_core_9 : list message :=
  [Message false [Loc None "+1"]
     "stakecombinethreshold can&apos;t be negative." true
     ["스테이크결합임계값은 음수일 수 없습니다."];
   Message false [Loc None "+1"]
     "stakesplitthreshold can&apos;t be negative." true
     ["지분 분할 임계값은 음수일 수 없습니다."]].

(** The whole document. *)
Definition bitcoin_ko_KR : catalogue :=
  [Context "AddressBookPage" (ko_AddressBookPage_1 ++ ko_AddressBookPage_2);
   Context "AddressTableModel" (ko_AddressTableModel);
   Context "AskPassphraseDialog" (ko_AskPassphraseDialog_1 ++ ko_AskPassphraseDialog_2);
   Context "BanTableModel" (ko_BanTableModel);
   Context "BitcoinGUI" (ko_BitcoinGUI_1 ++ ko_BitcoinGUI_2 ++ ko_BitcoinGUI_3 ++ ko_BitcoinGUI_4);
   Context "CoinControlDialog" (ko_CoinControlDialog_1 ++ ko_CoinControlDialog_2);
   Context "EditAddressDialog" (ko_EditAddressDialog);
   Context "FreespaceChecker" (ko_FreespaceChecker);
   Context "HelpMessageDialog" (ko_HelpMessageDialog);
   Context "Intro" (ko_Intro);
   Context "MnemonicDialog" (ko_MnemonicDialog_1 ++ ko_MnemonicDialog_2);
   Context "ModalOverlay" (ko_ModalOverlay);
   Context "OpenURIDialog" (ko_OpenURIDialog);
   Context "OptionsDialog" (ko_OptionsDialog_1 ++ ko_OptionsDialog_2 ++ ko_OptionsDialog_3);
   Context "OverviewPage" (ko_OverviewPage);
   Context "PaymentServer" (ko_PaymentServer);
   Context "PeerTableModel" (ko_PeerTableModel);
   Context "QObject" (ko_QObject);
   Context "QObject::QObject" (ko_QObject__QObject);
   Context "QRImageWidget" (ko_QRImageWidget);
   Context "RPCConsole" (ko_RPCConsole_1 ++ ko_RPCConsole_2 ++ ko_RPCConsole_3);
   Context "ReceiveCoinsDialog" (ko_ReceiveCoinsDialog);
   Context "ReceiveRequestDialog" (ko_ReceiveRequestDialog);
   Context "RecentRequestsTableModel" (ko_RecentRequestsTableModel);
   Context "SendCoinsDialog" (ko_SendCoinsDialog_1 ++ ko_SendCoinsDialog_2 ++ ko_SendCoinsDialog_3);
   Context "SendCoinsEntry" (ko_SendCoinsEntry_1 ++ ko_SendCoinsEntry_2);
   Context "SendConfirmationDialog" (ko_SendConfirmationDialog);
   Context "ShutdownWindow" (ko_ShutdownWindow);
   Context "SignVerifyMessageDialog" (ko_SignVerifyMessageDialog_1 ++ ko_SignVerifyMessageDialog_2);
   Context "SplashScreen" (ko_SplashScreen);
   Context "StakingDialog" (ko_StakingDialog_1 ++ ko_StakingDialog_2);
   Context "TrafficGraphWidget" (ko_TrafficGraphWidget);
   Context "TransactionDesc" (ko_TransactionDesc_1 ++ ko_TransactionDesc_2);
   Context "TransactionDescDialog" (ko_TransactionDescDialog);
   Context "TransactionTableModel" (ko_TransactionTableModel_1 ++ ko_TransactionTableModel_2);
   Context "TransactionView" (ko_TransactionView_1 ++ ko_TransactionView_2);
   Context "TxViewDelegate" (ko_TxViewDelegate);
   Context "UnitDisplayStatusBarControl" (ko_UnitDisplayStatusBarControl);
   Context "WalletFrame" (ko_WalletFrame);
   Context "WalletModel" (ko_WalletModel);
   Context "WalletView" (ko_WalletView);
   Context "bitcoin-core" (ko_bitcoin_core_1 ++ ko_bitcoin_core_2 ++ ko_bitcoin_core_3 ++ ko_bitcoin_core_4 ++ ko_bitcoin_core_5 ++ ko_bitcoin_core_6 ++ ko_bitcoin_core_7 ++ ko_bitcoin_core_8 ++ ko_bitcoin_core_9)].
