(* ===== verification/CatalogueNb.v ===== *)
(** The Norwegian catalogue, [src/src/qt/locale/bitcoin_nb_NO.ts], context by context; a long
    context is cut into parts.  Texts are as in the file. *)
From S2P Require Import Prelude Locale.
Open Scope txt_scope.
Open Scope list_scope.

Definition nb_AddressBookPage_1 : list message :=
  [Message false [Loc (Some "../forms/addressbookpage.ui") "+27"]
     "Enter address or label to search" true
     ["Angi adresse eller etikett for søk"];
   Message false [Loc None "+10"]
     "Right-click to edit address or label" true
     ["Høyreklikk for å redigere adresse eller etikett"];
   Message false [Loc None "+30"; Loc None "+17"; Loc None "+17"]
     "Create a new address" true
     ["Opprette en ny adresse"];
   Message false [Loc None "-31"]
     "&amp;New" true
     ["&amp; Nyhet"];
   Message false [Loc None "+17"]
     "&amp;New Stake address" true
     ["&amp; Ny stavs adresse"];
   Message false [Loc None "+17"]
     "&amp;New ColdStake address" true
     ["&amp; Ny ColdStake-adresse"];
   Message false [Loc None "+14"]
     "Copy the currently selected address to the system clipboard" true
     ["Kopier den valgte adressen til systemutklippstavlen"];
   Message false [Loc None "+3"]
     "&amp;Copy" true
     ["&amp; Kopier"];
   Message false [Loc None "+14"]
     "Delete the currently selected address from the list" true
     ["Slett den valgte adressen fra listen"];
   Message false [Loc None "+3"]
     "&amp;Delete" true
     ["&amp; Slett"];
   Message false [Loc None "+27"]
     "Export the data in the current tab to a file" true
     ["Eksportere dataene i den gjeldende fanen til en fil"];
   Message false [Loc None "+3"]
     "&amp;Export" true
     ["&amp; Eksport"];
   Message false [Loc None "+20"]
     "C&amp;lose" true
     ["C&amp;lose"];
   Message false [Loc (Some "../addressbookpage.cpp") "+84"]
     "These are your Bitcoin Confidential addresses for sending payments. Always check the amount and the receiving address before sending coins." true
     ["Dette er dine Bitcoin konfidensielle adresser for å sende betalinger. Kontroller alltid beløpet og mottaks adressen før du sender mynter."];
   Message false [Loc None "+8"]
     "Choose the address to send coins to" true
     ["Velg adressen du vil sende mynter til"];
   Message false [Loc None "+4"; Loc None "+22"; Loc None "+28"]
     "C&amp;hoose" true
     ["C&amp;hoose"];
   Message false [Loc None "-44"]
     "Sending addresses" true
     ["Sende adresser"];
   Message false [Loc None "+12"]
     "Choose the address to receive coins with" true
     ["Velg adressen du vil motta mynter med"];
   Message false [Loc None "+10"]
     "Receiving addresses" true
     ["Motta adresser"];
   Message false [Loc None "+1"]
     "These are your Bitcoin Confidential addresses for receiving payments. It is recommended to use a new receiving address for each transaction." true
     ["Dette er dine Bitcoin konfidensielle adresser for å motta betalinger. Det anbefales å bruke en ny mottaksadresse for hver transaksjon."];
   Message false [Loc None "+13"]
     "Choose the Stake or ColdStake address" true
     ["Velg stavs-eller ColdStake-adressen"];
   Message false [Loc None "+1"]
     "These are your Bitcoin Confidential Stake and ColdStake addresses." true
     ["Dette er din Bitcoin-konfidensielle innsats og ColdStake-adresser."];
   Message false [Loc None "+16"]
     "Stake and ColdStake addresses" true
     ["Stavs-og ColdStake-adresser"];
   Message false [Loc None "+1"]
     "These addresses cannot be used to receive coins from outside the wallet, such as payments or from exchanges.  Use the Receive tab to generate spending addresses.

Stake addresses, starting with &quot;%1&quot;, are used to convert spending funds into staking funds in the &quot;Convert to Staking&quot; tab. Funds in Stake addresses can be either used for hot staking or the activation of ColdStaking.

ColdStake addresses, starting with &quot;%2&quot;, are used to manually activate staking funds for ColdStaking. There is no need to generate ColdStake addresses when the automated ColdStaking activation from the Staking Status page is used." true
     ["Disse adressene kan ikke brukes til å motta mynter utenfor lommeboken, for eksempel betalinger eller fra Børs.  Bruk kategorien motta til å generere forbruks adresser.

Innsats adresser, som starter med &quot;% 1&quot;, brukes til å konvertere forbruks midler til innsatsmidler i &quot;Konverter til staking&quot;-fanen. midler i stavens adresser kan enten brukes til aktive innsatser eller aktivering av ColdStaking.

ColdStake-adresser, som starter med &quot;% 2&quot;, brukes til å aktivere innsatsmidler for ColdStaking manuelt. Det er ikke nødvendig å generere ColdStake-adresser når den automatiserte ColdStaking-aktiveringen fra siden innsats status brukes."];
   Message false [Loc None "+11"]
     "&amp;Copy Address" true
     ["&amp; Kopier adresse"];
   Message false [Loc None "+1"]
     "Copy &amp;Label" true
     ["Kopier &amp; etikett"];
   Message false [Loc None "+1"]
     "&amp;Edit" true
     ["&amp; Rediger"]].

Definition nb_AddressBookPage_2 : list message :=
  [Message false [Loc None "+186"]
     "Export Address List" true
     ["Liste over eksporterte adresser"];
   Message false [Loc None "+1"]
     "Comma separated file (*.csv)" true
     ["Kommadelt fil (*. csv)"];
   Message false [Loc None "+13"]
     "Exporting Failed" true
     ["Eksport mislyktes"];
   Message false [Loc None "+1"]
     "There was an error trying to save the address list to %1. Please try again." true
     ["Det oppstod en feil under forsøk på å lagre adresselisten til% 1. Vennligst prøv igjen."]].

Definition nb_AddressTableModel : list message :=
  [Message false [Loc (Some "../addresstablemodel.cpp") "+188"]
     "Label" true
     ["Etiketten"];
   Message false [Loc None "+0"]
     "Address" true
     ["Adresse"];
   Message false [Loc None "+36"]
     "(no label)" true
     ["(ingen etikett)"]].

Definition nb_AskPassphraseDialog_1 : list message :=
  [Message false [Loc (Some "../forms/askpassphrasedialog.ui") "+26"]
     "Passphrase Dialog" true
     ["Dialog boks for passfrase"];
   Message false [Loc None "+30"]
     "Enter passphrase" true
     ["Angi passfrase"];
   Message false [Loc None "+14"]
     "New passphrase" true
     ["Ny passfrase"];
   Message false [Loc None "+14"]
     "Repeat new passphrase" true
     ["Gjenta ny passfrase"];
   Message false [Loc None "+14"]
     "Show password" true
     ["Vis passord"];
   Message false [Loc None "+23"]
     "Unlock For Staking Only" true
     ["Lås opp for staking bare"];
   Message false [Loc (Some "../askpassphrasedialog.cpp") "+48"]
     "Enter the new passphrase to the wallet.&lt;br/&gt;Please use a passphrase of &lt;b&gt;ten or more random characters&lt;/b&gt;, or &lt;b&gt;eight or more words&lt;/b&gt;." true
     ["Angi den nye passfrase til lommeboken.&lt;br&gt;Vennligst bruk en passfrase på &lt;b&gt;ti eller flere tilfeldige tegn&lt;/b&gt;, eller &lt;b&gt;åtte eller flere ord&lt;/b&gt;."];
   Message false [Loc None "+3"]
     "Encrypt wallet" true
     ["Krypter lommebok"];
   Message false [Loc None "+3"; Loc None "+8"]
     "This operation needs your wallet passphrase to unlock the wallet." true
     ["Denne operasjonen trenger din lommebok passfrase for å låse opp lommeboken."];
   Message false [Loc None "-3"; Loc None "+9"]
     "Unlock wallet" true
     ["Lås opp lommebok"];
   Message false [Loc None "+3"]
     "This operation needs your wallet passphrase to decrypt the wallet." true
     ["Denne operasjonen trenger din lommebok passfrase for å dekryptere lommeboken."];
   Message false [Loc None "+5"]
     "Decrypt wallet" true
     ["Dekryptere lommeboken"];
   Message false [Loc None "+3"]
     "Change passphrase" true
     ["Endre passfrase"];
   Message false [Loc None "+1"]
     "Enter the old passphrase and new passphrase to the wallet." true
     ["Skriv inn den gamle passfrase og ny passfrase til lommeboken."];
   Message false [Loc None "+47"]
     "Confirm wallet encryption" true
     ["Bekreft kryptering av lommebok"];
   Message false [Loc None "+1"]
     "Warning: If you encrypt your wallet and lose your passphrase, you will &lt;b&gt;LOSE ALL OF YOUR BITCOIN CONFIDENTIAL&lt;/b&gt;!" true
     ["Advarsel: Hvis du krypterer lommeboken og mister passfrase, vil du &lt;b&gt;miste all din BITCOIN konfidensielt&lt;/b&gt;!"];
   Message false [Loc None "+0"]
     "Are you sure you wish to encrypt your wallet?" true
     ["Er du sikker på at du vil kryptere lommeboken?"];
   Message false [Loc None "+9"; Loc None "+59"]
     "Wallet encrypted" true
     ["Lommebok kryptert"];
   Message false [Loc None "-57"]
     "%1 will close now to finish the encryption process. Remember that encrypting your wallet cannot fully protect your Bitcoin Confidential from being stolen by malware infecting your computer." true
     ["% 1 avsluttes nå for å fullføre krypteringsprosessen. Husk at kryptering av lommeboken din ikke kan beskytte din Bitcoin konfidensielt fra å bli stjålet av malware infiserer datamaskinen."];
   Message false [Loc None "+4"]
     "IMPORTANT: Any previous backups you have made of your wallet file should be replaced with the newly generated, encrypted wallet file. For security reasons, previous backups of the unencrypted wallet file will become useless as soon as you start using the new, encrypted wallet." true
     ["VIKTIG: alle tidligere sikkerhetskopier du har gjort av lommeboken filen bør erstattes med den nylig genererte, krypterte lommeboken fil. Av sikkerhetsmessige årsaker vil tidligere sikkerhetskopier av den ukrypterte lommebok filen bli ubrukelig så snart du begynner å bruke den nye, krypterte lommeboken."];
   Message false [Loc None "+9"; Loc None "+7"; Loc None "+43"; Loc None "+6"]
     "Wallet encryption failed" true
     ["Lommebok kryptering mislyktes"];
   Message false [Loc None "-55"]
     "Wallet encryption failed due to an internal error. Your wallet was not encrypted." true
     ["Lommebok kryptering mislyktes på grunn av en intern feil. Lommeboken din ble ikke kryptert."];
   Message false [Loc None "+7"; Loc None "+49"]
     "The supplied passphrases do not match." true
     ["Den angitte passfraser samsvarer ikke."];
   Message false [Loc None "-37"]
     "Wallet unlock failed" true
     ["Opplåsing av lommebok mislyktes"];
   Message false [Loc None "+1"; Loc None "+11"; Loc None "+19"]
     "The passphrase entered for the wallet decryption was incorrect." true
     ["Passfrase som ble angitt for lommeboken dekryptering, var feil."];
   Message false [Loc None "-20"]
     "Wallet decryption failed" true
     ["Dekryptering av lommebok mislyktes"];
   Message false [Loc None "+14"]
     "Wallet passphrase was successfully changed." true
     ["Lommebok passfrase ble endret."]].

Definition nb_AskPassphraseDialog_2 : list message :=
  [Message false [Loc None "+48"; Loc None "+33"]
     "Warning: The Caps Lock key is on!" true
     ["Advarsel: Caps Lock-tasten er på!"]].

Definition nb_BanTableModel : list message :=
  [Message false [Loc (Some "../bantablemodel.cpp") "+88"]
     "IP/Netmask" true
     ["IP/nettmaske"];
   Message false [Loc None "+0"]
     "Banned Until" true
     ["Utestengt inntil"]].

Definition nb_BitcoinGUI_1 : list message :=
  [Message false [Loc (Some "../bitcoingui.cpp") "+94"]
     "Wallet" true
     ["Lommebok"];
   Message false [Loc None "+2"]
     "Node" true
     ["Node"];
   Message false [Loc None "+169"]
     "Overview" true
     ["Oversikt over"];
   Message false [Loc None "+1"]
     "Show general overview of wallet" true
     ["Vis generell oversikt over lommeboken"];
   Message false [Loc None "+7"]
     "Send" true
     ["Sende"];
   Message false [Loc None "+1"]
     "Send coins to a Bitcoin Confidential Spending address" true
     ["Send mynter til en Bitcoin-konfidensiell forbruks adresse"];
   Message false [Loc None "+11"]
     "Receive" true
     ["Motta"];
   Message false [Loc None "+1"]
     "Request payments (generates Spending address QR codes and bitcoinc: URIs)" true
     ["Be om betalinger (genererer forbruks adresse QR-koder og bitcoinc: URIer)"];
   Message false [Loc None "+11"]
     "Transactions" true
     ["Transaksjoner"];
   Message false [Loc None "+1"]
     "Browse transaction history" true
     ["Bla gjennom transaksjonslogg"];
   Message false [Loc None "+7"]
     "Staking" true
     ["Staking"];
   Message false [Loc None "+1"]
     "Setup staking" true
     ["Sette opp innsatser"];
   Message false [Loc None "+25"]
     "E&amp;xit" true
     ["E&amp;xit"];
   Message false [Loc None "+1"]
     "Quit application" true
     ["Avslutt program"];
   Message false [Loc None "+3"]
     "&amp;About %1" true
     ["&amp; Om% 1"];
   Message false [Loc None "+1"]
     "Show information about %1" true
     ["Vis informasjon om% 1"];
   Message false [Loc None "+3"]
     "About &amp;Qt" true
     ["Om &amp; QT"];
   Message false [Loc None "+1"]
     "Show information about Qt" true
     ["Vis informasjon om QT"];
   Message false [Loc None "+2"]
     "&amp;Options..." true
     ["&amp; Alternativer..."];
   Message false [Loc None "+1"]
     "Modify configuration options for %1" true
     ["Endre konfigurasjonsalternativer for% 1"];
   Message false [Loc None "+3"]
     "&amp;Show / Hide" true
     ["&amp; Vis/Skjul"];
   Message false [Loc None "+1"]
     "Show or hide the main Window" true
     ["Vise eller skjule hovedvinduet"];
   Message false [Loc None "+2"]
     "&amp;Encrypt Wallet..." true
     ["&amp; Krypter lommebok..."];
   Message false [Loc None "+1"]
     "Encrypt the private keys that belong to your wallet" true
     ["Kryptere private nøkler som tilhører lommeboken"];
   Message false [Loc None "+2"]
     "&amp;Backup Wallet..." true
     ["&amp; Backup lommebok..."];
   Message false [Loc None "+1"]
     "Backup wallet to another location" true
     ["Backup lommebok til et annet sted"];
   Message false [Loc None "+1"]
     "&amp;Change Passphrase..." true
     ["&amp; Endre passfrase..."];
   Message false [Loc None "+1"]
     "Change the passphrase used for wallet encryption" true
     ["Endre passordet som brukes for lommebok kryptering"];
   Message false [Loc None "+1"]
     "Sign &amp;message..." true
     ["Logg &amp; melding..."]].

Definition nb_BitcoinGUI_2 : list message :=
  [Message false [Loc None "+1"]
     "Sign messages with your Bitcoin Confidential addresses to prove you own them" true
     ["Signer meldinger med Bitcoin-konfidensielle adresser for å bevise at du eier dem"];
   Message false [Loc None "+1"]
     "&amp;Verify message..." true
     ["&amp; Kontroller meldingen..."];
   Message false [Loc None "+1"]
     "Verify messages to ensure they were signed with specified Bitcoin Confidential addresses" true
     ["Bekreft meldinger for å sikre at de er signert med angitte Bitcoin-konfidensielle adresser"];
   Message false [Loc None "+2"]
     "&amp;Debug window" true
     ["&amp; Debug-vindu"];
   Message false [Loc None "+1"]
     "Open debugging and diagnostic console" true
     ["Åpne feilsøkings-og Diagnosekonsoll"];
   Message false [Loc None "+4"]
     "&amp;Sending addresses..." true
     ["&amp; Sender adresser..."];
   Message false [Loc None "+1"]
     "Show the list of used sending addresses and labels" true
     ["Vis listen over brukte avsenderadresser og etiketter"];
   Message false [Loc None "+1"]
     "&amp;Receiving addresses..." true
     ["&amp; Mottar adresser..."];
   Message false [Loc None "+1"]
     "Show the list of used receiving addresses and labels" true
     ["Vis listen over brukte mottaksadresser og etiketter"];
   Message false [Loc None "+2"]
     "Open &amp;URI..." true
     ["Åpne &amp;-URI..."];
   Message false [Loc None "+1"]
     "Open a bitcoinc: URI or payment request" true
     ["Åpne en bitcoinc: URI eller betalingsforespørsel"];
   Message false [Loc None "+2"]
     "&amp;Command-line options" true
     ["&amp; Kommandolinjealternativer"];
   Message false [Loc None "+2"]
     "Show the %1 help message to get a list with possible Bitcoin Confidential command-line options" true
     ["Vis hjelp-meldingen% 1 for å få en liste med mulige kommandolinjealternativer for Bitcoin-konfidensielt"];
   Message false [Loc None "+2"]
     "&amp;HD Wallet..." true
     ["&amp; HD lommebok..."];
   Message false [Loc None "+45"]
     "&amp;File" true
     ["&amp;-Fil"];
   Message false [Loc None "+16"]
     "&amp;Settings" true
     ["&amp; Innstillinger"];
   Message false [Loc None "+9"]
     "&amp;Help" true
     ["&amp; Hjelp"];
   Message false [Loc None "+15"]
     "Tabs toolbar" true
     ["Verktøylinje for faner"];
   Message false [Loc None "+113"]
     "default wallet" true
     ["standard lommebok"];
   Message false [Loc None "+88"]
     "%1 client" true
     ["% 1-klient"];
   Message true [Loc None "+189"]
     "%n active connection(s) to Bitcoin Confidential network" true
     ["% n aktiv tilkobling (er) til Bitcoin konfidensielt nettverk"; "% n aktiv tilkobling (er) til Bitcoin konfidensielt nettverk"];
   Message false [Loc None "+0"]
     "Click to disable network activity." true
     ["Klikk for å deaktivere nettverksaktivitet."];
   Message false [Loc None "+2"]
     "Network activity disabled." true
     ["Nettverksaktivitet deaktivert."];
   Message false [Loc None "+0"]
     "Click to enable network activity again." true
     ["Klikk for å aktivere nettverksaktivitet på nytt."];
   Message false [Loc None "+28"]
     "Syncing Headers (%1%)..." true
     ["Synkroniserer meldingshoder (% 1%)..."];
   Message false [Loc None "+26"]
     "Synchronizing with network..." true
     ["Synkroniserer med nettverk..."];
   Message false [Loc None "+5"]
     "Indexing blocks on disk..." true
     ["Indekserer blokker på disk..."];
   Message false [Loc None "+2"]
     "Processing blocks on disk..." true
     ["Behandler blokker på disk..."];
   Message false [Loc None "+4"]
     "Reindexing blocks on disk..." true
     ["Indekseringen blokker på disken..."];
   Message false [Loc None "+6"]
     "Connecting to peers..." true
     ["Kobler til jevnaldrende..."]].

Definition nb_BitcoinGUI_3 : list message :=
  [Message true [Loc None "+9"]
     "Processed %n block(s) of transaction history." true
     ["Behandlet% n blokk (er) i transaksjonsloggen."; "Behandlet% n blokk (er) i transaksjonsloggen."];
   Message false [Loc None "+5"]
     "Up to date" true
     ["oppdatert"];
   Message false [Loc None "+19"]
     "%1 behind" true
     ["% 1 bak"];
   Message false [Loc None "+5"]
     "Catching up..." true
     ["Fanger opp..."];
   Message false [Loc None "+19"]
     "Last received block was generated %1 ago." true
     ["Sist mottatte blokk ble generert% 1 siden."];
   Message false [Loc None "+2"]
     "Transactions after this will not yet be visible." true
     ["Transaksjoner etter dette vil ennå ikke være synlige."];
   Message false [Loc None "+13"]
     "Bitcoin Confidential" true
     ["Konfidensielt for Bitcoin"];
   Message false [Loc None "+14"]
     "Error" true
     ["Feil"];
   Message false [Loc None "+3"]
     "Warning" true
     ["Advarsel"];
   Message false [Loc None "+3"]
     "Information" true
     ["Informasjon"];
   Message false [Loc None "+116"]
     "Date: %1
" true
     ["Dato:% 1"];
   Message false [Loc None "+1"]
     "Amount: %1
" true
     ["Beløp:% 1"];
   Message false [Loc None "+2"]
     "Wallet: %1
" true
     ["Lommebok:% 1"];
   Message false [Loc None "+2"]
     "Type: %1
" true
     ["Type:% 1"];
   Message false [Loc None "+2"]
     "Label: %1
" true
     ["Etikett:% 1"];
   Message false [Loc None "+2"]
     "Address: %1
" true
     ["Adresse:% 1"];
   Message false [Loc None "+1"]
     "Sent transaction" true
     ["Sendt transaksjon"];
   Message false [Loc None "+0"]
     "Incoming transaction" true
     ["Innkommende transaksjon"];
   Message false [Loc None "+52"]
     "HD key generation is &lt;b&gt;enabled&lt;/b&gt;" true
     ["HD nøkkel generasjon er &lt;b&gt;satt i stand&lt;/b&gt; til"];
   Message false [Loc None "+0"]
     "HD key generation is &lt;b&gt;disabled&lt;/b&gt;" true
     ["HD nøkkel generasjon er &lt;b&gt;ufør&lt;/b&gt;"];
   Message false [Loc None "+13"]
     "Wallet is &lt;b&gt;not encrypted&lt;/b&gt;. Click the opened lock to encrypt it." true
     ["Lommeboken er &lt;b&gt;ikke kryptert&lt;/b&gt;. Klikk på den åpne låsen for å kryptere den."];
   Message false [Loc None "+8"]
     "Wallet is &lt;b&gt;encrypted&lt;/b&gt; and currently &lt;b&gt;unlocked&lt;/b&gt;" true
     ["Lommeboken er &lt;b&gt;kryptert&lt;/b&gt; og for øyeblikket &lt;b&gt;ulåst&lt;/b&gt;"];
   Message false [Loc None "+8"]
     "Wallet is &lt;b&gt;encrypted&lt;/b&gt; and currently &lt;b&gt;unlocked&lt;/b&gt; for staking only" true
     ["Lommeboken er &lt;b&gt;kryptert&lt;/b&gt; og er for øyeblikket &lt;b&gt;ulåst&lt;/b&gt; bare for staking"];
   Message false [Loc None "+8"]
     "Wallet is &lt;b&gt;encrypted&lt;/b&gt; and currently &lt;b&gt;locked&lt;/b&gt;" true
     ["Lommeboken er &lt;b&gt;kryptert&lt;/b&gt; og for øyeblikket &lt;b&gt;låst&lt;/b&gt;"];
   Message false [Loc None "+58"]
     "Proxy is &lt;b&gt;enabled&lt;/b&gt;: %1" true
     ["Proxy er &lt;b&gt;aktivert&lt;/b&gt;:% 1"];
   Message false [Loc None "+28"]
     "Tor is &lt;b&gt;enabled&lt;/b&gt;" true
     ["Tor er &lt;b&gt;aktivert&lt;/b&gt;"];
   Message false [Loc None "+3"]
     "Tor is &lt;b&gt;enabled&lt;/b&gt;, but its not the only network used. Use only onlynet=onion." true
     ["Tor er &lt;b&gt;aktivert&lt;/b&gt;, men det er ikke det eneste nettverket som brukes. Bruk bare onlynet = løk."];
   Message false [Loc None "+3"]
     "Tor is &lt;b&gt;disabled&lt;/b&gt;. To enhance your privacy setup consider using tor by setting &lt;b&gt;onlynet=onion&lt;/b&gt; in your &lt;b&gt;bitcoinc.conf&lt;/b&gt;." true
     ["Tor er &lt;b&gt;deaktivert&lt;/b&gt;. For å forbedre personvernet oppsett vurdere å bruke Tor ved å sette &lt;b&gt;onlynet = løk&lt;/b&gt; i &lt;b&gt;bitcoinc. conf&lt;/b&gt;."]].

Definition nb_BitcoinGUI_4 : list message :=
  [Message false [Loc (Some "../bitcoin.cpp") "+528"]
     "A fatal error occurred. Bitcoin Confidential can no longer continue safely and will quit." true
     ["Det oppstod en uopprettelig feil. Bitcoin konfidensielt kan ikke lenger fortsette trygt og avsluttes."]].

Definition nb_CoinControlDialog_1 : list message :=
  [Message false [Loc (Some "../forms/coincontroldialog.ui") "+14"]
     "Coin Selection" true
     ["Mynt valg"];
   Message false [Loc None "+34"]
     "Quantity:" true
     ["Antall:"];
   Message false [Loc None "+29"]
     "Bytes:" true
     ["Byte:"];
   Message false [Loc None "+45"]
     "Amount:" true
     ["Beløpet:"];
   Message false [Loc None "+32"]
     "Dust:" true
     ["Støv:"];
   Message false [Loc None "+48"]
     "Fee:" true
     ["Avgift:"];
   Message false [Loc None "+45"]
     "After Fee:" true
     ["Etter Fee:"];
   Message false [Loc None "+32"]
     "Change:" true
     ["Endre:"];
   Message false [Loc None "+57"]
     "Standard" true
     ["Standard"];
   Message false [Loc None "+5"]
     "Anon" true
     ["Anon"];
   Message false [Loc None "+14"]
     "Show all" true
     ["Vis alle"];
   Message false [Loc None "+13"]
     "(un)select all" true
     ["(un) Velg alle"];
   Message false [Loc None "+16"]
     "Tree mode" true
     ["Tree-modus"];
   Message false [Loc None "+13"]
     "List mode" true
     ["Liste-modus"];
   Message false [Loc None "+74"]
     "Amount" true
     ["Beløpet"];
   Message false [Loc None "+8"]
     "Received with label" true
     ["Mottatt med etikett"];
   Message false [Loc None "+5"]
     "Received with address" true
     ["Mottatt med adresse"];
   Message false [Loc None "+5"]
     "Date" true
     ["Dato"];
   Message false [Loc None "+5"]
     "Confirmations" true
     ["Bekreftelser"];
   Message false [Loc None "+3"]
     "Confirmed" true
     ["Bekreftet"];
   Message false [Loc (Some "../coincontroldialog.cpp") "+73"]
     "Copy address" true
     ["Kopier adresse"];
   Message false [Loc None "+1"]
     "Copy label" true
     ["Kopier etikett"];
   Message false [Loc None "+1"; Loc None "+26"]
     "Copy amount" true
     ["Kopier beløp"];
   Message false [Loc None "-25"]
     "Copy transaction ID" true
     ["Kopier transaksjons-ID"];
   Message false [Loc None "+1"]
     "Lock unspent" true
     ["Lås ubrukte"];
   Message false [Loc None "+1"]
     "Unlock unspent" true
     ["Lås opp ubrukte"];
   Message false [Loc None "+22"]
     "Copy quantity" true
     ["Kopier antall"];
   Message false [Loc None "+2"]
     "Copy fee" true
     ["Kopier avgift"];
   Message false [Loc None "+1"]
     "Copy after fee" true
     ["Kopier etter avgift"]].

Definition nb_CoinControlDialog_2 : list message :=
  [Message false [Loc None "+1"]
     "Copy bytes" true
     ["Kopier byte"];
   Message false [Loc None "+1"]
     "Copy dust" true
     ["Kopier støv"];
   Message false [Loc None "+1"]
     "Copy change" true
     ["Kopier endring"];
   Message false [Loc None "+340"]
     "(%1 locked)" true
     ["(% 1 låst)"];
   Message false [Loc None "+161"]
     "yes" true
     ["ja"];
   Message false [Loc None "+0"]
     "no" true
     ["nei"];
   Message false [Loc None "+14"]
     "This label turns red if any recipient receives an amount smaller than the current dust threshold." true
     ["Denne etiketten blir rød hvis en mottaker mottar et beløp som er mindre enn den gjeldende støv terskelen."];
   Message false [Loc None "+5"]
     "Can vary +/- %1 satoshi(s) per input." true
     ["Kan variere +/-% 1 Satoshi (er) per inn data."];
   Message false [Loc None "+47"]
     "Hide immature" true
     ["Skjul umodne"];
   Message false [Loc None "+2"]
     "Hide locked" true
     ["Skjul låste"];
   Message false [Loc None "+6"]
     "Show immature" true
     ["Vis umodne"];
   Message false [Loc None "+2"]
     "Show locked" true
     ["Vis låste"];
   Message false [Loc None "+26"; Loc None "+66"; Loc None "+11"]
     "(no label)" true
     ["(ingen etikett)"];
   Message false [Loc None "-19"]
     "change from %1 (%2)" true
     ["endring fra% 1 (% 2)"];
   Message false [Loc None "+1"; Loc None "+20"]
     "(change)" true
     ["endre"];
   Message false [Loc None "-17"]
     "spending from %1 (%2)" true
     ["forbruk fra% 1 (% 2)"]].

Definition nb_EditAddressDialog : list message :=
  [Message false [Loc (Some "../forms/editaddressdialog.ui") "+14"]
     "Edit Address" true
     ["Rediger adresse"];
   Message false [Loc None "+11"]
     "&amp;Label" true
     ["&amp; Etikett"];
   Message false [Loc None "+10"]
     "The label associated with this address list entry" true
     ["Etiketten som er knyttet til denne adresseliste oppføringen"];
   Message false [Loc None "+7"]
     "&amp;Address" true
     ["&amp; Adresse"];
   Message false [Loc None "+10"]
     "The address associated with this address list entry. This can only be modified for sending addresses." true
     ["Adressen som er knyttet til denne adresseliste oppføringen. Dette kan bare endres for å sende adresser."];
   Message false [Loc (Some "../editaddressdialog.cpp") "+29"]
     "New receiving address" true
     ["Ny mottaksadresse"];
   Message false [Loc None "+5"]
     "New sending address" true
     ["Ny avsenderadresse"];
   Message false [Loc None "+3"]
     "New Stake address" true
     ["Ny stavs adresse"];
   Message false [Loc None "+5"]
     "New ColdStake address" true
     ["Ny ColdStake-adresse"];
   Message false [Loc None "+5"]
     "Edit receiving address" true
     ["Rediger mottaksadresse"];
   Message false [Loc None "+4"]
     "Edit sending address" true
     ["Rediger avsenderadresse"];
   Message false [Loc None "+87"]
     "The entered address &quot;%1&quot; is not a valid Bitcoin Confidential address." true
     ["Den angitte adressen% 1 er ikke en gyldig Bitcoin-konfidensiell adresse."];
   Message false [Loc None "+10"]
     "Could not unlock wallet." true
     ["Kan ikke låse opp lommeboken."];
   Message false [Loc None "+5"]
     "New key generation failed." true
     ["Ny nøkkelgenerering mislyktes."];
   Message false [Loc None "+18"]
     "Address &quot;%1&quot; already exists as a receiving address with label &quot;%2&quot; and so cannot be added as a sending address." true
     ["Adressen% 1 finnes allerede som mottaksadresse med etiketten% 2, og kan derfor ikke legges til som avsenderadresse."];
   Message false [Loc None "+5"]
     "The entered address &quot;%1&quot; is already in the address book with label &quot;%2&quot;." true
     ["Den angitte adressen% 1 finnes allerede i adresseboken med etiketten% 2."]].

Definition nb_FreespaceChecker : list message :=
  [Message false [Loc (Some "../intro.cpp") "+78"]
     "A new data directory will be created." true
     ["Det vil bli opprettet en ny datakatalog."];
   Message false [Loc None "+22"]
     "name" true
     ["navn"];
   Message false [Loc None "+2"]
     "Directory already exists. Add %1 if you intend to create a new directory here." true
     ["Mappen finnes allerede. Legg til% 1 Hvis du har tenkt å opprette en ny katalog her."];
   Message false [Loc None "+3"]
     "Path already exists, and is not a directory." true
     ["Banen finnes allerede, og er ikke en mappe."];
   Message false [Loc None "+7"]
     "Cannot create data directory here." true
     ["Kan ikke opprette datakatalog her."]].

Definition nb_HelpMessageDialog : list message :=
  [Message false [Loc (Some "../utilitydialog.cpp") "+41"]
     "version" true
     ["Versjon"];
   Message false [Loc None "+5"; Loc None "+2"]
     "(%1-bit)" true
     ["(% 1-biters)"];
   Message false [Loc None "+5"]
     "About %1" true
     ["Om% 1"];
   Message false [Loc None "+19"]
     "Command-line options" true
     ["Kommandolinjealternativer"]].

Definition nb_Intro : list message :=
  [Message false [Loc (Some "../forms/intro.ui") "+14"]
     "Welcome" true
     ["velkommen"];
   Message false [Loc None "+9"]
     "Welcome to %1." true
     ["Velkommen til% 1."];
   Message false [Loc None "+26"]
     "As this is the first time the program is launched, you can choose where %1 will store its data." true
     ["Siden dette er første gang programmet startes, kan du velge hvor% 1 skal lagre dataene."];
   Message false [Loc None "+17"]
     "Use the default data directory" true
     ["Bruk standarddata katalog"];
   Message false [Loc None "+7"]
     "Use a custom data directory:" true
     ["Bruk en egendefinert datakatalog:"];
   Message false [Loc None "+140"]
     "When you click OK, %1 will begin to download and process the full %4 block chain (%2GB) starting with the earliest transactions in %3 when %4 initially launched." true
     ["Når du klikker OK, begynner% 1 å laste ned og behandle hele% 4 blokk kjeden (% 2GB) fra og med de tidligste transaksjonene i% 3 når% 4 opprinnelig ble lansert."];
   Message false [Loc None "+10"]
     "This initial synchronisation is very demanding, and may expose hardware problems with your computer that had previously gone unnoticed. Each time you run %1, it will continue downloading where it left off." true
     ["Denne innledende synkroniseringen er svært krevende, og kan utsette maskinvareproblemer med datamaskinen som tidligere har gått ubemerket hen. Hver gang du kjører% 1, vil den fortsette å laste ned der den slapp."];
   Message false [Loc None "+10"]
     "If you have chosen to limit block chain storage (pruning), the historical data must still be downloaded and processed, but will be deleted afterward to keep your disk usage low." true
     ["Hvis du har valgt å begrense blokk kjede lagring (beskjæring), må de historiske dataene fortsatt lastes ned og behandles, men vil bli slettet etterpå for å holde diskbruken lav."];
   Message false [Loc (Some "../intro.cpp") "+20"]
     "Bitcoin Confidential" true
     ["Konfidensielt for Bitcoin"];
   Message false [Loc None "+6"]
     "At least %1 GB of data will be stored in this directory, and it will grow over time." true
     ["Minst% 1 GB med data vil bli lagret i denne mappen, og den vil vokse over tid."];
   Message false [Loc None "+5"]
     "Approximately %1 GB of data will be stored in this directory." true
     ["Omtrent% 1 GB med data vil bli lagret i denne mappen."];
   Message false [Loc None "+8"]
     "%1 will download and store a copy of the Bitcoin Confidential block chain." true
     ["% 1 vil laste ned og lagre en kopi av Bitcoin-kjeden med konfidensiell blokkering."];
   Message false [Loc None "+2"]
     "The wallet will also be stored in this directory." true
     ["Lommeboken vil også bli lagret i denne katalogen."];
   Message false [Loc None "+73"]
     "Error: Specified data directory &quot;%1&quot; cannot be created." true
     ["Feil: den angitte datakatalogen% 1 kan ikke opprettes."];
   Message false [Loc None "+27"]
     "Error" true
     ["Feil"];
   Message true [Loc None "+9"]
     "%n GB of free space available" true
     ["% n GB ledig plass tilgjengelig"; "% n GB ledig plass tilgjengelig"];
   Message true [Loc None "+3"]
     "(of %n GB needed)" true
     ["(av% n GB behøvde)"; "(av% n GB behøvde)"]].

Definition nb_MnemonicDialog_1 : list message :=
  [Message false [Loc (Some "../forms/mnemonicdialog.ui") "+14"]
     "HD Wallet Setup" true
     ["Konfigurasjon av HD-lommebok"];
   Message false [Loc None "+11"]
     "Generate a mnemonic" true
     ["Generer en mnemonic"];
   Message false [Loc None "+10"]
     "Create the wallet" true
     ["Opprett lommeboken"];
   Message false [Loc None "+22"]
     "Write down the Recovery Phrase/Mnemonic below or generate a new one with the desired settings by clicking &quot;NEW MNEMONIC&quot;. Store this phrase in a safe place. The clipboard will be cleared to ensure you have it recorded.  If you are recovering a backup, enter the Recovery Phrase/Mnemonic on the next screen.  Click the &quot;NEXT&quot; button to continue with the wallet creation." true
     ["Skriv ned Recovery frase/mnemonic nedenfor eller generere en ny en med de ønskede innstillingene ved å klikke &quot;NEW MNEMONIC&quot;. Oppbevar denne frasen på et trygt sted. Utklippstavlen vil bli slettet for å sikre at du har den registrert.  Hvis du gjenoppretter en sikkerhetskopi, angir du gjenopprettings setning/mnemonic på neste skjermbilde.  Klikk på &quot;NEXT&quot;-knappen for å fortsette med lommeboken skapelsen."];
   Message false [Loc None "+36"]
     "Bytes of Entropy " true
     ["Byte av entropi"];
   Message false [Loc None "+7"]
     "Language" true
     ["Språk"];
   Message false [Loc None "+45"]
     "Entropy is an advanced feature. Your mnemonic may be insecure if this feature is used incorrectly." true
     ["Entropi er en avansert funksjon. Mnemonic din kan være usikker hvis denne funksjonen brukes på feil måte."];
   Message false [Loc None "+22"]
     "Select your language" true
     ["Velg språk"];
   Message false [Loc None "+4"]
     "English" true
     ["Engelsk"];
   Message false [Loc None "+5"]
     "French" true
     ["Fransk"];
   Message false [Loc None "+5"]
     "Japanese" true
     ["Japansk"];
   Message false [Loc None "+5"]
     "Spanish" true
     ["Spansk"];
   Message false [Loc None "+5"]
     "Chinese_s" true
     ["Chinese_s"];
   Message false [Loc None "+5"]
     "Chinese_t" true
     ["Chinese_t"];
   Message false [Loc None "+39"]
     "New mnemonic" true
     ["Nye mnemonic"];
   Message false [Loc None "+19"]
     "Next" true
     ["Neste"];
   Message false [Loc None "+19"; Loc None "+198"]
     "Cancel" true
     ["Avbryte"];
   Message false [Loc None "-148"]
     "Recovery Passphrase " true
     ["Passord for gjenoppretting"];
   Message false [Loc None "+7"]
     "Import Chain" true
     ["Import kjede"];
   Message false [Loc None "+13"]
     "Warning" true
     ["Advarsel"];
   Message false [Loc None "+33"]
     "Enter a passphrase to protect your Recovery Phrase (optional)" true
     ["Skriv inn en passfrase for å beskytte gjenopprettings uttrykket (valgfritt)"];
   Message false [Loc None "+13"]
     "Only needed if you&apos;re importing " true
     ["Bare nødvendig hvis du importerer"];
   Message false [Loc None "+16"]
     "Please ensure you backup your Recovery Phrase and Passphrase - they are not recoverable!" true
     ["Vennligst sikre at du sikkerhetskopierer din gjenopprettings setning og passfrase-de er ikke utvinnbare!"];
   Message false [Loc None "+28"]
     "Back" true
     ["Tilbake"];
   Message false [Loc None "+19"; Loc (Some "../mnemonicdialog.cpp") "+145"]
     "Import" true
     ["Importere"];
   Message false [Loc (Some "../mnemonicdialog.cpp") "-102"]
     "Optionally enter a passphrase to protect the Recovery Phrase. (This is not a wallet password.)" true
     ["Alternativt kan du angi en passfrase for å beskytte gjenopprettings setningen. (Dette er ikke et lommebok passord.)"];
   Message false [Loc None "+2"]
     "Enter the Recovery Phrase/Mnemonic." true
     ["Angi gjenopprettings setning/mnemonic."];
   Message false [Loc None "+26"]
     "Create wallet" true
     ["Opprett lommebok"];
   Message false [Loc None "+16"]
     "Generate a new Recovery Phrase/Mnemonic with the desired settings by clicking &quot;NEW MNEMONIC&quot;." true
     ["Generer et nytt gjenopprettings uttrykk/mnemonic med de ønskede innstillingene ved å klikke på &quot;ny MNEMONIC&quot;."]].

Definition nb_MnemonicDialog_2 : list message :=
  [Message false [Loc None "+5"]
     "Import a mnemonic" true
     ["Importere en mnemonic"];
   Message false [Loc None "+28"]
     "Confirm wallet creation cancel" true
     ["Bekreft opprettelse av lommebok"];
   Message false [Loc None "+1"]
     "Are you sure you want to cancel the wallet creation?" true
     ["Er du sikker på at du vil avbryte opprettingen av lommeboken?"];
   Message false [Loc None "+0"]
     "This is only recommended for advanced users to import with custom settings in the debug console or with the RPC interface." true
     ["Dette anbefales bare for avanserte brukere å importere med egendefinerte innstillinger i Debug-konsollen eller RPC-grensesnittet."]].

Definition nb_ModalOverlay : list message :=
  [Message false [Loc (Some "../forms/modaloverlay.ui") "+14"]
     "Form" true
     ["Skjemaet"];
   Message false [Loc None "+122"]
     "Recent transactions may not yet be visible, and therefore your wallet&apos;s balance might be incorrect. This information will be correct once your wallet has finished synchronizing with the Bitcoin Confidential network, as detailed below." true
     ["Nylige transaksjoner kan ennå ikke være synlige, og derfor kan saldoen på lommeboken være feil. Denne informasjonen vil være riktig når lommeboken er ferdig med å synkronisere med Bitcoin konfidensielt-nettverket, som beskrevet nedenfor."];
   Message false [Loc None "+19"]
     "Attempting to spend coins that are affected by not-yet-displayed transactions will not be accepted by the network." true
     ["Forsøk på å bruke mynter som påvirkes av ikke-ennå-viste transaksjoner vil ikke bli akseptert av nettverket."];
   Message false [Loc None "+63"]
     "Number of blocks left" true
     ["Antall blokker igjen"];
   Message false [Loc None "+7"; Loc None "+26"; Loc (Some "../modaloverlay.cpp") "+140"]
     "Unknown..." true
     ["Ukjent..."];
   Message false [Loc None "-13"]
     "Last block time" true
     ["Tidspunkt for siste blokk"];
   Message false [Loc None "+26"]
     "Progress" true
     ["Fremgang"];
   Message false [Loc None "+34"]
     "Progress increase per hour" true
     ["Fremdrifts økning per time"];
   Message false [Loc None "+7"; Loc None "+20"]
     "calculating..." true
     ["Beregne..."];
   Message false [Loc None "-7"]
     "Estimated time left until synced" true
     ["Anslått tid som gjenstår til synkronisert"];
   Message false [Loc None "+40"]
     "Hide" true
     ["Skjule"];
   Message false [Loc (Some "../modaloverlay.cpp") "-1"]
     "Unknown. Syncing Headers (%1)..." true
     ["Ukjent. Synkroniserer hoder (% 1)..."]].

Definition nb_OpenURIDialog : list message :=
  [Message false [Loc (Some "../forms/openuridialog.ui") "+14"]
     "Open URI" true
     ["Åpne URI"];
   Message false [Loc None "+6"]
     "Open payment request from URI or file" true
     ["Åpne betalingsforespørsel fra URI eller fil"];
   Message false [Loc None "+9"]
     "URI:" true
     ["Uri:"];
   Message false [Loc None "+10"]
     "Select payment request file" true
     ["Velg betalings forespørselsfil"];
   Message false [Loc (Some "../openuridialog.cpp") "+45"]
     "Select payment request file to open" true
     ["Velg betalings forespørselsfil som skal åpnes"]].

Definition nb_OptionsDialog_1 : list message :=
  [Message false [Loc (Some "../forms/optionsdialog.ui") "+14"]
     "Options" true
     ["Alternativer"];
   Message false [Loc None "+14"]
     "&amp;Main" true
     ["&amp; Main"];
   Message false [Loc None "+13"]
     "W&amp;allet" true
     ["W&amp;allet"];
   Message false [Loc None "+13"]
     "&amp;Network" true
     ["&amp; Nettverk"];
   Message false [Loc None "+13"]
     "&amp;Window" true
     ["&amp; Vindu"];
   Message false [Loc None "+13"]
     "&amp;Display" true
     ["&amp; Skjerm"];
   Message false [Loc None "+22"]
     "Automatically start %1 after logging in to the system." true
     ["Start% 1 automatisk etter at du har logget deg på systemet."];
   Message false [Loc None "+3"]
     "&amp;Start %1 on system login" true
     ["&amp; Start% 1 ved systempålogging"];
   Message false [Loc None "+22"]
     "Disables some advanced features but all blocks will still be fully validated. Reverting this setting requires re-downloading the entire blockchain. Actual disk usage may be somewhat higher." true
     ["Deaktiverer noen avanserte funksjoner, men alle blokkene vil fortsatt være fullstendig validert. Hvis du tilbakestiller denne innstillingen, må du laste ned hele blockchain på nytt. Faktisk disk bruk kan være noe høyere."];
   Message false [Loc None "+3"]
     "Prune &amp;block storage to" true
     ["Beskjær &amp; blokk lagring for å"];
   Message false [Loc None "+17"]
     "GB" true
     ["Gb"];
   Message false [Loc None "+25"]
     "Reverting this setting requires re-downloading the entire blockchain." true
     ["Hvis du tilbakestiller denne innstillingen, må du laste ned hele blockchain på nytt."];
   Message false [Loc None "+12"]
     "Size of &amp;database cache" true
     ["Størrelse på &amp; database buffer"];
   Message false [Loc None "+23"]
     "MB" true
     ["Mb"];
   Message false [Loc None "+27"]
     "Number of script &amp;verification threads" true
     ["Antall bekreftelses tråder for skript &amp;"];
   Message false [Loc None "+19"]
     "(0 = auto, &lt;0 = leave that many cores free)" true
     ["(0 = auto,&lt;0 = leave that many cores free) ==&quot;&quot; leave=&quot;&quot; that=&quot;&quot; many=&quot;&quot; cores=&quot;&quot;&gt;&lt;/0 = leave that many cores free)&gt;"];
   Message false [Loc None "+39"]
     "Expert" true
     ["Ekspert"];
   Message false [Loc None "+6"]
     "Whether to show coin control features or not." true
     ["Enten å vise mynt kontrollfunksjoner eller ikke."];
   Message false [Loc None "+3"]
     "Enable coin &amp;control features" true
     ["Aktiver funksjoner for mynt &amp; kontroll"];
   Message false [Loc None "+7"]
     "If you disable the spending of unconfirmed change, the change from a transaction cannot be used until that transaction has at least one confirmation. This also affects how your balance is computed." true
     ["Hvis du deaktiverer bruken av ubekreftet endring, kan ikke endringen fra en transaksjon brukes før transaksjonen har minst én bekreftelse. Dette påvirker også hvordan saldoen din beregnes."];
   Message false [Loc None "+3"]
     "&amp;Spend unconfirmed change" true
     ["&amp; Bruk ubekreftet endring"];
   Message false [Loc None "+7"]
     "Display notification dialog for incoming stake transactions." true
     ["Vis varslingsdialogboks for innkommende innsats transaksjoner."];
   Message false [Loc None "+3"]
     "&amp;Show incoming stake notifications" true
     ["&amp; Vis innkommende stavs varslinger"];
   Message false [Loc None "+27"]
     "Automatically open the Bitcoin Confidential client port on the router. This only works when your router supports UPnP and it is enabled." true
     ["Åpne automatisk den Bitcoin-konfidensielle klient porten på ruteren. Denne bare arbeider når din veien hjelper UPnP og det er en satt i stand til."];
   Message false [Loc None "+3"]
     "Map port using &amp;UPnP" true
     ["Kart port med &amp; UPnP"];
   Message false [Loc None "+7"]
     "Accept connections from outside." true
     ["Godta tilkoblinger utenfra."];
   Message false [Loc None "+3"]
     "Allow incomin&amp;g connections" true
     ["Tillat incomin&amp;g tilkoblinger"];
   Message false [Loc None "+7"]
     "Connect to the Bitcoin Confidential network through a SOCKS5 proxy." true
     ["Koble til det konfidensielle Bitcoin-nettverket via en SOCKS5-proxy."];
   Message false [Loc None "+3"]
     "&amp;Connect through SOCKS5 proxy (default proxy):" true
     ["&amp; Koble til via SOCKS5-proxy (standard proxy):"]].

Definition nb_OptionsDialog_2 : list message :=
  [Message false [Loc None "+9"; Loc None "+193"]
     "Proxy &amp;IP:" true
     ["Proxy &amp; IP:"];
   Message false [Loc None "-168"; Loc None "+193"]
     "IP address of the proxy (e.g. IPv4: 127.0.0.1 / IPv6: ::1)" true
     ["IP-adressen til proxyen (for eksempel IPv4:127.0.0.1/IPv6::: 1)"];
   Message false [Loc None "-183"; Loc None "+193"]
     "&amp;Port:" true
     ["Port"];
   Message false [Loc None "-168"; Loc None "+193"]
     "Port of the proxy (e.g. 9050)" true
     ["Port for proxyen (f.eks. 9050)"];
   Message false [Loc None "-166"]
     "Used for reaching peers via:" true
     ["Brukes for å nå jevnaldrende via:"];
   Message false [Loc None "+13"; Loc None "+23"; Loc None "+23"]
     "Shows if the supplied default SOCKS5 proxy is used to reach peers via this network type." true
     ["Viser om den angitte standard SOCKS5-proxyen brukes til å nå datamaskiner via denne nettverkstypen."];
   Message false [Loc None "-36"]
     "IPv4" true
     ["IPv4"];
   Message false [Loc None "+23"]
     "IPv6" true
     ["IPv6"];
   Message false [Loc None "+23"]
     "Tor" true
     ["Tor"];
   Message false [Loc None "+25"]
     "Connect to the Bitcoin Confidential network through a separate SOCKS5 proxy for Tor hidden services." true
     ["Koble til det konfidensielle Bitcoin-nettverket via en egen SOCKS5-proxy for Tor-skjulte tjenester."];
   Message false [Loc None "+3"]
     "Use separate SOCKS&amp;5 proxy to reach peers via Tor hidden services:" true
     ["Bruk separate sokker &amp; 5 proxy for å nå jevnaldrende via Tor skjulte tjenester:"];
   Message false [Loc None "+111"]
     "Hide the icon from the system tray." true
     ["Skjul ikonet fra systemstatusfeltet."];
   Message false [Loc None "+3"]
     "&amp;Hide tray icon" true
     ["&amp; Skjul ikon"];
   Message false [Loc None "+7"]
     "Show only a tray icon after minimizing the window." true
     ["Viser bare en brett ikon etter minimere ruten."];
   Message false [Loc None "+3"]
     "&amp;Minimize to the tray instead of the taskbar" true
     ["&amp; Minimer til skuffen i stedet for oppgavelinjen"];
   Message false [Loc None "+7"]
     "Minimize instead of exit the application when the window is closed. When this option is enabled, the application will be closed only after selecting Exit in the menu." true
     ["Minimer i stedet for å avslutte programmet når vinduet lukkes. Når dette alternativet er aktivert, lukkes programmet bare etter at du har valgt Avslutt i menyen."];
   Message false [Loc None "+3"]
     "M&amp;inimize on close" true
     ["M&amp;inimize på nært hold"];
   Message false [Loc None "+26"]
     "User Interface &amp;language:" true
     ["Språk for brukergrensesnitt &amp;:"];
   Message false [Loc None "+22"]
     "The user interface language can be set here. This setting will take effect after restarting %1." true
     ["Språket for brukergrensesnittet kan angis her. Denne innstillingen trer i kraft etter at% 1 er startet på nytt."];
   Message false [Loc None "+11"]
     "&amp;Unit to show amounts in:" true
     ["&amp; Enhet for å vise beløp i:"];
   Message false [Loc None "+22"]
     "Choose the default subdivision unit to show in the interface and when sending coins." true
     ["Velg standard inndelings enhet som skal vises i grensesnittet, og når du sender mynter."];
   Message false [Loc None "+11"; Loc None "+22"]
     "Third party URLs (e.g. a block explorer) that appear in the transactions tab as context menu items. %s in the URL is replaced by transaction hash. Multiple URLs are separated by vertical bar |." true
     ["Tredjeparts nettadresser (f.eks. en blokkerings utforske) som vises i transaksjoner-fanen som kontekstmeny elementer. % s i URL-adressen erstattes av transaksjonsnummer. Flere URL-adresser skilles med loddrett linje |."];
   Message false [Loc None "-19"]
     "&amp;Third party transaction URLs" true
     ["&amp; Nettadresser for tredjepartstransaksjoner"];
   Message false [Loc None "+50"]
     "Active command-line options that override above options:" true
     ["Aktive kommandolinjealternativer som overstyrer alternativene ovenfor:"];
   Message false [Loc None "+45"]
     "Open the %1 configuration file from the working directory." true
     ["Åpne konfigurasjonsfilen% 1 fra arbeidsmappen."];
   Message false [Loc None "+3"]
     "Open Configuration File" true
     ["Åpne konfigurasjonsfil"];
   Message false [Loc None "+10"]
     "Reset all client options to default." true
     ["Tilbakestill alle klient alternativer til standard."];
   Message false [Loc None "+3"]
     "&amp;Reset Options" true
     ["&amp; Reset valg"]].

Definition nb_OptionsDialog_3 : list message :=
  [Message false [Loc None "+80"]
     "&amp;OK" true
     ["&amp; OK"];
   Message false [Loc None "+13"]
     "&amp;Cancel" true
     ["&amp; Avbryte"];
   Message false [Loc (Some "../optionsdialog.cpp") "+109"]
     "default" true
     ["Standard"];
   Message false [Loc None "+56"]
     "none" true
     ["Ingen"];
   Message false [Loc None "+82"]
     "Confirm options reset" true
     ["Bekreft tilbakestilling av alternativer"];
   Message false [Loc None "+1"; Loc None "+60"]
     "Client restart required to activate changes." true
     ["Klient omstart kreves for å aktivere endringer."];
   Message false [Loc None "-60"]
     "Client will be shut down. Do you want to proceed?" true
     ["Klienten vil bli avsluttet. Vil du fortsette?"];
   Message false [Loc None "+15"]
     "Configuration options" true
     ["Alternativer for konfigurasjon"];
   Message false [Loc None "+1"]
     "The configuration file is used to specify advanced user options which override GUI settings. Additionally, any command-line options will override this configuration file." true
     ["Konfigurasjonsfilen brukes til å angi avanserte brukeralternativer som overstyrer GUI-innstillinger. I tillegg vil alle kommandolinjealternativer overstyre denne konfigurasjonsfilen."];
   Message false [Loc None "+5"]
     "Error" true
     ["Feil"];
   Message false [Loc None "+0"]
     "The configuration file could not be opened." true
     ["Kan ikke åpne konfigurasjonsfilen."];
   Message false [Loc None "+43"]
     "This change would require a client restart." true
     ["Denne endringen vil kreve en omstart av klienten."];
   Message false [Loc None "+28"]
     "The supplied proxy address is invalid." true
     ["Den angitte proxy-adressen er ugyldig."]].

Definition nb_OverviewPage : list message :=
  [Message false [Loc (Some "../forms/overviewpage.ui") "+14"]
     "Form" true
     ["Skjemaet"];
   Message false [Loc None "+43"]
     "Bitcoin Confidential Core" true
     ["Konfidensiell kjerne for Bitcoin"];
   Message false [Loc None "+38"; Loc None "+114"; Loc None "+210"]
     "Pending" true
     ["Ventende"];
   Message false [Loc None "-308"]
     "Spending" true
     ["Bruke"];
   Message false [Loc None "+108"]
     "Watch-only" true
     ["Bare klokke"];
   Message false [Loc None "+73"; Loc None "+191"]
     "Available" true
     ["Tilgjengelig"];
   Message false [Loc None "-181"]
     "Spendable" true
     ["Spendable"];
   Message false [Loc None "+41"]
     "Staking" true
     ["Staking"];
   Message false [Loc None "+130"]
     "Immature" true
     ["Umodne"];
   Message false [Loc None "+86"]
     "Total" true
     ["Totalt"];
   Message false [Loc None "+90"]
     "Recent transactions" true
     ["Nylige transaksjoner"];
   Message false [Loc None "+19"]
     "The displayed information may be out of date. Your wallet automatically synchronizes with the Bitcoin Confidential network after a connection is established, but this process has not completed yet." true
     ["Informasjonen som vises, kan være utdatert. Lommeboken synkroniseres automatisk med det konfidensielle Bitcoin-nettverket etter at en tilkobling er opprettet, men denne prosessen er ikke fullført ennå."]].

Definition nb_PaymentServer : list message :=
  [Message false [Loc (Some "../paymentserver.cpp") "+317"; Loc None "+215"; Loc None "+42"; Loc None "+110"; Loc None "+14"; Loc None "+18"]
     "Payment request error" true
     ["Feil i betalingsforespørsel"];
   Message false [Loc None "-398"]
     "Cannot start bitcoinc: click-to-pay handler" true
     ["Kan ikke starte bitcoinc: Klikk for å betale-behandling"];
   Message false [Loc None "+82"; Loc None "+21"; Loc None "+13"; Loc None "+7"]
     "URI handling" true
     ["Håndtering av URI"];
   Message false [Loc None "-41"]
     "&apos;bitcoin://&apos; is not a valid URI. Use &apos;bitcoin:&apos; instead." true
     ["&quot;bitcoin://&quot; er ikke en gyldig URI. Bruk &quot;bitcoin:&quot; i stedet."];
   Message false [Loc None "+22"]
     "Payment request fetch URL is invalid: %1" true
     ["URL-adressen for henting av betalingsforespørsel er ugyldig:% 1"];
   Message false [Loc None "+12"]
     "Invalid payment address %1" true
     ["Ugyldig betalingsadresse% 1"];
   Message false [Loc None "+8"]
     "URI cannot be parsed! This can be caused by an invalid Bitcoin Confidential address or malformed URI parameters." true
     ["URI kan ikke analyseres! Dette kan forårsakes av en ugyldig Bitcoin-konfidensiell adresse eller misformede URI-parametere."];
   Message false [Loc None "+13"]
     "Payment request file handling" true
     ["Filbehandling for betalingsforespørsel"];
   Message false [Loc None "+1"]
     "Payment request file cannot be read! This can be caused by an invalid payment request file." true
     ["Kan ikke lese fil for betalingsforespørsel. Dette kan forårsakes av en ugyldig betalings forespørselsfil."];
   Message false [Loc None "+61"; Loc None "+9"; Loc None "+31"; Loc None "+10"; Loc None "+17"; Loc None "+85"]
     "Payment request rejected" true
     ["Forespørsel om betaling avvist"];
   Message false [Loc None "-152"]
     "Payment request network doesn&apos;t match client network." true
     ["Nettverket for betalingsforespørsel samsvarer ikke med klientnettverket."];
   Message false [Loc None "+9"]
     "Payment request expired." true
     ["Betalingsforespørsel utløpt."];
   Message false [Loc None "+6"]
     "Payment request is not initialized." true
     ["Betalingsforespørselen er ikke initialisert."];
   Message false [Loc None "+26"]
     "Unverified payment requests to custom payment scripts are unsupported." true
     ["Ubekreftede betalingsforespørsler til egendefinerte betalings skript støttes ikke."];
   Message false [Loc None "+9"; Loc None "+17"]
     "Invalid payment request." true
     ["Ugyldig betalingsforespørsel."];
   Message false [Loc None "-10"]
     "Requested payment amount of %1 is too small (considered dust)." true
     ["Forespurt Betalingsbeløp på% 1 er for lite (anses som støv)."];
   Message false [Loc None "+65"]
     "Refund from %1" true
     ["Refusjon fra% 1"];
   Message false [Loc None "+31"]
     "Payment request %1 is too large (%2 bytes, allowed %3 bytes)." true
     ["Betalingsforespørselen% 1 er for stor (% 2 byte, tillatt% 3 byte)."];
   Message false [Loc None "+9"]
     "Error communicating with %1: %2" true
     ["Feil under kommunikasjon med% 1:% 2"];
   Message false [Loc None "+20"]
     "Payment request cannot be parsed!" true
     ["Betalingsforespørselen kan ikke analyseres!"];
   Message false [Loc None "+13"]
     "Bad response from server %1" true
     ["Ugyldig svar fra server% 1"];
   Message false [Loc None "+22"]
     "Network request error" true
     ["Feil i nettverksforespørsel"];
   Message false [Loc None "+11"]
     "Payment acknowledged" true
     ["Betaling bekreftet"]].

Definition nb_PeerTableModel : list message :=
  [Message false [Loc (Some "../peertablemodel.cpp") "+109"]
     "NodeId" true
     ["Node"];
   Message false [Loc None "+0"]
     "Node/Service" true
     ["Node/tjeneste"];
   Message false [Loc None "+0"]
     "Ping" true
     ["Ping"];
   Message false [Loc None "+0"]
     "Sent" true
     ["Sendt"];
   Message false [Loc None "+0"]
     "Received" true
     ["Mottatt"];
   Message false [Loc None "+0"]
     "User Agent" true
     ["Bruker agent"]].

Definition nb_QObject : list message :=
  [Message false [Loc (Some "../bitcoinunits.cpp") "+196"]
     "Amount" true
     ["Beløpet"];
   Message false [Loc (Some "../guiutil.cpp") "+96"]
     "Enter Spending address" true
     ["Angi forbruks adresse"];
   Message false [Loc None "+12"]
     "Enter ColdStake address" true
     ["Angi ColdStake-adresse"];
   Message false [Loc None "+2"]
     "Enter Stake address of remote node" true
     ["Angi stavs adresse for ekstern node"];
   Message false [Loc None "+2"]
     "Enter Stake address" true
     ["Angi stavs adresse"];
   Message false [Loc None "+687"]
     "%1 d" true
     ["% 1 d"];
   Message false [Loc None "+2"]
     "%1 h" true
     ["% 1 time"];
   Message false [Loc None "+2"]
     "%1 m" true
     ["% 1 m"];
   Message false [Loc None "+2"; Loc None "+53"]
     "%1 s" true
     ["% 1 s"];
   Message false [Loc None "-10"]
     "None" true
     ["Ingen"];
   Message false [Loc None "+5"]
     "N/A" true
     ["N/a"];
   Message false [Loc None "+0"]
     "%1 ms" true
     ["% 1 MS"];
   Message true [Loc None "+18"]
     "%n second(s)" true
     ["% n sekund (r)"; "% n sekund (r)"];
   Message true [Loc None "+4"]
     "%n minute(s)" true
     ["% n minutt (er)"; "% n minutt (er)"];
   Message true [Loc None "+4"]
     "%n hour(s)" true
     ["% n time (er)"; "% n time (er)"];
   Message true [Loc None "+4"]
     "%n day(s)" true
     ["% n dag (er)"; "% n dag (er)"];
   Message true [Loc None "+4"; Loc None "+6"]
     "%n week(s)" true
     ["% n uke (r)"; "% n uke (r)"];
   Message false [Loc None "+0"]
     "%1 and %2" true
     ["% 1 og% 2"];
   Message true [Loc None "+0"]
     "%n year(s)" true
     ["% n år"; "% n år"];
   Message false [Loc None "+8"]
     "%1 B" true
     ["% 1 B"];
   Message false [Loc None "+2"]
     "%1 KB" true
     ["% 1 KB"];
   Message false [Loc None "+2"]
     "%1 MB" true
     ["% 1 MB"];
   Message false [Loc None "+2"]
     "%1 GB" true
     ["% 1 GB"];
   Message false [Loc None "+71"]
     "All spending funds are sent and received anonymously. Only the sender and receiver have details of their side of the transaction. Staking funds need to be converted to spending before sending out of wallet. Funds require %1 confirmations (%2 minutes) before sending." true
     ["Alle forbruks midler sendes og mottas anonymt. Bare avsender og mottaker har detaljer om sin side av transaksjonen. Staking midler må konverteres til utgifter før du sender ut av lommeboken. Midler krever% 1 bekreftelser (% 2 minutter) før sending."];
   Message false [Loc None "+15"]
     "Staking funds cannot be sent out of your wallet without converting to spending. After converting to spending, %1 confirmations (%2 minutes) are required before sending." true
     ["Innsatsmidler kan ikke sendes ut av lommeboken uten å konvertere til forbruk. Etter konvertering til forbruk kreves% 1 bekreftelser (% 2 minutter) før sending."];
   Message false [Loc (Some "../modaloverlay.cpp") "-29"]
     "unknown" true
     ["Ukjent"];
   Message false [Loc (Some "../bitcoin.cpp") "+186"]
     "%1 didn&apos;t yet exit safely..." true
     ["% 1 ble ikke avsluttet på en sikker måte..."]].

Definition nb_QObject__QObject : list message :=
  [Message false [Loc None "-117"]
     "Error parsing command line arguments: %1." true
     ["Feil under analysering av kommandolinjeargumenter:% 1."];
   Message false [Loc None "+38"]
     "Error: Specified data directory &quot;%1&quot; does not exist." true
     ["Feil: den angitte datakatalogen% 1 finnes ikke."];
   Message false [Loc None "+5"]
     "Error: Cannot parse configuration file: %1." true
     ["Feil: kan ikke analysere konfigurasjonsfil:% 1."];
   Message false [Loc None "+14"]
     "Error: %1" true
     ["Feil:% 1"]].

Definition nb_QRImageWidget : list message :=
  [Message false [Loc (Some "../receiverequestdialog.cpp") "+32"]
     "&amp;Save Image..." true
     ["&amp; Lagre bilde..."];
   Message false [Loc None "+3"]
     "&amp;Copy Image" true
     ["&amp; Kopier bilde"];
   Message false [Loc None "+32"]
     "Save QR Code" true
     ["Lagre QR-kode"];
   Message false [Loc None "+0"]
     "PNG Image (*.png)" true
     ["PNG-bilde (*. png)"]].

Definition nb_RPCConsole_1 : list message :=
  [Message false [Loc (Some "../forms/debugwindow.ui") "+14"]
     "Debug window" true
     ["Feilsøkings vindu"];
   Message false [Loc None "+11"]
     "Information" true
     ["Informasjon"];
   Message false [Loc None "+13"]
     "Console" true
     ["Konsollen"];
   Message false [Loc None "+10"]
     "Network Traffic" true
     ["Nettverk trafikk"];
   Message false [Loc None "+10"]
     "Peers" true
     ["Jevnaldrende"];
   Message false [Loc None "+21"; Loc None "+1004"]
     "User Agent" true
     ["Bruker agent"];
   Message false [Loc None "-988"]
     "Block chain" true
     ["Blokk kjede"];
   Message false [Loc None "+7"]
     "Client version" true
     ["Klient-versjon"];
   Message false [Loc None "+13"]
     "General" true
     ["De generelle"];
   Message false [Loc None "+13"]
     "Memory Pool" true
     ["Minne pool"];
   Message false [Loc None "+7"]
     "Current number of blocks" true
     ["Gjeldende antall blokker"];
   Message false [Loc None "+13"]
     "Network" true
     ["Nettverk"];
   Message false [Loc None "+7"]
     "Number of connections" true
     ["Antall tilkoblinger"];
   Message false [Loc None "+7"]
     "Startup time" true
     ["Oppstartstid"];
   Message false [Loc None "+7"]
     "Name" true
     ["navn"];
   Message false [Loc None "+7"]
     "Last block time" true
     ["Tidspunkt for siste blokk"];
   Message false [Loc None "+7"]
     "Using BerkeleyDB version" true
     ["Bruke BerkeleyDB versjon"];
   Message false [Loc None "+10"]
     "Datadir" true
     ["Datadir"];
   Message false [Loc None "+7"]
     "Memory usage" true
     ["Minnebruk"];
   Message false [Loc None "+7"]
     "Current number of transactions" true
     ["Gjeldende antall transaksjoner"];
   Message false [Loc None "+10"; Loc None "+16"; Loc None "+16"; Loc None "+16"; Loc None "+19"; Loc None "+16"; Loc None "+16"; Loc None "+16"; Loc None "+16"; Loc None "+16"; Loc None "+16"; Loc None "+644"; Loc None "+23"; Loc None "+23"; Loc None "+23"; Loc None "+23"; Loc None "+23"; Loc None "+23"; Loc None "+23"; Loc None "+23"; Loc None "+23"; Loc None "+23"; Loc None "+23"; Loc None "+23"; Loc None "+23"; Loc None "+23"; Loc None "+26"; Loc None "+23"; Loc None "+23"]
     "N/A" true
     ["N/a"];
   Message false [Loc None "-988"]
     "Debug log file" true
     ["Logg fil for feilsøking"];
   Message false [Loc None "+7"]
     "Open the %1 debug log file from the current data directory. This can take a few seconds for large log files." true
     ["Åpne feilsøkingslogg filen% 1 fra gjeldende datakatalog. Dette kan ta noen sekunder for store loggfiler."]].

Definition nb_RPCConsole_2 : list message :=
  [Message false [Loc None "+3"]
     "&amp;Open" true
     ["&amp; Åpen"];
   Message false [Loc None "+25"]
     "Wallet: " true
     ["Lommebok:"];
   Message false [Loc None "+8"]
     "(none)" true
     ["ingen"];
   Message false [Loc None "+27"]
     "Decrease font size" true
     ["Reduser skriftstørrelsen"];
   Message false [Loc None "+32"]
     "Increase font size" true
     ["Øk skriftstørrelsen"];
   Message false [Loc None "+32"]
     "Clear console" true
     ["Fjern konsoll"];
   Message false [Loc None "+111"]
     "&amp;Reset" true
     ["&amp; Tilbakestill"];
   Message false [Loc None "+16"]
     "Totals" true
     ["Totaler"];
   Message false [Loc None "+67"; Loc None "+555"]
     "Received" true
     ["Mottatt"];
   Message false [Loc None "-475"; Loc None "+452"]
     "Sent" true
     ["Sendt"];
   Message false [Loc None "-361"]
     "Banned peers" true
     ["Forbudte jevnaldrende"];
   Message false [Loc None "+60"; Loc (Some "../rpcconsole.cpp") "+510"; Loc None "+760"]
     "Select a peer to view detailed information." true
     ["Velg en node for å vise detaljert informasjon."];
   Message false [Loc None "+25"]
     "Whitelisted" true
     ["Hvitelistede"];
   Message false [Loc None "+23"]
     "Direction" true
     ["Retning"];
   Message false [Loc None "+23"]
     "Version" true
     ["Versjon"];
   Message false [Loc None "+46"]
     "Services" true
     ["Tjenester"];
   Message false [Loc None "+23"]
     "Starting Block" true
     ["Starter blokk"];
   Message false [Loc None "+23"]
     "Synced Headers" true
     ["Synkroniserte meldingshoder"];
   Message false [Loc None "+23"]
     "Synced Blocks" true
     ["Synkroniserte blokker"];
   Message false [Loc None "+23"]
     "Ban Score" true
     ["Ban poeng"];
   Message false [Loc None "+23"]
     "Connection Time" true
     ["Tid for tilkobling"];
   Message false [Loc None "+23"]
     "Last Send" true
     ["Siste Send"];
   Message false [Loc None "+23"]
     "Last Receive" true
     ["Siste mottak"];
   Message false [Loc None "+69"]
     "Ping Time" true
     ["Ping tid"];
   Message false [Loc None "+23"]
     "The duration of a currently outstanding ping." true
     ["Varigheten av en nå stående ping."];
   Message false [Loc None "+3"]
     "Ping Wait" true
     ["Ping vent"];
   Message false [Loc None "+23"]
     "Min Ping" true
     ["Min ping"];
   Message false [Loc None "+23"]
     "Time Offset" true
     ["Forskyvning av tid"];
   Message false [Loc (Some "../rpcconsole.cpp") "-667"]
     "&amp;Disconnect" true
     ["&amp; Koble fra"]].

Definition nb_RPCConsole_3 : list message :=
  [Message false [Loc None "+1"; Loc None "+1"; Loc None "+1"; Loc None "+1"]
     "Ban for" true
     ["Ban for"];
   Message false [Loc None "-3"]
     "1 &amp;hour" true
     ["1 &amp; time"];
   Message false [Loc None "+1"]
     "1 &amp;day" true
     ["1 &amp; dag"];
   Message false [Loc None "+1"]
     "1 &amp;week" true
     ["1 &amp; uke"];
   Message false [Loc None "+1"]
     "1 &amp;year" true
     ["1 &amp; år"];
   Message false [Loc None "+48"]
     "&amp;Unban" true
     ["&amp; Unban"];
   Message false [Loc None "+54"]
     "default wallet" true
     ["standard lommebok"];
   Message false [Loc None "+110"]
     "Welcome to the %1 RPC console." true
     ["Velkommen til RPC-konsollen% 1."];
   Message false [Loc None "+1"]
     "Use up and down arrows to navigate history, and %1 to clear screen." true
     ["Bruk pil opp og pil ned for å navigere i loggen, og% 1 for å slette skjermen."];
   Message false [Loc None "+1"]
     "Type %1 for an overview of available commands." true
     ["Skriv inn% 1 for en oversikt over tilgjengelige kommandoer."];
   Message false [Loc None "+1"]
     "For more information on using this console type %1." true
     ["For mer informasjon om bruk av denne konsoll typen% 1."];
   Message false [Loc None "+2"]
     "WARNING: Scammers have been active, telling users to type commands here, stealing their wallet contents. Do not use this console without fully understanding the ramifications of a command." true
     ["Advarsel: svindlere har vært aktive, forteller brukerne til å skrive kommandoer her, stjele deres lommebok innholdet. Ikke bruk denne konsollen uten å helt forstå konsekvensene av en kommando."];
   Message false [Loc None "+32"]
     "In:" true
     ["I:"];
   Message false [Loc None "+1"]
     "Out:" true
     ["Ut:"];
   Message false [Loc None "+3"]
     "Network activity disabled" true
     ["Nettverksaktivitet deaktivert"];
   Message false [Loc None "+68"]
     "Executing command without any wallet" true
     ["Utfører kommandoen uten lommebok"];
   Message false [Loc None "+2"]
     "Executing command using &quot;%1&quot; wallet" true
     ["Utfører kommando ved hjelp av &quot;% 1&quot; wallet"];
   Message false [Loc None "+190"]
     "(node id: %1)" true
     ["(node-ID:% 1)"];
   Message false [Loc None "+2"]
     "via %1" true
     ["via% 1"];
   Message false [Loc None "+3"; Loc None "+1"]
     "never" true
     ["Aldri"];
   Message false [Loc None "+10"]
     "Inbound" true
     ["Innkommende"];
   Message false [Loc None "+0"]
     "Outbound" true
     ["Utgående"];
   Message false [Loc None "+2"]
     "Yes" true
     ["ja"];
   Message false [Loc None "+0"]
     "No" true
     ["nei"];
   Message false [Loc None "+12"; Loc None "+6"]
     "Unknown" true
     ["Ukjent"]].

Definition nb_ReceiveCoinsDialog : list message :=
  [Message false [Loc (Some "../forms/receivecoinsdialog.ui") "+59"]
     "Stake" true
     ["Innsats"];
   Message false [Loc None "+5"]
     "ColdStake" true
     ["ColdStake"];
   Message false [Loc None "+14"]
     "&amp;Request payment" true
     ["&amp; Be om betaling"];
   Message false [Loc None "+17"]
     "Clear all fields of the form." true
     ["Fjern alle feltene i skjemaet."];
   Message false [Loc None "+3"]
     "Clear" true
     ["Klart"];
   Message false [Loc None "+56"; Loc None "+79"]
     "An optional amount to request. Leave this empty or zero to not request a specific amount." true
     ["Et valgfritt beløp å be om. La dette være tomt eller null for å ikke be om et bestemt beløp."];
   Message false [Loc None "-57"]
     "Use bech32 encoding." true
     ["Bruk bech32-koding."];
   Message false [Loc None "+3"]
     "Generate native segwit (Bech32) address" true
     ["Generer opprinnelig segwit (Bech32)-adresse"];
   Message false [Loc None "+22"; Loc None "+55"]
     "An optional label to associate with the new receiving address." true
     ["En valgfri etikett som skal knyttes til den nye mottaks adressen."];
   Message false [Loc None "-52"]
     "&amp;Label:" true
     ["Etikett"];
   Message false [Loc None "+13"; Loc None "+53"]
     "An optional message to attach to the payment request, which will be displayed when the request is opened. Note: The message will not be sent with the payment over the Bitcoin Confidential network." true
     ["En valgfri melding som skal knyttes til betalingsforespørselen, som vises når forespørselen åpnes. Merk: meldingen vil ikke bli sendt med betalingen over det konfidensielle Bitcoin-nettverket."];
   Message false [Loc None "-50"]
     "&amp;Message:" true
     ["Elding"];
   Message false [Loc None "+16"]
     "&amp;Amount:" true
     ["Beløp"];
   Message false [Loc None "+13"]
     "Use this form to request payments. All fields are &lt;b&gt;optional&lt;/b&gt;." true
     ["Bruk dette skjemaet til å be om betalinger. Alle felt er &lt;b&gt;valgfrie&lt;/b&gt;."];
   Message false [Loc None "+63"]
     "Requested payments history" true
     ["Forespurte Betalingslogg"];
   Message false [Loc None "+31"]
     "Show the selected request (does the same as double clicking an entry)" true
     ["Vis den valgte forespørselen (gjør det samme som å dobbeltklikke en oppføring)"];
   Message false [Loc None "+3"]
     "Show" true
     ["Vis"];
   Message false [Loc None "+17"]
     "Remove the selected entries from the list" true
     ["Fjern de valgte oppføringene fra listen"];
   Message false [Loc None "+3"]
     "Remove" true
     ["Fjerne"];
   Message false [Loc (Some "../receivecoinsdialog.cpp") "+40"]
     "Copy URI" true
     ["Kopier URI"];
   Message false [Loc None "+1"]
     "Copy label" true
     ["Kopier etikett"];
   Message false [Loc None "+1"]
     "Copy message" true
     ["Kopier melding"];
   Message false [Loc None "+1"]
     "Copy amount" true
     ["Kopier beløp"]].

Definition nb_ReceiveRequestDialog : list message :=
  [Message false [Loc (Some "../forms/receiverequestdialog.ui") "+29"]
     "QR Code" true
     ["QR-kode"];
   Message false [Loc None "+46"]
     "Copy &amp;URI" true
     ["Kopier &amp;-URI"];
   Message false [Loc None "+10"]
     "Copy &amp;Address" true
     ["Kopier &amp; adresse"];
   Message false [Loc None "+10"]
     "&amp;Save Image..." true
     ["&amp; Lagre bilde..."];
   Message false [Loc (Some "../receiverequestdialog.cpp") "+65"]
     "Request payment to %1" true
     ["Be om betaling til% 1"];
   Message false [Loc None "+6"]
     "Payment information" true
     ["Betalingsinformasjon"];
   Message false [Loc None "+1"]
     "URI" true
     ["Uri"];
   Message false [Loc None "+2"]
     "Address" true
     ["Adresse"];
   Message false [Loc None "+2"]
     "Amount" true
     ["Beløpet"];
   Message false [Loc None "+2"]
     "Label" true
     ["Etiketten"];
   Message false [Loc None "+2"]
     "Message" true
     ["Melding"];
   Message false [Loc None "+2"]
     "Wallet" true
     ["Lommebok"];
   Message false [Loc None "+11"]
     "Resulting URI too long, try to reduce the text for label / message." true
     ["Resulterende URI for lang, prøv å redusere teksten for etikett/melding."];
   Message false [Loc None "+5"]
     "Error encoding URI into QR Code." true
     ["Feil ved koding av URI til QR Code."]].

Definition nb_RecentRequestsTableModel : list message :=
  [Message false [Loc (Some "../recentrequeststablemodel.cpp") "+25"; Loc None "+4"]
     "Date" true
     ["Dato"];
   Message false [Loc None "-4"; Loc None "+4"]
     "Label" true
     ["Etiketten"];
   Message false [Loc None "+0"]
     "Message" true
     ["Melding"];
   Message false [Loc None "+42"]
     "(no label)" true
     ["(ingen etikett)"];
   Message false [Loc None "+9"]
     "(no message)" true
     ["(ingen melding)"];
   Message false [Loc None "+8"]
     "(no amount requested)" true
     ["(ingen beløp forespurt)"];
   Message false [Loc None "+45"]
     "Requested" true
     ["Forespurte"]].

Definition nb_SendCoinsDialog_1 : list message :=
  [Message false [Loc (Some "../forms/sendcoinsdialog.ui") "+14"; Loc (Some "../sendcoinsdialog.cpp") "+806"]
     "Send Coins" true
     ["Send mynter"];
   Message false [Loc None "+105"]
     "Inputs..." true
     ["Innganger..."];
   Message false [Loc None "+10"]
     "automatically selected" true
     ["automatisk valgt"];
   Message false [Loc None "+19"]
     "Insufficient funds!" true
     ["Utilstrekkelige midler!"];
   Message false [Loc None "+89"]
     "Quantity:" true
     ["Antall:"];
   Message false [Loc None "+35"]
     "Bytes:" true
     ["Byte:"];
   Message false [Loc None "+48"]
     "Amount:" true
     ["Beløpet:"];
   Message false [Loc None "+32"]
     "Dust:" true
     ["Støv:"];
   Message false [Loc None "+48"]
     "Fee:" true
     ["Avgift:"];
   Message false [Loc None "+51"]
     "After Fee:" true
     ["Etter Fee:"];
   Message false [Loc None "+32"]
     "Change:" true
     ["Endre:"];
   Message false [Loc None "+44"]
     "If this is activated, but the change address is empty or invalid, change will be sent to a newly generated address." true
     ["Hvis dette er aktivert, men endrings adressen er tom eller ugyldig, blir endringen sendt til en nylig generert adresse."];
   Message false [Loc None "+3"]
     "Custom change address" true
     ["Egendefinert adresse for endring"];
   Message false [Loc None "+256"]
     "Transaction Fee:" true
     ["Transaksjonsgebyr:"];
   Message false [Loc None "+14"]
     "Choose..." true
     ["Velge..."];
   Message false [Loc None "+30"]
     "Using the fallbackfee can result in sending a transaction that will take several hours or days (or never) to confirm. Consider choosing your fee manually or wait until you have validated the complete chain." true
     ["Bruk av fallbackfee kan føre til at du sender en transaksjon som vil ta flere timer eller dager (eller aldri) for å bekrefte. Vurder å velge gebyr manuelt eller vent til du har validert hele kjeden."];
   Message false [Loc None "+3"]
     "Warning: Fee estimation is currently not possible." true
     ["Advarsel: gebyr estimering er for øyeblikket ikke mulig."];
   Message false [Loc None "+26"]
     "collapse fee-settings" true
     ["kollaps gebyr-innstillinger"];
   Message false [Loc None "+3"]
     "Hide" true
     ["Skjule"];
   Message false [Loc None "+48"]
     "Specify a custom fee per kB (1,000 bytes) of the transaction's virtual size.

Note:  Since the fee is calculated on a per-byte basis, a fee of &quot;100 satoshis per kB&quot; for a transaction size of 500 bytes (half of 1 kB) would ultimately yield a fee of only 50 satoshis." true
     ["Angi et egendefinert gebyr per kB (1 000 byte) for den virtuelle størrelsen på transaksjonen.

Merk: siden gebyret beregnes på en per-byte basis, et gebyr på &quot;100 satoshis per kB&quot; for en transaksjon størrelse på 500 bytes (halvparten av 1 kB) til slutt ville gi en avgift på bare 50 satoshis."];
   Message false [Loc None "+5"]
     "per kilobyte" true
     ["per kilobyte"];
   Message false [Loc None "+27"; Loc None "+13"]
     "Paying only the minimum fee is just fine as long as there is less transaction volume than space in the blocks. But be aware that this can end up in a never confirming transaction once there is more demand for Bitcoin Confidential transactions than the network can process." true
     ["Betaler bare minimums avgiften er bare bra så lenge det er mindre transaksjonsvolum enn plass i blokkene. Men vær oppmerksom på at dette kan ende opp i en aldri bekreftende transaksjon når det er mer etterspørsel etter Bitcoin konfidensielle transaksjoner enn nettverket kan behandle."];
   Message false [Loc None "+3"]
     "(read the tooltip)" true
     ["(Les verktøytipset)"];
   Message false [Loc None "+29"]
     "Recommended:" true
     ["Anbefalt:"];
   Message false [Loc None "+30"]
     "Custom:" true
     ["Egendefinerte:"];
   Message false [Loc None "+52"]
     "(Smart fee not initialized yet. This usually takes a few blocks...)" true
     ["(Smart avgiften er ikke initialisert ennå. Dette tar vanligvis noen kvartaler...)"];
   Message false [Loc None "+29"]
     "Confirmation time target:" true
     ["Mål for bekreftelses tidspunkt:"];
   Message false [Loc None "+74"]
     "With Replace-By-Fee (BIP-125) you can increase a transaction&apos;s fee after it is sent. Without this, a higher fee may be recommended to compensate for increased transaction delay risk." true
     ["Med Erstatt-by-Fee (BIP-125) kan du øke gebyret for en transaksjon etter at den er sendt. Uten dette, en høyere avgift kanskje være anbefalt å kompensere for forhøyet transaksjon forsinkelsen risk."]].

Definition nb_SendCoinsDialog_2 : list message :=
  [Message false [Loc None "+3"]
     "Enable Replace-By-Fee" true
     ["Aktiver Erstatt-etter-gebyr"];
   Message false [Loc None "+37"]
     "Confirm the send action" true
     ["Bekreft sendingshandlingen"];
   Message false [Loc None "+3"]
     "S&amp;end" true
     ["S&amp;end"];
   Message false [Loc None "+23"]
     "Clear all fields of the form." true
     ["Fjern alle feltene i skjemaet."];
   Message false [Loc None "+3"]
     "Clear &amp;All" true
     ["Fjern &amp; alle"];
   Message false [Loc None "+14"]
     "Send to multiple recipients at once" true
     ["Sende til flere mottakere samtidig"];
   Message false [Loc None "+3"]
     "Add &amp;Recipient" true
     ["Legg til &amp; mottaker"];
   Message false [Loc None "+38"]
     "Balance:" true
     ["Balanse:"];
   Message false [Loc (Some "../sendcoinsdialog.cpp") "-730"]
     "Add Output" true
     ["Legg til utdata"];
   Message false [Loc None "+3"]
     "Add Recipient" true
     ["Legg til mottaker"];
   Message false [Loc None "+14"]
     "Copy quantity" true
     ["Kopier antall"];
   Message false [Loc None "+1"]
     "Copy amount" true
     ["Kopier beløp"];
   Message false [Loc None "+1"]
     "Copy fee" true
     ["Kopier avgift"];
   Message false [Loc None "+1"]
     "Copy after fee" true
     ["Kopier etter avgift"];
   Message false [Loc None "+1"]
     "Copy bytes" true
     ["Kopier byte"];
   Message false [Loc None "+1"]
     "Copy dust" true
     ["Kopier støv"];
   Message false [Loc None "+1"]
     "Copy change" true
     ["Kopier endring"];
   Message false [Loc None "+88"]
     "%1 (%2 blocks)" true
     ["% 1 (% 2 blokker)"];
   Message false [Loc None "+39"]
     "This tab allows manually activating Staking funds for ColdStaking. This will take longer than the &quot;Automated ColdStaking activation&quot; to start staking but wallet does not need to be online for the activation." true
     ["Denne fanen tillater manuell aktivering av innsatsmidler for ColdStaking. Denne ville ta lengere enn det &quot;automatisert ColdStaking aktivisering&quot; for å starte staking bortsett fra mur er ikke nød å bli online for aktiviseringen."];
   Message false [Loc None "+103"]
     "Error Remote Staking Address" true
     ["Feil adresse for ekstern innsats"];
   Message false [Loc None "+0"]
     "The remote stake address can&apos;t be part of this wallet." true
     ["Den eksterne stavs adressen kan ikke være en del av denne lommeboken."];
   Message false [Loc None "+96"]
     "from wallet %1" true
     ["fra lommeboken% 1"];
   Message false [Loc None "+21"; Loc None "+5"; Loc None "+5"; Loc None "+4"]
     "%1 to %2" true
     ["% 1 til% 2"];
   Message false [Loc None "+6"]
     "Are you sure you want to send?" true
     ["Er du sikker på at du vil sende?"];
   Message false [Loc None "+2"]
     "Please, review your transaction." true
     ["Vennligst se gjennom transaksjonen."];
   Message false [Loc None "+11"]
     "Estimated Transaction fee" true
     ["Estimert transaksjonsgebyr"];
   Message false [Loc None "+13"]
     "removed for transaction fee" true
     ["fjernet for transaksjonsgebyr"];
   Message false [Loc None "+2"]
     "added as transaction fee" true
     ["lagt til som transaksjonsgebyr"];
   Message false [Loc None "+5"]
     "You can increase the fee later (signals Replace-By-Fee, BIP-125)." true
     ["Du kan øke gebyret senere (signaler erstatter-by-Fee, BIP-125)."]].

Definition nb_SendCoinsDialog_3 : list message :=
  [Message false [Loc None "+2"]
     "Not signalling Replace-By-Fee, BIP-125." true
     ["Ikke signalisere Erstatt-by-Fee, BIP-125."];
   Message false [Loc None "+12"]
     "Total Amount" true
     ["Totalbeløpet"];
   Message false [Loc None "+6"]
     "Your hardware device must be connected to sign this txn." true
     ["Maskinvareenheten må være koblet til for å signere denne txn."];
   Message false [Loc None "+4"]
     "Confirm send coins" true
     ["Bekreft sending av mynter"];
   Message false [Loc None "+248"]
     "The recipient address is not valid. Please recheck." true
     ["Mottakeradressen er ikke gyldig. Kontroller om igjen."];
   Message false [Loc None "+3"]
     "The amount to pay must be larger than 0." true
     ["Beløpet som skal betales, må være større enn 0."];
   Message false [Loc None "+3"]
     "The amount exceeds your balance." true
     ["Beløpet overskrider saldoen."];
   Message false [Loc None "+3"]
     "The total exceeds your balance when the %1 transaction fee is included." true
     ["Totalen overskrider saldoen når Transaksjonsgebyret% 1 er inkludert."];
   Message false [Loc None "+3"]
     "Duplicate address found: addresses should only be used once each." true
     ["Duplikat adresse funnet: adressene skal bare brukes én gang hver."];
   Message false [Loc None "+3"]
     "Transaction creation failed!" true
     ["Opprettelse av transaksjon mislyktes."];
   Message false [Loc None "+4"]
     "The transaction was rejected with the following reason: %1" true
     ["Transaksjonen ble avslått med følgende årsak:% 1"];
   Message false [Loc None "+4"]
     "A fee higher than %1 is considered an absurdly high fee." true
     ["Et gebyr høyere enn% 1 regnes som en absurd høy avgift."];
   Message false [Loc None "+3"]
     "Payment request expired." true
     ["Betalingsforespørsel utløpt."];
   Message false [Loc None "+96"]
     "Pay only the required fee of %1" true
     ["Betal bare det påkrevde gebyret på% 1"];
   Message true [Loc None "+76"]
     "Estimated to begin confirmation within %n block(s)." true
     ["Anslått til å starte bekreftelse innen% n blokk (er)."; "Anslått til å starte bekreftelse innen% n blokk (er)."];
   Message false [Loc None "+130"]
     "Warning: Invalid Bitcoin Confidential address" true
     ["Advarsel: Ugyldig Bitcoin-konfidensiell adresse"];
   Message false [Loc None "+8"]
     "Error custom change address" true
     ["Feil egendefinert endrings adresse"];
   Message false [Loc None "+0"]
     "The address you selected for change is not part of this wallet." true
     ["Adressen du valgte for endring, er ikke en del av denne lommeboken."];
   Message false [Loc None "+15"]
     "(no label)" true
     ["(ingen etikett)"]].

Definition nb_SendCoinsEntry_1 : list message :=
  [Message false [Loc (Some "../forms/sendcoinsentry.ui") "+30"]
     "This is a normal payment." true
     ["Dette er en vanlig betaling."];
   Message false [Loc None "+71"; Loc None "+463"; Loc None "+130"]
     "Subtract fee from amount" true
     ["Trekk fra gebyr fra beløp"];
   Message false [Loc None "-580"; Loc None "+463"; Loc None "+130"]
     "Use available balance" true
     ["Bruk tilgjengelig saldo"];
   Message false [Loc None "-562"]
     "Message" true
     ["Melding"];
   Message false [Loc None "+24"; Loc None "+261"]
     "The Bitcoin Confidential address to send the payment to" true
     ["Bitcoin konfidensiell adresse for å sende betalingen til"];
   Message false [Loc None "-254"; Loc None "+261"; Loc None "+297"; Loc None "+104"]
     "Choose previously used address" true
     ["Velg tidligere brukt adresse"];
   Message false [Loc None "-646"; Loc None "+261"; Loc None "+297"; Loc None "+104"]
     "Alt+A" true
     ["Alt + A"];
   Message false [Loc None "-655"; Loc None "+261"; Loc None "+297"; Loc None "+104"]
     "Paste address from clipboard" true
     ["Lim inn adresse fra utklippstavle"];
   Message false [Loc None "-646"; Loc None "+261"; Loc None "+297"; Loc None "+104"]
     "Alt+P" true
     ["Alt + P"];
   Message false [Loc None "-655"; Loc None "+261"; Loc None "+401"; Loc None "+520"; Loc None "+564"]
     "Remove this entry" true
     ["Fjern denne oppføringen"];
   Message false [Loc None "-1718"; Loc None "+277"]
     "Pay To" true
     ["Betal til"];
   Message false [Loc None "-258"; Loc None "+242"; Loc None "+277"]
     "Amount" true
     ["Beløpet"];
   Message false [Loc None "-495"]
     "Enter a label for this address to add it to the list of used addresses" true
     ["Angi en etikett for denne adressen for å legge den til i listen over brukte adresser"];
   Message false [Loc None "+15"]
     "Label" true
     ["Etiketten"];
   Message false [Loc None "+33"]
     "A short message sent over the Bitcoin Confidential network." true
     ["En kort melding som sendes over det konfidensielle Bitcoin-nettverket."];
   Message false [Loc None "+6"]
     "Encrypted message sent with the transaction (optional, max. 24 characters)." true
     ["Kryptert melding sendt med transaksjonen (valgfritt, maks. 24 tegn)."];
   Message false [Loc None "+261"]
     "This is a payment to a coldstake script." true
     ["Dette er en betaling til et coldstake skript."];
   Message false [Loc None "+83"]
     "The fee will be deducted from the amount being sent. The recipient will receive less Bitcoin Confidential than you enter in the amount field. If multiple recipients are selected, the fee is split equally." true
     ["Gebyret vil trekkes fra beløpet som sendes. Mottakeren vil motta mindre Bitcoin konfidensielt enn du angir i beløpsfeltet. Hvis flere mottakere er valgt, deles gebyret likt."];
   Message false [Loc None "+36"]
     "ColdStake address used by your remote staking node to stake your funds." true
     ["ColdStake-adresse som brukes av den eksterne staking-noden til å satse midlene dine."];
   Message false [Loc None "+80"]
     "ColdStake " true
     ["ColdStake"];
   Message false [Loc None "+24"]
     "The stake address on the remote node (cannot be in this wallet)" true
     ["Stavs adressen på den eksterne noden (kan ikke være i denne lommeboken)"];
   Message false [Loc None "+81"]
     " Stake " true
     ["Innsats"];
   Message false [Loc None "+434"]
     "This is an unauthenticated payment request." true
     ["Dette er en ikke godkjent betalingsforespørsel."];
   Message false [Loc None "+40"; Loc None "+560"]
     "Pay To:" true
     ["Betal til:"]].

Definition nb_SendCoinsEntry_2 : list message :=
  [Message false [Loc None "-526"; Loc None "+577"]
     "Memo:" true
     ["Memo:"];
   Message false [Loc None "-560"; Loc None "+547"]
     "A&amp;mount:" true
     ["A&amp;mount:"];
   Message false [Loc None "-78"]
     "This is an authenticated payment request." true
     ["Dette er en godkjent betalingsforespørsel."];
   Message false [Loc (Some "../sendcoinsentry.cpp") "+89"]
     "Enter a label for this address to add it to your address book" true
     ["Skriv inn en etikett for denne adressen for å legge den til i adresseboken"]].

Definition nb_SendConfirmationDialog : list message :=
  [Message false [Loc (Some "../sendcoinsdialog.cpp") "+85"; Loc None "+5"]
     "Yes" true
     ["ja"]].

Definition nb_ShutdownWindow : list message :=
  [Message false [Loc (Some "../utilitydialog.cpp") "+83"]
     "%1 is shutting down..." true
     ["% 1 avsluttes..."];
   Message false [Loc None "+1"]
     "Do not shut down the computer until this window disappears." true
     ["Ikke slå av datamaskinen før dette vinduet forsvinner."]].

Definition nb_SignVerifyMessageDialog_1 : list message :=
  [Message false [Loc (Some "../forms/signverifymessagedialog.ui") "+14"]
     "Signatures - Sign / Verify a Message" true
     ["Signaturer-Signer/Bekreft en melding"];
   Message false [Loc None "+14"]
     "&amp;Sign Message" true
     ["&amp; Signere melding"];
   Message false [Loc None "+10"]
     "&amp;Verify Message" true
     ["&amp; Bekreft melding"];
   Message false [Loc None "+31"]
     "You can sign messages/agreements with your addresses to prove you can receive Bitcoin Confidential sent to them. Be careful not to sign anything vague or random, as phishing attacks may try to trick you into signing your identity over to them. Only sign fully-detailed statements you agree to." true
     ["Du kan signere meldinger/avtaler med adressene dine for å bevise at du kan motta Bitcoin konfidensielt sendt til dem. Vær forsiktig så du ikke signerer noe uklart eller tilfeldig, siden phishing-angrep kan prøve å lure deg til å signere identiteten din for dem. Bare Signer fullt detaljerte utsagn du godtar."];
   Message false [Loc None "+18"]
     "The Bitcoin Confidential address to sign the message with" true
     ["Bitcoin-konfidensiell adresse for å signere meldingen med"];
   Message false [Loc None "+7"; Loc None "+213"]
     "Choose previously used address" true
     ["Velg tidligere brukt adresse"];
   Message false [Loc None "-203"; Loc None "+213"]
     "Alt+A" true
     ["Alt + A"];
   Message false [Loc None "-203"]
     "Paste address from clipboard" true
     ["Lim inn adresse fra utklippstavle"];
   Message false [Loc None "+10"]
     "Alt+P" true
     ["Alt + P"];
   Message false [Loc None "+12"]
     "Enter the message you want to sign here" true
     ["Skriv inn meldingen du vil signere her"];
   Message false [Loc None "+7"]
     "Signature" true
     ["Signatur"];
   Message false [Loc None "+27"]
     "Copy the current signature to the system clipboard" true
     ["Kopier gjeldende signatur til systemutklippstavlen"];
   Message false [Loc None "+21"]
     "Sign the message to prove you own this Bitcoin Confidential address" true
     ["Signer meldingen for å bevise at du eier denne Bitcoin konfidensiell adresse"];
   Message false [Loc None "+3"]
     "Sign &amp;Message" true
     ["Logg &amp; melding"];
   Message false [Loc None "+14"]
     "Reset all sign message fields" true
     ["Tilbakestill alle tegn Meldingsfelt"];
   Message false [Loc None "+3"; Loc None "+153"]
     "Clear &amp;All" true
     ["Fjern &amp; alle"];
   Message false [Loc None "-85"]
     "Enter the receiver&apos;s address, message (ensure you copy line breaks, spaces, tabs, etc. exactly) and signature below to verify the message. Be careful not to read more into the signature than what is in the signed message itself, to avoid being tricked by a man-in-the-middle attack. Note that this only proves the signing party receives with the address, it cannot prove sendership of any transaction!" true
     ["Skriv inn mottakerens adresse, melding (sikre at du kopierer linjeskift, mellomrom, faner, etc. nøyaktig) og signatur nedenfor for å bekrefte meldingen. Vær forsiktig så du ikke leser mer inn i signaturen enn det som er i den signerte meldingen selv, for å unngå å bli lurt av en mann-i-midten angrep. Merk at dette bare beviser signerings partiet mottar med adressen, kan det ikke bevise sendership av noen transaksjon!"];
   Message false [Loc None "+21"]
     "The Bitcoin Confidential address the message was signed with" true
     ["Den konfidensielle Bitcoin-adressen meldingen ble signert med"];
   Message false [Loc None "+44"]
     "Verify the message to ensure it was signed with the specified Bitcoin Confidential address" true
     ["Kontroller meldingen for å sikre at den er signert med den angitte konfidensielle adressen for Bitcoin."];
   Message false [Loc None "+3"]
     "Verify &amp;Message" true
     ["Bekreft &amp; melding"];
   Message false [Loc None "+14"]
     "Reset all verify message fields" true
     ["Tilbakestill alle kontroller Meldingsfelt"];
   Message false [Loc (Some "../signverifymessagedialog.cpp") "+39"]
     "Click &quot;Sign Message&quot; to generate signature" true
     ["Klikk på &quot;Signer melding&quot; for å generere signatur"];
   Message false [Loc None "+78"; Loc None "+78"]
     "The entered address is invalid." true
     ["Den angitte adressen er ugyldig."];
   Message false [Loc None "-78"; Loc None "+7"; Loc None "+71"; Loc None "+6"]
     "Please check the address and try again." true
     ["Kontroller adressen og prøv på nytt."];
   Message false [Loc None "-77"; Loc None "+77"]
     "The entered address does not refer to a key." true
     ["Den angitte adressen refererer ikke til en nøkkel."];
   Message false [Loc None "-69"]
     "Wallet unlock was cancelled." true
     ["Opplåsing av lommeboken ble avbrutt."];
   Message false [Loc None "+8"]
     "Private key for the entered address is not available." true
     ["Privat nøkkel for angitt adresse er ikke tilgjengelig."];
   Message false [Loc None "+12"]
     "Message signing failed." true
     ["Meldings signering mislyktes."]].

Definition nb_SignVerifyMessageDialog_2 : list message :=
  [Message false [Loc None "+5"]
     "Message signed." true
     ["Melding signert."];
   Message false [Loc None "+55"]
     "The signature could not be decoded." true
     ["Signaturen kan ikke dekodes."];
   Message false [Loc None "+0"; Loc None "+13"]
     "Please check the signature and try again." true
     ["Kontroller signaturen, og prøv på nytt."];
   Message false [Loc None "+0"]
     "The signature did not match the message digest." true
     ["Signaturen samsvarer ikke med meldingssammendraget."];
   Message false [Loc None "+6"]
     "Message verification failed." true
     ["Meldingsbekreftelse mislyktes."];
   Message false [Loc None "+5"]
     "Message verified." true
     ["Melding bekreftet."]].

Definition nb_SplashScreen : list message :=
  [Message false [Loc (Some "../networkstyle.cpp") "+19"]
     "[testnet]" true
     ["[testnet]"]].

Definition nb_StakingDialog_1 : list message :=
  [Message false [Loc (Some "../forms/stakingdialog.ui") "+14"]
     "Send Coins" true
     ["Send mynter"];
   Message false [Loc None "+23"]
     "Status" true
     ["Status"];
   Message false [Loc None "+19"]
     "Addresses" true
     ["Adresser"];
   Message false [Loc None "+16"]
     "Rewards" true
     ["Belønninger"];
   Message false [Loc None "+16"]
     "Convert to Spending" true
     ["Konverter til forbruk"];
   Message false [Loc None "+16"]
     "Convert to Staking" true
     ["Konverter til staking"];
   Message false [Loc None "+16"]
     "Activate ColdStaking" true
     ["Aktivere ColdStaking"];
   Message false [Loc None "+79"]
     "Total supply" true
     ["Total forsyning"];
   Message false [Loc None "+26"]
     "Current block reward" true
     ["Nåværende blokk belønning"];
   Message false [Loc None "+26"]
     "Current block height" true
     ["Gjeldende blokk høyde"];
   Message false [Loc None "+20"]
     "Network difficulty" true
     ["Problemer med nettverket"];
   Message false [Loc None "+26"]
     "Annual staking reward" true
     ["Årlig innsats belønning"];
   Message false [Loc None "+13"]
     "Current staking reward" true
     ["Nåværende innsats belønning"];
   Message false [Loc None "+26"]
     "Network staking weight" true
     ["Vekt på nettverks innsats"];
   Message false [Loc None "+20"]
     "Your estimated annual reward" true
     ["Din estimerte årlige belønning"];
   Message false [Loc None "+13"]
     "?" true
     ["?"];
   Message false [Loc None "+80"]
     "Staking" true
     ["Staking"];
   Message false [Loc None "+24"; Loc None "+233"]
     "ENABLED" true
     ["Aktivert"];
   Message false [Loc None "-210"]
     "Pause" true
     ["Pause"];
   Message false [Loc None "+50"; Loc None "+425"]
     "Estimated reward frequency" true
     ["Anslått belønnings frekvens"];
   Message false [Loc None "-412"]
     "Stakable Funds" true
     ["Stakable midler"];
   Message false [Loc None "+20"]
     "Wallet staking weight" true
     ["Vekt på lommebok innsats"];
   Message false [Loc None "+103"]
     "Cold Staking" true
     ["Cold staking"];
   Message false [Loc None "+55"]
     "Remote Stake address" true
     ["Ekstern stavs adresse"];
   Message false [Loc None "+13"]
     "Automated ColdStaking activation" true
     ["Automatisert ColdStaking aktivisering"];
   Message false [Loc None "+25"]
     "Enable " true
     ["Aktiverer"];
   Message false [Loc None "+57"]
     "Enable Hot Staking with the STAKING ENABLE button and leaving wallet open.  Enable automated ColdStake with COLDSTAKING ENABLE button and setting a remote stake address. On remote node enable staking with &quot;bitcoinc-cli walletsettings stakingstatus true&quot; and create a &quot;Stake&quot; address on your remote node with &quot;bitcoinc-cli getnewstakeaddress&quot;, or get a &quot;Stake&quot; address from a ColdStaking pool. Funds gradually transition over from hot staking to cold staking while your wallet is open. The time required for the activation depends on the wallet&apos;s staking weight and can take several days with a low weight. Once the activation bar shows complete, wallet can be closed.  Alternatively, use the Activate Coldstaking tab to send an activation transaction.  This will take longer to start staking but wallet does not need to be online." true
     ["Aktiver Hot staking med STAKING ENABLE-knappen og la lommeboken være åpen.  Aktiver automatiserte ColdStake med COLDSTAKING ENABLE-knappen og angi en ekstern stavs adresse. På ekstern node aktiverer du staking med &quot;bitcoinc-CLI walletsettings stakingstatus true&quot; og oppretter en &quot;stake&quot;-adresse på den eksterne noden med &quot;bitcoinc-CLI-getnewstakeaddress&quot;, eller får en &quot;stake&quot;-adresse fra et ColdStaking-utvalg. Midler gradvis overgang fra varme staking til kalde staking mens lommeboken er åpen. Tiden som kreves for aktiveringen, avhenger av lommeboken innsats vekt og kan ta flere dager med lav vekt. En gang aktiviseringen stang viser fullstendig, mur kan stengt.  Du kan også bruke kategorien Aktiver Coldstaking til å sende en aktiverings transaksjon.  Dette vil ta lengre tid å starte staking, men lommeboken trenger ikke å være online."];
   Message false [Loc None "+20"]
     "ColdStake activation progress" true
     ["Fremdrift for ColdStake-aktivering"];
   Message false [Loc None "+77"]
     "Amount activated for ColdStaking" true
     ["Beløp aktivert for ColdStaking"]].

Definition nb_StakingDialog_2 : list message :=
  [Message false [Loc None "+13"]
     "Estimated weight" true
     ["Estimert vekt"];
   Message false [Loc None "+106"]
     "Filtered" true
     ["Filtrert"];
   Message false [Loc None "+15"; Loc None "+88"]
     "Staking rewards" true
     ["Innsats belønninger"];
   Message false [Loc None "-75"; Loc None "+48"]
     "Solved blocks" true
     ["Løst blokker"];
   Message false [Loc None "-41"; Loc None "+55"]
     "4000" true
     ["4000"];
   Message false [Loc None "-48"; Loc None "+41"]
     "100000BC" true
     ["100000BC"];
   Message false [Loc None "-22"]
     "Total" true
     ["Totalt"];
   Message false [Loc (Some "../stakingdialog.cpp") "+258"; Loc None "+17"]
     "No stakable funds available. Use the &quot;Convert to staking&quot; tab to convert funds for staking." true
     ["Ingen stakable midler tilgjengelig. Bruk «Konverter til staking»-fanen for å konvertere midler til staking."];
   Message false [Loc None "-15"; Loc None "+18"]
     "No eligible staking outputs available. Staking funds need to have 225 confirmations to be eligible." true
     ["Ingen kvalifiserte staking utganger tilgjengelig. Staking midler må ha 225 bekreftelser for å være berettiget."];
   Message false [Loc None "-9"]
     "Staking not initialized yet. Wait a moment." true
     ["Staking er ikke initialisert ennå. Vent et øyeblikk."];
   Message false [Loc None "+3"]
     "Staking is stopped. Press the start button above to enable staking." true
     ["Staking er stoppet. Trykk på Start-knappen ovenfor for å aktivere staking."];
   Message false [Loc None "+10"]
     "Wallet is locked. To start staking unlock the wallet for staking only. To unlock click the lock icon in the bottom right hand portion of the window." true
     ["Lommeboken er låst. For å starte staking låse opp lommeboken for staking bare. For å låse opp Klikk på lås-ikonet i nedre høyre del av vinduet."];
   Message false [Loc None "+4"]
     "Wallet is not fully synced. To start staking make sure the wallet has connections to the network and wait until it catched up with the latest blocks." true
     ["Lommeboken er ikke fullstendig synkronisert. For å starte staking må du sørge for at lommeboken har tilkoblinger til nettverket og vente til den catched opp med de nyeste blokkene."];
   Message false [Loc None "+3"]
     "Staking is disabled. Set the config paramter &quot;staking=1&quot; in the bitcoinc.conf to enable it." true
     ["Staking er deaktivert. Sett config parameter &quot;staking = 1&quot; i bitcoinc. conf å aktivere den."];
   Message false [Loc None "+72"]
     "No eligible coldstaking outputs available. Your coldstaking funds need to have 225 confirmations to be eligible." true
     ["Ingen kvalifiserte coldstaking utganger tilgjengelig. Dine coldstaking midler må ha 225 bekreftelser for å være berettiget."];
   Message false [Loc None "+160"]
     "Set Remote Staking Address" true
     ["Angi adresse for ekstern innsats"];
   Message false [Loc None "+1"]
     "Enter the remote staking address:" true
     ["Angi adressen for ekstern innsats:"]].

Definition nb_TrafficGraphWidget : list message :=
  [Message false [Loc (Some "../trafficgraphwidget.cpp") "+81"]
     "KB/s" true
     ["KB/s"]].

Definition nb_TransactionDesc_1 : list message :=
  [Message true [Loc (Some "../transactiondesc.cpp") "+39"]
     "Open for %n more block(s)" true
     ["Åpen for% n flere blokker (er)"; "Åpen for% n flere blokker (er)"];
   Message false [Loc None "+2"]
     "Open until %1" true
     ["Åpen til% 1"];
   Message false [Loc None "+6"]
     "conflicted with a transaction with %1 confirmations" true
     ["er i konflikt med en transaksjon med% 1 bekreftelser"];
   Message false [Loc None "+2"]
     "0/unconfirmed, %1" true
     ["0/ubekreftet,% 1"];
   Message false [Loc None "+0"]
     "in memory pool" true
     ["i minne utvalg"];
   Message false [Loc None "+0"]
     "not in memory pool" true
     ["ikke i minne utvalg"];
   Message false [Loc None "+0"]
     "abandoned" true
     ["Forlatt"];
   Message false [Loc None "+2"]
     "%1/unconfirmed" true
     ["% 1/ubekreftet"];
   Message false [Loc None "+2"]
     "%1 confirmations" true
     ["% 1 bekreftelser"];
   Message false [Loc None "+29"]
     "Status" true
     ["Status"];
   Message false [Loc None "+3"]
     "Date" true
     ["Dato"];
   Message false [Loc None "+4"; Loc None "+223"]
     "Transaction ID" true
     ["Transaksjons-ID"];
   Message false [Loc None "-210"; Loc None "+211"]
     "Transaction total size" true
     ["Total størrelse for transaksjon"];
   Message false [Loc None "-209"]
     "Confirmations" true
     ["Bekreftelser"];
   Message false [Loc None "+4"]
     "Block hash" true
     ["Blokk nummer"];
   Message false [Loc None "+1"]
     "Block index" true
     ["Blokker indeks"];
   Message false [Loc None "+1"]
     "Block time" true
     ["Block tid"];
   Message false [Loc None "+21"]
     "Source" true
     ["Kilde"];
   Message false [Loc None "+0"]
     "Generated" true
     ["Generert"];
   Message false [Loc None "+5"; Loc None "+14"; Loc None "+72"]
     "From" true
     ["Fra"];
   Message false [Loc None "-72"]
     "unknown" true
     ["Ukjent"];
   Message false [Loc None "+1"; Loc None "+20"; Loc None "+72"]
     "To" true
     ["Å"];
   Message false [Loc None "-90"]
     "own address" true
     ["egen adresse"];
   Message false [Loc None "+0"; Loc None "+69"]
     "watch-only" true
     ["bare klokke"];
   Message false [Loc None "-67"]
     "label" true
     ["Etiketten"];
   Message false [Loc None "+36"; Loc None "+12"; Loc None "+58"; Loc None "+37"; Loc None "+66"]
     "Credit" true
     ["Kreditt"];
   Message true [Loc None "-171"]
     "matures in %n more block(s)" true
     ["forfaller i% n flere blokker (er)"; "forfaller i% n flere blokker (er)"]].

Definition nb_TransactionDesc_2 : list message :=
  [Message false [Loc None "+2"]
     "not accepted" true
     ["ikke godtatt"];
   Message false [Loc None "+64"; Loc None "+26"; Loc None "+71"]
     "Debit" true
     ["Debet"];
   Message false [Loc None "-87"]
     "Total debit" true
     ["Sum debet"];
   Message false [Loc None "+1"]
     "Total credit" true
     ["Sum kreditt"];
   Message false [Loc None "+5"]
     "Transaction fee" true
     ["Transaksjonsgebyr"];
   Message false [Loc None "+27"]
     "Net amount" true
     ["Nettobeløpet"];
   Message false [Loc None "+6"; Loc None "+12"]
     "Message" true
     ["Melding"];
   Message false [Loc None "-10"]
     "Comment" true
     ["Kommentar"];
   Message false [Loc None "+4"]
     "Transaction virtual size" true
     ["Virtuell transaksjons størrelse"];
   Message false [Loc None "+1"]
     "Output index" true
     ["Utdata-indeks"];
   Message false [Loc None "+10"]
     "Narration" true
     ["Fortellerstemme"];
   Message false [Loc None "+13"]
     "Merchant" true
     ["Kjøpmann"];
   Message false [Loc None "+7"]
     "Generated coins must mature %1 blocks before they can be spent. When you generated this block, it was broadcast to the network to be added to the block chain. If it fails to get into the chain, its state will change to &quot;not accepted&quot; and it won&apos;t be spendable. This may occasionally happen if another node generates a block within a few seconds of yours." true
     ["Genererte mynter må modnes% 1 blokker før de kan brukes. Da du genererte denne blokken, ble den sendt til nettverket som skulle legges til blokk kjeden. Hvis den ikke klarer å komme inn i kjeden, vil staten endres til &quot;ikke akseptert&quot; og det vil ikke være spendable. Dette kan av og til skje hvis en annen node genererer en blokk i løpet av noen få sekunder av deg."];
   Message false [Loc None "+8"]
     "Debug information" true
     ["Feilsøkingsinformasjon"];
   Message false [Loc None "+13"]
     "Transaction" true
     ["Transaksjonen"];
   Message false [Loc None "+3"]
     "Inputs" true
     ["Innganger"];
   Message false [Loc None "+21"]
     "Amount" true
     ["Beløpet"];
   Message false [Loc None "+1"; Loc None "+1"]
     "true" true
     ["Sant"];
   Message false [Loc None "-1"; Loc None "+1"]
     "false" true
     ["Falske"]].

Definition nb_TransactionDescDialog : list message :=
  [Message false [Loc (Some "../forms/transactiondescdialog.ui") "+26"]
     "This pane shows a detailed description of the transaction" true
     ["Denne ruten viser en detaljert beskrivelse av transaksjonen"];
   Message false [Loc (Some "../transactiondescdialog.cpp") "+17"]
     "Details for %1" true
     ["Detaljer for% 1"]].

Definition nb_TransactionTableModel_1 : list message :=
  [Message false [Loc (Some "../transactiontablemodel.cpp") "+257"]
     "Date" true
     ["Dato"];
   Message false [Loc None "+2"]
     "Type" true
     ["Type"];
   Message false [Loc None "+2"]
     "Label" true
     ["Etiketten"];
   Message false [Loc None "+3"]
     "In" true
     ["I"];
   Message false [Loc None "+0"]
     "Out" true
     ["Ut"];
   Message true [Loc None "+73"]
     "Open for %n more block(s)" true
     ["Åpen for% n flere blokker (er)"; "Åpen for% n flere blokker (er)"];
   Message false [Loc None "+3"]
     "Open until %1" true
     ["Åpen til% 1"];
   Message false [Loc None "+3"]
     "Unconfirmed" true
     ["Ubekreftet"];
   Message false [Loc None "+4"]
     "Orphaned" true
     ["Foreldreløse"];
   Message false [Loc None "+2"]
     "Abandoned" true
     ["Forlatt"];
   Message false [Loc None "+22"]
     "Confirming (%1 of %2 recommended confirmations)" true
     ["Bekrefter (% 1 av% 2 anbefalte bekreftelser)"];
   Message false [Loc None "+3"]
     "Confirmed (%1 confirmations)" true
     ["Bekreftet (% 1 bekreftelser)"];
   Message false [Loc None "+3"]
     "Conflicted" true
     ["Konflikt"];
   Message false [Loc None "+3"]
     "Immature (%1 confirmations, will be available after %2)" true
     ["Umodne (% 1 bekreftelser, vil være tilgjengelig etter% 2)"];
   Message false [Loc None "+3"]
     "Generated but not accepted" true
     ["Generert, men ikke godtatt"];
   Message false [Loc None "+39"]
     "Received with" true
     ["Mottatt med"];
   Message false [Loc None "+2"]
     "Received from" true
     ["Mottatt fra"];
   Message false [Loc None "+3"]
     "Sent to" true
     ["Sendt til"];
   Message false [Loc None "+2"]
     "Payment to yourself" true
     ["Betaling til deg selv"];
   Message false [Loc None "+2"]
     "Airdrop" true
     ["Airdrop"];
   Message false [Loc None "+2"]
     "Staked" true
     ["Staket"];
   Message false [Loc None "+30"]
     "watch-only" true
     ["bare klokke"];
   Message false [Loc None "+16"]
     "(n/a)" true
     ["(n/a)"];
   Message false [Loc None "+168"]
     "Unlock to show" true
     ["Lås opp for å vise"];
   Message false [Loc None "+111"]
     "(no label)" true
     ["(ingen etikett)"];
   Message false [Loc None "+42"; Loc None "+14"]
     "Transaction status. Hover over this field to show number of confirmations." true
     ["Transaksjonsstatus. Hold pekeren over dette feltet for å vise antall bekreftelser."];
   Message false [Loc None "-12"]
     "Date and time that the reward was received." true
     ["Datoen og klokkeslettet da belønningen ble mottatt."];
   Message false [Loc None "+2"; Loc None "+16"]
     "Whether or not a watch-only address is involved in this transaction." true
     ["Om en klokke adresse er involvert i denne transaksjonen eller ikke."];
   Message false [Loc None "-14"]
     "Address used for the block solving" true
     ["Adresse som brukes til blokk løsing"]].

Definition nb_TransactionTableModel_2 : list message :=
  [Message false [Loc None "+2"]
     "Staking reward." true
     ["Staking belønning."];
   Message false [Loc None "+8"]
     "Date and time that the transaction was received." true
     ["Datoen og klokkeslettet da transaksjonen ble mottatt."];
   Message false [Loc None "+2"]
     "Type of transaction." true
     ["Type transaksjon."];
   Message false [Loc None "+4"]
     "User-defined intent/purpose of the transaction." true
     ["Brukerdefinert hensikt/formålet med transaksjonen."];
   Message false [Loc None "+2"]
     "Type of input coin." true
     ["Type inn data mynt."];
   Message false [Loc None "+2"]
     "Type of output coin." true
     ["Type utgang mynt."];
   Message false [Loc None "+2"]
     "Amount removed from or added to balance." true
     ["Beløp som er fjernet fra eller lagt til i saldoen."]].

Definition nb_TransactionView_1 : list message :=
  [Message false [Loc (Some "../transactionview.cpp") "+53"; Loc None "+11"; Loc None "+18"]
     "All" true
     ["Alle"];
   Message false [Loc None "-17"]
     "Today" true
     ["Dag"];
   Message false [Loc None "+1"]
     "This week" true
     ["Denne uken"];
   Message false [Loc None "+1"]
     "This month" true
     ["Denne måneden"];
   Message false [Loc None "+1"]
     "Last month" true
     ["Forrige måned"];
   Message false [Loc None "+1"]
     "This year" true
     ["I år"];
   Message false [Loc None "+1"]
     "Range..." true
     ["Området..."];
   Message false [Loc None "+13"]
     "Received with" true
     ["Mottatt med"];
   Message false [Loc None "+2"]
     "Sent to" true
     ["Sendt til"];
   Message false [Loc None "+2"]
     "To yourself" true
     ["Til deg selv"];
   Message false [Loc None "+1"]
     "Other" true
     ["Andre"];
   Message false [Loc None "+1"]
     "Airdrop" true
     ["Airdrop"];
   Message false [Loc None "+5"]
     "Enter address, transaction id, or label to search" true
     ["Angi adresse, transaksjons-ID eller etikett for søk"];
   Message false [Loc None "+5"]
     "Min amount" true
     ["Minimumsbeløp"];
   Message false [Loc None "+52"]
     "Abandon transaction" true
     ["Forlat transaksjon"];
   Message false [Loc None "+1"]
     "Increase transaction fee" true
     ["Øk Transaksjonsgebyret"];
   Message false [Loc None "+2"]
     "Copy address" true
     ["Kopier adresse"];
   Message false [Loc None "+1"]
     "Copy label" true
     ["Kopier etikett"];
   Message false [Loc None "+1"]
     "Copy amount" true
     ["Kopier beløp"];
   Message false [Loc None "+1"]
     "Copy transaction ID" true
     ["Kopier transaksjons-ID"];
   Message false [Loc None "+1"]
     "Copy raw transaction" true
     ["Kopier rå transaksjon"];
   Message false [Loc None "+1"]
     "Copy full transaction details" true
     ["Kopier fullstendige transaksjonsdetaljer"];
   Message false [Loc None "+1"]
     "Edit label" true
     ["Rediger etikett"];
   Message false [Loc None "+1"]
     "Show transaction details" true
     ["Vis transaksjonsdetaljer"];
   Message false [Loc None "+239"]
     "Export Transaction History" true
     ["Eksportere transaksjonslogg"];
   Message false [Loc None "+1"]
     "Comma separated file (*.csv)" true
     ["Kommadelt fil (*. csv)"];
   Message false [Loc None "+9"]
     "Confirmed" true
     ["Bekreftet"];
   Message false [Loc None "+2"]
     "Watch-only" true
     ["Bare klokke"];
   Message false [Loc None "+1"]
     "Date" true
     ["Dato"]].

Definition nb_TransactionView_2 : list message :=
  [Message false [Loc None "+2"]
     "Type" true
     ["Type"];
   Message false [Loc None "+2"]
     "Label" true
     ["Etiketten"];
   Message false [Loc None "+1"]
     "Address" true
     ["Adresse"];
   Message false [Loc None "+2"]
     "ID" true
     ["Id"];
   Message false [Loc None "+3"]
     "Exporting Failed" true
     ["Eksport mislyktes"];
   Message false [Loc None "+0"]
     "There was an error trying to save the transaction history to %1." true
     ["Det oppstod en feil under forsøk på å lagre transaksjonsloggen til% 1."];
   Message false [Loc None "+4"]
     "Exporting Successful" true
     ["Eksport vellykket"];
   Message false [Loc None "+0"]
     "The transaction history was successfully saved to %1." true
     ["Transaksjonsloggen ble lagret til% 1."];
   Message false [Loc None "+169"]
     "Range:" true
     ["Området:"];
   Message false [Loc None "+8"]
     "to" true
     ["Å"]].

Definition nb_TxViewDelegate : list message :=
  [Message false [Loc (Some "../overviewpage.cpp") "+95"]
     "Unlock to show" true
     ["Lås opp for å vise"]].

Definition nb_UnitDisplayStatusBarControl : list message :=
  [Message false [Loc (Some "../bitcoingui.cpp") "+122"]
     "Unit to show amounts in. Click to select another unit." true
     ["Enhet som skal vise beløp i. Klikk for å velge en annen enhet."]].

Definition nb_WalletFrame : list message :=
  [Message false [Loc (Some "../walletframe.cpp") "+29"]
     "No wallet has been loaded." true
     ["Ingen lommebok er lastet inn."]].

Definition nb_WalletModel : list message :=
  [Message false [Loc (Some "../walletmodel.cpp") "+592"; Loc None "+4"; Loc None "+11"]
     "Wallet Model" true
     ["Lommebok modell"];
   Message false [Loc None "+65"; Loc None "+39"; Loc None "+6"]
     "Fee bump error" true
     ["Gebyr Bump feil"];
   Message false [Loc None "-45"]
     "Increasing transaction fee failed" true
     ["Økende transaksjonsgebyr mislyktes"];
   Message false [Loc None "+6"]
     "Do you want to increase the fee?" true
     ["Ønsker du å øke avgiften?"];
   Message false [Loc None "+4"]
     "Current fee:" true
     ["Gjeldende avgift:"];
   Message false [Loc None "+4"]
     "Increase:" true
     ["Øke:"];
   Message false [Loc None "+4"]
     "New fee:" true
     ["Nytt gebyr:"];
   Message false [Loc None "+4"]
     "Confirm fee bump" true
     ["Bekrefte gebyr Bump"];
   Message false [Loc None "+17"]
     "Can&apos;t sign transaction." true
     ["Kan ikke signere transaksjon."];
   Message false [Loc None "+6"]
     "Could not commit transaction" true
     ["Kan ikke utføre transaksjon"]].

Definition nb_WalletView : list message :=
  [Message false [Loc (Some "../walletview.cpp") "+46"; Loc None "+1"]
     "&amp;Export" true
     ["&amp; Eksport"];
   Message false [Loc None "+9"; Loc None "+29"]
     "Export the data in the current tab to a file" true
     ["Eksportere dataene i den gjeldende fanen til en fil"];
   Message false [Loc None "-19"]
     "Selected amount" true
     ["Valgt beløp"];
   Message false [Loc None "+290"]
     "Backup Wallet" true
     ["Backup lommebok"];
   Message false [Loc None "+1"]
     "Wallet Data (*.dat)" true
     ["Lommebok data (*. dat)"];
   Message false [Loc None "+6"]
     "Backup Failed" true
     ["Sikkerhetskopiering mislyktes"];
   Message false [Loc None "+0"]
     "There was an error trying to save the wallet data to %1." true
     ["Det oppstod en feil under forsøk på å lagre lommebok dataene i% 1."];
   Message false [Loc None "+4"]
     "Backup Successful" true
     ["Sikkerhetskopiering fullført"];
   Message false [Loc None "+0"]
     "The wallet data was successfully saved to %1." true
     ["Lommebok dataene ble lagret til% 1."];
   Message false [Loc None "+63"]
     "Cancel" true
     ["Avbryte"]].

Definition nb_bitcoin_core_1 : list message :=
  [Message false [Loc (Some "../bitcoinstrings.cpp") "+12"]
     "Bitcoin Confidential Core" true
     ["Konfidensiell kjerne for Bitcoin"];
   Message false [Loc None "+1"]
     "The %s developers" true
     ["Utviklerne av% s"];
   Message false [Loc None "+1"]
     " is spendable from this wallet." true
     ["er spendable fra denne lommeboken."];
   Message false [Loc None "+1"]
     "-maxtxfee is set very high! Fees this large could be paid on a single transaction." true
     ["-maxtxfee er satt veldig høyt! Gebyrer som denne store kan betales på en enkelt transaksjon."];
   Message false [Loc None "+3"]
     "Can&apos;t generate a change-address key. Private keys are disabled for this wallet." true
     ["Kan ikke generere en nøkkel for endrings adresse. Private nøkler er deaktivert for denne lommeboken."];
   Message false [Loc None "+3"]
     "Cannot obtain a lock on data directory %s. %s is probably already running." true
     ["Kan ikke hente en lås på datakatalogen% s.% s kjører sannsynligvis allerede."];
   Message false [Loc None "+2"]
     "Cannot provide specific connections and have addrman find outgoing connections at the same." true
     ["Kan ikke gi bestemte tilkoblinger og har addrman finne utgående tilkoblinger på samme."];
   Message false [Loc None "+3"]
     "Cannot upgrade a non HD split wallet without upgrading to support pre split keypool. Please use -upgradewallet=169900 or -upgradewallet with no version specified." true
     ["Kan ikke oppgradere en ikke HD delt lommebok uten å oppgradere for å støtte pre Split keypool. Vennligst bruk-upgradewallet = 169900 eller-upgradewallet uten noen versjon spesifisert."];
   Message false [Loc None "+4"]
     "Distributed under the MIT software license, see the accompanying file %s or %s" true
     ["Distribuert under MIT programvarelisensen, se den med følgende filen% s eller% s"];
   Message false [Loc None "+3"]
     "Error loading %s: You can&apos;t enable HD on an already existing non-HD wallet" true
     ["Feil under innlasting av% s: du kan ikke aktivere HD på en allerede eksisterende ikke-HD-lommebok"];
   Message false [Loc None "+2"]
     "Error reading %s! All keys read correctly, but transaction data or address book entries might be missing or incorrect." true
     ["Feil under lesing av% s! Alle nøkler leses riktig, men det kan hende at transaksjonsdata eller adressebokoppføringer mangler eller er feil."];
   Message false [Loc None "+3"]
     "Error: Listening for incoming connections failed (listen returned error %s)" true
     ["Feil: lytting etter innkommende tilkoblinger mislyktes (Lytt returnerte feilen% s)"];
   Message false [Loc None "+2"]
     "Fee estimation failed. Fallbackfee is disabled. Wait a few blocks or enable -fallbackfee." true
     ["Gebyr estimering mislyktes. Fallbackfee er deaktivert. Vent noen kvartaler eller aktivere-fallbackfee."];
   Message false [Loc None "+3"]
     "Generate a random master key and main account if no master key exists. (default: %s)" true
     ["Generer en tilfeldig hovednøkkel og hovedkonto hvis det ikke finnes noen hovednøkkel. (standard:% s)"];
   Message false [Loc None "+3"]
     "Group outputs by address, selecting all or none, instead of selecting on a per-output basis. Privacy is improved as an address is only used once (unless someone sends to it after spending from it), but may result in slightly higher fees as suboptimal coin selection may result due to the added limitation (default: %u)" true
     ["Grupper utganger etter adresse, velge alle eller ingen, i stedet for å velge på en per-output basis. Personvern er forbedret som en adresse brukes bare én gang (med mindre noen sender til den etter å ha tilbrakt fra det), men kan resultere i litt høyere avgifter som suboptimal mynt valg kan resultere på grunn av den ekstra begrensningen (standard:% u)"];
   Message false [Loc None "+6"]
     "Invalid amount for -maxtxfee=&lt;amount&gt;: &apos;%s&apos; (must be at least the minrelay fee of %s to prevent stuck transactions)" true
     ["Ugyldig beløp for-maxtxfee =&lt;amount&gt;: &apos;% s&apos; (må være minst det minrelay gebyret på% s for å hindre fast transaksjoner)&lt;/amount&gt;"];
   Message false [Loc None "+3"]
     "Milliseconds between stake attempts. Lowering this param will not result in more stakes. (default: 500)" true
     ["Millisekunder mellom innsats forsøk. Senking av denne parameteren vil ikke resultere i flere innsatser. (standard: 500)"];
   Message false [Loc None "+3"]
     "Not enough spending outputs available in the blockchain for privacy mixing. There are currently %d. For this transaction required: %d" true
     ["Ikke nok forbruks utganger tilgjengelig i blockchain for personvern miksing. Det er for øyeblikket% d. For denne transaksjonen kreves:% d"];
   Message false [Loc None "+3"]
     "Number of threads to start for staking, max 1 per active wallet, will divide wallets evenly between threads (default: 1)" true
     ["Antall tråder å starte for staking, maks 1 per aktiv lommebok, vil dele lommebøker jevnt mellom trådene (standard: 1)"];
   Message false [Loc None "+3"]
     "On saving a key from the lookahead pool, save all unsaved keys leading up to it too. (default: %s)" true
     ["Lagre alle ulagrede nøkler som fører opp til det, når du lagrer en nøkkel fra det lookahead utvalget. (standard:% s)"];
   Message false [Loc None "+3"]
     "Please check that your computer&apos;s date and time are correct! If your clock is wrong, %s will not work properly." true
     ["Kontroller at datamaskinens dato og klokkeslett er riktig! Hvis klokken er feil, vil% s ikke fungere som den skal."];
   Message false [Loc None "+3"]
     "Please contribute if you find %s useful. Visit %s for further information about the software." true
     ["Vennligst bidra hvis du finner% s nyttig. Besøk% s Hvis du vil ha mer informasjon om programvaren."];
   Message false [Loc None "+3"]
     "Prune configured below the minimum of %d MiB.  Please use a higher number." true
     ["Beskjær konfigurert under minimum% d MiB.  Vennligst bruk et høyere tall."];
   Message false [Loc None "+2"]
     "Prune: last wallet synchronisation goes beyond pruned data. You need to -reindex (download the whole blockchain again in case of pruned node)" true
     ["Beskjær: siste lommebok synkronisering går utover beskjæres data. Du må-indeksere (laste ned hele blockchain igjen i tilfelle beskjæres node)"];
   Message false [Loc None "+3"]
     "Rescans are not possible in pruned mode. You will need to use -reindex which will download the whole blockchain again." true
     ["Kontinuerlig er ikke mulig i beskåret modus. Du må bruke-indeksere som vil laste ned hele blockchain igjen."];
   Message false [Loc None "+3"]
     "The block database contains a block which appears to be from the future. This may be due to your computer&apos;s date and time being set incorrectly. Only rebuild the block database if you are sure that your computer&apos;s date and time are correct" true
     ["Blokk databasen inneholder en blokk som ser ut til å være fra fremtiden. Dette kan skyldes at datamaskinens dato og klokkeslett er feil innstilt. Bare gjenoppbygge blokk databasen hvis du er sikker på at datamaskinens dato og klokkeslett er riktig"];
   Message false [Loc None "+5"]
     "The transaction amount is too small to send after the fee has been deducted" true
     ["Transaksjonsbeløpet er for lite til å sendes etter at gebyret er trukket fra"];
   Message false [Loc None "+2"]
     "This is a pre-release test build - use at your own risk - do not use for mining or merchant applications" true
     ["Dette er en pre-release test bygge-bruk på egen risiko-ikke bruk for gruvedrift eller kjøpmann applikasjoner"];
   Message false [Loc None "+3"]
     "This is the transaction fee you may discard if change is smaller than dust at this level" true
     ["Dette er Transaksjonsgebyret du kan forkaste Hvis endringen er mindre enn støv på dette nivået"]].

Definition nb_bitcoin_core_2 : list message :=
  [Message false [Loc None "+3"]
     "This is the transaction fee you may pay when fee estimates are not available." true
     ["Dette er Transaksjonsgebyret du kan betale når gebyr estimater ikke er tilgjengelige."];
   Message false [Loc None "+2"]
     "This product includes software developed by the OpenSSL Project for use in the OpenSSL Toolkit %s and cryptographic software written by Eric Young and UPnP software written by Thomas Bernard." true
     ["Dette produktet inkluderer programvare utviklet av OpenSSL Project for bruk i OpenSSL Toolkit% s og kryptografisk programvare skrevet av Eric Young og UPnP programvare skrevet av Thomas Bernard."];
   Message false [Loc None "+4"]
     "Total length of network version string (%i) exceeds maximum length (%i). Reduce the number or size of uacomments." true
     ["Total lengde på nettverks versjonsstreng (% i) overskrider maksimumslengden (% i). Reduser antallet eller størrelsen på uacomments."];
   Message false [Loc None "+3"]
     "Unable to replay blocks. You will need to rebuild the database using -reindex-chainstate." true
     ["Kan ikke spille av blokker. Du må gjenoppbygge databasen ved hjelp av-indeksere-chainstate."];
   Message false [Loc None "+3"]
     "Unable to rewind the database to a pre-fork state. You will need to redownload the blockchain" true
     ["Kan ikke spole tilbake databasen til en før gaffel tilstand. Du må laste ned blockchain"];
   Message false [Loc None "+3"]
     "Unsupported argument -socks found. Setting SOCKS version isn&apos;t possible anymore, only SOCKS5 proxies are supported." true
     ["Finner ikke argument-sokker som ikke støttes. Innfatning SOCKS versjon isnt &apos; mulig mere, bare SOCKS5 nærhet er understøttet."];
   Message false [Loc None "+3"]
     "Unsupported argument -whitelistalwaysrelay ignored, use -whitelistrelay and/or -whitelistforcerelay." true
     ["Ikke støttet argument-whitelistalwaysrelay ignorert, bruk-whitelistrelay og/eller-whitelistforcerelay."];
   Message false [Loc None "+3"]
     "Warning: Private keys detected in wallet {%s} with disabled private keys" true
     ["Advarsel: private nøkler oppdaget i lommeboken {% s} med deaktiverte private nøkler"];
   Message false [Loc None "+2"]
     "Warning: The network does not appear to fully agree! Some miners appear to be experiencing issues." true
     ["Advarsel: nettverket ser ikke ut til å være helt enig! Noen gruvearbeidere ser ut til å ha opplevd problemer."];
   Message false [Loc None "+3"]
     "Warning: Unknown block versions being mined! It&apos;s possible unknown rules are in effect" true
     ["Advarsel: ukjent blokk versjoner blir minelagt! Det er mulig ukjente regler er i kraft"];
   Message false [Loc None "+3"]
     "Warning: Wallet file corrupt, data salvaged! Original %s saved as %s in %s; if your balance or transactions are incorrect you should restore from a backup." true
     ["Advarsel: lommebok fil korrupt, data reddet! Originalen% s lagret som% s i% s; Hvis saldoen eller transaksjonene er feil, bør du gjenopprette fra en sikkerhetskopi."];
   Message false [Loc None "+4"]
     "Warning: We do not appear to fully agree with our peers! You may need to upgrade, or other nodes may need to upgrade." true
     ["Advarsel: vi ser ikke ut til å være helt enig med våre jevnaldrende! Det kan hende du må oppgradere, eller andre noder må kanskje oppgraderes."];
   Message false [Loc None "+3"]
     "You need to rebuild the database using -reindex to change -timestampindex" true
     ["Du må gjenoppbygge databasen ved hjelp av-indeksere for å endre-timestampindex"];
   Message false [Loc None "+2"]
     "You need to rebuild the database using -reindex to go back to unpruned mode.  This will redownload the entire blockchain" true
     ["Du må gjenoppbygge databasen med-indeksere for å gå tilbake til unpruned-modus.  Dette vil laste ned hele blockchain"];
   Message false [Loc None "+3"]
     "%d of last 100 blocks have unexpected version" true
     ["% d av de siste 100 blokkene har en uventet versjon"];
   Message false [Loc None "+1"]
     "%s corrupt, salvage failed" true
     ["% s skadet, berging mislyktes"];
   Message false [Loc None "+1"]
     "%s is set very high!" true
     ["% s er satt veldig høyt!"];
   Message false [Loc None "+1"]
     "-maxmempool must be at least %d MB" true
     ["-maxmempool må være minst% d MB"];
   Message false [Loc None "+1"]
     "Account chain not found" true
     ["Finner ikke konto kjede"];
   Message false [Loc None "+1"]
     "Address &apos;%s&apos; is not in the address book." true
     ["Adressen% s finnes ikke i adresseboken."];
   Message false [Loc None "+1"]
     "Address &apos;%s&apos; is recorded in the address book." true
     ["Adressen &apos;% s&apos; registreres i adresseboken."];
   Message false [Loc None "+1"]
     "Anon output not found in db, %d" true
     ["Anon utdata ikke funnet i DB,% d"];
   Message false [Loc None "+1"]
     "Anon pubkey not found in db, %s" true
     ["Finner ikke Anon pubkey i DB,% s"];
   Message false [Loc None "+1"]
     "Cannot downgrade wallet" true
     ["Kan ikke nedgradere lommebok"];
   Message false [Loc None "+1"]
     "Cannot resolve -%s address: &apos;%s&apos;" true
     ["Kan ikke løse-% s-adresse: &apos;% s&apos;"];
   Message false [Loc None "+1"]
     "Cannot write to data directory &apos;%s&apos;; check permissions." true
     ["Kan ikke skrive til datakatalogen% s. Kontrollere tillatelser."];
   Message false [Loc None "+1"]
     "Change index out of range" true
     ["Endre indeks utenfor område"];
   Message false [Loc None "+1"]
     "Confidential chain set but not found" true
     ["Konfidensiell kjede sett, men ikke funnet"];
   Message false [Loc None "+1"]
     "Copyright (C)" true
     ["Opphavsrett (C)"];
   Message false [Loc None "+1"]
     "Corrupted block database detected" true
     ["Skadet blokkerings database oppdaget"]].

Definition nb_bitcoin_core_3 : list message :=
  [Message false [Loc None "+1"]
     "Could not convert prefix to number." true
     ["Kan ikke konvertere prefiks til nummer."];
   Message false [Loc None "+1"]
     "Could not decode scan secret as wif, hex or base58." true
     ["Kunne ikke dekode skanning hemmelig som wif, hex eller base58."];
   Message false [Loc None "+1"]
     "Could not decode spend secret as hex or base58." true
     ["Kunne ikke dekode bruke hemmelighet som hex eller base58."];
   Message false [Loc None "+1"]
     "Could not get confidential chain from account." true
     ["Kan ikke hente konfidensiell kjede fra kontoen."];
   Message false [Loc None "+1"]
     "Could not get scan public key." true
     ["Kan ikke hente fellesnøkkel for skanning."];
   Message false [Loc None "+1"]
     "Could not get spend public key." true
     ["Kunne ikke få bruke fellesnøkkel."];
   Message false [Loc None "+1"]
     "Default account not found" true
     ["Finner ikke standardkonto"];
   Message false [Loc None "+1"]
     "DeriveNextKey failed" true
     ["DeriveNextKey mislyktes"];
   Message false [Loc None "+1"]
     "Do you want to rebuild the block database now?" true
     ["Vil du gjenoppbygge blokk databasen nå?"];
   Message false [Loc None "+1"]
     "Done loading" true
     ["Ferdig lasting"];
   Message false [Loc None "+1"]
     "Duplicate index found, %d" true
     ["Fant duplikat indeks,% d"];
   Message false [Loc None "+1"]
     "Empty wallet required for import." true
     ["Tom lommebok kreves for import."];
   Message false [Loc None "+1"]
     "Ensure available balance remains above reservebalance. (default: 0)" true
     ["Sikre tilgjengelig balanse forblir over reservebalance. (standard: 0)"];
   Message false [Loc None "+1"]
     "EraseSetting failed." true
     ["EraseSetting mislyktes."];
   Message false [Loc None "+1"]
     "Error creating %s: You can&apos;t create non-HD wallets with this version." true
     ["Feil ved opprettelse av% s: du kan ikke opprette lommebøker som ikke er i HD, med denne versjonen."];
   Message false [Loc None "+1"]
     "Error initializing block database" true
     ["Feil under initialisering av blokk database"];
   Message false [Loc None "+1"]
     "Error initializing wallet database environment %s!" true
     ["Feil under initialisering av database miljøet for lommebok% s!"];
   Message false [Loc None "+1"]
     "Error loading %s" true
     ["Feil under innlasting av% s"];
   Message false [Loc None "+1"]
     "Error loading %s: Private keys can only be disabled during creation" true
     ["Feil under innlasting av% s: private nøkler kan bare deaktiveres under opprettelse"];
   Message false [Loc None "+1"]
     "Error loading %s: Wallet corrupted" true
     ["Feil under innlasting av% s: lommeboken er skadet"];
   Message false [Loc None "+1"]
     "Error loading %s: Wallet requires newer version of %s" true
     ["Feil under innlasting av% s: lommeboken krever en nyere versjon av% s"];
   Message false [Loc None "+1"]
     "Error loading %s: You can&apos;t disable HD on an already existing HD wallet" true
     ["Feil under innlasting av% s: du kan ikke deaktivere HD på en allerede eksisterende HD-lommebok"];
   Message false [Loc None "+1"]
     "Error loading block database" true
     ["Feil under lasting av blokk database"];
   Message false [Loc None "+1"]
     "Error loading wallet %s. Duplicate -wallet filename specified." true
     ["Feil under innlasting av lommeboken% s. duplikat-lommebok filnavn angitt."];
   Message false [Loc None "+1"]
     "Error opening block database" true
     ["Feil under åpning av blokk database"];
   Message false [Loc None "+1"]
     "Error reading from database, shutting down." true
     ["Feil under lesing fra database, avslutter."];
   Message false [Loc None "+1"]
     "Error upgrading chainstate database" true
     ["Feil under oppgradering av chainstate database"];
   Message false [Loc None "+1"]
     "Error" true
     ["Feil"];
   Message false [Loc None "+1"]
     "Error: A fatal internal error occurred, see debug.log for details" true
     ["Feil: Det oppstod en uopprettelig intern feil, se Debug. log for detaljer"];
   Message false [Loc None "+1"]
     "Error: Disk space is low!" true
     ["Feil: disk plass er lav!"]].

Definition nb_bitcoin_core_4 : list message :=
  [Message false [Loc None "+1"]
     "ExtKeyGetIndex failed." true
     ["ExtKeyGetIndex mislyktes."];
   Message false [Loc None "+1"]
     "ExtKeySaveAccountToDB failed" true
     ["ExtKeySaveAccountToDB mislyktes"];
   Message false [Loc None "+1"]
     "Failed to listen on any port. Use -listen=0 if you want this." true
     ["Kan ikke lytte på en port. Bruk-Lytt = 0 Hvis du ønsker dette."];
   Message false [Loc None "+1"]
     "Failed to open dongle" true
     ["Kan ikke åpne dongle"];
   Message false [Loc None "+1"]
     "Failed to rescan the wallet during initialization" true
     ["Kan ikke skanne lommeboken under initialisering"];
   Message false [Loc None "+1"]
     "Hit nMaxTries limit, %d, %d" true
     ["Treff nMaxTries-grense,% d,% d"];
   Message false [Loc None "+1"]
     "Import failed - AddKeyPubKey failed." true
     ["Importen mislyktes-AddKeyPubKey mislyktes."];
   Message false [Loc None "+1"]
     "Import failed - stealth address exists." true
     ["Import mislyktes-Stealth-adresse finnes."];
   Message false [Loc None "+1"]
     "Importing..." true
     ["Importere..."];
   Message false [Loc None "+1"]
     "Incorrect or no genesis block found. Wrong datadir for network?" true
     ["Ugyldig eller ingen Genesis Block funnet. Feil datadir for nettverket?"];
   Message false [Loc None "+1"]
     "Information" true
     ["Informasjon"];
   Message false [Loc None "+1"]
     "Initialization sanity check failed. %s is shutting down." true
     ["Initialisering mental helsesjekk mislyktes. % s avsluttes."];
   Message false [Loc None "+1"]
     "Insufficient funds" true
     ["Utilstrekkelige midler"];
   Message false [Loc None "+1"]
     "Insufficient funds." true
     ["Ikke nok penger."];
   Message false [Loc None "+1"]
     "Invalid -onion address or hostname: &apos;%s&apos;" true
     ["Ugyldig-løk-adresse eller vertsnavn: &apos;% s&apos;"];
   Message false [Loc None "+1"]
     "Invalid -proxy address or hostname: &apos;%s&apos;" true
     ["Ugyldig-proxy-adresse eller vertsnavn:% s"];
   Message false [Loc None "+1"]
     "Invalid BitcoinC address." true
     ["Ugyldig BitcoinC-adresse."];
   Message false [Loc None "+1"]
     "Invalid amount for -%s=&lt;amount&gt;: &apos;%s&apos;" true
     ["Ugyldig beløp for-% s =&lt;amount&gt;: &apos;% s&apos;&lt;/amount&gt;"];
   Message false [Loc None "+1"]
     "Invalid amount for -discardfee=&lt;amount&gt;: &apos;%s&apos;" true
     ["Ugyldig beløp for-discardfee =&lt;amount&gt;: &apos;% s&apos;&lt;/amount&gt;"];
   Message false [Loc None "+1"]
     "Invalid amount for -fallbackfee=&lt;amount&gt;: &apos;%s&apos;" true
     ["Ugyldig beløp for-fallbackfee =&lt;amount&gt;: &apos;% s&apos;&lt;/amount&gt;"];
   Message false [Loc None "+1"]
     "Invalid amount for -paytxfee=&lt;amount&gt;: &apos;%s&apos; (must be at least %s)" true
     ["Ugyldig beløp for-paytxfee =&lt;amount&gt;: &apos;% s&apos; (må være minst% s)&lt;/amount&gt;"];
   Message false [Loc None "+1"]
     "Invalid amount for -reservebalance=&lt;amount&gt;" true
     ["Ugyldig beløp for-reservebalance =&lt;amount&gt;&lt;/amount&gt;"];
   Message false [Loc None "+1"]
     "Invalid coldstakingaddress." true
     ["Ugyldig coldstakingaddress."];
   Message false [Loc None "+1"]
     "Invalid input key." true
     ["Ugyldig inn data nøkkel."];
   Message false [Loc None "+1"]
     "Invalid key." true
     ["Ugyldig nøkkel."];
   Message false [Loc None "+1"]
     "Invalid netmask specified in -whitelist: &apos;%s&apos;" true
     ["Ugyldig nettmaske angitt i-hviteliste: &apos;% s&apos;"];
   Message false [Loc None "+1"]
     "Invalid rewardaddress." true
     ["Ugyldig rewardaddress."];
   Message false [Loc None "+1"]
     "Keypool ran out, please call keypoolrefill first" true
     ["Keypool løp ut, kan du ringe keypoolrefill første"];
   Message false [Loc None "+1"]
     "Loading P2P addresses..." true
     ["Laster inn P2P-adresser..."]].

Definition nb_bitcoin_core_5 : list message :=
  [Message false [Loc None "+1"]
     "Loading address book for %s.
" true
     ["Laster inn adressebok for% s."];
   Message false [Loc None "+1"]
     "Loading banlist..." true
     ["Laster inn banliste..."];
   Message false [Loc None "+1"]
     "Loading block index..." true
     ["Laster inn blokk indeks..."];
   Message false [Loc None "+1"]
     "Loading transaction records for %s.
" true
     ["Laster inn transaksjonsposter for% s."];
   Message false [Loc None "+1"]
     "Loading wallet..." true
     ["Laster inn lommebok..."];
   Message false [Loc None "+1"]
     "Minimum time in seconds between successful stakes (default: 0)" true
     ["Minimumstid i sekunder mellom vellykkede innsatser (standard: 0)"];
   Message false [Loc None "+1"]
     "Must be json object." true
     ["Må være JSON objekt."];
   Message false [Loc None "+1"]
     "Must have account to save keys." true
     ["Må ha konto for å lagre nøkler."];
   Message false [Loc None "+1"]
     "Must input a stealthaddress." true
     ["Må angi en stealthaddress."];
   Message false [Loc None "+1"]
     "Need a parameter to change." true
     ["Trenger en parameter for å endre."];
   Message false [Loc None "+1"]
     "Need to specify a port with -whitebind: &apos;%s&apos;" true
     ["Må angi en port med-whitebind: &apos;% s&apos;"];
   Message false [Loc None "+1"]
     "New state must be bool." true
     ["Ny stat må være bool."];
   Message false [Loc None "+1"]
     "NewExtKeyFromAccount failed, %s." true
     ["NewExtKeyFromAccount mislyktes,% s."];
   Message false [Loc None "+1"]
     "NewExtKeyFromAccount failed." true
     ["NewExtKeyFromAccount mislyktes."];
   Message false [Loc None "+1"]
     "NewStealthKeyV2FromAccount failed." true
     ["NewStealthKeyV2FromAccount mislyktes."];
   Message false [Loc None "+1"]
     "No default account set." true
     ["Ingen standardkonto sett."];
   Message false [Loc None "+1"]
     "No key for anonoutput, %s" true
     ["Ingen nøkkel for anonoutput,% s"];
   Message false [Loc None "+1"]
     "Not anon output %s %d" true
     ["Ikke Anon-utdata% s% d"];
   Message false [Loc None "+1"]
     "Not enough file descriptors available." true
     ["Ikke nok fil beskrivelser tilgjengelig."];
   Message false [Loc None "+1"]
     "Num inputs per signature out of range" true
     ["NUM-innganger per signatur utenfor området"];
   Message false [Loc None "+1"]
     "Number of keys to load into the lookahead pool per chain. (default: %u)" true
     ["Antall nøkler som skal lastes inn i det lookahead bassenget per kjede. (standard:% u)"];
   Message false [Loc None "+1"]
     "Only able to send to stealth address." true
     ["Bare kjøpedyktig sende å stjele henvende seg."];
   Message false [Loc None "+1"]
     "OpIsCoinstake is not active yet." true
     ["OpIsCoinstake er ikke aktiv ennå."];
   Message false [Loc None "+1"]
     "Output isn&apos;t standard." true
     ["Utdata er ikke standard."];
   Message false [Loc None "+1"]
     "PrepareTransaction for device failed: %s" true
     ["PrepareTransaction for enheten mislyktes:% s"];
   Message false [Loc None "+1"]
     "ProduceSignature from device failed: %s" true
     ["ProduceSignature fra enheten mislyktes:% s"];
   Message false [Loc None "+1"]
     "Prune cannot be configured with a negative value." true
     ["Kan ikke konfigurere Beskjær med en negativ verdi."];
   Message false [Loc None "+1"]
     "Prune mode is incompatible with -txindex." true
     ["Beskjær-modus er ikke kompatibelt med-txindex."];
   Message false [Loc None "+1"]
     "Pruning blockstore..." true
     ["Beskjæring blockstore..."]].

Definition nb_bitcoin_core_6 : list message :=
  [Message false [Loc None "+1"]
     "ReadStoredTx failed for %s" true
     ["ReadStoredTx mislyktes for% s"];
   Message false [Loc None "+1"]
     "Reducing -maxconnections from %d to %d, because of system limitations." true
     ["Reduserer-MaxConnections fra% d til% d på grunn av system begrensninger."];
   Message false [Loc None "+1"]
     "Replaying blocks..." true
     ["Replaying blokker..."];
   Message false [Loc None "+1"]
     "Rescanning..." true
     ["Skanne..."];
   Message false [Loc None "+1"]
     "Rewinding blocks..." true
     ["Spoler tilbake blokker..."];
   Message false [Loc None "+1"]
     "Ring size out of range [%d, %d]" true
     ["Ring størrelse utenfor området [% d,% d]"];
   Message false [Loc None "+1"]
     "Ring size out of range" true
     ["Ring størrelse utenfor område"];
   Message false [Loc None "+1"]
     "Scan secret is not 32 bytes." true
     ["Scan hemmelighet er ikke 32 bytes."];
   Message false [Loc None "+1"]
     "SetSetting failed." true
     ["SetSetting mislyktes."];
   Message false [Loc None "+1"]
     "Signing transaction failed" true
     ["Signerings transaksjon mislyktes"];
   Message false [Loc None "+1"]
     "Specified -walletdir &quot;%s&quot; does not exist" true
     ["Angitt-walletdir &quot;% s&quot; finnes ikke"];
   Message false [Loc None "+1"]
     "Specified -walletdir &quot;%s&quot; is a relative path" true
     ["Angitt-walletdir &quot;% s&quot; er en relativ bane"];
   Message false [Loc None "+1"]
     "Specified -walletdir &quot;%s&quot; is not a directory" true
     ["Angitt-walletdir &quot;% s&quot; er ikke en katalog"];
   Message false [Loc None "+1"]
     "Specified blocks directory &quot;%s&quot; does not exist." true
     ["Angitte blokker katalog &quot;% s&quot; finnes ikke."];
   Message false [Loc None "+1"]
     "Spend secret is not 32 bytes." true
     ["Tilbring hemmelighet er ikke 32 bytes."];
   Message false [Loc None "+1"]
     "Spend secret must be different to scan secret." true
     ["Tilbring hemmelighet må være annerledes å skanne hemmelig."];
   Message false [Loc None "+1"]
     "Stake your coins to support network and gain reward (default: true)" true
     ["Innsats dine mynter for å støttenettverk og få belønning (standard: true)"];
   Message false [Loc None "+1"]
     "Starting network threads..." true
     ["Starter nettverks tråder..."];
   Message false [Loc None "+1"]
     "StealthSecret failed, try again." true
     ["StealthSecret mislyktes, prøv på nytt."];
   Message false [Loc None "+1"]
     "The source code is available from %s." true
     ["Kildekoden er tilgjengelig fra% s."];
   Message false [Loc None "+1"]
     "The transaction amount is too small to pay the fee" true
     ["Transaksjonsbeløpet er for lite til å betale gebyret"];
   Message false [Loc None "+1"]
     "The wallet will avoid paying less than the minimum relay fee." true
     ["Lommeboken vil unngå å betale mindre enn minimum relé avgiften."];
   Message false [Loc None "+1"]
     "This is experimental software." true
     ["Dette er eksperimentell programvare."];
   Message false [Loc None "+1"]
     "This is the minimum transaction fee you pay on every transaction." true
     ["Dette er det minste Transaksjonsgebyret du betaler for hver transaksjon."];
   Message false [Loc None "+1"]
     "This is the transaction fee you will pay if you send a transaction." true
     ["Dette er Transaksjonsgebyret du vil betale hvis du sender en transaksjon."];
   Message false [Loc None "+1"]
     "Transaction amount too small" true
     ["Transaksjonsbeløpet er for lite"];
   Message false [Loc None "+1"]
     "Transaction amounts must not be negative" true
     ["Transaksjonsbeløpene kan ikke være negativt"];
   Message false [Loc None "+1"]
     "Transaction amounts must not be negative." true
     ["Transaksjonsbeløp kan ikke være negativt."];
   Message false [Loc None "+1"]
     "Transaction fee and change calculation failed" true
     ["Transaksjonsgebyr og endrings beregning mislyktes"];
   Message false [Loc None "+1"]
     "Transaction fee and change calculation failed." true
     ["Transaksjonsgebyr og endrings beregning mislyktes."]].

Definition nb_bitcoin_core_7 : list message :=
  [Message false [Loc None "+1"]
     "Transaction has too long of a mempool chain" true
     ["Transaksjonen har for lang av en mempool kjede"];
   Message false [Loc None "+1"]
     "Transaction must have at least one recipient" true
     ["Transaksjonen må ha minst én mottaker"];
   Message false [Loc None "+1"]
     "Transaction must have at least one recipient." true
     ["Transaksjonen må ha minst én mottaker."];
   Message false [Loc None "+1"]
     "Transaction too large for fee policy" true
     ["Transaksjonen er for stor for gebyr policy"];
   Message false [Loc None "+1"]
     "Transaction too large for fee policy." true
     ["Transaksjonen er for stor for gebyr policy."];
   Message false [Loc None "+1"]
     "Transaction too large" true
     ["Transaksjonen er for stor"];
   Message false [Loc None "+1"]
     "TxnBegin failed." true
     ["TxnBegin mislyktes."];
   Message false [Loc None "+1"]
     "Unable to bind to %s on this computer (bind returned error %s)" true
     ["Kan ikke binde til% s på denne datamaskinen (bind returnerte feilen% s)"];
   Message false [Loc None "+1"]
     "Unable to bind to %s on this computer. %s is probably already running." true
     ["Kan ikke binde til% s på denne datamaskinen. % s kjører sannsynligvis allerede."];
   Message false [Loc None "+1"]
     "Unable to generate initial keys" true
     ["Kan ikke generere innledende nøkler"];
   Message false [Loc None "+1"]
     "Unable to generate keys" true
     ["Kan ikke generere nøkler"];
   Message false [Loc None "+1"]
     "Unable to start HTTP server. See debug log for details." true
     ["Kan ikke starte HTTP-server. Se Debug Logg for detaljer."];
   Message false [Loc None "+1"]
     "Unknown account." true
     ["Ukjent konto."];
   Message false [Loc None "+1"]
     "Unknown action, must be one of &apos;add/edit/del&apos;." true
     ["Ukjent handling, må være en av Legg til/Rediger/del."];
   Message false [Loc None "+1"]
     "Unknown argument for 256bithash: %s." true
     ["Ukjent argument for 256bithash:% s."];
   Message false [Loc None "+1"]
     "Unknown argument for add_to_addressbook: %s." true
     ["Ukjent argument for add_to_addressbook:% s."];
   Message false [Loc None "+1"]
     "Unknown chain." true
     ["Ukjent kjede."];
   Message false [Loc None "+1"]
     "Unknown input key version." true
     ["Ukjent inn data nøkkel versjon."];
   Message false [Loc None "+1"]
     "Unknown network specified in -onlynet: &apos;%s&apos;" true
     ["Ukjent nettverk angitt i-onlynet: &apos;% s&apos;"];
   Message false [Loc None "+1"]
     "Unknown setting" true
     ["Ukjent innstilling"];
   Message false [Loc None "+1"]
     "Unsupported argument -benchmark ignored, use -debug=bench." true
     ["Ikke støttet argument-benchmark ignorert, bruk-Debug = benk."];
   Message false [Loc None "+1"]
     "Unsupported argument -debugnet ignored, use -debug=net." true
     ["Ikke støttet argument-debugnet ignorert, bruk-Debug = net."];
   Message false [Loc None "+1"]
     "Unsupported argument -debugnet ignored, use -debug=smsg." true
     ["Ikke støttet argument-debugnet ignorert, bruk-Debug = smsg."];
   Message false [Loc None "+1"]
     "Unsupported argument -tor found, use -onion." true
     ["Ikke støttet argument-Tor funnet, bruk-løk."];
   Message false [Loc None "+1"]
     "Unsupported logging category %s=%s." true
     ["Logging kategorien% s =% s støttes ikke."];
   Message false [Loc None "+1"]
     "Upgrading txindex database" true
     ["Oppgraderer txindex database"];
   Message false [Loc None "+1"]
     "User Agent comment (%s) contains unsafe characters." true
     ["Bruker agent kommentar (% s) inneholder usikre tegn."];
   Message false [Loc None "+1"]
     "Verifying blocks..." true
     ["Kontrollerer blokker..."];
   Message false [Loc None "+1"]
     "Verifying wallet(s)..." true
     ["Bekrefter lommebok (er)..."];
   Message false [Loc None "+1"]
     "Wallet %s resides outside wallet directory %s" true
     ["Lommeboken% s ligger utenfor lommebok katalogen% s"]].

Definition nb_bitcoin_core_8 : list message :=
  [Message false [Loc None "+1"]
     "Wallet has no active master key." true
     ["Lommeboken har ingen aktiv hovednøkkel."];
   Message false [Loc None "+1"]
     "Wallet must be unlocked." true
     ["Lommeboken må låses opp."];
   Message false [Loc None "+1"]
     "Wallet must have a default account set." true
     ["Lommeboken må ha et standardkonto sett."];
   Message false [Loc None "+1"]
     "Wallet needed to be rewritten: restart %s to complete" true
     ["Lommeboken måtte skrives om: Start% s på nytt for å fullføre"];
   Message false [Loc None "+1"]
     "Warning" true
     ["Advarsel"];
   Message false [Loc None "+1"]
     "Warning: unknown new rules activated (versionbit %i)" true
     ["Advarsel: ukjente nye regler aktivert (versionbit% i)"];
   Message false [Loc None "+1"]
     "You need to rebuild the database using -reindex to change -addressindex" true
     ["Du må gjenoppbygge databasen ved hjelp av-indeksere for å endre-addressindex"];
   Message false [Loc None "+1"]
     "You need to rebuild the database using -reindex to change -spentindex" true
     ["Du må gjenoppbygge databasen ved hjelp av-indeksere for å endre-spentindex"];
   Message false [Loc None "+1"]
     "Zapping all transactions from wallet..." true
     ["Zapping alle transaksjoner fra lommeboken..."];
   Message false [Loc None "+1"]
     "accounts missing." true
     ["kontoer mangler."];
   Message false [Loc None "+1"]
     "accounts must be an array." true
     ["kontoer må være en matrise."];
   Message false [Loc None "+1"]
     "add_to_addressbook can&apos;t be set without save" true
     ["add_to_addressbook kan ikke stilles inn uten lagring"];
   Message false [Loc None "+1"]
     "address_standard must be a string." true
     ["address_standard må være en streng."];
   Message false [Loc None "+1"]
     "bad childNo." true
     ["dårlig childNo."];
   Message false [Loc None "+1"]
     "bech32 encode failed." true
     ["bech32 kode mislyktes."];
   Message false [Loc None "+1"]
     "coldstakingaddress can&apos;t be a stealthaddress." true
     ["coldstakingaddress kan ikke være en stealthaddress."];
   Message false [Loc None "+1"]
     "coldstakingaddress must be a string." true
     ["coldstakingaddress må være en streng."];
   Message false [Loc None "+1"]
     "extkey must have private key to derive hardened keys." true
     ["extkey må ha privat nøkkel for å utlede herdet nøkler."];
   Message false [Loc None "+1"]
     "foundationdonationpercent must be a number." true
     ["foundationdonationpercent må være et tall."];
   Message false [Loc None "+1"]
     "height must be a number." true
     ["høyde må være et tall."];
   Message false [Loc None "+1"]
     "loose_extkeys missing." true
     ["loose_extkeys mangler."];
   Message false [Loc None "+1"]
     "loose_extkeys must be an array." true
     ["loose_extkeys må være en matrise."];
   Message false [Loc None "+1"]
     "num_derives to int failed." true
     ["num_derives til int mislyktes."];
   Message false [Loc None "+1"]
     "num_derives_h to int failed." true
     ["num_derives_h til int mislyktes."];
   Message false [Loc None "+1"]
     "num_prefix_bits invalid number." true
     ["num_prefix_bits Ugyldig nummer."];
   Message false [Loc None "+1"]
     "num_prefix_bits must be &lt;= 32." true
     ["num_prefix_bits må være&lt;= 32.&gt;&lt;/= 32.&gt;"];
   Message false [Loc None "+1"]
     "rewardaddress must be a string." true
     ["rewardaddress må være en streng."];
   Message false [Loc None "+1"]
     "secp256k1_generate_mlsag failed %d" true
     ["secp256k1_generate_mlsag mislyktes% d"];
   Message false [Loc None "+1"]
     "secp256k1_get_keyimage failed %d" true
     ["secp256k1_get_keyimage mislyktes% d"];
   Message false [Loc None "+1"]
     "secp256k1_prepare_mlsag failed %d" true
     ["secp256k1_prepare_mlsag mislyktes% d"]].

Definition nb_bitcoin_core_9 : list message :=
  [Message false [Loc None "+1"]
     "stakecombinethreshold can&apos;t be negative." true
     ["stakecombinethreshold kan ikke være negativt."];
   Message false [Loc None "+1"]
     "stakesplitthreshold can&apos;t be negative." true
     ["stakesplitthreshold kan ikke være negativt."]].

(** The whole document. *)
Definition bitcoin_nb_NO : catalogue :=
  [Context "AddressBookPage" (nb_AddressBookPage_1 ++ nb_AddressBookPage_2);
   Context "AddressTableModel" (nb_AddressTableModel);
   Context "AskPassphraseDialog" (nb_AskPassphraseDialog_1 ++ nb_AskPassphraseDialog_2);
   Context "BanTableModel" (nb_BanTableModel);
   Context "BitcoinGUI" (nb_BitcoinGUI_1 ++ nb_BitcoinGUI_2 ++ nb_BitcoinGUI_3 ++ nb_BitcoinGUI_4);
   Context "CoinControlDialog" (nb_CoinControlDialog_1 ++ nb_CoinControlDialog_2);
   Context "EditAddressDialog" (nb_EditAddressDialog);
   Context "FreespaceChecker" (nb_FreespaceChecker);
   Context "HelpMessageDialog" (nb_HelpMessageDialog);
   Context "Intro" (nb_Intro);
   Context "MnemonicDialog" (nb_MnemonicDialog_1 ++ nb_MnemonicDialog_2);
   Context "ModalOverlay" (nb_ModalOverlay);
   Context "OpenURIDialog" (nb_OpenURIDialog);
   Context "OptionsDialog" (nb_OptionsDialog_1 ++ nb_OptionsDialog_2 ++ nb_OptionsDialog_3);
   Context "OverviewPage" (nb_OverviewPage);
   Context "PaymentServer" (nb_PaymentServer);
   Context "PeerTableModel" (nb_PeerTableModel);
   Context "QObject" (nb_QObject);
   Context "QObject::QObject" (nb_QObject__QObject);
   Context "QRImageWidget" (nb_QRImageWidget);
   Context "RPCConsole" (nb_RPCConsole_1 ++ nb_RPCConsole_2 ++ nb_RPCConsole_3);
   Context "ReceiveCoinsDialog" (nb_ReceiveCoinsDialog);
   Context "ReceiveRequestDialog" (nb_ReceiveRequestDialog);
   Context "RecentRequestsTableModel" (nb_RecentRequestsTableModel);
   Context "SendCoinsDialog" (nb_SendCoinsDialog_1 ++ nb_SendCoinsDialog_2 ++ nb_SendCoinsDialog_3);
   Context "SendCoinsEntry" (nb_SendCoinsEntry_1 ++ nb_SendCoinsEntry_2);
   Context "SendConfirmationDialog" (nb_SendConfirmationDialog);
   Context "ShutdownWindow" (nb_ShutdownWindow);
   Context "SignVerifyMessageDialog" (nb_SignVerifyMessageDialog_1 ++ nb_SignVerifyMessageDialog_2);
   Context "SplashScreen" (nb_SplashScreen);
   Context "StakingDialog" (nb_StakingDialog_1 ++ nb_StakingDialog_2);
   Context "TrafficGraphWidget" (nb_TrafficGraphWidget);
   Context "TransactionDesc" (nb_TransactionDesc_1 ++ nb_TransactionDesc_2);
   Context "TransactionDescDialog" (nb_TransactionDescDialog);
   Context "TransactionTableModel" (nb_TransactionTableModel_1 ++ nb_TransactionTableModel_2);
   Context "TransactionView" (nb_TransactionView_1 ++ nb_TransactionView_2);
   Context "TxViewDelegate" (nb_TxViewDelegate);
   Context "UnitDisplayStatusBarControl" (nb_UnitDisplayStatusBarControl);
   Context "WalletFrame" (nb_WalletFrame);
   Context "WalletModel" (nb_WalletModel);
   Context "WalletView" (nb_WalletView);
   Context "bitcoin-core" (nb_bitcoin_core_1 ++ nb_bitcoin_core_2 ++ nb_bitcoin_core_3 ++ nb_bitcoin_core_4 ++ nb_bitcoin_core_5 ++ nb_bitcoin_core_6 ++ nb_bitcoin_core_7 ++ nb_bitcoin_core_8 ++ nb_bitcoin_core_9)].
