(* ===== verification/CatalogueNl.v ===== *)
(** The Dutch catalogue, [src/src/qt/locale/bitcoin_nl.ts], context by context; a long
    context is cut into parts.  Texts are as in the file. *)
From S2P Require Import Prelude Locale.
Open Scope txt_scope.
Open Scope list_scope.

Definition nl_AddressBookPage_1 : list message :=
  [Message false [Loc (Some "../forms/addressbookpage.ui") "+27"]
     "Enter address or label to search" true
     ["Voer adres of label in om te zoeken"];
   Message false [Loc None "+10"]
     "Right-click to edit address or label" true
     ["Klik met de rechtermuisknop om adres of label te bewerken"];
   Message false [Loc None "+30"; Loc None "+17"; Loc None "+17"]
     "Create a new address" true
     ["Een nieuw adres maken"];
   Message false [Loc None "-31"]
     "&amp;New" true
     ["&amp; Nieuwe"];
   Message false [Loc None "+17"]
     "&amp;New Stake address" true
     ["&amp; Nieuwe ring adres"];
   Message false [Loc None "+17"]
     "&amp;New ColdStake address" true
     ["&amp; Nieuw ColdStake adres"];
   Message false [Loc None "+14"]
     "Copy the currently selected address to the system clipboard" true
     ["Het momenteel geselecteerde adres naar het systeemklembord kopiëren"];
   Message false [Loc None "+3"]
     "&amp;Copy" true
     ["&amp; Copy"];
   Message false [Loc None "+14"]
     "Delete the currently selected address from the list" true
     ["Het momenteel geselecteerde adres uit de lijst verwijderen"];
   Message false [Loc None "+3"]
     "&amp;Delete" true
     ["&amp; Verwijderen"];
   Message false [Loc None "+27"]
     "Export the data in the current tab to a file" true
     ["De gegevens in het huidige tabblad exporteren naar een bestand"];
   Message false [Loc None "+3"]
     "&amp;Export" true
     ["&amp; Export"];
   Message false [Loc None "+20"]
     "C&amp;lose" true
     ["C&amp;lose"];
   Message false [Loc (Some "../addressbookpage.cpp") "+84"]
     "These are your Bitcoin Confidential addresses for sending payments. Always check the amount and the receiving address before sending coins." true
     ["Dit zijn uw vertrouwelijke Bitcoin-adressen voor het verzenden van betalingen. Controleer altijd het bedrag en het ontvangstadres voordat je munten verstuurt."];
   Message false [Loc None "+8"]
     "Choose the address to send coins to" true
     ["Kies het adres om munten te sturen naar"];
   Message false [Loc None "+4"; Loc None "+22"; Loc None "+28"]
     "C&amp;hoose" true
     ["C&amp;hoose"];
   Message false [Loc None "-44"]
     "Sending addresses" true
     ["Verzenden, adressen"];
   Message false [Loc None "+12"]
     "Choose the address to receive coins with" true
     ["Kies het adres om munten te ontvangen"];
   Message false [Loc None "+10"]
     "Receiving addresses" true
     ["Adressen ontvangen"];
   Message false [Loc None "+1"]
     "These are your Bitcoin Confidential addresses for receiving payments. It is recommended to use a new receiving address for each transaction." true
     ["Dit zijn uw vertrouwelijke Bitcoin-adressen voor het ontvangen van betalingen. Het wordt aanbevolen om voor elke transactie een nieuw ontvangstadres te gebruiken."];
   Message false [Loc None "+13"]
     "Choose the Stake or ColdStake address" true
     ["Kies de ring of ColdStake-adres"];
   Message false [Loc None "+1"]
     "These are your Bitcoin Confidential Stake and ColdStake addresses." true
     ["Dit zijn uw Bitcoin vertrouwelijke inzet en ColdStake-adressen."];
   Message false [Loc None "+16"]
     "Stake and ColdStake addresses" true
     ["Ring-en ColdStake-adressen"];
   Message false [Loc None "+1"]
     "These addresses cannot be used to receive coins from outside the wallet, such as payments or from exchanges.  Use the Receive tab to generate spending addresses.

Stake addresses, starting with &quot;%1&quot;, are used to convert spending funds into staking funds in the &quot;Convert to Staking&quot; tab. Funds in Stake addresses can be either used for hot staking or the activation of ColdStaking.

ColdStake addresses, starting with &quot;%2&quot;, are used to manually activate staking funds for ColdStaking. There is no need to generate ColdStake addresses when the automated ColdStaking activation from the Staking Status page is used." true
     ["Deze adressen kunnen niet worden gebruikt om munten van buiten de portefeuille te ontvangen, zoals betalingen of beurzen.  Gebruik het tabblad ontvangen om uitgaven adressen te genereren.

Ring adressen, beginnend met &quot;% 1&quot;, worden gebruikt om uitgaven fondsen om te zetten in staking fondsen in het tabblad &quot;converteren naar staking&quot;. fondsen in de Ring adressen kunnen worden gebruikt voor een warme staking of de activering van ColdStaking.

ColdStake-adressen, beginnend met% 2, worden gebruikt om staking fondsen handmatig te activeren voor ColdStaking. Er is geen noodzaak om ColdStake-adressen te genereren wanneer de geautomatiseerde ColdStaking activering van de pagina status staking wordt gebruikt."];
   Message false [Loc None "+11"]
     "&amp;Copy Address" true
     ["&amp; Adres kopiëren"];
   Message false [Loc None "+1"]
     "Copy &amp;Label" true
     ["Label &amp; kopiëren"];
   Message false [Loc None "+1"]
     "&amp;Edit" true
     ["&amp; Bewerken"]].

Definition nl_AddressBookPage_2 : list message :=
  [Message false [Loc None "+186"]
     "Export Address List" true
     ["Adreslijst exporteren"];
   Message false [Loc None "+1"]
     "Comma separated file (*.csv)" true
     ["Door komma&apos;s gescheiden bestand (*. CSV)"];
   Message false [Loc None "+13"]
     "Exporting Failed" true
     ["Exporteren mislukt"];
   Message false [Loc None "+1"]
     "There was an error trying to save the address list to %1. Please try again." true
     ["Er is een fout opgetreden bij het opslaan van de adreslijst in% 1. Probeer het opnieuw."]].

Definition nl_AddressTableModel : list message :=
  [Message false [Loc (Some "../addresstablemodel.cpp") "+188"]
     "Label" true
     ["Label"];
   Message false [Loc None "+0"]
     "Address" true
     ["Adres"];
   Message false [Loc None "+36"]
     "(no label)" true
     ["(geen label)"]].

Definition nl_AskPassphraseDialog_1 : list message :=
  [Message false [Loc (Some "../forms/askpassphrasedialog.ui") "+26"]
     "Passphrase Dialog" true
     ["Wachtwoordzin dialoogvenster"];
   Message false [Loc None "+30"]
     "Enter passphrase" true
     ["Wachtwoordzin invoeren"];
   Message false [Loc None "+14"]
     "New passphrase" true
     ["Nieuwe wachtwoordzin"];
   Message false [Loc None "+14"]
     "Repeat new passphrase" true
     ["Nieuwe wachtwoordzin herhalen"];
   Message false [Loc None "+14"]
     "Show password" true
     ["Wachtwoord weergeven"];
   Message false [Loc None "+23"]
     "Unlock For Staking Only" true
     ["Ontgrendelen alleen voor staking"];
   Message false [Loc (Some "../askpassphrasedialog.cpp") "+48"]
     "Enter the new passphrase to the wallet.&lt;br/&gt;Please use a passphrase of &lt;b&gt;ten or more random characters&lt;/b&gt;, or &lt;b&gt;eight or more words&lt;/b&gt;." true
     ["Voer de nieuwe wachtwoordzin in voor de wallet.&lt;br&gt;Gebruik een wachtwoordzin van &lt;b&gt;tien of meer willekeurige tekens&lt;/b&gt;of &lt;b&gt;acht of meer woorden&lt;/b&gt;."];
   Message false [Loc None "+3"]
     "Encrypt wallet" true
     ["Versleutelen portemonnee"];
   Message false [Loc None "+3"; Loc None "+8"]
     "This operation needs your wallet passphrase to unlock the wallet." true
     ["Voor deze bewerking is uw Wallet-wachtwoordzin nodig om de wallet te ontgrendelen."];
   Message false [Loc None "-3"; Loc None "+9"]
     "Unlock wallet" true
     ["Portemonnee ontgrendelen"];
   Message false [Loc None "+3"]
     "This operation needs your wallet passphrase to decrypt the wallet." true
     ["Deze bewerking moet uw portemonnee wachtwoordzin om de portefeuille te decoderen."];
   Message false [Loc None "+5"]
     "Decrypt wallet" true
     ["Decoderen portemonnee"];
   Message false [Loc None "+3"]
     "Change passphrase" true
     ["Wachtwoordzin wijzigen"];
   Message false [Loc None "+1"]
     "Enter the old passphrase and new passphrase to the wallet." true
     ["Voer de oude wachtwoordzin en nieuwe wachtwoordzin in voor de wallet."];
   Message false [Loc None "+47"]
     "Confirm wallet encryption" true
     ["Wallet-versleuteling bevestigen"];
   Message false [Loc None "+1"]
     "Warning: If you encrypt your wallet and lose your passphrase, you will &lt;b&gt;LOSE ALL OF YOUR BITCOIN CONFIDENTIAL&lt;/b&gt;!" true
     ["Waarschuwing: als je je portemonnee versleutelt en je wachtwoordzin verliest, &lt;b&gt;verlies je al je BITCOIN vertrouwelijk&lt;/b&gt;!"];
   Message false [Loc None "+0"]
     "Are you sure you wish to encrypt your wallet?" true
     ["Weet u zeker dat u uw portemonnee wilt versleutelen?"];
   Message false [Loc None "+9"; Loc None "+59"]
     "Wallet encrypted" true
     ["Wallet versleuteld"];
   Message false [Loc None "-57"]
     "%1 will close now to finish the encryption process. Remember that encrypting your wallet cannot fully protect your Bitcoin Confidential from being stolen by malware infecting your computer." true
     ["% 1 wordt nu gesloten om het coderingsproces te voltooien. Vergeet niet dat het versleutelen van uw portemonnee niet volledig kan beschermen uw Bitcoin vertrouwelijk te worden gestolen door malware infecteren uw computer."];
   Message false [Loc None "+4"]
     "IMPORTANT: Any previous backups you have made of your wallet file should be replaced with the newly generated, encrypted wallet file. For security reasons, previous backups of the unencrypted wallet file will become useless as soon as you start using the new, encrypted wallet." true
     ["BELANGRIJK: alle eerdere back-ups die u hebt gemaakt van uw Wallet-bestand moeten worden vervangen door het nieuw gegenereerde, versleutelde Wallet-bestand. Om veiligheidsredenen zullen eerdere back-ups van het niet-versleutelde Wallet-bestand nutteloos worden zodra u de nieuwe, versleutelde portemonnee begint te gebruiken."];
   Message false [Loc None "+9"; Loc None "+7"; Loc None "+43"; Loc None "+6"]
     "Wallet encryption failed" true
     ["Wallet-versleuteling is mislukt"];
   Message false [Loc None "-55"]
     "Wallet encryption failed due to an internal error. Your wallet was not encrypted." true
     ["Wallet-versleuteling is mislukt vanwege een interne fout. Uw wallet is niet versleuteld."];
   Message false [Loc None "+7"; Loc None "+49"]
     "The supplied passphrases do not match." true
     ["De meegeleverde wachtwoordzinnen komen niet overeen."];
   Message false [Loc None "-37"]
     "Wallet unlock failed" true
     ["Wallet Unlock mislukt"];
   Message false [Loc None "+1"; Loc None "+11"; Loc None "+19"]
     "The passphrase entered for the wallet decryption was incorrect." true
     ["De wachtwoordzin ingevoerd voor de portemonnee decryptie was onjuist."];
   Message false [Loc None "-20"]
     "Wallet decryption failed" true
     ["Wallet decodering mislukt"];
   Message false [Loc None "+14"]
     "Wallet passphrase was successfully changed." true
     ["Wallet-wachtwoordzin is gewijzigd."]].

Definition nl_AskPassphraseDialog_2 : list message :=
  [Message false [Loc None "+48"; Loc None "+33"]
     "Warning: The Caps Lock key is on!" true
     ["Waarschuwing: de Caps Lock-toets is ingeschakeld!"]].

Definition nl_BanTableModel : list message :=
  [Message false [Loc (Some "../bantablemodel.cpp") "+88"]
     "IP/Netmask" true
     ["IP/netmask"];
   Message false [Loc None "+0"]
     "Banned Until" true
     ["Verboden totdat"]].

Definition nl_BitcoinGUI_1 : list message :=
  [Message false [Loc (Some "../bitcoingui.cpp") "+94"]
     "Wallet" true
     ["Portemonnee"];
   Message false [Loc None "+2"]
     "Node" true
     ["Knooppunt"];
   Message false [Loc None "+169"]
     "Overview" true
     ["Overzicht"];
   Message false [Loc None "+1"]
     "Show general overview of wallet" true
     ["Algemeen overzicht van Wallet weergeven"];
   Message false [Loc None "+7"]
     "Send" true
     ["Verzenden"];
   Message false [Loc None "+1"]
     "Send coins to a Bitcoin Confidential Spending address" true
     ["Stuur munten naar een Bitcoin vertrouwelijk uitgaven adres"];
   Message false [Loc None "+11"]
     "Receive" true
     ["Ontvangen"];
   Message false [Loc None "+1"]
     "Request payments (generates Spending address QR codes and bitcoinc: URIs)" true
     ["Aanvragen van betalingen (genereert uitgaven adres QR-codes en bitcoinc: Uri&apos;s)"];
   Message false [Loc None "+11"]
     "Transactions" true
     ["Transacties"];
   Message false [Loc None "+1"]
     "Browse transaction history" true
     ["Browse transactiegeschiedenis"];
   Message false [Loc None "+7"]
     "Staking" true
     ["Staking"];
   Message false [Loc None "+1"]
     "Setup staking" true
     ["Setup-staking"];
   Message false [Loc None "+25"]
     "E&amp;xit" true
     ["E&amp;xit"];
   Message false [Loc None "+1"]
     "Quit application" true
     ["Toepassing afsluiten"];
   Message false [Loc None "+3"]
     "&amp;About %1" true
     ["&amp; Over% 1"];
   Message false [Loc None "+1"]
     "Show information about %1" true
     ["Informatie over% 1 weergeven"];
   Message false [Loc None "+3"]
     "About &amp;Qt" true
     ["Over &amp; qt"];
   Message false [Loc None "+1"]
     "Show information about Qt" true
     ["Informatie weergeven over qt"];
   Message false [Loc None "+2"]
     "&amp;Options..." true
     ["&amp; Opties..."];
   Message false [Loc None "+1"]
     "Modify configuration options for %1" true
     ["Configuratieopties voor% 1 wijzigen"];
   Message false [Loc None "+3"]
     "&amp;Show / Hide" true
     ["&amp; Tonen/verbergen"];
   Message false [Loc None "+1"]
     "Show or hide the main Window" true
     ["Het hoofdvenster weergeven of verbergen"];
   Message false [Loc None "+2"]
     "&amp;Encrypt Wallet..." true
     ["&amp; Versleutelen portemonnee..."];
   Message false [Loc None "+1"]
     "Encrypt the private keys that belong to your wallet" true
     ["Codeer de persoonlijke sleutels die bij uw Wallet horen"];
   Message false [Loc None "+2"]
     "&amp;Backup Wallet..." true
     ["&amp; Back-up portemonnee..."];
   Message false [Loc None "+1"]
     "Backup wallet to another location" true
     ["Back-up Wallet naar een andere locatie"];
   Message false [Loc None "+1"]
     "&amp;Change Passphrase..." true
     ["&amp; Wachtwoordzin wijzigen..."];
   Message false [Loc None "+1"]
     "Change the passphrase used for wallet encryption" true
     ["De wachtwoordzin wijzigen die wordt gebruikt voor Wallet-versleuteling"];
   Message false [Loc None "+1"]
     "Sign &amp;message..." true
     ["&amp; Bericht ondertekenen..."]].

Definition nl_BitcoinGUI_2 : list message :=
  [Message false [Loc None "+1"]
     "Sign messages with your Bitcoin Confidential addresses to prove you own them" true
     ["Onderteken berichten met uw vertrouwelijke Bitcoin-adressen om te bewijzen dat u ze bezit"];
   Message false [Loc None "+1"]
     "&amp;Verify message..." true
     ["&amp; Bericht verifiëren..."];
   Message false [Loc None "+1"]
     "Verify messages to ensure they were signed with specified Bitcoin Confidential addresses" true
     ["Verifieer berichten om ervoor te zorgen dat ze zijn ondertekend met gespecificeerde Bitcoin-vertrouwelijke adressen"];
   Message false [Loc None "+2"]
     "&amp;Debug window" true
     ["&amp; Debug-venster"];
   Message false [Loc None "+1"]
     "Open debugging and diagnostic console" true
     ["Foutopsporing en diagnose console openen"];
   Message false [Loc None "+4"]
     "&amp;Sending addresses..." true
     ["&amp; Adressen verzenden..."];
   Message false [Loc None "+1"]
     "Show the list of used sending addresses and labels" true
     ["De lijst met gebruikte verzendadressen en labels weergeven"];
   Message false [Loc None "+1"]
     "&amp;Receiving addresses..." true
     ["&amp; Adressen ontvangen..."];
   Message false [Loc None "+1"]
     "Show the list of used receiving addresses and labels" true
     ["De lijst met gebruikte ontvangstadressen en labels weergeven"];
   Message false [Loc None "+2"]
     "Open &amp;URI..." true
     ["&amp; URI openen..."];
   Message false [Loc None "+1"]
     "Open a bitcoinc: URI or payment request" true
     ["Open een bitcoinc: URI of betalingsverzoek"];
   Message false [Loc None "+2"]
     "&amp;Command-line options" true
     ["Opdrachtregelopties voor &amp;"];
   Message false [Loc None "+2"]
     "Show the %1 help message to get a list with possible Bitcoin Confidential command-line options" true
     ["Toon het% 1 helpbericht om een lijst te krijgen met mogelijke Bitcoin vertrouwelijke opdrachtregelopties"];
   Message false [Loc None "+2"]
     "&amp;HD Wallet..." true
     ["&amp; HD portemonnee..."];
   Message false [Loc None "+45"]
     "&amp;File" true
     ["&amp; Bestand"];
   Message false [Loc None "+16"]
     "&amp;Settings" true
     ["&amp; Instellingen"];
   Message false [Loc None "+9"]
     "&amp;Help" true
     ["&amp; Help"];
   Message false [Loc None "+15"]
     "Tabs toolbar" true
     ["Werkbalk tabs"];
   Message false [Loc None "+113"]
     "default wallet" true
     ["standaard Wallet"];
   Message false [Loc None "+88"]
     "%1 client" true
     ["% 1 client"];
   Message true [Loc None "+189"]
     "%n active connection(s) to Bitcoin Confidential network" true
     ["% n actieve verbinding (en) met Bitcoin vertrouwelijke netwerk"; "% n actieve verbinding (en) met Bitcoin vertrouwelijke netwerk"];
   Message false [Loc None "+0"]
     "Click to disable network activity." true
     ["Klik hier om netwerkactiviteit uit te schakelen."];
   Message false [Loc None "+2"]
     "Network activity disabled." true
     ["Netwerkactiviteit uitgeschakeld."];
   Message false [Loc None "+0"]
     "Click to enable network activity again." true
     ["Klik hierop om netwerkactiviteit opnieuw in te schakelen."];
   Message false [Loc None "+28"]
     "Syncing Headers (%1%)..." true
     ["Kopteksten synchroniseren (% 1%)..."];
   Message false [Loc None "+26"]
     "Synchronizing with network..." true
     ["Synchroniseren met netwerk..."];
   Message false [Loc None "+5"]
     "Indexing blocks on disk..." true
     ["Indexering van blokken op schijf..."];
   Message false [Loc None "+2"]
     "Processing blocks on disk..." true
     ["Verwerkings blokken op schijf..."];
   Message false [Loc None "+4"]
     "Reindexing blocks on disk..." true
     ["Blokken op schijf opnieuw indexeren..."];
   Message false [Loc None "+6"]
     "Connecting to peers..." true
     ["Verbinding maken met peers..."]].

Definition nl_BitcoinGUI_3 : list message :=
  [Message true [Loc None "+9"]
     "Processed %n block(s) of transaction history." true
     ["Verwerkte% n blok (en) van transactiegeschiedenis."; "Verwerkte% n blok (en) van transactiegeschiedenis."];
   Message false [Loc None "+5"]
     "Up to date" true
     ["Bijdetijds"];
   Message false [Loc None "+19"]
     "%1 behind" true
     ["% 1 achter"];
   Message false [Loc None "+5"]
     "Catching up..." true
     ["Inhalen..."];
   Message false [Loc None "+19"]
     "Last received block was generated %1 ago." true
     ["Laatste ontvangen blok is gegenereerd% 1 geleden."];
   Message false [Loc None "+2"]
     "Transactions after this will not yet be visible." true
     ["Transacties hierna zijn nog niet zichtbaar."];
   Message false [Loc None "+13"]
     "Bitcoin Confidential" true
     ["Bitcoin vertrouwelijk"];
   Message false [Loc None "+14"]
     "Error" true
     ["Fout"];
   Message false [Loc None "+3"]
     "Warning" true
     ["Waarschuwing"];
   Message false [Loc None "+3"]
     "Information" true
     ["Informatie"];
   Message false [Loc None "+116"]
     "Date: %1
" true
     ["Datum:% 1"];
   Message false [Loc None "+1"]
     "Amount: %1
" true
     ["Bedrag:% 1"];
   Message false [Loc None "+2"]
     "Wallet: %1
" true
     ["Portemonnee:% 1"];
   Message false [Loc None "+2"]
     "Type: %1
" true
     ["Type:% 1"];
   Message false [Loc None "+2"]
     "Label: %1
" true
     ["Label:% 1"];
   Message false [Loc None "+2"]
     "Address: %1
" true
     ["Adres:% 1"];
   Message false [Loc None "+1"]
     "Sent transaction" true
     ["Verzonden transactie"];
   Message false [Loc None "+0"]
     "Incoming transaction" true
     ["Inkomende transactie"];
   Message false [Loc None "+52"]
     "HD key generation is &lt;b&gt;enabled&lt;/b&gt;" true
     ["HD-sleutel genereren is &lt;b&gt;ingeschakeld&lt;/b&gt;"];
   Message false [Loc None "+0"]
     "HD key generation is &lt;b&gt;disabled&lt;/b&gt;" true
     ["Het genereren van HD-sleutels is &lt;b&gt;uitgeschakeld&lt;/b&gt;"];
   Message false [Loc None "+13"]
     "Wallet is &lt;b&gt;not encrypted&lt;/b&gt;. Click the opened lock to encrypt it." true
     ["Wallet is &lt;b&gt;niet versleuteld&lt;/b&gt;. Klik op het geopende slot om het te versleutelen."];
   Message false [Loc None "+8"]
     "Wallet is &lt;b&gt;encrypted&lt;/b&gt; and currently &lt;b&gt;unlocked&lt;/b&gt;" true
     ["Wallet is &lt;b&gt;versleuteld&lt;/b&gt; en momenteel &lt;b&gt;ontgrendeld&lt;/b&gt;"];
   Message false [Loc None "+8"]
     "Wallet is &lt;b&gt;encrypted&lt;/b&gt; and currently &lt;b&gt;unlocked&lt;/b&gt; for staking only" true
     ["Wallet is &lt;b&gt;versleuteld&lt;/b&gt; en momenteel &lt;b&gt;ontgrendeld&lt;/b&gt; voor staking alleen"];
   Message false [Loc None "+8"]
     "Wallet is &lt;b&gt;encrypted&lt;/b&gt; and currently &lt;b&gt;locked&lt;/b&gt;" true
     ["Wallet is &lt;b&gt;versleuteld&lt;/b&gt; en momenteel &lt;b&gt;vergrendeld&lt;/b&gt;"];
   Message false [Loc None "+58"]
     "Proxy is &lt;b&gt;enabled&lt;/b&gt;: %1" true
     ["Proxy is &lt;b&gt;ingeschakeld&lt;/b&gt;:% 1"];
   Message false [Loc None "+28"]
     "Tor is &lt;b&gt;enabled&lt;/b&gt;" true
     ["Tor is &lt;b&gt;ingeschakeld&lt;/b&gt;"];
   Message false [Loc None "+3"]
     "Tor is &lt;b&gt;enabled&lt;/b&gt;, but its not the only network used. Use only onlynet=onion." true
     ["Tor is &lt;b&gt;ingeschakeld&lt;/b&gt;, maar het is niet het enige netwerk dat wordt gebruikt. Gebruik alleen onlynet = Onion."];
   Message false [Loc None "+3"]
     "Tor is &lt;b&gt;disabled&lt;/b&gt;. To enhance your privacy setup consider using tor by setting &lt;b&gt;onlynet=onion&lt;/b&gt; in your &lt;b&gt;bitcoinc.conf&lt;/b&gt;." true
     ["Tor is &lt;b&gt;uitgeschakeld&lt;/b&gt;. Om uw privacy-instellingen te verbeteren Overweeg het gebruik van Tor door het instellen van &lt;b&gt;onlynet = Onion&lt;/b&gt; in uw &lt;b&gt;bitcoinc. conf&lt;/b&gt;."]].

Definition nl_BitcoinGUI_4 : list message :=
  [Message false [Loc (Some "../bitcoin.cpp") "+528"]
     "A fatal error occurred. Bitcoin Confidential can no longer continue safely and will quit." true
     ["Er is een onherstelbare fout opgetreden. Bitcoin Confidential kan niet langer veilig blijven en zal stoppen."]].

Definition nl_CoinControlDialog_1 : list message :=
  [Message false [Loc (Some "../forms/coincontroldialog.ui") "+14"]
     "Coin Selection" true
     ["Munt selectie"];
   Message false [Loc None "+34"]
     "Quantity:" true
     ["Hoeveelheid:"];
   Message false [Loc None "+29"]
     "Bytes:" true
     ["Bytes:"];
   Message false [Loc None "+45"]
     "Amount:" true
     ["Bedrag:"];
   Message false [Loc None "+32"]
     "Dust:" true
     ["Stof:"];
   Message false [Loc None "+48"]
     "Fee:" true
     ["Vergoeding:"];
   Message false [Loc None "+45"]
     "After Fee:" true
     ["Na vergoeding:"];
   Message false [Loc None "+32"]
     "Change:" true
     ["Wijzigen:"];
   Message false [Loc None "+57"]
     "Standard" true
     ["Standaard"];
   Message false [Loc None "+5"]
     "Anon" true
     ["Anon"];
   Message false [Loc None "+14"]
     "Show all" true
     ["Toon alle"];
   Message false [Loc None "+13"]
     "(un)select all" true
     ["(un) Alles selecteren"];
   Message false [Loc None "+16"]
     "Tree mode" true
     ["Boom modus"];
   Message false [Loc None "+13"]
     "List mode" true
     ["Lijst modus"];
   Message false [Loc None "+74"]
     "Amount" true
     ["Bedrag"];
   Message false [Loc None "+8"]
     "Received with label" true
     ["Ontvangen met label"];
   Message false [Loc None "+5"]
     "Received with address" true
     ["Ontvangen met adres"];
   Message false [Loc None "+5"]
     "Date" true
     ["Datum"];
   Message false [Loc None "+5"]
     "Confirmations" true
     ["Bevestigingen"];
   Message false [Loc None "+3"]
     "Confirmed" true
     ["Bevestigd"];
   Message false [Loc (Some "../coincontroldialog.cpp") "+73"]
     "Copy address" true
     ["Adres kopiëren"];
   Message false [Loc None "+1"]
     "Copy label" true
     ["Label kopiëren"];
   Message false [Loc None "+1"; Loc None "+26"]
     "Copy amount" true
     ["Bedrag kopiëren"];
   Message false [Loc None "-25"]
     "Copy transaction ID" true
     ["Transactie-ID kopiëren"];
   Message false [Loc None "+1"]
     "Lock unspent" true
     ["Lock niet uitgegeven"];
   Message false [Loc None "+1"]
     "Unlock unspent" true
     ["Ontgrendel niet-bestede"];
   Message false [Loc None "+22"]
     "Copy quantity" true
     ["Hoeveelheid kopiëren"];
   Message false [Loc None "+2"]
     "Copy fee" true
     ["Kosten kopiëren"];
   Message false [Loc None "+1"]
     "Copy after fee" true
     ["Kopiëren na vergoeding"]].

Definition nl_CoinControlDialog_2 : list message :=
  [Message false [Loc None "+1"]
     "Copy bytes" true
     ["Bytes kopiëren"];
   Message false [Loc None "+1"]
     "Copy dust" true
     ["Stof kopiëren"];
   Message false [Loc None "+1"]
     "Copy change" true
     ["Wijziging kopiëren"];
   Message false [Loc None "+340"]
     "(%1 locked)" true
     ["(% 1 vergrendeld)"];
   Message false [Loc None "+161"]
     "yes" true
     ["Ja"];
   Message false [Loc None "+0"]
     "no" true
     ["No"];
   Message false [Loc None "+14"]
     "This label turns red if any recipient receives an amount smaller than the current dust threshold." true
     ["Dit label wordt rood als een geadresseerde een bedrag ontvangt dat kleiner is dan de huidige stof drempel."];
   Message false [Loc None "+5"]
     "Can vary +/- %1 satoshi(s) per input." true
     ["Kan variëren +/-% 1 Satoshi (s) per ingang."];
   Message false [Loc None "+47"]
     "Hide immature" true
     ["Verberg onvolwassen"];
   Message false [Loc None "+2"]
     "Hide locked" true
     ["Vergrendeld verbergen"];
   Message false [Loc None "+6"]
     "Show immature" true
     ["Toon onvolwassen"];
   Message false [Loc None "+2"]
     "Show locked" true
     ["Vergrendeld weergeven"];
   Message false [Loc None "+26"; Loc None "+66"; Loc None "+11"]
     "(no label)" true
     ["(geen label)"];
   Message false [Loc None "-19"]
     "change from %1 (%2)" true
     ["wijzigen van% 1 (% 2)"];
   Message false [Loc None "+1"; Loc None "+20"]
     "(change)" true
     ["wijzigen"];
   Message false [Loc None "-17"]
     "spending from %1 (%2)" true
     ["uitgaven van% 1 (% 2)"]].

Definition nl_EditAddressDialog : list message :=
  [Message false [Loc (Some "../forms/editaddressdialog.ui") "+14"]
     "Edit Address" true
     ["Adres bewerken"];
   Message false [Loc None "+11"]
     "&amp;Label" true
     ["&amp; Label"];
   Message false [Loc None "+10"]
     "The label associated with this address list entry" true
     ["Het label dat aan dit adreslijst item is gekoppeld"];
   Message false [Loc None "+7"]
     "&amp;Address" true
     ["&amp; Adres"];
   Message false [Loc None "+10"]
     "The address associated with this address list entry. This can only be modified for sending addresses." true
     ["Het adres dat aan dit adreslijst item is gekoppeld. Dit kan alleen worden gewijzigd voor het verzenden van adressen."];
   Message false [Loc (Some "../editaddressdialog.cpp") "+29"]
     "New receiving address" true
     ["Nieuw ontvangstadres"];
   Message false [Loc None "+5"]
     "New sending address" true
     ["Nieuw verzendadres"];
   Message false [Loc None "+3"]
     "New Stake address" true
     ["Nieuwe ring adres"];
   Message false [Loc None "+5"]
     "New ColdStake address" true
     ["Nieuw ColdStake-adres"];
   Message false [Loc None "+5"]
     "Edit receiving address" true
     ["Ontvangstadres bewerken"];
   Message false [Loc None "+4"]
     "Edit sending address" true
     ["Verzendadres bewerken"];
   Message false [Loc None "+87"]
     "The entered address &quot;%1&quot; is not a valid Bitcoin Confidential address." true
     ["Het ingevoerde adres% 1 is geen geldig Bitcoin-vertrouwelijk adres."];
   Message false [Loc None "+10"]
     "Could not unlock wallet." true
     ["Kan Wallet niet ontgrendelen."];
   Message false [Loc None "+5"]
     "New key generation failed." true
     ["Nieuwe sleutel genereren is mislukt."];
   Message false [Loc None "+18"]
     "Address &quot;%1&quot; already exists as a receiving address with label &quot;%2&quot; and so cannot be added as a sending address." true
     ["Adres% 1 bestaat al als ontvangstadres met label% 2 en kan dus niet als verzendadres worden toegevoegd."];
   Message false [Loc None "+5"]
     "The entered address &quot;%1&quot; is already in the address book with label &quot;%2&quot;." true
     ["Het ingevoerde adres% 1 bevindt zich al in het adresboek met het label% 2."]].

Definition nl_FreespaceChecker : list message :=
  [Message false [Loc (Some "../intro.cpp") "+78"]
     "A new data directory will be created." true
     ["Er wordt een nieuwe gegevensmap gemaakt."];
   Message false [Loc None "+22"]
     "name" true
     ["Naam"];
   Message false [Loc None "+2"]
     "Directory already exists. Add %1 if you intend to create a new directory here." true
     ["Map bestaat al. Voeg% 1 toe als u hier een nieuwe map wilt maken."];
   Message false [Loc None "+3"]
     "Path already exists, and is not a directory." true
     ["Het pad bestaat al en is geen map."];
   Message false [Loc None "+7"]
     "Cannot create data directory here." true
     ["Kan de gegevensdirectory hier niet maken."]].

Definition nl_HelpMessageDialog : list message :=
  [Message false [Loc (Some "../utilitydialog.cpp") "+41"]
     "version" true
     ["Versie"];
   Message false [Loc None "+5"; Loc None "+2"]
     "(%1-bit)" true
     ["(% 1-bit)"];
   Message false [Loc None "+5"]
     "About %1" true
     ["Ongeveer% 1"];
   Message false [Loc None "+19"]
     "Command-line options" true
     ["Opdrachtregelopties"]].

Definition nl_Intro : list message :=
  [Message false [Loc (Some "../forms/intro.ui") "+14"]
     "Welcome" true
     ["Welkom"];
   Message false [Loc None "+9"]
     "Welcome to %1." true
     ["Welkom bij% 1."];
   Message false [Loc None "+26"]
     "As this is the first time the program is launched, you can choose where %1 will store its data." true
     ["Aangezien dit de eerste keer is dat het programma wordt gestart, u kiezen waar% 1 de gegevens opslaat."];
   Message false [Loc None "+17"]
     "Use the default data directory" true
     ["De standaardgegevensmap gebruiken"];
   Message false [Loc None "+7"]
     "Use a custom data directory:" true
     ["Een aangepaste gegevensmap gebruiken:"];
   Message false [Loc None "+140"]
     "When you click OK, %1 will begin to download and process the full %4 block chain (%2GB) starting with the earliest transactions in %3 when %4 initially launched." true
     ["Wanneer u op OK klikt, begint% 1 met het downloaden en verwerken van de volledige% 4-blok keten (% 2GB), beginnend met de vroegste transacties in% 3 toen% 4 in eerste instantie werd gestart."];
   Message false [Loc None "+10"]
     "This initial synchronisation is very demanding, and may expose hardware problems with your computer that had previously gone unnoticed. Each time you run %1, it will continue downloading where it left off." true
     ["Deze initiële synchronisatie is zeer veeleisend en kan hardwareproblemen met uw computer blootstellen die eerder onopgemerkt waren gebleven. Elke keer dat u% 1 uitvoert, blijft het downloaden waar het gebleven was."];
   Message false [Loc None "+10"]
     "If you have chosen to limit block chain storage (pruning), the historical data must still be downloaded and processed, but will be deleted afterward to keep your disk usage low." true
     ["Als u ervoor hebt gekozen om blockchain-opslag te beperken (snoeien), moeten de historische gegevens nog steeds worden gedownload en verwerkt, maar daarna worden verwijderd om uw schijfgebruik laag te houden."];
   Message false [Loc (Some "../intro.cpp") "+20"]
     "Bitcoin Confidential" true
     ["Bitcoin vertrouwelijk"];
   Message false [Loc None "+6"]
     "At least %1 GB of data will be stored in this directory, and it will grow over time." true
     ["Er wordt ten minste% 1 GB aan gegevens opgeslagen in deze map en deze wordt na verloop van tijd groter."];
   Message false [Loc None "+5"]
     "Approximately %1 GB of data will be stored in this directory." true
     ["Er wordt ongeveer% 1 GB aan gegevens opgeslagen in deze map."];
   Message false [Loc None "+8"]
     "%1 will download and store a copy of the Bitcoin Confidential block chain." true
     ["% 1 zal downloaden en opslaan van een kopie van de Bitcoin vertrouwelijke blok keten."];
   Message false [Loc None "+2"]
     "The wallet will also be stored in this directory." true
     ["De Wallet wordt ook in deze map opgeslagen."];
   Message false [Loc None "+73"]
     "Error: Specified data directory &quot;%1&quot; cannot be created." true
     ["Fout: opgegeven gegevensdirectory% 1 kan niet worden gemaakt."];
   Message false [Loc None "+27"]
     "Error" true
     ["Fout"];
   Message true [Loc None "+9"]
     "%n GB of free space available" true
     ["% n GB vrije ruimte beschikbaar"; "% n GB vrije ruimte beschikbaar"];
   Message true [Loc None "+3"]
     "(of %n GB needed)" true
     ["(van% n GB nodig)"; "(van% n GB nodig)"]].

Definition nl_MnemonicDialog_1 : list message :=
  [Message false [Loc (Some "../forms/mnemonicdialog.ui") "+14"]
     "HD Wallet Setup" true
     ["HD-portemonnee instellen"];
   Message false [Loc None "+11"]
     "Generate a mnemonic" true
     ["Genereer een mnemonic"];
   Message false [Loc None "+10"]
     "Create the wallet" true
     ["Creëer de Wallet"];
   Message false [Loc None "+22"]
     "Write down the Recovery Phrase/Mnemonic below or generate a new one with the desired settings by clicking &quot;NEW MNEMONIC&quot;. Store this phrase in a safe place. The clipboard will be cleared to ensure you have it recorded.  If you are recovering a backup, enter the Recovery Phrase/Mnemonic on the next screen.  Click the &quot;NEXT&quot; button to continue with the wallet creation." true
     ["Noteer de Recovery phrase/Mnemonic hieronder of Genereer een nieuwe met de gewenste instellingen door op &quot;NEW MNEMONIC&quot; te klikken. Bewaar deze zin op een veilige plaats. Het Klembord wordt gewist om ervoor te zorgen dat u het hebt opgenomen.  Als u een back-up herstelt, voert u de herstel frase/Mnemonic in op het volgende scherm.  Klik op de knop &quot;volgende&quot; om door te gaan met het maken van de wallet."];
   Message false [Loc None "+36"]
     "Bytes of Entropy " true
     ["Bytes van entropie"];
   Message false [Loc None "+7"]
     "Language" true
     ["Language"];
   Message false [Loc None "+45"]
     "Entropy is an advanced feature. Your mnemonic may be insecure if this feature is used incorrectly." true
     ["Entropie is een geavanceerde functie. Uw Mnemonic kan onveilig zijn als deze functie onjuist wordt gebruikt."];
   Message false [Loc None "+22"]
     "Select your language" true
     ["Selecteer uw taal"];
   Message false [Loc None "+4"]
     "English" true
     ["Engels"];
   Message false [Loc None "+5"]
     "French" true
     ["Frans"];
   Message false [Loc None "+5"]
     "Japanese" true
     ["Japans"];
   Message false [Loc None "+5"]
     "Spanish" true
     ["Spaans"];
   Message false [Loc None "+5"]
     "Chinese_s" true
     ["Chinese_s"];
   Message false [Loc None "+5"]
     "Chinese_t" true
     ["Chinese_t"];
   Message false [Loc None "+39"]
     "New mnemonic" true
     ["Nieuwe Mnemonic"];
   Message false [Loc None "+19"]
     "Next" true
     ["Volgende"];
   Message false [Loc None "+19"; Loc None "+198"]
     "Cancel" true
     ["Annuleren"];
   Message false [Loc None "-148"]
     "Recovery Passphrase " true
     ["Wachtwoordzin voor herstel"];
   Message false [Loc None "+7"]
     "Import Chain" true
     ["Import keten"];
   Message false [Loc None "+13"]
     "Warning" true
     ["Waarschuwing"];
   Message false [Loc None "+33"]
     "Enter a passphrase to protect your Recovery Phrase (optional)" true
     ["Voer een wachtwoordzin in om uw herstel frase te beschermen (optioneel)"];
   Message false [Loc None "+13"]
     "Only needed if you&apos;re importing " true
     ["Alleen nodig als u importeert"];
   Message false [Loc None "+16"]
     "Please ensure you backup your Recovery Phrase and Passphrase - they are not recoverable!" true
     ["Zorg ervoor dat u een back-up van uw herstel zin en wachtwoordzin-ze zijn niet terug te vorderen!"];
   Message false [Loc None "+28"]
     "Back" true
     ["Terug"];
   Message false [Loc None "+19"; Loc (Some "../mnemonicdialog.cpp") "+145"]
     "Import" true
     ["Importeren"];
   Message false [Loc (Some "../mnemonicdialog.cpp") "-102"]
     "Optionally enter a passphrase to protect the Recovery Phrase. (This is not a wallet password.)" true
     ["Voer desgewenst een wachtwoordzin in om de herstel term te beveiligen. (Dit is geen Wallet-wachtwoord.)"];
   Message false [Loc None "+2"]
     "Enter the Recovery Phrase/Mnemonic." true
     ["Voer de herstel frase/Mnemonic in."];
   Message false [Loc None "+26"]
     "Create wallet" true
     ["Wallet maken"];
   Message false [Loc None "+16"]
     "Generate a new Recovery Phrase/Mnemonic with the desired settings by clicking &quot;NEW MNEMONIC&quot;." true
     ["Genereer een nieuwe Recovery phrase/Mnemonic met de gewenste instellingen door op &quot;NEW MNEMONIC&quot; te klikken."]].

Definition nl_MnemonicDialog_2 : list message :=
  [Message false [Loc None "+5"]
     "Import a mnemonic" true
     ["Importeer een mnemonic"];
   Message false [Loc None "+28"]
     "Confirm wallet creation cancel" true
     ["Aanmaak van Wallet bevestigen Annuleren"];
   Message false [Loc None "+1"]
     "Are you sure you want to cancel the wallet creation?" true
     ["Weet u zeker dat u het maken van de wallet wilt annuleren?"];
   Message false [Loc None "+0"]
     "This is only recommended for advanced users to import with custom settings in the debug console or with the RPC interface." true
     ["Dit wordt alleen aanbevolen voor gevorderde gebruikers om te importeren met aangepaste instellingen in de Foutopsporingsconsole of met de RPC-interface."]].

Definition nl_ModalOverlay : list message :=
  [Message false [Loc (Some "../forms/modaloverlay.ui") "+14"]
     "Form" true
     ["Formulier"];
   Message false [Loc None "+122"]
     "Recent transactions may not yet be visible, and therefore your wallet&apos;s balance might be incorrect. This information will be correct once your wallet has finished synchronizing with the Bitcoin Confidential network, as detailed below." true
     ["Recente transacties zijn mogelijk nog niet zichtbaar en daarom is het saldo van uw portemonnee mogelijk onjuist. Deze informatie is correct zodra uw Wallet klaar is met synchroniseren met het vertrouwelijke netwerk van Bitcoin, zoals hieronder beschreven."];
   Message false [Loc None "+19"]
     "Attempting to spend coins that are affected by not-yet-displayed transactions will not be accepted by the network." true
     ["Pogingen om munten te besteden die worden beïnvloed door transacties die nog niet worden weergegeven, worden niet geaccepteerd door het netwerk."];
   Message false [Loc None "+63"]
     "Number of blocks left" true
     ["Aantal blokken resterend"];
   Message false [Loc None "+7"; Loc None "+26"; Loc (Some "../modaloverlay.cpp") "+140"]
     "Unknown..." true
     ["Onbekende..."];
   Message false [Loc None "-13"]
     "Last block time" true
     ["Laatste Blokkeer"];
   Message false [Loc None "+26"]
     "Progress" true
     ["Vooruitgang"];
   Message false [Loc None "+34"]
     "Progress increase per hour" true
     ["Voortgang toename per uur"];
   Message false [Loc None "+7"; Loc None "+20"]
     "calculating..." true
     ["Berekenen..."];
   Message false [Loc None "-7"]
     "Estimated time left until synced" true
     ["Geschatte tijd resterend totdat gesynchroniseerd"];
   Message false [Loc None "+40"]
     "Hide" true
     ["Verbergen"];
   Message false [Loc (Some "../modaloverlay.cpp") "-1"]
     "Unknown. Syncing Headers (%1)..." true
     ["Onbekende. Kopteksten synchroniseren (% 1)..."]].

Definition nl_OpenURIDialog : list message :=
  [Message false [Loc (Some "../forms/openuridialog.ui") "+14"]
     "Open URI" true
     ["Open URI"];
   Message false [Loc None "+6"]
     "Open payment request from URI or file" true
     ["Betalingsverzoek openen vanuit URI of bestand"];
   Message false [Loc None "+9"]
     "URI:" true
     ["Uri:"];
   Message false [Loc None "+10"]
     "Select payment request file" true
     ["Betalingsaanvraag bestand selecteren"];
   Message false [Loc (Some "../openuridialog.cpp") "+45"]
     "Select payment request file to open" true
     ["Selecteer het betalings aanvraagbestand dat u wilt openen"]].

Definition nl_OptionsDialog_1 : list message :=
  [Message false [Loc (Some "../forms/optionsdialog.ui") "+14"]
     "Options" true
     ["Opties"];
   Message false [Loc None "+14"]
     "&amp;Main" true
     ["&amp; Main"];
   Message false [Loc None "+13"]
     "W&amp;allet" true
     ["W&amp;allet"];
   Message false [Loc None "+13"]
     "&amp;Network" true
     ["&amp; Netwerk"];
   Message false [Loc None "+13"]
     "&amp;Window" true
     ["&amp; Venster"];
   Message false [Loc None "+13"]
     "&amp;Display" true
     ["&amp; Display"];
   Message false [Loc None "+22"]
     "Automatically start %1 after logging in to the system." true
     ["Start% 1 automatisch nadat u zich hebt aangemeld bij het systeem."];
   Message false [Loc None "+3"]
     "&amp;Start %1 on system login" true
     ["&amp; Start% 1 op systeem aanmelding"];
   Message false [Loc None "+22"]
     "Disables some advanced features but all blocks will still be fully validated. Reverting this setting requires re-downloading the entire blockchain. Actual disk usage may be somewhat higher." true
     ["Sommige geavanceerde functies worden uitgeschakeld, maar alle blokken worden nog steeds volledig gevalideerd. Als je deze instelling herstelt, moet je de hele blockchain opnieuw downloaden. Het werkelijke schijfgebruik kan iets hoger zijn."];
   Message false [Loc None "+3"]
     "Prune &amp;block storage to" true
     ["Snoeien &amp; blokopslag naar"];
   Message false [Loc None "+17"]
     "GB" true
     ["Gb"];
   Message false [Loc None "+25"]
     "Reverting this setting requires re-downloading the entire blockchain." true
     ["Als je deze instelling herstelt, moet je de hele blockchain opnieuw downloaden."];
   Message false [Loc None "+12"]
     "Size of &amp;database cache" true
     ["Grootte van &amp; database cache"];
   Message false [Loc None "+23"]
     "MB" true
     ["Mb"];
   Message false [Loc None "+27"]
     "Number of script &amp;verification threads" true
     ["Aantal threads voor script &amp;-verificatie"];
   Message false [Loc None "+19"]
     "(0 = auto, &lt;0 = leave that many cores free)" true
     ["(0 = automatisch,&lt;0 = leave that many cores free) ==&quot;&quot; leave=&quot;&quot; that=&quot;&quot; many=&quot;&quot; cores=&quot;&quot;&gt;&lt;/0 = leave that many cores free)&gt;"];
   Message false [Loc None "+39"]
     "Expert" true
     ["Expert"];
   Message false [Loc None "+6"]
     "Whether to show coin control features or not." true
     ["Of de functies van de Coin Control al dan niet worden weergegeven."];
   Message false [Loc None "+3"]
     "Enable coin &amp;control features" true
     ["Functies voor Coin &amp; Control inschakelen"];
   Message false [Loc None "+7"]
     "If you disable the spending of unconfirmed change, the change from a transaction cannot be used until that transaction has at least one confirmation. This also affects how your balance is computed." true
     ["Als u de besteding van niet-bevestigde wijzigingen uitschakelt, kan de wijziging van een transactie niet worden gebruikt totdat de transactie ten minste één bevestiging heeft. Dit is ook van invloed op hoe uw saldo wordt berekend."];
   Message false [Loc None "+3"]
     "&amp;Spend unconfirmed change" true
     ["&amp; Niet-bevestigde wijziging uitgeven"];
   Message false [Loc None "+7"]
     "Display notification dialog for incoming stake transactions." true
     ["Meldings dialoogvenster voor inkomende ring transacties weergeven."];
   Message false [Loc None "+3"]
     "&amp;Show incoming stake notifications" true
     ["&amp; Binnenkomende inzet meldingen weergeven"];
   Message false [Loc None "+27"]
     "Automatically open the Bitcoin Confidential client port on the router. This only works when your router supports UPnP and it is enabled." true
     ["Open automatisch de Bitcoin vertrouwelijke clientpoort op de router. Dit werkt alleen wanneer uw router UPnP ondersteunt en het is ingeschakeld."];
   Message false [Loc None "+3"]
     "Map port using &amp;UPnP" true
     ["Kaart poort met &amp; UPnP"];
   Message false [Loc None "+7"]
     "Accept connections from outside." true
     ["Accepteer verbindingen van buitenaf."];
   Message false [Loc None "+3"]
     "Allow incomin&amp;g connections" true
     ["Incomin&amp;g verbindingen toestaan"];
   Message false [Loc None "+7"]
     "Connect to the Bitcoin Confidential network through a SOCKS5 proxy." true
     ["Maak verbinding met het vertrouwelijke netwerk van Bitcoin via een SOCKS5 proxy."];
   Message false [Loc None "+3"]
     "&amp;Connect through SOCKS5 proxy (default proxy):" true
     ["&amp; Verbinding maken via SOCKS5 proxy (standaard proxy):"]].

Definition nl_OptionsDialog_2 : list message :=
  [Message false [Loc None "+9"; Loc None "+193"]
     "Proxy &amp;IP:" true
     ["Proxy &amp; IP:"];
   Message false [Loc None "-168"; Loc None "+193"]
     "IP address of the proxy (e.g. IPv4: 127.0.0.1 / IPv6: ::1)" true
     ["IP-adres van de proxy (bijvoorbeeld IPv4:127.0.0.1/IPv6::: 1)"];
   Message false [Loc None "-183"; Loc None "+193"]
     "&amp;Port:" true
     ["Poort"];
   Message false [Loc None "-168"; Loc None "+193"]
     "Port of the proxy (e.g. 9050)" true
     ["Poort van de proxy (bijv. 9050)"];
   Message false [Loc None "-166"]
     "Used for reaching peers via:" true
     ["Gebruikt voor het bereiken van peers via:"];
   Message false [Loc None "+13"; Loc None "+23"; Loc None "+23"]
     "Shows if the supplied default SOCKS5 proxy is used to reach peers via this network type." true
     ["Geeft aan of de meegeleverde standaard SOCKS5 proxy wordt gebruikt om peers te bereiken via dit netwerktype."];
   Message false [Loc None "-36"]
     "IPv4" true
     ["IPv4"];
   Message false [Loc None "+23"]
     "IPv6" true
     ["IPv6"];
   Message false [Loc None "+23"]
     "Tor" true
     ["Tor"];
   Message false [Loc None "+25"]
     "Connect to the Bitcoin Confidential network through a separate SOCKS5 proxy for Tor hidden services." true
     ["Maak verbinding met het vertrouwelijke netwerk van Bitcoin via een aparte SOCKS5 proxy voor Tor Hidden Services."];
   Message false [Loc None "+3"]
     "Use separate SOCKS&amp;5 proxy to reach peers via Tor hidden services:" true
     ["Gebruik afzonderlijke SOCKS &amp; 5 proxy om peers te bereiken via Tor Hidden Services:"];
   Message false [Loc None "+111"]
     "Hide the icon from the system tray." true
     ["Verberg het pictogram in het systeemvak."];
   Message false [Loc None "+3"]
     "&amp;Hide tray icon" true
     ["&amp; Lade pictogram verbergen"];
   Message false [Loc None "+7"]
     "Show only a tray icon after minimizing the window." true
     ["Alleen een pictogram van een lade weergeven nadat het venster is geminimaliseerd."];
   Message false [Loc None "+3"]
     "&amp;Minimize to the tray instead of the taskbar" true
     ["&amp; Minimaliseren naar de lade in plaats van de taakbalk"];
   Message false [Loc None "+7"]
     "Minimize instead of exit the application when the window is closed. When this option is enabled, the application will be closed only after selecting Exit in the menu." true
     ["Minimaliseer in plaats van de toepassing af te sluiten wanneer het venster wordt gesloten. Als deze optie is ingeschakeld, wordt de toepassing alleen gesloten nadat u afsluiten in het menu hebt geselecteerd."];
   Message false [Loc None "+3"]
     "M&amp;inimize on close" true
     ["M&amp;inimize bij close"];
   Message false [Loc None "+26"]
     "User Interface &amp;language:" true
     ["Gebruikers interface &amp; taal:"];
   Message false [Loc None "+22"]
     "The user interface language can be set here. This setting will take effect after restarting %1." true
     ["De taal van de gebruikersinterface kan hier worden ingesteld. Deze instelling wordt van kracht na het opnieuw starten van% 1."];
   Message false [Loc None "+11"]
     "&amp;Unit to show amounts in:" true
     ["&amp; Eenheid om bedragen weer te geven in:"];
   Message false [Loc None "+22"]
     "Choose the default subdivision unit to show in the interface and when sending coins." true
     ["Kies de standaard indelings eenheid die u wilt weergeven in de interface en bij het verzenden van munten."];
   Message false [Loc None "+11"; Loc None "+22"]
     "Third party URLs (e.g. a block explorer) that appear in the transactions tab as context menu items. %s in the URL is replaced by transaction hash. Multiple URLs are separated by vertical bar |." true
     ["Url&apos;s van derden (bijvoorbeeld een blok Verkenner) die op het tabblad transacties worden weergegeven als contextmenu-items. % s in de URL wordt vervangen door transactie-hash. Meerdere Url&apos;s worden gescheiden door Vertical Bar |."];
   Message false [Loc None "-19"]
     "&amp;Third party transaction URLs" true
     ["&amp; Transactie-Url&apos;s van derden"];
   Message false [Loc None "+50"]
     "Active command-line options that override above options:" true
     ["Actieve opdrachtregelopties die de bovenstaande opties overschrijven:"];
   Message false [Loc None "+45"]
     "Open the %1 configuration file from the working directory." true
     ["Open het configuratiebestand% 1 uit de werkmap."];
   Message false [Loc None "+3"]
     "Open Configuration File" true
     ["Configuratiebestand openen"];
   Message false [Loc None "+10"]
     "Reset all client options to default." true
     ["Alle client opties opnieuw instellen op standaardwaarden."];
   Message false [Loc None "+3"]
     "&amp;Reset Options" true
     ["&amp; Opties voor resetten"]].

Definition nl_OptionsDialog_3 : list message :=
  [Message false [Loc None "+80"]
     "&amp;OK" true
     ["&amp; OK"];
   Message false [Loc None "+13"]
     "&amp;Cancel" true
     ["&amp; Annuleren"];
   Message false [Loc (Some "../optionsdialog.cpp") "+109"]
     "default" true
     ["Standaard"];
   Message false [Loc None "+56"]
     "none" true
     ["Geen"];
   Message false [Loc None "+82"]
     "Confirm options reset" true
     ["Bevestig opties reset"];
   Message false [Loc None "+1"; Loc None "+60"]
     "Client restart required to activate changes." true
     ["Client opnieuw opstarten vereist om wijzigingen te activeren."];
   Message false [Loc None "-60"]
     "Client will be shut down. Do you want to proceed?" true
     ["De client wordt afgesloten. Wilt u verdergaan?"];
   Message false [Loc None "+15"]
     "Configuration options" true
     ["Configuratie-opties"];
   Message false [Loc None "+1"]
     "The configuration file is used to specify advanced user options which override GUI settings. Additionally, any command-line options will override this configuration file." true
     ["Het configuratiebestand wordt gebruikt om geavanceerde gebruikersopties op te geven die de GUI-instellingen overschrijven. Bovendien wordt dit configuratiebestand overschreven door de opdrachtregelopties."];
   Message false [Loc None "+5"]
     "Error" true
     ["Fout"];
   Message false [Loc None "+0"]
     "The configuration file could not be opened." true
     ["Het configuratiebestand kan niet worden geopend."];
   Message false [Loc None "+43"]
     "This change would require a client restart." true
     ["Voor deze wijziging moet de client opnieuw worden opgestart."];
   Message false [Loc None "+28"]
     "The supplied proxy address is invalid." true
     ["Het opgegeven proxyadres is ongeldig."]].

Definition nl_OverviewPage : list message :=
  [Message false [Loc (Some "../forms/overviewpage.ui") "+14"]
     "Form" true
     ["Formulier"];
   Message false [Loc None "+43"]
     "Bitcoin Confidential Core" true
     ["Bitcoin vertrouwelijke kern"];
   Message false [Loc None "+38"; Loc None "+114"; Loc None "+210"]
     "Pending" true
     ["Hangende"];
   Message false [Loc None "-308"]
     "Spending" true
     ["Uitgaven"];
   Message false [Loc None "+108"]
     "Watch-only" true
     ["Alleen horloge"];
   Message false [Loc None "+73"; Loc None "+191"]
     "Available" true
     ["Beschikbaar"];
   Message false [Loc None "-181"]
     "Spendable" true
     ["Besteedbaar"];
   Message false [Loc None "+41"]
     "Staking" true
     ["Staking"];
   Message false [Loc None "+130"]
     "Immature" true
     ["Onrijpe"];
   Message false [Loc None "+86"]
     "Total" true
     ["Totale"];
   Message false [Loc None "+90"]
     "Recent transactions" true
     ["Recente transacties"];
   Message false [Loc None "+19"]
     "The displayed information may be out of date. Your wallet automatically synchronizes with the Bitcoin Confidential network after a connection is established, but this process has not completed yet." true
     ["De weergegeven informatie is mogelijk verouderd. Uw Wallet synchroniseert automatisch met het vertrouwelijke netwerk van Bitcoin nadat een verbinding tot stand is gebracht, maar dit proces is nog niet voltooid."]].

Definition nl_PaymentServer : list message :=
  [Message false [Loc (Some "../paymentserver.cpp") "+317"; Loc None "+215"; Loc None "+42"; Loc None "+110"; Loc None "+14"; Loc None "+18"]
     "Payment request error" true
     ["Fout bij betalingsverzoek"];
   Message false [Loc None "-398"]
     "Cannot start bitcoinc: click-to-pay handler" true
     ["Bitcoinc kan niet worden gestart: klik-en-betaal-handler"];
   Message false [Loc None "+82"; Loc None "+21"; Loc None "+13"; Loc None "+7"]
     "URI handling" true
     ["URI-afhandeling"];
   Message false [Loc None "-41"]
     "&apos;bitcoin://&apos; is not a valid URI. Use &apos;bitcoin:&apos; instead." true
     ["&apos; bitcoin://&apos; is geen geldige URI. Gebruik in plaats daarvan &apos; bitcoin: &apos;."];
   Message false [Loc None "+22"]
     "Payment request fetch URL is invalid: %1" true
     ["De URL voor het ophalen van de betalingsaanvraag is ongeldig:% 1"];
   Message false [Loc None "+12"]
     "Invalid payment address %1" true
     ["Ongeldig betalingsadres% 1"];
   Message false [Loc None "+8"]
     "URI cannot be parsed! This can be caused by an invalid Bitcoin Confidential address or malformed URI parameters." true
     ["URI kan niet worden geparseerd! Dit kan worden veroorzaakt door een ongeldige Bitcoin vertrouwelijk adres of verkeerd ingedeelde URI parameters."];
   Message false [Loc None "+13"]
     "Payment request file handling" true
     ["Afhandeling van betalingsaanvraag bestand"];
   Message false [Loc None "+1"]
     "Payment request file cannot be read! This can be caused by an invalid payment request file." true
     ["Het betalingsverzoek bestand kan niet worden gelezen! Dit kan worden veroorzaakt door een ongeldig betalingaanvraagbestand."];
   Message false [Loc None "+61"; Loc None "+9"; Loc None "+31"; Loc None "+10"; Loc None "+17"; Loc None "+85"]
     "Payment request rejected" true
     ["Betalingsverzoek afgewezen"];
   Message false [Loc None "-152"]
     "Payment request network doesn&apos;t match client network." true
     ["Het netwerk van de betalingsaanvraag komt niet overeen met het client netwerk."];
   Message false [Loc None "+9"]
     "Payment request expired." true
     ["Betalingsverzoek is verlopen."];
   Message false [Loc None "+6"]
     "Payment request is not initialized." true
     ["Het betalingsverzoek is niet geïnitialiseerd."];
   Message false [Loc None "+26"]
     "Unverified payment requests to custom payment scripts are unsupported." true
     ["Niet-geverifieerde betalingsaanvragen voor aangepaste betalings scripts worden niet ondersteund."];
   Message false [Loc None "+9"; Loc None "+17"]
     "Invalid payment request." true
     ["Ongeldige betalingsaanvraag."];
   Message false [Loc None "-10"]
     "Requested payment amount of %1 is too small (considered dust)." true
     ["Het aangevraagde betalingsbedrag van% 1 is te klein (beschouwd als stof)."];
   Message false [Loc None "+65"]
     "Refund from %1" true
     ["Terugbetaling van% 1"];
   Message false [Loc None "+31"]
     "Payment request %1 is too large (%2 bytes, allowed %3 bytes)." true
     ["Betalingsaanvraag% 1 is te groot (% 2 bytes, toegestaan% 3 bytes)."];
   Message false [Loc None "+9"]
     "Error communicating with %1: %2" true
     ["Fout bij het communiceren met% 1:% 2"];
   Message false [Loc None "+20"]
     "Payment request cannot be parsed!" true
     ["Betalingsverzoek kan niet worden geparseerd!"];
   Message false [Loc None "+13"]
     "Bad response from server %1" true
     ["Ongeldige reactie van Server% 1"];
   Message false [Loc None "+22"]
     "Network request error" true
     ["Fout in netwerkaanvraag"];
   Message false [Loc None "+11"]
     "Payment acknowledged" true
     ["Betaling bevestigd"]].

Definition nl_PeerTableModel : list message :=
  [Message false [Loc (Some "../peertablemodel.cpp") "+109"]
     "NodeId" true
     ["NodeId"];
   Message false [Loc None "+0"]
     "Node/Service" true
     ["Knooppunt/service"];
   Message false [Loc None "+0"]
     "Ping" true
     ["Ping"];
   Message false [Loc None "+0"]
     "Sent" true
     ["Verzonden"];
   Message false [Loc None "+0"]
     "Received" true
     ["Ontvangen"];
   Message false [Loc None "+0"]
     "User Agent" true
     ["User agent"]].

Definition nl_QObject : list message :=
  [Message false [Loc (Some "../bitcoinunits.cpp") "+196"]
     "Amount" true
     ["Bedrag"];
   Message false [Loc (Some "../guiutil.cpp") "+96"]
     "Enter Spending address" true
     ["Adres voor uitgaven invoeren"];
   Message false [Loc None "+12"]
     "Enter ColdStake address" true
     ["Voer ColdStake adres in"];
   Message false [Loc None "+2"]
     "Enter Stake address of remote node" true
     ["Voer het ring adres van het externe knooppunt in"];
   Message false [Loc None "+2"]
     "Enter Stake address" true
     ["Voer het adres van de inzet in"];
   Message false [Loc None "+687"]
     "%1 d" true
     ["% 1 d"];
   Message false [Loc None "+2"]
     "%1 h" true
     ["% 1 h"];
   Message false [Loc None "+2"]
     "%1 m" true
     ["% 1 m"];
   Message false [Loc None "+2"; Loc None "+53"]
     "%1 s" true
     ["% 1 s"];
   Message false [Loc None "-10"]
     "None" true
     ["Geen"];
   Message false [Loc None "+5"]
     "N/A" true
     ["N/a"];
   Message false [Loc None "+0"]
     "%1 ms" true
     ["% 1 MS"];
   Message true [Loc None "+18"]
     "%n second(s)" true
     ["% n seconde (s)"; "% n seconde (s)"];
   Message true [Loc None "+4"]
     "%n minute(s)" true
     ["% n minuut (s)"; "% n minuut (s)"];
   Message true [Loc None "+4"]
     "%n hour(s)" true
     ["% n uur (s)"; "% n uur (s)"];
   Message true [Loc None "+4"]
     "%n day(s)" true
     ["% n dag (en)"; "% n dag (en)"];
   Message true [Loc None "+4"; Loc None "+6"]
     "%n week(s)" true
     ["% n week (en)"; "% n week (en)"];
   Message false [Loc None "+0"]
     "%1 and %2" true
     ["% 1 en% 2"];
   Message true [Loc None "+0"]
     "%n year(s)" true
     ["% n jaar (en)"; "% n jaar (en)"];
   Message false [Loc None "+8"]
     "%1 B" true
     ["% 1 B"];
   Message false [Loc None "+2"]
     "%1 KB" true
     ["% 1 KB"];
   Message false [Loc None "+2"]
     "%1 MB" true
     ["% 1 MB"];
   Message false [Loc None "+2"]
     "%1 GB" true
     ["% 1 GB"];
   Message false [Loc None "+71"]
     "All spending funds are sent and received anonymously. Only the sender and receiver have details of their side of the transaction. Staking funds need to be converted to spending before sending out of wallet. Funds require %1 confirmations (%2 minutes) before sending." true
     ["Alle uitgaven fondsen worden anoniem verzonden en ontvangen. Alleen de afzender en ontvanger hebben Details van hun kant van de transactie. Staking fondsen moeten worden omgezet in uitgaven voor het verzenden van portemonnee. Voor het verzenden van fondsen zijn% 1 bevestigingen (% 2 minuten) vereist."];
   Message false [Loc None "+15"]
     "Staking funds cannot be sent out of your wallet without converting to spending. After converting to spending, %1 confirmations (%2 minutes) are required before sending." true
     ["Staking fondsen kunnen niet worden verzonden uit uw portemonnee zonder te converteren naar uitgaven. Na conversie naar uitgaven zijn% 1 bevestigingen (% 2 minuten) vereist voordat ze worden verzonden."];
   Message false [Loc (Some "../modaloverlay.cpp") "-29"]
     "unknown" true
     ["Onbekende"];
   Message false [Loc (Some "../bitcoin.cpp") "+186"]
     "%1 didn&apos;t yet exit safely..." true
     ["% 1 is nog niet veilig afgesloten..."]].

Definition nl_QObject__QObject : list message :=
  [Message false [Loc None "-117"]
     "Error parsing command line arguments: %1." true
     ["Fout bij het parseren van opdrachtregelargumenten:% 1."];
   Message false [Loc None "+38"]
     "Error: Specified data directory &quot;%1&quot; does not exist." true
     ["Fout: opgegeven gegevensdirectory% 1 bestaat niet."];
   Message false [Loc None "+5"]
     "Error: Cannot parse configuration file: %1." true
     ["Fout: kan het configuratiebestand niet parseren:% 1."];
   Message false [Loc None "+14"]
     "Error: %1" true
     ["Fout:% 1"]].

Definition nl_QRImageWidget : list message :=
  [Message false [Loc (Some "../receiverequestdialog.cpp") "+32"]
     "&amp;Save Image..." true
     ["&amp; Afbeelding opslaan..."];
   Message false [Loc None "+3"]
     "&amp;Copy Image" true
     ["&amp; Afbeelding kopiëren"];
   Message false [Loc None "+32"]
     "Save QR Code" true
     ["QR-code opslaan"];
   Message false [Loc None "+0"]
     "PNG Image (*.png)" true
     ["PNG-afbeelding (*. png)"]].

Definition nl_RPCConsole_1 : list message :=
  [Message false [Loc (Some "../forms/debugwindow.ui") "+14"]
     "Debug window" true
     ["Venster Debug"];
   Message false [Loc None "+11"]
     "Information" true
     ["Informatie"];
   Message false [Loc None "+13"]
     "Console" true
     ["Console"];
   Message false [Loc None "+10"]
     "Network Traffic" true
     ["Netwerkverkeer"];
   Message false [Loc None "+10"]
     "Peers" true
     ["Collega &apos;s"];
   Message false [Loc None "+21"; Loc None "+1004"]
     "User Agent" true
     ["User agent"];
   Message false [Loc None "-988"]
     "Block chain" true
     ["Block Chain"];
   Message false [Loc None "+7"]
     "Client version" true
     ["Client versie"];
   Message false [Loc None "+13"]
     "General" true
     ["Algemene"];
   Message false [Loc None "+13"]
     "Memory Pool" true
     ["Geheugen pool"];
   Message false [Loc None "+7"]
     "Current number of blocks" true
     ["Huidig aantal blokken"];
   Message false [Loc None "+13"]
     "Network" true
     ["Netwerk"];
   Message false [Loc None "+7"]
     "Number of connections" true
     ["Aantal verbindingen"];
   Message false [Loc None "+7"]
     "Startup time" true
     ["Opstarttijd"];
   Message false [Loc None "+7"]
     "Name" true
     ["Naam"];
   Message false [Loc None "+7"]
     "Last block time" true
     ["Laatste Blokkeer"];
   Message false [Loc None "+7"]
     "Using BerkeleyDB version" true
     ["BerkeleyDB versie gebruiken"];
   Message false [Loc None "+10"]
     "Datadir" true
     ["Datadir"];
   Message false [Loc None "+7"]
     "Memory usage" true
     ["Geheugengebruik"];
   Message false [Loc None "+7"]
     "Current number of transactions" true
     ["Huidig aantal transacties"];
   Message false [Loc None "+10"; Loc None "+16"; Loc None "+16"; Loc None "+16"; Loc None "+19"; Loc None "+16"; Loc None "+16"; Loc None "+16"; Loc None "+16"; Loc None "+16"; Loc None "+16"; Loc None "+644"; Loc None "+23"; Loc None "+23"; Loc None "+23"; Loc None "+23"; Loc None "+23"; Loc None "+23"; Loc None "+23"; Loc None "+23"; Loc None "+23"; Loc None "+23"; Loc None "+23"; Loc None "+23"; Loc None "+23"; Loc None "+23"; Loc None "+26"; Loc None "+23"; Loc None "+23"]
     "N/A" true
     ["N/a"];
   Message false [Loc None "-988"]
     "Debug log file" true
     ["Logboekbestand voor foutopsporing"];
   Message false [Loc None "+7"]
     "Open the %1 debug log file from the current data directory. This can take a few seconds for large log files." true
     ["Open het% 1 foutopsporingslogboek bestand uit de huidige gegevensmap. Dit kan enkele seconden duren voor grote logboekbestanden."]].

Definition nl_RPCConsole_2 : list message :=
  [Message false [Loc None "+3"]
     "&amp;Open" true
     ["&amp; Open"];
   Message false [Loc None "+25"]
     "Wallet: " true
     ["Portemonnee:"];
   Message false [Loc None "+8"]
     "(none)" true
     ["geen"];
   Message false [Loc None "+27"]
     "Decrease font size" true
     ["Tekengrootte verkleinen"];
   Message false [Loc None "+32"]
     "Increase font size" true
     ["Tekengrootte vergroten"];
   Message false [Loc None "+32"]
     "Clear console" true
     ["Console wissen"];
   Message false [Loc None "+111"]
     "&amp;Reset" true
     ["&amp; Resetten"];
   Message false [Loc None "+16"]
     "Totals" true
     ["Totalen"];
   Message false [Loc None "+67"; Loc None "+555"]
     "Received" true
     ["Ontvangen"];
   Message false [Loc None "-475"; Loc None "+452"]
     "Sent" true
     ["Verzonden"];
   Message false [Loc None "-361"]
     "Banned peers" true
     ["Verboden peers"];
   Message false [Loc None "+60"; Loc (Some "../rpcconsole.cpp") "+510"; Loc None "+760"]
     "Select a peer to view detailed information." true
     ["Selecteer een peer om gedetailleerde informatie weer te geven."];
   Message false [Loc None "+25"]
     "Whitelisted" true
     ["Witte lijst"];
   Message false [Loc None "+23"]
     "Direction" true
     ["Richting"];
   Message false [Loc None "+23"]
     "Version" true
     ["Versie"];
   Message false [Loc None "+46"]
     "Services" true
     ["Diensten"];
   Message false [Loc None "+23"]
     "Starting Block" true
     ["Startblok"];
   Message false [Loc None "+23"]
     "Synced Headers" true
     ["Gesynchroniseerde headers"];
   Message false [Loc None "+23"]
     "Synced Blocks" true
     ["Gesynchroniseerde blokken"];
   Message false [Loc None "+23"]
     "Ban Score" true
     ["Ban Score"];
   Message false [Loc None "+23"]
     "Connection Time" true
     ["Verbindingstijd"];
   Message false [Loc None "+23"]
     "Last Send" true
     ["Laatst verzonden"];
   Message false [Loc None "+23"]
     "Last Receive" true
     ["Laatste ontvangst"];
   Message false [Loc None "+69"]
     "Ping Time" true
     ["Ping-tijd"];
   Message false [Loc None "+23"]
     "The duration of a currently outstanding ping." true
     ["De duur van een momenteel uitstaande ping."];
   Message false [Loc None "+3"]
     "Ping Wait" true
     ["Ping wachten"];
   Message false [Loc None "+23"]
     "Min Ping" true
     ["Min ping"];
   Message false [Loc None "+23"]
     "Time Offset" true
     ["Verschuiving van de tijd"];
   Message false [Loc (Some "../rpcconsole.cpp") "-667"]
     "&amp;Disconnect" true
     ["&amp; Verbinding verbreken"]].

Definition nl_RPCConsole_3 : list message :=
  [Message false [Loc None "+1"; Loc None "+1"; Loc None "+1"; Loc None "+1"]
     "Ban for" true
     ["Verbod voor"];
   Message false [Loc None "-3"]
     "1 &amp;hour" true
     ["1 &amp; uur"];
   Message false [Loc None "+1"]
     "1 &amp;day" true
     ["1 &amp; dag"];
   Message false [Loc None "+1"]
     "1 &amp;week" true
     ["1 &amp; week"];
   Message false [Loc None "+1"]
     "1 &amp;year" true
     ["1 &amp; jaar"];
   Message false [Loc None "+48"]
     "&amp;Unban" true
     ["&amp; Unban"];
   Message false [Loc None "+54"]
     "default wallet" true
     ["standaard Wallet"];
   Message false [Loc None "+110"]
     "Welcome to the %1 RPC console." true
     ["Welkom bij de RPC-console van% 1."];
   Message false [Loc None "+1"]
     "Use up and down arrows to navigate history, and %1 to clear screen." true
     ["Gebruik pijl-omhoog en pijl-omlaag om door de geschiedenis te navigeren en% 1 om het scherm te wissen."];
   Message false [Loc None "+1"]
     "Type %1 for an overview of available commands." true
     ["Typ% 1 voor een overzicht van de beschikbare opdrachten."];
   Message false [Loc None "+1"]
     "For more information on using this console type %1." true
     ["Voor meer informatie over het gebruik van dit console type% 1."];
   Message false [Loc None "+2"]
     "WARNING: Scammers have been active, telling users to type commands here, stealing their wallet contents. Do not use this console without fully understanding the ramifications of a command." true
     ["Waarschuwing: oplichters zijn actief geweest, vertellen gebruikers hier commando&apos;s te typen, het stelen van hun portemonnee inhoud. Gebruik deze console niet zonder de vertakkingen van een opdracht volledig te begrijpen."];
   Message false [Loc None "+32"]
     "In:" true
     ["Inch:"];
   Message false [Loc None "+1"]
     "Out:" true
     ["Bekijk"];
   Message false [Loc None "+3"]
     "Network activity disabled" true
     ["Netwerkactiviteit uitgeschakeld"];
   Message false [Loc None "+68"]
     "Executing command without any wallet" true
     ["Opdracht uitvoeren zonder portemonnee"];
   Message false [Loc None "+2"]
     "Executing command using &quot;%1&quot; wallet" true
     ["Opdracht uitvoeren met de Wallet% 1"];
   Message false [Loc None "+190"]
     "(node id: %1)" true
     ["(knooppunt-id:% 1)"];
   Message false [Loc None "+2"]
     "via %1" true
     ["via% 1"];
   Message false [Loc None "+3"; Loc None "+1"]
     "never" true
     ["Nooit"];
   Message false [Loc None "+10"]
     "Inbound" true
     ["Inkomende"];
   Message false [Loc None "+0"]
     "Outbound" true
     ["Uitgaande"];
   Message false [Loc None "+2"]
     "Yes" true
     ["Ja"];
   Message false [Loc None "+0"]
     "No" true
     ["No"];
   Message false [Loc None "+12"; Loc None "+6"]
     "Unknown" true
     ["Onbekende"]].

Definition nl_ReceiveCoinsDialog : list message :=
  [Message false [Loc (Some "../forms/receivecoinsdialog.ui") "+59"]
     "Stake" true
     ["Spel"];
   Message false [Loc None "+5"]
     "ColdStake" true
     ["ColdStake"];
   Message false [Loc None "+14"]
     "&amp;Request payment" true
     ["&amp; Betaling aanvragen"];
   Message false [Loc None "+17"]
     "Clear all fields of the form." true
     ["Wis alle velden van het formulier."];
   Message false [Loc None "+3"]
     "Clear" true
     ["Duidelijk"];
   Message false [Loc None "+56"; Loc None "+79"]
     "An optional amount to request. Leave this empty or zero to not request a specific amount." true
     ["Een optioneel te vragen bedrag. Laat dit leeg of nul om een bepaald bedrag niet aan te vragen."];
   Message false [Loc None "-57"]
     "Use bech32 encoding." true
     ["Gebruik bech32 encoding."];
   Message false [Loc None "+3"]
     "Generate native segwit (Bech32) address" true
     ["Native segwit (Bech32)-adres genereren"];
   Message false [Loc None "+22"; Loc None "+55"]
     "An optional label to associate with the new receiving address." true
     ["Een optioneel label om te koppelen aan het nieuwe ontvangstadres."];
   Message false [Loc None "-52"]
     "&amp;Label:" true
     ["Label"];
   Message false [Loc None "+13"; Loc None "+53"]
     "An optional message to attach to the payment request, which will be displayed when the request is opened. Note: The message will not be sent with the payment over the Bitcoin Confidential network." true
     ["Een optioneel bericht om aan het betalingsverzoek te koppelen, dat wordt weergegeven wanneer de aanvraag wordt geopend. Opmerking: het bericht wordt niet verzonden met de betaling via het vertrouwelijke netwerk van Bitcoin."];
   Message false [Loc None "-50"]
     "&amp;Message:" true
     ["Bericht"];
   Message false [Loc None "+16"]
     "&amp;Amount:" true
     ["Houden op"];
   Message false [Loc None "+13"]
     "Use this form to request payments. All fields are &lt;b&gt;optional&lt;/b&gt;." true
     ["Gebruik dit formulier om betalingen aan te vragen. Alle velden zijn &lt;b&gt;optioneel&lt;/b&gt;."];
   Message false [Loc None "+63"]
     "Requested payments history" true
     ["Historie van aangevraagde betalingen"];
   Message false [Loc None "+31"]
     "Show the selected request (does the same as double clicking an entry)" true
     ["De geselecteerde aanvraag weergeven (doet hetzelfde als dubbelklikken op een item)"];
   Message false [Loc None "+3"]
     "Show" true
     ["Toon"];
   Message false [Loc None "+17"]
     "Remove the selected entries from the list" true
     ["De geselecteerde items uit de lijst verwijderen"];
   Message false [Loc None "+3"]
     "Remove" true
     ["Verwijderen"];
   Message false [Loc (Some "../receivecoinsdialog.cpp") "+40"]
     "Copy URI" true
     ["URI kopiëren"];
   Message false [Loc None "+1"]
     "Copy label" true
     ["Label kopiëren"];
   Message false [Loc None "+1"]
     "Copy message" true
     ["Bericht kopiëren"];
   Message false [Loc None "+1"]
     "Copy amount" true
     ["Bedrag kopiëren"]].

Definition nl_ReceiveRequestDialog : list message :=
  [Message false [Loc (Some "../forms/receiverequestdialog.ui") "+29"]
     "QR Code" true
     ["QR-code"];
   Message false [Loc None "+46"]
     "Copy &amp;URI" true
     ["Kopie &amp; URI"];
   Message false [Loc None "+10"]
     "Copy &amp;Address" true
     ["&amp; Adres kopiëren"];
   Message false [Loc None "+10"]
     "&amp;Save Image..." true
     ["&amp; Afbeelding opslaan..."];
   Message false [Loc (Some "../receiverequestdialog.cpp") "+65"]
     "Request payment to %1" true
     ["Betaling aanvragen voor% 1"];
   Message false [Loc None "+6"]
     "Payment information" true
     ["Betalingsinformatie"];
   Message false [Loc None "+1"]
     "URI" true
     ["Uri"];
   Message false [Loc None "+2"]
     "Address" true
     ["Adres"];
   Message false [Loc None "+2"]
     "Amount" true
     ["Bedrag"];
   Message false [Loc None "+2"]
     "Label" true
     ["Label"];
   Message false [Loc None "+2"]
     "Message" true
     ["Bericht"];
   Message false [Loc None "+2"]
     "Wallet" true
     ["Portemonnee"];
   Message false [Loc None "+11"]
     "Resulting URI too long, try to reduce the text for label / message." true
     ["Resulterende URI te lang is, probeert u de tekst voor label/bericht te verkleinen."];
   Message false [Loc None "+5"]
     "Error encoding URI into QR Code." true
     ["Fout codering URI in QR-code."]].

Definition nl_RecentRequestsTableModel : list message :=
  [Message false [Loc (Some "../recentrequeststablemodel.cpp") "+25"; Loc None "+4"]
     "Date" true
     ["Datum"];
   Message false [Loc None "-4"; Loc None "+4"]
     "Label" true
     ["Label"];
   Message false [Loc None "+0"]
     "Message" true
     ["Bericht"];
   Message false [Loc None "+42"]
     "(no label)" true
     ["(geen label)"];
   Message false [Loc None "+9"]
     "(no message)" true
     ["(geen bericht)"];
   Message false [Loc None "+8"]
     "(no amount requested)" true
     ["(geen bedrag aangevraagd)"];
   Message false [Loc None "+45"]
     "Requested" true
     ["Opgevraagd"]].

Definition nl_SendCoinsDialog_1 : list message :=
  [Message false [Loc (Some "../forms/sendcoinsdialog.ui") "+14"; Loc (Some "../sendcoinsdialog.cpp") "+806"]
     "Send Coins" true
     ["Verstuur munten"];
   Message false [Loc None "+105"]
     "Inputs..." true
     ["Ingangen..."];
   Message false [Loc None "+10"]
     "automatically selected" true
     ["automatisch geselecteerd"];
   Message false [Loc None "+19"]
     "Insufficient funds!" true
     ["Onvoldoende fondsen!"];
   Message false [Loc None "+89"]
     "Quantity:" true
     ["Hoeveelheid:"];
   Message false [Loc None "+35"]
     "Bytes:" true
     ["Bytes:"];
   Message false [Loc None "+48"]
     "Amount:" true
     ["Bedrag:"];
   Message false [Loc None "+32"]
     "Dust:" true
     ["Stof:"];
   Message false [Loc None "+48"]
     "Fee:" true
     ["Vergoeding:"];
   Message false [Loc None "+51"]
     "After Fee:" true
     ["Na vergoeding:"];
   Message false [Loc None "+32"]
     "Change:" true
     ["Wijzigen:"];
   Message false [Loc None "+44"]
     "If this is activated, but the change address is empty or invalid, change will be sent to a newly generated address." true
     ["Als dit is geactiveerd, maar het wijzigings adres is leeg of ongeldig, wordt de wijziging naar een nieuw gegenereerd adres verzonden."];
   Message false [Loc None "+3"]
     "Custom change address" true
     ["Aangepast wijzigings adres"];
   Message false [Loc None "+256"]
     "Transaction Fee:" true
     ["Transactiekosten:"];
   Message false [Loc None "+14"]
     "Choose..." true
     ["Kies..."];
   Message false [Loc None "+30"]
     "Using the fallbackfee can result in sending a transaction that will take several hours or days (or never) to confirm. Consider choosing your fee manually or wait until you have validated the complete chain." true
     ["Het gebruik van de fallbackfee kan resulteren in het verzenden van een transactie die enkele uren of dagen (of nooit) zal duren om te bevestigen. U uw vergoeding handmatig kiezen of wachten tot u de volledige keten hebt gevalideerd."];
   Message false [Loc None "+3"]
     "Warning: Fee estimation is currently not possible." true
     ["Waarschuwing: kostenraming is momenteel niet mogelijk."];
   Message false [Loc None "+26"]
     "collapse fee-settings" true
     ["kosten samenvouwen-instellingen"];
   Message false [Loc None "+3"]
     "Hide" true
     ["Verbergen"];
   Message false [Loc None "+48"]
     "Specify a custom fee per kB (1,000 bytes) of the transaction's virtual size.

Note:  Since the fee is calculated on a per-byte basis, a fee of &quot;100 satoshis per kB&quot; for a transaction size of 500 bytes (half of 1 kB) would ultimately yield a fee of only 50 satoshis." true
     ["Geef een aangepaste vergoeding per kB (1.000 bytes) van de virtuele grootte van de transactie.

Opmerking: aangezien de kosten per byte worden berekend, zou een vergoeding van &quot;100 satoshis per kB&quot; voor een transactiegrootte van 500 bytes (de helft van 1 kB) uiteindelijk een vergoeding van slechts 50 satoshis opleveren."];
   Message false [Loc None "+5"]
     "per kilobyte" true
     ["per kilobyte"];
   Message false [Loc None "+27"; Loc None "+13"]
     "Paying only the minimum fee is just fine as long as there is less transaction volume than space in the blocks. But be aware that this can end up in a never confirming transaction once there is more demand for Bitcoin Confidential transactions than the network can process." true
     ["Alleen de minimum vergoeding betalen is prima zolang er minder transactievolume is dan ruimte in de blokken. Maar wees ervan bewust dat dit kan eindigen in een nooit te bevestigen transactie zodra er meer vraag naar Bitcoin vertrouwelijke transacties dan het netwerk kan verwerken."];
   Message false [Loc None "+3"]
     "(read the tooltip)" true
     ["(Lees de tooltip)"];
   Message false [Loc None "+29"]
     "Recommended:" true
     ["Aanbevolen:"];
   Message false [Loc None "+30"]
     "Custom:" true
     ["Aangepaste:"];
   Message false [Loc None "+52"]
     "(Smart fee not initialized yet. This usually takes a few blocks...)" true
     ["(Smart fee nog niet geïnitialiseerd. Dit duurt meestal een paar blokken...)"];
   Message false [Loc None "+29"]
     "Confirmation time target:" true
     ["Streeftijd voor bevestiging:"];
   Message false [Loc None "+74"]
     "With Replace-By-Fee (BIP-125) you can increase a transaction&apos;s fee after it is sent. Without this, a higher fee may be recommended to compensate for increased transaction delay risk." true
     ["Met replace-by-fee (BIP-125) u de kosten van een transactie verhogen nadat deze is verzonden. Zonder dit, een hogere vergoeding kan worden aanbevolen om te compenseren voor verhoogde transactie vertraging risico."]].

Definition nl_SendCoinsDialog_2 : list message :=
  [Message false [Loc None "+3"]
     "Enable Replace-By-Fee" true
     ["Vervangen door bijzondere kosten inschakelen"];
   Message false [Loc None "+37"]
     "Confirm the send action" true
     ["De actie verzenden bevestigen"];
   Message false [Loc None "+3"]
     "S&amp;end" true
     ["S&amp;end"];
   Message false [Loc None "+23"]
     "Clear all fields of the form." true
     ["Wis alle velden van het formulier."];
   Message false [Loc None "+3"]
     "Clear &amp;All" true
     ["Clear &amp; all"];
   Message false [Loc None "+14"]
     "Send to multiple recipients at once" true
     ["Naar meerdere ontvangers tegelijk verzenden"];
   Message false [Loc None "+3"]
     "Add &amp;Recipient" true
     ["&amp; Ontvanger toevoegen"];
   Message false [Loc None "+38"]
     "Balance:" true
     ["Evenwicht:"];
   Message false [Loc (Some "../sendcoinsdialog.cpp") "-730"]
     "Add Output" true
     ["Uitvoer toevoegen"];
   Message false [Loc None "+3"]
     "Add Recipient" true
     ["Geadresseerde toevoegen"];
   Message false [Loc None "+14"]
     "Copy quantity" true
     ["Hoeveelheid kopiëren"];
   Message false [Loc None "+1"]
     "Copy amount" true
     ["Bedrag kopiëren"];
   Message false [Loc None "+1"]
     "Copy fee" true
     ["Kosten kopiëren"];
   Message false [Loc None "+1"]
     "Copy after fee" true
     ["Kopiëren na vergoeding"];
   Message false [Loc None "+1"]
     "Copy bytes" true
     ["Bytes kopiëren"];
   Message false [Loc None "+1"]
     "Copy dust" true
     ["Stof kopiëren"];
   Message false [Loc None "+1"]
     "Copy change" true
     ["Wijziging kopiëren"];
   Message false [Loc None "+88"]
     "%1 (%2 blocks)" true
     ["% 1 (% 2 blokken)"];
   Message false [Loc None "+39"]
     "This tab allows manually activating Staking funds for ColdStaking. This will take longer than the &quot;Automated ColdStaking activation&quot; to start staking but wallet does not need to be online for the activation." true
     ["Dit tabblad maakt het handmatig activeren van de staking fondsen voor ColdStaking. Dit zal langer duren dan de &quot;geautomatiseerde ColdStaking activatie&quot; om te beginnen met staking, maar Wallet hoeft niet online te zijn voor de activering."];
   Message false [Loc None "+103"]
     "Error Remote Staking Address" true
     ["Fout Remote staking adres"];
   Message false [Loc None "+0"]
     "The remote stake address can&apos;t be part of this wallet." true
     ["Het adres van de externe inzet kan geen deel uitmaken van deze wallet."];
   Message false [Loc None "+96"]
     "from wallet %1" true
     ["van Wallet% 1"];
   Message false [Loc None "+21"; Loc None "+5"; Loc None "+5"; Loc None "+4"]
     "%1 to %2" true
     ["% 1 tot% 2"];
   Message false [Loc None "+6"]
     "Are you sure you want to send?" true
     ["Weet u zeker dat u deze wilt verzenden?"];
   Message false [Loc None "+2"]
     "Please, review your transaction." true
     ["Controleer uw transactie."];
   Message false [Loc None "+11"]
     "Estimated Transaction fee" true
     ["Geschatte transactiekosten"];
   Message false [Loc None "+13"]
     "removed for transaction fee" true
     ["verwijderd voor transactiekosten"];
   Message false [Loc None "+2"]
     "added as transaction fee" true
     ["toegevoegd als transactiekosten"];
   Message false [Loc None "+5"]
     "You can increase the fee later (signals Replace-By-Fee, BIP-125)." true
     ["U de vergoeding later verhogen (signalen vervangen door vergoeding, BIP-125)."]].

Definition nl_SendCoinsDialog_3 : list message :=
  [Message false [Loc None "+2"]
     "Not signalling Replace-By-Fee, BIP-125." true
     ["Niet signalering vervanging-voor-fee, BIP-125."];
   Message false [Loc None "+12"]
     "Total Amount" true
     ["Totaalbedrag"];
   Message false [Loc None "+6"]
     "Your hardware device must be connected to sign this txn." true
     ["Uw hardwareapparaat moet zijn aangesloten om deze txn te ondertekenen."];
   Message false [Loc None "+4"]
     "Confirm send coins" true
     ["Bevestig munten verzenden"];
   Message false [Loc None "+248"]
     "The recipient address is not valid. Please recheck." true
     ["Het adres van de geadresseerde is ongeldig. Controleer a.u.b. opnieuw."];
   Message false [Loc None "+3"]
     "The amount to pay must be larger than 0." true
     ["Het te betalen bedrag moet groter zijn dan 0."];
   Message false [Loc None "+3"]
     "The amount exceeds your balance." true
     ["Het bedrag overschrijdt uw saldo."];
   Message false [Loc None "+3"]
     "The total exceeds your balance when the %1 transaction fee is included." true
     ["Het totaalbedrag overschrijdt uw saldo wanneer de transactiekosten van% 1 zijn opgenomen."];
   Message false [Loc None "+3"]
     "Duplicate address found: addresses should only be used once each." true
     ["Dubbel adres gevonden: adressen mogen slechts eenmaal worden gebruikt."];
   Message false [Loc None "+3"]
     "Transaction creation failed!" true
     ["Het maken van een transactie is mislukt."];
   Message false [Loc None "+4"]
     "The transaction was rejected with the following reason: %1" true
     ["De transactie is geweigerd met de volgende reden:% 1"];
   Message false [Loc None "+4"]
     "A fee higher than %1 is considered an absurdly high fee." true
     ["Een vergoeding hoger dan% 1 wordt beschouwd als een absurd hoge vergoeding."];
   Message false [Loc None "+3"]
     "Payment request expired." true
     ["Betalingsverzoek is verlopen."];
   Message false [Loc None "+96"]
     "Pay only the required fee of %1" true
     ["Alleen de vereiste kosten van% 1 betalen"];
   Message true [Loc None "+76"]
     "Estimated to begin confirmation within %n block(s)." true
     ["Geschatte begin bevestiging binnen% n Block (s)."; "Geschatte begin bevestiging binnen% n Block (s)."];
   Message false [Loc None "+130"]
     "Warning: Invalid Bitcoin Confidential address" true
     ["Waarschuwing: ongeldig Bitcoin vertrouwelijk adres"];
   Message false [Loc None "+8"]
     "Error custom change address" true
     ["Fout aangepast adres voor wijziging"];
   Message false [Loc None "+0"]
     "The address you selected for change is not part of this wallet." true
     ["Het adres dat u hebt geselecteerd voor wijziging maakt geen deel uit van deze wallet."];
   Message false [Loc None "+15"]
     "(no label)" true
     ["(geen label)"]].

Definition nl_SendCoinsEntry_1 : list message :=
  [Message false [Loc (Some "../forms/sendcoinsentry.ui") "+30"]
     "This is a normal payment." true
     ["Dit is een normale betaling."];
   Message false [Loc None "+71"; Loc None "+463"; Loc None "+130"]
     "Subtract fee from amount" true
     ["Kosten aftrekken van bedrag"];
   Message false [Loc None "-580"; Loc None "+463"; Loc None "+130"]
     "Use available balance" true
     ["Beschikbare saldo gebruiken"];
   Message false [Loc None "-562"]
     "Message" true
     ["Bericht"];
   Message false [Loc None "+24"; Loc None "+261"]
     "The Bitcoin Confidential address to send the payment to" true
     ["Het vertrouwelijke adres van Bitcoin om de betaling te verzenden naar"];
   Message false [Loc None "-254"; Loc None "+261"; Loc None "+297"; Loc None "+104"]
     "Choose previously used address" true
     ["Eerder gebruikt adres kiezen"];
   Message false [Loc None "-646"; Loc None "+261"; Loc None "+297"; Loc None "+104"]
     "Alt+A" true
     ["Alt + A"];
   Message false [Loc None "-655"; Loc None "+261"; Loc None "+297"; Loc None "+104"]
     "Paste address from clipboard" true
     ["Adres van Klembord plakken"];
   Message false [Loc None "-646"; Loc None "+261"; Loc None "+297"; Loc None "+104"]
     "Alt+P" true
     ["Alt + P"];
   Message false [Loc None "-655"; Loc None "+261"; Loc None "+401"; Loc None "+520"; Loc None "+564"]
     "Remove this entry" true
     ["Deze vermelding verwijderen"];
   Message false [Loc None "-1718"; Loc None "+277"]
     "Pay To" true
     ["Betalen aan"];
   Message false [Loc None "-258"; Loc None "+242"; Loc None "+277"]
     "Amount" true
     ["Bedrag"];
   Message false [Loc None "-495"]
     "Enter a label for this address to add it to the list of used addresses" true
     ["Voer een label in voor dit adres om het toe te voegen aan de lijst met gebruikte adressen"];
   Message false [Loc None "+15"]
     "Label" true
     ["Label"];
   Message false [Loc None "+33"]
     "A short message sent over the Bitcoin Confidential network." true
     ["Een korte boodschap verzonden over de Bitcoin vertrouwelijke netwerk."];
   Message false [Loc None "+6"]
     "Encrypted message sent with the transaction (optional, max. 24 characters)." true
     ["Gecodeerd bericht verzonden met de transactie (optioneel, Max. 24 tekens)."];
   Message false [Loc None "+261"]
     "This is a payment to a coldstake script." true
     ["Dit is een betaling aan een coldstake-script."];
   Message false [Loc None "+83"]
     "The fee will be deducted from the amount being sent. The recipient will receive less Bitcoin Confidential than you enter in the amount field. If multiple recipients are selected, the fee is split equally." true
     ["De vergoeding wordt afgetrokken van het bedrag dat wordt verzonden. De ontvanger ontvangt minder Bitcoin vertrouwelijk dan u in het veld bedrag invoert. Als er meerdere geadresseerden zijn geselecteerd, worden de kosten gelijkelijk gesplitst."];
   Message false [Loc None "+36"]
     "ColdStake address used by your remote staking node to stake your funds." true
     ["ColdStake adres gebruikt door uw externe staking knooppunt om uw fondsen te spelen."];
   Message false [Loc None "+80"]
     "ColdStake " true
     ["ColdStake"];
   Message false [Loc None "+24"]
     "The stake address on the remote node (cannot be in this wallet)" true
     ["Het adres van de stake op het externe knooppunt (kan niet in deze Wallet zijn)"];
   Message false [Loc None "+81"]
     " Stake " true
     ["Spel"];
   Message false [Loc None "+434"]
     "This is an unauthenticated payment request." true
     ["Dit is een niet-geverifieerd betalingsverzoek."];
   Message false [Loc None "+40"; Loc None "+560"]
     "Pay To:" true
     ["Betalen aan:"]].

Definition nl_SendCoinsEntry_2 : list message :=
  [Message false [Loc None "-526"; Loc None "+577"]
     "Memo:" true
     ["Memo:"];
   Message false [Loc None "-560"; Loc None "+547"]
     "A&amp;mount:" true
     ["A&amp;mount:"];
   Message false [Loc None "-78"]
     "This is an authenticated payment request." true
     ["Dit is een geverifieerd betalingsverzoek."];
   Message false [Loc (Some "../sendcoinsentry.cpp") "+89"]
     "Enter a label for this address to add it to your address book" true
     ["Voer een label in voor dit adres om het aan uw adresboek toe te voegen"]].

Definition nl_SendConfirmationDialog : list message :=
  [Message false [Loc (Some "../sendcoinsdialog.cpp") "+85"; Loc None "+5"]
     "Yes" true
     ["Ja"]].

Definition nl_ShutdownWindow : list message :=
  [Message false [Loc (Some "../utilitydialog.cpp") "+83"]
     "%1 is shutting down..." true
     ["% 1 wordt afgesloten..."];
   Message false [Loc None "+1"]
     "Do not shut down the computer until this window disappears." true
     ["Sluit de computer niet af totdat dit venster verdwijnt."]].

Definition nl_SignVerifyMessageDialog_1 : list message :=
  [Message false [Loc (Some "../forms/signverifymessagedialog.ui") "+14"]
     "Signatures - Sign / Verify a Message" true
     ["Handtekeningen-ondertekenen/een bericht verifiëren"];
   Message false [Loc None "+14"]
     "&amp;Sign Message" true
     ["&amp; Sign-bericht"];
   Message false [Loc None "+10"]
     "&amp;Verify Message" true
     ["&amp; Bericht verifiëren"];
   Message false [Loc None "+31"]
     "You can sign messages/agreements with your addresses to prove you can receive Bitcoin Confidential sent to them. Be careful not to sign anything vague or random, as phishing attacks may try to trick you into signing your identity over to them. Only sign fully-detailed statements you agree to." true
     ["U berichten/overeenkomsten met uw adressen ondertekenen om te bewijzen dat u ontvangen Bitcoin vertrouwelijk verzonden naar hen. Wees voorzichtig niet te ondertekenen iets vaag of willekeurig, als phishing-aanvallen kunnen proberen om u te verleiden tot het ondertekenen van uw identiteit voor hen. Onderteken alleen volledig gedetailleerde uitspraken waar u mee instemt."];
   Message false [Loc None "+18"]
     "The Bitcoin Confidential address to sign the message with" true
     ["Het vertrouwelijke adres van Bitcoin om het bericht te ondertekenen met"];
   Message false [Loc None "+7"; Loc None "+213"]
     "Choose previously used address" true
     ["Eerder gebruikt adres kiezen"];
   Message false [Loc None "-203"; Loc None "+213"]
     "Alt+A" true
     ["Alt + A"];
   Message false [Loc None "-203"]
     "Paste address from clipboard" true
     ["Adres van Klembord plakken"];
   Message false [Loc None "+10"]
     "Alt+P" true
     ["Alt + P"];
   Message false [Loc None "+12"]
     "Enter the message you want to sign here" true
     ["Voer het bericht in dat u hier wilt ondertekenen"];
   Message false [Loc None "+7"]
     "Signature" true
     ["Handtekening"];
   Message false [Loc None "+27"]
     "Copy the current signature to the system clipboard" true
     ["De huidige handtekening naar het systeemklembord kopiëren"];
   Message false [Loc None "+21"]
     "Sign the message to prove you own this Bitcoin Confidential address" true
     ["Onderteken het bericht om te bewijzen dat u eigenaar bent van deze Bitcoin vertrouwelijk adres"];
   Message false [Loc None "+3"]
     "Sign &amp;Message" true
     ["&amp; Bericht ondertekenen"];
   Message false [Loc None "+14"]
     "Reset all sign message fields" true
     ["Alle velden voorteken berichten opnieuw instellen"];
   Message false [Loc None "+3"; Loc None "+153"]
     "Clear &amp;All" true
     ["Clear &amp; all"];
   Message false [Loc None "-85"]
     "Enter the receiver&apos;s address, message (ensure you copy line breaks, spaces, tabs, etc. exactly) and signature below to verify the message. Be careful not to read more into the signature than what is in the signed message itself, to avoid being tricked by a man-in-the-middle attack. Note that this only proves the signing party receives with the address, it cannot prove sendership of any transaction!" true
     ["Voer het adres van de ontvanger in, bericht (zorg ervoor dat u regeleinden, spaties, tabs, etc. exact kopieert) en handtekening hieronder om het bericht te controleren. Wees voorzichtig om niet meer te lezen in de handtekening dan wat in de ondertekende boodschap zelf, om te voorkomen dat bedrogen door een man-in-the-middle-aanval. Merk op dat dit alleen bewijst dat de ondertekeningspartij met het adres ontvangt, het kan geen sendership van elke transactie bewijzen!"];
   Message false [Loc None "+21"]
     "The Bitcoin Confidential address the message was signed with" true
     ["De Bitcoin vertrouwelijk adres het bericht is ondertekend met"];
   Message false [Loc None "+44"]
     "Verify the message to ensure it was signed with the specified Bitcoin Confidential address" true
     ["Controleer of het bericht om ervoor te zorgen dat het is ondertekend met de opgegeven Bitcoin vertrouwelijk adres"];
   Message false [Loc None "+3"]
     "Verify &amp;Message" true
     ["&amp; Bericht verifiëren"];
   Message false [Loc None "+14"]
     "Reset all verify message fields" true
     ["Alle velden voor het verifiëren van berichten opnieuw instellen"];
   Message false [Loc (Some "../signverifymessagedialog.cpp") "+39"]
     "Click &quot;Sign Message&quot; to generate signature" true
     ["Klik op &quot;Sign Message&quot; om een handtekening te genereren"];
   Message false [Loc None "+78"; Loc None "+78"]
     "The entered address is invalid." true
     ["Het ingevoerde adres is ongeldig."];
   Message false [Loc None "-78"; Loc None "+7"; Loc None "+71"; Loc None "+6"]
     "Please check the address and try again." true
     ["Controleer het adres en probeer het opnieuw."];
   Message false [Loc None "-77"; Loc None "+77"]
     "The entered address does not refer to a key." true
     ["Het ingevoerde adres verwijst niet naar een sleutel."];
   Message false [Loc None "-69"]
     "Wallet unlock was cancelled." true
     ["Het ontgrendelen van de wallet is geannuleerd."];
   Message false [Loc None "+8"]
     "Private key for the entered address is not available." true
     ["De persoonlijke sleutel voor het ingevoerde adres is niet beschikbaar."];
   Message false [Loc None "+12"]
     "Message signing failed." true
     ["Bericht ondertekening is mislukt."]].

Definition nl_SignVerifyMessageDialog_2 : list message :=
  [Message false [Loc None "+5"]
     "Message signed." true
     ["Bericht ondertekend."];
   Message false [Loc None "+55"]
     "The signature could not be decoded." true
     ["De handtekening kan niet worden gedecodeerd."];
   Message false [Loc None "+0"; Loc None "+13"]
     "Please check the signature and try again." true
     ["Controleer de handtekening en probeer het opnieuw."];
   Message false [Loc None "+0"]
     "The signature did not match the message digest." true
     ["De handtekening kwam niet overeen met de bericht Digest."];
   Message false [Loc None "+6"]
     "Message verification failed." true
     ["Berichtverificatie is mislukt."];
   Message false [Loc None "+5"]
     "Message verified." true
     ["Bericht geverifieerd."]].

Definition nl_SplashScreen : list message :=
  [Message false [Loc (Some "../networkstyle.cpp") "+19"]
     "[testnet]" true
     ["testnet"]].

Definition nl_StakingDialog_1 : list message :=
  [Message false [Loc (Some "../forms/stakingdialog.ui") "+14"]
     "Send Coins" true
     ["Verstuur munten"];
   Message false [Loc None "+23"]
     "Status" true
     ["Status"];
   Message false [Loc None "+19"]
     "Addresses" true
     ["Adressen"];
   Message false [Loc None "+16"]
     "Rewards" true
     ["Beloningen"];
   Message false [Loc None "+16"]
     "Convert to Spending" true
     ["Converteren naar uitgaven"];
   Message false [Loc None "+16"]
     "Convert to Staking" true
     ["Converteren naar staking"];
   Message false [Loc None "+16"]
     "Activate ColdStaking" true
     ["Activeer ColdStaking"];
   Message false [Loc None "+79"]
     "Total supply" true
     ["Totaal aanbod"];
   Message false [Loc None "+26"]
     "Current block reward" true
     ["Huidige blok beloning"];
   Message false [Loc None "+26"]
     "Current block height" true
     ["Huidige blok hoogte"];
   Message false [Loc None "+20"]
     "Network difficulty" true
     ["Netwerkproblemen"];
   Message false [Loc None "+26"]
     "Annual staking reward" true
     ["Jaarlijkse staking beloning"];
   Message false [Loc None "+13"]
     "Current staking reward" true
     ["Huidige staking beloning"];
   Message false [Loc None "+26"]
     "Network staking weight" true
     ["Netwerk staking gewicht"];
   Message false [Loc None "+20"]
     "Your estimated annual reward" true
     ["Uw geschatte jaarlijkse beloning"];
   Message false [Loc None "+13"]
     "?" true
     ["?"];
   Message false [Loc None "+80"]
     "Staking" true
     ["Staking"];
   Message false [Loc None "+24"; Loc None "+233"]
     "ENABLED" true
     ["Ingeschakeld"];
   Message false [Loc None "-210"]
     "Pause" true
     ["Pauze"];
   Message false [Loc None "+50"; Loc None "+425"]
     "Estimated reward frequency" true
     ["Geschatte belonings frequentie"];
   Message false [Loc None "-412"]
     "Stakable Funds" true
     ["Stakable fondsen"];
   Message false [Loc None "+20"]
     "Wallet staking weight" true
     ["Portemonnee staking gewicht"];
   Message false [Loc None "+103"]
     "Cold Staking" true
     ["Koude staking"];
   Message false [Loc None "+55"]
     "Remote Stake address" true
     ["Adres externe inzet"];
   Message false [Loc None "+13"]
     "Automated ColdStaking activation" true
     ["Geautomatiseerde ColdStaking activatie"];
   Message false [Loc None "+25"]
     "Enable " true
     ["Inschakelen"];
   Message false [Loc None "+57"]
     "Enable Hot Staking with the STAKING ENABLE button and leaving wallet open.  Enable automated ColdStake with COLDSTAKING ENABLE button and setting a remote stake address. On remote node enable staking with &quot;bitcoinc-cli walletsettings stakingstatus true&quot; and create a &quot;Stake&quot; address on your remote node with &quot;bitcoinc-cli getnewstakeaddress&quot;, or get a &quot;Stake&quot; address from a ColdStaking pool. Funds gradually transition over from hot staking to cold staking while your wallet is open. The time required for the activation depends on the wallet&apos;s staking weight and can take several days with a low weight. Once the activation bar shows complete, wallet can be closed.  Alternatively, use the Activate Coldstaking tab to send an activation transaction.  This will take longer to start staking but wallet does not need to be online." true
     ["Activeer Hot staking met de STAKING ENABLE knop en laat wallet open.  Schakel geautomatiseerde ColdStake in met COLDSTAKING ENABLE knop en het instellen van een externe ring adres. Op extern knooppunt inschakelen staking met &quot;bitcoinc-cli walletsettings stakingstatus True&quot; en maak een &quot;Stake&quot; adres op uw externe knooppunt met &quot;bitcoinc-cli getnewstatusaddress&quot;, of krijg een &quot;Stake&quot; adres uit een ColdStaking pool. Fondsen gaan geleidelijk over van warme staking naar koude staking terwijl uw portemonnee open is. De tijd die nodig is voor de activering is afhankelijk van het staking gewicht van de portemonnee en kan enkele dagen met een laag gewicht duren. Zodra de activerings balk volledig is weergegeven, kan Wallet worden gesloten.  U ook het tabblad Activeer Coldstaking gebruiken om een activerings transactie te verzenden.  Dit duurt langer om te beginnen met de staking, maar Wallet hoeft niet online te zijn."];
   Message false [Loc None "+20"]
     "ColdStake activation progress" true
     ["ColdStake activatie vooruitgang"];
   Message false [Loc None "+77"]
     "Amount activated for ColdStaking" true
     ["Bedrag geactiveerd voor ColdStaking"]].

Definition nl_StakingDialog_2 : list message :=
  [Message false [Loc None "+13"]
     "Estimated weight" true
     ["Geschat gewicht"];
   Message false [Loc None "+106"]
     "Filtered" true
     ["Gefilterde"];
   Message false [Loc None "+15"; Loc None "+88"]
     "Staking rewards" true
     ["Staking beloningen"];
   Message false [Loc None "-75"; Loc None "+48"]
     "Solved blocks" true
     ["Opgeloste blokken"];
   Message false [Loc None "-41"; Loc None "+55"]
     "4000" true
     ["4000"];
   Message false [Loc None "-48"; Loc None "+41"]
     "100000BC" true
     ["100000BC"];
   Message false [Loc None "-22"]
     "Total" true
     ["Totale"];
   Message false [Loc (Some "../stakingdialog.cpp") "+258"; Loc None "+17"]
     "No stakable funds available. Use the &quot;Convert to staking&quot; tab to convert funds for staking." true
     ["Geen stakable fondsen beschikbaar. Gebruik het tabblad &apos; converteren naar staking &apos; om fondsen te converteren voor staking."];
   Message false [Loc None "-15"; Loc None "+18"]
     "No eligible staking outputs available. Staking funds need to have 225 confirmations to be eligible." true
     ["Er zijn geen in aanmerking komende staking uitgangen beschikbaar. Staking fondsen moeten 225 bevestigingen hebben om in aanmerking te komen."];
   Message false [Loc None "-9"]
     "Staking not initialized yet. Wait a moment." true
     ["De staking is nog niet geïnitialiseerd. Wacht even."];
   Message false [Loc None "+3"]
     "Staking is stopped. Press the start button above to enable staking." true
     ["Staking is gestopt. Druk op de knop Start hierboven om staking in te schakelen."];
   Message false [Loc None "+10"]
     "Wallet is locked. To start staking unlock the wallet for staking only. To unlock click the lock icon in the bottom right hand portion of the window." true
     ["Wallet is vergrendeld. Om te beginnen staking ontgrendelen van de portefeuille voor staking alleen. Om te ontgrendelen klikt u op het vergrendelingspictogram rechtsonder in het venster."];
   Message false [Loc None "+4"]
     "Wallet is not fully synced. To start staking make sure the wallet has connections to the network and wait until it catched up with the latest blocks." true
     ["Wallet is niet volledig gesynchroniseerd. Om te beginnen, zorg ervoor dat de portemonnee heeft verbindingen met het netwerk en wacht tot het gevangen met de nieuwste blokken."];
   Message false [Loc None "+3"]
     "Staking is disabled. Set the config paramter &quot;staking=1&quot; in the bitcoinc.conf to enable it." true
     ["Staking is uitgeschakeld. Stel de config parameter &quot;staking = 1&quot; in de bitcoinc. conf om het in te schakelen."];
   Message false [Loc None "+72"]
     "No eligible coldstaking outputs available. Your coldstaking funds need to have 225 confirmations to be eligible." true
     ["Er zijn geen in aanmerking komende coldstaking uitgangen beschikbaar. Uw coldstaking fondsen moeten 225 bevestigingen hebben om in aanmerking te komen."];
   Message false [Loc None "+160"]
     "Set Remote Staking Address" true
     ["Extern uitzet adres instellen"];
   Message false [Loc None "+1"]
     "Enter the remote staking address:" true
     ["Voer het externe staking adres in:"]].

Definition nl_TrafficGraphWidget : list message :=
  [Message false [Loc (Some "../trafficgraphwidget.cpp") "+81"]
     "KB/s" true
     ["KB/s"]].

Definition nl_TransactionDesc_1 : list message :=
  [Message true [Loc (Some "../transactiondesc.cpp") "+39"]
     "Open for %n more block(s)" true
     ["Open voor% n meer blok (len)"; "Open voor% n meer blok (len)"];
   Message false [Loc None "+2"]
     "Open until %1" true
     ["Open tot% 1"];
   Message false [Loc None "+6"]
     "conflicted with a transaction with %1 confirmations" true
     ["conflicteerd met een transactie met% 1 bevestigingen"];
   Message false [Loc None "+2"]
     "0/unconfirmed, %1" true
     ["0/niet bevestigd,% 1"];
   Message false [Loc None "+0"]
     "in memory pool" true
     ["in de geheugengroep"];
   Message false [Loc None "+0"]
     "not in memory pool" true
     ["niet in de geheugengroep"];
   Message false [Loc None "+0"]
     "abandoned" true
     ["Verlaten"];
   Message false [Loc None "+2"]
     "%1/unconfirmed" true
     ["% 1/niet bevestigd"];
   Message false [Loc None "+2"]
     "%1 confirmations" true
     ["% 1 bevestigingen"];
   Message false [Loc None "+29"]
     "Status" true
     ["Status"];
   Message false [Loc None "+3"]
     "Date" true
     ["Datum"];
   Message false [Loc None "+4"; Loc None "+223"]
     "Transaction ID" true
     ["Transactie-ID"];
   Message false [Loc None "-210"; Loc None "+211"]
     "Transaction total size" true
     ["Totale grootte van transactie"];
   Message false [Loc None "-209"]
     "Confirmations" true
     ["Bevestigingen"];
   Message false [Loc None "+4"]
     "Block hash" true
     ["Hash blokkeren"];
   Message false [Loc None "+1"]
     "Block index" true
     ["Index blokkeren"];
   Message false [Loc None "+1"]
     "Block time" true
     ["Blokkeer"];
   Message false [Loc None "+21"]
     "Source" true
     ["Bron"];
   Message false [Loc None "+0"]
     "Generated" true
     ["Gegenereerd"];
   Message false [Loc None "+5"; Loc None "+14"; Loc None "+72"]
     "From" true
     ["Van"];
   Message false [Loc None "-72"]
     "unknown" true
     ["Onbekende"];
   Message false [Loc None "+1"; Loc None "+20"; Loc None "+72"]
     "To" true
     ["Aan"];
   Message false [Loc None "-90"]
     "own address" true
     ["eigen adres"];
   Message false [Loc None "+0"; Loc None "+69"]
     "watch-only" true
     ["alleen horloge"];
   Message false [Loc None "-67"]
     "label" true
     ["Label"];
   Message false [Loc None "+36"; Loc None "+12"; Loc None "+58"; Loc None "+37"; Loc None "+66"]
     "Credit" true
     ["Krediet"];
   Message true [Loc None "-171"]
     "matures in %n more block(s)" true
     ["rijpt in% n meer blok (en)"; "rijpt in% n meer blok (en)"]].

Definition nl_TransactionDesc_2 : list message :=
  [Message false [Loc None "+2"]
     "not accepted" true
     ["niet geaccepteerd"];
   Message false [Loc None "+64"; Loc None "+26"; Loc None "+71"]
     "Debit" true
     ["Debet"];
   Message false [Loc None "-87"]
     "Total debit" true
     ["Totaal debet"];
   Message false [Loc None "+1"]
     "Total credit" true
     ["Totale krediet"];
   Message false [Loc None "+5"]
     "Transaction fee" true
     ["Transactiekosten"];
   Message false [Loc None "+27"]
     "Net amount" true
     ["Nettobedrag"];
   Message false [Loc None "+6"; Loc None "+12"]
     "Message" true
     ["Bericht"];
   Message false [Loc None "-10"]
     "Comment" true
     ["Commentaar"];
   Message false [Loc None "+4"]
     "Transaction virtual size" true
     ["Transactie virtuele grootte"];
   Message false [Loc None "+1"]
     "Output index" true
     ["Output index"];
   Message false [Loc None "+10"]
     "Narration" true
     ["Verhaal"];
   Message false [Loc None "+13"]
     "Merchant" true
     ["Merchant"];
   Message false [Loc None "+7"]
     "Generated coins must mature %1 blocks before they can be spent. When you generated this block, it was broadcast to the network to be added to the block chain. If it fails to get into the chain, its state will change to &quot;not accepted&quot; and it won&apos;t be spendable. This may occasionally happen if another node generates a block within a few seconds of yours." true
     ["Gegenereerde munten moeten volwassen% 1 blokken voordat ze kunnen worden uitgegeven. Toen u dit blok genereerde, werd het uitgezonden naar het netwerk om aan de blockchain te worden toegevoegd. Als het niet lukt om in de keten te komen, zal de staat veranderen in &quot;niet geaccepteerd&quot; en het zal niet afstelbaar zijn. Dit kan soms gebeuren als een ander knooppunt een blok genereert binnen een paar seconden van jou."];
   Message false [Loc None "+8"]
     "Debug information" true
     ["Informatie over foutopsporing"];
   Message false [Loc None "+13"]
     "Transaction" true
     ["Transactie"];
   Message false [Loc None "+3"]
     "Inputs" true
     ["Ingangen"];
   Message false [Loc None "+21"]
     "Amount" true
     ["Bedrag"];
   Message false [Loc None "+1"; Loc None "+1"]
     "true" true
     ["Waar"];
   Message false [Loc None "-1"; Loc None "+1"]
     "false" true
     ["Valse"]].

Definition nl_TransactionDescDialog : list message :=
  [Message false [Loc (Some "../forms/transactiondescdialog.ui") "+26"]
     "This pane shows a detailed description of the transaction" true
     ["Dit deelvenster bevat een gedetailleerde omschrijving van de transactie"];
   Message false [Loc (Some "../transactiondescdialog.cpp") "+17"]
     "Details for %1" true
     ["Details voor% 1"]].

Definition nl_TransactionTableModel_1 : list message :=
  [Message false [Loc (Some "../transactiontablemodel.cpp") "+257"]
     "Date" true
     ["Datum"];
   Message false [Loc None "+2"]
     "Type" true
     ["Type"];
   Message false [Loc None "+2"]
     "Label" true
     ["Label"];
   Message false [Loc None "+3"]
     "In" true
     ["Inch"];
   Message false [Loc None "+0"]
     "Out" true
     ["Bekijk"];
   Message true [Loc None "+73"]
     "Open for %n more block(s)" true
     ["Open voor% n meer blok (len)"; "Open voor% n meer blok (len)"];
   Message false [Loc None "+3"]
     "Open until %1" true
     ["Open tot% 1"];
   Message false [Loc None "+3"]
     "Unconfirmed" true
     ["Onbevestigde"];
   Message false [Loc None "+4"]
     "Orphaned" true
     ["Zwevende"];
   Message false [Loc None "+2"]
     "Abandoned" true
     ["Verlaten"];
   Message false [Loc None "+22"]
     "Confirming (%1 of %2 recommended confirmations)" true
     ["Bevestigen (% 1 van% 2 Aanbevolen bevestigingen)"];
   Message false [Loc None "+3"]
     "Confirmed (%1 confirmations)" true
     ["Bevestigd (% 1 bevestigingen)"];
   Message false [Loc None "+3"]
     "Conflicted" true
     ["Strijd"];
   Message false [Loc None "+3"]
     "Immature (%1 confirmations, will be available after %2)" true
     ["Onvolgroeide (% 1 bevestigingen, zal beschikbaar zijn na% 2)"];
   Message false [Loc None "+3"]
     "Generated but not accepted" true
     ["Gegenereerd maar niet geaccepteerd"];
   Message false [Loc None "+39"]
     "Received with" true
     ["Ontvangen met"];
   Message false [Loc None "+2"]
     "Received from" true
     ["Ontvangen van"];
   Message false [Loc None "+3"]
     "Sent to" true
     ["Verzonden naar"];
   Message false [Loc None "+2"]
     "Payment to yourself" true
     ["Betaling aan uzelf"];
   Message false [Loc None "+2"]
     "Airdrop" true
     ["Airdrop"];
   Message false [Loc None "+2"]
     "Staked" true
     ["Ingezet"];
   Message false [Loc None "+30"]
     "watch-only" true
     ["alleen horloge"];
   Message false [Loc None "+16"]
     "(n/a)" true
     ["(n/a)"];
   Message false [Loc None "+168"]
     "Unlock to show" true
     ["Ontgrendelen om weer te geven"];
   Message false [Loc None "+111"]
     "(no label)" true
     ["(geen label)"];
   Message false [Loc None "+42"; Loc None "+14"]
     "Transaction status. Hover over this field to show number of confirmations." true
     ["Transactiestatus. Beweeg de muisaanwijzer over dit veld om het aantal bevestigingen weer te geven."];
   Message false [Loc None "-12"]
     "Date and time that the reward was received." true
     ["De datum en het tijdstip waarop de beloning is ontvangen."];
   Message false [Loc None "+2"; Loc None "+16"]
     "Whether or not a watch-only address is involved in this transaction." true
     ["Of een alleen-horloge-adres wel of niet bij deze transactie betrokken is."];
   Message false [Loc None "-14"]
     "Address used for the block solving" true
     ["Adres dat wordt gebruikt voor het oplossen van blokken"]].

Definition nl_TransactionTableModel_2 : list message :=
  [Message false [Loc None "+2"]
     "Staking reward." true
     ["Staking beloning."];
   Message false [Loc None "+8"]
     "Date and time that the transaction was received." true
     ["De datum en het tijdstip waarop de transactie is ontvangen."];
   Message false [Loc None "+2"]
     "Type of transaction." true
     ["Type transactie."];
   Message false [Loc None "+4"]
     "User-defined intent/purpose of the transaction." true
     ["Door de gebruiker gedefinieerde intentie/doel van de transactie."];
   Message false [Loc None "+2"]
     "Type of input coin." true
     ["Type invoer munt."];
   Message false [Loc None "+2"]
     "Type of output coin." true
     ["Type uitgang munt."];
   Message false [Loc None "+2"]
     "Amount removed from or added to balance." true
     ["Bedrag verwijderd uit of toegevoegd aan saldo."]].

Definition nl_TransactionView_1 : list message :=
  [Message false [Loc (Some "../transactionview.cpp") "+53"; Loc None "+11"; Loc None "+18"]
     "All" true
     ["Alle"];
   Message false [Loc None "-17"]
     "Today" true
     ["Vandaag"];
   Message false [Loc None "+1"]
     "This week" true
     ["Deze week"];
   Message false [Loc None "+1"]
     "This month" true
     ["Deze maand"];
   Message false [Loc None "+1"]
     "Last month" true
     ["Afgelopen maand"];
   Message false [Loc None "+1"]
     "This year" true
     ["Dit jaar"];
   Message false [Loc None "+1"]
     "Range..." true
     ["Bereik..."];
   Message false [Loc None "+13"]
     "Received with" true
     ["Ontvangen met"];
   Message false [Loc None "+2"]
     "Sent to" true
     ["Verzonden naar"];
   Message false [Loc None "+2"]
     "To yourself" true
     ["Voor jezelf"];
   Message false [Loc None "+1"]
     "Other" true
     ["Andere"];
   Message false [Loc None "+1"]
     "Airdrop" true
     ["Airdrop"];
   Message false [Loc None "+5"]
     "Enter address, transaction id, or label to search" true
     ["Voer adres, transactie-id of label in om te zoeken"];
   Message false [Loc None "+5"]
     "Min amount" true
     ["Min. bedrag"];
   Message false [Loc None "+52"]
     "Abandon transaction" true
     ["Transactie annuleren"];
   Message false [Loc None "+1"]
     "Increase transaction fee" true
     ["Transactiekosten verhogen"];
   Message false [Loc None "+2"]
     "Copy address" true
     ["Adres kopiëren"];
   Message false [Loc None "+1"]
     "Copy label" true
     ["Label kopiëren"];
   Message false [Loc None "+1"]
     "Copy amount" true
     ["Bedrag kopiëren"];
   Message false [Loc None "+1"]
     "Copy transaction ID" true
     ["Transactie-ID kopiëren"];
   Message false [Loc None "+1"]
     "Copy raw transaction" true
     ["Onbewerkte transactie kopiëren"];
   Message false [Loc None "+1"]
     "Copy full transaction details" true
     ["Volledige transactiegegevens kopiëren"];
   Message false [Loc None "+1"]
     "Edit label" true
     ["Label bewerken"];
   Message false [Loc None "+1"]
     "Show transaction details" true
     ["Transactiedetails weergeven"];
   Message false [Loc None "+239"]
     "Export Transaction History" true
     ["Transactiehistorie exporteren"];
   Message false [Loc None "+1"]
     "Comma separated file (*.csv)" true
     ["Door komma&apos;s gescheiden bestand (*. CSV)"];
   Message false [Loc None "+9"]
     "Confirmed" true
     ["Bevestigd"];
   Message false [Loc None "+2"]
     "Watch-only" true
     ["Alleen horloge"];
   Message false [Loc None "+1"]
     "Date" true
     ["Datum"]].

Definition nl_TransactionView_2 : list message :=
  [Message false [Loc None "+2"]
     "Type" true
     ["Type"];
   Message false [Loc None "+2"]
     "Label" true
     ["Label"];
   Message false [Loc None "+1"]
     "Address" true
     ["Adres"];
   Message false [Loc None "+2"]
     "ID" true
     ["Id"];
   Message false [Loc None "+3"]
     "Exporting Failed" true
     ["Exporteren mislukt"];
   Message false [Loc None "+0"]
     "There was an error trying to save the transaction history to %1." true
     ["Er is een fout opgetreden bij het opslaan van de transactiegeschiedenis in% 1."];
   Message false [Loc None "+4"]
     "Exporting Successful" true
     ["Exporteren geslaagd"];
   Message false [Loc None "+0"]
     "The transaction history was successfully saved to %1." true
     ["De transactiegeschiedenis is opgeslagen in% 1."];
   Message false [Loc None "+169"]
     "Range:" true
     ["Bereik:"];
   Message false [Loc None "+8"]
     "to" true
     ["Aan"]].

Definition nl_TxViewDelegate : list message :=
  [Message false [Loc (Some "../overviewpage.cpp") "+95"]
     "Unlock to show" true
     ["Ontgrendelen om weer te geven"]].

Definition nl_UnitDisplayStatusBarControl : list message :=
  [Message false [Loc (Some "../bitcoingui.cpp") "+122"]
     "Unit to show amounts in. Click to select another unit." true
     ["Eenheid waarin bedragen worden weergegeven. Klik om een andere eenheid te selecteren."]].

Definition nl_WalletFrame : list message :=
  [Message false [Loc (Some "../walletframe.cpp") "+29"]
     "No wallet has been loaded." true
     ["Er is geen Wallet geladen."]].

Definition nl_WalletModel : list message :=
  [Message false [Loc (Some "../walletmodel.cpp") "+592"; Loc None "+4"; Loc None "+11"]
     "Wallet Model" true
     ["Wallet model"];
   Message false [Loc None "+65"; Loc None "+39"; Loc None "+6"]
     "Fee bump error" true
     ["Fout bij kosten hobbel"];
   Message false [Loc None "-45"]
     "Increasing transaction fee failed" true
     ["Het verhogen van transactiekosten is mislukt"];
   Message false [Loc None "+6"]
     "Do you want to increase the fee?" true
     ["Wilt u de kosten verhogen?"];
   Message false [Loc None "+4"]
     "Current fee:" true
     ["Huidige kosten:"];
   Message false [Loc None "+4"]
     "Increase:" true
     ["Verhogen:"];
   Message false [Loc None "+4"]
     "New fee:" true
     ["Nieuw tarief:"];
   Message false [Loc None "+4"]
     "Confirm fee bump" true
     ["Kosten bevestigen bump"];
   Message false [Loc None "+17"]
     "Can&apos;t sign transaction." true
     ["Kan de transactie niet ondertekenen."];
   Message false [Loc None "+6"]
     "Could not commit transaction" true
     ["Kan transactie niet doorvoeren"]].

Definition nl_WalletView : list message :=
  [Message false [Loc (Some "../walletview.cpp") "+46"; Loc None "+1"]
     "&amp;Export" true
     ["&amp; Export"];
   Message false [Loc None "+9"; Loc None "+29"]
     "Export the data in the current tab to a file" true
     ["De gegevens in het huidige tabblad exporteren naar een bestand"];
   Message false [Loc None "-19"]
     "Selected amount" true
     ["Geselecteerde bedrag"];
   Message false [Loc None "+290"]
     "Backup Wallet" true
     ["Back-up portemonnee"];
   Message false [Loc None "+1"]
     "Wallet Data (*.dat)" true
     ["Wallet-gegevens (*. dat)"];
   Message false [Loc None "+6"]
     "Backup Failed" true
     ["Back-up is mislukt"];
   Message false [Loc None "+0"]
     "There was an error trying to save the wallet data to %1." true
     ["Er is een fout opgetreden bij het opslaan van de Wallet-gegevens in% 1."];
   Message false [Loc None "+4"]
     "Backup Successful" true
     ["Back-up gelukt"];
   Message false [Loc None "+0"]
     "The wallet data was successfully saved to %1." true
     ["De Wallet-gegevens zijn opgeslagen in% 1."];
   Message false [Loc None "+63"]
     "Cancel" true
     ["Annuleren"]].

Definition nl_bitcoin_core_1 : list message :=
  [Message false [Loc (Some "../bitcoinstrings.cpp") "+12"]
     "Bitcoin Confidential Core" true
     ["Bitcoin vertrouwelijke kern"];
   Message false [Loc None "+1"]
     "The %s developers" true
     ["De ontwikkel ontwikkelaars van% s"];
   Message false [Loc None "+1"]
     " is spendable from this wallet." true
     ["is van deze portefeuille."];
   Message false [Loc None "+1"]
     "-maxtxfee is set very high! Fees this large could be paid on a single transaction." true
     ["-maxtxfee is zeer hoog ingesteld! Vergoedingen die deze grote kan worden betaald op een enkele transactie."];
   Message false [Loc None "+3"]
     "Can&apos;t generate a change-address key. Private keys are disabled for this wallet." true
     ["Kan geen wijzigings adres sleutel genereren. Persoonlijke sleutels zijn uitgeschakeld voor deze wallet."];
   Message false [Loc None "+3"]
     "Cannot obtain a lock on data directory %s. %s is probably already running." true
     ["Kan geen vergrendeling verkrijgen voor gegevensdirectory% s.% s is waarschijnlijk al actief."];
   Message false [Loc None "+2"]
     "Cannot provide specific connections and have addrman find outgoing connections at the same." true
     ["Kan geen specifieke verbindingen bieden en addrman tegelijkertijd uitgaande verbindingen vinden."];
   Message false [Loc None "+3"]
     "Cannot upgrade a non HD split wallet without upgrading to support pre split keypool. Please use -upgradewallet=169900 or -upgradewallet with no version specified." true
     ["Kan een niet-HD-gesplitste Wallet niet upgraden zonder een upgrade uit te voeren ter ondersteuning van pre Split keypool. Gebruik-upgradewallet = 169900 of-upgradewallet zonder versie opgegeven."];
   Message false [Loc None "+4"]
     "Distributed under the MIT software license, see the accompanying file %s or %s" true
     ["Gedistribueerd onder de MIT-softwarelicentie, zie het begeleidende bestand% s of% s"];
   Message false [Loc None "+3"]
     "Error loading %s: You can&apos;t enable HD on an already existing non-HD wallet" true
     ["Fout bij het laden van% s: u HD niet inschakelen op een reeds bestaande niet-HD-portemonnee"];
   Message false [Loc None "+2"]
     "Error reading %s! All keys read correctly, but transaction data or address book entries might be missing or incorrect." true
     ["Fout bij het lezen van% s! Alle sleutels worden correct gelezen, maar de transactiegegevens of adresboekvermeldingen kunnen ontbreken of onjuist zijn."];
   Message false [Loc None "+3"]
     "Error: Listening for incoming connections failed (listen returned error %s)" true
     ["Fout: luisteren naar binnenkomende verbindingen is mislukt (Luister geretourneerde fout% s)"];
   Message false [Loc None "+2"]
     "Fee estimation failed. Fallbackfee is disabled. Wait a few blocks or enable -fallbackfee." true
     ["Raming van bijzondere kosten is mislukt. Fallbackfee is uitgeschakeld. Wacht een paar blokken of Enable-fallbackfee."];
   Message false [Loc None "+3"]
     "Generate a random master key and main account if no master key exists. (default: %s)" true
     ["Genereer een willekeurige hoofdsleutel en hoofdrekening als er geen hoofdsleutel bestaat. (standaard:% s)"];
   Message false [Loc None "+3"]
     "Group outputs by address, selecting all or none, instead of selecting on a per-output basis. Privacy is improved as an address is only used once (unless someone sends to it after spending from it), but may result in slightly higher fees as suboptimal coin selection may result due to the added limitation (default: %u)" true
     ["Groepeer uitvoer per adres, selecteer alle of geen, in plaats van te selecteren op basis van per uitvoer. De privacy is verbeterd omdat een adres slechts één keer wordt gebruikt (tenzij iemand er na de uitgave naar verzendt), maar kan resulteren in iets hogere kosten als een suboptimale munt selectie kan resulteren als gevolg van de toegevoegde beperking (standaard:% u)"];
   Message false [Loc None "+6"]
     "Invalid amount for -maxtxfee=&lt;amount&gt;: &apos;%s&apos; (must be at least the minrelay fee of %s to prevent stuck transactions)" true
     ["Ongeldig bedrag voor-maxtxfee =&lt;amount&gt;: &apos;% s &apos; (moet ten minste de minrelay-kosten van% s zijn om vastgelopen transacties te voorkomen)&lt;/amount&gt;"];
   Message false [Loc None "+3"]
     "Milliseconds between stake attempts. Lowering this param will not result in more stakes. (default: 500)" true
     ["Milliseconden tussen ring pogingen. Het verlagen van deze Param zal niet resulteren in meer inzetten. (standaard: 500)"];
   Message false [Loc None "+3"]
     "Not enough spending outputs available in the blockchain for privacy mixing. There are currently %d. For this transaction required: %d" true
     ["Onvoldoende bestedings output beschikbaar in de blockchain voor privacy Mixing. Er zijn momenteel% d. Voor deze transactie vereist:% d"];
   Message false [Loc None "+3"]
     "Number of threads to start for staking, max 1 per active wallet, will divide wallets evenly between threads (default: 1)" true
     ["Aantal threads om te starten voor staking, Max 1 per actieve portefeuille, verdeelt portefeuilles gelijkmatig tussen threads (standaard: 1)"];
   Message false [Loc None "+3"]
     "On saving a key from the lookahead pool, save all unsaved keys leading up to it too. (default: %s)" true
     ["Bij het opslaan van een sleutel uit de lookahead-pool, sla alle niet-opgeslagen sleutels die er ook voor. (standaard:% s)"];
   Message false [Loc None "+3"]
     "Please check that your computer&apos;s date and time are correct! If your clock is wrong, %s will not work properly." true
     ["Controleer of de datum en tijd van uw computer correct zijn! Als de klok fout is, werkt% s niet goed."];
   Message false [Loc None "+3"]
     "Please contribute if you find %s useful. Visit %s for further information about the software." true
     ["Gelieve bij te dragen als u% s nuttig vindt. Ga naar% s voor meer informatie over de software."];
   Message false [Loc None "+3"]
     "Prune configured below the minimum of %d MiB.  Please use a higher number." true
     ["Prune geconfigureerd onder het minimum van% d MiB.  Gelieve een hoger nummer te gebruiken."];
   Message false [Loc None "+2"]
     "Prune: last wallet synchronisation goes beyond pruned data. You need to -reindex (download the whole blockchain again in case of pruned node)" true
     ["Snoeien: de laatste Wallet synchronisatie gaat verder dan gesnoeid data. Je moet-herindexeren (Download de hele blockchain opnieuw in het geval van gesnoeid node)"];
   Message false [Loc None "+3"]
     "Rescans are not possible in pruned mode. You will need to use -reindex which will download the whole blockchain again." true
     ["Rescans zijn niet mogelijk in de gesnoeid modus. U zult moeten gebruiken-REINDEX die de hele blockchain opnieuw zal downloaden."];
   Message false [Loc None "+3"]
     "The block database contains a block which appears to be from the future. This may be due to your computer&apos;s date and time being set incorrectly. Only rebuild the block database if you are sure that your computer&apos;s date and time are correct" true
     ["De blok database bevat een blok dat lijkt te zijn van de toekomst. Dit kan het gevolg zijn van de datum en tijd waarop de computer onjuist is ingesteld. Alleen de Blokkeer database opnieuw opbouwen als u zeker weet dat de datum en tijd van uw computer correct zijn"];
   Message false [Loc None "+5"]
     "The transaction amount is too small to send after the fee has been deducted" true
     ["Het transactiebedrag is te klein om te verzenden nadat de vergoeding is afgetrokken"];
   Message false [Loc None "+2"]
     "This is a pre-release test build - use at your own risk - do not use for mining or merchant applications" true
     ["Dit is een pre-release test build-gebruik op eigen risico-niet gebruiken voor mijnbouw of Merchant toepassingen"];
   Message false [Loc None "+3"]
     "This is the transaction fee you may discard if change is smaller than dust at this level" true
     ["Dit zijn de transactiekosten die u negeren als de wijziging kleiner is dan stof op dit niveau"]].

Definition nl_bitcoin_core_2 : list message :=
  [Message false [Loc None "+3"]
     "This is the transaction fee you may pay when fee estimates are not available." true
     ["Dit zijn de transactiekosten die u betalen wanneer er geen vergoedings schattingen beschikbaar zijn."];
   Message false [Loc None "+2"]
     "This product includes software developed by the OpenSSL Project for use in the OpenSSL Toolkit %s and cryptographic software written by Eric Young and UPnP software written by Thomas Bernard." true
     ["Dit product bevat software die is ontwikkeld door het OpenSSL project voor gebruik in de OpenSSL Toolkit% s en cryptografische software geschreven door Eric Young en UPnP software geschreven door Thomas Bernard."];
   Message false [Loc None "+4"]
     "Total length of network version string (%i) exceeds maximum length (%i). Reduce the number or size of uacomments." true
     ["Totale lengte van de tekenreeks van de netwerkversie (% i) overschrijdt de maximumlengte (% i). Verminder het aantal of de grootte van de uacommenten."];
   Message false [Loc None "+3"]
     "Unable to replay blocks. You will need to rebuild the database using -reindex-chainstate." true
     ["Kan blokken niet opnieuw afspelen. U moet de database opnieuw opbouwen met behulp van-REINDEX-chainstate."];
   Message false [Loc None "+3"]
     "Unable to rewind the database to a pre-fork state. You will need to redownload the blockchain" true
     ["Kan de database niet terugspoelen naar een pre-Fork-status. U zult de blockchain opnieuw moeten downloaden"];
   Message false [Loc None "+3"]
     "Unsupported argument -socks found. Setting SOCKS version isn&apos;t possible anymore, only SOCKS5 proxies are supported." true
     ["Niet-ondersteund argument-sokken gevonden. Het instellen van SOCKS-versie is niet meer mogelijk, alleen SOCKS5-proxy&apos;s worden ondersteund."];
   Message false [Loc None "+3"]
     "Unsupported argument -whitelistalwaysrelay ignored, use -whitelistrelay and/or -whitelistforcerelay." true
     ["Niet-ondersteund argument-whitelistalwaysrelay genegeerd, gebruik-whitelistrelay en/of-whitelistforcerelay."];
   Message false [Loc None "+3"]
     "Warning: Private keys detected in wallet {%s} with disabled private keys" true
     ["Waarschuwing: persoonlijke sleutels die zijn gedetecteerd in Wallet {% s} met uitgeschakelde persoonlijke sleutels"];
   Message false [Loc None "+2"]
     "Warning: The network does not appear to fully agree! Some miners appear to be experiencing issues." true
     ["Waarschuwing: het netwerk lijkt niet volledig overeen te komen! Sommige mijnwerkers lijken problemen te ondervinden."];
   Message false [Loc None "+3"]
     "Warning: Unknown block versions being mined! It&apos;s possible unknown rules are in effect" true
     ["Waarschuwing: onbekende blok versies worden gedolven! Het is mogelijk dat onbekende regels van kracht zijn"];
   Message false [Loc None "+3"]
     "Warning: Wallet file corrupt, data salvaged! Original %s saved as %s in %s; if your balance or transactions are incorrect you should restore from a backup." true
     ["Waarschuwing: Wallet bestand corrupt, data geborgen! Oorspronkelijk% s opgeslagen als% s in% s; Als uw saldo of transacties onjuist zijn, moet u een back-up terugzetten."];
   Message false [Loc None "+4"]
     "Warning: We do not appear to fully agree with our peers! You may need to upgrade, or other nodes may need to upgrade." true
     ["Waarschuwing: we lijken niet volledig akkoord te gaan met onze collega&apos;s! Mogelijk moet u een upgrade uitvoeren of moeten andere knooppunten een upgrade uitvoeren."];
   Message false [Loc None "+3"]
     "You need to rebuild the database using -reindex to change -timestampindex" true
     ["U moet de database opnieuw opbouwen met-REINDEX to Change-timestamp index"];
   Message false [Loc None "+2"]
     "You need to rebuild the database using -reindex to go back to unpruned mode.  This will redownload the entire blockchain" true
     ["U moet de database opnieuw opbouwen met-REINDEX om terug te gaan naar de modus unpruned.  Dit zal de hele blockchain opnieuw downloaden"];
   Message false [Loc None "+3"]
     "%d of last 100 blocks have unexpected version" true
     ["% d van de laatste 100 blokken hebben onverwachte versie"];
   Message false [Loc None "+1"]
     "%s corrupt, salvage failed" true
     ["% s beschadigd, Berging mislukt"];
   Message false [Loc None "+1"]
     "%s is set very high!" true
     ["% s is zeer hoog ingesteld!"];
   Message false [Loc None "+1"]
     "-maxmempool must be at least %d MB" true
     ["-maxmempool moet ten minste% d MB zijn"];
   Message false [Loc None "+1"]
     "Account chain not found" true
     ["Rekening keten niet gevonden"];
   Message false [Loc None "+1"]
     "Address &apos;%s&apos; is not in the address book." true
     ["Adres% s bevindt zich niet in het adresboek."];
   Message false [Loc None "+1"]
     "Address &apos;%s&apos; is recorded in the address book." true
     ["Adres% s wordt vastgelegd in het adresboek."];
   Message false [Loc None "+1"]
     "Anon output not found in db, %d" true
     ["Anon-uitvoer niet gevonden in dB,% d"];
   Message false [Loc None "+1"]
     "Anon pubkey not found in db, %s" true
     ["Anon Pubkey niet gevonden in dB,% s"];
   Message false [Loc None "+1"]
     "Cannot downgrade wallet" true
     ["Kan Wallet niet downgraden"];
   Message false [Loc None "+1"]
     "Cannot resolve -%s address: &apos;%s&apos;" true
     ["Kan het adres% s niet oplossen:% s"];
   Message false [Loc None "+1"]
     "Cannot write to data directory &apos;%s&apos;; check permissions." true
     ["Kan niet naar gegevensdirectory% s schrijven. Controleer de machtigingen."];
   Message false [Loc None "+1"]
     "Change index out of range" true
     ["Index buiten bereik wijzigen"];
   Message false [Loc None "+1"]
     "Confidential chain set but not found" true
     ["Vertrouwelijke keten set maar niet gevonden"];
   Message false [Loc None "+1"]
     "Copyright (C)" true
     ["Copyright (C)"];
   Message false [Loc None "+1"]
     "Corrupted block database detected" true
     ["Beschadigde blok database gedetecteerd"]].

Definition nl_bitcoin_core_3 : list message :=
  [Message false [Loc None "+1"]
     "Could not convert prefix to number." true
     ["Kan prefix niet converteren naar nummer."];
   Message false [Loc None "+1"]
     "Could not decode scan secret as wif, hex or base58." true
     ["Kan scan geheim niet decoderen als wif, hex of base58."];
   Message false [Loc None "+1"]
     "Could not decode spend secret as hex or base58." true
     ["Kan het uitgaven geheim niet decoderen als hex of base58."];
   Message false [Loc None "+1"]
     "Could not get confidential chain from account." true
     ["Kan geen vertrouwelijke keten van account krijgen."];
   Message false [Loc None "+1"]
     "Could not get scan public key." true
     ["Kan de openbare sleutel scan niet ophalen."];
   Message false [Loc None "+1"]
     "Could not get spend public key." true
     ["Kan de openbare sleutel uitgaven niet ophalen."];
   Message false [Loc None "+1"]
     "Default account not found" true
     ["Standaardaccount niet gevonden"];
   Message false [Loc None "+1"]
     "DeriveNextKey failed" true
     ["DeriveNextKey is mislukt"];
   Message false [Loc None "+1"]
     "Do you want to rebuild the block database now?" true
     ["Wilt u de blokkerings database nu opnieuw opbouwen?"];
   Message false [Loc None "+1"]
     "Done loading" true
     ["Gereed laden"];
   Message false [Loc None "+1"]
     "Duplicate index found, %d" true
     ["Dubbele index gevonden,% d"];
   Message false [Loc None "+1"]
     "Empty wallet required for import." true
     ["Lege Wallet vereist voor import."];
   Message false [Loc None "+1"]
     "Ensure available balance remains above reservebalance. (default: 0)" true
     ["Zorg ervoor dat het beschikbare saldo boven de reservesaldo blijft. (standaard: 0)"];
   Message false [Loc None "+1"]
     "EraseSetting failed." true
     ["EraseSetting is mislukt."];
   Message false [Loc None "+1"]
     "Error creating %s: You can&apos;t create non-HD wallets with this version." true
     ["Fout bij het maken van% s: u geen niet-HD-portefeuilles maken met deze versie."];
   Message false [Loc None "+1"]
     "Error initializing block database" true
     ["Fout bij initialiseren van blok database"];
   Message false [Loc None "+1"]
     "Error initializing wallet database environment %s!" true
     ["Fout bij het initialiseren van Wallet database Environment% s!"];
   Message false [Loc None "+1"]
     "Error loading %s" true
     ["Fout bij het laden van% s"];
   Message false [Loc None "+1"]
     "Error loading %s: Private keys can only be disabled during creation" true
     ["Fout bij het laden van% s: persoonlijke sleutels kunnen alleen worden uitgeschakeld tijdens het maken"];
   Message false [Loc None "+1"]
     "Error loading %s: Wallet corrupted" true
     ["Fout bij het laden van% s: Wallet beschadigd"];
   Message false [Loc None "+1"]
     "Error loading %s: Wallet requires newer version of %s" true
     ["Fout bij het laden van% s: Wallet vereist een nieuwere versie van% s"];
   Message false [Loc None "+1"]
     "Error loading %s: You can&apos;t disable HD on an already existing HD wallet" true
     ["Fout bij het laden van% s: u HD niet uitschakelen op een reeds bestaande HD Wallet"];
   Message false [Loc None "+1"]
     "Error loading block database" true
     ["Fout bij laden van blok database"];
   Message false [Loc None "+1"]
     "Error loading wallet %s. Duplicate -wallet filename specified." true
     ["Fout bij het laden van Wallet% s. duplicate-Wallet bestandsnaam opgegeven."];
   Message false [Loc None "+1"]
     "Error opening block database" true
     ["Fout bij openen van blok database"];
   Message false [Loc None "+1"]
     "Error reading from database, shutting down." true
     ["Fout bij het lezen van de database, afsluiten."];
   Message false [Loc None "+1"]
     "Error upgrading chainstate database" true
     ["Fout bij het upgraden van de chainstate-database"];
   Message false [Loc None "+1"]
     "Error" true
     ["Fout"];
   Message false [Loc None "+1"]
     "Error: A fatal internal error occurred, see debug.log for details" true
     ["Fout: er is een fatale interne fout opgetreden, zie debug. log voor meer informatie"];
   Message false [Loc None "+1"]
     "Error: Disk space is low!" true
     ["Fout: schijfruimte is laag!"]].

Definition nl_bitcoin_core_4 : list message :=
  [Message false [Loc None "+1"]
     "ExtKeyGetIndex failed." true
     ["ExtKeyGetIndex is mislukt."];
   Message false [Loc None "+1"]
     "ExtKeySaveAccountToDB failed" true
     ["ExtKeySaveAccountToDB is mislukt"];
   Message false [Loc None "+1"]
     "Failed to listen on any port. Use -listen=0 if you want this." true
     ["Kan niet luisteren op een poort. Gebruik-listen = 0 als u dit wilt."];
   Message false [Loc None "+1"]
     "Failed to open dongle" true
     ["Kan dongle niet openen"];
   Message false [Loc None "+1"]
     "Failed to rescan the wallet during initialization" true
     ["Kan de portemonnee niet opnieuw scannen tijdens de initialisatie"];
   Message false [Loc None "+1"]
     "Hit nMaxTries limit, %d, %d" true
     ["Maximum aantal treffers voor nMaxTries,% d,% d"];
   Message false [Loc None "+1"]
     "Import failed - AddKeyPubKey failed." true
     ["Importeren mislukt-AddKeyPubKey is mislukt."];
   Message false [Loc None "+1"]
     "Import failed - stealth address exists." true
     ["Import mislukt-Stealth-adres bestaat."];
   Message false [Loc None "+1"]
     "Importing..." true
     ["Importeren..."];
   Message false [Loc None "+1"]
     "Incorrect or no genesis block found. Wrong datadir for network?" true
     ["Onjuist of geen Genesis blok gevonden. De verkeerde datadir voor het netwerk?"];
   Message false [Loc None "+1"]
     "Information" true
     ["Informatie"];
   Message false [Loc None "+1"]
     "Initialization sanity check failed. %s is shutting down." true
     ["Initialisatie van de Sanity-controle is mislukt. % s wordt afgesloten."];
   Message false [Loc None "+1"]
     "Insufficient funds" true
     ["Onvoldoende fondsen"];
   Message false [Loc None "+1"]
     "Insufficient funds." true
     ["Onvoldoende fondsen."];
   Message false [Loc None "+1"]
     "Invalid -onion address or hostname: &apos;%s&apos;" true
     ["Ongeldig-Onion-adres of hostnaam:% s"];
   Message false [Loc None "+1"]
     "Invalid -proxy address or hostname: &apos;%s&apos;" true
     ["Ongeldig-proxyadres of hostnaam:% s"];
   Message false [Loc None "+1"]
     "Invalid BitcoinC address." true
     ["Ongeldig BitcoinC-adres."];
   Message false [Loc None "+1"]
     "Invalid amount for -%s=&lt;amount&gt;: &apos;%s&apos;" true
     ["Ongeldig bedrag voor-% s =&lt;amount&gt;:% s&lt;/amount&gt;"];
   Message false [Loc None "+1"]
     "Invalid amount for -discardfee=&lt;amount&gt;: &apos;%s&apos;" true
     ["Ongeldig bedrag voor-discardfee =&lt;amount&gt;:% s&lt;/amount&gt;"];
   Message false [Loc None "+1"]
     "Invalid amount for -fallbackfee=&lt;amount&gt;: &apos;%s&apos;" true
     ["Ongeldig bedrag voor-fallbackfee =&lt;amount&gt;: &apos;% s &apos;&lt;/amount&gt;"];
   Message false [Loc None "+1"]
     "Invalid amount for -paytxfee=&lt;amount&gt;: &apos;%s&apos; (must be at least %s)" true
     ["Ongeldig bedrag voor-paytxfee =&lt;amount&gt;: &apos;% s &apos; (moet ten minste% s zijn)&lt;/amount&gt;"];
   Message false [Loc None "+1"]
     "Invalid amount for -reservebalance=&lt;amount&gt;" true
     ["Ongeldig bedrag voor-reservesaldo =&lt;amount&gt;&lt;/amount&gt;"];
   Message false [Loc None "+1"]
     "Invalid coldstakingaddress." true
     ["Ongeldige coldstakingaddress."];
   Message false [Loc None "+1"]
     "Invalid input key." true
     ["Ongeldige invoer sleutel."];
   Message false [Loc None "+1"]
     "Invalid key." true
     ["Ongeldige sleutel."];
   Message false [Loc None "+1"]
     "Invalid netmask specified in -whitelist: &apos;%s&apos;" true
     ["Ongeldig netmasker opgegeven in-whitelist:% s"];
   Message false [Loc None "+1"]
     "Invalid rewardaddress." true
     ["Ongeldig rewardaddress."];
   Message false [Loc None "+1"]
     "Keypool ran out, please call keypoolrefill first" true
     ["Keypool liep uit, Bel keypoolrefill eerst"];
   Message false [Loc None "+1"]
     "Loading P2P addresses..." true
     ["P2P-adressen worden geladen..."]].

Definition nl_bitcoin_core_5 : list message :=
  [Message false [Loc None "+1"]
     "Loading address book for %s.
" true
     ["Adresboek wordt geladen voor% s."];
   Message false [Loc None "+1"]
     "Loading banlist..." true
     ["Banlist wordt geladen..."];
   Message false [Loc None "+1"]
     "Loading block index..." true
     ["Index van het laad blok..."];
   Message false [Loc None "+1"]
     "Loading transaction records for %s.
" true
     ["Transactierecords voor% s worden geladen."];
   Message false [Loc None "+1"]
     "Loading wallet..." true
     ["Het laden van de portefeuille..."];
   Message false [Loc None "+1"]
     "Minimum time in seconds between successful stakes (default: 0)" true
     ["Minimale tijd in seconden tussen succesvolle inzetten (standaard: 0)"];
   Message false [Loc None "+1"]
     "Must be json object." true
     ["Moet JSON-object zijn."];
   Message false [Loc None "+1"]
     "Must have account to save keys." true
     ["Moet account hebben om sleutels op te slaan."];
   Message false [Loc None "+1"]
     "Must input a stealthaddress." true
     ["Moet een stealthaddress invoeren."];
   Message false [Loc None "+1"]
     "Need a parameter to change." true
     ["Een parameter nodig om te wijzigen."];
   Message false [Loc None "+1"]
     "Need to specify a port with -whitebind: &apos;%s&apos;" true
     ["U moet een poort opgeven met-whitebind:% s"];
   Message false [Loc None "+1"]
     "New state must be bool." true
     ["Nieuwe status moet BOOL zijn."];
   Message false [Loc None "+1"]
     "NewExtKeyFromAccount failed, %s." true
     ["NewExtKeyFromAccount is mislukt,% s."];
   Message false [Loc None "+1"]
     "NewExtKeyFromAccount failed." true
     ["NewExtKeyFromAccount is mislukt."];
   Message false [Loc None "+1"]
     "NewStealthKeyV2FromAccount failed." true
     ["NewStealthKeyV2FromAccount is mislukt."];
   Message false [Loc None "+1"]
     "No default account set." true
     ["Geen standaardaccountset."];
   Message false [Loc None "+1"]
     "No key for anonoutput, %s" true
     ["Geen sleutel voor anonoutput,% s"];
   Message false [Loc None "+1"]
     "Not anon output %s %d" true
     ["Niet anon output% s% d"];
   Message false [Loc None "+1"]
     "Not enough file descriptors available." true
     ["Er zijn onvoldoende bestands descriptors beschikbaar."];
   Message false [Loc None "+1"]
     "Num inputs per signature out of range" true
     ["Num-ingangen per handtekening buiten bereik"];
   Message false [Loc None "+1"]
     "Number of keys to load into the lookahead pool per chain. (default: %u)" true
     ["Aantal toetsen om in de lookahead--pool per keten te laden. (standaard:% u)"];
   Message false [Loc None "+1"]
     "Only able to send to stealth address." true
     ["Alleen kunnen verzenden naar Stealth adres."];
   Message false [Loc None "+1"]
     "OpIsCoinstake is not active yet." true
     ["OpIsCoinstake is nog niet actief."];
   Message false [Loc None "+1"]
     "Output isn&apos;t standard." true
     ["De uitvoer is niet standaard."];
   Message false [Loc None "+1"]
     "PrepareTransaction for device failed: %s" true
     ["Preparetrans actie voor het apparaat is mislukt:% s"];
   Message false [Loc None "+1"]
     "ProduceSignature from device failed: %s" true
     ["ProduceSignature van apparaat is mislukt:% s"];
   Message false [Loc None "+1"]
     "Prune cannot be configured with a negative value." true
     ["Prune kan niet worden geconfigureerd met een negatieve waarde."];
   Message false [Loc None "+1"]
     "Prune mode is incompatible with -txindex." true
     ["De Prune-modus is niet compatibel met-txindex."];
   Message false [Loc None "+1"]
     "Pruning blockstore..." true
     ["Blockstore snoeien..."]].

Definition nl_bitcoin_core_6 : list message :=
  [Message false [Loc None "+1"]
     "ReadStoredTx failed for %s" true
     ["ReadStoredTx is mislukt voor% s"];
   Message false [Loc None "+1"]
     "Reducing -maxconnections from %d to %d, because of system limitations." true
     ["Verminderen-MaxConnections van% d naar% d, vanwege systeembeperkingen."];
   Message false [Loc None "+1"]
     "Replaying blocks..." true
     ["Herspelen blokken..."];
   Message false [Loc None "+1"]
     "Rescanning..." true
     ["Rescanning..."];
   Message false [Loc None "+1"]
     "Rewinding blocks..." true
     ["Blokken terugspoelen..."];
   Message false [Loc None "+1"]
     "Ring size out of range [%d, %d]" true
     ["Ring grootte buiten bereik [% d,% d]"];
   Message false [Loc None "+1"]
     "Ring size out of range" true
     ["Ring maat buiten bereik"];
   Message false [Loc None "+1"]
     "Scan secret is not 32 bytes." true
     ["Scan Secret is geen 32 bytes."];
   Message false [Loc None "+1"]
     "SetSetting failed." true
     ["SetSetting is mislukt."];
   Message false [Loc None "+1"]
     "Signing transaction failed" true
     ["Ondertekening transactie mislukt"];
   Message false [Loc None "+1"]
     "Specified -walletdir &quot;%s&quot; does not exist" true
     ["Opgegeven-walletdir &quot;% s&quot; bestaat niet"];
   Message false [Loc None "+1"]
     "Specified -walletdir &quot;%s&quot; is a relative path" true
     ["Opgegeven-walletdir &quot;% s&quot; is een relatief pad"];
   Message false [Loc None "+1"]
     "Specified -walletdir &quot;%s&quot; is not a directory" true
     ["Opgegeven-walletdir &quot;% s&quot; is geen Directory"];
   Message false [Loc None "+1"]
     "Specified blocks directory &quot;%s&quot; does not exist." true
     ["De map% s van de opgegeven blokken bestaat niet."];
   Message false [Loc None "+1"]
     "Spend secret is not 32 bytes." true
     ["Besteden geheim is niet 32 bytes."];
   Message false [Loc None "+1"]
     "Spend secret must be different to scan secret." true
     ["Besteden geheim moet anders zijn om geheim te scannen."];
   Message false [Loc None "+1"]
     "Stake your coins to support network and gain reward (default: true)" true
     ["Zet uw munten om netwerk te ondersteunen en verdien beloning (standaard: waar)"];
   Message false [Loc None "+1"]
     "Starting network threads..." true
     ["Netwerk threads starten..."];
   Message false [Loc None "+1"]
     "StealthSecret failed, try again." true
     ["StealthSecret is mislukt, probeer het opnieuw."];
   Message false [Loc None "+1"]
     "The source code is available from %s." true
     ["De broncode is beschikbaar vanaf% s."];
   Message false [Loc None "+1"]
     "The transaction amount is too small to pay the fee" true
     ["Het transactiebedrag is te klein om de kosten te betalen"];
   Message false [Loc None "+1"]
     "The wallet will avoid paying less than the minimum relay fee." true
     ["De portefeuille zal vermijden minder betalen dan de minimale estafette kosten."];
   Message false [Loc None "+1"]
     "This is experimental software." true
     ["Dit is experimentele software."];
   Message false [Loc None "+1"]
     "This is the minimum transaction fee you pay on every transaction." true
     ["Dit is de minimale transactiekosten die u voor elke transactie betaalt."];
   Message false [Loc None "+1"]
     "This is the transaction fee you will pay if you send a transaction." true
     ["Dit zijn de transactiekosten die u betaalt als u een transactie verstuurt."];
   Message false [Loc None "+1"]
     "Transaction amount too small" true
     ["Transactiebedrag te klein"];
   Message false [Loc None "+1"]
     "Transaction amounts must not be negative" true
     ["Transactiebedragen mogen niet negatief zijn"];
   Message false [Loc None "+1"]
     "Transaction amounts must not be negative." true
     ["Transactiebedragen mogen niet negatief zijn."];
   Message false [Loc None "+1"]
     "Transaction fee and change calculation failed" true
     ["Transactiekosten en berekening van wijziging is mislukt"];
   Message false [Loc None "+1"]
     "Transaction fee and change calculation failed." true
     ["Transactiekosten en wijzigings berekening is mislukt."]].

Definition nl_bitcoin_core_7 : list message :=
  [Message false [Loc None "+1"]
     "Transaction has too long of a mempool chain" true
     ["Transactie heeft te lang een mempool keten"];
   Message false [Loc None "+1"]
     "Transaction must have at least one recipient" true
     ["Transactie moet ten minste één geadresseerde hebben"];
   Message false [Loc None "+1"]
     "Transaction must have at least one recipient." true
     ["Transactie moet ten minste één geadresseerde hebben."];
   Message false [Loc None "+1"]
     "Transaction too large for fee policy" true
     ["Transactie te groot voor vergoedingsbeleid"];
   Message false [Loc None "+1"]
     "Transaction too large for fee policy." true
     ["Transactie te groot voor vergoedingsbeleid."];
   Message false [Loc None "+1"]
     "Transaction too large" true
     ["Transactie te groot"];
   Message false [Loc None "+1"]
     "TxnBegin failed." true
     ["TxnBegin is mislukt."];
   Message false [Loc None "+1"]
     "Unable to bind to %s on this computer (bind returned error %s)" true
     ["Kan niet binden aan% s op deze computer (fout% s binden geretourneerd)"];
   Message false [Loc None "+1"]
     "Unable to bind to %s on this computer. %s is probably already running." true
     ["Kan niet binden aan% s op deze computer. % s is waarschijnlijk al actief."];
   Message false [Loc None "+1"]
     "Unable to generate initial keys" true
     ["Kan geen initiële sleutels genereren"];
   Message false [Loc None "+1"]
     "Unable to generate keys" true
     ["Kan geen sleutels genereren"];
   Message false [Loc None "+1"]
     "Unable to start HTTP server. See debug log for details." true
     ["Kan de HTTP-server niet starten. Zie foutopsporingslogboek voor meer informatie."];
   Message false [Loc None "+1"]
     "Unknown account." true
     ["Onbekende account."];
   Message false [Loc None "+1"]
     "Unknown action, must be one of &apos;add/edit/del&apos;." true
     ["Onbekende actie, moet een van &apos; toevoegen/bewerken/del &apos;."];
   Message false [Loc None "+1"]
     "Unknown argument for 256bithash: %s." true
     ["Onbekend argument voor 256bithash:% s."];
   Message false [Loc None "+1"]
     "Unknown argument for add_to_addressbook: %s." true
     ["Onbekend argument voor add_to_addressbook:% s."];
   Message false [Loc None "+1"]
     "Unknown chain." true
     ["Onbekende keten."];
   Message false [Loc None "+1"]
     "Unknown input key version." true
     ["Onbekende invoer sleutelversie."];
   Message false [Loc None "+1"]
     "Unknown network specified in -onlynet: &apos;%s&apos;" true
     ["Onbekend netwerk opgegeven in-onlynet: &apos;% s &apos;"];
   Message false [Loc None "+1"]
     "Unknown setting" true
     ["Onbekende instelling"];
   Message false [Loc None "+1"]
     "Unsupported argument -benchmark ignored, use -debug=bench." true
     ["Niet-ondersteund argument-benchmark genegeerd, Use-debug = Bench."];
   Message false [Loc None "+1"]
     "Unsupported argument -debugnet ignored, use -debug=net." true
     ["Niet-ondersteund argument-debugnet genegeerd, Use-debug = net."];
   Message false [Loc None "+1"]
     "Unsupported argument -debugnet ignored, use -debug=smsg." true
     ["Niet-ondersteund argument-debugnet genegeerd, Use-debug = sMsg."];
   Message false [Loc None "+1"]
     "Unsupported argument -tor found, use -onion." true
     ["Niet-ondersteunde argument-Tor gevonden, use-Onion."];
   Message false [Loc None "+1"]
     "Unsupported logging category %s=%s." true
     ["Niet-ondersteunde logboekregistratie Categorie% s =% s."];
   Message false [Loc None "+1"]
     "Upgrading txindex database" true
     ["De txindex-database upgraden"];
   Message false [Loc None "+1"]
     "User Agent comment (%s) contains unsafe characters." true
     ["De opmerking van de gebruikers agent (% s) bevat onveilige tekens."];
   Message false [Loc None "+1"]
     "Verifying blocks..." true
     ["Blokkeringen controleren..."];
   Message false [Loc None "+1"]
     "Verifying wallet(s)..." true
     ["Het verifiëren van wallet (s)..."];
   Message false [Loc None "+1"]
     "Wallet %s resides outside wallet directory %s" true
     ["Wallet% s bevindt zich buiten Wallet directory% s"]].

Definition nl_bitcoin_core_8 : list message :=
  [Message false [Loc None "+1"]
     "Wallet has no active master key." true
     ["Wallet heeft geen actieve hoofdsleutel."];
   Message false [Loc None "+1"]
     "Wallet must be unlocked." true
     ["Wallet moet worden ontgrendeld."];
   Message false [Loc None "+1"]
     "Wallet must have a default account set." true
     ["Wallet moet een standaardaccountset hebben."];
   Message false [Loc None "+1"]
     "Wallet needed to be rewritten: restart %s to complete" true
     ["Wallet nodig om herschreven te worden: herstart% s om te voltooien"];
   Message false [Loc None "+1"]
     "Warning" true
     ["Waarschuwing"];
   Message false [Loc None "+1"]
     "Warning: unknown new rules activated (versionbit %i)" true
     ["Waarschuwing: onbekende nieuwe regels geactiveerd (versionbit% i)"];
   Message false [Loc None "+1"]
     "You need to rebuild the database using -reindex to change -addressindex" true
     ["U moet de database opnieuw opbouwen met-REINDEX to Change-addressindex"];
   Message false [Loc None "+1"]
     "You need to rebuild the database using -reindex to change -spentindex" true
     ["U moet de database opnieuw opbouwen met-REINDEX to Change-spentindex"];
   Message false [Loc None "+1"]
     "Zapping all transactions from wallet..." true
     ["Alle transacties van wallet te zappen..."];
   Message false [Loc None "+1"]
     "accounts missing." true
     ["accounts ontbreken."];
   Message false [Loc None "+1"]
     "accounts must be an array." true
     ["accounts moeten een matrix zijn."];
   Message false [Loc None "+1"]
     "add_to_addressbook can&apos;t be set without save" true
     ["add_to_addressbook kan niet worden ingesteld zonder opslaan"];
   Message false [Loc None "+1"]
     "address_standard must be a string." true
     ["address_standard moet een tekenreeks zijn."];
   Message false [Loc None "+1"]
     "bad childNo." true
     ["Bad childNo."];
   Message false [Loc None "+1"]
     "bech32 encode failed." true
     ["bech32 coderen is mislukt."];
   Message false [Loc None "+1"]
     "coldstakingaddress can&apos;t be a stealthaddress." true
     ["coldstakingaddress kan geen stealthaddress zijn."];
   Message false [Loc None "+1"]
     "coldstakingaddress must be a string." true
     ["coldstakingaddress moet een tekenreeks zijn."];
   Message false [Loc None "+1"]
     "extkey must have private key to derive hardened keys." true
     ["extkey moet een persoonlijke sleutel hebben om geharde sleutels af te leiden."];
   Message false [Loc None "+1"]
     "foundationdonationpercent must be a number." true
     ["foundationdonationpercent moet een getal zijn."];
   Message false [Loc None "+1"]
     "height must be a number." true
     ["hoogte moet een getal zijn."];
   Message false [Loc None "+1"]
     "loose_extkeys missing." true
     ["loose_extkeys ontbreekt."];
   Message false [Loc None "+1"]
     "loose_extkeys must be an array." true
     ["loose_extkeys moet een array zijn."];
   Message false [Loc None "+1"]
     "num_derives to int failed." true
     ["num_derives naar int is mislukt."];
   Message false [Loc None "+1"]
     "num_derives_h to int failed." true
     ["num_derives_h naar int is mislukt."];
   Message false [Loc None "+1"]
     "num_prefix_bits invalid number." true
     ["num_prefix_bits ongeldig nummer."];
   Message false [Loc None "+1"]
     "num_prefix_bits must be &lt;= 32." true
     ["num_prefix_bits moet&lt;= 32.&gt;&lt;/= 32.&gt;"];
   Message false [Loc None "+1"]
     "rewardaddress must be a string." true
     ["rewardaddress moet een tekenreeks zijn."];
   Message false [Loc None "+1"]
     "secp256k1_generate_mlsag failed %d" true
     ["secp256k1_generate_mlsag mislukt% d"];
   Message false [Loc None "+1"]
     "secp256k1_get_keyimage failed %d" true
     ["secp256k1_get_keyimage mislukt% d"];
   Message false [Loc None "+1"]
     "secp256k1_prepare_mlsag failed %d" true
     ["secp256k1_prepare_mlsag mislukt% d"]].

Definition nl_bitcoin_core_9 : list message :=
  [Message false [Loc None "+1"]
     "stakecombinethreshold can&apos;t be negative." true
     ["stakecombinethreshold kan niet negatief zijn."];
   Message false [Loc None "+1"]
     "stakesplitthreshold can&apos;t be negative." true
     ["de waarde van het teken kan niet negatief zijn."]].

(** The whole document. *)
Definition bitcoin_nl : catalogue :=
  [Context "AddressBookPage" (nl_AddressBookPage_1 ++ nl_AddressBookPage_2);
   Context "AddressTableModel" (nl_AddressTableModel);
   Context "AskPassphraseDialog" (nl_AskPassphraseDialog_1 ++ nl_AskPassphraseDialog_2);
   Context "BanTableModel" (nl_BanTableModel);
   Context "BitcoinGUI" (nl_BitcoinGUI_1 ++ nl_BitcoinGUI_2 ++ nl_BitcoinGUI_3 ++ nl_BitcoinGUI_4);
   Context "CoinControlDialog" (nl_CoinControlDialog_1 ++ nl_CoinControlDialog_2);
   Context "EditAddressDialog" (nl_EditAddressDialog);
   Context "FreespaceChecker" (nl_FreespaceChecker);
   Context "HelpMessageDialog" (nl_HelpMessageDialog);
   Context "Intro" (nl_Intro);
   Context "MnemonicDialog" (nl_MnemonicDialog_1 ++ nl_MnemonicDialog_2);
   Context "ModalOverlay" (nl_ModalOverlay);
   Context "OpenURIDialog" (nl_OpenURIDialog);
   Context "OptionsDialog" (nl_OptionsDialog_1 ++ nl_OptionsDialog_2 ++ nl_OptionsDialog_3);
   Context "OverviewPage" (nl_OverviewPage);
   Context "PaymentServer" (nl_PaymentServer);
   Context "PeerTableModel" (nl_PeerTableModel);
   Context "QObject" (nl_QObject);
   Context "QObject::QObject" (nl_QObject__QObject);
   Context "QRImageWidget" (nl_QRImageWidget);
   Context "RPCConsole" (nl_RPCConsole_1 ++ nl_RPCConsole_2 ++ nl_RPCConsole_3);
   Context "ReceiveCoinsDialog" (nl_ReceiveCoinsDialog);
   Context "ReceiveRequestDialog" (nl_ReceiveRequestDialog);
   Context "RecentRequestsTableModel" (nl_RecentRequestsTableModel);
   Context "SendCoinsDialog" (nl_SendCoinsDialog_1 ++ nl_SendCoinsDialog_2 ++ nl_SendCoinsDialog_3);
   Context "SendCoinsEntry" (nl_SendCoinsEntry_1 ++ nl_SendCoinsEntry_2);
   Context "SendConfirmationDialog" (nl_SendConfirmationDialog);
   Context "ShutdownWindow" (nl_ShutdownWindow);
   Context "SignVerifyMessageDialog" (nl_SignVerifyMessageDialog_1 ++ nl_SignVerifyMessageDialog_2);
   Context "SplashScreen" (nl_SplashScreen);
   Context "StakingDialog" (nl_StakingDialog_1 ++ nl_StakingDialog_2);
   Context "TrafficGraphWidget" (nl_TrafficGraphWidget);
   Context "TransactionDesc" (nl_TransactionDesc_1 ++ nl_TransactionDesc_2);
   Context "TransactionDescDialog" (nl_TransactionDescDialog);
   Context "TransactionTableModel" (nl_TransactionTableModel_1 ++ nl_TransactionTableModel_2);
   Context "TransactionView" (nl_TransactionView_1 ++ nl_TransactionView_2);
   Context "TxViewDelegate" (nl_TxViewDelegate);
   Context "UnitDisplayStatusBarControl" (nl_UnitDisplayStatusBarControl);
   Context "WalletFrame" (nl_WalletFrame);
   Context "WalletModel" (nl_WalletModel);
   Context "WalletView" (nl_WalletView);
   Context "bitcoin-core" (nl_bitcoin_core_1 ++ nl_bitcoin_core_2 ++ nl_bitcoin_core_3 ++ nl_bitcoin_core_4 ++ nl_bitcoin_core_5 ++ nl_bitcoin_core_6 ++ nl_bitcoin_core_7 ++ nl_bitcoin_core_8 ++ nl_bitcoin_core_9)].
