(* ===== verification/CataloguePl.v ===== *)
(** The Polish catalogue, [src/src/qt/locale/bitcoin_pl_PL.ts], context by context; a long
    context is cut into parts.  Texts are as in the file. *)
From S2P Require Import Prelude Locale.
Open Scope txt_scope.
Open Scope list_scope.

Definition pl_AddressBookPage_1 : list message :=
  [Message false [Loc (Some "../forms/addressbookpage.ui") "+27"]
     "Enter address or label to search" true
     ["Wpisz adres lub etykietę do wyszukania"];
   Message false [Loc None "+10"]
     "Right-click to edit address or label" true
     ["Kliknij prawym przyciskiem myszy, aby edytować adres lub etykietę"];
   Message false [Loc None "+30"; Loc None "+17"; Loc None "+17"]
     "Create a new address" true
     ["Utwórz nowy adres"];
   Message false [Loc None "-31"]
     "&amp;New" true
     ["&amp; Nowy"];
   Message false [Loc None "+17"]
     "&amp;New Stake address" true
     ["&amp; Nowy adres stawki"];
   Message false [Loc None "+17"]
     "&amp;New ColdStake address" true
     ["&amp; Nowy adres ColdStake"];
   Message false [Loc None "+14"]
     "Copy the currently selected address to the system clipboard" true
     ["Skopiuj aktualnie wybrany adres do schowka systemowego"];
   Message false [Loc None "+3"]
     "&amp;Copy" true
     ["&amp; Kopiuj"];
   Message false [Loc None "+14"]
     "Delete the currently selected address from the list" true
     ["Usuwanie aktualnie wybranego adresu z listy"];
   Message false [Loc None "+3"]
     "&amp;Delete" true
     ["&amp; Usuwanie"];
   Message false [Loc None "+27"]
     "Export the data in the current tab to a file" true
     ["Eksportowanie danych z bieżącej karty do pliku"];
   Message false [Loc None "+3"]
     "&amp;Export" true
     ["&amp; Eksport"];
   Message false [Loc None "+20"]
     "C&amp;lose" true
     ["C&amp;lose"];
   Message false [Loc (Some "../addressbookpage.cpp") "+84"]
     "These are your Bitcoin Confidential addresses for sending payments. Always check the amount and the receiving address before sending coins." true
     ["Są to Twoje adresy Bitcoin poufne do wysyłania płatności. Zawsze sprawdzaj ilość i adres odbierający przed wysłaniem monet."];
   Message false [Loc None "+8"]
     "Choose the address to send coins to" true
     ["Wybierz adres do wysłania monet do"];
   Message false [Loc None "+4"; Loc None "+22"; Loc None "+28"]
     "C&amp;hoose" true
     ["C&amp;hoose"];
   Message false [Loc None "-44"]
     "Sending addresses" true
     ["Wysyłanie adresów"];
   Message false [Loc None "+12"]
     "Choose the address to receive coins with" true
     ["Wybierz adres do odbierania monet z"];
   Message false [Loc None "+10"]
     "Receiving addresses" true
     ["Adresy odbierające"];
   Message false [Loc None "+1"]
     "These are your Bitcoin Confidential addresses for receiving payments. It is recommended to use a new receiving address for each transaction." true
     ["Są to Twoje poufne adresy Bitcoin do otrzymywania płatności. Zaleca się używanie nowego adresu odbierającego dla każdej transakcji."];
   Message false [Loc None "+13"]
     "Choose the Stake or ColdStake address" true
     ["Wybierz adres palika lub ColdStake"];
   Message false [Loc None "+1"]
     "These are your Bitcoin Confidential Stake and ColdStake addresses." true
     ["Są to Twoje poufne udziały w bitcoinach oraz adresy ColdStake."];
   Message false [Loc None "+16"]
     "Stake and ColdStake addresses" true
     ["Adresy palika i ColdStake"];
   Message false [Loc None "+1"]
     "These addresses cannot be used to receive coins from outside the wallet, such as payments or from exchanges.  Use the Receive tab to generate spending addresses.

Stake addresses, starting with &quot;%1&quot;, are used to convert spending funds into staking funds in the &quot;Convert to Staking&quot; tab. Funds in Stake addresses can be either used for hot staking or the activation of ColdStaking.

ColdStake addresses, starting with &quot;%2&quot;, are used to manually activate staking funds for ColdStaking. There is no need to generate ColdStake addresses when the automated ColdStaking activation from the Staking Status page is used." true
     ["Tych adresów nie można używać do odbierania monet spoza portfela, takich jak płatności lub wymiany.  Karta Odbierz służy do generowania adresów wydatków.

Adresy stawek, rozpoczynające się od &quot;% 1&quot;, służą do przeliczania środków na fundusze w zakładce &quot;Konwertuj na stawki&quot;. fundusze w stawkach mogą być używane do gorących wytyczenia lub aktywacji ColdStaking.

Adresy ColdStake, rozpoczynające się od &quot;% 2&quot;, służą do ręcznego aktywowania funduszy dla ColdStaking. Nie ma potrzeby generowania adresów ColdStake, gdy używana jest automatyczna aktywacja ColdStaking ze strony status Stakingu."];
   Message false [Loc None "+11"]
     "&amp;Copy Address" true
     ["&amp; Kopiuj adres"];
   Message false [Loc None "+1"]
     "Copy &amp;Label" true
     ["Kopiuj etykietę &amp; Label"];
   Message false [Loc None "+1"]
     "&amp;Edit" true
     ["&amp; Edytuj"]].

Definition pl_AddressBookPage_2 : list message :=
  [Message false [Loc None "+186"]
     "Export Address List" true
     ["Eksportuj listę adresów"];
   Message false [Loc None "+1"]
     "Comma separated file (*.csv)" true
     ["Plik rozdzielany przecinkami (*. csv)"];
   Message false [Loc None "+13"]
     "Exporting Failed" true
     ["Eksportowanie nie powiodło się"];
   Message false [Loc None "+1"]
     "There was an error trying to save the address list to %1. Please try again." true
     ["Wystąpił błąd podczas próby zapisania listy adresów na% 1. Proszę spróbować ponownie."]].

Definition pl_AddressTableModel : list message :=
  [Message false [Loc (Some "../addresstablemodel.cpp") "+188"]
     "Label" true
     ["Etykiety"];
   Message false [Loc None "+0"]
     "Address" true
     ["Adres"];
   Message false [Loc None "+36"]
     "(no label)" true
     ["(bez etykiety)"]].

Definition pl_AskPassphraseDialog_1 : list message :=
  [Message false [Loc (Some "../forms/askpassphrasedialog.ui") "+26"]
     "Passphrase Dialog" true
     ["Okno dialogowe Passphrase"];
   Message false [Loc None "+30"]
     "Enter passphrase" true
     ["Wprowadź hasło"];
   Message false [Loc None "+14"]
     "New passphrase" true
     ["Nowe hasło"];
   Message false [Loc None "+14"]
     "Repeat new passphrase" true
     ["Powtórz nowe hasło"];
   Message false [Loc None "+14"]
     "Show password" true
     ["Pokaż hasło"];
   Message false [Loc None "+23"]
     "Unlock For Staking Only" true
     ["Odblokuj tylko do postawienia"];
   Message false [Loc (Some "../askpassphrasedialog.cpp") "+48"]
     "Enter the new passphrase to the wallet.&lt;br/&gt;Please use a passphrase of &lt;b&gt;ten or more random characters&lt;/b&gt;, or &lt;b&gt;eight or more words&lt;/b&gt;." true
     ["Wprowadź nowe hasło do portfela.&lt;br&gt;Należy użyć hasła &lt;b&gt;dziesięciu lub więcej losowych znaków&lt;/b&gt;lub &lt;b&gt;ośmiu lub więcej wyrazów&lt;/b&gt;."];
   Message false [Loc None "+3"]
     "Encrypt wallet" true
     ["Szyfruj portfel"];
   Message false [Loc None "+3"; Loc None "+8"]
     "This operation needs your wallet passphrase to unlock the wallet." true
     ["Ta operacja wymaga podania hasła do portfela w celu odblokowania portfela."];
   Message false [Loc None "-3"; Loc None "+9"]
     "Unlock wallet" true
     ["Odblokuj portfel"];
   Message false [Loc None "+3"]
     "This operation needs your wallet passphrase to decrypt the wallet." true
     ["Ta operacja wymaga podania hasła do portfela w celu odszyfrowania portfela."];
   Message false [Loc None "+5"]
     "Decrypt wallet" true
     ["Odszyfrowywanie portfela"];
   Message false [Loc None "+3"]
     "Change passphrase" true
     ["Zmiana hasła"];
   Message false [Loc None "+1"]
     "Enter the old passphrase and new passphrase to the wallet." true
     ["Wprowadź stare hasło i nowe hasło do portfela."];
   Message false [Loc None "+47"]
     "Confirm wallet encryption" true
     ["Potwierdź szyfrowanie portfela"];
   Message false [Loc None "+1"]
     "Warning: If you encrypt your wallet and lose your passphrase, you will &lt;b&gt;LOSE ALL OF YOUR BITCOIN CONFIDENTIAL&lt;/b&gt;!" true
     ["Ostrzeżenie: Jeśli zaszyfrujesz swój portfel i zgubisz hasło, &lt;b&gt;stracisz wszystkie Twoje tajne Bitcoin&lt;/b&gt;!"];
   Message false [Loc None "+0"]
     "Are you sure you wish to encrypt your wallet?" true
     ["Czy na pewno chcesz zaszyfrować swój portfel?"];
   Message false [Loc None "+9"; Loc None "+59"]
     "Wallet encrypted" true
     ["Portfel szyfrowany"];
   Message false [Loc None "-57"]
     "%1 will close now to finish the encryption process. Remember that encrypting your wallet cannot fully protect your Bitcoin Confidential from being stolen by malware infecting your computer." true
     ["% 1 zamknie się teraz, aby zakończyć proces szyfrowania. Pamiętaj, że szyfrowanie Twojego portfela nie może w pełni ochronić Twojego Bitcoin poufne przed kradzieżą przez złośliwe oprogramowanie zainfekujące Twój komputer."];
   Message false [Loc None "+4"]
     "IMPORTANT: Any previous backups you have made of your wallet file should be replaced with the newly generated, encrypted wallet file. For security reasons, previous backups of the unencrypted wallet file will become useless as soon as you start using the new, encrypted wallet." true
     ["Ważne: wszelkie poprzednie kopie zapasowe dokonane w pliku portfela należy zastąpić nowo wygenerowanym, zaszyfrowanym plikiem portfela. Ze względów bezpieczeństwa, poprzednie kopie zapasowe niezaszyfrowanego pliku portfela staną się bezużyteczne, gdy tylko zaczniesz korzystać z nowego, zaszyfrowanego portfela."];
   Message false [Loc None "+9"; Loc None "+7"; Loc None "+43"; Loc None "+6"]
     "Wallet encryption failed" true
     ["Szyfrowanie portfela nie powiodło się"];
   Message false [Loc None "-55"]
     "Wallet encryption failed due to an internal error. Your wallet was not encrypted." true
     ["Szyfrowanie portfela nie powiodło się z powodu błędu wewnętrznego. Twój portfel nie został zaszyfrowany."];
   Message false [Loc None "+7"; Loc None "+49"]
     "The supplied passphrases do not match." true
     ["Podane hasła nie pasują do siebie."];
   Message false [Loc None "-37"]
     "Wallet unlock failed" true
     ["Odblokowanie portfela nie powiodło się"];
   Message false [Loc None "+1"; Loc None "+11"; Loc None "+19"]
     "The passphrase entered for the wallet decryption was incorrect." true
     ["Hasło wprowadzone do odszyfrowywania portfela było niepoprawne."];
   Message false [Loc None "-20"]
     "Wallet decryption failed" true
     ["Odszyfrowywanie portfela nie powiodło się"];
   Message false [Loc None "+14"]
     "Wallet passphrase was successfully changed." true
     ["Hasło portfela zostało pomyślnie zmienione."]].

Definition pl_AskPassphraseDialog_2 : list message :=
  [Message false [Loc None "+48"; Loc None "+33"]
     "Warning: The Caps Lock key is on!" true
     ["Ostrzeżenie: przycisk Caps Lock jest włączony!"]].

Definition pl_BanTableModel : list message :=
  [Message false [Loc (Some "../bantablemodel.cpp") "+88"]
     "IP/Netmask" true
     ["IP/maska sieci"];
   Message false [Loc None "+0"]
     "Banned Until" true
     ["Zakazane do"]].

Definition pl_BitcoinGUI_1 : list message :=
  [Message false [Loc (Some "../bitcoingui.cpp") "+94"]
     "Wallet" true
     ["Portfel"];
   Message false [Loc None "+2"]
     "Node" true
     ["Węzła"];
   Message false [Loc None "+169"]
     "Overview" true
     ["Przegląd"];
   Message false [Loc None "+1"]
     "Show general overview of wallet" true
     ["Pokaż ogólny przegląd portfela"];
   Message false [Loc None "+7"]
     "Send" true
     ["Wyślij"];
   Message false [Loc None "+1"]
     "Send coins to a Bitcoin Confidential Spending address" true
     ["Wyślij monety do Bitcoin poufne adres wydatków"];
   Message false [Loc None "+11"]
     "Receive" true
     ["Otrzymywać"];
   Message false [Loc None "+1"]
     "Request payments (generates Spending address QR codes and bitcoinc: URIs)" true
     ["Żądaj płatności (generuje adresy kodów QR i bitcoinc: identyfikatory URI)"];
   Message false [Loc None "+11"]
     "Transactions" true
     ["Transakcji"];
   Message false [Loc None "+1"]
     "Browse transaction history" true
     ["Przeglądanie historii transakcji"];
   Message false [Loc None "+7"]
     "Staking" true
     ["Wytyczania"];
   Message false [Loc None "+1"]
     "Setup staking" true
     ["Ustawianie wytykania"];
   Message false [Loc None "+25"]
     "E&amp;xit" true
     ["E&amp;xit"];
   Message false [Loc None "+1"]
     "Quit application" true
     ["Zakończ aplikację"];
   Message false [Loc None "+3"]
     "&amp;About %1" true
     ["&amp; O% 1"];
   Message false [Loc None "+1"]
     "Show information about %1" true
     ["Pokaż informacje o% 1"];
   Message false [Loc None "+3"]
     "About &amp;Qt" true
     ["Informacje o &amp; QT"];
   Message false [Loc None "+1"]
     "Show information about Qt" true
     ["Pokaż informacje o QT"];
   Message false [Loc None "+2"]
     "&amp;Options..." true
     ["&amp; Opcje..."];
   Message false [Loc None "+1"]
     "Modify configuration options for %1" true
     ["Modyfikowanie opcji konfiguracji dla% 1"];
   Message false [Loc None "+3"]
     "&amp;Show / Hide" true
     ["&amp; Pokaż/Ukryj"];
   Message false [Loc None "+1"]
     "Show or hide the main Window" true
     ["Pokazywanie lub ukrywanie okna głównego"];
   Message false [Loc None "+2"]
     "&amp;Encrypt Wallet..." true
     ["&amp; Szyfrowanie portfela..."];
   Message false [Loc None "+1"]
     "Encrypt the private keys that belong to your wallet" true
     ["Szyfrowanie kluczy prywatnych należących do portfela"];
   Message false [Loc None "+2"]
     "&amp;Backup Wallet..." true
     ["&amp; Portfel kopii zapasowych..."];
   Message false [Loc None "+1"]
     "Backup wallet to another location" true
     ["Tworzenie kopii zapasowych portfela w innej lokalizacji"];
   Message false [Loc None "+1"]
     "&amp;Change Passphrase..." true
     ["&amp; Zmiana hasła..."];
   Message false [Loc None "+1"]
     "Change the passphrase used for wallet encryption" true
     ["Zmiana hasła używanego do szyfrowania portfela"];
   Message false [Loc None "+1"]
     "Sign &amp;message..." true
     ["Podpisz wiadomość &amp;..."]].

Definition pl_BitcoinGUI_2 : list message :=
  [Message false [Loc None "+1"]
     "Sign messages with your Bitcoin Confidential addresses to prove you own them" true
     ["Podpisz wiadomości ze swoimi poufnymi adresami Bitcoin, aby udowodnić, że jesteś ich właścicielem"];
   Message false [Loc None "+1"]
     "&amp;Verify message..." true
     ["&amp; Weryfikacja wiadomości..."];
   Message false [Loc None "+1"]
     "Verify messages to ensure they were signed with specified Bitcoin Confidential addresses" true
     ["Sprawdź wiadomości, aby upewnić się, że zostały podpisane z określonymi adresami Bitcoin poufne"];
   Message false [Loc None "+2"]
     "&amp;Debug window" true
     ["&amp; Oknie Debugowanie"];
   Message false [Loc None "+1"]
     "Open debugging and diagnostic console" true
     ["Otwórz konsolę debugowania i diagnostyki"];
   Message false [Loc None "+4"]
     "&amp;Sending addresses..." true
     ["&amp; Wysyłanie adresów..."];
   Message false [Loc None "+1"]
     "Show the list of used sending addresses and labels" true
     ["Wyświetlanie listy używanych adresów wysyłających i etykiet"];
   Message false [Loc None "+1"]
     "&amp;Receiving addresses..." true
     ["&amp; Odbieranie adresów..."];
   Message false [Loc None "+1"]
     "Show the list of used receiving addresses and labels" true
     ["Wyświetlanie listy używanych adresów i etykiet odbiorczy"];
   Message false [Loc None "+2"]
     "Open &amp;URI..." true
     ["Otwórz &amp; URI..."];
   Message false [Loc None "+1"]
     "Open a bitcoinc: URI or payment request" true
     ["Otwórz bitcoinc: identyfikator URI lub żądanie zapłaty"];
   Message false [Loc None "+2"]
     "&amp;Command-line options" true
     ["&amp; Opcje wiersza polecenia"];
   Message false [Loc None "+2"]
     "Show the %1 help message to get a list with possible Bitcoin Confidential command-line options" true
     ["Pokaż komunikat pomocy% 1, aby uzyskać listę możliwych opcji wiersza polecenia poufnych Bitcoin"];
   Message false [Loc None "+2"]
     "&amp;HD Wallet..." true
     ["&amp; Portfel HD..."];
   Message false [Loc None "+45"]
     "&amp;File" true
     ["&amp; Plik"];
   Message false [Loc None "+16"]
     "&amp;Settings" true
     ["&amp; Ustawienia"];
   Message false [Loc None "+9"]
     "&amp;Help" true
     ["&amp; Pomoc"];
   Message false [Loc None "+15"]
     "Tabs toolbar" true
     ["Pasek narzędzi tabulatory"];
   Message false [Loc None "+113"]
     "default wallet" true
     ["domyślny portfel"];
   Message false [Loc None "+88"]
     "%1 client" true
     ["Klient% 1"];
   Message true [Loc None "+189"]
     "%n active connection(s) to Bitcoin Confidential network" true
     ["% n aktywne połączenie (-a) do sieci poufnych Bitcoin"; "% n aktywne połączenie (-a) do sieci poufnych Bitcoin"; "% n aktywne połączenie (-a) do sieci poufnych Bitcoin"; "% n aktywne połączenie (-a) do sieci poufnych Bitcoin"];
   Message false [Loc None "+0"]
     "Click to disable network activity." true
     ["Kliknij, aby wyłączyć aktywność sieciową."];
   Message false [Loc None "+2"]
     "Network activity disabled." true
     ["Aktywność sieciowa wyłączona."];
   Message false [Loc None "+0"]
     "Click to enable network activity again." true
     ["Kliknij, aby ponownie włączyć aktywność sieciową."];
   Message false [Loc None "+28"]
     "Syncing Headers (%1%)..." true
     ["Synchronizacja nagłówków (% 1%)..."];
   Message false [Loc None "+26"]
     "Synchronizing with network..." true
     ["Synchronizacja z siecią..."];
   Message false [Loc None "+5"]
     "Indexing blocks on disk..." true
     ["Indeksowanie bloków na dysku..."];
   Message false [Loc None "+2"]
     "Processing blocks on disk..." true
     ["Przetwarzanie bloków na dysku..."];
   Message false [Loc None "+4"]
     "Reindexing blocks on disk..." true
     ["Ponowne indeksowanie bloków na dysku..."];
   Message false [Loc None "+6"]
     "Connecting to peers..." true
     ["Łączenie z rówieśnikami..."]].

Definition pl_BitcoinGUI_3 : list message :=
  [Message true [Loc None "+9"]
     "Processed %n block(s) of transaction history." true
     ["Przetworzone% n bloków historii transakcji."; "Przetworzone% n bloków historii transakcji."; "Przetworzone% n bloków historii transakcji."; "Przetworzone% n bloków historii transakcji."];
   Message false [Loc None "+5"]
     "Up to date" true
     ["Aktualne"];
   Message false [Loc None "+19"]
     "%1 behind" true
     ["% 1 za"];
   Message false [Loc None "+5"]
     "Catching up..." true
     ["Nadrabianie zaległości..."];
   Message false [Loc None "+19"]
     "Last received block was generated %1 ago." true
     ["Ostatnio odebrano blok został wygenerowany% 1 temu."];
   Message false [Loc None "+2"]
     "Transactions after this will not yet be visible." true
     ["Transakcje po tym nie będą jeszcze widoczne."];
   Message false [Loc None "+13"]
     "Bitcoin Confidential" true
     ["Bitcoin poufne"];
   Message false [Loc None "+14"]
     "Error" true
     ["Błąd"];
   Message false [Loc None "+3"]
     "Warning" true
     ["Ostrzeżenie"];
   Message false [Loc None "+3"]
     "Information" true
     ["Informacji"];
   Message false [Loc None "+116"]
     "Date: %1
" true
     ["Data:% 1"];
   Message false [Loc None "+1"]
     "Amount: %1
" true
     ["Kwota:% 1"];
   Message false [Loc None "+2"]
     "Wallet: %1
" true
     ["Portfel:% 1"];
   Message false [Loc None "+2"]
     "Type: %1
" true
     ["Typ:% 1"];
   Message false [Loc None "+2"]
     "Label: %1
" true
     ["Etykieta:% 1"];
   Message false [Loc None "+2"]
     "Address: %1
" true
     ["Adres:% 1"];
   Message false [Loc None "+1"]
     "Sent transaction" true
     ["Transakcja wysłana"];
   Message false [Loc None "+0"]
     "Incoming transaction" true
     ["Transakcja przychodząca"];
   Message false [Loc None "+52"]
     "HD key generation is &lt;b&gt;enabled&lt;/b&gt;" true
     ["Generowanie kluczy HD jest &lt;b&gt;włączone&lt;/b&gt;"];
   Message false [Loc None "+0"]
     "HD key generation is &lt;b&gt;disabled&lt;/b&gt;" true
     ["Generowanie kluczy HD jest &lt;b&gt;wyłączone&lt;/b&gt;"];
   Message false [Loc None "+13"]
     "Wallet is &lt;b&gt;not encrypted&lt;/b&gt;. Click the opened lock to encrypt it." true
     ["Portfel &lt;b&gt;nie jest szyfrowany&lt;/b&gt;. Kliknij otwartą blokadę, aby ją zaszyfrować."];
   Message false [Loc None "+8"]
     "Wallet is &lt;b&gt;encrypted&lt;/b&gt; and currently &lt;b&gt;unlocked&lt;/b&gt;" true
     ["Portfel jest &lt;b&gt;zaszyfrowany&lt;/b&gt; i obecnie &lt;b&gt;odblokowany&lt;/b&gt;"];
   Message false [Loc None "+8"]
     "Wallet is &lt;b&gt;encrypted&lt;/b&gt; and currently &lt;b&gt;unlocked&lt;/b&gt; for staking only" true
     ["Portfel jest &lt;b&gt;zaszyfrowany&lt;/b&gt; i obecnie &lt;b&gt;odblokowany&lt;/b&gt; tylko dla wytykania"];
   Message false [Loc None "+8"]
     "Wallet is &lt;b&gt;encrypted&lt;/b&gt; and currently &lt;b&gt;locked&lt;/b&gt;" true
     ["Portfel jest &lt;b&gt;zaszyfrowany&lt;/b&gt; i obecnie &lt;b&gt;zablokowany&lt;/b&gt;"];
   Message false [Loc None "+58"]
     "Proxy is &lt;b&gt;enabled&lt;/b&gt;: %1" true
     ["Serwer proxy jest &lt;b&gt;włączony&lt;/b&gt;:% 1"];
   Message false [Loc None "+28"]
     "Tor is &lt;b&gt;enabled&lt;/b&gt;" true
     ["Tor jest &lt;b&gt;włączony&lt;/b&gt;"];
   Message false [Loc None "+3"]
     "Tor is &lt;b&gt;enabled&lt;/b&gt;, but its not the only network used. Use only onlynet=onion." true
     ["Tor jest &lt;b&gt;włączony&lt;/b&gt;, ale nie jest jedyną używaną siecią. Użyj tylko onlynet = cebula."];
   Message false [Loc None "+3"]
     "Tor is &lt;b&gt;disabled&lt;/b&gt;. To enhance your privacy setup consider using tor by setting &lt;b&gt;onlynet=onion&lt;/b&gt; in your &lt;b&gt;bitcoinc.conf&lt;/b&gt;." true
     ["Tor jest &lt;b&gt;wyłączony&lt;/b&gt;. Aby poprawić ustawienia prywatności należy rozważyć użycie Tora przez ustawienie &lt;b&gt;onlynet = cebula&lt;/b&gt; w &lt;b&gt;bitcoinc. conf&lt;/b&gt;."]].

Definition pl_BitcoinGUI_4 : list message :=
  [Message false [Loc (Some "../bitcoin.cpp") "+528"]
     "A fatal error occurred. Bitcoin Confidential can no longer continue safely and will quit." true
     ["Wystąpił błąd krytyczny. Bitcoin poufne nie może już kontynuować bezpiecznie i zostanie zamknięty."]].

Definition pl_CoinControlDialog_1 : list message :=
  [Message false [Loc (Some "../forms/coincontroldialog.ui") "+14"]
     "Coin Selection" true
     ["Wybór monet"];
   Message false [Loc None "+34"]
     "Quantity:" true
     ["Ilość:"];
   Message false [Loc None "+29"]
     "Bytes:" true
     ["Bajtów:"];
   Message false [Loc None "+45"]
     "Amount:" true
     ["Kwota:"];
   Message false [Loc None "+32"]
     "Dust:" true
     ["Pyłu:"];
   Message false [Loc None "+48"]
     "Fee:" true
     ["Opłata:"];
   Message false [Loc None "+45"]
     "After Fee:" true
     ["Po opłacie:"];
   Message false [Loc None "+32"]
     "Change:" true
     ["Zmienić:"];
   Message false [Loc None "+57"]
     "Standard" true
     ["Standardowych"];
   Message false [Loc None "+5"]
     "Anon" true
     ["Anon"];
   Message false [Loc None "+14"]
     "Show all" true
     ["Pokaż wszystko"];
   Message false [Loc None "+13"]
     "(un)select all" true
     ["(un) wybierz wszystkie"];
   Message false [Loc None "+16"]
     "Tree mode" true
     ["Tryb drzewa"];
   Message false [Loc None "+13"]
     "List mode" true
     ["Tryb listy"];
   Message false [Loc None "+74"]
     "Amount" true
     ["Kwota"];
   Message false [Loc None "+8"]
     "Received with label" true
     ["Otrzymane z etykietą"];
   Message false [Loc None "+5"]
     "Received with address" true
     ["Otrzymane z adresem"];
   Message false [Loc None "+5"]
     "Date" true
     ["Data"];
   Message false [Loc None "+5"]
     "Confirmations" true
     ["Potwierdzenia"];
   Message false [Loc None "+3"]
     "Confirmed" true
     ["Potwierdzone"];
   Message false [Loc (Some "../coincontroldialog.cpp") "+73"]
     "Copy address" true
     ["Kopiuj adres"];
   Message false [Loc None "+1"]
     "Copy label" true
     ["Kopiuj etykietę"];
   Message false [Loc None "+1"; Loc None "+26"]
     "Copy amount" true
     ["Kopiuj kwotę"];
   Message false [Loc None "-25"]
     "Copy transaction ID" true
     ["Kopiuj identyfikator transakcji"];
   Message false [Loc None "+1"]
     "Lock unspent" true
     ["Blokada niewykorzystanych"];
   Message false [Loc None "+1"]
     "Unlock unspent" true
     ["Odblokowywanie niewykorzystanych"];
   Message false [Loc None "+22"]
     "Copy quantity" true
     ["Kopiuj ilość"];
   Message false [Loc None "+2"]
     "Copy fee" true
     ["Opłata za kopiowanie"];
   Message false [Loc None "+1"]
     "Copy after fee" true
     ["Kopiuj po opłacie"]].

Definition pl_CoinControlDialog_2 : list message :=
  [Message false [Loc None "+1"]
     "Copy bytes" true
     ["Kopiuj bajty"];
   Message false [Loc None "+1"]
     "Copy dust" true
     ["Kopiowanie pyłu"];
   Message false [Loc None "+1"]
     "Copy change" true
     ["Zmiana kopiowania"];
   Message false [Loc None "+340"]
     "(%1 locked)" true
     ["(% 1 zablokowany)"];
   Message false [Loc None "+161"]
     "yes" true
     ["Tak"];
   Message false [Loc None "+0"]
     "no" true
     ["Nr"];
   Message false [Loc None "+14"]
     "This label turns red if any recipient receives an amount smaller than the current dust threshold." true
     ["Etykieta zmieni kolor na czerwony, jeśli odbiorca otrzyma kwotę mniejszą od obecnego progu pyłu."];
   Message false [Loc None "+5"]
     "Can vary +/- %1 satoshi(s) per input." true
     ["Może się różnić +/-% 1 Satoshi (s) na wejście."];
   Message false [Loc None "+47"]
     "Hide immature" true
     ["Ukryj niedojrzałe"];
   Message false [Loc None "+2"]
     "Hide locked" true
     ["Ukryj zablokowane"];
   Message false [Loc None "+6"]
     "Show immature" true
     ["Pokaż niedojrzałe"];
   Message false [Loc None "+2"]
     "Show locked" true
     ["Pokaż zablokowane"];
   Message false [Loc None "+26"; Loc None "+66"; Loc None "+11"]
     "(no label)" true
     ["(bez etykiety)"];
   Message false [Loc None "-19"]
     "change from %1 (%2)" true
     ["zmiana z% 1 (% 2)"];
   Message false [Loc None "+1"; Loc None "+20"]
     "(change)" true
     ["zmiana"];
   Message false [Loc None "-17"]
     "spending from %1 (%2)" true
     ["wydatki z% 1 (% 2)"]].

Definition pl_EditAddressDialog : list message :=
  [Message false [Loc (Some "../forms/editaddressdialog.ui") "+14"]
     "Edit Address" true
     ["Edytuj adres"];
   Message false [Loc None "+11"]
     "&amp;Label" true
     ["&amp; Etykieta"];
   Message false [Loc None "+10"]
     "The label associated with this address list entry" true
     ["Etykieta skojarzona z tym wpisem listy adresów"];
   Message false [Loc None "+7"]
     "&amp;Address" true
     ["&amp; Adres"];
   Message false [Loc None "+10"]
     "The address associated with this address list entry. This can only be modified for sending addresses." true
     ["Adres skojarzony z tym wpisem listy adresów. To może być modyfikowany tylko do wysyłania adresów."];
   Message false [Loc (Some "../editaddressdialog.cpp") "+29"]
     "New receiving address" true
     ["Nowy adres odbierający"];
   Message false [Loc None "+5"]
     "New sending address" true
     ["Nowy adres nadawcy"];
   Message false [Loc None "+3"]
     "New Stake address" true
     ["Adres nowego palika"];
   Message false [Loc None "+5"]
     "New ColdStake address" true
     ["Nowy adres ColdStake"];
   Message false [Loc None "+5"]
     "Edit receiving address" true
     ["Edytuj adres odbierający"];
   Message false [Loc None "+4"]
     "Edit sending address" true
     ["Edycja adresu wysyłającego"];
   Message false [Loc None "+87"]
     "The entered address &quot;%1&quot; is not a valid Bitcoin Confidential address." true
     ["Wprowadzony adres &quot;% 1&quot; nie jest prawidłowym adresem Bitcoin poufne."];
   Message false [Loc None "+10"]
     "Could not unlock wallet." true
     ["Nie można odblokować portfela."];
   Message false [Loc None "+5"]
     "New key generation failed." true
     ["Nowa generacja kluczy nie powiodła się."];
   Message false [Loc None "+18"]
     "Address &quot;%1&quot; already exists as a receiving address with label &quot;%2&quot; and so cannot be added as a sending address." true
     ["Adres &quot;% 1&quot; już istnieje jako adres odbierający z etykietą &quot;% 2&quot; i nie można go dodać jako adresu wysyłającego."];
   Message false [Loc None "+5"]
     "The entered address &quot;%1&quot; is already in the address book with label &quot;%2&quot;." true
     ["Wprowadzony adres &quot;% 1&quot; jest już w książce adresowej z etykietą &quot;% 2&quot;."]].

Definition pl_FreespaceChecker : list message :=
  [Message false [Loc (Some "../intro.cpp") "+78"]
     "A new data directory will be created." true
     ["Zostanie utworzony nowy katalog danych."];
   Message false [Loc None "+22"]
     "name" true
     ["Nazwa"];
   Message false [Loc None "+2"]
     "Directory already exists. Add %1 if you intend to create a new directory here." true
     ["Katalog już istnieje. Dodaj% 1, jeśli zamierzasz utworzyć nowy katalog tutaj."];
   Message false [Loc None "+3"]
     "Path already exists, and is not a directory." true
     ["Ścieżka już istnieje i nie jest katalogiem."];
   Message false [Loc None "+7"]
     "Cannot create data directory here." true
     ["Nie można utworzyć katalogu danych tutaj."]].

Definition pl_HelpMessageDialog : list message :=
  [Message false [Loc (Some "../utilitydialog.cpp") "+41"]
     "version" true
     ["Wersja"];
   Message false [Loc None "+5"; Loc None "+2"]
     "(%1-bit)" true
     ["(% 1-bitowy)"];
   Message false [Loc None "+5"]
     "About %1" true
     ["Około% 1"];
   Message false [Loc None "+19"]
     "Command-line options" true
     ["Opcje wiersza polecenia"]].

Definition pl_Intro : list message :=
  [Message false [Loc (Some "../forms/intro.ui") "+14"]
     "Welcome" true
     ["Zapraszamy"];
   Message false [Loc None "+9"]
     "Welcome to %1." true
     ["Witamy w% 1."];
   Message false [Loc None "+26"]
     "As this is the first time the program is launched, you can choose where %1 will store its data." true
     ["Ponieważ program jest uruchamiany po raz pierwszy, można wybrać, gdzie% 1 będzie przechowywać swoje dane."];
   Message false [Loc None "+17"]
     "Use the default data directory" true
     ["Użyj domyślnego katalogu danych"];
   Message false [Loc None "+7"]
     "Use a custom data directory:" true
     ["Użyj katalogu danych niestandardowych:"];
   Message false [Loc None "+140"]
     "When you click OK, %1 will begin to download and process the full %4 block chain (%2GB) starting with the earliest transactions in %3 when %4 initially launched." true
     ["Po kliknięciu przycisku OK,% 1 zacznie pobierać i przetwarzać pełny łańcuch bloków% 4 (% 2GB) rozpoczynając od najwcześniejszych transakcji w% 3, gdy początkowo uruchomiono% 4."];
   Message false [Loc None "+10"]
     "This initial synchronisation is very demanding, and may expose hardware problems with your computer that had previously gone unnoticed. Each time you run %1, it will continue downloading where it left off." true
     ["Ta początkowa synchronizacja jest bardzo wymagająca i może narazić komputer na problemy sprzętowe, które wcześniej nie były zauważone. Za każdym razem, gdy uruchamiasz% 1, będzie kontynuować pobieranie, gdzie zostało ono wyłączone."];
   Message false [Loc None "+10"]
     "If you have chosen to limit block chain storage (pruning), the historical data must still be downloaded and processed, but will be deleted afterward to keep your disk usage low." true
     ["Jeśli wybrano ograniczenie składowania łańcucha bloków (przycinanie), dane historyczne muszą być nadal pobierane i przetwarzane, ale zostaną usunięte później, aby utrzymać niski poziom wykorzystania dysku."];
   Message false [Loc (Some "../intro.cpp") "+20"]
     "Bitcoin Confidential" true
     ["Bitcoin poufne"];
   Message false [Loc None "+6"]
     "At least %1 GB of data will be stored in this directory, and it will grow over time." true
     ["Co najmniej% 1 GB danych będzie przechowywanych w tym katalogu i będzie rosnąć wraz z upływem czasu."];
   Message false [Loc None "+5"]
     "Approximately %1 GB of data will be stored in this directory." true
     ["W tym katalogu będzie przechowywany około% 1 GB danych."];
   Message false [Loc None "+8"]
     "%1 will download and store a copy of the Bitcoin Confidential block chain." true
     ["% 1 pobierze i przechowa kopię łańcucha bloków Bitcoin poufne."];
   Message false [Loc None "+2"]
     "The wallet will also be stored in this directory." true
     ["Portfel będzie również przechowywany w tym katalogu."];
   Message false [Loc None "+73"]
     "Error: Specified data directory &quot;%1&quot; cannot be created." true
     ["Błąd: nie można utworzyć określonego katalogu danych &quot;% 1&quot;."];
   Message false [Loc None "+27"]
     "Error" true
     ["Błąd"];
   Message true [Loc None "+9"]
     "%n GB of free space available" true
     ["% n GB wolnego miejsca"; "% n GB wolnego miejsca"; "% n GB wolnego miejsca"; "% n GB wolnego miejsca"];
   Message true [Loc None "+3"]
     "(of %n GB needed)" true
     ["(wymagane% n GB)"; "(wymagane% n GB)"; "(wymagane% n GB)"; "(wymagane% n GB)"]].

Definition pl_MnemonicDialog_1 : list message :=
  [Message false [Loc (Some "../forms/mnemonicdialog.ui") "+14"]
     "HD Wallet Setup" true
     ["Konfiguracja portfela HD"];
   Message false [Loc None "+11"]
     "Generate a mnemonic" true
     ["Wygeneruj mnemoniczny"];
   Message false [Loc None "+10"]
     "Create the wallet" true
     ["Tworzenie portfela"];
   Message false [Loc None "+22"]
     "Write down the Recovery Phrase/Mnemonic below or generate a new one with the desired settings by clicking &quot;NEW MNEMONIC&quot;. Store this phrase in a safe place. The clipboard will be cleared to ensure you have it recorded.  If you are recovering a backup, enter the Recovery Phrase/Mnemonic on the next screen.  Click the &quot;NEXT&quot; button to continue with the wallet creation." true
     ["Zapisz frazę odzyskiwania/mnemoniczny poniżej lub wygeneruj nową z żądanym ustawieniami, klikając &quot;nowy MNEMONICZNY&quot;. Tę frazę należy przechowywać w bezpiecznym miejscu. Schowek zostanie wyczyszczony, aby upewnić się, że został nagrany.  Jeśli odzyskujesz kopię zapasową, wprowadź frazę odzyskiwania/mnemoniczny na następnym ekranie.  Kliknij przycisk &quot;dalej&quot;, aby kontynuować tworzenie portfela."];
   Message false [Loc None "+36"]
     "Bytes of Entropy " true
     ["Bajty entropii"];
   Message false [Loc None "+7"]
     "Language" true
     ["Język"];
   Message false [Loc None "+45"]
     "Entropy is an advanced feature. Your mnemonic may be insecure if this feature is used incorrectly." true
     ["Entropia jest zaawansowaną funkcją. Twój mnemoniczny może być niebezpieczne, jeśli ta funkcja jest używana nieprawidłowo."];
   Message false [Loc None "+22"]
     "Select your language" true
     ["Wybierz swój język"];
   Message false [Loc None "+4"]
     "English" true
     ["Angielski"];
   Message false [Loc None "+5"]
     "French" true
     ["Francuski"];
   Message false [Loc None "+5"]
     "Japanese" true
     ["Japoński"];
   Message false [Loc None "+5"]
     "Spanish" true
     ["Hiszpański"];
   Message false [Loc None "+5"]
     "Chinese_s" true
     ["Chinese_s"];
   Message false [Loc None "+5"]
     "Chinese_t" true
     ["Chinese_t"];
   Message false [Loc None "+39"]
     "New mnemonic" true
     ["Nowy mnemoniczny"];
   Message false [Loc None "+19"]
     "Next" true
     ["Następnego"];
   Message false [Loc None "+19"; Loc None "+198"]
     "Cancel" true
     ["Anuluj"];
   Message false [Loc None "-148"]
     "Recovery Passphrase " true
     ["Hasło odzyskiwania"];
   Message false [Loc None "+7"]
     "Import Chain" true
     ["Łańcuch importu"];
   Message false [Loc None "+13"]
     "Warning" true
     ["Ostrzeżenie"];
   Message false [Loc None "+33"]
     "Enter a passphrase to protect your Recovery Phrase (optional)" true
     ["Wprowadź hasło, aby zabezpieczyć frazę odzyskiwania (opcjonalnie)"];
   Message false [Loc None "+13"]
     "Only needed if you&apos;re importing " true
     ["Wymagane tylko w przypadku importowania"];
   Message false [Loc None "+16"]
     "Please ensure you backup your Recovery Phrase and Passphrase - they are not recoverable!" true
     ["Upewnij się, że kopia zapasowa frazy odzyskiwania i Passphrase-nie są do odzyskania!"];
   Message false [Loc None "+28"]
     "Back" true
     ["Wstecz"];
   Message false [Loc None "+19"; Loc (Some "../mnemonicdialog.cpp") "+145"]
     "Import" true
     ["Importu"];
   Message false [Loc (Some "../mnemonicdialog.cpp") "-102"]
     "Optionally enter a passphrase to protect the Recovery Phrase. (This is not a wallet password.)" true
     ["Opcjonalnie wprowadź hasło, aby chronić frazę odzyskiwania. (Nie jest to hasło portfela)."];
   Message false [Loc None "+2"]
     "Enter the Recovery Phrase/Mnemonic." true
     ["Wprowadź frazę odzyskiwania/mnemoniczny."];
   Message false [Loc None "+26"]
     "Create wallet" true
     ["Stwórz portfel"];
   Message false [Loc None "+16"]
     "Generate a new Recovery Phrase/Mnemonic with the desired settings by clicking &quot;NEW MNEMONIC&quot;." true
     ["Wygeneruj nową frazę odzyskiwania/mnemoniczny z żądanym ustawieniami, klikając &quot;nowy MNEMONICZNY&quot;."]].

Definition pl_MnemonicDialog_2 : list message :=
  [Message false [Loc None "+5"]
     "Import a mnemonic" true
     ["Importowanie pliku mnemonicznego"];
   Message false [Loc None "+28"]
     "Confirm wallet creation cancel" true
     ["Potwierdź anulowanie tworzenia portfela"];
   Message false [Loc None "+1"]
     "Are you sure you want to cancel the wallet creation?" true
     ["Czy na pewno chcesz anulować tworzenie portfela?"];
   Message false [Loc None "+0"]
     "This is only recommended for advanced users to import with custom settings in the debug console or with the RPC interface." true
     ["Jest to zalecane tylko dla zaawansowanych użytkowników do importowania z ustawieniami niestandardowymi w konsoli debugowania lub za pomocą interfejsu RPC."]].

Definition pl_ModalOverlay : list message :=
  [Message false [Loc (Some "../forms/modaloverlay.ui") "+14"]
     "Form" true
     ["Formularza"];
   Message false [Loc None "+122"]
     "Recent transactions may not yet be visible, and therefore your wallet&apos;s balance might be incorrect. This information will be correct once your wallet has finished synchronizing with the Bitcoin Confidential network, as detailed below." true
     ["Ostatnie transakcje mogą nie być jeszcze widoczne, dlatego saldo portfela może być niepoprawne. Informacje te będą poprawne po zakończeniu synchronizacji portfela z siecią Bitcoin poufne, jak opisano poniżej."];
   Message false [Loc None "+19"]
     "Attempting to spend coins that are affected by not-yet-displayed transactions will not be accepted by the network." true
     ["Próba wydania monet, których dotyczy nie jeszcze wyświetlane transakcje, nie zostanie zaakceptowana przez sieć."];
   Message false [Loc None "+63"]
     "Number of blocks left" true
     ["Liczba bloków w lewo"];
   Message false [Loc None "+7"; Loc None "+26"; Loc (Some "../modaloverlay.cpp") "+140"]
     "Unknown..." true
     ["Nieznany..."];
   Message false [Loc None "-13"]
     "Last block time" true
     ["Czas ostatniego bloku"];
   Message false [Loc None "+26"]
     "Progress" true
     ["Postępu"];
   Message false [Loc None "+34"]
     "Progress increase per hour" true
     ["Wzrost postępu na godzinę"];
   Message false [Loc None "+7"; Loc None "+20"]
     "calculating..." true
     ["Obliczania..."];
   Message false [Loc None "-7"]
     "Estimated time left until synced" true
     ["Szacowany czas pozostały do zsynchronizowanego"];
   Message false [Loc None "+40"]
     "Hide" true
     ["Ukryć"];
   Message false [Loc (Some "../modaloverlay.cpp") "-1"]
     "Unknown. Syncing Headers (%1)..." true
     ["Nieznany. Synchronizowanie nagłówków (% 1)..."]].

Definition pl_OpenURIDialog : list message :=
  [Message false [Loc (Some "../forms/openuridialog.ui") "+14"]
     "Open URI" true
     ["Otwórz identyfikator URI"];
   Message false [Loc None "+6"]
     "Open payment request from URI or file" true
     ["Otwórz żądanie zapłaty z identyfikatora URI lub pliku"];
   Message false [Loc None "+9"]
     "URI:" true
     ["Identyfikator uri:"];
   Message false [Loc None "+10"]
     "Select payment request file" true
     ["Wybierz plik żądania płatności"];
   Message false [Loc (Some "../openuridialog.cpp") "+45"]
     "Select payment request file to open" true
     ["Wybierz plik żądania płatności, aby otworzyć"]].

Definition pl_OptionsDialog_1 : list message :=
  [Message false [Loc (Some "../forms/optionsdialog.ui") "+14"]
     "Options" true
     ["Opcje"];
   Message false [Loc None "+14"]
     "&amp;Main" true
     ["&amp; Główny"];
   Message false [Loc None "+13"]
     "W&amp;allet" true
     ["W&amp;allet"];
   Message false [Loc None "+13"]
     "&amp;Network" true
     ["&amp; Sieć"];
   Message false [Loc None "+13"]
     "&amp;Window" true
     ["&amp; Okno"];
   Message false [Loc None "+13"]
     "&amp;Display" true
     ["&amp; Wyświetlanie"];
   Message false [Loc None "+22"]
     "Automatically start %1 after logging in to the system." true
     ["Automatycznie uruchamiam% 1 po zalogowaniu się do systemu."];
   Message false [Loc None "+3"]
     "&amp;Start %1 on system login" true
     ["&amp; Start% 1 przy logowaniu systemowym"];
   Message false [Loc None "+22"]
     "Disables some advanced features but all blocks will still be fully validated. Reverting this setting requires re-downloading the entire blockchain. Actual disk usage may be somewhat higher." true
     ["Wyłącza niektóre zaawansowane funkcje, ale wszystkie bloki nadal będą w pełni zatwierdzone. Przywrócenie tego ustawienia wymaga ponownego pobrania całego łańcucha bloków. Rzeczywiste użycie dysku może być nieco wyższa."];
   Message false [Loc None "+3"]
     "Prune &amp;block storage to" true
     ["Prune &amp; bloku składowania do"];
   Message false [Loc None "+17"]
     "GB" true
     ["Gb"];
   Message false [Loc None "+25"]
     "Reverting this setting requires re-downloading the entire blockchain." true
     ["Przywrócenie tego ustawienia wymaga ponownego pobrania całego łańcucha bloków."];
   Message false [Loc None "+12"]
     "Size of &amp;database cache" true
     ["Rozmiar &amp; cache bazy danych"];
   Message false [Loc None "+23"]
     "MB" true
     ["Mb"];
   Message false [Loc None "+27"]
     "Number of script &amp;verification threads" true
     ["Liczba wątków weryfikacji &amp; skryptu"];
   Message false [Loc None "+19"]
     "(0 = auto, &lt;0 = leave that many cores free)" true
     ["(0 = automatyczny,&lt;0 = leave that many cores free) ==&quot;&quot; leave=&quot;&quot; that=&quot;&quot; many=&quot;&quot; cores=&quot;&quot;&gt;&lt;/0 = leave that many cores free)&gt;"];
   Message false [Loc None "+39"]
     "Expert" true
     ["Ekspertów"];
   Message false [Loc None "+6"]
     "Whether to show coin control features or not." true
     ["Czy pokazać funkcje kontroli monety, czy nie."];
   Message false [Loc None "+3"]
     "Enable coin &amp;control features" true
     ["Włącz funkcje kontroli monet &amp;"];
   Message false [Loc None "+7"]
     "If you disable the spending of unconfirmed change, the change from a transaction cannot be used until that transaction has at least one confirmation. This also affects how your balance is computed." true
     ["Jeśli wyłączysz wydatków niepotwierdzone zmiany, zmiana z transakcji nie można użyć do tej transakcji ma co najmniej jedno potwierdzenie. Wpływa to również na sposób obliczania salda."];
   Message false [Loc None "+3"]
     "&amp;Spend unconfirmed change" true
     ["&amp; Wydać niepotwierdzone zmiany"];
   Message false [Loc None "+7"]
     "Display notification dialog for incoming stake transactions." true
     ["Wyświetl okno dialogowe powiadomień dla przychodzących transakcji palika."];
   Message false [Loc None "+3"]
     "&amp;Show incoming stake notifications" true
     ["&amp; Pokaż przychodzące powiadomienia o paliku"];
   Message false [Loc None "+27"]
     "Automatically open the Bitcoin Confidential client port on the router. This only works when your router supports UPnP and it is enabled." true
     ["Automatycznie Otwórz port klienta poufne Bitcoin w routerze. To działa tylko wtedy, gdy router obsługuje UPnP i jest włączony."];
   Message false [Loc None "+3"]
     "Map port using &amp;UPnP" true
     ["Mapowanie portu przy użyciu &amp; UPnP"];
   Message false [Loc None "+7"]
     "Accept connections from outside." true
     ["Akceptuj połączenia z zewnątrz."];
   Message false [Loc None "+3"]
     "Allow incomin&amp;g connections" true
     ["Zezwalaj na połączenia incomin&amp;g Connections"];
   Message false [Loc None "+7"]
     "Connect to the Bitcoin Confidential network through a SOCKS5 proxy." true
     ["Połącz się z siecią Bitcoin poufne za pośrednictwem serwera proxy SOCKS5."];
   Message false [Loc None "+3"]
     "&amp;Connect through SOCKS5 proxy (default proxy):" true
     ["&amp; Połączyć się przez SOCKS5 proxy (domyślny serwer proxy):"]].

Definition pl_OptionsDialog_2 : list message :=
  [Message false [Loc None "+9"; Loc None "+193"]
     "Proxy &amp;IP:" true
     ["Proxy &amp; IP:"];
   Message false [Loc None "-168"; Loc None "+193"]
     "IP address of the proxy (e.g. IPv4: 127.0.0.1 / IPv6: ::1)" true
     ["Adres IP serwera proxy (np. IPv4:127.0.0.1/IPv6::: 1)"];
   Message false [Loc None "-183"; Loc None "+193"]
     "&amp;Port:" true
     ["Port"];
   Message false [Loc None "-168"; Loc None "+193"]
     "Port of the proxy (e.g. 9050)" true
     ["Port serwera proxy (np. 9050)"];
   Message false [Loc None "-166"]
     "Used for reaching peers via:" true
     ["Służy do docierania do rówieśników poprzez:"];
   Message false [Loc None "+13"; Loc None "+23"; Loc None "+23"]
     "Shows if the supplied default SOCKS5 proxy is used to reach peers via this network type." true
     ["Pokazuje, czy dostarczony domyślny serwer proxy SOCKS5 jest używany do dotarcia do elementów równorzędnych za pośrednictwem tego typu sieci."];
   Message false [Loc None "-36"]
     "IPv4" true
     ["IPv4"];
   Message false [Loc None "+23"]
     "IPv6" true
     ["IPv6"];
   Message false [Loc None "+23"]
     "Tor" true
     ["Tor"];
   Message false [Loc None "+25"]
     "Connect to the Bitcoin Confidential network through a separate SOCKS5 proxy for Tor hidden services." true
     ["Połącz się z siecią Bitcoin poufne za pośrednictwem oddzielnego serwera proxy SOCKS5 dla usług ukrytych Tora."];
   Message false [Loc None "+3"]
     "Use separate SOCKS&amp;5 proxy to reach peers via Tor hidden services:" true
     ["Użyj oddzielnych SOCKS &amp; 5 proxy, aby dotrzeć do rówieśników za pośrednictwem usług ukrytych Tora:"];
   Message false [Loc None "+111"]
     "Hide the icon from the system tray." true
     ["Ukryj ikonę na pasku zadań."];
   Message false [Loc None "+3"]
     "&amp;Hide tray icon" true
     ["&amp; Ukryj ikonę zasobnika"];
   Message false [Loc None "+7"]
     "Show only a tray icon after minimizing the window." true
     ["Po zminimalizowaniu okna Pokaż tylko ikonę zasobnika."];
   Message false [Loc None "+3"]
     "&amp;Minimize to the tray instead of the taskbar" true
     ["&amp; Zminimalizowanie do zasobnika zamiast paska zadań"];
   Message false [Loc None "+7"]
     "Minimize instead of exit the application when the window is closed. When this option is enabled, the application will be closed only after selecting Exit in the menu." true
     ["Minimalizuj zamiast zamykania aplikacji po zamknięciu okna. Gdy ta opcja jest włączona, aplikacja zostanie ZAMKNIĘTA tylko po wybraniu Zakończ w menu."];
   Message false [Loc None "+3"]
     "M&amp;inimize on close" true
     ["M&amp;inimize na Zamknij"];
   Message false [Loc None "+26"]
     "User Interface &amp;language:" true
     ["Interfejs użytkownika &amp; język:"];
   Message false [Loc None "+22"]
     "The user interface language can be set here. This setting will take effect after restarting %1." true
     ["W tym miejscu można ustawić język interfejsu użytkownika. To ustawienie zostanie wprowadzone po ponownym uruchomieniu% 1."];
   Message false [Loc None "+11"]
     "&amp;Unit to show amounts in:" true
     ["&amp; Jednostka do pokazywania kwot w:"];
   Message false [Loc None "+22"]
     "Choose the default subdivision unit to show in the interface and when sending coins." true
     ["Wybierz domyślną jednostkę podziału, aby pokazać w interfejsie i podczas wysyłania monet."];
   Message false [Loc None "+11"; Loc None "+22"]
     "Third party URLs (e.g. a block explorer) that appear in the transactions tab as context menu items. %s in the URL is replaced by transaction hash. Multiple URLs are separated by vertical bar |." true
     ["Adresy URL stron trzecich (np. Eksplorator bloków), które pojawiają się na karcie transakcje jako elementy menu kontekstowego. % s w adresie URL jest zastępowany przez skrót transakcji. Wiele adresów URL jest rozdzielanych pionowym paskiem |."];
   Message false [Loc None "-19"]
     "&amp;Third party transaction URLs" true
     ["&amp; Adresy URL transakcji stron trzecich"];
   Message false [Loc None "+50"]
     "Active command-line options that override above options:" true
     ["Aktywne opcje wiersza polecenia, które zastępują powyższe opcje:"];
   Message false [Loc None "+45"]
     "Open the %1 configuration file from the working directory." true
     ["Otwórz plik konfiguracyjny% 1 z katalogu roboczego."];
   Message false [Loc None "+3"]
     "Open Configuration File" true
     ["Otwórz plik konfiguracyjny"];
   Message false [Loc None "+10"]
     "Reset all client options to default." true
     ["Zresetuj wszystkie opcje klienta do domyślnego."];
   Message false [Loc None "+3"]
     "&amp;Reset Options" true
     ["&amp; Resetowanie opcji"]].

Definition pl_OptionsDialog_3 : list message :=
  [Message false [Loc None "+80"]
     "&amp;OK" true
     ["&amp; OK"];
   Message false [Loc None "+13"]
     "&amp;Cancel" true
     ["&amp; Anuluj"];
   Message false [Loc (Some "../optionsdialog.cpp") "+109"]
     "default" true
     ["Domyślny"];
   Message false [Loc None "+56"]
     "none" true
     ["Brak"];
   Message false [Loc None "+82"]
     "Confirm options reset" true
     ["Potwierdź Reset opcji"];
   Message false [Loc None "+1"; Loc None "+60"]
     "Client restart required to activate changes." true
     ["Ponowne uruchomienie klienta wymagane do aktywowania zmian."];
   Message false [Loc None "-60"]
     "Client will be shut down. Do you want to proceed?" true
     ["Klient zostanie zamknięty. Czy chcesz kontynuować?"];
   Message false [Loc None "+15"]
     "Configuration options" true
     ["Opcje konfiguracji"];
   Message false [Loc None "+1"]
     "The configuration file is used to specify advanced user options which override GUI settings. Additionally, any command-line options will override this configuration file." true
     ["Plik konfiguracyjny służy do określania zaawansowanych opcji użytkownika, które zastępują ustawienia GUI. Ponadto wszystkie opcje wiersza polecenia zastąpią ten plik konfiguracji."];
   Message false [Loc None "+5"]
     "Error" true
     ["Błąd"];
   Message false [Loc None "+0"]
     "The configuration file could not be opened." true
     ["Nie można otworzyć pliku konfiguracyjnego."];
   Message false [Loc None "+43"]
     "This change would require a client restart." true
     ["Ta zmiana wymaga ponownego uruchomienia klienta."];
   Message false [Loc None "+28"]
     "The supplied proxy address is invalid." true
     ["Podany adres serwera proxy jest nieprawidłowy."]].

Definition pl_OverviewPage : list message :=
  [Message false [Loc (Some "../forms/overviewpage.ui") "+14"]
     "Form" true
     ["Formularza"];
   Message false [Loc None "+43"]
     "Bitcoin Confidential Core" true
     ["Bitcoin poufne rdzeń"];
   Message false [Loc None "+38"; Loc None "+114"; Loc None "+210"]
     "Pending" true
     ["Oczekujące"];
   Message false [Loc None "-308"]
     "Spending" true
     ["Wydatków"];
   Message false [Loc None "+108"]
     "Watch-only" true
     ["Tylko do oglądania"];
   Message false [Loc None "+73"; Loc None "+191"]
     "Available" true
     ["Dostępne"];
   Message false [Loc None "-181"]
     "Spendable" true
     ["Reserve"];
   Message false [Loc None "+41"]
     "Staking" true
     ["Wytyczania"];
   Message false [Loc None "+130"]
     "Immature" true
     ["Niedojrzałe"];
   Message false [Loc None "+86"]
     "Total" true
     ["Łącznych"];
   Message false [Loc None "+90"]
     "Recent transactions" true
     ["Ostatnie transakcje"];
   Message false [Loc None "+19"]
     "The displayed information may be out of date. Your wallet automatically synchronizes with the Bitcoin Confidential network after a connection is established, but this process has not completed yet." true
     ["Wyświetlane informacje mogą być nieaktualne. Twój portfel automatycznie synchronizuje się z siecią Bitcoin poufne po nawiązaniu połączenia, ale proces ten nie został jeszcze zakończony."]].

Definition pl_PaymentServer : list message :=
  [Message false [Loc (Some "../paymentserver.cpp") "+317"; Loc None "+215"; Loc None "+42"; Loc None "+110"; Loc None "+14"; Loc None "+18"]
     "Payment request error" true
     ["Błąd żądania płatności"];
   Message false [Loc None "-398"]
     "Cannot start bitcoinc: click-to-pay handler" true
     ["Nie można uruchomić bitcoinc: kliknij, aby zapłacić obsługi"];
   Message false [Loc None "+82"; Loc None "+21"; Loc None "+13"; Loc None "+7"]
     "URI handling" true
     ["Obsługa identyfikatorów URI"];
   Message false [Loc None "-41"]
     "&apos;bitcoin://&apos; is not a valid URI. Use &apos;bitcoin:&apos; instead." true
     ["&quot;bitcoin://&quot; nie jest prawidłowym identyfikatorem URI. Zamiast tego użyj &quot;Bitcoin:&quot;."];
   Message false [Loc None "+22"]
     "Payment request fetch URL is invalid: %1" true
     ["Adres URL pobierania żądania płatności jest nieprawidłowy:% 1"];
   Message false [Loc None "+12"]
     "Invalid payment address %1" true
     ["Nieprawidłowy adres płatności% 1"];
   Message false [Loc None "+8"]
     "URI cannot be parsed! This can be caused by an invalid Bitcoin Confidential address or malformed URI parameters." true
     ["Nie można przeanalizować identyfikatora URI! Może to być spowodowane nieprawidłowym adresem Bitcoin poufne lub nieprawidłowo utworzonym parametrami URI."];
   Message false [Loc None "+13"]
     "Payment request file handling" true
     ["Obsługa plików żądań płatności"];
   Message false [Loc None "+1"]
     "Payment request file cannot be read! This can be caused by an invalid payment request file." true
     ["Nie można odczytać pliku żądania płatności! Przyczyną może być nieprawidłowy plik żądania płatności."];
   Message false [Loc None "+61"; Loc None "+9"; Loc None "+31"; Loc None "+10"; Loc None "+17"; Loc None "+85"]
     "Payment request rejected" true
     ["Żądanie zapłaty odrzucone"];
   Message false [Loc None "-152"]
     "Payment request network doesn&apos;t match client network." true
     ["Sieć żądań płatności nie odpowiada sieci klienta."];
   Message false [Loc None "+9"]
     "Payment request expired." true
     ["Żądanie zapłaty wygasło."];
   Message false [Loc None "+6"]
     "Payment request is not initialized." true
     ["Żądanie zapłaty nie jest inicjowane."];
   Message false [Loc None "+26"]
     "Unverified payment requests to custom payment scripts are unsupported." true
     ["Niezweryfikowane żądania płatności do niestandardowych skryptów płatności nie są obsługiwane."];
   Message false [Loc None "+9"; Loc None "+17"]
     "Invalid payment request." true
     ["Nieprawidłowe żądanie zapłaty."];
   Message false [Loc None "-10"]
     "Requested payment amount of %1 is too small (considered dust)." true
     ["Żądana kwota płatności% 1 jest za mała (za kurz)."];
   Message false [Loc None "+65"]
     "Refund from %1" true
     ["Zwrot z% 1"];
   Message false [Loc None "+31"]
     "Payment request %1 is too large (%2 bytes, allowed %3 bytes)." true
     ["Żądanie płatności% 1 jest zbyt duże (% 2 bajty, dozwolone% 3 bajty)."];
   Message false [Loc None "+9"]
     "Error communicating with %1: %2" true
     ["Błąd podczas komunikowania się z% 1:% 2"];
   Message false [Loc None "+20"]
     "Payment request cannot be parsed!" true
     ["Nie można przeanalizować żądania zapłaty!"];
   Message false [Loc None "+13"]
     "Bad response from server %1" true
     ["Zła odpowiedź z serwera% 1"];
   Message false [Loc None "+22"]
     "Network request error" true
     ["Błąd żądania sieci"];
   Message false [Loc None "+11"]
     "Payment acknowledged" true
     ["Płatność potwierdzona"]].

Definition pl_PeerTableModel : list message :=
  [Message false [Loc (Some "../peertablemodel.cpp") "+109"]
     "NodeId" true
     ["NodeId"];
   Message false [Loc None "+0"]
     "Node/Service" true
     ["Węzeł/Usługa"];
   Message false [Loc None "+0"]
     "Ping" true
     ["Ping"];
   Message false [Loc None "+0"]
     "Sent" true
     ["Wysłane"];
   Message false [Loc None "+0"]
     "Received" true
     ["Otrzymał"];
   Message false [Loc None "+0"]
     "User Agent" true
     ["Agent użytkownika"]].

Definition pl_QObject : list message :=
  [Message false [Loc (Some "../bitcoinunits.cpp") "+196"]
     "Amount" true
     ["Kwota"];
   Message false [Loc (Some "../guiutil.cpp") "+96"]
     "Enter Spending address" true
     ["Wprowadź adres wydatków"];
   Message false [Loc None "+12"]
     "Enter ColdStake address" true
     ["Wpisz adres ColdStake"];
   Message false [Loc None "+2"]
     "Enter Stake address of remote node" true
     ["Wprowadź adres stawki zdalnego węzła"];
   Message false [Loc None "+2"]
     "Enter Stake address" true
     ["Wpisz adres stawki"];
   Message false [Loc None "+687"]
     "%1 d" true
     ["% 1 d"];
   Message false [Loc None "+2"]
     "%1 h" true
     ["% 1 godz."];
   Message false [Loc None "+2"]
     "%1 m" true
     ["% 1 m"];
   Message false [Loc None "+2"; Loc None "+53"]
     "%1 s" true
     ["% 1 s"];
   Message false [Loc None "-10"]
     "None" true
     ["Brak"];
   Message false [Loc None "+5"]
     "N/A" true
     ["N/a"];
   Message false [Loc None "+0"]
     "%1 ms" true
     ["% 1 ms"];
   Message true [Loc None "+18"]
     "%n second(s)" true
     ["% n sekunda (s)"; "% n sekunda (s)"; "% n sekunda (s)"; "% n sekunda (s)"];
   Message true [Loc None "+4"]
     "%n minute(s)" true
     ["% n minuta (y)"; "% n minuta (y)"; "% n minuta (y)"; "% n minuta (y)"];
   Message true [Loc None "+4"]
     "%n hour(s)" true
     ["% n godzina (y)"; "% n godzina (y)"; "% n godzina (y)"; "% n godzina (y)"];
   Message true [Loc None "+4"]
     "%n day(s)" true
     ["% n dni (y)"; "% n dni (y)"; "% n dni (y)"; "% n dni (y)"];
   Message true [Loc None "+4"; Loc None "+6"]
     "%n week(s)" true
     ["% n tydzień (y)"; "% n tydzień (y)"; "% n tydzień (y)"; "% n tydzień (y)"];
   Message false [Loc None "+0"]
     "%1 and %2" true
     ["% 1 i% 2"];
   Message true [Loc None "+0"]
     "%n year(s)" true
     ["% n rok (y)"; "% n rok (y)"; "% n rok (y)"; "% n rok (y)"];
   Message false [Loc None "+8"]
     "%1 B" true
     ["% 1 B"];
   Message false [Loc None "+2"]
     "%1 KB" true
     ["% 1 KB"];
   Message false [Loc None "+2"]
     "%1 MB" true
     ["% 1 MB"];
   Message false [Loc None "+2"]
     "%1 GB" true
     ["% 1 GB"];
   Message false [Loc None "+71"]
     "All spending funds are sent and received anonymously. Only the sender and receiver have details of their side of the transaction. Staking funds need to be converted to spending before sending out of wallet. Funds require %1 confirmations (%2 minutes) before sending." true
     ["Wszystkie środki wydatkowania są wysyłane i odbierane anonimowo. Tylko nadawca i odbiorca mają szczegółowe informacje o ich stronie transakcji. Obstawianie funduszy wymaga przeliczenia na wydatki przed wysłaniem portfela. Fundusze wymagają potwierdzenia% 1 (% 2 minut) przed wysłaniem."];
   Message false [Loc None "+15"]
     "Staking funds cannot be sent out of your wallet without converting to spending. After converting to spending, %1 confirmations (%2 minutes) are required before sending." true
     ["Fundusze nie mogą być wysyłane z Twojego portfela bez konwersji na wydatki. Po przekonwertowaniu do wydatków wymagane są potwierdzenia% 1 (% 2 minut) przed wysłaniem."];
   Message false [Loc (Some "../modaloverlay.cpp") "-29"]
     "unknown" true
     ["Nieznany"];
   Message false [Loc (Some "../bitcoin.cpp") "+186"]
     "%1 didn&apos;t yet exit safely..." true
     ["% 1 jeszcze nie Wyjdź bezpiecznie..."]].

Definition pl_QObject__QObject : list message :=
  [Message false [Loc None "-117"]
     "Error parsing command line arguments: %1." true
     ["Błąd podczas analizowania argumentów wiersza polecenia:% 1."];
   Message false [Loc None "+38"]
     "Error: Specified data directory &quot;%1&quot; does not exist." true
     ["Błąd: określony katalog danych &quot;% 1&quot; nie istnieje."];
   Message false [Loc None "+5"]
     "Error: Cannot parse configuration file: %1." true
     ["Błąd: nie można przeanalizować pliku konfiguracyjnego:% 1."];
   Message false [Loc None "+14"]
     "Error: %1" true
     ["Błąd:% 1"]].

Definition pl_QRImageWidget : list message :=
  [Message false [Loc (Some "../receiverequestdialog.cpp") "+32"]
     "&amp;Save Image..." true
     ["&amp; Zapisz obraz..."];
   Message false [Loc None "+3"]
     "&amp;Copy Image" true
     ["&amp; Kopiuj obraz"];
   Message false [Loc None "+32"]
     "Save QR Code" true
     ["Zapisz kod QR"];
   Message false [Loc None "+0"]
     "PNG Image (*.png)" true
     ["Obraz PNG (*. png)"]].

Definition pl_RPCConsole_1 : list message :=
  [Message false [Loc (Some "../forms/debugwindow.ui") "+14"]
     "Debug window" true
     ["Okno debugowania"];
   Message false [Loc None "+11"]
     "Information" true
     ["Informacji"];
   Message false [Loc None "+13"]
     "Console" true
     ["Konsoli"];
   Message false [Loc None "+10"]
     "Network Traffic" true
     ["Ruch sieciowy"];
   Message false [Loc None "+10"]
     "Peers" true
     ["Rówieśników"];
   Message false [Loc None "+21"; Loc None "+1004"]
     "User Agent" true
     ["Agent użytkownika"];
   Message false [Loc None "-988"]
     "Block chain" true
     ["Łańcuch bloków"];
   Message false [Loc None "+7"]
     "Client version" true
     ["Wersja klienta"];
   Message false [Loc None "+13"]
     "General" true
     ["Ogólne"];
   Message false [Loc None "+13"]
     "Memory Pool" true
     ["Pula pamięci"];
   Message false [Loc None "+7"]
     "Current number of blocks" true
     ["Bieżąca liczba bloków"];
   Message false [Loc None "+13"]
     "Network" true
     ["Sieci"];
   Message false [Loc None "+7"]
     "Number of connections" true
     ["Liczba połączeń"];
   Message false [Loc None "+7"]
     "Startup time" true
     ["Czas uruchamiania"];
   Message false [Loc None "+7"]
     "Name" true
     ["Nazwa"];
   Message false [Loc None "+7"]
     "Last block time" true
     ["Czas ostatniego bloku"];
   Message false [Loc None "+7"]
     "Using BerkeleyDB version" true
     ["Korzystanie z wersji BerkeleyDB"];
   Message false [Loc None "+10"]
     "Datadir" true
     ["Datadir"];
   Message false [Loc None "+7"]
     "Memory usage" true
     ["Użycie pamięci"];
   Message false [Loc None "+7"]
     "Current number of transactions" true
     ["Bieżąca liczba transakcji"];
   Message false [Loc None "+10"; Loc None "+16"; Loc None "+16"; Loc None "+16"; Loc None "+19"; Loc None "+16"; Loc None "+16"; Loc None "+16"; Loc None "+16"; Loc None "+16"; Loc None "+16"; Loc None "+644"; Loc None "+23"; Loc None "+23"; Loc None "+23"; Loc None "+23"; Loc None "+23"; Loc None "+23"; Loc None "+23"; Loc None "+23"; Loc None "+23"; Loc None "+23"; Loc None "+23"; Loc None "+23"; Loc None "+23"; Loc None "+23"; Loc None "+26"; Loc None "+23"; Loc None "+23"]
     "N/A" true
     ["N/a"];
   Message false [Loc None "-988"]
     "Debug log file" true
     ["Debugowanie pliku dziennika"];
   Message false [Loc None "+7"]
     "Open the %1 debug log file from the current data directory. This can take a few seconds for large log files." true
     ["Otwórz plik dziennika debugowania% 1 z bieżącego katalogu danych. Może to potrwać kilka sekund dla dużych plików dziennika."]].

Definition pl_RPCConsole_2 : list message :=
  [Message false [Loc None "+3"]
     "&amp;Open" true
     ["&amp; Otwórz"];
   Message false [Loc None "+25"]
     "Wallet: " true
     ["Portfel:"];
   Message false [Loc None "+8"]
     "(none)" true
     ["Brak"];
   Message false [Loc None "+27"]
     "Decrease font size" true
     ["Zmniejsz rozmiar czcionki"];
   Message false [Loc None "+32"]
     "Increase font size" true
     ["Zwiększ rozmiar czcionki"];
   Message false [Loc None "+32"]
     "Clear console" true
     ["Wyczyść konsolę"];
   Message false [Loc None "+111"]
     "&amp;Reset" true
     ["&amp; Reset"];
   Message false [Loc None "+16"]
     "Totals" true
     ["Sumy"];
   Message false [Loc None "+67"; Loc None "+555"]
     "Received" true
     ["Otrzymał"];
   Message false [Loc None "-475"; Loc None "+452"]
     "Sent" true
     ["Wysłane"];
   Message false [Loc None "-361"]
     "Banned peers" true
     ["Zbanowani rówieśnicy"];
   Message false [Loc None "+60"; Loc (Some "../rpcconsole.cpp") "+510"; Loc None "+760"]
     "Select a peer to view detailed information." true
     ["Wybierz element równorzędny, aby wyświetlić szczegółowe informacje."];
   Message false [Loc None "+25"]
     "Whitelisted" true
     ["Białej liście"];
   Message false [Loc None "+23"]
     "Direction" true
     ["Kierunku"];
   Message false [Loc None "+23"]
     "Version" true
     ["Wersja"];
   Message false [Loc None "+46"]
     "Services" true
     ["Usług"];
   Message false [Loc None "+23"]
     "Starting Block" true
     ["Blok początkowy"];
   Message false [Loc None "+23"]
     "Synced Headers" true
     ["Zsynchronizowane nagłówki"];
   Message false [Loc None "+23"]
     "Synced Blocks" true
     ["Zsynchronizowane bloki"];
   Message false [Loc None "+23"]
     "Ban Score" true
     ["Wynik bana"];
   Message false [Loc None "+23"]
     "Connection Time" true
     ["Czas połączenia"];
   Message false [Loc None "+23"]
     "Last Send" true
     ["Ostatnie wysłanie"];
   Message false [Loc None "+23"]
     "Last Receive" true
     ["Ostatni odbiór"];
   Message false [Loc None "+69"]
     "Ping Time" true
     ["Czas pingowania"];
   Message false [Loc None "+23"]
     "The duration of a currently outstanding ping." true
     ["Czas trwania aktualnie zaległych pingu."];
   Message false [Loc None "+3"]
     "Ping Wait" true
     ["Polecenie ping wait"];
   Message false [Loc None "+23"]
     "Min Ping" true
     ["Min. ping"];
   Message false [Loc None "+23"]
     "Time Offset" true
     ["Przesunięcie czasu"];
   Message false [Loc (Some "../rpcconsole.cpp") "-667"]
     "&amp;Disconnect" true
     ["&amp; Odłącz"]].

Definition pl_RPCConsole_3 : list message :=
  [Message false [Loc None "+1"; Loc None "+1"; Loc None "+1"; Loc None "+1"]
     "Ban for" true
     ["Zakaz"];
   Message false [Loc None "-3"]
     "1 &amp;hour" true
     ["1 &amp; godzina"];
   Message false [Loc None "+1"]
     "1 &amp;day" true
     ["1 &amp; dzień"];
   Message false [Loc None "+1"]
     "1 &amp;week" true
     ["1 &amp; tydzień"];
   Message false [Loc None "+1"]
     "1 &amp;year" true
     ["1 &amp; rok"];
   Message false [Loc None "+48"]
     "&amp;Unban" true
     ["&amp; Unbana"];
   Message false [Loc None "+54"]
     "default wallet" true
     ["domyślny portfel"];
   Message false [Loc None "+110"]
     "Welcome to the %1 RPC console." true
     ["Witamy w konsoli RPC% 1."];
   Message false [Loc None "+1"]
     "Use up and down arrows to navigate history, and %1 to clear screen." true
     ["Użyj strzałek w górę i w dół, aby poruszać się po historii i% 1, aby wyczyścić ekran."];
   Message false [Loc None "+1"]
     "Type %1 for an overview of available commands." true
     ["Wpisz% 1, aby uzyskać omówienie dostępnych poleceń."];
   Message false [Loc None "+1"]
     "For more information on using this console type %1." true
     ["Aby uzyskać więcej informacji na temat używania tego typu konsoli% 1."];
   Message false [Loc None "+2"]
     "WARNING: Scammers have been active, telling users to type commands here, stealing their wallet contents. Do not use this console without fully understanding the ramifications of a command." true
     ["Ostrzeżenie: oszuści są aktywni, informując użytkowników o wpisaniu poleceń tutaj, kradzież ich zawartości portfela. Nie należy używać tej konsoli bez pełnego zrozumienia konsekwencje polecenia."];
   Message false [Loc None "+32"]
     "In:" true
     ["Cala:"];
   Message false [Loc None "+1"]
     "Out:" true
     ["Spośród"];
   Message false [Loc None "+3"]
     "Network activity disabled" true
     ["Aktywność sieciowa wyłączona"];
   Message false [Loc None "+68"]
     "Executing command without any wallet" true
     ["Wykonywanie polecenia bez portfela"];
   Message false [Loc None "+2"]
     "Executing command using &quot;%1&quot; wallet" true
     ["Wykonywanie polecenia przy użyciu portfela &quot;% 1&quot;"];
   Message false [Loc None "+190"]
     "(node id: %1)" true
     ["(identyfikator węzła:% 1)"];
   Message false [Loc None "+2"]
     "via %1" true
     ["przez% 1"];
   Message false [Loc None "+3"; Loc None "+1"]
     "never" true
     ["Nigdy nie"];
   Message false [Loc None "+10"]
     "Inbound" true
     ["Przychodzących"];
   Message false [Loc None "+0"]
     "Outbound" true
     ["Wychodzących"];
   Message false [Loc None "+2"]
     "Yes" true
     ["Tak"];
   Message false [Loc None "+0"]
     "No" true
     ["Nr"];
   Message false [Loc None "+12"; Loc None "+6"]
     "Unknown" true
     ["Nieznany"]].

Definition pl_ReceiveCoinsDialog : list message :=
  [Message false [Loc (Some "../forms/receivecoinsdialog.ui") "+59"]
     "Stake" true
     ["Stawka"];
   Message false [Loc None "+5"]
     "ColdStake" true
     ["Zakład ColdStake"];
   Message false [Loc None "+14"]
     "&amp;Request payment" true
     ["&amp; Prośba o płatność"];
   Message false [Loc None "+17"]
     "Clear all fields of the form." true
     ["Wyczyść wszystkie pola formularza."];
   Message false [Loc None "+3"]
     "Clear" true
     ["Wyczyść"];
   Message false [Loc None "+56"; Loc None "+79"]
     "An optional amount to request. Leave this empty or zero to not request a specific amount." true
     ["Opcjonalna kwota do żądania. Pozostaw to puste lub zero, aby nie żądać określonej kwoty."];
   Message false [Loc None "-57"]
     "Use bech32 encoding." true
     ["Użyj kodowania bech32."];
   Message false [Loc None "+3"]
     "Generate native segwit (Bech32) address" true
     ["Generowanie macierzystego adresu segwit (Bech32)"];
   Message false [Loc None "+22"; Loc None "+55"]
     "An optional label to associate with the new receiving address." true
     ["Opcjonalna etykieta do skojarzenia z nowym adresem odbierającym."];
   Message false [Loc None "-52"]
     "&amp;Label:" true
     ["Etykiety"];
   Message false [Loc None "+13"; Loc None "+53"]
     "An optional message to attach to the payment request, which will be displayed when the request is opened. Note: The message will not be sent with the payment over the Bitcoin Confidential network." true
     ["Opcjonalny komunikat do dołączenia do żądania zapłaty, który będzie wyświetlany po otwarciu żądania. Uwaga: wiadomość nie zostanie wysłana z płatności przez sieć Bitcoin poufne."];
   Message false [Loc None "-50"]
     "&amp;Message:" true
     ["Wiadomość"];
   Message false [Loc None "+16"]
     "&amp;Amount:" true
     ["Ilość"];
   Message false [Loc None "+13"]
     "Use this form to request payments. All fields are &lt;b&gt;optional&lt;/b&gt;." true
     ["Ten formularz służy do żądania płatności. Wszystkie pola są &lt;b&gt;opcjonalne&lt;/b&gt;."];
   Message false [Loc None "+63"]
     "Requested payments history" true
     ["Historia żądanych płatności"];
   Message false [Loc None "+31"]
     "Show the selected request (does the same as double clicking an entry)" true
     ["Pokaż wybrane żądanie (robi to samo, co dwukrotne kliknięcie wpisu)"];
   Message false [Loc None "+3"]
     "Show" true
     ["Pokaż"];
   Message false [Loc None "+17"]
     "Remove the selected entries from the list" true
     ["Usuwanie zaznaczonych wpisów z listy"];
   Message false [Loc None "+3"]
     "Remove" true
     ["Usunąć"];
   Message false [Loc (Some "../receivecoinsdialog.cpp") "+40"]
     "Copy URI" true
     ["Kopiuj identyfikator URI"];
   Message false [Loc None "+1"]
     "Copy label" true
     ["Kopiuj etykietę"];
   Message false [Loc None "+1"]
     "Copy message" true
     ["Kopiuj wiadomość"];
   Message false [Loc None "+1"]
     "Copy amount" true
     ["Kopiuj kwotę"]].

Definition pl_ReceiveRequestDialog : list message :=
  [Message false [Loc (Some "../forms/receiverequestdialog.ui") "+29"]
     "QR Code" true
     ["Kod QR"];
   Message false [Loc None "+46"]
     "Copy &amp;URI" true
     ["Kopiuj &amp; URI"];
   Message false [Loc None "+10"]
     "Copy &amp;Address" true
     ["Kopiuj adres &amp; Address"];
   Message false [Loc None "+10"]
     "&amp;Save Image..." true
     ["&amp; Zapisz obraz..."];
   Message false [Loc (Some "../receiverequestdialog.cpp") "+65"]
     "Request payment to %1" true
     ["Poproś o płatność na% 1"];
   Message false [Loc None "+6"]
     "Payment information" true
     ["Informacje o płatnościach"];
   Message false [Loc None "+1"]
     "URI" true
     ["Identyfikator uri"];
   Message false [Loc None "+2"]
     "Address" true
     ["Adres"];
   Message false [Loc None "+2"]
     "Amount" true
     ["Kwota"];
   Message false [Loc None "+2"]
     "Label" true
     ["Etykiety"];
   Message false [Loc None "+2"]
     "Message" true
     ["Komunikat"];
   Message false [Loc None "+2"]
     "Wallet" true
     ["Portfel"];
   Message false [Loc None "+11"]
     "Resulting URI too long, try to reduce the text for label / message." true
     ["Wynikowy identyfikator URI jest zbyt długi, spróbuj zmniejszyć tekst etykiety/wiadomości."];
   Message false [Loc None "+5"]
     "Error encoding URI into QR Code." true
     ["Błąd kodowania URI do kodu QR."]].

Definition pl_RecentRequestsTableModel : list message :=
  [Message false [Loc (Some "../recentrequeststablemodel.cpp") "+25"; Loc None "+4"]
     "Date" true
     ["Data"];
   Message false [Loc None "-4"; Loc None "+4"]
     "Label" true
     ["Etykiety"];
   Message false [Loc None "+0"]
     "Message" true
     ["Komunikat"];
   Message false [Loc None "+42"]
     "(no label)" true
     ["(bez etykiety)"];
   Message false [Loc None "+9"]
     "(no message)" true
     ["(Brak wiadomości)"];
   Message false [Loc None "+8"]
     "(no amount requested)" true
     ["(nie żądana kwota)"];
   Message false [Loc None "+45"]
     "Requested" true
     ["Zgłoszony"]].

Definition pl_SendCoinsDialog_1 : list message :=
  [Message false [Loc (Some "../forms/sendcoinsdialog.ui") "+14"; Loc (Some "../sendcoinsdialog.cpp") "+806"]
     "Send Coins" true
     ["Wyślij monety"];
   Message false [Loc None "+105"]
     "Inputs..." true
     ["Wejścia..."];
   Message false [Loc None "+10"]
     "automatically selected" true
     ["automatycznie wybrana"];
   Message false [Loc None "+19"]
     "Insufficient funds!" true
     ["Niewystarczające fundusze!"];
   Message false [Loc None "+89"]
     "Quantity:" true
     ["Ilość:"];
   Message false [Loc None "+35"]
     "Bytes:" true
     ["Bajtów:"];
   Message false [Loc None "+48"]
     "Amount:" true
     ["Kwota:"];
   Message false [Loc None "+32"]
     "Dust:" true
     ["Pyłu:"];
   Message false [Loc None "+48"]
     "Fee:" true
     ["Opłata:"];
   Message false [Loc None "+51"]
     "After Fee:" true
     ["Po opłacie:"];
   Message false [Loc None "+32"]
     "Change:" true
     ["Zmienić:"];
   Message false [Loc None "+44"]
     "If this is activated, but the change address is empty or invalid, change will be sent to a newly generated address." true
     ["Jeśli ta zmiana jest aktywna, ale adres zmiany jest pusty lub nieprawidłowy, zmiana zostanie wysłana na nowo wygenerowany adres."];
   Message false [Loc None "+3"]
     "Custom change address" true
     ["Niestandardowy adres zmiany"];
   Message false [Loc None "+256"]
     "Transaction Fee:" true
     ["Opłata transakcyjna:"];
   Message false [Loc None "+14"]
     "Choose..." true
     ["Wybierz..."];
   Message false [Loc None "+30"]
     "Using the fallbackfee can result in sending a transaction that will take several hours or days (or never) to confirm. Consider choosing your fee manually or wait until you have validated the complete chain." true
     ["Korzystanie z fallbackfee może skutkować wysłaniem transakcji, która zajmie kilka godzin lub dni (lub nigdy), aby potwierdzić. Zastanów się nad wyborem opłaty ręcznie lub poczekaj, aż zweryfikujesz kompletny łańcuch."];
   Message false [Loc None "+3"]
     "Warning: Fee estimation is currently not possible." true
     ["Uwaga: szacunki opłat nie są obecnie możliwe."];
   Message false [Loc None "+26"]
     "collapse fee-settings" true
     ["zapaść opłaty-ustawienia"];
   Message false [Loc None "+3"]
     "Hide" true
     ["Ukryć"];
   Message false [Loc None "+48"]
     "Specify a custom fee per kB (1,000 bytes) of the transaction's virtual size.

Note:  Since the fee is calculated on a per-byte basis, a fee of &quot;100 satoshis per kB&quot; for a transaction size of 500 bytes (half of 1 kB) would ultimately yield a fee of only 50 satoshis." true
     ["Określ niestandardową opłatę za kB (1 000 bajtów) rozmiaru wirtualnego transakcji.

Uwaga: ponieważ opłata jest obliczana na podstawie na bajt, opłata &quot;100 satoshis na kB&quot; dla wielkości transakcji 500 bajtów (połowa 1 kB) ostatecznie przynieść opłatę tylko 50 satoshis."];
   Message false [Loc None "+5"]
     "per kilobyte" true
     ["na kilobajtów"];
   Message false [Loc None "+27"; Loc None "+13"]
     "Paying only the minimum fee is just fine as long as there is less transaction volume than space in the blocks. But be aware that this can end up in a never confirming transaction once there is more demand for Bitcoin Confidential transactions than the network can process." true
     ["Płacenie tylko minimalna opłata jest dobrze tak długo, jak jest mniejsza ilość transakcji niż przestrzeń w blokach. Należy jednak pamiętać, że może to skończyć się w nigdy nie potwierdzające transakcji, gdy istnieje większe zapotrzebowanie na transakcje poufne Bitcoin niż sieć może przetwarzać."];
   Message false [Loc None "+3"]
     "(read the tooltip)" true
     ["(przeczytaj podpowiedź)"];
   Message false [Loc None "+29"]
     "Recommended:" true
     ["Zalecane:"];
   Message false [Loc None "+30"]
     "Custom:" true
     ["Niestandardowe:"];
   Message false [Loc None "+52"]
     "(Smart fee not initialized yet. This usually takes a few blocks...)" true
     ["(Inteligentna opłata nie została jeszcze zainicjowana. To zwykle zajmuje kilka bloków...)"];
   Message false [Loc None "+29"]
     "Confirmation time target:" true
     ["Cel czas potwierdzenia:"];
   Message false [Loc None "+74"]
     "With Replace-By-Fee (BIP-125) you can increase a transaction&apos;s fee after it is sent. Without this, a higher fee may be recommended to compensate for increased transaction delay risk." true
     ["Za pomocą Zamień na opłatę (BIP-125) można zwiększyć opłatę za transakcję po jej wysłaniu. Bez tego, wyższe opłaty mogą być zalecane w celu zrekompensowania zwiększonego ryzyka opóźnienia transakcji."]].

Definition pl_SendCoinsDialog_2 : list message :=
  [Message false [Loc None "+3"]
     "Enable Replace-By-Fee" true
     ["Włącz Zamień na opłatę"];
   Message false [Loc None "+37"]
     "Confirm the send action" true
     ["Potwierdź akcję wysyłania"];
   Message false [Loc None "+3"]
     "S&amp;end" true
     ["S&amp;end"];
   Message false [Loc None "+23"]
     "Clear all fields of the form." true
     ["Wyczyść wszystkie pola formularza."];
   Message false [Loc None "+3"]
     "Clear &amp;All" true
     ["Wyczyść &amp; wszystkie"];
   Message false [Loc None "+14"]
     "Send to multiple recipients at once" true
     ["Wysyłaj do wielu adresatów naraz"];
   Message false [Loc None "+3"]
     "Add &amp;Recipient" true
     ["Dodaj odbiorcę &amp;"];
   Message false [Loc None "+38"]
     "Balance:" true
     ["Równowagi:"];
   Message false [Loc (Some "../sendcoinsdialog.cpp") "-730"]
     "Add Output" true
     ["Dodaj dane wyjściowe"];
   Message false [Loc None "+3"]
     "Add Recipient" true
     ["Dodaj odbiorcę"];
   Message false [Loc None "+14"]
     "Copy quantity" true
     ["Kopiuj ilość"];
   Message false [Loc None "+1"]
     "Copy amount" true
     ["Kopiuj kwotę"];
   Message false [Loc None "+1"]
     "Copy fee" true
     ["Opłata za kopiowanie"];
   Message false [Loc None "+1"]
     "Copy after fee" true
     ["Kopiuj po opłacie"];
   Message false [Loc None "+1"]
     "Copy bytes" true
     ["Kopiuj bajty"];
   Message false [Loc None "+1"]
     "Copy dust" true
     ["Kopiowanie pyłu"];
   Message false [Loc None "+1"]
     "Copy change" true
     ["Zmiana kopiowania"];
   Message false [Loc None "+88"]
     "%1 (%2 blocks)" true
     ["% 1 (% 2 bloki)"];
   Message false [Loc None "+39"]
     "This tab allows manually activating Staking funds for ColdStaking. This will take longer than the &quot;Automated ColdStaking activation&quot; to start staking but wallet does not need to be online for the activation." true
     ["Zakładka ta pozwala na ręczne aktywowanie funduszy Staking dla ColdStaking. To zajmie więcej czasu niż &quot;Aktywacja automatycznego ColdStaking&quot;, aby rozpocząć wytyczenie, ale portfel nie musi być online do aktywacji."];
   Message false [Loc None "+103"]
     "Error Remote Staking Address" true
     ["Błąd zdalny adres Staking"];
   Message false [Loc None "+0"]
     "The remote stake address can&apos;t be part of this wallet." true
     ["Zdalny adres stawki nie może być częścią tego portfela."];
   Message false [Loc None "+96"]
     "from wallet %1" true
     ["z portfela% 1"];
   Message false [Loc None "+21"; Loc None "+5"; Loc None "+5"; Loc None "+4"]
     "%1 to %2" true
     ["% 1 do% 2"];
   Message false [Loc None "+6"]
     "Are you sure you want to send?" true
     ["Czy na pewno chcesz wysłać?"];
   Message false [Loc None "+2"]
     "Please, review your transaction." true
     ["Sprawdź swoją transakcję."];
   Message false [Loc None "+11"]
     "Estimated Transaction fee" true
     ["Szacowana opłata transakcyjna"];
   Message false [Loc None "+13"]
     "removed for transaction fee" true
     ["usunięte za opłatę transakcyjną"];
   Message false [Loc None "+2"]
     "added as transaction fee" true
     ["dodane jako opłata transakcyjna"];
   Message false [Loc None "+5"]
     "You can increase the fee later (signals Replace-By-Fee, BIP-125)." true
     ["Możesz podwyższyć opłatę później (sygnały Zamień-by-Fee, BIP-125)."]].

Definition pl_SendCoinsDialog_3 : list message :=
  [Message false [Loc None "+2"]
     "Not signalling Replace-By-Fee, BIP-125." true
     ["Nie sygnalizując zastąpienia-by-Fee, BIP-125."];
   Message false [Loc None "+12"]
     "Total Amount" true
     ["Łączna kwota"];
   Message false [Loc None "+6"]
     "Your hardware device must be connected to sign this txn." true
     ["Urządzenie sprzętowe musi być podłączone do podpisania tego TXN."];
   Message false [Loc None "+4"]
     "Confirm send coins" true
     ["Potwierdź wysłanie monet"];
   Message false [Loc None "+248"]
     "The recipient address is not valid. Please recheck." true
     ["Adres adresata jest nieprawidłowy. Proszę ponownie sprawdzić."];
   Message false [Loc None "+3"]
     "The amount to pay must be larger than 0." true
     ["Kwota do zapłaty musi być większa niż 0."];
   Message false [Loc None "+3"]
     "The amount exceeds your balance." true
     ["Kwota ta przekracza saldo."];
   Message false [Loc None "+3"]
     "The total exceeds your balance when the %1 transaction fee is included." true
     ["Suma ta przekracza saldo, gdy zostanie uwzględniona opłata transakcyjna% 1."];
   Message false [Loc None "+3"]
     "Duplicate address found: addresses should only be used once each." true
     ["Znaleziono zduplikowany adres: adresy powinny być używane tylko raz."];
   Message false [Loc None "+3"]
     "Transaction creation failed!" true
     ["Tworzenie transakcji nie powiodło się!"];
   Message false [Loc None "+4"]
     "The transaction was rejected with the following reason: %1" true
     ["Transakcja została odrzucona z następującej przyczyny:% 1"];
   Message false [Loc None "+4"]
     "A fee higher than %1 is considered an absurdly high fee." true
     ["Opłata wyższa niż% 1 jest uważana za absurdalnie wysoką opłatę."];
   Message false [Loc None "+3"]
     "Payment request expired." true
     ["Żądanie zapłaty wygasło."];
   Message false [Loc None "+96"]
     "Pay only the required fee of %1" true
     ["Zapłać tylko wymaganą opłatę w wysokości% 1."];
   Message true [Loc None "+76"]
     "Estimated to begin confirmation within %n block(s)." true
     ["Szacuje się, aby rozpocząć potwierdzenie w% n bloku (s)."; "Szacuje się, aby rozpocząć potwierdzenie w% n bloku (s)."; "Szacuje się, aby rozpocząć potwierdzenie w% n bloku (s)."; "Szacuje się, aby rozpocząć potwierdzenie w% n bloku (s)."];
   Message false [Loc None "+130"]
     "Warning: Invalid Bitcoin Confidential address" true
     ["Ostrzeżenie: nieprawidłowy adres Bitcoin poufny"];
   Message false [Loc None "+8"]
     "Error custom change address" true
     ["Błąd niestandardowy adres zmiany"];
   Message false [Loc None "+0"]
     "The address you selected for change is not part of this wallet." true
     ["Adres wybrany do zmiany nie jest częścią tego portfela."];
   Message false [Loc None "+15"]
     "(no label)" true
     ["(bez etykiety)"]].

Definition pl_SendCoinsEntry_1 : list message :=
  [Message false [Loc (Some "../forms/sendcoinsentry.ui") "+30"]
     "This is a normal payment." true
     ["Jest to zwykła płatność."];
   Message false [Loc None "+71"; Loc None "+463"; Loc None "+130"]
     "Subtract fee from amount" true
     ["Odejmij opłatę od kwoty"];
   Message false [Loc None "-580"; Loc None "+463"; Loc None "+130"]
     "Use available balance" true
     ["Użyj dostępnego salda"];
   Message false [Loc None "-562"]
     "Message" true
     ["Komunikat"];
   Message false [Loc None "+24"; Loc None "+261"]
     "The Bitcoin Confidential address to send the payment to" true
     ["Adres poufny Bitcoin do wysłania płatności do"];
   Message false [Loc None "-254"; Loc None "+261"; Loc None "+297"; Loc None "+104"]
     "Choose previously used address" true
     ["Wybierz poprzednio używany adres"];
   Message false [Loc None "-646"; Loc None "+261"; Loc None "+297"; Loc None "+104"]
     "Alt+A" true
     ["Alt + A"];
   Message false [Loc None "-655"; Loc None "+261"; Loc None "+297"; Loc None "+104"]
     "Paste address from clipboard" true
     ["Wklej adres ze schowka"];
   Message false [Loc None "-646"; Loc None "+261"; Loc None "+297"; Loc None "+104"]
     "Alt+P" true
     ["Alt + P"];
   Message false [Loc None "-655"; Loc None "+261"; Loc None "+401"; Loc None "+520"; Loc None "+564"]
     "Remove this entry" true
     ["Usuń ten wpis"];
   Message false [Loc None "-1718"; Loc None "+277"]
     "Pay To" true
     ["Zapłać do"];
   Message false [Loc None "-258"; Loc None "+242"; Loc None "+277"]
     "Amount" true
     ["Kwota"];
   Message false [Loc None "-495"]
     "Enter a label for this address to add it to the list of used addresses" true
     ["Wprowadź etykietę dla tego adresu, aby dodać ją do listy używanych adresów."];
   Message false [Loc None "+15"]
     "Label" true
     ["Etykiety"];
   Message false [Loc None "+33"]
     "A short message sent over the Bitcoin Confidential network." true
     ["Krótka wiadomość wysłana przez sieć Bitcoin poufne."];
   Message false [Loc None "+6"]
     "Encrypted message sent with the transaction (optional, max. 24 characters)." true
     ["Zaszyfrowana wiadomość wysłana z transakcją (opcjonalnie, maks. 24 znaki)."];
   Message false [Loc None "+261"]
     "This is a payment to a coldstake script." true
     ["Jest to płatność do skryptu coldstake."];
   Message false [Loc None "+83"]
     "The fee will be deducted from the amount being sent. The recipient will receive less Bitcoin Confidential than you enter in the amount field. If multiple recipients are selected, the fee is split equally." true
     ["Opłata zostanie odliczona od kwoty wysłanej. Odbiorca otrzyma mniej informacji poufnych Bitcoin niż wpisać w polu Kwota. Jeśli wybrano wielu odbiorców, opłata jest podzielona równo."];
   Message false [Loc None "+36"]
     "ColdStake address used by your remote staking node to stake your funds." true
     ["Adres ColdStake używany przez zdalny węzeł do postawienia środków."];
   Message false [Loc None "+80"]
     "ColdStake " true
     ["Zakład ColdStake"];
   Message false [Loc None "+24"]
     "The stake address on the remote node (cannot be in this wallet)" true
     ["Adres stawki na zdalnym węźle (nie może być w tym portfelu)"];
   Message false [Loc None "+81"]
     " Stake " true
     ["Stawka"];
   Message false [Loc None "+434"]
     "This is an unauthenticated payment request." true
     ["Jest to żądanie płatności nieuwierzytelnione."];
   Message false [Loc None "+40"; Loc None "+560"]
     "Pay To:" true
     ["Zapłać do:"]].

Definition pl_SendCoinsEntry_2 : list message :=
  [Message false [Loc None "-526"; Loc None "+577"]
     "Memo:" true
     ["Memo:"];
   Message false [Loc None "-560"; Loc None "+547"]
     "A&amp;mount:" true
     ["A&amp;mount:"];
   Message false [Loc None "-78"]
     "This is an authenticated payment request." true
     ["Jest to żądanie płatności uwierzytelnionej."];
   Message false [Loc (Some "../sendcoinsentry.cpp") "+89"]
     "Enter a label for this address to add it to your address book" true
     ["Wprowadź etykietę tego adresu, aby dodać ją do książki adresowej"]].

Definition pl_SendConfirmationDialog : list message :=
  [Message false [Loc (Some "../sendcoinsdialog.cpp") "+85"; Loc None "+5"]
     "Yes" true
     ["Tak"]].

Definition pl_ShutdownWindow : list message :=
  [Message false [Loc (Some "../utilitydialog.cpp") "+83"]
     "%1 is shutting down..." true
     ["% 1 jest zamykany..."];
   Message false [Loc None "+1"]
     "Do not shut down the computer until this window disappears." true
     ["Nie zamykać komputera do czasu zniknięcia tego okna."]].

Definition pl_SignVerifyMessageDialog_1 : list message :=
  [Message false [Loc (Some "../forms/signverifymessagedialog.ui") "+14"]
     "Signatures - Sign / Verify a Message" true
     ["Podpisy-Podpisz/Zweryfikuj wiadomość"];
   Message false [Loc None "+14"]
     "&amp;Sign Message" true
     ["&amp; Podpisz wiadomość"];
   Message false [Loc None "+10"]
     "&amp;Verify Message" true
     ["&amp; Weryfikacja komunikatu"];
   Message false [Loc None "+31"]
     "You can sign messages/agreements with your addresses to prove you can receive Bitcoin Confidential sent to them. Be careful not to sign anything vague or random, as phishing attacks may try to trick you into signing your identity over to them. Only sign fully-detailed statements you agree to." true
     ["Możesz podpisać wiadomości/umowy z adresami, aby udowodnić, że możesz otrzymać poufne dane Bitcoin wysłane do nich. Uważaj, aby nie podpisać niczego niejasnego lub losowego, ponieważ ataki phishingowe mogą próbować nakłonić użytkownika do podpisania swojej tożsamości. Podpisz tylko w pełni szczegółowe instrukcje, które zgadzasz się."];
   Message false [Loc None "+18"]
     "The Bitcoin Confidential address to sign the message with" true
     ["Adres Bitcoin poufne do podpisania wiadomości z"];
   Message false [Loc None "+7"; Loc None "+213"]
     "Choose previously used address" true
     ["Wybierz poprzednio używany adres"];
   Message false [Loc None "-203"; Loc None "+213"]
     "Alt+A" true
     ["Alt + A"];
   Message false [Loc None "-203"]
     "Paste address from clipboard" true
     ["Wklej adres ze schowka"];
   Message false [Loc None "+10"]
     "Alt+P" true
     ["Alt + P"];
   Message false [Loc None "+12"]
     "Enter the message you want to sign here" true
     ["Wpisz wiadomość, którą chcesz tutaj podpisać."];
   Message false [Loc None "+7"]
     "Signature" true
     ["Podpis"];
   Message false [Loc None "+27"]
     "Copy the current signature to the system clipboard" true
     ["Skopiuj bieżący podpis do schowka systemowego"];
   Message false [Loc None "+21"]
     "Sign the message to prove you own this Bitcoin Confidential address" true
     ["Podpisz wiadomość, aby udowodnić, że jesteś właścicielem tego adresu Bitcoin poufne"];
   Message false [Loc None "+3"]
     "Sign &amp;Message" true
     ["Podpisywanie wiadomości &amp; Message"];
   Message false [Loc None "+14"]
     "Reset all sign message fields" true
     ["Resetowanie wszystkich pól wiadomości logowania"];
   Message false [Loc None "+3"; Loc None "+153"]
     "Clear &amp;All" true
     ["Wyczyść &amp; wszystkie"];
   Message false [Loc None "-85"]
     "Enter the receiver&apos;s address, message (ensure you copy line breaks, spaces, tabs, etc. exactly) and signature below to verify the message. Be careful not to read more into the signature than what is in the signed message itself, to avoid being tricked by a man-in-the-middle attack. Note that this only proves the signing party receives with the address, it cannot prove sendership of any transaction!" true
     ["Wprowadź adres odbiorcy, wiadomość (Upewnij się, że kopiujesz podziały wierszy, spacje, zakładki itp. dokładnie) i podpis poniżej, aby zweryfikować wiadomość. Uważaj, aby nie czytać więcej do podpisu niż to, co jest w podpisanej wiadomości, aby uniknąć oszukany przez man-in-the-Middle ataku. Zauważ, że to tylko dowodzi, że strona podpisujący otrzymuje z adresem, nie może udowodnić, sendership jakiejkolwiek transakcji!"];
   Message false [Loc None "+21"]
     "The Bitcoin Confidential address the message was signed with" true
     ["Bitcoin poufne adres wiadomość została podpisana z"];
   Message false [Loc None "+44"]
     "Verify the message to ensure it was signed with the specified Bitcoin Confidential address" true
     ["Zweryfikuj komunikat, aby upewnić się, że został podpisany przy użyciu określonego adresu Bitcoin poufne"];
   Message false [Loc None "+3"]
     "Verify &amp;Message" true
     ["Weryfikowanie komunikatu &amp; Message"];
   Message false [Loc None "+14"]
     "Reset all verify message fields" true
     ["Resetuj wszystkie pola weryfikowania wiadomości"];
   Message false [Loc (Some "../signverifymessagedialog.cpp") "+39"]
     "Click &quot;Sign Message&quot; to generate signature" true
     ["Kliknij przycisk &quot;Podpisz wiadomość&quot;, aby wygenerować podpis"];
   Message false [Loc None "+78"; Loc None "+78"]
     "The entered address is invalid." true
     ["Wprowadzony adres jest nieprawidłowy."];
   Message false [Loc None "-78"; Loc None "+7"; Loc None "+71"; Loc None "+6"]
     "Please check the address and try again." true
     ["Proszę sprawdzić adres i spróbować ponownie."];
   Message false [Loc None "-77"; Loc None "+77"]
     "The entered address does not refer to a key." true
     ["Wprowadzony adres nie odnosi się do klucza."];
   Message false [Loc None "-69"]
     "Wallet unlock was cancelled." true
     ["Odblokowanie portfela zostało anulowane."];
   Message false [Loc None "+8"]
     "Private key for the entered address is not available." true
     ["Klucz prywatny wprowadzony adres nie jest dostępny."];
   Message false [Loc None "+12"]
     "Message signing failed." true
     ["Podpisywanie wiadomości nie powiodło się."]].

Definition pl_SignVerifyMessageDialog_2 : list message :=
  [Message false [Loc None "+5"]
     "Message signed." true
     ["Wiadomość podpisana."];
   Message false [Loc None "+55"]
     "The signature could not be decoded." true
     ["Nie można zdekodować podpisu."];
   Message false [Loc None "+0"; Loc None "+13"]
     "Please check the signature and try again." true
     ["Proszę sprawdzić podpis i spróbować ponownie."];
   Message false [Loc None "+0"]
     "The signature did not match the message digest." true
     ["Podpis nie pasuje do skrótu wiadomości."];
   Message false [Loc None "+6"]
     "Message verification failed." true
     ["Weryfikacja wiadomości nie powiodła się."];
   Message false [Loc None "+5"]
     "Message verified." true
     ["Wiadomość zweryfikowana."]].

Definition pl_SplashScreen : list message :=
  [Message false [Loc (Some "../networkstyle.cpp") "+19"]
     "[testnet]" true
     ["testnet"]].

Definition pl_StakingDialog_1 : list message :=
  [Message false [Loc (Some "../forms/stakingdialog.ui") "+14"]
     "Send Coins" true
     ["Wyślij monety"];
   Message false [Loc None "+23"]
     "Status" true
     ["Stan"];
   Message false [Loc None "+19"]
     "Addresses" true
     ["Adresy"];
   Message false [Loc None "+16"]
     "Rewards" true
     ["Nagrody"];
   Message false [Loc None "+16"]
     "Convert to Spending" true
     ["Konwertuj na wydatki"];
   Message false [Loc None "+16"]
     "Convert to Staking" true
     ["Konwertuj na Staking"];
   Message false [Loc None "+16"]
     "Activate ColdStaking" true
     ["Aktywuj ColdStaking"];
   Message false [Loc None "+79"]
     "Total supply" true
     ["Całkowite zaopatrzenie"];
   Message false [Loc None "+26"]
     "Current block reward" true
     ["Nagroda za bieżący blok"];
   Message false [Loc None "+26"]
     "Current block height" true
     ["Bieżąca wysokość bloku"];
   Message false [Loc None "+20"]
     "Network difficulty" true
     ["Problemy z siecią"];
   Message false [Loc None "+26"]
     "Annual staking reward" true
     ["Roczna Nagroda za postawienie"];
   Message false [Loc None "+13"]
     "Current staking reward" true
     ["Aktualna Nagroda za postawienie"];
   Message false [Loc None "+26"]
     "Network staking weight" true
     ["Waga do wytykania sieci"];
   Message false [Loc None "+20"]
     "Your estimated annual reward" true
     ["Szacowana roczna Nagroda"];
   Message false [Loc None "+13"]
     "?" true
     ["?"];
   Message false [Loc None "+80"]
     "Staking" true
     ["Wytyczania"];
   Message false [Loc None "+24"; Loc None "+233"]
     "ENABLED" true
     ["Włączone"];
   Message false [Loc None "-210"]
     "Pause" true
     ["Wstrzymaj"];
   Message false [Loc None "+50"; Loc None "+425"]
     "Estimated reward frequency" true
     ["Szacowana częstotliwość nagród"];
   Message false [Loc None "-412"]
     "Stakable Funds" true
     ["Fundusze stakable"];
   Message false [Loc None "+20"]
     "Wallet staking weight" true
     ["Waga do obstawiania portfela"];
   Message false [Loc None "+103"]
     "Cold Staking" true
     ["Cold Staking"];
   Message false [Loc None "+55"]
     "Remote Stake address" true
     ["Adres zdalnego palika"];
   Message false [Loc None "+13"]
     "Automated ColdStaking activation" true
     ["Automatyczna aktywacja ColdStaking"];
   Message false [Loc None "+25"]
     "Enable " true
     ["Włączyć"];
   Message false [Loc None "+57"]
     "Enable Hot Staking with the STAKING ENABLE button and leaving wallet open.  Enable automated ColdStake with COLDSTAKING ENABLE button and setting a remote stake address. On remote node enable staking with &quot;bitcoinc-cli walletsettings stakingstatus true&quot; and create a &quot;Stake&quot; address on your remote node with &quot;bitcoinc-cli getnewstakeaddress&quot;, or get a &quot;Stake&quot; address from a ColdStaking pool. Funds gradually transition over from hot staking to cold staking while your wallet is open. The time required for the activation depends on the wallet&apos;s staking weight and can take several days with a low weight. Once the activation bar shows complete, wallet can be closed.  Alternatively, use the Activate Coldstaking tab to send an activation transaction.  This will take longer to start staking but wallet does not need to be online." true
     ["Włącz opcję Hot Staking przy użyciu przycisku STAKING ENABLE i Otwórz portfel.  Włącz automatyczne ColdStake z COLDSTAKING Włącz przycisk i ustawienie zdalnego adresu stawki. Na zdalnym węźle Włącz wytyczenie z &quot;bitcoinc-CLI walletsettings stakingstatus true&quot; i utworzyć &quot;stawka&quot; adres na zdalnym węźle z &quot;bitcoinc-CLI getnewtyaddress&quot;, lub uzyskać &quot;stawka&quot; adres z puli ColdStaking. Fundusze stopniowo przekształcające się z gorących wytykania na zimno wytykania, gdy portfel jest otwarty. Czas potrzebny na aktywację zależy od wagi postawienia portfela i może potrwać kilka dni przy niskiej wadze. Po zakończeniu pasek aktywacji, portfel może być zamknięty.  Alternatywnie, Użyj karty Aktywuj Coldstaking, aby wysłać transakcję aktywacji.  To zajmie więcej czasu, aby rozpocząć wytyczenie, ale portfel nie musi być online."];
   Message false [Loc None "+20"]
     "ColdStake activation progress" true
     ["Postęp aktywacji ColdStake"];
   Message false [Loc None "+77"]
     "Amount activated for ColdStaking" true
     ["Kwota aktywowana dla ColdStaking"]].

Definition pl_StakingDialog_2 : list message :=
  [Message false [Loc None "+13"]
     "Estimated weight" true
     ["Szacowana masa"];
   Message false [Loc None "+106"]
     "Filtered" true
     ["Filtrowane"];
   Message false [Loc None "+15"; Loc None "+88"]
     "Staking rewards" true
     ["Wytyczenie nagród"];
   Message false [Loc None "-75"; Loc None "+48"]
     "Solved blocks" true
     ["Rozwiązane bloki"];
   Message false [Loc None "-41"; Loc None "+55"]
     "4000" true
     ["4000"];
   Message false [Loc None "-48"; Loc None "+41"]
     "100000BC" true
     ["100000PNE w BC"];
   Message false [Loc None "-22"]
     "Total" true
     ["Łącznych"];
   Message false [Loc (Some "../stakingdialog.cpp") "+258"; Loc None "+17"]
     "No stakable funds available. Use the &quot;Convert to staking&quot; tab to convert funds for staking." true
     ["Brak dostępnych funduszy. Użyj zakładki &quot;Konwertuj na postawienie&quot;, aby zamienić fundusze na postawienie."];
   Message false [Loc None "-15"; Loc None "+18"]
     "No eligible staking outputs available. Staking funds need to have 225 confirmations to be eligible." true
     ["Brak dostępnych wyjść kwalifikujących do wytykania. Fundusze muszą mieć 225 potwierdzeń do zakwalifikowania."];
   Message false [Loc None "-9"]
     "Staking not initialized yet. Wait a moment." true
     ["Wytyczenie nie został jeszcze zainicjowany. Poczekaj chwilę."];
   Message false [Loc None "+3"]
     "Staking is stopped. Press the start button above to enable staking." true
     ["Wytyczenie jest zatrzymane. Naciśnij przycisk Start powyżej, aby włączyć wytyczenie."];
   Message false [Loc None "+10"]
     "Wallet is locked. To start staking unlock the wallet for staking only. To unlock click the lock icon in the bottom right hand portion of the window." true
     ["Portfel jest zablokowany. Aby rozpocząć wytyczenie odblokować portfel tylko do postawienia. Aby odblokować kliknij ikonę kłódki w prawej dolnej części okna."];
   Message false [Loc None "+4"]
     "Wallet is not fully synced. To start staking make sure the wallet has connections to the network and wait until it catched up with the latest blocks." true
     ["Portfel nie jest w pełni zsynchronizowany. Aby rozpocząć wytyczenie, upewnij się, że portfel ma połączenia z siecią i poczekaj, aż zostanie wyłapany z najnowszymi blokami."];
   Message false [Loc None "+3"]
     "Staking is disabled. Set the config paramter &quot;staking=1&quot; in the bitcoinc.conf to enable it." true
     ["Wytyczenie jest wyłączone. Ustaw parametrycznej program config &quot;Staking = 1&quot; w bitcoinc. conf, aby go włączyć."];
   Message false [Loc None "+72"]
     "No eligible coldstaking outputs available. Your coldstaking funds need to have 225 confirmations to be eligible." true
     ["Brak dostępnych wyjść do coldstakingu. Twoje fundusze coldstaking muszą mieć 225 potwierdzeń, aby kwalifikować."];
   Message false [Loc None "+160"]
     "Set Remote Staking Address" true
     ["Ustawianie adresu zdalnego ustalania stawek"];
   Message false [Loc None "+1"]
     "Enter the remote staking address:" true
     ["Wprowadź adres zdalnego wytykania:"]].

Definition pl_TrafficGraphWidget : list message :=
  [Message false [Loc (Some "../trafficgraphwidget.cpp") "+81"]
     "KB/s" true
     ["KB/s"]].

Definition pl_TransactionDesc_1 : list message :=
  [Message true [Loc (Some "../transactiondesc.cpp") "+39"]
     "Open for %n more block(s)" true
     ["Otwórz dla% n więcej bloków"; "Otwórz dla% n więcej bloków"; "Otwórz dla% n więcej bloków"; "Otwórz dla% n więcej bloków"];
   Message false [Loc None "+2"]
     "Open until %1" true
     ["Otwarte do% 1"];
   Message false [Loc None "+6"]
     "conflicted with a transaction with %1 confirmations" true
     ["konflikt z transakcją z potwierdzeniami% 1"];
   Message false [Loc None "+2"]
     "0/unconfirmed, %1" true
     ["0/niepotwierdzone,% 1"];
   Message false [Loc None "+0"]
     "in memory pool" true
     ["w puli pamięci"];
   Message false [Loc None "+0"]
     "not in memory pool" true
     ["nie w puli pamięci"];
   Message false [Loc None "+0"]
     "abandoned" true
     ["Opuszczony"];
   Message false [Loc None "+2"]
     "%1/unconfirmed" true
     ["% 1/niepotwierdzone"];
   Message false [Loc None "+2"]
     "%1 confirmations" true
     ["potwierdzeń% 1"];
   Message false [Loc None "+29"]
     "Status" true
     ["Stan"];
   Message false [Loc None "+3"]
     "Date" true
     ["Data"];
   Message false [Loc None "+4"; Loc None "+223"]
     "Transaction ID" true
     ["Identyfikator transakcji"];
   Message false [Loc None "-210"; Loc None "+211"]
     "Transaction total size" true
     ["Całkowity rozmiar transakcji"];
   Message false [Loc None "-209"]
     "Confirmations" true
     ["Potwierdzenia"];
   Message false [Loc None "+4"]
     "Block hash" true
     ["Skrót bloku"];
   Message false [Loc None "+1"]
     "Block index" true
     ["Indeks bloku"];
   Message false [Loc None "+1"]
     "Block time" true
     ["Czas blokowania"];
   Message false [Loc None "+21"]
     "Source" true
     ["Źródła"];
   Message false [Loc None "+0"]
     "Generated" true
     ["Generowane"];
   Message false [Loc None "+5"; Loc None "+14"; Loc None "+72"]
     "From" true
     ["Z"];
   Message false [Loc None "-72"]
     "unknown" true
     ["Nieznany"];
   Message false [Loc None "+1"; Loc None "+20"; Loc None "+72"]
     "To" true
     ["Do"];
   Message false [Loc None "-90"]
     "own address" true
     ["własny adres"];
   Message false [Loc None "+0"; Loc None "+69"]
     "watch-only" true
     ["tylko do oglądania"];
   Message false [Loc None "-67"]
     "label" true
     ["Etykiety"];
   Message false [Loc None "+36"; Loc None "+12"; Loc None "+58"; Loc None "+37"; Loc None "+66"]
     "Credit" true
     ["Kredytowej"];
   Message true [Loc None "-171"]
     "matures in %n more block(s)" true
     ["dojrzewa w% n więcej bloków"; "dojrzewa w% n więcej bloków"; "dojrzewa w% n więcej bloków"; "dojrzewa w% n więcej bloków"]].

Definition pl_TransactionDesc_2 : list message :=
  [Message false [Loc None "+2"]
     "not accepted" true
     ["nie akceptowane"];
   Message false [Loc None "+64"; Loc None "+26"; Loc None "+71"]
     "Debit" true
     ["Debet"];
   Message false [Loc None "-87"]
     "Total debit" true
     ["Suma debetowa"];
   Message false [Loc None "+1"]
     "Total credit" true
     ["Suma kredytów"];
   Message false [Loc None "+5"]
     "Transaction fee" true
     ["Opłata transakcyjna"];
   Message false [Loc None "+27"]
     "Net amount" true
     ["Kwota netto"];
   Message false [Loc None "+6"; Loc None "+12"]
     "Message" true
     ["Komunikat"];
   Message false [Loc None "-10"]
     "Comment" true
     ["Komentarz"];
   Message false [Loc None "+4"]
     "Transaction virtual size" true
     ["Wirtualny rozmiar transakcji"];
   Message false [Loc None "+1"]
     "Output index" true
     ["Indeks wyjściowy"];
   Message false [Loc None "+10"]
     "Narration" true
     ["Narracji"];
   Message false [Loc None "+13"]
     "Merchant" true
     ["Handlowych"];
   Message false [Loc None "+7"]
     "Generated coins must mature %1 blocks before they can be spent. When you generated this block, it was broadcast to the network to be added to the block chain. If it fails to get into the chain, its state will change to &quot;not accepted&quot; and it won&apos;t be spendable. This may occasionally happen if another node generates a block within a few seconds of yours." true
     ["Wygenerowane monety muszą dojrzewać% 1 bloków, zanim będą mogły zostać wydane. Podczas generowania tego bloku został on wyemitowany do sieci, który ma zostać dodany do łańcucha bloków. Jeśli nie uda się dostać do łańcucha, jego stan zmieni się na &quot;nie akceptowane&quot; i nie będzie spendable. Czasami może się to zdarzyć, jeśli inny węzeł wygeneruje blok w ciągu kilku sekund."];
   Message false [Loc None "+8"]
     "Debug information" true
     ["Informacje o debugowaniu"];
   Message false [Loc None "+13"]
     "Transaction" true
     ["Transakcji"];
   Message false [Loc None "+3"]
     "Inputs" true
     ["Wejścia"];
   Message false [Loc None "+21"]
     "Amount" true
     ["Kwota"];
   Message false [Loc None "+1"; Loc None "+1"]
     "true" true
     ["True"];
   Message false [Loc None "-1"; Loc None "+1"]
     "false" true
     ["False"]].

Definition pl_TransactionDescDialog : list message :=
  [Message false [Loc (Some "../forms/transactiondescdialog.ui") "+26"]
     "This pane shows a detailed description of the transaction" true
     ["W tym okienku przedstawiono szczegółowy opis transakcji"];
   Message false [Loc (Some "../transactiondescdialog.cpp") "+17"]
     "Details for %1" true
     ["Szczegóły dotyczące% 1"]].

Definition pl_TransactionTableModel_1 : list message :=
  [Message false [Loc (Some "../transactiontablemodel.cpp") "+257"]
     "Date" true
     ["Data"];
   Message false [Loc None "+2"]
     "Type" true
     ["Typu"];
   Message false [Loc None "+2"]
     "Label" true
     ["Etykiety"];
   Message false [Loc None "+3"]
     "In" true
     ["Cala"];
   Message false [Loc None "+0"]
     "Out" true
     ["Spośród"];
   Message true [Loc None "+73"]
     "Open for %n more block(s)" true
     ["Otwórz dla% n więcej bloków"; "Otwórz dla% n więcej bloków"; "Otwórz dla% n więcej bloków"; "Otwórz dla% n więcej bloków"];
   Message false [Loc None "+3"]
     "Open until %1" true
     ["Otwarte do% 1"];
   Message false [Loc None "+3"]
     "Unconfirmed" true
     ["Niepotwierdzonych"];
   Message false [Loc None "+4"]
     "Orphaned" true
     ["Osieroconych"];
   Message false [Loc None "+2"]
     "Abandoned" true
     ["Opuszczony"];
   Message false [Loc None "+22"]
     "Confirming (%1 of %2 recommended confirmations)" true
     ["Potwierdzanie (% 1 z% 2 zalecanych potwierdzeń)"];
   Message false [Loc None "+3"]
     "Confirmed (%1 confirmations)" true
     ["Potwierdzone (% 1 potwierdzeń)"];
   Message false [Loc None "+3"]
     "Conflicted" true
     ["Konflikt"];
   Message false [Loc None "+3"]
     "Immature (%1 confirmations, will be available after %2)" true
     ["Niedojrzały (% 1 potwierdzeń, będzie dostępny po% 2)"];
   Message false [Loc None "+3"]
     "Generated but not accepted" true
     ["Generowane, ale nie zaakceptowane"];
   Message false [Loc None "+39"]
     "Received with" true
     ["Otrzymane z"];
   Message false [Loc None "+2"]
     "Received from" true
     ["Otrzymane od"];
   Message false [Loc None "+3"]
     "Sent to" true
     ["Wysłane do"];
   Message false [Loc None "+2"]
     "Payment to yourself" true
     ["Płatność dla siebie"];
   Message false [Loc None "+2"]
     "Airdrop" true
     ["Airdrop"];
   Message false [Loc None "+2"]
     "Staked" true
     ["Postawione"];
   Message false [Loc None "+30"]
     "watch-only" true
     ["tylko do oglądania"];
   Message false [Loc None "+16"]
     "(n/a)" true
     ["(n/a)"];
   Message false [Loc None "+168"]
     "Unlock to show" true
     ["Odblokuj, aby pokazać"];
   Message false [Loc None "+111"]
     "(no label)" true
     ["(bez etykiety)"];
   Message false [Loc None "+42"; Loc None "+14"]
     "Transaction status. Hover over this field to show number of confirmations." true
     ["Stan transakcji. Najedź kursorem na to pole, aby wyświetlić liczbę potwierdzeń."];
   Message false [Loc None "-12"]
     "Date and time that the reward was received." true
     ["Data i godzina otrzymania nagrody."];
   Message false [Loc None "+2"; Loc None "+16"]
     "Whether or not a watch-only address is involved in this transaction." true
     ["Czy adres tylko do zegarka jest zaangażowany w tej transakcji."];
   Message false [Loc None "-14"]
     "Address used for the block solving" true
     ["Adres używany do rozwiązywania bloków"]].

Definition pl_TransactionTableModel_2 : list message :=
  [Message false [Loc None "+2"]
     "Staking reward." true
     ["Wytyczenie nagrody."];
   Message false [Loc None "+8"]
     "Date and time that the transaction was received." true
     ["Data i godzina odebrania transakcji."];
   Message false [Loc None "+2"]
     "Type of transaction." true
     ["Typ transakcji."];
   Message false [Loc None "+4"]
     "User-defined intent/purpose of the transaction." true
     ["Zdefiniowany przez użytkownika zamiar/cel transakcji."];
   Message false [Loc None "+2"]
     "Type of input coin." true
     ["Typ monety wejściowej."];
   Message false [Loc None "+2"]
     "Type of output coin." true
     ["Rodzaj monety wyjściowej."];
   Message false [Loc None "+2"]
     "Amount removed from or added to balance." true
     ["Kwota usunięta z lub dodana do salda."]].

Definition pl_TransactionView_1 : list message :=
  [Message false [Loc (Some "../transactionview.cpp") "+53"; Loc None "+11"; Loc None "+18"]
     "All" true
     ["Wszystkie"];
   Message false [Loc None "-17"]
     "Today" true
     ["Dziś"];
   Message false [Loc None "+1"]
     "This week" true
     ["W tym tygodniu"];
   Message false [Loc None "+1"]
     "This month" true
     ["W tym miesiącu"];
   Message false [Loc None "+1"]
     "Last month" true
     ["W zeszłym miesiącu"];
   Message false [Loc None "+1"]
     "This year" true
     ["W tym roku"];
   Message false [Loc None "+1"]
     "Range..." true
     ["Zakres..."];
   Message false [Loc None "+13"]
     "Received with" true
     ["Otrzymane z"];
   Message false [Loc None "+2"]
     "Sent to" true
     ["Wysłane do"];
   Message false [Loc None "+2"]
     "To yourself" true
     ["Dla siebie"];
   Message false [Loc None "+1"]
     "Other" true
     ["Innych"];
   Message false [Loc None "+1"]
     "Airdrop" true
     ["Airdrop"];
   Message false [Loc None "+5"]
     "Enter address, transaction id, or label to search" true
     ["Wprowadź adres, identyfikator transakcji lub etykietę do wyszukania"];
   Message false [Loc None "+5"]
     "Min amount" true
     ["Minimalna kwota"];
   Message false [Loc None "+52"]
     "Abandon transaction" true
     ["Porzuć transakcję"];
   Message false [Loc None "+1"]
     "Increase transaction fee" true
     ["Zwiększ opłatę transakcyjną"];
   Message false [Loc None "+2"]
     "Copy address" true
     ["Kopiuj adres"];
   Message false [Loc None "+1"]
     "Copy label" true
     ["Kopiuj etykietę"];
   Message false [Loc None "+1"]
     "Copy amount" true
     ["Kopiuj kwotę"];
   Message false [Loc None "+1"]
     "Copy transaction ID" true
     ["Kopiuj identyfikator transakcji"];
   Message false [Loc None "+1"]
     "Copy raw transaction" true
     ["Kopiowanie nieprzetworzonej transakcji"];
   Message false [Loc None "+1"]
     "Copy full transaction details" true
     ["Skopiuj pełne szczegóły transakcji"];
   Message false [Loc None "+1"]
     "Edit label" true
     ["Edytuj etykietę"];
   Message false [Loc None "+1"]
     "Show transaction details" true
     ["Pokaż szczegóły transakcji"];
   Message false [Loc None "+239"]
     "Export Transaction History" true
     ["Historia transakcji eksportu"];
   Message false [Loc None "+1"]
     "Comma separated file (*.csv)" true
     ["Plik rozdzielany przecinkami (*. csv)"];
   Message false [Loc None "+9"]
     "Confirmed" true
     ["Potwierdzone"];
   Message false [Loc None "+2"]
     "Watch-only" true
     ["Tylko do oglądania"];
   Message false [Loc None "+1"]
     "Date" true
     ["Data"]].

Definition pl_TransactionView_2 : list message :=
  [Message false [Loc None "+2"]
     "Type" true
     ["Typu"];
   Message false [Loc None "+2"]
     "Label" true
     ["Etykiety"];
   Message false [Loc None "+1"]
     "Address" true
     ["Adres"];
   Message false [Loc None "+2"]
     "ID" true
     ["Identyfikator"];
   Message false [Loc None "+3"]
     "Exporting Failed" true
     ["Eksportowanie nie powiodło się"];
   Message false [Loc None "+0"]
     "There was an error trying to save the transaction history to %1." true
     ["Wystąpił błąd podczas próby zapisania historii transakcji na% 1."];
   Message false [Loc None "+4"]
     "Exporting Successful" true
     ["Eksportowanie powiodło się"];
   Message false [Loc None "+0"]
     "The transaction history was successfully saved to %1." true
     ["Historia transakcji została pomyślnie zapisana do% 1."];
   Message false [Loc None "+169"]
     "Range:" true
     ["Zakres:"];
   Message false [Loc None "+8"]
     "to" true
     ["do"]].

Definition pl_TxViewDelegate : list message :=
  [Message false [Loc (Some "../overviewpage.cpp") "+95"]
     "Unlock to show" true
     ["Odblokuj, aby pokazać"]].

Definition pl_UnitDisplayStatusBarControl : list message :=
  [Message false [Loc (Some "../bitcoingui.cpp") "+122"]
     "Unit to show amounts in. Click to select another unit." true
     ["Jednostka, aby wyświetlić kwoty w. Kliknij, aby wybrać inną jednostkę."]].

Definition pl_WalletFrame : list message :=
  [Message false [Loc (Some "../walletframe.cpp") "+29"]
     "No wallet has been loaded." true
     ["Nie załadowano portfela."]].

Definition pl_WalletModel : list message :=
  [Message false [Loc (Some "../walletmodel.cpp") "+592"; Loc None "+4"; Loc None "+11"]
     "Wallet Model" true
     ["Model portfela"];
   Message false [Loc None "+65"; Loc None "+39"; Loc None "+6"]
     "Fee bump error" true
     ["Błąd wypukłości opłat"];
   Message false [Loc None "-45"]
     "Increasing transaction fee failed" true
     ["Zwiększenie opłaty transakcyjnej nie powiodło się"];
   Message false [Loc None "+6"]
     "Do you want to increase the fee?" true
     ["Czy chcesz podwyższyć opłatę?"];
   Message false [Loc None "+4"]
     "Current fee:" true
     ["Aktualna opłata:"];
   Message false [Loc None "+4"]
     "Increase:" true
     ["Zwiększyć:"];
   Message false [Loc None "+4"]
     "New fee:" true
     ["Nowa opłata:"];
   Message false [Loc None "+4"]
     "Confirm fee bump" true
     ["Potwierdź podbić opłaty"];
   Message false [Loc None "+17"]
     "Can&apos;t sign transaction." true
     ["Nie można podpisać transakcji."];
   Message false [Loc None "+6"]
     "Could not commit transaction" true
     ["Nie można zatwierdzić transakcji"]].

Definition pl_WalletView : list message :=
  [Message false [Loc (Some "../walletview.cpp") "+46"; Loc None "+1"]
     "&amp;Export" true
     ["&amp; Eksport"];
   Message false [Loc None "+9"; Loc None "+29"]
     "Export the data in the current tab to a file" true
     ["Eksportowanie danych z bieżącej karty do pliku"];
   Message false [Loc None "-19"]
     "Selected amount" true
     ["Wybrana kwota"];
   Message false [Loc None "+290"]
     "Backup Wallet" true
     ["Portfel kopii zapasowych"];
   Message false [Loc None "+1"]
     "Wallet Data (*.dat)" true
     ["Dane portfela (*. dat)"];
   Message false [Loc None "+6"]
     "Backup Failed" true
     ["Niepowodzenie kopii zapasowej"];
   Message false [Loc None "+0"]
     "There was an error trying to save the wallet data to %1." true
     ["Wystąpił błąd podczas próby zapisania danych portfela na% 1."];
   Message false [Loc None "+4"]
     "Backup Successful" true
     ["Pomyślne tworzenie kopii zapasowych"];
   Message false [Loc None "+0"]
     "The wallet data was successfully saved to %1." true
     ["Dane portfela zostały pomyślnie zapisane do% 1."];
   Message false [Loc None "+63"]
     "Cancel" true
     ["Anuluj"]].

Definition pl_bitcoin_core_1 : list message :=
  [Message false [Loc (Some "../bitcoinstrings.cpp") "+12"]
     "Bitcoin Confidential Core" true
     ["Bitcoin poufne rdzeń"];
   Message false [Loc None "+1"]
     "The %s developers" true
     ["Deweloperzy% s"];
   Message false [Loc None "+1"]
     " is spendable from this wallet." true
     ["jest Reserve z tego portfela."];
   Message false [Loc None "+1"]
     "-maxtxfee is set very high! Fees this large could be paid on a single transaction." true
     ["-maxtxfee jest ustawiony bardzo wysoko! Opłaty te duże mogą być wypłacane na jednej transakcji."];
   Message false [Loc None "+3"]
     "Can&apos;t generate a change-address key. Private keys are disabled for this wallet." true
     ["Nie można wygenerować klucza adresu zmiany. Klucze prywatne są wyłączone dla tego portfela."];
   Message false [Loc None "+3"]
     "Cannot obtain a lock on data directory %s. %s is probably already running." true
     ["Nie można uzyskać blokady w katalogu danych% s.% s prawdopodobnie jest już uruchomiony."];
   Message false [Loc None "+2"]
     "Cannot provide specific connections and have addrman find outgoing connections at the same." true
     ["Nie można dostarczyć określonych połączeń i addrman znaleźć połączenia wychodzące w tym samym."];
   Message false [Loc None "+3"]
     "Cannot upgrade a non HD split wallet without upgrading to support pre split keypool. Please use -upgradewallet=169900 or -upgradewallet with no version specified." true
     ["Nie można uaktualnić portfela nie podzielonego na HD bez uaktualniania do obsługi wstępnie podzielonego klucza puli kluczy. Proszę użyć-upgradewallet = 169900 lub-upgradewallet bez określonej wersji."];
   Message false [Loc None "+4"]
     "Distributed under the MIT software license, see the accompanying file %s or %s" true
     ["Rozpowszechniany na licencji oprogramowania MIT, zobacz załączony plik% s lub% s"];
   Message false [Loc None "+3"]
     "Error loading %s: You can&apos;t enable HD on an already existing non-HD wallet" true
     ["Błąd podczas ładowania% s: nie można włączyć HD w istniejącym już portfelu nie-HD"];
   Message false [Loc None "+2"]
     "Error reading %s! All keys read correctly, but transaction data or address book entries might be missing or incorrect." true
     ["Błąd odczytu% s! Wszystkie klucze są odczytywane poprawnie, ale dane transakcji lub wpisy książki adresowej mogą być brakujące lub niepoprawne."];
   Message false [Loc None "+3"]
     "Error: Listening for incoming connections failed (listen returned error %s)" true
     ["Błąd: nasłuchiwanie połączeń przychodzących nie powiodło się (nasłuchiwanie zwróconego błędu% s)"];
   Message false [Loc None "+2"]
     "Fee estimation failed. Fallbackfee is disabled. Wait a few blocks or enable -fallbackfee." true
     ["Szacowanie opłat nie powiodło się. Fallbackfee jest wyłączony. Poczekaj kilka bloków lub Włącz-fallbackfee."];
   Message false [Loc None "+3"]
     "Generate a random master key and main account if no master key exists. (default: %s)" true
     ["Wygeneruj losowy klucz główny i konto główne, jeśli nie istnieje żaden klucz główny. (domyślnie:% s)"];
   Message false [Loc None "+3"]
     "Group outputs by address, selecting all or none, instead of selecting on a per-output basis. Privacy is improved as an address is only used once (unless someone sends to it after spending from it), but may result in slightly higher fees as suboptimal coin selection may result due to the added limitation (default: %u)" true
     ["Grupuj wyjścia według adresu, wybierając wszystkie lub żadne, zamiast wybierać na podstawie na wyjściu. Prywatność jest lepsza, ponieważ adres jest używany tylko raz (chyba, że ktoś wysyła do niego po wydatków z niego), ale może skutkować nieco wyższe opłaty jako warunkami panującymi wyboru monety może wynikać z ograniczenia dodane (domyślnie:% u)"];
   Message false [Loc None "+6"]
     "Invalid amount for -maxtxfee=&lt;amount&gt;: &apos;%s&apos; (must be at least the minrelay fee of %s to prevent stuck transactions)" true
     ["Nieprawidłowa kwota dla-maxtxfee =&lt;amount&gt;: &apos;% s &apos; (musi być co najmniej opłata minrelay% s, aby zapobiec zablokowaniu transakcji)&lt;/amount&gt;"];
   Message false [Loc None "+3"]
     "Milliseconds between stake attempts. Lowering this param will not result in more stakes. (default: 500)" true
     ["Milisekundy między próbami palika. Obniżenie tego parametru nie spowoduje więcej stawek. (domyślnie: 500)"];
   Message false [Loc None "+3"]
     "Not enough spending outputs available in the blockchain for privacy mixing. There are currently %d. For this transaction required: %d" true
     ["Za mało wyjść wydatków dostępnych w Blockchain do mieszania prywatności. Obecnie istnieje% d. Dla tej transakcji wymagane:% d"];
   Message false [Loc None "+3"]
     "Number of threads to start for staking, max 1 per active wallet, will divide wallets evenly between threads (default: 1)" true
     ["Liczba wątków do rozpoczęcia wytykania, maks 1 na aktywny portfel, podzieli portfele równomiernie między wątkami (domyślnie: 1)"];
   Message false [Loc None "+3"]
     "On saving a key from the lookahead pool, save all unsaved keys leading up to it too. (default: %s)" true
     ["Przy zapisywaniu klucza z puli wyprzedzenia Zapisz wszystkie niezapisane klucze prowadzące do niego zbyt. (domyślnie:% s)"];
   Message false [Loc None "+3"]
     "Please check that your computer&apos;s date and time are correct! If your clock is wrong, %s will not work properly." true
     ["Proszę sprawdzić, czy data i godzina Twojego komputera są poprawne! Jeśli zegar jest nieprawidłowy,% s nie będzie działać poprawnie."];
   Message false [Loc None "+3"]
     "Please contribute if you find %s useful. Visit %s for further information about the software." true
     ["Proszę przyczynić się, jeśli okaże% s użyteczne. Aby uzyskać więcej informacji na temat oprogramowania, odwiedź witrynę% s."];
   Message false [Loc None "+3"]
     "Prune configured below the minimum of %d MiB.  Please use a higher number." true
     ["Prune skonfigurowane poniżej minimum% d MiB.  Proszę użyć wyższej liczby."];
   Message false [Loc None "+2"]
     "Prune: last wallet synchronisation goes beyond pruned data. You need to -reindex (download the whole blockchain again in case of pruned node)" true
     ["Prune: Ostatnia synchronizacja portfela wykracza poza przycinane dane. Musisz-reindex (Pobierz cały Blockchain ponownie w przypadku przycinanego węzła)"];
   Message false [Loc None "+3"]
     "Rescans are not possible in pruned mode. You will need to use -reindex which will download the whole blockchain again." true
     ["Reskany nie są możliwe w trybie przycinane. Trzeba będzie użyć-reindex, który będzie pobrać cały Blockchain ponownie."];
   Message false [Loc None "+3"]
     "The block database contains a block which appears to be from the future. This may be due to your computer&apos;s date and time being set incorrectly. Only rebuild the block database if you are sure that your computer&apos;s date and time are correct" true
     ["Baza danych bloków zawiera blok, który wydaje się być z przyszłości. Może to być spowodowane niepoprawnego ustawiania daty i godziny komputera. Odbuduj tylko bazę danych bloków, jeśli masz pewność, że data i godzina komputera są poprawne"];
   Message false [Loc None "+5"]
     "The transaction amount is too small to send after the fee has been deducted" true
     ["Kwota transakcji jest zbyt mała, aby wysłać po odliczeniu opłaty"];
   Message false [Loc None "+2"]
     "This is a pre-release test build - use at your own risk - do not use for mining or merchant applications" true
     ["Jest to pre-release test budować-use na własne ryzyko-nie używać do górnictwa lub aplikacji handlowych"];
   Message false [Loc None "+3"]
     "This is the transaction fee you may discard if change is smaller than dust at this level" true
     ["Jest to opłata transakcyjna, którą możesz odrzucić, jeśli zmiana jest mniejsza niż pył na tym poziomie"]].

Definition pl_bitcoin_core_2 : list message :=
  [Message false [Loc None "+3"]
     "This is the transaction fee you may pay when fee estimates are not available." true
     ["Jest to opłata transakcyjna, którą możesz zapłacić, gdy szacunki opłat nie są dostępne."];
   Message false [Loc None "+2"]
     "This product includes software developed by the OpenSSL Project for use in the OpenSSL Toolkit %s and cryptographic software written by Eric Young and UPnP software written by Thomas Bernard." true
     ["Ten produkt zawiera oprogramowanie opracowane przez OpenSSL Project do użytku w OpenSSL Toolkit% s oraz oprogramowanie kryptograficzne napisane przez Erica Younga i oprogramowanie UPnP napisane przez Thomasa Bernarda."];
   Message false [Loc None "+4"]
     "Total length of network version string (%i) exceeds maximum length (%i). Reduce the number or size of uacomments." true
     ["Całkowita długość ciągu wersji sieciowej (% i) przekracza maksymalną długość (% i). Zmniejsz liczbę lub rozmiar uacomments."];
   Message false [Loc None "+3"]
     "Unable to replay blocks. You will need to rebuild the database using -reindex-chainstate." true
     ["Nie można odtworzyć bloków. Trzeba będzie odbudować bazy danych przy użyciu-reindex-chainstate."];
   Message false [Loc None "+3"]
     "Unable to rewind the database to a pre-fork state. You will need to redownload the blockchain" true
     ["Nie można przewinąć bazy danych do stanu sprzed rozwidlenia. Trzeba będzie ponownie pobrać Blockchain"];
   Message false [Loc None "+3"]
     "Unsupported argument -socks found. Setting SOCKS version isn&apos;t possible anymore, only SOCKS5 proxies are supported." true
     ["Nieobsługiwany argument-znaleziono skarpety. Ustawienie wersji SOCKS nie jest już możliwe, tylko SOCKS5 proxy są obsługiwane."];
   Message false [Loc None "+3"]
     "Unsupported argument -whitelistalwaysrelay ignored, use -whitelistrelay and/or -whitelistforcerelay." true
     ["Nieobsługiwany argument-whitelistalwaysrelay ignorowane, use-whitelistrelay i/lub-whitelistforcerelay."];
   Message false [Loc None "+3"]
     "Warning: Private keys detected in wallet {%s} with disabled private keys" true
     ["Ostrzeżenie: klucze prywatne wykryte w portfelu {% s} z wyłączonymi kluczami prywatnymi"];
   Message false [Loc None "+2"]
     "Warning: The network does not appear to fully agree! Some miners appear to be experiencing issues." true
     ["Ostrzeżenie: sieć nie wydaje się w pełni zgadzać! Niektórzy górnicy wydają się doświadczać problemów."];
   Message false [Loc None "+3"]
     "Warning: Unknown block versions being mined! It&apos;s possible unknown rules are in effect" true
     ["Uwaga: nieznane wersje bloków są wydobywane! Jest to możliwe nieznane zasady są w mocy"];
   Message false [Loc None "+3"]
     "Warning: Wallet file corrupt, data salvaged! Original %s saved as %s in %s; if your balance or transactions are incorrect you should restore from a backup." true
     ["Uwaga: plik portfela uszkodzony, dane odzyskane! Oryginał% s zapisany jako% s w% s; Jeśli saldo lub transakcje są niepoprawne, należy przywrócić z kopii zapasowej."];
   Message false [Loc None "+4"]
     "Warning: We do not appear to fully agree with our peers! You may need to upgrade, or other nodes may need to upgrade." true
     ["Uwaga: nie wydają się w pełni zgadzać się z naszymi rówieśnikami! Może być konieczne uaktualnienie lub inne węzły może być konieczne uaktualnienie."];
   Message false [Loc None "+3"]
     "You need to rebuild the database using -reindex to change -timestampindex" true
     ["Należy odbudować bazy danych przy użyciu-reindex do Change-timestampindex"];
   Message false [Loc None "+2"]
     "You need to rebuild the database using -reindex to go back to unpruned mode.  This will redownload the entire blockchain" true
     ["Należy odbudować bazy danych przy użyciu-reindex, aby powrócić do trybu unpruned.  Spowoduje to ponowne pobranie całego łańcucha bloków"];
   Message false [Loc None "+3"]
     "%d of last 100 blocks have unexpected version" true
     ["% d ostatnich 100 bloków ma nieoczekiwaną wersję"];
   Message false [Loc None "+1"]
     "%s corrupt, salvage failed" true
     ["% s uszkodzony, odzyskiwanie nie powiodło się"];
   Message false [Loc None "+1"]
     "%s is set very high!" true
     ["% s jest ustawione bardzo wysoko!"];
   Message false [Loc None "+1"]
     "-maxmempool must be at least %d MB" true
     ["-maxmempool musi wynosić co najmniej% d MB"];
   Message false [Loc None "+1"]
     "Account chain not found" true
     ["Łańcuch kont nie został znaleziony"];
   Message false [Loc None "+1"]
     "Address &apos;%s&apos; is not in the address book." true
     ["Adres &apos;% s &apos; nie znajduje się w książce adresowej."];
   Message false [Loc None "+1"]
     "Address &apos;%s&apos; is recorded in the address book." true
     ["Adres &apos;% s &apos; jest rejestrowany w książce adresowej."];
   Message false [Loc None "+1"]
     "Anon output not found in db, %d" true
     ["Nie znaleziono wyjścia Anon w DB,% d"];
   Message false [Loc None "+1"]
     "Anon pubkey not found in db, %s" true
     ["Anon pubkey nie znaleziono w DB,% s"];
   Message false [Loc None "+1"]
     "Cannot downgrade wallet" true
     ["Nie można obniżyć portfela"];
   Message false [Loc None "+1"]
     "Cannot resolve -%s address: &apos;%s&apos;" true
     ["Nie można rozpoznać-% s adres: &apos;% s &apos;"];
   Message false [Loc None "+1"]
     "Cannot write to data directory &apos;%s&apos;; check permissions." true
     ["Nie można zapisać do katalogu danych &apos;% s &apos;; sprawdzić uprawnienia."];
   Message false [Loc None "+1"]
     "Change index out of range" true
     ["Zmień indeks poza zakresem"];
   Message false [Loc None "+1"]
     "Confidential chain set but not found" true
     ["Zestaw poufnych łańcuchów, ale nie znaleziono"];
   Message false [Loc None "+1"]
     "Copyright (C)" true
     ["Prawa autorskie (C)"];
   Message false [Loc None "+1"]
     "Corrupted block database detected" true
     ["Wykryto uszkodzony blok bazy danych"]].

Definition pl_bitcoin_core_3 : list message :=
  [Message false [Loc None "+1"]
     "Could not convert prefix to number." true
     ["Nie można przekonwertować prefiksu na numer."];
   Message false [Loc None "+1"]
     "Could not decode scan secret as wif, hex or base58." true
     ["Nie można zdekodować tajne skanowania jako WIF, hex lub base58."];
   Message false [Loc None "+1"]
     "Could not decode spend secret as hex or base58." true
     ["Nie można dekodować wydać tajne jako hex lub base58."];
   Message false [Loc None "+1"]
     "Could not get confidential chain from account." true
     ["Nie można uzyskać poufnego łańcucha z konta."];
   Message false [Loc None "+1"]
     "Could not get scan public key." true
     ["Nie można uzyskać skanowania klucza publicznego."];
   Message false [Loc None "+1"]
     "Could not get spend public key." true
     ["Nie można uzyskać wydać klucz publiczny."];
   Message false [Loc None "+1"]
     "Default account not found" true
     ["Nie znaleziono domyślnego konta"];
   Message false [Loc None "+1"]
     "DeriveNextKey failed" true
     ["Metoda DeriveNextKey nie powiodła się"];
   Message false [Loc None "+1"]
     "Do you want to rebuild the block database now?" true
     ["Czy chcesz teraz odbudować bazę danych bloków?"];
   Message false [Loc None "+1"]
     "Done loading" true
     ["Gotowe ładowanie"];
   Message false [Loc None "+1"]
     "Duplicate index found, %d" true
     ["Znaleziono zduplikowany indeks,% d"];
   Message false [Loc None "+1"]
     "Empty wallet required for import." true
     ["Pusty portfel wymagany do importu."];
   Message false [Loc None "+1"]
     "Ensure available balance remains above reservebalance. (default: 0)" true
     ["Upewnij się, że dostępne saldo pozostaje powyżej rezerwy. (domyślnie: 0)"];
   Message false [Loc None "+1"]
     "EraseSetting failed." true
     ["EraseSetting nie powiodło się."];
   Message false [Loc None "+1"]
     "Error creating %s: You can&apos;t create non-HD wallets with this version." true
     ["Błąd podczas tworzenia% s: nie można tworzyć portfeli innych niż HD z tą wersją."];
   Message false [Loc None "+1"]
     "Error initializing block database" true
     ["Błąd podczas inicjowania bazy danych bloków"];
   Message false [Loc None "+1"]
     "Error initializing wallet database environment %s!" true
     ["Błąd inicjowania środowiska bazy danych portfela% s!"];
   Message false [Loc None "+1"]
     "Error loading %s" true
     ["Błąd podczas ładowania% s"];
   Message false [Loc None "+1"]
     "Error loading %s: Private keys can only be disabled during creation" true
     ["Błąd podczas ładowania% s: klucze prywatne można wyłączyć tylko podczas tworzenia"];
   Message false [Loc None "+1"]
     "Error loading %s: Wallet corrupted" true
     ["Błąd podczas ładowania% s: uszkodzony portfel"];
   Message false [Loc None "+1"]
     "Error loading %s: Wallet requires newer version of %s" true
     ["Błąd podczas ładowania% s: portfel wymaga nowszej wersji% s"];
   Message false [Loc None "+1"]
     "Error loading %s: You can&apos;t disable HD on an already existing HD wallet" true
     ["Błąd podczas ładowania% s: nie można wyłączyć HD na istniejącym już portfelu HD"];
   Message false [Loc None "+1"]
     "Error loading block database" true
     ["Błąd podczas ładowania bazy danych bloków"];
   Message false [Loc None "+1"]
     "Error loading wallet %s. Duplicate -wallet filename specified." true
     ["Wystąpił błąd podczas ładowania portfela% s. określono zduplikowaną nazwę pliku portfela."];
   Message false [Loc None "+1"]
     "Error opening block database" true
     ["Błąd podczas otwierania bazy danych bloków"];
   Message false [Loc None "+1"]
     "Error reading from database, shutting down." true
     ["Błąd odczytu z bazy danych, zamykanie."];
   Message false [Loc None "+1"]
     "Error upgrading chainstate database" true
     ["Błąd podczas uaktualniania chainstate bazy danych"];
   Message false [Loc None "+1"]
     "Error" true
     ["Błąd"];
   Message false [Loc None "+1"]
     "Error: A fatal internal error occurred, see debug.log for details" true
     ["Błąd: Wystąpił krytyczny błąd wewnętrzny, zobacz Debug. log, aby uzyskać szczegółowe informacje"];
   Message false [Loc None "+1"]
     "Error: Disk space is low!" true
     ["Błąd: ilość miejsca na dysku jest niska!"]].

Definition pl_bitcoin_core_4 : list message :=
  [Message false [Loc None "+1"]
     "ExtKeyGetIndex failed." true
     ["Funkcja ExtKeyGetIndex nie powiodła się."];
   Message false [Loc None "+1"]
     "ExtKeySaveAccountToDB failed" true
     ["Niepowodzenie ExtKeySaveAccountToDB"];
   Message false [Loc None "+1"]
     "Failed to listen on any port. Use -listen=0 if you want this." true
     ["Nie można nasłuchiwać na żadnym porcie. Użyj-Listen = 0 Jeśli chcesz to."];
   Message false [Loc None "+1"]
     "Failed to open dongle" true
     ["Nie można otworzyć klucza sprzętowego"];
   Message false [Loc None "+1"]
     "Failed to rescan the wallet during initialization" true
     ["Nie można ponownie przeskanować portfela podczas inicjowania"];
   Message false [Loc None "+1"]
     "Hit nMaxTries limit, %d, %d" true
     ["Limit trafień nMaxTries,% d,% d"];
   Message false [Loc None "+1"]
     "Import failed - AddKeyPubKey failed." true
     ["Importowanie nie powiodło się-AddKeyPubKey nie powiodło się."];
   Message false [Loc None "+1"]
     "Import failed - stealth address exists." true
     ["Importowanie nie powiodło się-adres Stealth istnieje."];
   Message false [Loc None "+1"]
     "Importing..." true
     ["Importowanie..."];
   Message false [Loc None "+1"]
     "Incorrect or no genesis block found. Wrong datadir for network?" true
     ["Nieprawidłowy lub nie znaleziono bloku Genesis. Niewłaściwy datadir dla sieci?"];
   Message false [Loc None "+1"]
     "Information" true
     ["Informacji"];
   Message false [Loc None "+1"]
     "Initialization sanity check failed. %s is shutting down." true
     ["Sprawdzanie sprawdzania, czy nie powiodło się. % s jest zamykany."];
   Message false [Loc None "+1"]
     "Insufficient funds" true
     ["Niewystarczające fundusze"];
   Message false [Loc None "+1"]
     "Insufficient funds." true
     ["Niewystarczające fundusze."];
   Message false [Loc None "+1"]
     "Invalid -onion address or hostname: &apos;%s&apos;" true
     ["Nieprawidłowy-adres lub nazwa hosta cebuli: &apos;% s &apos;"];
   Message false [Loc None "+1"]
     "Invalid -proxy address or hostname: &apos;%s&apos;" true
     ["Nieprawidłowy-adres serwera proxy lub nazwa hosta: &apos;% s &apos;"];
   Message false [Loc None "+1"]
     "Invalid BitcoinC address." true
     ["Nieprawidłowy adres BitcoinC."];
   Message false [Loc None "+1"]
     "Invalid amount for -%s=&lt;amount&gt;: &apos;%s&apos;" true
     ["Nieprawidłowa kwota dla-% s =&lt;amount&gt;: &apos;% s &apos;&lt;/amount&gt;"];
   Message false [Loc None "+1"]
     "Invalid amount for -discardfee=&lt;amount&gt;: &apos;%s&apos;" true
     ["Nieprawidłowa kwota dla-discardfee =&lt;amount&gt;: &apos;% s &apos;&lt;/amount&gt;"];
   Message false [Loc None "+1"]
     "Invalid amount for -fallbackfee=&lt;amount&gt;: &apos;%s&apos;" true
     ["Nieprawidłowa kwota dla-fallbackfee =&lt;amount&gt;: &apos;% s &apos;&lt;/amount&gt;"];
   Message false [Loc None "+1"]
     "Invalid amount for -paytxfee=&lt;amount&gt;: &apos;%s&apos; (must be at least %s)" true
     ["Nieprawidłowa kwota dla-paytxfee =&lt;amount&gt;: &apos;% s &apos; (musi wynosić co najmniej% s)&lt;/amount&gt;"];
   Message false [Loc None "+1"]
     "Invalid amount for -reservebalance=&lt;amount&gt;" true
     ["Nieprawidłowa kwota dla-reservebalance =&lt;amount&gt;&lt;/amount&gt;"];
   Message false [Loc None "+1"]
     "Invalid coldstakingaddress." true
     ["Nieprawidłowy adres coldstakingaddress."];
   Message false [Loc None "+1"]
     "Invalid input key." true
     ["Nieprawidłowy klucz wejściowy."];
   Message false [Loc None "+1"]
     "Invalid key." true
     ["Nieprawidłowy klucz."];
   Message false [Loc None "+1"]
     "Invalid netmask specified in -whitelist: &apos;%s&apos;" true
     ["Nieprawidłowa maska sieci określona w białej liście: &apos;% s &apos;"];
   Message false [Loc None "+1"]
     "Invalid rewardaddress." true
     ["Nieprawidłowy adres rewardaddress."];
   Message false [Loc None "+1"]
     "Keypool ran out, please call keypoolrefill first" true
     ["Keypool zabrakło, proszę zadzwonić keypooluzupełniania pierwszy"];
   Message false [Loc None "+1"]
     "Loading P2P addresses..." true
     ["Wczytywanie adresów P2P..."]].

Definition pl_bitcoin_core_5 : list message :=
  [Message false [Loc None "+1"]
     "Loading address book for %s.
" true
     ["Ładowanie książki adresowej dla% s."];
   Message false [Loc None "+1"]
     "Loading banlist..." true
     ["Ładowanie Banlist..."];
   Message false [Loc None "+1"]
     "Loading block index..." true
     ["Indeks bloków załadunkowych..."];
   Message false [Loc None "+1"]
     "Loading transaction records for %s.
" true
     ["Ładowanie rekordów transakcji dla% s."];
   Message false [Loc None "+1"]
     "Loading wallet..." true
     ["Ładowanie portfela..."];
   Message false [Loc None "+1"]
     "Minimum time in seconds between successful stakes (default: 0)" true
     ["Minimalny czas w sekundach pomiędzy zwycięnymi stawkami (domyślnie: 0)"];
   Message false [Loc None "+1"]
     "Must be json object." true
     ["Musi być obiektem JSON."];
   Message false [Loc None "+1"]
     "Must have account to save keys." true
     ["Musi mieć konto, aby zapisać klucze."];
   Message false [Loc None "+1"]
     "Must input a stealthaddress." true
     ["Musi wprowadzić stealthaddress."];
   Message false [Loc None "+1"]
     "Need a parameter to change." true
     ["Potrzebny jest parametr do zmiany."];
   Message false [Loc None "+1"]
     "Need to specify a port with -whitebind: &apos;%s&apos;" true
     ["Należy określić port z-whitebind: &apos;% s &apos;"];
   Message false [Loc None "+1"]
     "New state must be bool." true
     ["Nowy stan musi być bool."];
   Message false [Loc None "+1"]
     "NewExtKeyFromAccount failed, %s." true
     ["NewExtKeyFromAccount nie powiodło się,% s."];
   Message false [Loc None "+1"]
     "NewExtKeyFromAccount failed." true
     ["NewExtKeyFromAccount nie powiodło się."];
   Message false [Loc None "+1"]
     "NewStealthKeyV2FromAccount failed." true
     ["NewStealthKeyV2FromAccount nie powiodło się."];
   Message false [Loc None "+1"]
     "No default account set." true
     ["Brak domyślnego zestawu kont."];
   Message false [Loc None "+1"]
     "No key for anonoutput, %s" true
     ["Brak klucza dla anonoutput,% s"];
   Message false [Loc None "+1"]
     "Not anon output %s %d" true
     ["Nie Anon Output% s% d"];
   Message false [Loc None "+1"]
     "Not enough file descriptors available." true
     ["Za mało deskryptorów plików dostępnych."];
   Message false [Loc None "+1"]
     "Num inputs per signature out of range" true
     ["Liczba wejść na podpis poza zakresem"];
   Message false [Loc None "+1"]
     "Number of keys to load into the lookahead pool per chain. (default: %u)" true
     ["Liczba kluczy do załadowania do puli wyprzedzenia na łańcuch. (domyślnie:% u)"];
   Message false [Loc None "+1"]
     "Only able to send to stealth address." true
     ["Tylko w stanie wysłać do ukrycia adres."];
   Message false [Loc None "+1"]
     "OpIsCoinstake is not active yet." true
     ["OpIsCoinstake nie jest jeszcze aktywny."];
   Message false [Loc None "+1"]
     "Output isn&apos;t standard." true
     ["Wyjście nie jest standardem."];
   Message false [Loc None "+1"]
     "PrepareTransaction for device failed: %s" true
     ["PrepareTransaction dla urządzenia nie powiodło się:% s"];
   Message false [Loc None "+1"]
     "ProduceSignature from device failed: %s" true
     ["ProduceSignature z urządzenia nie powiodło się:% s"];
   Message false [Loc None "+1"]
     "Prune cannot be configured with a negative value." true
     ["Prune nie można skonfigurować z wartością ujemną."];
   Message false [Loc None "+1"]
     "Prune mode is incompatible with -txindex." true
     ["Tryb prune jest niezgodny z-txindex."];
   Message false [Loc None "+1"]
     "Pruning blockstore..." true
     ["Sklepowych BlockStore..."]].

Definition pl_bitcoin_core_6 : list message :=
  [Message false [Loc None "+1"]
     "ReadStoredTx failed for %s" true
     ["Właściwość ReadStoredTx nie powiodła się dla% s."];
   Message false [Loc None "+1"]
     "Reducing -maxconnections from %d to %d, because of system limitations." true
     ["Zmniejszanie-MaxConnections z% d do% d, z powodu ograniczeń systemowych."];
   Message false [Loc None "+1"]
     "Replaying blocks..." true
     ["Odtwarzanie bloków..."];
   Message false [Loc None "+1"]
     "Rescanning..." true
     ["Ponowne skanowanie..."];
   Message false [Loc None "+1"]
     "Rewinding blocks..." true
     ["Bloki nawijania..."];
   Message false [Loc None "+1"]
     "Ring size out of range [%d, %d]" true
     ["Rozmiar pierścienia poza zakresem [% d,% d]"];
   Message false [Loc None "+1"]
     "Ring size out of range" true
     ["Rozmiar pierścienia poza zakresem"];
   Message false [Loc None "+1"]
     "Scan secret is not 32 bytes." true
     ["Tajny skanowania nie jest 32 bajtów."];
   Message false [Loc None "+1"]
     "SetSetting failed." true
     ["Funkcja SetSetting nie powiodła się."];
   Message false [Loc None "+1"]
     "Signing transaction failed" true
     ["Podpisywanie transakcji nie powiodło się"];
   Message false [Loc None "+1"]
     "Specified -walletdir &quot;%s&quot; does not exist" true
     ["Określony-walletdir &quot;% s&quot; nie istnieje"];
   Message false [Loc None "+1"]
     "Specified -walletdir &quot;%s&quot; is a relative path" true
     ["Określony-walletdir &quot;% s&quot; jest ścieżką względną"];
   Message false [Loc None "+1"]
     "Specified -walletdir &quot;%s&quot; is not a directory" true
     ["Określony-walletdir &quot;% s&quot; nie jest katalogiem"];
   Message false [Loc None "+1"]
     "Specified blocks directory &quot;%s&quot; does not exist." true
     ["Określony katalog bloków &quot;% s&quot; nie istnieje."];
   Message false [Loc None "+1"]
     "Spend secret is not 32 bytes." true
     ["Wydać klucz tajny nie jest 32 bajtów."];
   Message false [Loc None "+1"]
     "Spend secret must be different to scan secret." true
     ["Tajne wydatki muszą być różne dla tajnych skanów."];
   Message false [Loc None "+1"]
     "Stake your coins to support network and gain reward (default: true)" true
     ["Stawka monety do wsparcia sieci i zdobyć nagrodę (domyślnie: prawda)"];
   Message false [Loc None "+1"]
     "Starting network threads..." true
     ["Uruchamianie wątków sieciowych..."];
   Message false [Loc None "+1"]
     "StealthSecret failed, try again." true
     ["StealthSecret nie powiodło się, spróbuj ponownie."];
   Message false [Loc None "+1"]
     "The source code is available from %s." true
     ["Kod źródłowy jest dostępny z% s."];
   Message false [Loc None "+1"]
     "The transaction amount is too small to pay the fee" true
     ["Kwota transakcji jest zbyt mała, aby zapłacić opłatę"];
   Message false [Loc None "+1"]
     "The wallet will avoid paying less than the minimum relay fee." true
     ["Portfel pozwoli uniknąć płacenia mniej niż minimalna opłata za przekaźnik."];
   Message false [Loc None "+1"]
     "This is experimental software." true
     ["Jest to eksperymentalne oprogramowanie."];
   Message false [Loc None "+1"]
     "This is the minimum transaction fee you pay on every transaction." true
     ["Jest to minimalna opłata transakcyjna, jaką płacisz przy każdej transakcji."];
   Message false [Loc None "+1"]
     "This is the transaction fee you will pay if you send a transaction." true
     ["Jest to opłata transakcyjna, którą zapłacisz, Jeśli wyślesz transakcję."];
   Message false [Loc None "+1"]
     "Transaction amount too small" true
     ["Zbyt mała kwota transakcji"];
   Message false [Loc None "+1"]
     "Transaction amounts must not be negative" true
     ["Kwota transakcji nie może być ujemna"];
   Message false [Loc None "+1"]
     "Transaction amounts must not be negative." true
     ["Kwoty transakcji nie może być ujemna."];
   Message false [Loc None "+1"]
     "Transaction fee and change calculation failed" true
     ["Opłata za transakcję i obliczenie zmiany nie powiodło się"];
   Message false [Loc None "+1"]
     "Transaction fee and change calculation failed." true
     ["Opłata transakcyjna i obliczanie zmian nie powiodło się."]].

Definition pl_bitcoin_core_7 : list message :=
  [Message false [Loc None "+1"]
     "Transaction has too long of a mempool chain" true
     ["Transakcja ma zbyt długi łańcuch mempool"];
   Message false [Loc None "+1"]
     "Transaction must have at least one recipient" true
     ["Transakcja musi mieć co najmniej jednego odbiorcę"];
   Message false [Loc None "+1"]
     "Transaction must have at least one recipient." true
     ["Transakcja musi mieć co najmniej jednego odbiorcę."];
   Message false [Loc None "+1"]
     "Transaction too large for fee policy" true
     ["Transakcja za duża dla polityki opłat"];
   Message false [Loc None "+1"]
     "Transaction too large for fee policy." true
     ["Transakcja za duża dla polityki opłat."];
   Message false [Loc None "+1"]
     "Transaction too large" true
     ["Zbyt duża transakcja"];
   Message false [Loc None "+1"]
     "TxnBegin failed." true
     ["TxnBegin nie powiodło się."];
   Message false [Loc None "+1"]
     "Unable to bind to %s on this computer (bind returned error %s)" true
     ["Nie można powiązać z% s na tym komputerze (bind zwrócił błąd% s)"];
   Message false [Loc None "+1"]
     "Unable to bind to %s on this computer. %s is probably already running." true
     ["Nie można powiązać z% s na tym komputerze. prawdopodobnie% s jest już uruchomione."];
   Message false [Loc None "+1"]
     "Unable to generate initial keys" true
     ["Nie można wygenerować kluczy początkowych"];
   Message false [Loc None "+1"]
     "Unable to generate keys" true
     ["Nie można wygenerować kluczy"];
   Message false [Loc None "+1"]
     "Unable to start HTTP server. See debug log for details." true
     ["Nie można uruchomić serwera HTTP. Zobacz dziennik debugowania, aby uzyskać szczegółowe informacje."];
   Message false [Loc None "+1"]
     "Unknown account." true
     ["Nieznane konto."];
   Message false [Loc None "+1"]
     "Unknown action, must be one of &apos;add/edit/del&apos;." true
     ["Nieznana akcja, musi być jedną z &quot;Dodaj/Edytuj/del&quot;."];
   Message false [Loc None "+1"]
     "Unknown argument for 256bithash: %s." true
     ["Nieznany argument dla 256bithash:% s."];
   Message false [Loc None "+1"]
     "Unknown argument for add_to_addressbook: %s." true
     ["Nieznany argument dla add_to_addressbook:% s."];
   Message false [Loc None "+1"]
     "Unknown chain." true
     ["Nieznany łańcuch."];
   Message false [Loc None "+1"]
     "Unknown input key version." true
     ["Nieznana wersja klucza wejściowego."];
   Message false [Loc None "+1"]
     "Unknown network specified in -onlynet: &apos;%s&apos;" true
     ["Nieznana sieć określona w-onlynet: &apos;% s &apos;"];
   Message false [Loc None "+1"]
     "Unknown setting" true
     ["Nieznane ustawienie"];
   Message false [Loc None "+1"]
     "Unsupported argument -benchmark ignored, use -debug=bench." true
     ["Nieobsługiwany argument-Benchmark ignorowane, use-Debug = ławce."];
   Message false [Loc None "+1"]
     "Unsupported argument -debugnet ignored, use -debug=net." true
     ["Nieobsługiwany argument-debugnet ignorowane, use-Debug = net."];
   Message false [Loc None "+1"]
     "Unsupported argument -debugnet ignored, use -debug=smsg." true
     ["Nieobsługiwany argument-debugnet ignorowane, użyj-Debug = sMsg."];
   Message false [Loc None "+1"]
     "Unsupported argument -tor found, use -onion." true
     ["Nieobsługiwany argument-tor znaleziony, użyj-cebula."];
   Message false [Loc None "+1"]
     "Unsupported logging category %s=%s." true
     ["Nieobsługiwany rejestrowanie kategorii% s =% s."];
   Message false [Loc None "+1"]
     "Upgrading txindex database" true
     ["Uaktualnianie bazy danych txindex"];
   Message false [Loc None "+1"]
     "User Agent comment (%s) contains unsafe characters." true
     ["Komentarz agenta użytkownika (% s) zawiera znaki niebezpieczne."];
   Message false [Loc None "+1"]
     "Verifying blocks..." true
     ["Weryfikowanie bloków..."];
   Message false [Loc None "+1"]
     "Verifying wallet(s)..." true
     ["Weryfikacja portfela (ów)..."];
   Message false [Loc None "+1"]
     "Wallet %s resides outside wallet directory %s" true
     ["Portfel% s znajduje się poza katalogiem portfela% s"]].

Definition pl_bitcoin_core_8 : list message :=
  [Message false [Loc None "+1"]
     "Wallet has no active master key." true
     ["Portfel nie ma aktywnego klucza głównego."];
   Message false [Loc None "+1"]
     "Wallet must be unlocked." true
     ["Portfel musi być odblokowany."];
   Message false [Loc None "+1"]
     "Wallet must have a default account set." true
     ["Portfel musi mieć domyślny zestaw kont."];
   Message false [Loc None "+1"]
     "Wallet needed to be rewritten: restart %s to complete" true
     ["Portfel trzeba przepisać: restart% s do ukończenia"];
   Message false [Loc None "+1"]
     "Warning" true
     ["Ostrzeżenie"];
   Message false [Loc None "+1"]
     "Warning: unknown new rules activated (versionbit %i)" true
     ["Ostrzeżenie: nieznane nowe reguły aktywowane (versionbit% i)"];
   Message false [Loc None "+1"]
     "You need to rebuild the database using -reindex to change -addressindex" true
     ["Należy odbudować bazy danych przy użyciu-reindex zmienić-addressindex"];
   Message false [Loc None "+1"]
     "You need to rebuild the database using -reindex to change -spentindex" true
     ["Należy odbudować bazy danych przy użyciu-reindex zmienić-spentindex"];
   Message false [Loc None "+1"]
     "Zapping all transactions from wallet..." true
     ["Zapping wszystkie transakcje z portfela..."];
   Message false [Loc None "+1"]
     "accounts missing." true
     ["Brak kont."];
   Message false [Loc None "+1"]
     "accounts must be an array." true
     ["accounts musi być tablicą."];
   Message false [Loc None "+1"]
     "add_to_addressbook can&apos;t be set without save" true
     ["add_to_addressbook nie można ustawić bez zapisywania"];
   Message false [Loc None "+1"]
     "address_standard must be a string." true
     ["address_standard musi być ciągiem."];
   Message false [Loc None "+1"]
     "bad childNo." true
     ["zły childNo."];
   Message false [Loc None "+1"]
     "bech32 encode failed." true
     ["bech32 kodowania nie powiodło się."];
   Message false [Loc None "+1"]
     "coldstakingaddress can&apos;t be a stealthaddress." true
     ["coldstakingaddress nie może być stealthaddress."];
   Message false [Loc None "+1"]
     "coldstakingaddress must be a string." true
     ["coldstakingaddress musi być ciągiem."];
   Message false [Loc None "+1"]
     "extkey must have private key to derive hardened keys." true
     ["extkey musi mieć klucz prywatny do uzyskania hartowane klucze."];
   Message false [Loc None "+1"]
     "foundationdonationpercent must be a number." true
     ["foundationdonationpercent musi być liczbą."];
   Message false [Loc None "+1"]
     "height must be a number." true
     ["Wysokość musi być liczbą."];
   Message false [Loc None "+1"]
     "loose_extkeys missing." true
     ["loose_extkeys brakuje."];
   Message false [Loc None "+1"]
     "loose_extkeys must be an array." true
     ["loose_extkeys musi być tablicą."];
   Message false [Loc None "+1"]
     "num_derives to int failed." true
     ["num_derives do int nie powiodło się."];
   Message false [Loc None "+1"]
     "num_derives_h to int failed." true
     ["num_derives_h do int nie powiodło się."];
   Message false [Loc None "+1"]
     "num_prefix_bits invalid number." true
     ["num_prefix_bits nieprawidłowy numer."];
   Message false [Loc None "+1"]
     "num_prefix_bits must be &lt;= 32." true
     ["num_prefix_bits musi być&lt;= 32.&gt;&lt;/= 32.&gt;"];
   Message false [Loc None "+1"]
     "rewardaddress must be a string." true
     ["rewardaddress musi być ciągiem."];
   Message false [Loc None "+1"]
     "secp256k1_generate_mlsag failed %d" true
     ["secp256k1_generate_mlsag nie powiodło się% d"];
   Message false [Loc None "+1"]
     "secp256k1_get_keyimage failed %d" true
     ["secp256k1_get_keyimage nie powiodło się% d"];
   Message false [Loc None "+1"]
     "secp256k1_prepare_mlsag failed %d" true
     ["secp256k1_prepare_mlsag nie powiodło się% d"]].

Definition pl_bitcoin_core_9 : list message :=
  [Message false [Loc None "+1"]
     "stakecombinethreshold can&apos;t be negative." true
     ["stakecombinethreshold nie może być ujemna."];
   Message false [Loc None "+1"]
     "stakesplitthreshold can&apos;t be negative." true
     ["wartość nie może być ujemna."]].

(** The whole document. *)
Definition bitcoin_pl_PL : catalogue :=
  [Context "AddressBookPage" (pl_AddressBookPage_1 ++ pl_AddressBookPage_2);
   Context "AddressTableModel" (pl_AddressTableModel);
   Context "AskPassphraseDialog" (pl_AskPassphraseDialog_1 ++ pl_AskPassphraseDialog_2);
   Context "BanTableModel" (pl_BanTableModel);
   Context "BitcoinGUI" (pl_BitcoinGUI_1 ++ pl_BitcoinGUI_2 ++ pl_BitcoinGUI_3 ++ pl_BitcoinGUI_4);
   Context "CoinControlDialog" (pl_CoinControlDialog_1 ++ pl_CoinControlDialog_2);
   Context "EditAddressDialog" (pl_EditAddressDialog);
   Context "FreespaceChecker" (pl_FreespaceChecker);
   Context "HelpMessageDialog" (pl_HelpMessageDialog);
   Context "Intro" (pl_Intro);
   Context "MnemonicDialog" (pl_MnemonicDialog_1 ++ pl_MnemonicDialog_2);
   Context "ModalOverlay" (pl_ModalOverlay);
   Context "OpenURIDialog" (pl_OpenURIDialog);
   Context "OptionsDialog" (pl_OptionsDialog_1 ++ pl_OptionsDialog_2 ++ pl_OptionsDialog_3);
   Context "OverviewPage" (pl_OverviewPage);
   Context "PaymentServer" (pl_PaymentServer);
   Context "PeerTableModel" (pl_PeerTableModel);
   Context "QObject" (pl_QObject);
   Context "QObject::QObject" (pl_QObject__QObject);
   Context "QRImageWidget" (pl_QRImageWidget);
   Context "RPCConsole" (pl_RPCConsole_1 ++ pl_RPCConsole_2 ++ pl_RPCConsole_3);
   Context "ReceiveCoinsDialog" (pl_ReceiveCoinsDialog);
   Context "ReceiveRequestDialog" (pl_ReceiveRequestDialog);
   Context "RecentRequestsTableModel" (pl_RecentRequestsTableModel);
   Context "SendCoinsDialog" (pl_SendCoinsDialog_1 ++ pl_SendCoinsDialog_2 ++ pl_SendCoinsDialog_3);
   Context "SendCoinsEntry" (pl_SendCoinsEntry_1 ++ pl_SendCoinsEntry_2);
   Context "SendConfirmationDialog" (pl_SendConfirmationDialog);
   Context "ShutdownWindow" (pl_ShutdownWindow);
   Context "SignVerifyMessageDialog" (pl_SignVerifyMessageDialog_1 ++ pl_SignVerifyMessageDialog_2);
   Context "SplashScreen" (pl_SplashScreen);
   Context "StakingDialog" (pl_StakingDialog_1 ++ pl_StakingDialog_2);
   Context "TrafficGraphWidget" (pl_TrafficGraphWidget);
   Context "TransactionDesc" (pl_TransactionDesc_1 ++ pl_TransactionDesc_2);
   Context "TransactionDescDialog" (pl_TransactionDescDialog);
   Context "TransactionTableModel" (pl_TransactionTableModel_1 ++ pl_TransactionTableModel_2);
   Context "TransactionView" (pl_TransactionView_1 ++ pl_TransactionView_2);
   Context "TxViewDelegate" (pl_TxViewDelegate);
   Context "UnitDisplayStatusBarControl" (pl_UnitDisplayStatusBarControl);
   Context "WalletFrame" (pl_WalletFrame);
   Context "WalletModel" (pl_WalletModel);
   Context "WalletView" (pl_WalletView);
   Context "bitcoin-core" (pl_bitcoin_core_1 ++ pl_bitcoin_core_2 ++ pl_bitcoin_core_3 ++ pl_bitcoin_core_4 ++ pl_bitcoin_core_5 ++ pl_bitcoin_core_6 ++ pl_bitcoin_core_7 ++ pl_bitcoin_core_8 ++ pl_bitcoin_core_9)].
