(* ===== verification/CataloguePt.v ===== *)
(** The Portuguese catalogue, [src/src/qt/locale/bitcoin_pt.ts], context by context; a long
    context is cut into parts.  Texts are as in the file. *)
From S2P Require Import Prelude Locale.
Open Scope txt_scope.
Open Scope list_scope.

Definition pt_AddressBookPage_1 : list message :=
  [Message false [Loc (Some "../forms/addressbookpage.ui") "+27"]
     "Enter address or label to search" true
     ["Insira o endereço ou nome para pesquisar"];
   Message false [Loc None "+10"]
     "Right-click to edit address or label" true
     ["Clique com o botão direito do mouse para editar endereço ou nome"];
   Message false [Loc None "+30"; Loc None "+17"; Loc None "+17"]
     "Create a new address" true
     ["Criar um novo endereço"];
   Message false [Loc None "-31"]
     "&amp;New" true
     ["&amp;Novo"];
   Message false [Loc None "+17"]
     "&amp;New Stake address" true
     ["&amp;Novo endereço de stake"];
   Message false [Loc None "+17"]
     "&amp;New ColdStake address" true
     ["&amp;Novo endereço ColdStake"];
   Message false [Loc None "+14"]
     "Copy the currently selected address to the system clipboard" true
     ["Copie o endereço selecionado no momento para a área de transferência do sistema"];
   Message false [Loc None "+3"]
     "&amp;Copy" true
     ["&amp;Copiar"];
   Message false [Loc None "+14"]
     "Delete the currently selected address from the list" true
     ["Excluir o endereço atualmente selecionado da lista"];
   Message false [Loc None "+3"]
     "&amp;Delete" true
     ["&amp;Excluir"];
   Message false [Loc None "+27"]
     "Export the data in the current tab to a file" true
     ["Exporte os dados na guia atual para um arquivo"];
   Message false [Loc None "+3"]
     "&amp;Export" true
     ["&amp;Exportar"];
   Message false [Loc None "+20"]
     "C&amp;lose" true
     ["F&amp;echar"];
   Message false [Loc (Some "../addressbookpage.cpp") "+84"]
     "These are your Bitcoin Confidential addresses for sending payments. Always check the amount and the receiving address before sending coins." true
     ["Estes são os seus endereços Bitcoin Confidencial para o envio de pagamentos. Verifique sempre o valor e o endereço de recebimento antes de enviar moedas."];
   Message false [Loc None "+8"]
     "Choose the address to send coins to" true
     ["Escolha o endereço para enviar moedas"];
   Message false [Loc None "+4"; Loc None "+22"; Loc None "+28"]
     "C&amp;hoose" true
     ["E&amp;scolha"];
   Message false [Loc None "-44"]
     "Sending addresses" true
     ["Endereços de envio"];
   Message false [Loc None "+12"]
     "Choose the address to receive coins with" true
     ["Escolha o endereço para receber moedas"];
   Message false [Loc None "+10"]
     "Receiving addresses" true
     ["Endereços de recebimento"];
   Message false [Loc None "+1"]
     "These are your Bitcoin Confidential addresses for receiving payments. It is recommended to use a new receiving address for each transaction." true
     ["Estes são os seus endereços Bitcoin Confidencial para receber pagamentos. É recomendável usar um novo endereço de recebimento para cada transação."];
   Message false [Loc None "+13"]
     "Choose the Stake or ColdStake address" true
     ["Escolha o endereço de stake ou de ColdStake"];
   Message false [Loc None "+1"]
     "These are your Bitcoin Confidential Stake and ColdStake addresses." true
     ["Estes são os seus endereços Bitcoin Confidencial stake e ColdStake."];
   Message false [Loc None "+16"]
     "Stake and ColdStake addresses" true
     ["Endereços de stake e de ColdStake"];
   Message false [Loc None "+1"]
     "These addresses cannot be used to receive coins from outside the wallet, such as payments or from exchanges.  Use the Receive tab to generate spending addresses.

Stake addresses, starting with &quot;%1&quot;, are used to convert spending funds into staking funds in the &quot;Convert to Staking&quot; tab. Funds in Stake addresses can be either used for hot staking or the activation of ColdStaking.

ColdStake addresses, starting with &quot;%2&quot;, are used to manually activate staking funds for ColdStaking. There is no need to generate ColdStake addresses when the automated ColdStaking activation from the Staking Status page is used." true
     ["Esses endereços não podem ser usados para receber moedas de fora da carteira, como pagamentos ou trocas.  Use a guia receber para gerar endereços de gastos.

Os endereços de stake, começando com &quot;%1&quot;, são usados para converter fundos de gastos em fundos de Staking na aba &quot;Convert to Staking&quot;. os fundos em endereços de stake podem ser usados para o Staking quente ou a ativação de ColdStaking.

Os endereços da ColdStake, começando com &quot;%2&quot;, são usados para ativar manualmente os fundos de Staking para o ColdStaking. Não há necessidade de gerar endereços ColdStake quando a ativação automatizada do ColdStaking da página status de Staking é usada."];
   Message false [Loc None "+11"]
     "&amp;Copy Address" true
     ["&amp;Copiar endereço"];
   Message false [Loc None "+1"]
     "Copy &amp;Label" true
     ["Copiar &amp;Nome"];
   Message false [Loc None "+1"]
     "&amp;Edit" true
     ["&amp;Editar"]].

Definition pt_AddressBookPage_2 : list message :=
  [Message false [Loc None "+186"]
     "Export Address List" true
     ["Exportar lista de endereços"];
   Message false [Loc None "+1"]
     "Comma separated file (*.csv)" true
     ["Arquivo separado por vírgula (*. csv)"];
   Message false [Loc None "+13"]
     "Exporting Failed" true
     ["Exportação falhou"];
   Message false [Loc None "+1"]
     "There was an error trying to save the address list to %1. Please try again." true
     ["Houve um erro ao tentar salvar a lista de endereços como %1. Por favor, tente novamente."]].

Definition pt_AddressTableModel : list message :=
  [Message false [Loc (Some "../addresstablemodel.cpp") "+188"]
     "Label" true
     ["Nome"];
   Message false [Loc None "+0"]
     "Address" true
     ["Endereço"];
   Message false [Loc None "+36"]
     "(no label)" true
     ["(sem nome)"]].

Definition pt_AskPassphraseDialog_1 : list message :=
  [Message false [Loc (Some "../forms/askpassphrasedialog.ui") "+26"]
     "Passphrase Dialog" true
     ["Janela de senha"];
   Message false [Loc None "+30"]
     "Enter passphrase" true
     ["Digite a senha"];
   Message false [Loc None "+14"]
     "New passphrase" true
     ["Nova senha"];
   Message false [Loc None "+14"]
     "Repeat new passphrase" true
     ["Repita a nova senha"];
   Message false [Loc None "+14"]
     "Show password" true
     ["Mostrar a senha"];
   Message false [Loc None "+23"]
     "Unlock For Staking Only" true
     ["Destrave para Staking somente"];
   Message false [Loc (Some "../askpassphrasedialog.cpp") "+48"]
     "Enter the new passphrase to the wallet.&lt;br/&gt;Please use a passphrase of &lt;b&gt;ten or more random characters&lt;/b&gt;, or &lt;b&gt;eight or more words&lt;/b&gt;." true
     ["Introduza a nova senha de acesso à carteira.&lt;br&gt;Por favor, use uma senha de &lt;b&gt;dez ou mais caracteres aleatórios&lt;/b&gt;, ou &lt;b&gt;oito ou mais palavras&lt;/b&gt;."];
   Message false [Loc None "+3"]
     "Encrypt wallet" true
     ["Criptografar carteira"];
   Message false [Loc None "+3"; Loc None "+8"]
     "This operation needs your wallet passphrase to unlock the wallet." true
     ["Esta operação precisa da senha da sua carteira para desbloquear a carteira."];
   Message false [Loc None "-3"; Loc None "+9"]
     "Unlock wallet" true
     ["Desbloquear carteira"];
   Message false [Loc None "+3"]
     "This operation needs your wallet passphrase to decrypt the wallet." true
     ["Esta operação precisa da senha da sua carteira para descriptografar a carteira."];
   Message false [Loc None "+5"]
     "Decrypt wallet" true
     ["Descriptografar carteira"];
   Message false [Loc None "+3"]
     "Change passphrase" true
     ["Alterar senha"];
   Message false [Loc None "+1"]
     "Enter the old passphrase and new passphrase to the wallet." true
     ["Digite a senha antiga e a nova senha para a carteira."];
   Message false [Loc None "+47"]
     "Confirm wallet encryption" true
     ["Confirme a encriptação da carteira"];
   Message false [Loc None "+1"]
     "Warning: If you encrypt your wallet and lose your passphrase, you will &lt;b&gt;LOSE ALL OF YOUR BITCOIN CONFIDENTIAL&lt;/b&gt;!" true
     ["Aviso: se você criptografar sua carteira e perder sua senha, você &lt;b&gt;PERDERÁ TODO O SEU BITCOIN CONFIDENTIAL&lt;/b&gt;!"];
   Message false [Loc None "+0"]
     "Are you sure you wish to encrypt your wallet?" true
     ["Tem certeza de que deseja criptografar sua carteira?"];
   Message false [Loc None "+9"; Loc None "+59"]
     "Wallet encrypted" true
     ["Carteira criptografada"];
   Message false [Loc None "-57"]
     "%1 will close now to finish the encryption process. Remember that encrypting your wallet cannot fully protect your Bitcoin Confidential from being stolen by malware infecting your computer." true
     ["%1 fechará agora para finalizar o processo de criptografia. Lembre-se de que criptografar sua carteira não irá proteger totalmente seu Bitcoin Confidential de ser roubado por malware infectando seu computador."];
   Message false [Loc None "+4"]
     "IMPORTANT: Any previous backups you have made of your wallet file should be replaced with the newly generated, encrypted wallet file. For security reasons, previous backups of the unencrypted wallet file will become useless as soon as you start using the new, encrypted wallet." true
     ["IMPORTANTE: os backups anteriores que você fez do seu arquivo de carteira devem ser substituídos pelo arquivo de carteira criptografado recém-gerado. Por motivos de segurança, os backups anteriores do arquivo da carteira não criptografada se tornarão inúteis assim que você começar a usar a nova carteira criptografada."];
   Message false [Loc None "+9"; Loc None "+7"; Loc None "+43"; Loc None "+6"]
     "Wallet encryption failed" true
     ["Falha na encriptação da carteira"];
   Message false [Loc None "-55"]
     "Wallet encryption failed due to an internal error. Your wallet was not encrypted." true
     ["A encriptação da carteira falhou devido a um erro interno. Sua carteira não foi criptografada."];
   Message false [Loc None "+7"; Loc None "+49"]
     "The supplied passphrases do not match." true
     ["As senhas fornecidas não coincidem."];
   Message false [Loc None "-37"]
     "Wallet unlock failed" true
     ["Desbloqueio da carteira falhou"];
   Message false [Loc None "+1"; Loc None "+11"; Loc None "+19"]
     "The passphrase entered for the wallet decryption was incorrect." true
     ["A senha digitada para a descriptografia da carteira estava incorreta."];
   Message false [Loc None "-20"]
     "Wallet decryption failed" true
     ["Falha na descriptografia da carteira"];
   Message false [Loc None "+14"]
     "Wallet passphrase was successfully changed." true
     ["A senha da carteira foi alterada com sucesso."]].

Definition pt_AskPassphraseDialog_2 : list message :=
  [Message false [Loc None "+48"; Loc None "+33"]
     "Warning: The Caps Lock key is on!" true
     ["Aviso: a tecla Caps Lock está ligada!"]].

Definition pt_BanTableModel : list message :=
  [Message false [Loc (Some "../bantablemodel.cpp") "+88"]
     "IP/Netmask" true
     ["IP/máscara de rede"];
   Message false [Loc None "+0"]
     "Banned Until" true
     ["Banido até"]].

Definition pt_BitcoinGUI_1 : list message :=
  [Message false [Loc (Some "../bitcoingui.cpp") "+94"]
     "Wallet" true
     ["Carteira"];
   Message false [Loc None "+2"]
     "Node" true
     ["Nó"];
   Message false [Loc None "+169"]
     "Overview" true
     ["Visão geral"];
   Message false [Loc None "+1"]
     "Show general overview of wallet" true
     ["Mostrar visão geral da carteira"];
   Message false [Loc None "+7"]
     "Send" true
     ["Enviar"];
   Message false [Loc None "+1"]
     "Send coins to a Bitcoin Confidential Spending address" true
     ["Enviar moedas para um endereço de gastos Bitcoin Confidential"];
   Message false [Loc None "+11"]
     "Receive" true
     ["Receber"];
   Message false [Loc None "+1"]
     "Request payments (generates Spending address QR codes and bitcoinc: URIs)" true
     ["Solicitar pagamentos (gera códigos QR de endereço de gastos e bitcoinc: URIs)"];
   Message false [Loc None "+11"]
     "Transactions" true
     ["Transações"];
   Message false [Loc None "+1"]
     "Browse transaction history" true
     ["Navegar pelo histórico de transações"];
   Message false [Loc None "+7"]
     "Staking" true
     ["Staking"];
   Message false [Loc None "+1"]
     "Setup staking" true
     ["Configuração de Staking"];
   Message false [Loc None "+25"]
     "E&amp;xit" true
     ["S&amp;air"];
   Message false [Loc None "+1"]
     "Quit application" true
     ["Sair do aplicativo"];
   Message false [Loc None "+3"]
     "&amp;About %1" true
     ["&amp;Sobre %1"];
   Message false [Loc None "+1"]
     "Show information about %1" true
     ["Mostrar informações sobre %1"];
   Message false [Loc None "+3"]
     "About &amp;Qt" true
     ["Sobre &amp; Qt"];
   Message false [Loc None "+1"]
     "Show information about Qt" true
     ["Mostrar informações sobre Qt"];
   Message false [Loc None "+2"]
     "&amp;Options..." true
     ["&amp;Opções..."];
   Message false [Loc None "+1"]
     "Modify configuration options for %1" true
     ["Modificar opções de configuração para %1"];
   Message false [Loc None "+3"]
     "&amp;Show / Hide" true
     ["&amp;Mostrar/Ocultar"];
   Message false [Loc None "+1"]
     "Show or hide the main Window" true
     ["Mostrar ou ocultar a janela principal"];
   Message false [Loc None "+2"]
     "&amp;Encrypt Wallet..." true
     ["&amp;Criptografar carteira..."];
   Message false [Loc None "+1"]
     "Encrypt the private keys that belong to your wallet" true
     ["Criptografar as chaves privadas que pertencem à sua carteira"];
   Message false [Loc None "+2"]
     "&amp;Backup Wallet..." true
     ["&amp;Carteira de backup..."];
   Message false [Loc None "+1"]
     "Backup wallet to another location" true
     ["Backup da carteira para outro local"];
   Message false [Loc None "+1"]
     "&amp;Change Passphrase..." true
     ["&amp;Alterar a senha..."];
   Message false [Loc None "+1"]
     "Change the passphrase used for wallet encryption" true
     ["Alterar a senha usada para criptografia de carteira"];
   Message false [Loc None "+1"]
     "Sign &amp;message..." true
     ["Assinar &amp; mensagem..."]].

Definition pt_BitcoinGUI_2 : list message :=
  [Message false [Loc None "+1"]
     "Sign messages with your Bitcoin Confidential addresses to prove you own them" true
     ["Assine mensagens com seus endereços Bitcoin Confidential para provar que você os possui"];
   Message false [Loc None "+1"]
     "&amp;Verify message..." true
     ["&amp;Verificar mensagem..."];
   Message false [Loc None "+1"]
     "Verify messages to ensure they were signed with specified Bitcoin Confidential addresses" true
     ["Verificar mensagens para garantir que eles foram assinados com endereços de Bitcoin confidenciais especificados"];
   Message false [Loc None "+2"]
     "&amp;Debug window" true
     ["&amp;Janela de depuração"];
   Message false [Loc None "+1"]
     "Open debugging and diagnostic console" true
     ["Abra a depuração e o console de diagnóstico"];
   Message false [Loc None "+4"]
     "&amp;Sending addresses..." true
     ["&amp;Endereços de envio..."];
   Message false [Loc None "+1"]
     "Show the list of used sending addresses and labels" true
     ["Mostrar a lista de endereços e nomes de envio usados"];
   Message false [Loc None "+1"]
     "&amp;Receiving addresses..." true
     ["&amp;Endereços de recebimento..."];
   Message false [Loc None "+1"]
     "Show the list of used receiving addresses and labels" true
     ["Mostrar a lista de endereços e nomes de recebimento usados"];
   Message false [Loc None "+2"]
     "Open &amp;URI..." true
     ["Abrir &amp;URI..."];
   Message false [Loc None "+1"]
     "Open a bitcoinc: URI or payment request" true
     ["Abrir um bitcoinc: URI ou solicitação de pagamento"];
   Message false [Loc None "+2"]
     "&amp;Command-line options" true
     ["&amp;Opções de linha de comando"];
   Message false [Loc None "+2"]
     "Show the %1 help message to get a list with possible Bitcoin Confidential command-line options" true
     ["Mostrar a mensagem de ajuda %1 para obter uma lista com possíveis opções de linha de comando do Bitcoin Confidential"];
   Message false [Loc None "+2"]
     "&amp;HD Wallet..." true
     ["&amp;Carteira HD..."];
   Message false [Loc None "+45"]
     "&amp;File" true
     ["&amp;Arquivo"];
   Message false [Loc None "+16"]
     "&amp;Settings" true
     ["&amp;Configurações"];
   Message false [Loc None "+9"]
     "&amp;Help" true
     ["&amp;Ajuda"];
   Message false [Loc None "+15"]
     "Tabs toolbar" true
     ["Barra de ferramentas"];
   Message false [Loc None "+113"]
     "default wallet" true
     ["carteira padrão"];
   Message false [Loc None "+88"]
     "%1 client" true
     ["%1 cliente"];
   Message true [Loc None "+189"]
     "%n active connection(s) to Bitcoin Confidential network" true
     ["% n conexão ativa (s) à rede confidencial de Bitcoin"; "% n conexão ativa (s) à rede Bitcoin Confidential"];
   Message false [Loc None "+0"]
     "Click to disable network activity." true
     ["Clique para desabilitar a atividade de rede."];
   Message false [Loc None "+2"]
     "Network activity disabled." true
     ["Atividade de rede desativada."];
   Message false [Loc None "+0"]
     "Click to enable network activity again." true
     ["Clique para ativar a atividade de rede novamente."];
   Message false [Loc None "+28"]
     "Syncing Headers (%1%)..." true
     ["Sincronizando cabeçalhos (%1%)..."];
   Message false [Loc None "+26"]
     "Synchronizing with network..." true
     ["Sincronizando com a rede..."];
   Message false [Loc None "+5"]
     "Indexing blocks on disk..." true
     ["Indexação de blocos no disco..."];
   Message false [Loc None "+2"]
     "Processing blocks on disk..." true
     ["Processando blocos no disco..."];
   Message false [Loc None "+4"]
     "Reindexing blocks on disk..." true
     ["Reindexação de blocos no disco..."];
   Message false [Loc None "+6"]
     "Connecting to peers..." true
     ["Conectando-se a pares..."]].

Definition pt_BitcoinGUI_3 : list message :=
  [Message true [Loc None "+9"]
     "Processed %n block(s) of transaction history." true
     ["Processado% n bloco (s) do histórico de transações."; "Processado% n bloco (s) do histórico de transações."];
   Message false [Loc None "+5"]
     "Up to date" true
     ["Atualizado"];
   Message false [Loc None "+19"]
     "%1 behind" true
     ["%1 atrás"];
   Message false [Loc None "+5"]
     "Catching up..." true
     ["Recuperar..."];
   Message false [Loc None "+19"]
     "Last received block was generated %1 ago." true
     ["Último bloco recebido foi gerado %1 atrás."];
   Message false [Loc None "+2"]
     "Transactions after this will not yet be visible." true
     ["As transações depois disso ainda não estarão visíveis."];
   Message false [Loc None "+13"]
     "Bitcoin Confidential" true
     ["Bitcoin Confidential"];
   Message false [Loc None "+14"]
     "Error" true
     ["Erro"];
   Message false [Loc None "+3"]
     "Warning" true
     ["Aviso"];
   Message false [Loc None "+3"]
     "Information" true
     ["Informações"];
   Message false [Loc None "+116"]
     "Date: %1
" true
     ["Data: %1
"];
   Message false [Loc None "+1"]
     "Amount: %1
" true
     ["Quantidade: %1
"];
   Message false [Loc None "+2"]
     "Wallet: %1
" true
     ["Carteira: %1
"];
   Message false [Loc None "+2"]
     "Type: %1
" true
     ["Tipo: %1
"];
   Message false [Loc None "+2"]
     "Label: %1
" true
     ["Nome: %1
"];
   Message false [Loc None "+2"]
     "Address: %1
" true
     ["Endereço: %1
"];
   Message false [Loc None "+1"]
     "Sent transaction" true
     ["Transação enviada"];
   Message false [Loc None "+0"]
     "Incoming transaction" true
     ["Transação de entrada"];
   Message false [Loc None "+52"]
     "HD key generation is &lt;b&gt;enabled&lt;/b&gt;" true
     ["A geração de chave HD está &lt;b&gt;ativada&lt;/b&gt;"];
   Message false [Loc None "+0"]
     "HD key generation is &lt;b&gt;disabled&lt;/b&gt;" true
     ["A geração de chave HD está &lt;b&gt;desativada&lt;/b&gt;"];
   Message false [Loc None "+13"]
     "Wallet is &lt;b&gt;not encrypted&lt;/b&gt;. Click the opened lock to encrypt it." true
     ["A carteira &lt;b&gt;não está encriptada&lt;/b&gt;. Clique no cadeado aberto para criptografá-lo."];
   Message false [Loc None "+8"]
     "Wallet is &lt;b&gt;encrypted&lt;/b&gt; and currently &lt;b&gt;unlocked&lt;/b&gt;" true
     ["Carteira é &lt;b&gt;criptografada&lt;/b&gt; e atualmente &lt;b&gt;desbloqueado&lt;/b&gt;"];
   Message false [Loc None "+8"]
     "Wallet is &lt;b&gt;encrypted&lt;/b&gt; and currently &lt;b&gt;unlocked&lt;/b&gt; for staking only" true
     ["Carteira é &lt;b&gt;criptografada&lt;/b&gt; e atualmente &lt;b&gt;desbloqueada&lt;/b&gt; para Staking apenas"];
   Message false [Loc None "+8"]
     "Wallet is &lt;b&gt;encrypted&lt;/b&gt; and currently &lt;b&gt;locked&lt;/b&gt;" true
     ["A carteira está &lt;b&gt;encriptada&lt;/b&gt; e actualmente &lt;b&gt;bloqueada&lt;/b&gt;"];
   Message false [Loc None "+58"]
     "Proxy is &lt;b&gt;enabled&lt;/b&gt;: %1" true
     ["O proxy está &lt;b&gt;habilitado&lt;/b&gt;: %1"];
   Message false [Loc None "+28"]
     "Tor is &lt;b&gt;enabled&lt;/b&gt;" true
     ["Tor está ativado"];
   Message false [Loc None "+3"]
     "Tor is &lt;b&gt;enabled&lt;/b&gt;, but its not the only network used. Use only onlynet=onion." true
     ["Tor está &lt;b&gt;habilitado&lt;/b&gt;, mas não é a única rede usada. Use apenas onlynet=onion."]].

Definition pt_BitcoinGUI_4 : list message :=
  [Message false [Loc None "+3"]
     "Tor is &lt;b&gt;disabled&lt;/b&gt;. To enhance your privacy setup consider using tor by setting &lt;b&gt;onlynet=onion&lt;/b&gt; in your &lt;b&gt;bitcoinc.conf&lt;/b&gt;." true
     ["Tor está &lt;b&gt;desativado&lt;/b&gt;. Para aprimorar sua configuração de privacidade, considere usar o Tor definindo &lt;b&gt;onlynet=onion&lt;/b&gt; em seu &lt;b&gt;bitcoinc.conf&lt;/b&gt;."];
   Message false [Loc (Some "../bitcoin.cpp") "+528"]
     "A fatal error occurred. Bitcoin Confidential can no longer continue safely and will quit." true
     ["Ocorreu um erro fatal. Bitcoin Confidential já não pode continuar com segurança e vai sair."]].

Definition pt_CoinControlDialog_1 : list message :=
  [Message false [Loc (Some "../forms/coincontroldialog.ui") "+14"]
     "Coin Selection" true
     ["Seleção de moedas"];
   Message false [Loc None "+34"]
     "Quantity:" true
     ["Quantidade:"];
   Message false [Loc None "+29"]
     "Bytes:" true
     ["Bytes:"];
   Message false [Loc None "+45"]
     "Amount:" true
     ["Quantidade:"];
   Message false [Loc None "+32"]
     "Dust:" true
     ["Poeira:"];
   Message false [Loc None "+48"]
     "Fee:" true
     ["Taxa:"];
   Message false [Loc None "+45"]
     "After Fee:" true
     ["Após a taxa:"];
   Message false [Loc None "+32"]
     "Change:" true
     ["Troco:"];
   Message false [Loc None "+57"]
     "Standard" true
     ["Padrão"];
   Message false [Loc None "+5"]
     "Anon" true
     ["Anon"];
   Message false [Loc None "+14"]
     "Show all" true
     ["Mostrar todos"];
   Message false [Loc None "+13"]
     "(un)select all" true
     ["(Des) Selecionar todos"];
   Message false [Loc None "+16"]
     "Tree mode" true
     ["Modo de árvore"];
   Message false [Loc None "+13"]
     "List mode" true
     ["Modo de lista"];
   Message false [Loc None "+74"]
     "Amount" true
     ["Quantidade"];
   Message false [Loc None "+8"]
     "Received with label" true
     ["Recebido com nome"];
   Message false [Loc None "+5"]
     "Received with address" true
     ["Recebido com endereço"];
   Message false [Loc None "+5"]
     "Date" true
     ["Data"];
   Message false [Loc None "+5"]
     "Confirmations" true
     ["Confirmações"];
   Message false [Loc None "+3"]
     "Confirmed" true
     ["Confirmou"];
   Message false [Loc (Some "../coincontroldialog.cpp") "+73"]
     "Copy address" true
     ["Copiar endereço"];
   Message false [Loc None "+1"]
     "Copy label" true
     ["Copiar nome"];
   Message false [Loc None "+1"; Loc None "+26"]
     "Copy amount" true
     ["Copiar valor"];
   Message false [Loc None "-25"]
     "Copy transaction ID" true
     ["Copiar ID da transação"];
   Message false [Loc None "+1"]
     "Lock unspent" true
     ["Bloquear valores não gasto"];
   Message false [Loc None "+1"]
     "Unlock unspent" true
     ["Desbloquear valores não gasto"];
   Message false [Loc None "+22"]
     "Copy quantity" true
     ["Copiar quantidade"];
   Message false [Loc None "+2"]
     "Copy fee" true
     ["Copiar taxa"];
   Message false [Loc None "+1"]
     "Copy after fee" true
     ["Copiar após a taxa"]].

Definition pt_CoinControlDialog_2 : list message :=
  [Message false [Loc None "+1"]
     "Copy bytes" true
     ["Copiar bytes"];
   Message false [Loc None "+1"]
     "Copy dust" true
     ["Copiar a poeira"];
   Message false [Loc None "+1"]
     "Copy change" true
     ["Copiar troco"];
   Message false [Loc None "+340"]
     "(%1 locked)" true
     ["(%1 bloqueado)"];
   Message false [Loc None "+161"]
     "yes" true
     ["Sim"];
   Message false [Loc None "+0"]
     "no" true
     ["Não"];
   Message false [Loc None "+14"]
     "This label turns red if any recipient receives an amount smaller than the current dust threshold." true
     ["Este nome fica vermelho se qualquer destinatário recebe uma quantidade menor do que o limiar de poeira atual."];
   Message false [Loc None "+5"]
     "Can vary +/- %1 satoshi(s) per input." true
     ["Pode variar +/- %1 satoshi (s) por entrada."];
   Message false [Loc None "+47"]
     "Hide immature" true
     ["Esconder imaturo"];
   Message false [Loc None "+2"]
     "Hide locked" true
     ["Ocultar bloqueado"];
   Message false [Loc None "+6"]
     "Show immature" true
     ["Mostrar imaturo"];
   Message false [Loc None "+2"]
     "Show locked" true
     ["Mostrar bloqueado"];
   Message false [Loc None "+26"; Loc None "+66"; Loc None "+11"]
     "(no label)" true
     ["(sem nome)"];
   Message false [Loc None "-19"]
     "change from %1 (%2)" true
     ["alteração de %1 (%2)"];
   Message false [Loc None "+1"; Loc None "+20"]
     "(change)" true
     ["(alterar)"];
   Message false [Loc None "-17"]
     "spending from %1 (%2)" true
     ["gastos de %1 (%2)"]].

Definition pt_EditAddressDialog : list message :=
  [Message false [Loc (Some "../forms/editaddressdialog.ui") "+14"]
     "Edit Address" true
     ["Editar endereço"];
   Message false [Loc None "+11"]
     "&amp;Label" true
     ["&amp;Nome"];
   Message false [Loc None "+10"]
     "The label associated with this address list entry" true
     ["O nome associado a esta entrada de lista de endereços"];
   Message false [Loc None "+7"]
     "&amp;Address" true
     ["&amp;Endereço"];
   Message false [Loc None "+10"]
     "The address associated with this address list entry. This can only be modified for sending addresses." true
     ["O endereço associado a esta entrada de lista de endereços. Isso só pode ser modificado para endereços de envio."];
   Message false [Loc (Some "../editaddressdialog.cpp") "+29"]
     "New receiving address" true
     ["Novo endereço de recebimento"];
   Message false [Loc None "+5"]
     "New sending address" true
     ["Novo endereço de envio"];
   Message false [Loc None "+3"]
     "New Stake address" true
     ["Novo endereço de stake"];
   Message false [Loc None "+5"]
     "New ColdStake address" true
     ["Novo endereço de ColdStake"];
   Message false [Loc None "+5"]
     "Edit receiving address" true
     ["Editar endereço de recebimento"];
   Message false [Loc None "+4"]
     "Edit sending address" true
     ["Editar endereço de envio"];
   Message false [Loc None "+87"]
     "The entered address &quot;%1&quot; is not a valid Bitcoin Confidential address." true
     ["O endereço introduzido &quot;%1&quot; não é um endereço Bitcoin Confidential válido."];
   Message false [Loc None "+10"]
     "Could not unlock wallet." true
     ["Não foi possível desbloquear a carteira."];
   Message false [Loc None "+5"]
     "New key generation failed." true
     ["Nova geração de chave falhou."];
   Message false [Loc None "+18"]
     "Address &quot;%1&quot; already exists as a receiving address with label &quot;%2&quot; and so cannot be added as a sending address." true
     ["O endereço &quot;%1&quot; já existe como um endereço de recebimento com o nome &quot;%2&quot; e, portanto, não pode ser adicionado como um endereço de envio."];
   Message false [Loc None "+5"]
     "The entered address &quot;%1&quot; is already in the address book with label &quot;%2&quot;." true
     ["O endereço digitado &quot;%1&quot; já está no catálogo de endereços com o nome &quot;%2&quot;."]].

Definition pt_FreespaceChecker : list message :=
  [Message false [Loc (Some "../intro.cpp") "+78"]
     "A new data directory will be created." true
     ["Um novo diretório de dados será criado."];
   Message false [Loc None "+22"]
     "name" true
     ["nome"];
   Message false [Loc None "+2"]
     "Directory already exists. Add %1 if you intend to create a new directory here." true
     ["O diretório já existe. Adicione %1 se você pretende criar um novo diretório aqui."];
   Message false [Loc None "+3"]
     "Path already exists, and is not a directory." true
     ["Caminho já existe e não é um diretório."];
   Message false [Loc None "+7"]
     "Cannot create data directory here." true
     ["Não é possível criar diretório de dados aqui."]].

Definition pt_HelpMessageDialog : list message :=
  [Message false [Loc (Some "../utilitydialog.cpp") "+41"]
     "version" true
     ["Versão"];
   Message false [Loc None "+5"; Loc None "+2"]
     "(%1-bit)" true
     ["(%1-bit)"];
   Message false [Loc None "+5"]
     "About %1" true
     ["Sobre %1"];
   Message false [Loc None "+19"]
     "Command-line options" true
     ["Opções de linha de comando"]].

Definition pt_Intro : list message :=
  [Message false [Loc (Some "../forms/intro.ui") "+14"]
     "Welcome" true
     ["Bem-vindo"];
   Message false [Loc None "+9"]
     "Welcome to %1." true
     ["Bem-vindo ao %1."];
   Message false [Loc None "+26"]
     "As this is the first time the program is launched, you can choose where %1 will store its data." true
     ["Como esta é a primeira vez que o programa é iniciado, você pode escolher onde %1 armazenará seus dados."];
   Message false [Loc None "+17"]
     "Use the default data directory" true
     ["Usar o diretório de dados padrão"];
   Message false [Loc None "+7"]
     "Use a custom data directory:" true
     ["Usar um diretório de dados personalizado:"];
   Message false [Loc None "+140"]
     "When you click OK, %1 will begin to download and process the full %4 block chain (%2GB) starting with the earliest transactions in %3 when %4 initially launched." true
     ["Quando você clicar em OK, %1 começará a baixar e processar a cadeia de blocos %4 completa (%2GB) começando com as primeiras transações em %3 quando %4 foi iniciado inicialmente."];
   Message false [Loc None "+10"]
     "This initial synchronisation is very demanding, and may expose hardware problems with your computer that had previously gone unnoticed. Each time you run %1, it will continue downloading where it left off." true
     ["Esta sincronização inicial é muito exigente, e pode expor problemas de hardware com o seu computador que anteriormente tinha ido despercebido. Cada vez que você executar %1, ele continuará baixando de onde ele saiu."];
   Message false [Loc None "+10"]
     "If you have chosen to limit block chain storage (pruning), the historical data must still be downloaded and processed, but will be deleted afterward to keep your disk usage low." true
     ["Se você optou por limitar o armazenamento em cadeia de blocos (poda), os dados históricos ainda devem ser baixados e processados, mas serão excluídos posteriormente para manter o uso do disco baixo."];
   Message false [Loc (Some "../intro.cpp") "+20"]
     "Bitcoin Confidential" true
     ["Bitcoin Confidential"];
   Message false [Loc None "+6"]
     "At least %1 GB of data will be stored in this directory, and it will grow over time." true
     ["Pelo menos %1 GB de dados serão armazenados neste diretório, e crescerá ao longo do tempo."];
   Message false [Loc None "+5"]
     "Approximately %1 GB of data will be stored in this directory." true
     ["Aproximadamente %1 GB de dados serão armazenados neste diretório."];
   Message false [Loc None "+8"]
     "%1 will download and store a copy of the Bitcoin Confidential block chain." true
     ["%1 irá baixar e armazenar uma cópia da cadeia de blocos Bitcoin Confidential."];
   Message false [Loc None "+2"]
     "The wallet will also be stored in this directory." true
     ["A carteira também será armazenada neste diretório."];
   Message false [Loc None "+73"]
     "Error: Specified data directory &quot;%1&quot; cannot be created." true
     ["Erro: o diretório de dados especificado &quot;%1&quot; não pode ser criado."];
   Message false [Loc None "+27"]
     "Error" true
     ["Erro"];
   Message true [Loc None "+9"]
     "%n GB of free space available" true
     ["% n GB de espaço livre disponível"; "% n GB de espaço livre disponível"];
   Message true [Loc None "+3"]
     "(of %n GB needed)" true
     ["(de% n GB necessário)"; "(de% n GB necessário)"]].

Definition pt_MnemonicDialog_1 : list message :=
  [Message false [Loc (Some "../forms/mnemonicdialog.ui") "+14"]
     "HD Wallet Setup" true
     ["Configuração da carteira HD"];
   Message false [Loc None "+11"]
     "Generate a mnemonic" true
     ["Gerar um conjunto de palavras"];
   Message false [Loc None "+10"]
     "Create the wallet" true
     ["Criar a carteira"];
   Message false [Loc None "+22"]
     "Write down the Recovery Phrase/Mnemonic below or generate a new one with the desired settings by clicking &quot;NEW MNEMONIC&quot;. Store this phrase in a safe place. The clipboard will be cleared to ensure you have it recorded.  If you are recovering a backup, enter the Recovery Phrase/Mnemonic on the next screen.  Click the &quot;NEXT&quot; button to continue with the wallet creation." true
     ["Anote a frase de recuperação abaixo ou gere um novo com as configurações desejadas clicando em &quot;Novas Palavras&quot;. Guarde esta frase em um lugar seguro. A área de transferência será desmarcada para garantir que você tenha gravado.  Se você estiver recuperando um backup, digite a frase de recuperação na próxima tela.  Clique no botão &quot;Próximo&quot; para continuar com a criação da carteira."];
   Message false [Loc None "+36"]
     "Bytes of Entropy " true
     ["Bytes de entropia"];
   Message false [Loc None "+7"]
     "Language" true
     ["Língua"];
   Message false [Loc None "+45"]
     "Entropy is an advanced feature. Your mnemonic may be insecure if this feature is used incorrectly." true
     ["Entropia é um recurso avançado. Suas palavras podem ser inseguras se esse recurso é usado incorretamente."];
   Message false [Loc None "+22"]
     "Select your language" true
     ["Selecione o seu idioma"];
   Message false [Loc None "+4"]
     "English" true
     ["Inglês"];
   Message false [Loc None "+5"]
     "French" true
     ["Francês"];
   Message false [Loc None "+5"]
     "Japanese" true
     ["Japonês"];
   Message false [Loc None "+5"]
     "Spanish" true
     ["Espanhol"];
   Message false [Loc None "+5"]
     "Chinese_s" true
     ["Chinese_s"];
   Message false [Loc None "+5"]
     "Chinese_t" true
     ["Chinese_t"];
   Message false [Loc None "+39"]
     "New mnemonic" true
     ["Novas palavras"];
   Message false [Loc None "+19"]
     "Next" true
     ["Próximo"];
   Message false [Loc None "+19"; Loc None "+198"]
     "Cancel" true
     ["Cancelar"];
   Message false [Loc None "-148"]
     "Recovery Passphrase " true
     ["Senha de recuperação"];
   Message false [Loc None "+7"]
     "Import Chain" true
     ["Importar Cadeia"];
   Message false [Loc None "+13"]
     "Warning" true
     ["Aviso"];
   Message false [Loc None "+33"]
     "Enter a passphrase to protect your Recovery Phrase (optional)" true
     ["Digite uma senha para proteger sua frase de recuperação (opcional)"];
   Message false [Loc None "+13"]
     "Only needed if you&apos;re importing " true
     ["Só é necessário se você estiver importando"];
   Message false [Loc None "+16"]
     "Please ensure you backup your Recovery Phrase and Passphrase - they are not recoverable!" true
     ["Por favor, certifique-se de backup sua frase de recuperação e senha - eles não são recuperáveis!"];
   Message false [Loc None "+28"]
     "Back" true
     ["Voltar"];
   Message false [Loc None "+19"; Loc (Some "../mnemonicdialog.cpp") "+145"]
     "Import" true
     ["Importar"];
   Message false [Loc (Some "../mnemonicdialog.cpp") "-102"]
     "Optionally enter a passphrase to protect the Recovery Phrase. (This is not a wallet password.)" true
     ["Opcionalmente, insira uma senha para proteger a frase de recuperação. (Esta não é uma senha de carteira.)"];
   Message false [Loc None "+2"]
     "Enter the Recovery Phrase/Mnemonic." true
     ["Digite a frase de recuperação."];
   Message false [Loc None "+26"]
     "Create wallet" true
     ["Criar carteira"];
   Message false [Loc None "+16"]
     "Generate a new Recovery Phrase/Mnemonic with the desired settings by clicking &quot;NEW MNEMONIC&quot;." true
     ["Gere uma nova frase de recuperação com as configurações desejadas clicando em &quot;Novas Palavras&quot;."]].

Definition pt_MnemonicDialog_2 : list message :=
  [Message false [Loc None "+5"]
     "Import a mnemonic" true
     ["Importar frase de recuperação"];
   Message false [Loc None "+28"]
     "Confirm wallet creation cancel" true
     ["Confirmar a criação da carteira cancelar"];
   Message false [Loc None "+1"]
     "Are you sure you want to cancel the wallet creation?" true
     ["Tem certeza de que deseja cancelar a criação da carteira?"];
   Message false [Loc None "+0"]
     "This is only recommended for advanced users to import with custom settings in the debug console or with the RPC interface." true
     ["Isso só é recomendado para usuários avançados importar com configurações personalizadas no console de depuração ou com a interface RPC."]].

Definition pt_ModalOverlay : list message :=
  [Message false [Loc (Some "../forms/modaloverlay.ui") "+14"]
     "Form" true
     ["Formulário"];
   Message false [Loc None "+122"]
     "Recent transactions may not yet be visible, and therefore your wallet&apos;s balance might be incorrect. This information will be correct once your wallet has finished synchronizing with the Bitcoin Confidential network, as detailed below." true
     ["As transações recentes podem ainda não estar visíveis e, portanto, o saldo da sua carteira pode estar incorreto. Esta informação estará correta quando a sua carteira terminar de sincronizar com a rede Bitcoin Confidential, conforme detalhado abaixo."];
   Message false [Loc None "+19"]
     "Attempting to spend coins that are affected by not-yet-displayed transactions will not be accepted by the network." true
     ["A tentativa de gastar moedas que são afetadas por transações ainda não exibidas não será aceita pela rede."];
   Message false [Loc None "+63"]
     "Number of blocks left" true
     ["Número de blocos restantes"];
   Message false [Loc None "+7"; Loc None "+26"; Loc (Some "../modaloverlay.cpp") "+140"]
     "Unknown..." true
     ["Desconhecido..."];
   Message false [Loc None "-13"]
     "Last block time" true
     ["Última hora do bloco"];
   Message false [Loc None "+26"]
     "Progress" true
     ["Progresso"];
   Message false [Loc None "+34"]
     "Progress increase per hour" true
     ["Aumento de progresso por hora"];
   Message false [Loc None "+7"; Loc None "+20"]
     "calculating..." true
     ["Cálculando..."];
   Message false [Loc None "-7"]
     "Estimated time left until synced" true
     ["Tempo estimado restante até sincronização"];
   Message false [Loc None "+40"]
     "Hide" true
     ["Esconder"];
   Message false [Loc (Some "../modaloverlay.cpp") "-1"]
     "Unknown. Syncing Headers (%1)..." true
     ["Desconhecido. Sincronizando cabeçalhos (%1)..."]].

Definition pt_OpenURIDialog : list message :=
  [Message false [Loc (Some "../forms/openuridialog.ui") "+14"]
     "Open URI" true
     ["Abrir URI"];
   Message false [Loc None "+6"]
     "Open payment request from URI or file" true
     ["Abrir solicitação de pagamento de URI ou arquivo"];
   Message false [Loc None "+9"]
     "URI:" true
     ["URI:"];
   Message false [Loc None "+10"]
     "Select payment request file" true
     ["Selecionar arquivo de solicitação de pagamento"];
   Message false [Loc (Some "../openuridialog.cpp") "+45"]
     "Select payment request file to open" true
     ["Selecione o arquivo de solicitação de pagamento para abrir"]].

Definition pt_OptionsDialog_1 : list message :=
  [Message false [Loc (Some "../forms/optionsdialog.ui") "+14"]
     "Options" true
     ["Opções"];
   Message false [Loc None "+14"]
     "&amp;Main" true
     ["&amp;Principal"];
   Message false [Loc None "+13"]
     "W&amp;allet" true
     ["C&amp;arteira"];
   Message false [Loc None "+13"]
     "&amp;Network" true
     ["&amp;Rede"];
   Message false [Loc None "+13"]
     "&amp;Window" true
     ["&amp;Janela"];
   Message false [Loc None "+13"]
     "&amp;Display" true
     ["&amp;Exibir"];
   Message false [Loc None "+22"]
     "Automatically start %1 after logging in to the system." true
     ["Inicie automaticamente %1 após efetuar login no sistema."];
   Message false [Loc None "+3"]
     "&amp;Start %1 on system login" true
     ["&amp;Iniciar %1 no login do sistema"];
   Message false [Loc None "+22"]
     "Disables some advanced features but all blocks will still be fully validated. Reverting this setting requires re-downloading the entire blockchain. Actual disk usage may be somewhat higher." true
     ["Desativa alguns recursos avançados, mas todos os blocos ainda serão totalmente validados. Revertendo esta configuração requer re-download de todo o blockchain. Uso do disco real pode ser um pouco maior."];
   Message false [Loc None "+3"]
     "Prune &amp;block storage to" true
     ["Diminuir armazenamento de &amp;blocos para"];
   Message false [Loc None "+17"]
     "GB" true
     ["GB"];
   Message false [Loc None "+25"]
     "Reverting this setting requires re-downloading the entire blockchain." true
     ["Revertendo esta configuração requer re-download de todo o blockchain."];
   Message false [Loc None "+12"]
     "Size of &amp;database cache" true
     ["Tamanho de &amp;cache de banco de dados"];
   Message false [Loc None "+23"]
     "MB" true
     ["MB"];
   Message false [Loc None "+27"]
     "Number of script &amp;verification threads" true
     ["Número de threads &amp;de script de verificação"];
   Message false [Loc None "+19"]
     "(0 = auto, &lt;0 = leave that many cores free)" true
     ["(0 = auto, &lt;0 = deixe essa quantidade de cores livres)"];
   Message false [Loc None "+39"]
     "Expert" true
     ["Especialista"];
   Message false [Loc None "+6"]
     "Whether to show coin control features or not." true
     ["Se deseja mostrar recursos de controle de moeda ou não."];
   Message false [Loc None "+3"]
     "Enable coin &amp;control features" true
     ["Ativar recursos &amp;de controle de moedas"];
   Message false [Loc None "+7"]
     "If you disable the spending of unconfirmed change, the change from a transaction cannot be used until that transaction has at least one confirmation. This also affects how your balance is computed." true
     ["Se você desabilitar a despesa de troco não confirmada, o troco de uma transação não poderá ser usada até que essa transação tenha pelo menos uma confirmação. Isso também afeta a forma como o saldo é calculado."];
   Message false [Loc None "+3"]
     "&amp;Spend unconfirmed change" true
     ["&amp;Gaste um troco não confirmado"];
   Message false [Loc None "+7"]
     "Display notification dialog for incoming stake transactions." true
     ["Exibir a caixa de diálogo de notificação para transações de stake recebidas."];
   Message false [Loc None "+3"]
     "&amp;Show incoming stake notifications" true
     ["&amp;Mostrar notificações de entrada de stake"];
   Message false [Loc None "+27"]
     "Automatically open the Bitcoin Confidential client port on the router. This only works when your router supports UPnP and it is enabled." true
     ["Abra automaticamente a porta do cliente Bitcoin Confidential no roteador. Isto só funciona quando o router suporta UPnP e está ativado."];
   Message false [Loc None "+3"]
     "Map port using &amp;UPnP" true
     ["Mapear porta usando &amp;UPnP"];
   Message false [Loc None "+7"]
     "Accept connections from outside." true
     ["Aceitar conexões externas."];
   Message false [Loc None "+3"]
     "Allow incomin&amp;g connections" true
     ["Permitir conexões&amp; de entrada"];
   Message false [Loc None "+7"]
     "Connect to the Bitcoin Confidential network through a SOCKS5 proxy." true
     ["Conecte-se à rede Bitcoin Confidential através de um proxy SOCKS5."];
   Message false [Loc None "+3"]
     "&amp;Connect through SOCKS5 proxy (default proxy):" true
     ["&amp;Conecte através do proxy SOCKS5 (proxy padrão):"]].

Definition pt_OptionsDialog_2 : list message :=
  [Message false [Loc None "+9"; Loc None "+193"]
     "Proxy &amp;IP:" true
     ["Proxy &amp;IP:"];
   Message false [Loc None "-168"; Loc None "+193"]
     "IP address of the proxy (e.g. IPv4: 127.0.0.1 / IPv6: ::1)" true
     ["Endereço IP do proxy (por exemplo, IPv4:127.0.0.1/IPv6::: 1)"];
   Message false [Loc None "-183"; Loc None "+193"]
     "&amp;Port:" true
     ["&amp;Porta:"];
   Message false [Loc None "-168"; Loc None "+193"]
     "Port of the proxy (e.g. 9050)" true
     ["Porta do proxy (por exemplo: 9050)"];
   Message false [Loc None "-166"]
     "Used for reaching peers via:" true
     ["Usado para alcançar pares através de:"];
   Message false [Loc None "+13"; Loc None "+23"; Loc None "+23"]
     "Shows if the supplied default SOCKS5 proxy is used to reach peers via this network type." true
     ["Mostra se o proxy SOCKS5 padrão fornecido é usado para alcançar pares através deste tipo de rede."];
   Message false [Loc None "-36"]
     "IPv4" true
     ["IPv4"];
   Message false [Loc None "+23"]
     "IPv6" true
     ["IPv6"];
   Message false [Loc None "+23"]
     "Tor" true
     ["Tor"];
   Message false [Loc None "+25"]
     "Connect to the Bitcoin Confidential network through a separate SOCKS5 proxy for Tor hidden services." true
     ["Conecte-se à rede Bitcoin Confidential por meio de um proxy SOCKS5 separado para serviços ocultos do Tor."];
   Message false [Loc None "+3"]
     "Use separate SOCKS&amp;5 proxy to reach peers via Tor hidden services:" true
     ["Use separado SOCKS&amp;5 proxy para alcançar pares através de serviços escondidos Tor:"];
   Message false [Loc None "+111"]
     "Hide the icon from the system tray." true
     ["Oculte o ícone das notificações do sistema."];
   Message false [Loc None "+3"]
     "&amp;Hide tray icon" true
     ["&amp;Ocultar ícone das notificações"];
   Message false [Loc None "+7"]
     "Show only a tray icon after minimizing the window." true
     ["Mostrar apenas um ícone de bandeja depois de minimizar a janela."];
   Message false [Loc None "+3"]
     "&amp;Minimize to the tray instead of the taskbar" true
     ["&amp;Minimize para as notificações em vez da barra de tarefas"];
   Message false [Loc None "+7"]
     "Minimize instead of exit the application when the window is closed. When this option is enabled, the application will be closed only after selecting Exit in the menu." true
     ["Minimize em vez de sair do aplicativo quando a janela é fechada. Quando esta opção estiver ativada, o aplicativo será fechado somente depois de selecionar sair no menu."];
   Message false [Loc None "+3"]
     "M&amp;inimize on close" true
     ["M&amp;inimize ao fechar"];
   Message false [Loc None "+26"]
     "User Interface &amp;language:" true
     ["Idioma da interface &amp;do usuário:"];
   Message false [Loc None "+22"]
     "The user interface language can be set here. This setting will take effect after restarting %1." true
     ["O idioma da interface do usuário pode ser definido aqui. Essa configuração entrará em vigor depois de reiniciar %1."];
   Message false [Loc None "+11"]
     "&amp;Unit to show amounts in:" true
     ["&amp;Unidade para mostrar valores em:"];
   Message false [Loc None "+22"]
     "Choose the default subdivision unit to show in the interface and when sending coins." true
     ["Escolha a unidade de subdivisão padrão para mostrar na interface e ao enviar moedas."];
   Message false [Loc None "+11"; Loc None "+22"]
     "Third party URLs (e.g. a block explorer) that appear in the transactions tab as context menu items. %s in the URL is replaced by transaction hash. Multiple URLs are separated by vertical bar |." true
     ["URLs de terceiros (por exemplo, um explorador de blocos) que aparecem na guia transações como itens de menu de contexto. %s na URL é substituída por hash de transação. Várias URLs são separadas por barra vertical |."];
   Message false [Loc None "-19"]
     "&amp;Third party transaction URLs" true
     ["&amp;URLs de transações de terceiros"];
   Message false [Loc None "+50"]
     "Active command-line options that override above options:" true
     ["Opções de linha de comando ativas que substituem as opções acima:"];
   Message false [Loc None "+45"]
     "Open the %1 configuration file from the working directory." true
     ["Abra o arquivo de configuração %1 do diretório de trabalho."];
   Message false [Loc None "+3"]
     "Open Configuration File" true
     ["Abrir arquivo de configuração"];
   Message false [Loc None "+10"]
     "Reset all client options to default." true
     ["Redefinir todas as opções para padrão."];
   Message false [Loc None "+3"]
     "&amp;Reset Options" true
     ["&amp;Redefinir opções"]].

Definition pt_OptionsDialog_3 : list message :=
  [Message false [Loc None "+80"]
     "&amp;OK" true
     ["&amp;OK"];
   Message false [Loc None "+13"]
     "&amp;Cancel" true
     ["&amp;Cancelar"];
   Message false [Loc (Some "../optionsdialog.cpp") "+109"]
     "default" true
     ["Padrão"];
   Message false [Loc None "+56"]
     "none" true
     ["Nenhum"];
   Message false [Loc None "+82"]
     "Confirm options reset" true
     ["Confirme a redefinição das opções"];
   Message false [Loc None "+1"; Loc None "+60"]
     "Client restart required to activate changes." true
     ["Reinicialização do cliente necessária para ativar as alterações."];
   Message false [Loc None "-60"]
     "Client will be shut down. Do you want to proceed?" true
     ["O cliente será desligado. Você quer prosseguir?"];
   Message false [Loc None "+15"]
     "Configuration options" true
     ["Opções de configuração"];
   Message false [Loc None "+1"]
     "The configuration file is used to specify advanced user options which override GUI settings. Additionally, any command-line options will override this configuration file." true
     ["O arquivo de configuração é usado para especificar opções de usuário avançadas que substituem as configurações da GUI. Além disso, qualquer opção de linha de comando substituirá esse arquivo de configuração."];
   Message false [Loc None "+5"]
     "Error" true
     ["Erro"];
   Message false [Loc None "+0"]
     "The configuration file could not be opened." true
     ["O arquivo de configuração não pôde ser aberto."];
   Message false [Loc None "+43"]
     "This change would require a client restart." true
     ["Essa alteração exigiria uma reinicialização do cliente."];
   Message false [Loc None "+28"]
     "The supplied proxy address is invalid." true
     ["O endereço de proxy fornecido é inválido."]].

Definition pt_OverviewPage : list message :=
  [Message false [Loc (Some "../forms/overviewpage.ui") "+14"]
     "Form" true
     ["Formulário"];
   Message false [Loc None "+43"]
     "Bitcoin Confidential Core" true
     ["Bitcoin Confidential Core"];
   Message false [Loc None "+38"; Loc None "+114"; Loc None "+210"]
     "Pending" true
     ["Pendente"];
   Message false [Loc None "-308"]
     "Spending" true
     ["Utilizar"];
   Message false [Loc None "+108"]
     "Watch-only" true
     ["Visualização apenas"];
   Message false [Loc None "+73"; Loc None "+191"]
     "Available" true
     ["Disponível"];
   Message false [Loc None "-181"]
     "Spendable" true
     ["Utilizável"];
   Message false [Loc None "+41"]
     "Staking" true
     ["Staking"];
   Message false [Loc None "+130"]
     "Immature" true
     ["Imaturo"];
   Message false [Loc None "+86"]
     "Total" true
     ["Total"];
   Message false [Loc None "+90"]
     "Recent transactions" true
     ["Transacções recentes"];
   Message false [Loc None "+19"]
     "The displayed information may be out of date. Your wallet automatically synchronizes with the Bitcoin Confidential network after a connection is established, but this process has not completed yet." true
     ["As informações exibidas podem estar desatualizadas. Sua carteira sincroniza automaticamente com a rede Bitcoin Confidential depois que uma conexão é estabelecida, mas esse processo ainda não foi concluído."]].

Definition pt_PaymentServer : list message :=
  [Message false [Loc (Some "../paymentserver.cpp") "+317"; Loc None "+215"; Loc None "+42"; Loc None "+110"; Loc None "+14"; Loc None "+18"]
     "Payment request error" true
     ["Erro de solicitação de pagamento"];
   Message false [Loc None "-398"]
     "Cannot start bitcoinc: click-to-pay handler" true
     ["Não é possível iniciar bitcoinc: manipulador de clique para pagar"];
   Message false [Loc None "+82"; Loc None "+21"; Loc None "+13"; Loc None "+7"]
     "URI handling" true
     ["Manipulação de URI"];
   Message false [Loc None "-41"]
     "&apos;bitcoin://&apos; is not a valid URI. Use &apos;bitcoin:&apos; instead." true
     ["&apos; bitcoin://&apos; não é um URI válido. Use &apos;bitcoin:&apos; em vez disso."];
   Message false [Loc None "+22"]
     "Payment request fetch URL is invalid: %1" true
     ["URL de busca de solicitação de pagamento é inválido: %1"];
   Message false [Loc None "+12"]
     "Invalid payment address %1" true
     ["Endereço de pagamento inválido %1"];
   Message false [Loc None "+8"]
     "URI cannot be parsed! This can be caused by an invalid Bitcoin Confidential address or malformed URI parameters." true
     ["URI não pode ser analisado! Isso pode ser causado por um endereço Bitcoin Confidential inválido ou parâmetros de URI malformados."];
   Message false [Loc None "+13"]
     "Payment request file handling" true
     ["Tratamento de arquivo de solicitação de pagamento"];
   Message false [Loc None "+1"]
     "Payment request file cannot be read! This can be caused by an invalid payment request file." true
     ["O arquivo de solicitação de pagamento não pode ser lido! Isso pode ser causado por um arquivo de solicitação de pagamento inválido."];
   Message false [Loc None "+61"; Loc None "+9"; Loc None "+31"; Loc None "+10"; Loc None "+17"; Loc None "+85"]
     "Payment request rejected" true
     ["Pedido de pagamento rejeitado"];
   Message false [Loc None "-152"]
     "Payment request network doesn&apos;t match client network." true
     ["A rede de solicitação de pagamento não corresponde à rede do cliente."];
   Message false [Loc None "+9"]
     "Payment request expired." true
     ["O pedido de pagamento expirou."];
   Message false [Loc None "+6"]
     "Payment request is not initialized." true
     ["A solicitação de pagamento não foi inicializada."];
   Message false [Loc None "+26"]
     "Unverified payment requests to custom payment scripts are unsupported." true
     ["As solicitações de pagamento não verificadas para scripts de pagamento personalizados não são suportadas."];
   Message false [Loc None "+9"; Loc None "+17"]
     "Invalid payment request." true
     ["Pedido de pagamento inválido."];
   Message false [Loc None "-10"]
     "Requested payment amount of %1 is too small (considered dust)." true
     ["O valor de pagamento solicitado de %1 é muito pequeno (considerado poeira)."];
   Message false [Loc None "+65"]
     "Refund from %1" true
     ["Reembolso de %1"];
   Message false [Loc None "+31"]
     "Payment request %1 is too large (%2 bytes, allowed %3 bytes)." true
     ["A solicitação de pagamento %1 é muito grande (%2 bytes, permitido %3 bytes)."];
   Message false [Loc None "+9"]
     "Error communicating with %1: %2" true
     ["Erro de comunicação com %1: %2"];
   Message false [Loc None "+20"]
     "Payment request cannot be parsed!" true
     ["O pedido de pagamento não pode ser analisado!"];
   Message false [Loc None "+13"]
     "Bad response from server %1" true
     ["Resposta incorreta do servidor %1"];
   Message false [Loc None "+22"]
     "Network request error" true
     ["Erro de solicitação de rede"];
   Message false [Loc None "+11"]
     "Payment acknowledged" true
     ["Pagamento reconhecido"]].

Definition pt_PeerTableModel : list message :=
  [Message false [Loc (Some "../peertablemodel.cpp") "+109"]
     "NodeId" true
     ["Id"];
   Message false [Loc None "+0"]
     "Node/Service" true
     ["Nó/serviço"];
   Message false [Loc None "+0"]
     "Ping" true
     ["Ping"];
   Message false [Loc None "+0"]
     "Sent" true
     ["Enviado"];
   Message false [Loc None "+0"]
     "Received" true
     ["Recebido"];
   Message false [Loc None "+0"]
     "User Agent" true
     ["Agente do usuário"]].

Definition pt_QObject : list message :=
  [Message false [Loc (Some "../bitcoinunits.cpp") "+196"]
     "Amount" true
     ["Quantidade"];
   Message false [Loc (Some "../guiutil.cpp") "+96"]
     "Enter Spending address" true
     ["Inserir endereço de gastos"];
   Message false [Loc None "+12"]
     "Enter ColdStake address" true
     ["Insira o endereço de ColdStake"];
   Message false [Loc None "+2"]
     "Enter Stake address of remote node" true
     ["Insira o endereço de stake do nó remoto"];
   Message false [Loc None "+2"]
     "Enter Stake address" true
     ["Insira o endereço de stake"];
   Message false [Loc None "+687"]
     "%1 d" true
     ["%1 d"];
   Message false [Loc None "+2"]
     "%1 h" true
     ["%1 h"];
   Message false [Loc None "+2"]
     "%1 m" true
     ["%1 m"];
   Message false [Loc None "+2"; Loc None "+53"]
     "%1 s" true
     ["%1 s"];
   Message false [Loc None "-10"]
     "None" true
     ["Nenhum"];
   Message false [Loc None "+5"]
     "N/A" true
     ["N/A"];
   Message false [Loc None "+0"]
     "%1 ms" true
     ["%1 ms"];
   Message true [Loc None "+18"]
     "%n second(s)" true
     ["% n segundo (s)"; "%n segundo(s)"];
   Message true [Loc None "+4"]
     "%n minute(s)" true
     ["% n minuto (s)"; "%n minuto(s)"];
   Message true [Loc None "+4"]
     "%n hour(s)" true
     ["% n hora (s)"; "%n hora(s)"];
   Message true [Loc None "+4"]
     "%n day(s)" true
     ["% n dia (s)"; "%n dia(s)"];
   Message true [Loc None "+4"; Loc None "+6"]
     "%n week(s)" true
     ["% n semana (s)"; "%n semana(s)"];
   Message false [Loc None "+0"]
     "%1 and %2" true
     ["%1 e %2"];
   Message true [Loc None "+0"]
     "%n year(s)" true
     ["% n ano (s)"; "%n ano(s)"];
   Message false [Loc None "+8"]
     "%1 B" true
     ["%1 B"];
   Message false [Loc None "+2"]
     "%1 KB" true
     ["%1 KB"];
   Message false [Loc None "+2"]
     "%1 MB" true
     ["%1 MB"];
   Message false [Loc None "+2"]
     "%1 GB" true
     ["%1 GB"];
   Message false [Loc None "+71"]
     "All spending funds are sent and received anonymously. Only the sender and receiver have details of their side of the transaction. Staking funds need to be converted to spending before sending out of wallet. Funds require %1 confirmations (%2 minutes) before sending." true
     ["Todos os fundos de gastos são enviados e recebidos anonimamente. Somente o remetente e o receptor têm detalhes de seu lado da transação. Os fundos de Staking precisam ser convertidos aos gastos antes de utilizar fora da carteira. Os fundos exigem %1 confirmações (%2 minutos) antes do envio."];
   Message false [Loc None "+15"]
     "Staking funds cannot be sent out of your wallet without converting to spending. After converting to spending, %1 confirmations (%2 minutes) are required before sending." true
     ["Os fundos de Staking não podem ser utilizados fora de sua carteira sem converter aos gastos. Após a conversão para gastos, %1 confirmações (%2 minutos) são necessários antes de enviar."];
   Message false [Loc (Some "../modaloverlay.cpp") "-29"]
     "unknown" true
     ["Desconhecido"];
   Message false [Loc (Some "../bitcoin.cpp") "+186"]
     "%1 didn&apos;t yet exit safely..." true
     ["%1 ainda não saiu com segurança..."]].

Definition pt_QObject__QObject : list message :=
  [Message false [Loc None "-117"]
     "Error parsing command line arguments: %1." true
     ["Erro ao analisar argumentos de linha de comando: %1."];
   Message false [Loc None "+38"]
     "Error: Specified data directory &quot;%1&quot; does not exist." true
     ["Erro: o diretório de dados especificado &quot;%1&quot; não existe."];
   Message false [Loc None "+5"]
     "Error: Cannot parse configuration file: %1." true
     ["Erro: não é possível analisar o arquivo de configuração: %1."];
   Message false [Loc None "+14"]
     "Error: %1" true
     ["Erro: %1"]].

Definition pt_QRImageWidget : list message :=
  [Message false [Loc (Some "../receiverequestdialog.cpp") "+32"]
     "&amp;Save Image..." true
     ["&amp;Salvar imagem..."];
   Message false [Loc None "+3"]
     "&amp;Copy Image" true
     ["&amp;Copiar imagem"];
   Message false [Loc None "+32"]
     "Save QR Code" true
     ["Salvar código QR"];
   Message false [Loc None "+0"]
     "PNG Image (*.png)" true
     ["Imagem PNG (*.png)"]].

Definition pt_RPCConsole_1 : list message :=
  [Message false [Loc (Some "../forms/debugwindow.ui") "+14"]
     "Debug window" true
     ["Janela Debug"];
   Message false [Loc None "+11"]
     "Information" true
     ["Informações"];
   Message false [Loc None "+13"]
     "Console" true
     ["Console"];
   Message false [Loc None "+10"]
     "Network Traffic" true
     ["Tráfego de rede"];
   Message false [Loc None "+10"]
     "Peers" true
     ["Pares"];
   Message false [Loc None "+21"; Loc None "+1004"]
     "User Agent" true
     ["Agente do usuário"];
   Message false [Loc None "-988"]
     "Block chain" true
     ["Cadeia de blocos"];
   Message false [Loc None "+7"]
     "Client version" true
     ["Versão do cliente"];
   Message false [Loc None "+13"]
     "General" true
     ["Geral"];
   Message false [Loc None "+13"]
     "Memory Pool" true
     ["Pool de memória"];
   Message false [Loc None "+7"]
     "Current number of blocks" true
     ["Número atual de blocos"];
   Message false [Loc None "+13"]
     "Network" true
     ["Rede"];
   Message false [Loc None "+7"]
     "Number of connections" true
     ["Número de conexões"];
   Message false [Loc None "+7"]
     "Startup time" true
     ["Tempo de inicialização"];
   Message false [Loc None "+7"]
     "Name" true
     ["Nome"];
   Message false [Loc None "+7"]
     "Last block time" true
     ["Última hora do bloco"];
   Message false [Loc None "+7"]
     "Using BerkeleyDB version" true
     ["Usando a versão do BerkeleyDB"];
   Message false [Loc None "+10"]
     "Datadir" true
     ["Diretório de dados"];
   Message false [Loc None "+7"]
     "Memory usage" true
     ["Uso da memória"];
   Message false [Loc None "+7"]
     "Current number of transactions" true
     ["Número atual de transações"];
   Message false [Loc None "+10"; Loc None "+16"; Loc None "+16"; Loc None "+16"; Loc None "+19"; Loc None "+16"; Loc None "+16"; Loc None "+16"; Loc None "+16"; Loc None "+16"; Loc None "+16"; Loc None "+644"; Loc None "+23"; Loc None "+23"; Loc None "+23"; Loc None "+23"; Loc None "+23"; Loc None "+23"; Loc None "+23"; Loc None "+23"; Loc None "+23"; Loc None "+23"; Loc None "+23"; Loc None "+23"; Loc None "+23"; Loc None "+23"; Loc None "+26"; Loc None "+23"; Loc None "+23"]
     "N/A" true
     ["N/A"];
   Message false [Loc None "-988"]
     "Debug log file" true
     ["Arquivo de log de depuração"];
   Message false [Loc None "+7"]
     "Open the %1 debug log file from the current data directory. This can take a few seconds for large log files." true
     ["Abra o arquivo de log de depuração %1 do diretório de dados atual. Isso pode levar alguns segundos para arquivos de log grandes."]].

Definition pt_RPCConsole_2 : list message :=
  [Message false [Loc None "+3"]
     "&amp;Open" true
     ["&amp;Abrir"];
   Message false [Loc None "+25"]
     "Wallet: " true
     ["Carteira:"];
   Message false [Loc None "+8"]
     "(none)" true
     ["(nenhum)"];
   Message false [Loc None "+27"]
     "Decrease font size" true
     ["Diminuir o tamanho da fonte"];
   Message false [Loc None "+32"]
     "Increase font size" true
     ["Aumentar o tamanho da fonte"];
   Message false [Loc None "+32"]
     "Clear console" true
     ["Limpar console"];
   Message false [Loc None "+111"]
     "&amp;Reset" true
     ["&amp;Redefinir"];
   Message false [Loc None "+16"]
     "Totals" true
     ["Totais"];
   Message false [Loc None "+67"; Loc None "+555"]
     "Received" true
     ["Recebido"];
   Message false [Loc None "-475"; Loc None "+452"]
     "Sent" true
     ["Enviado"];
   Message false [Loc None "-361"]
     "Banned peers" true
     ["Pares banidos"];
   Message false [Loc None "+60"; Loc (Some "../rpcconsole.cpp") "+510"; Loc None "+760"]
     "Select a peer to view detailed information." true
     ["Selecione um par para visualizar informações detalhadas."];
   Message false [Loc None "+25"]
     "Whitelisted" true
     ["Na lista branca"];
   Message false [Loc None "+23"]
     "Direction" true
     ["Direção"];
   Message false [Loc None "+23"]
     "Version" true
     ["Versão"];
   Message false [Loc None "+46"]
     "Services" true
     ["Serviços"];
   Message false [Loc None "+23"]
     "Starting Block" true
     ["Bloco inicial"];
   Message false [Loc None "+23"]
     "Synced Headers" true
     ["Cabeçalhos sincronizados"];
   Message false [Loc None "+23"]
     "Synced Blocks" true
     ["Blocos sincronizados"];
   Message false [Loc None "+23"]
     "Ban Score" true
     ["Pontuação Ban"];
   Message false [Loc None "+23"]
     "Connection Time" true
     ["Tempo de conexão"];
   Message false [Loc None "+23"]
     "Last Send" true
     ["Último envio"];
   Message false [Loc None "+23"]
     "Last Receive" true
     ["Última recepção"];
   Message false [Loc None "+69"]
     "Ping Time" true
     ["Tempo de ping"];
   Message false [Loc None "+23"]
     "The duration of a currently outstanding ping." true
     ["A duração de um ping atualmente pendentes."];
   Message false [Loc None "+3"]
     "Ping Wait" true
     ["Espera de ping"];
   Message false [Loc None "+23"]
     "Min Ping" true
     ["Min ping"];
   Message false [Loc None "+23"]
     "Time Offset" true
     ["Deslocamento de tempo"];
   Message false [Loc (Some "../rpcconsole.cpp") "-667"]
     "&amp;Disconnect" true
     ["&amp;Desconectar"]].

Definition pt_RPCConsole_3 : list message :=
  [Message false [Loc None "+1"; Loc None "+1"; Loc None "+1"; Loc None "+1"]
     "Ban for" true
     ["Banir por"];
   Message false [Loc None "-3"]
     "1 &amp;hour" true
     ["1 &amp;hora"];
   Message false [Loc None "+1"]
     "1 &amp;day" true
     ["1 &amp;dia"];
   Message false [Loc None "+1"]
     "1 &amp;week" true
     ["1 &amp;semana"];
   Message false [Loc None "+1"]
     "1 &amp;year" true
     ["1 &amp;ano"];
   Message false [Loc None "+48"]
     "&amp;Unban" true
     ["&amp;Desbanir"];
   Message false [Loc None "+54"]
     "default wallet" true
     ["carteira padrão"];
   Message false [Loc None "+110"]
     "Welcome to the %1 RPC console." true
     ["Bem-vindo ao console %1 RPC."];
   Message false [Loc None "+1"]
     "Use up and down arrows to navigate history, and %1 to clear screen." true
     ["Use as setas para cima e para baixo para navegar no histórico e %1 para limpar a tela."];
   Message false [Loc None "+1"]
     "Type %1 for an overview of available commands." true
     ["Digite %1 para obter uma visão geral dos comandos disponíveis."];
   Message false [Loc None "+1"]
     "For more information on using this console type %1." true
     ["Para obter mais informações sobre como usar esse tipo de console %1."];
   Message false [Loc None "+2"]
     "WARNING: Scammers have been active, telling users to type commands here, stealing their wallet contents. Do not use this console without fully understanding the ramifications of a command." true
     ["Aviso: pessoas suspeitas estão em atividade, dizendo aos usuários para digitar comandos aqui, roubando as moedas da carteira. Não use este console sem compreender completamente utilização de um comando."];
   Message false [Loc None "+32"]
     "In:" true
     ["Entrada:"];
   Message false [Loc None "+1"]
     "Out:" true
     ["Saída:"];
   Message false [Loc None "+3"]
     "Network activity disabled" true
     ["Atividade de rede desativada"];
   Message false [Loc None "+68"]
     "Executing command without any wallet" true
     ["Executando comando sem carteira"];
   Message false [Loc None "+2"]
     "Executing command using &quot;%1&quot; wallet" true
     ["Executando o comando usando a carteira &quot;%1&quot;"];
   Message false [Loc None "+190"]
     "(node id: %1)" true
     ["(ID do nó: %1)"];
   Message false [Loc None "+2"]
     "via %1" true
     ["via %1"];
   Message false [Loc None "+3"; Loc None "+1"]
     "never" true
     ["nunca"];
   Message false [Loc None "+10"]
     "Inbound" true
     ["Entrada"];
   Message false [Loc None "+0"]
     "Outbound" true
     ["Saída"];
   Message false [Loc None "+2"]
     "Yes" true
     ["Sim"];
   Message false [Loc None "+0"]
     "No" true
     ["Não"];
   Message false [Loc None "+12"; Loc None "+6"]
     "Unknown" true
     ["Desconhecido"]].

Definition pt_ReceiveCoinsDialog : list message :=
  [Message false [Loc (Some "../forms/receivecoinsdialog.ui") "+59"]
     "Stake" true
     ["Stake"];
   Message false [Loc None "+5"]
     "ColdStake" true
     ["ColdStake"];
   Message false [Loc None "+14"]
     "&amp;Request payment" true
     ["&amp;Solicitar pagamento"];
   Message false [Loc None "+17"]
     "Clear all fields of the form." true
     ["Desmarque todos os campos do formulário."];
   Message false [Loc None "+3"]
     "Clear" true
     ["Limpar"];
   Message false [Loc None "+56"; Loc None "+79"]
     "An optional amount to request. Leave this empty or zero to not request a specific amount." true
     ["Um valor opcional para solicitar. Deixe este vazio ou zero para não solicitar um valor específico."];
   Message false [Loc None "-57"]
     "Use bech32 encoding." true
     ["Use a codificação bech32."];
   Message false [Loc None "+3"]
     "Generate native segwit (Bech32) address" true
     ["Gere o endereço nativo do segwit (Bech32)"];
   Message false [Loc None "+22"; Loc None "+55"]
     "An optional label to associate with the new receiving address." true
     ["Um nome opcional para associar o novo endereço de recebimento."];
   Message false [Loc None "-52"]
     "&amp;Label:" true
     ["&amp;Nome:"];
   Message false [Loc None "+13"; Loc None "+53"]
     "An optional message to attach to the payment request, which will be displayed when the request is opened. Note: The message will not be sent with the payment over the Bitcoin Confidential network." true
     ["Uma mensagem opcional para anexar à solicitação de pagamento, que será exibida quando a solicitação for aberta. Nota: a mensagem não será enviada com o pagamento através da rede Bitcoin Confidential."];
   Message false [Loc None "-50"]
     "&amp;Message:" true
     ["&amp;Mensagem:"];
   Message false [Loc None "+16"]
     "&amp;Amount:" true
     ["&amp;Quantidade:"];
   Message false [Loc None "+13"]
     "Use this form to request payments. All fields are &lt;b&gt;optional&lt;/b&gt;." true
     ["Use este formulário para solicitar pagamentos. Todos os campos são &lt;b&gt;opcionais&lt;/b&gt;."];
   Message false [Loc None "+63"]
     "Requested payments history" true
     ["Histórico de pagamentos solicitados"];
   Message false [Loc None "+31"]
     "Show the selected request (does the same as double clicking an entry)" true
     ["Mostrar a solicitação selecionada (faz o mesmo que clicar duas vezes em uma entrada)"];
   Message false [Loc None "+3"]
     "Show" true
     ["Exibir"];
   Message false [Loc None "+17"]
     "Remove the selected entries from the list" true
     ["Remova as entradas selecionadas da lista"];
   Message false [Loc None "+3"]
     "Remove" true
     ["Remover"];
   Message false [Loc (Some "../receivecoinsdialog.cpp") "+40"]
     "Copy URI" true
     ["Copiar URI"];
   Message false [Loc None "+1"]
     "Copy label" true
     ["Copiar nome"];
   Message false [Loc None "+1"]
     "Copy message" true
     ["Copiar mensagem"];
   Message false [Loc None "+1"]
     "Copy amount" true
     ["Copiar valor"]].

Definition pt_ReceiveRequestDialog : list message :=
  [Message false [Loc (Some "../forms/receiverequestdialog.ui") "+29"]
     "QR Code" true
     ["Código QR"];
   Message false [Loc None "+46"]
     "Copy &amp;URI" true
     ["Copy &amp;URI"];
   Message false [Loc None "+10"]
     "Copy &amp;Address" true
     ["Copiar &amp;Endereço"];
   Message false [Loc None "+10"]
     "&amp;Save Image..." true
     ["&amp;Salvar imagem..."];
   Message false [Loc (Some "../receiverequestdialog.cpp") "+65"]
     "Request payment to %1" true
     ["Solicitar pagamento para %1"];
   Message false [Loc None "+6"]
     "Payment information" true
     ["Informações de pagamento"];
   Message false [Loc None "+1"]
     "URI" true
     ["URI"];
   Message false [Loc None "+2"]
     "Address" true
     ["Endereço"];
   Message false [Loc None "+2"]
     "Amount" true
     ["Valor"];
   Message false [Loc None "+2"]
     "Label" true
     ["Nome"];
   Message false [Loc None "+2"]
     "Message" true
     ["Mensagem"];
   Message false [Loc None "+2"]
     "Wallet" true
     ["Carteira"];
   Message false [Loc None "+11"]
     "Resulting URI too long, try to reduce the text for label / message." true
     ["URI resultante muito longo, tente reduzir o texto do nome ou mensagem."];
   Message false [Loc None "+5"]
     "Error encoding URI into QR Code." true
     ["Erro ao codificar o URI no código QR."]].

Definition pt_RecentRequestsTableModel : list message :=
  [Message false [Loc (Some "../recentrequeststablemodel.cpp") "+25"; Loc None "+4"]
     "Date" true
     ["Data"];
   Message false [Loc None "-4"; Loc None "+4"]
     "Label" true
     ["Nome"];
   Message false [Loc None "+0"]
     "Message" true
     ["Mensagem"];
   Message false [Loc None "+42"]
     "(no label)" true
     ["(sem nome)"];
   Message false [Loc None "+9"]
     "(no message)" true
     ["(sem mensagem)"];
   Message false [Loc None "+8"]
     "(no amount requested)" true
     ["(sem valor solicitada)"];
   Message false [Loc None "+45"]
     "Requested" true
     ["Solicitado"]].

Definition pt_SendCoinsDialog_1 : list message :=
  [Message false [Loc (Some "../forms/sendcoinsdialog.ui") "+14"; Loc (Some "../sendcoinsdialog.cpp") "+806"]
     "Send Coins" true
     ["Enviar moedas"];
   Message false [Loc None "+105"]
     "Inputs..." true
     ["Entradas..."];
   Message false [Loc None "+10"]
     "automatically selected" true
     ["automaticamente seleccionado"];
   Message false [Loc None "+19"]
     "Insufficient funds!" true
     ["Fundos insuficientes!"];
   Message false [Loc None "+89"]
     "Quantity:" true
     ["Quantidade:"];
   Message false [Loc None "+35"]
     "Bytes:" true
     ["Bytes:"];
   Message false [Loc None "+48"]
     "Amount:" true
     ["Valor:"];
   Message false [Loc None "+32"]
     "Dust:" true
     ["Poeira:"];
   Message false [Loc None "+48"]
     "Fee:" true
     ["Taxa:"];
   Message false [Loc None "+51"]
     "After Fee:" true
     ["Após a taxa:"];
   Message false [Loc None "+32"]
     "Change:" true
     ["Troco:"];
   Message false [Loc None "+44"]
     "If this is activated, but the change address is empty or invalid, change will be sent to a newly generated address." true
     ["Se isso for ativado, mas o endereço de alteração estiver vazio ou inválido, a alteração será enviada para um endereço recém-gerado."];
   Message false [Loc None "+3"]
     "Custom change address" true
     ["Endereço de troco personalizado"];
   Message false [Loc None "+256"]
     "Transaction Fee:" true
     ["Taxa de transação:"];
   Message false [Loc None "+14"]
     "Choose..." true
     ["Escolher..."];
   Message false [Loc None "+30"]
     "Using the fallbackfee can result in sending a transaction that will take several hours or days (or never) to confirm. Consider choosing your fee manually or wait until you have validated the complete chain." true
     ["Usar o fallbackfee pode resultar no envio de uma transação que levará várias horas ou dias (ou nunca) para confirmar. Considere escolher a sua taxa manualmente ou aguarde até validar a cadeia completa."];
   Message false [Loc None "+3"]
     "Warning: Fee estimation is currently not possible." true
     ["Aviso: a estimativa de taxa não é atualmente possível."];
   Message false [Loc None "+26"]
     "collapse fee-settings" true
     ["diminuir configurações de taxa"];
   Message false [Loc None "+3"]
     "Hide" true
     ["Esconder"];
   Message false [Loc None "+48"]
     "Specify a custom fee per kB (1,000 bytes) of the transaction's virtual size.

Note:  Since the fee is calculated on a per-byte basis, a fee of &quot;100 satoshis per kB&quot; for a transaction size of 500 bytes (half of 1 kB) would ultimately yield a fee of only 50 satoshis." true
     ["Especifique uma taxa personalizada por kB (1.000 bytes) do tamanho virtual da transação.

Nota: uma vez que a taxa é calculada em uma base por byte, uma taxa de &quot;100 satoshis por kB&quot; para um tamanho de transação de 500 bytes (metade de 1 kB) acabaria por render uma taxa de apenas 50 satoshis."];
   Message false [Loc None "+5"]
     "per kilobyte" true
     ["por kilobyte"];
   Message false [Loc None "+27"; Loc None "+13"]
     "Paying only the minimum fee is just fine as long as there is less transaction volume than space in the blocks. But be aware that this can end up in a never confirming transaction once there is more demand for Bitcoin Confidential transactions than the network can process." true
     ["Pagando apenas a taxa mínima é ok, desde que haja menos volume de transação do que o espaço nos blocos. Mas esteja ciente de que isso pode acabar em uma transação nunca confirmando uma vez que há mais demanda por transações do que a rede pode processar."];
   Message false [Loc None "+3"]
     "(read the tooltip)" true
     ["(leia a anotação)"];
   Message false [Loc None "+29"]
     "Recommended:" true
     ["Recomendado:"];
   Message false [Loc None "+30"]
     "Custom:" true
     ["Personalizado:"];
   Message false [Loc None "+52"]
     "(Smart fee not initialized yet. This usually takes a few blocks...)" true
     ["(Taxa inteligente não inicializada ainda. Isso geralmente leva alguns blocos...)"];
   Message false [Loc None "+29"]
     "Confirmation time target:" true
     ["Alvo do tempo de confirmação:"];
   Message false [Loc None "+74"]
     "With Replace-By-Fee (BIP-125) you can increase a transaction&apos;s fee after it is sent. Without this, a higher fee may be recommended to compensate for increased transaction delay risk." true
     ["Com a substituição de taxa (BIP-125), você pode aumentar a taxa de uma transação depois que ela for enviada. Sem isso, uma taxa mais alta pode ser recomendada para compensar o aumento do risco de atraso de transação."]].

Definition pt_SendCoinsDialog_2 : list message :=
  [Message false [Loc None "+3"]
     "Enable Replace-By-Fee" true
     ["Habilitar substituição por taxa"];
   Message false [Loc None "+37"]
     "Confirm the send action" true
     ["Confirme a ação de envio"];
   Message false [Loc None "+3"]
     "S&amp;end" true
     ["E&amp;nviar"];
   Message false [Loc None "+23"]
     "Clear all fields of the form." true
     ["Desmarque todos os campos do formulário."];
   Message false [Loc None "+3"]
     "Clear &amp;All" true
     ["Limpar &amp;Tudo"];
   Message false [Loc None "+14"]
     "Send to multiple recipients at once" true
     ["Enviar para vários destinatários de uma só vez"];
   Message false [Loc None "+3"]
     "Add &amp;Recipient" true
     ["Adicionar &amp;Destinatário"];
   Message false [Loc None "+38"]
     "Balance:" true
     ["Saldo:"];
   Message false [Loc (Some "../sendcoinsdialog.cpp") "-730"]
     "Add Output" true
     ["Adicionar saída"];
   Message false [Loc None "+3"]
     "Add Recipient" true
     ["Adicionar destinatário"];
   Message false [Loc None "+14"]
     "Copy quantity" true
     ["Copiar quantidade"];
   Message false [Loc None "+1"]
     "Copy amount" true
     ["Copiar valor"];
   Message false [Loc None "+1"]
     "Copy fee" true
     ["Copiar taxa"];
   Message false [Loc None "+1"]
     "Copy after fee" true
     ["Copiar após a taxa"];
   Message false [Loc None "+1"]
     "Copy bytes" true
     ["Copiar bytes"];
   Message false [Loc None "+1"]
     "Copy dust" true
     ["Copiar poeira"];
   Message false [Loc None "+1"]
     "Copy change" true
     ["Copiar troco"];
   Message false [Loc None "+88"]
     "%1 (%2 blocks)" true
     ["%1 (%2 blocos)"];
   Message false [Loc None "+39"]
     "This tab allows manually activating Staking funds for ColdStaking. This will take longer than the &quot;Automated ColdStaking activation&quot; to start staking but wallet does not need to be online for the activation." true
     ["Esta guia permite ativar manualmente os fundos de Staking para o ColdStaking. Isso levará mais tempo do que a &quot;ativação automática de ColdStaking&quot; para iniciar o Staking mas carteira não precisa estar on-line para a ativação."];
   Message false [Loc None "+103"]
     "Error Remote Staking Address" true
     ["Erro - endereço de Staking remoto"];
   Message false [Loc None "+0"]
     "The remote stake address can&apos;t be part of this wallet." true
     ["O endereço de staking remoto não pode fazer parte desta carteira."];
   Message false [Loc None "+96"]
     "from wallet %1" true
     ["da carteira %1"];
   Message false [Loc None "+21"; Loc None "+5"; Loc None "+5"; Loc None "+4"]
     "%1 to %2" true
     ["%1 a %2"];
   Message false [Loc None "+6"]
     "Are you sure you want to send?" true
     ["Tem certeza de que deseja enviar?"];
   Message false [Loc None "+2"]
     "Please, review your transaction." true
     ["Por favor, reveja a sua transação."];
   Message false [Loc None "+11"]
     "Estimated Transaction fee" true
     ["Taxa de transação estimada"];
   Message false [Loc None "+13"]
     "removed for transaction fee" true
     ["removido para taxa de transação"];
   Message false [Loc None "+2"]
     "added as transaction fee" true
     ["adicionado como taxa de transação"];
   Message false [Loc None "+5"]
     "You can increase the fee later (signals Replace-By-Fee, BIP-125)." true
     ["Você pode aumentar a taxa mais tarde (substituir por taxa, BIP-125)."]].

Definition pt_SendCoinsDialog_3 : list message :=
  [Message false [Loc None "+2"]
     "Not signalling Replace-By-Fee, BIP-125." true
     ["Não sinalizar substituir por taxa, BIP-125."];
   Message false [Loc None "+12"]
     "Total Amount" true
     ["Valor total"];
   Message false [Loc None "+6"]
     "Your hardware device must be connected to sign this txn." true
     ["Seu dispositivo de hardware deve estar conectado para assinar este TXN."];
   Message false [Loc None "+4"]
     "Confirm send coins" true
     ["Confirmar enviar moedas"];
   Message false [Loc None "+248"]
     "The recipient address is not valid. Please recheck." true
     ["O endereço do destinatário não é válido. Por favor, verifique novamente."];
   Message false [Loc None "+3"]
     "The amount to pay must be larger than 0." true
     ["O valor a ser pago deve ser maior que 0."];
   Message false [Loc None "+3"]
     "The amount exceeds your balance." true
     ["O montante excede o seu saldo."];
   Message false [Loc None "+3"]
     "The total exceeds your balance when the %1 transaction fee is included." true
     ["O total excede o saldo quando a taxa de transação %1 é incluída."];
   Message false [Loc None "+3"]
     "Duplicate address found: addresses should only be used once each." true
     ["Endereço duplicado encontrado: endereços só devem ser usados uma vez cada."];
   Message false [Loc None "+3"]
     "Transaction creation failed!" true
     ["Falha na criação da transação!"];
   Message false [Loc None "+4"]
     "The transaction was rejected with the following reason: %1" true
     ["A transação foi rejeitada com o seguinte motivo: %1"];
   Message false [Loc None "+4"]
     "A fee higher than %1 is considered an absurdly high fee." true
     ["Uma taxa superior a %1 é considerada uma taxa absurdamente elevada."];
   Message false [Loc None "+3"]
     "Payment request expired." true
     ["O pedido de pagamento expirou."];
   Message false [Loc None "+96"]
     "Pay only the required fee of %1" true
     ["Pague apenas a taxa exigida de %1"];
   Message true [Loc None "+76"]
     "Estimated to begin confirmation within %n block(s)." true
     ["Estimado para começar a confirmação dentro de %n bloco(s)."; "Estimado para começar a confirmação dentro de %n bloco(s)."];
   Message false [Loc None "+130"]
     "Warning: Invalid Bitcoin Confidential address" true
     ["Aviso: endereço Bitcoin Confidential inválido"];
   Message false [Loc None "+8"]
     "Error custom change address" true
     ["Erro - Endereço de troco personalizado"];
   Message false [Loc None "+0"]
     "The address you selected for change is not part of this wallet." true
     ["O endereço que seleccionou para troco não faz parte desta carteira."];
   Message false [Loc None "+15"]
     "(no label)" true
     ["(sem nome)"]].

Definition pt_SendCoinsEntry_1 : list message :=
  [Message false [Loc (Some "../forms/sendcoinsentry.ui") "+30"]
     "This is a normal payment." true
     ["Este é um pagamento normal."];
   Message false [Loc None "+71"; Loc None "+463"; Loc None "+130"]
     "Subtract fee from amount" true
     ["Subtrair taxa do valor"];
   Message false [Loc None "-580"; Loc None "+463"; Loc None "+130"]
     "Use available balance" true
     ["Usar saldo disponível"];
   Message false [Loc None "-562"]
     "Message" true
     ["Mensagem"];
   Message false [Loc None "+24"; Loc None "+261"]
     "The Bitcoin Confidential address to send the payment to" true
     ["O endereço Bitcoin Confidential para enviar o pagamento"];
   Message false [Loc None "-254"; Loc None "+261"; Loc None "+297"; Loc None "+104"]
     "Choose previously used address" true
     ["Escolha o endereço usado anteriormente"];
   Message false [Loc None "-646"; Loc None "+261"; Loc None "+297"; Loc None "+104"]
     "Alt+A" true
     ["Alt+A"];
   Message false [Loc None "-655"; Loc None "+261"; Loc None "+297"; Loc None "+104"]
     "Paste address from clipboard" true
     ["Colar endereço da área de transferência"];
   Message false [Loc None "-646"; Loc None "+261"; Loc None "+297"; Loc None "+104"]
     "Alt+P" true
     ["Alt+P"];
   Message false [Loc None "-655"; Loc None "+261"; Loc None "+401"; Loc None "+520"; Loc None "+564"]
     "Remove this entry" true
     ["Remover esta entrada"];
   Message false [Loc None "-1718"; Loc None "+277"]
     "Pay To" true
     ["Pague para"];
   Message false [Loc None "-258"; Loc None "+242"; Loc None "+277"]
     "Amount" true
     ["Valor"];
   Message false [Loc None "-495"]
     "Enter a label for this address to add it to the list of used addresses" true
     ["Insira um nome para este endereço para adicioná-lo à lista de endereços usados"];
   Message false [Loc None "+15"]
     "Label" true
     ["Nome"];
   Message false [Loc None "+33"]
     "A short message sent over the Bitcoin Confidential network." true
     ["Uma mensagem curta enviada pela rede Bitcoin Confidential."];
   Message false [Loc None "+6"]
     "Encrypted message sent with the transaction (optional, max. 24 characters)." true
     ["Mensagem criptografada enviada com a transação (opcional, máx. 24 caracteres)."];
   Message false [Loc None "+261"]
     "This is a payment to a coldstake script." true
     ["Este é um pagamento para um script coldstake."];
   Message false [Loc None "+83"]
     "The fee will be deducted from the amount being sent. The recipient will receive less Bitcoin Confidential than you enter in the amount field. If multiple recipients are selected, the fee is split equally." true
     ["A taxa será deduzida do montante a ser enviado. O destinatário receberá menos Bitcoin Confidential do que você insere no campo de valor. Se vários destinatários forem selecionados, a taxa será dividida igualmente."];
   Message false [Loc None "+36"]
     "ColdStake address used by your remote staking node to stake your funds." true
     ["O endereço ColdStake utilizado pelo seu nó de staking remoto para juntar os seus fundos."];
   Message false [Loc None "+80"]
     "ColdStake " true
     ["ColdStake "];
   Message false [Loc None "+24"]
     "The stake address on the remote node (cannot be in this wallet)" true
     ["O endereço de staking do nó remoto (não pode estar nesta carteira)"];
   Message false [Loc None "+81"]
     " Stake " true
     [" Stake "];
   Message false [Loc None "+434"]
     "This is an unauthenticated payment request." true
     ["Esta é uma solicitação de pagamento não autenticada."];
   Message false [Loc None "+40"; Loc None "+560"]
     "Pay To:" true
     ["Pague para:"]].

Definition pt_SendCoinsEntry_2 : list message :=
  [Message false [Loc None "-526"; Loc None "+577"]
     "Memo:" true
     ["Memorando:"];
   Message false [Loc None "-560"; Loc None "+547"]
     "A&amp;mount:" true
     ["V&amp;alor:"];
   Message false [Loc None "-78"]
     "This is an authenticated payment request." true
     ["Esta é uma solicitação de pagamento autenticada."];
   Message false [Loc (Some "../sendcoinsentry.cpp") "+89"]
     "Enter a label for this address to add it to your address book" true
     ["Insira um nome para esse endereço para adicioná-lo ao seu catálogo de endereços"]].

Definition pt_SendConfirmationDialog : list message :=
  [Message false [Loc (Some "../sendcoinsdialog.cpp") "+85"; Loc None "+5"]
     "Yes" true
     ["Sim"]].

Definition pt_ShutdownWindow : list message :=
  [Message false [Loc (Some "../utilitydialog.cpp") "+83"]
     "%1 is shutting down..." true
     ["%1 está fechando..."];
   Message false [Loc None "+1"]
     "Do not shut down the computer until this window disappears." true
     ["Não desligue o computador até que esta janela desapareça."]].

Definition pt_SignVerifyMessageDialog_1 : list message :=
  [Message false [Loc (Some "../forms/signverifymessagedialog.ui") "+14"]
     "Signatures - Sign / Verify a Message" true
     ["Assinaturas - Assinar / Verificar uma mensagem"];
   Message false [Loc None "+14"]
     "&amp;Sign Message" true
     ["&amp;Assinar mensagem"];
   Message false [Loc None "+10"]
     "&amp;Verify Message" true
     ["&amp;Verificar mensagem"];
   Message false [Loc None "+31"]
     "You can sign messages/agreements with your addresses to prove you can receive Bitcoin Confidential sent to them. Be careful not to sign anything vague or random, as phishing attacks may try to trick you into signing your identity over to them. Only sign fully-detailed statements you agree to." true
     ["Você pode assinar mensagens/acordos com seus endereços para provar que você pode receber o Bitcoin Confidential enviado a eles. Tenha cuidado para não assinar nada vago ou aleatório, como ataques de phishing podem tentar enganá-lo para assinar sua identidade sobre a eles. Assine apenas instruções totalmente detalhadas que você concorda."];
   Message false [Loc None "+18"]
     "The Bitcoin Confidential address to sign the message with" true
     ["O endereço Bitcoin Confidential para assinar a mensagem"];
   Message false [Loc None "+7"; Loc None "+213"]
     "Choose previously used address" true
     ["Escolha o endereço usado anteriormente"];
   Message false [Loc None "-203"; Loc None "+213"]
     "Alt+A" true
     ["Alt+A"];
   Message false [Loc None "-203"]
     "Paste address from clipboard" true
     ["Colar endereço da área de transferência"];
   Message false [Loc None "+10"]
     "Alt+P" true
     ["Alt+P"];
   Message false [Loc None "+12"]
     "Enter the message you want to sign here" true
     ["Digite a mensagem que você deseja assinar aqui"];
   Message false [Loc None "+7"]
     "Signature" true
     ["Assinatura"];
   Message false [Loc None "+27"]
     "Copy the current signature to the system clipboard" true
     ["Copie a assinatura atual para a área de transferência do sistema"];
   Message false [Loc None "+21"]
     "Sign the message to prove you own this Bitcoin Confidential address" true
     ["Assine a mensagem para provar que você possui este endereço Bitcoin Confidential"];
   Message false [Loc None "+3"]
     "Sign &amp;Message" true
     ["Assinar &amp;Mensagem"];
   Message false [Loc None "+14"]
     "Reset all sign message fields" true
     ["Redefinir todos os campos de assinatura"];
   Message false [Loc None "+3"; Loc None "+153"]
     "Clear &amp;All" true
     ["Limpar &amp;Tudo"];
   Message false [Loc None "-85"]
     "Enter the receiver&apos;s address, message (ensure you copy line breaks, spaces, tabs, etc. exactly) and signature below to verify the message. Be careful not to read more into the signature than what is in the signed message itself, to avoid being tricked by a man-in-the-middle attack. Note that this only proves the signing party receives with the address, it cannot prove sendership of any transaction!" true
     ["Digite o endereço do destinatário, mensagem (certifique-se de copiar quebras de linha, espaços, guias, etc. exatamente) e assinatura abaixo para verificar a mensagem. Tenha cuidado para não ler mais na assinatura do que o que está na mensagem assinada em si, para evitar ser enganado por um ataque homem-no-meio. Note que isso só prova que o lado que assinou recebe com o endereço, ele não pode provar a possibilidade de envio de qualquer transação!"];
   Message false [Loc None "+21"]
     "The Bitcoin Confidential address the message was signed with" true
     ["O endereço de Bitcoin Confidential que a mensagem foi assinada"];
   Message false [Loc None "+44"]
     "Verify the message to ensure it was signed with the specified Bitcoin Confidential address" true
     ["Verifique a mensagem para garantir que ele foi assinado com o endereço de Bitcoin Confidential especificado"];
   Message false [Loc None "+3"]
     "Verify &amp;Message" true
     ["Verificar &amp;Mensagem"];
   Message false [Loc None "+14"]
     "Reset all verify message fields" true
     ["Redefinir todos os campos de verificação de mensagem"];
   Message false [Loc (Some "../signverifymessagedialog.cpp") "+39"]
     "Click &quot;Sign Message&quot; to generate signature" true
     ["Clique em &quot;Assinar Mensagem&quot; para gerar assinatura"];
   Message false [Loc None "+78"; Loc None "+78"]
     "The entered address is invalid." true
     ["O endereço digitado é inválido."];
   Message false [Loc None "-78"; Loc None "+7"; Loc None "+71"; Loc None "+6"]
     "Please check the address and try again." true
     ["Por favor, verifique o endereço e tente novamente."];
   Message false [Loc None "-77"; Loc None "+77"]
     "The entered address does not refer to a key." true
     ["O endereço introduzido não se refere a uma chave."];
   Message false [Loc None "-69"]
     "Wallet unlock was cancelled." true
     ["Desbloqueio da carteira foi cancelado."];
   Message false [Loc None "+8"]
     "Private key for the entered address is not available." true
     ["A chave privada para o endereço introduzido não está disponível."];
   Message false [Loc None "+12"]
     "Message signing failed." true
     ["Falha na assinatura de mensagem."]].

Definition pt_SignVerifyMessageDialog_2 : list message :=
  [Message false [Loc None "+5"]
     "Message signed." true
     ["Mensagem assinada."];
   Message false [Loc None "+55"]
     "The signature could not be decoded." true
     ["A assinatura não pôde ser decodificada."];
   Message false [Loc None "+0"; Loc None "+13"]
     "Please check the signature and try again." true
     ["Por favor, verifique a assinatura e tente novamente."];
   Message false [Loc None "+0"]
     "The signature did not match the message digest." true
     ["A assinatura não correspondeu ao resumo da mensagem."];
   Message false [Loc None "+6"]
     "Message verification failed." true
     ["Falha na verificação de mensagem."];
   Message false [Loc None "+5"]
     "Message verified." true
     ["Mensagem verificada."]].

Definition pt_SplashScreen : list message :=
  [Message false [Loc (Some "../networkstyle.cpp") "+19"]
     "[testnet]" true
     ["[testnet]"]].

Definition pt_StakingDialog_1 : list message :=
  [Message false [Loc (Some "../forms/stakingdialog.ui") "+14"]
     "Send Coins" true
     ["Enviar Moedas"];
   Message false [Loc None "+23"]
     "Status" true
     ["Status"];
   Message false [Loc None "+19"]
     "Addresses" true
     ["Endereços"];
   Message false [Loc None "+16"]
     "Rewards" true
     ["Recompensas"];
   Message false [Loc None "+16"]
     "Convert to Spending" true
     ["Converta para gastos"];
   Message false [Loc None "+16"]
     "Convert to Staking" true
     ["Converta para Staking"];
   Message false [Loc None "+16"]
     "Activate ColdStaking" true
     ["Ativar o ColdStaking"];
   Message false [Loc None "+79"]
     "Total supply" true
     ["Total de moedas"];
   Message false [Loc None "+26"]
     "Current block reward" true
     ["Recompensa do bloco atual"];
   Message false [Loc None "+26"]
     "Current block height" true
     ["Número do bloco atual"];
   Message false [Loc None "+20"]
     "Network difficulty" true
     ["Dificuldade de rede"];
   Message false [Loc None "+26"]
     "Annual staking reward" true
     ["Recompensa anual de Staking"];
   Message false [Loc None "+13"]
     "Current staking reward" true
     ["Recompensa de Staking atual"];
   Message false [Loc None "+26"]
     "Network staking weight" true
     ["Peso de Staking da rede"];
   Message false [Loc None "+20"]
     "Your estimated annual reward" true
     ["Sua recompensa anual estimada"];
   Message false [Loc None "+13"]
     "?" true
     ["?"];
   Message false [Loc None "+80"]
     "Staking" true
     ["Staking"];
   Message false [Loc None "+24"; Loc None "+233"]
     "ENABLED" true
     ["Habilitado"];
   Message false [Loc None "-210"]
     "Pause" true
     ["Pausa"];
   Message false [Loc None "+50"; Loc None "+425"]
     "Estimated reward frequency" true
     ["Frequência de recompensa estimada"];
   Message false [Loc None "-412"]
     "Stakable Funds" true
     ["Fundos para stake"];
   Message false [Loc None "+20"]
     "Wallet staking weight" true
     ["Peso de staking da carteira"];
   Message false [Loc None "+103"]
     "Cold Staking" true
     ["Cold Staking"];
   Message false [Loc None "+55"]
     "Remote Stake address" true
     ["Endereço de stake remoto"];
   Message false [Loc None "+13"]
     "Automated ColdStaking activation" true
     ["Ativação automatizada do ColdStaking"];
   Message false [Loc None "+25"]
     "Enable " true
     ["Ativo"];
   Message false [Loc None "+57"]
     "Enable Hot Staking with the STAKING ENABLE button and leaving wallet open.  Enable automated ColdStake with COLDSTAKING ENABLE button and setting a remote stake address. On remote node enable staking with &quot;bitcoinc-cli walletsettings stakingstatus true&quot; and create a &quot;Stake&quot; address on your remote node with &quot;bitcoinc-cli getnewstakeaddress&quot;, or get a &quot;Stake&quot; address from a ColdStaking pool. Funds gradually transition over from hot staking to cold staking while your wallet is open. The time required for the activation depends on the wallet&apos;s staking weight and can take several days with a low weight. Once the activation bar shows complete, wallet can be closed.  Alternatively, use the Activate Coldstaking tab to send an activation transaction.  This will take longer to start staking but wallet does not need to be online." true
     ["Ative o Hot Staking com o botão ATIVAR STAKING e deixando a carteira aberta.  Ative o ColdStake automatizado com o botão ATIVAR COLDSTAKING e definindo um endereço de staking remoto. No nó remoto habilitar Staking com &quot;bitcoinc-cli walletsettings stakingstatus true&quot; e criar um endereço de &quot;stake&quot; em seu nó remoto com o comando &quot;bitcoinc-cli getnewstakeaddress&quot;, ou obter um endereço de &quot;stake&quot; de uma pool ColdStaking. Os fundos irão transitar gradualmente do Hot Staking para o ColdStake quando sua carteira for aberta. O tempo exigido para a ativação depende do peso de Staking da carteira e pode tomar diversos dias com um baixo peso. Uma vez que a barra de ativação ficar completa, a carteira pode ser fechada.  Alternativamente, use a guia ativar Coldstaking para enviar uma transação de ativação.  Isso levará mais tempo para começar a Staking, mas a carteira não precisa estar online."];
   Message false [Loc None "+20"]
     "ColdStake activation progress" true
     ["Progresso da ativação do ColdStake"];
   Message false [Loc None "+77"]
     "Amount activated for ColdStaking" true
     ["Valor ativado para ColdStaking"]].

Definition pt_StakingDialog_2 : list message :=
  [Message false [Loc None "+13"]
     "Estimated weight" true
     ["Peso estimado"];
   Message false [Loc None "+106"]
     "Filtered" true
     ["Filtrado"];
   Message false [Loc None "+15"; Loc None "+88"]
     "Staking rewards" true
     ["Recompensas de Staking"];
   Message false [Loc None "-75"; Loc None "+48"]
     "Solved blocks" true
     ["Blocos resolvidos"];
   Message false [Loc None "-41"; Loc None "+55"]
     "4000" true
     ["4000"];
   Message false [Loc None "-48"; Loc None "+41"]
     "100000BC" true
     ["100000BC"];
   Message false [Loc None "-22"]
     "Total" true
     ["Total"];
   Message false [Loc (Some "../stakingdialog.cpp") "+258"; Loc None "+17"]
     "No stakable funds available. Use the &quot;Convert to staking&quot; tab to convert funds for staking." true
     ["Não há fundos disponíveis. Use a guia &quot;Convert para Staking&quot; para converter fundos para Staking."];
   Message false [Loc None "-15"; Loc None "+18"]
     "No eligible staking outputs available. Staking funds need to have 225 confirmations to be eligible." true
     ["Sem saídas de Staking elegíveis disponíveis. Os fundos de Staking precisam de ter 225 confirmações para serem elegíveis."];
   Message false [Loc None "-9"]
     "Staking not initialized yet. Wait a moment." true
     ["Staking não inicializado ainda. Espere um momento."];
   Message false [Loc None "+3"]
     "Staking is stopped. Press the start button above to enable staking." true
     ["O Staking está parado. Pressione o botão iniciar acima para ativar o Staking."];
   Message false [Loc None "+10"]
     "Wallet is locked. To start staking unlock the wallet for staking only. To unlock click the lock icon in the bottom right hand portion of the window." true
     ["A carteira está trancada. Para começar Staking destravar a carteira para Staking somente. Para desbloquear clique no ícone de cadeado na parte inferior direita da janela."];
   Message false [Loc None "+4"]
     "Wallet is not fully synced. To start staking make sure the wallet has connections to the network and wait until it catched up with the latest blocks." true
     ["A carteira não está totalmente sincronizada. Para começar Staking certifique-se que a carteira tem conexões com a rede e espere até que todos os blocos estejam sincronizados."];
   Message false [Loc None "+3"]
     "Staking is disabled. Set the config paramter &quot;staking=1&quot; in the bitcoinc.conf to enable it." true
     ["Staking está desativado. Defina o paramter config &quot;staking = 1&quot; no bitcoinc.conf para habilitá-lo."];
   Message false [Loc None "+72"]
     "No eligible coldstaking outputs available. Your coldstaking funds need to have 225 confirmations to be eligible." true
     ["Não há saídas de coldstaking elegíveis disponíveis. Seus fundos de coldstaking precisam de ter 225 confirmações para ser elegíveis."];
   Message false [Loc None "+160"]
     "Set Remote Staking Address" true
     ["Definir endereço de Staking remoto"];
   Message false [Loc None "+1"]
     "Enter the remote staking address:" true
     ["Digite o endereço de Staking remoto:"]].

Definition pt_TrafficGraphWidget : list message :=
  [Message false [Loc (Some "../trafficgraphwidget.cpp") "+81"]
     "KB/s" true
     ["KB/s"]].

Definition pt_TransactionDesc_1 : list message :=
  [Message true [Loc (Some "../transactiondesc.cpp") "+39"]
     "Open for %n more block(s)" true
     ["Abrir para% n mais bloco (s)"; "Abrir para %n mais bloco(s)"];
   Message false [Loc None "+2"]
     "Open until %1" true
     ["Aberto até %1"];
   Message false [Loc None "+6"]
     "conflicted with a transaction with %1 confirmations" true
     ["em conflito com uma transação com %1 confirmações"];
   Message false [Loc None "+2"]
     "0/unconfirmed, %1" true
     ["0/não confirmado, %1"];
   Message false [Loc None "+0"]
     "in memory pool" true
     ["no pool de memória"];
   Message false [Loc None "+0"]
     "not in memory pool" true
     ["Não está no pool de memória"];
   Message false [Loc None "+0"]
     "abandoned" true
     ["Abandonada"];
   Message false [Loc None "+2"]
     "%1/unconfirmed" true
     ["%1/não confirmado"];
   Message false [Loc None "+2"]
     "%1 confirmations" true
     ["%1 confirmações"];
   Message false [Loc None "+29"]
     "Status" true
     ["Status"];
   Message false [Loc None "+3"]
     "Date" true
     ["Data"];
   Message false [Loc None "+4"; Loc None "+223"]
     "Transaction ID" true
     ["ID da transação"];
   Message false [Loc None "-210"; Loc None "+211"]
     "Transaction total size" true
     ["Tamanho total da transação"];
   Message false [Loc None "-209"]
     "Confirmations" true
     ["Confirmações"];
   Message false [Loc None "+4"]
     "Block hash" true
     ["Hash do bloco"];
   Message false [Loc None "+1"]
     "Block index" true
     ["Índice do bloco"];
   Message false [Loc None "+1"]
     "Block time" true
     ["Horário do bloco"];
   Message false [Loc None "+21"]
     "Source" true
     ["Fonte"];
   Message false [Loc None "+0"]
     "Generated" true
     ["Gerado"];
   Message false [Loc None "+5"; Loc None "+14"; Loc None "+72"]
     "From" true
     ["De"];
   Message false [Loc None "-72"]
     "unknown" true
     ["desconhecido"];
   Message false [Loc None "+1"; Loc None "+20"; Loc None "+72"]
     "To" true
     ["Para"];
   Message false [Loc None "-90"]
     "own address" true
     ["próprio endereço"];
   Message false [Loc None "+0"; Loc None "+69"]
     "watch-only" true
     ["visualização apenas"];
   Message false [Loc None "-67"]
     "label" true
     ["Nome"];
   Message false [Loc None "+36"; Loc None "+12"; Loc None "+58"; Loc None "+37"; Loc None "+66"]
     "Credit" true
     ["Crédito"];
   Message true [Loc None "-171"]
     "matures in %n more block(s)" true
     ["amadurece em% n mais bloco (s)"; "disponível em mais %n bloco(s)"]].

Definition pt_TransactionDesc_2 : list message :=
  [Message false [Loc None "+2"]
     "not accepted" true
     ["não aceito"];
   Message false [Loc None "+64"; Loc None "+26"; Loc None "+71"]
     "Debit" true
     ["Débito"];
   Message false [Loc None "-87"]
     "Total debit" true
     ["Débito total"];
   Message false [Loc None "+1"]
     "Total credit" true
     ["Crédito total"];
   Message false [Loc None "+5"]
     "Transaction fee" true
     ["Taxa de transação"];
   Message false [Loc None "+27"]
     "Net amount" true
     ["Valor líquido"];
   Message false [Loc None "+6"; Loc None "+12"]
     "Message" true
     ["Mensagem"];
   Message false [Loc None "-10"]
     "Comment" true
     ["Comentário"];
   Message false [Loc None "+4"]
     "Transaction virtual size" true
     ["Tamanho virtual da transação"];
   Message false [Loc None "+1"]
     "Output index" true
     ["Índice de saída"];
   Message false [Loc None "+10"]
     "Narration" true
     ["Narração"];
   Message false [Loc None "+13"]
     "Merchant" true
     ["Comerciante"];
   Message false [Loc None "+7"]
     "Generated coins must mature %1 blocks before they can be spent. When you generated this block, it was broadcast to the network to be added to the block chain. If it fails to get into the chain, its state will change to &quot;not accepted&quot; and it won&apos;t be spendable. This may occasionally happen if another node generates a block within a few seconds of yours." true
     ["Moedas geradas devem ficar disponíveis %1 blocos antes que eles podem ser gastos. Quando você gerou esse bloco, ele foi transmitido para a rede a ser adicionado à cadeia de blocos. Se ele não conseguir entrar na cadeia, seu estado vai mudar para &quot;não aceito&quot; e não estará disponível. Isso pode acontecer ocasionalmente se outro nó gera um bloco alguns segundos antes do seu."];
   Message false [Loc None "+8"]
     "Debug information" true
     ["Informações de depuração"];
   Message false [Loc None "+13"]
     "Transaction" true
     ["Transação"];
   Message false [Loc None "+3"]
     "Inputs" true
     ["Entradas"];
   Message false [Loc None "+21"]
     "Amount" true
     ["Valor"];
   Message false [Loc None "+1"; Loc None "+1"]
     "true" true
     ["verdadeiro"];
   Message false [Loc None "-1"; Loc None "+1"]
     "false" true
     ["falso"]].

Definition pt_TransactionDescDialog : list message :=
  [Message false [Loc (Some "../forms/transactiondescdialog.ui") "+26"]
     "This pane shows a detailed description of the transaction" true
     ["Este painel mostra uma descrição detalhada da transação"];
   Message false [Loc (Some "../transactiondescdialog.cpp") "+17"]
     "Details for %1" true
     ["Detalhes para %1"]].

Definition pt_TransactionTableModel_1 : list message :=
  [Message false [Loc (Some "../transactiontablemodel.cpp") "+257"]
     "Date" true
     ["Data"];
   Message false [Loc None "+2"]
     "Type" true
     ["Tipo"];
   Message false [Loc None "+2"]
     "Label" true
     ["Nome"];
   Message false [Loc None "+3"]
     "In" true
     ["Entrada"];
   Message false [Loc None "+0"]
     "Out" true
     ["Saída"];
   Message true [Loc None "+73"]
     "Open for %n more block(s)" true
     ["Abrir para% n mais bloco (s)"; "Abrir para mais %n bloco(s)"];
   Message false [Loc None "+3"]
     "Open until %1" true
     ["Aberto até %1"];
   Message false [Loc None "+3"]
     "Unconfirmed" true
     ["Não confirmado"];
   Message false [Loc None "+4"]
     "Orphaned" true
     ["Órfãos"];
   Message false [Loc None "+2"]
     "Abandoned" true
     ["Abandonado"];
   Message false [Loc None "+22"]
     "Confirming (%1 of %2 recommended confirmations)" true
     ["Confirmando (%1 de %2 confirmações recomendadas)"];
   Message false [Loc None "+3"]
     "Confirmed (%1 confirmations)" true
     ["Confirmado (%1 confirmações)"];
   Message false [Loc None "+3"]
     "Conflicted" true
     ["Conflito"];
   Message false [Loc None "+3"]
     "Immature (%1 confirmations, will be available after %2)" true
     ["Imaturo (%1 confirmações, estará disponível após %2)"];
   Message false [Loc None "+3"]
     "Generated but not accepted" true
     ["Gerado mas não aceito"];
   Message false [Loc None "+39"]
     "Received with" true
     ["Recebido com"];
   Message false [Loc None "+2"]
     "Received from" true
     ["Recebido de"];
   Message false [Loc None "+3"]
     "Sent to" true
     ["Enviado para"];
   Message false [Loc None "+2"]
     "Payment to yourself" true
     ["Pagamento para si mesmo"];
   Message false [Loc None "+2"]
     "Airdrop" true
     ["Airdrop"];
   Message false [Loc None "+2"]
     "Staked" true
     ["Staked"];
   Message false [Loc None "+30"]
     "watch-only" true
     ["visualização apenas"];
   Message false [Loc None "+16"]
     "(n/a)" true
     ["(n/a)"];
   Message false [Loc None "+168"]
     "Unlock to show" true
     ["Desbloquear para mostrar"];
   Message false [Loc None "+111"]
     "(no label)" true
     ["(sem nome)"];
   Message false [Loc None "+42"; Loc None "+14"]
     "Transaction status. Hover over this field to show number of confirmations." true
     ["Status da transação. Passe o mouse sobre este campo para mostrar o número de confirmações."];
   Message false [Loc None "-12"]
     "Date and time that the reward was received." true
     ["Data e hora em que a recompensa foi recebida."];
   Message false [Loc None "+2"; Loc None "+16"]
     "Whether or not a watch-only address is involved in this transaction." true
     ["Se um endereço apenas de visualização está envolvido nesta transação."];
   Message false [Loc None "-14"]
     "Address used for the block solving" true
     ["Endereço utilizado para a resolução de blocos"]].

Definition pt_TransactionTableModel_2 : list message :=
  [Message false [Loc None "+2"]
     "Staking reward." true
     ["Recompensa de Staking."];
   Message false [Loc None "+8"]
     "Date and time that the transaction was received." true
     ["Data e hora em que a transação foi recebida."];
   Message false [Loc None "+2"]
     "Type of transaction." true
     ["Tipo de transação."];
   Message false [Loc None "+4"]
     "User-defined intent/purpose of the transaction." true
     ["Intenção/finalidade definida pelo usuário da transação."];
   Message false [Loc None "+2"]
     "Type of input coin." true
     ["Tipo de moeda de entrada."];
   Message false [Loc None "+2"]
     "Type of output coin." true
     ["Tipo de moeda de saída."];
   Message false [Loc None "+2"]
     "Amount removed from or added to balance." true
     ["Valor removido ou adicionado ao saldo."]].

Definition pt_TransactionView_1 : list message :=
  [Message false [Loc (Some "../transactionview.cpp") "+53"; Loc None "+11"; Loc None "+18"]
     "All" true
     ["Todas"];
   Message false [Loc None "-17"]
     "Today" true
     ["Hoje"];
   Message false [Loc None "+1"]
     "This week" true
     ["Esta semana"];
   Message false [Loc None "+1"]
     "This month" true
     ["Este mês"];
   Message false [Loc None "+1"]
     "Last month" true
     ["No mês passado"];
   Message false [Loc None "+1"]
     "This year" true
     ["Este ano"];
   Message false [Loc None "+1"]
     "Range..." true
     ["Intervalo..."];
   Message false [Loc None "+13"]
     "Received with" true
     ["Recebido com"];
   Message false [Loc None "+2"]
     "Sent to" true
     ["Enviado para"];
   Message false [Loc None "+2"]
     "To yourself" true
     ["Para si mesmo"];
   Message false [Loc None "+1"]
     "Other" true
     ["Outros"];
   Message false [Loc None "+1"]
     "Airdrop" true
     ["Airdrop"];
   Message false [Loc None "+5"]
     "Enter address, transaction id, or label to search" true
     ["Insira o endereço, o ID da transação ou o nome para pesquisar"];
   Message false [Loc None "+5"]
     "Min amount" true
     ["Quantidade mínima"];
   Message false [Loc None "+52"]
     "Abandon transaction" true
     ["Abandonar transação"];
   Message false [Loc None "+1"]
     "Increase transaction fee" true
     ["Aumente a taxa de transação"];
   Message false [Loc None "+2"]
     "Copy address" true
     ["Copiar endereço"];
   Message false [Loc None "+1"]
     "Copy label" true
     ["Copiar nome"];
   Message false [Loc None "+1"]
     "Copy amount" true
     ["Copiar valor"];
   Message false [Loc None "+1"]
     "Copy transaction ID" true
     ["Copiar ID da transação"];
   Message false [Loc None "+1"]
     "Copy raw transaction" true
     ["Copiar transação bruta"];
   Message false [Loc None "+1"]
     "Copy full transaction details" true
     ["Copiar detalhes completos da transação"];
   Message false [Loc None "+1"]
     "Edit label" true
     ["Editar nome"];
   Message false [Loc None "+1"]
     "Show transaction details" true
     ["Mostrar detalhes da transação"];
   Message false [Loc None "+239"]
     "Export Transaction History" true
     ["Exportar histórico de transações"];
   Message false [Loc None "+1"]
     "Comma separated file (*.csv)" true
     ["Arquivo separado por vírgula (*.csv)"];
   Message false [Loc None "+9"]
     "Confirmed" true
     ["Confirmado"];
   Message false [Loc None "+2"]
     "Watch-only" true
     ["Visualização apenas"];
   Message false [Loc None "+1"]
     "Date" true
     ["Data"]].

Definition pt_TransactionView_2 : list message :=
  [Message false [Loc None "+2"]
     "Type" true
     ["Tipo"];
   Message false [Loc None "+2"]
     "Label" true
     ["Nome"];
   Message false [Loc None "+1"]
     "Address" true
     ["Endereço"];
   Message false [Loc None "+2"]
     "ID" true
     ["ID"];
   Message false [Loc None "+3"]
     "Exporting Failed" true
     ["Exportação falhou"];
   Message false [Loc None "+0"]
     "There was an error trying to save the transaction history to %1." true
     ["Houve um erro ao tentar salvar o histórico de transações em %1."];
   Message false [Loc None "+4"]
     "Exporting Successful" true
     ["Exportação com sucesso"];
   Message false [Loc None "+0"]
     "The transaction history was successfully saved to %1." true
     ["O histórico de transações foi salvo com sucesso em %1."];
   Message false [Loc None "+169"]
     "Range:" true
     ["Intervalo:"];
   Message false [Loc None "+8"]
     "to" true
     ["Para"]].

Definition pt_TxViewDelegate : list message :=
  [Message false [Loc (Some "../overviewpage.cpp") "+95"]
     "Unlock to show" true
     ["Desbloquear para mostrar"]].

Definition pt_UnitDisplayStatusBarControl : list message :=
  [Message false [Loc (Some "../bitcoingui.cpp") "+122"]
     "Unit to show amounts in. Click to select another unit." true
     ["Unidade para mostrar os valores. Clique para selecionar outra unidade."]].

Definition pt_WalletFrame : list message :=
  [Message false [Loc (Some "../walletframe.cpp") "+29"]
     "No wallet has been loaded." true
     ["Nenhuma carteira foi carregada."]].

Definition pt_WalletModel : list message :=
  [Message false [Loc (Some "../walletmodel.cpp") "+592"; Loc None "+4"; Loc None "+11"]
     "Wallet Model" true
     ["Modelo de carteira"];
   Message false [Loc None "+65"; Loc None "+39"; Loc None "+6"]
     "Fee bump error" true
     ["Erro de aumento de taxa"];
   Message false [Loc None "-45"]
     "Increasing transaction fee failed" true
     ["O aumento da taxa de transação falhou"];
   Message false [Loc None "+6"]
     "Do you want to increase the fee?" true
     ["Você quer aumentar a taxa de transação?"];
   Message false [Loc None "+4"]
     "Current fee:" true
     ["Taxa atual:"];
   Message false [Loc None "+4"]
     "Increase:" true
     ["Aumentar:"];
   Message false [Loc None "+4"]
     "New fee:" true
     ["Nova taxa:"];
   Message false [Loc None "+4"]
     "Confirm fee bump" true
     ["Confirmar aumento de taxa"];
   Message false [Loc None "+17"]
     "Can&apos;t sign transaction." true
     ["Não é possível assinar a transação."];
   Message false [Loc None "+6"]
     "Could not commit transaction" true
     ["Não foi possível confirmar a transação"]].

Definition pt_WalletView : list message :=
  [Message false [Loc (Some "../walletview.cpp") "+46"; Loc None "+1"]
     "&amp;Export" true
     ["&amp;Exportar"];
   Message false [Loc None "+9"; Loc None "+29"]
     "Export the data in the current tab to a file" true
     ["Exportar os dados da guia atual para um arquivo"];
   Message false [Loc None "-19"]
     "Selected amount" true
     ["Valor selecionado"];
   Message false [Loc None "+290"]
     "Backup Wallet" true
     ["Carteira de backup"];
   Message false [Loc None "+1"]
     "Wallet Data (*.dat)" true
     ["Dados da carteira (*.dat)"];
   Message false [Loc None "+6"]
     "Backup Failed" true
     ["Falha de backup"];
   Message false [Loc None "+0"]
     "There was an error trying to save the wallet data to %1." true
     ["Houve um erro ao tentar salvar os dados da carteira em %1."];
   Message false [Loc None "+4"]
     "Backup Successful" true
     ["Backup bem-sucedido"];
   Message false [Loc None "+0"]
     "The wallet data was successfully saved to %1." true
     ["Os dados da carteira foram salvos com sucesso em %1."];
   Message false [Loc None "+63"]
     "Cancel" true
     ["Cancelar"]].

Definition pt_bitcoin_core_1 : list message :=
  [Message false [Loc (Some "../bitcoinstrings.cpp") "+12"]
     "Bitcoin Confidential Core" true
     ["Bitcoin Confidential Core"];
   Message false [Loc None "+1"]
     "The %s developers" true
     ["Os desenvolvedores %s"];
   Message false [Loc None "+1"]
     " is spendable from this wallet." true
     ["está disponível nessa carteira."];
   Message false [Loc None "+1"]
     "-maxtxfee is set very high! Fees this large could be paid on a single transaction." true
     ["-maxtxfee definido muito alto! As taxas altas podem ser pagas em uma única transação."];
   Message false [Loc None "+3"]
     "Can&apos;t generate a change-address key. Private keys are disabled for this wallet." true
     ["Não é possível gerar uma chave de endereço de troco. As chaves privadas estão desativadas para esta carteira."];
   Message false [Loc None "+3"]
     "Cannot obtain a lock on data directory %s. %s is probably already running." true
     ["Não é possível obter um bloqueio no diretório de dados %s. %s provavelmente já está em execução."];
   Message false [Loc None "+2"]
     "Cannot provide specific connections and have addrman find outgoing connections at the same." true
     ["Não é possível fornecer conexões específicas e encontrar conexões de saída no mesmo tempo."];
   Message false [Loc None "+3"]
     "Cannot upgrade a non HD split wallet without upgrading to support pre split keypool. Please use -upgradewallet=169900 or -upgradewallet with no version specified." true
     ["Não é possível atualizar uma carteira não HD sem atualizar para oferecer suporte a pool de chaves pré-divididas. Por favor, use -upgradewallet=169900 ou -upgradewallet sem versão especificada."];
   Message false [Loc None "+4"]
     "Distributed under the MIT software license, see the accompanying file %s or %s" true
     ["Distribuído sob a licença de software MIT, consulte o arquivo de acompanhamento %s ou %s"];
   Message false [Loc None "+3"]
     "Error loading %s: You can&apos;t enable HD on an already existing non-HD wallet" true
     ["Erro ao carregar %s: não é possível ativar HD em uma carteira não-HD já existente"];
   Message false [Loc None "+2"]
     "Error reading %s! All keys read correctly, but transaction data or address book entries might be missing or incorrect." true
     ["Erro ao ler %s! Todas as chaves lidas corretamente, mas os dados de transação ou entradas do catálogo de endereços podem estar ausentes ou incorretos."];
   Message false [Loc None "+3"]
     "Error: Listening for incoming connections failed (listen returned error %s)" true
     ["Erro: escuta para conexões de entrada falhou (escutar retornou o erro %s)"];
   Message false [Loc None "+2"]
     "Fee estimation failed. Fallbackfee is disabled. Wait a few blocks or enable -fallbackfee." true
     ["A estimativa da taxa falhou. Fallbackfee está desativado. Aguarde alguns blocos ou ative -fallbackfee."];
   Message false [Loc None "+3"]
     "Generate a random master key and main account if no master key exists. (default: %s)" true
     ["Gere uma chave mestra aleatória e uma conta principal se nenhuma chave mestra existir. (padrão: %s)"];
   Message false [Loc None "+3"]
     "Group outputs by address, selecting all or none, instead of selecting on a per-output basis. Privacy is improved as an address is only used once (unless someone sends to it after spending from it), but may result in slightly higher fees as suboptimal coin selection may result due to the added limitation (default: %u)" true
     ["Agrupar saídas por endereço, selecionando tudo ou nenhum, em vez de selecionar em uma base por saída. A privacidade é melhorada porque um endereço é usado somente uma vez (a menos que alguém lhe enviar após a despesa dele), mas pode conduzir a umas taxas ligeiramente mais elevadas porque a seleção suboptimal da moeda pode resultar devido à limitação adicionada (padrão: %u)"];
   Message false [Loc None "+6"]
     "Invalid amount for -maxtxfee=&lt;amount&gt;: &apos;%s&apos; (must be at least the minrelay fee of %s to prevent stuck transactions)" true
     ["Valor inválido para -maxtxfee=&lt;amount&gt;: &apos;%s&apos; (deve ser pelo menos a taxa de minrelay de %s para evitar transações presas)&lt;/amount&gt;"];
   Message false [Loc None "+3"]
     "Milliseconds between stake attempts. Lowering this param will not result in more stakes. (default: 500)" true
     ["Milissegundos entre as tentativas de staking. Baixando este parâmetro não resultará em mais stakes. (padrão: 500)"];
   Message false [Loc None "+3"]
     "Not enough spending outputs available in the blockchain for privacy mixing. There are currently %d. For this transaction required: %d" true
     ["Não há saídas de gastos suficientes disponíveis no blockchain para a mistura de privacidade. Existem atualmente %d. Para esta transação necessária: %d"];
   Message false [Loc None "+3"]
     "Number of threads to start for staking, max 1 per active wallet, will divide wallets evenly between threads (default: 1)" true
     ["Número de threads para iniciar Staking, máximo de 1 por carteira ativa, dividirá as carteiras de maneira uniforme entre as threads (padrão: 1)"];
   Message false [Loc None "+3"]
     "On saving a key from the lookahead pool, save all unsaved keys leading up to it too. (default: %s)" true
     ["Ao salvar uma chave do pool lookahead, salve todas as chaves não salvas que levam até ele também. (padrão: %s)"];
   Message false [Loc None "+3"]
     "Please check that your computer&apos;s date and time are correct! If your clock is wrong, %s will not work properly." true
     ["Verifique se a data e a hora do seu computador estão corretas! Se o seu relógio estiver errado, %s não funcionará corretamente."];
   Message false [Loc None "+3"]
     "Please contribute if you find %s useful. Visit %s for further information about the software." true
     ["Por favor, contribua se você encontrar %s útil. Visite %s para obter mais informações sobre o software."];
   Message false [Loc None "+3"]
     "Prune configured below the minimum of %d MiB.  Please use a higher number." true
     ["Prune configurado abaixo do mínimo de %d MiB.  Por favor, use um número maior."];
   Message false [Loc None "+2"]
     "Prune: last wallet synchronisation goes beyond pruned data. You need to -reindex (download the whole blockchain again in case of pruned node)" true
     ["Prune: a última sincronização da carteira vai além dos dados podados. Você precisa-reindexar (baixar todo o blockchain novamente em caso de nó podado)"];
   Message false [Loc None "+3"]
     "Rescans are not possible in pruned mode. You will need to use -reindex which will download the whole blockchain again." true
     ["Os rescans não são possíveis no modo podado. Você vai precisar usar -reindex que irá baixar todo o blockchain novamente."];
   Message false [Loc None "+3"]
     "The block database contains a block which appears to be from the future. This may be due to your computer&apos;s date and time being set incorrectly. Only rebuild the block database if you are sure that your computer&apos;s date and time are correct" true
     ["O banco de dados de bloco contém um bloco que parece ser do futuro. Isto pode ser devido à data e hora do computador incorreta. Apenas reconstruir a base de dados de bloco se tiver a certeza de que a data e hora do computador estão corretas"];
   Message false [Loc None "+5"]
     "The transaction amount is too small to send after the fee has been deducted" true
     ["O valor da transação é muito pequeno para enviar após a taxa ter sido deduzida"];
   Message false [Loc None "+2"]
     "This is a pre-release test build - use at your own risk - do not use for mining or merchant applications" true
     ["Este é um teste de pré-lançamento - use em seu próprio risco - não use para aplicações de mineração ou comerciante"];
   Message false [Loc None "+3"]
     "This is the transaction fee you may discard if change is smaller than dust at this level" true
     ["Esta é a taxa de transação que você pode descartar se a mudança é menor do que a poeira a este nível"]].

Definition pt_bitcoin_core_2 : list message :=
  [Message false [Loc None "+3"]
     "This is the transaction fee you may pay when fee estimates are not available." true
     ["Esta é a taxa de transação que você pode pagar quando as estimativas de taxa não estão disponíveis."];
   Message false [Loc None "+2"]
     "This product includes software developed by the OpenSSL Project for use in the OpenSSL Toolkit %s and cryptographic software written by Eric Young and UPnP software written by Thomas Bernard." true
     ["Este produto inclui software desenvolvido pelo OpenSSL Project para uso no OpenSSL Toolkit %s e software criptográfico escrito por Eric Young e software UPnP escrito por Thomas Bernard."];
   Message false [Loc None "+4"]
     "Total length of network version string (%i) exceeds maximum length (%i). Reduce the number or size of uacomments." true
     ["Comprimento total da cadeia de caracteres de versão de rede (%i) excede o comprimento máximo (%i). Reduza o número ou o tamanho de uacomments."];
   Message false [Loc None "+3"]
     "Unable to replay blocks. You will need to rebuild the database using -reindex-chainstate." true
     ["Não é possível reproduzir os blocos. Será necessário recriar o banco de dados usando -reindex-chainstate."];
   Message false [Loc None "+3"]
     "Unable to rewind the database to a pre-fork state. You will need to redownload the blockchain" true
     ["Não é possível retroceder o banco de dados para um estado de pré-bifurcação. Você precisará baixar novamente o blockchain"];
   Message false [Loc None "+3"]
     "Unsupported argument -socks found. Setting SOCKS version isn&apos;t possible anymore, only SOCKS5 proxies are supported." true
     ["Argumento -socks não suportado encontrado. Configuração de SOCKS não é mais possível, apenas proxies SOCKS5 são suportados."];
   Message false [Loc None "+3"]
     "Unsupported argument -whitelistalwaysrelay ignored, use -whitelistrelay and/or -whitelistforcerelay." true
     ["Argumento sem suporte -whitelistalwaysrelay ignorado, use -whitelistrelay e/ou -whitelistforcerelay."];
   Message false [Loc None "+3"]
     "Warning: Private keys detected in wallet {%s} with disabled private keys" true
     ["Aviso: chaves privadas detectadas na carteira {%s} com chaves privadas desativadas"];
   Message false [Loc None "+2"]
     "Warning: The network does not appear to fully agree! Some miners appear to be experiencing issues." true
     ["Aviso: a rede não parece concordar plenamente! Alguns mineradores parecem estar enfrentando problemas."];
   Message false [Loc None "+3"]
     "Warning: Unknown block versions being mined! It&apos;s possible unknown rules are in effect" true
     ["Aviso: versões de bloco desconhecido sendo extraído! É possível que as regras desconhecidas estejam em vigor"];
   Message false [Loc None "+3"]
     "Warning: Wallet file corrupt, data salvaged! Original %s saved as %s in %s; if your balance or transactions are incorrect you should restore from a backup." true
     ["Aviso: arquivo de carteira corrompido, dados corrompidos! Original %s salvos como %s em %s; Se o saldo ou as transações estiverem incorretas, deve restaurar a partir de uma cópia de segurança."];
   Message false [Loc None "+4"]
     "Warning: We do not appear to fully agree with our peers! You may need to upgrade, or other nodes may need to upgrade." true
     ["Aviso: nós não parecemos concordar plenamente com os nossos pares! Talvez seja necessário atualizar a versão da carteira ou os outros nós talvez precisem atualizar."];
   Message false [Loc None "+3"]
     "You need to rebuild the database using -reindex to change -timestampindex" true
     ["Você precisa reconstruir o banco de dados usando -reindex para mudar o argumento -timestampindex"];
   Message false [Loc None "+2"]
     "You need to rebuild the database using -reindex to go back to unpruned mode.  This will redownload the entire blockchain" true
     ["Você precisa recriar o banco de dados usando -reindex para voltar ao modo unpruned.  Isso baixará todo o blockchain novamente"];
   Message false [Loc None "+3"]
     "%d of last 100 blocks have unexpected version" true
     ["%d dos últimos 100 blocos têm versão inesperada"];
   Message false [Loc None "+1"]
     "%s corrupt, salvage failed" true
     ["%s corrompido, salvamento falhou"];
   Message false [Loc None "+1"]
     "%s is set very high!" true
     ["%s é definido muito alto!"];
   Message false [Loc None "+1"]
     "-maxmempool must be at least %d MB" true
     ["-maxmempool deve ser pelo menos %d MB"];
   Message false [Loc None "+1"]
     "Account chain not found" true
     ["Cadeia de conta não encontrada"];
   Message false [Loc None "+1"]
     "Address &apos;%s&apos; is not in the address book." true
     ["O endereço &apos;%s&apos; não está no catálogo de endereços."];
   Message false [Loc None "+1"]
     "Address &apos;%s&apos; is recorded in the address book." true
     ["O endereço &apos;%s&apos; está gravado no catálogo de endereços."];
   Message false [Loc None "+1"]
     "Anon output not found in db, %d" true
     ["Saída Anon não encontrada no banco de dados, %d"];
   Message false [Loc None "+1"]
     "Anon pubkey not found in db, %s" true
     ["Pubkey Anon não encontrado no banco de dados, %s"];
   Message false [Loc None "+1"]
     "Cannot downgrade wallet" true
     ["Não é possível downgrade da carteira"];
   Message false [Loc None "+1"]
     "Cannot resolve -%s address: &apos;%s&apos;" true
     ["Não é possível resolver -%s endereço: &apos;%s&apos;"];
   Message false [Loc None "+1"]
     "Cannot write to data directory &apos;%s&apos;; check permissions." true
     ["Não é possível gravar no diretório de dados &apos;%s&apos;; verifique as permissões."];
   Message false [Loc None "+1"]
     "Change index out of range" true
     ["Alterar o índice fora do intervalo"];
   Message false [Loc None "+1"]
     "Confidential chain set but not found" true
     ["Conjunto de cadeias confidenciais, mas não encontrado"];
   Message false [Loc None "+1"]
     "Copyright (C)" true
     ["Copyright (C)"];
   Message false [Loc None "+1"]
     "Corrupted block database detected" true
     ["Banco de dados de blocos corrompido detectado"]].

Definition pt_bitcoin_core_3 : list message :=
  [Message false [Loc None "+1"]
     "Could not convert prefix to number." true
     ["Não foi possível converter o prefixo para número."];
   Message false [Loc None "+1"]
     "Could not decode scan secret as wif, hex or base58." true
     ["Não foi possível decodificar o segredo como WIF, Hex ou base58."];
   Message false [Loc None "+1"]
     "Could not decode spend secret as hex or base58." true
     ["Não foi possível decodificar segredo como hex ou base58."];
   Message false [Loc None "+1"]
     "Could not get confidential chain from account." true
     ["Não foi possível obter cadeia confidencial da conta."];
   Message false [Loc None "+1"]
     "Could not get scan public key." true
     ["Não foi possível obter a chave pública."];
   Message false [Loc None "+1"]
     "Could not get spend public key." true
     ["Não foi possível achar a chave pública."];
   Message false [Loc None "+1"]
     "Default account not found" true
     ["Conta padrão não encontrada"];
   Message false [Loc None "+1"]
     "DeriveNextKey failed" true
     ["Falha de DeriveNextKey"];
   Message false [Loc None "+1"]
     "Do you want to rebuild the block database now?" true
     ["Você deseja recriar o banco de dados de blocos agora?"];
   Message false [Loc None "+1"]
     "Done loading" true
     ["Carregamento feito"];
   Message false [Loc None "+1"]
     "Duplicate index found, %d" true
     ["Índice duplicado encontrado, %d"];
   Message false [Loc None "+1"]
     "Empty wallet required for import." true
     ["Carteira vazia necessária para importação."];
   Message false [Loc None "+1"]
     "Ensure available balance remains above reservebalance. (default: 0)" true
     ["Certifique-se de saldo disponível permanece acima do saldo reservado. (padrão: 0)"];
   Message false [Loc None "+1"]
     "EraseSetting failed." true
     ["Falha na EraseSetting."];
   Message false [Loc None "+1"]
     "Error creating %s: You can&apos;t create non-HD wallets with this version." true
     ["Erro ao criar %s: não é possível criar carteiras não-HD com esta versão."];
   Message false [Loc None "+1"]
     "Error initializing block database" true
     ["Erro ao inicializar o banco de dados de blocos"];
   Message false [Loc None "+1"]
     "Error initializing wallet database environment %s!" true
     ["Erro ao inicializar o ambiente de banco de dados da carteira %s!"];
   Message false [Loc None "+1"]
     "Error loading %s" true
     ["Erro ao carregar %s"];
   Message false [Loc None "+1"]
     "Error loading %s: Private keys can only be disabled during creation" true
     ["Erro ao carregar %s: as chaves privadas só podem ser desativadas durante a criação"];
   Message false [Loc None "+1"]
     "Error loading %s: Wallet corrupted" true
     ["Erro ao carregar %s: carteira corrompida"];
   Message false [Loc None "+1"]
     "Error loading %s: Wallet requires newer version of %s" true
     ["Erro ao carregar %s: a carteira requer uma versão mais recente do %s"];
   Message false [Loc None "+1"]
     "Error loading %s: You can&apos;t disable HD on an already existing HD wallet" true
     ["Erro ao carregar %s: não é possível desativar o HD em uma carteira HD já existente"];
   Message false [Loc None "+1"]
     "Error loading block database" true
     ["Erro ao carregar o banco de dados dos blocos"];
   Message false [Loc None "+1"]
     "Error loading wallet %s. Duplicate -wallet filename specified." true
     ["Erro ao carregar a carteira %s. Duplicar utilizando -wallet nome do arquivo especificado."];
   Message false [Loc None "+1"]
     "Error opening block database" true
     ["Erro ao abrir o banco de dados dos blocos"];
   Message false [Loc None "+1"]
     "Error reading from database, shutting down." true
     ["Erro ao ler do banco de dados, fechando."];
   Message false [Loc None "+1"]
     "Error upgrading chainstate database" true
     ["Erro ao atualizar o banco de dados chainstate"];
   Message false [Loc None "+1"]
     "Error" true
     ["Erro"];
   Message false [Loc None "+1"]
     "Error: A fatal internal error occurred, see debug.log for details" true
     ["Erro: ocorreu um erro interno fatal, consulte o arquivo debug. log para obter detalhes"];
   Message false [Loc None "+1"]
     "Error: Disk space is low!" true
     ["Erro: o espaço em disco é baixo!"]].

Definition pt_bitcoin_core_4 : list message :=
  [Message false [Loc None "+1"]
     "ExtKeyGetIndex failed." true
     ["ExtKeyGetIndex falhou."];
   Message false [Loc None "+1"]
     "ExtKeySaveAccountToDB failed" true
     ["Falha de ExtKeySaveAccountToDB"];
   Message false [Loc None "+1"]
     "Failed to listen on any port. Use -listen=0 if you want this." true
     ["Falha ao escutar em qualquer porta. Use -listen=0 se você quiser isso."];
   Message false [Loc None "+1"]
     "Failed to open dongle" true
     ["Falha ao abrir o dongle"];
   Message false [Loc None "+1"]
     "Failed to rescan the wallet during initialization" true
     ["Falha de rescan da carteira durante a inicialização"];
   Message false [Loc None "+1"]
     "Hit nMaxTries limit, %d, %d" true
     ["Acertar nMaxTries limite, %d, %d"];
   Message false [Loc None "+1"]
     "Import failed - AddKeyPubKey failed." true
     ["Falha na importação - AddKeyPubKey falhou."];
   Message false [Loc None "+1"]
     "Import failed - stealth address exists." true
     ["Importação falhou - endereço Stealth existe."];
   Message false [Loc None "+1"]
     "Importing..." true
     ["Importando..."];
   Message false [Loc None "+1"]
     "Incorrect or no genesis block found. Wrong datadir for network?" true
     ["Incorreto ou nenhum bloco de gênese encontrado. Diretório de dados &quot;datadir&quot; errado para a rede?"];
   Message false [Loc None "+1"]
     "Information" true
     ["Informações"];
   Message false [Loc None "+1"]
     "Initialization sanity check failed. %s is shutting down." true
     ["Falha na verificação de sanidade de inicialização. %s está sendo desligado."];
   Message false [Loc None "+1"]
     "Insufficient funds" true
     ["Fundos insuficientes"];
   Message false [Loc None "+1"]
     "Insufficient funds." true
     ["Fundos insuficientes."];
   Message false [Loc None "+1"]
     "Invalid -onion address or hostname: &apos;%s&apos;" true
     ["Endereço ou hostname -onion inválido: &apos;%s&apos;"];
   Message false [Loc None "+1"]
     "Invalid -proxy address or hostname: &apos;%s&apos;" true
     ["Endereço ou hostname -proxy inválido: &apos;%s&apos;"];
   Message false [Loc None "+1"]
     "Invalid BitcoinC address." true
     ["Endereço BitcoinC inválido."];
   Message false [Loc None "+1"]
     "Invalid amount for -%s=&lt;amount&gt;: &apos;%s&apos;" true
     ["Valor inválido para -%s=&lt;amount&gt;: &apos;%s&apos;&lt;/amount&gt;"];
   Message false [Loc None "+1"]
     "Invalid amount for -discardfee=&lt;amount&gt;: &apos;%s&apos;" true
     ["Valor inválido para -discardfee=&lt;amount&gt;: &apos;%s&apos;&lt;/amount&gt;"];
   Message false [Loc None "+1"]
     "Invalid amount for -fallbackfee=&lt;amount&gt;: &apos;%s&apos;" true
     ["Valor inválido para -fallbackfee=&lt;amount&gt;: &apos;%s&apos;&lt;/amount&gt;"];
   Message false [Loc None "+1"]
     "Invalid amount for -paytxfee=&lt;amount&gt;: &apos;%s&apos; (must be at least %s)" true
     ["Valor inválido para -paytxfee =&lt;amount&gt;: &apos;%s&apos; (deve ser pelo menos %s)&lt;/amount&gt;"];
   Message false [Loc None "+1"]
     "Invalid amount for -reservebalance=&lt;amount&gt;" true
     ["Valor inválido para -reservebalance=&lt;amount&gt;"];
   Message false [Loc None "+1"]
     "Invalid coldstakingaddress." true
     ["Endereço coldstakingaddress inválido."];
   Message false [Loc None "+1"]
     "Invalid input key." true
     ["Chave de entrada inválida."];
   Message false [Loc None "+1"]
     "Invalid key." true
     ["Chave inválida."];
   Message false [Loc None "+1"]
     "Invalid netmask specified in -whitelist: &apos;%s&apos;" true
     ["Máscara de rede inválida especificada na whitelist: &apos;%s&apos;"];
   Message false [Loc None "+1"]
     "Invalid rewardaddress." true
     ["Endereço de recompensa inválido."];
   Message false [Loc None "+1"]
     "Keypool ran out, please call keypoolrefill first" true
     ["O pool de chaves esgotou, por favor utilize o comando keypoolrefil primeiro"];
   Message false [Loc None "+1"]
     "Loading P2P addresses..." true
     ["Carregando endereços P2P..."]].

Definition pt_bitcoin_core_5 : list message :=
  [Message false [Loc None "+1"]
     "Loading address book for %s.
" true
     ["Carregando o catálogo de endereços para %s.
"];
   Message false [Loc None "+1"]
     "Loading banlist..." true
     ["Carregando banlist..."];
   Message false [Loc None "+1"]
     "Loading block index..." true
     ["Carregando o índice dos blocos..."];
   Message false [Loc None "+1"]
     "Loading transaction records for %s.
" true
     ["Carregando registros de transação para %s.
"];
   Message false [Loc None "+1"]
     "Loading wallet..." true
     ["Carregando carteira..."];
   Message false [Loc None "+1"]
     "Minimum time in seconds between successful stakes (default: 0)" true
     ["Tempo mínimo em segundos entre stakes bem-sucedidas (padrão: 0)"];
   Message false [Loc None "+1"]
     "Must be json object." true
     ["Deve ser objeto JSON."];
   Message false [Loc None "+1"]
     "Must have account to save keys." true
     ["Deve ter conta para salvar as chaves."];
   Message false [Loc None "+1"]
     "Must input a stealthaddress." true
     ["Deve introduzir um stealthaddress."];
   Message false [Loc None "+1"]
     "Need a parameter to change." true
     ["Precisa de um parâmetro para mudar."];
   Message false [Loc None "+1"]
     "Need to specify a port with -whitebind: &apos;%s&apos;" true
     ["Necessidade de especificar uma porta com -whitebind: &apos;%s&apos;"];
   Message false [Loc None "+1"]
     "New state must be bool." true
     ["Novo estado deve ser bool."];
   Message false [Loc None "+1"]
     "NewExtKeyFromAccount failed, %s." true
     ["NewExtKeyFromAccount falhou, %s."];
   Message false [Loc None "+1"]
     "NewExtKeyFromAccount failed." true
     ["NewExtKeyFromAccount falhou."];
   Message false [Loc None "+1"]
     "NewStealthKeyV2FromAccount failed." true
     ["NewStealthKeyV2FromAccount falhou."];
   Message false [Loc None "+1"]
     "No default account set." true
     ["Nenhum conjunto de contas padrão."];
   Message false [Loc None "+1"]
     "No key for anonoutput, %s" true
     ["Nenhuma chave para anonoutput, %s"];
   Message false [Loc None "+1"]
     "Not anon output %s %d" true
     ["Saída não anon %s %d"];
   Message false [Loc None "+1"]
     "Not enough file descriptors available." true
     ["Não há descritores de arquivo suficientes disponíveis."];
   Message false [Loc None "+1"]
     "Num inputs per signature out of range" true
     ["Número de entradas por assinatura fora do intervalo"];
   Message false [Loc None "+1"]
     "Number of keys to load into the lookahead pool per chain. (default: %u)" true
     ["Número de chaves para carregar no pool de lookahead por cadeia. (padrão: %u)"];
   Message false [Loc None "+1"]
     "Only able to send to stealth address." true
     ["Só é capaz de enviar para o endereço Stealth."];
   Message false [Loc None "+1"]
     "OpIsCoinstake is not active yet." true
     ["OpIsCoinstake ainda não está ativo."];
   Message false [Loc None "+1"]
     "Output isn&apos;t standard." true
     ["A saída não é padrão."];
   Message false [Loc None "+1"]
     "PrepareTransaction for device failed: %s" true
     ["PrepareTransaction para o dispositivo falhou: %s"];
   Message false [Loc None "+1"]
     "ProduceSignature from device failed: %s" true
     ["ProduceSignature do dispositivo falhou: %s"];
   Message false [Loc None "+1"]
     "Prune cannot be configured with a negative value." true
     ["O Prune não pode ser configurado com um valor negativo."];
   Message false [Loc None "+1"]
     "Prune mode is incompatible with -txindex." true
     ["O modo de Prune é incompatível com -txindex."];
   Message false [Loc None "+1"]
     "Pruning blockstore..." true
     ["Podando os arquivos dos blocos..."]].

Definition pt_bitcoin_core_6 : list message :=
  [Message false [Loc None "+1"]
     "ReadStoredTx failed for %s" true
     ["ReadStoredTx falhou para %s"];
   Message false [Loc None "+1"]
     "Reducing -maxconnections from %d to %d, because of system limitations." true
     ["Reduzindo -maxconnections de %d para %d, devido às limitações do sistema."];
   Message false [Loc None "+1"]
     "Replaying blocks..." true
     ["Reproduzindo blocos..."];
   Message false [Loc None "+1"]
     "Rescanning..." true
     ["Rescaneando..."];
   Message false [Loc None "+1"]
     "Rewinding blocks..." true
     ["Rebobinando os blocos..."];
   Message false [Loc None "+1"]
     "Ring size out of range [%d, %d]" true
     ["Tamanho do anel fora do intervalo [%d, %d]"];
   Message false [Loc None "+1"]
     "Ring size out of range" true
     ["Tamanho do anel fora do intervalo"];
   Message false [Loc None "+1"]
     "Scan secret is not 32 bytes." true
     ["O segredo da varredura não é 32 bytes."];
   Message false [Loc None "+1"]
     "SetSetting failed." true
     ["SetSetting falhou."];
   Message false [Loc None "+1"]
     "Signing transaction failed" true
     ["Falha na transação de assinatura"];
   Message false [Loc None "+1"]
     "Specified -walletdir &quot;%s&quot; does not exist" true
     ["-walletdir especificado &quot;%s&quot; não existe"];
   Message false [Loc None "+1"]
     "Specified -walletdir &quot;%s&quot; is a relative path" true
     ["-walletdir especificado &quot;%s&quot; é um caminho relativo"];
   Message false [Loc None "+1"]
     "Specified -walletdir &quot;%s&quot; is not a directory" true
     ["-walletdir especificado &quot;%s&quot; não é um diretório"];
   Message false [Loc None "+1"]
     "Specified blocks directory &quot;%s&quot; does not exist." true
     ["O diretório de blocos especificado &quot;%s&quot; não existe."];
   Message false [Loc None "+1"]
     "Spend secret is not 32 bytes." true
     ["Segredo do endereço não é 32 bytes."];
   Message false [Loc None "+1"]
     "Spend secret must be different to scan secret." true
     ["Segredo deve ser diferente para scanear segredo."];
   Message false [Loc None "+1"]
     "Stake your coins to support network and gain reward (default: true)" true
     ["Stake ativo para apoiar a rede e ganhar recompensa (padrão: true)"];
   Message false [Loc None "+1"]
     "Starting network threads..." true
     ["Iniciando threads de rede..."];
   Message false [Loc None "+1"]
     "StealthSecret failed, try again." true
     ["StealthSecret falhou, tente novamente."];
   Message false [Loc None "+1"]
     "The source code is available from %s." true
     ["O código-fonte está disponível em %s."];
   Message false [Loc None "+1"]
     "The transaction amount is too small to pay the fee" true
     ["O valor da transação é muito pequeno para pagar a taxa"];
   Message false [Loc None "+1"]
     "The wallet will avoid paying less than the minimum relay fee." true
     ["A carteira evitará pagar menos do que a taxa mínima de transmissão."];
   Message false [Loc None "+1"]
     "This is experimental software." true
     ["Este é um software experimental."];
   Message false [Loc None "+1"]
     "This is the minimum transaction fee you pay on every transaction." true
     ["Esta é a taxa de transação mínima que você paga em cada transação."];
   Message false [Loc None "+1"]
     "This is the transaction fee you will pay if you send a transaction." true
     ["Esta é a taxa de transação que você pagará se você enviar uma transação."];
   Message false [Loc None "+1"]
     "Transaction amount too small" true
     ["Valor da transação muito pequeno"];
   Message false [Loc None "+1"]
     "Transaction amounts must not be negative" true
     ["Os valores das transações não devem ser negativos"];
   Message false [Loc None "+1"]
     "Transaction amounts must not be negative." true
     ["Os valores das transações não devem ser negativos"];
   Message false [Loc None "+1"]
     "Transaction fee and change calculation failed" true
     ["Falha na taxa de transação e no cálculo do troco"];
   Message false [Loc None "+1"]
     "Transaction fee and change calculation failed." true
     ["Falha na taxa de transação e no cálculo do troco."]].

Definition pt_bitcoin_core_7 : list message :=
  [Message false [Loc None "+1"]
     "Transaction has too long of a mempool chain" true
     ["Transação tem muito tempo de mempool"];
   Message false [Loc None "+1"]
     "Transaction must have at least one recipient" true
     ["A transação deve ter pelo menos um destinatário"];
   Message false [Loc None "+1"]
     "Transaction must have at least one recipient." true
     ["A transação deve ter pelo menos um destinatário."];
   Message false [Loc None "+1"]
     "Transaction too large for fee policy" true
     ["Transação muito grande para a política de taxas"];
   Message false [Loc None "+1"]
     "Transaction too large for fee policy." true
     ["Transação muito grande para a política de taxas."];
   Message false [Loc None "+1"]
     "Transaction too large" true
     ["Transação muito grande"];
   Message false [Loc None "+1"]
     "TxnBegin failed." true
     ["TxnBegin falhou."];
   Message false [Loc None "+1"]
     "Unable to bind to %s on this computer (bind returned error %s)" true
     ["Não é possível vincular a %s neste computador (bind retornou o erro %s)"];
   Message false [Loc None "+1"]
     "Unable to bind to %s on this computer. %s is probably already running." true
     ["Não é possível vincular a %s neste computador. %s provavelmente já está em execução."];
   Message false [Loc None "+1"]
     "Unable to generate initial keys" true
     ["Não é possível gerar chaves iniciais"];
   Message false [Loc None "+1"]
     "Unable to generate keys" true
     ["Não é possível gerar chaves"];
   Message false [Loc None "+1"]
     "Unable to start HTTP server. See debug log for details." true
     ["Não é possível iniciar o servidor HTTP. Consulte log de depuração para obter detalhes."];
   Message false [Loc None "+1"]
     "Unknown account." true
     ["Conta desconhecida."];
   Message false [Loc None "+1"]
     "Unknown action, must be one of &apos;add/edit/del&apos;." true
     ["Ação desconhecida, deve ser uma das opções: &apos;add/edit/del &apos;."];
   Message false [Loc None "+1"]
     "Unknown argument for 256bithash: %s." true
     ["Argumento desconhecido para 256bithash: %s."];
   Message false [Loc None "+1"]
     "Unknown argument for add_to_addressbook: %s." true
     ["Argumento desconhecido para add_to_addressbook: %s."];
   Message false [Loc None "+1"]
     "Unknown chain." true
     ["Cadeia desconhecida."];
   Message false [Loc None "+1"]
     "Unknown input key version." true
     ["Versão de chave de entrada desconhecida."];
   Message false [Loc None "+1"]
     "Unknown network specified in -onlynet: &apos;%s&apos;" true
     ["Rede desconhecida especificada em -onlynet: &apos;%s&apos;"];
   Message false [Loc None "+1"]
     "Unknown setting" true
     ["Configuração desconhecida"];
   Message false [Loc None "+1"]
     "Unsupported argument -benchmark ignored, use -debug=bench." true
     ["Argumento não suportado -benchmark ignorado, use -debug=bench."];
   Message false [Loc None "+1"]
     "Unsupported argument -debugnet ignored, use -debug=net." true
     ["Argumento não suportado -debugnet ignorado, use -debug=net."];
   Message false [Loc None "+1"]
     "Unsupported argument -debugnet ignored, use -debug=smsg." true
     ["Argumento não suportado -debugnet ignorado, use -debug=smsg."];
   Message false [Loc None "+1"]
     "Unsupported argument -tor found, use -onion." true
     ["Argumento -tor não suportado encontrado, use -onion."];
   Message false [Loc None "+1"]
     "Unsupported logging category %s=%s." true
     ["Categoria de registro sem suporte %s=%s."];
   Message false [Loc None "+1"]
     "Upgrading txindex database" true
     ["Atualizando o banco de dados txindex"];
   Message false [Loc None "+1"]
     "User Agent comment (%s) contains unsafe characters." true
     ["Comentário do agente do usuário (%s) contém caracteres não seguros."];
   Message false [Loc None "+1"]
     "Verifying blocks..." true
     ["Verificando blocos..."];
   Message false [Loc None "+1"]
     "Verifying wallet(s)..." true
     ["Verificando carteira(s)..."];
   Message false [Loc None "+1"]
     "Wallet %s resides outside wallet directory %s" true
     ["Carteira %s está fora do diretório da carteira %s"]].

Definition pt_bitcoin_core_8 : list message :=
  [Message false [Loc None "+1"]
     "Wallet has no active master key." true
     ["A carteira não tem nenhuma chave mestra ativa."];
   Message false [Loc None "+1"]
     "Wallet must be unlocked." true
     ["A carteira deve ser destrancada."];
   Message false [Loc None "+1"]
     "Wallet must have a default account set." true
     ["A carteira deve ter um conjunto de contas padrão."];
   Message false [Loc None "+1"]
     "Wallet needed to be rewritten: restart %s to complete" true
     ["Carteira necessária para ser reescrito: reinicie %s para completar"];
   Message false [Loc None "+1"]
     "Warning" true
     ["Aviso"];
   Message false [Loc None "+1"]
     "Warning: unknown new rules activated (versionbit %i)" true
     ["Aviso: novas regras desconhecidas ativadas (versionbit %i)"];
   Message false [Loc None "+1"]
     "You need to rebuild the database using -reindex to change -addressindex" true
     ["Você precisa recriar o banco de dados usando -reindex para mudar o parâmetro -addressindex"];
   Message false [Loc None "+1"]
     "You need to rebuild the database using -reindex to change -spentindex" true
     ["Você precisa recriar o banco de dados usando -reindex para mudar o parâmetro -spentindex"];
   Message false [Loc None "+1"]
     "Zapping all transactions from wallet..." true
     ["Recalculando todas as transações da carteira..."];
   Message false [Loc None "+1"]
     "accounts missing." true
     ["contas em falta."];
   Message false [Loc None "+1"]
     "accounts must be an array." true
     ["as contas devem ser um array."];
   Message false [Loc None "+1"]
     "add_to_addressbook can&apos;t be set without save" true
     ["add_to_addressbook não pode ser definido sem salvar"];
   Message false [Loc None "+1"]
     "address_standard must be a string." true
     ["address_standard deve ser uma cadeia de caracteres."];
   Message false [Loc None "+1"]
     "bad childNo." true
     ["childNo inválido."];
   Message false [Loc None "+1"]
     "bech32 encode failed." true
     ["codificação bech32 falhou."];
   Message false [Loc None "+1"]
     "coldstakingaddress can&apos;t be a stealthaddress." true
     ["coldstakingaddress não pode ser um stealthaddress."];
   Message false [Loc None "+1"]
     "coldstakingaddress must be a string." true
     ["coldstakingaddress deve ser uma cadeia de caracteres."];
   Message false [Loc None "+1"]
     "extkey must have private key to derive hardened keys." true
     ["extkey deve ter chave privada para derivar chaves hardened."];
   Message false [Loc None "+1"]
     "foundationdonationpercent must be a number." true
     ["foundationdonationpercent deve ser um número."];
   Message false [Loc None "+1"]
     "height must be a number." true
     ["altura deve ser um número."];
   Message false [Loc None "+1"]
     "loose_extkeys missing." true
     ["loose_extkeys faltando."];
   Message false [Loc None "+1"]
     "loose_extkeys must be an array." true
     ["loose_extkeys deve ser um array."];
   Message false [Loc None "+1"]
     "num_derives to int failed." true
     ["num_derives para int falhou."];
   Message false [Loc None "+1"]
     "num_derives_h to int failed." true
     ["num_derives_h para int falhou."];
   Message false [Loc None "+1"]
     "num_prefix_bits invalid number." true
     ["num_prefix_bits número inválido."];
   Message false [Loc None "+1"]
     "num_prefix_bits must be &lt;= 32." true
     ["num_prefix_bits deve ser &lt;= 32."];
   Message false [Loc None "+1"]
     "rewardaddress must be a string." true
     ["rewardaddress deve ser uma seqüência de caracteres."];
   Message false [Loc None "+1"]
     "secp256k1_generate_mlsag failed %d" true
     ["secp256k1_generate_mlsag falhou %d"];
   Message false [Loc None "+1"]
     "secp256k1_get_keyimage failed %d" true
     ["secp256k1_get_keyimage falhou %d"];
   Message false [Loc None "+1"]
     "secp256k1_prepare_mlsag failed %d" true
     ["secp256k1_prepare_mlsag falhou %d"]].

Definition pt_bitcoin_core_9 : list message :=
  [Message false [Loc None "+1"]
     "stakecombinethreshold can&apos;t be negative." true
     ["stakecombinethreshold não pode ser negativo."];
   Message false [Loc None "+1"]
     "stakesplitthreshold can&apos;t be negative." true
     ["stakesplitthreshold não pode ser negativo."]].

(** The whole document. *)
Definition bitcoin_pt : catalogue :=
  [Context "AddressBookPage" (pt_AddressBookPage_1 ++ pt_AddressBookPage_2);
   Context "AddressTableModel" (pt_AddressTableModel);
   Context "AskPassphraseDialog" (pt_AskPassphraseDialog_1 ++ pt_AskPassphraseDialog_2);
   Context "BanTableModel" (pt_BanTableModel);
   Context "BitcoinGUI" (pt_BitcoinGUI_1 ++ pt_BitcoinGUI_2 ++ pt_BitcoinGUI_3 ++ pt_BitcoinGUI_4);
   Context "CoinControlDialog" (pt_CoinControlDialog_1 ++ pt_CoinControlDialog_2);
   Context "EditAddressDialog" (pt_EditAddressDialog);
   Context "FreespaceChecker" (pt_FreespaceChecker);
   Context "HelpMessageDialog" (pt_HelpMessageDialog);
   Context "Intro" (pt_Intro);
   Context "MnemonicDialog" (pt_MnemonicDialog_1 ++ pt_MnemonicDialog_2);
   Context "ModalOverlay" (pt_ModalOverlay);
   Context "OpenURIDialog" (pt_OpenURIDialog);
   Context "OptionsDialog" (pt_OptionsDialog_1 ++ pt_OptionsDialog_2 ++ pt_OptionsDialog_3);
   Context "OverviewPage" (pt_OverviewPage);
   Context "PaymentServer" (pt_PaymentServer);
   Context "PeerTableModel" (pt_PeerTableModel);
   Context "QObject" (pt_QObject);
   Context "QObject::QObject" (pt_QObject__QObject);
   Context "QRImageWidget" (pt_QRImageWidget);
   Context "RPCConsole" (pt_RPCConsole_1 ++ pt_RPCConsole_2 ++ pt_RPCConsole_3);
   Context "ReceiveCoinsDialog" (pt_ReceiveCoinsDialog);
   Context "ReceiveRequestDialog" (pt_ReceiveRequestDialog);
   Context "RecentRequestsTableModel" (pt_RecentRequestsTableModel);
   Context "SendCoinsDialog" (pt_SendCoinsDialog_1 ++ pt_SendCoinsDialog_2 ++ pt_SendCoinsDialog_3);
   Context "SendCoinsEntry" (pt_SendCoinsEntry_1 ++ pt_SendCoinsEntry_2);
   Context "SendConfirmationDialog" (pt_SendConfirmationDialog);
   Context "ShutdownWindow" (pt_ShutdownWindow);
   Context "SignVerifyMessageDialog" (pt_SignVerifyMessageDialog_1 ++ pt_SignVerifyMessageDialog_2);
   Context "SplashScreen" (pt_SplashScreen);
   Context "StakingDialog" (pt_StakingDialog_1 ++ pt_StakingDialog_2);
   Context "TrafficGraphWidget" (pt_TrafficGraphWidget);
   Context "TransactionDesc" (pt_TransactionDesc_1 ++ pt_TransactionDesc_2);
   Context "TransactionDescDialog" (pt_TransactionDescDialog);
   Context "TransactionTableModel" (pt_TransactionTableModel_1 ++ pt_TransactionTableModel_2);
   Context "TransactionView" (pt_TransactionView_1 ++ pt_TransactionView_2);
   Context "TxViewDelegate" (pt_TxViewDelegate);
   Context "UnitDisplayStatusBarControl" (pt_UnitDisplayStatusBarControl);
   Context "WalletFrame" (pt_WalletFrame);
   Context "WalletModel" (pt_WalletModel);
   Context "WalletView" (pt_WalletView);
   Context "bitcoin-core" (pt_bitcoin_core_1 ++ pt_bitcoin_core_2 ++ pt_bitcoin_core_3 ++ pt_bitcoin_core_4 ++ pt_bitcoin_core_5 ++ pt_bitcoin_core_6 ++ pt_bitcoin_core_7 ++ pt_bitcoin_core_8 ++ pt_bitcoin_core_9)].
