(* ===== verification/CatalogueRo.v ===== *)
(** The Romanian catalogue, [src/src/qt/locale/bitcoin_ro_RO.ts], context by context; a long
    context is cut into parts.  Texts are as in the file. *)
From S2P Require Import Prelude Locale.
Open Scope txt_scope.
Open Scope list_scope.

Definition ro_AddressBookPage_1 : list message :=
  [Message false [Loc (Some "../forms/addressbookpage.ui") "+27"]
     "Enter address or label to search" true
     ["Introduceți adresa sau eticheta pentru a căuta"];
   Message false [Loc None "+10"]
     "Right-click to edit address or label" true
     ["Faceți clic dreapta pentru a edita adresa sau eticheta"];
   Message false [Loc None "+30"; Loc None "+17"; Loc None "+17"]
     "Create a new address" true
     ["Crearea unei adrese noi"];
   Message false [Loc None "-31"]
     "&amp;New" true
     ["Și nou"];
   Message false [Loc None "+17"]
     "&amp;New Stake address" true
     ["&amp; Adresa de miză nouă"];
   Message false [Loc None "+17"]
     "&amp;New ColdStake address" true
     ["&amp; Noua adresă ColdStake"];
   Message false [Loc None "+14"]
     "Copy the currently selected address to the system clipboard" true
     ["Copiați adresa selectată în mod curent în Clipboard-ul sistemului"];
   Message false [Loc None "+3"]
     "&amp;Copy" true
     ["Și copiere"];
   Message false [Loc None "+14"]
     "Delete the currently selected address from the list" true
     ["Ștergeți adresa selectată în prezent din listă"];
   Message false [Loc None "+3"]
     "&amp;Delete" true
     ["Și ștergeți"];
   Message false [Loc None "+27"]
     "Export the data in the current tab to a file" true
     ["Exportul datelor din fila curentă într-un fișier"];
   Message false [Loc None "+3"]
     "&amp;Export" true
     ["Și export"];
   Message false [Loc None "+20"]
     "C&amp;lose" true
     ["C&amp;pierde"];
   Message false [Loc (Some "../addressbookpage.cpp") "+84"]
     "These are your Bitcoin Confidential addresses for sending payments. Always check the amount and the receiving address before sending coins." true
     ["Acestea sunt adresele Bitcoin confidențiale pentru trimiterea plăților. Verificați întotdeauna suma și adresa de primire înainte de a trimite monede."];
   Message false [Loc None "+8"]
     "Choose the address to send coins to" true
     ["Alege adresa pentru a trimite monede la"];
   Message false [Loc None "+4"; Loc None "+22"; Loc None "+28"]
     "C&amp;hoose" true
     ["C&amp;Hoose"];
   Message false [Loc None "-44"]
     "Sending addresses" true
     ["Trimiterea adreselor"];
   Message false [Loc None "+12"]
     "Choose the address to receive coins with" true
     ["Alege adresa pentru a primi monede cu"];
   Message false [Loc None "+10"]
     "Receiving addresses" true
     ["Primirea adreselor"];
   Message false [Loc None "+1"]
     "These are your Bitcoin Confidential addresses for receiving payments. It is recommended to use a new receiving address for each transaction." true
     ["Acestea sunt adresele dumneavoastră Bitcoin confidențiale pentru primirea plăților. Se recomandă utilizarea unei noi adrese de primire pentru fiecare tranzacție."];
   Message false [Loc None "+13"]
     "Choose the Stake or ColdStake address" true
     ["Alege adresa miza sau ColdStake"];
   Message false [Loc None "+1"]
     "These are your Bitcoin Confidential Stake and ColdStake addresses." true
     ["Acestea sunt adresele de miză confidențială Bitcoin și ColdStake."];
   Message false [Loc None "+16"]
     "Stake and ColdStake addresses" true
     ["Adresele de miză și ColdStake"];
   Message false [Loc None "+1"]
     "These addresses cannot be used to receive coins from outside the wallet, such as payments or from exchanges.  Use the Receive tab to generate spending addresses.

Stake addresses, starting with &quot;%1&quot;, are used to convert spending funds into staking funds in the &quot;Convert to Staking&quot; tab. Funds in Stake addresses can be either used for hot staking or the activation of ColdStaking.

ColdStake addresses, starting with &quot;%2&quot;, are used to manually activate staking funds for ColdStaking. There is no need to generate ColdStake addresses when the automated ColdStaking activation from the Staking Status page is used." true
     ["Aceste adrese nu pot fi utilizate pentru a primi monede din afara portofelului, ar fi plățile sau de la schimburi.  Utilizați fila primire pentru a genera adrese de cheltuieli.

Adresele de miză, începând cu &quot;% 1&quot;, sunt utilizate pentru a converti fondurile de cheltuieli în fonduri de Staking în fila &quot;Convert to Staking&quot;. fondurile în miza adrese pot fi fie utilizate pentru Staking fierbinte sau activarea ColdStaking.

Adresele ColdStake, începând cu &quot;% 2&quot;, sunt utilizate pentru a activa manual fondurile de Staking pentru ColdStaking. Nu este necesară generarea adreselor ColdStake atunci când se utilizează activarea automată ColdStaking din pagina stare Staking."];
   Message false [Loc None "+11"]
     "&amp;Copy Address" true
     ["&amp; Copiere adresă"];
   Message false [Loc None "+1"]
     "Copy &amp;Label" true
     ["Copiere &amp; etichetă"];
   Message false [Loc None "+1"]
     "&amp;Edit" true
     ["Modificare sursă"]].

Definition ro_AddressBookPage_2 : list message :=
  [Message false [Loc None "+186"]
     "Export Address List" true
     ["Export listă de adrese"];
   Message false [Loc None "+1"]
     "Comma separated file (*.csv)" true
     ["Fișier separat prin virgulă (*. csv)"];
   Message false [Loc None "+13"]
     "Exporting Failed" true
     ["Exportul nu a reușit"];
   Message false [Loc None "+1"]
     "There was an error trying to save the address list to %1. Please try again." true
     ["Eroare la încercarea de salvare a listei de adrese la% 1. Vă rugăm să încercați din nou."]].

Definition ro_AddressTableModel : list message :=
  [Message false [Loc (Some "../addresstablemodel.cpp") "+188"]
     "Label" true
     ["Eticheta"];
   Message false [Loc None "+0"]
     "Address" true
     ["Adresa"];
   Message false [Loc None "+36"]
     "(no label)" true
     ["(fără etichetă)"]].

Definition ro_AskPassphraseDialog_1 : list message :=
  [Message false [Loc (Some "../forms/askpassphrasedialog.ui") "+26"]
     "Passphrase Dialog" true
     ["Dialogul de passphrase"];
   Message false [Loc None "+30"]
     "Enter passphrase" true
     ["Introduceți fraza de acces"];
   Message false [Loc None "+14"]
     "New passphrase" true
     ["Noua frază de acces"];
   Message false [Loc None "+14"]
     "Repeat new passphrase" true
     ["Repetare frază de acces nouă"];
   Message false [Loc None "+14"]
     "Show password" true
     ["Afișare parolă"];
   Message false [Loc None "+23"]
     "Unlock For Staking Only" true
     ["Deblocare numai pentru Staking"];
   Message false [Loc (Some "../askpassphrasedialog.cpp") "+48"]
     "Enter the new passphrase to the wallet.&lt;br/&gt;Please use a passphrase of &lt;b&gt;ten or more random characters&lt;/b&gt;, or &lt;b&gt;eight or more words&lt;/b&gt;." true
     ["Introduceți noua frază de acces în portofel.&lt;br&gt;Vă rugăm să folosiți o frază de acces de &lt;b&gt;zece sau mai multe caractere aleatoare&lt;/b&gt;, sau &lt;b&gt;opt sau mai multe cuvinte&lt;/b&gt;."];
   Message false [Loc None "+3"]
     "Encrypt wallet" true
     ["Criptați portofelul"];
   Message false [Loc None "+3"; Loc None "+8"]
     "This operation needs your wallet passphrase to unlock the wallet." true
     ["Această operațiune are nevoie de fraza de acces pentru portofel pentru a debloca portofelul."];
   Message false [Loc None "-3"; Loc None "+9"]
     "Unlock wallet" true
     ["Deblocare portofel"];
   Message false [Loc None "+3"]
     "This operation needs your wallet passphrase to decrypt the wallet." true
     ["Această operațiune are nevoie de fraza de acces pentru portofel pentru a decripta portofelul."];
   Message false [Loc None "+5"]
     "Decrypt wallet" true
     ["Decriptarea portofelului"];
   Message false [Loc None "+3"]
     "Change passphrase" true
     ["Modificare frază de acces"];
   Message false [Loc None "+1"]
     "Enter the old passphrase and new passphrase to the wallet." true
     ["Introduceți vechea frază de acces și noua expresie a passphrazei în portofel."];
   Message false [Loc None "+47"]
     "Confirm wallet encryption" true
     ["Confirmă criptarea portofelului"];
   Message false [Loc None "+1"]
     "Warning: If you encrypt your wallet and lose your passphrase, you will &lt;b&gt;LOSE ALL OF YOUR BITCOIN CONFIDENTIAL&lt;/b&gt;!" true
     ["Avertisment: dacă criptați portofelul și vă pierdeți fraza de acces, veți &lt;b&gt;pierde toate informațiile Bitcoin confidențiale&lt;/b&gt;!"];
   Message false [Loc None "+0"]
     "Are you sure you wish to encrypt your wallet?" true
     ["Sigur doriți să criptați portofelul?"];
   Message false [Loc None "+9"; Loc None "+59"]
     "Wallet encrypted" true
     ["Portofel criptat"];
   Message false [Loc None "-57"]
     "%1 will close now to finish the encryption process. Remember that encrypting your wallet cannot fully protect your Bitcoin Confidential from being stolen by malware infecting your computer." true
     ["% 1 se va închide acum pentru a termina procesul de criptare. Rețineți că criptarea portofelului nu vă poate proteja pe deplin confidențialitatea Bitcoin de a fi furată de malware care vă infectează computerul."];
   Message false [Loc None "+4"]
     "IMPORTANT: Any previous backups you have made of your wallet file should be replaced with the newly generated, encrypted wallet file. For security reasons, previous backups of the unencrypted wallet file will become useless as soon as you start using the new, encrypted wallet." true
     ["IMPORTANT: toate copiile de rezervă anterioare pe care le-ați făcut din fișierul portofel ar trebui înlocuite cu fișierul portofel criptat nou generat. Din motive de securitate, copiile de rezervă anterioare ale fișierului portofel necriptat vor deveni inutile imediat ce începeți să utilizați noul portofel criptat."];
   Message false [Loc None "+9"; Loc None "+7"; Loc None "+43"; Loc None "+6"]
     "Wallet encryption failed" true
     ["Criptarea portofelului nu a reușit"];
   Message false [Loc None "-55"]
     "Wallet encryption failed due to an internal error. Your wallet was not encrypted." true
     ["Criptarea portofelului nu a reușit din cauza unei erori interne. Portofelul tău nu a fost criptat."];
   Message false [Loc None "+7"; Loc None "+49"]
     "The supplied passphrases do not match." true
     ["Frazele de acces furnizate nu corespund."];
   Message false [Loc None "-37"]
     "Wallet unlock failed" true
     ["Deblocare portofel nu a reușit"];
   Message false [Loc None "+1"; Loc None "+11"; Loc None "+19"]
     "The passphrase entered for the wallet decryption was incorrect." true
     ["Fraza de acces introdusă pentru decriptarea portofelului a fost incorectă."];
   Message false [Loc None "-20"]
     "Wallet decryption failed" true
     ["Decriptarea portofelului nu a reușit"];
   Message false [Loc None "+14"]
     "Wallet passphrase was successfully changed." true
     ["S-a modificat cu succes parola de acces la portofel."]].

Definition ro_AskPassphraseDialog_2 : list message :=
  [Message false [Loc None "+48"; Loc None "+33"]
     "Warning: The Caps Lock key is on!" true
     ["Avertisment: tasta Caps Lock este activată!"]].

Definition ro_BanTableModel : list message :=
  [Message false [Loc (Some "../bantablemodel.cpp") "+88"]
     "IP/Netmask" true
     ["IP/netmask"];
   Message false [Loc None "+0"]
     "Banned Until" true
     ["Interzis până la"]].

Definition ro_BitcoinGUI_1 : list message :=
  [Message false [Loc (Some "../bitcoingui.cpp") "+94"]
     "Wallet" true
     ["Portofel"];
   Message false [Loc None "+2"]
     "Node" true
     ["Nod"];
   Message false [Loc None "+169"]
     "Overview" true
     ["Prezentare generală"];
   Message false [Loc None "+1"]
     "Show general overview of wallet" true
     ["Afișare prezentare generală a portofelului"];
   Message false [Loc None "+7"]
     "Send" true
     ["Trimite"];
   Message false [Loc None "+1"]
     "Send coins to a Bitcoin Confidential Spending address" true
     ["Trimiteți monede la o adresă de cheltuieli confidențiale Bitcoin"];
   Message false [Loc None "+11"]
     "Receive" true
     ["Primi"];
   Message false [Loc None "+1"]
     "Request payments (generates Spending address QR codes and bitcoinc: URIs)" true
     ["Cerere de plăți (generează cheltuieli adresa coduri QR și bitcoinc: URIs)"];
   Message false [Loc None "+11"]
     "Transactions" true
     ["Tranzacţii"];
   Message false [Loc None "+1"]
     "Browse transaction history" true
     ["Răsfoire istoric tranzacții"];
   Message false [Loc None "+7"]
     "Staking" true
     ["Staking"];
   Message false [Loc None "+1"]
     "Setup staking" true
     ["Instalare Staking"];
   Message false [Loc None "+25"]
     "E&amp;xit" true
     ["E&amp;xit,"];
   Message false [Loc None "+1"]
     "Quit application" true
     ["Părăsiți aplicația"];
   Message false [Loc None "+3"]
     "&amp;About %1" true
     ["&amp; Despre% 1"];
   Message false [Loc None "+1"]
     "Show information about %1" true
     ["Afișare informații despre% 1"];
   Message false [Loc None "+3"]
     "About &amp;Qt" true
     ["Despre &amp; QT"];
   Message false [Loc None "+1"]
     "Show information about Qt" true
     ["Afișare informații despre QT"];
   Message false [Loc None "+2"]
     "&amp;Options..." true
     ["&amp; Opțiuni..."];
   Message false [Loc None "+1"]
     "Modify configuration options for %1" true
     ["Modificarea opțiunilor de configurare pentru% 1"];
   Message false [Loc None "+3"]
     "&amp;Show / Hide" true
     ["&amp; Arată/ascunde"];
   Message false [Loc None "+1"]
     "Show or hide the main Window" true
     ["Afișarea sau ascunderea ferestrei principale"];
   Message false [Loc None "+2"]
     "&amp;Encrypt Wallet..." true
     ["&amp; Criptare portofel..."];
   Message false [Loc None "+1"]
     "Encrypt the private keys that belong to your wallet" true
     ["Criptați cheile private care aparțin portofelului"];
   Message false [Loc None "+2"]
     "&amp;Backup Wallet..." true
     ["&amp; Portofel de rezervă..."];
   Message false [Loc None "+1"]
     "Backup wallet to another location" true
     ["Portofel de rezervă în altă locație"];
   Message false [Loc None "+1"]
     "&amp;Change Passphrase..." true
     ["&amp; Schimbarea passphrase..."];
   Message false [Loc None "+1"]
     "Change the passphrase used for wallet encryption" true
     ["Modificarea passphrazei utilizate pentru criptarea portofelului"];
   Message false [Loc None "+1"]
     "Sign &amp;message..." true
     ["Sign &amp; mesaj..."]].

Definition ro_BitcoinGUI_2 : list message :=
  [Message false [Loc None "+1"]
     "Sign messages with your Bitcoin Confidential addresses to prove you own them" true
     ["Semnează mesaje cu adresele tale confidențiale bitcoin pentru a dovedi că le deții"];
   Message false [Loc None "+1"]
     "&amp;Verify message..." true
     ["&amp; Verificare mesaj..."];
   Message false [Loc None "+1"]
     "Verify messages to ensure they were signed with specified Bitcoin Confidential addresses" true
     ["Verificați mesajele pentru a vă asigura că au fost semnate cu adrese Bitcoin confidențiale specificate"];
   Message false [Loc None "+2"]
     "&amp;Debug window" true
     ["&amp; Debug fereastră"];
   Message false [Loc None "+1"]
     "Open debugging and diagnostic console" true
     ["Deschideți consola de depanare și diagnosticare"];
   Message false [Loc None "+4"]
     "&amp;Sending addresses..." true
     ["&amp; Trimiterea adreselor..."];
   Message false [Loc None "+1"]
     "Show the list of used sending addresses and labels" true
     ["Afișați lista de adrese și etichete de expediere utilizate"];
   Message false [Loc None "+1"]
     "&amp;Receiving addresses..." true
     ["&amp; Primirea adreselor..."];
   Message false [Loc None "+1"]
     "Show the list of used receiving addresses and labels" true
     ["Afișați lista de adrese și etichete de primire utilizate"];
   Message false [Loc None "+2"]
     "Open &amp;URI..." true
     ["Deschis &amp; URI..."];
   Message false [Loc None "+1"]
     "Open a bitcoinc: URI or payment request" true
     ["Deschide un bitcoinc: URI sau cerere de plată"];
   Message false [Loc None "+2"]
     "&amp;Command-line options" true
     ["&amp; Opțiuni de linie de comandă"];
   Message false [Loc None "+2"]
     "Show the %1 help message to get a list with possible Bitcoin Confidential command-line options" true
     ["Afișați mesajul de ajutor% 1 pentru a obține o listă cu posibile opțiuni de linie de comandă Bitcoin confidențial"];
   Message false [Loc None "+2"]
     "&amp;HD Wallet..." true
     ["&amp; Portofel HD..."];
   Message false [Loc None "+45"]
     "&amp;File" true
     ["&amp; Dosar"];
   Message false [Loc None "+16"]
     "&amp;Settings" true
     ["&amp; Setări"];
   Message false [Loc None "+9"]
     "&amp;Help" true
     ["&amp; Ajutor"];
   Message false [Loc None "+15"]
     "Tabs toolbar" true
     ["Bara de instrumente File"];
   Message false [Loc None "+113"]
     "default wallet" true
     ["portofel implicit"];
   Message false [Loc None "+88"]
     "%1 client" true
     ["% 1 client"];
   Message true [Loc None "+189"]
     "%n active connection(s) to Bitcoin Confidential network" true
     ["% n conexiune activă (e) la rețeaua Bitcoin confidențial"; "% n conexiune activă (e) la rețeaua Bitcoin confidențial"; "% n conexiune activă (e) la rețeaua Bitcoin confidențial"];
   Message false [Loc None "+0"]
     "Click to disable network activity." true
     ["Faceți clic pentru a dezactiva activitatea rețelei."];
   Message false [Loc None "+2"]
     "Network activity disabled." true
     ["Activitate de rețea dezactivată."];
   Message false [Loc None "+0"]
     "Click to enable network activity again." true
     ["Faceți clic pentru a activa din nou activitatea de rețea."];
   Message false [Loc None "+28"]
     "Syncing Headers (%1%)..." true
     ["Sincronizarea anteturilor (% 1%)..."];
   Message false [Loc None "+26"]
     "Synchronizing with network..." true
     ["Se sincronizează cu rețeaua..."];
   Message false [Loc None "+5"]
     "Indexing blocks on disk..." true
     ["Blocuri de indexare pe disc..."];
   Message false [Loc None "+2"]
     "Processing blocks on disk..." true
     ["Blocuri de procesare pe disc..."];
   Message false [Loc None "+4"]
     "Reindexing blocks on disk..." true
     ["Reindexarea blocuri pe disc..."];
   Message false [Loc None "+6"]
     "Connecting to peers..." true
     ["Conectarea la colegii..."]].

Definition ro_BitcoinGUI_3 : list message :=
  [Message true [Loc None "+9"]
     "Processed %n block(s) of transaction history." true
     ["Procesate% n bloc (e) din istoricul tranzacțiilor."; "Procesate% n bloc (e) din istoricul tranzacțiilor."; "Procesate% n bloc (e) din istoricul tranzacțiilor."];
   Message false [Loc None "+5"]
     "Up to date" true
     ["actualizat"];
   Message false [Loc None "+19"]
     "%1 behind" true
     ["% 1 în spatele"];
   Message false [Loc None "+5"]
     "Catching up..." true
     ["Prins..."];
   Message false [Loc None "+19"]
     "Last received block was generated %1 ago." true
     ["Ultimul bloc primit a fost generat% 1 în urmă."];
   Message false [Loc None "+2"]
     "Transactions after this will not yet be visible." true
     ["Tranzacțiile după acest lucru nu vor fi încă vizibile."];
   Message false [Loc None "+13"]
     "Bitcoin Confidential" true
     ["Bitcoin confidential"];
   Message false [Loc None "+14"]
     "Error" true
     ["Eroare"];
   Message false [Loc None "+3"]
     "Warning" true
     ["Avertizare"];
   Message false [Loc None "+3"]
     "Information" true
     ["Informaţii"];
   Message false [Loc None "+116"]
     "Date: %1
" true
     ["Data:% 1"];
   Message false [Loc None "+1"]
     "Amount: %1
" true
     ["Sumă:% 1"];
   Message false [Loc None "+2"]
     "Wallet: %1
" true
     ["Portofel:% 1"];
   Message false [Loc None "+2"]
     "Type: %1
" true
     ["Tip:% 1"];
   Message false [Loc None "+2"]
     "Label: %1
" true
     ["Etichetă:% 1"];
   Message false [Loc None "+2"]
     "Address: %1
" true
     ["Adresă:% 1"];
   Message false [Loc None "+1"]
     "Sent transaction" true
     ["Tranzacție trimisă"];
   Message false [Loc None "+0"]
     "Incoming transaction" true
     ["Tranzactie de intrare"];
   Message false [Loc None "+52"]
     "HD key generation is &lt;b&gt;enabled&lt;/b&gt;" true
     ["Generarea de taste HD este &lt;b&gt;activată&lt;/b&gt;"];
   Message false [Loc None "+0"]
     "HD key generation is &lt;b&gt;disabled&lt;/b&gt;" true
     ["Generarea de taste HD este &lt;b&gt;dezactivată&lt;/b&gt;"];
   Message false [Loc None "+13"]
     "Wallet is &lt;b&gt;not encrypted&lt;/b&gt;. Click the opened lock to encrypt it." true
     ["Portofelul &lt;b&gt;nu este criptat&lt;/b&gt;. Faceți clic pe blocarea deschisă pentru a o cripta."];
   Message false [Loc None "+8"]
     "Wallet is &lt;b&gt;encrypted&lt;/b&gt; and currently &lt;b&gt;unlocked&lt;/b&gt;" true
     ["Portofelul este &lt;b&gt;criptat&lt;/b&gt; și momentan &lt;b&gt;deblocat&lt;/b&gt;"];
   Message false [Loc None "+8"]
     "Wallet is &lt;b&gt;encrypted&lt;/b&gt; and currently &lt;b&gt;unlocked&lt;/b&gt; for staking only" true
     ["Portofelul este &lt;b&gt;criptat&lt;/b&gt; și în prezent &lt;b&gt;deblocat&lt;/b&gt; pentru Staking numai"];
   Message false [Loc None "+8"]
     "Wallet is &lt;b&gt;encrypted&lt;/b&gt; and currently &lt;b&gt;locked&lt;/b&gt;" true
     ["Portofelul este &lt;b&gt;criptat&lt;/b&gt; și &lt;b&gt;blocat&lt;/b&gt; în prezent"];
   Message false [Loc None "+58"]
     "Proxy is &lt;b&gt;enabled&lt;/b&gt;: %1" true
     ["Proxy este &lt;b&gt;activat&lt;/b&gt;:% 1"];
   Message false [Loc None "+28"]
     "Tor is &lt;b&gt;enabled&lt;/b&gt;" true
     ["Tor este &lt;b&gt;activat&lt;/b&gt;"];
   Message false [Loc None "+3"]
     "Tor is &lt;b&gt;enabled&lt;/b&gt;, but its not the only network used. Use only onlynet=onion." true
     ["Tor este &lt;b&gt;activat&lt;/b&gt;, dar nu este singura rețea utilizată. Utilizați numai onlynet = ceapa."];
   Message false [Loc None "+3"]
     "Tor is &lt;b&gt;disabled&lt;/b&gt;. To enhance your privacy setup consider using tor by setting &lt;b&gt;onlynet=onion&lt;/b&gt; in your &lt;b&gt;bitcoinc.conf&lt;/b&gt;." true
     ["Tor este &lt;b&gt;Dezactivat&lt;/b&gt;. Pentru a îmbunătăți setarea de confidențialitate, luați în considerare utilizarea Tor prin setarea &lt;b&gt;onlynet = ceapa&lt;/b&gt; în &lt;b&gt;bitcoinc. conf&lt;/b&gt;."]].

Definition ro_BitcoinGUI_4 : list message :=
  [Message false [Loc (Some "../bitcoin.cpp") "+528"]
     "A fatal error occurred. Bitcoin Confidential can no longer continue safely and will quit." true
     ["A apărut o eroare fatală. Bitcoin confidential nu mai poate continua în condiții de siguranță și va renunța."]].

Definition ro_CoinControlDialog_1 : list message :=
  [Message false [Loc (Some "../forms/coincontroldialog.ui") "+14"]
     "Coin Selection" true
     ["Monede de selecție"];
   Message false [Loc None "+34"]
     "Quantity:" true
     ["Cantitatea:"];
   Message false [Loc None "+29"]
     "Bytes:" true
     ["Octeţi:"];
   Message false [Loc None "+45"]
     "Amount:" true
     ["Suma:"];
   Message false [Loc None "+32"]
     "Dust:" true
     ["Praf:"];
   Message false [Loc None "+48"]
     "Fee:" true
     ["Taxa:"];
   Message false [Loc None "+45"]
     "After Fee:" true
     ["După taxă:"];
   Message false [Loc None "+32"]
     "Change:" true
     ["Schimba:"];
   Message false [Loc None "+57"]
     "Standard" true
     ["Standard"];
   Message false [Loc None "+5"]
     "Anon" true
     ["Anon"];
   Message false [Loc None "+14"]
     "Show all" true
     ["Afișare toate"];
   Message false [Loc None "+13"]
     "(un)select all" true
     ["(ONU) Selectați toate"];
   Message false [Loc None "+16"]
     "Tree mode" true
     ["Mod arbore"];
   Message false [Loc None "+13"]
     "List mode" true
     ["Mod listă"];
   Message false [Loc None "+74"]
     "Amount" true
     ["Suma"];
   Message false [Loc None "+8"]
     "Received with label" true
     ["Primit cu etichetă"];
   Message false [Loc None "+5"]
     "Received with address" true
     ["Primit cu adresa"];
   Message false [Loc None "+5"]
     "Date" true
     ["Data"];
   Message false [Loc None "+5"]
     "Confirmations" true
     ["Confirmări"];
   Message false [Loc None "+3"]
     "Confirmed" true
     ["Confirmat"];
   Message false [Loc (Some "../coincontroldialog.cpp") "+73"]
     "Copy address" true
     ["Copiere adresă"];
   Message false [Loc None "+1"]
     "Copy label" true
     ["Copiere etichetă"];
   Message false [Loc None "+1"; Loc None "+26"]
     "Copy amount" true
     ["Copiere sumă"];
   Message false [Loc None "-25"]
     "Copy transaction ID" true
     ["Copiere ID tranzacție"];
   Message false [Loc None "+1"]
     "Lock unspent" true
     ["Blocare necheltuite"];
   Message false [Loc None "+1"]
     "Unlock unspent" true
     ["Deblocare necheltuite"];
   Message false [Loc None "+22"]
     "Copy quantity" true
     ["Copiere cantitate"];
   Message false [Loc None "+2"]
     "Copy fee" true
     ["Taxa de copiere"];
   Message false [Loc None "+1"]
     "Copy after fee" true
     ["Copiere după taxă"]].

Definition ro_CoinControlDialog_2 : list message :=
  [Message false [Loc None "+1"]
     "Copy bytes" true
     ["Copiați octeți"];
   Message false [Loc None "+1"]
     "Copy dust" true
     ["Copiere praf"];
   Message false [Loc None "+1"]
     "Copy change" true
     ["Copiere schimbare"];
   Message false [Loc None "+340"]
     "(%1 locked)" true
     ["(% 1 blocat)"];
   Message false [Loc None "+161"]
     "yes" true
     ["da"];
   Message false [Loc None "+0"]
     "no" true
     ["nu"];
   Message false [Loc None "+14"]
     "This label turns red if any recipient receives an amount smaller than the current dust threshold." true
     ["Această etichetă devine roșie dacă orice destinatar primește o sumă mai mică decât pragul de praf curent."];
   Message false [Loc None "+5"]
     "Can vary +/- %1 satoshi(s) per input." true
     ["Poate varia +/-% 1 Satoshi (e) per intrare."];
   Message false [Loc None "+47"]
     "Hide immature" true
     ["Ascunde imatur"];
   Message false [Loc None "+2"]
     "Hide locked" true
     ["Ascundere blocată"];
   Message false [Loc None "+6"]
     "Show immature" true
     ["Arată imatur"];
   Message false [Loc None "+2"]
     "Show locked" true
     ["Afișare blocată"];
   Message false [Loc None "+26"; Loc None "+66"; Loc None "+11"]
     "(no label)" true
     ["(fără etichetă)"];
   Message false [Loc None "-19"]
     "change from %1 (%2)" true
     ["modificare de la% 1 (% 2)"];
   Message false [Loc None "+1"; Loc None "+20"]
     "(change)" true
     ["schimba"];
   Message false [Loc None "-17"]
     "spending from %1 (%2)" true
     ["cheltuieli de la% 1 (% 2)"]].

Definition ro_EditAddressDialog : list message :=
  [Message false [Loc (Some "../forms/editaddressdialog.ui") "+14"]
     "Edit Address" true
     ["Editare adresă"];
   Message false [Loc None "+11"]
     "&amp;Label" true
     ["Și etichetă"];
   Message false [Loc None "+10"]
     "The label associated with this address list entry" true
     ["Eticheta asociată acestei intrări de listă de adrese"];
   Message false [Loc None "+7"]
     "&amp;Address" true
     ["Și adresa"];
   Message false [Loc None "+10"]
     "The address associated with this address list entry. This can only be modified for sending addresses." true
     ["Adresa asociată acestei intrări de listă de adrese. Acest lucru poate fi modificat numai pentru trimiterea adreselor."];
   Message false [Loc (Some "../editaddressdialog.cpp") "+29"]
     "New receiving address" true
     ["Noua adresă de primire"];
   Message false [Loc None "+5"]
     "New sending address" true
     ["Adresă nouă de expediere"];
   Message false [Loc None "+3"]
     "New Stake address" true
     ["Adresa de miză nouă"];
   Message false [Loc None "+5"]
     "New ColdStake address" true
     ["Noua adresă ColdStake"];
   Message false [Loc None "+5"]
     "Edit receiving address" true
     ["Editarea adresei de primire"];
   Message false [Loc None "+4"]
     "Edit sending address" true
     ["Editarea adresei de expediere"];
   Message false [Loc None "+87"]
     "The entered address &quot;%1&quot; is not a valid Bitcoin Confidential address." true
     ["Adresa introdusă &quot;% 1&quot; nu este o adresă validă Bitcoin confidențială."];
   Message false [Loc None "+10"]
     "Could not unlock wallet." true
     ["Nu am putut debloca portofelul."];
   Message false [Loc None "+5"]
     "New key generation failed." true
     ["Noua generație de chei nu a reușit."];
   Message false [Loc None "+18"]
     "Address &quot;%1&quot; already exists as a receiving address with label &quot;%2&quot; and so cannot be added as a sending address." true
     ["Adresa &quot;% 1&quot; există deja ca adresă de primire cu eticheta &quot;% 2&quot; și astfel nu se poate adăuga ca adresă de trimitere."];
   Message false [Loc None "+5"]
     "The entered address &quot;%1&quot; is already in the address book with label &quot;%2&quot;." true
     ["Adresa introdusă &quot;% 1&quot; se află deja în agenda cu eticheta &quot;% 2&quot;."]].

Definition ro_FreespaceChecker : list message :=
  [Message false [Loc (Some "../intro.cpp") "+78"]
     "A new data directory will be created." true
     ["Se va crea un nou director de date."];
   Message false [Loc None "+22"]
     "name" true
     ["nume"];
   Message false [Loc None "+2"]
     "Directory already exists. Add %1 if you intend to create a new directory here." true
     ["Directorul există deja. Adăugați% 1 dacă intenționați să creați un nou director aici."];
   Message false [Loc None "+3"]
     "Path already exists, and is not a directory." true
     ["Calea există deja, și nu este un director."];
   Message false [Loc None "+7"]
     "Cannot create data directory here." true
     ["Imposibil de creat directorul de date aici."]].

Definition ro_HelpMessageDialog : list message :=
  [Message false [Loc (Some "../utilitydialog.cpp") "+41"]
     "version" true
     ["Versiune"];
   Message false [Loc None "+5"; Loc None "+2"]
     "(%1-bit)" true
     ["(% 1-bit)"];
   Message false [Loc None "+5"]
     "About %1" true
     ["Despre% 1"];
   Message false [Loc None "+19"]
     "Command-line options" true
     ["Opțiuni de linie de comandă"]].

Definition ro_Intro : list message :=
  [Message false [Loc (Some "../forms/intro.ui") "+14"]
     "Welcome" true
     ["bun venit"];
   Message false [Loc None "+9"]
     "Welcome to %1." true
     ["Bun venit la% 1."];
   Message false [Loc None "+26"]
     "As this is the first time the program is launched, you can choose where %1 will store its data." true
     ["Deoarece aceasta este prima dată când programul este lansat, puteți alege unde% 1 va stoca datele sale."];
   Message false [Loc None "+17"]
     "Use the default data directory" true
     ["Utilizarea directorului de date implicit"];
   Message false [Loc None "+7"]
     "Use a custom data directory:" true
     ["Utilizați un director de date particularizat:"];
   Message false [Loc None "+140"]
     "When you click OK, %1 will begin to download and process the full %4 block chain (%2GB) starting with the earliest transactions in %3 when %4 initially launched." true
     ["Când faceți clic pe OK,% 1 va începe să descarce și să proceseze întregul lanț de blocuri% 4 (% 2GB) începând cu primele tranzacții din% 3 când au fost lansate inițial% 4."];
   Message false [Loc None "+10"]
     "This initial synchronisation is very demanding, and may expose hardware problems with your computer that had previously gone unnoticed. Each time you run %1, it will continue downloading where it left off." true
     ["Această sincronizare inițială este foarte exigentă, și poate expune probleme de hardware cu computerul care a trecut anterior neobservate. De fiecare dată când executați% 1, acesta va continua descărcarea de unde a rămas."];
   Message false [Loc None "+10"]
     "If you have chosen to limit block chain storage (pruning), the historical data must still be downloaded and processed, but will be deleted afterward to keep your disk usage low." true
     ["Dacă ați ales să limitați stocarea lanțului de blocare (tăiere), datele istorice trebuie să fie încă descărcate și procesate, dar vor fi șterse după aceea pentru a menține utilizarea discului scăzut."];
   Message false [Loc (Some "../intro.cpp") "+20"]
     "Bitcoin Confidential" true
     ["Bitcoin confidential"];
   Message false [Loc None "+6"]
     "At least %1 GB of data will be stored in this directory, and it will grow over time." true
     ["Cel puțin% 1 GB de date vor fi stocate în acest director și va crește în timp."];
   Message false [Loc None "+5"]
     "Approximately %1 GB of data will be stored in this directory." true
     ["Aproximativ% 1 GB de date vor fi stocate în acest director."];
   Message false [Loc None "+8"]
     "%1 will download and store a copy of the Bitcoin Confidential block chain." true
     ["% 1 va descărca și stoca o copie a lanțului de blocare a Bitcoin confidențial."];
   Message false [Loc None "+2"]
     "The wallet will also be stored in this directory." true
     ["Portofelul va fi, de asemenea, stocate în acest director."];
   Message false [Loc None "+73"]
     "Error: Specified data directory &quot;%1&quot; cannot be created." true
     ["Eroare: Imposibil de creat directorul de date specificat &quot;% 1&quot;."];
   Message false [Loc None "+27"]
     "Error" true
     ["Eroare"];
   Message true [Loc None "+9"]
     "%n GB of free space available" true
     ["% n GB de spațiu liber disponibil"; "% n GB de spațiu liber disponibil"; "% n GB de spațiu liber disponibil"];
   Message true [Loc None "+3"]
     "(of %n GB needed)" true
     ["(de% n GB necesar)"; "(de% n GB necesar)"; "(de% n GB necesar)"]].

Definition ro_MnemonicDialog_1 : list message :=
  [Message false [Loc (Some "../forms/mnemonicdialog.ui") "+14"]
     "HD Wallet Setup" true
     ["Configurare portofel HD"];
   Message false [Loc None "+11"]
     "Generate a mnemonic" true
     ["Generează un mnemonic"];
   Message false [Loc None "+10"]
     "Create the wallet" true
     ["Creați portofelul"];
   Message false [Loc None "+22"]
     "Write down the Recovery Phrase/Mnemonic below or generate a new one with the desired settings by clicking &quot;NEW MNEMONIC&quot;. Store this phrase in a safe place. The clipboard will be cleared to ensure you have it recorded.  If you are recovering a backup, enter the Recovery Phrase/Mnemonic on the next screen.  Click the &quot;NEXT&quot; button to continue with the wallet creation." true
     ["Notați fraza de recuperare/mnemonic de mai jos sau generați unul nou cu setările dorite făcând clic pe &quot;NEW MNEMONIC&quot;. Stocați această frază într-un loc sigur. Clipboard-ul va fi eliminat pentru a vă asigura că l-ați înregistrat.  Dacă recuperați o copie de rezervă, introduceți fraza de recuperare/mnemonic pe ecranul următor.  Faceți clic pe butonul &quot;NEXT&quot; pentru a continua cu crearea de portofel."];
   Message false [Loc None "+36"]
     "Bytes of Entropy " true
     ["Bytes de entropie"];
   Message false [Loc None "+7"]
     "Language" true
     ["Limba"];
   Message false [Loc None "+45"]
     "Entropy is an advanced feature. Your mnemonic may be insecure if this feature is used incorrectly." true
     ["Entropia este o caracteristică avansată. Mnemonic poate fi nesigur dacă această caracteristică este utilizat incorect."];
   Message false [Loc None "+22"]
     "Select your language" true
     ["Selectați limba dvs."];
   Message false [Loc None "+4"]
     "English" true
     ["Engleză"];
   Message false [Loc None "+5"]
     "French" true
     ["Franceză"];
   Message false [Loc None "+5"]
     "Japanese" true
     ["Japoneză"];
   Message false [Loc None "+5"]
     "Spanish" true
     ["Spaniolă"];
   Message false [Loc None "+5"]
     "Chinese_s" true
     ["Chinese_s"];
   Message false [Loc None "+5"]
     "Chinese_t" true
     ["Chinese_t"];
   Message false [Loc None "+39"]
     "New mnemonic" true
     ["Nou mnemonic"];
   Message false [Loc None "+19"]
     "Next" true
     ["Următorul"];
   Message false [Loc None "+19"; Loc None "+198"]
     "Cancel" true
     ["Anula"];
   Message false [Loc None "-148"]
     "Recovery Passphrase " true
     ["Recuperarea passphrase"];
   Message false [Loc None "+7"]
     "Import Chain" true
     ["Lanț de import"];
   Message false [Loc None "+13"]
     "Warning" true
     ["Avertizare"];
   Message false [Loc None "+33"]
     "Enter a passphrase to protect your Recovery Phrase (optional)" true
     ["Introduceți o frază de acces pentru a vă proteja fraza de recuperare (opțional)"];
   Message false [Loc None "+13"]
     "Only needed if you&apos;re importing " true
     ["Este necesar doar dacă importați"];
   Message false [Loc None "+16"]
     "Please ensure you backup your Recovery Phrase and Passphrase - they are not recoverable!" true
     ["Asigurați-vă că faceți backup expresiei de recuperare și a Passphrazei-acestea nu sunt recuperabile!"];
   Message false [Loc None "+28"]
     "Back" true
     ["Bck"];
   Message false [Loc None "+19"; Loc (Some "../mnemonicdialog.cpp") "+145"]
     "Import" true
     ["Import"];
   Message false [Loc (Some "../mnemonicdialog.cpp") "-102"]
     "Optionally enter a passphrase to protect the Recovery Phrase. (This is not a wallet password.)" true
     ["Opțional, introduceți o frază de acces pentru a proteja fraza de recuperare. (Aceasta nu este o parolă portofel.)"];
   Message false [Loc None "+2"]
     "Enter the Recovery Phrase/Mnemonic." true
     ["Introduceți fraza de recuperare/mnemonic."];
   Message false [Loc None "+26"]
     "Create wallet" true
     ["Creare portofel"];
   Message false [Loc None "+16"]
     "Generate a new Recovery Phrase/Mnemonic with the desired settings by clicking &quot;NEW MNEMONIC&quot;." true
     ["Generați o nouă frază de recuperare/mnemonic cu setările dorite făcând clic pe &quot;NEW MNEMONIC&quot;."]].

Definition ro_MnemonicDialog_2 : list message :=
  [Message false [Loc None "+5"]
     "Import a mnemonic" true
     ["Importul unui mnemonic"];
   Message false [Loc None "+28"]
     "Confirm wallet creation cancel" true
     ["Confirmare anulare Creare portofel"];
   Message false [Loc None "+1"]
     "Are you sure you want to cancel the wallet creation?" true
     ["Sigur revocați crearea portmoneului?"];
   Message false [Loc None "+0"]
     "This is only recommended for advanced users to import with custom settings in the debug console or with the RPC interface." true
     ["Acest lucru este recomandat doar pentru utilizatorii avansați pentru a importa cu setări particularizate în consola de depanare sau cu interfața RPC."]].

Definition ro_ModalOverlay : list message :=
  [Message false [Loc (Some "../forms/modaloverlay.ui") "+14"]
     "Form" true
     ["Formă"];
   Message false [Loc None "+122"]
     "Recent transactions may not yet be visible, and therefore your wallet&apos;s balance might be incorrect. This information will be correct once your wallet has finished synchronizing with the Bitcoin Confidential network, as detailed below." true
     ["Tranzacțiile recente nu pot fi încă vizibile și, prin urmare, soldul portofelul poate fi incorect. Aceste informații vor fi corecte după ce portofelul a terminat sincronizarea cu rețeaua Bitcoin confidențial, după se detaliază mai jos."];
   Message false [Loc None "+19"]
     "Attempting to spend coins that are affected by not-yet-displayed transactions will not be accepted by the network." true
     ["Încercarea de a cheltui monede care sunt afectate de tranzacții nu-încă-afișate nu vor fi acceptate de rețea."];
   Message false [Loc None "+63"]
     "Number of blocks left" true
     ["Numărul de blocuri rămase"];
   Message false [Loc None "+7"; Loc None "+26"; Loc (Some "../modaloverlay.cpp") "+140"]
     "Unknown..." true
     ["Necunoscut..."];
   Message false [Loc None "-13"]
     "Last block time" true
     ["Ultima oră a blocului"];
   Message false [Loc None "+26"]
     "Progress" true
     ["Progresul"];
   Message false [Loc None "+34"]
     "Progress increase per hour" true
     ["Creșterea progresului pe oră"];
   Message false [Loc None "+7"; Loc None "+20"]
     "calculating..." true
     ["Calcularea..."];
   Message false [Loc None "-7"]
     "Estimated time left until synced" true
     ["Timp estimat rămas până la sincronizare"];
   Message false [Loc None "+40"]
     "Hide" true
     ["Ascunde"];
   Message false [Loc (Some "../modaloverlay.cpp") "-1"]
     "Unknown. Syncing Headers (%1)..." true
     ["Necunoscut. Sincronizarea anteturilor (% 1)..."]].

Definition ro_OpenURIDialog : list message :=
  [Message false [Loc (Some "../forms/openuridialog.ui") "+14"]
     "Open URI" true
     ["Deschidere URI"];
   Message false [Loc None "+6"]
     "Open payment request from URI or file" true
     ["Deschidere cerere de plată de la URI sau fișier"];
   Message false [Loc None "+9"]
     "URI:" true
     ["URI"];
   Message false [Loc None "+10"]
     "Select payment request file" true
     ["Selectați fișierul cu solicitări de plată"];
   Message false [Loc (Some "../openuridialog.cpp") "+45"]
     "Select payment request file to open" true
     ["Selectați fișierul de solicitare de plată pentru a deschide"]].

Definition ro_OptionsDialog_1 : list message :=
  [Message false [Loc (Some "../forms/optionsdialog.ui") "+14"]
     "Options" true
     ["Opţiuni"];
   Message false [Loc None "+14"]
     "&amp;Main" true
     ["Pagina principală"];
   Message false [Loc None "+13"]
     "W&amp;allet" true
     ["W&amp;allet"];
   Message false [Loc None "+13"]
     "&amp;Network" true
     ["Și rețea"];
   Message false [Loc None "+13"]
     "&amp;Window" true
     ["&amp; Fereastră"];
   Message false [Loc None "+13"]
     "&amp;Display" true
     ["Și afișaj"];
   Message false [Loc None "+22"]
     "Automatically start %1 after logging in to the system." true
     ["Porniți automat% 1 după conectarea la sistem."];
   Message false [Loc None "+3"]
     "&amp;Start %1 on system login" true
     ["&amp; Start% 1 pe login sistem"];
   Message false [Loc None "+22"]
     "Disables some advanced features but all blocks will still be fully validated. Reverting this setting requires re-downloading the entire blockchain. Actual disk usage may be somewhat higher." true
     ["Dezactivează unele caracteristici avansate, dar toate blocurile vor fi în continuare complet validate. Reverting această setare necesită re-descărcarea întregului Blockchain. Utilizarea efectivă a discului poate fi oarecum mai mare."];
   Message false [Loc None "+3"]
     "Prune &amp;block storage to" true
     ["Depozit de prune &amp; Block la"];
   Message false [Loc None "+17"]
     "GB" true
     ["Gb"];
   Message false [Loc None "+25"]
     "Reverting this setting requires re-downloading the entire blockchain." true
     ["Reverting această setare necesită re-descărcarea întregului Blockchain."];
   Message false [Loc None "+12"]
     "Size of &amp;database cache" true
     ["Dimensiunea și cache-ului bazei de date"];
   Message false [Loc None "+23"]
     "MB" true
     ["Mb"];
   Message false [Loc None "+27"]
     "Number of script &amp;verification threads" true
     ["Număr de script &amp; fire de verificare"];
   Message false [Loc None "+19"]
     "(0 = auto, &lt;0 = leave that many cores free)" true
     ["(0 = auto,&lt;0 = leave that many cores free) ==&quot;&quot; leave=&quot;&quot; that=&quot;&quot; many=&quot;&quot; cores=&quot;&quot;&gt;&lt;/0 = leave that many cores free)&gt;"];
   Message false [Loc None "+39"]
     "Expert" true
     ["Expert"];
   Message false [Loc None "+6"]
     "Whether to show coin control features or not." true
     ["Dacă să arate caracteristici de control al monedei sau nu."];
   Message false [Loc None "+3"]
     "Enable coin &amp;control features" true
     ["Activați funcțiile Coin &amp; control"];
   Message false [Loc None "+7"]
     "If you disable the spending of unconfirmed change, the change from a transaction cannot be used until that transaction has at least one confirmation. This also affects how your balance is computed." true
     ["Dacă dezactivați cheltuielile de modificare neconfirmate, modificarea dintr-o tranzacție nu poate fi utilizat până la această tranzacție are cel puțin o confirmare. Acest lucru afectează, de asemenea, modul în care soldul este calculat."];
   Message false [Loc None "+3"]
     "&amp;Spend unconfirmed change" true
     ["&amp; Cheltuiește o schimbare neconfirmată"];
   Message false [Loc None "+7"]
     "Display notification dialog for incoming stake transactions." true
     ["Afișați dialogul de notificare pentru tranzacțiile de mize de intrare."];
   Message false [Loc None "+3"]
     "&amp;Show incoming stake notifications" true
     ["&amp; Afișare notificări de mize de intrare"];
   Message false [Loc None "+27"]
     "Automatically open the Bitcoin Confidential client port on the router. This only works when your router supports UPnP and it is enabled." true
     ["Deschideți automat portul client confidențial al Bitcoin de pe router. Acest lucru funcționează numai atunci când router-ul suportă UPnP și este activat."];
   Message false [Loc None "+3"]
     "Map port using &amp;UPnP" true
     ["Harta Port folosind &amp; UPnP"];
   Message false [Loc None "+7"]
     "Accept connections from outside." true
     ["Acceptați conexiunile din exterior."];
   Message false [Loc None "+3"]
     "Allow incomin&amp;g connections" true
     ["Se permit conexiuni incomin&amp;g"];
   Message false [Loc None "+7"]
     "Connect to the Bitcoin Confidential network through a SOCKS5 proxy." true
     ["Conectați-vă la rețeaua Bitcoin confidențial printr-un proxy SOCKS5."];
   Message false [Loc None "+3"]
     "&amp;Connect through SOCKS5 proxy (default proxy):" true
     ["&amp; Connect prin SOCKS5 proxy (proxy implicit):"]].

Definition ro_OptionsDialog_2 : list message :=
  [Message false [Loc None "+9"; Loc None "+193"]
     "Proxy &amp;IP:" true
     ["Proxy &amp; IP:"];
   Message false [Loc None "-168"; Loc None "+193"]
     "IP address of the proxy (e.g. IPv4: 127.0.0.1 / IPv6: ::1)" true
     ["Adresa IP a proxy-ului (de ex. IPv4:127.0.0.1/IPv6::: 1)"];
   Message false [Loc None "-183"; Loc None "+193"]
     "&amp;Port:" true
     ["Port"];
   Message false [Loc None "-168"; Loc None "+193"]
     "Port of the proxy (e.g. 9050)" true
     ["Portul proxy (de exemplu, 9050)"];
   Message false [Loc None "-166"]
     "Used for reaching peers via:" true
     ["Folosit pentru a ajunge la colegi prin:"];
   Message false [Loc None "+13"; Loc None "+23"; Loc None "+23"]
     "Shows if the supplied default SOCKS5 proxy is used to reach peers via this network type." true
     ["Arată dacă proxy-ul SOCKS5 implicit furnizat este utilizat pentru a ajunge la colegi prin intermediul acestui tip de rețea."];
   Message false [Loc None "-36"]
     "IPv4" true
     ["IPv4"];
   Message false [Loc None "+23"]
     "IPv6" true
     ["IPv6"];
   Message false [Loc None "+23"]
     "Tor" true
     ["Tor"];
   Message false [Loc None "+25"]
     "Connect to the Bitcoin Confidential network through a separate SOCKS5 proxy for Tor hidden services." true
     ["Conectați-vă la rețeaua Bitcoin confidențial printr-un proxy SOCKS5 separat pentru serviciile tor ascunse."];
   Message false [Loc None "+3"]
     "Use separate SOCKS&amp;5 proxy to reach peers via Tor hidden services:" true
     ["Utilizați separat ȘOSETE &amp; 5 proxy pentru a ajunge la colegii prin intermediul tor servicii ascunse:"];
   Message false [Loc None "+111"]
     "Hide the icon from the system tray." true
     ["Ascundeți pictograma din tava de sistem."];
   Message false [Loc None "+3"]
     "&amp;Hide tray icon" true
     ["Și ascunde pictograma tavă"];
   Message false [Loc None "+7"]
     "Show only a tray icon after minimizing the window." true
     ["Afișați numai o pictogramă tavă după Minimizarea ferestrei."];
   Message false [Loc None "+3"]
     "&amp;Minimize to the tray instead of the taskbar" true
     ["&amp; Minimizați la tavă în loc de bara de activități"];
   Message false [Loc None "+7"]
     "Minimize instead of exit the application when the window is closed. When this option is enabled, the application will be closed only after selecting Exit in the menu." true
     ["Minimizați în loc să ieșiți din aplicație atunci când fereastra este închisă. Când această opțiune este activată, aplicația va fi închisă numai după selectarea ieșirii din meniu."];
   Message false [Loc None "+3"]
     "M&amp;inimize on close" true
     ["M&amp;inimize pe aproape"];
   Message false [Loc None "+26"]
     "User Interface &amp;language:" true
     ["Interfață utilizator și limbă:"];
   Message false [Loc None "+22"]
     "The user interface language can be set here. This setting will take effect after restarting %1." true
     ["Limba interfeței de utilizator poate fi setată aici. Această setare va avea efect după repornirea% 1."];
   Message false [Loc None "+11"]
     "&amp;Unit to show amounts in:" true
     ["&amp; Unit pentru a afișa sumele în:"];
   Message false [Loc None "+22"]
     "Choose the default subdivision unit to show in the interface and when sending coins." true
     ["Alegeți unitatea de subdiviziune implicită pentru a afișa în interfața și atunci când trimiteți monede."];
   Message false [Loc None "+11"; Loc None "+22"]
     "Third party URLs (e.g. a block explorer) that appear in the transactions tab as context menu items. %s in the URL is replaced by transaction hash. Multiple URLs are separated by vertical bar |." true
     ["URL-uri terțe părți (de exemplu, un bloc Explorer) care apar în fila tranzacții ca elemente de meniu contextual. % s din URL este înlocuit de hash tranzacții. Mai multe URL-uri sunt separate prin bara verticală |."];
   Message false [Loc None "-19"]
     "&amp;Third party transaction URLs" true
     ["&amp; URL-uri de tranzacții terță parte"];
   Message false [Loc None "+50"]
     "Active command-line options that override above options:" true
     ["Opțiuni de linie de comandă active care suprascrie opțiunile de mai sus:"];
   Message false [Loc None "+45"]
     "Open the %1 configuration file from the working directory." true
     ["Deschideți fișierul de configurare% 1 din directorul de lucru."];
   Message false [Loc None "+3"]
     "Open Configuration File" true
     ["Deschidere fișier de configurare"];
   Message false [Loc None "+10"]
     "Reset all client options to default." true
     ["Resetați toate opțiunile client la implicit."];
   Message false [Loc None "+3"]
     "&amp;Reset Options" true
     ["&amp; Resetare opțiuni"]].

Definition ro_OptionsDialog_3 : list message :=
  [Message false [Loc None "+80"]
     "&amp;OK" true
     ["Bine."];
   Message false [Loc None "+13"]
     "&amp;Cancel" true
     ["Și anulați"];
   Message false [Loc (Some "../optionsdialog.cpp") "+109"]
     "default" true
     ["Implicit"];
   Message false [Loc None "+56"]
     "none" true
     ["Nici unul"];
   Message false [Loc None "+82"]
     "Confirm options reset" true
     ["Confirmați resetarea opțiunilor"];
   Message false [Loc None "+1"; Loc None "+60"]
     "Client restart required to activate changes." true
     ["Repornirea clientului necesare pentru a activa modificările."];
   Message false [Loc None "-60"]
     "Client will be shut down. Do you want to proceed?" true
     ["Clientul va fi închis. Vrei să continuăm?"];
   Message false [Loc None "+15"]
     "Configuration options" true
     ["Opțiuni de configurare"];
   Message false [Loc None "+1"]
     "The configuration file is used to specify advanced user options which override GUI settings. Additionally, any command-line options will override this configuration file." true
     ["Fișierul de configurare este utilizat pentru a specifica opțiunile avansate de utilizator care suprascrie setările GUI. În plus, orice opțiuni de linia către de comandă va suprascrie acest fișier de configurare."];
   Message false [Loc None "+5"]
     "Error" true
     ["Eroare"];
   Message false [Loc None "+0"]
     "The configuration file could not be opened." true
     ["Imposibil de deschis fișierul de configurare."];
   Message false [Loc None "+43"]
     "This change would require a client restart." true
     ["Această modificare ar necesita o repornire client."];
   Message false [Loc None "+28"]
     "The supplied proxy address is invalid." true
     ["Adresa proxy furnizată nu este validă."]].

Definition ro_OverviewPage : list message :=
  [Message false [Loc (Some "../forms/overviewpage.ui") "+14"]
     "Form" true
     ["Formă"];
   Message false [Loc None "+43"]
     "Bitcoin Confidential Core" true
     ["Bitcoin confidential Core"];
   Message false [Loc None "+38"; Loc None "+114"; Loc None "+210"]
     "Pending" true
     ["Până"];
   Message false [Loc None "-308"]
     "Spending" true
     ["Cheltuielile"];
   Message false [Loc None "+108"]
     "Watch-only" true
     ["Numai pentru vizionare"];
   Message false [Loc None "+73"; Loc None "+191"]
     "Available" true
     ["Disponibile"];
   Message false [Loc None "-181"]
     "Spendable" true
     ["Spendable"];
   Message false [Loc None "+41"]
     "Staking" true
     ["Staking"];
   Message false [Loc None "+130"]
     "Immature" true
     ["Imature"];
   Message false [Loc None "+86"]
     "Total" true
     ["Total"];
   Message false [Loc None "+90"]
     "Recent transactions" true
     ["Tranzacții recente"];
   Message false [Loc None "+19"]
     "The displayed information may be out of date. Your wallet automatically synchronizes with the Bitcoin Confidential network after a connection is established, but this process has not completed yet." true
     ["Este posibil ca informațiile afișate să nu fie actualizate. Portofelul se sincronizează automat cu rețeaua Bitcoin confidențial după ce s-a stabilit o conexiune, dar acest proces nu s-a finalizat încă."]].

Definition ro_PaymentServer : list message :=
  [Message false [Loc (Some "../paymentserver.cpp") "+317"; Loc None "+215"; Loc None "+42"; Loc None "+110"; Loc None "+14"; Loc None "+18"]
     "Payment request error" true
     ["Eroare la solicitarea de plată"];
   Message false [Loc None "-398"]
     "Cannot start bitcoinc: click-to-pay handler" true
     ["Imposibil de pornit bitcoinc: handler clic-pentru-Pay"];
   Message false [Loc None "+82"; Loc None "+21"; Loc None "+13"; Loc None "+7"]
     "URI handling" true
     ["Manipularea URI"];
   Message false [Loc None "-41"]
     "&apos;bitcoin://&apos; is not a valid URI. Use &apos;bitcoin:&apos; instead." true
     ["&apos; bitcoin://&apos; nu este un URI valid. Utilizați &quot;bitcoin:&quot; în schimb."];
   Message false [Loc None "+22"]
     "Payment request fetch URL is invalid: %1" true
     ["URL-ul de solicitare de plată Fetch este nevalid:% 1"];
   Message false [Loc None "+12"]
     "Invalid payment address %1" true
     ["Adresă de plată nevalidă% 1"];
   Message false [Loc None "+8"]
     "URI cannot be parsed! This can be caused by an invalid Bitcoin Confidential address or malformed URI parameters." true
     ["URI nu pot fi paralizate! Aceasta poate fi cauzată de o adresă bitcoin confidențială nevalidă sau de parametri URI incorect formate."];
   Message false [Loc None "+13"]
     "Payment request file handling" true
     ["Plată cerere dosar manipulare"];
   Message false [Loc None "+1"]
     "Payment request file cannot be read! This can be caused by an invalid payment request file." true
     ["Fișierul de solicitare a plății nu poate fi citit! Acest lucru poate fi cauzată de un fișier de solicitare de plată nevalid."];
   Message false [Loc None "+61"; Loc None "+9"; Loc None "+31"; Loc None "+10"; Loc None "+17"; Loc None "+85"]
     "Payment request rejected" true
     ["Cerere de plată respinsă"];
   Message false [Loc None "-152"]
     "Payment request network doesn&apos;t match client network." true
     ["Rețeaua de solicitări de plată nu se potrivește cu rețeaua client."];
   Message false [Loc None "+9"]
     "Payment request expired." true
     ["Cererea de plată a expirat."];
   Message false [Loc None "+6"]
     "Payment request is not initialized." true
     ["Solicitarea de plată nu este inițializată."];
   Message false [Loc None "+26"]
     "Unverified payment requests to custom payment scripts are unsupported." true
     ["Solicitările de plată neverificată la scripturi de plată particularizate nu sunt acceptate."];
   Message false [Loc None "+9"; Loc None "+17"]
     "Invalid payment request." true
     ["Solicitare de plată nevalidă."];
   Message false [Loc None "-10"]
     "Requested payment amount of %1 is too small (considered dust)." true
     ["Valoarea de plată solicitată de% 1 este prea mică (considerată praf)."];
   Message false [Loc None "+65"]
     "Refund from %1" true
     ["Rambursare de la% 1"];
   Message false [Loc None "+31"]
     "Payment request %1 is too large (%2 bytes, allowed %3 bytes)." true
     ["Solicitarea de plată% 1 este prea mare (% 2 octeți, permisă% 3 octeți)."];
   Message false [Loc None "+9"]
     "Error communicating with %1: %2" true
     ["Eroare la comunicarea cu% 1:% 2"];
   Message false [Loc None "+20"]
     "Payment request cannot be parsed!" true
     ["Cererea de plată nu poate fi analizată!"];
   Message false [Loc None "+13"]
     "Bad response from server %1" true
     ["Răspuns negativ de la serverul% 1"];
   Message false [Loc None "+22"]
     "Network request error" true
     ["Eroare solicitare rețea"];
   Message false [Loc None "+11"]
     "Payment acknowledged" true
     ["Plată recunoscută"]].

Definition ro_PeerTableModel : list message :=
  [Message false [Loc (Some "../peertablemodel.cpp") "+109"]
     "NodeId" true
     ["De la NodeId"];
   Message false [Loc None "+0"]
     "Node/Service" true
     ["Nod/serviciu"];
   Message false [Loc None "+0"]
     "Ping" true
     ["Ping"];
   Message false [Loc None "+0"]
     "Sent" true
     ["Trimis"];
   Message false [Loc None "+0"]
     "Received" true
     ["Primit"];
   Message false [Loc None "+0"]
     "User Agent" true
     ["Agent utilizator"]].

Definition ro_QObject : list message :=
  [Message false [Loc (Some "../bitcoinunits.cpp") "+196"]
     "Amount" true
     ["Suma"];
   Message false [Loc (Some "../guiutil.cpp") "+96"]
     "Enter Spending address" true
     ["Introduceți adresa de cheltuieli"];
   Message false [Loc None "+12"]
     "Enter ColdStake address" true
     ["Introduceți adresa ColdStake"];
   Message false [Loc None "+2"]
     "Enter Stake address of remote node" true
     ["Introduceți adresa de miză a nodului la distanță"];
   Message false [Loc None "+2"]
     "Enter Stake address" true
     ["Introduceți adresa de miză"];
   Message false [Loc None "+687"]
     "%1 d" true
     ["% 1 d"];
   Message false [Loc None "+2"]
     "%1 h" true
     ["% 1 oră"];
   Message false [Loc None "+2"]
     "%1 m" true
     ["% 1 m"];
   Message false [Loc None "+2"; Loc None "+53"]
     "%1 s" true
     ["% 1 s"];
   Message false [Loc None "-10"]
     "None" true
     ["Nici unul"];
   Message false [Loc None "+5"]
     "N/A" true
     ["N/a"];
   Message false [Loc None "+0"]
     "%1 ms" true
     ["% 1 MS"];
   Message true [Loc None "+18"]
     "%n second(s)" true
     ["% n secundă (e)"; "% n secundă (e)"; "% n secundă (e)"];
   Message true [Loc None "+4"]
     "%n minute(s)" true
     ["% n minut (e)"; "% n minut (e)"; "% n minut (e)"];
   Message true [Loc None "+4"]
     "%n hour(s)" true
     ["% n oră (e)"; "% n oră (e)"; "% n oră (e)"];
   Message true [Loc None "+4"]
     "%n day(s)" true
     ["% n zi (i)"; "% n zi (i)"; "% n zi (i)"];
   Message true [Loc None "+4"; Loc None "+6"]
     "%n week(s)" true
     ["% n săptămână (i)"; "% n săptămână (i)"; "% n săptămână (i)"];
   Message false [Loc None "+0"]
     "%1 and %2" true
     ["% 1 și% 2"];
   Message true [Loc None "+0"]
     "%n year(s)" true
     ["% n an (i)"; "% n an (i)"; "% n an (i)"];
   Message false [Loc None "+8"]
     "%1 B" true
     ["% 1 B"];
   Message false [Loc None "+2"]
     "%1 KB" true
     ["% 1 KB"];
   Message false [Loc None "+2"]
     "%1 MB" true
     ["% 1 MB"];
   Message false [Loc None "+2"]
     "%1 GB" true
     ["% 1 GB"];
   Message false [Loc None "+71"]
     "All spending funds are sent and received anonymously. Only the sender and receiver have details of their side of the transaction. Staking funds need to be converted to spending before sending out of wallet. Funds require %1 confirmations (%2 minutes) before sending." true
     ["Toate fondurile de cheltuieli sunt trimise și primite anonim. Numai expeditorul și receptorul au detalii despre partea lor a tranzacției. Fondurile de Staking trebuie să fie convertite la cheltuieli înainte de a trimite din portofel. Fondurile necesită confirmări% 1 (% 2 minute) înainte de expediere."];
   Message false [Loc None "+15"]
     "Staking funds cannot be sent out of your wallet without converting to spending. After converting to spending, %1 confirmations (%2 minutes) are required before sending." true
     ["Fondurile de Staking nu pot fi trimise din portofel fără a se converti la cheltuieli. După conversia la cheltuieli,% 1 confirmări (% 2 minute) sunt necesare înainte de a trimite."];
   Message false [Loc (Some "../modaloverlay.cpp") "-29"]
     "unknown" true
     ["Necunoscut"];
   Message false [Loc (Some "../bitcoin.cpp") "+186"]
     "%1 didn&apos;t yet exit safely..." true
     ["% 1 nu a ieșit încă în condiții de siguranță..."]].

Definition ro_QObject__QObject : list message :=
  [Message false [Loc None "-117"]
     "Error parsing command line arguments: %1." true
     ["Eroare la analizarea argumentelor liniei de comandă:% 1."];
   Message false [Loc None "+38"]
     "Error: Specified data directory &quot;%1&quot; does not exist." true
     ["Eroare: directorul de date specificat &quot;% 1&quot; nu există."];
   Message false [Loc None "+5"]
     "Error: Cannot parse configuration file: %1." true
     ["Eroare: Imposibil de analizat fișierul de configurare:% 1."];
   Message false [Loc None "+14"]
     "Error: %1" true
     ["Eroare:% 1"]].

Definition ro_QRImageWidget : list message :=
  [Message false [Loc (Some "../receiverequestdialog.cpp") "+32"]
     "&amp;Save Image..." true
     ["&amp; Salvare imagine..."];
   Message false [Loc None "+3"]
     "&amp;Copy Image" true
     ["&amp; Copiere imagine"];
   Message false [Loc None "+32"]
     "Save QR Code" true
     ["Salvare cod QR"];
   Message false [Loc None "+0"]
     "PNG Image (*.png)" true
     ["Imagine PNG (*. png)"]].

Definition ro_RPCConsole_1 : list message :=
  [Message false [Loc (Some "../forms/debugwindow.ui") "+14"]
     "Debug window" true
     ["Fereastra de depanare"];
   Message false [Loc None "+11"]
     "Information" true
     ["Informaţii"];
   Message false [Loc None "+13"]
     "Console" true
     ["Consola"];
   Message false [Loc None "+10"]
     "Network Traffic" true
     ["Trafic de rețea"];
   Message false [Loc None "+10"]
     "Peers" true
     ["Colegii"];
   Message false [Loc None "+21"; Loc None "+1004"]
     "User Agent" true
     ["Agent utilizator"];
   Message false [Loc None "-988"]
     "Block chain" true
     ["Lanț de blocuri"];
   Message false [Loc None "+7"]
     "Client version" true
     ["Versiune client"];
   Message false [Loc None "+13"]
     "General" true
     ["Generale"];
   Message false [Loc None "+13"]
     "Memory Pool" true
     ["Memorie Pool"];
   Message false [Loc None "+7"]
     "Current number of blocks" true
     ["Numărul curent de blocuri"];
   Message false [Loc None "+13"]
     "Network" true
     ["Reţea"];
   Message false [Loc None "+7"]
     "Number of connections" true
     ["Număr de conexiuni"];
   Message false [Loc None "+7"]
     "Startup time" true
     ["Timp de pornire"];
   Message false [Loc None "+7"]
     "Name" true
     ["nume"];
   Message false [Loc None "+7"]
     "Last block time" true
     ["Ultima oră a blocului"];
   Message false [Loc None "+7"]
     "Using BerkeleyDB version" true
     ["Utilizarea versiunii BerkeleyDB"];
   Message false [Loc None "+10"]
     "Datadir" true
     ["Datadir"];
   Message false [Loc None "+7"]
     "Memory usage" true
     ["Utilizare memorie"];
   Message false [Loc None "+7"]
     "Current number of transactions" true
     ["Numărul curent de tranzacții"];
   Message false [Loc None "+10"; Loc None "+16"; Loc None "+16"; Loc None "+16"; Loc None "+19"; Loc None "+16"; Loc None "+16"; Loc None "+16"; Loc None "+16"; Loc None "+16"; Loc None "+16"; Loc None "+644"; Loc None "+23"; Loc None "+23"; Loc None "+23"; Loc None "+23"; Loc None "+23"; Loc None "+23"; Loc None "+23"; Loc None "+23"; Loc None "+23"; Loc None "+23"; Loc None "+23"; Loc None "+23"; Loc None "+23"; Loc None "+23"; Loc None "+26"; Loc None "+23"; Loc None "+23"]
     "N/A" true
     ["N/a"];
   Message false [Loc None "-988"]
     "Debug log file" true
     ["Fișier jurnal de depanare"];
   Message false [Loc None "+7"]
     "Open the %1 debug log file from the current data directory. This can take a few seconds for large log files." true
     ["Deschideți fișierul jurnal de depanare% 1 din directorul de date curent. Acest lucru poate dura câteva secunde pentru fișierele jurnal mari."]].

Definition ro_RPCConsole_2 : list message :=
  [Message false [Loc None "+3"]
     "&amp;Open" true
     ["Și deschide"];
   Message false [Loc None "+25"]
     "Wallet: " true
     ["Portofel:"];
   Message false [Loc None "+8"]
     "(none)" true
     ["Nici unul"];
   Message false [Loc None "+27"]
     "Decrease font size" true
     ["Micșorare dimensiune font"];
   Message false [Loc None "+32"]
     "Increase font size" true
     ["Măriți dimensiunea fontului"];
   Message false [Loc None "+32"]
     "Clear console" true
     ["Golire consolă"];
   Message false [Loc None "+111"]
     "&amp;Reset" true
     ["&amp; Resetare"];
   Message false [Loc None "+16"]
     "Totals" true
     ["Totaluri"];
   Message false [Loc None "+67"; Loc None "+555"]
     "Received" true
     ["Primit"];
   Message false [Loc None "-475"; Loc None "+452"]
     "Sent" true
     ["Trimis"];
   Message false [Loc None "-361"]
     "Banned peers" true
     ["Colegii interzise"];
   Message false [Loc None "+60"; Loc (Some "../rpcconsole.cpp") "+510"; Loc None "+760"]
     "Select a peer to view detailed information." true
     ["Selectați un peer pentru a vizualiza informații detaliate."];
   Message false [Loc None "+25"]
     "Whitelisted" true
     ["Lista albă"];
   Message false [Loc None "+23"]
     "Direction" true
     ["Direcţia"];
   Message false [Loc None "+23"]
     "Version" true
     ["Versiune"];
   Message false [Loc None "+46"]
     "Services" true
     ["Servicii"];
   Message false [Loc None "+23"]
     "Starting Block" true
     ["Bloc de pornire"];
   Message false [Loc None "+23"]
     "Synced Headers" true
     ["Anteturi sincronizate"];
   Message false [Loc None "+23"]
     "Synced Blocks" true
     ["Blocuri sincronizate"];
   Message false [Loc None "+23"]
     "Ban Score" true
     ["Ban Scor"];
   Message false [Loc None "+23"]
     "Connection Time" true
     ["Ora conexiunii"];
   Message false [Loc None "+23"]
     "Last Send" true
     ["Ultima trimitere"];
   Message false [Loc None "+23"]
     "Last Receive" true
     ["Ultima primire"];
   Message false [Loc None "+69"]
     "Ping Time" true
     ["Timp de ping"];
   Message false [Loc None "+23"]
     "The duration of a currently outstanding ping." true
     ["Durata unui ping restante în prezent."];
   Message false [Loc None "+3"]
     "Ping Wait" true
     ["Ping așteptați"];
   Message false [Loc None "+23"]
     "Min Ping" true
     ["Min ping"];
   Message false [Loc None "+23"]
     "Time Offset" true
     ["Decalaj timp"];
   Message false [Loc (Some "../rpcconsole.cpp") "-667"]
     "&amp;Disconnect" true
     ["&amp; Deconectare"]].

Definition ro_RPCConsole_3 : list message :=
  [Message false [Loc None "+1"; Loc None "+1"; Loc None "+1"; Loc None "+1"]
     "Ban for" true
     ["Ban pentru"];
   Message false [Loc None "-3"]
     "1 &amp;hour" true
     ["1 &amp; oră"];
   Message false [Loc None "+1"]
     "1 &amp;day" true
     ["1 &amp; zi"];
   Message false [Loc None "+1"]
     "1 &amp;week" true
     ["1 &amp; săptămână"];
   Message false [Loc None "+1"]
     "1 &amp;year" true
     ["1 &amp; an"];
   Message false [Loc None "+48"]
     "&amp;Unban" true
     ["Și unban"];
   Message false [Loc None "+54"]
     "default wallet" true
     ["portofel implicit"];
   Message false [Loc None "+110"]
     "Welcome to the %1 RPC console." true
     ["Bun venit la consola% 1 RPC."];
   Message false [Loc None "+1"]
     "Use up and down arrows to navigate history, and %1 to clear screen." true
     ["Utilizați săgețile în sus și în jos pentru a naviga în istoric și% 1 pentru a goli ecranul."];
   Message false [Loc None "+1"]
     "Type %1 for an overview of available commands." true
     ["Tastați% 1 pentru o prezentare generală a comenzilor disponibile."];
   Message false [Loc None "+1"]
     "For more information on using this console type %1." true
     ["Pentru mai multe informații despre utilizarea acestei console tip% 1."];
   Message false [Loc None "+2"]
     "WARNING: Scammers have been active, telling users to type commands here, stealing their wallet contents. Do not use this console without fully understanding the ramifications of a command." true
     ["Avertisment: escrocii au fost activi, spunându-le utilizatorilor să tasteze comenzi aici, furându-le conținutul de portofel. Nu utilizați această consolă fără a înțelege pe deplin ramificațiile unei comenzi."];
   Message false [Loc None "+32"]
     "In:" true
     ["In:"];
   Message false [Loc None "+1"]
     "Out:" true
     ["Out"];
   Message false [Loc None "+3"]
     "Network activity disabled" true
     ["Activitate de rețea dezactivată"];
   Message false [Loc None "+68"]
     "Executing command without any wallet" true
     ["Executare comandă fără portofel"];
   Message false [Loc None "+2"]
     "Executing command using &quot;%1&quot; wallet" true
     ["Executare comandă utilizând portofelul &quot;% 1&quot;"];
   Message false [Loc None "+190"]
     "(node id: %1)" true
     ["(nod ID:% 1)"];
   Message false [Loc None "+2"]
     "via %1" true
     ["prin% 1"];
   Message false [Loc None "+3"; Loc None "+1"]
     "never" true
     ["Niciodată"];
   Message false [Loc None "+10"]
     "Inbound" true
     ["Intrare"];
   Message false [Loc None "+0"]
     "Outbound" true
     ["Ieşire"];
   Message false [Loc None "+2"]
     "Yes" true
     ["da"];
   Message false [Loc None "+0"]
     "No" true
     ["nu"];
   Message false [Loc None "+12"; Loc None "+6"]
     "Unknown" true
     ["Necunoscut"]].

Definition ro_ReceiveCoinsDialog : list message :=
  [Message false [Loc (Some "../forms/receivecoinsdialog.ui") "+59"]
     "Stake" true
     ["Miza"];
   Message false [Loc None "+5"]
     "ColdStake" true
     ["În ColdStake"];
   Message false [Loc None "+14"]
     "&amp;Request payment" true
     ["&amp; Cerere de plată"];
   Message false [Loc None "+17"]
     "Clear all fields of the form." true
     ["Goliți toate câmpurile formularului."];
   Message false [Loc None "+3"]
     "Clear" true
     ["Clar"];
   Message false [Loc None "+56"; Loc None "+79"]
     "An optional amount to request. Leave this empty or zero to not request a specific amount." true
     ["O sumă opțională de solicitat. Lăsați acest gol sau zero pentru a nu solicita o anumită sumă."];
   Message false [Loc None "-57"]
     "Use bech32 encoding." true
     ["Utilizați codificarea bech32."];
   Message false [Loc None "+3"]
     "Generate native segwit (Bech32) address" true
     ["Generare nativ segwit (Bech32) adresa"];
   Message false [Loc None "+22"; Loc None "+55"]
     "An optional label to associate with the new receiving address." true
     ["O etichetă opțională care să se asocieze cu noua adresă de primire."];
   Message false [Loc None "-52"]
     "&amp;Label:" true
     ["Eticheta"];
   Message false [Loc None "+13"; Loc None "+53"]
     "An optional message to attach to the payment request, which will be displayed when the request is opened. Note: The message will not be sent with the payment over the Bitcoin Confidential network." true
     ["Un mesaj opțional de atașat la solicitarea de plată, care va fi afișat la deschiderea solicitării. Notă: mesajul nu va fi trimis cu plata prin rețeaua Bitcoin confidențial."];
   Message false [Loc None "-50"]
     "&amp;Message:" true
     ["Mesaj"];
   Message false [Loc None "+16"]
     "&amp;Amount:" true
     ["Sumă"];
   Message false [Loc None "+13"]
     "Use this form to request payments. All fields are &lt;b&gt;optional&lt;/b&gt;." true
     ["Utilizați acest formular pentru a solicita plăți. Toate câmpurile sunt &lt;b&gt;opționale&lt;/b&gt;."];
   Message false [Loc None "+63"]
     "Requested payments history" true
     ["Istoricul plăților solicitate"];
   Message false [Loc None "+31"]
     "Show the selected request (does the same as double clicking an entry)" true
     ["Afișați solicitarea selectată (face același lucru cu dublu clic pe o intrare)"];
   Message false [Loc None "+3"]
     "Show" true
     ["Arată"];
   Message false [Loc None "+17"]
     "Remove the selected entries from the list" true
     ["Eliminați intrările selectate din listă"];
   Message false [Loc None "+3"]
     "Remove" true
     ["Elimina"];
   Message false [Loc (Some "../receivecoinsdialog.cpp") "+40"]
     "Copy URI" true
     ["Copiere URI"];
   Message false [Loc None "+1"]
     "Copy label" true
     ["Copiere etichetă"];
   Message false [Loc None "+1"]
     "Copy message" true
     ["Copiere mesaj"];
   Message false [Loc None "+1"]
     "Copy amount" true
     ["Copiere sumă"]].

Definition ro_ReceiveRequestDialog : list message :=
  [Message false [Loc (Some "../forms/receiverequestdialog.ui") "+29"]
     "QR Code" true
     ["Cod QR"];
   Message false [Loc None "+46"]
     "Copy &amp;URI" true
     ["Copiere &amp; URI"];
   Message false [Loc None "+10"]
     "Copy &amp;Address" true
     ["Copiere și adresă"];
   Message false [Loc None "+10"]
     "&amp;Save Image..." true
     ["&amp; Salvare imagine..."];
   Message false [Loc (Some "../receiverequestdialog.cpp") "+65"]
     "Request payment to %1" true
     ["Se solicită plata la% 1"];
   Message false [Loc None "+6"]
     "Payment information" true
     ["Informații de plată"];
   Message false [Loc None "+1"]
     "URI" true
     ["URI"];
   Message false [Loc None "+2"]
     "Address" true
     ["Adresa"];
   Message false [Loc None "+2"]
     "Amount" true
     ["Suma"];
   Message false [Loc None "+2"]
     "Label" true
     ["Eticheta"];
   Message false [Loc None "+2"]
     "Message" true
     ["Mesaj"];
   Message false [Loc None "+2"]
     "Wallet" true
     ["Portofel"];
   Message false [Loc None "+11"]
     "Resulting URI too long, try to reduce the text for label / message." true
     ["URI care rezultă prea mult timp, încercați să reduceți textul pentru etichetă/mesaj."];
   Message false [Loc None "+5"]
     "Error encoding URI into QR Code." true
     ["Eroare de codificare URI în QR code."]].

Definition ro_RecentRequestsTableModel : list message :=
  [Message false [Loc (Some "../recentrequeststablemodel.cpp") "+25"; Loc None "+4"]
     "Date" true
     ["Data"];
   Message false [Loc None "-4"; Loc None "+4"]
     "Label" true
     ["Eticheta"];
   Message false [Loc None "+0"]
     "Message" true
     ["Mesaj"];
   Message false [Loc None "+42"]
     "(no label)" true
     ["(fără etichetă)"];
   Message false [Loc None "+9"]
     "(no message)" true
     ["(nici un mesaj)"];
   Message false [Loc None "+8"]
     "(no amount requested)" true
     ["(nici o sumă solicitată)"];
   Message false [Loc None "+45"]
     "Requested" true
     ["Solicitat"]].

Definition ro_SendCoinsDialog_1 : list message :=
  [Message false [Loc (Some "../forms/sendcoinsdialog.ui") "+14"; Loc (Some "../sendcoinsdialog.cpp") "+806"]
     "Send Coins" true
     ["Trimite monede"];
   Message false [Loc None "+105"]
     "Inputs..." true
     ["Intrări..."];
   Message false [Loc None "+10"]
     "automatically selected" true
     ["selectat automat"];
   Message false [Loc None "+19"]
     "Insufficient funds!" true
     ["Fonduri insuficiente!"];
   Message false [Loc None "+89"]
     "Quantity:" true
     ["Cantitatea:"];
   Message false [Loc None "+35"]
     "Bytes:" true
     ["Octeţi:"];
   Message false [Loc None "+48"]
     "Amount:" true
     ["Suma:"];
   Message false [Loc None "+32"]
     "Dust:" true
     ["Praf:"];
   Message false [Loc None "+48"]
     "Fee:" true
     ["Taxa:"];
   Message false [Loc None "+51"]
     "After Fee:" true
     ["După taxă:"];
   Message false [Loc None "+32"]
     "Change:" true
     ["Schimba:"];
   Message false [Loc None "+44"]
     "If this is activated, but the change address is empty or invalid, change will be sent to a newly generated address." true
     ["Dacă acest lucru este activat, dar adresa de modificare este goală sau nevalidă, modificarea va fi trimisă la o adresă nou generată."];
   Message false [Loc None "+3"]
     "Custom change address" true
     ["Adresă de modificare personalizată"];
   Message false [Loc None "+256"]
     "Transaction Fee:" true
     ["Taxă tranzacție:"];
   Message false [Loc None "+14"]
     "Choose..." true
     ["Alege..."];
   Message false [Loc None "+30"]
     "Using the fallbackfee can result in sending a transaction that will take several hours or days (or never) to confirm. Consider choosing your fee manually or wait until you have validated the complete chain." true
     ["Folosind fallbackfee poate duce la trimiterea unei tranzacții care va dura mai multe ore sau zile (sau niciodată) pentru a confirma. Luați în considerare alegerea taxei manual sau așteptați până când ați validat lanțul complet."];
   Message false [Loc None "+3"]
     "Warning: Fee estimation is currently not possible." true
     ["Avertisment: estimarea taxei nu este posibilă în prezent."];
   Message false [Loc None "+26"]
     "collapse fee-settings" true
     ["taxă de restrângere-setări"];
   Message false [Loc None "+3"]
     "Hide" true
     ["Ascunde"];
   Message false [Loc None "+48"]
     "Specify a custom fee per kB (1,000 bytes) of the transaction's virtual size.

Note:  Since the fee is calculated on a per-byte basis, a fee of &quot;100 satoshis per kB&quot; for a transaction size of 500 bytes (half of 1 kB) would ultimately yield a fee of only 50 satoshis." true
     ["Specificați o taxă particularizată pe kB (1.000 bytes) de dimensiunea virtuală a tranzacției.

Notă: deoarece taxa este calculată pe o bază per-byte, o taxă de &quot;100 satoshis per kB&quot; pentru o dimensiune de tranzacții de 500 octeți (jumătate din 1 kB) ar produce în cele din urmă o taxă de numai 50 satoshis."];
   Message false [Loc None "+5"]
     "per kilobyte" true
     ["pe kilobyte"];
   Message false [Loc None "+27"; Loc None "+13"]
     "Paying only the minimum fee is just fine as long as there is less transaction volume than space in the blocks. But be aware that this can end up in a never confirming transaction once there is more demand for Bitcoin Confidential transactions than the network can process." true
     ["Plătind doar taxa minimă este doar bine, atâta timp cât există mai puțin volum tranzacție decât spațiu în blocuri. Dar fiți conștienți de faptul că acest lucru poate ajunge într-o tranzacție care nu confirmă niciodată, odată ce există o cerere mai mare pentru tranzacțiile Bitcoin confidențiale decât poate procesa rețeaua."];
   Message false [Loc None "+3"]
     "(read the tooltip)" true
     ["(Citeste tooltip)"];
   Message false [Loc None "+29"]
     "Recommended:" true
     ["Recomandat:"];
   Message false [Loc None "+30"]
     "Custom:" true
     ["Particularizate:"];
   Message false [Loc None "+52"]
     "(Smart fee not initialized yet. This usually takes a few blocks...)" true
     ["(Taxa Smart nu a fost inițializată încă. Acest lucru durează, de obicei, câteva blocuri...)"];
   Message false [Loc None "+29"]
     "Confirmation time target:" true
     ["Țintă de timp de confirmare:"];
   Message false [Loc None "+74"]
     "With Replace-By-Fee (BIP-125) you can increase a transaction&apos;s fee after it is sent. Without this, a higher fee may be recommended to compensate for increased transaction delay risk." true
     ["Cu înlocuire-cu-Fee (BIP-125), puteți crește taxa de tranzacție după ce este trimisă. Fără aceasta, se poate recomanda o taxă mai mare pentru a compensa riscul crescut de întârziere a tranzacției."]].

Definition ro_SendCoinsDialog_2 : list message :=
  [Message false [Loc None "+3"]
     "Enable Replace-By-Fee" true
     ["Activare înlocuire-cu-taxă"];
   Message false [Loc None "+37"]
     "Confirm the send action" true
     ["Confirmați acțiunea de trimitere"];
   Message false [Loc None "+3"]
     "S&amp;end" true
     ["S&amp;end pensiune"];
   Message false [Loc None "+23"]
     "Clear all fields of the form." true
     ["Goliți toate câmpurile formularului."];
   Message false [Loc None "+3"]
     "Clear &amp;All" true
     ["Clar &amp; All"];
   Message false [Loc None "+14"]
     "Send to multiple recipients at once" true
     ["Trimiteți simultan către mai mulți destinatari"];
   Message false [Loc None "+3"]
     "Add &amp;Recipient" true
     ["Add &amp; destinatar"];
   Message false [Loc None "+38"]
     "Balance:" true
     ["Ballance:"];
   Message false [Loc (Some "../sendcoinsdialog.cpp") "-730"]
     "Add Output" true
     ["Adăugare ieșire"];
   Message false [Loc None "+3"]
     "Add Recipient" true
     ["Adăugare destinatar"];
   Message false [Loc None "+14"]
     "Copy quantity" true
     ["Copiere cantitate"];
   Message false [Loc None "+1"]
     "Copy amount" true
     ["Copiere sumă"];
   Message false [Loc None "+1"]
     "Copy fee" true
     ["Taxa de copiere"];
   Message false [Loc None "+1"]
     "Copy after fee" true
     ["Copiere după taxă"];
   Message false [Loc None "+1"]
     "Copy bytes" true
     ["Copiați octeți"];
   Message false [Loc None "+1"]
     "Copy dust" true
     ["Copiere praf"];
   Message false [Loc None "+1"]
     "Copy change" true
     ["Copiere schimbare"];
   Message false [Loc None "+88"]
     "%1 (%2 blocks)" true
     ["% 1 (% 2 blocuri)"];
   Message false [Loc None "+39"]
     "This tab allows manually activating Staking funds for ColdStaking. This will take longer than the &quot;Automated ColdStaking activation&quot; to start staking but wallet does not need to be online for the activation." true
     ["Această filă permite activarea manuală a fondurilor de Staking pentru ColdStaking. Acest lucru va dura mai mult decât &quot;automat ColdStaking Activation&quot; pentru a începe Staking, dar portofelul nu trebuie să fie online pentru activare."];
   Message false [Loc None "+103"]
     "Error Remote Staking Address" true
     ["Eroare la distanță Staking Address"];
   Message false [Loc None "+0"]
     "The remote stake address can&apos;t be part of this wallet." true
     ["Adresa de la distanță a mizei nu poate face parte din acest portofel."];
   Message false [Loc None "+96"]
     "from wallet %1" true
     ["din portofel% 1"];
   Message false [Loc None "+21"; Loc None "+5"; Loc None "+5"; Loc None "+4"]
     "%1 to %2" true
     ["% 1 până la% 2"];
   Message false [Loc None "+6"]
     "Are you sure you want to send?" true
     ["Ești sigur că vrei să trimiți?"];
   Message false [Loc None "+2"]
     "Please, review your transaction." true
     ["Te rog, revizuiește tranzacția."];
   Message false [Loc None "+11"]
     "Estimated Transaction fee" true
     ["Taxa de tranzacție estimată"];
   Message false [Loc None "+13"]
     "removed for transaction fee" true
     ["eliminat pentru taxa de tranzacție"];
   Message false [Loc None "+2"]
     "added as transaction fee" true
     ["adăugată ca taxă de tranzacție"];
   Message false [Loc None "+5"]
     "You can increase the fee later (signals Replace-By-Fee, BIP-125)." true
     ["Puteți crește taxa mai târziu (semnale înlocui-cu-Fee, BIP-125)."]].

Definition ro_SendCoinsDialog_3 : list message :=
  [Message false [Loc None "+2"]
     "Not signalling Replace-By-Fee, BIP-125." true
     ["Nu semnalizează înlocuirea-cu-Fee, BIP-125."];
   Message false [Loc None "+12"]
     "Total Amount" true
     ["Sumă totală"];
   Message false [Loc None "+6"]
     "Your hardware device must be connected to sign this txn." true
     ["Dispozitivul hardware trebuie să fie conectat pentru a semna acest TXN."];
   Message false [Loc None "+4"]
     "Confirm send coins" true
     ["Confirmare trimitere monede"];
   Message false [Loc None "+248"]
     "The recipient address is not valid. Please recheck." true
     ["Adresa destinatarului nu este validă. Vă rugăm să reverificați."];
   Message false [Loc None "+3"]
     "The amount to pay must be larger than 0." true
     ["Suma de plătit trebuie să fie mai mare decât 0."];
   Message false [Loc None "+3"]
     "The amount exceeds your balance." true
     ["Suma depășește soldul."];
   Message false [Loc None "+3"]
     "The total exceeds your balance when the %1 transaction fee is included." true
     ["Totalul depășește soldul atunci când este inclusă taxa de tranzacție% 1."];
   Message false [Loc None "+3"]
     "Duplicate address found: addresses should only be used once each." true
     ["Adresă dublată găsită: adresele trebuie utilizate doar o dată fiecare."];
   Message false [Loc None "+3"]
     "Transaction creation failed!" true
     ["Crearea de tranzacții nu a reușit!"];
   Message false [Loc None "+4"]
     "The transaction was rejected with the following reason: %1" true
     ["Tranzacția a fost respinsă cu următorul motiv:% 1"];
   Message false [Loc None "+4"]
     "A fee higher than %1 is considered an absurdly high fee." true
     ["O taxă mai mare decât% 1 este considerată o taxă absurd de mare."];
   Message false [Loc None "+3"]
     "Payment request expired." true
     ["Cererea de plată a expirat."];
   Message false [Loc None "+96"]
     "Pay only the required fee of %1" true
     ["Plătiți numai taxa necesară de% 1"];
   Message true [Loc None "+76"]
     "Estimated to begin confirmation within %n block(s)." true
     ["Estimat pentru a începe confirmarea în% n bloc (e)."; "Estimat pentru a începe confirmarea în% n bloc (e)."; "Estimat pentru a începe confirmarea în% n bloc (e)."];
   Message false [Loc None "+130"]
     "Warning: Invalid Bitcoin Confidential address" true
     ["Avertisment: adresă confidențială Bitcoin nevalidă"];
   Message false [Loc None "+8"]
     "Error custom change address" true
     ["Eroare schimbare particularizată adresă"];
   Message false [Loc None "+0"]
     "The address you selected for change is not part of this wallet." true
     ["Adresa selectată pentru modificare nu face parte din acest portofel."];
   Message false [Loc None "+15"]
     "(no label)" true
     ["(fără etichetă)"]].

Definition ro_SendCoinsEntry_1 : list message :=
  [Message false [Loc (Some "../forms/sendcoinsentry.ui") "+30"]
     "This is a normal payment." true
     ["Aceasta este o plată normală."];
   Message false [Loc None "+71"; Loc None "+463"; Loc None "+130"]
     "Subtract fee from amount" true
     ["Scăderea taxei din sumă"];
   Message false [Loc None "-580"; Loc None "+463"; Loc None "+130"]
     "Use available balance" true
     ["Utilizare Sold disponibil"];
   Message false [Loc None "-562"]
     "Message" true
     ["Mesaj"];
   Message false [Loc None "+24"; Loc None "+261"]
     "The Bitcoin Confidential address to send the payment to" true
     ["Adresa Bitcoin confidential pentru a trimite plata la"];
   Message false [Loc None "-254"; Loc None "+261"; Loc None "+297"; Loc None "+104"]
     "Choose previously used address" true
     ["Alegeți adresa utilizată anterior"];
   Message false [Loc None "-646"; Loc None "+261"; Loc None "+297"; Loc None "+104"]
     "Alt+A" true
     ["Alt + A"];
   Message false [Loc None "-655"; Loc None "+261"; Loc None "+297"; Loc None "+104"]
     "Paste address from clipboard" true
     ["Lipire adresă din Clipboard"];
   Message false [Loc None "-646"; Loc None "+261"; Loc None "+297"; Loc None "+104"]
     "Alt+P" true
     ["Alt + P"];
   Message false [Loc None "-655"; Loc None "+261"; Loc None "+401"; Loc None "+520"; Loc None "+564"]
     "Remove this entry" true
     ["Eliminați această intrare"];
   Message false [Loc None "-1718"; Loc None "+277"]
     "Pay To" true
     ["Plătiți pentru a"];
   Message false [Loc None "-258"; Loc None "+242"; Loc None "+277"]
     "Amount" true
     ["Suma"];
   Message false [Loc None "-495"]
     "Enter a label for this address to add it to the list of used addresses" true
     ["Introduceți o etichetă pentru această adresă pentru a o adăuga la lista de adrese utilizate"];
   Message false [Loc None "+15"]
     "Label" true
     ["Eticheta"];
   Message false [Loc None "+33"]
     "A short message sent over the Bitcoin Confidential network." true
     ["Un mesaj scurt trimis peste reteaua bitcoin confidential."];
   Message false [Loc None "+6"]
     "Encrypted message sent with the transaction (optional, max. 24 characters)." true
     ["Mesaj criptat trimis cu tranzacția (opțional, Max. 24 caractere)."];
   Message false [Loc None "+261"]
     "This is a payment to a coldstake script." true
     ["Aceasta este o plată la un script coldstake."];
   Message false [Loc None "+83"]
     "The fee will be deducted from the amount being sent. The recipient will receive less Bitcoin Confidential than you enter in the amount field. If multiple recipients are selected, the fee is split equally." true
     ["Taxa va fi dedusă din suma trimisă. Destinatarul va primi mai puțină Bitcoin confidențial decât introduceți în câmpul sumă. Dacă sunt selectate mai mulți destinatari, taxa este împărțită în mod egal."];
   Message false [Loc None "+36"]
     "ColdStake address used by your remote staking node to stake your funds." true
     ["Adresa ColdStake utilizată de nodul de Staking la distanță pentru a miza fondurile."];
   Message false [Loc None "+80"]
     "ColdStake " true
     ["În ColdStake"];
   Message false [Loc None "+24"]
     "The stake address on the remote node (cannot be in this wallet)" true
     ["Adresa de miză de pe nodul de la distanță (nu poate fi în acest portofel)"];
   Message false [Loc None "+81"]
     " Stake " true
     ["Miza"];
   Message false [Loc None "+434"]
     "This is an unauthenticated payment request." true
     ["Aceasta este o solicitare de plată neautentificată."];
   Message false [Loc None "+40"; Loc None "+560"]
     "Pay To:" true
     ["Plătiți pentru a:"]].

Definition ro_SendCoinsEntry_2 : list message :=
  [Message false [Loc None "-526"; Loc None "+577"]
     "Memo:" true
     ["Memo:"];
   Message false [Loc None "-560"; Loc None "+547"]
     "A&amp;mount:" true
     ["A&amp;Mount:"];
   Message false [Loc None "-78"]
     "This is an authenticated payment request." true
     ["Aceasta este o cerere de plată autentificată."];
   Message false [Loc (Some "../sendcoinsentry.cpp") "+89"]
     "Enter a label for this address to add it to your address book" true
     ["Introduceți o etichetă pentru această adresă pentru a o adăuga în agendă"]].

Definition ro_SendConfirmationDialog : list message :=
  [Message false [Loc (Some "../sendcoinsdialog.cpp") "+85"; Loc None "+5"]
     "Yes" true
     ["da"]].

Definition ro_ShutdownWindow : list message :=
  [Message false [Loc (Some "../utilitydialog.cpp") "+83"]
     "%1 is shutting down..." true
     ["% 1 se închide..."];
   Message false [Loc None "+1"]
     "Do not shut down the computer until this window disappears." true
     ["Nu închideți computerul până când această fereastră nu dispare."]].

Definition ro_SignVerifyMessageDialog_1 : list message :=
  [Message false [Loc (Some "../forms/signverifymessagedialog.ui") "+14"]
     "Signatures - Sign / Verify a Message" true
     ["Semnături-semnează/verifică un mesaj"];
   Message false [Loc None "+14"]
     "&amp;Sign Message" true
     ["&amp; Semn mesaj"];
   Message false [Loc None "+10"]
     "&amp;Verify Message" true
     ["&amp; Verificare mesaj"];
   Message false [Loc None "+31"]
     "You can sign messages/agreements with your addresses to prove you can receive Bitcoin Confidential sent to them. Be careful not to sign anything vague or random, as phishing attacks may try to trick you into signing your identity over to them. Only sign fully-detailed statements you agree to." true
     ["Puteți semna mesaje/acorduri cu adresele pentru a dovedi că puteți primi Bitcoin confidential trimis la acestea. Ai grijă să nu semnezi nimic sau aleatoriu, deoarece atacurile de phishing pot încerca să te păcălească să-ți semnezi identitatea. Semnează doar declarațiile detaliate pe care ești de acord."];
   Message false [Loc None "+18"]
     "The Bitcoin Confidential address to sign the message with" true
     ["Adresa Bitcoin confidential pentru semnarea mesajului cu"];
   Message false [Loc None "+7"; Loc None "+213"]
     "Choose previously used address" true
     ["Alegeți adresa utilizată anterior"];
   Message false [Loc None "-203"; Loc None "+213"]
     "Alt+A" true
     ["Alt + A"];
   Message false [Loc None "-203"]
     "Paste address from clipboard" true
     ["Lipire adresă din Clipboard"];
   Message false [Loc None "+10"]
     "Alt+P" true
     ["Alt + P"];
   Message false [Loc None "+12"]
     "Enter the message you want to sign here" true
     ["Introduceți mesajul pe care doriți să îl semnați aici"];
   Message false [Loc None "+7"]
     "Signature" true
     ["Semnătura"];
   Message false [Loc None "+27"]
     "Copy the current signature to the system clipboard" true
     ["Copiați semnătura curentă în Clipboard-ul sistemului"];
   Message false [Loc None "+21"]
     "Sign the message to prove you own this Bitcoin Confidential address" true
     ["Semnați mesajul pentru a dovedi că dețineți această adresă confidențială Bitcoin"];
   Message false [Loc None "+3"]
     "Sign &amp;Message" true
     ["Sign &amp; mesaj"];
   Message false [Loc None "+14"]
     "Reset all sign message fields" true
     ["Reinițializarea tuturor câmpurilor de mesaje de sign"];
   Message false [Loc None "+3"; Loc None "+153"]
     "Clear &amp;All" true
     ["Clar &amp; All"];
   Message false [Loc None "-85"]
     "Enter the receiver&apos;s address, message (ensure you copy line breaks, spaces, tabs, etc. exactly) and signature below to verify the message. Be careful not to read more into the signature than what is in the signed message itself, to avoid being tricked by a man-in-the-middle attack. Note that this only proves the signing party receives with the address, it cannot prove sendership of any transaction!" true
     ["Introduceți adresa destinatarului, mesaj (Asigurați-vă că copiați sfârșituri de linie, spații, File, etc exact) și semnătura de mai jos pentru a verifica mesajul. Aveți grijă să nu citiți mai mult în semnătură decât ceea ce este în mesajul semnat în sine, pentru a evita să fie păcălit de un om-in-the-Middle atac. Rețineți că acest lucru dovedește doar de semnare parte primește cu adresa, nu se poate dovedi sendership de orice tranzacție!"];
   Message false [Loc None "+21"]
     "The Bitcoin Confidential address the message was signed with" true
     ["Adresa Bitcoin confidential mesajul a fost semnat cu"];
   Message false [Loc None "+44"]
     "Verify the message to ensure it was signed with the specified Bitcoin Confidential address" true
     ["Verificați mesajul pentru a vă asigura că a fost semnat cu adresa confidențială Bitcoin specificată"];
   Message false [Loc None "+3"]
     "Verify &amp;Message" true
     ["Verificare &amp; mesaj"];
   Message false [Loc None "+14"]
     "Reset all verify message fields" true
     ["Reinițializați toate câmpurile de mesaj de verificare"];
   Message false [Loc (Some "../signverifymessagedialog.cpp") "+39"]
     "Click &quot;Sign Message&quot; to generate signature" true
     ["Faceți clic pe &quot;sign mesaj&quot; pentru a genera semnătura"];
   Message false [Loc None "+78"; Loc None "+78"]
     "The entered address is invalid." true
     ["Adresa introdusă nu este validă."];
   Message false [Loc None "-78"; Loc None "+7"; Loc None "+71"; Loc None "+6"]
     "Please check the address and try again." true
     ["Vă rugăm să verificați adresa și încercați din nou."];
   Message false [Loc None "-77"; Loc None "+77"]
     "The entered address does not refer to a key." true
     ["Adresa introdusă nu se referă la o tastă."];
   Message false [Loc None "-69"]
     "Wallet unlock was cancelled." true
     ["Deblocarea portofelului a fost anulată."];
   Message false [Loc None "+8"]
     "Private key for the entered address is not available." true
     ["Cheia privată pentru adresa introdusă nu este disponibilă."];
   Message false [Loc None "+12"]
     "Message signing failed." true
     ["Semnarea mesajului nu a reușit."]].

Definition ro_SignVerifyMessageDialog_2 : list message :=
  [Message false [Loc None "+5"]
     "Message signed." true
     ["Mesaj semnat."];
   Message false [Loc None "+55"]
     "The signature could not be decoded." true
     ["Semnătura nu a putut fi decodificată."];
   Message false [Loc None "+0"; Loc None "+13"]
     "Please check the signature and try again." true
     ["Vă rugăm să verificați semnătura și încercați din nou."];
   Message false [Loc None "+0"]
     "The signature did not match the message digest." true
     ["Semnătura nu s-a potrivit cu mesajul Digest."];
   Message false [Loc None "+6"]
     "Message verification failed." true
     ["Verificarea mesajului nu a reușit."];
   Message false [Loc None "+5"]
     "Message verified." true
     ["Mesaj verificat."]].

Definition ro_SplashScreen : list message :=
  [Message false [Loc (Some "../networkstyle.cpp") "+19"]
     "[testnet]" true
     ["TestNet"]].

Definition ro_StakingDialog_1 : list message :=
  [Message false [Loc (Some "../forms/stakingdialog.ui") "+14"]
     "Send Coins" true
     ["Trimite monede"];
   Message false [Loc None "+23"]
     "Status" true
     ["Starea"];
   Message false [Loc None "+19"]
     "Addresses" true
     ["Adrese"];
   Message false [Loc None "+16"]
     "Rewards" true
     ["Recompense"];
   Message false [Loc None "+16"]
     "Convert to Spending" true
     ["Conversie la cheltuieli"];
   Message false [Loc None "+16"]
     "Convert to Staking" true
     ["Convertire în Staking"];
   Message false [Loc None "+16"]
     "Activate ColdStaking" true
     ["Activare ColdStaking"];
   Message false [Loc None "+79"]
     "Total supply" true
     ["Total de aprovizionare"];
   Message false [Loc None "+26"]
     "Current block reward" true
     ["Recompensa blocului curent"];
   Message false [Loc None "+26"]
     "Current block height" true
     ["Înălțimea blocului curent"];
   Message false [Loc None "+20"]
     "Network difficulty" true
     ["Dificultate în rețea"];
   Message false [Loc None "+26"]
     "Annual staking reward" true
     ["Recompensa anuală de Staking"];
   Message false [Loc None "+13"]
     "Current staking reward" true
     ["Recompensa curentă de Staking"];
   Message false [Loc None "+26"]
     "Network staking weight" true
     ["Greutate de Staking de rețea"];
   Message false [Loc None "+20"]
     "Your estimated annual reward" true
     ["Recompensa anuală estimată"];
   Message false [Loc None "+13"]
     "?" true
     ["?"];
   Message false [Loc None "+80"]
     "Staking" true
     ["Staking"];
   Message false [Loc None "+24"; Loc None "+233"]
     "ENABLED" true
     ["Activat"];
   Message false [Loc None "-210"]
     "Pause" true
     ["Pauză"];
   Message false [Loc None "+50"; Loc None "+425"]
     "Estimated reward frequency" true
     ["Frecvența estimată a recompensei"];
   Message false [Loc None "-412"]
     "Stakable Funds" true
     ["Fonduri stakable"];
   Message false [Loc None "+20"]
     "Wallet staking weight" true
     ["Portofel greutate Staking"];
   Message false [Loc None "+103"]
     "Cold Staking" true
     ["Rece Staking"];
   Message false [Loc None "+55"]
     "Remote Stake address" true
     ["Adresa de miză la distanță"];
   Message false [Loc None "+13"]
     "Automated ColdStaking activation" true
     ["Activare automată ColdStaking"];
   Message false [Loc None "+25"]
     "Enable " true
     ["Activa"];
   Message false [Loc None "+57"]
     "Enable Hot Staking with the STAKING ENABLE button and leaving wallet open.  Enable automated ColdStake with COLDSTAKING ENABLE button and setting a remote stake address. On remote node enable staking with &quot;bitcoinc-cli walletsettings stakingstatus true&quot; and create a &quot;Stake&quot; address on your remote node with &quot;bitcoinc-cli getnewstakeaddress&quot;, or get a &quot;Stake&quot; address from a ColdStaking pool. Funds gradually transition over from hot staking to cold staking while your wallet is open. The time required for the activation depends on the wallet&apos;s staking weight and can take several days with a low weight. Once the activation bar shows complete, wallet can be closed.  Alternatively, use the Activate Coldstaking tab to send an activation transaction.  This will take longer to start staking but wallet does not need to be online." true
     ["Enable fierbinte Staking cu STAKING ENABLE nasture și plecare portofel deschidere.  Activează ColdStake automat cu butonul COLDSTAKING ENABLE și stabilește o adresă de miză la distanță. On remote nod Enable Staking cu &quot;bitcoinc-CLI walletsettings stakingstatus adevărat&quot; și a crea un &quot;stake&quot; adresă on al tău Remote nod cu &quot;bitcoinc-CLI getnewpândă&quot;, sau a lua un &quot;miza&quot; adresă de la un ColdStaking piscină. Fondurile de tranziție treptat de la cald Staking la rece Staking în timp ce portofelul este deschis. Timpul necesar pentru activare depinde de greutatea de Staking a portofelului și poate dura mai multe zile cu o greutate redusă. Odată ce bara de activare arată complet, portofelul poate fi închis.  Alternativ, utilizați fila activare Coldstaking pentru a trimite o tranzacție de activare.  Acest lucru va dura mai mult pentru a începe Staking, dar portofelul nu trebuie să fie online."];
   Message false [Loc None "+20"]
     "ColdStake activation progress" true
     ["Progres activare ColdStake"];
   Message false [Loc None "+77"]
     "Amount activated for ColdStaking" true
     ["Suma activata pentru ColdStaking"]].

Definition ro_StakingDialog_2 : list message :=
  [Message false [Loc None "+13"]
     "Estimated weight" true
     ["Greutate estimată"];
   Message false [Loc None "+106"]
     "Filtered" true
     ["Filtrate"];
   Message false [Loc None "+15"; Loc None "+88"]
     "Staking rewards" true
     ["Recompense de Staking"];
   Message false [Loc None "-75"; Loc None "+48"]
     "Solved blocks" true
     ["Blocuri rezolvate"];
   Message false [Loc None "-41"; Loc None "+55"]
     "4000" true
     ["4000"];
   Message false [Loc None "-48"; Loc None "+41"]
     "100000BC" true
     ["100000Î.Hr."];
   Message false [Loc None "-22"]
     "Total" true
     ["Total"];
   Message false [Loc (Some "../stakingdialog.cpp") "+258"; Loc None "+17"]
     "No stakable funds available. Use the &quot;Convert to staking&quot; tab to convert funds for staking." true
     ["Nu există fonduri stakable disponibile. Utilizați tab-ul &quot;Convert to Staking&quot; pentru a converti fonduri pentru Staking."];
   Message false [Loc None "-15"; Loc None "+18"]
     "No eligible staking outputs available. Staking funds need to have 225 confirmations to be eligible." true
     ["Nu există ieșiri eligibile de Staking disponibile. Fondurile de Staking trebuie să aibă 225 confirmări pentru a fi eligibile."];
   Message false [Loc None "-9"]
     "Staking not initialized yet. Wait a moment." true
     ["Nu e încă inițializată. Stai o clipă."];
   Message false [Loc None "+3"]
     "Staking is stopped. Press the start button above to enable staking." true
     ["Staking este oprit. Apăsați butonul de pornire de mai sus pentru a activa Staking."];
   Message false [Loc None "+10"]
     "Wallet is locked. To start staking unlock the wallet for staking only. To unlock click the lock icon in the bottom right hand portion of the window." true
     ["Portofelul e încuiat. Pentru a începe Staking debloca portofelul pentru Staking numai. Pentru a debloca faceți clic pe pictograma de blocare în partea din dreapta jos a ferestrei."];
   Message false [Loc None "+4"]
     "Wallet is not fully synced. To start staking make sure the wallet has connections to the network and wait until it catched up with the latest blocks." true
     ["Portofelul nu este complet sincronizat. Pentru a începe Staking asigurați-vă că portofelul are conexiuni la rețea și așteptați până când acesta prins cu cele mai recente blocuri."];
   Message false [Loc None "+3"]
     "Staking is disabled. Set the config paramter &quot;staking=1&quot; in the bitcoinc.conf to enable it." true
     ["Staking este dezactivat. Setați parametrul config &quot;Staking = 1&quot; în bitcoinc. conf pentru a permite aceasta."];
   Message false [Loc None "+72"]
     "No eligible coldstaking outputs available. Your coldstaking funds need to have 225 confirmations to be eligible." true
     ["Nu sunt disponibile ieșiri de coldstaking eligibile. Fondurile de coldstaking trebuie să aibă 225 confirmări pentru a fi eligibile."];
   Message false [Loc None "+160"]
     "Set Remote Staking Address" true
     ["Setare adresă de Staking la distanță"];
   Message false [Loc None "+1"]
     "Enter the remote staking address:" true
     ["Introduceți adresa de Staking la distanță:"]].

Definition ro_TrafficGraphWidget : list message :=
  [Message false [Loc (Some "../trafficgraphwidget.cpp") "+81"]
     "KB/s" true
     ["KB/s"]].

Definition ro_TransactionDesc_1 : list message :=
  [Message true [Loc (Some "../transactiondesc.cpp") "+39"]
     "Open for %n more block(s)" true
     ["Deschidere pentru% n mai mult bloc (e)"; "Deschidere pentru% n mai mult bloc (e)"; "Deschidere pentru% n mai mult bloc (e)"];
   Message false [Loc None "+2"]
     "Open until %1" true
     ["Deschidere până la% 1"];
   Message false [Loc None "+6"]
     "conflicted with a transaction with %1 confirmations" true
     ["în conflict cu o tranzacție cu% 1 confirmări"];
   Message false [Loc None "+2"]
     "0/unconfirmed, %1" true
     ["0/neconfirmate,% 1"];
   Message false [Loc None "+0"]
     "in memory pool" true
     ["în memorie Pool"];
   Message false [Loc None "+0"]
     "not in memory pool" true
     ["Nu în memorie piscină"];
   Message false [Loc None "+0"]
     "abandoned" true
     ["Abandonat"];
   Message false [Loc None "+2"]
     "%1/unconfirmed" true
     ["% 1/neconfirmate"];
   Message false [Loc None "+2"]
     "%1 confirmations" true
     ["% 1 confirmări"];
   Message false [Loc None "+29"]
     "Status" true
     ["Starea"];
   Message false [Loc None "+3"]
     "Date" true
     ["Data"];
   Message false [Loc None "+4"; Loc None "+223"]
     "Transaction ID" true
     ["ID tranzacție"];
   Message false [Loc None "-210"; Loc None "+211"]
     "Transaction total size" true
     ["Dimensiunea totală a tranzacției"];
   Message false [Loc None "-209"]
     "Confirmations" true
     ["Confirmări"];
   Message false [Loc None "+4"]
     "Block hash" true
     ["Blocare hash"];
   Message false [Loc None "+1"]
     "Block index" true
     ["Index bloc"];
   Message false [Loc None "+1"]
     "Block time" true
     ["Timp de blocare"];
   Message false [Loc None "+21"]
     "Source" true
     ["Sursă"];
   Message false [Loc None "+0"]
     "Generated" true
     ["Generate"];
   Message false [Loc None "+5"; Loc None "+14"; Loc None "+72"]
     "From" true
     ["Din"];
   Message false [Loc None "-72"]
     "unknown" true
     ["Necunoscut"];
   Message false [Loc None "+1"; Loc None "+20"; Loc None "+72"]
     "To" true
     ["Să"];
   Message false [Loc None "-90"]
     "own address" true
     ["Adresa proprie"];
   Message false [Loc None "+0"; Loc None "+69"]
     "watch-only" true
     ["Doar ceas"];
   Message false [Loc None "-67"]
     "label" true
     ["Eticheta"];
   Message false [Loc None "+36"; Loc None "+12"; Loc None "+58"; Loc None "+37"; Loc None "+66"]
     "Credit" true
     ["Credit"];
   Message true [Loc None "-171"]
     "matures in %n more block(s)" true
     ["se maturizează în% n mai mult bloc (e)"; "se maturizează în% n mai mult bloc (e)"; "se maturizează în% n mai mult bloc (e)"]].

Definition ro_TransactionDesc_2 : list message :=
  [Message false [Loc None "+2"]
     "not accepted" true
     ["Nu sunt acceptate"];
   Message false [Loc None "+64"; Loc None "+26"; Loc None "+71"]
     "Debit" true
     ["Bankcard"];
   Message false [Loc None "-87"]
     "Total debit" true
     ["Debit total"];
   Message false [Loc None "+1"]
     "Total credit" true
     ["Credit total"];
   Message false [Loc None "+5"]
     "Transaction fee" true
     ["Comision de tranzacție"];
   Message false [Loc None "+27"]
     "Net amount" true
     ["Suma netă"];
   Message false [Loc None "+6"; Loc None "+12"]
     "Message" true
     ["Mesaj"];
   Message false [Loc None "-10"]
     "Comment" true
     ["Comentariu"];
   Message false [Loc None "+4"]
     "Transaction virtual size" true
     ["Dimensiune virtuală tranzacție"];
   Message false [Loc None "+1"]
     "Output index" true
     ["Indicele de ieșire"];
   Message false [Loc None "+10"]
     "Narration" true
     ["Naraţiune"];
   Message false [Loc None "+13"]
     "Merchant" true
     ["Comerciant"];
   Message false [Loc None "+7"]
     "Generated coins must mature %1 blocks before they can be spent. When you generated this block, it was broadcast to the network to be added to the block chain. If it fails to get into the chain, its state will change to &quot;not accepted&quot; and it won&apos;t be spendable. This may occasionally happen if another node generates a block within a few seconds of yours." true
     ["Monedele generate trebuie să se maturizeze% 1 blocuri înainte de a putea fi cheltuite. Când ați generat acest bloc, acesta a fost difuzat la rețea pentru a fi adăugate la lanțul de bloc. În cazul în care nu reușește să intre în lanț, starea sa se va schimba la &quot;nu este acceptată&quot; și nu va fi cheltuibil. Acest lucru se poate întâmpla ocazional dacă un alt nod generează un bloc în câteva secunde de-al tău."];
   Message false [Loc None "+8"]
     "Debug information" true
     ["Informații de depanare"];
   Message false [Loc None "+13"]
     "Transaction" true
     ["Tranzacţie"];
   Message false [Loc None "+3"]
     "Inputs" true
     ["Intrări"];
   Message false [Loc None "+21"]
     "Amount" true
     ["Suma"];
   Message false [Loc None "+1"; Loc None "+1"]
     "true" true
     ["Adevărat"];
   Message false [Loc None "-1"; Loc None "+1"]
     "false" true
     ["False"]].

Definition ro_TransactionDescDialog : list message :=
  [Message false [Loc (Some "../forms/transactiondescdialog.ui") "+26"]
     "This pane shows a detailed description of the transaction" true
     ["Acest panou afișează o descriere detaliată a tranzacției"];
   Message false [Loc (Some "../transactiondescdialog.cpp") "+17"]
     "Details for %1" true
     ["Detalii pentru% 1"]].

Definition ro_TransactionTableModel_1 : list message :=
  [Message false [Loc (Some "../transactiontablemodel.cpp") "+257"]
     "Date" true
     ["Data"];
   Message false [Loc None "+2"]
     "Type" true
     ["Tip"];
   Message false [Loc None "+2"]
     "Label" true
     ["Eticheta"];
   Message false [Loc None "+3"]
     "In" true
     ["In"];
   Message false [Loc None "+0"]
     "Out" true
     ["Out"];
   Message true [Loc None "+73"]
     "Open for %n more block(s)" true
     ["Deschidere pentru% n mai mult bloc (e)"; "Deschidere pentru% n mai mult bloc (e)"; "Deschidere pentru% n mai mult bloc (e)"];
   Message false [Loc None "+3"]
     "Open until %1" true
     ["Deschidere până la% 1"];
   Message false [Loc None "+3"]
     "Unconfirmed" true
     ["Neconfirmate"];
   Message false [Loc None "+4"]
     "Orphaned" true
     ["Orfani"];
   Message false [Loc None "+2"]
     "Abandoned" true
     ["Abandonat"];
   Message false [Loc None "+22"]
     "Confirming (%1 of %2 recommended confirmations)" true
     ["Confirmare (% 1 din% 2 confirmări recomandate)"];
   Message false [Loc None "+3"]
     "Confirmed (%1 confirmations)" true
     ["Confirmat (% 1 confirmări)"];
   Message false [Loc None "+3"]
     "Conflicted" true
     ["Conflict"];
   Message false [Loc None "+3"]
     "Immature (%1 confirmations, will be available after %2)" true
     ["Imature (% 1 confirmări, vor fi disponibile după% 2)"];
   Message false [Loc None "+3"]
     "Generated but not accepted" true
     ["Generat dar neacceptat"];
   Message false [Loc None "+39"]
     "Received with" true
     ["Primit cu"];
   Message false [Loc None "+2"]
     "Received from" true
     ["Primit de la"];
   Message false [Loc None "+3"]
     "Sent to" true
     ["Trimis la"];
   Message false [Loc None "+2"]
     "Payment to yourself" true
     ["Plata pentru tine"];
   Message false [Loc None "+2"]
     "Airdrop" true
     ["Airdrop"];
   Message false [Loc None "+2"]
     "Staked" true
     ["Miza"];
   Message false [Loc None "+30"]
     "watch-only" true
     ["Doar ceas"];
   Message false [Loc None "+16"]
     "(n/a)" true
     ["(n/a)"];
   Message false [Loc None "+168"]
     "Unlock to show" true
     ["Deblocare pentru a afișa"];
   Message false [Loc None "+111"]
     "(no label)" true
     ["(fără etichetă)"];
   Message false [Loc None "+42"; Loc None "+14"]
     "Transaction status. Hover over this field to show number of confirmations." true
     ["Starea tranzacției. Treceți cu mouse-ul peste acest câmp pentru a afișa numărul de confirmări."];
   Message false [Loc None "-12"]
     "Date and time that the reward was received." true
     ["Data și ora la care s-a primit recompensa."];
   Message false [Loc None "+2"; Loc None "+16"]
     "Whether or not a watch-only address is involved in this transaction." true
     ["Dacă este sau nu o adresă doar de ceas este implicată în această tranzacție."];
   Message false [Loc None "-14"]
     "Address used for the block solving" true
     ["Adresa utilizată pentru rezolvarea blocului"]].

Definition ro_TransactionTableModel_2 : list message :=
  [Message false [Loc None "+2"]
     "Staking reward." true
     ["O recompensă înstăită."];
   Message false [Loc None "+8"]
     "Date and time that the transaction was received." true
     ["Data și ora la care s-a primit tranzacția."];
   Message false [Loc None "+2"]
     "Type of transaction." true
     ["Tipul tranzacției."];
   Message false [Loc None "+4"]
     "User-defined intent/purpose of the transaction." true
     ["Intenție definită de utilizator/scopul tranzacției."];
   Message false [Loc None "+2"]
     "Type of input coin." true
     ["Tip de monedă de intrare."];
   Message false [Loc None "+2"]
     "Type of output coin." true
     ["Tip de monedă de ieșire."];
   Message false [Loc None "+2"]
     "Amount removed from or added to balance." true
     ["Suma eliminată sau adăugată la sold."]].

Definition ro_TransactionView_1 : list message :=
  [Message false [Loc (Some "../transactionview.cpp") "+53"; Loc None "+11"; Loc None "+18"]
     "All" true
     ["Toate"];
   Message false [Loc None "-17"]
     "Today" true
     ["Astăzi"];
   Message false [Loc None "+1"]
     "This week" true
     ["În această săptămână"];
   Message false [Loc None "+1"]
     "This month" true
     ["Luna aceasta"];
   Message false [Loc None "+1"]
     "Last month" true
     ["Luna trecuta"];
   Message false [Loc None "+1"]
     "This year" true
     ["Anul acesta"];
   Message false [Loc None "+1"]
     "Range..." true
     ["Gama..."];
   Message false [Loc None "+13"]
     "Received with" true
     ["Primit cu"];
   Message false [Loc None "+2"]
     "Sent to" true
     ["Trimis la"];
   Message false [Loc None "+2"]
     "To yourself" true
     ["Pentru tine însuți"];
   Message false [Loc None "+1"]
     "Other" true
     ["Alte"];
   Message false [Loc None "+1"]
     "Airdrop" true
     ["Airdrop"];
   Message false [Loc None "+5"]
     "Enter address, transaction id, or label to search" true
     ["Introduceți adresa, ID-ul tranzacției sau eticheta pentru a căuta"];
   Message false [Loc None "+5"]
     "Min amount" true
     ["Cantitate minimă"];
   Message false [Loc None "+52"]
     "Abandon transaction" true
     ["Abandonați tranzacția"];
   Message false [Loc None "+1"]
     "Increase transaction fee" true
     ["Creșterea taxei de tranzacție"];
   Message false [Loc None "+2"]
     "Copy address" true
     ["Copiere adresă"];
   Message false [Loc None "+1"]
     "Copy label" true
     ["Copiere etichetă"];
   Message false [Loc None "+1"]
     "Copy amount" true
     ["Copiere sumă"];
   Message false [Loc None "+1"]
     "Copy transaction ID" true
     ["Copiere ID tranzacție"];
   Message false [Loc None "+1"]
     "Copy raw transaction" true
     ["Copiere tranzacție brută"];
   Message false [Loc None "+1"]
     "Copy full transaction details" true
     ["Copiați detaliile tranzacției complete"];
   Message false [Loc None "+1"]
     "Edit label" true
     ["Editare etichetă"];
   Message false [Loc None "+1"]
     "Show transaction details" true
     ["Afișare detalii tranzacție"];
   Message false [Loc None "+239"]
     "Export Transaction History" true
     ["Export istoric tranzacții"];
   Message false [Loc None "+1"]
     "Comma separated file (*.csv)" true
     ["Fișier separat prin virgulă (*. csv)"];
   Message false [Loc None "+9"]
     "Confirmed" true
     ["Confirmat"];
   Message false [Loc None "+2"]
     "Watch-only" true
     ["Numai pentru vizionare"];
   Message false [Loc None "+1"]
     "Date" true
     ["Data"]].

Definition ro_TransactionView_2 : list message :=
  [Message false [Loc None "+2"]
     "Type" true
     ["Tip"];
   Message false [Loc None "+2"]
     "Label" true
     ["Eticheta"];
   Message false [Loc None "+1"]
     "Address" true
     ["Adresa"];
   Message false [Loc None "+2"]
     "ID" true
     ["Id"];
   Message false [Loc None "+3"]
     "Exporting Failed" true
     ["Exportul nu a reușit"];
   Message false [Loc None "+0"]
     "There was an error trying to save the transaction history to %1." true
     ["Eroare la încercarea de salvare a istoricului tranzacțiilor la% 1."];
   Message false [Loc None "+4"]
     "Exporting Successful" true
     ["Exportul de succes"];
   Message false [Loc None "+0"]
     "The transaction history was successfully saved to %1." true
     ["Istoricul tranzacției a fost salvat cu succes în% 1."];
   Message false [Loc None "+169"]
     "Range:" true
     ["Gama:"];
   Message false [Loc None "+8"]
     "to" true
     ["să"]].

Definition ro_TxViewDelegate : list message :=
  [Message false [Loc (Some "../overviewpage.cpp") "+95"]
     "Unlock to show" true
     ["Deblocare pentru a afișa"]].

Definition ro_UnitDisplayStatusBarControl : list message :=
  [Message false [Loc (Some "../bitcoingui.cpp") "+122"]
     "Unit to show amounts in. Click to select another unit." true
     ["Unitate pentru a afișa sumele în. Faceți clic pentru a selecta o altă unitate."]].

Definition ro_WalletFrame : list message :=
  [Message false [Loc (Some "../walletframe.cpp") "+29"]
     "No wallet has been loaded." true
     ["Niciun portofel nu a fost încărcat."]].

Definition ro_WalletModel : list message :=
  [Message false [Loc (Some "../walletmodel.cpp") "+592"; Loc None "+4"; Loc None "+11"]
     "Wallet Model" true
     ["Model portofel"];
   Message false [Loc None "+65"; Loc None "+39"; Loc None "+6"]
     "Fee bump error" true
     ["Taxă Bump eroare"];
   Message false [Loc None "-45"]
     "Increasing transaction fee failed" true
     ["Creșterea taxei de tranzacție nu a reușit"];
   Message false [Loc None "+6"]
     "Do you want to increase the fee?" true
     ["Vrei să mărească taxa?"];
   Message false [Loc None "+4"]
     "Current fee:" true
     ["Taxa curenta:"];
   Message false [Loc None "+4"]
     "Increase:" true
     ["Creşte:"];
   Message false [Loc None "+4"]
     "New fee:" true
     ["Noua taxa:"];
   Message false [Loc None "+4"]
     "Confirm fee bump" true
     ["Confirmă ciocnire taxă"];
   Message false [Loc None "+17"]
     "Can&apos;t sign transaction." true
     ["Nu pot semna tranzacția."];
   Message false [Loc None "+6"]
     "Could not commit transaction" true
     ["Imposibil de comis tranzacția"]].

Definition ro_WalletView : list message :=
  [Message false [Loc (Some "../walletview.cpp") "+46"; Loc None "+1"]
     "&amp;Export" true
     ["Și export"];
   Message false [Loc None "+9"; Loc None "+29"]
     "Export the data in the current tab to a file" true
     ["Exportul datelor din fila curentă într-un fișier"];
   Message false [Loc None "-19"]
     "Selected amount" true
     ["Suma selectată"];
   Message false [Loc None "+290"]
     "Backup Wallet" true
     ["Portofel de rezervă"];
   Message false [Loc None "+1"]
     "Wallet Data (*.dat)" true
     ["Date portofel (*. dat)"];
   Message false [Loc None "+6"]
     "Backup Failed" true
     ["Copiere de rezervă nereușită"];
   Message false [Loc None "+0"]
     "There was an error trying to save the wallet data to %1." true
     ["Eroare la încercarea de salvare a datelor din portofel la% 1."];
   Message false [Loc None "+4"]
     "Backup Successful" true
     ["Backup de succes"];
   Message false [Loc None "+0"]
     "The wallet data was successfully saved to %1." true
     ["Datele din portofel au fost salvate cu succes în% 1."];
   Message false [Loc None "+63"]
     "Cancel" true
     ["Anula"]].

Definition ro_bitcoin_core_1 : list message :=
  [Message false [Loc (Some "../bitcoinstrings.cpp") "+12"]
     "Bitcoin Confidential Core" true
     ["Bitcoin confidential Core"];
   Message false [Loc None "+1"]
     "The %s developers" true
     ["Dezvoltatorii% s"];
   Message false [Loc None "+1"]
     " is spendable from this wallet." true
     ["este cheltuibil din acest portofel."];
   Message false [Loc None "+1"]
     "-maxtxfee is set very high! Fees this large could be paid on a single transaction." true
     ["-maxtxfee este setat foarte mare! Taxele de acest mare ar putea fi plătită pe o singură tranzacție."];
   Message false [Loc None "+3"]
     "Can&apos;t generate a change-address key. Private keys are disabled for this wallet." true
     ["Imposibil de generat o cheie de schimbare a adresei. Cheile private sunt dezactivate pentru acest portofel."];
   Message false [Loc None "+3"]
     "Cannot obtain a lock on data directory %s. %s is probably already running." true
     ["Imposibil de obținut o blocare pe directorul de date% s.% s este probabil deja în execuție."];
   Message false [Loc None "+2"]
     "Cannot provide specific connections and have addrman find outgoing connections at the same." true
     ["Nu poate oferi conexiuni specifice și au addrman găsi conexiuni de ieșire în același."];
   Message false [Loc None "+3"]
     "Cannot upgrade a non HD split wallet without upgrading to support pre split keypool. Please use -upgradewallet=169900 or -upgradewallet with no version specified." true
     ["Imposibil de upgrade un portofel non HD Split fără upgrade-ul pentru a sprijini pre Split keypool. Vă rugăm să folosiți-upgradewallet = 169900 sau-upgradewallet cu nici o versiune specificată."];
   Message false [Loc None "+4"]
     "Distributed under the MIT software license, see the accompanying file %s or %s" true
     ["Distribuit sub licența de software MIT, consultați fișierul de însoțire% s sau% s"];
   Message false [Loc None "+3"]
     "Error loading %s: You can&apos;t enable HD on an already existing non-HD wallet" true
     ["Eroare la încărcarea% s: nu puteți activa HD pe un portofel non-HD deja existent"];
   Message false [Loc None "+2"]
     "Error reading %s! All keys read correctly, but transaction data or address book entries might be missing or incorrect." true
     ["Eroare la citirea% s! Toate tastele citite corect, dar datele tranzacției sau intrările de agendă ar putea fi lipsă sau incorecte."];
   Message false [Loc None "+3"]
     "Error: Listening for incoming connections failed (listen returned error %s)" true
     ["Eroare: ascultarea conexiunilor de intrare nu a reușit (ascultați eroarea returnată% s)"];
   Message false [Loc None "+2"]
     "Fee estimation failed. Fallbackfee is disabled. Wait a few blocks or enable -fallbackfee." true
     ["Estimarea taxei nu a reușit. Fallbackfee este dezactivat. Așteptați câteva blocuri sau activați-fallbackfee."];
   Message false [Loc None "+3"]
     "Generate a random master key and main account if no master key exists. (default: %s)" true
     ["Generați o cheie de Master aleatoare și un cont principal dacă nu există cheie principală. (implicit:% s)"];
   Message false [Loc None "+3"]
     "Group outputs by address, selecting all or none, instead of selecting on a per-output basis. Privacy is improved as an address is only used once (unless someone sends to it after spending from it), but may result in slightly higher fees as suboptimal coin selection may result due to the added limitation (default: %u)" true
     ["Grupați ieșirile după adresă, selectând toate sau niciuna, în loc să selectați pe o bază per-output. Confidențialitatea este îmbunătățită, deoarece o adresă este utilizată doar o singură dată (cu excepția cazului în care cineva îi trimite după ce a cheltuit din acesta), dar poate duce la comisioane ușor mai mari, deoarece selecția de monede sub nivelul optim poate rezulta din cauza limitării adăugate (implicit:% u)"];
   Message false [Loc None "+6"]
     "Invalid amount for -maxtxfee=&lt;amount&gt;: &apos;%s&apos; (must be at least the minrelay fee of %s to prevent stuck transactions)" true
     ["Sumă nevalidă pentru-maxtxfee =&lt;amount&gt;: &apos;% s &apos; (trebuie să fie cel puțin taxa minrelay de% s pentru a preveni tranzacțiile blocate)&lt;/amount&gt;"];
   Message false [Loc None "+3"]
     "Milliseconds between stake attempts. Lowering this param will not result in more stakes. (default: 500)" true
     ["Milisecunde între încercările de miză. Coborârea acestei Param nu va duce la mai multe mize. (implicit: 500)"];
   Message false [Loc None "+3"]
     "Not enough spending outputs available in the blockchain for privacy mixing. There are currently %d. For this transaction required: %d" true
     ["Nu sunt suficiente ieșiri de cheltuieli disponibile în Blockchain pentru amestecarea vieții private. Există în prezent% d. Pentru această tranzacție necesară:% d"];
   Message false [Loc None "+3"]
     "Number of threads to start for staking, max 1 per active wallet, will divide wallets evenly between threads (default: 1)" true
     ["Numărul de fire pentru a începe pentru Staking, Max 1 per portofel activ, va împărți portofele uniform între fire (implicit: 1)"];
   Message false [Loc None "+3"]
     "On saving a key from the lookahead pool, save all unsaved keys leading up to it too. (default: %s)" true
     ["La salvarea o cheie de la piscina LookAhead, Salvați toate cheile nesalvate care au dus la ea prea. (implicit:% s)"];
   Message false [Loc None "+3"]
     "Please check that your computer&apos;s date and time are correct! If your clock is wrong, %s will not work properly." true
     ["Vă rugăm să verificați dacă data și ora computerului sunt corecte! Dacă ceasul este greșit,% s nu va funcționa corect."];
   Message false [Loc None "+3"]
     "Please contribute if you find %s useful. Visit %s for further information about the software." true
     ["Vă rugăm să contribuiți Dacă găsiți% s util. Vizitați% s pentru informații suplimentare despre software."];
   Message false [Loc None "+3"]
     "Prune configured below the minimum of %d MiB.  Please use a higher number." true
     ["Prune configurat sub minim de% d MiB.  Vă rugăm să folosiți un număr mai mare."];
   Message false [Loc None "+2"]
     "Prune: last wallet synchronisation goes beyond pruned data. You need to -reindex (download the whole blockchain again in case of pruned node)" true
     ["Prune: Ultima sincronizare portofel merge dincolo de date curăţite. Ai nevoie de-reindex (descărca întregul Blockchain din nou, în cazul de nod curăţite)"];
   Message false [Loc None "+3"]
     "Rescans are not possible in pruned mode. You will need to use -reindex which will download the whole blockchain again." true
     ["Rescans nu sunt posibile în modul curăţite. Va trebui să utilizați-reindex care va descărca întregul Blockchain din nou."];
   Message false [Loc None "+3"]
     "The block database contains a block which appears to be from the future. This may be due to your computer&apos;s date and time being set incorrectly. Only rebuild the block database if you are sure that your computer&apos;s date and time are correct" true
     ["Baza de date bloc conține un bloc care pare a fi din viitor. Acest lucru se poate datora datei și orei computerului setat incorect. Reconstrui numai baza acoperire de date bloc dacă sunteți sigur că data și ora computerului sunt corecte"];
   Message false [Loc None "+5"]
     "The transaction amount is too small to send after the fee has been deducted" true
     ["Suma tranzacției este prea mică pentru a fi trimisă după deducerea taxei"];
   Message false [Loc None "+2"]
     "This is a pre-release test build - use at your own risk - do not use for mining or merchant applications" true
     ["Aceasta este o pre-release test construi-utilizarea pe propriul risc-nu utilizați pentru minerit sau aplicații comerciant"];
   Message false [Loc None "+3"]
     "This is the transaction fee you may discard if change is smaller than dust at this level" true
     ["Aceasta este taxa de tranzacție pe care o puteți renunța dacă schimbarea este mai mică decât praful de la acest nivel"]].

Definition ro_bitcoin_core_2 : list message :=
  [Message false [Loc None "+3"]
     "This is the transaction fee you may pay when fee estimates are not available." true
     ["Aceasta este taxa de tranzacție pe care o puteți plăti atunci când estimările taxelor nu sunt disponibile."];
   Message false [Loc None "+2"]
     "This product includes software developed by the OpenSSL Project for use in the OpenSSL Toolkit %s and cryptographic software written by Eric Young and UPnP software written by Thomas Bernard." true
     ["Acest produs include software-ul dezvoltat de OpenSSL Project pentru utilizare în OpenSSL Toolkit% s și software-ul criptografic scris de Eric Young și software-ul UPnP scris de Thomas Bernard."];
   Message false [Loc None "+4"]
     "Total length of network version string (%i) exceeds maximum length (%i). Reduce the number or size of uacomments." true
     ["Lungimea totală a șirului de versiune de rețea (% i) depășește lungimea maximă (% i). Reduceți numărul sau dimensiunea de uacomments."];
   Message false [Loc None "+3"]
     "Unable to replay blocks. You will need to rebuild the database using -reindex-chainstate." true
     ["Imposibilitatea de a reda blocuri. Va trebui să reconstruiți baza de date folosind-reindex-chainstate."];
   Message false [Loc None "+3"]
     "Unable to rewind the database to a pre-fork state. You will need to redownload the blockchain" true
     ["Imposibil de derulare înapoi a bazei de date într-o stare pre-furculiță. Va trebui să Redescărcați Blockchain"];
   Message false [Loc None "+3"]
     "Unsupported argument -socks found. Setting SOCKS version isn&apos;t possible anymore, only SOCKS5 proxies are supported." true
     ["Argument neacceptat-șosete găsit. Setarea SOCKS versiune nu mai este posibil, doar SOCKS5 proxy-uri sunt suportate."];
   Message false [Loc None "+3"]
     "Unsupported argument -whitelistalwaysrelay ignored, use -whitelistrelay and/or -whitelistforcerelay." true
     ["Argumentul neacceptat-whitelistalwaysrelay ignorat, utilizați-whitelistrelay și/sau-whitelistforcerelay."];
   Message false [Loc None "+3"]
     "Warning: Private keys detected in wallet {%s} with disabled private keys" true
     ["Avertisment: cheile private detectate în portofel {% s} cu taste private dezactivate"];
   Message false [Loc None "+2"]
     "Warning: The network does not appear to fully agree! Some miners appear to be experiencing issues." true
     ["Avertisment: rețeaua nu pare să fie complet de acord! Unii mineri par să se confruntă cu probleme."];
   Message false [Loc None "+3"]
     "Warning: Unknown block versions being mined! It&apos;s possible unknown rules are in effect" true
     ["Avertisment: versiuni de bloc necunoscute fiind minate! E posibil ca regulile necunoscute să fie în vigoare."];
   Message false [Loc None "+3"]
     "Warning: Wallet file corrupt, data salvaged! Original %s saved as %s in %s; if your balance or transactions are incorrect you should restore from a backup." true
     ["Avertisment: portofel fișier corupt, date salvate! Original% s salvat ca% s în% s; Dacă soldul sau tranzacțiile sunt incorecte, ar trebui să restaurați dintr-o copie de rezervă."];
   Message false [Loc None "+4"]
     "Warning: We do not appear to fully agree with our peers! You may need to upgrade, or other nodes may need to upgrade." true
     ["Avertisment: noi nu par să fie pe deplin de acord cu colegii noștri! Poate fi necesar să faceți upgrade sau alte noduri pot fi necesare pentru a face upgrade."];
   Message false [Loc None "+3"]
     "You need to rebuild the database using -reindex to change -timestampindex" true
     ["Ai nevoie pentru a reconstrui baza de date folosind-reindex pentru a schimba-timestampindex"];
   Message false [Loc None "+2"]
     "You need to rebuild the database using -reindex to go back to unpruned mode.  This will redownload the entire blockchain" true
     ["Ai nevoie pentru a reconstrui baza de date folosind-reindex pentru a reveni la modul necurăţaţi.  Acest lucru va redescărca întregul Blockchain"];
   Message false [Loc None "+3"]
     "%d of last 100 blocks have unexpected version" true
     ["% d din ultimele 100 de blocuri au o versiune neașteptată"];
   Message false [Loc None "+1"]
     "%s corrupt, salvage failed" true
     ["% s corupt, salvare eșuată"];
   Message false [Loc None "+1"]
     "%s is set very high!" true
     ["% s este setat foarte mare!"];
   Message false [Loc None "+1"]
     "-maxmempool must be at least %d MB" true
     ["-maxmempool trebuie să fie de cel puțin% d MB"];
   Message false [Loc None "+1"]
     "Account chain not found" true
     ["Lanț de cont nu a fost găsit"];
   Message false [Loc None "+1"]
     "Address &apos;%s&apos; is not in the address book." true
     ["Adresa &apos;% s &apos; nu se află în agendă."];
   Message false [Loc None "+1"]
     "Address &apos;%s&apos; is recorded in the address book." true
     ["Adresa &apos;% s &apos; este înregistrată în agendă."];
   Message false [Loc None "+1"]
     "Anon output not found in db, %d" true
     ["Ieșirea Anon nu a fost găsită în dB,% d"];
   Message false [Loc None "+1"]
     "Anon pubkey not found in db, %s" true
     ["Anon pubkey nu a fost găsit în dB,% s"];
   Message false [Loc None "+1"]
     "Cannot downgrade wallet" true
     ["Imposibil de retrogradat portofelul"];
   Message false [Loc None "+1"]
     "Cannot resolve -%s address: &apos;%s&apos;" true
     ["Imposibil de rezolvat-% s adresa: &apos;% s &apos;"];
   Message false [Loc None "+1"]
     "Cannot write to data directory &apos;%s&apos;; check permissions." true
     ["Imposibil de scris în directorul de date &apos;% s &apos;; verifica permisiunile."];
   Message false [Loc None "+1"]
     "Change index out of range" true
     ["Modificarea indicelui în afara intervalului"];
   Message false [Loc None "+1"]
     "Confidential chain set but not found" true
     ["Set de lanț confidențial, dar nu a fost găsit"];
   Message false [Loc None "+1"]
     "Copyright (C)" true
     ["Drepturi de autor (C)"];
   Message false [Loc None "+1"]
     "Corrupted block database detected" true
     ["Bază de date bloc deteriorată detectată"]].

Definition ro_bitcoin_core_3 : list message :=
  [Message false [Loc None "+1"]
     "Could not convert prefix to number." true
     ["Imposibil de convertit prefixul la număr."];
   Message false [Loc None "+1"]
     "Could not decode scan secret as wif, hex or base58." true
     ["Imposibil de decodificat scanarea secretă ca WIF, Hex sau base58."];
   Message false [Loc None "+1"]
     "Could not decode spend secret as hex or base58." true
     ["Nu a putut decodifica cheltui secret ca Hex sau base58."];
   Message false [Loc None "+1"]
     "Could not get confidential chain from account." true
     ["Nu s-a putut obține lanțul confidențial din cont."];
   Message false [Loc None "+1"]
     "Could not get scan public key." true
     ["Nu s-a putut scana cheia publică."];
   Message false [Loc None "+1"]
     "Could not get spend public key." true
     ["Nu s-a putut cheltui cheia publică."];
   Message false [Loc None "+1"]
     "Default account not found" true
     ["Contul implicit nu a fost găsit"];
   Message false [Loc None "+1"]
     "DeriveNextKey failed" true
     ["DeriveNextKey nu a reușit"];
   Message false [Loc None "+1"]
     "Do you want to rebuild the block database now?" true
     ["Doriți să reconstruiți baza de date bloc acum?"];
   Message false [Loc None "+1"]
     "Done loading" true
     ["Terminat de încărcare"];
   Message false [Loc None "+1"]
     "Duplicate index found, %d" true
     ["Index duplicat găsit,% d"];
   Message false [Loc None "+1"]
     "Empty wallet required for import." true
     ["Portofel gol necesar pentru import."];
   Message false [Loc None "+1"]
     "Ensure available balance remains above reservebalance. (default: 0)" true
     ["Asigurați-vă că soldul disponibil rămâne peste reservebalance. (implicit: 0)"];
   Message false [Loc None "+1"]
     "EraseSetting failed." true
     ["EraseSetting nu a reușit."];
   Message false [Loc None "+1"]
     "Error creating %s: You can&apos;t create non-HD wallets with this version." true
     ["Eroare la crearea% s: nu puteți crea portofele non-HD cu această versiune."];
   Message false [Loc None "+1"]
     "Error initializing block database" true
     ["Eroare la inițializarea bazei de date bloc"];
   Message false [Loc None "+1"]
     "Error initializing wallet database environment %s!" true
     ["Eroare la inițializarea mediului bazei de date portofel% s!"];
   Message false [Loc None "+1"]
     "Error loading %s" true
     ["Eroare la încărcarea% s"];
   Message false [Loc None "+1"]
     "Error loading %s: Private keys can only be disabled during creation" true
     ["Eroare la încărcarea% s: cheile private pot fi dezactivate numai în timpul creării"];
   Message false [Loc None "+1"]
     "Error loading %s: Wallet corrupted" true
     ["Eroare la încărcarea% s: portofel deteriorat"];
   Message false [Loc None "+1"]
     "Error loading %s: Wallet requires newer version of %s" true
     ["Eroare la încărcarea% s: portofelul necesită o versiune mai nouă de% s"];
   Message false [Loc None "+1"]
     "Error loading %s: You can&apos;t disable HD on an already existing HD wallet" true
     ["Eroare la încărcarea% s: nu puteți dezactiva HD pe un portofel HD deja existent"];
   Message false [Loc None "+1"]
     "Error loading block database" true
     ["Eroare la încărcarea bazei de date bloc"];
   Message false [Loc None "+1"]
     "Error loading wallet %s. Duplicate -wallet filename specified." true
     ["Eroare la încărcarea portmoneului% s. duplicat-nume de fișier portofel specificat."];
   Message false [Loc None "+1"]
     "Error opening block database" true
     ["Eroare la deschiderea bazei de date bloc"];
   Message false [Loc None "+1"]
     "Error reading from database, shutting down." true
     ["Eroare la citirea din baza de date, închiderea."];
   Message false [Loc None "+1"]
     "Error upgrading chainstate database" true
     ["Eroare la modernizarea bazei de date chainstate"];
   Message false [Loc None "+1"]
     "Error" true
     ["Eroare"];
   Message false [Loc None "+1"]
     "Error: A fatal internal error occurred, see debug.log for details" true
     ["Eroare: A apărut o eroare internă fatală, consultați depanare. log pentru detalii"];
   Message false [Loc None "+1"]
     "Error: Disk space is low!" true
     ["Eroare: spațiul-disc este scăzut!"]].

Definition ro_bitcoin_core_4 : list message :=
  [Message false [Loc None "+1"]
     "ExtKeyGetIndex failed." true
     ["ExtKeyGetIndex nu a reușit."];
   Message false [Loc None "+1"]
     "ExtKeySaveAccountToDB failed" true
     ["ExtKeySaveAccountToDB nu a reușit"];
   Message false [Loc None "+1"]
     "Failed to listen on any port. Use -listen=0 if you want this." true
     ["Nu a reușit să asculte pe orice port. Utilizați-asculta = 0, dacă doriți acest lucru."];
   Message false [Loc None "+1"]
     "Failed to open dongle" true
     ["Nu s-a reușit deschiderea dongle"];
   Message false [Loc None "+1"]
     "Failed to rescan the wallet during initialization" true
     ["Nu s-a reușit rescanarea portofelului în timpul inițializării"];
   Message false [Loc None "+1"]
     "Hit nMaxTries limit, %d, %d" true
     ["Se apasă limita nMaxTries,% d,% d"];
   Message false [Loc None "+1"]
     "Import failed - AddKeyPubKey failed." true
     ["Importul nu a reușit-AddKeyPubKey nu a reușit."];
   Message false [Loc None "+1"]
     "Import failed - stealth address exists." true
     ["Importul nu a reușit-adresa Stealth există."];
   Message false [Loc None "+1"]
     "Importing..." true
     ["Importul..."];
   Message false [Loc None "+1"]
     "Incorrect or no genesis block found. Wrong datadir for network?" true
     ["Incorect sau nu blocul Genesis găsit. Datadir greșit pentru rețea?"];
   Message false [Loc None "+1"]
     "Information" true
     ["Informaţii"];
   Message false [Loc None "+1"]
     "Initialization sanity check failed. %s is shutting down." true
     ["Verificarea de inițializare a sănătății nu a reușit. % s se închide."];
   Message false [Loc None "+1"]
     "Insufficient funds" true
     ["Fonduri insuficiente"];
   Message false [Loc None "+1"]
     "Insufficient funds." true
     ["Fonduri insuficiente."];
   Message false [Loc None "+1"]
     "Invalid -onion address or hostname: &apos;%s&apos;" true
     ["Invalid-adresa de ceapă sau hostname: &apos;% s &apos;"];
   Message false [Loc None "+1"]
     "Invalid -proxy address or hostname: &apos;%s&apos;" true
     ["Invalid-adresa proxy sau hostname: &apos;% s &apos;"];
   Message false [Loc None "+1"]
     "Invalid BitcoinC address." true
     ["Adresă BitcoinC nevalidă."];
   Message false [Loc None "+1"]
     "Invalid amount for -%s=&lt;amount&gt;: &apos;%s&apos;" true
     ["Sumă nevalidă pentru-% s =&lt;amount&gt;: &apos;% s &apos;&lt;/amount&gt;"];
   Message false [Loc None "+1"]
     "Invalid amount for -discardfee=&lt;amount&gt;: &apos;%s&apos;" true
     ["Sumă nevalidă pentru-discardfee =&lt;amount&gt;: &apos;% s &apos;&lt;/amount&gt;"];
   Message false [Loc None "+1"]
     "Invalid amount for -fallbackfee=&lt;amount&gt;: &apos;%s&apos;" true
     ["Sumă nevalidă pentru-fallbackfee =&lt;amount&gt;: &apos;% s &apos;&lt;/amount&gt;"];
   Message false [Loc None "+1"]
     "Invalid amount for -paytxfee=&lt;amount&gt;: &apos;%s&apos; (must be at least %s)" true
     ["Sumă nevalidă pentru-paytxfee =&lt;amount&gt;: &apos;% s &apos; (trebuie să fie cel puțin% s)&lt;/amount&gt;"];
   Message false [Loc None "+1"]
     "Invalid amount for -reservebalance=&lt;amount&gt;" true
     ["Sumă nevalidă pentru-reservebalance =&lt;amount&gt;&lt;/amount&gt;"];
   Message false [Loc None "+1"]
     "Invalid coldstakingaddress." true
     ["Adresă coldstakingaddress nevalidă."];
   Message false [Loc None "+1"]
     "Invalid input key." true
     ["Tastă de intrare nevalidă."];
   Message false [Loc None "+1"]
     "Invalid key." true
     ["Cheie nevalidă."];
   Message false [Loc None "+1"]
     "Invalid netmask specified in -whitelist: &apos;%s&apos;" true
     ["Netmask nevalid specificat în-listă albă: &apos;% s &apos;"];
   Message false [Loc None "+1"]
     "Invalid rewardaddress." true
     ["Adresă de recompensa nevalidă."];
   Message false [Loc None "+1"]
     "Keypool ran out, please call keypoolrefill first" true
     ["Keypool fugit, vă rugăm să sunați keypoolrefill primul"];
   Message false [Loc None "+1"]
     "Loading P2P addresses..." true
     ["Se încarcă adresele P2P..."]].

Definition ro_bitcoin_core_5 : list message :=
  [Message false [Loc None "+1"]
     "Loading address book for %s.
" true
     ["Se încarcă agenda pentru% s."];
   Message false [Loc None "+1"]
     "Loading banlist..." true
     ["Se încarcă banlist..."];
   Message false [Loc None "+1"]
     "Loading block index..." true
     ["Se încarcă indexul blocului..."];
   Message false [Loc None "+1"]
     "Loading transaction records for %s.
" true
     ["Se încarcă înregistrările tranzacțiilor pentru% s."];
   Message false [Loc None "+1"]
     "Loading wallet..." true
     ["Se încarcă portofelul..."];
   Message false [Loc None "+1"]
     "Minimum time in seconds between successful stakes (default: 0)" true
     ["Timp minim în secunde între mize de succes (implicit: 0)"];
   Message false [Loc None "+1"]
     "Must be json object." true
     ["Trebuie să fie un obiect JSON."];
   Message false [Loc None "+1"]
     "Must have account to save keys." true
     ["Trebuie să aibă cont pentru a salva cheile."];
   Message false [Loc None "+1"]
     "Must input a stealthaddress." true
     ["Trebuie să introduci o adresă de ascuns."];
   Message false [Loc None "+1"]
     "Need a parameter to change." true
     ["Aveți nevoie de un parametru pentru a schimba."];
   Message false [Loc None "+1"]
     "Need to specify a port with -whitebind: &apos;%s&apos;" true
     ["Necesitatea de a specifica un port cu-whitebind: &apos;% s &apos;"];
   Message false [Loc None "+1"]
     "New state must be bool." true
     ["Noul stat trebuie să fie bool."];
   Message false [Loc None "+1"]
     "NewExtKeyFromAccount failed, %s." true
     ["NewExtKeyFromAccount nu a reușit,% s."];
   Message false [Loc None "+1"]
     "NewExtKeyFromAccount failed." true
     ["NewExtKeyFromAccount nu a reușit."];
   Message false [Loc None "+1"]
     "NewStealthKeyV2FromAccount failed." true
     ["NewStealthKeyV2FromAccount nu a reușit."];
   Message false [Loc None "+1"]
     "No default account set." true
     ["Nici un set de cont implicit."];
   Message false [Loc None "+1"]
     "No key for anonoutput, %s" true
     ["Nici o cheie pentru anonoutput,% s"];
   Message false [Loc None "+1"]
     "Not anon output %s %d" true
     ["Ieșire neanon% s% d"];
   Message false [Loc None "+1"]
     "Not enough file descriptors available." true
     ["Nu sunt suficiente descriptori de fișiere disponibile."];
   Message false [Loc None "+1"]
     "Num inputs per signature out of range" true
     ["Intrări numerice per semnătură în afara intervalului"];
   Message false [Loc None "+1"]
     "Number of keys to load into the lookahead pool per chain. (default: %u)" true
     ["Numărul de taste pentru a încărca în piscina LookAhead pe lanț. (implicit:% u)"];
   Message false [Loc None "+1"]
     "Only able to send to stealth address." true
     ["Doar posibilitatea de a trimite la adresa stealth."];
   Message false [Loc None "+1"]
     "OpIsCoinstake is not active yet." true
     ["OpIsCoinstake nu este încă activ."];
   Message false [Loc None "+1"]
     "Output isn&apos;t standard." true
     ["Ieșirea nu este standard."];
   Message false [Loc None "+1"]
     "PrepareTransaction for device failed: %s" true
     ["PrepareTransaction pentru dispozitiv nu a reușit:% s"];
   Message false [Loc None "+1"]
     "ProduceSignature from device failed: %s" true
     ["ProduceSignature de pe dispozitiv nu a reușit:% s"];
   Message false [Loc None "+1"]
     "Prune cannot be configured with a negative value." true
     ["Prune nu poate fi configurat cu o valoare negativă."];
   Message false [Loc None "+1"]
     "Prune mode is incompatible with -txindex." true
     ["Modul de prune este incompatibil cu-txindex."];
   Message false [Loc None "+1"]
     "Pruning blockstore..." true
     ["Pruning blockstore..."]].

Definition ro_bitcoin_core_6 : list message :=
  [Message false [Loc None "+1"]
     "ReadStoredTx failed for %s" true
     ["ReadStoredTx nu a reușit pentru% s"];
   Message false [Loc None "+1"]
     "Reducing -maxconnections from %d to %d, because of system limitations." true
     ["Reducerea-MaxConnections de la% d la% d, din cauza limitărilor de sistem."];
   Message false [Loc None "+1"]
     "Replaying blocks..." true
     ["Replaying blocuri..."];
   Message false [Loc None "+1"]
     "Rescanning..." true
     ["Rescanarea..."];
   Message false [Loc None "+1"]
     "Rewinding blocks..." true
     ["Blocuri de rebobinare..."];
   Message false [Loc None "+1"]
     "Ring size out of range [%d, %d]" true
     ["Dimensiune inel în afara intervalului [% d,% d]"];
   Message false [Loc None "+1"]
     "Ring size out of range" true
     ["Dimensiunea inelului în afara intervalului"];
   Message false [Loc None "+1"]
     "Scan secret is not 32 bytes." true
     ["Scanarea secret nu este 32 bytes."];
   Message false [Loc None "+1"]
     "SetSetting failed." true
     ["SetSetting nu a reușit."];
   Message false [Loc None "+1"]
     "Signing transaction failed" true
     ["Semnarea tranzacției nu a reușit"];
   Message false [Loc None "+1"]
     "Specified -walletdir &quot;%s&quot; does not exist" true
     ["Specificat-walletdir &quot;% s&quot; nu există"];
   Message false [Loc None "+1"]
     "Specified -walletdir &quot;%s&quot; is a relative path" true
     ["Specificat-walletdir &quot;% s&quot; este o cale relativă"];
   Message false [Loc None "+1"]
     "Specified -walletdir &quot;%s&quot; is not a directory" true
     ["Specificat-walletdir &quot;% s&quot; nu este un director"];
   Message false [Loc None "+1"]
     "Specified blocks directory &quot;%s&quot; does not exist." true
     ["Directorul de blocuri specificat &quot;% s&quot; nu există."];
   Message false [Loc None "+1"]
     "Spend secret is not 32 bytes." true
     ["Petrece secretul nu este 32 bytes."];
   Message false [Loc None "+1"]
     "Spend secret must be different to scan secret." true
     ["Să-ți petreci secretul trebuie să fie diferit pentru a scana secretul."];
   Message false [Loc None "+1"]
     "Stake your coins to support network and gain reward (default: true)" true
     ["Miza monedele dumneavoastră pentru a sprijini rețea și câștiga recompensa (implicit: True)"];
   Message false [Loc None "+1"]
     "Starting network threads..." true
     ["Pornirea firelor de rețea..."];
   Message false [Loc None "+1"]
     "StealthSecret failed, try again." true
     ["StealthSecret nu a reușit, încercați din nou."];
   Message false [Loc None "+1"]
     "The source code is available from %s." true
     ["Codul sursă este disponibil de la% s."];
   Message false [Loc None "+1"]
     "The transaction amount is too small to pay the fee" true
     ["Suma tranzacției este prea mică pentru a plăti taxa"];
   Message false [Loc None "+1"]
     "The wallet will avoid paying less than the minimum relay fee." true
     ["Portofelul va evita plata mai mică decât taxa de releu minim."];
   Message false [Loc None "+1"]
     "This is experimental software." true
     ["Acesta este un software experimental."];
   Message false [Loc None "+1"]
     "This is the minimum transaction fee you pay on every transaction." true
     ["Aceasta este taxa minimă de tranzacție pe care o plătiți pentru fiecare tranzacție."];
   Message false [Loc None "+1"]
     "This is the transaction fee you will pay if you send a transaction." true
     ["Aceasta este taxa de tranzacție pe care o veți plăti dacă trimiteți o tranzacție."];
   Message false [Loc None "+1"]
     "Transaction amount too small" true
     ["Valoarea tranzacției este prea mică"];
   Message false [Loc None "+1"]
     "Transaction amounts must not be negative" true
     ["Sumele tranzacției nu trebuie să fie negative"];
   Message false [Loc None "+1"]
     "Transaction amounts must not be negative." true
     ["Sumele tranzacției nu trebuie să fie negative."];
   Message false [Loc None "+1"]
     "Transaction fee and change calculation failed" true
     ["Tranzacții taxă și schimbare de calcul nu a reușit"];
   Message false [Loc None "+1"]
     "Transaction fee and change calculation failed." true
     ["Taxa de tranzacții și calculul de modificare nu a reușit."]].

Definition ro_bitcoin_core_7 : list message :=
  [Message false [Loc None "+1"]
     "Transaction has too long of a mempool chain" true
     ["Tranzacția are prea mult timp un lanț mempool"];
   Message false [Loc None "+1"]
     "Transaction must have at least one recipient" true
     ["Tranzacția trebuie să aibă cel puțin un destinatar"];
   Message false [Loc None "+1"]
     "Transaction must have at least one recipient." true
     ["Tranzacția trebuie să aibă cel puțin un destinatar."];
   Message false [Loc None "+1"]
     "Transaction too large for fee policy" true
     ["Tranzacție prea mare pentru Politica de taxe"];
   Message false [Loc None "+1"]
     "Transaction too large for fee policy." true
     ["Tranzacție prea mare pentru Politica de taxe."];
   Message false [Loc None "+1"]
     "Transaction too large" true
     ["Tranzacție prea mare"];
   Message false [Loc None "+1"]
     "TxnBegin failed." true
     ["TxnBegin nu a reușit."];
   Message false [Loc None "+1"]
     "Unable to bind to %s on this computer (bind returned error %s)" true
     ["Imposibil de legat la% s pe acest computer (se leagă eroarea returnată% s)"];
   Message false [Loc None "+1"]
     "Unable to bind to %s on this computer. %s is probably already running." true
     ["Imposibil de legat la% s pe acest computer. % s probabil că se execută deja."];
   Message false [Loc None "+1"]
     "Unable to generate initial keys" true
     ["Imposibil de generat cheile inițiale"];
   Message false [Loc None "+1"]
     "Unable to generate keys" true
     ["Imposibil de generat taste"];
   Message false [Loc None "+1"]
     "Unable to start HTTP server. See debug log for details." true
     ["Imposibil de pornit serverul HTTP. Consultați jurnalul de depanare pentru detalii."];
   Message false [Loc None "+1"]
     "Unknown account." true
     ["Cont necunoscut."];
   Message false [Loc None "+1"]
     "Unknown action, must be one of &apos;add/edit/del&apos;." true
     ["Acțiune necunoscută, trebuie să fie una dintre &quot;Add/Edit/del&quot;."];
   Message false [Loc None "+1"]
     "Unknown argument for 256bithash: %s." true
     ["Argument necunoscut pentru 256bithash:% s."];
   Message false [Loc None "+1"]
     "Unknown argument for add_to_addressbook: %s." true
     ["Argument necunoscut pentru add_to_addressbook:% s."];
   Message false [Loc None "+1"]
     "Unknown chain." true
     ["Lanț necunoscut."];
   Message false [Loc None "+1"]
     "Unknown input key version." true
     ["Versiune necunoscută a cheii de intrare."];
   Message false [Loc None "+1"]
     "Unknown network specified in -onlynet: &apos;%s&apos;" true
     ["Rețea necunoscută specificată în-onlynet: &apos;% s &apos;"];
   Message false [Loc None "+1"]
     "Unknown setting" true
     ["Setare necunoscută"];
   Message false [Loc None "+1"]
     "Unsupported argument -benchmark ignored, use -debug=bench." true
     ["Argumentul neacceptat-Benchmark ignorat, utilizare-debug = banc."];
   Message false [Loc None "+1"]
     "Unsupported argument -debugnet ignored, use -debug=net." true
     ["Argumentul neacceptat-debugnet ignorat, utilizați-debug = net."];
   Message false [Loc None "+1"]
     "Unsupported argument -debugnet ignored, use -debug=smsg." true
     ["Argumentul neacceptat-debugnet ignorat, utilizați-debug = sMsg."];
   Message false [Loc None "+1"]
     "Unsupported argument -tor found, use -onion." true
     ["Argument neacceptat-tor găsit, utilizarea-ceapa."];
   Message false [Loc None "+1"]
     "Unsupported logging category %s=%s." true
     ["Categorie de logare neacceptată% s =% s."];
   Message false [Loc None "+1"]
     "Upgrading txindex database" true
     ["Actualizarea bazei de date txindex"];
   Message false [Loc None "+1"]
     "User Agent comment (%s) contains unsafe characters." true
     ["Comentariul agentului utilizator (% s) conține caractere nesigure."];
   Message false [Loc None "+1"]
     "Verifying blocks..." true
     ["Se verifică blocurile..."];
   Message false [Loc None "+1"]
     "Verifying wallet(s)..." true
     ["Se verifică portofelul (ele)..."];
   Message false [Loc None "+1"]
     "Wallet %s resides outside wallet directory %s" true
     ["Portofelul% s se află în afara directorului de portofel% s"]].

Definition ro_bitcoin_core_8 : list message :=
  [Message false [Loc None "+1"]
     "Wallet has no active master key." true
     ["Portofelul nu are cheie principală activă."];
   Message false [Loc None "+1"]
     "Wallet must be unlocked." true
     ["Portofelul trebuie deblocat."];
   Message false [Loc None "+1"]
     "Wallet must have a default account set." true
     ["Portofelul trebuie să aibă un set de cont implicit."];
   Message false [Loc None "+1"]
     "Wallet needed to be rewritten: restart %s to complete" true
     ["Portofelul trebuie rescris: reporniți% s pentru a finaliza"];
   Message false [Loc None "+1"]
     "Warning" true
     ["Avertizare"];
   Message false [Loc None "+1"]
     "Warning: unknown new rules activated (versionbit %i)" true
     ["Avertisment: noi reguli necunoscute activate (versionbit% i)"];
   Message false [Loc None "+1"]
     "You need to rebuild the database using -reindex to change -addressindex" true
     ["Ai nevoie pentru a reconstrui baza de date folosind-reindex pentru a schimba-destinatar"];
   Message false [Loc None "+1"]
     "You need to rebuild the database using -reindex to change -spentindex" true
     ["Ai nevoie pentru a reconstrui baza de date folosind-reindex pentru a schimba-spentindex"];
   Message false [Loc None "+1"]
     "Zapping all transactions from wallet..." true
     ["Zapping toate tranzacțiile din portofel..."];
   Message false [Loc None "+1"]
     "accounts missing." true
     ["lipsesc conturile."];
   Message false [Loc None "+1"]
     "accounts must be an array." true
     ["conturile trebuie să fie o matrice."];
   Message false [Loc None "+1"]
     "add_to_addressbook can&apos;t be set without save" true
     ["add_to_addressbook nu poate fi setat fără a salva"];
   Message false [Loc None "+1"]
     "address_standard must be a string." true
     ["address_standard trebuie să fie un șir."];
   Message false [Loc None "+1"]
     "bad childNo." true
     ["copilaș rău."];
   Message false [Loc None "+1"]
     "bech32 encode failed." true
     ["bech32 codificat nu a reușit."];
   Message false [Loc None "+1"]
     "coldstakingaddress can&apos;t be a stealthaddress." true
     ["coldstakingaddress nu poate fi un stealthaddress."];
   Message false [Loc None "+1"]
     "coldstakingaddress must be a string." true
     ["coldstakingaddress trebuie să fie un șir."];
   Message false [Loc None "+1"]
     "extkey must have private key to derive hardened keys." true
     ["extkey trebuie să aibă cheie privată pentru a obține chei întărite."];
   Message false [Loc None "+1"]
     "foundationdonationpercent must be a number." true
     ["foundationdonationpercent trebuie să fie un număr."];
   Message false [Loc None "+1"]
     "height must be a number." true
     ["înălțimea trebuie să fie un număr."];
   Message false [Loc None "+1"]
     "loose_extkeys missing." true
     ["loose_extkeys lipsește."];
   Message false [Loc None "+1"]
     "loose_extkeys must be an array." true
     ["loose_extkeys trebuie să fie o matrice."];
   Message false [Loc None "+1"]
     "num_derives to int failed." true
     ["num_derives la int a eșuat."];
   Message false [Loc None "+1"]
     "num_derives_h to int failed." true
     ["num_derives_h la int a eșuat."];
   Message false [Loc None "+1"]
     "num_prefix_bits invalid number." true
     ["num_prefix_bits număr nevalid."];
   Message false [Loc None "+1"]
     "num_prefix_bits must be &lt;= 32." true
     ["num_prefix_bits trebuie să fie&lt;= 32.&gt;&lt;/= 32.&gt;"];
   Message false [Loc None "+1"]
     "rewardaddress must be a string." true
     ["recompenselor trebuie să fie un șir."];
   Message false [Loc None "+1"]
     "secp256k1_generate_mlsag failed %d" true
     ["secp256k1_generate_mlsag nu a reușit% d"];
   Message false [Loc None "+1"]
     "secp256k1_get_keyimage failed %d" true
     ["secp256k1_get_keyimage nu a reușit% d"];
   Message false [Loc None "+1"]
     "secp256k1_prepare_mlsag failed %d" true
     ["secp256k1_prepare_mlsag nu a reușit% d"]].

Definition ro_bitcoin_core_9 : list message :=
  [Message false [Loc None "+1"]
     "stakecombinethreshold can&apos;t be negative." true
     ["pragul de fileu nu poate fi negativ."];
   Message false [Loc None "+1"]
     "stakesplitthreshold can&apos;t be negative." true
     ["stakesplitthreshold nu poate fi negativă."]].

(** The whole document. *)
Definition bitcoin_ro_RO : catalogue :=
  [Context "AddressBookPage" (ro_AddressBookPage_1 ++ ro_AddressBookPage_2);
   Context "AddressTableModel" (ro_AddressTableModel);
   Context "AskPassphraseDialog" (ro_AskPassphraseDialog_1 ++ ro_AskPassphraseDialog_2);
   Context "BanTableModel" (ro_BanTableModel);
   Context "BitcoinGUI" (ro_BitcoinGUI_1 ++ ro_BitcoinGUI_2 ++ ro_BitcoinGUI_3 ++ ro_BitcoinGUI_4);
   Context "CoinControlDialog" (ro_CoinControlDialog_1 ++ ro_CoinControlDialog_2);
   Context "EditAddressDialog" (ro_EditAddressDialog);
   Context "FreespaceChecker" (ro_FreespaceChecker);
   Context "HelpMessageDialog" (ro_HelpMessageDialog);
   Context "Intro" (ro_Intro);
   Context "MnemonicDialog" (ro_MnemonicDialog_1 ++ ro_MnemonicDialog_2);
   Context "ModalOverlay" (ro_ModalOverlay);
   Context "OpenURIDialog" (ro_OpenURIDialog);
   Context "OptionsDialog" (ro_OptionsDialog_1 ++ ro_OptionsDialog_2 ++ ro_OptionsDialog_3);
   Context "OverviewPage" (ro_OverviewPage);
   Context "PaymentServer" (ro_PaymentServer);
   Context "PeerTableModel" (ro_PeerTableModel);
   Context "QObject" (ro_QObject);
   Context "QObject::QObject" (ro_QObject__QObject);
   Context "QRImageWidget" (ro_QRImageWidget);
   Context "RPCConsole" (ro_RPCConsole_1 ++ ro_RPCConsole_2 ++ ro_RPCConsole_3);
   Context "ReceiveCoinsDialog" (ro_ReceiveCoinsDialog);
   Context "ReceiveRequestDialog" (ro_ReceiveRequestDialog);
   Context "RecentRequestsTableModel" (ro_RecentRequestsTableModel);
   Context "SendCoinsDialog" (ro_SendCoinsDialog_1 ++ ro_SendCoinsDialog_2 ++ ro_SendCoinsDialog_3);
   Context "SendCoinsEntry" (ro_SendCoinsEntry_1 ++ ro_SendCoinsEntry_2);
   Context "SendConfirmationDialog" (ro_SendConfirmationDialog);
   Context "ShutdownWindow" (ro_ShutdownWindow);
   Context "SignVerifyMessageDialog" (ro_SignVerifyMessageDialog_1 ++ ro_SignVerifyMessageDialog_2);
   Context "SplashScreen" (ro_SplashScreen);
   Context "StakingDialog" (ro_StakingDialog_1 ++ ro_StakingDialog_2);
   Context "TrafficGraphWidget" (ro_TrafficGraphWidget);
   Context "TransactionDesc" (ro_TransactionDesc_1 ++ ro_TransactionDesc_2);
   Context "TransactionDescDialog" (ro_TransactionDescDialog);
   Context "TransactionTableModel" (ro_TransactionTableModel_1 ++ ro_TransactionTableModel_2);
   Context "TransactionView" (ro_TransactionView_1 ++ ro_TransactionView_2);
   Context "TxViewDelegate" (ro_TxViewDelegate);
   Context "UnitDisplayStatusBarControl" (ro_UnitDisplayStatusBarControl);
   Context "WalletFrame" (ro_WalletFrame);
   Context "WalletModel" (ro_WalletModel);
   Context "WalletView" (ro_WalletView);
   Context "bitcoin-core" (ro_bitcoin_core_1 ++ ro_bitcoin_core_2 ++ ro_bitcoin_core_3 ++ ro_bitcoin_core_4 ++ ro_bitcoin_core_5 ++ ro_bitcoin_core_6 ++ ro_bitcoin_core_7 ++ ro_bitcoin_core_8 ++ ro_bitcoin_core_9)].
