(* ===== verification/CatalogueRu.v ===== *)
(** The Russian catalogue, [src/src/qt/locale/bitcoin_ru_RU.ts], context by context; a long
    context is cut into parts.  Texts are as in the file. *)
From S2P Require Import Prelude Locale.
Open Scope txt_scope.
Open Scope list_scope.

Definition ru_AddressBookPage_1 : list message :=
  [Message false [Loc (Some "../forms/addressbookpage.ui") "+27"]
     "Enter address or label to search" true
     ["Введите адрес или метку для поиска"];
   Message false [Loc None "+10"]
     "Right-click to edit address or label" true
     ["Нажмите правую кнопку мыши для редактирования адреса или метки"];
   Message false [Loc None "+30"; Loc None "+17"; Loc None "+17"]
     "Create a new address" true
     ["Создать новый адрес"];
   Message false [Loc None "-31"]
     "&amp;New" true
     ["Новый"];
   Message false [Loc None "+17"]
     "&amp;New Stake address" true
     ["Новый Stake адрес "];
   Message false [Loc None "+17"]
     "&amp;New ColdStake address" true
     ["Новый ColdStake адрес"];
   Message false [Loc None "+14"]
     "Copy the currently selected address to the system clipboard" true
     ["Скопировать текущий выбранный адрес в системный буфер обмена"];
   Message false [Loc None "+3"]
     "&amp;Copy" true
     ["Копировать"];
   Message false [Loc None "+14"]
     "Delete the currently selected address from the list" true
     ["Удалить текущий выбранный адрес из списка"];
   Message false [Loc None "+3"]
     "&amp;Delete" true
     ["Удалить"];
   Message false [Loc None "+27"]
     "Export the data in the current tab to a file" true
     ["Экспортировать данные текущей вкладки в файл"];
   Message false [Loc None "+3"]
     "&amp;Export" true
     ["Экспорт"];
   Message false [Loc None "+20"]
     "C&amp;lose" true
     ["Закрыть"];
   Message false [Loc (Some "../addressbookpage.cpp") "+84"]
     "These are your Bitcoin Confidential addresses for sending payments. Always check the amount and the receiving address before sending coins." true
     ["Это Ваши адреса Bitcoin Confidential для отправки платежей. Всегда проверяйте сумму и адрес получателя перед отправкой платежа."];
   Message false [Loc None "+8"]
     "Choose the address to send coins to" true
     ["Выберите адрес для отправки монет"];
   Message false [Loc None "+4"; Loc None "+22"; Loc None "+28"]
     "C&amp;hoose" true
     ["Выбрать"];
   Message false [Loc None "-44"]
     "Sending addresses" true
     ["Адреса отправки"];
   Message false [Loc None "+12"]
     "Choose the address to receive coins with" true
     ["Выберите адрес для получения платежа"];
   Message false [Loc None "+10"]
     "Receiving addresses" true
     ["Адреса получения"];
   Message false [Loc None "+1"]
     "These are your Bitcoin Confidential addresses for receiving payments. It is recommended to use a new receiving address for each transaction." true
     ["Это Ваши адреса Bitcoin Confidential для получения платежей. Настоятельно рекомендуем использовать новые адреса для получения каждой транзакции."];
   Message false [Loc None "+13"]
     "Choose the Stake or ColdStake address" true
     ["Выберите Stake или ColdStake адрес"];
   Message false [Loc None "+1"]
     "These are your Bitcoin Confidential Stake and ColdStake addresses." true
     ["Это Ваши Stake и ColdStake адреса Bitcoin Confidential."];
   Message false [Loc None "+16"]
     "Stake and ColdStake addresses" true
     ["Stake и ColdStake адреса"];
   Message false [Loc None "+1"]
     "These addresses cannot be used to receive coins from outside the wallet, such as payments or from exchanges.  Use the Receive tab to generate spending addresses.

Stake addresses, starting with &quot;%1&quot;, are used to convert spending funds into staking funds in the &quot;Convert to Staking&quot; tab. Funds in Stake addresses can be either used for hot staking or the activation of ColdStaking.

ColdStake addresses, starting with &quot;%2&quot;, are used to manually activate staking funds for ColdStaking. There is no need to generate ColdStake addresses when the automated ColdStaking activation from the Staking Status page is used." true
     ["Эти адреса не могут быть использованы для получения монет из-за пределов кошелька, такие как переводы от пользователей или бирж.  Используйте вкладку Receive (Получить) для генерации адресов для трат.

Stake адреса, начиная с &quot;%1&quot;, используются для конвертации расходных средств в средства для стекинга во вкладке &quot;Convert to Staking&quot; (Конвертировать для Staking). Средства на Stake адресе могут использоваться либо для Hot Staking, либо для активации ColdStaking.

ColdStake адреса, начиная с &quot;%2&quot;, используются для ручной активации средств для стекинга при ColdStaking. Нет необходимости создавать ColdStake адреса при использовании автоматической активации ColdStaking со страницы Staking Status (Staking Статус)."];
   Message false [Loc None "+11"]
     "&amp;Copy Address" true
     ["&amp;Копировать Адрес"];
   Message false [Loc None "+1"]
     "Copy &amp;Label" true
     ["Копировать Метку"];
   Message false [Loc None "+1"]
     "&amp;Edit" true
     ["Редактировать"]].

Definition ru_AddressBookPage_2 : list message :=
  [Message false [Loc None "+186"]
     "Export Address List" true
     ["Экспорт списка адресов"];
   Message false [Loc None "+1"]
     "Comma separated file (*.csv)" true
     ["Текст, разделённый запятыми (*.csv)"];
   Message false [Loc None "+13"]
     "Exporting Failed" true
     ["Ошибка при экспорте"];
   Message false [Loc None "+1"]
     "There was an error trying to save the address list to %1. Please try again." true
     ["Произошла ошибка сохранения списка адресов в %1. Пожалуйста, повторите попытку."]].

Definition ru_AddressTableModel : list message :=
  [Message false [Loc (Some "../addresstablemodel.cpp") "+188"]
     "Label" true
     ["Метка"];
   Message false [Loc None "+0"]
     "Address" true
     ["Адрес"];
   Message false [Loc None "+36"]
     "(no label)" true
     ["(без метки)"]].

Definition ru_AskPassphraseDialog_1 : list message :=
  [Message false [Loc (Some "../forms/askpassphrasedialog.ui") "+26"]
     "Passphrase Dialog" true
     ["Окно ввода пароля"];
   Message false [Loc None "+30"]
     "Enter passphrase" true
     ["Введите пароль"];
   Message false [Loc None "+14"]
     "New passphrase" true
     ["Новый пароль"];
   Message false [Loc None "+14"]
     "Repeat new passphrase" true
     ["Повторите новый пароль"];
   Message false [Loc None "+14"]
     "Show password" true
     ["Показать пароль"];
   Message false [Loc None "+23"]
     "Unlock For Staking Only" true
     ["Разблокировать только для Staking"];
   Message false [Loc (Some "../askpassphrasedialog.cpp") "+48"]
     "Enter the new passphrase to the wallet.&lt;br/&gt;Please use a passphrase of &lt;b&gt;ten or more random characters&lt;/b&gt;, or &lt;b&gt;eight or more words&lt;/b&gt;." true
     ["Введите новый пароль для кошелька.&lt;br&gt;Пожалуйста, используйте пароль из &lt;b&gt;десяти или более случайных символов,&lt;/b&gt;или восьми или более &lt;b&gt;слов&lt;/b&gt;."];
   Message false [Loc None "+3"]
     "Encrypt wallet" true
     ["Зашифровать кошелек"];
   Message false [Loc None "+3"; Loc None "+8"]
     "This operation needs your wallet passphrase to unlock the wallet." true
     ["Данная операция требует пароль для разблокировки кошелька"];
   Message false [Loc None "-3"; Loc None "+9"]
     "Unlock wallet" true
     ["Разблокировать кошелек"];
   Message false [Loc None "+3"]
     "This operation needs your wallet passphrase to decrypt the wallet." true
     ["Данная операция требует пароль для расшифровки кошелька"];
   Message false [Loc None "+5"]
     "Decrypt wallet" true
     ["Расшифровать кошелёк"];
   Message false [Loc None "+3"]
     "Change passphrase" true
     ["Изменить пароль"];
   Message false [Loc None "+1"]
     "Enter the old passphrase and new passphrase to the wallet." true
     ["Введите старый и новый пароль для кошелька."];
   Message false [Loc None "+47"]
     "Confirm wallet encryption" true
     ["Подтвердить шифрование кошелька"];
   Message false [Loc None "+1"]
     "Warning: If you encrypt your wallet and lose your passphrase, you will &lt;b&gt;LOSE ALL OF YOUR BITCOIN CONFIDENTIAL&lt;/b&gt;!" true
     ["Предупреждение: если после шифрования кошелька Вы потеряете свой пароль, то Вы&lt;b&gt;потеряете все ваши BITCOIN CONFIDENTIAL!&lt;/b&gt;"];
   Message false [Loc None "+0"]
     "Are you sure you wish to encrypt your wallet?" true
     ["Вы уверены, что хотите зашифровать свой кошелек?"];
   Message false [Loc None "+9"; Loc None "+59"]
     "Wallet encrypted" true
     ["Кошелек зашифрован"];
   Message false [Loc None "-57"]
     "%1 will close now to finish the encryption process. Remember that encrypting your wallet cannot fully protect your Bitcoin Confidential from being stolen by malware infecting your computer." true
     ["%1 закроется сейчас, чтобы закончить процесс шифрования. Помните, что шифрование Вашего кошелька не может полностью защитить Ваши Bitcoin Confidential от кражи вредоносными программами, заражающими Ваш компьютер."];
   Message false [Loc None "+4"]
     "IMPORTANT: Any previous backups you have made of your wallet file should be replaced with the newly generated, encrypted wallet file. For security reasons, previous backups of the unencrypted wallet file will become useless as soon as you start using the new, encrypted wallet." true
     ["ВАЖНО: Любые предыдущие резервные копии кошелька должны быть заменены недавно созданным зашифрованным файлом кошелька. Из соображений безопасности предыдущие резервные копии незашифрованного файла кошелька станут бесполезными, как только Вы начнете использовать новый зашифрованный кошелек."];
   Message false [Loc None "+9"; Loc None "+7"; Loc None "+43"; Loc None "+6"]
     "Wallet encryption failed" true
     ["Ошибка шифрования кошелька"];
   Message false [Loc None "-55"]
     "Wallet encryption failed due to an internal error. Your wallet was not encrypted." true
     ["Не удалось зашифровать кошелек из-за внутренней ошибки. Ваш кошелек не был зашифрован."];
   Message false [Loc None "+7"; Loc None "+49"]
     "The supplied passphrases do not match." true
     ["Пароли не совпадают."];
   Message false [Loc None "-37"]
     "Wallet unlock failed" true
     ["Ошибка разблокирования кошелька"];
   Message false [Loc None "+1"; Loc None "+11"; Loc None "+19"]
     "The passphrase entered for the wallet decryption was incorrect." true
     ["Пароль, введенный для расшифровки кошелька, неверен."];
   Message false [Loc None "-20"]
     "Wallet decryption failed" true
     ["Ошибка расшифровки кошелька"];
   Message false [Loc None "+14"]
     "Wallet passphrase was successfully changed." true
     ["Пароль кошелька был успешно изменен."]].

Definition ru_AskPassphraseDialog_2 : list message :=
  [Message false [Loc None "+48"; Loc None "+33"]
     "Warning: The Caps Lock key is on!" true
     ["Предупреждение: включен Caps Lock! "]].

Definition ru_BanTableModel : list message :=
  [Message false [Loc (Some "../bantablemodel.cpp") "+88"]
     "IP/Netmask" true
     ["IP/Netmask"];
   Message false [Loc None "+0"]
     "Banned Until" true
     ["Заблокировано до"]].

Definition ru_BitcoinGUI_1 : list message :=
  [Message false [Loc (Some "../bitcoingui.cpp") "+94"]
     "Wallet" true
     ["Кошелек"];
   Message false [Loc None "+2"]
     "Node" true
     ["Узел"];
   Message false [Loc None "+169"]
     "Overview" true
     ["Обзор"];
   Message false [Loc None "+1"]
     "Show general overview of wallet" true
     ["Показать общий обзор кошелька"];
   Message false [Loc None "+7"]
     "Send" true
     ["Отправить"];
   Message false [Loc None "+1"]
     "Send coins to a Bitcoin Confidential Spending address" true
     ["Отправить монеты на адрес для расходных средств Bitcoin Confidential"];
   Message false [Loc None "+11"]
     "Receive" true
     ["Получить"];
   Message false [Loc None "+1"]
     "Request payments (generates Spending address QR codes and bitcoinc: URIs)" true
     ["Запрос платежей (генерация QR кода и bitcoinc: URIs для адресов для трат)"];
   Message false [Loc None "+11"]
     "Transactions" true
     ["Транзакции"];
   Message false [Loc None "+1"]
     "Browse transaction history" true
     ["Просмотр истории транзакций"];
   Message false [Loc None "+7"]
     "Staking" true
     ["Staking"];
   Message false [Loc None "+1"]
     "Setup staking" true
     ["Настройка staking"];
   Message false [Loc None "+25"]
     "E&amp;xit" true
     ["Выход"];
   Message false [Loc None "+1"]
     "Quit application" true
     ["Закрыть приложение"];
   Message false [Loc None "+3"]
     "&amp;About %1" true
     ["Около %1"];
   Message false [Loc None "+1"]
     "Show information about %1" true
     ["Показать информацию о %1"];
   Message false [Loc None "+3"]
     "About &amp;Qt" true
     ["About &amp;Qt"];
   Message false [Loc None "+1"]
     "Show information about Qt" true
     ["Показать информацию о Qt"];
   Message false [Loc None "+2"]
     "&amp;Options..." true
     ["Настройки"];
   Message false [Loc None "+1"]
     "Modify configuration options for %1" true
     ["Изменение параметров конфигурации для %1"];
   Message false [Loc None "+3"]
     "&amp;Show / Hide" true
     ["Показать / Скрыть"];
   Message false [Loc None "+1"]
     "Show or hide the main Window" true
     ["Показать или скрыть главное окно"];
   Message false [Loc None "+2"]
     "&amp;Encrypt Wallet..." true
     ["Шифрование кошелька"];
   Message false [Loc None "+1"]
     "Encrypt the private keys that belong to your wallet" true
     ["Зашифровать приватные ключи Вашего кошелька"];
   Message false [Loc None "+2"]
     "&amp;Backup Wallet..." true
     ["&amp;Сделать резервную копию"];
   Message false [Loc None "+1"]
     "Backup wallet to another location" true
     ["Сохранить резервную копию в другом месте"];
   Message false [Loc None "+1"]
     "&amp;Change Passphrase..." true
     ["&amp;Изменить пароль"];
   Message false [Loc None "+1"]
     "Change the passphrase used for wallet encryption" true
     ["Измените пароль, используемый для шифрования кошелька"];
   Message false [Loc None "+1"]
     "Sign &amp;message..." true
     ["Подписать сообщение"]].

Definition ru_BitcoinGUI_2 : list message :=
  [Message false [Loc None "+1"]
     "Sign messages with your Bitcoin Confidential addresses to prove you own them" true
     ["Подпишите сообщение с помощью вашего адреса Bitcoin Confidential, чтобы доказать, что вы имеете доступ к выбранному адресу"];
   Message false [Loc None "+1"]
     "&amp;Verify message..." true
     ["Проверить сообщение"];
   Message false [Loc None "+1"]
     "Verify messages to ensure they were signed with specified Bitcoin Confidential addresses" true
     ["Проверьте сообщение, чтобы убедиться, что оно было подписано с использованием указанного адреса Bitcoin Confidential"];
   Message false [Loc None "+2"]
     "&amp;Debug window" true
     ["Окно отладки"];
   Message false [Loc None "+1"]
     "Open debugging and diagnostic console" true
     ["Открытие окна отладки и консоли диагностики"];
   Message false [Loc None "+4"]
     "&amp;Sending addresses..." true
     ["Адреса отправки"];
   Message false [Loc None "+1"]
     "Show the list of used sending addresses and labels" true
     ["Показать список используемых адресов отправки и меток"];
   Message false [Loc None "+1"]
     "&amp;Receiving addresses..." true
     ["Адреса получения"];
   Message false [Loc None "+1"]
     "Show the list of used receiving addresses and labels" true
     ["Показать список используемых адресов получения и меток"];
   Message false [Loc None "+2"]
     "Open &amp;URI..." true
     ["Открыть &amp;URI"];
   Message false [Loc None "+1"]
     "Open a bitcoinc: URI or payment request" true
     ["Открыть bitcoinc: URI или платежный запрос"];
   Message false [Loc None "+2"]
     "&amp;Command-line options" true
     ["Параметры командной строки"];
   Message false [Loc None "+2"]
     "Show the %1 help message to get a list with possible Bitcoin Confidential command-line options" true
     ["Показать %1 справочное сообщение, чтобы получить список с возможными вариантами для командной строки Bitcoin Confidential"];
   Message false [Loc None "+2"]
     "&amp;HD Wallet..." true
     ["HD Кошелек"];
   Message false [Loc None "+45"]
     "&amp;File" true
     ["Файл"];
   Message false [Loc None "+16"]
     "&amp;Settings" true
     ["Настройки"];
   Message false [Loc None "+9"]
     "&amp;Help" true
     ["Помощь"];
   Message false [Loc None "+15"]
     "Tabs toolbar" true
     ["Панель инструментов"];
   Message false [Loc None "+113"]
     "default wallet" true
     ["кошелек по умолчанию"];
   Message false [Loc None "+88"]
     "%1 client" true
     ["%1 клиент"];
   Message true [Loc None "+189"]
     "%n active connection(s) to Bitcoin Confidential network" true
     ["%n активное подключение (ы) к сети Bitcoin Confidential"; "%n активное подключение (ы) к сети Bitcoin Confidential"; "%n активное подключение (ы) к сети Bitcoin Confidential"; "% активных подключений к сети Bitcoin Confidential"];
   Message false [Loc None "+0"]
     "Click to disable network activity." true
     ["Нажмите, чтобы отключить сетевую активность."];
   Message false [Loc None "+2"]
     "Network activity disabled." true
     ["Сетевая активность отключена."];
   Message false [Loc None "+0"]
     "Click to enable network activity again." true
     ["Нажмите, чтобы снова включить сетевую активность."];
   Message false [Loc None "+28"]
     "Syncing Headers (%1%)..." true
     ["Процесс синхронизации заголовков (%1%)..."];
   Message false [Loc None "+26"]
     "Synchronizing with network..." true
     ["Синхронизация с сетью..."];
   Message false [Loc None "+5"]
     "Indexing blocks on disk..." true
     ["Индексирование блоков на диске..."];
   Message false [Loc None "+2"]
     "Processing blocks on disk..." true
     ["Обработка блоков на диске..."];
   Message false [Loc None "+4"]
     "Reindexing blocks on disk..." true
     ["Переиндексирование блоков на диске..."];
   Message false [Loc None "+6"]
     "Connecting to peers..." true
     ["Подключение к peers..."]].

Definition ru_BitcoinGUI_3 : list message :=
  [Message true [Loc None "+9"]
     "Processed %n block(s) of transaction history." true
     ["Обработано%n блок (ы) истории транзакций."; "Обработано%n блок (ы) истории транзакций."; "Обработано%n блок (ы) истории транзакций."; "Обработано %n блоков истории транзакций."];
   Message false [Loc None "+5"]
     "Up to date" true
     ["На данный момент"];
   Message false [Loc None "+19"]
     "%1 behind" true
     ["%1 позади"];
   Message false [Loc None "+5"]
     "Catching up..." true
     ["Выполнение..."];
   Message false [Loc None "+19"]
     "Last received block was generated %1 ago." true
     ["Последний полученный блок был сгенерирован %1 назад."];
   Message false [Loc None "+2"]
     "Transactions after this will not yet be visible." true
     ["Транзакции после этого пока не будут видны."];
   Message false [Loc None "+13"]
     "Bitcoin Confidential" true
     ["Bitcoin Confidential"];
   Message false [Loc None "+14"]
     "Error" true
     ["Ошибка"];
   Message false [Loc None "+3"]
     "Warning" true
     ["Предупреждение"];
   Message false [Loc None "+3"]
     "Information" true
     ["Информация"];
   Message false [Loc None "+116"]
     "Date: %1
" true
     ["Дата: %1"];
   Message false [Loc None "+1"]
     "Amount: %1
" true
     ["Сумма: %1"];
   Message false [Loc None "+2"]
     "Wallet: %1
" true
     ["Кошелек: %1"];
   Message false [Loc None "+2"]
     "Type: %1
" true
     ["Тип: %1"];
   Message false [Loc None "+2"]
     "Label: %1
" true
     ["Метка: %1"];
   Message false [Loc None "+2"]
     "Address: %1
" true
     ["Адрес: %1"];
   Message false [Loc None "+1"]
     "Sent transaction" true
     ["Отправленная транзакция"];
   Message false [Loc None "+0"]
     "Incoming transaction" true
     ["Входящие транзакции"];
   Message false [Loc None "+52"]
     "HD key generation is &lt;b&gt;enabled&lt;/b&gt;" true
     ["Генерация ключей HD кошелька &lt;b&gt;включена&lt;/b&gt;"];
   Message false [Loc None "+0"]
     "HD key generation is &lt;b&gt;disabled&lt;/b&gt;" true
     ["Генерация ключей HD кошелька &lt;b&gt;отключена&lt;/b&gt;"];
   Message false [Loc None "+13"]
     "Wallet is &lt;b&gt;not encrypted&lt;/b&gt;. Click the opened lock to encrypt it." true
     ["Кошелек &lt;b&gt;не&lt;/b&gt;зашифрован. Нажмите на значок открытого замка, чтобы зашифровать его."];
   Message false [Loc None "+8"]
     "Wallet is &lt;b&gt;encrypted&lt;/b&gt; and currently &lt;b&gt;unlocked&lt;/b&gt;" true
     ["Кошелек &lt;b&gt;зашифрован&lt;/b&gt; и в настоящее время &lt;b&gt;разблокирован&lt;/b&gt;"];
   Message false [Loc None "+8"]
     "Wallet is &lt;b&gt;encrypted&lt;/b&gt; and currently &lt;b&gt;unlocked&lt;/b&gt; for staking only" true
     ["Кошелек &lt;b&gt;зашифрован&lt;/b&gt; и в настоящее время &lt;b&gt;разблокирован&lt;/b&gt; только для для Staking"];
   Message false [Loc None "+8"]
     "Wallet is &lt;b&gt;encrypted&lt;/b&gt; and currently &lt;b&gt;locked&lt;/b&gt;" true
     ["Кошелек &lt;b&gt;зашифрован&lt;/b&gt; и в настоящее время &lt;b&gt;заблокирован&lt;/b&gt;"];
   Message false [Loc None "+58"]
     "Proxy is &lt;b&gt;enabled&lt;/b&gt;: %1" true
     ["Прокси &lt;b&gt;включен:&lt;/b&gt;%1"];
   Message false [Loc None "+28"]
     "Tor is &lt;b&gt;enabled&lt;/b&gt;" true
     ["Tor &lt;b&gt;включен&lt;/b&gt;"];
   Message false [Loc None "+3"]
     "Tor is &lt;b&gt;enabled&lt;/b&gt;, but its not the only network used. Use only onlynet=onion." true
     ["Tor &lt;b&gt;включен,&lt;/b&gt;но это не единственная используемая сеть. Используйте параметр onlynet=onion."];
   Message false [Loc None "+3"]
     "Tor is &lt;b&gt;disabled&lt;/b&gt;. To enhance your privacy setup consider using tor by setting &lt;b&gt;onlynet=onion&lt;/b&gt; in your &lt;b&gt;bitcoinc.conf&lt;/b&gt;." true
     ["Tor &lt;b&gt;отключен.&lt;/b&gt; Для повышения вашей конфиденциальности вы можете активировать tor, установив параметр &lt;b&gt;onlynet=onion&lt;/b&gt; в вашем файле &lt;b&gt;bitcoinc.conf&lt;/b&gt;."]].

Definition ru_BitcoinGUI_4 : list message :=
  [Message false [Loc (Some "../bitcoin.cpp") "+528"]
     "A fatal error occurred. Bitcoin Confidential can no longer continue safely and will quit." true
     ["Произошла фатальная ошибка. Bitcoin Confidential больше не может безопасно продолжать работу и будет закрыт."]].

Definition ru_CoinControlDialog_1 : list message :=
  [Message false [Loc (Some "../forms/coincontroldialog.ui") "+14"]
     "Coin Selection" true
     ["Выбор монет"];
   Message false [Loc None "+34"]
     "Quantity:" true
     ["Количество:"];
   Message false [Loc None "+29"]
     "Bytes:" true
     ["Байт:"];
   Message false [Loc None "+45"]
     "Amount:" true
     ["Сумма:"];
   Message false [Loc None "+32"]
     "Dust:" true
     ["Пыль:"];
   Message false [Loc None "+48"]
     "Fee:" true
     ["Комиссия:"];
   Message false [Loc None "+45"]
     "After Fee:" true
     ["После комиссии:"];
   Message false [Loc None "+32"]
     "Change:" true
     ["Изменить:"];
   Message false [Loc None "+57"]
     "Standard" true
     ["Стандартный"];
   Message false [Loc None "+5"]
     "Anon" true
     ["Anon"];
   Message false [Loc None "+14"]
     "Show all" true
     ["Показать все"];
   Message false [Loc None "+13"]
     "(un)select all" true
     ["(не) выбрать все"];
   Message false [Loc None "+16"]
     "Tree mode" true
     ["Режим древа"];
   Message false [Loc None "+13"]
     "List mode" true
     ["Режим списка"];
   Message false [Loc None "+74"]
     "Amount" true
     ["Сумма"];
   Message false [Loc None "+8"]
     "Received with label" true
     ["Получено с меткой"];
   Message false [Loc None "+5"]
     "Received with address" true
     ["Получено с адресом"];
   Message false [Loc None "+5"]
     "Date" true
     ["Дата"];
   Message false [Loc None "+5"]
     "Confirmations" true
     ["Подтверждений"];
   Message false [Loc None "+3"]
     "Confirmed" true
     ["Подтверждено"];
   Message false [Loc (Some "../coincontroldialog.cpp") "+73"]
     "Copy address" true
     ["Копировать адрес"];
   Message false [Loc None "+1"]
     "Copy label" true
     ["Копировать метку"];
   Message false [Loc None "+1"; Loc None "+26"]
     "Copy amount" true
     ["Копировать сумму"];
   Message false [Loc None "-25"]
     "Copy transaction ID" true
     ["Копировать ID транзакции"];
   Message false [Loc None "+1"]
     "Lock unspent" true
     ["Заблокировать неизрасходованное"];
   Message false [Loc None "+1"]
     "Unlock unspent" true
     ["Разблокировать неизрасходованное"];
   Message false [Loc None "+22"]
     "Copy quantity" true
     ["Копировать количество"];
   Message false [Loc None "+2"]
     "Copy fee" true
     ["Копировать комиссию"];
   Message false [Loc None "+1"]
     "Copy after fee" true
     ["Копировать после комиссии"]].

Definition ru_CoinControlDialog_2 : list message :=
  [Message false [Loc None "+1"]
     "Copy bytes" true
     ["Копировать байты"];
   Message false [Loc None "+1"]
     "Copy dust" true
     ["Копировать пыль"];
   Message false [Loc None "+1"]
     "Copy change" true
     ["Копировать изменения"];
   Message false [Loc None "+340"]
     "(%1 locked)" true
     ["(%1 заблокирован)"];
   Message false [Loc None "+161"]
     "yes" true
     ["Да"];
   Message false [Loc None "+0"]
     "no" true
     ["Нет"];
   Message false [Loc None "+14"]
     "This label turns red if any recipient receives an amount smaller than the current dust threshold." true
     ["Эта метка становится красной, если получатель получает сумму меньше текущего порога пыли."];
   Message false [Loc None "+5"]
     "Can vary +/- %1 satoshi(s) per input." true
     ["Может варьироваться +/- %1 satoshi(s) per input."];
   Message false [Loc None "+47"]
     "Hide immature" true
     ["Скрыть незрелые"];
   Message false [Loc None "+2"]
     "Hide locked" true
     ["Скрыть заблокированные"];
   Message false [Loc None "+6"]
     "Show immature" true
     ["Показать незрелые"];
   Message false [Loc None "+2"]
     "Show locked" true
     ["Показать заблокированные"];
   Message false [Loc None "+26"; Loc None "+66"; Loc None "+11"]
     "(no label)" true
     ["(без метки)"];
   Message false [Loc None "-19"]
     "change from %1 (%2)" true
     ["изменить с %1 (%2)"];
   Message false [Loc None "+1"; Loc None "+20"]
     "(change)" true
     ["(изменить)"];
   Message false [Loc None "-17"]
     "spending from %1 (%2)" true
     ["потратить с %1 (%2)"]].

Definition ru_EditAddressDialog : list message :=
  [Message false [Loc (Some "../forms/editaddressdialog.ui") "+14"]
     "Edit Address" true
     ["Редактировать адрес"];
   Message false [Loc None "+11"]
     "&amp;Label" true
     ["&amp;Метка"];
   Message false [Loc None "+10"]
     "The label associated with this address list entry" true
     ["Метка, связанная с этой записью в списке адресов"];
   Message false [Loc None "+7"]
     "&amp;Address" true
     ["&amp;Адрес"];
   Message false [Loc None "+10"]
     "The address associated with this address list entry. This can only be modified for sending addresses." true
     ["Адрес, связанный с этой записью списка адресов. Он может быть изменен только для адреса отправки."];
   Message false [Loc (Some "../editaddressdialog.cpp") "+29"]
     "New receiving address" true
     ["Новый адрес получения"];
   Message false [Loc None "+5"]
     "New sending address" true
     ["Новый адрес отправки"];
   Message false [Loc None "+3"]
     "New Stake address" true
     ["Новый Stake адрес"];
   Message false [Loc None "+5"]
     "New ColdStake address" true
     ["Новый ColdStake адрес"];
   Message false [Loc None "+5"]
     "Edit receiving address" true
     ["Редактировать адрес получения"];
   Message false [Loc None "+4"]
     "Edit sending address" true
     ["Редактировать адрес отправки"];
   Message false [Loc None "+87"]
     "The entered address &quot;%1&quot; is not a valid Bitcoin Confidential address." true
     ["Введенный адрес &quot;%1&quot; не является действительным адресом Bitcoin Confidential."];
   Message false [Loc None "+10"]
     "Could not unlock wallet." true
     ["Не удалось разблокировать кошелек."];
   Message false [Loc None "+5"]
     "New key generation failed." true
     ["New key generation failed."];
   Message false [Loc None "+18"]
     "Address &quot;%1&quot; already exists as a receiving address with label &quot;%2&quot; and so cannot be added as a sending address." true
     ["Адрес &quot;%1&quot; уже существует как адрес получения с меткой &quot;%2&quot; и поэтому не может быть добавлен в качестве адреса отправки."];
   Message false [Loc None "+5"]
     "The entered address &quot;%1&quot; is already in the address book with label &quot;%2&quot;." true
     ["Введенный адрес &quot;%1&quot; уже есть в адресной книге с меткой &quot;%2&quot;."]].

Definition ru_FreespaceChecker : list message :=
  [Message false [Loc (Some "../intro.cpp") "+78"]
     "A new data directory will be created." true
     ["Будет создан новый каталог данных."];
   Message false [Loc None "+22"]
     "name" true
     ["имя"];
   Message false [Loc None "+2"]
     "Directory already exists. Add %1 if you intend to create a new directory here." true
     ["Каталог уже существует. Добавьте %1, если вы собираетесь создать новый каталог здесь."];
   Message false [Loc None "+3"]
     "Path already exists, and is not a directory." true
     ["Путь уже существует, и не является каталогом данных."];
   Message false [Loc None "+7"]
     "Cannot create data directory here." true
     ["Не удается создать каталог данных здесь."]].

Definition ru_HelpMessageDialog : list message :=
  [Message false [Loc (Some "../utilitydialog.cpp") "+41"]
     "version" true
     ["Версия"];
   Message false [Loc None "+5"; Loc None "+2"]
     "(%1-bit)" true
     ["(%1-bit)"];
   Message false [Loc None "+5"]
     "About %1" true
     ["Около %1"];
   Message false [Loc None "+19"]
     "Command-line options" true
     ["Параметры командной строки"]].

Definition ru_Intro : list message :=
  [Message false [Loc (Some "../forms/intro.ui") "+14"]
     "Welcome" true
     ["Добро Пожаловать"];
   Message false [Loc None "+9"]
     "Welcome to %1." true
     ["Добро Пожаловать в %1."];
   Message false [Loc None "+26"]
     "As this is the first time the program is launched, you can choose where %1 will store its data." true
     ["Поскольку программа была запущена впервые, вы можете выбрать, где %1 будет хранить свои данные."];
   Message false [Loc None "+17"]
     "Use the default data directory" true
     ["Использовать каталог данных по умолчанию"];
   Message false [Loc None "+7"]
     "Use a custom data directory:" true
     ["Использовать собственный каталог данных:"];
   Message false [Loc None "+140"]
     "When you click OK, %1 will begin to download and process the full %4 block chain (%2GB) starting with the earliest transactions in %3 when %4 initially launched." true
     ["При нажатии на OK, %1 начнет загружать и обрабатывать полный %4 блокчейн (%2GB), начиная с самых ранних транзакций в %3, при %4 выполнении первого запуска кошелька."];
   Message false [Loc None "+10"]
     "This initial synchronisation is very demanding, and may expose hardware problems with your computer that had previously gone unnoticed. Each time you run %1, it will continue downloading where it left off." true
     ["Эта первоначальная синхронизация может оказаться сложной и выявить проблемы с аппаратным оборудованием вашего компьютера, которые ранее оставались незамеченными. Каждый раз, когда вы будете запускать %1, он будет продолжать загрузку данных с места предыдущей остановки."];
   Message false [Loc None "+10"]
     "If you have chosen to limit block chain storage (pruning), the historical data must still be downloaded and processed, but will be deleted afterward to keep your disk usage low." true
     ["Если вы решили ограничить место для хранения блокчейна (урезать), данные истории транзакций все равно должны быть загружены и обработаны, но затем будут удалены, чтобы сохранить использование диска на низком уровне."];
   Message false [Loc (Some "../intro.cpp") "+20"]
     "Bitcoin Confidential" true
     ["Bitcoin Confidential"];
   Message false [Loc None "+6"]
     "At least %1 GB of data will be stored in this directory, and it will grow over time." true
     ["По крайней мере % 1 ГБ данных будет храниться в этом каталоге, количество данных будет увеличиваться со временем."];
   Message false [Loc None "+5"]
     "Approximately %1 GB of data will be stored in this directory." true
     ["Примерно %1 ГБ данных будет храниться в этом каталоге."];
   Message false [Loc None "+8"]
     "%1 will download and store a copy of the Bitcoin Confidential block chain." true
     ["%1 выполнит загрузку и сохранит копию блокчейна Bitcoin Confidential."];
   Message false [Loc None "+2"]
     "The wallet will also be stored in this directory." true
     ["Кошелек также будет сохранен в выбранном каталоге."];
   Message false [Loc None "+73"]
     "Error: Specified data directory &quot;%1&quot; cannot be created." true
     ["Ошибка: Не удается создать выбранный каталог данных &quot;%1&quot; ."];
   Message false [Loc None "+27"]
     "Error" true
     ["Ошибка"];
   Message true [Loc None "+9"]
     "%n GB of free space available" true
     ["%n ГБ свободного свободного свободного пространства доступны"; "%n ГБ свободного свободного свободного пространства доступны"; "%n ГБ свободного свободного свободного пространства доступны"; "%n ГБ свободного места доступно"];
   Message true [Loc None "+3"]
     "(of %n GB needed)" true
     ["(из необходимости 0,0 гб)"; "(из необходимости 0,0 гб)"; "(из необходимости 0,0 гб)"; "(при требуемых %n ГБ)"]].

Definition ru_MnemonicDialog_1 : list message :=
  [Message false [Loc (Some "../forms/mnemonicdialog.ui") "+14"]
     "HD Wallet Setup" true
     ["Настройка HD Кошелька"];
   Message false [Loc None "+11"]
     "Generate a mnemonic" true
     ["Сгенерировать фразу"];
   Message false [Loc None "+10"]
     "Create the wallet" true
     ["Создать кошелек"];
   Message false [Loc None "+22"]
     "Write down the Recovery Phrase/Mnemonic below or generate a new one with the desired settings by clicking &quot;NEW MNEMONIC&quot;. Store this phrase in a safe place. The clipboard will be cleared to ensure you have it recorded.  If you are recovering a backup, enter the Recovery Phrase/Mnemonic on the next screen.  Click the &quot;NEXT&quot; button to continue with the wallet creation." true
     ["Запишите фразу восстановления/мнемоническую фразу ниже или создайте новую с желаемыми настройками, нажав кнопку &quot;НОВАЯ ФРАЗА&quot;. Храните вашу фразу только в безопасном месте. Буфер обмена будет очищен, чтобы убедиться, что вы записали её.  Если вы восстанавливаете резервную копию кошелька, введите фразу восстановления/мнемоническую фразу на соседнем экране во вкладке импорта. Нажмите кнопку &quot;ДАЛЬШЕ&quot;, чтобы продолжить создание кошелька."];
   Message false [Loc None "+36"]
     "Bytes of Entropy " true
     ["Байты энтропии"];
   Message false [Loc None "+7"]
     "Language" true
     ["Язык"];
   Message false [Loc None "+45"]
     "Entropy is an advanced feature. Your mnemonic may be insecure if this feature is used incorrectly." true
     ["Энтропия является продвинутой функцией . Это может быть небезопасно для вашего кошелька, если вы используете её неверным образом."];
   Message false [Loc None "+22"]
     "Select your language" true
     ["Выберите язык"];
   Message false [Loc None "+4"]
     "English" true
     ["английский"];
   Message false [Loc None "+5"]
     "French" true
     ["французский"];
   Message false [Loc None "+5"]
     "Japanese" true
     ["японский"];
   Message false [Loc None "+5"]
     "Spanish" true
     ["испанский"];
   Message false [Loc None "+5"]
     "Chinese_s" true
     ["китайский язык_s"];
   Message false [Loc None "+5"]
     "Chinese_t" true
     ["китайский язык_t"];
   Message false [Loc None "+39"]
     "New mnemonic" true
     ["Новая фраза"];
   Message false [Loc None "+19"]
     "Next" true
     ["Дальше"];
   Message false [Loc None "+19"; Loc None "+198"]
     "Cancel" true
     ["Отмена"];
   Message false [Loc None "-148"]
     "Recovery Passphrase " true
     ["Пароль для восстановления"];
   Message false [Loc None "+7"]
     "Import Chain" true
     ["Импорт блокчейна"];
   Message false [Loc None "+13"]
     "Warning" true
     ["Предупреждение"];
   Message false [Loc None "+33"]
     "Enter a passphrase to protect your Recovery Phrase (optional)" true
     ["Введите пароль для восстановления, чтобы защитить фразу восстановления (необязательно)"];
   Message false [Loc None "+13"]
     "Only needed if you&apos;re importing " true
     ["Необходимо только при импорте"];
   Message false [Loc None "+16"]
     "Please ensure you backup your Recovery Phrase and Passphrase - they are not recoverable!" true
     ["Пожалуйста, убедитесь, что вы сделали резервную копию вашей фразы восстановления и пароля для восстановления - они не могут быть изменены при их потере!"];
   Message false [Loc None "+28"]
     "Back" true
     ["Назад"];
   Message false [Loc None "+19"; Loc (Some "../mnemonicdialog.cpp") "+145"]
     "Import" true
     ["Импорт"];
   Message false [Loc (Some "../mnemonicdialog.cpp") "-102"]
     "Optionally enter a passphrase to protect the Recovery Phrase. (This is not a wallet password.)" true
     ["Дополнительно введите пароль для восстановления для защиты фразы восстановления. (Это не пароль вашего кошелька.)"];
   Message false [Loc None "+2"]
     "Enter the Recovery Phrase/Mnemonic." true
     ["Введите фразу восстановления/мнемоническую фразу."];
   Message false [Loc None "+26"]
     "Create wallet" true
     ["Создать кошелек"];
   Message false [Loc None "+16"]
     "Generate a new Recovery Phrase/Mnemonic with the desired settings by clicking &quot;NEW MNEMONIC&quot;." true
     ["Создайте новую фразу восстановления/мнемоническую фразу с желаемыми настройками, нажав кнопку &quot;НОВАЯ ФРАЗА&quot;."]].

Definition ru_MnemonicDialog_2 : list message :=
  [Message false [Loc None "+5"]
     "Import a mnemonic" true
     ["Импорт фразы"];
   Message false [Loc None "+28"]
     "Confirm wallet creation cancel" true
     ["Подтвердите отмену создания кошелька"];
   Message false [Loc None "+1"]
     "Are you sure you want to cancel the wallet creation?" true
     ["Вы уверены, что хотите отменить создание кошелька?"];
   Message false [Loc None "+0"]
     "This is only recommended for advanced users to import with custom settings in the debug console or with the RPC interface." true
     ["Импорт с пользовательскими настройками в консоли отладки или с помощью RPC интерфейса рекомендован только для продвинутых пользователей!"]].

Definition ru_ModalOverlay : list message :=
  [Message false [Loc (Some "../forms/modaloverlay.ui") "+14"]
     "Form" true
     ["Форма"];
   Message false [Loc None "+122"]
     "Recent transactions may not yet be visible, and therefore your wallet&apos;s balance might be incorrect. This information will be correct once your wallet has finished synchronizing with the Bitcoin Confidential network, as detailed below." true
     ["Последние транзакции могут быть еще не видны, и поэтому баланс вашего кошелька может быть неверным. Эта информация будет верной, как только ваш кошелек закончит синхронизацию с сетью Bitcoin Confidential, как описано ниже."];
   Message false [Loc None "+19"]
     "Attempting to spend coins that are affected by not-yet-displayed transactions will not be accepted by the network." true
     ["Попытка потратить монеты, которые затронуты еще не отображаемыми транзакциями, не будет принята сетью."];
   Message false [Loc None "+63"]
     "Number of blocks left" true
     ["Количество оставшихся блоков"];
   Message false [Loc None "+7"; Loc None "+26"; Loc (Some "../modaloverlay.cpp") "+140"]
     "Unknown..." true
     ["Неизвестно..."];
   Message false [Loc None "-13"]
     "Last block time" true
     ["Время последнего блока"];
   Message false [Loc None "+26"]
     "Progress" true
     ["Прогресс"];
   Message false [Loc None "+34"]
     "Progress increase per hour" true
     ["Увеличение прогресса в час"];
   Message false [Loc None "+7"; Loc None "+20"]
     "calculating..." true
     ["расчет..."];
   Message false [Loc None "-7"]
     "Estimated time left until synced" true
     ["Ориентировочное время, оставшееся до полной синхронизации"];
   Message false [Loc None "+40"]
     "Hide" true
     ["Скрыть"];
   Message false [Loc (Some "../modaloverlay.cpp") "-1"]
     "Unknown. Syncing Headers (%1)..." true
     ["Неизвестно. Синхронизация заголовков блоков (%1)..."]].

Definition ru_OpenURIDialog : list message :=
  [Message false [Loc (Some "../forms/openuridialog.ui") "+14"]
     "Open URI" true
     ["Открыть URI"];
   Message false [Loc None "+6"]
     "Open payment request from URI or file" true
     ["Открытый платежный запрос по URI или через файл"];
   Message false [Loc None "+9"]
     "URI:" true
     ["URI:"];
   Message false [Loc None "+10"]
     "Select payment request file" true
     ["Выберите файл запроса платежа"];
   Message false [Loc (Some "../openuridialog.cpp") "+45"]
     "Select payment request file to open" true
     ["Выберите файл запроса платежа для его открытия"]].

Definition ru_OptionsDialog_1 : list message :=
  [Message false [Loc (Some "../forms/optionsdialog.ui") "+14"]
     "Options" true
     ["Параметры"];
   Message false [Loc None "+14"]
     "&amp;Main" true
     ["Основное"];
   Message false [Loc None "+13"]
     "W&amp;allet" true
     ["Кошелек"];
   Message false [Loc None "+13"]
     "&amp;Network" true
     ["Сеть"];
   Message false [Loc None "+13"]
     "&amp;Window" true
     ["Окно"];
   Message false [Loc None "+13"]
     "&amp;Display" true
     ["Интерфейс"];
   Message false [Loc None "+22"]
     "Automatically start %1 after logging in to the system." true
     ["Автоматически запуск %1 после входа в систему."];
   Message false [Loc None "+3"]
     "&amp;Start %1 on system login" true
     ["&amp;Запуск %1 при входе в систему"];
   Message false [Loc None "+22"]
     "Disables some advanced features but all blocks will still be fully validated. Reverting this setting requires re-downloading the entire blockchain. Actual disk usage may be somewhat higher." true
     ["Отключает некоторые продвинутые функции, но все блоки по-прежнему будут полностью проверены. Для возврата этой настройки требуется повторная загрузка всего блокчейна. Фактическое использование диска может быть несколько больше."];
   Message false [Loc None "+3"]
     "Prune &amp;block storage to" true
     ["Обрезать хранилище до"];
   Message false [Loc None "+17"]
     "GB" true
     ["ГБ"];
   Message false [Loc None "+25"]
     "Reverting this setting requires re-downloading the entire blockchain." true
     ["Для возврата этой настройки требуется повторная загрузка всего блокчейна."];
   Message false [Loc None "+12"]
     "Size of &amp;database cache" true
     ["Размер кэша базы данных"];
   Message false [Loc None "+23"]
     "MB" true
     ["МБ"];
   Message false [Loc None "+27"]
     "Number of script &amp;verification threads" true
     ["Number of script &amp;verification threads"];
   Message false [Loc None "+19"]
     "(0 = auto, &lt;0 = leave that many cores free)" true
     ["(0 = auto, &lt;0 = leave that many cores free)&lt;0 = leave that many cores free) ==&quot;&quot; leave=&quot;&quot; that=&quot;&quot; many=&quot;&quot; cores=&quot;&quot;&gt;&lt;/0 = leave that many cores free)&gt;"];
   Message false [Loc None "+39"]
     "Expert" true
     ["Эксперт"];
   Message false [Loc None "+6"]
     "Whether to show coin control features or not." true
     ["Показывать ли функцию контроля монет."];
   Message false [Loc None "+3"]
     "Enable coin &amp;control features" true
     ["Включить функцию контроля монет (coin control)"];
   Message false [Loc None "+7"]
     "If you disable the spending of unconfirmed change, the change from a transaction cannot be used until that transaction has at least one confirmation. This also affects how your balance is computed." true
     ["Если вы отключите расходование неподтвержденной сдачи, сдача с транзакции не может быть использована до тех пор, пока эта транзакция не будет иметь хотя бы одно подтверждение. Это также влияет на то, как вычисляется баланс."];
   Message false [Loc None "+3"]
     "&amp;Spend unconfirmed change" true
     ["Тратить неподтвержденную сдачу"];
   Message false [Loc None "+7"]
     "Display notification dialog for incoming stake transactions." true
     ["Отображение уведомлений для входящих stake транзакций."];
   Message false [Loc None "+3"]
     "&amp;Show incoming stake notifications" true
     ["Показывать уведомления о stake транзакциях"];
   Message false [Loc None "+27"]
     "Automatically open the Bitcoin Confidential client port on the router. This only works when your router supports UPnP and it is enabled." true
     ["Автоматически открывать порт Bitcoin Confidential клиента на маршрутизаторе. Это работает только тогда, когда ваш маршрутизатор поддерживает UPnP и это активно."];
   Message false [Loc None "+3"]
     "Map port using &amp;UPnP" true
     ["Включить использование UPnP"];
   Message false [Loc None "+7"]
     "Accept connections from outside." true
     ["Принимать соединения извне."];
   Message false [Loc None "+3"]
     "Allow incomin&amp;g connections" true
     ["Разрешить входящие соединения"];
   Message false [Loc None "+7"]
     "Connect to the Bitcoin Confidential network through a SOCKS5 proxy." true
     ["Подключаться к сети Bitcoin Confidential через прокси-сервер SOCKS5."];
   Message false [Loc None "+3"]
     "&amp;Connect through SOCKS5 proxy (default proxy):" true
     ["Подключаться через прокси SOCKS5 (прокси по умолчанию):"]].

Definition ru_OptionsDialog_2 : list message :=
  [Message false [Loc None "+9"; Loc None "+193"]
     "Proxy &amp;IP:" true
     ["Прокси &amp;IP:"];
   Message false [Loc None "-168"; Loc None "+193"]
     "IP address of the proxy (e.g. IPv4: 127.0.0.1 / IPv6: ::1)" true
     ["IP-адрес прокси (например, IPv4: 127.0.0.1 / IPv6: ::1)"];
   Message false [Loc None "-183"; Loc None "+193"]
     "&amp;Port:" true
     ["Порт:"];
   Message false [Loc None "-168"; Loc None "+193"]
     "Port of the proxy (e.g. 9050)" true
     ["Порт прокси (например 9050)"];
   Message false [Loc None "-166"]
     "Used for reaching peers via:" true
     ["Использовать для peers через:"];
   Message false [Loc None "+13"; Loc None "+23"; Loc None "+23"]
     "Shows if the supplied default SOCKS5 proxy is used to reach peers via this network type." true
     ["Показывает, используется ли прокси SOCKS5 по умолчанию для peers через этот тип сети."];
   Message false [Loc None "-36"]
     "IPv4" true
     ["IPv4"];
   Message false [Loc None "+23"]
     "IPv6" true
     ["IPv6"];
   Message false [Loc None "+23"]
     "Tor" true
     ["Tor"];
   Message false [Loc None "+25"]
     "Connect to the Bitcoin Confidential network through a separate SOCKS5 proxy for Tor hidden services." true
     ["Подключайтесь к сети Bitcoin Confidential через отдельный прокси-сервер SOCKS5 для скрытых сервисов Tor."];
   Message false [Loc None "+3"]
     "Use separate SOCKS&amp;5 proxy to reach peers via Tor hidden services:" true
     ["Используйте отдельный прокси-сервер SOCKS&amp;5 для получения peers через скрытые сервисы Tor:"];
   Message false [Loc None "+111"]
     "Hide the icon from the system tray." true
     ["Скрыть значок от системного трея."];
   Message false [Loc None "+3"]
     "&amp;Hide tray icon" true
     ["Скрыть из трея"];
   Message false [Loc None "+7"]
     "Show only a tray icon after minimizing the window." true
     ["Показывать значок в трее только после сворачивания окна."];
   Message false [Loc None "+3"]
     "&amp;Minimize to the tray instead of the taskbar" true
     ["Показывать в трее вместо панели задач"];
   Message false [Loc None "+7"]
     "Minimize instead of exit the application when the window is closed. When this option is enabled, the application will be closed only after selecting Exit in the menu." true
     ["Сворачивать в трее вместо выхода из приложения при закрытии окна. Когда эта опция включена, приложение можно закрыть, нажав на кнопку &quot;Выход&quot; из меню."];
   Message false [Loc None "+3"]
     "M&amp;inimize on close" true
     ["Сворачивать вместо закрытия"];
   Message false [Loc None "+26"]
     "User Interface &amp;language:" true
     ["Язык:"];
   Message false [Loc None "+22"]
     "The user interface language can be set here. This setting will take effect after restarting %1." true
     ["Язык пользовательского интерфейса можно выбрать здесь. Эта настройка вступит в силу после перезапуска %1."];
   Message false [Loc None "+11"]
     "&amp;Unit to show amounts in:" true
     ["Единица для отображения сумм в:"];
   Message false [Loc None "+22"]
     "Choose the default subdivision unit to show in the interface and when sending coins." true
     ["Выберите единицу деления по умолчанию для отображения в интерфейсе кошелька и при отправке монет."];
   Message false [Loc None "+11"; Loc None "+22"]
     "Third party URLs (e.g. a block explorer) that appear in the transactions tab as context menu items. %s in the URL is replaced by transaction hash. Multiple URLs are separated by vertical bar |." true
     ["URL-адреса третьих сторон (например, обозревателя блоков), которые отображаются во вкладке транзакций в качестве элементов контекстного меню. %s в URL-адресе заменяется хэшом транзакций. Несколько URL-адресов разделены вертикальной панелью."];
   Message false [Loc None "-19"]
     "&amp;Third party transaction URLs" true
     ["URL-адреса транзакций третьих сторон"];
   Message false [Loc None "+50"]
     "Active command-line options that override above options:" true
     ["Активные параметры командной строки, которые влияют на различные параметры:"];
   Message false [Loc None "+45"]
     "Open the %1 configuration file from the working directory." true
     ["Откройте файл конфигурации %1 из директории кошелька."];
   Message false [Loc None "+3"]
     "Open Configuration File" true
     ["Открыть файл конфигурации"];
   Message false [Loc None "+10"]
     "Reset all client options to default." true
     ["Сбросить все параметры клиента по умолчанию."];
   Message false [Loc None "+3"]
     "&amp;Reset Options" true
     ["Параметры перезагрузки"]].

Definition ru_OptionsDialog_3 : list message :=
  [Message false [Loc None "+80"]
     "&amp;OK" true
     ["&amp;OK"];
   Message false [Loc None "+13"]
     "&amp;Cancel" true
     ["Отмена"];
   Message false [Loc (Some "../optionsdialog.cpp") "+109"]
     "default" true
     ["По умолчанию"];
   Message false [Loc None "+56"]
     "none" true
     ["none"];
   Message false [Loc None "+82"]
     "Confirm options reset" true
     ["Подтвердить сброс параметров"];
   Message false [Loc None "+1"; Loc None "+60"]
     "Client restart required to activate changes." true
     ["Будет выполнена перезагрузка клиента для активации изменений."];
   Message false [Loc None "-60"]
     "Client will be shut down. Do you want to proceed?" true
     ["Клиент будет закрыт. Вы хотите продолжить?"];
   Message false [Loc None "+15"]
     "Configuration options" true
     ["Параметры конфигурации"];
   Message false [Loc None "+1"]
     "The configuration file is used to specify advanced user options which override GUI settings. Additionally, any command-line options will override this configuration file." true
     ["Файл конфигурации используется для указания расширенных пользовательских параметров, которые изменяют настройки GUI интерфейса. Кроме того, любые параметры командной строки изменяют этот файл конфигурации."];
   Message false [Loc None "+5"]
     "Error" true
     ["Ошибка"];
   Message false [Loc None "+0"]
     "The configuration file could not be opened." true
     ["Файл конфигурации не может быть открыт."];
   Message false [Loc None "+43"]
     "This change would require a client restart." true
     ["Это изменение потребует перезагрузки клиента."];
   Message false [Loc None "+28"]
     "The supplied proxy address is invalid." true
     ["Данный прокси-адрес недействителен."]].

Definition ru_OverviewPage : list message :=
  [Message false [Loc (Some "../forms/overviewpage.ui") "+14"]
     "Form" true
     ["Форма"];
   Message false [Loc None "+43"]
     "Bitcoin Confidential Core" true
     ["Bitcoin Confidential Core"];
   Message false [Loc None "+38"; Loc None "+114"; Loc None "+210"]
     "Pending" true
     ["Ожидающие"];
   Message false [Loc None "-308"]
     "Spending" true
     ["Расходные средства"];
   Message false [Loc None "+108"]
     "Watch-only" true
     ["Только для просмотра"];
   Message false [Loc None "+73"; Loc None "+191"]
     "Available" true
     ["Доступно"];
   Message false [Loc None "-181"]
     "Spendable" true
     ["Доступные для расходов"];
   Message false [Loc None "+41"]
     "Staking" true
     ["Staking"];
   Message false [Loc None "+130"]
     "Immature" true
     ["Незрелые"];
   Message false [Loc None "+86"]
     "Total" true
     ["Итого"];
   Message false [Loc None "+90"]
     "Recent transactions" true
     ["Последние транзакции"];
   Message false [Loc None "+19"]
     "The displayed information may be out of date. Your wallet automatically synchronizes with the Bitcoin Confidential network after a connection is established, but this process has not completed yet." true
     ["Отображаемая информация может быть устаревшей. Ваш кошелек автоматически синхронизируется с сетью Bitcoin Confidential после установки соединения, но этот процесс еще не завершен."]].

Definition ru_PaymentServer : list message :=
  [Message false [Loc (Some "../paymentserver.cpp") "+317"; Loc None "+215"; Loc None "+42"; Loc None "+110"; Loc None "+14"; Loc None "+18"]
     "Payment request error" true
     ["Ошибка запроса платежа"];
   Message false [Loc None "-398"]
     "Cannot start bitcoinc: click-to-pay handler" true
     ["Не удается запустить bitcoinc: нажмите, чтобы выполнить вручную"];
   Message false [Loc None "+82"; Loc None "+21"; Loc None "+13"; Loc None "+7"]
     "URI handling" true
     ["Обработка URI"];
   Message false [Loc None "-41"]
     "&apos;bitcoin://&apos; is not a valid URI. Use &apos;bitcoin:&apos; instead." true
     ["&apos;bitcoin://&apos; не является действительным URI. Вместо этого используйте &apos;bitcoin:&apos;"];
   Message false [Loc None "+22"]
     "Payment request fetch URL is invalid: %1" true
     ["URL запроса получения платежа недействителен: %1"];
   Message false [Loc None "+12"]
     "Invalid payment address %1" true
     ["Недействительный платежный адрес %1"];
   Message false [Loc None "+8"]
     "URI cannot be parsed! This can be caused by an invalid Bitcoin Confidential address or malformed URI parameters." true
     ["URI не может быть обработан! Это может быть вызвано недействительным адресом Bitcoin Confidential или неправильными параметрами URI."];
   Message false [Loc None "+13"]
     "Payment request file handling" true
     ["Обработка файла запроса платежа"];
   Message false [Loc None "+1"]
     "Payment request file cannot be read! This can be caused by an invalid payment request file." true
     ["Файл запроса платежа не может быть прочитан! Это может быть вызвано недействительным файлом."];
   Message false [Loc None "+61"; Loc None "+9"; Loc None "+31"; Loc None "+10"; Loc None "+17"; Loc None "+85"]
     "Payment request rejected" true
     ["Запрос платежа отклонен"];
   Message false [Loc None "-152"]
     "Payment request network doesn&apos;t match client network." true
     ["Сеть запросов платежей не соответствует клиентской сети."];
   Message false [Loc None "+9"]
     "Payment request expired." true
     ["Срок действия запроса платежа истек."];
   Message false [Loc None "+6"]
     "Payment request is not initialized." true
     ["Запрос платежа не инициализирован."];
   Message false [Loc None "+26"]
     "Unverified payment requests to custom payment scripts are unsupported." true
     ["Unverified payment requests to custom payment scripts are unsupported."];
   Message false [Loc None "+9"; Loc None "+17"]
     "Invalid payment request." true
     ["Недействительный запрос платежа."];
   Message false [Loc None "-10"]
     "Requested payment amount of %1 is too small (considered dust)." true
     ["Запрашиваемая сумма платежа %1 слишком мала (считается пыль)."];
   Message false [Loc None "+65"]
     "Refund from %1" true
     ["Возврат от %1"];
   Message false [Loc None "+31"]
     "Payment request %1 is too large (%2 bytes, allowed %3 bytes)." true
     ["Платежный запрос %1 слишком велик (%2 байта, разрешено %3 байта)."];
   Message false [Loc None "+9"]
     "Error communicating with %1: %2" true
     ["Ошибка обмена с %1: %2"];
   Message false [Loc None "+20"]
     "Payment request cannot be parsed!" true
     ["Платежный запрос не может быть обработан!"];
   Message false [Loc None "+13"]
     "Bad response from server %1" true
     ["Bad response from server %1"];
   Message false [Loc None "+22"]
     "Network request error" true
     ["Ошибка сетевого запроса"];
   Message false [Loc None "+11"]
     "Payment acknowledged" true
     ["Платеж подтвержден"]].

Definition ru_PeerTableModel : list message :=
  [Message false [Loc (Some "../peertablemodel.cpp") "+109"]
     "NodeId" true
     ["NodeId"];
   Message false [Loc None "+0"]
     "Node/Service" true
     ["Узел/Сервис"];
   Message false [Loc None "+0"]
     "Ping" true
     ["Ping"];
   Message false [Loc None "+0"]
     "Sent" true
     ["Отправлено"];
   Message false [Loc None "+0"]
     "Received" true
     ["Получено"];
   Message false [Loc None "+0"]
     "User Agent" true
     ["User Agent"]].

Definition ru_QObject : list message :=
  [Message false [Loc (Some "../bitcoinunits.cpp") "+196"]
     "Amount" true
     ["Сумма"];
   Message false [Loc (Some "../guiutil.cpp") "+96"]
     "Enter Spending address" true
     ["Введите адрес для расходных средств"];
   Message false [Loc None "+12"]
     "Enter ColdStake address" true
     ["Введите ColdStake адрес"];
   Message false [Loc None "+2"]
     "Enter Stake address of remote node" true
     ["Введите Stake адрес удаленной ноды"];
   Message false [Loc None "+2"]
     "Enter Stake address" true
     ["Введите Stake адрес"];
   Message false [Loc None "+687"]
     "%1 d" true
     ["%1 д"];
   Message false [Loc None "+2"]
     "%1 h" true
     ["%1 ч"];
   Message false [Loc None "+2"]
     "%1 m" true
     ["%1 м"];
   Message false [Loc None "+2"; Loc None "+53"]
     "%1 s" true
     ["%1 с"];
   Message false [Loc None "-10"]
     "None" true
     ["None"];
   Message false [Loc None "+5"]
     "N/A" true
     ["N/A"];
   Message false [Loc None "+0"]
     "%1 ms" true
     ["%1 мс"];
   Message true [Loc None "+18"]
     "%n second(s)" true
     ["%n секунда (ы)"; "%n секунда (ы)"; "%n секунда (ы)"; "%n секунд"];
   Message true [Loc None "+4"]
     "%n minute(s)" true
     ["0,0 минуты (ы)"; "0,0 минуты (ы)"; "0,0 минуты (ы)"; "0,0 минут"];
   Message true [Loc None "+4"]
     "%n hour(s)" true
     ["%n час (ы)"; "%n час (ы)"; "%n час (ы)"; "%n часов"];
   Message true [Loc None "+4"]
     "%n day(s)" true
     ["%n день (ы)"; "%n день (ы)"; "%n день (ы)"; "%n дней"];
   Message true [Loc None "+4"; Loc None "+6"]
     "%n week(s)" true
     ["%n неделя (ы)"; "%n неделя (ы)"; "%n неделя (ы)"; "%n недель"];
   Message false [Loc None "+0"]
     "%1 and %2" true
     ["%1 и %2"];
   Message true [Loc None "+0"]
     "%n year(s)" true
     ["%n год (ы)"; "%n год (ы)"; "%n год (ы)"; "%n лет"];
   Message false [Loc None "+8"]
     "%1 B" true
     ["%1 B"];
   Message false [Loc None "+2"]
     "%1 KB" true
     ["%1 КБ"];
   Message false [Loc None "+2"]
     "%1 MB" true
     ["%1 МБ"];
   Message false [Loc None "+2"]
     "%1 GB" true
     ["%1 ГБ"];
   Message false [Loc None "+71"]
     "All spending funds are sent and received anonymously. Only the sender and receiver have details of their side of the transaction. Staking funds need to be converted to spending before sending out of wallet. Funds require %1 confirmations (%2 minutes) before sending." true
     ["Все средства для трат отправляются и принимаются анонимно. Только отправитель и получатель имеют подробную информацию о своей стороне транзакции. Staking средства должны быть конвертированы в расходные средства перед отправкой из кошелька. Средствам требуется %1 подтверждений (%2 минут) перед отправкой."];
   Message false [Loc None "+15"]
     "Staking funds cannot be sent out of your wallet without converting to spending. After converting to spending, %1 confirmations (%2 minutes) are required before sending." true
     ["Staking средства не могут быть отправлены с кошелька без конвертации в тип &quot;расходные средства&quot;. После конвертации, требуется %1 подтверждений (%2 минут) перед отправкой. "];
   Message false [Loc (Some "../modaloverlay.cpp") "-29"]
     "unknown" true
     ["неизвестно"];
   Message false [Loc (Some "../bitcoin.cpp") "+186"]
     "%1 didn&apos;t yet exit safely..." true
     ["%1 еще не закрыт безопасным образом"]].

Definition ru_QObject__QObject : list message :=
  [Message false [Loc None "-117"]
     "Error parsing command line arguments: %1." true
     ["Error parsing command line arguments: %1."];
   Message false [Loc None "+38"]
     "Error: Specified data directory &quot;%1&quot; does not exist." true
     ["Ошибка: Указанный каталог данных &quot;%1&quot; не существует."];
   Message false [Loc None "+5"]
     "Error: Cannot parse configuration file: %1." true
     ["Ошибка: Не удается обработать файл конфигурации: %1."];
   Message false [Loc None "+14"]
     "Error: %1" true
     ["Ошибка: %1"]].

Definition ru_QRImageWidget : list message :=
  [Message false [Loc (Some "../receiverequestdialog.cpp") "+32"]
     "&amp;Save Image..." true
     ["Сохранить изображение"];
   Message false [Loc None "+3"]
     "&amp;Copy Image" true
     ["Копировать изображение"];
   Message false [Loc None "+32"]
     "Save QR Code" true
     ["Сохранить QR код"];
   Message false [Loc None "+0"]
     "PNG Image (*.png)" true
     ["PNG Image (*.png)"]].

Definition ru_RPCConsole_1 : list message :=
  [Message false [Loc (Some "../forms/debugwindow.ui") "+14"]
     "Debug window" true
     ["Окно отладки"];
   Message false [Loc None "+11"]
     "Information" true
     ["Информация"];
   Message false [Loc None "+13"]
     "Console" true
     ["Консоль"];
   Message false [Loc None "+10"]
     "Network Traffic" true
     ["Сетевой трафик"];
   Message false [Loc None "+10"]
     "Peers" true
     ["Peers"];
   Message false [Loc None "+21"; Loc None "+1004"]
     "User Agent" true
     ["User Agent"];
   Message false [Loc None "-988"]
     "Block chain" true
     ["Block chain"];
   Message false [Loc None "+7"]
     "Client version" true
     ["Версия клиента"];
   Message false [Loc None "+13"]
     "General" true
     ["Общее"];
   Message false [Loc None "+13"]
     "Memory Pool" true
     ["Memory Pool"];
   Message false [Loc None "+7"]
     "Current number of blocks" true
     ["Текущее количество блоков"];
   Message false [Loc None "+13"]
     "Network" true
     ["Сеть"];
   Message false [Loc None "+7"]
     "Number of connections" true
     ["Количество подключений"];
   Message false [Loc None "+7"]
     "Startup time" true
     ["Startup time"];
   Message false [Loc None "+7"]
     "Name" true
     ["Имя"];
   Message false [Loc None "+7"]
     "Last block time" true
     ["Последнее время блока"];
   Message false [Loc None "+7"]
     "Using BerkeleyDB version" true
     ["Using BerkeleyDB version"];
   Message false [Loc None "+10"]
     "Datadir" true
     ["Каталог данных"];
   Message false [Loc None "+7"]
     "Memory usage" true
     ["Использование памяти"];
   Message false [Loc None "+7"]
     "Current number of transactions" true
     ["Текущее количество транзакций"];
   Message false [Loc None "+10"; Loc None "+16"; Loc None "+16"; Loc None "+16"; Loc None "+19"; Loc None "+16"; Loc None "+16"; Loc None "+16"; Loc None "+16"; Loc None "+16"; Loc None "+16"; Loc None "+644"; Loc None "+23"; Loc None "+23"; Loc None "+23"; Loc None "+23"; Loc None "+23"; Loc None "+23"; Loc None "+23"; Loc None "+23"; Loc None "+23"; Loc None "+23"; Loc None "+23"; Loc None "+23"; Loc None "+23"; Loc None "+23"; Loc None "+26"; Loc None "+23"; Loc None "+23"]
     "N/A" true
     ["N/A"];
   Message false [Loc None "-988"]
     "Debug log file" true
     ["Debug log файл"];
   Message false [Loc None "+7"]
     "Open the %1 debug log file from the current data directory. This can take a few seconds for large log files." true
     ["Открыть файл debug log %1 из текущего каталога данных. Это может занять несколько секунд для больших файлов."]].

Definition ru_RPCConsole_2 : list message :=
  [Message false [Loc None "+3"]
     "&amp;Open" true
     ["Открыть"];
   Message false [Loc None "+25"]
     "Wallet: " true
     ["Кошелек:"];
   Message false [Loc None "+8"]
     "(none)" true
     ["(none)"];
   Message false [Loc None "+27"]
     "Decrease font size" true
     ["Уменьшить размер шрифта"];
   Message false [Loc None "+32"]
     "Increase font size" true
     ["Увеличить размер шрифта"];
   Message false [Loc None "+32"]
     "Clear console" true
     ["Очистить консоль"];
   Message false [Loc None "+111"]
     "&amp;Reset" true
     ["Сброс"];
   Message false [Loc None "+16"]
     "Totals" true
     ["Итого"];
   Message false [Loc None "+67"; Loc None "+555"]
     "Received" true
     ["Получено"];
   Message false [Loc None "-475"; Loc None "+452"]
     "Sent" true
     ["Отправлено"];
   Message false [Loc None "-361"]
     "Banned peers" true
     ["Заблокированные peers"];
   Message false [Loc None "+60"; Loc (Some "../rpcconsole.cpp") "+510"; Loc None "+760"]
     "Select a peer to view detailed information." true
     ["Выберите peer для просмотра подробной информации."];
   Message false [Loc None "+25"]
     "Whitelisted" true
     ["Whitelisted"];
   Message false [Loc None "+23"]
     "Direction" true
     ["Direction"];
   Message false [Loc None "+23"]
     "Version" true
     ["Версия"];
   Message false [Loc None "+46"]
     "Services" true
     ["Services"];
   Message false [Loc None "+23"]
     "Starting Block" true
     ["Starting Block"];
   Message false [Loc None "+23"]
     "Synced Headers" true
     ["Synced Headers"];
   Message false [Loc None "+23"]
     "Synced Blocks" true
     ["Synced Blocks"];
   Message false [Loc None "+23"]
     "Ban Score" true
     ["Ban Score"];
   Message false [Loc None "+23"]
     "Connection Time" true
     ["Connection Time"];
   Message false [Loc None "+23"]
     "Last Send" true
     ["Last Send"];
   Message false [Loc None "+23"]
     "Last Receive" true
     ["Last Receive"];
   Message false [Loc None "+69"]
     "Ping Time" true
     ["Ping Time"];
   Message false [Loc None "+23"]
     "The duration of a currently outstanding ping." true
     ["The duration of a currently outstanding ping."];
   Message false [Loc None "+3"]
     "Ping Wait" true
     ["Ping Wait"];
   Message false [Loc None "+23"]
     "Min Ping" true
     ["Min Ping"];
   Message false [Loc None "+23"]
     "Time Offset" true
     ["Time Offset"];
   Message false [Loc (Some "../rpcconsole.cpp") "-667"]
     "&amp;Disconnect" true
     ["Отключить"]].

Definition ru_RPCConsole_3 : list message :=
  [Message false [Loc None "+1"; Loc None "+1"; Loc None "+1"; Loc None "+1"]
     "Ban for" true
     ["Заблокировать на"];
   Message false [Loc None "-3"]
     "1 &amp;hour" true
     ["1 час"];
   Message false [Loc None "+1"]
     "1 &amp;day" true
     ["1 день"];
   Message false [Loc None "+1"]
     "1 &amp;week" true
     ["1 неделя"];
   Message false [Loc None "+1"]
     "1 &amp;year" true
     ["1 год"];
   Message false [Loc None "+48"]
     "&amp;Unban" true
     ["Разблокировать"];
   Message false [Loc None "+54"]
     "default wallet" true
     ["кошелек по умолчанию"];
   Message false [Loc None "+110"]
     "Welcome to the %1 RPC console." true
     ["Добро пожаловать в %1 RPC консоль."];
   Message false [Loc None "+1"]
     "Use up and down arrows to navigate history, and %1 to clear screen." true
     ["Используйте стрелки вверх и вниз для навигации по истории, и %1 для очистки экрана."];
   Message false [Loc None "+1"]
     "Type %1 for an overview of available commands." true
     ["Введите %1 для обзора доступных команд."];
   Message false [Loc None "+1"]
     "For more information on using this console type %1." true
     ["Для получения дополнительной информации об использовании этой консоли введите %1."];
   Message false [Loc None "+2"]
     "WARNING: Scammers have been active, telling users to type commands here, stealing their wallet contents. Do not use this console without fully understanding the ramifications of a command." true
     ["ВНИМАНИЕ: Мошенники ведут активную деятельность, говоря пользователям вводить команды здесь, чтобы похитить содержимое их кошелька. Не используйте эту консоль, если вы полностью не понимаете выполняемых вами действий и опасность, связанную с этим."];
   Message false [Loc None "+32"]
     "In:" true
     ["In:"];
   Message false [Loc None "+1"]
     "Out:" true
     ["Out:"];
   Message false [Loc None "+3"]
     "Network activity disabled" true
     ["Сетевая активность отключена"];
   Message false [Loc None "+68"]
     "Executing command without any wallet" true
     ["Выполнение команды без кошелька"];
   Message false [Loc None "+2"]
     "Executing command using &quot;%1&quot; wallet" true
     ["Выполнение команды с помощью кошелька &quot;%1&quot;"];
   Message false [Loc None "+190"]
     "(node id: %1)" true
     ["(node id: %1)"];
   Message false [Loc None "+2"]
     "via %1" true
     ["через %1"];
   Message false [Loc None "+3"; Loc None "+1"]
     "never" true
     ["never"];
   Message false [Loc None "+10"]
     "Inbound" true
     ["Inbound"];
   Message false [Loc None "+0"]
     "Outbound" true
     ["Outbound"];
   Message false [Loc None "+2"]
     "Yes" true
     ["Да"];
   Message false [Loc None "+0"]
     "No" true
     ["Нет"];
   Message false [Loc None "+12"; Loc None "+6"]
     "Unknown" true
     ["Неизвестно"]].

Definition ru_ReceiveCoinsDialog : list message :=
  [Message false [Loc (Some "../forms/receivecoinsdialog.ui") "+59"]
     "Stake" true
     ["Stake"];
   Message false [Loc None "+5"]
     "ColdStake" true
     ["ColdStake"];
   Message false [Loc None "+14"]
     "&amp;Request payment" true
     ["Запрос платежа"];
   Message false [Loc None "+17"]
     "Clear all fields of the form." true
     ["Очистить все поля форм."];
   Message false [Loc None "+3"]
     "Clear" true
     ["Очистить"];
   Message false [Loc None "+56"; Loc None "+79"]
     "An optional amount to request. Leave this empty or zero to not request a specific amount." true
     ["Сумма платежа необязательна. Оставьте это поле пустым, если вы не хотите запрашивать конкретную сумму."];
   Message false [Loc None "-57"]
     "Use bech32 encoding." true
     ["Использовать bech32 кодирование."];
   Message false [Loc None "+3"]
     "Generate native segwit (Bech32) address" true
     ["Создать native segwit (Bech32) адрес"];
   Message false [Loc None "+22"; Loc None "+55"]
     "An optional label to associate with the new receiving address." true
     ["Необязательная метка для связи с новым адресом получения."];
   Message false [Loc None "-52"]
     "&amp;Label:" true
     ["Метка:"];
   Message false [Loc None "+13"; Loc None "+53"]
     "An optional message to attach to the payment request, which will be displayed when the request is opened. Note: The message will not be sent with the payment over the Bitcoin Confidential network." true
     ["Необязательное сообщение для прикрепления к платежному запросу, которое будет отображаться при открытии запроса. Примечание: Сообщение не будет отправлено вместе с платежом по сети Bitcoin Confidential."];
   Message false [Loc None "-50"]
     "&amp;Message:" true
     ["Сообщение:"];
   Message false [Loc None "+16"]
     "&amp;Amount:" true
     ["Сумма:"];
   Message false [Loc None "+13"]
     "Use this form to request payments. All fields are &lt;b&gt;optional&lt;/b&gt;." true
     ["Используйте эту форму для запроса платежей. Все поля &lt;b&gt;не являются&lt;/b&gt;обязательными к заполнению."];
   Message false [Loc None "+63"]
     "Requested payments history" true
     ["История запрошенных платежей "];
   Message false [Loc None "+31"]
     "Show the selected request (does the same as double clicking an entry)" true
     ["Отобразить выбранный запрос (двойной клик на запись совершает то же действие)"];
   Message false [Loc None "+3"]
     "Show" true
     ["Показать"];
   Message false [Loc None "+17"]
     "Remove the selected entries from the list" true
     ["Исключить выбранные записи из списка"];
   Message false [Loc None "+3"]
     "Remove" true
     ["Исключить"];
   Message false [Loc (Some "../receivecoinsdialog.cpp") "+40"]
     "Copy URI" true
     ["Копировать URI"];
   Message false [Loc None "+1"]
     "Copy label" true
     ["Копировать метку"];
   Message false [Loc None "+1"]
     "Copy message" true
     ["Копировать сообщение"];
   Message false [Loc None "+1"]
     "Copy amount" true
     ["Копировать сумму"]].

Definition ru_ReceiveRequestDialog : list message :=
  [Message false [Loc (Some "../forms/receiverequestdialog.ui") "+29"]
     "QR Code" true
     ["QR код"];
   Message false [Loc None "+46"]
     "Copy &amp;URI" true
     ["Копировать URI"];
   Message false [Loc None "+10"]
     "Copy &amp;Address" true
     ["Копировать адрес"];
   Message false [Loc None "+10"]
     "&amp;Save Image..." true
     ["Сохранить изображение..."];
   Message false [Loc (Some "../receiverequestdialog.cpp") "+65"]
     "Request payment to %1" true
     ["Запрос платежа на %1 "];
   Message false [Loc None "+6"]
     "Payment information" true
     ["Информация о платеже"];
   Message false [Loc None "+1"]
     "URI" true
     ["URI"];
   Message false [Loc None "+2"]
     "Address" true
     ["Адрес"];
   Message false [Loc None "+2"]
     "Amount" true
     ["Сумма"];
   Message false [Loc None "+2"]
     "Label" true
     ["Метка"];
   Message false [Loc None "+2"]
     "Message" true
     ["Сообщение"];
   Message false [Loc None "+2"]
     "Wallet" true
     ["Кошелек"];
   Message false [Loc None "+11"]
     "Resulting URI too long, try to reduce the text for label / message." true
     ["Итоговый URI слишком длинный, попробуйте уменьшить текст для метки / сообщения."];
   Message false [Loc None "+5"]
     "Error encoding URI into QR Code." true
     ["Ошибка кодирования URI в QR код."]].

Definition ru_RecentRequestsTableModel : list message :=
  [Message false [Loc (Some "../recentrequeststablemodel.cpp") "+25"; Loc None "+4"]
     "Date" true
     ["Дата"];
   Message false [Loc None "-4"; Loc None "+4"]
     "Label" true
     ["Метка"];
   Message false [Loc None "+0"]
     "Message" true
     ["Сообщение"];
   Message false [Loc None "+42"]
     "(no label)" true
     ["(метка отсутствует)"];
   Message false [Loc None "+9"]
     "(no message)" true
     ["(сообщение отсутствует)"];
   Message false [Loc None "+8"]
     "(no amount requested)" true
     ["(запрашиваемая сумма отсутствует)"];
   Message false [Loc None "+45"]
     "Requested" true
     ["Запрошено"]].

Definition ru_SendCoinsDialog_1 : list message :=
  [Message false [Loc (Some "../forms/sendcoinsdialog.ui") "+14"; Loc (Some "../sendcoinsdialog.cpp") "+806"]
     "Send Coins" true
     ["Отправить монеты"];
   Message false [Loc None "+105"]
     "Inputs..." true
     ["Входы..."];
   Message false [Loc None "+10"]
     "automatically selected" true
     ["автоматически выбранные"];
   Message false [Loc None "+19"]
     "Insufficient funds!" true
     ["Недостаточно средств!"];
   Message false [Loc None "+89"]
     "Quantity:" true
     ["Количество:"];
   Message false [Loc None "+35"]
     "Bytes:" true
     ["Байт:"];
   Message false [Loc None "+48"]
     "Amount:" true
     ["Сумма:"];
   Message false [Loc None "+32"]
     "Dust:" true
     ["Dust:"];
   Message false [Loc None "+48"]
     "Fee:" true
     ["Комиссия:"];
   Message false [Loc None "+51"]
     "After Fee:" true
     ["С учетом комиссии:"];
   Message false [Loc None "+32"]
     "Change:" true
     ["Сдача:"];
   Message false [Loc None "+44"]
     "If this is activated, but the change address is empty or invalid, change will be sent to a newly generated address." true
     ["Если этот параметр активирован, но адрес сдачи пуст или недействителен, сдача будет отправлена на новый сгенерированный адрес."];
   Message false [Loc None "+3"]
     "Custom change address" true
     ["Свой адрес для сдачи"];
   Message false [Loc None "+256"]
     "Transaction Fee:" true
     ["Комиссия за транзакцию:"];
   Message false [Loc None "+14"]
     "Choose..." true
     ["Выберите..."];
   Message false [Loc None "+30"]
     "Using the fallbackfee can result in sending a transaction that will take several hours or days (or never) to confirm. Consider choosing your fee manually or wait until you have validated the complete chain." true
     ["Использование fallbackfee может привести к отправке транзакции, которая займет несколько часов или дней (либо не произойдет) для подтверждения. Выберите комиссию вручную или подождите, пока вы подтвердите всю цепочку блокчейн."];
   Message false [Loc None "+3"]
     "Warning: Fee estimation is currently not possible." true
     ["Внимание: В настоящее время оценить размер комиссии невозможно."];
   Message false [Loc None "+26"]
     "collapse fee-settings" true
     ["collapse fee-settings"];
   Message false [Loc None "+3"]
     "Hide" true
     ["Скрыть"];
   Message false [Loc None "+48"]
     "Specify a custom fee per kB (1,000 bytes) of the transaction's virtual size.

Note:  Since the fee is calculated on a per-byte basis, a fee of &quot;100 satoshis per kB&quot; for a transaction size of 500 bytes (half of 1 kB) would ultimately yield a fee of only 50 satoshis." true
     ["Задайте размер комиссии за каждый кБ (1000 байт) виртуального размера транзакции.

Примечание: Поскольку комиссия рассчитывается на основе каждого байта, комиссия в размере 500 байт (половина от 1 кБ) за транзакцию в размере &quot;100 сатоши за кБ&quot; в конечном итоге составит всего 50 сатоши."];
   Message false [Loc None "+5"]
     "per kilobyte" true
     ["за килобайт"];
   Message false [Loc None "+27"; Loc None "+13"]
     "Paying only the minimum fee is just fine as long as there is less transaction volume than space in the blocks. But be aware that this can end up in a never confirming transaction once there is more demand for Bitcoin Confidential transactions than the network can process." true
     ["Оплата минимальной комиссии приемлема до тех пор, пока объём транзакций не занимает всё пространство блока. Но имейте в виду, что это может привести к тому, что транзакция никогда не будет подтверждена, как только спрос на транзакции Bitcoin Confidential будет больше, чем может обработать сеть."];
   Message false [Loc None "+3"]
     "(read the tooltip)" true
     ["(читайте всплывающую подсказку)"];
   Message false [Loc None "+29"]
     "Recommended:" true
     ["Рекомендуется:"];
   Message false [Loc None "+30"]
     "Custom:" true
     ["Пользовательская:"];
   Message false [Loc None "+52"]
     "(Smart fee not initialized yet. This usually takes a few blocks...)" true
     ["(Smart fee not initialized yet. Это обычно занимает несколько блоков...)"];
   Message false [Loc None "+29"]
     "Confirmation time target:" true
     ["Желаемое время подтверждения:"];
   Message false [Loc None "+74"]
     "With Replace-By-Fee (BIP-125) you can increase a transaction&apos;s fee after it is sent. Without this, a higher fee may be recommended to compensate for increased transaction delay risk." true
     ["С Replace-By-Fee (BIP-125) вы можете увеличить комиссию за транзакцию после ее отправки. Без этого может быть рекомендована более высокая плата для компенсации повышенного риска задержки транзакций."]].

Definition ru_SendCoinsDialog_2 : list message :=
  [Message false [Loc None "+3"]
     "Enable Replace-By-Fee" true
     ["Включить Replace-By-Fee"];
   Message false [Loc None "+37"]
     "Confirm the send action" true
     ["Подтверждение отправления"];
   Message false [Loc None "+3"]
     "S&amp;end" true
     ["Отправить"];
   Message false [Loc None "+23"]
     "Clear all fields of the form." true
     ["Очистите все поля формы."];
   Message false [Loc None "+3"]
     "Clear &amp;All" true
     ["Очистить все"];
   Message false [Loc None "+14"]
     "Send to multiple recipients at once" true
     ["Отправка нескольким получателям одновременно"];
   Message false [Loc None "+3"]
     "Add &amp;Recipient" true
     ["Добавить получателя"];
   Message false [Loc None "+38"]
     "Balance:" true
     ["Баланс:"];
   Message false [Loc (Some "../sendcoinsdialog.cpp") "-730"]
     "Add Output" true
     ["Добавление выхода"];
   Message false [Loc None "+3"]
     "Add Recipient" true
     ["Добавление получателя"];
   Message false [Loc None "+14"]
     "Copy quantity" true
     ["Копировать количество"];
   Message false [Loc None "+1"]
     "Copy amount" true
     ["Копировать сумму"];
   Message false [Loc None "+1"]
     "Copy fee" true
     ["Копировать комиссию"];
   Message false [Loc None "+1"]
     "Copy after fee" true
     ["Копировать сумму с учётом комиссии"];
   Message false [Loc None "+1"]
     "Copy bytes" true
     ["Копировать байты"];
   Message false [Loc None "+1"]
     "Copy dust" true
     ["Копировать dust"];
   Message false [Loc None "+1"]
     "Copy change" true
     ["Копировать сдачу"];
   Message false [Loc None "+88"]
     "%1 (%2 blocks)" true
     ["%1 (%2 блоки)"];
   Message false [Loc None "+39"]
     "This tab allows manually activating Staking funds for ColdStaking. This will take longer than the &quot;Automated ColdStaking activation&quot; to start staking but wallet does not need to be online for the activation." true
     ["Эта вкладка позволяет вручную активировать Staking средства для ColdStaking. Это займет больше времени, чем функция автоматической активации ColdStaking, но кошельку нет нужды быть &quot;онлайн&quot; для активации.
"];
   Message false [Loc None "+103"]
     "Error Remote Staking Address" true
     ["Error Remote Staking Address"];
   Message false [Loc None "+0"]
     "The remote stake address can&apos;t be part of this wallet." true
     ["Удаленный stake адрес не может быть частью этого кошелька."];
   Message false [Loc None "+96"]
     "from wallet %1" true
     ["из кошелька %1"];
   Message false [Loc None "+21"; Loc None "+5"; Loc None "+5"; Loc None "+4"]
     "%1 to %2" true
     ["от 1% до %2"];
   Message false [Loc None "+6"]
     "Are you sure you want to send?" true
     ["Вы уверены в отправке?"];
   Message false [Loc None "+2"]
     "Please, review your transaction." true
     ["Пожалуйста, проверьте Вашу транзакцию."];
   Message false [Loc None "+11"]
     "Estimated Transaction fee" true
     ["Примерная комиссия за транзакцию"];
   Message false [Loc None "+13"]
     "removed for transaction fee" true
     ["removed for transaction fee"];
   Message false [Loc None "+2"]
     "added as transaction fee" true
     ["добавлено в качестве комиссии за транзакцию"];
   Message false [Loc None "+5"]
     "You can increase the fee later (signals Replace-By-Fee, BIP-125)." true
     ["Вы можете увеличить комиссию позже (signals Replace-By-Fee, BIP-125)."]].

Definition ru_SendCoinsDialog_3 : list message :=
  [Message false [Loc None "+2"]
     "Not signalling Replace-By-Fee, BIP-125." true
     ["Not signalling Replace-By-Fee, BIP-125."];
   Message false [Loc None "+12"]
     "Total Amount" true
     ["Общая сумма"];
   Message false [Loc None "+6"]
     "Your hardware device must be connected to sign this txn." true
     ["Ваше аппаратное устройство должно быть подключено, чтобы подписать этот txn."];
   Message false [Loc None "+4"]
     "Confirm send coins" true
     ["Подтвердите отправку монет"];
   Message false [Loc None "+248"]
     "The recipient address is not valid. Please recheck." true
     ["Адрес получателя недействителен. Пожалуйста, перепроверьте."];
   Message false [Loc None "+3"]
     "The amount to pay must be larger than 0." true
     ["Сумма для оплаты должна быть больше 0."];
   Message false [Loc None "+3"]
     "The amount exceeds your balance." true
     ["Сумма превышает Ваш баланс."];
   Message false [Loc None "+3"]
     "The total exceeds your balance when the %1 transaction fee is included." true
     ["Общая сумма превышает Ваш баланс, когда включена комиссия за %1 транзакцию."];
   Message false [Loc None "+3"]
     "Duplicate address found: addresses should only be used once each." true
     ["Найдены повторяющиеся адреса: адрес должен использоваться только единожды."];
   Message false [Loc None "+3"]
     "Transaction creation failed!" true
     ["Произошла ошибка при создании транзакции!"];
   Message false [Loc None "+4"]
     "The transaction was rejected with the following reason: %1" true
     ["Транзакция была отклонена по следующей причине: %1"];
   Message false [Loc None "+4"]
     "A fee higher than %1 is considered an absurdly high fee." true
     ["Комиссия выше %1 , считается недопустимо высокой."];
   Message false [Loc None "+3"]
     "Payment request expired." true
     ["Срок действия запроса платежа истек."];
   Message false [Loc None "+96"]
     "Pay only the required fee of %1" true
     ["Оплатить только требуемую 1 % комиссию. "];
   Message true [Loc None "+76"]
     "Estimated to begin confirmation within %n block(s)." true
     ["По оценкам, начать подтверждение в пределах %n блока (ы)."; "По оценкам, начать подтверждение в пределах %n блока (ы)."; "По оценкам, начать подтверждение в пределах %n блока (ы)."; "Предполагается, что подтверждение начнется в пределах %n блока (в)"];
   Message false [Loc None "+130"]
     "Warning: Invalid Bitcoin Confidential address" true
     ["Внимание: адрес Bitcoin Confidential недействителен"];
   Message false [Loc None "+8"]
     "Error custom change address" true
     ["Error custom change address"];
   Message false [Loc None "+0"]
     "The address you selected for change is not part of this wallet." true
     ["Адрес, который Вы выбрали для сдачи, не является частью этого кошелька."];
   Message false [Loc None "+15"]
     "(no label)" true
     ["(без метки)"]].

Definition ru_SendCoinsEntry_1 : list message :=
  [Message false [Loc (Some "../forms/sendcoinsentry.ui") "+30"]
     "This is a normal payment." true
     ["Это обычный платеж."];
   Message false [Loc None "+71"; Loc None "+463"; Loc None "+130"]
     "Subtract fee from amount" true
     ["Вычесть комиссию из суммы"];
   Message false [Loc None "-580"; Loc None "+463"; Loc None "+130"]
     "Use available balance" true
     ["Использовать доступный баланс"];
   Message false [Loc None "-562"]
     "Message" true
     ["Сообщение"];
   Message false [Loc None "+24"; Loc None "+261"]
     "The Bitcoin Confidential address to send the payment to" true
     ["Bitcoin Confidential адрес для отправки платежа"];
   Message false [Loc None "-254"; Loc None "+261"; Loc None "+297"; Loc None "+104"]
     "Choose previously used address" true
     ["Выбрать ранее используемый адрес"];
   Message false [Loc None "-646"; Loc None "+261"; Loc None "+297"; Loc None "+104"]
     "Alt+A" true
     ["Alt+A"];
   Message false [Loc None "-655"; Loc None "+261"; Loc None "+297"; Loc None "+104"]
     "Paste address from clipboard" true
     ["Вставить адрес из буфера обмена"];
   Message false [Loc None "-646"; Loc None "+261"; Loc None "+297"; Loc None "+104"]
     "Alt+P" true
     ["Alt+P"];
   Message false [Loc None "-655"; Loc None "+261"; Loc None "+401"; Loc None "+520"; Loc None "+564"]
     "Remove this entry" true
     ["Удалить эту запись"];
   Message false [Loc None "-1718"; Loc None "+277"]
     "Pay To" true
     ["Оплатить"];
   Message false [Loc None "-258"; Loc None "+242"; Loc None "+277"]
     "Amount" true
     ["Сумма"];
   Message false [Loc None "-495"]
     "Enter a label for this address to add it to the list of used addresses" true
     ["Введите метку для этого адреса, чтобы добавить его в список используемых адресов"];
   Message false [Loc None "+15"]
     "Label" true
     ["Метка"];
   Message false [Loc None "+33"]
     "A short message sent over the Bitcoin Confidential network." true
     ["Короткое сообщение, отправленное по сети Bitcoin Confidential."];
   Message false [Loc None "+6"]
     "Encrypted message sent with the transaction (optional, max. 24 characters)." true
     ["Зашифрованное сообщение, отправленное с транзакцией (необязательно, макс. 24 символа)."];
   Message false [Loc None "+261"]
     "This is a payment to a coldstake script." true
     ["This is a payment to a coldstake script."];
   Message false [Loc None "+83"]
     "The fee will be deducted from the amount being sent. The recipient will receive less Bitcoin Confidential than you enter in the amount field. If multiple recipients are selected, the fee is split equally." true
     ["Комиссия будет вычтена из отправляемой суммы. Получателю будет отправлено меньше Bitcoin Confidential, чем указано в поле суммы. Если выбрано несколько получателей, комиссия делится поровну."];
   Message false [Loc None "+36"]
     "ColdStake address used by your remote staking node to stake your funds." true
     ["ColdStake адрес, используемый Вашей удаленной staking node для стекинга Ваших средств."];
   Message false [Loc None "+80"]
     "ColdStake " true
     ["ColdStake"];
   Message false [Loc None "+24"]
     "The stake address on the remote node (cannot be in this wallet)" true
     ["Stake адрес на удаленной ноде (не является частью этого кошелька)"];
   Message false [Loc None "+81"]
     " Stake " true
     [" Stake"];
   Message false [Loc None "+434"]
     "This is an unauthenticated payment request." true
     ["Это неподтвержденный платежный запрос."];
   Message false [Loc None "+40"; Loc None "+560"]
     "Pay To:" true
     ["Оплата:"]].

Definition ru_SendCoinsEntry_2 : list message :=
  [Message false [Loc None "-526"; Loc None "+577"]
     "Memo:" true
     ["Memo:"];
   Message false [Loc None "-560"; Loc None "+547"]
     "A&amp;mount:" true
     ["Сумма:"];
   Message false [Loc None "-78"]
     "This is an authenticated payment request." true
     ["Это подтвержденный платежный запрос."];
   Message false [Loc (Some "../sendcoinsentry.cpp") "+89"]
     "Enter a label for this address to add it to your address book" true
     ["Введите метку для этого адреса, чтобы добавить его в адресную книгу"]].

Definition ru_SendConfirmationDialog : list message :=
  [Message false [Loc (Some "../sendcoinsdialog.cpp") "+85"; Loc None "+5"]
     "Yes" true
     ["Да"]].

Definition ru_ShutdownWindow : list message :=
  [Message false [Loc (Some "../utilitydialog.cpp") "+83"]
     "%1 is shutting down..." true
     ["Приложение закрывается...."];
   Message false [Loc None "+1"]
     "Do not shut down the computer until this window disappears." true
     ["Не выключайте компьютер до тех пор, пока это окно не исчезнет."]].

Definition ru_SignVerifyMessageDialog_1 : list message :=
  [Message false [Loc (Some "../forms/signverifymessagedialog.ui") "+14"]
     "Signatures - Sign / Verify a Message" true
     ["Подписи - Подписать / Верифицировать сообщение"];
   Message false [Loc None "+14"]
     "&amp;Sign Message" true
     ["Подписать сообщение"];
   Message false [Loc None "+10"]
     "&amp;Verify Message" true
     ["Верифицировать сообщение"];
   Message false [Loc None "+31"]
     "You can sign messages/agreements with your addresses to prove you can receive Bitcoin Confidential sent to them. Be careful not to sign anything vague or random, as phishing attacks may try to trick you into signing your identity over to them. Only sign fully-detailed statements you agree to." true
     ["Вы можете подписать сообщение/соглашение с помощью вашего адреса, чтобы доказать, что Вы можете получить Bitcoin Confidential, отправленные на этот адрес. Будьте осторожны: не подписывайте ничего расплывчатого или случайного, так как фишинговые атаки могут попытаться обманным путем заставить Вас передать свои личные данные. Подписывайте только полностью ясные для вас заявления, на которые Вы даете свое согласие."];
   Message false [Loc None "+18"]
     "The Bitcoin Confidential address to sign the message with" true
     ["Адрес Bitcoin Confidential для подписи сообщения"];
   Message false [Loc None "+7"; Loc None "+213"]
     "Choose previously used address" true
     ["Выбрать ранее использованный адрес"];
   Message false [Loc None "-203"; Loc None "+213"]
     "Alt+A" true
     ["Alt+A"];
   Message false [Loc None "-203"]
     "Paste address from clipboard" true
     ["Вставить адрес из буфера обмена"];
   Message false [Loc None "+10"]
     "Alt+P" true
     ["Alt+P"];
   Message false [Loc None "+12"]
     "Enter the message you want to sign here" true
     ["Введите здесь сообщение, которое Вы хотите подписать."];
   Message false [Loc None "+7"]
     "Signature" true
     ["Подпись"];
   Message false [Loc None "+27"]
     "Copy the current signature to the system clipboard" true
     ["Копировать текущую подпись в системный буфер обмена"];
   Message false [Loc None "+21"]
     "Sign the message to prove you own this Bitcoin Confidential address" true
     ["Подпишите сообщение, чтобы доказать, что Вы являетесь владельцем этого адреса Bitcoin Confidential"];
   Message false [Loc None "+3"]
     "Sign &amp;Message" true
     ["Подписать сообщение"];
   Message false [Loc None "+14"]
     "Reset all sign message fields" true
     ["Сбросить все поля подписи сообщений"];
   Message false [Loc None "+3"; Loc None "+153"]
     "Clear &amp;All" true
     ["Очистить все"];
   Message false [Loc None "-85"]
     "Enter the receiver&apos;s address, message (ensure you copy line breaks, spaces, tabs, etc. exactly) and signature below to verify the message. Be careful not to read more into the signature than what is in the signed message itself, to avoid being tricked by a man-in-the-middle attack. Note that this only proves the signing party receives with the address, it cannot prove sendership of any transaction!" true
     ["Введите адрес получателя, сообщение (скопируйте переносы строк, пробелы, закладки и т.д.) и подпишитесь ниже для верификации сообщения. Будьте осторожны и не вдавайтесь в детали  при подписи более подробно, чем в самом отправленном сообщение, чтобы не быть атакованным посредником. Обратите внимание, что это доказывает лишь то, что подписывающая сторона получила адрес, она не может доказать отправление любой транзакции!"];
   Message false [Loc None "+21"]
     "The Bitcoin Confidential address the message was signed with" true
     ["Адрес Bitcoin Confidential, с которым было подписано сообщение"];
   Message false [Loc None "+44"]
     "Verify the message to ensure it was signed with the specified Bitcoin Confidential address" true
     ["Верифицируйте сообщение, чтобы убедиться, что оно было подписано с указанным адресом Bitcoin Confidential"];
   Message false [Loc None "+3"]
     "Verify &amp;Message" true
     ["Верифицировать сообщение"];
   Message false [Loc None "+14"]
     "Reset all verify message fields" true
     ["Сбросить все поля верификации сообщений"];
   Message false [Loc (Some "../signverifymessagedialog.cpp") "+39"]
     "Click &quot;Sign Message&quot; to generate signature" true
     ["Нажмите &quot;Подпись Сообщения&quot; для создания подписи"];
   Message false [Loc None "+78"; Loc None "+78"]
     "The entered address is invalid." true
     ["Введенный адрес недействителен."];
   Message false [Loc None "-78"; Loc None "+7"; Loc None "+71"; Loc None "+6"]
     "Please check the address and try again." true
     ["Пожалуйста, проверьте адрес и попробуйте снова."];
   Message false [Loc None "-77"; Loc None "+77"]
     "The entered address does not refer to a key." true
     ["Введенный адрес не относится к ключу."];
   Message false [Loc None "-69"]
     "Wallet unlock was cancelled." true
     ["Разблокировка кошелька была отменена."];
   Message false [Loc None "+8"]
     "Private key for the entered address is not available." true
     ["Приватный ключ недоступен для введенного адреса."];
   Message false [Loc None "+12"]
     "Message signing failed." true
     ["Подпись сообщения не удалась."]].

Definition ru_SignVerifyMessageDialog_2 : list message :=
  [Message false [Loc None "+5"]
     "Message signed." true
     ["Сообщение подписано."];
   Message false [Loc None "+55"]
     "The signature could not be decoded." true
     ["Подпись не может быть расшифрована."];
   Message false [Loc None "+0"; Loc None "+13"]
     "Please check the signature and try again." true
     ["Пожалуйста, проверьте подпись и попробуйте еще раз."];
   Message false [Loc None "+0"]
     "The signature did not match the message digest." true
     ["Подпись не совпала с образцом сообщения."];
   Message false [Loc None "+6"]
     "Message verification failed." true
     ["Верификация сообщения не удалась."];
   Message false [Loc None "+5"]
     "Message verified." true
     ["Сообщение верифицировано."]].

Definition ru_SplashScreen : list message :=
  [Message false [Loc (Some "../networkstyle.cpp") "+19"]
     "[testnet]" true
     ["[testnet]"]].

Definition ru_StakingDialog_1 : list message :=
  [Message false [Loc (Some "../forms/stakingdialog.ui") "+14"]
     "Send Coins" true
     ["Отправить монеты"];
   Message false [Loc None "+23"]
     "Status" true
     ["Статус"];
   Message false [Loc None "+19"]
     "Addresses" true
     ["Адреса"];
   Message false [Loc None "+16"]
     "Rewards" true
     ["Награды"];
   Message false [Loc None "+16"]
     "Convert to Spending" true
     ["Конвертировать в расходные средства"];
   Message false [Loc None "+16"]
     "Convert to Staking" true
     ["Конвертировать для Staking"];
   Message false [Loc None "+16"]
     "Activate ColdStaking" true
     ["Активировать ColdStaking"];
   Message false [Loc None "+79"]
     "Total supply" true
     ["Совокупное предложение"];
   Message false [Loc None "+26"]
     "Current block reward" true
     ["Текущая награда за блок"];
   Message false [Loc None "+26"]
     "Current block height" true
     ["Текущий номер блока"];
   Message false [Loc None "+20"]
     "Network difficulty" true
     ["Сложность сети"];
   Message false [Loc None "+26"]
     "Annual staking reward" true
     ["Годовая награда за staking"];
   Message false [Loc None "+13"]
     "Current staking reward" true
     ["Текущая награда за staking"];
   Message false [Loc None "+26"]
     "Network staking weight" true
     ["Всего монет в сети в staking"];
   Message false [Loc None "+20"]
     "Your estimated annual reward" true
     ["Ваша примерное годовое вознаграждение "];
   Message false [Loc None "+13"]
     "?" true
     ["?"];
   Message false [Loc None "+80"]
     "Staking" true
     ["Staking"];
   Message false [Loc None "+24"; Loc None "+233"]
     "ENABLED" true
     ["Включен"];
   Message false [Loc None "-210"]
     "Pause" true
     ["Пауза"];
   Message false [Loc None "+50"; Loc None "+425"]
     "Estimated reward frequency" true
     ["Примерная частота вознаграждения"];
   Message false [Loc None "-412"]
     "Stakable Funds" true
     ["Stakable Funds"];
   Message false [Loc None "+20"]
     "Wallet staking weight" true
     ["Wallet staking weight"];
   Message false [Loc None "+103"]
     "Cold Staking" true
     ["Cold Staking"];
   Message false [Loc None "+55"]
     "Remote Stake address" true
     ["Удаленный stake адрес"];
   Message false [Loc None "+13"]
     "Automated ColdStaking activation" true
     ["Автоматическая активация ColdStaking"];
   Message false [Loc None "+25"]
     "Enable " true
     ["Включить"];
   Message false [Loc None "+57"]
     "Enable Hot Staking with the STAKING ENABLE button and leaving wallet open.  Enable automated ColdStake with COLDSTAKING ENABLE button and setting a remote stake address. On remote node enable staking with &quot;bitcoinc-cli walletsettings stakingstatus true&quot; and create a &quot;Stake&quot; address on your remote node with &quot;bitcoinc-cli getnewstakeaddress&quot;, or get a &quot;Stake&quot; address from a ColdStaking pool. Funds gradually transition over from hot staking to cold staking while your wallet is open. The time required for the activation depends on the wallet&apos;s staking weight and can take several days with a low weight. Once the activation bar shows complete, wallet can be closed.  Alternatively, use the Activate Coldstaking tab to send an activation transaction.  This will take longer to start staking but wallet does not need to be online." true
     ["Активируйте Hot Staking с помощью кнопки ВКЛЮЧИТЬ и не закрывайте кошелек. Активируйте автоматический ColdStake с помощью кнопки Автоматической активации ColdStaking и настройки удаленного адреса. На удаленной ноде активируйте Staking с помощью команды &quot;bitcoinc-cli walletsettings stakingstatus true&quot; и создайте &quot;Stake&quot; адрес на Вашей удаленной ноде с помощью &quot;bitcoinc-cli getnewstakeaddress&quot;, или получите &quot;Stake&quot; адрес из пула ColdStaking. В течение двух дней, пока кошелек открыт, средства постепенно будут переходить с hot staking в cold staking. Время, необходимое для активации, зависит от количества монет стекинга и может занять несколько дней. Как только панель активации покажет, что все готово, Вы можете закрыть кошелек. Также Вы можете использовать вкладку Активировать ColdStaking, чтобы отправить транзакцию активации. Это займет больше времени, но кошельку не нужно быть &quot;онлайн&quot; в это время."];
   Message false [Loc None "+20"]
     "ColdStake activation progress" true
     ["Прогресс активации ColdStake"];
   Message false [Loc None "+77"]
     "Amount activated for ColdStaking" true
     ["Активированная сумма для ColdStaking"]].

Definition ru_StakingDialog_2 : list message :=
  [Message false [Loc None "+13"]
     "Estimated weight" true
     ["Estimated weight"];
   Message false [Loc None "+106"]
     "Filtered" true
     ["Фильтр"];
   Message false [Loc None "+15"; Loc None "+88"]
     "Staking rewards" true
     ["Награды за staking"];
   Message false [Loc None "-75"; Loc None "+48"]
     "Solved blocks" true
     ["Решено блоков"];
   Message false [Loc None "-41"; Loc None "+55"]
     "4000" true
     ["4000"];
   Message false [Loc None "-48"; Loc None "+41"]
     "100000BC" true
     ["100000BC"];
   Message false [Loc None "-22"]
     "Total" true
     ["Итого"];
   Message false [Loc (Some "../stakingdialog.cpp") "+258"; Loc None "+17"]
     "No stakable funds available. Use the &quot;Convert to staking&quot; tab to convert funds for staking." true
     ["Нет средств, доступных для staking. Используйте вкладку &quot;Конвертировать для Staking&quot;, чтобы преобразовать ваши средства."];
   Message false [Loc None "-15"; Loc None "+18"]
     "No eligible staking outputs available. Staking funds need to have 225 confirmations to be eligible." true
     ["Нет ни одного доступного staking выхода, соответствующего критериям. Staking средства должны иметь 225 подтверждений, чтобы соответствовать критериям."];
   Message false [Loc None "-9"]
     "Staking not initialized yet. Wait a moment." true
     ["Staking еще не инициализирован. Подождите немного."];
   Message false [Loc None "+3"]
     "Staking is stopped. Press the start button above to enable staking." true
     ["Staking остановлен.  Нажмите кнопку запуска выше для его активации."];
   Message false [Loc None "+10"]
     "Wallet is locked. To start staking unlock the wallet for staking only. To unlock click the lock icon in the bottom right hand portion of the window." true
     ["Кошелек заблокирован. Чтобы начать процесс стекинга, разблокируйте кошелек &quot;только для staking&quot;. Вы можете сделать это, нажав на значок замка в нижней части кошелька."];
   Message false [Loc None "+4"]
     "Wallet is not fully synced. To start staking make sure the wallet has connections to the network and wait until it catched up with the latest blocks." true
     ["Кошелек синхронизирован не полностью. Для запуска staking, убедитесь, что кошелек подключен к сети и подождите, пока он достигнет последних блоков."];
   Message false [Loc None "+3"]
     "Staking is disabled. Set the config paramter &quot;staking=1&quot; in the bitcoinc.conf to enable it." true
     ["Staking отключен. Чтобы включить его,  в файле bitcoinc.conf, добавьте параметр &quot;staking=1&quot;. "];
   Message false [Loc None "+72"]
     "No eligible coldstaking outputs available. Your coldstaking funds need to have 225 confirmations to be eligible." true
     ["Нет ни одного доступного coldstaking выхода, соответствующего критериям. Coldstaking средства должны иметь 225 подтверждений, чтобы соответствовать критериям."];
   Message false [Loc None "+160"]
     "Set Remote Staking Address" true
     ["Настройте удаленный Staking адрес"];
   Message false [Loc None "+1"]
     "Enter the remote staking address:" true
     ["Введите удаленный staking адрес:"]].

Definition ru_TrafficGraphWidget : list message :=
  [Message false [Loc (Some "../trafficgraphwidget.cpp") "+81"]
     "KB/s" true
     ["KB/s"]].

Definition ru_TransactionDesc_1 : list message :=
  [Message true [Loc (Some "../transactiondesc.cpp") "+39"]
     "Open for %n more block(s)" true
     ["Открыт для %n больше блока (ы)"; "Открыт для %n больше блока (ы)"; "Открыт для %n больше блока (ы)"; "Open for %n more block(s)"];
   Message false [Loc None "+2"]
     "Open until %1" true
     ["Открыто до %1"];
   Message false [Loc None "+6"]
     "conflicted with a transaction with %1 confirmations" true
     ["conflicted with a transaction with %1 confirmations"];
   Message false [Loc None "+2"]
     "0/unconfirmed, %1" true
     ["0/неподтвержденных, %1"];
   Message false [Loc None "+0"]
     "in memory pool" true
     ["в пуле памяти"];
   Message false [Loc None "+0"]
     "not in memory pool" true
     ["не в пуле памяти"];
   Message false [Loc None "+0"]
     "abandoned" true
     ["abandoned"];
   Message false [Loc None "+2"]
     "%1/unconfirmed" true
     ["%1/неподтвержденных"];
   Message false [Loc None "+2"]
     "%1 confirmations" true
     ["%1 подтверждения"];
   Message false [Loc None "+29"]
     "Status" true
     ["Статус"];
   Message false [Loc None "+3"]
     "Date" true
     ["Дата"];
   Message false [Loc None "+4"; Loc None "+223"]
     "Transaction ID" true
     ["ID транзакции"];
   Message false [Loc None "-210"; Loc None "+211"]
     "Transaction total size" true
     ["Общий объем транзакции"];
   Message false [Loc None "-209"]
     "Confirmations" true
     ["Подтверждения"];
   Message false [Loc None "+4"]
     "Block hash" true
     ["Хэш блока"];
   Message false [Loc None "+1"]
     "Block index" true
     ["Индекс блока"];
   Message false [Loc None "+1"]
     "Block time" true
     ["Block time"];
   Message false [Loc None "+21"]
     "Source" true
     ["Источник"];
   Message false [Loc None "+0"]
     "Generated" true
     ["Сгенерированный"];
   Message false [Loc None "+5"; Loc None "+14"; Loc None "+72"]
     "From" true
     ["От"];
   Message false [Loc None "-72"]
     "unknown" true
     ["Неизвестный"];
   Message false [Loc None "+1"; Loc None "+20"; Loc None "+72"]
     "To" true
     ["Кому"];
   Message false [Loc None "-90"]
     "own address" true
     ["собственный адрес"];
   Message false [Loc None "+0"; Loc None "+69"]
     "watch-only" true
     ["только для просмотра"];
   Message false [Loc None "-67"]
     "label" true
     ["Метка"];
   Message false [Loc None "+36"; Loc None "+12"; Loc None "+58"; Loc None "+37"; Loc None "+66"]
     "Credit" true
     ["Credit"];
   Message true [Loc None "-171"]
     "matures in %n more block(s)" true
     ["созревает в %n больше блока (ы)"; "созревает в %n больше блока (ы)"; "созревает в %n больше блока (ы)"; "matures in %n more block(s)"]].

Definition ru_TransactionDesc_2 : list message :=
  [Message false [Loc None "+2"]
     "not accepted" true
     ["не принято"];
   Message false [Loc None "+64"; Loc None "+26"; Loc None "+71"]
     "Debit" true
     ["Дебет"];
   Message false [Loc None "-87"]
     "Total debit" true
     ["Общий дебет"];
   Message false [Loc None "+1"]
     "Total credit" true
     ["Общий кредит"];
   Message false [Loc None "+5"]
     "Transaction fee" true
     ["Комиссия за транзакцию"];
   Message false [Loc None "+27"]
     "Net amount" true
     ["Net amount"];
   Message false [Loc None "+6"; Loc None "+12"]
     "Message" true
     ["Сообщение"];
   Message false [Loc None "-10"]
     "Comment" true
     ["Комментарий"];
   Message false [Loc None "+4"]
     "Transaction virtual size" true
     ["Виртуальный размер транзакции"];
   Message false [Loc None "+1"]
     "Output index" true
     ["Индекс вывода"];
   Message false [Loc None "+10"]
     "Narration" true
     ["Описание"];
   Message false [Loc None "+13"]
     "Merchant" true
     ["Мерчант"];
   Message false [Loc None "+7"]
     "Generated coins must mature %1 blocks before they can be spent. When you generated this block, it was broadcast to the network to be added to the block chain. If it fails to get into the chain, its state will change to &quot;not accepted&quot; and it won&apos;t be spendable. This may occasionally happen if another node generates a block within a few seconds of yours." true
     ["Сгенерированные монеты должны созреть %1 блоков, прежде чем они могут быть потрачены. При генерировании этого блока он транслировался в сеть для добавления в цепочку блоков. Если он не сможет попасть в цепочку, его состояние изменится на &quot;не принято&quot;, и он не сможет быть потрачен. Это может иногда происходить, если другие узлы генерирует блок в течение нескольких секунд после Вашего."];
   Message false [Loc None "+8"]
     "Debug information" true
     ["Отладка"];
   Message false [Loc None "+13"]
     "Transaction" true
     ["Транзакция"];
   Message false [Loc None "+3"]
     "Inputs" true
     ["Входы"];
   Message false [Loc None "+21"]
     "Amount" true
     ["Сумма"];
   Message false [Loc None "+1"; Loc None "+1"]
     "true" true
     ["true"];
   Message false [Loc None "-1"; Loc None "+1"]
     "false" true
     ["false"]].

Definition ru_TransactionDescDialog : list message :=
  [Message false [Loc (Some "../forms/transactiondescdialog.ui") "+26"]
     "This pane shows a detailed description of the transaction" true
     ["На этой панели представлено подробное описание транзакции"];
   Message false [Loc (Some "../transactiondescdialog.cpp") "+17"]
     "Details for %1" true
     ["Подробная информация для %1"]].

Definition ru_TransactionTableModel_1 : list message :=
  [Message false [Loc (Some "../transactiontablemodel.cpp") "+257"]
     "Date" true
     ["Дата"];
   Message false [Loc None "+2"]
     "Type" true
     ["Тип"];
   Message false [Loc None "+2"]
     "Label" true
     ["Метка"];
   Message false [Loc None "+3"]
     "In" true
     ["Вход"];
   Message false [Loc None "+0"]
     "Out" true
     ["Выход"];
   Message true [Loc None "+73"]
     "Open for %n more block(s)" true
     ["Открыт для %n больше блока (ы)"; "Открыт для %n больше блока (ы)"; "Открыт для %n больше блока (ы)"; "Открыт для %n больше блока(ов)"];
   Message false [Loc None "+3"]
     "Open until %1" true
     ["Открыт до %1"];
   Message false [Loc None "+3"]
     "Unconfirmed" true
     ["Неподтвержденные"];
   Message false [Loc None "+4"]
     "Orphaned" true
     ["Orphaned"];
   Message false [Loc None "+2"]
     "Abandoned" true
     ["Abandoned"];
   Message false [Loc None "+22"]
     "Confirming (%1 of %2 recommended confirmations)" true
     ["Подтверждение (%1 из %2 рекомендуемых подтверждений)"];
   Message false [Loc None "+3"]
     "Confirmed (%1 confirmations)" true
     ["Подтверждено (%1 подтверждений)"];
   Message false [Loc None "+3"]
     "Conflicted" true
     ["Conflicted"];
   Message false [Loc None "+3"]
     "Immature (%1 confirmations, will be available after %2)" true
     ["Immature (%1 подтверждения, будут доступны после %2)"];
   Message false [Loc None "+3"]
     "Generated but not accepted" true
     ["Генерируются, но не приняты"];
   Message false [Loc None "+39"]
     "Received with" true
     ["Получено с"];
   Message false [Loc None "+2"]
     "Received from" true
     ["Получено от"];
   Message false [Loc None "+3"]
     "Sent to" true
     ["Отправлено на"];
   Message false [Loc None "+2"]
     "Payment to yourself" true
     ["Платеж себе"];
   Message false [Loc None "+2"]
     "Airdrop" true
     ["Airdrop"];
   Message false [Loc None "+2"]
     "Staked" true
     ["Staked"];
   Message false [Loc None "+30"]
     "watch-only" true
     ["только для просмотра"];
   Message false [Loc None "+16"]
     "(n/a)" true
     ["(n/a)"];
   Message false [Loc None "+168"]
     "Unlock to show" true
     ["Разблокировать, чтобы показать"];
   Message false [Loc None "+111"]
     "(no label)" true
     ["(нет метки)"];
   Message false [Loc None "+42"; Loc None "+14"]
     "Transaction status. Hover over this field to show number of confirmations." true
     ["Статус транзакции. Наведите указатель мыши на это поле, чтобы отобразить количество подтверждений."];
   Message false [Loc None "-12"]
     "Date and time that the reward was received." true
     ["Дата и время получения награды."];
   Message false [Loc None "+2"; Loc None "+16"]
     "Whether or not a watch-only address is involved in this transaction." true
     ["Whether or not a watch-only address is involved in this transaction."];
   Message false [Loc None "-14"]
     "Address used for the block solving" true
     ["Адрес, используемый для решения блока"]].

Definition ru_TransactionTableModel_2 : list message :=
  [Message false [Loc None "+2"]
     "Staking reward." true
     ["Награда за staking"];
   Message false [Loc None "+8"]
     "Date and time that the transaction was received." true
     ["Дата и время получения транзакции."];
   Message false [Loc None "+2"]
     "Type of transaction." true
     ["Тип транзакции."];
   Message false [Loc None "+4"]
     "User-defined intent/purpose of the transaction." true
     ["Определенное пользователем намерение/цель сделки."];
   Message false [Loc None "+2"]
     "Type of input coin." true
     ["Тип входной монеты."];
   Message false [Loc None "+2"]
     "Type of output coin." true
     ["Тип выходной монеты."];
   Message false [Loc None "+2"]
     "Amount removed from or added to balance." true
     ["Сумма снята с баланса или добавлена на баланс."]].

Definition ru_TransactionView_1 : list message :=
  [Message false [Loc (Some "../transactionview.cpp") "+53"; Loc None "+11"; Loc None "+18"]
     "All" true
     ["Все"];
   Message false [Loc None "-17"]
     "Today" true
     ["Сегодня"];
   Message false [Loc None "+1"]
     "This week" true
     ["На этой неделе"];
   Message false [Loc None "+1"]
     "This month" true
     ["В этом месяце"];
   Message false [Loc None "+1"]
     "Last month" true
     ["В прошлом месяце"];
   Message false [Loc None "+1"]
     "This year" true
     ["В этом году"];
   Message false [Loc None "+1"]
     "Range..." true
     ["Диапазон..."];
   Message false [Loc None "+13"]
     "Received with" true
     ["Получено с"];
   Message false [Loc None "+2"]
     "Sent to" true
     ["Отправлено на"];
   Message false [Loc None "+2"]
     "To yourself" true
     ["Для себя"];
   Message false [Loc None "+1"]
     "Other" true
     ["Другим"];
   Message false [Loc None "+1"]
     "Airdrop" true
     ["Airdrop"];
   Message false [Loc None "+5"]
     "Enter address, transaction id, or label to search" true
     ["Введите адрес, id транзакции или метку для поиска"];
   Message false [Loc None "+5"]
     "Min amount" true
     ["Минимальная сумма"];
   Message false [Loc None "+52"]
     "Abandon transaction" true
     ["Abandon transaction"];
   Message false [Loc None "+1"]
     "Increase transaction fee" true
     ["Увеличить комиссию за транзакцию"];
   Message false [Loc None "+2"]
     "Copy address" true
     ["Копировать адрес"];
   Message false [Loc None "+1"]
     "Copy label" true
     ["Копировать метку"];
   Message false [Loc None "+1"]
     "Copy amount" true
     ["Копировать сумму"];
   Message false [Loc None "+1"]
     "Copy transaction ID" true
     ["Копировать ID транзакции"];
   Message false [Loc None "+1"]
     "Copy raw transaction" true
     ["Копировать raw транзакцию"];
   Message false [Loc None "+1"]
     "Copy full transaction details" true
     ["Копировать полную информацию о транзакции"];
   Message false [Loc None "+1"]
     "Edit label" true
     ["Редактировать метку"];
   Message false [Loc None "+1"]
     "Show transaction details" true
     ["Показать детали транзакции"];
   Message false [Loc None "+239"]
     "Export Transaction History" true
     ["История экспорта транзакций"];
   Message false [Loc None "+1"]
     "Comma separated file (*.csv)" true
     ["Текст, разделённый запятыми (*.csv)"];
   Message false [Loc None "+9"]
     "Confirmed" true
     ["Подтверждённый"];
   Message false [Loc None "+2"]
     "Watch-only" true
     ["Только для просмотра"];
   Message false [Loc None "+1"]
     "Date" true
     ["Дата"]].

Definition ru_TransactionView_2 : list message :=
  [Message false [Loc None "+2"]
     "Type" true
     ["Тип"];
   Message false [Loc None "+2"]
     "Label" true
     ["Метка"];
   Message false [Loc None "+1"]
     "Address" true
     ["Адрес"];
   Message false [Loc None "+2"]
     "ID" true
     ["ID"];
   Message false [Loc None "+3"]
     "Exporting Failed" true
     ["Ошибка при экспорте"];
   Message false [Loc None "+0"]
     "There was an error trying to save the transaction history to %1." true
     ["Произошла ошибка при попытке сохранить историю транзакций в %1."];
   Message false [Loc None "+4"]
     "Exporting Successful" true
     ["Экспорт успешен"];
   Message false [Loc None "+0"]
     "The transaction history was successfully saved to %1." true
     ["История транзакций была успешно сохранена в %1."];
   Message false [Loc None "+169"]
     "Range:" true
     ["Диапазон:"];
   Message false [Loc None "+8"]
     "to" true
     ["до"]].

Definition ru_TxViewDelegate : list message :=
  [Message false [Loc (Some "../overviewpage.cpp") "+95"]
     "Unlock to show" true
     ["Разблокировать, чтобы показать"]].

Definition ru_UnitDisplayStatusBarControl : list message :=
  [Message false [Loc (Some "../bitcoingui.cpp") "+122"]
     "Unit to show amounts in. Click to select another unit." true
     ["Единицы измерения для отображения сумм. Нажмите , чтобы выбрать другие единицы измерения."]].

Definition ru_WalletFrame : list message :=
  [Message false [Loc (Some "../walletframe.cpp") "+29"]
     "No wallet has been loaded." true
     ["Кошелек не был загружен."]].

Definition ru_WalletModel : list message :=
  [Message false [Loc (Some "../walletmodel.cpp") "+592"; Loc None "+4"; Loc None "+11"]
     "Wallet Model" true
     ["Модель кошелька"];
   Message false [Loc None "+65"; Loc None "+39"; Loc None "+6"]
     "Fee bump error" true
     ["Ошибка при повышении комиссии"];
   Message false [Loc None "-45"]
     "Increasing transaction fee failed" true
     ["Повышение комиссии за транзакции не удалось"];
   Message false [Loc None "+6"]
     "Do you want to increase the fee?" true
     ["Вы хотите увеличить комиссию? "];
   Message false [Loc None "+4"]
     "Current fee:" true
     ["Текущая комиссия:"];
   Message false [Loc None "+4"]
     "Increase:" true
     ["Увеличить:"];
   Message false [Loc None "+4"]
     "New fee:" true
     ["Новая комиссия:"];
   Message false [Loc None "+4"]
     "Confirm fee bump" true
     ["Подтвердить повышение комиссии "];
   Message false [Loc None "+17"]
     "Can&apos;t sign transaction." true
     ["Не удалось подписать транзакцию."];
   Message false [Loc None "+6"]
     "Could not commit transaction" true
     ["Не удалось совершить транзакцию"]].

Definition ru_WalletView : list message :=
  [Message false [Loc (Some "../walletview.cpp") "+46"; Loc None "+1"]
     "&amp;Export" true
     ["&amp;Экспорт"];
   Message false [Loc None "+9"; Loc None "+29"]
     "Export the data in the current tab to a file" true
     ["Экспорт данных в текущей вкладке в файл"];
   Message false [Loc None "-19"]
     "Selected amount" true
     ["Выбранная сумма"];
   Message false [Loc None "+290"]
     "Backup Wallet" true
     ["Резервная копия"];
   Message false [Loc None "+1"]
     "Wallet Data (*.dat)" true
     ["Wallet Data (*.dat)"];
   Message false [Loc None "+6"]
     "Backup Failed" true
     ["Ошибка при резервном копировании"];
   Message false [Loc None "+0"]
     "There was an error trying to save the wallet data to %1." true
     ["Произошла ошибка при попытке сохранить данные кошелька в %1."];
   Message false [Loc None "+4"]
     "Backup Successful" true
     ["Резервное копирование успешно"];
   Message false [Loc None "+0"]
     "The wallet data was successfully saved to %1." true
     ["Данные кошелька были успешно сохранены в %1."];
   Message false [Loc None "+63"]
     "Cancel" true
     ["Отмена"]].

Definition ru_bitcoin_core_1 : list message :=
  [Message false [Loc (Some "../bitcoinstrings.cpp") "+12"]
     "Bitcoin Confidential Core" true
     ["Bitcoin Confidential Core "];
   Message false [Loc None "+1"]
     "The %s developers" true
     ["Разработчики %s"];
   Message false [Loc None "+1"]
     " is spendable from this wallet." true
     ["доступно для расходования с этого кошелька."];
   Message false [Loc None "+1"]
     "-maxtxfee is set very high! Fees this large could be paid on a single transaction." true
     ["Высокое значение maxtxfee ! Такие большие комиссии могут взиматься за одну транзакцию."];
   Message false [Loc None "+3"]
     "Can&apos;t generate a change-address key. Private keys are disabled for this wallet." true
     ["Невозможно сгенерировать ключ для адреса сдачи. Приватные ключи недоступны для этого кошелька. "];
   Message false [Loc None "+3"]
     "Cannot obtain a lock on data directory %s. %s is probably already running." true
     ["Cannot obtain a lock on data directory %s. %s is probably already running"];
   Message false [Loc None "+2"]
     "Cannot provide specific connections and have addrman find outgoing connections at the same." true
     ["Cannot provide specific connections and have addrman find outgoing connections at the same."];
   Message false [Loc None "+3"]
     "Cannot upgrade a non HD split wallet without upgrading to support pre split keypool. Please use -upgradewallet=169900 or -upgradewallet with no version specified." true
     ["Cannot upgrade a non HD split wallet without upgrading to support pre split keypool. Please use -upgradewallet=169900 or -upgradewallet with no version specified."];
   Message false [Loc None "+4"]
     "Distributed under the MIT software license, see the accompanying file %s or %s" true
     ["Distributed under the MIT software license, see the accompanying file %s or %s."];
   Message false [Loc None "+3"]
     "Error loading %s: You can&apos;t enable HD on an already existing non-HD wallet" true
     ["Error loading %s: You can&apos;t enable HD on an already existing non-HD wallet"];
   Message false [Loc None "+2"]
     "Error reading %s! All keys read correctly, but transaction data or address book entries might be missing or incorrect." true
     ["Error reading %s! All keys read correctly, but transaction data or address book entries might be missing or incorrect."];
   Message false [Loc None "+3"]
     "Error: Listening for incoming connections failed (listen returned error %s)" true
     ["Error: Listening for incoming connections failed (listen returned error %s)"];
   Message false [Loc None "+2"]
     "Fee estimation failed. Fallbackfee is disabled. Wait a few blocks or enable -fallbackfee." true
     ["Не удалось оценить комиссию. Fallbackfee отключено. Подождите несколько блоков или включите -fallbackfee."];
   Message false [Loc None "+3"]
     "Generate a random master key and main account if no master key exists. (default: %s)" true
     ["Генерировать случайный мастер ключ и основную учетную запись, если мастер ключ отсутствует. (default: %s)"];
   Message false [Loc None "+3"]
     "Group outputs by address, selecting all or none, instead of selecting on a per-output basis. Privacy is improved as an address is only used once (unless someone sends to it after spending from it), but may result in slightly higher fees as suboptimal coin selection may result due to the added limitation (default: %u)" true
     ["Группируйте выходы по адресу, выбирая все или ни одного, вместо того, чтобы выбирать по отдельности для каждого выхода. Таким образом повышается конфиденциальность, так как адрес используется только один раз (за исключением случаев, когда кто-то отправляет на него средства после того, как с него было произведено расходование средств), но это так же может привести к несколько более высокой комиссии, поскольку из-за дополнительного ограничения монеты будут выбраны иным образом (по умолчанию: %u)."];
   Message false [Loc None "+6"]
     "Invalid amount for -maxtxfee=&lt;amount&gt;: &apos;%s&apos; (must be at least the minrelay fee of %s to prevent stuck transactions)" true
     ["Недействительная сумма для -maxtxfee=1: &apos;%s&apos; (должна быть не менее минимального значения %s для предотвращения зависания транзакции)"];
   Message false [Loc None "+3"]
     "Milliseconds between stake attempts. Lowering this param will not result in more stakes. (default: 500)" true
     ["Milliseconds between stake attempts. Lowering this param will not result in more stakes. (default: 500)"];
   Message false [Loc None "+3"]
     "Not enough spending outputs available in the blockchain for privacy mixing. There are currently %d. For this transaction required: %d" true
     ["Недостаточно выходов &quot;для трат&quot; доступных для микширования. В настоящий момент это %d. Для этой транзакции требуется: %d"];
   Message false [Loc None "+3"]
     "Number of threads to start for staking, max 1 per active wallet, will divide wallets evenly between threads (default: 1)" true
     ["Number of threads to start for staking, max 1 per active wallet, will divide wallets evenly between threads (default: 1)"];
   Message false [Loc None "+3"]
     "On saving a key from the lookahead pool, save all unsaved keys leading up to it too. (default: %s)" true
     ["On saving a key from the lookahead pool, save all unsaved keys leading up to it too. (default: %s)"];
   Message false [Loc None "+3"]
     "Please check that your computer&apos;s date and time are correct! If your clock is wrong, %s will not work properly." true
     ["Пожалуйста, убедитесь, что дата и время на Вашем компьютера верны! Если Ваше время настроено неправильно, %s не будет работать должным образом."];
   Message false [Loc None "+3"]
     "Please contribute if you find %s useful. Visit %s for further information about the software." true
     ["Пожалуйста, привнесите свой вклад, если Вы считаете %s полезным. Посетите раздел %s для получения дополнительной информации о программном обеспечении."];
   Message false [Loc None "+3"]
     "Prune configured below the minimum of %d MiB.  Please use a higher number." true
     ["Prune configured below the minimum of %d MiB. Please use a higher number."];
   Message false [Loc None "+2"]
     "Prune: last wallet synchronisation goes beyond pruned data. You need to -reindex (download the whole blockchain again in case of pruned node)" true
     ["Prune: last wallet synchronisation goes beyond pruned data. You need to -reindex (download the whole blockchain again in case of pruned node)"];
   Message false [Loc None "+3"]
     "Rescans are not possible in pruned mode. You will need to use -reindex which will download the whole blockchain again." true
     ["Rescans are not possible in pruned mode. You will need to use -reindex which will download the whole blockchain again."];
   Message false [Loc None "+3"]
     "The block database contains a block which appears to be from the future. This may be due to your computer&apos;s date and time being set incorrectly. Only rebuild the block database if you are sure that your computer&apos;s date and time are correct" true
     ["База данных блоков содержит блок &quot;из будущего&quot;. Вероятно, это связано с неверной датой и временем Вашего компьютера. Восстанавливайте базу данных блоков только в том случае, когда Вы уверены, что дата и время на Вашем компьютере являются правильными"];
   Message false [Loc None "+5"]
     "The transaction amount is too small to send after the fee has been deducted" true
     ["Сумма транзакции слишком мала для отправки после удержания комиссии"];
   Message false [Loc None "+2"]
     "This is a pre-release test build - use at your own risk - do not use for mining or merchant applications" true
     ["Это предварительная версия тестовой сборки - используйте её по своему усмотрению и под свою ответственность - не используйте для майнинга или переводов"];
   Message false [Loc None "+3"]
     "This is the transaction fee you may discard if change is smaller than dust at this level" true
     ["This is the transaction fee you may discard if change is smaller than dust at this level"]].

Definition ru_bitcoin_core_2 : list message :=
  [Message false [Loc None "+3"]
     "This is the transaction fee you may pay when fee estimates are not available." true
     ["Это комиссия за транзакцию, которую Вы можете заплатить в случае невозможности оценить среднюю комиссию."];
   Message false [Loc None "+2"]
     "This product includes software developed by the OpenSSL Project for use in the OpenSSL Toolkit %s and cryptographic software written by Eric Young and UPnP software written by Thomas Bernard." true
     ["This product includes software developed by the OpenSSL Project for use in the OpenSSL Toolkit %s and cryptographic software written by Eric Young and UPnP software written by Thomas Bernard."];
   Message false [Loc None "+4"]
     "Total length of network version string (%i) exceeds maximum length (%i). Reduce the number or size of uacomments." true
     ["Total length of network version string (%i) exceeds maximum length (%i). Reduce the number or size of uacomments."];
   Message false [Loc None "+3"]
     "Unable to replay blocks. You will need to rebuild the database using -reindex-chainstate." true
     ["Unable to replay blocks. You will need to rebuild the database using -reindex-chainstate."];
   Message false [Loc None "+3"]
     "Unable to rewind the database to a pre-fork state. You will need to redownload the blockchain" true
     ["Unable to rewind the database to a pre-fork state. You will need to redownload the blockchain"];
   Message false [Loc None "+3"]
     "Unsupported argument -socks found. Setting SOCKS version isn&apos;t possible anymore, only SOCKS5 proxies are supported." true
     ["Unsupported argument -socks found. Setting SOCKS version isn&apos;t possible anymore, only SOCKS5 proxies are supported."];
   Message false [Loc None "+3"]
     "Unsupported argument -whitelistalwaysrelay ignored, use -whitelistrelay and/or -whitelistforcerelay." true
     ["Unsupported argument -whitelistalwaysrelay ignored, use -whitelistrelay and/or -whitelistforcerelay."];
   Message false [Loc None "+3"]
     "Warning: Private keys detected in wallet {%s} with disabled private keys" true
     ["Warning: Private keys detected in wallet {%s} with disabled private keys"];
   Message false [Loc None "+2"]
     "Warning: The network does not appear to fully agree! Some miners appear to be experiencing issues." true
     ["Warning: The network does not appear to fully agree! Some miners appear to be experiencing issues."];
   Message false [Loc None "+3"]
     "Warning: Unknown block versions being mined! It&apos;s possible unknown rules are in effect" true
     ["Warning: Unknown block versions being mined! It&apos;s possible unknown rules are in effect"];
   Message false [Loc None "+3"]
     "Warning: Wallet file corrupt, data salvaged! Original %s saved as %s in %s; if your balance or transactions are incorrect you should restore from a backup." true
     ["Warning: Wallet file corrupt, data salvaged! Original %s saved as %s in %s; if your balance or transactions are incorrect you should restore from a backup."];
   Message false [Loc None "+4"]
     "Warning: We do not appear to fully agree with our peers! You may need to upgrade, or other nodes may need to upgrade." true
     ["Warning: We do not appear to fully agree with our peers! You may need to upgrade, or other nodes may need to upgrade."];
   Message false [Loc None "+3"]
     "You need to rebuild the database using -reindex to change -timestampindex" true
     ["You need to rebuild the database using -reindex to change -timestampindex"];
   Message false [Loc None "+2"]
     "You need to rebuild the database using -reindex to go back to unpruned mode.  This will redownload the entire blockchain" true
     ["You need to rebuild the database using -reindex to go back to unpruned mode. This will redownload the entire blockchain"];
   Message false [Loc None "+3"]
     "%d of last 100 blocks have unexpected version" true
     ["%d of last 100 blocks have unexpected version"];
   Message false [Loc None "+1"]
     "%s corrupt, salvage failed" true
     ["%s corrupt, salvage failed"];
   Message false [Loc None "+1"]
     "%s is set very high!" true
     ["%s is set very high!"];
   Message false [Loc None "+1"]
     "-maxmempool must be at least %d MB" true
     ["-maxmempool must be at least %d MB"];
   Message false [Loc None "+1"]
     "Account chain not found" true
     ["Account chain not found"];
   Message false [Loc None "+1"]
     "Address &apos;%s&apos; is not in the address book." true
     [" Адреса &apos;%s&apos; нет в адресной книге."];
   Message false [Loc None "+1"]
     "Address &apos;%s&apos; is recorded in the address book." true
     ["Адрес &apos;%s&apos; записан в адресную книгу."];
   Message false [Loc None "+1"]
     "Anon output not found in db, %d" true
     ["Anon output not found in db, %d"];
   Message false [Loc None "+1"]
     "Anon pubkey not found in db, %s" true
     ["Anon pubkey not found in db, %s"];
   Message false [Loc None "+1"]
     "Cannot downgrade wallet" true
     ["Cannot downgrade wallet"];
   Message false [Loc None "+1"]
     "Cannot resolve -%s address: &apos;%s&apos;" true
     ["Cannot resolve -%s address: &apos;%s&apos;"];
   Message false [Loc None "+1"]
     "Cannot write to data directory &apos;%s&apos;; check permissions." true
     ["Cannot write to data directory &apos;%s&apos;; check permissions."];
   Message false [Loc None "+1"]
     "Change index out of range" true
     ["Change index out of range"];
   Message false [Loc None "+1"]
     "Confidential chain set but not found" true
     ["Confidential chain set but not found"];
   Message false [Loc None "+1"]
     "Copyright (C)" true
     ["Авторское право (C)"];
   Message false [Loc None "+1"]
     "Corrupted block database detected" true
     ["Обнаружена поврежденная база данных блоков"]].

Definition ru_bitcoin_core_3 : list message :=
  [Message false [Loc None "+1"]
     "Could not convert prefix to number." true
     ["Could not convert prefix to number."];
   Message false [Loc None "+1"]
     "Could not decode scan secret as wif, hex or base58." true
     ["Could not decode scan secret as wif, hex or base58."];
   Message false [Loc None "+1"]
     "Could not decode spend secret as hex or base58." true
     ["Could not decode spend secret as hex or base58."];
   Message false [Loc None "+1"]
     "Could not get confidential chain from account." true
     ["Could not get confidential chain from account."];
   Message false [Loc None "+1"]
     "Could not get scan public key." true
     ["Could not get scan public key."];
   Message false [Loc None "+1"]
     "Could not get spend public key." true
     ["Could not get spend public key."];
   Message false [Loc None "+1"]
     "Default account not found" true
     ["Default account not found"];
   Message false [Loc None "+1"]
     "DeriveNextKey failed" true
     ["DeriveNextKey failed"];
   Message false [Loc None "+1"]
     "Do you want to rebuild the block database now?" true
     ["Вы хотите восстановить базу данных блоков сейчас?"];
   Message false [Loc None "+1"]
     "Done loading" true
     ["Загрузка завершена "];
   Message false [Loc None "+1"]
     "Duplicate index found, %d" true
     ["Duplicate index found, %d"];
   Message false [Loc None "+1"]
     "Empty wallet required for import." true
     ["Для импорта необходим пустой кошелек"];
   Message false [Loc None "+1"]
     "Ensure available balance remains above reservebalance. (default: 0)" true
     ["Убедитесь, что доступный баланс остается выше резервного баланса. (по умолчанию: 0)"];
   Message false [Loc None "+1"]
     "EraseSetting failed." true
     ["EraseSetting failed."];
   Message false [Loc None "+1"]
     "Error creating %s: You can&apos;t create non-HD wallets with this version." true
     ["Error creating %s: You can&apos;t create non-HD wallets with this version."];
   Message false [Loc None "+1"]
     "Error initializing block database" true
     ["Error initializing block database"];
   Message false [Loc None "+1"]
     "Error initializing wallet database environment %s!" true
     ["Error initializing wallet database environment %s!"];
   Message false [Loc None "+1"]
     "Error loading %s" true
     ["Error loading %s"];
   Message false [Loc None "+1"]
     "Error loading %s: Private keys can only be disabled during creation" true
     ["Error loading %s: Private keys can only be disabled during creation"];
   Message false [Loc None "+1"]
     "Error loading %s: Wallet corrupted" true
     ["Error loading %s: Wallet corrupted"];
   Message false [Loc None "+1"]
     "Error loading %s: Wallet requires newer version of %s" true
     ["Error loading %s: Wallet requires newer version of %s"];
   Message false [Loc None "+1"]
     "Error loading %s: You can&apos;t disable HD on an already existing HD wallet" true
     ["Error loading %s: You can&apos;t disable HD on an already existing HD wallet"];
   Message false [Loc None "+1"]
     "Error loading block database" true
     ["Error loading block database"];
   Message false [Loc None "+1"]
     "Error loading wallet %s. Duplicate -wallet filename specified." true
     ["Error loading wallet %s. Duplicate -wallet filename specified."];
   Message false [Loc None "+1"]
     "Error opening block database" true
     ["Error opening block database"];
   Message false [Loc None "+1"]
     "Error reading from database, shutting down." true
     ["Error reading from database, shutting down."];
   Message false [Loc None "+1"]
     "Error upgrading chainstate database" true
     ["Error upgrading chainstate database"];
   Message false [Loc None "+1"]
     "Error" true
     ["Error"];
   Message false [Loc None "+1"]
     "Error: A fatal internal error occurred, see debug.log for details" true
     ["Error: A fatal internal error occurred, see debug.log for details"];
   Message false [Loc None "+1"]
     "Error: Disk space is low!" true
     ["Error: Disk space is low!"]].

Definition ru_bitcoin_core_4 : list message :=
  [Message false [Loc None "+1"]
     "ExtKeyGetIndex failed." true
     ["ExtKeyGetIndex failed."];
   Message false [Loc None "+1"]
     "ExtKeySaveAccountToDB failed" true
     ["ExtKeySaveAccountToDB failed"];
   Message false [Loc None "+1"]
     "Failed to listen on any port. Use -listen=0 if you want this." true
     ["Failed to listen on any port. Use -listen=0 if you want this."];
   Message false [Loc None "+1"]
     "Failed to open dongle" true
     ["Failed to open dongle"];
   Message false [Loc None "+1"]
     "Failed to rescan the wallet during initialization" true
     ["Ошибка при повторном сканировании кошелька во время инициализации"];
   Message false [Loc None "+1"]
     "Hit nMaxTries limit, %d, %d" true
     ["Hit nMaxTries limit, %d, %d"];
   Message false [Loc None "+1"]
     "Import failed - AddKeyPubKey failed." true
     ["Import failed - AddKeyPubKey failed."];
   Message false [Loc None "+1"]
     "Import failed - stealth address exists." true
     ["Ошибка при импорте - присутствует скрытый адрес."];
   Message false [Loc None "+1"]
     "Importing..." true
     ["Импорт..."];
   Message false [Loc None "+1"]
     "Incorrect or no genesis block found. Wrong datadir for network?" true
     ["Incorrect or no genesis block found. Wrong datadir for network?"];
   Message false [Loc None "+1"]
     "Information" true
     ["Информация"];
   Message false [Loc None "+1"]
     "Initialization sanity check failed. %s is shutting down." true
     ["Initialization sanity check failed. %s is shutting down."];
   Message false [Loc None "+1"]
     "Insufficient funds" true
     ["Недостаточно средств"];
   Message false [Loc None "+1"]
     "Insufficient funds." true
     ["Недостаточно средств."];
   Message false [Loc None "+1"]
     "Invalid -onion address or hostname: &apos;%s&apos;" true
     ["Invalid -onion address or hostname: &apos;%s&apos;"];
   Message false [Loc None "+1"]
     "Invalid -proxy address or hostname: &apos;%s&apos;" true
     ["Invalid -proxy address or hostname: &apos;%s&apos;"];
   Message false [Loc None "+1"]
     "Invalid BitcoinC address." true
     ["Недействительный адрес BitcoinC."];
   Message false [Loc None "+1"]
     "Invalid amount for -%s=&lt;amount&gt;: &apos;%s&apos;" true
     ["Недействительная сумма для -%s&lt;amount&gt;: &apos;%s&apos;&lt;/amount&gt;"];
   Message false [Loc None "+1"]
     "Invalid amount for -discardfee=&lt;amount&gt;: &apos;%s&apos;" true
     ["Недействительная сумма для -discardfee&lt;amount&gt;: &apos;%s&apos;&lt;/amount&gt;"];
   Message false [Loc None "+1"]
     "Invalid amount for -fallbackfee=&lt;amount&gt;: &apos;%s&apos;" true
     ["Недействительная сумма для -fallbackfee&lt;amount&gt;: &apos;%s&apos;&lt;/amount&gt;"];
   Message false [Loc None "+1"]
     "Invalid amount for -paytxfee=&lt;amount&gt;: &apos;%s&apos; (must be at least %s)" true
     ["Недействительная сумма для -paytxfee&lt;amount&gt;: &apos;%s&apos; (должна быть не менее %s)&lt;/amount&gt;"];
   Message false [Loc None "+1"]
     "Invalid amount for -reservebalance=&lt;amount&gt;" true
     ["Недействительная сумма для -reservebalance= &lt;amount&gt;&lt;/amount&gt;"];
   Message false [Loc None "+1"]
     "Invalid coldstakingaddress." true
     ["Недействительный ColdStaking адрес."];
   Message false [Loc None "+1"]
     "Invalid input key." true
     ["Invalid input key."];
   Message false [Loc None "+1"]
     "Invalid key." true
     ["Недействительный ключ."];
   Message false [Loc None "+1"]
     "Invalid netmask specified in -whitelist: &apos;%s&apos;" true
     ["Invalid netmask specified in -whitelist: &apos;%s&apos;"];
   Message false [Loc None "+1"]
     "Invalid rewardaddress." true
     ["Invalid rewardaddress."];
   Message false [Loc None "+1"]
     "Keypool ran out, please call keypoolrefill first" true
     ["Keypool ran out, please call keypoolrefill first"];
   Message false [Loc None "+1"]
     "Loading P2P addresses..." true
     ["Загрузка P2P-адресов..."]].

Definition ru_bitcoin_core_5 : list message :=
  [Message false [Loc None "+1"]
     "Loading address book for %s.
" true
     ["Загрузка адресной книги для %s."];
   Message false [Loc None "+1"]
     "Loading banlist..." true
     ["Загрузка бан листа..."];
   Message false [Loc None "+1"]
     "Loading block index..." true
     ["Загрузка индекса блока...."];
   Message false [Loc None "+1"]
     "Loading transaction records for %s.
" true
     ["Loading transaction records for %s.
"];
   Message false [Loc None "+1"]
     "Loading wallet..." true
     ["Загрузка кошелька..."];
   Message false [Loc None "+1"]
     "Minimum time in seconds between successful stakes (default: 0)" true
     ["Minimum time in seconds between successful stakes (default: 0)"];
   Message false [Loc None "+1"]
     "Must be json object." true
     ["Must be json object."];
   Message false [Loc None "+1"]
     "Must have account to save keys." true
     ["Must have account to save keys."];
   Message false [Loc None "+1"]
     "Must input a stealthaddress." true
     ["Must input a stealthaddress."];
   Message false [Loc None "+1"]
     "Need a parameter to change." true
     ["Need a parameter to change."];
   Message false [Loc None "+1"]
     "Need to specify a port with -whitebind: &apos;%s&apos;" true
     ["Need to specify a port with -whitebind: &apos;%s&apos;"];
   Message false [Loc None "+1"]
     "New state must be bool." true
     ["New state must be bool."];
   Message false [Loc None "+1"]
     "NewExtKeyFromAccount failed, %s." true
     ["NewExtKeyFromAccount failed, %s."];
   Message false [Loc None "+1"]
     "NewExtKeyFromAccount failed." true
     ["NewExtKeyFromAccount failed."];
   Message false [Loc None "+1"]
     "NewStealthKeyV2FromAccount failed." true
     ["NewStealthKeyV2FromAccount failed."];
   Message false [Loc None "+1"]
     "No default account set." true
     ["No default account set."];
   Message false [Loc None "+1"]
     "No key for anonoutput, %s" true
     ["No key for anonoutput, %s"];
   Message false [Loc None "+1"]
     "Not anon output %s %d" true
     ["Not anon output %s %d"];
   Message false [Loc None "+1"]
     "Not enough file descriptors available." true
     ["Not enough file descriptors available."];
   Message false [Loc None "+1"]
     "Num inputs per signature out of range" true
     ["Num inputs per signature out of range"];
   Message false [Loc None "+1"]
     "Number of keys to load into the lookahead pool per chain. (default: %u)" true
     ["Number of keys to load into the lookahead pool per chain. (default: %u)"];
   Message false [Loc None "+1"]
     "Only able to send to stealth address." true
     ["Only able to send to stealth address."];
   Message false [Loc None "+1"]
     "OpIsCoinstake is not active yet." true
     ["OpIsCoinstake is not active yet."];
   Message false [Loc None "+1"]
     "Output isn&apos;t standard." true
     ["Output isn&apos;t standard."];
   Message false [Loc None "+1"]
     "PrepareTransaction for device failed: %s" true
     ["PrepareTransaction for device failed: %s"];
   Message false [Loc None "+1"]
     "ProduceSignature from device failed: %s" true
     ["ProduceSignature from device failed: %s"];
   Message false [Loc None "+1"]
     "Prune cannot be configured with a negative value." true
     ["Prune cannot be configured with a negative value."];
   Message false [Loc None "+1"]
     "Prune mode is incompatible with -txindex." true
     ["Prune mode is incompatible with -txindex."];
   Message false [Loc None "+1"]
     "Pruning blockstore..." true
     ["Pruning blockstore..."]].

Definition ru_bitcoin_core_6 : list message :=
  [Message false [Loc None "+1"]
     "ReadStoredTx failed for %s" true
     ["ReadStoredTx failed for %s"];
   Message false [Loc None "+1"]
     "Reducing -maxconnections from %d to %d, because of system limitations." true
     ["Reducing -maxconnections from %d to %d, because of system limitations."];
   Message false [Loc None "+1"]
     "Replaying blocks..." true
     ["Replaying blocks..."];
   Message false [Loc None "+1"]
     "Rescanning..." true
     ["Rescanning..."];
   Message false [Loc None "+1"]
     "Rewinding blocks..." true
     ["Rewinding blocks..."];
   Message false [Loc None "+1"]
     "Ring size out of range [%d, %d]" true
     ["Ring size out of range [%d, %d]"];
   Message false [Loc None "+1"]
     "Ring size out of range" true
     ["Ring size out of range"];
   Message false [Loc None "+1"]
     "Scan secret is not 32 bytes." true
     ["Scan secret is not 32 bytes."];
   Message false [Loc None "+1"]
     "SetSetting failed." true
     ["SetSetting failed."];
   Message false [Loc None "+1"]
     "Signing transaction failed" true
     ["Signing transaction failed"];
   Message false [Loc None "+1"]
     "Specified -walletdir &quot;%s&quot; does not exist" true
     ["Specified -walletdir &quot;%s&quot; does not exist"];
   Message false [Loc None "+1"]
     "Specified -walletdir &quot;%s&quot; is a relative path" true
     ["Specified -walletdir &quot;%s&quot; is a relative path"];
   Message false [Loc None "+1"]
     "Specified -walletdir &quot;%s&quot; is not a directory" true
     ["Specified -walletdir &quot;%s&quot; is not a directory"];
   Message false [Loc None "+1"]
     "Specified blocks directory &quot;%s&quot; does not exist." true
     ["Specified blocks directory &quot;%s&quot; does not exist."];
   Message false [Loc None "+1"]
     "Spend secret is not 32 bytes." true
     ["Spend secret is not 32 bytes."];
   Message false [Loc None "+1"]
     "Spend secret must be different to scan secret." true
     ["Spend secret must be different to scan secret."];
   Message false [Loc None "+1"]
     "Stake your coins to support network and gain reward (default: true)" true
     ["Stake your coins to support network and gain reward (default: true)"];
   Message false [Loc None "+1"]
     "Starting network threads..." true
     ["Starting network threads..."];
   Message false [Loc None "+1"]
     "StealthSecret failed, try again." true
     ["StealthSecret failed, try again."];
   Message false [Loc None "+1"]
     "The source code is available from %s." true
     ["The source code is available from %s."];
   Message false [Loc None "+1"]
     "The transaction amount is too small to pay the fee" true
     ["Сумма транзакции слишком мала для оплаты комиссии."];
   Message false [Loc None "+1"]
     "The wallet will avoid paying less than the minimum relay fee." true
     ["The wallet will avoid paying less than the minimum relay fee."];
   Message false [Loc None "+1"]
     "This is experimental software." true
     ["Это пробное программное обеспечение."];
   Message false [Loc None "+1"]
     "This is the minimum transaction fee you pay on every transaction." true
     ["Это минимальная комиссия, которую Вы платите за каждую транзакцию."];
   Message false [Loc None "+1"]
     "This is the transaction fee you will pay if you send a transaction." true
     ["Это комиссия, которую Вы заплатите при отправке транзакции. "];
   Message false [Loc None "+1"]
     "Transaction amount too small" true
     ["Сумма транзакции слишком мала"];
   Message false [Loc None "+1"]
     "Transaction amounts must not be negative" true
     ["Суммы транзакций не должны быть отрицательными"];
   Message false [Loc None "+1"]
     "Transaction amounts must not be negative." true
     ["Суммы транзакций не должны быть отрицательными."];
   Message false [Loc None "+1"]
     "Transaction fee and change calculation failed" true
     ["Transaction fee and change calculation failed"];
   Message false [Loc None "+1"]
     "Transaction fee and change calculation failed." true
     ["Transaction fee and change calculation failed."]].

Definition ru_bitcoin_core_7 : list message :=
  [Message false [Loc None "+1"]
     "Transaction has too long of a mempool chain" true
     ["Transaction has too long of a mempool chain"];
   Message false [Loc None "+1"]
     "Transaction must have at least one recipient" true
     ["Транзакция должна иметь по крайней мере одного получателя"];
   Message false [Loc None "+1"]
     "Transaction must have at least one recipient." true
     ["Транзакция должна иметь по крайней мере одного получателя."];
   Message false [Loc None "+1"]
     "Transaction too large for fee policy" true
     ["Слишком большая транзакция для политики комиссионных сборов"];
   Message false [Loc None "+1"]
     "Transaction too large for fee policy." true
     ["Слишком большая транзакция для политики комиссионных сборов."];
   Message false [Loc None "+1"]
     "Transaction too large" true
     ["Слишком большая транзакция"];
   Message false [Loc None "+1"]
     "TxnBegin failed." true
     ["TxnBegin failed."];
   Message false [Loc None "+1"]
     "Unable to bind to %s on this computer (bind returned error %s)" true
     ["Unable to bind to %s on this computer (bind returned error %s)"];
   Message false [Loc None "+1"]
     "Unable to bind to %s on this computer. %s is probably already running." true
     ["Unable to bind to %s on this computer. %s is probably already running."];
   Message false [Loc None "+1"]
     "Unable to generate initial keys" true
     ["Unable to generate initial keys"];
   Message false [Loc None "+1"]
     "Unable to generate keys" true
     ["Unable to generate keys"];
   Message false [Loc None "+1"]
     "Unable to start HTTP server. See debug log for details." true
     ["Unable to start HTTP server. See debug log for details."];
   Message false [Loc None "+1"]
     "Unknown account." true
     ["Unknown account."];
   Message false [Loc None "+1"]
     "Unknown action, must be one of &apos;add/edit/del&apos;." true
     ["Unknown action, must be one of &apos;add/edit/del&apos;."];
   Message false [Loc None "+1"]
     "Unknown argument for 256bithash: %s." true
     ["Unknown argument for 256bithash: %s."];
   Message false [Loc None "+1"]
     "Unknown argument for add_to_addressbook: %s." true
     ["Unknown argument for add_to_addressbook: %s."];
   Message false [Loc None "+1"]
     "Unknown chain." true
     ["Unknown chain."];
   Message false [Loc None "+1"]
     "Unknown input key version." true
     ["Unknown input key version."];
   Message false [Loc None "+1"]
     "Unknown network specified in -onlynet: &apos;%s&apos;" true
     ["Unknown network specified in -onlynet: &apos;%s&apos;"];
   Message false [Loc None "+1"]
     "Unknown setting" true
     ["Unknown setting"];
   Message false [Loc None "+1"]
     "Unsupported argument -benchmark ignored, use -debug=bench." true
     ["Unsupported argument -benchmark ignored, use -debug=bench."];
   Message false [Loc None "+1"]
     "Unsupported argument -debugnet ignored, use -debug=net." true
     ["Unsupported argument -debugnet ignored, use -debug=net."];
   Message false [Loc None "+1"]
     "Unsupported argument -debugnet ignored, use -debug=smsg." true
     ["Unsupported argument -debugnet ignored, use -debug=smsg."];
   Message false [Loc None "+1"]
     "Unsupported argument -tor found, use -onion." true
     ["Unsupported argument -tor found, use -onion."];
   Message false [Loc None "+1"]
     "Unsupported logging category %s=%s." true
     ["Unsupported logging category %s=%s."];
   Message false [Loc None "+1"]
     "Upgrading txindex database" true
     ["Upgrading txindex database"];
   Message false [Loc None "+1"]
     "User Agent comment (%s) contains unsafe characters." true
     ["User Agent comment (%s) contains unsafe characters."];
   Message false [Loc None "+1"]
     "Verifying blocks..." true
     ["Проверка блоков..."];
   Message false [Loc None "+1"]
     "Verifying wallet(s)..." true
     ["Проверка кошелька(ов)..."];
   Message false [Loc None "+1"]
     "Wallet %s resides outside wallet directory %s" true
     ["Wallet %s resides outside wallet directory %s"]].

Definition ru_bitcoin_core_8 : list message :=
  [Message false [Loc None "+1"]
     "Wallet has no active master key." true
     ["Wallet has no active master key."];
   Message false [Loc None "+1"]
     "Wallet must be unlocked." true
     ["Wallet must be unlocked."];
   Message false [Loc None "+1"]
     "Wallet must have a default account set." true
     ["Wallet must have a default account set."];
   Message false [Loc None "+1"]
     "Wallet needed to be rewritten: restart %s to complete" true
     ["Wallet needed to be rewritten: restart %s to complete"];
   Message false [Loc None "+1"]
     "Warning" true
     ["Warning"];
   Message false [Loc None "+1"]
     "Warning: unknown new rules activated (versionbit %i)" true
     ["Warning: unknown new rules activated (versionbit %i)"];
   Message false [Loc None "+1"]
     "You need to rebuild the database using -reindex to change -addressindex" true
     ["You need to rebuild the database using -reindex to change -addressindex"];
   Message false [Loc None "+1"]
     "You need to rebuild the database using -reindex to change -spentindex" true
     ["You need to rebuild the database using -reindex to change -spentindex"];
   Message false [Loc None "+1"]
     "Zapping all transactions from wallet..." true
     ["Zapping all transactions from wallet..."];
   Message false [Loc None "+1"]
     "accounts missing." true
     ["accounts missing."];
   Message false [Loc None "+1"]
     "accounts must be an array." true
     ["accounts must be an array."];
   Message false [Loc None "+1"]
     "add_to_addressbook can&apos;t be set without save" true
     ["add_to_addressbook can&apos;t be set without save"];
   Message false [Loc None "+1"]
     "address_standard must be a string." true
     ["address_standard must be a string."];
   Message false [Loc None "+1"]
     "bad childNo." true
     ["bad childNo."];
   Message false [Loc None "+1"]
     "bech32 encode failed." true
     ["bech32 encode failed."];
   Message false [Loc None "+1"]
     "coldstakingaddress can&apos;t be a stealthaddress." true
     ["coldstakingaddress can&apos;t be a stealthaddress."];
   Message false [Loc None "+1"]
     "coldstakingaddress must be a string." true
     ["coldstakingaddress must be a string."];
   Message false [Loc None "+1"]
     "extkey must have private key to derive hardened keys." true
     ["extkey must have private key to derive hardened keys."];
   Message false [Loc None "+1"]
     "foundationdonationpercent must be a number." true
     ["foundationdonationpercent must be a number."];
   Message false [Loc None "+1"]
     "height must be a number." true
     ["height must be a number."];
   Message false [Loc None "+1"]
     "loose_extkeys missing." true
     ["loose_extkeys missing."];
   Message false [Loc None "+1"]
     "loose_extkeys must be an array." true
     ["loose_extkeys must be an array."];
   Message false [Loc None "+1"]
     "num_derives to int failed." true
     ["num_derives to int failed."];
   Message false [Loc None "+1"]
     "num_derives_h to int failed." true
     ["num_derives_h to int failed."];
   Message false [Loc None "+1"]
     "num_prefix_bits invalid number." true
     ["num_prefix_bits invalid number."];
   Message false [Loc None "+1"]
     "num_prefix_bits must be &lt;= 32." true
     ["num_prefix_bits must be &lt;= 32."];
   Message false [Loc None "+1"]
     "rewardaddress must be a string." true
     ["rewardaddress must be a string."];
   Message false [Loc None "+1"]
     "secp256k1_generate_mlsag failed %d" true
     ["secp256k1_generate_mlsag failed %d"];
   Message false [Loc None "+1"]
     "secp256k1_get_keyimage failed %d" true
     ["secp256k1_get_keyimage failed %d"];
   Message false [Loc None "+1"]
     "secp256k1_prepare_mlsag failed %d" true
     ["secp256k1_prepare_mlsag failed %d"]].

Definition ru_bitcoin_core_9 : list message :=
  [Message false [Loc None "+1"]
     "stakecombinethreshold can&apos;t be negative." true
     ["stakecombinethreshold can&apos;t be negative."];
   Message false [Loc None "+1"]
     "stakesplitthreshold can&apos;t be negative." true
     ["stakesplitthreshold can&apos;t be negative."]].

(** The whole document. *)
Definition bitcoin_ru_RU : catalogue :=
  [Context "AddressBookPage" (ru_AddressBookPage_1 ++ ru_AddressBookPage_2);
   Context "AddressTableModel" (ru_AddressTableModel);
   Context "AskPassphraseDialog" (ru_AskPassphraseDialog_1 ++ ru_AskPassphraseDialog_2);
   Context "BanTableModel" (ru_BanTableModel);
   Context "BitcoinGUI" (ru_BitcoinGUI_1 ++ ru_BitcoinGUI_2 ++ ru_BitcoinGUI_3 ++ ru_BitcoinGUI_4);
   Context "CoinControlDialog" (ru_CoinControlDialog_1 ++ ru_CoinControlDialog_2);
   Context "EditAddressDialog" (ru_EditAddressDialog);
   Context "FreespaceChecker" (ru_FreespaceChecker);
   Context "HelpMessageDialog" (ru_HelpMessageDialog);
   Context "Intro" (ru_Intro);
   Context "MnemonicDialog" (ru_MnemonicDialog_1 ++ ru_MnemonicDialog_2);
   Context "ModalOverlay" (ru_ModalOverlay);
   Context "OpenURIDialog" (ru_OpenURIDialog);
   Context "OptionsDialog" (ru_OptionsDialog_1 ++ ru_OptionsDialog_2 ++ ru_OptionsDialog_3);
   Context "OverviewPage" (ru_OverviewPage);
   Context "PaymentServer" (ru_PaymentServer);
   Context "PeerTableModel" (ru_PeerTableModel);
   Context "QObject" (ru_QObject);
   Context "QObject::QObject" (ru_QObject__QObject);
   Context "QRImageWidget" (ru_QRImageWidget);
   Context "RPCConsole" (ru_RPCConsole_1 ++ ru_RPCConsole_2 ++ ru_RPCConsole_3);
   Context "ReceiveCoinsDialog" (ru_ReceiveCoinsDialog);
   Context "ReceiveRequestDialog" (ru_ReceiveRequestDialog);
   Context "RecentRequestsTableModel" (ru_RecentRequestsTableModel);
   Context "SendCoinsDialog" (ru_SendCoinsDialog_1 ++ ru_SendCoinsDialog_2 ++ ru_SendCoinsDialog_3);
   Context "SendCoinsEntry" (ru_SendCoinsEntry_1 ++ ru_SendCoinsEntry_2);
   Context "SendConfirmationDialog" (ru_SendConfirmationDialog);
   Context "ShutdownWindow" (ru_ShutdownWindow);
   Context "SignVerifyMessageDialog" (ru_SignVerifyMessageDialog_1 ++ ru_SignVerifyMessageDialog_2);
   Context "SplashScreen" (ru_SplashScreen);
   Context "StakingDialog" (ru_StakingDialog_1 ++ ru_StakingDialog_2);
   Context "TrafficGraphWidget" (ru_TrafficGraphWidget);
   Context "TransactionDesc" (ru_TransactionDesc_1 ++ ru_TransactionDesc_2);
   Context "TransactionDescDialog" (ru_TransactionDescDialog);
   Context "TransactionTableModel" (ru_TransactionTableModel_1 ++ ru_TransactionTableModel_2);
   Context "TransactionView" (ru_TransactionView_1 ++ ru_TransactionView_2);
   Context "TxViewDelegate" (ru_TxViewDelegate);
   Context "UnitDisplayStatusBarControl" (ru_UnitDisplayStatusBarControl);
   Context "WalletFrame" (ru_WalletFrame);
   Context "WalletModel" (ru_WalletModel);
   Context "WalletView" (ru_WalletView);
   Context "bitcoin-core" (ru_bitcoin_core_1 ++ ru_bitcoin_core_2 ++ ru_bitcoin_core_3 ++ ru_bitcoin_core_4 ++ ru_bitcoin_core_5 ++ ru_bitcoin_core_6 ++ ru_bitcoin_core_7 ++ ru_bitcoin_core_8 ++ ru_bitcoin_core_9)].
