(* ===== verification/CatalogueVi.v ===== *)
(** The Vietnamese catalogue, [src/src/qt/locale/bitcoin_vi_VN.ts], context by context; a long
    context is cut into parts.  Texts are as in the file. *)
From S2P Require Import Prelude Locale.
Open Scope txt_scope.
Open Scope list_scope.

Definition vi_AddressBookPage_1 : list message :=
  [Message false [Loc (Some "../forms/addressbookpage.ui") "+27"]
     "Enter address or label to search" true
     ["Nhập địa chỉ hoặc nhãn để tìm kiếm"];
   Message false [Loc None "+10"]
     "Right-click to edit address or label" true
     ["Nhấp chuột phải để chỉnh sửa địa chỉ hoặc nhãn"];
   Message false [Loc None "+30"; Loc None "+17"; Loc None "+17"]
     "Create a new address" true
     ["Tạo địa chỉ mới"];
   Message false [Loc None "-31"]
     "&amp;New" true
     ["&amp; Mới"];
   Message false [Loc None "+17"]
     "&amp;New Stake address" true
     ["&amp; Địa chỉ giáo khu mới"];
   Message false [Loc None "+17"]
     "&amp;New ColdStake address" true
     ["&amp; Địa chỉ mới ColdStake"];
   Message false [Loc None "+14"]
     "Copy the currently selected address to the system clipboard" true
     ["Sao chép địa chỉ được chọn hiện thời vào clipboard hệ thống"];
   Message false [Loc None "+3"]
     "&amp;Copy" true
     ["&amp; Sao chép"];
   Message false [Loc None "+14"]
     "Delete the currently selected address from the list" true
     ["Xoá địa chỉ được chọn hiện thời khỏi danh sách"];
   Message false [Loc None "+3"]
     "&amp;Delete" true
     ["&amp; Xoùa"];
   Message false [Loc None "+27"]
     "Export the data in the current tab to a file" true
     ["Xuất dữ liệu trong tab hiện tại sang tệp"];
   Message false [Loc None "+3"]
     "&amp;Export" true
     ["&amp; Xuất khẩu"];
   Message false [Loc None "+20"]
     "C&amp;lose" true
     ["C&amp;lose"];
   Message false [Loc (Some "../addressbookpage.cpp") "+84"]
     "These are your Bitcoin Confidential addresses for sending payments. Always check the amount and the receiving address before sending coins." true
     ["Đây là những địa chỉ bảo mật Bitcoin của bạn để gửi thanh toán. Luôn kiểm tra lượng và địa chỉ nhận trước khi gửi tiền xu."];
   Message false [Loc None "+8"]
     "Choose the address to send coins to" true
     ["Chọn địa chỉ để gửi tiền xu đến"];
   Message false [Loc None "+4"; Loc None "+22"; Loc None "+28"]
     "C&amp;hoose" true
     ["C&amp;hoose"];
   Message false [Loc None "-44"]
     "Sending addresses" true
     ["Gửi địa chỉ"];
   Message false [Loc None "+12"]
     "Choose the address to receive coins with" true
     ["Chọn địa chỉ để nhận tiền xu với"];
   Message false [Loc None "+10"]
     "Receiving addresses" true
     ["Nhận địa chỉ"];
   Message false [Loc None "+1"]
     "These are your Bitcoin Confidential addresses for receiving payments. It is recommended to use a new receiving address for each transaction." true
     ["Đây là những địa chỉ bảo mật Bitcoin của bạn để nhận thanh toán. Bạn nên sử dụng địa chỉ nhận mới cho mỗi giao dịch."];
   Message false [Loc None "+13"]
     "Choose the Stake or ColdStake address" true
     ["Chọn địa chỉ stake hoặc ColdStake"];
   Message false [Loc None "+1"]
     "These are your Bitcoin Confidential Stake and ColdStake addresses." true
     ["Đây là những địa chỉ bảo mật Bitcoin của bạn và ColdStake."];
   Message false [Loc None "+16"]
     "Stake and ColdStake addresses" true
     ["Địa chỉ giáo khu và ColdStake"];
   Message false [Loc None "+1"]
     "These addresses cannot be used to receive coins from outside the wallet, such as payments or from exchanges.  Use the Receive tab to generate spending addresses.

Stake addresses, starting with &quot;%1&quot;, are used to convert spending funds into staking funds in the &quot;Convert to Staking&quot; tab. Funds in Stake addresses can be either used for hot staking or the activation of ColdStaking.

ColdStake addresses, starting with &quot;%2&quot;, are used to manually activate staking funds for ColdStaking. There is no need to generate ColdStake addresses when the automated ColdStaking activation from the Staking Status page is used." true
     ["Các địa chỉ này không thể được sử dụng để nhận tiền từ bên ngoài ví, chẳng hạn như thanh toán hoặc từ các sàn giao dịch.  Sử dụng tab nhận để tạo địa chỉ chi tiêu.

Địa chỉ giáo khu, bắt đầu với &quot;% 1&quot;, được sử dụng để chuyển đổi tiền chi tiêu thành tiền staking trong tab &quot;Convert to staking&quot;. các quỹ trong địa chỉ giáo khu có thể được sử dụng cho các staking nóng hoặc kích hoạt của ColdStaking.

Địa chỉ ColdStake, bắt đầu với &quot;% 2&quot;, được sử dụng để tự kích hoạt quỹ staking cho ColdStaking. Không cần phải tạo địa chỉ ColdStake khi sử dụng kích hoạt tự động ColdStaking từ trang staking status."];
   Message false [Loc None "+11"]
     "&amp;Copy Address" true
     ["&amp; Địa chỉ sao chép"];
   Message false [Loc None "+1"]
     "Copy &amp;Label" true
     ["Sao chép &amp; Label"];
   Message false [Loc None "+1"]
     "&amp;Edit" true
     ["&amp; Sửa đổi"]].

Definition vi_AddressBookPage_2 : list message :=
  [Message false [Loc None "+186"]
     "Export Address List" true
     ["Xuất danh sách địa chỉ"];
   Message false [Loc None "+1"]
     "Comma separated file (*.csv)" true
     ["Tệp phân tách bằng dấu phẩy (*. CSV)"];
   Message false [Loc None "+13"]
     "Exporting Failed" true
     ["Xuất khẩu thất bại"];
   Message false [Loc None "+1"]
     "There was an error trying to save the address list to %1. Please try again." true
     ["Đã có lỗi khi cố lưu danh sách địa chỉ vào% 1. Vui lòng thử lại."]].

Definition vi_AddressTableModel : list message :=
  [Message false [Loc (Some "../addresstablemodel.cpp") "+188"]
     "Label" true
     ["Nhãn"];
   Message false [Loc None "+0"]
     "Address" true
     ["Địa chỉ"];
   Message false [Loc None "+36"]
     "(no label)" true
     ["(không có nhãn)"]].

Definition vi_AskPassphraseDialog_1 : list message :=
  [Message false [Loc (Some "../forms/askpassphrasedialog.ui") "+26"]
     "Passphrase Dialog" true
     ["Hộp thoại mật khẩu"];
   Message false [Loc None "+30"]
     "Enter passphrase" true
     ["Nhập cụm từ mật khẩu"];
   Message false [Loc None "+14"]
     "New passphrase" true
     ["Mật khẩu mới"];
   Message false [Loc None "+14"]
     "Repeat new passphrase" true
     ["Lặp lại mật khẩu mới"];
   Message false [Loc None "+14"]
     "Show password" true
     ["Hiện mật khẩu"];
   Message false [Loc None "+23"]
     "Unlock For Staking Only" true
     ["Chỉ mở khóa cho staking"];
   Message false [Loc (Some "../askpassphrasedialog.cpp") "+48"]
     "Enter the new passphrase to the wallet.&lt;br/&gt;Please use a passphrase of &lt;b&gt;ten or more random characters&lt;/b&gt;, or &lt;b&gt;eight or more words&lt;/b&gt;." true
     ["Nhập mật khẩu mới vào ví.&lt;br&gt;Vui lòng sử dụng một cụm từ mật khẩu của &lt;b&gt;mười hoặc nhiều ký tự ngẫu nhiên&lt;/b&gt;, hoặc &lt;b&gt;tám hoặc nhiều từ&lt;/b&gt;."];
   Message false [Loc None "+3"]
     "Encrypt wallet" true
     ["Mã hóa ví"];
   Message false [Loc None "+3"; Loc None "+8"]
     "This operation needs your wallet passphrase to unlock the wallet." true
     ["Thao tác này cần mật khẩu ví của bạn để mở khóa ví."];
   Message false [Loc None "-3"; Loc None "+9"]
     "Unlock wallet" true
     ["Mở khóa ví"];
   Message false [Loc None "+3"]
     "This operation needs your wallet passphrase to decrypt the wallet." true
     ["Thao tác này cần mật khẩu ví của bạn để giải mã ví."];
   Message false [Loc None "+5"]
     "Decrypt wallet" true
     ["Giải mã ví"];
   Message false [Loc None "+3"]
     "Change passphrase" true
     ["Thay đổi mật khẩu"];
   Message false [Loc None "+1"]
     "Enter the old passphrase and new passphrase to the wallet." true
     ["Nhập mật khẩu cũ và mật khẩu mới vào ví."];
   Message false [Loc None "+47"]
     "Confirm wallet encryption" true
     ["Xác nhận mã hóa ví"];
   Message false [Loc None "+1"]
     "Warning: If you encrypt your wallet and lose your passphrase, you will &lt;b&gt;LOSE ALL OF YOUR BITCOIN CONFIDENTIAL&lt;/b&gt;!" true
     ["Cảnh báo: nếu bạn mã hóa ví của bạn và mất mật khẩu của bạn, bạn sẽ &lt;b&gt;mất tất cả Bitcoin bí mật của bạn&lt;/b&gt;!"];
   Message false [Loc None "+0"]
     "Are you sure you wish to encrypt your wallet?" true
     ["Bạn có chắc bạn muốn mã hóa ví của mình không?"];
   Message false [Loc None "+9"; Loc None "+59"]
     "Wallet encrypted" true
     ["Wallet được mã hóa"];
   Message false [Loc None "-57"]
     "%1 will close now to finish the encryption process. Remember that encrypting your wallet cannot fully protect your Bitcoin Confidential from being stolen by malware infecting your computer." true
     ["% 1 sẽ đóng ngay để hoàn thành quá trình mã hóa. Hãy nhớ rằng việc mã hóa ví của bạn không thể bảo vệ hoàn toàn bí mật Bitcoin của bạn khỏi bị đánh cắp bởi phần mềm độc hại lây nhiễm máy tính của bạn."];
   Message false [Loc None "+4"]
     "IMPORTANT: Any previous backups you have made of your wallet file should be replaced with the newly generated, encrypted wallet file. For security reasons, previous backups of the unencrypted wallet file will become useless as soon as you start using the new, encrypted wallet." true
     ["QUAN trọng: bất kỳ bản sao lưu trước đó bạn đã thực hiện của tập tin ví của bạn nên được thay thế bằng tập tin mới được tạo ra, ví mã hóa. Vì lý do bảo mật, các bản sao lưu trước của tệp ví không được mã hóa sẽ trở nên vô ích ngay khi bạn bắt đầu sử dụng ví mới được mã hóa."];
   Message false [Loc None "+9"; Loc None "+7"; Loc None "+43"; Loc None "+6"]
     "Wallet encryption failed" true
     ["Mã hóa Wallet không thành công"];
   Message false [Loc None "-55"]
     "Wallet encryption failed due to an internal error. Your wallet was not encrypted." true
     ["Mã hóa Wallet không thành công do lỗi nội bộ. Ví của bạn đã không được mã hóa."];
   Message false [Loc None "+7"; Loc None "+49"]
     "The supplied passphrases do not match." true
     ["Các mật khẩu cung cấp không khớp."];
   Message false [Loc None "-37"]
     "Wallet unlock failed" true
     ["Wallet mở khóa không thành công"];
   Message false [Loc None "+1"; Loc None "+11"; Loc None "+19"]
     "The passphrase entered for the wallet decryption was incorrect." true
     ["Mật khẩu đã nhập cho việc giải mã ví không chính xác."];
   Message false [Loc None "-20"]
     "Wallet decryption failed" true
     ["Giải mã Wallet thất bại"];
   Message false [Loc None "+14"]
     "Wallet passphrase was successfully changed." true
     ["Cụm từ mật khẩu Wallet đã được thay đổi thành công."]].

Definition vi_AskPassphraseDialog_2 : list message :=
  [Message false [Loc None "+48"; Loc None "+33"]
     "Warning: The Caps Lock key is on!" true
     ["Cảnh báo: phím Caps Lock đang bật!"]].

Definition vi_BanTableModel : list message :=
  [Message false [Loc (Some "../bantablemodel.cpp") "+88"]
     "IP/Netmask" true
     ["IP/netmask"];
   Message false [Loc None "+0"]
     "Banned Until" true
     ["Bị cấm cho đến khi"]].

Definition vi_BitcoinGUI_1 : list message :=
  [Message false [Loc (Some "../bitcoingui.cpp") "+94"]
     "Wallet" true
     ["Ví"];
   Message false [Loc None "+2"]
     "Node" true
     ["Nút"];
   Message false [Loc None "+169"]
     "Overview" true
     ["Tổng quan về"];
   Message false [Loc None "+1"]
     "Show general overview of wallet" true
     ["Hiển thị tổng quan chung về ví"];
   Message false [Loc None "+7"]
     "Send" true
     ["Gửi"];
   Message false [Loc None "+1"]
     "Send coins to a Bitcoin Confidential Spending address" true
     ["Gửi tiền xu đến địa chỉ chi tiêu bí mật Bitcoin"];
   Message false [Loc None "+11"]
     "Receive" true
     ["Nhận"];
   Message false [Loc None "+1"]
     "Request payments (generates Spending address QR codes and bitcoinc: URIs)" true
     ["Yêu cầu thanh toán (tạo địa chỉ chi tiêu QR code và bitcoinc: URIs)"];
   Message false [Loc None "+11"]
     "Transactions" true
     ["Giao dịch"];
   Message false [Loc None "+1"]
     "Browse transaction history" true
     ["Duyệt lịch sử giao dịch"];
   Message false [Loc None "+7"]
     "Staking" true
     ["Staking"];
   Message false [Loc None "+1"]
     "Setup staking" true
     ["Thiết lập staking"];
   Message false [Loc None "+25"]
     "E&amp;xit" true
     ["E&amp;xit"];
   Message false [Loc None "+1"]
     "Quit application" true
     ["Thoát khỏi ứng dụng"];
   Message false [Loc None "+3"]
     "&amp;About %1" true
     ["&amp; About% 1"];
   Message false [Loc None "+1"]
     "Show information about %1" true
     ["Hiện thông tin về% 1"];
   Message false [Loc None "+3"]
     "About &amp;Qt" true
     ["Về &amp; Qt"];
   Message false [Loc None "+1"]
     "Show information about Qt" true
     ["Hiển thị thông tin về Qt"];
   Message false [Loc None "+2"]
     "&amp;Options..." true
     ["&amp; Tùy chọn..."];
   Message false [Loc None "+1"]
     "Modify configuration options for %1" true
     ["Sửa đổi các tùy chọn cấu hình cho% 1"];
   Message false [Loc None "+3"]
     "&amp;Show / Hide" true
     ["&amp; Hiển thị/ẩn"];
   Message false [Loc None "+1"]
     "Show or hide the main Window" true
     ["Hiển thị hoặc ẩn cửa sổ chính"];
   Message false [Loc None "+2"]
     "&amp;Encrypt Wallet..." true
     ["&amp; Mã hóa Wallet..."];
   Message false [Loc None "+1"]
     "Encrypt the private keys that belong to your wallet" true
     ["Mã hóa các khóa riêng thuộc về ví của bạn"];
   Message false [Loc None "+2"]
     "&amp;Backup Wallet..." true
     ["&amp; Wallet sao lưu..."];
   Message false [Loc None "+1"]
     "Backup wallet to another location" true
     ["Ví sao lưu vào vị trí khác"];
   Message false [Loc None "+1"]
     "&amp;Change Passphrase..." true
     ["&amp; Thay đổi cụm từ mật khẩu..."];
   Message false [Loc None "+1"]
     "Change the passphrase used for wallet encryption" true
     ["Thay đổi mật khẩu được sử dụng để mã hóa ví"];
   Message false [Loc None "+1"]
     "Sign &amp;message..." true
     ["Đăng &amp; tin nhắn..."]].

Definition vi_BitcoinGUI_2 : list message :=
  [Message false [Loc None "+1"]
     "Sign messages with your Bitcoin Confidential addresses to prove you own them" true
     ["Ký các tin nhắn bằng các địa chỉ bảo mật Bitcoin của bạn để chứng minh bạn sở hữu chúng"];
   Message false [Loc None "+1"]
     "&amp;Verify message..." true
     ["&amp; Xác minh thông báo..."];
   Message false [Loc None "+1"]
     "Verify messages to ensure they were signed with specified Bitcoin Confidential addresses" true
     ["Xác minh thư để đảm bảo chúng được ký bằng địa chỉ mật Bitcoin đã chỉ định"];
   Message false [Loc None "+2"]
     "&amp;Debug window" true
     ["&amp; Gỡ lỗi cửa sổ"];
   Message false [Loc None "+1"]
     "Open debugging and diagnostic console" true
     ["Mở gỡ lỗi và bàn điều khiển chẩn đoán"];
   Message false [Loc None "+4"]
     "&amp;Sending addresses..." true
     ["&amp; Gửi địa chỉ..."];
   Message false [Loc None "+1"]
     "Show the list of used sending addresses and labels" true
     ["Hiển thị danh sách các địa chỉ gửi và nhãn được sử dụng"];
   Message false [Loc None "+1"]
     "&amp;Receiving addresses..." true
     ["&amp; Nhận địa chỉ..."];
   Message false [Loc None "+1"]
     "Show the list of used receiving addresses and labels" true
     ["Hiển thị danh sách các địa chỉ và nhãn nhận được sử dụng"];
   Message false [Loc None "+2"]
     "Open &amp;URI..." true
     ["Mở &amp; URI..."];
   Message false [Loc None "+1"]
     "Open a bitcoinc: URI or payment request" true
     ["Mở một bitcoinc: URI hoặc yêu cầu thanh toán"];
   Message false [Loc None "+2"]
     "&amp;Command-line options" true
     ["&amp; Tùy chọn dòng lệnh"];
   Message false [Loc None "+2"]
     "Show the %1 help message to get a list with possible Bitcoin Confidential command-line options" true
     ["Hiển thị thông báo Trợ giúp% 1 để nhận danh sách có thể tùy chọn dòng lệnh bí mật Bitcoin"];
   Message false [Loc None "+2"]
     "&amp;HD Wallet..." true
     ["&amp; HD Wallet..."];
   Message false [Loc None "+45"]
     "&amp;File" true
     ["&amp; Tập tin"];
   Message false [Loc None "+16"]
     "&amp;Settings" true
     ["&amp; Cài đặt"];
   Message false [Loc None "+9"]
     "&amp;Help" true
     ["&amp; Trợ giúp"];
   Message false [Loc None "+15"]
     "Tabs toolbar" true
     ["Thanh công cụ tab"];
   Message false [Loc None "+113"]
     "default wallet" true
     ["Ví mặc định"];
   Message false [Loc None "+88"]
     "%1 client" true
     ["% 1 khách hàng"];
   Message true [Loc None "+189"]
     "%n active connection(s) to Bitcoin Confidential network" false
     [(Txt [])];
   Message false [Loc None "+0"]
     "Click to disable network activity." true
     ["Bấm để vô hiệu hóa hoạt động mạng."];
   Message false [Loc None "+2"]
     "Network activity disabled." true
     ["Hoạt động mạng bị vô hiệu hoá."];
   Message false [Loc None "+0"]
     "Click to enable network activity again." true
     ["Bấm để bật lại hoạt động mạng."];
   Message false [Loc None "+28"]
     "Syncing Headers (%1%)..." true
     ["Tiêu đề đồng bộ hoá (% 1%)..."];
   Message false [Loc None "+26"]
     "Synchronizing with network..." true
     ["Đồng bộ hoá với mạng..."];
   Message false [Loc None "+5"]
     "Indexing blocks on disk..." true
     ["Lập chỉ mục khối trên đĩa..."];
   Message false [Loc None "+2"]
     "Processing blocks on disk..." true
     ["Xử lý các khối trên đĩa..."];
   Message false [Loc None "+4"]
     "Reindexing blocks on disk..." true
     ["Reindexing khối trên đĩa..."];
   Message false [Loc None "+6"]
     "Connecting to peers..." true
     ["Kết nối với các đồng nghiệp..."]].

Definition vi_BitcoinGUI_3 : list message :=
  [Message true [Loc None "+9"]
     "Processed %n block(s) of transaction history." false
     [(Txt [])];
   Message false [Loc None "+5"]
     "Up to date" true
     ["Đến nay"];
   Message false [Loc None "+19"]
     "%1 behind" true
     ["% 1 phía sau"];
   Message false [Loc None "+5"]
     "Catching up..." true
     ["Bắt kịp..."];
   Message false [Loc None "+19"]
     "Last received block was generated %1 ago." true
     ["Khối đã nhận lần cuối được tạo ra% 1 trước đây."];
   Message false [Loc None "+2"]
     "Transactions after this will not yet be visible." true
     ["Giao dịch sau khi điều này sẽ chưa được hiển thị."];
   Message false [Loc None "+13"]
     "Bitcoin Confidential" true
     ["Bitcoin bí mật"];
   Message false [Loc None "+14"]
     "Error" true
     ["Lỗi"];
   Message false [Loc None "+3"]
     "Warning" true
     ["Cảnh báo"];
   Message false [Loc None "+3"]
     "Information" true
     ["Thông tin"];
   Message false [Loc None "+116"]
     "Date: %1
" true
     ["Ngày:% 1"];
   Message false [Loc None "+1"]
     "Amount: %1
" true
     ["Lượng:% 1"];
   Message false [Loc None "+2"]
     "Wallet: %1
" true
     ["Ví:% 1"];
   Message false [Loc None "+2"]
     "Type: %1
" true
     ["Loại:% 1"];
   Message false [Loc None "+2"]
     "Label: %1
" true
     ["Nhãn:% 1"];
   Message false [Loc None "+2"]
     "Address: %1
" true
     ["Địa chỉ:% 1"];
   Message false [Loc None "+1"]
     "Sent transaction" true
     ["Giao dịch đã gửi"];
   Message false [Loc None "+0"]
     "Incoming transaction" true
     ["Giao dịch đến"];
   Message false [Loc None "+52"]
     "HD key generation is &lt;b&gt;enabled&lt;/b&gt;" true
     ["Tạo phím HD được &lt;b&gt;kích hoạt&lt;/b&gt;"];
   Message false [Loc None "+0"]
     "HD key generation is &lt;b&gt;disabled&lt;/b&gt;" true
     ["Thế hệ phím HD bị &lt;b&gt;vô hiệu hoá&lt;/b&gt;"];
   Message false [Loc None "+13"]
     "Wallet is &lt;b&gt;not encrypted&lt;/b&gt;. Click the opened lock to encrypt it." true
     ["Wallet &lt;b&gt;không được mã hóa&lt;/b&gt;. Nhấp vào khóa mở để mã hóa nó."];
   Message false [Loc None "+8"]
     "Wallet is &lt;b&gt;encrypted&lt;/b&gt; and currently &lt;b&gt;unlocked&lt;/b&gt;" true
     ["Wallet được &lt;b&gt;mã hóa&lt;/b&gt; và hiện đang &lt;b&gt;mở khóa&lt;/b&gt;"];
   Message false [Loc None "+8"]
     "Wallet is &lt;b&gt;encrypted&lt;/b&gt; and currently &lt;b&gt;unlocked&lt;/b&gt; for staking only" true
     ["Wallet được &lt;b&gt;mã hóa&lt;/b&gt; và hiện đang &lt;b&gt;mở khóa&lt;/b&gt; cho staking chỉ"];
   Message false [Loc None "+8"]
     "Wallet is &lt;b&gt;encrypted&lt;/b&gt; and currently &lt;b&gt;locked&lt;/b&gt;" true
     ["Wallet được &lt;b&gt;mã hóa&lt;/b&gt; và hiện đang &lt;b&gt;bị khóa&lt;/b&gt;"];
   Message false [Loc None "+58"]
     "Proxy is &lt;b&gt;enabled&lt;/b&gt;: %1" true
     ["Proxy được &lt;b&gt;bật&lt;/b&gt;:% 1"];
   Message false [Loc None "+28"]
     "Tor is &lt;b&gt;enabled&lt;/b&gt;" true
     ["Tor được &lt;b&gt;kích hoạt&lt;/b&gt;"];
   Message false [Loc None "+3"]
     "Tor is &lt;b&gt;enabled&lt;/b&gt;, but its not the only network used. Use only onlynet=onion." true
     ["Tor được &lt;b&gt;kích hoạt&lt;/b&gt;, nhưng nó không phải là mạng duy chỉ được sử dụng. Chỉ sử dụng onlynet = Onion."];
   Message false [Loc None "+3"]
     "Tor is &lt;b&gt;disabled&lt;/b&gt;. To enhance your privacy setup consider using tor by setting &lt;b&gt;onlynet=onion&lt;/b&gt; in your &lt;b&gt;bitcoinc.conf&lt;/b&gt;." true
     ["Tor bị &lt;b&gt;vô hiệu&lt;/b&gt;. Để nâng cao thiết lập quyền riêng tư của bạn xem xét sử dụng Tor bằng cách thiết lập &lt;b&gt;onlynet = hành&lt;/b&gt; trong &lt;b&gt;bitcoinc. conf&lt;/b&gt;của bạn."]].

Definition vi_BitcoinGUI_4 : list message :=
  [Message false [Loc (Some "../bitcoin.cpp") "+528"]
     "A fatal error occurred. Bitcoin Confidential can no longer continue safely and will quit." true
     ["Xảy ra lỗi nghiêm trọng. Bitcoin bí mật không còn có thể tiếp tục một cách an toàn và sẽ bỏ thuốc lá."]].

Definition vi_CoinControlDialog_1 : list message :=
  [Message false [Loc (Some "../forms/coincontroldialog.ui") "+14"]
     "Coin Selection" true
     ["Lựa chọn đồng xu"];
   Message false [Loc None "+34"]
     "Quantity:" true
     ["Số lượng"];
   Message false [Loc None "+29"]
     "Bytes:" true
     ["Byte:"];
   Message false [Loc None "+45"]
     "Amount:" true
     ["Lượng:"];
   Message false [Loc None "+32"]
     "Dust:" true
     ["Bụi:"];
   Message false [Loc None "+48"]
     "Fee:" true
     ["Phí:"];
   Message false [Loc None "+45"]
     "After Fee:" true
     ["Sau khi lệ phí:"];
   Message false [Loc None "+32"]
     "Change:" true
     ["Thay đổi:"];
   Message false [Loc None "+57"]
     "Standard" true
     ["Tiêu chuẩn"];
   Message false [Loc None "+5"]
     "Anon" true
     ["Anon"];
   Message false [Loc None "+14"]
     "Show all" true
     ["Hiển thị tất cả"];
   Message false [Loc None "+13"]
     "(un)select all" true
     ["(un) chọn tất cả"];
   Message false [Loc None "+16"]
     "Tree mode" true
     ["Chế độ cây"];
   Message false [Loc None "+13"]
     "List mode" true
     ["Chế độ danh sách"];
   Message false [Loc None "+74"]
     "Amount" true
     ["Lượng"];
   Message false [Loc None "+8"]
     "Received with label" true
     ["Nhận nhãn"];
   Message false [Loc None "+5"]
     "Received with address" true
     ["Nhận bằng địa chỉ"];
   Message false [Loc None "+5"]
     "Date" true
     ["Ngày"];
   Message false [Loc None "+5"]
     "Confirmations" true
     ["Xác nhận"];
   Message false [Loc None "+3"]
     "Confirmed" true
     ["Xác nhận"];
   Message false [Loc (Some "../coincontroldialog.cpp") "+73"]
     "Copy address" true
     ["Sao chép địa chỉ"];
   Message false [Loc None "+1"]
     "Copy label" true
     ["Sao nhãn"];
   Message false [Loc None "+1"; Loc None "+26"]
     "Copy amount" true
     ["Sao chép lượng"];
   Message false [Loc None "-25"]
     "Copy transaction ID" true
     ["Sao chép ID giao dịch"];
   Message false [Loc None "+1"]
     "Lock unspent" true
     ["Khóa unchi"];
   Message false [Loc None "+1"]
     "Unlock unspent" true
     ["Mở khóa không chi tiêu"];
   Message false [Loc None "+22"]
     "Copy quantity" true
     ["Số lượng sao chép"];
   Message false [Loc None "+2"]
     "Copy fee" true
     ["Phí sao chép"];
   Message false [Loc None "+1"]
     "Copy after fee" true
     ["Sao chép sau phí"]].

Definition vi_CoinControlDialog_2 : list message :=
  [Message false [Loc None "+1"]
     "Copy bytes" true
     ["Sao chép byte"];
   Message false [Loc None "+1"]
     "Copy dust" true
     ["Sao chép bụi"];
   Message false [Loc None "+1"]
     "Copy change" true
     ["Sao thay đổi"];
   Message false [Loc None "+340"]
     "(%1 locked)" true
     ["(% 1 khóa)"];
   Message false [Loc None "+161"]
     "yes" true
     ["Có"];
   Message false [Loc None "+0"]
     "no" true
     ["Không"];
   Message false [Loc None "+14"]
     "This label turns red if any recipient receives an amount smaller than the current dust threshold." true
     ["Nhãn này chuyển sang màu đỏ nếu bất kỳ người nhận nào nhận được một khoản tiền nhỏ hơn ngưỡng bụi hiện tại."];
   Message false [Loc None "+5"]
     "Can vary +/- %1 satoshi(s) per input." true
     ["Có thể thay đổi +/-% 1 Satoshi (s) mỗi đầu vào."];
   Message false [Loc None "+47"]
     "Hide immature" true
     ["Ẩn chưa trưởng thành"];
   Message false [Loc None "+2"]
     "Hide locked" true
     ["Ẩn khóa"];
   Message false [Loc None "+6"]
     "Show immature" true
     ["Hiển thị chưa trưởng thành"];
   Message false [Loc None "+2"]
     "Show locked" true
     ["Hiện khóa"];
   Message false [Loc None "+26"; Loc None "+66"; Loc None "+11"]
     "(no label)" true
     ["(không có nhãn)"];
   Message false [Loc None "-19"]
     "change from %1 (%2)" true
     ["thay đổi từ% 1 (% 2)"];
   Message false [Loc None "+1"; Loc None "+20"]
     "(change)" true
     ["thay đổi"];
   Message false [Loc None "-17"]
     "spending from %1 (%2)" true
     ["chi tiêu từ% 1 (% 2)"]].

Definition vi_EditAddressDialog : list message :=
  [Message false [Loc (Some "../forms/editaddressdialog.ui") "+14"]
     "Edit Address" true
     ["Sửa địa chỉ"];
   Message false [Loc None "+11"]
     "&amp;Label" true
     ["&amp; Nhãn"];
   Message false [Loc None "+10"]
     "The label associated with this address list entry" true
     ["Nhãn liên kết với mục nhập danh sách địa chỉ này"];
   Message false [Loc None "+7"]
     "&amp;Address" true
     ["&amp; Địa chỉ"];
   Message false [Loc None "+10"]
     "The address associated with this address list entry. This can only be modified for sending addresses." true
     ["Địa chỉ liên kết với mục nhập danh sách địa chỉ này. Điều này chỉ có thể được sửa đổi để gửi địa chỉ."];
   Message false [Loc (Some "../editaddressdialog.cpp") "+29"]
     "New receiving address" true
     ["Địa chỉ nhận mới"];
   Message false [Loc None "+5"]
     "New sending address" true
     ["Địa chỉ gửi mới"];
   Message false [Loc None "+3"]
     "New Stake address" true
     ["Địa chỉ giáo khu mới"];
   Message false [Loc None "+5"]
     "New ColdStake address" true
     ["Địa chỉ mới ColdStake"];
   Message false [Loc None "+5"]
     "Edit receiving address" true
     ["Sửa địa chỉ nhận"];
   Message false [Loc None "+4"]
     "Edit sending address" true
     ["Chỉnh sửa địa chỉ gửi"];
   Message false [Loc None "+87"]
     "The entered address &quot;%1&quot; is not a valid Bitcoin Confidential address." true
     ["Địa chỉ đã nhập &quot;% 1&quot; không phải là địa chỉ bảo mật Bitcoin hợp lệ."];
   Message false [Loc None "+10"]
     "Could not unlock wallet." true
     ["Không thể mở khóa ví."];
   Message false [Loc None "+5"]
     "New key generation failed." true
     ["Tạo khoá mới không thành công."];
   Message false [Loc None "+18"]
     "Address &quot;%1&quot; already exists as a receiving address with label &quot;%2&quot; and so cannot be added as a sending address." true
     ["Địa chỉ &quot;% 1&quot; đã tồn tại dưới dạng địa chỉ nhận với nhãn &quot;% 2&quot; và do đó không thể thêm địa chỉ gửi."];
   Message false [Loc None "+5"]
     "The entered address &quot;%1&quot; is already in the address book with label &quot;%2&quot;." true
     ["Địa chỉ đã nhập &quot;% 1&quot; đã có trong sổ địa chỉ có nhãn &quot;% 2&quot;."]].

Definition vi_FreespaceChecker : list message :=
  [Message false [Loc (Some "../intro.cpp") "+78"]
     "A new data directory will be created." true
     ["Một thư mục dữ liệu mới sẽ được tạo."];
   Message false [Loc None "+22"]
     "name" true
     ["Tên"];
   Message false [Loc None "+2"]
     "Directory already exists. Add %1 if you intend to create a new directory here." true
     ["Thư mục đã tồn tại. Thêm% 1 nếu bạn có ý định tạo một thư mục mới ở đây."];
   Message false [Loc None "+3"]
     "Path already exists, and is not a directory." true
     ["Đường dẫn đã tồn tại, và không phải là một thư mục."];
   Message false [Loc None "+7"]
     "Cannot create data directory here." true
     ["Không thể tạo thư mục dữ liệu ở đây."]].

Definition vi_HelpMessageDialog : list message :=
  [Message false [Loc (Some "../utilitydialog.cpp") "+41"]
     "version" true
     ["Phiên bản"];
   Message false [Loc None "+5"; Loc None "+2"]
     "(%1-bit)" true
     ["(% 1-bit)"];
   Message false [Loc None "+5"]
     "About %1" true
     ["Khoảng% 1"];
   Message false [Loc None "+19"]
     "Command-line options" true
     ["Tùy chọn dòng lệnh"]].

Definition vi_Intro : list message :=
  [Message false [Loc (Some "../forms/intro.ui") "+14"]
     "Welcome" true
     ["Chào mừng"];
   Message false [Loc None "+9"]
     "Welcome to %1." true
     ["Chào mừng đến với% 1."];
   Message false [Loc None "+26"]
     "As this is the first time the program is launched, you can choose where %1 will store its data." true
     ["Vì đây là lần đầu tiên chương trình được khởi chạy, bạn có thể chọn nơi% 1 sẽ lưu trữ dữ liệu của nó."];
   Message false [Loc None "+17"]
     "Use the default data directory" true
     ["Sử dụng thư mục dữ liệu mặc định"];
   Message false [Loc None "+7"]
     "Use a custom data directory:" true
     ["Sử dụng thư mục dữ liệu tùy chỉnh:"];
   Message false [Loc None "+140"]
     "When you click OK, %1 will begin to download and process the full %4 block chain (%2GB) starting with the earliest transactions in %3 when %4 initially launched." true
     ["Khi bạn bấm OK,% 1 sẽ bắt đầu tải về và xử lý đầy đủ% 4 khối chuỗi (% 2GB) bắt đầu với các giao dịch sớm nhất trong% 3 khi% 4 ban đầu được đưa ra."];
   Message false [Loc None "+10"]
     "This initial synchronisation is very demanding, and may expose hardware problems with your computer that had previously gone unnoticed. Each time you run %1, it will continue downloading where it left off." true
     ["Đồng bộ ban đầu này là rất khắt khe, và có thể phơi bày vấn đề phần cứng với máy tính của bạn mà trước đây đã không được chú ý. Mỗi lần bạn chạy% 1, nó sẽ tiếp tục tải xuống nơi nó rời đi."];
   Message false [Loc None "+10"]
     "If you have chosen to limit block chain storage (pruning), the historical data must still be downloaded and processed, but will be deleted afterward to keep your disk usage low." true
     ["Nếu bạn đã chọn để giới hạn lưu trữ chuỗi khối (cắt tỉa), dữ liệu lịch sử vẫn phải được tải xuống và xử lý, nhưng sẽ bị xóa sau đó để giữ cho việc sử dụng đĩa của bạn thấp."];
   Message false [Loc (Some "../intro.cpp") "+20"]
     "Bitcoin Confidential" true
     ["Bitcoin bí mật"];
   Message false [Loc None "+6"]
     "At least %1 GB of data will be stored in this directory, and it will grow over time." true
     ["Ít nhất% 1 GB dữ liệu sẽ được lưu trữ trong thư mục này, và nó sẽ phát triển theo thời gian."];
   Message false [Loc None "+5"]
     "Approximately %1 GB of data will be stored in this directory." true
     ["Khoảng% 1 GB dữ liệu sẽ được lưu trữ trong thư mục này."];
   Message false [Loc None "+8"]
     "%1 will download and store a copy of the Bitcoin Confidential block chain." true
     ["% 1 sẽ tải về và lưu trữ một bản sao của chuỗi khối Bitcoin bí mật."];
   Message false [Loc None "+2"]
     "The wallet will also be stored in this directory." true
     ["Ví cũng sẽ được lưu trữ trong thư mục này."];
   Message false [Loc None "+73"]
     "Error: Specified data directory &quot;%1&quot; cannot be created." true
     ["Lỗi: không thể tạo thư mục dữ liệu đã chỉ định &quot;% 1&quot;."];
   Message false [Loc None "+27"]
     "Error" true
     ["Lỗi"];
   Message true [Loc None "+9"]
     "%n GB of free space available" false
     [(Txt [])];
   Message true [Loc None "+3"]
     "(of %n GB needed)" false
     [(Txt [])]].

Definition vi_MnemonicDialog_1 : list message :=
  [Message false [Loc (Some "../forms/mnemonicdialog.ui") "+14"]
     "HD Wallet Setup" true
     ["Thiết lập ví HD"];
   Message false [Loc None "+11"]
     "Generate a mnemonic" true
     ["Tạo ra một mnemonic"];
   Message false [Loc None "+10"]
     "Create the wallet" true
     ["Tạo ví"];
   Message false [Loc None "+22"]
     "Write down the Recovery Phrase/Mnemonic below or generate a new one with the desired settings by clicking &quot;NEW MNEMONIC&quot;. Store this phrase in a safe place. The clipboard will be cleared to ensure you have it recorded.  If you are recovering a backup, enter the Recovery Phrase/Mnemonic on the next screen.  Click the &quot;NEXT&quot; button to continue with the wallet creation." true
     ["Ghi lại các cụm từ phục hồi/mnemonic dưới đây hoặc tạo ra một cái mới với các thiết lập mong muốn bằng cách nhấn vào &quot;NEW MNEMONIC&quot;. Lưu trữ cụm từ này ở nơi an toàn. Clipboard sẽ được xóa để đảm bảo bạn đã ghi lại.  Nếu bạn đang khôi phục một bản sao lưu, hãy nhập cụm từ Recovery/mnemonic trên màn hình tiếp theo.  Nhấp vào &quot;kế tiếp&quot; nút để tiếp tục với việc tạo ra ví."];
   Message false [Loc None "+36"]
     "Bytes of Entropy " true
     ["Byte của entropy"];
   Message false [Loc None "+7"]
     "Language" true
     ["Ngôn ngữ"];
   Message false [Loc None "+45"]
     "Entropy is an advanced feature. Your mnemonic may be insecure if this feature is used incorrectly." true
     ["Entropy là một tính năng tiên tiến. Mnemonic của bạn có thể không an toàn nếu tính năng này được sử dụng không đúng."];
   Message false [Loc None "+22"]
     "Select your language" true
     ["Chọn ngôn ngữ của bạn"];
   Message false [Loc None "+4"]
     "English" true
     ["Anh"];
   Message false [Loc None "+5"]
     "French" true
     ["Pháp"];
   Message false [Loc None "+5"]
     "Japanese" true
     ["Nhật"];
   Message false [Loc None "+5"]
     "Spanish" true
     ["Tây ban nha"];
   Message false [Loc None "+5"]
     "Chinese_s" true
     ["Chinese_s"];
   Message false [Loc None "+5"]
     "Chinese_t" true
     ["Chinese_t"];
   Message false [Loc None "+39"]
     "New mnemonic" true
     ["Mnemonic mới"];
   Message false [Loc None "+19"]
     "Next" true
     ["Tiếp theo"];
   Message false [Loc None "+19"; Loc None "+198"]
     "Cancel" true
     ["Hủy bỏ"];
   Message false [Loc None "-148"]
     "Recovery Passphrase " true
     ["Mật khẩu phục hồi"];
   Message false [Loc None "+7"]
     "Import Chain" true
     ["Chuỗi nhập khẩu"];
   Message false [Loc None "+13"]
     "Warning" true
     ["Cảnh báo"];
   Message false [Loc None "+33"]
     "Enter a passphrase to protect your Recovery Phrase (optional)" true
     ["Nhập cụm từ mật khẩu để bảo vệ cụm từ khôi phục (tùy chọn)"];
   Message false [Loc None "+13"]
     "Only needed if you&apos;re importing " true
     ["Chỉ cần nếu bạn đang nhập"];
   Message false [Loc None "+16"]
     "Please ensure you backup your Recovery Phrase and Passphrase - they are not recoverable!" true
     ["Hãy đảm bảo bạn sao lưu cụm từ phục hồi và cụm từ mật của bạn-chúng không thu hồi được!"];
   Message false [Loc None "+28"]
     "Back" true
     ["Trở lại"];
   Message false [Loc None "+19"; Loc (Some "../mnemonicdialog.cpp") "+145"]
     "Import" true
     ["Nhập khẩu"];
   Message false [Loc (Some "../mnemonicdialog.cpp") "-102"]
     "Optionally enter a passphrase to protect the Recovery Phrase. (This is not a wallet password.)" true
     ["Tùy chọn nhập mật khẩu để bảo vệ cụm từ phục hồi. (Đây không phải là mật khẩu ví.)"];
   Message false [Loc None "+2"]
     "Enter the Recovery Phrase/Mnemonic." true
     ["Nhập cụm từ phục hồi/mnemonic."];
   Message false [Loc None "+26"]
     "Create wallet" true
     ["Tạo ví"];
   Message false [Loc None "+16"]
     "Generate a new Recovery Phrase/Mnemonic with the desired settings by clicking &quot;NEW MNEMONIC&quot;." true
     ["Tạo một cụm từ phục hồi mới/mnemonic với các cài đặt mong muốn bằng cách nhấp vào &quot;MNEMONIC mới&quot;."]].

Definition vi_MnemonicDialog_2 : list message :=
  [Message false [Loc None "+5"]
     "Import a mnemonic" true
     ["Nhập khẩu một mnemonic"];
   Message false [Loc None "+28"]
     "Confirm wallet creation cancel" true
     ["Xác nhận hủy tạo ví"];
   Message false [Loc None "+1"]
     "Are you sure you want to cancel the wallet creation?" true
     ["Bạn có chắc bạn muốn hủy bỏ việc tạo ví không?"];
   Message false [Loc None "+0"]
     "This is only recommended for advanced users to import with custom settings in the debug console or with the RPC interface." true
     ["Điều này chỉ được khuyến nghị cho người dùng nâng cao để nhập với các thiết đặt tùy chỉnh trong bảng gỡ lỗi hoặc giao diện RPC."]].

Definition vi_ModalOverlay : list message :=
  [Message false [Loc (Some "../forms/modaloverlay.ui") "+14"]
     "Form" true
     ["Hình thức"];
   Message false [Loc None "+122"]
     "Recent transactions may not yet be visible, and therefore your wallet&apos;s balance might be incorrect. This information will be correct once your wallet has finished synchronizing with the Bitcoin Confidential network, as detailed below." true
     ["Các giao dịch gần đây có thể chưa được hiển thị và do đó số dư của ví có thể không chính xác. Thông tin này sẽ đúng khi ví của bạn đã hoàn tất đồng bộ hóa với mạng bảo mật Bitcoin, như chi tiết dưới đây."];
   Message false [Loc None "+19"]
     "Attempting to spend coins that are affected by not-yet-displayed transactions will not be accepted by the network." true
     ["Cố gắng chi tiêu tiền xu bị ảnh hưởng bởi các giao dịch chưa được hiển thị sẽ không chấp nhận mạng."];
   Message false [Loc None "+63"]
     "Number of blocks left" true
     ["Số lượng các khối bên trái"];
   Message false [Loc None "+7"; Loc None "+26"; Loc (Some "../modaloverlay.cpp") "+140"]
     "Unknown..." true
     ["Biết..."];
   Message false [Loc None "-13"]
     "Last block time" true
     ["Thời gian chặn cuối cùng"];
   Message false [Loc None "+26"]
     "Progress" true
     ["Tiến bộ"];
   Message false [Loc None "+34"]
     "Progress increase per hour" true
     ["Tăng tiến độ mỗi giờ"];
   Message false [Loc None "+7"; Loc None "+20"]
     "calculating..." true
     ["Tính toán..."];
   Message false [Loc None "-7"]
     "Estimated time left until synced" true
     ["Thời gian dự kiến còn lại cho đến khi đồng bộ hóa"];
   Message false [Loc None "+40"]
     "Hide" true
     ["Ẩn"];
   Message false [Loc (Some "../modaloverlay.cpp") "-1"]
     "Unknown. Syncing Headers (%1)..." true
     ["Biết. Tiêu đề đồng bộ hoá (% 1)..."]].

Definition vi_OpenURIDialog : list message :=
  [Message false [Loc (Some "../forms/openuridialog.ui") "+14"]
     "Open URI" true
     ["URI mở"];
   Message false [Loc None "+6"]
     "Open payment request from URI or file" true
     ["Mở yêu cầu thanh toán từ URI hoặc tệp"];
   Message false [Loc None "+9"]
     "URI:" true
     ["Uri:"];
   Message false [Loc None "+10"]
     "Select payment request file" true
     ["Chọn tệp yêu cầu thanh toán"];
   Message false [Loc (Some "../openuridialog.cpp") "+45"]
     "Select payment request file to open" true
     ["Chọn tập tin yêu cầu thanh toán để mở"]].

Definition vi_OptionsDialog_1 : list message :=
  [Message false [Loc (Some "../forms/optionsdialog.ui") "+14"]
     "Options" true
     ["Tùy chọn"];
   Message false [Loc None "+14"]
     "&amp;Main" true
     ["&amp; Chính"];
   Message false [Loc None "+13"]
     "W&amp;allet" true
     ["W&amp;allet"];
   Message false [Loc None "+13"]
     "&amp;Network" true
     ["&amp; Mạng"];
   Message false [Loc None "+13"]
     "&amp;Window" true
     ["&amp; Cửa sổ"];
   Message false [Loc None "+13"]
     "&amp;Display" true
     ["&amp; Hiển thị"];
   Message false [Loc None "+22"]
     "Automatically start %1 after logging in to the system." true
     ["Tự động khởi động% 1 sau khi đăng nhập vào hệ thống."];
   Message false [Loc None "+3"]
     "&amp;Start %1 on system login" true
     ["&amp; Bắt đầu% 1 trên hệ thống đăng nhập"];
   Message false [Loc None "+22"]
     "Disables some advanced features but all blocks will still be fully validated. Reverting this setting requires re-downloading the entire blockchain. Actual disk usage may be somewhat higher." true
     ["Vô hiệu hóa một số tính năng nâng cao nhưng tất cả các khối sẽ vẫn được xác nhận đầy đủ. Hoàn nguyên cài đặt này đòi hỏi phải tải lại toàn bộ blockchain. Sử dụng đĩa thực tế có thể hơi cao hơn."];
   Message false [Loc None "+3"]
     "Prune &amp;block storage to" true
     ["Prune &amp; khối lưu trữ để"];
   Message false [Loc None "+17"]
     "GB" true
     ["Gb"];
   Message false [Loc None "+25"]
     "Reverting this setting requires re-downloading the entire blockchain." true
     ["Hoàn nguyên cài đặt này đòi hỏi phải tải lại toàn bộ blockchain."];
   Message false [Loc None "+12"]
     "Size of &amp;database cache" true
     ["Kích thước của &amp; cơ sở dữ liệu bộ nhớ cache"];
   Message false [Loc None "+23"]
     "MB" true
     ["Mb"];
   Message false [Loc None "+27"]
     "Number of script &amp;verification threads" true
     ["Số tập lệnh &amp; xác minh chủ đề"];
   Message false [Loc None "+19"]
     "(0 = auto, &lt;0 = leave that many cores free)" true
     ["(0 = tự động,&lt;0 = leave that many cores free) ==&quot;&quot; leave=&quot;&quot; that=&quot;&quot; many=&quot;&quot; cores=&quot;&quot;&gt;&lt;/0 = leave that many cores free)&gt;"];
   Message false [Loc None "+39"]
     "Expert" true
     ["Chuyên gia"];
   Message false [Loc None "+6"]
     "Whether to show coin control features or not." true
     ["Cho dù để hiển thị các tính năng kiểm soát tiền xu hay không."];
   Message false [Loc None "+3"]
     "Enable coin &amp;control features" true
     ["Enable Coin &amp; tính năng kiểm soát"];
   Message false [Loc None "+7"]
     "If you disable the spending of unconfirmed change, the change from a transaction cannot be used until that transaction has at least one confirmation. This also affects how your balance is computed." true
     ["Nếu bạn vô hiệu hoá chi tiêu thay đổi chưa được xác nhận, thay đổi từ một giao dịch không thể sử dụng cho đến khi giao dịch có ít nhất một xác nhận. Điều này cũng ảnh hưởng đến cách tính toán số dư của bạn."];
   Message false [Loc None "+3"]
     "&amp;Spend unconfirmed change" true
     ["&amp; Chi tiêu thay đổi chưa được xác nhận"];
   Message false [Loc None "+7"]
     "Display notification dialog for incoming stake transactions." true
     ["Hộp thoại thông báo hiển thị cho các giao dịch đến cổ phần."];
   Message false [Loc None "+3"]
     "&amp;Show incoming stake notifications" true
     ["&amp; Hiển thị thông báo giáo khu đến"];
   Message false [Loc None "+27"]
     "Automatically open the Bitcoin Confidential client port on the router. This only works when your router supports UPnP and it is enabled." true
     ["Tự động mở Bitcoin khách hàng bí mật cổng trên router. Điều này chỉ hoạt động khi router của bạn hỗ trợ UPnP và nó được kích hoạt."];
   Message false [Loc None "+3"]
     "Map port using &amp;UPnP" true
     ["Bản đồ cổng sử dụng &amp; UPnP"];
   Message false [Loc None "+7"]
     "Accept connections from outside." true
     ["Chấp nhận kết nối từ bên ngoài."];
   Message false [Loc None "+3"]
     "Allow incomin&amp;g connections" true
     ["Cho phép kết nối incomin&amp;g"];
   Message false [Loc None "+7"]
     "Connect to the Bitcoin Confidential network through a SOCKS5 proxy." true
     ["Kết nối với mạng bảo mật Bitcoin thông qua một proxy SOCKS5."];
   Message false [Loc None "+3"]
     "&amp;Connect through SOCKS5 proxy (default proxy):" true
     ["&amp; Kết nối thông qua SOCKS5 proxy (mặc định proxy):"]].

Definition vi_OptionsDialog_2 : list message :=
  [Message false [Loc None "+9"; Loc None "+193"]
     "Proxy &amp;IP:" true
     ["Proxy &amp; IP:"];
   Message false [Loc None "-168"; Loc None "+193"]
     "IP address of the proxy (e.g. IPv4: 127.0.0.1 / IPv6: ::1)" true
     ["Địa chỉ IP của proxy (ví dụ như IPv4:127.0.0.1/IPv6::: 1)"];
   Message false [Loc None "-183"; Loc None "+193"]
     "&amp;Port:" true
     ["Port"];
   Message false [Loc None "-168"; Loc None "+193"]
     "Port of the proxy (e.g. 9050)" true
     ["Cổng proxy (ví dụ: 9050)"];
   Message false [Loc None "-166"]
     "Used for reaching peers via:" true
     ["Được sử dụng để tiếp cận đồng nghiệp qua:"];
   Message false [Loc None "+13"; Loc None "+23"; Loc None "+23"]
     "Shows if the supplied default SOCKS5 proxy is used to reach peers via this network type." true
     ["Hiển thị nếu được cung cấp mặc định SOCKS5 proxy được sử dụng để tiếp cận đồng nghiệp qua loại mạng này."];
   Message false [Loc None "-36"]
     "IPv4" true
     ["IPv4"];
   Message false [Loc None "+23"]
     "IPv6" true
     ["IPv6"];
   Message false [Loc None "+23"]
     "Tor" true
     ["Tor"];
   Message false [Loc None "+25"]
     "Connect to the Bitcoin Confidential network through a separate SOCKS5 proxy for Tor hidden services." true
     ["Kết nối với mạng bảo mật Bitcoin thông qua một proxy SOCKS5 riêng biệt cho các dịch vụ ẩn Tor."];
   Message false [Loc None "+3"]
     "Use separate SOCKS&amp;5 proxy to reach peers via Tor hidden services:" true
     ["Sử dụng riêng biệt SOCKS &amp; 5 proxy để đạt được đồng nghiệp qua Tor dịch vụ ẩn:"];
   Message false [Loc None "+111"]
     "Hide the icon from the system tray." true
     ["Ẩn biểu tượng khỏi khay hệ thống."];
   Message false [Loc None "+3"]
     "&amp;Hide tray icon" true
     ["&amp; Ẩn biểu tượng khay"];
   Message false [Loc None "+7"]
     "Show only a tray icon after minimizing the window." true
     ["Chỉ hiển thị biểu tượng khay sau khi giảm thiểu cửa sổ."];
   Message false [Loc None "+3"]
     "&amp;Minimize to the tray instead of the taskbar" true
     ["&amp; Giảm thiểu vào khay thay vì thanh tác vụ"];
   Message false [Loc None "+7"]
     "Minimize instead of exit the application when the window is closed. When this option is enabled, the application will be closed only after selecting Exit in the menu." true
     ["Giảm thiểu thay vì thoát ứng dụng khi đóng cửa sổ. Khi tùy chọn này được kích hoạt, các ứng dụng sẽ được đóng lại chỉ sau khi chọn Exit trong menu."];
   Message false [Loc None "+3"]
     "M&amp;inimize on close" true
     ["M&amp;inimize ngày đóng"];
   Message false [Loc None "+26"]
     "User Interface &amp;language:" true
     ["Giao diện người dùng &amp; Language:"];
   Message false [Loc None "+22"]
     "The user interface language can be set here. This setting will take effect after restarting %1." true
     ["Ngôn ngữ giao diện người dùng có thể được đặt ở đây. Thiết lập này sẽ có hiệu lực sau khi khởi động lại% 1."];
   Message false [Loc None "+11"]
     "&amp;Unit to show amounts in:" true
     ["&amp; Đơn vị để hiển thị số tiền trong:"];
   Message false [Loc None "+22"]
     "Choose the default subdivision unit to show in the interface and when sending coins." true
     ["Chọn đơn vị phân khu mặc định để hiển thị trong giao diện và khi gửi tiền xu."];
   Message false [Loc None "+11"; Loc None "+22"]
     "Third party URLs (e.g. a block explorer) that appear in the transactions tab as context menu items. %s in the URL is replaced by transaction hash. Multiple URLs are separated by vertical bar |." true
     ["URL của bên thứ ba (ví dụ: trình thám hiểm khối) xuất hiện trong tab giao dịch dưới dạng các mục trình đơn ngữ cảnh. % s trong URL được thay thế bằng giao dịch băm. Nhiều URL được phân tách bằng thanh dọc |."];
   Message false [Loc None "-19"]
     "&amp;Third party transaction URLs" true
     ["&amp; URL giao dịch của bên thứ ba"];
   Message false [Loc None "+50"]
     "Active command-line options that override above options:" true
     ["Tùy chọn dòng lệnh hoạt động ghi đè lên các tùy chọn:"];
   Message false [Loc None "+45"]
     "Open the %1 configuration file from the working directory." true
     ["Mở tệp cấu hình% 1 từ thư mục làm việc."];
   Message false [Loc None "+3"]
     "Open Configuration File" true
     ["Mở tệp cấu hình"];
   Message false [Loc None "+10"]
     "Reset all client options to default." true
     ["Đặt lại tất cả các tùy chọn khách hàng theo mặc định."];
   Message false [Loc None "+3"]
     "&amp;Reset Options" true
     ["&amp; Tùy chọn đặt lại"]].

Definition vi_OptionsDialog_3 : list message :=
  [Message false [Loc None "+80"]
     "&amp;OK" true
     ["&amp; OK"];
   Message false [Loc None "+13"]
     "&amp;Cancel" true
     ["&amp; Hủy bỏ"];
   Message false [Loc (Some "../optionsdialog.cpp") "+109"]
     "default" true
     ["Mặc định"];
   Message false [Loc None "+56"]
     "none" true
     ["Không"];
   Message false [Loc None "+82"]
     "Confirm options reset" true
     ["Xác nhận thiết lập lại tùy chọn"];
   Message false [Loc None "+1"; Loc None "+60"]
     "Client restart required to activate changes." true
     ["Khách hàng khởi động lại cần thiết để kích hoạt thay đổi."];
   Message false [Loc None "-60"]
     "Client will be shut down. Do you want to proceed?" true
     ["Khách hàng sẽ bị tắt. Bạn có muốn tiếp tục không?"];
   Message false [Loc None "+15"]
     "Configuration options" true
     ["Tùy chọn cấu hình"];
   Message false [Loc None "+1"]
     "The configuration file is used to specify advanced user options which override GUI settings. Additionally, any command-line options will override this configuration file." true
     ["Tệp cấu hình được sử dụng để chỉ định tùy chọn người dùng nâng cao ghi đè cài đặt GUI. Ngoài ra, bất kỳ tùy chọn dòng lệnh sẽ ghi đè tệp cấu hình này."];
   Message false [Loc None "+5"]
     "Error" true
     ["Lỗi"];
   Message false [Loc None "+0"]
     "The configuration file could not be opened." true
     ["Tệp cấu hình không thể mở được."];
   Message false [Loc None "+43"]
     "This change would require a client restart." true
     ["Thay đổi này yêu cầu khởi động lại máy khách."];
   Message false [Loc None "+28"]
     "The supplied proxy address is invalid." true
     ["Địa chỉ proxy được cung cấp không hợp lệ."]].

Definition vi_OverviewPage : list message :=
  [Message false [Loc (Some "../forms/overviewpage.ui") "+14"]
     "Form" true
     ["Hình thức"];
   Message false [Loc None "+43"]
     "Bitcoin Confidential Core" true
     ["Bitcoin bảo mật cốt lõi"];
   Message false [Loc None "+38"; Loc None "+114"; Loc None "+210"]
     "Pending" true
     ["Chờ"];
   Message false [Loc None "-308"]
     "Spending" true
     ["Chi tiêu"];
   Message false [Loc None "+108"]
     "Watch-only" true
     ["Chỉ xem"];
   Message false [Loc None "+73"; Loc None "+191"]
     "Available" true
     ["Rẻ gần"];
   Message false [Loc None "-181"]
     "Spendable" true
     ["Có thể Spendable"];
   Message false [Loc None "+41"]
     "Staking" true
     ["Staking"];
   Message false [Loc None "+130"]
     "Immature" true
     ["Non"];
   Message false [Loc None "+86"]
     "Total" true
     ["Tất cả"];
   Message false [Loc None "+90"]
     "Recent transactions" true
     ["Giao dịch gần đây"];
   Message false [Loc None "+19"]
     "The displayed information may be out of date. Your wallet automatically synchronizes with the Bitcoin Confidential network after a connection is established, but this process has not completed yet." true
     ["Thông tin được hiển thị có thể đã hết hạn. Ví của bạn tự động đồng bộ hóa với mạng Bitcoin bí mật sau khi kết nối được thiết lập, nhưng quá trình này chưa hoàn thành."]].

Definition vi_PaymentServer : list message :=
  [Message false [Loc (Some "../paymentserver.cpp") "+317"; Loc None "+215"; Loc None "+42"; Loc None "+110"; Loc None "+14"; Loc None "+18"]
     "Payment request error" true
     ["Lỗi yêu cầu thanh toán"];
   Message false [Loc None "-398"]
     "Cannot start bitcoinc: click-to-pay handler" true
     ["Không thể khởi động bitcoinc: trình xử lý nhấp để thanh toán"];
   Message false [Loc None "+82"; Loc None "+21"; Loc None "+13"; Loc None "+7"]
     "URI handling" true
     ["Xử lý URI"];
   Message false [Loc None "-41"]
     "&apos;bitcoin://&apos; is not a valid URI. Use &apos;bitcoin:&apos; instead." true
     ["&apos; bitcoin://&apos; không phải là một URI hợp lệ. Sử dụng &apos; Bitcoin: &apos; thay thế."];
   Message false [Loc None "+22"]
     "Payment request fetch URL is invalid: %1" true
     ["URL tìm nạp yêu cầu thanh toán không hợp lệ:% 1"];
   Message false [Loc None "+12"]
     "Invalid payment address %1" true
     ["Địa chỉ thanh toán không hợp lệ% 1"];
   Message false [Loc None "+8"]
     "URI cannot be parsed! This can be caused by an invalid Bitcoin Confidential address or malformed URI parameters." true
     ["URI không thể được phân tích cú pháp! Điều này có thể do địa chỉ bí mật Bitcoin không hợp lệ hoặc các thông số URI bị định dạng sai."];
   Message false [Loc None "+13"]
     "Payment request file handling" true
     ["Xử lý tệp yêu cầu thanh toán"];
   Message false [Loc None "+1"]
     "Payment request file cannot be read! This can be caused by an invalid payment request file." true
     ["Không thể đọc được tệp yêu cầu thanh toán! Điều này có thể do tệp yêu cầu thanh toán không hợp lệ."];
   Message false [Loc None "+61"; Loc None "+9"; Loc None "+31"; Loc None "+10"; Loc None "+17"; Loc None "+85"]
     "Payment request rejected" true
     ["Yêu cầu thanh toán bị từ chối"];
   Message false [Loc None "-152"]
     "Payment request network doesn&apos;t match client network." true
     ["Mạng yêu cầu thanh toán không phù hợp với mạng khách hàng."];
   Message false [Loc None "+9"]
     "Payment request expired." true
     ["Yêu cầu thanh toán hết hạn."];
   Message false [Loc None "+6"]
     "Payment request is not initialized." true
     ["Yêu cầu thanh toán không được khởi động."];
   Message false [Loc None "+26"]
     "Unverified payment requests to custom payment scripts are unsupported." true
     ["Yêu cầu thanh toán chưa được xác minh cho tập lệnh thanh toán tùy chỉnh không hỗ trợ."];
   Message false [Loc None "+9"; Loc None "+17"]
     "Invalid payment request." true
     ["Yêu cầu thanh toán không hợp lệ."];
   Message false [Loc None "-10"]
     "Requested payment amount of %1 is too small (considered dust)." true
     ["Số tiền thanh toán yêu cầu% 1 quá nhỏ (được coi là bụi)."];
   Message false [Loc None "+65"]
     "Refund from %1" true
     ["Hoàn tiền từ% 1"];
   Message false [Loc None "+31"]
     "Payment request %1 is too large (%2 bytes, allowed %3 bytes)." true
     ["Yêu cầu thanh toán% 1 quá lớn (% 2 byte, được phép% 3 byte)."];
   Message false [Loc None "+9"]
     "Error communicating with %1: %2" true
     ["Lỗi liên lạc với% 1:% 2"];
   Message false [Loc None "+20"]
     "Payment request cannot be parsed!" true
     ["Yêu cầu thanh toán không thể được phân tích cú pháp!"];
   Message false [Loc None "+13"]
     "Bad response from server %1" true
     ["Phản ứng xấu từ máy chủ% 1"];
   Message false [Loc None "+22"]
     "Network request error" true
     ["Lỗi yêu cầu mạng"];
   Message false [Loc None "+11"]
     "Payment acknowledged" true
     ["Thanh toán công nhận"]].

Definition vi_PeerTableModel : list message :=
  [Message false [Loc (Some "../peertablemodel.cpp") "+109"]
     "NodeId" true
     ["Tên NodeId"];
   Message false [Loc None "+0"]
     "Node/Service" true
     ["Node/dịch vụ"];
   Message false [Loc None "+0"]
     "Ping" true
     ["Ping"];
   Message false [Loc None "+0"]
     "Sent" true
     ["Gửi"];
   Message false [Loc None "+0"]
     "Received" true
     ["Nhận"];
   Message false [Loc None "+0"]
     "User Agent" true
     ["Tác nhân người dùng"]].

Definition vi_QObject : list message :=
  [Message false [Loc (Some "../bitcoinunits.cpp") "+196"]
     "Amount" true
     ["Lượng"];
   Message false [Loc (Some "../guiutil.cpp") "+96"]
     "Enter Spending address" true
     ["Nhập địa chỉ chi tiêu"];
   Message false [Loc None "+12"]
     "Enter ColdStake address" true
     ["Nhập địa chỉ ColdStake"];
   Message false [Loc None "+2"]
     "Enter Stake address of remote node" true
     ["Nhập địa chỉ stake của nút từ xa"];
   Message false [Loc None "+2"]
     "Enter Stake address" true
     ["Nhập địa chỉ stake"];
   Message false [Loc None "+687"]
     "%1 d" true
     ["% 1 d"];
   Message false [Loc None "+2"]
     "%1 h" true
     ["% 1 h"];
   Message false [Loc None "+2"]
     "%1 m" true
     ["% 1 m"];
   Message false [Loc None "+2"; Loc None "+53"]
     "%1 s" true
     ["% 1 giây"];
   Message false [Loc None "-10"]
     "None" true
     ["Không"];
   Message false [Loc None "+5"]
     "N/A" true
     ["N/a"];
   Message false [Loc None "+0"]
     "%1 ms" true
     ["% 1 mili giây"];
   Message true [Loc None "+18"]
     "%n second(s)" false
     [(Txt [])];
   Message true [Loc None "+4"]
     "%n minute(s)" false
     [(Txt [])];
   Message true [Loc None "+4"]
     "%n hour(s)" false
     [(Txt [])];
   Message true [Loc None "+4"]
     "%n day(s)" false
     [(Txt [])];
   Message true [Loc None "+4"; Loc None "+6"]
     "%n week(s)" false
     [(Txt [])];
   Message false [Loc None "+0"]
     "%1 and %2" true
     ["% 1 và% 2"];
   Message true [Loc None "+0"]
     "%n year(s)" false
     [(Txt [])];
   Message false [Loc None "+8"]
     "%1 B" true
     ["% 1 B"];
   Message false [Loc None "+2"]
     "%1 KB" true
     ["% 1 KB"];
   Message false [Loc None "+2"]
     "%1 MB" true
     ["% 1 MB"];
   Message false [Loc None "+2"]
     "%1 GB" true
     ["% 1 GB"];
   Message false [Loc None "+71"]
     "All spending funds are sent and received anonymously. Only the sender and receiver have details of their side of the transaction. Staking funds need to be converted to spending before sending out of wallet. Funds require %1 confirmations (%2 minutes) before sending." true
     ["Tất cả các quỹ chi tiêu được gửi và nhận nặc danh. Chỉ có người gửi và nhận có chi tiết về phía họ của giao dịch. Quỹ staking cần phải được chuyển đổi để chi tiêu trước khi gửi ra khỏi ví. Quỹ yêu cầu xác nhận% 1 (% 2 phút) trước khi gửi."];
   Message false [Loc None "+15"]
     "Staking funds cannot be sent out of your wallet without converting to spending. After converting to spending, %1 confirmations (%2 minutes) are required before sending." true
     ["Quỹ staking không thể được gửi ra khỏi ví của bạn mà không cần chuyển đổi để chi tiêu. Sau khi chuyển đổi sang chi tiêu, xác nhận% 1 (% 2 phút) được yêu cầu trước khi gửi."];
   Message false [Loc (Some "../modaloverlay.cpp") "-29"]
     "unknown" true
     ["Biết"];
   Message false [Loc (Some "../bitcoin.cpp") "+186"]
     "%1 didn&apos;t yet exit safely..." true
     ["% 1 chưa ra khỏi nơi an toàn..."]].

Definition vi_QObject__QObject : list message :=
  [Message false [Loc None "-117"]
     "Error parsing command line arguments: %1." true
     ["Lỗi phân tích cú pháp đối số dòng lệnh:% 1."];
   Message false [Loc None "+38"]
     "Error: Specified data directory &quot;%1&quot; does not exist." true
     ["Lỗi: thư mục dữ liệu được chỉ định &quot;% 1&quot; không tồn tại."];
   Message false [Loc None "+5"]
     "Error: Cannot parse configuration file: %1." true
     ["Lỗi: không thể phân tích cú pháp tệp cấu hình:% 1."];
   Message false [Loc None "+14"]
     "Error: %1" true
     ["Lỗi:% 1"]].

Definition vi_QRImageWidget : list message :=
  [Message false [Loc (Some "../receiverequestdialog.cpp") "+32"]
     "&amp;Save Image..." true
     ["&amp; Lưu hình ảnh..."];
   Message false [Loc None "+3"]
     "&amp;Copy Image" true
     ["&amp; Sao chép hình ảnh"];
   Message false [Loc None "+32"]
     "Save QR Code" true
     ["Lưu mã QR"];
   Message false [Loc None "+0"]
     "PNG Image (*.png)" true
     ["Hình PNG (*. png)"]].

Definition vi_RPCConsole_1 : list message :=
  [Message false [Loc (Some "../forms/debugwindow.ui") "+14"]
     "Debug window" true
     ["Cửa sổ gỡ lỗi"];
   Message false [Loc None "+11"]
     "Information" true
     ["Thông tin"];
   Message false [Loc None "+13"]
     "Console" true
     ["Console"];
   Message false [Loc None "+10"]
     "Network Traffic" true
     ["Mạng giao thông"];
   Message false [Loc None "+10"]
     "Peers" true
     ["Peers"];
   Message false [Loc None "+21"; Loc None "+1004"]
     "User Agent" true
     ["Tác nhân người dùng"];
   Message false [Loc None "-988"]
     "Block chain" true
     ["Chuỗi khối"];
   Message false [Loc None "+7"]
     "Client version" true
     ["Phiên bản máy khách"];
   Message false [Loc None "+13"]
     "General" true
     ["Chung"];
   Message false [Loc None "+13"]
     "Memory Pool" true
     ["Bộ nhớ Hồ bơi"];
   Message false [Loc None "+7"]
     "Current number of blocks" true
     ["Số lượng các khối hiện tại"];
   Message false [Loc None "+13"]
     "Network" true
     ["Mạng"];
   Message false [Loc None "+7"]
     "Number of connections" true
     ["Số lượng kết nối"];
   Message false [Loc None "+7"]
     "Startup time" true
     ["Thời gian khởi động"];
   Message false [Loc None "+7"]
     "Name" true
     ["Tên"];
   Message false [Loc None "+7"]
     "Last block time" true
     ["Thời gian chặn cuối cùng"];
   Message false [Loc None "+7"]
     "Using BerkeleyDB version" true
     ["Sử dụng phiên bản BerkeleyDB"];
   Message false [Loc None "+10"]
     "Datadir" true
     ["Datadir"];
   Message false [Loc None "+7"]
     "Memory usage" true
     ["Sử dụng bộ nhớ"];
   Message false [Loc None "+7"]
     "Current number of transactions" true
     ["Số lượng giao dịch hiện tại"];
   Message false [Loc None "+10"; Loc None "+16"; Loc None "+16"; Loc None "+16"; Loc None "+19"; Loc None "+16"; Loc None "+16"; Loc None "+16"; Loc None "+16"; Loc None "+16"; Loc None "+16"; Loc None "+644"; Loc None "+23"; Loc None "+23"; Loc None "+23"; Loc None "+23"; Loc None "+23"; Loc None "+23"; Loc None "+23"; Loc None "+23"; Loc None "+23"; Loc None "+23"; Loc None "+23"; Loc None "+23"; Loc None "+23"; Loc None "+23"; Loc None "+26"; Loc None "+23"; Loc None "+23"]
     "N/A" true
     ["N/a"];
   Message false [Loc None "-988"]
     "Debug log file" true
     ["Tệp nhật ký gỡ lỗi"];
   Message false [Loc None "+7"]
     "Open the %1 debug log file from the current data directory. This can take a few seconds for large log files." true
     ["Mở tệp nhật ký gỡ lỗi% 1 từ thư mục dữ liệu hiện tại. Điều này có thể mất vài giây cho tệp nhật ký lớn."]].

Definition vi_RPCConsole_2 : list message :=
  [Message false [Loc None "+3"]
     "&amp;Open" true
     ["&amp; Mở"];
   Message false [Loc None "+25"]
     "Wallet: " true
     ["Ví:"];
   Message false [Loc None "+8"]
     "(none)" true
     ["không có"];
   Message false [Loc None "+27"]
     "Decrease font size" true
     ["Giảm cỡ phông"];
   Message false [Loc None "+32"]
     "Increase font size" true
     ["Tăng cỡ phông"];
   Message false [Loc None "+32"]
     "Clear console" true
     ["Xóa bảng điều khiển"];
   Message false [Loc None "+111"]
     "&amp;Reset" true
     ["&amp; Đặt lại"];
   Message false [Loc None "+16"]
     "Totals" true
     ["Tổng số"];
   Message false [Loc None "+67"; Loc None "+555"]
     "Received" true
     ["Nhận"];
   Message false [Loc None "-475"; Loc None "+452"]
     "Sent" true
     ["Gửi"];
   Message false [Loc None "-361"]
     "Banned peers" true
     ["Các đồng nghiệp bị Cấm"];
   Message false [Loc None "+60"; Loc (Some "../rpcconsole.cpp") "+510"; Loc None "+760"]
     "Select a peer to view detailed information." true
     ["Chọn một ngang để xem thông tin chi tiết."];
   Message false [Loc None "+25"]
     "Whitelisted" true
     ["Whitelisted"];
   Message false [Loc None "+23"]
     "Direction" true
     ["Hướng"];
   Message false [Loc None "+23"]
     "Version" true
     ["Phiên bản"];
   Message false [Loc None "+46"]
     "Services" true
     ["Dịch vụ"];
   Message false [Loc None "+23"]
     "Starting Block" true
     ["Khối bắt đầu"];
   Message false [Loc None "+23"]
     "Synced Headers" true
     ["Tiêu đề đồng bộ hóa"];
   Message false [Loc None "+23"]
     "Synced Blocks" true
     ["Khối đồng bộ hóa"];
   Message false [Loc None "+23"]
     "Ban Score" true
     ["Ban điểm"];
   Message false [Loc None "+23"]
     "Connection Time" true
     ["Thời gian kết nối"];
   Message false [Loc None "+23"]
     "Last Send" true
     ["Gửi lần cuối"];
   Message false [Loc None "+23"]
     "Last Receive" true
     ["Nhận cuối"];
   Message false [Loc None "+69"]
     "Ping Time" true
     ["Thời gian ping"];
   Message false [Loc None "+23"]
     "The duration of a currently outstanding ping." true
     ["Thời gian của một ping hiện đang xuất sắc."];
   Message false [Loc None "+3"]
     "Ping Wait" true
     ["Ping chờ"];
   Message false [Loc None "+23"]
     "Min Ping" true
     ["Min ping"];
   Message false [Loc None "+23"]
     "Time Offset" true
     ["Bù giờ"];
   Message false [Loc (Some "../rpcconsole.cpp") "-667"]
     "&amp;Disconnect" true
     ["&amp; Ngắt kết nối"]].

Definition vi_RPCConsole_3 : list message :=
  [Message false [Loc None "+1"; Loc None "+1"; Loc None "+1"; Loc None "+1"]
     "Ban for" true
     ["Ban cho"];
   Message false [Loc None "-3"]
     "1 &amp;hour" true
     ["1 &amp; giờ"];
   Message false [Loc None "+1"]
     "1 &amp;day" true
     ["1 &amp; ngày"];
   Message false [Loc None "+1"]
     "1 &amp;week" true
     ["1 tuần &amp;"];
   Message false [Loc None "+1"]
     "1 &amp;year" true
     ["1 &amp; năm"];
   Message false [Loc None "+48"]
     "&amp;Unban" true
     ["&amp; Không ban"];
   Message false [Loc None "+54"]
     "default wallet" true
     ["Ví mặc định"];
   Message false [Loc None "+110"]
     "Welcome to the %1 RPC console." true
     ["Chào mừng đến với bàn điều khiển RPC% 1."];
   Message false [Loc None "+1"]
     "Use up and down arrows to navigate history, and %1 to clear screen." true
     ["Sử dụng mũi tên lên và xuống để di chuyển lịch sử, và% 1 để xóa màn hình."];
   Message false [Loc None "+1"]
     "Type %1 for an overview of available commands." true
     ["Nhập% 1 để biết tổng quan về các lệnh có sẵn."];
   Message false [Loc None "+1"]
     "For more information on using this console type %1." true
     ["Để biết thêm thông tin về cách sử dụng loại bàn điều khiển này% 1."];
   Message false [Loc None "+2"]
     "WARNING: Scammers have been active, telling users to type commands here, stealing their wallet contents. Do not use this console without fully understanding the ramifications of a command." true
     ["CẢNH báo: kẻ lừa đảo đã hoạt động, nói cho người dùng gõ lệnh ở đây, ăn cắp nội dung ví của họ. Không sử dụng bảng điều khiển này mà không hiểu đầy đủ các chi nhánh của lệnh."];
   Message false [Loc None "+32"]
     "In:" true
     ["In:"];
   Message false [Loc None "+1"]
     "Out:" true
     ["Ra:"];
   Message false [Loc None "+3"]
     "Network activity disabled" true
     ["Hoạt động mạng bị vô hiệu hoá"];
   Message false [Loc None "+68"]
     "Executing command without any wallet" true
     ["Thực thi lệnh mà không cần bất kỳ ví"];
   Message false [Loc None "+2"]
     "Executing command using &quot;%1&quot; wallet" true
     ["Thực thi lệnh bằng ví &quot;% 1&quot;"];
   Message false [Loc None "+190"]
     "(node id: %1)" true
     ["(nút ID:% 1)"];
   Message false [Loc None "+2"]
     "via %1" true
     ["qua% 1"];
   Message false [Loc None "+3"; Loc None "+1"]
     "never" true
     ["Không bao giờ"];
   Message false [Loc None "+10"]
     "Inbound" true
     ["Đến"];
   Message false [Loc None "+0"]
     "Outbound" true
     ["Đi"];
   Message false [Loc None "+2"]
     "Yes" true
     ["Có"];
   Message false [Loc None "+0"]
     "No" true
     ["Không"];
   Message false [Loc None "+12"; Loc None "+6"]
     "Unknown" true
     ["Biết"]].

Definition vi_ReceiveCoinsDialog : list message :=
  [Message false [Loc (Some "../forms/receivecoinsdialog.ui") "+59"]
     "Stake" true
     ["Cổ phần"];
   Message false [Loc None "+5"]
     "ColdStake" true
     ["Coldcổ phần"];
   Message false [Loc None "+14"]
     "&amp;Request payment" true
     ["&amp; Yêu cầu thanh toán"];
   Message false [Loc None "+17"]
     "Clear all fields of the form." true
     ["Xóa tất cả các trường của biểu mẫu."];
   Message false [Loc None "+3"]
     "Clear" true
     ["Rõ ràng"];
   Message false [Loc None "+56"; Loc None "+79"]
     "An optional amount to request. Leave this empty or zero to not request a specific amount." true
     ["Một khoản tiền tùy chọn để yêu cầu. Để trống hoặc không yêu cầu một số tiền cụ thể."];
   Message false [Loc None "-57"]
     "Use bech32 encoding." true
     ["Sử dụng mã hóa bech32."];
   Message false [Loc None "+3"]
     "Generate native segwit (Bech32) address" true
     ["Tạo địa chỉ segwit (Bech32) bản địa"];
   Message false [Loc None "+22"; Loc None "+55"]
     "An optional label to associate with the new receiving address." true
     ["Nhãn tùy chọn để liên kết với địa chỉ nhận mới."];
   Message false [Loc None "-52"]
     "&amp;Label:" true
     ["Nhãn"];
   Message false [Loc None "+13"; Loc None "+53"]
     "An optional message to attach to the payment request, which will be displayed when the request is opened. Note: The message will not be sent with the payment over the Bitcoin Confidential network." true
     ["Một thông báo tùy chọn để đính kèm vào yêu cầu thanh toán, sẽ được hiển thị khi yêu cầu được mở. Lưu ý: thông báo sẽ không được gửi với thanh toán qua mạng bảo mật Bitcoin."];
   Message false [Loc None "-50"]
     "&amp;Message:" true
     ["Thông báo"];
   Message false [Loc None "+16"]
     "&amp;Amount:" true
     ["Trước khi"];
   Message false [Loc None "+13"]
     "Use this form to request payments. All fields are &lt;b&gt;optional&lt;/b&gt;." true
     ["Sử dụng mẫu đơn này để yêu cầu thanh toán. Tất cả các trường là &lt;b&gt;tùy chọn&lt;/b&gt;."];
   Message false [Loc None "+63"]
     "Requested payments history" true
     ["Lịch sử thanh toán yêu cầu"];
   Message false [Loc None "+31"]
     "Show the selected request (does the same as double clicking an entry)" true
     ["Hiển thị yêu cầu đã chọn (không giống như nhấp đúp vào một mục nhập)"];
   Message false [Loc None "+3"]
     "Show" true
     ["Hiển thị"];
   Message false [Loc None "+17"]
     "Remove the selected entries from the list" true
     ["Xóa các mục đã chọn khỏi danh sách"];
   Message false [Loc None "+3"]
     "Remove" true
     ["Loại bỏ"];
   Message false [Loc (Some "../receivecoinsdialog.cpp") "+40"]
     "Copy URI" true
     ["Sao chép URI"];
   Message false [Loc None "+1"]
     "Copy label" true
     ["Sao nhãn"];
   Message false [Loc None "+1"]
     "Copy message" true
     ["Sao chép thư"];
   Message false [Loc None "+1"]
     "Copy amount" true
     ["Sao chép lượng"]].

Definition vi_ReceiveRequestDialog : list message :=
  [Message false [Loc (Some "../forms/receiverequestdialog.ui") "+29"]
     "QR Code" true
     ["Mã QR"];
   Message false [Loc None "+46"]
     "Copy &amp;URI" true
     ["Sao chép &amp; URI"];
   Message false [Loc None "+10"]
     "Copy &amp;Address" true
     ["Copy &amp; địa chỉ"];
   Message false [Loc None "+10"]
     "&amp;Save Image..." true
     ["&amp; Lưu hình ảnh..."];
   Message false [Loc (Some "../receiverequestdialog.cpp") "+65"]
     "Request payment to %1" true
     ["Yêu cầu thanh toán cho% 1"];
   Message false [Loc None "+6"]
     "Payment information" true
     ["Thông tin thanh toán"];
   Message false [Loc None "+1"]
     "URI" true
     ["Uri"];
   Message false [Loc None "+2"]
     "Address" true
     ["Địa chỉ"];
   Message false [Loc None "+2"]
     "Amount" true
     ["Lượng"];
   Message false [Loc None "+2"]
     "Label" true
     ["Nhãn"];
   Message false [Loc None "+2"]
     "Message" true
     ["Thư"];
   Message false [Loc None "+2"]
     "Wallet" true
     ["Ví"];
   Message false [Loc None "+11"]
     "Resulting URI too long, try to reduce the text for label / message." true
     ["URI kết quả quá dài, cố gắng giảm văn bản cho nhãn/tin nhắn."];
   Message false [Loc None "+5"]
     "Error encoding URI into QR Code." true
     ["Lỗi mã hóa URI thành QR code."]].

Definition vi_RecentRequestsTableModel : list message :=
  [Message false [Loc (Some "../recentrequeststablemodel.cpp") "+25"; Loc None "+4"]
     "Date" true
     ["Ngày"];
   Message false [Loc None "-4"; Loc None "+4"]
     "Label" true
     ["Nhãn"];
   Message false [Loc None "+0"]
     "Message" true
     ["Thư"];
   Message false [Loc None "+42"]
     "(no label)" true
     ["(không có nhãn)"];
   Message false [Loc None "+9"]
     "(no message)" true
     ["(không có tin nhắn)"];
   Message false [Loc None "+8"]
     "(no amount requested)" true
     ["(không yêu cầu số tiền)"];
   Message false [Loc None "+45"]
     "Requested" true
     ["Yêu cầu"]].

Definition vi_SendCoinsDialog_1 : list message :=
  [Message false [Loc (Some "../forms/sendcoinsdialog.ui") "+14"; Loc (Some "../sendcoinsdialog.cpp") "+806"]
     "Send Coins" true
     ["Gửi tiền xu"];
   Message false [Loc None "+105"]
     "Inputs..." true
     ["Đầu vào..."];
   Message false [Loc None "+10"]
     "automatically selected" true
     ["chọn tự động"];
   Message false [Loc None "+19"]
     "Insufficient funds!" true
     ["Không đủ tiền!"];
   Message false [Loc None "+89"]
     "Quantity:" true
     ["Số lượng"];
   Message false [Loc None "+35"]
     "Bytes:" true
     ["Byte:"];
   Message false [Loc None "+48"]
     "Amount:" true
     ["Lượng:"];
   Message false [Loc None "+32"]
     "Dust:" true
     ["Bụi:"];
   Message false [Loc None "+48"]
     "Fee:" true
     ["Phí:"];
   Message false [Loc None "+51"]
     "After Fee:" true
     ["Sau khi lệ phí:"];
   Message false [Loc None "+32"]
     "Change:" true
     ["Thay đổi:"];
   Message false [Loc None "+44"]
     "If this is activated, but the change address is empty or invalid, change will be sent to a newly generated address." true
     ["Nếu điều này được kích hoạt, nhưng địa chỉ thay đổi trống hoặc không hợp lệ, thay đổi sẽ được gửi đến một địa chỉ mới được tạo ra."];
   Message false [Loc None "+3"]
     "Custom change address" true
     ["Địa chỉ thay đổi tùy chỉnh"];
   Message false [Loc None "+256"]
     "Transaction Fee:" true
     ["Phí giao dịch:"];
   Message false [Loc None "+14"]
     "Choose..." true
     ["Chọn..."];
   Message false [Loc None "+30"]
     "Using the fallbackfee can result in sending a transaction that will take several hours or days (or never) to confirm. Consider choosing your fee manually or wait until you have validated the complete chain." true
     ["Sử dụng fallbackfee có thể dẫn đến việc gửi một giao dịch sẽ mất vài giờ hoặc vài ngày (hoặc không bao giờ) để xác nhận. Xem xét việc chọn lệ phí của bạn theo cách thủ công hoặc đợi cho đến khi bạn đã xác nhận chuỗi hoàn chỉnh."];
   Message false [Loc None "+3"]
     "Warning: Fee estimation is currently not possible." true
     ["Cảnh báo: ước tính phí hiện không thể."];
   Message false [Loc None "+26"]
     "collapse fee-settings" true
     ["thu hẹp phí-cài đặt"];
   Message false [Loc None "+3"]
     "Hide" true
     ["Ẩn"];
   Message false [Loc None "+48"]
     "Specify a custom fee per kB (1,000 bytes) of the transaction's virtual size.

Note:  Since the fee is calculated on a per-byte basis, a fee of &quot;100 satoshis per kB&quot; for a transaction size of 500 bytes (half of 1 kB) would ultimately yield a fee of only 50 satoshis." true
     ["Chỉ định một khoản phí tùy chỉnh cho mỗi kB (1.000 byte) kích thước ảo của giao dịch.

Lưu ý: kể từ lệ phí được tính trên một cơ sở mỗi byte, một khoản phí của &quot;100 satoshis mỗi kB&quot; cho một kích thước giao dịch là 500 byte (một nửa của 1 kB) cuối cùng đã mang lại một khoản phí chỉ 50 satoshis."];
   Message false [Loc None "+5"]
     "per kilobyte" true
     ["mỗi kilobyte"];
   Message false [Loc None "+27"; Loc None "+13"]
     "Paying only the minimum fee is just fine as long as there is less transaction volume than space in the blocks. But be aware that this can end up in a never confirming transaction once there is more demand for Bitcoin Confidential transactions than the network can process." true
     ["Chỉ trả phí tối thiểu chỉ là tiền phạt miễn là có khối lượng giao dịch ít hơn so với không gian trong các khối. Nhưng hãy nhận biết rằng điều này có thể kết thúc trong một giao dịch không bao giờ xác nhận một khi có nhiều nhu cầu cho Bitcoin bí mật giao dịch hơn so với mạng có thể xử lý."];
   Message false [Loc None "+3"]
     "(read the tooltip)" true
     ["(đọc chú thích)"];
   Message false [Loc None "+29"]
     "Recommended:" true
     ["Khuyến cáo:"];
   Message false [Loc None "+30"]
     "Custom:" true
     ["Tùy chỉnh:"];
   Message false [Loc None "+52"]
     "(Smart fee not initialized yet. This usually takes a few blocks...)" true
     ["(Thông minh phí không được khởi động được nêu ra. Điều này thường mất một vài khối...)"];
   Message false [Loc None "+29"]
     "Confirmation time target:" true
     ["Mục tiêu thời gian xác nhận:"];
   Message false [Loc None "+74"]
     "With Replace-By-Fee (BIP-125) you can increase a transaction&apos;s fee after it is sent. Without this, a higher fee may be recommended to compensate for increased transaction delay risk." true
     ["Với Replace-by-Fee (BIP-125) bạn có thể tăng lệ phí của một giao dịch sau khi nó được gửi. Nếu không có điều này, một khoản phí cao hơn có thể được khuyến khích để bù đắp cho các giao dịch tăng chậm rủi ro."]].

Definition vi_SendCoinsDialog_2 : list message :=
  [Message false [Loc None "+3"]
     "Enable Replace-By-Fee" true
     ["Cho phép thay thế bằng phí"];
   Message false [Loc None "+37"]
     "Confirm the send action" true
     ["Xác nhận hành động gửi"];
   Message false [Loc None "+3"]
     "S&amp;end" true
     ["S&amp;end"];
   Message false [Loc None "+23"]
     "Clear all fields of the form." true
     ["Xóa tất cả các trường của biểu mẫu."];
   Message false [Loc None "+3"]
     "Clear &amp;All" true
     ["Clear &amp; tất cả"];
   Message false [Loc None "+14"]
     "Send to multiple recipients at once" true
     ["Gửi cho nhiều người nhận cùng một lúc"];
   Message false [Loc None "+3"]
     "Add &amp;Recipient" true
     ["Thêm &amp; người nhận"];
   Message false [Loc None "+38"]
     "Balance:" true
     ["Cân bằng:"];
   Message false [Loc (Some "../sendcoinsdialog.cpp") "-730"]
     "Add Output" true
     ["Thêm đầu ra"];
   Message false [Loc None "+3"]
     "Add Recipient" true
     ["Thêm người nhận"];
   Message false [Loc None "+14"]
     "Copy quantity" true
     ["Số lượng sao chép"];
   Message false [Loc None "+1"]
     "Copy amount" true
     ["Sao chép lượng"];
   Message false [Loc None "+1"]
     "Copy fee" true
     ["Phí sao chép"];
   Message false [Loc None "+1"]
     "Copy after fee" true
     ["Sao chép sau phí"];
   Message false [Loc None "+1"]
     "Copy bytes" true
     ["Sao chép byte"];
   Message false [Loc None "+1"]
     "Copy dust" true
     ["Sao chép bụi"];
   Message false [Loc None "+1"]
     "Copy change" true
     ["Sao thay đổi"];
   Message false [Loc None "+88"]
     "%1 (%2 blocks)" true
     ["% 1 (% 2 khối)"];
   Message false [Loc None "+39"]
     "This tab allows manually activating Staking funds for ColdStaking. This will take longer than the &quot;Automated ColdStaking activation&quot; to start staking but wallet does not need to be online for the activation." true
     ["Tab này cho phép tự kích hoạt quỹ staking cho ColdStaking. Điều này sẽ mất nhiều thời gian hơn &quot;kích hoạt tự động ColdStaking&quot; để bắt đầu staking nhưng ví không cần phải trực tuyến cho việc kích hoạt."];
   Message false [Loc None "+103"]
     "Error Remote Staking Address" true
     ["Lỗi từ xa staking địa chỉ"];
   Message false [Loc None "+0"]
     "The remote stake address can&apos;t be part of this wallet." true
     ["Địa chỉ giáo khu từ xa không thể là một phần của ví này."];
   Message false [Loc None "+96"]
     "from wallet %1" true
     ["từ ví% 1"];
   Message false [Loc None "+21"; Loc None "+5"; Loc None "+5"; Loc None "+4"]
     "%1 to %2" true
     ["% 1 đến% 2"];
   Message false [Loc None "+6"]
     "Are you sure you want to send?" true
     ["Bạn có chắc bạn muốn gửi không?"];
   Message false [Loc None "+2"]
     "Please, review your transaction." true
     ["Vui lòng, đánh giá giao dịch của bạn."];
   Message false [Loc None "+11"]
     "Estimated Transaction fee" true
     ["Phí giao dịch ước tính"];
   Message false [Loc None "+13"]
     "removed for transaction fee" true
     ["loại bỏ cho phí giao dịch"];
   Message false [Loc None "+2"]
     "added as transaction fee" true
     ["được thêm vào như phí giao dịch"];
   Message false [Loc None "+5"]
     "You can increase the fee later (signals Replace-By-Fee, BIP-125)." true
     ["Bạn có thể tăng lệ phí sau này (tín hiệu thay thế-by-Fee, BIP-125)."]].

Definition vi_SendCoinsDialog_3 : list message :=
  [Message false [Loc None "+2"]
     "Not signalling Replace-By-Fee, BIP-125." true
     ["Không tín hiệu thay thế-by-Fee, BIP-125."];
   Message false [Loc None "+12"]
     "Total Amount" true
     ["Tổng số tiền"];
   Message false [Loc None "+6"]
     "Your hardware device must be connected to sign this txn." true
     ["Thiết bị phần cứng của bạn phải được kết nối để ký TXN này."];
   Message false [Loc None "+4"]
     "Confirm send coins" true
     ["Xác nhận gửi tiền xu"];
   Message false [Loc None "+248"]
     "The recipient address is not valid. Please recheck." true
     ["Địa chỉ người nhận không hợp lệ. Xin vui lòng kiểm tra lại."];
   Message false [Loc None "+3"]
     "The amount to pay must be larger than 0." true
     ["Lượng thanh toán phải lớn hơn 0."];
   Message false [Loc None "+3"]
     "The amount exceeds your balance." true
     ["Lượng vượt quá số dư của bạn."];
   Message false [Loc None "+3"]
     "The total exceeds your balance when the %1 transaction fee is included." true
     ["Tổng số vượt quá số dư của bạn khi bao gồm phí giao dịch% 1."];
   Message false [Loc None "+3"]
     "Duplicate address found: addresses should only be used once each." true
     ["Địa chỉ trùng lặp tìm thấy: địa chỉ chỉ nên được sử dụng một lần mỗi."];
   Message false [Loc None "+3"]
     "Transaction creation failed!" true
     ["Tạo giao dịch không thành công!"];
   Message false [Loc None "+4"]
     "The transaction was rejected with the following reason: %1" true
     ["Giao dịch bị từ chối với nguyên do sau:% 1"];
   Message false [Loc None "+4"]
     "A fee higher than %1 is considered an absurdly high fee." true
     ["Một khoản phí cao hơn% 1 được coi là một khoản phí cao ngớ ngẩn."];
   Message false [Loc None "+3"]
     "Payment request expired." true
     ["Yêu cầu thanh toán hết hạn."];
   Message false [Loc None "+96"]
     "Pay only the required fee of %1" true
     ["Chỉ trả phí yêu cầu của% 1"];
   Message true [Loc None "+76"]
     "Estimated to begin confirmation within %n block(s)." false
     [(Txt [])];
   Message false [Loc None "+130"]
     "Warning: Invalid Bitcoin Confidential address" true
     ["Cảnh báo: địa chỉ bảo mật Bitcoin không hợp lệ"];
   Message false [Loc None "+8"]
     "Error custom change address" true
     ["Lỗi tuỳ chỉnh địa chỉ thay đổi"];
   Message false [Loc None "+0"]
     "The address you selected for change is not part of this wallet." true
     ["Địa chỉ mà bạn đã chọn để thay đổi không phải là một phần của ví này."];
   Message false [Loc None "+15"]
     "(no label)" true
     ["(không có nhãn)"]].

Definition vi_SendCoinsEntry_1 : list message :=
  [Message false [Loc (Some "../forms/sendcoinsentry.ui") "+30"]
     "This is a normal payment." true
     ["Đây là một khoản thanh toán bình thường."];
   Message false [Loc None "+71"; Loc None "+463"; Loc None "+130"]
     "Subtract fee from amount" true
     ["Trừ phí từ tiền"];
   Message false [Loc None "-580"; Loc None "+463"; Loc None "+130"]
     "Use available balance" true
     ["Sử dụng số dư có sẵn"];
   Message false [Loc None "-562"]
     "Message" true
     ["Thư"];
   Message false [Loc None "+24"; Loc None "+261"]
     "The Bitcoin Confidential address to send the payment to" true
     ["Địa chỉ bảo mật Bitcoin để gửi khoản thanh toán đến"];
   Message false [Loc None "-254"; Loc None "+261"; Loc None "+297"; Loc None "+104"]
     "Choose previously used address" true
     ["Chọn địa chỉ đã sử dụng trước đó"];
   Message false [Loc None "-646"; Loc None "+261"; Loc None "+297"; Loc None "+104"]
     "Alt+A" true
     ["Alt + A"];
   Message false [Loc None "-655"; Loc None "+261"; Loc None "+297"; Loc None "+104"]
     "Paste address from clipboard" true
     ["Dán địa chỉ từ clipboard"];
   Message false [Loc None "-646"; Loc None "+261"; Loc None "+297"; Loc None "+104"]
     "Alt+P" true
     ["Alt + P"];
   Message false [Loc None "-655"; Loc None "+261"; Loc None "+401"; Loc None "+520"; Loc None "+564"]
     "Remove this entry" true
     ["Loại bỏ mục này"];
   Message false [Loc None "-1718"; Loc None "+277"]
     "Pay To" true
     ["Trả tiền để"];
   Message false [Loc None "-258"; Loc None "+242"; Loc None "+277"]
     "Amount" true
     ["Lượng"];
   Message false [Loc None "-495"]
     "Enter a label for this address to add it to the list of used addresses" true
     ["Nhập nhãn cho địa chỉ này để thêm vào danh sách các địa chỉ đã sử dụng"];
   Message false [Loc None "+15"]
     "Label" true
     ["Nhãn"];
   Message false [Loc None "+33"]
     "A short message sent over the Bitcoin Confidential network." true
     ["Một tin nhắn ngắn được gửi qua mạng bảo mật Bitcoin."];
   Message false [Loc None "+6"]
     "Encrypted message sent with the transaction (optional, max. 24 characters)." true
     ["Thư được mã hóa gửi với giao dịch (tùy chọn, tối đa 24 ký tự)."];
   Message false [Loc None "+261"]
     "This is a payment to a coldstake script." true
     ["Đây là một khoản thanh toán cho một kịch bản coldstake."];
   Message false [Loc None "+83"]
     "The fee will be deducted from the amount being sent. The recipient will receive less Bitcoin Confidential than you enter in the amount field. If multiple recipients are selected, the fee is split equally." true
     ["Phí sẽ được khấu trừ từ số tiền được gửi. Người nhận sẽ nhận được bí mật Bitcoin ít hơn bạn nhập vào trường tiền. Nếu nhiều người nhận được chọn, phí được chia đều."];
   Message false [Loc None "+36"]
     "ColdStake address used by your remote staking node to stake your funds." true
     ["ColdStake địa chỉ được sử dụng bởi các nút staking từ xa của bạn để cổ phần tiền của bạn."];
   Message false [Loc None "+80"]
     "ColdStake " true
     ["Coldcổ phần"];
   Message false [Loc None "+24"]
     "The stake address on the remote node (cannot be in this wallet)" true
     ["Địa chỉ giáo khu trên nút từ xa (không thể ở trong ví này)"];
   Message false [Loc None "+81"]
     " Stake " true
     ["Cổ phần"];
   Message false [Loc None "+434"]
     "This is an unauthenticated payment request." true
     ["Đây là một yêu cầu thanh toán chưa được xác thực."];
   Message false [Loc None "+40"; Loc None "+560"]
     "Pay To:" true
     ["Trả tiền để:"]].

Definition vi_SendCoinsEntry_2 : list message :=
  [Message false [Loc None "-526"; Loc None "+577"]
     "Memo:" true
     ["Memo:"];
   Message false [Loc None "-560"; Loc None "+547"]
     "A&amp;mount:" true
     ["A&amp;mount:"];
   Message false [Loc None "-78"]
     "This is an authenticated payment request." true
     ["Đây là một yêu cầu xác thực thanh toán."];
   Message false [Loc (Some "../sendcoinsentry.cpp") "+89"]
     "Enter a label for this address to add it to your address book" true
     ["Nhập nhãn cho địa chỉ này để thêm vào sổ địa chỉ của bạn"]].

Definition vi_SendConfirmationDialog : list message :=
  [Message false [Loc (Some "../sendcoinsdialog.cpp") "+85"; Loc None "+5"]
     "Yes" true
     ["Có"]].

Definition vi_ShutdownWindow : list message :=
  [Message false [Loc (Some "../utilitydialog.cpp") "+83"]
     "%1 is shutting down..." true
     ["% 1 đang tắt..."];
   Message false [Loc None "+1"]
     "Do not shut down the computer until this window disappears." true
     ["Không tắt máy tính cho đến khi cửa sổ này biến mất."]].

Definition vi_SignVerifyMessageDialog_1 : list message :=
  [Message false [Loc (Some "../forms/signverifymessagedialog.ui") "+14"]
     "Signatures - Sign / Verify a Message" true
     ["Chữ ký-đăng nhập/xác minh thư"];
   Message false [Loc None "+14"]
     "&amp;Sign Message" true
     ["&amp; Ký thư"];
   Message false [Loc None "+10"]
     "&amp;Verify Message" true
     ["&amp; Xác minh thông báo"];
   Message false [Loc None "+31"]
     "You can sign messages/agreements with your addresses to prove you can receive Bitcoin Confidential sent to them. Be careful not to sign anything vague or random, as phishing attacks may try to trick you into signing your identity over to them. Only sign fully-detailed statements you agree to." true
     ["Bạn có thể ký các tin nhắn/thỏa thuận với địa chỉ của bạn để chứng minh bạn có thể nhận được bảo mật Bitcoin gửi cho họ. Hãy cẩn thận không để ký bất cứ điều gì mơ hồ hoặc ngẫu nhiên, như các cuộc tấn công lừa đảo có thể cố gắng lừa bạn vào ký nhận dạng của bạn hơn đối với họ. Chỉ ký các báo cáo chi tiết đầy đủ mà bạn đồng ý."];
   Message false [Loc None "+18"]
     "The Bitcoin Confidential address to sign the message with" true
     ["Địa chỉ bí mật Bitcoin để ký vào tin nhắn với"];
   Message false [Loc None "+7"; Loc None "+213"]
     "Choose previously used address" true
     ["Chọn địa chỉ đã sử dụng trước đó"];
   Message false [Loc None "-203"; Loc None "+213"]
     "Alt+A" true
     ["Alt + A"];
   Message false [Loc None "-203"]
     "Paste address from clipboard" true
     ["Dán địa chỉ từ clipboard"];
   Message false [Loc None "+10"]
     "Alt+P" true
     ["Alt + P"];
   Message false [Loc None "+12"]
     "Enter the message you want to sign here" true
     ["Nhập tin nhắn bạn muốn đăng ở đây"];
   Message false [Loc None "+7"]
     "Signature" true
     ["Chữ ký"];
   Message false [Loc None "+27"]
     "Copy the current signature to the system clipboard" true
     ["Sao chép chữ ký hiện tại vào clipboard hệ thống"];
   Message false [Loc None "+21"]
     "Sign the message to prove you own this Bitcoin Confidential address" true
     ["Ký vào tin nhắn để chứng minh bạn sở hữu địa chỉ bí mật Bitcoin này"];
   Message false [Loc None "+3"]
     "Sign &amp;Message" true
     ["Đăng nhập &amp; Message"];
   Message false [Loc None "+14"]
     "Reset all sign message fields" true
     ["Đặt lại tất cả các trường thông báo ký"];
   Message false [Loc None "+3"; Loc None "+153"]
     "Clear &amp;All" true
     ["Clear &amp; tất cả"];
   Message false [Loc None "-85"]
     "Enter the receiver&apos;s address, message (ensure you copy line breaks, spaces, tabs, etc. exactly) and signature below to verify the message. Be careful not to read more into the signature than what is in the signed message itself, to avoid being tricked by a man-in-the-middle attack. Note that this only proves the signing party receives with the address, it cannot prove sendership of any transaction!" true
     ["Nhập địa chỉ của người nhận, tin nhắn (đảm bảo bạn sao chép các ngắt dòng, dấu trống, tab, v.v. chính xác) và chữ ký bên dưới để xác minh thư. Hãy cẩn thận không để đọc thêm vào chữ ký hơn những gì có trong các tin nhắn đã ký chính nó, để tránh bị lừa bởi một người đàn ông-trong-The-trung tấn công. Lưu ý rằng điều này chỉ chứng minh các bên ký nhận được với địa chỉ, nó không thể chứng minh sendership của bất kỳ giao dịch!"];
   Message false [Loc None "+21"]
     "The Bitcoin Confidential address the message was signed with" true
     ["Địa chỉ bí mật Bitcoin thư đã được ký kết với"];
   Message false [Loc None "+44"]
     "Verify the message to ensure it was signed with the specified Bitcoin Confidential address" true
     ["Xác minh thông báo để đảm bảo nó được ký kết với địa chỉ bảo mật Bitcoin đã chỉ định"];
   Message false [Loc None "+3"]
     "Verify &amp;Message" true
     ["Xác minh &amp; Message"];
   Message false [Loc None "+14"]
     "Reset all verify message fields" true
     ["Đặt lại tất cả các trường thông báo xác minh"];
   Message false [Loc (Some "../signverifymessagedialog.cpp") "+39"]
     "Click &quot;Sign Message&quot; to generate signature" true
     ["Nhấp vào &quot;ký thư&quot; để tạo chữ ký"];
   Message false [Loc None "+78"; Loc None "+78"]
     "The entered address is invalid." true
     ["Địa chỉ đã nhập không hợp lệ."];
   Message false [Loc None "-78"; Loc None "+7"; Loc None "+71"; Loc None "+6"]
     "Please check the address and try again." true
     ["Vui lòng kiểm tra địa chỉ và thử lại."];
   Message false [Loc None "-77"; Loc None "+77"]
     "The entered address does not refer to a key." true
     ["Địa chỉ đã nhập không đề cập đến một khóa."];
   Message false [Loc None "-69"]
     "Wallet unlock was cancelled." true
     ["Mở khóa Wallet đã bị hủy bỏ."];
   Message false [Loc None "+8"]
     "Private key for the entered address is not available." true
     ["Khóa riêng cho địa chỉ đã nhập không khả dụng."];
   Message false [Loc None "+12"]
     "Message signing failed." true
     ["Thư ký không thành công."]].

Definition vi_SignVerifyMessageDialog_2 : list message :=
  [Message false [Loc None "+5"]
     "Message signed." true
     ["Tin nhắn đã ký."];
   Message false [Loc None "+55"]
     "The signature could not be decoded." true
     ["Chữ ký không thể decoded."];
   Message false [Loc None "+0"; Loc None "+13"]
     "Please check the signature and try again." true
     ["Vui lòng kiểm tra chữ ký và thử lại."];
   Message false [Loc None "+0"]
     "The signature did not match the message digest." true
     ["Chữ ký không khớp với thông điệp tiêu hóa."];
   Message false [Loc None "+6"]
     "Message verification failed." true
     ["Thông báo xác minh không thành công."];
   Message false [Loc None "+5"]
     "Message verified." true
     ["Thư đã xác minh."]].

Definition vi_SplashScreen : list message :=
  [Message false [Loc (Some "../networkstyle.cpp") "+19"]
     "[testnet]" true
     ["testnet"]].

Definition vi_StakingDialog_1 : list message :=
  [Message false [Loc (Some "../forms/stakingdialog.ui") "+14"]
     "Send Coins" true
     ["Gửi tiền xu"];
   Message false [Loc None "+23"]
     "Status" true
     ["Tình trạng"];
   Message false [Loc None "+19"]
     "Addresses" true
     ["Địa chỉ"];
   Message false [Loc None "+16"]
     "Rewards" true
     ["Thưởng"];
   Message false [Loc None "+16"]
     "Convert to Spending" true
     ["Chuyển đổi sang chi tiêu"];
   Message false [Loc None "+16"]
     "Convert to Staking" true
     ["Chuyển đổi sang staking"];
   Message false [Loc None "+16"]
     "Activate ColdStaking" true
     ["Kích hoạt ColdStaking"];
   Message false [Loc None "+79"]
     "Total supply" true
     ["Tổng nguồn cung"];
   Message false [Loc None "+26"]
     "Current block reward" true
     ["Phần thưởng khối hiện tại"];
   Message false [Loc None "+26"]
     "Current block height" true
     ["Chiều cao khối hiện tại"];
   Message false [Loc None "+20"]
     "Network difficulty" true
     ["Mạng khó khăn"];
   Message false [Loc None "+26"]
     "Annual staking reward" true
     ["Phần thưởng staking hàng năm"];
   Message false [Loc None "+13"]
     "Current staking reward" true
     ["Phần thưởng staking hiện tại"];
   Message false [Loc None "+26"]
     "Network staking weight" true
     ["Trọng lượng mạng staking"];
   Message false [Loc None "+20"]
     "Your estimated annual reward" true
     ["Phần thưởng hàng năm ước tính"];
   Message false [Loc None "+13"]
     "?" true
     ["?"];
   Message false [Loc None "+80"]
     "Staking" true
     ["Staking"];
   Message false [Loc None "+24"; Loc None "+233"]
     "ENABLED" true
     ["Kích hoạt"];
   Message false [Loc None "-210"]
     "Pause" true
     ["Tạm dừng"];
   Message false [Loc None "+50"; Loc None "+425"]
     "Estimated reward frequency" true
     ["Tần suất thưởng ước tính"];
   Message false [Loc None "-412"]
     "Stakable Funds" true
     ["Quỹ stakable"];
   Message false [Loc None "+20"]
     "Wallet staking weight" true
     ["Wallet staking trọng lượng"];
   Message false [Loc None "+103"]
     "Cold Staking" true
     ["Staking lạnh"];
   Message false [Loc None "+55"]
     "Remote Stake address" true
     ["Địa chỉ giáo khu từ xa"];
   Message false [Loc None "+13"]
     "Automated ColdStaking activation" true
     ["Tự động kích hoạt ColdStaking"];
   Message false [Loc None "+25"]
     "Enable " true
     ["Sử dung"];
   Message false [Loc None "+57"]
     "Enable Hot Staking with the STAKING ENABLE button and leaving wallet open.  Enable automated ColdStake with COLDSTAKING ENABLE button and setting a remote stake address. On remote node enable staking with &quot;bitcoinc-cli walletsettings stakingstatus true&quot; and create a &quot;Stake&quot; address on your remote node with &quot;bitcoinc-cli getnewstakeaddress&quot;, or get a &quot;Stake&quot; address from a ColdStaking pool. Funds gradually transition over from hot staking to cold staking while your wallet is open. The time required for the activation depends on the wallet&apos;s staking weight and can take several days with a low weight. Once the activation bar shows complete, wallet can be closed.  Alternatively, use the Activate Coldstaking tab to send an activation transaction.  This will take longer to start staking but wallet does not need to be online." true
     ["Bật Hot staking với nút kích hoạt STAKING và để lại ví mở.  Kích hoạt tự động ColdStake với COLDSTAKING kích hoạt nút và thiết lập một địa chỉ giáo khu từ xa. Trên nút từ xa cho phép staking với &quot;bitcoinc-CLI walletsettings stakingstatus True&quot; và tạo một địa chỉ &quot;cổ phần&quot; trên nút từ xa của bạn với &quot;bitcoinc-CLI getnewcác địa chỉ&quot;, hoặc có được một địa chỉ &quot;cổ phần&quot; từ một hồ bơi ColdStaking. Tiền dần chuyển tiếp từ staking nóng đến staking lạnh trong khi ví của bạn được mở. Thời gian cần thiết để kích hoạt phụ thuộc vào trọng lượng staking của ví và có thể mất vài ngày với trọng lượng thấp. Sau khi thanh kích hoạt Hiển thị hoàn tất, ví có thể được đóng lại.  Ngoài ra, hãy sử dụng tab kích hoạt Coldstaking để gửi một giao dịch kích hoạt.  Điều này sẽ mất nhiều thời gian để bắt đầu staking nhưng ví không cần phải được trực tuyến."];
   Message false [Loc None "+20"]
     "ColdStake activation progress" true
     ["Tiến độ kích hoạt ColdStake"];
   Message false [Loc None "+77"]
     "Amount activated for ColdStaking" true
     ["Lượng kích hoạt cho ColdStaking"]].

Definition vi_StakingDialog_2 : list message :=
  [Message false [Loc None "+13"]
     "Estimated weight" true
     ["Trọng lượng ước tính"];
   Message false [Loc None "+106"]
     "Filtered" true
     ["Lọc"];
   Message false [Loc None "+15"; Loc None "+88"]
     "Staking rewards" true
     ["Phần thưởng staking"];
   Message false [Loc None "-75"; Loc None "+48"]
     "Solved blocks" true
     ["Giải quyết các khối"];
   Message false [Loc None "-41"; Loc None "+55"]
     "4000" true
     ["4000"];
   Message false [Loc None "-48"; Loc None "+41"]
     "100000BC" true
     ["100000TCN"];
   Message false [Loc None "-22"]
     "Total" true
     ["Tất cả"];
   Message false [Loc (Some "../stakingdialog.cpp") "+258"; Loc None "+17"]
     "No stakable funds available. Use the &quot;Convert to staking&quot; tab to convert funds for staking." true
     ["Không có tiền stakable sẵn. Sử dụng tab &quot;Convert to staking&quot; để chuyển tiền cho staking."];
   Message false [Loc None "-15"; Loc None "+18"]
     "No eligible staking outputs available. Staking funds need to have 225 confirmations to be eligible." true
     ["Không có kết quả hợp lệ staking có sẵn. Quỹ staking cần phải có 225 xác nhận để đủ điều kiện."];
   Message false [Loc None "-9"]
     "Staking not initialized yet. Wait a moment." true
     ["Staking chưa khởi động được nêu ra. Chờ chút."];
   Message false [Loc None "+3"]
     "Staking is stopped. Press the start button above to enable staking." true
     ["Staking bị dừng lại. Nhấn nút bắt đầu ở trên để cho phép staking."];
   Message false [Loc None "+10"]
     "Wallet is locked. To start staking unlock the wallet for staking only. To unlock click the lock icon in the bottom right hand portion of the window." true
     ["Wallet bị khóa. Để bắt đầu staking mở khóa ví cho staking chỉ. Để mở khóa, nhấp vào biểu tượng khóa ở phần dưới cùng bên phải của cửa sổ."];
   Message false [Loc None "+4"]
     "Wallet is not fully synced. To start staking make sure the wallet has connections to the network and wait until it catched up with the latest blocks." true
     ["Wallet không được đồng bộ hóa hoàn toàn. Để bắt đầu staking chắc chắn rằng ví có kết nối vào mạng và chờ cho đến khi nó catched với các khối mới nhất."];
   Message false [Loc None "+3"]
     "Staking is disabled. Set the config paramter &quot;staking=1&quot; in the bitcoinc.conf to enable it." true
     ["Staking bị vô hiệu. Set The paramter cấu hình &quot;staking = 1&quot; trong bitcoinc. conf để kích hoạt nó."];
   Message false [Loc None "+72"]
     "No eligible coldstaking outputs available. Your coldstaking funds need to have 225 confirmations to be eligible." true
     ["Không có đủ điều kiện coldstaking đầu ra có sẵn. Quỹ coldstaking của bạn cần phải có 225 xác nhận để đủ điều kiện."];
   Message false [Loc None "+160"]
     "Set Remote Staking Address" true
     ["Đặt địa chỉ từ xa staking"];
   Message false [Loc None "+1"]
     "Enter the remote staking address:" true
     ["Nhập địa chỉ staking từ xa:"]].

Definition vi_TrafficGraphWidget : list message :=
  [Message false [Loc (Some "../trafficgraphwidget.cpp") "+81"]
     "KB/s" true
     ["KB/giây"]].

Definition vi_TransactionDesc_1 : list message :=
  [Message true [Loc (Some "../transactiondesc.cpp") "+39"]
     "Open for %n more block(s)" false
     [(Txt [])];
   Message false [Loc None "+2"]
     "Open until %1" true
     ["Mở cửa đến% 1"];
   Message false [Loc None "+6"]
     "conflicted with a transaction with %1 confirmations" true
     ["mâu thuẫn với một giao dịch với% 1 xác"];
   Message false [Loc None "+2"]
     "0/unconfirmed, %1" true
     ["0/chưa được xác nhận,% 1"];
   Message false [Loc None "+0"]
     "in memory pool" true
     ["trong bộ nhớ Hồ bơi"];
   Message false [Loc None "+0"]
     "not in memory pool" true
     ["không ở trong bộ nhớ Hồ bơi"];
   Message false [Loc None "+0"]
     "abandoned" true
     ["Bỏ"];
   Message false [Loc None "+2"]
     "%1/unconfirmed" true
     ["% 1/chưa được xác nhận"];
   Message false [Loc None "+2"]
     "%1 confirmations" true
     ["% 1 xác"];
   Message false [Loc None "+29"]
     "Status" true
     ["Tình trạng"];
   Message false [Loc None "+3"]
     "Date" true
     ["Ngày"];
   Message false [Loc None "+4"; Loc None "+223"]
     "Transaction ID" true
     ["ID giao dịch"];
   Message false [Loc None "-210"; Loc None "+211"]
     "Transaction total size" true
     ["Giao dịch tổng kích thước"];
   Message false [Loc None "-209"]
     "Confirmations" true
     ["Xác nhận"];
   Message false [Loc None "+4"]
     "Block hash" true
     ["Khối băm"];
   Message false [Loc None "+1"]
     "Block index" true
     ["Chỉ số khối"];
   Message false [Loc None "+1"]
     "Block time" true
     ["Thời gian chặn"];
   Message false [Loc None "+21"]
     "Source" true
     ["Nguồn"];
   Message false [Loc None "+0"]
     "Generated" true
     ["Tạo ra"];
   Message false [Loc None "+5"; Loc None "+14"; Loc None "+72"]
     "From" true
     ["Từ"];
   Message false [Loc None "-72"]
     "unknown" true
     ["Biết"];
   Message false [Loc None "+1"; Loc None "+20"; Loc None "+72"]
     "To" true
     ["Để"];
   Message false [Loc None "-90"]
     "own address" true
     ["địa chỉ của riêng"];
   Message false [Loc None "+0"; Loc None "+69"]
     "watch-only" true
     ["chỉ xem"];
   Message false [Loc None "-67"]
     "label" true
     ["Nhãn"];
   Message false [Loc None "+36"; Loc None "+12"; Loc None "+58"; Loc None "+37"; Loc None "+66"]
     "Credit" true
     ["Tín dụng"];
   Message true [Loc None "-171"]
     "matures in %n more block(s)" false
     [(Txt [])]].

Definition vi_TransactionDesc_2 : list message :=
  [Message false [Loc None "+2"]
     "not accepted" true
     ["không chấp nhận"];
   Message false [Loc None "+64"; Loc None "+26"; Loc None "+71"]
     "Debit" true
     ["Ghi nợ"];
   Message false [Loc None "-87"]
     "Total debit" true
     ["Tổng số ghi nợ"];
   Message false [Loc None "+1"]
     "Total credit" true
     ["Tổng số tín dụng"];
   Message false [Loc None "+5"]
     "Transaction fee" true
     ["Phí giao dịch"];
   Message false [Loc None "+27"]
     "Net amount" true
     ["Net lượng"];
   Message false [Loc None "+6"; Loc None "+12"]
     "Message" true
     ["Thư"];
   Message false [Loc None "-10"]
     "Comment" true
     ["Bình luận"];
   Message false [Loc None "+4"]
     "Transaction virtual size" true
     ["Giao dịch kích thước ảo"];
   Message false [Loc None "+1"]
     "Output index" true
     ["Chỉ mục đầu ra"];
   Message false [Loc None "+10"]
     "Narration" true
     ["Narration"];
   Message false [Loc None "+13"]
     "Merchant" true
     ["Merchant"];
   Message false [Loc None "+7"]
     "Generated coins must mature %1 blocks before they can be spent. When you generated this block, it was broadcast to the network to be added to the block chain. If it fails to get into the chain, its state will change to &quot;not accepted&quot; and it won&apos;t be spendable. This may occasionally happen if another node generates a block within a few seconds of yours." true
     ["Tiền xu tạo ra phải trưởng thành% 1 khối trước khi chúng có thể được chi tiêu. Khi bạn tạo ra khối này, nó đã được phát sóng vào mạng để được thêm vào chuỗi khối. Nếu nó không nhận được vào chuỗi, nhà nước của nó sẽ thay đổi để &quot;không chấp nhận&quot; và nó sẽ không được Spendable. Điều này đôi khi có thể xảy ra nếu một nút tạo ra một khối trong vòng một vài giây của bạn."];
   Message false [Loc None "+8"]
     "Debug information" true
     ["Thông tin gỡ lỗi"];
   Message false [Loc None "+13"]
     "Transaction" true
     ["Giao dịch"];
   Message false [Loc None "+3"]
     "Inputs" true
     ["Đầu vào"];
   Message false [Loc None "+21"]
     "Amount" true
     ["Lượng"];
   Message false [Loc None "+1"; Loc None "+1"]
     "true" true
     ["Đúng"];
   Message false [Loc None "-1"; Loc None "+1"]
     "false" true
     ["Sai"]].

Definition vi_TransactionDescDialog : list message :=
  [Message false [Loc (Some "../forms/transactiondescdialog.ui") "+26"]
     "This pane shows a detailed description of the transaction" true
     ["Ngăn này hiển thị mô tả chi tiết về giao dịch"];
   Message false [Loc (Some "../transactiondescdialog.cpp") "+17"]
     "Details for %1" true
     ["Chi tiết cho% 1"]].

Definition vi_TransactionTableModel_1 : list message :=
  [Message false [Loc (Some "../transactiontablemodel.cpp") "+257"]
     "Date" true
     ["Ngày"];
   Message false [Loc None "+2"]
     "Type" true
     ["Loại"];
   Message false [Loc None "+2"]
     "Label" true
     ["Nhãn"];
   Message false [Loc None "+3"]
     "In" true
     ["In"];
   Message false [Loc None "+0"]
     "Out" true
     ["Ra"];
   Message true [Loc None "+73"]
     "Open for %n more block(s)" false
     [(Txt [])];
   Message false [Loc None "+3"]
     "Open until %1" true
     ["Mở cửa đến% 1"];
   Message false [Loc None "+3"]
     "Unconfirmed" true
     ["Unconfirmed"];
   Message false [Loc None "+4"]
     "Orphaned" true
     ["Mồ côi"];
   Message false [Loc None "+2"]
     "Abandoned" true
     ["Bỏ"];
   Message false [Loc None "+22"]
     "Confirming (%1 of %2 recommended confirmations)" true
     ["Xác nhận (% 1 của% 2 giấy tờ được đề nghị)"];
   Message false [Loc None "+3"]
     "Confirmed (%1 confirmations)" true
     ["Khẳng định (% 1 xác nhận)"];
   Message false [Loc None "+3"]
     "Conflicted" true
     ["Mâu thuẫn"];
   Message false [Loc None "+3"]
     "Immature (%1 confirmations, will be available after %2)" true
     ["Chưa trưởng thành (% 1 xác xác, sẽ có sau% 2)"];
   Message false [Loc None "+3"]
     "Generated but not accepted" true
     ["Được tạo ra nhưng không được chấp nhận"];
   Message false [Loc None "+39"]
     "Received with" true
     ["Nhận với"];
   Message false [Loc None "+2"]
     "Received from" true
     ["Nhận từ"];
   Message false [Loc None "+3"]
     "Sent to" true
     ["Được gửi đến"];
   Message false [Loc None "+2"]
     "Payment to yourself" true
     ["Thanh toán cho chính mình"];
   Message false [Loc None "+2"]
     "Airdrop" true
     ["Airdrop"];
   Message false [Loc None "+2"]
     "Staked" true
     ["Staked"];
   Message false [Loc None "+30"]
     "watch-only" true
     ["chỉ xem"];
   Message false [Loc None "+16"]
     "(n/a)" true
     ["(n/a)"];
   Message false [Loc None "+168"]
     "Unlock to show" true
     ["Mở khóa để hiển thị"];
   Message false [Loc None "+111"]
     "(no label)" true
     ["(không có nhãn)"];
   Message false [Loc None "+42"; Loc None "+14"]
     "Transaction status. Hover over this field to show number of confirmations." true
     ["Trạng thái giao dịch. Di chuột qua trường này để hiển thị số xác nhận."];
   Message false [Loc None "-12"]
     "Date and time that the reward was received." true
     ["Ngày và thời gian mà phần thưởng đã được nhận."];
   Message false [Loc None "+2"; Loc None "+16"]
     "Whether or not a watch-only address is involved in this transaction." true
     ["Có hay không một địa chỉ xem có liên quan đến giao dịch này hay không."];
   Message false [Loc None "-14"]
     "Address used for the block solving" true
     ["Địa chỉ được sử dụng để giải quyết khối"]].

Definition vi_TransactionTableModel_2 : list message :=
  [Message false [Loc None "+2"]
     "Staking reward." true
     ["Staking phần thưởng."];
   Message false [Loc None "+8"]
     "Date and time that the transaction was received." true
     ["Ngày và giờ nhận được giao dịch."];
   Message false [Loc None "+2"]
     "Type of transaction." true
     ["Loại giao dịch."];
   Message false [Loc None "+4"]
     "User-defined intent/purpose of the transaction." true
     ["Ý định/mục đích của giao dịch."];
   Message false [Loc None "+2"]
     "Type of input coin." true
     ["Loại đồng xu đầu vào."];
   Message false [Loc None "+2"]
     "Type of output coin." true
     ["Loại tiền xu đầu ra."];
   Message false [Loc None "+2"]
     "Amount removed from or added to balance." true
     ["Số tiền được loại bỏ khỏi hoặc thêm vào cân bằng."]].

Definition vi_TransactionView_1 : list message :=
  [Message false [Loc (Some "../transactionview.cpp") "+53"; Loc None "+11"; Loc None "+18"]
     "All" true
     ["Tất cả"];
   Message false [Loc None "-17"]
     "Today" true
     ["Nay"];
   Message false [Loc None "+1"]
     "This week" true
     ["Tuần này"];
   Message false [Loc None "+1"]
     "This month" true
     ["Tháng này"];
   Message false [Loc None "+1"]
     "Last month" true
     ["Tháng cuối"];
   Message false [Loc None "+1"]
     "This year" true
     ["Năm nay"];
   Message false [Loc None "+1"]
     "Range..." true
     ["Phạm vi..."];
   Message false [Loc None "+13"]
     "Received with" true
     ["Nhận với"];
   Message false [Loc None "+2"]
     "Sent to" true
     ["Được gửi đến"];
   Message false [Loc None "+2"]
     "To yourself" true
     ["Để chính mình"];
   Message false [Loc None "+1"]
     "Other" true
     ["Khác"];
   Message false [Loc None "+1"]
     "Airdrop" true
     ["Airdrop"];
   Message false [Loc None "+5"]
     "Enter address, transaction id, or label to search" true
     ["Nhập địa chỉ, ID giao dịch hoặc nhãn để tìm kiếm"];
   Message false [Loc None "+5"]
     "Min amount" true
     ["Lượng tối thiểu"];
   Message false [Loc None "+52"]
     "Abandon transaction" true
     ["Từ bỏ giao dịch"];
   Message false [Loc None "+1"]
     "Increase transaction fee" true
     ["Tăng phí giao dịch"];
   Message false [Loc None "+2"]
     "Copy address" true
     ["Sao chép địa chỉ"];
   Message false [Loc None "+1"]
     "Copy label" true
     ["Sao nhãn"];
   Message false [Loc None "+1"]
     "Copy amount" true
     ["Sao chép lượng"];
   Message false [Loc None "+1"]
     "Copy transaction ID" true
     ["Sao chép ID giao dịch"];
   Message false [Loc None "+1"]
     "Copy raw transaction" true
     ["Sao chép giao dịch thô"];
   Message false [Loc None "+1"]
     "Copy full transaction details" true
     ["Sao chép đầy đủ chi tiết giao dịch"];
   Message false [Loc None "+1"]
     "Edit label" true
     ["Chỉnh sửa nhãn"];
   Message false [Loc None "+1"]
     "Show transaction details" true
     ["Hiển thị chi tiết giao dịch"];
   Message false [Loc None "+239"]
     "Export Transaction History" true
     ["Xuất lịch sử giao dịch"];
   Message false [Loc None "+1"]
     "Comma separated file (*.csv)" true
     ["Tệp phân tách bằng dấu phẩy (*. CSV)"];
   Message false [Loc None "+9"]
     "Confirmed" true
     ["Xác nhận"];
   Message false [Loc None "+2"]
     "Watch-only" true
     ["Chỉ xem"];
   Message false [Loc None "+1"]
     "Date" true
     ["Ngày"]].

Definition vi_TransactionView_2 : list message :=
  [Message false [Loc None "+2"]
     "Type" true
     ["Loại"];
   Message false [Loc None "+2"]
     "Label" true
     ["Nhãn"];
   Message false [Loc None "+1"]
     "Address" true
     ["Địa chỉ"];
   Message false [Loc None "+2"]
     "ID" true
     ["Id"];
   Message false [Loc None "+3"]
     "Exporting Failed" true
     ["Xuất khẩu thất bại"];
   Message false [Loc None "+0"]
     "There was an error trying to save the transaction history to %1." true
     ["Có lỗi khi cố gắng lưu lịch sử giao dịch vào% 1."];
   Message false [Loc None "+4"]
     "Exporting Successful" true
     ["Xuất khẩu thành công"];
   Message false [Loc None "+0"]
     "The transaction history was successfully saved to %1." true
     ["Lịch sử giao dịch đã được lưu thành công vào% 1."];
   Message false [Loc None "+169"]
     "Range:" true
     ["Phạm vi:"];
   Message false [Loc None "+8"]
     "to" true
     ["Để"]].

Definition vi_TxViewDelegate : list message :=
  [Message false [Loc (Some "../overviewpage.cpp") "+95"]
     "Unlock to show" true
     ["Mở khóa để hiển thị"]].

Definition vi_UnitDisplayStatusBarControl : list message :=
  [Message false [Loc (Some "../bitcoingui.cpp") "+122"]
     "Unit to show amounts in. Click to select another unit." true
     ["Đơn vị để hiển thị số tiền trong. Bấm để chọn một đơn vị khác."]].

Definition vi_WalletFrame : list message :=
  [Message false [Loc (Some "../walletframe.cpp") "+29"]
     "No wallet has been loaded." true
     ["Không có ví đã được nạp."]].

Definition vi_WalletModel : list message :=
  [Message false [Loc (Some "../walletmodel.cpp") "+592"; Loc None "+4"; Loc None "+11"]
     "Wallet Model" true
     ["Mẫu ví"];
   Message false [Loc None "+65"; Loc None "+39"; Loc None "+6"]
     "Fee bump error" true
     ["Lỗi bump phí"];
   Message false [Loc None "-45"]
     "Increasing transaction fee failed" true
     ["Tăng phí giao dịch không thành công"];
   Message false [Loc None "+6"]
     "Do you want to increase the fee?" true
     ["Bạn có muốn tăng lệ phí không?"];
   Message false [Loc None "+4"]
     "Current fee:" true
     ["Phí hiện tại:"];
   Message false [Loc None "+4"]
     "Increase:" true
     ["Tăng:"];
   Message false [Loc None "+4"]
     "New fee:" true
     ["Phí mới:"];
   Message false [Loc None "+4"]
     "Confirm fee bump" true
     ["Xác nhận phí bump"];
   Message false [Loc None "+17"]
     "Can&apos;t sign transaction." true
     ["Không thể ký giao dịch."];
   Message false [Loc None "+6"]
     "Could not commit transaction" true
     ["Không thể giao dịch"]].

Definition vi_WalletView : list message :=
  [Message false [Loc (Some "../walletview.cpp") "+46"; Loc None "+1"]
     "&amp;Export" true
     ["&amp; Xuất khẩu"];
   Message false [Loc None "+9"; Loc None "+29"]
     "Export the data in the current tab to a file" true
     ["Xuất dữ liệu trong tab hiện tại sang tệp"];
   Message false [Loc None "-19"]
     "Selected amount" true
     ["Một lượng đã chọn"];
   Message false [Loc None "+290"]
     "Backup Wallet" true
     ["Ví sao lưu"];
   Message false [Loc None "+1"]
     "Wallet Data (*.dat)" true
     ["Ví dữ liệu (*. dat)"];
   Message false [Loc None "+6"]
     "Backup Failed" true
     ["Sao lưu không thành công"];
   Message false [Loc None "+0"]
     "There was an error trying to save the wallet data to %1." true
     ["Có lỗi khi cố gắng lưu dữ liệu ví vào% 1."];
   Message false [Loc None "+4"]
     "Backup Successful" true
     ["Sao lưu thành công"];
   Message false [Loc None "+0"]
     "The wallet data was successfully saved to %1." true
     ["Dữ liệu ví đã được lưu thành công vào% 1."];
   Message false [Loc None "+63"]
     "Cancel" true
     ["Hủy bỏ"]].

Definition vi_bitcoin_core_1 : list message :=
  [Message false [Loc (Some "../bitcoinstrings.cpp") "+12"]
     "Bitcoin Confidential Core" true
     ["Bitcoin bảo mật cốt lõi"];
   Message false [Loc None "+1"]
     "The %s developers" true
     ["Các nhà phát triển% s"];
   Message false [Loc None "+1"]
     " is spendable from this wallet." true
     ["là Spendable từ ví này."];
   Message false [Loc None "+1"]
     "-maxtxfee is set very high! Fees this large could be paid on a single transaction." true
     ["-maxtxfee được thiết lập rất cao! Lệ phí lớn này có thể được thanh toán trên một giao dịch duy nhất."];
   Message false [Loc None "+3"]
     "Can&apos;t generate a change-address key. Private keys are disabled for this wallet." true
     ["Không thể tạo khóa thay đổi địa chỉ. Phím riêng bị vô hiệu hoá cho ví này."];
   Message false [Loc None "+3"]
     "Cannot obtain a lock on data directory %s. %s is probably already running." true
     ["Không thể lấy khóa vào thư mục dữ liệu% s.% s có thể đang chạy."];
   Message false [Loc None "+2"]
     "Cannot provide specific connections and have addrman find outgoing connections at the same." true
     ["Không thể cung cấp kết nối cụ thể và có addrman Tìm kết nối đi cùng."];
   Message false [Loc None "+3"]
     "Cannot upgrade a non HD split wallet without upgrading to support pre split keypool. Please use -upgradewallet=169900 or -upgradewallet with no version specified." true
     ["Không thể nâng cấp một ví HD tách không nâng cấp để hỗ trợ trước khi tách keypool. Vui lòng sử dụng-upgradewallet = 169900 hoặc-upgradewallet không có phiên bản nào được chỉ định."];
   Message false [Loc None "+4"]
     "Distributed under the MIT software license, see the accompanying file %s or %s" true
     ["Phân phối theo giấy phép phần mềm MIT, xem tệp đi kèm% s hoặc% s"];
   Message false [Loc None "+3"]
     "Error loading %s: You can&apos;t enable HD on an already existing non-HD wallet" true
     ["Lỗi tải% s: bạn không thể bật HD trên một ví không-HD đã tồn tại"];
   Message false [Loc None "+2"]
     "Error reading %s! All keys read correctly, but transaction data or address book entries might be missing or incorrect." true
     ["Lỗi đọc% s! Tất cả các phím đọc chính xác, nhưng dữ liệu giao dịch hoặc mục sổ địa chỉ có thể bị thiếu hoặc không chính xác."];
   Message false [Loc None "+3"]
     "Error: Listening for incoming connections failed (listen returned error %s)" true
     ["Lỗi: nghe các kết nối đến không thành công (nghe trả lại lỗi% s)"];
   Message false [Loc None "+2"]
     "Fee estimation failed. Fallbackfee is disabled. Wait a few blocks or enable -fallbackfee." true
     ["Ước tính phí không thành công. Fallbackfee bị vô hiệu hoá. Chờ một vài khối hoặc kích hoạt-fallbackfee."];
   Message false [Loc None "+3"]
     "Generate a random master key and main account if no master key exists. (default: %s)" true
     ["Tạo một khoá chủ ngẫu nhiên và tài khoản chính nếu không có khoá chính tồn tại. (mặc định:% s)"];
   Message false [Loc None "+3"]
     "Group outputs by address, selecting all or none, instead of selecting on a per-output basis. Privacy is improved as an address is only used once (unless someone sends to it after spending from it), but may result in slightly higher fees as suboptimal coin selection may result due to the added limitation (default: %u)" true
     ["Nhóm Kết quả theo địa chỉ, chọn tất cả hoặc không, thay vì chọn trên cơ sở mỗi đầu ra. Bảo mật được cải thiện như một địa chỉ chỉ được sử dụng một lần (trừ khi ai đó gửi đến nó sau khi chi tiêu từ nó), nhưng có thể dẫn đến lệ phí hơi cao hơn là lựa chọn xu tối ưu có thể dẫn đến do giới hạn thêm (mặc định:% u)"];
   Message false [Loc None "+6"]
     "Invalid amount for -maxtxfee=&lt;amount&gt;: &apos;%s&apos; (must be at least the minrelay fee of %s to prevent stuck transactions)" true
     ["Số tiền không hợp lệ-maxtxfee =&lt;amount&gt;: &apos;% s &apos; (phải có ít nhất là phí minrelay của% s để ngăn chặn các giao dịch bị kẹt)&lt;/amount&gt;"];
   Message false [Loc None "+3"]
     "Milliseconds between stake attempts. Lowering this param will not result in more stakes. (default: 500)" true
     ["Mili giây giữa cố gắng cổ phần. Giảm param này sẽ không dẫn đến nhiều cọc hơn. (mặc định: 500)"];
   Message false [Loc None "+3"]
     "Not enough spending outputs available in the blockchain for privacy mixing. There are currently %d. For this transaction required: %d" true
     ["Không đủ chi tiêu đầu ra có sẵn trong blockchain để trộn riêng tư. Hiện có% d. Đối với giao dịch này yêu cầu:% d"];
   Message false [Loc None "+3"]
     "Number of threads to start for staking, max 1 per active wallet, will divide wallets evenly between threads (default: 1)" true
     ["Số chủ đề để bắt đầu cho staking, tối đa 1 mỗi ví hoạt động, sẽ phân chia ví đồng đều giữa các chủ đề (mặc định: 1)"];
   Message false [Loc None "+3"]
     "On saving a key from the lookahead pool, save all unsaved keys leading up to it too. (default: %s)" true
     ["Trên tiết kiệm một phím từ Hồ bơi lookahead, lưu tất cả các phím chưa được lưu dẫn đến nó quá. (mặc định:% s)"];
   Message false [Loc None "+3"]
     "Please check that your computer&apos;s date and time are correct! If your clock is wrong, %s will not work properly." true
     ["Vui lòng kiểm tra xem ngày và giờ của máy tính của bạn có đúng không! Nếu đồng hồ của bạn là sai,% s sẽ không hoạt động đúng."];
   Message false [Loc None "+3"]
     "Please contribute if you find %s useful. Visit %s for further information about the software." true
     ["Hãy đóng góp nếu bạn tìm thấy% s hữu ích. Truy cập% s để biết thêm thông tin về phần mềm."];
   Message false [Loc None "+3"]
     "Prune configured below the minimum of %d MiB.  Please use a higher number." true
     ["Prune cấu hình dưới tối thiểu% d MiB.  Vui lòng sử dụng số cao hơn."];
   Message false [Loc None "+2"]
     "Prune: last wallet synchronisation goes beyond pruned data. You need to -reindex (download the whole blockchain again in case of pruned node)" true
     ["Prune: đồng bộ hóa ví cuối cùng đi xa hơn dữ liệu. Bạn cần phải reindex (tải về toàn bộ blockchain một lần nữa trong trường hợp nút bớt)"];
   Message false [Loc None "+3"]
     "Rescans are not possible in pruned mode. You will need to use -reindex which will download the whole blockchain again." true
     ["Rescans không thể ở chế độ bớt. Bạn sẽ cần phải sử dụng-reindex mà sẽ tải về toàn bộ blockchain một lần nữa."];
   Message false [Loc None "+3"]
     "The block database contains a block which appears to be from the future. This may be due to your computer&apos;s date and time being set incorrectly. Only rebuild the block database if you are sure that your computer&apos;s date and time are correct" true
     ["Cơ sở dữ liệu khối chứa một khối có vẻ là từ tương lai. Điều này có thể do máy tính của bạn ngày và giờ được đặt không đúng. Chỉ xây dựng lại cơ sở dữ liệu khối nếu bạn chắc chắn rằng máy tính của bạn ngày và giờ là chính xác"];
   Message false [Loc None "+5"]
     "The transaction amount is too small to send after the fee has been deducted" true
     ["Khoản giao dịch quá nhỏ để gửi sau khi khoản phí đã được khấu trừ"];
   Message false [Loc None "+2"]
     "This is a pre-release test build - use at your own risk - do not use for mining or merchant applications" true
     ["Đây là một thử nghiệm trước khi phát hành xây dựng-sử dụng có nguy cơ của riêng bạn-không sử dụng cho khai thác mỏ hoặc các ứng dụng thương gia"];
   Message false [Loc None "+3"]
     "This is the transaction fee you may discard if change is smaller than dust at this level" true
     ["Đây là phí giao dịch bạn có thể loại bỏ nếu thay đổi nhỏ hơn bụi ở cấp độ này"]].

Definition vi_bitcoin_core_2 : list message :=
  [Message false [Loc None "+3"]
     "This is the transaction fee you may pay when fee estimates are not available." true
     ["Đây là phí giao dịch mà bạn có thể thanh toán khi các ước tính phí không có sẵn."];
   Message false [Loc None "+2"]
     "This product includes software developed by the OpenSSL Project for use in the OpenSSL Toolkit %s and cryptographic software written by Eric Young and UPnP software written by Thomas Bernard." true
     ["Sản phẩm này bao gồm phần mềm được phát triển bởi dự án OpenSSL để sử dụng trong bộ công cụ OpenSSL% s và phần mềm mật mã được viết bởi Eric Young và phần mềm UPnP được viết bởi Thomas Bernard."];
   Message false [Loc None "+4"]
     "Total length of network version string (%i) exceeds maximum length (%i). Reduce the number or size of uacomments." true
     ["Tổng chiều dài của chuỗi Phiên bản mạng (% i) vượt quá độ dài tối đa (% i). Giảm số lượng hoặc kích thước của uacomments."];
   Message false [Loc None "+3"]
     "Unable to replay blocks. You will need to rebuild the database using -reindex-chainstate." true
     ["Không thể phát lại các khối. Bạn sẽ cần phải xây dựng lại cơ sở dữ liệu bằng cách sử dụng-reindex-chainstate."];
   Message false [Loc None "+3"]
     "Unable to rewind the database to a pre-fork state. You will need to redownload the blockchain" true
     ["Không thể tua lại cơ sở dữ liệu trạng thái trước-Fork. Bạn sẽ cần phải tải lại blockchain"];
   Message false [Loc None "+3"]
     "Unsupported argument -socks found. Setting SOCKS version isn&apos;t possible anymore, only SOCKS5 proxies are supported." true
     ["Đối số không được hỗ trợ-Socks tìm thấy. Cài đặt phiên bản SOCKS là không thể nữa, chỉ có SOCKS5 proxy được hỗ trợ."];
   Message false [Loc None "+3"]
     "Unsupported argument -whitelistalwaysrelay ignored, use -whitelistrelay and/or -whitelistforcerelay." true
     ["Đối số không hỗ trợ-whitelistalwaysrelay bỏ qua, sử dụng-whitelistrelay và/hoặc-whitelistforcerelay."];
   Message false [Loc None "+3"]
     "Warning: Private keys detected in wallet {%s} with disabled private keys" true
     ["Cảnh báo: các phím riêng đã phát hiện trong ví {% s} với các phím tắt riêng"];
   Message false [Loc None "+2"]
     "Warning: The network does not appear to fully agree! Some miners appear to be experiencing issues." true
     ["Cảnh báo: mạng không xuất hiện hoàn toàn đồng ý! Một số thợ mỏ dường như đang gặp vấn đề."];
   Message false [Loc None "+3"]
     "Warning: Unknown block versions being mined! It&apos;s possible unknown rules are in effect" true
     ["Cảnh báo: không biết phiên bản khối được khai thác! Có thể không rõ các quy tắc có hiệu lực"];
   Message false [Loc None "+3"]
     "Warning: Wallet file corrupt, data salvaged! Original %s saved as %s in %s; if your balance or transactions are incorrect you should restore from a backup." true
     ["Cảnh báo: tập tin Wallet bị hỏng, dữ liệu đã vớt! Bản gốc% s đã lưu dưới dạng% s trong% s; Nếu số dư hoặc giao dịch của bạn không chính xác, bạn nên khôi phục từ bản sao lưu."];
   Message false [Loc None "+4"]
     "Warning: We do not appear to fully agree with our peers! You may need to upgrade, or other nodes may need to upgrade." true
     ["Cảnh báo: chúng tôi không có vẻ hoàn toàn đồng ý với bạn bè của chúng tôi! Bạn có thể cần nâng cấp hoặc các nút khác có thể cần nâng cấp."];
   Message false [Loc None "+3"]
     "You need to rebuild the database using -reindex to change -timestampindex" true
     ["Bạn cần xây dựng lại cơ sở dữ liệu bằng cách sử dụng-reindex để thay đổi-dấu"];
   Message false [Loc None "+2"]
     "You need to rebuild the database using -reindex to go back to unpruned mode.  This will redownload the entire blockchain" true
     ["Bạn cần phải xây dựng lại cơ sở dữ liệu bằng cách sử dụng-reindex để trở lại chế độ không.  Điều này sẽ tải lại toàn bộ blockchain"];
   Message false [Loc None "+3"]
     "%d of last 100 blocks have unexpected version" true
     ["% d của 100 khối cuối cùng có phiên bản không mong muốn"];
   Message false [Loc None "+1"]
     "%s corrupt, salvage failed" true
     ["% s hỏng, cứu hộ thất bại"];
   Message false [Loc None "+1"]
     "%s is set very high!" true
     ["% s được thiết lập rất cao!"];
   Message false [Loc None "+1"]
     "-maxmempool must be at least %d MB" true
     ["-maxmempool phải có ít nhất% d MB"];
   Message false [Loc None "+1"]
     "Account chain not found" true
     ["Không tìm thấy chuỗi tài khoản"];
   Message false [Loc None "+1"]
     "Address &apos;%s&apos; is not in the address book." true
     ["Địa chỉ &apos;% s &apos; không có trong sổ địa chỉ."];
   Message false [Loc None "+1"]
     "Address &apos;%s&apos; is recorded in the address book." true
     ["Địa chỉ &apos;% s &apos; được ghi trong sổ địa chỉ."];
   Message false [Loc None "+1"]
     "Anon output not found in db, %d" true
     ["Anon đầu ra không tìm thấy trong DB,% d"];
   Message false [Loc None "+1"]
     "Anon pubkey not found in db, %s" true
     ["Anon pubkey không tìm thấy trong DB,% s"];
   Message false [Loc None "+1"]
     "Cannot downgrade wallet" true
     ["Không thể hạ cấp ví"];
   Message false [Loc None "+1"]
     "Cannot resolve -%s address: &apos;%s&apos;" true
     ["Không thể giải quyết-% s địa chỉ: &apos;% s &apos;"];
   Message false [Loc None "+1"]
     "Cannot write to data directory &apos;%s&apos;; check permissions." true
     ["Không thể ghi vào thư mục dữ liệu &apos;% s &apos;; kiểm tra quyền."];
   Message false [Loc None "+1"]
     "Change index out of range" true
     ["Thay đổi chỉ mục trong phạm vi"];
   Message false [Loc None "+1"]
     "Confidential chain set but not found" true
     ["Thiết lập chuỗi bảo mật nhưng không tìm thấy"];
   Message false [Loc None "+1"]
     "Copyright (C)" true
     ["Bản quyền (C)"];
   Message false [Loc None "+1"]
     "Corrupted block database detected" true
     ["Bị hỏng khối cơ sở dữ liệu phát hiện"]].

Definition vi_bitcoin_core_3 : list message :=
  [Message false [Loc None "+1"]
     "Could not convert prefix to number." true
     ["Không thể chuyển đổi tiền tố đến số."];
   Message false [Loc None "+1"]
     "Could not decode scan secret as wif, hex or base58." true
     ["Không thể giải mã bí mật quét như wif, Hex hoặc base58."];
   Message false [Loc None "+1"]
     "Could not decode spend secret as hex or base58." true
     ["Không thể giải mã bí mật chi tiêu như Hex hoặc base58."];
   Message false [Loc None "+1"]
     "Could not get confidential chain from account." true
     ["Không thể có được chuỗi bí mật từ tài khoản."];
   Message false [Loc None "+1"]
     "Could not get scan public key." true
     ["Không thể có được quét chìa khóa công cộng."];
   Message false [Loc None "+1"]
     "Could not get spend public key." true
     ["Không thể có được chi tiêu chìa khóa công cộng."];
   Message false [Loc None "+1"]
     "Default account not found" true
     ["Không tìm thấy tài khoản mặc định"];
   Message false [Loc None "+1"]
     "DeriveNextKey failed" true
     ["DeriveNextKey thất bại"];
   Message false [Loc None "+1"]
     "Do you want to rebuild the block database now?" true
     ["Bạn có muốn xây dựng lại cơ sở dữ liệu khối bây giờ không?"];
   Message false [Loc None "+1"]
     "Done loading" true
     ["Tải xong"];
   Message false [Loc None "+1"]
     "Duplicate index found, %d" true
     ["Chỉ mục trùng lặp được tìm thấy,% d"];
   Message false [Loc None "+1"]
     "Empty wallet required for import." true
     ["Ví trống cần thiết để nhập."];
   Message false [Loc None "+1"]
     "Ensure available balance remains above reservebalance. (default: 0)" true
     ["Đảm bảo cân bằng có sẵn vẫn còn ở trên reservebalance. (mặc định: 0)"];
   Message false [Loc None "+1"]
     "EraseSetting failed." true
     ["EraseSetting thất bại."];
   Message false [Loc None "+1"]
     "Error creating %s: You can&apos;t create non-HD wallets with this version." true
     ["Lỗi tạo% s: bạn không thể tạo ví không-HD với phiên bản này."];
   Message false [Loc None "+1"]
     "Error initializing block database" true
     ["Lỗi khởi tạo cơ sở dữ liệu khối"];
   Message false [Loc None "+1"]
     "Error initializing wallet database environment %s!" true
     ["Lỗi khởi tạo ví môi trường cơ sở dữ liệu% s!"];
   Message false [Loc None "+1"]
     "Error loading %s" true
     ["Lỗi tải% s"];
   Message false [Loc None "+1"]
     "Error loading %s: Private keys can only be disabled during creation" true
     ["Lỗi tải% s: khóa riêng chỉ có thể bị vô hiệu hoá trong quá trình tạo"];
   Message false [Loc None "+1"]
     "Error loading %s: Wallet corrupted" true
     ["Lỗi tải% s: ví bị hỏng"];
   Message false [Loc None "+1"]
     "Error loading %s: Wallet requires newer version of %s" true
     ["Lỗi tải% s: ví yêu cầu phiên bản mới hơn của% s"];
   Message false [Loc None "+1"]
     "Error loading %s: You can&apos;t disable HD on an already existing HD wallet" true
     ["Lỗi tải% s: bạn không thể vô hiệu hóa HD trên một ví HD đã tồn tại"];
   Message false [Loc None "+1"]
     "Error loading block database" true
     ["Lỗi nạp khối cơ sở dữ liệu"];
   Message false [Loc None "+1"]
     "Error loading wallet %s. Duplicate -wallet filename specified." true
     ["Lỗi nạp ví% s. tên tệp ví trùng lặp được chỉ định."];
   Message false [Loc None "+1"]
     "Error opening block database" true
     ["Lỗi mở khối cơ sở dữ liệu"];
   Message false [Loc None "+1"]
     "Error reading from database, shutting down." true
     ["Lỗi đọc từ cơ sở dữ liệu, tắt."];
   Message false [Loc None "+1"]
     "Error upgrading chainstate database" true
     ["Lỗi nâng cấp cơ sở dữ liệu chainstate"];
   Message false [Loc None "+1"]
     "Error" true
     ["Lỗi"];
   Message false [Loc None "+1"]
     "Error: A fatal internal error occurred, see debug.log for details" true
     ["Lỗi: lỗi nội bộ nghiêm trọng xảy ra, xem Debug. log để biết chi tiết"];
   Message false [Loc None "+1"]
     "Error: Disk space is low!" true
     ["Lỗi: không gian đĩa thấp!"]].

Definition vi_bitcoin_core_4 : list message :=
  [Message false [Loc None "+1"]
     "ExtKeyGetIndex failed." true
     ["ExtKeyGetIndex thất bại."];
   Message false [Loc None "+1"]
     "ExtKeySaveAccountToDB failed" true
     ["ExtKeySaveAccountToDB thất bại"];
   Message false [Loc None "+1"]
     "Failed to listen on any port. Use -listen=0 if you want this." true
     ["Thất bại khi nghe trên bất kỳ cổng. Sử dụng-Listen = 0 nếu bạn muốn điều này."];
   Message false [Loc None "+1"]
     "Failed to open dongle" true
     ["Không thể mở dongle"];
   Message false [Loc None "+1"]
     "Failed to rescan the wallet during initialization" true
     ["Không thể quét lại ví trong quá trình cài"];
   Message false [Loc None "+1"]
     "Hit nMaxTries limit, %d, %d" true
     ["Lượt nMaxTries giới hạn,% d,% d"];
   Message false [Loc None "+1"]
     "Import failed - AddKeyPubKey failed." true
     ["Nhập thất bại-AddKeyPubKey không thành công."];
   Message false [Loc None "+1"]
     "Import failed - stealth address exists." true
     ["Nhập thất bại-địa chỉ tàng hình tồn tại."];
   Message false [Loc None "+1"]
     "Importing..." true
     ["Nhập khẩu..."];
   Message false [Loc None "+1"]
     "Incorrect or no genesis block found. Wrong datadir for network?" true
     ["Không chính xác hoặc không có khối Genesis tìm thấy. Datadir sai cho mạng?"];
   Message false [Loc None "+1"]
     "Information" true
     ["Thông tin"];
   Message false [Loc None "+1"]
     "Initialization sanity check failed. %s is shutting down." true
     ["Khởi tạo sanity kiểm tra không thành công. % s đang tắt."];
   Message false [Loc None "+1"]
     "Insufficient funds" true
     ["Không đủ tiền"];
   Message false [Loc None "+1"]
     "Insufficient funds." true
     ["Không đủ tiền."];
   Message false [Loc None "+1"]
     "Invalid -onion address or hostname: &apos;%s&apos;" true
     ["Địa chỉ hành tây không hợp lệ hoặc tên máy chủ: &apos;% s &apos;"];
   Message false [Loc None "+1"]
     "Invalid -proxy address or hostname: &apos;%s&apos;" true
     ["Địa chỉ proxy không hợp lệ hoặc tên máy chủ: &apos;% s &apos;"];
   Message false [Loc None "+1"]
     "Invalid BitcoinC address." true
     ["Địa chỉ BitcoinC không hợp lệ."];
   Message false [Loc None "+1"]
     "Invalid amount for -%s=&lt;amount&gt;: &apos;%s&apos;" true
     ["Lượng không hợp lệ-% s =&lt;amount&gt;: &apos;% s &apos;&lt;/amount&gt;"];
   Message false [Loc None "+1"]
     "Invalid amount for -discardfee=&lt;amount&gt;: &apos;%s&apos;" true
     ["Lượng không hợp lệ cho-discardfee =&lt;amount&gt;: &apos;% s &apos;&lt;/amount&gt;"];
   Message false [Loc None "+1"]
     "Invalid amount for -fallbackfee=&lt;amount&gt;: &apos;%s&apos;" true
     ["Lượng không hợp lệ-fallbackfee =&lt;amount&gt;: &apos;% s &apos;&lt;/amount&gt;"];
   Message false [Loc None "+1"]
     "Invalid amount for -paytxfee=&lt;amount&gt;: &apos;%s&apos; (must be at least %s)" true
     ["Khoản tiền không hợp lệ-paytxfee =&lt;amount&gt;: &apos;% s &apos; (phải có ít nhất% s)&lt;/amount&gt;"];
   Message false [Loc None "+1"]
     "Invalid amount for -reservebalance=&lt;amount&gt;" true
     ["Số tiền không hợp lệ-reservebalance =&lt;amount&gt;&lt;/amount&gt;"];
   Message false [Loc None "+1"]
     "Invalid coldstakingaddress." true
     ["Không hợp lệ coldstakingaddress."];
   Message false [Loc None "+1"]
     "Invalid input key." true
     ["Phím nhập không hợp lệ."];
   Message false [Loc None "+1"]
     "Invalid key." true
     ["Khoá không hợp lệ."];
   Message false [Loc None "+1"]
     "Invalid netmask specified in -whitelist: &apos;%s&apos;" true
     ["Mặt nạ mạng không hợp lệ được chỉ định trong danh sách trắng: &apos;% s &apos;"];
   Message false [Loc None "+1"]
     "Invalid rewardaddress." true
     ["Không hợp lệ rewardaddress."];
   Message false [Loc None "+1"]
     "Keypool ran out, please call keypoolrefill first" true
     ["Keypool chạy ra ngoài, xin vui lòng gọi keypoolrefill đầu tiên"];
   Message false [Loc None "+1"]
     "Loading P2P addresses..." true
     ["Đang tải địa chỉ P2P..."]].

Definition vi_bitcoin_core_5 : list message :=
  [Message false [Loc None "+1"]
     "Loading address book for %s.
" true
     ["Đang nạp sổ địa chỉ cho% s."];
   Message false [Loc None "+1"]
     "Loading banlist..." true
     ["Đang tải Banlist..."];
   Message false [Loc None "+1"]
     "Loading block index..." true
     ["Đang tải chỉ số khối..."];
   Message false [Loc None "+1"]
     "Loading transaction records for %s.
" true
     ["Tải bản ghi giao dịch cho% s."];
   Message false [Loc None "+1"]
     "Loading wallet..." true
     ["Đang tải ví..."];
   Message false [Loc None "+1"]
     "Minimum time in seconds between successful stakes (default: 0)" true
     ["Thời gian tối thiểu trong vài giây giữa các cược thành công (mặc định: 0)"];
   Message false [Loc None "+1"]
     "Must be json object." true
     ["Phải là đối tượng JSON."];
   Message false [Loc None "+1"]
     "Must have account to save keys." true
     ["Phải có tài khoản để lưu các phím."];
   Message false [Loc None "+1"]
     "Must input a stealthaddress." true
     ["Phải nhập một stealthaddress."];
   Message false [Loc None "+1"]
     "Need a parameter to change." true
     ["Cần một tham số để thay đổi."];
   Message false [Loc None "+1"]
     "Need to specify a port with -whitebind: &apos;%s&apos;" true
     ["Cần chỉ định cổng có-whitebind: &apos;% s &apos;"];
   Message false [Loc None "+1"]
     "New state must be bool." true
     ["Mới nhà nước phải được bool."];
   Message false [Loc None "+1"]
     "NewExtKeyFromAccount failed, %s." true
     ["NewExtKeyFromAccount không thành công,% s."];
   Message false [Loc None "+1"]
     "NewExtKeyFromAccount failed." true
     ["NewExtKeyFromAccount không thành công."];
   Message false [Loc None "+1"]
     "NewStealthKeyV2FromAccount failed." true
     ["NewStealthKeyV2FromAccount thất bại."];
   Message false [Loc None "+1"]
     "No default account set." true
     ["Không có bộ tài khoản mặc định."];
   Message false [Loc None "+1"]
     "No key for anonoutput, %s" true
     ["Không có chìa khóa cho sản lượng Anon,% s"];
   Message false [Loc None "+1"]
     "Not anon output %s %d" true
     ["Không có đầu ra Anon% s% d"];
   Message false [Loc None "+1"]
     "Not enough file descriptors available." true
     ["Không đủ tệp mô tả sẵn có."];
   Message false [Loc None "+1"]
     "Num inputs per signature out of range" true
     ["Số đầu vào num trên mỗi chữ ký trong phạm vi"];
   Message false [Loc None "+1"]
     "Number of keys to load into the lookahead pool per chain. (default: %u)" true
     ["Số phím để tải vào hồ bơi lookahead mỗi chuỗi. (mặc định:% u)"];
   Message false [Loc None "+1"]
     "Only able to send to stealth address." true
     ["Chỉ có thể gửi đến địa chỉ ẩn."];
   Message false [Loc None "+1"]
     "OpIsCoinstake is not active yet." true
     ["OpIsCoinstake không hoạt động được nêu ra."];
   Message false [Loc None "+1"]
     "Output isn&apos;t standard." true
     ["Đầu ra không phải là tiêu chuẩn."];
   Message false [Loc None "+1"]
     "PrepareTransaction for device failed: %s" true
     ["PrepareTransaction cho thiết bị thất bại:% s"];
   Message false [Loc None "+1"]
     "ProduceSignature from device failed: %s" true
     ["ProduceSignature từ thiết bị thất bại:% s"];
   Message false [Loc None "+1"]
     "Prune cannot be configured with a negative value." true
     ["Prune không được cấu hình với giá trị âm."];
   Message false [Loc None "+1"]
     "Prune mode is incompatible with -txindex." true
     ["Chế độ prune không tương thích với-txindex."];
   Message false [Loc None "+1"]
     "Pruning blockstore..." true
     ["Cắt tỉa blockstore..."]].

Definition vi_bitcoin_core_6 : list message :=
  [Message false [Loc None "+1"]
     "ReadStoredTx failed for %s" true
     ["ReadStoredTx không thành công cho% s"];
   Message false [Loc None "+1"]
     "Reducing -maxconnections from %d to %d, because of system limitations." true
     ["Giảm-maxconnections từ% d đến% d, vì giới hạn hệ thống."];
   Message false [Loc None "+1"]
     "Replaying blocks..." true
     ["Replaying khối..."];
   Message false [Loc None "+1"]
     "Rescanning..." true
     ["Rescanning..."];
   Message false [Loc None "+1"]
     "Rewinding blocks..." true
     ["Tua lại khối..."];
   Message false [Loc None "+1"]
     "Ring size out of range [%d, %d]" true
     ["Kích thước vòng ngoài phạm vi [% d,% d]"];
   Message false [Loc None "+1"]
     "Ring size out of range" true
     ["Kích thước vòng ra khỏi phạm vi"];
   Message false [Loc None "+1"]
     "Scan secret is not 32 bytes." true
     ["Quét bí mật không phải là 32 byte."];
   Message false [Loc None "+1"]
     "SetSetting failed." true
     ["SetSetting thất bại."];
   Message false [Loc None "+1"]
     "Signing transaction failed" true
     ["Ký giao dịch không thành công"];
   Message false [Loc None "+1"]
     "Specified -walletdir &quot;%s&quot; does not exist" true
     ["Xác định-walletdir &quot;% s&quot; không tồn tại"];
   Message false [Loc None "+1"]
     "Specified -walletdir &quot;%s&quot; is a relative path" true
     ["Xác định-walletdir &quot;% s&quot; là một đường dẫn tương đối"];
   Message false [Loc None "+1"]
     "Specified -walletdir &quot;%s&quot; is not a directory" true
     ["Xác định-walletdir &quot;% s&quot; không phải là một thư mục"];
   Message false [Loc None "+1"]
     "Specified blocks directory &quot;%s&quot; does not exist." true
     ["Quy định khối thư mục &quot;% s&quot; không tồn tại."];
   Message false [Loc None "+1"]
     "Spend secret is not 32 bytes." true
     ["Chi tiêu bí mật không phải là 32 byte."];
   Message false [Loc None "+1"]
     "Spend secret must be different to scan secret." true
     ["Chi tiêu bí mật phải khác nhau để quét bí mật."];
   Message false [Loc None "+1"]
     "Stake your coins to support network and gain reward (default: true)" true
     ["Tiền xu của bạn để hỗ trợ mạng và đạt được phần thưởng (mặc định: True)"];
   Message false [Loc None "+1"]
     "Starting network threads..." true
     ["Bắt đầu từ chủ đề mạng..."];
   Message false [Loc None "+1"]
     "StealthSecret failed, try again." true
     ["StealthSecret thất bại, thử lại."];
   Message false [Loc None "+1"]
     "The source code is available from %s." true
     ["Mã nguồn có sẵn từ% s."];
   Message false [Loc None "+1"]
     "The transaction amount is too small to pay the fee" true
     ["Lượng giao dịch quá nhỏ để thanh toán phí"];
   Message false [Loc None "+1"]
     "The wallet will avoid paying less than the minimum relay fee." true
     ["Các ví sẽ tránh trả tiền ít hơn lệ phí Relay tối thiểu."];
   Message false [Loc None "+1"]
     "This is experimental software." true
     ["Đây là phần mềm thử nghiệm."];
   Message false [Loc None "+1"]
     "This is the minimum transaction fee you pay on every transaction." true
     ["Đây là phí giao dịch tối thiểu bạn phải trả trên mỗi giao dịch."];
   Message false [Loc None "+1"]
     "This is the transaction fee you will pay if you send a transaction." true
     ["Đây là phí giao dịch bạn sẽ trả nếu bạn gửi một giao dịch."];
   Message false [Loc None "+1"]
     "Transaction amount too small" true
     ["Lượng giao dịch quá nhỏ"];
   Message false [Loc None "+1"]
     "Transaction amounts must not be negative" true
     ["Số tiền giao dịch không phải là tiêu cực"];
   Message false [Loc None "+1"]
     "Transaction amounts must not be negative." true
     ["Số tiền giao dịch không phải là âm."];
   Message false [Loc None "+1"]
     "Transaction fee and change calculation failed" true
     ["Phí giao dịch và thay đổi tính toán không thành công"];
   Message false [Loc None "+1"]
     "Transaction fee and change calculation failed." true
     ["Phí giao dịch và thay đổi tính toán không thành công."]].

Definition vi_bitcoin_core_7 : list message :=
  [Message false [Loc None "+1"]
     "Transaction has too long of a mempool chain" true
     ["Giao dịch có quá dài của một chuỗi mempool"];
   Message false [Loc None "+1"]
     "Transaction must have at least one recipient" true
     ["Giao dịch phải có ít nhất một người nhận"];
   Message false [Loc None "+1"]
     "Transaction must have at least one recipient." true
     ["Giao dịch phải có ít nhất một người nhận."];
   Message false [Loc None "+1"]
     "Transaction too large for fee policy" true
     ["Giao dịch quá lớn đối với chính sách phí"];
   Message false [Loc None "+1"]
     "Transaction too large for fee policy." true
     ["Giao dịch quá lớn đối với chính sách phí."];
   Message false [Loc None "+1"]
     "Transaction too large" true
     ["Giao dịch quá lớn"];
   Message false [Loc None "+1"]
     "TxnBegin failed." true
     ["TxnBegin thất bại."];
   Message false [Loc None "+1"]
     "Unable to bind to %s on this computer (bind returned error %s)" true
     ["Không thể gắn vào% s trên máy tính này (ràng buộc trả về lỗi% s)"];
   Message false [Loc None "+1"]
     "Unable to bind to %s on this computer. %s is probably already running." true
     ["Không thể gắn vào% s trên máy tính này. % s có lẽ đã đang chạy."];
   Message false [Loc None "+1"]
     "Unable to generate initial keys" true
     ["Không thể tạo khoá ban đầu"];
   Message false [Loc None "+1"]
     "Unable to generate keys" true
     ["Không thể tạo khoá"];
   Message false [Loc None "+1"]
     "Unable to start HTTP server. See debug log for details." true
     ["Không thể khởi động máy chủ HTTP. Xem Nhật ký gỡ lỗi để biết chi tiết."];
   Message false [Loc None "+1"]
     "Unknown account." true
     ["Không biết tài khoản."];
   Message false [Loc None "+1"]
     "Unknown action, must be one of &apos;add/edit/del&apos;." true
     ["Hành động không xác định, phải là một trong &apos; thêm/chỉnh sửa/del &apos;."];
   Message false [Loc None "+1"]
     "Unknown argument for 256bithash: %s." true
     ["Đối số không xác định cho 256bithash:% s."];
   Message false [Loc None "+1"]
     "Unknown argument for add_to_addressbook: %s." true
     ["Đối số không xác định cho add_to_addressbook:% s."];
   Message false [Loc None "+1"]
     "Unknown chain." true
     ["Chuỗi không xác định."];
   Message false [Loc None "+1"]
     "Unknown input key version." true
     ["Không biết phiên bản chính đầu vào."];
   Message false [Loc None "+1"]
     "Unknown network specified in -onlynet: &apos;%s&apos;" true
     ["Không biết mạng được chỉ định trong-onlynet: &apos;% s &apos;"];
   Message false [Loc None "+1"]
     "Unknown setting" true
     ["Không biết cài đặt"];
   Message false [Loc None "+1"]
     "Unsupported argument -benchmark ignored, use -debug=bench." true
     ["Không hỗ trợ đối số-Benchmark bỏ qua, sử dụng-Debug = Bench."];
   Message false [Loc None "+1"]
     "Unsupported argument -debugnet ignored, use -debug=net." true
     ["Không hỗ trợ đối số-debugnet bỏ qua, sử dụng-Debug = net."];
   Message false [Loc None "+1"]
     "Unsupported argument -debugnet ignored, use -debug=smsg." true
     ["Không hỗ trợ đối số debugnet bỏ qua, sử dụng-Debug = SMSG."];
   Message false [Loc None "+1"]
     "Unsupported argument -tor found, use -onion." true
     ["Không được hỗ trợ đối số-Tor tìm thấy, sử dụng-Onion."];
   Message false [Loc None "+1"]
     "Unsupported logging category %s=%s." true
     ["Danh mục ghi nhật ký không hỗ trợ% s =% s."];
   Message false [Loc None "+1"]
     "Upgrading txindex database" true
     ["Nâng cấp cơ sở dữ liệu txindex"];
   Message false [Loc None "+1"]
     "User Agent comment (%s) contains unsafe characters." true
     ["Nhận xét của tác nhân người dùng (% s) chứa các ký tự không an toàn."];
   Message false [Loc None "+1"]
     "Verifying blocks..." true
     ["Xác minh các khối..."];
   Message false [Loc None "+1"]
     "Verifying wallet(s)..." true
     ["Xác minh ví (s)..."];
   Message false [Loc None "+1"]
     "Wallet %s resides outside wallet directory %s" true
     ["Wallet% s nằm ngoài thư mục ví% s"]].

Definition vi_bitcoin_core_8 : list message :=
  [Message false [Loc None "+1"]
     "Wallet has no active master key." true
     ["Wallet không có khóa chủ hoạt động."];
   Message false [Loc None "+1"]
     "Wallet must be unlocked." true
     ["Wallet phải được mở khóa."];
   Message false [Loc None "+1"]
     "Wallet must have a default account set." true
     ["Ví phải có bộ tài khoản mặc định."];
   Message false [Loc None "+1"]
     "Wallet needed to be rewritten: restart %s to complete" true
     ["Wallet cần phải được viết lại: khởi động lại% s để hoàn thành"];
   Message false [Loc None "+1"]
     "Warning" true
     ["Cảnh báo"];
   Message false [Loc None "+1"]
     "Warning: unknown new rules activated (versionbit %i)" true
     ["Cảnh báo: không xác định quy tắc mới kích hoạt (versionbit% i)"];
   Message false [Loc None "+1"]
     "You need to rebuild the database using -reindex to change -addressindex" true
     ["Bạn cần phải xây dựng lại cơ sở dữ liệu bằng cách sử dụng-reindex để thay đổi-addressindex"];
   Message false [Loc None "+1"]
     "You need to rebuild the database using -reindex to change -spentindex" true
     ["Bạn cần phải xây dựng lại cơ sở dữ liệu bằng cách sử dụng-reindex để thay đổi-spentindex"];
   Message false [Loc None "+1"]
     "Zapping all transactions from wallet..." true
     ["Zapping tất cả các giao dịch từ ví..."];
   Message false [Loc None "+1"]
     "accounts missing." true
     ["tài khoản bị thiếu."];
   Message false [Loc None "+1"]
     "accounts must be an array." true
     ["tài khoản phải là một mảng."];
   Message false [Loc None "+1"]
     "add_to_addressbook can&apos;t be set without save" true
     ["add_to_addressbook không thể được đặt mà không lưu"];
   Message false [Loc None "+1"]
     "address_standard must be a string." true
     ["address_standard phải là một chuỗi."];
   Message false [Loc None "+1"]
     "bad childNo." true
     ["xấu childNo."];
   Message false [Loc None "+1"]
     "bech32 encode failed." true
     ["mã hóa bech32 không thành công."];
   Message false [Loc None "+1"]
     "coldstakingaddress can&apos;t be a stealthaddress." true
     ["coldstakingaddress không thể là một stealthaddress."];
   Message false [Loc None "+1"]
     "coldstakingaddress must be a string." true
     ["coldstakingaddress phải là một chuỗi."];
   Message false [Loc None "+1"]
     "extkey must have private key to derive hardened keys." true
     ["extkey phải có chìa khóa riêng để lấy các phím cứng."];
   Message false [Loc None "+1"]
     "foundationdonationpercent must be a number." true
     ["foundationdonationpercent phải là một số."];
   Message false [Loc None "+1"]
     "height must be a number." true
     ["chiều cao phải là một số."];
   Message false [Loc None "+1"]
     "loose_extkeys missing." true
     ["loose_extkeys thiếu."];
   Message false [Loc None "+1"]
     "loose_extkeys must be an array." true
     ["loose_extkeys phải là một mảng."];
   Message false [Loc None "+1"]
     "num_derives to int failed." true
     ["num_derives để int không thành công."];
   Message false [Loc None "+1"]
     "num_derives_h to int failed." true
     ["num_derives_h để int không thành công."];
   Message false [Loc None "+1"]
     "num_prefix_bits invalid number." true
     ["num_prefix_bits số không hợp lệ."];
   Message false [Loc None "+1"]
     "num_prefix_bits must be &lt;= 32." true
     ["num_prefix_bits phải được&lt;= 32.&gt;&lt;/= 32.&gt;"];
   Message false [Loc None "+1"]
     "rewardaddress must be a string." true
     ["rewardaddress phải là một chuỗi."];
   Message false [Loc None "+1"]
     "secp256k1_generate_mlsag failed %d" true
     ["secp256k1_generate_mlsag thất bại% d"];
   Message false [Loc None "+1"]
     "secp256k1_get_keyimage failed %d" true
     ["secp256k1_get_keyimage thất bại% d"];
   Message false [Loc None "+1"]
     "secp256k1_prepare_mlsag failed %d" true
     ["secp256k1_prepare_mlsag thất bại% d"]].

Definition vi_bitcoin_core_9 : list message :=
  [Message false [Loc None "+1"]
     "stakecombinethreshold can&apos;t be negative." true
     ["các bên liên quan không thể âm."];
   Message false [Loc None "+1"]
     "stakesplitthreshold can&apos;t be negative." true
     ["stakesplitthreshold không thể âm."]].

(** The whole document. *)
Definition bitcoin_vi_VN : catalogue :=
  [Context "AddressBookPage" (vi_AddressBookPage_1 ++ vi_AddressBookPage_2);
   Context "AddressTableModel" (vi_AddressTableModel);
   Context "AskPassphraseDialog" (vi_AskPassphraseDialog_1 ++ vi_AskPassphraseDialog_2);
   Context "BanTableModel" (vi_BanTableModel);
   Context "BitcoinGUI" (vi_BitcoinGUI_1 ++ vi_BitcoinGUI_2 ++ vi_BitcoinGUI_3 ++ vi_BitcoinGUI_4);
   Context "CoinControlDialog" (vi_CoinControlDialog_1 ++ vi_CoinControlDialog_2);
   Context "EditAddressDialog" (vi_EditAddressDialog);
   Context "FreespaceChecker" (vi_FreespaceChecker);
   Context "HelpMessageDialog" (vi_HelpMessageDialog);
   Context "Intro" (vi_Intro);
   Context "MnemonicDialog" (vi_MnemonicDialog_1 ++ vi_MnemonicDialog_2);
   Context "ModalOverlay" (vi_ModalOverlay);
   Context "OpenURIDialog" (vi_OpenURIDialog);
   Context "OptionsDialog" (vi_OptionsDialog_1 ++ vi_OptionsDialog_2 ++ vi_OptionsDialog_3);
   Context "OverviewPage" (vi_OverviewPage);
   Context "PaymentServer" (vi_PaymentServer);
   Context "PeerTableModel" (vi_PeerTableModel);
   Context "QObject" (vi_QObject);
   Context "QObject::QObject" (vi_QObject__QObject);
   Context "QRImageWidget" (vi_QRImageWidget);
   Context "RPCConsole" (vi_RPCConsole_1 ++ vi_RPCConsole_2 ++ vi_RPCConsole_3);
   Context "ReceiveCoinsDialog" (vi_ReceiveCoinsDialog);
   Context "ReceiveRequestDialog" (vi_ReceiveRequestDialog);
   Context "RecentRequestsTableModel" (vi_RecentRequestsTableModel);
   Context "SendCoinsDialog" (vi_SendCoinsDialog_1 ++ vi_SendCoinsDialog_2 ++ vi_SendCoinsDialog_3);
   Context "SendCoinsEntry" (vi_SendCoinsEntry_1 ++ vi_SendCoinsEntry_2);
   Context "SendConfirmationDialog" (vi_SendConfirmationDialog);
   Context "ShutdownWindow" (vi_ShutdownWindow);
   Context "SignVerifyMessageDialog" (vi_SignVerifyMessageDialog_1 ++ vi_SignVerifyMessageDialog_2);
   Context "SplashScreen" (vi_SplashScreen);
   Context "StakingDialog" (vi_StakingDialog_1 ++ vi_StakingDialog_2);
   Context "TrafficGraphWidget" (vi_TrafficGraphWidget);
   Context "TransactionDesc" (vi_TransactionDesc_1 ++ vi_TransactionDesc_2);
   Context "TransactionDescDialog" (vi_TransactionDescDialog);
   Context "TransactionTableModel" (vi_TransactionTableModel_1 ++ vi_TransactionTableModel_2);
   Context "TransactionView" (vi_TransactionView_1 ++ vi_TransactionView_2);
   Context "TxViewDelegate" (vi_TxViewDelegate);
   Context "UnitDisplayStatusBarControl" (vi_UnitDisplayStatusBarControl);
   Context "WalletFrame" (vi_WalletFrame);
   Context "WalletModel" (vi_WalletModel);
   Context "WalletView" (vi_WalletView);
   Context "bitcoin-core" (vi_bitcoin_core_1 ++ vi_bitcoin_core_2 ++ vi_bitcoin_core_3 ++ vi_bitcoin_core_4 ++ vi_bitcoin_core_5 ++ vi_bitcoin_core_6 ++ vi_bitcoin_core_7 ++ vi_bitcoin_core_8 ++ vi_bitcoin_core_9)].
