(* ===== verification/Regional.v ===== *)
(** The catalogues of the regional variants of Spanish, French and Portuguese,
    [src/src/qt/locale/bitcoin_es_AR.ts] and so on.  From the second line on each
    is the document of its language, context by context; the first line only
    differs in the language code. *)
From S2P Require Import Prelude Locale CatalogueEs CatalogueFr CataloguePt.
Open Scope txt_scope.
Open Scope list_scope.

(** ** es_419 *)

Definition es_419_AddressBookPage_1 : list message := es_AddressBookPage_1.
Definition es_419_AddressBookPage_2 : list message := es_AddressBookPage_2.
Definition es_419_AddressTableModel : list message := es_AddressTableModel.
Definition es_419_AskPassphraseDialog_1 : list message := es_AskPassphraseDialog_1.
Definition es_419_AskPassphraseDialog_2 : list message := es_AskPassphraseDialog_2.
Definition es_419_BanTableModel : list message := es_BanTableModel.
Definition es_419_BitcoinGUI_1 : list message := es_BitcoinGUI_1.
Definition es_419_BitcoinGUI_2 : list message := es_BitcoinGUI_2.
Definition es_419_BitcoinGUI_3 : list message := es_BitcoinGUI_3.
Definition es_419_BitcoinGUI_4 : list message := es_BitcoinGUI_4.
Definition es_419_CoinControlDialog_1 : list message := es_CoinControlDialog_1.
Definition es_419_CoinControlDialog_2 : list message := es_CoinControlDialog_2.
Definition es_419_EditAddressDialog : list message := es_EditAddressDialog.
Definition es_419_FreespaceChecker : list message := es_FreespaceChecker.
Definition es_419_HelpMessageDialog : list message := es_HelpMessageDialog.
Definition es_419_Intro : list message := es_Intro.
Definition es_419_MnemonicDialog_1 : list message := es_MnemonicDialog_1.
Definition es_419_MnemonicDialog_2 : list message := es_MnemonicDialog_2.
Definition es_419_ModalOverlay : list message := es_ModalOverlay.
Definition es_419_OpenURIDialog : list message := es_OpenURIDialog.
Definition es_419_OptionsDialog_1 : list message := es_OptionsDialog_1.
Definition es_419_OptionsDialog_2 : list message := es_OptionsDialog_2.
Definition es_419_OptionsDialog_3 : list message := es_OptionsDialog_3.
Definition es_419_OverviewPage : list message := es_OverviewPage.
Definition es_419_PaymentServer : list message := es_PaymentServer.
Definition es_419_PeerTableModel : list message := es_PeerTableModel.
Definition es_419_QObject : list message := es_QObject.
Definition es_419_QObject__QObject : list message := es_QObject__QObject.
Definition es_419_QRImageWidget : list message := es_QRImageWidget.
Definition es_419_RPCConsole_1 : list message := es_RPCConsole_1.
Definition es_419_RPCConsole_2 : list message := es_RPCConsole_2.
Definition es_419_RPCConsole_3 : list message := es_RPCConsole_3.
Definition es_419_ReceiveCoinsDialog : list message := es_ReceiveCoinsDialog.
Definition es_419_ReceiveRequestDialog : list message := es_ReceiveRequestDialog.
Definition es_419_RecentRequestsTableModel : list message := es_RecentRequestsTableModel.
Definition es_419_SendCoinsDialog_1 : list message := es_SendCoinsDialog_1.
Definition es_419_SendCoinsDialog_2 : list message := es_SendCoinsDialog_2.
Definition es_419_SendCoinsDialog_3 : list message := es_SendCoinsDialog_3.
Definition es_419_SendCoinsEntry_1 : list message := es_SendCoinsEntry_1.
Definition es_419_SendCoinsEntry_2 : list message := es_SendCoinsEntry_2.
Definition es_419_SendConfirmationDialog : list message := es_SendConfirmationDialog.
Definition es_419_ShutdownWindow : list message := es_ShutdownWindow.
Definition es_419_SignVerifyMessageDialog_1 : list message := es_SignVerifyMessageDialog_1.
Definition es_419_SignVerifyMessageDialog_2 : list message := es_SignVerifyMessageDialog_2.
Definition es_419_SplashScreen : list message := es_SplashScreen.
Definition es_419_StakingDialog_1 : list message := es_StakingDialog_1.
Definition es_419_StakingDialog_2 : list message := es_StakingDialog_2.
Definition es_419_TrafficGraphWidget : list message := es_TrafficGraphWidget.
Definition es_419_TransactionDesc_1 : list message := es_TransactionDesc_1.
Definition es_419_TransactionDesc_2 : list message := es_TransactionDesc_2.
Definition es_419_TransactionDescDialog : list message := es_TransactionDescDialog.
Definition es_419_TransactionTableModel_1 : list message := es_TransactionTableModel_1.
Definition es_419_TransactionTableModel_2 : list message := es_TransactionTableModel_2.
Definition es_419_TransactionView_1 : list message := es_TransactionView_1.
Definition es_419_TransactionView_2 : list message := es_TransactionView_2.
Definition es_419_TxViewDelegate : list message := es_TxViewDelegate.
Definition es_419_UnitDisplayStatusBarControl : list message := es_UnitDisplayStatusBarControl.
Definition es_419_WalletFrame : list message := es_WalletFrame.
Definition es_419_WalletModel : list message := es_WalletModel.
Definition es_419_WalletView : list message := es_WalletView.
Definition es_419_bitcoin_core_1 : list message := es_bitcoin_core_1.
Definition es_419_bitcoin_core_2 : list message := es_bitcoin_core_2.
Definition es_419_bitcoin_core_3 : list message := es_bitcoin_core_3.
Definition es_419_bitcoin_core_4 : list message := es_bitcoin_core_4.
Definition es_419_bitcoin_core_5 : list message := es_bitcoin_core_5.
Definition es_419_bitcoin_core_6 : list message := es_bitcoin_core_6.
Definition es_419_bitcoin_core_7 : list message := es_bitcoin_core_7.
Definition es_419_bitcoin_core_8 : list message := es_bitcoin_core_8.
Definition es_419_bitcoin_core_9 : list message := es_bitcoin_core_9.

(** The whole document. *)
Definition bitcoin_es_419 : catalogue :=
  [Context "AddressBookPage" (es_419_AddressBookPage_1 ++ es_419_AddressBookPage_2);
   Context "AddressTableModel" (es_419_AddressTableModel);
   Context "AskPassphraseDialog" (es_419_AskPassphraseDialog_1 ++ es_419_AskPassphraseDialog_2);
   Context "BanTableModel" (es_419_BanTableModel);
   Context "BitcoinGUI" (es_419_BitcoinGUI_1 ++ es_419_BitcoinGUI_2 ++ es_419_BitcoinGUI_3 ++ es_419_BitcoinGUI_4);
   Context "CoinControlDialog" (es_419_CoinControlDialog_1 ++ es_419_CoinControlDialog_2);
   Context "EditAddressDialog" (es_419_EditAddressDialog);
   Context "FreespaceChecker" (es_419_FreespaceChecker);
   Context "HelpMessageDialog" (es_419_HelpMessageDialog);
   Context "Intro" (es_419_Intro);
   Context "MnemonicDialog" (es_419_MnemonicDialog_1 ++ es_419_MnemonicDialog_2);
   Context "ModalOverlay" (es_419_ModalOverlay);
   Context "OpenURIDialog" (es_419_OpenURIDialog);
   Context "OptionsDialog" (es_419_OptionsDialog_1 ++ es_419_OptionsDialog_2 ++ es_419_OptionsDialog_3);
   Context "OverviewPage" (es_419_OverviewPage);
   Context "PaymentServer" (es_419_PaymentServer);
   Context "PeerTableModel" (es_419_PeerTableModel);
   Context "QObject" (es_419_QObject);
   Context "QObject::QObject" (es_419_QObject__QObject);
   Context "QRImageWidget" (es_419_QRImageWidget);
   Context "RPCConsole" (es_419_RPCConsole_1 ++ es_419_RPCConsole_2 ++ es_419_RPCConsole_3);
   Context "ReceiveCoinsDialog" (es_419_ReceiveCoinsDialog);
   Context "ReceiveRequestDialog" (es_419_ReceiveRequestDialog);
   Context "RecentRequestsTableModel" (es_419_RecentRequestsTableModel);
   Context "SendCoinsDialog" (es_419_SendCoinsDialog_1 ++ es_419_SendCoinsDialog_2 ++ es_419_SendCoinsDialog_3);
   Context "SendCoinsEntry" (es_419_SendCoinsEntry_1 ++ es_419_SendCoinsEntry_2);
   Context "SendConfirmationDialog" (es_419_SendConfirmationDialog);
   Context "ShutdownWindow" (es_419_ShutdownWindow);
   Context "SignVerifyMessageDialog" (es_419_SignVerifyMessageDialog_1 ++ es_419_SignVerifyMessageDialog_2);
   Context "SplashScreen" (es_419_SplashScreen);
   Context "StakingDialog" (es_419_StakingDialog_1 ++ es_419_StakingDialog_2);
   Context "TrafficGraphWidget" (es_419_TrafficGraphWidget);
   Context "TransactionDesc" (es_419_TransactionDesc_1 ++ es_419_TransactionDesc_2);
   Context "TransactionDescDialog" (es_419_TransactionDescDialog);
   Context "TransactionTableModel" (es_419_TransactionTableModel_1 ++ es_419_TransactionTableModel_2);
   Context "TransactionView" (es_419_TransactionView_1 ++ es_419_TransactionView_2);
   Context "TxViewDelegate" (es_419_TxViewDelegate);
   Context "UnitDisplayStatusBarControl" (es_419_UnitDisplayStatusBarControl);
   Context "WalletFrame" (es_419_WalletFrame);
   Context "WalletModel" (es_419_WalletModel);
   Context "WalletView" (es_419_WalletView);
   Context "bitcoin-core" (es_419_bitcoin_core_1 ++ es_419_bitcoin_core_2 ++ es_419_bitcoin_core_3 ++ es_419_bitcoin_core_4 ++ es_419_bitcoin_core_5 ++ es_419_bitcoin_core_6 ++ es_419_bitcoin_core_7 ++ es_419_bitcoin_core_8 ++ es_419_bitcoin_core_9)].

(** ** es_AR *)

Definition es_AR_AddressBookPage_1 : list message := es_AddressBookPage_1.
Definition es_AR_AddressBookPage_2 : list message := es_AddressBookPage_2.
Definition es_AR_AddressTableModel : list message := es_AddressTableModel.
Definition es_AR_AskPassphraseDialog_1 : list message := es_AskPassphraseDialog_1.
Definition es_AR_AskPassphraseDialog_2 : list message := es_AskPassphraseDialog_2.
Definition es_AR_BanTableModel : list message := es_BanTableModel.
Definition es_AR_BitcoinGUI_1 : list message := es_BitcoinGUI_1.
Definition es_AR_BitcoinGUI_2 : list message := es_BitcoinGUI_2.
Definition es_AR_BitcoinGUI_3 : list message := es_BitcoinGUI_3.
Definition es_AR_BitcoinGUI_4 : list message := es_BitcoinGUI_4.
Definition es_AR_CoinControlDialog_1 : list message := es_CoinControlDialog_1.
Definition es_AR_CoinControlDialog_2 : list message := es_CoinControlDialog_2.
Definition es_AR_EditAddressDialog : list message := es_EditAddressDialog.
Definition es_AR_FreespaceChecker : list message := es_FreespaceChecker.
Definition es_AR_HelpMessageDialog : list message := es_HelpMessageDialog.
Definition es_AR_Intro : list message := es_Intro.
Definition es_AR_MnemonicDialog_1 : list message := es_MnemonicDialog_1.
Definition es_AR_MnemonicDialog_2 : list message := es_MnemonicDialog_2.
Definition es_AR_ModalOverlay : list message := es_ModalOverlay.
Definition es_AR_OpenURIDialog : list message := es_OpenURIDialog.
Definition es_AR_OptionsDialog_1 : list message := es_OptionsDialog_1.
Definition es_AR_OptionsDialog_2 : list message := es_OptionsDialog_2.
Definition es_AR_OptionsDialog_3 : list message := es_OptionsDialog_3.
Definition es_AR_OverviewPage : list message := es_OverviewPage.
Definition es_AR_PaymentServer : list message := es_PaymentServer.
Definition es_AR_PeerTableModel : list message := es_PeerTableModel.
Definition es_AR_QObject : list message := es_QObject.
Definition es_AR_QObject__QObject : list message := es_QObject__QObject.
Definition es_AR_QRImageWidget : list message := es_QRImageWidget.
Definition es_AR_RPCConsole_1 : list message := es_RPCConsole_1.
Definition es_AR_RPCConsole_2 : list message := es_RPCConsole_2.
Definition es_AR_RPCConsole_3 : list message := es_RPCConsole_3.
Definition es_AR_ReceiveCoinsDialog : list message := es_ReceiveCoinsDialog.
Definition es_AR_ReceiveRequestDialog : list message := es_ReceiveRequestDialog.
Definition es_AR_RecentRequestsTableModel : list message := es_RecentRequestsTableModel.
Definition es_AR_SendCoinsDialog_1 : list message := es_SendCoinsDialog_1.
Definition es_AR_SendCoinsDialog_2 : list message := es_SendCoinsDialog_2.
Definition es_AR_SendCoinsDialog_3 : list message := es_SendCoinsDialog_3.
Definition es_AR_SendCoinsEntry_1 : list message := es_SendCoinsEntry_1.
Definition es_AR_SendCoinsEntry_2 : list message := es_SendCoinsEntry_2.
Definition es_AR_SendConfirmationDialog : list message := es_SendConfirmationDialog.
Definition es_AR_ShutdownWindow : list message := es_ShutdownWindow.
Definition es_AR_SignVerifyMessageDialog_1 : list message := es_SignVerifyMessageDialog_1.
Definition es_AR_SignVerifyMessageDialog_2 : list message := es_SignVerifyMessageDialog_2.
Definition es_AR_SplashScreen : list message := es_SplashScreen.
Definition es_AR_StakingDialog_1 : list message := es_StakingDialog_1.
Definition es_AR_StakingDialog_2 : list message := es_StakingDialog_2.
Definition es_AR_TrafficGraphWidget : list message := es_TrafficGraphWidget.
Definition es_AR_TransactionDesc_1 : list message := es_TransactionDesc_1.
Definition es_AR_TransactionDesc_2 : list message := es_TransactionDesc_2.
Definition es_AR_TransactionDescDialog : list message := es_TransactionDescDialog.
Definition es_AR_TransactionTableModel_1 : list message := es_TransactionTableModel_1.
Definition es_AR_TransactionTableModel_2 : list message := es_TransactionTableModel_2.
Definition es_AR_TransactionView_1 : list message := es_TransactionView_1.
Definition es_AR_TransactionView_2 : list message := es_TransactionView_2.
Definition es_AR_TxViewDelegate : list message := es_TxViewDelegate.
Definition es_AR_UnitDisplayStatusBarControl : list message := es_UnitDisplayStatusBarControl.
Definition es_AR_WalletFrame : list message := es_WalletFrame.
Definition es_AR_WalletModel : list message := es_WalletModel.
Definition es_AR_WalletView : list message := es_WalletView.
Definition es_AR_bitcoin_core_1 : list message := es_bitcoin_core_1.
Definition es_AR_bitcoin_core_2 : list message := es_bitcoin_core_2.
Definition es_AR_bitcoin_core_3 : list message := es_bitcoin_core_3.
Definition es_AR_bitcoin_core_4 : list message := es_bitcoin_core_4.
Definition es_AR_bitcoin_core_5 : list message := es_bitcoin_core_5.
Definition es_AR_bitcoin_core_6 : list message := es_bitcoin_core_6.
Definition es_AR_bitcoin_core_7 : list message := es_bitcoin_core_7.
Definition es_AR_bitcoin_core_8 : list message := es_bitcoin_core_8.
Definition es_AR_bitcoin_core_9 : list message := es_bitcoin_core_9.

(** The whole document. *)
Definition bitcoin_es_AR : catalogue :=
  [Context "AddressBookPage" (es_AR_AddressBookPage_1 ++ es_AR_AddressBookPage_2);
   Context "AddressTableModel" (es_AR_AddressTableModel);
   Context "AskPassphraseDialog" (es_AR_AskPassphraseDialog_1 ++ es_AR_AskPassphraseDialog_2);
   Context "BanTableModel" (es_AR_BanTableModel);
   Context "BitcoinGUI" (es_AR_BitcoinGUI_1 ++ es_AR_BitcoinGUI_2 ++ es_AR_BitcoinGUI_3 ++ es_AR_BitcoinGUI_4);
   Context "CoinControlDialog" (es_AR_CoinControlDialog_1 ++ es_AR_CoinControlDialog_2);
   Context "EditAddressDialog" (es_AR_EditAddressDialog);
   Context "FreespaceChecker" (es_AR_FreespaceChecker);
   Context "HelpMessageDialog" (es_AR_HelpMessageDialog);
   Context "Intro" (es_AR_Intro);
   Context "MnemonicDialog" (es_AR_MnemonicDialog_1 ++ es_AR_MnemonicDialog_2);
   Context "ModalOverlay" (es_AR_ModalOverlay);
   Context "OpenURIDialog" (es_AR_OpenURIDialog);
   Context "OptionsDialog" (es_AR_OptionsDialog_1 ++ es_AR_OptionsDialog_2 ++ es_AR_OptionsDialog_3);
   Context "OverviewPage" (es_AR_OverviewPage);
   Context "PaymentServer" (es_AR_PaymentServer);
   Context "PeerTableModel" (es_AR_PeerTableModel);
   Context "QObject" (es_AR_QObject);
   Context "QObject::QObject" (es_AR_QObject__QObject);
   Context "QRImageWidget" (es_AR_QRImageWidget);
   Context "RPCConsole" (es_AR_RPCConsole_1 ++ es_AR_RPCConsole_2 ++ es_AR_RPCConsole_3);
   Context "ReceiveCoinsDialog" (es_AR_ReceiveCoinsDialog);
   Context "ReceiveRequestDialog" (es_AR_ReceiveRequestDialog);
   Context "RecentRequestsTableModel" (es_AR_RecentRequestsTableModel);
   Context "SendCoinsDialog" (es_AR_SendCoinsDialog_1 ++ es_AR_SendCoinsDialog_2 ++ es_AR_SendCoinsDialog_3);
   Context "SendCoinsEntry" (es_AR_SendCoinsEntry_1 ++ es_AR_SendCoinsEntry_2);
   Context "SendConfirmationDialog" (es_AR_SendConfirmationDialog);
   Context "ShutdownWindow" (es_AR_ShutdownWindow);
   Context "SignVerifyMessageDialog" (es_AR_SignVerifyMessageDialog_1 ++ es_AR_SignVerifyMessageDialog_2);
   Context "SplashScreen" (es_AR_SplashScreen);
   Context "StakingDialog" (es_AR_StakingDialog_1 ++ es_AR_StakingDialog_2);
   Context "TrafficGraphWidget" (es_AR_TrafficGraphWidget);
   Context "TransactionDesc" (es_AR_TransactionDesc_1 ++ es_AR_TransactionDesc_2);
   Context "TransactionDescDialog" (es_AR_TransactionDescDialog);
   Context "TransactionTableModel" (es_AR_TransactionTableModel_1 ++ es_AR_TransactionTableModel_2);
   Context "TransactionView" (es_AR_TransactionView_1 ++ es_AR_TransactionView_2);
   Context "TxViewDelegate" (es_AR_TxViewDelegate);
   Context "UnitDisplayStatusBarControl" (es_AR_UnitDisplayStatusBarControl);
   Context "WalletFrame" (es_AR_WalletFrame);
   Context "WalletModel" (es_AR_WalletModel);
   Context "WalletView" (es_AR_WalletView);
   Context "bitcoin-core" (es_AR_bitcoin_core_1 ++ es_AR_bitcoin_core_2 ++ es_AR_bitcoin_core_3 ++ es_AR_bitcoin_core_4 ++ es_AR_bitcoin_core_5 ++ es_AR_bitcoin_core_6 ++ es_AR_bitcoin_core_7 ++ es_AR_bitcoin_core_8 ++ es_AR_bitcoin_core_9)].

(** ** es_CL *)

Definition es_CL_AddressBookPage_1 : list message := es_AddressBookPage_1.
Definition es_CL_AddressBookPage_2 : list message := es_AddressBookPage_2.
Definition es_CL_AddressTableModel : list message := es_AddressTableModel.
Definition es_CL_AskPassphraseDialog_1 : list message := es_AskPassphraseDialog_1.
Definition es_CL_AskPassphraseDialog_2 : list message := es_AskPassphraseDialog_2.
Definition es_CL_BanTableModel : list message := es_BanTableModel.
Definition es_CL_BitcoinGUI_1 : list message := es_BitcoinGUI_1.
Definition es_CL_BitcoinGUI_2 : list message := es_BitcoinGUI_2.
Definition es_CL_BitcoinGUI_3 : list message := es_BitcoinGUI_3.
Definition es_CL_BitcoinGUI_4 : list message := es_BitcoinGUI_4.
Definition es_CL_CoinControlDialog_1 : list message := es_CoinControlDialog_1.
Definition es_CL_CoinControlDialog_2 : list message := es_CoinControlDialog_2.
Definition es_CL_EditAddressDialog : list message := es_EditAddressDialog.
Definition es_CL_FreespaceChecker : list message := es_FreespaceChecker.
Definition es_CL_HelpMessageDialog : list message := es_HelpMessageDialog.
Definition es_CL_Intro : list message := es_Intro.
Definition es_CL_MnemonicDialog_1 : list message := es_MnemonicDialog_1.
Definition es_CL_MnemonicDialog_2 : list message := es_MnemonicDialog_2.
Definition es_CL_ModalOverlay : list message := es_ModalOverlay.
Definition es_CL_OpenURIDialog : list message := es_OpenURIDialog.
Definition es_CL_OptionsDialog_1 : list message := es_OptionsDialog_1.
Definition es_CL_OptionsDialog_2 : list message := es_OptionsDialog_2.
Definition es_CL_OptionsDialog_3 : list message := es_OptionsDialog_3.
Definition es_CL_OverviewPage : list message := es_OverviewPage.
Definition es_CL_PaymentServer : list message := es_PaymentServer.
Definition es_CL_PeerTableModel : list message := es_PeerTableModel.
Definition es_CL_QObject : list message := es_QObject.
Definition es_CL_QObject__QObject : list message := es_QObject__QObject.
Definition es_CL_QRImageWidget : list message := es_QRImageWidget.
Definition es_CL_RPCConsole_1 : list message := es_RPCConsole_1.
Definition es_CL_RPCConsole_2 : list message := es_RPCConsole_2.
Definition es_CL_RPCConsole_3 : list message := es_RPCConsole_3.
Definition es_CL_ReceiveCoinsDialog : list message := es_ReceiveCoinsDialog.
Definition es_CL_ReceiveRequestDialog : list message := es_ReceiveRequestDialog.
Definition es_CL_RecentRequestsTableModel : list message := es_RecentRequestsTableModel.
Definition es_CL_SendCoinsDialog_1 : list message := es_SendCoinsDialog_1.
Definition es_CL_SendCoinsDialog_2 : list message := es_SendCoinsDialog_2.
Definition es_CL_SendCoinsDialog_3 : list message := es_SendCoinsDialog_3.
Definition es_CL_SendCoinsEntry_1 : list message := es_SendCoinsEntry_1.
Definition es_CL_SendCoinsEntry_2 : list message := es_SendCoinsEntry_2.
Definition es_CL_SendConfirmationDialog : list message := es_SendConfirmationDialog.
Definition es_CL_ShutdownWindow : list message := es_ShutdownWindow.
Definition es_CL_SignVerifyMessageDialog_1 : list message := es_SignVerifyMessageDialog_1.
Definition es_CL_SignVerifyMessageDialog_2 : list message := es_SignVerifyMessageDialog_2.
Definition es_CL_SplashScreen : list message := es_SplashScreen.
Definition es_CL_StakingDialog_1 : list message := es_StakingDialog_1.
Definition es_CL_StakingDialog_2 : list message := es_StakingDialog_2.
Definition es_CL_TrafficGraphWidget : list message := es_TrafficGraphWidget.
Definition es_CL_TransactionDesc_1 : list message := es_TransactionDesc_1.
Definition es_CL_TransactionDesc_2 : list message := es_TransactionDesc_2.
Definition es_CL_TransactionDescDialog : list message := es_TransactionDescDialog.
Definition es_CL_TransactionTableModel_1 : list message := es_TransactionTableModel_1.
Definition es_CL_TransactionTableModel_2 : list message := es_TransactionTableModel_2.
Definition es_CL_TransactionView_1 : list message := es_TransactionView_1.
Definition es_CL_TransactionView_2 : list message := es_TransactionView_2.
Definition es_CL_TxViewDelegate : list message := es_TxViewDelegate.
Definition es_CL_UnitDisplayStatusBarControl : list message := es_UnitDisplayStatusBarControl.
Definition es_CL_WalletFrame : list message := es_WalletFrame.
Definition es_CL_WalletModel : list message := es_WalletModel.
Definition es_CL_WalletView : list message := es_WalletView.
Definition es_CL_bitcoin_core_1 : list message := es_bitcoin_core_1.
Definition es_CL_bitcoin_core_2 : list message := es_bitcoin_core_2.
Definition es_CL_bitcoin_core_3 : list message := es_bitcoin_core_3.
Definition es_CL_bitcoin_core_4 : list message := es_bitcoin_core_4.
Definition es_CL_bitcoin_core_5 : list message := es_bitcoin_core_5.
Definition es_CL_bitcoin_core_6 : list message := es_bitcoin_core_6.
Definition es_CL_bitcoin_core_7 : list message := es_bitcoin_core_7.
Definition es_CL_bitcoin_core_8 : list message := es_bitcoin_core_8.
Definition es_CL_bitcoin_core_9 : list message := es_bitcoin_core_9.

(** The whole document. *)
Definition bitcoin_es_CL : catalogue :=
  [Context "AddressBookPage" (es_CL_AddressBookPage_1 ++ es_CL_AddressBookPage_2);
   Context "AddressTableModel" (es_CL_AddressTableModel);
   Context "AskPassphraseDialog" (es_CL_AskPassphraseDialog_1 ++ es_CL_AskPassphraseDialog_2);
   Context "BanTableModel" (es_CL_BanTableModel);
   Context "BitcoinGUI" (es_CL_BitcoinGUI_1 ++ es_CL_BitcoinGUI_2 ++ es_CL_BitcoinGUI_3 ++ es_CL_BitcoinGUI_4);
   Context "CoinControlDialog" (es_CL_CoinControlDialog_1 ++ es_CL_CoinControlDialog_2);
   Context "EditAddressDialog" (es_CL_EditAddressDialog);
   Context "FreespaceChecker" (es_CL_FreespaceChecker);
   Context "HelpMessageDialog" (es_CL_HelpMessageDialog);
   Context "Intro" (es_CL_Intro);
   Context "MnemonicDialog" (es_CL_MnemonicDialog_1 ++ es_CL_MnemonicDialog_2);
   Context "ModalOverlay" (es_CL_ModalOverlay);
   Context "OpenURIDialog" (es_CL_OpenURIDialog);
   Context "OptionsDialog" (es_CL_OptionsDialog_1 ++ es_CL_OptionsDialog_2 ++ es_CL_OptionsDialog_3);
   Context "OverviewPage" (es_CL_OverviewPage);
   Context "PaymentServer" (es_CL_PaymentServer);
   Context "PeerTableModel" (es_CL_PeerTableModel);
   Context "QObject" (es_CL_QObject);
   Context "QObject::QObject" (es_CL_QObject__QObject);
   Context "QRImageWidget" (es_CL_QRImageWidget);
   Context "RPCConsole" (es_CL_RPCConsole_1 ++ es_CL_RPCConsole_2 ++ es_CL_RPCConsole_3);
   Context "ReceiveCoinsDialog" (es_CL_ReceiveCoinsDialog);
   Context "ReceiveRequestDialog" (es_CL_ReceiveRequestDialog);
   Context "RecentRequestsTableModel" (es_CL_RecentRequestsTableModel);
   Context "SendCoinsDialog" (es_CL_SendCoinsDialog_1 ++ es_CL_SendCoinsDialog_2 ++ es_CL_SendCoinsDialog_3);
   Context "SendCoinsEntry" (es_CL_SendCoinsEntry_1 ++ es_CL_SendCoinsEntry_2);
   Context "SendConfirmationDialog" (es_CL_SendConfirmationDialog);
   Context "ShutdownWindow" (es_CL_ShutdownWindow);
   Context "SignVerifyMessageDialog" (es_CL_SignVerifyMessageDialog_1 ++ es_CL_SignVerifyMessageDialog_2);
   Context "SplashScreen" (es_CL_SplashScreen);
   Context "StakingDialog" (es_CL_StakingDialog_1 ++ es_CL_StakingDialog_2);
   Context "TrafficGraphWidget" (es_CL_TrafficGraphWidget);
   Context "TransactionDesc" (es_CL_TransactionDesc_1 ++ es_CL_TransactionDesc_2);
   Context "TransactionDescDialog" (es_CL_TransactionDescDialog);
   Context "TransactionTableModel" (es_CL_TransactionTableModel_1 ++ es_CL_TransactionTableModel_2);
   Context "TransactionView" (es_CL_TransactionView_1 ++ es_CL_TransactionView_2);
   Context "TxViewDelegate" (es_CL_TxViewDelegate);
   Context "UnitDisplayStatusBarControl" (es_CL_UnitDisplayStatusBarControl);
   Context "WalletFrame" (es_CL_WalletFrame);
   Context "WalletModel" (es_CL_WalletModel);
   Context "WalletView" (es_CL_WalletView);
   Context "bitcoin-core" (es_CL_bitcoin_core_1 ++ es_CL_bitcoin_core_2 ++ es_CL_bitcoin_core_3 ++ es_CL_bitcoin_core_4 ++ es_CL_bitcoin_core_5 ++ es_CL_bitcoin_core_6 ++ es_CL_bitcoin_core_7 ++ es_CL_bitcoin_core_8 ++ es_CL_bitcoin_core_9)].

(** ** es_CO *)

Definition es_CO_AddressBookPage_1 : list message := es_AddressBookPage_1.
Definition es_CO_AddressBookPage_2 : list message := es_AddressBookPage_2.
Definition es_CO_AddressTableModel : list message := es_AddressTableModel.
Definition es_CO_AskPassphraseDialog_1 : list message := es_AskPassphraseDialog_1.
Definition es_CO_AskPassphraseDialog_2 : list message := es_AskPassphraseDialog_2.
Definition es_CO_BanTableModel : list message := es_BanTableModel.
Definition es_CO_BitcoinGUI_1 : list message := es_BitcoinGUI_1.
Definition es_CO_BitcoinGUI_2 : list message := es_BitcoinGUI_2.
Definition es_CO_BitcoinGUI_3 : list message := es_BitcoinGUI_3.
Definition es_CO_BitcoinGUI_4 : list message := es_BitcoinGUI_4.
Definition es_CO_CoinControlDialog_1 : list message := es_CoinControlDialog_1.
Definition es_CO_CoinControlDialog_2 : list message := es_CoinControlDialog_2.
Definition es_CO_EditAddressDialog : list message := es_EditAddressDialog.
Definition es_CO_FreespaceChecker : list message := es_FreespaceChecker.
Definition es_CO_HelpMessageDialog : list message := es_HelpMessageDialog.
Definition es_CO_Intro : list message := es_Intro.
Definition es_CO_MnemonicDialog_1 : list message := es_MnemonicDialog_1.
Definition es_CO_MnemonicDialog_2 : list message := es_MnemonicDialog_2.
Definition es_CO_ModalOverlay : list message := es_ModalOverlay.
Definition es_CO_OpenURIDialog : list message := es_OpenURIDialog.
Definition es_CO_OptionsDialog_1 : list message := es_OptionsDialog_1.
Definition es_CO_OptionsDialog_2 : list message := es_OptionsDialog_2.
Definition es_CO_OptionsDialog_3 : list message := es_OptionsDialog_3.
Definition es_CO_OverviewPage : list message := es_OverviewPage.
Definition es_CO_PaymentServer : list message := es_PaymentServer.
Definition es_CO_PeerTableModel : list message := es_PeerTableModel.
Definition es_CO_QObject : list message := es_QObject.
Definition es_CO_QObject__QObject : list message := es_QObject__QObject.
Definition es_CO_QRImageWidget : list message := es_QRImageWidget.
Definition es_CO_RPCConsole_1 : list message := es_RPCConsole_1.
Definition es_CO_RPCConsole_2 : list message := es_RPCConsole_2.
Definition es_CO_RPCConsole_3 : list message := es_RPCConsole_3.
Definition es_CO_ReceiveCoinsDialog : list message := es_ReceiveCoinsDialog.
Definition es_CO_ReceiveRequestDialog : list message := es_ReceiveRequestDialog.
Definition es_CO_RecentRequestsTableModel : list message := es_RecentRequestsTableModel.
Definition es_CO_SendCoinsDialog_1 : list message := es_SendCoinsDialog_1.
Definition es_CO_SendCoinsDialog_2 : list message := es_SendCoinsDialog_2.
Definition es_CO_SendCoinsDialog_3 : list message := es_SendCoinsDialog_3.
Definition es_CO_SendCoinsEntry_1 : list message := es_SendCoinsEntry_1.
Definition es_CO_SendCoinsEntry_2 : list message := es_SendCoinsEntry_2.
Definition es_CO_SendConfirmationDialog : list message := es_SendConfirmationDialog.
Definition es_CO_ShutdownWindow : list message := es_ShutdownWindow.
Definition es_CO_SignVerifyMessageDialog_1 : list message := es_SignVerifyMessageDialog_1.
Definition es_CO_SignVerifyMessageDialog_2 : list message := es_SignVerifyMessageDialog_2.
Definition es_CO_SplashScreen : list message := es_SplashScreen.
Definition es_CO_StakingDialog_1 : list message := es_StakingDialog_1.
Definition es_CO_StakingDialog_2 : list message := es_StakingDialog_2.
Definition es_CO_TrafficGraphWidget : list message := es_TrafficGraphWidget.
Definition es_CO_TransactionDesc_1 : list message := es_TransactionDesc_1.
Definition es_CO_TransactionDesc_2 : list message := es_TransactionDesc_2.
Definition es_CO_TransactionDescDialog : list message := es_TransactionDescDialog.
Definition es_CO_TransactionTableModel_1 : list message := es_TransactionTableModel_1.
Definition es_CO_TransactionTableModel_2 : list message := es_TransactionTableModel_2.
Definition es_CO_TransactionView_1 : list message := es_TransactionView_1.
Definition es_CO_TransactionView_2 : list message := es_TransactionView_2.
Definition es_CO_TxViewDelegate : list message := es_TxViewDelegate.
Definition es_CO_UnitDisplayStatusBarControl : list message := es_UnitDisplayStatusBarControl.
Definition es_CO_WalletFrame : list message := es_WalletFrame.
Definition es_CO_WalletModel : list message := es_WalletModel.
Definition es_CO_WalletView : list message := es_WalletView.
Definition es_CO_bitcoin_core_1 : list message := es_bitcoin_core_1.
Definition es_CO_bitcoin_core_2 : list message := es_bitcoin_core_2.
Definition es_CO_bitcoin_core_3 : list message := es_bitcoin_core_3.
Definition es_CO_bitcoin_core_4 : list message := es_bitcoin_core_4.
Definition es_CO_bitcoin_core_5 : list message := es_bitcoin_core_5.
Definition es_CO_bitcoin_core_6 : list message := es_bitcoin_core_6.
Definition es_CO_bitcoin_core_7 : list message := es_bitcoin_core_7.
Definition es_CO_bitcoin_core_8 : list message := es_bitcoin_core_8.
Definition es_CO_bitcoin_core_9 : list message := es_bitcoin_core_9.

(** The whole document. *)
Definition bitcoin_es_CO : catalogue :=
  [Context "AddressBookPage" (es_CO_AddressBookPage_1 ++ es_CO_AddressBookPage_2);
   Context "AddressTableModel" (es_CO_AddressTableModel);
   Context "AskPassphraseDialog" (es_CO_AskPassphraseDialog_1 ++ es_CO_AskPassphraseDialog_2);
   Context "BanTableModel" (es_CO_BanTableModel);
   Context "BitcoinGUI" (es_CO_BitcoinGUI_1 ++ es_CO_BitcoinGUI_2 ++ es_CO_BitcoinGUI_3 ++ es_CO_BitcoinGUI_4);
   Context "CoinControlDialog" (es_CO_CoinControlDialog_1 ++ es_CO_CoinControlDialog_2);
   Context "EditAddressDialog" (es_CO_EditAddressDialog);
   Context "FreespaceChecker" (es_CO_FreespaceChecker);
   Context "HelpMessageDialog" (es_CO_HelpMessageDialog);
   Context "Intro" (es_CO_Intro);
   Context "MnemonicDialog" (es_CO_MnemonicDialog_1 ++ es_CO_MnemonicDialog_2);
   Context "ModalOverlay" (es_CO_ModalOverlay);
   Context "OpenURIDialog" (es_CO_OpenURIDialog);
   Context "OptionsDialog" (es_CO_OptionsDialog_1 ++ es_CO_OptionsDialog_2 ++ es_CO_OptionsDialog_3);
   Context "OverviewPage" (es_CO_OverviewPage);
   Context "PaymentServer" (es_CO_PaymentServer);
   Context "PeerTableModel" (es_CO_PeerTableModel);
   Context "QObject" (es_CO_QObject);
   Context "QObject::QObject" (es_CO_QObject__QObject);
   Context "QRImageWidget" (es_CO_QRImageWidget);
   Context "RPCConsole" (es_CO_RPCConsole_1 ++ es_CO_RPCConsole_2 ++ es_CO_RPCConsole_3);
   Context "ReceiveCoinsDialog" (es_CO_ReceiveCoinsDialog);
   Context "ReceiveRequestDialog" (es_CO_ReceiveRequestDialog);
   Context "RecentRequestsTableModel" (es_CO_RecentRequestsTableModel);
   Context "SendCoinsDialog" (es_CO_SendCoinsDialog_1 ++ es_CO_SendCoinsDialog_2 ++ es_CO_SendCoinsDialog_3);
   Context "SendCoinsEntry" (es_CO_SendCoinsEntry_1 ++ es_CO_SendCoinsEntry_2);
   Context "SendConfirmationDialog" (es_CO_SendConfirmationDialog);
   Context "ShutdownWindow" (es_CO_ShutdownWindow);
   Context "SignVerifyMessageDialog" (es_CO_SignVerifyMessageDialog_1 ++ es_CO_SignVerifyMessageDialog_2);
   Context "SplashScreen" (es_CO_SplashScreen);
   Context "StakingDialog" (es_CO_StakingDialog_1 ++ es_CO_StakingDialog_2);
   Context "TrafficGraphWidget" (es_CO_TrafficGraphWidget);
   Context "TransactionDesc" (es_CO_TransactionDesc_1 ++ es_CO_TransactionDesc_2);
   Context "TransactionDescDialog" (es_CO_TransactionDescDialog);
   Context "TransactionTableModel" (es_CO_TransactionTableModel_1 ++ es_CO_TransactionTableModel_2);
   Context "TransactionView" (es_CO_TransactionView_1 ++ es_CO_TransactionView_2);
   Context "TxViewDelegate" (es_CO_TxViewDelegate);
   Context "UnitDisplayStatusBarControl" (es_CO_UnitDisplayStatusBarControl);
   Context "WalletFrame" (es_CO_WalletFrame);
   Context "WalletModel" (es_CO_WalletModel);
   Context "WalletView" (es_CO_WalletView);
   Context "bitcoin-core" (es_CO_bitcoin_core_1 ++ es_CO_bitcoin_core_2 ++ es_CO_bitcoin_core_3 ++ es_CO_bitcoin_core_4 ++ es_CO_bitcoin_core_5 ++ es_CO_bitcoin_core_6 ++ es_CO_bitcoin_core_7 ++ es_CO_bitcoin_core_8 ++ es_CO_bitcoin_core_9)].

(** ** es_DO *)

Definition es_DO_AddressBookPage_1 : list message := es_AddressBookPage_1.
Definition es_DO_AddressBookPage_2 : list message := es_AddressBookPage_2.
Definition es_DO_AddressTableModel : list message := es_AddressTableModel.
Definition es_DO_AskPassphraseDialog_1 : list message := es_AskPassphraseDialog_1.
Definition es_DO_AskPassphraseDialog_2 : list message := es_AskPassphraseDialog_2.
Definition es_DO_BanTableModel : list message := es_BanTableModel.
Definition es_DO_BitcoinGUI_1 : list message := es_BitcoinGUI_1.
Definition es_DO_BitcoinGUI_2 : list message := es_BitcoinGUI_2.
Definition es_DO_BitcoinGUI_3 : list message := es_BitcoinGUI_3.
Definition es_DO_BitcoinGUI_4 : list message := es_BitcoinGUI_4.
Definition es_DO_CoinControlDialog_1 : list message := es_CoinControlDialog_1.
Definition es_DO_CoinControlDialog_2 : list message := es_CoinControlDialog_2.
Definition es_DO_EditAddressDialog : list message := es_EditAddressDialog.
Definition es_DO_FreespaceChecker : list message := es_FreespaceChecker.
Definition es_DO_HelpMessageDialog : list message := es_HelpMessageDialog.
Definition es_DO_Intro : list message := es_Intro.
Definition es_DO_MnemonicDialog_1 : list message := es_MnemonicDialog_1.
Definition es_DO_MnemonicDialog_2 : list message := es_MnemonicDialog_2.
Definition es_DO_ModalOverlay : list message := es_ModalOverlay.
Definition es_DO_OpenURIDialog : list message := es_OpenURIDialog.
Definition es_DO_OptionsDialog_1 : list message := es_OptionsDialog_1.
Definition es_DO_OptionsDialog_2 : list message := es_OptionsDialog_2.
Definition es_DO_OptionsDialog_3 : list message := es_OptionsDialog_3.
Definition es_DO_OverviewPage : list message := es_OverviewPage.
Definition es_DO_PaymentServer : list message := es_PaymentServer.
Definition es_DO_PeerTableModel : list message := es_PeerTableModel.
Definition es_DO_QObject : list message := es_QObject.
Definition es_DO_QObject__QObject : list message := es_QObject__QObject.
Definition es_DO_QRImageWidget : list message := es_QRImageWidget.
Definition es_DO_RPCConsole_1 : list message := es_RPCConsole_1.
Definition es_DO_RPCConsole_2 : list message := es_RPCConsole_2.
Definition es_DO_RPCConsole_3 : list message := es_RPCConsole_3.
Definition es_DO_ReceiveCoinsDialog : list message := es_ReceiveCoinsDialog.
Definition es_DO_ReceiveRequestDialog : list message := es_ReceiveRequestDialog.
Definition es_DO_RecentRequestsTableModel : list message := es_RecentRequestsTableModel.
Definition es_DO_SendCoinsDialog_1 : list message := es_SendCoinsDialog_1.
Definition es_DO_SendCoinsDialog_2 : list message := es_SendCoinsDialog_2.
Definition es_DO_SendCoinsDialog_3 : list message := es_SendCoinsDialog_3.
Definition es_DO_SendCoinsEntry_1 : list message := es_SendCoinsEntry_1.
Definition es_DO_SendCoinsEntry_2 : list message := es_SendCoinsEntry_2.
Definition es_DO_SendConfirmationDialog : list message := es_SendConfirmationDialog.
Definition es_DO_ShutdownWindow : list message := es_ShutdownWindow.
Definition es_DO_SignVerifyMessageDialog_1 : list message := es_SignVerifyMessageDialog_1.
Definition es_DO_SignVerifyMessageDialog_2 : list message := es_SignVerifyMessageDialog_2.
Definition es_DO_SplashScreen : list message := es_SplashScreen.
Definition es_DO_StakingDialog_1 : list message := es_StakingDialog_1.
Definition es_DO_StakingDialog_2 : list message := es_StakingDialog_2.
Definition es_DO_TrafficGraphWidget : list message := es_TrafficGraphWidget.
Definition es_DO_TransactionDesc_1 : list message := es_TransactionDesc_1.
Definition es_DO_TransactionDesc_2 : list message := es_TransactionDesc_2.
Definition es_DO_TransactionDescDialog : list message := es_TransactionDescDialog.
Definition es_DO_TransactionTableModel_1 : list message := es_TransactionTableModel_1.
Definition es_DO_TransactionTableModel_2 : list message := es_TransactionTableModel_2.
Definition es_DO_TransactionView_1 : list message := es_TransactionView_1.
Definition es_DO_TransactionView_2 : list message := es_TransactionView_2.
Definition es_DO_TxViewDelegate : list message := es_TxViewDelegate.
Definition es_DO_UnitDisplayStatusBarControl : list message := es_UnitDisplayStatusBarControl.
Definition es_DO_WalletFrame : list message := es_WalletFrame.
Definition es_DO_WalletModel : list message := es_WalletModel.
Definition es_DO_WalletView : list message := es_WalletView.
Definition es_DO_bitcoin_core_1 : list message := es_bitcoin_core_1.
Definition es_DO_bitcoin_core_2 : list message := es_bitcoin_core_2.
Definition es_DO_bitcoin_core_3 : list message := es_bitcoin_core_3.
Definition es_DO_bitcoin_core_4 : list message := es_bitcoin_core_4.
Definition es_DO_bitcoin_core_5 : list message := es_bitcoin_core_5.
Definition es_DO_bitcoin_core_6 : list message := es_bitcoin_core_6.
Definition es_DO_bitcoin_core_7 : list message := es_bitcoin_core_7.
Definition es_DO_bitcoin_core_8 : list message := es_bitcoin_core_8.
Definition es_DO_bitcoin_core_9 : list message := es_bitcoin_core_9.

(** The whole document. *)
Definition bitcoin_es_DO : catalogue :=
  [Context "AddressBookPage" (es_DO_AddressBookPage_1 ++ es_DO_AddressBookPage_2);
   Context "AddressTableModel" (es_DO_AddressTableModel);
   Context "AskPassphraseDialog" (es_DO_AskPassphraseDialog_1 ++ es_DO_AskPassphraseDialog_2);
   Context "BanTableModel" (es_DO_BanTableModel);
   Context "BitcoinGUI" (es_DO_BitcoinGUI_1 ++ es_DO_BitcoinGUI_2 ++ es_DO_BitcoinGUI_3 ++ es_DO_BitcoinGUI_4);
   Context "CoinControlDialog" (es_DO_CoinControlDialog_1 ++ es_DO_CoinControlDialog_2);
   Context "EditAddressDialog" (es_DO_EditAddressDialog);
   Context "FreespaceChecker" (es_DO_FreespaceChecker);
   Context "HelpMessageDialog" (es_DO_HelpMessageDialog);
   Context "Intro" (es_DO_Intro);
   Context "MnemonicDialog" (es_DO_MnemonicDialog_1 ++ es_DO_MnemonicDialog_2);
   Context "ModalOverlay" (es_DO_ModalOverlay);
   Context "OpenURIDialog" (es_DO_OpenURIDialog);
   Context "OptionsDialog" (es_DO_OptionsDialog_1 ++ es_DO_OptionsDialog_2 ++ es_DO_OptionsDialog_3);
   Context "OverviewPage" (es_DO_OverviewPage);
   Context "PaymentServer" (es_DO_PaymentServer);
   Context "PeerTableModel" (es_DO_PeerTableModel);
   Context "QObject" (es_DO_QObject);
   Context "QObject::QObject" (es_DO_QObject__QObject);
   Context "QRImageWidget" (es_DO_QRImageWidget);
   Context "RPCConsole" (es_DO_RPCConsole_1 ++ es_DO_RPCConsole_2 ++ es_DO_RPCConsole_3);
   Context "ReceiveCoinsDialog" (es_DO_ReceiveCoinsDialog);
   Context "ReceiveRequestDialog" (es_DO_ReceiveRequestDialog);
   Context "RecentRequestsTableModel" (es_DO_RecentRequestsTableModel);
   Context "SendCoinsDialog" (es_DO_SendCoinsDialog_1 ++ es_DO_SendCoinsDialog_2 ++ es_DO_SendCoinsDialog_3);
   Context "SendCoinsEntry" (es_DO_SendCoinsEntry_1 ++ es_DO_SendCoinsEntry_2);
   Context "SendConfirmationDialog" (es_DO_SendConfirmationDialog);
   Context "ShutdownWindow" (es_DO_ShutdownWindow);
   Context "SignVerifyMessageDialog" (es_DO_SignVerifyMessageDialog_1 ++ es_DO_SignVerifyMessageDialog_2);
   Context "SplashScreen" (es_DO_SplashScreen);
   Context "StakingDialog" (es_DO_StakingDialog_1 ++ es_DO_StakingDialog_2);
   Context "TrafficGraphWidget" (es_DO_TrafficGraphWidget);
   Context "TransactionDesc" (es_DO_TransactionDesc_1 ++ es_DO_TransactionDesc_2);
   Context "TransactionDescDialog" (es_DO_TransactionDescDialog);
   Context "TransactionTableModel" (es_DO_TransactionTableModel_1 ++ es_DO_TransactionTableModel_2);
   Context "TransactionView" (es_DO_TransactionView_1 ++ es_DO_TransactionView_2);
   Context "TxViewDelegate" (es_DO_TxViewDelegate);
   Context "UnitDisplayStatusBarControl" (es_DO_UnitDisplayStatusBarControl);
   Context "WalletFrame" (es_DO_WalletFrame);
   Context "WalletModel" (es_DO_WalletModel);
   Context "WalletView" (es_DO_WalletView);
   Context "bitcoin-core" (es_DO_bitcoin_core_1 ++ es_DO_bitcoin_core_2 ++ es_DO_bitcoin_core_3 ++ es_DO_bitcoin_core_4 ++ es_DO_bitcoin_core_5 ++ es_DO_bitcoin_core_6 ++ es_DO_bitcoin_core_7 ++ es_DO_bitcoin_core_8 ++ es_DO_bitcoin_core_9)].

(** ** es_MX *)

Definition es_MX_AddressBookPage_1 : list message := es_AddressBookPage_1.
Definition es_MX_AddressBookPage_2 : list message := es_AddressBookPage_2.
Definition es_MX_AddressTableModel : list message := es_AddressTableModel.
Definition es_MX_AskPassphraseDialog_1 : list message := es_AskPassphraseDialog_1.
Definition es_MX_AskPassphraseDialog_2 : list message := es_AskPassphraseDialog_2.
Definition es_MX_BanTableModel : list message := es_BanTableModel.
Definition es_MX_BitcoinGUI_1 : list message := es_BitcoinGUI_1.
Definition es_MX_BitcoinGUI_2 : list message := es_BitcoinGUI_2.
Definition es_MX_BitcoinGUI_3 : list message := es_BitcoinGUI_3.
Definition es_MX_BitcoinGUI_4 : list message := es_BitcoinGUI_4.
Definition es_MX_CoinControlDialog_1 : list message := es_CoinControlDialog_1.
Definition es_MX_CoinControlDialog_2 : list message := es_CoinControlDialog_2.
Definition es_MX_EditAddressDialog : list message := es_EditAddressDialog.
Definition es_MX_FreespaceChecker : list message := es_FreespaceChecker.
Definition es_MX_HelpMessageDialog : list message := es_HelpMessageDialog.
Definition es_MX_Intro : list message := es_Intro.
Definition es_MX_MnemonicDialog_1 : list message := es_MnemonicDialog_1.
Definition es_MX_MnemonicDialog_2 : list message := es_MnemonicDialog_2.
Definition es_MX_ModalOverlay : list message := es_ModalOverlay.
Definition es_MX_OpenURIDialog : list message := es_OpenURIDialog.
Definition es_MX_OptionsDialog_1 : list message := es_OptionsDialog_1.
Definition es_MX_OptionsDialog_2 : list message := es_OptionsDialog_2.
Definition es_MX_OptionsDialog_3 : list message := es_OptionsDialog_3.
Definition es_MX_OverviewPage : list message := es_OverviewPage.
Definition es_MX_PaymentServer : list message := es_PaymentServer.
Definition es_MX_PeerTableModel : list message := es_PeerTableModel.
Definition es_MX_QObject : list message := es_QObject.
Definition es_MX_QObject__QObject : list message := es_QObject__QObject.
Definition es_MX_QRImageWidget : list message := es_QRImageWidget.
Definition es_MX_RPCConsole_1 : list message := es_RPCConsole_1.
Definition es_MX_RPCConsole_2 : list message := es_RPCConsole_2.
Definition es_MX_RPCConsole_3 : list message := es_RPCConsole_3.
Definition es_MX_ReceiveCoinsDialog : list message := es_ReceiveCoinsDialog.
Definition es_MX_ReceiveRequestDialog : list message := es_ReceiveRequestDialog.
Definition es_MX_RecentRequestsTableModel : list message := es_RecentRequestsTableModel.
Definition es_MX_SendCoinsDialog_1 : list message := es_SendCoinsDialog_1.
Definition es_MX_SendCoinsDialog_2 : list message := es_SendCoinsDialog_2.
Definition es_MX_SendCoinsDialog_3 : list message := es_SendCoinsDialog_3.
Definition es_MX_SendCoinsEntry_1 : list message := es_SendCoinsEntry_1.
Definition es_MX_SendCoinsEntry_2 : list message := es_SendCoinsEntry_2.
Definition es_MX_SendConfirmationDialog : list message := es_SendConfirmationDialog.
Definition es_MX_ShutdownWindow : list message := es_ShutdownWindow.
Definition es_MX_SignVerifyMessageDialog_1 : list message := es_SignVerifyMessageDialog_1.
Definition es_MX_SignVerifyMessageDialog_2 : list message := es_SignVerifyMessageDialog_2.
Definition es_MX_SplashScreen : list message := es_SplashScreen.
Definition es_MX_StakingDialog_1 : list message := es_StakingDialog_1.
Definition es_MX_StakingDialog_2 : list message := es_StakingDialog_2.
Definition es_MX_TrafficGraphWidget : list message := es_TrafficGraphWidget.
Definition es_MX_TransactionDesc_1 : list message := es_TransactionDesc_1.
Definition es_MX_TransactionDesc_2 : list message := es_TransactionDesc_2.
Definition es_MX_TransactionDescDialog : list message := es_TransactionDescDialog.
Definition es_MX_TransactionTableModel_1 : list message := es_TransactionTableModel_1.
Definition es_MX_TransactionTableModel_2 : list message := es_TransactionTableModel_2.
Definition es_MX_TransactionView_1 : list message := es_TransactionView_1.
Definition es_MX_TransactionView_2 : list message := es_TransactionView_2.
Definition es_MX_TxViewDelegate : list message := es_TxViewDelegate.
Definition es_MX_UnitDisplayStatusBarControl : list message := es_UnitDisplayStatusBarControl.
Definition es_MX_WalletFrame : list message := es_WalletFrame.
Definition es_MX_WalletModel : list message := es_WalletModel.
Definition es_MX_WalletView : list message := es_WalletView.
Definition es_MX_bitcoin_core_1 : list message := es_bitcoin_core_1.
Definition es_MX_bitcoin_core_2 : list message := es_bitcoin_core_2.
Definition es_MX_bitcoin_core_3 : list message := es_bitcoin_core_3.
Definition es_MX_bitcoin_core_4 : list message := es_bitcoin_core_4.
Definition es_MX_bitcoin_core_5 : list message := es_bitcoin_core_5.
Definition es_MX_bitcoin_core_6 : list message := es_bitcoin_core_6.
Definition es_MX_bitcoin_core_7 : list message := es_bitcoin_core_7.
Definition es_MX_bitcoin_core_8 : list message := es_bitcoin_core_8.
Definition es_MX_bitcoin_core_9 : list message := es_bitcoin_core_9.

(** The whole document. *)
Definition bitcoin_es_MX : catalogue :=
  [Context "AddressBookPage" (es_MX_AddressBookPage_1 ++ es_MX_AddressBookPage_2);
   Context "AddressTableModel" (es_MX_AddressTableModel);
   Context "AskPassphraseDialog" (es_MX_AskPassphraseDialog_1 ++ es_MX_AskPassphraseDialog_2);
   Context "BanTableModel" (es_MX_BanTableModel);
   Context "BitcoinGUI" (es_MX_BitcoinGUI_1 ++ es_MX_BitcoinGUI_2 ++ es_MX_BitcoinGUI_3 ++ es_MX_BitcoinGUI_4);
   Context "CoinControlDialog" (es_MX_CoinControlDialog_1 ++ es_MX_CoinControlDialog_2);
   Context "EditAddressDialog" (es_MX_EditAddressDialog);
   Context "FreespaceChecker" (es_MX_FreespaceChecker);
   Context "HelpMessageDialog" (es_MX_HelpMessageDialog);
   Context "Intro" (es_MX_Intro);
   Context "MnemonicDialog" (es_MX_MnemonicDialog_1 ++ es_MX_MnemonicDialog_2);
   Context "ModalOverlay" (es_MX_ModalOverlay);
   Context "OpenURIDialog" (es_MX_OpenURIDialog);
   Context "OptionsDialog" (es_MX_OptionsDialog_1 ++ es_MX_OptionsDialog_2 ++ es_MX_OptionsDialog_3);
   Context "OverviewPage" (es_MX_OverviewPage);
   Context "PaymentServer" (es_MX_PaymentServer);
   Context "PeerTableModel" (es_MX_PeerTableModel);
   Context "QObject" (es_MX_QObject);
   Context "QObject::QObject" (es_MX_QObject__QObject);
   Context "QRImageWidget" (es_MX_QRImageWidget);
   Context "RPCConsole" (es_MX_RPCConsole_1 ++ es_MX_RPCConsole_2 ++ es_MX_RPCConsole_3);
   Context "ReceiveCoinsDialog" (es_MX_ReceiveCoinsDialog);
   Context "ReceiveRequestDialog" (es_MX_ReceiveRequestDialog);
   Context "RecentRequestsTableModel" (es_MX_RecentRequestsTableModel);
   Context "SendCoinsDialog" (es_MX_SendCoinsDialog_1 ++ es_MX_SendCoinsDialog_2 ++ es_MX_SendCoinsDialog_3);
   Context "SendCoinsEntry" (es_MX_SendCoinsEntry_1 ++ es_MX_SendCoinsEntry_2);
   Context "SendConfirmationDialog" (es_MX_SendConfirmationDialog);
   Context "ShutdownWindow" (es_MX_ShutdownWindow);
   Context "SignVerifyMessageDialog" (es_MX_SignVerifyMessageDialog_1 ++ es_MX_SignVerifyMessageDialog_2);
   Context "SplashScreen" (es_MX_SplashScreen);
   Context "StakingDialog" (es_MX_StakingDialog_1 ++ es_MX_StakingDialog_2);
   Context "TrafficGraphWidget" (es_MX_TrafficGraphWidget);
   Context "TransactionDesc" (es_MX_TransactionDesc_1 ++ es_MX_TransactionDesc_2);
   Context "TransactionDescDialog" (es_MX_TransactionDescDialog);
   Context "TransactionTableModel" (es_MX_TransactionTableModel_1 ++ es_MX_TransactionTableModel_2);
   Context "TransactionView" (es_MX_TransactionView_1 ++ es_MX_TransactionView_2);
   Context "TxViewDelegate" (es_MX_TxViewDelegate);
   Context "UnitDisplayStatusBarControl" (es_MX_UnitDisplayStatusBarControl);
   Context "WalletFrame" (es_MX_WalletFrame);
   Context "WalletModel" (es_MX_WalletModel);
   Context "WalletView" (es_MX_WalletView);
   Context "bitcoin-core" (es_MX_bitcoin_core_1 ++ es_MX_bitcoin_core_2 ++ es_MX_bitcoin_core_3 ++ es_MX_bitcoin_core_4 ++ es_MX_bitcoin_core_5 ++ es_MX_bitcoin_core_6 ++ es_MX_bitcoin_core_7 ++ es_MX_bitcoin_core_8 ++ es_MX_bitcoin_core_9)].

(** ** es_UY *)

Definition es_UY_AddressBookPage_1 : list message := es_AddressBookPage_1.
Definition es_UY_AddressBookPage_2 : list message := es_AddressBookPage_2.
Definition es_UY_AddressTableModel : list message := es_AddressTableModel.
Definition es_UY_AskPassphraseDialog_1 : list message := es_AskPassphraseDialog_1.
Definition es_UY_AskPassphraseDialog_2 : list message := es_AskPassphraseDialog_2.
Definition es_UY_BanTableModel : list message := es_BanTableModel.
Definition es_UY_BitcoinGUI_1 : list message := es_BitcoinGUI_1.
Definition es_UY_BitcoinGUI_2 : list message := es_BitcoinGUI_2.
Definition es_UY_BitcoinGUI_3 : list message := es_BitcoinGUI_3.
Definition es_UY_BitcoinGUI_4 : list message := es_BitcoinGUI_4.
Definition es_UY_CoinControlDialog_1 : list message := es_CoinControlDialog_1.
Definition es_UY_CoinControlDialog_2 : list message := es_CoinControlDialog_2.
Definition es_UY_EditAddressDialog : list message := es_EditAddressDialog.
Definition es_UY_FreespaceChecker : list message := es_FreespaceChecker.
Definition es_UY_HelpMessageDialog : list message := es_HelpMessageDialog.
Definition es_UY_Intro : list message := es_Intro.
Definition es_UY_MnemonicDialog_1 : list message := es_MnemonicDialog_1.
Definition es_UY_MnemonicDialog_2 : list message := es_MnemonicDialog_2.
Definition es_UY_ModalOverlay : list message := es_ModalOverlay.
Definition es_UY_OpenURIDialog : list message := es_OpenURIDialog.
Definition es_UY_OptionsDialog_1 : list message := es_OptionsDialog_1.
Definition es_UY_OptionsDialog_2 : list message := es_OptionsDialog_2.
Definition es_UY_OptionsDialog_3 : list message := es_OptionsDialog_3.
Definition es_UY_OverviewPage : list message := es_OverviewPage.
Definition es_UY_PaymentServer : list message := es_PaymentServer.
Definition es_UY_PeerTableModel : list message := es_PeerTableModel.
Definition es_UY_QObject : list message := es_QObject.
Definition es_UY_QObject__QObject : list message := es_QObject__QObject.
Definition es_UY_QRImageWidget : list message := es_QRImageWidget.
Definition es_UY_RPCConsole_1 : list message := es_RPCConsole_1.
Definition es_UY_RPCConsole_2 : list message := es_RPCConsole_2.
Definition es_UY_RPCConsole_3 : list message := es_RPCConsole_3.
Definition es_UY_ReceiveCoinsDialog : list message := es_ReceiveCoinsDialog.
Definition es_UY_ReceiveRequestDialog : list message := es_ReceiveRequestDialog.
Definition es_UY_RecentRequestsTableModel : list message := es_RecentRequestsTableModel.
Definition es_UY_SendCoinsDialog_1 : list message := es_SendCoinsDialog_1.
Definition es_UY_SendCoinsDialog_2 : list message := es_SendCoinsDialog_2.
Definition es_UY_SendCoinsDialog_3 : list message := es_SendCoinsDialog_3.
Definition es_UY_SendCoinsEntry_1 : list message := es_SendCoinsEntry_1.
Definition es_UY_SendCoinsEntry_2 : list message := es_SendCoinsEntry_2.
Definition es_UY_SendConfirmationDialog : list message := es_SendConfirmationDialog.
Definition es_UY_ShutdownWindow : list message := es_ShutdownWindow.
Definition es_UY_SignVerifyMessageDialog_1 : list message := es_SignVerifyMessageDialog_1.
Definition es_UY_SignVerifyMessageDialog_2 : list message := es_SignVerifyMessageDialog_2.
Definition es_UY_SplashScreen : list message := es_SplashScreen.
Definition es_UY_StakingDialog_1 : list message := es_StakingDialog_1.
Definition es_UY_StakingDialog_2 : list message := es_StakingDialog_2.
Definition es_UY_TrafficGraphWidget : list message := es_TrafficGraphWidget.
Definition es_UY_TransactionDesc_1 : list message := es_TransactionDesc_1.
Definition es_UY_TransactionDesc_2 : list message := es_TransactionDesc_2.
Definition es_UY_TransactionDescDialog : list message := es_TransactionDescDialog.
Definition es_UY_TransactionTableModel_1 : list message := es_TransactionTableModel_1.
Definition es_UY_TransactionTableModel_2 : list message := es_TransactionTableModel_2.
Definition es_UY_TransactionView_1 : list message := es_TransactionView_1.
Definition es_UY_TransactionView_2 : list message := es_TransactionView_2.
Definition es_UY_TxViewDelegate : list message := es_TxViewDelegate.
Definition es_UY_UnitDisplayStatusBarControl : list message := es_UnitDisplayStatusBarControl.
Definition es_UY_WalletFrame : list message := es_WalletFrame.
Definition es_UY_WalletModel : list message := es_WalletModel.
Definition es_UY_WalletView : list message := es_WalletView.
Definition es_UY_bitcoin_core_1 : list message := es_bitcoin_core_1.
Definition es_UY_bitcoin_core_2 : list message := es_bitcoin_core_2.
Definition es_UY_bitcoin_core_3 : list message := es_bitcoin_core_3.
Definition es_UY_bitcoin_core_4 : list message := es_bitcoin_core_4.
Definition es_UY_bitcoin_core_5 : list message := es_bitcoin_core_5.
Definition es_UY_bitcoin_core_6 : list message := es_bitcoin_core_6.
Definition es_UY_bitcoin_core_7 : list message := es_bitcoin_core_7.
Definition es_UY_bitcoin_core_8 : list message := es_bitcoin_core_8.
Definition es_UY_bitcoin_core_9 : list message := es_bitcoin_core_9.

(** The whole document. *)
Definition bitcoin_es_UY : catalogue :=
  [Context "AddressBookPage" (es_UY_AddressBookPage_1 ++ es_UY_AddressBookPage_2);
   Context "AddressTableModel" (es_UY_AddressTableModel);
   Context "AskPassphraseDialog" (es_UY_AskPassphraseDialog_1 ++ es_UY_AskPassphraseDialog_2);
   Context "BanTableModel" (es_UY_BanTableModel);
   Context "BitcoinGUI" (es_UY_BitcoinGUI_1 ++ es_UY_BitcoinGUI_2 ++ es_UY_BitcoinGUI_3 ++ es_UY_BitcoinGUI_4);
   Context "CoinControlDialog" (es_UY_CoinControlDialog_1 ++ es_UY_CoinControlDialog_2);
   Context "EditAddressDialog" (es_UY_EditAddressDialog);
   Context "FreespaceChecker" (es_UY_FreespaceChecker);
   Context "HelpMessageDialog" (es_UY_HelpMessageDialog);
   Context "Intro" (es_UY_Intro);
   Context "MnemonicDialog" (es_UY_MnemonicDialog_1 ++ es_UY_MnemonicDialog_2);
   Context "ModalOverlay" (es_UY_ModalOverlay);
   Context "OpenURIDialog" (es_UY_OpenURIDialog);
   Context "OptionsDialog" (es_UY_OptionsDialog_1 ++ es_UY_OptionsDialog_2 ++ es_UY_OptionsDialog_3);
   Context "OverviewPage" (es_UY_OverviewPage);
   Context "PaymentServer" (es_UY_PaymentServer);
   Context "PeerTableModel" (es_UY_PeerTableModel);
   Context "QObject" (es_UY_QObject);
   Context "QObject::QObject" (es_UY_QObject__QObject);
   Context "QRImageWidget" (es_UY_QRImageWidget);
   Context "RPCConsole" (es_UY_RPCConsole_1 ++ es_UY_RPCConsole_2 ++ es_UY_RPCConsole_3);
   Context "ReceiveCoinsDialog" (es_UY_ReceiveCoinsDialog);
   Context "ReceiveRequestDialog" (es_UY_ReceiveRequestDialog);
   Context "RecentRequestsTableModel" (es_UY_RecentRequestsTableModel);
   Context "SendCoinsDialog" (es_UY_SendCoinsDialog_1 ++ es_UY_SendCoinsDialog_2 ++ es_UY_SendCoinsDialog_3);
   Context "SendCoinsEntry" (es_UY_SendCoinsEntry_1 ++ es_UY_SendCoinsEntry_2);
   Context "SendConfirmationDialog" (es_UY_SendConfirmationDialog);
   Context "ShutdownWindow" (es_UY_ShutdownWindow);
   Context "SignVerifyMessageDialog" (es_UY_SignVerifyMessageDialog_1 ++ es_UY_SignVerifyMessageDialog_2);
   Context "SplashScreen" (es_UY_SplashScreen);
   Context "StakingDialog" (es_UY_StakingDialog_1 ++ es_UY_StakingDialog_2);
   Context "TrafficGraphWidget" (es_UY_TrafficGraphWidget);
   Context "TransactionDesc" (es_UY_TransactionDesc_1 ++ es_UY_TransactionDesc_2);
   Context "TransactionDescDialog" (es_UY_TransactionDescDialog);
   Context "TransactionTableModel" (es_UY_TransactionTableModel_1 ++ es_UY_TransactionTableModel_2);
   Context "TransactionView" (es_UY_TransactionView_1 ++ es_UY_TransactionView_2);
   Context "TxViewDelegate" (es_UY_TxViewDelegate);
   Context "UnitDisplayStatusBarControl" (es_UY_UnitDisplayStatusBarControl);
   Context "WalletFrame" (es_UY_WalletFrame);
   Context "WalletModel" (es_UY_WalletModel);
   Context "WalletView" (es_UY_WalletView);
   Context "bitcoin-core" (es_UY_bitcoin_core_1 ++ es_UY_bitcoin_core_2 ++ es_UY_bitcoin_core_3 ++ es_UY_bitcoin_core_4 ++ es_UY_bitcoin_core_5 ++ es_UY_bitcoin_core_6 ++ es_UY_bitcoin_core_7 ++ es_UY_bitcoin_core_8 ++ es_UY_bitcoin_core_9)].

(** ** es_VE *)

Definition es_VE_AddressBookPage_1 : list message := es_AddressBookPage_1.
Definition es_VE_AddressBookPage_2 : list message := es_AddressBookPage_2.
Definition es_VE_AddressTableModel : list message := es_AddressTableModel.
Definition es_VE_AskPassphraseDialog_1 : list message := es_AskPassphraseDialog_1.
Definition es_VE_AskPassphraseDialog_2 : list message := es_AskPassphraseDialog_2.
Definition es_VE_BanTableModel : list message := es_BanTableModel.
Definition es_VE_BitcoinGUI_1 : list message := es_BitcoinGUI_1.
Definition es_VE_BitcoinGUI_2 : list message := es_BitcoinGUI_2.
Definition es_VE_BitcoinGUI_3 : list message := es_BitcoinGUI_3.
Definition es_VE_BitcoinGUI_4 : list message := es_BitcoinGUI_4.
Definition es_VE_CoinControlDialog_1 : list message := es_CoinControlDialog_1.
Definition es_VE_CoinControlDialog_2 : list message := es_CoinControlDialog_2.
Definition es_VE_EditAddressDialog : list message := es_EditAddressDialog.
Definition es_VE_FreespaceChecker : list message := es_FreespaceChecker.
Definition es_VE_HelpMessageDialog : list message := es_HelpMessageDialog.
Definition es_VE_Intro : list message := es_Intro.
Definition es_VE_MnemonicDialog_1 : list message := es_MnemonicDialog_1.
Definition es_VE_MnemonicDialog_2 : list message := es_MnemonicDialog_2.
Definition es_VE_ModalOverlay : list message := es_ModalOverlay.
Definition es_VE_OpenURIDialog : list message := es_OpenURIDialog.
Definition es_VE_OptionsDialog_1 : list message := es_OptionsDialog_1.
Definition es_VE_OptionsDialog_2 : list message := es_OptionsDialog_2.
Definition es_VE_OptionsDialog_3 : list message := es_OptionsDialog_3.
Definition es_VE_OverviewPage : list message := es_OverviewPage.
Definition es_VE_PaymentServer : list message := es_PaymentServer.
Definition es_VE_PeerTableModel : list message := es_PeerTableModel.
Definition es_VE_QObject : list message := es_QObject.
Definition es_VE_QObject__QObject : list message := es_QObject__QObject.
Definition es_VE_QRImageWidget : list message := es_QRImageWidget.
Definition es_VE_RPCConsole_1 : list message := es_RPCConsole_1.
Definition es_VE_RPCConsole_2 : list message := es_RPCConsole_2.
Definition es_VE_RPCConsole_3 : list message := es_RPCConsole_3.
Definition es_VE_ReceiveCoinsDialog : list message := es_ReceiveCoinsDialog.
Definition es_VE_ReceiveRequestDialog : list message := es_ReceiveRequestDialog.
Definition es_VE_RecentRequestsTableModel : list message := es_RecentRequestsTableModel.
Definition es_VE_SendCoinsDialog_1 : list message := es_SendCoinsDialog_1.
Definition es_VE_SendCoinsDialog_2 : list message := es_SendCoinsDialog_2.
Definition es_VE_SendCoinsDialog_3 : list message := es_SendCoinsDialog_3.
Definition es_VE_SendCoinsEntry_1 : list message := es_SendCoinsEntry_1.
Definition es_VE_SendCoinsEntry_2 : list message := es_SendCoinsEntry_2.
Definition es_VE_SendConfirmationDialog : list message := es_SendConfirmationDialog.
Definition es_VE_ShutdownWindow : list message := es_ShutdownWindow.
Definition es_VE_SignVerifyMessageDialog_1 : list message := es_SignVerifyMessageDialog_1.
Definition es_VE_SignVerifyMessageDialog_2 : list message := es_SignVerifyMessageDialog_2.
Definition es_VE_SplashScreen : list message := es_SplashScreen.
Definition es_VE_StakingDialog_1 : list message := es_StakingDialog_1.
Definition es_VE_StakingDialog_2 : list message := es_StakingDialog_2.
Definition es_VE_TrafficGraphWidget : list message := es_TrafficGraphWidget.
Definition es_VE_TransactionDesc_1 : list message := es_TransactionDesc_1.
Definition es_VE_TransactionDesc_2 : list message := es_TransactionDesc_2.
Definition es_VE_TransactionDescDialog : list message := es_TransactionDescDialog.
Definition es_VE_TransactionTableModel_1 : list message := es_TransactionTableModel_1.
Definition es_VE_TransactionTableModel_2 : list message := es_TransactionTableModel_2.
Definition es_VE_TransactionView_1 : list message := es_TransactionView_1.
Definition es_VE_TransactionView_2 : list message := es_TransactionView_2.
Definition es_VE_TxViewDelegate : list message := es_TxViewDelegate.
Definition es_VE_UnitDisplayStatusBarControl : list message := es_UnitDisplayStatusBarControl.
Definition es_VE_WalletFrame : list message := es_WalletFrame.
Definition es_VE_WalletModel : list message := es_WalletModel.
Definition es_VE_WalletView : list message := es_WalletView.
Definition es_VE_bitcoin_core_1 : list message := es_bitcoin_core_1.
Definition es_VE_bitcoin_core_2 : list message := es_bitcoin_core_2.
Definition es_VE_bitcoin_core_3 : list message := es_bitcoin_core_3.
Definition es_VE_bitcoin_core_4 : list message := es_bitcoin_core_4.
Definition es_VE_bitcoin_core_5 : list message := es_bitcoin_core_5.
Definition es_VE_bitcoin_core_6 : list message := es_bitcoin_core_6.
Definition es_VE_bitcoin_core_7 : list message := es_bitcoin_core_7.
Definition es_VE_bitcoin_core_8 : list message := es_bitcoin_core_8.
Definition es_VE_bitcoin_core_9 : list message := es_bitcoin_core_9.

(** The whole document. *)
Definition bitcoin_es_VE : catalogue :=
  [Context "AddressBookPage" (es_VE_AddressBookPage_1 ++ es_VE_AddressBookPage_2);
   Context "AddressTableModel" (es_VE_AddressTableModel);
   Context "AskPassphraseDialog" (es_VE_AskPassphraseDialog_1 ++ es_VE_AskPassphraseDialog_2);
   Context "BanTableModel" (es_VE_BanTableModel);
   Context "BitcoinGUI" (es_VE_BitcoinGUI_1 ++ es_VE_BitcoinGUI_2 ++ es_VE_BitcoinGUI_3 ++ es_VE_BitcoinGUI_4);
   Context "CoinControlDialog" (es_VE_CoinControlDialog_1 ++ es_VE_CoinControlDialog_2);
   Context "EditAddressDialog" (es_VE_EditAddressDialog);
   Context "FreespaceChecker" (es_VE_FreespaceChecker);
   Context "HelpMessageDialog" (es_VE_HelpMessageDialog);
   Context "Intro" (es_VE_Intro);
   Context "MnemonicDialog" (es_VE_MnemonicDialog_1 ++ es_VE_MnemonicDialog_2);
   Context "ModalOverlay" (es_VE_ModalOverlay);
   Context "OpenURIDialog" (es_VE_OpenURIDialog);
   Context "OptionsDialog" (es_VE_OptionsDialog_1 ++ es_VE_OptionsDialog_2 ++ es_VE_OptionsDialog_3);
   Context "OverviewPage" (es_VE_OverviewPage);
   Context "PaymentServer" (es_VE_PaymentServer);
   Context "PeerTableModel" (es_VE_PeerTableModel);
   Context "QObject" (es_VE_QObject);
   Context "QObject::QObject" (es_VE_QObject__QObject);
   Context "QRImageWidget" (es_VE_QRImageWidget);
   Context "RPCConsole" (es_VE_RPCConsole_1 ++ es_VE_RPCConsole_2 ++ es_VE_RPCConsole_3);
   Context "ReceiveCoinsDialog" (es_VE_ReceiveCoinsDialog);
   Context "ReceiveRequestDialog" (es_VE_ReceiveRequestDialog);
   Context "RecentRequestsTableModel" (es_VE_RecentRequestsTableModel);
   Context "SendCoinsDialog" (es_VE_SendCoinsDialog_1 ++ es_VE_SendCoinsDialog_2 ++ es_VE_SendCoinsDialog_3);
   Context "SendCoinsEntry" (es_VE_SendCoinsEntry_1 ++ es_VE_SendCoinsEntry_2);
   Context "SendConfirmationDialog" (es_VE_SendConfirmationDialog);
   Context "ShutdownWindow" (es_VE_ShutdownWindow);
   Context "SignVerifyMessageDialog" (es_VE_SignVerifyMessageDialog_1 ++ es_VE_SignVerifyMessageDialog_2);
   Context "SplashScreen" (es_VE_SplashScreen);
   Context "StakingDialog" (es_VE_StakingDialog_1 ++ es_VE_StakingDialog_2);
   Context "TrafficGraphWidget" (es_VE_TrafficGraphWidget);
   Context "TransactionDesc" (es_VE_TransactionDesc_1 ++ es_VE_TransactionDesc_2);
   Context "TransactionDescDialog" (es_VE_TransactionDescDialog);
   Context "TransactionTableModel" (es_VE_TransactionTableModel_1 ++ es_VE_TransactionTableModel_2);
   Context "TransactionView" (es_VE_TransactionView_1 ++ es_VE_TransactionView_2);
   Context "TxViewDelegate" (es_VE_TxViewDelegate);
   Context "UnitDisplayStatusBarControl" (es_VE_UnitDisplayStatusBarControl);
   Context "WalletFrame" (es_VE_WalletFrame);
   Context "WalletModel" (es_VE_WalletModel);
   Context "WalletView" (es_VE_WalletView);
   Context "bitcoin-core" (es_VE_bitcoin_core_1 ++ es_VE_bitcoin_core_2 ++ es_VE_bitcoin_core_3 ++ es_VE_bitcoin_core_4 ++ es_VE_bitcoin_core_5 ++ es_VE_bitcoin_core_6 ++ es_VE_bitcoin_core_7 ++ es_VE_bitcoin_core_8 ++ es_VE_bitcoin_core_9)].

(** ** fr_CA *)

Definition fr_CA_AddressBookPage_1 : list message := fr_AddressBookPage_1.
Definition fr_CA_AddressBookPage_2 : list message := fr_AddressBookPage_2.
Definition fr_CA_AddressTableModel : list message := fr_AddressTableModel.
Definition fr_CA_AskPassphraseDialog_1 : list message := fr_AskPassphraseDialog_1.
Definition fr_CA_AskPassphraseDialog_2 : list message := fr_AskPassphraseDialog_2.
Definition fr_CA_BanTableModel : list message := fr_BanTableModel.
Definition fr_CA_BitcoinGUI_1 : list message := fr_BitcoinGUI_1.
Definition fr_CA_BitcoinGUI_2 : list message := fr_BitcoinGUI_2.
Definition fr_CA_BitcoinGUI_3 : list message := fr_BitcoinGUI_3.
Definition fr_CA_BitcoinGUI_4 : list message := fr_BitcoinGUI_4.
Definition fr_CA_CoinControlDialog_1 : list message := fr_CoinControlDialog_1.
Definition fr_CA_CoinControlDialog_2 : list message := fr_CoinControlDialog_2.
Definition fr_CA_EditAddressDialog : list message := fr_EditAddressDialog.
Definition fr_CA_FreespaceChecker : list message := fr_FreespaceChecker.
Definition fr_CA_HelpMessageDialog : list message := fr_HelpMessageDialog.
Definition fr_CA_Intro : list message := fr_Intro.
Definition fr_CA_MnemonicDialog_1 : list message := fr_MnemonicDialog_1.
Definition fr_CA_MnemonicDialog_2 : list message := fr_MnemonicDialog_2.
Definition fr_CA_ModalOverlay : list message := fr_ModalOverlay.
Definition fr_CA_OpenURIDialog : list message := fr_OpenURIDialog.
Definition fr_CA_OptionsDialog_1 : list message := fr_OptionsDialog_1.
Definition fr_CA_OptionsDialog_2 : list message := fr_OptionsDialog_2.
Definition fr_CA_OptionsDialog_3 : list message := fr_OptionsDialog_3.
Definition fr_CA_OverviewPage : list message := fr_OverviewPage.
Definition fr_CA_PaymentServer : list message := fr_PaymentServer.
Definition fr_CA_PeerTableModel : list message := fr_PeerTableModel.
Definition fr_CA_QObject : list message := fr_QObject.
Definition fr_CA_QObject__QObject : list message := fr_QObject__QObject.
Definition fr_CA_QRImageWidget : list message := fr_QRImageWidget.
Definition fr_CA_RPCConsole_1 : list message := fr_RPCConsole_1.
Definition fr_CA_RPCConsole_2 : list message := fr_RPCConsole_2.
Definition fr_CA_RPCConsole_3 : list message := fr_RPCConsole_3.
Definition fr_CA_ReceiveCoinsDialog : list message := fr_ReceiveCoinsDialog.
Definition fr_CA_ReceiveRequestDialog : list message := fr_ReceiveRequestDialog.
Definition fr_CA_RecentRequestsTableModel : list message := fr_RecentRequestsTableModel.
Definition fr_CA_SendCoinsDialog_1 : list message := fr_SendCoinsDialog_1.
Definition fr_CA_SendCoinsDialog_2 : list message := fr_SendCoinsDialog_2.
Definition fr_CA_SendCoinsDialog_3 : list message := fr_SendCoinsDialog_3.
Definition fr_CA_SendCoinsEntry_1 : list message := fr_SendCoinsEntry_1.
Definition fr_CA_SendCoinsEntry_2 : list message := fr_SendCoinsEntry_2.
Definition fr_CA_SendConfirmationDialog : list message := fr_SendConfirmationDialog.
Definition fr_CA_ShutdownWindow : list message := fr_ShutdownWindow.
Definition fr_CA_SignVerifyMessageDialog_1 : list message := fr_SignVerifyMessageDialog_1.
Definition fr_CA_SignVerifyMessageDialog_2 : list message := fr_SignVerifyMessageDialog_2.
Definition fr_CA_SplashScreen : list message := fr_SplashScreen.
Definition fr_CA_StakingDialog_1 : list message := fr_StakingDialog_1.
Definition fr_CA_StakingDialog_2 : list message := fr_StakingDialog_2.
Definition fr_CA_TrafficGraphWidget : list message := fr_TrafficGraphWidget.
Definition fr_CA_TransactionDesc_1 : list message := fr_TransactionDesc_1.
Definition fr_CA_TransactionDesc_2 : list message := fr_TransactionDesc_2.
Definition fr_CA_TransactionDescDialog : list message := fr_TransactionDescDialog.
Definition fr_CA_TransactionTableModel_1 : list message := fr_TransactionTableModel_1.
Definition fr_CA_TransactionTableModel_2 : list message := fr_TransactionTableModel_2.
Definition fr_CA_TransactionView_1 : list message := fr_TransactionView_1.
Definition fr_CA_TransactionView_2 : list message := fr_TransactionView_2.
Definition fr_CA_TxViewDelegate : list message := fr_TxViewDelegate.
Definition fr_CA_UnitDisplayStatusBarControl : list message := fr_UnitDisplayStatusBarControl.
Definition fr_CA_WalletFrame : list message := fr_WalletFrame.
Definition fr_CA_WalletModel : list message := fr_WalletModel.
Definition fr_CA_WalletView : list message := fr_WalletView.
Definition fr_CA_bitcoin_core_1 : list message := fr_bitcoin_core_1.
Definition fr_CA_bitcoin_core_2 : list message := fr_bitcoin_core_2.
Definition fr_CA_bitcoin_core_3 : list message := fr_bitcoin_core_3.
Definition fr_CA_bitcoin_core_4 : list message := fr_bitcoin_core_4.
Definition fr_CA_bitcoin_core_5 : list message := fr_bitcoin_core_5.
Definition fr_CA_bitcoin_core_6 : list message := fr_bitcoin_core_6.
Definition fr_CA_bitcoin_core_7 : list message := fr_bitcoin_core_7.
Definition fr_CA_bitcoin_core_8 : list message := fr_bitcoin_core_8.
Definition fr_CA_bitcoin_core_9 : list message := fr_bitcoin_core_9.

(** The whole document. *)
Definition bitcoin_fr_CA : catalogue :=
  [Context "AddressBookPage" (fr_CA_AddressBookPage_1 ++ fr_CA_AddressBookPage_2);
   Context "AddressTableModel" (fr_CA_AddressTableModel);
   Context "AskPassphraseDialog" (fr_CA_AskPassphraseDialog_1 ++ fr_CA_AskPassphraseDialog_2);
   Context "BanTableModel" (fr_CA_BanTableModel);
   Context "BitcoinGUI" (fr_CA_BitcoinGUI_1 ++ fr_CA_BitcoinGUI_2 ++ fr_CA_BitcoinGUI_3 ++ fr_CA_BitcoinGUI_4);
   Context "CoinControlDialog" (fr_CA_CoinControlDialog_1 ++ fr_CA_CoinControlDialog_2);
   Context "EditAddressDialog" (fr_CA_EditAddressDialog);
   Context "FreespaceChecker" (fr_CA_FreespaceChecker);
   Context "HelpMessageDialog" (fr_CA_HelpMessageDialog);
   Context "Intro" (fr_CA_Intro);
   Context "MnemonicDialog" (fr_CA_MnemonicDialog_1 ++ fr_CA_MnemonicDialog_2);
   Context "ModalOverlay" (fr_CA_ModalOverlay);
   Context "OpenURIDialog" (fr_CA_OpenURIDialog);
   Context "OptionsDialog" (fr_CA_OptionsDialog_1 ++ fr_CA_OptionsDialog_2 ++ fr_CA_OptionsDialog_3);
   Context "OverviewPage" (fr_CA_OverviewPage);
   Context "PaymentServer" (fr_CA_PaymentServer);
   Context "PeerTableModel" (fr_CA_PeerTableModel);
   Context "QObject" (fr_CA_QObject);
   Context "QObject::QObject" (fr_CA_QObject__QObject);
   Context "QRImageWidget" (fr_CA_QRImageWidget);
   Context "RPCConsole" (fr_CA_RPCConsole_1 ++ fr_CA_RPCConsole_2 ++ fr_CA_RPCConsole_3);
   Context "ReceiveCoinsDialog" (fr_CA_ReceiveCoinsDialog);
   Context "ReceiveRequestDialog" (fr_CA_ReceiveRequestDialog);
   Context "RecentRequestsTableModel" (fr_CA_RecentRequestsTableModel);
   Context "SendCoinsDialog" (fr_CA_SendCoinsDialog_1 ++ fr_CA_SendCoinsDialog_2 ++ fr_CA_SendCoinsDialog_3);
   Context "SendCoinsEntry" (fr_CA_SendCoinsEntry_1 ++ fr_CA_SendCoinsEntry_2);
   Context "SendConfirmationDialog" (fr_CA_SendConfirmationDialog);
   Context "ShutdownWindow" (fr_CA_ShutdownWindow);
   Context "SignVerifyMessageDialog" (fr_CA_SignVerifyMessageDialog_1 ++ fr_CA_SignVerifyMessageDialog_2);
   Context "SplashScreen" (fr_CA_SplashScreen);
   Context "StakingDialog" (fr_CA_StakingDialog_1 ++ fr_CA_StakingDialog_2);
   Context "TrafficGraphWidget" (fr_CA_TrafficGraphWidget);
   Context "TransactionDesc" (fr_CA_TransactionDesc_1 ++ fr_CA_TransactionDesc_2);
   Context "TransactionDescDialog" (fr_CA_TransactionDescDialog);
   Context "TransactionTableModel" (fr_CA_TransactionTableModel_1 ++ fr_CA_TransactionTableModel_2);
   Context "TransactionView" (fr_CA_TransactionView_1 ++ fr_CA_TransactionView_2);
   Context "TxViewDelegate" (fr_CA_TxViewDelegate);
   Context "UnitDisplayStatusBarControl" (fr_CA_UnitDisplayStatusBarControl);
   Context "WalletFrame" (fr_CA_WalletFrame);
   Context "WalletModel" (fr_CA_WalletModel);
   Context "WalletView" (fr_CA_WalletView);
   Context "bitcoin-core" (fr_CA_bitcoin_core_1 ++ fr_CA_bitcoin_core_2 ++ fr_CA_bitcoin_core_3 ++ fr_CA_bitcoin_core_4 ++ fr_CA_bitcoin_core_5 ++ fr_CA_bitcoin_core_6 ++ fr_CA_bitcoin_core_7 ++ fr_CA_bitcoin_core_8 ++ fr_CA_bitcoin_core_9)].

(** ** pt_PT *)

Definition pt_PT_AddressBookPage_1 : list message := pt_AddressBookPage_1.
Definition pt_PT_AddressBookPage_2 : list message := pt_AddressBookPage_2.
Definition pt_PT_AddressTableModel : list message := pt_AddressTableModel.
Definition pt_PT_AskPassphraseDialog_1 : list message := pt_AskPassphraseDialog_1.
Definition pt_PT_AskPassphraseDialog_2 : list message := pt_AskPassphraseDialog_2.
Definition pt_PT_BanTableModel : list message := pt_BanTableModel.
Definition pt_PT_BitcoinGUI_1 : list message := pt_BitcoinGUI_1.
Definition pt_PT_BitcoinGUI_2 : list message := pt_BitcoinGUI_2.
Definition pt_PT_BitcoinGUI_3 : list message := pt_BitcoinGUI_3.
Definition pt_PT_BitcoinGUI_4 : list message := pt_BitcoinGUI_4.
Definition pt_PT_CoinControlDialog_1 : list message := pt_CoinControlDialog_1.
Definition pt_PT_CoinControlDialog_2 : list message := pt_CoinControlDialog_2.
Definition pt_PT_EditAddressDialog : list message := pt_EditAddressDialog.
Definition pt_PT_FreespaceChecker : list message := pt_FreespaceChecker.
Definition pt_PT_HelpMessageDialog : list message := pt_HelpMessageDialog.
Definition pt_PT_Intro : list message := pt_Intro.
Definition pt_PT_MnemonicDialog_1 : list message := pt_MnemonicDialog_1.
Definition pt_PT_MnemonicDialog_2 : list message := pt_MnemonicDialog_2.
Definition pt_PT_ModalOverlay : list message := pt_ModalOverlay.
Definition pt_PT_OpenURIDialog : list message := pt_OpenURIDialog.
Definition pt_PT_OptionsDialog_1 : list message := pt_OptionsDialog_1.
Definition pt_PT_OptionsDialog_2 : list message := pt_OptionsDialog_2.
Definition pt_PT_OptionsDialog_3 : list message := pt_OptionsDialog_3.
Definition pt_PT_OverviewPage : list message := pt_OverviewPage.
Definition pt_PT_PaymentServer : list message := pt_PaymentServer.
Definition pt_PT_PeerTableModel : list message := pt_PeerTableModel.
Definition pt_PT_QObject : list message := pt_QObject.
Definition pt_PT_QObject__QObject : list message := pt_QObject__QObject.
Definition pt_PT_QRImageWidget : list message := pt_QRImageWidget.
Definition pt_PT_RPCConsole_1 : list message := pt_RPCConsole_1.
Definition pt_PT_RPCConsole_2 : list message := pt_RPCConsole_2.
Definition pt_PT_RPCConsole_3 : list message := pt_RPCConsole_3.
Definition pt_PT_ReceiveCoinsDialog : list message := pt_ReceiveCoinsDialog.
Definition pt_PT_ReceiveRequestDialog : list message := pt_ReceiveRequestDialog.
Definition pt_PT_RecentRequestsTableModel : list message := pt_RecentRequestsTableModel.
Definition pt_PT_SendCoinsDialog_1 : list message := pt_SendCoinsDialog_1.
Definition pt_PT_SendCoinsDialog_2 : list message := pt_SendCoinsDialog_2.
Definition pt_PT_SendCoinsDialog_3 : list message := pt_SendCoinsDialog_3.
Definition pt_PT_SendCoinsEntry_1 : list message := pt_SendCoinsEntry_1.
Definition pt_PT_SendCoinsEntry_2 : list message := pt_SendCoinsEntry_2.
Definition pt_PT_SendConfirmationDialog : list message := pt_SendConfirmationDialog.
Definition pt_PT_ShutdownWindow : list message := pt_ShutdownWindow.
Definition pt_PT_SignVerifyMessageDialog_1 : list message := pt_SignVerifyMessageDialog_1.
Definition pt_PT_SignVerifyMessageDialog_2 : list message := pt_SignVerifyMessageDialog_2.
Definition pt_PT_SplashScreen : list message := pt_SplashScreen.
Definition pt_PT_StakingDialog_1 : list message := pt_StakingDialog_1.
Definition pt_PT_StakingDialog_2 : list message := pt_StakingDialog_2.
Definition pt_PT_TrafficGraphWidget : list message := pt_TrafficGraphWidget.
Definition pt_PT_TransactionDesc_1 : list message := pt_TransactionDesc_1.
Definition pt_PT_TransactionDesc_2 : list message := pt_TransactionDesc_2.
Definition pt_PT_TransactionDescDialog : list message := pt_TransactionDescDialog.
Definition pt_PT_TransactionTableModel_1 : list message := pt_TransactionTableModel_1.
Definition pt_PT_TransactionTableModel_2 : list message := pt_TransactionTableModel_2.
Definition pt_PT_TransactionView_1 : list message := pt_TransactionView_1.
Definition pt_PT_TransactionView_2 : list message := pt_TransactionView_2.
Definition pt_PT_TxViewDelegate : list message := pt_TxViewDelegate.
Definition pt_PT_UnitDisplayStatusBarControl : list message := pt_UnitDisplayStatusBarControl.
Definition pt_PT_WalletFrame : list message := pt_WalletFrame.
Definition pt_PT_WalletModel : list message := pt_WalletModel.
Definition pt_PT_WalletView : list message := pt_WalletView.
Definition pt_PT_bitcoin_core_1 : list message := pt_bitcoin_core_1.
Definition pt_PT_bitcoin_core_2 : list message := pt_bitcoin_core_2.
Definition pt_PT_bitcoin_core_3 : list message := pt_bitcoin_core_3.
Definition pt_PT_bitcoin_core_4 : list message := pt_bitcoin_core_4.
Definition pt_PT_bitcoin_core_5 : list message := pt_bitcoin_core_5.
Definition pt_PT_bitcoin_core_6 : list message := pt_bitcoin_core_6.
Definition pt_PT_bitcoin_core_7 : list message := pt_bitcoin_core_7.
Definition pt_PT_bitcoin_core_8 : list message := pt_bitcoin_core_8.
Definition pt_PT_bitcoin_core_9 : list message := pt_bitcoin_core_9.

(** The whole document. *)
Definition bitcoin_pt_PT : catalogue :=
  [Context "AddressBookPage" (pt_PT_AddressBookPage_1 ++ pt_PT_AddressBookPage_2);
   Context "AddressTableModel" (pt_PT_AddressTableModel);
   Context "AskPassphraseDialog" (pt_PT_AskPassphraseDialog_1 ++ pt_PT_AskPassphraseDialog_2);
   Context "BanTableModel" (pt_PT_BanTableModel);
   Context "BitcoinGUI" (pt_PT_BitcoinGUI_1 ++ pt_PT_BitcoinGUI_2 ++ pt_PT_BitcoinGUI_3 ++ pt_PT_BitcoinGUI_4);
   Context "CoinControlDialog" (pt_PT_CoinControlDialog_1 ++ pt_PT_CoinControlDialog_2);
   Context "EditAddressDialog" (pt_PT_EditAddressDialog);
   Context "FreespaceChecker" (pt_PT_FreespaceChecker);
   Context "HelpMessageDialog" (pt_PT_HelpMessageDialog);
   Context "Intro" (pt_PT_Intro);
   Context "MnemonicDialog" (pt_PT_MnemonicDialog_1 ++ pt_PT_MnemonicDialog_2);
   Context "ModalOverlay" (pt_PT_ModalOverlay);
   Context "OpenURIDialog" (pt_PT_OpenURIDialog);
   Context "OptionsDialog" (pt_PT_OptionsDialog_1 ++ pt_PT_OptionsDialog_2 ++ pt_PT_OptionsDialog_3);
   Context "OverviewPage" (pt_PT_OverviewPage);
   Context "PaymentServer" (pt_PT_PaymentServer);
   Context "PeerTableModel" (pt_PT_PeerTableModel);
   Context "QObject" (pt_PT_QObject);
   Context "QObject::QObject" (pt_PT_QObject__QObject);
   Context "QRImageWidget" (pt_PT_QRImageWidget);
   Context "RPCConsole" (pt_PT_RPCConsole_1 ++ pt_PT_RPCConsole_2 ++ pt_PT_RPCConsole_3);
   Context "ReceiveCoinsDialog" (pt_PT_ReceiveCoinsDialog);
   Context "ReceiveRequestDialog" (pt_PT_ReceiveRequestDialog);
   Context "RecentRequestsTableModel" (pt_PT_RecentRequestsTableModel);
   Context "SendCoinsDialog" (pt_PT_SendCoinsDialog_1 ++ pt_PT_SendCoinsDialog_2 ++ pt_PT_SendCoinsDialog_3);
   Context "SendCoinsEntry" (pt_PT_SendCoinsEntry_1 ++ pt_PT_SendCoinsEntry_2);
   Context "SendConfirmationDialog" (pt_PT_SendConfirmationDialog);
   Context "ShutdownWindow" (pt_PT_ShutdownWindow);
   Context "SignVerifyMessageDialog" (pt_PT_SignVerifyMessageDialog_1 ++ pt_PT_SignVerifyMessageDialog_2);
   Context "SplashScreen" (pt_PT_SplashScreen);
   Context "StakingDialog" (pt_PT_StakingDialog_1 ++ pt_PT_StakingDialog_2);
   Context "TrafficGraphWidget" (pt_PT_TrafficGraphWidget);
   Context "TransactionDesc" (pt_PT_TransactionDesc_1 ++ pt_PT_TransactionDesc_2);
   Context "TransactionDescDialog" (pt_PT_TransactionDescDialog);
   Context "TransactionTableModel" (pt_PT_TransactionTableModel_1 ++ pt_PT_TransactionTableModel_2);
   Context "TransactionView" (pt_PT_TransactionView_1 ++ pt_PT_TransactionView_2);
   Context "TxViewDelegate" (pt_PT_TxViewDelegate);
   Context "UnitDisplayStatusBarControl" (pt_PT_UnitDisplayStatusBarControl);
   Context "WalletFrame" (pt_PT_WalletFrame);
   Context "WalletModel" (pt_PT_WalletModel);
   Context "WalletView" (pt_PT_WalletView);
   Context "bitcoin-core" (pt_PT_bitcoin_core_1 ++ pt_PT_bitcoin_core_2 ++ pt_PT_bitcoin_core_3 ++ pt_PT_bitcoin_core_4 ++ pt_PT_bitcoin_core_5 ++ pt_PT_bitcoin_core_6 ++ pt_PT_bitcoin_core_7 ++ pt_PT_bitcoin_core_8 ++ pt_PT_bitcoin_core_9)].
