(* ===== verification/Catalogues.v ===== *)
(** The catalogues of all languages together: their common shape, what the translation
    check makes of each, and what becomes of the messages and formats of the program. *)
From stdpp Require Import list.
From S2P Require Import Prelude Locale Tinyformat.
From S2P Require Import CatalogueDe CatalogueEl CatalogueEs CatalogueFa CatalogueFr CatalogueHu.
From S2P Require Import CatalogueIt CatalogueJa CatalogueKo CatalogueNb CatalogueNl CataloguePl.
From S2P Require Import CataloguePt CatalogueRo CatalogueRu CatalogueVi Regional.
Open Scope txt_scope.
Open Scope list_scope.

(** A language: its code, the number of its numerus forms, and its catalogue. *)
Record language := Language { code : txt; forms : nat; document : catalogue }.

Definition languages : list language :=
  [Language "de_DE" 2 bitcoin_de_DE; Language "el_GR" 2 bitcoin_el_GR;
   Language "es_419" 2 bitcoin_es_419; Language "es_AR" 2 bitcoin_es_AR;
   Language "es_CL" 2 bitcoin_es_CL; Language "es_CO" 2 bitcoin_es_CO;
   Language "es_DO" 2 bitcoin_es_DO; Language "es_ES" 2 bitcoin_es_ES;
   Language "es_MX" 2 bitcoin_es_MX; Language "es_UY" 2 bitcoin_es_UY;
   Language "es_VE" 2 bitcoin_es_VE; Language "fa_IR" 2 bitcoin_fa_IR;
   Language "fr_CA" 2 bitcoin_fr_CA; Language "fr_FR" 2 bitcoin_fr_FR;
   Language "hu_HU" 2 bitcoin_hu_HU; Language "it_IT" 2 bitcoin_it_IT;
   Language "ja_JP" 1 bitcoin_ja_JP; Language "ko_KR" 1 bitcoin_ko_KR;
   Language "nb_NO" 2 bitcoin_nb_NO; Language "nl" 2 bitcoin_nl;
   Language "pl_PL" 4 bitcoin_pl_PL; Language "pt" 2 bitcoin_pt;
   Language "pt_PT" 2 bitcoin_pt_PT; Language "ro_RO" 3 bitcoin_ro_RO;
   Language "ru_RU" 4 bitcoin_ru_RU; Language "vi_VN" 1 bitcoin_vi_VN].


(** A message has one translation, or one for each numerus form. *)
Definition well_formed (n : nat) (cs : catalogue) : Prop :=
  Forall (λ c, Forall (λ m, length (translations m) = if numerus m then n else 1%nat) (messages c)) cs.

#[global] Instance well_formed_dec n cs : Decision (well_formed n cs).
Proof. unfold well_formed. apply _. Defined.

(** The number of messages the script keeps; [None] when it raises an exception
    or drops the document. *)
Definition kept_messages (cs : catalogue) : option nat :=
  match postprocess_translations cs with Ok (Some r) => Some (num_messages r) | _ => None end.

(** ** Data of the catalogues *)


(** What the check makes of them.  It raises no exception and keeps every document; of
    the 1130 messages it drops none of the Italian one, at most 18 of the German,
    Spanish, French, Japanese, Korean, Portuguese and Russian ones, and 188 of each of the
    other eight, whose translation is unfinished or has other conversions than its
    source. *)
Example catalogues_kept :
  map (λ l, (code l, kept_messages (document l))) languages =
  [("de_DE", Some 1128); ("el_GR", Some 942); ("es_419", Some 1129); ("es_AR", Some 1129);
   ("es_CL", Some 1129); ("es_CO", Some 1129); ("es_DO", Some 1129); ("es_ES", Some 1129);
   ("es_MX", Some 1129); ("es_UY", Some 1129); ("es_VE", Some 1129); ("fa_IR", Some 942);
   ("fr_CA", Some 1121); ("fr_FR", Some 1121); ("hu_HU", Some 942); ("it_IT", Some 1130);
   ("ja_JP", Some 1112); ("ko_KR", Some 1112); ("nb_NO", Some 942); ("nl", Some 942);
   ("pl_PL", Some 942); ("pt", Some 1117); ("pt_PT", Some 1117); ("ro_RO", Some 942);
   ("ru_RU", Some 1125); ("vi_VN", Some 942)]%nat.
Proof. vm_compute. reflexivity. Qed.








(** ** What the data means for a lookup *)




(** ** Properties *)




